(* ===== verification/_CoqProject ===== *)
-Q . S2P
Prelude.v
EncDecBits.v
Codec.v
CodecSpec.v
Tlv.v
PfcpIes.v
PfcpIesEncoder.v
PfcpIesDecoder.v
PfcpIesSpec.v
PfcpIesOptional.v
PfcpCodecProps.v
PfcpMsgs.v
PfcpMsgsEncoder.v
PfcpMsgsDecoder.v
PfcpGroups.v
PfcpMsgsSpec.v
PfcpMsgsProps.v
GtpIes.v
GtpIesEncoder.v
GtpIesDecoder.v
GtpIesSpec.v
GtpIesOptional.v
GtpIesLocation.v
GtpMsgs.v
GtpMsgsEncoder.v
GtpMsgsDecoder.v
GtpGroups.v
GtpMsgsSpec.v
GtpMsgsProps.v
IpPool.v
Peer.v
Teid.v
CpState.v
Transactions.v
UeContext.v
Proc.v
Rar.v
Upf.v
UpfMsgs.v
PfcpSetIe.v
Text.v
PfcpSession.v
PfcpSessionReq.v
PfcpSessionSpec.v
PfcpSessionEst.v
PfcpSessionProps.v
GxCodec.v
GxCodecSpec.v
GxStructs.v
GxPack.v
GxPackSpec.v
GxDict.v
GxParser.v
GxParserSpec.v
GxParsers.v
GxParsersSpec.v
GxProps.v
GxPolicy.v
GxPolicyProps.v
GxRequest.v
GtpTxBuf.v
GtpSetIe.v
GtpSend.v
GtpReply.v
GtpAccept.v
