(* ===== verification/Prelude.v ===== *)
(** * spgw: a verification development of a 4G serving and packet gateway

    ** The program

    spgw is the control plane of a combined Serving and PDN Gateway of a 4G core
    network.  It talks GTPv2-C to the mobility management (S11), PFCP to the user
    plane nodes (Sx), and Diameter Gx, through a separate process, to the policy
    server.  Its parts, under src/:

    - libpfcp, libgtpv2c: encoders and decoders of the messages, built on a common
      bit copier ([enc_dec_bits.c]): one pair of functions per information element,
      and messages as sequences of elements;
    - cpplib: the tables that find an object by its key, the address pools, the
      configuration, statistics and a web server;
    - cp: UE contexts with their PDN connections and bearers ([ue.c], [pdn.c],
      [bearer.c]), transactions with their retransmission timers
      ([cp_transactions.c], [cp_timer.c]), the supervision of peers ([cp_peer.c]),
      tunnel ids, and the reception and dispatch of messages;
    - cp/procedures: one state machine per procedure of a subscriber (attach,
      detach, service request, release, paging, Re-Auth-Request, ...), queued at the
      UE context and started and ended by [proc.c];
    - cp/gtpv2, cp/pfcp, cp/gx: filling and evaluation of the messages of each
      interface, association and selection of the user plane nodes;
    - cp/gx/gx_app: the process that speaks Diameter; it exchanges structures with the
      control plane, packed member by member, over a local socket.

    A received request becomes a message object, a transaction and a procedure.  The
    procedure is put in the queue of its UE; when it runs, its handler changes UE,
    PDN and bearer contexts, takes addresses and tunnel ids, and sends requests,
    each with a transaction whose timer repeats it.  At the end of the procedure
    its transactions and message are released and the next one is started.

    ** The development

    - [Prelude]: machine integers (unsigned C integers are [Z] with their wrap-around
      written out by [uwrap]), byte buffers with loads and stores that fail outside
      them, bits of bytes and bits of numbers.
    - [EncDecBits]: src/libpfcp/src/enc_dec_bits.c.  [copybits] and all it calls on
      byte buffers, [encode_bits], [decode_bits]; specification in terms of the bits
      of the message ([holds], [slice]).
    - [Codec]: the idiom of the encoders and decoders as two small monads, [enc]
      (a counter of bits and a buffer) and [dec] (a counter and the count of the
      last field), with the rules [emits] and [reads] that relate them to a layout,
      a list of field widths and values; and the loop over the elements of a message
      ([tlv_loop]).
    - [CodecSpec]: [encodes] and [decodes], what the two sides of a codec promise about
      a layout, and the round trip that follows ([codec_round_trips]).
    - [Tlv]: the interfaces of a header ([TlvHeaderOk]) and of an element ([ElemOk]),
      against which the composition of elements into groups and messages is proved for
      both protocols.
    - [PfcpIes], [PfcpIesEncoder], [PfcpIesDecoder]: every structure of pfcp_ies.h
      that is an element, and the function of pfcp_ies_encoder.c and
      pfcp_ies_decoder.c for it.  [PfcpIesSpec]: the interface [IeCodecOk] of an
      element codec (a layout both sides agree on), and its instances for the 87
      elements without optional parts.  [PfcpIesOptional]: layouts of the header and
      of elements with optional parts.  [PfcpCodecProps]: the properties.
    - [PfcpMsgs], [PfcpMsgsEncoder], [PfcpMsgsDecoder]: every structure of
      pfcp_messages.h, and the functions of pfcp_messages_encoder.c and
      pfcp_messages_decoder.c.  [PfcpGroups]: the idioms of these files as rules;
      [PfcpMsgsSpec]: layout and good values of each group and message, and that both
      sides agree; [PfcpMsgsProps]: the properties.
    - [GtpIes], [GtpIesEncoder], [GtpIesDecoder], [GtpIesSpec], [GtpIesOptional],
      [GtpIesLocation]: the same for the elements of libgtpv2c (gtp_ies.h, sv_ies.h,
      gtp_ies_encoder.c, gtp_ies_decoder.c, sv_ies_encoder.c, sv_ies_decoder.c), whose
      enc_dec_bits.c is that of libpfcp.  [GtpMsgs], [GtpMsgsEncoder],
      [GtpMsgsDecoder], [GtpGroups], [GtpMsgsSpec], [GtpMsgsProps]: its messages
      (gtp_messages.h, gtp_messages_encoder.c, gtp_messages_decoder.c).
    - [IpPool]: src/cpplib/ip_pool_mgmt.h, src/cp/ip_pool.c, and the parts of
      [process_create_sess_req] and [delete_context] that choose and release the address of a UE.
    - [Peer]: src/cp/cp_peer.c, a step system of timers, queued timer events and
      answers.
    - [Teid]: the counters of src/cp/ue.c and the session ids of
      src/cp/vepc_cp_dp_api.h.
    - [CpState]: the heap of the control plane (a map per type of object), its
      tables, its pools and counters, and the monad [cpM] of the operations.  A
      failed [assert], an access through NULL or to freed memory, and an index out
      of range have no result ([None]).  What is sent, and the calls of handlers and
      callbacks, are recorded in [trace].
    - [Transactions]: src/cp/cp_transactions.c, src/cp/cp_timer.c, the transaction
      tables of src/cpplib/spgw_tables.cpp, and the freeing thread of
      src/cp/cp_init.c.
    - [UeContext]: src/cp/ue.c, pdn.c, bearer.c, and the tables of
      src/cpplib/ue_tables.h, pdn_tables.h, rule_tables.h, pdr_tables.h and
      qer_tables.h.
    - [Proc]: [start_procedure] and [end_procedure] of src/cp/procedures/proc.c with
      all they call, and the parent and child procedures of proc_rar.c.
    - [Rar]: the loop of src/cp/procedures/proc_rar.c over rules to be deleted.
    - [Upf]: src/cp/upf.c and src/cp/procedures/proc_pfcp_assoc_setup.c, the nodes of the
      user plane: contexts, resolution, association, the procedures that wait for it,
      loss and retry, and the part of the attach that selects a node.  [UpfMsgs]: the
      messages exchanged with a node that is being associated or supervised.
    - [Text]: C strings: decimal numbers (pfcp_init.c), the session identifiers of the Gx
      interface (src/cp/gx/gx_interface.c), and the reading of IP filter rules
      (src/cp/gx/pfcp_gx.c), with what they use of the C library.
    - [PfcpSetIe]: src/cp/pfcp/common/pfcp_cp_set_ie.c, the setters of elements and the
      checks of received requests.  [PfcpSession]: the bearers, rules and PDRs of one PDN
      connection, the identifiers of pfcp_init.c, and the part of
      src/cp/pfcp/common/pfcp_cp_session.c that installs policy rules; its records have the
      members that sessions use, those of [CpState] the members of the other components.
      [PfcpSessionReq]: the establishment, deletion and modification requests of
      pfcp_cp_session.c.  [PfcpSessionSpec], [PfcpSessionEst]: reference layouts of rules
      and requests, and closed forms of the filled structures; [PfcpSessionProps]: the
      properties.
    - [GxStructs]: src/cp/gx/gx_app/include/gx_struct.h, 52 structures and 4 messages with
      their presence bits.  [GxCodec], [GxPack]: the macros and functions of gx_pack.c.
      [GxCodecSpec]: the interfaces [StructOk] and [MessageOk] of the functions of a
      structure; [GxPackSpec]: their instances.
    - [GxDict], [GxParser], [GxParsers]: the names of the dictionary, the macros of fd.h,
      and the functions of gx_parsers.c.  [GxParserSpec]: the interface [ParseOk] of a
      parsing function; [GxParsersSpec]: its instances.  [GxProps]: frames on the socket,
      and the properties.
    - [GxPolicy]: src/cp/gx/pfcp_gx.c, the evaluation of answers and requests of the policy
      server on the state of [PfcpSession], and the rule of an attach without policy server
      (proc_initial_attach.c).  [GxPolicyProps]: its properties, up to the installed PDRs.
    - [GxRequest]: the filling of Credit-Control-Requests in src/cp/gx/gx_interface.c, and
      its properties.
    - [GtpTxBuf]: the setters of src/cp/gtpv2/common/gtpv2_set_ie.c that build a message in
      the transmission buffer, and the walk of gtpv2_ie_parsing.h over its elements.
      [GtpSetIe]: the setters of gtpv2_set_ie.c that fill structures, and the traffic flow
      template of a bearer with a reference reader.  [GtpSend]: the messages built in the
      buffer (echo, downlink data notification, release of access bearers, the response of a
      PGW) and the dispatch of gtpv2_interface.c.
    - [GtpReply]: the check of create session requests (create_session_request.c) and the
      rejections of gtpv2_error_rsp.c.  [GtpAccept]: the create session response of
      create_session_request.c with its protocol configuration options.

    ** What the theorems show

    Codec.  A field of 1 to 64 bits is read back at any offset and leaves the rest
    of the message alone ([bits_roundtrip]); the byte the encoder reads beyond its
    value never shows ([encode_bits_over_irrelevant]); a buffer that is not zero
    keeps some old bits ([encode_bits_keeps_old_bits]).  87 elements
    ([regular_ie_roundtrip]), the header, F-SEID, Node ID, Outer Header Creation and
    Volume Measurement round trip, with the conditions under which they do; F-TEID
    does not ([fteid_received_swapped]), and the copy of a Node ID is not bounded by
    its structure ([node_id_copy_bound]).  Every buffer decodes to values in the
    ranges of their fields ([regular_ie_decode_range]); the copier is arithmetic on
    big-endian numbers ([bits_are_big_endian]).

    Messages.  21 PFCP messages ([pfcp_message_roundtrip]), 67 GTPv2 messages
    ([gtp_message_roundtrip]), 65 GTPv2 groups ([gtp_group_sizes]) and 114 GTPv2 elements
    ([gtp_ie_roundtrip]) are read back as they were sent.  The conditions say where the
    two sides agree: a member they disagree on is absent, and a GTPv2 group whose
    decoder returns four bytes too few ends in zeros; what happens otherwise to a
    create session request is [bearer_context_hides_elements].  The loop over the
    elements ends within 65536 turns or never, for decoders whose advance depends on the
    bytes only ([decoding_loop_ends]), and there is an element with which it comes back to
    the same place forever, told apart from an access out of bounds
    ([unknown_element_hangs]).  Arrays that a message can
    overrun: [usage_reports_bound], [fqcsid_bound].

    Addresses.  A pool of a network has all its host addresses ([gen_pool_contents]);
    the tree of the static pool implements a map of flags ([static_pool_refines]);
    no dynamic address is held twice or lost, and no static one is held twice
    ([addresses_unique]), except by requests rejected after the selection
    ([rejected_request_addresses]) and by the release of a static address when a delete
    session request arrives, which lets two sessions share it ([static_address_shared]).

    Peers.  [peers_reachable_ok] is the invariant of the step system,
    [silent_peer_given_up] and [answered_peer_kept] the two outcomes; the rounds of a
    silent peer are expiries of timers that run, and there is always one.

    Identifiers.  Uniqueness of tunnel ids, with its bounds ([s1u_teids_unique],
    [pdn_bearer_teids]), and what can be read from a session id
    ([sess_id_roundtrip]).

    Transactions.  The invariant [links_inv] relates tables, procedures, transactions
    and the queue of the freeing thread, without ([consistent]) and with ([trans_inv])
    unique keys.  A release keeps both, deletes the timer and aborts exactly if the table
    has another transaction under the key ([cleanup_safe]); freeing keeps them too
    ([free_delayed_safe]).  Number of repetitions
    ([pfcp_node_retry_bound]); events after the release ([released_retry]); keys in
    use ([duplicate_key_aborts]).

    Contexts.  Creation ([ue_context_created]), release of a PDN connection, with the
    case in which its assertion fails and all that it leaves alone ([pdn_released]), and that an attach followed by a detach restores the state
    ([attach_detach]).

    Procedures.  When a started procedure runs ([start_procedure_runs]); in every
    reachable state the first procedure of a queue runs ([first_procedure_runs]); the
    end of the procedures that only set states ([simple_procedure_ends]); and cases
    in which the code does not do what it means to: [gx_trans_left],
    [message_release], [procedures_that_cannot_end], [delete_rules_loop_ends].

    User plane nodes.  What an accepting answer does ([association_accepted]), what a
    failure does ([failed_association_retried]); the attach procedures that wait are called
    once each and in order by the two loops ([waiting_answered_once]), unless the node was lost in the meantime
    ([success_after_loss_never_ends]); the messages are read back
    ([node_messages_read_back]) while sequence numbers last ([sequence_number_space]).

    Sessions.  The pending rules of a connection become PDRs of its default bearer, and
    nothing else changes ([install_rules_default], with [frame]), and the request filled from them is encoded to a reference
    layout ([sess_est_req_refines]), which creates every quality enforcement rule that a PDR
    names once ([sess_est_req_qers_once]); a receiver accepts it, unless the trace
    information has overwritten the number of PDRs ([sess_est_req_checked]).  The requests
    that remove rules ([remove_pdr_request]) and that make a bearer forward to a base
    station ([mod_req_forwards]) are encoded to their layouts.  Where filling fails: no
    rule, or a rule that needs a bearer of its own ([sess_est_req_null]); eight rules
    ([eight_rules_overflow]); an update of PDRs ([update_pdr_reads_sixteen]).

    Gx.  A message that one process frames is unpacked by the other with every present
    member ([gx_messages_delivered]), for any contents of the heap bytes that are left in
    the buffer of a CCA, if no short octet string of a list ends it ([end_clear]); packing needs exactly the calculated length and
    stays in it ([gx_pack_exact]); parsing computes a reference reading of the AVPs
    ([gx_parse_reads]), and both together carry an answer of the policy server to the
    control plane ([cca_arrives]).  Re-Auth-Requests arrive with their last two bytes
    overwritten ([rar_end_overwritten]); lengths that are not tested
    ([list_item_overrun], [avp_values_read]).

    Policy.  The charging rules of a message are queued as a reference says, which gives
    every member of a rule by itself ([policy_rules_queued]); the rules of an answer reach the PDRs of the default bearer
    with their precedence ([cca_rules_installed]), as does the rule of an attach without
    policy server ([attach_rule_installed]); answers for another call are refused
    ([cca_rejected]).  Filter rules are read into the filters they describe
    ([filter_rule_read]), while the stack is clean ([mask_takes_stack]) and they have nine
    words at most ([long_rule_overflow]); events from 31 on are undefined
    ([events_out_of_range]); the second rule of a default bearer is removed from another
    bearer ([second_rule_other_bearer]).

    Requests to the policy server.  A request is filled with the values and the presence
    bits of its members and no others ([ccr_request_filled]); the session id gives the call id back ([session_id_roundtrip]);
    the digits of the subscriber are sent ([imsi_subscription]); the name of the network is
    right for one label, or two of one length ([station_name_dotted]); a server that repeats
    the quality of the request leaves the bearer alone but divides the rates of the
    connection by 1000 ([echoed_quality]).

    Answers to the MME.  A message built in the buffer is walked element by element
    ([built_message_walked]), although the walk reads behind it ([walk_reads_behind]).  A
    traffic flow template of at most eight flows is read as the filters of its rules
    ([bearer_tft_read]).  An accepted create session request is answered with the state of
    the connection and the four tunnel endpoints ([session_accepted]) and with a container per option
    ([options_answered]); rejections are read back ([rejections_read_back]).  The checks of
    a request ([csreq_checked]), the elements of the messages built in the buffer
    ([ddn_built], [echo_answered], [pgw_response_elements]), the fate of a received message
    ([dispatch_frees_once]), and fields in the wrong order of bytes
    ([rab_response_sequence], [rab_rejection_misaddressed]).

    ** Bounds and fuel

    Definitions are total by structural recursion except for six loops.  The loop
    over the elements of a message runs with fuel 65536 ([loop_fuel]), since its counter is
    a uint16_t; this is enough for every loop that ends when the advance of a turn depends
    on the bytes only ([decoding_loop_ends]).  It does not for decoders that add to what the
    structure held; for these the round trips show that the loops end.
    [count_addresses] runs with fuel 33 ([mask_fuel]): a 32-bit mask that is not 0
    has a bit set after at most 31 shifts, and for mask 0 no fuel is enough.
    [apn_loop] runs with fuel 33: every turn moves on by two bytes at least in an array of
    64 ([station_id_form]).
    [FOR_EACH_GTPV2C_IE] runs with fuel 4097, one more than the bytes of the buffer: every
    turn moves on by four bytes at least ([built_message_walked]).
    [delete_rules_loop] and [answer_buffered] have their number of turns as an argument,
    and the theorems speak of every number or of every number that is large enough.  The
    delayed events of timers are explicit arguments of the theorems that count them.  [calloc], the system calls of timers and the
    transmission of a packet have their answer as an argument.

    ** What is not modelled

    The handlers of the procedures other than the parts named above, the filling of the
    GTPv2 messages that are not named above (bearer requests, modify bearer and delete
    session responses), which belong to them, [gx_update_bearer_req], and the
    session requests for rules that change during a session ([fill_create_pfcp_info],
    [fill_update_pfcp_info]) are not modelled.  The handlers would rest on [cpM],
    [trans_inv] and [queues_ok], the messages on the codecs.  The Diameter stack is a library: what it
    gives for a message is a parameter ([Diameter]), as are the answers of [malloc] and
    the contents of memory that is not initialised ([Memory]).  Left out for good: log
    output, statistics, packet capture, JSON configuration, the web server, sockets and
    threads (input and output).  Members of structures that no modelled operation uses
    are left out of the records. *)

From stdpp Require Export base option list numbers.
From Stdlib Require Export ZArith Lia.

(** ** Machine integers

    An unsigned C integer of width [w] is a [Z] in [0 .. 2^w); the coercions
    below are the conversions of the C standard to [uint8_t] ... [uint64_t]. *)

Declare Scope c_scope.
Delimit Scope c_scope with c.
Open Scope Z_scope.

Definition uwrap (w v : Z) : Z := v mod 2 ^ w.
Abbreviation u8 := (uwrap 8) (only parsing).
Abbreviation u16 := (uwrap 16) (only parsing).
Abbreviation u32 := (uwrap 32) (only parsing).
Abbreviation u64 := (uwrap 64) (only parsing).

Definition CHAR_BIT : Z := 8.

(** ** Byte memory

    A C byte buffer is the list of its bytes.  A load or a store outside it is
    undefined behaviour in C: here it has no result. *)

Definition byte_ok (b : Z) : Prop := 0 <= b < 256.
Definition bytes_ok (m : list Z) : Prop := Forall byte_ok m.

Definition load (m : list Z) (p : Z) : option Z :=
  if 0 <=? p then m !! Z.to_nat p else None.

Definition store (m : list Z) (p v : Z) : option (list Z) :=
  if (0 <=? p) && (p <? Z.of_nat (length m)) then Some (<[Z.to_nat p := v]> m) else None.

(** [memcpy(dst + pd, src + ps, n)] of two separate buffers. *)
Fixpoint memcpy (n : nat) (src : list Z) (ps : Z) (dst : list Z) (pd : Z) : option (list Z) :=
  match n with
  | O => Some dst
  | S n' => b ← load src ps; dst' ← store dst pd b; memcpy n' src (ps + 1) dst' (pd + 1)
  end.

(** ** Integers in memory *)

(** The bytes of an [n]-byte integer in memory of a little-endian host, and the
    integer they are. *)
Fixpoint le_bytes (n : nat) (v : Z) : list Z :=
  match n with O => [] | S n' => u8 v :: le_bytes n' (v / 256) end.
Fixpoint of_le_bytes (l : list Z) : Z :=
  match l with [] => 0 | b :: l' => b + 256 * of_le_bytes l' end.

(** A C truth value. *)
Definition nz (v : Z) : bool := negb (v =? 0).

(** ** Bit views

    [bbit b j] is bit [j] of a byte counted from the most significant one, and
    [bitat m k] is bit [k] of a buffer in transmission order. *)

Definition bbit (b j : Z) : bool := Z.testbit b (7 - j).
Definition byteat (m : list Z) (i : nat) : Z := default 0 (m !! i).
Definition bitat (m : list Z) (k : Z) : bool := bbit (byteat m (Z.to_nat (k / 8))) (k mod 8).

(** The low [n] bits of [v], most significant first. *)
Fixpoint nbits (n : nat) (v : Z) : list bool :=
  match n with
  | O => []
  | S n' => Z.testbit v (Z.of_nat n') :: nbits n' v
  end.

(** The number whose binary digits, most significant first, are [l]. *)
Definition of_bits (l : list bool) : Z :=
  foldl (fun acc (b : bool) => 2 * acc + (if b then 1 else 0)) 0 l.

(** ** Tactics and hint databases *)

Create HintDb bytes.

(** Case analysis on the comparisons of [Z] in the goal, with arithmetic. *)
Ltac zcases :=
  repeat match goal with
  | |- context [?a <=? ?b] => destruct (Z.leb_spec a b)
  | |- context [?a <? ?b] => destruct (Z.ltb_spec a b)
  | |- context [?a =? ?b] => destruct (Z.eqb_spec a b)
  end; try lia.

(** Units and zeros of the boolean connectives. *)
Ltac bool_simpl :=
  rewrite ?andb_true_r, ?andb_false_r, ?orb_false_r, ?orb_true_r; cbn [andb orb].

(** Run the first [option] bind of the goal with a known result. *)
Ltac obind H := rewrite H; cbn [mbind option_bind].

(** ** Lemmas on machine integers and bytes *)

Lemma uwrap_range w v : 0 <= w -> 0 <= uwrap w v < 2 ^ w.
Proof. intros; unfold uwrap; apply Z.mod_pos_bound; lia. Qed.

Lemma uwrap_small w v : 0 <= v < 2 ^ w -> uwrap w v = v.
Proof. apply Z.mod_small. Qed.

Lemma uwrap_testbit w v i :
  0 <= w -> 0 <= i -> Z.testbit (uwrap w v) i = (i <? w) && Z.testbit v i.
Proof.
  intros; unfold uwrap; rewrite Z.testbit_mod_pow2 by lia; done.
Qed.

Lemma testbit_high v w i : 0 <= v < 2 ^ w -> 0 <= w <= i -> Z.testbit v i = false.
Proof.
  intros Hv Hi. rewrite <- (Z.mod_small v (2 ^ w)) by lia.
  apply Z.mod_pow2_bits_high; lia.
Qed.

Lemma byte_ok_uwrap v : byte_ok (uwrap 8 v).
Proof. apply (uwrap_range 8 v); lia. Qed.

Lemma byte_ok_of_bits v : 0 <= v -> (∀ i, 8 <= i -> Z.testbit v i = false) -> byte_ok v.
Proof.
  intros Hv H. assert (v = uwrap 8 v) as ->; [|apply byte_ok_uwrap].
  apply Z.bits_inj'; intros i Hi. rewrite uwrap_testbit by lia.
  zcases; cbn; auto.
Qed.

Lemma byte_ok_lor a b : byte_ok a -> byte_ok b -> byte_ok (Z.lor a b).
Proof.
  intros Ha Hb. apply byte_ok_of_bits; [apply Z.lor_nonneg; unfold byte_ok in *; lia|].
  intros i Hi. by rewrite Z.lor_spec, (testbit_high a 8), (testbit_high b 8).
Qed.

Lemma byte_ok_land_l a b : byte_ok a -> byte_ok (Z.land a b).
Proof.
  intros Ha. apply byte_ok_of_bits; [apply Z.land_nonneg; unfold byte_ok in *; lia|].
  intros i Hi. by rewrite Z.land_spec, (testbit_high a 8).
Qed.

Lemma byte_ok_shiftr a n : byte_ok a -> 0 <= n -> byte_ok (Z.shiftr a n).
Proof.
  intros Ha Hn. apply byte_ok_of_bits; [apply Z.shiftr_nonneg; unfold byte_ok in *; lia|].
  intros i Hi. rewrite Z.shiftr_spec by lia. apply (testbit_high a 8); unfold byte_ok in *; lia.
Qed.
#[export] Hint Resolve byte_ok_uwrap byte_ok_lor byte_ok_land_l byte_ok_shiftr : bytes.

Lemma bytes_ok_lookup m i b : bytes_ok m -> m !! i = Some b -> byte_ok b.
Proof. intros Hm Hi. eapply Forall_lookup_1 in Hm; eauto. Qed.

Lemma bytes_ok_total m i : bytes_ok m -> byte_ok (byteat m i).
Proof.
  intros Hm. unfold byteat. destruct (m !! i) eqn:E; cbn.
  - eauto using bytes_ok_lookup.
  - unfold byte_ok; lia.
Qed.

Lemma byteat_lookup m i b : m !! i = Some b -> byteat m i = b.
Proof. unfold byteat. by intros ->. Qed.

Lemma bytes_ok_insert m i b : bytes_ok m -> byte_ok b -> bytes_ok (<[i:=b]> m).
Proof. intros; by apply Forall_insert. Qed.
#[export] Hint Resolve bytes_ok_total bytes_ok_insert : bytes.

(** ** Loads, stores and their bits *)

Lemma load_Some m p :
  0 <= p < Z.of_nat (length m) -> load m p = Some (byteat m (Z.to_nat p)).
Proof.
  intros Hp. unfold load. zcases.
  destruct (lookup_lt_is_Some_2 m (Z.to_nat p)) as [b Hb]; [lia|].
  by rewrite Hb, (byteat_lookup _ _ _ Hb).
Qed.

Lemma store_Some m p v :
  0 <= p < Z.of_nat (length m) -> store m p v = Some (<[Z.to_nat p := v]> m).
Proof. intros Hp. unfold store. zcases. done. Qed.

Lemma bitat_insert m p v k :
  0 <= p < Z.of_nat (length m) -> 0 <= k ->
  bitat (<[Z.to_nat p := v]> m) k = if k / 8 =? p then bbit v (k mod 8) else bitat m k.
Proof.
  intros Hp Hk. unfold bitat, byteat. assert (0 <= k / 8) by (apply Z.div_pos; lia).
  zcases.
  - subst p. rewrite list_lookup_insert_eq; [done|lia].
  - rewrite list_lookup_insert_ne; [done|lia].
Qed.

Lemma bitat_load m p b k :
  load m p = Some b -> 0 <= p -> k / 8 = p -> bitat m k = bbit b (k mod 8).
Proof.
  unfold load. intros Hl Hp Hk. rewrite (proj2 (Z.leb_le 0 p)) in Hl by lia.
  unfold bitat. by rewrite Hk, (byteat_lookup _ _ _ Hl).
Qed.

Lemma bbit_land a b j : bbit (Z.land a b) j = bbit a j && bbit b j.
Proof. apply Z.land_spec. Qed.
Lemma bbit_lor a b j : bbit (Z.lor a b) j = bbit a j || bbit b j.
Proof. apply Z.lor_spec. Qed.

Lemma bbit_shiftr a n j : 0 <= n -> byte_ok a -> 0 <= j <= 7 ->
  bbit (Z.shiftr a n) j = (n <=? j) && bbit a (j - n).
Proof.
  intros Hn Ha Hj. unfold bbit. rewrite Z.shiftr_spec by lia. zcases; cbn.
  - f_equal; lia.
  - apply (testbit_high a 8); unfold byte_ok in *; lia.
Qed.

Lemma bbit_shiftl8 a n j : 0 <= n -> 0 <= j <= 7 ->
  bbit (uwrap 8 (Z.shiftl a n)) j = (j + n <=? 7) && bbit a (j + n).
Proof.
  intros Hn Hj. unfold bbit. rewrite uwrap_testbit, Z.shiftl_spec by lia.
  zcases; cbn.
  - f_equal; lia.
  - apply Z.testbit_neg_r; lia.
Qed.

(** Two buffers of bytes with the same bits are equal. *)
Lemma byte_ext a b : byte_ok a -> byte_ok b -> (∀ j, 0 <= j <= 7 -> bbit a j = bbit b j) -> a = b.
Proof.
  intros Ha Hb H. apply Z.bits_inj'; intros i Hi.
  destruct (Z.le_gt_cases i 7).
  - specialize (H (7 - i)). unfold bbit in H. replace (7 - (7 - i)) with i in H by lia. apply H; lia.
  - by rewrite (testbit_high a 8), (testbit_high b 8) by (unfold byte_ok in *; lia).
Qed.

(** ** Bit lists *)

Lemma length_nbits n v : length (nbits n v) = n.
Proof. induction n; cbn; congruence. Qed.

Lemma nbits_nth n v i : (i < n)%nat -> nth i (nbits n v) false = Z.testbit v (Z.of_nat (n - 1 - i)).
Proof.
  revert i; induction n as [|n IH]; intros i Hi; [lia|]. cbn [nbits].
  destruct i as [|i]; cbn [nth].
  - do 2 f_equal; lia.
  - rewrite IH by lia. do 2 f_equal; lia.
Qed.

Lemma nbits_ext n v w : (∀ i, 0 <= i < Z.of_nat n -> Z.testbit v i = Z.testbit w i) -> nbits n v = nbits n w.
Proof.
  induction n as [|n IH]; cbn; [done|]. intros H. f_equal; [apply H; lia|]. apply IH; intros; apply H; lia.
Qed.

Lemma of_bits_app l b : of_bits (l ++ [b]) = 2 * of_bits l + (if b then 1 else 0).
Proof. unfold of_bits. by rewrite foldl_app. Qed.

Lemma nbits_snoc n v : nbits (S n) v = nbits n (v / 2) ++ [Z.testbit v 0].
Proof.
  induction n as [|n IH]; [done|].
  change (nbits (S (S n)) v) with (Z.testbit v (Z.of_nat (S n)) :: nbits (S n) v).
  rewrite IH. cbn [nbits app]. f_equal.
  rewrite <- Z.div2_div, Z.div2_spec, Z.shiftr_spec by lia. f_equal; lia.
Qed.

Lemma of_bits_nbits n v : of_bits (nbits n v) = v mod 2 ^ Z.of_nat n.
Proof.
  revert v; induction n as [|n IH]; intros v; [by rewrite Z.mod_1_r|].
  rewrite nbits_snoc, of_bits_app, IH.
  rewrite Nat2Z.inj_succ, Z.pow_succ_r, Z.rem_mul_r by lia.
  rewrite <- Z.bit0_mod. destruct (Z.testbit v 0); cbn -[Z.mul]; lia.
Qed.

(** What a copy does to the destination, and when it runs past its end. *)
Lemma memcpy_app n src ps dst pd :
  (ps + n <= length src)%nat -> (pd + n <= length dst)%nat ->
  memcpy n src (Z.of_nat ps) dst (Z.of_nat pd)
  = Some (take pd dst ++ take n (drop ps src) ++ drop (pd + n) dst).
Proof.
  revert ps dst pd; induction n as [|n IH]; intros ps dst pd Hs Hd; cbn [memcpy].
  { by rewrite Nat.add_0_r, app_nil_l, take_drop. }
  destruct (lookup_lt_is_Some_2 src ps) as [b Hb]; [lia|].
  unfold load, store. zcases; try lia. cbn [andb]. rewrite !Nat2Z.id, Hb. cbn [mbind option_bind].
  replace (Z.of_nat ps + 1) with (Z.of_nat (S ps)) by lia.
  replace (Z.of_nat pd + 1) with (Z.of_nat (S pd)) by lia.
  rewrite IH by (rewrite ?length_insert; lia). f_equal.
  rewrite (drop_S src b ps) by done. cbn [take app].
  rewrite (take_S_r _ pd b) by (apply list_lookup_insert_eq; lia).
  rewrite take_insert_ge, drop_insert_lt, <- app_assoc by lia.
  do 3 f_equal. f_equal. lia.
Qed.

Lemma memcpy_overrun n src ps dst pd :
  0 <= pd <= Z.of_nat (length dst) -> Z.of_nat (length dst) < pd + Z.of_nat n ->
  memcpy n src ps dst pd = None.
Proof.
  revert ps dst pd; induction n as [|n IH]; intros ps dst pd Hp Hd; cbn [memcpy]; [lia|].
  destruct (load src ps) as [b|]; [|done]. cbn [mbind option_bind]. unfold store.
  zcases; cbn [andb mbind option_bind]; try done. apply IH; rewrite length_insert; lia.
Qed.

(** Byte order. *)
Lemma length_le_bytes n v : length (le_bytes n v) = n.
Proof. revert v; induction n; intros; cbn; congruence. Qed.

Lemma bytes_ok_zeros n : bytes_ok (repeat 0 n).
Proof. apply List.Forall_forall. intros b Hb%repeat_spec. subst. unfold byte_ok. lia. Qed.

Lemma drop_repeat {A} (x : A) k n : drop k (repeat x n) = repeat x (n - k).
Proof. revert k; induction n as [|n IH]; intros [|k]; cbn; auto. Qed.

Lemma bytes_ok_le_bytes n v : bytes_ok (le_bytes n v).
Proof.
  revert v; induction n; intros v; [apply Forall_nil_2|].
  apply Forall_cons_2; [apply byte_ok_uwrap|apply IHn].
Qed.

Lemma of_le_le_bytes n v : of_le_bytes (le_bytes n v) = v mod 2 ^ (8 * Z.of_nat n).
Proof.
  revert v; induction n as [|n IH]; intros v; [by rewrite Z.mod_1_r|].
  cbn [le_bytes of_le_bytes]. rewrite IH. unfold uwrap. change (2 ^ 8) with 256.
  replace (8 * Z.of_nat (S n)) with (8 + 8 * Z.of_nat n) by lia.
  rewrite Z.pow_add_r by lia. change (2 ^ 8) with 256. rewrite Z.rem_mul_r by lia. lia.
Qed.

Lemma of_le_bytes_range l : bytes_ok l -> 0 <= of_le_bytes l < 2 ^ (8 * Z.of_nat (length l)).
Proof.
  induction l as [|b l IH]; intros H; [cbn; lia|]. apply Forall_cons_1 in H as [Hb Hl].
  specialize (IH Hl). cbn [of_le_bytes length].
  replace (8 * Z.of_nat (S (length l))) with (8 + 8 * Z.of_nat (length l)) by lia.
  rewrite Z.pow_add_r by lia. unfold byte_ok in Hb. lia.
Qed.

Lemma le_of_le_bytes l : bytes_ok l -> le_bytes (length l) (of_le_bytes l) = l.
Proof.
  induction l as [|b l IH]; [done|]. intros H. apply Forall_cons_1 in H as [Hb Hl].
  cbn [length of_le_bytes le_bytes]. unfold byte_ok in Hb. f_equal.
  - unfold uwrap. change (2 ^ 8) with 256. rewrite (Z.mul_comm 256), Z_mod_plus_full.
    apply Z.mod_small; lia.
  - rewrite (Z.mul_comm 256), Z.div_add, Z.div_small by lia. by apply IH.
Qed.

Lemma of_le_bytes_zeros n : of_le_bytes (repeat 0 n) = 0.
Proof. induction n as [|n IH]; cbn; lia. Qed.

Lemma of_le_bytes_app a b : of_le_bytes (a ++ b) = of_le_bytes a + 2 ^ (8 * Z.of_nat (length a)) * of_le_bytes b.
Proof.
  induction a as [|x a IH]; cbn [app of_le_bytes length]; [rewrite Z.mul_0_r, Z.pow_0_r; lia|].
  rewrite IH, Nat2Z.inj_succ, Z.mul_succ_r, Z.pow_add_r by lia. change (2 ^ 8) with 256. lia.
Qed.
