(* ===== verification/EncDecBits.v ===== *)
(** * Bit-level encoder and decoder (src/libpfcp/src/enc_dec_bits.c)

    The bit copier both protocol libraries are built on (libgtpv2c has the same
    code in its own enc_dec_bits.c), its use to write a field of up to 64 bits
    into a message buffer ([encode_bits]) and to read one ([decode_bits]).

    A pointer into a buffer is the buffer and an index.  The source and the
    destination of a copy are different objects, as at every call. *)

From S2P Require Import Prelude.

(** ** The code *)

Definition mask_bits : list Z :=
  [0x55; 0x80; 0xc0; 0xe0; 0xf0; 0xf8; 0xfc; 0xfe; 0xff].
Definition xor_mask_bits : list Z :=
  [0xff; 0x7f; 0x3f; 0x1f; 0x0f; 0x07; 0x03; 0x01; 0x00].

Definition bitmask (bit_count : Z) : Z := u64 (Z.shiftl 1 bit_count - 1).

(** The three objects it updates through pointers are returned: the count, the
    destination byte and the byte to be copied. *)
Definition copy_start_bits (copy_bit_count destination mod_destination_offset byte : Z)
    : option (Z * Z * Z) :=
  if CHAR_BIT - mod_destination_offset <=? copy_bit_count then
    m ← load mask_bits mod_destination_offset;
    Some (copy_bit_count - (CHAR_BIT - mod_destination_offset), Z.land destination m, byte)
  else
    m ← load mask_bits mod_destination_offset;
    x ← load xor_mask_bits (mod_destination_offset + copy_bit_count + 1);
    b ← load mask_bits (mod_destination_offset + copy_bit_count);
    Some (0, Z.land destination (Z.lor m x), Z.land byte b).

(** [copy_byte = *ptr_source++ << left; copy_byte |= *ptr_source >> right;] *)
Definition shifted_byte (src : list Z) (ptr_source left_shift right_shift : Z) : option Z :=
  b0 ← load src ptr_source;
  b1 ← load src (ptr_source + 1);
  Some (Z.lor (u8 (Z.shiftl b0 left_shift)) (Z.shiftr b1 right_shift)).

(** The [while (copy_byte_length >= 0)] loop of the misaligned copy. *)
Fixpoint copy_bytes_shifted (n : nat) (src : list Z) (ptr_source left_shift right_shift : Z)
    (dest : list Z) (ptr_destination : Z) : option (list Z * Z * Z) :=
  match n with
  | O => Some (dest, ptr_source, ptr_destination)
  | S n' =>
      copy_byte ← shifted_byte src ptr_source left_shift right_shift;
      dest' ← store dest ptr_destination copy_byte;
      copy_bytes_shifted n' src (ptr_source + 1) left_shift right_shift dest' (ptr_destination + 1)
  end.

(** Masked update of one byte: [*p &= and; *p |= or]. *)
Definition update_byte (dest : list Z) (p band bor : Z) : option (list Z) :=
  d ← load dest p; store dest p (Z.lor (Z.land d band) bor).

(** The whole bytes and the last partial byte of the misaligned copy. *)
Definition copy_rest_shifted (src : list Z) (ptr_source left_shift right_shift copy_bit_count : Z)
    (dest : list Z) (ptr_destination : Z) : option (list Z) :=
  '(dest, ptr_source, ptr_destination) ←
    copy_bytes_shifted (Z.to_nat (copy_bit_count / CHAR_BIT)) src ptr_source left_shift right_shift
      dest ptr_destination;
  let copy_bit_count_modulo := copy_bit_count mod CHAR_BIT in
  if 0 <? copy_bit_count_modulo then
    b ← shifted_byte src ptr_source left_shift right_shift;
    m ← load mask_bits copy_bit_count_modulo;
    xm ← load xor_mask_bits copy_bit_count_modulo;
    update_byte dest ptr_destination xm (Z.land b m)
  else Some dest.

(** The byte the misaligned copy starts with, and the shifts it uses. *)
Definition first_shifted (src : list Z) (ptr_source mod_source_offset mod_destination_offset : Z)
    : option (Z * Z * Z * Z) :=
  x ← load xor_mask_bits mod_destination_offset;
  if mod_destination_offset <? mod_source_offset then
    let left_shift := mod_source_offset - mod_destination_offset in
    let right_shift := CHAR_BIT - left_shift in
    b ← shifted_byte src ptr_source left_shift right_shift;
    Some (left_shift, right_shift, Z.land b x, ptr_source + 1)
  else
    let right_shift := mod_destination_offset - mod_source_offset in
    let left_shift := CHAR_BIT - right_shift in
    b ← load src ptr_source;
    Some (left_shift, right_shift, Z.land (Z.shiftr b right_shift) x, ptr_source).

Definition copybits_misaligned (src : list Z) (ptr_source : Z) (mod_source_offset : Z)
    (copy_bit_count : Z) (dest : list Z) (ptr_destination mod_destination_offset : Z)
    : option (list Z) :=
  '(left_shift, right_shift, copy_byte, ptr_source) ←
    first_shifted src ptr_source mod_source_offset mod_destination_offset;
  d ← load dest ptr_destination;
  '(copy_bit_count, d, copy_byte) ← copy_start_bits copy_bit_count d mod_destination_offset copy_byte;
  dest ← store dest ptr_destination (Z.lor d copy_byte);
  copy_rest_shifted src ptr_source left_shift right_shift copy_bit_count dest (ptr_destination + 1).

(** The whole bytes ([memcpy]) and the last partial byte of the aligned copy. *)
Definition copy_rest_aligned (src : list Z) (ptr_source copy_bit_count : Z)
    (dest : list Z) (ptr_destination : Z) : option (list Z) :=
  let copy_byte_length := copy_bit_count / CHAR_BIT in
  let copy_bit_count_modulo := copy_bit_count mod CHAR_BIT in
  dest ← memcpy (Z.to_nat copy_byte_length) src ptr_source dest ptr_destination;
  let ptr_source := ptr_source + copy_byte_length in
  let ptr_destination := ptr_destination + copy_byte_length in
  if 0 <? copy_bit_count_modulo then
    b ← load src ptr_source;
    m ← load mask_bits copy_bit_count_modulo;
    xm ← load xor_mask_bits copy_bit_count_modulo;
    update_byte dest ptr_destination xm (Z.land m b)
  else Some dest.

Definition copybits_aligned (src : list Z) (ptr_source : Z) (mod_source_offset : Z)
    (copy_bit_count : Z) (dest : list Z) (ptr_destination mod_destination_offset : Z)
    : option (list Z) :=
  if 0 <? mod_source_offset then
    x ← load xor_mask_bits mod_destination_offset;
    b ← load src ptr_source;
    d ← load dest ptr_destination;
    '(copy_bit_count, d, copy_byte) ←
      copy_start_bits copy_bit_count d mod_destination_offset (Z.land x b);
    dest ← store dest ptr_destination (Z.lor d copy_byte);
    copy_rest_aligned src (ptr_source + 1) copy_bit_count dest (ptr_destination + 1)
  else copy_rest_aligned src ptr_source copy_bit_count dest ptr_destination.

(** [src_length] is not used by the code and is left out. *)
Definition copybits (src : list Z) (src_offset copy_bit_count : Z)
    (dest : list Z) (dest_base dest_offset : Z) : option (Z * list Z) :=
  if copy_bit_count <? 1 then Some (0, dest)
  else
    let ptr_source := src_offset / CHAR_BIT in
    let ptr_destination := dest_base + dest_offset / CHAR_BIT in
    let mod_source_offset := src_offset mod CHAR_BIT in
    let mod_destination_offset := dest_offset mod CHAR_BIT in
    dest' ←
      (if mod_source_offset =? mod_destination_offset then
         copybits_aligned src ptr_source mod_source_offset copy_bit_count
           dest ptr_destination mod_destination_offset
       else
         copybits_misaligned src ptr_source mod_source_offset copy_bit_count
           dest ptr_destination mod_destination_offset);
    Some (copy_bit_count, dest').

Definition bits_to_bytes (bits : Z) : Z :=
  let byte_count := u8 (bits / CHAR_BIT) in
  if bits mod CHAR_BIT =? 0 then byte_count else u8 (byte_count + 1).

Definition find_end_bit (numBits : Z) : Z :=
  let endBit := numBits mod CHAR_BIT in
  if endBit =? 0 then CHAR_BIT else endBit.

Definition copy_bits_right_aligned (source : list Z) (offset copy_bit_count : Z)
    (destination : list Z) (destination_length : Z) : option (bool * list Z) :=
  '(n, destination') ←
    copybits source offset copy_bit_count destination 0
      (u16 ((destination_length - bits_to_bytes copy_bit_count) * CHAR_BIT
            + CHAR_BIT - find_end_bit copy_bit_count));
  Some (negb (n =? 0), destination').

(** The eight bytes of a 64-bit value, most significant first: the contents of
    [val8] after [val64 = __builtin_bswap64(val64)] on a little-endian host,
    and the value read back from them. *)
Definition be_bytes (v : Z) : list Z :=
  map (fun i => u8 (Z.shiftr v (8 * i))) [7; 6; 5; 4; 3; 2; 1; 0].
Definition of_be_bytes (l : list Z) : Z := foldl (fun acc b => 256 * acc + b) 0 l.

(** The value and the new [*decoded_bit_count]; [decoded] is the old one, which
    a bit count outside 1..64 leaves as it is.  [offset] is a [uint16_t] in the code; the
    integer here stands for it below 65536, the first 8192 bytes of a buffer, which no
    message buffer of the program exceeds.  The same holds for [encode_bits]. *)
Definition decode_bits (source : list Z) (offset bit_count decoded : Z) : option (Z * Z) :=
  if (64 <? bit_count) || (bit_count <? 1) then Some (0, decoded)
  else
    '(ok, combined) ← copy_bits_right_aligned source offset bit_count (repeat 0 8) 8;
    if ok : bool then Some (of_be_bytes combined, bit_count) else Some (of_be_bytes combined, 0).

(** [over] is the byte of the stack after the eight of [byte_val]: the copier
    may load it (and never uses it, [encode_bits_over_irrelevant]). *)
Definition encode_bits_over (over value bit_count : Z) (destination : list Z) (base offset : Z)
    : option (Z * list Z) :=
  copybits (be_bytes value ++ [over]) (64 - bit_count) bit_count destination base offset.

Definition encode_bits := encode_bits_over 0.

(** ** Masks and bytes *)

Ltac enum8 j Hj :=
  let E := fresh in
  assert (j = 0 ∨ j = 1 ∨ j = 2 ∨ j = 3 ∨ j = 4 ∨ j = 5 ∨ j = 6 ∨ j = 7 ∨ j = 8) as E by lia;
  clear Hj; repeat (destruct E as [E|E]; [|]); subst j.

Lemma mask_bits_spec m :
  1 <= m <= 8 ->
  ∃ v, load mask_bits m = Some v ∧ byte_ok v ∧ ∀ j, 0 <= j <= 7 -> bbit v j = (j <? m).
Proof.
  intros Hm. pose proof Hm as Hm'. enum8 m Hm; try lia;
    (eexists; split; [reflexivity|]; split; [unfold byte_ok; lia|]);
    intros j Hj; pose proof Hj as Hj'; enum8 j Hj; try lia; reflexivity.
Qed.

Lemma xor_mask_bits_spec m :
  0 <= m <= 8 ->
  ∃ v, load xor_mask_bits m = Some v ∧ byte_ok v ∧ ∀ j, 0 <= j <= 7 -> bbit v j = (m <=? j).
Proof.
  intros Hm. pose proof Hm as Hm'. enum8 m Hm; try lia;
    (eexists; split; [reflexivity|]; split; [unfold byte_ok; lia|]);
    intros j Hj; pose proof Hj as Hj'; enum8 j Hj; try lia; reflexivity.
Qed.

Lemma bitat_split m p j : 0 <= j < 8 -> bitat m (8 * p + j) = bbit (byteat m (Z.to_nat p)) j.
Proof.
  intros Hj. unfold bitat.
  replace ((8 * p + j) / 8) with p by (Z.div_mod_to_equations; lia).
  by replace ((8 * p + j) mod 8) with j by (Z.div_mod_to_equations; lia).
Qed.

Lemma shifted_byte_spec src ps l :
  bytes_ok src -> 1 <= l <= 7 -> 0 <= ps -> ps + 1 < Z.of_nat (length src) ->
  ∃ b, shifted_byte src ps l (8 - l) = Some b ∧ byte_ok b ∧
       ∀ j, 0 <= j <= 7 -> bbit b j = bitat src (8 * ps + l + j).
Proof.
  intros Hs Hl Hp Hlen. unfold shifted_byte. rewrite !load_Some by lia. cbn [mbind option_bind].
  eexists; split; [done|]. split; [eauto 6 with bytes|].
  - apply byte_ok_lor; [apply byte_ok_uwrap|apply byte_ok_shiftr; [eauto with bytes|lia]].
  - intros j Hj. rewrite bbit_lor, bbit_shiftl8, bbit_shiftr by (eauto with bytes; lia).
    zcases; cbn [andb orb]; rewrite ?orb_false_r.
    + replace (8 * ps + l + j) with (8 * ps + (l + j)) by lia.
      rewrite bitat_split by lia. f_equal; lia.
    + replace (8 * ps + l + j) with (8 * (ps + 1) + (l + j - 8)) by lia.
      rewrite bitat_split by lia. f_equal; lia.
Qed.

(** ** Patches: a run of bits of the destination taken from the source *)

(** [dst'] is [dst] with the [n] bits from [D] on replaced by the bits of [src]
    that lie [delta] further. *)
Definition patched (src : list Z) (delta D n : Z) (dst dst' : list Z) : Prop :=
  length dst' = length dst ∧ bytes_ok dst' ∧
  ∀ k, 0 <= k ->
    bitat dst' k = if (D <=? k) && (k <? D + n) then bitat src (k + delta) else bitat dst k.

Lemma patched_nil src delta D dst : bytes_ok dst -> patched src delta D 0 dst dst.
Proof. intros; split_and!; auto. intros k Hk. zcases; done. Qed.

Lemma patched_trans src delta D n m d0 d1 d2 :
  0 <= n -> 0 <= m ->
  patched src delta D n d0 d1 -> patched src delta (D + n) m d1 d2 ->
  patched src delta D (n + m) d0 d2.
Proof.
  intros Hn Hm (L1 & B1 & P1) (L2 & B2 & P2). split_and!; [congruence|done|].
  intros k Hk. rewrite P2, P1 by lia. zcases; done.
Qed.

(** One byte stored. *)
Lemma patched_store src delta dst p v lo n :
  bytes_ok dst -> byte_ok v -> 0 <= p < Z.of_nat (length dst) -> 0 <= lo -> 0 <= n -> lo + n <= 8 ->
  (∀ j, 0 <= j <= 7 ->
     bbit v j = if (lo <=? j) && (j <? lo + n) then bitat src (8 * p + j + delta)
                else bitat dst (8 * p + j)) ->
  patched src delta (8 * p + lo) n dst (<[Z.to_nat p := v]> dst).
Proof.
  intros Hd Hv Hp Hlo Hn Hln H. split_and!; [by rewrite length_insert|eauto with bytes|].
  intros k Hk. rewrite bitat_insert by lia.
  pose proof (Z.div_mod k 8) ltac:(lia). pose proof (Z.mod_pos_bound k 8) ltac:(lia).
  zcases; cbn [andb]; try (rewrite H by lia; zcases; cbn [andb]);
    try (f_equal; lia).
Qed.

(** ** The three kinds of step *)

Lemma copy_start_bits_spec n d m b :
  byte_ok d -> byte_ok b -> 0 <= m <= 7 -> 0 < n ->
  (∀ j, m <= j <= 7 -> bbit d j = false) -> (∀ j, 0 <= j < m -> bbit b j = false) ->
  ∃ d' b', copy_start_bits n d m b = Some (n - Z.min n (8 - m), d', b') ∧
    byte_ok d' ∧ byte_ok b' ∧
    ∀ j, 0 <= j <= 7 ->
      bbit (Z.lor d' b') j = if (m <=? j) && (j <? m + Z.min n (8 - m)) then bbit b j else bbit d j.
Proof.
  intros Hd Hb Hm Hn Zd Zb. unfold copy_start_bits, CHAR_BIT.
  assert (∃ v, load mask_bits m = Some v ∧ byte_ok v ∧
            ∀ j, 0 <= j < m -> bbit v j = true) as (v & -> & Hv & Ev).
  { destruct (Z.eq_dec m 0) as [->|]; [exists 0x55; split_and!; [done|unfold byte_ok; lia|lia]|].
    destruct (mask_bits_spec m) as (v & ? & ? & E); [lia|]. exists v; split_and!; auto.
    intros j Hj. rewrite E by lia. zcases; done. }
  cbn [mbind option_bind]. destruct (Z.leb_spec (8 - m) n).
  - exists (Z.land d v), b. rewrite Z.min_r by lia. split_and!; eauto with bytes.
    intros j Hj. rewrite bbit_lor, bbit_land.
    zcases; cbn [andb]; rewrite ?Zd, ?Zb, ?Ev by lia; by bool_simpl.
  - destruct (xor_mask_bits_spec (m + n + 1)) as (x & -> & Hx & Ex); [lia|].
    destruct (mask_bits_spec (m + n)) as (y & -> & Hy & Ey); [lia|].
    cbn [mbind option_bind]. exists (Z.land d (Z.lor v x)), (Z.land b y).
    rewrite Z.min_l by lia. split_and!; eauto with bytes; [repeat f_equal; lia|].
    intros j Hj. rewrite bbit_lor, !bbit_land, bbit_lor, Ex, Ey by lia.
    zcases; cbn [andb]; rewrite ?Zd, ?Zb, ?Ev by lia; by bool_simpl.
Qed.

Lemma copy_bytes_shifted_spec n src ps l delta dst pd :
  bytes_ok src -> bytes_ok dst -> 1 <= l <= 7 -> 0 <= ps -> 0 <= pd ->
  (n = 0%nat ∨ ps + Z.of_nat n < Z.of_nat (length src)) ->
  pd + Z.of_nat n <= Z.of_nat (length dst) -> delta = 8 * ps + l - 8 * pd ->
  ∃ dst', copy_bytes_shifted n src ps l (8 - l) dst pd = Some (dst', ps + Z.of_nat n, pd + Z.of_nat n) ∧
    patched src delta (8 * pd) (8 * Z.of_nat n) dst dst'.
Proof.
  revert ps pd dst. induction n as [|n IH]; intros ps pd dst Hs Hd Hl Hps Hpd Hn Hlen Hdelta.
  - exists dst. cbn [copy_bytes_shifted]. rewrite !Z.add_0_r. auto using patched_nil.
  - destruct (shifted_byte_spec src ps l) as (b & Eb & Hb & Bb); [auto|lia..|].
    cbn [copy_bytes_shifted]. obind Eb. rewrite store_Some by lia. cbn [mbind option_bind].
    destruct (IH (ps + 1) (pd + 1) (<[Z.to_nat pd:=b]> dst)) as (dst' & E & P);
      [done|eauto with bytes|rewrite ?length_insert; lia..|].
    exists dst'. rewrite E. split; [f_equal; f_equal; [f_equal|]; lia|].
    replace (8 * Z.of_nat (S n)) with (8 + 8 * Z.of_nat n) by lia.
    apply patched_trans with (<[Z.to_nat pd:=b]> dst); [lia..| |].
    + replace (8 * pd) with (8 * pd + 0) by lia. apply patched_store; try lia; auto.
      intros j Hj. rewrite Bb by lia. zcases; cbn [andb]. f_equal; lia.
    + by replace (8 * pd + 8) with (8 * (pd + 1)) by lia.
Qed.

Lemma memcpy_spec n src ps delta dst pd :
  bytes_ok src -> bytes_ok dst -> 0 <= ps -> 0 <= pd ->
  ps + Z.of_nat n <= Z.of_nat (length src) ->
  pd + Z.of_nat n <= Z.of_nat (length dst) -> delta = 8 * ps - 8 * pd ->
  ∃ dst', memcpy n src ps dst pd = Some dst' ∧ patched src delta (8 * pd) (8 * Z.of_nat n) dst dst'.
Proof.
  revert ps pd dst. induction n as [|n IH]; intros ps pd dst Hs Hd Hps Hpd Hn Hlen Hdelta.
  - exists dst. auto using patched_nil.
  - cbn [memcpy]. rewrite load_Some by lia. cbn [mbind option_bind].
    rewrite store_Some by lia. cbn [mbind option_bind].
    set (b := byteat src (Z.to_nat ps)).
    destruct (IH (ps + 1) (pd + 1) (<[Z.to_nat pd:=b]> dst)) as (dst' & E & P);
      [done|unfold b; eauto with bytes|rewrite ?length_insert; lia..|].
    exists dst'. split; [done|].
    replace (8 * Z.of_nat (S n)) with (8 + 8 * Z.of_nat n) by lia.
    apply patched_trans with (<[Z.to_nat pd:=b]> dst); [lia..| |].
    + replace (8 * pd) with (8 * pd + 0) by lia. apply patched_store; try lia; unfold b; eauto with bytes.
      intros j Hj. zcases; cbn [andb].
      replace (8 * pd + j + delta) with (8 * ps + j) by lia. by rewrite bitat_split by lia.
    + by replace (8 * pd + 8) with (8 * (pd + 1)) by lia.
Qed.

(** The last, partial byte of a copy. *)
Lemma update_tail_spec src delta dst p b c :
  bytes_ok dst -> byte_ok b -> 0 <= p < Z.of_nat (length dst) -> 1 <= c <= 7 ->
  (∀ j, 0 <= j < c -> bbit b j = bitat src (8 * p + j + delta)) ->
  ∃ m xm, load mask_bits c = Some m ∧ load xor_mask_bits c = Some xm ∧
    ∃ dst', update_byte dst p xm (Z.land b m) = Some dst' ∧ patched src delta (8 * p) c dst dst'.
Proof.
  intros Hd Hb Hp Hc Bb.
  destruct (mask_bits_spec c) as (m & Em & Hm & Bm); [lia|].
  destruct (xor_mask_bits_spec c) as (x & Ex & Hx & Bx); [lia|].
  exists m, x. split_and!; auto. unfold update_byte. rewrite load_Some by lia.
  cbn [mbind option_bind]. rewrite store_Some by lia. eexists; split; [done|].
  replace (8 * p) with (8 * p + 0) by lia. apply patched_store; try lia; eauto with bytes.
  intros j Hj. rewrite bbit_lor, !bbit_land, Bm, Bx by lia. rewrite bitat_split by lia.
  zcases; cbn [andb]; bool_simpl; try rewrite Bb by lia; done.
Qed.

(** The first, partial byte of a copy, into zero bits. *)
Lemma start_byte_spec src delta dst p m n cb :
  bytes_ok dst -> byte_ok cb -> 0 <= p < Z.of_nat (length dst) -> 0 <= m <= 7 -> 0 < n ->
  (∀ j, m <= j <= 7 -> bitat dst (8 * p + j) = false) ->
  (∀ j, 0 <= j < m -> bbit cb j = false) ->
  (∀ j, m <= j <= 7 -> bbit cb j = bitat src (8 * p + j + delta)) ->
  ∃ d' cb' dst', copy_start_bits n (byteat dst (Z.to_nat p)) m cb = Some (n - Z.min n (8 - m), d', cb') ∧
    store dst p (Z.lor d' cb') = Some dst' ∧
    patched src delta (8 * p + m) (Z.min n (8 - m)) dst dst'.
Proof.
  intros Hd Hb Hp Hm Hn Z0 Zb Bb.
  destruct (copy_start_bits_spec n (byteat dst (Z.to_nat p)) m cb) as (d' & b' & E & ? & ? & B);
    eauto with bytes.
  { intros j Hj. rewrite <- bitat_split by lia. apply Z0; lia. }
  exists d', b'. rewrite store_Some by lia. eexists; split; [done|]. split; [done|].
  apply patched_store; try lia; eauto with bytes.
  intros j Hj. rewrite B by lia. rewrite bitat_split by lia. zcases; cbn [andb]; try done.
  all: try (apply Bb; lia).
Qed.

(** ** The copier is a bit copy into zero bits *)

(** The source bytes a copy of [n] bits from bit [so] to bit [off] may load: one
    byte more than it needs, unless the destination run ends a byte. *)
Definition src_room (src : list Z) (so n off : Z) : Prop :=
  (off + n) mod 8 = 0 ∧ so + n <= 8 * Z.of_nat (length src) ∨
  so + n + 8 <= 8 * Z.of_nat (length src).

Ltac divlia := unfold src_room in *; Z.div_mod_to_equations; lia.

Lemma first_shifted_spec src ps ms pd md n :
  bytes_ok src -> 0 <= ps -> 0 <= ms <= 7 -> 0 <= md <= 7 -> ms ≠ md -> 0 < n ->
  src_room src (8 * ps + ms) n (8 * pd + md) ->
  ∃ l cb ps1, first_shifted src ps ms md = Some (l, 8 - l, cb, ps1) ∧ 1 <= l <= 7 ∧
    byte_ok cb ∧ 0 <= ps1 ∧ 8 * ps1 + l = 8 * ps + ms + (8 - md) ∧
    (∀ j, 0 <= j < md -> bbit cb j = false) ∧
    (∀ j, md <= j <= 7 -> bbit cb j = bitat src (8 * pd + j + (8 * ps + ms - (8 * pd + md)))).
Proof.
  intros Hs Hps Hms Hmd Hne Hn Hroom. unfold first_shifted, CHAR_BIT.
  destruct (xor_mask_bits_spec md) as (x & Ex & Hx & Bx); [lia|]. obind Ex.
  destruct (Z.ltb_spec md ms).
  - destruct (shifted_byte_spec src ps (ms - md)) as (b & Eb & Hb & Bb); [auto|divlia..|].
    obind Eb. exists (ms - md), (Z.land b x), (ps + 1). split_and!; eauto with bytes; try lia.
    + intros j Hj. rewrite bbit_land, Bx by lia. zcases; by bool_simpl.
    + intros j Hj. rewrite bbit_land, Bx, Bb by lia. zcases; bool_simpl; f_equal; lia.
  - rewrite load_Some by divlia. cbn [mbind option_bind].
    exists (8 - (md - ms)), (Z.land (Z.shiftr (byteat src (Z.to_nat ps)) (md - ms)) x), ps.
    split_and!; try lia.
    + by replace (8 - (8 - (md - ms))) with (md - ms) by lia.
    + apply byte_ok_land_l, byte_ok_shiftr; [eauto with bytes|lia].
    + intros j Hj. rewrite bbit_land, Bx by lia. zcases; by bool_simpl.
    + intros j Hj. rewrite bbit_land, Bx, bbit_shiftr by (eauto with bytes; lia).
      zcases; bool_simpl.
      replace (8 * pd + j + _) with (8 * ps + (j - (md - ms))) by lia.
      by rewrite bitat_split by lia.
Qed.

Lemma copy_rest_shifted_spec src ps l c dst pd :
  bytes_ok src -> bytes_ok dst -> 0 <= ps -> 0 <= pd -> 1 <= l <= 7 -> 0 <= c ->
  8 * pd + c <= 8 * Z.of_nat (length dst) ->
  (c = 0 ∨ src_room src (8 * ps + l) c 0) ->
  ∃ dst', copy_rest_shifted src ps l (8 - l) c dst pd = Some dst' ∧
    patched src (8 * ps + l - 8 * pd) (8 * pd) c dst dst'.
Proof.
  intros Hs Hd Hps Hpd Hl Hc Hlen Hroom. unfold copy_rest_shifted, CHAR_BIT.
  set (delta := 8 * ps + l - 8 * pd).
  destruct (copy_bytes_shifted_spec (Z.to_nat (c / 8)) src ps l delta dst pd) as (d2 & E & P);
    auto; try lia; [divlia..|].
  obind E. rewrite Z2Nat.id in * by divlia. destruct (Z.ltb_spec 0 (c mod 8)).
  - destruct (shifted_byte_spec src (ps + c / 8) l) as (b & Eb & Hb & Bb); [auto|divlia..|].
    obind Eb. pose proof P as (L & B & _).
    destruct (update_tail_spec src delta d2 (pd + c / 8) b (c mod 8)) as (m & xm & -> & -> & d3 & E3 & P3);
      auto; [divlia..| |].
    { intros j Hj. rewrite Bb by divlia. f_equal; lia. }
    cbn [mbind option_bind]. exists d3. split; [done|].
    replace c with (8 * (c / 8) + c mod 8) at 1 by divlia.
    apply patched_trans with d2; [divlia..|done|].
    by replace (8 * pd + 8 * (c / 8)) with (8 * (pd + c / 8)) by lia.
  - exists d2. split; [done|]. by replace c with (8 * (c / 8)) at 1 by divlia.
Qed.

Lemma patched_last src delta D n D' c d0 d1 d2 :
  0 <= n -> 0 <= c -> (c = 0 ∨ D' = D + n) ->
  patched src delta D n d0 d1 -> patched src delta D' c d1 d2 -> patched src delta D (n + c) d0 d2.
Proof.
  intros Hn Hc HD P1 P2. destruct HD as [-> | ->]; [|by eapply patched_trans].
  destruct P1 as (L1 & B1 & P1), P2 as (L2 & B2 & P2). split_and!; [congruence|done|].
  intros k Hk. rewrite P2, P1 by lia. zcases; done.
Qed.

Lemma copybits_misaligned_spec src ps ms n dst pd md :
  bytes_ok src -> bytes_ok dst -> 0 <= ps -> 0 <= pd -> 0 <= ms <= 7 -> 0 <= md <= 7 -> ms ≠ md ->
  0 < n -> 8 * pd + md + n <= 8 * Z.of_nat (length dst) ->
  src_room src (8 * ps + ms) n (8 * pd + md) ->
  (∀ j, md <= j <= 7 -> bitat dst (8 * pd + j) = false) ->
  ∃ dst', copybits_misaligned src ps ms n dst pd md = Some dst' ∧
    patched src (8 * ps + ms - (8 * pd + md)) (8 * pd + md) n dst dst'.
Proof.
  intros Hs Hd Hps Hpd Hms Hmd Hne Hn Hlen Hroom Hz. unfold copybits_misaligned.
  destruct (first_shifted_spec src ps ms pd md n) as (l & cb & ps1 & E & Hl & Hcb & Hps1 & El & Zcb & Bcb);
    auto.
  obind E. rewrite load_Some by lia. cbn [mbind option_bind].
  destruct (start_byte_spec src (8 * ps + ms - (8 * pd + md)) dst pd md n cb) as (d' & cb' & d1 & E1 & E2 & P1); eauto; [lia|].
  obind E1. obind E2. pose proof P1 as (L1 & B1 & _).
  destruct (copy_rest_shifted_spec src ps1 l (n - Z.min n (8 - md)) d1 (pd + 1)) as (d2 & E3 & P2);
    auto; [lia..|divlia|]. 
  exists d2. split; [done|].
  replace n with (Z.min n (8 - md) + (n - Z.min n (8 - md))) at 1 by lia.
  apply patched_last with (D' := 8 * (pd + 1)) (d1 := d1); [lia..|exact P1|].
  by replace (8 * ps + ms - (8 * pd + md)) with (8 * ps1 + l - 8 * (pd + 1)) by lia.
Qed.

Lemma copy_rest_aligned_spec src ps c dst pd :
  bytes_ok src -> bytes_ok dst -> 0 <= ps -> 0 <= pd -> 0 <= c ->
  8 * pd + c <= 8 * Z.of_nat (length dst) -> 8 * ps + c <= 8 * Z.of_nat (length src) ->
  ∃ dst', copy_rest_aligned src ps c dst pd = Some dst' ∧
    patched src (8 * ps - 8 * pd) (8 * pd) c dst dst'.
Proof.
  intros Hs Hd Hps Hpd Hc Hlen Hroom. unfold copy_rest_aligned, CHAR_BIT.
  set (delta := 8 * ps - 8 * pd).
  destruct (memcpy_spec (Z.to_nat (c / 8)) src ps delta dst pd) as (d2 & E & P); auto; [divlia..|].
  obind E. rewrite Z2Nat.id in * by divlia. destruct (Z.ltb_spec 0 (c mod 8)).
  - rewrite (load_Some src) by divlia. pose proof P as (L & B & _). cbn [mbind option_bind].
    destruct (update_tail_spec src delta d2 (pd + c / 8) (byteat src (Z.to_nat (ps + c / 8))) (c mod 8))
      as (m & xm & -> & -> & d3 & E3 & P3); eauto with bytes; [divlia..| |].
    { intros j Hj. rewrite <- bitat_split by divlia. f_equal; lia. }
    cbn [mbind option_bind]. exists d3. rewrite Z.land_comm. split; [done|].
    replace c with (8 * (c / 8) + c mod 8) at 1 by divlia.
    apply patched_trans with d2; [divlia..|done|].
    by replace (8 * pd + 8 * (c / 8)) with (8 * (pd + c / 8)) by lia.
  - exists d2. split; [done|]. by replace c with (8 * (c / 8)) at 1 by divlia.
Qed.

Lemma copybits_aligned_spec src ps n dst pd m :
  bytes_ok src -> bytes_ok dst -> 0 <= ps -> 0 <= pd -> 0 <= m <= 7 -> 0 < n ->
  8 * pd + m + n <= 8 * Z.of_nat (length dst) -> 8 * ps + m + n <= 8 * Z.of_nat (length src) ->
  (∀ j, m <= j <= 7 -> bitat dst (8 * pd + j) = false) ->
  ∃ dst', copybits_aligned src ps m n dst pd m = Some dst' ∧
    patched src (8 * ps + m - (8 * pd + m)) (8 * pd + m) n dst dst'.
Proof.
  intros Hs Hd Hps Hpd Hm Hn Hlen Hroom Hz. unfold copybits_aligned.
  replace (8 * ps + m - (8 * pd + m)) with (8 * ps - 8 * pd) by lia.
  destruct (Z.ltb_spec 0 m) as [Hm0|Hm0].
  - destruct (xor_mask_bits_spec m) as (x & Ex & Hx & Bx); [lia|]. obind Ex.
    rewrite !load_Some by lia. cbn [mbind option_bind].
    set (b := byteat src (Z.to_nat ps)).
    destruct (start_byte_spec src (8 * ps - 8 * pd) dst pd m n (Z.land x b)) as (d' & cb' & d1 & E1 & E2 & P1);
      auto with bytes; [lia|..].
    { intros j Hj. rewrite bbit_land, Bx by lia. zcases; done. }
    { intros j Hj. rewrite bbit_land, Bx by lia. zcases; cbn [andb]. unfold b.
      rewrite <- bitat_split by lia. f_equal; lia. }
    obind E1. obind E2. pose proof P1 as (L1 & B1 & _).
    destruct (copy_rest_aligned_spec src (ps + 1) (n - Z.min n (8 - m)) d1 (pd + 1)) as (d2 & E3 & P2);
      auto; [lia..|].
    exists d2. split; [done|].
    replace n with (Z.min n (8 - m) + (n - Z.min n (8 - m))) at 1 by lia.
    apply patched_last with (D' := 8 * (pd + 1)) (d1 := d1); [lia..|exact P1|].
    by replace (8 * ps - 8 * pd) with (8 * (ps + 1) - 8 * (pd + 1)) by lia.
  - assert (m = 0) as -> by lia. rewrite !Z.add_0_r in *. apply copy_rest_aligned_spec; auto; lia.
Qed.

(** The copier writes exactly the bits asked for when the destination is zero
    from the first of them on. *)
Lemma copybits_spec src so n dst base off :
  bytes_ok src -> bytes_ok dst -> 0 <= so -> 0 <= base -> 0 <= off -> 0 < n ->
  8 * base + off + n <= 8 * Z.of_nat (length dst) -> src_room src so n off ->
  (∀ k, 8 * base + off <= k -> bitat dst k = false) ->
  ∃ dst', copybits src so n dst base off = Some (n, dst') ∧
    patched src (so - (8 * base + off)) (8 * base + off) n dst dst'.
Proof.
  intros Hs Hd Hso Hb Hoff Hn Hlen Hroom Hz. unfold copybits, CHAR_BIT.
  rewrite (proj2 (Z.ltb_ge n 1)) by lia.
  set (ps := so / 8). set (ms := so mod 8). set (pd := base + off / 8). set (md := off mod 8).
  assert (so = 8 * ps + ms ∧ 8 * base + off = 8 * pd + md ∧ 0 <= ms <= 7 ∧ 0 <= md <= 7 ∧ 0 <= ps ∧ 0 <= pd)
    as (Eso & Ed & ? & ? & ? & ?) by (subst ps ms pd md; divlia).
  assert (src_room src (8 * ps + ms) n (8 * pd + md)) by (rewrite <- Eso, <- Ed; divlia).
  rewrite Eso, Ed in *.
  destruct (Z.eqb_spec ms md) as [E|E].
  - rewrite <- E in *. destruct (copybits_aligned_spec src ps n dst pd ms) as (d & -> & P);
      auto; [divlia|intros; apply Hz; lia|]. exists d. split; [done|]. exact P.
  - destruct (copybits_misaligned_spec src ps ms n dst pd md) as (d & -> & P);
      auto; [intros; apply Hz; lia|]. exists d. split; [done|]. exact P.
Qed.

(** ** Messages as bit strings *)

(** [holds buf w]: the bits written to [buf] so far are [w], and the rest of the
    buffer is still zero. *)
Definition holds (buf : list Z) (w : list bool) : Prop :=
  bytes_ok buf ∧ Z.of_nat (length w) <= 8 * Z.of_nat (length buf) ∧
  ∀ k, 0 <= k -> bitat buf k = nth (Z.to_nat k) w false.

Lemma bitat_beyond m k : 8 * Z.of_nat (length m) <= k -> bitat m k = false.
Proof.
  intros H. unfold bitat.
  unfold byteat. rewrite lookup_ge_None_2; [|divlia].
  cbn. unfold bbit. apply Z.testbit_0_l.
Qed.

Lemma holds_zero n : holds (repeat 0 n) [].
Proof.
  split_and!.
  - apply List.Forall_forall. intros b Hb%repeat_spec. subst. unfold byte_ok; lia.
  - cbn; lia.
  - intros k Hk. assert (byteat (repeat 0 n) (Z.to_nat (k / 8)) = 0) as E.
    { unfold byteat. destruct (repeat 0 n !! Z.to_nat (k / 8)) eqn:E; [|done].
      apply list_elem_of_lookup_2 in E. rewrite list_elem_of_In in E. by apply repeat_spec in E. }
    unfold bitat. rewrite E. unfold bbit. rewrite Z.testbit_0_l. by destruct (Z.to_nat k).
Qed.

Lemma holds_inj a b w : holds a w -> holds b w -> length a = length b -> a = b.
Proof.
  intros (Ha & _ & Ba) (Hb & _ & Bb) L. apply list_eq_same_length with (length a); auto.
  intros i x y Hi Hx Hy.
  apply byte_ext; [eauto using bytes_ok_lookup..|]. intros j Hj.
  specialize (Ba (8 * Z.of_nat i + j) ltac:(lia)). specialize (Bb (8 * Z.of_nat i + j) ltac:(lia)).
  rewrite bitat_split, Nat2Z.id in Ba, Bb by lia.
  rewrite (byteat_lookup _ _ _ Hx) in Ba. rewrite (byteat_lookup _ _ _ Hy) in Bb.
  congruence.
Qed.

Lemma bytes_ok_be_bytes v over : byte_ok over -> bytes_ok (be_bytes v ++ [over]).
Proof.
  intros H. apply Forall_app; split; [|by constructor].
  apply List.Forall_forall. intros b (i & <- & _)%in_map_iff.
  apply byte_ok_uwrap.
Qed.

Lemma bitat_be_bytes v over k : 0 <= k < 64 -> bitat (be_bytes v ++ [over]) k = Z.testbit v (63 - k).
Proof.
  intros Hk. pose proof (Z.div_mod k 8 ltac:(lia)). pose proof (Z.mod_pos_bound k 8 ltac:(lia)).
  unfold bitat. set (q := k / 8) in *. set (j := k mod 8) in *.
  assert (byteat (be_bytes v ++ [over]) (Z.to_nat q) = uwrap 8 (Z.shiftr v (8 * (7 - q)))) as ->.
  { assert (Hq : 0 <= q <= 7) by lia. pose proof Hq as Hq'. clearbody q. clear - Hq Hq'.
    enum8 q Hq; try lia; reflexivity. }
  unfold bbit. rewrite uwrap_testbit, Z.shiftr_spec by lia. zcases. cbn [andb]. f_equal; lia.
Qed.

(** [encode_bits] at the end of what is written so far appends the low
    [bit_count] bits of the value, and writes nothing else. *)
Lemma encode_bits_over_spec over buf w v n base off :
  byte_ok over -> holds buf w -> 1 <= n <= 64 -> 0 <= base -> 0 <= off ->
  8 * base + off = Z.of_nat (length w) -> Z.of_nat (length w) + n <= 8 * Z.of_nat (length buf) ->
  ∃ buf', encode_bits_over over v n buf base off = Some (n, buf') ∧
    holds buf' (w ++ nbits (Z.to_nat n) v) ∧ length buf' = length buf.
Proof.
  intros Hover (Hb & Hw & Bw) Hn Hbase Hoff HD Hlen. unfold encode_bits_over.
  assert (L9 : length (be_bytes v ++ [over]) = 9%nat) by done.
  destruct (copybits_spec (be_bytes v ++ [over]) (64 - n) n buf base off) as (buf' & E & L & B & P);
    auto using bytes_ok_be_bytes; try lia.
  { unfold src_room. rewrite L9. lia. }
  { intros k Hk. rewrite Bw, nth_overflow by lia. done. }
  exists buf'. split; [done|]. split; [|done]. split; [done|]. split.
  - rewrite length_app, length_nbits, L. lia.
  - intros k Hk. rewrite P, HD by lia. zcases; cbn [andb].
    + rewrite bitat_be_bytes, app_nth2, nbits_nth by lia. f_equal; lia.
    + rewrite Bw, !nth_overflow; rewrite ?length_app, ?length_nbits; try lia; done.
    + by rewrite Bw, app_nth1 by lia.
Qed.

Lemma encode_bits_spec buf w v n base off :
  holds buf w -> 1 <= n <= 64 -> 0 <= base -> 0 <= off ->
  8 * base + off = Z.of_nat (length w) -> Z.of_nat (length w) + n <= 8 * Z.of_nat (length buf) ->
  ∃ buf', encode_bits v n buf base off = Some (n, buf') ∧
    holds buf' (w ++ nbits (Z.to_nat n) v) ∧ length buf' = length buf.
Proof. intros; apply encode_bits_over_spec; auto. unfold byte_ok; lia. Qed.

(** ** Decoding *)

(** The bits of a buffer from [off] on, as a number. *)
Definition slice (buf : list Z) (off : Z) (n : nat) : list bool :=
  map (fun i => bitat buf (off + Z.of_nat i)) (seq 0 n).

Definition bits_of (m : list Z) : list bool := concat (map (nbits 8) m).

Lemma of_bits_cons_app l m : of_bits (l ++ m) = of_bits l * 2 ^ Z.of_nat (length m) + of_bits m.
Proof.
  revert l; induction m as [|b m IH] using rev_ind; intros l.
  - rewrite app_nil_r. cbn. lia.
  - rewrite app_assoc, !of_bits_app, IH, length_app. cbn [length].
    rewrite Nat2Z.inj_add, Z.pow_add_r by lia. cbn -[Z.mul Z.pow]. lia.
Qed.

Lemma of_bits_zeros n l : of_bits (repeat false n ++ l) = of_bits l.
Proof.
  induction n as [|n IH]; [done|]. change (repeat false (S n) ++ l) with ([false] ++ (repeat false n ++ l)).
  rewrite of_bits_cons_app, IH. cbn. lia.
Qed.

Lemma of_be_bytes_bits l : bytes_ok l -> of_be_bytes l = of_bits (bits_of l).
Proof.
  induction l as [|b l IH] using rev_ind; [done|]. intros H.
  apply Forall_app in H as [Hl Hb]. rewrite Forall_singleton in Hb.
  unfold of_be_bytes, bits_of in *. rewrite foldl_app, map_app, concat_app. cbn [foldl map concat].
  rewrite app_nil_r, of_bits_cons_app, length_nbits, IH, of_bits_nbits by done.
  change (2 ^ Z.of_nat 8) with 256. rewrite (Z.mod_small b 256) by (unfold byte_ok in *; lia). lia.
Qed.

Lemma seq_from n m : seq n m = map (Nat.add n) (seq 0 m).
Proof.
  change (map (Nat.add n) (seq 0 m)) with (Nat.add n <$> seq 0 m).
  by rewrite fmap_add_seq, Nat.add_0_r.
Qed.

Lemma bits_of_slice m : bits_of m = slice m 0 (8 * length m).
Proof.
  unfold bits_of, slice. induction m as [|b m IH]; [done|].
  cbn [map concat]. rewrite IH. replace (8 * length (b :: m))%nat with (8 + 8 * length m)%nat by (cbn; lia).
  rewrite seq_app, map_app. f_equal.
  rewrite Nat.add_0_l, (seq_from 8), map_map. apply map_ext. intros i.
  replace (0 + Z.of_nat (8 + i)) with (8 * 1 + Z.of_nat i) by lia.
  unfold bitat. replace ((8 * 1 + Z.of_nat i) / 8) with (Z.of_nat i / 8 + 1) by divlia.
  replace ((8 * 1 + Z.of_nat i) mod 8) with (Z.of_nat i mod 8) by divlia.
  replace (Z.to_nat (Z.of_nat i / 8 + 1)) with (S (Z.to_nat (Z.of_nat i / 8))) by divlia. done.
Qed.

Lemma slice_app buf off n m : slice buf off (n + m) = slice buf off n ++ slice buf (off + Z.of_nat n) m.
Proof.
  unfold slice. rewrite seq_app, map_app, Nat.add_0_l. f_equal.
  rewrite (seq_from n), map_map. apply map_ext. intros i. f_equal; lia.
Qed.

Lemma slice_ext a b off off' n :
  (∀ i, 0 <= i < Z.of_nat n -> bitat a (off + i) = bitat b (off' + i)) -> slice a off n = slice b off' n.
Proof.
  intros H. apply map_ext_in. intros i Hi%in_seq. apply H. lia.
Qed.

Lemma slice_false a off n :
  (∀ i, 0 <= i < Z.of_nat n -> bitat a (off + i) = false) -> slice a off n = repeat false n.
Proof.
  revert off. induction n as [|n IH]; intros off H; [done|].
  change (S n) with (1 + n)%nat. rewrite slice_app.
  change (repeat false (1 + n)) with ([false] ++ repeat false n). f_equal.
  - unfold slice. cbn [seq map]. change (Z.of_nat 0) with 0. rewrite H by lia. done.
  - apply IH. intros i Hi. replace (off + Z.of_nat 1 + i) with (off + (i + 1)) by lia. apply H; lia.
Qed.

(** Reading a field gives the number its bits spell. *)
Lemma decode_bits_slice buf off n d :
  bytes_ok buf -> 0 <= off -> 1 <= n <= 64 -> off + n <= 8 * Z.of_nat (length buf) ->
  decode_bits buf off n d = Some (of_bits (slice buf off (Z.to_nat n)), n).
Proof.
  intros Hb Hoff Hn Hlen. unfold decode_bits.
  rewrite (proj2 (Z.ltb_ge 64 n)), (proj2 (Z.ltb_ge n 1)) by lia. cbn [orb].
  unfold copy_bits_right_aligned.
  assert (uwrap 16 ((8 - bits_to_bytes n) * CHAR_BIT + CHAR_BIT - find_end_bit n) = 64 - n) as ->.
  { unfold bits_to_bytes, find_end_bit, CHAR_BIT.
    rewrite (uwrap_small 8 (n / 8)) by divlia.
    destruct (Z.eqb_spec (n mod 8) 0); rewrite ?(uwrap_small 8 (n / 8 + 1)) by divlia;
      rewrite uwrap_small; divlia. }
  destruct (holds_zero 8) as (H0 & _ & B0).
  destruct (copybits_spec buf off n (repeat 0 8) 0 (64 - n)) as (dst & -> & L & Hd & P);
    auto; try lia; [cbn; lia|unfold src_room; left; split; [|lia]| |].
  { replace (64 - n + n) with 64 by lia. done. }
  { intros k Hk. rewrite B0 by lia. by destruct (Z.to_nat k). }
  cbn [mbind option_bind]. rewrite (proj2 (Z.eqb_neq n 0)) by lia. cbn [negb].
  f_equal. f_equal. rewrite of_be_bytes_bits, bits_of_slice, L by done.
  change (8 * length (repeat 0%Z 8))%nat with 64%nat.
  replace 64%nat with ((64 - Z.to_nat n) + Z.to_nat n)%nat by lia.
  rewrite slice_app, slice_false.
  - rewrite of_bits_zeros. f_equal. apply slice_ext. intros i Hi.
    rewrite P by lia. zcases; cbn [andb]. f_equal; lia.
  - intros i Hi. rewrite P by lia. zcases; cbn [andb]. rewrite B0 by lia. by destruct (Z.to_nat (0 + i)).
Qed.

Lemma slice_holds buf pre mid post :
  holds buf (pre ++ mid ++ post) -> slice buf (Z.of_nat (length pre)) (length mid) = mid.
Proof.
  intros (_ & _ & B). apply nth_ext with false false.
  - unfold slice. by rewrite length_map, length_seq.
  - intros i Hi. unfold slice in *. rewrite length_map, length_seq in Hi.
    rewrite (nth_indep _ false (bitat buf (Z.of_nat (length pre) + Z.of_nat 0)))
      by (rewrite length_map, length_seq; lia).
    rewrite (map_nth (fun i => bitat buf (Z.of_nat (length pre) + Z.of_nat i))), seq_nth by lia.
    rewrite B, app_nth2, app_nth1 by lia. f_equal; lia.
Qed.

(** Reading the field that [encode_bits] wrote there. *)
Lemma decode_bits_holds buf pre v n post d :
  1 <= n <= 64 -> holds buf (pre ++ nbits (Z.to_nat n) v ++ post) ->
  decode_bits buf (Z.of_nat (length pre)) n d = Some (v mod 2 ^ n, n).
Proof.
  intros Hn H. pose proof H as (Hb & Hlen & _). rewrite !length_app, length_nbits in Hlen.
  rewrite decode_bits_slice by (auto; lia). do 2 f_equal.
  pose proof (slice_holds _ _ _ _ H) as E. rewrite length_nbits in E. rewrite E, of_bits_nbits.
  by rewrite Z2Nat.id by lia.
Qed.
