(* ===== verification/Codec.v ===== *)
(** * The encoding and decoding idioms of libpfcp

    Every encoder of libpfcp threads a [uint16_t encoded] bit counter and the
    output buffer, every decoder a [uint16_t total_decoded] counter and the
    [uint16_t decoded] count of the last field.  Two small monads model them;
    their operations are the statements the code is written with. *)

From S2P Require Import Prelude EncDecBits.

(** ** Encoders *)

(** The base index of [buf], then the state [(encoded, buffer)]. *)
Definition enc : Type := Z -> Z * list Z -> option (Z * list Z).

(** [encoded += encode_bits(v, n, buf + (encoded/8), encoded % CHAR_SIZE);] *)
Definition put (v n : Z) : enc := fun base '(encoded, buf) =>
  '(k, buf') ← encode_bits v n buf (base + encoded / 8) (encoded mod 8);
  Some (u16 (encoded + k), buf').

(** [memcpy(buf + (encoded/8), src, len); encoded += len * CHAR_SIZE;] *)
Definition putmem (src : list Z) (len : Z) : enc := fun base '(encoded, buf) =>
  buf' ← memcpy (Z.to_nat len) src 0 buf (base + encoded / 8);
  Some (u16 (encoded + len * 8), buf').

(** The same with the element [arr[i]] of an array. *)
Definition put_at (arr : list Z) (i : nat) (n : Z) : enc := fun base st =>
  v ← arr !! i; put v n base st.

(** An encoder as its callers see it: the returned [int] and the buffer. *)
Definition ie_encoder : Type := list Z -> Z -> option (Z * list Z).

(** [encoded += f(..., buf + (encoded/8));] *)
Definition ecall (f : ie_encoder) : enc := fun base '(encoded, buf) =>
  '(k, buf') ← f buf (base + encoded / 8);
  Some (u16 (encoded + k), buf').

(** The same where [encoded] counts bytes: [encoded += f(..., buf + encoded);] *)
Definition ecall_at (f : ie_encoder) : enc := fun base '(encoded, buf) =>
  '(k, buf') ← f buf (base + encoded);
  Some (u16 (encoded + k), buf').

Definition enc_seq (m1 m2 : enc) : enc := fun base st => st' ← m1 base st; m2 base st'.
Definition enc_skip : enc := fun _ st => Some st.
(** [if (c) { m }] *)
Definition enc_when (c : bool) (m : enc) : enc := if c then m else enc_skip.
(** [for (i = 0; i < n; i++) m_i] over the values the bodies put. *)
Fixpoint enc_each (l : list enc) : enc :=
  match l with [] => enc_skip | m :: l' => enc_seq m (enc_each l') end.

(** [return encoded/CHAR_SIZE;] and [return encoded;] *)
Definition enc_bytes (m : enc) : ie_encoder := fun buf base =>
  '(encoded, buf') ← m base (0, buf); Some (encoded / 8, buf').
Definition enc_bits (m : enc) : ie_encoder := fun buf base => m base (0, buf).

Notation "m1 ⨾ m2" := (enc_seq m1 m2) (at level 60, right associativity) : c_scope.
Open Scope c_scope.

(** [for (uint8_t i = 0; i < n; i++) body(arr[i])], from [i] on, [n] turns. *)
Fixpoint enc_for {T} (arr : list T) (i n : nat) (body : T -> enc) : enc :=
  match n with
  | O => enc_skip
  | S n' => fun base st => x ← arr !! i; (body x ⨾ enc_for arr (S i) n' body) base st
  end.

(** ** Decoders *)

(** The input from the pointer on, then the state [(total_decoded, decoded)]. *)
Definition dec (A : Type) : Type := list Z -> Z * Z -> option (A * (Z * Z)).

#[global] Instance dec_ret : MRet dec := fun A x _ st => Some (x, st).
#[global] Instance dec_bind : MBind dec := fun A B k m buf st =>
  match m buf st with Some (x, st') => k x buf st' | None => None end.

(** [decode_bits(buf, total_decoded, n, &decoded)] *)
Definition dbits (n : Z) : dec Z := fun buf '(total, decoded) =>
  '(v, decoded') ← decode_bits buf total n decoded; Some (v, (total, decoded')).

(** [total_decoded += decoded;] *)
Definition bump : dec unit := fun _ '(total, decoded) =>
  Some (tt, (u16 (total + decoded), decoded)).

(** The usual pair of the two statements above. *)
Definition get (n : Z) : dec Z := x ← dbits n; _ ← bump; mret x.

(** [memcpy(field, buf + (total_decoded/CHAR_SIZE), len)] *)
Definition dmem (len : Z) : dec (list Z) := fun buf '(total, decoded) =>
  if 0 <=? len then
    l ← memcpy (Z.to_nat len) buf (total / 8) (repeat 0 (Z.to_nat len)) 0;
    Some (l, (total, decoded))
  else None.

(** [total_decoded += n;] *)
Definition advance (n : Z) : dec unit := fun _ '(total, decoded) =>
  Some (tt, (u16 (total + n), decoded)).

(** The pair [memcpy(field, ..., len); total_decoded += len * CHAR_SIZE;] *)
Definition getmem (len : Z) : dec (list Z) := l ← dmem len; _ ← advance (len * 8); mret l.

(** The same into an array member of fixed size: a copy that is longer than the
    array has no result. *)
Definition getmem_into (arr : list Z) (len : Z) : dec (list Z) := fun buf '(total, decoded) =>
  if 0 <=? len then
    l ← memcpy (Z.to_nat len) buf (total / 8) arr 0;
    Some (l, (u16 (total + len * 8), decoded))
  else None.

(** [decoded = n;] *)
Definition set_decoded (n : Z) : dec unit := fun _ '(total, _) => Some (tt, (total, u16 n)).

(** [for (i = ...; i < ...; i++) { arr[i] = decode_bits(..., n, ...); total_decoded += decoded; }] *)
Fixpoint get_each (k : nat) (i : Z) (n : Z) (arr : list Z) : dec (list Z) :=
  match k with
  | O => mret arr
  | S k' => v ← get n;
            match store arr i v with
            | Some arr' => get_each k' (i + 1) n arr'
            | None => fun _ _ => None
            end
  end.

(** [total_decoded], read by a condition. *)
Definition total_now : dec Z := fun _ '(total, decoded) => Some (total, (total, decoded)).

(** [if (c) f = m;] with [old] the value of the field before. *)
Definition dec_when {A} (c : bool) (m : dec A) (old : A) : dec A := if c then m else mret old.

(** [if (c) f += decode_bits(..., n, ...); total_decoded += decoded;]: the
    counter moves by the last decoded width even when the field is absent. *)
Definition get_stale (c : bool) (n w old : Z) : dec Z :=
  x ← dec_when c (y ← dbits n; mret (uwrap w (old + y))) old; _ ← bump; mret x.

(** [if (c) { f += decode_bits(..., n, ...); total_decoded += decoded; }] *)
Definition get_when (c : bool) (n w old : Z) : dec Z :=
  dec_when c (y ← get n; mret (uwrap w (old + y))) old.

Definition ie_decoder (A : Type) : Type := list Z -> option (Z * A).
(** [return total_decoded/CHAR_SIZE;] and [return total_decoded;] *)
Definition dec_bytes {A} (m : dec A) : ie_decoder A := fun buf =>
  '(x, (total, _)) ← m buf (0, 0); Some (total / 8, x).
Definition dec_bits {A} (m : dec A) : ie_decoder A := fun buf =>
  '(x, (total, _)) ← m buf (0, 0); Some (total, x).
(** [total_decoded += f(buf + (total_decoded/CHAR_SIZE), &field);] *)
Definition dcall {A} (f : ie_decoder A) : dec A := fun buf '(total, decoded) =>
  '(k, x) ← f (drop (Z.to_nat (total / 8)) buf);
  Some (x, (u16 (total + k), decoded)).

(** ** Members of a message *)

(** [ntohs] of the two bytes at [p]. *)
Definition ntohs_at (buf : list Z) (p : Z) : option Z :=
  hi ← load buf p; lo ← load buf (p + 1); Some (256 * hi + lo).

(** [count += f(buf + count, &value->m);] with [old] the member and [set] its
    assignment. *)
Definition into {T V} (f : V -> ie_decoder V) (old : V) (set : V -> T -> T) (here : list Z) (value : T)
    : option (Z * T) :=
  '(k, x) ← f old here; Some (k, set x value).

(** [count += f(buf + count, &value->arr[value->n++]);]: the counter is an
    unsigned integer of [w] bits, and an index beyond the array has no result. *)
Definition into_next {T V} (w : Z) (f : V -> ie_decoder V) (arr : list V) (n : Z) (set_arr : list V -> T -> T)
    (set_n : Z -> T -> T) (here : list Z) (value : T) : option (Z * T) :=
  old ← arr !! Z.to_nat n;
  '(k, x) ← f old here;
  Some (k, set_n (uwrap w (n + 1)) (set_arr (<[Z.to_nat n := x]> arr) value)).

(** [while (count < buf_len) { ... }], at most [fuel] turns, with [key] what a turn looks
    at to tell the elements apart.  The loop has no result when an access is out of
    bounds and when it does not end. *)
Fixpoint tlv_loop {K T} (key : list Z -> option K) (step : K -> list Z -> T -> option (Z * T)) (fuel : nat)
    (buf : list Z) (buf_len count : Z) (value : T) : option (Z * T) :=
  if count <? buf_len then
    match fuel with
    | O => None
    | S fuel =>
        let here := drop (Z.to_nat count) buf in
        code ← key here;
        '(k, value) ← step code here value;
        tlv_loop key step fuel buf buf_len (u16 (count + k)) value
    end
  else Some (count, value).

(** A loop of more turns than [count] has values repeats one of them. *)
Definition loop_fuel : nat := Z.to_nat 65536.

(** ** Layouts: the fields of a message in transmission order *)

(** A field is its width in bits and its value. *)
Definition layout : Type := list (Z * Z).
Definition wbits (L : layout) : list bool := concat (map (fun '(n, v) => nbits (Z.to_nat n) v) L).
Definition size (L : layout) : Z := Z.of_nat (length (wbits L)).
(** A run of bytes. *)
Definition octets (l : list Z) : layout := map (fun b => (8, b)) l.

(** [emits a m L]: started at a bit position that is [a] modulo 8, on a buffer
    with room, [m] appends the fields [L]. *)
Definition emits (a : Z) (m : enc) (L : layout) : Prop :=
  ∀ base e buf w, 0 <= base -> 0 <= e -> e mod 8 = a -> holds buf w ->
    8 * base + e = Z.of_nat (length w) ->
    Z.of_nat (length w) + size L <= 8 * Z.of_nat (length buf) -> e + size L < 65536 ->
    ∃ buf', m base (e, buf) = Some (e + size L, buf') ∧ holds buf' (w ++ wbits L) ∧
            length buf' = length buf.

(** [reads a m L x]: at a position that is [a] modulo 8 of a buffer in which the
    fields [L] follow, [m] returns [x] and moves behind them. *)
Definition reads {A} (a : Z) (m : dec A) (L : layout) (x : A) : Prop :=
  ∀ buf pre post t d, holds buf (pre ++ wbits L ++ post) -> Z.of_nat (length pre) = t ->
    t mod 8 = a -> t + size L < 65536 ->
    ∃ d', m buf (t, d) = Some (x, (t + size L, d')).

(** ** Sizes and bits of layouts *)

Lemma wbits_app L1 L2 : wbits (L1 ++ L2) = wbits L1 ++ wbits L2.
Proof. unfold wbits. by rewrite map_app, concat_app. Qed.

Lemma wbits_cons n v L : wbits ((n, v) :: L) = nbits (Z.to_nat n) v ++ wbits L.
Proof. done. Qed.

Lemma size_nil : size [] = 0.
Proof. done. Qed.

Lemma size_app L1 L2 : size (L1 ++ L2) = size L1 + size L2.
Proof. unfold size. rewrite wbits_app, length_app. lia. Qed.

Lemma size_cons n v L : 0 <= n -> size ((n, v) :: L) = n + size L.
Proof. intros. unfold size. rewrite wbits_cons, length_app, length_nbits. lia. Qed.

Lemma size_octets l : size (octets l) = 8 * Z.of_nat (length l).
Proof.
  induction l as [|b l IH]; [done|]. cbn [octets map]. rewrite size_cons by lia.
  unfold octets in IH. rewrite IH. cbn [length]. lia.
Qed.

Lemma size_nonneg L : 0 <= size L.
Proof. unfold size; lia. Qed.

Lemma wbits_octets l : wbits (octets l) = bits_of l.
Proof. unfold wbits, octets, bits_of. by rewrite map_map. Qed.

Lemma size_if (c : bool) L1 L2 : size (if c then L1 else L2) = if c then size L1 else size L2.
Proof. by destruct c. Qed.

Lemma nth_bits_of m k : nth k (bits_of m) false = bitat m (Z.of_nat k).
Proof.
  rewrite bits_of_slice. destruct (Nat.lt_ge_cases k (8 * length m)).
  - unfold slice. rewrite (nth_indep _ false (bitat m (0 + Z.of_nat 0))) by (rewrite length_map, length_seq; lia).
    rewrite (map_nth (fun i => bitat m (0 + Z.of_nat i))), seq_nth by lia. f_equal; lia.
  - rewrite nth_overflow, bitat_beyond; [done|lia|]. unfold slice. rewrite length_map, length_seq; lia.
Qed.

(** ** Encoder rules *)

Lemma emits_skip a : emits a enc_skip [].
Proof.
  intros base e buf w Hb He Ha Hh Hw Hl Hs. exists buf. unfold enc_skip.
  rewrite size_nil, Z.add_0_r, app_nil_r. done.
Qed.

Lemma emits_seq a a' m1 m2 L1 L2 :
  emits a m1 L1 -> a' = (a + size L1) mod 8 -> emits a' m2 L2 -> emits a (m1 ⨾ m2) (L1 ++ L2).
Proof.
  intros H1 -> H2 base e buf w Hb He Ha Hh Hw Hl Hs. rewrite size_app in *.
  pose proof (size_nonneg L1). pose proof (size_nonneg L2).
  destruct (H1 base e buf w) as (b1 & E1 & Hh1 & L1'); auto; try lia.
  destruct (H2 base (e + size L1) b1 (w ++ wbits L1)) as (b2 & E2 & Hh2 & L2'); auto; try lia.
  { rewrite <- Ha. by rewrite Zplus_mod_idemp_l. }
  { rewrite length_app. unfold size. lia. } { rewrite length_app, L1'. unfold size in *. lia. }
  exists b2. unfold enc_seq. obind E1. rewrite E2, wbits_app, app_assoc.
  split; [f_equal; f_equal; lia|]. split; [done|congruence].
Qed.

Lemma emits_put1 a v n : 1 <= n <= 64 -> emits a (put v n) [(n, v)].
Proof.
  intros Hn base e buf w Hb He Ha Hh Hw Hl Hs. rewrite size_cons, size_nil, Z.add_0_r in * by lia.
  destruct (encode_bits_spec buf w v n (base + e / 8) (e mod 8)) as (b' & E & Hh' & L');
    auto; [divlia..|].
  exists b'. unfold put. obind E. rewrite uwrap_small by lia.
  rewrite wbits_cons, app_nil_r. done.
Qed.

Lemma emits_put a a' v n m L :
  1 <= n <= 64 -> a' = (a + n) mod 8 -> emits a' m L -> emits a (put v n ⨾ m) ((n, v) :: L).
Proof.
  intros Hn Ha H. change ((n, v) :: L) with ([(n, v)] ++ L).
  eapply emits_seq; [by apply emits_put1| |exact H].
  rewrite size_cons, size_nil, Z.add_0_r by lia. done.
Qed.

Lemma emits_when a (c : bool) m L : (c = true -> emits a m L) -> emits a (enc_when c m) (if c then L else []).
Proof. destruct c; intros H; [by apply H|apply emits_skip]. Qed.

Lemma emits_putmem src len :
  bytes_ok src -> Z.of_nat (length src) = len -> emits 0 (putmem src len) (octets src).
Proof.
  intros Hs Hlen base e buf w Hb He Ha Hh Hw Hl Hz. rewrite size_octets in *.
  pose proof Hh as (Hbk & Hwl & B).
  destruct (memcpy_spec (Z.to_nat len) src 0 (- (8 * (base + e / 8))) buf (base + e / 8))
    as (b' & E & L & Hb' & P); auto; [divlia..|].
  exists b'. unfold putmem. obind E. rewrite uwrap_small by lia.
  split; [do 2 f_equal; lia|]. split; [|done]. split; [done|]. rewrite length_app, wbits_octets.
  assert (Hbits : length (bits_of src) = (8 * length src)%nat)
    by (rewrite bits_of_slice; unfold slice; by rewrite length_map, length_seq).
  split; [rewrite Hbits; lia|].
  intros k Hk. rewrite P by lia. zcases; cbn [andb]; try divlia.
  - rewrite app_nth2, nth_bits_of by divlia. f_equal; divlia.
  - rewrite B, !nth_overflow; [done|rewrite length_app, Hbits; divlia|divlia|lia].
  - rewrite B, app_nth1 by divlia. done.
Qed.

Lemma emits_ecall a f m L :
  (∀ buf base w, 0 <= base -> holds buf w -> 8 * base = Z.of_nat (length w) ->
     Z.of_nat (length w) + size L <= 8 * Z.of_nat (length buf) -> size L < 65536 ->
     ∃ buf', f buf base = Some (size L, buf') ∧ holds buf' (w ++ wbits L) ∧ length buf' = length buf) ->
  a = size L mod 8 ->
  ∀ L', emits a m L' -> emits 0 (ecall f ⨾ m) (L ++ L').
Proof.
  intros Hf Ha L' Hm. eapply emits_seq; [|rewrite Z.add_0_l; exact Ha|exact Hm].
  intros base e buf w Hb He He8 Hh Hw Hl Hs. pose proof (size_nonneg L).
  destruct (Hf buf (base + e / 8) w) as (b' & E & Hh' & Hl'); auto; [divlia..|].
  exists b'. unfold ecall. obind E. rewrite uwrap_small by lia. done.
Qed.

(** What a finished encoder does. *)
Lemma enc_bits_emits m L buf w base :
  emits 0 m L -> 0 <= base -> holds buf w -> 8 * base = Z.of_nat (length w) ->
  Z.of_nat (length w) + size L <= 8 * Z.of_nat (length buf) -> size L < 65536 ->
  ∃ buf', enc_bits m buf base = Some (size L, buf') ∧ holds buf' (w ++ wbits L) ∧ length buf' = length buf.
Proof. intros H Hb Hh Hw Hl Hs. apply (H base 0); auto; lia. Qed.

Lemma enc_bytes_emits m L buf w base :
  emits 0 m L -> 0 <= base -> holds buf w -> 8 * base = Z.of_nat (length w) ->
  Z.of_nat (length w) + size L <= 8 * Z.of_nat (length buf) -> size L < 65536 ->
  ∃ buf', enc_bytes m buf base = Some (size L / 8, buf') ∧ holds buf' (w ++ wbits L) ∧
          length buf' = length buf.
Proof.
  intros H Hb Hh Hw Hl Hs. destruct (H base 0 buf w) as (b' & E & ?); auto; try lia.
  exists b'. unfold enc_bytes. obind E. done.
Qed.

(** ** Decoder rules *)

Lemma reads_ret {A} a (x : A) : reads a (mret x) [] x.
Proof. intros buf pre post t d Hh Ht Ha Hs. exists d. rewrite size_nil, Z.add_0_r. done. Qed.

Lemma reads_bind {A B} a a' (m : dec A) (k : A -> dec B) L1 L2 x y :
  reads a m L1 x -> a' = (a + size L1) mod 8 -> reads a' (k x) L2 y -> reads a (m ≫= k) (L1 ++ L2) y.
Proof.
  intros H1 -> H2 buf pre post t d Hh Ht Ha Hs. rewrite size_app in *.
  pose proof (size_nonneg L1). pose proof (size_nonneg L2).
  rewrite wbits_app, <- app_assoc in Hh.
  destruct (H1 buf pre (wbits L2 ++ post) t d) as (d1 & E1); auto; [lia|].
  destruct (H2 buf (pre ++ wbits L1) post (t + size L1) d1) as (d2 & E2); try lia.
  { by rewrite <- app_assoc. } { rewrite length_app. unfold size. lia. }
  { rewrite <- Ha. by rewrite Zplus_mod_idemp_l. }
  exists d2. unfold mbind, dec_bind. rewrite E1, E2. do 3 f_equal; lia.
Qed.

Lemma reads_get1 a n v : 1 <= n <= 64 -> 0 <= v < 2 ^ n -> reads a (get n) [(n, v)] v.
Proof.
  intros Hn Hv buf pre post t d Hh Ht Ha Hs. rewrite size_cons, size_nil, Z.add_0_r in * by lia.
  rewrite wbits_cons, app_nil_r in Hh. exists n.
  unfold get, mbind, dec_bind, dbits. rewrite <- Ht.
  rewrite (decode_bits_holds _ _ v n post) by auto. cbn.
  rewrite uwrap_small by lia. rewrite Z.mod_small by lia. done.
Qed.

Lemma reads_get {A} a a' n v (k : Z -> dec A) L y :
  1 <= n <= 64 -> 0 <= v < 2 ^ n -> a' = (a + n) mod 8 ->
  reads a' (k v) L y -> reads a (get n ≫= k) ((n, v) :: L) y.
Proof.
  intros Hn Hv Ha H. change ((n, v) :: L) with ([(n, v)] ++ L).
  eapply reads_bind; [by apply reads_get1| |exact H].
  rewrite size_cons, size_nil, Z.add_0_r by lia. done.
Qed.

Lemma reads_when {A B} a (c : bool) (m : dec A) (k : A -> dec B) old L x L' y :
  (c = true -> reads a m L x) -> (c = false -> x = old) -> (size L) mod 8 = 0 -> 0 <= a < 8 ->
  reads a (k x) L' y -> reads a (dec_when c m old ≫= k) ((if c then L else []) ++ L') y.
Proof.
  intros H1 H2 Hs Ha Hk. destruct c.
  - eapply reads_bind; [by apply H1| |exact Hk]. divlia.
  - rewrite <- H2 by done. eapply reads_bind; [apply reads_ret| |exact Hk]. rewrite size_nil. divlia.
Qed.

Lemma reads_get_when {A} a (c : bool) n w v old (k : Z -> dec A) L y :
  1 <= n <= 64 -> 0 <= v < 2 ^ n -> n <= w -> old = 0 -> (c = false -> v = 0) ->
  n mod 8 = 0 -> 0 <= a < 8 ->
  reads a (k v) L y -> reads a (get_when c n w old ≫= k) ((if c then [(n, v)] else []) ++ L) y.
Proof.
  intros Hn Hv Hw -> Hc H8 Ha H. unfold get_when. eapply reads_when; eauto.
  - intros _. change [(n, v)] with ([(n, v)] ++ []). eapply reads_bind; [by apply reads_get1|done|].
    rewrite Z.add_0_l, uwrap_small; [apply reads_ret|].
    pose proof (Z.pow_le_mono_r 2 n w). lia.
  - rewrite size_cons, size_nil by lia. by rewrite Z.add_0_r.
Qed.

(** The form with the stale counter is right only when the field is there. *)
Lemma reads_get_stale {A} a a' (c : bool) n w v old (k : Z -> dec A) L y :
  1 <= n <= 64 -> 0 <= v < 2 ^ n -> n <= w -> old = 0 -> c = true -> a' = (a + n) mod 8 ->
  reads a' (k v) L y -> reads a (get_stale c n w old ≫= k) ((n, v) :: L) y.
Proof.
  intros Hn Hv Hw -> -> Ha H. change ((n, v) :: L) with ([(n, v)] ++ L).
  eapply reads_bind; [| |exact H]; [|rewrite size_cons, size_nil, Z.add_0_r by lia; exact Ha].
  intros buf pre post t d Hh Ht Ha' Hs. rewrite size_cons, size_nil, Z.add_0_r in * by lia.
  rewrite wbits_cons, app_nil_r in Hh. exists n.
  unfold get_stale, dec_when, mbind, dec_bind, dbits. rewrite <- Ht.
  rewrite (decode_bits_holds _ _ v n post) by auto. cbn.
  pose proof (Z.pow_le_mono_r 2 n w).
  rewrite Z.mod_small, Z.add_0_l, (uwrap_small w v), (uwrap_small 16) by lia. done.
Qed.

Lemma memcpy_take n src ps : bytes_ok src -> 0 <= ps ->
  ps + Z.of_nat n <= Z.of_nat (length src) ->
  memcpy n src ps (repeat 0 n) 0 = Some (take n (drop (Z.to_nat ps) src)).
Proof.
  intros Hs Hp Hl. destruct (memcpy_spec n src ps (8 * ps) (repeat 0 n) 0) as (d & E & L & Hd & P);
    auto; try lia; [apply (holds_zero n)|rewrite repeat_length; lia|].
  rewrite repeat_length in L. rewrite E. f_equal.
  eapply list_eq_same_length with (n := n); [rewrite length_take, length_drop; lia|done|].
  intros i x y Hi Hx Hy. apply byte_ext; [eauto using bytes_ok_lookup| |].
  { rewrite lookup_take, lookup_drop in Hy. case_decide; [|done]. eauto using bytes_ok_lookup. }
  intros j Hj. specialize (P (8 * Z.of_nat i + j) ltac:(lia)).
  rewrite bitat_split, Nat2Z.id, (byteat_lookup _ _ _ Hx) in P by lia. rewrite P.
  zcases; cbn [andb].
  rewrite lookup_take, lookup_drop in Hy. case_decide; [|done].
  replace (8 * Z.of_nat i + j + 8 * ps) with (8 * (ps + Z.of_nat i) + j) by lia.
  rewrite bitat_split by lia. rewrite (byteat_lookup _ _ y); [done|]. rewrite <- Hy. f_equal; lia.
Qed.

Lemma holds_drop buf w r b :
  holds buf (w ++ r) -> Z.of_nat (length w) = 8 * b -> holds (drop (Z.to_nat b) buf) r.
Proof.
  intros (Hb & Hl & B) Hw. rewrite length_app in Hl. split; [by apply Forall_drop|].
  split; [rewrite length_drop; lia|]. intros k Hk. specialize (B (8 * b + k) ltac:(lia)).
  rewrite app_nth2 in B by lia. replace (Z.to_nat (8 * b + k) - length w)%nat with (Z.to_nat k) in B by lia.
  rewrite <- B. unfold bitat. replace ((8 * b + k) / 8) with (b + k / 8) by divlia.
  replace ((8 * b + k) mod 8) with (k mod 8) by divlia.
  unfold byteat. rewrite lookup_drop. do 3 f_equal. divlia.
Qed.

Lemma octets_take buf bs post :
  bytes_ok bs -> holds buf (wbits (octets bs) ++ post) -> take (length bs) buf = bs.
Proof.
  intros Hbs (Hb & Hl & B). rewrite wbits_octets, length_app in *.
  assert (length (bits_of bs) = (8 * length bs)%nat) as Hn
    by (rewrite bits_of_slice; unfold slice; by rewrite length_map, length_seq).
  eapply list_eq_same_length with (n := length bs); [done|rewrite length_take; lia|].
  intros i x y Hi Hx Hy. rewrite lookup_take in Hx. case_decide; [|done].
  apply byte_ext; [eauto using bytes_ok_lookup..|]. intros j Hj.
  specialize (B (8 * Z.of_nat i + j) ltac:(lia)).
  rewrite app_nth1, nth_bits_of, Z2Nat.id, !bitat_split, Nat2Z.id in B by lia.
  by rewrite (byteat_lookup _ _ _ Hx), (byteat_lookup _ _ _ Hy) in B.
Qed.

Lemma reads_getmem1 bs len :
  bytes_ok bs -> Z.of_nat (length bs) = len -> reads 0 (getmem len) (octets bs) bs.
Proof.
  intros Hbs Hlen buf pre post t d Hh Ht Ha Hs. rewrite size_octets in *. exists d.
  pose proof Hh as (Hb & Hl & _). rewrite !length_app in Hl.
  assert (Z.of_nat (length (wbits (octets bs))) = 8 * len) as Hn by (rewrite <- Hlen; apply size_octets).
  unfold getmem, mbind, dec_bind, dmem. rewrite (proj2 (Z.leb_le 0 len)) by lia.
  rewrite memcpy_take by (auto; divlia). cbn.
  replace (Z.to_nat len) with (length bs) by lia.
  rewrite (octets_take _ bs post); [|done|apply (holds_drop _ pre); [done|divlia]].
  rewrite uwrap_small by lia. unfold mret, dec_ret. do 3 f_equal; lia.
Qed.

Lemma reads_getmem {A} bs len (k : list Z -> dec A) L y :
  bytes_ok bs -> Z.of_nat (length bs) = len -> reads 0 (k bs) L y ->
  reads 0 (getmem len ≫= k) (octets bs ++ L) y.
Proof.
  intros Hb Hl H. eapply reads_bind; [by apply reads_getmem1| |exact H].
  rewrite size_octets. divlia.
Qed.

(** What a finished decoder returns. *)
Lemma dec_bytes_reads {A} (m : dec A) L x buf post :
  reads 0 m L x -> holds buf (wbits L ++ post) -> size L < 65536 ->
  dec_bytes m buf = Some (size L / 8, x).
Proof.
  intros H Hh Hs. destruct (H buf [] post 0 0) as (d & E); auto. unfold dec_bytes. by obind E.
Qed.

Lemma dec_bits_reads {A} (m : dec A) L x buf post :
  reads 0 m L x -> holds buf (wbits L ++ post) -> size L < 65536 ->
  dec_bits m buf = Some (size L, x).
Proof.
  intros H Hh Hs. destruct (H buf [] post 0 0) as (d & E); auto. unfold dec_bits. by obind E.
Qed.

Lemma reads_dcall {A B} (f : ie_decoder A) L x (k : A -> dec B) L' y a :
  (∀ buf post, holds buf (wbits L ++ post) -> size L < 65536 -> f buf = Some (size L, x)) ->
  a = size L mod 8 -> reads a (k x) L' y -> reads 0 (dcall f ≫= k) (L ++ L') y.
Proof.
  intros Hf Ha Hk. eapply reads_bind; [|rewrite Z.add_0_l; exact Ha|exact Hk].
  intros buf pre post t d Hh Ht Ha' Hs. exists d. unfold dcall. pose proof (size_nonneg L).
  rewrite (Hf _ post); [|apply (holds_drop _ pre); [done|divlia]|lia].
  cbn. rewrite uwrap_small by lia. done.
Qed.

