(* ===== verification/CodecSpec.v ===== *)
(** * Specifications of encoders and decoders

    [encodes] and [decodes] relate the two sides of a codec to a common layout; a value
    that both accept makes a round trip ([codec_round_trips]).  Rules for the parts of
    an element that are optional, copied as bytes, or depend on a length. *)

From S2P Require Import Prelude EncDecBits Codec.

(** ** The interface of an information element *)

(** Every value of the layout fits its field. *)
Definition layout_ok (L : layout) : Prop := Forall (fun '(n, v) => 0 <= v < 2 ^ n) L.

(** [f] appends the fields [L] to a message buffer and returns [r]. *)
Definition encodes (f : ie_encoder) (L : layout) (r : Z) : Prop :=
  ∀ buf base w, 0 <= base -> holds buf w -> 8 * base = Z.of_nat (length w) ->
    Z.of_nat (length w) + size L <= 8 * Z.of_nat (length buf) -> size L < 65536 ->
    ∃ buf', f buf base = Some (r, buf') ∧ holds buf' (w ++ wbits L) ∧ length buf' = length buf.

(** [g] reads the value [x] and the byte count [r] from a buffer that starts with
    the fields [L]. *)
Definition decodes {A} (g : ie_decoder A) (L : layout) (r : Z) (x : A) : Prop :=
  ∀ buf post, holds buf (wbits L ++ post) -> size L < 65536 -> g buf = Some (r, x).

(** What libpfcp promises its callers of an element type [T]: an encoder, a
    decoder into the caller's structure, and a layout.  [ie_unit] is 8 for an
    encoder that returns bytes and 1 for one that returns bits. *)
Class IeCodec (T : Type) := {
  ie_encode : T -> ie_encoder;
  ie_decode : T -> ie_decoder T;
  ie_zero : T;
  ie_layout : T -> layout;
  ie_unit : Z;
}.

Class IeCodecOk (T : Type) `{IeCodec T} := {
  ie_encodes v : encodes (ie_encode v) (ie_layout v) (size (ie_layout v) / ie_unit);
  ie_decodes v v0 : layout_ok (ie_layout v) ->
    decodes (ie_decode v0) (ie_layout v) (size (ie_layout v) / 8) v;
}.

(** ** Rules for whole elements *)

Lemma encodes_bits m L : emits 0 m L -> encodes (enc_bits m) L (size L / 1).
Proof. rewrite Z.div_1_r. intros H buf base w. by apply enc_bits_emits. Qed.

Lemma encodes_bytes m L : emits 0 m L -> encodes (enc_bytes m) L (size L / 8).
Proof. intros H buf base w. by apply enc_bytes_emits. Qed.

Lemma decodes_bytes {A} (m : dec A) L x : reads 0 m L x -> decodes (dec_bytes m) L (size L / 8) x.
Proof. intros H buf post. by apply dec_bytes_reads. Qed.

Lemma layout_ok_app L1 L2 : layout_ok (L1 ++ L2) -> layout_ok L1 ∧ layout_ok L2.
Proof. apply Forall_app. Qed.

(** One field of an encoder, one field of a decoder. *)
Ltac emit_step :=
  lazymatch goal with
  | |- emits _ (put _ _ ⨾ _) _ => eapply emits_put; [lia|reflexivity|]
  | |- emits _ (put _ _) _ => apply emits_put1; lia
  end.
Ltac read_step H :=
  lazymatch goal with
  | |- reads _ (get _ ≫= _) _ _ =>
      let Hv := fresh "Hv" in
      apply Forall_cons_1 in H as [Hv H];
      eapply reads_get; [lia|exact Hv|reflexivity|]; clear Hv
  | |- reads _ (mret _) _ _ => apply reads_ret
  end.

(** ** Rules for optional parts *)

Lemma emits_opt (c : bool) m L m2 L2 :
  (c = true -> emits 0 m L) -> size L mod 8 = 0 -> emits 0 m2 L2 ->
  emits 0 (enc_when c m ⨾ m2) ((if c then L else []) ++ L2).
Proof.
  intros H1 Hs H2. eapply emits_seq; [by apply emits_when| |exact H2].
  rewrite size_if. by destruct c.
Qed.

Lemma reads_opt {A B} (c : bool) (m : dec A) (k : A -> dec B) old L x L' y :
  (c = true -> reads 0 m L x) -> (c = false -> x = old) -> size L mod 8 = 0 ->
  reads 0 (k x) L' y -> reads 0 (dec_when c m old ≫= k) ((if c then L else []) ++ L') y.
Proof. intros. eapply reads_when; eauto; lia. Qed.

Lemma size_octets8 l : size (octets l) mod 8 = 0.
Proof. rewrite size_octets. by rewrite Z.mul_comm, Z.mod_mul. Qed.

(** An IPv4 address that is copied in memory order. *)
Lemma reads_le4 v : 0 <= v < 2 ^ 32 ->
  reads 0 (l ← getmem 4; mret (of_le_bytes l)) (octets (le_bytes 4 v)) v.
Proof.
  intros Hv. rewrite <- (app_nil_r (octets _)). eapply reads_getmem; [apply bytes_ok_le_bytes|done|].
  rewrite of_le_le_bytes, Z.mod_small by exact Hv. apply reads_ret.
Qed.

Lemma reads_mem bs len : bytes_ok bs -> Z.of_nat (length bs) = len -> reads 0 (getmem len) (octets bs) bs.
Proof. apply reads_getmem1. Qed.

(** A copy into an array member of at least that size. *)
Lemma reads_getmem_into {A} arr bs (k : list Z -> dec A) L y :
  bytes_ok bs -> bytes_ok arr -> (length bs <= length arr)%nat ->
  reads 0 (k (bs ++ drop (length bs) arr)) L y ->
  reads 0 (getmem_into arr (Z.of_nat (length bs)) ≫= k) (octets bs ++ L) y.
Proof.
  intros Hbs Harr Hle H. eapply reads_bind; [|by rewrite Z.add_0_l, size_octets8|exact H].
  intros buf pre post t d Hh Ht Ha Hs. rewrite size_octets in *. exists d.
  pose proof Hh as (Hb & Hl & _). rewrite !length_app in Hl.
  assert (Z.of_nat (length (wbits (octets bs))) = 8 * Z.of_nat (length bs)) as Hn by apply size_octets.
  assert (Hcopy : memcpy (length bs) buf (t / 8) arr 0
                  = Some (take (length bs) (drop (Z.to_nat (t / 8)) buf) ++ drop (length bs) arr)).
  { rewrite <- (Z2Nat.id (t / 8)), Nat2Z.id by divlia. change 0 with (Z.of_nat 0).
    rewrite memcpy_app by divlia. done. }
  unfold getmem_into. rewrite (proj2 (Z.leb_le 0 _)) by lia. rewrite Nat2Z.id. obind Hcopy.
  rewrite (octets_take _ bs post); [|done|apply (holds_drop _ pre); [done|divlia]].
  rewrite uwrap_small by lia. do 3 f_equal; lia.
Qed.

(** A copy of the first bytes of an array, and integers sent in another order. *)
Lemma memcpy_src_ext n src src' ps dst pd :
  (∀ i, ps <= i < ps + Z.of_nat n -> load src i = load src' i) ->
  memcpy n src ps dst pd = memcpy n src' ps dst pd.
Proof.
  revert ps dst pd; induction n as [|n IH]; intros ps dst pd H; cbn [memcpy]; [done|].
  rewrite H by lia. destruct (load src' ps); [|done]. cbn. destruct (store dst pd z); [|done].
  cbn. apply IH. intros; apply H; lia.
Qed.

(** A copy of the first bytes of a longer array. *)
Lemma emits_putmem_prefix src len :
  bytes_ok src -> 0 <= len <= Z.of_nat (length src) ->
  emits 0 (putmem src len) (octets (take (Z.to_nat len) src)).
Proof.
  intros Hs Hl. assert (emits 0 (putmem (take (Z.to_nat len) src) len) (octets (take (Z.to_nat len) src))) as E.
  { apply emits_putmem; [by apply Forall_take|rewrite length_take; lia]. }
  intros base e buf w Hb He Ha Hh Hw Hr Hz. destruct (E base e buf w) as (b' & E' & ?); auto.
  exists b'. rewrite <- E'. split; [|done]. unfold putmem.
  erewrite memcpy_src_ext; [done|]. intros i Hi. unfold load.
  zcases.
  rewrite lookup_take, decide_True by lia. done.
Qed.

(** Four bytes sent most significant first and copied to memory. *)
Lemma nbits_split n m v : nbits (n + m) v = nbits n (v / 2 ^ Z.of_nat m) ++ nbits m v.
Proof.
  induction n as [|n IH]; [done|]. cbn [nbits Nat.add app]. rewrite IH. f_equal.
  rewrite Z.div_pow2_bits by lia. f_equal; lia.
Qed.

Lemma nbits8_u8 v : nbits 8 (u8 v) = nbits 8 v.
Proof. apply nbits_ext. intros i Hi. rewrite uwrap_testbit by lia. zcases; done. Qed.

Lemma wbits_be32 v : wbits [(32, v)] = wbits (octets (rev (le_bytes 4 v))).
Proof.
  unfold wbits, octets. cbn [le_bytes rev app map concat]. rewrite !nbits8_u8, !app_nil_r.
  change (Z.to_nat 32) with (8 + (8 + (8 + 8)))%nat. change (Z.to_nat 8) with 8%nat.
  rewrite !nbits_split. rewrite !Z.div_div by lia. done.
Qed.

(** [reads] at a known position, for a decoder that looks at its position. *)
Definition reads_at {A} (t : Z) (m : dec A) (L : layout) (x : A) : Prop :=
  ∀ buf pre post d, holds buf (pre ++ wbits L ++ post) -> Z.of_nat (length pre) = t ->
    t + size L < 65536 -> ∃ d', m buf (t, d) = Some (x, (t + size L, d')).

Lemma reads_at_bind {A B} t (m : dec A) (k : A -> dec B) L1 L2 x y :
  reads (t mod 8) m L1 x -> reads_at (t + size L1) (k x) L2 y -> reads_at t (m ≫= k) (L1 ++ L2) y.
Proof.
  intros H1 H2 buf pre post d Hh Ht Hs. rewrite size_app in *.
  pose proof (size_nonneg L1). pose proof (size_nonneg L2). rewrite wbits_app, <- app_assoc in Hh.
  destruct (H1 buf pre (wbits L2 ++ post) t d) as (d1 & E1); auto; [lia|].
  destruct (H2 buf (pre ++ wbits L1) post d1) as (d2 & E2); try lia.
  { by rewrite <- app_assoc. } { rewrite length_app. unfold size. lia. }
  exists d2. unfold mbind, dec_bind. rewrite E1, E2. do 3 f_equal; lia.
Qed.

Lemma reads_at_total {A} t (k : Z -> dec A) L y : reads_at t (k t) L y -> reads_at t (total_now ≫= k) L y.
Proof. done. Qed.

Lemma decodes_at {A} (m : dec A) L x : reads_at 0 m L x -> decodes (dec_bytes m) L (size L / 8) x.
Proof.
  intros H buf post Hh Hs. destruct (H buf [] post 0) as (d & E); auto. unfold dec_bytes. by obind E.
Qed.

(** ** Round trips from the two sides of a codec *)

(** The message built so far is the bits [w] in the first [base] bytes of [buf],
    and there is room for [n] more bits. *)
Definition message_room (buf : list Z) (w : list bool) (base n : Z) : Prop :=
  0 <= base ∧ holds buf w ∧ 8 * base = Z.of_nat (length w) ∧
  Z.of_nat (length w) + n <= 8 * Z.of_nat (length buf).

(** [f] writes a value at [base] that [g] reads back from there as [x]; [f]
    returns [r], [g] returns [k], and the bytes before [base] stay. *)
Definition round_trips {A} (f : ie_encoder) (g : ie_decoder A) (r k : Z) (x : A)
    (buf : list Z) (base : Z) : Prop :=
  ∃ buf', f buf base = Some (r, buf') ∧ g (drop (Z.to_nat base) buf') = Some (k, x) ∧
          length buf' = length buf ∧ take (Z.to_nat base) buf' = take (Z.to_nat base) buf.

Lemma holds_take a b w r base :
  holds a w -> holds b (w ++ r) -> length b = length a -> 8 * base = Z.of_nat (length w) ->
  take (Z.to_nat base) b = take (Z.to_nat base) a.
Proof.
  intros (Ha & Hla & Ba) (Hb & Hlb & Bb) Hl Hw.
  eapply list_eq_same_length with (n := Z.to_nat base); [rewrite length_take; lia..|].
  intros i x y Hi Hx Hy. rewrite lookup_take, decide_True in Hx, Hy by lia.
  apply byte_ext; [eauto using bytes_ok_lookup..|]. intros j Hj.
  specialize (Ba (8 * Z.of_nat i + j) ltac:(lia)). specialize (Bb (8 * Z.of_nat i + j) ltac:(lia)).
  rewrite app_nth1, <- Ba in Bb by lia.
  rewrite !bitat_split, Nat2Z.id in Bb by lia.
  by rewrite (byteat_lookup _ _ _ Hx), (byteat_lookup _ _ _ Hy) in Bb.
Qed.

Lemma codec_round_trips {A} f (g : ie_decoder A) L r k x buf w base :
  encodes f L r -> decodes g L k x -> size L < 65536 -> message_room buf w base (size L) ->
  round_trips f g r k x buf base.
Proof.
  intros Hf Hg Hs (Hb & Hh & Hw & Hr). destruct (Hf buf base w) as (buf' & E & Hh' & Hl); auto.
  exists buf'. split; [done|]. split; [|split; [done|by eapply holds_take]].
  apply (Hg _ []); [|done]. rewrite app_nil_r. by apply (holds_drop _ w).
Qed.

Lemma message_room_zero n m : m <= 8 * Z.of_nat n -> message_room (repeat 0 n) [] 0 m.
Proof.
  intros Hm. split; [lia|]. split; [apply holds_zero|]. rewrite repeat_length. cbn. lia.
Qed.

(** Concrete layouts are checked by evaluation. *)
Definition layout_okb (L : layout) : bool := forallb (fun '(n, v) => (0 <=? v) && (v <? 2 ^ n)) L.

Lemma layout_okb_spec L : layout_okb L = true -> layout_ok L.
Proof.
  intros H. apply List.Forall_forall. intros [n v] Hv.
  apply (proj1 (forallb_forall _ _) H) in Hv. apply andb_true_iff in Hv as [H1 H2].
  apply Z.leb_le in H1. apply Z.ltb_lt in H2. lia.
Qed.

Definition holdsb (buf : list Z) (w : list bool) : bool :=
  forallb (fun b => (0 <=? b) && (b <? 256)) buf && (length w <=? 8 * length buf)%nat &&
  forallb (fun i => eqb (bitat buf (Z.of_nat i)) (nth i w false)) (seq 0 (8 * length buf)).

Lemma holdsb_spec buf w : holdsb buf w = true -> holds buf w.
Proof.
  unfold holdsb. rewrite !andb_true_iff, Nat.leb_le. intros [[Hb Hl] Hk].
  rewrite forallb_forall in Hb, Hk. split.
  { apply List.Forall_forall. intros b Hin. specialize (Hb b Hin). unfold byte_ok. lia. }
  split; [lia|]. intros k Hk0. destruct (decide (k < 8 * Z.of_nat (length buf))).
  - specialize (Hk (Z.to_nat k)). rewrite Z2Nat.id in Hk by lia.
    apply eqb_prop, Hk, in_seq. lia.
  - rewrite nth_overflow by lia. apply bitat_beyond. lia.
Qed.

(** ** Bits of buffers *)

(** A buffer as the bits of its bytes. *)
Lemma length_bits_of m : length (bits_of m) = (8 * length m)%nat.
Proof. rewrite bits_of_slice. unfold slice. by rewrite length_map, length_seq. Qed.

Lemma bits_of_app a b : bits_of (a ++ b) = bits_of a ++ bits_of b.
Proof. unfold bits_of. by rewrite map_app, concat_app. Qed.

Lemma holds_bits_of m : bytes_ok m -> holds m (bits_of m).
Proof.
  intros H. split; [done|]. rewrite length_bits_of. split; [lia|].
  intros k Hk. by rewrite nth_bits_of, Z2Nat.id.
Qed.

(** A list of bits as a number and back. *)
Lemma of_bits_range l : 0 <= of_bits l < 2 ^ Z.of_nat (length l).
Proof.
  induction l as [|b l IH] using rev_ind; [done|].
  rewrite of_bits_app, length_app, Nat2Z.inj_add, Z.pow_add_r by lia. cbn. destruct b; lia.
Qed.

Lemma nbits_of_bits l : nbits (length l) (of_bits l) = l.
Proof.
  induction l as [|b l IH] using rev_ind; [done|].
  rewrite of_bits_app, length_app, Nat.add_1_r, nbits_snoc.
  assert ((2 * of_bits l + (if b then 1 else 0)) / 2 = of_bits l) as -> by (destruct b; divlia).
  rewrite IH. do 2 f_equal. destruct b; [apply Z.testbit_odd_0|rewrite Z.add_0_r; apply Z.testbit_even_0].
Qed.

Lemma of_bits_middle a b c :
  of_bits b = of_bits (a ++ b ++ c) / 2 ^ Z.of_nat (length c) mod 2 ^ Z.of_nat (length b).
Proof.
  pose proof (of_bits_range b). pose proof (of_bits_range c).
  rewrite !of_bits_cons_app, length_app, Nat2Z.inj_add, Z.pow_add_r, Z.mul_assoc, Z.add_assoc,
    <- Z.mul_add_distr_r by lia.
  rewrite Z.div_add_l, (Z.div_small (of_bits c)), Z.add_0_r by lia.
  by rewrite Z.add_comm, Z_mod_plus_full, Z.mod_small.
Qed.

Lemma length_slice buf off n : length (slice buf off n) = n.
Proof. unfold slice. by rewrite length_map, length_seq. Qed.

(** The number in a buffer whose bits behind [w] are zero. *)
Lemma of_be_bytes_holds buf w : holds buf w ->
  of_be_bytes buf = of_bits w * 2 ^ (8 * Z.of_nat (length buf) - Z.of_nat (length w)).
Proof.
  intros (Hb & Hl & B). rewrite of_be_bytes_bits by done.
  assert (bits_of buf = w ++ repeat false (8 * length buf - length w)) as ->.
  { apply nth_ext with false false; [rewrite length_bits_of, length_app, repeat_length; lia|]. intros k _.
    rewrite nth_bits_of, B, Nat2Z.id by lia. destruct (Nat.lt_ge_cases k (length w)); [by rewrite app_nth1|].
    rewrite nth_overflow, app_nth2, nth_repeat by lia. done. }
  rewrite of_bits_cons_app, repeat_length. replace (of_bits (repeat false _)) with 0.
  - rewrite Z.add_0_r. do 2 f_equal. lia.
  - symmetry. rewrite <- (app_nil_r (repeat false _)). apply of_bits_zeros.
Qed.

(** The bits of a buffer fill any fields. *)
Lemma bits_fill (w : list bool) (L : layout) :
  Forall (fun '(n, _) => 0 <= n) L -> size L <= Z.of_nat (length w) ->
  ∃ vs post, length vs = length L ∧ layout_ok (zip L.*1 vs) ∧ w = wbits (zip L.*1 vs) ++ post.
Proof.
  revert w. induction L as [|[n v] L IH]; intros w Hn Hs; [exists [], w; by repeat constructor|].
  apply Forall_cons_1 in Hn as [Hn HL]. rewrite size_cons in Hs by done. pose proof (size_nonneg L).
  destruct (IH (drop (Z.to_nat n) w) HL) as (vs & post & Hl & Hok & E); [rewrite length_drop; lia|].
  assert (length (take (Z.to_nat n) w) = Z.to_nat n) as Ht by (rewrite length_take; lia).
  exists (of_bits (take (Z.to_nat n) w) :: vs), post. split_and!; [cbn; lia| |].
  - cbn. apply Forall_cons_2; [|done]. pose proof (of_bits_range (take (Z.to_nat n) w)) as R.
    by rewrite Ht, Z2Nat.id in R.
  - cbn [fmap list_fmap zip zip_with fst]. rewrite wbits_cons, <- app_assoc, <- E.
    rewrite <- Ht at 1. rewrite nbits_of_bits. by rewrite take_drop.
Qed.

(** ** Finished messages *)

Lemma nth_app_mid {A} (a b c : list A) k d : 
  nth k (a ++ b ++ c) d = if decide (k < length a)%nat then nth k a d
    else if decide (k < length a + length b)%nat then nth (k - length a) b d else nth (k - length a - length b) c d.
Proof.
  destruct (decide _); [by apply app_nth1|]. rewrite app_nth2 by lia.
  destruct (decide _); [by apply app_nth1; lia|]. rewrite app_nth2 by lia. done.
Qed.

(** A length put into the third and fourth byte afterwards. *)
Lemma holds_put_len buf a x c len : holds buf (a ++ x ++ c) -> length a = 16%nat -> length x = 16%nat -> 0 <= len < 65536 ->
  ∃ b1 b2, store buf 2 (u8 (len / 256)) = Some b1 ∧ store b1 3 (u8 len) = Some b2 ∧
    holds b2 (a ++ nbits 16 len ++ c) ∧ length b2 = length buf.
Proof.
  intros (Hb & Hl & Hk) Ha Hx Hlen. rewrite !length_app, Ha, Hx in Hl. cbn in Hl.
  unfold store. rewrite (proj2 (Z.ltb_lt 2 _)) by lia. cbn [andb Z.leb Z.compare]. do 2 eexists. split; [done|].
  rewrite length_insert, (proj2 (Z.ltb_lt 3 _)) by lia. split; [done|]. split; [|by rewrite !length_insert].
  split; [|split].
  - apply Forall_insert; [apply Forall_insert; [done|]|]; apply byte_ok_uwrap.
  - rewrite !length_insert, !length_app, length_nbits, Ha. lia.
  - intros k H0. change 3%nat with (Z.to_nat 3). change 2%nat with (Z.to_nat 2). rewrite !bitat_insert by (rewrite ?length_insert; lia).
    specialize (Hk k H0). rewrite !nth_app_mid, Ha, ?Hx, ?length_nbits in *.
    assert (k / 8 = 3 <-> 24 <= k < 32) as E3 by (Z.div_mod_to_equations; lia).
    assert (k / 8 = 2 <-> 16 <= k < 24) as E2 by (Z.div_mod_to_equations; lia).
    destruct (Z.eqb_spec (k / 8) 3), (Z.eqb_spec (k / 8) 2); repeat (destruct (decide _)); try lia; try done.
    all: rewrite nbits_nth by lia; unfold bbit; rewrite uwrap_testbit by (Z.div_mod_to_equations; lia).
    all: rewrite (proj2 (Z.ltb_lt _ 8)) by (Z.div_mod_to_equations; lia); cbn [andb].
    + f_equal. Z.div_mod_to_equations; lia.
    + change 256 with (2 ^ 8). rewrite Z.div_pow2_bits by (Z.div_mod_to_equations; lia). f_equal. Z.div_mod_to_equations; lia.
Qed.

(** The bytes behind the message are zero and are not sent. *)
Lemma holds_take_self buf w n : holds buf w -> Z.of_nat (length w) = 8 * Z.of_nat n -> (n <= length buf)%nat ->
  holds (take n buf) w.
Proof.
  intros (Hb & Hl & Hk) Hw Hn. split_and!; [by apply Forall_take|rewrite length_take; lia|].
  intros k H0. rewrite <- (Hk k H0). unfold bitat, byteat.
  destruct (decide (Z.to_nat (k / 8) < n)%nat) as [Hlt|Hge].
  - by rewrite lookup_take_lt.
  - rewrite lookup_take_ge by lia. cbn. assert (8 * Z.of_nat n <= k) by (Z.div_mod_to_equations; lia).
    specialize (Hk k H0). rewrite nth_overflow in Hk by lia. unfold bitat, byteat in Hk. rewrite Hk.
    unfold bbit. by rewrite Z.bits_0.
Qed.
