(* ===== verification/Tlv.v ===== *)
(** * Composition of elements into groups and messages

    Both protocols send a message as a sequence of elements, each with a header of four
    bytes.  An element type promises an [Elem]: its encoder and decoder agree on a
    layout for its good values ([ElemOk]).  [places] composes the encoders of the
    members of a structure, [items] the turns of the decoding loop; a group of such
    elements is an element again. *)

From S2P Require Import Prelude EncDecBits Codec CodecSpec.

(** ** Elements as members of a structure *)

(** The header of an element: where it is in the message, the key by which the decoding
    loop knows the element, and the length, which is 0 for an absent element.  [th_null]
    is the key of four zero bytes. *)
Class TlvHeader (Hdr Key : Type) := {
  th_layout : Hdr -> layout;
  th_key : Hdr -> Key;
  th_len : Hdr -> Z;
  th_read : list Z -> option Key;
  th_null : Key;
}.

Class TlvHeaderOk (Hdr Key : Type) `{TlvHeader Hdr Key} := {
  th_size h : size (th_layout h) = 32;
  th_reads h here post : layout_ok (th_layout h) -> holds here (wbits (th_layout h) ++ post) ->
    th_read here = Some (th_key h);
  th_reads_null here post : holds here (repeat false 32 ++ post) -> th_read here = Some th_null;
}.

(** [el_unit] is 8 for an encoder that returns bytes and 1 for one that returns
    bits; [el_short] is true for a decoder that returns the size without that of the
    header. *)
Class Elem (Hdr T : Type) := {
  el_header : T -> Hdr;
  el_encode : T -> ie_encoder;
  el_decode : T -> ie_decoder T;
  el_zero : T;
  el_unit : Z;
  el_short : bool;
  el_layout : T -> layout;
  el_good : T -> Prop;
}.

(** The layout of an element starts with its header and has a body of whole bytes. *)
Definition element_layout {Hdr Key} `{TlvHeader Hdr Key} (h : Hdr) (L : layout) : Prop :=
  ∃ body, L = th_layout h ++ body ∧ 0 < size body ∧ size body mod 8 = 0 ∧
    layout_ok (th_layout h).

(** The last four bytes are zero.  The loop that called a decoder which returns four too
    few goes on there, and takes them for an unknown element of length 0. *)
Definition zero_tail (L : layout) : Prop := drop (length (wbits L) - 32) (wbits L) = repeat false 32.

Definition returned (short : bool) (n : Z) : Z := if short then n - 4 else n.

Class ElemOk (Hdr Key T : Type) `{TlvHeaderOk Hdr Key, Elem Hdr T} := {
  el_encodes v : el_good v -> encodes (el_encode v) (el_layout v) (size (el_layout v) / el_unit);
  el_decodes v : el_good v ->
    decodes (el_decode el_zero) (el_layout v) (returned el_short (size (el_layout v) / 8)) v;
  el_tail v : el_good v -> el_short = true -> zero_tail (el_layout v);
  el_element v : el_good v -> element_layout (el_header v) (el_layout v);
}.

(** A member that can be absent: its length is 0 then, and it is zero. *)
Definition opt_layout {Hdr Key T} `{TlvHeader Hdr Key, Elem Hdr T} (x : T) : layout :=
  if nz (th_len (el_header x)) then el_layout x else [].
Definition opt_good {Hdr Key T} `{TlvHeader Hdr Key, Elem Hdr T} (code : Key) (x : T) : Prop :=
  if nz (th_len (el_header x)) then th_key (el_header x) = code ∧ el_good x else x = el_zero.

(** A member without a good form is absent. *)
Definition absent {Hdr Key} `{TlvHeader Hdr Key} (h : Hdr) : Prop := th_len h = 0.

(** The first [n] structures of an array are present, the others zero. *)
Definition arr_layout {Hdr Key T} `{TlvHeader Hdr Key, Elem Hdr T} (n : Z) (xs : list T) : layout :=
  mjoin (el_layout <$> take (Z.to_nat n) xs).
Definition present {Hdr Key T} `{TlvHeader Hdr Key, Elem Hdr T} (code : Key) (x : T) : Prop :=
  nz (th_len (el_header x)) = true ∧ th_key (el_header x) = code ∧ el_good x.
Definition arr_good {Hdr Key T} `{TlvHeader Hdr Key, Elem Hdr T} (max : nat) (code : Key) (n : Z) (xs : list T) : Prop :=
  0 <= n <= Z.of_nat max ∧ length xs = max ∧
  Forall (present code) (take (Z.to_nat n) xs) ∧
  drop (Z.to_nat n) xs = repeat el_zero (max - Z.to_nat n).

(** ** Encoders *)

(** [places u m L]: with [enc_len] counting in units of [u] bits (8 or 1), at a byte
    boundary, [m] appends the fields [L], which are whole bytes. *)
Definition places (u : Z) (m : enc) (L : layout) : Prop :=
  size L mod 8 = 0 ∧
  ∀ base e buf w, 0 <= base -> 0 <= e -> e * u mod 8 = 0 -> holds buf w ->
    8 * base + e * u = Z.of_nat (length w) ->
    Z.of_nat (length w) + size L <= 8 * Z.of_nat (length buf) -> e * u + size L < 65536 ->
    ∃ buf', m base (e, buf) = Some (e + size L / u, buf') ∧ holds buf' (w ++ wbits L) ∧
            length buf' = length buf.

Definition is_unit (u : Z) : Prop := u = 1 ∨ u = 8.

Lemma places_skip u : is_unit u -> places u enc_skip [].
Proof.
  intros Hu. split; [done|]. intros base e buf w _ _ _ Hh _ _ _. exists buf.
  rewrite app_nil_r. split; [|done]. unfold enc_skip. do 2 f_equal.
  rewrite size_nil. destruct Hu as [-> | ->]; divlia.
Qed.

Lemma places_seq u m1 m2 L1 L2 : is_unit u ->
  places u m1 L1 -> places u m2 L2 -> places u (m1 ⨾ m2) (L1 ++ L2).
Proof.
  intros Hu [A1 H1] [A2 H2]. pose proof (size_nonneg L1). pose proof (size_nonneg L2).
  assert (∀ n, n mod 8 = 0 -> n / u * u = n) as D by (intros n Hn; destruct Hu as [-> | ->]; divlia).
  assert (0 <= size L1 / u) by (destruct Hu as [-> | ->]; divlia).
  split; [rewrite size_app; divlia|]. intros base e buf w Hb He Ha Hh Hw Hr Hs. rewrite size_app in *.
  destruct (H1 base e buf w) as (b1 & E1 & Hh1 & Hl1); auto; try lia.
  destruct (H2 base (e + size L1 / u) b1 (w ++ wbits L1)) as (b2 & E2 & Hh2 & Hl2); auto;
    rewrite ?length_app, ?Z.mul_add_distr_r, ?D by done; try (unfold size in *; lia).
  { rewrite Z.add_mod, Ha, A1 by lia. done. }
  exists b2. unfold enc_seq. obind E1. rewrite E2, wbits_app, app_assoc. split; [|split; [done|congruence]].
  do 2 f_equal. destruct Hu as [-> | ->]; divlia.
Qed.

(** A form of call: an encoder that returns bytes is called at [encoded], one that
    returns bits at [encoded/8]. *)
Definition call_ok (u : Z) (call : ie_encoder -> enc) (r : Z -> Z) (fits : layout -> Prop) : Prop :=
  ∀ f L, size L mod 8 = 0 -> fits L -> encodes f L (r (size L)) -> places u (call f) L.

Lemma ecall_at_ok : call_ok 8 ecall_at (fun n => n / 8) (fun _ => True).
Proof.
  intros f L HL _ Hf. split; [done|]. intros base e buf w Hb He _ Hh Hw Hr Hs. pose proof (size_nonneg L).
  destruct (Hf buf (base + e) w) as (b' & E & ?); auto; try lia.
  exists b'. unfold ecall_at. obind E. rewrite uwrap_small by divlia. done.
Qed.

Lemma ecall_ok : call_ok 1 ecall (fun n => n / 1) (fun _ => True).
Proof.
  intros f L HL _ Hf. split; [done|]. intros base e buf w Hb He Ha Hh Hw Hr Hs. pose proof (size_nonneg L).
  destruct (Hf buf (base + e / 8) w) as (b' & E & ?); auto; try divlia.
  exists b'. unfold ecall. obind E. rewrite Z.div_1_r, uwrap_small by lia. done.
Qed.

Lemma element_size {Hdr Key} `{TlvHeaderOk Hdr Key} h L : element_layout h L -> size L mod 8 = 0 ∧ 32 < size L.
Proof.
  intros (body & -> & Hp & Hm & _). rewrite size_app.
  rewrite th_size. split; [divlia|lia].
Qed.

Section encoders.
Context (u : Z) (call : ie_encoder -> enc) (r : Z -> Z) (fits : layout -> Prop).
Context (Hu : is_unit u) (Hc : call_ok u call r fits).

Lemma places_opt {Hdr Key T} `{ElemOk Hdr Key T} code (x : T) :
  (∀ n, n / el_unit = r n) -> (nz (th_len (el_header x)) = true -> fits (el_layout x)) ->
  opt_good code x -> places u (enc_when (nz (th_len (el_header x))) (call (el_encode x))) (opt_layout x).
Proof.
  unfold opt_layout, opt_good. intros Hr Hb Hg. destruct (nz _); cbn [enc_when].
  - destruct Hg as [_ Hg]. destruct (element_size _ _ (el_element x Hg)) as [Hm _].
    apply Hc; auto. rewrite <- Hr. by apply el_encodes.
  - by apply places_skip.
Qed.

Lemma places_absent {Hdr Key} `{TlvHeader Hdr Key} (h : Hdr) f : absent h -> places u (enc_when (nz (th_len h)) (call f)) [].
Proof. unfold absent. intros ->. by apply places_skip. Qed.

Lemma places_for {Hdr Key T} `{ElemOk Hdr Key T} code (xs : list T) i n :
  (∀ n, n / el_unit = r n) -> Forall (fun x => present code x ∧ fits (el_layout x)) (take n (drop i xs)) ->
  (i + n <= length xs)%nat ->
  places u (enc_for xs i n (fun x => enc_when (nz (th_len (el_header x))) (call (el_encode x))))
    (mjoin (el_layout <$> take n (drop i xs))).
Proof.
  intros Hr. revert i; induction n as [|n IH]; intros i Hg Hl; [by apply places_skip|].
  destruct (lookup_lt_is_Some_2 xs i) as [x Hx]; [lia|].
  rewrite (drop_S xs x i Hx) in *. cbn [take] in *. apply Forall_cons_1 in Hg as [[Hp Hb] Hg].
  destruct Hp as (Hz & Ht & Hgood). cbn [enc_for fmap list_fmap mjoin list_join].
  assert (places u (enc_when (nz (th_len (el_header x))) (call (el_encode x)) ⨾
    enc_for xs (S i) n (fun x => enc_when (nz (th_len (el_header x))) (call (el_encode x))))
    (opt_layout x ++ mjoin (el_layout <$> take n (drop (S i) xs)))) as P.
  { apply places_seq; [done| |apply IH; [done|lia]]. apply (places_opt code); auto.
    unfold opt_good. by rewrite Hz. }
  unfold opt_layout in P. rewrite Hz in P. destruct P as [Hm P]. split; [done|].
  intros base e buf w. rewrite Hx. cbn [mbind option_bind]. rewrite Hz. apply P.
Qed.

Lemma places_arr {Hdr Key T} `{ElemOk Hdr Key T} max code n (xs : list T) :
  (∀ n, n / el_unit = r n) -> Forall (fun x => fits (el_layout x)) (take (Z.to_nat n) xs) ->
  arr_good max code n xs ->
  places u (enc_for xs 0 (Z.to_nat n) (fun x => enc_when (nz (th_len (el_header x))) (call (el_encode x)))) (arr_layout n xs).
Proof.
  intros Hr Hb (Hn & Hl & Hp & _). apply (places_for code xs 0); auto; [|lia].
  rewrite drop_0. by apply Forall_and.
Qed.
End encoders.

(** What a finished encoder does. *)
Lemma encodes_enc_bits u m L : is_unit u -> places u m L -> encodes (enc_bits m) L (size L / u).
Proof.
  intros Hu [_ H] buf base w Hb Hh Hw Hr Hs.
  destruct (H base 0 buf w) as (b' & E & ?); auto; try lia. by exists b'.
Qed.

Lemma encodes_enc_bytes m L : places 1 m L -> encodes (enc_bytes m) L (size L / 8).
Proof.
  intros [_ H] buf base w Hb Hh Hw Hr Hs. destruct (H base 0 buf w) as (b' & E & ?); auto; try lia.
  exists b'. unfold enc_bytes. obind E. by rewrite Z.div_1_r.
Qed.

(** ** Decoders *)

(** One turn of the loop, and its end. *)
Lemma tlv_loop_step {K T} (key : list Z -> option K) (step : K -> list Z -> T -> option (Z * T)) fuel buf buf_len c v code k v' :
  c < buf_len -> key (drop (Z.to_nat c) buf) = Some code -> step code (drop (Z.to_nat c) buf) v = Some (k, v') ->
  tlv_loop key step (S fuel) buf buf_len c v = tlv_loop key step fuel buf buf_len (u16 (c + k)) v'.
Proof.
  intros Hc Ek Es. cbn [tlv_loop]. rewrite (proj2 (Z.ltb_lt c buf_len)) by done.
  rewrite Ek. cbn [mbind option_bind]. by rewrite Es.
Qed.

Lemma tlv_loop_done {K T} (key : list Z -> option K) (step : K -> list Z -> T -> option (Z * T)) fuel buf buf_len c v :
  buf_len <= c -> tlv_loop key step fuel buf buf_len c v = Some (c, v).
Proof. intros H. destruct fuel; cbn [tlv_loop]; by rewrite (proj2 (Z.ltb_ge c buf_len)). Qed.

Section decoders.
Context {Hdr Key : Type} `{TH : TlvHeader Hdr Key, !TlvHeaderOk Hdr Key} {T : Type}.
Context (slack : Z) (step : Key -> list Z -> T -> option (Z * T)).

(** The loop passes over four zero bytes, and goes on to the end of the elements. *)
Definition null_skipped : Prop :=
  slack = 0 ∧ ∀ here post v, holds here (repeat false 32 ++ post) -> step th_null here v = Some (4, v).

(** One turn of the loop, or two, takes an element, whose layout is [L], from [v] to
    [v']. *)
Definition turn (v : T) (L : layout) (v' : T) : Prop :=
  ∃ h short, element_layout h L ∧ (short = true -> zero_tail L ∧ null_skipped) ∧
    ∀ here post, holds here (wbits L ++ post) -> size L < 65536 ->
      step (th_key h) here v = Some (returned short (size L / 8), v').

(** The turns that take the elements of [L] from [v] to [v']. *)
Inductive items : T -> layout -> T -> Prop :=
| items_nil v : items v [] v
| items_cons v L1 v1 L2 v2 : turn v L1 v1 -> items v1 L2 v2 -> items v (L1 ++ L2) v2.

Lemma items_one v L v' : turn v L v' -> items v L v'.
Proof. intros H. rewrite <- (app_nil_r L). eapply items_cons; [exact H|constructor]. Qed.

Lemma items_app v L1 v1 L2 v2 : items v L1 v1 -> items v1 L2 v2 -> items v (L1 ++ L2) v2.
Proof.
  induction 1 as [|v L v1' L1 v1 Ht _ IH]; [done|]. intros H2. rewrite <- app_assoc.
  eapply items_cons; [exact Ht|by apply IH].
Qed.

Lemma items_size v L v' : items v L v' -> size L mod 8 = 0.
Proof.
  induction 1 as [|v L1 v1 L2 v2 (h & s & He & _) _ IH]; [done|]. apply element_size in He as [Hm _].
  rewrite size_app. divlia.
Qed.

Lemma zero_tail_bits L : zero_tail L -> 32 <= size L ->
  ∃ w, wbits L = w ++ repeat false 32 ∧ Z.of_nat (length w) = size L - 32.
Proof.
  unfold zero_tail, size. intros Hz Hs. exists (take (length (wbits L) - 32) (wbits L)). split.
  - by rewrite <- Hz, take_drop.
  - rewrite length_take. lia.
Qed.

(** The loop goes on behind an element, whether the turn took it whole or not. *)
Lemma tlv_loop_turn v L1 v1 fuel buf pre post buf_len count :
  turn v L1 v1 -> holds buf (pre ++ wbits L1 ++ post) -> Z.of_nat (length pre) = 8 * count ->
  0 <= count -> 0 <= slack <= 4 -> count + size L1 / 8 - slack <= buf_len -> 8 * count + size L1 < 65536 ->
  ∃ fuel', tlv_loop th_read step (S (S fuel)) buf buf_len count v
           = tlv_loop th_read step fuel' buf buf_len (count + size L1 / 8) v1 ∧ (fuel <= fuel')%nat.
Proof.
  intros (h & short & He & Hnull & Hstep) Hh Hp Hc Hsl Hb Hs.
  pose proof (element_size _ _ He) as [Hm1 Hp1]. destruct He as (body & EL & _ & _ & Hok).
  pose proof (holds_drop _ _ _ _ Hh Hp) as Hd.
  assert (∀ n, tlv_loop th_read step (S n) buf buf_len count v
    = tlv_loop th_read step n buf buf_len (count + returned short (size L1 / 8)) v1) as T1.
  { intros n. rewrite (tlv_loop_step _ _ n _ _ _ _ (th_key h) (returned short (size L1 / 8)) v1); [|divlia| |].
    - rewrite uwrap_small; [done|]. destruct short; cbn; divlia.
    - apply (th_reads h _ (wbits body ++ post) Hok). rewrite EL, wbits_app, <- !app_assoc in Hd. exact Hd.
    - apply (Hstep _ post Hd). lia. }
  destruct short; cbn [returned] in T1; [|exists (S fuel); split; [by rewrite T1|lia]].
  exists fuel. split; [|lia]. destruct (Hnull eq_refl) as [Hz [Hs0 Hskip]].
  destruct (zero_tail_bits _ Hz ltac:(lia)) as (w & E & Hw). rewrite T1.
  assert (holds (drop (Z.to_nat (count + (size L1 / 8 - 4))) buf) (repeat false 32 ++ post)) as Hd'.
  { rewrite E, <- app_assoc, app_assoc in Hh. apply (holds_drop _ _ _ _ Hh). rewrite length_app. divlia. }
  rewrite (tlv_loop_step _ _ fuel _ _ _ _ th_null 4 v1); [|divlia|exact (th_reads_null _ _ Hd')|exact (Hskip _ _ v1 Hd')].
  rewrite uwrap_small by divlia. f_equal. lia.
Qed.

(** The loop over them ends at their end, also when [buf_len] is up to [slack] less, the
    length of a group without its header. *)
Lemma tlv_loop_items v L v' fuel buf pre post buf_len count :
  items v L v' -> holds buf (pre ++ wbits L ++ post) -> Z.of_nat (length pre) = 8 * count ->
  0 <= count -> 0 <= slack <= 4 -> count + size L / 8 - slack <= buf_len <= count + size L / 8 ->
  8 * count + size L < 65536 -> (Z.to_nat (size L / 8) <= fuel)%nat ->
  tlv_loop th_read step fuel buf buf_len count v = Some (count + size L / 8, v').
Proof.
  intros Hi. revert fuel pre count. induction Hi as [v|v L1 v1 L2 v2 Ht Hi IH];
    intros fuel pre count Hh Hp Hc Hsl Hb Hs Hf.
  { rewrite size_nil in *. change (0 / 8) with 0 in *. rewrite Z.add_0_r in *.
    destruct fuel; cbn [tlv_loop]; by rewrite (proj2 (Z.ltb_ge count buf_len)) by lia. }
  assert (size L1 mod 8 = 0 ∧ 32 < size L1) as [Hm1 Hp1].
  { destruct Ht as (h & s & He & _). by apply element_size in He. }
  pose proof (items_size _ _ _ Hi) as Hm2.
  pose proof (size_nonneg L2). rewrite size_app in *. rewrite wbits_app, <- app_assoc in Hh.
  destruct fuel as [|[|fuel]]; [divlia..|].
  destruct (tlv_loop_turn _ _ _ fuel _ _ _ buf_len count Ht Hh Hp) as (fuel' & -> & Hf'); [divlia..|].
  rewrite (IH fuel' (pre ++ wbits L1)); [do 2 f_equal; divlia|by rewrite <- app_assoc| |divlia..].
  rewrite length_app. unfold size in *. divlia.
Qed.

(** A member, its assignment, and the branch of the loop for its code. *)
Context {V : Type} `{EV : Elem Hdr V, !ElemOk Hdr Key V} (code : Key) (get : T -> V) (set : V -> T -> T).

Lemma items_opt v x :
  (∀ here v, step code here v = into el_decode (get v) set here v) ->
  (el_short = true -> null_skipped) ->
  get v = el_zero -> set el_zero v = v -> opt_good code x -> items v (opt_layout x) (set x v).
Proof.
  intros Hs Hn Hz Hset Hg. unfold opt_layout, opt_good in *. destruct (nz _).
  - destruct Hg as [Ht Hg]. apply items_one. exists (el_header x), el_short. split; [by apply el_element|].
    split; [intros Hsh; split; [by apply el_tail|by apply Hn]|]. intros here post Hh HL. rewrite Ht, Hs. unfold into. rewrite Hz.
    by rewrite (el_decodes x Hg here post Hh HL).
  - subst x. rewrite Hset. constructor.
Qed.

Context (w : Z) (max : nat) (Hw : Z.of_nat max < 2 ^ w) (geta : T -> list V) (getn : T -> Z) (seta : list V -> T -> T) (setn : Z -> T -> T).

(** The structure after the first [length xs] of an array. *)
Lemma items_next v done xs :
  (∀ here v, step code here v = into_next w el_decode (geta v) (getn v) seta setn here v) ->
  (el_short = true -> null_skipped) ->
  (∀ a n v, geta (setn n (seta a v)) = a ∧ getn (setn n (seta a v)) = n) ->
  (∀ a n a' n' v, setn n (seta a (setn n' (seta a' v))) = setn n (seta a v)) ->
  (length (done ++ xs) <= max)%nat -> Forall (present code) xs ->
  items (setn (Z.of_nat (length done)) (seta (done ++ repeat el_zero (max - length done)) v))
    (mjoin (el_layout <$> xs))
    (setn (Z.of_nat (length (done ++ xs)))
      (seta (done ++ xs ++ repeat el_zero (max - length (done ++ xs))) v)).
Proof.
  intros Hs Hnull Hget Hset. revert done. induction xs as [|x xs IH]; intros done Hl Hp; cbn [fmap list_fmap mjoin list_join].
  { rewrite app_nil_r. constructor. }
  apply Forall_cons_1 in Hp as [(Hz & Ht & Hg) Hp].
  specialize (IH (done ++ [x])). rewrite <- !app_assoc in IH. cbn [app] in IH.
  eapply items_cons; [|apply IH; auto].
  exists (el_header x), el_short. split; [by apply el_element|].
  split; [intros Hsh; split; [by apply el_tail|by apply Hnull]|]. intros here post Hh HL. rewrite Ht, Hs.
  unfold into_next. rewrite !(proj1 (Hget _ _ _)), !(proj2 (Hget _ _ _)), Nat2Z.id.
  rewrite length_app in Hl. cbn [length] in Hl.
  replace (max - length done)%nat with (S (max - length (done ++ [x])))
    by (rewrite length_app; cbn [length]; lia).
  cbn [repeat]. rewrite list_lookup_middle by done. cbn [mbind option_bind].
  rewrite (el_decodes x Hg here post Hh HL). cbn [mbind option_bind]. rewrite Hset.
  rewrite insert_app_r_alt, Nat.sub_diag by lia. rewrite uwrap_small by lia.
  rewrite length_app. cbn [length insert list_insert]. do 3 f_equal. lia.
Qed.

Lemma items_arr v n xs :
  (∀ here v, step code here v = into_next w el_decode (geta v) (getn v) seta setn here v) ->
  (el_short = true -> null_skipped) ->
  (∀ a n v, geta (setn n (seta a v)) = a ∧ getn (setn n (seta a v)) = n) ->
  (∀ a n a' n' v, setn n (seta a (setn n' (seta a' v))) = setn n (seta a v)) ->
  setn 0 (seta (repeat el_zero max) v) = v -> arr_good max code n xs ->
  items v (arr_layout n xs) (setn n (seta xs v)).
Proof.
  intros Hs Hnull Hget Hset Hv (Hn & Hl & Hp & Hd).
  pose proof (items_next v [] (take (Z.to_nat n) xs) Hs Hnull Hget Hset) as I. cbn [app length] in I.
  rewrite length_take, Nat.min_l in I by lia. rewrite <- Hd, take_drop, Nat.sub_0_r, Z2Nat.id in I by lia.
  change (Z.of_nat 0) with 0 in I. rewrite Hv in I. apply I; [lia|done].
Qed.
End decoders.

(** ** Groups *)

(** A group of the layout [body] with a fitting header. *)
Definition group_good {Hdr Key} `{TlvHeader Hdr Key} (h : Hdr) (body : layout) : Prop :=
  layout_ok (th_layout h) ∧ 8 * th_len h = size body ∧ 0 < size body.

Lemma group_element {Hdr Key} `{TlvHeader Hdr Key} (h : Hdr) body :
  group_good h body -> element_layout h (th_layout h ++ body).
Proof. intros (Hok & Hl & Hp). exists body. split_and!; auto. divlia. Qed.

Lemma places_last u m L : places u m L -> places u m (L ++ []).
Proof. by rewrite app_nil_r. Qed.

(** ** Regular elements as members *)

Definition regular_elem {Hdr T} `{IeCodec T} (hdr : T -> Hdr) : Elem Hdr T :=
  {| el_header := hdr; el_encode := ie_encode; el_decode := ie_decode; el_zero := ie_zero;
     el_unit := ie_unit; el_short := false; el_layout := ie_layout; el_good v := layout_ok (ie_layout v) |}.

Lemma regular_elem_ok {Hdr Key T} `{TlvHeaderOk Hdr Key, IeCodecOk T} (hdr : T -> Hdr) (body : T -> layout) :
  (∀ v, ie_layout v = th_layout (hdr v) ++ body v) ->
  (∀ v, 0 < size (body v) ∧ size (body v) mod 8 = 0) -> @ElemOk Hdr Key T _ _ (regular_elem hdr).
Proof.
  intros Hb Hs. split; cbn; intros v Hg.
  - apply ie_encodes.
  - by apply ie_decodes.
  - done.
  - exists (body v). destruct (Hs v). split_and!; auto. rewrite Hb in Hg. by apply layout_ok_app in Hg as [? _].
Qed.

(** The promises of an element whose decoder returns its whole size. *)
Ltac split_elem :=
  split; [| |let E := fresh in intros ? _ E; exact (False_ind _ (diff_false_true E))|].
Ltac solve_regular :=
  eapply regular_elem_ok; [intros v; reflexivity|intros v; split; reflexivity].

(** ** Automation *)

(** The members of an encoder, from the first: present or not, with [H] the rule of
    the call; an array of them; and one that is never used. *)
Ltac unit_ok := first [by left|by right].
Ltac no_member :=
  lazymatch goal with
  | |- places ?u (_ ⨾ _) _ => refine (places_seq u _ _ [] _ ltac:(unit_ok) _ _); [|]
  | |- places _ _ _ => idtac
  end;
  [repeat match goal with E : _ = _ |- _ => rewrite E end; apply places_skip; unit_ok|..].
Ltac placing tac :=
  lazymatch goal with
  | |- places _ (_ ⨾ _) _ => apply places_seq; [unit_ok|tac|]
  | |- places _ _ (_ ++ []) => apply places_last; tac
  end.
(** The next member of the encoder is the next of the layout. *)
Ltac is_next :=
  lazymatch goal with
  | |- places _ (enc_when (nz ?l) _ ⨾ _) (opt_layout ?x ++ _) => lazymatch l with context [x] => idtac end
  | |- places _ (enc_when (nz ?l) _) (opt_layout ?x ++ _) => lazymatch l with context [x] => idtac end
  end.
Ltac member H :=
  is_next; placing ltac:(idtac; lazymatch goal with |- places ?u _ (@opt_layout ?Hdr ?Key ?T ?TH ?E ?x) =>
    eapply (@places_opt u _ _ _ ltac:(unit_ok) H Hdr Key T TH _ E _ _ x);
     [reflexivity|intros _; first [exact I|reflexivity]|eassumption] end).
Ltac members H :=
  placing ltac:(idtac; lazymatch goal with |- places ?u _ (@arr_layout ?Hdr ?Key ?T ?TH ?E ?n ?xs) =>
    eapply (@places_arr u _ _ _ ltac:(unit_ok) H Hdr Key T TH _ E _ _ _ n xs);
     [reflexivity|by apply Forall_true|eassumption] end).
(** The four zero bytes at the end of a group are passed over. *)
Ltac skip_null := fail.
Ltac not_short :=
  let E := fresh in intros E; first [exact (False_ind _ (diff_false_true E))|skip_null].
Ltac read_member :=
  eapply items_app; [lazymatch goal with |- items ?sl ?step ?x (opt_layout (?g ?v)) _ =>
    lazymatch goal with H : opt_good ?C (g v) |- _ =>
      eapply (items_opt sl step C g _); [intros; reflexivity|not_short|reflexivity|reflexivity|exact H] end end|].
Ltac read_members C w max g n sg sn :=
  eapply items_app;
  [apply (items_arr _ _ C w max eq_refl g n sg sn); [reflexivity|not_short|intros; split; reflexivity|reflexivity|reflexivity|assumption]|].
(** At the end every member has been assigned or is zero. *)
Ltac read_end v :=
  match goal with |- items _ _ ?x [] _ => assert (x = v) as -> by (destruct v; cbn in *; subst; reflexivity) end;
  constructor.

(** All members of an encoder, with [tac] for those that are used, and all members of a
    decoder up to an array or the end. *)
Ltac place_members tac := repeat first [tac|no_member].
Ltac read_rest v := repeat read_member; read_end v.
