(* ===== verification/PfcpIes.v ===== *)
(** * The information elements of PFCP (src/libpfcp/include/pfcp_ies.h)

    One record per C structure, with its members in the order of the C code.
    An integer member is a [Z], an array of bytes the list of its bytes; the
    declared width of a member is in its comment when it is a bit field.
    [zero_x] is the structure [x] filled with zeros, as [memset] or [calloc]
    leaves it. *)

From S2P Require Import Prelude.

(** The byte lengths and codes the codec tests. *)
Definition IPV6_ADDRESS_LEN : Z := 16.
Definition MAC_ADDR_VAL_LEN : Z := 8.
Definition IPV4_GLOBAL_UNICAST : Z := 0.
Definition RULE_ID_TYPE_PDR : Z := 0.
Definition RULE_ID_TYPE_QER : Z := 2.
Definition RULE_ID_TYPE_URR : Z := 3.
Definition RULE_ID_TYPE_BAR : Z := 4.

(** IE header *)
Record pfcp_ie_header_t := mk_ie_header {
  ie_type : Z;
  ie_len : Z;
}.
Definition zero_ie_header : pfcp_ie_header_t := mk_ie_header 0 0.

(** The message header; [seid_seqno] is the union of the two forms, of which
    the [s] flag says which one is in use. *)
Record pfcp_has_seid := mk_has_seid {
  hs_seid : Z;
  hs_seq_no : Z; (* :24 *)
  hs_message_prio : Z; (* :4 *)
  hs_spare : Z; (* :4 *)
}.
Record pfcp_no_seid := mk_no_seid {
  ns_seq_no : Z; (* :24 *)
  ns_spare : Z; (* :8 *)
}.
Record pfcp_header_t := mk_header {
  header_s : Z; (* :1 *)
  header_mp : Z; (* :1 *)
  header_spare : Z; (* :3 *)
  header_version : Z; (* :3 *)
  header_message_type : Z;
  header_message_len : Z;
  header_seid_seqno : pfcp_has_seid + pfcp_no_seid;
}.

(** Cause *)
Record pfcp_cause_ie_t := mk_cause {
  cause_header : pfcp_ie_header_t;
  cause_value : Z;
}.
Definition zero_cause : pfcp_cause_ie_t := mk_cause zero_ie_header 0.

(** Source Interface *)
Record pfcp_src_intfc_ie_t := mk_src_intfc {
  src_intfc_header : pfcp_ie_header_t;
  src_intfc_spare : Z; (* :4 *)
  src_intfc_interface_value : Z; (* :4 *)
}.
Definition zero_src_intfc : pfcp_src_intfc_ie_t := mk_src_intfc zero_ie_header 0 0.

(** F-TEID *)
Record pfcp_fteid_ie_t := mk_fteid {
  fteid_header : pfcp_ie_header_t;
  fteid_spare : Z; (* :4 *)
  fteid_chid : Z; (* :1 *)
  fteid_ch : Z; (* :1 *)
  fteid_v6 : Z; (* :1 *)
  fteid_v4 : Z; (* :1 *)
  fteid_teid : Z;
  fteid_ipv4_address : Z;
  fteid_ipv6_address : list Z; (* [16] *)
  fteid_choose_id : Z;
}.
Definition zero_fteid : pfcp_fteid_ie_t := mk_fteid zero_ie_header 0 0 0 0 0 0 0 (repeat 0 16) 0.

(** Network Instance *)
Record pfcp_ntwk_inst_ie_t := mk_ntwk_inst {
  ntwk_inst_header : pfcp_ie_header_t;
  ntwk_inst_ntwk_inst : list Z; (* [32] *)
}.
Definition zero_ntwk_inst : pfcp_ntwk_inst_ie_t := mk_ntwk_inst zero_ie_header (repeat 0 32).

(** SDF Filter *)
Record pfcp_sdf_filter_ie_t := mk_sdf_filter {
  sdf_filter_header : pfcp_ie_header_t;
  sdf_filter_sdf_fltr_spare : Z; (* :3 *)
  sdf_filter_bid : Z; (* :1 *)
  sdf_filter_fl : Z; (* :1 *)
  sdf_filter_spi : Z; (* :1 *)
  sdf_filter_ttc : Z; (* :1 *)
  sdf_filter_fd : Z; (* :1 *)
  sdf_filter_sdf_fltr_spare2 : Z;
  sdf_filter_len_of_flow_desc : Z;
  sdf_filter_flow_desc : list Z; (* [255] *)
  sdf_filter_tos_traffic_cls : Z;
  sdf_filter_secur_parm_idx : Z;
  sdf_filter_flow_label : Z; (* :24 *)
  sdf_filter_id : Z;
}.
Definition zero_sdf_filter : pfcp_sdf_filter_ie_t := mk_sdf_filter zero_ie_header 0 0 0 0 0 0 0 0 (repeat 0 255) 0 0 0 0.

(** Application ID *)
Record pfcp_application_id_ie_t := mk_application_id {
  application_id_header : pfcp_ie_header_t;
  application_id_app_ident : list Z; (* [8] *)
}.
Definition zero_application_id : pfcp_application_id_ie_t := mk_application_id zero_ie_header (repeat 0 8).

(** Gate Status *)
Record pfcp_gate_status_ie_t := mk_gate_status {
  gate_status_header : pfcp_ie_header_t;
  gate_status_spare : Z; (* :4 *)
  gate_status_ul_gate : Z; (* :2 *)
  gate_status_dl_gate : Z; (* :2 *)
}.
Definition zero_gate_status : pfcp_gate_status_ie_t := mk_gate_status zero_ie_header 0 0 0.

(** MBR *)
Record pfcp_mbr_ie_t := mk_mbr {
  mbr_header : pfcp_ie_header_t;
  mbr_ul_mbr : Z; (* :40 *)
  mbr_dl_mbr : Z; (* :40 *)
}.
Definition zero_mbr : pfcp_mbr_ie_t := mk_mbr zero_ie_header 0 0.

(** GBR *)
Record pfcp_gbr_ie_t := mk_gbr {
  gbr_header : pfcp_ie_header_t;
  gbr_ul_gbr : Z; (* :40 *)
  gbr_dl_gbr : Z; (* :40 *)
}.
Definition zero_gbr : pfcp_gbr_ie_t := mk_gbr zero_ie_header 0 0.

(** QER Correlation ID *)
Record pfcp_qer_corr_id_ie_t := mk_qer_corr_id {
  qer_corr_id_header : pfcp_ie_header_t;
  qer_corr_id_val : Z;
}.
Definition zero_qer_corr_id : pfcp_qer_corr_id_ie_t := mk_qer_corr_id zero_ie_header 0.

(** Precedence *)
Record pfcp_precedence_ie_t := mk_precedence {
  precedence_header : pfcp_ie_header_t;
  precedence_prcdnc_val : Z;
}.
Definition zero_precedence : pfcp_precedence_ie_t := mk_precedence zero_ie_header 0.

(** Transport Level Marking *)
Record pfcp_trnspt_lvl_marking_ie_t := mk_trnspt_lvl_marking {
  trnspt_lvl_marking_header : pfcp_ie_header_t;
  trnspt_lvl_marking_tostraffic_cls : Z;
}.
Definition zero_trnspt_lvl_marking : pfcp_trnspt_lvl_marking_ie_t := mk_trnspt_lvl_marking zero_ie_header 0.

(** Volume Threshold *)
Record pfcp_vol_thresh_ie_t := mk_vol_thresh {
  vol_thresh_header : pfcp_ie_header_t;
  vol_thresh_spare : Z; (* :5 *)
  vol_thresh_dlvol : Z; (* :1 *)
  vol_thresh_ulvol : Z; (* :1 *)
  vol_thresh_tovol : Z; (* :1 *)
  vol_thresh_total_volume : Z;
  vol_thresh_uplink_volume : Z;
  vol_thresh_downlink_volume : Z;
}.
Definition zero_vol_thresh : pfcp_vol_thresh_ie_t := mk_vol_thresh zero_ie_header 0 0 0 0 0 0 0.

(** Time Threshold *)
Record pfcp_time_threshold_ie_t := mk_time_threshold {
  time_threshold_header : pfcp_ie_header_t;
  time_threshold_time_threshold : Z;
}.
Definition zero_time_threshold : pfcp_time_threshold_ie_t := mk_time_threshold zero_ie_header 0.

(** Monitoring Time *)
Record pfcp_monitoring_time_ie_t := mk_monitoring_time {
  monitoring_time_header : pfcp_ie_header_t;
  monitoring_time_monitoring_time : Z;
}.
Definition zero_monitoring_time : pfcp_monitoring_time_ie_t := mk_monitoring_time zero_ie_header 0.

(** Subsequent Volume Threshold *)
Record pfcp_sbsqnt_vol_thresh_ie_t := mk_sbsqnt_vol_thresh {
  sbsqnt_vol_thresh_header : pfcp_ie_header_t;
  sbsqnt_vol_thresh_spare : Z; (* :5 *)
  sbsqnt_vol_thresh_dlvol : Z; (* :1 *)
  sbsqnt_vol_thresh_ulvol : Z; (* :1 *)
  sbsqnt_vol_thresh_tovol : Z; (* :1 *)
  sbsqnt_vol_thresh_total_volume : Z;
  sbsqnt_vol_thresh_uplink_volume : Z;
  sbsqnt_vol_thresh_downlink_volume : Z;
}.
Definition zero_sbsqnt_vol_thresh : pfcp_sbsqnt_vol_thresh_ie_t := mk_sbsqnt_vol_thresh zero_ie_header 0 0 0 0 0 0 0.

(** Subsequent Time Threshold *)
Record pfcp_sbsqnt_time_thresh_ie_t := mk_sbsqnt_time_thresh {
  sbsqnt_time_thresh_header : pfcp_ie_header_t;
  sbsqnt_time_thresh_sbsqnt_time_thresh : Z;
}.
Definition zero_sbsqnt_time_thresh : pfcp_sbsqnt_time_thresh_ie_t := mk_sbsqnt_time_thresh zero_ie_header 0.

(** Inactivity Detection Time *)
Record pfcp_inact_det_time_ie_t := mk_inact_det_time {
  inact_det_time_header : pfcp_ie_header_t;
  inact_det_time_inact_det_time : Z;
}.
Definition zero_inact_det_time : pfcp_inact_det_time_ie_t := mk_inact_det_time zero_ie_header 0.

(** Reporting Triggers *)
Record pfcp_rptng_triggers_ie_t := mk_rptng_triggers {
  rptng_triggers_header : pfcp_ie_header_t;
  rptng_triggers_liusa : Z; (* :1 *)
  rptng_triggers_droth : Z; (* :1 *)
  rptng_triggers_stopt : Z; (* :1 *)
  rptng_triggers_start : Z; (* :1 *)
  rptng_triggers_quhti : Z; (* :1 *)
  rptng_triggers_timth : Z; (* :1 *)
  rptng_triggers_volth : Z; (* :1 *)
  rptng_triggers_perio : Z; (* :1 *)
  rptng_triggers_spare : Z; (* :1 *)
  rptng_triggers_spare2 : Z; (* :1 *)
  rptng_triggers_evequ : Z; (* :1 *)
  rptng_triggers_eveth : Z; (* :1 *)
  rptng_triggers_macar : Z; (* :1 *)
  rptng_triggers_envcl : Z; (* :1 *)
  rptng_triggers_timqu : Z; (* :1 *)
  rptng_triggers_volqu : Z; (* :1 *)
}.
Definition zero_rptng_triggers : pfcp_rptng_triggers_ie_t := mk_rptng_triggers zero_ie_header 0 0 0 0 0 0 0 0 0 0 0 0 0 0 0 0.

(** Redirect Information *)
Record pfcp_redir_info_ie_t := mk_redir_info {
  redir_info_header : pfcp_ie_header_t;
  redir_info_spare : Z; (* :4 *)
  redir_info_redir_addr_type : Z; (* :4 *)
  redir_info_redir_svr_addr_len : Z;
  redir_info_redir_svr_addr : Z;
}.
Definition zero_redir_info : pfcp_redir_info_ie_t := mk_redir_info zero_ie_header 0 0 0 0.

(** Report Type *)
Record pfcp_report_type_ie_t := mk_report_type {
  report_type_header : pfcp_ie_header_t;
  report_type_rpt_type_spare : Z; (* :4 *)
  report_type_upir : Z; (* :1 *)
  report_type_erir : Z; (* :1 *)
  report_type_usar : Z; (* :1 *)
  report_type_dldr : Z; (* :1 *)
}.
Definition zero_report_type : pfcp_report_type_ie_t := mk_report_type zero_ie_header 0 0 0 0 0.

(** Offending IE *)
Record pfcp_offending_ie_ie_t := mk_offending_ie {
  offending_ie_header : pfcp_ie_header_t;
  offending_ie_type_of_the_offending_ie : Z;
}.
Definition zero_offending_ie : pfcp_offending_ie_ie_t := mk_offending_ie zero_ie_header 0.

(** Forwarding Policy *)
Record pfcp_frwdng_plcy_ie_t := mk_frwdng_plcy {
  frwdng_plcy_header : pfcp_ie_header_t;
  frwdng_plcy_ident_len : Z;
  frwdng_plcy_ident : Z;
}.
Definition zero_frwdng_plcy : pfcp_frwdng_plcy_ie_t := mk_frwdng_plcy zero_ie_header 0 0.

(** Destination Interface *)
Record pfcp_dst_intfc_ie_t := mk_dst_intfc {
  dst_intfc_header : pfcp_ie_header_t;
  dst_intfc_spare : Z; (* :4 *)
  dst_intfc_interface_value : Z; (* :4 *)
}.
Definition zero_dst_intfc : pfcp_dst_intfc_ie_t := mk_dst_intfc zero_ie_header 0 0.

(** UP Function Features *)
Record pfcp_up_func_feat_ie_t := mk_up_func_feat {
  up_func_feat_header : pfcp_ie_header_t;
  up_func_feat_sup_feat : Z;
  up_func_feat_add_sup_feat1 : Z;
  up_func_feat_add_sup_feat2 : Z;
}.
Definition zero_up_func_feat : pfcp_up_func_feat_ie_t := mk_up_func_feat zero_ie_header 0 0 0.

(** Apply Action *)
Record pfcp_apply_action_ie_t := mk_apply_action {
  apply_action_header : pfcp_ie_header_t;
  apply_action_apply_act_spare : Z; (* :1 *)
  apply_action_apply_act_spare2 : Z; (* :1 *)
  apply_action_apply_act_spare3 : Z; (* :1 *)
  apply_action_dupl : Z; (* :1 *)
  apply_action_nocp : Z; (* :1 *)
  apply_action_buff : Z; (* :1 *)
  apply_action_forw : Z; (* :1 *)
  apply_action_drop : Z; (* :1 *)
}.
Definition zero_apply_action : pfcp_apply_action_ie_t := mk_apply_action zero_ie_header 0 0 0 0 0 0 0 0.

(** Downlink Data Service Information *)
Record pfcp_dnlnk_data_svc_info_ie_t := mk_dnlnk_data_svc_info {
  dnlnk_data_svc_info_header : pfcp_ie_header_t;
  dnlnk_data_svc_info_spare : Z; (* :6 *)
  dnlnk_data_svc_info_qfii : Z; (* :1 *)
  dnlnk_data_svc_info_ppi : Z; (* :1 *)
  dnlnk_data_svc_info_spare2 : Z; (* :2 *)
  dnlnk_data_svc_info_paging_plcy_indctn_val : Z; (* :6 *)
  dnlnk_data_svc_info_spare3 : Z; (* :2 *)
  dnlnk_data_svc_info_qfi : Z; (* :6 *)
}.
Definition zero_dnlnk_data_svc_info : pfcp_dnlnk_data_svc_info_ie_t := mk_dnlnk_data_svc_info zero_ie_header 0 0 0 0 0 0 0.

(** Downlink Data Notification Delay *)
Record pfcp_dnlnk_data_notif_delay_ie_t := mk_dnlnk_data_notif_delay {
  dnlnk_data_notif_delay_header : pfcp_ie_header_t;
  dnlnk_data_notif_delay_delay_val_in_integer_multiples_of_50_millisecs_or_zero : Z;
}.
Definition zero_dnlnk_data_notif_delay : pfcp_dnlnk_data_notif_delay_ie_t := mk_dnlnk_data_notif_delay zero_ie_header 0.

(** DL Buffering Duration *)
Record pfcp_dl_buf_dur_ie_t := mk_dl_buf_dur {
  dl_buf_dur_header : pfcp_ie_header_t;
  dl_buf_dur_timer_unit : Z; (* :3 *)
  dl_buf_dur_timer_value : Z; (* :5 *)
}.
Definition zero_dl_buf_dur : pfcp_dl_buf_dur_ie_t := mk_dl_buf_dur zero_ie_header 0 0.

(** DL Buffering Suggested Packet Count *)
Record pfcp_dl_buf_suggstd_pckt_cnt_ie_t := mk_dl_buf_suggstd_pckt_cnt {
  dl_buf_suggstd_pckt_cnt_header : pfcp_ie_header_t;
  dl_buf_suggstd_pckt_cnt_pckt_cnt_val : Z;
}.
Definition zero_dl_buf_suggstd_pckt_cnt : pfcp_dl_buf_suggstd_pckt_cnt_ie_t := mk_dl_buf_suggstd_pckt_cnt zero_ie_header 0.

(** PFCPSMReq-Flags *)
Record pfcp_pfcpsmreq_flags_ie_t := mk_pfcpsmreq_flags {
  pfcpsmreq_flags_header : pfcp_ie_header_t;
  pfcpsmreq_flags_pfcpsmreq_flgs_spare : Z; (* :1 *)
  pfcpsmreq_flags_pfcpsmreq_flgs_spare2 : Z; (* :1 *)
  pfcpsmreq_flags_pfcpsmreq_flgs_spare3 : Z; (* :1 *)
  pfcpsmreq_flags_pfcpsmreq_flgs_spare4 : Z; (* :1 *)
  pfcpsmreq_flags_pfcpsmreq_flgs_spare5 : Z; (* :1 *)
  pfcpsmreq_flags_qaurr : Z; (* :1 *)
  pfcpsmreq_flags_sndem : Z; (* :1 *)
  pfcpsmreq_flags_drobu : Z; (* :1 *)
}.
Definition zero_pfcpsmreq_flags : pfcp_pfcpsmreq_flags_ie_t := mk_pfcpsmreq_flags zero_ie_header 0 0 0 0 0 0 0 0.

(** PFCPSRRsp-Flags *)
Record pfcp_pfcpsrrsp_flags_ie_t := mk_pfcpsrrsp_flags {
  pfcpsrrsp_flags_header : pfcp_ie_header_t;
  pfcpsrrsp_flags_pfcpsrrsp_flgs_spare : Z; (* :1 *)
  pfcpsrrsp_flags_pfcpsrrsp_flgs_spare2 : Z; (* :1 *)
  pfcpsrrsp_flags_pfcpsrrsp_flgs_spare3 : Z; (* :1 *)
  pfcpsrrsp_flags_pfcpsrrsp_flgs_spare4 : Z; (* :1 *)
  pfcpsrrsp_flags_pfcpsrrsp_flgs_spare5 : Z; (* :1 *)
  pfcpsrrsp_flags_pfcpsrrsp_flgs_spare6 : Z; (* :1 *)
  pfcpsrrsp_flags_pfcpsrrsp_flgs_spare7 : Z; (* :1 *)
  pfcpsrrsp_flags_drobu : Z; (* :1 *)
}.
Definition zero_pfcpsrrsp_flags : pfcp_pfcpsrrsp_flags_ie_t := mk_pfcpsrrsp_flags zero_ie_header 0 0 0 0 0 0 0 0.

(** Sequence Number *)
Record pfcp_sequence_number_ie_t := mk_sequence_number {
  sequence_number_header : pfcp_ie_header_t;
  sequence_number_sequence_number : Z;
}.
Definition zero_sequence_number : pfcp_sequence_number_ie_t := mk_sequence_number zero_ie_header 0.

(** Metric *)
Record pfcp_metric_ie_t := mk_metric {
  metric_header : pfcp_ie_header_t;
  metric_metric : Z;
}.
Definition zero_metric : pfcp_metric_ie_t := mk_metric zero_ie_header 0.

(** Timer *)
Record pfcp_timer_ie_t := mk_timer {
  timer_header : pfcp_ie_header_t;
  timer_unit : Z; (* :3 *)
  timer_value : Z; (* :5 *)
}.
Definition zero_timer : pfcp_timer_ie_t := mk_timer zero_ie_header 0 0.

(** PDR ID *)
Record pfcp_pdr_id_ie_t := mk_pdr_id {
  pdr_id_header : pfcp_ie_header_t;
  pdr_id_rule_id : Z;
}.
Definition zero_pdr_id : pfcp_pdr_id_ie_t := mk_pdr_id zero_ie_header 0.

(** F-SEID *)
Record pfcp_fseid_ie_t := mk_fseid {
  fseid_header : pfcp_ie_header_t;
  fseid_spare : Z; (* :1 *)
  fseid_spare2 : Z; (* :1 *)
  fseid_spare3 : Z; (* :1 *)
  fseid_spare4 : Z; (* :1 *)
  fseid_spare5 : Z; (* :1 *)
  fseid_spare6 : Z; (* :1 *)
  fseid_v4 : Z; (* :1 *)
  fseid_v6 : Z; (* :1 *)
  fseid_seid : Z;
  fseid_ipv4_address : Z;
  fseid_ipv6_address : list Z; (* [16] *)
}.
Definition zero_fseid : pfcp_fseid_ie_t := mk_fseid zero_ie_header 0 0 0 0 0 0 0 0 0 0 (repeat 0 16).

(** Node ID *)
Record pfcp_node_id_ie_t := mk_node_id {
  node_id_header : pfcp_ie_header_t;
  node_id_spare : Z; (* :4 *)
  node_id_type : Z; (* :4 *)
  node_id_value : list Z; (* [8] *)
}.
Definition zero_node_id : pfcp_node_id_ie_t := mk_node_id zero_ie_header 0 0 (repeat 0 8).

(** PFD contents *)
Record pfcp_pfd_contents_ie_t := mk_pfd_contents {
  pfd_contents_header : pfcp_ie_header_t;
  pfd_contents_spare : Z; (* :4 *)
  pfd_contents_cp : Z; (* :1 *)
  pfd_contents_dn : Z; (* :1 *)
  pfd_contents_url : Z; (* :1 *)
  pfd_contents_fd : Z; (* :1 *)
  pfd_contents_spare2 : Z;
  pfd_contents_len_of_flow_desc : Z;
  pfd_contents_flow_desc : Z;
  pfd_contents_length_of_url : Z;
  pfd_contents_url2 : Z;
  pfd_contents_len_of_domain_nm : Z;
  pfd_contents_domain_name : Z;
  pfd_contents_len_of_cstm_pfd_cntnt : Z;
  pfd_contents_cstm_pfd_cntnt : list Z;
}.
Definition zero_pfd_contents : pfcp_pfd_contents_ie_t := mk_pfd_contents zero_ie_header 0 0 0 0 0 0 0 0 0 0 0 0 0 [].

(** Measurement Method *)
Record pfcp_meas_mthd_ie_t := mk_meas_mthd {
  meas_mthd_header : pfcp_ie_header_t;
  meas_mthd_spare : Z; (* :1 *)
  meas_mthd_spare2 : Z; (* :1 *)
  meas_mthd_spare3 : Z; (* :1 *)
  meas_mthd_spare4 : Z; (* :1 *)
  meas_mthd_spare5 : Z; (* :1 *)
  meas_mthd_event : Z; (* :1 *)
  meas_mthd_volum : Z; (* :1 *)
  meas_mthd_durat : Z; (* :1 *)
}.
Definition zero_meas_mthd : pfcp_meas_mthd_ie_t := mk_meas_mthd zero_ie_header 0 0 0 0 0 0 0 0.

(** Usage Report Trigger *)
Record pfcp_usage_rpt_trig_ie_t := mk_usage_rpt_trig {
  usage_rpt_trig_header : pfcp_ie_header_t;
  usage_rpt_trig_immer : Z; (* :1 *)
  usage_rpt_trig_droth : Z; (* :1 *)
  usage_rpt_trig_stopt : Z; (* :1 *)
  usage_rpt_trig_start : Z; (* :1 *)
  usage_rpt_trig_quhti : Z; (* :1 *)
  usage_rpt_trig_timth : Z; (* :1 *)
  usage_rpt_trig_volth : Z; (* :1 *)
  usage_rpt_trig_perio : Z; (* :1 *)
  usage_rpt_trig_eveth : Z; (* :1 *)
  usage_rpt_trig_macar : Z; (* :1 *)
  usage_rpt_trig_envcl : Z; (* :1 *)
  usage_rpt_trig_monit : Z; (* :1 *)
  usage_rpt_trig_termr : Z; (* :1 *)
  usage_rpt_trig_liusa : Z; (* :1 *)
  usage_rpt_trig_timqu : Z; (* :1 *)
  usage_rpt_trig_volqu : Z; (* :1 *)
  usage_rpt_trig_spare : Z; (* :7 *)
  usage_rpt_trig_evequ : Z; (* :1 *)
}.
Definition zero_usage_rpt_trig : pfcp_usage_rpt_trig_ie_t := mk_usage_rpt_trig zero_ie_header 0 0 0 0 0 0 0 0 0 0 0 0 0 0 0 0 0 0.

(** Measurement Period *)
Record pfcp_meas_period_ie_t := mk_meas_period {
  meas_period_header : pfcp_ie_header_t;
  meas_period_meas_period : Z;
}.
Definition zero_meas_period : pfcp_meas_period_ie_t := mk_meas_period zero_ie_header 0.

(** FQ-CSID *)
Record pfcp_fqcsid_ie_t := mk_fqcsid {
  fqcsid_header : pfcp_ie_header_t;
  fqcsid_node_id_type : Z; (* :4 *)
  fqcsid_number_of_csids : Z; (* :4 *)
  fqcsid_node_address : Z;
  fqcsid_pdn_conn_set_ident : list Z; (* [8] *)
}.
Definition zero_fqcsid : pfcp_fqcsid_ie_t := mk_fqcsid zero_ie_header 0 0 0 (repeat 0 8).

(** Volume Measurement *)
Record pfcp_vol_meas_ie_t := mk_vol_meas {
  vol_meas_header : pfcp_ie_header_t;
  vol_meas_spare : Z; (* :5 *)
  vol_meas_dlvol : Z; (* :1 *)
  vol_meas_ulvol : Z; (* :1 *)
  vol_meas_tovol : Z; (* :1 *)
  vol_meas_total_volume : Z;
  vol_meas_uplink_volume : Z;
  vol_meas_downlink_volume : Z;
}.
Definition zero_vol_meas : pfcp_vol_meas_ie_t := mk_vol_meas zero_ie_header 0 0 0 0 0 0 0.

(** Duration Measurement *)
Record pfcp_dur_meas_ie_t := mk_dur_meas {
  dur_meas_header : pfcp_ie_header_t;
  dur_meas_duration_value : Z;
}.
Definition zero_dur_meas : pfcp_dur_meas_ie_t := mk_dur_meas zero_ie_header 0.

(** Time of First Packet *)
Record pfcp_time_of_frst_pckt_ie_t := mk_time_of_frst_pckt {
  time_of_frst_pckt_header : pfcp_ie_header_t;
  time_of_frst_pckt_time_of_frst_pckt : Z;
}.
Definition zero_time_of_frst_pckt : pfcp_time_of_frst_pckt_ie_t := mk_time_of_frst_pckt zero_ie_header 0.

(** Time of Last Packet *)
Record pfcp_time_of_lst_pckt_ie_t := mk_time_of_lst_pckt {
  time_of_lst_pckt_header : pfcp_ie_header_t;
  time_of_lst_pckt_time_of_lst_pckt : Z;
}.
Definition zero_time_of_lst_pckt : pfcp_time_of_lst_pckt_ie_t := mk_time_of_lst_pckt zero_ie_header 0.

(** Quota Holding Time *)
Record pfcp_quota_hldng_time_ie_t := mk_quota_hldng_time {
  quota_hldng_time_header : pfcp_ie_header_t;
  quota_hldng_time_val : Z;
}.
Definition zero_quota_hldng_time : pfcp_quota_hldng_time_ie_t := mk_quota_hldng_time zero_ie_header 0.

(** Dropped DL Traffic Threshold *)
Record pfcp_drpd_dl_traffic_thresh_ie_t := mk_drpd_dl_traffic_thresh {
  drpd_dl_traffic_thresh_header : pfcp_ie_header_t;
  drpd_dl_traffic_thresh_spare : Z; (* :6 *)
  drpd_dl_traffic_thresh_dlby : Z; (* :1 *)
  drpd_dl_traffic_thresh_dlpa : Z; (* :1 *)
  drpd_dl_traffic_thresh_dnlnk_pckts : Z;
  drpd_dl_traffic_thresh_nbr_of_bytes_of_dnlnk_data : Z;
}.
Definition zero_drpd_dl_traffic_thresh : pfcp_drpd_dl_traffic_thresh_ie_t := mk_drpd_dl_traffic_thresh zero_ie_header 0 0 0 0 0.

(** Volume Quota *)
Record pfcp_volume_quota_ie_t := mk_volume_quota {
  volume_quota_header : pfcp_ie_header_t;
  volume_quota_vol_quota_spare : Z; (* :5 *)
  volume_quota_dlvol : Z; (* :1 *)
  volume_quota_ulvol : Z; (* :1 *)
  volume_quota_tovol : Z; (* :1 *)
  volume_quota_total_volume : Z;
  volume_quota_uplink_volume : Z;
  volume_quota_downlink_volume : Z;
}.
Definition zero_volume_quota : pfcp_volume_quota_ie_t := mk_volume_quota zero_ie_header 0 0 0 0 0 0 0.

(** Time Quota *)
Record pfcp_time_quota_ie_t := mk_time_quota {
  time_quota_header : pfcp_ie_header_t;
  time_quota_val : Z;
}.
Definition zero_time_quota : pfcp_time_quota_ie_t := mk_time_quota zero_ie_header 0.

(** Start Time *)
Record pfcp_start_time_ie_t := mk_start_time {
  start_time_header : pfcp_ie_header_t;
  start_time_start_time : Z;
}.
Definition zero_start_time : pfcp_start_time_ie_t := mk_start_time zero_ie_header 0.

(** End Time *)
Record pfcp_end_time_ie_t := mk_end_time {
  end_time_header : pfcp_ie_header_t;
  end_time_end_time : Z;
}.
Definition zero_end_time : pfcp_end_time_ie_t := mk_end_time zero_ie_header 0.

(** URR ID *)
Record pfcp_urr_id_ie_t := mk_urr_id {
  urr_id_header : pfcp_ie_header_t;
  urr_id_value : Z;
}.
Definition zero_urr_id : pfcp_urr_id_ie_t := mk_urr_id zero_ie_header 0.

(** Linked URR ID *)
Record pfcp_linked_urr_id_ie_t := mk_linked_urr_id {
  linked_urr_id_header : pfcp_ie_header_t;
  linked_urr_id_lnkd_urr_id_val : Z;
}.
Definition zero_linked_urr_id : pfcp_linked_urr_id_ie_t := mk_linked_urr_id zero_ie_header 0.

(** Outer Header Creation *)
Record pfcp_outer_hdr_creation_ie_t := mk_outer_hdr_creation {
  outer_hdr_creation_header : pfcp_ie_header_t;
  outer_hdr_creation_desc : Z;
  outer_hdr_creation_teid : Z;
  outer_hdr_creation_ipv4_address : Z;
  outer_hdr_creation_ipv6_address : list Z; (* [16] *)
  outer_hdr_creation_port_number : Z;
  outer_hdr_creation_ctag : Z; (* :24 *)
  outer_hdr_creation_stag : Z; (* :24 *)
}.
Definition zero_outer_hdr_creation : pfcp_outer_hdr_creation_ie_t := mk_outer_hdr_creation zero_ie_header 0 0 0 (repeat 0 16) 0 0 0.

(** BAR ID *)
Record pfcp_bar_id_ie_t := mk_bar_id {
  bar_id_header : pfcp_ie_header_t;
  bar_id_value : Z;
}.
Definition zero_bar_id : pfcp_bar_id_ie_t := mk_bar_id zero_ie_header 0.

(** CP Function Features *)
Record pfcp_cp_func_feat_ie_t := mk_cp_func_feat {
  cp_func_feat_header : pfcp_ie_header_t;
  cp_func_feat_sup_feat : Z;
}.
Definition zero_cp_func_feat : pfcp_cp_func_feat_ie_t := mk_cp_func_feat zero_ie_header 0.

(** Usage Information *)
Record pfcp_usage_info_ie_t := mk_usage_info {
  usage_info_header : pfcp_ie_header_t;
  usage_info_spare : Z; (* :5 *)
  usage_info_ube : Z; (* :1 *)
  usage_info_uae : Z; (* :1 *)
  usage_info_aft : Z; (* :1 *)
  usage_info_bef : Z; (* :1 *)
}.
Definition zero_usage_info : pfcp_usage_info_ie_t := mk_usage_info zero_ie_header 0 0 0 0 0.

(** Application Instance ID *)
Record pfcp_app_inst_id_ie_t := mk_app_inst_id {
  app_inst_id_header : pfcp_ie_header_t;
  app_inst_id_app_inst_ident : Z;
}.
Definition zero_app_inst_id : pfcp_app_inst_id_ie_t := mk_app_inst_id zero_ie_header 0.

(** Flow Information *)
Record pfcp_flow_info_ie_t := mk_flow_info {
  flow_info_header : pfcp_ie_header_t;
  flow_info_spare : Z; (* :5 *)
  flow_info_flow_direction : Z; (* :3 *)
  flow_info_len_of_flow_desc : Z;
  flow_info_flow_desc : Z;
}.
Definition zero_flow_info : pfcp_flow_info_ie_t := mk_flow_info zero_ie_header 0 0 0 0.

(** UE IP Address *)
Record pfcp_ue_ip_address_ie_t := mk_ue_ip_address {
  ue_ip_address_header : pfcp_ie_header_t;
  ue_ip_address_ue_ip_addr_spare : Z; (* :3 *)
  ue_ip_address_chv4 : Z; (* :1 *)
  ue_ip_address_ipv6d : Z; (* :1 *)
  ue_ip_address_sd : Z; (* :1 *)
  ue_ip_address_v4 : Z; (* :1 *)
  ue_ip_address_v6 : Z; (* :1 *)
  ue_ip_address_ipv4_address : Z;
  ue_ip_address_ipv6_address : list Z; (* [16] *)
  ue_ip_address_ipv6_pfx_dlgtn_bits : Z;
}.
Definition zero_ue_ip_address : pfcp_ue_ip_address_ie_t := mk_ue_ip_address zero_ie_header 0 0 0 0 0 0 0 (repeat 0 16) 0.

(** Packet Rate *)
Record pfcp_packet_rate_ie_t := mk_packet_rate {
  packet_rate_header : pfcp_ie_header_t;
  packet_rate_pckt_rate_spare : Z; (* :6 *)
  packet_rate_dlpr : Z; (* :1 *)
  packet_rate_ulpr : Z; (* :1 *)
  packet_rate_pckt_rate_spare2 : Z; (* :5 *)
  packet_rate_uplnk_time_unit : Z; (* :3 *)
  packet_rate_max_uplnk_pckt_rate : Z;
  packet_rate_pckt_rate_spare3 : Z; (* :5 *)
  packet_rate_dnlnk_time_unit : Z; (* :3 *)
  packet_rate_max_dnlnk_pckt_rate : Z;
}.
Definition zero_packet_rate : pfcp_packet_rate_ie_t := mk_packet_rate zero_ie_header 0 0 0 0 0 0 0 0 0.

(** Outer Header Removal *)
Record pfcp_outer_hdr_removal_ie_t := mk_outer_hdr_removal {
  outer_hdr_removal_header : pfcp_ie_header_t;
  outer_hdr_removal_desc : Z;
}.
Definition zero_outer_hdr_removal : pfcp_outer_hdr_removal_ie_t := mk_outer_hdr_removal zero_ie_header 0.

(** Recovery Time Stamp *)
Record pfcp_rcvry_time_stmp_ie_t := mk_rcvry_time_stmp {
  rcvry_time_stmp_header : pfcp_ie_header_t;
  rcvry_time_stmp_val : Z;
}.
Definition zero_rcvry_time_stmp : pfcp_rcvry_time_stmp_ie_t := mk_rcvry_time_stmp zero_ie_header 0.

(** DL Flow Level Marking *)
Record pfcp_dl_flow_lvl_marking_ie_t := mk_dl_flow_lvl_marking {
  dl_flow_lvl_marking_header : pfcp_ie_header_t;
  dl_flow_lvl_marking_spare : Z; (* :6 *)
  dl_flow_lvl_marking_sci : Z; (* :1 *)
  dl_flow_lvl_marking_ttc : Z; (* :1 *)
  dl_flow_lvl_marking_tostraffic_cls : Z;
  dl_flow_lvl_marking_svc_cls_indctr : Z;
}.
Definition zero_dl_flow_lvl_marking : pfcp_dl_flow_lvl_marking_ie_t := mk_dl_flow_lvl_marking zero_ie_header 0 0 0 0 0.

(** Header Enrichment *)
Record pfcp_hdr_enrchmt_ie_t := mk_hdr_enrchmt {
  hdr_enrchmt_header : pfcp_ie_header_t;
  hdr_enrchmt_spare : Z; (* :3 *)
  hdr_enrchmt_header_type : Z; (* :5 *)
  hdr_enrchmt_len_of_hdr_fld_nm : Z;
  hdr_enrchmt_hdr_fld_nm : Z;
  hdr_enrchmt_len_of_hdr_fld_val : Z;
  hdr_enrchmt_hdr_fld_val : Z;
}.
Definition zero_hdr_enrchmt : pfcp_hdr_enrchmt_ie_t := mk_hdr_enrchmt zero_ie_header 0 0 0 0 0 0.

(** Measurement Information *)
Record pfcp_meas_info_ie_t := mk_meas_info {
  meas_info_header : pfcp_ie_header_t;
  meas_info_spare : Z; (* :4 *)
  meas_info_istm : Z; (* :1 *)
  meas_info_radi : Z; (* :1 *)
  meas_info_inam : Z; (* :1 *)
  meas_info_mbqe : Z; (* :1 *)
}.
Definition zero_meas_info : pfcp_meas_info_ie_t := mk_meas_info zero_ie_header 0 0 0 0 0.

(** Node Report Type *)
Record pfcp_node_rpt_type_ie_t := mk_node_rpt_type {
  node_rpt_type_header : pfcp_ie_header_t;
  node_rpt_type_spare : Z; (* :7 *)
  node_rpt_type_upfr : Z; (* :1 *)
}.
Definition zero_node_rpt_type : pfcp_node_rpt_type_ie_t := mk_node_rpt_type zero_ie_header 0 0.

(** Remote GTP-U Peer *)
Record pfcp_rmt_gtpu_peer_ie_t := mk_rmt_gtpu_peer {
  rmt_gtpu_peer_header : pfcp_ie_header_t;
  rmt_gtpu_peer_spare : Z; (* :6 *)
  rmt_gtpu_peer_v4 : Z; (* :1 *)
  rmt_gtpu_peer_v6 : Z; (* :1 *)
  rmt_gtpu_peer_ipv4_address : Z;
  rmt_gtpu_peer_ipv6_address : list Z; (* [16] *)
}.
Definition zero_rmt_gtpu_peer : pfcp_rmt_gtpu_peer_ie_t := mk_rmt_gtpu_peer zero_ie_header 0 0 0 0 (repeat 0 16).

(** UR-SEQN *)
Record pfcp_urseqn_ie_t := mk_urseqn {
  urseqn_header : pfcp_ie_header_t;
  urseqn_urseqn : Z;
}.
Definition zero_urseqn : pfcp_urseqn_ie_t := mk_urseqn zero_ie_header 0.

(** Activate Predefined Rules *)
Record pfcp_actvt_predef_rules_ie_t := mk_actvt_predef_rules {
  actvt_predef_rules_header : pfcp_ie_header_t;
  actvt_predef_rules_predef_rules_nm : list Z; (* [8] *)
}.
Definition zero_actvt_predef_rules : pfcp_actvt_predef_rules_ie_t := mk_actvt_predef_rules zero_ie_header (repeat 0 8).

(** Deactivate Predefined Rules *)
Record pfcp_deact_predef_rules_ie_t := mk_deact_predef_rules {
  deact_predef_rules_header : pfcp_ie_header_t;
  deact_predef_rules_predef_rules_nm : Z;
}.
Definition zero_deact_predef_rules : pfcp_deact_predef_rules_ie_t := mk_deact_predef_rules zero_ie_header 0.

(** FAR ID *)
Record pfcp_far_id_ie_t := mk_far_id {
  far_id_header : pfcp_ie_header_t;
  far_id_value : Z;
}.
Definition zero_far_id : pfcp_far_id_ie_t := mk_far_id zero_ie_header 0.

(** QER ID *)
Record pfcp_qer_id_ie_t := mk_qer_id {
  qer_id_header : pfcp_ie_header_t;
  qer_id_value : Z;
}.
Definition zero_qer_id : pfcp_qer_id_ie_t := mk_qer_id zero_ie_header 0.

(** OCI Flags *)
Record pfcp_oci_flags_ie_t := mk_oci_flags {
  oci_flags_header : pfcp_ie_header_t;
  oci_flags_spare : Z; (* :7 *)
  oci_flags_aoci : Z; (* :1 *)
}.
Definition zero_oci_flags : pfcp_oci_flags_ie_t := mk_oci_flags zero_ie_header 0 0.

(** UP Association Release Request *)
Record pfcp_up_assn_rel_req_ie_t := mk_up_assn_rel_req {
  up_assn_rel_req_header : pfcp_ie_header_t;
  up_assn_rel_req_spare : Z; (* :7 *)
  up_assn_rel_req_sarr : Z; (* :1 *)
}.
Definition zero_up_assn_rel_req : pfcp_up_assn_rel_req_ie_t := mk_up_assn_rel_req zero_ie_header 0 0.

(** Graceful Release Period *)
Record pfcp_graceful_rel_period_ie_t := mk_graceful_rel_period {
  graceful_rel_period_header : pfcp_ie_header_t;
  graceful_rel_period_timer_unit : Z; (* :3 *)
  graceful_rel_period_timer_value : Z; (* :5 *)
}.
Definition zero_graceful_rel_period : pfcp_graceful_rel_period_ie_t := mk_graceful_rel_period zero_ie_header 0 0.

(** PDN Type *)
Record pfcp_pdn_type_ie_t := mk_pdn_type {
  pdn_type_header : pfcp_ie_header_t;
  pdn_type_spare : Z; (* :5 *)
  pdn_type_pdn_type : Z; (* :3 *)
}.
Definition zero_pdn_type : pfcp_pdn_type_ie_t := mk_pdn_type zero_ie_header 0 0.

(** Failed Rule ID *)
Record pfcp_failed_rule_id_ie_t := mk_failed_rule_id {
  failed_rule_id_header : pfcp_ie_header_t;
  failed_rule_id_spare : Z; (* :3 *)
  failed_rule_id_rule_id_type : Z; (* :5 *)
  failed_rule_id_rule_id_value : list Z; (* [8] *)
}.
Definition zero_failed_rule_id : pfcp_failed_rule_id_ie_t := mk_failed_rule_id zero_ie_header 0 0 (repeat 0 8).

(** Time Quota Mechanism *)
Record pfcp_time_quota_mech_ie_t := mk_time_quota_mech {
  time_quota_mech_header : pfcp_ie_header_t;
  time_quota_mech_spare : Z; (* :6 *)
  time_quota_mech_btit : Z; (* :2 *)
  time_quota_mech_base_time_int : Z;
}.
Definition zero_time_quota_mech : pfcp_time_quota_mech_ie_t := mk_time_quota_mech zero_ie_header 0 0 0.

(** User Plane IP Resource Information *)
Record pfcp_user_plane_ip_rsrc_info_ie_t := mk_user_plane_ip_rsrc_info {
  user_plane_ip_rsrc_info_header : pfcp_ie_header_t;
  user_plane_ip_rsrc_info_spare : Z; (* :1 *)
  user_plane_ip_rsrc_info_assosi : Z; (* :1 *)
  user_plane_ip_rsrc_info_assoni : Z; (* :1 *)
  user_plane_ip_rsrc_info_teidri : Z; (* :3 *)
  user_plane_ip_rsrc_info_v6 : Z; (* :1 *)
  user_plane_ip_rsrc_info_v4 : Z; (* :1 *)
  user_plane_ip_rsrc_info_teid_range : Z;
  user_plane_ip_rsrc_info_ipv4_address : Z;
  user_plane_ip_rsrc_info_ipv6_address : list Z; (* [16] *)
  user_plane_ip_rsrc_info_ntwk_inst : Z;
  user_plane_ip_rsrc_info_spare2 : Z; (* :4 *)
  user_plane_ip_rsrc_info_src_intfc : Z; (* :4 *)
}.
Definition zero_user_plane_ip_rsrc_info : pfcp_user_plane_ip_rsrc_info_ie_t := mk_user_plane_ip_rsrc_info zero_ie_header 0 0 0 0 0 0 0 0 (repeat 0 16) 0 0 0.

(** User Plane Inactivity Timer *)
Record pfcp_user_plane_inact_timer_ie_t := mk_user_plane_inact_timer {
  user_plane_inact_timer_header : pfcp_ie_header_t;
  user_plane_inact_timer_user_plane_inact_timer : Z;
}.
Definition zero_user_plane_inact_timer : pfcp_user_plane_inact_timer_ie_t := mk_user_plane_inact_timer zero_ie_header 0.

(** Multiplier *)
Record pfcp_multiplier_ie_t := mk_multiplier {
  multiplier_header : pfcp_ie_header_t;
  multiplier_value_digits : Z;
  multiplier_exponent : Z;
}.
Definition zero_multiplier : pfcp_multiplier_ie_t := mk_multiplier zero_ie_header 0 0.

(** Aggregated URR ID *)
Record pfcp_agg_urr_id_ie_t := mk_agg_urr_id {
  agg_urr_id_header : pfcp_ie_header_t;
  agg_urr_id_urr_id_value : Z;
}.
Definition zero_agg_urr_id : pfcp_agg_urr_id_ie_t := mk_agg_urr_id zero_ie_header 0.

(** Subsequent Volume Quota *)
Record pfcp_sbsqnt_vol_quota_ie_t := mk_sbsqnt_vol_quota {
  sbsqnt_vol_quota_header : pfcp_ie_header_t;
  sbsqnt_vol_quota_spare : Z; (* :5 *)
  sbsqnt_vol_quota_dlvol : Z; (* :1 *)
  sbsqnt_vol_quota_ulvol : Z; (* :1 *)
  sbsqnt_vol_quota_tovol : Z; (* :1 *)
  sbsqnt_vol_quota_total_volume : Z;
  sbsqnt_vol_quota_uplink_volume : Z;
  sbsqnt_vol_quota_downlink_volume : Z;
}.
Definition zero_sbsqnt_vol_quota : pfcp_sbsqnt_vol_quota_ie_t := mk_sbsqnt_vol_quota zero_ie_header 0 0 0 0 0 0 0.

(** Subsequent Time Quota *)
Record pfcp_sbsqnt_time_quota_ie_t := mk_sbsqnt_time_quota {
  sbsqnt_time_quota_header : pfcp_ie_header_t;
  sbsqnt_time_quota_time_quota_val : Z;
}.
Definition zero_sbsqnt_time_quota : pfcp_sbsqnt_time_quota_ie_t := mk_sbsqnt_time_quota zero_ie_header 0.

(** RQI *)
Record pfcp_rqi_ie_t := mk_rqi {
  rqi_header : pfcp_ie_header_t;
  rqi_spare : Z; (* :7 *)
  rqi_rqi : Z; (* :1 *)
}.
Definition zero_rqi : pfcp_rqi_ie_t := mk_rqi zero_ie_header 0 0.

(** QFI *)
Record pfcp_qfi_ie_t := mk_qfi {
  qfi_header : pfcp_ie_header_t;
  qfi_spare : Z; (* :2 *)
  qfi_value : Z; (* :6 *)
}.
Definition zero_qfi : pfcp_qfi_ie_t := mk_qfi zero_ie_header 0 0.

(** Query URR Reference *)
Record pfcp_query_urr_ref_ie_t := mk_query_urr_ref {
  query_urr_ref_header : pfcp_ie_header_t;
  query_urr_ref_val : Z;
}.
Definition zero_query_urr_ref : pfcp_query_urr_ref_ie_t := mk_query_urr_ref zero_ie_header 0.

(** Additional Usage Reports Information *)
Record pfcp_add_usage_rpts_info_ie_t := mk_add_usage_rpts_info {
  add_usage_rpts_info_header : pfcp_ie_header_t;
  add_usage_rpts_info_auri : Z; (* :1 *)
  add_usage_rpts_info_nbr_of_add_usage_rpts_val : Z; (* :7 *)
  add_usage_rpts_info_nbr_of_add_usage_rpts_value2 : Z;
}.
Definition zero_add_usage_rpts_info : pfcp_add_usage_rpts_info_ie_t := mk_add_usage_rpts_info zero_ie_header 0 0 0.

(** Traffic Endpoint ID *)
Record pfcp_traffic_endpt_id_ie_t := mk_traffic_endpt_id {
  traffic_endpt_id_header : pfcp_ie_header_t;
  traffic_endpt_id_val : Z;
}.
Definition zero_traffic_endpt_id : pfcp_traffic_endpt_id_ie_t := mk_traffic_endpt_id zero_ie_header 0.

(** MAC address *)
Record pfcp_mac_address_ie_t := mk_mac_address {
  mac_address_header : pfcp_ie_header_t;
  mac_address_spare : Z; (* :5 *)
  mac_address_udes : Z; (* :1 *)
  mac_address_usou : Z; (* :1 *)
  mac_address_dest : Z; (* :1 *)
  mac_address_sour : Z; (* :1 *)
  mac_address_src_mac_addr_val : Z; (* :48 *)
  mac_address_dst_mac_addr_val : Z; (* :48 *)
  mac_address_upr_src_mac_addr_val : Z; (* :48 *)
  mac_address_upr_dst_mac_addr_val : Z; (* :48 *)
}.
Definition zero_mac_address : pfcp_mac_address_ie_t := mk_mac_address zero_ie_header 0 0 0 0 0 0 0 0 0.

(** C-TAG *)
Record pfcp_ctag_ie_t := mk_ctag {
  ctag_header : pfcp_ie_header_t;
  ctag_spare : Z; (* :5 *)
  ctag_vid : Z; (* :1 *)
  ctag_dei : Z; (* :1 *)
  ctag_pcp : Z; (* :1 *)
  ctag_cvid_value : Z; (* :4 *)
  ctag_dei_flag : Z; (* :1 *)
  ctag_pcp_value : Z; (* :3 *)
  ctag_cvid_value2 : Z;
}.
Definition zero_ctag : pfcp_ctag_ie_t := mk_ctag zero_ie_header 0 0 0 0 0 0 0 0.

(** S-TAG *)
Record pfcp_stag_ie_t := mk_stag {
  stag_header : pfcp_ie_header_t;
  stag_spare : Z; (* :5 *)
  stag_vid : Z; (* :1 *)
  stag_dei : Z; (* :1 *)
  stag_pcp : Z; (* :1 *)
  stag_svid_value : Z; (* :4 *)
  stag_dei_flag : Z; (* :1 *)
  stag_pcp_value : Z; (* :3 *)
  stag_svid_value2 : Z;
}.
Definition zero_stag : pfcp_stag_ie_t := mk_stag zero_ie_header 0 0 0 0 0 0 0 0.

(** Ethertype *)
Record pfcp_ethertype_ie_t := mk_ethertype {
  ethertype_header : pfcp_ie_header_t;
  ethertype_ethertype : Z;
}.
Definition zero_ethertype : pfcp_ethertype_ie_t := mk_ethertype zero_ie_header 0.

(** Proxying *)
Record pfcp_proxying_ie_t := mk_proxying {
  proxying_header : pfcp_ie_header_t;
  proxying_spare : Z; (* :6 *)
  proxying_ins : Z; (* :1 *)
  proxying_arp : Z; (* :1 *)
}.
Definition zero_proxying : pfcp_proxying_ie_t := mk_proxying zero_ie_header 0 0 0.

(** Ethernet Filter ID *)
Record pfcp_eth_fltr_id_ie_t := mk_eth_fltr_id {
  eth_fltr_id_header : pfcp_ie_header_t;
  eth_fltr_id_val : Z;
}.
Definition zero_eth_fltr_id : pfcp_eth_fltr_id_ie_t := mk_eth_fltr_id zero_ie_header 0.

(** Ethernet Filter Properties *)
Record pfcp_eth_fltr_props_ie_t := mk_eth_fltr_props {
  eth_fltr_props_header : pfcp_ie_header_t;
  eth_fltr_props_spare : Z; (* :7 *)
  eth_fltr_props_bide : Z; (* :1 *)
}.
Definition zero_eth_fltr_props : pfcp_eth_fltr_props_ie_t := mk_eth_fltr_props zero_ie_header 0 0.

(** Suggested Buffering Packets Count *)
Record pfcp_suggstd_buf_pckts_cnt_ie_t := mk_suggstd_buf_pckts_cnt {
  suggstd_buf_pckts_cnt_header : pfcp_ie_header_t;
  suggstd_buf_pckts_cnt_pckt_cnt_val : Z;
}.
Definition zero_suggstd_buf_pckts_cnt : pfcp_suggstd_buf_pckts_cnt_ie_t := mk_suggstd_buf_pckts_cnt zero_ie_header 0.

(** User ID *)
Record pfcp_user_id_ie_t := mk_user_id {
  user_id_header : pfcp_ie_header_t;
  user_id_spare : Z; (* :4 *)
  user_id_naif : Z; (* :1 *)
  user_id_msisdnf : Z; (* :1 *)
  user_id_imeif : Z; (* :1 *)
  user_id_imsif : Z; (* :1 *)
  user_id_length_of_imsi : Z;
  user_id_imsi : list Z; (* [8] *)
  user_id_length_of_imei : Z;
  user_id_imei : list Z; (* [8] *)
  user_id_len_of_msisdn : Z;
  user_id_msisdn : list Z; (* [8] *)
  user_id_length_of_nai : Z;
  user_id_nai : list Z; (* [8] *)
}.
Definition zero_user_id : pfcp_user_id_ie_t := mk_user_id zero_ie_header 0 0 0 0 0 0 (repeat 0 8) 0 (repeat 0 8) 0 (repeat 0 8) 0 (repeat 0 8).

(** Ethernet PDU Session Information *)
Record pfcp_eth_pdu_sess_info_ie_t := mk_eth_pdu_sess_info {
  eth_pdu_sess_info_header : pfcp_ie_header_t;
  eth_pdu_sess_info_spare : Z; (* :7 *)
  eth_pdu_sess_info_ethi : Z; (* :1 *)
}.
Definition zero_eth_pdu_sess_info : pfcp_eth_pdu_sess_info_ie_t := mk_eth_pdu_sess_info zero_ie_header 0 0.

(** MAC Addresses Detected *)
Record pfcp_mac_addrs_detctd_ie_t := mk_mac_addrs_detctd {
  mac_addrs_detctd_header : pfcp_ie_header_t;
  mac_addrs_detctd_nbr_of_mac_addrs : Z;
  mac_addrs_detctd_mac_addr_val : list Z; (* [8] *)
}.
Definition zero_mac_addrs_detctd : pfcp_mac_addrs_detctd_ie_t := mk_mac_addrs_detctd zero_ie_header 0 (repeat 0 8).

(** MAC Addresses Removed *)
Record pfcp_mac_addrs_rmvd_ie_t := mk_mac_addrs_rmvd {
  mac_addrs_rmvd_header : pfcp_ie_header_t;
  mac_addrs_rmvd_nbr_of_mac_addrs : Z;
  mac_addrs_rmvd_mac_addr_val : list Z; (* [8] *)
}.
Definition zero_mac_addrs_rmvd : pfcp_mac_addrs_rmvd_ie_t := mk_mac_addrs_rmvd zero_ie_header 0 (repeat 0 8).

(** Ethernet Inactivity Timer *)
Record pfcp_eth_inact_timer_ie_t := mk_eth_inact_timer {
  eth_inact_timer_header : pfcp_ie_header_t;
  eth_inact_timer_eth_inact_timer : Z;
}.
Definition zero_eth_inact_timer : pfcp_eth_inact_timer_ie_t := mk_eth_inact_timer zero_ie_header 0.

(** Subsequent Event Quota *)
Record pfcp_sbsqnt_evnt_quota_ie_t := mk_sbsqnt_evnt_quota {
  sbsqnt_evnt_quota_header : pfcp_ie_header_t;
  sbsqnt_evnt_quota_sbsqnt_evnt_quota : Z;
}.
Definition zero_sbsqnt_evnt_quota : pfcp_sbsqnt_evnt_quota_ie_t := mk_sbsqnt_evnt_quota zero_ie_header 0.

(** Subsequent Event Threshold *)
Record pfcp_sbsqnt_evnt_thresh_ie_t := mk_sbsqnt_evnt_thresh {
  sbsqnt_evnt_thresh_header : pfcp_ie_header_t;
  sbsqnt_evnt_thresh_sbsqnt_evnt_thresh : Z;
}.
Definition zero_sbsqnt_evnt_thresh : pfcp_sbsqnt_evnt_thresh_ie_t := mk_sbsqnt_evnt_thresh zero_ie_header 0.

(** Trace Information *)
Record pfcp_trc_info_ie_t := mk_trc_info {
  trc_info_header : pfcp_ie_header_t;
  trc_info_mcc_digit_2 : Z; (* :4 *)
  trc_info_mcc_digit_1 : Z; (* :4 *)
  trc_info_mnc_digit_3 : Z; (* :4 *)
  trc_info_mcc_digit_3 : Z; (* :4 *)
  trc_info_mnc_digit_2 : Z; (* :4 *)
  trc_info_mnc_digit_1 : Z; (* :4 *)
  trc_info_trace_id : Z; (* :24 *)
  trc_info_len_of_trigrng_evnts : Z;
  trc_info_trigrng_evnts : Z;
  trc_info_sess_trc_depth : Z;
  trc_info_len_of_list_of_intfcs : Z;
  trc_info_list_of_intfcs : Z;
  trc_info_len_of_ip_addr_of_trc_coll_ent : Z;
  trc_info_ip_addr_of_trc_coll_ent : Z;
}.
Definition zero_trc_info : pfcp_trc_info_ie_t := mk_trc_info zero_ie_header 0 0 0 0 0 0 0 0 0 0 0 0 0 0.

(** Framed-Route *)
Record pfcp_framed_route_ie_t := mk_framed_route {
  framed_route_header : pfcp_ie_header_t;
  framed_route_framed_route : Z;
}.
Definition zero_framed_route : pfcp_framed_route_ie_t := mk_framed_route zero_ie_header 0.

(** Framed-Routing *)
Record pfcp_framed_routing_ie_t := mk_framed_routing {
  framed_routing_header : pfcp_ie_header_t;
  framed_routing_framed_routing : Z;
}.
Definition zero_framed_routing : pfcp_framed_routing_ie_t := mk_framed_routing zero_ie_header 0.

(** Framed-IPv6-Route *)
Record pfcp_frmd_ipv6_route_ie_t := mk_frmd_ipv6_route {
  frmd_ipv6_route_header : pfcp_ie_header_t;
  frmd_ipv6_route_frmd_ipv6_rte : Z;
}.
Definition zero_frmd_ipv6_route : pfcp_frmd_ipv6_route_ie_t := mk_frmd_ipv6_route zero_ie_header 0.

(** Event Quota *)
Record pfcp_event_quota_ie_t := mk_event_quota {
  event_quota_header : pfcp_ie_header_t;
  event_quota_sbsqnt_evnt_quota : Z;
}.
Definition zero_event_quota : pfcp_event_quota_ie_t := mk_event_quota zero_ie_header 0.

(** Event Threshold *)
Record pfcp_event_threshold_ie_t := mk_event_threshold {
  event_threshold_header : pfcp_ie_header_t;
  event_threshold_event_threshold : Z;
}.
Definition zero_event_threshold : pfcp_event_threshold_ie_t := mk_event_threshold zero_ie_header 0.

(** Event Time Stamp *)
Record pfcp_evnt_time_stmp_ie_t := mk_evnt_time_stmp {
  evnt_time_stmp_header : pfcp_ie_header_t;
  evnt_time_stmp_evnt_time_stmp : Z;
}.
Definition zero_evnt_time_stmp : pfcp_evnt_time_stmp_ie_t := mk_evnt_time_stmp zero_ie_header 0.

(** Averaging Window *)
Record pfcp_avgng_wnd_ie_t := mk_avgng_wnd {
  avgng_wnd_header : pfcp_ie_header_t;
  avgng_wnd_avgng_wnd : Z;
}.
Definition zero_avgng_wnd : pfcp_avgng_wnd_ie_t := mk_avgng_wnd zero_ie_header 0.

(** Paging Policy Indicator *)
Record pfcp_paging_plcy_indctr_ie_t := mk_paging_plcy_indctr {
  paging_plcy_indctr_header : pfcp_ie_header_t;
  paging_plcy_indctr_spare : Z; (* :5 *)
  paging_plcy_indctr_ppi_value : Z; (* :3 *)
}.
Definition zero_paging_plcy_indctr : pfcp_paging_plcy_indctr_ie_t := mk_paging_plcy_indctr zero_ie_header 0 0.
