(* ===== verification/PfcpIesEncoder.v ===== *)
(** * Encoders of the PFCP information elements
    (src/libpfcp/src/pfcp_ies_encoder.c with the macros of
    src/libpfcp/include/pfcp_cond_encoder.h expanded)

    [put v n] is the statement
    [encoded += encode_bits(v, n, buf + (encoded/8), encoded % CHAR_SIZE)];
    [enc_bytes] ends an encoder that returns [encoded/CHAR_SIZE], [enc_bits] one
    that returns [encoded]. *)

From S2P Require Import Prelude EncDecBits Codec PfcpIes.

(** ** Headers *)

Definition encode_pfcp_ie_header_t (value : pfcp_ie_header_t) : ie_encoder :=
  enc_bits (
    put value.(ie_type) 16 ⨾
    put value.(ie_len) 16).

(** Reading the member of the union that the flag does not select has no result
    here. *)
Definition encode_pfcp_header_t (value : pfcp_header_t) : ie_encoder :=
  enc_bytes (
    put value.(header_version) 3 ⨾
    put value.(header_spare) 3 ⨾
    put value.(header_mp) 1 ⨾
    put value.(header_s) 1 ⨾
    put value.(header_message_type) 8 ⨾
    put value.(header_message_len) 16 ⨾
    match value.(header_s) =? 1, value.(header_seid_seqno) with
    | true, inl h =>
        put h.(hs_seid) 64 ⨾ put h.(hs_seq_no) 24 ⨾
        put h.(hs_spare) 4 ⨾ put h.(hs_message_prio) 4
    | false, inr h => put h.(ns_seq_no) 24 ⨾ put h.(ns_spare) 8
    | _, _ => fun _ _ => None
    end).

(** ** Information elements of the regular form *)

Definition encode_pfcp_cause_ie_t (value : pfcp_cause_ie_t) : ie_encoder :=
  enc_bytes (
    ecall (encode_pfcp_ie_header_t value.(cause_header)) ⨾
    put value.(cause_value) 8).

Definition encode_pfcp_src_intfc_ie_t (value : pfcp_src_intfc_ie_t) : ie_encoder :=
  enc_bits (
    ecall (encode_pfcp_ie_header_t value.(src_intfc_header)) ⨾
    put value.(src_intfc_spare) 4 ⨾
    put value.(src_intfc_interface_value) 4).

Definition encode_pfcp_fteid_ie_t (value : pfcp_fteid_ie_t) : ie_encoder :=
  enc_bits (
    ecall (encode_pfcp_ie_header_t value.(fteid_header)) ⨾
    put value.(fteid_spare) 4 ⨾
    put value.(fteid_chid) 1 ⨾
    put value.(fteid_ch) 1 ⨾
    put value.(fteid_v6) 1 ⨾
    put value.(fteid_v4) 1 ⨾
    enc_when (value.(fteid_ch) =? 0) (put value.(fteid_teid) 32) ⨾
    enc_when (nz value.(fteid_v4) && (value.(fteid_ch) =? 0)) (putmem (le_bytes 4 value.(fteid_ipv4_address)) 4) ⨾
    enc_when (nz value.(fteid_v6) && (value.(fteid_ch) =? 0)) (putmem value.(fteid_ipv6_address) 16) ⨾
    enc_when (nz value.(fteid_ch)) (put value.(fteid_choose_id) 8)).

Definition encode_pfcp_gate_status_ie_t (value : pfcp_gate_status_ie_t) : ie_encoder :=
  enc_bits (
    ecall (encode_pfcp_ie_header_t value.(gate_status_header)) ⨾
    put value.(gate_status_spare) 4 ⨾
    put value.(gate_status_ul_gate) 2 ⨾
    put value.(gate_status_dl_gate) 2).

Definition encode_pfcp_mbr_ie_t (value : pfcp_mbr_ie_t) : ie_encoder :=
  enc_bits (
    ecall (encode_pfcp_ie_header_t value.(mbr_header)) ⨾
    put value.(mbr_ul_mbr) 40 ⨾
    put value.(mbr_dl_mbr) 40).

Definition encode_pfcp_gbr_ie_t (value : pfcp_gbr_ie_t) : ie_encoder :=
  enc_bits (
    ecall (encode_pfcp_ie_header_t value.(gbr_header)) ⨾
    put value.(gbr_ul_gbr) 40 ⨾
    put value.(gbr_dl_gbr) 40).

Definition encode_pfcp_qer_corr_id_ie_t (value : pfcp_qer_corr_id_ie_t) : ie_encoder :=
  enc_bits (
    ecall (encode_pfcp_ie_header_t value.(qer_corr_id_header)) ⨾
    put value.(qer_corr_id_val) 32).

Definition encode_pfcp_precedence_ie_t (value : pfcp_precedence_ie_t) : ie_encoder :=
  enc_bits (
    ecall (encode_pfcp_ie_header_t value.(precedence_header)) ⨾
    put value.(precedence_prcdnc_val) 32).

Definition encode_pfcp_trnspt_lvl_marking_ie_t (value : pfcp_trnspt_lvl_marking_ie_t) : ie_encoder :=
  enc_bytes (
    ecall (encode_pfcp_ie_header_t value.(trnspt_lvl_marking_header)) ⨾
    put value.(trnspt_lvl_marking_tostraffic_cls) 16).

Definition encode_pfcp_vol_thresh_ie_t (value : pfcp_vol_thresh_ie_t) : ie_encoder :=
  enc_bits (
    ecall (encode_pfcp_ie_header_t value.(vol_thresh_header)) ⨾
    put value.(vol_thresh_spare) 5 ⨾
    put value.(vol_thresh_dlvol) 1 ⨾
    put value.(vol_thresh_ulvol) 1 ⨾
    put value.(vol_thresh_tovol) 1 ⨾
    enc_when (nz value.(vol_thresh_tovol)) (put value.(vol_thresh_total_volume) 64) ⨾
    enc_when (nz value.(vol_thresh_ulvol)) (put value.(vol_thresh_uplink_volume) 64) ⨾
    enc_when (nz value.(vol_thresh_dlvol)) (put value.(vol_thresh_downlink_volume) 64)).

Definition encode_pfcp_time_threshold_ie_t (value : pfcp_time_threshold_ie_t) : ie_encoder :=
  enc_bits (
    ecall (encode_pfcp_ie_header_t value.(time_threshold_header)) ⨾
    put value.(time_threshold_time_threshold) 32).

Definition encode_pfcp_monitoring_time_ie_t (value : pfcp_monitoring_time_ie_t) : ie_encoder :=
  enc_bits (
    ecall (encode_pfcp_ie_header_t value.(monitoring_time_header)) ⨾
    put value.(monitoring_time_monitoring_time) 32).

Definition encode_pfcp_sbsqnt_vol_thresh_ie_t (value : pfcp_sbsqnt_vol_thresh_ie_t) : ie_encoder :=
  enc_bits (
    ecall (encode_pfcp_ie_header_t value.(sbsqnt_vol_thresh_header)) ⨾
    put value.(sbsqnt_vol_thresh_spare) 5 ⨾
    put value.(sbsqnt_vol_thresh_dlvol) 1 ⨾
    put value.(sbsqnt_vol_thresh_ulvol) 1 ⨾
    put value.(sbsqnt_vol_thresh_tovol) 1 ⨾
    enc_when (nz value.(sbsqnt_vol_thresh_tovol)) (put value.(sbsqnt_vol_thresh_total_volume) 64) ⨾
    enc_when (nz value.(sbsqnt_vol_thresh_ulvol)) (put value.(sbsqnt_vol_thresh_uplink_volume) 64) ⨾
    enc_when (nz value.(sbsqnt_vol_thresh_dlvol)) (put value.(sbsqnt_vol_thresh_downlink_volume) 64)).

Definition encode_pfcp_sbsqnt_time_thresh_ie_t (value : pfcp_sbsqnt_time_thresh_ie_t) : ie_encoder :=
  enc_bits (
    ecall (encode_pfcp_ie_header_t value.(sbsqnt_time_thresh_header)) ⨾
    put value.(sbsqnt_time_thresh_sbsqnt_time_thresh) 32).

Definition encode_pfcp_inact_det_time_ie_t (value : pfcp_inact_det_time_ie_t) : ie_encoder :=
  enc_bits (
    ecall (encode_pfcp_ie_header_t value.(inact_det_time_header)) ⨾
    put value.(inact_det_time_inact_det_time) 32).

Definition encode_pfcp_rptng_triggers_ie_t (value : pfcp_rptng_triggers_ie_t) : ie_encoder :=
  enc_bits (
    ecall (encode_pfcp_ie_header_t value.(rptng_triggers_header)) ⨾
    put value.(rptng_triggers_liusa) 1 ⨾
    put value.(rptng_triggers_droth) 1 ⨾
    put value.(rptng_triggers_stopt) 1 ⨾
    put value.(rptng_triggers_start) 1 ⨾
    put value.(rptng_triggers_quhti) 1 ⨾
    put value.(rptng_triggers_timth) 1 ⨾
    put value.(rptng_triggers_volth) 1 ⨾
    put value.(rptng_triggers_perio) 1 ⨾
    put value.(rptng_triggers_spare) 1 ⨾
    put value.(rptng_triggers_spare2) 1 ⨾
    put value.(rptng_triggers_evequ) 1 ⨾
    put value.(rptng_triggers_eveth) 1 ⨾
    put value.(rptng_triggers_macar) 1 ⨾
    put value.(rptng_triggers_envcl) 1 ⨾
    put value.(rptng_triggers_timqu) 1 ⨾
    put value.(rptng_triggers_volqu) 1).

Definition encode_pfcp_redir_info_ie_t (value : pfcp_redir_info_ie_t) : ie_encoder :=
  enc_bytes (
    ecall (encode_pfcp_ie_header_t value.(redir_info_header)) ⨾
    put value.(redir_info_spare) 4 ⨾
    put value.(redir_info_redir_addr_type) 4 ⨾
    put value.(redir_info_redir_svr_addr_len) 8 ⨾
    put value.(redir_info_redir_svr_addr) 8).

Definition encode_pfcp_report_type_ie_t (value : pfcp_report_type_ie_t) : ie_encoder :=
  enc_bytes (
    ecall (encode_pfcp_ie_header_t value.(report_type_header)) ⨾
    put value.(report_type_rpt_type_spare) 4 ⨾
    put value.(report_type_upir) 1 ⨾
    put value.(report_type_erir) 1 ⨾
    put value.(report_type_usar) 1 ⨾
    put value.(report_type_dldr) 1).

Definition encode_pfcp_offending_ie_ie_t (value : pfcp_offending_ie_ie_t) : ie_encoder :=
  enc_bytes (
    ecall (encode_pfcp_ie_header_t value.(offending_ie_header)) ⨾
    put value.(offending_ie_type_of_the_offending_ie) 16).

Definition encode_pfcp_frwdng_plcy_ie_t (value : pfcp_frwdng_plcy_ie_t) : ie_encoder :=
  enc_bytes (
    ecall (encode_pfcp_ie_header_t value.(frwdng_plcy_header)) ⨾
    put value.(frwdng_plcy_ident_len) 8 ⨾
    put value.(frwdng_plcy_ident) 8).

Definition encode_pfcp_dst_intfc_ie_t (value : pfcp_dst_intfc_ie_t) : ie_encoder :=
  enc_bits (
    ecall (encode_pfcp_ie_header_t value.(dst_intfc_header)) ⨾
    put value.(dst_intfc_spare) 4 ⨾
    put value.(dst_intfc_interface_value) 4).

Definition encode_pfcp_up_func_feat_ie_t (value : pfcp_up_func_feat_ie_t) : ie_encoder :=
  enc_bytes (
    ecall (encode_pfcp_ie_header_t value.(up_func_feat_header)) ⨾
    put value.(up_func_feat_sup_feat) 16 ⨾
    put value.(up_func_feat_add_sup_feat1) 16 ⨾
    put value.(up_func_feat_add_sup_feat2) 16).

Definition encode_pfcp_apply_action_ie_t (value : pfcp_apply_action_ie_t) : ie_encoder :=
  enc_bits (
    ecall (encode_pfcp_ie_header_t value.(apply_action_header)) ⨾
    put value.(apply_action_apply_act_spare) 1 ⨾
    put value.(apply_action_apply_act_spare2) 1 ⨾
    put value.(apply_action_apply_act_spare3) 1 ⨾
    put value.(apply_action_dupl) 1 ⨾
    put value.(apply_action_nocp) 1 ⨾
    put value.(apply_action_buff) 1 ⨾
    put value.(apply_action_forw) 1 ⨾
    put value.(apply_action_drop) 1).

Definition encode_pfcp_dnlnk_data_svc_info_ie_t (value : pfcp_dnlnk_data_svc_info_ie_t) : ie_encoder :=
  enc_bits (
    ecall (encode_pfcp_ie_header_t value.(dnlnk_data_svc_info_header)) ⨾
    put value.(dnlnk_data_svc_info_spare) 6 ⨾
    put value.(dnlnk_data_svc_info_qfii) 1 ⨾
    put value.(dnlnk_data_svc_info_ppi) 1 ⨾
    put value.(dnlnk_data_svc_info_spare2) 2 ⨾
    put value.(dnlnk_data_svc_info_paging_plcy_indctn_val) 6 ⨾
    put value.(dnlnk_data_svc_info_spare3) 2 ⨾
    put value.(dnlnk_data_svc_info_qfi) 6).

Definition encode_pfcp_dnlnk_data_notif_delay_ie_t (value : pfcp_dnlnk_data_notif_delay_ie_t) : ie_encoder :=
  enc_bits (
    ecall (encode_pfcp_ie_header_t value.(dnlnk_data_notif_delay_header)) ⨾
    put value.(dnlnk_data_notif_delay_delay_val_in_integer_multiples_of_50_millisecs_or_zero) 8).

Definition encode_pfcp_dl_buf_dur_ie_t (value : pfcp_dl_buf_dur_ie_t) : ie_encoder :=
  enc_bytes (
    ecall (encode_pfcp_ie_header_t value.(dl_buf_dur_header)) ⨾
    put value.(dl_buf_dur_timer_unit) 3 ⨾
    put value.(dl_buf_dur_timer_value) 5).

Definition encode_pfcp_dl_buf_suggstd_pckt_cnt_ie_t (value : pfcp_dl_buf_suggstd_pckt_cnt_ie_t) : ie_encoder :=
  enc_bytes (
    ecall (encode_pfcp_ie_header_t value.(dl_buf_suggstd_pckt_cnt_header)) ⨾
    put value.(dl_buf_suggstd_pckt_cnt_pckt_cnt_val) 8).

Definition encode_pfcp_pfcpsmreq_flags_ie_t (value : pfcp_pfcpsmreq_flags_ie_t) : ie_encoder :=
  enc_bytes (
    ecall (encode_pfcp_ie_header_t value.(pfcpsmreq_flags_header)) ⨾
    put value.(pfcpsmreq_flags_pfcpsmreq_flgs_spare) 1 ⨾
    put value.(pfcpsmreq_flags_pfcpsmreq_flgs_spare2) 1 ⨾
    put value.(pfcpsmreq_flags_pfcpsmreq_flgs_spare3) 1 ⨾
    put value.(pfcpsmreq_flags_pfcpsmreq_flgs_spare4) 1 ⨾
    put value.(pfcpsmreq_flags_pfcpsmreq_flgs_spare5) 1 ⨾
    put value.(pfcpsmreq_flags_qaurr) 1 ⨾
    put value.(pfcpsmreq_flags_sndem) 1 ⨾
    put value.(pfcpsmreq_flags_drobu) 1).

Definition encode_pfcp_pfcpsrrsp_flags_ie_t (value : pfcp_pfcpsrrsp_flags_ie_t) : ie_encoder :=
  enc_bytes (
    ecall (encode_pfcp_ie_header_t value.(pfcpsrrsp_flags_header)) ⨾
    put value.(pfcpsrrsp_flags_pfcpsrrsp_flgs_spare) 1 ⨾
    put value.(pfcpsrrsp_flags_pfcpsrrsp_flgs_spare2) 1 ⨾
    put value.(pfcpsrrsp_flags_pfcpsrrsp_flgs_spare3) 1 ⨾
    put value.(pfcpsrrsp_flags_pfcpsrrsp_flgs_spare4) 1 ⨾
    put value.(pfcpsrrsp_flags_pfcpsrrsp_flgs_spare5) 1 ⨾
    put value.(pfcpsrrsp_flags_pfcpsrrsp_flgs_spare6) 1 ⨾
    put value.(pfcpsrrsp_flags_pfcpsrrsp_flgs_spare7) 1 ⨾
    put value.(pfcpsrrsp_flags_drobu) 1).

Definition encode_pfcp_sequence_number_ie_t (value : pfcp_sequence_number_ie_t) : ie_encoder :=
  enc_bytes (
    ecall (encode_pfcp_ie_header_t value.(sequence_number_header)) ⨾
    put value.(sequence_number_sequence_number) 32).

Definition encode_pfcp_metric_ie_t (value : pfcp_metric_ie_t) : ie_encoder :=
  enc_bytes (
    ecall (encode_pfcp_ie_header_t value.(metric_header)) ⨾
    put value.(metric_metric) 8).

Definition encode_pfcp_timer_ie_t (value : pfcp_timer_ie_t) : ie_encoder :=
  enc_bytes (
    ecall (encode_pfcp_ie_header_t value.(timer_header)) ⨾
    put value.(timer_unit) 3 ⨾
    put value.(timer_value) 5).

Definition encode_pfcp_pdr_id_ie_t (value : pfcp_pdr_id_ie_t) : ie_encoder :=
  enc_bits (
    ecall (encode_pfcp_ie_header_t value.(pdr_id_header)) ⨾
    put value.(pdr_id_rule_id) 16).

Definition encode_pfcp_fseid_ie_t (value : pfcp_fseid_ie_t) : ie_encoder :=
  enc_bytes (
    ecall (encode_pfcp_ie_header_t value.(fseid_header)) ⨾
    put value.(fseid_spare) 1 ⨾
    put value.(fseid_spare2) 1 ⨾
    put value.(fseid_spare3) 1 ⨾
    put value.(fseid_spare4) 1 ⨾
    put value.(fseid_spare5) 1 ⨾
    put value.(fseid_spare6) 1 ⨾
    put value.(fseid_v4) 1 ⨾
    put value.(fseid_v6) 1 ⨾
    put value.(fseid_seid) 64 ⨾
    enc_when (nz value.(fseid_v4)) (putmem (le_bytes 4 value.(fseid_ipv4_address)) 4) ⨾
    enc_when (nz value.(fseid_v6)) (putmem value.(fseid_ipv6_address) 16)).

Definition encode_pfcp_meas_mthd_ie_t (value : pfcp_meas_mthd_ie_t) : ie_encoder :=
  enc_bits (
    ecall (encode_pfcp_ie_header_t value.(meas_mthd_header)) ⨾
    put value.(meas_mthd_spare) 1 ⨾
    put value.(meas_mthd_spare2) 1 ⨾
    put value.(meas_mthd_spare3) 1 ⨾
    put value.(meas_mthd_spare4) 1 ⨾
    put value.(meas_mthd_spare5) 1 ⨾
    put value.(meas_mthd_event) 1 ⨾
    put value.(meas_mthd_volum) 1 ⨾
    put value.(meas_mthd_durat) 1).

Definition encode_pfcp_usage_rpt_trig_ie_t (value : pfcp_usage_rpt_trig_ie_t) : ie_encoder :=
  enc_bytes (
    ecall (encode_pfcp_ie_header_t value.(usage_rpt_trig_header)) ⨾
    put value.(usage_rpt_trig_immer) 1 ⨾
    put value.(usage_rpt_trig_droth) 1 ⨾
    put value.(usage_rpt_trig_stopt) 1 ⨾
    put value.(usage_rpt_trig_start) 1 ⨾
    put value.(usage_rpt_trig_quhti) 1 ⨾
    put value.(usage_rpt_trig_timth) 1 ⨾
    put value.(usage_rpt_trig_volth) 1 ⨾
    put value.(usage_rpt_trig_perio) 1 ⨾
    put value.(usage_rpt_trig_eveth) 1 ⨾
    put value.(usage_rpt_trig_macar) 1 ⨾
    put value.(usage_rpt_trig_envcl) 1 ⨾
    put value.(usage_rpt_trig_monit) 1 ⨾
    put value.(usage_rpt_trig_termr) 1 ⨾
    put value.(usage_rpt_trig_liusa) 1 ⨾
    put value.(usage_rpt_trig_timqu) 1 ⨾
    put value.(usage_rpt_trig_volqu) 1 ⨾
    put value.(usage_rpt_trig_spare) 7 ⨾
    put value.(usage_rpt_trig_evequ) 1).

Definition encode_pfcp_meas_period_ie_t (value : pfcp_meas_period_ie_t) : ie_encoder :=
  enc_bits (
    ecall (encode_pfcp_ie_header_t value.(meas_period_header)) ⨾
    put value.(meas_period_meas_period) 32).

Definition encode_pfcp_vol_meas_ie_t (value : pfcp_vol_meas_ie_t) : ie_encoder :=
  enc_bytes (
    ecall (encode_pfcp_ie_header_t value.(vol_meas_header)) ⨾
    put value.(vol_meas_spare) 5 ⨾
    put value.(vol_meas_dlvol) 1 ⨾
    put value.(vol_meas_ulvol) 1 ⨾
    put value.(vol_meas_tovol) 1 ⨾
    enc_when (nz value.(vol_meas_tovol)) (put value.(vol_meas_total_volume) 64) ⨾
    enc_when (nz value.(vol_meas_ulvol)) (put value.(vol_meas_uplink_volume) 64) ⨾
    enc_when (nz value.(vol_meas_dlvol)) (put value.(vol_meas_downlink_volume) 64)).

Definition encode_pfcp_dur_meas_ie_t (value : pfcp_dur_meas_ie_t) : ie_encoder :=
  enc_bytes (
    ecall (encode_pfcp_ie_header_t value.(dur_meas_header)) ⨾
    put value.(dur_meas_duration_value) 32).

Definition encode_pfcp_time_of_frst_pckt_ie_t (value : pfcp_time_of_frst_pckt_ie_t) : ie_encoder :=
  enc_bytes (
    ecall (encode_pfcp_ie_header_t value.(time_of_frst_pckt_header)) ⨾
    put value.(time_of_frst_pckt_time_of_frst_pckt) 32).

Definition encode_pfcp_time_of_lst_pckt_ie_t (value : pfcp_time_of_lst_pckt_ie_t) : ie_encoder :=
  enc_bytes (
    ecall (encode_pfcp_ie_header_t value.(time_of_lst_pckt_header)) ⨾
    put value.(time_of_lst_pckt_time_of_lst_pckt) 32).

Definition encode_pfcp_quota_hldng_time_ie_t (value : pfcp_quota_hldng_time_ie_t) : ie_encoder :=
  enc_bits (
    ecall (encode_pfcp_ie_header_t value.(quota_hldng_time_header)) ⨾
    put value.(quota_hldng_time_val) 32).

Definition encode_pfcp_drpd_dl_traffic_thresh_ie_t (value : pfcp_drpd_dl_traffic_thresh_ie_t) : ie_encoder :=
  enc_bits (
    ecall (encode_pfcp_ie_header_t value.(drpd_dl_traffic_thresh_header)) ⨾
    put value.(drpd_dl_traffic_thresh_spare) 6 ⨾
    put value.(drpd_dl_traffic_thresh_dlby) 1 ⨾
    put value.(drpd_dl_traffic_thresh_dlpa) 1 ⨾
    enc_when (nz value.(drpd_dl_traffic_thresh_dlpa)) (put value.(drpd_dl_traffic_thresh_dnlnk_pckts) 64) ⨾
    enc_when (nz value.(drpd_dl_traffic_thresh_dlby)) (put value.(drpd_dl_traffic_thresh_nbr_of_bytes_of_dnlnk_data) 64)).

Definition encode_pfcp_volume_quota_ie_t (value : pfcp_volume_quota_ie_t) : ie_encoder :=
  enc_bits (
    ecall (encode_pfcp_ie_header_t value.(volume_quota_header)) ⨾
    put value.(volume_quota_vol_quota_spare) 5 ⨾
    put value.(volume_quota_dlvol) 1 ⨾
    put value.(volume_quota_ulvol) 1 ⨾
    put value.(volume_quota_tovol) 1 ⨾
    enc_when (nz value.(volume_quota_tovol)) (put value.(volume_quota_total_volume) 64) ⨾
    enc_when (nz value.(volume_quota_ulvol)) (put value.(volume_quota_uplink_volume) 64) ⨾
    enc_when (nz value.(volume_quota_dlvol)) (put value.(volume_quota_downlink_volume) 64)).

Definition encode_pfcp_time_quota_ie_t (value : pfcp_time_quota_ie_t) : ie_encoder :=
  enc_bits (
    ecall (encode_pfcp_ie_header_t value.(time_quota_header)) ⨾
    put value.(time_quota_val) 32).

Definition encode_pfcp_start_time_ie_t (value : pfcp_start_time_ie_t) : ie_encoder :=
  enc_bytes (
    ecall (encode_pfcp_ie_header_t value.(start_time_header)) ⨾
    put value.(start_time_start_time) 32).

Definition encode_pfcp_end_time_ie_t (value : pfcp_end_time_ie_t) : ie_encoder :=
  enc_bytes (
    ecall (encode_pfcp_ie_header_t value.(end_time_header)) ⨾
    put value.(end_time_end_time) 32).

Definition encode_pfcp_urr_id_ie_t (value : pfcp_urr_id_ie_t) : ie_encoder :=
  enc_bits (
    ecall (encode_pfcp_ie_header_t value.(urr_id_header)) ⨾
    put value.(urr_id_value) 32).

Definition encode_pfcp_linked_urr_id_ie_t (value : pfcp_linked_urr_id_ie_t) : ie_encoder :=
  enc_bits (
    ecall (encode_pfcp_ie_header_t value.(linked_urr_id_header)) ⨾
    put value.(linked_urr_id_lnkd_urr_id_val) 32).

Definition encode_pfcp_outer_hdr_creation_ie_t (value : pfcp_outer_hdr_creation_ie_t) : ie_encoder :=
  enc_bits (
    ecall (encode_pfcp_ie_header_t value.(outer_hdr_creation_header)) ⨾
    put value.(outer_hdr_creation_desc) 16 ⨾
    enc_when (nz value.(outer_hdr_creation_desc)) (put value.(outer_hdr_creation_teid) 32) ⨾
    put value.(outer_hdr_creation_ipv4_address) 32).

Definition encode_pfcp_bar_id_ie_t (value : pfcp_bar_id_ie_t) : ie_encoder :=
  enc_bits (
    ecall (encode_pfcp_ie_header_t value.(bar_id_header)) ⨾
    put value.(bar_id_value) 8).

Definition encode_pfcp_cp_func_feat_ie_t (value : pfcp_cp_func_feat_ie_t) : ie_encoder :=
  enc_bytes (
    ecall (encode_pfcp_ie_header_t value.(cp_func_feat_header)) ⨾
    put value.(cp_func_feat_sup_feat) 8).

Definition encode_pfcp_usage_info_ie_t (value : pfcp_usage_info_ie_t) : ie_encoder :=
  enc_bytes (
    ecall (encode_pfcp_ie_header_t value.(usage_info_header)) ⨾
    put value.(usage_info_spare) 5 ⨾
    put value.(usage_info_ube) 1 ⨾
    put value.(usage_info_uae) 1 ⨾
    put value.(usage_info_aft) 1 ⨾
    put value.(usage_info_bef) 1).

Definition encode_pfcp_app_inst_id_ie_t (value : pfcp_app_inst_id_ie_t) : ie_encoder :=
  enc_bytes (
    ecall (encode_pfcp_ie_header_t value.(app_inst_id_header)) ⨾
    put value.(app_inst_id_app_inst_ident) 8).

Definition encode_pfcp_flow_info_ie_t (value : pfcp_flow_info_ie_t) : ie_encoder :=
  enc_bytes (
    ecall (encode_pfcp_ie_header_t value.(flow_info_header)) ⨾
    put value.(flow_info_spare) 5 ⨾
    put value.(flow_info_flow_direction) 3 ⨾
    put value.(flow_info_len_of_flow_desc) 16 ⨾
    put value.(flow_info_flow_desc) 8).

Definition encode_pfcp_ue_ip_address_ie_t (value : pfcp_ue_ip_address_ie_t) : ie_encoder :=
  enc_bits (
    ecall (encode_pfcp_ie_header_t value.(ue_ip_address_header)) ⨾
    put value.(ue_ip_address_ue_ip_addr_spare) 3 ⨾
    put value.(ue_ip_address_chv4) 1 ⨾
    put value.(ue_ip_address_ipv6d) 1 ⨾
    put value.(ue_ip_address_sd) 1 ⨾
    put value.(ue_ip_address_v4) 1 ⨾
    put value.(ue_ip_address_v6) 1 ⨾
    enc_when (nz value.(ue_ip_address_v4)) (put value.(ue_ip_address_ipv4_address) 32) ⨾
    enc_when (nz value.(ue_ip_address_v6)) (putmem value.(ue_ip_address_ipv6_address) 16) ⨾
    enc_when (nz value.(ue_ip_address_ipv6d)) (put value.(ue_ip_address_ipv6_pfx_dlgtn_bits) 8)).

Definition encode_pfcp_packet_rate_ie_t (value : pfcp_packet_rate_ie_t) : ie_encoder :=
  enc_bits (
    ecall (encode_pfcp_ie_header_t value.(packet_rate_header)) ⨾
    put value.(packet_rate_pckt_rate_spare) 6 ⨾
    put value.(packet_rate_dlpr) 1 ⨾
    put value.(packet_rate_ulpr) 1 ⨾
    put value.(packet_rate_pckt_rate_spare2) 5 ⨾
    put value.(packet_rate_uplnk_time_unit) 3 ⨾
    enc_when (nz value.(packet_rate_ulpr)) (put value.(packet_rate_max_uplnk_pckt_rate) 16) ⨾
    put value.(packet_rate_pckt_rate_spare3) 5 ⨾
    put value.(packet_rate_dnlnk_time_unit) 3 ⨾
    enc_when (nz value.(packet_rate_dlpr)) (put value.(packet_rate_max_dnlnk_pckt_rate) 16)).

Definition encode_pfcp_outer_hdr_removal_ie_t (value : pfcp_outer_hdr_removal_ie_t) : ie_encoder :=
  enc_bits (
    ecall (encode_pfcp_ie_header_t value.(outer_hdr_removal_header)) ⨾
    put value.(outer_hdr_removal_desc) 8).

Definition encode_pfcp_rcvry_time_stmp_ie_t (value : pfcp_rcvry_time_stmp_ie_t) : ie_encoder :=
  enc_bytes (
    ecall (encode_pfcp_ie_header_t value.(rcvry_time_stmp_header)) ⨾
    put value.(rcvry_time_stmp_val) 32).

Definition encode_pfcp_dl_flow_lvl_marking_ie_t (value : pfcp_dl_flow_lvl_marking_ie_t) : ie_encoder :=
  enc_bits (
    ecall (encode_pfcp_ie_header_t value.(dl_flow_lvl_marking_header)) ⨾
    put value.(dl_flow_lvl_marking_spare) 6 ⨾
    put value.(dl_flow_lvl_marking_sci) 1 ⨾
    put value.(dl_flow_lvl_marking_ttc) 1 ⨾
    enc_when (nz value.(dl_flow_lvl_marking_ttc)) (put value.(dl_flow_lvl_marking_tostraffic_cls) 16) ⨾
    enc_when (nz value.(dl_flow_lvl_marking_sci)) (put value.(dl_flow_lvl_marking_svc_cls_indctr) 16)).

Definition encode_pfcp_hdr_enrchmt_ie_t (value : pfcp_hdr_enrchmt_ie_t) : ie_encoder :=
  enc_bytes (
    ecall (encode_pfcp_ie_header_t value.(hdr_enrchmt_header)) ⨾
    put value.(hdr_enrchmt_spare) 3 ⨾
    put value.(hdr_enrchmt_header_type) 5 ⨾
    put value.(hdr_enrchmt_len_of_hdr_fld_nm) 8 ⨾
    put value.(hdr_enrchmt_hdr_fld_nm) 8 ⨾
    put value.(hdr_enrchmt_len_of_hdr_fld_val) 8 ⨾
    put value.(hdr_enrchmt_hdr_fld_val) 8).

Definition encode_pfcp_meas_info_ie_t (value : pfcp_meas_info_ie_t) : ie_encoder :=
  enc_bits (
    ecall (encode_pfcp_ie_header_t value.(meas_info_header)) ⨾
    put value.(meas_info_spare) 4 ⨾
    put value.(meas_info_istm) 1 ⨾
    put value.(meas_info_radi) 1 ⨾
    put value.(meas_info_inam) 1 ⨾
    put value.(meas_info_mbqe) 1).

Definition encode_pfcp_node_rpt_type_ie_t (value : pfcp_node_rpt_type_ie_t) : ie_encoder :=
  enc_bytes (
    ecall (encode_pfcp_ie_header_t value.(node_rpt_type_header)) ⨾
    put value.(node_rpt_type_spare) 7 ⨾
    put value.(node_rpt_type_upfr) 1).

Definition encode_pfcp_rmt_gtpu_peer_ie_t (value : pfcp_rmt_gtpu_peer_ie_t) : ie_encoder :=
  enc_bytes (
    ecall (encode_pfcp_ie_header_t value.(rmt_gtpu_peer_header)) ⨾
    put value.(rmt_gtpu_peer_spare) 6 ⨾
    put value.(rmt_gtpu_peer_v4) 1 ⨾
    put value.(rmt_gtpu_peer_v6) 1 ⨾
    enc_when (nz value.(rmt_gtpu_peer_v4)) (put value.(rmt_gtpu_peer_ipv4_address) 32) ⨾
    enc_when (nz value.(rmt_gtpu_peer_v6)) (putmem value.(rmt_gtpu_peer_ipv6_address) 16)).

Definition encode_pfcp_urseqn_ie_t (value : pfcp_urseqn_ie_t) : ie_encoder :=
  enc_bytes (
    ecall (encode_pfcp_ie_header_t value.(urseqn_header)) ⨾
    put value.(urseqn_urseqn) 32).

Definition encode_pfcp_deact_predef_rules_ie_t (value : pfcp_deact_predef_rules_ie_t) : ie_encoder :=
  enc_bytes (
    ecall (encode_pfcp_ie_header_t value.(deact_predef_rules_header)) ⨾
    put value.(deact_predef_rules_predef_rules_nm) 8).

Definition encode_pfcp_far_id_ie_t (value : pfcp_far_id_ie_t) : ie_encoder :=
  enc_bits (
    ecall (encode_pfcp_ie_header_t value.(far_id_header)) ⨾
    put value.(far_id_value) 32).

Definition encode_pfcp_qer_id_ie_t (value : pfcp_qer_id_ie_t) : ie_encoder :=
  enc_bits (
    ecall (encode_pfcp_ie_header_t value.(qer_id_header)) ⨾
    put value.(qer_id_value) 32).

Definition encode_pfcp_oci_flags_ie_t (value : pfcp_oci_flags_ie_t) : ie_encoder :=
  enc_bytes (
    ecall (encode_pfcp_ie_header_t value.(oci_flags_header)) ⨾
    put value.(oci_flags_spare) 7 ⨾
    put value.(oci_flags_aoci) 1).

Definition encode_pfcp_up_assn_rel_req_ie_t (value : pfcp_up_assn_rel_req_ie_t) : ie_encoder :=
  enc_bytes (
    ecall (encode_pfcp_ie_header_t value.(up_assn_rel_req_header)) ⨾
    put value.(up_assn_rel_req_spare) 7 ⨾
    put value.(up_assn_rel_req_sarr) 1).

Definition encode_pfcp_graceful_rel_period_ie_t (value : pfcp_graceful_rel_period_ie_t) : ie_encoder :=
  enc_bytes (
    ecall (encode_pfcp_ie_header_t value.(graceful_rel_period_header)) ⨾
    put value.(graceful_rel_period_timer_unit) 3 ⨾
    put value.(graceful_rel_period_timer_value) 5).

Definition encode_pfcp_pdn_type_ie_t (value : pfcp_pdn_type_ie_t) : ie_encoder :=
  enc_bytes (
    ecall (encode_pfcp_ie_header_t value.(pdn_type_header)) ⨾
    put value.(pdn_type_spare) 5 ⨾
    put value.(pdn_type_pdn_type) 3).

Definition encode_pfcp_time_quota_mech_ie_t (value : pfcp_time_quota_mech_ie_t) : ie_encoder :=
  enc_bits (
    ecall (encode_pfcp_ie_header_t value.(time_quota_mech_header)) ⨾
    put value.(time_quota_mech_spare) 6 ⨾
    put value.(time_quota_mech_btit) 2 ⨾
    put value.(time_quota_mech_base_time_int) 32).

Definition encode_pfcp_user_plane_inact_timer_ie_t (value : pfcp_user_plane_inact_timer_ie_t) : ie_encoder :=
  enc_bytes (
    ecall (encode_pfcp_ie_header_t value.(user_plane_inact_timer_header)) ⨾
    put value.(user_plane_inact_timer_user_plane_inact_timer) 32).

Definition encode_pfcp_multiplier_ie_t (value : pfcp_multiplier_ie_t) : ie_encoder :=
  enc_bytes (
    ecall (encode_pfcp_ie_header_t value.(multiplier_header)) ⨾
    put value.(multiplier_value_digits) 64 ⨾
    put value.(multiplier_exponent) 32).

Definition encode_pfcp_agg_urr_id_ie_t (value : pfcp_agg_urr_id_ie_t) : ie_encoder :=
  enc_bytes (
    ecall (encode_pfcp_ie_header_t value.(agg_urr_id_header)) ⨾
    put value.(agg_urr_id_urr_id_value) 32).

Definition encode_pfcp_sbsqnt_vol_quota_ie_t (value : pfcp_sbsqnt_vol_quota_ie_t) : ie_encoder :=
  enc_bits (
    ecall (encode_pfcp_ie_header_t value.(sbsqnt_vol_quota_header)) ⨾
    put value.(sbsqnt_vol_quota_spare) 5 ⨾
    put value.(sbsqnt_vol_quota_dlvol) 1 ⨾
    put value.(sbsqnt_vol_quota_ulvol) 1 ⨾
    put value.(sbsqnt_vol_quota_tovol) 1 ⨾
    enc_when (nz value.(sbsqnt_vol_quota_tovol)) (put value.(sbsqnt_vol_quota_total_volume) 64) ⨾
    enc_when (nz value.(sbsqnt_vol_quota_ulvol)) (put value.(sbsqnt_vol_quota_uplink_volume) 64) ⨾
    enc_when (nz value.(sbsqnt_vol_quota_dlvol)) (put value.(sbsqnt_vol_quota_downlink_volume) 64)).

Definition encode_pfcp_sbsqnt_time_quota_ie_t (value : pfcp_sbsqnt_time_quota_ie_t) : ie_encoder :=
  enc_bits (
    ecall (encode_pfcp_ie_header_t value.(sbsqnt_time_quota_header)) ⨾
    put value.(sbsqnt_time_quota_time_quota_val) 32).

Definition encode_pfcp_rqi_ie_t (value : pfcp_rqi_ie_t) : ie_encoder :=
  enc_bits (
    ecall (encode_pfcp_ie_header_t value.(rqi_header)) ⨾
    put value.(rqi_spare) 7 ⨾
    put value.(rqi_rqi) 1).

Definition encode_pfcp_qfi_ie_t (value : pfcp_qfi_ie_t) : ie_encoder :=
  enc_bits (
    ecall (encode_pfcp_ie_header_t value.(qfi_header)) ⨾
    put value.(qfi_spare) 2 ⨾
    put value.(qfi_value) 6).

Definition encode_pfcp_query_urr_ref_ie_t (value : pfcp_query_urr_ref_ie_t) : ie_encoder :=
  enc_bytes (
    ecall (encode_pfcp_ie_header_t value.(query_urr_ref_header)) ⨾
    put value.(query_urr_ref_val) 32).

Definition encode_pfcp_add_usage_rpts_info_ie_t (value : pfcp_add_usage_rpts_info_ie_t) : ie_encoder :=
  enc_bytes (
    ecall (encode_pfcp_ie_header_t value.(add_usage_rpts_info_header)) ⨾
    put value.(add_usage_rpts_info_auri) 1 ⨾
    put value.(add_usage_rpts_info_nbr_of_add_usage_rpts_val) 7 ⨾
    put value.(add_usage_rpts_info_nbr_of_add_usage_rpts_value2) 8).

Definition encode_pfcp_traffic_endpt_id_ie_t (value : pfcp_traffic_endpt_id_ie_t) : ie_encoder :=
  enc_bits (
    ecall (encode_pfcp_ie_header_t value.(traffic_endpt_id_header)) ⨾
    put value.(traffic_endpt_id_val) 8).

Definition encode_pfcp_mac_address_ie_t (value : pfcp_mac_address_ie_t) : ie_encoder :=
  enc_bytes (
    ecall (encode_pfcp_ie_header_t value.(mac_address_header)) ⨾
    put value.(mac_address_spare) 5 ⨾
    put value.(mac_address_udes) 1 ⨾
    put value.(mac_address_usou) 1 ⨾
    put value.(mac_address_dest) 1 ⨾
    put value.(mac_address_sour) 1 ⨾
    enc_when (nz value.(mac_address_sour)) (put value.(mac_address_src_mac_addr_val) 48) ⨾
    enc_when (nz value.(mac_address_dest)) (put value.(mac_address_dst_mac_addr_val) 48) ⨾
    enc_when (nz value.(mac_address_usou)) (put value.(mac_address_upr_src_mac_addr_val) 48) ⨾
    enc_when (nz value.(mac_address_udes)) (put value.(mac_address_upr_dst_mac_addr_val) 48)).

Definition encode_pfcp_ctag_ie_t (value : pfcp_ctag_ie_t) : ie_encoder :=
  enc_bytes (
    ecall (encode_pfcp_ie_header_t value.(ctag_header)) ⨾
    put value.(ctag_spare) 5 ⨾
    put value.(ctag_vid) 1 ⨾
    put value.(ctag_dei) 1 ⨾
    put value.(ctag_pcp) 1 ⨾
    put value.(ctag_cvid_value) 4 ⨾
    put value.(ctag_dei_flag) 1 ⨾
    put value.(ctag_pcp_value) 3 ⨾
    enc_when (nz value.(ctag_vid)) (put value.(ctag_cvid_value2) 8)).

Definition encode_pfcp_stag_ie_t (value : pfcp_stag_ie_t) : ie_encoder :=
  enc_bytes (
    ecall (encode_pfcp_ie_header_t value.(stag_header)) ⨾
    put value.(stag_spare) 5 ⨾
    put value.(stag_vid) 1 ⨾
    put value.(stag_dei) 1 ⨾
    put value.(stag_pcp) 1 ⨾
    put value.(stag_svid_value) 4 ⨾
    put value.(stag_dei_flag) 1 ⨾
    put value.(stag_pcp_value) 3 ⨾
    enc_when (nz value.(stag_vid)) (put value.(stag_svid_value2) 8)).

Definition encode_pfcp_ethertype_ie_t (value : pfcp_ethertype_ie_t) : ie_encoder :=
  enc_bytes (
    ecall (encode_pfcp_ie_header_t value.(ethertype_header)) ⨾
    put value.(ethertype_ethertype) 16).

Definition encode_pfcp_proxying_ie_t (value : pfcp_proxying_ie_t) : ie_encoder :=
  enc_bytes (
    ecall (encode_pfcp_ie_header_t value.(proxying_header)) ⨾
    put value.(proxying_spare) 6 ⨾
    put value.(proxying_ins) 1 ⨾
    put value.(proxying_arp) 1).

Definition encode_pfcp_eth_fltr_id_ie_t (value : pfcp_eth_fltr_id_ie_t) : ie_encoder :=
  enc_bytes (
    ecall (encode_pfcp_ie_header_t value.(eth_fltr_id_header)) ⨾
    put value.(eth_fltr_id_val) 32).

Definition encode_pfcp_eth_fltr_props_ie_t (value : pfcp_eth_fltr_props_ie_t) : ie_encoder :=
  enc_bytes (
    ecall (encode_pfcp_ie_header_t value.(eth_fltr_props_header)) ⨾
    put value.(eth_fltr_props_spare) 7 ⨾
    put value.(eth_fltr_props_bide) 1).

Definition encode_pfcp_suggstd_buf_pckts_cnt_ie_t (value : pfcp_suggstd_buf_pckts_cnt_ie_t) : ie_encoder :=
  enc_bits (
    ecall (encode_pfcp_ie_header_t value.(suggstd_buf_pckts_cnt_header)) ⨾
    put value.(suggstd_buf_pckts_cnt_pckt_cnt_val) 8).

Definition encode_pfcp_eth_pdu_sess_info_ie_t (value : pfcp_eth_pdu_sess_info_ie_t) : ie_encoder :=
  enc_bits (
    ecall (encode_pfcp_ie_header_t value.(eth_pdu_sess_info_header)) ⨾
    put value.(eth_pdu_sess_info_spare) 7 ⨾
    put value.(eth_pdu_sess_info_ethi) 1).

Definition encode_pfcp_eth_inact_timer_ie_t (value : pfcp_eth_inact_timer_ie_t) : ie_encoder :=
  enc_bits (
    ecall (encode_pfcp_ie_header_t value.(eth_inact_timer_header)) ⨾
    put value.(eth_inact_timer_eth_inact_timer) 32).

Definition encode_pfcp_sbsqnt_evnt_quota_ie_t (value : pfcp_sbsqnt_evnt_quota_ie_t) : ie_encoder :=
  enc_bits (
    ecall (encode_pfcp_ie_header_t value.(sbsqnt_evnt_quota_header)) ⨾
    put value.(sbsqnt_evnt_quota_sbsqnt_evnt_quota) 32).

Definition encode_pfcp_sbsqnt_evnt_thresh_ie_t (value : pfcp_sbsqnt_evnt_thresh_ie_t) : ie_encoder :=
  enc_bits (
    ecall (encode_pfcp_ie_header_t value.(sbsqnt_evnt_thresh_header)) ⨾
    put value.(sbsqnt_evnt_thresh_sbsqnt_evnt_thresh) 32).

Definition encode_pfcp_trc_info_ie_t (value : pfcp_trc_info_ie_t) : ie_encoder :=
  enc_bytes (
    ecall (encode_pfcp_ie_header_t value.(trc_info_header)) ⨾
    put value.(trc_info_mcc_digit_2) 4 ⨾
    put value.(trc_info_mcc_digit_1) 4 ⨾
    put value.(trc_info_mnc_digit_3) 4 ⨾
    put value.(trc_info_mcc_digit_3) 4 ⨾
    put value.(trc_info_mnc_digit_2) 4 ⨾
    put value.(trc_info_mnc_digit_1) 4 ⨾
    put value.(trc_info_trace_id) 24 ⨾
    put value.(trc_info_len_of_trigrng_evnts) 8 ⨾
    put value.(trc_info_trigrng_evnts) 8 ⨾
    put value.(trc_info_sess_trc_depth) 8 ⨾
    put value.(trc_info_len_of_list_of_intfcs) 8 ⨾
    put value.(trc_info_list_of_intfcs) 8 ⨾
    put value.(trc_info_len_of_ip_addr_of_trc_coll_ent) 8 ⨾
    put value.(trc_info_ip_addr_of_trc_coll_ent) 8).

Definition encode_pfcp_framed_route_ie_t (value : pfcp_framed_route_ie_t) : ie_encoder :=
  enc_bytes (
    ecall (encode_pfcp_ie_header_t value.(framed_route_header)) ⨾
    put value.(framed_route_framed_route) 8).

Definition encode_pfcp_framed_routing_ie_t (value : pfcp_framed_routing_ie_t) : ie_encoder :=
  enc_bits (
    ecall (encode_pfcp_ie_header_t value.(framed_routing_header)) ⨾
    put value.(framed_routing_framed_routing) 32).

Definition encode_pfcp_frmd_ipv6_route_ie_t (value : pfcp_frmd_ipv6_route_ie_t) : ie_encoder :=
  enc_bytes (
    ecall (encode_pfcp_ie_header_t value.(frmd_ipv6_route_header)) ⨾
    put value.(frmd_ipv6_route_frmd_ipv6_rte) 8).

Definition encode_pfcp_event_quota_ie_t (value : pfcp_event_quota_ie_t) : ie_encoder :=
  enc_bits (
    ecall (encode_pfcp_ie_header_t value.(event_quota_header)) ⨾
    put value.(event_quota_sbsqnt_evnt_quota) 32).

Definition encode_pfcp_event_threshold_ie_t (value : pfcp_event_threshold_ie_t) : ie_encoder :=
  enc_bits (
    ecall (encode_pfcp_ie_header_t value.(event_threshold_header)) ⨾
    put value.(event_threshold_event_threshold) 32).

Definition encode_pfcp_evnt_time_stmp_ie_t (value : pfcp_evnt_time_stmp_ie_t) : ie_encoder :=
  enc_bytes (
    ecall (encode_pfcp_ie_header_t value.(evnt_time_stmp_header)) ⨾
    put value.(evnt_time_stmp_evnt_time_stmp) 32).

Definition encode_pfcp_avgng_wnd_ie_t (value : pfcp_avgng_wnd_ie_t) : ie_encoder :=
  enc_bits (
    ecall (encode_pfcp_ie_header_t value.(avgng_wnd_header)) ⨾
    put value.(avgng_wnd_avgng_wnd) 32).

Definition encode_pfcp_paging_plcy_indctr_ie_t (value : pfcp_paging_plcy_indctr_ie_t) : ie_encoder :=
  enc_bits (
    ecall (encode_pfcp_ie_header_t value.(paging_plcy_indctr_header)) ⨾
    put value.(paging_plcy_indctr_spare) 5 ⨾
    put value.(paging_plcy_indctr_ppi_value) 3).

(** ** Information elements with variable parts *)

Definition encode_pfcp_node_id_ie_t (value : pfcp_node_id_ie_t) : ie_encoder :=
  enc_bytes (
    ecall (encode_pfcp_ie_header_t value.(node_id_header)) ⨾
    put value.(node_id_spare) 4 ⨾
    put value.(node_id_type) 4 ⨾
    enc_when (value.(node_id_type) =? 0) (putmem value.(node_id_value) 4)).

(** [rule_id_value] is an array of bytes: the first 2, 4 or 1 are sent. *)
Definition encode_pfcp_failed_rule_id_ie_t (value : pfcp_failed_rule_id_ie_t) : ie_encoder :=
  enc_bytes (
    ecall (encode_pfcp_ie_header_t value.(failed_rule_id_header)) ⨾
    put value.(failed_rule_id_spare) 3 ⨾
    put value.(failed_rule_id_rule_id_type) 5 ⨾
    (let t := value.(failed_rule_id_rule_id_type) in
     if t =? RULE_ID_TYPE_PDR then putmem value.(failed_rule_id_rule_id_value) 2
     else if t =? RULE_ID_TYPE_QER then putmem value.(failed_rule_id_rule_id_value) 4
     else if t =? RULE_ID_TYPE_URR then putmem value.(failed_rule_id_rule_id_value) 4
     else if t =? RULE_ID_TYPE_BAR then putmem value.(failed_rule_id_rule_id_value) 1
     else putmem value.(failed_rule_id_rule_id_value) 4)).

(** [mac_addr_val] is an array of 64-bit numbers of which the 8 bytes of the first
    are copied. *)
Definition encode_pfcp_mac_addrs_rmvd_ie_t (value : pfcp_mac_addrs_rmvd_ie_t) : ie_encoder :=
  enc_bytes (
    ecall (encode_pfcp_ie_header_t value.(mac_addrs_rmvd_header)) ⨾
    put value.(mac_addrs_rmvd_nbr_of_mac_addrs) 8 ⨾
    putmem (le_bytes 8 (nth 0 value.(mac_addrs_rmvd_mac_addr_val) 0)) MAC_ADDR_VAL_LEN).

Definition encode_pfcp_mac_addrs_detctd_ie_t (value : pfcp_mac_addrs_detctd_ie_t) : ie_encoder :=
  enc_bytes (
    ecall (encode_pfcp_ie_header_t value.(mac_addrs_detctd_header)) ⨾
    put value.(mac_addrs_detctd_nbr_of_mac_addrs) 8 ⨾
    putmem (le_bytes 8 (nth 0 value.(mac_addrs_detctd_mac_addr_val) 0)) MAC_ADDR_VAL_LEN).

Definition encode_pfcp_application_id_ie_t (value : pfcp_application_id_ie_t) : ie_encoder :=
  enc_bits (
    ecall (encode_pfcp_ie_header_t value.(application_id_header)) ⨾
    putmem value.(application_id_app_ident) 8).

Definition encode_pfcp_ntwk_inst_ie_t (value : pfcp_ntwk_inst_ie_t) : ie_encoder :=
  enc_bits (
    ecall (encode_pfcp_ie_header_t value.(ntwk_inst_header)) ⨾
    putmem value.(ntwk_inst_ntwk_inst) 32).

Definition encode_pfcp_user_plane_ip_rsrc_info_ie_t (value : pfcp_user_plane_ip_rsrc_info_ie_t)
    : ie_encoder :=
  enc_bytes (
    ecall (encode_pfcp_ie_header_t value.(user_plane_ip_rsrc_info_header)) ⨾
    put value.(user_plane_ip_rsrc_info_spare) 1 ⨾
    put value.(user_plane_ip_rsrc_info_assosi) 1 ⨾
    put value.(user_plane_ip_rsrc_info_assoni) 1 ⨾
    put value.(user_plane_ip_rsrc_info_teidri) 3 ⨾
    put value.(user_plane_ip_rsrc_info_v6) 1 ⨾
    put value.(user_plane_ip_rsrc_info_v4) 1 ⨾
    enc_when (nz value.(user_plane_ip_rsrc_info_teidri)) (put value.(user_plane_ip_rsrc_info_teid_range) 8) ⨾
    enc_when (nz value.(user_plane_ip_rsrc_info_v4)) (put value.(user_plane_ip_rsrc_info_ipv4_address) 32) ⨾
    enc_when (nz value.(user_plane_ip_rsrc_info_v6)) (putmem value.(user_plane_ip_rsrc_info_ipv6_address) 16) ⨾
    enc_when (nz value.(user_plane_ip_rsrc_info_assoni)) (put value.(user_plane_ip_rsrc_info_ntwk_inst) 8) ⨾
    put value.(user_plane_ip_rsrc_info_spare2) 4 ⨾
    enc_when (nz value.(user_plane_ip_rsrc_info_assosi)) (put value.(user_plane_ip_rsrc_info_src_intfc) 4)).

Definition encode_pfcp_actvt_predef_rules_ie_t (value : pfcp_actvt_predef_rules_ie_t) : ie_encoder :=
  enc_bits (
    ecall (encode_pfcp_ie_header_t value.(actvt_predef_rules_header)) ⨾
    enc_each (map (fun i => put_at value.(actvt_predef_rules_predef_rules_nm) i 8) (seq 0 8))).

Definition encode_pfcp_sdf_filter_ie_t (value : pfcp_sdf_filter_ie_t) : ie_encoder :=
  enc_bits (
    ecall (encode_pfcp_ie_header_t value.(sdf_filter_header)) ⨾
    put value.(sdf_filter_sdf_fltr_spare) 3 ⨾
    put value.(sdf_filter_bid) 1 ⨾
    put value.(sdf_filter_fl) 1 ⨾
    put value.(sdf_filter_spi) 1 ⨾
    put value.(sdf_filter_ttc) 1 ⨾
    put value.(sdf_filter_fd) 1 ⨾
    put value.(sdf_filter_sdf_fltr_spare2) 8 ⨾
    enc_when (nz value.(sdf_filter_fd)) (put value.(sdf_filter_len_of_flow_desc) 16) ⨾
    enc_when (nz value.(sdf_filter_fd)) (putmem value.(sdf_filter_flow_desc) value.(sdf_filter_len_of_flow_desc)) ⨾
    enc_when (nz value.(sdf_filter_ttc)) (put value.(sdf_filter_tos_traffic_cls) 16) ⨾
    enc_when (nz value.(sdf_filter_spi)) (put value.(sdf_filter_secur_parm_idx) 32) ⨾
    enc_when (nz value.(sdf_filter_fl)) (put value.(sdf_filter_flow_label) 24) ⨾
    enc_when (nz value.(sdf_filter_bid)) (put value.(sdf_filter_id) 32)).

Definition encode_pfcp_fqcsid_ie_t (value : pfcp_fqcsid_ie_t) : ie_encoder :=
  enc_bytes (
    ecall (encode_pfcp_ie_header_t value.(fqcsid_header)) ⨾
    put value.(fqcsid_node_id_type) 4 ⨾
    put value.(fqcsid_number_of_csids) 4 ⨾
    enc_when (value.(fqcsid_node_id_type) =? IPV4_GLOBAL_UNICAST)
      (putmem (le_bytes 4 value.(fqcsid_node_address)) 4) ⨾
    enc_each (map (fun i => put_at value.(fqcsid_pdn_conn_set_ident) i 16)
                  (seq 0 (Z.to_nat value.(fqcsid_number_of_csids))))).

Definition encode_pfcp_pfd_contents_ie_t (value : pfcp_pfd_contents_ie_t) : ie_encoder :=
  enc_bits (
    ecall (encode_pfcp_ie_header_t value.(pfd_contents_header)) ⨾
    put value.(pfd_contents_spare) 4 ⨾
    put value.(pfd_contents_cp) 1 ⨾
    put value.(pfd_contents_dn) 1 ⨾
    put value.(pfd_contents_url) 1 ⨾
    put value.(pfd_contents_fd) 1 ⨾
    enc_when (nz value.(pfd_contents_fd)) (put value.(pfd_contents_len_of_flow_desc) 16) ⨾
    enc_when (nz value.(pfd_contents_fd)) (put value.(pfd_contents_flow_desc) 8) ⨾
    enc_when (nz value.(pfd_contents_url)) (put value.(pfd_contents_length_of_url) 16) ⨾
    enc_when (nz value.(pfd_contents_url)) (put value.(pfd_contents_url2) 8) ⨾
    enc_when (nz value.(pfd_contents_dn)) (put value.(pfd_contents_len_of_domain_nm) 16) ⨾
    enc_when (nz value.(pfd_contents_dn)) (put value.(pfd_contents_domain_name) 8) ⨾
    enc_when (nz value.(pfd_contents_cp))
      (put value.(pfd_contents_len_of_cstm_pfd_cntnt) 16 ⨾
       putmem value.(pfd_contents_cstm_pfd_cntnt) value.(pfd_contents_len_of_cstm_pfd_cntnt))).

Definition encode_pfcp_user_id_ie_t (value : pfcp_user_id_ie_t) : ie_encoder :=
  enc_bytes (
    ecall (encode_pfcp_ie_header_t value.(user_id_header)) ⨾
    put value.(user_id_spare) 4 ⨾
    put value.(user_id_naif) 1 ⨾
    put value.(user_id_msisdnf) 1 ⨾
    put value.(user_id_imeif) 1 ⨾
    put value.(user_id_imsif) 1 ⨾
    enc_when (nz value.(user_id_imsif)) (put value.(user_id_length_of_imsi) 8) ⨾
    enc_when (nz value.(user_id_imsif)) (putmem value.(user_id_imsi) value.(user_id_length_of_imsi)) ⨾
    enc_when (nz value.(user_id_imeif)) (put value.(user_id_length_of_imei) 8) ⨾
    enc_when (nz value.(user_id_imeif)) (putmem value.(user_id_imei) value.(user_id_length_of_imei)) ⨾
    enc_when (nz value.(user_id_msisdnf)) (put value.(user_id_len_of_msisdn) 8) ⨾
    enc_when (nz value.(user_id_msisdnf)) (putmem value.(user_id_msisdn) value.(user_id_len_of_msisdn)) ⨾
    enc_when (nz value.(user_id_naif)) (put value.(user_id_length_of_nai) 8) ⨾
    enc_when (nz value.(user_id_naif)) (putmem value.(user_id_nai) value.(user_id_length_of_nai))).
