(* ===== verification/PfcpIesDecoder.v ===== *)
(** * Decoders of the PFCP information elements
    (src/libpfcp/src/pfcp_ies_decoder.c with the macros of
    src/libpfcp/include/pfcp_cond_decoder.h expanded)

    [get n] is the pair of statements [x = decode_bits(buf, total_decoded, n,
    &decoded); total_decoded += decoded;].  A decoder fills the structure its
    caller passes: [value] is that structure, whose members stay as they are
    where the code does not assign them.  A width in bits that is not larger
    than the member it is assigned to needs no conversion, and has none here. *)

From S2P Require Import Prelude EncDecBits Codec PfcpIes.

(** ** Headers *)

Definition decode_pfcp_ie_header_t : ie_decoder pfcp_ie_header_t :=
  dec_bits (
    type ← get 16;
    len ← get 16;
    mret (mk_ie_header type len)).

Definition decode_pfcp_header_t : ie_decoder pfcp_header_t :=
  dec_bytes (
    version ← get 3;
    spare ← get 3;
    mp ← get 1;
    s ← get 1;
    message_type ← get 8;
    message_len ← get 16;
    seid_seqno ←
      (if s =? 1 then
         seid ← get 64;
         seq_no ← get 24;
         spare ← get 4;
         message_prio ← get 4;
         mret (inl (mk_has_seid seid seq_no message_prio spare))
       else
         seq_no ← get 24;
         spare ← get 8;
         mret (inr (mk_no_seid seq_no spare)));
    mret (mk_header s mp spare version message_type message_len seid_seqno)).

(** ** Information elements of the regular form *)

Definition decode_pfcp_cause_ie_t (value : pfcp_cause_ie_t) : ie_decoder pfcp_cause_ie_t :=
  dec_bytes (
    header ← dcall decode_pfcp_ie_header_t;
    cause_value ← get 8;
    mret (mk_cause header cause_value)).

Definition decode_pfcp_src_intfc_ie_t (value : pfcp_src_intfc_ie_t) : ie_decoder pfcp_src_intfc_ie_t :=
  dec_bytes (
    header ← dcall decode_pfcp_ie_header_t;
    src_intfc_spare ← get 4;
    interface_value ← get 4;
    mret (mk_src_intfc header src_intfc_spare interface_value)).

Definition decode_pfcp_fteid_ie_t (value : pfcp_fteid_ie_t) : ie_decoder pfcp_fteid_ie_t :=
  dec_bytes (
    header ← dcall decode_pfcp_ie_header_t;
    fteid_spare ← get 4;
    chid ← get 1;
    ch ← get 1;
    v6 ← get 1;
    v4 ← get 1;
    teid ← dec_when (ch =? 0) (l ← getmem 4; mret (of_le_bytes l)) value.(fteid_teid);
    (* 16 bytes are copied to the 4 of ipv4_address: the other 12 land in the
       member that follows it in the packed structure, ipv6_address *)
    '(ipv4_address, ipv6_address) ←
      dec_when (nz v4 && (ch =? 0))
        (l ← dmem 16; _ ← advance (4 * 8);
         mret (of_le_bytes (take 4 l), drop 4 l ++ drop 12 value.(fteid_ipv6_address)))
        (value.(fteid_ipv4_address), value.(fteid_ipv6_address));
    ipv6_address ← dec_when (nz v6 && (ch =? 0)) (getmem 16) ipv6_address;
    choose_id ← get_when (nz ch) 8 8 value.(fteid_choose_id);
    mret (mk_fteid header fteid_spare chid ch v6 v4 teid ipv4_address ipv6_address choose_id)).

Definition decode_pfcp_gate_status_ie_t (value : pfcp_gate_status_ie_t) : ie_decoder pfcp_gate_status_ie_t :=
  dec_bytes (
    header ← dcall decode_pfcp_ie_header_t;
    gate_status_spare ← get 4;
    ul_gate ← get 2;
    dl_gate ← get 2;
    mret (mk_gate_status header gate_status_spare ul_gate dl_gate)).

Definition decode_pfcp_mbr_ie_t (value : pfcp_mbr_ie_t) : ie_decoder pfcp_mbr_ie_t :=
  dec_bytes (
    header ← dcall decode_pfcp_ie_header_t;
    ul_mbr ← get 40;
    dl_mbr ← get 40;
    mret (mk_mbr header ul_mbr dl_mbr)).

Definition decode_pfcp_gbr_ie_t (value : pfcp_gbr_ie_t) : ie_decoder pfcp_gbr_ie_t :=
  dec_bytes (
    header ← dcall decode_pfcp_ie_header_t;
    ul_gbr ← get 40;
    dl_gbr ← get 40;
    mret (mk_gbr header ul_gbr dl_gbr)).

Definition decode_pfcp_qer_corr_id_ie_t (value : pfcp_qer_corr_id_ie_t) : ie_decoder pfcp_qer_corr_id_ie_t :=
  dec_bytes (
    header ← dcall decode_pfcp_ie_header_t;
    qer_corr_id_val ← get 32;
    mret (mk_qer_corr_id header qer_corr_id_val)).

Definition decode_pfcp_precedence_ie_t (value : pfcp_precedence_ie_t) : ie_decoder pfcp_precedence_ie_t :=
  dec_bytes (
    header ← dcall decode_pfcp_ie_header_t;
    prcdnc_val ← get 32;
    mret (mk_precedence header prcdnc_val)).

Definition decode_pfcp_trnspt_lvl_marking_ie_t (value : pfcp_trnspt_lvl_marking_ie_t) : ie_decoder pfcp_trnspt_lvl_marking_ie_t :=
  dec_bytes (
    header ← dcall decode_pfcp_ie_header_t;
    tostraffic_cls ← get 16;
    mret (mk_trnspt_lvl_marking header tostraffic_cls)).

Definition decode_pfcp_vol_thresh_ie_t (value : pfcp_vol_thresh_ie_t) : ie_decoder pfcp_vol_thresh_ie_t :=
  dec_bytes (
    header ← dcall decode_pfcp_ie_header_t;
    vol_thresh_spare ← get 5;
    dlvol ← get 1;
    ulvol ← get 1;
    tovol ← get 1;
    total_volume ← get_stale (nz tovol) 64 64 value.(vol_thresh_total_volume);
    uplink_volume ← get_stale (nz ulvol) 64 64 value.(vol_thresh_uplink_volume);
    downlink_volume ← get_stale (nz dlvol) 64 64 value.(vol_thresh_downlink_volume);
    mret (mk_vol_thresh header vol_thresh_spare dlvol ulvol tovol total_volume uplink_volume downlink_volume)).

Definition decode_pfcp_time_threshold_ie_t (value : pfcp_time_threshold_ie_t) : ie_decoder pfcp_time_threshold_ie_t :=
  dec_bytes (
    header ← dcall decode_pfcp_ie_header_t;
    time_threshold ← get 32;
    mret (mk_time_threshold header time_threshold)).

Definition decode_pfcp_monitoring_time_ie_t (value : pfcp_monitoring_time_ie_t) : ie_decoder pfcp_monitoring_time_ie_t :=
  dec_bytes (
    header ← dcall decode_pfcp_ie_header_t;
    monitoring_time ← get 32;
    mret (mk_monitoring_time header monitoring_time)).

Definition decode_pfcp_sbsqnt_vol_thresh_ie_t (value : pfcp_sbsqnt_vol_thresh_ie_t) : ie_decoder pfcp_sbsqnt_vol_thresh_ie_t :=
  dec_bytes (
    header ← dcall decode_pfcp_ie_header_t;
    sbsqnt_vol_thresh_spare ← get 5;
    dlvol ← get 1;
    ulvol ← get 1;
    tovol ← get 1;
    total_volume ← get_stale (nz tovol) 64 64 value.(sbsqnt_vol_thresh_total_volume);
    uplink_volume ← get_stale (nz ulvol) 64 64 value.(sbsqnt_vol_thresh_uplink_volume);
    downlink_volume ← get_stale (nz dlvol) 64 64 value.(sbsqnt_vol_thresh_downlink_volume);
    mret (mk_sbsqnt_vol_thresh header sbsqnt_vol_thresh_spare dlvol ulvol tovol total_volume uplink_volume downlink_volume)).

Definition decode_pfcp_sbsqnt_time_thresh_ie_t (value : pfcp_sbsqnt_time_thresh_ie_t) : ie_decoder pfcp_sbsqnt_time_thresh_ie_t :=
  dec_bytes (
    header ← dcall decode_pfcp_ie_header_t;
    sbsqnt_time_thresh ← get 32;
    mret (mk_sbsqnt_time_thresh header sbsqnt_time_thresh)).

Definition decode_pfcp_inact_det_time_ie_t (value : pfcp_inact_det_time_ie_t) : ie_decoder pfcp_inact_det_time_ie_t :=
  dec_bytes (
    header ← dcall decode_pfcp_ie_header_t;
    inact_det_time ← get 32;
    mret (mk_inact_det_time header inact_det_time)).

Definition decode_pfcp_rptng_triggers_ie_t (value : pfcp_rptng_triggers_ie_t) : ie_decoder pfcp_rptng_triggers_ie_t :=
  dec_bytes (
    header ← dcall decode_pfcp_ie_header_t;
    liusa ← get 1;
    droth ← get 1;
    stopt ← get 1;
    start ← get 1;
    quhti ← get 1;
    timth ← get 1;
    volth ← get 1;
    perio ← get 1;
    rptng_triggers_spare ← get 1;
    rptng_triggers_spare2 ← get 1;
    evequ ← get 1;
    eveth ← get 1;
    macar ← get 1;
    envcl ← get 1;
    timqu ← get 1;
    volqu ← get 1;
    mret (mk_rptng_triggers header liusa droth stopt start quhti timth volth perio rptng_triggers_spare rptng_triggers_spare2 evequ eveth macar envcl timqu volqu)).

Definition decode_pfcp_redir_info_ie_t (value : pfcp_redir_info_ie_t) : ie_decoder pfcp_redir_info_ie_t :=
  dec_bytes (
    header ← dcall decode_pfcp_ie_header_t;
    redir_info_spare ← get 4;
    redir_addr_type ← get 4;
    redir_svr_addr_len ← get 8;
    redir_svr_addr ← get 8;
    mret (mk_redir_info header redir_info_spare redir_addr_type redir_svr_addr_len redir_svr_addr)).

Definition decode_pfcp_report_type_ie_t (value : pfcp_report_type_ie_t) : ie_decoder pfcp_report_type_ie_t :=
  dec_bytes (
    header ← dcall decode_pfcp_ie_header_t;
    rpt_type_spare ← get 4;
    upir ← get 1;
    erir ← get 1;
    usar ← get 1;
    dldr ← get 1;
    mret (mk_report_type header rpt_type_spare upir erir usar dldr)).

Definition decode_pfcp_offending_ie_ie_t (value : pfcp_offending_ie_ie_t) : ie_decoder pfcp_offending_ie_ie_t :=
  dec_bytes (
    header ← dcall decode_pfcp_ie_header_t;
    type_of_the_offending_ie ← get 16;
    mret (mk_offending_ie header type_of_the_offending_ie)).

Definition decode_pfcp_frwdng_plcy_ie_t (value : pfcp_frwdng_plcy_ie_t) : ie_decoder pfcp_frwdng_plcy_ie_t :=
  dec_bytes (
    header ← dcall decode_pfcp_ie_header_t;
    frwdng_plcy_ident_len ← get 8;
    frwdng_plcy_ident ← get 8;
    mret (mk_frwdng_plcy header frwdng_plcy_ident_len frwdng_plcy_ident)).

Definition decode_pfcp_dst_intfc_ie_t (value : pfcp_dst_intfc_ie_t) : ie_decoder pfcp_dst_intfc_ie_t :=
  dec_bytes (
    header ← dcall decode_pfcp_ie_header_t;
    dst_intfc_spare ← get 4;
    interface_value ← get 4;
    mret (mk_dst_intfc header dst_intfc_spare interface_value)).

Definition decode_pfcp_apply_action_ie_t (value : pfcp_apply_action_ie_t) : ie_decoder pfcp_apply_action_ie_t :=
  dec_bytes (
    header ← dcall decode_pfcp_ie_header_t;
    apply_act_spare ← get 1;
    apply_act_spare2 ← get 1;
    apply_act_spare3 ← get 1;
    dupl ← get 1;
    nocp ← get 1;
    buff ← get 1;
    forw ← get 1;
    drop ← get 1;
    mret (mk_apply_action header apply_act_spare apply_act_spare2 apply_act_spare3 dupl nocp buff forw drop)).

Definition decode_pfcp_dnlnk_data_svc_info_ie_t (value : pfcp_dnlnk_data_svc_info_ie_t) : ie_decoder pfcp_dnlnk_data_svc_info_ie_t :=
  dec_bytes (
    header ← dcall decode_pfcp_ie_header_t;
    dnlnk_data_svc_info_spare ← get 6;
    qfii ← get 1;
    ppi ← get 1;
    dnlnk_data_svc_info_spare2 ← get 2;
    paging_plcy_indctn_val ← get 6;
    dnlnk_data_svc_info_spare3 ← get 2;
    qfi ← get 6;
    mret (mk_dnlnk_data_svc_info header dnlnk_data_svc_info_spare qfii ppi dnlnk_data_svc_info_spare2 paging_plcy_indctn_val dnlnk_data_svc_info_spare3 qfi)).

Definition decode_pfcp_dnlnk_data_notif_delay_ie_t (value : pfcp_dnlnk_data_notif_delay_ie_t) : ie_decoder pfcp_dnlnk_data_notif_delay_ie_t :=
  dec_bytes (
    header ← dcall decode_pfcp_ie_header_t;
    delay_val_in_integer_multiples_of_50_millisecs_or_zero ← get 8;
    mret (mk_dnlnk_data_notif_delay header delay_val_in_integer_multiples_of_50_millisecs_or_zero)).

Definition decode_pfcp_dl_buf_dur_ie_t (value : pfcp_dl_buf_dur_ie_t) : ie_decoder pfcp_dl_buf_dur_ie_t :=
  dec_bytes (
    header ← dcall decode_pfcp_ie_header_t;
    timer_unit ← get 3;
    timer_value ← get 5;
    mret (mk_dl_buf_dur header timer_unit timer_value)).

Definition decode_pfcp_dl_buf_suggstd_pckt_cnt_ie_t (value : pfcp_dl_buf_suggstd_pckt_cnt_ie_t) : ie_decoder pfcp_dl_buf_suggstd_pckt_cnt_ie_t :=
  dec_bytes (
    header ← dcall decode_pfcp_ie_header_t;
    pckt_cnt_val ← get 8;
    mret (mk_dl_buf_suggstd_pckt_cnt header pckt_cnt_val)).

Definition decode_pfcp_pfcpsmreq_flags_ie_t (value : pfcp_pfcpsmreq_flags_ie_t) : ie_decoder pfcp_pfcpsmreq_flags_ie_t :=
  dec_bytes (
    header ← dcall decode_pfcp_ie_header_t;
    pfcpsmreq_flgs_spare ← get 1;
    pfcpsmreq_flgs_spare2 ← get 1;
    pfcpsmreq_flgs_spare3 ← get 1;
    pfcpsmreq_flgs_spare4 ← get 1;
    pfcpsmreq_flgs_spare5 ← get 1;
    qaurr ← get 1;
    sndem ← get 1;
    drobu ← get 1;
    mret (mk_pfcpsmreq_flags header pfcpsmreq_flgs_spare pfcpsmreq_flgs_spare2 pfcpsmreq_flgs_spare3 pfcpsmreq_flgs_spare4 pfcpsmreq_flgs_spare5 qaurr sndem drobu)).

Definition decode_pfcp_pfcpsrrsp_flags_ie_t (value : pfcp_pfcpsrrsp_flags_ie_t) : ie_decoder pfcp_pfcpsrrsp_flags_ie_t :=
  dec_bytes (
    header ← dcall decode_pfcp_ie_header_t;
    pfcpsrrsp_flgs_spare ← get 1;
    pfcpsrrsp_flgs_spare2 ← get 1;
    pfcpsrrsp_flgs_spare3 ← get 1;
    pfcpsrrsp_flgs_spare4 ← get 1;
    pfcpsrrsp_flgs_spare5 ← get 1;
    pfcpsrrsp_flgs_spare6 ← get 1;
    pfcpsrrsp_flgs_spare7 ← get 1;
    drobu ← get 1;
    mret (mk_pfcpsrrsp_flags header pfcpsrrsp_flgs_spare pfcpsrrsp_flgs_spare2 pfcpsrrsp_flgs_spare3 pfcpsrrsp_flgs_spare4 pfcpsrrsp_flgs_spare5 pfcpsrrsp_flgs_spare6 pfcpsrrsp_flgs_spare7 drobu)).

Definition decode_pfcp_sequence_number_ie_t (value : pfcp_sequence_number_ie_t) : ie_decoder pfcp_sequence_number_ie_t :=
  dec_bytes (
    header ← dcall decode_pfcp_ie_header_t;
    sequence_number ← get 32;
    mret (mk_sequence_number header sequence_number)).

Definition decode_pfcp_metric_ie_t (value : pfcp_metric_ie_t) : ie_decoder pfcp_metric_ie_t :=
  dec_bytes (
    header ← dcall decode_pfcp_ie_header_t;
    metric ← get 8;
    mret (mk_metric header metric)).

Definition decode_pfcp_timer_ie_t (value : pfcp_timer_ie_t) : ie_decoder pfcp_timer_ie_t :=
  dec_bytes (
    header ← dcall decode_pfcp_ie_header_t;
    timer_unit ← get 3;
    timer_value ← get 5;
    mret (mk_timer header timer_unit timer_value)).

Definition decode_pfcp_pdr_id_ie_t (value : pfcp_pdr_id_ie_t) : ie_decoder pfcp_pdr_id_ie_t :=
  dec_bytes (
    header ← dcall decode_pfcp_ie_header_t;
    rule_id ← get 16;
    mret (mk_pdr_id header rule_id)).

Definition decode_pfcp_fseid_ie_t (value : pfcp_fseid_ie_t) : ie_decoder pfcp_fseid_ie_t :=
  dec_bytes (
    header ← dcall decode_pfcp_ie_header_t;
    fseid_spare ← get 1;
    fseid_spare2 ← get 1;
    fseid_spare3 ← get 1;
    fseid_spare4 ← get 1;
    fseid_spare5 ← get 1;
    fseid_spare6 ← get 1;
    v4 ← get 1;
    v6 ← get 1;
    seid ← get 64;
    ipv4_address ← dec_when (nz v4) (l ← getmem 4; mret (of_le_bytes l)) value.(fseid_ipv4_address);
    ipv6_address ← dec_when (nz v6) (getmem 16) value.(fseid_ipv6_address);
    mret (mk_fseid header fseid_spare fseid_spare2 fseid_spare3 fseid_spare4 fseid_spare5 fseid_spare6 v4 v6 seid ipv4_address ipv6_address)).

Definition decode_pfcp_meas_mthd_ie_t (value : pfcp_meas_mthd_ie_t) : ie_decoder pfcp_meas_mthd_ie_t :=
  dec_bytes (
    header ← dcall decode_pfcp_ie_header_t;
    meas_mthd_spare ← get 1;
    meas_mthd_spare2 ← get 1;
    meas_mthd_spare3 ← get 1;
    meas_mthd_spare4 ← get 1;
    meas_mthd_spare5 ← get 1;
    event ← get 1;
    volum ← get 1;
    durat ← get 1;
    mret (mk_meas_mthd header meas_mthd_spare meas_mthd_spare2 meas_mthd_spare3 meas_mthd_spare4 meas_mthd_spare5 event volum durat)).

Definition decode_pfcp_usage_rpt_trig_ie_t (value : pfcp_usage_rpt_trig_ie_t) : ie_decoder pfcp_usage_rpt_trig_ie_t :=
  dec_bytes (
    header ← dcall decode_pfcp_ie_header_t;
    immer ← get 1;
    droth ← get 1;
    stopt ← get 1;
    start ← get 1;
    quhti ← get 1;
    timth ← get 1;
    volth ← get 1;
    perio ← get 1;
    eveth ← get 1;
    macar ← get 1;
    envcl ← get 1;
    monit ← get 1;
    termr ← get 1;
    liusa ← get 1;
    timqu ← get 1;
    volqu ← get 1;
    usage_rpt_trig_spare ← get 7;
    evequ ← get 1;
    mret (mk_usage_rpt_trig header immer droth stopt start quhti timth volth perio eveth macar envcl monit termr liusa timqu volqu usage_rpt_trig_spare evequ)).

Definition decode_pfcp_meas_period_ie_t (value : pfcp_meas_period_ie_t) : ie_decoder pfcp_meas_period_ie_t :=
  dec_bytes (
    header ← dcall decode_pfcp_ie_header_t;
    meas_period ← get 32;
    mret (mk_meas_period header meas_period)).

Definition decode_pfcp_vol_meas_ie_t (value : pfcp_vol_meas_ie_t) : ie_decoder pfcp_vol_meas_ie_t :=
  dec_bytes (
    header ← dcall decode_pfcp_ie_header_t;
    vol_meas_spare ← get 5;
    dlvol ← get 1;
    ulvol ← get 1;
    tovol ← get 1;
    total_volume ← get_stale (nz tovol) 64 64 value.(vol_meas_total_volume);
    uplink_volume ← get_stale (nz ulvol) 64 64 value.(vol_meas_uplink_volume);
    downlink_volume ← get_stale (nz dlvol) 64 64 value.(vol_meas_downlink_volume);
    mret (mk_vol_meas header vol_meas_spare dlvol ulvol tovol total_volume uplink_volume downlink_volume)).

Definition decode_pfcp_dur_meas_ie_t (value : pfcp_dur_meas_ie_t) : ie_decoder pfcp_dur_meas_ie_t :=
  dec_bytes (
    header ← dcall decode_pfcp_ie_header_t;
    duration_value ← get 32;
    mret (mk_dur_meas header duration_value)).

Definition decode_pfcp_time_of_frst_pckt_ie_t (value : pfcp_time_of_frst_pckt_ie_t) : ie_decoder pfcp_time_of_frst_pckt_ie_t :=
  dec_bytes (
    header ← dcall decode_pfcp_ie_header_t;
    time_of_frst_pckt ← get 32;
    mret (mk_time_of_frst_pckt header time_of_frst_pckt)).

Definition decode_pfcp_time_of_lst_pckt_ie_t (value : pfcp_time_of_lst_pckt_ie_t) : ie_decoder pfcp_time_of_lst_pckt_ie_t :=
  dec_bytes (
    header ← dcall decode_pfcp_ie_header_t;
    time_of_lst_pckt ← get 32;
    mret (mk_time_of_lst_pckt header time_of_lst_pckt)).

Definition decode_pfcp_quota_hldng_time_ie_t (value : pfcp_quota_hldng_time_ie_t) : ie_decoder pfcp_quota_hldng_time_ie_t :=
  dec_bytes (
    header ← dcall decode_pfcp_ie_header_t;
    quota_hldng_time_val ← get 32;
    mret (mk_quota_hldng_time header quota_hldng_time_val)).

Definition decode_pfcp_drpd_dl_traffic_thresh_ie_t (value : pfcp_drpd_dl_traffic_thresh_ie_t) : ie_decoder pfcp_drpd_dl_traffic_thresh_ie_t :=
  dec_bytes (
    header ← dcall decode_pfcp_ie_header_t;
    drpd_dl_traffic_thresh_spare ← get 6;
    dlby ← get 1;
    dlpa ← get 1;
    dnlnk_pckts ← get_stale (nz dlpa) 64 64 value.(drpd_dl_traffic_thresh_dnlnk_pckts);
    nbr_of_bytes_of_dnlnk_data ← get_stale (nz dlby) 64 64 value.(drpd_dl_traffic_thresh_nbr_of_bytes_of_dnlnk_data);
    mret (mk_drpd_dl_traffic_thresh header drpd_dl_traffic_thresh_spare dlby dlpa dnlnk_pckts nbr_of_bytes_of_dnlnk_data)).

Definition decode_pfcp_volume_quota_ie_t (value : pfcp_volume_quota_ie_t) : ie_decoder pfcp_volume_quota_ie_t :=
  dec_bytes (
    header ← dcall decode_pfcp_ie_header_t;
    vol_quota_spare ← get 5;
    dlvol ← get 1;
    ulvol ← get 1;
    tovol ← get 1;
    total_volume ← get_stale (nz tovol) 64 64 value.(volume_quota_total_volume);
    uplink_volume ← get_stale (nz ulvol) 64 64 value.(volume_quota_uplink_volume);
    downlink_volume ← get_stale (nz dlvol) 64 64 value.(volume_quota_downlink_volume);
    mret (mk_volume_quota header vol_quota_spare dlvol ulvol tovol total_volume uplink_volume downlink_volume)).

Definition decode_pfcp_time_quota_ie_t (value : pfcp_time_quota_ie_t) : ie_decoder pfcp_time_quota_ie_t :=
  dec_bytes (
    header ← dcall decode_pfcp_ie_header_t;
    time_quota_val ← get 32;
    mret (mk_time_quota header time_quota_val)).

Definition decode_pfcp_start_time_ie_t (value : pfcp_start_time_ie_t) : ie_decoder pfcp_start_time_ie_t :=
  dec_bytes (
    header ← dcall decode_pfcp_ie_header_t;
    start_time ← get 32;
    mret (mk_start_time header start_time)).

Definition decode_pfcp_end_time_ie_t (value : pfcp_end_time_ie_t) : ie_decoder pfcp_end_time_ie_t :=
  dec_bytes (
    header ← dcall decode_pfcp_ie_header_t;
    end_time ← get 32;
    mret (mk_end_time header end_time)).

Definition decode_pfcp_urr_id_ie_t (value : pfcp_urr_id_ie_t) : ie_decoder pfcp_urr_id_ie_t :=
  dec_bytes (
    header ← dcall decode_pfcp_ie_header_t;
    urr_id_value ← get 32;
    mret (mk_urr_id header urr_id_value)).

Definition decode_pfcp_linked_urr_id_ie_t (value : pfcp_linked_urr_id_ie_t) : ie_decoder pfcp_linked_urr_id_ie_t :=
  dec_bytes (
    header ← dcall decode_pfcp_ie_header_t;
    lnkd_urr_id_val ← get 32;
    mret (mk_linked_urr_id header lnkd_urr_id_val)).

Definition decode_pfcp_outer_hdr_creation_ie_t (value : pfcp_outer_hdr_creation_ie_t) : ie_decoder pfcp_outer_hdr_creation_ie_t :=
  dec_bytes (
    header ← dcall decode_pfcp_ie_header_t;
    outer_hdr_creation_desc ← get 16;
    teid ← get 32;
    ipv4_address ← get 32;
    mret (mk_outer_hdr_creation header outer_hdr_creation_desc teid ipv4_address value.(outer_hdr_creation_ipv6_address) value.(outer_hdr_creation_port_number) value.(outer_hdr_creation_ctag) value.(outer_hdr_creation_stag))).

Definition decode_pfcp_bar_id_ie_t (value : pfcp_bar_id_ie_t) : ie_decoder pfcp_bar_id_ie_t :=
  dec_bytes (
    header ← dcall decode_pfcp_ie_header_t;
    bar_id_value ← get 8;
    mret (mk_bar_id header bar_id_value)).

Definition decode_pfcp_cp_func_feat_ie_t (value : pfcp_cp_func_feat_ie_t) : ie_decoder pfcp_cp_func_feat_ie_t :=
  dec_bytes (
    header ← dcall decode_pfcp_ie_header_t;
    sup_feat ← get 8;
    mret (mk_cp_func_feat header sup_feat)).

Definition decode_pfcp_usage_info_ie_t (value : pfcp_usage_info_ie_t) : ie_decoder pfcp_usage_info_ie_t :=
  dec_bytes (
    header ← dcall decode_pfcp_ie_header_t;
    usage_info_spare ← get 5;
    ube ← get 1;
    uae ← get 1;
    aft ← get 1;
    bef ← get 1;
    mret (mk_usage_info header usage_info_spare ube uae aft bef)).

Definition decode_pfcp_app_inst_id_ie_t (value : pfcp_app_inst_id_ie_t) : ie_decoder pfcp_app_inst_id_ie_t :=
  dec_bytes (
    header ← dcall decode_pfcp_ie_header_t;
    app_inst_ident ← get 8;
    mret (mk_app_inst_id header app_inst_ident)).

Definition decode_pfcp_flow_info_ie_t (value : pfcp_flow_info_ie_t) : ie_decoder pfcp_flow_info_ie_t :=
  dec_bytes (
    header ← dcall decode_pfcp_ie_header_t;
    flow_info_spare ← get 5;
    flow_direction ← get 3;
    len_of_flow_desc ← get 16;
    flow_desc ← get 8;
    mret (mk_flow_info header flow_info_spare flow_direction len_of_flow_desc flow_desc)).

Definition decode_pfcp_ue_ip_address_ie_t (value : pfcp_ue_ip_address_ie_t) : ie_decoder pfcp_ue_ip_address_ie_t :=
  dec_bytes (
    header ← dcall decode_pfcp_ie_header_t;
    ue_ip_addr_spare ← get 4;
    let ue_ip_addr_spare := uwrap 3 ue_ip_addr_spare in
    ipv6d ← get 1;
    sd ← get 1;
    v4 ← get 1;
    v6 ← get 1;
    ipv4_address ← dec_when (nz v4) (l ← getmem 4; mret (of_le_bytes l)) value.(ue_ip_address_ipv4_address);
    ipv6_address ← dec_when (nz v6) (getmem 16) value.(ue_ip_address_ipv6_address);
    ipv6_pfx_dlgtn_bits ← get_when (nz ipv6d) 8 8 value.(ue_ip_address_ipv6_pfx_dlgtn_bits);
    mret (mk_ue_ip_address header ue_ip_addr_spare value.(ue_ip_address_chv4) ipv6d sd v4 v6 ipv4_address ipv6_address ipv6_pfx_dlgtn_bits)).

Definition decode_pfcp_packet_rate_ie_t (value : pfcp_packet_rate_ie_t) : ie_decoder pfcp_packet_rate_ie_t :=
  dec_bytes (
    header ← dcall decode_pfcp_ie_header_t;
    pckt_rate_spare ← get 6;
    dlpr ← get 1;
    ulpr ← get 1;
    pckt_rate_spare2 ← get 5;
    uplnk_time_unit ← get 3;
    max_uplnk_pckt_rate ← get_when (nz ulpr) 16 16 value.(packet_rate_max_uplnk_pckt_rate);
    pckt_rate_spare3 ← get 5;
    dnlnk_time_unit ← get 3;
    max_dnlnk_pckt_rate ← get_when (nz dlpr) 16 16 value.(packet_rate_max_dnlnk_pckt_rate);
    mret (mk_packet_rate header pckt_rate_spare dlpr ulpr pckt_rate_spare2 uplnk_time_unit max_uplnk_pckt_rate pckt_rate_spare3 dnlnk_time_unit max_dnlnk_pckt_rate)).

Definition decode_pfcp_outer_hdr_removal_ie_t (value : pfcp_outer_hdr_removal_ie_t) : ie_decoder pfcp_outer_hdr_removal_ie_t :=
  dec_bytes (
    header ← dcall decode_pfcp_ie_header_t;
    outer_hdr_removal_desc ← get 8;
    mret (mk_outer_hdr_removal header outer_hdr_removal_desc)).

Definition decode_pfcp_rcvry_time_stmp_ie_t (value : pfcp_rcvry_time_stmp_ie_t) : ie_decoder pfcp_rcvry_time_stmp_ie_t :=
  dec_bytes (
    header ← dcall decode_pfcp_ie_header_t;
    rcvry_time_stmp_val ← get 32;
    mret (mk_rcvry_time_stmp header rcvry_time_stmp_val)).

Definition decode_pfcp_dl_flow_lvl_marking_ie_t (value : pfcp_dl_flow_lvl_marking_ie_t) : ie_decoder pfcp_dl_flow_lvl_marking_ie_t :=
  dec_bytes (
    header ← dcall decode_pfcp_ie_header_t;
    dl_flow_lvl_marking_spare ← get 6;
    sci ← get 1;
    ttc ← get 1;
    tostraffic_cls ← get_when (nz ttc) 16 16 value.(dl_flow_lvl_marking_tostraffic_cls);
    svc_cls_indctr ← get_when (nz sci) 16 16 value.(dl_flow_lvl_marking_svc_cls_indctr);
    mret (mk_dl_flow_lvl_marking header dl_flow_lvl_marking_spare sci ttc tostraffic_cls svc_cls_indctr)).

Definition decode_pfcp_hdr_enrchmt_ie_t (value : pfcp_hdr_enrchmt_ie_t) : ie_decoder pfcp_hdr_enrchmt_ie_t :=
  dec_bytes (
    header ← dcall decode_pfcp_ie_header_t;
    hdr_enrchmt_spare ← get 3;
    header_type ← get 5;
    len_of_hdr_fld_nm ← get 8;
    hdr_fld_nm ← get 8;
    len_of_hdr_fld_val ← get 8;
    hdr_fld_val ← get 8;
    mret (mk_hdr_enrchmt header hdr_enrchmt_spare header_type len_of_hdr_fld_nm hdr_fld_nm len_of_hdr_fld_val hdr_fld_val)).

Definition decode_pfcp_meas_info_ie_t (value : pfcp_meas_info_ie_t) : ie_decoder pfcp_meas_info_ie_t :=
  dec_bytes (
    header ← dcall decode_pfcp_ie_header_t;
    meas_info_spare ← get 4;
    istm ← get 1;
    radi ← get 1;
    inam ← get 1;
    mbqe ← get 1;
    mret (mk_meas_info header meas_info_spare istm radi inam mbqe)).

Definition decode_pfcp_node_rpt_type_ie_t (value : pfcp_node_rpt_type_ie_t) : ie_decoder pfcp_node_rpt_type_ie_t :=
  dec_bytes (
    header ← dcall decode_pfcp_ie_header_t;
    node_rpt_type_spare ← get 7;
    upfr ← get 1;
    mret (mk_node_rpt_type header node_rpt_type_spare upfr)).

Definition decode_pfcp_rmt_gtpu_peer_ie_t (value : pfcp_rmt_gtpu_peer_ie_t) : ie_decoder pfcp_rmt_gtpu_peer_ie_t :=
  dec_bytes (
    header ← dcall decode_pfcp_ie_header_t;
    rmt_gtpu_peer_spare ← get 6;
    v4 ← get 1;
    v6 ← get 1;
    ipv4_address ← get_stale (nz v4) 32 32 value.(rmt_gtpu_peer_ipv4_address);
    ipv6_address ← dec_when (nz v6) (getmem 16) value.(rmt_gtpu_peer_ipv6_address);
    _ ← bump;
    mret (mk_rmt_gtpu_peer header rmt_gtpu_peer_spare v4 v6 ipv4_address ipv6_address)).

Definition decode_pfcp_urseqn_ie_t (value : pfcp_urseqn_ie_t) : ie_decoder pfcp_urseqn_ie_t :=
  dec_bytes (
    header ← dcall decode_pfcp_ie_header_t;
    urseqn ← get 32;
    mret (mk_urseqn header urseqn)).

Definition decode_pfcp_deact_predef_rules_ie_t (value : pfcp_deact_predef_rules_ie_t) : ie_decoder pfcp_deact_predef_rules_ie_t :=
  dec_bytes (
    header ← dcall decode_pfcp_ie_header_t;
    predef_rules_nm ← get 8;
    mret (mk_deact_predef_rules header predef_rules_nm)).

Definition decode_pfcp_far_id_ie_t (value : pfcp_far_id_ie_t) : ie_decoder pfcp_far_id_ie_t :=
  dec_bytes (
    header ← dcall decode_pfcp_ie_header_t;
    far_id_value ← get 32;
    mret (mk_far_id header far_id_value)).

Definition decode_pfcp_qer_id_ie_t (value : pfcp_qer_id_ie_t) : ie_decoder pfcp_qer_id_ie_t :=
  dec_bytes (
    header ← dcall decode_pfcp_ie_header_t;
    qer_id_value ← get 32;
    mret (mk_qer_id header qer_id_value)).

Definition decode_pfcp_oci_flags_ie_t (value : pfcp_oci_flags_ie_t) : ie_decoder pfcp_oci_flags_ie_t :=
  dec_bytes (
    header ← dcall decode_pfcp_ie_header_t;
    oci_flags_spare ← get 7;
    aoci ← get 1;
    mret (mk_oci_flags header oci_flags_spare aoci)).

Definition decode_pfcp_up_assn_rel_req_ie_t (value : pfcp_up_assn_rel_req_ie_t) : ie_decoder pfcp_up_assn_rel_req_ie_t :=
  dec_bytes (
    header ← dcall decode_pfcp_ie_header_t;
    up_assn_rel_req_spare ← get 7;
    sarr ← get 1;
    mret (mk_up_assn_rel_req header up_assn_rel_req_spare sarr)).

Definition decode_pfcp_graceful_rel_period_ie_t (value : pfcp_graceful_rel_period_ie_t) : ie_decoder pfcp_graceful_rel_period_ie_t :=
  dec_bytes (
    header ← dcall decode_pfcp_ie_header_t;
    timer_unit ← get 3;
    timer_value ← get 5;
    mret (mk_graceful_rel_period header timer_unit timer_value)).

Definition decode_pfcp_pdn_type_ie_t (value : pfcp_pdn_type_ie_t) : ie_decoder pfcp_pdn_type_ie_t :=
  dec_bytes (
    header ← dcall decode_pfcp_ie_header_t;
    pdn_type_spare ← get 5;
    pdn_type ← get 3;
    mret (mk_pdn_type header pdn_type_spare pdn_type)).

Definition decode_pfcp_time_quota_mech_ie_t (value : pfcp_time_quota_mech_ie_t) : ie_decoder pfcp_time_quota_mech_ie_t :=
  dec_bytes (
    header ← dcall decode_pfcp_ie_header_t;
    time_quota_mech_spare ← get 6;
    btit ← get 2;
    base_time_int ← get 32;
    mret (mk_time_quota_mech header time_quota_mech_spare btit base_time_int)).

Definition decode_pfcp_user_plane_inact_timer_ie_t (value : pfcp_user_plane_inact_timer_ie_t) : ie_decoder pfcp_user_plane_inact_timer_ie_t :=
  dec_bytes (
    header ← dcall decode_pfcp_ie_header_t;
    user_plane_inact_timer ← get 32;
    mret (mk_user_plane_inact_timer header user_plane_inact_timer)).

Definition decode_pfcp_multiplier_ie_t (value : pfcp_multiplier_ie_t) : ie_decoder pfcp_multiplier_ie_t :=
  dec_bytes (
    header ← dcall decode_pfcp_ie_header_t;
    value_digits ← get 64;
    exponent ← get 32;
    mret (mk_multiplier header value_digits exponent)).

Definition decode_pfcp_agg_urr_id_ie_t (value : pfcp_agg_urr_id_ie_t) : ie_decoder pfcp_agg_urr_id_ie_t :=
  dec_bytes (
    header ← dcall decode_pfcp_ie_header_t;
    urr_id_value ← get 32;
    mret (mk_agg_urr_id header urr_id_value)).

Definition decode_pfcp_sbsqnt_vol_quota_ie_t (value : pfcp_sbsqnt_vol_quota_ie_t) : ie_decoder pfcp_sbsqnt_vol_quota_ie_t :=
  dec_bytes (
    header ← dcall decode_pfcp_ie_header_t;
    sbsqnt_vol_quota_spare ← get 5;
    dlvol ← get 1;
    ulvol ← get 1;
    tovol ← get 1;
    total_volume ← get_stale (nz tovol) 64 64 value.(sbsqnt_vol_quota_total_volume);
    uplink_volume ← get_stale (nz ulvol) 64 64 value.(sbsqnt_vol_quota_uplink_volume);
    downlink_volume ← get_stale (nz dlvol) 64 64 value.(sbsqnt_vol_quota_downlink_volume);
    mret (mk_sbsqnt_vol_quota header sbsqnt_vol_quota_spare dlvol ulvol tovol total_volume uplink_volume downlink_volume)).

Definition decode_pfcp_sbsqnt_time_quota_ie_t (value : pfcp_sbsqnt_time_quota_ie_t) : ie_decoder pfcp_sbsqnt_time_quota_ie_t :=
  dec_bytes (
    header ← dcall decode_pfcp_ie_header_t;
    time_quota_val ← get 32;
    mret (mk_sbsqnt_time_quota header time_quota_val)).

Definition decode_pfcp_rqi_ie_t (value : pfcp_rqi_ie_t) : ie_decoder pfcp_rqi_ie_t :=
  dec_bytes (
    header ← dcall decode_pfcp_ie_header_t;
    rqi_spare ← get 7;
    rqi ← get 1;
    mret (mk_rqi header rqi_spare rqi)).

Definition decode_pfcp_qfi_ie_t (value : pfcp_qfi_ie_t) : ie_decoder pfcp_qfi_ie_t :=
  dec_bytes (
    header ← dcall decode_pfcp_ie_header_t;
    qfi_spare ← get 2;
    qfi_value ← get 6;
    mret (mk_qfi header qfi_spare qfi_value)).

Definition decode_pfcp_query_urr_ref_ie_t (value : pfcp_query_urr_ref_ie_t) : ie_decoder pfcp_query_urr_ref_ie_t :=
  dec_bytes (
    header ← dcall decode_pfcp_ie_header_t;
    query_urr_ref_val ← get 32;
    mret (mk_query_urr_ref header query_urr_ref_val)).

Definition decode_pfcp_add_usage_rpts_info_ie_t (value : pfcp_add_usage_rpts_info_ie_t) : ie_decoder pfcp_add_usage_rpts_info_ie_t :=
  dec_bytes (
    header ← dcall decode_pfcp_ie_header_t;
    auri ← get 1;
    nbr_of_add_usage_rpts_val ← get 7;
    nbr_of_add_usage_rpts_value2 ← get 8;
    mret (mk_add_usage_rpts_info header auri nbr_of_add_usage_rpts_val nbr_of_add_usage_rpts_value2)).

Definition decode_pfcp_traffic_endpt_id_ie_t (value : pfcp_traffic_endpt_id_ie_t) : ie_decoder pfcp_traffic_endpt_id_ie_t :=
  dec_bytes (
    header ← dcall decode_pfcp_ie_header_t;
    traffic_endpt_id_val ← get 8;
    mret (mk_traffic_endpt_id header traffic_endpt_id_val)).

Definition decode_pfcp_mac_address_ie_t (value : pfcp_mac_address_ie_t) : ie_decoder pfcp_mac_address_ie_t :=
  dec_bytes (
    header ← dcall decode_pfcp_ie_header_t;
    spare ← get 5;
    udes ← get 1;
    usou ← get 1;
    dest ← get 1;
    sour ← get 1;
    src_mac_addr_val ← get_stale (nz sour) 48 48 value.(mac_address_src_mac_addr_val);
    dst_mac_addr_val ← get_stale (nz dest) 48 48 value.(mac_address_dst_mac_addr_val);
    upr_src_mac_addr_val ← get_stale (nz usou) 48 48 value.(mac_address_upr_src_mac_addr_val);
    upr_dst_mac_addr_val ← get_stale (nz udes) 48 48 value.(mac_address_upr_dst_mac_addr_val);
    mret (mk_mac_address header spare udes usou dest sour src_mac_addr_val dst_mac_addr_val upr_src_mac_addr_val upr_dst_mac_addr_val)).

Definition decode_pfcp_ctag_ie_t (value : pfcp_ctag_ie_t) : ie_decoder pfcp_ctag_ie_t :=
  dec_bytes (
    header ← dcall decode_pfcp_ie_header_t;
    ctag_spare ← get 5;
    ctag_vid ← get 1;
    ctag_dei ← get 1;
    ctag_pcp ← get 1;
    cvid_value ← get 4;
    ctag_dei_flag ← get 1;
    ctag_pcp_value ← get 3;
    cvid_value2 ← get_stale (nz ctag_vid) 8 8 value.(ctag_cvid_value2);
    mret (mk_ctag header ctag_spare ctag_vid ctag_dei ctag_pcp cvid_value ctag_dei_flag ctag_pcp_value cvid_value2)).

Definition decode_pfcp_stag_ie_t (value : pfcp_stag_ie_t) : ie_decoder pfcp_stag_ie_t :=
  dec_bytes (
    header ← dcall decode_pfcp_ie_header_t;
    stag_spare ← get 5;
    stag_vid ← get 1;
    stag_dei ← get 1;
    stag_pcp ← get 1;
    svid_value ← get 4;
    stag_dei_flag ← get 1;
    stag_pcp_value ← get 3;
    svid_value2 ← get_stale (nz stag_vid) 8 8 value.(stag_svid_value2);
    mret (mk_stag header stag_spare stag_vid stag_dei stag_pcp svid_value stag_dei_flag stag_pcp_value svid_value2)).

Definition decode_pfcp_ethertype_ie_t (value : pfcp_ethertype_ie_t) : ie_decoder pfcp_ethertype_ie_t :=
  dec_bytes (
    header ← dcall decode_pfcp_ie_header_t;
    ethertype ← get 16;
    mret (mk_ethertype header ethertype)).

Definition decode_pfcp_proxying_ie_t (value : pfcp_proxying_ie_t) : ie_decoder pfcp_proxying_ie_t :=
  dec_bytes (
    header ← dcall decode_pfcp_ie_header_t;
    proxying_spare ← get 6;
    ins ← get 1;
    arp ← get 1;
    mret (mk_proxying header proxying_spare ins arp)).

Definition decode_pfcp_eth_fltr_id_ie_t (value : pfcp_eth_fltr_id_ie_t) : ie_decoder pfcp_eth_fltr_id_ie_t :=
  dec_bytes (
    header ← dcall decode_pfcp_ie_header_t;
    eth_fltr_id_val ← get 32;
    mret (mk_eth_fltr_id header eth_fltr_id_val)).

Definition decode_pfcp_eth_fltr_props_ie_t (value : pfcp_eth_fltr_props_ie_t) : ie_decoder pfcp_eth_fltr_props_ie_t :=
  dec_bytes (
    header ← dcall decode_pfcp_ie_header_t;
    eth_fltr_props_spare ← get 7;
    bide ← get 1;
    mret (mk_eth_fltr_props header eth_fltr_props_spare bide)).

Definition decode_pfcp_suggstd_buf_pckts_cnt_ie_t (value : pfcp_suggstd_buf_pckts_cnt_ie_t) : ie_decoder pfcp_suggstd_buf_pckts_cnt_ie_t :=
  dec_bytes (
    header ← dcall decode_pfcp_ie_header_t;
    pckt_cnt_val ← get 8;
    mret (mk_suggstd_buf_pckts_cnt header pckt_cnt_val)).

Definition decode_pfcp_eth_pdu_sess_info_ie_t (value : pfcp_eth_pdu_sess_info_ie_t) : ie_decoder pfcp_eth_pdu_sess_info_ie_t :=
  dec_bytes (
    header ← dcall decode_pfcp_ie_header_t;
    eth_pdu_sess_info_spare ← get 7;
    ethi ← get 1;
    mret (mk_eth_pdu_sess_info header eth_pdu_sess_info_spare ethi)).

Definition decode_pfcp_eth_inact_timer_ie_t (value : pfcp_eth_inact_timer_ie_t) : ie_decoder pfcp_eth_inact_timer_ie_t :=
  dec_bytes (
    header ← dcall decode_pfcp_ie_header_t;
    eth_inact_timer ← get 32;
    mret (mk_eth_inact_timer header eth_inact_timer)).

Definition decode_pfcp_sbsqnt_evnt_quota_ie_t (value : pfcp_sbsqnt_evnt_quota_ie_t) : ie_decoder pfcp_sbsqnt_evnt_quota_ie_t :=
  dec_bytes (
    header ← dcall decode_pfcp_ie_header_t;
    sbsqnt_evnt_quota ← get 32;
    mret (mk_sbsqnt_evnt_quota header sbsqnt_evnt_quota)).

Definition decode_pfcp_sbsqnt_evnt_thresh_ie_t (value : pfcp_sbsqnt_evnt_thresh_ie_t) : ie_decoder pfcp_sbsqnt_evnt_thresh_ie_t :=
  dec_bytes (
    header ← dcall decode_pfcp_ie_header_t;
    sbsqnt_evnt_thresh ← get 32;
    mret (mk_sbsqnt_evnt_thresh header sbsqnt_evnt_thresh)).

Definition decode_pfcp_trc_info_ie_t (value : pfcp_trc_info_ie_t) : ie_decoder pfcp_trc_info_ie_t :=
  dec_bytes (
    header ← dcall decode_pfcp_ie_header_t;
    mcc_digit_2 ← get 4;
    mcc_digit_1 ← get 4;
    mnc_digit_3 ← get 4;
    mcc_digit_3 ← get 4;
    mnc_digit_2 ← get 4;
    mnc_digit_1 ← get 4;
    trace_id ← get 24;
    len_of_trigrng_evnts ← get 8;
    trigrng_evnts ← get 8;
    sess_trc_depth ← get 8;
    len_of_list_of_intfcs ← get 8;
    list_of_intfcs ← get 8;
    len_of_ip_addr_of_trc_coll_ent ← get 8;
    ip_addr_of_trc_coll_ent ← get 8;
    mret (mk_trc_info header mcc_digit_2 mcc_digit_1 mnc_digit_3 mcc_digit_3 mnc_digit_2 mnc_digit_1 trace_id len_of_trigrng_evnts trigrng_evnts sess_trc_depth len_of_list_of_intfcs list_of_intfcs len_of_ip_addr_of_trc_coll_ent ip_addr_of_trc_coll_ent)).

Definition decode_pfcp_framed_route_ie_t (value : pfcp_framed_route_ie_t) : ie_decoder pfcp_framed_route_ie_t :=
  dec_bytes (
    header ← dcall decode_pfcp_ie_header_t;
    framed_route ← get 8;
    mret (mk_framed_route header framed_route)).

Definition decode_pfcp_framed_routing_ie_t (value : pfcp_framed_routing_ie_t) : ie_decoder pfcp_framed_routing_ie_t :=
  dec_bytes (
    header ← dcall decode_pfcp_ie_header_t;
    framed_routing ← get 32;
    mret (mk_framed_routing header framed_routing)).

Definition decode_pfcp_frmd_ipv6_route_ie_t (value : pfcp_frmd_ipv6_route_ie_t) : ie_decoder pfcp_frmd_ipv6_route_ie_t :=
  dec_bytes (
    header ← dcall decode_pfcp_ie_header_t;
    frmd_ipv6_rte ← get 8;
    mret (mk_frmd_ipv6_route header frmd_ipv6_rte)).

Definition decode_pfcp_event_quota_ie_t (value : pfcp_event_quota_ie_t) : ie_decoder pfcp_event_quota_ie_t :=
  dec_bytes (
    header ← dcall decode_pfcp_ie_header_t;
    sbsqnt_evnt_quota ← get 32;
    mret (mk_event_quota header sbsqnt_evnt_quota)).

Definition decode_pfcp_event_threshold_ie_t (value : pfcp_event_threshold_ie_t) : ie_decoder pfcp_event_threshold_ie_t :=
  dec_bytes (
    header ← dcall decode_pfcp_ie_header_t;
    event_threshold ← get 32;
    mret (mk_event_threshold header event_threshold)).

Definition decode_pfcp_evnt_time_stmp_ie_t (value : pfcp_evnt_time_stmp_ie_t) : ie_decoder pfcp_evnt_time_stmp_ie_t :=
  dec_bytes (
    header ← dcall decode_pfcp_ie_header_t;
    evnt_time_stmp ← get 32;
    mret (mk_evnt_time_stmp header evnt_time_stmp)).

Definition decode_pfcp_avgng_wnd_ie_t (value : pfcp_avgng_wnd_ie_t) : ie_decoder pfcp_avgng_wnd_ie_t :=
  dec_bytes (
    header ← dcall decode_pfcp_ie_header_t;
    avgng_wnd ← get 32;
    mret (mk_avgng_wnd header avgng_wnd)).

Definition decode_pfcp_paging_plcy_indctr_ie_t (value : pfcp_paging_plcy_indctr_ie_t) : ie_decoder pfcp_paging_plcy_indctr_ie_t :=
  dec_bytes (
    header ← dcall decode_pfcp_ie_header_t;
    paging_plcy_indctr_spare ← get 5;
    ppi_value ← get 3;
    mret (mk_paging_plcy_indctr header paging_plcy_indctr_spare ppi_value)).

(** ** Information elements with variable parts *)

Definition decode_pfcp_up_func_feat_ie_t (value : pfcp_up_func_feat_ie_t)
    : ie_decoder pfcp_up_func_feat_ie_t :=
  dec_bytes (
    header ← dcall decode_pfcp_ie_header_t;
    sup_feat ← get 16;
    t ← total_now;
    add_sup_feat1 ← dec_when (t / 8 <? header.(ie_len) + 4) (get 16) value.(up_func_feat_add_sup_feat1);
    t ← total_now;
    add_sup_feat2 ← dec_when (t / 8 <? header.(ie_len) + 4) (get 16) value.(up_func_feat_add_sup_feat2);
    mret (mk_up_func_feat header sup_feat add_sup_feat1 add_sup_feat2)).

(** The length of the copy is taken from the header and not checked against the
    size of the member. *)
Definition decode_pfcp_node_id_ie_t (value : pfcp_node_id_ie_t) : ie_decoder pfcp_node_id_ie_t :=
  dec_bytes (
    header ← dcall decode_pfcp_ie_header_t;
    node_id_spare ← get 4;
    node_id_type ← get 4;
    node_id_value ← getmem_into value.(node_id_value) (header.(ie_len) - 1);
    mret (mk_node_id header node_id_spare node_id_type node_id_value)).

Definition decode_pfcp_failed_rule_id_ie_t (value : pfcp_failed_rule_id_ie_t)
    : ie_decoder pfcp_failed_rule_id_ie_t :=
  dec_bytes (
    header ← dcall decode_pfcp_ie_header_t;
    spare ← get 3;
    rule_id_type ← get 5;
    let rule_id_value := value.(failed_rule_id_rule_id_value) in
    rule_id_value ←
      (if rule_id_type =? 0 then getmem_into rule_id_value 2
       else if rule_id_type =? 2 then getmem_into rule_id_value 4
       else if rule_id_type =? 3 then getmem_into rule_id_value 4
       else if rule_id_type =? 4 then getmem_into rule_id_value 1
       else getmem_into rule_id_value 4);
    mret (mk_failed_rule_id header spare rule_id_type rule_id_value)).

(** The 8 bytes copied are the first element of the array of 64-bit numbers. *)
Definition decode_pfcp_mac_addrs_rmvd_ie_t (value : pfcp_mac_addrs_rmvd_ie_t)
    : ie_decoder pfcp_mac_addrs_rmvd_ie_t :=
  dec_bytes (
    header ← dcall decode_pfcp_ie_header_t;
    nbr_of_mac_addrs ← get 8;
    l ← getmem MAC_ADDR_VAL_LEN;
    mret (mk_mac_addrs_rmvd header nbr_of_mac_addrs
            (<[0%nat := of_le_bytes l]> value.(mac_addrs_rmvd_mac_addr_val)))).

Definition decode_pfcp_mac_addrs_detctd_ie_t (value : pfcp_mac_addrs_detctd_ie_t)
    : ie_decoder pfcp_mac_addrs_detctd_ie_t :=
  dec_bytes (
    header ← dcall decode_pfcp_ie_header_t;
    nbr_of_mac_addrs ← get 8;
    l ← getmem MAC_ADDR_VAL_LEN;
    mret (mk_mac_addrs_detctd header nbr_of_mac_addrs
            (<[0%nat := of_le_bytes l]> value.(mac_addrs_detctd_mac_addr_val)))).

Definition decode_pfcp_application_id_ie_t (value : pfcp_application_id_ie_t)
    : ie_decoder pfcp_application_id_ie_t :=
  dec_bytes (
    header ← dcall decode_pfcp_ie_header_t;
    app_ident ← getmem 8;
    mret (mk_application_id header app_ident)).

Definition decode_pfcp_ntwk_inst_ie_t (value : pfcp_ntwk_inst_ie_t) : ie_decoder pfcp_ntwk_inst_ie_t :=
  dec_bytes (
    header ← dcall decode_pfcp_ie_header_t;
    ntwk_inst ← getmem 32;
    mret (mk_ntwk_inst header ntwk_inst)).

Definition decode_pfcp_user_plane_ip_rsrc_info_ie_t (value : pfcp_user_plane_ip_rsrc_info_ie_t)
    : ie_decoder pfcp_user_plane_ip_rsrc_info_ie_t :=
  dec_bytes (
    header ← dcall decode_pfcp_ie_header_t;
    spare ← get 1;
    assosi ← get 1;
    assoni ← get 1;
    teidri ← get 3;
    v6 ← get 1;
    v4 ← get 1;
    teid_range ← dec_when (nz teidri) (get 8) value.(user_plane_ip_rsrc_info_teid_range);
    ipv4_address ← get_when (nz v4) 32 32 value.(user_plane_ip_rsrc_info_ipv4_address);
    ipv6_address ← dec_when (nz v6) (getmem 16) value.(user_plane_ip_rsrc_info_ipv6_address);
    ntwk_inst ←
      dec_when (nz assoni)
        (x ← get 8;
         let ntwk_inst := u8 (value.(user_plane_ip_rsrc_info_ntwk_inst) + x) in
         _ ← set_decoded (8 * ntwk_inst);
         _ ← bump;
         mret ntwk_inst)
        value.(user_plane_ip_rsrc_info_ntwk_inst);
    spare2 ← get 4;
    src_intfc ← get_when (nz assosi) 4 4 value.(user_plane_ip_rsrc_info_src_intfc);
    mret (mk_user_plane_ip_rsrc_info header spare assosi assoni teidri v6 v4 teid_range
            ipv4_address ipv6_address ntwk_inst spare2 src_intfc)).

Definition decode_pfcp_actvt_predef_rules_ie_t (value : pfcp_actvt_predef_rules_ie_t)
    : ie_decoder pfcp_actvt_predef_rules_ie_t :=
  dec_bytes (
    header ← dcall decode_pfcp_ie_header_t;
    predef_rules_nm ← getmem_into value.(actvt_predef_rules_predef_rules_nm) 8;
    mret (mk_actvt_predef_rules header predef_rules_nm)).

Definition decode_pfcp_sdf_filter_ie_t (value : pfcp_sdf_filter_ie_t) : ie_decoder pfcp_sdf_filter_ie_t :=
  dec_bytes (
    header ← dcall decode_pfcp_ie_header_t;
    sdf_fltr_spare ← get 3;
    bid ← get 1;
    fl ← get 1;
    spi ← get 1;
    ttc ← get 1;
    fd ← get 1;
    sdf_fltr_spare2 ← get 8;
    len_of_flow_desc ← get_when (nz fd) 16 16 value.(sdf_filter_len_of_flow_desc);
    flow_desc ← dec_when (nz fd) (getmem_into value.(sdf_filter_flow_desc) len_of_flow_desc)
                  value.(sdf_filter_flow_desc);
    tos_traffic_cls ← get_when (nz ttc) 16 16 value.(sdf_filter_tos_traffic_cls);
    secur_parm_idx ← get_when (nz spi) 32 32 value.(sdf_filter_secur_parm_idx);
    flow_label ← get_when (nz fl) 24 24 value.(sdf_filter_flow_label);
    sdf_filter_id ← get_when (nz bid) 32 32 value.(sdf_filter_id);
    mret (mk_sdf_filter header sdf_fltr_spare bid fl spi ttc fd sdf_fltr_spare2 len_of_flow_desc
            flow_desc tos_traffic_cls secur_parm_idx flow_label sdf_filter_id)).

Definition decode_pfcp_fqcsid_ie_t (value : pfcp_fqcsid_ie_t) : ie_decoder pfcp_fqcsid_ie_t :=
  dec_bytes (
    header ← dcall decode_pfcp_ie_header_t;
    fqcsid_node_id_type ← get 4;
    number_of_csids ← get 4;
    node_address ← get 32;
    pdn_conn_set_ident ← get_each (Z.to_nat number_of_csids) 0 16 value.(fqcsid_pdn_conn_set_ident);
    mret (mk_fqcsid header fqcsid_node_id_type number_of_csids node_address pdn_conn_set_ident)).

(** [cstm_pfd_cntnt] is a block of the decoded length allocated by the decoder. *)
Definition decode_pfcp_pfd_contents_ie_t (value : pfcp_pfd_contents_ie_t)
    : ie_decoder pfcp_pfd_contents_ie_t :=
  dec_bytes (
    header ← dcall decode_pfcp_ie_header_t;
    pfd_contents_spare ← get 4;
    cp ← get 1;
    dn ← get 1;
    url ← get 1;
    fd ← get 1;
    len_of_flow_desc ← get_stale (nz fd) 16 16 value.(pfd_contents_len_of_flow_desc);
    flow_desc ← get_stale (nz fd) 8 8 value.(pfd_contents_flow_desc);
    length_of_url ← get_stale (nz url) 16 16 value.(pfd_contents_length_of_url);
    url2 ← get_stale (nz url) 8 8 value.(pfd_contents_url2);
    len_of_domain_nm ← get_stale (nz dn) 16 16 value.(pfd_contents_len_of_domain_nm);
    domain_name ← get_stale (nz dn) 8 8 value.(pfd_contents_domain_name);
    '(len_of_cstm_pfd_cntnt, cstm_pfd_cntnt) ←
      dec_when (nz cp)
        (x ← get 16;
         let len := u16 (value.(pfd_contents_len_of_cstm_pfd_cntnt) + x) in
         l ← getmem len;
         mret (len, l))
        (value.(pfd_contents_len_of_cstm_pfd_cntnt), value.(pfd_contents_cstm_pfd_cntnt));
    mret (mk_pfd_contents header pfd_contents_spare cp dn url fd value.(pfd_contents_spare2)
            len_of_flow_desc flow_desc length_of_url url2 len_of_domain_nm domain_name
            len_of_cstm_pfd_cntnt cstm_pfd_cntnt)).

(** The four optional parts: a length byte and that many bytes. *)
Definition decode_user_id_part (c : bool) (old_len : Z) (arr : list Z) : dec (Z * list Z) :=
  dec_when c (len ← get 8; l ← getmem_into arr len; mret (len, l)) (old_len, arr).

Definition decode_pfcp_user_id_ie_t (value : pfcp_user_id_ie_t) : ie_decoder pfcp_user_id_ie_t :=
  dec_bytes (
    header ← dcall decode_pfcp_ie_header_t;
    user_id_spare ← get 4;
    naif ← get 1;
    msisdnf ← get 1;
    imeif ← get 1;
    imsif ← get 1;
    '(length_of_imsi, imsi) ←
      decode_user_id_part (imsif =? 1) value.(user_id_length_of_imsi) value.(user_id_imsi);
    '(length_of_imei, imei) ←
      decode_user_id_part (imeif =? 1) value.(user_id_length_of_imei) value.(user_id_imei);
    '(len_of_msisdn, msisdn) ←
      decode_user_id_part (msisdnf =? 1) value.(user_id_len_of_msisdn) value.(user_id_msisdn);
    '(length_of_nai, nai) ←
      decode_user_id_part (naif =? 1) value.(user_id_length_of_nai) value.(user_id_nai);
    mret (mk_user_id header user_id_spare naif msisdnf imeif imsif length_of_imsi imsi
            length_of_imei imei len_of_msisdn msisdn length_of_nai nai)).
