(* ===== verification/PfcpIesSpec.v ===== *)
(** * Wire layouts of the PFCP information elements

    For each information element of the regular form: the layout its encoder
    and its decoder agree on, and the proofs that they do, as an instance of
    the codec interface [IeCodecOk]. *)

From S2P Require Import Prelude EncDecBits Codec CodecSpec PfcpIes PfcpIesEncoder PfcpIesDecoder.

(** ** Automation *)

Definition layout_ie_header (h : pfcp_ie_header_t) : layout := [(16, h.(ie_type)); (16, h.(ie_len))].

Lemma encode_ie_header_encodes h : encodes (encode_pfcp_ie_header_t h) (layout_ie_header h) 32.
Proof.
  change 32 with (size (layout_ie_header h) / 1). apply encodes_bits.
  eapply emits_put; [lia|reflexivity|]. apply emits_put1; lia.
Qed.

Lemma decode_ie_header_decodes h :
  layout_ok (layout_ie_header h) -> decodes decode_pfcp_ie_header_t (layout_ie_header h) 32 h.
Proof.
  intros Hok. apply Forall_cons_1 in Hok as [Ht Hok]. apply Forall_cons_1 in Hok as [Hl _].
  intros buf post Hh Hs. change 32 with (size (layout_ie_header h)).
  apply (dec_bits_reads _ _ _ _ post); auto. destruct h as [t l].
  eapply reads_get; [lia|exact Ht|reflexivity|]. eapply reads_get; [lia|exact Hl|reflexivity|].
  apply reads_ret.
Qed.

Lemma emits_ie_header h m L : emits 0 m L ->
  emits 0 (ecall (encode_pfcp_ie_header_t h) ⨾ m) (layout_ie_header h ++ L).
Proof.
  apply emits_ecall; [|reflexivity]. apply encode_ie_header_encodes.
Qed.

Lemma reads_ie_header {A} h (k : pfcp_ie_header_t -> dec A) L y :
  layout_ok (layout_ie_header h) -> reads 0 (k h) L y ->
  reads 0 (dcall decode_pfcp_ie_header_t ≫= k) (layout_ie_header h ++ L) y.
Proof.
  intros Hok H. eapply reads_dcall; [|reflexivity|exact H].
  intros buf post Hh Hs. exact (decode_ie_header_decodes h Hok buf post Hh Hs).
Qed.

Ltac solve_encodes :=
  intros; first [apply encodes_bytes | apply encodes_bits];
  apply emits_ie_header; repeat emit_step.
Ltac solve_decodes :=
  intros v v0 H; destruct v; apply layout_ok_app in H as [Hh H];
  apply decodes_bytes, reads_ie_header; [exact Hh|]; cbn in H; repeat read_step H.

(** ** The information elements *)

Definition layout_cause (v : pfcp_cause_ie_t) : layout :=
  layout_ie_header v.(cause_header) ++ [(8, v.(cause_value))].
#[global] Instance cause_codec : IeCodec pfcp_cause_ie_t :=
  {| ie_encode := encode_pfcp_cause_ie_t; ie_decode := decode_pfcp_cause_ie_t;
     ie_zero := zero_cause; ie_layout := layout_cause; ie_unit := 8 |}.
#[global] Instance cause_codec_ok : IeCodecOk pfcp_cause_ie_t.
Proof. split; [solve_encodes|solve_decodes]. Qed.

Definition layout_src_intfc (v : pfcp_src_intfc_ie_t) : layout :=
  layout_ie_header v.(src_intfc_header) ++ [(4, v.(src_intfc_spare)); (4, v.(src_intfc_interface_value))].
#[global] Instance src_intfc_codec : IeCodec pfcp_src_intfc_ie_t :=
  {| ie_encode := encode_pfcp_src_intfc_ie_t; ie_decode := decode_pfcp_src_intfc_ie_t;
     ie_zero := zero_src_intfc; ie_layout := layout_src_intfc; ie_unit := 1 |}.
#[global] Instance src_intfc_codec_ok : IeCodecOk pfcp_src_intfc_ie_t.
Proof. split; [solve_encodes|solve_decodes]. Qed.

Definition layout_gate_status (v : pfcp_gate_status_ie_t) : layout :=
  layout_ie_header v.(gate_status_header) ++ [(4, v.(gate_status_spare)); (2, v.(gate_status_ul_gate)); (2, v.(gate_status_dl_gate))].
#[global] Instance gate_status_codec : IeCodec pfcp_gate_status_ie_t :=
  {| ie_encode := encode_pfcp_gate_status_ie_t; ie_decode := decode_pfcp_gate_status_ie_t;
     ie_zero := zero_gate_status; ie_layout := layout_gate_status; ie_unit := 1 |}.
#[global] Instance gate_status_codec_ok : IeCodecOk pfcp_gate_status_ie_t.
Proof. split; [solve_encodes|solve_decodes]. Qed.

Definition layout_mbr (v : pfcp_mbr_ie_t) : layout :=
  layout_ie_header v.(mbr_header) ++ [(40, v.(mbr_ul_mbr)); (40, v.(mbr_dl_mbr))].
#[global] Instance mbr_codec : IeCodec pfcp_mbr_ie_t :=
  {| ie_encode := encode_pfcp_mbr_ie_t; ie_decode := decode_pfcp_mbr_ie_t;
     ie_zero := zero_mbr; ie_layout := layout_mbr; ie_unit := 1 |}.
#[global] Instance mbr_codec_ok : IeCodecOk pfcp_mbr_ie_t.
Proof. split; [solve_encodes|solve_decodes]. Qed.

Definition layout_gbr (v : pfcp_gbr_ie_t) : layout :=
  layout_ie_header v.(gbr_header) ++ [(40, v.(gbr_ul_gbr)); (40, v.(gbr_dl_gbr))].
#[global] Instance gbr_codec : IeCodec pfcp_gbr_ie_t :=
  {| ie_encode := encode_pfcp_gbr_ie_t; ie_decode := decode_pfcp_gbr_ie_t;
     ie_zero := zero_gbr; ie_layout := layout_gbr; ie_unit := 1 |}.
#[global] Instance gbr_codec_ok : IeCodecOk pfcp_gbr_ie_t.
Proof. split; [solve_encodes|solve_decodes]. Qed.

Definition layout_qer_corr_id (v : pfcp_qer_corr_id_ie_t) : layout :=
  layout_ie_header v.(qer_corr_id_header) ++ [(32, v.(qer_corr_id_val))].
#[global] Instance qer_corr_id_codec : IeCodec pfcp_qer_corr_id_ie_t :=
  {| ie_encode := encode_pfcp_qer_corr_id_ie_t; ie_decode := decode_pfcp_qer_corr_id_ie_t;
     ie_zero := zero_qer_corr_id; ie_layout := layout_qer_corr_id; ie_unit := 1 |}.
#[global] Instance qer_corr_id_codec_ok : IeCodecOk pfcp_qer_corr_id_ie_t.
Proof. split; [solve_encodes|solve_decodes]. Qed.

Definition layout_precedence (v : pfcp_precedence_ie_t) : layout :=
  layout_ie_header v.(precedence_header) ++ [(32, v.(precedence_prcdnc_val))].
#[global] Instance precedence_codec : IeCodec pfcp_precedence_ie_t :=
  {| ie_encode := encode_pfcp_precedence_ie_t; ie_decode := decode_pfcp_precedence_ie_t;
     ie_zero := zero_precedence; ie_layout := layout_precedence; ie_unit := 1 |}.
#[global] Instance precedence_codec_ok : IeCodecOk pfcp_precedence_ie_t.
Proof. split; [solve_encodes|solve_decodes]. Qed.

Definition layout_trnspt_lvl_marking (v : pfcp_trnspt_lvl_marking_ie_t) : layout :=
  layout_ie_header v.(trnspt_lvl_marking_header) ++ [(16, v.(trnspt_lvl_marking_tostraffic_cls))].
#[global] Instance trnspt_lvl_marking_codec : IeCodec pfcp_trnspt_lvl_marking_ie_t :=
  {| ie_encode := encode_pfcp_trnspt_lvl_marking_ie_t; ie_decode := decode_pfcp_trnspt_lvl_marking_ie_t;
     ie_zero := zero_trnspt_lvl_marking; ie_layout := layout_trnspt_lvl_marking; ie_unit := 8 |}.
#[global] Instance trnspt_lvl_marking_codec_ok : IeCodecOk pfcp_trnspt_lvl_marking_ie_t.
Proof. split; [solve_encodes|solve_decodes]. Qed.

Definition layout_time_threshold (v : pfcp_time_threshold_ie_t) : layout :=
  layout_ie_header v.(time_threshold_header) ++ [(32, v.(time_threshold_time_threshold))].
#[global] Instance time_threshold_codec : IeCodec pfcp_time_threshold_ie_t :=
  {| ie_encode := encode_pfcp_time_threshold_ie_t; ie_decode := decode_pfcp_time_threshold_ie_t;
     ie_zero := zero_time_threshold; ie_layout := layout_time_threshold; ie_unit := 1 |}.
#[global] Instance time_threshold_codec_ok : IeCodecOk pfcp_time_threshold_ie_t.
Proof. split; [solve_encodes|solve_decodes]. Qed.

Definition layout_monitoring_time (v : pfcp_monitoring_time_ie_t) : layout :=
  layout_ie_header v.(monitoring_time_header) ++ [(32, v.(monitoring_time_monitoring_time))].
#[global] Instance monitoring_time_codec : IeCodec pfcp_monitoring_time_ie_t :=
  {| ie_encode := encode_pfcp_monitoring_time_ie_t; ie_decode := decode_pfcp_monitoring_time_ie_t;
     ie_zero := zero_monitoring_time; ie_layout := layout_monitoring_time; ie_unit := 1 |}.
#[global] Instance monitoring_time_codec_ok : IeCodecOk pfcp_monitoring_time_ie_t.
Proof. split; [solve_encodes|solve_decodes]. Qed.

Definition layout_sbsqnt_time_thresh (v : pfcp_sbsqnt_time_thresh_ie_t) : layout :=
  layout_ie_header v.(sbsqnt_time_thresh_header) ++ [(32, v.(sbsqnt_time_thresh_sbsqnt_time_thresh))].
#[global] Instance sbsqnt_time_thresh_codec : IeCodec pfcp_sbsqnt_time_thresh_ie_t :=
  {| ie_encode := encode_pfcp_sbsqnt_time_thresh_ie_t; ie_decode := decode_pfcp_sbsqnt_time_thresh_ie_t;
     ie_zero := zero_sbsqnt_time_thresh; ie_layout := layout_sbsqnt_time_thresh; ie_unit := 1 |}.
#[global] Instance sbsqnt_time_thresh_codec_ok : IeCodecOk pfcp_sbsqnt_time_thresh_ie_t.
Proof. split; [solve_encodes|solve_decodes]. Qed.

Definition layout_inact_det_time (v : pfcp_inact_det_time_ie_t) : layout :=
  layout_ie_header v.(inact_det_time_header) ++ [(32, v.(inact_det_time_inact_det_time))].
#[global] Instance inact_det_time_codec : IeCodec pfcp_inact_det_time_ie_t :=
  {| ie_encode := encode_pfcp_inact_det_time_ie_t; ie_decode := decode_pfcp_inact_det_time_ie_t;
     ie_zero := zero_inact_det_time; ie_layout := layout_inact_det_time; ie_unit := 1 |}.
#[global] Instance inact_det_time_codec_ok : IeCodecOk pfcp_inact_det_time_ie_t.
Proof. split; [solve_encodes|solve_decodes]. Qed.

Definition layout_rptng_triggers (v : pfcp_rptng_triggers_ie_t) : layout :=
  layout_ie_header v.(rptng_triggers_header) ++ [(1, v.(rptng_triggers_liusa)); (1, v.(rptng_triggers_droth)); (1, v.(rptng_triggers_stopt)); (1, v.(rptng_triggers_start)); (1, v.(rptng_triggers_quhti)); (1, v.(rptng_triggers_timth)); (1, v.(rptng_triggers_volth)); (1, v.(rptng_triggers_perio)); (1, v.(rptng_triggers_spare)); (1, v.(rptng_triggers_spare2)); (1, v.(rptng_triggers_evequ)); (1, v.(rptng_triggers_eveth)); (1, v.(rptng_triggers_macar)); (1, v.(rptng_triggers_envcl)); (1, v.(rptng_triggers_timqu)); (1, v.(rptng_triggers_volqu))].
#[global] Instance rptng_triggers_codec : IeCodec pfcp_rptng_triggers_ie_t :=
  {| ie_encode := encode_pfcp_rptng_triggers_ie_t; ie_decode := decode_pfcp_rptng_triggers_ie_t;
     ie_zero := zero_rptng_triggers; ie_layout := layout_rptng_triggers; ie_unit := 1 |}.
#[global] Instance rptng_triggers_codec_ok : IeCodecOk pfcp_rptng_triggers_ie_t.
Proof. split; [solve_encodes|solve_decodes]. Qed.

Definition layout_redir_info (v : pfcp_redir_info_ie_t) : layout :=
  layout_ie_header v.(redir_info_header) ++ [(4, v.(redir_info_spare)); (4, v.(redir_info_redir_addr_type)); (8, v.(redir_info_redir_svr_addr_len)); (8, v.(redir_info_redir_svr_addr))].
#[global] Instance redir_info_codec : IeCodec pfcp_redir_info_ie_t :=
  {| ie_encode := encode_pfcp_redir_info_ie_t; ie_decode := decode_pfcp_redir_info_ie_t;
     ie_zero := zero_redir_info; ie_layout := layout_redir_info; ie_unit := 8 |}.
#[global] Instance redir_info_codec_ok : IeCodecOk pfcp_redir_info_ie_t.
Proof. split; [solve_encodes|solve_decodes]. Qed.

Definition layout_report_type (v : pfcp_report_type_ie_t) : layout :=
  layout_ie_header v.(report_type_header) ++ [(4, v.(report_type_rpt_type_spare)); (1, v.(report_type_upir)); (1, v.(report_type_erir)); (1, v.(report_type_usar)); (1, v.(report_type_dldr))].
#[global] Instance report_type_codec : IeCodec pfcp_report_type_ie_t :=
  {| ie_encode := encode_pfcp_report_type_ie_t; ie_decode := decode_pfcp_report_type_ie_t;
     ie_zero := zero_report_type; ie_layout := layout_report_type; ie_unit := 8 |}.
#[global] Instance report_type_codec_ok : IeCodecOk pfcp_report_type_ie_t.
Proof. split; [solve_encodes|solve_decodes]. Qed.

Definition layout_offending_ie (v : pfcp_offending_ie_ie_t) : layout :=
  layout_ie_header v.(offending_ie_header) ++ [(16, v.(offending_ie_type_of_the_offending_ie))].
#[global] Instance offending_ie_codec : IeCodec pfcp_offending_ie_ie_t :=
  {| ie_encode := encode_pfcp_offending_ie_ie_t; ie_decode := decode_pfcp_offending_ie_ie_t;
     ie_zero := zero_offending_ie; ie_layout := layout_offending_ie; ie_unit := 8 |}.
#[global] Instance offending_ie_codec_ok : IeCodecOk pfcp_offending_ie_ie_t.
Proof. split; [solve_encodes|solve_decodes]. Qed.

Definition layout_frwdng_plcy (v : pfcp_frwdng_plcy_ie_t) : layout :=
  layout_ie_header v.(frwdng_plcy_header) ++ [(8, v.(frwdng_plcy_ident_len)); (8, v.(frwdng_plcy_ident))].
#[global] Instance frwdng_plcy_codec : IeCodec pfcp_frwdng_plcy_ie_t :=
  {| ie_encode := encode_pfcp_frwdng_plcy_ie_t; ie_decode := decode_pfcp_frwdng_plcy_ie_t;
     ie_zero := zero_frwdng_plcy; ie_layout := layout_frwdng_plcy; ie_unit := 8 |}.
#[global] Instance frwdng_plcy_codec_ok : IeCodecOk pfcp_frwdng_plcy_ie_t.
Proof. split; [solve_encodes|solve_decodes]. Qed.

Definition layout_dst_intfc (v : pfcp_dst_intfc_ie_t) : layout :=
  layout_ie_header v.(dst_intfc_header) ++ [(4, v.(dst_intfc_spare)); (4, v.(dst_intfc_interface_value))].
#[global] Instance dst_intfc_codec : IeCodec pfcp_dst_intfc_ie_t :=
  {| ie_encode := encode_pfcp_dst_intfc_ie_t; ie_decode := decode_pfcp_dst_intfc_ie_t;
     ie_zero := zero_dst_intfc; ie_layout := layout_dst_intfc; ie_unit := 1 |}.
#[global] Instance dst_intfc_codec_ok : IeCodecOk pfcp_dst_intfc_ie_t.
Proof. split; [solve_encodes|solve_decodes]. Qed.

Definition layout_apply_action (v : pfcp_apply_action_ie_t) : layout :=
  layout_ie_header v.(apply_action_header) ++ [(1, v.(apply_action_apply_act_spare)); (1, v.(apply_action_apply_act_spare2)); (1, v.(apply_action_apply_act_spare3)); (1, v.(apply_action_dupl)); (1, v.(apply_action_nocp)); (1, v.(apply_action_buff)); (1, v.(apply_action_forw)); (1, v.(apply_action_drop))].
#[global] Instance apply_action_codec : IeCodec pfcp_apply_action_ie_t :=
  {| ie_encode := encode_pfcp_apply_action_ie_t; ie_decode := decode_pfcp_apply_action_ie_t;
     ie_zero := zero_apply_action; ie_layout := layout_apply_action; ie_unit := 1 |}.
#[global] Instance apply_action_codec_ok : IeCodecOk pfcp_apply_action_ie_t.
Proof. split; [solve_encodes|solve_decodes]. Qed.

Definition layout_dnlnk_data_svc_info (v : pfcp_dnlnk_data_svc_info_ie_t) : layout :=
  layout_ie_header v.(dnlnk_data_svc_info_header) ++ [(6, v.(dnlnk_data_svc_info_spare)); (1, v.(dnlnk_data_svc_info_qfii)); (1, v.(dnlnk_data_svc_info_ppi)); (2, v.(dnlnk_data_svc_info_spare2)); (6, v.(dnlnk_data_svc_info_paging_plcy_indctn_val)); (2, v.(dnlnk_data_svc_info_spare3)); (6, v.(dnlnk_data_svc_info_qfi))].
#[global] Instance dnlnk_data_svc_info_codec : IeCodec pfcp_dnlnk_data_svc_info_ie_t :=
  {| ie_encode := encode_pfcp_dnlnk_data_svc_info_ie_t; ie_decode := decode_pfcp_dnlnk_data_svc_info_ie_t;
     ie_zero := zero_dnlnk_data_svc_info; ie_layout := layout_dnlnk_data_svc_info; ie_unit := 1 |}.
#[global] Instance dnlnk_data_svc_info_codec_ok : IeCodecOk pfcp_dnlnk_data_svc_info_ie_t.
Proof. split; [solve_encodes|solve_decodes]. Qed.

Definition layout_dnlnk_data_notif_delay (v : pfcp_dnlnk_data_notif_delay_ie_t) : layout :=
  layout_ie_header v.(dnlnk_data_notif_delay_header) ++ [(8, v.(dnlnk_data_notif_delay_delay_val_in_integer_multiples_of_50_millisecs_or_zero))].
#[global] Instance dnlnk_data_notif_delay_codec : IeCodec pfcp_dnlnk_data_notif_delay_ie_t :=
  {| ie_encode := encode_pfcp_dnlnk_data_notif_delay_ie_t; ie_decode := decode_pfcp_dnlnk_data_notif_delay_ie_t;
     ie_zero := zero_dnlnk_data_notif_delay; ie_layout := layout_dnlnk_data_notif_delay; ie_unit := 1 |}.
#[global] Instance dnlnk_data_notif_delay_codec_ok : IeCodecOk pfcp_dnlnk_data_notif_delay_ie_t.
Proof. split; [solve_encodes|solve_decodes]. Qed.

Definition layout_dl_buf_dur (v : pfcp_dl_buf_dur_ie_t) : layout :=
  layout_ie_header v.(dl_buf_dur_header) ++ [(3, v.(dl_buf_dur_timer_unit)); (5, v.(dl_buf_dur_timer_value))].
#[global] Instance dl_buf_dur_codec : IeCodec pfcp_dl_buf_dur_ie_t :=
  {| ie_encode := encode_pfcp_dl_buf_dur_ie_t; ie_decode := decode_pfcp_dl_buf_dur_ie_t;
     ie_zero := zero_dl_buf_dur; ie_layout := layout_dl_buf_dur; ie_unit := 8 |}.
#[global] Instance dl_buf_dur_codec_ok : IeCodecOk pfcp_dl_buf_dur_ie_t.
Proof. split; [solve_encodes|solve_decodes]. Qed.

Definition layout_dl_buf_suggstd_pckt_cnt (v : pfcp_dl_buf_suggstd_pckt_cnt_ie_t) : layout :=
  layout_ie_header v.(dl_buf_suggstd_pckt_cnt_header) ++ [(8, v.(dl_buf_suggstd_pckt_cnt_pckt_cnt_val))].
#[global] Instance dl_buf_suggstd_pckt_cnt_codec : IeCodec pfcp_dl_buf_suggstd_pckt_cnt_ie_t :=
  {| ie_encode := encode_pfcp_dl_buf_suggstd_pckt_cnt_ie_t; ie_decode := decode_pfcp_dl_buf_suggstd_pckt_cnt_ie_t;
     ie_zero := zero_dl_buf_suggstd_pckt_cnt; ie_layout := layout_dl_buf_suggstd_pckt_cnt; ie_unit := 8 |}.
#[global] Instance dl_buf_suggstd_pckt_cnt_codec_ok : IeCodecOk pfcp_dl_buf_suggstd_pckt_cnt_ie_t.
Proof. split; [solve_encodes|solve_decodes]. Qed.

Definition layout_pfcpsmreq_flags (v : pfcp_pfcpsmreq_flags_ie_t) : layout :=
  layout_ie_header v.(pfcpsmreq_flags_header) ++ [(1, v.(pfcpsmreq_flags_pfcpsmreq_flgs_spare)); (1, v.(pfcpsmreq_flags_pfcpsmreq_flgs_spare2)); (1, v.(pfcpsmreq_flags_pfcpsmreq_flgs_spare3)); (1, v.(pfcpsmreq_flags_pfcpsmreq_flgs_spare4)); (1, v.(pfcpsmreq_flags_pfcpsmreq_flgs_spare5)); (1, v.(pfcpsmreq_flags_qaurr)); (1, v.(pfcpsmreq_flags_sndem)); (1, v.(pfcpsmreq_flags_drobu))].
#[global] Instance pfcpsmreq_flags_codec : IeCodec pfcp_pfcpsmreq_flags_ie_t :=
  {| ie_encode := encode_pfcp_pfcpsmreq_flags_ie_t; ie_decode := decode_pfcp_pfcpsmreq_flags_ie_t;
     ie_zero := zero_pfcpsmreq_flags; ie_layout := layout_pfcpsmreq_flags; ie_unit := 8 |}.
#[global] Instance pfcpsmreq_flags_codec_ok : IeCodecOk pfcp_pfcpsmreq_flags_ie_t.
Proof. split; [solve_encodes|solve_decodes]. Qed.

Definition layout_pfcpsrrsp_flags (v : pfcp_pfcpsrrsp_flags_ie_t) : layout :=
  layout_ie_header v.(pfcpsrrsp_flags_header) ++ [(1, v.(pfcpsrrsp_flags_pfcpsrrsp_flgs_spare)); (1, v.(pfcpsrrsp_flags_pfcpsrrsp_flgs_spare2)); (1, v.(pfcpsrrsp_flags_pfcpsrrsp_flgs_spare3)); (1, v.(pfcpsrrsp_flags_pfcpsrrsp_flgs_spare4)); (1, v.(pfcpsrrsp_flags_pfcpsrrsp_flgs_spare5)); (1, v.(pfcpsrrsp_flags_pfcpsrrsp_flgs_spare6)); (1, v.(pfcpsrrsp_flags_pfcpsrrsp_flgs_spare7)); (1, v.(pfcpsrrsp_flags_drobu))].
#[global] Instance pfcpsrrsp_flags_codec : IeCodec pfcp_pfcpsrrsp_flags_ie_t :=
  {| ie_encode := encode_pfcp_pfcpsrrsp_flags_ie_t; ie_decode := decode_pfcp_pfcpsrrsp_flags_ie_t;
     ie_zero := zero_pfcpsrrsp_flags; ie_layout := layout_pfcpsrrsp_flags; ie_unit := 8 |}.
#[global] Instance pfcpsrrsp_flags_codec_ok : IeCodecOk pfcp_pfcpsrrsp_flags_ie_t.
Proof. split; [solve_encodes|solve_decodes]. Qed.

Definition layout_sequence_number (v : pfcp_sequence_number_ie_t) : layout :=
  layout_ie_header v.(sequence_number_header) ++ [(32, v.(sequence_number_sequence_number))].
#[global] Instance sequence_number_codec : IeCodec pfcp_sequence_number_ie_t :=
  {| ie_encode := encode_pfcp_sequence_number_ie_t; ie_decode := decode_pfcp_sequence_number_ie_t;
     ie_zero := zero_sequence_number; ie_layout := layout_sequence_number; ie_unit := 8 |}.
#[global] Instance sequence_number_codec_ok : IeCodecOk pfcp_sequence_number_ie_t.
Proof. split; [solve_encodes|solve_decodes]. Qed.

Definition layout_metric (v : pfcp_metric_ie_t) : layout :=
  layout_ie_header v.(metric_header) ++ [(8, v.(metric_metric))].
#[global] Instance metric_codec : IeCodec pfcp_metric_ie_t :=
  {| ie_encode := encode_pfcp_metric_ie_t; ie_decode := decode_pfcp_metric_ie_t;
     ie_zero := zero_metric; ie_layout := layout_metric; ie_unit := 8 |}.
#[global] Instance metric_codec_ok : IeCodecOk pfcp_metric_ie_t.
Proof. split; [solve_encodes|solve_decodes]. Qed.

Definition layout_timer (v : pfcp_timer_ie_t) : layout :=
  layout_ie_header v.(timer_header) ++ [(3, v.(timer_unit)); (5, v.(timer_value))].
#[global] Instance timer_codec : IeCodec pfcp_timer_ie_t :=
  {| ie_encode := encode_pfcp_timer_ie_t; ie_decode := decode_pfcp_timer_ie_t;
     ie_zero := zero_timer; ie_layout := layout_timer; ie_unit := 8 |}.
#[global] Instance timer_codec_ok : IeCodecOk pfcp_timer_ie_t.
Proof. split; [solve_encodes|solve_decodes]. Qed.

Definition layout_pdr_id (v : pfcp_pdr_id_ie_t) : layout :=
  layout_ie_header v.(pdr_id_header) ++ [(16, v.(pdr_id_rule_id))].
#[global] Instance pdr_id_codec : IeCodec pfcp_pdr_id_ie_t :=
  {| ie_encode := encode_pfcp_pdr_id_ie_t; ie_decode := decode_pfcp_pdr_id_ie_t;
     ie_zero := zero_pdr_id; ie_layout := layout_pdr_id; ie_unit := 1 |}.
#[global] Instance pdr_id_codec_ok : IeCodecOk pfcp_pdr_id_ie_t.
Proof. split; [solve_encodes|solve_decodes]. Qed.

Definition layout_meas_mthd (v : pfcp_meas_mthd_ie_t) : layout :=
  layout_ie_header v.(meas_mthd_header) ++ [(1, v.(meas_mthd_spare)); (1, v.(meas_mthd_spare2)); (1, v.(meas_mthd_spare3)); (1, v.(meas_mthd_spare4)); (1, v.(meas_mthd_spare5)); (1, v.(meas_mthd_event)); (1, v.(meas_mthd_volum)); (1, v.(meas_mthd_durat))].
#[global] Instance meas_mthd_codec : IeCodec pfcp_meas_mthd_ie_t :=
  {| ie_encode := encode_pfcp_meas_mthd_ie_t; ie_decode := decode_pfcp_meas_mthd_ie_t;
     ie_zero := zero_meas_mthd; ie_layout := layout_meas_mthd; ie_unit := 1 |}.
#[global] Instance meas_mthd_codec_ok : IeCodecOk pfcp_meas_mthd_ie_t.
Proof. split; [solve_encodes|solve_decodes]. Qed.

Definition layout_usage_rpt_trig (v : pfcp_usage_rpt_trig_ie_t) : layout :=
  layout_ie_header v.(usage_rpt_trig_header) ++ [(1, v.(usage_rpt_trig_immer)); (1, v.(usage_rpt_trig_droth)); (1, v.(usage_rpt_trig_stopt)); (1, v.(usage_rpt_trig_start)); (1, v.(usage_rpt_trig_quhti)); (1, v.(usage_rpt_trig_timth)); (1, v.(usage_rpt_trig_volth)); (1, v.(usage_rpt_trig_perio)); (1, v.(usage_rpt_trig_eveth)); (1, v.(usage_rpt_trig_macar)); (1, v.(usage_rpt_trig_envcl)); (1, v.(usage_rpt_trig_monit)); (1, v.(usage_rpt_trig_termr)); (1, v.(usage_rpt_trig_liusa)); (1, v.(usage_rpt_trig_timqu)); (1, v.(usage_rpt_trig_volqu)); (7, v.(usage_rpt_trig_spare)); (1, v.(usage_rpt_trig_evequ))].
#[global] Instance usage_rpt_trig_codec : IeCodec pfcp_usage_rpt_trig_ie_t :=
  {| ie_encode := encode_pfcp_usage_rpt_trig_ie_t; ie_decode := decode_pfcp_usage_rpt_trig_ie_t;
     ie_zero := zero_usage_rpt_trig; ie_layout := layout_usage_rpt_trig; ie_unit := 8 |}.
#[global] Instance usage_rpt_trig_codec_ok : IeCodecOk pfcp_usage_rpt_trig_ie_t.
Proof. split; [solve_encodes|solve_decodes]. Qed.

Definition layout_meas_period (v : pfcp_meas_period_ie_t) : layout :=
  layout_ie_header v.(meas_period_header) ++ [(32, v.(meas_period_meas_period))].
#[global] Instance meas_period_codec : IeCodec pfcp_meas_period_ie_t :=
  {| ie_encode := encode_pfcp_meas_period_ie_t; ie_decode := decode_pfcp_meas_period_ie_t;
     ie_zero := zero_meas_period; ie_layout := layout_meas_period; ie_unit := 1 |}.
#[global] Instance meas_period_codec_ok : IeCodecOk pfcp_meas_period_ie_t.
Proof. split; [solve_encodes|solve_decodes]. Qed.

Definition layout_dur_meas (v : pfcp_dur_meas_ie_t) : layout :=
  layout_ie_header v.(dur_meas_header) ++ [(32, v.(dur_meas_duration_value))].
#[global] Instance dur_meas_codec : IeCodec pfcp_dur_meas_ie_t :=
  {| ie_encode := encode_pfcp_dur_meas_ie_t; ie_decode := decode_pfcp_dur_meas_ie_t;
     ie_zero := zero_dur_meas; ie_layout := layout_dur_meas; ie_unit := 8 |}.
#[global] Instance dur_meas_codec_ok : IeCodecOk pfcp_dur_meas_ie_t.
Proof. split; [solve_encodes|solve_decodes]. Qed.

Definition layout_time_of_frst_pckt (v : pfcp_time_of_frst_pckt_ie_t) : layout :=
  layout_ie_header v.(time_of_frst_pckt_header) ++ [(32, v.(time_of_frst_pckt_time_of_frst_pckt))].
#[global] Instance time_of_frst_pckt_codec : IeCodec pfcp_time_of_frst_pckt_ie_t :=
  {| ie_encode := encode_pfcp_time_of_frst_pckt_ie_t; ie_decode := decode_pfcp_time_of_frst_pckt_ie_t;
     ie_zero := zero_time_of_frst_pckt; ie_layout := layout_time_of_frst_pckt; ie_unit := 8 |}.
#[global] Instance time_of_frst_pckt_codec_ok : IeCodecOk pfcp_time_of_frst_pckt_ie_t.
Proof. split; [solve_encodes|solve_decodes]. Qed.

Definition layout_time_of_lst_pckt (v : pfcp_time_of_lst_pckt_ie_t) : layout :=
  layout_ie_header v.(time_of_lst_pckt_header) ++ [(32, v.(time_of_lst_pckt_time_of_lst_pckt))].
#[global] Instance time_of_lst_pckt_codec : IeCodec pfcp_time_of_lst_pckt_ie_t :=
  {| ie_encode := encode_pfcp_time_of_lst_pckt_ie_t; ie_decode := decode_pfcp_time_of_lst_pckt_ie_t;
     ie_zero := zero_time_of_lst_pckt; ie_layout := layout_time_of_lst_pckt; ie_unit := 8 |}.
#[global] Instance time_of_lst_pckt_codec_ok : IeCodecOk pfcp_time_of_lst_pckt_ie_t.
Proof. split; [solve_encodes|solve_decodes]. Qed.

Definition layout_quota_hldng_time (v : pfcp_quota_hldng_time_ie_t) : layout :=
  layout_ie_header v.(quota_hldng_time_header) ++ [(32, v.(quota_hldng_time_val))].
#[global] Instance quota_hldng_time_codec : IeCodec pfcp_quota_hldng_time_ie_t :=
  {| ie_encode := encode_pfcp_quota_hldng_time_ie_t; ie_decode := decode_pfcp_quota_hldng_time_ie_t;
     ie_zero := zero_quota_hldng_time; ie_layout := layout_quota_hldng_time; ie_unit := 1 |}.
#[global] Instance quota_hldng_time_codec_ok : IeCodecOk pfcp_quota_hldng_time_ie_t.
Proof. split; [solve_encodes|solve_decodes]. Qed.

Definition layout_time_quota (v : pfcp_time_quota_ie_t) : layout :=
  layout_ie_header v.(time_quota_header) ++ [(32, v.(time_quota_val))].
#[global] Instance time_quota_codec : IeCodec pfcp_time_quota_ie_t :=
  {| ie_encode := encode_pfcp_time_quota_ie_t; ie_decode := decode_pfcp_time_quota_ie_t;
     ie_zero := zero_time_quota; ie_layout := layout_time_quota; ie_unit := 1 |}.
#[global] Instance time_quota_codec_ok : IeCodecOk pfcp_time_quota_ie_t.
Proof. split; [solve_encodes|solve_decodes]. Qed.

Definition layout_start_time (v : pfcp_start_time_ie_t) : layout :=
  layout_ie_header v.(start_time_header) ++ [(32, v.(start_time_start_time))].
#[global] Instance start_time_codec : IeCodec pfcp_start_time_ie_t :=
  {| ie_encode := encode_pfcp_start_time_ie_t; ie_decode := decode_pfcp_start_time_ie_t;
     ie_zero := zero_start_time; ie_layout := layout_start_time; ie_unit := 8 |}.
#[global] Instance start_time_codec_ok : IeCodecOk pfcp_start_time_ie_t.
Proof. split; [solve_encodes|solve_decodes]. Qed.

Definition layout_end_time (v : pfcp_end_time_ie_t) : layout :=
  layout_ie_header v.(end_time_header) ++ [(32, v.(end_time_end_time))].
#[global] Instance end_time_codec : IeCodec pfcp_end_time_ie_t :=
  {| ie_encode := encode_pfcp_end_time_ie_t; ie_decode := decode_pfcp_end_time_ie_t;
     ie_zero := zero_end_time; ie_layout := layout_end_time; ie_unit := 8 |}.
#[global] Instance end_time_codec_ok : IeCodecOk pfcp_end_time_ie_t.
Proof. split; [solve_encodes|solve_decodes]. Qed.

Definition layout_urr_id (v : pfcp_urr_id_ie_t) : layout :=
  layout_ie_header v.(urr_id_header) ++ [(32, v.(urr_id_value))].
#[global] Instance urr_id_codec : IeCodec pfcp_urr_id_ie_t :=
  {| ie_encode := encode_pfcp_urr_id_ie_t; ie_decode := decode_pfcp_urr_id_ie_t;
     ie_zero := zero_urr_id; ie_layout := layout_urr_id; ie_unit := 1 |}.
#[global] Instance urr_id_codec_ok : IeCodecOk pfcp_urr_id_ie_t.
Proof. split; [solve_encodes|solve_decodes]. Qed.

Definition layout_linked_urr_id (v : pfcp_linked_urr_id_ie_t) : layout :=
  layout_ie_header v.(linked_urr_id_header) ++ [(32, v.(linked_urr_id_lnkd_urr_id_val))].
#[global] Instance linked_urr_id_codec : IeCodec pfcp_linked_urr_id_ie_t :=
  {| ie_encode := encode_pfcp_linked_urr_id_ie_t; ie_decode := decode_pfcp_linked_urr_id_ie_t;
     ie_zero := zero_linked_urr_id; ie_layout := layout_linked_urr_id; ie_unit := 1 |}.
#[global] Instance linked_urr_id_codec_ok : IeCodecOk pfcp_linked_urr_id_ie_t.
Proof. split; [solve_encodes|solve_decodes]. Qed.

Definition layout_bar_id (v : pfcp_bar_id_ie_t) : layout :=
  layout_ie_header v.(bar_id_header) ++ [(8, v.(bar_id_value))].
#[global] Instance bar_id_codec : IeCodec pfcp_bar_id_ie_t :=
  {| ie_encode := encode_pfcp_bar_id_ie_t; ie_decode := decode_pfcp_bar_id_ie_t;
     ie_zero := zero_bar_id; ie_layout := layout_bar_id; ie_unit := 1 |}.
#[global] Instance bar_id_codec_ok : IeCodecOk pfcp_bar_id_ie_t.
Proof. split; [solve_encodes|solve_decodes]. Qed.

Definition layout_cp_func_feat (v : pfcp_cp_func_feat_ie_t) : layout :=
  layout_ie_header v.(cp_func_feat_header) ++ [(8, v.(cp_func_feat_sup_feat))].
#[global] Instance cp_func_feat_codec : IeCodec pfcp_cp_func_feat_ie_t :=
  {| ie_encode := encode_pfcp_cp_func_feat_ie_t; ie_decode := decode_pfcp_cp_func_feat_ie_t;
     ie_zero := zero_cp_func_feat; ie_layout := layout_cp_func_feat; ie_unit := 8 |}.
#[global] Instance cp_func_feat_codec_ok : IeCodecOk pfcp_cp_func_feat_ie_t.
Proof. split; [solve_encodes|solve_decodes]. Qed.

Definition layout_usage_info (v : pfcp_usage_info_ie_t) : layout :=
  layout_ie_header v.(usage_info_header) ++ [(5, v.(usage_info_spare)); (1, v.(usage_info_ube)); (1, v.(usage_info_uae)); (1, v.(usage_info_aft)); (1, v.(usage_info_bef))].
#[global] Instance usage_info_codec : IeCodec pfcp_usage_info_ie_t :=
  {| ie_encode := encode_pfcp_usage_info_ie_t; ie_decode := decode_pfcp_usage_info_ie_t;
     ie_zero := zero_usage_info; ie_layout := layout_usage_info; ie_unit := 8 |}.
#[global] Instance usage_info_codec_ok : IeCodecOk pfcp_usage_info_ie_t.
Proof. split; [solve_encodes|solve_decodes]. Qed.

Definition layout_app_inst_id (v : pfcp_app_inst_id_ie_t) : layout :=
  layout_ie_header v.(app_inst_id_header) ++ [(8, v.(app_inst_id_app_inst_ident))].
#[global] Instance app_inst_id_codec : IeCodec pfcp_app_inst_id_ie_t :=
  {| ie_encode := encode_pfcp_app_inst_id_ie_t; ie_decode := decode_pfcp_app_inst_id_ie_t;
     ie_zero := zero_app_inst_id; ie_layout := layout_app_inst_id; ie_unit := 8 |}.
#[global] Instance app_inst_id_codec_ok : IeCodecOk pfcp_app_inst_id_ie_t.
Proof. split; [solve_encodes|solve_decodes]. Qed.

Definition layout_flow_info (v : pfcp_flow_info_ie_t) : layout :=
  layout_ie_header v.(flow_info_header) ++ [(5, v.(flow_info_spare)); (3, v.(flow_info_flow_direction)); (16, v.(flow_info_len_of_flow_desc)); (8, v.(flow_info_flow_desc))].
#[global] Instance flow_info_codec : IeCodec pfcp_flow_info_ie_t :=
  {| ie_encode := encode_pfcp_flow_info_ie_t; ie_decode := decode_pfcp_flow_info_ie_t;
     ie_zero := zero_flow_info; ie_layout := layout_flow_info; ie_unit := 8 |}.
#[global] Instance flow_info_codec_ok : IeCodecOk pfcp_flow_info_ie_t.
Proof. split; [solve_encodes|solve_decodes]. Qed.

Definition layout_outer_hdr_removal (v : pfcp_outer_hdr_removal_ie_t) : layout :=
  layout_ie_header v.(outer_hdr_removal_header) ++ [(8, v.(outer_hdr_removal_desc))].
#[global] Instance outer_hdr_removal_codec : IeCodec pfcp_outer_hdr_removal_ie_t :=
  {| ie_encode := encode_pfcp_outer_hdr_removal_ie_t; ie_decode := decode_pfcp_outer_hdr_removal_ie_t;
     ie_zero := zero_outer_hdr_removal; ie_layout := layout_outer_hdr_removal; ie_unit := 1 |}.
#[global] Instance outer_hdr_removal_codec_ok : IeCodecOk pfcp_outer_hdr_removal_ie_t.
Proof. split; [solve_encodes|solve_decodes]. Qed.

Definition layout_rcvry_time_stmp (v : pfcp_rcvry_time_stmp_ie_t) : layout :=
  layout_ie_header v.(rcvry_time_stmp_header) ++ [(32, v.(rcvry_time_stmp_val))].
#[global] Instance rcvry_time_stmp_codec : IeCodec pfcp_rcvry_time_stmp_ie_t :=
  {| ie_encode := encode_pfcp_rcvry_time_stmp_ie_t; ie_decode := decode_pfcp_rcvry_time_stmp_ie_t;
     ie_zero := zero_rcvry_time_stmp; ie_layout := layout_rcvry_time_stmp; ie_unit := 8 |}.
#[global] Instance rcvry_time_stmp_codec_ok : IeCodecOk pfcp_rcvry_time_stmp_ie_t.
Proof. split; [solve_encodes|solve_decodes]. Qed.

Definition layout_hdr_enrchmt (v : pfcp_hdr_enrchmt_ie_t) : layout :=
  layout_ie_header v.(hdr_enrchmt_header) ++ [(3, v.(hdr_enrchmt_spare)); (5, v.(hdr_enrchmt_header_type)); (8, v.(hdr_enrchmt_len_of_hdr_fld_nm)); (8, v.(hdr_enrchmt_hdr_fld_nm)); (8, v.(hdr_enrchmt_len_of_hdr_fld_val)); (8, v.(hdr_enrchmt_hdr_fld_val))].
#[global] Instance hdr_enrchmt_codec : IeCodec pfcp_hdr_enrchmt_ie_t :=
  {| ie_encode := encode_pfcp_hdr_enrchmt_ie_t; ie_decode := decode_pfcp_hdr_enrchmt_ie_t;
     ie_zero := zero_hdr_enrchmt; ie_layout := layout_hdr_enrchmt; ie_unit := 8 |}.
#[global] Instance hdr_enrchmt_codec_ok : IeCodecOk pfcp_hdr_enrchmt_ie_t.
Proof. split; [solve_encodes|solve_decodes]. Qed.

Definition layout_meas_info (v : pfcp_meas_info_ie_t) : layout :=
  layout_ie_header v.(meas_info_header) ++ [(4, v.(meas_info_spare)); (1, v.(meas_info_istm)); (1, v.(meas_info_radi)); (1, v.(meas_info_inam)); (1, v.(meas_info_mbqe))].
#[global] Instance meas_info_codec : IeCodec pfcp_meas_info_ie_t :=
  {| ie_encode := encode_pfcp_meas_info_ie_t; ie_decode := decode_pfcp_meas_info_ie_t;
     ie_zero := zero_meas_info; ie_layout := layout_meas_info; ie_unit := 1 |}.
#[global] Instance meas_info_codec_ok : IeCodecOk pfcp_meas_info_ie_t.
Proof. split; [solve_encodes|solve_decodes]. Qed.

Definition layout_node_rpt_type (v : pfcp_node_rpt_type_ie_t) : layout :=
  layout_ie_header v.(node_rpt_type_header) ++ [(7, v.(node_rpt_type_spare)); (1, v.(node_rpt_type_upfr))].
#[global] Instance node_rpt_type_codec : IeCodec pfcp_node_rpt_type_ie_t :=
  {| ie_encode := encode_pfcp_node_rpt_type_ie_t; ie_decode := decode_pfcp_node_rpt_type_ie_t;
     ie_zero := zero_node_rpt_type; ie_layout := layout_node_rpt_type; ie_unit := 8 |}.
#[global] Instance node_rpt_type_codec_ok : IeCodecOk pfcp_node_rpt_type_ie_t.
Proof. split; [solve_encodes|solve_decodes]. Qed.

Definition layout_urseqn (v : pfcp_urseqn_ie_t) : layout :=
  layout_ie_header v.(urseqn_header) ++ [(32, v.(urseqn_urseqn))].
#[global] Instance urseqn_codec : IeCodec pfcp_urseqn_ie_t :=
  {| ie_encode := encode_pfcp_urseqn_ie_t; ie_decode := decode_pfcp_urseqn_ie_t;
     ie_zero := zero_urseqn; ie_layout := layout_urseqn; ie_unit := 8 |}.
#[global] Instance urseqn_codec_ok : IeCodecOk pfcp_urseqn_ie_t.
Proof. split; [solve_encodes|solve_decodes]. Qed.

Definition layout_deact_predef_rules (v : pfcp_deact_predef_rules_ie_t) : layout :=
  layout_ie_header v.(deact_predef_rules_header) ++ [(8, v.(deact_predef_rules_predef_rules_nm))].
#[global] Instance deact_predef_rules_codec : IeCodec pfcp_deact_predef_rules_ie_t :=
  {| ie_encode := encode_pfcp_deact_predef_rules_ie_t; ie_decode := decode_pfcp_deact_predef_rules_ie_t;
     ie_zero := zero_deact_predef_rules; ie_layout := layout_deact_predef_rules; ie_unit := 8 |}.
#[global] Instance deact_predef_rules_codec_ok : IeCodecOk pfcp_deact_predef_rules_ie_t.
Proof. split; [solve_encodes|solve_decodes]. Qed.

Definition layout_far_id (v : pfcp_far_id_ie_t) : layout :=
  layout_ie_header v.(far_id_header) ++ [(32, v.(far_id_value))].
#[global] Instance far_id_codec : IeCodec pfcp_far_id_ie_t :=
  {| ie_encode := encode_pfcp_far_id_ie_t; ie_decode := decode_pfcp_far_id_ie_t;
     ie_zero := zero_far_id; ie_layout := layout_far_id; ie_unit := 1 |}.
#[global] Instance far_id_codec_ok : IeCodecOk pfcp_far_id_ie_t.
Proof. split; [solve_encodes|solve_decodes]. Qed.

Definition layout_qer_id (v : pfcp_qer_id_ie_t) : layout :=
  layout_ie_header v.(qer_id_header) ++ [(32, v.(qer_id_value))].
#[global] Instance qer_id_codec : IeCodec pfcp_qer_id_ie_t :=
  {| ie_encode := encode_pfcp_qer_id_ie_t; ie_decode := decode_pfcp_qer_id_ie_t;
     ie_zero := zero_qer_id; ie_layout := layout_qer_id; ie_unit := 1 |}.
#[global] Instance qer_id_codec_ok : IeCodecOk pfcp_qer_id_ie_t.
Proof. split; [solve_encodes|solve_decodes]. Qed.

Definition layout_oci_flags (v : pfcp_oci_flags_ie_t) : layout :=
  layout_ie_header v.(oci_flags_header) ++ [(7, v.(oci_flags_spare)); (1, v.(oci_flags_aoci))].
#[global] Instance oci_flags_codec : IeCodec pfcp_oci_flags_ie_t :=
  {| ie_encode := encode_pfcp_oci_flags_ie_t; ie_decode := decode_pfcp_oci_flags_ie_t;
     ie_zero := zero_oci_flags; ie_layout := layout_oci_flags; ie_unit := 8 |}.
#[global] Instance oci_flags_codec_ok : IeCodecOk pfcp_oci_flags_ie_t.
Proof. split; [solve_encodes|solve_decodes]. Qed.

Definition layout_up_assn_rel_req (v : pfcp_up_assn_rel_req_ie_t) : layout :=
  layout_ie_header v.(up_assn_rel_req_header) ++ [(7, v.(up_assn_rel_req_spare)); (1, v.(up_assn_rel_req_sarr))].
#[global] Instance up_assn_rel_req_codec : IeCodec pfcp_up_assn_rel_req_ie_t :=
  {| ie_encode := encode_pfcp_up_assn_rel_req_ie_t; ie_decode := decode_pfcp_up_assn_rel_req_ie_t;
     ie_zero := zero_up_assn_rel_req; ie_layout := layout_up_assn_rel_req; ie_unit := 8 |}.
#[global] Instance up_assn_rel_req_codec_ok : IeCodecOk pfcp_up_assn_rel_req_ie_t.
Proof. split; [solve_encodes|solve_decodes]. Qed.

Definition layout_graceful_rel_period (v : pfcp_graceful_rel_period_ie_t) : layout :=
  layout_ie_header v.(graceful_rel_period_header) ++ [(3, v.(graceful_rel_period_timer_unit)); (5, v.(graceful_rel_period_timer_value))].
#[global] Instance graceful_rel_period_codec : IeCodec pfcp_graceful_rel_period_ie_t :=
  {| ie_encode := encode_pfcp_graceful_rel_period_ie_t; ie_decode := decode_pfcp_graceful_rel_period_ie_t;
     ie_zero := zero_graceful_rel_period; ie_layout := layout_graceful_rel_period; ie_unit := 8 |}.
#[global] Instance graceful_rel_period_codec_ok : IeCodecOk pfcp_graceful_rel_period_ie_t.
Proof. split; [solve_encodes|solve_decodes]. Qed.

Definition layout_pdn_type (v : pfcp_pdn_type_ie_t) : layout :=
  layout_ie_header v.(pdn_type_header) ++ [(5, v.(pdn_type_spare)); (3, v.(pdn_type_pdn_type))].
#[global] Instance pdn_type_codec : IeCodec pfcp_pdn_type_ie_t :=
  {| ie_encode := encode_pfcp_pdn_type_ie_t; ie_decode := decode_pfcp_pdn_type_ie_t;
     ie_zero := zero_pdn_type; ie_layout := layout_pdn_type; ie_unit := 8 |}.
#[global] Instance pdn_type_codec_ok : IeCodecOk pfcp_pdn_type_ie_t.
Proof. split; [solve_encodes|solve_decodes]. Qed.

Definition layout_time_quota_mech (v : pfcp_time_quota_mech_ie_t) : layout :=
  layout_ie_header v.(time_quota_mech_header) ++ [(6, v.(time_quota_mech_spare)); (2, v.(time_quota_mech_btit)); (32, v.(time_quota_mech_base_time_int))].
#[global] Instance time_quota_mech_codec : IeCodec pfcp_time_quota_mech_ie_t :=
  {| ie_encode := encode_pfcp_time_quota_mech_ie_t; ie_decode := decode_pfcp_time_quota_mech_ie_t;
     ie_zero := zero_time_quota_mech; ie_layout := layout_time_quota_mech; ie_unit := 1 |}.
#[global] Instance time_quota_mech_codec_ok : IeCodecOk pfcp_time_quota_mech_ie_t.
Proof. split; [solve_encodes|solve_decodes]. Qed.

Definition layout_user_plane_inact_timer (v : pfcp_user_plane_inact_timer_ie_t) : layout :=
  layout_ie_header v.(user_plane_inact_timer_header) ++ [(32, v.(user_plane_inact_timer_user_plane_inact_timer))].
#[global] Instance user_plane_inact_timer_codec : IeCodec pfcp_user_plane_inact_timer_ie_t :=
  {| ie_encode := encode_pfcp_user_plane_inact_timer_ie_t; ie_decode := decode_pfcp_user_plane_inact_timer_ie_t;
     ie_zero := zero_user_plane_inact_timer; ie_layout := layout_user_plane_inact_timer; ie_unit := 8 |}.
#[global] Instance user_plane_inact_timer_codec_ok : IeCodecOk pfcp_user_plane_inact_timer_ie_t.
Proof. split; [solve_encodes|solve_decodes]. Qed.

Definition layout_multiplier (v : pfcp_multiplier_ie_t) : layout :=
  layout_ie_header v.(multiplier_header) ++ [(64, v.(multiplier_value_digits)); (32, v.(multiplier_exponent))].
#[global] Instance multiplier_codec : IeCodec pfcp_multiplier_ie_t :=
  {| ie_encode := encode_pfcp_multiplier_ie_t; ie_decode := decode_pfcp_multiplier_ie_t;
     ie_zero := zero_multiplier; ie_layout := layout_multiplier; ie_unit := 8 |}.
#[global] Instance multiplier_codec_ok : IeCodecOk pfcp_multiplier_ie_t.
Proof. split; [solve_encodes|solve_decodes]. Qed.

Definition layout_agg_urr_id (v : pfcp_agg_urr_id_ie_t) : layout :=
  layout_ie_header v.(agg_urr_id_header) ++ [(32, v.(agg_urr_id_urr_id_value))].
#[global] Instance agg_urr_id_codec : IeCodec pfcp_agg_urr_id_ie_t :=
  {| ie_encode := encode_pfcp_agg_urr_id_ie_t; ie_decode := decode_pfcp_agg_urr_id_ie_t;
     ie_zero := zero_agg_urr_id; ie_layout := layout_agg_urr_id; ie_unit := 8 |}.
#[global] Instance agg_urr_id_codec_ok : IeCodecOk pfcp_agg_urr_id_ie_t.
Proof. split; [solve_encodes|solve_decodes]. Qed.

Definition layout_sbsqnt_time_quota (v : pfcp_sbsqnt_time_quota_ie_t) : layout :=
  layout_ie_header v.(sbsqnt_time_quota_header) ++ [(32, v.(sbsqnt_time_quota_time_quota_val))].
#[global] Instance sbsqnt_time_quota_codec : IeCodec pfcp_sbsqnt_time_quota_ie_t :=
  {| ie_encode := encode_pfcp_sbsqnt_time_quota_ie_t; ie_decode := decode_pfcp_sbsqnt_time_quota_ie_t;
     ie_zero := zero_sbsqnt_time_quota; ie_layout := layout_sbsqnt_time_quota; ie_unit := 1 |}.
#[global] Instance sbsqnt_time_quota_codec_ok : IeCodecOk pfcp_sbsqnt_time_quota_ie_t.
Proof. split; [solve_encodes|solve_decodes]. Qed.

Definition layout_rqi (v : pfcp_rqi_ie_t) : layout :=
  layout_ie_header v.(rqi_header) ++ [(7, v.(rqi_spare)); (1, v.(rqi_rqi))].
#[global] Instance rqi_codec : IeCodec pfcp_rqi_ie_t :=
  {| ie_encode := encode_pfcp_rqi_ie_t; ie_decode := decode_pfcp_rqi_ie_t;
     ie_zero := zero_rqi; ie_layout := layout_rqi; ie_unit := 1 |}.
#[global] Instance rqi_codec_ok : IeCodecOk pfcp_rqi_ie_t.
Proof. split; [solve_encodes|solve_decodes]. Qed.

Definition layout_qfi (v : pfcp_qfi_ie_t) : layout :=
  layout_ie_header v.(qfi_header) ++ [(2, v.(qfi_spare)); (6, v.(qfi_value))].
#[global] Instance qfi_codec : IeCodec pfcp_qfi_ie_t :=
  {| ie_encode := encode_pfcp_qfi_ie_t; ie_decode := decode_pfcp_qfi_ie_t;
     ie_zero := zero_qfi; ie_layout := layout_qfi; ie_unit := 1 |}.
#[global] Instance qfi_codec_ok : IeCodecOk pfcp_qfi_ie_t.
Proof. split; [solve_encodes|solve_decodes]. Qed.

Definition layout_query_urr_ref (v : pfcp_query_urr_ref_ie_t) : layout :=
  layout_ie_header v.(query_urr_ref_header) ++ [(32, v.(query_urr_ref_val))].
#[global] Instance query_urr_ref_codec : IeCodec pfcp_query_urr_ref_ie_t :=
  {| ie_encode := encode_pfcp_query_urr_ref_ie_t; ie_decode := decode_pfcp_query_urr_ref_ie_t;
     ie_zero := zero_query_urr_ref; ie_layout := layout_query_urr_ref; ie_unit := 8 |}.
#[global] Instance query_urr_ref_codec_ok : IeCodecOk pfcp_query_urr_ref_ie_t.
Proof. split; [solve_encodes|solve_decodes]. Qed.

Definition layout_add_usage_rpts_info (v : pfcp_add_usage_rpts_info_ie_t) : layout :=
  layout_ie_header v.(add_usage_rpts_info_header) ++ [(1, v.(add_usage_rpts_info_auri)); (7, v.(add_usage_rpts_info_nbr_of_add_usage_rpts_val)); (8, v.(add_usage_rpts_info_nbr_of_add_usage_rpts_value2))].
#[global] Instance add_usage_rpts_info_codec : IeCodec pfcp_add_usage_rpts_info_ie_t :=
  {| ie_encode := encode_pfcp_add_usage_rpts_info_ie_t; ie_decode := decode_pfcp_add_usage_rpts_info_ie_t;
     ie_zero := zero_add_usage_rpts_info; ie_layout := layout_add_usage_rpts_info; ie_unit := 8 |}.
#[global] Instance add_usage_rpts_info_codec_ok : IeCodecOk pfcp_add_usage_rpts_info_ie_t.
Proof. split; [solve_encodes|solve_decodes]. Qed.

Definition layout_traffic_endpt_id (v : pfcp_traffic_endpt_id_ie_t) : layout :=
  layout_ie_header v.(traffic_endpt_id_header) ++ [(8, v.(traffic_endpt_id_val))].
#[global] Instance traffic_endpt_id_codec : IeCodec pfcp_traffic_endpt_id_ie_t :=
  {| ie_encode := encode_pfcp_traffic_endpt_id_ie_t; ie_decode := decode_pfcp_traffic_endpt_id_ie_t;
     ie_zero := zero_traffic_endpt_id; ie_layout := layout_traffic_endpt_id; ie_unit := 1 |}.
#[global] Instance traffic_endpt_id_codec_ok : IeCodecOk pfcp_traffic_endpt_id_ie_t.
Proof. split; [solve_encodes|solve_decodes]. Qed.

Definition layout_ethertype (v : pfcp_ethertype_ie_t) : layout :=
  layout_ie_header v.(ethertype_header) ++ [(16, v.(ethertype_ethertype))].
#[global] Instance ethertype_codec : IeCodec pfcp_ethertype_ie_t :=
  {| ie_encode := encode_pfcp_ethertype_ie_t; ie_decode := decode_pfcp_ethertype_ie_t;
     ie_zero := zero_ethertype; ie_layout := layout_ethertype; ie_unit := 8 |}.
#[global] Instance ethertype_codec_ok : IeCodecOk pfcp_ethertype_ie_t.
Proof. split; [solve_encodes|solve_decodes]. Qed.

Definition layout_proxying (v : pfcp_proxying_ie_t) : layout :=
  layout_ie_header v.(proxying_header) ++ [(6, v.(proxying_spare)); (1, v.(proxying_ins)); (1, v.(proxying_arp))].
#[global] Instance proxying_codec : IeCodec pfcp_proxying_ie_t :=
  {| ie_encode := encode_pfcp_proxying_ie_t; ie_decode := decode_pfcp_proxying_ie_t;
     ie_zero := zero_proxying; ie_layout := layout_proxying; ie_unit := 8 |}.
#[global] Instance proxying_codec_ok : IeCodecOk pfcp_proxying_ie_t.
Proof. split; [solve_encodes|solve_decodes]. Qed.

Definition layout_eth_fltr_id (v : pfcp_eth_fltr_id_ie_t) : layout :=
  layout_ie_header v.(eth_fltr_id_header) ++ [(32, v.(eth_fltr_id_val))].
#[global] Instance eth_fltr_id_codec : IeCodec pfcp_eth_fltr_id_ie_t :=
  {| ie_encode := encode_pfcp_eth_fltr_id_ie_t; ie_decode := decode_pfcp_eth_fltr_id_ie_t;
     ie_zero := zero_eth_fltr_id; ie_layout := layout_eth_fltr_id; ie_unit := 8 |}.
#[global] Instance eth_fltr_id_codec_ok : IeCodecOk pfcp_eth_fltr_id_ie_t.
Proof. split; [solve_encodes|solve_decodes]. Qed.

Definition layout_eth_fltr_props (v : pfcp_eth_fltr_props_ie_t) : layout :=
  layout_ie_header v.(eth_fltr_props_header) ++ [(7, v.(eth_fltr_props_spare)); (1, v.(eth_fltr_props_bide))].
#[global] Instance eth_fltr_props_codec : IeCodec pfcp_eth_fltr_props_ie_t :=
  {| ie_encode := encode_pfcp_eth_fltr_props_ie_t; ie_decode := decode_pfcp_eth_fltr_props_ie_t;
     ie_zero := zero_eth_fltr_props; ie_layout := layout_eth_fltr_props; ie_unit := 8 |}.
#[global] Instance eth_fltr_props_codec_ok : IeCodecOk pfcp_eth_fltr_props_ie_t.
Proof. split; [solve_encodes|solve_decodes]. Qed.

Definition layout_suggstd_buf_pckts_cnt (v : pfcp_suggstd_buf_pckts_cnt_ie_t) : layout :=
  layout_ie_header v.(suggstd_buf_pckts_cnt_header) ++ [(8, v.(suggstd_buf_pckts_cnt_pckt_cnt_val))].
#[global] Instance suggstd_buf_pckts_cnt_codec : IeCodec pfcp_suggstd_buf_pckts_cnt_ie_t :=
  {| ie_encode := encode_pfcp_suggstd_buf_pckts_cnt_ie_t; ie_decode := decode_pfcp_suggstd_buf_pckts_cnt_ie_t;
     ie_zero := zero_suggstd_buf_pckts_cnt; ie_layout := layout_suggstd_buf_pckts_cnt; ie_unit := 1 |}.
#[global] Instance suggstd_buf_pckts_cnt_codec_ok : IeCodecOk pfcp_suggstd_buf_pckts_cnt_ie_t.
Proof. split; [solve_encodes|solve_decodes]. Qed.

Definition layout_eth_pdu_sess_info (v : pfcp_eth_pdu_sess_info_ie_t) : layout :=
  layout_ie_header v.(eth_pdu_sess_info_header) ++ [(7, v.(eth_pdu_sess_info_spare)); (1, v.(eth_pdu_sess_info_ethi))].
#[global] Instance eth_pdu_sess_info_codec : IeCodec pfcp_eth_pdu_sess_info_ie_t :=
  {| ie_encode := encode_pfcp_eth_pdu_sess_info_ie_t; ie_decode := decode_pfcp_eth_pdu_sess_info_ie_t;
     ie_zero := zero_eth_pdu_sess_info; ie_layout := layout_eth_pdu_sess_info; ie_unit := 1 |}.
#[global] Instance eth_pdu_sess_info_codec_ok : IeCodecOk pfcp_eth_pdu_sess_info_ie_t.
Proof. split; [solve_encodes|solve_decodes]. Qed.

Definition layout_eth_inact_timer (v : pfcp_eth_inact_timer_ie_t) : layout :=
  layout_ie_header v.(eth_inact_timer_header) ++ [(32, v.(eth_inact_timer_eth_inact_timer))].
#[global] Instance eth_inact_timer_codec : IeCodec pfcp_eth_inact_timer_ie_t :=
  {| ie_encode := encode_pfcp_eth_inact_timer_ie_t; ie_decode := decode_pfcp_eth_inact_timer_ie_t;
     ie_zero := zero_eth_inact_timer; ie_layout := layout_eth_inact_timer; ie_unit := 1 |}.
#[global] Instance eth_inact_timer_codec_ok : IeCodecOk pfcp_eth_inact_timer_ie_t.
Proof. split; [solve_encodes|solve_decodes]. Qed.

Definition layout_sbsqnt_evnt_quota (v : pfcp_sbsqnt_evnt_quota_ie_t) : layout :=
  layout_ie_header v.(sbsqnt_evnt_quota_header) ++ [(32, v.(sbsqnt_evnt_quota_sbsqnt_evnt_quota))].
#[global] Instance sbsqnt_evnt_quota_codec : IeCodec pfcp_sbsqnt_evnt_quota_ie_t :=
  {| ie_encode := encode_pfcp_sbsqnt_evnt_quota_ie_t; ie_decode := decode_pfcp_sbsqnt_evnt_quota_ie_t;
     ie_zero := zero_sbsqnt_evnt_quota; ie_layout := layout_sbsqnt_evnt_quota; ie_unit := 1 |}.
#[global] Instance sbsqnt_evnt_quota_codec_ok : IeCodecOk pfcp_sbsqnt_evnt_quota_ie_t.
Proof. split; [solve_encodes|solve_decodes]. Qed.

Definition layout_sbsqnt_evnt_thresh (v : pfcp_sbsqnt_evnt_thresh_ie_t) : layout :=
  layout_ie_header v.(sbsqnt_evnt_thresh_header) ++ [(32, v.(sbsqnt_evnt_thresh_sbsqnt_evnt_thresh))].
#[global] Instance sbsqnt_evnt_thresh_codec : IeCodec pfcp_sbsqnt_evnt_thresh_ie_t :=
  {| ie_encode := encode_pfcp_sbsqnt_evnt_thresh_ie_t; ie_decode := decode_pfcp_sbsqnt_evnt_thresh_ie_t;
     ie_zero := zero_sbsqnt_evnt_thresh; ie_layout := layout_sbsqnt_evnt_thresh; ie_unit := 1 |}.
#[global] Instance sbsqnt_evnt_thresh_codec_ok : IeCodecOk pfcp_sbsqnt_evnt_thresh_ie_t.
Proof. split; [solve_encodes|solve_decodes]. Qed.

Definition layout_trc_info (v : pfcp_trc_info_ie_t) : layout :=
  layout_ie_header v.(trc_info_header) ++ [(4, v.(trc_info_mcc_digit_2)); (4, v.(trc_info_mcc_digit_1)); (4, v.(trc_info_mnc_digit_3)); (4, v.(trc_info_mcc_digit_3)); (4, v.(trc_info_mnc_digit_2)); (4, v.(trc_info_mnc_digit_1)); (24, v.(trc_info_trace_id)); (8, v.(trc_info_len_of_trigrng_evnts)); (8, v.(trc_info_trigrng_evnts)); (8, v.(trc_info_sess_trc_depth)); (8, v.(trc_info_len_of_list_of_intfcs)); (8, v.(trc_info_list_of_intfcs)); (8, v.(trc_info_len_of_ip_addr_of_trc_coll_ent)); (8, v.(trc_info_ip_addr_of_trc_coll_ent))].
#[global] Instance trc_info_codec : IeCodec pfcp_trc_info_ie_t :=
  {| ie_encode := encode_pfcp_trc_info_ie_t; ie_decode := decode_pfcp_trc_info_ie_t;
     ie_zero := zero_trc_info; ie_layout := layout_trc_info; ie_unit := 8 |}.
#[global] Instance trc_info_codec_ok : IeCodecOk pfcp_trc_info_ie_t.
Proof. split; [solve_encodes|solve_decodes]. Qed.

Definition layout_framed_route (v : pfcp_framed_route_ie_t) : layout :=
  layout_ie_header v.(framed_route_header) ++ [(8, v.(framed_route_framed_route))].
#[global] Instance framed_route_codec : IeCodec pfcp_framed_route_ie_t :=
  {| ie_encode := encode_pfcp_framed_route_ie_t; ie_decode := decode_pfcp_framed_route_ie_t;
     ie_zero := zero_framed_route; ie_layout := layout_framed_route; ie_unit := 8 |}.
#[global] Instance framed_route_codec_ok : IeCodecOk pfcp_framed_route_ie_t.
Proof. split; [solve_encodes|solve_decodes]. Qed.

Definition layout_framed_routing (v : pfcp_framed_routing_ie_t) : layout :=
  layout_ie_header v.(framed_routing_header) ++ [(32, v.(framed_routing_framed_routing))].
#[global] Instance framed_routing_codec : IeCodec pfcp_framed_routing_ie_t :=
  {| ie_encode := encode_pfcp_framed_routing_ie_t; ie_decode := decode_pfcp_framed_routing_ie_t;
     ie_zero := zero_framed_routing; ie_layout := layout_framed_routing; ie_unit := 1 |}.
#[global] Instance framed_routing_codec_ok : IeCodecOk pfcp_framed_routing_ie_t.
Proof. split; [solve_encodes|solve_decodes]. Qed.

Definition layout_frmd_ipv6_route (v : pfcp_frmd_ipv6_route_ie_t) : layout :=
  layout_ie_header v.(frmd_ipv6_route_header) ++ [(8, v.(frmd_ipv6_route_frmd_ipv6_rte))].
#[global] Instance frmd_ipv6_route_codec : IeCodec pfcp_frmd_ipv6_route_ie_t :=
  {| ie_encode := encode_pfcp_frmd_ipv6_route_ie_t; ie_decode := decode_pfcp_frmd_ipv6_route_ie_t;
     ie_zero := zero_frmd_ipv6_route; ie_layout := layout_frmd_ipv6_route; ie_unit := 8 |}.
#[global] Instance frmd_ipv6_route_codec_ok : IeCodecOk pfcp_frmd_ipv6_route_ie_t.
Proof. split; [solve_encodes|solve_decodes]. Qed.

Definition layout_event_quota (v : pfcp_event_quota_ie_t) : layout :=
  layout_ie_header v.(event_quota_header) ++ [(32, v.(event_quota_sbsqnt_evnt_quota))].
#[global] Instance event_quota_codec : IeCodec pfcp_event_quota_ie_t :=
  {| ie_encode := encode_pfcp_event_quota_ie_t; ie_decode := decode_pfcp_event_quota_ie_t;
     ie_zero := zero_event_quota; ie_layout := layout_event_quota; ie_unit := 1 |}.
#[global] Instance event_quota_codec_ok : IeCodecOk pfcp_event_quota_ie_t.
Proof. split; [solve_encodes|solve_decodes]. Qed.

Definition layout_event_threshold (v : pfcp_event_threshold_ie_t) : layout :=
  layout_ie_header v.(event_threshold_header) ++ [(32, v.(event_threshold_event_threshold))].
#[global] Instance event_threshold_codec : IeCodec pfcp_event_threshold_ie_t :=
  {| ie_encode := encode_pfcp_event_threshold_ie_t; ie_decode := decode_pfcp_event_threshold_ie_t;
     ie_zero := zero_event_threshold; ie_layout := layout_event_threshold; ie_unit := 1 |}.
#[global] Instance event_threshold_codec_ok : IeCodecOk pfcp_event_threshold_ie_t.
Proof. split; [solve_encodes|solve_decodes]. Qed.

Definition layout_evnt_time_stmp (v : pfcp_evnt_time_stmp_ie_t) : layout :=
  layout_ie_header v.(evnt_time_stmp_header) ++ [(32, v.(evnt_time_stmp_evnt_time_stmp))].
#[global] Instance evnt_time_stmp_codec : IeCodec pfcp_evnt_time_stmp_ie_t :=
  {| ie_encode := encode_pfcp_evnt_time_stmp_ie_t; ie_decode := decode_pfcp_evnt_time_stmp_ie_t;
     ie_zero := zero_evnt_time_stmp; ie_layout := layout_evnt_time_stmp; ie_unit := 8 |}.
#[global] Instance evnt_time_stmp_codec_ok : IeCodecOk pfcp_evnt_time_stmp_ie_t.
Proof. split; [solve_encodes|solve_decodes]. Qed.

Definition layout_avgng_wnd (v : pfcp_avgng_wnd_ie_t) : layout :=
  layout_ie_header v.(avgng_wnd_header) ++ [(32, v.(avgng_wnd_avgng_wnd))].
#[global] Instance avgng_wnd_codec : IeCodec pfcp_avgng_wnd_ie_t :=
  {| ie_encode := encode_pfcp_avgng_wnd_ie_t; ie_decode := decode_pfcp_avgng_wnd_ie_t;
     ie_zero := zero_avgng_wnd; ie_layout := layout_avgng_wnd; ie_unit := 1 |}.
#[global] Instance avgng_wnd_codec_ok : IeCodecOk pfcp_avgng_wnd_ie_t.
Proof. split; [solve_encodes|solve_decodes]. Qed.

Definition layout_paging_plcy_indctr (v : pfcp_paging_plcy_indctr_ie_t) : layout :=
  layout_ie_header v.(paging_plcy_indctr_header) ++ [(5, v.(paging_plcy_indctr_spare)); (3, v.(paging_plcy_indctr_ppi_value))].
#[global] Instance paging_plcy_indctr_codec : IeCodec pfcp_paging_plcy_indctr_ie_t :=
  {| ie_encode := encode_pfcp_paging_plcy_indctr_ie_t; ie_decode := decode_pfcp_paging_plcy_indctr_ie_t;
     ie_zero := zero_paging_plcy_indctr; ie_layout := layout_paging_plcy_indctr; ie_unit := 1 |}.
#[global] Instance paging_plcy_indctr_codec_ok : IeCodecOk pfcp_paging_plcy_indctr_ie_t.
Proof. split; [solve_encodes|solve_decodes]. Qed.

(** ** All of them together *)

Inductive regular_ie : Type :=
| IE_cause (v : pfcp_cause_ie_t)
| IE_src_intfc (v : pfcp_src_intfc_ie_t)
| IE_gate_status (v : pfcp_gate_status_ie_t)
| IE_mbr (v : pfcp_mbr_ie_t)
| IE_gbr (v : pfcp_gbr_ie_t)
| IE_qer_corr_id (v : pfcp_qer_corr_id_ie_t)
| IE_precedence (v : pfcp_precedence_ie_t)
| IE_trnspt_lvl_marking (v : pfcp_trnspt_lvl_marking_ie_t)
| IE_time_threshold (v : pfcp_time_threshold_ie_t)
| IE_monitoring_time (v : pfcp_monitoring_time_ie_t)
| IE_sbsqnt_time_thresh (v : pfcp_sbsqnt_time_thresh_ie_t)
| IE_inact_det_time (v : pfcp_inact_det_time_ie_t)
| IE_rptng_triggers (v : pfcp_rptng_triggers_ie_t)
| IE_redir_info (v : pfcp_redir_info_ie_t)
| IE_report_type (v : pfcp_report_type_ie_t)
| IE_offending_ie (v : pfcp_offending_ie_ie_t)
| IE_frwdng_plcy (v : pfcp_frwdng_plcy_ie_t)
| IE_dst_intfc (v : pfcp_dst_intfc_ie_t)
| IE_apply_action (v : pfcp_apply_action_ie_t)
| IE_dnlnk_data_svc_info (v : pfcp_dnlnk_data_svc_info_ie_t)
| IE_dnlnk_data_notif_delay (v : pfcp_dnlnk_data_notif_delay_ie_t)
| IE_dl_buf_dur (v : pfcp_dl_buf_dur_ie_t)
| IE_dl_buf_suggstd_pckt_cnt (v : pfcp_dl_buf_suggstd_pckt_cnt_ie_t)
| IE_pfcpsmreq_flags (v : pfcp_pfcpsmreq_flags_ie_t)
| IE_pfcpsrrsp_flags (v : pfcp_pfcpsrrsp_flags_ie_t)
| IE_sequence_number (v : pfcp_sequence_number_ie_t)
| IE_metric (v : pfcp_metric_ie_t)
| IE_timer (v : pfcp_timer_ie_t)
| IE_pdr_id (v : pfcp_pdr_id_ie_t)
| IE_meas_mthd (v : pfcp_meas_mthd_ie_t)
| IE_usage_rpt_trig (v : pfcp_usage_rpt_trig_ie_t)
| IE_meas_period (v : pfcp_meas_period_ie_t)
| IE_dur_meas (v : pfcp_dur_meas_ie_t)
| IE_time_of_frst_pckt (v : pfcp_time_of_frst_pckt_ie_t)
| IE_time_of_lst_pckt (v : pfcp_time_of_lst_pckt_ie_t)
| IE_quota_hldng_time (v : pfcp_quota_hldng_time_ie_t)
| IE_time_quota (v : pfcp_time_quota_ie_t)
| IE_start_time (v : pfcp_start_time_ie_t)
| IE_end_time (v : pfcp_end_time_ie_t)
| IE_urr_id (v : pfcp_urr_id_ie_t)
| IE_linked_urr_id (v : pfcp_linked_urr_id_ie_t)
| IE_bar_id (v : pfcp_bar_id_ie_t)
| IE_cp_func_feat (v : pfcp_cp_func_feat_ie_t)
| IE_usage_info (v : pfcp_usage_info_ie_t)
| IE_app_inst_id (v : pfcp_app_inst_id_ie_t)
| IE_flow_info (v : pfcp_flow_info_ie_t)
| IE_outer_hdr_removal (v : pfcp_outer_hdr_removal_ie_t)
| IE_rcvry_time_stmp (v : pfcp_rcvry_time_stmp_ie_t)
| IE_hdr_enrchmt (v : pfcp_hdr_enrchmt_ie_t)
| IE_meas_info (v : pfcp_meas_info_ie_t)
| IE_node_rpt_type (v : pfcp_node_rpt_type_ie_t)
| IE_urseqn (v : pfcp_urseqn_ie_t)
| IE_deact_predef_rules (v : pfcp_deact_predef_rules_ie_t)
| IE_far_id (v : pfcp_far_id_ie_t)
| IE_qer_id (v : pfcp_qer_id_ie_t)
| IE_oci_flags (v : pfcp_oci_flags_ie_t)
| IE_up_assn_rel_req (v : pfcp_up_assn_rel_req_ie_t)
| IE_graceful_rel_period (v : pfcp_graceful_rel_period_ie_t)
| IE_pdn_type (v : pfcp_pdn_type_ie_t)
| IE_time_quota_mech (v : pfcp_time_quota_mech_ie_t)
| IE_user_plane_inact_timer (v : pfcp_user_plane_inact_timer_ie_t)
| IE_multiplier (v : pfcp_multiplier_ie_t)
| IE_agg_urr_id (v : pfcp_agg_urr_id_ie_t)
| IE_sbsqnt_time_quota (v : pfcp_sbsqnt_time_quota_ie_t)
| IE_rqi (v : pfcp_rqi_ie_t)
| IE_qfi (v : pfcp_qfi_ie_t)
| IE_query_urr_ref (v : pfcp_query_urr_ref_ie_t)
| IE_add_usage_rpts_info (v : pfcp_add_usage_rpts_info_ie_t)
| IE_traffic_endpt_id (v : pfcp_traffic_endpt_id_ie_t)
| IE_ethertype (v : pfcp_ethertype_ie_t)
| IE_proxying (v : pfcp_proxying_ie_t)
| IE_eth_fltr_id (v : pfcp_eth_fltr_id_ie_t)
| IE_eth_fltr_props (v : pfcp_eth_fltr_props_ie_t)
| IE_suggstd_buf_pckts_cnt (v : pfcp_suggstd_buf_pckts_cnt_ie_t)
| IE_eth_pdu_sess_info (v : pfcp_eth_pdu_sess_info_ie_t)
| IE_eth_inact_timer (v : pfcp_eth_inact_timer_ie_t)
| IE_sbsqnt_evnt_quota (v : pfcp_sbsqnt_evnt_quota_ie_t)
| IE_sbsqnt_evnt_thresh (v : pfcp_sbsqnt_evnt_thresh_ie_t)
| IE_trc_info (v : pfcp_trc_info_ie_t)
| IE_framed_route (v : pfcp_framed_route_ie_t)
| IE_framed_routing (v : pfcp_framed_routing_ie_t)
| IE_frmd_ipv6_route (v : pfcp_frmd_ipv6_route_ie_t)
| IE_event_quota (v : pfcp_event_quota_ie_t)
| IE_event_threshold (v : pfcp_event_threshold_ie_t)
| IE_evnt_time_stmp (v : pfcp_evnt_time_stmp_ie_t)
| IE_avgng_wnd (v : pfcp_avgng_wnd_ie_t)
| IE_paging_plcy_indctr (v : pfcp_paging_plcy_indctr_ie_t).

(** Encoding, decoding into a zeroed structure, and layout of any of them. *)
Definition regular_encode (i : regular_ie) : ie_encoder :=
  match i with
  | IE_cause v => encode_pfcp_cause_ie_t v
  | IE_src_intfc v => encode_pfcp_src_intfc_ie_t v
  | IE_gate_status v => encode_pfcp_gate_status_ie_t v
  | IE_mbr v => encode_pfcp_mbr_ie_t v
  | IE_gbr v => encode_pfcp_gbr_ie_t v
  | IE_qer_corr_id v => encode_pfcp_qer_corr_id_ie_t v
  | IE_precedence v => encode_pfcp_precedence_ie_t v
  | IE_trnspt_lvl_marking v => encode_pfcp_trnspt_lvl_marking_ie_t v
  | IE_time_threshold v => encode_pfcp_time_threshold_ie_t v
  | IE_monitoring_time v => encode_pfcp_monitoring_time_ie_t v
  | IE_sbsqnt_time_thresh v => encode_pfcp_sbsqnt_time_thresh_ie_t v
  | IE_inact_det_time v => encode_pfcp_inact_det_time_ie_t v
  | IE_rptng_triggers v => encode_pfcp_rptng_triggers_ie_t v
  | IE_redir_info v => encode_pfcp_redir_info_ie_t v
  | IE_report_type v => encode_pfcp_report_type_ie_t v
  | IE_offending_ie v => encode_pfcp_offending_ie_ie_t v
  | IE_frwdng_plcy v => encode_pfcp_frwdng_plcy_ie_t v
  | IE_dst_intfc v => encode_pfcp_dst_intfc_ie_t v
  | IE_apply_action v => encode_pfcp_apply_action_ie_t v
  | IE_dnlnk_data_svc_info v => encode_pfcp_dnlnk_data_svc_info_ie_t v
  | IE_dnlnk_data_notif_delay v => encode_pfcp_dnlnk_data_notif_delay_ie_t v
  | IE_dl_buf_dur v => encode_pfcp_dl_buf_dur_ie_t v
  | IE_dl_buf_suggstd_pckt_cnt v => encode_pfcp_dl_buf_suggstd_pckt_cnt_ie_t v
  | IE_pfcpsmreq_flags v => encode_pfcp_pfcpsmreq_flags_ie_t v
  | IE_pfcpsrrsp_flags v => encode_pfcp_pfcpsrrsp_flags_ie_t v
  | IE_sequence_number v => encode_pfcp_sequence_number_ie_t v
  | IE_metric v => encode_pfcp_metric_ie_t v
  | IE_timer v => encode_pfcp_timer_ie_t v
  | IE_pdr_id v => encode_pfcp_pdr_id_ie_t v
  | IE_meas_mthd v => encode_pfcp_meas_mthd_ie_t v
  | IE_usage_rpt_trig v => encode_pfcp_usage_rpt_trig_ie_t v
  | IE_meas_period v => encode_pfcp_meas_period_ie_t v
  | IE_dur_meas v => encode_pfcp_dur_meas_ie_t v
  | IE_time_of_frst_pckt v => encode_pfcp_time_of_frst_pckt_ie_t v
  | IE_time_of_lst_pckt v => encode_pfcp_time_of_lst_pckt_ie_t v
  | IE_quota_hldng_time v => encode_pfcp_quota_hldng_time_ie_t v
  | IE_time_quota v => encode_pfcp_time_quota_ie_t v
  | IE_start_time v => encode_pfcp_start_time_ie_t v
  | IE_end_time v => encode_pfcp_end_time_ie_t v
  | IE_urr_id v => encode_pfcp_urr_id_ie_t v
  | IE_linked_urr_id v => encode_pfcp_linked_urr_id_ie_t v
  | IE_bar_id v => encode_pfcp_bar_id_ie_t v
  | IE_cp_func_feat v => encode_pfcp_cp_func_feat_ie_t v
  | IE_usage_info v => encode_pfcp_usage_info_ie_t v
  | IE_app_inst_id v => encode_pfcp_app_inst_id_ie_t v
  | IE_flow_info v => encode_pfcp_flow_info_ie_t v
  | IE_outer_hdr_removal v => encode_pfcp_outer_hdr_removal_ie_t v
  | IE_rcvry_time_stmp v => encode_pfcp_rcvry_time_stmp_ie_t v
  | IE_hdr_enrchmt v => encode_pfcp_hdr_enrchmt_ie_t v
  | IE_meas_info v => encode_pfcp_meas_info_ie_t v
  | IE_node_rpt_type v => encode_pfcp_node_rpt_type_ie_t v
  | IE_urseqn v => encode_pfcp_urseqn_ie_t v
  | IE_deact_predef_rules v => encode_pfcp_deact_predef_rules_ie_t v
  | IE_far_id v => encode_pfcp_far_id_ie_t v
  | IE_qer_id v => encode_pfcp_qer_id_ie_t v
  | IE_oci_flags v => encode_pfcp_oci_flags_ie_t v
  | IE_up_assn_rel_req v => encode_pfcp_up_assn_rel_req_ie_t v
  | IE_graceful_rel_period v => encode_pfcp_graceful_rel_period_ie_t v
  | IE_pdn_type v => encode_pfcp_pdn_type_ie_t v
  | IE_time_quota_mech v => encode_pfcp_time_quota_mech_ie_t v
  | IE_user_plane_inact_timer v => encode_pfcp_user_plane_inact_timer_ie_t v
  | IE_multiplier v => encode_pfcp_multiplier_ie_t v
  | IE_agg_urr_id v => encode_pfcp_agg_urr_id_ie_t v
  | IE_sbsqnt_time_quota v => encode_pfcp_sbsqnt_time_quota_ie_t v
  | IE_rqi v => encode_pfcp_rqi_ie_t v
  | IE_qfi v => encode_pfcp_qfi_ie_t v
  | IE_query_urr_ref v => encode_pfcp_query_urr_ref_ie_t v
  | IE_add_usage_rpts_info v => encode_pfcp_add_usage_rpts_info_ie_t v
  | IE_traffic_endpt_id v => encode_pfcp_traffic_endpt_id_ie_t v
  | IE_ethertype v => encode_pfcp_ethertype_ie_t v
  | IE_proxying v => encode_pfcp_proxying_ie_t v
  | IE_eth_fltr_id v => encode_pfcp_eth_fltr_id_ie_t v
  | IE_eth_fltr_props v => encode_pfcp_eth_fltr_props_ie_t v
  | IE_suggstd_buf_pckts_cnt v => encode_pfcp_suggstd_buf_pckts_cnt_ie_t v
  | IE_eth_pdu_sess_info v => encode_pfcp_eth_pdu_sess_info_ie_t v
  | IE_eth_inact_timer v => encode_pfcp_eth_inact_timer_ie_t v
  | IE_sbsqnt_evnt_quota v => encode_pfcp_sbsqnt_evnt_quota_ie_t v
  | IE_sbsqnt_evnt_thresh v => encode_pfcp_sbsqnt_evnt_thresh_ie_t v
  | IE_trc_info v => encode_pfcp_trc_info_ie_t v
  | IE_framed_route v => encode_pfcp_framed_route_ie_t v
  | IE_framed_routing v => encode_pfcp_framed_routing_ie_t v
  | IE_frmd_ipv6_route v => encode_pfcp_frmd_ipv6_route_ie_t v
  | IE_event_quota v => encode_pfcp_event_quota_ie_t v
  | IE_event_threshold v => encode_pfcp_event_threshold_ie_t v
  | IE_evnt_time_stmp v => encode_pfcp_evnt_time_stmp_ie_t v
  | IE_avgng_wnd v => encode_pfcp_avgng_wnd_ie_t v
  | IE_paging_plcy_indctr v => encode_pfcp_paging_plcy_indctr_ie_t v
  end.

Definition regular_layout (i : regular_ie) : layout :=
  match i with
  | IE_cause v => layout_cause v
  | IE_src_intfc v => layout_src_intfc v
  | IE_gate_status v => layout_gate_status v
  | IE_mbr v => layout_mbr v
  | IE_gbr v => layout_gbr v
  | IE_qer_corr_id v => layout_qer_corr_id v
  | IE_precedence v => layout_precedence v
  | IE_trnspt_lvl_marking v => layout_trnspt_lvl_marking v
  | IE_time_threshold v => layout_time_threshold v
  | IE_monitoring_time v => layout_monitoring_time v
  | IE_sbsqnt_time_thresh v => layout_sbsqnt_time_thresh v
  | IE_inact_det_time v => layout_inact_det_time v
  | IE_rptng_triggers v => layout_rptng_triggers v
  | IE_redir_info v => layout_redir_info v
  | IE_report_type v => layout_report_type v
  | IE_offending_ie v => layout_offending_ie v
  | IE_frwdng_plcy v => layout_frwdng_plcy v
  | IE_dst_intfc v => layout_dst_intfc v
  | IE_apply_action v => layout_apply_action v
  | IE_dnlnk_data_svc_info v => layout_dnlnk_data_svc_info v
  | IE_dnlnk_data_notif_delay v => layout_dnlnk_data_notif_delay v
  | IE_dl_buf_dur v => layout_dl_buf_dur v
  | IE_dl_buf_suggstd_pckt_cnt v => layout_dl_buf_suggstd_pckt_cnt v
  | IE_pfcpsmreq_flags v => layout_pfcpsmreq_flags v
  | IE_pfcpsrrsp_flags v => layout_pfcpsrrsp_flags v
  | IE_sequence_number v => layout_sequence_number v
  | IE_metric v => layout_metric v
  | IE_timer v => layout_timer v
  | IE_pdr_id v => layout_pdr_id v
  | IE_meas_mthd v => layout_meas_mthd v
  | IE_usage_rpt_trig v => layout_usage_rpt_trig v
  | IE_meas_period v => layout_meas_period v
  | IE_dur_meas v => layout_dur_meas v
  | IE_time_of_frst_pckt v => layout_time_of_frst_pckt v
  | IE_time_of_lst_pckt v => layout_time_of_lst_pckt v
  | IE_quota_hldng_time v => layout_quota_hldng_time v
  | IE_time_quota v => layout_time_quota v
  | IE_start_time v => layout_start_time v
  | IE_end_time v => layout_end_time v
  | IE_urr_id v => layout_urr_id v
  | IE_linked_urr_id v => layout_linked_urr_id v
  | IE_bar_id v => layout_bar_id v
  | IE_cp_func_feat v => layout_cp_func_feat v
  | IE_usage_info v => layout_usage_info v
  | IE_app_inst_id v => layout_app_inst_id v
  | IE_flow_info v => layout_flow_info v
  | IE_outer_hdr_removal v => layout_outer_hdr_removal v
  | IE_rcvry_time_stmp v => layout_rcvry_time_stmp v
  | IE_hdr_enrchmt v => layout_hdr_enrchmt v
  | IE_meas_info v => layout_meas_info v
  | IE_node_rpt_type v => layout_node_rpt_type v
  | IE_urseqn v => layout_urseqn v
  | IE_deact_predef_rules v => layout_deact_predef_rules v
  | IE_far_id v => layout_far_id v
  | IE_qer_id v => layout_qer_id v
  | IE_oci_flags v => layout_oci_flags v
  | IE_up_assn_rel_req v => layout_up_assn_rel_req v
  | IE_graceful_rel_period v => layout_graceful_rel_period v
  | IE_pdn_type v => layout_pdn_type v
  | IE_time_quota_mech v => layout_time_quota_mech v
  | IE_user_plane_inact_timer v => layout_user_plane_inact_timer v
  | IE_multiplier v => layout_multiplier v
  | IE_agg_urr_id v => layout_agg_urr_id v
  | IE_sbsqnt_time_quota v => layout_sbsqnt_time_quota v
  | IE_rqi v => layout_rqi v
  | IE_qfi v => layout_qfi v
  | IE_query_urr_ref v => layout_query_urr_ref v
  | IE_add_usage_rpts_info v => layout_add_usage_rpts_info v
  | IE_traffic_endpt_id v => layout_traffic_endpt_id v
  | IE_ethertype v => layout_ethertype v
  | IE_proxying v => layout_proxying v
  | IE_eth_fltr_id v => layout_eth_fltr_id v
  | IE_eth_fltr_props v => layout_eth_fltr_props v
  | IE_suggstd_buf_pckts_cnt v => layout_suggstd_buf_pckts_cnt v
  | IE_eth_pdu_sess_info v => layout_eth_pdu_sess_info v
  | IE_eth_inact_timer v => layout_eth_inact_timer v
  | IE_sbsqnt_evnt_quota v => layout_sbsqnt_evnt_quota v
  | IE_sbsqnt_evnt_thresh v => layout_sbsqnt_evnt_thresh v
  | IE_trc_info v => layout_trc_info v
  | IE_framed_route v => layout_framed_route v
  | IE_framed_routing v => layout_framed_routing v
  | IE_frmd_ipv6_route v => layout_frmd_ipv6_route v
  | IE_event_quota v => layout_event_quota v
  | IE_event_threshold v => layout_event_threshold v
  | IE_evnt_time_stmp v => layout_evnt_time_stmp v
  | IE_avgng_wnd v => layout_avgng_wnd v
  | IE_paging_plcy_indctr v => layout_paging_plcy_indctr v
  end.

(** The byte count and the value read by the decoder of the same type. *)
Definition regular_decode (i : regular_ie) (buf : list Z) : option (Z * regular_ie) :=
  match i with
  | IE_cause _ => '(k, x) ← decode_pfcp_cause_ie_t zero_cause buf; Some (k, IE_cause x)
  | IE_src_intfc _ => '(k, x) ← decode_pfcp_src_intfc_ie_t zero_src_intfc buf; Some (k, IE_src_intfc x)
  | IE_gate_status _ => '(k, x) ← decode_pfcp_gate_status_ie_t zero_gate_status buf; Some (k, IE_gate_status x)
  | IE_mbr _ => '(k, x) ← decode_pfcp_mbr_ie_t zero_mbr buf; Some (k, IE_mbr x)
  | IE_gbr _ => '(k, x) ← decode_pfcp_gbr_ie_t zero_gbr buf; Some (k, IE_gbr x)
  | IE_qer_corr_id _ => '(k, x) ← decode_pfcp_qer_corr_id_ie_t zero_qer_corr_id buf; Some (k, IE_qer_corr_id x)
  | IE_precedence _ => '(k, x) ← decode_pfcp_precedence_ie_t zero_precedence buf; Some (k, IE_precedence x)
  | IE_trnspt_lvl_marking _ => '(k, x) ← decode_pfcp_trnspt_lvl_marking_ie_t zero_trnspt_lvl_marking buf; Some (k, IE_trnspt_lvl_marking x)
  | IE_time_threshold _ => '(k, x) ← decode_pfcp_time_threshold_ie_t zero_time_threshold buf; Some (k, IE_time_threshold x)
  | IE_monitoring_time _ => '(k, x) ← decode_pfcp_monitoring_time_ie_t zero_monitoring_time buf; Some (k, IE_monitoring_time x)
  | IE_sbsqnt_time_thresh _ => '(k, x) ← decode_pfcp_sbsqnt_time_thresh_ie_t zero_sbsqnt_time_thresh buf; Some (k, IE_sbsqnt_time_thresh x)
  | IE_inact_det_time _ => '(k, x) ← decode_pfcp_inact_det_time_ie_t zero_inact_det_time buf; Some (k, IE_inact_det_time x)
  | IE_rptng_triggers _ => '(k, x) ← decode_pfcp_rptng_triggers_ie_t zero_rptng_triggers buf; Some (k, IE_rptng_triggers x)
  | IE_redir_info _ => '(k, x) ← decode_pfcp_redir_info_ie_t zero_redir_info buf; Some (k, IE_redir_info x)
  | IE_report_type _ => '(k, x) ← decode_pfcp_report_type_ie_t zero_report_type buf; Some (k, IE_report_type x)
  | IE_offending_ie _ => '(k, x) ← decode_pfcp_offending_ie_ie_t zero_offending_ie buf; Some (k, IE_offending_ie x)
  | IE_frwdng_plcy _ => '(k, x) ← decode_pfcp_frwdng_plcy_ie_t zero_frwdng_plcy buf; Some (k, IE_frwdng_plcy x)
  | IE_dst_intfc _ => '(k, x) ← decode_pfcp_dst_intfc_ie_t zero_dst_intfc buf; Some (k, IE_dst_intfc x)
  | IE_apply_action _ => '(k, x) ← decode_pfcp_apply_action_ie_t zero_apply_action buf; Some (k, IE_apply_action x)
  | IE_dnlnk_data_svc_info _ => '(k, x) ← decode_pfcp_dnlnk_data_svc_info_ie_t zero_dnlnk_data_svc_info buf; Some (k, IE_dnlnk_data_svc_info x)
  | IE_dnlnk_data_notif_delay _ => '(k, x) ← decode_pfcp_dnlnk_data_notif_delay_ie_t zero_dnlnk_data_notif_delay buf; Some (k, IE_dnlnk_data_notif_delay x)
  | IE_dl_buf_dur _ => '(k, x) ← decode_pfcp_dl_buf_dur_ie_t zero_dl_buf_dur buf; Some (k, IE_dl_buf_dur x)
  | IE_dl_buf_suggstd_pckt_cnt _ => '(k, x) ← decode_pfcp_dl_buf_suggstd_pckt_cnt_ie_t zero_dl_buf_suggstd_pckt_cnt buf; Some (k, IE_dl_buf_suggstd_pckt_cnt x)
  | IE_pfcpsmreq_flags _ => '(k, x) ← decode_pfcp_pfcpsmreq_flags_ie_t zero_pfcpsmreq_flags buf; Some (k, IE_pfcpsmreq_flags x)
  | IE_pfcpsrrsp_flags _ => '(k, x) ← decode_pfcp_pfcpsrrsp_flags_ie_t zero_pfcpsrrsp_flags buf; Some (k, IE_pfcpsrrsp_flags x)
  | IE_sequence_number _ => '(k, x) ← decode_pfcp_sequence_number_ie_t zero_sequence_number buf; Some (k, IE_sequence_number x)
  | IE_metric _ => '(k, x) ← decode_pfcp_metric_ie_t zero_metric buf; Some (k, IE_metric x)
  | IE_timer _ => '(k, x) ← decode_pfcp_timer_ie_t zero_timer buf; Some (k, IE_timer x)
  | IE_pdr_id _ => '(k, x) ← decode_pfcp_pdr_id_ie_t zero_pdr_id buf; Some (k, IE_pdr_id x)
  | IE_meas_mthd _ => '(k, x) ← decode_pfcp_meas_mthd_ie_t zero_meas_mthd buf; Some (k, IE_meas_mthd x)
  | IE_usage_rpt_trig _ => '(k, x) ← decode_pfcp_usage_rpt_trig_ie_t zero_usage_rpt_trig buf; Some (k, IE_usage_rpt_trig x)
  | IE_meas_period _ => '(k, x) ← decode_pfcp_meas_period_ie_t zero_meas_period buf; Some (k, IE_meas_period x)
  | IE_dur_meas _ => '(k, x) ← decode_pfcp_dur_meas_ie_t zero_dur_meas buf; Some (k, IE_dur_meas x)
  | IE_time_of_frst_pckt _ => '(k, x) ← decode_pfcp_time_of_frst_pckt_ie_t zero_time_of_frst_pckt buf; Some (k, IE_time_of_frst_pckt x)
  | IE_time_of_lst_pckt _ => '(k, x) ← decode_pfcp_time_of_lst_pckt_ie_t zero_time_of_lst_pckt buf; Some (k, IE_time_of_lst_pckt x)
  | IE_quota_hldng_time _ => '(k, x) ← decode_pfcp_quota_hldng_time_ie_t zero_quota_hldng_time buf; Some (k, IE_quota_hldng_time x)
  | IE_time_quota _ => '(k, x) ← decode_pfcp_time_quota_ie_t zero_time_quota buf; Some (k, IE_time_quota x)
  | IE_start_time _ => '(k, x) ← decode_pfcp_start_time_ie_t zero_start_time buf; Some (k, IE_start_time x)
  | IE_end_time _ => '(k, x) ← decode_pfcp_end_time_ie_t zero_end_time buf; Some (k, IE_end_time x)
  | IE_urr_id _ => '(k, x) ← decode_pfcp_urr_id_ie_t zero_urr_id buf; Some (k, IE_urr_id x)
  | IE_linked_urr_id _ => '(k, x) ← decode_pfcp_linked_urr_id_ie_t zero_linked_urr_id buf; Some (k, IE_linked_urr_id x)
  | IE_bar_id _ => '(k, x) ← decode_pfcp_bar_id_ie_t zero_bar_id buf; Some (k, IE_bar_id x)
  | IE_cp_func_feat _ => '(k, x) ← decode_pfcp_cp_func_feat_ie_t zero_cp_func_feat buf; Some (k, IE_cp_func_feat x)
  | IE_usage_info _ => '(k, x) ← decode_pfcp_usage_info_ie_t zero_usage_info buf; Some (k, IE_usage_info x)
  | IE_app_inst_id _ => '(k, x) ← decode_pfcp_app_inst_id_ie_t zero_app_inst_id buf; Some (k, IE_app_inst_id x)
  | IE_flow_info _ => '(k, x) ← decode_pfcp_flow_info_ie_t zero_flow_info buf; Some (k, IE_flow_info x)
  | IE_outer_hdr_removal _ => '(k, x) ← decode_pfcp_outer_hdr_removal_ie_t zero_outer_hdr_removal buf; Some (k, IE_outer_hdr_removal x)
  | IE_rcvry_time_stmp _ => '(k, x) ← decode_pfcp_rcvry_time_stmp_ie_t zero_rcvry_time_stmp buf; Some (k, IE_rcvry_time_stmp x)
  | IE_hdr_enrchmt _ => '(k, x) ← decode_pfcp_hdr_enrchmt_ie_t zero_hdr_enrchmt buf; Some (k, IE_hdr_enrchmt x)
  | IE_meas_info _ => '(k, x) ← decode_pfcp_meas_info_ie_t zero_meas_info buf; Some (k, IE_meas_info x)
  | IE_node_rpt_type _ => '(k, x) ← decode_pfcp_node_rpt_type_ie_t zero_node_rpt_type buf; Some (k, IE_node_rpt_type x)
  | IE_urseqn _ => '(k, x) ← decode_pfcp_urseqn_ie_t zero_urseqn buf; Some (k, IE_urseqn x)
  | IE_deact_predef_rules _ => '(k, x) ← decode_pfcp_deact_predef_rules_ie_t zero_deact_predef_rules buf; Some (k, IE_deact_predef_rules x)
  | IE_far_id _ => '(k, x) ← decode_pfcp_far_id_ie_t zero_far_id buf; Some (k, IE_far_id x)
  | IE_qer_id _ => '(k, x) ← decode_pfcp_qer_id_ie_t zero_qer_id buf; Some (k, IE_qer_id x)
  | IE_oci_flags _ => '(k, x) ← decode_pfcp_oci_flags_ie_t zero_oci_flags buf; Some (k, IE_oci_flags x)
  | IE_up_assn_rel_req _ => '(k, x) ← decode_pfcp_up_assn_rel_req_ie_t zero_up_assn_rel_req buf; Some (k, IE_up_assn_rel_req x)
  | IE_graceful_rel_period _ => '(k, x) ← decode_pfcp_graceful_rel_period_ie_t zero_graceful_rel_period buf; Some (k, IE_graceful_rel_period x)
  | IE_pdn_type _ => '(k, x) ← decode_pfcp_pdn_type_ie_t zero_pdn_type buf; Some (k, IE_pdn_type x)
  | IE_time_quota_mech _ => '(k, x) ← decode_pfcp_time_quota_mech_ie_t zero_time_quota_mech buf; Some (k, IE_time_quota_mech x)
  | IE_user_plane_inact_timer _ => '(k, x) ← decode_pfcp_user_plane_inact_timer_ie_t zero_user_plane_inact_timer buf; Some (k, IE_user_plane_inact_timer x)
  | IE_multiplier _ => '(k, x) ← decode_pfcp_multiplier_ie_t zero_multiplier buf; Some (k, IE_multiplier x)
  | IE_agg_urr_id _ => '(k, x) ← decode_pfcp_agg_urr_id_ie_t zero_agg_urr_id buf; Some (k, IE_agg_urr_id x)
  | IE_sbsqnt_time_quota _ => '(k, x) ← decode_pfcp_sbsqnt_time_quota_ie_t zero_sbsqnt_time_quota buf; Some (k, IE_sbsqnt_time_quota x)
  | IE_rqi _ => '(k, x) ← decode_pfcp_rqi_ie_t zero_rqi buf; Some (k, IE_rqi x)
  | IE_qfi _ => '(k, x) ← decode_pfcp_qfi_ie_t zero_qfi buf; Some (k, IE_qfi x)
  | IE_query_urr_ref _ => '(k, x) ← decode_pfcp_query_urr_ref_ie_t zero_query_urr_ref buf; Some (k, IE_query_urr_ref x)
  | IE_add_usage_rpts_info _ => '(k, x) ← decode_pfcp_add_usage_rpts_info_ie_t zero_add_usage_rpts_info buf; Some (k, IE_add_usage_rpts_info x)
  | IE_traffic_endpt_id _ => '(k, x) ← decode_pfcp_traffic_endpt_id_ie_t zero_traffic_endpt_id buf; Some (k, IE_traffic_endpt_id x)
  | IE_ethertype _ => '(k, x) ← decode_pfcp_ethertype_ie_t zero_ethertype buf; Some (k, IE_ethertype x)
  | IE_proxying _ => '(k, x) ← decode_pfcp_proxying_ie_t zero_proxying buf; Some (k, IE_proxying x)
  | IE_eth_fltr_id _ => '(k, x) ← decode_pfcp_eth_fltr_id_ie_t zero_eth_fltr_id buf; Some (k, IE_eth_fltr_id x)
  | IE_eth_fltr_props _ => '(k, x) ← decode_pfcp_eth_fltr_props_ie_t zero_eth_fltr_props buf; Some (k, IE_eth_fltr_props x)
  | IE_suggstd_buf_pckts_cnt _ => '(k, x) ← decode_pfcp_suggstd_buf_pckts_cnt_ie_t zero_suggstd_buf_pckts_cnt buf; Some (k, IE_suggstd_buf_pckts_cnt x)
  | IE_eth_pdu_sess_info _ => '(k, x) ← decode_pfcp_eth_pdu_sess_info_ie_t zero_eth_pdu_sess_info buf; Some (k, IE_eth_pdu_sess_info x)
  | IE_eth_inact_timer _ => '(k, x) ← decode_pfcp_eth_inact_timer_ie_t zero_eth_inact_timer buf; Some (k, IE_eth_inact_timer x)
  | IE_sbsqnt_evnt_quota _ => '(k, x) ← decode_pfcp_sbsqnt_evnt_quota_ie_t zero_sbsqnt_evnt_quota buf; Some (k, IE_sbsqnt_evnt_quota x)
  | IE_sbsqnt_evnt_thresh _ => '(k, x) ← decode_pfcp_sbsqnt_evnt_thresh_ie_t zero_sbsqnt_evnt_thresh buf; Some (k, IE_sbsqnt_evnt_thresh x)
  | IE_trc_info _ => '(k, x) ← decode_pfcp_trc_info_ie_t zero_trc_info buf; Some (k, IE_trc_info x)
  | IE_framed_route _ => '(k, x) ← decode_pfcp_framed_route_ie_t zero_framed_route buf; Some (k, IE_framed_route x)
  | IE_framed_routing _ => '(k, x) ← decode_pfcp_framed_routing_ie_t zero_framed_routing buf; Some (k, IE_framed_routing x)
  | IE_frmd_ipv6_route _ => '(k, x) ← decode_pfcp_frmd_ipv6_route_ie_t zero_frmd_ipv6_route buf; Some (k, IE_frmd_ipv6_route x)
  | IE_event_quota _ => '(k, x) ← decode_pfcp_event_quota_ie_t zero_event_quota buf; Some (k, IE_event_quota x)
  | IE_event_threshold _ => '(k, x) ← decode_pfcp_event_threshold_ie_t zero_event_threshold buf; Some (k, IE_event_threshold x)
  | IE_evnt_time_stmp _ => '(k, x) ← decode_pfcp_evnt_time_stmp_ie_t zero_evnt_time_stmp buf; Some (k, IE_evnt_time_stmp x)
  | IE_avgng_wnd _ => '(k, x) ← decode_pfcp_avgng_wnd_ie_t zero_avgng_wnd buf; Some (k, IE_avgng_wnd x)
  | IE_paging_plcy_indctr _ => '(k, x) ← decode_pfcp_paging_plcy_indctr_ie_t zero_paging_plcy_indctr buf; Some (k, IE_paging_plcy_indctr x)
  end.

(** 8 when the encoder of the type returns bytes, 1 when it returns bits. *)
Definition regular_unit (i : regular_ie) : Z :=
  match i with
  | IE_cause _ => 8
  | IE_src_intfc _ => 1
  | IE_gate_status _ => 1
  | IE_mbr _ => 1
  | IE_gbr _ => 1
  | IE_qer_corr_id _ => 1
  | IE_precedence _ => 1
  | IE_trnspt_lvl_marking _ => 8
  | IE_time_threshold _ => 1
  | IE_monitoring_time _ => 1
  | IE_sbsqnt_time_thresh _ => 1
  | IE_inact_det_time _ => 1
  | IE_rptng_triggers _ => 1
  | IE_redir_info _ => 8
  | IE_report_type _ => 8
  | IE_offending_ie _ => 8
  | IE_frwdng_plcy _ => 8
  | IE_dst_intfc _ => 1
  | IE_apply_action _ => 1
  | IE_dnlnk_data_svc_info _ => 1
  | IE_dnlnk_data_notif_delay _ => 1
  | IE_dl_buf_dur _ => 8
  | IE_dl_buf_suggstd_pckt_cnt _ => 8
  | IE_pfcpsmreq_flags _ => 8
  | IE_pfcpsrrsp_flags _ => 8
  | IE_sequence_number _ => 8
  | IE_metric _ => 8
  | IE_timer _ => 8
  | IE_pdr_id _ => 1
  | IE_meas_mthd _ => 1
  | IE_usage_rpt_trig _ => 8
  | IE_meas_period _ => 1
  | IE_dur_meas _ => 8
  | IE_time_of_frst_pckt _ => 8
  | IE_time_of_lst_pckt _ => 8
  | IE_quota_hldng_time _ => 1
  | IE_time_quota _ => 1
  | IE_start_time _ => 8
  | IE_end_time _ => 8
  | IE_urr_id _ => 1
  | IE_linked_urr_id _ => 1
  | IE_bar_id _ => 1
  | IE_cp_func_feat _ => 8
  | IE_usage_info _ => 8
  | IE_app_inst_id _ => 8
  | IE_flow_info _ => 8
  | IE_outer_hdr_removal _ => 1
  | IE_rcvry_time_stmp _ => 8
  | IE_hdr_enrchmt _ => 8
  | IE_meas_info _ => 1
  | IE_node_rpt_type _ => 8
  | IE_urseqn _ => 8
  | IE_deact_predef_rules _ => 8
  | IE_far_id _ => 1
  | IE_qer_id _ => 1
  | IE_oci_flags _ => 8
  | IE_up_assn_rel_req _ => 8
  | IE_graceful_rel_period _ => 8
  | IE_pdn_type _ => 8
  | IE_time_quota_mech _ => 1
  | IE_user_plane_inact_timer _ => 8
  | IE_multiplier _ => 8
  | IE_agg_urr_id _ => 8
  | IE_sbsqnt_time_quota _ => 1
  | IE_rqi _ => 1
  | IE_qfi _ => 1
  | IE_query_urr_ref _ => 8
  | IE_add_usage_rpts_info _ => 8
  | IE_traffic_endpt_id _ => 1
  | IE_ethertype _ => 8
  | IE_proxying _ => 8
  | IE_eth_fltr_id _ => 8
  | IE_eth_fltr_props _ => 8
  | IE_suggstd_buf_pckts_cnt _ => 1
  | IE_eth_pdu_sess_info _ => 1
  | IE_eth_inact_timer _ => 1
  | IE_sbsqnt_evnt_quota _ => 1
  | IE_sbsqnt_evnt_thresh _ => 1
  | IE_trc_info _ => 8
  | IE_framed_route _ => 8
  | IE_framed_routing _ => 1
  | IE_frmd_ipv6_route _ => 8
  | IE_event_quota _ => 1
  | IE_event_threshold _ => 1
  | IE_evnt_time_stmp _ => 8
  | IE_avgng_wnd _ => 1
  | IE_paging_plcy_indctr _ => 1
  end.

(** The interface, for all of them. *)
Lemma regular_encodes i : encodes (regular_encode i) (regular_layout i) (size (regular_layout i) / regular_unit i).
Proof. destruct i; exact (ie_encodes v). Qed.

Lemma regular_decodes i buf post :
  layout_ok (regular_layout i) -> holds buf (wbits (regular_layout i) ++ post) ->
  size (regular_layout i) < 65536 ->
  regular_decode i buf = Some (size (regular_layout i) / 8, i).
Proof.
  destruct i; intros Hok Hh Hs; unfold regular_decode;
    match goal with |- context [?f ?z buf] =>
      assert (f z buf = Some (size (ie_layout v) / 8, v)) as -> by exact (ie_decodes v z Hok buf post Hh Hs)
    end; done.
Qed.
