(* ===== verification/PfcpIesOptional.v ===== *)
(** * Layouts of the PFCP elements with optional and variable parts

    The elements the session procedures depend on most: the message header, the
    node id, F-SEID, F-TEID and the outer header creation.  As for the regular
    elements, [encodes] and [decodes] of a common layout; where the encoder and
    the decoder differ, the layout says what the decoder makes of the bytes. *)

From S2P Require Import Prelude EncDecBits Codec CodecSpec PfcpIes PfcpIesEncoder PfcpIesDecoder PfcpIesSpec.

(** ** The message header *)

Definition layout_header (h : pfcp_header_t) : layout :=
  [(3, h.(header_version)); (3, h.(header_spare)); (1, h.(header_mp)); (1, h.(header_s));
   (8, h.(header_message_type)); (16, h.(header_message_len))] ++
  match h.(header_seid_seqno) with
  | inl x => [(64, x.(hs_seid)); (24, x.(hs_seq_no)); (4, x.(hs_spare)); (4, x.(hs_message_prio))]
  | inr x => [(24, x.(ns_seq_no)); (8, x.(ns_spare))]
  end.

(** The flag says which member of the union is in use. *)
Definition header_tagged (h : pfcp_header_t) : Prop :=
  match h.(header_seid_seqno) with inl _ => h.(header_s) = 1 | inr _ => h.(header_s) = 0 end.

Lemma header_encodes h : header_tagged h ->
  encodes (encode_pfcp_header_t h) (layout_header h) (size (layout_header h) / 8).
Proof.
  intros Ht. apply encodes_bytes. unfold layout_header, header_tagged in *.
  destruct h as [s mp sp ver ty len [x|x]]; cbn in *; subst s; cbn; repeat emit_step.
Qed.

Lemma header_decodes h : header_tagged h -> layout_ok (layout_header h) ->
  decodes decode_pfcp_header_t (layout_header h) (size (layout_header h) / 8) h.
Proof.
  intros Ht H. apply decodes_bytes. unfold layout_header, header_tagged in *.
  destruct h as [s mp sp ver ty len u]; cbn -[layout_ok] in Ht, H |- *.
  do 6 read_step H. destruct u as [[]|[]]; subst s; cbn;
    (rewrite <- (app_nil_r (_ :: _)); eapply reads_bind; [repeat read_step H|reflexivity|apply reads_ret]).
Qed.

(** ** Node id, IPv4 form *)

Definition layout_node_id (v : pfcp_node_id_ie_t) : layout :=
  layout_ie_header v.(node_id_header) ++
  [(4, v.(node_id_spare)); (4, v.(node_id_type))] ++ octets (take 4 v.(node_id_value)).

(** An IPv4 node id as the control plane builds it: type 0, length 5, the address
    in the first four bytes of the value. *)
Definition node_id_ipv4 (v : pfcp_node_id_ie_t) : Prop :=
  v.(node_id_type) = 0 ∧ v.(node_id_header).(ie_len) = 5 ∧ length v.(node_id_value) = 8%nat ∧
  drop 4 v.(node_id_value) = repeat 0 4.

Lemma node_id_encodes v : node_id_ipv4 v -> bytes_ok v.(node_id_value) ->
  encodes (encode_pfcp_node_id_ie_t v) (layout_node_id v) 9.
Proof.
  intros (Ht & Hlen & Hn & _) Hb. assert (size (layout_node_id v) / 8 = 9) as <-.
  { unfold layout_node_id. rewrite !size_app, size_octets, length_take, Hn. done. }
  apply encodes_bytes, emits_ie_header. rewrite Ht. do 2 emit_step. cbn [enc_when].
  apply (emits_putmem_prefix _ 4); [done|lia].
Qed.

Lemma node_id_decodes v : node_id_ipv4 v -> bytes_ok v.(node_id_value) -> layout_ok (layout_node_id v) ->
  decodes (decode_pfcp_node_id_ie_t zero_node_id) (layout_node_id v) 9 v.
Proof.
  intros (Ht & Hlen & Hn & Hz) Hb H. assert (size (layout_node_id v) / 8 = 9) as <-.
  { unfold layout_node_id. rewrite !size_app, size_octets, length_take, Hn. done. }
  destruct v as [h sp ty val]; unfold layout_node_id in *;
    cbn [node_id_header node_id_spare node_id_type node_id_value app] in *.
  apply layout_ok_app in H as [Hh H]. apply decodes_bytes, reads_ie_header; [exact Hh|].
  do 2 read_step H. rewrite Hlen. assert (length (take 4 val) = 4%nat) as L by (rewrite length_take; lia).
  replace (5 - 1) with (Z.of_nat (length (take 4 val))) by (rewrite L; lia).
  rewrite <- (app_nil_r (octets _)). eapply reads_getmem_into; [by apply Forall_take| |rewrite L; cbn; lia|].
  { apply (holds_zero 8). }
  rewrite L. change (drop 4 (node_id_value zero_node_id)) with (repeat 0 4). rewrite <- Hz, take_drop. apply reads_ret.
Qed.

(** ** F-SEID *)

Definition layout_fseid (v : pfcp_fseid_ie_t) : layout :=
  layout_ie_header v.(fseid_header) ++
  [(1, v.(fseid_spare)); (1, v.(fseid_spare2)); (1, v.(fseid_spare3)); (1, v.(fseid_spare4));
   (1, v.(fseid_spare5)); (1, v.(fseid_spare6)); (1, v.(fseid_v4)); (1, v.(fseid_v6));
   (64, v.(fseid_seid))] ++
  (if nz v.(fseid_v4) then octets (le_bytes 4 v.(fseid_ipv4_address)) else []) ++
  (if nz v.(fseid_v6) then octets v.(fseid_ipv6_address) else []).

(** A parameter of the structure that is not sent is zero. *)
Definition fseid_addresses (v : pfcp_fseid_ie_t) : Prop :=
  0 <= v.(fseid_ipv4_address) < 2 ^ 32 ∧
  length v.(fseid_ipv6_address) = 16%nat ∧ bytes_ok v.(fseid_ipv6_address) ∧
  (nz v.(fseid_v4) = false -> v.(fseid_ipv4_address) = 0) ∧
  (nz v.(fseid_v6) = false -> v.(fseid_ipv6_address) = repeat 0 16).

Lemma fseid_encodes v : fseid_addresses v ->
  encodes (encode_pfcp_fseid_ie_t v) (layout_fseid v) (size (layout_fseid v) / 8).
Proof.
  intros (_ & Hl & Hb & _). apply encodes_bytes, emits_ie_header. cbn [app]. do 9 emit_step.
  apply emits_opt; [intros _; apply emits_putmem; [apply bytes_ok_le_bytes|done]|apply size_octets8|].
  apply emits_when. intros _. apply emits_putmem; [done|by rewrite Hl].
Qed.

Lemma fseid_decodes v : fseid_addresses v -> layout_ok (layout_fseid v) ->
  decodes (decode_pfcp_fseid_ie_t zero_fseid) (layout_fseid v) (size (layout_fseid v) / 8) v.
Proof.
  intros (H4 & Hl & Hb & Z4 & Z6) H. unfold layout_fseid in *.
  apply layout_ok_app in H as [Hh H]. apply layout_ok_app in H as [H _].
  apply decodes_bytes, reads_ie_header; [exact Hh|]. destruct v; cbn -[le_bytes octets repeat] in *.
  do 9 read_step H. eapply reads_opt; [intros _; by apply reads_le4|done|apply size_octets8|].
  rewrite <- (app_nil_r (if nz _ then _ else _)).
  eapply reads_opt; [intros _; apply reads_mem; [done|by rewrite Hl]|done|apply size_octets8|].
  apply reads_ret.
Qed.

(** ** F-TEID with an IPv4 address *)

(** The encoder sends the tunnel id most significant byte first. *)
Definition layout_fteid (v : pfcp_fteid_ie_t) : layout :=
  layout_ie_header v.(fteid_header) ++
  [(4, v.(fteid_spare)); (1, v.(fteid_chid)); (1, v.(fteid_ch)); (1, v.(fteid_v6)); (1, v.(fteid_v4));
   (32, v.(fteid_teid))] ++ octets (le_bytes 4 v.(fteid_ipv4_address)).

Definition fteid_ipv4 (v : pfcp_fteid_ie_t) : Prop :=
  v.(fteid_ch) = 0 ∧ v.(fteid_v6) = 0 ∧ v.(fteid_v4) = 1 ∧ 0 <= v.(fteid_ipv4_address) < 2 ^ 32.

(** The value of [v] with its four bytes in the other order. *)
Definition bswap32 (v : Z) : Z := of_le_bytes (rev (le_bytes 4 v)).

Lemma fteid_encodes v : fteid_ipv4 v -> encodes (encode_pfcp_fteid_ie_t v) (layout_fteid v) 104.
Proof.
  intros (Hc & H6 & H4 & Ha). assert (size (layout_fteid v) / 1 = 104) as <- by done.
  apply encodes_bits, emits_ie_header. cbn [app]. rewrite Hc, H6, H4. do 5 emit_step.
  cbn -[le_bytes octets]. emit_step. rewrite <- (app_nil_r (octets _)).
  eapply emits_seq; [apply emits_putmem; [apply bytes_ok_le_bytes|done]|by rewrite Z.add_0_l, size_octets8|].
  rewrite <- (app_nil_l []). eapply emits_seq; [apply emits_skip|done|apply emits_skip].
Qed.

Lemma reads_be32_as_memory v :
  reads 0 (l ← getmem 4; mret (of_le_bytes l)) [(32, v)] (bswap32 v).
Proof.
  assert (reads 0 (l ← getmem 4; mret (of_le_bytes l)) (octets (rev (le_bytes 4 v)) ++ []) (bswap32 v)) as E.
  { eapply reads_getmem; [apply Forall_rev, bytes_ok_le_bytes|by rewrite length_rev|apply reads_ret]. }
  intros buf pre post t d Hh Ht Ha Hs. rewrite app_nil_r in E.
  destruct (E buf pre post t d) as (d' & E'); auto.
  { by rewrite <- wbits_be32. }
  exists d'. rewrite E'. unfold size. by rewrite wbits_be32.
Qed.

(** [reads] for a decoder that also looks at the fields [P] behind its own. *)
Definition reads_before {A} (a : Z) (m : dec A) (L P : layout) (x : A) : Prop :=
  ∀ buf pre post t d, holds buf (pre ++ wbits L ++ wbits P ++ post) -> Z.of_nat (length pre) = t ->
    t mod 8 = a -> t + size L < 65536 ->
    ∃ d', m buf (t, d) = Some (x, (t + size L, d')).

Lemma reads_bind_before {A B} a a' (m : dec A) (k : A -> dec B) L1 L2 P x y :
  reads a m L1 x -> a' = (a + size L1) mod 8 -> reads_before a' (k x) L2 P y ->
  reads_before a (m ≫= k) (L1 ++ L2) P y.
Proof.
  intros H1 -> H2 buf pre post t d Hh Ht Ha Hs. rewrite size_app in *.
  pose proof (size_nonneg L1). pose proof (size_nonneg L2).
  rewrite wbits_app, <- app_assoc in Hh.
  destruct (H1 buf pre (wbits L2 ++ wbits P ++ post) t d) as (d1 & E1); auto; [lia|].
  destruct (H2 buf (pre ++ wbits L1) post (t + size L1) d1) as (d2 & E2); try lia.
  { by rewrite <- app_assoc. } { rewrite length_app. unfold size. lia. }
  { rewrite <- Ha. by rewrite Zplus_mod_idemp_l. }
  exists d2. unfold mbind, dec_bind. rewrite E1, E2. do 3 f_equal; lia.
Qed.

Lemma reads_before_ret {A B} a (m : dec A) (k : A -> dec B) L P x y :
  reads_before a m L P x -> (∀ a', reads a' (k x) [] y) -> reads_before a (m ≫= k) L P y.
Proof.
  intros H1 H2 buf pre post t d Hh Ht Ha Hs.
  destruct (H1 buf pre post t d) as (d1 & E1); auto.
  destruct (H2 ((t + size L) mod 8) buf (pre ++ wbits L) (wbits P ++ post) (t + size L) d1) as (d2 & E2);
    rewrite ?size_nil; try done; try lia.
  { by rewrite <- app_assoc. } { rewrite length_app. unfold size. lia. }
  exists d2. unfold mbind, dec_bind. rewrite E1, E2, size_nil. do 3 f_equal; lia.
Qed.

Lemma dec_bytes_reads_before {A} (m : dec A) L P x buf post :
  reads_before 0 m L P x -> holds buf (wbits L ++ wbits P ++ post) -> size L < 65536 ->
  dec_bytes m buf = Some (size L / 8, x).
Proof.
  intros H Hh Hs. destruct (H buf [] post 0 0) as (d & E); auto. unfold dec_bytes. by obind E.
Qed.

(** A copy of the bytes [a ++ b], after which the counter moves over [a] only. *)
Lemma reads_mem_over {A} a b n m (k : list Z -> A) :
  bytes_ok a -> bytes_ok b -> n = Z.of_nat (length (a ++ b)) -> m = Z.of_nat (length a) ->
  reads_before 0 (l ← dmem n; _ ← advance (m * 8); mret (k l)) (octets a) (octets b) (k (a ++ b)).
Proof.
  intros Ha Hb -> -> buf pre post t d Hh Ht H8 Hs. exists d. rewrite size_octets in *.
  rewrite (app_assoc (wbits (octets a))), <- wbits_app in Hh. unfold octets in Hh at 1 2.
  rewrite <- map_app in Hh. fold (octets (a ++ b)) in Hh. pose proof Hh as (Hk & Hl & _).
  rewrite !length_app in Hl. pose proof (size_octets (a ++ b)) as Hn. unfold size in Hn.
  rewrite length_app in Hn. rewrite length_app. unfold mbind, dec_bind, dmem.
  rewrite (proj2 (Z.leb_le 0 _)) by lia. rewrite memcpy_take by (auto; divlia).
  rewrite Nat2Z.id, <- length_app. cbn.
  rewrite (octets_take _ (a ++ b) post);
    [|by apply Forall_app_2|apply (holds_drop _ pre); [done|divlia]].
  rewrite uwrap_small by lia. unfold mret, dec_ret. do 3 f_equal; lia.
Qed.

(** What the decoder makes of an F-TEID that is followed by twelve bytes [more]:
    the tunnel id with its bytes reversed, and [more] in the IPv6 address. *)
Definition fteid_received (v : pfcp_fteid_ie_t) (more : list Z) : pfcp_fteid_ie_t :=
  mk_fteid v.(fteid_header) v.(fteid_spare) v.(fteid_chid) v.(fteid_ch) v.(fteid_v6) v.(fteid_v4)
    (bswap32 v.(fteid_teid)) v.(fteid_ipv4_address) (more ++ repeat 0 4) 0.

Lemma reads_ie_header1 h : layout_ok (layout_ie_header h) ->
  reads 0 (dcall decode_pfcp_ie_header_t) (layout_ie_header h) h.
Proof.
  intros Hok buf pre post t d Hh Ht Ha Hs.
  destruct (reads_ie_header h mret [] h Hok (reads_ret 0 h) buf pre post t d) as (d' & E);
    rewrite ?app_nil_r in *; auto.
  exists d'. rewrite <- E. unfold mbind, dec_bind. by destruct (dcall _ _ _) as [[]|].
Qed.

(** One step of a decoder, run. *)
Lemma reads_run {A B} a (m : dec A) (k : A -> dec B) L x buf pre post t d :
  reads a m L x -> holds buf (pre ++ wbits L ++ post) -> Z.of_nat (length pre) = t ->
  t mod 8 = a -> t + size L < 65536 ->
  ∃ d', (m ≫= k) buf (t, d) = k x buf (t + size L, d').
Proof.
  intros H Hh Ht Ha Hs. destruct (H buf pre post t d) as (d' & E); auto. exists d'.
  unfold mbind, dec_bind. by rewrite E.
Qed.

Lemma fteid_decodes v more post buf :
  fteid_ipv4 v -> layout_ok (layout_fteid v) -> bytes_ok more -> length more = 12%nat ->
  holds buf (wbits (layout_fteid v) ++ wbits (octets more) ++ post) ->
  decode_pfcp_fteid_ie_t zero_fteid buf = Some (13, fteid_received v more).
Proof.
  intros (Hc & H6 & H4 & Ha) H Hm Hl Hh. assert (size (layout_fteid v) / 8 = 13) as <- by done.
  eapply dec_bytes_reads_before; [|exact Hh|done]. clear Hh. unfold layout_fteid in *.
  apply layout_ok_app in H as [Hh H]. unfold fteid_received.
  destruct v; cbn -[le_bytes octets repeat layout_ie_header layout_ok] in *. subst.
  eapply reads_bind_before; [by apply reads_ie_header1|reflexivity|].
  do 5 (apply Forall_cons_1 in H as [Hv H]; eapply (reads_bind_before _ _ _ _ [_]);
    [apply reads_get1; [lia|exact Hv]|reflexivity|]; clear Hv).
  eapply (reads_bind_before _ _ _ _ [_]); [apply reads_be32_as_memory|reflexivity|].
  eapply reads_before_ret.
  - cbn [nz dec_when Z.eqb negb andb].
    apply (reads_mem_over (le_bytes 4 fteid_ipv4_address) more 16 4
             (fun l => (of_le_bytes (take 4 l), drop 4 l ++ drop 12 (repeat 0 16))));
      [apply bytes_ok_le_bytes|done|by rewrite length_app, Hl|done].
  - intros a'. rewrite take_app_le, drop_app_le by done.
    change (take 4 (le_bytes 4 fteid_ipv4_address)) with (le_bytes 4 fteid_ipv4_address).
    rewrite of_le_le_bytes, Z.mod_small by done.
    apply reads_ret.
Qed.

(** ** Outer header creation for GTP-U over IPv4 *)

Definition layout_outer_hdr_creation (v : pfcp_outer_hdr_creation_ie_t) : layout :=
  layout_ie_header v.(outer_hdr_creation_header) ++
  [(16, v.(outer_hdr_creation_desc)); (32, v.(outer_hdr_creation_teid));
   (32, v.(outer_hdr_creation_ipv4_address))].

(** The tunnel id is sent when the description is not zero. *)
Definition outer_hdr_gtpu4 (v : pfcp_outer_hdr_creation_ie_t) : Prop :=
  v.(outer_hdr_creation_desc) ≠ 0 ∧ v.(outer_hdr_creation_ipv6_address) = repeat 0 16 ∧
  v.(outer_hdr_creation_port_number) = 0 ∧ v.(outer_hdr_creation_ctag) = 0 ∧
  v.(outer_hdr_creation_stag) = 0.

Lemma outer_hdr_creation_encodes v : outer_hdr_gtpu4 v ->
  encodes (encode_pfcp_outer_hdr_creation_ie_t v) (layout_outer_hdr_creation v) 112.
Proof.
  intros (Hd & _). assert (size (layout_outer_hdr_creation v) / 1 = 112) as <- by done.
  apply encodes_bits, emits_ie_header. emit_step.
  assert (nz v.(outer_hdr_creation_desc) = true) as -> by (unfold nz; zcases; done).
  cbn [enc_when]. repeat emit_step.
Qed.

Lemma outer_hdr_creation_decodes v : outer_hdr_gtpu4 v -> layout_ok (layout_outer_hdr_creation v) ->
  decodes (decode_pfcp_outer_hdr_creation_ie_t zero_outer_hdr_creation) (layout_outer_hdr_creation v) 14 v.
Proof.
  intros (_ & H6 & Hp & Hc & Hg) H. assert (size (layout_outer_hdr_creation v) / 8 = 14) as <- by done.
  apply layout_ok_app in H as [Hh H]. apply decodes_bytes, reads_ie_header; [exact Hh|].
  destruct v; cbn -[repeat] in *. subst. repeat read_step H.
Qed.

(** ** Volume measurement with its three volumes *)

Definition layout_vol_meas (v : pfcp_vol_meas_ie_t) : layout :=
  layout_ie_header v.(vol_meas_header) ++
  [(5, v.(vol_meas_spare)); (1, v.(vol_meas_dlvol)); (1, v.(vol_meas_ulvol)); (1, v.(vol_meas_tovol));
   (64, v.(vol_meas_total_volume)); (64, v.(vol_meas_uplink_volume)); (64, v.(vol_meas_downlink_volume))].

Definition vol_meas_full (v : pfcp_vol_meas_ie_t) : Prop :=
  v.(vol_meas_dlvol) = 1 ∧ v.(vol_meas_ulvol) = 1 ∧ v.(vol_meas_tovol) = 1.

Lemma vol_meas_encodes v : vol_meas_full v ->
  encodes (encode_pfcp_vol_meas_ie_t v) (layout_vol_meas v) 29.
Proof.
  intros (Hd & Hu & Ht). assert (size (layout_vol_meas v) / 8 = 29) as <- by done.
  apply encodes_bytes, emits_ie_header. rewrite Hd, Hu, Ht. cbn [enc_when nz Z.eqb negb]. repeat emit_step.
Qed.

Lemma vol_meas_decodes v : vol_meas_full v -> layout_ok (layout_vol_meas v) ->
  decodes (decode_pfcp_vol_meas_ie_t zero_vol_meas) (layout_vol_meas v) 29 v.
Proof.
  intros (Hd & Hu & Ht) H. assert (size (layout_vol_meas v) / 8 = 29) as <- by done.
  apply layout_ok_app in H as [Hh H]. apply decodes_bytes, reads_ie_header; [exact Hh|].
  destruct v; cbn in *; subst. do 4 read_step H.
  do 3 (apply Forall_cons_1 in H as [Hv H];
        eapply reads_get_stale; [lia|exact Hv|lia|done|done|reflexivity|]; clear Hv).
  apply reads_ret.
Qed.

(** ** Elements that are an array of bytes *)

Definition layout_ntwk_inst (v : pfcp_ntwk_inst_ie_t) : layout :=
  layout_ie_header v.(ntwk_inst_header) ++ octets v.(ntwk_inst_ntwk_inst).
Definition ntwk_inst_ok (v : pfcp_ntwk_inst_ie_t) : Prop :=
  layout_ok (layout_ie_header v.(ntwk_inst_header)) ∧ bytes_ok v.(ntwk_inst_ntwk_inst) ∧
  length v.(ntwk_inst_ntwk_inst) = 32%nat.

Lemma ntwk_inst_codec v : ntwk_inst_ok v ->
  encodes (encode_pfcp_ntwk_inst_ie_t v) (layout_ntwk_inst v) (size (layout_ntwk_inst v) / 1) ∧
  decodes (decode_pfcp_ntwk_inst_ie_t zero_ntwk_inst) (layout_ntwk_inst v) (size (layout_ntwk_inst v) / 8) v.
Proof.
  intros (Hh & Hb & Hl). split.
  - apply encodes_bits, emits_ie_header. apply emits_putmem; [done|by rewrite Hl].
  - apply decodes_bytes, reads_ie_header; [exact Hh|]. destruct v as [h x]; cbn -[getmem octets] in *.
    rewrite <- (app_nil_r (octets x)). eapply reads_getmem; [done|by rewrite Hl|apply reads_ret].
Qed.

Definition layout_application_id (v : pfcp_application_id_ie_t) : layout :=
  layout_ie_header v.(application_id_header) ++ octets v.(application_id_app_ident).
Definition application_id_ok (v : pfcp_application_id_ie_t) : Prop :=
  layout_ok (layout_ie_header v.(application_id_header)) ∧ bytes_ok v.(application_id_app_ident) ∧
  length v.(application_id_app_ident) = 8%nat.

Lemma application_id_codec v : application_id_ok v ->
  encodes (encode_pfcp_application_id_ie_t v) (layout_application_id v) (size (layout_application_id v) / 1) ∧
  decodes (decode_pfcp_application_id_ie_t zero_application_id) (layout_application_id v)
    (size (layout_application_id v) / 8) v.
Proof.
  intros (Hh & Hb & Hl). split.
  - apply encodes_bits, emits_ie_header. apply emits_putmem; [done|by rewrite Hl].
  - apply decodes_bytes, reads_ie_header; [exact Hh|]. destruct v as [h x]; cbn -[getmem octets] in *.
    rewrite <- (app_nil_r (octets x)). eapply reads_getmem; [done|by rewrite Hl|apply reads_ret].
Qed.

(** ** Features of a user plane node, all three words *)

Definition layout_up_func_feat (v : pfcp_up_func_feat_ie_t) : layout :=
  layout_ie_header v.(up_func_feat_header) ++
  [(16, v.(up_func_feat_sup_feat)); (16, v.(up_func_feat_add_sup_feat1)); (16, v.(up_func_feat_add_sup_feat2))].


Lemma up_func_feat_codec v : v.(up_func_feat_header).(ie_len) = 6 -> layout_ok (layout_up_func_feat v) ->
  encodes (encode_pfcp_up_func_feat_ie_t v) (layout_up_func_feat v) 10 ∧
  decodes (decode_pfcp_up_func_feat_ie_t zero_up_func_feat) (layout_up_func_feat v) 10 v.
Proof.
  intros Hlen Hok. change 10 with (size (layout_up_func_feat v) / 8). split.
  - apply encodes_bytes, emits_ie_header. repeat emit_step.
  - apply decodes_at. pose proof (layout_ok_app _ _ Hok) as [Hk H]. destruct v as [h f f1 f2].
    unfold layout_up_func_feat.
    cbn [up_func_feat_header up_func_feat_sup_feat up_func_feat_add_sup_feat1 up_func_feat_add_sup_feat2] in *.
    apply Forall_cons_1 in H as [H0 H]. apply Forall_cons_1 in H as [H1 H]. apply Forall_cons_1 in H as [H2 _].
    eapply reads_at_bind; [by apply reads_ie_header1|].
    eapply (reads_at_bind _ _ _ [_]); [by apply reads_get1|].
    apply reads_at_total. cbn beta. rewrite Hlen. eapply (reads_at_bind _ _ _ [_]); [by apply reads_get1|].
    apply reads_at_total. eapply (reads_at_bind _ _ _ [_]); [by apply reads_get1|].
    intros buf pre post d Hh Ht Hs. exists d. by rewrite size_nil, Z.add_0_r.
Qed.

(** ** F-TEID that the user plane chooses *)

Definition layout_fteid_choose (v : pfcp_fteid_ie_t) : layout :=
  layout_ie_header v.(fteid_header) ++
  [(4, v.(fteid_spare)); (1, v.(fteid_chid)); (1, v.(fteid_ch)); (1, v.(fteid_v6)); (1, v.(fteid_v4));
   (8, v.(fteid_choose_id))].
Definition fteid_choose (v : pfcp_fteid_ie_t) : Prop :=
  v.(fteid_ch) = 1 ∧ v.(fteid_teid) = 0 ∧ v.(fteid_ipv4_address) = 0 ∧ v.(fteid_ipv6_address) = repeat 0 16.

Lemma fteid_choose_codec v : fteid_choose v -> layout_ok (layout_fteid_choose v) ->
  encodes (encode_pfcp_fteid_ie_t v) (layout_fteid_choose v) (size (layout_fteid_choose v) / 1) ∧
  decodes (decode_pfcp_fteid_ie_t zero_fteid) (layout_fteid_choose v) (size (layout_fteid_choose v) / 8) v.
Proof.
  intros (Hc & Ht & H4 & H6) Hok. split.
  - apply encodes_bits, emits_ie_header. rewrite Hc, !andb_false_r. cbn [enc_when nz Z.eqb negb Pos.eqb].
    do 5 emit_step. 
    do 3 (apply (emits_seq 0 0 _ _ [] _ (emits_skip 0)); [reflexivity|]). emit_step.
  - pose proof (layout_ok_app _ _ Hok) as [Hh H]. apply decodes_bytes, reads_ie_header; [exact Hh|].
    destruct v; cbn -[repeat] in *. subst. do 5 read_step H. rewrite !andb_false_r.
    apply Forall_cons_1 in H as [Hv _]. cbn [dec_when Z.eqb].
    refine (reads_get_when 0 true 8 8 _ 0 _ [] _ _ Hv _ eq_refl _ eq_refl _ _); try lia; try done.
    apply reads_ret.
Qed.

(** ** IP resources of the user plane, without network instance *)

Definition layout_user_plane_ip_rsrc_info (v : pfcp_user_plane_ip_rsrc_info_ie_t) : layout :=
  layout_ie_header v.(user_plane_ip_rsrc_info_header) ++
  [(1, v.(user_plane_ip_rsrc_info_spare)); (1, v.(user_plane_ip_rsrc_info_assosi));
   (1, v.(user_plane_ip_rsrc_info_assoni)); (3, v.(user_plane_ip_rsrc_info_teidri));
   (1, v.(user_plane_ip_rsrc_info_v6)); (1, v.(user_plane_ip_rsrc_info_v4))] ++
  (if nz v.(user_plane_ip_rsrc_info_teidri) then [(8, v.(user_plane_ip_rsrc_info_teid_range))] else []) ++
  (if nz v.(user_plane_ip_rsrc_info_v4) then [(32, v.(user_plane_ip_rsrc_info_ipv4_address))] else []) ++
  (if nz v.(user_plane_ip_rsrc_info_v6) then octets v.(user_plane_ip_rsrc_info_ipv6_address) else []) ++
  [(4, v.(user_plane_ip_rsrc_info_spare2)); (4, v.(user_plane_ip_rsrc_info_src_intfc))].
Definition ip_rsrc_ok (v : pfcp_user_plane_ip_rsrc_info_ie_t) : Prop :=
  v.(user_plane_ip_rsrc_info_assosi) = 1 ∧ v.(user_plane_ip_rsrc_info_assoni) = 0 ∧
  v.(user_plane_ip_rsrc_info_ntwk_inst) = 0 ∧
  0 <= v.(user_plane_ip_rsrc_info_teid_range) < 2 ^ 8 ∧ 0 <= v.(user_plane_ip_rsrc_info_ipv4_address) < 2 ^ 32 ∧
  length v.(user_plane_ip_rsrc_info_ipv6_address) = 16%nat ∧ bytes_ok v.(user_plane_ip_rsrc_info_ipv6_address) ∧
  (nz v.(user_plane_ip_rsrc_info_teidri) = false -> v.(user_plane_ip_rsrc_info_teid_range) = 0) ∧
  (nz v.(user_plane_ip_rsrc_info_v4) = false -> v.(user_plane_ip_rsrc_info_ipv4_address) = 0) ∧
  (nz v.(user_plane_ip_rsrc_info_v6) = false -> v.(user_plane_ip_rsrc_info_ipv6_address) = repeat 0 16).

Lemma ip_rsrc_encodes v : ip_rsrc_ok v ->
  encodes (encode_pfcp_user_plane_ip_rsrc_info_ie_t v) (layout_user_plane_ip_rsrc_info v)
    (size (layout_user_plane_ip_rsrc_info v) / 8).
Proof.
  intros (Ha & Hn & _ & _ & _ & Hl & Hb & _). apply encodes_bytes, emits_ie_header.
  cbn [app]. do 6 emit_step. rewrite Ha, Hn. cbn [enc_when nz Z.eqb negb].
  apply emits_opt; [intros _; by apply emits_put1|done|]. apply emits_opt; [intros _; by apply emits_put1|done|].
  apply emits_opt; [intros _; apply emits_putmem; [done|by rewrite Hl]|apply size_octets8|].
  apply (emits_seq 0 0 _ _ [] _ (emits_skip 0)); [reflexivity|]. emit_step. emit_step.
Qed.

Lemma ip_rsrc_decodes v : ip_rsrc_ok v -> layout_ok (layout_user_plane_ip_rsrc_info v) ->
  decodes (decode_pfcp_user_plane_ip_rsrc_info_ie_t zero_user_plane_ip_rsrc_info)
    (layout_user_plane_ip_rsrc_info v) (size (layout_user_plane_ip_rsrc_info v) / 8) v.
Proof.
  intros (Ha & Hn & Hi & Ht & H4 & Hl & Hb & Zt & Z4 & Z6) H. unfold layout_user_plane_ip_rsrc_info in *.
  apply layout_ok_app in H as [Hh H]. apply layout_ok_app in H as [H Hr].
  repeat apply layout_ok_app in Hr as [_ Hr].
  apply decodes_bytes, reads_ie_header; [exact Hh|].
  destruct v; cbn -[octets repeat] in *. subst. do 6 read_step H. cbn [nz Z.eqb negb].
  eapply reads_opt; [intros _; by apply reads_get1|by intros ->%Zt|done|].
  eapply reads_get_when; [lia|done|lia|done|exact Z4|done|lia|].
  eapply reads_opt; [intros _; apply reads_mem; [done|by rewrite Hl]|by intros ->%Z6|apply size_octets8|].
  apply (reads_bind 0 0 _ _ [] _ 0 _ (reads_ret 0 0)); [done|].
  read_step Hr. apply Forall_cons_1 in Hr as [Hv _].
  eapply (reads_bind 4 0 _ _ [_] []); [|reflexivity|apply reads_ret].
  eapply reads_get; [lia|exact Hv|reflexivity|]. rewrite Z.add_0_l, uwrap_small by exact Hv. apply reads_ret.
Qed.

(** ** SDF filter *)

Definition layout_sdf_filter (v : pfcp_sdf_filter_ie_t) : layout :=
  layout_ie_header v.(sdf_filter_header) ++
  [(3, v.(sdf_filter_sdf_fltr_spare)); (1, v.(sdf_filter_bid)); (1, v.(sdf_filter_fl)); (1, v.(sdf_filter_spi));
   (1, v.(sdf_filter_ttc)); (1, v.(sdf_filter_fd)); (8, v.(sdf_filter_sdf_fltr_spare2))] ++
  (if nz v.(sdf_filter_fd) then [(16, v.(sdf_filter_len_of_flow_desc))] else []) ++
  (if nz v.(sdf_filter_fd)
   then octets (take (Z.to_nat v.(sdf_filter_len_of_flow_desc)) v.(sdf_filter_flow_desc)) else []) ++
  (if nz v.(sdf_filter_ttc) then [(16, v.(sdf_filter_tos_traffic_cls))] else []) ++
  (if nz v.(sdf_filter_spi) then [(32, v.(sdf_filter_secur_parm_idx))] else []) ++
  (if nz v.(sdf_filter_fl) then [(24, v.(sdf_filter_flow_label))] else []) ++
  (if nz v.(sdf_filter_bid) then [(32, v.(sdf_filter_id))] else []).

(** The flow description is padded with zeros; what the flags leave out is zero. *)
Definition sdf_filter_ok (v : pfcp_sdf_filter_ie_t) : Prop :=
  (let n := v.(sdf_filter_len_of_flow_desc) in
   0 <= n <= 255 ∧ length v.(sdf_filter_flow_desc) = 255%nat ∧ bytes_ok v.(sdf_filter_flow_desc) ∧
   drop (Z.to_nat n) v.(sdf_filter_flow_desc) = repeat 0 (255 - Z.to_nat n) ∧
   (nz v.(sdf_filter_fd) = false -> n = 0)) ∧
  0 <= v.(sdf_filter_tos_traffic_cls) < 2 ^ 16 ∧ 0 <= v.(sdf_filter_secur_parm_idx) < 2 ^ 32 ∧
  0 <= v.(sdf_filter_flow_label) < 2 ^ 24 ∧ 0 <= v.(sdf_filter_id) < 2 ^ 32 ∧
  (nz v.(sdf_filter_ttc) = false -> v.(sdf_filter_tos_traffic_cls) = 0) ∧
  (nz v.(sdf_filter_spi) = false -> v.(sdf_filter_secur_parm_idx) = 0) ∧
  (nz v.(sdf_filter_fl) = false -> v.(sdf_filter_flow_label) = 0) ∧
  (nz v.(sdf_filter_bid) = false -> v.(sdf_filter_id) = 0).

Lemma sdf_filter_encodes v : sdf_filter_ok v ->
  encodes (encode_pfcp_sdf_filter_ie_t v) (layout_sdf_filter v) (size (layout_sdf_filter v) / 1).
Proof.
  intros ((Hn & Hl & Hb & _) & _). apply encodes_bits, emits_ie_header. cbn [app]. do 7 emit_step.
  apply emits_opt; [intros _; by apply emits_put1|done|].
  apply emits_opt; [intros _; apply emits_putmem_prefix; [done|lia]|apply size_octets8|].
  do 3 (apply emits_opt; [intros _; by apply emits_put1|done|]).
  apply emits_when. intros _. by apply emits_put1.
Qed.

(** A copy whose length was read before, into an array of zeros. *)
Lemma reads_copy n desc :
  0 <= n <= 255 -> length desc = 255%nat -> bytes_ok desc ->
  drop (Z.to_nat n) desc = repeat 0 (255 - Z.to_nat n) ->
  reads 0 (getmem_into (repeat 0 255) n) (octets (take (Z.to_nat n) desc)) desc.
Proof.
  intros Hn Hl Hb Hd.
  pose proof (reads_getmem_into (repeat 0 255) (take (Z.to_nat n) desc) mret [] desc) as R.
  rewrite length_take, Nat.min_l, Z2Nat.id, app_nil_r in R by lia.
  assert (∀ m j (x : Z), drop m (repeat x j) = repeat x (j - m)) as D by (induction m; intros [|j] x; cbn; auto).
  rewrite D, <- Hd, take_drop in R.
  intros buf pre post t d Hh Ht Ha Hs.
  destruct (R ltac:(by apply Forall_take) ltac:(apply (holds_zero 255)) ltac:(rewrite repeat_length; lia)
              ltac:(apply reads_ret) buf pre post t d Hh Ht Ha Hs) as (d' & E).
  exists d'. rewrite <- E. unfold mbind, dec_bind. by destruct (getmem_into _ _ _ _) as [[? ?]|].
Qed.

Lemma sdf_filter_decodes v : sdf_filter_ok v -> layout_ok (layout_sdf_filter v) ->
  decodes (decode_pfcp_sdf_filter_ie_t zero_sdf_filter) (layout_sdf_filter v) (size (layout_sdf_filter v) / 8) v.
Proof.
  intros ((Hn & Hl & Hb & Hd & Zd) & Ht & Hs & Hf & Hi & Zt & Zs & Zf & Zi) H. unfold layout_sdf_filter in *.
  apply layout_ok_app in H as [Hh H]. apply layout_ok_app in H as [H _].
  apply decodes_bytes, reads_ie_header; [exact Hh|].
  destruct v; cbn -[octets repeat Z.pow] in *. do 7 read_step H.
  eapply (reads_get_when 0); [lia| |lia|done|exact Zd|done|lia|].
  { change (2 ^ 16) with 65536. lia. }
  eapply reads_opt; [intros _; by apply reads_copy| |apply size_octets8|].
  { intros E. specialize (Zd E). subst. exact Hd. }
  do 3 (eapply (reads_get_when 0); [lia|eassumption|lia|done|assumption|done|lia|]).
  rewrite <- (app_nil_r (if nz _ then _ else _)).
  eapply (reads_get_when 0); [lia|eassumption|lia|done|assumption|done|lia|]. apply reads_ret.
Qed.
