(* ===== verification/PfcpCodecProps.v ===== *)
(** * Properties of the PFCP codec

    Round trips of the bit fields and of the information elements through the
    encoders and decoders of libpfcp, the bounds of the copies, and the cases in
    which an encoder and its decoder disagree. *)

From S2P Require Import Prelude EncDecBits Codec CodecSpec PfcpIes PfcpIesEncoder PfcpIesDecoder.
From S2P Require Import PfcpIesSpec PfcpIesOptional.

(** ** Bit fields *)

(** C21: A value of [n] bits (1 to 64) that [encode_bits] appends to a message at
    any bit offset is what [decode_bits] reads at that offset; both report [n]
    bits, and all the bits written before stay readable.  The offset of the code is a
    [uint16_t], so this speaks of offsets below 65536. *)
Theorem bits_roundtrip buf w v n base off d :
  holds buf w -> 1 <= n <= 64 -> 0 <= base -> 0 <= off -> 8 * base + off = Z.of_nat (length w) ->
  Z.of_nat (length w) + n <= 8 * Z.of_nat (length buf) -> 0 <= v < 2 ^ n ->
  ∃ buf', encode_bits v n buf base off = Some (n, buf') ∧
    decode_bits buf' (8 * base + off) n d = Some (v, n) ∧ slice buf' 0 (length w) = w.
Proof.
  intros Hh Hn Hb Ho Hw Hr Hv.
  destruct (encode_bits_spec buf w v n base off) as (buf' & E & Hh' & _); auto.
  exists buf'. split; [done|]. split.
  - rewrite Hw, (decode_bits_holds _ _ v n []), Z.mod_small by (rewrite ?app_nil_r; auto). done.
  - by apply (slice_holds _ [] w (nbits (Z.to_nat n) v)).
Qed.

Lemma bits_roundtrip_witness :
  ∃ buf', encode_bits 5 3 [0; 0] 0 0 = Some (3, buf') ∧
    decode_bits buf' (8 * 0 + 0) 3 0 = Some (5, 3) ∧ slice buf' 0 0 = [].
Proof.
  apply (bits_roundtrip [0; 0] [] 5 3 0 0 0); try (cbn; lia). apply (holds_zero 2).
Defined.

(** C24: [encode_bits] and [decode_bits] are big-endian arithmetic: with the buffer read
    as one number, the field of [n] bits at bit [off] is that number divided by two to
    the bits behind the field, modulo two to the [n]; and appending a field to a message
    adds the value, shifted by the bits behind it, to the number. *)
Theorem bits_are_big_endian buf n off d :
  bytes_ok buf -> 1 <= n <= 64 -> 0 <= off -> off + n <= 8 * Z.of_nat (length buf) ->
  let behind := 8 * Z.of_nat (length buf) - off - n in
  decode_bits buf off n d = Some (of_be_bytes buf / 2 ^ behind mod 2 ^ n, n) ∧
  ∀ w v base, holds buf w -> Z.of_nat (length w) = off -> 0 <= base -> 8 * base <= off ->
    ∃ buf', encode_bits v n buf base (off - 8 * base) = Some (n, buf') ∧
            of_be_bytes buf' = of_be_bytes buf + v mod 2 ^ n * 2 ^ behind.
Proof.
  intros Hb Hn Ho Hl behind. split.
  - rewrite decode_bits_slice by done. do 2 f_equal. rewrite of_be_bytes_bits, bits_of_slice by done.
    replace (8 * length buf)%nat with (Z.to_nat off + (Z.to_nat n + Z.to_nat behind))%nat by lia.
    rewrite !slice_app, Z.add_0_l, !Z2Nat.id by lia.
    pose proof (of_bits_middle (slice buf 0 (Z.to_nat off)) (slice buf off (Z.to_nat n))
      (slice buf (off + n) (Z.to_nat behind))) as M.
    by rewrite !length_slice, !Z2Nat.id in M by lia.
  - intros w v base Hh Hw Hbase Hb8.
    destruct (encode_bits_spec buf w v n base (off - 8 * base)) as (buf' & E & Hh' & L); auto; try lia.
    exists buf'. split; [done|]. rewrite (of_be_bytes_holds _ _ Hh'), (of_be_bytes_holds _ _ Hh), L.
    rewrite of_bits_cons_app, of_bits_nbits, length_app, length_nbits, Nat2Z.inj_add, Z2Nat.id by lia.
    rewrite Z.mul_add_distr_r, <- Z.mul_assoc, <- Z.pow_add_r by lia. subst behind. do 3 f_equal; try lia.
Qed.

Lemma bits_are_big_endian_witness :
  decode_bits [0xa5; 0xc3] 4 6 0 = Some (0xa5c3 / 64 mod 64, 6).
Proof.
  apply (bits_are_big_endian [0xa5; 0xc3] 6 4 0); [repeat constructor; unfold byte_ok; lia|cbn; lia..].
Defined.

(** [encode_bits] reads one byte of the stack behind its eight-byte value
    when the field ends at a byte boundary of the source; the byte has no
    influence on what it writes. *)
Theorem encode_bits_over_irrelevant over over' buf w v n base off :
  byte_ok over -> byte_ok over' -> holds buf w -> 1 <= n <= 64 -> 0 <= base -> 0 <= off ->
  8 * base + off = Z.of_nat (length w) -> Z.of_nat (length w) + n <= 8 * Z.of_nat (length buf) ->
  encode_bits_over over v n buf base off = encode_bits_over over' v n buf base off ∧
  is_Some (encode_bits_over over v n buf base off).
Proof.
  intros Ho Ho' Hh Hn Hb Hoff Hw Hr.
  destruct (encode_bits_over_spec over buf w v n base off) as (b1 & E1 & H1 & L1); auto.
  destruct (encode_bits_over_spec over' buf w v n base off) as (b2 & E2 & H2 & L2); auto.
  rewrite E1, E2. rewrite (holds_inj b1 b2 _ H1 H2) by congruence. split; [done|by eexists].
Qed.

Lemma encode_bits_over_irrelevant_witness :
  encode_bits_over 0xff 9 4 [0x80; 0] 0 1 = encode_bits_over 0 9 4 [0x80; 0] 0 1 ∧
  is_Some (encode_bits_over 0xff 9 4 [0x80; 0] 0 1).
Proof.
  apply (encode_bits_over_irrelevant 0xff 0 [0x80; 0] [true] 9 4 0 1); try (unfold byte_ok; cbn; lia).
  apply holdsb_spec. reflexivity.
Defined.

(** The destination of [encode_bits] has to be zero: a four-bit field that
    starts a byte keeps the bits of the old byte that [mask_bits[0]] (0x55) and
    the mask of the following field let through, instead of the low four bits. *)
Theorem encode_bits_keeps_old_bits b :
  encode_bits 0 4 [b] 0 0 = Some (4, [Z.land b 0x57]).
Proof.
  transitivity (Some (4, [Z.lor (Z.land b 0x57) 0])); [reflexivity|by rewrite Z.lor_0_r].
Qed.

(** ** Elements *)

Lemma regular_size i : size (regular_layout i) < 65536.
Proof. destruct i; exact eq_refl. Qed.

(** C4: Every information element of the regular form (87 of the 118) is read
    back unchanged by its decoder from where its encoder wrote it in a message,
    whatever precedes it.  The decoder returns the size of the element in bytes;
    the encoder returns it in bytes or, where [regular_unit] is 1, in bits. *)
Theorem regular_ie_roundtrip i buf w base :
  layout_ok (regular_layout i) -> message_room buf w base (size (regular_layout i)) ->
  round_trips (regular_encode i) (regular_decode i)
    (size (regular_layout i) / regular_unit i) (size (regular_layout i) / 8) i buf base.
Proof.
  intros Hok Hr. eapply codec_round_trips; [apply regular_encodes| |apply regular_size|exact Hr].
  intros b post Hh Hs. by eapply regular_decodes.
Qed.

Lemma regular_ie_roundtrip_witness :
  round_trips (regular_encode (IE_far_id (mk_far_id (mk_ie_header 108 4) 0x80000001)))
    (regular_decode (IE_far_id (mk_far_id (mk_ie_header 108 4) 0x80000001)))
    64 8 (IE_far_id (mk_far_id (mk_ie_header 108 4) 0x80000001)) (repeat 0 16) 0.
Proof.
  apply (regular_ie_roundtrip (IE_far_id (mk_far_id (mk_ie_header 108 4) 0x80000001)) (repeat 0 16) [] 0).
  - apply layout_okb_spec. reflexivity.
  - apply message_room_zero. vm_compute. discriminate.
Defined.

(** An element of the same type whose fields are found by unification. *)
Ltac refill :=
  match goal with |- ∃ i', _ = zip (regular_layout (?C _)).*1 _ ∧ _ => unshelve refine (ex_intro _ (C _) _) end;
  [econstructor; lazymatch goal with |- pfcp_ie_header_t => econstructor; shelve | _ => shelve end
  |split_and!; reflexivity].

Lemma regular_fill i (vs : list Z) : length vs = length (regular_layout i) ->
  ∃ i', regular_layout i' = zip (regular_layout i).*1 vs ∧ regular_decode i = regular_decode i' ∧
        size (regular_layout i') = size (regular_layout i).
Proof.
  destruct i; intros Hl; cbn in Hl; repeat (destruct vs as [|? vs]; [discriminate Hl|]);
    (destruct vs; [|discriminate Hl]); refill.
Qed.

(** C22: The decoder of an element of the regular form accepts every buffer that is long
    enough: it returns the size of the element and values that are all in the range
    of their fields, and encoding these gives back the bytes that were read. *)
Theorem regular_ie_decode_range i buf :
  bytes_ok buf -> size (regular_layout i) <= 8 * Z.of_nat (length buf) ->
  ∃ i', regular_decode i buf = Some (size (regular_layout i) / 8, i') ∧ layout_ok (regular_layout i') ∧
        ∃ post, bits_of buf = wbits (regular_layout i') ++ post.
Proof.
  intros Hb Hs. destruct (bits_fill (bits_of buf) (regular_layout i)) as (vs & post & Hl & Hok & E).
  { destruct i; repeat constructor; done. } { rewrite length_bits_of. lia. }
  destruct (regular_fill i vs Hl) as (i' & Hi & Hd & Hz). rewrite <- Hi in Hok, E. exists i'.
  split_and!; [|done|by exists post]. rewrite Hd, <- Hz. eapply regular_decodes; [done| |apply regular_size].
  rewrite <- E. by apply holds_bits_of.
Qed.

Lemma regular_ie_decode_range_witness :
  ∃ i', regular_decode (IE_far_id zero_far_id) [0; 108; 0; 4; 128; 0; 0; 1; 9] = Some (8, i') ∧
        layout_ok (regular_layout i') ∧ ∃ post, bits_of [0; 108; 0; 4; 128; 0; 0; 1; 9] = wbits (regular_layout i') ++ post.
Proof.
  apply (regular_ie_decode_range (IE_far_id zero_far_id));
    [repeat constructor; unfold byte_ok; lia|vm_compute; discriminate].
Defined.

(** The PFCP message header is read back unchanged, in the form with a
    session id (16 bytes) and in the form without (8 bytes). *)
Theorem header_roundtrip h buf w base :
  header_tagged h -> layout_ok (layout_header h) -> message_room buf w base (size (layout_header h)) ->
  round_trips (encode_pfcp_header_t h) decode_pfcp_header_t
    (if h.(header_s) =? 1 then 16 else 8) (if h.(header_s) =? 1 then 16 else 8) h buf base.
Proof.
  intros Ht Hok Hr.
  assert ((if h.(header_s) =? 1 then 16 else 8) = size (layout_header h) / 8) as ->.
  { destruct h as [s ? ? ? ? ? [x|x]]; cbn in Ht; subst s; reflexivity. }
  eapply codec_round_trips; [by apply header_encodes|by apply header_decodes| |exact Hr].
  destruct h as [s ? ? ? ? ? [x|x]]; exact eq_refl.
Qed.

Lemma header_roundtrip_witness :
  let h := mk_header 1 0 0 1 50 100 (inl (mk_has_seid 77 3 0 0)) in
  round_trips (encode_pfcp_header_t h) decode_pfcp_header_t 16 16 h (repeat 0 32) 0.
Proof.
  apply (header_roundtrip (mk_header 1 0 0 1 50 100 (inl (mk_has_seid 77 3 0 0))) (repeat 0 32) [] 0).
  - reflexivity.
  - apply layout_okb_spec. reflexivity.
  - apply message_room_zero. vm_compute. discriminate.
Defined.

(** The F-SEID element is read back unchanged with every combination of its
    addresses. *)
Theorem fseid_roundtrip v buf w base :
  fseid_addresses v -> layout_ok (layout_fseid v) -> message_room buf w base (size (layout_fseid v)) ->
  round_trips (encode_pfcp_fseid_ie_t v) (decode_pfcp_fseid_ie_t zero_fseid)
    (size (layout_fseid v) / 8) (size (layout_fseid v) / 8) v buf base.
Proof.
  intros Ha Hok Hr. eapply codec_round_trips; [by apply fseid_encodes|by apply fseid_decodes| |exact Hr].
  unfold layout_fseid. rewrite !size_app, !size_if, !size_octets, (proj1 (proj2 Ha)), length_le_bytes.
  destruct (nz _), (nz _); exact eq_refl.
Qed.

Lemma fseid_roundtrip_witness :
  let v := mk_fseid (mk_ie_header 57 13) 0 0 0 0 0 0 1 0 42 0x0100007f (repeat 0 16) in
  round_trips (encode_pfcp_fseid_ie_t v) (decode_pfcp_fseid_ie_t zero_fseid) 17 17 v (repeat 0 64) 0.
Proof.
  apply (fseid_roundtrip (mk_fseid (mk_ie_header 57 13) 0 0 0 0 0 0 1 0 42 0x0100007f (repeat 0 16))
           (repeat 0 64) [] 0).
  - split_and!; cbn; try lia; try done. apply (holds_zero 16).
  - apply layout_okb_spec. reflexivity.
  - apply message_room_zero. vm_compute. discriminate.
Defined.

(** An IPv4 node id is read back unchanged. *)
Theorem node_id_roundtrip v buf w base :
  node_id_ipv4 v -> bytes_ok v.(node_id_value) -> layout_ok (layout_node_id v) ->
  message_room buf w base 72 ->
  round_trips (encode_pfcp_node_id_ie_t v) (decode_pfcp_node_id_ie_t zero_node_id) 9 9 v buf base.
Proof.
  intros Hv Hb Hok Hr. pose proof (node_id_decodes v Hv Hb Hok). pose proof (node_id_encodes v Hv Hb).
  assert (size (layout_node_id v) = 72) as E.
  { unfold layout_node_id. rewrite !size_app, size_octets, length_take.
    destruct Hv as (_ & _ & -> & _). done. }
  eapply codec_round_trips; eauto; rewrite E; [lia|exact Hr].
Qed.

Lemma node_id_roundtrip_witness :
  let v := mk_node_id (mk_ie_header 60 5) 0 0 [127; 0; 0; 1; 0; 0; 0; 0] in
  round_trips (encode_pfcp_node_id_ie_t v) (decode_pfcp_node_id_ie_t zero_node_id) 9 9 v (repeat 0 64) 0.
Proof.
  apply (node_id_roundtrip (mk_node_id (mk_ie_header 60 5) 0 0 [127; 0; 0; 1; 0; 0; 0; 0])
           (repeat 0 64) [] 0).
  - split_and!; reflexivity.
  - repeat constructor; cbn; lia.
  - apply layout_okb_spec. reflexivity.
  - apply message_room_zero. lia.
Defined.

(** One read of a decoder that runs at a known position. *)
Ltac run_read a L x pre post :=
  match goal with
  | |- context [mbind ?k ?m ?buf (?t, ?d)] =>
      destruct (reads_run a m k L x buf pre post t d) as [? ->];
      [lazymatch m with get _ => apply reads_get1; lia | _ => by apply reads_ie_header1 end
      |by rewrite ?wbits_cons, <- ?app_assoc in * |reflexivity..|]
  end.

(** The node id decoder up to the copy. *)
Lemma node_id_decoder_prefix h sp ty post buf :
  layout_ok (layout_ie_header h) -> 0 <= sp < 16 -> 0 <= ty < 16 ->
  holds buf (wbits (layout_ie_header h) ++ wbits [(4, sp); (4, ty)] ++ post) ->
  ∃ d, decode_pfcp_node_id_ie_t zero_node_id buf =
    ('(x, (t, _)) ← (l ← getmem_into (repeat 0 8) (h.(ie_len) - 1); mret (mk_node_id h sp ty l)) buf (40, d);
     Some (t / 8, x)).
Proof.
  intros Hok Hsp Hty Hh. unfold decode_pfcp_node_id_ie_t, dec_bytes.
  run_read 0 (layout_ie_header h) h (@nil bool) (wbits [(4, sp); (4, ty)] ++ post).
  run_read 0 [(4, sp)] sp (wbits (layout_ie_header h)) (wbits [(4, ty)] ++ post).
  run_read 4 [(4, ty)] ty (wbits (layout_ie_header h) ++ wbits [(4, sp)]) post.
  eexists. reflexivity.
Qed.

(** The node id decoder copies as many bytes as the length field of the
    received element says, less one, into an array of eight: on a buffer that has
    them, it stays inside the array exactly when the length is 1 to 9. *)
Theorem node_id_copy_bound h sp ty payload buf :
  layout_ok (layout_ie_header h) -> 0 <= sp < 16 -> 0 <= ty < 16 -> bytes_ok payload ->
  h.(ie_len) - 1 <= Z.of_nat (length payload) -> Z.of_nat (length payload) < 8000 ->
  holds buf (wbits (layout_ie_header h ++ [(4, sp); (4, ty)] ++ octets payload)) ->
  is_Some (decode_pfcp_node_id_ie_t zero_node_id buf) ↔ 1 <= h.(ie_len) <= 9.
Proof.
  intros Hok Hsp Hty Hp Hlen Hmax Hh.
  rewrite !wbits_app in Hh. pose proof Hh as (_ & Hl & _).
  pose proof (size_octets payload) as Hn. unfold size in Hn. rewrite !length_app in Hl.
  change (length (wbits (layout_ie_header h))) with 32%nat in Hl.
  change (length (wbits [(4, sp); (4, ty)])) with 8%nat in Hl.
  destruct (node_id_decoder_prefix h sp ty _ buf Hok Hsp Hty Hh) as [d ->].
  unfold mbind at 2, dec_bind, getmem_into. zcases; cbn [mbind option_bind].
  - destruct (decide (h.(ie_len) <= 9)) as [H9|H9].
    + pose proof (memcpy_app (Z.to_nat (h.(ie_len) - 1)) buf 5 (repeat 0 8) 0) as E.
      change (Z.of_nat 5) with (40 / 8) in E. change (Z.of_nat 0) with 0 in E.
      rewrite E by (cbn [length repeat]; lia). split; [lia|by eexists].
    + rewrite (memcpy_overrun _ buf (40 / 8) (repeat 0 8) 0) by (cbn [length repeat]; lia).
      split; [by intros [? ?]|lia].
  - split; [by intros [? ?]|lia].
Qed.

Lemma node_id_copy_bound_witness :
  is_Some (decode_pfcp_node_id_ie_t zero_node_id [0; 60; 0; 12; 1; 1; 2; 3; 4; 5; 6; 7; 8; 9; 10; 11])
  ↔ 1 <= 12 <= 9.
Proof.
  apply (node_id_copy_bound (mk_ie_header 60 12) 0 1 [1; 2; 3; 4; 5; 6; 7; 8; 9; 10; 11]);
    try (cbn; lia).
  - apply layout_okb_spec. reflexivity.
  - repeat constructor; unfold byte_ok; lia.
  - apply holdsb_spec. reflexivity.
Defined.

Lemma bits_of_prefix b w n : holds b w -> length w = (8 * n)%nat -> bits_of (take n b) = w.
Proof.
  intros (Hb & Hl & B) Hw. assert (length (take n b) = n) as Hn by (rewrite length_take; lia).
  apply nth_ext with false false; rewrite length_bits_of, Hn; [done|]. intros k Hk.
  rewrite nth_bits_of, <- (Nat2Z.id k) at 1. rewrite <- (Nat2Z.id k) at 2. rewrite <- B by lia.
  unfold bitat, byteat. rewrite lookup_take, decide_True by divlia. by rewrite Nat2Z.id.
Qed.

(** An F-TEID with an IPv4 address is not read back as it was sent: the
    encoder sends the tunnel id most significant byte first and the decoder
    copies it to memory, which reverses its bytes; and the copy of the address
    takes sixteen bytes, so that the twelve that follow the element ([more]) end
    up in the IPv6 address. *)
Theorem fteid_received_swapped v more rest buf w base :
  fteid_ipv4 v -> layout_ok (layout_fteid v) -> bytes_ok (more ++ rest) -> length more = 12%nat ->
  message_room buf w base 104 ->
  ∃ buf', encode_pfcp_fteid_ie_t v buf base = Some (104, buf') ∧
    decode_pfcp_fteid_ie_t zero_fteid
      (drop (Z.to_nat base) (take (Z.to_nat (base + 13)) buf' ++ more ++ rest))
    = Some (13, fteid_received v more).
Proof.
  intros Hv Hok Hm Hl (Hb & Hh & Hw & Hr).
  destruct (fteid_encodes v Hv buf base w) as (buf' & E & Hh' & _); auto; [done|].
  exists buf'. split; [done|]. pose proof (proj1 (Forall_app _ _ _) Hm) as [Hmo _].
  eapply (fteid_decodes v more (bits_of rest)); auto. eapply holds_drop; [|symmetry; exact Hw].
  rewrite wbits_octets, (app_assoc w).
  rewrite <- (bits_of_prefix buf' (w ++ wbits (layout_fteid v)) (Z.to_nat (base + 13)) Hh').
  - rewrite <- !bits_of_app. apply holds_bits_of.
    apply Forall_app_2; [apply Forall_take, Hh'|done].
  - rewrite length_app. change (length (wbits (layout_fteid v))) with 104%nat. lia.
Qed.

Lemma fteid_received_swapped_witness :
  let v := mk_fteid (mk_ie_header 21 9) 0 0 0 0 1 0x01020304 0x0100007f (repeat 0 16) 0 in
  ∃ buf', encode_pfcp_fteid_ie_t v (repeat 0 32) 0 = Some (104, buf') ∧
    decode_pfcp_fteid_ie_t zero_fteid (drop 0 (take 13 buf' ++ repeat 9 12 ++ []))
    = Some (13, mk_fteid (mk_ie_header 21 9) 0 0 0 0 1 0x04030201 0x0100007f
                  (repeat 9 12 ++ repeat 0 4) 0).
Proof.
  apply (fteid_received_swapped (mk_fteid (mk_ie_header 21 9) 0 0 0 0 1 0x01020304 0x0100007f (repeat 0 16) 0)
           (repeat 9 12) [] (repeat 0 32) [] 0).
  - split_and!; cbn; lia.
  - apply layout_okb_spec. reflexivity.
  - repeat constructor; unfold byte_ok; lia.
  - reflexivity.
  - apply message_room_zero. lia.
Defined.

(** The outer header creation element for GTP-U over IPv4 is read back
    unchanged (the encoder returns its size in bits). *)
Theorem outer_hdr_creation_roundtrip v buf w base :
  outer_hdr_gtpu4 v -> layout_ok (layout_outer_hdr_creation v) -> message_room buf w base 112 ->
  round_trips (encode_pfcp_outer_hdr_creation_ie_t v)
    (decode_pfcp_outer_hdr_creation_ie_t zero_outer_hdr_creation) 112 14 v buf base.
Proof.
  intros Hv Hok Hr. eapply (codec_round_trips _ _ (layout_outer_hdr_creation v));
    [by apply outer_hdr_creation_encodes|by apply outer_hdr_creation_decodes|done|exact Hr].
Qed.

Lemma outer_hdr_creation_roundtrip_witness :
  let v := mk_outer_hdr_creation (mk_ie_header 84 10) 0x100 77 0x7f000001 (repeat 0 16) 0 0 0 in
  round_trips (encode_pfcp_outer_hdr_creation_ie_t v)
    (decode_pfcp_outer_hdr_creation_ie_t zero_outer_hdr_creation) 112 14 v (repeat 0 20) 0.
Proof.
  apply (outer_hdr_creation_roundtrip
           (mk_outer_hdr_creation (mk_ie_header 84 10) 0x100 77 0x7f000001 (repeat 0 16) 0 0 0)
           (repeat 0 20) [] 0).
  - split_and!; cbn; done.
  - apply layout_okb_spec. reflexivity.
  - apply message_room_zero. lia.
Defined.

(** A volume measurement is read back unchanged when all three volumes are
    present.  When the total volume is absent the decoder has moved on by one
    bit, so that the uplink volume 5 is read as 10, and the size comes out as 21
    bytes instead of 13. *)
Theorem vol_meas_roundtrip v buf w base :
  (vol_meas_full v -> layout_ok (layout_vol_meas v) -> message_room buf w base 232 ->
   round_trips (encode_pfcp_vol_meas_ie_t v) (decode_pfcp_vol_meas_ie_t zero_vol_meas) 29 29 v buf base) ∧
  round_trips (encode_pfcp_vol_meas_ie_t (mk_vol_meas (mk_ie_header 66 9) 0 0 1 0 0 5 0))
    (decode_pfcp_vol_meas_ie_t zero_vol_meas) 13 21 (mk_vol_meas (mk_ie_header 66 9) 0 0 1 0 0 10 0)
    (repeat 0 32) 0.
Proof.
  split.
  - intros Hv Hok Hr. eapply (codec_round_trips _ _ (layout_vol_meas v));
      [by apply vol_meas_encodes|by apply vol_meas_decodes|done|exact Hr].
  - eexists. split; [vm_compute; reflexivity|]. split_and!; vm_compute; reflexivity.
Qed.

Lemma vol_meas_roundtrip_witness :
  let v := mk_vol_meas (mk_ie_header 66 25) 0 1 1 1 30 10 20 in
  round_trips (encode_pfcp_vol_meas_ie_t v) (decode_pfcp_vol_meas_ie_t zero_vol_meas) 29 29 v (repeat 0 40) 0.
Proof.
  apply (vol_meas_roundtrip (mk_vol_meas (mk_ie_header 66 25) 0 1 1 1 30 10 20) (repeat 0 40) [] 0).
  - split_and!; reflexivity.
  - apply layout_okb_spec. reflexivity.
  - apply message_room_zero. lia.
Defined.
