(* ===== verification/PfcpMsgsEncoder.v ===== *)
(** * Encoders of the PFCP messages and grouped elements
    (src/libpfcp/src/pfcp_messages_encoder.c)

    An encoder calls the encoders of the header and of the elements that are present,
    at an offset from [enc_len], and adds what they return to [enc_len]: [ecall_at]
    where the offset is [enc_len], [ecall] where it is [enc_len/CHAR_SIZE].  An
    element is present when the length in its header is not 0. *)

From S2P Require Import Prelude EncDecBits Codec PfcpIes PfcpIesEncoder PfcpMsgs.

(** ** Statements *)

(** [uint8_t len = f(..., buf + enc_len/CHAR_SIZE); len = len * CHAR_SIZE; enc_len += len;] *)
Definition ecall_octets (f : ie_encoder) : enc := fun base '(enc_len, buf) =>
  '(k, buf') ← f buf (base + enc_len / 8);
  Some (u16 (enc_len + u8 (u8 k * 8)), buf').

(** ** The encoders *)

Definition encode_pfcp_create_traffic_endpt_ie_t (value : pfcp_create_traffic_endpt_ie_t) : ie_encoder :=
  enc_bits (
    ecall (encode_pfcp_ie_header_t value.(create_traffic_endpt_header)) ⨾
    enc_when (nz value.(create_traffic_endpt_traffic_endpt_id).(traffic_endpt_id_header).(ie_len)) (ecall_at (encode_pfcp_traffic_endpt_id_ie_t value.(create_traffic_endpt_traffic_endpt_id))) ⨾
    enc_when (nz value.(create_traffic_endpt_local_fteid).(fteid_header).(ie_len)) (ecall_at (encode_pfcp_fteid_ie_t value.(create_traffic_endpt_local_fteid))) ⨾
    enc_when (nz value.(create_traffic_endpt_ntwk_inst).(ntwk_inst_header).(ie_len)) (ecall_at (encode_pfcp_ntwk_inst_ie_t value.(create_traffic_endpt_ntwk_inst))) ⨾
    enc_when (nz value.(create_traffic_endpt_ue_ip_address).(ue_ip_address_header).(ie_len)) (ecall_at (encode_pfcp_ue_ip_address_ie_t value.(create_traffic_endpt_ue_ip_address))) ⨾
    enc_when (nz value.(create_traffic_endpt_eth_pdu_sess_info).(eth_pdu_sess_info_header).(ie_len)) (ecall_at (encode_pfcp_eth_pdu_sess_info_ie_t value.(create_traffic_endpt_eth_pdu_sess_info))) ⨾
    enc_when (nz value.(create_traffic_endpt_framed_routing).(framed_routing_header).(ie_len)) (ecall_at (encode_pfcp_framed_routing_ie_t value.(create_traffic_endpt_framed_routing))) ⨾
    enc_for value.(create_traffic_endpt_framed_route) 0 (Z.to_nat value.(create_traffic_endpt_framed_route_count)) (fun x => enc_when (nz x.(framed_route_header).(ie_len)) (ecall_at (encode_pfcp_framed_route_ie_t x))) ⨾
    enc_for value.(create_traffic_endpt_frmd_ipv6_rte) 0 (Z.to_nat value.(create_traffic_endpt_frmd_ipv6_route_count)) (fun x => enc_when (nz x.(frmd_ipv6_route_header).(ie_len)) (ecall_at (encode_pfcp_frmd_ipv6_route_ie_t x)))).

Definition encode_pfcp_pfd_context_ie_t (value : pfcp_pfd_context_ie_t) : ie_encoder :=
  enc_bits (
    ecall (encode_pfcp_ie_header_t value.(pfd_context_header)) ⨾
    enc_for value.(pfd_context_pfd_contents) 0 (Z.to_nat value.(pfd_context_pfd_contents_count)) (fun x => enc_when (nz x.(pfd_contents_header).(ie_len)) (ecall (encode_pfcp_pfd_contents_ie_t x)))).

Definition encode_pfcp_eth_pckt_fltr_ie_t (value : pfcp_eth_pckt_fltr_ie_t) : ie_encoder :=
  enc_bits (
    ecall (encode_pfcp_ie_header_t value.(eth_pckt_fltr_header)) ⨾
    enc_when (nz value.(eth_pckt_fltr_eth_fltr_id).(eth_fltr_id_header).(ie_len)) (ecall_at (encode_pfcp_eth_fltr_id_ie_t value.(eth_pckt_fltr_eth_fltr_id))) ⨾
    enc_when (nz value.(eth_pckt_fltr_eth_fltr_props).(eth_fltr_props_header).(ie_len)) (ecall_at (encode_pfcp_eth_fltr_props_ie_t value.(eth_pckt_fltr_eth_fltr_props))) ⨾
    enc_when (nz value.(eth_pckt_fltr_mac_address).(mac_address_header).(ie_len)) (ecall_at (encode_pfcp_mac_address_ie_t value.(eth_pckt_fltr_mac_address))) ⨾
    enc_when (nz value.(eth_pckt_fltr_ethertype).(ethertype_header).(ie_len)) (ecall_at (encode_pfcp_ethertype_ie_t value.(eth_pckt_fltr_ethertype))) ⨾
    enc_when (nz value.(eth_pckt_fltr_ctag).(ctag_header).(ie_len)) (ecall_at (encode_pfcp_ctag_ie_t value.(eth_pckt_fltr_ctag))) ⨾
    enc_when (nz value.(eth_pckt_fltr_stag).(stag_header).(ie_len)) (ecall_at (encode_pfcp_stag_ie_t value.(eth_pckt_fltr_stag))) ⨾
    enc_for value.(eth_pckt_fltr_sdf_filter) 0 (Z.to_nat value.(eth_pckt_fltr_sdf_filter_count)) (fun x => enc_when (nz x.(sdf_filter_header).(ie_len)) (ecall_at (encode_pfcp_sdf_filter_ie_t x)))).

Definition encode_pfcp_remove_far_ie_t (value : pfcp_remove_far_ie_t) : ie_encoder :=
  enc_bits (
    ecall (encode_pfcp_ie_header_t value.(remove_far_header)) ⨾
    enc_when (nz value.(remove_far_far_id).(far_id_header).(ie_len)) (ecall_at (encode_pfcp_far_id_ie_t value.(remove_far_far_id)))).

Definition encode_pfcp_hrtbeat_req_t (value : pfcp_hrtbeat_req_t) : ie_encoder :=
  enc_bits (
    ecall_at (encode_pfcp_header_t value.(hrtbeat_req_header)) ⨾
    enc_when (nz value.(hrtbeat_req_rcvry_time_stmp).(rcvry_time_stmp_header).(ie_len)) (ecall_at (encode_pfcp_rcvry_time_stmp_ie_t value.(hrtbeat_req_rcvry_time_stmp)))).

Definition encode_pfcp_assn_setup_rsp_t (value : pfcp_assn_setup_rsp_t) : ie_encoder :=
  enc_bits (
    ecall_at (encode_pfcp_header_t value.(assn_setup_rsp_header)) ⨾
    enc_when (nz value.(assn_setup_rsp_node_id).(node_id_header).(ie_len)) (ecall_at (encode_pfcp_node_id_ie_t value.(assn_setup_rsp_node_id))) ⨾
    enc_when (nz value.(assn_setup_rsp_cause).(cause_header).(ie_len)) (ecall_at (encode_pfcp_cause_ie_t value.(assn_setup_rsp_cause))) ⨾
    enc_when (nz value.(assn_setup_rsp_rcvry_time_stmp).(rcvry_time_stmp_header).(ie_len)) (ecall_at (encode_pfcp_rcvry_time_stmp_ie_t value.(assn_setup_rsp_rcvry_time_stmp))) ⨾
    enc_when (nz value.(assn_setup_rsp_up_func_feat).(up_func_feat_header).(ie_len)) (ecall_at (encode_pfcp_up_func_feat_ie_t value.(assn_setup_rsp_up_func_feat))) ⨾
    enc_when (nz value.(assn_setup_rsp_cp_func_feat).(cp_func_feat_header).(ie_len)) (ecall_at (encode_pfcp_cp_func_feat_ie_t value.(assn_setup_rsp_cp_func_feat))) ⨾
    enc_for value.(assn_setup_rsp_user_plane_ip_rsrc_info) 0 (Z.to_nat value.(assn_setup_rsp_user_plane_ip_rsrc_info_count)) (fun x => enc_when (nz x.(user_plane_ip_rsrc_info_header).(ie_len)) (ecall_at (encode_pfcp_user_plane_ip_rsrc_info_ie_t x)))).

Definition encode_pfcp_dnlnk_data_rpt_ie_t (value : pfcp_dnlnk_data_rpt_ie_t) : ie_encoder :=
  enc_bytes (
    ecall (encode_pfcp_ie_header_t value.(dnlnk_data_rpt_header)) ⨾
    enc_for value.(dnlnk_data_rpt_pdr_id) 0 (Z.to_nat value.(dnlnk_data_rpt_pdr_id_count)) (fun x => enc_when (nz x.(pdr_id_header).(ie_len)) (ecall (encode_pfcp_pdr_id_ie_t x))) ⨾
    enc_when (nz value.(dnlnk_data_rpt_dnlnk_data_svc_info).(dnlnk_data_svc_info_header).(ie_len)) (ecall (encode_pfcp_dnlnk_data_svc_info_ie_t value.(dnlnk_data_rpt_dnlnk_data_svc_info)))).

Definition encode_pfcp_query_urr_ie_t (value : pfcp_query_urr_ie_t) : ie_encoder :=
  enc_bits (
    ecall (encode_pfcp_ie_header_t value.(query_urr_header)) ⨾
    enc_when (nz value.(query_urr_urr_id).(urr_id_header).(ie_len)) (ecall_at (encode_pfcp_urr_id_ie_t value.(query_urr_urr_id)))).

Definition encode_pfcp_assn_setup_req_t (value : pfcp_assn_setup_req_t) : ie_encoder :=
  enc_bits (
    ecall_at (encode_pfcp_header_t value.(assn_setup_req_header)) ⨾
    enc_when (nz value.(assn_setup_req_node_id).(node_id_header).(ie_len)) (ecall_at (encode_pfcp_node_id_ie_t value.(assn_setup_req_node_id))) ⨾
    enc_when (nz value.(assn_setup_req_rcvry_time_stmp).(rcvry_time_stmp_header).(ie_len)) (ecall_at (encode_pfcp_rcvry_time_stmp_ie_t value.(assn_setup_req_rcvry_time_stmp))) ⨾
    enc_when (nz value.(assn_setup_req_up_func_feat).(up_func_feat_header).(ie_len)) (ecall_at (encode_pfcp_up_func_feat_ie_t value.(assn_setup_req_up_func_feat))) ⨾
    enc_when (nz value.(assn_setup_req_cp_func_feat).(cp_func_feat_header).(ie_len)) (ecall_at (encode_pfcp_cp_func_feat_ie_t value.(assn_setup_req_cp_func_feat))) ⨾
    enc_for value.(assn_setup_req_user_plane_ip_rsrc_info) 0 (Z.to_nat value.(assn_setup_req_user_plane_ip_rsrc_info_count)) (fun x => enc_when (nz x.(user_plane_ip_rsrc_info_header).(ie_len)) (ecall_at (encode_pfcp_user_plane_ip_rsrc_info_ie_t x)))).

Definition encode_pfcp_upd_bar_sess_rpt_rsp_ie_t (value : pfcp_upd_bar_sess_rpt_rsp_ie_t) : ie_encoder :=
  enc_bits (
    ecall (encode_pfcp_ie_header_t value.(upd_bar_sess_rpt_rsp_header)) ⨾
    enc_when (nz value.(upd_bar_sess_rpt_rsp_bar_id).(bar_id_header).(ie_len)) (ecall_at (encode_pfcp_bar_id_ie_t value.(upd_bar_sess_rpt_rsp_bar_id))) ⨾
    enc_when (nz value.(upd_bar_sess_rpt_rsp_dnlnk_data_notif_delay).(dnlnk_data_notif_delay_header).(ie_len)) (ecall_at (encode_pfcp_dnlnk_data_notif_delay_ie_t value.(upd_bar_sess_rpt_rsp_dnlnk_data_notif_delay))) ⨾
    enc_when (nz value.(upd_bar_sess_rpt_rsp_dl_buf_dur).(dl_buf_dur_header).(ie_len)) (ecall_at (encode_pfcp_dl_buf_dur_ie_t value.(upd_bar_sess_rpt_rsp_dl_buf_dur))) ⨾
    enc_when (nz value.(upd_bar_sess_rpt_rsp_dl_buf_suggstd_pckt_cnt).(dl_buf_suggstd_pckt_cnt_header).(ie_len)) (ecall_at (encode_pfcp_dl_buf_suggstd_pckt_cnt_ie_t value.(upd_bar_sess_rpt_rsp_dl_buf_suggstd_pckt_cnt))) ⨾
    enc_when (nz value.(upd_bar_sess_rpt_rsp_suggstd_buf_pckts_cnt).(suggstd_buf_pckts_cnt_header).(ie_len)) (ecall_at (encode_pfcp_suggstd_buf_pckts_cnt_ie_t value.(upd_bar_sess_rpt_rsp_suggstd_buf_pckts_cnt)))).

Definition encode_pfcp_remove_urr_ie_t (value : pfcp_remove_urr_ie_t) : ie_encoder :=
  enc_bits (
    ecall (encode_pfcp_ie_header_t value.(remove_urr_header)) ⨾
    enc_when (nz value.(remove_urr_urr_id).(urr_id_header).(ie_len)) (ecall_at (encode_pfcp_urr_id_ie_t value.(remove_urr_urr_id)))).

Definition encode_pfcp_sess_rpt_rsp_t (value : pfcp_sess_rpt_rsp_t) : ie_encoder :=
  enc_bits (
    ecall_at (encode_pfcp_header_t value.(sess_rpt_rsp_header)) ⨾
    enc_when (nz value.(sess_rpt_rsp_cause).(cause_header).(ie_len)) (ecall_at (encode_pfcp_cause_ie_t value.(sess_rpt_rsp_cause))) ⨾
    enc_when (nz value.(sess_rpt_rsp_offending_ie).(offending_ie_header).(ie_len)) (ecall_at (encode_pfcp_offending_ie_ie_t value.(sess_rpt_rsp_offending_ie))) ⨾
    enc_when (nz value.(sess_rpt_rsp_update_bar).(upd_bar_sess_rpt_rsp_header).(ie_len)) (ecall_at (encode_pfcp_upd_bar_sess_rpt_rsp_ie_t value.(sess_rpt_rsp_update_bar))) ⨾
    enc_when (nz value.(sess_rpt_rsp_sxsrrsp_flags).(pfcpsrrsp_flags_header).(ie_len)) (ecall_at (encode_pfcp_pfcpsrrsp_flags_ie_t value.(sess_rpt_rsp_sxsrrsp_flags)))).

Definition encode_pfcp_assn_upd_rsp_t (value : pfcp_assn_upd_rsp_t) : ie_encoder :=
  enc_bits (
    ecall_at (encode_pfcp_header_t value.(assn_upd_rsp_header)) ⨾
    enc_when (nz value.(assn_upd_rsp_node_id).(node_id_header).(ie_len)) (ecall_at (encode_pfcp_node_id_ie_t value.(assn_upd_rsp_node_id))) ⨾
    enc_when (nz value.(assn_upd_rsp_cause).(cause_header).(ie_len)) (ecall_at (encode_pfcp_cause_ie_t value.(assn_upd_rsp_cause))) ⨾
    enc_when (nz value.(assn_upd_rsp_up_func_feat).(up_func_feat_header).(ie_len)) (ecall_at (encode_pfcp_up_func_feat_ie_t value.(assn_upd_rsp_up_func_feat))) ⨾
    enc_when (nz value.(assn_upd_rsp_cp_func_feat).(cp_func_feat_header).(ie_len)) (ecall_at (encode_pfcp_cp_func_feat_ie_t value.(assn_upd_rsp_cp_func_feat)))).

Definition encode_pfcp_assn_rel_rsp_t (value : pfcp_assn_rel_rsp_t) : ie_encoder :=
  enc_bits (
    ecall_at (encode_pfcp_header_t value.(assn_rel_rsp_header)) ⨾
    enc_when (nz value.(assn_rel_rsp_node_id).(node_id_header).(ie_len)) (ecall_at (encode_pfcp_node_id_ie_t value.(assn_rel_rsp_node_id))) ⨾
    enc_when (nz value.(assn_rel_rsp_cause).(cause_header).(ie_len)) (ecall_at (encode_pfcp_cause_ie_t value.(assn_rel_rsp_cause)))).

Definition encode_pfcp_sess_set_del_req_t (value : pfcp_sess_set_del_req_t) : ie_encoder :=
  enc_bits (
    ecall_at (encode_pfcp_header_t value.(sess_set_del_req_header)) ⨾
    enc_when (nz value.(sess_set_del_req_node_id).(node_id_header).(ie_len)) (ecall_at (encode_pfcp_node_id_ie_t value.(sess_set_del_req_node_id))) ⨾
    enc_when (nz value.(sess_set_del_req_sgw_c_fqcsid).(fqcsid_header).(ie_len)) (ecall_at (encode_pfcp_fqcsid_ie_t value.(sess_set_del_req_sgw_c_fqcsid))) ⨾
    enc_when (nz value.(sess_set_del_req_pgw_c_fqcsid).(fqcsid_header).(ie_len)) (ecall_at (encode_pfcp_fqcsid_ie_t value.(sess_set_del_req_pgw_c_fqcsid))) ⨾
    enc_when (nz value.(sess_set_del_req_sgw_u_fqcsid).(fqcsid_header).(ie_len)) (ecall_at (encode_pfcp_fqcsid_ie_t value.(sess_set_del_req_sgw_u_fqcsid))) ⨾
    enc_when (nz value.(sess_set_del_req_pgw_u_fqcsid).(fqcsid_header).(ie_len)) (ecall_at (encode_pfcp_fqcsid_ie_t value.(sess_set_del_req_pgw_u_fqcsid))) ⨾
    enc_when (nz value.(sess_set_del_req_twan_fqcsid).(fqcsid_header).(ie_len)) (ecall_at (encode_pfcp_fqcsid_ie_t value.(sess_set_del_req_twan_fqcsid))) ⨾
    enc_when (nz value.(sess_set_del_req_epdg_fqcsid).(fqcsid_header).(ie_len)) (ecall_at (encode_pfcp_fqcsid_ie_t value.(sess_set_del_req_epdg_fqcsid))) ⨾
    enc_when (nz value.(sess_set_del_req_mme_fqcsid).(fqcsid_header).(ie_len)) (ecall_at (encode_pfcp_fqcsid_ie_t value.(sess_set_del_req_mme_fqcsid)))).

Definition encode_pfcp_sess_set_del_rsp_t (value : pfcp_sess_set_del_rsp_t) : ie_encoder :=
  enc_bits (
    ecall_at (encode_pfcp_header_t value.(sess_set_del_rsp_header)) ⨾
    enc_when (nz value.(sess_set_del_rsp_node_id).(node_id_header).(ie_len)) (ecall_at (encode_pfcp_node_id_ie_t value.(sess_set_del_rsp_node_id))) ⨾
    enc_when (nz value.(sess_set_del_rsp_cause).(cause_header).(ie_len)) (ecall_at (encode_pfcp_cause_ie_t value.(sess_set_del_rsp_cause))) ⨾
    enc_when (nz value.(sess_set_del_rsp_offending_ie).(offending_ie_header).(ie_len)) (ecall_at (encode_pfcp_offending_ie_ie_t value.(sess_set_del_rsp_offending_ie)))).

Definition encode_pfcp_created_pdr_ie_t (value : pfcp_created_pdr_ie_t) : ie_encoder :=
  enc_bytes (
    ecall (encode_pfcp_ie_header_t value.(created_pdr_header)) ⨾
    enc_when (nz value.(created_pdr_pdr_id).(pdr_id_header).(ie_len)) (ecall (encode_pfcp_pdr_id_ie_t value.(created_pdr_pdr_id))) ⨾
    enc_when (nz value.(created_pdr_local_fteid).(fteid_header).(ie_len)) (ecall (encode_pfcp_fteid_ie_t value.(created_pdr_local_fteid)))).

Definition encode_pfcp_load_ctl_info_ie_t (value : pfcp_load_ctl_info_ie_t) : ie_encoder :=
  enc_bits (
    ecall (encode_pfcp_ie_header_t value.(load_ctl_info_header)) ⨾
    enc_when (nz value.(load_ctl_info_load_ctl_seqn_nbr).(sequence_number_header).(ie_len)) (ecall_at (encode_pfcp_sequence_number_ie_t value.(load_ctl_info_load_ctl_seqn_nbr))) ⨾
    enc_when (nz value.(load_ctl_info_load_metric).(metric_header).(ie_len)) (ecall_at (encode_pfcp_metric_ie_t value.(load_ctl_info_load_metric)))).

Definition encode_pfcp_created_traffic_endpt_ie_t (value : pfcp_created_traffic_endpt_ie_t) : ie_encoder :=
  enc_bits (
    ecall (encode_pfcp_ie_header_t value.(created_traffic_endpt_header)) ⨾
    enc_when (nz value.(created_traffic_endpt_traffic_endpt_id).(traffic_endpt_id_header).(ie_len)) (ecall_at (encode_pfcp_traffic_endpt_id_ie_t value.(created_traffic_endpt_traffic_endpt_id))) ⨾
    enc_when (nz value.(created_traffic_endpt_local_fteid).(fteid_header).(ie_len)) (ecall_at (encode_pfcp_fteid_ie_t value.(created_traffic_endpt_local_fteid)))).

Definition encode_pfcp_pfd_mgmt_rsp_t (value : pfcp_pfd_mgmt_rsp_t) : ie_encoder :=
  enc_bits (
    ecall_at (encode_pfcp_header_t value.(pfd_mgmt_rsp_header)) ⨾
    enc_when (nz value.(pfd_mgmt_rsp_cause).(cause_header).(ie_len)) (ecall_at (encode_pfcp_cause_ie_t value.(pfd_mgmt_rsp_cause))) ⨾
    enc_when (nz value.(pfd_mgmt_rsp_offending_ie).(offending_ie_header).(ie_len)) (ecall_at (encode_pfcp_offending_ie_ie_t value.(pfd_mgmt_rsp_offending_ie)))).

Definition encode_pfcp_upd_traffic_endpt_ie_t (value : pfcp_upd_traffic_endpt_ie_t) : ie_encoder :=
  enc_bits (
    ecall (encode_pfcp_ie_header_t value.(upd_traffic_endpt_header)) ⨾
    enc_when (nz value.(upd_traffic_endpt_traffic_endpt_id).(traffic_endpt_id_header).(ie_len)) (ecall_at (encode_pfcp_traffic_endpt_id_ie_t value.(upd_traffic_endpt_traffic_endpt_id))) ⨾
    enc_when (nz value.(upd_traffic_endpt_local_fteid).(fteid_header).(ie_len)) (ecall_at (encode_pfcp_fteid_ie_t value.(upd_traffic_endpt_local_fteid))) ⨾
    enc_when (nz value.(upd_traffic_endpt_ntwk_inst).(ntwk_inst_header).(ie_len)) (ecall_at (encode_pfcp_ntwk_inst_ie_t value.(upd_traffic_endpt_ntwk_inst))) ⨾
    enc_when (nz value.(upd_traffic_endpt_ue_ip_address).(ue_ip_address_header).(ie_len)) (ecall_at (encode_pfcp_ue_ip_address_ie_t value.(upd_traffic_endpt_ue_ip_address))) ⨾
    enc_when (nz value.(upd_traffic_endpt_framed_routing).(framed_routing_header).(ie_len)) (ecall_at (encode_pfcp_framed_routing_ie_t value.(upd_traffic_endpt_framed_routing))) ⨾
    enc_for value.(upd_traffic_endpt_framed_route) 0 (Z.to_nat value.(upd_traffic_endpt_framed_route_count)) (fun x => enc_when (nz x.(framed_route_header).(ie_len)) (ecall_at (encode_pfcp_framed_route_ie_t x))) ⨾
    enc_for value.(upd_traffic_endpt_frmd_ipv6_rte) 0 (Z.to_nat value.(upd_traffic_endpt_frmd_ipv6_route_count)) (fun x => enc_when (nz x.(frmd_ipv6_route_header).(ie_len)) (ecall_at (encode_pfcp_frmd_ipv6_route_ie_t x)))).

Definition encode_pfcp_upd_dupng_parms_ie_t (value : pfcp_upd_dupng_parms_ie_t) : ie_encoder :=
  enc_bits (
    ecall (encode_pfcp_ie_header_t value.(upd_dupng_parms_header)) ⨾
    enc_when (nz value.(upd_dupng_parms_dst_intfc).(dst_intfc_header).(ie_len)) (ecall_at (encode_pfcp_dst_intfc_ie_t value.(upd_dupng_parms_dst_intfc))) ⨾
    enc_when (nz value.(upd_dupng_parms_outer_hdr_creation).(outer_hdr_creation_header).(ie_len)) (ecall_at (encode_pfcp_outer_hdr_creation_ie_t value.(upd_dupng_parms_outer_hdr_creation))) ⨾
    enc_when (nz value.(upd_dupng_parms_trnspt_lvl_marking).(trnspt_lvl_marking_header).(ie_len)) (ecall_at (encode_pfcp_trnspt_lvl_marking_ie_t value.(upd_dupng_parms_trnspt_lvl_marking))) ⨾
    enc_when (nz value.(upd_dupng_parms_frwdng_plcy).(frwdng_plcy_header).(ie_len)) (ecall_at (encode_pfcp_frwdng_plcy_ie_t value.(upd_dupng_parms_frwdng_plcy)))).

Definition encode_pfcp_frwdng_parms_ie_t (value : pfcp_frwdng_parms_ie_t) : ie_encoder :=
  enc_bits (
    ecall (encode_pfcp_ie_header_t value.(frwdng_parms_header)) ⨾
    enc_when (nz value.(frwdng_parms_dst_intfc).(dst_intfc_header).(ie_len)) (ecall (encode_pfcp_dst_intfc_ie_t value.(frwdng_parms_dst_intfc))) ⨾
    enc_when (nz value.(frwdng_parms_ntwk_inst).(ntwk_inst_header).(ie_len)) (ecall_at (encode_pfcp_ntwk_inst_ie_t value.(frwdng_parms_ntwk_inst))) ⨾
    enc_when (nz value.(frwdng_parms_redir_info).(redir_info_header).(ie_len)) (ecall_at (encode_pfcp_redir_info_ie_t value.(frwdng_parms_redir_info))) ⨾
    enc_when (nz value.(frwdng_parms_outer_hdr_creation).(outer_hdr_creation_header).(ie_len)) (ecall (encode_pfcp_outer_hdr_creation_ie_t value.(frwdng_parms_outer_hdr_creation))) ⨾
    enc_when (nz value.(frwdng_parms_trnspt_lvl_marking).(trnspt_lvl_marking_header).(ie_len)) (ecall_at (encode_pfcp_trnspt_lvl_marking_ie_t value.(frwdng_parms_trnspt_lvl_marking))) ⨾
    enc_when (nz value.(frwdng_parms_frwdng_plcy).(frwdng_plcy_header).(ie_len)) (ecall_at (encode_pfcp_frwdng_plcy_ie_t value.(frwdng_parms_frwdng_plcy))) ⨾
    enc_when (nz value.(frwdng_parms_hdr_enrchmt).(hdr_enrchmt_header).(ie_len)) (ecall_at (encode_pfcp_hdr_enrchmt_ie_t value.(frwdng_parms_hdr_enrchmt))) ⨾
    enc_when (nz value.(frwdng_parms_lnkd_traffic_endpt_id).(traffic_endpt_id_header).(ie_len)) (ecall_at (encode_pfcp_traffic_endpt_id_ie_t value.(frwdng_parms_lnkd_traffic_endpt_id))) ⨾
    enc_when (nz value.(frwdng_parms_proxying).(proxying_header).(ie_len)) (ecall_at (encode_pfcp_proxying_ie_t value.(frwdng_parms_proxying)))).

Definition encode_pfcp_dupng_parms_ie_t (value : pfcp_dupng_parms_ie_t) : ie_encoder :=
  enc_bits (
    ecall (encode_pfcp_ie_header_t value.(dupng_parms_header)) ⨾
    enc_when (nz value.(dupng_parms_dst_intfc).(dst_intfc_header).(ie_len)) (ecall_at (encode_pfcp_dst_intfc_ie_t value.(dupng_parms_dst_intfc))) ⨾
    enc_when (nz value.(dupng_parms_outer_hdr_creation).(outer_hdr_creation_header).(ie_len)) (ecall_at (encode_pfcp_outer_hdr_creation_ie_t value.(dupng_parms_outer_hdr_creation))) ⨾
    enc_when (nz value.(dupng_parms_trnspt_lvl_marking).(trnspt_lvl_marking_header).(ie_len)) (ecall_at (encode_pfcp_trnspt_lvl_marking_ie_t value.(dupng_parms_trnspt_lvl_marking))) ⨾
    enc_when (nz value.(dupng_parms_frwdng_plcy).(frwdng_plcy_header).(ie_len)) (ecall_at (encode_pfcp_frwdng_plcy_ie_t value.(dupng_parms_frwdng_plcy)))).

Definition encode_pfcp_create_far_ie_t (value : pfcp_create_far_ie_t) : ie_encoder :=
  enc_bytes (
    ecall (encode_pfcp_ie_header_t value.(create_far_header)) ⨾
    enc_when (nz value.(create_far_far_id).(far_id_header).(ie_len)) (ecall (encode_pfcp_far_id_ie_t value.(create_far_far_id))) ⨾
    enc_when (nz value.(create_far_apply_action).(apply_action_header).(ie_len)) (ecall (encode_pfcp_apply_action_ie_t value.(create_far_apply_action))) ⨾
    enc_when (nz value.(create_far_frwdng_parms).(frwdng_parms_header).(ie_len)) (ecall (encode_pfcp_frwdng_parms_ie_t value.(create_far_frwdng_parms))) ⨾
    enc_when (nz value.(create_far_bar_id).(bar_id_header).(ie_len)) (ecall_at (encode_pfcp_bar_id_ie_t value.(create_far_bar_id))) ⨾
    enc_for value.(create_far_dupng_parms) 0 (Z.to_nat value.(create_far_dupng_parms_count)) (fun x => enc_when (nz x.(dupng_parms_header).(ie_len)) (ecall_at (encode_pfcp_dupng_parms_ie_t x)))).

Definition encode_pfcp_upd_frwdng_parms_ie_t (value : pfcp_upd_frwdng_parms_ie_t) : ie_encoder :=
  enc_bits (
    ecall (encode_pfcp_ie_header_t value.(upd_frwdng_parms_header)) ⨾
    enc_when (nz value.(upd_frwdng_parms_dst_intfc).(dst_intfc_header).(ie_len)) (ecall (encode_pfcp_dst_intfc_ie_t value.(upd_frwdng_parms_dst_intfc))) ⨾
    enc_when (nz value.(upd_frwdng_parms_ntwk_inst).(ntwk_inst_header).(ie_len)) (ecall_at (encode_pfcp_ntwk_inst_ie_t value.(upd_frwdng_parms_ntwk_inst))) ⨾
    enc_when (nz value.(upd_frwdng_parms_redir_info).(redir_info_header).(ie_len)) (ecall_at (encode_pfcp_redir_info_ie_t value.(upd_frwdng_parms_redir_info))) ⨾
    enc_when (nz value.(upd_frwdng_parms_outer_hdr_creation).(outer_hdr_creation_header).(ie_len)) (ecall (encode_pfcp_outer_hdr_creation_ie_t value.(upd_frwdng_parms_outer_hdr_creation))) ⨾
    enc_when (nz value.(upd_frwdng_parms_trnspt_lvl_marking).(trnspt_lvl_marking_header).(ie_len)) (ecall_at (encode_pfcp_trnspt_lvl_marking_ie_t value.(upd_frwdng_parms_trnspt_lvl_marking))) ⨾
    enc_when (nz value.(upd_frwdng_parms_frwdng_plcy).(frwdng_plcy_header).(ie_len)) (ecall_at (encode_pfcp_frwdng_plcy_ie_t value.(upd_frwdng_parms_frwdng_plcy))) ⨾
    enc_when (nz value.(upd_frwdng_parms_hdr_enrchmt).(hdr_enrchmt_header).(ie_len)) (ecall_at (encode_pfcp_hdr_enrchmt_ie_t value.(upd_frwdng_parms_hdr_enrchmt))) ⨾
    enc_when (nz value.(upd_frwdng_parms_pfcpsmreq_flags).(pfcpsmreq_flags_header).(ie_len)) (ecall_octets (encode_pfcp_pfcpsmreq_flags_ie_t value.(upd_frwdng_parms_pfcpsmreq_flags))) ⨾
    enc_when (nz value.(upd_frwdng_parms_lnkd_traffic_endpt_id).(traffic_endpt_id_header).(ie_len)) (ecall_at (encode_pfcp_traffic_endpt_id_ie_t value.(upd_frwdng_parms_lnkd_traffic_endpt_id)))).

Definition encode_pfcp_node_rpt_rsp_t (value : pfcp_node_rpt_rsp_t) : ie_encoder :=
  enc_bits (
    ecall_at (encode_pfcp_header_t value.(node_rpt_rsp_header)) ⨾
    enc_when (nz value.(node_rpt_rsp_node_id).(node_id_header).(ie_len)) (ecall_at (encode_pfcp_node_id_ie_t value.(node_rpt_rsp_node_id))) ⨾
    enc_when (nz value.(node_rpt_rsp_cause).(cause_header).(ie_len)) (ecall_at (encode_pfcp_cause_ie_t value.(node_rpt_rsp_cause))) ⨾
    enc_when (nz value.(node_rpt_rsp_offending_ie).(offending_ie_header).(ie_len)) (ecall_at (encode_pfcp_offending_ie_ie_t value.(node_rpt_rsp_offending_ie)))).

Definition encode_pfcp_ovrld_ctl_info_ie_t (value : pfcp_ovrld_ctl_info_ie_t) : ie_encoder :=
  enc_bits (
    ecall (encode_pfcp_ie_header_t value.(ovrld_ctl_info_header)) ⨾
    enc_when (nz value.(ovrld_ctl_info_ovrld_ctl_seqn_nbr).(sequence_number_header).(ie_len)) (ecall_at (encode_pfcp_sequence_number_ie_t value.(ovrld_ctl_info_ovrld_ctl_seqn_nbr))) ⨾
    enc_when (nz value.(ovrld_ctl_info_ovrld_reduction_metric).(metric_header).(ie_len)) (ecall_at (encode_pfcp_metric_ie_t value.(ovrld_ctl_info_ovrld_reduction_metric))) ⨾
    enc_when (nz value.(ovrld_ctl_info_period_of_validity).(timer_header).(ie_len)) (ecall_at (encode_pfcp_timer_ie_t value.(ovrld_ctl_info_period_of_validity))) ⨾
    enc_when (nz value.(ovrld_ctl_info_ovrld_ctl_info_flgs).(oci_flags_header).(ie_len)) (ecall_at (encode_pfcp_oci_flags_ie_t value.(ovrld_ctl_info_ovrld_ctl_info_flgs)))).

Definition encode_pfcp_hrtbeat_rsp_t (value : pfcp_hrtbeat_rsp_t) : ie_encoder :=
  enc_bits (
    ecall_at (encode_pfcp_header_t value.(hrtbeat_rsp_header)) ⨾
    enc_when (nz value.(hrtbeat_rsp_rcvry_time_stmp).(rcvry_time_stmp_header).(ie_len)) (ecall_at (encode_pfcp_rcvry_time_stmp_ie_t value.(hrtbeat_rsp_rcvry_time_stmp)))).

Definition encode_pfcp_app_det_info_ie_t (value : pfcp_app_det_info_ie_t) : ie_encoder :=
  enc_bits (
    ecall (encode_pfcp_ie_header_t value.(app_det_info_header)) ⨾
    enc_when (nz value.(app_det_info_application_id).(application_id_header).(ie_len)) (ecall_at (encode_pfcp_application_id_ie_t value.(app_det_info_application_id))) ⨾
    enc_when (nz value.(app_det_info_app_inst_id).(app_inst_id_header).(ie_len)) (ecall_at (encode_pfcp_app_inst_id_ie_t value.(app_det_info_app_inst_id))) ⨾
    enc_when (nz value.(app_det_info_flow_info).(flow_info_header).(ie_len)) (ecall_at (encode_pfcp_flow_info_ie_t value.(app_det_info_flow_info)))).

Definition encode_pfcp_pdi_ie_t (value : pfcp_pdi_ie_t) : ie_encoder :=
  enc_bits (
    ecall (encode_pfcp_ie_header_t value.(pdi_header)) ⨾
    enc_when (nz value.(pdi_src_intfc).(src_intfc_header).(ie_len)) (ecall (encode_pfcp_src_intfc_ie_t value.(pdi_src_intfc))) ⨾
    enc_when (nz value.(pdi_local_fteid).(fteid_header).(ie_len)) (ecall (encode_pfcp_fteid_ie_t value.(pdi_local_fteid))) ⨾
    enc_when (nz value.(pdi_ntwk_inst).(ntwk_inst_header).(ie_len)) (ecall (encode_pfcp_ntwk_inst_ie_t value.(pdi_ntwk_inst))) ⨾
    enc_when (nz value.(pdi_ue_ip_address).(ue_ip_address_header).(ie_len)) (ecall (encode_pfcp_ue_ip_address_ie_t value.(pdi_ue_ip_address))) ⨾
    enc_when (nz value.(pdi_traffic_endpt_id).(traffic_endpt_id_header).(ie_len)) (ecall (encode_pfcp_traffic_endpt_id_ie_t value.(pdi_traffic_endpt_id))) ⨾
    enc_when (nz value.(pdi_application_id).(application_id_header).(ie_len)) (ecall (encode_pfcp_application_id_ie_t value.(pdi_application_id))) ⨾
    enc_when (nz value.(pdi_eth_pdu_sess_info).(eth_pdu_sess_info_header).(ie_len)) (ecall (encode_pfcp_eth_pdu_sess_info_ie_t value.(pdi_eth_pdu_sess_info))) ⨾
    enc_when (nz value.(pdi_framed_routing).(framed_routing_header).(ie_len)) (ecall (encode_pfcp_framed_routing_ie_t value.(pdi_framed_routing))) ⨾
    enc_for value.(pdi_sdf_filter) 0 (Z.to_nat value.(pdi_sdf_filter_count)) (fun x => enc_when (nz x.(sdf_filter_header).(ie_len)) (ecall (encode_pfcp_sdf_filter_ie_t x))) ⨾
    enc_for value.(pdi_eth_pckt_fltr) 0 (Z.to_nat value.(pdi_eth_pckt_fltr_count)) (fun x => enc_when (nz x.(eth_pckt_fltr_header).(ie_len)) (ecall (encode_pfcp_eth_pckt_fltr_ie_t x))) ⨾
    enc_for value.(pdi_qfi) 0 (Z.to_nat value.(pdi_qfi_count)) (fun x => enc_when (nz x.(qfi_header).(ie_len)) (ecall (encode_pfcp_qfi_ie_t x))) ⨾
    enc_for value.(pdi_framed_route) 0 (Z.to_nat value.(pdi_framed_route_count)) (fun x => enc_when (nz x.(framed_route_header).(ie_len)) (ecall (encode_pfcp_framed_route_ie_t x))) ⨾
    enc_for value.(pdi_frmd_ipv6_rte) 0 (Z.to_nat value.(pdi_frmd_ipv6_route_count)) (fun x => enc_when (nz x.(frmd_ipv6_route_header).(ie_len)) (ecall (encode_pfcp_frmd_ipv6_route_ie_t x)))).

Definition encode_pfcp_update_pdr_ie_t (value : pfcp_update_pdr_ie_t) : ie_encoder :=
  enc_bytes (
    ecall (encode_pfcp_ie_header_t value.(update_pdr_header)) ⨾
    enc_when (nz value.(update_pdr_pdr_id).(pdr_id_header).(ie_len)) (ecall (encode_pfcp_pdr_id_ie_t value.(update_pdr_pdr_id))) ⨾
    enc_when (nz value.(update_pdr_outer_hdr_removal).(outer_hdr_removal_header).(ie_len)) (ecall (encode_pfcp_outer_hdr_removal_ie_t value.(update_pdr_outer_hdr_removal))) ⨾
    enc_when (nz value.(update_pdr_precedence).(precedence_header).(ie_len)) (ecall (encode_pfcp_precedence_ie_t value.(update_pdr_precedence))) ⨾
    enc_when (nz value.(update_pdr_pdi).(pdi_header).(ie_len)) (ecall (encode_pfcp_pdi_ie_t value.(update_pdr_pdi))) ⨾
    enc_when (nz value.(update_pdr_far_id).(far_id_header).(ie_len)) (ecall (encode_pfcp_far_id_ie_t value.(update_pdr_far_id))) ⨾
    enc_when (nz value.(update_pdr_urr_id).(urr_id_header).(ie_len)) (ecall (encode_pfcp_urr_id_ie_t value.(update_pdr_urr_id))) ⨾
    enc_when (nz value.(update_pdr_qer_id).(qer_id_header).(ie_len)) (ecall (encode_pfcp_qer_id_ie_t value.(update_pdr_qer_id))) ⨾
    enc_for value.(update_pdr_actvt_predef_rules) 0 (Z.to_nat value.(update_pdr_actvt_predef_rules_count)) (fun x => enc_when (nz x.(actvt_predef_rules_header).(ie_len)) (ecall (encode_pfcp_actvt_predef_rules_ie_t x))) ⨾
    enc_for value.(update_pdr_deact_predef_rules) 0 (Z.to_nat value.(update_pdr_deact_predef_rules_count)) (fun x => enc_when (nz x.(deact_predef_rules_header).(ie_len)) (ecall (encode_pfcp_deact_predef_rules_ie_t x)))).

Definition encode_pfcp_create_bar_ie_t (value : pfcp_create_bar_ie_t) : ie_encoder :=
  enc_bytes (
    ecall (encode_pfcp_ie_header_t value.(create_bar_header)) ⨾
    enc_when (nz value.(create_bar_bar_id).(bar_id_header).(ie_len)) (ecall (encode_pfcp_bar_id_ie_t value.(create_bar_bar_id))) ⨾
    enc_when (nz value.(create_bar_dnlnk_data_notif_delay).(dnlnk_data_notif_delay_header).(ie_len)) (ecall (encode_pfcp_dnlnk_data_notif_delay_ie_t value.(create_bar_dnlnk_data_notif_delay))) ⨾
    enc_when (nz value.(create_bar_suggstd_buf_pckts_cnt).(suggstd_buf_pckts_cnt_header).(ie_len)) (ecall (encode_pfcp_suggstd_buf_pckts_cnt_ie_t value.(create_bar_suggstd_buf_pckts_cnt)))).

Definition encode_pfcp_sess_del_req_t (value : pfcp_sess_del_req_t) : ie_encoder :=
  enc_bits (
    ecall_at (encode_pfcp_header_t value.(sess_del_req_header))).

Definition encode_pfcp_assn_upd_req_t (value : pfcp_assn_upd_req_t) : ie_encoder :=
  enc_bits (
    ecall_at (encode_pfcp_header_t value.(assn_upd_req_header)) ⨾
    enc_when (nz value.(assn_upd_req_node_id).(node_id_header).(ie_len)) (ecall_at (encode_pfcp_node_id_ie_t value.(assn_upd_req_node_id))) ⨾
    enc_when (nz value.(assn_upd_req_up_func_feat).(up_func_feat_header).(ie_len)) (ecall_at (encode_pfcp_up_func_feat_ie_t value.(assn_upd_req_up_func_feat))) ⨾
    enc_when (nz value.(assn_upd_req_cp_func_feat).(cp_func_feat_header).(ie_len)) (ecall_at (encode_pfcp_cp_func_feat_ie_t value.(assn_upd_req_cp_func_feat))) ⨾
    enc_when (nz value.(assn_upd_req_up_assn_rel_req).(up_assn_rel_req_header).(ie_len)) (ecall_at (encode_pfcp_up_assn_rel_req_ie_t value.(assn_upd_req_up_assn_rel_req))) ⨾
    enc_when (nz value.(assn_upd_req_graceful_rel_period).(graceful_rel_period_header).(ie_len)) (ecall_at (encode_pfcp_graceful_rel_period_ie_t value.(assn_upd_req_graceful_rel_period))) ⨾
    enc_for value.(assn_upd_req_user_plane_ip_rsrc_info) 0 (Z.to_nat value.(assn_upd_req_user_plane_ip_rsrc_info_count)) (fun x => enc_when (nz x.(user_plane_ip_rsrc_info_header).(ie_len)) (ecall_at (encode_pfcp_user_plane_ip_rsrc_info_ie_t x)))).

Definition encode_pfcp_err_indctn_rpt_ie_t (value : pfcp_err_indctn_rpt_ie_t) : ie_encoder :=
  enc_bits (
    ecall (encode_pfcp_ie_header_t value.(err_indctn_rpt_header)) ⨾
    enc_for value.(err_indctn_rpt_remote_fteid) 0 (Z.to_nat value.(err_indctn_rpt_remote_fteid_count)) (fun x => enc_when (nz x.(fteid_header).(ie_len)) (ecall_at (encode_pfcp_fteid_ie_t x)))).

Definition encode_pfcp_eth_traffic_info_ie_t (value : pfcp_eth_traffic_info_ie_t) : ie_encoder :=
  enc_bits (
    ecall (encode_pfcp_ie_header_t value.(eth_traffic_info_header)) ⨾
    enc_when (nz value.(eth_traffic_info_mac_addrs_detctd).(mac_addrs_detctd_header).(ie_len)) (ecall_at (encode_pfcp_mac_addrs_detctd_ie_t value.(eth_traffic_info_mac_addrs_detctd))) ⨾
    enc_when (nz value.(eth_traffic_info_mac_addrs_rmvd).(mac_addrs_rmvd_header).(ie_len)) (ecall_at (encode_pfcp_mac_addrs_rmvd_ie_t value.(eth_traffic_info_mac_addrs_rmvd)))).

Definition encode_pfcp_usage_rpt_sess_mod_rsp_ie_t (value : pfcp_usage_rpt_sess_mod_rsp_ie_t) : ie_encoder :=
  enc_bits (
    ecall (encode_pfcp_ie_header_t value.(usage_rpt_sess_mod_rsp_header)) ⨾
    enc_when (nz value.(usage_rpt_sess_mod_rsp_urr_id).(urr_id_header).(ie_len)) (ecall_at (encode_pfcp_urr_id_ie_t value.(usage_rpt_sess_mod_rsp_urr_id))) ⨾
    enc_when (nz value.(usage_rpt_sess_mod_rsp_urseqn).(urseqn_header).(ie_len)) (ecall_at (encode_pfcp_urseqn_ie_t value.(usage_rpt_sess_mod_rsp_urseqn))) ⨾
    enc_when (nz value.(usage_rpt_sess_mod_rsp_usage_rpt_trig).(usage_rpt_trig_header).(ie_len)) (ecall_at (encode_pfcp_usage_rpt_trig_ie_t value.(usage_rpt_sess_mod_rsp_usage_rpt_trig))) ⨾
    enc_when (nz value.(usage_rpt_sess_mod_rsp_start_time).(start_time_header).(ie_len)) (ecall_at (encode_pfcp_start_time_ie_t value.(usage_rpt_sess_mod_rsp_start_time))) ⨾
    enc_when (nz value.(usage_rpt_sess_mod_rsp_end_time).(end_time_header).(ie_len)) (ecall_at (encode_pfcp_end_time_ie_t value.(usage_rpt_sess_mod_rsp_end_time))) ⨾
    enc_when (nz value.(usage_rpt_sess_mod_rsp_vol_meas).(vol_meas_header).(ie_len)) (ecall_at (encode_pfcp_vol_meas_ie_t value.(usage_rpt_sess_mod_rsp_vol_meas))) ⨾
    enc_when (nz value.(usage_rpt_sess_mod_rsp_dur_meas).(dur_meas_header).(ie_len)) (ecall_at (encode_pfcp_dur_meas_ie_t value.(usage_rpt_sess_mod_rsp_dur_meas))) ⨾
    enc_when (nz value.(usage_rpt_sess_mod_rsp_time_of_frst_pckt).(time_of_frst_pckt_header).(ie_len)) (ecall_at (encode_pfcp_time_of_frst_pckt_ie_t value.(usage_rpt_sess_mod_rsp_time_of_frst_pckt))) ⨾
    enc_when (nz value.(usage_rpt_sess_mod_rsp_time_of_lst_pckt).(time_of_lst_pckt_header).(ie_len)) (ecall_at (encode_pfcp_time_of_lst_pckt_ie_t value.(usage_rpt_sess_mod_rsp_time_of_lst_pckt))) ⨾
    enc_when (nz value.(usage_rpt_sess_mod_rsp_usage_info).(usage_info_header).(ie_len)) (ecall_at (encode_pfcp_usage_info_ie_t value.(usage_rpt_sess_mod_rsp_usage_info))) ⨾
    enc_when (nz value.(usage_rpt_sess_mod_rsp_query_urr_ref).(query_urr_ref_header).(ie_len)) (ecall_at (encode_pfcp_query_urr_ref_ie_t value.(usage_rpt_sess_mod_rsp_query_urr_ref))) ⨾
    enc_when (nz value.(usage_rpt_sess_mod_rsp_eth_traffic_info).(eth_traffic_info_header).(ie_len)) (ecall_at (encode_pfcp_eth_traffic_info_ie_t value.(usage_rpt_sess_mod_rsp_eth_traffic_info)))).

Definition encode_pfcp_usage_rpt_sess_del_rsp_ie_t (value : pfcp_usage_rpt_sess_del_rsp_ie_t) : ie_encoder :=
  enc_bits (
    ecall (encode_pfcp_ie_header_t value.(usage_rpt_sess_del_rsp_header)) ⨾
    enc_when (nz value.(usage_rpt_sess_del_rsp_urr_id).(urr_id_header).(ie_len)) (ecall_at (encode_pfcp_urr_id_ie_t value.(usage_rpt_sess_del_rsp_urr_id))) ⨾
    enc_when (nz value.(usage_rpt_sess_del_rsp_urseqn).(urseqn_header).(ie_len)) (ecall_at (encode_pfcp_urseqn_ie_t value.(usage_rpt_sess_del_rsp_urseqn))) ⨾
    enc_when (nz value.(usage_rpt_sess_del_rsp_usage_rpt_trig).(usage_rpt_trig_header).(ie_len)) (ecall_at (encode_pfcp_usage_rpt_trig_ie_t value.(usage_rpt_sess_del_rsp_usage_rpt_trig))) ⨾
    enc_when (nz value.(usage_rpt_sess_del_rsp_start_time).(start_time_header).(ie_len)) (ecall_at (encode_pfcp_start_time_ie_t value.(usage_rpt_sess_del_rsp_start_time))) ⨾
    enc_when (nz value.(usage_rpt_sess_del_rsp_end_time).(end_time_header).(ie_len)) (ecall_at (encode_pfcp_end_time_ie_t value.(usage_rpt_sess_del_rsp_end_time))) ⨾
    enc_when (nz value.(usage_rpt_sess_del_rsp_vol_meas).(vol_meas_header).(ie_len)) (ecall_at (encode_pfcp_vol_meas_ie_t value.(usage_rpt_sess_del_rsp_vol_meas))) ⨾
    enc_when (nz value.(usage_rpt_sess_del_rsp_dur_meas).(dur_meas_header).(ie_len)) (ecall_at (encode_pfcp_dur_meas_ie_t value.(usage_rpt_sess_del_rsp_dur_meas))) ⨾
    enc_when (nz value.(usage_rpt_sess_del_rsp_time_of_frst_pckt).(time_of_frst_pckt_header).(ie_len)) (ecall_at (encode_pfcp_time_of_frst_pckt_ie_t value.(usage_rpt_sess_del_rsp_time_of_frst_pckt))) ⨾
    enc_when (nz value.(usage_rpt_sess_del_rsp_time_of_lst_pckt).(time_of_lst_pckt_header).(ie_len)) (ecall_at (encode_pfcp_time_of_lst_pckt_ie_t value.(usage_rpt_sess_del_rsp_time_of_lst_pckt))) ⨾
    enc_when (nz value.(usage_rpt_sess_del_rsp_usage_info).(usage_info_header).(ie_len)) (ecall_at (encode_pfcp_usage_info_ie_t value.(usage_rpt_sess_del_rsp_usage_info))) ⨾
    enc_when (nz value.(usage_rpt_sess_del_rsp_eth_traffic_info).(eth_traffic_info_header).(ie_len)) (ecall_at (encode_pfcp_eth_traffic_info_ie_t value.(usage_rpt_sess_del_rsp_eth_traffic_info)))).

Definition encode_pfcp_usage_rpt_sess_rpt_req_ie_t (value : pfcp_usage_rpt_sess_rpt_req_ie_t) : ie_encoder :=
  enc_bits (
    ecall (encode_pfcp_ie_header_t value.(usage_rpt_sess_rpt_req_header)) ⨾
    enc_when (nz value.(usage_rpt_sess_rpt_req_urr_id).(urr_id_header).(ie_len)) (ecall_at (encode_pfcp_urr_id_ie_t value.(usage_rpt_sess_rpt_req_urr_id))) ⨾
    enc_when (nz value.(usage_rpt_sess_rpt_req_urseqn).(urseqn_header).(ie_len)) (ecall_at (encode_pfcp_urseqn_ie_t value.(usage_rpt_sess_rpt_req_urseqn))) ⨾
    enc_when (nz value.(usage_rpt_sess_rpt_req_usage_rpt_trig).(usage_rpt_trig_header).(ie_len)) (ecall_at (encode_pfcp_usage_rpt_trig_ie_t value.(usage_rpt_sess_rpt_req_usage_rpt_trig))) ⨾
    enc_when (nz value.(usage_rpt_sess_rpt_req_start_time).(start_time_header).(ie_len)) (ecall_at (encode_pfcp_start_time_ie_t value.(usage_rpt_sess_rpt_req_start_time))) ⨾
    enc_when (nz value.(usage_rpt_sess_rpt_req_end_time).(end_time_header).(ie_len)) (ecall_at (encode_pfcp_end_time_ie_t value.(usage_rpt_sess_rpt_req_end_time))) ⨾
    enc_when (nz value.(usage_rpt_sess_rpt_req_vol_meas).(vol_meas_header).(ie_len)) (ecall_at (encode_pfcp_vol_meas_ie_t value.(usage_rpt_sess_rpt_req_vol_meas))) ⨾
    enc_when (nz value.(usage_rpt_sess_rpt_req_dur_meas).(dur_meas_header).(ie_len)) (ecall_at (encode_pfcp_dur_meas_ie_t value.(usage_rpt_sess_rpt_req_dur_meas))) ⨾
    enc_when (nz value.(usage_rpt_sess_rpt_req_app_det_info).(app_det_info_header).(ie_len)) (ecall_at (encode_pfcp_app_det_info_ie_t value.(usage_rpt_sess_rpt_req_app_det_info))) ⨾
    enc_when (nz value.(usage_rpt_sess_rpt_req_ue_ip_address).(ue_ip_address_header).(ie_len)) (ecall_at (encode_pfcp_ue_ip_address_ie_t value.(usage_rpt_sess_rpt_req_ue_ip_address))) ⨾
    enc_when (nz value.(usage_rpt_sess_rpt_req_ntwk_inst).(ntwk_inst_header).(ie_len)) (ecall_at (encode_pfcp_ntwk_inst_ie_t value.(usage_rpt_sess_rpt_req_ntwk_inst))) ⨾
    enc_when (nz value.(usage_rpt_sess_rpt_req_time_of_frst_pckt).(time_of_frst_pckt_header).(ie_len)) (ecall_at (encode_pfcp_time_of_frst_pckt_ie_t value.(usage_rpt_sess_rpt_req_time_of_frst_pckt))) ⨾
    enc_when (nz value.(usage_rpt_sess_rpt_req_time_of_lst_pckt).(time_of_lst_pckt_header).(ie_len)) (ecall_at (encode_pfcp_time_of_lst_pckt_ie_t value.(usage_rpt_sess_rpt_req_time_of_lst_pckt))) ⨾
    enc_when (nz value.(usage_rpt_sess_rpt_req_usage_info).(usage_info_header).(ie_len)) (ecall_at (encode_pfcp_usage_info_ie_t value.(usage_rpt_sess_rpt_req_usage_info))) ⨾
    enc_when (nz value.(usage_rpt_sess_rpt_req_query_urr_ref).(query_urr_ref_header).(ie_len)) (ecall_at (encode_pfcp_query_urr_ref_ie_t value.(usage_rpt_sess_rpt_req_query_urr_ref))) ⨾
    enc_when (nz value.(usage_rpt_sess_rpt_req_eth_traffic_info).(eth_traffic_info_header).(ie_len)) (ecall_at (encode_pfcp_eth_traffic_info_ie_t value.(usage_rpt_sess_rpt_req_eth_traffic_info))) ⨾
    enc_for value.(usage_rpt_sess_rpt_req_evnt_time_stmp) 0 (Z.to_nat value.(usage_rpt_sess_rpt_req_evnt_time_stmp_count)) (fun x => enc_when (nz x.(evnt_time_stmp_header).(ie_len)) (ecall_at (encode_pfcp_evnt_time_stmp_ie_t x)))).

Definition encode_pfcp_sess_rpt_req_t (value : pfcp_sess_rpt_req_t) : ie_encoder :=
  enc_bits (
    ecall_at (encode_pfcp_header_t value.(sess_rpt_req_header)) ⨾
    enc_when (nz value.(sess_rpt_req_report_type).(report_type_header).(ie_len)) (ecall_at (encode_pfcp_report_type_ie_t value.(sess_rpt_req_report_type))) ⨾
    enc_when (nz value.(sess_rpt_req_dnlnk_data_rpt).(dnlnk_data_rpt_header).(ie_len)) (ecall_at (encode_pfcp_dnlnk_data_rpt_ie_t value.(sess_rpt_req_dnlnk_data_rpt))) ⨾
    enc_when (nz value.(sess_rpt_req_err_indctn_rpt).(err_indctn_rpt_header).(ie_len)) (ecall_at (encode_pfcp_err_indctn_rpt_ie_t value.(sess_rpt_req_err_indctn_rpt))) ⨾
    enc_when (nz value.(sess_rpt_req_load_ctl_info).(load_ctl_info_header).(ie_len)) (ecall_at (encode_pfcp_load_ctl_info_ie_t value.(sess_rpt_req_load_ctl_info))) ⨾
    enc_when (nz value.(sess_rpt_req_ovrld_ctl_info).(ovrld_ctl_info_header).(ie_len)) (ecall_at (encode_pfcp_ovrld_ctl_info_ie_t value.(sess_rpt_req_ovrld_ctl_info))) ⨾
    enc_when (nz value.(sess_rpt_req_add_usage_rpts_info).(add_usage_rpts_info_header).(ie_len)) (ecall_at (encode_pfcp_add_usage_rpts_info_ie_t value.(sess_rpt_req_add_usage_rpts_info))) ⨾
    enc_for value.(sess_rpt_req_usage_report) 0 (Z.to_nat value.(sess_rpt_req_usage_report_count)) (fun x => enc_when (nz x.(usage_rpt_sess_rpt_req_header).(ie_len)) (ecall_at (encode_pfcp_usage_rpt_sess_rpt_req_ie_t x)))).

Definition encode_pfcp_sess_del_rsp_t (value : pfcp_sess_del_rsp_t) : ie_encoder :=
  enc_bits (
    ecall_at (encode_pfcp_header_t value.(sess_del_rsp_header)) ⨾
    enc_when (nz value.(sess_del_rsp_cause).(cause_header).(ie_len)) (ecall_at (encode_pfcp_cause_ie_t value.(sess_del_rsp_cause))) ⨾
    enc_when (nz value.(sess_del_rsp_offending_ie).(offending_ie_header).(ie_len)) (ecall_at (encode_pfcp_offending_ie_ie_t value.(sess_del_rsp_offending_ie))) ⨾
    enc_when (nz value.(sess_del_rsp_load_ctl_info).(load_ctl_info_header).(ie_len)) (ecall_at (encode_pfcp_load_ctl_info_ie_t value.(sess_del_rsp_load_ctl_info))) ⨾
    enc_when (nz value.(sess_del_rsp_ovrld_ctl_info).(ovrld_ctl_info_header).(ie_len)) (ecall_at (encode_pfcp_ovrld_ctl_info_ie_t value.(sess_del_rsp_ovrld_ctl_info))) ⨾
    enc_for value.(sess_del_rsp_usage_report) 0 (Z.to_nat value.(sess_del_rsp_usage_report_count)) (fun x => enc_when (nz x.(usage_rpt_sess_del_rsp_header).(ie_len)) (ecall_at (encode_pfcp_usage_rpt_sess_del_rsp_ie_t x)))).

Definition encode_pfcp_sess_mod_rsp_t (value : pfcp_sess_mod_rsp_t) : ie_encoder :=
  enc_bits (
    ecall_at (encode_pfcp_header_t value.(sess_mod_rsp_header)) ⨾
    enc_when (nz value.(sess_mod_rsp_cause).(cause_header).(ie_len)) (ecall_at (encode_pfcp_cause_ie_t value.(sess_mod_rsp_cause))) ⨾
    enc_when (nz value.(sess_mod_rsp_offending_ie).(offending_ie_header).(ie_len)) (ecall_at (encode_pfcp_offending_ie_ie_t value.(sess_mod_rsp_offending_ie))) ⨾
    enc_when (nz value.(sess_mod_rsp_created_pdr).(created_pdr_header).(ie_len)) (ecall_at (encode_pfcp_created_pdr_ie_t value.(sess_mod_rsp_created_pdr))) ⨾
    enc_when (nz value.(sess_mod_rsp_load_ctl_info).(load_ctl_info_header).(ie_len)) (ecall_at (encode_pfcp_load_ctl_info_ie_t value.(sess_mod_rsp_load_ctl_info))) ⨾
    enc_when (nz value.(sess_mod_rsp_ovrld_ctl_info).(ovrld_ctl_info_header).(ie_len)) (ecall_at (encode_pfcp_ovrld_ctl_info_ie_t value.(sess_mod_rsp_ovrld_ctl_info))) ⨾
    enc_when (nz value.(sess_mod_rsp_failed_rule_id).(failed_rule_id_header).(ie_len)) (ecall_at (encode_pfcp_failed_rule_id_ie_t value.(sess_mod_rsp_failed_rule_id))) ⨾
    enc_when (nz value.(sess_mod_rsp_add_usage_rpts_info).(add_usage_rpts_info_header).(ie_len)) (ecall_at (encode_pfcp_add_usage_rpts_info_ie_t value.(sess_mod_rsp_add_usage_rpts_info))) ⨾
    enc_when (nz value.(sess_mod_rsp_createdupdated_traffic_endpt).(created_traffic_endpt_header).(ie_len)) (ecall_at (encode_pfcp_created_traffic_endpt_ie_t value.(sess_mod_rsp_createdupdated_traffic_endpt))) ⨾
    enc_for value.(sess_mod_rsp_usage_report) 0 (Z.to_nat value.(sess_mod_rsp_usage_report_count)) (fun x => enc_when (nz x.(usage_rpt_sess_mod_rsp_header).(ie_len)) (ecall_at (encode_pfcp_usage_rpt_sess_mod_rsp_ie_t x)))).

Definition encode_pfcp_app_ids_pfds_ie_t (value : pfcp_app_ids_pfds_ie_t) : ie_encoder :=
  enc_bytes (
    ecall (encode_pfcp_ie_header_t value.(app_ids_pfds_header)) ⨾
    enc_when (nz value.(app_ids_pfds_application_id).(application_id_header).(ie_len)) (ecall (encode_pfcp_application_id_ie_t value.(app_ids_pfds_application_id))) ⨾
    enc_for value.(app_ids_pfds_pfd_context) 0 (Z.to_nat value.(app_ids_pfds_pfd_context_count)) (fun x => enc_when (nz x.(pfd_context_header).(ie_len)) (ecall (encode_pfcp_pfd_context_ie_t x)))).

Definition encode_pfcp_pfd_mgmt_req_t (value : pfcp_pfd_mgmt_req_t) : ie_encoder :=
  enc_bits (
    ecall_at (encode_pfcp_header_t value.(pfd_mgmt_req_header)) ⨾
    enc_for value.(pfd_mgmt_req_app_ids_pfds) 0 (Z.to_nat value.(pfd_mgmt_req_app_ids_pfds_count)) (fun x => enc_when (nz x.(app_ids_pfds_header).(ie_len)) (ecall_at (encode_pfcp_app_ids_pfds_ie_t x)))).

Definition encode_pfcp_remove_qer_ie_t (value : pfcp_remove_qer_ie_t) : ie_encoder :=
  enc_bits (
    ecall (encode_pfcp_ie_header_t value.(remove_qer_header)) ⨾
    enc_when (nz value.(remove_qer_qer_id).(qer_id_header).(ie_len)) (ecall_at (encode_pfcp_qer_id_ie_t value.(remove_qer_qer_id)))).

Definition encode_pfcp_create_qer_ie_t (value : pfcp_create_qer_ie_t) : ie_encoder :=
  enc_bytes (
    ecall (encode_pfcp_ie_header_t value.(create_qer_header)) ⨾
    enc_when (nz value.(create_qer_qer_id).(qer_id_header).(ie_len)) (ecall (encode_pfcp_qer_id_ie_t value.(create_qer_qer_id))) ⨾
    enc_when (nz value.(create_qer_qer_corr_id).(qer_corr_id_header).(ie_len)) (ecall (encode_pfcp_qer_corr_id_ie_t value.(create_qer_qer_corr_id))) ⨾
    enc_when (nz value.(create_qer_gate_status).(gate_status_header).(ie_len)) (ecall (encode_pfcp_gate_status_ie_t value.(create_qer_gate_status))) ⨾
    enc_when (nz value.(create_qer_maximum_bitrate).(mbr_header).(ie_len)) (ecall (encode_pfcp_mbr_ie_t value.(create_qer_maximum_bitrate))) ⨾
    enc_when (nz value.(create_qer_guaranteed_bitrate).(gbr_header).(ie_len)) (ecall (encode_pfcp_gbr_ie_t value.(create_qer_guaranteed_bitrate))) ⨾
    enc_when (nz value.(create_qer_packet_rate).(packet_rate_header).(ie_len)) (ecall (encode_pfcp_packet_rate_ie_t value.(create_qer_packet_rate))) ⨾
    enc_when (nz value.(create_qer_dl_flow_lvl_marking).(dl_flow_lvl_marking_header).(ie_len)) (ecall (encode_pfcp_dl_flow_lvl_marking_ie_t value.(create_qer_dl_flow_lvl_marking))) ⨾
    enc_when (nz value.(create_qer_qos_flow_ident).(qfi_header).(ie_len)) (ecall (encode_pfcp_qfi_ie_t value.(create_qer_qos_flow_ident))) ⨾
    enc_when (nz value.(create_qer_reflective_qos).(rqi_header).(ie_len)) (ecall (encode_pfcp_rqi_ie_t value.(create_qer_reflective_qos))) ⨾
    enc_when (nz value.(create_qer_paging_plcy_indctr).(paging_plcy_indctr_header).(ie_len)) (ecall (encode_pfcp_paging_plcy_indctr_ie_t value.(create_qer_paging_plcy_indctr))) ⨾
    enc_when (nz value.(create_qer_avgng_wnd).(avgng_wnd_header).(ie_len)) (ecall (encode_pfcp_avgng_wnd_ie_t value.(create_qer_avgng_wnd)))).

Definition encode_pfcp_rmv_traffic_endpt_ie_t (value : pfcp_rmv_traffic_endpt_ie_t) : ie_encoder :=
  enc_bits (
    ecall (encode_pfcp_ie_header_t value.(rmv_traffic_endpt_header)) ⨾
    enc_when (nz value.(rmv_traffic_endpt_traffic_endpt_id).(traffic_endpt_id_header).(ie_len)) (ecall (encode_pfcp_traffic_endpt_id_ie_t value.(rmv_traffic_endpt_traffic_endpt_id)))).

Definition encode_pfcp_update_far_ie_t (value : pfcp_update_far_ie_t) : ie_encoder :=
  enc_bytes (
    ecall (encode_pfcp_ie_header_t value.(update_far_header)) ⨾
    enc_when (nz value.(update_far_far_id).(far_id_header).(ie_len)) (ecall (encode_pfcp_far_id_ie_t value.(update_far_far_id))) ⨾
    enc_when (nz value.(update_far_apply_action).(apply_action_header).(ie_len)) (ecall (encode_pfcp_apply_action_ie_t value.(update_far_apply_action))) ⨾
    enc_when (nz value.(update_far_upd_frwdng_parms).(upd_frwdng_parms_header).(ie_len)) (ecall (encode_pfcp_upd_frwdng_parms_ie_t value.(update_far_upd_frwdng_parms))) ⨾
    enc_when (nz value.(update_far_bar_id).(bar_id_header).(ie_len)) (ecall_at (encode_pfcp_bar_id_ie_t value.(update_far_bar_id))) ⨾
    enc_for value.(update_far_upd_dupng_parms) 0 (Z.to_nat value.(update_far_upd_dupng_parms_count)) (fun x => enc_when (nz x.(upd_dupng_parms_header).(ie_len)) (ecall_at (encode_pfcp_upd_dupng_parms_ie_t x)))).

Definition encode_pfcp_user_plane_path_fail_rpt_ie_t (value : pfcp_user_plane_path_fail_rpt_ie_t) : ie_encoder :=
  enc_bits (
    ecall (encode_pfcp_ie_header_t value.(user_plane_path_fail_rpt_header)) ⨾
    enc_for value.(user_plane_path_fail_rpt_rmt_gtpu_peer) 0 (Z.to_nat value.(user_plane_path_fail_rpt_rmt_gtpu_peer_count)) (fun x => enc_when (nz x.(rmt_gtpu_peer_header).(ie_len)) (ecall_at (encode_pfcp_rmt_gtpu_peer_ie_t x)))).

Definition encode_pfcp_node_rpt_req_t (value : pfcp_node_rpt_req_t) : ie_encoder :=
  enc_bits (
    ecall_at (encode_pfcp_header_t value.(node_rpt_req_header)) ⨾
    enc_when (nz value.(node_rpt_req_node_id).(node_id_header).(ie_len)) (ecall_at (encode_pfcp_node_id_ie_t value.(node_rpt_req_node_id))) ⨾
    enc_when (nz value.(node_rpt_req_node_rpt_type).(node_rpt_type_header).(ie_len)) (ecall_at (encode_pfcp_node_rpt_type_ie_t value.(node_rpt_req_node_rpt_type))) ⨾
    enc_when (nz value.(node_rpt_req_user_plane_path_fail_rpt).(user_plane_path_fail_rpt_header).(ie_len)) (ecall_at (encode_pfcp_user_plane_path_fail_rpt_ie_t value.(node_rpt_req_user_plane_path_fail_rpt)))).

Definition encode_pfcp_remove_pdr_ie_t (value : pfcp_remove_pdr_ie_t) : ie_encoder :=
  enc_bytes (
    ecall (encode_pfcp_ie_header_t value.(remove_pdr_header)) ⨾
    enc_when (nz value.(remove_pdr_pdr_id).(pdr_id_header).(ie_len)) (ecall (encode_pfcp_pdr_id_ie_t value.(remove_pdr_pdr_id)))).

Definition encode_pfcp_update_qer_ie_t (value : pfcp_update_qer_ie_t) : ie_encoder :=
  enc_bytes (
    ecall (encode_pfcp_ie_header_t value.(update_qer_header)) ⨾
    enc_when (nz value.(update_qer_qer_id).(qer_id_header).(ie_len)) (ecall (encode_pfcp_qer_id_ie_t value.(update_qer_qer_id))) ⨾
    enc_when (nz value.(update_qer_qer_corr_id).(qer_corr_id_header).(ie_len)) (ecall (encode_pfcp_qer_corr_id_ie_t value.(update_qer_qer_corr_id))) ⨾
    enc_when (nz value.(update_qer_gate_status).(gate_status_header).(ie_len)) (ecall (encode_pfcp_gate_status_ie_t value.(update_qer_gate_status))) ⨾
    enc_when (nz value.(update_qer_maximum_bitrate).(mbr_header).(ie_len)) (ecall (encode_pfcp_mbr_ie_t value.(update_qer_maximum_bitrate))) ⨾
    enc_when (nz value.(update_qer_guaranteed_bitrate).(gbr_header).(ie_len)) (ecall (encode_pfcp_gbr_ie_t value.(update_qer_guaranteed_bitrate))) ⨾
    enc_when (nz value.(update_qer_packet_rate).(packet_rate_header).(ie_len)) (ecall (encode_pfcp_packet_rate_ie_t value.(update_qer_packet_rate))) ⨾
    enc_when (nz value.(update_qer_dl_flow_lvl_marking).(dl_flow_lvl_marking_header).(ie_len)) (ecall (encode_pfcp_dl_flow_lvl_marking_ie_t value.(update_qer_dl_flow_lvl_marking))) ⨾
    enc_when (nz value.(update_qer_qos_flow_ident).(qfi_header).(ie_len)) (ecall (encode_pfcp_qfi_ie_t value.(update_qer_qos_flow_ident))) ⨾
    enc_when (nz value.(update_qer_reflective_qos).(rqi_header).(ie_len)) (ecall (encode_pfcp_rqi_ie_t value.(update_qer_reflective_qos))) ⨾
    enc_when (nz value.(update_qer_paging_plcy_indctr).(paging_plcy_indctr_header).(ie_len)) (ecall (encode_pfcp_paging_plcy_indctr_ie_t value.(update_qer_paging_plcy_indctr))) ⨾
    enc_when (nz value.(update_qer_avgng_wnd).(avgng_wnd_header).(ie_len)) (ecall (encode_pfcp_avgng_wnd_ie_t value.(update_qer_avgng_wnd)))).

Definition encode_pfcp_add_mntrng_time_ie_t (value : pfcp_add_mntrng_time_ie_t) : ie_encoder :=
  enc_bits (
    ecall (encode_pfcp_ie_header_t value.(add_mntrng_time_header)) ⨾
    enc_when (nz value.(add_mntrng_time_monitoring_time).(monitoring_time_header).(ie_len)) (ecall_at (encode_pfcp_monitoring_time_ie_t value.(add_mntrng_time_monitoring_time))) ⨾
    enc_when (nz value.(add_mntrng_time_sbsqnt_vol_thresh).(sbsqnt_vol_thresh_header).(ie_len)) (ecall_at (encode_pfcp_sbsqnt_vol_thresh_ie_t value.(add_mntrng_time_sbsqnt_vol_thresh))) ⨾
    enc_when (nz value.(add_mntrng_time_sbsqnt_time_thresh).(sbsqnt_time_thresh_header).(ie_len)) (ecall_at (encode_pfcp_sbsqnt_time_thresh_ie_t value.(add_mntrng_time_sbsqnt_time_thresh))) ⨾
    enc_when (nz value.(add_mntrng_time_sbsqnt_vol_quota).(sbsqnt_vol_quota_header).(ie_len)) (ecall_at (encode_pfcp_sbsqnt_vol_quota_ie_t value.(add_mntrng_time_sbsqnt_vol_quota))) ⨾
    enc_when (nz value.(add_mntrng_time_sbsqnt_time_quota).(sbsqnt_time_quota_header).(ie_len)) (ecall_at (encode_pfcp_sbsqnt_time_quota_ie_t value.(add_mntrng_time_sbsqnt_time_quota))) ⨾
    enc_when (nz value.(add_mntrng_time_sbsqnt_evnt_thresh).(event_threshold_header).(ie_len)) (ecall_at (encode_pfcp_event_threshold_ie_t value.(add_mntrng_time_sbsqnt_evnt_thresh))) ⨾
    enc_when (nz value.(add_mntrng_time_sbsqnt_evnt_quota).(event_quota_header).(ie_len)) (ecall_at (encode_pfcp_event_quota_ie_t value.(add_mntrng_time_sbsqnt_evnt_quota)))).

Definition encode_pfcp_sess_estab_rsp_t (value : pfcp_sess_estab_rsp_t) : ie_encoder :=
  enc_bits (
    ecall_at (encode_pfcp_header_t value.(sess_estab_rsp_header)) ⨾
    enc_when (nz value.(sess_estab_rsp_node_id).(node_id_header).(ie_len)) (ecall_at (encode_pfcp_node_id_ie_t value.(sess_estab_rsp_node_id))) ⨾
    enc_when (nz value.(sess_estab_rsp_cause).(cause_header).(ie_len)) (ecall_at (encode_pfcp_cause_ie_t value.(sess_estab_rsp_cause))) ⨾
    enc_when (nz value.(sess_estab_rsp_offending_ie).(offending_ie_header).(ie_len)) (ecall_at (encode_pfcp_offending_ie_ie_t value.(sess_estab_rsp_offending_ie))) ⨾
    enc_when (nz value.(sess_estab_rsp_up_fseid).(fseid_header).(ie_len)) (ecall_at (encode_pfcp_fseid_ie_t value.(sess_estab_rsp_up_fseid))) ⨾
    enc_when (nz value.(sess_estab_rsp_created_pdr).(created_pdr_header).(ie_len)) (ecall_at (encode_pfcp_created_pdr_ie_t value.(sess_estab_rsp_created_pdr))) ⨾
    enc_when (nz value.(sess_estab_rsp_load_ctl_info).(load_ctl_info_header).(ie_len)) (ecall_at (encode_pfcp_load_ctl_info_ie_t value.(sess_estab_rsp_load_ctl_info))) ⨾
    enc_when (nz value.(sess_estab_rsp_ovrld_ctl_info).(ovrld_ctl_info_header).(ie_len)) (ecall_at (encode_pfcp_ovrld_ctl_info_ie_t value.(sess_estab_rsp_ovrld_ctl_info))) ⨾
    enc_when (nz value.(sess_estab_rsp_sgw_u_fqcsid).(fqcsid_header).(ie_len)) (ecall_at (encode_pfcp_fqcsid_ie_t value.(sess_estab_rsp_sgw_u_fqcsid))) ⨾
    enc_when (nz value.(sess_estab_rsp_pgw_u_fqcsid).(fqcsid_header).(ie_len)) (ecall_at (encode_pfcp_fqcsid_ie_t value.(sess_estab_rsp_pgw_u_fqcsid))) ⨾
    enc_when (nz value.(sess_estab_rsp_failed_rule_id).(failed_rule_id_header).(ie_len)) (ecall_at (encode_pfcp_failed_rule_id_ie_t value.(sess_estab_rsp_failed_rule_id))) ⨾
    enc_when (nz value.(sess_estab_rsp_created_traffic_endpt).(created_traffic_endpt_header).(ie_len)) (ecall_at (encode_pfcp_created_traffic_endpt_ie_t value.(sess_estab_rsp_created_traffic_endpt)))).

Definition encode_pfcp_remove_bar_ie_t (value : pfcp_remove_bar_ie_t) : ie_encoder :=
  enc_bytes (
    ecall (encode_pfcp_ie_header_t value.(remove_bar_header)) ⨾
    enc_when (nz value.(remove_bar_bar_id).(bar_id_header).(ie_len)) (ecall (encode_pfcp_bar_id_ie_t value.(remove_bar_bar_id)))).

Definition encode_pfcp_assn_rel_req_t (value : pfcp_assn_rel_req_t) : ie_encoder :=
  enc_bits (
    ecall_at (encode_pfcp_header_t value.(assn_rel_req_header)) ⨾
    enc_when (nz value.(assn_rel_req_node_id).(node_id_header).(ie_len)) (ecall_at (encode_pfcp_node_id_ie_t value.(assn_rel_req_node_id)))).

Definition encode_pfcp_create_pdr_ie_t (value : pfcp_create_pdr_ie_t) : ie_encoder :=
  enc_bytes (
    ecall (encode_pfcp_ie_header_t value.(create_pdr_header)) ⨾
    enc_when (nz value.(create_pdr_pdr_id).(pdr_id_header).(ie_len)) (ecall (encode_pfcp_pdr_id_ie_t value.(create_pdr_pdr_id))) ⨾
    enc_when (nz value.(create_pdr_precedence).(precedence_header).(ie_len)) (ecall (encode_pfcp_precedence_ie_t value.(create_pdr_precedence))) ⨾
    enc_when (nz value.(create_pdr_pdi).(pdi_header).(ie_len)) (ecall (encode_pfcp_pdi_ie_t value.(create_pdr_pdi))) ⨾
    enc_when (nz value.(create_pdr_outer_hdr_removal).(outer_hdr_removal_header).(ie_len)) (ecall (encode_pfcp_outer_hdr_removal_ie_t value.(create_pdr_outer_hdr_removal))) ⨾
    enc_when (nz value.(create_pdr_far_id).(far_id_header).(ie_len)) (ecall (encode_pfcp_far_id_ie_t value.(create_pdr_far_id))) ⨾
    enc_for value.(create_pdr_urr_id) 0 (Z.to_nat value.(create_pdr_urr_id_count)) (fun x => enc_when (nz x.(urr_id_header).(ie_len)) (ecall (encode_pfcp_urr_id_ie_t x))) ⨾
    enc_for value.(create_pdr_qer_id) 0 (Z.to_nat value.(create_pdr_qer_id_count)) (fun x => enc_when (nz x.(qer_id_header).(ie_len)) (ecall (encode_pfcp_qer_id_ie_t x))) ⨾
    enc_for value.(create_pdr_actvt_predef_rules) 0 (Z.to_nat value.(create_pdr_actvt_predef_rules_count)) (fun x => enc_when (nz x.(actvt_predef_rules_header).(ie_len)) (ecall (encode_pfcp_actvt_predef_rules_ie_t x)))).

Definition encode_pfcp_aggregated_urrs_ie_t (value : pfcp_aggregated_urrs_ie_t) : ie_encoder :=
  enc_bits (
    ecall (encode_pfcp_ie_header_t value.(aggregated_urrs_header)) ⨾
    enc_when (nz value.(aggregated_urrs_agg_urr_id).(agg_urr_id_header).(ie_len)) (ecall_at (encode_pfcp_agg_urr_id_ie_t value.(aggregated_urrs_agg_urr_id))) ⨾
    enc_when (nz value.(aggregated_urrs_multiplier).(multiplier_header).(ie_len)) (ecall_at (encode_pfcp_multiplier_ie_t value.(aggregated_urrs_multiplier)))).

Definition encode_pfcp_create_urr_ie_t (value : pfcp_create_urr_ie_t) : ie_encoder :=
  enc_bytes (
    ecall (encode_pfcp_ie_header_t value.(create_urr_header)) ⨾
    enc_when (nz value.(create_urr_urr_id).(urr_id_header).(ie_len)) (ecall (encode_pfcp_urr_id_ie_t value.(create_urr_urr_id))) ⨾
    enc_when (nz value.(create_urr_meas_mthd).(meas_mthd_header).(ie_len)) (ecall (encode_pfcp_meas_mthd_ie_t value.(create_urr_meas_mthd))) ⨾
    enc_when (nz value.(create_urr_rptng_triggers).(rptng_triggers_header).(ie_len)) (ecall (encode_pfcp_rptng_triggers_ie_t value.(create_urr_rptng_triggers))) ⨾
    enc_when (nz value.(create_urr_meas_period).(meas_period_header).(ie_len)) (ecall (encode_pfcp_meas_period_ie_t value.(create_urr_meas_period))) ⨾
    enc_when (nz value.(create_urr_vol_thresh).(vol_thresh_header).(ie_len)) (ecall (encode_pfcp_vol_thresh_ie_t value.(create_urr_vol_thresh))) ⨾
    enc_when (nz value.(create_urr_volume_quota).(volume_quota_header).(ie_len)) (ecall (encode_pfcp_volume_quota_ie_t value.(create_urr_volume_quota))) ⨾
    enc_when (nz value.(create_urr_event_threshold).(event_threshold_header).(ie_len)) (ecall (encode_pfcp_event_threshold_ie_t value.(create_urr_event_threshold))) ⨾
    enc_when (nz value.(create_urr_event_quota).(event_quota_header).(ie_len)) (ecall (encode_pfcp_event_quota_ie_t value.(create_urr_event_quota))) ⨾
    enc_when (nz value.(create_urr_time_threshold).(time_threshold_header).(ie_len)) (ecall (encode_pfcp_time_threshold_ie_t value.(create_urr_time_threshold))) ⨾
    enc_when (nz value.(create_urr_time_quota).(time_quota_header).(ie_len)) (ecall (encode_pfcp_time_quota_ie_t value.(create_urr_time_quota))) ⨾
    enc_when (nz value.(create_urr_quota_hldng_time).(quota_hldng_time_header).(ie_len)) (ecall (encode_pfcp_quota_hldng_time_ie_t value.(create_urr_quota_hldng_time))) ⨾
    enc_when (nz value.(create_urr_drpd_dl_traffic_thresh).(drpd_dl_traffic_thresh_header).(ie_len)) (ecall (encode_pfcp_drpd_dl_traffic_thresh_ie_t value.(create_urr_drpd_dl_traffic_thresh))) ⨾
    enc_when (nz value.(create_urr_monitoring_time).(monitoring_time_header).(ie_len)) (ecall (encode_pfcp_monitoring_time_ie_t value.(create_urr_monitoring_time))) ⨾
    enc_when (nz value.(create_urr_sbsqnt_vol_thresh).(sbsqnt_vol_thresh_header).(ie_len)) (ecall (encode_pfcp_sbsqnt_vol_thresh_ie_t value.(create_urr_sbsqnt_vol_thresh))) ⨾
    enc_when (nz value.(create_urr_sbsqnt_time_thresh).(sbsqnt_time_thresh_header).(ie_len)) (ecall (encode_pfcp_sbsqnt_time_thresh_ie_t value.(create_urr_sbsqnt_time_thresh))) ⨾
    enc_when (nz value.(create_urr_sbsqnt_vol_quota).(sbsqnt_vol_quota_header).(ie_len)) (ecall (encode_pfcp_sbsqnt_vol_quota_ie_t value.(create_urr_sbsqnt_vol_quota))) ⨾
    enc_when (nz value.(create_urr_sbsqnt_time_quota).(sbsqnt_time_quota_header).(ie_len)) (ecall (encode_pfcp_sbsqnt_time_quota_ie_t value.(create_urr_sbsqnt_time_quota))) ⨾
    enc_when (nz value.(create_urr_sbsqnt_evnt_thresh).(sbsqnt_evnt_thresh_header).(ie_len)) (ecall (encode_pfcp_sbsqnt_evnt_thresh_ie_t value.(create_urr_sbsqnt_evnt_thresh))) ⨾
    enc_when (nz value.(create_urr_sbsqnt_evnt_quota).(sbsqnt_evnt_quota_header).(ie_len)) (ecall (encode_pfcp_sbsqnt_evnt_quota_ie_t value.(create_urr_sbsqnt_evnt_quota))) ⨾
    enc_when (nz value.(create_urr_inact_det_time).(inact_det_time_header).(ie_len)) (ecall (encode_pfcp_inact_det_time_ie_t value.(create_urr_inact_det_time))) ⨾
    enc_when (nz value.(create_urr_meas_info).(meas_info_header).(ie_len)) (ecall (encode_pfcp_meas_info_ie_t value.(create_urr_meas_info))) ⨾
    enc_when (nz value.(create_urr_time_quota_mech).(time_quota_mech_header).(ie_len)) (ecall (encode_pfcp_time_quota_mech_ie_t value.(create_urr_time_quota_mech))) ⨾
    enc_when (nz value.(create_urr_far_id_for_quota_act).(far_id_header).(ie_len)) (ecall (encode_pfcp_far_id_ie_t value.(create_urr_far_id_for_quota_act))) ⨾
    enc_when (nz value.(create_urr_eth_inact_timer).(eth_inact_timer_header).(ie_len)) (ecall (encode_pfcp_eth_inact_timer_ie_t value.(create_urr_eth_inact_timer))) ⨾
    enc_for value.(create_urr_linked_urr_id) 0 (Z.to_nat value.(create_urr_linked_urr_id_count)) (fun x => enc_when (nz x.(linked_urr_id_header).(ie_len)) (ecall (encode_pfcp_linked_urr_id_ie_t x))) ⨾
    enc_for value.(create_urr_aggregated_urrs) 0 (Z.to_nat value.(create_urr_aggregated_urrs_count)) (fun x => enc_when (nz x.(aggregated_urrs_header).(ie_len)) (ecall (encode_pfcp_aggregated_urrs_ie_t x))) ⨾
    enc_for value.(create_urr_add_mntrng_time) 0 (Z.to_nat value.(create_urr_add_mntrng_time_count)) (fun x => enc_when (nz x.(add_mntrng_time_header).(ie_len)) (ecall (encode_pfcp_add_mntrng_time_ie_t x)))).

Definition encode_pfcp_sess_estab_req_t (value : pfcp_sess_estab_req_t) : ie_encoder :=
  enc_bits (
    ecall_at (encode_pfcp_header_t value.(sess_estab_req_header)) ⨾
    enc_when (nz value.(sess_estab_req_node_id).(node_id_header).(ie_len)) (ecall_at (encode_pfcp_node_id_ie_t value.(sess_estab_req_node_id))) ⨾
    enc_when (nz value.(sess_estab_req_cp_fseid).(fseid_header).(ie_len)) (ecall_at (encode_pfcp_fseid_ie_t value.(sess_estab_req_cp_fseid))) ⨾
    enc_when (nz value.(sess_estab_req_create_bar).(create_bar_header).(ie_len)) (ecall_at (encode_pfcp_create_bar_ie_t value.(sess_estab_req_create_bar))) ⨾
    enc_when (nz value.(sess_estab_req_pdn_type).(pdn_type_header).(ie_len)) (ecall_at (encode_pfcp_pdn_type_ie_t value.(sess_estab_req_pdn_type))) ⨾
    enc_when (nz value.(sess_estab_req_sgw_c_fqcsid).(fqcsid_header).(ie_len)) (ecall_at (encode_pfcp_fqcsid_ie_t value.(sess_estab_req_sgw_c_fqcsid))) ⨾
    enc_when (nz value.(sess_estab_req_mme_fqcsid).(fqcsid_header).(ie_len)) (ecall_at (encode_pfcp_fqcsid_ie_t value.(sess_estab_req_mme_fqcsid))) ⨾
    enc_when (nz value.(sess_estab_req_pgw_c_fqcsid).(fqcsid_header).(ie_len)) (ecall_at (encode_pfcp_fqcsid_ie_t value.(sess_estab_req_pgw_c_fqcsid))) ⨾
    enc_when (nz value.(sess_estab_req_epdg_fqcsid).(fqcsid_header).(ie_len)) (ecall_at (encode_pfcp_fqcsid_ie_t value.(sess_estab_req_epdg_fqcsid))) ⨾
    enc_when (nz value.(sess_estab_req_twan_fqcsid).(fqcsid_header).(ie_len)) (ecall_at (encode_pfcp_fqcsid_ie_t value.(sess_estab_req_twan_fqcsid))) ⨾
    enc_when (nz value.(sess_estab_req_user_plane_inact_timer).(user_plane_inact_timer_header).(ie_len)) (ecall_at (encode_pfcp_user_plane_inact_timer_ie_t value.(sess_estab_req_user_plane_inact_timer))) ⨾
    enc_when (nz value.(sess_estab_req_user_id).(user_id_header).(ie_len)) (ecall_at (encode_pfcp_user_id_ie_t value.(sess_estab_req_user_id))) ⨾
    enc_when (nz value.(sess_estab_req_trc_info).(trc_info_header).(ie_len)) (ecall_at (encode_pfcp_trc_info_ie_t value.(sess_estab_req_trc_info))) ⨾
    enc_for value.(sess_estab_req_create_pdr) 0 (Z.to_nat value.(sess_estab_req_create_pdr_count)) (fun x => enc_when (nz x.(create_pdr_header).(ie_len)) (ecall_at (encode_pfcp_create_pdr_ie_t x))) ⨾
    enc_for value.(sess_estab_req_create_far) 0 (Z.to_nat value.(sess_estab_req_create_far_count)) (fun x => enc_when (nz x.(create_far_header).(ie_len)) (ecall_at (encode_pfcp_create_far_ie_t x))) ⨾
    enc_for value.(sess_estab_req_create_urr) 0 (Z.to_nat value.(sess_estab_req_create_urr_count)) (fun x => enc_when (nz x.(create_urr_header).(ie_len)) (ecall_at (encode_pfcp_create_urr_ie_t x))) ⨾
    enc_for value.(sess_estab_req_create_qer) 0 (Z.to_nat value.(sess_estab_req_create_qer_count)) (fun x => enc_when (nz x.(create_qer_header).(ie_len)) (ecall_at (encode_pfcp_create_qer_ie_t x))) ⨾
    enc_for value.(sess_estab_req_create_traffic_endpt) 0 (Z.to_nat value.(sess_estab_req_create_traffic_endpt_count)) (fun x => enc_when (nz x.(create_traffic_endpt_header).(ie_len)) (ecall_at (encode_pfcp_create_traffic_endpt_ie_t x)))).

Definition encode_pfcp_update_urr_ie_t (value : pfcp_update_urr_ie_t) : ie_encoder :=
  enc_bits (
    ecall (encode_pfcp_ie_header_t value.(update_urr_header)) ⨾
    enc_when (nz value.(update_urr_urr_id).(urr_id_header).(ie_len)) (ecall_at (encode_pfcp_urr_id_ie_t value.(update_urr_urr_id))) ⨾
    enc_when (nz value.(update_urr_meas_mthd).(meas_mthd_header).(ie_len)) (ecall_at (encode_pfcp_meas_mthd_ie_t value.(update_urr_meas_mthd))) ⨾
    enc_when (nz value.(update_urr_rptng_triggers).(rptng_triggers_header).(ie_len)) (ecall_at (encode_pfcp_rptng_triggers_ie_t value.(update_urr_rptng_triggers))) ⨾
    enc_when (nz value.(update_urr_meas_period).(meas_period_header).(ie_len)) (ecall_at (encode_pfcp_meas_period_ie_t value.(update_urr_meas_period))) ⨾
    enc_when (nz value.(update_urr_vol_thresh).(vol_thresh_header).(ie_len)) (ecall_at (encode_pfcp_vol_thresh_ie_t value.(update_urr_vol_thresh))) ⨾
    enc_when (nz value.(update_urr_volume_quota).(volume_quota_header).(ie_len)) (ecall_at (encode_pfcp_volume_quota_ie_t value.(update_urr_volume_quota))) ⨾
    enc_when (nz value.(update_urr_time_threshold).(time_threshold_header).(ie_len)) (ecall_at (encode_pfcp_time_threshold_ie_t value.(update_urr_time_threshold))) ⨾
    enc_when (nz value.(update_urr_time_quota).(time_quota_header).(ie_len)) (ecall_at (encode_pfcp_time_quota_ie_t value.(update_urr_time_quota))) ⨾
    enc_when (nz value.(update_urr_event_threshold).(event_threshold_header).(ie_len)) (ecall_at (encode_pfcp_event_threshold_ie_t value.(update_urr_event_threshold))) ⨾
    enc_when (nz value.(update_urr_event_quota).(event_quota_header).(ie_len)) (ecall_at (encode_pfcp_event_quota_ie_t value.(update_urr_event_quota))) ⨾
    enc_when (nz value.(update_urr_quota_hldng_time).(quota_hldng_time_header).(ie_len)) (ecall_at (encode_pfcp_quota_hldng_time_ie_t value.(update_urr_quota_hldng_time))) ⨾
    enc_when (nz value.(update_urr_drpd_dl_traffic_thresh).(drpd_dl_traffic_thresh_header).(ie_len)) (ecall_at (encode_pfcp_drpd_dl_traffic_thresh_ie_t value.(update_urr_drpd_dl_traffic_thresh))) ⨾
    enc_when (nz value.(update_urr_monitoring_time).(monitoring_time_header).(ie_len)) (ecall_at (encode_pfcp_monitoring_time_ie_t value.(update_urr_monitoring_time))) ⨾
    enc_when (nz value.(update_urr_sbsqnt_vol_thresh).(sbsqnt_vol_thresh_header).(ie_len)) (ecall_at (encode_pfcp_sbsqnt_vol_thresh_ie_t value.(update_urr_sbsqnt_vol_thresh))) ⨾
    enc_when (nz value.(update_urr_sbsqnt_time_thresh).(sbsqnt_time_thresh_header).(ie_len)) (ecall_at (encode_pfcp_sbsqnt_time_thresh_ie_t value.(update_urr_sbsqnt_time_thresh))) ⨾
    enc_when (nz value.(update_urr_sbsqnt_vol_quota).(sbsqnt_vol_quota_header).(ie_len)) (ecall_at (encode_pfcp_sbsqnt_vol_quota_ie_t value.(update_urr_sbsqnt_vol_quota))) ⨾
    enc_when (nz value.(update_urr_sbsqnt_time_quota).(sbsqnt_time_quota_header).(ie_len)) (ecall_at (encode_pfcp_sbsqnt_time_quota_ie_t value.(update_urr_sbsqnt_time_quota))) ⨾
    enc_when (nz value.(update_urr_sbsqnt_evnt_thresh).(sbsqnt_evnt_thresh_header).(ie_len)) (ecall_at (encode_pfcp_sbsqnt_evnt_thresh_ie_t value.(update_urr_sbsqnt_evnt_thresh))) ⨾
    enc_when (nz value.(update_urr_sbsqnt_evnt_quota).(sbsqnt_evnt_quota_header).(ie_len)) (ecall_at (encode_pfcp_sbsqnt_evnt_quota_ie_t value.(update_urr_sbsqnt_evnt_quota))) ⨾
    enc_when (nz value.(update_urr_inact_det_time).(inact_det_time_header).(ie_len)) (ecall_at (encode_pfcp_inact_det_time_ie_t value.(update_urr_inact_det_time))) ⨾
    enc_when (nz value.(update_urr_meas_info).(meas_info_header).(ie_len)) (ecall_at (encode_pfcp_meas_info_ie_t value.(update_urr_meas_info))) ⨾
    enc_when (nz value.(update_urr_time_quota_mech).(time_quota_mech_header).(ie_len)) (ecall_at (encode_pfcp_time_quota_mech_ie_t value.(update_urr_time_quota_mech))) ⨾
    enc_when (nz value.(update_urr_far_id_for_quota_act).(far_id_header).(ie_len)) (ecall_at (encode_pfcp_far_id_ie_t value.(update_urr_far_id_for_quota_act))) ⨾
    enc_when (nz value.(update_urr_eth_inact_timer).(eth_inact_timer_header).(ie_len)) (ecall_at (encode_pfcp_eth_inact_timer_ie_t value.(update_urr_eth_inact_timer))) ⨾
    enc_when (nz value.(update_urr_add_mntrng_time).(add_mntrng_time_header).(ie_len)) (ecall_at (encode_pfcp_add_mntrng_time_ie_t value.(update_urr_add_mntrng_time))) ⨾
    enc_for value.(update_urr_linked_urr_id) 0 (Z.to_nat value.(update_urr_linked_urr_id_count)) (fun x => enc_when (nz x.(linked_urr_id_header).(ie_len)) (ecall_at (encode_pfcp_linked_urr_id_ie_t x))) ⨾
    enc_for value.(update_urr_aggregated_urrs) 0 (Z.to_nat value.(update_urr_aggregated_urrs_count)) (fun x => enc_when (nz x.(aggregated_urrs_header).(ie_len)) (ecall_at (encode_pfcp_aggregated_urrs_ie_t x)))).

Definition encode_pfcp_upd_bar_sess_mod_req_ie_t (value : pfcp_upd_bar_sess_mod_req_ie_t) : ie_encoder :=
  enc_bytes (
    ecall (encode_pfcp_ie_header_t value.(upd_bar_sess_mod_req_header)) ⨾
    enc_when (nz value.(upd_bar_sess_mod_req_bar_id).(bar_id_header).(ie_len)) (ecall (encode_pfcp_bar_id_ie_t value.(upd_bar_sess_mod_req_bar_id))) ⨾
    enc_when (nz value.(upd_bar_sess_mod_req_dnlnk_data_notif_delay).(dnlnk_data_notif_delay_header).(ie_len)) (ecall (encode_pfcp_dnlnk_data_notif_delay_ie_t value.(upd_bar_sess_mod_req_dnlnk_data_notif_delay))) ⨾
    enc_when (nz value.(upd_bar_sess_mod_req_suggstd_buf_pckts_cnt).(suggstd_buf_pckts_cnt_header).(ie_len)) (ecall (encode_pfcp_suggstd_buf_pckts_cnt_ie_t value.(upd_bar_sess_mod_req_suggstd_buf_pckts_cnt)))).

Definition encode_pfcp_sess_mod_req_t (value : pfcp_sess_mod_req_t) : ie_encoder :=
  enc_bits (
    ecall_at (encode_pfcp_header_t value.(sess_mod_req_header)) ⨾
    enc_when (nz value.(sess_mod_req_cp_fseid).(fseid_header).(ie_len)) (ecall_at (encode_pfcp_fseid_ie_t value.(sess_mod_req_cp_fseid))) ⨾
    enc_when (nz value.(sess_mod_req_remove_bar).(remove_bar_header).(ie_len)) (ecall_at (encode_pfcp_remove_bar_ie_t value.(sess_mod_req_remove_bar))) ⨾
    enc_when (nz value.(sess_mod_req_rmv_traffic_endpt).(rmv_traffic_endpt_header).(ie_len)) (ecall_at (encode_pfcp_rmv_traffic_endpt_ie_t value.(sess_mod_req_rmv_traffic_endpt))) ⨾
    enc_when (nz value.(sess_mod_req_create_bar).(create_bar_header).(ie_len)) (ecall_at (encode_pfcp_create_bar_ie_t value.(sess_mod_req_create_bar))) ⨾
    enc_when (nz value.(sess_mod_req_create_traffic_endpt).(create_traffic_endpt_header).(ie_len)) (ecall_at (encode_pfcp_create_traffic_endpt_ie_t value.(sess_mod_req_create_traffic_endpt))) ⨾
    enc_when (nz value.(sess_mod_req_update_bar).(upd_bar_sess_mod_req_header).(ie_len)) (ecall_at (encode_pfcp_upd_bar_sess_mod_req_ie_t value.(sess_mod_req_update_bar))) ⨾
    enc_when (nz value.(sess_mod_req_upd_traffic_endpt).(upd_traffic_endpt_header).(ie_len)) (ecall_at (encode_pfcp_upd_traffic_endpt_ie_t value.(sess_mod_req_upd_traffic_endpt))) ⨾
    enc_when (nz value.(sess_mod_req_pfcpsmreq_flags).(pfcpsmreq_flags_header).(ie_len)) (ecall_at (encode_pfcp_pfcpsmreq_flags_ie_t value.(sess_mod_req_pfcpsmreq_flags))) ⨾
    enc_when (nz value.(sess_mod_req_pgw_c_fqcsid).(fqcsid_header).(ie_len)) (ecall_at (encode_pfcp_fqcsid_ie_t value.(sess_mod_req_pgw_c_fqcsid))) ⨾
    enc_when (nz value.(sess_mod_req_sgw_c_fqcsid).(fqcsid_header).(ie_len)) (ecall_at (encode_pfcp_fqcsid_ie_t value.(sess_mod_req_sgw_c_fqcsid))) ⨾
    enc_when (nz value.(sess_mod_req_mme_fqcsid).(fqcsid_header).(ie_len)) (ecall_at (encode_pfcp_fqcsid_ie_t value.(sess_mod_req_mme_fqcsid))) ⨾
    enc_when (nz value.(sess_mod_req_epdg_fqcsid).(fqcsid_header).(ie_len)) (ecall_at (encode_pfcp_fqcsid_ie_t value.(sess_mod_req_epdg_fqcsid))) ⨾
    enc_when (nz value.(sess_mod_req_twan_fqcsid).(fqcsid_header).(ie_len)) (ecall_at (encode_pfcp_fqcsid_ie_t value.(sess_mod_req_twan_fqcsid))) ⨾
    enc_when (nz value.(sess_mod_req_user_plane_inact_timer).(user_plane_inact_timer_header).(ie_len)) (ecall_at (encode_pfcp_user_plane_inact_timer_ie_t value.(sess_mod_req_user_plane_inact_timer))) ⨾
    enc_when (nz value.(sess_mod_req_query_urr_ref).(query_urr_ref_header).(ie_len)) (ecall_at (encode_pfcp_query_urr_ref_ie_t value.(sess_mod_req_query_urr_ref))) ⨾
    enc_when (nz value.(sess_mod_req_trc_info).(trc_info_header).(ie_len)) (ecall_at (encode_pfcp_trc_info_ie_t value.(sess_mod_req_trc_info))) ⨾
    enc_for value.(sess_mod_req_remove_pdr) 0 (Z.to_nat value.(sess_mod_req_remove_pdr_count)) (fun x => enc_when (nz x.(remove_pdr_header).(ie_len)) (ecall_at (encode_pfcp_remove_pdr_ie_t x))) ⨾
    enc_for value.(sess_mod_req_remove_far) 0 (Z.to_nat value.(sess_mod_req_remove_far_count)) (fun x => enc_when (nz x.(remove_far_header).(ie_len)) (ecall_at (encode_pfcp_remove_far_ie_t x))) ⨾
    enc_for value.(sess_mod_req_remove_urr) 0 (Z.to_nat value.(sess_mod_req_remove_urr_count)) (fun x => enc_when (nz x.(remove_urr_header).(ie_len)) (ecall_at (encode_pfcp_remove_urr_ie_t x))) ⨾
    enc_for value.(sess_mod_req_remove_qer) 0 (Z.to_nat value.(sess_mod_req_remove_qer_count)) (fun x => enc_when (nz x.(remove_qer_header).(ie_len)) (ecall_at (encode_pfcp_remove_qer_ie_t x))) ⨾
    enc_for value.(sess_mod_req_create_pdr) 0 (Z.to_nat value.(sess_mod_req_create_pdr_count)) (fun x => enc_when (nz x.(create_pdr_header).(ie_len)) (ecall_at (encode_pfcp_create_pdr_ie_t x))) ⨾
    enc_for value.(sess_mod_req_create_far) 0 (Z.to_nat value.(sess_mod_req_create_far_count)) (fun x => enc_when (nz x.(create_far_header).(ie_len)) (ecall_at (encode_pfcp_create_far_ie_t x))) ⨾
    enc_for value.(sess_mod_req_create_urr) 0 (Z.to_nat value.(sess_mod_req_create_urr_count)) (fun x => enc_when (nz x.(create_urr_header).(ie_len)) (ecall_at (encode_pfcp_create_urr_ie_t x))) ⨾
    enc_for value.(sess_mod_req_create_qer) 0 (Z.to_nat value.(sess_mod_req_create_qer_count)) (fun x => enc_when (nz x.(create_qer_header).(ie_len)) (ecall_at (encode_pfcp_create_qer_ie_t x))) ⨾
    enc_for value.(sess_mod_req_update_pdr) 0 (Z.to_nat value.(sess_mod_req_update_pdr_count)) (fun x => enc_when (nz x.(update_pdr_header).(ie_len)) (ecall_at (encode_pfcp_update_pdr_ie_t x))) ⨾
    enc_for value.(sess_mod_req_update_far) 0 (Z.to_nat value.(sess_mod_req_update_far_count)) (fun x => enc_when (nz x.(update_far_header).(ie_len)) (ecall_at (encode_pfcp_update_far_ie_t x))) ⨾
    enc_for value.(sess_mod_req_update_urr) 0 (Z.to_nat value.(sess_mod_req_update_urr_count)) (fun x => enc_when (nz x.(update_urr_header).(ie_len)) (ecall_at (encode_pfcp_update_urr_ie_t x))) ⨾
    enc_for value.(sess_mod_req_update_qer) 0 (Z.to_nat value.(sess_mod_req_update_qer_count)) (fun x => enc_when (nz x.(update_qer_header).(ie_len)) (ecall_at (encode_pfcp_update_qer_ie_t x))) ⨾
    enc_for value.(sess_mod_req_query_urr) 0 (Z.to_nat value.(sess_mod_req_query_urr_count)) (fun x => enc_when (nz x.(query_urr_header).(ie_len)) (ecall_at (encode_pfcp_query_urr_ie_t x)))).
