(* ===== verification/PfcpMsgsDecoder.v ===== *)
(** * Decoders of the PFCP messages and grouped elements
    (src/libpfcp/src/pfcp_messages_decoder.c)

    After the header a decoder goes through the elements with [count], a uint16_t:
    [ie_type] is read at [buf + count], the decoder of that type fills its member
    and returns what is added to [count], and an unknown type is skipped by its
    length.  As for the elements, [value] is the structure of the caller. *)

From S2P Require Import Prelude EncDecBits Codec PfcpIes PfcpIesDecoder PfcpMsgs.

(** ** Statements *)

(** [count += sizeof(pfcp_ie_header_t) + ntohs(ie_header->len);] *)
Definition skip_ie {T} (here : list Z) (value : T) : option (Z * T) :=
  len ← ntohs_at here 2; Some (4 + len, value).

(** [ie_type], the first member of the header at [here]. *)
Definition ie_type_at (here : list Z) : option Z := ntohs_at here 0.

(** A message: [reset] sets the counters to 0. *)
Definition dec_message {T} (set_header : pfcp_header_t -> T -> T) (reset : T -> T)
    (step : Z -> list Z -> T -> option (Z * T)) (value : T) : ie_decoder T := fun buf =>
  '(count, header) ← decode_pfcp_header_t buf;
  let buf_len := u16 (header.(header_message_len) - (if nz header.(header_s) then 12 else 4)) in
  tlv_loop ie_type_at step loop_fuel (drop (Z.to_nat count) buf) buf_len 0 (reset (set_header header value)).

(** A grouped element: [decode_pfcp_ie_header_t] returns bits, and [count] starts
    behind the header while [buf_len] is the length without it. *)
Definition dec_group {T} (set_header : pfcp_ie_header_t -> T -> T) (reset : T -> T)
    (step : Z -> list Z -> T -> option (Z * T)) (value : T) : ie_decoder T := fun buf =>
  '(count, header) ← decode_pfcp_ie_header_t buf;
  tlv_loop ie_type_at step loop_fuel buf header.(ie_len) (count / 8) (reset (set_header header value)).

(** The same where the code neither sets [buf_len], which stays 0, nor divides
    [count]. *)
Definition dec_group_nolen {T} (set_header : pfcp_ie_header_t -> T -> T) (reset : T -> T)
    (step : Z -> list Z -> T -> option (Z * T)) (value : T) : ie_decoder T := fun buf =>
  '(count, header) ← decode_pfcp_ie_header_t buf;
  tlv_loop ie_type_at step loop_fuel buf 0 count (reset (set_header header value)).

(** ** The decoders *)

Definition decode_pfcp_create_traffic_endpt_ie_t : pfcp_create_traffic_endpt_ie_t -> ie_decoder pfcp_create_traffic_endpt_ie_t :=
  dec_group set_create_traffic_endpt_header (fun value => set_create_traffic_endpt_frmd_ipv6_route_count 0 (set_create_traffic_endpt_framed_route_count 0 value)) (fun ie_type here value =>
    if ie_type =? PFCP_IE_TRAFFIC_ENDPT_ID then into decode_pfcp_traffic_endpt_id_ie_t value.(create_traffic_endpt_traffic_endpt_id) set_create_traffic_endpt_traffic_endpt_id here value
    else if ie_type =? PFCP_IE_FTEID then into decode_pfcp_fteid_ie_t value.(create_traffic_endpt_local_fteid) set_create_traffic_endpt_local_fteid here value
    else if ie_type =? PFCP_IE_NTWK_INST then into decode_pfcp_ntwk_inst_ie_t value.(create_traffic_endpt_ntwk_inst) set_create_traffic_endpt_ntwk_inst here value
    else if ie_type =? PFCP_IE_UE_IP_ADDRESS then into decode_pfcp_ue_ip_address_ie_t value.(create_traffic_endpt_ue_ip_address) set_create_traffic_endpt_ue_ip_address here value
    else if ie_type =? PFCP_IE_ETH_PDU_SESS_INFO then into decode_pfcp_eth_pdu_sess_info_ie_t value.(create_traffic_endpt_eth_pdu_sess_info) set_create_traffic_endpt_eth_pdu_sess_info here value
    else if ie_type =? PFCP_IE_FRAMED_ROUTING then into decode_pfcp_framed_routing_ie_t value.(create_traffic_endpt_framed_routing) set_create_traffic_endpt_framed_routing here value
    else if ie_type =? PFCP_IE_FRAMED_ROUTE then into_next 8 decode_pfcp_framed_route_ie_t value.(create_traffic_endpt_framed_route) value.(create_traffic_endpt_framed_route_count) set_create_traffic_endpt_framed_route set_create_traffic_endpt_framed_route_count here value
    else if ie_type =? PFCP_IE_FRMD_IPV6_RTE then into_next 8 decode_pfcp_frmd_ipv6_route_ie_t value.(create_traffic_endpt_frmd_ipv6_rte) value.(create_traffic_endpt_frmd_ipv6_route_count) set_create_traffic_endpt_frmd_ipv6_rte set_create_traffic_endpt_frmd_ipv6_route_count here value
    else skip_ie here value).

Definition decode_pfcp_pfd_context_ie_t : pfcp_pfd_context_ie_t -> ie_decoder pfcp_pfd_context_ie_t :=
  dec_group set_pfd_context_header (fun value => set_pfd_context_pfd_contents_count 0 value) (fun ie_type here value =>
    if ie_type =? PFCP_IE_PFD_CONTENTS then into_next 8 decode_pfcp_pfd_contents_ie_t value.(pfd_context_pfd_contents) value.(pfd_context_pfd_contents_count) set_pfd_context_pfd_contents set_pfd_context_pfd_contents_count here value
    else skip_ie here value).

Definition decode_pfcp_eth_pckt_fltr_ie_t : pfcp_eth_pckt_fltr_ie_t -> ie_decoder pfcp_eth_pckt_fltr_ie_t :=
  dec_group_nolen set_eth_pckt_fltr_header (fun value => set_eth_pckt_fltr_sdf_filter_count 0 value) (fun ie_type here value =>
    if ie_type =? PFCP_IE_ETH_FLTR_ID then into decode_pfcp_eth_fltr_id_ie_t value.(eth_pckt_fltr_eth_fltr_id) set_eth_pckt_fltr_eth_fltr_id here value
    else if ie_type =? PFCP_IE_ETH_FLTR_PROPS then into decode_pfcp_eth_fltr_props_ie_t value.(eth_pckt_fltr_eth_fltr_props) set_eth_pckt_fltr_eth_fltr_props here value
    else if ie_type =? PFCP_IE_MAC_ADDRESS then into decode_pfcp_mac_address_ie_t value.(eth_pckt_fltr_mac_address) set_eth_pckt_fltr_mac_address here value
    else if ie_type =? PFCP_IE_ETHERTYPE then into decode_pfcp_ethertype_ie_t value.(eth_pckt_fltr_ethertype) set_eth_pckt_fltr_ethertype here value
    else if ie_type =? PFCP_IE_CTAG then into decode_pfcp_ctag_ie_t value.(eth_pckt_fltr_ctag) set_eth_pckt_fltr_ctag here value
    else if ie_type =? PFCP_IE_STAG then into decode_pfcp_stag_ie_t value.(eth_pckt_fltr_stag) set_eth_pckt_fltr_stag here value
    else if ie_type =? PFCP_IE_SDF_FILTER then into_next 8 decode_pfcp_sdf_filter_ie_t value.(eth_pckt_fltr_sdf_filter) value.(eth_pckt_fltr_sdf_filter_count) set_eth_pckt_fltr_sdf_filter set_eth_pckt_fltr_sdf_filter_count here value
    else skip_ie here value).

Definition decode_pfcp_remove_far_ie_t : pfcp_remove_far_ie_t -> ie_decoder pfcp_remove_far_ie_t :=
  dec_group set_remove_far_header id (fun ie_type here value =>
    if ie_type =? PFCP_IE_FAR_ID then into decode_pfcp_far_id_ie_t value.(remove_far_far_id) set_remove_far_far_id here value
    else skip_ie here value).

Definition decode_pfcp_hrtbeat_req_t : pfcp_hrtbeat_req_t -> ie_decoder pfcp_hrtbeat_req_t :=
  dec_message set_hrtbeat_req_header id (fun ie_type here value =>
    if ie_type =? PFCP_IE_RCVRY_TIME_STMP then into decode_pfcp_rcvry_time_stmp_ie_t value.(hrtbeat_req_rcvry_time_stmp) set_hrtbeat_req_rcvry_time_stmp here value
    else skip_ie here value).

Definition decode_pfcp_assn_setup_rsp_t : pfcp_assn_setup_rsp_t -> ie_decoder pfcp_assn_setup_rsp_t :=
  dec_message set_assn_setup_rsp_header (fun value => set_assn_setup_rsp_user_plane_ip_rsrc_info_count 0 value) (fun ie_type here value =>
    if ie_type =? PFCP_IE_NODE_ID then into decode_pfcp_node_id_ie_t value.(assn_setup_rsp_node_id) set_assn_setup_rsp_node_id here value
    else if ie_type =? PFCP_IE_CAUSE then into decode_pfcp_cause_ie_t value.(assn_setup_rsp_cause) set_assn_setup_rsp_cause here value
    else if ie_type =? PFCP_IE_RCVRY_TIME_STMP then into decode_pfcp_rcvry_time_stmp_ie_t value.(assn_setup_rsp_rcvry_time_stmp) set_assn_setup_rsp_rcvry_time_stmp here value
    else if ie_type =? PFCP_IE_UP_FUNC_FEAT then into decode_pfcp_up_func_feat_ie_t value.(assn_setup_rsp_up_func_feat) set_assn_setup_rsp_up_func_feat here value
    else if ie_type =? PFCP_IE_CP_FUNC_FEAT then into decode_pfcp_cp_func_feat_ie_t value.(assn_setup_rsp_cp_func_feat) set_assn_setup_rsp_cp_func_feat here value
    else if ie_type =? PFCP_IE_USER_PLANE_IP_RSRC_INFO then into_next 8 decode_pfcp_user_plane_ip_rsrc_info_ie_t value.(assn_setup_rsp_user_plane_ip_rsrc_info) value.(assn_setup_rsp_user_plane_ip_rsrc_info_count) set_assn_setup_rsp_user_plane_ip_rsrc_info set_assn_setup_rsp_user_plane_ip_rsrc_info_count here value
    else skip_ie here value).

Definition decode_pfcp_dnlnk_data_rpt_ie_t : pfcp_dnlnk_data_rpt_ie_t -> ie_decoder pfcp_dnlnk_data_rpt_ie_t :=
  dec_group set_dnlnk_data_rpt_header (fun value => set_dnlnk_data_rpt_pdr_id_count 0 value) (fun ie_type here value =>
    if ie_type =? PFCP_IE_PDR_ID then into_next 8 decode_pfcp_pdr_id_ie_t value.(dnlnk_data_rpt_pdr_id) value.(dnlnk_data_rpt_pdr_id_count) set_dnlnk_data_rpt_pdr_id set_dnlnk_data_rpt_pdr_id_count here value
    else if ie_type =? PFCP_IE_DNLNK_DATA_SVC_INFO then into decode_pfcp_dnlnk_data_svc_info_ie_t value.(dnlnk_data_rpt_dnlnk_data_svc_info) set_dnlnk_data_rpt_dnlnk_data_svc_info here value
    else skip_ie here value).

Definition decode_pfcp_query_urr_ie_t : pfcp_query_urr_ie_t -> ie_decoder pfcp_query_urr_ie_t :=
  dec_group set_query_urr_header id (fun ie_type here value =>
    if ie_type =? PFCP_IE_URR_ID then into decode_pfcp_urr_id_ie_t value.(query_urr_urr_id) set_query_urr_urr_id here value
    else skip_ie here value).

Definition decode_pfcp_assn_setup_req_t : pfcp_assn_setup_req_t -> ie_decoder pfcp_assn_setup_req_t :=
  dec_message set_assn_setup_req_header (fun value => set_assn_setup_req_user_plane_ip_rsrc_info_count 0 value) (fun ie_type here value =>
    if ie_type =? PFCP_IE_NODE_ID then into decode_pfcp_node_id_ie_t value.(assn_setup_req_node_id) set_assn_setup_req_node_id here value
    else if ie_type =? PFCP_IE_RCVRY_TIME_STMP then into decode_pfcp_rcvry_time_stmp_ie_t value.(assn_setup_req_rcvry_time_stmp) set_assn_setup_req_rcvry_time_stmp here value
    else if ie_type =? PFCP_IE_UP_FUNC_FEAT then into decode_pfcp_up_func_feat_ie_t value.(assn_setup_req_up_func_feat) set_assn_setup_req_up_func_feat here value
    else if ie_type =? PFCP_IE_CP_FUNC_FEAT then into decode_pfcp_cp_func_feat_ie_t value.(assn_setup_req_cp_func_feat) set_assn_setup_req_cp_func_feat here value
    else if ie_type =? PFCP_IE_USER_PLANE_IP_RSRC_INFO then into_next 8 decode_pfcp_user_plane_ip_rsrc_info_ie_t value.(assn_setup_req_user_plane_ip_rsrc_info) value.(assn_setup_req_user_plane_ip_rsrc_info_count) set_assn_setup_req_user_plane_ip_rsrc_info set_assn_setup_req_user_plane_ip_rsrc_info_count here value
    else skip_ie here value).

Definition decode_pfcp_upd_bar_sess_rpt_rsp_ie_t : pfcp_upd_bar_sess_rpt_rsp_ie_t -> ie_decoder pfcp_upd_bar_sess_rpt_rsp_ie_t :=
  dec_group_nolen set_upd_bar_sess_rpt_rsp_header id (fun ie_type here value =>
    if ie_type =? PFCP_IE_BAR_ID then into decode_pfcp_bar_id_ie_t value.(upd_bar_sess_rpt_rsp_bar_id) set_upd_bar_sess_rpt_rsp_bar_id here value
    else if ie_type =? PFCP_IE_DNLNK_DATA_NOTIF_DELAY then into decode_pfcp_dnlnk_data_notif_delay_ie_t value.(upd_bar_sess_rpt_rsp_dnlnk_data_notif_delay) set_upd_bar_sess_rpt_rsp_dnlnk_data_notif_delay here value
    else if ie_type =? PFCP_IE_DL_BUF_DUR then into decode_pfcp_dl_buf_dur_ie_t value.(upd_bar_sess_rpt_rsp_dl_buf_dur) set_upd_bar_sess_rpt_rsp_dl_buf_dur here value
    else if ie_type =? PFCP_IE_DL_BUF_SUGGSTD_PCKT_CNT then into decode_pfcp_dl_buf_suggstd_pckt_cnt_ie_t value.(upd_bar_sess_rpt_rsp_dl_buf_suggstd_pckt_cnt) set_upd_bar_sess_rpt_rsp_dl_buf_suggstd_pckt_cnt here value
    else if ie_type =? PFCP_IE_SUGGSTD_BUF_PCKTS_CNT then into decode_pfcp_suggstd_buf_pckts_cnt_ie_t value.(upd_bar_sess_rpt_rsp_suggstd_buf_pckts_cnt) set_upd_bar_sess_rpt_rsp_suggstd_buf_pckts_cnt here value
    else skip_ie here value).

Definition decode_pfcp_remove_urr_ie_t : pfcp_remove_urr_ie_t -> ie_decoder pfcp_remove_urr_ie_t :=
  dec_group set_remove_urr_header id (fun ie_type here value =>
    if ie_type =? PFCP_IE_URR_ID then into decode_pfcp_urr_id_ie_t value.(remove_urr_urr_id) set_remove_urr_urr_id here value
    else skip_ie here value).

Definition decode_pfcp_sess_rpt_rsp_t : pfcp_sess_rpt_rsp_t -> ie_decoder pfcp_sess_rpt_rsp_t :=
  dec_message set_sess_rpt_rsp_header id (fun ie_type here value =>
    if ie_type =? PFCP_IE_CAUSE then into decode_pfcp_cause_ie_t value.(sess_rpt_rsp_cause) set_sess_rpt_rsp_cause here value
    else if ie_type =? PFCP_IE_OFFENDING_IE then into decode_pfcp_offending_ie_ie_t value.(sess_rpt_rsp_offending_ie) set_sess_rpt_rsp_offending_ie here value
    else if ie_type =? PFCP_IE_UPD_BAR_SESS_RPT_RSP then into decode_pfcp_upd_bar_sess_rpt_rsp_ie_t value.(sess_rpt_rsp_update_bar) set_sess_rpt_rsp_update_bar here value
    else if ie_type =? PFCP_IE_PFCPSRRSP_FLAGS then into decode_pfcp_pfcpsrrsp_flags_ie_t value.(sess_rpt_rsp_sxsrrsp_flags) set_sess_rpt_rsp_sxsrrsp_flags here value
    else skip_ie here value).

Definition decode_pfcp_assn_upd_rsp_t : pfcp_assn_upd_rsp_t -> ie_decoder pfcp_assn_upd_rsp_t :=
  dec_message set_assn_upd_rsp_header id (fun ie_type here value =>
    if ie_type =? PFCP_IE_NODE_ID then into decode_pfcp_node_id_ie_t value.(assn_upd_rsp_node_id) set_assn_upd_rsp_node_id here value
    else if ie_type =? PFCP_IE_CAUSE then into decode_pfcp_cause_ie_t value.(assn_upd_rsp_cause) set_assn_upd_rsp_cause here value
    else if ie_type =? PFCP_IE_UP_FUNC_FEAT then into decode_pfcp_up_func_feat_ie_t value.(assn_upd_rsp_up_func_feat) set_assn_upd_rsp_up_func_feat here value
    else if ie_type =? PFCP_IE_CP_FUNC_FEAT then into decode_pfcp_cp_func_feat_ie_t value.(assn_upd_rsp_cp_func_feat) set_assn_upd_rsp_cp_func_feat here value
    else skip_ie here value).

Definition decode_pfcp_assn_rel_rsp_t : pfcp_assn_rel_rsp_t -> ie_decoder pfcp_assn_rel_rsp_t :=
  dec_message set_assn_rel_rsp_header id (fun ie_type here value =>
    if ie_type =? PFCP_IE_NODE_ID then into decode_pfcp_node_id_ie_t value.(assn_rel_rsp_node_id) set_assn_rel_rsp_node_id here value
    else if ie_type =? PFCP_IE_CAUSE then into decode_pfcp_cause_ie_t value.(assn_rel_rsp_cause) set_assn_rel_rsp_cause here value
    else skip_ie here value).

Definition decode_pfcp_sess_set_del_req_t : pfcp_sess_set_del_req_t -> ie_decoder pfcp_sess_set_del_req_t :=
  dec_message set_sess_set_del_req_header id (fun ie_type here value =>
    if ie_type =? PFCP_IE_NODE_ID then into decode_pfcp_node_id_ie_t value.(sess_set_del_req_node_id) set_sess_set_del_req_node_id here value
    else if ie_type =? PFCP_IE_FQCSID then into decode_pfcp_fqcsid_ie_t value.(sess_set_del_req_sgw_c_fqcsid) set_sess_set_del_req_sgw_c_fqcsid here value
    else if ie_type =? PFCP_IE_FQCSID then into decode_pfcp_fqcsid_ie_t value.(sess_set_del_req_pgw_c_fqcsid) set_sess_set_del_req_pgw_c_fqcsid here value
    else if ie_type =? PFCP_IE_FQCSID then into decode_pfcp_fqcsid_ie_t value.(sess_set_del_req_sgw_u_fqcsid) set_sess_set_del_req_sgw_u_fqcsid here value
    else if ie_type =? PFCP_IE_FQCSID then into decode_pfcp_fqcsid_ie_t value.(sess_set_del_req_pgw_u_fqcsid) set_sess_set_del_req_pgw_u_fqcsid here value
    else if ie_type =? PFCP_IE_FQCSID then into decode_pfcp_fqcsid_ie_t value.(sess_set_del_req_twan_fqcsid) set_sess_set_del_req_twan_fqcsid here value
    else if ie_type =? PFCP_IE_FQCSID then into decode_pfcp_fqcsid_ie_t value.(sess_set_del_req_epdg_fqcsid) set_sess_set_del_req_epdg_fqcsid here value
    else if ie_type =? PFCP_IE_FQCSID then into decode_pfcp_fqcsid_ie_t value.(sess_set_del_req_mme_fqcsid) set_sess_set_del_req_mme_fqcsid here value
    else skip_ie here value).

Definition decode_pfcp_sess_set_del_rsp_t : pfcp_sess_set_del_rsp_t -> ie_decoder pfcp_sess_set_del_rsp_t :=
  dec_message set_sess_set_del_rsp_header id (fun ie_type here value =>
    if ie_type =? PFCP_IE_NODE_ID then into decode_pfcp_node_id_ie_t value.(sess_set_del_rsp_node_id) set_sess_set_del_rsp_node_id here value
    else if ie_type =? PFCP_IE_CAUSE then into decode_pfcp_cause_ie_t value.(sess_set_del_rsp_cause) set_sess_set_del_rsp_cause here value
    else if ie_type =? PFCP_IE_OFFENDING_IE then into decode_pfcp_offending_ie_ie_t value.(sess_set_del_rsp_offending_ie) set_sess_set_del_rsp_offending_ie here value
    else skip_ie here value).

Definition decode_pfcp_created_pdr_ie_t : pfcp_created_pdr_ie_t -> ie_decoder pfcp_created_pdr_ie_t :=
  dec_group set_created_pdr_header id (fun ie_type here value =>
    if ie_type =? PFCP_IE_PDR_ID then into decode_pfcp_pdr_id_ie_t value.(created_pdr_pdr_id) set_created_pdr_pdr_id here value
    else if ie_type =? PFCP_IE_FTEID then into decode_pfcp_fteid_ie_t value.(created_pdr_local_fteid) set_created_pdr_local_fteid here value
    else if ie_type =? PFCP_IE_UE_IP_ADDRESS then into decode_pfcp_ue_ip_address_ie_t value.(created_pdr_ue_ip_address) set_created_pdr_ue_ip_address here value
    else skip_ie here value).

Definition decode_pfcp_load_ctl_info_ie_t : pfcp_load_ctl_info_ie_t -> ie_decoder pfcp_load_ctl_info_ie_t :=
  dec_group_nolen set_load_ctl_info_header id (fun ie_type here value =>
    if ie_type =? PFCP_IE_SEQUENCE_NUMBER then into decode_pfcp_sequence_number_ie_t value.(load_ctl_info_load_ctl_seqn_nbr) set_load_ctl_info_load_ctl_seqn_nbr here value
    else if ie_type =? PFCP_IE_METRIC then into decode_pfcp_metric_ie_t value.(load_ctl_info_load_metric) set_load_ctl_info_load_metric here value
    else skip_ie here value).

Definition decode_pfcp_created_traffic_endpt_ie_t : pfcp_created_traffic_endpt_ie_t -> ie_decoder pfcp_created_traffic_endpt_ie_t :=
  dec_group_nolen set_created_traffic_endpt_header id (fun ie_type here value =>
    if ie_type =? PFCP_IE_TRAFFIC_ENDPT_ID then into decode_pfcp_traffic_endpt_id_ie_t value.(created_traffic_endpt_traffic_endpt_id) set_created_traffic_endpt_traffic_endpt_id here value
    else if ie_type =? PFCP_IE_FTEID then into decode_pfcp_fteid_ie_t value.(created_traffic_endpt_local_fteid) set_created_traffic_endpt_local_fteid here value
    else skip_ie here value).

Definition decode_pfcp_pfd_mgmt_rsp_t : pfcp_pfd_mgmt_rsp_t -> ie_decoder pfcp_pfd_mgmt_rsp_t :=
  dec_message set_pfd_mgmt_rsp_header id (fun ie_type here value =>
    if ie_type =? PFCP_IE_CAUSE then into decode_pfcp_cause_ie_t value.(pfd_mgmt_rsp_cause) set_pfd_mgmt_rsp_cause here value
    else if ie_type =? PFCP_IE_OFFENDING_IE then into decode_pfcp_offending_ie_ie_t value.(pfd_mgmt_rsp_offending_ie) set_pfd_mgmt_rsp_offending_ie here value
    else skip_ie here value).

Definition decode_pfcp_upd_traffic_endpt_ie_t : pfcp_upd_traffic_endpt_ie_t -> ie_decoder pfcp_upd_traffic_endpt_ie_t :=
  dec_group set_upd_traffic_endpt_header (fun value => set_upd_traffic_endpt_frmd_ipv6_route_count 0 (set_upd_traffic_endpt_framed_route_count 0 value)) (fun ie_type here value =>
    if ie_type =? PFCP_IE_TRAFFIC_ENDPT_ID then into decode_pfcp_traffic_endpt_id_ie_t value.(upd_traffic_endpt_traffic_endpt_id) set_upd_traffic_endpt_traffic_endpt_id here value
    else if ie_type =? PFCP_IE_FTEID then into decode_pfcp_fteid_ie_t value.(upd_traffic_endpt_local_fteid) set_upd_traffic_endpt_local_fteid here value
    else if ie_type =? PFCP_IE_NTWK_INST then into decode_pfcp_ntwk_inst_ie_t value.(upd_traffic_endpt_ntwk_inst) set_upd_traffic_endpt_ntwk_inst here value
    else if ie_type =? PFCP_IE_UE_IP_ADDRESS then into decode_pfcp_ue_ip_address_ie_t value.(upd_traffic_endpt_ue_ip_address) set_upd_traffic_endpt_ue_ip_address here value
    else if ie_type =? PFCP_IE_FRAMED_ROUTING then into decode_pfcp_framed_routing_ie_t value.(upd_traffic_endpt_framed_routing) set_upd_traffic_endpt_framed_routing here value
    else if ie_type =? PFCP_IE_FRAMED_ROUTE then into_next 8 decode_pfcp_framed_route_ie_t value.(upd_traffic_endpt_framed_route) value.(upd_traffic_endpt_framed_route_count) set_upd_traffic_endpt_framed_route set_upd_traffic_endpt_framed_route_count here value
    else if ie_type =? PFCP_IE_FRMD_IPV6_RTE then into_next 8 decode_pfcp_frmd_ipv6_route_ie_t value.(upd_traffic_endpt_frmd_ipv6_rte) value.(upd_traffic_endpt_frmd_ipv6_route_count) set_upd_traffic_endpt_frmd_ipv6_rte set_upd_traffic_endpt_frmd_ipv6_route_count here value
    else skip_ie here value).

Definition decode_pfcp_upd_dupng_parms_ie_t : pfcp_upd_dupng_parms_ie_t -> ie_decoder pfcp_upd_dupng_parms_ie_t :=
  dec_group set_upd_dupng_parms_header id (fun ie_type here value =>
    if ie_type =? PFCP_IE_DST_INTFC then into decode_pfcp_dst_intfc_ie_t value.(upd_dupng_parms_dst_intfc) set_upd_dupng_parms_dst_intfc here value
    else if ie_type =? PFCP_IE_OUTER_HDR_CREATION then into decode_pfcp_outer_hdr_creation_ie_t value.(upd_dupng_parms_outer_hdr_creation) set_upd_dupng_parms_outer_hdr_creation here value
    else if ie_type =? PFCP_IE_TRNSPT_LVL_MARKING then into decode_pfcp_trnspt_lvl_marking_ie_t value.(upd_dupng_parms_trnspt_lvl_marking) set_upd_dupng_parms_trnspt_lvl_marking here value
    else if ie_type =? PFCP_IE_FRWDNG_PLCY then into decode_pfcp_frwdng_plcy_ie_t value.(upd_dupng_parms_frwdng_plcy) set_upd_dupng_parms_frwdng_plcy here value
    else skip_ie here value).

Definition decode_pfcp_frwdng_parms_ie_t : pfcp_frwdng_parms_ie_t -> ie_decoder pfcp_frwdng_parms_ie_t :=
  dec_group set_frwdng_parms_header id (fun ie_type here value =>
    if ie_type =? PFCP_IE_DST_INTFC then into decode_pfcp_dst_intfc_ie_t value.(frwdng_parms_dst_intfc) set_frwdng_parms_dst_intfc here value
    else if ie_type =? PFCP_IE_NTWK_INST then into decode_pfcp_ntwk_inst_ie_t value.(frwdng_parms_ntwk_inst) set_frwdng_parms_ntwk_inst here value
    else if ie_type =? PFCP_IE_REDIR_INFO then into decode_pfcp_redir_info_ie_t value.(frwdng_parms_redir_info) set_frwdng_parms_redir_info here value
    else if ie_type =? PFCP_IE_OUTER_HDR_CREATION then into decode_pfcp_outer_hdr_creation_ie_t value.(frwdng_parms_outer_hdr_creation) set_frwdng_parms_outer_hdr_creation here value
    else if ie_type =? PFCP_IE_TRNSPT_LVL_MARKING then into decode_pfcp_trnspt_lvl_marking_ie_t value.(frwdng_parms_trnspt_lvl_marking) set_frwdng_parms_trnspt_lvl_marking here value
    else if ie_type =? PFCP_IE_FRWDNG_PLCY then into decode_pfcp_frwdng_plcy_ie_t value.(frwdng_parms_frwdng_plcy) set_frwdng_parms_frwdng_plcy here value
    else if ie_type =? PFCP_IE_HDR_ENRCHMT then into decode_pfcp_hdr_enrchmt_ie_t value.(frwdng_parms_hdr_enrchmt) set_frwdng_parms_hdr_enrchmt here value
    else if ie_type =? PFCP_IE_TRAFFIC_ENDPT_ID then into decode_pfcp_traffic_endpt_id_ie_t value.(frwdng_parms_lnkd_traffic_endpt_id) set_frwdng_parms_lnkd_traffic_endpt_id here value
    else if ie_type =? PFCP_IE_PROXYING then into decode_pfcp_proxying_ie_t value.(frwdng_parms_proxying) set_frwdng_parms_proxying here value
    else skip_ie here value).

Definition decode_pfcp_dupng_parms_ie_t : pfcp_dupng_parms_ie_t -> ie_decoder pfcp_dupng_parms_ie_t :=
  dec_group set_dupng_parms_header id (fun ie_type here value =>
    if ie_type =? PFCP_IE_DST_INTFC then into decode_pfcp_dst_intfc_ie_t value.(dupng_parms_dst_intfc) set_dupng_parms_dst_intfc here value
    else if ie_type =? PFCP_IE_OUTER_HDR_CREATION then into decode_pfcp_outer_hdr_creation_ie_t value.(dupng_parms_outer_hdr_creation) set_dupng_parms_outer_hdr_creation here value
    else if ie_type =? PFCP_IE_TRNSPT_LVL_MARKING then into decode_pfcp_trnspt_lvl_marking_ie_t value.(dupng_parms_trnspt_lvl_marking) set_dupng_parms_trnspt_lvl_marking here value
    else if ie_type =? PFCP_IE_FRWDNG_PLCY then into decode_pfcp_frwdng_plcy_ie_t value.(dupng_parms_frwdng_plcy) set_dupng_parms_frwdng_plcy here value
    else skip_ie here value).

Definition decode_pfcp_create_far_ie_t : pfcp_create_far_ie_t -> ie_decoder pfcp_create_far_ie_t :=
  dec_group set_create_far_header (fun value => set_create_far_dupng_parms_count 0 value) (fun ie_type here value =>
    if ie_type =? PFCP_IE_FAR_ID then into decode_pfcp_far_id_ie_t value.(create_far_far_id) set_create_far_far_id here value
    else if ie_type =? PFCP_IE_APPLY_ACTION then into decode_pfcp_apply_action_ie_t value.(create_far_apply_action) set_create_far_apply_action here value
    else if ie_type =? PFCP_IE_FRWDNG_PARMS then into decode_pfcp_frwdng_parms_ie_t value.(create_far_frwdng_parms) set_create_far_frwdng_parms here value
    else if ie_type =? PFCP_IE_BAR_ID then into decode_pfcp_bar_id_ie_t value.(create_far_bar_id) set_create_far_bar_id here value
    else if ie_type =? PFCP_IE_DUPNG_PARMS then into_next 8 decode_pfcp_dupng_parms_ie_t value.(create_far_dupng_parms) value.(create_far_dupng_parms_count) set_create_far_dupng_parms set_create_far_dupng_parms_count here value
    else skip_ie here value).

Definition decode_pfcp_upd_frwdng_parms_ie_t : pfcp_upd_frwdng_parms_ie_t -> ie_decoder pfcp_upd_frwdng_parms_ie_t :=
  dec_group set_upd_frwdng_parms_header id (fun ie_type here value =>
    if ie_type =? PFCP_IE_DST_INTFC then into decode_pfcp_dst_intfc_ie_t value.(upd_frwdng_parms_dst_intfc) set_upd_frwdng_parms_dst_intfc here value
    else if ie_type =? PFCP_IE_NTWK_INST then into decode_pfcp_ntwk_inst_ie_t value.(upd_frwdng_parms_ntwk_inst) set_upd_frwdng_parms_ntwk_inst here value
    else if ie_type =? PFCP_IE_REDIR_INFO then into decode_pfcp_redir_info_ie_t value.(upd_frwdng_parms_redir_info) set_upd_frwdng_parms_redir_info here value
    else if ie_type =? PFCP_IE_OUTER_HDR_CREATION then into decode_pfcp_outer_hdr_creation_ie_t value.(upd_frwdng_parms_outer_hdr_creation) set_upd_frwdng_parms_outer_hdr_creation here value
    else if ie_type =? PFCP_IE_TRNSPT_LVL_MARKING then into decode_pfcp_trnspt_lvl_marking_ie_t value.(upd_frwdng_parms_trnspt_lvl_marking) set_upd_frwdng_parms_trnspt_lvl_marking here value
    else if ie_type =? PFCP_IE_FRWDNG_PLCY then into decode_pfcp_frwdng_plcy_ie_t value.(upd_frwdng_parms_frwdng_plcy) set_upd_frwdng_parms_frwdng_plcy here value
    else if ie_type =? PFCP_IE_HDR_ENRCHMT then into decode_pfcp_hdr_enrchmt_ie_t value.(upd_frwdng_parms_hdr_enrchmt) set_upd_frwdng_parms_hdr_enrchmt here value
    else if ie_type =? PFCP_IE_PFCPSMREQ_FLAGS then into decode_pfcp_pfcpsmreq_flags_ie_t value.(upd_frwdng_parms_pfcpsmreq_flags) set_upd_frwdng_parms_pfcpsmreq_flags here value
    else if ie_type =? PFCP_IE_TRAFFIC_ENDPT_ID then into decode_pfcp_traffic_endpt_id_ie_t value.(upd_frwdng_parms_lnkd_traffic_endpt_id) set_upd_frwdng_parms_lnkd_traffic_endpt_id here value
    else skip_ie here value).

Definition decode_pfcp_node_rpt_rsp_t : pfcp_node_rpt_rsp_t -> ie_decoder pfcp_node_rpt_rsp_t :=
  dec_message set_node_rpt_rsp_header id (fun ie_type here value =>
    if ie_type =? PFCP_IE_NODE_ID then into decode_pfcp_node_id_ie_t value.(node_rpt_rsp_node_id) set_node_rpt_rsp_node_id here value
    else if ie_type =? PFCP_IE_CAUSE then into decode_pfcp_cause_ie_t value.(node_rpt_rsp_cause) set_node_rpt_rsp_cause here value
    else if ie_type =? PFCP_IE_OFFENDING_IE then into decode_pfcp_offending_ie_ie_t value.(node_rpt_rsp_offending_ie) set_node_rpt_rsp_offending_ie here value
    else skip_ie here value).

Definition decode_pfcp_ovrld_ctl_info_ie_t : pfcp_ovrld_ctl_info_ie_t -> ie_decoder pfcp_ovrld_ctl_info_ie_t :=
  dec_group_nolen set_ovrld_ctl_info_header id (fun ie_type here value =>
    if ie_type =? PFCP_IE_SEQUENCE_NUMBER then into decode_pfcp_sequence_number_ie_t value.(ovrld_ctl_info_ovrld_ctl_seqn_nbr) set_ovrld_ctl_info_ovrld_ctl_seqn_nbr here value
    else if ie_type =? PFCP_IE_METRIC then into decode_pfcp_metric_ie_t value.(ovrld_ctl_info_ovrld_reduction_metric) set_ovrld_ctl_info_ovrld_reduction_metric here value
    else if ie_type =? PFCP_IE_TIMER then into decode_pfcp_timer_ie_t value.(ovrld_ctl_info_period_of_validity) set_ovrld_ctl_info_period_of_validity here value
    else if ie_type =? PFCP_IE_OCI_FLAGS then into decode_pfcp_oci_flags_ie_t value.(ovrld_ctl_info_ovrld_ctl_info_flgs) set_ovrld_ctl_info_ovrld_ctl_info_flgs here value
    else skip_ie here value).

Definition decode_pfcp_hrtbeat_rsp_t : pfcp_hrtbeat_rsp_t -> ie_decoder pfcp_hrtbeat_rsp_t :=
  dec_message set_hrtbeat_rsp_header id (fun ie_type here value =>
    if ie_type =? PFCP_IE_RCVRY_TIME_STMP then into decode_pfcp_rcvry_time_stmp_ie_t value.(hrtbeat_rsp_rcvry_time_stmp) set_hrtbeat_rsp_rcvry_time_stmp here value
    else skip_ie here value).

Definition decode_pfcp_app_det_info_ie_t : pfcp_app_det_info_ie_t -> ie_decoder pfcp_app_det_info_ie_t :=
  dec_group_nolen set_app_det_info_header id (fun ie_type here value =>
    if ie_type =? PFCP_IE_APPLICATION_ID then into decode_pfcp_application_id_ie_t value.(app_det_info_application_id) set_app_det_info_application_id here value
    else if ie_type =? PFCP_IE_APP_INST_ID then into decode_pfcp_app_inst_id_ie_t value.(app_det_info_app_inst_id) set_app_det_info_app_inst_id here value
    else if ie_type =? PFCP_IE_FLOW_INFO then into decode_pfcp_flow_info_ie_t value.(app_det_info_flow_info) set_app_det_info_flow_info here value
    else skip_ie here value).

Definition decode_pfcp_pdi_ie_t : pfcp_pdi_ie_t -> ie_decoder pfcp_pdi_ie_t :=
  dec_group set_pdi_header (fun value => set_pdi_frmd_ipv6_route_count 0 (set_pdi_framed_route_count 0 (set_pdi_qfi_count 0 (set_pdi_eth_pckt_fltr_count 0 (set_pdi_sdf_filter_count 0 value))))) (fun ie_type here value =>
    if ie_type =? PFCP_IE_SRC_INTFC then into decode_pfcp_src_intfc_ie_t value.(pdi_src_intfc) set_pdi_src_intfc here value
    else if ie_type =? PFCP_IE_FTEID then into decode_pfcp_fteid_ie_t value.(pdi_local_fteid) set_pdi_local_fteid here value
    else if ie_type =? PFCP_IE_NTWK_INST then into decode_pfcp_ntwk_inst_ie_t value.(pdi_ntwk_inst) set_pdi_ntwk_inst here value
    else if ie_type =? PFCP_IE_UE_IP_ADDRESS then into decode_pfcp_ue_ip_address_ie_t value.(pdi_ue_ip_address) set_pdi_ue_ip_address here value
    else if ie_type =? PFCP_IE_TRAFFIC_ENDPT_ID then into decode_pfcp_traffic_endpt_id_ie_t value.(pdi_traffic_endpt_id) set_pdi_traffic_endpt_id here value
    else if ie_type =? PFCP_IE_APPLICATION_ID then into decode_pfcp_application_id_ie_t value.(pdi_application_id) set_pdi_application_id here value
    else if ie_type =? PFCP_IE_ETH_PDU_SESS_INFO then into decode_pfcp_eth_pdu_sess_info_ie_t value.(pdi_eth_pdu_sess_info) set_pdi_eth_pdu_sess_info here value
    else if ie_type =? PFCP_IE_FRAMED_ROUTING then into decode_pfcp_framed_routing_ie_t value.(pdi_framed_routing) set_pdi_framed_routing here value
    else if ie_type =? PFCP_IE_SDF_FILTER then into_next 8 decode_pfcp_sdf_filter_ie_t value.(pdi_sdf_filter) value.(pdi_sdf_filter_count) set_pdi_sdf_filter set_pdi_sdf_filter_count here value
    else if ie_type =? PFCP_IE_ETH_PCKT_FLTR then into_next 8 decode_pfcp_eth_pckt_fltr_ie_t value.(pdi_eth_pckt_fltr) value.(pdi_eth_pckt_fltr_count) set_pdi_eth_pckt_fltr set_pdi_eth_pckt_fltr_count here value
    else if ie_type =? PFCP_IE_QFI then into_next 8 decode_pfcp_qfi_ie_t value.(pdi_qfi) value.(pdi_qfi_count) set_pdi_qfi set_pdi_qfi_count here value
    else if ie_type =? PFCP_IE_FRAMED_ROUTE then into_next 8 decode_pfcp_framed_route_ie_t value.(pdi_framed_route) value.(pdi_framed_route_count) set_pdi_framed_route set_pdi_framed_route_count here value
    else if ie_type =? PFCP_IE_FRMD_IPV6_RTE then into_next 8 decode_pfcp_frmd_ipv6_route_ie_t value.(pdi_frmd_ipv6_rte) value.(pdi_frmd_ipv6_route_count) set_pdi_frmd_ipv6_rte set_pdi_frmd_ipv6_route_count here value
    else skip_ie here value).

Definition decode_pfcp_update_pdr_ie_t : pfcp_update_pdr_ie_t -> ie_decoder pfcp_update_pdr_ie_t :=
  dec_group set_update_pdr_header (fun value => set_update_pdr_deact_predef_rules_count 0 (set_update_pdr_actvt_predef_rules_count 0 value)) (fun ie_type here value =>
    if ie_type =? PFCP_IE_PDR_ID then into decode_pfcp_pdr_id_ie_t value.(update_pdr_pdr_id) set_update_pdr_pdr_id here value
    else if ie_type =? PFCP_IE_OUTER_HDR_REMOVAL then into decode_pfcp_outer_hdr_removal_ie_t value.(update_pdr_outer_hdr_removal) set_update_pdr_outer_hdr_removal here value
    else if ie_type =? PFCP_IE_PRECEDENCE then into decode_pfcp_precedence_ie_t value.(update_pdr_precedence) set_update_pdr_precedence here value
    else if ie_type =? PFCP_IE_PDI then into decode_pfcp_pdi_ie_t value.(update_pdr_pdi) set_update_pdr_pdi here value
    else if ie_type =? PFCP_IE_FAR_ID then into decode_pfcp_far_id_ie_t value.(update_pdr_far_id) set_update_pdr_far_id here value
    else if ie_type =? PFCP_IE_URR_ID then into decode_pfcp_urr_id_ie_t value.(update_pdr_urr_id) set_update_pdr_urr_id here value
    else if ie_type =? PFCP_IE_QER_ID then into decode_pfcp_qer_id_ie_t value.(update_pdr_qer_id) set_update_pdr_qer_id here value
    else if ie_type =? PFCP_IE_ACTVT_PREDEF_RULES then into_next 8 decode_pfcp_actvt_predef_rules_ie_t value.(update_pdr_actvt_predef_rules) value.(update_pdr_actvt_predef_rules_count) set_update_pdr_actvt_predef_rules set_update_pdr_actvt_predef_rules_count here value
    else if ie_type =? PFCP_IE_DEACT_PREDEF_RULES then into_next 8 decode_pfcp_deact_predef_rules_ie_t value.(update_pdr_deact_predef_rules) value.(update_pdr_deact_predef_rules_count) set_update_pdr_deact_predef_rules set_update_pdr_deact_predef_rules_count here value
    else skip_ie here value).

Definition decode_pfcp_create_bar_ie_t : pfcp_create_bar_ie_t -> ie_decoder pfcp_create_bar_ie_t :=
  dec_group set_create_bar_header id (fun ie_type here value =>
    if ie_type =? PFCP_IE_BAR_ID then into decode_pfcp_bar_id_ie_t value.(create_bar_bar_id) set_create_bar_bar_id here value
    else if ie_type =? PFCP_IE_DNLNK_DATA_NOTIF_DELAY then into decode_pfcp_dnlnk_data_notif_delay_ie_t value.(create_bar_dnlnk_data_notif_delay) set_create_bar_dnlnk_data_notif_delay here value
    else if ie_type =? PFCP_IE_DL_BUF_SUGGSTD_PCKT_CNT then into decode_pfcp_suggstd_buf_pckts_cnt_ie_t value.(create_bar_suggstd_buf_pckts_cnt) set_create_bar_suggstd_buf_pckts_cnt here value
    else skip_ie here value).

Definition decode_pfcp_sess_del_req_t : pfcp_sess_del_req_t -> ie_decoder pfcp_sess_del_req_t :=
  dec_message set_sess_del_req_header id (fun ie_type here value =>
    skip_ie here value).

Definition decode_pfcp_assn_upd_req_t : pfcp_assn_upd_req_t -> ie_decoder pfcp_assn_upd_req_t :=
  dec_message set_assn_upd_req_header (fun value => set_assn_upd_req_user_plane_ip_rsrc_info_count 0 value) (fun ie_type here value =>
    if ie_type =? PFCP_IE_NODE_ID then into decode_pfcp_node_id_ie_t value.(assn_upd_req_node_id) set_assn_upd_req_node_id here value
    else if ie_type =? PFCP_IE_UP_FUNC_FEAT then into decode_pfcp_up_func_feat_ie_t value.(assn_upd_req_up_func_feat) set_assn_upd_req_up_func_feat here value
    else if ie_type =? PFCP_IE_CP_FUNC_FEAT then into decode_pfcp_cp_func_feat_ie_t value.(assn_upd_req_cp_func_feat) set_assn_upd_req_cp_func_feat here value
    else if ie_type =? PFCP_IE_UP_ASSN_REL_REQ then into decode_pfcp_up_assn_rel_req_ie_t value.(assn_upd_req_up_assn_rel_req) set_assn_upd_req_up_assn_rel_req here value
    else if ie_type =? PFCP_IE_GRACEFUL_REL_PERIOD then into decode_pfcp_graceful_rel_period_ie_t value.(assn_upd_req_graceful_rel_period) set_assn_upd_req_graceful_rel_period here value
    else if ie_type =? PFCP_IE_USER_PLANE_IP_RSRC_INFO then into_next 8 decode_pfcp_user_plane_ip_rsrc_info_ie_t value.(assn_upd_req_user_plane_ip_rsrc_info) value.(assn_upd_req_user_plane_ip_rsrc_info_count) set_assn_upd_req_user_plane_ip_rsrc_info set_assn_upd_req_user_plane_ip_rsrc_info_count here value
    else skip_ie here value).

Definition decode_pfcp_err_indctn_rpt_ie_t : pfcp_err_indctn_rpt_ie_t -> ie_decoder pfcp_err_indctn_rpt_ie_t :=
  dec_group_nolen set_err_indctn_rpt_header (fun value => set_err_indctn_rpt_remote_fteid_count 0 value) (fun ie_type here value =>
    if ie_type =? PFCP_IE_FTEID then into_next 8 decode_pfcp_fteid_ie_t value.(err_indctn_rpt_remote_fteid) value.(err_indctn_rpt_remote_fteid_count) set_err_indctn_rpt_remote_fteid set_err_indctn_rpt_remote_fteid_count here value
    else skip_ie here value).

Definition decode_pfcp_eth_traffic_info_ie_t : pfcp_eth_traffic_info_ie_t -> ie_decoder pfcp_eth_traffic_info_ie_t :=
  dec_group_nolen set_eth_traffic_info_header id (fun ie_type here value =>
    if ie_type =? PFCP_IE_MAC_ADDRS_DETCTD then into decode_pfcp_mac_addrs_detctd_ie_t value.(eth_traffic_info_mac_addrs_detctd) set_eth_traffic_info_mac_addrs_detctd here value
    else if ie_type =? PFCP_IE_MAC_ADDRS_RMVD then into decode_pfcp_mac_addrs_rmvd_ie_t value.(eth_traffic_info_mac_addrs_rmvd) set_eth_traffic_info_mac_addrs_rmvd here value
    else skip_ie here value).

Definition decode_pfcp_usage_rpt_sess_mod_rsp_ie_t : pfcp_usage_rpt_sess_mod_rsp_ie_t -> ie_decoder pfcp_usage_rpt_sess_mod_rsp_ie_t :=
  dec_group_nolen set_usage_rpt_sess_mod_rsp_header id (fun ie_type here value =>
    if ie_type =? PFCP_IE_URR_ID then into decode_pfcp_urr_id_ie_t value.(usage_rpt_sess_mod_rsp_urr_id) set_usage_rpt_sess_mod_rsp_urr_id here value
    else if ie_type =? PFCP_IE_URSEQN then into decode_pfcp_urseqn_ie_t value.(usage_rpt_sess_mod_rsp_urseqn) set_usage_rpt_sess_mod_rsp_urseqn here value
    else if ie_type =? PFCP_IE_USAGE_RPT_TRIG then into decode_pfcp_usage_rpt_trig_ie_t value.(usage_rpt_sess_mod_rsp_usage_rpt_trig) set_usage_rpt_sess_mod_rsp_usage_rpt_trig here value
    else if ie_type =? PFCP_IE_START_TIME then into decode_pfcp_start_time_ie_t value.(usage_rpt_sess_mod_rsp_start_time) set_usage_rpt_sess_mod_rsp_start_time here value
    else if ie_type =? PFCP_IE_END_TIME then into decode_pfcp_end_time_ie_t value.(usage_rpt_sess_mod_rsp_end_time) set_usage_rpt_sess_mod_rsp_end_time here value
    else if ie_type =? PFCP_IE_VOL_MEAS then into decode_pfcp_vol_meas_ie_t value.(usage_rpt_sess_mod_rsp_vol_meas) set_usage_rpt_sess_mod_rsp_vol_meas here value
    else if ie_type =? PFCP_IE_DUR_MEAS then into decode_pfcp_dur_meas_ie_t value.(usage_rpt_sess_mod_rsp_dur_meas) set_usage_rpt_sess_mod_rsp_dur_meas here value
    else if ie_type =? PFCP_IE_TIME_OF_FRST_PCKT then into decode_pfcp_time_of_frst_pckt_ie_t value.(usage_rpt_sess_mod_rsp_time_of_frst_pckt) set_usage_rpt_sess_mod_rsp_time_of_frst_pckt here value
    else if ie_type =? PFCP_IE_TIME_OF_LST_PCKT then into decode_pfcp_time_of_lst_pckt_ie_t value.(usage_rpt_sess_mod_rsp_time_of_lst_pckt) set_usage_rpt_sess_mod_rsp_time_of_lst_pckt here value
    else if ie_type =? PFCP_IE_USAGE_INFO then into decode_pfcp_usage_info_ie_t value.(usage_rpt_sess_mod_rsp_usage_info) set_usage_rpt_sess_mod_rsp_usage_info here value
    else if ie_type =? PFCP_IE_QUERY_URR_REF then into decode_pfcp_query_urr_ref_ie_t value.(usage_rpt_sess_mod_rsp_query_urr_ref) set_usage_rpt_sess_mod_rsp_query_urr_ref here value
    else if ie_type =? PFCP_IE_ETH_TRAFFIC_INFO then into decode_pfcp_eth_traffic_info_ie_t value.(usage_rpt_sess_mod_rsp_eth_traffic_info) set_usage_rpt_sess_mod_rsp_eth_traffic_info here value
    else skip_ie here value).

Definition decode_pfcp_usage_rpt_sess_del_rsp_ie_t : pfcp_usage_rpt_sess_del_rsp_ie_t -> ie_decoder pfcp_usage_rpt_sess_del_rsp_ie_t :=
  dec_group_nolen set_usage_rpt_sess_del_rsp_header id (fun ie_type here value =>
    if ie_type =? PFCP_IE_URR_ID then into decode_pfcp_urr_id_ie_t value.(usage_rpt_sess_del_rsp_urr_id) set_usage_rpt_sess_del_rsp_urr_id here value
    else if ie_type =? PFCP_IE_URSEQN then into decode_pfcp_urseqn_ie_t value.(usage_rpt_sess_del_rsp_urseqn) set_usage_rpt_sess_del_rsp_urseqn here value
    else if ie_type =? PFCP_IE_USAGE_RPT_TRIG then into decode_pfcp_usage_rpt_trig_ie_t value.(usage_rpt_sess_del_rsp_usage_rpt_trig) set_usage_rpt_sess_del_rsp_usage_rpt_trig here value
    else if ie_type =? PFCP_IE_START_TIME then into decode_pfcp_start_time_ie_t value.(usage_rpt_sess_del_rsp_start_time) set_usage_rpt_sess_del_rsp_start_time here value
    else if ie_type =? PFCP_IE_END_TIME then into decode_pfcp_end_time_ie_t value.(usage_rpt_sess_del_rsp_end_time) set_usage_rpt_sess_del_rsp_end_time here value
    else if ie_type =? PFCP_IE_VOL_MEAS then into decode_pfcp_vol_meas_ie_t value.(usage_rpt_sess_del_rsp_vol_meas) set_usage_rpt_sess_del_rsp_vol_meas here value
    else if ie_type =? PFCP_IE_DUR_MEAS then into decode_pfcp_dur_meas_ie_t value.(usage_rpt_sess_del_rsp_dur_meas) set_usage_rpt_sess_del_rsp_dur_meas here value
    else if ie_type =? PFCP_IE_TIME_OF_FRST_PCKT then into decode_pfcp_time_of_frst_pckt_ie_t value.(usage_rpt_sess_del_rsp_time_of_frst_pckt) set_usage_rpt_sess_del_rsp_time_of_frst_pckt here value
    else if ie_type =? PFCP_IE_TIME_OF_LST_PCKT then into decode_pfcp_time_of_lst_pckt_ie_t value.(usage_rpt_sess_del_rsp_time_of_lst_pckt) set_usage_rpt_sess_del_rsp_time_of_lst_pckt here value
    else if ie_type =? PFCP_IE_USAGE_INFO then into decode_pfcp_usage_info_ie_t value.(usage_rpt_sess_del_rsp_usage_info) set_usage_rpt_sess_del_rsp_usage_info here value
    else if ie_type =? PFCP_IE_ETH_TRAFFIC_INFO then into decode_pfcp_eth_traffic_info_ie_t value.(usage_rpt_sess_del_rsp_eth_traffic_info) set_usage_rpt_sess_del_rsp_eth_traffic_info here value
    else skip_ie here value).

Definition decode_pfcp_usage_rpt_sess_rpt_req_ie_t : pfcp_usage_rpt_sess_rpt_req_ie_t -> ie_decoder pfcp_usage_rpt_sess_rpt_req_ie_t :=
  dec_group set_usage_rpt_sess_rpt_req_header (fun value => set_usage_rpt_sess_rpt_req_evnt_time_stmp_count 0 value) (fun ie_type here value =>
    if ie_type =? PFCP_IE_URR_ID then into decode_pfcp_urr_id_ie_t value.(usage_rpt_sess_rpt_req_urr_id) set_usage_rpt_sess_rpt_req_urr_id here value
    else if ie_type =? PFCP_IE_URSEQN then into decode_pfcp_urseqn_ie_t value.(usage_rpt_sess_rpt_req_urseqn) set_usage_rpt_sess_rpt_req_urseqn here value
    else if ie_type =? PFCP_IE_USAGE_RPT_TRIG then into decode_pfcp_usage_rpt_trig_ie_t value.(usage_rpt_sess_rpt_req_usage_rpt_trig) set_usage_rpt_sess_rpt_req_usage_rpt_trig here value
    else if ie_type =? PFCP_IE_START_TIME then into decode_pfcp_start_time_ie_t value.(usage_rpt_sess_rpt_req_start_time) set_usage_rpt_sess_rpt_req_start_time here value
    else if ie_type =? PFCP_IE_END_TIME then into decode_pfcp_end_time_ie_t value.(usage_rpt_sess_rpt_req_end_time) set_usage_rpt_sess_rpt_req_end_time here value
    else if ie_type =? PFCP_IE_VOL_MEAS then into decode_pfcp_vol_meas_ie_t value.(usage_rpt_sess_rpt_req_vol_meas) set_usage_rpt_sess_rpt_req_vol_meas here value
    else if ie_type =? PFCP_IE_DUR_MEAS then into decode_pfcp_dur_meas_ie_t value.(usage_rpt_sess_rpt_req_dur_meas) set_usage_rpt_sess_rpt_req_dur_meas here value
    else if ie_type =? PFCP_IE_APP_DET_INFO then into decode_pfcp_app_det_info_ie_t value.(usage_rpt_sess_rpt_req_app_det_info) set_usage_rpt_sess_rpt_req_app_det_info here value
    else if ie_type =? PFCP_IE_UE_IP_ADDRESS then into decode_pfcp_ue_ip_address_ie_t value.(usage_rpt_sess_rpt_req_ue_ip_address) set_usage_rpt_sess_rpt_req_ue_ip_address here value
    else if ie_type =? PFCP_IE_NTWK_INST then into decode_pfcp_ntwk_inst_ie_t value.(usage_rpt_sess_rpt_req_ntwk_inst) set_usage_rpt_sess_rpt_req_ntwk_inst here value
    else if ie_type =? PFCP_IE_TIME_OF_FRST_PCKT then into decode_pfcp_time_of_frst_pckt_ie_t value.(usage_rpt_sess_rpt_req_time_of_frst_pckt) set_usage_rpt_sess_rpt_req_time_of_frst_pckt here value
    else if ie_type =? PFCP_IE_TIME_OF_LST_PCKT then into decode_pfcp_time_of_lst_pckt_ie_t value.(usage_rpt_sess_rpt_req_time_of_lst_pckt) set_usage_rpt_sess_rpt_req_time_of_lst_pckt here value
    else if ie_type =? PFCP_IE_USAGE_INFO then into decode_pfcp_usage_info_ie_t value.(usage_rpt_sess_rpt_req_usage_info) set_usage_rpt_sess_rpt_req_usage_info here value
    else if ie_type =? PFCP_IE_QUERY_URR_REF then into decode_pfcp_query_urr_ref_ie_t value.(usage_rpt_sess_rpt_req_query_urr_ref) set_usage_rpt_sess_rpt_req_query_urr_ref here value
    else if ie_type =? PFCP_IE_ETH_TRAFFIC_INFO then into decode_pfcp_eth_traffic_info_ie_t value.(usage_rpt_sess_rpt_req_eth_traffic_info) set_usage_rpt_sess_rpt_req_eth_traffic_info here value
    else if ie_type =? PFCP_IE_EVNT_TIME_STMP then into_next 8 decode_pfcp_evnt_time_stmp_ie_t value.(usage_rpt_sess_rpt_req_evnt_time_stmp) value.(usage_rpt_sess_rpt_req_evnt_time_stmp_count) set_usage_rpt_sess_rpt_req_evnt_time_stmp set_usage_rpt_sess_rpt_req_evnt_time_stmp_count here value
    else skip_ie here value).

Definition decode_pfcp_sess_rpt_req_t : pfcp_sess_rpt_req_t -> ie_decoder pfcp_sess_rpt_req_t :=
  dec_message set_sess_rpt_req_header (fun value => set_sess_rpt_req_usage_report_count 0 value) (fun ie_type here value =>
    if ie_type =? PFCP_IE_REPORT_TYPE then into decode_pfcp_report_type_ie_t value.(sess_rpt_req_report_type) set_sess_rpt_req_report_type here value
    else if ie_type =? PFCP_IE_DNLNK_DATA_RPT then into decode_pfcp_dnlnk_data_rpt_ie_t value.(sess_rpt_req_dnlnk_data_rpt) set_sess_rpt_req_dnlnk_data_rpt here value
    else if ie_type =? PFCP_IE_ERR_INDCTN_RPT then into decode_pfcp_err_indctn_rpt_ie_t value.(sess_rpt_req_err_indctn_rpt) set_sess_rpt_req_err_indctn_rpt here value
    else if ie_type =? PFCP_IE_LOAD_CTL_INFO then into decode_pfcp_load_ctl_info_ie_t value.(sess_rpt_req_load_ctl_info) set_sess_rpt_req_load_ctl_info here value
    else if ie_type =? PFCP_IE_OVRLD_CTL_INFO then into decode_pfcp_ovrld_ctl_info_ie_t value.(sess_rpt_req_ovrld_ctl_info) set_sess_rpt_req_ovrld_ctl_info here value
    else if ie_type =? PFCP_IE_ADD_USAGE_RPTS_INFO then into decode_pfcp_add_usage_rpts_info_ie_t value.(sess_rpt_req_add_usage_rpts_info) set_sess_rpt_req_add_usage_rpts_info here value
    else if ie_type =? PFCP_IE_USAGE_RPT_SESS_RPT_REQ then into_next 8 decode_pfcp_usage_rpt_sess_rpt_req_ie_t value.(sess_rpt_req_usage_report) value.(sess_rpt_req_usage_report_count) set_sess_rpt_req_usage_report set_sess_rpt_req_usage_report_count here value
    else skip_ie here value).

Definition decode_pfcp_sess_del_rsp_t : pfcp_sess_del_rsp_t -> ie_decoder pfcp_sess_del_rsp_t :=
  dec_message set_sess_del_rsp_header (fun value => set_sess_del_rsp_usage_report_count 0 value) (fun ie_type here value =>
    if ie_type =? PFCP_IE_CAUSE then into decode_pfcp_cause_ie_t value.(sess_del_rsp_cause) set_sess_del_rsp_cause here value
    else if ie_type =? PFCP_IE_OFFENDING_IE then into decode_pfcp_offending_ie_ie_t value.(sess_del_rsp_offending_ie) set_sess_del_rsp_offending_ie here value
    else if ie_type =? PFCP_IE_LOAD_CTL_INFO then into decode_pfcp_load_ctl_info_ie_t value.(sess_del_rsp_load_ctl_info) set_sess_del_rsp_load_ctl_info here value
    else if ie_type =? PFCP_IE_OVRLD_CTL_INFO then into decode_pfcp_ovrld_ctl_info_ie_t value.(sess_del_rsp_ovrld_ctl_info) set_sess_del_rsp_ovrld_ctl_info here value
    else if ie_type =? PFCP_IE_USAGE_RPT_SESS_DEL_RSP then into_next 8 decode_pfcp_usage_rpt_sess_del_rsp_ie_t value.(sess_del_rsp_usage_report) value.(sess_del_rsp_usage_report_count) set_sess_del_rsp_usage_report set_sess_del_rsp_usage_report_count here value
    else skip_ie here value).

Definition decode_pfcp_sess_mod_rsp_t : pfcp_sess_mod_rsp_t -> ie_decoder pfcp_sess_mod_rsp_t :=
  dec_message set_sess_mod_rsp_header (fun value => set_sess_mod_rsp_usage_report_count 0 value) (fun ie_type here value =>
    if ie_type =? PFCP_IE_CAUSE then into decode_pfcp_cause_ie_t value.(sess_mod_rsp_cause) set_sess_mod_rsp_cause here value
    else if ie_type =? PFCP_IE_OFFENDING_IE then into decode_pfcp_offending_ie_ie_t value.(sess_mod_rsp_offending_ie) set_sess_mod_rsp_offending_ie here value
    else if ie_type =? PFCP_IE_CREATED_PDR then into decode_pfcp_created_pdr_ie_t value.(sess_mod_rsp_created_pdr) set_sess_mod_rsp_created_pdr here value
    else if ie_type =? PFCP_IE_LOAD_CTL_INFO then into decode_pfcp_load_ctl_info_ie_t value.(sess_mod_rsp_load_ctl_info) set_sess_mod_rsp_load_ctl_info here value
    else if ie_type =? PFCP_IE_OVRLD_CTL_INFO then into decode_pfcp_ovrld_ctl_info_ie_t value.(sess_mod_rsp_ovrld_ctl_info) set_sess_mod_rsp_ovrld_ctl_info here value
    else if ie_type =? PFCP_IE_FAILED_RULE_ID then into decode_pfcp_failed_rule_id_ie_t value.(sess_mod_rsp_failed_rule_id) set_sess_mod_rsp_failed_rule_id here value
    else if ie_type =? PFCP_IE_ADD_USAGE_RPTS_INFO then into decode_pfcp_add_usage_rpts_info_ie_t value.(sess_mod_rsp_add_usage_rpts_info) set_sess_mod_rsp_add_usage_rpts_info here value
    else if ie_type =? PFCP_IE_CREATED_TRAFFIC_ENDPT then into decode_pfcp_created_traffic_endpt_ie_t value.(sess_mod_rsp_createdupdated_traffic_endpt) set_sess_mod_rsp_createdupdated_traffic_endpt here value
    else if ie_type =? PFCP_IE_USAGE_RPT_SESS_MOD_RSP then into_next 8 decode_pfcp_usage_rpt_sess_mod_rsp_ie_t value.(sess_mod_rsp_usage_report) value.(sess_mod_rsp_usage_report_count) set_sess_mod_rsp_usage_report set_sess_mod_rsp_usage_report_count here value
    else skip_ie here value).

Definition decode_pfcp_app_ids_pfds_ie_t : pfcp_app_ids_pfds_ie_t -> ie_decoder pfcp_app_ids_pfds_ie_t :=
  dec_group set_app_ids_pfds_header (fun value => set_app_ids_pfds_pfd_context_count 0 value) (fun ie_type here value =>
    if ie_type =? PFCP_IE_APPLICATION_ID then into decode_pfcp_application_id_ie_t value.(app_ids_pfds_application_id) set_app_ids_pfds_application_id here value
    else if ie_type =? PFCP_IE_PFD_CONTEXT then into_next 8 decode_pfcp_pfd_context_ie_t value.(app_ids_pfds_pfd_context) value.(app_ids_pfds_pfd_context_count) set_app_ids_pfds_pfd_context set_app_ids_pfds_pfd_context_count here value
    else skip_ie here value).

Definition decode_pfcp_pfd_mgmt_req_t : pfcp_pfd_mgmt_req_t -> ie_decoder pfcp_pfd_mgmt_req_t :=
  dec_message set_pfd_mgmt_req_header (fun value => set_pfd_mgmt_req_app_ids_pfds_count 0 value) (fun ie_type here value =>
    if ie_type =? PFCP_IE_APP_IDS_PFDS then into_next 8 decode_pfcp_app_ids_pfds_ie_t value.(pfd_mgmt_req_app_ids_pfds) value.(pfd_mgmt_req_app_ids_pfds_count) set_pfd_mgmt_req_app_ids_pfds set_pfd_mgmt_req_app_ids_pfds_count here value
    else skip_ie here value).

Definition decode_pfcp_remove_qer_ie_t : pfcp_remove_qer_ie_t -> ie_decoder pfcp_remove_qer_ie_t :=
  dec_group set_remove_qer_header id (fun ie_type here value =>
    if ie_type =? PFCP_IE_QER_ID then into decode_pfcp_qer_id_ie_t value.(remove_qer_qer_id) set_remove_qer_qer_id here value
    else skip_ie here value).

Definition decode_pfcp_create_qer_ie_t : pfcp_create_qer_ie_t -> ie_decoder pfcp_create_qer_ie_t :=
  dec_group set_create_qer_header id (fun ie_type here value =>
    if ie_type =? PFCP_IE_QER_ID then into decode_pfcp_qer_id_ie_t value.(create_qer_qer_id) set_create_qer_qer_id here value
    else if ie_type =? PFCP_IE_QER_CORR_ID then into decode_pfcp_qer_corr_id_ie_t value.(create_qer_qer_corr_id) set_create_qer_qer_corr_id here value
    else if ie_type =? PFCP_IE_GATE_STATUS then into decode_pfcp_gate_status_ie_t value.(create_qer_gate_status) set_create_qer_gate_status here value
    else if ie_type =? PFCP_IE_MBR then into decode_pfcp_mbr_ie_t value.(create_qer_maximum_bitrate) set_create_qer_maximum_bitrate here value
    else if ie_type =? PFCP_IE_GBR then into decode_pfcp_gbr_ie_t value.(create_qer_guaranteed_bitrate) set_create_qer_guaranteed_bitrate here value
    else if ie_type =? PFCP_IE_PACKET_RATE then into decode_pfcp_packet_rate_ie_t value.(create_qer_packet_rate) set_create_qer_packet_rate here value
    else if ie_type =? PFCP_IE_DL_FLOW_LVL_MARKING then into decode_pfcp_dl_flow_lvl_marking_ie_t value.(create_qer_dl_flow_lvl_marking) set_create_qer_dl_flow_lvl_marking here value
    else if ie_type =? PFCP_IE_QFI then into decode_pfcp_qfi_ie_t value.(create_qer_qos_flow_ident) set_create_qer_qos_flow_ident here value
    else if ie_type =? PFCP_IE_RQI then into decode_pfcp_rqi_ie_t value.(create_qer_reflective_qos) set_create_qer_reflective_qos here value
    else if ie_type =? PFCP_IE_PAGING_PLCY_INDCTR then into decode_pfcp_paging_plcy_indctr_ie_t value.(create_qer_paging_plcy_indctr) set_create_qer_paging_plcy_indctr here value
    else if ie_type =? PFCP_IE_AVGNG_WND then into decode_pfcp_avgng_wnd_ie_t value.(create_qer_avgng_wnd) set_create_qer_avgng_wnd here value
    else skip_ie here value).

Definition decode_pfcp_rmv_traffic_endpt_ie_t : pfcp_rmv_traffic_endpt_ie_t -> ie_decoder pfcp_rmv_traffic_endpt_ie_t :=
  dec_group set_rmv_traffic_endpt_header id (fun ie_type here value =>
    if ie_type =? PFCP_IE_TRAFFIC_ENDPT_ID then into decode_pfcp_traffic_endpt_id_ie_t value.(rmv_traffic_endpt_traffic_endpt_id) set_rmv_traffic_endpt_traffic_endpt_id here value
    else skip_ie here value).

Definition decode_pfcp_update_far_ie_t : pfcp_update_far_ie_t -> ie_decoder pfcp_update_far_ie_t :=
  dec_group set_update_far_header (fun value => set_update_far_upd_dupng_parms_count 0 value) (fun ie_type here value =>
    if ie_type =? PFCP_IE_FAR_ID then into decode_pfcp_far_id_ie_t value.(update_far_far_id) set_update_far_far_id here value
    else if ie_type =? PFCP_IE_APPLY_ACTION then into decode_pfcp_apply_action_ie_t value.(update_far_apply_action) set_update_far_apply_action here value
    else if ie_type =? PFCP_IE_UPD_FRWDNG_PARMS then into decode_pfcp_upd_frwdng_parms_ie_t value.(update_far_upd_frwdng_parms) set_update_far_upd_frwdng_parms here value
    else if ie_type =? PFCP_IE_BAR_ID then into decode_pfcp_bar_id_ie_t value.(update_far_bar_id) set_update_far_bar_id here value
    else if ie_type =? PFCP_IE_UPD_DUPNG_PARMS then into_next 8 decode_pfcp_upd_dupng_parms_ie_t value.(update_far_upd_dupng_parms) value.(update_far_upd_dupng_parms_count) set_update_far_upd_dupng_parms set_update_far_upd_dupng_parms_count here value
    else skip_ie here value).

Definition decode_pfcp_user_plane_path_fail_rpt_ie_t : pfcp_user_plane_path_fail_rpt_ie_t -> ie_decoder pfcp_user_plane_path_fail_rpt_ie_t :=
  dec_group_nolen set_user_plane_path_fail_rpt_header (fun value => set_user_plane_path_fail_rpt_rmt_gtpu_peer_count 0 value) (fun ie_type here value =>
    if ie_type =? PFCP_IE_RMT_GTPU_PEER then into_next 8 decode_pfcp_rmt_gtpu_peer_ie_t value.(user_plane_path_fail_rpt_rmt_gtpu_peer) value.(user_plane_path_fail_rpt_rmt_gtpu_peer_count) set_user_plane_path_fail_rpt_rmt_gtpu_peer set_user_plane_path_fail_rpt_rmt_gtpu_peer_count here value
    else skip_ie here value).

Definition decode_pfcp_node_rpt_req_t : pfcp_node_rpt_req_t -> ie_decoder pfcp_node_rpt_req_t :=
  dec_message set_node_rpt_req_header id (fun ie_type here value =>
    if ie_type =? PFCP_IE_NODE_ID then into decode_pfcp_node_id_ie_t value.(node_rpt_req_node_id) set_node_rpt_req_node_id here value
    else if ie_type =? PFCP_IE_NODE_RPT_TYPE then into decode_pfcp_node_rpt_type_ie_t value.(node_rpt_req_node_rpt_type) set_node_rpt_req_node_rpt_type here value
    else if ie_type =? PFCP_IE_USER_PLANE_PATH_FAIL_RPT then into decode_pfcp_user_plane_path_fail_rpt_ie_t value.(node_rpt_req_user_plane_path_fail_rpt) set_node_rpt_req_user_plane_path_fail_rpt here value
    else skip_ie here value).

Definition decode_pfcp_remove_pdr_ie_t : pfcp_remove_pdr_ie_t -> ie_decoder pfcp_remove_pdr_ie_t :=
  dec_group set_remove_pdr_header id (fun ie_type here value =>
    if ie_type =? PFCP_IE_PDR_ID then into decode_pfcp_pdr_id_ie_t value.(remove_pdr_pdr_id) set_remove_pdr_pdr_id here value
    else skip_ie here value).

Definition decode_pfcp_update_qer_ie_t : pfcp_update_qer_ie_t -> ie_decoder pfcp_update_qer_ie_t :=
  dec_group set_update_qer_header id (fun ie_type here value =>
    if ie_type =? PFCP_IE_QER_ID then into decode_pfcp_qer_id_ie_t value.(update_qer_qer_id) set_update_qer_qer_id here value
    else if ie_type =? PFCP_IE_QER_CORR_ID then into decode_pfcp_qer_corr_id_ie_t value.(update_qer_qer_corr_id) set_update_qer_qer_corr_id here value
    else if ie_type =? PFCP_IE_GATE_STATUS then into decode_pfcp_gate_status_ie_t value.(update_qer_gate_status) set_update_qer_gate_status here value
    else if ie_type =? PFCP_IE_MBR then into decode_pfcp_mbr_ie_t value.(update_qer_maximum_bitrate) set_update_qer_maximum_bitrate here value
    else if ie_type =? PFCP_IE_GBR then into decode_pfcp_gbr_ie_t value.(update_qer_guaranteed_bitrate) set_update_qer_guaranteed_bitrate here value
    else if ie_type =? PFCP_IE_PACKET_RATE then into decode_pfcp_packet_rate_ie_t value.(update_qer_packet_rate) set_update_qer_packet_rate here value
    else if ie_type =? PFCP_IE_DL_FLOW_LVL_MARKING then into decode_pfcp_dl_flow_lvl_marking_ie_t value.(update_qer_dl_flow_lvl_marking) set_update_qer_dl_flow_lvl_marking here value
    else if ie_type =? PFCP_IE_QFI then into decode_pfcp_qfi_ie_t value.(update_qer_qos_flow_ident) set_update_qer_qos_flow_ident here value
    else if ie_type =? PFCP_IE_RQI then into decode_pfcp_rqi_ie_t value.(update_qer_reflective_qos) set_update_qer_reflective_qos here value
    else if ie_type =? PFCP_IE_PAGING_PLCY_INDCTR then into decode_pfcp_paging_plcy_indctr_ie_t value.(update_qer_paging_plcy_indctr) set_update_qer_paging_plcy_indctr here value
    else if ie_type =? PFCP_IE_AVGNG_WND then into decode_pfcp_avgng_wnd_ie_t value.(update_qer_avgng_wnd) set_update_qer_avgng_wnd here value
    else skip_ie here value).

Definition decode_pfcp_add_mntrng_time_ie_t : pfcp_add_mntrng_time_ie_t -> ie_decoder pfcp_add_mntrng_time_ie_t :=
  dec_group_nolen set_add_mntrng_time_header id (fun ie_type here value =>
    if ie_type =? PFCP_IE_MONITORING_TIME then into decode_pfcp_monitoring_time_ie_t value.(add_mntrng_time_monitoring_time) set_add_mntrng_time_monitoring_time here value
    else if ie_type =? PFCP_IE_SBSQNT_VOL_THRESH then into decode_pfcp_sbsqnt_vol_thresh_ie_t value.(add_mntrng_time_sbsqnt_vol_thresh) set_add_mntrng_time_sbsqnt_vol_thresh here value
    else if ie_type =? PFCP_IE_SBSQNT_TIME_THRESH then into decode_pfcp_sbsqnt_time_thresh_ie_t value.(add_mntrng_time_sbsqnt_time_thresh) set_add_mntrng_time_sbsqnt_time_thresh here value
    else if ie_type =? PFCP_IE_SBSQNT_VOL_QUOTA then into decode_pfcp_sbsqnt_vol_quota_ie_t value.(add_mntrng_time_sbsqnt_vol_quota) set_add_mntrng_time_sbsqnt_vol_quota here value
    else if ie_type =? PFCP_IE_SBSQNT_TIME_QUOTA then into decode_pfcp_sbsqnt_time_quota_ie_t value.(add_mntrng_time_sbsqnt_time_quota) set_add_mntrng_time_sbsqnt_time_quota here value
    else if ie_type =? PFCP_IE_EVENT_THRESHOLD then into decode_pfcp_event_threshold_ie_t value.(add_mntrng_time_sbsqnt_evnt_thresh) set_add_mntrng_time_sbsqnt_evnt_thresh here value
    else if ie_type =? PFCP_IE_EVENT_QUOTA then into decode_pfcp_event_quota_ie_t value.(add_mntrng_time_sbsqnt_evnt_quota) set_add_mntrng_time_sbsqnt_evnt_quota here value
    else skip_ie here value).

Definition decode_pfcp_sess_estab_rsp_t : pfcp_sess_estab_rsp_t -> ie_decoder pfcp_sess_estab_rsp_t :=
  dec_message set_sess_estab_rsp_header id (fun ie_type here value =>
    if ie_type =? PFCP_IE_NODE_ID then into decode_pfcp_node_id_ie_t value.(sess_estab_rsp_node_id) set_sess_estab_rsp_node_id here value
    else if ie_type =? PFCP_IE_CAUSE then into decode_pfcp_cause_ie_t value.(sess_estab_rsp_cause) set_sess_estab_rsp_cause here value
    else if ie_type =? PFCP_IE_OFFENDING_IE then into decode_pfcp_offending_ie_ie_t value.(sess_estab_rsp_offending_ie) set_sess_estab_rsp_offending_ie here value
    else if ie_type =? PFCP_IE_FSEID then into decode_pfcp_fseid_ie_t value.(sess_estab_rsp_up_fseid) set_sess_estab_rsp_up_fseid here value
    else if ie_type =? PFCP_IE_CREATED_PDR then into decode_pfcp_created_pdr_ie_t value.(sess_estab_rsp_created_pdr) set_sess_estab_rsp_created_pdr here value
    else if ie_type =? PFCP_IE_LOAD_CTL_INFO then into decode_pfcp_load_ctl_info_ie_t value.(sess_estab_rsp_load_ctl_info) set_sess_estab_rsp_load_ctl_info here value
    else if ie_type =? PFCP_IE_OVRLD_CTL_INFO then into decode_pfcp_ovrld_ctl_info_ie_t value.(sess_estab_rsp_ovrld_ctl_info) set_sess_estab_rsp_ovrld_ctl_info here value
    else if ie_type =? PFCP_IE_FQCSID then into decode_pfcp_fqcsid_ie_t value.(sess_estab_rsp_sgw_u_fqcsid) set_sess_estab_rsp_sgw_u_fqcsid here value
    else if ie_type =? PFCP_IE_FQCSID then into decode_pfcp_fqcsid_ie_t value.(sess_estab_rsp_pgw_u_fqcsid) set_sess_estab_rsp_pgw_u_fqcsid here value
    else if ie_type =? PFCP_IE_FAILED_RULE_ID then into decode_pfcp_failed_rule_id_ie_t value.(sess_estab_rsp_failed_rule_id) set_sess_estab_rsp_failed_rule_id here value
    else if ie_type =? PFCP_IE_CREATED_TRAFFIC_ENDPT then into decode_pfcp_created_traffic_endpt_ie_t value.(sess_estab_rsp_created_traffic_endpt) set_sess_estab_rsp_created_traffic_endpt here value
    else skip_ie here value).

Definition decode_pfcp_remove_bar_ie_t : pfcp_remove_bar_ie_t -> ie_decoder pfcp_remove_bar_ie_t :=
  dec_group set_remove_bar_header id (fun ie_type here value =>
    if ie_type =? PFCP_IE_BAR_ID then into decode_pfcp_bar_id_ie_t value.(remove_bar_bar_id) set_remove_bar_bar_id here value
    else skip_ie here value).

Definition decode_pfcp_assn_rel_req_t : pfcp_assn_rel_req_t -> ie_decoder pfcp_assn_rel_req_t :=
  dec_message set_assn_rel_req_header id (fun ie_type here value =>
    if ie_type =? PFCP_IE_NODE_ID then into decode_pfcp_node_id_ie_t value.(assn_rel_req_node_id) set_assn_rel_req_node_id here value
    else skip_ie here value).

Definition decode_pfcp_create_pdr_ie_t : pfcp_create_pdr_ie_t -> ie_decoder pfcp_create_pdr_ie_t :=
  dec_group set_create_pdr_header (fun value => set_create_pdr_actvt_predef_rules_count 0 (set_create_pdr_qer_id_count 0 (set_create_pdr_urr_id_count 0 value))) (fun ie_type here value =>
    if ie_type =? PFCP_IE_PDR_ID then into decode_pfcp_pdr_id_ie_t value.(create_pdr_pdr_id) set_create_pdr_pdr_id here value
    else if ie_type =? PFCP_IE_PRECEDENCE then into decode_pfcp_precedence_ie_t value.(create_pdr_precedence) set_create_pdr_precedence here value
    else if ie_type =? PFCP_IE_PDI then into decode_pfcp_pdi_ie_t value.(create_pdr_pdi) set_create_pdr_pdi here value
    else if ie_type =? PFCP_IE_OUTER_HDR_REMOVAL then into decode_pfcp_outer_hdr_removal_ie_t value.(create_pdr_outer_hdr_removal) set_create_pdr_outer_hdr_removal here value
    else if ie_type =? PFCP_IE_FAR_ID then into decode_pfcp_far_id_ie_t value.(create_pdr_far_id) set_create_pdr_far_id here value
    else if ie_type =? PFCP_IE_URR_ID then into_next 8 decode_pfcp_urr_id_ie_t value.(create_pdr_urr_id) value.(create_pdr_urr_id_count) set_create_pdr_urr_id set_create_pdr_urr_id_count here value
    else if ie_type =? PFCP_IE_QER_ID then into_next 8 decode_pfcp_qer_id_ie_t value.(create_pdr_qer_id) value.(create_pdr_qer_id_count) set_create_pdr_qer_id set_create_pdr_qer_id_count here value
    else if ie_type =? PFCP_IE_ACTVT_PREDEF_RULES then into_next 8 decode_pfcp_actvt_predef_rules_ie_t value.(create_pdr_actvt_predef_rules) value.(create_pdr_actvt_predef_rules_count) set_create_pdr_actvt_predef_rules set_create_pdr_actvt_predef_rules_count here value
    else skip_ie here value).

Definition decode_pfcp_aggregated_urrs_ie_t : pfcp_aggregated_urrs_ie_t -> ie_decoder pfcp_aggregated_urrs_ie_t :=
  dec_group_nolen set_aggregated_urrs_header id (fun ie_type here value =>
    if ie_type =? PFCP_IE_AGG_URR_ID then into decode_pfcp_agg_urr_id_ie_t value.(aggregated_urrs_agg_urr_id) set_aggregated_urrs_agg_urr_id here value
    else if ie_type =? PFCP_IE_MULTIPLIER then into decode_pfcp_multiplier_ie_t value.(aggregated_urrs_multiplier) set_aggregated_urrs_multiplier here value
    else skip_ie here value).

Definition decode_pfcp_create_urr_ie_t : pfcp_create_urr_ie_t -> ie_decoder pfcp_create_urr_ie_t :=
  dec_group_nolen set_create_urr_header (fun value => set_create_urr_add_mntrng_time_count 0 (set_create_urr_aggregated_urrs_count 0 (set_create_urr_linked_urr_id_count 0 value))) (fun ie_type here value =>
    if ie_type =? PFCP_IE_URR_ID then into decode_pfcp_urr_id_ie_t value.(create_urr_urr_id) set_create_urr_urr_id here value
    else if ie_type =? PFCP_IE_MEAS_MTHD then into decode_pfcp_meas_mthd_ie_t value.(create_urr_meas_mthd) set_create_urr_meas_mthd here value
    else if ie_type =? PFCP_IE_RPTNG_TRIGGERS then into decode_pfcp_rptng_triggers_ie_t value.(create_urr_rptng_triggers) set_create_urr_rptng_triggers here value
    else if ie_type =? PFCP_IE_MEAS_PERIOD then into decode_pfcp_meas_period_ie_t value.(create_urr_meas_period) set_create_urr_meas_period here value
    else if ie_type =? PFCP_IE_VOL_THRESH then into decode_pfcp_vol_thresh_ie_t value.(create_urr_vol_thresh) set_create_urr_vol_thresh here value
    else if ie_type =? PFCP_IE_VOLUME_QUOTA then into decode_pfcp_volume_quota_ie_t value.(create_urr_volume_quota) set_create_urr_volume_quota here value
    else if ie_type =? PFCP_IE_EVENT_THRESHOLD then into decode_pfcp_event_threshold_ie_t value.(create_urr_event_threshold) set_create_urr_event_threshold here value
    else if ie_type =? PFCP_IE_EVENT_QUOTA then into decode_pfcp_event_quota_ie_t value.(create_urr_event_quota) set_create_urr_event_quota here value
    else if ie_type =? PFCP_IE_TIME_THRESHOLD then into decode_pfcp_time_threshold_ie_t value.(create_urr_time_threshold) set_create_urr_time_threshold here value
    else if ie_type =? PFCP_IE_TIME_QUOTA then into decode_pfcp_time_quota_ie_t value.(create_urr_time_quota) set_create_urr_time_quota here value
    else if ie_type =? PFCP_IE_QUOTA_HLDNG_TIME then into decode_pfcp_quota_hldng_time_ie_t value.(create_urr_quota_hldng_time) set_create_urr_quota_hldng_time here value
    else if ie_type =? PFCP_IE_DRPD_DL_TRAFFIC_THRESH then into decode_pfcp_drpd_dl_traffic_thresh_ie_t value.(create_urr_drpd_dl_traffic_thresh) set_create_urr_drpd_dl_traffic_thresh here value
    else if ie_type =? PFCP_IE_MONITORING_TIME then into decode_pfcp_monitoring_time_ie_t value.(create_urr_monitoring_time) set_create_urr_monitoring_time here value
    else if ie_type =? PFCP_IE_SBSQNT_VOL_THRESH then into decode_pfcp_sbsqnt_vol_thresh_ie_t value.(create_urr_sbsqnt_vol_thresh) set_create_urr_sbsqnt_vol_thresh here value
    else if ie_type =? PFCP_IE_SBSQNT_TIME_THRESH then into decode_pfcp_sbsqnt_time_thresh_ie_t value.(create_urr_sbsqnt_time_thresh) set_create_urr_sbsqnt_time_thresh here value
    else if ie_type =? PFCP_IE_SBSQNT_VOL_QUOTA then into decode_pfcp_sbsqnt_vol_quota_ie_t value.(create_urr_sbsqnt_vol_quota) set_create_urr_sbsqnt_vol_quota here value
    else if ie_type =? PFCP_IE_SBSQNT_TIME_QUOTA then into decode_pfcp_sbsqnt_time_quota_ie_t value.(create_urr_sbsqnt_time_quota) set_create_urr_sbsqnt_time_quota here value
    else if ie_type =? PFCP_IE_SBSQNT_EVNT_THRESH then into decode_pfcp_sbsqnt_evnt_thresh_ie_t value.(create_urr_sbsqnt_evnt_thresh) set_create_urr_sbsqnt_evnt_thresh here value
    else if ie_type =? PFCP_IE_SBSQNT_EVNT_QUOTA then into decode_pfcp_sbsqnt_evnt_quota_ie_t value.(create_urr_sbsqnt_evnt_quota) set_create_urr_sbsqnt_evnt_quota here value
    else if ie_type =? PFCP_IE_INACT_DET_TIME then into decode_pfcp_inact_det_time_ie_t value.(create_urr_inact_det_time) set_create_urr_inact_det_time here value
    else if ie_type =? PFCP_IE_MEAS_INFO then into decode_pfcp_meas_info_ie_t value.(create_urr_meas_info) set_create_urr_meas_info here value
    else if ie_type =? PFCP_IE_TIME_QUOTA_MECH then into decode_pfcp_time_quota_mech_ie_t value.(create_urr_time_quota_mech) set_create_urr_time_quota_mech here value
    else if ie_type =? PFCP_IE_FAR_ID then into decode_pfcp_far_id_ie_t value.(create_urr_far_id_for_quota_act) set_create_urr_far_id_for_quota_act here value
    else if ie_type =? PFCP_IE_ETH_INACT_TIMER then into decode_pfcp_eth_inact_timer_ie_t value.(create_urr_eth_inact_timer) set_create_urr_eth_inact_timer here value
    else if ie_type =? PFCP_IE_LINKED_URR_ID then into_next 8 decode_pfcp_linked_urr_id_ie_t value.(create_urr_linked_urr_id) value.(create_urr_linked_urr_id_count) set_create_urr_linked_urr_id set_create_urr_linked_urr_id_count here value
    else if ie_type =? PFCP_IE_AGGREGATED_URRS then into_next 8 decode_pfcp_aggregated_urrs_ie_t value.(create_urr_aggregated_urrs) value.(create_urr_aggregated_urrs_count) set_create_urr_aggregated_urrs set_create_urr_aggregated_urrs_count here value
    else if ie_type =? PFCP_IE_ADD_MNTRNG_TIME then into_next 8 decode_pfcp_add_mntrng_time_ie_t value.(create_urr_add_mntrng_time) value.(create_urr_add_mntrng_time_count) set_create_urr_add_mntrng_time set_create_urr_add_mntrng_time_count here value
    else skip_ie here value).

Definition decode_pfcp_sess_estab_req_t : pfcp_sess_estab_req_t -> ie_decoder pfcp_sess_estab_req_t :=
  dec_message set_sess_estab_req_header (fun value => set_sess_estab_req_create_traffic_endpt_count 0 (set_sess_estab_req_create_qer_count 0 (set_sess_estab_req_create_urr_count 0 (set_sess_estab_req_create_far_count 0 (set_sess_estab_req_create_pdr_count 0 value))))) (fun ie_type here value =>
    if ie_type =? PFCP_IE_NODE_ID then into decode_pfcp_node_id_ie_t value.(sess_estab_req_node_id) set_sess_estab_req_node_id here value
    else if ie_type =? PFCP_IE_FSEID then into decode_pfcp_fseid_ie_t value.(sess_estab_req_cp_fseid) set_sess_estab_req_cp_fseid here value
    else if ie_type =? PFCP_IE_CREATE_BAR then into decode_pfcp_create_bar_ie_t value.(sess_estab_req_create_bar) set_sess_estab_req_create_bar here value
    else if ie_type =? PFCP_IE_PDN_TYPE then into decode_pfcp_pdn_type_ie_t value.(sess_estab_req_pdn_type) set_sess_estab_req_pdn_type here value
    else if ie_type =? PFCP_IE_FQCSID then into decode_pfcp_fqcsid_ie_t value.(sess_estab_req_sgw_c_fqcsid) set_sess_estab_req_sgw_c_fqcsid here value
    else if ie_type =? PFCP_IE_FQCSID then into decode_pfcp_fqcsid_ie_t value.(sess_estab_req_mme_fqcsid) set_sess_estab_req_mme_fqcsid here value
    else if ie_type =? PFCP_IE_FQCSID then into decode_pfcp_fqcsid_ie_t value.(sess_estab_req_pgw_c_fqcsid) set_sess_estab_req_pgw_c_fqcsid here value
    else if ie_type =? PFCP_IE_FQCSID then into decode_pfcp_fqcsid_ie_t value.(sess_estab_req_epdg_fqcsid) set_sess_estab_req_epdg_fqcsid here value
    else if ie_type =? PFCP_IE_FQCSID then into decode_pfcp_fqcsid_ie_t value.(sess_estab_req_twan_fqcsid) set_sess_estab_req_twan_fqcsid here value
    else if ie_type =? PFCP_IE_USER_PLANE_INACT_TIMER then into decode_pfcp_user_plane_inact_timer_ie_t value.(sess_estab_req_user_plane_inact_timer) set_sess_estab_req_user_plane_inact_timer here value
    else if ie_type =? PFCP_IE_USER_ID then into decode_pfcp_user_id_ie_t value.(sess_estab_req_user_id) set_sess_estab_req_user_id here value
    else if ie_type =? PFCP_IE_TRC_INFO then into decode_pfcp_trc_info_ie_t value.(sess_estab_req_trc_info) set_sess_estab_req_trc_info here value
    else if ie_type =? PFCP_IE_CREATE_PDR then into_next 8 decode_pfcp_create_pdr_ie_t value.(sess_estab_req_create_pdr) value.(sess_estab_req_create_pdr_count) set_sess_estab_req_create_pdr set_sess_estab_req_create_pdr_count here value
    else if ie_type =? PFCP_IE_CREATE_FAR then into_next 8 decode_pfcp_create_far_ie_t value.(sess_estab_req_create_far) value.(sess_estab_req_create_far_count) set_sess_estab_req_create_far set_sess_estab_req_create_far_count here value
    else if ie_type =? PFCP_IE_CREATE_URR then into_next 8 decode_pfcp_create_urr_ie_t value.(sess_estab_req_create_urr) value.(sess_estab_req_create_urr_count) set_sess_estab_req_create_urr set_sess_estab_req_create_urr_count here value
    else if ie_type =? PFCP_IE_CREATE_QER then into_next 8 decode_pfcp_create_qer_ie_t value.(sess_estab_req_create_qer) value.(sess_estab_req_create_qer_count) set_sess_estab_req_create_qer set_sess_estab_req_create_qer_count here value
    else if ie_type =? PFCP_IE_CREATE_TRAFFIC_ENDPT then into_next 8 decode_pfcp_create_traffic_endpt_ie_t value.(sess_estab_req_create_traffic_endpt) value.(sess_estab_req_create_traffic_endpt_count) set_sess_estab_req_create_traffic_endpt set_sess_estab_req_create_traffic_endpt_count here value
    else skip_ie here value).

Definition decode_pfcp_update_urr_ie_t : pfcp_update_urr_ie_t -> ie_decoder pfcp_update_urr_ie_t :=
  dec_group_nolen set_update_urr_header (fun value => set_update_urr_aggregated_urrs_count 0 (set_update_urr_linked_urr_id_count 0 value)) (fun ie_type here value =>
    if ie_type =? PFCP_IE_URR_ID then into decode_pfcp_urr_id_ie_t value.(update_urr_urr_id) set_update_urr_urr_id here value
    else if ie_type =? PFCP_IE_MEAS_MTHD then into decode_pfcp_meas_mthd_ie_t value.(update_urr_meas_mthd) set_update_urr_meas_mthd here value
    else if ie_type =? PFCP_IE_RPTNG_TRIGGERS then into decode_pfcp_rptng_triggers_ie_t value.(update_urr_rptng_triggers) set_update_urr_rptng_triggers here value
    else if ie_type =? PFCP_IE_MEAS_PERIOD then into decode_pfcp_meas_period_ie_t value.(update_urr_meas_period) set_update_urr_meas_period here value
    else if ie_type =? PFCP_IE_VOL_THRESH then into decode_pfcp_vol_thresh_ie_t value.(update_urr_vol_thresh) set_update_urr_vol_thresh here value
    else if ie_type =? PFCP_IE_VOLUME_QUOTA then into decode_pfcp_volume_quota_ie_t value.(update_urr_volume_quota) set_update_urr_volume_quota here value
    else if ie_type =? PFCP_IE_TIME_THRESHOLD then into decode_pfcp_time_threshold_ie_t value.(update_urr_time_threshold) set_update_urr_time_threshold here value
    else if ie_type =? PFCP_IE_TIME_QUOTA then into decode_pfcp_time_quota_ie_t value.(update_urr_time_quota) set_update_urr_time_quota here value
    else if ie_type =? PFCP_IE_EVENT_THRESHOLD then into decode_pfcp_event_threshold_ie_t value.(update_urr_event_threshold) set_update_urr_event_threshold here value
    else if ie_type =? PFCP_IE_EVENT_QUOTA then into decode_pfcp_event_quota_ie_t value.(update_urr_event_quota) set_update_urr_event_quota here value
    else if ie_type =? PFCP_IE_QUOTA_HLDNG_TIME then into decode_pfcp_quota_hldng_time_ie_t value.(update_urr_quota_hldng_time) set_update_urr_quota_hldng_time here value
    else if ie_type =? PFCP_IE_DRPD_DL_TRAFFIC_THRESH then into decode_pfcp_drpd_dl_traffic_thresh_ie_t value.(update_urr_drpd_dl_traffic_thresh) set_update_urr_drpd_dl_traffic_thresh here value
    else if ie_type =? PFCP_IE_MONITORING_TIME then into decode_pfcp_monitoring_time_ie_t value.(update_urr_monitoring_time) set_update_urr_monitoring_time here value
    else if ie_type =? PFCP_IE_SBSQNT_VOL_THRESH then into decode_pfcp_sbsqnt_vol_thresh_ie_t value.(update_urr_sbsqnt_vol_thresh) set_update_urr_sbsqnt_vol_thresh here value
    else if ie_type =? PFCP_IE_SBSQNT_TIME_THRESH then into decode_pfcp_sbsqnt_time_thresh_ie_t value.(update_urr_sbsqnt_time_thresh) set_update_urr_sbsqnt_time_thresh here value
    else if ie_type =? PFCP_IE_SBSQNT_VOL_QUOTA then into decode_pfcp_sbsqnt_vol_quota_ie_t value.(update_urr_sbsqnt_vol_quota) set_update_urr_sbsqnt_vol_quota here value
    else if ie_type =? PFCP_IE_SBSQNT_TIME_QUOTA then into decode_pfcp_sbsqnt_time_quota_ie_t value.(update_urr_sbsqnt_time_quota) set_update_urr_sbsqnt_time_quota here value
    else if ie_type =? PFCP_IE_SBSQNT_EVNT_THRESH then into decode_pfcp_sbsqnt_evnt_thresh_ie_t value.(update_urr_sbsqnt_evnt_thresh) set_update_urr_sbsqnt_evnt_thresh here value
    else if ie_type =? PFCP_IE_SBSQNT_EVNT_QUOTA then into decode_pfcp_sbsqnt_evnt_quota_ie_t value.(update_urr_sbsqnt_evnt_quota) set_update_urr_sbsqnt_evnt_quota here value
    else if ie_type =? PFCP_IE_INACT_DET_TIME then into decode_pfcp_inact_det_time_ie_t value.(update_urr_inact_det_time) set_update_urr_inact_det_time here value
    else if ie_type =? PFCP_IE_MEAS_INFO then into decode_pfcp_meas_info_ie_t value.(update_urr_meas_info) set_update_urr_meas_info here value
    else if ie_type =? PFCP_IE_TIME_QUOTA_MECH then into decode_pfcp_time_quota_mech_ie_t value.(update_urr_time_quota_mech) set_update_urr_time_quota_mech here value
    else if ie_type =? PFCP_IE_FAR_ID then into decode_pfcp_far_id_ie_t value.(update_urr_far_id_for_quota_act) set_update_urr_far_id_for_quota_act here value
    else if ie_type =? PFCP_IE_ETH_INACT_TIMER then into decode_pfcp_eth_inact_timer_ie_t value.(update_urr_eth_inact_timer) set_update_urr_eth_inact_timer here value
    else if ie_type =? PFCP_IE_ADD_MNTRNG_TIME then into decode_pfcp_add_mntrng_time_ie_t value.(update_urr_add_mntrng_time) set_update_urr_add_mntrng_time here value
    else if ie_type =? PFCP_IE_LINKED_URR_ID then into_next 8 decode_pfcp_linked_urr_id_ie_t value.(update_urr_linked_urr_id) value.(update_urr_linked_urr_id_count) set_update_urr_linked_urr_id set_update_urr_linked_urr_id_count here value
    else if ie_type =? PFCP_IE_AGGREGATED_URRS then into_next 8 decode_pfcp_aggregated_urrs_ie_t value.(update_urr_aggregated_urrs) value.(update_urr_aggregated_urrs_count) set_update_urr_aggregated_urrs set_update_urr_aggregated_urrs_count here value
    else skip_ie here value).

Definition decode_pfcp_upd_bar_sess_mod_req_ie_t : pfcp_upd_bar_sess_mod_req_ie_t -> ie_decoder pfcp_upd_bar_sess_mod_req_ie_t :=
  dec_group set_upd_bar_sess_mod_req_header id (fun ie_type here value =>
    if ie_type =? PFCP_IE_BAR_ID then into decode_pfcp_bar_id_ie_t value.(upd_bar_sess_mod_req_bar_id) set_upd_bar_sess_mod_req_bar_id here value
    else if ie_type =? PFCP_IE_DNLNK_DATA_NOTIF_DELAY then into decode_pfcp_dnlnk_data_notif_delay_ie_t value.(upd_bar_sess_mod_req_dnlnk_data_notif_delay) set_upd_bar_sess_mod_req_dnlnk_data_notif_delay here value
    else if ie_type =? PFCP_IE_SUGGSTD_BUF_PCKTS_CNT then into decode_pfcp_suggstd_buf_pckts_cnt_ie_t value.(upd_bar_sess_mod_req_suggstd_buf_pckts_cnt) set_upd_bar_sess_mod_req_suggstd_buf_pckts_cnt here value
    else skip_ie here value).

Definition decode_pfcp_sess_mod_req_t : pfcp_sess_mod_req_t -> ie_decoder pfcp_sess_mod_req_t :=
  dec_message set_sess_mod_req_header (fun value => let flags := value.(sess_mod_req_pfcpsmreq_flags) in
    set_sess_mod_req_pfcpsmreq_flags (mk_pfcpsmreq_flags flags.(pfcpsmreq_flags_header) flags.(pfcpsmreq_flags_pfcpsmreq_flgs_spare) flags.(pfcpsmreq_flags_pfcpsmreq_flgs_spare2) flags.(pfcpsmreq_flags_pfcpsmreq_flgs_spare3) flags.(pfcpsmreq_flags_pfcpsmreq_flgs_spare4) flags.(pfcpsmreq_flags_pfcpsmreq_flgs_spare5) 0 0 0)
    (set_sess_mod_req_query_urr_count 0 (set_sess_mod_req_update_qer_count 0 (set_sess_mod_req_update_urr_count 0 (set_sess_mod_req_update_far_count 0 (set_sess_mod_req_update_pdr_count 0 (set_sess_mod_req_create_qer_count 0 (set_sess_mod_req_create_urr_count 0 (set_sess_mod_req_create_far_count 0 (set_sess_mod_req_create_pdr_count 0 (set_sess_mod_req_remove_qer_count 0 (set_sess_mod_req_remove_urr_count 0 (set_sess_mod_req_remove_far_count 0 (set_sess_mod_req_remove_pdr_count 0 value)))))))))))))) (fun ie_type here value =>
    if ie_type =? PFCP_IE_FSEID then into decode_pfcp_fseid_ie_t value.(sess_mod_req_cp_fseid) set_sess_mod_req_cp_fseid here value
    else if ie_type =? PFCP_IE_REMOVE_BAR then into decode_pfcp_remove_bar_ie_t value.(sess_mod_req_remove_bar) set_sess_mod_req_remove_bar here value
    else if ie_type =? PFCP_IE_RMV_TRAFFIC_ENDPT then into decode_pfcp_rmv_traffic_endpt_ie_t value.(sess_mod_req_rmv_traffic_endpt) set_sess_mod_req_rmv_traffic_endpt here value
    else if ie_type =? PFCP_IE_CREATE_BAR then into decode_pfcp_create_bar_ie_t value.(sess_mod_req_create_bar) set_sess_mod_req_create_bar here value
    else if ie_type =? PFCP_IE_CREATE_TRAFFIC_ENDPT then into decode_pfcp_create_traffic_endpt_ie_t value.(sess_mod_req_create_traffic_endpt) set_sess_mod_req_create_traffic_endpt here value
    else if ie_type =? PFCP_IE_UPD_BAR_SESS_MOD_REQ then into decode_pfcp_upd_bar_sess_mod_req_ie_t value.(sess_mod_req_update_bar) set_sess_mod_req_update_bar here value
    else if ie_type =? PFCP_IE_UPD_TRAFFIC_ENDPT then into decode_pfcp_upd_traffic_endpt_ie_t value.(sess_mod_req_upd_traffic_endpt) set_sess_mod_req_upd_traffic_endpt here value
    else if ie_type =? PFCP_IE_PFCPSMREQ_FLAGS then into decode_pfcp_pfcpsmreq_flags_ie_t value.(sess_mod_req_pfcpsmreq_flags) set_sess_mod_req_pfcpsmreq_flags here value
    else if ie_type =? PFCP_IE_FQCSID then into decode_pfcp_fqcsid_ie_t value.(sess_mod_req_pgw_c_fqcsid) set_sess_mod_req_pgw_c_fqcsid here value
    else if ie_type =? PFCP_IE_FQCSID then into decode_pfcp_fqcsid_ie_t value.(sess_mod_req_sgw_c_fqcsid) set_sess_mod_req_sgw_c_fqcsid here value
    else if ie_type =? PFCP_IE_FQCSID then into decode_pfcp_fqcsid_ie_t value.(sess_mod_req_mme_fqcsid) set_sess_mod_req_mme_fqcsid here value
    else if ie_type =? PFCP_IE_FQCSID then into decode_pfcp_fqcsid_ie_t value.(sess_mod_req_epdg_fqcsid) set_sess_mod_req_epdg_fqcsid here value
    else if ie_type =? PFCP_IE_FQCSID then into decode_pfcp_fqcsid_ie_t value.(sess_mod_req_twan_fqcsid) set_sess_mod_req_twan_fqcsid here value
    else if ie_type =? PFCP_IE_USER_PLANE_INACT_TIMER then into decode_pfcp_user_plane_inact_timer_ie_t value.(sess_mod_req_user_plane_inact_timer) set_sess_mod_req_user_plane_inact_timer here value
    else if ie_type =? PFCP_IE_QUERY_URR_REF then into decode_pfcp_query_urr_ref_ie_t value.(sess_mod_req_query_urr_ref) set_sess_mod_req_query_urr_ref here value
    else if ie_type =? PFCP_IE_TRC_INFO then into decode_pfcp_trc_info_ie_t value.(sess_mod_req_trc_info) set_sess_mod_req_trc_info here value
    else if ie_type =? PFCP_IE_REMOVE_PDR then into_next 8 decode_pfcp_remove_pdr_ie_t value.(sess_mod_req_remove_pdr) value.(sess_mod_req_remove_pdr_count) set_sess_mod_req_remove_pdr set_sess_mod_req_remove_pdr_count here value
    else if ie_type =? PFCP_IE_REMOVE_FAR then into_next 8 decode_pfcp_remove_far_ie_t value.(sess_mod_req_remove_far) value.(sess_mod_req_remove_far_count) set_sess_mod_req_remove_far set_sess_mod_req_remove_far_count here value
    else if ie_type =? PFCP_IE_REMOVE_URR then into_next 8 decode_pfcp_remove_urr_ie_t value.(sess_mod_req_remove_urr) value.(sess_mod_req_remove_urr_count) set_sess_mod_req_remove_urr set_sess_mod_req_remove_urr_count here value
    else if ie_type =? PFCP_IE_REMOVE_QER then into_next 8 decode_pfcp_remove_qer_ie_t value.(sess_mod_req_remove_qer) value.(sess_mod_req_remove_qer_count) set_sess_mod_req_remove_qer set_sess_mod_req_remove_qer_count here value
    else if ie_type =? PFCP_IE_CREATE_PDR then into_next 8 decode_pfcp_create_pdr_ie_t value.(sess_mod_req_create_pdr) value.(sess_mod_req_create_pdr_count) set_sess_mod_req_create_pdr set_sess_mod_req_create_pdr_count here value
    else if ie_type =? PFCP_IE_CREATE_FAR then into_next 8 decode_pfcp_create_far_ie_t value.(sess_mod_req_create_far) value.(sess_mod_req_create_far_count) set_sess_mod_req_create_far set_sess_mod_req_create_far_count here value
    else if ie_type =? PFCP_IE_CREATE_URR then into_next 8 decode_pfcp_create_urr_ie_t value.(sess_mod_req_create_urr) value.(sess_mod_req_create_urr_count) set_sess_mod_req_create_urr set_sess_mod_req_create_urr_count here value
    else if ie_type =? PFCP_IE_CREATE_QER then into_next 8 decode_pfcp_create_qer_ie_t value.(sess_mod_req_create_qer) value.(sess_mod_req_create_qer_count) set_sess_mod_req_create_qer set_sess_mod_req_create_qer_count here value
    else if ie_type =? PFCP_IE_UPDATE_PDR then into_next 8 decode_pfcp_update_pdr_ie_t value.(sess_mod_req_update_pdr) value.(sess_mod_req_update_pdr_count) set_sess_mod_req_update_pdr set_sess_mod_req_update_pdr_count here value
    else if ie_type =? PFCP_IE_UPDATE_FAR then into_next 8 decode_pfcp_update_far_ie_t value.(sess_mod_req_update_far) value.(sess_mod_req_update_far_count) set_sess_mod_req_update_far set_sess_mod_req_update_far_count here value
    else if ie_type =? PFCP_IE_UPDATE_URR then into_next 8 decode_pfcp_update_urr_ie_t value.(sess_mod_req_update_urr) value.(sess_mod_req_update_urr_count) set_sess_mod_req_update_urr set_sess_mod_req_update_urr_count here value
    else if ie_type =? PFCP_IE_UPDATE_QER then into_next 8 decode_pfcp_update_qer_ie_t value.(sess_mod_req_update_qer) value.(sess_mod_req_update_qer_count) set_sess_mod_req_update_qer set_sess_mod_req_update_qer_count here value
    else if ie_type =? PFCP_IE_QUERY_URR then into_next 8 decode_pfcp_query_urr_ie_t value.(sess_mod_req_query_urr) value.(sess_mod_req_query_urr_count) set_sess_mod_req_query_urr set_sess_mod_req_query_urr_count here value
    else skip_ie here value).
