(* ===== verification/PfcpGroups.v ===== *)
(** * Groups and messages of PFCP

    The header of an element of libpfcp as an instance of [TlvHeader], and the rules for
    the idioms of src/libpfcp/src/pfcp_messages_encoder.c and pfcp_messages_decoder.c
    that are its own. *)

From S2P Require Import Prelude EncDecBits Codec CodecSpec Tlv PfcpIes PfcpIesEncoder PfcpIesDecoder.
From S2P Require Import PfcpIesSpec PfcpIesOptional PfcpMsgs PfcpMsgsEncoder PfcpMsgsDecoder.

(** ** The header of an element *)

(** The 16-bit number at the start of a buffer. *)
Lemma ntohs_at_holds buf v post :
  0 <= v < 65536 -> holds buf (nbits 16 v ++ post) -> ntohs_at buf 0 = Some v.
Proof.
  intros Hv Hh. assert (wbits (octets [v / 256; u8 v]) = nbits 16 v) as E.
  { rewrite wbits_octets. unfold bits_of. cbn [map concat]. rewrite app_nil_r, nbits8_u8.
    change 16%nat with (8 + 8)%nat. by rewrite nbits_split. }
  rewrite <- E in Hh. apply octets_take in Hh.
  2: { apply Forall_cons_2; [unfold byte_ok; divlia|]. apply Forall_singleton, byte_ok_uwrap. }
  clear E. destruct buf as [|b0 [|b1 buf]]; [done..|]. cbn [length take] in Hh. injection Hh as -> ->.
  change (Some (256 * (v / 256) + u8 v) = Some v). f_equal. unfold uwrap. change (2 ^ 8) with 256. divlia.
Qed.

Lemma wbits_header h : wbits (layout_ie_header h) = nbits 16 h.(ie_type) ++ nbits 16 h.(ie_len).
Proof. unfold layout_ie_header. by rewrite !wbits_cons, app_nil_r. Qed.

#[global] Instance pfcp_tlv_header : TlvHeader pfcp_ie_header_t Z :=
  {| th_layout := layout_ie_header; th_key := ie_type; th_len := ie_len; th_read := ie_type_at; th_null := 0 |}.

#[global] Instance pfcp_tlv_header_ok : TlvHeaderOk pfcp_ie_header_t Z.
Proof.
  split; [done| |].
  2: { intros here post Hh. apply (ntohs_at_holds _ 0 (repeat false 16 ++ post)); [lia|exact Hh]. }
  cbn [th_layout th_key th_read pfcp_tlv_header]. intros h here post Hok Hh. apply Forall_cons_1 in Hok as [Ht _].
  rewrite wbits_header, <- app_assoc in Hh. exact (ntohs_at_holds _ _ _ Ht Hh).
Qed.

Abbreviation PfcpElem := (Elem pfcp_ie_header_t).
Abbreviation PfcpElemOk := (ElemOk pfcp_ie_header_t Z).

(** In one place the bytes an encoder returns are converted to bits. *)
Lemma ecall_octets_ok : call_ok 1 ecall_octets (fun n => n / 8) (fun L => size L < 256).
Proof.
  intros f L HL HB Hf. split; [done|]. intros base e buf w Hb He Ha Hh Hw Hr Hs. pose proof (size_nonneg L).
  destruct (Hf buf (base + e / 8) w) as (b' & E & ?); auto; try divlia.
  exists b'. unfold ecall_octets. obind E. rewrite Z.div_1_r.
  rewrite (uwrap_small 8 (size L / 8)), (uwrap_small 8 (size L / 8 * 8)), uwrap_small by divlia.
  split; [|done]. do 2 f_equal. divlia.
Qed.

(** ** Groups *)

Lemma decodes_group {T} (set_header : pfcp_ie_header_t -> T -> T) reset step zero h body v :
  group_good h body -> items 4 step (reset (set_header h zero)) body v ->
  decodes (dec_group set_header reset step zero) (layout_ie_header h ++ body)
    (size (layout_ie_header h ++ body) / 8) v.
Proof.
  intros (Hok & Hl & Hp) Hi buf post Hh Hs. cbn [th_layout th_len pfcp_tlv_header] in Hok, Hl.
  rewrite size_app in *. change (size (layout_ie_header h)) with 32 in *.
  rewrite wbits_app, <- app_assoc in Hh. unfold dec_group.
  rewrite (decode_ie_header_decodes h Hok buf (wbits body ++ post) Hh) by done. cbn [mbind option_bind].
  change (32 / 8) with 4.
  rewrite (tlv_loop_items 4 _ _ _ _ _ _ (wbits (layout_ie_header h)) post _ 4 Hi Hh); try done; try divlia.
  - do 2 f_equal. divlia.
  - unfold loop_fuel. divlia.
Qed.

(** ** Messages *)

(** The header of a message whose elements are [body]. *)
Definition message_good (h : pfcp_header_t) (body : layout) : Prop :=
  header_tagged h ∧ layout_ok (layout_header h) ∧
  8 * (h.(header_message_len) - (if h.(header_s) =? 1 then 12 else 4)) = size body.

Lemma decodes_message {T} (set_header : pfcp_header_t -> T -> T) reset step zero h body v :
  message_good h body -> items 4 step (reset (set_header h zero)) body v ->
  decodes (dec_message set_header reset step zero) (layout_header h ++ body) (size body / 8) v.
Proof.
  intros (Ht & Hok & Hl) Hi buf post Hh Hs. rewrite wbits_app, <- app_assoc in Hh. rewrite size_app in Hs.
  pose proof (size_nonneg body). pose proof (size_nonneg (layout_header h)).
  assert (size (layout_header h) mod 8 = 0) as Hm by (destruct h as [? ? ? ? ? ? [|]]; done).
  unfold dec_message. rewrite (header_decodes h Ht Hok buf (wbits body ++ post) Hh) by lia.
  cbn [mbind option_bind].
  assert (nz h.(header_s) = (h.(header_s) =? 1)) as ->.
  { unfold header_tagged in Ht. destruct (header_seid_seqno h); by rewrite Ht. }
  rewrite uwrap_small by lia.
  pose proof (holds_drop buf _ _ (size (layout_header h) / 8) Hh ltac:(unfold size in *; divlia)) as Hd.
  rewrite (tlv_loop_items 4 _ _ _ _ _ _ [] post _ 0 Hi Hd); [done|done|lia|lia|divlia|lia|unfold loop_fuel; divlia].
Qed.

(** An encoder of a group, which counts bits, and of a message, which counts bytes. *)
Lemma places_ie_header h m L : places 1 m L ->
  places 1 (ecall (encode_pfcp_ie_header_t h) ⨾ m) (layout_ie_header h ++ L).
Proof.
  intros H. apply places_seq; [by left| |done]. apply ecall_ok; [done|done|]. apply encode_ie_header_encodes.
Qed.

Lemma places_header h m L : header_tagged h -> places 8 m L ->
  places 8 (ecall_at (encode_pfcp_header_t h) ⨾ m) (layout_header h ++ L).
Proof.
  intros Ht H. apply places_seq; [by right| |done]. apply ecall_at_ok; [|done|by apply header_encodes].
  destruct h as [? ? ? ? ? ? [|]]; done.
Qed.
