(* ===== verification/PfcpMsgsSpec.v ===== *)
(** * Wire layouts of the PFCP messages and grouped elements

    For each message and group whose encoder and decoder agree: the layout of its
    members and the condition for a good value.  A member is used when its encoder
    and decoder agree and the enclosing encoder places it where its decoder looks
    for it; a member of which this does not hold is absent (zero) in a good value.
    [ElemOk] instances for the groups, [x_encodes] and [x_decodes] for the messages. *)

From S2P Require Import Prelude EncDecBits Codec CodecSpec Tlv PfcpIes PfcpIesEncoder PfcpIesDecoder.
From S2P Require Import PfcpIesSpec PfcpIesOptional PfcpMsgs PfcpMsgsEncoder PfcpMsgsDecoder PfcpGroups.

(** ** Elements *)

#[global] Instance cause_elem : PfcpElem pfcp_cause_ie_t := regular_elem cause_header.
#[global] Instance cause_elem_ok : PfcpElemOk pfcp_cause_ie_t.
Proof. solve_regular. Qed.
#[global] Instance src_intfc_elem : PfcpElem pfcp_src_intfc_ie_t := regular_elem src_intfc_header.
#[global] Instance src_intfc_elem_ok : PfcpElemOk pfcp_src_intfc_ie_t.
Proof. solve_regular. Qed.
#[global] Instance gate_status_elem : PfcpElem pfcp_gate_status_ie_t := regular_elem gate_status_header.
#[global] Instance gate_status_elem_ok : PfcpElemOk pfcp_gate_status_ie_t.
Proof. solve_regular. Qed.
#[global] Instance mbr_elem : PfcpElem pfcp_mbr_ie_t := regular_elem mbr_header.
#[global] Instance mbr_elem_ok : PfcpElemOk pfcp_mbr_ie_t.
Proof. solve_regular. Qed.
#[global] Instance gbr_elem : PfcpElem pfcp_gbr_ie_t := regular_elem gbr_header.
#[global] Instance gbr_elem_ok : PfcpElemOk pfcp_gbr_ie_t.
Proof. solve_regular. Qed.
#[global] Instance qer_corr_id_elem : PfcpElem pfcp_qer_corr_id_ie_t := regular_elem qer_corr_id_header.
#[global] Instance qer_corr_id_elem_ok : PfcpElemOk pfcp_qer_corr_id_ie_t.
Proof. solve_regular. Qed.
#[global] Instance precedence_elem : PfcpElem pfcp_precedence_ie_t := regular_elem precedence_header.
#[global] Instance precedence_elem_ok : PfcpElemOk pfcp_precedence_ie_t.
Proof. solve_regular. Qed.
#[global] Instance report_type_elem : PfcpElem pfcp_report_type_ie_t := regular_elem report_type_header.
#[global] Instance report_type_elem_ok : PfcpElemOk pfcp_report_type_ie_t.
Proof. solve_regular. Qed.
#[global] Instance offending_ie_elem : PfcpElem pfcp_offending_ie_ie_t := regular_elem offending_ie_header.
#[global] Instance offending_ie_elem_ok : PfcpElemOk pfcp_offending_ie_ie_t.
Proof. solve_regular. Qed.
#[global] Instance dst_intfc_elem : PfcpElem pfcp_dst_intfc_ie_t := regular_elem dst_intfc_header.
#[global] Instance dst_intfc_elem_ok : PfcpElemOk pfcp_dst_intfc_ie_t.
Proof. solve_regular. Qed.
#[global] Instance apply_action_elem : PfcpElem pfcp_apply_action_ie_t := regular_elem apply_action_header.
#[global] Instance apply_action_elem_ok : PfcpElemOk pfcp_apply_action_ie_t.
Proof. solve_regular. Qed.
#[global] Instance dnlnk_data_svc_info_elem : PfcpElem pfcp_dnlnk_data_svc_info_ie_t := regular_elem dnlnk_data_svc_info_header.
#[global] Instance dnlnk_data_svc_info_elem_ok : PfcpElemOk pfcp_dnlnk_data_svc_info_ie_t.
Proof. solve_regular. Qed.
#[global] Instance dnlnk_data_notif_delay_elem : PfcpElem pfcp_dnlnk_data_notif_delay_ie_t := regular_elem dnlnk_data_notif_delay_header.
#[global] Instance dnlnk_data_notif_delay_elem_ok : PfcpElemOk pfcp_dnlnk_data_notif_delay_ie_t.
Proof. solve_regular. Qed.
#[global] Instance pfcpsmreq_flags_elem : PfcpElem pfcp_pfcpsmreq_flags_ie_t := regular_elem pfcpsmreq_flags_header.
#[global] Instance pfcpsmreq_flags_elem_ok : PfcpElemOk pfcp_pfcpsmreq_flags_ie_t.
Proof. solve_regular. Qed.
#[global] Instance pfcpsrrsp_flags_elem : PfcpElem pfcp_pfcpsrrsp_flags_ie_t := regular_elem pfcpsrrsp_flags_header.
#[global] Instance pfcpsrrsp_flags_elem_ok : PfcpElemOk pfcp_pfcpsrrsp_flags_ie_t.
Proof. solve_regular. Qed.
#[global] Instance pdr_id_elem : PfcpElem pfcp_pdr_id_ie_t := regular_elem pdr_id_header.
#[global] Instance pdr_id_elem_ok : PfcpElemOk pfcp_pdr_id_ie_t.
Proof. solve_regular. Qed.
#[global] Instance urr_id_elem : PfcpElem pfcp_urr_id_ie_t := regular_elem urr_id_header.
#[global] Instance urr_id_elem_ok : PfcpElemOk pfcp_urr_id_ie_t.
Proof. solve_regular. Qed.
#[global] Instance bar_id_elem : PfcpElem pfcp_bar_id_ie_t := regular_elem bar_id_header.
#[global] Instance bar_id_elem_ok : PfcpElemOk pfcp_bar_id_ie_t.
Proof. solve_regular. Qed.
#[global] Instance cp_func_feat_elem : PfcpElem pfcp_cp_func_feat_ie_t := regular_elem cp_func_feat_header.
#[global] Instance cp_func_feat_elem_ok : PfcpElemOk pfcp_cp_func_feat_ie_t.
Proof. solve_regular. Qed.
#[global] Instance outer_hdr_removal_elem : PfcpElem pfcp_outer_hdr_removal_ie_t := regular_elem outer_hdr_removal_header.
#[global] Instance outer_hdr_removal_elem_ok : PfcpElemOk pfcp_outer_hdr_removal_ie_t.
Proof. solve_regular. Qed.
#[global] Instance rcvry_time_stmp_elem : PfcpElem pfcp_rcvry_time_stmp_ie_t := regular_elem rcvry_time_stmp_header.
#[global] Instance rcvry_time_stmp_elem_ok : PfcpElemOk pfcp_rcvry_time_stmp_ie_t.
Proof. solve_regular. Qed.
#[global] Instance node_rpt_type_elem : PfcpElem pfcp_node_rpt_type_ie_t := regular_elem node_rpt_type_header.
#[global] Instance node_rpt_type_elem_ok : PfcpElemOk pfcp_node_rpt_type_ie_t.
Proof. solve_regular. Qed.
#[global] Instance far_id_elem : PfcpElem pfcp_far_id_ie_t := regular_elem far_id_header.
#[global] Instance far_id_elem_ok : PfcpElemOk pfcp_far_id_ie_t.
Proof. solve_regular. Qed.
#[global] Instance qer_id_elem : PfcpElem pfcp_qer_id_ie_t := regular_elem qer_id_header.
#[global] Instance qer_id_elem_ok : PfcpElemOk pfcp_qer_id_ie_t.
Proof. solve_regular. Qed.
#[global] Instance up_assn_rel_req_elem : PfcpElem pfcp_up_assn_rel_req_ie_t := regular_elem up_assn_rel_req_header.
#[global] Instance up_assn_rel_req_elem_ok : PfcpElemOk pfcp_up_assn_rel_req_ie_t.
Proof. solve_regular. Qed.
#[global] Instance graceful_rel_period_elem : PfcpElem pfcp_graceful_rel_period_ie_t := regular_elem graceful_rel_period_header.
#[global] Instance graceful_rel_period_elem_ok : PfcpElemOk pfcp_graceful_rel_period_ie_t.
Proof. solve_regular. Qed.
#[global] Instance pdn_type_elem : PfcpElem pfcp_pdn_type_ie_t := regular_elem pdn_type_header.
#[global] Instance pdn_type_elem_ok : PfcpElemOk pfcp_pdn_type_ie_t.
Proof. solve_regular. Qed.
#[global] Instance user_plane_inact_timer_elem : PfcpElem pfcp_user_plane_inact_timer_ie_t := regular_elem user_plane_inact_timer_header.
#[global] Instance user_plane_inact_timer_elem_ok : PfcpElemOk pfcp_user_plane_inact_timer_ie_t.
Proof. solve_regular. Qed.
#[global] Instance rqi_elem : PfcpElem pfcp_rqi_ie_t := regular_elem rqi_header.
#[global] Instance rqi_elem_ok : PfcpElemOk pfcp_rqi_ie_t.
Proof. solve_regular. Qed.
#[global] Instance qfi_elem : PfcpElem pfcp_qfi_ie_t := regular_elem qfi_header.
#[global] Instance qfi_elem_ok : PfcpElemOk pfcp_qfi_ie_t.
Proof. solve_regular. Qed.
#[global] Instance query_urr_ref_elem : PfcpElem pfcp_query_urr_ref_ie_t := regular_elem query_urr_ref_header.
#[global] Instance query_urr_ref_elem_ok : PfcpElemOk pfcp_query_urr_ref_ie_t.
Proof. solve_regular. Qed.
#[global] Instance add_usage_rpts_info_elem : PfcpElem pfcp_add_usage_rpts_info_ie_t := regular_elem add_usage_rpts_info_header.
#[global] Instance add_usage_rpts_info_elem_ok : PfcpElemOk pfcp_add_usage_rpts_info_ie_t.
Proof. solve_regular. Qed.
#[global] Instance traffic_endpt_id_elem : PfcpElem pfcp_traffic_endpt_id_ie_t := regular_elem traffic_endpt_id_header.
#[global] Instance traffic_endpt_id_elem_ok : PfcpElemOk pfcp_traffic_endpt_id_ie_t.
Proof. solve_regular. Qed.
#[global] Instance suggstd_buf_pckts_cnt_elem : PfcpElem pfcp_suggstd_buf_pckts_cnt_ie_t := regular_elem suggstd_buf_pckts_cnt_header.
#[global] Instance suggstd_buf_pckts_cnt_elem_ok : PfcpElemOk pfcp_suggstd_buf_pckts_cnt_ie_t.
Proof. solve_regular. Qed.
#[global] Instance eth_pdu_sess_info_elem : PfcpElem pfcp_eth_pdu_sess_info_ie_t := regular_elem eth_pdu_sess_info_header.
#[global] Instance eth_pdu_sess_info_elem_ok : PfcpElemOk pfcp_eth_pdu_sess_info_ie_t.
Proof. solve_regular. Qed.
#[global] Instance trc_info_elem : PfcpElem pfcp_trc_info_ie_t := regular_elem trc_info_header.
#[global] Instance trc_info_elem_ok : PfcpElemOk pfcp_trc_info_ie_t.
Proof. solve_regular. Qed.
#[global] Instance framed_routing_elem : PfcpElem pfcp_framed_routing_ie_t := regular_elem framed_routing_header.
#[global] Instance framed_routing_elem_ok : PfcpElemOk pfcp_framed_routing_ie_t.
Proof. solve_regular. Qed.
#[global] Instance avgng_wnd_elem : PfcpElem pfcp_avgng_wnd_ie_t := regular_elem avgng_wnd_header.
#[global] Instance avgng_wnd_elem_ok : PfcpElemOk pfcp_avgng_wnd_ie_t.
Proof. solve_regular. Qed.
#[global] Instance paging_plcy_indctr_elem : PfcpElem pfcp_paging_plcy_indctr_ie_t := regular_elem paging_plcy_indctr_header.
#[global] Instance paging_plcy_indctr_elem_ok : PfcpElemOk pfcp_paging_plcy_indctr_ie_t.
Proof. solve_regular. Qed.

(** Elements with optional parts, in the forms of which the encoder and the decoder
    agree. *)

Lemma node_id_size v : node_id_ipv4 v -> size (layout_node_id v) = 72.
Proof.
  intros (_ & _ & Hn & _). unfold layout_node_id. by rewrite !size_app, size_octets, length_take, Hn.
Qed.

#[global] Instance node_id_elem : PfcpElem pfcp_node_id_ie_t :=
  {| el_header := node_id_header; el_encode := encode_pfcp_node_id_ie_t;
     el_decode := decode_pfcp_node_id_ie_t; el_zero := zero_node_id; el_unit := 8; el_short := false;
     el_layout := layout_node_id;
     el_good v := node_id_ipv4 v ∧ bytes_ok v.(node_id_value) ∧ layout_ok (layout_node_id v) |}.
#[global] Instance node_id_elem_ok : PfcpElemOk pfcp_node_id_ie_t.
Proof.
  split_elem; cbn -[layout_node_id]; intros v (Hv & Hb & Hok).
  - rewrite node_id_size by done. by apply node_id_encodes.
  - rewrite node_id_size by done. by apply node_id_decodes.
  - pose proof (node_id_size v Hv) as Hs. pose proof (layout_ok_app _ _ Hok) as [Hh _].
    unfold layout_node_id in *. rewrite size_app in Hs. change (size (layout_ie_header _)) with 32 in Hs.
    eexists. split; [reflexivity|]. replace (size _) with 40 by lia. done.
Qed.

#[global] Instance fseid_elem : PfcpElem pfcp_fseid_ie_t :=
  {| el_header := fseid_header; el_encode := encode_pfcp_fseid_ie_t;
     el_decode := decode_pfcp_fseid_ie_t; el_zero := zero_fseid; el_unit := 8; el_short := false;
     el_layout := layout_fseid; el_good v := fseid_addresses v ∧ layout_ok (layout_fseid v) |}.
#[global] Instance fseid_elem_ok : PfcpElemOk pfcp_fseid_ie_t.
Proof.
  split_elem; cbn -[layout_fseid]; intros v (Hv & Hok).
  - by apply fseid_encodes.
  - by apply fseid_decodes.
  - pose proof (layout_ok_app _ _ Hok) as [Hh _]. eexists. split; [reflexivity|].
    rewrite !size_app, !size_if, !size_octets, (proj1 (proj2 Hv)), length_le_bytes.
    destruct (nz _), (nz _); done.
Qed.

#[global] Instance outer_hdr_creation_elem : PfcpElem pfcp_outer_hdr_creation_ie_t :=
  {| el_header := outer_hdr_creation_header; el_encode := encode_pfcp_outer_hdr_creation_ie_t;
     el_decode := decode_pfcp_outer_hdr_creation_ie_t; el_zero := zero_outer_hdr_creation; el_unit := 1; el_short := false;
     el_layout := layout_outer_hdr_creation;
     el_good v := outer_hdr_gtpu4 v ∧ layout_ok (layout_outer_hdr_creation v) |}.
#[global] Instance outer_hdr_creation_elem_ok : PfcpElemOk pfcp_outer_hdr_creation_ie_t.
Proof.
  split_elem; cbn -[layout_outer_hdr_creation]; intros v (Hv & Hok).
  - by apply outer_hdr_creation_encodes.
  - by apply outer_hdr_creation_decodes.
  - pose proof (layout_ok_app _ _ Hok) as [Hh _]. eexists. split; [reflexivity|]. done.
Qed.

(** The header of a layout, as the rest needs it. *)
Lemma element_of h body : layout_ok (layout_ie_header h) -> 0 < size body -> size body mod 8 = 0 ->
  element_layout h (layout_ie_header h ++ body).
Proof. intros. by exists body. Qed.

#[global] Instance ntwk_inst_elem : PfcpElem pfcp_ntwk_inst_ie_t :=
  {| el_header := ntwk_inst_header; el_encode := encode_pfcp_ntwk_inst_ie_t;
     el_decode := decode_pfcp_ntwk_inst_ie_t; el_zero := zero_ntwk_inst; el_unit := 1; el_short := false;
     el_layout := layout_ntwk_inst; el_good := ntwk_inst_ok |}.
#[global] Instance ntwk_inst_elem_ok : PfcpElemOk pfcp_ntwk_inst_ie_t.
Proof.
  split_elem; intros v Hv; [by apply ntwk_inst_codec|by apply ntwk_inst_codec|].
  destruct Hv as (Hh & _ & Hl). by apply element_of; rewrite ?size_octets, ?Hl.
Qed.

#[global] Instance application_id_elem : PfcpElem pfcp_application_id_ie_t :=
  {| el_header := application_id_header; el_encode := encode_pfcp_application_id_ie_t;
     el_decode := decode_pfcp_application_id_ie_t; el_zero := zero_application_id; el_unit := 1; el_short := false;
     el_layout := layout_application_id; el_good := application_id_ok |}.
#[global] Instance application_id_elem_ok : PfcpElemOk pfcp_application_id_ie_t.
Proof.
  split_elem; intros v Hv; [by apply application_id_codec|by apply application_id_codec|].
  destruct Hv as (Hh & _ & Hl). by apply element_of; rewrite ?size_octets, ?Hl.
Qed.

#[global] Instance up_func_feat_elem : PfcpElem pfcp_up_func_feat_ie_t :=
  {| el_header := up_func_feat_header; el_encode := encode_pfcp_up_func_feat_ie_t;
     el_decode := decode_pfcp_up_func_feat_ie_t; el_zero := zero_up_func_feat; el_unit := 8; el_short := false;
     el_layout := layout_up_func_feat;
     el_good v := v.(up_func_feat_header).(ie_len) = 6 ∧ layout_ok (layout_up_func_feat v) |}.
#[global] Instance up_func_feat_elem_ok : PfcpElemOk pfcp_up_func_feat_ie_t.
Proof.
  split_elem; intros v [Hl Hok]; [by apply up_func_feat_codec|by apply up_func_feat_codec|].
  apply layout_ok_app in Hok as [Hh _]. by apply element_of.
Qed.

(** The F-TEID in the form in which the user plane chooses it. *)
#[global] Instance fteid_elem : PfcpElem pfcp_fteid_ie_t :=
  {| el_header := fteid_header; el_encode := encode_pfcp_fteid_ie_t;
     el_decode := decode_pfcp_fteid_ie_t; el_zero := zero_fteid; el_unit := 1; el_short := false;
     el_layout := layout_fteid_choose;
     el_good v := fteid_choose v ∧ layout_ok (layout_fteid_choose v) |}.
#[global] Instance fteid_elem_ok : PfcpElemOk pfcp_fteid_ie_t.
Proof.
  split_elem; intros v [Hv Hok]; [by apply fteid_choose_codec|by apply fteid_choose_codec|].
  apply layout_ok_app in Hok as [Hh _]. by apply element_of.
Qed.

#[global] Instance ip_rsrc_elem : PfcpElem pfcp_user_plane_ip_rsrc_info_ie_t :=
  {| el_header := user_plane_ip_rsrc_info_header; el_encode := encode_pfcp_user_plane_ip_rsrc_info_ie_t;
     el_decode := decode_pfcp_user_plane_ip_rsrc_info_ie_t; el_zero := zero_user_plane_ip_rsrc_info;
     el_unit := 8; el_short := false; el_layout := layout_user_plane_ip_rsrc_info;
     el_good v := ip_rsrc_ok v ∧ layout_ok (layout_user_plane_ip_rsrc_info v) |}.
#[global] Instance ip_rsrc_elem_ok : PfcpElemOk pfcp_user_plane_ip_rsrc_info_ie_t.
Proof.
  split_elem; intros v [Hv Hok]; [by apply ip_rsrc_encodes|by apply ip_rsrc_decodes|].
  apply layout_ok_app in Hok as [Hh _]. destruct Hv as (_ & _ & _ & _ & _ & Hl & _).
  apply element_of; [done|..]; rewrite !size_app, !size_if, size_octets, Hl;
    destruct (nz _), (nz _), (nz _); done.
Qed.

#[global] Instance sdf_filter_elem : PfcpElem pfcp_sdf_filter_ie_t :=
  {| el_header := sdf_filter_header; el_encode := encode_pfcp_sdf_filter_ie_t;
     el_decode := decode_pfcp_sdf_filter_ie_t; el_zero := zero_sdf_filter; el_unit := 1; el_short := false;
     el_layout := layout_sdf_filter; el_good v := sdf_filter_ok v ∧ layout_ok (layout_sdf_filter v) |}.
#[global] Instance sdf_filter_elem_ok : PfcpElemOk pfcp_sdf_filter_ie_t.
Proof.
  split_elem; intros v [Hv Hok]; [by apply sdf_filter_encodes|by apply sdf_filter_decodes|].
  apply layout_ok_app in Hok as [Hh _].
  apply element_of; [done|..]; rewrite !size_app, !size_if, size_octets; change (size []) with 0;
    repeat (rewrite size_cons by lia); change (size []) with 0;
    destruct (nz _), (nz _), (nz _), (nz _), (nz _); divlia.
Qed.

(** ** Automation *)

Ltac header_ok := match goal with H : message_good _ _ |- _ => apply H end.

(** ** Groups and messages *)

(** ** Groups and messages *)

Ltac pfcp_member :=
  first [member ecall_at_ok|members ecall_at_ok|member ecall_ok|members ecall_ok|member ecall_octets_ok].

(** [pfcp_dnlnk_data_rpt_ie_t] *)

Definition dnlnk_data_rpt_body (v : pfcp_dnlnk_data_rpt_ie_t) : layout :=
  arr_layout v.(dnlnk_data_rpt_pdr_id_count) v.(dnlnk_data_rpt_pdr_id) ++
  opt_layout v.(dnlnk_data_rpt_dnlnk_data_svc_info) ++
  [].
Definition dnlnk_data_rpt_good (v : pfcp_dnlnk_data_rpt_ie_t) : Prop :=
  group_good v.(dnlnk_data_rpt_header) (dnlnk_data_rpt_body v) ∧
  arr_good MAX_LIST_SIZE PFCP_IE_PDR_ID v.(dnlnk_data_rpt_pdr_id_count) v.(dnlnk_data_rpt_pdr_id) ∧
  opt_good PFCP_IE_DNLNK_DATA_SVC_INFO v.(dnlnk_data_rpt_dnlnk_data_svc_info).
#[global] Instance dnlnk_data_rpt_elem : PfcpElem pfcp_dnlnk_data_rpt_ie_t :=
  {| el_header := dnlnk_data_rpt_header; el_encode := encode_pfcp_dnlnk_data_rpt_ie_t;
     el_decode := decode_pfcp_dnlnk_data_rpt_ie_t;
     el_zero := zero_dnlnk_data_rpt; el_unit := 8; el_short := false;
     el_layout v := layout_ie_header v.(dnlnk_data_rpt_header) ++ dnlnk_data_rpt_body v;
     el_good := dnlnk_data_rpt_good |}.
Lemma dnlnk_data_rpt_places v : dnlnk_data_rpt_good v ->
  encodes (encode_pfcp_dnlnk_data_rpt_ie_t v) (el_layout v) (size (el_layout v) / 8).
Proof.
  intros Hg; unfold dnlnk_data_rpt_good in Hg; destruct_and! Hg. apply encodes_enc_bytes. apply places_ie_header. unfold dnlnk_data_rpt_body.
  place_members ltac:(pfcp_member).
Qed.
Lemma dnlnk_data_rpt_items v : dnlnk_data_rpt_good v ->
  decodes (decode_pfcp_dnlnk_data_rpt_ie_t zero_dnlnk_data_rpt) (el_layout v) (size (el_layout v) / 8) v.
Proof.
  intros Hg; unfold dnlnk_data_rpt_good in Hg; destruct_and! Hg. apply decodes_group; [assumption|]. unfold dnlnk_data_rpt_body.
  repeat read_member. read_members PFCP_IE_PDR_ID 8 MAX_LIST_SIZE dnlnk_data_rpt_pdr_id dnlnk_data_rpt_pdr_id_count set_dnlnk_data_rpt_pdr_id set_dnlnk_data_rpt_pdr_id_count.
  read_rest v.
Qed.
#[global] Instance dnlnk_data_rpt_elem_ok : PfcpElemOk pfcp_dnlnk_data_rpt_ie_t.
Proof. split_elem; [apply dnlnk_data_rpt_places|apply dnlnk_data_rpt_items|intros v (Hh & _); exact (group_element _ _ Hh)]. Qed.

(** [pfcp_app_ids_pfds_ie_t] *)

Definition app_ids_pfds_body (v : pfcp_app_ids_pfds_ie_t) : layout :=
  opt_layout v.(app_ids_pfds_application_id) ++
  [].
Definition app_ids_pfds_good (v : pfcp_app_ids_pfds_ie_t) : Prop :=
  group_good v.(app_ids_pfds_header) (app_ids_pfds_body v) ∧
  opt_good PFCP_IE_APPLICATION_ID v.(app_ids_pfds_application_id) ∧
  v.(app_ids_pfds_pfd_context_count) = 0 ∧
  v.(app_ids_pfds_pfd_context) = repeat zero_pfd_context MAX_LIST_SIZE.
#[global] Instance app_ids_pfds_elem : PfcpElem pfcp_app_ids_pfds_ie_t :=
  {| el_header := app_ids_pfds_header; el_encode := encode_pfcp_app_ids_pfds_ie_t;
     el_decode := decode_pfcp_app_ids_pfds_ie_t;
     el_zero := zero_app_ids_pfds; el_unit := 8; el_short := false;
     el_layout v := layout_ie_header v.(app_ids_pfds_header) ++ app_ids_pfds_body v;
     el_good := app_ids_pfds_good |}.
Lemma app_ids_pfds_places v : app_ids_pfds_good v ->
  encodes (encode_pfcp_app_ids_pfds_ie_t v) (el_layout v) (size (el_layout v) / 8).
Proof.
  intros Hg; unfold app_ids_pfds_good in Hg; destruct_and! Hg. apply encodes_enc_bytes. apply places_ie_header. unfold app_ids_pfds_body.
  place_members ltac:(pfcp_member).
Qed.
Lemma app_ids_pfds_items v : app_ids_pfds_good v ->
  decodes (decode_pfcp_app_ids_pfds_ie_t zero_app_ids_pfds) (el_layout v) (size (el_layout v) / 8) v.
Proof.
  intros Hg; unfold app_ids_pfds_good in Hg; destruct_and! Hg. apply decodes_group; [assumption|]. unfold app_ids_pfds_body.
  read_rest v.
Qed.
#[global] Instance app_ids_pfds_elem_ok : PfcpElemOk pfcp_app_ids_pfds_ie_t.
Proof. split_elem; [apply app_ids_pfds_places|apply app_ids_pfds_items|intros v (Hh & _); exact (group_element _ _ Hh)]. Qed.

(** [pfcp_frwdng_parms_ie_t] *)

Definition frwdng_parms_body (v : pfcp_frwdng_parms_ie_t) : layout :=
  opt_layout v.(frwdng_parms_dst_intfc) ++
  opt_layout v.(frwdng_parms_outer_hdr_creation) ++
  [].
Definition frwdng_parms_good (v : pfcp_frwdng_parms_ie_t) : Prop :=
  group_good v.(frwdng_parms_header) (frwdng_parms_body v) ∧
  opt_good PFCP_IE_DST_INTFC v.(frwdng_parms_dst_intfc) ∧
  opt_good PFCP_IE_OUTER_HDR_CREATION v.(frwdng_parms_outer_hdr_creation) ∧
  v.(frwdng_parms_ntwk_inst) = zero_ntwk_inst ∧
  v.(frwdng_parms_redir_info) = zero_redir_info ∧
  v.(frwdng_parms_trnspt_lvl_marking) = zero_trnspt_lvl_marking ∧
  v.(frwdng_parms_frwdng_plcy) = zero_frwdng_plcy ∧
  v.(frwdng_parms_hdr_enrchmt) = zero_hdr_enrchmt ∧
  v.(frwdng_parms_lnkd_traffic_endpt_id) = zero_traffic_endpt_id ∧
  v.(frwdng_parms_proxying) = zero_proxying.
#[global] Instance frwdng_parms_elem : PfcpElem pfcp_frwdng_parms_ie_t :=
  {| el_header := frwdng_parms_header; el_encode := encode_pfcp_frwdng_parms_ie_t;
     el_decode := decode_pfcp_frwdng_parms_ie_t;
     el_zero := zero_frwdng_parms; el_unit := 1; el_short := false;
     el_layout v := layout_ie_header v.(frwdng_parms_header) ++ frwdng_parms_body v;
     el_good := frwdng_parms_good |}.
Lemma frwdng_parms_places v : frwdng_parms_good v ->
  encodes (encode_pfcp_frwdng_parms_ie_t v) (el_layout v) (size (el_layout v) / 1).
Proof.
  intros Hg; unfold frwdng_parms_good in Hg; destruct_and! Hg. apply (encodes_enc_bits 1); [by left|]. apply places_ie_header. unfold frwdng_parms_body.
  place_members ltac:(pfcp_member).
Qed.
Lemma frwdng_parms_items v : frwdng_parms_good v ->
  decodes (decode_pfcp_frwdng_parms_ie_t zero_frwdng_parms) (el_layout v) (size (el_layout v) / 8) v.
Proof.
  intros Hg; unfold frwdng_parms_good in Hg; destruct_and! Hg. apply decodes_group; [assumption|]. unfold frwdng_parms_body.
  read_rest v.
Qed.
#[global] Instance frwdng_parms_elem_ok : PfcpElemOk pfcp_frwdng_parms_ie_t.
Proof. split_elem; [apply frwdng_parms_places|apply frwdng_parms_items|intros v (Hh & _); exact (group_element _ _ Hh)]. Qed.

(** [pfcp_remove_bar_ie_t] *)

Definition remove_bar_body (v : pfcp_remove_bar_ie_t) : layout :=
  opt_layout v.(remove_bar_bar_id) ++
  [].
Definition remove_bar_good (v : pfcp_remove_bar_ie_t) : Prop :=
  group_good v.(remove_bar_header) (remove_bar_body v) ∧
  opt_good PFCP_IE_BAR_ID v.(remove_bar_bar_id).
#[global] Instance remove_bar_elem : PfcpElem pfcp_remove_bar_ie_t :=
  {| el_header := remove_bar_header; el_encode := encode_pfcp_remove_bar_ie_t;
     el_decode := decode_pfcp_remove_bar_ie_t;
     el_zero := zero_remove_bar; el_unit := 8; el_short := false;
     el_layout v := layout_ie_header v.(remove_bar_header) ++ remove_bar_body v;
     el_good := remove_bar_good |}.
Lemma remove_bar_places v : remove_bar_good v ->
  encodes (encode_pfcp_remove_bar_ie_t v) (el_layout v) (size (el_layout v) / 8).
Proof.
  intros Hg; unfold remove_bar_good in Hg; destruct_and! Hg. apply encodes_enc_bytes. apply places_ie_header. unfold remove_bar_body.
  place_members ltac:(pfcp_member).
Qed.
Lemma remove_bar_items v : remove_bar_good v ->
  decodes (decode_pfcp_remove_bar_ie_t zero_remove_bar) (el_layout v) (size (el_layout v) / 8) v.
Proof.
  intros Hg; unfold remove_bar_good in Hg; destruct_and! Hg. apply decodes_group; [assumption|]. unfold remove_bar_body.
  read_rest v.
Qed.
#[global] Instance remove_bar_elem_ok : PfcpElemOk pfcp_remove_bar_ie_t.
Proof. split_elem; [apply remove_bar_places|apply remove_bar_items|intros v (Hh & _); exact (group_element _ _ Hh)]. Qed.

(** [pfcp_rmv_traffic_endpt_ie_t] *)

Definition rmv_traffic_endpt_body (v : pfcp_rmv_traffic_endpt_ie_t) : layout :=
  opt_layout v.(rmv_traffic_endpt_traffic_endpt_id) ++
  [].
Definition rmv_traffic_endpt_good (v : pfcp_rmv_traffic_endpt_ie_t) : Prop :=
  group_good v.(rmv_traffic_endpt_header) (rmv_traffic_endpt_body v) ∧
  opt_good PFCP_IE_TRAFFIC_ENDPT_ID v.(rmv_traffic_endpt_traffic_endpt_id).
#[global] Instance rmv_traffic_endpt_elem : PfcpElem pfcp_rmv_traffic_endpt_ie_t :=
  {| el_header := rmv_traffic_endpt_header; el_encode := encode_pfcp_rmv_traffic_endpt_ie_t;
     el_decode := decode_pfcp_rmv_traffic_endpt_ie_t;
     el_zero := zero_rmv_traffic_endpt; el_unit := 1; el_short := false;
     el_layout v := layout_ie_header v.(rmv_traffic_endpt_header) ++ rmv_traffic_endpt_body v;
     el_good := rmv_traffic_endpt_good |}.
Lemma rmv_traffic_endpt_places v : rmv_traffic_endpt_good v ->
  encodes (encode_pfcp_rmv_traffic_endpt_ie_t v) (el_layout v) (size (el_layout v) / 1).
Proof.
  intros Hg; unfold rmv_traffic_endpt_good in Hg; destruct_and! Hg. apply (encodes_enc_bits 1); [by left|]. apply places_ie_header. unfold rmv_traffic_endpt_body.
  place_members ltac:(pfcp_member).
Qed.
Lemma rmv_traffic_endpt_items v : rmv_traffic_endpt_good v ->
  decodes (decode_pfcp_rmv_traffic_endpt_ie_t zero_rmv_traffic_endpt) (el_layout v) (size (el_layout v) / 8) v.
Proof.
  intros Hg; unfold rmv_traffic_endpt_good in Hg; destruct_and! Hg. apply decodes_group; [assumption|]. unfold rmv_traffic_endpt_body.
  read_rest v.
Qed.
#[global] Instance rmv_traffic_endpt_elem_ok : PfcpElemOk pfcp_rmv_traffic_endpt_ie_t.
Proof. split_elem; [apply rmv_traffic_endpt_places|apply rmv_traffic_endpt_items|intros v (Hh & _); exact (group_element _ _ Hh)]. Qed.

(** [pfcp_create_bar_ie_t] *)

Definition create_bar_body (v : pfcp_create_bar_ie_t) : layout :=
  opt_layout v.(create_bar_bar_id) ++
  opt_layout v.(create_bar_dnlnk_data_notif_delay) ++
  opt_layout v.(create_bar_suggstd_buf_pckts_cnt) ++
  [].
Definition create_bar_good (v : pfcp_create_bar_ie_t) : Prop :=
  group_good v.(create_bar_header) (create_bar_body v) ∧
  opt_good PFCP_IE_BAR_ID v.(create_bar_bar_id) ∧
  opt_good PFCP_IE_DNLNK_DATA_NOTIF_DELAY v.(create_bar_dnlnk_data_notif_delay) ∧
  opt_good PFCP_IE_DL_BUF_SUGGSTD_PCKT_CNT v.(create_bar_suggstd_buf_pckts_cnt).
#[global] Instance create_bar_elem : PfcpElem pfcp_create_bar_ie_t :=
  {| el_header := create_bar_header; el_encode := encode_pfcp_create_bar_ie_t;
     el_decode := decode_pfcp_create_bar_ie_t;
     el_zero := zero_create_bar; el_unit := 8; el_short := false;
     el_layout v := layout_ie_header v.(create_bar_header) ++ create_bar_body v;
     el_good := create_bar_good |}.
Lemma create_bar_places v : create_bar_good v ->
  encodes (encode_pfcp_create_bar_ie_t v) (el_layout v) (size (el_layout v) / 8).
Proof.
  intros Hg; unfold create_bar_good in Hg; destruct_and! Hg. apply encodes_enc_bytes. apply places_ie_header. unfold create_bar_body.
  place_members ltac:(pfcp_member).
Qed.
Lemma create_bar_items v : create_bar_good v ->
  decodes (decode_pfcp_create_bar_ie_t zero_create_bar) (el_layout v) (size (el_layout v) / 8) v.
Proof.
  intros Hg; unfold create_bar_good in Hg; destruct_and! Hg. apply decodes_group; [assumption|]. unfold create_bar_body.
  read_rest v.
Qed.
#[global] Instance create_bar_elem_ok : PfcpElemOk pfcp_create_bar_ie_t.
Proof. split_elem; [apply create_bar_places|apply create_bar_items|intros v (Hh & _); exact (group_element _ _ Hh)]. Qed.

(** [pfcp_upd_bar_sess_mod_req_ie_t] *)

Definition upd_bar_sess_mod_req_body (v : pfcp_upd_bar_sess_mod_req_ie_t) : layout :=
  opt_layout v.(upd_bar_sess_mod_req_bar_id) ++
  opt_layout v.(upd_bar_sess_mod_req_dnlnk_data_notif_delay) ++
  opt_layout v.(upd_bar_sess_mod_req_suggstd_buf_pckts_cnt) ++
  [].
Definition upd_bar_sess_mod_req_good (v : pfcp_upd_bar_sess_mod_req_ie_t) : Prop :=
  group_good v.(upd_bar_sess_mod_req_header) (upd_bar_sess_mod_req_body v) ∧
  opt_good PFCP_IE_BAR_ID v.(upd_bar_sess_mod_req_bar_id) ∧
  opt_good PFCP_IE_DNLNK_DATA_NOTIF_DELAY v.(upd_bar_sess_mod_req_dnlnk_data_notif_delay) ∧
  opt_good PFCP_IE_SUGGSTD_BUF_PCKTS_CNT v.(upd_bar_sess_mod_req_suggstd_buf_pckts_cnt).
#[global] Instance upd_bar_sess_mod_req_elem : PfcpElem pfcp_upd_bar_sess_mod_req_ie_t :=
  {| el_header := upd_bar_sess_mod_req_header; el_encode := encode_pfcp_upd_bar_sess_mod_req_ie_t;
     el_decode := decode_pfcp_upd_bar_sess_mod_req_ie_t;
     el_zero := zero_upd_bar_sess_mod_req; el_unit := 8; el_short := false;
     el_layout v := layout_ie_header v.(upd_bar_sess_mod_req_header) ++ upd_bar_sess_mod_req_body v;
     el_good := upd_bar_sess_mod_req_good |}.
Lemma upd_bar_sess_mod_req_places v : upd_bar_sess_mod_req_good v ->
  encodes (encode_pfcp_upd_bar_sess_mod_req_ie_t v) (el_layout v) (size (el_layout v) / 8).
Proof.
  intros Hg; unfold upd_bar_sess_mod_req_good in Hg; destruct_and! Hg. apply encodes_enc_bytes. apply places_ie_header. unfold upd_bar_sess_mod_req_body.
  place_members ltac:(pfcp_member).
Qed.
Lemma upd_bar_sess_mod_req_items v : upd_bar_sess_mod_req_good v ->
  decodes (decode_pfcp_upd_bar_sess_mod_req_ie_t zero_upd_bar_sess_mod_req) (el_layout v) (size (el_layout v) / 8) v.
Proof.
  intros Hg; unfold upd_bar_sess_mod_req_good in Hg; destruct_and! Hg. apply decodes_group; [assumption|]. unfold upd_bar_sess_mod_req_body.
  read_rest v.
Qed.
#[global] Instance upd_bar_sess_mod_req_elem_ok : PfcpElemOk pfcp_upd_bar_sess_mod_req_ie_t.
Proof. split_elem; [apply upd_bar_sess_mod_req_places|apply upd_bar_sess_mod_req_items|intros v (Hh & _); exact (group_element _ _ Hh)]. Qed.

(** [pfcp_remove_pdr_ie_t] *)

Definition remove_pdr_body (v : pfcp_remove_pdr_ie_t) : layout :=
  opt_layout v.(remove_pdr_pdr_id) ++
  [].
Definition remove_pdr_good (v : pfcp_remove_pdr_ie_t) : Prop :=
  group_good v.(remove_pdr_header) (remove_pdr_body v) ∧
  opt_good PFCP_IE_PDR_ID v.(remove_pdr_pdr_id).
#[global] Instance remove_pdr_elem : PfcpElem pfcp_remove_pdr_ie_t :=
  {| el_header := remove_pdr_header; el_encode := encode_pfcp_remove_pdr_ie_t;
     el_decode := decode_pfcp_remove_pdr_ie_t;
     el_zero := zero_remove_pdr; el_unit := 8; el_short := false;
     el_layout v := layout_ie_header v.(remove_pdr_header) ++ remove_pdr_body v;
     el_good := remove_pdr_good |}.
Lemma remove_pdr_places v : remove_pdr_good v ->
  encodes (encode_pfcp_remove_pdr_ie_t v) (el_layout v) (size (el_layout v) / 8).
Proof.
  intros Hg; unfold remove_pdr_good in Hg; destruct_and! Hg. apply encodes_enc_bytes. apply places_ie_header. unfold remove_pdr_body.
  place_members ltac:(pfcp_member).
Qed.
Lemma remove_pdr_items v : remove_pdr_good v ->
  decodes (decode_pfcp_remove_pdr_ie_t zero_remove_pdr) (el_layout v) (size (el_layout v) / 8) v.
Proof.
  intros Hg; unfold remove_pdr_good in Hg; destruct_and! Hg. apply decodes_group; [assumption|]. unfold remove_pdr_body.
  read_rest v.
Qed.
#[global] Instance remove_pdr_elem_ok : PfcpElemOk pfcp_remove_pdr_ie_t.
Proof. split_elem; [apply remove_pdr_places|apply remove_pdr_items|intros v (Hh & _); exact (group_element _ _ Hh)]. Qed.

(** [pfcp_pdi_ie_t] *)

Definition pdi_body (v : pfcp_pdi_ie_t) : layout :=
  opt_layout v.(pdi_src_intfc) ++
  opt_layout v.(pdi_local_fteid) ++
  opt_layout v.(pdi_ntwk_inst) ++
  opt_layout v.(pdi_traffic_endpt_id) ++
  opt_layout v.(pdi_application_id) ++
  opt_layout v.(pdi_eth_pdu_sess_info) ++
  opt_layout v.(pdi_framed_routing) ++
  arr_layout v.(pdi_sdf_filter_count) v.(pdi_sdf_filter) ++
  arr_layout v.(pdi_qfi_count) v.(pdi_qfi) ++
  [].
Definition pdi_good (v : pfcp_pdi_ie_t) : Prop :=
  group_good v.(pdi_header) (pdi_body v) ∧
  opt_good PFCP_IE_SRC_INTFC v.(pdi_src_intfc) ∧
  opt_good PFCP_IE_FTEID v.(pdi_local_fteid) ∧
  opt_good PFCP_IE_NTWK_INST v.(pdi_ntwk_inst) ∧
  opt_good PFCP_IE_TRAFFIC_ENDPT_ID v.(pdi_traffic_endpt_id) ∧
  opt_good PFCP_IE_APPLICATION_ID v.(pdi_application_id) ∧
  opt_good PFCP_IE_ETH_PDU_SESS_INFO v.(pdi_eth_pdu_sess_info) ∧
  opt_good PFCP_IE_FRAMED_ROUTING v.(pdi_framed_routing) ∧
  arr_good MAX_LIST_SIZE PFCP_IE_SDF_FILTER v.(pdi_sdf_filter_count) v.(pdi_sdf_filter) ∧
  arr_good MAX_LIST_SIZE PFCP_IE_QFI v.(pdi_qfi_count) v.(pdi_qfi) ∧
  v.(pdi_ue_ip_address) = zero_ue_ip_address ∧
  v.(pdi_eth_pckt_fltr_count) = 0 ∧
  v.(pdi_eth_pckt_fltr) = repeat zero_eth_pckt_fltr MAX_LIST_SIZE ∧
  v.(pdi_framed_route_count) = 0 ∧
  v.(pdi_framed_route) = repeat zero_framed_route MAX_LIST_SIZE ∧
  v.(pdi_frmd_ipv6_route_count) = 0 ∧
  v.(pdi_frmd_ipv6_rte) = repeat zero_frmd_ipv6_route MAX_LIST_SIZE.
#[global] Instance pdi_elem : PfcpElem pfcp_pdi_ie_t :=
  {| el_header := pdi_header; el_encode := encode_pfcp_pdi_ie_t;
     el_decode := decode_pfcp_pdi_ie_t;
     el_zero := zero_pdi; el_unit := 1; el_short := false;
     el_layout v := layout_ie_header v.(pdi_header) ++ pdi_body v;
     el_good := pdi_good |}.
Lemma pdi_places v : pdi_good v ->
  encodes (encode_pfcp_pdi_ie_t v) (el_layout v) (size (el_layout v) / 1).
Proof.
  intros Hg; unfold pdi_good in Hg; destruct_and! Hg. apply (encodes_enc_bits 1); [by left|]. apply places_ie_header. unfold pdi_body.
  place_members ltac:(pfcp_member).
Qed.
Lemma pdi_items v : pdi_good v ->
  decodes (decode_pfcp_pdi_ie_t zero_pdi) (el_layout v) (size (el_layout v) / 8) v.
Proof.
  intros Hg; unfold pdi_good in Hg; destruct_and! Hg. apply decodes_group; [assumption|]. unfold pdi_body.
  repeat read_member. read_members PFCP_IE_SDF_FILTER 8 MAX_LIST_SIZE pdi_sdf_filter pdi_sdf_filter_count set_pdi_sdf_filter set_pdi_sdf_filter_count.
  repeat read_member. read_members PFCP_IE_QFI 8 MAX_LIST_SIZE pdi_qfi pdi_qfi_count set_pdi_qfi set_pdi_qfi_count.
  read_rest v.
Qed.
#[global] Instance pdi_elem_ok : PfcpElemOk pfcp_pdi_ie_t.
Proof. split_elem; [apply pdi_places|apply pdi_items|intros v (Hh & _); exact (group_element _ _ Hh)]. Qed.

(** [pfcp_create_pdr_ie_t] *)

Definition create_pdr_body (v : pfcp_create_pdr_ie_t) : layout :=
  opt_layout v.(create_pdr_pdr_id) ++
  opt_layout v.(create_pdr_precedence) ++
  opt_layout v.(create_pdr_pdi) ++
  opt_layout v.(create_pdr_outer_hdr_removal) ++
  opt_layout v.(create_pdr_far_id) ++
  arr_layout v.(create_pdr_urr_id_count) v.(create_pdr_urr_id) ++
  arr_layout v.(create_pdr_qer_id_count) v.(create_pdr_qer_id) ++
  [].
Definition create_pdr_good (v : pfcp_create_pdr_ie_t) : Prop :=
  group_good v.(create_pdr_header) (create_pdr_body v) ∧
  opt_good PFCP_IE_PDR_ID v.(create_pdr_pdr_id) ∧
  opt_good PFCP_IE_PRECEDENCE v.(create_pdr_precedence) ∧
  opt_good PFCP_IE_PDI v.(create_pdr_pdi) ∧
  opt_good PFCP_IE_OUTER_HDR_REMOVAL v.(create_pdr_outer_hdr_removal) ∧
  opt_good PFCP_IE_FAR_ID v.(create_pdr_far_id) ∧
  arr_good MAX_LIST_SIZE PFCP_IE_URR_ID v.(create_pdr_urr_id_count) v.(create_pdr_urr_id) ∧
  arr_good MAX_LIST_SIZE PFCP_IE_QER_ID v.(create_pdr_qer_id_count) v.(create_pdr_qer_id) ∧
  v.(create_pdr_actvt_predef_rules_count) = 0 ∧
  v.(create_pdr_actvt_predef_rules) = repeat zero_actvt_predef_rules MAX_LIST_SIZE.
#[global] Instance create_pdr_elem : PfcpElem pfcp_create_pdr_ie_t :=
  {| el_header := create_pdr_header; el_encode := encode_pfcp_create_pdr_ie_t;
     el_decode := decode_pfcp_create_pdr_ie_t;
     el_zero := zero_create_pdr; el_unit := 8; el_short := false;
     el_layout v := layout_ie_header v.(create_pdr_header) ++ create_pdr_body v;
     el_good := create_pdr_good |}.
Lemma create_pdr_places v : create_pdr_good v ->
  encodes (encode_pfcp_create_pdr_ie_t v) (el_layout v) (size (el_layout v) / 8).
Proof.
  intros Hg; unfold create_pdr_good in Hg; destruct_and! Hg. apply encodes_enc_bytes. apply places_ie_header. unfold create_pdr_body.
  place_members ltac:(pfcp_member).
Qed.
Lemma create_pdr_items v : create_pdr_good v ->
  decodes (decode_pfcp_create_pdr_ie_t zero_create_pdr) (el_layout v) (size (el_layout v) / 8) v.
Proof.
  intros Hg; unfold create_pdr_good in Hg; destruct_and! Hg. apply decodes_group; [assumption|]. unfold create_pdr_body.
  repeat read_member. read_members PFCP_IE_URR_ID 8 MAX_LIST_SIZE create_pdr_urr_id create_pdr_urr_id_count set_create_pdr_urr_id set_create_pdr_urr_id_count.
  repeat read_member. read_members PFCP_IE_QER_ID 8 MAX_LIST_SIZE create_pdr_qer_id create_pdr_qer_id_count set_create_pdr_qer_id set_create_pdr_qer_id_count.
  read_rest v.
Qed.
#[global] Instance create_pdr_elem_ok : PfcpElemOk pfcp_create_pdr_ie_t.
Proof. split_elem; [apply create_pdr_places|apply create_pdr_items|intros v (Hh & _); exact (group_element _ _ Hh)]. Qed.

(** [pfcp_create_far_ie_t] *)

Definition create_far_body (v : pfcp_create_far_ie_t) : layout :=
  opt_layout v.(create_far_far_id) ++
  opt_layout v.(create_far_apply_action) ++
  opt_layout v.(create_far_frwdng_parms) ++
  [].
Definition create_far_good (v : pfcp_create_far_ie_t) : Prop :=
  group_good v.(create_far_header) (create_far_body v) ∧
  opt_good PFCP_IE_FAR_ID v.(create_far_far_id) ∧
  opt_good PFCP_IE_APPLY_ACTION v.(create_far_apply_action) ∧
  opt_good PFCP_IE_FRWDNG_PARMS v.(create_far_frwdng_parms) ∧
  v.(create_far_bar_id) = zero_bar_id ∧
  v.(create_far_dupng_parms_count) = 0 ∧
  v.(create_far_dupng_parms) = repeat zero_dupng_parms MAX_LIST_SIZE.
#[global] Instance create_far_elem : PfcpElem pfcp_create_far_ie_t :=
  {| el_header := create_far_header; el_encode := encode_pfcp_create_far_ie_t;
     el_decode := decode_pfcp_create_far_ie_t;
     el_zero := zero_create_far; el_unit := 8; el_short := false;
     el_layout v := layout_ie_header v.(create_far_header) ++ create_far_body v;
     el_good := create_far_good |}.
Lemma create_far_places v : create_far_good v ->
  encodes (encode_pfcp_create_far_ie_t v) (el_layout v) (size (el_layout v) / 8).
Proof.
  intros Hg; unfold create_far_good in Hg; destruct_and! Hg. apply encodes_enc_bytes. apply places_ie_header. unfold create_far_body.
  place_members ltac:(pfcp_member).
Qed.
Lemma create_far_items v : create_far_good v ->
  decodes (decode_pfcp_create_far_ie_t zero_create_far) (el_layout v) (size (el_layout v) / 8) v.
Proof.
  intros Hg; unfold create_far_good in Hg; destruct_and! Hg. apply decodes_group; [assumption|]. unfold create_far_body.
  read_rest v.
Qed.
#[global] Instance create_far_elem_ok : PfcpElemOk pfcp_create_far_ie_t.
Proof. split_elem; [apply create_far_places|apply create_far_items|intros v (Hh & _); exact (group_element _ _ Hh)]. Qed.

(** [pfcp_create_qer_ie_t] *)

Definition create_qer_body (v : pfcp_create_qer_ie_t) : layout :=
  opt_layout v.(create_qer_qer_id) ++
  opt_layout v.(create_qer_qer_corr_id) ++
  opt_layout v.(create_qer_gate_status) ++
  opt_layout v.(create_qer_maximum_bitrate) ++
  opt_layout v.(create_qer_guaranteed_bitrate) ++
  opt_layout v.(create_qer_qos_flow_ident) ++
  opt_layout v.(create_qer_reflective_qos) ++
  opt_layout v.(create_qer_paging_plcy_indctr) ++
  opt_layout v.(create_qer_avgng_wnd) ++
  [].
Definition create_qer_good (v : pfcp_create_qer_ie_t) : Prop :=
  group_good v.(create_qer_header) (create_qer_body v) ∧
  opt_good PFCP_IE_QER_ID v.(create_qer_qer_id) ∧
  opt_good PFCP_IE_QER_CORR_ID v.(create_qer_qer_corr_id) ∧
  opt_good PFCP_IE_GATE_STATUS v.(create_qer_gate_status) ∧
  opt_good PFCP_IE_MBR v.(create_qer_maximum_bitrate) ∧
  opt_good PFCP_IE_GBR v.(create_qer_guaranteed_bitrate) ∧
  opt_good PFCP_IE_QFI v.(create_qer_qos_flow_ident) ∧
  opt_good PFCP_IE_RQI v.(create_qer_reflective_qos) ∧
  opt_good PFCP_IE_PAGING_PLCY_INDCTR v.(create_qer_paging_plcy_indctr) ∧
  opt_good PFCP_IE_AVGNG_WND v.(create_qer_avgng_wnd) ∧
  v.(create_qer_packet_rate) = zero_packet_rate ∧
  v.(create_qer_dl_flow_lvl_marking) = zero_dl_flow_lvl_marking.
#[global] Instance create_qer_elem : PfcpElem pfcp_create_qer_ie_t :=
  {| el_header := create_qer_header; el_encode := encode_pfcp_create_qer_ie_t;
     el_decode := decode_pfcp_create_qer_ie_t;
     el_zero := zero_create_qer; el_unit := 8; el_short := false;
     el_layout v := layout_ie_header v.(create_qer_header) ++ create_qer_body v;
     el_good := create_qer_good |}.
Lemma create_qer_places v : create_qer_good v ->
  encodes (encode_pfcp_create_qer_ie_t v) (el_layout v) (size (el_layout v) / 8).
Proof.
  intros Hg; unfold create_qer_good in Hg; destruct_and! Hg. apply encodes_enc_bytes. apply places_ie_header. unfold create_qer_body.
  place_members ltac:(pfcp_member).
Qed.
Lemma create_qer_items v : create_qer_good v ->
  decodes (decode_pfcp_create_qer_ie_t zero_create_qer) (el_layout v) (size (el_layout v) / 8) v.
Proof.
  intros Hg; unfold create_qer_good in Hg; destruct_and! Hg. apply decodes_group; [assumption|]. unfold create_qer_body.
  read_rest v.
Qed.
#[global] Instance create_qer_elem_ok : PfcpElemOk pfcp_create_qer_ie_t.
Proof. split_elem; [apply create_qer_places|apply create_qer_items|intros v (Hh & _); exact (group_element _ _ Hh)]. Qed.

(** [pfcp_update_pdr_ie_t] *)

Definition update_pdr_body (v : pfcp_update_pdr_ie_t) : layout :=
  opt_layout v.(update_pdr_pdr_id) ++
  opt_layout v.(update_pdr_outer_hdr_removal) ++
  opt_layout v.(update_pdr_precedence) ++
  opt_layout v.(update_pdr_pdi) ++
  opt_layout v.(update_pdr_far_id) ++
  opt_layout v.(update_pdr_urr_id) ++
  opt_layout v.(update_pdr_qer_id) ++
  [].
Definition update_pdr_good (v : pfcp_update_pdr_ie_t) : Prop :=
  group_good v.(update_pdr_header) (update_pdr_body v) ∧
  opt_good PFCP_IE_PDR_ID v.(update_pdr_pdr_id) ∧
  opt_good PFCP_IE_OUTER_HDR_REMOVAL v.(update_pdr_outer_hdr_removal) ∧
  opt_good PFCP_IE_PRECEDENCE v.(update_pdr_precedence) ∧
  opt_good PFCP_IE_PDI v.(update_pdr_pdi) ∧
  opt_good PFCP_IE_FAR_ID v.(update_pdr_far_id) ∧
  opt_good PFCP_IE_URR_ID v.(update_pdr_urr_id) ∧
  opt_good PFCP_IE_QER_ID v.(update_pdr_qer_id) ∧
  v.(update_pdr_actvt_predef_rules_count) = 0 ∧
  v.(update_pdr_actvt_predef_rules) = repeat zero_actvt_predef_rules MAX_LIST_SIZE ∧
  v.(update_pdr_deact_predef_rules_count) = 0 ∧
  v.(update_pdr_deact_predef_rules) = repeat zero_deact_predef_rules MAX_LIST_SIZE.
#[global] Instance update_pdr_elem : PfcpElem pfcp_update_pdr_ie_t :=
  {| el_header := update_pdr_header; el_encode := encode_pfcp_update_pdr_ie_t;
     el_decode := decode_pfcp_update_pdr_ie_t;
     el_zero := zero_update_pdr; el_unit := 8; el_short := false;
     el_layout v := layout_ie_header v.(update_pdr_header) ++ update_pdr_body v;
     el_good := update_pdr_good |}.
Lemma update_pdr_places v : update_pdr_good v ->
  encodes (encode_pfcp_update_pdr_ie_t v) (el_layout v) (size (el_layout v) / 8).
Proof.
  intros Hg; unfold update_pdr_good in Hg; destruct_and! Hg. apply encodes_enc_bytes. apply places_ie_header. unfold update_pdr_body.
  place_members ltac:(pfcp_member).
Qed.
Lemma update_pdr_items v : update_pdr_good v ->
  decodes (decode_pfcp_update_pdr_ie_t zero_update_pdr) (el_layout v) (size (el_layout v) / 8) v.
Proof.
  intros Hg; unfold update_pdr_good in Hg; destruct_and! Hg. apply decodes_group; [assumption|]. unfold update_pdr_body.
  read_rest v.
Qed.
#[global] Instance update_pdr_elem_ok : PfcpElemOk pfcp_update_pdr_ie_t.
Proof. split_elem; [apply update_pdr_places|apply update_pdr_items|intros v (Hh & _); exact (group_element _ _ Hh)]. Qed.

(** [pfcp_upd_frwdng_parms_ie_t] *)

Definition upd_frwdng_parms_body (v : pfcp_upd_frwdng_parms_ie_t) : layout :=
  opt_layout v.(upd_frwdng_parms_dst_intfc) ++
  opt_layout v.(upd_frwdng_parms_outer_hdr_creation) ++
  opt_layout v.(upd_frwdng_parms_pfcpsmreq_flags) ++
  [].
Definition upd_frwdng_parms_good (v : pfcp_upd_frwdng_parms_ie_t) : Prop :=
  group_good v.(upd_frwdng_parms_header) (upd_frwdng_parms_body v) ∧
  opt_good PFCP_IE_DST_INTFC v.(upd_frwdng_parms_dst_intfc) ∧
  opt_good PFCP_IE_OUTER_HDR_CREATION v.(upd_frwdng_parms_outer_hdr_creation) ∧
  opt_good PFCP_IE_PFCPSMREQ_FLAGS v.(upd_frwdng_parms_pfcpsmreq_flags) ∧
  v.(upd_frwdng_parms_ntwk_inst) = zero_ntwk_inst ∧
  v.(upd_frwdng_parms_redir_info) = zero_redir_info ∧
  v.(upd_frwdng_parms_trnspt_lvl_marking) = zero_trnspt_lvl_marking ∧
  v.(upd_frwdng_parms_frwdng_plcy) = zero_frwdng_plcy ∧
  v.(upd_frwdng_parms_hdr_enrchmt) = zero_hdr_enrchmt ∧
  v.(upd_frwdng_parms_lnkd_traffic_endpt_id) = zero_traffic_endpt_id.
#[global] Instance upd_frwdng_parms_elem : PfcpElem pfcp_upd_frwdng_parms_ie_t :=
  {| el_header := upd_frwdng_parms_header; el_encode := encode_pfcp_upd_frwdng_parms_ie_t;
     el_decode := decode_pfcp_upd_frwdng_parms_ie_t;
     el_zero := zero_upd_frwdng_parms; el_unit := 1; el_short := false;
     el_layout v := layout_ie_header v.(upd_frwdng_parms_header) ++ upd_frwdng_parms_body v;
     el_good := upd_frwdng_parms_good |}.
Lemma upd_frwdng_parms_places v : upd_frwdng_parms_good v ->
  encodes (encode_pfcp_upd_frwdng_parms_ie_t v) (el_layout v) (size (el_layout v) / 1).
Proof.
  intros Hg; unfold upd_frwdng_parms_good in Hg; destruct_and! Hg. apply (encodes_enc_bits 1); [by left|]. apply places_ie_header. unfold upd_frwdng_parms_body.
  place_members ltac:(pfcp_member).
Qed.
Lemma upd_frwdng_parms_items v : upd_frwdng_parms_good v ->
  decodes (decode_pfcp_upd_frwdng_parms_ie_t zero_upd_frwdng_parms) (el_layout v) (size (el_layout v) / 8) v.
Proof.
  intros Hg; unfold upd_frwdng_parms_good in Hg; destruct_and! Hg. apply decodes_group; [assumption|]. unfold upd_frwdng_parms_body.
  read_rest v.
Qed.
#[global] Instance upd_frwdng_parms_elem_ok : PfcpElemOk pfcp_upd_frwdng_parms_ie_t.
Proof. split_elem; [apply upd_frwdng_parms_places|apply upd_frwdng_parms_items|intros v (Hh & _); exact (group_element _ _ Hh)]. Qed.

(** [pfcp_update_far_ie_t] *)

Definition update_far_body (v : pfcp_update_far_ie_t) : layout :=
  opt_layout v.(update_far_far_id) ++
  opt_layout v.(update_far_apply_action) ++
  opt_layout v.(update_far_upd_frwdng_parms) ++
  [].
Definition update_far_good (v : pfcp_update_far_ie_t) : Prop :=
  group_good v.(update_far_header) (update_far_body v) ∧
  opt_good PFCP_IE_FAR_ID v.(update_far_far_id) ∧
  opt_good PFCP_IE_APPLY_ACTION v.(update_far_apply_action) ∧
  opt_good PFCP_IE_UPD_FRWDNG_PARMS v.(update_far_upd_frwdng_parms) ∧
  v.(update_far_bar_id) = zero_bar_id ∧
  v.(update_far_upd_dupng_parms_count) = 0 ∧
  v.(update_far_upd_dupng_parms) = repeat zero_upd_dupng_parms MAX_LIST_SIZE.
#[global] Instance update_far_elem : PfcpElem pfcp_update_far_ie_t :=
  {| el_header := update_far_header; el_encode := encode_pfcp_update_far_ie_t;
     el_decode := decode_pfcp_update_far_ie_t;
     el_zero := zero_update_far; el_unit := 8; el_short := false;
     el_layout v := layout_ie_header v.(update_far_header) ++ update_far_body v;
     el_good := update_far_good |}.
Lemma update_far_places v : update_far_good v ->
  encodes (encode_pfcp_update_far_ie_t v) (el_layout v) (size (el_layout v) / 8).
Proof.
  intros Hg; unfold update_far_good in Hg; destruct_and! Hg. apply encodes_enc_bytes. apply places_ie_header. unfold update_far_body.
  place_members ltac:(pfcp_member).
Qed.
Lemma update_far_items v : update_far_good v ->
  decodes (decode_pfcp_update_far_ie_t zero_update_far) (el_layout v) (size (el_layout v) / 8) v.
Proof.
  intros Hg; unfold update_far_good in Hg; destruct_and! Hg. apply decodes_group; [assumption|]. unfold update_far_body.
  read_rest v.
Qed.
#[global] Instance update_far_elem_ok : PfcpElemOk pfcp_update_far_ie_t.
Proof. split_elem; [apply update_far_places|apply update_far_items|intros v (Hh & _); exact (group_element _ _ Hh)]. Qed.

(** [pfcp_update_qer_ie_t] *)

Definition update_qer_body (v : pfcp_update_qer_ie_t) : layout :=
  opt_layout v.(update_qer_qer_id) ++
  opt_layout v.(update_qer_qer_corr_id) ++
  opt_layout v.(update_qer_gate_status) ++
  opt_layout v.(update_qer_maximum_bitrate) ++
  opt_layout v.(update_qer_guaranteed_bitrate) ++
  opt_layout v.(update_qer_qos_flow_ident) ++
  opt_layout v.(update_qer_reflective_qos) ++
  opt_layout v.(update_qer_paging_plcy_indctr) ++
  opt_layout v.(update_qer_avgng_wnd) ++
  [].
Definition update_qer_good (v : pfcp_update_qer_ie_t) : Prop :=
  group_good v.(update_qer_header) (update_qer_body v) ∧
  opt_good PFCP_IE_QER_ID v.(update_qer_qer_id) ∧
  opt_good PFCP_IE_QER_CORR_ID v.(update_qer_qer_corr_id) ∧
  opt_good PFCP_IE_GATE_STATUS v.(update_qer_gate_status) ∧
  opt_good PFCP_IE_MBR v.(update_qer_maximum_bitrate) ∧
  opt_good PFCP_IE_GBR v.(update_qer_guaranteed_bitrate) ∧
  opt_good PFCP_IE_QFI v.(update_qer_qos_flow_ident) ∧
  opt_good PFCP_IE_RQI v.(update_qer_reflective_qos) ∧
  opt_good PFCP_IE_PAGING_PLCY_INDCTR v.(update_qer_paging_plcy_indctr) ∧
  opt_good PFCP_IE_AVGNG_WND v.(update_qer_avgng_wnd) ∧
  v.(update_qer_packet_rate) = zero_packet_rate ∧
  v.(update_qer_dl_flow_lvl_marking) = zero_dl_flow_lvl_marking.
#[global] Instance update_qer_elem : PfcpElem pfcp_update_qer_ie_t :=
  {| el_header := update_qer_header; el_encode := encode_pfcp_update_qer_ie_t;
     el_decode := decode_pfcp_update_qer_ie_t;
     el_zero := zero_update_qer; el_unit := 8; el_short := false;
     el_layout v := layout_ie_header v.(update_qer_header) ++ update_qer_body v;
     el_good := update_qer_good |}.
Lemma update_qer_places v : update_qer_good v ->
  encodes (encode_pfcp_update_qer_ie_t v) (el_layout v) (size (el_layout v) / 8).
Proof.
  intros Hg; unfold update_qer_good in Hg; destruct_and! Hg. apply encodes_enc_bytes. apply places_ie_header. unfold update_qer_body.
  place_members ltac:(pfcp_member).
Qed.
Lemma update_qer_items v : update_qer_good v ->
  decodes (decode_pfcp_update_qer_ie_t zero_update_qer) (el_layout v) (size (el_layout v) / 8) v.
Proof.
  intros Hg; unfold update_qer_good in Hg; destruct_and! Hg. apply decodes_group; [assumption|]. unfold update_qer_body.
  read_rest v.
Qed.
#[global] Instance update_qer_elem_ok : PfcpElemOk pfcp_update_qer_ie_t.
Proof. split_elem; [apply update_qer_places|apply update_qer_items|intros v (Hh & _); exact (group_element _ _ Hh)]. Qed.

(** [pfcp_created_pdr_ie_t] *)

Definition created_pdr_body (v : pfcp_created_pdr_ie_t) : layout :=
  opt_layout v.(created_pdr_pdr_id) ++
  opt_layout v.(created_pdr_local_fteid) ++
  [].
Definition created_pdr_good (v : pfcp_created_pdr_ie_t) : Prop :=
  group_good v.(created_pdr_header) (created_pdr_body v) ∧
  opt_good PFCP_IE_PDR_ID v.(created_pdr_pdr_id) ∧
  opt_good PFCP_IE_FTEID v.(created_pdr_local_fteid) ∧
  v.(created_pdr_ue_ip_address) = zero_ue_ip_address.
#[global] Instance created_pdr_elem : PfcpElem pfcp_created_pdr_ie_t :=
  {| el_header := created_pdr_header; el_encode := encode_pfcp_created_pdr_ie_t;
     el_decode := decode_pfcp_created_pdr_ie_t;
     el_zero := zero_created_pdr; el_unit := 8; el_short := false;
     el_layout v := layout_ie_header v.(created_pdr_header) ++ created_pdr_body v;
     el_good := created_pdr_good |}.
Lemma created_pdr_places v : created_pdr_good v ->
  encodes (encode_pfcp_created_pdr_ie_t v) (el_layout v) (size (el_layout v) / 8).
Proof.
  intros Hg; unfold created_pdr_good in Hg; destruct_and! Hg. apply encodes_enc_bytes. apply places_ie_header. unfold created_pdr_body.
  place_members ltac:(pfcp_member).
Qed.
Lemma created_pdr_items v : created_pdr_good v ->
  decodes (decode_pfcp_created_pdr_ie_t zero_created_pdr) (el_layout v) (size (el_layout v) / 8) v.
Proof.
  intros Hg; unfold created_pdr_good in Hg; destruct_and! Hg. apply decodes_group; [assumption|]. unfold created_pdr_body.
  read_rest v.
Qed.
#[global] Instance created_pdr_elem_ok : PfcpElemOk pfcp_created_pdr_ie_t.
Proof. split_elem; [apply created_pdr_places|apply created_pdr_items|intros v (Hh & _); exact (group_element _ _ Hh)]. Qed.

(** [pfcp_hrtbeat_req_t] *)

Definition hrtbeat_req_body (v : pfcp_hrtbeat_req_t) : layout :=
  opt_layout v.(hrtbeat_req_rcvry_time_stmp) ++
  [].
Definition hrtbeat_req_good (v : pfcp_hrtbeat_req_t) : Prop :=
  message_good v.(hrtbeat_req_header) (hrtbeat_req_body v) ∧
  opt_good PFCP_IE_RCVRY_TIME_STMP v.(hrtbeat_req_rcvry_time_stmp).
Definition hrtbeat_req_layout (v : pfcp_hrtbeat_req_t) : layout := layout_header v.(hrtbeat_req_header) ++ hrtbeat_req_body v.
Lemma hrtbeat_req_encodes v : hrtbeat_req_good v ->
  encodes (encode_pfcp_hrtbeat_req_t v) (hrtbeat_req_layout v) (size (hrtbeat_req_layout v) / 8).
Proof.
  intros Hg; unfold hrtbeat_req_good in Hg; destruct_and! Hg.
  apply (encodes_enc_bits 8); [by right|]. apply places_header; [by header_ok|]. unfold hrtbeat_req_body.
  place_members ltac:(pfcp_member).
Qed.
Lemma hrtbeat_req_decodes v : hrtbeat_req_good v ->
  decodes (decode_pfcp_hrtbeat_req_t zero_hrtbeat_req) (hrtbeat_req_layout v) (size (hrtbeat_req_body v) / 8) v.
Proof.
  intros Hg; unfold hrtbeat_req_good in Hg; destruct_and! Hg. apply decodes_message; [assumption|]. unfold hrtbeat_req_body.
  read_rest v.
Qed.

(** [pfcp_hrtbeat_rsp_t] *)

Definition hrtbeat_rsp_body (v : pfcp_hrtbeat_rsp_t) : layout :=
  opt_layout v.(hrtbeat_rsp_rcvry_time_stmp) ++
  [].
Definition hrtbeat_rsp_good (v : pfcp_hrtbeat_rsp_t) : Prop :=
  message_good v.(hrtbeat_rsp_header) (hrtbeat_rsp_body v) ∧
  opt_good PFCP_IE_RCVRY_TIME_STMP v.(hrtbeat_rsp_rcvry_time_stmp).
Definition hrtbeat_rsp_layout (v : pfcp_hrtbeat_rsp_t) : layout := layout_header v.(hrtbeat_rsp_header) ++ hrtbeat_rsp_body v.
Lemma hrtbeat_rsp_encodes v : hrtbeat_rsp_good v ->
  encodes (encode_pfcp_hrtbeat_rsp_t v) (hrtbeat_rsp_layout v) (size (hrtbeat_rsp_layout v) / 8).
Proof.
  intros Hg; unfold hrtbeat_rsp_good in Hg; destruct_and! Hg.
  apply (encodes_enc_bits 8); [by right|]. apply places_header; [by header_ok|]. unfold hrtbeat_rsp_body.
  place_members ltac:(pfcp_member).
Qed.
Lemma hrtbeat_rsp_decodes v : hrtbeat_rsp_good v ->
  decodes (decode_pfcp_hrtbeat_rsp_t zero_hrtbeat_rsp) (hrtbeat_rsp_layout v) (size (hrtbeat_rsp_body v) / 8) v.
Proof.
  intros Hg; unfold hrtbeat_rsp_good in Hg; destruct_and! Hg. apply decodes_message; [assumption|]. unfold hrtbeat_rsp_body.
  read_rest v.
Qed.

(** [pfcp_pfd_mgmt_req_t] *)

Definition pfd_mgmt_req_body (v : pfcp_pfd_mgmt_req_t) : layout :=
  arr_layout v.(pfd_mgmt_req_app_ids_pfds_count) v.(pfd_mgmt_req_app_ids_pfds) ++
  [].
Definition pfd_mgmt_req_good (v : pfcp_pfd_mgmt_req_t) : Prop :=
  message_good v.(pfd_mgmt_req_header) (pfd_mgmt_req_body v) ∧
  arr_good MAX_LIST_SIZE PFCP_IE_APP_IDS_PFDS v.(pfd_mgmt_req_app_ids_pfds_count) v.(pfd_mgmt_req_app_ids_pfds).
Definition pfd_mgmt_req_layout (v : pfcp_pfd_mgmt_req_t) : layout := layout_header v.(pfd_mgmt_req_header) ++ pfd_mgmt_req_body v.
Lemma pfd_mgmt_req_encodes v : pfd_mgmt_req_good v ->
  encodes (encode_pfcp_pfd_mgmt_req_t v) (pfd_mgmt_req_layout v) (size (pfd_mgmt_req_layout v) / 8).
Proof.
  intros Hg; unfold pfd_mgmt_req_good in Hg; destruct_and! Hg.
  apply (encodes_enc_bits 8); [by right|]. apply places_header; [by header_ok|]. unfold pfd_mgmt_req_body.
  place_members ltac:(pfcp_member).
Qed.
Lemma pfd_mgmt_req_decodes v : pfd_mgmt_req_good v ->
  decodes (decode_pfcp_pfd_mgmt_req_t zero_pfd_mgmt_req) (pfd_mgmt_req_layout v) (size (pfd_mgmt_req_body v) / 8) v.
Proof.
  intros Hg; unfold pfd_mgmt_req_good in Hg; destruct_and! Hg. apply decodes_message; [assumption|]. unfold pfd_mgmt_req_body.
  repeat read_member. read_members PFCP_IE_APP_IDS_PFDS 8 MAX_LIST_SIZE pfd_mgmt_req_app_ids_pfds pfd_mgmt_req_app_ids_pfds_count set_pfd_mgmt_req_app_ids_pfds set_pfd_mgmt_req_app_ids_pfds_count.
  read_rest v.
Qed.

(** [pfcp_pfd_mgmt_rsp_t] *)

Definition pfd_mgmt_rsp_body (v : pfcp_pfd_mgmt_rsp_t) : layout :=
  opt_layout v.(pfd_mgmt_rsp_cause) ++
  opt_layout v.(pfd_mgmt_rsp_offending_ie) ++
  [].
Definition pfd_mgmt_rsp_good (v : pfcp_pfd_mgmt_rsp_t) : Prop :=
  message_good v.(pfd_mgmt_rsp_header) (pfd_mgmt_rsp_body v) ∧
  opt_good PFCP_IE_CAUSE v.(pfd_mgmt_rsp_cause) ∧
  opt_good PFCP_IE_OFFENDING_IE v.(pfd_mgmt_rsp_offending_ie).
Definition pfd_mgmt_rsp_layout (v : pfcp_pfd_mgmt_rsp_t) : layout := layout_header v.(pfd_mgmt_rsp_header) ++ pfd_mgmt_rsp_body v.
Lemma pfd_mgmt_rsp_encodes v : pfd_mgmt_rsp_good v ->
  encodes (encode_pfcp_pfd_mgmt_rsp_t v) (pfd_mgmt_rsp_layout v) (size (pfd_mgmt_rsp_layout v) / 8).
Proof.
  intros Hg; unfold pfd_mgmt_rsp_good in Hg; destruct_and! Hg.
  apply (encodes_enc_bits 8); [by right|]. apply places_header; [by header_ok|]. unfold pfd_mgmt_rsp_body.
  place_members ltac:(pfcp_member).
Qed.
Lemma pfd_mgmt_rsp_decodes v : pfd_mgmt_rsp_good v ->
  decodes (decode_pfcp_pfd_mgmt_rsp_t zero_pfd_mgmt_rsp) (pfd_mgmt_rsp_layout v) (size (pfd_mgmt_rsp_body v) / 8) v.
Proof.
  intros Hg; unfold pfd_mgmt_rsp_good in Hg; destruct_and! Hg. apply decodes_message; [assumption|]. unfold pfd_mgmt_rsp_body.
  read_rest v.
Qed.

(** [pfcp_assn_setup_req_t] *)

Definition assn_setup_req_body (v : pfcp_assn_setup_req_t) : layout :=
  opt_layout v.(assn_setup_req_node_id) ++
  opt_layout v.(assn_setup_req_rcvry_time_stmp) ++
  opt_layout v.(assn_setup_req_up_func_feat) ++
  opt_layout v.(assn_setup_req_cp_func_feat) ++
  arr_layout v.(assn_setup_req_user_plane_ip_rsrc_info_count) v.(assn_setup_req_user_plane_ip_rsrc_info) ++
  [].
Definition assn_setup_req_good (v : pfcp_assn_setup_req_t) : Prop :=
  message_good v.(assn_setup_req_header) (assn_setup_req_body v) ∧
  opt_good PFCP_IE_NODE_ID v.(assn_setup_req_node_id) ∧
  opt_good PFCP_IE_RCVRY_TIME_STMP v.(assn_setup_req_rcvry_time_stmp) ∧
  opt_good PFCP_IE_UP_FUNC_FEAT v.(assn_setup_req_up_func_feat) ∧
  opt_good PFCP_IE_CP_FUNC_FEAT v.(assn_setup_req_cp_func_feat) ∧
  arr_good MAX_LIST_SIZE PFCP_IE_USER_PLANE_IP_RSRC_INFO v.(assn_setup_req_user_plane_ip_rsrc_info_count) v.(assn_setup_req_user_plane_ip_rsrc_info).
Definition assn_setup_req_layout (v : pfcp_assn_setup_req_t) : layout := layout_header v.(assn_setup_req_header) ++ assn_setup_req_body v.
Lemma assn_setup_req_encodes v : assn_setup_req_good v ->
  encodes (encode_pfcp_assn_setup_req_t v) (assn_setup_req_layout v) (size (assn_setup_req_layout v) / 8).
Proof.
  intros Hg; unfold assn_setup_req_good in Hg; destruct_and! Hg.
  apply (encodes_enc_bits 8); [by right|]. apply places_header; [by header_ok|]. unfold assn_setup_req_body.
  place_members ltac:(pfcp_member).
Qed.
Lemma assn_setup_req_decodes v : assn_setup_req_good v ->
  decodes (decode_pfcp_assn_setup_req_t zero_assn_setup_req) (assn_setup_req_layout v) (size (assn_setup_req_body v) / 8) v.
Proof.
  intros Hg; unfold assn_setup_req_good in Hg; destruct_and! Hg. apply decodes_message; [assumption|]. unfold assn_setup_req_body.
  repeat read_member. read_members PFCP_IE_USER_PLANE_IP_RSRC_INFO 8 MAX_LIST_SIZE assn_setup_req_user_plane_ip_rsrc_info assn_setup_req_user_plane_ip_rsrc_info_count set_assn_setup_req_user_plane_ip_rsrc_info set_assn_setup_req_user_plane_ip_rsrc_info_count.
  read_rest v.
Qed.

(** [pfcp_assn_setup_rsp_t] *)

Definition assn_setup_rsp_body (v : pfcp_assn_setup_rsp_t) : layout :=
  opt_layout v.(assn_setup_rsp_node_id) ++
  opt_layout v.(assn_setup_rsp_cause) ++
  opt_layout v.(assn_setup_rsp_rcvry_time_stmp) ++
  opt_layout v.(assn_setup_rsp_up_func_feat) ++
  opt_layout v.(assn_setup_rsp_cp_func_feat) ++
  arr_layout v.(assn_setup_rsp_user_plane_ip_rsrc_info_count) v.(assn_setup_rsp_user_plane_ip_rsrc_info) ++
  [].
Definition assn_setup_rsp_good (v : pfcp_assn_setup_rsp_t) : Prop :=
  message_good v.(assn_setup_rsp_header) (assn_setup_rsp_body v) ∧
  opt_good PFCP_IE_NODE_ID v.(assn_setup_rsp_node_id) ∧
  opt_good PFCP_IE_CAUSE v.(assn_setup_rsp_cause) ∧
  opt_good PFCP_IE_RCVRY_TIME_STMP v.(assn_setup_rsp_rcvry_time_stmp) ∧
  opt_good PFCP_IE_UP_FUNC_FEAT v.(assn_setup_rsp_up_func_feat) ∧
  opt_good PFCP_IE_CP_FUNC_FEAT v.(assn_setup_rsp_cp_func_feat) ∧
  arr_good MAX_LIST_SIZE PFCP_IE_USER_PLANE_IP_RSRC_INFO v.(assn_setup_rsp_user_plane_ip_rsrc_info_count) v.(assn_setup_rsp_user_plane_ip_rsrc_info).
Definition assn_setup_rsp_layout (v : pfcp_assn_setup_rsp_t) : layout := layout_header v.(assn_setup_rsp_header) ++ assn_setup_rsp_body v.
Lemma assn_setup_rsp_encodes v : assn_setup_rsp_good v ->
  encodes (encode_pfcp_assn_setup_rsp_t v) (assn_setup_rsp_layout v) (size (assn_setup_rsp_layout v) / 8).
Proof.
  intros Hg; unfold assn_setup_rsp_good in Hg; destruct_and! Hg.
  apply (encodes_enc_bits 8); [by right|]. apply places_header; [by header_ok|]. unfold assn_setup_rsp_body.
  place_members ltac:(pfcp_member).
Qed.
Lemma assn_setup_rsp_decodes v : assn_setup_rsp_good v ->
  decodes (decode_pfcp_assn_setup_rsp_t zero_assn_setup_rsp) (assn_setup_rsp_layout v) (size (assn_setup_rsp_body v) / 8) v.
Proof.
  intros Hg; unfold assn_setup_rsp_good in Hg; destruct_and! Hg. apply decodes_message; [assumption|]. unfold assn_setup_rsp_body.
  repeat read_member. read_members PFCP_IE_USER_PLANE_IP_RSRC_INFO 8 MAX_LIST_SIZE assn_setup_rsp_user_plane_ip_rsrc_info assn_setup_rsp_user_plane_ip_rsrc_info_count set_assn_setup_rsp_user_plane_ip_rsrc_info set_assn_setup_rsp_user_plane_ip_rsrc_info_count.
  read_rest v.
Qed.

(** [pfcp_assn_upd_req_t] *)

Definition assn_upd_req_body (v : pfcp_assn_upd_req_t) : layout :=
  opt_layout v.(assn_upd_req_node_id) ++
  opt_layout v.(assn_upd_req_up_func_feat) ++
  opt_layout v.(assn_upd_req_cp_func_feat) ++
  opt_layout v.(assn_upd_req_up_assn_rel_req) ++
  opt_layout v.(assn_upd_req_graceful_rel_period) ++
  arr_layout v.(assn_upd_req_user_plane_ip_rsrc_info_count) v.(assn_upd_req_user_plane_ip_rsrc_info) ++
  [].
Definition assn_upd_req_good (v : pfcp_assn_upd_req_t) : Prop :=
  message_good v.(assn_upd_req_header) (assn_upd_req_body v) ∧
  opt_good PFCP_IE_NODE_ID v.(assn_upd_req_node_id) ∧
  opt_good PFCP_IE_UP_FUNC_FEAT v.(assn_upd_req_up_func_feat) ∧
  opt_good PFCP_IE_CP_FUNC_FEAT v.(assn_upd_req_cp_func_feat) ∧
  opt_good PFCP_IE_UP_ASSN_REL_REQ v.(assn_upd_req_up_assn_rel_req) ∧
  opt_good PFCP_IE_GRACEFUL_REL_PERIOD v.(assn_upd_req_graceful_rel_period) ∧
  arr_good MAX_LIST_SIZE PFCP_IE_USER_PLANE_IP_RSRC_INFO v.(assn_upd_req_user_plane_ip_rsrc_info_count) v.(assn_upd_req_user_plane_ip_rsrc_info).
Definition assn_upd_req_layout (v : pfcp_assn_upd_req_t) : layout := layout_header v.(assn_upd_req_header) ++ assn_upd_req_body v.
Lemma assn_upd_req_encodes v : assn_upd_req_good v ->
  encodes (encode_pfcp_assn_upd_req_t v) (assn_upd_req_layout v) (size (assn_upd_req_layout v) / 8).
Proof.
  intros Hg; unfold assn_upd_req_good in Hg; destruct_and! Hg.
  apply (encodes_enc_bits 8); [by right|]. apply places_header; [by header_ok|]. unfold assn_upd_req_body.
  place_members ltac:(pfcp_member).
Qed.
Lemma assn_upd_req_decodes v : assn_upd_req_good v ->
  decodes (decode_pfcp_assn_upd_req_t zero_assn_upd_req) (assn_upd_req_layout v) (size (assn_upd_req_body v) / 8) v.
Proof.
  intros Hg; unfold assn_upd_req_good in Hg; destruct_and! Hg. apply decodes_message; [assumption|]. unfold assn_upd_req_body.
  repeat read_member. read_members PFCP_IE_USER_PLANE_IP_RSRC_INFO 8 MAX_LIST_SIZE assn_upd_req_user_plane_ip_rsrc_info assn_upd_req_user_plane_ip_rsrc_info_count set_assn_upd_req_user_plane_ip_rsrc_info set_assn_upd_req_user_plane_ip_rsrc_info_count.
  read_rest v.
Qed.

(** [pfcp_assn_upd_rsp_t] *)

Definition assn_upd_rsp_body (v : pfcp_assn_upd_rsp_t) : layout :=
  opt_layout v.(assn_upd_rsp_node_id) ++
  opt_layout v.(assn_upd_rsp_cause) ++
  opt_layout v.(assn_upd_rsp_up_func_feat) ++
  opt_layout v.(assn_upd_rsp_cp_func_feat) ++
  [].
Definition assn_upd_rsp_good (v : pfcp_assn_upd_rsp_t) : Prop :=
  message_good v.(assn_upd_rsp_header) (assn_upd_rsp_body v) ∧
  opt_good PFCP_IE_NODE_ID v.(assn_upd_rsp_node_id) ∧
  opt_good PFCP_IE_CAUSE v.(assn_upd_rsp_cause) ∧
  opt_good PFCP_IE_UP_FUNC_FEAT v.(assn_upd_rsp_up_func_feat) ∧
  opt_good PFCP_IE_CP_FUNC_FEAT v.(assn_upd_rsp_cp_func_feat).
Definition assn_upd_rsp_layout (v : pfcp_assn_upd_rsp_t) : layout := layout_header v.(assn_upd_rsp_header) ++ assn_upd_rsp_body v.
Lemma assn_upd_rsp_encodes v : assn_upd_rsp_good v ->
  encodes (encode_pfcp_assn_upd_rsp_t v) (assn_upd_rsp_layout v) (size (assn_upd_rsp_layout v) / 8).
Proof.
  intros Hg; unfold assn_upd_rsp_good in Hg; destruct_and! Hg.
  apply (encodes_enc_bits 8); [by right|]. apply places_header; [by header_ok|]. unfold assn_upd_rsp_body.
  place_members ltac:(pfcp_member).
Qed.
Lemma assn_upd_rsp_decodes v : assn_upd_rsp_good v ->
  decodes (decode_pfcp_assn_upd_rsp_t zero_assn_upd_rsp) (assn_upd_rsp_layout v) (size (assn_upd_rsp_body v) / 8) v.
Proof.
  intros Hg; unfold assn_upd_rsp_good in Hg; destruct_and! Hg. apply decodes_message; [assumption|]. unfold assn_upd_rsp_body.
  read_rest v.
Qed.

(** [pfcp_assn_rel_req_t] *)

Definition assn_rel_req_body (v : pfcp_assn_rel_req_t) : layout :=
  opt_layout v.(assn_rel_req_node_id) ++
  [].
Definition assn_rel_req_good (v : pfcp_assn_rel_req_t) : Prop :=
  message_good v.(assn_rel_req_header) (assn_rel_req_body v) ∧
  opt_good PFCP_IE_NODE_ID v.(assn_rel_req_node_id).
Definition assn_rel_req_layout (v : pfcp_assn_rel_req_t) : layout := layout_header v.(assn_rel_req_header) ++ assn_rel_req_body v.
Lemma assn_rel_req_encodes v : assn_rel_req_good v ->
  encodes (encode_pfcp_assn_rel_req_t v) (assn_rel_req_layout v) (size (assn_rel_req_layout v) / 8).
Proof.
  intros Hg; unfold assn_rel_req_good in Hg; destruct_and! Hg.
  apply (encodes_enc_bits 8); [by right|]. apply places_header; [by header_ok|]. unfold assn_rel_req_body.
  place_members ltac:(pfcp_member).
Qed.
Lemma assn_rel_req_decodes v : assn_rel_req_good v ->
  decodes (decode_pfcp_assn_rel_req_t zero_assn_rel_req) (assn_rel_req_layout v) (size (assn_rel_req_body v) / 8) v.
Proof.
  intros Hg; unfold assn_rel_req_good in Hg; destruct_and! Hg. apply decodes_message; [assumption|]. unfold assn_rel_req_body.
  read_rest v.
Qed.

(** [pfcp_assn_rel_rsp_t] *)

Definition assn_rel_rsp_body (v : pfcp_assn_rel_rsp_t) : layout :=
  opt_layout v.(assn_rel_rsp_node_id) ++
  opt_layout v.(assn_rel_rsp_cause) ++
  [].
Definition assn_rel_rsp_good (v : pfcp_assn_rel_rsp_t) : Prop :=
  message_good v.(assn_rel_rsp_header) (assn_rel_rsp_body v) ∧
  opt_good PFCP_IE_NODE_ID v.(assn_rel_rsp_node_id) ∧
  opt_good PFCP_IE_CAUSE v.(assn_rel_rsp_cause).
Definition assn_rel_rsp_layout (v : pfcp_assn_rel_rsp_t) : layout := layout_header v.(assn_rel_rsp_header) ++ assn_rel_rsp_body v.
Lemma assn_rel_rsp_encodes v : assn_rel_rsp_good v ->
  encodes (encode_pfcp_assn_rel_rsp_t v) (assn_rel_rsp_layout v) (size (assn_rel_rsp_layout v) / 8).
Proof.
  intros Hg; unfold assn_rel_rsp_good in Hg; destruct_and! Hg.
  apply (encodes_enc_bits 8); [by right|]. apply places_header; [by header_ok|]. unfold assn_rel_rsp_body.
  place_members ltac:(pfcp_member).
Qed.
Lemma assn_rel_rsp_decodes v : assn_rel_rsp_good v ->
  decodes (decode_pfcp_assn_rel_rsp_t zero_assn_rel_rsp) (assn_rel_rsp_layout v) (size (assn_rel_rsp_body v) / 8) v.
Proof.
  intros Hg; unfold assn_rel_rsp_good in Hg; destruct_and! Hg. apply decodes_message; [assumption|]. unfold assn_rel_rsp_body.
  read_rest v.
Qed.

(** [pfcp_node_rpt_req_t] *)

Definition node_rpt_req_body (v : pfcp_node_rpt_req_t) : layout :=
  opt_layout v.(node_rpt_req_node_id) ++
  opt_layout v.(node_rpt_req_node_rpt_type) ++
  [].
Definition node_rpt_req_good (v : pfcp_node_rpt_req_t) : Prop :=
  message_good v.(node_rpt_req_header) (node_rpt_req_body v) ∧
  opt_good PFCP_IE_NODE_ID v.(node_rpt_req_node_id) ∧
  opt_good PFCP_IE_NODE_RPT_TYPE v.(node_rpt_req_node_rpt_type) ∧
  v.(node_rpt_req_user_plane_path_fail_rpt) = zero_user_plane_path_fail_rpt.
Definition node_rpt_req_layout (v : pfcp_node_rpt_req_t) : layout := layout_header v.(node_rpt_req_header) ++ node_rpt_req_body v.
Lemma node_rpt_req_encodes v : node_rpt_req_good v ->
  encodes (encode_pfcp_node_rpt_req_t v) (node_rpt_req_layout v) (size (node_rpt_req_layout v) / 8).
Proof.
  intros Hg; unfold node_rpt_req_good in Hg; destruct_and! Hg.
  apply (encodes_enc_bits 8); [by right|]. apply places_header; [by header_ok|]. unfold node_rpt_req_body.
  place_members ltac:(pfcp_member).
Qed.
Lemma node_rpt_req_decodes v : node_rpt_req_good v ->
  decodes (decode_pfcp_node_rpt_req_t zero_node_rpt_req) (node_rpt_req_layout v) (size (node_rpt_req_body v) / 8) v.
Proof.
  intros Hg; unfold node_rpt_req_good in Hg; destruct_and! Hg. apply decodes_message; [assumption|]. unfold node_rpt_req_body.
  read_rest v.
Qed.

(** [pfcp_node_rpt_rsp_t] *)

Definition node_rpt_rsp_body (v : pfcp_node_rpt_rsp_t) : layout :=
  opt_layout v.(node_rpt_rsp_node_id) ++
  opt_layout v.(node_rpt_rsp_cause) ++
  opt_layout v.(node_rpt_rsp_offending_ie) ++
  [].
Definition node_rpt_rsp_good (v : pfcp_node_rpt_rsp_t) : Prop :=
  message_good v.(node_rpt_rsp_header) (node_rpt_rsp_body v) ∧
  opt_good PFCP_IE_NODE_ID v.(node_rpt_rsp_node_id) ∧
  opt_good PFCP_IE_CAUSE v.(node_rpt_rsp_cause) ∧
  opt_good PFCP_IE_OFFENDING_IE v.(node_rpt_rsp_offending_ie).
Definition node_rpt_rsp_layout (v : pfcp_node_rpt_rsp_t) : layout := layout_header v.(node_rpt_rsp_header) ++ node_rpt_rsp_body v.
Lemma node_rpt_rsp_encodes v : node_rpt_rsp_good v ->
  encodes (encode_pfcp_node_rpt_rsp_t v) (node_rpt_rsp_layout v) (size (node_rpt_rsp_layout v) / 8).
Proof.
  intros Hg; unfold node_rpt_rsp_good in Hg; destruct_and! Hg.
  apply (encodes_enc_bits 8); [by right|]. apply places_header; [by header_ok|]. unfold node_rpt_rsp_body.
  place_members ltac:(pfcp_member).
Qed.
Lemma node_rpt_rsp_decodes v : node_rpt_rsp_good v ->
  decodes (decode_pfcp_node_rpt_rsp_t zero_node_rpt_rsp) (node_rpt_rsp_layout v) (size (node_rpt_rsp_body v) / 8) v.
Proof.
  intros Hg; unfold node_rpt_rsp_good in Hg; destruct_and! Hg. apply decodes_message; [assumption|]. unfold node_rpt_rsp_body.
  read_rest v.
Qed.

(** [pfcp_sess_set_del_req_t] *)

Definition sess_set_del_req_body (v : pfcp_sess_set_del_req_t) : layout :=
  opt_layout v.(sess_set_del_req_node_id) ++
  [].
Definition sess_set_del_req_good (v : pfcp_sess_set_del_req_t) : Prop :=
  message_good v.(sess_set_del_req_header) (sess_set_del_req_body v) ∧
  opt_good PFCP_IE_NODE_ID v.(sess_set_del_req_node_id) ∧
  v.(sess_set_del_req_sgw_c_fqcsid) = zero_fqcsid ∧
  v.(sess_set_del_req_pgw_c_fqcsid) = zero_fqcsid ∧
  v.(sess_set_del_req_sgw_u_fqcsid) = zero_fqcsid ∧
  v.(sess_set_del_req_pgw_u_fqcsid) = zero_fqcsid ∧
  v.(sess_set_del_req_twan_fqcsid) = zero_fqcsid ∧
  v.(sess_set_del_req_epdg_fqcsid) = zero_fqcsid ∧
  v.(sess_set_del_req_mme_fqcsid) = zero_fqcsid.
Definition sess_set_del_req_layout (v : pfcp_sess_set_del_req_t) : layout := layout_header v.(sess_set_del_req_header) ++ sess_set_del_req_body v.
Lemma sess_set_del_req_encodes v : sess_set_del_req_good v ->
  encodes (encode_pfcp_sess_set_del_req_t v) (sess_set_del_req_layout v) (size (sess_set_del_req_layout v) / 8).
Proof.
  intros Hg; unfold sess_set_del_req_good in Hg; destruct_and! Hg.
  apply (encodes_enc_bits 8); [by right|]. apply places_header; [by header_ok|]. unfold sess_set_del_req_body.
  place_members ltac:(pfcp_member).
Qed.
Lemma sess_set_del_req_decodes v : sess_set_del_req_good v ->
  decodes (decode_pfcp_sess_set_del_req_t zero_sess_set_del_req) (sess_set_del_req_layout v) (size (sess_set_del_req_body v) / 8) v.
Proof.
  intros Hg; unfold sess_set_del_req_good in Hg; destruct_and! Hg. apply decodes_message; [assumption|]. unfold sess_set_del_req_body.
  read_rest v.
Qed.

(** [pfcp_sess_set_del_rsp_t] *)

Definition sess_set_del_rsp_body (v : pfcp_sess_set_del_rsp_t) : layout :=
  opt_layout v.(sess_set_del_rsp_node_id) ++
  opt_layout v.(sess_set_del_rsp_cause) ++
  opt_layout v.(sess_set_del_rsp_offending_ie) ++
  [].
Definition sess_set_del_rsp_good (v : pfcp_sess_set_del_rsp_t) : Prop :=
  message_good v.(sess_set_del_rsp_header) (sess_set_del_rsp_body v) ∧
  opt_good PFCP_IE_NODE_ID v.(sess_set_del_rsp_node_id) ∧
  opt_good PFCP_IE_CAUSE v.(sess_set_del_rsp_cause) ∧
  opt_good PFCP_IE_OFFENDING_IE v.(sess_set_del_rsp_offending_ie).
Definition sess_set_del_rsp_layout (v : pfcp_sess_set_del_rsp_t) : layout := layout_header v.(sess_set_del_rsp_header) ++ sess_set_del_rsp_body v.
Lemma sess_set_del_rsp_encodes v : sess_set_del_rsp_good v ->
  encodes (encode_pfcp_sess_set_del_rsp_t v) (sess_set_del_rsp_layout v) (size (sess_set_del_rsp_layout v) / 8).
Proof.
  intros Hg; unfold sess_set_del_rsp_good in Hg; destruct_and! Hg.
  apply (encodes_enc_bits 8); [by right|]. apply places_header; [by header_ok|]. unfold sess_set_del_rsp_body.
  place_members ltac:(pfcp_member).
Qed.
Lemma sess_set_del_rsp_decodes v : sess_set_del_rsp_good v ->
  decodes (decode_pfcp_sess_set_del_rsp_t zero_sess_set_del_rsp) (sess_set_del_rsp_layout v) (size (sess_set_del_rsp_body v) / 8) v.
Proof.
  intros Hg; unfold sess_set_del_rsp_good in Hg; destruct_and! Hg. apply decodes_message; [assumption|]. unfold sess_set_del_rsp_body.
  read_rest v.
Qed.

(** [pfcp_sess_estab_req_t] *)

Definition sess_estab_req_body (v : pfcp_sess_estab_req_t) : layout :=
  opt_layout v.(sess_estab_req_node_id) ++
  opt_layout v.(sess_estab_req_cp_fseid) ++
  opt_layout v.(sess_estab_req_create_bar) ++
  opt_layout v.(sess_estab_req_pdn_type) ++
  opt_layout v.(sess_estab_req_user_plane_inact_timer) ++
  opt_layout v.(sess_estab_req_trc_info) ++
  arr_layout v.(sess_estab_req_create_pdr_count) v.(sess_estab_req_create_pdr) ++
  arr_layout v.(sess_estab_req_create_far_count) v.(sess_estab_req_create_far) ++
  arr_layout v.(sess_estab_req_create_qer_count) v.(sess_estab_req_create_qer) ++
  [].
Definition sess_estab_req_good (v : pfcp_sess_estab_req_t) : Prop :=
  message_good v.(sess_estab_req_header) (sess_estab_req_body v) ∧
  opt_good PFCP_IE_NODE_ID v.(sess_estab_req_node_id) ∧
  opt_good PFCP_IE_FSEID v.(sess_estab_req_cp_fseid) ∧
  opt_good PFCP_IE_CREATE_BAR v.(sess_estab_req_create_bar) ∧
  opt_good PFCP_IE_PDN_TYPE v.(sess_estab_req_pdn_type) ∧
  opt_good PFCP_IE_USER_PLANE_INACT_TIMER v.(sess_estab_req_user_plane_inact_timer) ∧
  opt_good PFCP_IE_TRC_INFO v.(sess_estab_req_trc_info) ∧
  arr_good MAX_LIST_SIZE PFCP_IE_CREATE_PDR v.(sess_estab_req_create_pdr_count) v.(sess_estab_req_create_pdr) ∧
  arr_good MAX_LIST_SIZE PFCP_IE_CREATE_FAR v.(sess_estab_req_create_far_count) v.(sess_estab_req_create_far) ∧
  arr_good MAX_LIST_SIZE PFCP_IE_CREATE_QER v.(sess_estab_req_create_qer_count) v.(sess_estab_req_create_qer) ∧
  v.(sess_estab_req_sgw_c_fqcsid) = zero_fqcsid ∧
  v.(sess_estab_req_mme_fqcsid) = zero_fqcsid ∧
  v.(sess_estab_req_pgw_c_fqcsid) = zero_fqcsid ∧
  v.(sess_estab_req_epdg_fqcsid) = zero_fqcsid ∧
  v.(sess_estab_req_twan_fqcsid) = zero_fqcsid ∧
  v.(sess_estab_req_user_id) = zero_user_id ∧
  v.(sess_estab_req_create_urr_count) = 0 ∧
  v.(sess_estab_req_create_urr) = repeat zero_create_urr MAX_LIST_SIZE ∧
  v.(sess_estab_req_create_traffic_endpt_count) = 0 ∧
  v.(sess_estab_req_create_traffic_endpt) = repeat zero_create_traffic_endpt MAX_LIST_SIZE.
Definition sess_estab_req_layout (v : pfcp_sess_estab_req_t) : layout := layout_header v.(sess_estab_req_header) ++ sess_estab_req_body v.
Lemma sess_estab_req_encodes v : sess_estab_req_good v ->
  encodes (encode_pfcp_sess_estab_req_t v) (sess_estab_req_layout v) (size (sess_estab_req_layout v) / 8).
Proof.
  intros Hg; unfold sess_estab_req_good in Hg; destruct_and! Hg.
  apply (encodes_enc_bits 8); [by right|]. apply places_header; [by header_ok|]. unfold sess_estab_req_body.
  place_members ltac:(pfcp_member).
Qed.
Lemma sess_estab_req_decodes v : sess_estab_req_good v ->
  decodes (decode_pfcp_sess_estab_req_t zero_sess_estab_req) (sess_estab_req_layout v) (size (sess_estab_req_body v) / 8) v.
Proof.
  intros Hg; unfold sess_estab_req_good in Hg; destruct_and! Hg. apply decodes_message; [assumption|]. unfold sess_estab_req_body.
  repeat read_member. read_members PFCP_IE_CREATE_PDR 8 MAX_LIST_SIZE sess_estab_req_create_pdr sess_estab_req_create_pdr_count set_sess_estab_req_create_pdr set_sess_estab_req_create_pdr_count.
  repeat read_member. read_members PFCP_IE_CREATE_FAR 8 MAX_LIST_SIZE sess_estab_req_create_far sess_estab_req_create_far_count set_sess_estab_req_create_far set_sess_estab_req_create_far_count.
  repeat read_member. read_members PFCP_IE_CREATE_QER 8 MAX_LIST_SIZE sess_estab_req_create_qer sess_estab_req_create_qer_count set_sess_estab_req_create_qer set_sess_estab_req_create_qer_count.
  read_rest v.
Qed.

(** [pfcp_sess_estab_rsp_t] *)

Definition sess_estab_rsp_body (v : pfcp_sess_estab_rsp_t) : layout :=
  opt_layout v.(sess_estab_rsp_node_id) ++
  opt_layout v.(sess_estab_rsp_cause) ++
  opt_layout v.(sess_estab_rsp_offending_ie) ++
  opt_layout v.(sess_estab_rsp_up_fseid) ++
  opt_layout v.(sess_estab_rsp_created_pdr) ++
  [].
Definition sess_estab_rsp_good (v : pfcp_sess_estab_rsp_t) : Prop :=
  message_good v.(sess_estab_rsp_header) (sess_estab_rsp_body v) ∧
  opt_good PFCP_IE_NODE_ID v.(sess_estab_rsp_node_id) ∧
  opt_good PFCP_IE_CAUSE v.(sess_estab_rsp_cause) ∧
  opt_good PFCP_IE_OFFENDING_IE v.(sess_estab_rsp_offending_ie) ∧
  opt_good PFCP_IE_FSEID v.(sess_estab_rsp_up_fseid) ∧
  opt_good PFCP_IE_CREATED_PDR v.(sess_estab_rsp_created_pdr) ∧
  v.(sess_estab_rsp_load_ctl_info) = zero_load_ctl_info ∧
  v.(sess_estab_rsp_ovrld_ctl_info) = zero_ovrld_ctl_info ∧
  v.(sess_estab_rsp_sgw_u_fqcsid) = zero_fqcsid ∧
  v.(sess_estab_rsp_pgw_u_fqcsid) = zero_fqcsid ∧
  v.(sess_estab_rsp_failed_rule_id) = zero_failed_rule_id ∧
  v.(sess_estab_rsp_created_traffic_endpt) = zero_created_traffic_endpt.
Definition sess_estab_rsp_layout (v : pfcp_sess_estab_rsp_t) : layout := layout_header v.(sess_estab_rsp_header) ++ sess_estab_rsp_body v.
Lemma sess_estab_rsp_encodes v : sess_estab_rsp_good v ->
  encodes (encode_pfcp_sess_estab_rsp_t v) (sess_estab_rsp_layout v) (size (sess_estab_rsp_layout v) / 8).
Proof.
  intros Hg; unfold sess_estab_rsp_good in Hg; destruct_and! Hg.
  apply (encodes_enc_bits 8); [by right|]. apply places_header; [by header_ok|]. unfold sess_estab_rsp_body.
  place_members ltac:(pfcp_member).
Qed.
Lemma sess_estab_rsp_decodes v : sess_estab_rsp_good v ->
  decodes (decode_pfcp_sess_estab_rsp_t zero_sess_estab_rsp) (sess_estab_rsp_layout v) (size (sess_estab_rsp_body v) / 8) v.
Proof.
  intros Hg; unfold sess_estab_rsp_good in Hg; destruct_and! Hg. apply decodes_message; [assumption|]. unfold sess_estab_rsp_body.
  read_rest v.
Qed.

(** [pfcp_sess_mod_req_t] *)

Definition sess_mod_req_body (v : pfcp_sess_mod_req_t) : layout :=
  opt_layout v.(sess_mod_req_cp_fseid) ++
  opt_layout v.(sess_mod_req_remove_bar) ++
  opt_layout v.(sess_mod_req_create_bar) ++
  opt_layout v.(sess_mod_req_update_bar) ++
  opt_layout v.(sess_mod_req_pfcpsmreq_flags) ++
  opt_layout v.(sess_mod_req_user_plane_inact_timer) ++
  opt_layout v.(sess_mod_req_query_urr_ref) ++
  opt_layout v.(sess_mod_req_trc_info) ++
  arr_layout v.(sess_mod_req_remove_pdr_count) v.(sess_mod_req_remove_pdr) ++
  arr_layout v.(sess_mod_req_create_pdr_count) v.(sess_mod_req_create_pdr) ++
  arr_layout v.(sess_mod_req_create_far_count) v.(sess_mod_req_create_far) ++
  arr_layout v.(sess_mod_req_create_qer_count) v.(sess_mod_req_create_qer) ++
  arr_layout v.(sess_mod_req_update_pdr_count) v.(sess_mod_req_update_pdr) ++
  arr_layout v.(sess_mod_req_update_far_count) v.(sess_mod_req_update_far) ++
  arr_layout v.(sess_mod_req_update_qer_count) v.(sess_mod_req_update_qer) ++
  [].
Definition sess_mod_req_good (v : pfcp_sess_mod_req_t) : Prop :=
  message_good v.(sess_mod_req_header) (sess_mod_req_body v) ∧
  opt_good PFCP_IE_FSEID v.(sess_mod_req_cp_fseid) ∧
  opt_good PFCP_IE_REMOVE_BAR v.(sess_mod_req_remove_bar) ∧
  opt_good PFCP_IE_CREATE_BAR v.(sess_mod_req_create_bar) ∧
  opt_good PFCP_IE_UPD_BAR_SESS_MOD_REQ v.(sess_mod_req_update_bar) ∧
  opt_good PFCP_IE_PFCPSMREQ_FLAGS v.(sess_mod_req_pfcpsmreq_flags) ∧
  opt_good PFCP_IE_USER_PLANE_INACT_TIMER v.(sess_mod_req_user_plane_inact_timer) ∧
  opt_good PFCP_IE_QUERY_URR_REF v.(sess_mod_req_query_urr_ref) ∧
  opt_good PFCP_IE_TRC_INFO v.(sess_mod_req_trc_info) ∧
  arr_good MAX_LIST_SIZE PFCP_IE_REMOVE_PDR v.(sess_mod_req_remove_pdr_count) v.(sess_mod_req_remove_pdr) ∧
  arr_good MAX_LIST_SIZE PFCP_IE_CREATE_PDR v.(sess_mod_req_create_pdr_count) v.(sess_mod_req_create_pdr) ∧
  arr_good MAX_LIST_SIZE PFCP_IE_CREATE_FAR v.(sess_mod_req_create_far_count) v.(sess_mod_req_create_far) ∧
  arr_good MAX_LIST_SIZE PFCP_IE_CREATE_QER v.(sess_mod_req_create_qer_count) v.(sess_mod_req_create_qer) ∧
  arr_good MAX_LIST_SIZE PFCP_IE_UPDATE_PDR v.(sess_mod_req_update_pdr_count) v.(sess_mod_req_update_pdr) ∧
  arr_good MAX_LIST_SIZE PFCP_IE_UPDATE_FAR v.(sess_mod_req_update_far_count) v.(sess_mod_req_update_far) ∧
  arr_good MAX_LIST_SIZE PFCP_IE_UPDATE_QER v.(sess_mod_req_update_qer_count) v.(sess_mod_req_update_qer) ∧
  v.(sess_mod_req_rmv_traffic_endpt) = zero_rmv_traffic_endpt ∧
  v.(sess_mod_req_create_traffic_endpt) = zero_create_traffic_endpt ∧
  v.(sess_mod_req_upd_traffic_endpt) = zero_upd_traffic_endpt ∧
  v.(sess_mod_req_pgw_c_fqcsid) = zero_fqcsid ∧
  v.(sess_mod_req_sgw_c_fqcsid) = zero_fqcsid ∧
  v.(sess_mod_req_mme_fqcsid) = zero_fqcsid ∧
  v.(sess_mod_req_epdg_fqcsid) = zero_fqcsid ∧
  v.(sess_mod_req_twan_fqcsid) = zero_fqcsid ∧
  v.(sess_mod_req_remove_far_count) = 0 ∧
  v.(sess_mod_req_remove_far) = repeat zero_remove_far MAX_LIST_SIZE ∧
  v.(sess_mod_req_remove_urr_count) = 0 ∧
  v.(sess_mod_req_remove_urr) = repeat zero_remove_urr MAX_LIST_SIZE ∧
  v.(sess_mod_req_remove_qer_count) = 0 ∧
  v.(sess_mod_req_remove_qer) = repeat zero_remove_qer MAX_LIST_SIZE ∧
  v.(sess_mod_req_create_urr_count) = 0 ∧
  v.(sess_mod_req_create_urr) = repeat zero_create_urr MAX_LIST_SIZE ∧
  v.(sess_mod_req_update_urr_count) = 0 ∧
  v.(sess_mod_req_update_urr) = repeat zero_update_urr MAX_LIST_SIZE ∧
  v.(sess_mod_req_query_urr_count) = 0 ∧
  v.(sess_mod_req_query_urr) = repeat zero_query_urr MAX_LIST_SIZE.
Definition sess_mod_req_layout (v : pfcp_sess_mod_req_t) : layout := layout_header v.(sess_mod_req_header) ++ sess_mod_req_body v.
Lemma sess_mod_req_encodes v : sess_mod_req_good v ->
  encodes (encode_pfcp_sess_mod_req_t v) (sess_mod_req_layout v) (size (sess_mod_req_layout v) / 8).
Proof.
  intros Hg; unfold sess_mod_req_good in Hg; destruct_and! Hg.
  apply (encodes_enc_bits 8); [by right|]. apply places_header; [by header_ok|]. unfold sess_mod_req_body.
  place_members ltac:(pfcp_member).
Qed.
Lemma sess_mod_req_decodes v : sess_mod_req_good v ->
  decodes (decode_pfcp_sess_mod_req_t zero_sess_mod_req) (sess_mod_req_layout v) (size (sess_mod_req_body v) / 8) v.
Proof.
  intros Hg; unfold sess_mod_req_good in Hg; destruct_and! Hg. apply decodes_message; [assumption|]. unfold sess_mod_req_body.
  repeat read_member. read_members PFCP_IE_REMOVE_PDR 8 MAX_LIST_SIZE sess_mod_req_remove_pdr sess_mod_req_remove_pdr_count set_sess_mod_req_remove_pdr set_sess_mod_req_remove_pdr_count.
  repeat read_member. read_members PFCP_IE_CREATE_PDR 8 MAX_LIST_SIZE sess_mod_req_create_pdr sess_mod_req_create_pdr_count set_sess_mod_req_create_pdr set_sess_mod_req_create_pdr_count.
  repeat read_member. read_members PFCP_IE_CREATE_FAR 8 MAX_LIST_SIZE sess_mod_req_create_far sess_mod_req_create_far_count set_sess_mod_req_create_far set_sess_mod_req_create_far_count.
  repeat read_member. read_members PFCP_IE_CREATE_QER 8 MAX_LIST_SIZE sess_mod_req_create_qer sess_mod_req_create_qer_count set_sess_mod_req_create_qer set_sess_mod_req_create_qer_count.
  repeat read_member. read_members PFCP_IE_UPDATE_PDR 8 MAX_LIST_SIZE sess_mod_req_update_pdr sess_mod_req_update_pdr_count set_sess_mod_req_update_pdr set_sess_mod_req_update_pdr_count.
  repeat read_member. read_members PFCP_IE_UPDATE_FAR 8 MAX_LIST_SIZE sess_mod_req_update_far sess_mod_req_update_far_count set_sess_mod_req_update_far set_sess_mod_req_update_far_count.
  repeat read_member. read_members PFCP_IE_UPDATE_QER 8 MAX_LIST_SIZE sess_mod_req_update_qer sess_mod_req_update_qer_count set_sess_mod_req_update_qer set_sess_mod_req_update_qer_count.
  read_rest v.
Qed.

(** [pfcp_sess_mod_rsp_t] *)

Definition sess_mod_rsp_body (v : pfcp_sess_mod_rsp_t) : layout :=
  opt_layout v.(sess_mod_rsp_cause) ++
  opt_layout v.(sess_mod_rsp_offending_ie) ++
  opt_layout v.(sess_mod_rsp_created_pdr) ++
  opt_layout v.(sess_mod_rsp_add_usage_rpts_info) ++
  [].
Definition sess_mod_rsp_good (v : pfcp_sess_mod_rsp_t) : Prop :=
  message_good v.(sess_mod_rsp_header) (sess_mod_rsp_body v) ∧
  opt_good PFCP_IE_CAUSE v.(sess_mod_rsp_cause) ∧
  opt_good PFCP_IE_OFFENDING_IE v.(sess_mod_rsp_offending_ie) ∧
  opt_good PFCP_IE_CREATED_PDR v.(sess_mod_rsp_created_pdr) ∧
  opt_good PFCP_IE_ADD_USAGE_RPTS_INFO v.(sess_mod_rsp_add_usage_rpts_info) ∧
  v.(sess_mod_rsp_load_ctl_info) = zero_load_ctl_info ∧
  v.(sess_mod_rsp_ovrld_ctl_info) = zero_ovrld_ctl_info ∧
  v.(sess_mod_rsp_failed_rule_id) = zero_failed_rule_id ∧
  v.(sess_mod_rsp_createdupdated_traffic_endpt) = zero_created_traffic_endpt ∧
  v.(sess_mod_rsp_usage_report_count) = 0 ∧
  v.(sess_mod_rsp_usage_report) = repeat zero_usage_rpt_sess_mod_rsp MAX_LIST_SIZE.
Definition sess_mod_rsp_layout (v : pfcp_sess_mod_rsp_t) : layout := layout_header v.(sess_mod_rsp_header) ++ sess_mod_rsp_body v.
Lemma sess_mod_rsp_encodes v : sess_mod_rsp_good v ->
  encodes (encode_pfcp_sess_mod_rsp_t v) (sess_mod_rsp_layout v) (size (sess_mod_rsp_layout v) / 8).
Proof.
  intros Hg; unfold sess_mod_rsp_good in Hg; destruct_and! Hg.
  apply (encodes_enc_bits 8); [by right|]. apply places_header; [by header_ok|]. unfold sess_mod_rsp_body.
  place_members ltac:(pfcp_member).
Qed.
Lemma sess_mod_rsp_decodes v : sess_mod_rsp_good v ->
  decodes (decode_pfcp_sess_mod_rsp_t zero_sess_mod_rsp) (sess_mod_rsp_layout v) (size (sess_mod_rsp_body v) / 8) v.
Proof.
  intros Hg; unfold sess_mod_rsp_good in Hg; destruct_and! Hg. apply decodes_message; [assumption|]. unfold sess_mod_rsp_body.
  read_rest v.
Qed.

(** [pfcp_sess_del_rsp_t] *)

Definition sess_del_rsp_body (v : pfcp_sess_del_rsp_t) : layout :=
  opt_layout v.(sess_del_rsp_cause) ++
  opt_layout v.(sess_del_rsp_offending_ie) ++
  [].
Definition sess_del_rsp_good (v : pfcp_sess_del_rsp_t) : Prop :=
  message_good v.(sess_del_rsp_header) (sess_del_rsp_body v) ∧
  opt_good PFCP_IE_CAUSE v.(sess_del_rsp_cause) ∧
  opt_good PFCP_IE_OFFENDING_IE v.(sess_del_rsp_offending_ie) ∧
  v.(sess_del_rsp_load_ctl_info) = zero_load_ctl_info ∧
  v.(sess_del_rsp_ovrld_ctl_info) = zero_ovrld_ctl_info ∧
  v.(sess_del_rsp_usage_report_count) = 0 ∧
  v.(sess_del_rsp_usage_report) = repeat zero_usage_rpt_sess_del_rsp MAX_LIST_SIZE.
Definition sess_del_rsp_layout (v : pfcp_sess_del_rsp_t) : layout := layout_header v.(sess_del_rsp_header) ++ sess_del_rsp_body v.
Lemma sess_del_rsp_encodes v : sess_del_rsp_good v ->
  encodes (encode_pfcp_sess_del_rsp_t v) (sess_del_rsp_layout v) (size (sess_del_rsp_layout v) / 8).
Proof.
  intros Hg; unfold sess_del_rsp_good in Hg; destruct_and! Hg.
  apply (encodes_enc_bits 8); [by right|]. apply places_header; [by header_ok|]. unfold sess_del_rsp_body.
  place_members ltac:(pfcp_member).
Qed.
Lemma sess_del_rsp_decodes v : sess_del_rsp_good v ->
  decodes (decode_pfcp_sess_del_rsp_t zero_sess_del_rsp) (sess_del_rsp_layout v) (size (sess_del_rsp_body v) / 8) v.
Proof.
  intros Hg; unfold sess_del_rsp_good in Hg; destruct_and! Hg. apply decodes_message; [assumption|]. unfold sess_del_rsp_body.
  read_rest v.
Qed.

(** [pfcp_sess_rpt_req_t] *)

Definition sess_rpt_req_body (v : pfcp_sess_rpt_req_t) : layout :=
  opt_layout v.(sess_rpt_req_report_type) ++
  opt_layout v.(sess_rpt_req_dnlnk_data_rpt) ++
  opt_layout v.(sess_rpt_req_add_usage_rpts_info) ++
  [].
Definition sess_rpt_req_good (v : pfcp_sess_rpt_req_t) : Prop :=
  message_good v.(sess_rpt_req_header) (sess_rpt_req_body v) ∧
  opt_good PFCP_IE_REPORT_TYPE v.(sess_rpt_req_report_type) ∧
  opt_good PFCP_IE_DNLNK_DATA_RPT v.(sess_rpt_req_dnlnk_data_rpt) ∧
  opt_good PFCP_IE_ADD_USAGE_RPTS_INFO v.(sess_rpt_req_add_usage_rpts_info) ∧
  v.(sess_rpt_req_err_indctn_rpt) = zero_err_indctn_rpt ∧
  v.(sess_rpt_req_load_ctl_info) = zero_load_ctl_info ∧
  v.(sess_rpt_req_ovrld_ctl_info) = zero_ovrld_ctl_info ∧
  v.(sess_rpt_req_usage_report_count) = 0 ∧
  v.(sess_rpt_req_usage_report) = repeat zero_usage_rpt_sess_rpt_req MAX_LIST_SIZE.
Definition sess_rpt_req_layout (v : pfcp_sess_rpt_req_t) : layout := layout_header v.(sess_rpt_req_header) ++ sess_rpt_req_body v.
Lemma sess_rpt_req_encodes v : sess_rpt_req_good v ->
  encodes (encode_pfcp_sess_rpt_req_t v) (sess_rpt_req_layout v) (size (sess_rpt_req_layout v) / 8).
Proof.
  intros Hg; unfold sess_rpt_req_good in Hg; destruct_and! Hg.
  apply (encodes_enc_bits 8); [by right|]. apply places_header; [by header_ok|]. unfold sess_rpt_req_body.
  place_members ltac:(pfcp_member).
Qed.
Lemma sess_rpt_req_decodes v : sess_rpt_req_good v ->
  decodes (decode_pfcp_sess_rpt_req_t zero_sess_rpt_req) (sess_rpt_req_layout v) (size (sess_rpt_req_body v) / 8) v.
Proof.
  intros Hg; unfold sess_rpt_req_good in Hg; destruct_and! Hg. apply decodes_message; [assumption|]. unfold sess_rpt_req_body.
  read_rest v.
Qed.

(** [pfcp_sess_rpt_rsp_t] *)

Definition sess_rpt_rsp_body (v : pfcp_sess_rpt_rsp_t) : layout :=
  opt_layout v.(sess_rpt_rsp_cause) ++
  opt_layout v.(sess_rpt_rsp_offending_ie) ++
  opt_layout v.(sess_rpt_rsp_sxsrrsp_flags) ++
  [].
Definition sess_rpt_rsp_good (v : pfcp_sess_rpt_rsp_t) : Prop :=
  message_good v.(sess_rpt_rsp_header) (sess_rpt_rsp_body v) ∧
  opt_good PFCP_IE_CAUSE v.(sess_rpt_rsp_cause) ∧
  opt_good PFCP_IE_OFFENDING_IE v.(sess_rpt_rsp_offending_ie) ∧
  opt_good PFCP_IE_PFCPSRRSP_FLAGS v.(sess_rpt_rsp_sxsrrsp_flags) ∧
  v.(sess_rpt_rsp_update_bar) = zero_upd_bar_sess_rpt_rsp.
Definition sess_rpt_rsp_layout (v : pfcp_sess_rpt_rsp_t) : layout := layout_header v.(sess_rpt_rsp_header) ++ sess_rpt_rsp_body v.
Lemma sess_rpt_rsp_encodes v : sess_rpt_rsp_good v ->
  encodes (encode_pfcp_sess_rpt_rsp_t v) (sess_rpt_rsp_layout v) (size (sess_rpt_rsp_layout v) / 8).
Proof.
  intros Hg; unfold sess_rpt_rsp_good in Hg; destruct_and! Hg.
  apply (encodes_enc_bits 8); [by right|]. apply places_header; [by header_ok|]. unfold sess_rpt_rsp_body.
  place_members ltac:(pfcp_member).
Qed.
Lemma sess_rpt_rsp_decodes v : sess_rpt_rsp_good v ->
  decodes (decode_pfcp_sess_rpt_rsp_t zero_sess_rpt_rsp) (sess_rpt_rsp_layout v) (size (sess_rpt_rsp_body v) / 8) v.
Proof.
  intros Hg; unfold sess_rpt_rsp_good in Hg; destruct_and! Hg. apply decodes_message; [assumption|]. unfold sess_rpt_rsp_body.
  read_rest v.
Qed.
