(* ===== verification/PfcpMsgsProps.v ===== *)
(** * Properties of the PFCP messages

    The round trip of the messages, the termination of the decoding loop, the bound
    of the arrays of repeated elements, and the ranges of what is decoded. *)

From stdpp Require Import relations.
From S2P Require Import Prelude EncDecBits Codec CodecSpec Tlv PfcpIes PfcpIesEncoder PfcpIesDecoder.
From S2P Require Import PfcpIesSpec PfcpIesOptional PfcpCodecProps.
From S2P Require Import PfcpMsgs PfcpMsgsEncoder PfcpMsgsDecoder PfcpGroups PfcpMsgsSpec.

(** ** The messages whose encoder and decoder agree *)

Inductive pfcp_message : Type :=
| MSG_hrtbeat_req (v : pfcp_hrtbeat_req_t)
| MSG_hrtbeat_rsp (v : pfcp_hrtbeat_rsp_t)
| MSG_pfd_mgmt_req (v : pfcp_pfd_mgmt_req_t)
| MSG_pfd_mgmt_rsp (v : pfcp_pfd_mgmt_rsp_t)
| MSG_assn_setup_req (v : pfcp_assn_setup_req_t)
| MSG_assn_setup_rsp (v : pfcp_assn_setup_rsp_t)
| MSG_assn_upd_req (v : pfcp_assn_upd_req_t)
| MSG_assn_upd_rsp (v : pfcp_assn_upd_rsp_t)
| MSG_assn_rel_req (v : pfcp_assn_rel_req_t)
| MSG_assn_rel_rsp (v : pfcp_assn_rel_rsp_t)
| MSG_node_rpt_req (v : pfcp_node_rpt_req_t)
| MSG_node_rpt_rsp (v : pfcp_node_rpt_rsp_t)
| MSG_sess_set_del_req (v : pfcp_sess_set_del_req_t)
| MSG_sess_set_del_rsp (v : pfcp_sess_set_del_rsp_t)
| MSG_sess_estab_req (v : pfcp_sess_estab_req_t)
| MSG_sess_estab_rsp (v : pfcp_sess_estab_rsp_t)
| MSG_sess_mod_req (v : pfcp_sess_mod_req_t)
| MSG_sess_mod_rsp (v : pfcp_sess_mod_rsp_t)
| MSG_sess_del_rsp (v : pfcp_sess_del_rsp_t)
| MSG_sess_rpt_req (v : pfcp_sess_rpt_req_t)
| MSG_sess_rpt_rsp (v : pfcp_sess_rpt_rsp_t).

Definition message_encode (m : pfcp_message) : ie_encoder :=
  match m with
  | MSG_hrtbeat_req v => encode_pfcp_hrtbeat_req_t v
  | MSG_hrtbeat_rsp v => encode_pfcp_hrtbeat_rsp_t v
  | MSG_pfd_mgmt_req v => encode_pfcp_pfd_mgmt_req_t v
  | MSG_pfd_mgmt_rsp v => encode_pfcp_pfd_mgmt_rsp_t v
  | MSG_assn_setup_req v => encode_pfcp_assn_setup_req_t v
  | MSG_assn_setup_rsp v => encode_pfcp_assn_setup_rsp_t v
  | MSG_assn_upd_req v => encode_pfcp_assn_upd_req_t v
  | MSG_assn_upd_rsp v => encode_pfcp_assn_upd_rsp_t v
  | MSG_assn_rel_req v => encode_pfcp_assn_rel_req_t v
  | MSG_assn_rel_rsp v => encode_pfcp_assn_rel_rsp_t v
  | MSG_node_rpt_req v => encode_pfcp_node_rpt_req_t v
  | MSG_node_rpt_rsp v => encode_pfcp_node_rpt_rsp_t v
  | MSG_sess_set_del_req v => encode_pfcp_sess_set_del_req_t v
  | MSG_sess_set_del_rsp v => encode_pfcp_sess_set_del_rsp_t v
  | MSG_sess_estab_req v => encode_pfcp_sess_estab_req_t v
  | MSG_sess_estab_rsp v => encode_pfcp_sess_estab_rsp_t v
  | MSG_sess_mod_req v => encode_pfcp_sess_mod_req_t v
  | MSG_sess_mod_rsp v => encode_pfcp_sess_mod_rsp_t v
  | MSG_sess_del_rsp v => encode_pfcp_sess_del_rsp_t v
  | MSG_sess_rpt_req v => encode_pfcp_sess_rpt_req_t v
  | MSG_sess_rpt_rsp v => encode_pfcp_sess_rpt_rsp_t v
  end.

(** The decoder of the same type, into a zeroed structure. *)
Definition message_decode (m : pfcp_message) (buf : list Z) : option (Z * pfcp_message) :=
  match m with
  | MSG_hrtbeat_req _ => '(k, x) ← decode_pfcp_hrtbeat_req_t zero_hrtbeat_req buf; Some (k, MSG_hrtbeat_req x)
  | MSG_hrtbeat_rsp _ => '(k, x) ← decode_pfcp_hrtbeat_rsp_t zero_hrtbeat_rsp buf; Some (k, MSG_hrtbeat_rsp x)
  | MSG_pfd_mgmt_req _ => '(k, x) ← decode_pfcp_pfd_mgmt_req_t zero_pfd_mgmt_req buf; Some (k, MSG_pfd_mgmt_req x)
  | MSG_pfd_mgmt_rsp _ => '(k, x) ← decode_pfcp_pfd_mgmt_rsp_t zero_pfd_mgmt_rsp buf; Some (k, MSG_pfd_mgmt_rsp x)
  | MSG_assn_setup_req _ => '(k, x) ← decode_pfcp_assn_setup_req_t zero_assn_setup_req buf; Some (k, MSG_assn_setup_req x)
  | MSG_assn_setup_rsp _ => '(k, x) ← decode_pfcp_assn_setup_rsp_t zero_assn_setup_rsp buf; Some (k, MSG_assn_setup_rsp x)
  | MSG_assn_upd_req _ => '(k, x) ← decode_pfcp_assn_upd_req_t zero_assn_upd_req buf; Some (k, MSG_assn_upd_req x)
  | MSG_assn_upd_rsp _ => '(k, x) ← decode_pfcp_assn_upd_rsp_t zero_assn_upd_rsp buf; Some (k, MSG_assn_upd_rsp x)
  | MSG_assn_rel_req _ => '(k, x) ← decode_pfcp_assn_rel_req_t zero_assn_rel_req buf; Some (k, MSG_assn_rel_req x)
  | MSG_assn_rel_rsp _ => '(k, x) ← decode_pfcp_assn_rel_rsp_t zero_assn_rel_rsp buf; Some (k, MSG_assn_rel_rsp x)
  | MSG_node_rpt_req _ => '(k, x) ← decode_pfcp_node_rpt_req_t zero_node_rpt_req buf; Some (k, MSG_node_rpt_req x)
  | MSG_node_rpt_rsp _ => '(k, x) ← decode_pfcp_node_rpt_rsp_t zero_node_rpt_rsp buf; Some (k, MSG_node_rpt_rsp x)
  | MSG_sess_set_del_req _ => '(k, x) ← decode_pfcp_sess_set_del_req_t zero_sess_set_del_req buf; Some (k, MSG_sess_set_del_req x)
  | MSG_sess_set_del_rsp _ => '(k, x) ← decode_pfcp_sess_set_del_rsp_t zero_sess_set_del_rsp buf; Some (k, MSG_sess_set_del_rsp x)
  | MSG_sess_estab_req _ => '(k, x) ← decode_pfcp_sess_estab_req_t zero_sess_estab_req buf; Some (k, MSG_sess_estab_req x)
  | MSG_sess_estab_rsp _ => '(k, x) ← decode_pfcp_sess_estab_rsp_t zero_sess_estab_rsp buf; Some (k, MSG_sess_estab_rsp x)
  | MSG_sess_mod_req _ => '(k, x) ← decode_pfcp_sess_mod_req_t zero_sess_mod_req buf; Some (k, MSG_sess_mod_req x)
  | MSG_sess_mod_rsp _ => '(k, x) ← decode_pfcp_sess_mod_rsp_t zero_sess_mod_rsp buf; Some (k, MSG_sess_mod_rsp x)
  | MSG_sess_del_rsp _ => '(k, x) ← decode_pfcp_sess_del_rsp_t zero_sess_del_rsp buf; Some (k, MSG_sess_del_rsp x)
  | MSG_sess_rpt_req _ => '(k, x) ← decode_pfcp_sess_rpt_req_t zero_sess_rpt_req buf; Some (k, MSG_sess_rpt_req x)
  | MSG_sess_rpt_rsp _ => '(k, x) ← decode_pfcp_sess_rpt_rsp_t zero_sess_rpt_rsp buf; Some (k, MSG_sess_rpt_rsp x)
  end.

Definition message_body (m : pfcp_message) : layout :=
  match m with
  | MSG_hrtbeat_req v => hrtbeat_req_body v
  | MSG_hrtbeat_rsp v => hrtbeat_rsp_body v
  | MSG_pfd_mgmt_req v => pfd_mgmt_req_body v
  | MSG_pfd_mgmt_rsp v => pfd_mgmt_rsp_body v
  | MSG_assn_setup_req v => assn_setup_req_body v
  | MSG_assn_setup_rsp v => assn_setup_rsp_body v
  | MSG_assn_upd_req v => assn_upd_req_body v
  | MSG_assn_upd_rsp v => assn_upd_rsp_body v
  | MSG_assn_rel_req v => assn_rel_req_body v
  | MSG_assn_rel_rsp v => assn_rel_rsp_body v
  | MSG_node_rpt_req v => node_rpt_req_body v
  | MSG_node_rpt_rsp v => node_rpt_rsp_body v
  | MSG_sess_set_del_req v => sess_set_del_req_body v
  | MSG_sess_set_del_rsp v => sess_set_del_rsp_body v
  | MSG_sess_estab_req v => sess_estab_req_body v
  | MSG_sess_estab_rsp v => sess_estab_rsp_body v
  | MSG_sess_mod_req v => sess_mod_req_body v
  | MSG_sess_mod_rsp v => sess_mod_rsp_body v
  | MSG_sess_del_rsp v => sess_del_rsp_body v
  | MSG_sess_rpt_req v => sess_rpt_req_body v
  | MSG_sess_rpt_rsp v => sess_rpt_rsp_body v
  end.

Definition message_layout (m : pfcp_message) : layout :=
  match m with
  | MSG_hrtbeat_req v => hrtbeat_req_layout v
  | MSG_hrtbeat_rsp v => hrtbeat_rsp_layout v
  | MSG_pfd_mgmt_req v => pfd_mgmt_req_layout v
  | MSG_pfd_mgmt_rsp v => pfd_mgmt_rsp_layout v
  | MSG_assn_setup_req v => assn_setup_req_layout v
  | MSG_assn_setup_rsp v => assn_setup_rsp_layout v
  | MSG_assn_upd_req v => assn_upd_req_layout v
  | MSG_assn_upd_rsp v => assn_upd_rsp_layout v
  | MSG_assn_rel_req v => assn_rel_req_layout v
  | MSG_assn_rel_rsp v => assn_rel_rsp_layout v
  | MSG_node_rpt_req v => node_rpt_req_layout v
  | MSG_node_rpt_rsp v => node_rpt_rsp_layout v
  | MSG_sess_set_del_req v => sess_set_del_req_layout v
  | MSG_sess_set_del_rsp v => sess_set_del_rsp_layout v
  | MSG_sess_estab_req v => sess_estab_req_layout v
  | MSG_sess_estab_rsp v => sess_estab_rsp_layout v
  | MSG_sess_mod_req v => sess_mod_req_layout v
  | MSG_sess_mod_rsp v => sess_mod_rsp_layout v
  | MSG_sess_del_rsp v => sess_del_rsp_layout v
  | MSG_sess_rpt_req v => sess_rpt_req_layout v
  | MSG_sess_rpt_rsp v => sess_rpt_rsp_layout v
  end.

(** Members in range, lengths and types in the headers as the standard asks. *)
Definition message_ok (m : pfcp_message) : Prop :=
  match m with
  | MSG_hrtbeat_req v => hrtbeat_req_good v
  | MSG_hrtbeat_rsp v => hrtbeat_rsp_good v
  | MSG_pfd_mgmt_req v => pfd_mgmt_req_good v
  | MSG_pfd_mgmt_rsp v => pfd_mgmt_rsp_good v
  | MSG_assn_setup_req v => assn_setup_req_good v
  | MSG_assn_setup_rsp v => assn_setup_rsp_good v
  | MSG_assn_upd_req v => assn_upd_req_good v
  | MSG_assn_upd_rsp v => assn_upd_rsp_good v
  | MSG_assn_rel_req v => assn_rel_req_good v
  | MSG_assn_rel_rsp v => assn_rel_rsp_good v
  | MSG_node_rpt_req v => node_rpt_req_good v
  | MSG_node_rpt_rsp v => node_rpt_rsp_good v
  | MSG_sess_set_del_req v => sess_set_del_req_good v
  | MSG_sess_set_del_rsp v => sess_set_del_rsp_good v
  | MSG_sess_estab_req v => sess_estab_req_good v
  | MSG_sess_estab_rsp v => sess_estab_rsp_good v
  | MSG_sess_mod_req v => sess_mod_req_good v
  | MSG_sess_mod_rsp v => sess_mod_rsp_good v
  | MSG_sess_del_rsp v => sess_del_rsp_good v
  | MSG_sess_rpt_req v => sess_rpt_req_good v
  | MSG_sess_rpt_rsp v => sess_rpt_rsp_good v
  end.

Lemma message_encodes m : message_ok m ->
  encodes (message_encode m) (message_layout m) (size (message_layout m) / 8).
Proof.
  destruct m; cbn [message_ok message_encode message_layout];
    [apply hrtbeat_req_encodes|
     apply hrtbeat_rsp_encodes|
     apply pfd_mgmt_req_encodes|
     apply pfd_mgmt_rsp_encodes|
     apply assn_setup_req_encodes|
     apply assn_setup_rsp_encodes|
     apply assn_upd_req_encodes|
     apply assn_upd_rsp_encodes|
     apply assn_rel_req_encodes|
     apply assn_rel_rsp_encodes|
     apply node_rpt_req_encodes|
     apply node_rpt_rsp_encodes|
     apply sess_set_del_req_encodes|
     apply sess_set_del_rsp_encodes|
     apply sess_estab_req_encodes|
     apply sess_estab_rsp_encodes|
     apply sess_mod_req_encodes|
     apply sess_mod_rsp_encodes|
     apply sess_del_rsp_encodes|
     apply sess_rpt_req_encodes|
     apply sess_rpt_rsp_encodes].
Qed.

Lemma message_decodes m : message_ok m ->
  decodes (message_decode m) (message_layout m) (size (message_body m) / 8) m.
Proof.
  destruct m; intros Hg buf post Hh Hs; unfold message_decode;
    [rewrite (hrtbeat_req_decodes v Hg buf post Hh Hs)|
     rewrite (hrtbeat_rsp_decodes v Hg buf post Hh Hs)|
     rewrite (pfd_mgmt_req_decodes v Hg buf post Hh Hs)|
     rewrite (pfd_mgmt_rsp_decodes v Hg buf post Hh Hs)|
     rewrite (assn_setup_req_decodes v Hg buf post Hh Hs)|
     rewrite (assn_setup_rsp_decodes v Hg buf post Hh Hs)|
     rewrite (assn_upd_req_decodes v Hg buf post Hh Hs)|
     rewrite (assn_upd_rsp_decodes v Hg buf post Hh Hs)|
     rewrite (assn_rel_req_decodes v Hg buf post Hh Hs)|
     rewrite (assn_rel_rsp_decodes v Hg buf post Hh Hs)|
     rewrite (node_rpt_req_decodes v Hg buf post Hh Hs)|
     rewrite (node_rpt_rsp_decodes v Hg buf post Hh Hs)|
     rewrite (sess_set_del_req_decodes v Hg buf post Hh Hs)|
     rewrite (sess_set_del_rsp_decodes v Hg buf post Hh Hs)|
     rewrite (sess_estab_req_decodes v Hg buf post Hh Hs)|
     rewrite (sess_estab_rsp_decodes v Hg buf post Hh Hs)|
     rewrite (sess_mod_req_decodes v Hg buf post Hh Hs)|
     rewrite (sess_mod_rsp_decodes v Hg buf post Hh Hs)|
     rewrite (sess_del_rsp_decodes v Hg buf post Hh Hs)|
     rewrite (sess_rpt_req_decodes v Hg buf post Hh Hs)|
     rewrite (sess_rpt_rsp_decodes v Hg buf post Hh Hs)]; done.
Qed.

(** ** Round trip *)

(** C1: Each of the 21 PFCP messages is read back unchanged by its decoder from the bytes
    its encoder wrote, with its elements, nested groups and arrays, if it has only members
    on which encoder and decoder agree.  These conditions are [message_ok].

    Absent are, in the groups: the PFD contexts of application ids; network instance,
    redirection, transport level marking, forwarding policy, header enrichment, linked
    traffic endpoint and proxying of forwarding parameters; UE address, Ethernet filters and
    framed routes of a PDI; activated and deactivated predefined rules of a PDR; BAR id and
    duplicating parameters of a FAR; packet rate and flow level marking of a QER; the UE
    address of a created PDR.  In the messages: the path failure report of a node report;
    all FQ-CSIDs of session messages; user id, Create URR and traffic endpoints of an
    establishment request; Remove FAR, Remove URR, Remove QER, Create URR, Update URR, Query
    URR and traffic endpoints of a modification request; load and overload control, failed
    rule id, traffic endpoints and usage reports of the responses and reports; the error
    indication of a report request and the Update BAR of its response.

    Of the elements with optional parts: an F-TEID asks the user plane to choose it, a node
    id is an IPv4 address, an outer header is GTP-U over IPv4, the features have 6 bytes, a
    network instance has 32 bytes and an application id 8, a resource information has a
    source interface and no network instance, and the members of F-SEID, resource
    information and SDF filter whose flag is not set are zero.  Numbers and lengths are
    those of the headers.  What happens otherwise is [fteid_received_swapped] and
    [create_urr_not_decoded], for example. *)
Theorem pfcp_message_roundtrip m buf w base :
  message_ok m -> size (message_layout m) < 65536 -> message_room buf w base (size (message_layout m)) ->
  round_trips (message_encode m) (message_decode m)
    (size (message_layout m) / 8) (size (message_body m) / 8) m buf base.
Proof.
  intros Hok Hs Hr. eapply codec_round_trips; [by apply message_encodes|by apply message_decodes|done|exact Hr].
Qed.

(** A session establishment request with a packet detection rule and a forwarding
    rule for uplink traffic. *)
Definition example_request : pfcp_sess_estab_req_t :=
  let ie ty len := mk_ie_header ty len in
  let pdi := set_pdi_src_intfc (mk_src_intfc (ie 20 1) 0 0) (set_pdi_local_fteid
    (mk_fteid (ie 21 2) 0 1 1 0 1 0 0 (repeat 0 16) 7) (set_pdi_header (ie 2 11) zero_pdi)) in
  let pdr := set_create_pdr_pdr_id (mk_pdr_id (ie 56 2) 1) (set_create_pdr_precedence (mk_precedence (ie 29 4) 1)
    (set_create_pdr_pdi pdi (set_create_pdr_far_id (mk_far_id (ie 108 4) 1)
    (set_create_pdr_header (ie 1 37) zero_create_pdr)))) in
  let far := set_create_far_far_id (mk_far_id (ie 108 4) 1) (set_create_far_header (ie 3 8) zero_create_far) in
  set_sess_estab_req_create_pdr_count 1 (set_sess_estab_req_create_pdr (pdr :: repeat zero_create_pdr 15)
  (set_sess_estab_req_create_far_count 1 (set_sess_estab_req_create_far (far :: repeat zero_create_far 15)
  (set_sess_estab_req_header (mk_header 1 0 0 1 50 (12 + 41 + 12) (inl (mk_has_seid 0 5 0 0))) zero_sess_estab_req)))).

(** A concrete message is checked by evaluation. *)
Ltac good_message :=
  repeat lazymatch goal with
  | |- _ ∧ _ => split
  | |- layout_ok _ => apply layout_okb_spec; vm_compute; reflexivity
  | |- opt_good _ _ => hnf
  | |- arr_good _ _ _ _ => split; [vm_compute; split; congruence|]
  | |- Forall _ ?l => let l' := eval hnf in l in change l with l'; first [apply Forall_nil_2|apply Forall_cons_2]
  | |- present _ _ => split
  | |- el_good _ => hnf
  | |- fteid_choose _ => split
  | |- group_good _ _ => split
  | |- message_good _ _ => split
  | |- _ <= _ => vm_compute; discriminate
  | |- _ < _ => reflexivity
  | |- header_tagged _ => reflexivity
  | |- _ = _ => reflexivity
  end.

Lemma pfcp_message_roundtrip_witness :
  round_trips (message_encode (MSG_sess_estab_req example_request))
    (message_decode (MSG_sess_estab_req example_request)) 69 53 (MSG_sess_estab_req example_request) (repeat 0 100) 0.
Proof.
  apply (pfcp_message_roundtrip (MSG_sess_estab_req example_request) (repeat 0 100) [] 0).
  - hnf. good_message.
  - reflexivity.
  - apply message_room_zero. vm_compute. discriminate.
Defined.

(** ** Termination of the decoding loop *)

Section decoding_loop.
Context {K T : Type} (key : list Z -> option K) (step : K -> list Z -> T -> option (Z * T)).
Context (buf : list Z) (buf_len : Z).

(** How far a turn advances depends on the bytes only, not on the structure that is
    filled. *)
Definition steady : Prop := ∀ code here v1 v2 k1 k2 w1 w2,
  step code here v1 = Some (k1, w1) -> step code here v2 = Some (k2, w2) -> k1 = k2.

(** The loop from a count and a structure to the last ones, with the counts at
    which its turns start. *)
Inductive run : list Z -> Z -> T -> Z * T -> Prop :=
| run_end c v : buf_len <= c -> run [] c v (c, v)
| run_turn c v t k v' l r :
    c < buf_len -> key (drop (Z.to_nat c) buf) = Some t ->
    step t (drop (Z.to_nat c) buf) v = Some (k, v') -> run l (u16 (c + k)) v' r ->
    run (c :: l) c v r.

Lemma tlv_loop_run fuel c v r :
  tlv_loop key step fuel buf buf_len c v = Some r -> ∃ l, run l c v r ∧ (length l <= fuel)%nat.
Proof.
  revert c v. induction fuel as [|fuel IH]; intros c v; cbn [tlv_loop]; destruct (Z.ltb_spec c buf_len);
    try done; [intros [= <-]; exists []; split; [by constructor|cbn; lia]| |
               intros [= <-]; exists []; split; [by constructor|cbn; lia]].
  destruct (key _) as [t|] eqn:Et; [|done]. cbn [mbind option_bind].
  destruct (step t _ v) as [[k v']|] eqn:Es; [|done]. cbn [mbind option_bind].
  intros (l & Hl & Hf)%IH. exists (c :: l). split; [by econstructor|cbn; lia].
Qed.

Lemma run_tlv_loop l c v r fuel :
  run l c v r -> (length l <= fuel)%nat -> tlv_loop key step fuel buf buf_len c v = Some r.
Proof.
  intros Hr. revert fuel. induction Hr as [c v Hc|c v t k v' l r Hc Et Es _ IH]; intros fuel Hf.
  - destruct fuel; cbn [tlv_loop]; by rewrite (proj2 (Z.ltb_ge c buf_len)).
  - destruct fuel as [|fuel]; [cbn in Hf; lia|]. cbn [tlv_loop]. rewrite (proj2 (Z.ltb_lt c buf_len)) by done.
    rewrite Et. cbn [mbind option_bind]. rewrite Es. cbn [mbind option_bind]. apply IH. cbn in Hf. lia.
Qed.

Lemma run_counts l1 l2 c v1 v2 r1 r2 : steady -> run l1 c v1 r1 -> run l2 c v2 r2 -> l1 = l2.
Proof.
  intros Hst H1. revert l2 v2 r2. induction H1 as [c v Hc|c v t k v' l r Hc Et Es _ IH];
    intros l2 v2 r2 H2; inversion H2; subst; try lia; [done|].
  f_equal. simplify_eq. assert (k = k0) as <- by (eapply Hst; eauto). by eapply IH.
Qed.

(** From a count the loop goes through again it has fewer turns left. *)
Lemma run_again l c v r c' : run l c v r -> c' ∈ l -> ∃ l' v', run l' c' v' r ∧ (length l' <= length l)%nat.
Proof.
  induction 1 as [|c v t k v' l r Hc Et Es Hr IH]; intros Hin; [by apply not_elem_of_nil in Hin|].
  apply elem_of_cons in Hin as [->|Hin]; [exists (c :: l), v; split; [by econstructor|done]|].
  destruct (IH Hin) as (l' & w & Hr' & Hl). exists l', w. split; [done|cbn; lia].
Qed.

Lemma run_nodup l c v r : steady -> run l c v r -> NoDup l.
Proof.
  intros Hst. induction 1 as [|c v t k v' l r Hc Et Es Hr IH]; constructor; [|done]. intros Hin.
  destruct (run_again _ _ _ _ _ Hr Hin) as (l' & w & Hr' & Hl).
  assert (c :: l = l') as E; [|subst l'; cbn in Hl; lia].
  eapply run_counts; [done| |exact Hr']. by econstructor.
Qed.

Lemma run_range l c v r : 0 <= c < 65536 -> run l c v r -> l ⊆ seqZ 0 65536.
Proof.
  intros Hc Hr. induction Hr as [|c v t k v' l r Hc' Et Es Hr IH]; [apply list_subseteq_nil|].
  intros x [->|Hx]%elem_of_cons; [apply elem_of_seqZ; lia|].
  apply IH; [|done]. unfold uwrap. apply Z.mod_pos_bound. lia.
Qed.

Lemma run_bound l c v r : steady -> 0 <= c < 65536 -> run l c v r -> (length l <= loop_fuel)%nat.
Proof.
  intros Hst Hc Hr. etrans; [apply submseteq_length, NoDup_submseteq|].
  - by eapply run_nodup.
  - by eapply run_range.
  - by rewrite length_seqZ.
Qed.
End decoding_loop.

(** The loop over the elements of a message or a group, when how far its turns advance
    depends on the bytes only, ends within 65536 turns or never: a longer one comes back
    to a count it had.  So the bound of the model gives every result the code has. *)
Theorem decoding_loop_ends {K T} (key : list Z -> option K) (step : K -> list Z -> T -> option (Z * T)) buf buf_len count value more :
  steady step -> 0 <= count < 65536 ->
  tlv_loop key step (loop_fuel + more) buf buf_len count value = tlv_loop key step loop_fuel buf buf_len count value.
Proof.
  intros Hst Hc. destruct (tlv_loop key step (loop_fuel + more) buf buf_len count value) as [r|] eqn:E.
  - apply tlv_loop_run in E as (l & Hr & _). symmetry. apply (run_tlv_loop _ _ _ _ l); [done|].
    by eapply run_bound.
  - destruct (tlv_loop key step loop_fuel buf buf_len count value) as [r|] eqn:E'; [|done].
    apply tlv_loop_run in E' as (l & Hr & Hl). rewrite <- E. apply (run_tlv_loop _ _ _ _ l); [done|lia].
Qed.

Lemma decoding_loop_ends_witness :
  let step := fun ie_type here value =>
    if ie_type =? PFCP_IE_RCVRY_TIME_STMP
    then into decode_pfcp_rcvry_time_stmp_ie_t value.(hrtbeat_req_rcvry_time_stmp) set_hrtbeat_req_rcvry_time_stmp here value
    else skip_ie here value in
  tlv_loop ie_type_at step (loop_fuel + 1) [0; 96; 0; 4; 1; 2; 3; 4] 8 0 zero_hrtbeat_req =
  tlv_loop ie_type_at step loop_fuel [0; 96; 0; 4; 1; 2; 3; 4] 8 0 zero_hrtbeat_req.
Proof.
  intros step. apply (decoding_loop_ends ie_type_at step); [|lia]. subst step.
  intros ie_type here v1 v2 k1 k2 w1 w2. unfold into, skip_ie. destruct (ie_type =? _).
  - change (decode_pfcp_rcvry_time_stmp_ie_t (hrtbeat_req_rcvry_time_stmp v2)) with
      (decode_pfcp_rcvry_time_stmp_ie_t (hrtbeat_req_rcvry_time_stmp v1)).
    destruct (decode_pfcp_rcvry_time_stmp_ie_t _ here) as [[k x]|]; [|done]. intros [= <- _] [= <- _]. done.
  - destruct (ntohs_at here 2); [|done]. intros [= <- _] [= <- _]. done.
Defined.

(** One turn of the loop: it has not reached the end, and the accesses of the turn are in
    bounds. *)
Inductive turn {K T} (key : list Z -> option K) (step : K -> list Z -> T -> option (Z * T)) (buf : list Z)
    (buf_len : Z) : Z * T -> Z * T -> Prop :=
| turn_at c v t k v' :
    c < buf_len -> key (drop (Z.to_nat c) buf) = Some t -> step t (drop (Z.to_nat c) buf) v = Some (k, v') ->
    turn key step buf buf_len (c, v) (u16 (c + k), v').

Lemma turn_loop {K T} (key : list Z -> option K) (step : K -> list Z -> T -> option (Z * T)) buf buf_len x y fuel :
  turn key step buf buf_len x y ->
  tlv_loop key step (S fuel) buf buf_len x.1 x.2 = tlv_loop key step fuel buf buf_len y.1 y.2.
Proof.
  intros [c v t k v' Hc Hk Hs]. cbn [tlv_loop fst snd]. rewrite (proj2 (Z.ltb_lt c buf_len)), Hk by done.
  cbn [mbind option_bind]. by rewrite Hs.
Qed.

(** A state from which the loop has no result in any number of turns, and those that lead
    to it. *)
Lemma turns_diverge {K T} (key : list Z -> option K) (step : K -> list Z -> T -> option (Z * T)) buf buf_len x y :
  rtc (turn key step buf buf_len) x y ->
  (∀ fuel, tlv_loop key step fuel buf buf_len y.1 y.2 = None) -> ∀ fuel, tlv_loop key step fuel buf buf_len x.1 x.2 = None.
Proof.
  induction 1 as [x|x y z Hxy _ IH]; intros Hz fuel; [done|]. destruct fuel as [|fuel].
  - destruct Hxy as [c v t k v' Hc _ _]. cbn. by rewrite (proj2 (Z.ltb_lt c buf_len)).
  - rewrite (turn_loop _ _ _ _ _ _ fuel Hxy). by apply IH.
Qed.

(** C25: At any position of a message or group below 65536 (the counter is a uint16_t), an
    element whose type the loop skips and whose length field is 65532 is skipped by 65536
    bytes, that is by none: every number of turns from there can be made without an access
    out of bounds, and leads back to the same position and the same structure.  So the
    loop hangs, and it has no result from any state that leads there. *)
Theorem unknown_element_hangs {T} (step : Z -> list Z -> T -> option (Z * T)) pre hi lo rest buf_len value :
  let buf := pre ++ hi :: lo :: 255 :: 252 :: rest in
  let count := Z.of_nat (length pre) in
  (∀ here v, step (256 * hi + lo) here v = skip_ie here v) -> count < buf_len -> count < 65536 ->
  (∀ n x, nsteps (turn ie_type_at step buf buf_len) n (count, value) x <-> x = (count, value)) ∧
  ∀ start, rtc (turn ie_type_at step buf buf_len) start (count, value) ->
    ∀ fuel, tlv_loop ie_type_at step fuel buf buf_len start.1 start.2 = None.
Proof.
  intros buf count Hskip Hl Hc.
  assert (drop (Z.to_nat count) buf = hi :: lo :: 255 :: 252 :: rest) as Ed.
  { unfold count, buf. rewrite Nat2Z.id. apply drop_app_length. }
  assert (0 <= count) as H0 by (unfold count; lia). clearbody count buf.
  assert (∀ x, turn ie_type_at step buf buf_len (count, value) x <-> x = (count, value)) as One.
  { assert (u16 (count + 65536) = count) as Eu.
    { unfold uwrap. rewrite <- (Z.mul_1_l 65536) at 1. change 65536 with (2 ^ 16). rewrite Z.mod_add by lia.
      apply Z.mod_small. lia. }
    split.
    - intros H. inversion H as [c v t k v' _ Hk Hs E1 E2]; subst. rewrite Ed in Hk, Hs.
      injection Hk as <-. rewrite Hskip in Hs. injection Hs as <- <-. change (4 + (256 * 255 + 252)) with 65536. by rewrite Eu.
    - intros ->. rewrite <- Eu at 2. econstructor; [done|by rewrite Ed|rewrite Ed, Hskip; reflexivity]. }
  assert (∀ fuel, tlv_loop ie_type_at step fuel buf buf_len count value = None) as Div.
  { induction fuel as [|fuel IH]; [cbn; by rewrite (proj2 (Z.ltb_lt count buf_len))|].
    rewrite <- IH. by apply (turn_loop _ _ _ _ (count, value) (count, value)), One. }
  split; [|intros start Hs; by apply (turns_diverge _ _ _ _ _ _ Hs)].
  induction n as [|n IH]; intros x; split.
  - by inversion 1.
  - intros ->. constructor.
  - intros H. inversion H as [|? ? y ? H1 H2]; subst. apply One in H1 as ->. by apply IH.
  - intros ->. econstructor; [by apply One|by apply IH].
Qed.

(** A heartbeat request with a recovery time stamp and an element of type 1 behind it. *)
Lemma unknown_element_hangs_witness :
  decode_pfcp_hrtbeat_req_t zero_hrtbeat_req
    ([32; 1; 0; 16; 0; 0; 1; 0] ++ [0; 96; 0; 4; 1; 2; 3; 4] ++ [0; 1; 255; 252]) = None.
Proof.
  refine (proj2 (unknown_element_hangs _ [0; 96; 0; 4; 1; 2; 3; 4] 0 1 [] 12 _ (fun here v => eq_refl) eq_refl eq_refl)
    (0, _) _ loop_fuel).
  apply rtc_once. refine (turn_at _ _ _ _ 0 _ _ 8 _ _ _ _); reflexivity.
Defined.

(** ** Repeated elements *)

(** [n] usage reports without content. *)
Definition report_header : pfcp_ie_header_t := mk_ie_header PFCP_IE_USAGE_RPT_SESS_RPT_REQ 0.
Definition empty_reports (n : nat) : layout := concat (repeat (layout_ie_header report_header) n).

Lemma size_empty_reports n : size (empty_reports n) = 32 * Z.of_nat n.
Proof.
  induction n as [|n IH]; [done|]. unfold empty_reports in *. cbn [repeat concat].
  rewrite size_app, IH. change (size (layout_ie_header report_header)) with 32. lia.
Qed.

Lemma empty_report_decodes old here post : holds here (wbits (layout_ie_header report_header) ++ post) ->
  ∃ x, decode_pfcp_usage_rpt_sess_rpt_req_ie_t old here = Some (4, x).
Proof.
  intros Hh. eexists. unfold decode_pfcp_usage_rpt_sess_rpt_req_ie_t, dec_group.
  rewrite (decode_ie_header_decodes report_header ltac:(apply layout_okb_spec; reflexivity) here post Hh) by reflexivity.
  cbn [mbind option_bind]. change (32 / 8) with 4. rewrite tlv_loop_done by done. reflexivity.
Qed.

Section usage_reports.
Context (step : Z -> list Z -> pfcp_sess_rpt_req_t -> option (Z * pfcp_sess_rpt_req_t)).
Context (Hstep : ∀ here v, step PFCP_IE_USAGE_RPT_SESS_RPT_REQ here v =
  into_next 8 decode_pfcp_usage_rpt_sess_rpt_req_ie_t v.(sess_rpt_req_usage_report) v.(sess_rpt_req_usage_report_count)
    set_sess_rpt_req_usage_report set_sess_rpt_req_usage_report_count here v).

Definition reports_of (v : pfcp_sess_rpt_req_t) (j : Z) : Prop :=
  v.(sess_rpt_req_usage_report_count) = j ∧ length v.(sess_rpt_req_usage_report) = MAX_LIST_SIZE ∧ 0 <= j.

Lemma report_step here post v j : holds here (wbits (layout_ie_header report_header) ++ post) -> reports_of v j ->
  if j <? 16 then ∃ v', step PFCP_IE_USAGE_RPT_SESS_RPT_REQ here v = Some (4, v') ∧ reports_of v' (j + 1)
  else step PFCP_IE_USAGE_RPT_SESS_RPT_REQ here v = None.
Proof.
  intros Hh (Hj & Hl & H0). rewrite Hstep. unfold into_next. rewrite Hj. destruct (Z.ltb_spec j 16).
  - destruct (lookup_lt_is_Some_2 (sess_rpt_req_usage_report v) (Z.to_nat j)) as [old Eo];
      [rewrite Hl; unfold MAX_LIST_SIZE; lia|].
    destruct (empty_report_decodes old here post Hh) as [x Ex]. eexists.
    rewrite Eo. cbn [mbind option_bind]. rewrite Ex. cbn [mbind option_bind]. split; [reflexivity|].
    unfold reports_of. cbn. rewrite length_insert, uwrap_small by lia. auto with lia.
  - rewrite lookup_ge_None_2; [done|]. rewrite Hl. unfold MAX_LIST_SIZE. lia.
Qed.

Lemma reports_loop n fuel buf pre post c v j :
  holds buf (pre ++ wbits (empty_reports n) ++ post) -> Z.of_nat (length pre) = 8 * c -> 0 <= c ->
  c + 4 * Z.of_nat n < 65536 -> (n <= fuel)%nat -> reports_of v j -> j <= 16 ->
  if j + Z.of_nat n <=? 16
  then ∃ v', tlv_loop ie_type_at step fuel buf (c + 4 * Z.of_nat n) c v = Some (c + 4 * Z.of_nat n, v') ∧
             reports_of v' (j + Z.of_nat n)
  else tlv_loop ie_type_at step fuel buf (c + 4 * Z.of_nat n) c v = None.
Proof.
  revert fuel pre c v j. induction n as [|n IH]; intros fuel pre c v j Hh Hp Hc Hs Hf Hr Hj.
  { rewrite !Z.add_0_r, (proj2 (Z.leb_le j 16)) by done. exists v. split; [|done]. by apply tlv_loop_done. }
  destruct fuel as [|fuel]; [lia|]. cbn [tlv_loop]. rewrite (proj2 (Z.ltb_lt c _)) by lia.
  unfold empty_reports in Hh. cbn [repeat concat] in Hh. rewrite wbits_app, <- app_assoc in Hh.
  pose proof (holds_drop _ _ _ _ Hh Hp) as Hd. pose proof Hd as Hd'.
  rewrite wbits_header, <- app_assoc in Hd'.
  change (ie_type_at (drop _ buf)) with (ntohs_at (drop (Z.to_nat c) buf) 0).
  rewrite (ntohs_at_holds _ (ie_type report_header) _ ltac:(done) Hd'). cbn [mbind option_bind]. clear Hd'.
  pose proof (report_step _ _ v j Hd Hr) as Ht. change (ie_type report_header) with PFCP_IE_USAGE_RPT_SESS_RPT_REQ.
  destruct (Z.ltb_spec j 16) as [Hlt|Hge].
  - destruct Ht as (v' & -> & Hr'). cbn [mbind option_bind]. rewrite uwrap_small by lia.
    rewrite app_assoc in Hh. specialize (IH fuel _ (c + 4) v' (j + 1) Hh).
    rewrite length_app in IH. change (length (wbits (layout_ie_header report_header))) with 32%nat in IH.
    replace (c + 4 * Z.of_nat (S n)) with (c + 4 + 4 * Z.of_nat n) by lia.
    replace (j + Z.of_nat (S n)) with (j + 1 + Z.of_nat n) by lia. apply IH; auto; lia.
  - rewrite Ht. by rewrite (proj2 (Z.leb_gt _ 16)) by lia.
Qed.
End usage_reports.

(** A session report request with up to 16 usage reports, the size of the array, is
    decoded with that count.  With one more the decoder writes beyond the array: nothing
    compares the counter with MAX_LIST_SIZE. *)
Theorem usage_reports_bound h n buf post value :
  header_tagged h -> layout_ok (layout_header h) ->
  h.(header_message_len) = (if h.(header_s) =? 1 then 12 else 4) + 4 * Z.of_nat n ->
  holds buf (wbits (layout_header h) ++ wbits (empty_reports n) ++ post) ->
  length value.(sess_rpt_req_usage_report) = MAX_LIST_SIZE ->
  if Z.of_nat n <=? 16
  then ∃ v, decode_pfcp_sess_rpt_req_t value buf = Some (4 * Z.of_nat n, v) ∧
            v.(sess_rpt_req_usage_report_count) = Z.of_nat n
  else decode_pfcp_sess_rpt_req_t value buf = None.
Proof.
  intros Ht Hok Hl Hh Hv. unfold decode_pfcp_sess_rpt_req_t, dec_message.
  assert (nz h.(header_s) = (h.(header_s) =? 1) ∧ 0 <= h.(header_message_len) < 65536 ∧
    Z.of_nat (length (wbits (layout_header h))) = 8 * (size (layout_header h) / 8) ∧ size (layout_header h) < 65536)
    as (Hs & Hm & Hz & Hz').
  { unfold header_tagged in Ht. destruct h as [? ? ? ? ? ? [|]]; cbn in Ht; subst;
      apply Forall_app in Hok as [Hok _]; do 5 apply Forall_cons_1 in Hok as [_ Hok];
      by apply Forall_cons_1 in Hok as [Hok _]. }
  rewrite (header_decodes h Ht Hok buf _ Hh Hz'). cbn [mbind option_bind].
  assert (4 * Z.of_nat n < 65536) as Hn by (destruct (header_s h =? 1); lia).
  rewrite Hs, Hl, Z.add_simpl_l, uwrap_small by lia.
  match goal with |- context [tlv_loop _ ?s _ _ _ _ ?v] => pose proof (reports_loop s (fun _ _ => eq_refl) n loop_fuel
    (drop (Z.to_nat (size (layout_header h) / 8)) buf) [] post 0 v 0) as R end.
  cbn [length] in R. rewrite !Z.add_0_l in R.
  specialize (R (holds_drop _ _ _ _ Hh Hz) eq_refl ltac:(lia) Hn ltac:(unfold loop_fuel; lia)).
  specialize (R ltac:(by repeat split) ltac:(lia)).
  destruct (Z.of_nat n <=? 16); [|exact R]. destruct R as (v & E & Hc & _). exists v. by split.
Qed.

Lemma usage_reports_bound_witness :
  let packet n := [33; 56; 0; 12 + 4 * Z.of_nat n] ++ repeat 0 8 ++ [0; 0; 1; 0] ++ concat (repeat [0; 80; 0; 0] n) in
  (∃ v, decode_pfcp_sess_rpt_req_t zero_sess_rpt_req (packet 16%nat) = Some (64, v) ∧
        v.(sess_rpt_req_usage_report_count) = 16) ∧
  decode_pfcp_sess_rpt_req_t zero_sess_rpt_req (packet 17%nat) = None.
Proof.
  intros packet.
  pose proof (fun n => usage_reports_bound (mk_header 1 0 0 1 56 (12 + 4 * Z.of_nat n) (inl (mk_has_seid 0 1 0 0)))
    n (packet n) [] zero_sess_rpt_req eq_refl) as R.
  split.
  - apply (R 16%nat); [apply layout_okb_spec; reflexivity|reflexivity|apply holdsb_spec; vm_compute; reflexivity|reflexivity].
  - apply (R 17%nat); [apply layout_okb_spec; reflexivity|reflexivity|apply holdsb_spec; vm_compute; reflexivity|reflexivity].
Defined.

(** ** Groups that are lost *)

(** The length of the group is never taken, so the loop over its elements has no turn:
    whatever the group holds, only its header is read and its counters are set to 0, and
    32, the number of bits of the header, is returned for a number of bytes. *)
Lemma create_urr_not_decoded h value buf post :
  layout_ok (layout_ie_header h) -> holds buf (wbits (layout_ie_header h) ++ post) ->
  decode_pfcp_create_urr_ie_t value buf =
    Some (32, set_create_urr_add_mntrng_time_count 0 (set_create_urr_aggregated_urrs_count 0
                (set_create_urr_linked_urr_id_count 0 (set_create_urr_header h value)))).
Proof.
  intros Hok Hh. unfold decode_pfcp_create_urr_ie_t, dec_group_nolen.
  rewrite (decode_ie_header_decodes h Hok buf post Hh) by reflexivity. cbn [mbind option_bind].
  by rewrite tlv_loop_done.
Qed.

(** The offset of the first member is the number of bits of the header taken for
    bytes: the FAR ID of a Remove FAR is put 28 bytes behind its place, where the
    decoder does not look for it. *)
Example remove_far_misplaced :
  let far := mk_remove_far (mk_ie_header PFCP_IE_REMOVE_FAR 8) (mk_far_id (mk_ie_header PFCP_IE_FAR_ID 4) 7) in
  encode_pfcp_remove_far_ie_t far (repeat 0 48) 0 =
    Some (96, [0; 16; 0; 8] ++ repeat 0 28 ++ [0; 108; 0; 4; 0; 0; 0; 7] ++ repeat 0 8).
Proof. vm_compute. reflexivity. Qed.
