(* ===== verification/GtpIes.v ===== *)
(** * The information elements of GTPv2 (src/libgtpv2c/include/gtp_ies.h, sv_ies.h)

    One record per C structure, with its members in the order of the C code: a bit
    field or an unsigned integer is a [Z], an array a list.  [zero_x] is the structure
    filled with zeros. *)

From S2P Require Import Prelude Codec.

(** ** Headers *)

(** [sizeof(ie_header_t)] of the packed structure. *)
Definition IE_HEADER_SIZE : Z := 4.

Record ie_header_t := mk_gie {
  gie_type : Z;
  gie_len : Z;
  gie_instance : Z;
}.
Definition zero_ie_header : ie_header_t := mk_gie 0 0 0.

(** The members [gtpc] and the union [teid], which is kept in the form of [has_teid]:
    the sequence number and the spare byte of [no_teid] are the low 24 and the high 8
    bits of its [teid]. *)
Record gtpv2c_header_t := mk_gtpv2c_header {
  gtpc_spare : Z;
  gtpc_teid_flag : Z;
  gtpc_piggyback : Z;
  gtpc_version : Z;
  gtpc_message_type : Z;
  gtpc_message_len : Z;
  has_teid_teid : Z;
  has_teid_seq : Z;
  has_teid_spare : Z;
}.
Definition zero_gtpv2c_header : gtpv2c_header_t := mk_gtpv2c_header 0 0 0 0 0 0 0 0 0.
Definition no_teid_seq (h : gtpv2c_header_t) : Z := h.(has_teid_teid) mod 2 ^ 24.
Definition no_teid_spare (h : gtpv2c_header_t) : Z := h.(has_teid_teid) / 2 ^ 24.

(** ** Protocol configuration options *)

Record pco_opt_t := mk_pco_opt {
  pco_opt_type : Z;
  pco_opt_len : Z;
  pco_opt_data : list Z;
}.
Definition zero_pco_opt : pco_opt_t := mk_pco_opt 0 0 (repeat 0 20).
Definition MAX_PCO_CONTAINERS : nat := 16.

(** [pco] are the bytes the pointer refers to. *)
Record pco_ie_t := mk_pco_ie {
  pco_ie_header : ie_header_t;
  pco_ie_pco : list Z;
  pco_ie_pco_len : Z;
  pco_ie_ext : Z;
  pco_ie_config_proto : Z;
  pco_ie_num_of_opt : Z;
  pco_ie_ids : list pco_opt_t;
}.
Definition zero_pco_ie : pco_ie_t := mk_pco_ie zero_ie_header [] 0 0 0 0 (repeat zero_pco_opt MAX_PCO_CONTAINERS).

(** ** Elements and their parts *)

Record cgi_field_t := mk_cgi_field {
  cgi_field_cgi_mcc_digit_2 : Z;
  cgi_field_cgi_mcc_digit_1 : Z;
  cgi_field_cgi_mnc_digit_3 : Z;
  cgi_field_cgi_mcc_digit_3 : Z;
  cgi_field_cgi_mnc_digit_2 : Z;
  cgi_field_cgi_mnc_digit_1 : Z;
  cgi_field_cgi_lac : Z;
  cgi_field_cgi_ci : Z;
}.
Definition zero_cgi_field : cgi_field_t := mk_cgi_field 0 0 0 0 0 0 0 0.

Record sai_field_t := mk_sai_field {
  sai_field_sai_mcc_digit_2 : Z;
  sai_field_sai_mcc_digit_1 : Z;
  sai_field_sai_mnc_digit_3 : Z;
  sai_field_sai_mcc_digit_3 : Z;
  sai_field_sai_mnc_digit_2 : Z;
  sai_field_sai_mnc_digit_1 : Z;
  sai_field_sai_lac : Z;
  sai_field_sai_sac : Z;
}.
Definition zero_sai_field : sai_field_t := mk_sai_field 0 0 0 0 0 0 0 0.

Record rai_field_t := mk_rai_field {
  rai_field_ria_mcc_digit_2 : Z;
  rai_field_ria_mcc_digit_1 : Z;
  rai_field_ria_mnc_digit_3 : Z;
  rai_field_ria_mcc_digit_3 : Z;
  rai_field_ria_mnc_digit_2 : Z;
  rai_field_ria_mnc_digit_1 : Z;
  rai_field_ria_lac : Z;
  rai_field_ria_rac : Z;
}.
Definition zero_rai_field : rai_field_t := mk_rai_field 0 0 0 0 0 0 0 0.

Record tai_field_t := mk_tai_field {
  tai_field_tai_mcc_digit_2 : Z;
  tai_field_tai_mcc_digit_1 : Z;
  tai_field_tai_mnc_digit_3 : Z;
  tai_field_tai_mcc_digit_3 : Z;
  tai_field_tai_mnc_digit_2 : Z;
  tai_field_tai_mnc_digit_1 : Z;
  tai_field_tai_tac : Z;
}.
Definition zero_tai_field : tai_field_t := mk_tai_field 0 0 0 0 0 0 0.

Record ecgi_field_t := mk_ecgi_field {
  ecgi_field_ecgi_mcc_digit_2 : Z;
  ecgi_field_ecgi_mcc_digit_1 : Z;
  ecgi_field_ecgi_mnc_digit_3 : Z;
  ecgi_field_ecgi_mcc_digit_3 : Z;
  ecgi_field_ecgi_mnc_digit_2 : Z;
  ecgi_field_ecgi_mnc_digit_1 : Z;
  ecgi_field_ecgi_spare : Z;
  ecgi_field_eci : Z;
}.
Definition zero_ecgi_field : ecgi_field_t := mk_ecgi_field 0 0 0 0 0 0 0 0.

Record lai_field_t := mk_lai_field {
  lai_field_lai_mcc_digit_2 : Z;
  lai_field_lai_mcc_digit_1 : Z;
  lai_field_lai_mnc_digit_3 : Z;
  lai_field_lai_mcc_digit_3 : Z;
  lai_field_lai_mnc_digit_2 : Z;
  lai_field_lai_mnc_digit_1 : Z;
  lai_field_lai_lac : Z;
}.
Definition zero_lai_field : lai_field_t := mk_lai_field 0 0 0 0 0 0 0.

Record macro_enb_id_fld_t := mk_macro_enb_id_fld {
  macro_enb_id_fld_menbid_mcc_digit_2 : Z;
  macro_enb_id_fld_menbid_mcc_digit_1 : Z;
  macro_enb_id_fld_menbid_mnc_digit_3 : Z;
  macro_enb_id_fld_menbid_mcc_digit_3 : Z;
  macro_enb_id_fld_menbid_mnc_digit_2 : Z;
  macro_enb_id_fld_menbid_mnc_digit_1 : Z;
  macro_enb_id_fld_menbid_spare : Z;
  macro_enb_id_fld_menbid_macro_enodeb_id : Z;
  macro_enb_id_fld_menbid_macro_enb_id2 : Z;
}.
Definition zero_macro_enb_id_fld : macro_enb_id_fld_t := mk_macro_enb_id_fld 0 0 0 0 0 0 0 0 0.

Record extnded_macro_enb_id_fld_t := mk_extnded_macro_enb_id_fld {
  extnded_macro_enb_id_fld_emenbid_mcc_digit_2 : Z;
  extnded_macro_enb_id_fld_emenbid_mcc_digit_1 : Z;
  extnded_macro_enb_id_fld_emenbid_mnc_digit_3 : Z;
  extnded_macro_enb_id_fld_emenbid_mcc_digit_3 : Z;
  extnded_macro_enb_id_fld_emenbid_mnc_digit_2 : Z;
  extnded_macro_enb_id_fld_emenbid_mnc_digit_1 : Z;
  extnded_macro_enb_id_fld_emenbid_smenb : Z;
  extnded_macro_enb_id_fld_emenbid_spare : Z;
  extnded_macro_enb_id_fld_emenbid_extnded_macro_enb_id : Z;
  extnded_macro_enb_id_fld_emenbid_extnded_macro_enb_id2 : Z;
}.
Definition zero_extnded_macro_enb_id_fld : extnded_macro_enb_id_fld_t := mk_extnded_macro_enb_id_fld 0 0 0 0 0 0 0 0 0 0.

Record mm_context_t := mk_mm_context {}.
Definition zero_mm_context : mm_context_t := mk_mm_context.

Record auth_triplet_t := mk_auth_triplet {
  auth_triplet_rand : list Z;
  auth_triplet_sres : Z;
  auth_triplet_kc : Z;
}.
Definition zero_auth_triplet : auth_triplet_t := mk_auth_triplet (repeat 0 16) 0 0.

Record auth_quintuplet_t := mk_auth_quintuplet {
  auth_quintuplet_rand : list Z;
  auth_quintuplet_xres_length : Z;
  auth_quintuplet_xres : Z;
  auth_quintuplet_ck : list Z;
  auth_quintuplet_ik : list Z;
  auth_quintuplet_autn_length : Z;
  auth_quintuplet_autn : Z;
}.
Definition zero_auth_quintuplet : auth_quintuplet_t := mk_auth_quintuplet (repeat 0 16) 0 0 (repeat 0 16) (repeat 0 16) 0 0.

Record auth_quadruplet_t := mk_auth_quadruplet {
  auth_quadruplet_rand : list Z;
  auth_quadruplet_xres_length : Z;
  auth_quadruplet_xres : Z;
  auth_quadruplet_autn_length : Z;
  auth_quadruplet_autn : Z;
  auth_quadruplet_kasme : list Z;
}.
Definition zero_auth_quadruplet : auth_quadruplet_t := mk_auth_quadruplet (repeat 0 16) 0 0 0 0 (repeat 0 32).

Record bss_container_t := mk_bss_container {
  bss_container_spare : Z;
  bss_container_phx : Z;
  bss_container_sapi : Z;
  bss_container_rp : Z;
  bss_container_pfi : Z;
  bss_container_sapi2 : Z;
  bss_container_spare2 : Z;
  bss_container_radio_priority : Z;
  bss_container_xid_parms_len : Z;
  bss_container_xid_parameters : Z;
}.
Definition zero_bss_container : bss_container_t := mk_bss_container 0 0 0 0 0 0 0 0 0 0.

Record trgt_id_type_rnc_id_t := mk_trgt_id_type_rnc_id {
  trgt_id_type_rnc_id_mcc_digit_2 : Z;
  trgt_id_type_rnc_id_mcc_digit_1 : Z;
  trgt_id_type_rnc_id_mnc_digit_3 : Z;
  trgt_id_type_rnc_id_mcc_digit_3 : Z;
  trgt_id_type_rnc_id_mnc_digit_2 : Z;
  trgt_id_type_rnc_id_mnc_digit_1 : Z;
  trgt_id_type_rnc_id_lac : Z;
  trgt_id_type_rnc_id_rac : Z;
  trgt_id_type_rnc_id_rnc_id : Z;
  trgt_id_type_rnc_id_extended_rnc_id : Z;
}.
Definition zero_trgt_id_type_rnc_id : trgt_id_type_rnc_id_t := mk_trgt_id_type_rnc_id 0 0 0 0 0 0 0 0 0 0.

Record trgt_id_type_macro_enb_t := mk_trgt_id_type_macro_enb {
  trgt_id_type_macro_enb_mcc_digit_2 : Z;
  trgt_id_type_macro_enb_mcc_digit_1 : Z;
  trgt_id_type_macro_enb_mnc_digit_3 : Z;
  trgt_id_type_macro_enb_mcc_digit_3 : Z;
  trgt_id_type_macro_enb_mnc_digit_2 : Z;
  trgt_id_type_macro_enb_mnc_digit_1 : Z;
  trgt_id_type_macro_enb_spare : Z;
  trgt_id_type_macro_enb_macro_enb_id_field2 : Z;
  trgt_id_type_macro_enb_tac : Z;
}.
Definition zero_trgt_id_type_macro_enb : trgt_id_type_macro_enb_t := mk_trgt_id_type_macro_enb 0 0 0 0 0 0 0 0 0.

Record trgt_id_type_home_enb_t := mk_trgt_id_type_home_enb {
  trgt_id_type_home_enb_mcc_digit_2 : Z;
  trgt_id_type_home_enb_mcc_digit_1 : Z;
  trgt_id_type_home_enb_mnc_digit_3 : Z;
  trgt_id_type_home_enb_mcc_digit_3 : Z;
  trgt_id_type_home_enb_mnc_digit_2 : Z;
  trgt_id_type_home_enb_mnc_digit_1 : Z;
  trgt_id_type_home_enb_spare : Z;
  trgt_id_type_home_enb_home_enodeb_id : Z;
  trgt_id_type_home_enb_home_enodeb_id2 : Z;
  trgt_id_type_home_enb_tac : Z;
}.
Definition zero_trgt_id_type_home_enb : trgt_id_type_home_enb_t := mk_trgt_id_type_home_enb 0 0 0 0 0 0 0 0 0 0.

Record trgt_id_type_extnded_macro_enb_t := mk_trgt_id_type_extnded_macro_enb {
  trgt_id_type_extnded_macro_enb_mcc_digit_2 : Z;
  trgt_id_type_extnded_macro_enb_mcc_digit_1 : Z;
  trgt_id_type_extnded_macro_enb_mnc_digit_3 : Z;
  trgt_id_type_extnded_macro_enb_mcc_digit_3 : Z;
  trgt_id_type_extnded_macro_enb_mnc_digit_2 : Z;
  trgt_id_type_extnded_macro_enb_mnc_digit_1 : Z;
  trgt_id_type_extnded_macro_enb_smenb : Z;
  trgt_id_type_extnded_macro_enb_spare : Z;
  trgt_id_type_extnded_macro_enb_extnded_macro_enb_id_field2 : Z;
  trgt_id_type_extnded_macro_enb_tac : Z;
}.
Definition zero_trgt_id_type_extnded_macro_enb : trgt_id_type_extnded_macro_enb_t := mk_trgt_id_type_extnded_macro_enb 0 0 0 0 0 0 0 0 0 0.

Record trgt_id_type_gnode_id_t := mk_trgt_id_type_gnode_id {
  trgt_id_type_gnode_id_mcc_digit_2 : Z;
  trgt_id_type_gnode_id_mcc_digit_1 : Z;
  trgt_id_type_gnode_id_mnc_digit_3 : Z;
  trgt_id_type_gnode_id_mcc_digit_3 : Z;
  trgt_id_type_gnode_id_mnc_digit_2 : Z;
  trgt_id_type_gnode_id_mnc_digit_1 : Z;
  trgt_id_type_gnode_id_spare : Z;
  trgt_id_type_gnode_id_gnb_id_len : Z;
  trgt_id_type_gnode_id_gnodeb_id : Z;
  trgt_id_type_gnode_id_fivegs_tac : Z;
}.
Definition zero_trgt_id_type_gnode_id : trgt_id_type_gnode_id_t := mk_trgt_id_type_gnode_id 0 0 0 0 0 0 0 0 0 0.

Record trgt_id_type_macro_ng_enb_t := mk_trgt_id_type_macro_ng_enb {
  trgt_id_type_macro_ng_enb_mcc_digit_2 : Z;
  trgt_id_type_macro_ng_enb_mcc_digit_1 : Z;
  trgt_id_type_macro_ng_enb_mnc_digit_3 : Z;
  trgt_id_type_macro_ng_enb_mcc_digit_3 : Z;
  trgt_id_type_macro_ng_enb_mnc_digit_2 : Z;
  trgt_id_type_macro_ng_enb_mnc_digit_1 : Z;
  trgt_id_type_macro_ng_enb_spare : Z;
  trgt_id_type_macro_ng_enb_macro_ng_enb_id : Z;
  trgt_id_type_macro_ng_enb_fivegs_tac : Z;
}.
Definition zero_trgt_id_type_macro_ng_enb : trgt_id_type_macro_ng_enb_t := mk_trgt_id_type_macro_ng_enb 0 0 0 0 0 0 0 0 0.

Record trgt_id_type_extnded_macro_ng_enb_t := mk_trgt_id_type_extnded_macro_ng_enb {
  trgt_id_type_extnded_macro_ng_enb_mcc_digit_2 : Z;
  trgt_id_type_extnded_macro_ng_enb_mcc_digit_1 : Z;
  trgt_id_type_extnded_macro_ng_enb_mnc_digit_3 : Z;
  trgt_id_type_extnded_macro_ng_enb_mcc_digit_3 : Z;
  trgt_id_type_extnded_macro_ng_enb_mnc_digit_2 : Z;
  trgt_id_type_extnded_macro_ng_enb_mnc_digit_1 : Z;
  trgt_id_type_extnded_macro_ng_enb_smenb : Z;
  trgt_id_type_extnded_macro_ng_enb_spare : Z;
  trgt_id_type_extnded_macro_ng_enb_extnded_macro_ng_enb_id : Z;
  trgt_id_type_extnded_macro_ng_enb_fivegs_tac : Z;
}.
Definition zero_trgt_id_type_extnded_macro_ng_enb : trgt_id_type_extnded_macro_ng_enb_t := mk_trgt_id_type_extnded_macro_ng_enb 0 0 0 0 0 0 0 0 0 0.

Record gtp_imsi_ie_t := mk_gtp_imsi {
  gtp_imsi_header : ie_header_t;
  gtp_imsi_imsi_number_digits : Z;
  gtp_imsi_imsi64 : Z;
}.
Definition zero_gtp_imsi : gtp_imsi_ie_t := mk_gtp_imsi zero_ie_header 0 0.

Record gtp_cause_ie_t := mk_gtp_cause {
  gtp_cause_header : ie_header_t;
  gtp_cause_cause_value : Z;
  gtp_cause_spare2 : Z;
  gtp_cause_pce : Z;
  gtp_cause_bce : Z;
  gtp_cause_cs : Z;
  gtp_cause_offend_ie_type : Z;
  gtp_cause_offend_ie_len : Z;
  gtp_cause_spareinstance : Z;
}.
Definition zero_gtp_cause : gtp_cause_ie_t := mk_gtp_cause zero_ie_header 0 0 0 0 0 0 0 0.

Record gtp_recovery_ie_t := mk_gtp_recovery {
  gtp_recovery_header : ie_header_t;
  gtp_recovery_recovery : Z;
}.
Definition zero_gtp_recovery : gtp_recovery_ie_t := mk_gtp_recovery zero_ie_header 0.

Record gtp_acc_pt_name_ie_t := mk_gtp_acc_pt_name {
  gtp_acc_pt_name_header : ie_header_t;
  gtp_acc_pt_name_apn : list Z;
}.
Definition zero_gtp_acc_pt_name : gtp_acc_pt_name_ie_t := mk_gtp_acc_pt_name zero_ie_header (repeat 0 128).

Record gtp_agg_max_bit_rate_ie_t := mk_gtp_agg_max_bit_rate {
  gtp_agg_max_bit_rate_header : ie_header_t;
  gtp_agg_max_bit_rate_apn_ambr_uplnk : Z;
  gtp_agg_max_bit_rate_apn_ambr_dnlnk : Z;
}.
Definition zero_gtp_agg_max_bit_rate : gtp_agg_max_bit_rate_ie_t := mk_gtp_agg_max_bit_rate zero_ie_header 0 0.

Record gtp_eps_bearer_id_ie_t := mk_gtp_eps_bearer_id {
  gtp_eps_bearer_id_header : ie_header_t;
  gtp_eps_bearer_id_ebi_spare2 : Z;
  gtp_eps_bearer_id_ebi_ebi : Z;
}.
Definition zero_gtp_eps_bearer_id : gtp_eps_bearer_id_ie_t := mk_gtp_eps_bearer_id zero_ie_header 0 0.

Record gtp_ip_address_ie_t := mk_gtp_ip_address {
  gtp_ip_address_header : ie_header_t;
  gtp_ip_address_ipv4_ipv6_addr : Z;
}.
Definition zero_gtp_ip_address : gtp_ip_address_ie_t := mk_gtp_ip_address zero_ie_header 0.

Record gtp_mbl_equip_idnty_ie_t := mk_gtp_mbl_equip_idnty {
  gtp_mbl_equip_idnty_header : ie_header_t;
  gtp_mbl_equip_idnty_mei : Z;
}.
Definition zero_gtp_mbl_equip_idnty : gtp_mbl_equip_idnty_ie_t := mk_gtp_mbl_equip_idnty zero_ie_header 0.

Record gtp_msisdn_ie_t := mk_gtp_msisdn {
  gtp_msisdn_header : ie_header_t;
  gtp_msisdn_msisdn_number_digits : Z;
}.
Definition zero_gtp_msisdn : gtp_msisdn_ie_t := mk_gtp_msisdn zero_ie_header 0.

Record gtp_indication_ie_t := mk_gtp_indication {
  gtp_indication_header : ie_header_t;
  gtp_indication_indication_daf : Z;
  gtp_indication_indication_dtf : Z;
  gtp_indication_indication_hi : Z;
  gtp_indication_indication_dfi : Z;
  gtp_indication_indication_oi : Z;
  gtp_indication_indication_isrsi : Z;
  gtp_indication_indication_israi : Z;
  gtp_indication_indication_sgwci : Z;
  gtp_indication_indication_sqci : Z;
  gtp_indication_indication_uimsi : Z;
  gtp_indication_indication_cfsi : Z;
  gtp_indication_indication_crsi : Z;
  gtp_indication_indication_p : Z;
  gtp_indication_indication_pt : Z;
  gtp_indication_indication_si : Z;
  gtp_indication_indication_msv : Z;
  gtp_indication_indication_retloc : Z;
  gtp_indication_indication_pbic : Z;
  gtp_indication_indication_srni : Z;
  gtp_indication_indication_s6af : Z;
  gtp_indication_indication_s4af : Z;
  gtp_indication_indication_mbmdt : Z;
  gtp_indication_indication_israu : Z;
  gtp_indication_indication_ccrsi : Z;
  gtp_indication_indication_cprai : Z;
  gtp_indication_indication_arrl : Z;
  gtp_indication_indication_ppof : Z;
  gtp_indication_indication_ppon_ppei : Z;
  gtp_indication_indication_ppsi : Z;
  gtp_indication_indication_csfbi : Z;
  gtp_indication_indication_clii : Z;
  gtp_indication_indication_cpsr : Z;
  gtp_indication_indication_nsi : Z;
  gtp_indication_indication_uasi : Z;
  gtp_indication_indication_dtci : Z;
  gtp_indication_indication_bdwi : Z;
  gtp_indication_indication_psci : Z;
  gtp_indication_indication_pcri : Z;
  gtp_indication_indication_aosi : Z;
  gtp_indication_indication_aopi : Z;
  gtp_indication_indication_roaai : Z;
  gtp_indication_indication_epcosi : Z;
  gtp_indication_indication_cpopci : Z;
  gtp_indication_indication_pmtsmi : Z;
  gtp_indication_indication_s11tf : Z;
  gtp_indication_indication_pnsi : Z;
  gtp_indication_indication_unaccsi : Z;
  gtp_indication_indication_wpmsi : Z;
  gtp_indication_indication_spare2 : Z;
  gtp_indication_indication_spare3 : Z;
  gtp_indication_indication_spare4 : Z;
  gtp_indication_indication_eevrsi : Z;
  gtp_indication_indication_ltemui : Z;
  gtp_indication_indication_ltempi : Z;
  gtp_indication_indication_enbcrsi : Z;
  gtp_indication_indication_tspcmi : Z;
}.
Definition zero_gtp_indication : gtp_indication_ie_t := mk_gtp_indication zero_ie_header 0 0 0 0 0 0 0 0 0 0 0 0 0 0 0 0 0 0 0 0 0 0 0 0 0 0 0 0 0 0 0 0 0 0 0 0 0 0 0 0 0 0 0 0 0 0 0 0 0 0 0 0 0 0 0 0.

Record gtp_prot_cfg_opts_ie_t := mk_gtp_prot_cfg_opts {
  gtp_prot_cfg_opts_header : ie_header_t;
  gtp_prot_cfg_opts_pco : Z;
}.
Definition zero_gtp_prot_cfg_opts : gtp_prot_cfg_opts_ie_t := mk_gtp_prot_cfg_opts zero_ie_header 0.

Record gtp_pdn_addr_alloc_ie_t := mk_gtp_pdn_addr_alloc {
  gtp_pdn_addr_alloc_header : ie_header_t;
  gtp_pdn_addr_alloc_spare2 : Z;
  gtp_pdn_addr_alloc_pdn_type : Z;
  gtp_pdn_addr_alloc_pdn_addr_and_pfx : list Z;
}.
Definition zero_gtp_pdn_addr_alloc : gtp_pdn_addr_alloc_ie_t := mk_gtp_pdn_addr_alloc zero_ie_header 0 0 (repeat 0 21).

Record gtp_bearer_qlty_of_svc_ie_t := mk_gtp_bearer_qlty_of_svc {
  gtp_bearer_qlty_of_svc_header : ie_header_t;
  gtp_bearer_qlty_of_svc_spare2 : Z;
  gtp_bearer_qlty_of_svc_pci : Z;
  gtp_bearer_qlty_of_svc_pl : Z;
  gtp_bearer_qlty_of_svc_spare3 : Z;
  gtp_bearer_qlty_of_svc_pvi : Z;
  gtp_bearer_qlty_of_svc_qci : Z;
  gtp_bearer_qlty_of_svc_max_bit_rate_uplnk : Z;
  gtp_bearer_qlty_of_svc_max_bit_rate_dnlnk : Z;
  gtp_bearer_qlty_of_svc_guarntd_bit_rate_uplnk : Z;
  gtp_bearer_qlty_of_svc_guarntd_bit_rate_dnlnk : Z;
}.
Definition zero_gtp_bearer_qlty_of_svc : gtp_bearer_qlty_of_svc_ie_t := mk_gtp_bearer_qlty_of_svc zero_ie_header 0 0 0 0 0 0 0 0 0 0.

Record gtp_flow_qlty_of_svc_ie_t := mk_gtp_flow_qlty_of_svc {
  gtp_flow_qlty_of_svc_header : ie_header_t;
  gtp_flow_qlty_of_svc_qci : Z;
  gtp_flow_qlty_of_svc_max_bit_rate_uplnk : Z;
  gtp_flow_qlty_of_svc_max_bit_rate_dnlnk : Z;
  gtp_flow_qlty_of_svc_guarntd_bit_rate_uplnk : Z;
  gtp_flow_qlty_of_svc_guarntd_bit_rate_dnlnk : Z;
}.
Definition zero_gtp_flow_qlty_of_svc : gtp_flow_qlty_of_svc_ie_t := mk_gtp_flow_qlty_of_svc zero_ie_header 0 0 0 0 0.

Record gtp_rat_type_ie_t := mk_gtp_rat_type {
  gtp_rat_type_header : ie_header_t;
  gtp_rat_type_rat_type : Z;
}.
Definition zero_gtp_rat_type : gtp_rat_type_ie_t := mk_gtp_rat_type zero_ie_header 0.

Record gtp_serving_network_ie_t := mk_gtp_serving_network {
  gtp_serving_network_header : ie_header_t;
  gtp_serving_network_mcc_digit_2 : Z;
  gtp_serving_network_mcc_digit_1 : Z;
  gtp_serving_network_mnc_digit_3 : Z;
  gtp_serving_network_mcc_digit_3 : Z;
  gtp_serving_network_mnc_digit_2 : Z;
  gtp_serving_network_mnc_digit_1 : Z;
}.
Definition zero_gtp_serving_network : gtp_serving_network_ie_t := mk_gtp_serving_network zero_ie_header 0 0 0 0 0 0.

Record gtp_eps_bearer_lvl_traffic_flow_tmpl_ie_t := mk_gtp_eps_bearer_lvl_traffic_flow_tmpl {
  gtp_eps_bearer_lvl_traffic_flow_tmpl_header : ie_header_t;
  gtp_eps_bearer_lvl_traffic_flow_tmpl_eps_bearer_lvl_tft : list Z;
}.
Definition zero_gtp_eps_bearer_lvl_traffic_flow_tmpl : gtp_eps_bearer_lvl_traffic_flow_tmpl_ie_t := mk_gtp_eps_bearer_lvl_traffic_flow_tmpl zero_ie_header (repeat 0 257).

Record gtp_traffic_agg_desc_ie_t := mk_gtp_traffic_agg_desc {
  gtp_traffic_agg_desc_header : ie_header_t;
  gtp_traffic_agg_desc_traffic_agg_desc : Z;
}.
Definition zero_gtp_traffic_agg_desc : gtp_traffic_agg_desc_ie_t := mk_gtp_traffic_agg_desc zero_ie_header 0.

Record gtp_user_loc_info_ie_t := mk_gtp_user_loc_info {
  gtp_user_loc_info_header : ie_header_t;
  gtp_user_loc_info_extnded_macro_enb_id : Z;
  gtp_user_loc_info_macro_enodeb_id : Z;
  gtp_user_loc_info_lai : Z;
  gtp_user_loc_info_ecgi : Z;
  gtp_user_loc_info_tai : Z;
  gtp_user_loc_info_rai : Z;
  gtp_user_loc_info_sai : Z;
  gtp_user_loc_info_cgi : Z;
  gtp_user_loc_info_cgi2 : cgi_field_t;
  gtp_user_loc_info_sai2 : sai_field_t;
  gtp_user_loc_info_rai2 : rai_field_t;
  gtp_user_loc_info_tai2 : tai_field_t;
  gtp_user_loc_info_ecgi2 : ecgi_field_t;
  gtp_user_loc_info_lai2 : lai_field_t;
  gtp_user_loc_info_macro_enodeb_id2 : macro_enb_id_fld_t;
  gtp_user_loc_info_extended_macro_enodeb_id2 : extnded_macro_enb_id_fld_t;
}.
Definition zero_gtp_user_loc_info : gtp_user_loc_info_ie_t := mk_gtp_user_loc_info zero_ie_header 0 0 0 0 0 0 0 0 zero_cgi_field zero_sai_field zero_rai_field zero_tai_field zero_ecgi_field zero_lai_field zero_macro_enb_id_fld zero_extnded_macro_enb_id_fld.

Record gtp_fully_qual_tunn_endpt_idnt_ie_t := mk_gtp_fully_qual_tunn_endpt_idnt {
  gtp_fully_qual_tunn_endpt_idnt_header : ie_header_t;
  gtp_fully_qual_tunn_endpt_idnt_v4 : Z;
  gtp_fully_qual_tunn_endpt_idnt_v6 : Z;
  gtp_fully_qual_tunn_endpt_idnt_interface_type : Z;
  gtp_fully_qual_tunn_endpt_idnt_teid_gre_key : Z;
  gtp_fully_qual_tunn_endpt_idnt_ipv4_address : Z;
  gtp_fully_qual_tunn_endpt_idnt_ipv6_address : list Z;
}.
Definition zero_gtp_fully_qual_tunn_endpt_idnt : gtp_fully_qual_tunn_endpt_idnt_ie_t := mk_gtp_fully_qual_tunn_endpt_idnt zero_ie_header 0 0 0 0 0 (repeat 0 16).

Record gtp_tmsi_ie_t := mk_gtp_tmsi {
  gtp_tmsi_header : ie_header_t;
  gtp_tmsi_tmsi : Z;
}.
Definition zero_gtp_tmsi : gtp_tmsi_ie_t := mk_gtp_tmsi zero_ie_header 0.

Record gtp_global_cn_id_ie_t := mk_gtp_global_cn_id {
  gtp_global_cn_id_header : ie_header_t;
  gtp_global_cn_id_mcc_digit_2 : Z;
  gtp_global_cn_id_mcc_digit_1 : Z;
  gtp_global_cn_id_mnc_digit_3 : Z;
  gtp_global_cn_id_mcc_digit_3 : Z;
  gtp_global_cn_id_mnc_digit_2 : Z;
  gtp_global_cn_id_mnc_digit_1 : Z;
  gtp_global_cn_id_cn : Z;
}.
Definition zero_gtp_global_cn_id : gtp_global_cn_id_ie_t := mk_gtp_global_cn_id zero_ie_header 0 0 0 0 0 0 0.

Record gtp_s103_pdn_data_fwdng_info_ie_t := mk_gtp_s103_pdn_data_fwdng_info {
  gtp_s103_pdn_data_fwdng_info_header : ie_header_t;
  gtp_s103_pdn_data_fwdng_info_hsgw_addr_fwdng_len : Z;
  gtp_s103_pdn_data_fwdng_info_hsgw_addr_fwdng : Z;
  gtp_s103_pdn_data_fwdng_info_gre_key : Z;
  gtp_s103_pdn_data_fwdng_info_eps_bearer_id_nbr : Z;
  gtp_s103_pdn_data_fwdng_info_spare2 : Z;
}.
Definition zero_gtp_s103_pdn_data_fwdng_info : gtp_s103_pdn_data_fwdng_info_ie_t := mk_gtp_s103_pdn_data_fwdng_info zero_ie_header 0 0 0 0 0.

Record gtp_s1u_data_fwdng_ie_t := mk_gtp_s1u_data_fwdng {
  gtp_s1u_data_fwdng_header : ie_header_t;
  gtp_s1u_data_fwdng_spare2 : Z;
  gtp_s1u_data_fwdng_sgw_addr_len : Z;
  gtp_s1u_data_fwdng_sgw_address : Z;
  gtp_s1u_data_fwdng_sgw_s1u_teid : Z;
}.
Definition zero_gtp_s1u_data_fwdng : gtp_s1u_data_fwdng_ie_t := mk_gtp_s1u_data_fwdng zero_ie_header 0 0 0 0.

Record gtp_delay_value_ie_t := mk_gtp_delay_value {
  gtp_delay_value_header : ie_header_t;
  gtp_delay_value_delay_value : Z;
}.
Definition zero_gtp_delay_value : gtp_delay_value_ie_t := mk_gtp_delay_value zero_ie_header 0.

Record gtp_bearer_context_ie_t := mk_gtp_bearer_context {
  gtp_bearer_context_header : ie_header_t;
  gtp_bearer_context_bearer_context : list Z;
}.
Definition zero_gtp_bearer_context : gtp_bearer_context_ie_t := mk_gtp_bearer_context zero_ie_header (repeat 0 8).

Record gtp_charging_id_ie_t := mk_gtp_charging_id {
  gtp_charging_id_header : ie_header_t;
  gtp_charging_id_chrgng_id_val : Z;
}.
Definition zero_gtp_charging_id : gtp_charging_id_ie_t := mk_gtp_charging_id zero_ie_header 0.

Record gtp_chrgng_char_ie_t := mk_gtp_chrgng_char {
  gtp_chrgng_char_header : ie_header_t;
  gtp_chrgng_char_chrgng_char_val : Z;
}.
Definition zero_gtp_chrgng_char : gtp_chrgng_char_ie_t := mk_gtp_chrgng_char zero_ie_header 0.

Record gtp_trc_info_ie_t := mk_gtp_trc_info {
  gtp_trc_info_header : ie_header_t;
  gtp_trc_info_mcc_digit_2 : Z;
  gtp_trc_info_mcc_digit_1 : Z;
  gtp_trc_info_mnc_digit_3 : Z;
  gtp_trc_info_mcc_digit_3 : Z;
  gtp_trc_info_mnc_digit_2 : Z;
  gtp_trc_info_mnc_digit_1 : Z;
  gtp_trc_info_trace_id : Z;
  gtp_trc_info_trigrng_evnts : list Z;
  gtp_trc_info_list_of_ne_types : Z;
  gtp_trc_info_sess_trc_depth : Z;
  gtp_trc_info_list_of_intfcs : list Z;
  gtp_trc_info_ip_addr_of_trc_coll_entity : Z;
}.
Definition zero_gtp_trc_info : gtp_trc_info_ie_t := mk_gtp_trc_info zero_ie_header 0 0 0 0 0 0 0 (repeat 0 9) 0 0 (repeat 0 12) 0.

Record gtp_bearer_flags_ie_t := mk_gtp_bearer_flags {
  gtp_bearer_flags_header : ie_header_t;
  gtp_bearer_flags_spare2 : Z;
  gtp_bearer_flags_asi : Z;
  gtp_bearer_flags_vind : Z;
  gtp_bearer_flags_vb : Z;
  gtp_bearer_flags_ppc : Z;
}.
Definition zero_gtp_bearer_flags : gtp_bearer_flags_ie_t := mk_gtp_bearer_flags zero_ie_header 0 0 0 0 0.

Record gtp_pdn_type_ie_t := mk_gtp_pdn_type {
  gtp_pdn_type_header : ie_header_t;
  gtp_pdn_type_pdn_type_spare2 : Z;
  gtp_pdn_type_pdn_type_pdn_type : Z;
}.
Definition zero_gtp_pdn_type : gtp_pdn_type_ie_t := mk_gtp_pdn_type zero_ie_header 0 0.

Record gtp_proc_trans_id_ie_t := mk_gtp_proc_trans_id {
  gtp_proc_trans_id_header : ie_header_t;
  gtp_proc_trans_id_proc_trans_id : Z;
}.
Definition zero_gtp_proc_trans_id : gtp_proc_trans_id_ie_t := mk_gtp_proc_trans_id zero_ie_header 0.

Record gtp_gsm_key_and_triplets_ie_t := mk_gtp_gsm_key_and_triplets {
  gtp_gsm_key_and_triplets_header : ie_header_t;
  gtp_gsm_key_and_triplets_security_mode : Z;
  gtp_gsm_key_and_triplets_spare2 : Z;
  gtp_gsm_key_and_triplets_drxi : Z;
  gtp_gsm_key_and_triplets_cksn : Z;
  gtp_gsm_key_and_triplets_nbr_of_triplet : Z;
  gtp_gsm_key_and_triplets_spare3 : Z;
  gtp_gsm_key_and_triplets_uambri : Z;
  gtp_gsm_key_and_triplets_sambri : Z;
  gtp_gsm_key_and_triplets_spare4 : Z;
  gtp_gsm_key_and_triplets_used_cipher : Z;
  gtp_gsm_key_and_triplets_kc : Z;
  gtp_gsm_key_and_triplets_auth_triplet : Z;
  gtp_gsm_key_and_triplets_drx_parameter : Z;
  gtp_gsm_key_and_triplets_uplnk_subscrbd_ue_ambr : Z;
  gtp_gsm_key_and_triplets_dnlnk_subscrbd_ue_ambr : Z;
  gtp_gsm_key_and_triplets_uplnk_used_ue_ambr : Z;
  gtp_gsm_key_and_triplets_dnlnk_used_ue_ambr : Z;
  gtp_gsm_key_and_triplets_ue_ntwk_capblty_len : Z;
  gtp_gsm_key_and_triplets_ue_ntwk_capblty : Z;
  gtp_gsm_key_and_triplets_ms_ntwk_capblty_len : Z;
  gtp_gsm_key_and_triplets_ms_ntwk_capblty : Z;
  gtp_gsm_key_and_triplets_mei_length : Z;
  gtp_gsm_key_and_triplets_mei : Z;
  gtp_gsm_key_and_triplets_ecna : Z;
  gtp_gsm_key_and_triplets_nbna : Z;
  gtp_gsm_key_and_triplets_hnna : Z;
  gtp_gsm_key_and_triplets_ena : Z;
  gtp_gsm_key_and_triplets_ina : Z;
  gtp_gsm_key_and_triplets_gana : Z;
  gtp_gsm_key_and_triplets_gena : Z;
  gtp_gsm_key_and_triplets_una : Z;
  gtp_gsm_key_and_triplets_vdom_pref_ue_usage_len : Z;
  gtp_gsm_key_and_triplets_voice_domain_pref_and_ues_usage_setting : Z;
}.
Definition zero_gtp_gsm_key_and_triplets : gtp_gsm_key_and_triplets_ie_t := mk_gtp_gsm_key_and_triplets zero_ie_header 0 0 0 0 0 0 0 0 0 0 0 0 0 0 0 0 0 0 0 0 0 0 0 0 0 0 0 0 0 0 0 0 0.

Record gtp_umts_key_used_cipher_and_quintuplets_ie_t := mk_gtp_umts_key_used_cipher_and_quintuplets {
  gtp_umts_key_used_cipher_and_quintuplets_header : ie_header_t;
  gtp_umts_key_used_cipher_and_quintuplets_security_mode : Z;
  gtp_umts_key_used_cipher_and_quintuplets_spare2 : Z;
  gtp_umts_key_used_cipher_and_quintuplets_drxi : Z;
  gtp_umts_key_used_cipher_and_quintuplets_cksnksi : Z;
  gtp_umts_key_used_cipher_and_quintuplets_nbr_of_quintuplets : Z;
  gtp_umts_key_used_cipher_and_quintuplets_iovi : Z;
  gtp_umts_key_used_cipher_and_quintuplets_gupii : Z;
  gtp_umts_key_used_cipher_and_quintuplets_ugipai : Z;
  gtp_umts_key_used_cipher_and_quintuplets_uambri : Z;
  gtp_umts_key_used_cipher_and_quintuplets_sambri : Z;
  gtp_umts_key_used_cipher_and_quintuplets_spare3 : Z;
  gtp_umts_key_used_cipher_and_quintuplets_used_gprs_intgrty_protctn_algo : Z;
  gtp_umts_key_used_cipher_and_quintuplets_used_cipher : Z;
  gtp_umts_key_used_cipher_and_quintuplets_ck : list Z;
  gtp_umts_key_used_cipher_and_quintuplets_ik : list Z;
  gtp_umts_key_used_cipher_and_quintuplets_auth_quintuplet : Z;
  gtp_umts_key_used_cipher_and_quintuplets_drx_parameter : Z;
  gtp_umts_key_used_cipher_and_quintuplets_uplnk_subscrbd_ue_ambr : Z;
  gtp_umts_key_used_cipher_and_quintuplets_dnlnk_subscrbd_ue_ambr : Z;
  gtp_umts_key_used_cipher_and_quintuplets_uplnk_used_ue_ambr : Z;
  gtp_umts_key_used_cipher_and_quintuplets_dnlnk_used_ue_ambr : Z;
  gtp_umts_key_used_cipher_and_quintuplets_ue_ntwk_capblty_len : Z;
  gtp_umts_key_used_cipher_and_quintuplets_ue_ntwk_capblty : Z;
  gtp_umts_key_used_cipher_and_quintuplets_ms_ntwk_capblty_len : Z;
  gtp_umts_key_used_cipher_and_quintuplets_ms_ntwk_capblty : Z;
  gtp_umts_key_used_cipher_and_quintuplets_mei_length : Z;
  gtp_umts_key_used_cipher_and_quintuplets_mei : Z;
  gtp_umts_key_used_cipher_and_quintuplets_ecna : Z;
  gtp_umts_key_used_cipher_and_quintuplets_nbna : Z;
  gtp_umts_key_used_cipher_and_quintuplets_hnna : Z;
  gtp_umts_key_used_cipher_and_quintuplets_ena : Z;
  gtp_umts_key_used_cipher_and_quintuplets_ina : Z;
  gtp_umts_key_used_cipher_and_quintuplets_gana : Z;
  gtp_umts_key_used_cipher_and_quintuplets_gena : Z;
  gtp_umts_key_used_cipher_and_quintuplets_una : Z;
  gtp_umts_key_used_cipher_and_quintuplets_vdom_pref_ue_usage_len : Z;
  gtp_umts_key_used_cipher_and_quintuplets_voice_domain_pref_and_ues_usage_setting : Z;
  gtp_umts_key_used_cipher_and_quintuplets_higher_bitrates_flg_len : Z;
  gtp_umts_key_used_cipher_and_quintuplets_higher_bitrates_flg : Z;
  gtp_umts_key_used_cipher_and_quintuplets_iov_updts_cntr : Z;
}.
Definition zero_gtp_umts_key_used_cipher_and_quintuplets : gtp_umts_key_used_cipher_and_quintuplets_ie_t := mk_gtp_umts_key_used_cipher_and_quintuplets zero_ie_header 0 0 0 0 0 0 0 0 0 0 0 0 0 (repeat 0 16) (repeat 0 16) 0 0 0 0 0 0 0 0 0 0 0 0 0 0 0 0 0 0 0 0 0 0 0 0 0.

Record gtp_gsm_key_used_cipher_and_quintuplets_ie_t := mk_gtp_gsm_key_used_cipher_and_quintuplets {
  gtp_gsm_key_used_cipher_and_quintuplets_header : ie_header_t;
  gtp_gsm_key_used_cipher_and_quintuplets_security_mode : Z;
  gtp_gsm_key_used_cipher_and_quintuplets_spare2 : Z;
  gtp_gsm_key_used_cipher_and_quintuplets_drxi : Z;
  gtp_gsm_key_used_cipher_and_quintuplets_cksnksi : Z;
  gtp_gsm_key_used_cipher_and_quintuplets_nbr_of_quintuplets : Z;
  gtp_gsm_key_used_cipher_and_quintuplets_spare3 : Z;
  gtp_gsm_key_used_cipher_and_quintuplets_uambri : Z;
  gtp_gsm_key_used_cipher_and_quintuplets_sambri : Z;
  gtp_gsm_key_used_cipher_and_quintuplets_spare4 : Z;
  gtp_gsm_key_used_cipher_and_quintuplets_used_cipher : Z;
  gtp_gsm_key_used_cipher_and_quintuplets_kc : Z;
  gtp_gsm_key_used_cipher_and_quintuplets_auth_quintuplets : Z;
  gtp_gsm_key_used_cipher_and_quintuplets_drx_parameter : Z;
  gtp_gsm_key_used_cipher_and_quintuplets_uplnk_subscrbd_ue_ambr : Z;
  gtp_gsm_key_used_cipher_and_quintuplets_dnlnk_subscrbd_ue_ambr : Z;
  gtp_gsm_key_used_cipher_and_quintuplets_uplnk_used_ue_ambr : Z;
  gtp_gsm_key_used_cipher_and_quintuplets_dnlnk_used_ue_ambr : Z;
  gtp_gsm_key_used_cipher_and_quintuplets_ue_ntwk_capblty_len : Z;
  gtp_gsm_key_used_cipher_and_quintuplets_ue_ntwk_capblty : Z;
  gtp_gsm_key_used_cipher_and_quintuplets_ms_ntwk_capblty_len : Z;
  gtp_gsm_key_used_cipher_and_quintuplets_ms_ntwk_capblty : Z;
  gtp_gsm_key_used_cipher_and_quintuplets_mei_length : Z;
  gtp_gsm_key_used_cipher_and_quintuplets_mei : Z;
  gtp_gsm_key_used_cipher_and_quintuplets_ecna : Z;
  gtp_gsm_key_used_cipher_and_quintuplets_nbna : Z;
  gtp_gsm_key_used_cipher_and_quintuplets_hnna : Z;
  gtp_gsm_key_used_cipher_and_quintuplets_ena : Z;
  gtp_gsm_key_used_cipher_and_quintuplets_ina : Z;
  gtp_gsm_key_used_cipher_and_quintuplets_gana : Z;
  gtp_gsm_key_used_cipher_and_quintuplets_gena : Z;
  gtp_gsm_key_used_cipher_and_quintuplets_una : Z;
  gtp_gsm_key_used_cipher_and_quintuplets_vdom_pref_ue_usage_len : Z;
  gtp_gsm_key_used_cipher_and_quintuplets_voice_domain_pref_and_ues_usage_setting : Z;
  gtp_gsm_key_used_cipher_and_quintuplets_higher_bitrates_flg_len : Z;
  gtp_gsm_key_used_cipher_and_quintuplets_higher_bitrates_flg : Z;
}.
Definition zero_gtp_gsm_key_used_cipher_and_quintuplets : gtp_gsm_key_used_cipher_and_quintuplets_ie_t := mk_gtp_gsm_key_used_cipher_and_quintuplets zero_ie_header 0 0 0 0 0 0 0 0 0 0 0 0 0 0 0 0 0 0 0 0 0 0 0 0 0 0 0 0 0 0 0 0 0 0 0.

Record gtp_umts_key_and_quintuplets_ie_t := mk_gtp_umts_key_and_quintuplets {
  gtp_umts_key_and_quintuplets_header : ie_header_t;
  gtp_umts_key_and_quintuplets_security_mode : Z;
  gtp_umts_key_and_quintuplets_spare2 : Z;
  gtp_umts_key_and_quintuplets_drxi : Z;
  gtp_umts_key_and_quintuplets_ksi : Z;
  gtp_umts_key_and_quintuplets_nbr_of_quintuplets : Z;
  gtp_umts_key_and_quintuplets_iovi : Z;
  gtp_umts_key_and_quintuplets_gupii : Z;
  gtp_umts_key_and_quintuplets_ugipai : Z;
  gtp_umts_key_and_quintuplets_uambri : Z;
  gtp_umts_key_and_quintuplets_sambri : Z;
  gtp_umts_key_and_quintuplets_spare3 : Z;
  gtp_umts_key_and_quintuplets_used_gprs_intgrty_protctn_algo : Z;
  gtp_umts_key_and_quintuplets_ck : list Z;
  gtp_umts_key_and_quintuplets_ik : list Z;
  gtp_umts_key_and_quintuplets_auth_quintuplet : Z;
  gtp_umts_key_and_quintuplets_drx_parameter : Z;
  gtp_umts_key_and_quintuplets_uplnk_subscrbd_ue_ambr : Z;
  gtp_umts_key_and_quintuplets_dnlnk_subscrbd_ue_ambr : Z;
  gtp_umts_key_and_quintuplets_uplnk_used_ue_ambr : Z;
  gtp_umts_key_and_quintuplets_dnlnk_used_ue_ambr : Z;
  gtp_umts_key_and_quintuplets_ue_ntwk_capblty_len : Z;
  gtp_umts_key_and_quintuplets_ue_ntwk_capblty : Z;
  gtp_umts_key_and_quintuplets_ms_ntwk_capblty_len : Z;
  gtp_umts_key_and_quintuplets_ms_ntwk_capblty : Z;
  gtp_umts_key_and_quintuplets_mei_length : Z;
  gtp_umts_key_and_quintuplets_mei : Z;
  gtp_umts_key_and_quintuplets_ecna : Z;
  gtp_umts_key_and_quintuplets_nbna : Z;
  gtp_umts_key_and_quintuplets_hnna : Z;
  gtp_umts_key_and_quintuplets_ena : Z;
  gtp_umts_key_and_quintuplets_ina : Z;
  gtp_umts_key_and_quintuplets_gana : Z;
  gtp_umts_key_and_quintuplets_gena : Z;
  gtp_umts_key_and_quintuplets_una : Z;
  gtp_umts_key_and_quintuplets_vdom_pref_ue_usage_len : Z;
  gtp_umts_key_and_quintuplets_voice_domain_pref_and_ues_usage_setting : Z;
  gtp_umts_key_and_quintuplets_higher_bitrates_flg_len : Z;
  gtp_umts_key_and_quintuplets_higher_bitrates_flg : Z;
  gtp_umts_key_and_quintuplets_iov_updts_cntr : Z;
  gtp_umts_key_and_quintuplets_len_of_extnded_acc_rstrct_data : Z;
  gtp_umts_key_and_quintuplets_spare4 : Z;
  gtp_umts_key_and_quintuplets_nrsrna : Z;
}.
Definition zero_gtp_umts_key_and_quintuplets : gtp_umts_key_and_quintuplets_ie_t := mk_gtp_umts_key_and_quintuplets zero_ie_header 0 0 0 0 0 0 0 0 0 0 0 0 (repeat 0 16) (repeat 0 16) 0 0 0 0 0 0 0 0 0 0 0 0 0 0 0 0 0 0 0 0 0 0 0 0 0 0 0 0.

Record gtp_eps_secur_ctxt_and_quadruplets_ie_t := mk_gtp_eps_secur_ctxt_and_quadruplets {
  gtp_eps_secur_ctxt_and_quadruplets_header : ie_header_t;
  gtp_eps_secur_ctxt_and_quadruplets_security_mode : Z;
  gtp_eps_secur_ctxt_and_quadruplets_nhi : Z;
  gtp_eps_secur_ctxt_and_quadruplets_drxi : Z;
  gtp_eps_secur_ctxt_and_quadruplets_ksiasme : Z;
  gtp_eps_secur_ctxt_and_quadruplets_nbr_of_quintuplets : Z;
  gtp_eps_secur_ctxt_and_quadruplets_nbr_of_quadruplet : Z;
  gtp_eps_secur_ctxt_and_quadruplets_uambri : Z;
  gtp_eps_secur_ctxt_and_quadruplets_osci : Z;
  gtp_eps_secur_ctxt_and_quadruplets_sambri : Z;
  gtp_eps_secur_ctxt_and_quadruplets_used_nas_intgrty_protctn_algo : Z;
  gtp_eps_secur_ctxt_and_quadruplets_used_nas_cipher : Z;
  gtp_eps_secur_ctxt_and_quadruplets_nas_dnlnk_cnt : Z;
  gtp_eps_secur_ctxt_and_quadruplets_nas_uplnk_cnt : Z;
  gtp_eps_secur_ctxt_and_quadruplets_kasme : list Z;
  gtp_eps_secur_ctxt_and_quadruplets_auth_quadruplet : Z;
  gtp_eps_secur_ctxt_and_quadruplets_auth_quintuplet : Z;
  gtp_eps_secur_ctxt_and_quadruplets_drx_parameter : Z;
  gtp_eps_secur_ctxt_and_quadruplets_nh : list Z;
  gtp_eps_secur_ctxt_and_quadruplets_spare2 : Z;
  gtp_eps_secur_ctxt_and_quadruplets_ncc : Z;
  gtp_eps_secur_ctxt_and_quadruplets_uplnk_subscrbd_ue_ambr : Z;
  gtp_eps_secur_ctxt_and_quadruplets_dnlnk_subscrbd_ue_ambr : Z;
  gtp_eps_secur_ctxt_and_quadruplets_uplnk_used_ue_ambr : Z;
  gtp_eps_secur_ctxt_and_quadruplets_dnlnk_used_ue_ambr : Z;
  gtp_eps_secur_ctxt_and_quadruplets_ue_ntwk_capblty_len : Z;
  gtp_eps_secur_ctxt_and_quadruplets_ue_ntwk_capblty : Z;
  gtp_eps_secur_ctxt_and_quadruplets_ms_ntwk_capblty_len : Z;
  gtp_eps_secur_ctxt_and_quadruplets_ms_ntwk_capblty : Z;
  gtp_eps_secur_ctxt_and_quadruplets_mei_length : Z;
  gtp_eps_secur_ctxt_and_quadruplets_mei : Z;
  gtp_eps_secur_ctxt_and_quadruplets_ecna : Z;
  gtp_eps_secur_ctxt_and_quadruplets_nbna : Z;
  gtp_eps_secur_ctxt_and_quadruplets_hnna : Z;
  gtp_eps_secur_ctxt_and_quadruplets_ena : Z;
  gtp_eps_secur_ctxt_and_quadruplets_ina : Z;
  gtp_eps_secur_ctxt_and_quadruplets_gana : Z;
  gtp_eps_secur_ctxt_and_quadruplets_gena : Z;
  gtp_eps_secur_ctxt_and_quadruplets_una : Z;
  gtp_eps_secur_ctxt_and_quadruplets_s : Z;
  gtp_eps_secur_ctxt_and_quadruplets_nhi_old : Z;
  gtp_eps_secur_ctxt_and_quadruplets_spare3 : Z;
  gtp_eps_secur_ctxt_and_quadruplets_old_ksiasme : Z;
  gtp_eps_secur_ctxt_and_quadruplets_old_ncc : Z;
  gtp_eps_secur_ctxt_and_quadruplets_old_kasme : list Z;
  gtp_eps_secur_ctxt_and_quadruplets_old_nh : list Z;
  gtp_eps_secur_ctxt_and_quadruplets_vdom_pref_ue_usage_len : Z;
  gtp_eps_secur_ctxt_and_quadruplets_voice_domain_pref_and_ues_usage_setting : Z;
  gtp_eps_secur_ctxt_and_quadruplets_len_of_ue_radio_capblty_paging_info : Z;
  gtp_eps_secur_ctxt_and_quadruplets_ue_radio_capblty_paging_info : Z;
  gtp_eps_secur_ctxt_and_quadruplets_len_of_extnded_acc_rstrct_data : Z;
  gtp_eps_secur_ctxt_and_quadruplets_spare4 : Z;
  gtp_eps_secur_ctxt_and_quadruplets_ussrna : Z;
  gtp_eps_secur_ctxt_and_quadruplets_nrsrna : Z;
  gtp_eps_secur_ctxt_and_quadruplets_ue_addtl_secur_capblty_len : Z;
  gtp_eps_secur_ctxt_and_quadruplets_ue_addtl_secur_capblty : Z;
  gtp_eps_secur_ctxt_and_quadruplets_len_of_ue_nr_secur_capblty : Z;
  gtp_eps_secur_ctxt_and_quadruplets_ue_nr_secur_capblty : Z;
}.
Definition zero_gtp_eps_secur_ctxt_and_quadruplets : gtp_eps_secur_ctxt_and_quadruplets_ie_t := mk_gtp_eps_secur_ctxt_and_quadruplets zero_ie_header 0 0 0 0 0 0 0 0 0 0 0 0 0 (repeat 0 32) 0 0 0 (repeat 0 32) 0 0 0 0 0 0 0 0 0 0 0 0 0 0 0 0 0 0 0 0 0 0 0 0 0 (repeat 0 32) (repeat 0 32) 0 0 0 0 0 0 0 0 0 0 0 0.

Record gtp_umts_key_quadruplets_and_quintuplets_ie_t := mk_gtp_umts_key_quadruplets_and_quintuplets {
  gtp_umts_key_quadruplets_and_quintuplets_header : ie_header_t;
  gtp_umts_key_quadruplets_and_quintuplets_security_mode : Z;
  gtp_umts_key_quadruplets_and_quintuplets_spare2 : Z;
  gtp_umts_key_quadruplets_and_quintuplets_drxi : Z;
  gtp_umts_key_quadruplets_and_quintuplets_ksiasme : Z;
  gtp_umts_key_quadruplets_and_quintuplets_nbr_of_quintuplets : Z;
  gtp_umts_key_quadruplets_and_quintuplets_nbr_of_quadruplet : Z;
  gtp_umts_key_quadruplets_and_quintuplets_uambri : Z;
  gtp_umts_key_quadruplets_and_quintuplets_sambri : Z;
  gtp_umts_key_quadruplets_and_quintuplets_spare3 : Z;
  gtp_umts_key_quadruplets_and_quintuplets_ck : list Z;
  gtp_umts_key_quadruplets_and_quintuplets_ik : list Z;
  gtp_umts_key_quadruplets_and_quintuplets_auth_quadruplet : Z;
  gtp_umts_key_quadruplets_and_quintuplets_auth_quintuplet : Z;
  gtp_umts_key_quadruplets_and_quintuplets_drx_parameter : Z;
  gtp_umts_key_quadruplets_and_quintuplets_uplnk_subscrbd_ue_ambr : Z;
  gtp_umts_key_quadruplets_and_quintuplets_dnlnk_subscrbd_ue_ambr : Z;
  gtp_umts_key_quadruplets_and_quintuplets_uplnk_used_ue_ambr : Z;
  gtp_umts_key_quadruplets_and_quintuplets_dnlnk_used_ue_ambr : Z;
  gtp_umts_key_quadruplets_and_quintuplets_ue_ntwk_capblty_len : Z;
  gtp_umts_key_quadruplets_and_quintuplets_ue_ntwk_capblty : Z;
  gtp_umts_key_quadruplets_and_quintuplets_ms_ntwk_capblty_len : Z;
  gtp_umts_key_quadruplets_and_quintuplets_ms_ntwk_capblty : Z;
  gtp_umts_key_quadruplets_and_quintuplets_mei_length : Z;
  gtp_umts_key_quadruplets_and_quintuplets_mei : Z;
  gtp_umts_key_quadruplets_and_quintuplets_ecna : Z;
  gtp_umts_key_quadruplets_and_quintuplets_nbna : Z;
  gtp_umts_key_quadruplets_and_quintuplets_hnna : Z;
  gtp_umts_key_quadruplets_and_quintuplets_ena : Z;
  gtp_umts_key_quadruplets_and_quintuplets_ina : Z;
  gtp_umts_key_quadruplets_and_quintuplets_gana : Z;
  gtp_umts_key_quadruplets_and_quintuplets_gena : Z;
  gtp_umts_key_quadruplets_and_quintuplets_una : Z;
  gtp_umts_key_quadruplets_and_quintuplets_vdom_pref_ue_usage_len : Z;
  gtp_umts_key_quadruplets_and_quintuplets_voice_domain_pref_and_ues_usage_setting : Z;
}.
Definition zero_gtp_umts_key_quadruplets_and_quintuplets : gtp_umts_key_quadruplets_and_quintuplets_ie_t := mk_gtp_umts_key_quadruplets_and_quintuplets zero_ie_header 0 0 0 0 0 0 0 0 0 (repeat 0 16) (repeat 0 16) 0 0 0 0 0 0 0 0 0 0 0 0 0 0 0 0 0 0 0 0 0 0 0.

Record gtp_pdn_connection_ie_t := mk_gtp_pdn_connection {
  gtp_pdn_connection_header : ie_header_t;
}.
Definition zero_gtp_pdn_connection : gtp_pdn_connection_ie_t := mk_gtp_pdn_connection zero_ie_header.

Record gtp_pdu_numbers_ie_t := mk_gtp_pdu_numbers {
  gtp_pdu_numbers_header : ie_header_t;
  gtp_pdu_numbers_spare2 : Z;
  gtp_pdu_numbers_nsapi : Z;
  gtp_pdu_numbers_dl_gtpu_seqn_nbr : Z;
  gtp_pdu_numbers_ul_gtpu_seqn_nbr : Z;
  gtp_pdu_numbers_snd_npdu_nbr : Z;
  gtp_pdu_numbers_rcv_npdu_nbr : Z;
}.
Definition zero_gtp_pdu_numbers : gtp_pdu_numbers_ie_t := mk_gtp_pdu_numbers zero_ie_header 0 0 0 0 0 0.

Record gtp_ptmsi_ie_t := mk_gtp_ptmsi {
  gtp_ptmsi_header : ie_header_t;
  gtp_ptmsi_ptmsi : Z;
}.
Definition zero_gtp_ptmsi : gtp_ptmsi_ie_t := mk_gtp_ptmsi zero_ie_header 0.

Record gtp_ptmsi_signature_ie_t := mk_gtp_ptmsi_signature {
  gtp_ptmsi_signature_header : ie_header_t;
  gtp_ptmsi_signature_ptmsi_signature : Z;
}.
Definition zero_gtp_ptmsi_signature : gtp_ptmsi_signature_ie_t := mk_gtp_ptmsi_signature zero_ie_header 0.

Record gtp_hop_counter_ie_t := mk_gtp_hop_counter {
  gtp_hop_counter_header : ie_header_t;
  gtp_hop_counter_hop_counter : Z;
}.
Definition zero_gtp_hop_counter : gtp_hop_counter_ie_t := mk_gtp_hop_counter zero_ie_header 0.

Record gtp_ue_time_zone_ie_t := mk_gtp_ue_time_zone {
  gtp_ue_time_zone_header : ie_header_t;
  gtp_ue_time_zone_time_zone : Z;
  gtp_ue_time_zone_spare2 : Z;
  gtp_ue_time_zone_daylt_svng_time : Z;
}.
Definition zero_gtp_ue_time_zone : gtp_ue_time_zone_ie_t := mk_gtp_ue_time_zone zero_ie_header 0 0 0.

Record gtp_trace_reference_ie_t := mk_gtp_trace_reference {
  gtp_trace_reference_header : ie_header_t;
  gtp_trace_reference_mcc_digit_2 : Z;
  gtp_trace_reference_mcc_digit_1 : Z;
  gtp_trace_reference_mnc_digit_3 : Z;
  gtp_trace_reference_mcc_digit_3 : Z;
  gtp_trace_reference_mnc_digit_2 : Z;
  gtp_trace_reference_mnc_digit_1 : Z;
  gtp_trace_reference_trace_id : Z;
}.
Definition zero_gtp_trace_reference : gtp_trace_reference_ie_t := mk_gtp_trace_reference zero_ie_header 0 0 0 0 0 0 0.

Record gtp_cmplt_req_msg_ie_t := mk_gtp_cmplt_req_msg {
  gtp_cmplt_req_msg_header : ie_header_t;
  gtp_cmplt_req_msg_cmplt_req_msg_type : Z;
  gtp_cmplt_req_msg_cmplt_req_msg : Z;
}.
Definition zero_gtp_cmplt_req_msg : gtp_cmplt_req_msg_ie_t := mk_gtp_cmplt_req_msg zero_ie_header 0 0.

Record gtp_guti_ie_t := mk_gtp_guti {
  gtp_guti_header : ie_header_t;
  gtp_guti_mcc_digit_2 : Z;
  gtp_guti_mcc_digit_1 : Z;
  gtp_guti_mnc_digit_3 : Z;
  gtp_guti_mcc_digit_3 : Z;
  gtp_guti_mnc_digit_2 : Z;
  gtp_guti_mnc_digit_1 : Z;
  gtp_guti_mme_group_id : Z;
  gtp_guti_mme_code : Z;
  gtp_guti_m_tmsi : Z;
}.
Definition zero_gtp_guti : gtp_guti_ie_t := mk_gtp_guti zero_ie_header 0 0 0 0 0 0 0 0 0.

Record gtp_full_qual_cntnr_ie_t := mk_gtp_full_qual_cntnr {
  gtp_full_qual_cntnr_header : ie_header_t;
  gtp_full_qual_cntnr_spare2 : Z;
  gtp_full_qual_cntnr_container_type : Z;
  gtp_full_qual_cntnr_fcontainer_fld : Z;
}.
Definition zero_gtp_full_qual_cntnr : gtp_full_qual_cntnr_ie_t := mk_gtp_full_qual_cntnr zero_ie_header 0 0 0.

Record gtp_full_qual_cause_ie_t := mk_gtp_full_qual_cause {
  gtp_full_qual_cause_header : ie_header_t;
  gtp_full_qual_cause_spare2 : Z;
  gtp_full_qual_cause_cause_type : Z;
  gtp_full_qual_cause_fcause_field : Z;
}.
Definition zero_gtp_full_qual_cause : gtp_full_qual_cause_ie_t := mk_gtp_full_qual_cause zero_ie_header 0 0 0.

Record gtp_plmn_id_ie_t := mk_gtp_plmn_id {
  gtp_plmn_id_header : ie_header_t;
  gtp_plmn_id_mcc_digit_2 : Z;
  gtp_plmn_id_mcc_digit_1 : Z;
  gtp_plmn_id_mnc_digit_1 : Z;
  gtp_plmn_id_mcc_digit_3 : Z;
  gtp_plmn_id_mnc_digit_3 : Z;
  gtp_plmn_id_mnc_digit_2 : Z;
}.
Definition zero_gtp_plmn_id : gtp_plmn_id_ie_t := mk_gtp_plmn_id zero_ie_header 0 0 0 0 0 0.

Record gtp_trgt_id_ie_t := mk_gtp_trgt_id {
  gtp_trgt_id_header : ie_header_t;
  gtp_trgt_id_target_type : Z;
  gtp_trgt_id_target_id : Z;
}.
Definition zero_gtp_trgt_id : gtp_trgt_id_ie_t := mk_gtp_trgt_id zero_ie_header 0 0.

Record gtp_packet_flow_id_ie_t := mk_gtp_packet_flow_id {
  gtp_packet_flow_id_header : ie_header_t;
  gtp_packet_flow_id_packet_flow_id_spare2 : Z;
  gtp_packet_flow_id_packet_flow_id_ebi : Z;
  gtp_packet_flow_id_packet_flow_id_packet_flow_id : Z;
}.
Definition zero_gtp_packet_flow_id : gtp_packet_flow_id_ie_t := mk_gtp_packet_flow_id zero_ie_header 0 0 0.

Record gtp_rab_context_ie_t := mk_gtp_rab_context {
  gtp_rab_context_header : ie_header_t;
  gtp_rab_context_spare2 : Z;
  gtp_rab_context_nsapi : Z;
  gtp_rab_context_dl_gtpu_seqn_nbr : Z;
  gtp_rab_context_ul_gtpu_seqn_nbr : Z;
  gtp_rab_context_dl_pdcp_seqn_nbr : Z;
  gtp_rab_context_ul_pdcp_seqn_nbr : Z;
}.
Definition zero_gtp_rab_context : gtp_rab_context_ie_t := mk_gtp_rab_context zero_ie_header 0 0 0 0 0 0.

Record gtp_src_rnc_pdcp_ctxt_info_ie_t := mk_gtp_src_rnc_pdcp_ctxt_info {
  gtp_src_rnc_pdcp_ctxt_info_header : ie_header_t;
  gtp_src_rnc_pdcp_ctxt_info_rrc_container : Z;
}.
Definition zero_gtp_src_rnc_pdcp_ctxt_info : gtp_src_rnc_pdcp_ctxt_info_ie_t := mk_gtp_src_rnc_pdcp_ctxt_info zero_ie_header 0.

Record gtp_port_number_ie_t := mk_gtp_port_number {
  gtp_port_number_header : ie_header_t;
  gtp_port_number_port_number : Z;
}.
Definition zero_gtp_port_number : gtp_port_number_ie_t := mk_gtp_port_number zero_ie_header 0.

Record gtp_apn_restriction_ie_t := mk_gtp_apn_restriction {
  gtp_apn_restriction_header : ie_header_t;
  gtp_apn_restriction_rstrct_type_val : Z;
}.
Definition zero_gtp_apn_restriction : gtp_apn_restriction_ie_t := mk_gtp_apn_restriction zero_ie_header 0.

Record gtp_selection_mode_ie_t := mk_gtp_selection_mode {
  gtp_selection_mode_header : ie_header_t;
  gtp_selection_mode_spare2 : Z;
  gtp_selection_mode_selec_mode : Z;
}.
Definition zero_gtp_selection_mode : gtp_selection_mode_ie_t := mk_gtp_selection_mode zero_ie_header 0 0.

Record gtp_src_id_ie_t := mk_gtp_src_id {
  gtp_src_id_header : ie_header_t;
  gtp_src_id_target_cell_id : Z;
  gtp_src_id_source_type : Z;
  gtp_src_id_source_id : Z;
}.
Definition zero_gtp_src_id : gtp_src_id_ie_t := mk_gtp_src_id zero_ie_header 0 0 0.

Record gtp_chg_rptng_act_ie_t := mk_gtp_chg_rptng_act {
  gtp_chg_rptng_act_header : ie_header_t;
  gtp_chg_rptng_act_action : Z;
}.
Definition zero_gtp_chg_rptng_act : gtp_chg_rptng_act_ie_t := mk_gtp_chg_rptng_act zero_ie_header 0.

Record gtp_fqcsid_ie_t := mk_gtp_fqcsid {
  gtp_fqcsid_header : ie_header_t;
  gtp_fqcsid_node_id_type : Z;
  gtp_fqcsid_number_of_csids : Z;
  gtp_fqcsid_node_address : Z;
  gtp_fqcsid_pdn_csid : list Z;
}.
Definition zero_gtp_fqcsid : gtp_fqcsid_ie_t := mk_gtp_fqcsid zero_ie_header 0 0 0 (repeat 0 8).

Record gtp_channel_needed_ie_t := mk_gtp_channel_needed {
  gtp_channel_needed_header : ie_header_t;
  gtp_channel_needed_channel_needed : Z;
}.
Definition zero_gtp_channel_needed : gtp_channel_needed_ie_t := mk_gtp_channel_needed zero_ie_header 0.

Record gtp_emlpp_priority_ie_t := mk_gtp_emlpp_priority {
  gtp_emlpp_priority_header : ie_header_t;
  gtp_emlpp_priority_emlpp_priority : Z;
}.
Definition zero_gtp_emlpp_priority : gtp_emlpp_priority_ie_t := mk_gtp_emlpp_priority zero_ie_header 0.

Record gtp_node_type_ie_t := mk_gtp_node_type {
  gtp_node_type_header : ie_header_t;
  gtp_node_type_node_type : Z;
}.
Definition zero_gtp_node_type : gtp_node_type_ie_t := mk_gtp_node_type zero_ie_header 0.

Record gtp_fully_qual_domain_name_ie_t := mk_gtp_fully_qual_domain_name {
  gtp_fully_qual_domain_name_header : ie_header_t;
  gtp_fully_qual_domain_name_fqdn : list Z;
}.
Definition zero_gtp_fully_qual_domain_name : gtp_fully_qual_domain_name_ie_t := mk_gtp_fully_qual_domain_name zero_ie_header (repeat 0 256).

Record gtp_priv_ext_ie_t := mk_gtp_priv_ext {
  gtp_priv_ext_header : ie_header_t;
  gtp_priv_ext_enterprise_id : Z;
  gtp_priv_ext_prop_val : Z;
}.
Definition zero_gtp_priv_ext : gtp_priv_ext_ie_t := mk_gtp_priv_ext zero_ie_header 0 0.

Record gtp_trans_idnt_ie_t := mk_gtp_trans_idnt {
  gtp_trans_idnt_header : ie_header_t;
  gtp_trans_idnt_trans_idnt : Z;
}.
Definition zero_gtp_trans_idnt : gtp_trans_idnt_ie_t := mk_gtp_trans_idnt zero_ie_header 0.

Record gtp_mbms_sess_dur_ie_t := mk_gtp_mbms_sess_dur {
  gtp_mbms_sess_dur_header : ie_header_t;
  gtp_mbms_sess_dur_mbms_sess_dur : Z;
}.
Definition zero_gtp_mbms_sess_dur : gtp_mbms_sess_dur_ie_t := mk_gtp_mbms_sess_dur zero_ie_header 0.

Record gtp_mbms_svc_area_ie_t := mk_gtp_mbms_svc_area {
  gtp_mbms_svc_area_header : ie_header_t;
  gtp_mbms_svc_area_mbms_svc_area : Z;
}.
Definition zero_gtp_mbms_svc_area : gtp_mbms_svc_area_ie_t := mk_gtp_mbms_svc_area zero_ie_header 0.

Record gtp_mbms_sess_idnt_ie_t := mk_gtp_mbms_sess_idnt {
  gtp_mbms_sess_idnt_header : ie_header_t;
  gtp_mbms_sess_idnt_mbms_sess_idnt : Z;
}.
Definition zero_gtp_mbms_sess_idnt : gtp_mbms_sess_idnt_ie_t := mk_gtp_mbms_sess_idnt zero_ie_header 0.

Record gtp_mbms_flow_idnt_ie_t := mk_gtp_mbms_flow_idnt {
  gtp_mbms_flow_idnt_header : ie_header_t;
  gtp_mbms_flow_idnt_mbms_flow_id : Z;
}.
Definition zero_gtp_mbms_flow_idnt : gtp_mbms_flow_idnt_ie_t := mk_gtp_mbms_flow_idnt zero_ie_header 0.

Record gtp_mbms_ip_multcst_dist_ie_t := mk_gtp_mbms_ip_multcst_dist {
  gtp_mbms_ip_multcst_dist_header : ie_header_t;
  gtp_mbms_ip_multcst_dist_cmn_tunn_endpt_idnt : Z;
  gtp_mbms_ip_multcst_dist_address_type : Z;
  gtp_mbms_ip_multcst_dist_address_length : Z;
  gtp_mbms_ip_multcst_dist_ip_multcst_dist_addr : Z;
  gtp_mbms_ip_multcst_dist_address_type2 : Z;
  gtp_mbms_ip_multcst_dist_address_length2 : Z;
  gtp_mbms_ip_multcst_dist_ip_multcst_src_addr : Z;
  gtp_mbms_ip_multcst_dist_mbms_hc_indctr : Z;
}.
Definition zero_gtp_mbms_ip_multcst_dist : gtp_mbms_ip_multcst_dist_ie_t := mk_gtp_mbms_ip_multcst_dist zero_ie_header 0 0 0 0 0 0 0 0.

Record gtp_mbms_dist_ack_ie_t := mk_gtp_mbms_dist_ack {
  gtp_mbms_dist_ack_header : ie_header_t;
  gtp_mbms_dist_ack_spare2 : Z;
  gtp_mbms_dist_ack_distr_ind : Z;
}.
Definition zero_gtp_mbms_dist_ack : gtp_mbms_dist_ack_ie_t := mk_gtp_mbms_dist_ack zero_ie_header 0 0.

Record gtp_user_csg_info_ie_t := mk_gtp_user_csg_info {
  gtp_user_csg_info_header : ie_header_t;
  gtp_user_csg_info_mcc_digit_2 : Z;
  gtp_user_csg_info_mcc_digit_1 : Z;
  gtp_user_csg_info_mnc_digit_3 : Z;
  gtp_user_csg_info_mcc_digit_3 : Z;
  gtp_user_csg_info_mnc_digit_2 : Z;
  gtp_user_csg_info_mnc_digit_1 : Z;
  gtp_user_csg_info_spare2 : Z;
  gtp_user_csg_info_csg_id2 : Z;
  gtp_user_csg_info_access_mode : Z;
  gtp_user_csg_info_spare3 : Z;
  gtp_user_csg_info_lcsg : Z;
  gtp_user_csg_info_cmi : Z;
}.
Definition zero_gtp_user_csg_info : gtp_user_csg_info_ie_t := mk_gtp_user_csg_info zero_ie_header 0 0 0 0 0 0 0 0 0 0 0 0.

Record gtp_csg_info_rptng_act_ie_t := mk_gtp_csg_info_rptng_act {
  gtp_csg_info_rptng_act_header : ie_header_t;
  gtp_csg_info_rptng_act_spare2 : Z;
  gtp_csg_info_rptng_act_uciuhc : Z;
  gtp_csg_info_rptng_act_ucishc : Z;
  gtp_csg_info_rptng_act_ucicsg : Z;
}.
Definition zero_gtp_csg_info_rptng_act : gtp_csg_info_rptng_act_ie_t := mk_gtp_csg_info_rptng_act zero_ie_header 0 0 0 0.

Record gtp_rfsp_index_ie_t := mk_gtp_rfsp_index {
  gtp_rfsp_index_header : ie_header_t;
  gtp_rfsp_index_rfsp_index : Z;
}.
Definition zero_gtp_rfsp_index : gtp_rfsp_index_ie_t := mk_gtp_rfsp_index zero_ie_header 0.

Record gtp_csg_id_ie_t := mk_gtp_csg_id {
  gtp_csg_id_header : ie_header_t;
  gtp_csg_id_csg_id_spare2 : Z;
  gtp_csg_id_csg_id_csg_id : Z;
  gtp_csg_id_csg_id_csg_id2 : Z;
}.
Definition zero_gtp_csg_id : gtp_csg_id_ie_t := mk_gtp_csg_id zero_ie_header 0 0 0.

Record gtp_csg_memb_indctn_ie_t := mk_gtp_csg_memb_indctn {
  gtp_csg_memb_indctn_header : ie_header_t;
  gtp_csg_memb_indctn_csg_memb_indctn_spare2 : Z;
  gtp_csg_memb_indctn_csg_memb_indctn_cmi : Z;
}.
Definition zero_gtp_csg_memb_indctn : gtp_csg_memb_indctn_ie_t := mk_gtp_csg_memb_indctn zero_ie_header 0 0.

Record gtp_svc_indctr_ie_t := mk_gtp_svc_indctr {
  gtp_svc_indctr_header : ie_header_t;
  gtp_svc_indctr_svc_indctr : Z;
}.
Definition zero_gtp_svc_indctr : gtp_svc_indctr_ie_t := mk_gtp_svc_indctr zero_ie_header 0.

Record gtp_detach_type_ie_t := mk_gtp_detach_type {
  gtp_detach_type_header : ie_header_t;
  gtp_detach_type_detach_type : Z;
}.
Definition zero_gtp_detach_type : gtp_detach_type_ie_t := mk_gtp_detach_type zero_ie_header 0.

Record gtp_local_distgsd_name_ie_t := mk_gtp_local_distgsd_name {
  gtp_local_distgsd_name_header : ie_header_t;
  gtp_local_distgsd_name_ldn : Z;
}.
Definition zero_gtp_local_distgsd_name : gtp_local_distgsd_name_ie_t := mk_gtp_local_distgsd_name zero_ie_header 0.

Record gtp_node_features_ie_t := mk_gtp_node_features {
  gtp_node_features_header : ie_header_t;
  gtp_node_features_sup_feat : Z;
}.
Definition zero_gtp_node_features : gtp_node_features_ie_t := mk_gtp_node_features zero_ie_header 0.

Record gtp_mbms_time_to_data_xfer_ie_t := mk_gtp_mbms_time_to_data_xfer {
  gtp_mbms_time_to_data_xfer_header : ie_header_t;
  gtp_mbms_time_to_data_xfer_mbms_time_to_data_xfer_val_prt : Z;
}.
Definition zero_gtp_mbms_time_to_data_xfer : gtp_mbms_time_to_data_xfer_ie_t := mk_gtp_mbms_time_to_data_xfer zero_ie_header 0.

Record gtp_throttling_ie_t := mk_gtp_throttling {
  gtp_throttling_header : ie_header_t;
  gtp_throttling_thrtlng_delay_unit : Z;
  gtp_throttling_thrtlng_delay_val : Z;
  gtp_throttling_thrtlng_factor : Z;
}.
Definition zero_gtp_throttling : gtp_throttling_ie_t := mk_gtp_throttling zero_ie_header 0 0 0.

Record gtp_alloc_reten_priority_ie_t := mk_gtp_alloc_reten_priority {
  gtp_alloc_reten_priority_header : ie_header_t;
  gtp_alloc_reten_priority_spare2 : Z;
  gtp_alloc_reten_priority_pci : Z;
  gtp_alloc_reten_priority_pl : Z;
  gtp_alloc_reten_priority_spare3 : Z;
  gtp_alloc_reten_priority_pvi : Z;
}.
Definition zero_gtp_alloc_reten_priority : gtp_alloc_reten_priority_ie_t := mk_gtp_alloc_reten_priority zero_ie_header 0 0 0 0 0.

Record gtp_epc_timer_ie_t := mk_gtp_epc_timer {
  gtp_epc_timer_header : ie_header_t;
  gtp_epc_timer_timer_unit : Z;
  gtp_epc_timer_timer_value : Z;
}.
Definition zero_gtp_epc_timer : gtp_epc_timer_ie_t := mk_gtp_epc_timer zero_ie_header 0 0.

Record gtp_sgnllng_priority_indctn_ie_t := mk_gtp_sgnllng_priority_indctn {
  gtp_sgnllng_priority_indctn_header : ie_header_t;
  gtp_sgnllng_priority_indctn_spare2 : Z;
  gtp_sgnllng_priority_indctn_lapi : Z;
}.
Definition zero_gtp_sgnllng_priority_indctn : gtp_sgnllng_priority_indctn_ie_t := mk_gtp_sgnllng_priority_indctn zero_ie_header 0 0.

Record gtp_tmgi_ie_t := mk_gtp_tmgi {
  gtp_tmgi_header : ie_header_t;
  gtp_tmgi_tmgi : Z;
}.
Definition zero_gtp_tmgi : gtp_tmgi_ie_t := mk_gtp_tmgi zero_ie_header 0.

Record gtp_addtl_mm_ctxt_srvcc_ie_t := mk_gtp_addtl_mm_ctxt_srvcc {
  gtp_addtl_mm_ctxt_srvcc_header : ie_header_t;
  gtp_addtl_mm_ctxt_srvcc_ms_classmark_2_len : Z;
  gtp_addtl_mm_ctxt_srvcc_ms_classmark_2 : Z;
  gtp_addtl_mm_ctxt_srvcc_ms_classmark_3_len : Z;
  gtp_addtl_mm_ctxt_srvcc_ms_classmark_3 : Z;
  gtp_addtl_mm_ctxt_srvcc_sup_codec_list_len : Z;
  gtp_addtl_mm_ctxt_srvcc_sup_codec_list : Z;
}.
Definition zero_gtp_addtl_mm_ctxt_srvcc : gtp_addtl_mm_ctxt_srvcc_ie_t := mk_gtp_addtl_mm_ctxt_srvcc zero_ie_header 0 0 0 0 0 0.

Record gtp_addtl_flgs_srvcc_ie_t := mk_gtp_addtl_flgs_srvcc {
  gtp_addtl_flgs_srvcc_header : ie_header_t;
  gtp_addtl_flgs_srvcc_spare2 : Z;
  gtp_addtl_flgs_srvcc_vf : Z;
  gtp_addtl_flgs_srvcc_ics : Z;
}.
Definition zero_gtp_addtl_flgs_srvcc : gtp_addtl_flgs_srvcc_ie_t := mk_gtp_addtl_flgs_srvcc zero_ie_header 0 0 0.

Record gtp_mdt_cfg_ie_t := mk_gtp_mdt_cfg {
  gtp_mdt_cfg_header : ie_header_t;
  gtp_mdt_cfg_job_type : Z;
  gtp_mdt_cfg_measrmnts_lsts : Z;
  gtp_mdt_cfg_rptng_trig : Z;
  gtp_mdt_cfg_report_interval : Z;
  gtp_mdt_cfg_report_amount : Z;
  gtp_mdt_cfg_rsrp_evnt_thresh : Z;
  gtp_mdt_cfg_rsrq_evnt_thresh : Z;
  gtp_mdt_cfg_len_of_area_scop : Z;
  gtp_mdt_cfg_area_scope : Z;
  gtp_mdt_cfg_spare2 : Z;
  gtp_mdt_cfg_pli : Z;
  gtp_mdt_cfg_pmi : Z;
  gtp_mdt_cfg_mpi : Z;
  gtp_mdt_cfg_crrmi : Z;
  gtp_mdt_cfg_coll_prd_rrm_lte : Z;
  gtp_mdt_cfg_meas_prd_lte : Z;
  gtp_mdt_cfg_pos_mthd : Z;
  gtp_mdt_cfg_nbr_of_mdt_plmns : Z;
  gtp_mdt_cfg_mdt_plmn_list : Z;
}.
Definition zero_gtp_mdt_cfg : gtp_mdt_cfg_ie_t := mk_gtp_mdt_cfg zero_ie_header 0 0 0 0 0 0 0 0 0 0 0 0 0 0 0 0 0 0 0.

Record gtp_addtl_prot_cfg_opts_ie_t := mk_gtp_addtl_prot_cfg_opts {
  gtp_addtl_prot_cfg_opts_header : ie_header_t;
  gtp_addtl_prot_cfg_opts_apco : Z;
}.
Definition zero_gtp_addtl_prot_cfg_opts : gtp_addtl_prot_cfg_opts_ie_t := mk_gtp_addtl_prot_cfg_opts zero_ie_header 0.

Record gtp_mbms_data_xfer_abs_time_ie_t := mk_gtp_mbms_data_xfer_abs_time {
  gtp_mbms_data_xfer_abs_time_header : ie_header_t;
  gtp_mbms_data_xfer_abs_time_mbms_data_xfer_abs_time_val_prt : Z;
}.
Definition zero_gtp_mbms_data_xfer_abs_time : gtp_mbms_data_xfer_abs_time_ie_t := mk_gtp_mbms_data_xfer_abs_time zero_ie_header 0.

Record gtp_henb_info_rptng_ie_t := mk_gtp_henb_info_rptng {
  gtp_henb_info_rptng_header : ie_header_t;
  gtp_henb_info_rptng_spare2 : Z;
  gtp_henb_info_rptng_fti : Z;
}.
Definition zero_gtp_henb_info_rptng : gtp_henb_info_rptng_ie_t := mk_gtp_henb_info_rptng zero_ie_header 0 0.

Record gtp_ipv4_cfg_parms_ie_t := mk_gtp_ipv4_cfg_parms {
  gtp_ipv4_cfg_parms_header : ie_header_t;
  gtp_ipv4_cfg_parms_subnet_pfx_len : Z;
  gtp_ipv4_cfg_parms_ipv4_dflt_rtr_addr : Z;
}.
Definition zero_gtp_ipv4_cfg_parms : gtp_ipv4_cfg_parms_ie_t := mk_gtp_ipv4_cfg_parms zero_ie_header 0 0.

Record gtp_chg_to_rpt_flgs_ie_t := mk_gtp_chg_to_rpt_flgs {
  gtp_chg_to_rpt_flgs_header : ie_header_t;
  gtp_chg_to_rpt_flgs_spare2 : Z;
  gtp_chg_to_rpt_flgs_tzcr : Z;
  gtp_chg_to_rpt_flgs_sncr : Z;
}.
Definition zero_gtp_chg_to_rpt_flgs : gtp_chg_to_rpt_flgs_ie_t := mk_gtp_chg_to_rpt_flgs zero_ie_header 0 0 0.

Record gtp_act_indctn_ie_t := mk_gtp_act_indctn {
  gtp_act_indctn_header : ie_header_t;
  gtp_act_indctn_spare2 : Z;
}.
Definition zero_gtp_act_indctn : gtp_act_indctn_ie_t := mk_gtp_act_indctn zero_ie_header 0.

Record gtp_twan_identifier_ie_t := mk_gtp_twan_identifier {
  gtp_twan_identifier_header : ie_header_t;
  gtp_twan_identifier_spare2 : Z;
  gtp_twan_identifier_laii : Z;
  gtp_twan_identifier_opnai : Z;
  gtp_twan_identifier_plmni : Z;
  gtp_twan_identifier_civai : Z;
  gtp_twan_identifier_bssidi : Z;
  gtp_twan_identifier_ssid_length : Z;
  gtp_twan_identifier_ssid : Z;
  gtp_twan_identifier_bssid : Z;
  gtp_twan_identifier_civic_addr_len : Z;
  gtp_twan_identifier_civic_addr_info : Z;
  gtp_twan_identifier_twan_plmn_id : Z;
  gtp_twan_identifier_twan_oper_name_len : Z;
  gtp_twan_identifier_twan_oper_name : Z;
  gtp_twan_identifier_rly_idnty_type : Z;
  gtp_twan_identifier_rly_idnty_len : Z;
  gtp_twan_identifier_relay_identity : Z;
  gtp_twan_identifier_circuit_id_len : Z;
  gtp_twan_identifier_circuit_id : Z;
}.
Definition zero_gtp_twan_identifier : gtp_twan_identifier_ie_t := mk_gtp_twan_identifier zero_ie_header 0 0 0 0 0 0 0 0 0 0 0 0 0 0 0 0 0 0 0.

Record gtp_uli_timestamp_ie_t := mk_gtp_uli_timestamp {
  gtp_uli_timestamp_header : ie_header_t;
  gtp_uli_timestamp_uli_ts_val : Z;
}.
Definition zero_gtp_uli_timestamp : gtp_uli_timestamp_ie_t := mk_gtp_uli_timestamp zero_ie_header 0.

Record gtp_mbms_flags_ie_t := mk_gtp_mbms_flags {
  gtp_mbms_flags_header : ie_header_t;
  gtp_mbms_flags_spare2 : Z;
  gtp_mbms_flags_lmri : Z;
  gtp_mbms_flags_msri : Z;
}.
Definition zero_gtp_mbms_flags : gtp_mbms_flags_ie_t := mk_gtp_mbms_flags zero_ie_header 0 0 0.

Record gtp_ran_nas_cause_ie_t := mk_gtp_ran_nas_cause {
  gtp_ran_nas_cause_header : ie_header_t;
  gtp_ran_nas_cause_protocol_type : Z;
  gtp_ran_nas_cause_cause_type : Z;
  gtp_ran_nas_cause_cause_value : Z;
}.
Definition zero_gtp_ran_nas_cause : gtp_ran_nas_cause_ie_t := mk_gtp_ran_nas_cause zero_ie_header 0 0 0.

Record gtp_cn_oper_sel_entity_ie_t := mk_gtp_cn_oper_sel_entity {
  gtp_cn_oper_sel_entity_header : ie_header_t;
  gtp_cn_oper_sel_entity_spare2 : Z;
  gtp_cn_oper_sel_entity_sel_entity : Z;
}.
Definition zero_gtp_cn_oper_sel_entity : gtp_cn_oper_sel_entity_ie_t := mk_gtp_cn_oper_sel_entity zero_ie_header 0 0.

Record gtp_trstd_wlan_mode_indctn_ie_t := mk_gtp_trstd_wlan_mode_indctn {
  gtp_trstd_wlan_mode_indctn_header : ie_header_t;
  gtp_trstd_wlan_mode_indctn_spare2 : Z;
  gtp_trstd_wlan_mode_indctn_mcm : Z;
  gtp_trstd_wlan_mode_indctn_scm : Z;
}.
Definition zero_gtp_trstd_wlan_mode_indctn : gtp_trstd_wlan_mode_indctn_ie_t := mk_gtp_trstd_wlan_mode_indctn zero_ie_header 0 0 0.

Record gtp_node_number_ie_t := mk_gtp_node_number {
  gtp_node_number_header : ie_header_t;
  gtp_node_number_len_of_node_nbr : Z;
  gtp_node_number_node_number : Z;
}.
Definition zero_gtp_node_number : gtp_node_number_ie_t := mk_gtp_node_number zero_ie_header 0 0.

Record gtp_node_identifier_ie_t := mk_gtp_node_identifier {
  gtp_node_identifier_header : ie_header_t;
  gtp_node_identifier_len_of_node_name : Z;
  gtp_node_identifier_node_name : Z;
  gtp_node_identifier_len_of_node_realm : Z;
  gtp_node_identifier_node_realm : Z;
}.
Definition zero_gtp_node_identifier : gtp_node_identifier_ie_t := mk_gtp_node_identifier zero_ie_header 0 0 0 0.

Record gtp_pres_rptng_area_act_ie_t := mk_gtp_pres_rptng_area_act {
  gtp_pres_rptng_area_act_header : ie_header_t;
  gtp_pres_rptng_area_act_spare2 : Z;
  gtp_pres_rptng_area_act_inapra : Z;
  gtp_pres_rptng_area_act_action : Z;
  gtp_pres_rptng_area_act_pres_rptng_area_idnt : Z;
  gtp_pres_rptng_area_act_number_of_tai : Z;
  gtp_pres_rptng_area_act_number_of_rai : Z;
  gtp_pres_rptng_area_act_spare3 : Z;
  gtp_pres_rptng_area_act_nbr_of_macro_enb : Z;
  gtp_pres_rptng_area_act_spare4 : Z;
  gtp_pres_rptng_area_act_nbr_of_home_enb : Z;
  gtp_pres_rptng_area_act_spare5 : Z;
  gtp_pres_rptng_area_act_number_of_ecgi : Z;
  gtp_pres_rptng_area_act_spare6 : Z;
  gtp_pres_rptng_area_act_number_of_sai : Z;
  gtp_pres_rptng_area_act_spare7 : Z;
  gtp_pres_rptng_area_act_number_of_cgi : Z;
  gtp_pres_rptng_area_act_tais : Z;
  gtp_pres_rptng_area_act_macro_enb_ids : Z;
  gtp_pres_rptng_area_act_home_enb_ids : Z;
  gtp_pres_rptng_area_act_ecgis : Z;
  gtp_pres_rptng_area_act_rais : Z;
  gtp_pres_rptng_area_act_sais : Z;
  gtp_pres_rptng_area_act_cgis : Z;
  gtp_pres_rptng_area_act_spare8 : Z;
  gtp_pres_rptng_area_act_nbr_of_extnded_macro_enb : Z;
  gtp_pres_rptng_area_act_extnded_macro_enb_ids : Z;
}.
Definition zero_gtp_pres_rptng_area_act : gtp_pres_rptng_area_act_ie_t := mk_gtp_pres_rptng_area_act zero_ie_header 0 0 0 0 0 0 0 0 0 0 0 0 0 0 0 0 0 0 0 0 0 0 0 0 0 0.

Record gtp_pres_rptng_area_info_ie_t := mk_gtp_pres_rptng_area_info {
  gtp_pres_rptng_area_info_header : ie_header_t;
  gtp_pres_rptng_area_info_pra_identifier : Z;
  gtp_pres_rptng_area_info_spare2 : Z;
  gtp_pres_rptng_area_info_inapra : Z;
  gtp_pres_rptng_area_info_apra : Z;
  gtp_pres_rptng_area_info_opra : Z;
  gtp_pres_rptng_area_info_ipra : Z;
}.
Definition zero_gtp_pres_rptng_area_info : gtp_pres_rptng_area_info_ie_t := mk_gtp_pres_rptng_area_info zero_ie_header 0 0 0 0 0 0.

Record gtp_twan_idnt_ts_ie_t := mk_gtp_twan_idnt_ts {
  gtp_twan_idnt_ts_header : ie_header_t;
  gtp_twan_idnt_ts_twan_idnt_ts_val : Z;
}.
Definition zero_gtp_twan_idnt_ts : gtp_twan_idnt_ts_ie_t := mk_gtp_twan_idnt_ts zero_ie_header 0.

Record gtp_ovrld_ctl_info_ie_t := mk_gtp_ovrld_ctl_info {
  gtp_ovrld_ctl_info_header : ie_header_t;
  gtp_ovrld_ctl_info_overload_control_information : list Z;
}.
Definition zero_gtp_ovrld_ctl_info : gtp_ovrld_ctl_info_ie_t := mk_gtp_ovrld_ctl_info zero_ie_header (repeat 0 8).

Record gtp_load_ctl_info_ie_t := mk_gtp_load_ctl_info {
  gtp_load_ctl_info_header : ie_header_t;
  gtp_load_ctl_info_load_control_information : list Z;
}.
Definition zero_gtp_load_ctl_info : gtp_load_ctl_info_ie_t := mk_gtp_load_ctl_info zero_ie_header (repeat 0 8).

Record gtp_metric_ie_t := mk_gtp_metric {
  gtp_metric_header : ie_header_t;
  gtp_metric_metric : Z;
}.
Definition zero_gtp_metric : gtp_metric_ie_t := mk_gtp_metric zero_ie_header 0.

Record gtp_sequence_number_ie_t := mk_gtp_sequence_number {
  gtp_sequence_number_header : ie_header_t;
  gtp_sequence_number_sequence_number : Z;
}.
Definition zero_gtp_sequence_number : gtp_sequence_number_ie_t := mk_gtp_sequence_number zero_ie_header 0.

Record gtp_apn_and_rltv_cap_ie_t := mk_gtp_apn_and_rltv_cap {
  gtp_apn_and_rltv_cap_header : ie_header_t;
  gtp_apn_and_rltv_cap_rltv_cap : Z;
  gtp_apn_and_rltv_cap_apn_length : Z;
  gtp_apn_and_rltv_cap_apn : Z;
}.
Definition zero_gtp_apn_and_rltv_cap : gtp_apn_and_rltv_cap_ie_t := mk_gtp_apn_and_rltv_cap zero_ie_header 0 0 0.

Record gtp_wlan_offldblty_indctn_ie_t := mk_gtp_wlan_offldblty_indctn {
  gtp_wlan_offldblty_indctn_header : ie_header_t;
  gtp_wlan_offldblty_indctn_spare2 : Z;
  gtp_wlan_offldblty_indctn_eutran_indctn : Z;
  gtp_wlan_offldblty_indctn_utran_indctn : Z;
}.
Definition zero_gtp_wlan_offldblty_indctn : gtp_wlan_offldblty_indctn_ie_t := mk_gtp_wlan_offldblty_indctn zero_ie_header 0 0 0.

Record gtp_paging_and_svc_info_ie_t := mk_gtp_paging_and_svc_info {
  gtp_paging_and_svc_info_header : ie_header_t;
  gtp_paging_and_svc_info_spare2 : Z;
  gtp_paging_and_svc_info_ebi : Z;
  gtp_paging_and_svc_info_spare3 : Z;
  gtp_paging_and_svc_info_ppi : Z;
  gtp_paging_and_svc_info_spare4 : Z;
  gtp_paging_and_svc_info_paging_plcy_indctn_val : Z;
}.
Definition zero_gtp_paging_and_svc_info : gtp_paging_and_svc_info_ie_t := mk_gtp_paging_and_svc_info zero_ie_header 0 0 0 0 0 0.

Record gtp_integer_number_ie_t := mk_gtp_integer_number {
  gtp_integer_number_header : ie_header_t;
  gtp_integer_number_int_nbr_val : Z;
}.
Definition zero_gtp_integer_number : gtp_integer_number_ie_t := mk_gtp_integer_number zero_ie_header 0.

Record gtp_msec_time_stmp_ie_t := mk_gtp_msec_time_stmp {
  gtp_msec_time_stmp_header : ie_header_t;
  gtp_msec_time_stmp_msec_time_stmp_val : Z;
}.
Definition zero_gtp_msec_time_stmp : gtp_msec_time_stmp_ie_t := mk_gtp_msec_time_stmp zero_ie_header 0.

Record gtp_mntrng_evnt_info_ie_t := mk_gtp_mntrng_evnt_info {
  gtp_mntrng_evnt_info_header : ie_header_t;
  gtp_mntrng_evnt_info_scef_ref_id : Z;
  gtp_mntrng_evnt_info_scef_id_length : Z;
  gtp_mntrng_evnt_info_scef_id : Z;
  gtp_mntrng_evnt_info_rem_nbr_of_rpts : Z;
}.
Definition zero_gtp_mntrng_evnt_info : gtp_mntrng_evnt_info_ie_t := mk_gtp_mntrng_evnt_info zero_ie_header 0 0 0 0.

Record gtp_ecgi_list_ie_t := mk_gtp_ecgi_list {
  gtp_ecgi_list_header : ie_header_t;
  gtp_ecgi_list_nbr_of_ecgi_flds : Z;
  gtp_ecgi_list_ecgi_list_of_m_ecgi_flds : Z;
}.
Definition zero_gtp_ecgi_list : gtp_ecgi_list_ie_t := mk_gtp_ecgi_list zero_ie_header 0 0.

Record gtp_rmt_ue_ctxt_ie_t := mk_gtp_rmt_ue_ctxt {
  gtp_rmt_ue_ctxt_header : ie_header_t;
  gtp_rmt_ue_ctxt_remote_ue_context : list Z;
}.
Definition zero_gtp_rmt_ue_ctxt : gtp_rmt_ue_ctxt_ie_t := mk_gtp_rmt_ue_ctxt zero_ie_header (repeat 0 8).

Record gtp_remote_user_id_ie_t := mk_gtp_remote_user_id {
  gtp_remote_user_id_header : ie_header_t;
  gtp_remote_user_id_spare2 : Z;
  gtp_remote_user_id_imeif : Z;
  gtp_remote_user_id_msisdnf : Z;
  gtp_remote_user_id_length_of_imsi : Z;
  gtp_remote_user_id_len_of_msisdn : Z;
  gtp_remote_user_id_length_of_imei : Z;
  gtp_remote_user_id_imei : Z;
}.
Definition zero_gtp_remote_user_id : gtp_remote_user_id_ie_t := mk_gtp_remote_user_id zero_ie_header 0 0 0 0 0 0 0.

Record gtp_rmt_ue_ip_info_ie_t := mk_gtp_rmt_ue_ip_info {
  gtp_rmt_ue_ip_info_header : ie_header_t;
  gtp_rmt_ue_ip_info_rmt_ue_ip_info : Z;
}.
Definition zero_gtp_rmt_ue_ip_info : gtp_rmt_ue_ip_info_ie_t := mk_gtp_rmt_ue_ip_info zero_ie_header 0.

Record gtp_ciot_optim_supp_indctn_ie_t := mk_gtp_ciot_optim_supp_indctn {
  gtp_ciot_optim_supp_indctn_header : ie_header_t;
  gtp_ciot_optim_supp_indctn_spare2 : Z;
  gtp_ciot_optim_supp_indctn_spare3 : Z;
  gtp_ciot_optim_supp_indctn_spare4 : Z;
  gtp_ciot_optim_supp_indctn_spare5 : Z;
  gtp_ciot_optim_supp_indctn_ihcsi : Z;
  gtp_ciot_optim_supp_indctn_awopdn : Z;
  gtp_ciot_optim_supp_indctn_scnipdn : Z;
  gtp_ciot_optim_supp_indctn_sgnipdn : Z;
}.
Definition zero_gtp_ciot_optim_supp_indctn : gtp_ciot_optim_supp_indctn_ie_t := mk_gtp_ciot_optim_supp_indctn zero_ie_header 0 0 0 0 0 0 0 0.

Record gtp_scef_pdn_conn_ie_t := mk_gtp_scef_pdn_conn {
  gtp_scef_pdn_conn_header : ie_header_t;
  gtp_scef_pdn_conn_scef_pdn_connection : list Z;
}.
Definition zero_gtp_scef_pdn_conn : gtp_scef_pdn_conn_ie_t := mk_gtp_scef_pdn_conn zero_ie_header (repeat 0 8).

Record gtp_hdr_comp_cfg_ie_t := mk_gtp_hdr_comp_cfg {
  gtp_hdr_comp_cfg_header : ie_header_t;
  gtp_hdr_comp_cfg_rohc_profiles : Z;
  gtp_hdr_comp_cfg_max_cid : Z;
}.
Definition zero_gtp_hdr_comp_cfg : gtp_hdr_comp_cfg_ie_t := mk_gtp_hdr_comp_cfg zero_ie_header 0 0.

Record gtp_extnded_prot_cfg_opts_ie_t := mk_gtp_extnded_prot_cfg_opts {
  gtp_extnded_prot_cfg_opts_header : ie_header_t;
  gtp_extnded_prot_cfg_opts_epco : Z;
}.
Definition zero_gtp_extnded_prot_cfg_opts : gtp_extnded_prot_cfg_opts_ie_t := mk_gtp_extnded_prot_cfg_opts zero_ie_header 0.

Record gtp_srvng_plmn_rate_ctl_ie_t := mk_gtp_srvng_plmn_rate_ctl {
  gtp_srvng_plmn_rate_ctl_header : ie_header_t;
  gtp_srvng_plmn_rate_ctl_uplnk_rate_lmt : Z;
  gtp_srvng_plmn_rate_ctl_dnlnk_rate_lmt : Z;
}.
Definition zero_gtp_srvng_plmn_rate_ctl : gtp_srvng_plmn_rate_ctl_ie_t := mk_gtp_srvng_plmn_rate_ctl zero_ie_header 0 0.

Record gtp_counter_ie_t := mk_gtp_counter {
  gtp_counter_header : ie_header_t;
  gtp_counter_timestamp_value : Z;
  gtp_counter_counter_value : Z;
}.
Definition zero_gtp_counter : gtp_counter_ie_t := mk_gtp_counter zero_ie_header 0 0.

Record gtp_mapped_ue_usage_type_ie_t := mk_gtp_mapped_ue_usage_type {
  gtp_mapped_ue_usage_type_header : ie_header_t;
  gtp_mapped_ue_usage_type_mapped_ue_usage_type : Z;
}.
Definition zero_gtp_mapped_ue_usage_type : gtp_mapped_ue_usage_type_ie_t := mk_gtp_mapped_ue_usage_type zero_ie_header 0.

Record gtp_secdry_rat_usage_data_rpt_ie_t := mk_gtp_secdry_rat_usage_data_rpt {
  gtp_secdry_rat_usage_data_rpt_header : ie_header_t;
  gtp_secdry_rat_usage_data_rpt_spare2 : Z;
  gtp_secdry_rat_usage_data_rpt_irsgw : Z;
  gtp_secdry_rat_usage_data_rpt_irpgw : Z;
  gtp_secdry_rat_usage_data_rpt_secdry_rat_type : Z;
  gtp_secdry_rat_usage_data_rpt_spare3 : Z;
  gtp_secdry_rat_usage_data_rpt_ebi : Z;
  gtp_secdry_rat_usage_data_rpt_start_timestamp : Z;
  gtp_secdry_rat_usage_data_rpt_end_timestamp : Z;
  gtp_secdry_rat_usage_data_rpt_usage_data_dl : Z;
  gtp_secdry_rat_usage_data_rpt_usage_data_ul : Z;
}.
Definition zero_gtp_secdry_rat_usage_data_rpt : gtp_secdry_rat_usage_data_rpt_ie_t := mk_gtp_secdry_rat_usage_data_rpt zero_ie_header 0 0 0 0 0 0 0 0 0 0.

Record gtp_up_func_sel_indctn_flgs_ie_t := mk_gtp_up_func_sel_indctn_flgs {
  gtp_up_func_sel_indctn_flgs_header : ie_header_t;
  gtp_up_func_sel_indctn_flgs_spare2 : Z;
  gtp_up_func_sel_indctn_flgs_dcnr : Z;
}.
Definition zero_gtp_up_func_sel_indctn_flgs : gtp_up_func_sel_indctn_flgs_ie_t := mk_gtp_up_func_sel_indctn_flgs zero_ie_header 0 0.

Record gtp_max_pckt_loss_rate_ie_t := mk_gtp_max_pckt_loss_rate {
  gtp_max_pckt_loss_rate_header : ie_header_t;
  gtp_max_pckt_loss_rate_spare2 : Z;
  gtp_max_pckt_loss_rate_dl : Z;
  gtp_max_pckt_loss_rate_ul : Z;
  gtp_max_pckt_loss_rate_max_pckt_loss_rate_ul : Z;
  gtp_max_pckt_loss_rate_max_pckt_loss_rate_dl : Z;
}.
Definition zero_gtp_max_pckt_loss_rate : gtp_max_pckt_loss_rate_ie_t := mk_gtp_max_pckt_loss_rate zero_ie_header 0 0 0 0 0.

Record gtp_stn_sr_ie_t := mk_gtp_stn_sr {
  gtp_stn_sr_header : ie_header_t;
  gtp_stn_sr_nanpi : Z;
  gtp_stn_sr_filler : Z;
  gtp_stn_sr_number_digit : Z;
}.
Definition zero_gtp_stn_sr : gtp_stn_sr_ie_t := mk_gtp_stn_sr zero_ie_header 0 0 0.
