(* ===== verification/GtpIesEncoder.v ===== *)
(** * Encoders of the GTPv2 information elements
    (src/libgtpv2c/src/gtp_ies_encoder.c, sv_ies_encoder.c)

    [put v n] is the statement [encoded += encode_bits(v, n, buf + (encoded/8),
    encoded % CHAR_SIZE);].  The encode_bits of libgtpv2c is the one of libpfcp. *)

From S2P Require Import Prelude EncDecBits Codec GtpIes.

(** ** Statements *)

(** [memcpy(buf + (encoded/8), src, len); encoded += len * CHAR_SIZE;]: a negative
    [len] is a huge size_t. *)
Definition putmem_len (src : list Z) (len : Z) : enc := fun base st =>
  if 0 <=? len then putmem src len base st else None.

(** [encoded = encoded/CHAR_SIZE;] *)
Definition enc_to_bytes : enc := fun _ '(encoded, buf) => Some (encoded / 8, buf).

(** ** Headers *)

Definition encode_gtpv2c_header_t (value : gtpv2c_header_t) : ie_encoder :=
  enc_bytes (
    put value.(gtpc_version) 3 ⨾
    put value.(gtpc_piggyback) 1 ⨾
    put value.(gtpc_teid_flag) 1 ⨾
    put value.(gtpc_spare) 3 ⨾
    put value.(gtpc_message_type) 8 ⨾
    put value.(gtpc_message_len) 16 ⨾
    (if value.(gtpc_teid_flag) =? 1 then
       put value.(has_teid_teid) 32 ⨾
       put value.(has_teid_seq) 24 ⨾
       put value.(has_teid_spare) 8
     else
       put (no_teid_seq value) 24 ⨾
       put (no_teid_spare value) 8)).

Definition encode_ie_header_t (value : ie_header_t) : ie_encoder :=
  enc_bits (
    put value.(gie_type) 8 ⨾
    put value.(gie_len) 16 ⨾
    put value.(gie_instance) 8).

(** ** Elements *)

Definition encode_macro_enb_id_fld (value : macro_enb_id_fld_t) : ie_encoder :=
  enc_bytes (
    put value.(macro_enb_id_fld_menbid_mcc_digit_2) 4 ⨾
    put value.(macro_enb_id_fld_menbid_mcc_digit_1) 4 ⨾
    put value.(macro_enb_id_fld_menbid_mnc_digit_3) 4 ⨾
    put value.(macro_enb_id_fld_menbid_mcc_digit_3) 4 ⨾
    put value.(macro_enb_id_fld_menbid_mnc_digit_2) 4 ⨾
    put value.(macro_enb_id_fld_menbid_mnc_digit_1) 4 ⨾
    put value.(macro_enb_id_fld_menbid_spare) 4 ⨾
    put value.(macro_enb_id_fld_menbid_macro_enodeb_id) 4 ⨾
    put value.(macro_enb_id_fld_menbid_macro_enb_id2) 16).

Definition encode_gtp_umts_key_and_quintuplets_ie (value : gtp_umts_key_and_quintuplets_ie_t) : ie_encoder :=
  enc_bytes (
    ecall (encode_ie_header_t value.(gtp_umts_key_and_quintuplets_header)) ⨾
    put value.(gtp_umts_key_and_quintuplets_security_mode) 3 ⨾
    put value.(gtp_umts_key_and_quintuplets_spare2) 1 ⨾
    put value.(gtp_umts_key_and_quintuplets_drxi) 1 ⨾
    put value.(gtp_umts_key_and_quintuplets_ksi) 3 ⨾
    put value.(gtp_umts_key_and_quintuplets_nbr_of_quintuplets) 3 ⨾
    put value.(gtp_umts_key_and_quintuplets_iovi) 1 ⨾
    put value.(gtp_umts_key_and_quintuplets_gupii) 1 ⨾
    put value.(gtp_umts_key_and_quintuplets_ugipai) 1 ⨾
    put value.(gtp_umts_key_and_quintuplets_uambri) 1 ⨾
    put value.(gtp_umts_key_and_quintuplets_sambri) 1 ⨾
    put value.(gtp_umts_key_and_quintuplets_spare3) 5 ⨾
    put value.(gtp_umts_key_and_quintuplets_used_gprs_intgrty_protctn_algo) 3 ⨾
    putmem_len value.(gtp_umts_key_and_quintuplets_ck) 16 ⨾
    putmem_len value.(gtp_umts_key_and_quintuplets_ik) 16 ⨾
    put value.(gtp_umts_key_and_quintuplets_auth_quintuplet) 8 ⨾
    put value.(gtp_umts_key_and_quintuplets_drx_parameter) 16 ⨾
    put value.(gtp_umts_key_and_quintuplets_uplnk_subscrbd_ue_ambr) 32 ⨾
    put value.(gtp_umts_key_and_quintuplets_dnlnk_subscrbd_ue_ambr) 32 ⨾
    put value.(gtp_umts_key_and_quintuplets_uplnk_used_ue_ambr) 32 ⨾
    put value.(gtp_umts_key_and_quintuplets_dnlnk_used_ue_ambr) 32 ⨾
    put value.(gtp_umts_key_and_quintuplets_ue_ntwk_capblty_len) 8 ⨾
    put value.(gtp_umts_key_and_quintuplets_ue_ntwk_capblty) 8 ⨾
    put value.(gtp_umts_key_and_quintuplets_ms_ntwk_capblty_len) 8 ⨾
    put value.(gtp_umts_key_and_quintuplets_ms_ntwk_capblty) 8 ⨾
    put value.(gtp_umts_key_and_quintuplets_mei_length) 8 ⨾
    put value.(gtp_umts_key_and_quintuplets_mei) 8 ⨾
    put value.(gtp_umts_key_and_quintuplets_ecna) 1 ⨾
    put value.(gtp_umts_key_and_quintuplets_nbna) 1 ⨾
    put value.(gtp_umts_key_and_quintuplets_hnna) 1 ⨾
    put value.(gtp_umts_key_and_quintuplets_ena) 1 ⨾
    put value.(gtp_umts_key_and_quintuplets_ina) 1 ⨾
    put value.(gtp_umts_key_and_quintuplets_gana) 1 ⨾
    put value.(gtp_umts_key_and_quintuplets_gena) 1 ⨾
    put value.(gtp_umts_key_and_quintuplets_una) 1 ⨾
    put value.(gtp_umts_key_and_quintuplets_vdom_pref_ue_usage_len) 8 ⨾
    put value.(gtp_umts_key_and_quintuplets_voice_domain_pref_and_ues_usage_setting) 8 ⨾
    put value.(gtp_umts_key_and_quintuplets_higher_bitrates_flg_len) 8 ⨾
    put value.(gtp_umts_key_and_quintuplets_higher_bitrates_flg) 8 ⨾
    put value.(gtp_umts_key_and_quintuplets_iov_updts_cntr) 8 ⨾
    put value.(gtp_umts_key_and_quintuplets_len_of_extnded_acc_rstrct_data) 8 ⨾
    put value.(gtp_umts_key_and_quintuplets_spare4) 7 ⨾
    put value.(gtp_umts_key_and_quintuplets_nrsrna) 1).

Definition encode_gtp_channel_needed_ie (value : gtp_channel_needed_ie_t) : ie_encoder :=
  enc_bytes (
    ecall (encode_ie_header_t value.(gtp_channel_needed_header)) ⨾
    put value.(gtp_channel_needed_channel_needed) 8).

Definition encode_gtp_rfsp_index_ie (value : gtp_rfsp_index_ie_t) : ie_encoder :=
  enc_bytes (
    ecall (encode_ie_header_t value.(gtp_rfsp_index_header)) ⨾
    put value.(gtp_rfsp_index_rfsp_index) 16).

Definition encode_gtp_guti_ie (value : gtp_guti_ie_t) : ie_encoder :=
  enc_bytes (
    ecall (encode_ie_header_t value.(gtp_guti_header)) ⨾
    put value.(gtp_guti_mcc_digit_2) 4 ⨾
    put value.(gtp_guti_mcc_digit_1) 4 ⨾
    put value.(gtp_guti_mnc_digit_3) 4 ⨾
    put value.(gtp_guti_mcc_digit_3) 4 ⨾
    put value.(gtp_guti_mnc_digit_2) 4 ⨾
    put value.(gtp_guti_mnc_digit_1) 4 ⨾
    put value.(gtp_guti_mme_group_id) 16 ⨾
    put value.(gtp_guti_mme_code) 8 ⨾
    put value.(gtp_guti_m_tmsi) 8).

(** The copy starts at [imsi_number_digits], which [imsi64] follows in memory. *)
Definition encode_gtp_imsi_ie (value : gtp_imsi_ie_t) : ie_encoder :=
  enc_bytes (
    ecall (encode_ie_header_t value.(gtp_imsi_header)) ⨾
    putmem_len (le_bytes 8 value.(gtp_imsi_imsi_number_digits) ++ le_bytes 8 value.(gtp_imsi_imsi64))
      value.(gtp_imsi_header).(gie_len)).

Definition encode_gtp_eps_bearer_id_ie (value : gtp_eps_bearer_id_ie_t) : ie_encoder :=
  enc_bytes (
    ecall (encode_ie_header_t value.(gtp_eps_bearer_id_header)) ⨾
    put value.(gtp_eps_bearer_id_ebi_spare2) 4 ⨾
    put value.(gtp_eps_bearer_id_ebi_ebi) 4).

Definition encode_gtp_emlpp_priority_ie (value : gtp_emlpp_priority_ie_t) : ie_encoder :=
  enc_bytes (
    ecall (encode_ie_header_t value.(gtp_emlpp_priority_header)) ⨾
    put value.(gtp_emlpp_priority_emlpp_priority) 8).

Definition encode_gtp_prot_cfg_opts_ie (value : gtp_prot_cfg_opts_ie_t) : ie_encoder :=
  enc_bytes (
    ecall (encode_ie_header_t value.(gtp_prot_cfg_opts_header)) ⨾
    put value.(gtp_prot_cfg_opts_pco) 8).

(** The copy goes to [buf+4], behind the header.  The buffer [pco] points to is freed
    afterwards. *)
Definition encode_pco_ie_t (val : pco_ie_t) : ie_encoder :=
  enc_bytes (
    ecall (encode_ie_header_t val.(pco_ie_header)) ⨾
    putmem_len val.(pco_ie_pco) val.(pco_ie_pco_len)).

Definition encode_gtp_mdt_cfg_ie (value : gtp_mdt_cfg_ie_t) : ie_encoder :=
  enc_bytes (
    ecall (encode_ie_header_t value.(gtp_mdt_cfg_header)) ⨾
    put value.(gtp_mdt_cfg_job_type) 8 ⨾
    put value.(gtp_mdt_cfg_measrmnts_lsts) 32 ⨾
    put value.(gtp_mdt_cfg_rptng_trig) 8 ⨾
    put value.(gtp_mdt_cfg_report_interval) 8 ⨾
    put value.(gtp_mdt_cfg_report_amount) 8 ⨾
    put value.(gtp_mdt_cfg_rsrp_evnt_thresh) 8 ⨾
    put value.(gtp_mdt_cfg_rsrq_evnt_thresh) 8 ⨾
    put value.(gtp_mdt_cfg_len_of_area_scop) 8 ⨾
    put value.(gtp_mdt_cfg_area_scope) 8 ⨾
    put value.(gtp_mdt_cfg_spare2) 4 ⨾
    put value.(gtp_mdt_cfg_pli) 1 ⨾
    put value.(gtp_mdt_cfg_pmi) 1 ⨾
    put value.(gtp_mdt_cfg_mpi) 1 ⨾
    put value.(gtp_mdt_cfg_crrmi) 1 ⨾
    put value.(gtp_mdt_cfg_coll_prd_rrm_lte) 8 ⨾
    put value.(gtp_mdt_cfg_meas_prd_lte) 8 ⨾
    put value.(gtp_mdt_cfg_pos_mthd) 8 ⨾
    put value.(gtp_mdt_cfg_nbr_of_mdt_plmns) 8 ⨾
    put value.(gtp_mdt_cfg_mdt_plmn_list) 8).

Definition encode_gtp_src_id_ie (value : gtp_src_id_ie_t) : ie_encoder :=
  enc_bytes (
    ecall (encode_ie_header_t value.(gtp_src_id_header)) ⨾
    put value.(gtp_src_id_target_cell_id) 64 ⨾
    put value.(gtp_src_id_source_type) 8 ⨾
    put value.(gtp_src_id_source_id) 8).

Definition encode_auth_quintuplet (value : auth_quintuplet_t) : ie_encoder :=
  enc_bytes (
    putmem_len value.(auth_quintuplet_rand) 16 ⨾
    put value.(auth_quintuplet_xres_length) 8 ⨾
    put value.(auth_quintuplet_xres) 8 ⨾
    putmem_len value.(auth_quintuplet_ck) 16 ⨾
    putmem_len value.(auth_quintuplet_ik) 16 ⨾
    put value.(auth_quintuplet_autn_length) 8 ⨾
    put value.(auth_quintuplet_autn) 8).

Definition encode_trgt_id_type_macro_ng_enb (value : trgt_id_type_macro_ng_enb_t) : ie_encoder :=
  enc_bytes (
    put value.(trgt_id_type_macro_ng_enb_mcc_digit_2) 4 ⨾
    put value.(trgt_id_type_macro_ng_enb_mcc_digit_1) 4 ⨾
    put value.(trgt_id_type_macro_ng_enb_mnc_digit_3) 4 ⨾
    put value.(trgt_id_type_macro_ng_enb_mcc_digit_3) 4 ⨾
    put value.(trgt_id_type_macro_ng_enb_mnc_digit_2) 4 ⨾
    put value.(trgt_id_type_macro_ng_enb_mnc_digit_1) 4 ⨾
    put value.(trgt_id_type_macro_ng_enb_spare) 4 ⨾
    put value.(trgt_id_type_macro_ng_enb_macro_ng_enb_id) 16 ⨾
    put value.(trgt_id_type_macro_ng_enb_fivegs_tac) 24).

Definition encode_gtp_ran_nas_cause_ie (value : gtp_ran_nas_cause_ie_t) : ie_encoder :=
  enc_bytes (
    ecall (encode_ie_header_t value.(gtp_ran_nas_cause_header)) ⨾
    put value.(gtp_ran_nas_cause_protocol_type) 4 ⨾
    put value.(gtp_ran_nas_cause_cause_type) 4 ⨾
    put value.(gtp_ran_nas_cause_cause_value) 8).

Definition encode_trgt_id_type_rnc_id (value : trgt_id_type_rnc_id_t) : ie_encoder :=
  enc_bytes (
    put value.(trgt_id_type_rnc_id_mcc_digit_2) 4 ⨾
    put value.(trgt_id_type_rnc_id_mcc_digit_1) 4 ⨾
    put value.(trgt_id_type_rnc_id_mnc_digit_3) 4 ⨾
    put value.(trgt_id_type_rnc_id_mcc_digit_3) 4 ⨾
    put value.(trgt_id_type_rnc_id_mnc_digit_2) 4 ⨾
    put value.(trgt_id_type_rnc_id_mnc_digit_1) 4 ⨾
    put value.(trgt_id_type_rnc_id_lac) 16 ⨾
    put value.(trgt_id_type_rnc_id_rac) 8 ⨾
    put value.(trgt_id_type_rnc_id_rnc_id) 16 ⨾
    put value.(trgt_id_type_rnc_id_extended_rnc_id) 16).

Definition encode_gtp_pdn_type_ie (value : gtp_pdn_type_ie_t) : ie_encoder :=
  enc_bytes (
    ecall (encode_ie_header_t value.(gtp_pdn_type_header)) ⨾
    put value.(gtp_pdn_type_pdn_type_spare2) 5 ⨾
    put value.(gtp_pdn_type_pdn_type_pdn_type) 3).

Definition encode_gtp_eps_secur_ctxt_and_quadruplets_ie (value : gtp_eps_secur_ctxt_and_quadruplets_ie_t) : ie_encoder :=
  enc_bytes (
    ecall (encode_ie_header_t value.(gtp_eps_secur_ctxt_and_quadruplets_header)) ⨾
    put value.(gtp_eps_secur_ctxt_and_quadruplets_security_mode) 3 ⨾
    put value.(gtp_eps_secur_ctxt_and_quadruplets_nhi) 1 ⨾
    put value.(gtp_eps_secur_ctxt_and_quadruplets_drxi) 1 ⨾
    put value.(gtp_eps_secur_ctxt_and_quadruplets_ksiasme) 3 ⨾
    put value.(gtp_eps_secur_ctxt_and_quadruplets_nbr_of_quintuplets) 3 ⨾
    put value.(gtp_eps_secur_ctxt_and_quadruplets_nbr_of_quadruplet) 3 ⨾
    put value.(gtp_eps_secur_ctxt_and_quadruplets_uambri) 1 ⨾
    put value.(gtp_eps_secur_ctxt_and_quadruplets_osci) 1 ⨾
    put value.(gtp_eps_secur_ctxt_and_quadruplets_sambri) 1 ⨾
    put value.(gtp_eps_secur_ctxt_and_quadruplets_used_nas_intgrty_protctn_algo) 3 ⨾
    put value.(gtp_eps_secur_ctxt_and_quadruplets_used_nas_cipher) 4 ⨾
    put value.(gtp_eps_secur_ctxt_and_quadruplets_nas_dnlnk_cnt) 24 ⨾
    put value.(gtp_eps_secur_ctxt_and_quadruplets_nas_uplnk_cnt) 24 ⨾
    putmem_len value.(gtp_eps_secur_ctxt_and_quadruplets_kasme) 32 ⨾
    put value.(gtp_eps_secur_ctxt_and_quadruplets_auth_quadruplet) 8 ⨾
    put value.(gtp_eps_secur_ctxt_and_quadruplets_auth_quintuplet) 8 ⨾
    put value.(gtp_eps_secur_ctxt_and_quadruplets_drx_parameter) 16 ⨾
    putmem_len value.(gtp_eps_secur_ctxt_and_quadruplets_nh) 32 ⨾
    put value.(gtp_eps_secur_ctxt_and_quadruplets_spare2) 5 ⨾
    put value.(gtp_eps_secur_ctxt_and_quadruplets_ncc) 3 ⨾
    put value.(gtp_eps_secur_ctxt_and_quadruplets_uplnk_subscrbd_ue_ambr) 32 ⨾
    put value.(gtp_eps_secur_ctxt_and_quadruplets_dnlnk_subscrbd_ue_ambr) 32 ⨾
    put value.(gtp_eps_secur_ctxt_and_quadruplets_uplnk_used_ue_ambr) 32 ⨾
    put value.(gtp_eps_secur_ctxt_and_quadruplets_dnlnk_used_ue_ambr) 32 ⨾
    put value.(gtp_eps_secur_ctxt_and_quadruplets_ue_ntwk_capblty_len) 8 ⨾
    put value.(gtp_eps_secur_ctxt_and_quadruplets_ue_ntwk_capblty) 8 ⨾
    put value.(gtp_eps_secur_ctxt_and_quadruplets_ms_ntwk_capblty_len) 8 ⨾
    put value.(gtp_eps_secur_ctxt_and_quadruplets_ms_ntwk_capblty) 8 ⨾
    put value.(gtp_eps_secur_ctxt_and_quadruplets_mei_length) 8 ⨾
    put value.(gtp_eps_secur_ctxt_and_quadruplets_mei) 8 ⨾
    put value.(gtp_eps_secur_ctxt_and_quadruplets_ecna) 1 ⨾
    put value.(gtp_eps_secur_ctxt_and_quadruplets_nbna) 1 ⨾
    put value.(gtp_eps_secur_ctxt_and_quadruplets_hnna) 1 ⨾
    put value.(gtp_eps_secur_ctxt_and_quadruplets_ena) 1 ⨾
    put value.(gtp_eps_secur_ctxt_and_quadruplets_ina) 1 ⨾
    put value.(gtp_eps_secur_ctxt_and_quadruplets_gana) 1 ⨾
    put value.(gtp_eps_secur_ctxt_and_quadruplets_gena) 1 ⨾
    put value.(gtp_eps_secur_ctxt_and_quadruplets_una) 1 ⨾
    put value.(gtp_eps_secur_ctxt_and_quadruplets_s) 2 ⨾
    put value.(gtp_eps_secur_ctxt_and_quadruplets_nhi_old) 1 ⨾
    put value.(gtp_eps_secur_ctxt_and_quadruplets_spare3) 1 ⨾
    put value.(gtp_eps_secur_ctxt_and_quadruplets_old_ksiasme) 3 ⨾
    put value.(gtp_eps_secur_ctxt_and_quadruplets_old_ncc) 3 ⨾
    putmem_len value.(gtp_eps_secur_ctxt_and_quadruplets_old_kasme) 32 ⨾
    putmem_len value.(gtp_eps_secur_ctxt_and_quadruplets_old_nh) 32 ⨾
    put value.(gtp_eps_secur_ctxt_and_quadruplets_vdom_pref_ue_usage_len) 8 ⨾
    put value.(gtp_eps_secur_ctxt_and_quadruplets_voice_domain_pref_and_ues_usage_setting) 8 ⨾
    put value.(gtp_eps_secur_ctxt_and_quadruplets_len_of_ue_radio_capblty_paging_info) 16 ⨾
    put value.(gtp_eps_secur_ctxt_and_quadruplets_ue_radio_capblty_paging_info) 8 ⨾
    put value.(gtp_eps_secur_ctxt_and_quadruplets_len_of_extnded_acc_rstrct_data) 8 ⨾
    put value.(gtp_eps_secur_ctxt_and_quadruplets_spare4) 6 ⨾
    put value.(gtp_eps_secur_ctxt_and_quadruplets_ussrna) 1 ⨾
    put value.(gtp_eps_secur_ctxt_and_quadruplets_nrsrna) 1 ⨾
    put value.(gtp_eps_secur_ctxt_and_quadruplets_ue_addtl_secur_capblty_len) 8 ⨾
    put value.(gtp_eps_secur_ctxt_and_quadruplets_ue_addtl_secur_capblty) 8 ⨾
    put value.(gtp_eps_secur_ctxt_and_quadruplets_len_of_ue_nr_secur_capblty) 8 ⨾
    put value.(gtp_eps_secur_ctxt_and_quadruplets_ue_nr_secur_capblty) 8).

Definition encode_gtp_s103_pdn_data_fwdng_info_ie (value : gtp_s103_pdn_data_fwdng_info_ie_t) : ie_encoder :=
  enc_bytes (
    ecall (encode_ie_header_t value.(gtp_s103_pdn_data_fwdng_info_header)) ⨾
    put value.(gtp_s103_pdn_data_fwdng_info_hsgw_addr_fwdng_len) 8 ⨾
    put value.(gtp_s103_pdn_data_fwdng_info_hsgw_addr_fwdng) 8 ⨾
    put value.(gtp_s103_pdn_data_fwdng_info_gre_key) 32 ⨾
    put value.(gtp_s103_pdn_data_fwdng_info_eps_bearer_id_nbr) 8 ⨾
    put value.(gtp_s103_pdn_data_fwdng_info_spare2) 4).

Definition encode_gtp_fully_qual_domain_name_ie (value : gtp_fully_qual_domain_name_ie_t) : ie_encoder :=
  enc_bytes (
    ecall (encode_ie_header_t value.(gtp_fully_qual_domain_name_header)) ⨾
    putmem_len value.(gtp_fully_qual_domain_name_fqdn) value.(gtp_fully_qual_domain_name_header).(gie_len)).

Definition encode_gtp_traffic_agg_desc_ie (value : gtp_traffic_agg_desc_ie_t) : ie_encoder :=
  enc_bytes (
    ecall (encode_ie_header_t value.(gtp_traffic_agg_desc_header)) ⨾
    put value.(gtp_traffic_agg_desc_traffic_agg_desc) 8).

Definition encode_gtp_flow_qlty_of_svc_ie (value : gtp_flow_qlty_of_svc_ie_t) : ie_encoder :=
  enc_bytes (
    ecall (encode_ie_header_t value.(gtp_flow_qlty_of_svc_header)) ⨾
    put value.(gtp_flow_qlty_of_svc_qci) 8 ⨾
    put value.(gtp_flow_qlty_of_svc_max_bit_rate_uplnk) 40 ⨾
    put value.(gtp_flow_qlty_of_svc_max_bit_rate_dnlnk) 40 ⨾
    put value.(gtp_flow_qlty_of_svc_guarntd_bit_rate_uplnk) 40 ⨾
    put value.(gtp_flow_qlty_of_svc_guarntd_bit_rate_dnlnk) 40).

Definition encode_gtp_fully_qual_tunn_endpt_idnt_ie (value : gtp_fully_qual_tunn_endpt_idnt_ie_t) : ie_encoder :=
  enc_bytes (
    ecall (encode_ie_header_t value.(gtp_fully_qual_tunn_endpt_idnt_header)) ⨾
    put value.(gtp_fully_qual_tunn_endpt_idnt_v4) 1 ⨾
    put value.(gtp_fully_qual_tunn_endpt_idnt_v6) 1 ⨾
    put value.(gtp_fully_qual_tunn_endpt_idnt_interface_type) 6 ⨾
    put value.(gtp_fully_qual_tunn_endpt_idnt_teid_gre_key) 32 ⨾
    put value.(gtp_fully_qual_tunn_endpt_idnt_ipv4_address) 32 ⨾
    enc_when (nz value.(gtp_fully_qual_tunn_endpt_idnt_v6)) (putmem_len value.(gtp_fully_qual_tunn_endpt_idnt_ipv6_address) 16)).

Definition encode_gtp_recovery_ie (value : gtp_recovery_ie_t) : ie_encoder :=
  enc_bytes (
    ecall (encode_ie_header_t value.(gtp_recovery_header)) ⨾
    put value.(gtp_recovery_recovery) 8).

Definition encode_gtp_srvng_plmn_rate_ctl_ie (value : gtp_srvng_plmn_rate_ctl_ie_t) : ie_encoder :=
  enc_bytes (
    ecall (encode_ie_header_t value.(gtp_srvng_plmn_rate_ctl_header)) ⨾
    put value.(gtp_srvng_plmn_rate_ctl_uplnk_rate_lmt) 16 ⨾
    put value.(gtp_srvng_plmn_rate_ctl_dnlnk_rate_lmt) 16).

Definition encode_gtp_mbms_dist_ack_ie (value : gtp_mbms_dist_ack_ie_t) : ie_encoder :=
  enc_bytes (
    ecall (encode_ie_header_t value.(gtp_mbms_dist_ack_header)) ⨾
    put value.(gtp_mbms_dist_ack_spare2) 6 ⨾
    put value.(gtp_mbms_dist_ack_distr_ind) 2).

Definition encode_gtp_ue_time_zone_ie (value : gtp_ue_time_zone_ie_t) : ie_encoder :=
  enc_bytes (
    ecall (encode_ie_header_t value.(gtp_ue_time_zone_header)) ⨾
    put value.(gtp_ue_time_zone_time_zone) 8 ⨾
    put value.(gtp_ue_time_zone_spare2) 6 ⨾
    put value.(gtp_ue_time_zone_daylt_svng_time) 2).

Definition encode_gtp_s1u_data_fwdng_ie (value : gtp_s1u_data_fwdng_ie_t) : ie_encoder :=
  enc_bytes (
    ecall (encode_ie_header_t value.(gtp_s1u_data_fwdng_header)) ⨾
    put value.(gtp_s1u_data_fwdng_spare2) 4 ⨾
    put value.(gtp_s1u_data_fwdng_sgw_addr_len) 8 ⨾
    put value.(gtp_s1u_data_fwdng_sgw_address) 8 ⨾
    put value.(gtp_s1u_data_fwdng_sgw_s1u_teid) 32).

Definition encode_gtp_pres_rptng_area_act_ie (value : gtp_pres_rptng_area_act_ie_t) : ie_encoder :=
  enc_bytes (
    ecall (encode_ie_header_t value.(gtp_pres_rptng_area_act_header)) ⨾
    put value.(gtp_pres_rptng_area_act_spare2) 4 ⨾
    put value.(gtp_pres_rptng_area_act_inapra) 1 ⨾
    put value.(gtp_pres_rptng_area_act_action) 3 ⨾
    put value.(gtp_pres_rptng_area_act_pres_rptng_area_idnt) 24 ⨾
    put value.(gtp_pres_rptng_area_act_number_of_tai) 4 ⨾
    put value.(gtp_pres_rptng_area_act_number_of_rai) 4 ⨾
    put value.(gtp_pres_rptng_area_act_spare3) 2 ⨾
    put value.(gtp_pres_rptng_area_act_nbr_of_macro_enb) 6 ⨾
    put value.(gtp_pres_rptng_area_act_spare4) 2 ⨾
    put value.(gtp_pres_rptng_area_act_nbr_of_home_enb) 6 ⨾
    put value.(gtp_pres_rptng_area_act_spare5) 2 ⨾
    put value.(gtp_pres_rptng_area_act_number_of_ecgi) 6 ⨾
    put value.(gtp_pres_rptng_area_act_spare6) 2 ⨾
    put value.(gtp_pres_rptng_area_act_number_of_sai) 6 ⨾
    put value.(gtp_pres_rptng_area_act_spare7) 2 ⨾
    put value.(gtp_pres_rptng_area_act_number_of_cgi) 6 ⨾
    put value.(gtp_pres_rptng_area_act_tais) 8 ⨾
    put value.(gtp_pres_rptng_area_act_macro_enb_ids) 8 ⨾
    put value.(gtp_pres_rptng_area_act_home_enb_ids) 8 ⨾
    put value.(gtp_pres_rptng_area_act_ecgis) 8 ⨾
    put value.(gtp_pres_rptng_area_act_rais) 8 ⨾
    put value.(gtp_pres_rptng_area_act_sais) 8 ⨾
    put value.(gtp_pres_rptng_area_act_cgis) 8 ⨾
    put value.(gtp_pres_rptng_area_act_spare8) 2 ⨾
    put value.(gtp_pres_rptng_area_act_nbr_of_extnded_macro_enb) 6 ⨾
    put value.(gtp_pres_rptng_area_act_extnded_macro_enb_ids) 8).

Definition encode_gtp_trstd_wlan_mode_indctn_ie (value : gtp_trstd_wlan_mode_indctn_ie_t) : ie_encoder :=
  enc_bytes (
    ecall (encode_ie_header_t value.(gtp_trstd_wlan_mode_indctn_header)) ⨾
    put value.(gtp_trstd_wlan_mode_indctn_spare2) 6 ⨾
    put value.(gtp_trstd_wlan_mode_indctn_mcm) 2 ⨾
    put value.(gtp_trstd_wlan_mode_indctn_scm) 1).

Definition encode_gtp_proc_trans_id_ie (value : gtp_proc_trans_id_ie_t) : ie_encoder :=
  enc_bytes (
    ecall (encode_ie_header_t value.(gtp_proc_trans_id_header)) ⨾
    put value.(gtp_proc_trans_id_proc_trans_id) 8).

Definition encode_gtp_wlan_offldblty_indctn_ie (value : gtp_wlan_offldblty_indctn_ie_t) : ie_encoder :=
  enc_bytes (
    ecall (encode_ie_header_t value.(gtp_wlan_offldblty_indctn_header)) ⨾
    put value.(gtp_wlan_offldblty_indctn_spare2) 6 ⨾
    put value.(gtp_wlan_offldblty_indctn_eutran_indctn) 1 ⨾
    put value.(gtp_wlan_offldblty_indctn_utran_indctn) 1).

Definition encode_gtp_uli_timestamp_ie (value : gtp_uli_timestamp_ie_t) : ie_encoder :=
  enc_bytes (
    ecall (encode_ie_header_t value.(gtp_uli_timestamp_header)) ⨾
    put value.(gtp_uli_timestamp_uli_ts_val) 8).

Definition encode_gtp_max_pckt_loss_rate_ie (value : gtp_max_pckt_loss_rate_ie_t) : ie_encoder :=
  enc_bytes (
    ecall (encode_ie_header_t value.(gtp_max_pckt_loss_rate_header)) ⨾
    put value.(gtp_max_pckt_loss_rate_spare2) 6 ⨾
    put value.(gtp_max_pckt_loss_rate_dl) 1 ⨾
    put value.(gtp_max_pckt_loss_rate_ul) 1 ⨾
    put value.(gtp_max_pckt_loss_rate_max_pckt_loss_rate_ul) 16 ⨾
    put value.(gtp_max_pckt_loss_rate_max_pckt_loss_rate_dl) 16).

Definition encode_gtp_cn_oper_sel_entity_ie (value : gtp_cn_oper_sel_entity_ie_t) : ie_encoder :=
  enc_bytes (
    ecall (encode_ie_header_t value.(gtp_cn_oper_sel_entity_header)) ⨾
    put value.(gtp_cn_oper_sel_entity_spare2) 6 ⨾
    put value.(gtp_cn_oper_sel_entity_sel_entity) 2).

Definition encode_rai_field (value : rai_field_t) : ie_encoder :=
  enc_bytes (
    put value.(rai_field_ria_mcc_digit_2) 4 ⨾
    put value.(rai_field_ria_mcc_digit_1) 4 ⨾
    put value.(rai_field_ria_mnc_digit_3) 4 ⨾
    put value.(rai_field_ria_mcc_digit_3) 4 ⨾
    put value.(rai_field_ria_mnc_digit_2) 4 ⨾
    put value.(rai_field_ria_mnc_digit_1) 4 ⨾
    put value.(rai_field_ria_lac) 16 ⨾
    put value.(rai_field_ria_rac) 16).

Definition encode_gtp_alloc_reten_priority_ie (value : gtp_alloc_reten_priority_ie_t) : ie_encoder :=
  enc_bytes (
    ecall (encode_ie_header_t value.(gtp_alloc_reten_priority_header)) ⨾
    put value.(gtp_alloc_reten_priority_spare2) 1 ⨾
    put value.(gtp_alloc_reten_priority_pci) 1 ⨾
    put value.(gtp_alloc_reten_priority_pl) 4 ⨾
    put value.(gtp_alloc_reten_priority_spare3) 1 ⨾
    put value.(gtp_alloc_reten_priority_pvi) 1).

Definition encode_gtp_apn_restriction_ie (value : gtp_apn_restriction_ie_t) : ie_encoder :=
  enc_bytes (
    ecall (encode_ie_header_t value.(gtp_apn_restriction_header)) ⨾
    put value.(gtp_apn_restriction_rstrct_type_val) 8).

Definition encode_sai_field (value : sai_field_t) : ie_encoder :=
  enc_bytes (
    put value.(sai_field_sai_mcc_digit_2) 4 ⨾
    put value.(sai_field_sai_mcc_digit_1) 4 ⨾
    put value.(sai_field_sai_mnc_digit_3) 4 ⨾
    put value.(sai_field_sai_mcc_digit_3) 4 ⨾
    put value.(sai_field_sai_mnc_digit_2) 4 ⨾
    put value.(sai_field_sai_mnc_digit_1) 4 ⨾
    put value.(sai_field_sai_lac) 16 ⨾
    put value.(sai_field_sai_sac) 16).

Definition encode_trgt_id_type_extnded_macro_ng_enb (value : trgt_id_type_extnded_macro_ng_enb_t) : ie_encoder :=
  enc_bytes (
    put value.(trgt_id_type_extnded_macro_ng_enb_mcc_digit_2) 4 ⨾
    put value.(trgt_id_type_extnded_macro_ng_enb_mcc_digit_1) 4 ⨾
    put value.(trgt_id_type_extnded_macro_ng_enb_mnc_digit_3) 4 ⨾
    put value.(trgt_id_type_extnded_macro_ng_enb_mcc_digit_3) 4 ⨾
    put value.(trgt_id_type_extnded_macro_ng_enb_mnc_digit_2) 4 ⨾
    put value.(trgt_id_type_extnded_macro_ng_enb_mnc_digit_1) 4 ⨾
    put value.(trgt_id_type_extnded_macro_ng_enb_smenb) 1 ⨾
    put value.(trgt_id_type_extnded_macro_ng_enb_spare) 2 ⨾
    put value.(trgt_id_type_extnded_macro_ng_enb_extnded_macro_ng_enb_id) 16 ⨾
    put value.(trgt_id_type_extnded_macro_ng_enb_fivegs_tac) 24).

Definition encode_gtp_ptmsi_signature_ie (value : gtp_ptmsi_signature_ie_t) : ie_encoder :=
  enc_bytes (
    ecall (encode_ie_header_t value.(gtp_ptmsi_signature_header)) ⨾
    put value.(gtp_ptmsi_signature_ptmsi_signature) 8).

Definition encode_gtp_paging_and_svc_info_ie (value : gtp_paging_and_svc_info_ie_t) : ie_encoder :=
  enc_bytes (
    ecall (encode_ie_header_t value.(gtp_paging_and_svc_info_header)) ⨾
    put value.(gtp_paging_and_svc_info_spare2) 4 ⨾
    put value.(gtp_paging_and_svc_info_ebi) 4 ⨾
    put value.(gtp_paging_and_svc_info_spare3) 7 ⨾
    put value.(gtp_paging_and_svc_info_ppi) 1 ⨾
    put value.(gtp_paging_and_svc_info_spare4) 2 ⨾
    put value.(gtp_paging_and_svc_info_paging_plcy_indctn_val) 6).

Definition encode_gtp_ovrld_ctl_info_ie (value : gtp_ovrld_ctl_info_ie_t) : ie_encoder :=
  enc_bytes (
    ecall (encode_ie_header_t value.(gtp_ovrld_ctl_info_header)) ⨾
    putmem_len value.(gtp_ovrld_ctl_info_overload_control_information) 8).

Definition encode_gtp_ecgi_list_ie (value : gtp_ecgi_list_ie_t) : ie_encoder :=
  enc_bytes (
    ecall (encode_ie_header_t value.(gtp_ecgi_list_header)) ⨾
    put value.(gtp_ecgi_list_nbr_of_ecgi_flds) 16 ⨾
    put value.(gtp_ecgi_list_ecgi_list_of_m_ecgi_flds) 8).

Definition encode_gtp_agg_max_bit_rate_ie (value : gtp_agg_max_bit_rate_ie_t) : ie_encoder :=
  enc_bytes (
    ecall (encode_ie_header_t value.(gtp_agg_max_bit_rate_header)) ⨾
    put value.(gtp_agg_max_bit_rate_apn_ambr_uplnk) 32 ⨾
    put value.(gtp_agg_max_bit_rate_apn_ambr_dnlnk) 32).

Definition encode_tai_field (value : tai_field_t) : ie_encoder :=
  enc_bytes (
    put value.(tai_field_tai_mcc_digit_2) 4 ⨾
    put value.(tai_field_tai_mcc_digit_1) 4 ⨾
    put value.(tai_field_tai_mnc_digit_3) 4 ⨾
    put value.(tai_field_tai_mcc_digit_3) 4 ⨾
    put value.(tai_field_tai_mnc_digit_2) 4 ⨾
    put value.(tai_field_tai_mnc_digit_1) 4 ⨾
    put value.(tai_field_tai_tac) 16).

Definition encode_gtp_acc_pt_name_ie (value : gtp_acc_pt_name_ie_t) : ie_encoder :=
  enc_bytes (
    ecall (encode_ie_header_t value.(gtp_acc_pt_name_header)) ⨾
    putmem_len value.(gtp_acc_pt_name_apn) value.(gtp_acc_pt_name_header).(gie_len)).

Definition encode_bss_container (value : bss_container_t) : ie_encoder :=
  enc_bytes (
    put value.(bss_container_spare) 4 ⨾
    put value.(bss_container_phx) 1 ⨾
    put value.(bss_container_sapi) 1 ⨾
    put value.(bss_container_rp) 1 ⨾
    put value.(bss_container_pfi) 1 ⨾
    put value.(bss_container_sapi2) 4 ⨾
    put value.(bss_container_spare2) 1 ⨾
    put value.(bss_container_radio_priority) 3 ⨾
    put value.(bss_container_xid_parms_len) 8 ⨾
    put value.(bss_container_xid_parameters) 8).

Definition encode_trgt_id_type_gnode_id (value : trgt_id_type_gnode_id_t) : ie_encoder :=
  enc_bytes (
    put value.(trgt_id_type_gnode_id_mcc_digit_2) 4 ⨾
    put value.(trgt_id_type_gnode_id_mcc_digit_1) 4 ⨾
    put value.(trgt_id_type_gnode_id_mnc_digit_3) 4 ⨾
    put value.(trgt_id_type_gnode_id_mcc_digit_3) 4 ⨾
    put value.(trgt_id_type_gnode_id_mnc_digit_2) 4 ⨾
    put value.(trgt_id_type_gnode_id_mnc_digit_1) 4 ⨾
    put value.(trgt_id_type_gnode_id_spare) 2 ⨾
    put value.(trgt_id_type_gnode_id_gnb_id_len) 6 ⨾
    put value.(trgt_id_type_gnode_id_gnodeb_id) 32 ⨾
    put value.(trgt_id_type_gnode_id_fivegs_tac) 24).

Definition encode_gtp_umts_key_quadruplets_and_quintuplets_ie (value : gtp_umts_key_quadruplets_and_quintuplets_ie_t) : ie_encoder :=
  enc_bytes (
    ecall (encode_ie_header_t value.(gtp_umts_key_quadruplets_and_quintuplets_header)) ⨾
    put value.(gtp_umts_key_quadruplets_and_quintuplets_security_mode) 3 ⨾
    put value.(gtp_umts_key_quadruplets_and_quintuplets_spare2) 1 ⨾
    put value.(gtp_umts_key_quadruplets_and_quintuplets_drxi) 1 ⨾
    put value.(gtp_umts_key_quadruplets_and_quintuplets_ksiasme) 3 ⨾
    put value.(gtp_umts_key_quadruplets_and_quintuplets_nbr_of_quintuplets) 3 ⨾
    put value.(gtp_umts_key_quadruplets_and_quintuplets_nbr_of_quadruplet) 3 ⨾
    put value.(gtp_umts_key_quadruplets_and_quintuplets_uambri) 1 ⨾
    put value.(gtp_umts_key_quadruplets_and_quintuplets_sambri) 1 ⨾
    put value.(gtp_umts_key_quadruplets_and_quintuplets_spare3) 8 ⨾
    putmem_len value.(gtp_umts_key_quadruplets_and_quintuplets_ck) 16 ⨾
    putmem_len value.(gtp_umts_key_quadruplets_and_quintuplets_ik) 16 ⨾
    put value.(gtp_umts_key_quadruplets_and_quintuplets_auth_quadruplet) 8 ⨾
    put value.(gtp_umts_key_quadruplets_and_quintuplets_auth_quintuplet) 8 ⨾
    put value.(gtp_umts_key_quadruplets_and_quintuplets_drx_parameter) 16 ⨾
    put value.(gtp_umts_key_quadruplets_and_quintuplets_uplnk_subscrbd_ue_ambr) 32 ⨾
    put value.(gtp_umts_key_quadruplets_and_quintuplets_dnlnk_subscrbd_ue_ambr) 32 ⨾
    put value.(gtp_umts_key_quadruplets_and_quintuplets_uplnk_used_ue_ambr) 32 ⨾
    put value.(gtp_umts_key_quadruplets_and_quintuplets_dnlnk_used_ue_ambr) 32 ⨾
    put value.(gtp_umts_key_quadruplets_and_quintuplets_ue_ntwk_capblty_len) 8 ⨾
    put value.(gtp_umts_key_quadruplets_and_quintuplets_ue_ntwk_capblty) 8 ⨾
    put value.(gtp_umts_key_quadruplets_and_quintuplets_ms_ntwk_capblty_len) 8 ⨾
    put value.(gtp_umts_key_quadruplets_and_quintuplets_ms_ntwk_capblty) 8 ⨾
    put value.(gtp_umts_key_quadruplets_and_quintuplets_mei_length) 8 ⨾
    put value.(gtp_umts_key_quadruplets_and_quintuplets_mei) 8 ⨾
    put value.(gtp_umts_key_quadruplets_and_quintuplets_ecna) 1 ⨾
    put value.(gtp_umts_key_quadruplets_and_quintuplets_nbna) 1 ⨾
    put value.(gtp_umts_key_quadruplets_and_quintuplets_hnna) 1 ⨾
    put value.(gtp_umts_key_quadruplets_and_quintuplets_ena) 1 ⨾
    put value.(gtp_umts_key_quadruplets_and_quintuplets_ina) 1 ⨾
    put value.(gtp_umts_key_quadruplets_and_quintuplets_gana) 1 ⨾
    put value.(gtp_umts_key_quadruplets_and_quintuplets_gena) 1 ⨾
    put value.(gtp_umts_key_quadruplets_and_quintuplets_una) 1 ⨾
    put value.(gtp_umts_key_quadruplets_and_quintuplets_vdom_pref_ue_usage_len) 8 ⨾
    put value.(gtp_umts_key_quadruplets_and_quintuplets_voice_domain_pref_and_ues_usage_setting) 8).

Definition encode_gtp_cmplt_req_msg_ie (value : gtp_cmplt_req_msg_ie_t) : ie_encoder :=
  enc_bytes (
    ecall (encode_ie_header_t value.(gtp_cmplt_req_msg_header)) ⨾
    put value.(gtp_cmplt_req_msg_cmplt_req_msg_type) 8 ⨾
    put value.(gtp_cmplt_req_msg_cmplt_req_msg) 8).

Definition encode_gtp_epc_timer_ie (value : gtp_epc_timer_ie_t) : ie_encoder :=
  enc_bytes (
    ecall (encode_ie_header_t value.(gtp_epc_timer_header)) ⨾
    put value.(gtp_epc_timer_timer_unit) 3 ⨾
    put value.(gtp_epc_timer_timer_value) 5).

Definition encode_gtp_csg_id_ie (value : gtp_csg_id_ie_t) : ie_encoder :=
  enc_bytes (
    ecall (encode_ie_header_t value.(gtp_csg_id_header)) ⨾
    put value.(gtp_csg_id_csg_id_spare2) 5 ⨾
    put value.(gtp_csg_id_csg_id_csg_id) 3 ⨾
    put value.(gtp_csg_id_csg_id_csg_id2) 24).

Definition encode_trgt_id_type_extnded_macro_enb (value : trgt_id_type_extnded_macro_enb_t) : ie_encoder :=
  enc_bytes (
    put value.(trgt_id_type_extnded_macro_enb_mcc_digit_2) 4 ⨾
    put value.(trgt_id_type_extnded_macro_enb_mcc_digit_1) 4 ⨾
    put value.(trgt_id_type_extnded_macro_enb_mnc_digit_3) 4 ⨾
    put value.(trgt_id_type_extnded_macro_enb_mcc_digit_3) 4 ⨾
    put value.(trgt_id_type_extnded_macro_enb_mnc_digit_2) 4 ⨾
    put value.(trgt_id_type_extnded_macro_enb_mnc_digit_1) 4 ⨾
    put value.(trgt_id_type_extnded_macro_enb_smenb) 1 ⨾
    put value.(trgt_id_type_extnded_macro_enb_spare) 2 ⨾
    put value.(trgt_id_type_extnded_macro_enb_extnded_macro_enb_id_field2) 16 ⨾
    put value.(trgt_id_type_extnded_macro_enb_tac) 16).

Definition encode_gtp_packet_flow_id_ie (value : gtp_packet_flow_id_ie_t) : ie_encoder :=
  enc_bytes (
    ecall (encode_ie_header_t value.(gtp_packet_flow_id_header)) ⨾
    put value.(gtp_packet_flow_id_packet_flow_id_spare2) 4 ⨾
    put value.(gtp_packet_flow_id_packet_flow_id_ebi) 4 ⨾
    put value.(gtp_packet_flow_id_packet_flow_id_packet_flow_id) 8).

Definition encode_gtp_tmgi_ie (value : gtp_tmgi_ie_t) : ie_encoder :=
  enc_bytes (
    ecall (encode_ie_header_t value.(gtp_tmgi_header)) ⨾
    put value.(gtp_tmgi_tmgi) 8).

Definition encode_gtp_mntrng_evnt_info_ie (value : gtp_mntrng_evnt_info_ie_t) : ie_encoder :=
  enc_bytes (
    ecall (encode_ie_header_t value.(gtp_mntrng_evnt_info_header)) ⨾
    put value.(gtp_mntrng_evnt_info_scef_ref_id) 32 ⨾
    put value.(gtp_mntrng_evnt_info_scef_id_length) 8 ⨾
    put value.(gtp_mntrng_evnt_info_scef_id) 8 ⨾
    put value.(gtp_mntrng_evnt_info_rem_nbr_of_rpts) 16).

Definition encode_gtp_rmt_ue_ip_info_ie (value : gtp_rmt_ue_ip_info_ie_t) : ie_encoder :=
  enc_bytes (
    ecall (encode_ie_header_t value.(gtp_rmt_ue_ip_info_header)) ⨾
    put value.(gtp_rmt_ue_ip_info_rmt_ue_ip_info) 8).

Definition encode_ecgi_field (value : ecgi_field_t) : ie_encoder :=
  enc_bytes (
    put value.(ecgi_field_ecgi_mcc_digit_2) 4 ⨾
    put value.(ecgi_field_ecgi_mcc_digit_1) 4 ⨾
    put value.(ecgi_field_ecgi_mnc_digit_3) 4 ⨾
    put value.(ecgi_field_ecgi_mcc_digit_3) 4 ⨾
    put value.(ecgi_field_ecgi_mnc_digit_2) 4 ⨾
    put value.(ecgi_field_ecgi_mnc_digit_1) 4 ⨾
    put value.(ecgi_field_ecgi_spare) 4 ⨾
    put value.(ecgi_field_eci) 28).

Definition encode_gtp_bearer_qlty_of_svc_ie (value : gtp_bearer_qlty_of_svc_ie_t) : ie_encoder :=
  enc_bytes (
    ecall (encode_ie_header_t value.(gtp_bearer_qlty_of_svc_header)) ⨾
    put value.(gtp_bearer_qlty_of_svc_spare2) 1 ⨾
    put value.(gtp_bearer_qlty_of_svc_pci) 1 ⨾
    put value.(gtp_bearer_qlty_of_svc_pl) 4 ⨾
    put value.(gtp_bearer_qlty_of_svc_spare3) 1 ⨾
    put value.(gtp_bearer_qlty_of_svc_pvi) 1 ⨾
    put value.(gtp_bearer_qlty_of_svc_qci) 8 ⨾
    put value.(gtp_bearer_qlty_of_svc_max_bit_rate_uplnk) 40 ⨾
    put value.(gtp_bearer_qlty_of_svc_max_bit_rate_dnlnk) 40 ⨾
    put value.(gtp_bearer_qlty_of_svc_guarntd_bit_rate_uplnk) 40 ⨾
    put value.(gtp_bearer_qlty_of_svc_guarntd_bit_rate_dnlnk) 40).

Definition encode_gtp_mapped_ue_usage_type_ie (value : gtp_mapped_ue_usage_type_ie_t) : ie_encoder :=
  enc_bytes (
    ecall (encode_ie_header_t value.(gtp_mapped_ue_usage_type_header)) ⨾
    put value.(gtp_mapped_ue_usage_type_mapped_ue_usage_type) 16).

Definition encode_gtp_svc_indctr_ie (value : gtp_svc_indctr_ie_t) : ie_encoder :=
  enc_bytes (
    ecall (encode_ie_header_t value.(gtp_svc_indctr_header)) ⨾
    put value.(gtp_svc_indctr_svc_indctr) 8).

Definition encode_gtp_umts_key_used_cipher_and_quintuplets_ie (value : gtp_umts_key_used_cipher_and_quintuplets_ie_t) : ie_encoder :=
  enc_bytes (
    ecall (encode_ie_header_t value.(gtp_umts_key_used_cipher_and_quintuplets_header)) ⨾
    put value.(gtp_umts_key_used_cipher_and_quintuplets_security_mode) 3 ⨾
    put value.(gtp_umts_key_used_cipher_and_quintuplets_spare2) 1 ⨾
    put value.(gtp_umts_key_used_cipher_and_quintuplets_drxi) 1 ⨾
    put value.(gtp_umts_key_used_cipher_and_quintuplets_cksnksi) 3 ⨾
    put value.(gtp_umts_key_used_cipher_and_quintuplets_nbr_of_quintuplets) 3 ⨾
    put value.(gtp_umts_key_used_cipher_and_quintuplets_iovi) 1 ⨾
    put value.(gtp_umts_key_used_cipher_and_quintuplets_gupii) 1 ⨾
    put value.(gtp_umts_key_used_cipher_and_quintuplets_ugipai) 1 ⨾
    put value.(gtp_umts_key_used_cipher_and_quintuplets_uambri) 1 ⨾
    put value.(gtp_umts_key_used_cipher_and_quintuplets_sambri) 1 ⨾
    put value.(gtp_umts_key_used_cipher_and_quintuplets_spare3) 2 ⨾
    put value.(gtp_umts_key_used_cipher_and_quintuplets_used_gprs_intgrty_protctn_algo) 3 ⨾
    put value.(gtp_umts_key_used_cipher_and_quintuplets_used_cipher) 3 ⨾
    putmem_len value.(gtp_umts_key_used_cipher_and_quintuplets_ck) 16 ⨾
    putmem_len value.(gtp_umts_key_used_cipher_and_quintuplets_ik) 16 ⨾
    put value.(gtp_umts_key_used_cipher_and_quintuplets_auth_quintuplet) 8 ⨾
    put value.(gtp_umts_key_used_cipher_and_quintuplets_drx_parameter) 16 ⨾
    put value.(gtp_umts_key_used_cipher_and_quintuplets_uplnk_subscrbd_ue_ambr) 32 ⨾
    put value.(gtp_umts_key_used_cipher_and_quintuplets_dnlnk_subscrbd_ue_ambr) 32 ⨾
    put value.(gtp_umts_key_used_cipher_and_quintuplets_uplnk_used_ue_ambr) 32 ⨾
    put value.(gtp_umts_key_used_cipher_and_quintuplets_dnlnk_used_ue_ambr) 8 ⨾
    put value.(gtp_umts_key_used_cipher_and_quintuplets_ue_ntwk_capblty_len) 8 ⨾
    put value.(gtp_umts_key_used_cipher_and_quintuplets_ue_ntwk_capblty) 8 ⨾
    put value.(gtp_umts_key_used_cipher_and_quintuplets_ms_ntwk_capblty_len) 8 ⨾
    put value.(gtp_umts_key_used_cipher_and_quintuplets_ms_ntwk_capblty) 8 ⨾
    put value.(gtp_umts_key_used_cipher_and_quintuplets_mei_length) 8 ⨾
    put value.(gtp_umts_key_used_cipher_and_quintuplets_mei) 8 ⨾
    put value.(gtp_umts_key_used_cipher_and_quintuplets_ecna) 1 ⨾
    put value.(gtp_umts_key_used_cipher_and_quintuplets_nbna) 1 ⨾
    put value.(gtp_umts_key_used_cipher_and_quintuplets_hnna) 1 ⨾
    put value.(gtp_umts_key_used_cipher_and_quintuplets_ena) 1 ⨾
    put value.(gtp_umts_key_used_cipher_and_quintuplets_ina) 1 ⨾
    put value.(gtp_umts_key_used_cipher_and_quintuplets_gana) 1 ⨾
    put value.(gtp_umts_key_used_cipher_and_quintuplets_gena) 1 ⨾
    put value.(gtp_umts_key_used_cipher_and_quintuplets_una) 1 ⨾
    put value.(gtp_umts_key_used_cipher_and_quintuplets_vdom_pref_ue_usage_len) 8 ⨾
    put value.(gtp_umts_key_used_cipher_and_quintuplets_voice_domain_pref_and_ues_usage_setting) 8 ⨾
    put value.(gtp_umts_key_used_cipher_and_quintuplets_higher_bitrates_flg_len) 8 ⨾
    put value.(gtp_umts_key_used_cipher_and_quintuplets_higher_bitrates_flg) 8 ⨾
    put value.(gtp_umts_key_used_cipher_and_quintuplets_iov_updts_cntr) 8).

Definition encode_auth_triplet (value : auth_triplet_t) : ie_encoder :=
  enc_bytes (
    putmem_len value.(auth_triplet_rand) 16 ⨾
    put value.(auth_triplet_sres) 32 ⨾
    put value.(auth_triplet_kc) 64).

Definition encode_gtp_local_distgsd_name_ie (value : gtp_local_distgsd_name_ie_t) : ie_encoder :=
  enc_bytes (
    ecall (encode_ie_header_t value.(gtp_local_distgsd_name_header)) ⨾
    put value.(gtp_local_distgsd_name_ldn) 8).

Definition encode_gtp_csg_info_rptng_act_ie (value : gtp_csg_info_rptng_act_ie_t) : ie_encoder :=
  enc_bytes (
    ecall (encode_ie_header_t value.(gtp_csg_info_rptng_act_header)) ⨾
    put value.(gtp_csg_info_rptng_act_spare2) 5 ⨾
    put value.(gtp_csg_info_rptng_act_uciuhc) 1 ⨾
    put value.(gtp_csg_info_rptng_act_ucishc) 1 ⨾
    put value.(gtp_csg_info_rptng_act_ucicsg) 1).

Definition encode_gtp_secdry_rat_usage_data_rpt_ie (value : gtp_secdry_rat_usage_data_rpt_ie_t) : ie_encoder :=
  enc_bytes (
    ecall (encode_ie_header_t value.(gtp_secdry_rat_usage_data_rpt_header)) ⨾
    put value.(gtp_secdry_rat_usage_data_rpt_spare2) 6 ⨾
    put value.(gtp_secdry_rat_usage_data_rpt_irsgw) 1 ⨾
    put value.(gtp_secdry_rat_usage_data_rpt_irpgw) 1 ⨾
    put value.(gtp_secdry_rat_usage_data_rpt_secdry_rat_type) 8 ⨾
    put value.(gtp_secdry_rat_usage_data_rpt_spare3) 4 ⨾
    put value.(gtp_secdry_rat_usage_data_rpt_ebi) 4 ⨾
    put value.(gtp_secdry_rat_usage_data_rpt_start_timestamp) 8 ⨾
    put value.(gtp_secdry_rat_usage_data_rpt_end_timestamp) 8 ⨾
    put value.(gtp_secdry_rat_usage_data_rpt_usage_data_dl) 8 ⨾
    put value.(gtp_secdry_rat_usage_data_rpt_usage_data_ul) 8).

Definition encode_gtp_rat_type_ie (value : gtp_rat_type_ie_t) : ie_encoder :=
  enc_bytes (
    ecall (encode_ie_header_t value.(gtp_rat_type_header)) ⨾
    put value.(gtp_rat_type_rat_type) 8).

Definition encode_trgt_id_type_macro_enb (value : trgt_id_type_macro_enb_t) : ie_encoder :=
  enc_bytes (
    put value.(trgt_id_type_macro_enb_mcc_digit_2) 4 ⨾
    put value.(trgt_id_type_macro_enb_mcc_digit_1) 4 ⨾
    put value.(trgt_id_type_macro_enb_mnc_digit_3) 4 ⨾
    put value.(trgt_id_type_macro_enb_mcc_digit_3) 4 ⨾
    put value.(trgt_id_type_macro_enb_mnc_digit_2) 4 ⨾
    put value.(trgt_id_type_macro_enb_mnc_digit_1) 4 ⨾
    put value.(trgt_id_type_macro_enb_spare) 4 ⨾
    put value.(trgt_id_type_macro_enb_macro_enb_id_field2) 16 ⨾
    put value.(trgt_id_type_macro_enb_tac) 16).

Definition encode_gtp_global_cn_id_ie (value : gtp_global_cn_id_ie_t) : ie_encoder :=
  enc_bytes (
    ecall (encode_ie_header_t value.(gtp_global_cn_id_header)) ⨾
    put value.(gtp_global_cn_id_mcc_digit_2) 4 ⨾
    put value.(gtp_global_cn_id_mcc_digit_1) 4 ⨾
    put value.(gtp_global_cn_id_mnc_digit_3) 4 ⨾
    put value.(gtp_global_cn_id_mcc_digit_3) 4 ⨾
    put value.(gtp_global_cn_id_mnc_digit_2) 4 ⨾
    put value.(gtp_global_cn_id_mnc_digit_1) 4 ⨾
    put value.(gtp_global_cn_id_cn) 8).

Definition encode_gtp_charging_id_ie (value : gtp_charging_id_ie_t) : ie_encoder :=
  enc_bytes (
    ecall (encode_ie_header_t value.(gtp_charging_id_header)) ⨾
    put value.(gtp_charging_id_chrgng_id_val) 32).

Definition encode_gtp_counter_ie (value : gtp_counter_ie_t) : ie_encoder :=
  enc_bytes (
    ecall (encode_ie_header_t value.(gtp_counter_header)) ⨾
    put value.(gtp_counter_timestamp_value) 32 ⨾
    put value.(gtp_counter_counter_value) 8).

Definition encode_gtp_serving_network_ie (value : gtp_serving_network_ie_t) : ie_encoder :=
  enc_bytes (
    ecall (encode_ie_header_t value.(gtp_serving_network_header)) ⨾
    put value.(gtp_serving_network_mcc_digit_2) 4 ⨾
    put value.(gtp_serving_network_mcc_digit_1) 4 ⨾
    put value.(gtp_serving_network_mnc_digit_3) 4 ⨾
    put value.(gtp_serving_network_mcc_digit_3) 4 ⨾
    put value.(gtp_serving_network_mnc_digit_2) 4 ⨾
    put value.(gtp_serving_network_mnc_digit_1) 4).

Definition encode_gtp_node_identifier_ie (value : gtp_node_identifier_ie_t) : ie_encoder :=
  enc_bytes (
    ecall (encode_ie_header_t value.(gtp_node_identifier_header)) ⨾
    put value.(gtp_node_identifier_len_of_node_name) 8 ⨾
    put value.(gtp_node_identifier_node_name) 8 ⨾
    put value.(gtp_node_identifier_len_of_node_realm) 8 ⨾
    put value.(gtp_node_identifier_node_realm) 8).

Definition encode_extnded_macro_enb_id_fld (value : extnded_macro_enb_id_fld_t) : ie_encoder :=
  enc_bytes (
    put value.(extnded_macro_enb_id_fld_emenbid_mcc_digit_2) 4 ⨾
    put value.(extnded_macro_enb_id_fld_emenbid_mcc_digit_1) 4 ⨾
    put value.(extnded_macro_enb_id_fld_emenbid_mnc_digit_3) 4 ⨾
    put value.(extnded_macro_enb_id_fld_emenbid_mcc_digit_3) 4 ⨾
    put value.(extnded_macro_enb_id_fld_emenbid_mnc_digit_2) 4 ⨾
    put value.(extnded_macro_enb_id_fld_emenbid_mnc_digit_1) 4 ⨾
    put value.(extnded_macro_enb_id_fld_emenbid_smenb) 1 ⨾
    put value.(extnded_macro_enb_id_fld_emenbid_spare) 2 ⨾
    put value.(extnded_macro_enb_id_fld_emenbid_extnded_macro_enb_id) 5 ⨾
    put value.(extnded_macro_enb_id_fld_emenbid_extnded_macro_enb_id2) 16).

Definition encode_gtp_trc_info_ie (value : gtp_trc_info_ie_t) : ie_encoder :=
  enc_bytes (
    ecall (encode_ie_header_t value.(gtp_trc_info_header)) ⨾
    put value.(gtp_trc_info_mcc_digit_2) 4 ⨾
    put value.(gtp_trc_info_mcc_digit_1) 4 ⨾
    put value.(gtp_trc_info_mnc_digit_3) 4 ⨾
    put value.(gtp_trc_info_mcc_digit_3) 4 ⨾
    put value.(gtp_trc_info_mnc_digit_2) 4 ⨾
    put value.(gtp_trc_info_mnc_digit_1) 4 ⨾
    put value.(gtp_trc_info_trace_id) 24 ⨾
    putmem_len value.(gtp_trc_info_trigrng_evnts) 9 ⨾
    put value.(gtp_trc_info_list_of_ne_types) 16 ⨾
    put value.(gtp_trc_info_sess_trc_depth) 8 ⨾
    putmem_len value.(gtp_trc_info_list_of_intfcs) 12 ⨾
    put value.(gtp_trc_info_ip_addr_of_trc_coll_entity) 8).

Definition encode_gtp_mbms_ip_multcst_dist_ie (value : gtp_mbms_ip_multcst_dist_ie_t) : ie_encoder :=
  enc_bytes (
    ecall (encode_ie_header_t value.(gtp_mbms_ip_multcst_dist_header)) ⨾
    put value.(gtp_mbms_ip_multcst_dist_cmn_tunn_endpt_idnt) 32 ⨾
    put value.(gtp_mbms_ip_multcst_dist_address_type) 2 ⨾
    put value.(gtp_mbms_ip_multcst_dist_address_length) 6 ⨾
    put value.(gtp_mbms_ip_multcst_dist_ip_multcst_dist_addr) 8 ⨾
    put value.(gtp_mbms_ip_multcst_dist_address_type2) 2 ⨾
    put value.(gtp_mbms_ip_multcst_dist_address_length2) 6 ⨾
    put value.(gtp_mbms_ip_multcst_dist_ip_multcst_src_addr) 8 ⨾
    put value.(gtp_mbms_ip_multcst_dist_mbms_hc_indctr) 8).

Definition encode_gtp_full_qual_cntnr_ie (value : gtp_full_qual_cntnr_ie_t) : ie_encoder :=
  enc_bytes (
    ecall (encode_ie_header_t value.(gtp_full_qual_cntnr_header)) ⨾
    put value.(gtp_full_qual_cntnr_spare2) 4 ⨾
    put value.(gtp_full_qual_cntnr_container_type) 4 ⨾
    put value.(gtp_full_qual_cntnr_fcontainer_fld) 8).

Definition encode_gtp_mbms_data_xfer_abs_time_ie (value : gtp_mbms_data_xfer_abs_time_ie_t) : ie_encoder :=
  enc_bytes (
    ecall (encode_ie_header_t value.(gtp_mbms_data_xfer_abs_time_header)) ⨾
    put value.(gtp_mbms_data_xfer_abs_time_mbms_data_xfer_abs_time_val_prt) 64).

Definition encode_auth_quadruplet (value : auth_quadruplet_t) : ie_encoder :=
  enc_bytes (
    putmem_len value.(auth_quadruplet_rand) 16 ⨾
    put value.(auth_quadruplet_xres_length) 8 ⨾
    put value.(auth_quadruplet_xres) 8 ⨾
    put value.(auth_quadruplet_autn_length) 8 ⨾
    put value.(auth_quadruplet_autn) 8 ⨾
    putmem_len value.(auth_quadruplet_kasme) 32).

Definition encode_gtp_gsm_key_used_cipher_and_quintuplets_ie (value : gtp_gsm_key_used_cipher_and_quintuplets_ie_t) : ie_encoder :=
  enc_bytes (
    ecall (encode_ie_header_t value.(gtp_gsm_key_used_cipher_and_quintuplets_header)) ⨾
    put value.(gtp_gsm_key_used_cipher_and_quintuplets_security_mode) 3 ⨾
    put value.(gtp_gsm_key_used_cipher_and_quintuplets_spare2) 1 ⨾
    put value.(gtp_gsm_key_used_cipher_and_quintuplets_drxi) 1 ⨾
    put value.(gtp_gsm_key_used_cipher_and_quintuplets_cksnksi) 3 ⨾
    put value.(gtp_gsm_key_used_cipher_and_quintuplets_nbr_of_quintuplets) 3 ⨾
    put value.(gtp_gsm_key_used_cipher_and_quintuplets_spare3) 3 ⨾
    put value.(gtp_gsm_key_used_cipher_and_quintuplets_uambri) 1 ⨾
    put value.(gtp_gsm_key_used_cipher_and_quintuplets_sambri) 1 ⨾
    put value.(gtp_gsm_key_used_cipher_and_quintuplets_spare4) 5 ⨾
    put value.(gtp_gsm_key_used_cipher_and_quintuplets_used_cipher) 3 ⨾
    put value.(gtp_gsm_key_used_cipher_and_quintuplets_kc) 64 ⨾
    put value.(gtp_gsm_key_used_cipher_and_quintuplets_auth_quintuplets) 8 ⨾
    put value.(gtp_gsm_key_used_cipher_and_quintuplets_drx_parameter) 16 ⨾
    put value.(gtp_gsm_key_used_cipher_and_quintuplets_uplnk_subscrbd_ue_ambr) 32 ⨾
    put value.(gtp_gsm_key_used_cipher_and_quintuplets_dnlnk_subscrbd_ue_ambr) 32 ⨾
    put value.(gtp_gsm_key_used_cipher_and_quintuplets_uplnk_used_ue_ambr) 32 ⨾
    put value.(gtp_gsm_key_used_cipher_and_quintuplets_dnlnk_used_ue_ambr) 32 ⨾
    put value.(gtp_gsm_key_used_cipher_and_quintuplets_ue_ntwk_capblty_len) 8 ⨾
    put value.(gtp_gsm_key_used_cipher_and_quintuplets_ue_ntwk_capblty) 8 ⨾
    put value.(gtp_gsm_key_used_cipher_and_quintuplets_ms_ntwk_capblty_len) 8 ⨾
    put value.(gtp_gsm_key_used_cipher_and_quintuplets_ms_ntwk_capblty) 8 ⨾
    put value.(gtp_gsm_key_used_cipher_and_quintuplets_mei_length) 8 ⨾
    put value.(gtp_gsm_key_used_cipher_and_quintuplets_mei) 8 ⨾
    put value.(gtp_gsm_key_used_cipher_and_quintuplets_ecna) 1 ⨾
    put value.(gtp_gsm_key_used_cipher_and_quintuplets_nbna) 1 ⨾
    put value.(gtp_gsm_key_used_cipher_and_quintuplets_hnna) 1 ⨾
    put value.(gtp_gsm_key_used_cipher_and_quintuplets_ena) 1 ⨾
    put value.(gtp_gsm_key_used_cipher_and_quintuplets_ina) 1 ⨾
    put value.(gtp_gsm_key_used_cipher_and_quintuplets_gana) 1 ⨾
    put value.(gtp_gsm_key_used_cipher_and_quintuplets_gena) 1 ⨾
    put value.(gtp_gsm_key_used_cipher_and_quintuplets_una) 1 ⨾
    put value.(gtp_gsm_key_used_cipher_and_quintuplets_vdom_pref_ue_usage_len) 8 ⨾
    put value.(gtp_gsm_key_used_cipher_and_quintuplets_voice_domain_pref_and_ues_usage_setting) 8 ⨾
    put value.(gtp_gsm_key_used_cipher_and_quintuplets_higher_bitrates_flg_len) 8 ⨾
    put value.(gtp_gsm_key_used_cipher_and_quintuplets_higher_bitrates_flg) 8).

Definition encode_gtp_twan_idnt_ts_ie (value : gtp_twan_idnt_ts_ie_t) : ie_encoder :=
  enc_bytes (
    ecall (encode_ie_header_t value.(gtp_twan_idnt_ts_header)) ⨾
    put value.(gtp_twan_idnt_ts_twan_idnt_ts_val) 8).

Definition encode_gtp_tmsi_ie (value : gtp_tmsi_ie_t) : ie_encoder :=
  enc_bytes (
    ecall (encode_ie_header_t value.(gtp_tmsi_header)) ⨾
    put value.(gtp_tmsi_tmsi) 8).

Definition encode_gtp_pdn_addr_alloc_ie (value : gtp_pdn_addr_alloc_ie_t) : ie_encoder :=
  enc_bytes (
    ecall (encode_ie_header_t value.(gtp_pdn_addr_alloc_header)) ⨾
    put value.(gtp_pdn_addr_alloc_spare2) 5 ⨾
    put value.(gtp_pdn_addr_alloc_pdn_type) 3 ⨾
    putmem_len value.(gtp_pdn_addr_alloc_pdn_addr_and_pfx) (value.(gtp_pdn_addr_alloc_header).(gie_len) - 1)).

Definition encode_gtp_twan_identifier_ie (value : gtp_twan_identifier_ie_t) : ie_encoder :=
  enc_bytes (
    ecall (encode_ie_header_t value.(gtp_twan_identifier_header)) ⨾
    put value.(gtp_twan_identifier_spare2) 3 ⨾
    put value.(gtp_twan_identifier_laii) 1 ⨾
    put value.(gtp_twan_identifier_opnai) 1 ⨾
    put value.(gtp_twan_identifier_plmni) 1 ⨾
    put value.(gtp_twan_identifier_civai) 1 ⨾
    put value.(gtp_twan_identifier_bssidi) 2 ⨾
    put value.(gtp_twan_identifier_ssid_length) 8 ⨾
    put value.(gtp_twan_identifier_ssid) 8 ⨾
    put value.(gtp_twan_identifier_bssid) 48 ⨾
    put value.(gtp_twan_identifier_civic_addr_len) 8 ⨾
    put value.(gtp_twan_identifier_civic_addr_info) 8 ⨾
    put value.(gtp_twan_identifier_twan_plmn_id) 24 ⨾
    put value.(gtp_twan_identifier_twan_oper_name_len) 8 ⨾
    put value.(gtp_twan_identifier_twan_oper_name) 8 ⨾
    put value.(gtp_twan_identifier_rly_idnty_type) 8 ⨾
    put value.(gtp_twan_identifier_rly_idnty_len) 8 ⨾
    put value.(gtp_twan_identifier_relay_identity) 8 ⨾
    put value.(gtp_twan_identifier_circuit_id_len) 8 ⨾
    put value.(gtp_twan_identifier_circuit_id) 8).

Definition encode_cgi_field (value : cgi_field_t) : ie_encoder :=
  enc_bytes (
    put value.(cgi_field_cgi_mcc_digit_2) 4 ⨾
    put value.(cgi_field_cgi_mcc_digit_1) 4 ⨾
    put value.(cgi_field_cgi_mnc_digit_3) 4 ⨾
    put value.(cgi_field_cgi_mcc_digit_3) 4 ⨾
    put value.(cgi_field_cgi_mnc_digit_2) 4 ⨾
    put value.(cgi_field_cgi_mnc_digit_1) 4 ⨾
    put value.(cgi_field_cgi_lac) 16 ⨾
    put value.(cgi_field_cgi_ci) 16).

Definition encode_gtp_ptmsi_ie (value : gtp_ptmsi_ie_t) : ie_encoder :=
  enc_bytes (
    ecall (encode_ie_header_t value.(gtp_ptmsi_header)) ⨾
    put value.(gtp_ptmsi_ptmsi) 8).

Definition encode_gtp_node_type_ie (value : gtp_node_type_ie_t) : ie_encoder :=
  enc_bytes (
    ecall (encode_ie_header_t value.(gtp_node_type_header)) ⨾
    put value.(gtp_node_type_node_type) 8).

Definition encode_gtp_user_csg_info_ie (value : gtp_user_csg_info_ie_t) : ie_encoder :=
  enc_bytes (
    ecall (encode_ie_header_t value.(gtp_user_csg_info_header)) ⨾
    put value.(gtp_user_csg_info_mcc_digit_2) 4 ⨾
    put value.(gtp_user_csg_info_mcc_digit_1) 4 ⨾
    put value.(gtp_user_csg_info_mnc_digit_3) 4 ⨾
    put value.(gtp_user_csg_info_mcc_digit_3) 4 ⨾
    put value.(gtp_user_csg_info_mnc_digit_2) 4 ⨾
    put value.(gtp_user_csg_info_mnc_digit_1) 4 ⨾
    put value.(gtp_user_csg_info_spare2) 5 ⨾
    put value.(gtp_user_csg_info_csg_id2) 24 ⨾
    put value.(gtp_user_csg_info_access_mode) 2 ⨾
    put value.(gtp_user_csg_info_spare3) 4 ⨾
    put value.(gtp_user_csg_info_lcsg) 1 ⨾
    put value.(gtp_user_csg_info_cmi) 1).

Definition encode_gtp_integer_number_ie (value : gtp_integer_number_ie_t) : ie_encoder :=
  enc_bytes (
    ecall (encode_ie_header_t value.(gtp_integer_number_header)) ⨾
    put value.(gtp_integer_number_int_nbr_val) 8).

Definition encode_gtp_mbms_sess_dur_ie (value : gtp_mbms_sess_dur_ie_t) : ie_encoder :=
  enc_bytes (
    ecall (encode_ie_header_t value.(gtp_mbms_sess_dur_header)) ⨾
    put value.(gtp_mbms_sess_dur_mbms_sess_dur) 24).

Definition encode_gtp_msisdn_ie (value : gtp_msisdn_ie_t) : ie_encoder :=
  enc_bytes (
    ecall (encode_ie_header_t value.(gtp_msisdn_header)) ⨾
    putmem_len (le_bytes 8 value.(gtp_msisdn_msisdn_number_digits)) value.(gtp_msisdn_header).(gie_len)).

Definition encode_gtp_metric_ie (value : gtp_metric_ie_t) : ie_encoder :=
  enc_bytes (
    ecall (encode_ie_header_t value.(gtp_metric_header)) ⨾
    put value.(gtp_metric_metric) 8).

Definition encode_gtp_bearer_context_ie (value : gtp_bearer_context_ie_t) : ie_encoder :=
  enc_bytes (
    ecall (encode_ie_header_t value.(gtp_bearer_context_header)) ⨾
    putmem_len value.(gtp_bearer_context_bearer_context) 8).

Definition encode_gtp_ciot_optim_supp_indctn_ie (value : gtp_ciot_optim_supp_indctn_ie_t) : ie_encoder :=
  enc_bytes (
    ecall (encode_ie_header_t value.(gtp_ciot_optim_supp_indctn_header)) ⨾
    put value.(gtp_ciot_optim_supp_indctn_spare2) 1 ⨾
    put value.(gtp_ciot_optim_supp_indctn_spare3) 1 ⨾
    put value.(gtp_ciot_optim_supp_indctn_spare4) 1 ⨾
    put value.(gtp_ciot_optim_supp_indctn_spare5) 1 ⨾
    put value.(gtp_ciot_optim_supp_indctn_ihcsi) 1 ⨾
    put value.(gtp_ciot_optim_supp_indctn_awopdn) 1 ⨾
    put value.(gtp_ciot_optim_supp_indctn_scnipdn) 1 ⨾
    put value.(gtp_ciot_optim_supp_indctn_sgnipdn) 1).

Definition encode_gtp_pdu_numbers_ie (value : gtp_pdu_numbers_ie_t) : ie_encoder :=
  enc_bytes (
    ecall (encode_ie_header_t value.(gtp_pdu_numbers_header)) ⨾
    put value.(gtp_pdu_numbers_spare2) 4 ⨾
    put value.(gtp_pdu_numbers_nsapi) 4 ⨾
    put value.(gtp_pdu_numbers_dl_gtpu_seqn_nbr) 8 ⨾
    put value.(gtp_pdu_numbers_ul_gtpu_seqn_nbr) 8 ⨾
    put value.(gtp_pdu_numbers_snd_npdu_nbr) 8 ⨾
    put value.(gtp_pdu_numbers_rcv_npdu_nbr) 8).

Definition encode_gtp_rab_context_ie (value : gtp_rab_context_ie_t) : ie_encoder :=
  enc_bytes (
    ecall (encode_ie_header_t value.(gtp_rab_context_header)) ⨾
    put value.(gtp_rab_context_spare2) 4 ⨾
    put value.(gtp_rab_context_nsapi) 4 ⨾
    put value.(gtp_rab_context_dl_gtpu_seqn_nbr) 16 ⨾
    put value.(gtp_rab_context_ul_gtpu_seqn_nbr) 16 ⨾
    put value.(gtp_rab_context_dl_pdcp_seqn_nbr) 16 ⨾
    put value.(gtp_rab_context_ul_pdcp_seqn_nbr) 16).

Definition encode_gtp_addtl_flgs_srvcc_ie (value : gtp_addtl_flgs_srvcc_ie_t) : ie_encoder :=
  enc_bytes (
    ecall (encode_ie_header_t value.(gtp_addtl_flgs_srvcc_header)) ⨾
    put value.(gtp_addtl_flgs_srvcc_spare2) 6 ⨾
    put value.(gtp_addtl_flgs_srvcc_vf) 1 ⨾
    put value.(gtp_addtl_flgs_srvcc_ics) 1).

Definition encode_gtp_gsm_key_and_triplets_ie (value : gtp_gsm_key_and_triplets_ie_t) : ie_encoder :=
  enc_bytes (
    ecall (encode_ie_header_t value.(gtp_gsm_key_and_triplets_header)) ⨾
    put value.(gtp_gsm_key_and_triplets_security_mode) 3 ⨾
    put value.(gtp_gsm_key_and_triplets_spare2) 1 ⨾
    put value.(gtp_gsm_key_and_triplets_drxi) 1 ⨾
    put value.(gtp_gsm_key_and_triplets_cksn) 3 ⨾
    put value.(gtp_gsm_key_and_triplets_nbr_of_triplet) 3 ⨾
    put value.(gtp_gsm_key_and_triplets_spare3) 3 ⨾
    put value.(gtp_gsm_key_and_triplets_uambri) 1 ⨾
    put value.(gtp_gsm_key_and_triplets_sambri) 1 ⨾
    put value.(gtp_gsm_key_and_triplets_spare4) 5 ⨾
    put value.(gtp_gsm_key_and_triplets_used_cipher) 3 ⨾
    put value.(gtp_gsm_key_and_triplets_kc) 64 ⨾
    put value.(gtp_gsm_key_and_triplets_auth_triplet) 8 ⨾
    put value.(gtp_gsm_key_and_triplets_drx_parameter) 16 ⨾
    put value.(gtp_gsm_key_and_triplets_uplnk_subscrbd_ue_ambr) 32 ⨾
    put value.(gtp_gsm_key_and_triplets_dnlnk_subscrbd_ue_ambr) 32 ⨾
    put value.(gtp_gsm_key_and_triplets_uplnk_used_ue_ambr) 32 ⨾
    put value.(gtp_gsm_key_and_triplets_dnlnk_used_ue_ambr) 32 ⨾
    put value.(gtp_gsm_key_and_triplets_ue_ntwk_capblty_len) 8 ⨾
    put value.(gtp_gsm_key_and_triplets_ue_ntwk_capblty) 8 ⨾
    put value.(gtp_gsm_key_and_triplets_ms_ntwk_capblty_len) 8 ⨾
    put value.(gtp_gsm_key_and_triplets_ms_ntwk_capblty) 8 ⨾
    put value.(gtp_gsm_key_and_triplets_mei_length) 8 ⨾
    put value.(gtp_gsm_key_and_triplets_mei) 8 ⨾
    put value.(gtp_gsm_key_and_triplets_ecna) 1 ⨾
    put value.(gtp_gsm_key_and_triplets_nbna) 1 ⨾
    put value.(gtp_gsm_key_and_triplets_hnna) 1 ⨾
    put value.(gtp_gsm_key_and_triplets_ena) 1 ⨾
    put value.(gtp_gsm_key_and_triplets_ina) 1 ⨾
    put value.(gtp_gsm_key_and_triplets_gana) 1 ⨾
    put value.(gtp_gsm_key_and_triplets_gena) 1 ⨾
    put value.(gtp_gsm_key_and_triplets_una) 1 ⨾
    put value.(gtp_gsm_key_and_triplets_vdom_pref_ue_usage_len) 8 ⨾
    put value.(gtp_gsm_key_and_triplets_voice_domain_pref_and_ues_usage_setting) 8).

Definition encode_gtp_node_number_ie (value : gtp_node_number_ie_t) : ie_encoder :=
  enc_bytes (
    ecall (encode_ie_header_t value.(gtp_node_number_header)) ⨾
    put value.(gtp_node_number_len_of_node_nbr) 8 ⨾
    put value.(gtp_node_number_node_number) 8).

Definition encode_gtp_load_ctl_info_ie (value : gtp_load_ctl_info_ie_t) : ie_encoder :=
  enc_bytes (
    ecall (encode_ie_header_t value.(gtp_load_ctl_info_header)) ⨾
    putmem_len value.(gtp_load_ctl_info_load_control_information) 8).

Definition encode_gtp_rmt_ue_ctxt_ie (value : gtp_rmt_ue_ctxt_ie_t) : ie_encoder :=
  enc_bytes (
    ecall (encode_ie_header_t value.(gtp_rmt_ue_ctxt_header)) ⨾
    putmem_len value.(gtp_rmt_ue_ctxt_remote_ue_context) 8).

Definition encode_gtp_full_qual_cause_ie (value : gtp_full_qual_cause_ie_t) : ie_encoder :=
  enc_bytes (
    ecall (encode_ie_header_t value.(gtp_full_qual_cause_header)) ⨾
    put value.(gtp_full_qual_cause_spare2) 4 ⨾
    put value.(gtp_full_qual_cause_cause_type) 4 ⨾
    put value.(gtp_full_qual_cause_fcause_field) 8).

Definition encode_gtp_indication_ie (value : gtp_indication_ie_t) : ie_encoder :=
  enc_bytes (
    ecall (encode_ie_header_t value.(gtp_indication_header)) ⨾
    put value.(gtp_indication_indication_daf) 1 ⨾
    put value.(gtp_indication_indication_dtf) 1 ⨾
    put value.(gtp_indication_indication_hi) 1 ⨾
    put value.(gtp_indication_indication_dfi) 1 ⨾
    put value.(gtp_indication_indication_oi) 1 ⨾
    put value.(gtp_indication_indication_isrsi) 1 ⨾
    put value.(gtp_indication_indication_israi) 1 ⨾
    put value.(gtp_indication_indication_sgwci) 1 ⨾
    put value.(gtp_indication_indication_sqci) 1 ⨾
    put value.(gtp_indication_indication_uimsi) 1 ⨾
    put value.(gtp_indication_indication_cfsi) 1 ⨾
    put value.(gtp_indication_indication_crsi) 1 ⨾
    put value.(gtp_indication_indication_p) 1 ⨾
    put value.(gtp_indication_indication_pt) 1 ⨾
    put value.(gtp_indication_indication_si) 1 ⨾
    put value.(gtp_indication_indication_msv) 1 ⨾
    put value.(gtp_indication_indication_retloc) 1 ⨾
    put value.(gtp_indication_indication_pbic) 1 ⨾
    put value.(gtp_indication_indication_srni) 1 ⨾
    put value.(gtp_indication_indication_s6af) 1 ⨾
    put value.(gtp_indication_indication_s4af) 1 ⨾
    put value.(gtp_indication_indication_mbmdt) 1 ⨾
    put value.(gtp_indication_indication_israu) 1 ⨾
    put value.(gtp_indication_indication_ccrsi) 1 ⨾
    put value.(gtp_indication_indication_cprai) 1 ⨾
    put value.(gtp_indication_indication_arrl) 1 ⨾
    put value.(gtp_indication_indication_ppof) 1 ⨾
    put value.(gtp_indication_indication_ppon_ppei) 1 ⨾
    put value.(gtp_indication_indication_ppsi) 1 ⨾
    put value.(gtp_indication_indication_csfbi) 1 ⨾
    put value.(gtp_indication_indication_clii) 1 ⨾
    put value.(gtp_indication_indication_cpsr) 1 ⨾
    put value.(gtp_indication_indication_nsi) 1 ⨾
    put value.(gtp_indication_indication_uasi) 1 ⨾
    put value.(gtp_indication_indication_dtci) 1 ⨾
    put value.(gtp_indication_indication_bdwi) 1 ⨾
    put value.(gtp_indication_indication_psci) 1 ⨾
    put value.(gtp_indication_indication_pcri) 1 ⨾
    put value.(gtp_indication_indication_aosi) 1 ⨾
    put value.(gtp_indication_indication_aopi) 1 ⨾
    put value.(gtp_indication_indication_roaai) 1 ⨾
    put value.(gtp_indication_indication_epcosi) 1 ⨾
    put value.(gtp_indication_indication_cpopci) 1 ⨾
    put value.(gtp_indication_indication_pmtsmi) 1 ⨾
    put value.(gtp_indication_indication_s11tf) 1 ⨾
    put value.(gtp_indication_indication_pnsi) 1 ⨾
    put value.(gtp_indication_indication_unaccsi) 1 ⨾
    put value.(gtp_indication_indication_wpmsi) 1 ⨾
    put value.(gtp_indication_indication_spare2) 1 ⨾
    put value.(gtp_indication_indication_spare3) 1 ⨾
    put value.(gtp_indication_indication_spare4) 1 ⨾
    put value.(gtp_indication_indication_eevrsi) 1 ⨾
    put value.(gtp_indication_indication_ltemui) 1 ⨾
    put value.(gtp_indication_indication_ltempi) 1 ⨾
    put value.(gtp_indication_indication_enbcrsi) 1 ⨾
    put value.(gtp_indication_indication_tspcmi) 1).

Definition encode_gtp_ipv4_cfg_parms_ie (value : gtp_ipv4_cfg_parms_ie_t) : ie_encoder :=
  enc_bytes (
    ecall (encode_ie_header_t value.(gtp_ipv4_cfg_parms_header)) ⨾
    put value.(gtp_ipv4_cfg_parms_subnet_pfx_len) 8 ⨾
    put value.(gtp_ipv4_cfg_parms_ipv4_dflt_rtr_addr) 32).

Definition encode_gtp_trace_reference_ie (value : gtp_trace_reference_ie_t) : ie_encoder :=
  enc_bytes (
    ecall (encode_ie_header_t value.(gtp_trace_reference_header)) ⨾
    put value.(gtp_trace_reference_mcc_digit_2) 4 ⨾
    put value.(gtp_trace_reference_mcc_digit_1) 4 ⨾
    put value.(gtp_trace_reference_mnc_digit_3) 4 ⨾
    put value.(gtp_trace_reference_mcc_digit_3) 4 ⨾
    put value.(gtp_trace_reference_mnc_digit_2) 4 ⨾
    put value.(gtp_trace_reference_mnc_digit_1) 4 ⨾
    put value.(gtp_trace_reference_trace_id) 24).

Definition encode_gtp_node_features_ie (value : gtp_node_features_ie_t) : ie_encoder :=
  enc_bytes (
    ecall (encode_ie_header_t value.(gtp_node_features_header)) ⨾
    put value.(gtp_node_features_sup_feat) 8).

Definition encode_gtp_remote_user_id_ie (value : gtp_remote_user_id_ie_t) : ie_encoder :=
  enc_bytes (
    ecall (encode_ie_header_t value.(gtp_remote_user_id_header)) ⨾
    put value.(gtp_remote_user_id_spare2) 6 ⨾
    put value.(gtp_remote_user_id_imeif) 1 ⨾
    put value.(gtp_remote_user_id_msisdnf) 1 ⨾
    put value.(gtp_remote_user_id_length_of_imsi) 8 ⨾
    put value.(gtp_remote_user_id_len_of_msisdn) 8 ⨾
    put value.(gtp_remote_user_id_length_of_imei) 8 ⨾
    put value.(gtp_remote_user_id_imei) 8).

Definition encode_gtp_fqcsid_ie (value : gtp_fqcsid_ie_t) : ie_encoder :=
  enc_bytes (
    ecall (encode_ie_header_t value.(gtp_fqcsid_header)) ⨾
    put value.(gtp_fqcsid_node_id_type) 4 ⨾
    put value.(gtp_fqcsid_number_of_csids) 4 ⨾
    put value.(gtp_fqcsid_node_address) 32 ⨾
    enc_each (map (fun i => put_at value.(gtp_fqcsid_pdn_csid) i 16)
      (seq 0 (Z.to_nat value.(gtp_fqcsid_number_of_csids))))).

Definition encode_gtp_port_number_ie (value : gtp_port_number_ie_t) : ie_encoder :=
  enc_bytes (
    ecall (encode_ie_header_t value.(gtp_port_number_header)) ⨾
    put value.(gtp_port_number_port_number) 16).

Definition encode_gtp_addtl_mm_ctxt_srvcc_ie (value : gtp_addtl_mm_ctxt_srvcc_ie_t) : ie_encoder :=
  enc_bytes (
    ecall (encode_ie_header_t value.(gtp_addtl_mm_ctxt_srvcc_header)) ⨾
    put value.(gtp_addtl_mm_ctxt_srvcc_ms_classmark_2_len) 8 ⨾
    put value.(gtp_addtl_mm_ctxt_srvcc_ms_classmark_2) 8 ⨾
    put value.(gtp_addtl_mm_ctxt_srvcc_ms_classmark_3_len) 8 ⨾
    put value.(gtp_addtl_mm_ctxt_srvcc_ms_classmark_3) 8 ⨾
    put value.(gtp_addtl_mm_ctxt_srvcc_sup_codec_list_len) 8 ⨾
    put value.(gtp_addtl_mm_ctxt_srvcc_sup_codec_list) 8).

Definition encode_gtp_act_indctn_ie (value : gtp_act_indctn_ie_t) : ie_encoder :=
  enc_bytes (
    ecall (encode_ie_header_t value.(gtp_act_indctn_header)) ⨾
    put value.(gtp_act_indctn_spare2) 5).

Definition encode_gtp_plmn_id_ie (value : gtp_plmn_id_ie_t) : ie_encoder :=
  enc_bytes (
    ecall (encode_ie_header_t value.(gtp_plmn_id_header)) ⨾
    put value.(gtp_plmn_id_mcc_digit_2) 4 ⨾
    put value.(gtp_plmn_id_mcc_digit_1) 4 ⨾
    put value.(gtp_plmn_id_mnc_digit_1) 4 ⨾
    put value.(gtp_plmn_id_mcc_digit_3) 4 ⨾
    put value.(gtp_plmn_id_mnc_digit_3) 4 ⨾
    put value.(gtp_plmn_id_mnc_digit_2) 4).

Definition encode_gtp_mbms_flow_idnt_ie (value : gtp_mbms_flow_idnt_ie_t) : ie_encoder :=
  enc_bytes (
    ecall (encode_ie_header_t value.(gtp_mbms_flow_idnt_header)) ⨾
    put value.(gtp_mbms_flow_idnt_mbms_flow_id) 16).

Definition encode_gtp_hdr_comp_cfg_ie (value : gtp_hdr_comp_cfg_ie_t) : ie_encoder :=
  enc_bytes (
    ecall (encode_ie_header_t value.(gtp_hdr_comp_cfg_header)) ⨾
    put value.(gtp_hdr_comp_cfg_rohc_profiles) 16 ⨾
    put value.(gtp_hdr_comp_cfg_max_cid) 16).

Definition encode_gtp_sgnllng_priority_indctn_ie (value : gtp_sgnllng_priority_indctn_ie_t) : ie_encoder :=
  enc_bytes (
    ecall (encode_ie_header_t value.(gtp_sgnllng_priority_indctn_header)) ⨾
    put value.(gtp_sgnllng_priority_indctn_spare2) 7 ⨾
    put value.(gtp_sgnllng_priority_indctn_lapi) 1).

Definition encode_gtp_cause_ie (value : gtp_cause_ie_t) : ie_encoder :=
  enc_bytes (
    ecall (encode_ie_header_t value.(gtp_cause_header)) ⨾
    put value.(gtp_cause_cause_value) 8 ⨾
    put value.(gtp_cause_spare2) 5 ⨾
    put value.(gtp_cause_pce) 1 ⨾
    put value.(gtp_cause_bce) 1 ⨾
    put value.(gtp_cause_cs) 1 ⨾
    enc_when (negb (value.(gtp_cause_header).(gie_len) =? 2)) (put value.(gtp_cause_offend_ie_type) 8 ⨾ put value.(gtp_cause_offend_ie_len) 16 ⨾ put value.(gtp_cause_spareinstance) 8)).

Definition encode_gtp_mbms_time_to_data_xfer_ie (value : gtp_mbms_time_to_data_xfer_ie_t) : ie_encoder :=
  enc_bytes (
    ecall (encode_ie_header_t value.(gtp_mbms_time_to_data_xfer_header)) ⨾
    put value.(gtp_mbms_time_to_data_xfer_mbms_time_to_data_xfer_val_prt) 8).

Definition encode_gtp_addtl_prot_cfg_opts_ie (value : gtp_addtl_prot_cfg_opts_ie_t) : ie_encoder :=
  enc_bytes (
    ecall (encode_ie_header_t value.(gtp_addtl_prot_cfg_opts_header)) ⨾
    put value.(gtp_addtl_prot_cfg_opts_apco) 8).

Definition encode_gtp_trgt_id_ie (value : gtp_trgt_id_ie_t) : ie_encoder :=
  enc_bytes (
    ecall (encode_ie_header_t value.(gtp_trgt_id_header)) ⨾
    put value.(gtp_trgt_id_target_type) 8 ⨾
    put value.(gtp_trgt_id_target_id) 8).

Definition encode_gtp_mbms_flags_ie (value : gtp_mbms_flags_ie_t) : ie_encoder :=
  enc_bytes (
    ecall (encode_ie_header_t value.(gtp_mbms_flags_header)) ⨾
    put value.(gtp_mbms_flags_spare2) 6 ⨾
    put value.(gtp_mbms_flags_lmri) 1 ⨾
    put value.(gtp_mbms_flags_msri) 1).

Definition encode_gtp_trans_idnt_ie (value : gtp_trans_idnt_ie_t) : ie_encoder :=
  enc_bytes (
    ecall (encode_ie_header_t value.(gtp_trans_idnt_header)) ⨾
    put value.(gtp_trans_idnt_trans_idnt) 8).

Definition encode_trgt_id_type_home_enb (value : trgt_id_type_home_enb_t) : ie_encoder :=
  enc_bytes (
    put value.(trgt_id_type_home_enb_mcc_digit_2) 4 ⨾
    put value.(trgt_id_type_home_enb_mcc_digit_1) 4 ⨾
    put value.(trgt_id_type_home_enb_mnc_digit_3) 4 ⨾
    put value.(trgt_id_type_home_enb_mcc_digit_3) 4 ⨾
    put value.(trgt_id_type_home_enb_mnc_digit_2) 4 ⨾
    put value.(trgt_id_type_home_enb_mnc_digit_1) 4 ⨾
    put value.(trgt_id_type_home_enb_spare) 4 ⨾
    put value.(trgt_id_type_home_enb_home_enodeb_id) 4 ⨾
    put value.(trgt_id_type_home_enb_home_enodeb_id2) 24 ⨾
    put value.(trgt_id_type_home_enb_tac) 16).

Definition encode_gtp_bearer_flags_ie (value : gtp_bearer_flags_ie_t) : ie_encoder :=
  enc_bytes (
    ecall (encode_ie_header_t value.(gtp_bearer_flags_header)) ⨾
    put value.(gtp_bearer_flags_spare2) 4 ⨾
    put value.(gtp_bearer_flags_asi) 1 ⨾
    put value.(gtp_bearer_flags_vind) 1 ⨾
    put value.(gtp_bearer_flags_vb) 1 ⨾
    put value.(gtp_bearer_flags_ppc) 1).

Definition encode_lai_field (value : lai_field_t) : ie_encoder :=
  enc_bytes (
    put value.(lai_field_lai_mcc_digit_2) 4 ⨾
    put value.(lai_field_lai_mcc_digit_1) 4 ⨾
    put value.(lai_field_lai_mnc_digit_3) 4 ⨾
    put value.(lai_field_lai_mcc_digit_3) 4 ⨾
    put value.(lai_field_lai_mnc_digit_2) 4 ⨾
    put value.(lai_field_lai_mnc_digit_1) 4 ⨾
    put value.(lai_field_lai_lac) 16).

Definition encode_gtp_user_loc_info_ie (value : gtp_user_loc_info_ie_t) : ie_encoder :=
  enc_bits (
    ecall (encode_ie_header_t value.(gtp_user_loc_info_header)) ⨾
    put value.(gtp_user_loc_info_extnded_macro_enb_id) 1 ⨾
    put value.(gtp_user_loc_info_macro_enodeb_id) 1 ⨾
    put value.(gtp_user_loc_info_lai) 1 ⨾
    put value.(gtp_user_loc_info_ecgi) 1 ⨾
    put value.(gtp_user_loc_info_tai) 1 ⨾
    put value.(gtp_user_loc_info_rai) 1 ⨾
    put value.(gtp_user_loc_info_sai) 1 ⨾
    put value.(gtp_user_loc_info_cgi) 1 ⨾
    enc_to_bytes ⨾
    enc_when (nz value.(gtp_user_loc_info_cgi)) (ecall_at (encode_cgi_field value.(gtp_user_loc_info_cgi2))) ⨾
    enc_when (nz value.(gtp_user_loc_info_sai)) (ecall_at (encode_sai_field value.(gtp_user_loc_info_sai2))) ⨾
    enc_when (nz value.(gtp_user_loc_info_rai)) (ecall_at (encode_rai_field value.(gtp_user_loc_info_rai2))) ⨾
    enc_when (nz value.(gtp_user_loc_info_tai)) (ecall_at (encode_tai_field value.(gtp_user_loc_info_tai2))) ⨾
    enc_when (nz value.(gtp_user_loc_info_ecgi)) (ecall_at (encode_ecgi_field value.(gtp_user_loc_info_ecgi2))) ⨾
    enc_when (nz value.(gtp_user_loc_info_lai)) (ecall_at (encode_lai_field value.(gtp_user_loc_info_lai2))) ⨾
    enc_when (nz value.(gtp_user_loc_info_macro_enodeb_id)) (ecall_at (encode_macro_enb_id_fld value.(gtp_user_loc_info_macro_enodeb_id2))) ⨾
    enc_when (nz value.(gtp_user_loc_info_extnded_macro_enb_id)) (ecall_at (encode_extnded_macro_enb_id_fld value.(gtp_user_loc_info_extended_macro_enodeb_id2)))).

Definition encode_gtp_msec_time_stmp_ie (value : gtp_msec_time_stmp_ie_t) : ie_encoder :=
  enc_bytes (
    ecall (encode_ie_header_t value.(gtp_msec_time_stmp_header)) ⨾
    put value.(gtp_msec_time_stmp_msec_time_stmp_val) 8).

Definition encode_gtp_chg_to_rpt_flgs_ie (value : gtp_chg_to_rpt_flgs_ie_t) : ie_encoder :=
  enc_bytes (
    ecall (encode_ie_header_t value.(gtp_chg_to_rpt_flgs_header)) ⨾
    put value.(gtp_chg_to_rpt_flgs_spare2) 6 ⨾
    put value.(gtp_chg_to_rpt_flgs_tzcr) 1 ⨾
    put value.(gtp_chg_to_rpt_flgs_sncr) 1).

Definition encode_gtp_scef_pdn_conn_ie (value : gtp_scef_pdn_conn_ie_t) : ie_encoder :=
  enc_bytes (
    ecall (encode_ie_header_t value.(gtp_scef_pdn_conn_header)) ⨾
    putmem_len value.(gtp_scef_pdn_conn_scef_pdn_connection) 8).

Definition encode_gtp_chg_rptng_act_ie (value : gtp_chg_rptng_act_ie_t) : ie_encoder :=
  enc_bytes (
    ecall (encode_ie_header_t value.(gtp_chg_rptng_act_header)) ⨾
    put value.(gtp_chg_rptng_act_action) 8).

Definition encode_gtp_extnded_prot_cfg_opts_ie (value : gtp_extnded_prot_cfg_opts_ie_t) : ie_encoder :=
  enc_bytes (
    ecall (encode_ie_header_t value.(gtp_extnded_prot_cfg_opts_header)) ⨾
    put value.(gtp_extnded_prot_cfg_opts_epco) 8).

Definition encode_gtp_delay_value_ie (value : gtp_delay_value_ie_t) : ie_encoder :=
  enc_bytes (
    ecall (encode_ie_header_t value.(gtp_delay_value_header)) ⨾
    put value.(gtp_delay_value_delay_value) 8).

Definition encode_gtp_pdn_connection_ie (value : gtp_pdn_connection_ie_t) : ie_encoder :=
  enc_bytes (
    ecall (encode_ie_header_t value.(gtp_pdn_connection_header))).

Definition encode_gtp_detach_type_ie (value : gtp_detach_type_ie_t) : ie_encoder :=
  enc_bytes (
    ecall (encode_ie_header_t value.(gtp_detach_type_header)) ⨾
    put value.(gtp_detach_type_detach_type) 8).

Definition encode_gtp_mbms_svc_area_ie (value : gtp_mbms_svc_area_ie_t) : ie_encoder :=
  enc_bytes (
    ecall (encode_ie_header_t value.(gtp_mbms_svc_area_header)) ⨾
    put value.(gtp_mbms_svc_area_mbms_svc_area) 8).

Definition encode_gtp_chrgng_char_ie (value : gtp_chrgng_char_ie_t) : ie_encoder :=
  enc_bytes (
    ecall (encode_ie_header_t value.(gtp_chrgng_char_header)) ⨾
    put value.(gtp_chrgng_char_chrgng_char_val) 16).

Definition encode_gtp_henb_info_rptng_ie (value : gtp_henb_info_rptng_ie_t) : ie_encoder :=
  enc_bytes (
    ecall (encode_ie_header_t value.(gtp_henb_info_rptng_header)) ⨾
    put value.(gtp_henb_info_rptng_spare2) 7 ⨾
    put value.(gtp_henb_info_rptng_fti) 1).

Definition encode_mm_context (value : mm_context_t) : ie_encoder :=
  enc_bytes (
    enc_skip).

Definition encode_gtp_throttling_ie (value : gtp_throttling_ie_t) : ie_encoder :=
  enc_bytes (
    ecall (encode_ie_header_t value.(gtp_throttling_header)) ⨾
    put value.(gtp_throttling_thrtlng_delay_unit) 3 ⨾
    put value.(gtp_throttling_thrtlng_delay_val) 5 ⨾
    put value.(gtp_throttling_thrtlng_factor) 8).

Definition encode_gtp_csg_memb_indctn_ie (value : gtp_csg_memb_indctn_ie_t) : ie_encoder :=
  enc_bytes (
    ecall (encode_ie_header_t value.(gtp_csg_memb_indctn_header)) ⨾
    put value.(gtp_csg_memb_indctn_csg_memb_indctn_spare2) 7 ⨾
    put value.(gtp_csg_memb_indctn_csg_memb_indctn_cmi) 1).

Definition encode_gtp_ip_address_ie (value : gtp_ip_address_ie_t) : ie_encoder :=
  enc_bytes (
    ecall (encode_ie_header_t value.(gtp_ip_address_header)) ⨾
    put value.(gtp_ip_address_ipv4_ipv6_addr) 32).

Definition encode_gtp_src_rnc_pdcp_ctxt_info_ie (value : gtp_src_rnc_pdcp_ctxt_info_ie_t) : ie_encoder :=
  enc_bytes (
    ecall (encode_ie_header_t value.(gtp_src_rnc_pdcp_ctxt_info_header)) ⨾
    put value.(gtp_src_rnc_pdcp_ctxt_info_rrc_container) 8).

Definition encode_gtp_hop_counter_ie (value : gtp_hop_counter_ie_t) : ie_encoder :=
  enc_bytes (
    ecall (encode_ie_header_t value.(gtp_hop_counter_header)) ⨾
    put value.(gtp_hop_counter_hop_counter) 8).

Definition encode_gtp_pres_rptng_area_info_ie (value : gtp_pres_rptng_area_info_ie_t) : ie_encoder :=
  enc_bytes (
    ecall (encode_ie_header_t value.(gtp_pres_rptng_area_info_header)) ⨾
    put value.(gtp_pres_rptng_area_info_pra_identifier) 24 ⨾
    put value.(gtp_pres_rptng_area_info_spare2) 4 ⨾
    put value.(gtp_pres_rptng_area_info_inapra) 2 ⨾
    put value.(gtp_pres_rptng_area_info_apra) 1 ⨾
    put value.(gtp_pres_rptng_area_info_opra) 1 ⨾
    put value.(gtp_pres_rptng_area_info_ipra) 1).

Definition encode_gtp_mbms_sess_idnt_ie (value : gtp_mbms_sess_idnt_ie_t) : ie_encoder :=
  enc_bytes (
    ecall (encode_ie_header_t value.(gtp_mbms_sess_idnt_header)) ⨾
    put value.(gtp_mbms_sess_idnt_mbms_sess_idnt) 8).

Definition encode_gtp_apn_and_rltv_cap_ie (value : gtp_apn_and_rltv_cap_ie_t) : ie_encoder :=
  enc_bytes (
    ecall (encode_ie_header_t value.(gtp_apn_and_rltv_cap_header)) ⨾
    put value.(gtp_apn_and_rltv_cap_rltv_cap) 8 ⨾
    put value.(gtp_apn_and_rltv_cap_apn_length) 8 ⨾
    put value.(gtp_apn_and_rltv_cap_apn) 8).

Definition encode_gtp_selection_mode_ie (value : gtp_selection_mode_ie_t) : ie_encoder :=
  enc_bytes (
    ecall (encode_ie_header_t value.(gtp_selection_mode_header)) ⨾
    put value.(gtp_selection_mode_spare2) 6 ⨾
    put value.(gtp_selection_mode_selec_mode) 2).

Definition encode_gtp_up_func_sel_indctn_flgs_ie (value : gtp_up_func_sel_indctn_flgs_ie_t) : ie_encoder :=
  enc_bytes (
    ecall (encode_ie_header_t value.(gtp_up_func_sel_indctn_flgs_header)) ⨾
    put value.(gtp_up_func_sel_indctn_flgs_spare2) 7 ⨾
    put value.(gtp_up_func_sel_indctn_flgs_dcnr) 1).

Definition encode_gtp_mbl_equip_idnty_ie (value : gtp_mbl_equip_idnty_ie_t) : ie_encoder :=
  enc_bytes (
    ecall (encode_ie_header_t value.(gtp_mbl_equip_idnty_header)) ⨾
    put value.(gtp_mbl_equip_idnty_mei) 64).

Definition encode_gtp_priv_ext_ie (value : gtp_priv_ext_ie_t) : ie_encoder :=
  enc_bytes (
    ecall (encode_ie_header_t value.(gtp_priv_ext_header)) ⨾
    put value.(gtp_priv_ext_enterprise_id) 16 ⨾
    put value.(gtp_priv_ext_prop_val) 8).

Definition encode_gtp_eps_bearer_lvl_traffic_flow_tmpl_ie (value : gtp_eps_bearer_lvl_traffic_flow_tmpl_ie_t) : ie_encoder :=
  enc_bytes (
    ecall (encode_ie_header_t value.(gtp_eps_bearer_lvl_traffic_flow_tmpl_header)) ⨾
    putmem_len value.(gtp_eps_bearer_lvl_traffic_flow_tmpl_eps_bearer_lvl_tft) value.(gtp_eps_bearer_lvl_traffic_flow_tmpl_header).(gie_len)).

Definition encode_gtp_sequence_number_ie (value : gtp_sequence_number_ie_t) : ie_encoder :=
  enc_bytes (
    ecall (encode_ie_header_t value.(gtp_sequence_number_header)) ⨾
    put value.(gtp_sequence_number_sequence_number) 32).

Definition encode_gtp_stn_sr_ie (value : gtp_stn_sr_ie_t) : ie_encoder :=
  enc_bytes (
    ecall (encode_ie_header_t value.(gtp_stn_sr_header)) ⨾
    put value.(gtp_stn_sr_nanpi) 8 ⨾
    put value.(gtp_stn_sr_filler) 4 ⨾
    put value.(gtp_stn_sr_number_digit) 4).
