(* ===== verification/GtpIesDecoder.v ===== *)
(** * Decoders of the GTPv2 information elements
    (src/libgtpv2c/src/gtp_ies_decoder.c, sv_ies_decoder.c)

    [get n] is the pair of statements [x = decode_bits(buf, total_decoded, n,
    &decoded); total_decoded += decoded;].  [value] is the structure of the caller,
    whose members stay as they are where the code does not assign them. *)

From S2P Require Import Prelude EncDecBits Codec GtpIes.

(** ** Statements *)

(** [total_decoded = total_decoded/CHAR_SIZE;] *)
Definition dec_to_bytes : dec unit := fun _ '(total, decoded) => Some (tt, (total / 8, decoded)).

(** [total_decoded += f(buf + total_decoded, &field);] *)
Definition dcall_at {A} (f : ie_decoder A) : dec A := fun buf '(total, decoded) =>
  '(k, x) ← f (drop (Z.to_nat total) buf);
  Some (x, (u16 (total + k), decoded)).

(** [return value->header.len + IE_HEADER_SIZE;] *)
Definition dec_header_len {A} (header : A -> ie_header_t) (m : dec A) : ie_decoder A := fun buf =>
  '(x, _) ← m buf (0, 0); Some ((header x).(gie_len) + IE_HEADER_SIZE, x).

(** A copy into the bytes [mem] of one or more integers in memory. *)
Definition getmem_over (mem : list Z) (len : Z) : dec (list Z) := fun buf '(total, decoded) =>
  l ← memcpy (Z.to_nat len) buf (total / 8) mem 0; Some (l, (total, decoded)).

(** ** Headers *)

Definition decode_ie_header_t (val_len : Z) : ie_decoder ie_header_t := fun buf =>
  type ← load buf 0;
  len_hi ← load buf 1;
  len_lo ← load buf 2;
  instance ← load buf 3;
  Some (val_len * 8, mk_gie type (256 * len_hi + len_lo) instance).

(** The bit fields of the first byte start at its low bits. *)
Definition decode_gtpv2c_header_t (header : gtpv2c_header_t) : ie_decoder gtpv2c_header_t := fun buf =>
  flags ← load buf 0;
  message_type ← load buf 1;
  len_hi ← load buf 2;
  len_lo ← load buf 3;
  let teid_flag := flags / 8 mod 2 in
  if nz teid_flag then
    t0 ← load buf 4; t1 ← load buf 5; t2 ← load buf 6; t3 ← load buf 7;
    s0 ← load buf 8; s1 ← load buf 9; s2 ← load buf 10;
    Some (12, mk_gtpv2c_header (flags mod 8) teid_flag (flags / 16 mod 2) (flags / 32) message_type
                (256 * len_hi + len_lo) (of_be_bytes [t0; t1; t2; t3]) (of_be_bytes [s0; s1; s2])
                header.(has_teid_spare))
  else
    s0 ← load buf 4; s1 ← load buf 5; s2 ← load buf 6;
    Some (8, mk_gtpv2c_header (flags mod 8) teid_flag (flags / 16 mod 2) (flags / 32) message_type
               (256 * len_hi + len_lo) (of_be_bytes [s0; s1; s2] + 2 ^ 24 * no_teid_spare header)
               header.(has_teid_seq) header.(has_teid_spare)).

(** [imsi_bcd_t]: digit [i] (from 1 on) of a buffer, two to a byte, the first in the
    low half. *)
Definition imsi_digit (bcd : list Z) (i : Z) : option Z :=
  b ← load bcd ((i - 1) / 2); Some (if Z.odd i then b mod 16 else b / 16).

(** [imsi64 = imsi64*10 + digit], for [n] digits. *)
Fixpoint imsi_number (bcd : list Z) (n : nat) : option Z :=
  match n with
  | O => Some 0
  | S n' => imsi64 ← imsi_number bcd n'; d ← imsi_digit bcd (Z.of_nat n); Some (uwrap 64 (imsi64 * 10 + d))
  end.

(** The loop of [decode_pco_ie_t]: [left] containers of the array are free, [i] are in
    use.  A container longer than its [data] has no result. *)
Fixpoint pco_containers (left i : nat) (buf : list Z) (len count : Z) (ids : list pco_opt_t)
    : option (nat * list pco_opt_t) :=
  if count <? len then
    match left with
    | O => Some (i, ids)
    | S left' =>
        id ← ids !! i;
        hi ← load buf count;
        lo ← load buf (count + 1);
        opt_len ← load buf (count + 2);
        data ← memcpy (Z.to_nat opt_len) buf (count + 3) id.(pco_opt_data) 0;
        pco_containers left' (S i) buf len (u16 (count + 3 + opt_len))
          (<[i := mk_pco_opt (256 * hi + lo) opt_len data]> ids)
    end
  else Some (i, ids).

(** ** Elements *)

Definition decode_macro_enb_id_fld (value : macro_enb_id_fld_t) : ie_decoder macro_enb_id_fld_t :=
  dec_bytes (
    menbid_mcc_digit_2 ← get 4;
    menbid_mcc_digit_1 ← get 4;
    menbid_mnc_digit_3 ← get 4;
    menbid_mcc_digit_3 ← get 4;
    menbid_mnc_digit_2 ← get 4;
    menbid_mnc_digit_1 ← get 4;
    menbid_spare ← get 4;
    menbid_macro_enodeb_id ← get 4;
    menbid_macro_enb_id2 ← get 16;
    mret (mk_macro_enb_id_fld menbid_mcc_digit_2 menbid_mcc_digit_1 menbid_mnc_digit_3 menbid_mcc_digit_3 menbid_mnc_digit_2 menbid_mnc_digit_1 menbid_spare menbid_macro_enodeb_id menbid_macro_enb_id2)).

Definition decode_gtp_umts_key_and_quintuplets_ie (value : gtp_umts_key_and_quintuplets_ie_t) : ie_decoder gtp_umts_key_and_quintuplets_ie_t :=
  dec_bytes (
    header ← dcall (decode_ie_header_t IE_HEADER_SIZE);
    security_mode ← get 3;
    spare2 ← get 1;
    drxi ← get 1;
    ksi ← get 3;
    nbr_of_quintuplets ← get 3;
    iovi ← get 1;
    gupii ← get 1;
    ugipai ← get 1;
    uambri ← get 1;
    sambri ← get 1;
    spare3 ← get 5;
    used_gprs_intgrty_protctn_algo ← get 3;
    ck ← getmem_into value.(gtp_umts_key_and_quintuplets_ck) 16;
    ik ← getmem_into value.(gtp_umts_key_and_quintuplets_ik) 16;
    auth_quintuplet ← get 8;
    drx_parameter ← get 16;
    uplnk_subscrbd_ue_ambr ← get 32;
    dnlnk_subscrbd_ue_ambr ← get 32;
    uplnk_used_ue_ambr ← get 32;
    dnlnk_used_ue_ambr ← get 32;
    ue_ntwk_capblty_len ← get 8;
    ue_ntwk_capblty ← get 8;
    ms_ntwk_capblty_len ← get 8;
    ms_ntwk_capblty ← get 8;
    mei_length ← get 8;
    mei ← get 8;
    ecna ← get 1;
    nbna ← get 1;
    hnna ← get 1;
    ena ← get 1;
    ina ← get 1;
    gana ← get 1;
    gena ← get 1;
    una ← get 1;
    vdom_pref_ue_usage_len ← get 8;
    voice_domain_pref_and_ues_usage_setting ← get 8;
    higher_bitrates_flg_len ← get 8;
    higher_bitrates_flg ← get 8;
    iov_updts_cntr ← get 8;
    len_of_extnded_acc_rstrct_data ← get 8;
    spare4 ← get 7;
    nrsrna ← get 1;
    mret (mk_gtp_umts_key_and_quintuplets header security_mode spare2 drxi ksi nbr_of_quintuplets iovi gupii ugipai uambri sambri spare3 used_gprs_intgrty_protctn_algo ck ik auth_quintuplet drx_parameter uplnk_subscrbd_ue_ambr dnlnk_subscrbd_ue_ambr uplnk_used_ue_ambr dnlnk_used_ue_ambr ue_ntwk_capblty_len ue_ntwk_capblty ms_ntwk_capblty_len ms_ntwk_capblty mei_length mei ecna nbna hnna ena ina gana gena una vdom_pref_ue_usage_len voice_domain_pref_and_ues_usage_setting higher_bitrates_flg_len higher_bitrates_flg iov_updts_cntr len_of_extnded_acc_rstrct_data spare4 nrsrna)).

Definition decode_gtp_channel_needed_ie (value : gtp_channel_needed_ie_t) : ie_decoder gtp_channel_needed_ie_t :=
  dec_bytes (
    header ← dcall (decode_ie_header_t IE_HEADER_SIZE);
    channel_needed ← get 8;
    mret (mk_gtp_channel_needed header channel_needed)).

Definition decode_gtp_rfsp_index_ie (value : gtp_rfsp_index_ie_t) : ie_decoder gtp_rfsp_index_ie_t :=
  dec_bytes (
    header ← dcall (decode_ie_header_t IE_HEADER_SIZE);
    rfsp_index ← get 16;
    mret (mk_gtp_rfsp_index header rfsp_index)).

Definition decode_gtp_guti_ie (value : gtp_guti_ie_t) : ie_decoder gtp_guti_ie_t :=
  dec_bytes (
    header ← dcall (decode_ie_header_t IE_HEADER_SIZE);
    mcc_digit_2 ← get 4;
    mcc_digit_1 ← get 4;
    mnc_digit_3 ← get 4;
    mcc_digit_3 ← get 4;
    mnc_digit_2 ← get 4;
    mnc_digit_1 ← get 4;
    mme_group_id ← get 16;
    mme_code ← get 8;
    m_tmsi ← get 8;
    mret (mk_gtp_guti header mcc_digit_2 mcc_digit_1 mnc_digit_3 mcc_digit_3 mnc_digit_2 mnc_digit_1 mme_group_id mme_code m_tmsi)).

Definition decode_gtp_imsi_ie (value : gtp_imsi_ie_t) : ie_decoder gtp_imsi_ie_t :=
  dec_bytes (
    header ← dcall (decode_ie_header_t IE_HEADER_SIZE);
    mem ← getmem_over (le_bytes 8 value.(gtp_imsi_imsi_number_digits) ++ le_bytes 8 value.(gtp_imsi_imsi64))
            header.(gie_len);
    imsi64 ← (fun buf '(total, decoded) =>
      imsi64 ← imsi_number (drop (Z.to_nat (total / 8)) buf) (if header.(gie_len) =? 8 then 15 else 14);
      Some (imsi64, (total, decoded)));
    _ ← advance (header.(gie_len) * 8);
    mret (mk_gtp_imsi header (of_le_bytes (take 8 mem)) imsi64)).

Definition decode_gtp_eps_bearer_id_ie (value : gtp_eps_bearer_id_ie_t) : ie_decoder gtp_eps_bearer_id_ie_t :=
  dec_bytes (
    header ← dcall (decode_ie_header_t IE_HEADER_SIZE);
    ebi_spare2 ← get 4;
    ebi_ebi ← get 4;
    mret (mk_gtp_eps_bearer_id header ebi_spare2 ebi_ebi)).

Definition decode_gtp_emlpp_priority_ie (value : gtp_emlpp_priority_ie_t) : ie_decoder gtp_emlpp_priority_ie_t :=
  dec_bytes (
    header ← dcall (decode_ie_header_t IE_HEADER_SIZE);
    emlpp_priority ← get 8;
    mret (mk_gtp_emlpp_priority header emlpp_priority)).

Definition decode_gtp_prot_cfg_opts_ie (value : gtp_prot_cfg_opts_ie_t) : ie_decoder gtp_prot_cfg_opts_ie_t :=
  dec_header_len (fun x => x.(gtp_prot_cfg_opts_header)) (
    header ← dcall (decode_ie_header_t IE_HEADER_SIZE);
    pco ← get 8;
    mret (mk_gtp_prot_cfg_opts header pco)).

Definition decode_pco_ie_t (val : pco_ie_t) : ie_decoder pco_ie_t := fun buf =>
  '(_, header) ← decode_ie_header_t IE_HEADER_SIZE buf;
  byte ← load buf 4;
  '(n, ids) ← pco_containers MAX_PCO_CONTAINERS 0 buf header.(gie_len) 5 val.(pco_ie_ids);
  Some (IE_HEADER_SIZE + header.(gie_len),
        mk_pco_ie header val.(pco_ie_pco) val.(pco_ie_pco_len) (byte / 128) (byte mod 8) (Z.of_nat n) ids).

Definition decode_gtp_mdt_cfg_ie (value : gtp_mdt_cfg_ie_t) : ie_decoder gtp_mdt_cfg_ie_t :=
  dec_bytes (
    header ← dcall (decode_ie_header_t IE_HEADER_SIZE);
    job_type ← get 8;
    measrmnts_lsts ← get 32;
    rptng_trig ← get 8;
    report_interval ← get 8;
    report_amount ← get 8;
    rsrp_evnt_thresh ← get 8;
    rsrq_evnt_thresh ← get 8;
    len_of_area_scop ← get 8;
    area_scope ← get 8;
    spare2 ← get 4;
    pli ← get 1;
    pmi ← get 1;
    mpi ← get 1;
    crrmi ← get 1;
    coll_prd_rrm_lte ← get 8;
    meas_prd_lte ← get 8;
    pos_mthd ← get 8;
    nbr_of_mdt_plmns ← get 8;
    mdt_plmn_list ← get 8;
    mret (mk_gtp_mdt_cfg header job_type measrmnts_lsts rptng_trig report_interval report_amount rsrp_evnt_thresh rsrq_evnt_thresh len_of_area_scop area_scope spare2 pli pmi mpi crrmi coll_prd_rrm_lte meas_prd_lte pos_mthd nbr_of_mdt_plmns mdt_plmn_list)).

Definition decode_gtp_src_id_ie (value : gtp_src_id_ie_t) : ie_decoder gtp_src_id_ie_t :=
  dec_bytes (
    header ← dcall (decode_ie_header_t IE_HEADER_SIZE);
    target_cell_id ← get 64;
    source_type ← get 8;
    source_id ← get 8;
    mret (mk_gtp_src_id header target_cell_id source_type source_id)).

Definition decode_auth_quintuplet (value : auth_quintuplet_t) : ie_decoder auth_quintuplet_t :=
  dec_bits (
    rand ← getmem_into value.(auth_quintuplet_rand) 16;
    xres_length ← get 8;
    xres ← get 8;
    ck ← getmem_into value.(auth_quintuplet_ck) 16;
    ik ← getmem_into value.(auth_quintuplet_ik) 16;
    autn_length ← get 8;
    autn ← get 8;
    mret (mk_auth_quintuplet rand xres_length xres ck ik autn_length autn)).

Definition decode_trgt_id_type_macro_ng_enb (value : trgt_id_type_macro_ng_enb_t) : ie_decoder trgt_id_type_macro_ng_enb_t :=
  dec_bits (
    mcc_digit_2 ← get 4;
    mcc_digit_1 ← get 4;
    mnc_digit_3 ← get 4;
    mcc_digit_3 ← get 4;
    mnc_digit_2 ← get 4;
    mnc_digit_1 ← get 4;
    spare ← get 4;
    macro_ng_enb_id ← get 16;
    fivegs_tac ← get 24;
    mret (mk_trgt_id_type_macro_ng_enb mcc_digit_2 mcc_digit_1 mnc_digit_3 mcc_digit_3 mnc_digit_2 mnc_digit_1 spare macro_ng_enb_id fivegs_tac)).

Definition decode_gtp_ran_nas_cause_ie (value : gtp_ran_nas_cause_ie_t) : ie_decoder gtp_ran_nas_cause_ie_t :=
  dec_bytes (
    header ← dcall (decode_ie_header_t IE_HEADER_SIZE);
    protocol_type ← get 4;
    cause_type ← get 4;
    cause_value ← get 8;
    mret (mk_gtp_ran_nas_cause header protocol_type cause_type cause_value)).

Definition decode_trgt_id_type_rnc_id (value : trgt_id_type_rnc_id_t) : ie_decoder trgt_id_type_rnc_id_t :=
  dec_bits (
    mcc_digit_2 ← get 4;
    mcc_digit_1 ← get 4;
    mnc_digit_3 ← get 4;
    mcc_digit_3 ← get 4;
    mnc_digit_2 ← get 4;
    mnc_digit_1 ← get 4;
    lac ← get 16;
    rac ← get 8;
    rnc_id ← get 16;
    extended_rnc_id ← get 16;
    mret (mk_trgt_id_type_rnc_id mcc_digit_2 mcc_digit_1 mnc_digit_3 mcc_digit_3 mnc_digit_2 mnc_digit_1 lac rac rnc_id extended_rnc_id)).

Definition decode_gtp_pdn_type_ie (value : gtp_pdn_type_ie_t) : ie_decoder gtp_pdn_type_ie_t :=
  dec_bytes (
    header ← dcall (decode_ie_header_t IE_HEADER_SIZE);
    pdn_type_spare2 ← get 5;
    pdn_type_pdn_type ← get 3;
    mret (mk_gtp_pdn_type header pdn_type_spare2 pdn_type_pdn_type)).

Definition decode_gtp_eps_secur_ctxt_and_quadruplets_ie (value : gtp_eps_secur_ctxt_and_quadruplets_ie_t) : ie_decoder gtp_eps_secur_ctxt_and_quadruplets_ie_t :=
  dec_bytes (
    header ← dcall (decode_ie_header_t IE_HEADER_SIZE);
    security_mode ← get 3;
    nhi ← get 1;
    drxi ← get 1;
    ksiasme ← get 3;
    nbr_of_quintuplets ← get 3;
    nbr_of_quadruplet ← get 3;
    uambri ← get 1;
    osci ← get 1;
    sambri ← get 1;
    used_nas_intgrty_protctn_algo ← get 3;
    used_nas_cipher ← get 4;
    nas_dnlnk_cnt ← get 24;
    nas_uplnk_cnt ← get 24;
    kasme ← getmem_into value.(gtp_eps_secur_ctxt_and_quadruplets_kasme) 32;
    auth_quadruplet ← get 8;
    auth_quintuplet ← get 8;
    drx_parameter ← get 16;
    nh ← getmem_into value.(gtp_eps_secur_ctxt_and_quadruplets_nh) 32;
    spare2 ← get 5;
    ncc ← get 3;
    uplnk_subscrbd_ue_ambr ← get 32;
    dnlnk_subscrbd_ue_ambr ← get 32;
    uplnk_used_ue_ambr ← get 32;
    dnlnk_used_ue_ambr ← get 32;
    ue_ntwk_capblty_len ← get 8;
    ue_ntwk_capblty ← get 8;
    ms_ntwk_capblty_len ← get 8;
    ms_ntwk_capblty ← get 8;
    mei_length ← get 8;
    mei ← get 8;
    ecna ← get 1;
    nbna ← get 1;
    hnna ← get 1;
    ena ← get 1;
    ina ← get 1;
    gana ← get 1;
    gena ← get 1;
    una ← get 1;
    s ← get 2;
    nhi_old ← get 1;
    spare3 ← get 1;
    old_ksiasme ← get 3;
    old_ncc ← get 3;
    old_kasme ← getmem_into value.(gtp_eps_secur_ctxt_and_quadruplets_old_kasme) 32;
    old_nh ← getmem_into value.(gtp_eps_secur_ctxt_and_quadruplets_old_nh) 32;
    vdom_pref_ue_usage_len ← get 8;
    voice_domain_pref_and_ues_usage_setting ← get 8;
    len_of_ue_radio_capblty_paging_info ← get 16;
    ue_radio_capblty_paging_info ← get 8;
    len_of_extnded_acc_rstrct_data ← get 8;
    spare4 ← get 6;
    ussrna ← get 1;
    nrsrna ← get 1;
    ue_addtl_secur_capblty_len ← get 8;
    ue_addtl_secur_capblty ← get 8;
    len_of_ue_nr_secur_capblty ← get 8;
    ue_nr_secur_capblty ← get 8;
    mret (mk_gtp_eps_secur_ctxt_and_quadruplets header security_mode nhi drxi ksiasme nbr_of_quintuplets nbr_of_quadruplet uambri osci sambri used_nas_intgrty_protctn_algo used_nas_cipher nas_dnlnk_cnt nas_uplnk_cnt kasme auth_quadruplet auth_quintuplet drx_parameter nh spare2 ncc uplnk_subscrbd_ue_ambr dnlnk_subscrbd_ue_ambr uplnk_used_ue_ambr dnlnk_used_ue_ambr ue_ntwk_capblty_len ue_ntwk_capblty ms_ntwk_capblty_len ms_ntwk_capblty mei_length mei ecna nbna hnna ena ina gana gena una s nhi_old spare3 old_ksiasme old_ncc old_kasme old_nh vdom_pref_ue_usage_len voice_domain_pref_and_ues_usage_setting len_of_ue_radio_capblty_paging_info ue_radio_capblty_paging_info len_of_extnded_acc_rstrct_data spare4 ussrna nrsrna ue_addtl_secur_capblty_len ue_addtl_secur_capblty len_of_ue_nr_secur_capblty ue_nr_secur_capblty)).

Definition decode_gtp_s103_pdn_data_fwdng_info_ie (value : gtp_s103_pdn_data_fwdng_info_ie_t) : ie_decoder gtp_s103_pdn_data_fwdng_info_ie_t :=
  dec_bytes (
    header ← dcall (decode_ie_header_t IE_HEADER_SIZE);
    hsgw_addr_fwdng_len ← get 8;
    hsgw_addr_fwdng ← get 8;
    gre_key ← get 32;
    eps_bearer_id_nbr ← get 8;
    spare2 ← get 4;
    mret (mk_gtp_s103_pdn_data_fwdng_info header hsgw_addr_fwdng_len hsgw_addr_fwdng gre_key eps_bearer_id_nbr spare2)).

Definition decode_gtp_fully_qual_domain_name_ie (value : gtp_fully_qual_domain_name_ie_t) : ie_decoder gtp_fully_qual_domain_name_ie_t :=
  dec_bytes (
    header ← dcall (decode_ie_header_t IE_HEADER_SIZE);
    fqdn ← getmem_into value.(gtp_fully_qual_domain_name_fqdn) header.(gie_len);
    mret (mk_gtp_fully_qual_domain_name header fqdn)).

Definition decode_gtp_traffic_agg_desc_ie (value : gtp_traffic_agg_desc_ie_t) : ie_decoder gtp_traffic_agg_desc_ie_t :=
  dec_bytes (
    header ← dcall (decode_ie_header_t IE_HEADER_SIZE);
    traffic_agg_desc ← get 8;
    mret (mk_gtp_traffic_agg_desc header traffic_agg_desc)).

Definition decode_gtp_flow_qlty_of_svc_ie (value : gtp_flow_qlty_of_svc_ie_t) : ie_decoder gtp_flow_qlty_of_svc_ie_t :=
  dec_bytes (
    header ← dcall (decode_ie_header_t IE_HEADER_SIZE);
    qci ← get 8;
    max_bit_rate_uplnk ← get 40;
    max_bit_rate_dnlnk ← get 40;
    guarntd_bit_rate_uplnk ← get 40;
    guarntd_bit_rate_dnlnk ← get 40;
    mret (mk_gtp_flow_qlty_of_svc header qci max_bit_rate_uplnk max_bit_rate_dnlnk guarntd_bit_rate_uplnk guarntd_bit_rate_dnlnk)).

Definition decode_gtp_fully_qual_tunn_endpt_idnt_ie (value : gtp_fully_qual_tunn_endpt_idnt_ie_t) : ie_decoder gtp_fully_qual_tunn_endpt_idnt_ie_t :=
  dec_bytes (
    header ← dcall (decode_ie_header_t IE_HEADER_SIZE);
    v4 ← get 1;
    v6 ← get 1;
    interface_type ← get 6;
    teid_gre_key ← get 32;
    ipv4_address ← dec_when (v4 =? 1) (get 32) value.(gtp_fully_qual_tunn_endpt_idnt_ipv4_address);
    ipv6_address ← dec_when (v6 =? 1) (getmem_into value.(gtp_fully_qual_tunn_endpt_idnt_ipv6_address) 16) value.(gtp_fully_qual_tunn_endpt_idnt_ipv6_address);
    mret (mk_gtp_fully_qual_tunn_endpt_idnt header v4 v6 interface_type teid_gre_key ipv4_address ipv6_address)).

Definition decode_gtp_recovery_ie (value : gtp_recovery_ie_t) : ie_decoder gtp_recovery_ie_t :=
  dec_bytes (
    header ← dcall (decode_ie_header_t IE_HEADER_SIZE);
    recovery ← get 8;
    mret (mk_gtp_recovery header recovery)).

Definition decode_gtp_srvng_plmn_rate_ctl_ie (value : gtp_srvng_plmn_rate_ctl_ie_t) : ie_decoder gtp_srvng_plmn_rate_ctl_ie_t :=
  dec_bytes (
    header ← dcall (decode_ie_header_t IE_HEADER_SIZE);
    uplnk_rate_lmt ← get 16;
    dnlnk_rate_lmt ← get 16;
    mret (mk_gtp_srvng_plmn_rate_ctl header uplnk_rate_lmt dnlnk_rate_lmt)).

Definition decode_gtp_mbms_dist_ack_ie (value : gtp_mbms_dist_ack_ie_t) : ie_decoder gtp_mbms_dist_ack_ie_t :=
  dec_bytes (
    header ← dcall (decode_ie_header_t IE_HEADER_SIZE);
    spare2 ← get 6;
    distr_ind ← get 2;
    mret (mk_gtp_mbms_dist_ack header spare2 distr_ind)).

Definition decode_gtp_ue_time_zone_ie (value : gtp_ue_time_zone_ie_t) : ie_decoder gtp_ue_time_zone_ie_t :=
  dec_bytes (
    header ← dcall (decode_ie_header_t IE_HEADER_SIZE);
    time_zone ← get 8;
    spare2 ← get 6;
    daylt_svng_time ← get 2;
    mret (mk_gtp_ue_time_zone header time_zone spare2 daylt_svng_time)).

Definition decode_gtp_s1u_data_fwdng_ie (value : gtp_s1u_data_fwdng_ie_t) : ie_decoder gtp_s1u_data_fwdng_ie_t :=
  dec_bytes (
    header ← dcall (decode_ie_header_t IE_HEADER_SIZE);
    spare2 ← get 4;
    sgw_addr_len ← get 8;
    sgw_address ← get 8;
    sgw_s1u_teid ← get 32;
    mret (mk_gtp_s1u_data_fwdng header spare2 sgw_addr_len sgw_address sgw_s1u_teid)).

Definition decode_gtp_pres_rptng_area_act_ie (value : gtp_pres_rptng_area_act_ie_t) : ie_decoder gtp_pres_rptng_area_act_ie_t :=
  dec_bytes (
    header ← dcall (decode_ie_header_t IE_HEADER_SIZE);
    spare2 ← get 4;
    inapra ← get 1;
    action ← get 3;
    pres_rptng_area_idnt ← get 24;
    number_of_tai ← get 4;
    number_of_rai ← get 4;
    spare3 ← get 2;
    nbr_of_macro_enb ← get 6;
    spare4 ← get 2;
    nbr_of_home_enb ← get 6;
    spare5 ← get 2;
    number_of_ecgi ← get 6;
    spare6 ← get 2;
    number_of_sai ← get 6;
    spare7 ← get 2;
    number_of_cgi ← get 6;
    tais ← get 8;
    macro_enb_ids ← get 8;
    home_enb_ids ← get 8;
    ecgis ← get 8;
    rais ← get 8;
    sais ← get 8;
    cgis ← get 8;
    spare8 ← get 2;
    nbr_of_extnded_macro_enb ← get 6;
    extnded_macro_enb_ids ← get 8;
    mret (mk_gtp_pres_rptng_area_act header spare2 inapra action pres_rptng_area_idnt number_of_tai number_of_rai spare3 nbr_of_macro_enb spare4 nbr_of_home_enb spare5 number_of_ecgi spare6 number_of_sai spare7 number_of_cgi tais macro_enb_ids home_enb_ids ecgis rais sais cgis spare8 nbr_of_extnded_macro_enb extnded_macro_enb_ids)).

Definition decode_gtp_trstd_wlan_mode_indctn_ie (value : gtp_trstd_wlan_mode_indctn_ie_t) : ie_decoder gtp_trstd_wlan_mode_indctn_ie_t :=
  dec_bytes (
    header ← dcall (decode_ie_header_t IE_HEADER_SIZE);
    spare2 ← get 6;
    mcm ← get 2;
    scm ← get 1;
    mret (mk_gtp_trstd_wlan_mode_indctn header spare2 mcm scm)).

Definition decode_gtp_proc_trans_id_ie (value : gtp_proc_trans_id_ie_t) : ie_decoder gtp_proc_trans_id_ie_t :=
  dec_bytes (
    header ← dcall (decode_ie_header_t IE_HEADER_SIZE);
    proc_trans_id ← get 8;
    mret (mk_gtp_proc_trans_id header proc_trans_id)).

Definition decode_gtp_wlan_offldblty_indctn_ie (value : gtp_wlan_offldblty_indctn_ie_t) : ie_decoder gtp_wlan_offldblty_indctn_ie_t :=
  dec_bytes (
    header ← dcall (decode_ie_header_t IE_HEADER_SIZE);
    spare2 ← get 6;
    eutran_indctn ← get 1;
    utran_indctn ← get 1;
    mret (mk_gtp_wlan_offldblty_indctn header spare2 eutran_indctn utran_indctn)).

Definition decode_gtp_uli_timestamp_ie (value : gtp_uli_timestamp_ie_t) : ie_decoder gtp_uli_timestamp_ie_t :=
  dec_bytes (
    header ← dcall (decode_ie_header_t IE_HEADER_SIZE);
    uli_ts_val ← get 8;
    mret (mk_gtp_uli_timestamp header uli_ts_val)).

Definition decode_gtp_max_pckt_loss_rate_ie (value : gtp_max_pckt_loss_rate_ie_t) : ie_decoder gtp_max_pckt_loss_rate_ie_t :=
  dec_bytes (
    header ← dcall (decode_ie_header_t IE_HEADER_SIZE);
    spare2 ← get 6;
    dl ← get 1;
    ul ← get 1;
    max_pckt_loss_rate_ul ← get 16;
    max_pckt_loss_rate_dl ← get 16;
    mret (mk_gtp_max_pckt_loss_rate header spare2 dl ul max_pckt_loss_rate_ul max_pckt_loss_rate_dl)).

Definition decode_gtp_cn_oper_sel_entity_ie (value : gtp_cn_oper_sel_entity_ie_t) : ie_decoder gtp_cn_oper_sel_entity_ie_t :=
  dec_bytes (
    header ← dcall (decode_ie_header_t IE_HEADER_SIZE);
    spare2 ← get 6;
    sel_entity ← get 2;
    mret (mk_gtp_cn_oper_sel_entity header spare2 sel_entity)).

Definition decode_rai_field (value : rai_field_t) : ie_decoder rai_field_t :=
  dec_bytes (
    ria_mcc_digit_2 ← get 4;
    ria_mcc_digit_1 ← get 4;
    ria_mnc_digit_3 ← get 4;
    ria_mcc_digit_3 ← get 4;
    ria_mnc_digit_2 ← get 4;
    ria_mnc_digit_1 ← get 4;
    ria_lac ← get 16;
    ria_rac ← get 16;
    mret (mk_rai_field ria_mcc_digit_2 ria_mcc_digit_1 ria_mnc_digit_3 ria_mcc_digit_3 ria_mnc_digit_2 ria_mnc_digit_1 ria_lac ria_rac)).

Definition decode_gtp_alloc_reten_priority_ie (value : gtp_alloc_reten_priority_ie_t) : ie_decoder gtp_alloc_reten_priority_ie_t :=
  dec_bytes (
    header ← dcall (decode_ie_header_t IE_HEADER_SIZE);
    spare2 ← get 1;
    pci ← get 1;
    pl ← get 4;
    spare3 ← get 1;
    pvi ← get 1;
    mret (mk_gtp_alloc_reten_priority header spare2 pci pl spare3 pvi)).

Definition decode_gtp_apn_restriction_ie (value : gtp_apn_restriction_ie_t) : ie_decoder gtp_apn_restriction_ie_t :=
  dec_bytes (
    header ← dcall (decode_ie_header_t IE_HEADER_SIZE);
    rstrct_type_val ← get 8;
    mret (mk_gtp_apn_restriction header rstrct_type_val)).

Definition decode_sai_field (value : sai_field_t) : ie_decoder sai_field_t :=
  dec_bytes (
    sai_mcc_digit_2 ← get 4;
    sai_mcc_digit_1 ← get 4;
    sai_mnc_digit_3 ← get 4;
    sai_mcc_digit_3 ← get 4;
    sai_mnc_digit_2 ← get 4;
    sai_mnc_digit_1 ← get 4;
    sai_lac ← get 16;
    sai_sac ← get 16;
    mret (mk_sai_field sai_mcc_digit_2 sai_mcc_digit_1 sai_mnc_digit_3 sai_mcc_digit_3 sai_mnc_digit_2 sai_mnc_digit_1 sai_lac sai_sac)).

Definition decode_trgt_id_type_extnded_macro_ng_enb (value : trgt_id_type_extnded_macro_ng_enb_t) : ie_decoder trgt_id_type_extnded_macro_ng_enb_t :=
  dec_bits (
    mcc_digit_2 ← get 4;
    mcc_digit_1 ← get 4;
    mnc_digit_3 ← get 4;
    mcc_digit_3 ← get 4;
    mnc_digit_2 ← get 4;
    mnc_digit_1 ← get 4;
    smenb ← get 1;
    spare ← get 2;
    extnded_macro_ng_enb_id ← get 16;
    fivegs_tac ← get 24;
    mret (mk_trgt_id_type_extnded_macro_ng_enb mcc_digit_2 mcc_digit_1 mnc_digit_3 mcc_digit_3 mnc_digit_2 mnc_digit_1 smenb spare extnded_macro_ng_enb_id fivegs_tac)).

Definition decode_gtp_ptmsi_signature_ie (value : gtp_ptmsi_signature_ie_t) : ie_decoder gtp_ptmsi_signature_ie_t :=
  dec_bytes (
    header ← dcall (decode_ie_header_t IE_HEADER_SIZE);
    ptmsi_signature ← get 8;
    mret (mk_gtp_ptmsi_signature header ptmsi_signature)).

Definition decode_gtp_paging_and_svc_info_ie (value : gtp_paging_and_svc_info_ie_t) : ie_decoder gtp_paging_and_svc_info_ie_t :=
  dec_bytes (
    header ← dcall (decode_ie_header_t IE_HEADER_SIZE);
    spare2 ← get 4;
    ebi ← get 4;
    spare3 ← get 7;
    ppi ← get 1;
    spare4 ← get 2;
    paging_plcy_indctn_val ← get 6;
    mret (mk_gtp_paging_and_svc_info header spare2 ebi spare3 ppi spare4 paging_plcy_indctn_val)).

Definition decode_gtp_ovrld_ctl_info_ie (value : gtp_ovrld_ctl_info_ie_t) : ie_decoder gtp_ovrld_ctl_info_ie_t :=
  dec_bytes (
    header ← dcall (decode_ie_header_t IE_HEADER_SIZE);
    overload_control_information ← getmem_into value.(gtp_ovrld_ctl_info_overload_control_information) 8;
    mret (mk_gtp_ovrld_ctl_info header overload_control_information)).

Definition decode_gtp_ecgi_list_ie (value : gtp_ecgi_list_ie_t) : ie_decoder gtp_ecgi_list_ie_t :=
  dec_bytes (
    header ← dcall (decode_ie_header_t IE_HEADER_SIZE);
    nbr_of_ecgi_flds ← get 16;
    ecgi_list_of_m_ecgi_flds ← get 8;
    mret (mk_gtp_ecgi_list header nbr_of_ecgi_flds ecgi_list_of_m_ecgi_flds)).

Definition decode_gtp_agg_max_bit_rate_ie (value : gtp_agg_max_bit_rate_ie_t) : ie_decoder gtp_agg_max_bit_rate_ie_t :=
  dec_bytes (
    header ← dcall (decode_ie_header_t IE_HEADER_SIZE);
    apn_ambr_uplnk ← get 32;
    apn_ambr_dnlnk ← get 32;
    mret (mk_gtp_agg_max_bit_rate header apn_ambr_uplnk apn_ambr_dnlnk)).

Definition decode_tai_field (value : tai_field_t) : ie_decoder tai_field_t :=
  dec_bytes (
    tai_mcc_digit_2 ← get 4;
    tai_mcc_digit_1 ← get 4;
    tai_mnc_digit_3 ← get 4;
    tai_mcc_digit_3 ← get 4;
    tai_mnc_digit_2 ← get 4;
    tai_mnc_digit_1 ← get 4;
    tai_tac ← get 16;
    mret (mk_tai_field tai_mcc_digit_2 tai_mcc_digit_1 tai_mnc_digit_3 tai_mcc_digit_3 tai_mnc_digit_2 tai_mnc_digit_1 tai_tac)).

Definition decode_gtp_acc_pt_name_ie (value : gtp_acc_pt_name_ie_t) : ie_decoder gtp_acc_pt_name_ie_t :=
  dec_bytes (
    header ← dcall (decode_ie_header_t IE_HEADER_SIZE);
    apn ← getmem_into value.(gtp_acc_pt_name_apn) header.(gie_len);
    mret (mk_gtp_acc_pt_name header apn)).

Definition decode_bss_container (value : bss_container_t) : ie_decoder bss_container_t :=
  dec_bits (
    spare ← get 4;
    phx ← get 1;
    sapi ← get 1;
    rp ← get 1;
    pfi ← get 1;
    sapi2 ← get 4;
    spare2 ← get 1;
    radio_priority ← get 3;
    xid_parms_len ← get 8;
    xid_parameters ← get 8;
    mret (mk_bss_container spare phx sapi rp pfi sapi2 spare2 radio_priority xid_parms_len xid_parameters)).

Definition decode_trgt_id_type_gnode_id (value : trgt_id_type_gnode_id_t) : ie_decoder trgt_id_type_gnode_id_t :=
  dec_bits (
    mcc_digit_2 ← get 4;
    mcc_digit_1 ← get 4;
    mnc_digit_3 ← get 4;
    mcc_digit_3 ← get 4;
    mnc_digit_2 ← get 4;
    mnc_digit_1 ← get 4;
    spare ← get 2;
    gnb_id_len ← get 6;
    gnodeb_id ← get 32;
    fivegs_tac ← get 24;
    mret (mk_trgt_id_type_gnode_id mcc_digit_2 mcc_digit_1 mnc_digit_3 mcc_digit_3 mnc_digit_2 mnc_digit_1 spare gnb_id_len gnodeb_id fivegs_tac)).

Definition decode_gtp_umts_key_quadruplets_and_quintuplets_ie (value : gtp_umts_key_quadruplets_and_quintuplets_ie_t) : ie_decoder gtp_umts_key_quadruplets_and_quintuplets_ie_t :=
  dec_bytes (
    header ← dcall (decode_ie_header_t IE_HEADER_SIZE);
    security_mode ← get 3;
    spare2 ← get 1;
    drxi ← get 1;
    ksiasme ← get 3;
    nbr_of_quintuplets ← get 3;
    nbr_of_quadruplet ← get 3;
    uambri ← get 1;
    sambri ← get 1;
    spare3 ← get 8;
    ck ← getmem_into value.(gtp_umts_key_quadruplets_and_quintuplets_ck) 16;
    ik ← getmem_into value.(gtp_umts_key_quadruplets_and_quintuplets_ik) 16;
    auth_quadruplet ← get 8;
    auth_quintuplet ← get 8;
    drx_parameter ← get 16;
    uplnk_subscrbd_ue_ambr ← get 32;
    dnlnk_subscrbd_ue_ambr ← get 32;
    uplnk_used_ue_ambr ← get 32;
    dnlnk_used_ue_ambr ← get 32;
    ue_ntwk_capblty_len ← get 8;
    ue_ntwk_capblty ← get 8;
    ms_ntwk_capblty_len ← get 8;
    ms_ntwk_capblty ← get 8;
    mei_length ← get 8;
    mei ← get 8;
    ecna ← get 1;
    nbna ← get 1;
    hnna ← get 1;
    ena ← get 1;
    ina ← get 1;
    gana ← get 1;
    gena ← get 1;
    una ← get 1;
    vdom_pref_ue_usage_len ← get 8;
    voice_domain_pref_and_ues_usage_setting ← get 8;
    mret (mk_gtp_umts_key_quadruplets_and_quintuplets header security_mode spare2 drxi ksiasme nbr_of_quintuplets nbr_of_quadruplet uambri sambri spare3 ck ik auth_quadruplet auth_quintuplet drx_parameter uplnk_subscrbd_ue_ambr dnlnk_subscrbd_ue_ambr uplnk_used_ue_ambr dnlnk_used_ue_ambr ue_ntwk_capblty_len ue_ntwk_capblty ms_ntwk_capblty_len ms_ntwk_capblty mei_length mei ecna nbna hnna ena ina gana gena una vdom_pref_ue_usage_len voice_domain_pref_and_ues_usage_setting)).

Definition decode_gtp_cmplt_req_msg_ie (value : gtp_cmplt_req_msg_ie_t) : ie_decoder gtp_cmplt_req_msg_ie_t :=
  dec_bytes (
    header ← dcall (decode_ie_header_t IE_HEADER_SIZE);
    cmplt_req_msg_type ← get 8;
    cmplt_req_msg ← get 8;
    mret (mk_gtp_cmplt_req_msg header cmplt_req_msg_type cmplt_req_msg)).

Definition decode_gtp_epc_timer_ie (value : gtp_epc_timer_ie_t) : ie_decoder gtp_epc_timer_ie_t :=
  dec_bytes (
    header ← dcall (decode_ie_header_t IE_HEADER_SIZE);
    timer_unit ← get 3;
    timer_value ← get 5;
    mret (mk_gtp_epc_timer header timer_unit timer_value)).

Definition decode_gtp_csg_id_ie (value : gtp_csg_id_ie_t) : ie_decoder gtp_csg_id_ie_t :=
  dec_bytes (
    header ← dcall (decode_ie_header_t IE_HEADER_SIZE);
    csg_id_spare2 ← get 5;
    csg_id_csg_id ← get 3;
    csg_id_csg_id2 ← get 24;
    mret (mk_gtp_csg_id header csg_id_spare2 csg_id_csg_id csg_id_csg_id2)).

Definition decode_trgt_id_type_extnded_macro_enb (value : trgt_id_type_extnded_macro_enb_t) : ie_decoder trgt_id_type_extnded_macro_enb_t :=
  dec_bits (
    mcc_digit_2 ← get 4;
    mcc_digit_1 ← get 4;
    mnc_digit_3 ← get 4;
    mcc_digit_3 ← get 4;
    mnc_digit_2 ← get 4;
    mnc_digit_1 ← get 4;
    smenb ← get 1;
    spare ← get 2;
    extnded_macro_enb_id_field2 ← get 16;
    tac ← get 16;
    mret (mk_trgt_id_type_extnded_macro_enb mcc_digit_2 mcc_digit_1 mnc_digit_3 mcc_digit_3 mnc_digit_2 mnc_digit_1 smenb spare extnded_macro_enb_id_field2 tac)).

Definition decode_gtp_packet_flow_id_ie (value : gtp_packet_flow_id_ie_t) : ie_decoder gtp_packet_flow_id_ie_t :=
  dec_bytes (
    header ← dcall (decode_ie_header_t IE_HEADER_SIZE);
    packet_flow_id_spare2 ← get 4;
    packet_flow_id_ebi ← get 4;
    packet_flow_id_packet_flow_id ← get 8;
    mret (mk_gtp_packet_flow_id header packet_flow_id_spare2 packet_flow_id_ebi packet_flow_id_packet_flow_id)).

Definition decode_gtp_tmgi_ie (value : gtp_tmgi_ie_t) : ie_decoder gtp_tmgi_ie_t :=
  dec_bytes (
    header ← dcall (decode_ie_header_t IE_HEADER_SIZE);
    tmgi ← get 8;
    mret (mk_gtp_tmgi header tmgi)).

Definition decode_gtp_mntrng_evnt_info_ie (value : gtp_mntrng_evnt_info_ie_t) : ie_decoder gtp_mntrng_evnt_info_ie_t :=
  dec_bytes (
    header ← dcall (decode_ie_header_t IE_HEADER_SIZE);
    scef_ref_id ← get 32;
    scef_id_length ← get 8;
    scef_id ← get 8;
    rem_nbr_of_rpts ← get 16;
    mret (mk_gtp_mntrng_evnt_info header scef_ref_id scef_id_length scef_id rem_nbr_of_rpts)).

Definition decode_gtp_rmt_ue_ip_info_ie (value : gtp_rmt_ue_ip_info_ie_t) : ie_decoder gtp_rmt_ue_ip_info_ie_t :=
  dec_bytes (
    header ← dcall (decode_ie_header_t IE_HEADER_SIZE);
    rmt_ue_ip_info ← get 8;
    mret (mk_gtp_rmt_ue_ip_info header rmt_ue_ip_info)).

Definition decode_ecgi_field (value : ecgi_field_t) : ie_decoder ecgi_field_t :=
  dec_bytes (
    ecgi_mcc_digit_2 ← get 4;
    ecgi_mcc_digit_1 ← get 4;
    ecgi_mnc_digit_3 ← get 4;
    ecgi_mcc_digit_3 ← get 4;
    ecgi_mnc_digit_2 ← get 4;
    ecgi_mnc_digit_1 ← get 4;
    ecgi_spare ← get 4;
    eci ← get 28;
    mret (mk_ecgi_field ecgi_mcc_digit_2 ecgi_mcc_digit_1 ecgi_mnc_digit_3 ecgi_mcc_digit_3 ecgi_mnc_digit_2 ecgi_mnc_digit_1 ecgi_spare eci)).

Definition decode_gtp_bearer_qlty_of_svc_ie (value : gtp_bearer_qlty_of_svc_ie_t) : ie_decoder gtp_bearer_qlty_of_svc_ie_t :=
  dec_bytes (
    header ← dcall (decode_ie_header_t IE_HEADER_SIZE);
    spare2 ← get 1;
    pci ← get 1;
    pl ← get 4;
    spare3 ← get 1;
    pvi ← get 1;
    qci ← get 8;
    max_bit_rate_uplnk ← get 40;
    max_bit_rate_dnlnk ← get 40;
    guarntd_bit_rate_uplnk ← get 40;
    guarntd_bit_rate_dnlnk ← get 40;
    mret (mk_gtp_bearer_qlty_of_svc header spare2 pci pl spare3 pvi qci max_bit_rate_uplnk max_bit_rate_dnlnk guarntd_bit_rate_uplnk guarntd_bit_rate_dnlnk)).

Definition decode_gtp_mapped_ue_usage_type_ie (value : gtp_mapped_ue_usage_type_ie_t) : ie_decoder gtp_mapped_ue_usage_type_ie_t :=
  dec_bytes (
    header ← dcall (decode_ie_header_t IE_HEADER_SIZE);
    mapped_ue_usage_type ← get 16;
    mret (mk_gtp_mapped_ue_usage_type header mapped_ue_usage_type)).

Definition decode_gtp_svc_indctr_ie (value : gtp_svc_indctr_ie_t) : ie_decoder gtp_svc_indctr_ie_t :=
  dec_bytes (
    header ← dcall (decode_ie_header_t IE_HEADER_SIZE);
    svc_indctr ← get 8;
    mret (mk_gtp_svc_indctr header svc_indctr)).

Definition decode_gtp_umts_key_used_cipher_and_quintuplets_ie (value : gtp_umts_key_used_cipher_and_quintuplets_ie_t) : ie_decoder gtp_umts_key_used_cipher_and_quintuplets_ie_t :=
  dec_bytes (
    header ← dcall (decode_ie_header_t IE_HEADER_SIZE);
    security_mode ← get 3;
    spare2 ← get 1;
    drxi ← get 1;
    cksnksi ← get 3;
    nbr_of_quintuplets ← get 3;
    iovi ← get 1;
    gupii ← get 1;
    ugipai ← get 1;
    uambri ← get 1;
    sambri ← get 1;
    spare3 ← get 2;
    used_gprs_intgrty_protctn_algo ← get 3;
    used_cipher ← get 3;
    ck ← getmem_into value.(gtp_umts_key_used_cipher_and_quintuplets_ck) 16;
    ik ← getmem_into value.(gtp_umts_key_used_cipher_and_quintuplets_ik) 16;
    auth_quintuplet ← get 8;
    drx_parameter ← get 16;
    uplnk_subscrbd_ue_ambr ← get 32;
    dnlnk_subscrbd_ue_ambr ← get 32;
    uplnk_used_ue_ambr ← get 32;
    dnlnk_used_ue_ambr ← get 8;
    ue_ntwk_capblty_len ← get 8;
    ue_ntwk_capblty ← get 8;
    ms_ntwk_capblty_len ← get 8;
    ms_ntwk_capblty ← get 8;
    mei_length ← get 8;
    mei ← get 8;
    ecna ← get 1;
    nbna ← get 1;
    hnna ← get 1;
    ena ← get 1;
    ina ← get 1;
    gana ← get 1;
    gena ← get 1;
    una ← get 1;
    vdom_pref_ue_usage_len ← get 8;
    voice_domain_pref_and_ues_usage_setting ← get 8;
    higher_bitrates_flg_len ← get 8;
    higher_bitrates_flg ← get 8;
    iov_updts_cntr ← get 8;
    mret (mk_gtp_umts_key_used_cipher_and_quintuplets header security_mode spare2 drxi cksnksi nbr_of_quintuplets iovi gupii ugipai uambri sambri spare3 used_gprs_intgrty_protctn_algo used_cipher ck ik auth_quintuplet drx_parameter uplnk_subscrbd_ue_ambr dnlnk_subscrbd_ue_ambr uplnk_used_ue_ambr dnlnk_used_ue_ambr ue_ntwk_capblty_len ue_ntwk_capblty ms_ntwk_capblty_len ms_ntwk_capblty mei_length mei ecna nbna hnna ena ina gana gena una vdom_pref_ue_usage_len voice_domain_pref_and_ues_usage_setting higher_bitrates_flg_len higher_bitrates_flg iov_updts_cntr)).

Definition decode_auth_triplet (value : auth_triplet_t) : ie_decoder auth_triplet_t :=
  dec_bits (
    rand ← getmem_into value.(auth_triplet_rand) 16;
    sres ← get 32;
    kc ← get 64;
    mret (mk_auth_triplet rand sres kc)).

Definition decode_gtp_local_distgsd_name_ie (value : gtp_local_distgsd_name_ie_t) : ie_decoder gtp_local_distgsd_name_ie_t :=
  dec_bytes (
    header ← dcall (decode_ie_header_t IE_HEADER_SIZE);
    ldn ← get 8;
    mret (mk_gtp_local_distgsd_name header ldn)).

Definition decode_gtp_csg_info_rptng_act_ie (value : gtp_csg_info_rptng_act_ie_t) : ie_decoder gtp_csg_info_rptng_act_ie_t :=
  dec_bytes (
    header ← dcall (decode_ie_header_t IE_HEADER_SIZE);
    spare2 ← get 5;
    uciuhc ← get 1;
    ucishc ← get 1;
    ucicsg ← get 1;
    mret (mk_gtp_csg_info_rptng_act header spare2 uciuhc ucishc ucicsg)).

Definition decode_gtp_secdry_rat_usage_data_rpt_ie (value : gtp_secdry_rat_usage_data_rpt_ie_t) : ie_decoder gtp_secdry_rat_usage_data_rpt_ie_t :=
  dec_bytes (
    header ← dcall (decode_ie_header_t IE_HEADER_SIZE);
    spare2 ← get 6;
    irsgw ← get 1;
    irpgw ← get 1;
    secdry_rat_type ← get 8;
    spare3 ← get 4;
    ebi ← get 4;
    start_timestamp ← get 8;
    end_timestamp ← get 8;
    usage_data_dl ← get 8;
    usage_data_ul ← get 8;
    mret (mk_gtp_secdry_rat_usage_data_rpt header spare2 irsgw irpgw secdry_rat_type spare3 ebi start_timestamp end_timestamp usage_data_dl usage_data_ul)).

Definition decode_gtp_rat_type_ie (value : gtp_rat_type_ie_t) : ie_decoder gtp_rat_type_ie_t :=
  dec_bytes (
    header ← dcall (decode_ie_header_t IE_HEADER_SIZE);
    rat_type ← get 8;
    mret (mk_gtp_rat_type header rat_type)).

Definition decode_trgt_id_type_macro_enb (value : trgt_id_type_macro_enb_t) : ie_decoder trgt_id_type_macro_enb_t :=
  dec_bits (
    mcc_digit_2 ← get 4;
    mcc_digit_1 ← get 4;
    mnc_digit_3 ← get 4;
    mcc_digit_3 ← get 4;
    mnc_digit_2 ← get 4;
    mnc_digit_1 ← get 4;
    spare ← get 4;
    macro_enb_id_field2 ← get 16;
    tac ← get 16;
    mret (mk_trgt_id_type_macro_enb mcc_digit_2 mcc_digit_1 mnc_digit_3 mcc_digit_3 mnc_digit_2 mnc_digit_1 spare macro_enb_id_field2 tac)).

Definition decode_gtp_global_cn_id_ie (value : gtp_global_cn_id_ie_t) : ie_decoder gtp_global_cn_id_ie_t :=
  dec_bytes (
    header ← dcall (decode_ie_header_t IE_HEADER_SIZE);
    mcc_digit_2 ← get 4;
    mcc_digit_1 ← get 4;
    mnc_digit_3 ← get 4;
    mcc_digit_3 ← get 4;
    mnc_digit_2 ← get 4;
    mnc_digit_1 ← get 4;
    cn ← get 8;
    mret (mk_gtp_global_cn_id header mcc_digit_2 mcc_digit_1 mnc_digit_3 mcc_digit_3 mnc_digit_2 mnc_digit_1 cn)).

Definition decode_gtp_charging_id_ie (value : gtp_charging_id_ie_t) : ie_decoder gtp_charging_id_ie_t :=
  dec_bytes (
    header ← dcall (decode_ie_header_t IE_HEADER_SIZE);
    chrgng_id_val ← get 32;
    mret (mk_gtp_charging_id header chrgng_id_val)).

Definition decode_gtp_counter_ie (value : gtp_counter_ie_t) : ie_decoder gtp_counter_ie_t :=
  dec_bytes (
    header ← dcall (decode_ie_header_t IE_HEADER_SIZE);
    timestamp_value ← get 32;
    counter_value ← get 8;
    mret (mk_gtp_counter header timestamp_value counter_value)).

Definition decode_gtp_serving_network_ie (value : gtp_serving_network_ie_t) : ie_decoder gtp_serving_network_ie_t :=
  dec_bytes (
    header ← dcall (decode_ie_header_t IE_HEADER_SIZE);
    mcc_digit_2 ← get 4;
    mcc_digit_1 ← get 4;
    mnc_digit_3 ← get 4;
    mcc_digit_3 ← get 4;
    mnc_digit_2 ← get 4;
    mnc_digit_1 ← get 4;
    mret (mk_gtp_serving_network header mcc_digit_2 mcc_digit_1 mnc_digit_3 mcc_digit_3 mnc_digit_2 mnc_digit_1)).

Definition decode_gtp_node_identifier_ie (value : gtp_node_identifier_ie_t) : ie_decoder gtp_node_identifier_ie_t :=
  dec_bytes (
    header ← dcall (decode_ie_header_t IE_HEADER_SIZE);
    len_of_node_name ← get 8;
    node_name ← get 8;
    len_of_node_realm ← get 8;
    node_realm ← get 8;
    mret (mk_gtp_node_identifier header len_of_node_name node_name len_of_node_realm node_realm)).

Definition decode_extnded_macro_enb_id_fld (value : extnded_macro_enb_id_fld_t) : ie_decoder extnded_macro_enb_id_fld_t :=
  dec_bytes (
    emenbid_mcc_digit_2 ← get 4;
    emenbid_mcc_digit_1 ← get 4;
    emenbid_mnc_digit_3 ← get 4;
    emenbid_mcc_digit_3 ← get 4;
    emenbid_mnc_digit_2 ← get 4;
    emenbid_mnc_digit_1 ← get 4;
    emenbid_smenb ← get 1;
    emenbid_spare ← get 2;
    emenbid_extnded_macro_enb_id ← get 5;
    emenbid_extnded_macro_enb_id2 ← get 16;
    mret (mk_extnded_macro_enb_id_fld emenbid_mcc_digit_2 emenbid_mcc_digit_1 emenbid_mnc_digit_3 emenbid_mcc_digit_3 emenbid_mnc_digit_2 emenbid_mnc_digit_1 emenbid_smenb emenbid_spare emenbid_extnded_macro_enb_id emenbid_extnded_macro_enb_id2)).

Definition decode_gtp_trc_info_ie (value : gtp_trc_info_ie_t) : ie_decoder gtp_trc_info_ie_t :=
  dec_bytes (
    header ← dcall (decode_ie_header_t IE_HEADER_SIZE);
    mcc_digit_2 ← get 4;
    mcc_digit_1 ← get 4;
    mnc_digit_3 ← get 4;
    mcc_digit_3 ← get 4;
    mnc_digit_2 ← get 4;
    mnc_digit_1 ← get 4;
    trace_id ← get 24;
    trigrng_evnts ← getmem_into value.(gtp_trc_info_trigrng_evnts) 9;
    list_of_ne_types ← get 16;
    sess_trc_depth ← get 8;
    list_of_intfcs ← getmem_into value.(gtp_trc_info_list_of_intfcs) 12;
    ip_addr_of_trc_coll_entity ← get 8;
    mret (mk_gtp_trc_info header mcc_digit_2 mcc_digit_1 mnc_digit_3 mcc_digit_3 mnc_digit_2 mnc_digit_1 trace_id trigrng_evnts list_of_ne_types sess_trc_depth list_of_intfcs ip_addr_of_trc_coll_entity)).

Definition decode_gtp_mbms_ip_multcst_dist_ie (value : gtp_mbms_ip_multcst_dist_ie_t) : ie_decoder gtp_mbms_ip_multcst_dist_ie_t :=
  dec_bytes (
    header ← dcall (decode_ie_header_t IE_HEADER_SIZE);
    cmn_tunn_endpt_idnt ← get 32;
    address_type ← get 2;
    address_length ← get 6;
    ip_multcst_dist_addr ← get 8;
    address_type2 ← get 2;
    address_length2 ← get 6;
    ip_multcst_src_addr ← get 8;
    mbms_hc_indctr ← get 8;
    mret (mk_gtp_mbms_ip_multcst_dist header cmn_tunn_endpt_idnt address_type address_length ip_multcst_dist_addr address_type2 address_length2 ip_multcst_src_addr mbms_hc_indctr)).

Definition decode_gtp_full_qual_cntnr_ie (value : gtp_full_qual_cntnr_ie_t) : ie_decoder gtp_full_qual_cntnr_ie_t :=
  dec_bytes (
    header ← dcall (decode_ie_header_t IE_HEADER_SIZE);
    spare2 ← get 4;
    container_type ← get 4;
    fcontainer_fld ← get 8;
    mret (mk_gtp_full_qual_cntnr header spare2 container_type fcontainer_fld)).

Definition decode_gtp_mbms_data_xfer_abs_time_ie (value : gtp_mbms_data_xfer_abs_time_ie_t) : ie_decoder gtp_mbms_data_xfer_abs_time_ie_t :=
  dec_bytes (
    header ← dcall (decode_ie_header_t IE_HEADER_SIZE);
    mbms_data_xfer_abs_time_val_prt ← get 64;
    mret (mk_gtp_mbms_data_xfer_abs_time header mbms_data_xfer_abs_time_val_prt)).

Definition decode_auth_quadruplet (value : auth_quadruplet_t) : ie_decoder auth_quadruplet_t :=
  dec_bits (
    rand ← getmem_into value.(auth_quadruplet_rand) 16;
    xres_length ← get 8;
    xres ← get 8;
    autn_length ← get 8;
    autn ← get 8;
    kasme ← getmem_into value.(auth_quadruplet_kasme) 32;
    mret (mk_auth_quadruplet rand xres_length xres autn_length autn kasme)).

Definition decode_gtp_gsm_key_used_cipher_and_quintuplets_ie (value : gtp_gsm_key_used_cipher_and_quintuplets_ie_t) : ie_decoder gtp_gsm_key_used_cipher_and_quintuplets_ie_t :=
  dec_bytes (
    header ← dcall (decode_ie_header_t IE_HEADER_SIZE);
    security_mode ← get 3;
    spare2 ← get 1;
    drxi ← get 1;
    cksnksi ← get 3;
    nbr_of_quintuplets ← get 3;
    spare3 ← get 3;
    uambri ← get 1;
    sambri ← get 1;
    spare4 ← get 5;
    used_cipher ← get 3;
    kc ← get 64;
    auth_quintuplets ← get 8;
    drx_parameter ← get 16;
    uplnk_subscrbd_ue_ambr ← get 32;
    dnlnk_subscrbd_ue_ambr ← get 32;
    uplnk_used_ue_ambr ← get 32;
    dnlnk_used_ue_ambr ← get 32;
    ue_ntwk_capblty_len ← get 8;
    ue_ntwk_capblty ← get 8;
    ms_ntwk_capblty_len ← get 8;
    ms_ntwk_capblty ← get 8;
    mei_length ← get 8;
    mei ← get 8;
    ecna ← get 1;
    nbna ← get 1;
    hnna ← get 1;
    ena ← get 1;
    ina ← get 1;
    gana ← get 1;
    gena ← get 1;
    una ← get 1;
    vdom_pref_ue_usage_len ← get 8;
    voice_domain_pref_and_ues_usage_setting ← get 8;
    higher_bitrates_flg_len ← get 8;
    higher_bitrates_flg ← get 8;
    mret (mk_gtp_gsm_key_used_cipher_and_quintuplets header security_mode spare2 drxi cksnksi nbr_of_quintuplets spare3 uambri sambri spare4 used_cipher kc auth_quintuplets drx_parameter uplnk_subscrbd_ue_ambr dnlnk_subscrbd_ue_ambr uplnk_used_ue_ambr dnlnk_used_ue_ambr ue_ntwk_capblty_len ue_ntwk_capblty ms_ntwk_capblty_len ms_ntwk_capblty mei_length mei ecna nbna hnna ena ina gana gena una vdom_pref_ue_usage_len voice_domain_pref_and_ues_usage_setting higher_bitrates_flg_len higher_bitrates_flg)).

Definition decode_gtp_twan_idnt_ts_ie (value : gtp_twan_idnt_ts_ie_t) : ie_decoder gtp_twan_idnt_ts_ie_t :=
  dec_bytes (
    header ← dcall (decode_ie_header_t IE_HEADER_SIZE);
    twan_idnt_ts_val ← get 8;
    mret (mk_gtp_twan_idnt_ts header twan_idnt_ts_val)).

Definition decode_gtp_tmsi_ie (value : gtp_tmsi_ie_t) : ie_decoder gtp_tmsi_ie_t :=
  dec_bytes (
    header ← dcall (decode_ie_header_t IE_HEADER_SIZE);
    tmsi ← get 8;
    mret (mk_gtp_tmsi header tmsi)).

Definition decode_gtp_pdn_addr_alloc_ie (value : gtp_pdn_addr_alloc_ie_t) : ie_decoder gtp_pdn_addr_alloc_ie_t :=
  dec_bytes (
    header ← dcall (decode_ie_header_t IE_HEADER_SIZE);
    spare2 ← get 5;
    pdn_type ← get 3;
    pdn_addr_and_pfx ← getmem_into value.(gtp_pdn_addr_alloc_pdn_addr_and_pfx) (header.(gie_len) - 1);
    mret (mk_gtp_pdn_addr_alloc header spare2 pdn_type pdn_addr_and_pfx)).

Definition decode_gtp_twan_identifier_ie (value : gtp_twan_identifier_ie_t) : ie_decoder gtp_twan_identifier_ie_t :=
  dec_bytes (
    header ← dcall (decode_ie_header_t IE_HEADER_SIZE);
    spare2 ← get 3;
    laii ← get 1;
    opnai ← get 1;
    plmni ← get 1;
    civai ← get 1;
    bssidi ← get 2;
    ssid_length ← get 8;
    ssid ← get 8;
    bssid ← get 48;
    civic_addr_len ← get 8;
    civic_addr_info ← get 8;
    twan_plmn_id ← get 24;
    twan_oper_name_len ← get 8;
    twan_oper_name ← get 8;
    rly_idnty_type ← get 8;
    rly_idnty_len ← get 8;
    relay_identity ← get 8;
    circuit_id_len ← get 8;
    circuit_id ← get 8;
    mret (mk_gtp_twan_identifier header spare2 laii opnai plmni civai bssidi ssid_length ssid bssid civic_addr_len civic_addr_info twan_plmn_id twan_oper_name_len twan_oper_name rly_idnty_type rly_idnty_len relay_identity circuit_id_len circuit_id)).

Definition decode_cgi_field (value : cgi_field_t) : ie_decoder cgi_field_t :=
  dec_bytes (
    cgi_mcc_digit_2 ← get 4;
    cgi_mcc_digit_1 ← get 4;
    cgi_mnc_digit_3 ← get 4;
    cgi_mcc_digit_3 ← get 4;
    cgi_mnc_digit_2 ← get 4;
    cgi_mnc_digit_1 ← get 4;
    cgi_lac ← get 16;
    cgi_ci ← get 16;
    mret (mk_cgi_field cgi_mcc_digit_2 cgi_mcc_digit_1 cgi_mnc_digit_3 cgi_mcc_digit_3 cgi_mnc_digit_2 cgi_mnc_digit_1 cgi_lac cgi_ci)).

Definition decode_gtp_ptmsi_ie (value : gtp_ptmsi_ie_t) : ie_decoder gtp_ptmsi_ie_t :=
  dec_bytes (
    header ← dcall (decode_ie_header_t IE_HEADER_SIZE);
    ptmsi ← get 8;
    mret (mk_gtp_ptmsi header ptmsi)).

Definition decode_gtp_node_type_ie (value : gtp_node_type_ie_t) : ie_decoder gtp_node_type_ie_t :=
  dec_bytes (
    header ← dcall (decode_ie_header_t IE_HEADER_SIZE);
    node_type ← get 8;
    mret (mk_gtp_node_type header node_type)).

Definition decode_gtp_user_csg_info_ie (value : gtp_user_csg_info_ie_t) : ie_decoder gtp_user_csg_info_ie_t :=
  dec_bytes (
    header ← dcall (decode_ie_header_t IE_HEADER_SIZE);
    mcc_digit_2 ← get 4;
    mcc_digit_1 ← get 4;
    mnc_digit_3 ← get 4;
    mcc_digit_3 ← get 4;
    mnc_digit_2 ← get 4;
    mnc_digit_1 ← get 4;
    spare2 ← get 5;
    csg_id2 ← get 24;
    access_mode ← get 2;
    spare3 ← get 4;
    lcsg ← get 1;
    cmi ← get 1;
    mret (mk_gtp_user_csg_info header mcc_digit_2 mcc_digit_1 mnc_digit_3 mcc_digit_3 mnc_digit_2 mnc_digit_1 spare2 csg_id2 access_mode spare3 lcsg cmi)).

Definition decode_gtp_integer_number_ie (value : gtp_integer_number_ie_t) : ie_decoder gtp_integer_number_ie_t :=
  dec_bytes (
    header ← dcall (decode_ie_header_t IE_HEADER_SIZE);
    int_nbr_val ← get 8;
    mret (mk_gtp_integer_number header int_nbr_val)).

Definition decode_gtp_mbms_sess_dur_ie (value : gtp_mbms_sess_dur_ie_t) : ie_decoder gtp_mbms_sess_dur_ie_t :=
  dec_bytes (
    header ← dcall (decode_ie_header_t IE_HEADER_SIZE);
    mbms_sess_dur ← get 24;
    mret (mk_gtp_mbms_sess_dur header mbms_sess_dur)).

Definition decode_gtp_msisdn_ie (value : gtp_msisdn_ie_t) : ie_decoder gtp_msisdn_ie_t :=
  dec_bytes (
    header ← dcall (decode_ie_header_t IE_HEADER_SIZE);
    mem ← getmem_over (le_bytes 8 value.(gtp_msisdn_msisdn_number_digits)) header.(gie_len);
    _ ← advance (header.(gie_len) * 8);
    mret (mk_gtp_msisdn header (of_le_bytes mem))).

Definition decode_gtp_metric_ie (value : gtp_metric_ie_t) : ie_decoder gtp_metric_ie_t :=
  dec_bytes (
    header ← dcall (decode_ie_header_t IE_HEADER_SIZE);
    metric ← get 8;
    mret (mk_gtp_metric header metric)).

Definition decode_gtp_bearer_context_ie (value : gtp_bearer_context_ie_t) : ie_decoder gtp_bearer_context_ie_t :=
  dec_bytes (
    header ← dcall (decode_ie_header_t IE_HEADER_SIZE);
    bearer_context ← getmem_into value.(gtp_bearer_context_bearer_context) 8;
    mret (mk_gtp_bearer_context header bearer_context)).

Definition decode_gtp_ciot_optim_supp_indctn_ie (value : gtp_ciot_optim_supp_indctn_ie_t) : ie_decoder gtp_ciot_optim_supp_indctn_ie_t :=
  dec_bytes (
    header ← dcall (decode_ie_header_t IE_HEADER_SIZE);
    spare2 ← get 1;
    spare3 ← get 1;
    spare4 ← get 1;
    spare5 ← get 1;
    ihcsi ← get 1;
    awopdn ← get 1;
    scnipdn ← get 1;
    sgnipdn ← get 1;
    mret (mk_gtp_ciot_optim_supp_indctn header spare2 spare3 spare4 spare5 ihcsi awopdn scnipdn sgnipdn)).

Definition decode_gtp_pdu_numbers_ie (value : gtp_pdu_numbers_ie_t) : ie_decoder gtp_pdu_numbers_ie_t :=
  dec_bytes (
    header ← dcall (decode_ie_header_t IE_HEADER_SIZE);
    spare2 ← get 4;
    nsapi ← get 4;
    dl_gtpu_seqn_nbr ← get 8;
    ul_gtpu_seqn_nbr ← get 8;
    snd_npdu_nbr ← get 8;
    rcv_npdu_nbr ← get 8;
    mret (mk_gtp_pdu_numbers header spare2 nsapi dl_gtpu_seqn_nbr ul_gtpu_seqn_nbr snd_npdu_nbr rcv_npdu_nbr)).

Definition decode_gtp_rab_context_ie (value : gtp_rab_context_ie_t) : ie_decoder gtp_rab_context_ie_t :=
  dec_bytes (
    header ← dcall (decode_ie_header_t IE_HEADER_SIZE);
    spare2 ← get 4;
    nsapi ← get 4;
    dl_gtpu_seqn_nbr ← get 16;
    ul_gtpu_seqn_nbr ← get 16;
    dl_pdcp_seqn_nbr ← get 16;
    ul_pdcp_seqn_nbr ← get 16;
    mret (mk_gtp_rab_context header spare2 nsapi dl_gtpu_seqn_nbr ul_gtpu_seqn_nbr dl_pdcp_seqn_nbr ul_pdcp_seqn_nbr)).

Definition decode_gtp_addtl_flgs_srvcc_ie (value : gtp_addtl_flgs_srvcc_ie_t) : ie_decoder gtp_addtl_flgs_srvcc_ie_t :=
  dec_bytes (
    header ← dcall (decode_ie_header_t IE_HEADER_SIZE);
    spare2 ← get 6;
    vf ← get 1;
    ics ← get 1;
    mret (mk_gtp_addtl_flgs_srvcc header spare2 vf ics)).

Definition decode_gtp_gsm_key_and_triplets_ie (value : gtp_gsm_key_and_triplets_ie_t) : ie_decoder gtp_gsm_key_and_triplets_ie_t :=
  dec_bytes (
    header ← dcall (decode_ie_header_t IE_HEADER_SIZE);
    security_mode ← get 3;
    spare2 ← get 1;
    drxi ← get 1;
    cksn ← get 3;
    nbr_of_triplet ← get 3;
    spare3 ← get 3;
    uambri ← get 1;
    sambri ← get 1;
    spare4 ← get 5;
    used_cipher ← get 3;
    kc ← get 64;
    auth_triplet ← get 8;
    drx_parameter ← get 16;
    uplnk_subscrbd_ue_ambr ← get 32;
    dnlnk_subscrbd_ue_ambr ← get 32;
    uplnk_used_ue_ambr ← get 32;
    dnlnk_used_ue_ambr ← get 32;
    ue_ntwk_capblty_len ← get 8;
    ue_ntwk_capblty ← get 8;
    ms_ntwk_capblty_len ← get 8;
    ms_ntwk_capblty ← get 8;
    mei_length ← get 8;
    mei ← get 8;
    ecna ← get 1;
    nbna ← get 1;
    hnna ← get 1;
    ena ← get 1;
    ina ← get 1;
    gana ← get 1;
    gena ← get 1;
    una ← get 1;
    vdom_pref_ue_usage_len ← get 8;
    voice_domain_pref_and_ues_usage_setting ← get 8;
    mret (mk_gtp_gsm_key_and_triplets header security_mode spare2 drxi cksn nbr_of_triplet spare3 uambri sambri spare4 used_cipher kc auth_triplet drx_parameter uplnk_subscrbd_ue_ambr dnlnk_subscrbd_ue_ambr uplnk_used_ue_ambr dnlnk_used_ue_ambr ue_ntwk_capblty_len ue_ntwk_capblty ms_ntwk_capblty_len ms_ntwk_capblty mei_length mei ecna nbna hnna ena ina gana gena una vdom_pref_ue_usage_len voice_domain_pref_and_ues_usage_setting)).

Definition decode_gtp_node_number_ie (value : gtp_node_number_ie_t) : ie_decoder gtp_node_number_ie_t :=
  dec_bytes (
    header ← dcall (decode_ie_header_t IE_HEADER_SIZE);
    len_of_node_nbr ← get 8;
    node_number ← get 8;
    mret (mk_gtp_node_number header len_of_node_nbr node_number)).

Definition decode_gtp_load_ctl_info_ie (value : gtp_load_ctl_info_ie_t) : ie_decoder gtp_load_ctl_info_ie_t :=
  dec_bytes (
    header ← dcall (decode_ie_header_t IE_HEADER_SIZE);
    load_control_information ← getmem_into value.(gtp_load_ctl_info_load_control_information) 8;
    mret (mk_gtp_load_ctl_info header load_control_information)).

Definition decode_gtp_rmt_ue_ctxt_ie (value : gtp_rmt_ue_ctxt_ie_t) : ie_decoder gtp_rmt_ue_ctxt_ie_t :=
  dec_bytes (
    header ← dcall (decode_ie_header_t IE_HEADER_SIZE);
    remote_ue_context ← getmem_into value.(gtp_rmt_ue_ctxt_remote_ue_context) 8;
    mret (mk_gtp_rmt_ue_ctxt header remote_ue_context)).

Definition decode_gtp_full_qual_cause_ie (value : gtp_full_qual_cause_ie_t) : ie_decoder gtp_full_qual_cause_ie_t :=
  dec_bytes (
    header ← dcall (decode_ie_header_t IE_HEADER_SIZE);
    spare2 ← get 4;
    cause_type ← get 4;
    fcause_field ← get 8;
    mret (mk_gtp_full_qual_cause header spare2 cause_type fcause_field)).

Definition decode_gtp_indication_ie (value : gtp_indication_ie_t) : ie_decoder gtp_indication_ie_t :=
  dec_bytes (
    header ← dcall (decode_ie_header_t IE_HEADER_SIZE);
    let indic_len := u8 header.(gie_len) in
    '(indication_daf, indication_dtf, indication_hi, indication_dfi, indication_oi, indication_isrsi, indication_israi, indication_sgwci) ← dec_when ((indic_len =? 1) || (1 <? indic_len)) (
        indication_daf ← get 1;
        indication_dtf ← get 1;
        indication_hi ← get 1;
        indication_dfi ← get 1;
        indication_oi ← get 1;
        indication_isrsi ← get 1;
        indication_israi ← get 1;
        indication_sgwci ← get 1;
        mret (indication_daf, indication_dtf, indication_hi, indication_dfi, indication_oi, indication_isrsi, indication_israi, indication_sgwci)) (value.(gtp_indication_indication_daf), value.(gtp_indication_indication_dtf), value.(gtp_indication_indication_hi), value.(gtp_indication_indication_dfi), value.(gtp_indication_indication_oi), value.(gtp_indication_indication_isrsi), value.(gtp_indication_indication_israi), value.(gtp_indication_indication_sgwci));
    '(indication_sqci, indication_uimsi, indication_cfsi, indication_crsi, indication_p, indication_pt, indication_si, indication_msv) ← dec_when ((indic_len =? 2) || (2 <? indic_len)) (
        indication_sqci ← get 1;
        indication_uimsi ← get 1;
        indication_cfsi ← get 1;
        indication_crsi ← get 1;
        indication_p ← get 1;
        indication_pt ← get 1;
        indication_si ← get 1;
        indication_msv ← get 1;
        mret (indication_sqci, indication_uimsi, indication_cfsi, indication_crsi, indication_p, indication_pt, indication_si, indication_msv)) (value.(gtp_indication_indication_sqci), value.(gtp_indication_indication_uimsi), value.(gtp_indication_indication_cfsi), value.(gtp_indication_indication_crsi), value.(gtp_indication_indication_p), value.(gtp_indication_indication_pt), value.(gtp_indication_indication_si), value.(gtp_indication_indication_msv));
    '(indication_retloc, indication_pbic, indication_srni, indication_s6af, indication_s4af, indication_mbmdt, indication_israu, indication_ccrsi) ← dec_when ((indic_len =? 3) || (3 <? indic_len)) (
        indication_retloc ← get 1;
        indication_pbic ← get 1;
        indication_srni ← get 1;
        indication_s6af ← get 1;
        indication_s4af ← get 1;
        indication_mbmdt ← get 1;
        indication_israu ← get 1;
        indication_ccrsi ← get 1;
        mret (indication_retloc, indication_pbic, indication_srni, indication_s6af, indication_s4af, indication_mbmdt, indication_israu, indication_ccrsi)) (value.(gtp_indication_indication_retloc), value.(gtp_indication_indication_pbic), value.(gtp_indication_indication_srni), value.(gtp_indication_indication_s6af), value.(gtp_indication_indication_s4af), value.(gtp_indication_indication_mbmdt), value.(gtp_indication_indication_israu), value.(gtp_indication_indication_ccrsi));
    '(indication_cprai, indication_arrl, indication_ppof, indication_ppon_ppei, indication_ppsi, indication_csfbi, indication_clii, indication_cpsr) ← dec_when ((indic_len =? 4) || (4 <? indic_len)) (
        indication_cprai ← get 1;
        indication_arrl ← get 1;
        indication_ppof ← get 1;
        indication_ppon_ppei ← get 1;
        indication_ppsi ← get 1;
        indication_csfbi ← get 1;
        indication_clii ← get 1;
        indication_cpsr ← get 1;
        mret (indication_cprai, indication_arrl, indication_ppof, indication_ppon_ppei, indication_ppsi, indication_csfbi, indication_clii, indication_cpsr)) (value.(gtp_indication_indication_cprai), value.(gtp_indication_indication_arrl), value.(gtp_indication_indication_ppof), value.(gtp_indication_indication_ppon_ppei), value.(gtp_indication_indication_ppsi), value.(gtp_indication_indication_csfbi), value.(gtp_indication_indication_clii), value.(gtp_indication_indication_cpsr));
    '(indication_nsi, indication_uasi, indication_dtci, indication_bdwi, indication_psci, indication_pcri, indication_aosi, indication_aopi) ← dec_when ((indic_len =? 5) || (5 <? indic_len)) (
        indication_nsi ← get 1;
        indication_uasi ← get 1;
        indication_dtci ← get 1;
        indication_bdwi ← get 1;
        indication_psci ← get 1;
        indication_pcri ← get 1;
        indication_aosi ← get 1;
        indication_aopi ← get 1;
        mret (indication_nsi, indication_uasi, indication_dtci, indication_bdwi, indication_psci, indication_pcri, indication_aosi, indication_aopi)) (value.(gtp_indication_indication_nsi), value.(gtp_indication_indication_uasi), value.(gtp_indication_indication_dtci), value.(gtp_indication_indication_bdwi), value.(gtp_indication_indication_psci), value.(gtp_indication_indication_pcri), value.(gtp_indication_indication_aosi), value.(gtp_indication_indication_aopi));
    '(indication_roaai, indication_epcosi, indication_cpopci, indication_pmtsmi, indication_s11tf, indication_pnsi, indication_unaccsi, indication_wpmsi) ← dec_when ((indic_len =? 6) || (6 <? indic_len)) (
        indication_roaai ← get 1;
        indication_epcosi ← get 1;
        indication_cpopci ← get 1;
        indication_pmtsmi ← get 1;
        indication_s11tf ← get 1;
        indication_pnsi ← get 1;
        indication_unaccsi ← get 1;
        indication_wpmsi ← get 1;
        mret (indication_roaai, indication_epcosi, indication_cpopci, indication_pmtsmi, indication_s11tf, indication_pnsi, indication_unaccsi, indication_wpmsi)) (value.(gtp_indication_indication_roaai), value.(gtp_indication_indication_epcosi), value.(gtp_indication_indication_cpopci), value.(gtp_indication_indication_pmtsmi), value.(gtp_indication_indication_s11tf), value.(gtp_indication_indication_pnsi), value.(gtp_indication_indication_unaccsi), value.(gtp_indication_indication_wpmsi));
    '(indication_spare2, indication_spare3, indication_spare4, indication_eevrsi, indication_ltemui, indication_ltempi, indication_enbcrsi, indication_tspcmi) ← dec_when (indic_len =? 7) (
        indication_spare2 ← get 1;
        indication_spare3 ← get 1;
        indication_spare4 ← get 1;
        indication_eevrsi ← get 1;
        indication_ltemui ← get 1;
        indication_ltempi ← get 1;
        indication_enbcrsi ← get 1;
        indication_tspcmi ← get 1;
        mret (indication_spare2, indication_spare3, indication_spare4, indication_eevrsi, indication_ltemui, indication_ltempi, indication_enbcrsi, indication_tspcmi)) (value.(gtp_indication_indication_spare2), value.(gtp_indication_indication_spare3), value.(gtp_indication_indication_spare4), value.(gtp_indication_indication_eevrsi), value.(gtp_indication_indication_ltemui), value.(gtp_indication_indication_ltempi), value.(gtp_indication_indication_enbcrsi), value.(gtp_indication_indication_tspcmi));
    mret (mk_gtp_indication header indication_daf indication_dtf indication_hi indication_dfi indication_oi indication_isrsi indication_israi indication_sgwci indication_sqci indication_uimsi indication_cfsi indication_crsi indication_p indication_pt indication_si indication_msv indication_retloc indication_pbic indication_srni indication_s6af indication_s4af indication_mbmdt indication_israu indication_ccrsi indication_cprai indication_arrl indication_ppof indication_ppon_ppei indication_ppsi indication_csfbi indication_clii indication_cpsr indication_nsi indication_uasi indication_dtci indication_bdwi indication_psci indication_pcri indication_aosi indication_aopi indication_roaai indication_epcosi indication_cpopci indication_pmtsmi indication_s11tf indication_pnsi indication_unaccsi indication_wpmsi indication_spare2 indication_spare3 indication_spare4 indication_eevrsi indication_ltemui indication_ltempi indication_enbcrsi indication_tspcmi)).

Definition decode_gtp_ipv4_cfg_parms_ie (value : gtp_ipv4_cfg_parms_ie_t) : ie_decoder gtp_ipv4_cfg_parms_ie_t :=
  dec_bytes (
    header ← dcall (decode_ie_header_t IE_HEADER_SIZE);
    subnet_pfx_len ← get 8;
    ipv4_dflt_rtr_addr ← get 32;
    mret (mk_gtp_ipv4_cfg_parms header subnet_pfx_len ipv4_dflt_rtr_addr)).

Definition decode_gtp_trace_reference_ie (value : gtp_trace_reference_ie_t) : ie_decoder gtp_trace_reference_ie_t :=
  dec_bytes (
    header ← dcall (decode_ie_header_t IE_HEADER_SIZE);
    mcc_digit_2 ← get 4;
    mcc_digit_1 ← get 4;
    mnc_digit_3 ← get 4;
    mcc_digit_3 ← get 4;
    mnc_digit_2 ← get 4;
    mnc_digit_1 ← get 4;
    trace_id ← get 24;
    mret (mk_gtp_trace_reference header mcc_digit_2 mcc_digit_1 mnc_digit_3 mcc_digit_3 mnc_digit_2 mnc_digit_1 trace_id)).

Definition decode_gtp_node_features_ie (value : gtp_node_features_ie_t) : ie_decoder gtp_node_features_ie_t :=
  dec_bytes (
    header ← dcall (decode_ie_header_t IE_HEADER_SIZE);
    sup_feat ← get 8;
    mret (mk_gtp_node_features header sup_feat)).

Definition decode_gtp_remote_user_id_ie (value : gtp_remote_user_id_ie_t) : ie_decoder gtp_remote_user_id_ie_t :=
  dec_bytes (
    header ← dcall (decode_ie_header_t IE_HEADER_SIZE);
    spare2 ← get 6;
    imeif ← get 1;
    msisdnf ← get 1;
    length_of_imsi ← get 8;
    len_of_msisdn ← get 8;
    length_of_imei ← get 8;
    imei ← get 8;
    mret (mk_gtp_remote_user_id header spare2 imeif msisdnf length_of_imsi len_of_msisdn length_of_imei imei)).

Definition decode_gtp_fqcsid_ie (value : gtp_fqcsid_ie_t) : ie_decoder gtp_fqcsid_ie_t :=
  dec_bytes (
    header ← dcall (decode_ie_header_t IE_HEADER_SIZE);
    node_id_type ← get 4;
    number_of_csids ← get 4;
    node_address ← get 32;
    pdn_csid ← get_each (Z.to_nat number_of_csids) 0 16 value.(gtp_fqcsid_pdn_csid);
    mret (mk_gtp_fqcsid header node_id_type number_of_csids node_address pdn_csid)).

Definition decode_gtp_port_number_ie (value : gtp_port_number_ie_t) : ie_decoder gtp_port_number_ie_t :=
  dec_bytes (
    header ← dcall (decode_ie_header_t IE_HEADER_SIZE);
    port_number ← get 16;
    mret (mk_gtp_port_number header port_number)).

Definition decode_gtp_addtl_mm_ctxt_srvcc_ie (value : gtp_addtl_mm_ctxt_srvcc_ie_t) : ie_decoder gtp_addtl_mm_ctxt_srvcc_ie_t :=
  dec_bytes (
    header ← dcall (decode_ie_header_t IE_HEADER_SIZE);
    ms_classmark_2_len ← get 8;
    ms_classmark_2 ← get 8;
    ms_classmark_3_len ← get 8;
    ms_classmark_3 ← get 8;
    sup_codec_list_len ← get 8;
    sup_codec_list ← get 8;
    mret (mk_gtp_addtl_mm_ctxt_srvcc header ms_classmark_2_len ms_classmark_2 ms_classmark_3_len ms_classmark_3 sup_codec_list_len sup_codec_list)).

Definition decode_gtp_act_indctn_ie (value : gtp_act_indctn_ie_t) : ie_decoder gtp_act_indctn_ie_t :=
  dec_bytes (
    header ← dcall (decode_ie_header_t IE_HEADER_SIZE);
    spare2 ← get 5;
    mret (mk_gtp_act_indctn header spare2)).

Definition decode_gtp_plmn_id_ie (value : gtp_plmn_id_ie_t) : ie_decoder gtp_plmn_id_ie_t :=
  dec_bytes (
    header ← dcall (decode_ie_header_t IE_HEADER_SIZE);
    mcc_digit_2 ← get 4;
    mcc_digit_1 ← get 4;
    mnc_digit_1 ← get 4;
    mcc_digit_3 ← get 4;
    mnc_digit_3 ← get 4;
    mnc_digit_2 ← get 4;
    mret (mk_gtp_plmn_id header mcc_digit_2 mcc_digit_1 mnc_digit_1 mcc_digit_3 mnc_digit_3 mnc_digit_2)).

Definition decode_gtp_mbms_flow_idnt_ie (value : gtp_mbms_flow_idnt_ie_t) : ie_decoder gtp_mbms_flow_idnt_ie_t :=
  dec_bytes (
    header ← dcall (decode_ie_header_t IE_HEADER_SIZE);
    mbms_flow_id ← get 16;
    mret (mk_gtp_mbms_flow_idnt header mbms_flow_id)).

Definition decode_gtp_hdr_comp_cfg_ie (value : gtp_hdr_comp_cfg_ie_t) : ie_decoder gtp_hdr_comp_cfg_ie_t :=
  dec_bytes (
    header ← dcall (decode_ie_header_t IE_HEADER_SIZE);
    rohc_profiles ← get 16;
    max_cid ← get 16;
    mret (mk_gtp_hdr_comp_cfg header rohc_profiles max_cid)).

Definition decode_gtp_sgnllng_priority_indctn_ie (value : gtp_sgnllng_priority_indctn_ie_t) : ie_decoder gtp_sgnllng_priority_indctn_ie_t :=
  dec_bytes (
    header ← dcall (decode_ie_header_t IE_HEADER_SIZE);
    spare2 ← get 7;
    lapi ← get 1;
    mret (mk_gtp_sgnllng_priority_indctn header spare2 lapi)).

Definition decode_gtp_cause_ie (value : gtp_cause_ie_t) : ie_decoder gtp_cause_ie_t :=
  dec_bytes (
    header ← dcall (decode_ie_header_t IE_HEADER_SIZE);
    cause_value ← get 8;
    spare2 ← get 5;
    pce ← get 1;
    bce ← get 1;
    cs ← get 1;
    '(offend_ie_type, offend_ie_len, spareinstance) ← dec_when (negb (header.(gie_len) =? 2)) (
        offend_ie_type ← get 8;
        offend_ie_len ← get 16;
        spareinstance ← get 8;
        mret (offend_ie_type, offend_ie_len, spareinstance)) (value.(gtp_cause_offend_ie_type), value.(gtp_cause_offend_ie_len), value.(gtp_cause_spareinstance));
    mret (mk_gtp_cause header cause_value spare2 pce bce cs offend_ie_type offend_ie_len spareinstance)).

Definition decode_gtp_mbms_time_to_data_xfer_ie (value : gtp_mbms_time_to_data_xfer_ie_t) : ie_decoder gtp_mbms_time_to_data_xfer_ie_t :=
  dec_bytes (
    header ← dcall (decode_ie_header_t IE_HEADER_SIZE);
    mbms_time_to_data_xfer_val_prt ← get 8;
    mret (mk_gtp_mbms_time_to_data_xfer header mbms_time_to_data_xfer_val_prt)).

Definition decode_gtp_addtl_prot_cfg_opts_ie (value : gtp_addtl_prot_cfg_opts_ie_t) : ie_decoder gtp_addtl_prot_cfg_opts_ie_t :=
  dec_header_len (fun x => x.(gtp_addtl_prot_cfg_opts_header)) (
    header ← dcall (decode_ie_header_t IE_HEADER_SIZE);
    apco ← get 8;
    mret (mk_gtp_addtl_prot_cfg_opts header apco)).

Definition decode_gtp_trgt_id_ie (value : gtp_trgt_id_ie_t) : ie_decoder gtp_trgt_id_ie_t :=
  dec_bytes (
    header ← dcall (decode_ie_header_t IE_HEADER_SIZE);
    target_type ← get 8;
    target_id ← get 8;
    mret (mk_gtp_trgt_id header target_type target_id)).

Definition decode_gtp_mbms_flags_ie (value : gtp_mbms_flags_ie_t) : ie_decoder gtp_mbms_flags_ie_t :=
  dec_bytes (
    header ← dcall (decode_ie_header_t IE_HEADER_SIZE);
    spare2 ← get 6;
    lmri ← get 1;
    msri ← get 1;
    mret (mk_gtp_mbms_flags header spare2 lmri msri)).

Definition decode_gtp_trans_idnt_ie (value : gtp_trans_idnt_ie_t) : ie_decoder gtp_trans_idnt_ie_t :=
  dec_bytes (
    header ← dcall (decode_ie_header_t IE_HEADER_SIZE);
    trans_idnt ← get 8;
    mret (mk_gtp_trans_idnt header trans_idnt)).

Definition decode_trgt_id_type_home_enb (value : trgt_id_type_home_enb_t) : ie_decoder trgt_id_type_home_enb_t :=
  dec_bits (
    mcc_digit_2 ← get 4;
    mcc_digit_1 ← get 4;
    mnc_digit_3 ← get 4;
    mcc_digit_3 ← get 4;
    mnc_digit_2 ← get 4;
    mnc_digit_1 ← get 4;
    spare ← get 4;
    home_enodeb_id ← get 4;
    home_enodeb_id2 ← get 24;
    tac ← get 16;
    mret (mk_trgt_id_type_home_enb mcc_digit_2 mcc_digit_1 mnc_digit_3 mcc_digit_3 mnc_digit_2 mnc_digit_1 spare home_enodeb_id home_enodeb_id2 tac)).

Definition decode_gtp_bearer_flags_ie (value : gtp_bearer_flags_ie_t) : ie_decoder gtp_bearer_flags_ie_t :=
  dec_bytes (
    header ← dcall (decode_ie_header_t IE_HEADER_SIZE);
    spare2 ← get 4;
    asi ← get 1;
    vind ← get 1;
    vb ← get 1;
    ppc ← get 1;
    mret (mk_gtp_bearer_flags header spare2 asi vind vb ppc)).

Definition decode_lai_field (value : lai_field_t) : ie_decoder lai_field_t :=
  dec_bytes (
    lai_mcc_digit_2 ← get 4;
    lai_mcc_digit_1 ← get 4;
    lai_mnc_digit_3 ← get 4;
    lai_mcc_digit_3 ← get 4;
    lai_mnc_digit_2 ← get 4;
    lai_mnc_digit_1 ← get 4;
    lai_lac ← get 16;
    mret (mk_lai_field lai_mcc_digit_2 lai_mcc_digit_1 lai_mnc_digit_3 lai_mcc_digit_3 lai_mnc_digit_2 lai_mnc_digit_1 lai_lac)).

Definition decode_gtp_user_loc_info_ie (value : gtp_user_loc_info_ie_t) : ie_decoder gtp_user_loc_info_ie_t :=
  dec_bits (
    header ← dcall (decode_ie_header_t IE_HEADER_SIZE);
    extnded_macro_enb_id ← get 1;
    macro_enodeb_id ← get 1;
    lai ← get 1;
    ecgi ← get 1;
    tai ← get 1;
    rai ← get 1;
    sai ← get 1;
    cgi ← get 1;
    _ ← dec_to_bytes;
    cgi2 ← dec_when (nz cgi) (dcall_at (decode_cgi_field value.(gtp_user_loc_info_cgi2))) value.(gtp_user_loc_info_cgi2);
    sai2 ← dec_when (nz sai) (dcall_at (decode_sai_field value.(gtp_user_loc_info_sai2))) value.(gtp_user_loc_info_sai2);
    rai2 ← dec_when (nz rai) (dcall_at (decode_rai_field value.(gtp_user_loc_info_rai2))) value.(gtp_user_loc_info_rai2);
    tai2 ← dec_when (nz tai) (dcall_at (decode_tai_field value.(gtp_user_loc_info_tai2))) value.(gtp_user_loc_info_tai2);
    ecgi2 ← dec_when (nz ecgi) (dcall_at (decode_ecgi_field value.(gtp_user_loc_info_ecgi2))) value.(gtp_user_loc_info_ecgi2);
    lai2 ← dec_when (nz lai) (dcall_at (decode_lai_field value.(gtp_user_loc_info_lai2))) value.(gtp_user_loc_info_lai2);
    macro_enodeb_id2 ← dec_when (nz macro_enodeb_id) (dcall_at (decode_macro_enb_id_fld value.(gtp_user_loc_info_macro_enodeb_id2))) value.(gtp_user_loc_info_macro_enodeb_id2);
    extended_macro_enodeb_id2 ← dec_when (nz extnded_macro_enb_id) (dcall_at (decode_extnded_macro_enb_id_fld value.(gtp_user_loc_info_extended_macro_enodeb_id2))) value.(gtp_user_loc_info_extended_macro_enodeb_id2);
    mret (mk_gtp_user_loc_info header extnded_macro_enb_id macro_enodeb_id lai ecgi tai rai sai cgi cgi2 sai2 rai2 tai2 ecgi2 lai2 macro_enodeb_id2 extended_macro_enodeb_id2)).

Definition decode_gtp_msec_time_stmp_ie (value : gtp_msec_time_stmp_ie_t) : ie_decoder gtp_msec_time_stmp_ie_t :=
  dec_bytes (
    header ← dcall (decode_ie_header_t IE_HEADER_SIZE);
    msec_time_stmp_val ← get 8;
    mret (mk_gtp_msec_time_stmp header msec_time_stmp_val)).

Definition decode_gtp_chg_to_rpt_flgs_ie (value : gtp_chg_to_rpt_flgs_ie_t) : ie_decoder gtp_chg_to_rpt_flgs_ie_t :=
  dec_bytes (
    header ← dcall (decode_ie_header_t IE_HEADER_SIZE);
    spare2 ← get 6;
    tzcr ← get 1;
    sncr ← get 1;
    mret (mk_gtp_chg_to_rpt_flgs header spare2 tzcr sncr)).

Definition decode_gtp_scef_pdn_conn_ie (value : gtp_scef_pdn_conn_ie_t) : ie_decoder gtp_scef_pdn_conn_ie_t :=
  dec_bytes (
    header ← dcall (decode_ie_header_t IE_HEADER_SIZE);
    scef_pdn_connection ← getmem_into value.(gtp_scef_pdn_conn_scef_pdn_connection) 8;
    mret (mk_gtp_scef_pdn_conn header scef_pdn_connection)).

Definition decode_gtp_chg_rptng_act_ie (value : gtp_chg_rptng_act_ie_t) : ie_decoder gtp_chg_rptng_act_ie_t :=
  dec_bytes (
    header ← dcall (decode_ie_header_t IE_HEADER_SIZE);
    action ← get 8;
    mret (mk_gtp_chg_rptng_act header action)).

Definition decode_gtp_extnded_prot_cfg_opts_ie (value : gtp_extnded_prot_cfg_opts_ie_t) : ie_decoder gtp_extnded_prot_cfg_opts_ie_t :=
  dec_header_len (fun x => x.(gtp_extnded_prot_cfg_opts_header)) (
    header ← dcall (decode_ie_header_t IE_HEADER_SIZE);
    epco ← get 8;
    mret (mk_gtp_extnded_prot_cfg_opts header epco)).

Definition decode_gtp_delay_value_ie (value : gtp_delay_value_ie_t) : ie_decoder gtp_delay_value_ie_t :=
  dec_bytes (
    header ← dcall (decode_ie_header_t IE_HEADER_SIZE);
    delay_value ← get 8;
    mret (mk_gtp_delay_value header delay_value)).

Definition decode_gtp_pdn_connection_ie (value : gtp_pdn_connection_ie_t) : ie_decoder gtp_pdn_connection_ie_t :=
  dec_bytes (
    header ← dcall (decode_ie_header_t IE_HEADER_SIZE);
    mret (mk_gtp_pdn_connection header)).

Definition decode_gtp_detach_type_ie (value : gtp_detach_type_ie_t) : ie_decoder gtp_detach_type_ie_t :=
  dec_bytes (
    header ← dcall (decode_ie_header_t IE_HEADER_SIZE);
    detach_type ← get 8;
    mret (mk_gtp_detach_type header detach_type)).

Definition decode_gtp_mbms_svc_area_ie (value : gtp_mbms_svc_area_ie_t) : ie_decoder gtp_mbms_svc_area_ie_t :=
  dec_bytes (
    header ← dcall (decode_ie_header_t IE_HEADER_SIZE);
    mbms_svc_area ← get 8;
    mret (mk_gtp_mbms_svc_area header mbms_svc_area)).

Definition decode_gtp_chrgng_char_ie (value : gtp_chrgng_char_ie_t) : ie_decoder gtp_chrgng_char_ie_t :=
  dec_bytes (
    header ← dcall (decode_ie_header_t IE_HEADER_SIZE);
    chrgng_char_val ← get 16;
    mret (mk_gtp_chrgng_char header chrgng_char_val)).

Definition decode_gtp_henb_info_rptng_ie (value : gtp_henb_info_rptng_ie_t) : ie_decoder gtp_henb_info_rptng_ie_t :=
  dec_bytes (
    header ← dcall (decode_ie_header_t IE_HEADER_SIZE);
    spare2 ← get 7;
    fti ← get 1;
    mret (mk_gtp_henb_info_rptng header spare2 fti)).

Definition decode_mm_context (value : mm_context_t) : ie_decoder mm_context_t :=
  dec_bits (
    mret (mk_mm_context)).

Definition decode_gtp_throttling_ie (value : gtp_throttling_ie_t) : ie_decoder gtp_throttling_ie_t :=
  dec_bytes (
    header ← dcall (decode_ie_header_t IE_HEADER_SIZE);
    thrtlng_delay_unit ← get 3;
    thrtlng_delay_val ← get 5;
    thrtlng_factor ← get 8;
    mret (mk_gtp_throttling header thrtlng_delay_unit thrtlng_delay_val thrtlng_factor)).

Definition decode_gtp_csg_memb_indctn_ie (value : gtp_csg_memb_indctn_ie_t) : ie_decoder gtp_csg_memb_indctn_ie_t :=
  dec_bytes (
    header ← dcall (decode_ie_header_t IE_HEADER_SIZE);
    csg_memb_indctn_spare2 ← get 7;
    csg_memb_indctn_cmi ← get 1;
    mret (mk_gtp_csg_memb_indctn header csg_memb_indctn_spare2 csg_memb_indctn_cmi)).

Definition decode_gtp_ip_address_ie (value : gtp_ip_address_ie_t) : ie_decoder gtp_ip_address_ie_t :=
  dec_bytes (
    header ← dcall (decode_ie_header_t IE_HEADER_SIZE);
    ipv4_ipv6_addr ← get 8;
    mret (mk_gtp_ip_address header ipv4_ipv6_addr)).

Definition decode_gtp_src_rnc_pdcp_ctxt_info_ie (value : gtp_src_rnc_pdcp_ctxt_info_ie_t) : ie_decoder gtp_src_rnc_pdcp_ctxt_info_ie_t :=
  dec_bytes (
    header ← dcall (decode_ie_header_t IE_HEADER_SIZE);
    rrc_container ← get 8;
    mret (mk_gtp_src_rnc_pdcp_ctxt_info header rrc_container)).

Definition decode_gtp_hop_counter_ie (value : gtp_hop_counter_ie_t) : ie_decoder gtp_hop_counter_ie_t :=
  dec_bytes (
    header ← dcall (decode_ie_header_t IE_HEADER_SIZE);
    hop_counter ← get 8;
    mret (mk_gtp_hop_counter header hop_counter)).

Definition decode_gtp_pres_rptng_area_info_ie (value : gtp_pres_rptng_area_info_ie_t) : ie_decoder gtp_pres_rptng_area_info_ie_t :=
  dec_bytes (
    header ← dcall (decode_ie_header_t IE_HEADER_SIZE);
    pra_identifier ← get 24;
    spare2 ← get 4;
    inapra ← get 2;
    apra ← get 1;
    opra ← get 1;
    ipra ← get 1;
    mret (mk_gtp_pres_rptng_area_info header pra_identifier spare2 inapra apra opra ipra)).

Definition decode_gtp_mbms_sess_idnt_ie (value : gtp_mbms_sess_idnt_ie_t) : ie_decoder gtp_mbms_sess_idnt_ie_t :=
  dec_bytes (
    header ← dcall (decode_ie_header_t IE_HEADER_SIZE);
    mbms_sess_idnt ← get 8;
    mret (mk_gtp_mbms_sess_idnt header mbms_sess_idnt)).

Definition decode_gtp_apn_and_rltv_cap_ie (value : gtp_apn_and_rltv_cap_ie_t) : ie_decoder gtp_apn_and_rltv_cap_ie_t :=
  dec_bytes (
    header ← dcall (decode_ie_header_t IE_HEADER_SIZE);
    rltv_cap ← get 8;
    apn_length ← get 8;
    apn ← get 8;
    mret (mk_gtp_apn_and_rltv_cap header rltv_cap apn_length apn)).

Definition decode_gtp_selection_mode_ie (value : gtp_selection_mode_ie_t) : ie_decoder gtp_selection_mode_ie_t :=
  dec_bytes (
    header ← dcall (decode_ie_header_t IE_HEADER_SIZE);
    spare2 ← get 6;
    selec_mode ← get 2;
    mret (mk_gtp_selection_mode header spare2 selec_mode)).

Definition decode_gtp_up_func_sel_indctn_flgs_ie (value : gtp_up_func_sel_indctn_flgs_ie_t) : ie_decoder gtp_up_func_sel_indctn_flgs_ie_t :=
  dec_bytes (
    header ← dcall (decode_ie_header_t IE_HEADER_SIZE);
    spare2 ← get 7;
    dcnr ← get 1;
    mret (mk_gtp_up_func_sel_indctn_flgs header spare2 dcnr)).

Definition decode_gtp_mbl_equip_idnty_ie (value : gtp_mbl_equip_idnty_ie_t) : ie_decoder gtp_mbl_equip_idnty_ie_t :=
  dec_bytes (
    header ← dcall (decode_ie_header_t IE_HEADER_SIZE);
    mei ← get 64;
    mret (mk_gtp_mbl_equip_idnty header mei)).

Definition decode_gtp_priv_ext_ie (value : gtp_priv_ext_ie_t) : ie_decoder gtp_priv_ext_ie_t :=
  dec_bytes (
    header ← dcall (decode_ie_header_t IE_HEADER_SIZE);
    enterprise_id ← get 16;
    prop_val ← get 8;
    mret (mk_gtp_priv_ext header enterprise_id prop_val)).

Definition decode_gtp_eps_bearer_lvl_traffic_flow_tmpl_ie (value : gtp_eps_bearer_lvl_traffic_flow_tmpl_ie_t) : ie_decoder gtp_eps_bearer_lvl_traffic_flow_tmpl_ie_t :=
  dec_bytes (
    header ← dcall (decode_ie_header_t IE_HEADER_SIZE);
    eps_bearer_lvl_tft ← getmem_into value.(gtp_eps_bearer_lvl_traffic_flow_tmpl_eps_bearer_lvl_tft) header.(gie_len);
    mret (mk_gtp_eps_bearer_lvl_traffic_flow_tmpl header eps_bearer_lvl_tft)).

Definition decode_gtp_sequence_number_ie (value : gtp_sequence_number_ie_t) : ie_decoder gtp_sequence_number_ie_t :=
  dec_bytes (
    header ← dcall (decode_ie_header_t IE_HEADER_SIZE);
    sequence_number ← get 32;
    mret (mk_gtp_sequence_number header sequence_number)).

Definition decode_gtp_stn_sr_ie (value : gtp_stn_sr_ie_t) : ie_decoder gtp_stn_sr_ie_t :=
  dec_bytes (
    nanpi ← get 8;
    filler ← get 4;
    number_digit ← get 4;
    mret (mk_gtp_stn_sr value.(gtp_stn_sr_header) nanpi filler number_digit)).
