(* ===== verification/GtpIesSpec.v ===== *)
(** * Wire layouts of the GTPv2 information elements

    The headers, and for each information element of the regular form the layout its
    encoder and its decoder agree on, with the proof that they do as an instance of
    [IeCodecOk].  An element whose fields are not whole bytes, or are of different
    widths on the two sides, is not regular. *)

From S2P Require Import Prelude EncDecBits Codec CodecSpec GtpIes GtpIesEncoder GtpIesDecoder.

(** ** Bits in bytes *)

(** Two neighbouring fields are one field. *)
Lemma nbits_join n m a b : 0 <= b < 2 ^ Z.of_nat m -> nbits n a ++ nbits m b = nbits (n + m) (a * 2 ^ Z.of_nat m + b).
Proof.
  intros Hb. rewrite nbits_split. f_equal.
  - by rewrite Z.div_add_l, (Z.div_small b), Z.add_0_r by lia.
  - apply nbits_ext. intros i Hi. rewrite <- (Z.mod_small b (2 ^ Z.of_nat m)) at 1 by done.
    rewrite <- (Z.mod_pow2_bits_low (_ + _) (Z.of_nat m)), Z.add_comm, Z_mod_plus_full by lia. done.
Qed.

(** The bytes of a 16-bit field, and of longer ones. *)
Lemma wbits_be_bytes (k : nat) v : 0 <= v < 2 ^ (8 * Z.of_nat k) ->
  wbits [(8 * Z.of_nat k, v)] = wbits (octets (rev (le_bytes k v))).
Proof.
  revert v. induction k as [|k IH]; intros v Hv; [done|]. cbn [le_bytes rev].
  unfold octets in *. rewrite map_app, wbits_app, wbits_cons, app_nil_r.
  change (octets [u8 v]) with [(8, u8 v)].
  assert (0 <= v / 256 < 2 ^ (8 * Z.of_nat k)) as Hv'.
  { rewrite Nat2Z.inj_succ, Z.mul_succ_r, Z.pow_add_r in Hv by lia. change (2 ^ 8) with 256 in Hv. divlia. }
  rewrite <- (IH _ Hv'). cbn [map]. rewrite !wbits_cons, !app_nil_r, nbits8_u8.
  replace (Z.to_nat (8 * Z.of_nat (S k))) with (Z.to_nat (8 * Z.of_nat k) + 8)%nat by lia. by rewrite nbits_split.
Qed.

Lemma length_wbits_octets bs : length (wbits (octets bs)) = (8 * length bs)%nat.
Proof. pose proof (size_octets bs) as E. unfold size in E. lia. Qed.

(** A buffer that starts with the bytes [bs]. *)
Lemma holds_octets buf bs post : bytes_ok bs -> holds buf (wbits (octets bs) ++ post) ->
  ∃ rest, buf = bs ++ rest.
Proof.
  intros Hb Hh. exists (drop (length bs) buf). rewrite <- (octets_take _ _ _ Hb Hh) at 1. by rewrite take_drop.
Qed.

(** ** The header of an element *)

Definition layout_gie_header (h : ie_header_t) : layout :=
  [(8, h.(gie_type)); (16, h.(gie_len)); (8, h.(gie_instance))].

Lemma encode_gie_header_encodes h : encodes (encode_ie_header_t h) (layout_gie_header h) 32.
Proof.
  change 32 with (size (layout_gie_header h) / 1). apply encodes_bits. repeat emit_step.
Qed.

Lemma wbits_gie_header h : layout_ok (layout_gie_header h) ->
  let bs := [h.(gie_type); h.(gie_len) / 256; u8 h.(gie_len); h.(gie_instance)] in
  wbits (layout_gie_header h) = wbits (octets bs) ∧ bytes_ok bs.
Proof.
  intros Hok. apply Forall_cons_1 in Hok as [Ht Hok]. apply Forall_cons_1 in Hok as [Hl Hok].
  apply Forall_cons_1 in Hok as [Hi _]. split.
  - unfold layout_gie_header, octets. cbn [map]. rewrite !wbits_cons.
    change (Z.to_nat 16) with (8 + 8)%nat. rewrite nbits_split, <- app_assoc, nbits8_u8. done.
  - repeat apply Forall_cons_2; unfold byte_ok; auto using byte_ok_uwrap; [divlia|apply byte_ok_uwrap].
Qed.

Lemma decode_gie_header_decodes h : layout_ok (layout_gie_header h) ->
  decodes (decode_ie_header_t IE_HEADER_SIZE) (layout_gie_header h) 32 h.
Proof.
  intros Hok buf post Hh _. destruct (wbits_gie_header h Hok) as [E Hb]. rewrite E in Hh.
  apply holds_octets in Hh as [rest ->]; [|done].
  destruct h as [t l i]. cbn [gie_type gie_len gie_instance]. change (Some (32, mk_gie t (256 * (l / 256) + u8 l) i) = Some (32, mk_gie t l i)).
  do 3 f_equal. unfold uwrap. change (2 ^ 8) with 256. divlia.
Qed.

Lemma emits_gie_header h m L : emits 0 m L ->
  emits 0 (ecall (encode_ie_header_t h) ⨾ m) (layout_gie_header h ++ L).
Proof. apply emits_ecall; [|reflexivity]. apply encode_gie_header_encodes. Qed.

Lemma reads_gie_header {A} h (k : ie_header_t -> dec A) L y :
  layout_ok (layout_gie_header h) -> reads 0 (k h) L y ->
  reads 0 (dcall (decode_ie_header_t IE_HEADER_SIZE) ≫= k) (layout_gie_header h ++ L) y.
Proof.
  intros Hok H. eapply reads_dcall; [|reflexivity|exact H].
  intros buf post Hh Hs. exact (decode_gie_header_decodes h Hok buf post Hh Hs).
Qed.

Ltac solve_encodes := intros; apply encodes_bytes, emits_gie_header; repeat emit_step.
Ltac solve_decodes :=
  intros v v0 H; destruct v; apply layout_ok_app in H as [Hh H];
  apply decodes_bytes, reads_gie_header; [exact Hh|]; cbn in H; repeat read_step H.

(** ** The elements *)

Definition layout_gtp_channel_needed (v : gtp_channel_needed_ie_t) : layout :=
  layout_gie_header v.(gtp_channel_needed_header) ++ [(8, v.(gtp_channel_needed_channel_needed))].
#[global] Instance gtp_channel_needed_codec : IeCodec gtp_channel_needed_ie_t :=
  {| ie_encode := encode_gtp_channel_needed_ie; ie_decode := decode_gtp_channel_needed_ie;
     ie_zero := zero_gtp_channel_needed; ie_layout := layout_gtp_channel_needed; ie_unit := 8 |}.
#[global] Instance gtp_channel_needed_codec_ok : IeCodecOk gtp_channel_needed_ie_t.
Proof. split; [solve_encodes|solve_decodes]. Qed.

Definition layout_gtp_rfsp_index (v : gtp_rfsp_index_ie_t) : layout :=
  layout_gie_header v.(gtp_rfsp_index_header) ++ [(16, v.(gtp_rfsp_index_rfsp_index))].
#[global] Instance gtp_rfsp_index_codec : IeCodec gtp_rfsp_index_ie_t :=
  {| ie_encode := encode_gtp_rfsp_index_ie; ie_decode := decode_gtp_rfsp_index_ie;
     ie_zero := zero_gtp_rfsp_index; ie_layout := layout_gtp_rfsp_index; ie_unit := 8 |}.
#[global] Instance gtp_rfsp_index_codec_ok : IeCodecOk gtp_rfsp_index_ie_t.
Proof. split; [solve_encodes|solve_decodes]. Qed.

Definition layout_gtp_guti (v : gtp_guti_ie_t) : layout :=
  layout_gie_header v.(gtp_guti_header) ++ [(4, v.(gtp_guti_mcc_digit_2)); (4, v.(gtp_guti_mcc_digit_1)); (4, v.(gtp_guti_mnc_digit_3)); (4, v.(gtp_guti_mcc_digit_3)); (4, v.(gtp_guti_mnc_digit_2)); (4, v.(gtp_guti_mnc_digit_1)); (16, v.(gtp_guti_mme_group_id)); (8, v.(gtp_guti_mme_code)); (8, v.(gtp_guti_m_tmsi))].
#[global] Instance gtp_guti_codec : IeCodec gtp_guti_ie_t :=
  {| ie_encode := encode_gtp_guti_ie; ie_decode := decode_gtp_guti_ie;
     ie_zero := zero_gtp_guti; ie_layout := layout_gtp_guti; ie_unit := 8 |}.
#[global] Instance gtp_guti_codec_ok : IeCodecOk gtp_guti_ie_t.
Proof. split; [solve_encodes|solve_decodes]. Qed.

Definition layout_gtp_eps_bearer_id (v : gtp_eps_bearer_id_ie_t) : layout :=
  layout_gie_header v.(gtp_eps_bearer_id_header) ++ [(4, v.(gtp_eps_bearer_id_ebi_spare2)); (4, v.(gtp_eps_bearer_id_ebi_ebi))].
#[global] Instance gtp_eps_bearer_id_codec : IeCodec gtp_eps_bearer_id_ie_t :=
  {| ie_encode := encode_gtp_eps_bearer_id_ie; ie_decode := decode_gtp_eps_bearer_id_ie;
     ie_zero := zero_gtp_eps_bearer_id; ie_layout := layout_gtp_eps_bearer_id; ie_unit := 8 |}.
#[global] Instance gtp_eps_bearer_id_codec_ok : IeCodecOk gtp_eps_bearer_id_ie_t.
Proof. split; [solve_encodes|solve_decodes]. Qed.

Definition layout_gtp_emlpp_priority (v : gtp_emlpp_priority_ie_t) : layout :=
  layout_gie_header v.(gtp_emlpp_priority_header) ++ [(8, v.(gtp_emlpp_priority_emlpp_priority))].
#[global] Instance gtp_emlpp_priority_codec : IeCodec gtp_emlpp_priority_ie_t :=
  {| ie_encode := encode_gtp_emlpp_priority_ie; ie_decode := decode_gtp_emlpp_priority_ie;
     ie_zero := zero_gtp_emlpp_priority; ie_layout := layout_gtp_emlpp_priority; ie_unit := 8 |}.
#[global] Instance gtp_emlpp_priority_codec_ok : IeCodecOk gtp_emlpp_priority_ie_t.
Proof. split; [solve_encodes|solve_decodes]. Qed.

Definition layout_gtp_mdt_cfg (v : gtp_mdt_cfg_ie_t) : layout :=
  layout_gie_header v.(gtp_mdt_cfg_header) ++ [(8, v.(gtp_mdt_cfg_job_type)); (32, v.(gtp_mdt_cfg_measrmnts_lsts)); (8, v.(gtp_mdt_cfg_rptng_trig)); (8, v.(gtp_mdt_cfg_report_interval)); (8, v.(gtp_mdt_cfg_report_amount)); (8, v.(gtp_mdt_cfg_rsrp_evnt_thresh)); (8, v.(gtp_mdt_cfg_rsrq_evnt_thresh)); (8, v.(gtp_mdt_cfg_len_of_area_scop)); (8, v.(gtp_mdt_cfg_area_scope)); (4, v.(gtp_mdt_cfg_spare2)); (1, v.(gtp_mdt_cfg_pli)); (1, v.(gtp_mdt_cfg_pmi)); (1, v.(gtp_mdt_cfg_mpi)); (1, v.(gtp_mdt_cfg_crrmi)); (8, v.(gtp_mdt_cfg_coll_prd_rrm_lte)); (8, v.(gtp_mdt_cfg_meas_prd_lte)); (8, v.(gtp_mdt_cfg_pos_mthd)); (8, v.(gtp_mdt_cfg_nbr_of_mdt_plmns)); (8, v.(gtp_mdt_cfg_mdt_plmn_list))].
#[global] Instance gtp_mdt_cfg_codec : IeCodec gtp_mdt_cfg_ie_t :=
  {| ie_encode := encode_gtp_mdt_cfg_ie; ie_decode := decode_gtp_mdt_cfg_ie;
     ie_zero := zero_gtp_mdt_cfg; ie_layout := layout_gtp_mdt_cfg; ie_unit := 8 |}.
#[global] Instance gtp_mdt_cfg_codec_ok : IeCodecOk gtp_mdt_cfg_ie_t.
Proof. split; [solve_encodes|solve_decodes]. Qed.

Definition layout_gtp_src_id (v : gtp_src_id_ie_t) : layout :=
  layout_gie_header v.(gtp_src_id_header) ++ [(64, v.(gtp_src_id_target_cell_id)); (8, v.(gtp_src_id_source_type)); (8, v.(gtp_src_id_source_id))].
#[global] Instance gtp_src_id_codec : IeCodec gtp_src_id_ie_t :=
  {| ie_encode := encode_gtp_src_id_ie; ie_decode := decode_gtp_src_id_ie;
     ie_zero := zero_gtp_src_id; ie_layout := layout_gtp_src_id; ie_unit := 8 |}.
#[global] Instance gtp_src_id_codec_ok : IeCodecOk gtp_src_id_ie_t.
Proof. split; [solve_encodes|solve_decodes]. Qed.

Definition layout_gtp_ran_nas_cause (v : gtp_ran_nas_cause_ie_t) : layout :=
  layout_gie_header v.(gtp_ran_nas_cause_header) ++ [(4, v.(gtp_ran_nas_cause_protocol_type)); (4, v.(gtp_ran_nas_cause_cause_type)); (8, v.(gtp_ran_nas_cause_cause_value))].
#[global] Instance gtp_ran_nas_cause_codec : IeCodec gtp_ran_nas_cause_ie_t :=
  {| ie_encode := encode_gtp_ran_nas_cause_ie; ie_decode := decode_gtp_ran_nas_cause_ie;
     ie_zero := zero_gtp_ran_nas_cause; ie_layout := layout_gtp_ran_nas_cause; ie_unit := 8 |}.
#[global] Instance gtp_ran_nas_cause_codec_ok : IeCodecOk gtp_ran_nas_cause_ie_t.
Proof. split; [solve_encodes|solve_decodes]. Qed.

Definition layout_gtp_pdn_type (v : gtp_pdn_type_ie_t) : layout :=
  layout_gie_header v.(gtp_pdn_type_header) ++ [(5, v.(gtp_pdn_type_pdn_type_spare2)); (3, v.(gtp_pdn_type_pdn_type_pdn_type))].
#[global] Instance gtp_pdn_type_codec : IeCodec gtp_pdn_type_ie_t :=
  {| ie_encode := encode_gtp_pdn_type_ie; ie_decode := decode_gtp_pdn_type_ie;
     ie_zero := zero_gtp_pdn_type; ie_layout := layout_gtp_pdn_type; ie_unit := 8 |}.
#[global] Instance gtp_pdn_type_codec_ok : IeCodecOk gtp_pdn_type_ie_t.
Proof. split; [solve_encodes|solve_decodes]. Qed.

Definition layout_gtp_traffic_agg_desc (v : gtp_traffic_agg_desc_ie_t) : layout :=
  layout_gie_header v.(gtp_traffic_agg_desc_header) ++ [(8, v.(gtp_traffic_agg_desc_traffic_agg_desc))].
#[global] Instance gtp_traffic_agg_desc_codec : IeCodec gtp_traffic_agg_desc_ie_t :=
  {| ie_encode := encode_gtp_traffic_agg_desc_ie; ie_decode := decode_gtp_traffic_agg_desc_ie;
     ie_zero := zero_gtp_traffic_agg_desc; ie_layout := layout_gtp_traffic_agg_desc; ie_unit := 8 |}.
#[global] Instance gtp_traffic_agg_desc_codec_ok : IeCodecOk gtp_traffic_agg_desc_ie_t.
Proof. split; [solve_encodes|solve_decodes]. Qed.

Definition layout_gtp_flow_qlty_of_svc (v : gtp_flow_qlty_of_svc_ie_t) : layout :=
  layout_gie_header v.(gtp_flow_qlty_of_svc_header) ++ [(8, v.(gtp_flow_qlty_of_svc_qci)); (40, v.(gtp_flow_qlty_of_svc_max_bit_rate_uplnk)); (40, v.(gtp_flow_qlty_of_svc_max_bit_rate_dnlnk)); (40, v.(gtp_flow_qlty_of_svc_guarntd_bit_rate_uplnk)); (40, v.(gtp_flow_qlty_of_svc_guarntd_bit_rate_dnlnk))].
#[global] Instance gtp_flow_qlty_of_svc_codec : IeCodec gtp_flow_qlty_of_svc_ie_t :=
  {| ie_encode := encode_gtp_flow_qlty_of_svc_ie; ie_decode := decode_gtp_flow_qlty_of_svc_ie;
     ie_zero := zero_gtp_flow_qlty_of_svc; ie_layout := layout_gtp_flow_qlty_of_svc; ie_unit := 8 |}.
#[global] Instance gtp_flow_qlty_of_svc_codec_ok : IeCodecOk gtp_flow_qlty_of_svc_ie_t.
Proof. split; [solve_encodes|solve_decodes]. Qed.

Definition layout_gtp_recovery (v : gtp_recovery_ie_t) : layout :=
  layout_gie_header v.(gtp_recovery_header) ++ [(8, v.(gtp_recovery_recovery))].
#[global] Instance gtp_recovery_codec : IeCodec gtp_recovery_ie_t :=
  {| ie_encode := encode_gtp_recovery_ie; ie_decode := decode_gtp_recovery_ie;
     ie_zero := zero_gtp_recovery; ie_layout := layout_gtp_recovery; ie_unit := 8 |}.
#[global] Instance gtp_recovery_codec_ok : IeCodecOk gtp_recovery_ie_t.
Proof. split; [solve_encodes|solve_decodes]. Qed.

Definition layout_gtp_srvng_plmn_rate_ctl (v : gtp_srvng_plmn_rate_ctl_ie_t) : layout :=
  layout_gie_header v.(gtp_srvng_plmn_rate_ctl_header) ++ [(16, v.(gtp_srvng_plmn_rate_ctl_uplnk_rate_lmt)); (16, v.(gtp_srvng_plmn_rate_ctl_dnlnk_rate_lmt))].
#[global] Instance gtp_srvng_plmn_rate_ctl_codec : IeCodec gtp_srvng_plmn_rate_ctl_ie_t :=
  {| ie_encode := encode_gtp_srvng_plmn_rate_ctl_ie; ie_decode := decode_gtp_srvng_plmn_rate_ctl_ie;
     ie_zero := zero_gtp_srvng_plmn_rate_ctl; ie_layout := layout_gtp_srvng_plmn_rate_ctl; ie_unit := 8 |}.
#[global] Instance gtp_srvng_plmn_rate_ctl_codec_ok : IeCodecOk gtp_srvng_plmn_rate_ctl_ie_t.
Proof. split; [solve_encodes|solve_decodes]. Qed.

Definition layout_gtp_mbms_dist_ack (v : gtp_mbms_dist_ack_ie_t) : layout :=
  layout_gie_header v.(gtp_mbms_dist_ack_header) ++ [(6, v.(gtp_mbms_dist_ack_spare2)); (2, v.(gtp_mbms_dist_ack_distr_ind))].
#[global] Instance gtp_mbms_dist_ack_codec : IeCodec gtp_mbms_dist_ack_ie_t :=
  {| ie_encode := encode_gtp_mbms_dist_ack_ie; ie_decode := decode_gtp_mbms_dist_ack_ie;
     ie_zero := zero_gtp_mbms_dist_ack; ie_layout := layout_gtp_mbms_dist_ack; ie_unit := 8 |}.
#[global] Instance gtp_mbms_dist_ack_codec_ok : IeCodecOk gtp_mbms_dist_ack_ie_t.
Proof. split; [solve_encodes|solve_decodes]. Qed.

Definition layout_gtp_ue_time_zone (v : gtp_ue_time_zone_ie_t) : layout :=
  layout_gie_header v.(gtp_ue_time_zone_header) ++ [(8, v.(gtp_ue_time_zone_time_zone)); (6, v.(gtp_ue_time_zone_spare2)); (2, v.(gtp_ue_time_zone_daylt_svng_time))].
#[global] Instance gtp_ue_time_zone_codec : IeCodec gtp_ue_time_zone_ie_t :=
  {| ie_encode := encode_gtp_ue_time_zone_ie; ie_decode := decode_gtp_ue_time_zone_ie;
     ie_zero := zero_gtp_ue_time_zone; ie_layout := layout_gtp_ue_time_zone; ie_unit := 8 |}.
#[global] Instance gtp_ue_time_zone_codec_ok : IeCodecOk gtp_ue_time_zone_ie_t.
Proof. split; [solve_encodes|solve_decodes]. Qed.

Definition layout_gtp_pres_rptng_area_act (v : gtp_pres_rptng_area_act_ie_t) : layout :=
  layout_gie_header v.(gtp_pres_rptng_area_act_header) ++ [(4, v.(gtp_pres_rptng_area_act_spare2)); (1, v.(gtp_pres_rptng_area_act_inapra)); (3, v.(gtp_pres_rptng_area_act_action)); (24, v.(gtp_pres_rptng_area_act_pres_rptng_area_idnt)); (4, v.(gtp_pres_rptng_area_act_number_of_tai)); (4, v.(gtp_pres_rptng_area_act_number_of_rai)); (2, v.(gtp_pres_rptng_area_act_spare3)); (6, v.(gtp_pres_rptng_area_act_nbr_of_macro_enb)); (2, v.(gtp_pres_rptng_area_act_spare4)); (6, v.(gtp_pres_rptng_area_act_nbr_of_home_enb)); (2, v.(gtp_pres_rptng_area_act_spare5)); (6, v.(gtp_pres_rptng_area_act_number_of_ecgi)); (2, v.(gtp_pres_rptng_area_act_spare6)); (6, v.(gtp_pres_rptng_area_act_number_of_sai)); (2, v.(gtp_pres_rptng_area_act_spare7)); (6, v.(gtp_pres_rptng_area_act_number_of_cgi)); (8, v.(gtp_pres_rptng_area_act_tais)); (8, v.(gtp_pres_rptng_area_act_macro_enb_ids)); (8, v.(gtp_pres_rptng_area_act_home_enb_ids)); (8, v.(gtp_pres_rptng_area_act_ecgis)); (8, v.(gtp_pres_rptng_area_act_rais)); (8, v.(gtp_pres_rptng_area_act_sais)); (8, v.(gtp_pres_rptng_area_act_cgis)); (2, v.(gtp_pres_rptng_area_act_spare8)); (6, v.(gtp_pres_rptng_area_act_nbr_of_extnded_macro_enb)); (8, v.(gtp_pres_rptng_area_act_extnded_macro_enb_ids))].
#[global] Instance gtp_pres_rptng_area_act_codec : IeCodec gtp_pres_rptng_area_act_ie_t :=
  {| ie_encode := encode_gtp_pres_rptng_area_act_ie; ie_decode := decode_gtp_pres_rptng_area_act_ie;
     ie_zero := zero_gtp_pres_rptng_area_act; ie_layout := layout_gtp_pres_rptng_area_act; ie_unit := 8 |}.
#[global] Instance gtp_pres_rptng_area_act_codec_ok : IeCodecOk gtp_pres_rptng_area_act_ie_t.
Proof. split; [solve_encodes|solve_decodes]. Qed.

Definition layout_gtp_proc_trans_id (v : gtp_proc_trans_id_ie_t) : layout :=
  layout_gie_header v.(gtp_proc_trans_id_header) ++ [(8, v.(gtp_proc_trans_id_proc_trans_id))].
#[global] Instance gtp_proc_trans_id_codec : IeCodec gtp_proc_trans_id_ie_t :=
  {| ie_encode := encode_gtp_proc_trans_id_ie; ie_decode := decode_gtp_proc_trans_id_ie;
     ie_zero := zero_gtp_proc_trans_id; ie_layout := layout_gtp_proc_trans_id; ie_unit := 8 |}.
#[global] Instance gtp_proc_trans_id_codec_ok : IeCodecOk gtp_proc_trans_id_ie_t.
Proof. split; [solve_encodes|solve_decodes]. Qed.

Definition layout_gtp_wlan_offldblty_indctn (v : gtp_wlan_offldblty_indctn_ie_t) : layout :=
  layout_gie_header v.(gtp_wlan_offldblty_indctn_header) ++ [(6, v.(gtp_wlan_offldblty_indctn_spare2)); (1, v.(gtp_wlan_offldblty_indctn_eutran_indctn)); (1, v.(gtp_wlan_offldblty_indctn_utran_indctn))].
#[global] Instance gtp_wlan_offldblty_indctn_codec : IeCodec gtp_wlan_offldblty_indctn_ie_t :=
  {| ie_encode := encode_gtp_wlan_offldblty_indctn_ie; ie_decode := decode_gtp_wlan_offldblty_indctn_ie;
     ie_zero := zero_gtp_wlan_offldblty_indctn; ie_layout := layout_gtp_wlan_offldblty_indctn; ie_unit := 8 |}.
#[global] Instance gtp_wlan_offldblty_indctn_codec_ok : IeCodecOk gtp_wlan_offldblty_indctn_ie_t.
Proof. split; [solve_encodes|solve_decodes]. Qed.

Definition layout_gtp_uli_timestamp (v : gtp_uli_timestamp_ie_t) : layout :=
  layout_gie_header v.(gtp_uli_timestamp_header) ++ [(8, v.(gtp_uli_timestamp_uli_ts_val))].
#[global] Instance gtp_uli_timestamp_codec : IeCodec gtp_uli_timestamp_ie_t :=
  {| ie_encode := encode_gtp_uli_timestamp_ie; ie_decode := decode_gtp_uli_timestamp_ie;
     ie_zero := zero_gtp_uli_timestamp; ie_layout := layout_gtp_uli_timestamp; ie_unit := 8 |}.
#[global] Instance gtp_uli_timestamp_codec_ok : IeCodecOk gtp_uli_timestamp_ie_t.
Proof. split; [solve_encodes|solve_decodes]. Qed.

Definition layout_gtp_max_pckt_loss_rate (v : gtp_max_pckt_loss_rate_ie_t) : layout :=
  layout_gie_header v.(gtp_max_pckt_loss_rate_header) ++ [(6, v.(gtp_max_pckt_loss_rate_spare2)); (1, v.(gtp_max_pckt_loss_rate_dl)); (1, v.(gtp_max_pckt_loss_rate_ul)); (16, v.(gtp_max_pckt_loss_rate_max_pckt_loss_rate_ul)); (16, v.(gtp_max_pckt_loss_rate_max_pckt_loss_rate_dl))].
#[global] Instance gtp_max_pckt_loss_rate_codec : IeCodec gtp_max_pckt_loss_rate_ie_t :=
  {| ie_encode := encode_gtp_max_pckt_loss_rate_ie; ie_decode := decode_gtp_max_pckt_loss_rate_ie;
     ie_zero := zero_gtp_max_pckt_loss_rate; ie_layout := layout_gtp_max_pckt_loss_rate; ie_unit := 8 |}.
#[global] Instance gtp_max_pckt_loss_rate_codec_ok : IeCodecOk gtp_max_pckt_loss_rate_ie_t.
Proof. split; [solve_encodes|solve_decodes]. Qed.

Definition layout_gtp_cn_oper_sel_entity (v : gtp_cn_oper_sel_entity_ie_t) : layout :=
  layout_gie_header v.(gtp_cn_oper_sel_entity_header) ++ [(6, v.(gtp_cn_oper_sel_entity_spare2)); (2, v.(gtp_cn_oper_sel_entity_sel_entity))].
#[global] Instance gtp_cn_oper_sel_entity_codec : IeCodec gtp_cn_oper_sel_entity_ie_t :=
  {| ie_encode := encode_gtp_cn_oper_sel_entity_ie; ie_decode := decode_gtp_cn_oper_sel_entity_ie;
     ie_zero := zero_gtp_cn_oper_sel_entity; ie_layout := layout_gtp_cn_oper_sel_entity; ie_unit := 8 |}.
#[global] Instance gtp_cn_oper_sel_entity_codec_ok : IeCodecOk gtp_cn_oper_sel_entity_ie_t.
Proof. split; [solve_encodes|solve_decodes]. Qed.

Definition layout_gtp_alloc_reten_priority (v : gtp_alloc_reten_priority_ie_t) : layout :=
  layout_gie_header v.(gtp_alloc_reten_priority_header) ++ [(1, v.(gtp_alloc_reten_priority_spare2)); (1, v.(gtp_alloc_reten_priority_pci)); (4, v.(gtp_alloc_reten_priority_pl)); (1, v.(gtp_alloc_reten_priority_spare3)); (1, v.(gtp_alloc_reten_priority_pvi))].
#[global] Instance gtp_alloc_reten_priority_codec : IeCodec gtp_alloc_reten_priority_ie_t :=
  {| ie_encode := encode_gtp_alloc_reten_priority_ie; ie_decode := decode_gtp_alloc_reten_priority_ie;
     ie_zero := zero_gtp_alloc_reten_priority; ie_layout := layout_gtp_alloc_reten_priority; ie_unit := 8 |}.
#[global] Instance gtp_alloc_reten_priority_codec_ok : IeCodecOk gtp_alloc_reten_priority_ie_t.
Proof. split; [solve_encodes|solve_decodes]. Qed.

Definition layout_gtp_apn_restriction (v : gtp_apn_restriction_ie_t) : layout :=
  layout_gie_header v.(gtp_apn_restriction_header) ++ [(8, v.(gtp_apn_restriction_rstrct_type_val))].
#[global] Instance gtp_apn_restriction_codec : IeCodec gtp_apn_restriction_ie_t :=
  {| ie_encode := encode_gtp_apn_restriction_ie; ie_decode := decode_gtp_apn_restriction_ie;
     ie_zero := zero_gtp_apn_restriction; ie_layout := layout_gtp_apn_restriction; ie_unit := 8 |}.
#[global] Instance gtp_apn_restriction_codec_ok : IeCodecOk gtp_apn_restriction_ie_t.
Proof. split; [solve_encodes|solve_decodes]. Qed.

Definition layout_gtp_ptmsi_signature (v : gtp_ptmsi_signature_ie_t) : layout :=
  layout_gie_header v.(gtp_ptmsi_signature_header) ++ [(8, v.(gtp_ptmsi_signature_ptmsi_signature))].
#[global] Instance gtp_ptmsi_signature_codec : IeCodec gtp_ptmsi_signature_ie_t :=
  {| ie_encode := encode_gtp_ptmsi_signature_ie; ie_decode := decode_gtp_ptmsi_signature_ie;
     ie_zero := zero_gtp_ptmsi_signature; ie_layout := layout_gtp_ptmsi_signature; ie_unit := 8 |}.
#[global] Instance gtp_ptmsi_signature_codec_ok : IeCodecOk gtp_ptmsi_signature_ie_t.
Proof. split; [solve_encodes|solve_decodes]. Qed.

Definition layout_gtp_paging_and_svc_info (v : gtp_paging_and_svc_info_ie_t) : layout :=
  layout_gie_header v.(gtp_paging_and_svc_info_header) ++ [(4, v.(gtp_paging_and_svc_info_spare2)); (4, v.(gtp_paging_and_svc_info_ebi)); (7, v.(gtp_paging_and_svc_info_spare3)); (1, v.(gtp_paging_and_svc_info_ppi)); (2, v.(gtp_paging_and_svc_info_spare4)); (6, v.(gtp_paging_and_svc_info_paging_plcy_indctn_val))].
#[global] Instance gtp_paging_and_svc_info_codec : IeCodec gtp_paging_and_svc_info_ie_t :=
  {| ie_encode := encode_gtp_paging_and_svc_info_ie; ie_decode := decode_gtp_paging_and_svc_info_ie;
     ie_zero := zero_gtp_paging_and_svc_info; ie_layout := layout_gtp_paging_and_svc_info; ie_unit := 8 |}.
#[global] Instance gtp_paging_and_svc_info_codec_ok : IeCodecOk gtp_paging_and_svc_info_ie_t.
Proof. split; [solve_encodes|solve_decodes]. Qed.

Definition layout_gtp_ecgi_list (v : gtp_ecgi_list_ie_t) : layout :=
  layout_gie_header v.(gtp_ecgi_list_header) ++ [(16, v.(gtp_ecgi_list_nbr_of_ecgi_flds)); (8, v.(gtp_ecgi_list_ecgi_list_of_m_ecgi_flds))].
#[global] Instance gtp_ecgi_list_codec : IeCodec gtp_ecgi_list_ie_t :=
  {| ie_encode := encode_gtp_ecgi_list_ie; ie_decode := decode_gtp_ecgi_list_ie;
     ie_zero := zero_gtp_ecgi_list; ie_layout := layout_gtp_ecgi_list; ie_unit := 8 |}.
#[global] Instance gtp_ecgi_list_codec_ok : IeCodecOk gtp_ecgi_list_ie_t.
Proof. split; [solve_encodes|solve_decodes]. Qed.

Definition layout_gtp_agg_max_bit_rate (v : gtp_agg_max_bit_rate_ie_t) : layout :=
  layout_gie_header v.(gtp_agg_max_bit_rate_header) ++ [(32, v.(gtp_agg_max_bit_rate_apn_ambr_uplnk)); (32, v.(gtp_agg_max_bit_rate_apn_ambr_dnlnk))].
#[global] Instance gtp_agg_max_bit_rate_codec : IeCodec gtp_agg_max_bit_rate_ie_t :=
  {| ie_encode := encode_gtp_agg_max_bit_rate_ie; ie_decode := decode_gtp_agg_max_bit_rate_ie;
     ie_zero := zero_gtp_agg_max_bit_rate; ie_layout := layout_gtp_agg_max_bit_rate; ie_unit := 8 |}.
#[global] Instance gtp_agg_max_bit_rate_codec_ok : IeCodecOk gtp_agg_max_bit_rate_ie_t.
Proof. split; [solve_encodes|solve_decodes]. Qed.

Definition layout_gtp_cmplt_req_msg (v : gtp_cmplt_req_msg_ie_t) : layout :=
  layout_gie_header v.(gtp_cmplt_req_msg_header) ++ [(8, v.(gtp_cmplt_req_msg_cmplt_req_msg_type)); (8, v.(gtp_cmplt_req_msg_cmplt_req_msg))].
#[global] Instance gtp_cmplt_req_msg_codec : IeCodec gtp_cmplt_req_msg_ie_t :=
  {| ie_encode := encode_gtp_cmplt_req_msg_ie; ie_decode := decode_gtp_cmplt_req_msg_ie;
     ie_zero := zero_gtp_cmplt_req_msg; ie_layout := layout_gtp_cmplt_req_msg; ie_unit := 8 |}.
#[global] Instance gtp_cmplt_req_msg_codec_ok : IeCodecOk gtp_cmplt_req_msg_ie_t.
Proof. split; [solve_encodes|solve_decodes]. Qed.

Definition layout_gtp_epc_timer (v : gtp_epc_timer_ie_t) : layout :=
  layout_gie_header v.(gtp_epc_timer_header) ++ [(3, v.(gtp_epc_timer_timer_unit)); (5, v.(gtp_epc_timer_timer_value))].
#[global] Instance gtp_epc_timer_codec : IeCodec gtp_epc_timer_ie_t :=
  {| ie_encode := encode_gtp_epc_timer_ie; ie_decode := decode_gtp_epc_timer_ie;
     ie_zero := zero_gtp_epc_timer; ie_layout := layout_gtp_epc_timer; ie_unit := 8 |}.
#[global] Instance gtp_epc_timer_codec_ok : IeCodecOk gtp_epc_timer_ie_t.
Proof. split; [solve_encodes|solve_decodes]. Qed.

Definition layout_gtp_csg_id (v : gtp_csg_id_ie_t) : layout :=
  layout_gie_header v.(gtp_csg_id_header) ++ [(5, v.(gtp_csg_id_csg_id_spare2)); (3, v.(gtp_csg_id_csg_id_csg_id)); (24, v.(gtp_csg_id_csg_id_csg_id2))].
#[global] Instance gtp_csg_id_codec : IeCodec gtp_csg_id_ie_t :=
  {| ie_encode := encode_gtp_csg_id_ie; ie_decode := decode_gtp_csg_id_ie;
     ie_zero := zero_gtp_csg_id; ie_layout := layout_gtp_csg_id; ie_unit := 8 |}.
#[global] Instance gtp_csg_id_codec_ok : IeCodecOk gtp_csg_id_ie_t.
Proof. split; [solve_encodes|solve_decodes]. Qed.

Definition layout_gtp_packet_flow_id (v : gtp_packet_flow_id_ie_t) : layout :=
  layout_gie_header v.(gtp_packet_flow_id_header) ++ [(4, v.(gtp_packet_flow_id_packet_flow_id_spare2)); (4, v.(gtp_packet_flow_id_packet_flow_id_ebi)); (8, v.(gtp_packet_flow_id_packet_flow_id_packet_flow_id))].
#[global] Instance gtp_packet_flow_id_codec : IeCodec gtp_packet_flow_id_ie_t :=
  {| ie_encode := encode_gtp_packet_flow_id_ie; ie_decode := decode_gtp_packet_flow_id_ie;
     ie_zero := zero_gtp_packet_flow_id; ie_layout := layout_gtp_packet_flow_id; ie_unit := 8 |}.
#[global] Instance gtp_packet_flow_id_codec_ok : IeCodecOk gtp_packet_flow_id_ie_t.
Proof. split; [solve_encodes|solve_decodes]. Qed.

Definition layout_gtp_tmgi (v : gtp_tmgi_ie_t) : layout :=
  layout_gie_header v.(gtp_tmgi_header) ++ [(8, v.(gtp_tmgi_tmgi))].
#[global] Instance gtp_tmgi_codec : IeCodec gtp_tmgi_ie_t :=
  {| ie_encode := encode_gtp_tmgi_ie; ie_decode := decode_gtp_tmgi_ie;
     ie_zero := zero_gtp_tmgi; ie_layout := layout_gtp_tmgi; ie_unit := 8 |}.
#[global] Instance gtp_tmgi_codec_ok : IeCodecOk gtp_tmgi_ie_t.
Proof. split; [solve_encodes|solve_decodes]. Qed.

Definition layout_gtp_mntrng_evnt_info (v : gtp_mntrng_evnt_info_ie_t) : layout :=
  layout_gie_header v.(gtp_mntrng_evnt_info_header) ++ [(32, v.(gtp_mntrng_evnt_info_scef_ref_id)); (8, v.(gtp_mntrng_evnt_info_scef_id_length)); (8, v.(gtp_mntrng_evnt_info_scef_id)); (16, v.(gtp_mntrng_evnt_info_rem_nbr_of_rpts))].
#[global] Instance gtp_mntrng_evnt_info_codec : IeCodec gtp_mntrng_evnt_info_ie_t :=
  {| ie_encode := encode_gtp_mntrng_evnt_info_ie; ie_decode := decode_gtp_mntrng_evnt_info_ie;
     ie_zero := zero_gtp_mntrng_evnt_info; ie_layout := layout_gtp_mntrng_evnt_info; ie_unit := 8 |}.
#[global] Instance gtp_mntrng_evnt_info_codec_ok : IeCodecOk gtp_mntrng_evnt_info_ie_t.
Proof. split; [solve_encodes|solve_decodes]. Qed.

Definition layout_gtp_rmt_ue_ip_info (v : gtp_rmt_ue_ip_info_ie_t) : layout :=
  layout_gie_header v.(gtp_rmt_ue_ip_info_header) ++ [(8, v.(gtp_rmt_ue_ip_info_rmt_ue_ip_info))].
#[global] Instance gtp_rmt_ue_ip_info_codec : IeCodec gtp_rmt_ue_ip_info_ie_t :=
  {| ie_encode := encode_gtp_rmt_ue_ip_info_ie; ie_decode := decode_gtp_rmt_ue_ip_info_ie;
     ie_zero := zero_gtp_rmt_ue_ip_info; ie_layout := layout_gtp_rmt_ue_ip_info; ie_unit := 8 |}.
#[global] Instance gtp_rmt_ue_ip_info_codec_ok : IeCodecOk gtp_rmt_ue_ip_info_ie_t.
Proof. split; [solve_encodes|solve_decodes]. Qed.

Definition layout_gtp_bearer_qlty_of_svc (v : gtp_bearer_qlty_of_svc_ie_t) : layout :=
  layout_gie_header v.(gtp_bearer_qlty_of_svc_header) ++ [(1, v.(gtp_bearer_qlty_of_svc_spare2)); (1, v.(gtp_bearer_qlty_of_svc_pci)); (4, v.(gtp_bearer_qlty_of_svc_pl)); (1, v.(gtp_bearer_qlty_of_svc_spare3)); (1, v.(gtp_bearer_qlty_of_svc_pvi)); (8, v.(gtp_bearer_qlty_of_svc_qci)); (40, v.(gtp_bearer_qlty_of_svc_max_bit_rate_uplnk)); (40, v.(gtp_bearer_qlty_of_svc_max_bit_rate_dnlnk)); (40, v.(gtp_bearer_qlty_of_svc_guarntd_bit_rate_uplnk)); (40, v.(gtp_bearer_qlty_of_svc_guarntd_bit_rate_dnlnk))].
#[global] Instance gtp_bearer_qlty_of_svc_codec : IeCodec gtp_bearer_qlty_of_svc_ie_t :=
  {| ie_encode := encode_gtp_bearer_qlty_of_svc_ie; ie_decode := decode_gtp_bearer_qlty_of_svc_ie;
     ie_zero := zero_gtp_bearer_qlty_of_svc; ie_layout := layout_gtp_bearer_qlty_of_svc; ie_unit := 8 |}.
#[global] Instance gtp_bearer_qlty_of_svc_codec_ok : IeCodecOk gtp_bearer_qlty_of_svc_ie_t.
Proof. split; [solve_encodes|solve_decodes]. Qed.

Definition layout_gtp_mapped_ue_usage_type (v : gtp_mapped_ue_usage_type_ie_t) : layout :=
  layout_gie_header v.(gtp_mapped_ue_usage_type_header) ++ [(16, v.(gtp_mapped_ue_usage_type_mapped_ue_usage_type))].
#[global] Instance gtp_mapped_ue_usage_type_codec : IeCodec gtp_mapped_ue_usage_type_ie_t :=
  {| ie_encode := encode_gtp_mapped_ue_usage_type_ie; ie_decode := decode_gtp_mapped_ue_usage_type_ie;
     ie_zero := zero_gtp_mapped_ue_usage_type; ie_layout := layout_gtp_mapped_ue_usage_type; ie_unit := 8 |}.
#[global] Instance gtp_mapped_ue_usage_type_codec_ok : IeCodecOk gtp_mapped_ue_usage_type_ie_t.
Proof. split; [solve_encodes|solve_decodes]. Qed.

Definition layout_gtp_svc_indctr (v : gtp_svc_indctr_ie_t) : layout :=
  layout_gie_header v.(gtp_svc_indctr_header) ++ [(8, v.(gtp_svc_indctr_svc_indctr))].
#[global] Instance gtp_svc_indctr_codec : IeCodec gtp_svc_indctr_ie_t :=
  {| ie_encode := encode_gtp_svc_indctr_ie; ie_decode := decode_gtp_svc_indctr_ie;
     ie_zero := zero_gtp_svc_indctr; ie_layout := layout_gtp_svc_indctr; ie_unit := 8 |}.
#[global] Instance gtp_svc_indctr_codec_ok : IeCodecOk gtp_svc_indctr_ie_t.
Proof. split; [solve_encodes|solve_decodes]. Qed.

Definition layout_gtp_local_distgsd_name (v : gtp_local_distgsd_name_ie_t) : layout :=
  layout_gie_header v.(gtp_local_distgsd_name_header) ++ [(8, v.(gtp_local_distgsd_name_ldn))].
#[global] Instance gtp_local_distgsd_name_codec : IeCodec gtp_local_distgsd_name_ie_t :=
  {| ie_encode := encode_gtp_local_distgsd_name_ie; ie_decode := decode_gtp_local_distgsd_name_ie;
     ie_zero := zero_gtp_local_distgsd_name; ie_layout := layout_gtp_local_distgsd_name; ie_unit := 8 |}.
#[global] Instance gtp_local_distgsd_name_codec_ok : IeCodecOk gtp_local_distgsd_name_ie_t.
Proof. split; [solve_encodes|solve_decodes]. Qed.

Definition layout_gtp_csg_info_rptng_act (v : gtp_csg_info_rptng_act_ie_t) : layout :=
  layout_gie_header v.(gtp_csg_info_rptng_act_header) ++ [(5, v.(gtp_csg_info_rptng_act_spare2)); (1, v.(gtp_csg_info_rptng_act_uciuhc)); (1, v.(gtp_csg_info_rptng_act_ucishc)); (1, v.(gtp_csg_info_rptng_act_ucicsg))].
#[global] Instance gtp_csg_info_rptng_act_codec : IeCodec gtp_csg_info_rptng_act_ie_t :=
  {| ie_encode := encode_gtp_csg_info_rptng_act_ie; ie_decode := decode_gtp_csg_info_rptng_act_ie;
     ie_zero := zero_gtp_csg_info_rptng_act; ie_layout := layout_gtp_csg_info_rptng_act; ie_unit := 8 |}.
#[global] Instance gtp_csg_info_rptng_act_codec_ok : IeCodecOk gtp_csg_info_rptng_act_ie_t.
Proof. split; [solve_encodes|solve_decodes]. Qed.

Definition layout_gtp_secdry_rat_usage_data_rpt (v : gtp_secdry_rat_usage_data_rpt_ie_t) : layout :=
  layout_gie_header v.(gtp_secdry_rat_usage_data_rpt_header) ++ [(6, v.(gtp_secdry_rat_usage_data_rpt_spare2)); (1, v.(gtp_secdry_rat_usage_data_rpt_irsgw)); (1, v.(gtp_secdry_rat_usage_data_rpt_irpgw)); (8, v.(gtp_secdry_rat_usage_data_rpt_secdry_rat_type)); (4, v.(gtp_secdry_rat_usage_data_rpt_spare3)); (4, v.(gtp_secdry_rat_usage_data_rpt_ebi)); (8, v.(gtp_secdry_rat_usage_data_rpt_start_timestamp)); (8, v.(gtp_secdry_rat_usage_data_rpt_end_timestamp)); (8, v.(gtp_secdry_rat_usage_data_rpt_usage_data_dl)); (8, v.(gtp_secdry_rat_usage_data_rpt_usage_data_ul))].
#[global] Instance gtp_secdry_rat_usage_data_rpt_codec : IeCodec gtp_secdry_rat_usage_data_rpt_ie_t :=
  {| ie_encode := encode_gtp_secdry_rat_usage_data_rpt_ie; ie_decode := decode_gtp_secdry_rat_usage_data_rpt_ie;
     ie_zero := zero_gtp_secdry_rat_usage_data_rpt; ie_layout := layout_gtp_secdry_rat_usage_data_rpt; ie_unit := 8 |}.
#[global] Instance gtp_secdry_rat_usage_data_rpt_codec_ok : IeCodecOk gtp_secdry_rat_usage_data_rpt_ie_t.
Proof. split; [solve_encodes|solve_decodes]. Qed.

Definition layout_gtp_rat_type (v : gtp_rat_type_ie_t) : layout :=
  layout_gie_header v.(gtp_rat_type_header) ++ [(8, v.(gtp_rat_type_rat_type))].
#[global] Instance gtp_rat_type_codec : IeCodec gtp_rat_type_ie_t :=
  {| ie_encode := encode_gtp_rat_type_ie; ie_decode := decode_gtp_rat_type_ie;
     ie_zero := zero_gtp_rat_type; ie_layout := layout_gtp_rat_type; ie_unit := 8 |}.
#[global] Instance gtp_rat_type_codec_ok : IeCodecOk gtp_rat_type_ie_t.
Proof. split; [solve_encodes|solve_decodes]. Qed.

Definition layout_gtp_global_cn_id (v : gtp_global_cn_id_ie_t) : layout :=
  layout_gie_header v.(gtp_global_cn_id_header) ++ [(4, v.(gtp_global_cn_id_mcc_digit_2)); (4, v.(gtp_global_cn_id_mcc_digit_1)); (4, v.(gtp_global_cn_id_mnc_digit_3)); (4, v.(gtp_global_cn_id_mcc_digit_3)); (4, v.(gtp_global_cn_id_mnc_digit_2)); (4, v.(gtp_global_cn_id_mnc_digit_1)); (8, v.(gtp_global_cn_id_cn))].
#[global] Instance gtp_global_cn_id_codec : IeCodec gtp_global_cn_id_ie_t :=
  {| ie_encode := encode_gtp_global_cn_id_ie; ie_decode := decode_gtp_global_cn_id_ie;
     ie_zero := zero_gtp_global_cn_id; ie_layout := layout_gtp_global_cn_id; ie_unit := 8 |}.
#[global] Instance gtp_global_cn_id_codec_ok : IeCodecOk gtp_global_cn_id_ie_t.
Proof. split; [solve_encodes|solve_decodes]. Qed.

Definition layout_gtp_charging_id (v : gtp_charging_id_ie_t) : layout :=
  layout_gie_header v.(gtp_charging_id_header) ++ [(32, v.(gtp_charging_id_chrgng_id_val))].
#[global] Instance gtp_charging_id_codec : IeCodec gtp_charging_id_ie_t :=
  {| ie_encode := encode_gtp_charging_id_ie; ie_decode := decode_gtp_charging_id_ie;
     ie_zero := zero_gtp_charging_id; ie_layout := layout_gtp_charging_id; ie_unit := 8 |}.
#[global] Instance gtp_charging_id_codec_ok : IeCodecOk gtp_charging_id_ie_t.
Proof. split; [solve_encodes|solve_decodes]. Qed.

Definition layout_gtp_counter (v : gtp_counter_ie_t) : layout :=
  layout_gie_header v.(gtp_counter_header) ++ [(32, v.(gtp_counter_timestamp_value)); (8, v.(gtp_counter_counter_value))].
#[global] Instance gtp_counter_codec : IeCodec gtp_counter_ie_t :=
  {| ie_encode := encode_gtp_counter_ie; ie_decode := decode_gtp_counter_ie;
     ie_zero := zero_gtp_counter; ie_layout := layout_gtp_counter; ie_unit := 8 |}.
#[global] Instance gtp_counter_codec_ok : IeCodecOk gtp_counter_ie_t.
Proof. split; [solve_encodes|solve_decodes]. Qed.

Definition layout_gtp_serving_network (v : gtp_serving_network_ie_t) : layout :=
  layout_gie_header v.(gtp_serving_network_header) ++ [(4, v.(gtp_serving_network_mcc_digit_2)); (4, v.(gtp_serving_network_mcc_digit_1)); (4, v.(gtp_serving_network_mnc_digit_3)); (4, v.(gtp_serving_network_mcc_digit_3)); (4, v.(gtp_serving_network_mnc_digit_2)); (4, v.(gtp_serving_network_mnc_digit_1))].
#[global] Instance gtp_serving_network_codec : IeCodec gtp_serving_network_ie_t :=
  {| ie_encode := encode_gtp_serving_network_ie; ie_decode := decode_gtp_serving_network_ie;
     ie_zero := zero_gtp_serving_network; ie_layout := layout_gtp_serving_network; ie_unit := 8 |}.
#[global] Instance gtp_serving_network_codec_ok : IeCodecOk gtp_serving_network_ie_t.
Proof. split; [solve_encodes|solve_decodes]. Qed.

Definition layout_gtp_node_identifier (v : gtp_node_identifier_ie_t) : layout :=
  layout_gie_header v.(gtp_node_identifier_header) ++ [(8, v.(gtp_node_identifier_len_of_node_name)); (8, v.(gtp_node_identifier_node_name)); (8, v.(gtp_node_identifier_len_of_node_realm)); (8, v.(gtp_node_identifier_node_realm))].
#[global] Instance gtp_node_identifier_codec : IeCodec gtp_node_identifier_ie_t :=
  {| ie_encode := encode_gtp_node_identifier_ie; ie_decode := decode_gtp_node_identifier_ie;
     ie_zero := zero_gtp_node_identifier; ie_layout := layout_gtp_node_identifier; ie_unit := 8 |}.
#[global] Instance gtp_node_identifier_codec_ok : IeCodecOk gtp_node_identifier_ie_t.
Proof. split; [solve_encodes|solve_decodes]. Qed.

Definition layout_gtp_mbms_ip_multcst_dist (v : gtp_mbms_ip_multcst_dist_ie_t) : layout :=
  layout_gie_header v.(gtp_mbms_ip_multcst_dist_header) ++ [(32, v.(gtp_mbms_ip_multcst_dist_cmn_tunn_endpt_idnt)); (2, v.(gtp_mbms_ip_multcst_dist_address_type)); (6, v.(gtp_mbms_ip_multcst_dist_address_length)); (8, v.(gtp_mbms_ip_multcst_dist_ip_multcst_dist_addr)); (2, v.(gtp_mbms_ip_multcst_dist_address_type2)); (6, v.(gtp_mbms_ip_multcst_dist_address_length2)); (8, v.(gtp_mbms_ip_multcst_dist_ip_multcst_src_addr)); (8, v.(gtp_mbms_ip_multcst_dist_mbms_hc_indctr))].
#[global] Instance gtp_mbms_ip_multcst_dist_codec : IeCodec gtp_mbms_ip_multcst_dist_ie_t :=
  {| ie_encode := encode_gtp_mbms_ip_multcst_dist_ie; ie_decode := decode_gtp_mbms_ip_multcst_dist_ie;
     ie_zero := zero_gtp_mbms_ip_multcst_dist; ie_layout := layout_gtp_mbms_ip_multcst_dist; ie_unit := 8 |}.
#[global] Instance gtp_mbms_ip_multcst_dist_codec_ok : IeCodecOk gtp_mbms_ip_multcst_dist_ie_t.
Proof. split; [solve_encodes|solve_decodes]. Qed.

Definition layout_gtp_full_qual_cntnr (v : gtp_full_qual_cntnr_ie_t) : layout :=
  layout_gie_header v.(gtp_full_qual_cntnr_header) ++ [(4, v.(gtp_full_qual_cntnr_spare2)); (4, v.(gtp_full_qual_cntnr_container_type)); (8, v.(gtp_full_qual_cntnr_fcontainer_fld))].
#[global] Instance gtp_full_qual_cntnr_codec : IeCodec gtp_full_qual_cntnr_ie_t :=
  {| ie_encode := encode_gtp_full_qual_cntnr_ie; ie_decode := decode_gtp_full_qual_cntnr_ie;
     ie_zero := zero_gtp_full_qual_cntnr; ie_layout := layout_gtp_full_qual_cntnr; ie_unit := 8 |}.
#[global] Instance gtp_full_qual_cntnr_codec_ok : IeCodecOk gtp_full_qual_cntnr_ie_t.
Proof. split; [solve_encodes|solve_decodes]. Qed.

Definition layout_gtp_mbms_data_xfer_abs_time (v : gtp_mbms_data_xfer_abs_time_ie_t) : layout :=
  layout_gie_header v.(gtp_mbms_data_xfer_abs_time_header) ++ [(64, v.(gtp_mbms_data_xfer_abs_time_mbms_data_xfer_abs_time_val_prt))].
#[global] Instance gtp_mbms_data_xfer_abs_time_codec : IeCodec gtp_mbms_data_xfer_abs_time_ie_t :=
  {| ie_encode := encode_gtp_mbms_data_xfer_abs_time_ie; ie_decode := decode_gtp_mbms_data_xfer_abs_time_ie;
     ie_zero := zero_gtp_mbms_data_xfer_abs_time; ie_layout := layout_gtp_mbms_data_xfer_abs_time; ie_unit := 8 |}.
#[global] Instance gtp_mbms_data_xfer_abs_time_codec_ok : IeCodecOk gtp_mbms_data_xfer_abs_time_ie_t.
Proof. split; [solve_encodes|solve_decodes]. Qed.

Definition layout_gtp_gsm_key_used_cipher_and_quintuplets (v : gtp_gsm_key_used_cipher_and_quintuplets_ie_t) : layout :=
  layout_gie_header v.(gtp_gsm_key_used_cipher_and_quintuplets_header) ++ [(3, v.(gtp_gsm_key_used_cipher_and_quintuplets_security_mode)); (1, v.(gtp_gsm_key_used_cipher_and_quintuplets_spare2)); (1, v.(gtp_gsm_key_used_cipher_and_quintuplets_drxi)); (3, v.(gtp_gsm_key_used_cipher_and_quintuplets_cksnksi)); (3, v.(gtp_gsm_key_used_cipher_and_quintuplets_nbr_of_quintuplets)); (3, v.(gtp_gsm_key_used_cipher_and_quintuplets_spare3)); (1, v.(gtp_gsm_key_used_cipher_and_quintuplets_uambri)); (1, v.(gtp_gsm_key_used_cipher_and_quintuplets_sambri)); (5, v.(gtp_gsm_key_used_cipher_and_quintuplets_spare4)); (3, v.(gtp_gsm_key_used_cipher_and_quintuplets_used_cipher)); (64, v.(gtp_gsm_key_used_cipher_and_quintuplets_kc)); (8, v.(gtp_gsm_key_used_cipher_and_quintuplets_auth_quintuplets)); (16, v.(gtp_gsm_key_used_cipher_and_quintuplets_drx_parameter)); (32, v.(gtp_gsm_key_used_cipher_and_quintuplets_uplnk_subscrbd_ue_ambr)); (32, v.(gtp_gsm_key_used_cipher_and_quintuplets_dnlnk_subscrbd_ue_ambr)); (32, v.(gtp_gsm_key_used_cipher_and_quintuplets_uplnk_used_ue_ambr)); (32, v.(gtp_gsm_key_used_cipher_and_quintuplets_dnlnk_used_ue_ambr)); (8, v.(gtp_gsm_key_used_cipher_and_quintuplets_ue_ntwk_capblty_len)); (8, v.(gtp_gsm_key_used_cipher_and_quintuplets_ue_ntwk_capblty)); (8, v.(gtp_gsm_key_used_cipher_and_quintuplets_ms_ntwk_capblty_len)); (8, v.(gtp_gsm_key_used_cipher_and_quintuplets_ms_ntwk_capblty)); (8, v.(gtp_gsm_key_used_cipher_and_quintuplets_mei_length)); (8, v.(gtp_gsm_key_used_cipher_and_quintuplets_mei)); (1, v.(gtp_gsm_key_used_cipher_and_quintuplets_ecna)); (1, v.(gtp_gsm_key_used_cipher_and_quintuplets_nbna)); (1, v.(gtp_gsm_key_used_cipher_and_quintuplets_hnna)); (1, v.(gtp_gsm_key_used_cipher_and_quintuplets_ena)); (1, v.(gtp_gsm_key_used_cipher_and_quintuplets_ina)); (1, v.(gtp_gsm_key_used_cipher_and_quintuplets_gana)); (1, v.(gtp_gsm_key_used_cipher_and_quintuplets_gena)); (1, v.(gtp_gsm_key_used_cipher_and_quintuplets_una)); (8, v.(gtp_gsm_key_used_cipher_and_quintuplets_vdom_pref_ue_usage_len)); (8, v.(gtp_gsm_key_used_cipher_and_quintuplets_voice_domain_pref_and_ues_usage_setting)); (8, v.(gtp_gsm_key_used_cipher_and_quintuplets_higher_bitrates_flg_len)); (8, v.(gtp_gsm_key_used_cipher_and_quintuplets_higher_bitrates_flg))].
#[global] Instance gtp_gsm_key_used_cipher_and_quintuplets_codec : IeCodec gtp_gsm_key_used_cipher_and_quintuplets_ie_t :=
  {| ie_encode := encode_gtp_gsm_key_used_cipher_and_quintuplets_ie; ie_decode := decode_gtp_gsm_key_used_cipher_and_quintuplets_ie;
     ie_zero := zero_gtp_gsm_key_used_cipher_and_quintuplets; ie_layout := layout_gtp_gsm_key_used_cipher_and_quintuplets; ie_unit := 8 |}.
#[global] Instance gtp_gsm_key_used_cipher_and_quintuplets_codec_ok : IeCodecOk gtp_gsm_key_used_cipher_and_quintuplets_ie_t.
Proof. split; [solve_encodes|solve_decodes]. Qed.

Definition layout_gtp_twan_idnt_ts (v : gtp_twan_idnt_ts_ie_t) : layout :=
  layout_gie_header v.(gtp_twan_idnt_ts_header) ++ [(8, v.(gtp_twan_idnt_ts_twan_idnt_ts_val))].
#[global] Instance gtp_twan_idnt_ts_codec : IeCodec gtp_twan_idnt_ts_ie_t :=
  {| ie_encode := encode_gtp_twan_idnt_ts_ie; ie_decode := decode_gtp_twan_idnt_ts_ie;
     ie_zero := zero_gtp_twan_idnt_ts; ie_layout := layout_gtp_twan_idnt_ts; ie_unit := 8 |}.
#[global] Instance gtp_twan_idnt_ts_codec_ok : IeCodecOk gtp_twan_idnt_ts_ie_t.
Proof. split; [solve_encodes|solve_decodes]. Qed.

Definition layout_gtp_tmsi (v : gtp_tmsi_ie_t) : layout :=
  layout_gie_header v.(gtp_tmsi_header) ++ [(8, v.(gtp_tmsi_tmsi))].
#[global] Instance gtp_tmsi_codec : IeCodec gtp_tmsi_ie_t :=
  {| ie_encode := encode_gtp_tmsi_ie; ie_decode := decode_gtp_tmsi_ie;
     ie_zero := zero_gtp_tmsi; ie_layout := layout_gtp_tmsi; ie_unit := 8 |}.
#[global] Instance gtp_tmsi_codec_ok : IeCodecOk gtp_tmsi_ie_t.
Proof. split; [solve_encodes|solve_decodes]. Qed.

Definition layout_gtp_ptmsi (v : gtp_ptmsi_ie_t) : layout :=
  layout_gie_header v.(gtp_ptmsi_header) ++ [(8, v.(gtp_ptmsi_ptmsi))].
#[global] Instance gtp_ptmsi_codec : IeCodec gtp_ptmsi_ie_t :=
  {| ie_encode := encode_gtp_ptmsi_ie; ie_decode := decode_gtp_ptmsi_ie;
     ie_zero := zero_gtp_ptmsi; ie_layout := layout_gtp_ptmsi; ie_unit := 8 |}.
#[global] Instance gtp_ptmsi_codec_ok : IeCodecOk gtp_ptmsi_ie_t.
Proof. split; [solve_encodes|solve_decodes]. Qed.

Definition layout_gtp_node_type (v : gtp_node_type_ie_t) : layout :=
  layout_gie_header v.(gtp_node_type_header) ++ [(8, v.(gtp_node_type_node_type))].
#[global] Instance gtp_node_type_codec : IeCodec gtp_node_type_ie_t :=
  {| ie_encode := encode_gtp_node_type_ie; ie_decode := decode_gtp_node_type_ie;
     ie_zero := zero_gtp_node_type; ie_layout := layout_gtp_node_type; ie_unit := 8 |}.
#[global] Instance gtp_node_type_codec_ok : IeCodecOk gtp_node_type_ie_t.
Proof. split; [solve_encodes|solve_decodes]. Qed.

Definition layout_gtp_integer_number (v : gtp_integer_number_ie_t) : layout :=
  layout_gie_header v.(gtp_integer_number_header) ++ [(8, v.(gtp_integer_number_int_nbr_val))].
#[global] Instance gtp_integer_number_codec : IeCodec gtp_integer_number_ie_t :=
  {| ie_encode := encode_gtp_integer_number_ie; ie_decode := decode_gtp_integer_number_ie;
     ie_zero := zero_gtp_integer_number; ie_layout := layout_gtp_integer_number; ie_unit := 8 |}.
#[global] Instance gtp_integer_number_codec_ok : IeCodecOk gtp_integer_number_ie_t.
Proof. split; [solve_encodes|solve_decodes]. Qed.

Definition layout_gtp_mbms_sess_dur (v : gtp_mbms_sess_dur_ie_t) : layout :=
  layout_gie_header v.(gtp_mbms_sess_dur_header) ++ [(24, v.(gtp_mbms_sess_dur_mbms_sess_dur))].
#[global] Instance gtp_mbms_sess_dur_codec : IeCodec gtp_mbms_sess_dur_ie_t :=
  {| ie_encode := encode_gtp_mbms_sess_dur_ie; ie_decode := decode_gtp_mbms_sess_dur_ie;
     ie_zero := zero_gtp_mbms_sess_dur; ie_layout := layout_gtp_mbms_sess_dur; ie_unit := 8 |}.
#[global] Instance gtp_mbms_sess_dur_codec_ok : IeCodecOk gtp_mbms_sess_dur_ie_t.
Proof. split; [solve_encodes|solve_decodes]. Qed.

Definition layout_gtp_metric (v : gtp_metric_ie_t) : layout :=
  layout_gie_header v.(gtp_metric_header) ++ [(8, v.(gtp_metric_metric))].
#[global] Instance gtp_metric_codec : IeCodec gtp_metric_ie_t :=
  {| ie_encode := encode_gtp_metric_ie; ie_decode := decode_gtp_metric_ie;
     ie_zero := zero_gtp_metric; ie_layout := layout_gtp_metric; ie_unit := 8 |}.
#[global] Instance gtp_metric_codec_ok : IeCodecOk gtp_metric_ie_t.
Proof. split; [solve_encodes|solve_decodes]. Qed.

Definition layout_gtp_ciot_optim_supp_indctn (v : gtp_ciot_optim_supp_indctn_ie_t) : layout :=
  layout_gie_header v.(gtp_ciot_optim_supp_indctn_header) ++ [(1, v.(gtp_ciot_optim_supp_indctn_spare2)); (1, v.(gtp_ciot_optim_supp_indctn_spare3)); (1, v.(gtp_ciot_optim_supp_indctn_spare4)); (1, v.(gtp_ciot_optim_supp_indctn_spare5)); (1, v.(gtp_ciot_optim_supp_indctn_ihcsi)); (1, v.(gtp_ciot_optim_supp_indctn_awopdn)); (1, v.(gtp_ciot_optim_supp_indctn_scnipdn)); (1, v.(gtp_ciot_optim_supp_indctn_sgnipdn))].
#[global] Instance gtp_ciot_optim_supp_indctn_codec : IeCodec gtp_ciot_optim_supp_indctn_ie_t :=
  {| ie_encode := encode_gtp_ciot_optim_supp_indctn_ie; ie_decode := decode_gtp_ciot_optim_supp_indctn_ie;
     ie_zero := zero_gtp_ciot_optim_supp_indctn; ie_layout := layout_gtp_ciot_optim_supp_indctn; ie_unit := 8 |}.
#[global] Instance gtp_ciot_optim_supp_indctn_codec_ok : IeCodecOk gtp_ciot_optim_supp_indctn_ie_t.
Proof. split; [solve_encodes|solve_decodes]. Qed.

Definition layout_gtp_pdu_numbers (v : gtp_pdu_numbers_ie_t) : layout :=
  layout_gie_header v.(gtp_pdu_numbers_header) ++ [(4, v.(gtp_pdu_numbers_spare2)); (4, v.(gtp_pdu_numbers_nsapi)); (8, v.(gtp_pdu_numbers_dl_gtpu_seqn_nbr)); (8, v.(gtp_pdu_numbers_ul_gtpu_seqn_nbr)); (8, v.(gtp_pdu_numbers_snd_npdu_nbr)); (8, v.(gtp_pdu_numbers_rcv_npdu_nbr))].
#[global] Instance gtp_pdu_numbers_codec : IeCodec gtp_pdu_numbers_ie_t :=
  {| ie_encode := encode_gtp_pdu_numbers_ie; ie_decode := decode_gtp_pdu_numbers_ie;
     ie_zero := zero_gtp_pdu_numbers; ie_layout := layout_gtp_pdu_numbers; ie_unit := 8 |}.
#[global] Instance gtp_pdu_numbers_codec_ok : IeCodecOk gtp_pdu_numbers_ie_t.
Proof. split; [solve_encodes|solve_decodes]. Qed.

Definition layout_gtp_rab_context (v : gtp_rab_context_ie_t) : layout :=
  layout_gie_header v.(gtp_rab_context_header) ++ [(4, v.(gtp_rab_context_spare2)); (4, v.(gtp_rab_context_nsapi)); (16, v.(gtp_rab_context_dl_gtpu_seqn_nbr)); (16, v.(gtp_rab_context_ul_gtpu_seqn_nbr)); (16, v.(gtp_rab_context_dl_pdcp_seqn_nbr)); (16, v.(gtp_rab_context_ul_pdcp_seqn_nbr))].
#[global] Instance gtp_rab_context_codec : IeCodec gtp_rab_context_ie_t :=
  {| ie_encode := encode_gtp_rab_context_ie; ie_decode := decode_gtp_rab_context_ie;
     ie_zero := zero_gtp_rab_context; ie_layout := layout_gtp_rab_context; ie_unit := 8 |}.
#[global] Instance gtp_rab_context_codec_ok : IeCodecOk gtp_rab_context_ie_t.
Proof. split; [solve_encodes|solve_decodes]. Qed.

Definition layout_gtp_addtl_flgs_srvcc (v : gtp_addtl_flgs_srvcc_ie_t) : layout :=
  layout_gie_header v.(gtp_addtl_flgs_srvcc_header) ++ [(6, v.(gtp_addtl_flgs_srvcc_spare2)); (1, v.(gtp_addtl_flgs_srvcc_vf)); (1, v.(gtp_addtl_flgs_srvcc_ics))].
#[global] Instance gtp_addtl_flgs_srvcc_codec : IeCodec gtp_addtl_flgs_srvcc_ie_t :=
  {| ie_encode := encode_gtp_addtl_flgs_srvcc_ie; ie_decode := decode_gtp_addtl_flgs_srvcc_ie;
     ie_zero := zero_gtp_addtl_flgs_srvcc; ie_layout := layout_gtp_addtl_flgs_srvcc; ie_unit := 8 |}.
#[global] Instance gtp_addtl_flgs_srvcc_codec_ok : IeCodecOk gtp_addtl_flgs_srvcc_ie_t.
Proof. split; [solve_encodes|solve_decodes]. Qed.

Definition layout_gtp_gsm_key_and_triplets (v : gtp_gsm_key_and_triplets_ie_t) : layout :=
  layout_gie_header v.(gtp_gsm_key_and_triplets_header) ++ [(3, v.(gtp_gsm_key_and_triplets_security_mode)); (1, v.(gtp_gsm_key_and_triplets_spare2)); (1, v.(gtp_gsm_key_and_triplets_drxi)); (3, v.(gtp_gsm_key_and_triplets_cksn)); (3, v.(gtp_gsm_key_and_triplets_nbr_of_triplet)); (3, v.(gtp_gsm_key_and_triplets_spare3)); (1, v.(gtp_gsm_key_and_triplets_uambri)); (1, v.(gtp_gsm_key_and_triplets_sambri)); (5, v.(gtp_gsm_key_and_triplets_spare4)); (3, v.(gtp_gsm_key_and_triplets_used_cipher)); (64, v.(gtp_gsm_key_and_triplets_kc)); (8, v.(gtp_gsm_key_and_triplets_auth_triplet)); (16, v.(gtp_gsm_key_and_triplets_drx_parameter)); (32, v.(gtp_gsm_key_and_triplets_uplnk_subscrbd_ue_ambr)); (32, v.(gtp_gsm_key_and_triplets_dnlnk_subscrbd_ue_ambr)); (32, v.(gtp_gsm_key_and_triplets_uplnk_used_ue_ambr)); (32, v.(gtp_gsm_key_and_triplets_dnlnk_used_ue_ambr)); (8, v.(gtp_gsm_key_and_triplets_ue_ntwk_capblty_len)); (8, v.(gtp_gsm_key_and_triplets_ue_ntwk_capblty)); (8, v.(gtp_gsm_key_and_triplets_ms_ntwk_capblty_len)); (8, v.(gtp_gsm_key_and_triplets_ms_ntwk_capblty)); (8, v.(gtp_gsm_key_and_triplets_mei_length)); (8, v.(gtp_gsm_key_and_triplets_mei)); (1, v.(gtp_gsm_key_and_triplets_ecna)); (1, v.(gtp_gsm_key_and_triplets_nbna)); (1, v.(gtp_gsm_key_and_triplets_hnna)); (1, v.(gtp_gsm_key_and_triplets_ena)); (1, v.(gtp_gsm_key_and_triplets_ina)); (1, v.(gtp_gsm_key_and_triplets_gana)); (1, v.(gtp_gsm_key_and_triplets_gena)); (1, v.(gtp_gsm_key_and_triplets_una)); (8, v.(gtp_gsm_key_and_triplets_vdom_pref_ue_usage_len)); (8, v.(gtp_gsm_key_and_triplets_voice_domain_pref_and_ues_usage_setting))].
#[global] Instance gtp_gsm_key_and_triplets_codec : IeCodec gtp_gsm_key_and_triplets_ie_t :=
  {| ie_encode := encode_gtp_gsm_key_and_triplets_ie; ie_decode := decode_gtp_gsm_key_and_triplets_ie;
     ie_zero := zero_gtp_gsm_key_and_triplets; ie_layout := layout_gtp_gsm_key_and_triplets; ie_unit := 8 |}.
#[global] Instance gtp_gsm_key_and_triplets_codec_ok : IeCodecOk gtp_gsm_key_and_triplets_ie_t.
Proof. split; [solve_encodes|solve_decodes]. Qed.

Definition layout_gtp_node_number (v : gtp_node_number_ie_t) : layout :=
  layout_gie_header v.(gtp_node_number_header) ++ [(8, v.(gtp_node_number_len_of_node_nbr)); (8, v.(gtp_node_number_node_number))].
#[global] Instance gtp_node_number_codec : IeCodec gtp_node_number_ie_t :=
  {| ie_encode := encode_gtp_node_number_ie; ie_decode := decode_gtp_node_number_ie;
     ie_zero := zero_gtp_node_number; ie_layout := layout_gtp_node_number; ie_unit := 8 |}.
#[global] Instance gtp_node_number_codec_ok : IeCodecOk gtp_node_number_ie_t.
Proof. split; [solve_encodes|solve_decodes]. Qed.

Definition layout_gtp_full_qual_cause (v : gtp_full_qual_cause_ie_t) : layout :=
  layout_gie_header v.(gtp_full_qual_cause_header) ++ [(4, v.(gtp_full_qual_cause_spare2)); (4, v.(gtp_full_qual_cause_cause_type)); (8, v.(gtp_full_qual_cause_fcause_field))].
#[global] Instance gtp_full_qual_cause_codec : IeCodec gtp_full_qual_cause_ie_t :=
  {| ie_encode := encode_gtp_full_qual_cause_ie; ie_decode := decode_gtp_full_qual_cause_ie;
     ie_zero := zero_gtp_full_qual_cause; ie_layout := layout_gtp_full_qual_cause; ie_unit := 8 |}.
#[global] Instance gtp_full_qual_cause_codec_ok : IeCodecOk gtp_full_qual_cause_ie_t.
Proof. split; [solve_encodes|solve_decodes]. Qed.

Definition layout_gtp_ipv4_cfg_parms (v : gtp_ipv4_cfg_parms_ie_t) : layout :=
  layout_gie_header v.(gtp_ipv4_cfg_parms_header) ++ [(8, v.(gtp_ipv4_cfg_parms_subnet_pfx_len)); (32, v.(gtp_ipv4_cfg_parms_ipv4_dflt_rtr_addr))].
#[global] Instance gtp_ipv4_cfg_parms_codec : IeCodec gtp_ipv4_cfg_parms_ie_t :=
  {| ie_encode := encode_gtp_ipv4_cfg_parms_ie; ie_decode := decode_gtp_ipv4_cfg_parms_ie;
     ie_zero := zero_gtp_ipv4_cfg_parms; ie_layout := layout_gtp_ipv4_cfg_parms; ie_unit := 8 |}.
#[global] Instance gtp_ipv4_cfg_parms_codec_ok : IeCodecOk gtp_ipv4_cfg_parms_ie_t.
Proof. split; [solve_encodes|solve_decodes]. Qed.

Definition layout_gtp_trace_reference (v : gtp_trace_reference_ie_t) : layout :=
  layout_gie_header v.(gtp_trace_reference_header) ++ [(4, v.(gtp_trace_reference_mcc_digit_2)); (4, v.(gtp_trace_reference_mcc_digit_1)); (4, v.(gtp_trace_reference_mnc_digit_3)); (4, v.(gtp_trace_reference_mcc_digit_3)); (4, v.(gtp_trace_reference_mnc_digit_2)); (4, v.(gtp_trace_reference_mnc_digit_1)); (24, v.(gtp_trace_reference_trace_id))].
#[global] Instance gtp_trace_reference_codec : IeCodec gtp_trace_reference_ie_t :=
  {| ie_encode := encode_gtp_trace_reference_ie; ie_decode := decode_gtp_trace_reference_ie;
     ie_zero := zero_gtp_trace_reference; ie_layout := layout_gtp_trace_reference; ie_unit := 8 |}.
#[global] Instance gtp_trace_reference_codec_ok : IeCodecOk gtp_trace_reference_ie_t.
Proof. split; [solve_encodes|solve_decodes]. Qed.

Definition layout_gtp_node_features (v : gtp_node_features_ie_t) : layout :=
  layout_gie_header v.(gtp_node_features_header) ++ [(8, v.(gtp_node_features_sup_feat))].
#[global] Instance gtp_node_features_codec : IeCodec gtp_node_features_ie_t :=
  {| ie_encode := encode_gtp_node_features_ie; ie_decode := decode_gtp_node_features_ie;
     ie_zero := zero_gtp_node_features; ie_layout := layout_gtp_node_features; ie_unit := 8 |}.
#[global] Instance gtp_node_features_codec_ok : IeCodecOk gtp_node_features_ie_t.
Proof. split; [solve_encodes|solve_decodes]. Qed.

Definition layout_gtp_remote_user_id (v : gtp_remote_user_id_ie_t) : layout :=
  layout_gie_header v.(gtp_remote_user_id_header) ++ [(6, v.(gtp_remote_user_id_spare2)); (1, v.(gtp_remote_user_id_imeif)); (1, v.(gtp_remote_user_id_msisdnf)); (8, v.(gtp_remote_user_id_length_of_imsi)); (8, v.(gtp_remote_user_id_len_of_msisdn)); (8, v.(gtp_remote_user_id_length_of_imei)); (8, v.(gtp_remote_user_id_imei))].
#[global] Instance gtp_remote_user_id_codec : IeCodec gtp_remote_user_id_ie_t :=
  {| ie_encode := encode_gtp_remote_user_id_ie; ie_decode := decode_gtp_remote_user_id_ie;
     ie_zero := zero_gtp_remote_user_id; ie_layout := layout_gtp_remote_user_id; ie_unit := 8 |}.
#[global] Instance gtp_remote_user_id_codec_ok : IeCodecOk gtp_remote_user_id_ie_t.
Proof. split; [solve_encodes|solve_decodes]. Qed.

Definition layout_gtp_port_number (v : gtp_port_number_ie_t) : layout :=
  layout_gie_header v.(gtp_port_number_header) ++ [(16, v.(gtp_port_number_port_number))].
#[global] Instance gtp_port_number_codec : IeCodec gtp_port_number_ie_t :=
  {| ie_encode := encode_gtp_port_number_ie; ie_decode := decode_gtp_port_number_ie;
     ie_zero := zero_gtp_port_number; ie_layout := layout_gtp_port_number; ie_unit := 8 |}.
#[global] Instance gtp_port_number_codec_ok : IeCodecOk gtp_port_number_ie_t.
Proof. split; [solve_encodes|solve_decodes]. Qed.

Definition layout_gtp_addtl_mm_ctxt_srvcc (v : gtp_addtl_mm_ctxt_srvcc_ie_t) : layout :=
  layout_gie_header v.(gtp_addtl_mm_ctxt_srvcc_header) ++ [(8, v.(gtp_addtl_mm_ctxt_srvcc_ms_classmark_2_len)); (8, v.(gtp_addtl_mm_ctxt_srvcc_ms_classmark_2)); (8, v.(gtp_addtl_mm_ctxt_srvcc_ms_classmark_3_len)); (8, v.(gtp_addtl_mm_ctxt_srvcc_ms_classmark_3)); (8, v.(gtp_addtl_mm_ctxt_srvcc_sup_codec_list_len)); (8, v.(gtp_addtl_mm_ctxt_srvcc_sup_codec_list))].
#[global] Instance gtp_addtl_mm_ctxt_srvcc_codec : IeCodec gtp_addtl_mm_ctxt_srvcc_ie_t :=
  {| ie_encode := encode_gtp_addtl_mm_ctxt_srvcc_ie; ie_decode := decode_gtp_addtl_mm_ctxt_srvcc_ie;
     ie_zero := zero_gtp_addtl_mm_ctxt_srvcc; ie_layout := layout_gtp_addtl_mm_ctxt_srvcc; ie_unit := 8 |}.
#[global] Instance gtp_addtl_mm_ctxt_srvcc_codec_ok : IeCodecOk gtp_addtl_mm_ctxt_srvcc_ie_t.
Proof. split; [solve_encodes|solve_decodes]. Qed.

Definition layout_gtp_plmn_id (v : gtp_plmn_id_ie_t) : layout :=
  layout_gie_header v.(gtp_plmn_id_header) ++ [(4, v.(gtp_plmn_id_mcc_digit_2)); (4, v.(gtp_plmn_id_mcc_digit_1)); (4, v.(gtp_plmn_id_mnc_digit_1)); (4, v.(gtp_plmn_id_mcc_digit_3)); (4, v.(gtp_plmn_id_mnc_digit_3)); (4, v.(gtp_plmn_id_mnc_digit_2))].
#[global] Instance gtp_plmn_id_codec : IeCodec gtp_plmn_id_ie_t :=
  {| ie_encode := encode_gtp_plmn_id_ie; ie_decode := decode_gtp_plmn_id_ie;
     ie_zero := zero_gtp_plmn_id; ie_layout := layout_gtp_plmn_id; ie_unit := 8 |}.
#[global] Instance gtp_plmn_id_codec_ok : IeCodecOk gtp_plmn_id_ie_t.
Proof. split; [solve_encodes|solve_decodes]. Qed.

Definition layout_gtp_mbms_flow_idnt (v : gtp_mbms_flow_idnt_ie_t) : layout :=
  layout_gie_header v.(gtp_mbms_flow_idnt_header) ++ [(16, v.(gtp_mbms_flow_idnt_mbms_flow_id))].
#[global] Instance gtp_mbms_flow_idnt_codec : IeCodec gtp_mbms_flow_idnt_ie_t :=
  {| ie_encode := encode_gtp_mbms_flow_idnt_ie; ie_decode := decode_gtp_mbms_flow_idnt_ie;
     ie_zero := zero_gtp_mbms_flow_idnt; ie_layout := layout_gtp_mbms_flow_idnt; ie_unit := 8 |}.
#[global] Instance gtp_mbms_flow_idnt_codec_ok : IeCodecOk gtp_mbms_flow_idnt_ie_t.
Proof. split; [solve_encodes|solve_decodes]. Qed.

Definition layout_gtp_hdr_comp_cfg (v : gtp_hdr_comp_cfg_ie_t) : layout :=
  layout_gie_header v.(gtp_hdr_comp_cfg_header) ++ [(16, v.(gtp_hdr_comp_cfg_rohc_profiles)); (16, v.(gtp_hdr_comp_cfg_max_cid))].
#[global] Instance gtp_hdr_comp_cfg_codec : IeCodec gtp_hdr_comp_cfg_ie_t :=
  {| ie_encode := encode_gtp_hdr_comp_cfg_ie; ie_decode := decode_gtp_hdr_comp_cfg_ie;
     ie_zero := zero_gtp_hdr_comp_cfg; ie_layout := layout_gtp_hdr_comp_cfg; ie_unit := 8 |}.
#[global] Instance gtp_hdr_comp_cfg_codec_ok : IeCodecOk gtp_hdr_comp_cfg_ie_t.
Proof. split; [solve_encodes|solve_decodes]. Qed.

Definition layout_gtp_sgnllng_priority_indctn (v : gtp_sgnllng_priority_indctn_ie_t) : layout :=
  layout_gie_header v.(gtp_sgnllng_priority_indctn_header) ++ [(7, v.(gtp_sgnllng_priority_indctn_spare2)); (1, v.(gtp_sgnllng_priority_indctn_lapi))].
#[global] Instance gtp_sgnllng_priority_indctn_codec : IeCodec gtp_sgnllng_priority_indctn_ie_t :=
  {| ie_encode := encode_gtp_sgnllng_priority_indctn_ie; ie_decode := decode_gtp_sgnllng_priority_indctn_ie;
     ie_zero := zero_gtp_sgnllng_priority_indctn; ie_layout := layout_gtp_sgnllng_priority_indctn; ie_unit := 8 |}.
#[global] Instance gtp_sgnllng_priority_indctn_codec_ok : IeCodecOk gtp_sgnllng_priority_indctn_ie_t.
Proof. split; [solve_encodes|solve_decodes]. Qed.

Definition layout_gtp_mbms_time_to_data_xfer (v : gtp_mbms_time_to_data_xfer_ie_t) : layout :=
  layout_gie_header v.(gtp_mbms_time_to_data_xfer_header) ++ [(8, v.(gtp_mbms_time_to_data_xfer_mbms_time_to_data_xfer_val_prt))].
#[global] Instance gtp_mbms_time_to_data_xfer_codec : IeCodec gtp_mbms_time_to_data_xfer_ie_t :=
  {| ie_encode := encode_gtp_mbms_time_to_data_xfer_ie; ie_decode := decode_gtp_mbms_time_to_data_xfer_ie;
     ie_zero := zero_gtp_mbms_time_to_data_xfer; ie_layout := layout_gtp_mbms_time_to_data_xfer; ie_unit := 8 |}.
#[global] Instance gtp_mbms_time_to_data_xfer_codec_ok : IeCodecOk gtp_mbms_time_to_data_xfer_ie_t.
Proof. split; [solve_encodes|solve_decodes]. Qed.

Definition layout_gtp_trgt_id (v : gtp_trgt_id_ie_t) : layout :=
  layout_gie_header v.(gtp_trgt_id_header) ++ [(8, v.(gtp_trgt_id_target_type)); (8, v.(gtp_trgt_id_target_id))].
#[global] Instance gtp_trgt_id_codec : IeCodec gtp_trgt_id_ie_t :=
  {| ie_encode := encode_gtp_trgt_id_ie; ie_decode := decode_gtp_trgt_id_ie;
     ie_zero := zero_gtp_trgt_id; ie_layout := layout_gtp_trgt_id; ie_unit := 8 |}.
#[global] Instance gtp_trgt_id_codec_ok : IeCodecOk gtp_trgt_id_ie_t.
Proof. split; [solve_encodes|solve_decodes]. Qed.

Definition layout_gtp_mbms_flags (v : gtp_mbms_flags_ie_t) : layout :=
  layout_gie_header v.(gtp_mbms_flags_header) ++ [(6, v.(gtp_mbms_flags_spare2)); (1, v.(gtp_mbms_flags_lmri)); (1, v.(gtp_mbms_flags_msri))].
#[global] Instance gtp_mbms_flags_codec : IeCodec gtp_mbms_flags_ie_t :=
  {| ie_encode := encode_gtp_mbms_flags_ie; ie_decode := decode_gtp_mbms_flags_ie;
     ie_zero := zero_gtp_mbms_flags; ie_layout := layout_gtp_mbms_flags; ie_unit := 8 |}.
#[global] Instance gtp_mbms_flags_codec_ok : IeCodecOk gtp_mbms_flags_ie_t.
Proof. split; [solve_encodes|solve_decodes]. Qed.

Definition layout_gtp_trans_idnt (v : gtp_trans_idnt_ie_t) : layout :=
  layout_gie_header v.(gtp_trans_idnt_header) ++ [(8, v.(gtp_trans_idnt_trans_idnt))].
#[global] Instance gtp_trans_idnt_codec : IeCodec gtp_trans_idnt_ie_t :=
  {| ie_encode := encode_gtp_trans_idnt_ie; ie_decode := decode_gtp_trans_idnt_ie;
     ie_zero := zero_gtp_trans_idnt; ie_layout := layout_gtp_trans_idnt; ie_unit := 8 |}.
#[global] Instance gtp_trans_idnt_codec_ok : IeCodecOk gtp_trans_idnt_ie_t.
Proof. split; [solve_encodes|solve_decodes]. Qed.

Definition layout_gtp_bearer_flags (v : gtp_bearer_flags_ie_t) : layout :=
  layout_gie_header v.(gtp_bearer_flags_header) ++ [(4, v.(gtp_bearer_flags_spare2)); (1, v.(gtp_bearer_flags_asi)); (1, v.(gtp_bearer_flags_vind)); (1, v.(gtp_bearer_flags_vb)); (1, v.(gtp_bearer_flags_ppc))].
#[global] Instance gtp_bearer_flags_codec : IeCodec gtp_bearer_flags_ie_t :=
  {| ie_encode := encode_gtp_bearer_flags_ie; ie_decode := decode_gtp_bearer_flags_ie;
     ie_zero := zero_gtp_bearer_flags; ie_layout := layout_gtp_bearer_flags; ie_unit := 8 |}.
#[global] Instance gtp_bearer_flags_codec_ok : IeCodecOk gtp_bearer_flags_ie_t.
Proof. split; [solve_encodes|solve_decodes]. Qed.

Definition layout_gtp_msec_time_stmp (v : gtp_msec_time_stmp_ie_t) : layout :=
  layout_gie_header v.(gtp_msec_time_stmp_header) ++ [(8, v.(gtp_msec_time_stmp_msec_time_stmp_val))].
#[global] Instance gtp_msec_time_stmp_codec : IeCodec gtp_msec_time_stmp_ie_t :=
  {| ie_encode := encode_gtp_msec_time_stmp_ie; ie_decode := decode_gtp_msec_time_stmp_ie;
     ie_zero := zero_gtp_msec_time_stmp; ie_layout := layout_gtp_msec_time_stmp; ie_unit := 8 |}.
#[global] Instance gtp_msec_time_stmp_codec_ok : IeCodecOk gtp_msec_time_stmp_ie_t.
Proof. split; [solve_encodes|solve_decodes]. Qed.

Definition layout_gtp_chg_to_rpt_flgs (v : gtp_chg_to_rpt_flgs_ie_t) : layout :=
  layout_gie_header v.(gtp_chg_to_rpt_flgs_header) ++ [(6, v.(gtp_chg_to_rpt_flgs_spare2)); (1, v.(gtp_chg_to_rpt_flgs_tzcr)); (1, v.(gtp_chg_to_rpt_flgs_sncr))].
#[global] Instance gtp_chg_to_rpt_flgs_codec : IeCodec gtp_chg_to_rpt_flgs_ie_t :=
  {| ie_encode := encode_gtp_chg_to_rpt_flgs_ie; ie_decode := decode_gtp_chg_to_rpt_flgs_ie;
     ie_zero := zero_gtp_chg_to_rpt_flgs; ie_layout := layout_gtp_chg_to_rpt_flgs; ie_unit := 8 |}.
#[global] Instance gtp_chg_to_rpt_flgs_codec_ok : IeCodecOk gtp_chg_to_rpt_flgs_ie_t.
Proof. split; [solve_encodes|solve_decodes]. Qed.

Definition layout_gtp_chg_rptng_act (v : gtp_chg_rptng_act_ie_t) : layout :=
  layout_gie_header v.(gtp_chg_rptng_act_header) ++ [(8, v.(gtp_chg_rptng_act_action))].
#[global] Instance gtp_chg_rptng_act_codec : IeCodec gtp_chg_rptng_act_ie_t :=
  {| ie_encode := encode_gtp_chg_rptng_act_ie; ie_decode := decode_gtp_chg_rptng_act_ie;
     ie_zero := zero_gtp_chg_rptng_act; ie_layout := layout_gtp_chg_rptng_act; ie_unit := 8 |}.
#[global] Instance gtp_chg_rptng_act_codec_ok : IeCodecOk gtp_chg_rptng_act_ie_t.
Proof. split; [solve_encodes|solve_decodes]. Qed.

Definition layout_gtp_delay_value (v : gtp_delay_value_ie_t) : layout :=
  layout_gie_header v.(gtp_delay_value_header) ++ [(8, v.(gtp_delay_value_delay_value))].
#[global] Instance gtp_delay_value_codec : IeCodec gtp_delay_value_ie_t :=
  {| ie_encode := encode_gtp_delay_value_ie; ie_decode := decode_gtp_delay_value_ie;
     ie_zero := zero_gtp_delay_value; ie_layout := layout_gtp_delay_value; ie_unit := 8 |}.
#[global] Instance gtp_delay_value_codec_ok : IeCodecOk gtp_delay_value_ie_t.
Proof. split; [solve_encodes|solve_decodes]. Qed.

Definition layout_gtp_detach_type (v : gtp_detach_type_ie_t) : layout :=
  layout_gie_header v.(gtp_detach_type_header) ++ [(8, v.(gtp_detach_type_detach_type))].
#[global] Instance gtp_detach_type_codec : IeCodec gtp_detach_type_ie_t :=
  {| ie_encode := encode_gtp_detach_type_ie; ie_decode := decode_gtp_detach_type_ie;
     ie_zero := zero_gtp_detach_type; ie_layout := layout_gtp_detach_type; ie_unit := 8 |}.
#[global] Instance gtp_detach_type_codec_ok : IeCodecOk gtp_detach_type_ie_t.
Proof. split; [solve_encodes|solve_decodes]. Qed.

Definition layout_gtp_mbms_svc_area (v : gtp_mbms_svc_area_ie_t) : layout :=
  layout_gie_header v.(gtp_mbms_svc_area_header) ++ [(8, v.(gtp_mbms_svc_area_mbms_svc_area))].
#[global] Instance gtp_mbms_svc_area_codec : IeCodec gtp_mbms_svc_area_ie_t :=
  {| ie_encode := encode_gtp_mbms_svc_area_ie; ie_decode := decode_gtp_mbms_svc_area_ie;
     ie_zero := zero_gtp_mbms_svc_area; ie_layout := layout_gtp_mbms_svc_area; ie_unit := 8 |}.
#[global] Instance gtp_mbms_svc_area_codec_ok : IeCodecOk gtp_mbms_svc_area_ie_t.
Proof. split; [solve_encodes|solve_decodes]. Qed.

Definition layout_gtp_chrgng_char (v : gtp_chrgng_char_ie_t) : layout :=
  layout_gie_header v.(gtp_chrgng_char_header) ++ [(16, v.(gtp_chrgng_char_chrgng_char_val))].
#[global] Instance gtp_chrgng_char_codec : IeCodec gtp_chrgng_char_ie_t :=
  {| ie_encode := encode_gtp_chrgng_char_ie; ie_decode := decode_gtp_chrgng_char_ie;
     ie_zero := zero_gtp_chrgng_char; ie_layout := layout_gtp_chrgng_char; ie_unit := 8 |}.
#[global] Instance gtp_chrgng_char_codec_ok : IeCodecOk gtp_chrgng_char_ie_t.
Proof. split; [solve_encodes|solve_decodes]. Qed.

Definition layout_gtp_henb_info_rptng (v : gtp_henb_info_rptng_ie_t) : layout :=
  layout_gie_header v.(gtp_henb_info_rptng_header) ++ [(7, v.(gtp_henb_info_rptng_spare2)); (1, v.(gtp_henb_info_rptng_fti))].
#[global] Instance gtp_henb_info_rptng_codec : IeCodec gtp_henb_info_rptng_ie_t :=
  {| ie_encode := encode_gtp_henb_info_rptng_ie; ie_decode := decode_gtp_henb_info_rptng_ie;
     ie_zero := zero_gtp_henb_info_rptng; ie_layout := layout_gtp_henb_info_rptng; ie_unit := 8 |}.
#[global] Instance gtp_henb_info_rptng_codec_ok : IeCodecOk gtp_henb_info_rptng_ie_t.
Proof. split; [solve_encodes|solve_decodes]. Qed.

Definition layout_gtp_throttling (v : gtp_throttling_ie_t) : layout :=
  layout_gie_header v.(gtp_throttling_header) ++ [(3, v.(gtp_throttling_thrtlng_delay_unit)); (5, v.(gtp_throttling_thrtlng_delay_val)); (8, v.(gtp_throttling_thrtlng_factor))].
#[global] Instance gtp_throttling_codec : IeCodec gtp_throttling_ie_t :=
  {| ie_encode := encode_gtp_throttling_ie; ie_decode := decode_gtp_throttling_ie;
     ie_zero := zero_gtp_throttling; ie_layout := layout_gtp_throttling; ie_unit := 8 |}.
#[global] Instance gtp_throttling_codec_ok : IeCodecOk gtp_throttling_ie_t.
Proof. split; [solve_encodes|solve_decodes]. Qed.

Definition layout_gtp_csg_memb_indctn (v : gtp_csg_memb_indctn_ie_t) : layout :=
  layout_gie_header v.(gtp_csg_memb_indctn_header) ++ [(7, v.(gtp_csg_memb_indctn_csg_memb_indctn_spare2)); (1, v.(gtp_csg_memb_indctn_csg_memb_indctn_cmi))].
#[global] Instance gtp_csg_memb_indctn_codec : IeCodec gtp_csg_memb_indctn_ie_t :=
  {| ie_encode := encode_gtp_csg_memb_indctn_ie; ie_decode := decode_gtp_csg_memb_indctn_ie;
     ie_zero := zero_gtp_csg_memb_indctn; ie_layout := layout_gtp_csg_memb_indctn; ie_unit := 8 |}.
#[global] Instance gtp_csg_memb_indctn_codec_ok : IeCodecOk gtp_csg_memb_indctn_ie_t.
Proof. split; [solve_encodes|solve_decodes]. Qed.

Definition layout_gtp_src_rnc_pdcp_ctxt_info (v : gtp_src_rnc_pdcp_ctxt_info_ie_t) : layout :=
  layout_gie_header v.(gtp_src_rnc_pdcp_ctxt_info_header) ++ [(8, v.(gtp_src_rnc_pdcp_ctxt_info_rrc_container))].
#[global] Instance gtp_src_rnc_pdcp_ctxt_info_codec : IeCodec gtp_src_rnc_pdcp_ctxt_info_ie_t :=
  {| ie_encode := encode_gtp_src_rnc_pdcp_ctxt_info_ie; ie_decode := decode_gtp_src_rnc_pdcp_ctxt_info_ie;
     ie_zero := zero_gtp_src_rnc_pdcp_ctxt_info; ie_layout := layout_gtp_src_rnc_pdcp_ctxt_info; ie_unit := 8 |}.
#[global] Instance gtp_src_rnc_pdcp_ctxt_info_codec_ok : IeCodecOk gtp_src_rnc_pdcp_ctxt_info_ie_t.
Proof. split; [solve_encodes|solve_decodes]. Qed.

Definition layout_gtp_hop_counter (v : gtp_hop_counter_ie_t) : layout :=
  layout_gie_header v.(gtp_hop_counter_header) ++ [(8, v.(gtp_hop_counter_hop_counter))].
#[global] Instance gtp_hop_counter_codec : IeCodec gtp_hop_counter_ie_t :=
  {| ie_encode := encode_gtp_hop_counter_ie; ie_decode := decode_gtp_hop_counter_ie;
     ie_zero := zero_gtp_hop_counter; ie_layout := layout_gtp_hop_counter; ie_unit := 8 |}.
#[global] Instance gtp_hop_counter_codec_ok : IeCodecOk gtp_hop_counter_ie_t.
Proof. split; [solve_encodes|solve_decodes]. Qed.

Definition layout_gtp_mbms_sess_idnt (v : gtp_mbms_sess_idnt_ie_t) : layout :=
  layout_gie_header v.(gtp_mbms_sess_idnt_header) ++ [(8, v.(gtp_mbms_sess_idnt_mbms_sess_idnt))].
#[global] Instance gtp_mbms_sess_idnt_codec : IeCodec gtp_mbms_sess_idnt_ie_t :=
  {| ie_encode := encode_gtp_mbms_sess_idnt_ie; ie_decode := decode_gtp_mbms_sess_idnt_ie;
     ie_zero := zero_gtp_mbms_sess_idnt; ie_layout := layout_gtp_mbms_sess_idnt; ie_unit := 8 |}.
#[global] Instance gtp_mbms_sess_idnt_codec_ok : IeCodecOk gtp_mbms_sess_idnt_ie_t.
Proof. split; [solve_encodes|solve_decodes]. Qed.

Definition layout_gtp_apn_and_rltv_cap (v : gtp_apn_and_rltv_cap_ie_t) : layout :=
  layout_gie_header v.(gtp_apn_and_rltv_cap_header) ++ [(8, v.(gtp_apn_and_rltv_cap_rltv_cap)); (8, v.(gtp_apn_and_rltv_cap_apn_length)); (8, v.(gtp_apn_and_rltv_cap_apn))].
#[global] Instance gtp_apn_and_rltv_cap_codec : IeCodec gtp_apn_and_rltv_cap_ie_t :=
  {| ie_encode := encode_gtp_apn_and_rltv_cap_ie; ie_decode := decode_gtp_apn_and_rltv_cap_ie;
     ie_zero := zero_gtp_apn_and_rltv_cap; ie_layout := layout_gtp_apn_and_rltv_cap; ie_unit := 8 |}.
#[global] Instance gtp_apn_and_rltv_cap_codec_ok : IeCodecOk gtp_apn_and_rltv_cap_ie_t.
Proof. split; [solve_encodes|solve_decodes]. Qed.

Definition layout_gtp_selection_mode (v : gtp_selection_mode_ie_t) : layout :=
  layout_gie_header v.(gtp_selection_mode_header) ++ [(6, v.(gtp_selection_mode_spare2)); (2, v.(gtp_selection_mode_selec_mode))].
#[global] Instance gtp_selection_mode_codec : IeCodec gtp_selection_mode_ie_t :=
  {| ie_encode := encode_gtp_selection_mode_ie; ie_decode := decode_gtp_selection_mode_ie;
     ie_zero := zero_gtp_selection_mode; ie_layout := layout_gtp_selection_mode; ie_unit := 8 |}.
#[global] Instance gtp_selection_mode_codec_ok : IeCodecOk gtp_selection_mode_ie_t.
Proof. split; [solve_encodes|solve_decodes]. Qed.

Definition layout_gtp_up_func_sel_indctn_flgs (v : gtp_up_func_sel_indctn_flgs_ie_t) : layout :=
  layout_gie_header v.(gtp_up_func_sel_indctn_flgs_header) ++ [(7, v.(gtp_up_func_sel_indctn_flgs_spare2)); (1, v.(gtp_up_func_sel_indctn_flgs_dcnr))].
#[global] Instance gtp_up_func_sel_indctn_flgs_codec : IeCodec gtp_up_func_sel_indctn_flgs_ie_t :=
  {| ie_encode := encode_gtp_up_func_sel_indctn_flgs_ie; ie_decode := decode_gtp_up_func_sel_indctn_flgs_ie;
     ie_zero := zero_gtp_up_func_sel_indctn_flgs; ie_layout := layout_gtp_up_func_sel_indctn_flgs; ie_unit := 8 |}.
#[global] Instance gtp_up_func_sel_indctn_flgs_codec_ok : IeCodecOk gtp_up_func_sel_indctn_flgs_ie_t.
Proof. split; [solve_encodes|solve_decodes]. Qed.

Definition layout_gtp_mbl_equip_idnty (v : gtp_mbl_equip_idnty_ie_t) : layout :=
  layout_gie_header v.(gtp_mbl_equip_idnty_header) ++ [(64, v.(gtp_mbl_equip_idnty_mei))].
#[global] Instance gtp_mbl_equip_idnty_codec : IeCodec gtp_mbl_equip_idnty_ie_t :=
  {| ie_encode := encode_gtp_mbl_equip_idnty_ie; ie_decode := decode_gtp_mbl_equip_idnty_ie;
     ie_zero := zero_gtp_mbl_equip_idnty; ie_layout := layout_gtp_mbl_equip_idnty; ie_unit := 8 |}.
#[global] Instance gtp_mbl_equip_idnty_codec_ok : IeCodecOk gtp_mbl_equip_idnty_ie_t.
Proof. split; [solve_encodes|solve_decodes]. Qed.

Definition layout_gtp_priv_ext (v : gtp_priv_ext_ie_t) : layout :=
  layout_gie_header v.(gtp_priv_ext_header) ++ [(16, v.(gtp_priv_ext_enterprise_id)); (8, v.(gtp_priv_ext_prop_val))].
#[global] Instance gtp_priv_ext_codec : IeCodec gtp_priv_ext_ie_t :=
  {| ie_encode := encode_gtp_priv_ext_ie; ie_decode := decode_gtp_priv_ext_ie;
     ie_zero := zero_gtp_priv_ext; ie_layout := layout_gtp_priv_ext; ie_unit := 8 |}.
#[global] Instance gtp_priv_ext_codec_ok : IeCodecOk gtp_priv_ext_ie_t.
Proof. split; [solve_encodes|solve_decodes]. Qed.

Definition layout_gtp_sequence_number (v : gtp_sequence_number_ie_t) : layout :=
  layout_gie_header v.(gtp_sequence_number_header) ++ [(32, v.(gtp_sequence_number_sequence_number))].
#[global] Instance gtp_sequence_number_codec : IeCodec gtp_sequence_number_ie_t :=
  {| ie_encode := encode_gtp_sequence_number_ie; ie_decode := decode_gtp_sequence_number_ie;
     ie_zero := zero_gtp_sequence_number; ie_layout := layout_gtp_sequence_number; ie_unit := 8 |}.
#[global] Instance gtp_sequence_number_codec_ok : IeCodecOk gtp_sequence_number_ie_t.
Proof. split; [solve_encodes|solve_decodes]. Qed.

(** ** All of them *)

Inductive gtp_regular_ie : Type :=
| GIE_channel_needed (v : gtp_channel_needed_ie_t)
| GIE_rfsp_index (v : gtp_rfsp_index_ie_t)
| GIE_guti (v : gtp_guti_ie_t)
| GIE_eps_bearer_id (v : gtp_eps_bearer_id_ie_t)
| GIE_emlpp_priority (v : gtp_emlpp_priority_ie_t)
| GIE_mdt_cfg (v : gtp_mdt_cfg_ie_t)
| GIE_src_id (v : gtp_src_id_ie_t)
| GIE_ran_nas_cause (v : gtp_ran_nas_cause_ie_t)
| GIE_pdn_type (v : gtp_pdn_type_ie_t)
| GIE_traffic_agg_desc (v : gtp_traffic_agg_desc_ie_t)
| GIE_flow_qlty_of_svc (v : gtp_flow_qlty_of_svc_ie_t)
| GIE_recovery (v : gtp_recovery_ie_t)
| GIE_srvng_plmn_rate_ctl (v : gtp_srvng_plmn_rate_ctl_ie_t)
| GIE_mbms_dist_ack (v : gtp_mbms_dist_ack_ie_t)
| GIE_ue_time_zone (v : gtp_ue_time_zone_ie_t)
| GIE_pres_rptng_area_act (v : gtp_pres_rptng_area_act_ie_t)
| GIE_proc_trans_id (v : gtp_proc_trans_id_ie_t)
| GIE_wlan_offldblty_indctn (v : gtp_wlan_offldblty_indctn_ie_t)
| GIE_uli_timestamp (v : gtp_uli_timestamp_ie_t)
| GIE_max_pckt_loss_rate (v : gtp_max_pckt_loss_rate_ie_t)
| GIE_cn_oper_sel_entity (v : gtp_cn_oper_sel_entity_ie_t)
| GIE_alloc_reten_priority (v : gtp_alloc_reten_priority_ie_t)
| GIE_apn_restriction (v : gtp_apn_restriction_ie_t)
| GIE_ptmsi_signature (v : gtp_ptmsi_signature_ie_t)
| GIE_paging_and_svc_info (v : gtp_paging_and_svc_info_ie_t)
| GIE_ecgi_list (v : gtp_ecgi_list_ie_t)
| GIE_agg_max_bit_rate (v : gtp_agg_max_bit_rate_ie_t)
| GIE_cmplt_req_msg (v : gtp_cmplt_req_msg_ie_t)
| GIE_epc_timer (v : gtp_epc_timer_ie_t)
| GIE_csg_id (v : gtp_csg_id_ie_t)
| GIE_packet_flow_id (v : gtp_packet_flow_id_ie_t)
| GIE_tmgi (v : gtp_tmgi_ie_t)
| GIE_mntrng_evnt_info (v : gtp_mntrng_evnt_info_ie_t)
| GIE_rmt_ue_ip_info (v : gtp_rmt_ue_ip_info_ie_t)
| GIE_bearer_qlty_of_svc (v : gtp_bearer_qlty_of_svc_ie_t)
| GIE_mapped_ue_usage_type (v : gtp_mapped_ue_usage_type_ie_t)
| GIE_svc_indctr (v : gtp_svc_indctr_ie_t)
| GIE_local_distgsd_name (v : gtp_local_distgsd_name_ie_t)
| GIE_csg_info_rptng_act (v : gtp_csg_info_rptng_act_ie_t)
| GIE_secdry_rat_usage_data_rpt (v : gtp_secdry_rat_usage_data_rpt_ie_t)
| GIE_rat_type (v : gtp_rat_type_ie_t)
| GIE_global_cn_id (v : gtp_global_cn_id_ie_t)
| GIE_charging_id (v : gtp_charging_id_ie_t)
| GIE_counter (v : gtp_counter_ie_t)
| GIE_serving_network (v : gtp_serving_network_ie_t)
| GIE_node_identifier (v : gtp_node_identifier_ie_t)
| GIE_mbms_ip_multcst_dist (v : gtp_mbms_ip_multcst_dist_ie_t)
| GIE_full_qual_cntnr (v : gtp_full_qual_cntnr_ie_t)
| GIE_mbms_data_xfer_abs_time (v : gtp_mbms_data_xfer_abs_time_ie_t)
| GIE_gsm_key_used_cipher_and_quintuplets (v : gtp_gsm_key_used_cipher_and_quintuplets_ie_t)
| GIE_twan_idnt_ts (v : gtp_twan_idnt_ts_ie_t)
| GIE_tmsi (v : gtp_tmsi_ie_t)
| GIE_ptmsi (v : gtp_ptmsi_ie_t)
| GIE_node_type (v : gtp_node_type_ie_t)
| GIE_integer_number (v : gtp_integer_number_ie_t)
| GIE_mbms_sess_dur (v : gtp_mbms_sess_dur_ie_t)
| GIE_metric (v : gtp_metric_ie_t)
| GIE_ciot_optim_supp_indctn (v : gtp_ciot_optim_supp_indctn_ie_t)
| GIE_pdu_numbers (v : gtp_pdu_numbers_ie_t)
| GIE_rab_context (v : gtp_rab_context_ie_t)
| GIE_addtl_flgs_srvcc (v : gtp_addtl_flgs_srvcc_ie_t)
| GIE_gsm_key_and_triplets (v : gtp_gsm_key_and_triplets_ie_t)
| GIE_node_number (v : gtp_node_number_ie_t)
| GIE_full_qual_cause (v : gtp_full_qual_cause_ie_t)
| GIE_ipv4_cfg_parms (v : gtp_ipv4_cfg_parms_ie_t)
| GIE_trace_reference (v : gtp_trace_reference_ie_t)
| GIE_node_features (v : gtp_node_features_ie_t)
| GIE_remote_user_id (v : gtp_remote_user_id_ie_t)
| GIE_port_number (v : gtp_port_number_ie_t)
| GIE_addtl_mm_ctxt_srvcc (v : gtp_addtl_mm_ctxt_srvcc_ie_t)
| GIE_plmn_id (v : gtp_plmn_id_ie_t)
| GIE_mbms_flow_idnt (v : gtp_mbms_flow_idnt_ie_t)
| GIE_hdr_comp_cfg (v : gtp_hdr_comp_cfg_ie_t)
| GIE_sgnllng_priority_indctn (v : gtp_sgnllng_priority_indctn_ie_t)
| GIE_mbms_time_to_data_xfer (v : gtp_mbms_time_to_data_xfer_ie_t)
| GIE_trgt_id (v : gtp_trgt_id_ie_t)
| GIE_mbms_flags (v : gtp_mbms_flags_ie_t)
| GIE_trans_idnt (v : gtp_trans_idnt_ie_t)
| GIE_bearer_flags (v : gtp_bearer_flags_ie_t)
| GIE_msec_time_stmp (v : gtp_msec_time_stmp_ie_t)
| GIE_chg_to_rpt_flgs (v : gtp_chg_to_rpt_flgs_ie_t)
| GIE_chg_rptng_act (v : gtp_chg_rptng_act_ie_t)
| GIE_delay_value (v : gtp_delay_value_ie_t)
| GIE_detach_type (v : gtp_detach_type_ie_t)
| GIE_mbms_svc_area (v : gtp_mbms_svc_area_ie_t)
| GIE_chrgng_char (v : gtp_chrgng_char_ie_t)
| GIE_henb_info_rptng (v : gtp_henb_info_rptng_ie_t)
| GIE_throttling (v : gtp_throttling_ie_t)
| GIE_csg_memb_indctn (v : gtp_csg_memb_indctn_ie_t)
| GIE_src_rnc_pdcp_ctxt_info (v : gtp_src_rnc_pdcp_ctxt_info_ie_t)
| GIE_hop_counter (v : gtp_hop_counter_ie_t)
| GIE_mbms_sess_idnt (v : gtp_mbms_sess_idnt_ie_t)
| GIE_apn_and_rltv_cap (v : gtp_apn_and_rltv_cap_ie_t)
| GIE_selection_mode (v : gtp_selection_mode_ie_t)
| GIE_up_func_sel_indctn_flgs (v : gtp_up_func_sel_indctn_flgs_ie_t)
| GIE_mbl_equip_idnty (v : gtp_mbl_equip_idnty_ie_t)
| GIE_priv_ext (v : gtp_priv_ext_ie_t)
| GIE_sequence_number (v : gtp_sequence_number_ie_t).

Definition gtp_regular_encode (i : gtp_regular_ie) : ie_encoder :=
  match i with
  | GIE_channel_needed v => encode_gtp_channel_needed_ie v
  | GIE_rfsp_index v => encode_gtp_rfsp_index_ie v
  | GIE_guti v => encode_gtp_guti_ie v
  | GIE_eps_bearer_id v => encode_gtp_eps_bearer_id_ie v
  | GIE_emlpp_priority v => encode_gtp_emlpp_priority_ie v
  | GIE_mdt_cfg v => encode_gtp_mdt_cfg_ie v
  | GIE_src_id v => encode_gtp_src_id_ie v
  | GIE_ran_nas_cause v => encode_gtp_ran_nas_cause_ie v
  | GIE_pdn_type v => encode_gtp_pdn_type_ie v
  | GIE_traffic_agg_desc v => encode_gtp_traffic_agg_desc_ie v
  | GIE_flow_qlty_of_svc v => encode_gtp_flow_qlty_of_svc_ie v
  | GIE_recovery v => encode_gtp_recovery_ie v
  | GIE_srvng_plmn_rate_ctl v => encode_gtp_srvng_plmn_rate_ctl_ie v
  | GIE_mbms_dist_ack v => encode_gtp_mbms_dist_ack_ie v
  | GIE_ue_time_zone v => encode_gtp_ue_time_zone_ie v
  | GIE_pres_rptng_area_act v => encode_gtp_pres_rptng_area_act_ie v
  | GIE_proc_trans_id v => encode_gtp_proc_trans_id_ie v
  | GIE_wlan_offldblty_indctn v => encode_gtp_wlan_offldblty_indctn_ie v
  | GIE_uli_timestamp v => encode_gtp_uli_timestamp_ie v
  | GIE_max_pckt_loss_rate v => encode_gtp_max_pckt_loss_rate_ie v
  | GIE_cn_oper_sel_entity v => encode_gtp_cn_oper_sel_entity_ie v
  | GIE_alloc_reten_priority v => encode_gtp_alloc_reten_priority_ie v
  | GIE_apn_restriction v => encode_gtp_apn_restriction_ie v
  | GIE_ptmsi_signature v => encode_gtp_ptmsi_signature_ie v
  | GIE_paging_and_svc_info v => encode_gtp_paging_and_svc_info_ie v
  | GIE_ecgi_list v => encode_gtp_ecgi_list_ie v
  | GIE_agg_max_bit_rate v => encode_gtp_agg_max_bit_rate_ie v
  | GIE_cmplt_req_msg v => encode_gtp_cmplt_req_msg_ie v
  | GIE_epc_timer v => encode_gtp_epc_timer_ie v
  | GIE_csg_id v => encode_gtp_csg_id_ie v
  | GIE_packet_flow_id v => encode_gtp_packet_flow_id_ie v
  | GIE_tmgi v => encode_gtp_tmgi_ie v
  | GIE_mntrng_evnt_info v => encode_gtp_mntrng_evnt_info_ie v
  | GIE_rmt_ue_ip_info v => encode_gtp_rmt_ue_ip_info_ie v
  | GIE_bearer_qlty_of_svc v => encode_gtp_bearer_qlty_of_svc_ie v
  | GIE_mapped_ue_usage_type v => encode_gtp_mapped_ue_usage_type_ie v
  | GIE_svc_indctr v => encode_gtp_svc_indctr_ie v
  | GIE_local_distgsd_name v => encode_gtp_local_distgsd_name_ie v
  | GIE_csg_info_rptng_act v => encode_gtp_csg_info_rptng_act_ie v
  | GIE_secdry_rat_usage_data_rpt v => encode_gtp_secdry_rat_usage_data_rpt_ie v
  | GIE_rat_type v => encode_gtp_rat_type_ie v
  | GIE_global_cn_id v => encode_gtp_global_cn_id_ie v
  | GIE_charging_id v => encode_gtp_charging_id_ie v
  | GIE_counter v => encode_gtp_counter_ie v
  | GIE_serving_network v => encode_gtp_serving_network_ie v
  | GIE_node_identifier v => encode_gtp_node_identifier_ie v
  | GIE_mbms_ip_multcst_dist v => encode_gtp_mbms_ip_multcst_dist_ie v
  | GIE_full_qual_cntnr v => encode_gtp_full_qual_cntnr_ie v
  | GIE_mbms_data_xfer_abs_time v => encode_gtp_mbms_data_xfer_abs_time_ie v
  | GIE_gsm_key_used_cipher_and_quintuplets v => encode_gtp_gsm_key_used_cipher_and_quintuplets_ie v
  | GIE_twan_idnt_ts v => encode_gtp_twan_idnt_ts_ie v
  | GIE_tmsi v => encode_gtp_tmsi_ie v
  | GIE_ptmsi v => encode_gtp_ptmsi_ie v
  | GIE_node_type v => encode_gtp_node_type_ie v
  | GIE_integer_number v => encode_gtp_integer_number_ie v
  | GIE_mbms_sess_dur v => encode_gtp_mbms_sess_dur_ie v
  | GIE_metric v => encode_gtp_metric_ie v
  | GIE_ciot_optim_supp_indctn v => encode_gtp_ciot_optim_supp_indctn_ie v
  | GIE_pdu_numbers v => encode_gtp_pdu_numbers_ie v
  | GIE_rab_context v => encode_gtp_rab_context_ie v
  | GIE_addtl_flgs_srvcc v => encode_gtp_addtl_flgs_srvcc_ie v
  | GIE_gsm_key_and_triplets v => encode_gtp_gsm_key_and_triplets_ie v
  | GIE_node_number v => encode_gtp_node_number_ie v
  | GIE_full_qual_cause v => encode_gtp_full_qual_cause_ie v
  | GIE_ipv4_cfg_parms v => encode_gtp_ipv4_cfg_parms_ie v
  | GIE_trace_reference v => encode_gtp_trace_reference_ie v
  | GIE_node_features v => encode_gtp_node_features_ie v
  | GIE_remote_user_id v => encode_gtp_remote_user_id_ie v
  | GIE_port_number v => encode_gtp_port_number_ie v
  | GIE_addtl_mm_ctxt_srvcc v => encode_gtp_addtl_mm_ctxt_srvcc_ie v
  | GIE_plmn_id v => encode_gtp_plmn_id_ie v
  | GIE_mbms_flow_idnt v => encode_gtp_mbms_flow_idnt_ie v
  | GIE_hdr_comp_cfg v => encode_gtp_hdr_comp_cfg_ie v
  | GIE_sgnllng_priority_indctn v => encode_gtp_sgnllng_priority_indctn_ie v
  | GIE_mbms_time_to_data_xfer v => encode_gtp_mbms_time_to_data_xfer_ie v
  | GIE_trgt_id v => encode_gtp_trgt_id_ie v
  | GIE_mbms_flags v => encode_gtp_mbms_flags_ie v
  | GIE_trans_idnt v => encode_gtp_trans_idnt_ie v
  | GIE_bearer_flags v => encode_gtp_bearer_flags_ie v
  | GIE_msec_time_stmp v => encode_gtp_msec_time_stmp_ie v
  | GIE_chg_to_rpt_flgs v => encode_gtp_chg_to_rpt_flgs_ie v
  | GIE_chg_rptng_act v => encode_gtp_chg_rptng_act_ie v
  | GIE_delay_value v => encode_gtp_delay_value_ie v
  | GIE_detach_type v => encode_gtp_detach_type_ie v
  | GIE_mbms_svc_area v => encode_gtp_mbms_svc_area_ie v
  | GIE_chrgng_char v => encode_gtp_chrgng_char_ie v
  | GIE_henb_info_rptng v => encode_gtp_henb_info_rptng_ie v
  | GIE_throttling v => encode_gtp_throttling_ie v
  | GIE_csg_memb_indctn v => encode_gtp_csg_memb_indctn_ie v
  | GIE_src_rnc_pdcp_ctxt_info v => encode_gtp_src_rnc_pdcp_ctxt_info_ie v
  | GIE_hop_counter v => encode_gtp_hop_counter_ie v
  | GIE_mbms_sess_idnt v => encode_gtp_mbms_sess_idnt_ie v
  | GIE_apn_and_rltv_cap v => encode_gtp_apn_and_rltv_cap_ie v
  | GIE_selection_mode v => encode_gtp_selection_mode_ie v
  | GIE_up_func_sel_indctn_flgs v => encode_gtp_up_func_sel_indctn_flgs_ie v
  | GIE_mbl_equip_idnty v => encode_gtp_mbl_equip_idnty_ie v
  | GIE_priv_ext v => encode_gtp_priv_ext_ie v
  | GIE_sequence_number v => encode_gtp_sequence_number_ie v
  end.

Definition gtp_regular_layout (i : gtp_regular_ie) : layout :=
  match i with
  | GIE_channel_needed v => layout_gtp_channel_needed v
  | GIE_rfsp_index v => layout_gtp_rfsp_index v
  | GIE_guti v => layout_gtp_guti v
  | GIE_eps_bearer_id v => layout_gtp_eps_bearer_id v
  | GIE_emlpp_priority v => layout_gtp_emlpp_priority v
  | GIE_mdt_cfg v => layout_gtp_mdt_cfg v
  | GIE_src_id v => layout_gtp_src_id v
  | GIE_ran_nas_cause v => layout_gtp_ran_nas_cause v
  | GIE_pdn_type v => layout_gtp_pdn_type v
  | GIE_traffic_agg_desc v => layout_gtp_traffic_agg_desc v
  | GIE_flow_qlty_of_svc v => layout_gtp_flow_qlty_of_svc v
  | GIE_recovery v => layout_gtp_recovery v
  | GIE_srvng_plmn_rate_ctl v => layout_gtp_srvng_plmn_rate_ctl v
  | GIE_mbms_dist_ack v => layout_gtp_mbms_dist_ack v
  | GIE_ue_time_zone v => layout_gtp_ue_time_zone v
  | GIE_pres_rptng_area_act v => layout_gtp_pres_rptng_area_act v
  | GIE_proc_trans_id v => layout_gtp_proc_trans_id v
  | GIE_wlan_offldblty_indctn v => layout_gtp_wlan_offldblty_indctn v
  | GIE_uli_timestamp v => layout_gtp_uli_timestamp v
  | GIE_max_pckt_loss_rate v => layout_gtp_max_pckt_loss_rate v
  | GIE_cn_oper_sel_entity v => layout_gtp_cn_oper_sel_entity v
  | GIE_alloc_reten_priority v => layout_gtp_alloc_reten_priority v
  | GIE_apn_restriction v => layout_gtp_apn_restriction v
  | GIE_ptmsi_signature v => layout_gtp_ptmsi_signature v
  | GIE_paging_and_svc_info v => layout_gtp_paging_and_svc_info v
  | GIE_ecgi_list v => layout_gtp_ecgi_list v
  | GIE_agg_max_bit_rate v => layout_gtp_agg_max_bit_rate v
  | GIE_cmplt_req_msg v => layout_gtp_cmplt_req_msg v
  | GIE_epc_timer v => layout_gtp_epc_timer v
  | GIE_csg_id v => layout_gtp_csg_id v
  | GIE_packet_flow_id v => layout_gtp_packet_flow_id v
  | GIE_tmgi v => layout_gtp_tmgi v
  | GIE_mntrng_evnt_info v => layout_gtp_mntrng_evnt_info v
  | GIE_rmt_ue_ip_info v => layout_gtp_rmt_ue_ip_info v
  | GIE_bearer_qlty_of_svc v => layout_gtp_bearer_qlty_of_svc v
  | GIE_mapped_ue_usage_type v => layout_gtp_mapped_ue_usage_type v
  | GIE_svc_indctr v => layout_gtp_svc_indctr v
  | GIE_local_distgsd_name v => layout_gtp_local_distgsd_name v
  | GIE_csg_info_rptng_act v => layout_gtp_csg_info_rptng_act v
  | GIE_secdry_rat_usage_data_rpt v => layout_gtp_secdry_rat_usage_data_rpt v
  | GIE_rat_type v => layout_gtp_rat_type v
  | GIE_global_cn_id v => layout_gtp_global_cn_id v
  | GIE_charging_id v => layout_gtp_charging_id v
  | GIE_counter v => layout_gtp_counter v
  | GIE_serving_network v => layout_gtp_serving_network v
  | GIE_node_identifier v => layout_gtp_node_identifier v
  | GIE_mbms_ip_multcst_dist v => layout_gtp_mbms_ip_multcst_dist v
  | GIE_full_qual_cntnr v => layout_gtp_full_qual_cntnr v
  | GIE_mbms_data_xfer_abs_time v => layout_gtp_mbms_data_xfer_abs_time v
  | GIE_gsm_key_used_cipher_and_quintuplets v => layout_gtp_gsm_key_used_cipher_and_quintuplets v
  | GIE_twan_idnt_ts v => layout_gtp_twan_idnt_ts v
  | GIE_tmsi v => layout_gtp_tmsi v
  | GIE_ptmsi v => layout_gtp_ptmsi v
  | GIE_node_type v => layout_gtp_node_type v
  | GIE_integer_number v => layout_gtp_integer_number v
  | GIE_mbms_sess_dur v => layout_gtp_mbms_sess_dur v
  | GIE_metric v => layout_gtp_metric v
  | GIE_ciot_optim_supp_indctn v => layout_gtp_ciot_optim_supp_indctn v
  | GIE_pdu_numbers v => layout_gtp_pdu_numbers v
  | GIE_rab_context v => layout_gtp_rab_context v
  | GIE_addtl_flgs_srvcc v => layout_gtp_addtl_flgs_srvcc v
  | GIE_gsm_key_and_triplets v => layout_gtp_gsm_key_and_triplets v
  | GIE_node_number v => layout_gtp_node_number v
  | GIE_full_qual_cause v => layout_gtp_full_qual_cause v
  | GIE_ipv4_cfg_parms v => layout_gtp_ipv4_cfg_parms v
  | GIE_trace_reference v => layout_gtp_trace_reference v
  | GIE_node_features v => layout_gtp_node_features v
  | GIE_remote_user_id v => layout_gtp_remote_user_id v
  | GIE_port_number v => layout_gtp_port_number v
  | GIE_addtl_mm_ctxt_srvcc v => layout_gtp_addtl_mm_ctxt_srvcc v
  | GIE_plmn_id v => layout_gtp_plmn_id v
  | GIE_mbms_flow_idnt v => layout_gtp_mbms_flow_idnt v
  | GIE_hdr_comp_cfg v => layout_gtp_hdr_comp_cfg v
  | GIE_sgnllng_priority_indctn v => layout_gtp_sgnllng_priority_indctn v
  | GIE_mbms_time_to_data_xfer v => layout_gtp_mbms_time_to_data_xfer v
  | GIE_trgt_id v => layout_gtp_trgt_id v
  | GIE_mbms_flags v => layout_gtp_mbms_flags v
  | GIE_trans_idnt v => layout_gtp_trans_idnt v
  | GIE_bearer_flags v => layout_gtp_bearer_flags v
  | GIE_msec_time_stmp v => layout_gtp_msec_time_stmp v
  | GIE_chg_to_rpt_flgs v => layout_gtp_chg_to_rpt_flgs v
  | GIE_chg_rptng_act v => layout_gtp_chg_rptng_act v
  | GIE_delay_value v => layout_gtp_delay_value v
  | GIE_detach_type v => layout_gtp_detach_type v
  | GIE_mbms_svc_area v => layout_gtp_mbms_svc_area v
  | GIE_chrgng_char v => layout_gtp_chrgng_char v
  | GIE_henb_info_rptng v => layout_gtp_henb_info_rptng v
  | GIE_throttling v => layout_gtp_throttling v
  | GIE_csg_memb_indctn v => layout_gtp_csg_memb_indctn v
  | GIE_src_rnc_pdcp_ctxt_info v => layout_gtp_src_rnc_pdcp_ctxt_info v
  | GIE_hop_counter v => layout_gtp_hop_counter v
  | GIE_mbms_sess_idnt v => layout_gtp_mbms_sess_idnt v
  | GIE_apn_and_rltv_cap v => layout_gtp_apn_and_rltv_cap v
  | GIE_selection_mode v => layout_gtp_selection_mode v
  | GIE_up_func_sel_indctn_flgs v => layout_gtp_up_func_sel_indctn_flgs v
  | GIE_mbl_equip_idnty v => layout_gtp_mbl_equip_idnty v
  | GIE_priv_ext v => layout_gtp_priv_ext v
  | GIE_sequence_number v => layout_gtp_sequence_number v
  end.

Definition gtp_regular_decode (i : gtp_regular_ie) (buf : list Z) : option (Z * gtp_regular_ie) :=
  match i with
  | GIE_channel_needed _ => '(k, x) ← decode_gtp_channel_needed_ie zero_gtp_channel_needed buf; Some (k, GIE_channel_needed x)
  | GIE_rfsp_index _ => '(k, x) ← decode_gtp_rfsp_index_ie zero_gtp_rfsp_index buf; Some (k, GIE_rfsp_index x)
  | GIE_guti _ => '(k, x) ← decode_gtp_guti_ie zero_gtp_guti buf; Some (k, GIE_guti x)
  | GIE_eps_bearer_id _ => '(k, x) ← decode_gtp_eps_bearer_id_ie zero_gtp_eps_bearer_id buf; Some (k, GIE_eps_bearer_id x)
  | GIE_emlpp_priority _ => '(k, x) ← decode_gtp_emlpp_priority_ie zero_gtp_emlpp_priority buf; Some (k, GIE_emlpp_priority x)
  | GIE_mdt_cfg _ => '(k, x) ← decode_gtp_mdt_cfg_ie zero_gtp_mdt_cfg buf; Some (k, GIE_mdt_cfg x)
  | GIE_src_id _ => '(k, x) ← decode_gtp_src_id_ie zero_gtp_src_id buf; Some (k, GIE_src_id x)
  | GIE_ran_nas_cause _ => '(k, x) ← decode_gtp_ran_nas_cause_ie zero_gtp_ran_nas_cause buf; Some (k, GIE_ran_nas_cause x)
  | GIE_pdn_type _ => '(k, x) ← decode_gtp_pdn_type_ie zero_gtp_pdn_type buf; Some (k, GIE_pdn_type x)
  | GIE_traffic_agg_desc _ => '(k, x) ← decode_gtp_traffic_agg_desc_ie zero_gtp_traffic_agg_desc buf; Some (k, GIE_traffic_agg_desc x)
  | GIE_flow_qlty_of_svc _ => '(k, x) ← decode_gtp_flow_qlty_of_svc_ie zero_gtp_flow_qlty_of_svc buf; Some (k, GIE_flow_qlty_of_svc x)
  | GIE_recovery _ => '(k, x) ← decode_gtp_recovery_ie zero_gtp_recovery buf; Some (k, GIE_recovery x)
  | GIE_srvng_plmn_rate_ctl _ => '(k, x) ← decode_gtp_srvng_plmn_rate_ctl_ie zero_gtp_srvng_plmn_rate_ctl buf; Some (k, GIE_srvng_plmn_rate_ctl x)
  | GIE_mbms_dist_ack _ => '(k, x) ← decode_gtp_mbms_dist_ack_ie zero_gtp_mbms_dist_ack buf; Some (k, GIE_mbms_dist_ack x)
  | GIE_ue_time_zone _ => '(k, x) ← decode_gtp_ue_time_zone_ie zero_gtp_ue_time_zone buf; Some (k, GIE_ue_time_zone x)
  | GIE_pres_rptng_area_act _ => '(k, x) ← decode_gtp_pres_rptng_area_act_ie zero_gtp_pres_rptng_area_act buf; Some (k, GIE_pres_rptng_area_act x)
  | GIE_proc_trans_id _ => '(k, x) ← decode_gtp_proc_trans_id_ie zero_gtp_proc_trans_id buf; Some (k, GIE_proc_trans_id x)
  | GIE_wlan_offldblty_indctn _ => '(k, x) ← decode_gtp_wlan_offldblty_indctn_ie zero_gtp_wlan_offldblty_indctn buf; Some (k, GIE_wlan_offldblty_indctn x)
  | GIE_uli_timestamp _ => '(k, x) ← decode_gtp_uli_timestamp_ie zero_gtp_uli_timestamp buf; Some (k, GIE_uli_timestamp x)
  | GIE_max_pckt_loss_rate _ => '(k, x) ← decode_gtp_max_pckt_loss_rate_ie zero_gtp_max_pckt_loss_rate buf; Some (k, GIE_max_pckt_loss_rate x)
  | GIE_cn_oper_sel_entity _ => '(k, x) ← decode_gtp_cn_oper_sel_entity_ie zero_gtp_cn_oper_sel_entity buf; Some (k, GIE_cn_oper_sel_entity x)
  | GIE_alloc_reten_priority _ => '(k, x) ← decode_gtp_alloc_reten_priority_ie zero_gtp_alloc_reten_priority buf; Some (k, GIE_alloc_reten_priority x)
  | GIE_apn_restriction _ => '(k, x) ← decode_gtp_apn_restriction_ie zero_gtp_apn_restriction buf; Some (k, GIE_apn_restriction x)
  | GIE_ptmsi_signature _ => '(k, x) ← decode_gtp_ptmsi_signature_ie zero_gtp_ptmsi_signature buf; Some (k, GIE_ptmsi_signature x)
  | GIE_paging_and_svc_info _ => '(k, x) ← decode_gtp_paging_and_svc_info_ie zero_gtp_paging_and_svc_info buf; Some (k, GIE_paging_and_svc_info x)
  | GIE_ecgi_list _ => '(k, x) ← decode_gtp_ecgi_list_ie zero_gtp_ecgi_list buf; Some (k, GIE_ecgi_list x)
  | GIE_agg_max_bit_rate _ => '(k, x) ← decode_gtp_agg_max_bit_rate_ie zero_gtp_agg_max_bit_rate buf; Some (k, GIE_agg_max_bit_rate x)
  | GIE_cmplt_req_msg _ => '(k, x) ← decode_gtp_cmplt_req_msg_ie zero_gtp_cmplt_req_msg buf; Some (k, GIE_cmplt_req_msg x)
  | GIE_epc_timer _ => '(k, x) ← decode_gtp_epc_timer_ie zero_gtp_epc_timer buf; Some (k, GIE_epc_timer x)
  | GIE_csg_id _ => '(k, x) ← decode_gtp_csg_id_ie zero_gtp_csg_id buf; Some (k, GIE_csg_id x)
  | GIE_packet_flow_id _ => '(k, x) ← decode_gtp_packet_flow_id_ie zero_gtp_packet_flow_id buf; Some (k, GIE_packet_flow_id x)
  | GIE_tmgi _ => '(k, x) ← decode_gtp_tmgi_ie zero_gtp_tmgi buf; Some (k, GIE_tmgi x)
  | GIE_mntrng_evnt_info _ => '(k, x) ← decode_gtp_mntrng_evnt_info_ie zero_gtp_mntrng_evnt_info buf; Some (k, GIE_mntrng_evnt_info x)
  | GIE_rmt_ue_ip_info _ => '(k, x) ← decode_gtp_rmt_ue_ip_info_ie zero_gtp_rmt_ue_ip_info buf; Some (k, GIE_rmt_ue_ip_info x)
  | GIE_bearer_qlty_of_svc _ => '(k, x) ← decode_gtp_bearer_qlty_of_svc_ie zero_gtp_bearer_qlty_of_svc buf; Some (k, GIE_bearer_qlty_of_svc x)
  | GIE_mapped_ue_usage_type _ => '(k, x) ← decode_gtp_mapped_ue_usage_type_ie zero_gtp_mapped_ue_usage_type buf; Some (k, GIE_mapped_ue_usage_type x)
  | GIE_svc_indctr _ => '(k, x) ← decode_gtp_svc_indctr_ie zero_gtp_svc_indctr buf; Some (k, GIE_svc_indctr x)
  | GIE_local_distgsd_name _ => '(k, x) ← decode_gtp_local_distgsd_name_ie zero_gtp_local_distgsd_name buf; Some (k, GIE_local_distgsd_name x)
  | GIE_csg_info_rptng_act _ => '(k, x) ← decode_gtp_csg_info_rptng_act_ie zero_gtp_csg_info_rptng_act buf; Some (k, GIE_csg_info_rptng_act x)
  | GIE_secdry_rat_usage_data_rpt _ => '(k, x) ← decode_gtp_secdry_rat_usage_data_rpt_ie zero_gtp_secdry_rat_usage_data_rpt buf; Some (k, GIE_secdry_rat_usage_data_rpt x)
  | GIE_rat_type _ => '(k, x) ← decode_gtp_rat_type_ie zero_gtp_rat_type buf; Some (k, GIE_rat_type x)
  | GIE_global_cn_id _ => '(k, x) ← decode_gtp_global_cn_id_ie zero_gtp_global_cn_id buf; Some (k, GIE_global_cn_id x)
  | GIE_charging_id _ => '(k, x) ← decode_gtp_charging_id_ie zero_gtp_charging_id buf; Some (k, GIE_charging_id x)
  | GIE_counter _ => '(k, x) ← decode_gtp_counter_ie zero_gtp_counter buf; Some (k, GIE_counter x)
  | GIE_serving_network _ => '(k, x) ← decode_gtp_serving_network_ie zero_gtp_serving_network buf; Some (k, GIE_serving_network x)
  | GIE_node_identifier _ => '(k, x) ← decode_gtp_node_identifier_ie zero_gtp_node_identifier buf; Some (k, GIE_node_identifier x)
  | GIE_mbms_ip_multcst_dist _ => '(k, x) ← decode_gtp_mbms_ip_multcst_dist_ie zero_gtp_mbms_ip_multcst_dist buf; Some (k, GIE_mbms_ip_multcst_dist x)
  | GIE_full_qual_cntnr _ => '(k, x) ← decode_gtp_full_qual_cntnr_ie zero_gtp_full_qual_cntnr buf; Some (k, GIE_full_qual_cntnr x)
  | GIE_mbms_data_xfer_abs_time _ => '(k, x) ← decode_gtp_mbms_data_xfer_abs_time_ie zero_gtp_mbms_data_xfer_abs_time buf; Some (k, GIE_mbms_data_xfer_abs_time x)
  | GIE_gsm_key_used_cipher_and_quintuplets _ => '(k, x) ← decode_gtp_gsm_key_used_cipher_and_quintuplets_ie zero_gtp_gsm_key_used_cipher_and_quintuplets buf; Some (k, GIE_gsm_key_used_cipher_and_quintuplets x)
  | GIE_twan_idnt_ts _ => '(k, x) ← decode_gtp_twan_idnt_ts_ie zero_gtp_twan_idnt_ts buf; Some (k, GIE_twan_idnt_ts x)
  | GIE_tmsi _ => '(k, x) ← decode_gtp_tmsi_ie zero_gtp_tmsi buf; Some (k, GIE_tmsi x)
  | GIE_ptmsi _ => '(k, x) ← decode_gtp_ptmsi_ie zero_gtp_ptmsi buf; Some (k, GIE_ptmsi x)
  | GIE_node_type _ => '(k, x) ← decode_gtp_node_type_ie zero_gtp_node_type buf; Some (k, GIE_node_type x)
  | GIE_integer_number _ => '(k, x) ← decode_gtp_integer_number_ie zero_gtp_integer_number buf; Some (k, GIE_integer_number x)
  | GIE_mbms_sess_dur _ => '(k, x) ← decode_gtp_mbms_sess_dur_ie zero_gtp_mbms_sess_dur buf; Some (k, GIE_mbms_sess_dur x)
  | GIE_metric _ => '(k, x) ← decode_gtp_metric_ie zero_gtp_metric buf; Some (k, GIE_metric x)
  | GIE_ciot_optim_supp_indctn _ => '(k, x) ← decode_gtp_ciot_optim_supp_indctn_ie zero_gtp_ciot_optim_supp_indctn buf; Some (k, GIE_ciot_optim_supp_indctn x)
  | GIE_pdu_numbers _ => '(k, x) ← decode_gtp_pdu_numbers_ie zero_gtp_pdu_numbers buf; Some (k, GIE_pdu_numbers x)
  | GIE_rab_context _ => '(k, x) ← decode_gtp_rab_context_ie zero_gtp_rab_context buf; Some (k, GIE_rab_context x)
  | GIE_addtl_flgs_srvcc _ => '(k, x) ← decode_gtp_addtl_flgs_srvcc_ie zero_gtp_addtl_flgs_srvcc buf; Some (k, GIE_addtl_flgs_srvcc x)
  | GIE_gsm_key_and_triplets _ => '(k, x) ← decode_gtp_gsm_key_and_triplets_ie zero_gtp_gsm_key_and_triplets buf; Some (k, GIE_gsm_key_and_triplets x)
  | GIE_node_number _ => '(k, x) ← decode_gtp_node_number_ie zero_gtp_node_number buf; Some (k, GIE_node_number x)
  | GIE_full_qual_cause _ => '(k, x) ← decode_gtp_full_qual_cause_ie zero_gtp_full_qual_cause buf; Some (k, GIE_full_qual_cause x)
  | GIE_ipv4_cfg_parms _ => '(k, x) ← decode_gtp_ipv4_cfg_parms_ie zero_gtp_ipv4_cfg_parms buf; Some (k, GIE_ipv4_cfg_parms x)
  | GIE_trace_reference _ => '(k, x) ← decode_gtp_trace_reference_ie zero_gtp_trace_reference buf; Some (k, GIE_trace_reference x)
  | GIE_node_features _ => '(k, x) ← decode_gtp_node_features_ie zero_gtp_node_features buf; Some (k, GIE_node_features x)
  | GIE_remote_user_id _ => '(k, x) ← decode_gtp_remote_user_id_ie zero_gtp_remote_user_id buf; Some (k, GIE_remote_user_id x)
  | GIE_port_number _ => '(k, x) ← decode_gtp_port_number_ie zero_gtp_port_number buf; Some (k, GIE_port_number x)
  | GIE_addtl_mm_ctxt_srvcc _ => '(k, x) ← decode_gtp_addtl_mm_ctxt_srvcc_ie zero_gtp_addtl_mm_ctxt_srvcc buf; Some (k, GIE_addtl_mm_ctxt_srvcc x)
  | GIE_plmn_id _ => '(k, x) ← decode_gtp_plmn_id_ie zero_gtp_plmn_id buf; Some (k, GIE_plmn_id x)
  | GIE_mbms_flow_idnt _ => '(k, x) ← decode_gtp_mbms_flow_idnt_ie zero_gtp_mbms_flow_idnt buf; Some (k, GIE_mbms_flow_idnt x)
  | GIE_hdr_comp_cfg _ => '(k, x) ← decode_gtp_hdr_comp_cfg_ie zero_gtp_hdr_comp_cfg buf; Some (k, GIE_hdr_comp_cfg x)
  | GIE_sgnllng_priority_indctn _ => '(k, x) ← decode_gtp_sgnllng_priority_indctn_ie zero_gtp_sgnllng_priority_indctn buf; Some (k, GIE_sgnllng_priority_indctn x)
  | GIE_mbms_time_to_data_xfer _ => '(k, x) ← decode_gtp_mbms_time_to_data_xfer_ie zero_gtp_mbms_time_to_data_xfer buf; Some (k, GIE_mbms_time_to_data_xfer x)
  | GIE_trgt_id _ => '(k, x) ← decode_gtp_trgt_id_ie zero_gtp_trgt_id buf; Some (k, GIE_trgt_id x)
  | GIE_mbms_flags _ => '(k, x) ← decode_gtp_mbms_flags_ie zero_gtp_mbms_flags buf; Some (k, GIE_mbms_flags x)
  | GIE_trans_idnt _ => '(k, x) ← decode_gtp_trans_idnt_ie zero_gtp_trans_idnt buf; Some (k, GIE_trans_idnt x)
  | GIE_bearer_flags _ => '(k, x) ← decode_gtp_bearer_flags_ie zero_gtp_bearer_flags buf; Some (k, GIE_bearer_flags x)
  | GIE_msec_time_stmp _ => '(k, x) ← decode_gtp_msec_time_stmp_ie zero_gtp_msec_time_stmp buf; Some (k, GIE_msec_time_stmp x)
  | GIE_chg_to_rpt_flgs _ => '(k, x) ← decode_gtp_chg_to_rpt_flgs_ie zero_gtp_chg_to_rpt_flgs buf; Some (k, GIE_chg_to_rpt_flgs x)
  | GIE_chg_rptng_act _ => '(k, x) ← decode_gtp_chg_rptng_act_ie zero_gtp_chg_rptng_act buf; Some (k, GIE_chg_rptng_act x)
  | GIE_delay_value _ => '(k, x) ← decode_gtp_delay_value_ie zero_gtp_delay_value buf; Some (k, GIE_delay_value x)
  | GIE_detach_type _ => '(k, x) ← decode_gtp_detach_type_ie zero_gtp_detach_type buf; Some (k, GIE_detach_type x)
  | GIE_mbms_svc_area _ => '(k, x) ← decode_gtp_mbms_svc_area_ie zero_gtp_mbms_svc_area buf; Some (k, GIE_mbms_svc_area x)
  | GIE_chrgng_char _ => '(k, x) ← decode_gtp_chrgng_char_ie zero_gtp_chrgng_char buf; Some (k, GIE_chrgng_char x)
  | GIE_henb_info_rptng _ => '(k, x) ← decode_gtp_henb_info_rptng_ie zero_gtp_henb_info_rptng buf; Some (k, GIE_henb_info_rptng x)
  | GIE_throttling _ => '(k, x) ← decode_gtp_throttling_ie zero_gtp_throttling buf; Some (k, GIE_throttling x)
  | GIE_csg_memb_indctn _ => '(k, x) ← decode_gtp_csg_memb_indctn_ie zero_gtp_csg_memb_indctn buf; Some (k, GIE_csg_memb_indctn x)
  | GIE_src_rnc_pdcp_ctxt_info _ => '(k, x) ← decode_gtp_src_rnc_pdcp_ctxt_info_ie zero_gtp_src_rnc_pdcp_ctxt_info buf; Some (k, GIE_src_rnc_pdcp_ctxt_info x)
  | GIE_hop_counter _ => '(k, x) ← decode_gtp_hop_counter_ie zero_gtp_hop_counter buf; Some (k, GIE_hop_counter x)
  | GIE_mbms_sess_idnt _ => '(k, x) ← decode_gtp_mbms_sess_idnt_ie zero_gtp_mbms_sess_idnt buf; Some (k, GIE_mbms_sess_idnt x)
  | GIE_apn_and_rltv_cap _ => '(k, x) ← decode_gtp_apn_and_rltv_cap_ie zero_gtp_apn_and_rltv_cap buf; Some (k, GIE_apn_and_rltv_cap x)
  | GIE_selection_mode _ => '(k, x) ← decode_gtp_selection_mode_ie zero_gtp_selection_mode buf; Some (k, GIE_selection_mode x)
  | GIE_up_func_sel_indctn_flgs _ => '(k, x) ← decode_gtp_up_func_sel_indctn_flgs_ie zero_gtp_up_func_sel_indctn_flgs buf; Some (k, GIE_up_func_sel_indctn_flgs x)
  | GIE_mbl_equip_idnty _ => '(k, x) ← decode_gtp_mbl_equip_idnty_ie zero_gtp_mbl_equip_idnty buf; Some (k, GIE_mbl_equip_idnty x)
  | GIE_priv_ext _ => '(k, x) ← decode_gtp_priv_ext_ie zero_gtp_priv_ext buf; Some (k, GIE_priv_ext x)
  | GIE_sequence_number _ => '(k, x) ← decode_gtp_sequence_number_ie zero_gtp_sequence_number buf; Some (k, GIE_sequence_number x)
  end.

Lemma gtp_regular_encodes i :
  encodes (gtp_regular_encode i) (gtp_regular_layout i) (size (gtp_regular_layout i) / 8).
Proof. destruct i; exact (ie_encodes v). Qed.

Lemma gtp_regular_decodes i buf post :
  layout_ok (gtp_regular_layout i) -> holds buf (wbits (gtp_regular_layout i) ++ post) ->
  size (gtp_regular_layout i) < 65536 ->
  gtp_regular_decode i buf = Some (size (gtp_regular_layout i) / 8, i).
Proof.
  destruct i; intros Hok Hh Hs; unfold gtp_regular_decode;
    match goal with |- context [?f ?z buf] =>
      assert (f z buf = Some (size (ie_layout v) / 8, v)) as -> by exact (ie_decodes v z Hok buf post Hh Hs)
    end; done.
Qed.
