(* ===== verification/GtpIesOptional.v ===== *)
(** * Layouts of the GTPv2 message header and of elements with optional or variable parts

    As for the regular elements, [encodes] and [decodes] of a common layout, under the
    condition under which encoder and decoder agree. *)

From S2P Require Import Prelude EncDecBits Codec CodecSpec Tlv GtpIes GtpIesEncoder GtpIesDecoder GtpIesSpec.

(** ** The message header *)

Definition layout_gtpv2c_header (h : gtpv2c_header_t) : layout :=
  [(3, h.(gtpc_version)); (1, h.(gtpc_piggyback)); (1, h.(gtpc_teid_flag)); (3, h.(gtpc_spare));
   (8, h.(gtpc_message_type)); (16, h.(gtpc_message_len))] ++
  (if h.(gtpc_teid_flag) =? 1
   then [(32, h.(has_teid_teid)); (24, h.(has_teid_seq)); (8, h.(has_teid_spare))]
   else [(24, no_teid_seq h); (8, no_teid_spare h)]).

(** The decoder does not read the spare byte behind the sequence number; a header without
    tunnel id uses only the first word of the union. *)
Definition gtpv2c_header_ok (h : gtpv2c_header_t) : Prop :=
  h.(has_teid_spare) = 0 ∧
  (h.(gtpc_teid_flag) ≠ 1 -> h.(has_teid_teid) < 2 ^ 24 ∧ 0 <= h.(has_teid_teid) ∧ h.(has_teid_seq) = 0).

Lemma gtpv2c_header_encodes h :
  encodes (encode_gtpv2c_header_t h) (layout_gtpv2c_header h) (size (layout_gtpv2c_header h) / 8).
Proof.
  apply encodes_bytes. unfold layout_gtpv2c_header. cbn [app].
  destruct (gtpc_teid_flag h =? 1) eqn:E; unfold encode_gtpv2c_header_t; rewrite ?E; repeat emit_step.
Qed.

Lemma of_be_rev_le k v : 0 <= v < 2 ^ (8 * Z.of_nat k) -> of_be_bytes (rev (le_bytes k v)) = v.
Proof.
  revert v. induction k as [|k IH]; intros v Hv; [cbn in *; lia|].
  cbn [le_bytes rev]. unfold of_be_bytes in *. rewrite foldl_app. cbn [foldl].
  rewrite Nat2Z.inj_succ, Z.mul_succ_r, Z.pow_add_r in Hv by lia. change (2 ^ 8) with 256 in Hv.
  rewrite IH by divlia. unfold uwrap. change (2 ^ 8) with 256. divlia.
Qed.

Lemma bytes_ok_be k v : bytes_ok (rev (le_bytes k v)).
Proof. apply Forall_rev, bytes_ok_le_bytes. Qed.

(** The bytes of the header. *)
Definition gtpv2c_bytes (h : gtpv2c_header_t) : list Z :=
  [((h.(gtpc_version) * 2 + h.(gtpc_piggyback)) * 2 + h.(gtpc_teid_flag)) * 8 + h.(gtpc_spare);
   h.(gtpc_message_type); h.(gtpc_message_len) / 256; u8 h.(gtpc_message_len)] ++
  (if h.(gtpc_teid_flag) =? 1
   then rev (le_bytes 4 h.(has_teid_teid)) ++ rev (le_bytes 3 h.(has_teid_seq)) ++ [h.(has_teid_spare)]
   else rev (le_bytes 3 (no_teid_seq h)) ++ [no_teid_spare h]).

Lemma octets_app a b : octets (a ++ b) = octets a ++ octets b.
Proof. unfold octets. by rewrite map_app. Qed.

Lemma gtpv2c_header_bytes h : layout_ok (layout_gtpv2c_header h) ->
  wbits (layout_gtpv2c_header h) = wbits (octets (gtpv2c_bytes h)) ∧ bytes_ok (gtpv2c_bytes h).
Proof.
  unfold layout_gtpv2c_header, gtpv2c_bytes. intros Hok. apply layout_ok_app in Hok as [H1 H2].
  do 6 (apply Forall_cons_1 in H1 as [?Hf H1]). cbn beta iota in *. rewrite octets_app, !wbits_app. split.
  - f_equal.
    + unfold octets. cbn [map]. rewrite !wbits_cons, !app_assoc.
      do 3 (rewrite nbits_join by assumption). change (Z.to_nat 16) with (8 + 8)%nat.
      rewrite (nbits_split 8 8), nbits8_u8, <- !app_assoc. reflexivity.
    + destruct (gtpc_teid_flag h =? 1).
      * do 2 (apply Forall_cons_1 in H2 as [?Ht H2]). rewrite !octets_app, !wbits_app, <- !wbits_be_bytes by done.
        by rewrite !wbits_cons, !app_nil_r.
      * apply Forall_cons_1 in H2 as [Ht H2]. rewrite !octets_app, !wbits_app, <- !wbits_be_bytes by done.
        by rewrite !wbits_cons, !app_nil_r.
  - apply Forall_app. split.
    + repeat apply Forall_cons_2; try done; unfold byte_ok; try lia; [divlia|apply byte_ok_uwrap].
    + destruct (gtpc_teid_flag h =? 1); repeat (apply Forall_cons_1 in H2 as [?Ht H2]).
      * apply Forall_app_2; [apply bytes_ok_be|]. apply Forall_app_2; [apply bytes_ok_be|by apply Forall_singleton].
      * apply Forall_app_2; [apply bytes_ok_be|by apply Forall_singleton].
Qed.

(** The two forms of the header in a buffer. *)
Ltac loads :=
  repeat match goal with
  | |- context [load ?l ?i ≫= _] =>
      let r := eval hnf in (load l i) in change (load l i) with r; cbn [mbind option_bind]
  end.

Lemma decode_header_teid header f ty l1 l0 t3 t2 t1 t0 s2 s1 s0 x rest : nz (f / 8 mod 2) = true ->
  decode_gtpv2c_header_t header (f :: ty :: l1 :: l0 :: t3 :: t2 :: t1 :: t0 :: s2 :: s1 :: s0 :: x :: rest) =
    Some (12, mk_gtpv2c_header (f mod 8) (f / 8 mod 2) (f / 16 mod 2) (f / 32) ty (256 * l1 + l0)
                (of_be_bytes [t3; t2; t1; t0]) (of_be_bytes [s2; s1; s0]) header.(has_teid_spare)).
Proof. intros E. unfold decode_gtpv2c_header_t. loads. cbv zeta. rewrite E. loads. done. Qed.

Lemma decode_header_no_teid header f ty l1 l0 s2 s1 s0 x rest : nz (f / 8 mod 2) = false ->
  decode_gtpv2c_header_t header (f :: ty :: l1 :: l0 :: s2 :: s1 :: s0 :: x :: rest) =
    Some (8, mk_gtpv2c_header (f mod 8) (f / 8 mod 2) (f / 16 mod 2) (f / 32) ty (256 * l1 + l0)
               (of_be_bytes [s2; s1; s0] + 2 ^ 24 * no_teid_spare header) header.(has_teid_seq) header.(has_teid_spare)).
Proof. intros E. unfold decode_gtpv2c_header_t. loads. cbv zeta. rewrite E. loads. done. Qed.

Lemma gtpv2c_header_decodes h : layout_ok (layout_gtpv2c_header h) -> gtpv2c_header_ok h ->
  decodes (decode_gtpv2c_header_t zero_gtpv2c_header) (layout_gtpv2c_header h)
    (size (layout_gtpv2c_header h) / 8) h.
Proof.
  intros Hok (Hsp & Hno) buf post Hh _. destruct (gtpv2c_header_bytes h Hok) as [E Hb]. rewrite E in Hh.
  apply holds_octets in Hh as [rest ->]; [|done]. clear E Hb.
  unfold layout_gtpv2c_header in *. apply layout_ok_app in Hok as [H1 H2].
  do 6 (apply Forall_cons_1 in H1 as [?Hf H1]). clear H1.
  destruct h as [sp fl pb ver ty len teid seq spare]; cbn in Hsp, Hno, Hf, Hf0, Hf1, Hf2, Hf3, Hf4, H2. subst spare.
  unfold gtpv2c_bytes, layout_gtpv2c_header. cbn [gtpc_teid_flag gtpc_version gtpc_piggyback gtpc_spare
    gtpc_message_type gtpc_message_len has_teid_teid has_teid_seq has_teid_spare].
  set (flags := ((ver * 2 + pb) * 2 + fl) * 8 + sp).
  assert (flags / 8 mod 2 = fl ∧ flags mod 8 = sp ∧ flags / 16 mod 2 = pb ∧ flags / 32 = ver ∧
    256 * (len / 256) + u8 len = len) as (E1 & E2 & E3 & E4 & E5).
  { unfold flags, uwrap. change (2 ^ 8) with 256. split_and!; divlia. }
  clearbody flags. destruct (Z.eqb_spec fl 1) as [->|Hn].
  - do 2 (apply Forall_cons_1 in H2 as [?Ht H2]).
    pose proof (of_be_rev_le 4 teid Ht) as T4. pose proof (of_be_rev_le 3 seq Ht0) as T3.
    cbn [rev le_bytes app] in *. rewrite decode_header_teid by (by rewrite E1).
    by rewrite E1, E2, E3, E4, E5, T4, T3.
  - destruct (Hno Hn) as (Ht & Ht0 & ->). unfold no_teid_seq, no_teid_spare. cbn [has_teid_teid].
    rewrite (Z.mod_small teid), (Z.div_small teid) by lia.
    pose proof (of_be_rev_le 3 teid ltac:(lia)) as T3. assert (fl = 0) as -> by lia.
    cbn [rev le_bytes app] in *. rewrite decode_header_no_teid by (by rewrite E1).
    by rewrite E1, E2, E3, E4, E5, T3, Z.add_0_r.
Qed.

(** ** Arrays of bytes *)

(** The first [n] bytes of an array of [N], of which the others are zero. *)
Definition padded (arr : list Z) (n : Z) (N : nat) : Prop :=
  length arr = N ∧ bytes_ok arr ∧ 0 < n <= Z.of_nat N ∧ drop (Z.to_nat n) arr = repeat 0 (N - Z.to_nat n).

Lemma size_padded arr n N : padded arr n N -> size (octets (take (Z.to_nat n) arr)) = 8 * n.
Proof. intros (Hl & _ & Hn & _). rewrite size_octets, length_take. lia. Qed.

Lemma emits_padded arr n N : padded arr n N -> emits 0 (putmem_len arr n) (octets (take (Z.to_nat n) arr)).
Proof.
  intros (Hl & Hb & Hn & _) base e buf w. unfold putmem_len. rewrite (proj2 (Z.leb_le 0 n)) by lia.
  apply emits_putmem_prefix; [done|lia].
Qed.

Lemma reads_padded {A} arr n N (k : list Z -> dec A) L y : padded arr n N -> reads 0 (k arr) L y ->
  reads 0 (getmem_into (repeat 0 N) n ≫= k) (octets (take (Z.to_nat n) arr) ++ L) y.
Proof.
  intros (Hl & Hb & Hn & Hd) Hk. pose proof (length_take arr (Z.to_nat n)) as Ht.
  replace n with (Z.of_nat (length (take (Z.to_nat n) arr))) at 1 by lia.
  apply reads_getmem_into; [by apply Forall_take|apply bytes_ok_zeros|rewrite repeat_length; lia|].
  rewrite Ht, Nat.min_l, drop_repeat, <- Hd, take_drop by lia. exact Hk.
Qed.

(** Elements that are nothing but an array. *)
Definition array_layout (h : ie_header_t) (arr : list Z) (n : Z) : layout :=
  layout_gie_header h ++ octets (take (Z.to_nat n) arr).
Definition array_good (h : ie_header_t) (arr : list Z) (n : Z) (N : nat) : Prop :=
  layout_ok (layout_gie_header h) ∧ padded arr n N.

Lemma array_encodes h arr n N : array_good h arr n N ->
  encodes (enc_bytes (ecall (encode_ie_header_t h) ⨾ putmem_len arr n)) (array_layout h arr n)
    (size (array_layout h arr n) / 8).
Proof. intros [_ Hp]. apply encodes_bytes, emits_gie_header. by eapply emits_padded. Qed.

Lemma array_decodes {T} (mk : ie_header_t -> list Z -> T) (len : ie_header_t -> Z) h arr N :
  array_good h arr (len h) N ->
  decodes (dec_bytes (header ← dcall (decode_ie_header_t IE_HEADER_SIZE);
                      x ← getmem_into (repeat 0 N) (len header); mret (mk header x)))
    (array_layout h arr (len h)) (size (array_layout h arr (len h)) / 8) (mk h arr).
Proof.
  intros [Hok Hp]. apply decodes_bytes, reads_gie_header; [done|].
  rewrite <- (app_nil_r (octets _)). eapply reads_padded; [done|]. apply reads_ret.
Qed.

Ltac array_codec :=
  intros Hg; split; [by eapply array_encodes|];
  match goal with |- decodes _ (array_layout (?p ?v) _ _) _ _ => destruct v end;
  match goal with |- decodes (dec_bytes (mbind ?k _)) (array_layout ?h ?arr ?n) _ (?mk _ _) =>
    first [exact (array_decodes mk gie_len h arr _ Hg)|exact (array_decodes mk (fun _ => 8) h arr _ Hg)] end.

(** Encoder and decoder agree on the layout [L] of the value [v]. *)
Definition agree {T} (f : T -> ie_encoder) (g : T -> ie_decoder T) (zero : T) (L : layout) (v : T) : Prop :=
  encodes (f v) L (size L / 8) ∧ decodes (g zero) L (size L / 8) v.

(** Access point names, domain names, traffic flow templates: the length is that of the
    element. *)
Definition apn_good (v : gtp_acc_pt_name_ie_t) : Prop :=
  array_good v.(gtp_acc_pt_name_header) v.(gtp_acc_pt_name_apn) v.(gtp_acc_pt_name_header).(gie_len) 128.
Definition layout_apn (v : gtp_acc_pt_name_ie_t) : layout :=
  array_layout v.(gtp_acc_pt_name_header) v.(gtp_acc_pt_name_apn) v.(gtp_acc_pt_name_header).(gie_len).
Lemma apn_agree v : apn_good v ->
  agree encode_gtp_acc_pt_name_ie decode_gtp_acc_pt_name_ie zero_gtp_acc_pt_name (layout_apn v) v.
Proof. unfold apn_good, agree, layout_apn, encode_gtp_acc_pt_name_ie, decode_gtp_acc_pt_name_ie. array_codec. Qed.

Definition fqdn_good (v : gtp_fully_qual_domain_name_ie_t) : Prop :=
  array_good v.(gtp_fully_qual_domain_name_header) v.(gtp_fully_qual_domain_name_fqdn)
    v.(gtp_fully_qual_domain_name_header).(gie_len) 256.
Definition layout_fqdn (v : gtp_fully_qual_domain_name_ie_t) : layout :=
  array_layout v.(gtp_fully_qual_domain_name_header) v.(gtp_fully_qual_domain_name_fqdn)
    v.(gtp_fully_qual_domain_name_header).(gie_len).
Lemma fqdn_agree v : fqdn_good v ->
  agree encode_gtp_fully_qual_domain_name_ie decode_gtp_fully_qual_domain_name_ie zero_gtp_fully_qual_domain_name
    (layout_fqdn v) v.
Proof.
  unfold fqdn_good, agree, layout_fqdn, encode_gtp_fully_qual_domain_name_ie, decode_gtp_fully_qual_domain_name_ie.
  array_codec.
Qed.

Definition tft_good (v : gtp_eps_bearer_lvl_traffic_flow_tmpl_ie_t) : Prop :=
  array_good v.(gtp_eps_bearer_lvl_traffic_flow_tmpl_header) v.(gtp_eps_bearer_lvl_traffic_flow_tmpl_eps_bearer_lvl_tft)
    v.(gtp_eps_bearer_lvl_traffic_flow_tmpl_header).(gie_len) 257.
Definition layout_tft (v : gtp_eps_bearer_lvl_traffic_flow_tmpl_ie_t) : layout :=
  array_layout v.(gtp_eps_bearer_lvl_traffic_flow_tmpl_header)
    v.(gtp_eps_bearer_lvl_traffic_flow_tmpl_eps_bearer_lvl_tft) v.(gtp_eps_bearer_lvl_traffic_flow_tmpl_header).(gie_len).
Lemma tft_agree v : tft_good v ->
  agree encode_gtp_eps_bearer_lvl_traffic_flow_tmpl_ie decode_gtp_eps_bearer_lvl_traffic_flow_tmpl_ie
    zero_gtp_eps_bearer_lvl_traffic_flow_tmpl (layout_tft v) v.
Proof.
  unfold tft_good, agree, layout_tft, encode_gtp_eps_bearer_lvl_traffic_flow_tmpl_ie,
    decode_gtp_eps_bearer_lvl_traffic_flow_tmpl_ie. array_codec.
Qed.

(** Load and overload control, as eight bytes. *)
Definition load_ctl_good (v : gtp_load_ctl_info_ie_t) : Prop :=
  array_good v.(gtp_load_ctl_info_header) v.(gtp_load_ctl_info_load_control_information) 8 8.
Definition layout_load_ctl (v : gtp_load_ctl_info_ie_t) : layout :=
  array_layout v.(gtp_load_ctl_info_header) v.(gtp_load_ctl_info_load_control_information) 8.
Lemma load_ctl_agree v : load_ctl_good v ->
  agree encode_gtp_load_ctl_info_ie decode_gtp_load_ctl_info_ie zero_gtp_load_ctl_info (layout_load_ctl v) v.
Proof. unfold load_ctl_good, agree, layout_load_ctl, encode_gtp_load_ctl_info_ie, decode_gtp_load_ctl_info_ie. array_codec. Qed.

Definition ovrld_ctl_good (v : gtp_ovrld_ctl_info_ie_t) : Prop :=
  array_good v.(gtp_ovrld_ctl_info_header) v.(gtp_ovrld_ctl_info_overload_control_information) 8 8.
Definition layout_ovrld_ctl (v : gtp_ovrld_ctl_info_ie_t) : layout :=
  array_layout v.(gtp_ovrld_ctl_info_header) v.(gtp_ovrld_ctl_info_overload_control_information) 8.
Lemma ovrld_ctl_agree v : ovrld_ctl_good v ->
  agree encode_gtp_ovrld_ctl_info_ie decode_gtp_ovrld_ctl_info_ie zero_gtp_ovrld_ctl_info (layout_ovrld_ctl v) v.
Proof. unfold ovrld_ctl_good, agree, layout_ovrld_ctl, encode_gtp_ovrld_ctl_info_ie, decode_gtp_ovrld_ctl_info_ie. array_codec. Qed.

(** ** Addresses of a PDN connection *)

Definition layout_paa (v : gtp_pdn_addr_alloc_ie_t) : layout :=
  layout_gie_header v.(gtp_pdn_addr_alloc_header) ++
  [(5, v.(gtp_pdn_addr_alloc_spare2)); (3, v.(gtp_pdn_addr_alloc_pdn_type))] ++
  octets (take (Z.to_nat (v.(gtp_pdn_addr_alloc_header).(gie_len) - 1)) v.(gtp_pdn_addr_alloc_pdn_addr_and_pfx)).
Definition paa_good (v : gtp_pdn_addr_alloc_ie_t) : Prop :=
  layout_ok (layout_paa v) ∧ padded v.(gtp_pdn_addr_alloc_pdn_addr_and_pfx) (v.(gtp_pdn_addr_alloc_header).(gie_len) - 1) 21.
Lemma paa_agree v : paa_good v ->
  agree encode_gtp_pdn_addr_alloc_ie decode_gtp_pdn_addr_alloc_ie zero_gtp_pdn_addr_alloc (layout_paa v) v.
Proof.
  intros [Hok Hp]. unfold layout_paa in Hok. apply layout_ok_app in Hok as [Hh Hok]. apply layout_ok_app in Hok as [H _].
  split.
  - apply encodes_bytes, emits_gie_header. cbn [app]. do 2 emit_step. by eapply emits_padded.
  - apply decodes_bytes, reads_gie_header; [exact Hh|]. destruct v; cbn -[octets take repeat] in *. do 2 read_step H.
    rewrite <- (app_nil_r (octets _)). eapply reads_padded; [done|]. apply reads_ret.
Qed.

(** ** Cause *)

Definition layout_gtp_cause (v : gtp_cause_ie_t) : layout :=
  layout_gie_header v.(gtp_cause_header) ++
  [(8, v.(gtp_cause_cause_value)); (5, v.(gtp_cause_spare2)); (1, v.(gtp_cause_pce)); (1, v.(gtp_cause_bce));
   (1, v.(gtp_cause_cs))] ++
  (if negb (v.(gtp_cause_header).(gie_len) =? 2)
   then [(8, v.(gtp_cause_offend_ie_type)); (16, v.(gtp_cause_offend_ie_len)); (8, v.(gtp_cause_spareinstance))] else []).
Definition gtp_cause_good (v : gtp_cause_ie_t) : Prop :=
  layout_ok (layout_gtp_cause v) ∧ (v.(gtp_cause_header).(gie_len) = 2 ->
    v.(gtp_cause_offend_ie_type) = 0 ∧ v.(gtp_cause_offend_ie_len) = 0 ∧ v.(gtp_cause_spareinstance) = 0).
Lemma gtp_cause_agree v : gtp_cause_good v ->
  agree encode_gtp_cause_ie decode_gtp_cause_ie zero_gtp_cause (layout_gtp_cause v) v.
Proof.
  intros [Hok Hz]. unfold layout_gtp_cause in Hok. apply layout_ok_app in Hok as [Hh Hok]. apply layout_ok_app in Hok as [H H'].
  split.
  - apply encodes_bytes, emits_gie_header. cbn [app]. do 5 emit_step. apply emits_when. intros _. repeat emit_step.
  - apply decodes_bytes, reads_gie_header; [exact Hh|]. destruct v; cbn in *. do 5 read_step H.
    rewrite <- (app_nil_r (if negb _ then _ else _)).
    apply (reads_opt _ _ _ _ _ (gtp_cause_offend_ie_type, gtp_cause_offend_ie_len, gtp_cause_spareinstance)).
    + intros E. rewrite E in H'. repeat read_step H'.
    + intros E%negb_false_iff%Z.eqb_eq. by destruct (Hz E) as (-> & -> & ->).
    + done.
    + apply reads_ret.
Qed.

(** ** F-TEID with an IPv4 address

    The encoder always sends the IPv4 address, the decoder reads it only when its flag
    is set. *)

Definition layout_gtp_fteid (v : gtp_fully_qual_tunn_endpt_idnt_ie_t) : layout :=
  layout_gie_header v.(gtp_fully_qual_tunn_endpt_idnt_header) ++
  [(1, v.(gtp_fully_qual_tunn_endpt_idnt_v4)); (1, v.(gtp_fully_qual_tunn_endpt_idnt_v6));
   (6, v.(gtp_fully_qual_tunn_endpt_idnt_interface_type)); (32, v.(gtp_fully_qual_tunn_endpt_idnt_teid_gre_key));
   (32, v.(gtp_fully_qual_tunn_endpt_idnt_ipv4_address))] ++
  (if nz v.(gtp_fully_qual_tunn_endpt_idnt_v6) then octets v.(gtp_fully_qual_tunn_endpt_idnt_ipv6_address) else []).
Definition gtp_fteid_good (v : gtp_fully_qual_tunn_endpt_idnt_ie_t) : Prop :=
  layout_ok (layout_gtp_fteid v) ∧ v.(gtp_fully_qual_tunn_endpt_idnt_v4) = 1 ∧
  length v.(gtp_fully_qual_tunn_endpt_idnt_ipv6_address) = 16%nat ∧
  bytes_ok v.(gtp_fully_qual_tunn_endpt_idnt_ipv6_address) ∧
  (v.(gtp_fully_qual_tunn_endpt_idnt_v6) = 0 -> v.(gtp_fully_qual_tunn_endpt_idnt_ipv6_address) = repeat 0 16).

Lemma reads_unbind {A} a (m : dec A) L x : reads a (m ≫= mret) (L ++ []) x -> reads a m L x.
Proof.
  rewrite app_nil_r. intros H buf pre post t d Hh Ht Ha Hs. destruct (H buf pre post t d Hh Ht Ha Hs) as [d' E].
  exists d'. unfold mbind, dec_bind in E. by destruct (m buf (t, d)) as [[? []]|].
Qed.

Lemma reads_array arr n : bytes_ok arr -> length arr = n ->
  reads 0 (getmem_into (repeat 0 n) (Z.of_nat n)) (octets arr) arr.
Proof.
  intros Hb <-. apply reads_unbind, reads_getmem_into; [done|apply bytes_ok_zeros|by rewrite repeat_length|].
  rewrite drop_repeat, Nat.sub_diag, app_nil_r. apply reads_ret.
Qed.

(** A flag that is compared with 1 by the decoder and with 0 by the encoder. *)
Lemma flag_eqb f : 0 <= f < 2 -> (f =? 1) = nz f.
Proof. intros H. unfold nz. destruct (Z.eqb_spec f 1), (Z.eqb_spec f 0); auto; lia. Qed.

Lemma gtp_fteid_agree v : gtp_fteid_good v ->
  agree encode_gtp_fully_qual_tunn_endpt_idnt_ie decode_gtp_fully_qual_tunn_endpt_idnt_ie
    zero_gtp_fully_qual_tunn_endpt_idnt (layout_gtp_fteid v) v.
Proof.
  intros (Hok & H4 & Hl & Hb & Hz). unfold layout_gtp_fteid in Hok.
  apply layout_ok_app in Hok as [Hh Hok]. apply layout_ok_app in Hok as [H _]. split.
  - apply encodes_bytes, emits_gie_header. cbn [app]. do 5 emit_step. apply emits_when. intros _.
    intros base e buf w. unfold putmem_len. cbn [Z.leb Z.compare]. apply emits_putmem; [done|by rewrite Hl].
  - apply decodes_bytes, reads_gie_header; [exact Hh|]. destruct v as [h v4 v6 it t a4 a6]; cbn -[octets repeat] in *. subst v4.
    read_step H. pose proof H as Hv6. apply Forall_cons_1 in Hv6 as [Hv6 _]. do 3 read_step H.
    cbn [Z.eqb Pos.eqb dec_when]. read_step H. rewrite (flag_eqb v6 Hv6).
    rewrite <- (app_nil_r (if nz _ then _ else _)).
    eapply reads_opt; [|intros E; apply Hz; unfold nz in E; lia|apply size_octets8|apply reads_ret].
    intros _. by apply (reads_array a6 16).
Qed.

(** ** Digits: IMSI and MSISDN *)

(** A copy of the bytes [bs] at a byte boundary. *)
Lemma copy_in_place buf pre bs post t mem :
  holds buf (pre ++ wbits (octets bs) ++ post) -> Z.of_nat (length pre) = t -> t mod 8 = 0 -> bytes_ok bs ->
  (length bs <= length mem)%nat ->
  memcpy (length bs) buf (t / 8) mem 0 = Some (bs ++ drop (length bs) mem) ∧
  ∃ rest, drop (Z.to_nat (t / 8)) buf = bs ++ rest.
Proof.
  intros Hh Ht Ha Hb Hle. pose proof Hh as (_ & Hl & _). rewrite !length_app, length_wbits_octets in Hl.
  assert (holds (drop (Z.to_nat (t / 8)) buf) (wbits (octets bs) ++ post)) as Hd by (apply (holds_drop _ pre); [done|divlia]).
  destruct (holds_octets _ _ _ Hb Hd) as [rest E]. split; [|by exists rest].
  rewrite <- (Z2Nat.id (t / 8)) by divlia. change 0 with (Z.of_nat 0). rewrite memcpy_app by divlia.
  rewrite E, take_app_length. done.
Qed.

Lemma take_le_bytes k n v : (k <= n)%nat -> take k (le_bytes n v) = le_bytes k v.
Proof.
  revert n v. induction k as [|k IH]; intros n v Hk; [done|]. destruct n; [lia|]. cbn. rewrite IH by lia. done.
Qed.

(** A number of [k] bytes that is copied over an 8-byte zero. *)
Lemma le_bytes_over k v : (k <= 8)%nat -> 0 <= v < 2 ^ (8 * Z.of_nat k) ->
  of_le_bytes (le_bytes k v ++ drop k (le_bytes 8 0)) = v.
Proof.
  intros Hk Hv. change (le_bytes 8 0) with (repeat 0 8). rewrite drop_repeat, of_le_bytes_app, of_le_bytes_zeros.
  rewrite of_le_le_bytes, Z.mul_0_r, Z.add_0_r. by apply Z.mod_small.
Qed.

Definition layout_msisdn (v : gtp_msisdn_ie_t) : layout :=
  layout_gie_header v.(gtp_msisdn_header) ++
  octets (le_bytes (Z.to_nat v.(gtp_msisdn_header).(gie_len)) v.(gtp_msisdn_msisdn_number_digits)).
Definition msisdn_good (v : gtp_msisdn_ie_t) : Prop :=
  layout_ok (layout_gie_header v.(gtp_msisdn_header)) ∧ 0 < v.(gtp_msisdn_header).(gie_len) <= 8 ∧
  0 <= v.(gtp_msisdn_msisdn_number_digits) < 2 ^ (8 * v.(gtp_msisdn_header).(gie_len)).

(** The encoder of a number that is sent in memory order. *)
Lemma emits_digits v more n : 0 <= n <= 8 -> bytes_ok more ->
  emits 0 (putmem_len (le_bytes 8 v ++ more) n) (octets (le_bytes (Z.to_nat n) v)).
Proof.
  intros Hn Hm base e buf w. unfold putmem_len. rewrite (proj2 (Z.leb_le 0 n)) by lia.
  rewrite <- (take_le_bytes _ 8) by lia. pose proof (length_le_bytes 8 v) as L8.
  rewrite <- (take_app_le (le_bytes 8 v) more) by lia.
  apply emits_putmem_prefix; [apply Forall_app; split; [apply bytes_ok_le_bytes|done]|].
  rewrite length_app. lia.
Qed.

Lemma msisdn_agree v : msisdn_good v ->
  agree encode_gtp_msisdn_ie decode_gtp_msisdn_ie zero_gtp_msisdn (layout_msisdn v) v.
Proof.
  intros (Hh & Hl & Hv). split.
  - apply encodes_bytes, emits_gie_header. rewrite <- (app_nil_r (le_bytes 8 _)). apply emits_digits; [lia|constructor].
  - apply decodes_bytes, reads_gie_header; [exact Hh|]. destruct v as [h x]. cbn -[le_bytes octets] in *.
    intros buf pre post t d Hb Ht Ha Hs. exists d. set (k := Z.to_nat (gie_len h)) in *.
    assert (gie_len h = Z.of_nat k) as Hk by (unfold k; lia). clearbody k. rewrite Hk in *.
    rewrite size_octets, length_le_bytes in *.
    destruct (copy_in_place _ _ _ _ _ (le_bytes 8 0) Hb Ht Ha (bytes_ok_le_bytes _ _)) as [C _];
      [rewrite !length_le_bytes; lia|]. rewrite length_le_bytes in C.
    unfold getmem_over, advance, mbind, dec_bind, mret, dec_ret. rewrite Nat2Z.id, C. cbn -[le_bytes of_le_bytes drop].
    rewrite le_bytes_over, uwrap_small by lia. do 4 f_equal; lia.
Qed.

(** The number of an IMSI depends on the bytes of its digits only. *)
Lemma imsi_number_prefix bcd rest n : (n <= 2 * length bcd)%nat -> imsi_number (bcd ++ rest) n = imsi_number bcd n.
Proof.
  induction n as [|n IH]; intros Hn; [done|]. cbn [imsi_number]. rewrite IH by lia.
  assert (imsi_digit (bcd ++ rest) (Z.of_nat (S n)) = imsi_digit bcd (Z.of_nat (S n))) as ->; [|done].
  unfold imsi_digit, load. rewrite (proj2 (Z.leb_le 0 _)) by divlia. by rewrite lookup_app_l by divlia.
Qed.

Definition imsi_digits (len : Z) : nat := if len =? 8 then 15 else 14.
Definition layout_imsi (v : gtp_imsi_ie_t) : layout :=
  layout_gie_header v.(gtp_imsi_header) ++
  octets (le_bytes (Z.to_nat v.(gtp_imsi_header).(gie_len)) v.(gtp_imsi_imsi_number_digits)).
(** [imsi64] is the number the digits are of. *)
Definition imsi_good (v : gtp_imsi_ie_t) : Prop :=
  let len := v.(gtp_imsi_header).(gie_len) in
  layout_ok (layout_gie_header v.(gtp_imsi_header)) ∧ 7 <= len <= 8 ∧
  0 <= v.(gtp_imsi_imsi_number_digits) < 2 ^ (8 * len) ∧
  imsi_number (le_bytes (Z.to_nat len) v.(gtp_imsi_imsi_number_digits)) (imsi_digits len) = Some v.(gtp_imsi_imsi64).

Lemma imsi_agree v : imsi_good v ->
  agree encode_gtp_imsi_ie decode_gtp_imsi_ie zero_gtp_imsi (layout_imsi v) v.
Proof.
  intros (Hh & Hl & Hv & Hn). split.
  - apply encodes_bytes, emits_gie_header. apply emits_digits; [lia|apply bytes_ok_le_bytes].
  - apply decodes_bytes, reads_gie_header; [exact Hh|]. destruct v as [h x n64]. cbn -[le_bytes octets imsi_number] in *.
    intros buf pre post t d Hb Ht Ha Hs. exists d. set (k := Z.to_nat (gie_len h)) in *.
    assert (gie_len h = Z.of_nat k) as Hk by (unfold k; lia). clearbody k. rewrite Hk in *.
    rewrite size_octets, length_le_bytes in *.
    destruct (copy_in_place _ _ _ _ _ (le_bytes 8 0 ++ le_bytes 8 0) Hb Ht Ha (bytes_ok_le_bytes _ _)) as [C [rest D]];
      [rewrite length_app, !length_le_bytes; lia|]. rewrite length_le_bytes in C.
    unfold getmem_over, advance, mbind, dec_bind, mret, dec_ret. rewrite Nat2Z.id, C. cbn -[le_bytes of_le_bytes drop imsi_number take].
    fold (imsi_digits (Z.of_nat k)). rewrite D, imsi_number_prefix, Hn.
    2: { rewrite length_le_bytes. unfold imsi_digits. destruct (Z.eqb_spec (Z.of_nat k) 8); lia. }
    cbn -[le_bytes of_le_bytes drop take]. rewrite uwrap_small by lia.
    rewrite drop_app_le, app_assoc, take_app_length' by (rewrite ?length_app, ?length_drop, ?length_le_bytes; lia).
    rewrite le_bytes_over by lia. do 4 f_equal; lia.
Qed.

(** ** Elements whose decoder returns the length of the header *)

Lemma header_len_agree {T} (mk : ie_header_t -> Z -> T) (hdr : T -> ie_header_t) h x :
  layout_ok (layout_gie_header h ++ [(8, x)]) -> h.(gie_len) = 1 -> hdr (mk h x) = h ->
  encodes (enc_bytes (ecall (encode_ie_header_t h) ⨾ put x 8)) (layout_gie_header h ++ [(8, x)]) 5 ∧
  decodes (dec_header_len hdr (header ← dcall (decode_ie_header_t IE_HEADER_SIZE); y ← get 8; mret (mk header y)))
    (layout_gie_header h ++ [(8, x)]) 5 (mk h x).
Proof.
  intros Hok Hl Hd. apply layout_ok_app in Hok as [Hh H]. split.
  - apply (encodes_bytes _ (layout_gie_header h ++ [(8, x)])), emits_gie_header. emit_step.
  - intros buf post Hb Hs. unfold dec_header_len.
    assert (reads 0 (header ← dcall (decode_ie_header_t IE_HEADER_SIZE); y ← get 8; mret (mk header y))
      (layout_gie_header h ++ [(8, x)]) (mk h x)) as R by (apply reads_gie_header; [done|]; repeat read_step H).
    destruct (R buf [] post 0 0) as [d E]; auto.
    rewrite E. cbn [mbind option_bind]. by rewrite Hd, Hl.
Qed.

Definition layout_pco (v : gtp_prot_cfg_opts_ie_t) : layout :=
  layout_gie_header v.(gtp_prot_cfg_opts_header) ++ [(8, v.(gtp_prot_cfg_opts_pco))].
Definition pco_good (v : gtp_prot_cfg_opts_ie_t) : Prop :=
  layout_ok (layout_pco v) ∧ v.(gtp_prot_cfg_opts_header).(gie_len) = 1.
Lemma pco_agree v : pco_good v ->
  agree encode_gtp_prot_cfg_opts_ie decode_gtp_prot_cfg_opts_ie zero_gtp_prot_cfg_opts (layout_pco v) v.
Proof. intros [Hok Hl]. destruct v as [h x]. by apply (header_len_agree mk_gtp_prot_cfg_opts gtp_prot_cfg_opts_header). Qed.

Definition layout_apco (v : gtp_addtl_prot_cfg_opts_ie_t) : layout :=
  layout_gie_header v.(gtp_addtl_prot_cfg_opts_header) ++ [(8, v.(gtp_addtl_prot_cfg_opts_apco))].
Definition apco_good (v : gtp_addtl_prot_cfg_opts_ie_t) : Prop :=
  layout_ok (layout_apco v) ∧ v.(gtp_addtl_prot_cfg_opts_header).(gie_len) = 1.
Lemma apco_agree v : apco_good v ->
  agree encode_gtp_addtl_prot_cfg_opts_ie decode_gtp_addtl_prot_cfg_opts_ie zero_gtp_addtl_prot_cfg_opts (layout_apco v) v.
Proof. intros [Hok Hl]. destruct v as [h x]. by apply (header_len_agree mk_gtp_addtl_prot_cfg_opts gtp_addtl_prot_cfg_opts_header). Qed.

Definition layout_epco (v : gtp_extnded_prot_cfg_opts_ie_t) : layout :=
  layout_gie_header v.(gtp_extnded_prot_cfg_opts_header) ++ [(8, v.(gtp_extnded_prot_cfg_opts_epco))].
Definition epco_good (v : gtp_extnded_prot_cfg_opts_ie_t) : Prop :=
  layout_ok (layout_epco v) ∧ v.(gtp_extnded_prot_cfg_opts_header).(gie_len) = 1.
Lemma epco_agree v : epco_good v ->
  agree encode_gtp_extnded_prot_cfg_opts_ie decode_gtp_extnded_prot_cfg_opts_ie zero_gtp_extnded_prot_cfg_opts (layout_epco v) v.
Proof. intros [Hok Hl]. destruct v as [h x]. by apply (header_len_agree mk_gtp_extnded_prot_cfg_opts gtp_extnded_prot_cfg_opts_header). Qed.

(** ** Indication flags, all seven bytes

    The encoder always sends seven bytes. *)

Definition layout_indication (v : gtp_indication_ie_t) : layout :=
  layout_gie_header v.(gtp_indication_header) ++
  [(1, v.(gtp_indication_indication_daf)); (1, v.(gtp_indication_indication_dtf)); (1, v.(gtp_indication_indication_hi)); (1, v.(gtp_indication_indication_dfi)); (1, v.(gtp_indication_indication_oi)); (1, v.(gtp_indication_indication_isrsi)); (1, v.(gtp_indication_indication_israi)); (1, v.(gtp_indication_indication_sgwci))] ++
  [(1, v.(gtp_indication_indication_sqci)); (1, v.(gtp_indication_indication_uimsi)); (1, v.(gtp_indication_indication_cfsi)); (1, v.(gtp_indication_indication_crsi)); (1, v.(gtp_indication_indication_p)); (1, v.(gtp_indication_indication_pt)); (1, v.(gtp_indication_indication_si)); (1, v.(gtp_indication_indication_msv))] ++
  [(1, v.(gtp_indication_indication_retloc)); (1, v.(gtp_indication_indication_pbic)); (1, v.(gtp_indication_indication_srni)); (1, v.(gtp_indication_indication_s6af)); (1, v.(gtp_indication_indication_s4af)); (1, v.(gtp_indication_indication_mbmdt)); (1, v.(gtp_indication_indication_israu)); (1, v.(gtp_indication_indication_ccrsi))] ++
  [(1, v.(gtp_indication_indication_cprai)); (1, v.(gtp_indication_indication_arrl)); (1, v.(gtp_indication_indication_ppof)); (1, v.(gtp_indication_indication_ppon_ppei)); (1, v.(gtp_indication_indication_ppsi)); (1, v.(gtp_indication_indication_csfbi)); (1, v.(gtp_indication_indication_clii)); (1, v.(gtp_indication_indication_cpsr))] ++
  [(1, v.(gtp_indication_indication_nsi)); (1, v.(gtp_indication_indication_uasi)); (1, v.(gtp_indication_indication_dtci)); (1, v.(gtp_indication_indication_bdwi)); (1, v.(gtp_indication_indication_psci)); (1, v.(gtp_indication_indication_pcri)); (1, v.(gtp_indication_indication_aosi)); (1, v.(gtp_indication_indication_aopi))] ++
  [(1, v.(gtp_indication_indication_roaai)); (1, v.(gtp_indication_indication_epcosi)); (1, v.(gtp_indication_indication_cpopci)); (1, v.(gtp_indication_indication_pmtsmi)); (1, v.(gtp_indication_indication_s11tf)); (1, v.(gtp_indication_indication_pnsi)); (1, v.(gtp_indication_indication_unaccsi)); (1, v.(gtp_indication_indication_wpmsi))] ++
  [(1, v.(gtp_indication_indication_spare2)); (1, v.(gtp_indication_indication_spare3)); (1, v.(gtp_indication_indication_spare4)); (1, v.(gtp_indication_indication_eevrsi)); (1, v.(gtp_indication_indication_ltemui)); (1, v.(gtp_indication_indication_ltempi)); (1, v.(gtp_indication_indication_enbcrsi)); (1, v.(gtp_indication_indication_tspcmi))].
Definition indication_good (v : gtp_indication_ie_t) : Prop :=
  layout_ok (layout_indication v) ∧ v.(gtp_indication_header).(gie_len) = 7.
(** One byte of flags that is present. *)
Ltac read_flags H :=
  lazymatch goal with |- reads ?a (dec_when _ ?m _) ?L ?x => change (reads a m L x) end; repeat read_step H.

Lemma indication_agree v : indication_good v ->
  agree encode_gtp_indication_ie decode_gtp_indication_ie zero_gtp_indication (layout_indication v) v.
Proof.
  intros [Hok Hl]. unfold layout_indication in Hok. apply layout_ok_app in Hok as [Hh Hok]. split.
  - apply encodes_bytes, emits_gie_header. cbn [app]. repeat emit_step.
  - apply decodes_bytes, reads_gie_header; [exact Hh|]. cbv beta zeta. rewrite Hl.
    do 6 (apply layout_ok_app in Hok as [H Hok]; eapply reads_bind; [read_flags H|reflexivity|]; clear H).
    cbv beta iota. lazymatch goal with |- reads _ _ ?L _ => rewrite <- (app_nil_r L) end.
    eapply reads_bind; [read_flags Hok|reflexivity|].
    destruct v. apply reads_ret.
Qed.
