(* ===== verification/GtpIesLocation.v ===== *)
(** * Layouts of the GTPv2 elements with arrays of numbers and with parts

    The fully qualified connection set identifiers and the user location information. *)

From S2P Require Import Prelude EncDecBits Codec CodecSpec Tlv GtpIes GtpIesEncoder GtpIesDecoder GtpIesSpec.
From S2P Require Import GtpIesOptional.

(** ** Connection set identifiers *)

Lemma emits_each arr i n : (i + n <= length arr)%nat ->
  emits 0 (enc_each (map (fun i => put_at arr i 16) (seq i n))) (pair 16 <$> take n (drop i arr)).
Proof.
  revert i; induction n as [|n IH]; intros i Hl; [apply emits_skip|].
  destruct (lookup_lt_is_Some_2 arr i) as [x Hx]; [lia|].
  rewrite (drop_S arr x i Hx). cbn [seq map enc_each take fmap list_fmap].
  assert (emits 0 (put x 16 ⨾ enc_each (map (fun i => put_at arr i 16) (seq (S i) n)))
            ((16, x) :: (pair 16 <$> take n (drop (S i) arr)))) as H
    by (eapply emits_put; [lia|reflexivity|apply IH; lia]).
  intros base e buf w. unfold put_at at 1, enc_seq at 1. rewrite Hx. apply H.
Qed.

Lemma size_pairs l : size (pair 16 <$> l) = 16 * Z.of_nat (length l).
Proof.
  induction l as [|x l IH]; [done|]. rewrite fmap_cons, size_cons, IH by lia. cbn [length]. lia.
Qed.

Lemma reads_each front xs k : layout_ok (pair 16 <$> xs) -> (length xs <= k)%nat ->
  reads 0 (get_each (length xs) (Z.of_nat (length front)) 16 (front ++ repeat 0 k)) (pair 16 <$> xs)
    (front ++ xs ++ repeat 0 (k - length xs)).
Proof.
  revert front k; induction xs as [|x xs IH]; intros front k Hok Hk; cbn [length get_each fmap list_fmap].
  { rewrite Nat.sub_0_r. apply reads_ret. }
  cbn [length] in Hk. destruct k as [|k]; [lia|]. cbn [fmap list_fmap] in Hok. apply Forall_cons_1 in Hok as [Hx Hok].
  eapply reads_get; [lia|exact Hx|reflexivity|]. cbn [repeat]. unfold store.
  rewrite length_app. cbn [length]. zcases; try lia. cbn [andb].
  rewrite Nat2Z.id, insert_app_r_alt, Nat.sub_diag by lia. cbn [insert list_insert].
  specialize (IH (front ++ [x]) k Hok ltac:(lia)). rewrite <- !app_assoc, length_app in IH. cbn [app length] in IH.
  replace (Z.of_nat (length front) + 1) with (Z.of_nat (length front + 1)) by lia. exact IH.
Qed.

Definition csids (v : gtp_fqcsid_ie_t) : list Z :=
  take (Z.to_nat v.(gtp_fqcsid_number_of_csids)) v.(gtp_fqcsid_pdn_csid).
Definition layout_fqcsid (v : gtp_fqcsid_ie_t) : layout :=
  layout_gie_header v.(gtp_fqcsid_header) ++
  [(4, v.(gtp_fqcsid_node_id_type)); (4, v.(gtp_fqcsid_number_of_csids)); (32, v.(gtp_fqcsid_node_address))] ++
  (pair 16 <$> csids v).
(** The array has room for eight identifiers. *)
Definition fqcsid_good (v : gtp_fqcsid_ie_t) : Prop :=
  layout_ok (layout_fqcsid v) ∧ v.(gtp_fqcsid_number_of_csids) <= 8 ∧
  length v.(gtp_fqcsid_pdn_csid) = 8%nat ∧
  drop (Z.to_nat v.(gtp_fqcsid_number_of_csids)) v.(gtp_fqcsid_pdn_csid)
  = repeat 0 (8 - Z.to_nat v.(gtp_fqcsid_number_of_csids)).

Lemma fqcsid_agree v : fqcsid_good v ->
  agree encode_gtp_fqcsid_ie decode_gtp_fqcsid_ie zero_gtp_fqcsid (layout_fqcsid v) v.
Proof.
  intros (Hok & Hn & Hl & Hd). unfold layout_fqcsid in Hok. apply layout_ok_app in Hok as [Hh Hok].
  apply layout_ok_app in Hok as [H Hc]. split.
  - apply encodes_bytes, emits_gie_header. cbn [app]. do 3 emit_step. apply (emits_each _ 0). lia.
  - apply decodes_bytes, reads_gie_header; [exact Hh|]. destruct v as [h ty n addr arr]; unfold csids in *; cbn -[repeat] in *.
    do 3 read_step H. rewrite <- (app_nil_r (pair 16 <$> _)).
    pose proof (reads_each [] _ 8 Hc) as R. rewrite length_take, Nat.min_l in R by lia. cbn [app] in R.
    eapply (reads_bind _ 0); [apply R; lia|rewrite Z.add_0_l, size_pairs; divlia|].
    rewrite <- Hd, take_drop. apply reads_ret.
Qed.

(** More identifiers than the array has room for: the decoder writes behind it. *)
Lemma get_each_overrun k i n arr buf t d :
  0 <= i -> Z.of_nat (length arr) < i + Z.of_nat k -> i <= Z.of_nat (length arr) -> get_each k i n arr buf (t, d) = None.
Proof.
  revert i arr t d; induction k as [|k IH]; intros i arr t d Hi Hk Hl; [lia|]. cbn [get_each].
  unfold mbind, dec_bind. destruct (get n buf (t, d)) as [[x [t' d']]|]; [|done].
  unfold store. zcases; cbn [andb]; try done. apply IH; rewrite ?length_insert; lia.
Qed.

(** ** Parts of an element *)

(** A part that is there when its flag is set. *)
Definition part_layout `{IeCodec T} (flag : Z) (x : T) : layout := if nz flag then ie_layout x else [].
Definition part_good `{IeCodec T} (flag : Z) (x : T) : Prop := flag = 0 -> x = ie_zero.

(** Decoders that count bytes. *)
Definition reads_bytes {A} (m : dec A) (L : layout) (x : A) : Prop :=
  ∀ buf pre post t d, holds buf (pre ++ wbits L ++ post) -> Z.of_nat (length pre) = 8 * t -> 0 <= t ->
    8 * t + size L < 65536 -> m buf (t, d) = Some (x, (t + size L / 8, d)).

Lemma reads_bytes_ret {A} (x : A) : reads_bytes (mret x) [] x.
Proof. intros buf pre post t d _ _ _ _. rewrite size_nil. change (0 / 8) with 0. by rewrite Z.add_0_r. Qed.

Lemma reads_bytes_part {T A} `{IeCodecOk T} (flag : Z) (x : T) (k : T -> dec A) L y :
  size (ie_layout x) mod 8 = 0 -> layout_ok (part_layout flag x) -> part_good flag x -> reads_bytes (k x) L y ->
  reads_bytes (dec_when (nz flag) (dcall_at (ie_decode ie_zero)) ie_zero ≫= k) (part_layout flag x ++ L) y.
Proof.
  unfold part_layout, part_good, nz. intros Hm Hok Hg Hk buf pre post t d Hh Hp Ht Hs.
  destruct (Z.eqb_spec flag 0) as [E|_]; cbn [negb] in *.
  { rewrite (Hg E) in Hk. by apply (Hk buf pre post). }
  rewrite size_app in *. rewrite wbits_app, <- app_assoc in Hh. pose proof (size_nonneg (ie_layout x)). pose proof (size_nonneg L).
  unfold dec_when, dcall_at, mbind, dec_bind.
  rewrite (ie_decodes x ie_zero Hok (drop (Z.to_nat t) buf) (wbits L ++ post)).
  2: { apply (holds_drop _ pre); [done|lia]. } 2: lia.
  cbn [option_bind]. rewrite uwrap_small by divlia.
  rewrite (Hk buf (pre ++ wbits (ie_layout x)) post).
  - do 3 f_equal. divlia.
  - by rewrite <- app_assoc.
  - rewrite length_app. unfold size in *. divlia.
  - divlia.
  - divlia.
Qed.

Lemma places_part `{IeCodecOk T} (flag : Z) (x : T) : size (ie_layout x) mod 8 = 0 -> ie_unit = 8 ->
  places 8 (enc_when (nz flag) (ecall_at (ie_encode x))) (part_layout flag x).
Proof.
  intros Hm Hu. unfold part_layout. destruct (nz flag); cbn [enc_when]; [|apply places_skip; by right].
  apply ecall_at_ok; [done|done|]. rewrite <- Hu. apply ie_encodes.
Qed.

Ltac solve_part_encodes := intros; apply encodes_bytes; repeat emit_step.
Ltac solve_part_decodes :=
  intros v v0 H; destruct v; apply decodes_bytes; cbn in H; repeat read_step H.

Definition layout_cgi_field (v : cgi_field_t) : layout :=
  [(4, v.(cgi_field_cgi_mcc_digit_2)); (4, v.(cgi_field_cgi_mcc_digit_1)); (4, v.(cgi_field_cgi_mnc_digit_3)); (4, v.(cgi_field_cgi_mcc_digit_3)); (4, v.(cgi_field_cgi_mnc_digit_2)); (4, v.(cgi_field_cgi_mnc_digit_1)); (16, v.(cgi_field_cgi_lac)); (16, v.(cgi_field_cgi_ci))].
#[global] Instance cgi_field_codec : IeCodec cgi_field_t :=
  {| ie_encode := encode_cgi_field; ie_decode := decode_cgi_field; ie_zero := zero_cgi_field;
     ie_layout := layout_cgi_field; ie_unit := 8 |}.
#[global] Instance cgi_field_codec_ok : IeCodecOk cgi_field_t.
Proof. split; [solve_part_encodes|solve_part_decodes]. Qed.

Definition layout_sai_field (v : sai_field_t) : layout :=
  [(4, v.(sai_field_sai_mcc_digit_2)); (4, v.(sai_field_sai_mcc_digit_1)); (4, v.(sai_field_sai_mnc_digit_3)); (4, v.(sai_field_sai_mcc_digit_3)); (4, v.(sai_field_sai_mnc_digit_2)); (4, v.(sai_field_sai_mnc_digit_1)); (16, v.(sai_field_sai_lac)); (16, v.(sai_field_sai_sac))].
#[global] Instance sai_field_codec : IeCodec sai_field_t :=
  {| ie_encode := encode_sai_field; ie_decode := decode_sai_field; ie_zero := zero_sai_field;
     ie_layout := layout_sai_field; ie_unit := 8 |}.
#[global] Instance sai_field_codec_ok : IeCodecOk sai_field_t.
Proof. split; [solve_part_encodes|solve_part_decodes]. Qed.

Definition layout_rai_field (v : rai_field_t) : layout :=
  [(4, v.(rai_field_ria_mcc_digit_2)); (4, v.(rai_field_ria_mcc_digit_1)); (4, v.(rai_field_ria_mnc_digit_3)); (4, v.(rai_field_ria_mcc_digit_3)); (4, v.(rai_field_ria_mnc_digit_2)); (4, v.(rai_field_ria_mnc_digit_1)); (16, v.(rai_field_ria_lac)); (16, v.(rai_field_ria_rac))].
#[global] Instance rai_field_codec : IeCodec rai_field_t :=
  {| ie_encode := encode_rai_field; ie_decode := decode_rai_field; ie_zero := zero_rai_field;
     ie_layout := layout_rai_field; ie_unit := 8 |}.
#[global] Instance rai_field_codec_ok : IeCodecOk rai_field_t.
Proof. split; [solve_part_encodes|solve_part_decodes]. Qed.

Definition layout_tai_field (v : tai_field_t) : layout :=
  [(4, v.(tai_field_tai_mcc_digit_2)); (4, v.(tai_field_tai_mcc_digit_1)); (4, v.(tai_field_tai_mnc_digit_3)); (4, v.(tai_field_tai_mcc_digit_3)); (4, v.(tai_field_tai_mnc_digit_2)); (4, v.(tai_field_tai_mnc_digit_1)); (16, v.(tai_field_tai_tac))].
#[global] Instance tai_field_codec : IeCodec tai_field_t :=
  {| ie_encode := encode_tai_field; ie_decode := decode_tai_field; ie_zero := zero_tai_field;
     ie_layout := layout_tai_field; ie_unit := 8 |}.
#[global] Instance tai_field_codec_ok : IeCodecOk tai_field_t.
Proof. split; [solve_part_encodes|solve_part_decodes]. Qed.

Definition layout_ecgi_field (v : ecgi_field_t) : layout :=
  [(4, v.(ecgi_field_ecgi_mcc_digit_2)); (4, v.(ecgi_field_ecgi_mcc_digit_1)); (4, v.(ecgi_field_ecgi_mnc_digit_3)); (4, v.(ecgi_field_ecgi_mcc_digit_3)); (4, v.(ecgi_field_ecgi_mnc_digit_2)); (4, v.(ecgi_field_ecgi_mnc_digit_1)); (4, v.(ecgi_field_ecgi_spare)); (28, v.(ecgi_field_eci))].
#[global] Instance ecgi_field_codec : IeCodec ecgi_field_t :=
  {| ie_encode := encode_ecgi_field; ie_decode := decode_ecgi_field; ie_zero := zero_ecgi_field;
     ie_layout := layout_ecgi_field; ie_unit := 8 |}.
#[global] Instance ecgi_field_codec_ok : IeCodecOk ecgi_field_t.
Proof. split; [solve_part_encodes|solve_part_decodes]. Qed.

Definition layout_lai_field (v : lai_field_t) : layout :=
  [(4, v.(lai_field_lai_mcc_digit_2)); (4, v.(lai_field_lai_mcc_digit_1)); (4, v.(lai_field_lai_mnc_digit_3)); (4, v.(lai_field_lai_mcc_digit_3)); (4, v.(lai_field_lai_mnc_digit_2)); (4, v.(lai_field_lai_mnc_digit_1)); (16, v.(lai_field_lai_lac))].
#[global] Instance lai_field_codec : IeCodec lai_field_t :=
  {| ie_encode := encode_lai_field; ie_decode := decode_lai_field; ie_zero := zero_lai_field;
     ie_layout := layout_lai_field; ie_unit := 8 |}.
#[global] Instance lai_field_codec_ok : IeCodecOk lai_field_t.
Proof. split; [solve_part_encodes|solve_part_decodes]. Qed.

Definition layout_macro_enb_id_fld (v : macro_enb_id_fld_t) : layout :=
  [(4, v.(macro_enb_id_fld_menbid_mcc_digit_2)); (4, v.(macro_enb_id_fld_menbid_mcc_digit_1)); (4, v.(macro_enb_id_fld_menbid_mnc_digit_3)); (4, v.(macro_enb_id_fld_menbid_mcc_digit_3)); (4, v.(macro_enb_id_fld_menbid_mnc_digit_2)); (4, v.(macro_enb_id_fld_menbid_mnc_digit_1)); (4, v.(macro_enb_id_fld_menbid_spare)); (4, v.(macro_enb_id_fld_menbid_macro_enodeb_id)); (16, v.(macro_enb_id_fld_menbid_macro_enb_id2))].
#[global] Instance macro_enb_id_fld_codec : IeCodec macro_enb_id_fld_t :=
  {| ie_encode := encode_macro_enb_id_fld; ie_decode := decode_macro_enb_id_fld; ie_zero := zero_macro_enb_id_fld;
     ie_layout := layout_macro_enb_id_fld; ie_unit := 8 |}.
#[global] Instance macro_enb_id_fld_codec_ok : IeCodecOk macro_enb_id_fld_t.
Proof. split; [solve_part_encodes|solve_part_decodes]. Qed.

Definition layout_extnded_macro_enb_id_fld (v : extnded_macro_enb_id_fld_t) : layout :=
  [(4, v.(extnded_macro_enb_id_fld_emenbid_mcc_digit_2)); (4, v.(extnded_macro_enb_id_fld_emenbid_mcc_digit_1)); (4, v.(extnded_macro_enb_id_fld_emenbid_mnc_digit_3)); (4, v.(extnded_macro_enb_id_fld_emenbid_mcc_digit_3)); (4, v.(extnded_macro_enb_id_fld_emenbid_mnc_digit_2)); (4, v.(extnded_macro_enb_id_fld_emenbid_mnc_digit_1)); (1, v.(extnded_macro_enb_id_fld_emenbid_smenb)); (2, v.(extnded_macro_enb_id_fld_emenbid_spare)); (5, v.(extnded_macro_enb_id_fld_emenbid_extnded_macro_enb_id)); (16, v.(extnded_macro_enb_id_fld_emenbid_extnded_macro_enb_id2))].
#[global] Instance extnded_macro_enb_id_fld_codec : IeCodec extnded_macro_enb_id_fld_t :=
  {| ie_encode := encode_extnded_macro_enb_id_fld; ie_decode := decode_extnded_macro_enb_id_fld; ie_zero := zero_extnded_macro_enb_id_fld;
     ie_layout := layout_extnded_macro_enb_id_fld; ie_unit := 8 |}.
#[global] Instance extnded_macro_enb_id_fld_codec_ok : IeCodecOk extnded_macro_enb_id_fld_t.
Proof. split; [solve_part_encodes|solve_part_decodes]. Qed.

(** ** User location information

    A flag byte, then the parts whose flags are set.  Both sides count bits up to the
    flags and bytes behind them. *)

Definition layout_uli_flags (v : gtp_user_loc_info_ie_t) : layout :=
  layout_gie_header v.(gtp_user_loc_info_header) ++
  [(1, v.(gtp_user_loc_info_extnded_macro_enb_id)); (1, v.(gtp_user_loc_info_macro_enodeb_id)); (1, v.(gtp_user_loc_info_lai)); (1, v.(gtp_user_loc_info_ecgi)); (1, v.(gtp_user_loc_info_tai)); (1, v.(gtp_user_loc_info_rai)); (1, v.(gtp_user_loc_info_sai)); (1, v.(gtp_user_loc_info_cgi))].
Definition layout_uli_parts (v : gtp_user_loc_info_ie_t) : layout :=
  part_layout v.(gtp_user_loc_info_cgi) v.(gtp_user_loc_info_cgi2) ++
  part_layout v.(gtp_user_loc_info_sai) v.(gtp_user_loc_info_sai2) ++
  part_layout v.(gtp_user_loc_info_rai) v.(gtp_user_loc_info_rai2) ++
  part_layout v.(gtp_user_loc_info_tai) v.(gtp_user_loc_info_tai2) ++
  part_layout v.(gtp_user_loc_info_ecgi) v.(gtp_user_loc_info_ecgi2) ++
  part_layout v.(gtp_user_loc_info_lai) v.(gtp_user_loc_info_lai2) ++
  part_layout v.(gtp_user_loc_info_macro_enodeb_id) v.(gtp_user_loc_info_macro_enodeb_id2) ++
  part_layout v.(gtp_user_loc_info_extnded_macro_enb_id) v.(gtp_user_loc_info_extended_macro_enodeb_id2).
Definition layout_uli (v : gtp_user_loc_info_ie_t) : layout := layout_uli_flags v ++ layout_uli_parts v.
Definition uli_good (v : gtp_user_loc_info_ie_t) : Prop :=
  layout_ok (layout_uli v) ∧
  part_good v.(gtp_user_loc_info_cgi) v.(gtp_user_loc_info_cgi2) ∧
  part_good v.(gtp_user_loc_info_sai) v.(gtp_user_loc_info_sai2) ∧
  part_good v.(gtp_user_loc_info_rai) v.(gtp_user_loc_info_rai2) ∧
  part_good v.(gtp_user_loc_info_tai) v.(gtp_user_loc_info_tai2) ∧
  part_good v.(gtp_user_loc_info_ecgi) v.(gtp_user_loc_info_ecgi2) ∧
  part_good v.(gtp_user_loc_info_lai) v.(gtp_user_loc_info_lai2) ∧
  part_good v.(gtp_user_loc_info_macro_enodeb_id) v.(gtp_user_loc_info_macro_enodeb_id2) ∧
  part_good v.(gtp_user_loc_info_extnded_macro_enb_id) v.(gtp_user_loc_info_extended_macro_enodeb_id2).

(** From a bit position, over the change of the counter, to a byte position. *)
Definition emits_switch (a : Z) (m : enc) (L : layout) : Prop :=
  ∀ base e buf w, 0 <= base -> 0 <= e -> e mod 8 = a -> holds buf w ->
    8 * base + e = Z.of_nat (length w) ->
    Z.of_nat (length w) + size L <= 8 * Z.of_nat (length buf) -> e + size L < 65536 ->
    ∃ buf', m base (e, buf) = Some ((e + size L) / 8, buf') ∧ holds buf' (w ++ wbits L) ∧
            length buf' = length buf.

Lemma emits_switch_seq a a' m1 m2 L1 L2 :
  emits a m1 L1 -> a' = (a + size L1) mod 8 -> emits_switch a' m2 L2 -> emits_switch a (m1 ⨾ m2) (L1 ++ L2).
Proof.
  intros H1 -> H2 base e buf w Hb He Ha Hh Hw Hl Hs. rewrite size_app in *.
  pose proof (size_nonneg L1). pose proof (size_nonneg L2).
  destruct (H1 base e buf w) as (b1 & E1 & Hh1 & L1'); auto; try lia.
  destruct (H2 base (e + size L1) b1 (w ++ wbits L1)) as (b2 & E2 & Hh2 & L2'); auto; try lia.
  { rewrite <- Ha. by rewrite Zplus_mod_idemp_l. }
  { rewrite length_app. unfold size. lia. } { rewrite length_app, L1'. unfold size in *. lia. }
  exists b2. unfold enc_seq. obind E1. rewrite E2, wbits_app, app_assoc.
  split; [do 3 f_equal; lia|]. split; [done|congruence].
Qed.

Lemma emits_switch_put a a' v n m L : 1 <= n <= 64 -> a' = (a + n) mod 8 -> emits_switch a' m L ->
  emits_switch a (put v n ⨾ m) ((n, v) :: L).
Proof.
  intros Hn Ha H. change ((n, v) :: L) with ([(n, v)] ++ L).
  eapply emits_switch_seq; [by apply emits_put1| |exact H].
  rewrite size_cons, size_nil, Z.add_0_r by lia. done.
Qed.

Lemma emits_switch_here m L : places 8 m L -> emits_switch 0 (enc_to_bytes ⨾ m) L.
Proof.
  intros [Hm H] base e buf w Hb He Ha Hh Hw Hl Hs.
  destruct (H base (e / 8) buf w) as (b & E & ?); auto; try divlia.
  exists b. unfold enc_seq, enc_to_bytes. cbn [mbind option_bind]. rewrite E. split; [do 2 f_equal; divlia|done].
Qed.

Lemma encodes_switch m L : emits_switch 0 m L -> encodes (enc_bits m) L (size L / 8).
Proof. intros H buf base w Hb Hh Hw Hl Hs. destruct (H base 0 buf w) as (b & E & ?); auto; try lia. by exists b. Qed.

Definition reads_switch {A} (a : Z) (m : dec A) (L : layout) (x : A) : Prop :=
  ∀ buf pre post t d, holds buf (pre ++ wbits L ++ post) -> Z.of_nat (length pre) = t ->
    t mod 8 = a -> t + size L < 65536 -> ∃ d', m buf (t, d) = Some (x, ((t + size L) / 8, d')).

Lemma reads_switch_bind {A B} a a' (m : dec A) (k : A -> dec B) L1 L2 x y :
  reads a m L1 x -> a' = (a + size L1) mod 8 -> reads_switch a' (k x) L2 y -> reads_switch a (m ≫= k) (L1 ++ L2) y.
Proof.
  intros H1 -> H2 buf pre post t d Hh Ht Ha Hs. rewrite size_app in *.
  pose proof (size_nonneg L1). pose proof (size_nonneg L2). rewrite wbits_app, <- app_assoc in Hh.
  destruct (H1 buf pre (wbits L2 ++ post) t d) as (d1 & E1); auto; [lia|].
  destruct (H2 buf (pre ++ wbits L1) post (t + size L1) d1) as (d2 & E2); try lia.
  { by rewrite <- app_assoc. } { rewrite length_app. unfold size. lia. }
  { rewrite <- Ha. by rewrite Zplus_mod_idemp_l. }
  exists d2. unfold mbind, dec_bind. rewrite E1, E2. do 4 f_equal; lia.
Qed.

Lemma reads_switch_get {A} a a' n v (k : Z -> dec A) L y :
  1 <= n <= 64 -> 0 <= v < 2 ^ n -> a' = (a + n) mod 8 -> reads_switch a' (k v) L y ->
  reads_switch a (get n ≫= k) ((n, v) :: L) y.
Proof.
  intros Hn Hv -> H. change ((n, v) :: L) with ([(n, v)] ++ L).
  eapply reads_switch_bind; [by apply reads_get1| |exact H].
  rewrite size_cons, size_nil, Z.add_0_r by lia. done.
Qed.

Lemma reads_switch_here {A} (k : unit -> dec A) L x : size L mod 8 = 0 -> reads_bytes (k tt) L x ->
  reads_switch 0 (dec_to_bytes ≫= k) L x.
Proof.
  intros Hm H buf pre post t d Hh Ht Ha Hs. exists d. unfold mbind, dec_bind, dec_to_bytes.
  rewrite (H buf pre post); auto; try divlia. do 3 f_equal. divlia.
Qed.

Lemma decodes_switch {A} (m : dec A) L x : reads_switch 0 m L x -> decodes (dec_bits m) L (size L / 8) x.
Proof.
  intros H buf post Hh Hs. destruct (H buf [] post 0 0) as (d & E); auto. unfold dec_bits. by obind E.
Qed.

Lemma part_layout_size `{IeCodec T} flag (x : T) : size (ie_layout x) mod 8 = 0 -> size (part_layout flag x) mod 8 = 0.
Proof. unfold part_layout. by destruct (nz flag). Qed.

Lemma layout_uli_parts_size v : size (layout_uli_parts v) mod 8 = 0.
Proof.
  assert (∀ a b, size a mod 8 = 0 -> size b mod 8 = 0 -> size (a ++ b) mod 8 = 0) as Happ
    by (intros a b Ha Hb; rewrite size_app; divlia).
  unfold layout_uli_parts. repeat apply Happ; apply part_layout_size; reflexivity.
Qed.

Ltac place_part :=
  lazymatch goal with |- places _ _ (@part_layout ?T ?C ?f ?x) => apply (@places_part T C _ f x); reflexivity end.
Ltac read_part :=
  lazymatch goal with |- reads_bytes _ (@part_layout ?T ?C ?f ?x ++ _) _ =>
    eapply (@reads_bytes_part T _ C _ f x); [reflexivity|assumption|assumption|] end.

Lemma emits_gie_header1 h : emits 0 (ecall (encode_ie_header_t h)) (layout_gie_header h).
Proof.
  intros base e buf w Hb He Ha Hh Hw Hl Hs. assert (size (layout_gie_header h) = 32) as Hz by done. rewrite Hz in *.
  destruct (encode_gie_header_encodes h buf (base + e / 8) w) as (b & E & ?); rewrite ?Hz; auto; [divlia..|].
  exists b. unfold ecall. obind E. rewrite uwrap_small by lia. done.
Qed.

Lemma uli_encodes v : encodes (encode_gtp_user_loc_info_ie v) (layout_uli v) (size (layout_uli v) / 8).
Proof.
  apply encodes_switch. unfold layout_uli, layout_uli_flags. rewrite <- app_assoc.
  eapply emits_switch_seq; [|reflexivity|].
  { apply emits_gie_header1. }
  cbn [app]. do 8 (eapply emits_switch_put; [lia|reflexivity|]).
  apply emits_switch_here. unfold layout_uli_parts.
  do 7 (apply places_seq; [by right|place_part|]). place_part.
Qed.

Lemma uli_decodes v : uli_good v ->
  decodes (decode_gtp_user_loc_info_ie zero_gtp_user_loc_info) (layout_uli v) (size (layout_uli v) / 8) v.
Proof.
  intros (Hok & Hg). apply decodes_switch. pose proof (layout_uli_parts_size v) as Hm.
  unfold layout_uli, layout_uli_flags in *. rewrite <- app_assoc in *.
  apply layout_ok_app in Hok as [Hh Hok]. apply layout_ok_app in Hok as [Hf Hok].
  eapply reads_switch_bind; [|reflexivity|].
  { apply reads_unbind, reads_gie_header; [exact Hh|apply reads_ret]. }
  cbn [app]. do 8 (apply Forall_cons_1 in Hf as [?Hv Hf]; eapply reads_switch_get; [lia|eassumption|reflexivity|]).
  apply reads_switch_here; [done|]. unfold layout_uli_parts in *.
  destruct Hg as (G1 & G2 & G3 & G4 & G5 & G6 & G7 & G8).
  do 7 (apply layout_ok_app in Hok as [?Hp Hok]; read_part).
  lazymatch goal with |- reads_bytes _ ?L _ => rewrite <- (app_nil_r L) end. read_part.
  destruct v. apply reads_bytes_ret.
Qed.

Lemma uli_agree v : uli_good v ->
  agree encode_gtp_user_loc_info_ie decode_gtp_user_loc_info_ie zero_gtp_user_loc_info (layout_uli v) v.
Proof. split; [apply uli_encodes|by apply uli_decodes]. Qed.
