(* ===== verification/GtpMsgsEncoder.v ===== *)
(** * Encoders of the GTPv2 messages and grouped elements
    (src/libgtpv2c/src/gtp_messages_encoder.c)

    An encoder calls the encoders of the header and of the elements that are present at
    [buf + encoded], and adds what they return to [encoded].  A group counts the bits of
    its header and divides before it goes on.  An element is present when the length in
    its header is not 0. *)

From S2P Require Import Prelude EncDecBits Codec GtpIes GtpIesEncoder GtpMsgs.

Definition encode_detach_ack (value : detach_ack_t) : ie_encoder :=
  enc_bits (
    ecall_at (encode_gtpv2c_header_t value.(detach_ack_header)) ⨾
    enc_when (nz value.(detach_ack_cause).(gtp_cause_header).(gie_len)) (ecall_at (encode_gtp_cause_ie value.(detach_ack_cause))) ⨾
    enc_when (nz value.(detach_ack_recovery).(gtp_recovery_header).(gie_len)) (ecall_at (encode_gtp_recovery_ie value.(detach_ack_recovery))) ⨾
    enc_when (nz value.(detach_ack_priv_ext).(gtp_priv_ext_header).(gie_len)) (ecall_at (encode_gtp_priv_ext_ie value.(detach_ack_priv_ext)))).

Definition encode_dnlnk_data_notif_ack (value : dnlnk_data_notif_ack_t) : ie_encoder :=
  enc_bits (
    ecall_at (encode_gtpv2c_header_t value.(dnlnk_data_notif_ack_header)) ⨾
    enc_when (nz value.(dnlnk_data_notif_ack_cause).(gtp_cause_header).(gie_len)) (ecall_at (encode_gtp_cause_ie value.(dnlnk_data_notif_ack_cause))) ⨾
    enc_when (nz value.(dnlnk_data_notif_ack_data_notif_delay).(gtp_delay_value_header).(gie_len)) (ecall_at (encode_gtp_delay_value_ie value.(dnlnk_data_notif_ack_data_notif_delay))) ⨾
    enc_when (nz value.(dnlnk_data_notif_ack_recovery).(gtp_recovery_header).(gie_len)) (ecall_at (encode_gtp_recovery_ie value.(dnlnk_data_notif_ack_recovery))) ⨾
    enc_when (nz value.(dnlnk_data_notif_ack_dl_low_priority_traffic_thrtlng).(gtp_throttling_header).(gie_len)) (ecall_at (encode_gtp_throttling_ie value.(dnlnk_data_notif_ack_dl_low_priority_traffic_thrtlng))) ⨾
    enc_when (nz value.(dnlnk_data_notif_ack_imsi).(gtp_imsi_header).(gie_len)) (ecall_at (encode_gtp_imsi_ie value.(dnlnk_data_notif_ack_imsi))) ⨾
    enc_when (nz value.(dnlnk_data_notif_ack_dl_buffering_dur).(gtp_epc_timer_header).(gie_len)) (ecall_at (encode_gtp_epc_timer_ie value.(dnlnk_data_notif_ack_dl_buffering_dur))) ⨾
    enc_when (nz value.(dnlnk_data_notif_ack_dl_buffering_suggested_pckt_cnt).(gtp_integer_number_header).(gie_len)) (ecall_at (encode_gtp_integer_number_ie value.(dnlnk_data_notif_ack_dl_buffering_suggested_pckt_cnt))) ⨾
    enc_when (nz value.(dnlnk_data_notif_ack_priv_ext).(gtp_priv_ext_header).(gie_len)) (ecall_at (encode_gtp_priv_ext_ie value.(dnlnk_data_notif_ack_priv_ext)))).

Definition encode_reloc_cncl_rsp (value : reloc_cncl_rsp_t) : ie_encoder :=
  enc_bits (
    ecall_at (encode_gtpv2c_header_t value.(reloc_cncl_rsp_header)) ⨾
    enc_when (nz value.(reloc_cncl_rsp_cause).(gtp_cause_header).(gie_len)) (ecall_at (encode_gtp_cause_ie value.(reloc_cncl_rsp_cause))) ⨾
    enc_when (nz value.(reloc_cncl_rsp_priv_ext).(gtp_priv_ext_header).(gie_len)) (ecall_at (encode_gtp_priv_ext_ie value.(reloc_cncl_rsp_priv_ext)))).

Definition encode_bearer_rsrc_cmd (value : bearer_rsrc_cmd_t) : ie_encoder :=
  enc_bits (
    ecall_at (encode_gtpv2c_header_t value.(bearer_rsrc_cmd_header)) ⨾
    enc_when (nz value.(bearer_rsrc_cmd_lbi).(gtp_eps_bearer_id_header).(gie_len)) (ecall_at (encode_gtp_eps_bearer_id_ie value.(bearer_rsrc_cmd_lbi))) ⨾
    enc_when (nz value.(bearer_rsrc_cmd_pti).(gtp_proc_trans_id_header).(gie_len)) (ecall_at (encode_gtp_proc_trans_id_ie value.(bearer_rsrc_cmd_pti))) ⨾
    enc_when (nz value.(bearer_rsrc_cmd_flow_qos).(gtp_flow_qlty_of_svc_header).(gie_len)) (ecall_at (encode_gtp_flow_qlty_of_svc_ie value.(bearer_rsrc_cmd_flow_qos))) ⨾
    enc_when (nz value.(bearer_rsrc_cmd_tad).(gtp_traffic_agg_desc_header).(gie_len)) (ecall_at (encode_gtp_traffic_agg_desc_ie value.(bearer_rsrc_cmd_tad))) ⨾
    enc_when (nz value.(bearer_rsrc_cmd_rat_type).(gtp_rat_type_header).(gie_len)) (ecall_at (encode_gtp_rat_type_ie value.(bearer_rsrc_cmd_rat_type))) ⨾
    enc_when (nz value.(bearer_rsrc_cmd_serving_network).(gtp_serving_network_header).(gie_len)) (ecall_at (encode_gtp_serving_network_ie value.(bearer_rsrc_cmd_serving_network))) ⨾
    enc_when (nz value.(bearer_rsrc_cmd_uli).(gtp_user_loc_info_header).(gie_len)) (ecall_at (encode_gtp_user_loc_info_ie value.(bearer_rsrc_cmd_uli))) ⨾
    enc_when (nz value.(bearer_rsrc_cmd_eps_bearer_id).(gtp_eps_bearer_id_header).(gie_len)) (ecall_at (encode_gtp_eps_bearer_id_ie value.(bearer_rsrc_cmd_eps_bearer_id))) ⨾
    enc_when (nz value.(bearer_rsrc_cmd_indctn_flgs).(gtp_indication_header).(gie_len)) (ecall_at (encode_gtp_indication_ie value.(bearer_rsrc_cmd_indctn_flgs))) ⨾
    enc_when (nz value.(bearer_rsrc_cmd_s4_u_sgsn_fteid).(gtp_fully_qual_tunn_endpt_idnt_header).(gie_len)) (ecall_at (encode_gtp_fully_qual_tunn_endpt_idnt_ie value.(bearer_rsrc_cmd_s4_u_sgsn_fteid))) ⨾
    enc_when (nz value.(bearer_rsrc_cmd_s12_rnc_fteid).(gtp_fully_qual_tunn_endpt_idnt_header).(gie_len)) (ecall_at (encode_gtp_fully_qual_tunn_endpt_idnt_ie value.(bearer_rsrc_cmd_s12_rnc_fteid))) ⨾
    enc_when (nz value.(bearer_rsrc_cmd_pco).(gtp_prot_cfg_opts_header).(gie_len)) (ecall_at (encode_gtp_prot_cfg_opts_ie value.(bearer_rsrc_cmd_pco))) ⨾
    enc_when (nz value.(bearer_rsrc_cmd_sgnllng_priority_indctn).(gtp_sgnllng_priority_indctn_header).(gie_len)) (ecall_at (encode_gtp_sgnllng_priority_indctn_ie value.(bearer_rsrc_cmd_sgnllng_priority_indctn))) ⨾
    enc_when (nz value.(bearer_rsrc_cmd_mmes4_sgsns_ovrld_ctl_info).(gtp_ovrld_ctl_info_header).(gie_len)) (ecall_at (encode_gtp_ovrld_ctl_info_ie value.(bearer_rsrc_cmd_mmes4_sgsns_ovrld_ctl_info))) ⨾
    enc_when (nz value.(bearer_rsrc_cmd_sgws_ovrld_ctl_info).(gtp_ovrld_ctl_info_header).(gie_len)) (ecall_at (encode_gtp_ovrld_ctl_info_ie value.(bearer_rsrc_cmd_sgws_ovrld_ctl_info))) ⨾
    enc_when (nz value.(bearer_rsrc_cmd_nbifom_cntnr).(gtp_full_qual_cntnr_header).(gie_len)) (ecall_at (encode_gtp_full_qual_cntnr_ie value.(bearer_rsrc_cmd_nbifom_cntnr))) ⨾
    enc_when (nz value.(bearer_rsrc_cmd_epco).(gtp_extnded_prot_cfg_opts_header).(gie_len)) (ecall_at (encode_gtp_extnded_prot_cfg_opts_ie value.(bearer_rsrc_cmd_epco))) ⨾
    enc_when (nz value.(bearer_rsrc_cmd_sender_fteid_ctl_plane).(gtp_fully_qual_tunn_endpt_idnt_header).(gie_len)) (ecall_at (encode_gtp_fully_qual_tunn_endpt_idnt_ie value.(bearer_rsrc_cmd_sender_fteid_ctl_plane))) ⨾
    enc_when (nz value.(bearer_rsrc_cmd_priv_ext).(gtp_priv_ext_header).(gie_len)) (ecall_at (encode_gtp_priv_ext_ie value.(bearer_rsrc_cmd_priv_ext)))).

Definition encode_fwd_reloc_cmplt_ack (value : fwd_reloc_cmplt_ack_t) : ie_encoder :=
  enc_bits (
    ecall_at (encode_gtpv2c_header_t value.(fwd_reloc_cmplt_ack_header)) ⨾
    enc_when (nz value.(fwd_reloc_cmplt_ack_cause).(gtp_cause_header).(gie_len)) (ecall_at (encode_gtp_cause_ie value.(fwd_reloc_cmplt_ack_cause))) ⨾
    enc_when (nz value.(fwd_reloc_cmplt_ack_recovery).(gtp_recovery_header).(gie_len)) (ecall_at (encode_gtp_recovery_ie value.(fwd_reloc_cmplt_ack_recovery))) ⨾
    enc_when (nz value.(fwd_reloc_cmplt_ack_secdry_rat_usage_data_rpt).(gtp_secdry_rat_usage_data_rpt_header).(gie_len)) (ecall_at (encode_gtp_secdry_rat_usage_data_rpt_ie value.(fwd_reloc_cmplt_ack_secdry_rat_usage_data_rpt))) ⨾
    enc_when (nz value.(fwd_reloc_cmplt_ack_priv_ext).(gtp_priv_ext_header).(gie_len)) (ecall_at (encode_gtp_priv_ext_ie value.(fwd_reloc_cmplt_ack_priv_ext)))).

Definition encode_isr_status_indctn (value : isr_status_indctn_t) : ie_encoder :=
  enc_bits (
    ecall_at (encode_gtpv2c_header_t value.(isr_status_indctn_header)) ⨾
    enc_when (nz value.(isr_status_indctn_act_indctn).(gtp_act_indctn_header).(gie_len)) (ecall_at (encode_gtp_act_indctn_ie value.(isr_status_indctn_act_indctn))) ⨾
    enc_when (nz value.(isr_status_indctn_priv_ext).(gtp_priv_ext_header).(gie_len)) (ecall_at (encode_gtp_priv_ext_ie value.(isr_status_indctn_priv_ext)))).

Definition encode_gtp_ctxt_acknowledge__bearer_ctxt_ie (value : gtp_ctxt_acknowledge__bearer_ctxt_ie_t) : ie_encoder :=
  enc_bits (
    ecall (encode_ie_header_t value.(gtp_ctxt_acknowledge__bearer_ctxt_header)) ⨾
    enc_to_bytes ⨾
    enc_when (nz value.(gtp_ctxt_acknowledge__bearer_ctxt_eps_bearer_id).(gtp_eps_bearer_id_header).(gie_len)) (ecall_at (encode_gtp_eps_bearer_id_ie value.(gtp_ctxt_acknowledge__bearer_ctxt_eps_bearer_id))) ⨾
    enc_when (nz value.(gtp_ctxt_acknowledge__bearer_ctxt_fwdng_fteid).(gtp_fully_qual_tunn_endpt_idnt_header).(gie_len)) (ecall_at (encode_gtp_fully_qual_tunn_endpt_idnt_ie value.(gtp_ctxt_acknowledge__bearer_ctxt_fwdng_fteid)))).

Definition encode_gtp_del_bearer_request__overload_ctl_info_ie (value : gtp_del_bearer_request__overload_ctl_info_ie_t) : ie_encoder :=
  enc_bits (
    ecall (encode_ie_header_t value.(gtp_del_bearer_request__overload_ctl_info_header)) ⨾
    enc_to_bytes ⨾
    enc_when (nz value.(gtp_del_bearer_request__overload_ctl_info_ovrld_ctl_seqn_nbr).(gtp_sequence_number_header).(gie_len)) (ecall_at (encode_gtp_sequence_number_ie value.(gtp_del_bearer_request__overload_ctl_info_ovrld_ctl_seqn_nbr))) ⨾
    enc_when (nz value.(gtp_del_bearer_request__overload_ctl_info_ovrld_reduction_metric).(gtp_metric_header).(gie_len)) (ecall_at (encode_gtp_metric_ie value.(gtp_del_bearer_request__overload_ctl_info_ovrld_reduction_metric))) ⨾
    enc_when (nz value.(gtp_del_bearer_request__overload_ctl_info_prd_of_validity).(gtp_epc_timer_header).(gie_len)) (ecall_at (encode_gtp_epc_timer_ie value.(gtp_del_bearer_request__overload_ctl_info_prd_of_validity))) ⨾
    enc_when (nz value.(gtp_del_bearer_request__overload_ctl_info_apn).(gtp_acc_pt_name_header).(gie_len)) (ecall_at (encode_gtp_acc_pt_name_ie value.(gtp_del_bearer_request__overload_ctl_info_apn)))).

Definition encode_gtp_create_bearer_response__overload_ctl_info_ie (value : gtp_create_bearer_response__overload_ctl_info_ie_t) : ie_encoder :=
  enc_bits (
    ecall (encode_ie_header_t value.(gtp_create_bearer_response__overload_ctl_info_header)) ⨾
    enc_to_bytes ⨾
    enc_when (nz value.(gtp_create_bearer_response__overload_ctl_info_ovrld_ctl_seqn_nbr).(gtp_sequence_number_header).(gie_len)) (ecall_at (encode_gtp_sequence_number_ie value.(gtp_create_bearer_response__overload_ctl_info_ovrld_ctl_seqn_nbr))) ⨾
    enc_when (nz value.(gtp_create_bearer_response__overload_ctl_info_ovrld_reduction_metric).(gtp_metric_header).(gie_len)) (ecall_at (encode_gtp_metric_ie value.(gtp_create_bearer_response__overload_ctl_info_ovrld_reduction_metric))) ⨾
    enc_when (nz value.(gtp_create_bearer_response__overload_ctl_info_prd_of_validity).(gtp_epc_timer_header).(gie_len)) (ecall_at (encode_gtp_epc_timer_ie value.(gtp_create_bearer_response__overload_ctl_info_prd_of_validity)))).

Definition encode_gtp_mod_acc_bearers_request__bearer_ctxt_to_be_modified_ie (value : gtp_mod_acc_bearers_request__bearer_ctxt_to_be_modified_ie_t) : ie_encoder :=
  enc_bits (
    ecall (encode_ie_header_t value.(gtp_mod_acc_bearers_request__bearer_ctxt_to_be_modified_header)) ⨾
    enc_to_bytes ⨾
    enc_when (nz value.(gtp_mod_acc_bearers_request__bearer_ctxt_to_be_modified_eps_bearer_id).(gtp_eps_bearer_id_header).(gie_len)) (ecall_at (encode_gtp_eps_bearer_id_ie value.(gtp_mod_acc_bearers_request__bearer_ctxt_to_be_modified_eps_bearer_id))) ⨾
    enc_when (nz value.(gtp_mod_acc_bearers_request__bearer_ctxt_to_be_modified_s1u_enb_fteid).(gtp_fully_qual_tunn_endpt_idnt_header).(gie_len)) (ecall_at (encode_gtp_fully_qual_tunn_endpt_idnt_ie value.(gtp_mod_acc_bearers_request__bearer_ctxt_to_be_modified_s1u_enb_fteid))) ⨾
    enc_when (nz value.(gtp_mod_acc_bearers_request__bearer_ctxt_to_be_modified_s11_u_mme_fteid).(gtp_fully_qual_tunn_endpt_idnt_header).(gie_len)) (ecall_at (encode_gtp_fully_qual_tunn_endpt_idnt_ie value.(gtp_mod_acc_bearers_request__bearer_ctxt_to_be_modified_s11_u_mme_fteid)))).

Definition encode_ran_info_rly (value : ran_info_rly_t) : ie_encoder :=
  enc_bits (
    ecall_at (encode_gtpv2c_header_t value.(ran_info_rly_header)) ⨾
    enc_when (nz value.(ran_info_rly_bss_container).(gtp_full_qual_cntnr_header).(gie_len)) (ecall_at (encode_gtp_full_qual_cntnr_ie value.(ran_info_rly_bss_container))) ⨾
    enc_when (nz value.(ran_info_rly_rim_rtng_addr).(gtp_trgt_id_header).(gie_len)) (ecall_at (encode_gtp_trgt_id_ie value.(ran_info_rly_rim_rtng_addr))) ⨾
    enc_when (nz value.(ran_info_rly_priv_ext).(gtp_priv_ext_header).(gie_len)) (ecall_at (encode_gtp_priv_ext_ie value.(ran_info_rly_priv_ext)))).

Definition encode_ue_reg_qry_rsp (value : ue_reg_qry_rsp_t) : ie_encoder :=
  enc_bits (
    ecall_at (encode_gtpv2c_header_t value.(ue_reg_qry_rsp_header)) ⨾
    enc_when (nz value.(ue_reg_qry_rsp_cause).(gtp_cause_header).(gie_len)) (ecall_at (encode_gtp_cause_ie value.(ue_reg_qry_rsp_cause))) ⨾
    enc_when (nz value.(ue_reg_qry_rsp_imsi).(gtp_imsi_header).(gie_len)) (ecall_at (encode_gtp_imsi_ie value.(ue_reg_qry_rsp_imsi))) ⨾
    enc_when (nz value.(ue_reg_qry_rsp_selected_core_ntwk_oper_idnt).(gtp_plmn_id_header).(gie_len)) (ecall_at (encode_gtp_plmn_id_ie value.(ue_reg_qry_rsp_selected_core_ntwk_oper_idnt))) ⨾
    enc_when (nz value.(ue_reg_qry_rsp_priv_ext).(gtp_priv_ext_header).(gie_len)) (ecall_at (encode_gtp_priv_ext_ie value.(ue_reg_qry_rsp_priv_ext)))).

Definition encode_create_indir_data_fwdng_tunn_rsp (value : create_indir_data_fwdng_tunn_rsp_t) : ie_encoder :=
  enc_bits (
    ecall_at (encode_gtpv2c_header_t value.(create_indir_data_fwdng_tunn_rsp_header)) ⨾
    enc_when (nz value.(create_indir_data_fwdng_tunn_rsp_cause).(gtp_cause_header).(gie_len)) (ecall_at (encode_gtp_cause_ie value.(create_indir_data_fwdng_tunn_rsp_cause))) ⨾
    enc_when (nz value.(create_indir_data_fwdng_tunn_rsp_sender_fteid_ctl_plane).(gtp_fully_qual_tunn_endpt_idnt_header).(gie_len)) (ecall_at (encode_gtp_fully_qual_tunn_endpt_idnt_ie value.(create_indir_data_fwdng_tunn_rsp_sender_fteid_ctl_plane))) ⨾
    enc_when (nz value.(create_indir_data_fwdng_tunn_rsp_bearer_contexts).(gtp_bearer_context_header).(gie_len)) (ecall_at (encode_gtp_bearer_context_ie value.(create_indir_data_fwdng_tunn_rsp_bearer_contexts))) ⨾
    enc_when (nz value.(create_indir_data_fwdng_tunn_rsp_recovery).(gtp_recovery_header).(gie_len)) (ecall_at (encode_gtp_recovery_ie value.(create_indir_data_fwdng_tunn_rsp_recovery))) ⨾
    enc_when (nz value.(create_indir_data_fwdng_tunn_rsp_priv_ext).(gtp_priv_ext_header).(gie_len)) (ecall_at (encode_gtp_priv_ext_ie value.(create_indir_data_fwdng_tunn_rsp_priv_ext)))).

Definition encode_gtp_rmt_ue_rpt_notification__remote_ue_ctxt_disconnected_ie (value : gtp_rmt_ue_rpt_notification__remote_ue_ctxt_disconnected_ie_t) : ie_encoder :=
  enc_bits (
    ecall (encode_ie_header_t value.(gtp_rmt_ue_rpt_notification__remote_ue_ctxt_disconnected_header)) ⨾
    enc_to_bytes ⨾
    enc_when (nz value.(gtp_rmt_ue_rpt_notification__remote_ue_ctxt_disconnected_remote_user_id).(gtp_remote_user_id_header).(gie_len)) (ecall_at (encode_gtp_remote_user_id_ie value.(gtp_rmt_ue_rpt_notification__remote_ue_ctxt_disconnected_remote_user_id)))).

Definition encode_gtp_rmt_ue_rpt_notification__remote_ue_ctxt_connected_ie (value : gtp_rmt_ue_rpt_notification__remote_ue_ctxt_connected_ie_t) : ie_encoder :=
  enc_bits (
    ecall (encode_ie_header_t value.(gtp_rmt_ue_rpt_notification__remote_ue_ctxt_connected_header)) ⨾
    enc_to_bytes ⨾
    enc_when (nz value.(gtp_rmt_ue_rpt_notification__remote_ue_ctxt_connected_remote_user_id).(gtp_remote_user_id_header).(gie_len)) (ecall_at (encode_gtp_remote_user_id_ie value.(gtp_rmt_ue_rpt_notification__remote_ue_ctxt_connected_remote_user_id))) ⨾
    enc_when (nz value.(gtp_rmt_ue_rpt_notification__remote_ue_ctxt_connected_rmt_ue_ip_info).(gtp_rmt_ue_ip_info_header).(gie_len)) (ecall_at (encode_gtp_rmt_ue_ip_info_ie value.(gtp_rmt_ue_rpt_notification__remote_ue_ctxt_connected_rmt_ue_ip_info)))).

Definition encode_fwd_reloc_cmplt_notif (value : fwd_reloc_cmplt_notif_t) : ie_encoder :=
  enc_bits (
    ecall_at (encode_gtpv2c_header_t value.(fwd_reloc_cmplt_notif_header)) ⨾
    enc_when (nz value.(fwd_reloc_cmplt_notif_indctn_flgs).(gtp_indication_header).(gie_len)) (ecall_at (encode_gtp_indication_ie value.(fwd_reloc_cmplt_notif_indctn_flgs))) ⨾
    enc_when (nz value.(fwd_reloc_cmplt_notif_priv_ext).(gtp_priv_ext_header).(gie_len)) (ecall_at (encode_gtp_priv_ext_ie value.(fwd_reloc_cmplt_notif_priv_ext)))).

Definition encode_gtp_del_bearer_fail_indication__overload_ctl_info_ie (value : gtp_del_bearer_fail_indication__overload_ctl_info_ie_t) : ie_encoder :=
  enc_bits (
    ecall (encode_ie_header_t value.(gtp_del_bearer_fail_indication__overload_ctl_info_header)) ⨾
    enc_to_bytes ⨾
    enc_when (nz value.(gtp_del_bearer_fail_indication__overload_ctl_info_ovrld_ctl_seqn_nbr).(gtp_sequence_number_header).(gie_len)) (ecall_at (encode_gtp_sequence_number_ie value.(gtp_del_bearer_fail_indication__overload_ctl_info_ovrld_ctl_seqn_nbr))) ⨾
    enc_when (nz value.(gtp_del_bearer_fail_indication__overload_ctl_info_ovrld_reduction_metric).(gtp_metric_header).(gie_len)) (ecall_at (encode_gtp_metric_ie value.(gtp_del_bearer_fail_indication__overload_ctl_info_ovrld_reduction_metric))) ⨾
    enc_when (nz value.(gtp_del_bearer_fail_indication__overload_ctl_info_prd_of_validity).(gtp_epc_timer_header).(gie_len)) (ecall_at (encode_gtp_epc_timer_ie value.(gtp_del_bearer_fail_indication__overload_ctl_info_prd_of_validity))) ⨾
    enc_when (nz value.(gtp_del_bearer_fail_indication__overload_ctl_info_apn).(gtp_acc_pt_name_header).(gie_len)) (ecall_at (encode_gtp_acc_pt_name_ie value.(gtp_del_bearer_fail_indication__overload_ctl_info_apn)))).

Definition encode_gtp_create_sess_request_bearer_ctxt_to_be_created_ie (value : gtp_create_sess_request_bearer_ctxt_to_be_created_ie_t) : ie_encoder :=
  enc_bits (
    ecall (encode_ie_header_t value.(gtp_create_sess_request_bearer_ctxt_to_be_created_header)) ⨾
    enc_to_bytes ⨾
    enc_when (nz value.(gtp_create_sess_request_bearer_ctxt_to_be_created_eps_bearer_id).(gtp_eps_bearer_id_header).(gie_len)) (ecall_at (encode_gtp_eps_bearer_id_ie value.(gtp_create_sess_request_bearer_ctxt_to_be_created_eps_bearer_id))) ⨾
    enc_when (nz value.(gtp_create_sess_request_bearer_ctxt_to_be_created_tft).(gtp_eps_bearer_lvl_traffic_flow_tmpl_header).(gie_len)) (ecall_at (encode_gtp_eps_bearer_lvl_traffic_flow_tmpl_ie value.(gtp_create_sess_request_bearer_ctxt_to_be_created_tft))) ⨾
    enc_when (nz value.(gtp_create_sess_request_bearer_ctxt_to_be_created_s1u_enb_fteid).(gtp_fully_qual_tunn_endpt_idnt_header).(gie_len)) (ecall_at (encode_gtp_fully_qual_tunn_endpt_idnt_ie value.(gtp_create_sess_request_bearer_ctxt_to_be_created_s1u_enb_fteid))) ⨾
    enc_when (nz value.(gtp_create_sess_request_bearer_ctxt_to_be_created_s4_u_sgsn_fteid).(gtp_fully_qual_tunn_endpt_idnt_header).(gie_len)) (ecall_at (encode_gtp_fully_qual_tunn_endpt_idnt_ie value.(gtp_create_sess_request_bearer_ctxt_to_be_created_s4_u_sgsn_fteid))) ⨾
    enc_when (nz value.(gtp_create_sess_request_bearer_ctxt_to_be_created_s5s8_u_sgw_fteid).(gtp_fully_qual_tunn_endpt_idnt_header).(gie_len)) (ecall_at (encode_gtp_fully_qual_tunn_endpt_idnt_ie value.(gtp_create_sess_request_bearer_ctxt_to_be_created_s5s8_u_sgw_fteid))) ⨾
    enc_when (nz value.(gtp_create_sess_request_bearer_ctxt_to_be_created_s5s8_u_pgw_fteid).(gtp_fully_qual_tunn_endpt_idnt_header).(gie_len)) (ecall_at (encode_gtp_fully_qual_tunn_endpt_idnt_ie value.(gtp_create_sess_request_bearer_ctxt_to_be_created_s5s8_u_pgw_fteid))) ⨾
    enc_when (nz value.(gtp_create_sess_request_bearer_ctxt_to_be_created_s12_rnc_fteid).(gtp_fully_qual_tunn_endpt_idnt_header).(gie_len)) (ecall_at (encode_gtp_fully_qual_tunn_endpt_idnt_ie value.(gtp_create_sess_request_bearer_ctxt_to_be_created_s12_rnc_fteid))) ⨾
    enc_when (nz value.(gtp_create_sess_request_bearer_ctxt_to_be_created_s2b_u_epdg_fteid).(gtp_fully_qual_tunn_endpt_idnt_header).(gie_len)) (ecall_at (encode_gtp_fully_qual_tunn_endpt_idnt_ie value.(gtp_create_sess_request_bearer_ctxt_to_be_created_s2b_u_epdg_fteid))) ⨾
    enc_when (nz value.(gtp_create_sess_request_bearer_ctxt_to_be_created_s2a_u_twan_fteid).(gtp_fully_qual_tunn_endpt_idnt_header).(gie_len)) (ecall_at (encode_gtp_fully_qual_tunn_endpt_idnt_ie value.(gtp_create_sess_request_bearer_ctxt_to_be_created_s2a_u_twan_fteid))) ⨾
    enc_when (nz value.(gtp_create_sess_request_bearer_ctxt_to_be_created_bearer_lvl_qos).(gtp_bearer_qlty_of_svc_header).(gie_len)) (ecall_at (encode_gtp_bearer_qlty_of_svc_ie value.(gtp_create_sess_request_bearer_ctxt_to_be_created_bearer_lvl_qos))) ⨾
    enc_when (nz value.(gtp_create_sess_request_bearer_ctxt_to_be_created_s11_u_mme_fteid).(gtp_fully_qual_tunn_endpt_idnt_header).(gie_len)) (ecall_at (encode_gtp_fully_qual_tunn_endpt_idnt_ie value.(gtp_create_sess_request_bearer_ctxt_to_be_created_s11_u_mme_fteid)))).

Definition encode_gtp_del_bearer_command_bearer_ctxt_ie (value : gtp_del_bearer_command_bearer_ctxt_ie_t) : ie_encoder :=
  enc_bits (
    ecall (encode_ie_header_t value.(gtp_del_bearer_command_bearer_ctxt_header)) ⨾
    enc_to_bytes ⨾
    enc_when (nz value.(gtp_del_bearer_command_bearer_ctxt_eps_bearer_id).(gtp_eps_bearer_id_header).(gie_len)) (ecall_at (encode_gtp_eps_bearer_id_ie value.(gtp_del_bearer_command_bearer_ctxt_eps_bearer_id))) ⨾
    enc_when (nz value.(gtp_del_bearer_command_bearer_ctxt_bearer_flags).(gtp_bearer_flags_header).(gie_len)) (ecall_at (encode_gtp_bearer_flags_ie value.(gtp_del_bearer_command_bearer_ctxt_bearer_flags))) ⨾
    enc_when (nz value.(gtp_del_bearer_command_bearer_ctxt_ran_nas_release_cause).(gtp_ran_nas_cause_header).(gie_len)) (ecall_at (encode_gtp_ran_nas_cause_ie value.(gtp_del_bearer_command_bearer_ctxt_ran_nas_release_cause)))).

Definition encode_del_bearer_cmd (value : del_bearer_cmd_t) : ie_encoder :=
  enc_bits (
    ecall_at (encode_gtpv2c_header_t value.(del_bearer_cmd_header)) ⨾
    enc_for value.(del_bearer_cmd_bearer_contexts) 0 (Z.to_nat value.(del_bearer_cmd_bearer_count)) (fun x => enc_when (nz x.(gtp_del_bearer_command_bearer_ctxt_header).(gie_len)) (ecall_at (encode_gtp_del_bearer_command_bearer_ctxt_ie x))) ⨾
    enc_when (nz value.(del_bearer_cmd_uli).(gtp_user_loc_info_header).(gie_len)) (ecall_at (encode_gtp_user_loc_info_ie value.(del_bearer_cmd_uli))) ⨾
    enc_when (nz value.(del_bearer_cmd_uli_timestamp).(gtp_uli_timestamp_header).(gie_len)) (ecall_at (encode_gtp_uli_timestamp_ie value.(del_bearer_cmd_uli_timestamp))) ⨾
    enc_when (nz value.(del_bearer_cmd_ue_time_zone).(gtp_ue_time_zone_header).(gie_len)) (ecall_at (encode_gtp_ue_time_zone_ie value.(del_bearer_cmd_ue_time_zone))) ⨾
    enc_when (nz value.(del_bearer_cmd_mmes4_sgsns_ovrld_ctl_info).(gtp_ovrld_ctl_info_header).(gie_len)) (ecall_at (encode_gtp_ovrld_ctl_info_ie value.(del_bearer_cmd_mmes4_sgsns_ovrld_ctl_info))) ⨾
    enc_when (nz value.(del_bearer_cmd_sgws_ovrld_ctl_info).(gtp_ovrld_ctl_info_header).(gie_len)) (ecall_at (encode_gtp_ovrld_ctl_info_ie value.(del_bearer_cmd_sgws_ovrld_ctl_info))) ⨾
    enc_when (nz value.(del_bearer_cmd_sender_fteid_ctl_plane).(gtp_fully_qual_tunn_endpt_idnt_header).(gie_len)) (ecall_at (encode_gtp_fully_qual_tunn_endpt_idnt_ie value.(del_bearer_cmd_sender_fteid_ctl_plane))) ⨾
    enc_when (nz value.(del_bearer_cmd_secdry_rat_usage_data_rpt).(gtp_secdry_rat_usage_data_rpt_header).(gie_len)) (ecall_at (encode_gtp_secdry_rat_usage_data_rpt_ie value.(del_bearer_cmd_secdry_rat_usage_data_rpt))) ⨾
    enc_when (nz value.(del_bearer_cmd_priv_ext).(gtp_priv_ext_header).(gie_len)) (ecall_at (encode_gtp_priv_ext_ie value.(del_bearer_cmd_priv_ext)))).

Definition encode_mod_bearer_cmd (value : mod_bearer_cmd_t) : ie_encoder :=
  enc_bits (
    ecall_at (encode_gtpv2c_header_t value.(mod_bearer_cmd_header)) ⨾
    enc_when (nz value.(mod_bearer_cmd_apn_ambr).(gtp_agg_max_bit_rate_header).(gie_len)) (ecall_at (encode_gtp_agg_max_bit_rate_ie value.(mod_bearer_cmd_apn_ambr))) ⨾
    enc_when (nz value.(mod_bearer_cmd_bearer_context).(gtp_bearer_context_header).(gie_len)) (ecall_at (encode_gtp_bearer_context_ie value.(mod_bearer_cmd_bearer_context))) ⨾
    enc_when (nz value.(mod_bearer_cmd_mmes4_sgsns_ovrld_ctl_info).(gtp_ovrld_ctl_info_header).(gie_len)) (ecall_at (encode_gtp_ovrld_ctl_info_ie value.(mod_bearer_cmd_mmes4_sgsns_ovrld_ctl_info))) ⨾
    enc_when (nz value.(mod_bearer_cmd_sgws_ovrld_ctl_info).(gtp_ovrld_ctl_info_header).(gie_len)) (ecall_at (encode_gtp_ovrld_ctl_info_ie value.(mod_bearer_cmd_sgws_ovrld_ctl_info))) ⨾
    enc_when (nz value.(mod_bearer_cmd_twanepdgs_ovrld_ctl_info).(gtp_ovrld_ctl_info_header).(gie_len)) (ecall_at (encode_gtp_ovrld_ctl_info_ie value.(mod_bearer_cmd_twanepdgs_ovrld_ctl_info))) ⨾
    enc_when (nz value.(mod_bearer_cmd_sender_fteid_ctl_plane).(gtp_fully_qual_tunn_endpt_idnt_header).(gie_len)) (ecall_at (encode_gtp_fully_qual_tunn_endpt_idnt_ie value.(mod_bearer_cmd_sender_fteid_ctl_plane))) ⨾
    enc_when (nz value.(mod_bearer_cmd_priv_ext).(gtp_priv_ext_header).(gie_len)) (ecall_at (encode_gtp_priv_ext_ie value.(mod_bearer_cmd_priv_ext)))).

Definition encode_gtp_mod_bearer_request_bearer_ctxt_to_be_modified_ie (value : gtp_mod_bearer_request_bearer_ctxt_to_be_modified_ie_t) : ie_encoder :=
  enc_bits (
    ecall (encode_ie_header_t value.(gtp_mod_bearer_request_bearer_ctxt_to_be_modified_header)) ⨾
    enc_to_bytes ⨾
    enc_when (nz value.(gtp_mod_bearer_request_bearer_ctxt_to_be_modified_eps_bearer_id).(gtp_eps_bearer_id_header).(gie_len)) (ecall_at (encode_gtp_eps_bearer_id_ie value.(gtp_mod_bearer_request_bearer_ctxt_to_be_modified_eps_bearer_id))) ⨾
    enc_when (nz value.(gtp_mod_bearer_request_bearer_ctxt_to_be_modified_s1_enodeb_fteid).(gtp_fully_qual_tunn_endpt_idnt_header).(gie_len)) (ecall_at (encode_gtp_fully_qual_tunn_endpt_idnt_ie value.(gtp_mod_bearer_request_bearer_ctxt_to_be_modified_s1_enodeb_fteid))) ⨾
    enc_when (nz value.(gtp_mod_bearer_request_bearer_ctxt_to_be_modified_s58_u_sgw_fteid).(gtp_fully_qual_tunn_endpt_idnt_header).(gie_len)) (ecall_at (encode_gtp_fully_qual_tunn_endpt_idnt_ie value.(gtp_mod_bearer_request_bearer_ctxt_to_be_modified_s58_u_sgw_fteid))) ⨾
    enc_when (nz value.(gtp_mod_bearer_request_bearer_ctxt_to_be_modified_s12_rnc_fteid).(gtp_fully_qual_tunn_endpt_idnt_header).(gie_len)) (ecall_at (encode_gtp_fully_qual_tunn_endpt_idnt_ie value.(gtp_mod_bearer_request_bearer_ctxt_to_be_modified_s12_rnc_fteid))) ⨾
    enc_when (nz value.(gtp_mod_bearer_request_bearer_ctxt_to_be_modified_s4_u_sgsn_fteid).(gtp_fully_qual_tunn_endpt_idnt_header).(gie_len)) (ecall_at (encode_gtp_fully_qual_tunn_endpt_idnt_ie value.(gtp_mod_bearer_request_bearer_ctxt_to_be_modified_s4_u_sgsn_fteid))) ⨾
    enc_when (nz value.(gtp_mod_bearer_request_bearer_ctxt_to_be_modified_s11_u_mme_fteid).(gtp_fully_qual_tunn_endpt_idnt_header).(gie_len)) (ecall_at (encode_gtp_fully_qual_tunn_endpt_idnt_ie value.(gtp_mod_bearer_request_bearer_ctxt_to_be_modified_s11_u_mme_fteid)))).

Definition encode_gtp_mod_bearer_request_bearer_ctxt_to_be_removed_ie (value : gtp_mod_bearer_request_bearer_ctxt_to_be_removed_ie_t) : ie_encoder :=
  enc_bits (
    ecall (encode_ie_header_t value.(gtp_mod_bearer_request_bearer_ctxt_to_be_removed_header)) ⨾
    enc_to_bytes ⨾
    enc_when (nz value.(gtp_mod_bearer_request_bearer_ctxt_to_be_removed_eps_bearer_id).(gtp_eps_bearer_id_header).(gie_len)) (ecall_at (encode_gtp_eps_bearer_id_ie value.(gtp_mod_bearer_request_bearer_ctxt_to_be_removed_eps_bearer_id)))).

Definition encode_mod_bearer_req (value : mod_bearer_req_t) : ie_encoder :=
  enc_bits (
    ecall_at (encode_gtpv2c_header_t value.(mod_bearer_req_header)) ⨾
    enc_when (nz value.(mod_bearer_req_mei).(gtp_mbl_equip_idnty_header).(gie_len)) (ecall_at (encode_gtp_mbl_equip_idnty_ie value.(mod_bearer_req_mei))) ⨾
    enc_when (nz value.(mod_bearer_req_uli).(gtp_user_loc_info_header).(gie_len)) (ecall_at (encode_gtp_user_loc_info_ie value.(mod_bearer_req_uli))) ⨾
    enc_when (nz value.(mod_bearer_req_serving_network).(gtp_serving_network_header).(gie_len)) (ecall_at (encode_gtp_serving_network_ie value.(mod_bearer_req_serving_network))) ⨾
    enc_when (nz value.(mod_bearer_req_selection_mode).(gtp_selection_mode_header).(gie_len)) (ecall_at (encode_gtp_selection_mode_ie value.(mod_bearer_req_selection_mode))) ⨾
    enc_when (nz value.(mod_bearer_req_indctn_flgs).(gtp_indication_header).(gie_len)) (ecall_at (encode_gtp_indication_ie value.(mod_bearer_req_indctn_flgs))) ⨾
    enc_when (nz value.(mod_bearer_req_sender_fteid_ctl_plane).(gtp_fully_qual_tunn_endpt_idnt_header).(gie_len)) (ecall_at (encode_gtp_fully_qual_tunn_endpt_idnt_ie value.(mod_bearer_req_sender_fteid_ctl_plane))) ⨾
    enc_when (nz value.(mod_bearer_req_apn_ambr).(gtp_agg_max_bit_rate_header).(gie_len)) (ecall_at (encode_gtp_agg_max_bit_rate_ie value.(mod_bearer_req_apn_ambr))) ⨾
    enc_when (nz value.(mod_bearer_req_delay_dnlnk_pckt_notif_req).(gtp_delay_value_header).(gie_len)) (ecall_at (encode_gtp_delay_value_ie value.(mod_bearer_req_delay_dnlnk_pckt_notif_req))) ⨾
    enc_when (nz value.(mod_bearer_req_bearer_contexts_to_be_modified).(gtp_mod_bearer_request_bearer_ctxt_to_be_modified_header).(gie_len)) (ecall_at (encode_gtp_mod_bearer_request_bearer_ctxt_to_be_modified_ie value.(mod_bearer_req_bearer_contexts_to_be_modified))) ⨾
    enc_when (nz value.(mod_bearer_req_bearer_contexts_to_be_removed).(gtp_mod_bearer_request_bearer_ctxt_to_be_removed_header).(gie_len)) (ecall_at (encode_gtp_mod_bearer_request_bearer_ctxt_to_be_removed_ie value.(mod_bearer_req_bearer_contexts_to_be_removed))) ⨾
    enc_when (nz value.(mod_bearer_req_recovery).(gtp_recovery_header).(gie_len)) (ecall_at (encode_gtp_recovery_ie value.(mod_bearer_req_recovery))) ⨾
    enc_when (nz value.(mod_bearer_req_ue_time_zone).(gtp_ue_time_zone_header).(gie_len)) (ecall_at (encode_gtp_ue_time_zone_ie value.(mod_bearer_req_ue_time_zone))) ⨾
    enc_when (nz value.(mod_bearer_req_mme_fqcsid).(gtp_fqcsid_header).(gie_len)) (ecall_at (encode_gtp_fqcsid_ie value.(mod_bearer_req_mme_fqcsid))) ⨾
    enc_when (nz value.(mod_bearer_req_sgw_fqcsid).(gtp_fqcsid_header).(gie_len)) (ecall_at (encode_gtp_fqcsid_ie value.(mod_bearer_req_sgw_fqcsid))) ⨾
    enc_when (nz value.(mod_bearer_req_uci).(gtp_user_csg_info_header).(gie_len)) (ecall_at (encode_gtp_user_csg_info_ie value.(mod_bearer_req_uci))) ⨾
    enc_when (nz value.(mod_bearer_req_ue_local_ip_addr).(gtp_ip_address_header).(gie_len)) (ecall_at (encode_gtp_ip_address_ie value.(mod_bearer_req_ue_local_ip_addr))) ⨾
    enc_when (nz value.(mod_bearer_req_ue_udp_port).(gtp_port_number_header).(gie_len)) (ecall_at (encode_gtp_port_number_ie value.(mod_bearer_req_ue_udp_port))) ⨾
    enc_when (nz value.(mod_bearer_req_mmes4_sgsn_ldn).(gtp_local_distgsd_name_header).(gie_len)) (ecall_at (encode_gtp_local_distgsd_name_ie value.(mod_bearer_req_mmes4_sgsn_ldn))) ⨾
    enc_when (nz value.(mod_bearer_req_sgw_ldn).(gtp_local_distgsd_name_header).(gie_len)) (ecall_at (encode_gtp_local_distgsd_name_ie value.(mod_bearer_req_sgw_ldn))) ⨾
    enc_when (nz value.(mod_bearer_req_henb_local_ip_addr).(gtp_ip_address_header).(gie_len)) (ecall_at (encode_gtp_ip_address_ie value.(mod_bearer_req_henb_local_ip_addr))) ⨾
    enc_when (nz value.(mod_bearer_req_henb_udp_port).(gtp_port_number_header).(gie_len)) (ecall_at (encode_gtp_port_number_ie value.(mod_bearer_req_henb_udp_port))) ⨾
    enc_when (nz value.(mod_bearer_req_mmes4_sgsn_idnt).(gtp_ip_address_header).(gie_len)) (ecall_at (encode_gtp_ip_address_ie value.(mod_bearer_req_mmes4_sgsn_idnt))) ⨾
    enc_when (nz value.(mod_bearer_req_cn_oper_sel_entity).(gtp_cn_oper_sel_entity_header).(gie_len)) (ecall_at (encode_gtp_cn_oper_sel_entity_ie value.(mod_bearer_req_cn_oper_sel_entity))) ⨾
    enc_when (nz value.(mod_bearer_req_pres_rptng_area_info).(gtp_pres_rptng_area_info_header).(gie_len)) (ecall_at (encode_gtp_pres_rptng_area_info_ie value.(mod_bearer_req_pres_rptng_area_info))) ⨾
    enc_when (nz value.(mod_bearer_req_mmes4_sgsns_ovrld_ctl_info).(gtp_ovrld_ctl_info_header).(gie_len)) (ecall_at (encode_gtp_ovrld_ctl_info_ie value.(mod_bearer_req_mmes4_sgsns_ovrld_ctl_info))) ⨾
    enc_when (nz value.(mod_bearer_req_sgws_ovrld_ctl_info).(gtp_ovrld_ctl_info_header).(gie_len)) (ecall_at (encode_gtp_ovrld_ctl_info_ie value.(mod_bearer_req_sgws_ovrld_ctl_info))) ⨾
    enc_when (nz value.(mod_bearer_req_epdgs_ovrld_ctl_info).(gtp_ovrld_ctl_info_header).(gie_len)) (ecall_at (encode_gtp_ovrld_ctl_info_ie value.(mod_bearer_req_epdgs_ovrld_ctl_info))) ⨾
    enc_when (nz value.(mod_bearer_req_srvng_plmn_rate_ctl).(gtp_srvng_plmn_rate_ctl_header).(gie_len)) (ecall_at (encode_gtp_srvng_plmn_rate_ctl_ie value.(mod_bearer_req_srvng_plmn_rate_ctl))) ⨾
    enc_when (nz value.(mod_bearer_req_mo_exception_data_cntr).(gtp_counter_header).(gie_len)) (ecall_at (encode_gtp_counter_ie value.(mod_bearer_req_mo_exception_data_cntr))) ⨾
    enc_when (nz value.(mod_bearer_req_imsi).(gtp_imsi_header).(gie_len)) (ecall_at (encode_gtp_imsi_ie value.(mod_bearer_req_imsi))) ⨾
    enc_when (nz value.(mod_bearer_req_user_loc_info_sgw).(gtp_user_loc_info_header).(gie_len)) (ecall_at (encode_gtp_user_loc_info_ie value.(mod_bearer_req_user_loc_info_sgw))) ⨾
    enc_when (nz value.(mod_bearer_req_wlan_loc_info).(gtp_twan_identifier_header).(gie_len)) (ecall_at (encode_gtp_twan_identifier_ie value.(mod_bearer_req_wlan_loc_info))) ⨾
    enc_when (nz value.(mod_bearer_req_wlan_loc_ts).(gtp_twan_idnt_ts_header).(gie_len)) (ecall_at (encode_gtp_twan_idnt_ts_ie value.(mod_bearer_req_wlan_loc_ts))) ⨾
    enc_when (nz value.(mod_bearer_req_secdry_rat_usage_data_rpt).(gtp_secdry_rat_usage_data_rpt_header).(gie_len)) (ecall_at (encode_gtp_secdry_rat_usage_data_rpt_ie value.(mod_bearer_req_secdry_rat_usage_data_rpt))) ⨾
    enc_when (nz value.(mod_bearer_req_priv_ext).(gtp_priv_ext_header).(gie_len)) (ecall_at (encode_gtp_priv_ext_ie value.(mod_bearer_req_priv_ext)))).

Definition encode_gtp_upd_bearer_response__overload_ctl_info_ie (value : gtp_upd_bearer_response__overload_ctl_info_ie_t) : ie_encoder :=
  enc_bits (
    ecall (encode_ie_header_t value.(gtp_upd_bearer_response__overload_ctl_info_header)) ⨾
    enc_to_bytes ⨾
    enc_when (nz value.(gtp_upd_bearer_response__overload_ctl_info_ovrld_ctl_seqn_nbr).(gtp_sequence_number_header).(gie_len)) (ecall_at (encode_gtp_sequence_number_ie value.(gtp_upd_bearer_response__overload_ctl_info_ovrld_ctl_seqn_nbr))) ⨾
    enc_when (nz value.(gtp_upd_bearer_response__overload_ctl_info_ovrld_reduction_metric).(gtp_metric_header).(gie_len)) (ecall_at (encode_gtp_metric_ie value.(gtp_upd_bearer_response__overload_ctl_info_ovrld_reduction_metric))) ⨾
    enc_when (nz value.(gtp_upd_bearer_response__overload_ctl_info_prd_of_validity).(gtp_epc_timer_header).(gie_len)) (ecall_at (encode_gtp_epc_timer_ie value.(gtp_upd_bearer_response__overload_ctl_info_prd_of_validity)))).

Definition encode_gtp_del_bearer_request__bearer_ctxt_ie (value : gtp_del_bearer_request__bearer_ctxt_ie_t) : ie_encoder :=
  enc_bits (
    ecall (encode_ie_header_t value.(gtp_del_bearer_request__bearer_ctxt_header)) ⨾
    enc_to_bytes ⨾
    enc_when (nz value.(gtp_del_bearer_request__bearer_ctxt_eps_bearer_id).(gtp_eps_bearer_id_header).(gie_len)) (ecall_at (encode_gtp_eps_bearer_id_ie value.(gtp_del_bearer_request__bearer_ctxt_eps_bearer_id))) ⨾
    enc_when (nz value.(gtp_del_bearer_request__bearer_ctxt_cause).(gtp_cause_header).(gie_len)) (ecall_at (encode_gtp_cause_ie value.(gtp_del_bearer_request__bearer_ctxt_cause)))).

Definition encode_gtp_upd_bearer_request__overload_ctl_info_ie (value : gtp_upd_bearer_request__overload_ctl_info_ie_t) : ie_encoder :=
  enc_bits (
    ecall (encode_ie_header_t value.(gtp_upd_bearer_request__overload_ctl_info_header)) ⨾
    enc_to_bytes ⨾
    enc_when (nz value.(gtp_upd_bearer_request__overload_ctl_info_ovrld_ctl_seqn_nbr).(gtp_sequence_number_header).(gie_len)) (ecall_at (encode_gtp_sequence_number_ie value.(gtp_upd_bearer_request__overload_ctl_info_ovrld_ctl_seqn_nbr))) ⨾
    enc_when (nz value.(gtp_upd_bearer_request__overload_ctl_info_ovrld_reduction_metric).(gtp_metric_header).(gie_len)) (ecall_at (encode_gtp_metric_ie value.(gtp_upd_bearer_request__overload_ctl_info_ovrld_reduction_metric))) ⨾
    enc_when (nz value.(gtp_upd_bearer_request__overload_ctl_info_prd_of_validity).(gtp_epc_timer_header).(gie_len)) (ecall_at (encode_gtp_epc_timer_ie value.(gtp_upd_bearer_request__overload_ctl_info_prd_of_validity))) ⨾
    enc_when (nz value.(gtp_upd_bearer_request__overload_ctl_info_apn).(gtp_acc_pt_name_header).(gie_len)) (ecall_at (encode_gtp_acc_pt_name_ie value.(gtp_upd_bearer_request__overload_ctl_info_apn)))).

Definition encode_id_req (value : id_req_t) : ie_encoder :=
  enc_bits (
    ecall_at (encode_gtpv2c_header_t value.(id_req_header)) ⨾
    enc_when (nz value.(id_req_guti).(gtp_guti_header).(gie_len)) (ecall_at (encode_gtp_guti_ie value.(id_req_guti))) ⨾
    enc_when (nz value.(id_req_rai).(gtp_user_loc_info_header).(gie_len)) (ecall_at (encode_gtp_user_loc_info_ie value.(id_req_rai))) ⨾
    enc_when (nz value.(id_req_ptmsi).(gtp_ptmsi_header).(gie_len)) (ecall_at (encode_gtp_ptmsi_ie value.(id_req_ptmsi))) ⨾
    enc_when (nz value.(id_req_ptmsi_signature).(gtp_ptmsi_signature_header).(gie_len)) (ecall_at (encode_gtp_ptmsi_signature_ie value.(id_req_ptmsi_signature))) ⨾
    enc_when (nz value.(id_req_cmplt_attach_req_msg).(gtp_cmplt_req_msg_header).(gie_len)) (ecall_at (encode_gtp_cmplt_req_msg_ie value.(id_req_cmplt_attach_req_msg))) ⨾
    enc_when (nz value.(id_req_addr_ctl_plane).(gtp_ip_address_header).(gie_len)) (ecall_at (encode_gtp_ip_address_ie value.(id_req_addr_ctl_plane))) ⨾
    enc_when (nz value.(id_req_udp_src_port_nbr).(gtp_port_number_header).(gie_len)) (ecall_at (encode_gtp_port_number_ie value.(id_req_udp_src_port_nbr))) ⨾
    enc_when (nz value.(id_req_hop_counter).(gtp_hop_counter_header).(gie_len)) (ecall_at (encode_gtp_hop_counter_ie value.(id_req_hop_counter))) ⨾
    enc_when (nz value.(id_req_target_plmn_id).(gtp_serving_network_header).(gie_len)) (ecall_at (encode_gtp_serving_network_ie value.(id_req_target_plmn_id))) ⨾
    enc_when (nz value.(id_req_priv_ext).(gtp_priv_ext_header).(gie_len)) (ecall_at (encode_gtp_priv_ext_ie value.(id_req_priv_ext)))).

Definition encode_ue_reg_qry_req (value : ue_reg_qry_req_t) : ie_encoder :=
  enc_bits (
    ecall_at (encode_gtpv2c_header_t value.(ue_reg_qry_req_header)) ⨾
    enc_when (nz value.(ue_reg_qry_req_imsi).(gtp_imsi_header).(gie_len)) (ecall_at (encode_gtp_imsi_ie value.(ue_reg_qry_req_imsi))) ⨾
    enc_when (nz value.(ue_reg_qry_req_priv_ext).(gtp_priv_ext_header).(gie_len)) (ecall_at (encode_gtp_priv_ext_ie value.(ue_reg_qry_req_priv_ext)))).

Definition encode_gtp_fwd_reloc_request__mmesgsnamf_ue_eps_pdn_connections_ie (value : gtp_fwd_reloc_request__mmesgsnamf_ue_eps_pdn_connections_ie_t) : ie_encoder :=
  enc_bits (
    ecall (encode_ie_header_t value.(gtp_fwd_reloc_request__mmesgsnamf_ue_eps_pdn_connections_header)) ⨾
    enc_to_bytes ⨾
    enc_when (nz value.(gtp_fwd_reloc_request__mmesgsnamf_ue_eps_pdn_connections_apn).(gtp_acc_pt_name_header).(gie_len)) (ecall_at (encode_gtp_acc_pt_name_ie value.(gtp_fwd_reloc_request__mmesgsnamf_ue_eps_pdn_connections_apn))) ⨾
    enc_when (nz value.(gtp_fwd_reloc_request__mmesgsnamf_ue_eps_pdn_connections_apn_restriction).(gtp_apn_restriction_header).(gie_len)) (ecall_at (encode_gtp_apn_restriction_ie value.(gtp_fwd_reloc_request__mmesgsnamf_ue_eps_pdn_connections_apn_restriction))) ⨾
    enc_when (nz value.(gtp_fwd_reloc_request__mmesgsnamf_ue_eps_pdn_connections_selection_mode).(gtp_selection_mode_header).(gie_len)) (ecall_at (encode_gtp_selection_mode_ie value.(gtp_fwd_reloc_request__mmesgsnamf_ue_eps_pdn_connections_selection_mode))) ⨾
    enc_when (nz value.(gtp_fwd_reloc_request__mmesgsnamf_ue_eps_pdn_connections_ipv4_address).(gtp_ip_address_header).(gie_len)) (ecall_at (encode_gtp_ip_address_ie value.(gtp_fwd_reloc_request__mmesgsnamf_ue_eps_pdn_connections_ipv4_address))) ⨾
    enc_when (nz value.(gtp_fwd_reloc_request__mmesgsnamf_ue_eps_pdn_connections_ipv6_address).(gtp_ip_address_header).(gie_len)) (ecall_at (encode_gtp_ip_address_ie value.(gtp_fwd_reloc_request__mmesgsnamf_ue_eps_pdn_connections_ipv6_address))) ⨾
    enc_when (nz value.(gtp_fwd_reloc_request__mmesgsnamf_ue_eps_pdn_connections_linked_eps_bearer_id).(gtp_eps_bearer_id_header).(gie_len)) (ecall_at (encode_gtp_eps_bearer_id_ie value.(gtp_fwd_reloc_request__mmesgsnamf_ue_eps_pdn_connections_linked_eps_bearer_id))) ⨾
    enc_when (nz value.(gtp_fwd_reloc_request__mmesgsnamf_ue_eps_pdn_connections_pgw_s5s8_ip_addr_ctl_plane_or_pmip).(gtp_fully_qual_tunn_endpt_idnt_header).(gie_len)) (ecall_at (encode_gtp_fully_qual_tunn_endpt_idnt_ie value.(gtp_fwd_reloc_request__mmesgsnamf_ue_eps_pdn_connections_pgw_s5s8_ip_addr_ctl_plane_or_pmip))) ⨾
    enc_when (nz value.(gtp_fwd_reloc_request__mmesgsnamf_ue_eps_pdn_connections_bearer_contexts).(gtp_bearer_context_header).(gie_len)) (ecall_at (encode_gtp_bearer_context_ie value.(gtp_fwd_reloc_request__mmesgsnamf_ue_eps_pdn_connections_bearer_contexts))) ⨾
    enc_when (nz value.(gtp_fwd_reloc_request__mmesgsnamf_ue_eps_pdn_connections_apn_ambr).(gtp_agg_max_bit_rate_header).(gie_len)) (ecall_at (encode_gtp_agg_max_bit_rate_ie value.(gtp_fwd_reloc_request__mmesgsnamf_ue_eps_pdn_connections_apn_ambr))) ⨾
    enc_when (nz value.(gtp_fwd_reloc_request__mmesgsnamf_ue_eps_pdn_connections_chrgng_char).(gtp_chrgng_char_header).(gie_len)) (ecall_at (encode_gtp_chrgng_char_ie value.(gtp_fwd_reloc_request__mmesgsnamf_ue_eps_pdn_connections_chrgng_char))) ⨾
    enc_when (nz value.(gtp_fwd_reloc_request__mmesgsnamf_ue_eps_pdn_connections_chg_rptng_act).(gtp_chg_rptng_act_header).(gie_len)) (ecall_at (encode_gtp_chg_rptng_act_ie value.(gtp_fwd_reloc_request__mmesgsnamf_ue_eps_pdn_connections_chg_rptng_act))) ⨾
    enc_when (nz value.(gtp_fwd_reloc_request__mmesgsnamf_ue_eps_pdn_connections_csg_info_rptng_act).(gtp_csg_info_rptng_act_header).(gie_len)) (ecall_at (encode_gtp_csg_info_rptng_act_ie value.(gtp_fwd_reloc_request__mmesgsnamf_ue_eps_pdn_connections_csg_info_rptng_act))) ⨾
    enc_when (nz value.(gtp_fwd_reloc_request__mmesgsnamf_ue_eps_pdn_connections_henb_info_rptng).(gtp_henb_info_rptng_header).(gie_len)) (ecall_at (encode_gtp_henb_info_rptng_ie value.(gtp_fwd_reloc_request__mmesgsnamf_ue_eps_pdn_connections_henb_info_rptng))) ⨾
    enc_when (nz value.(gtp_fwd_reloc_request__mmesgsnamf_ue_eps_pdn_connections_indctn_flgs).(gtp_indication_header).(gie_len)) (ecall_at (encode_gtp_indication_ie value.(gtp_fwd_reloc_request__mmesgsnamf_ue_eps_pdn_connections_indctn_flgs))) ⨾
    enc_when (nz value.(gtp_fwd_reloc_request__mmesgsnamf_ue_eps_pdn_connections_sgnllng_priority_indctn).(gtp_sgnllng_priority_indctn_header).(gie_len)) (ecall_at (encode_gtp_sgnllng_priority_indctn_ie value.(gtp_fwd_reloc_request__mmesgsnamf_ue_eps_pdn_connections_sgnllng_priority_indctn))) ⨾
    enc_when (nz value.(gtp_fwd_reloc_request__mmesgsnamf_ue_eps_pdn_connections_chg_to_rpt_flgs).(gtp_chg_to_rpt_flgs_header).(gie_len)) (ecall_at (encode_gtp_chg_to_rpt_flgs_ie value.(gtp_fwd_reloc_request__mmesgsnamf_ue_eps_pdn_connections_chg_to_rpt_flgs))) ⨾
    enc_when (nz value.(gtp_fwd_reloc_request__mmesgsnamf_ue_eps_pdn_connections_local_home_ntwk_id).(gtp_fully_qual_domain_name_header).(gie_len)) (ecall_at (encode_gtp_fully_qual_domain_name_ie value.(gtp_fwd_reloc_request__mmesgsnamf_ue_eps_pdn_connections_local_home_ntwk_id))) ⨾
    enc_when (nz value.(gtp_fwd_reloc_request__mmesgsnamf_ue_eps_pdn_connections_pres_rptng_area_act).(gtp_pres_rptng_area_act_header).(gie_len)) (ecall_at (encode_gtp_pres_rptng_area_act_ie value.(gtp_fwd_reloc_request__mmesgsnamf_ue_eps_pdn_connections_pres_rptng_area_act))) ⨾
    enc_when (nz value.(gtp_fwd_reloc_request__mmesgsnamf_ue_eps_pdn_connections_wlan_offldblty_indctn).(gtp_wlan_offldblty_indctn_header).(gie_len)) (ecall_at (encode_gtp_wlan_offldblty_indctn_ie value.(gtp_fwd_reloc_request__mmesgsnamf_ue_eps_pdn_connections_wlan_offldblty_indctn))) ⨾
    enc_when (nz value.(gtp_fwd_reloc_request__mmesgsnamf_ue_eps_pdn_connections_rmt_ue_ctxt_connected).(gtp_rmt_ue_ctxt_header).(gie_len)) (ecall_at (encode_gtp_rmt_ue_ctxt_ie value.(gtp_fwd_reloc_request__mmesgsnamf_ue_eps_pdn_connections_rmt_ue_ctxt_connected))) ⨾
    enc_when (nz value.(gtp_fwd_reloc_request__mmesgsnamf_ue_eps_pdn_connections_pdn_type).(gtp_pdn_type_header).(gie_len)) (ecall_at (encode_gtp_pdn_type_ie value.(gtp_fwd_reloc_request__mmesgsnamf_ue_eps_pdn_connections_pdn_type))) ⨾
    enc_when (nz value.(gtp_fwd_reloc_request__mmesgsnamf_ue_eps_pdn_connections_hdr_comp_cfg).(gtp_hdr_comp_cfg_header).(gie_len)) (ecall_at (encode_gtp_hdr_comp_cfg_ie value.(gtp_fwd_reloc_request__mmesgsnamf_ue_eps_pdn_connections_hdr_comp_cfg)))).

Definition encode_gtp_dnlnk_data_notification__load_ctl_info_ie (value : gtp_dnlnk_data_notification__load_ctl_info_ie_t) : ie_encoder :=
  enc_bits (
    ecall (encode_ie_header_t value.(gtp_dnlnk_data_notification__load_ctl_info_header)) ⨾
    enc_to_bytes ⨾
    enc_when (nz value.(gtp_dnlnk_data_notification__load_ctl_info_load_ctl_seqn_nbr).(gtp_sequence_number_header).(gie_len)) (ecall_at (encode_gtp_sequence_number_ie value.(gtp_dnlnk_data_notification__load_ctl_info_load_ctl_seqn_nbr))) ⨾
    enc_when (nz value.(gtp_dnlnk_data_notification__load_ctl_info_load_metric).(gtp_metric_header).(gie_len)) (ecall_at (encode_gtp_metric_ie value.(gtp_dnlnk_data_notification__load_ctl_info_load_metric)))).

Definition encode_del_sess_rsp (value : del_sess_rsp_t) : ie_encoder :=
  enc_bits (
    ecall_at (encode_gtpv2c_header_t value.(del_sess_rsp_header)) ⨾
    enc_when (nz value.(del_sess_rsp_cause).(gtp_cause_header).(gie_len)) (ecall_at (encode_gtp_cause_ie value.(del_sess_rsp_cause))) ⨾
    enc_when (nz value.(del_sess_rsp_recovery).(gtp_recovery_header).(gie_len)) (ecall_at (encode_gtp_recovery_ie value.(del_sess_rsp_recovery))) ⨾
    enc_when (nz value.(del_sess_rsp_pco).(gtp_prot_cfg_opts_header).(gie_len)) (ecall_at (encode_gtp_prot_cfg_opts_ie value.(del_sess_rsp_pco))) ⨾
    enc_when (nz value.(del_sess_rsp_indctn_flgs).(gtp_indication_header).(gie_len)) (ecall_at (encode_gtp_indication_ie value.(del_sess_rsp_indctn_flgs))) ⨾
    enc_when (nz value.(del_sess_rsp_pgws_node_lvl_load_ctl_info).(gtp_load_ctl_info_header).(gie_len)) (ecall_at (encode_gtp_load_ctl_info_ie value.(del_sess_rsp_pgws_node_lvl_load_ctl_info))) ⨾
    enc_when (nz value.(del_sess_rsp_pgws_apn_lvl_load_ctl_info).(gtp_load_ctl_info_header).(gie_len)) (ecall_at (encode_gtp_load_ctl_info_ie value.(del_sess_rsp_pgws_apn_lvl_load_ctl_info))) ⨾
    enc_when (nz value.(del_sess_rsp_sgws_node_lvl_load_ctl_info).(gtp_load_ctl_info_header).(gie_len)) (ecall_at (encode_gtp_load_ctl_info_ie value.(del_sess_rsp_sgws_node_lvl_load_ctl_info))) ⨾
    enc_when (nz value.(del_sess_rsp_pgws_ovrld_ctl_info).(gtp_ovrld_ctl_info_header).(gie_len)) (ecall_at (encode_gtp_ovrld_ctl_info_ie value.(del_sess_rsp_pgws_ovrld_ctl_info))) ⨾
    enc_when (nz value.(del_sess_rsp_sgws_ovrld_ctl_info).(gtp_ovrld_ctl_info_header).(gie_len)) (ecall_at (encode_gtp_ovrld_ctl_info_ie value.(del_sess_rsp_sgws_ovrld_ctl_info))) ⨾
    enc_when (nz value.(del_sess_rsp_epco).(gtp_extnded_prot_cfg_opts_header).(gie_len)) (ecall_at (encode_gtp_extnded_prot_cfg_opts_ie value.(del_sess_rsp_epco))) ⨾
    enc_when (nz value.(del_sess_rsp_priv_ext).(gtp_priv_ext_header).(gie_len)) (ecall_at (encode_gtp_priv_ext_ie value.(del_sess_rsp_priv_ext)))).

Definition encode_fwd_reloc_rsp (value : fwd_reloc_rsp_t) : ie_encoder :=
  enc_bits (
    ecall_at (encode_gtpv2c_header_t value.(fwd_reloc_rsp_header)) ⨾
    enc_when (nz value.(fwd_reloc_rsp_cause).(gtp_cause_header).(gie_len)) (ecall_at (encode_gtp_cause_ie value.(fwd_reloc_rsp_cause))) ⨾
    enc_when (nz value.(fwd_reloc_rsp_senders_fteid_ctl_plane).(gtp_fully_qual_tunn_endpt_idnt_header).(gie_len)) (ecall_at (encode_gtp_fully_qual_tunn_endpt_idnt_ie value.(fwd_reloc_rsp_senders_fteid_ctl_plane))) ⨾
    enc_when (nz value.(fwd_reloc_rsp_indctn_flgs).(gtp_indication_header).(gie_len)) (ecall_at (encode_gtp_indication_ie value.(fwd_reloc_rsp_indctn_flgs))) ⨾
    enc_when (nz value.(fwd_reloc_rsp_list_of_set_up_bearers).(gtp_bearer_context_header).(gie_len)) (ecall_at (encode_gtp_bearer_context_ie value.(fwd_reloc_rsp_list_of_set_up_bearers))) ⨾
    enc_when (nz value.(fwd_reloc_rsp_list_of_set_up_rabs).(gtp_bearer_context_header).(gie_len)) (ecall_at (encode_gtp_bearer_context_ie value.(fwd_reloc_rsp_list_of_set_up_rabs))) ⨾
    enc_when (nz value.(fwd_reloc_rsp_list_of_set_up_pfcs).(gtp_bearer_context_header).(gie_len)) (ecall_at (encode_gtp_bearer_context_ie value.(fwd_reloc_rsp_list_of_set_up_pfcs))) ⨾
    enc_when (nz value.(fwd_reloc_rsp_s1_ap_cause).(gtp_full_qual_cause_header).(gie_len)) (ecall_at (encode_gtp_full_qual_cause_ie value.(fwd_reloc_rsp_s1_ap_cause))) ⨾
    enc_when (nz value.(fwd_reloc_rsp_ranap_cause).(gtp_full_qual_cause_header).(gie_len)) (ecall_at (encode_gtp_full_qual_cause_ie value.(fwd_reloc_rsp_ranap_cause))) ⨾
    enc_when (nz value.(fwd_reloc_rsp_bssgp_cause).(gtp_full_qual_cause_header).(gie_len)) (ecall_at (encode_gtp_full_qual_cause_ie value.(fwd_reloc_rsp_bssgp_cause))) ⨾
    enc_when (nz value.(fwd_reloc_rsp_e_utran_transparent_cntnr).(gtp_full_qual_cntnr_header).(gie_len)) (ecall_at (encode_gtp_full_qual_cntnr_ie value.(fwd_reloc_rsp_e_utran_transparent_cntnr))) ⨾
    enc_when (nz value.(fwd_reloc_rsp_utran_transparent_cntnr).(gtp_full_qual_cntnr_header).(gie_len)) (ecall_at (encode_gtp_full_qual_cntnr_ie value.(fwd_reloc_rsp_utran_transparent_cntnr))) ⨾
    enc_when (nz value.(fwd_reloc_rsp_bss_container).(gtp_full_qual_cntnr_header).(gie_len)) (ecall_at (encode_gtp_full_qual_cntnr_ie value.(fwd_reloc_rsp_bss_container))) ⨾
    enc_when (nz value.(fwd_reloc_rsp_mmes4_sgsn_ldn).(gtp_local_distgsd_name_header).(gie_len)) (ecall_at (encode_gtp_local_distgsd_name_ie value.(fwd_reloc_rsp_mmes4_sgsn_ldn))) ⨾
    enc_when (nz value.(fwd_reloc_rsp_sgsn_node_name).(gtp_fully_qual_domain_name_header).(gie_len)) (ecall_at (encode_gtp_fully_qual_domain_name_ie value.(fwd_reloc_rsp_sgsn_node_name))) ⨾
    enc_when (nz value.(fwd_reloc_rsp_mme_node_name).(gtp_fully_qual_domain_name_header).(gie_len)) (ecall_at (encode_gtp_fully_qual_domain_name_ie value.(fwd_reloc_rsp_mme_node_name))) ⨾
    enc_when (nz value.(fwd_reloc_rsp_sgsn_number).(gtp_node_number_header).(gie_len)) (ecall_at (encode_gtp_node_number_ie value.(fwd_reloc_rsp_sgsn_number))) ⨾
    enc_when (nz value.(fwd_reloc_rsp_sgsn_identifier).(gtp_node_identifier_header).(gie_len)) (ecall_at (encode_gtp_node_identifier_ie value.(fwd_reloc_rsp_sgsn_identifier))) ⨾
    enc_when (nz value.(fwd_reloc_rsp_mme_identifier).(gtp_node_identifier_header).(gie_len)) (ecall_at (encode_gtp_node_identifier_ie value.(fwd_reloc_rsp_mme_identifier))) ⨾
    enc_when (nz value.(fwd_reloc_rsp_mme_nbr_mt_sms).(gtp_node_number_header).(gie_len)) (ecall_at (encode_gtp_node_number_ie value.(fwd_reloc_rsp_mme_nbr_mt_sms))) ⨾
    enc_when (nz value.(fwd_reloc_rsp_sgsn_idnt_mt_sms).(gtp_node_identifier_header).(gie_len)) (ecall_at (encode_gtp_node_identifier_ie value.(fwd_reloc_rsp_sgsn_idnt_mt_sms))) ⨾
    enc_when (nz value.(fwd_reloc_rsp_mme_idnt_mt_sms).(gtp_node_identifier_header).(gie_len)) (ecall_at (encode_gtp_node_identifier_ie value.(fwd_reloc_rsp_mme_idnt_mt_sms))) ⨾
    enc_when (nz value.(fwd_reloc_rsp_list_of_set_up_bearers_scef_pdn_connections).(gtp_bearer_context_header).(gie_len)) (ecall_at (encode_gtp_bearer_context_ie value.(fwd_reloc_rsp_list_of_set_up_bearers_scef_pdn_connections))) ⨾
    enc_when (nz value.(fwd_reloc_rsp_priv_ext).(gtp_priv_ext_header).(gie_len)) (ecall_at (encode_gtp_priv_ext_ie value.(fwd_reloc_rsp_priv_ext)))).

Definition encode_trc_sess_actvn (value : trc_sess_actvn_t) : ie_encoder :=
  enc_bits (
    ecall_at (encode_gtpv2c_header_t value.(trc_sess_actvn_header)) ⨾
    enc_when (nz value.(trc_sess_actvn_imsi).(gtp_imsi_header).(gie_len)) (ecall_at (encode_gtp_imsi_ie value.(trc_sess_actvn_imsi))) ⨾
    enc_when (nz value.(trc_sess_actvn_trc_info).(gtp_trc_info_header).(gie_len)) (ecall_at (encode_gtp_trc_info_ie value.(trc_sess_actvn_trc_info))) ⨾
    enc_when (nz value.(trc_sess_actvn_mei).(gtp_mbl_equip_idnty_header).(gie_len)) (ecall_at (encode_gtp_mbl_equip_idnty_ie value.(trc_sess_actvn_mei)))).

Definition encode_cfg_xfer_tunn (value : cfg_xfer_tunn_t) : ie_encoder :=
  enc_bits (
    ecall_at (encode_gtpv2c_header_t value.(cfg_xfer_tunn_header)) ⨾
    enc_when (nz value.(cfg_xfer_tunn_e_utran_transparent_cntnr).(gtp_full_qual_cntnr_header).(gie_len)) (ecall_at (encode_gtp_full_qual_cntnr_ie value.(cfg_xfer_tunn_e_utran_transparent_cntnr))) ⨾
    enc_when (nz value.(cfg_xfer_tunn_trgt_enb_id).(gtp_trgt_id_header).(gie_len)) (ecall_at (encode_gtp_trgt_id_ie value.(cfg_xfer_tunn_trgt_enb_id)))).

Definition encode_detach_notif (value : detach_notif_t) : ie_encoder :=
  enc_bits (
    ecall_at (encode_gtpv2c_header_t value.(detach_notif_header)) ⨾
    enc_when (nz value.(detach_notif_cause).(gtp_cause_header).(gie_len)) (ecall_at (encode_gtp_cause_ie value.(detach_notif_cause))) ⨾
    enc_when (nz value.(detach_notif_detach_type).(gtp_detach_type_header).(gie_len)) (ecall_at (encode_gtp_detach_type_ie value.(detach_notif_detach_type))) ⨾
    enc_when (nz value.(detach_notif_priv_ext).(gtp_priv_ext_header).(gie_len)) (ecall_at (encode_gtp_priv_ext_ie value.(detach_notif_priv_ext)))).

Definition encode_gtp_ctxt_response__bearer_ctxt_ie (value : gtp_ctxt_response__bearer_ctxt_ie_t) : ie_encoder :=
  enc_bits (
    ecall (encode_ie_header_t value.(gtp_ctxt_response__bearer_ctxt_header)) ⨾
    enc_to_bytes ⨾
    enc_when (nz value.(gtp_ctxt_response__bearer_ctxt_eps_bearer_id).(gtp_eps_bearer_id_header).(gie_len)) (ecall_at (encode_gtp_eps_bearer_id_ie value.(gtp_ctxt_response__bearer_ctxt_eps_bearer_id))) ⨾
    enc_when (nz value.(gtp_ctxt_response__bearer_ctxt_tft).(gtp_eps_bearer_lvl_traffic_flow_tmpl_header).(gie_len)) (ecall_at (encode_gtp_eps_bearer_lvl_traffic_flow_tmpl_ie value.(gtp_ctxt_response__bearer_ctxt_tft))) ⨾
    enc_when (nz value.(gtp_ctxt_response__bearer_ctxt_sgw_s1s4s12s11_ip_addr_and_teid_user_plane).(gtp_fully_qual_tunn_endpt_idnt_header).(gie_len)) (ecall_at (encode_gtp_fully_qual_tunn_endpt_idnt_ie value.(gtp_ctxt_response__bearer_ctxt_sgw_s1s4s12s11_ip_addr_and_teid_user_plane))) ⨾
    enc_when (nz value.(gtp_ctxt_response__bearer_ctxt_pgw_s5s8_ip_addr_and_teid_user_plane).(gtp_fully_qual_tunn_endpt_idnt_header).(gie_len)) (ecall_at (encode_gtp_fully_qual_tunn_endpt_idnt_ie value.(gtp_ctxt_response__bearer_ctxt_pgw_s5s8_ip_addr_and_teid_user_plane))) ⨾
    enc_when (nz value.(gtp_ctxt_response__bearer_ctxt_bearer_lvl_qos).(gtp_bearer_qlty_of_svc_header).(gie_len)) (ecall_at (encode_gtp_bearer_qlty_of_svc_ie value.(gtp_ctxt_response__bearer_ctxt_bearer_lvl_qos))) ⨾
    enc_when (nz value.(gtp_ctxt_response__bearer_ctxt_bss_container).(gtp_full_qual_cntnr_header).(gie_len)) (ecall_at (encode_gtp_full_qual_cntnr_ie value.(gtp_ctxt_response__bearer_ctxt_bss_container))) ⨾
    enc_when (nz value.(gtp_ctxt_response__bearer_ctxt_trans_idnt).(gtp_trans_idnt_header).(gie_len)) (ecall_at (encode_gtp_trans_idnt_ie value.(gtp_ctxt_response__bearer_ctxt_trans_idnt))) ⨾
    enc_when (nz value.(gtp_ctxt_response__bearer_ctxt_sgw_s11_ip_addr_and_teid_user_plane).(gtp_fully_qual_tunn_endpt_idnt_header).(gie_len)) (ecall_at (encode_gtp_fully_qual_tunn_endpt_idnt_ie value.(gtp_ctxt_response__bearer_ctxt_sgw_s11_ip_addr_and_teid_user_plane)))).

Definition encode_gtp_ctxt_response__remote_ue_ctxt_connected_ie (value : gtp_ctxt_response__remote_ue_ctxt_connected_ie_t) : ie_encoder :=
  enc_bits (
    ecall (encode_ie_header_t value.(gtp_ctxt_response__remote_ue_ctxt_connected_header)) ⨾
    enc_to_bytes ⨾
    enc_when (nz value.(gtp_ctxt_response__remote_ue_ctxt_connected_remote_user_id).(gtp_remote_user_id_header).(gie_len)) (ecall_at (encode_gtp_remote_user_id_ie value.(gtp_ctxt_response__remote_ue_ctxt_connected_remote_user_id))) ⨾
    enc_when (nz value.(gtp_ctxt_response__remote_ue_ctxt_connected_rmt_ue_ip_info).(gtp_rmt_ue_ip_info_header).(gie_len)) (ecall_at (encode_gtp_rmt_ue_ip_info_ie value.(gtp_ctxt_response__remote_ue_ctxt_connected_rmt_ue_ip_info)))).

Definition encode_gtp_mod_bearer_request_overload_ctl_info_ie (value : gtp_mod_bearer_request_overload_ctl_info_ie_t) : ie_encoder :=
  enc_bits (
    ecall (encode_ie_header_t value.(gtp_mod_bearer_request_overload_ctl_info_header)) ⨾
    enc_to_bytes ⨾
    enc_when (nz value.(gtp_mod_bearer_request_overload_ctl_info_ovrld_ctl_seqn_nbr).(gtp_sequence_number_header).(gie_len)) (ecall_at (encode_gtp_sequence_number_ie value.(gtp_mod_bearer_request_overload_ctl_info_ovrld_ctl_seqn_nbr))) ⨾
    enc_when (nz value.(gtp_mod_bearer_request_overload_ctl_info_ovrld_reduction_metric).(gtp_metric_header).(gie_len)) (ecall_at (encode_gtp_metric_ie value.(gtp_mod_bearer_request_overload_ctl_info_ovrld_reduction_metric))) ⨾
    enc_when (nz value.(gtp_mod_bearer_request_overload_ctl_info_prd_of_validity).(gtp_epc_timer_header).(gie_len)) (ecall_at (encode_gtp_epc_timer_ie value.(gtp_mod_bearer_request_overload_ctl_info_prd_of_validity)))).

Definition encode_gtp_fwd_reloc_request__bearer_ctxt_ie (value : gtp_fwd_reloc_request__bearer_ctxt_ie_t) : ie_encoder :=
  enc_bits (
    ecall (encode_ie_header_t value.(gtp_fwd_reloc_request__bearer_ctxt_header)) ⨾
    enc_to_bytes ⨾
    enc_when (nz value.(gtp_fwd_reloc_request__bearer_ctxt_eps_bearer_id).(gtp_eps_bearer_id_header).(gie_len)) (ecall_at (encode_gtp_eps_bearer_id_ie value.(gtp_fwd_reloc_request__bearer_ctxt_eps_bearer_id))) ⨾
    enc_when (nz value.(gtp_fwd_reloc_request__bearer_ctxt_tft).(gtp_eps_bearer_lvl_traffic_flow_tmpl_header).(gie_len)) (ecall_at (encode_gtp_eps_bearer_lvl_traffic_flow_tmpl_ie value.(gtp_fwd_reloc_request__bearer_ctxt_tft))) ⨾
    enc_when (nz value.(gtp_fwd_reloc_request__bearer_ctxt_sgw_s1s4s12_ip_addr_and_teid_user_plane).(gtp_fully_qual_tunn_endpt_idnt_header).(gie_len)) (ecall_at (encode_gtp_fully_qual_tunn_endpt_idnt_ie value.(gtp_fwd_reloc_request__bearer_ctxt_sgw_s1s4s12_ip_addr_and_teid_user_plane))) ⨾
    enc_when (nz value.(gtp_fwd_reloc_request__bearer_ctxt_pgw_s5s8_ip_addr_and_teid_user_plane).(gtp_fully_qual_tunn_endpt_idnt_header).(gie_len)) (ecall_at (encode_gtp_fully_qual_tunn_endpt_idnt_ie value.(gtp_fwd_reloc_request__bearer_ctxt_pgw_s5s8_ip_addr_and_teid_user_plane))) ⨾
    enc_when (nz value.(gtp_fwd_reloc_request__bearer_ctxt_bearer_lvl_qos).(gtp_bearer_qlty_of_svc_header).(gie_len)) (ecall_at (encode_gtp_bearer_qlty_of_svc_ie value.(gtp_fwd_reloc_request__bearer_ctxt_bearer_lvl_qos))) ⨾
    enc_when (nz value.(gtp_fwd_reloc_request__bearer_ctxt_bss_container).(gtp_full_qual_cntnr_header).(gie_len)) (ecall_at (encode_gtp_full_qual_cntnr_ie value.(gtp_fwd_reloc_request__bearer_ctxt_bss_container))) ⨾
    enc_when (nz value.(gtp_fwd_reloc_request__bearer_ctxt_trans_idnt).(gtp_trans_idnt_header).(gie_len)) (ecall_at (encode_gtp_trans_idnt_ie value.(gtp_fwd_reloc_request__bearer_ctxt_trans_idnt))) ⨾
    enc_when (nz value.(gtp_fwd_reloc_request__bearer_ctxt_bearer_flags).(gtp_bearer_flags_header).(gie_len)) (ecall_at (encode_gtp_bearer_flags_ie value.(gtp_fwd_reloc_request__bearer_ctxt_bearer_flags))) ⨾
    enc_when (nz value.(gtp_fwd_reloc_request__bearer_ctxt_sgw_s11_ip_addr_and_teid_user_plane).(gtp_fully_qual_tunn_endpt_idnt_header).(gie_len)) (ecall_at (encode_gtp_fully_qual_tunn_endpt_idnt_ie value.(gtp_fwd_reloc_request__bearer_ctxt_sgw_s11_ip_addr_and_teid_user_plane)))).

Definition encode_echo_request (value : echo_request_t) : ie_encoder :=
  enc_bits (
    ecall_at (encode_gtpv2c_header_t value.(echo_request_header)) ⨾
    enc_when (nz value.(echo_request_recovery).(gtp_recovery_header).(gie_len)) (ecall_at (encode_gtp_recovery_ie value.(echo_request_recovery))) ⨾
    enc_when (nz value.(echo_request_sending_node_feat).(gtp_node_features_header).(gie_len)) (ecall_at (encode_gtp_node_features_ie value.(echo_request_sending_node_feat))) ⨾
    enc_when (nz value.(echo_request_priv_ext).(gtp_priv_ext_header).(gie_len)) (ecall_at (encode_gtp_priv_ext_ie value.(echo_request_priv_ext)))).

Definition encode_rmt_ue_rpt_notif (value : rmt_ue_rpt_notif_t) : ie_encoder :=
  enc_bits (
    ecall_at (encode_gtpv2c_header_t value.(rmt_ue_rpt_notif_header)) ⨾
    enc_when (nz value.(rmt_ue_rpt_notif_rmt_ue_ctxt_connected).(gtp_rmt_ue_ctxt_header).(gie_len)) (ecall_at (encode_gtp_rmt_ue_ctxt_ie value.(rmt_ue_rpt_notif_rmt_ue_ctxt_connected))) ⨾
    enc_when (nz value.(rmt_ue_rpt_notif_rmt_ue_ctxt_disconnected).(gtp_rmt_ue_ctxt_header).(gie_len)) (ecall_at (encode_gtp_rmt_ue_ctxt_ie value.(rmt_ue_rpt_notif_rmt_ue_ctxt_disconnected))) ⨾
    enc_when (nz value.(rmt_ue_rpt_notif_priv_ext).(gtp_priv_ext_header).(gie_len)) (ecall_at (encode_gtp_priv_ext_ie value.(rmt_ue_rpt_notif_priv_ext)))).

Definition encode_del_bearer_fail_indctn (value : del_bearer_fail_indctn_t) : ie_encoder :=
  enc_bits (
    ecall_at (encode_gtpv2c_header_t value.(del_bearer_fail_indctn_header)) ⨾
    enc_when (nz value.(del_bearer_fail_indctn_cause).(gtp_cause_header).(gie_len)) (ecall_at (encode_gtp_cause_ie value.(del_bearer_fail_indctn_cause))) ⨾
    enc_when (nz value.(del_bearer_fail_indctn_bearer_context).(gtp_bearer_context_header).(gie_len)) (ecall_at (encode_gtp_bearer_context_ie value.(del_bearer_fail_indctn_bearer_context))) ⨾
    enc_when (nz value.(del_bearer_fail_indctn_recovery).(gtp_recovery_header).(gie_len)) (ecall_at (encode_gtp_recovery_ie value.(del_bearer_fail_indctn_recovery))) ⨾
    enc_when (nz value.(del_bearer_fail_indctn_indctn_flgs).(gtp_indication_header).(gie_len)) (ecall_at (encode_gtp_indication_ie value.(del_bearer_fail_indctn_indctn_flgs))) ⨾
    enc_when (nz value.(del_bearer_fail_indctn_pgws_ovrld_ctl_info).(gtp_ovrld_ctl_info_header).(gie_len)) (ecall_at (encode_gtp_ovrld_ctl_info_ie value.(del_bearer_fail_indctn_pgws_ovrld_ctl_info))) ⨾
    enc_when (nz value.(del_bearer_fail_indctn_sgws_ovrld_ctl_info).(gtp_ovrld_ctl_info_header).(gie_len)) (ecall_at (encode_gtp_ovrld_ctl_info_ie value.(del_bearer_fail_indctn_sgws_ovrld_ctl_info))) ⨾
    enc_when (nz value.(del_bearer_fail_indctn_priv_ext).(gtp_priv_ext_header).(gie_len)) (ecall_at (encode_gtp_priv_ext_ie value.(del_bearer_fail_indctn_priv_ext)))).

Definition encode_ctxt_rsp (value : ctxt_rsp_t) : ie_encoder :=
  enc_bits (
    ecall_at (encode_gtpv2c_header_t value.(ctxt_rsp_header)) ⨾
    enc_when (nz value.(ctxt_rsp_cause).(gtp_cause_header).(gie_len)) (ecall_at (encode_gtp_cause_ie value.(ctxt_rsp_cause))) ⨾
    enc_when (nz value.(ctxt_rsp_imsi).(gtp_imsi_header).(gie_len)) (ecall_at (encode_gtp_imsi_ie value.(ctxt_rsp_imsi))) ⨾
    enc_when (nz value.(ctxt_rsp_mmesgsnamf_ue_eps_pdn_connections).(gtp_pdn_connection_header).(gie_len)) (ecall_at (encode_gtp_pdn_connection_ie value.(ctxt_rsp_mmesgsnamf_ue_eps_pdn_connections))) ⨾
    enc_when (nz value.(ctxt_rsp_sender_fteid_ctl_plane).(gtp_fully_qual_tunn_endpt_idnt_header).(gie_len)) (ecall_at (encode_gtp_fully_qual_tunn_endpt_idnt_ie value.(ctxt_rsp_sender_fteid_ctl_plane))) ⨾
    enc_when (nz value.(ctxt_rsp_sgw_s11s4_ip_addr_and_teid_ctl_plane).(gtp_fully_qual_tunn_endpt_idnt_header).(gie_len)) (ecall_at (encode_gtp_fully_qual_tunn_endpt_idnt_ie value.(ctxt_rsp_sgw_s11s4_ip_addr_and_teid_ctl_plane))) ⨾
    enc_when (nz value.(ctxt_rsp_sgw_node_name).(gtp_fully_qual_domain_name_header).(gie_len)) (ecall_at (encode_gtp_fully_qual_domain_name_ie value.(ctxt_rsp_sgw_node_name))) ⨾
    enc_when (nz value.(ctxt_rsp_indctn_flgs).(gtp_indication_header).(gie_len)) (ecall_at (encode_gtp_indication_ie value.(ctxt_rsp_indctn_flgs))) ⨾
    enc_when (nz value.(ctxt_rsp_trc_info).(gtp_trc_info_header).(gie_len)) (ecall_at (encode_gtp_trc_info_ie value.(ctxt_rsp_trc_info))) ⨾
    enc_when (nz value.(ctxt_rsp_hrpd_acc_node_s101_ip_addr).(gtp_ip_address_header).(gie_len)) (ecall_at (encode_gtp_ip_address_ie value.(ctxt_rsp_hrpd_acc_node_s101_ip_addr))) ⨾
    enc_when (nz value.(ctxt_rsp_onexiws_sone02_ip_addr).(gtp_ip_address_header).(gie_len)) (ecall_at (encode_gtp_ip_address_ie value.(ctxt_rsp_onexiws_sone02_ip_addr))) ⨾
    enc_when (nz value.(ctxt_rsp_subscrbd_rfsp_idx).(gtp_rfsp_index_header).(gie_len)) (ecall_at (encode_gtp_rfsp_index_ie value.(ctxt_rsp_subscrbd_rfsp_idx))) ⨾
    enc_when (nz value.(ctxt_rsp_rfsp_idx_in_use).(gtp_rfsp_index_header).(gie_len)) (ecall_at (encode_gtp_rfsp_index_ie value.(ctxt_rsp_rfsp_idx_in_use))) ⨾
    enc_when (nz value.(ctxt_rsp_ue_time_zone).(gtp_ue_time_zone_header).(gie_len)) (ecall_at (encode_gtp_ue_time_zone_ie value.(ctxt_rsp_ue_time_zone))) ⨾
    enc_when (nz value.(ctxt_rsp_mmes4_sgsn_ldn).(gtp_local_distgsd_name_header).(gie_len)) (ecall_at (encode_gtp_local_distgsd_name_ie value.(ctxt_rsp_mmes4_sgsn_ldn))) ⨾
    enc_when (nz value.(ctxt_rsp_mdt_cfg).(gtp_mdt_cfg_header).(gie_len)) (ecall_at (encode_gtp_mdt_cfg_ie value.(ctxt_rsp_mdt_cfg))) ⨾
    enc_when (nz value.(ctxt_rsp_sgsn_node_name).(gtp_fully_qual_domain_name_header).(gie_len)) (ecall_at (encode_gtp_fully_qual_domain_name_ie value.(ctxt_rsp_sgsn_node_name))) ⨾
    enc_when (nz value.(ctxt_rsp_mme_node_name).(gtp_fully_qual_domain_name_header).(gie_len)) (ecall_at (encode_gtp_fully_qual_domain_name_ie value.(ctxt_rsp_mme_node_name))) ⨾
    enc_when (nz value.(ctxt_rsp_uci).(gtp_user_csg_info_header).(gie_len)) (ecall_at (encode_gtp_user_csg_info_ie value.(ctxt_rsp_uci))) ⨾
    enc_when (nz value.(ctxt_rsp_mntrng_evnt_info).(gtp_mntrng_evnt_info_header).(gie_len)) (ecall_at (encode_gtp_mntrng_evnt_info_ie value.(ctxt_rsp_mntrng_evnt_info))) ⨾
    enc_when (nz value.(ctxt_rsp_ue_usage_type).(gtp_integer_number_header).(gie_len)) (ecall_at (encode_gtp_integer_number_ie value.(ctxt_rsp_ue_usage_type))) ⨾
    enc_when (nz value.(ctxt_rsp_mmesgsn_ue_scef_pdn_connections).(gtp_scef_pdn_conn_header).(gie_len)) (ecall_at (encode_gtp_scef_pdn_conn_ie value.(ctxt_rsp_mmesgsn_ue_scef_pdn_connections))) ⨾
    enc_when (nz value.(ctxt_rsp_rat_type).(gtp_rat_type_header).(gie_len)) (ecall_at (encode_gtp_rat_type_ie value.(ctxt_rsp_rat_type))) ⨾
    enc_when (nz value.(ctxt_rsp_srvng_plmn_rate_ctl).(gtp_srvng_plmn_rate_ctl_header).(gie_len)) (ecall_at (encode_gtp_srvng_plmn_rate_ctl_ie value.(ctxt_rsp_srvng_plmn_rate_ctl))) ⨾
    enc_when (nz value.(ctxt_rsp_mo_exception_data_cntr).(gtp_counter_header).(gie_len)) (ecall_at (encode_gtp_counter_ie value.(ctxt_rsp_mo_exception_data_cntr))) ⨾
    enc_when (nz value.(ctxt_rsp_rem_running_svc_gap_timer).(gtp_integer_number_header).(gie_len)) (ecall_at (encode_gtp_integer_number_ie value.(ctxt_rsp_rem_running_svc_gap_timer))) ⨾
    enc_when (nz value.(ctxt_rsp_priv_ext).(gtp_priv_ext_header).(gie_len)) (ecall_at (encode_gtp_priv_ext_ie value.(ctxt_rsp_priv_ext)))).

Definition encode_gtp_mod_bearer_response_bearer_ctxt_modified_ie (value : gtp_mod_bearer_response_bearer_ctxt_modified_ie_t) : ie_encoder :=
  enc_bits (
    ecall (encode_ie_header_t value.(gtp_mod_bearer_response_bearer_ctxt_modified_header)) ⨾
    enc_to_bytes ⨾
    enc_when (nz value.(gtp_mod_bearer_response_bearer_ctxt_modified_eps_bearer_id).(gtp_eps_bearer_id_header).(gie_len)) (ecall_at (encode_gtp_eps_bearer_id_ie value.(gtp_mod_bearer_response_bearer_ctxt_modified_eps_bearer_id))) ⨾
    enc_when (nz value.(gtp_mod_bearer_response_bearer_ctxt_modified_cause).(gtp_cause_header).(gie_len)) (ecall_at (encode_gtp_cause_ie value.(gtp_mod_bearer_response_bearer_ctxt_modified_cause))) ⨾
    enc_when (nz value.(gtp_mod_bearer_response_bearer_ctxt_modified_s1u_sgw_fteid).(gtp_fully_qual_tunn_endpt_idnt_header).(gie_len)) (ecall_at (encode_gtp_fully_qual_tunn_endpt_idnt_ie value.(gtp_mod_bearer_response_bearer_ctxt_modified_s1u_sgw_fteid))) ⨾
    enc_when (nz value.(gtp_mod_bearer_response_bearer_ctxt_modified_s12_sgw_fteid).(gtp_fully_qual_tunn_endpt_idnt_header).(gie_len)) (ecall_at (encode_gtp_fully_qual_tunn_endpt_idnt_ie value.(gtp_mod_bearer_response_bearer_ctxt_modified_s12_sgw_fteid))) ⨾
    enc_when (nz value.(gtp_mod_bearer_response_bearer_ctxt_modified_s4_u_sgw_fteid).(gtp_fully_qual_tunn_endpt_idnt_header).(gie_len)) (ecall_at (encode_gtp_fully_qual_tunn_endpt_idnt_ie value.(gtp_mod_bearer_response_bearer_ctxt_modified_s4_u_sgw_fteid))) ⨾
    enc_when (nz value.(gtp_mod_bearer_response_bearer_ctxt_modified_charging_id).(gtp_charging_id_header).(gie_len)) (ecall_at (encode_gtp_charging_id_ie value.(gtp_mod_bearer_response_bearer_ctxt_modified_charging_id))) ⨾
    enc_when (nz value.(gtp_mod_bearer_response_bearer_ctxt_modified_bearer_flags).(gtp_bearer_flags_header).(gie_len)) (ecall_at (encode_gtp_bearer_flags_ie value.(gtp_mod_bearer_response_bearer_ctxt_modified_bearer_flags))) ⨾
    enc_when (nz value.(gtp_mod_bearer_response_bearer_ctxt_modified_s11_u_sgw_fteid).(gtp_fully_qual_tunn_endpt_idnt_header).(gie_len)) (ecall_at (encode_gtp_fully_qual_tunn_endpt_idnt_ie value.(gtp_mod_bearer_response_bearer_ctxt_modified_s11_u_sgw_fteid)))).

Definition encode_gtp_mod_bearer_response_bearer_ctxt_marked_removal_ie (value : gtp_mod_bearer_response_bearer_ctxt_marked_removal_ie_t) : ie_encoder :=
  enc_bits (
    ecall (encode_ie_header_t value.(gtp_mod_bearer_response_bearer_ctxt_marked_removal_header)) ⨾
    enc_to_bytes ⨾
    enc_when (nz value.(gtp_mod_bearer_response_bearer_ctxt_marked_removal_eps_bearer_id).(gtp_eps_bearer_id_header).(gie_len)) (ecall_at (encode_gtp_eps_bearer_id_ie value.(gtp_mod_bearer_response_bearer_ctxt_marked_removal_eps_bearer_id))) ⨾
    enc_when (nz value.(gtp_mod_bearer_response_bearer_ctxt_marked_removal_cause).(gtp_cause_header).(gie_len)) (ecall_at (encode_gtp_cause_ie value.(gtp_mod_bearer_response_bearer_ctxt_marked_removal_cause)))).

Definition encode_mod_bearer_rsp (value : mod_bearer_rsp_t) : ie_encoder :=
  enc_bits (
    ecall_at (encode_gtpv2c_header_t value.(mod_bearer_rsp_header)) ⨾
    enc_when (nz value.(mod_bearer_rsp_cause).(gtp_cause_header).(gie_len)) (ecall_at (encode_gtp_cause_ie value.(mod_bearer_rsp_cause))) ⨾
    enc_when (nz value.(mod_bearer_rsp_msisdn).(gtp_msisdn_header).(gie_len)) (ecall_at (encode_gtp_msisdn_ie value.(mod_bearer_rsp_msisdn))) ⨾
    enc_when (nz value.(mod_bearer_rsp_linked_eps_bearer_id).(gtp_eps_bearer_id_header).(gie_len)) (ecall_at (encode_gtp_eps_bearer_id_ie value.(mod_bearer_rsp_linked_eps_bearer_id))) ⨾
    enc_when (nz value.(mod_bearer_rsp_apn_restriction).(gtp_apn_restriction_header).(gie_len)) (ecall_at (encode_gtp_apn_restriction_ie value.(mod_bearer_rsp_apn_restriction))) ⨾
    enc_when (nz value.(mod_bearer_rsp_pco).(gtp_prot_cfg_opts_header).(gie_len)) (ecall_at (encode_gtp_prot_cfg_opts_ie value.(mod_bearer_rsp_pco))) ⨾
    enc_when (nz value.(mod_bearer_rsp_bearer_contexts_modified).(gtp_mod_bearer_response_bearer_ctxt_modified_header).(gie_len)) (ecall_at (encode_gtp_mod_bearer_response_bearer_ctxt_modified_ie value.(mod_bearer_rsp_bearer_contexts_modified))) ⨾
    enc_when (nz value.(mod_bearer_rsp_bearer_contexts_marked_removal).(gtp_mod_bearer_response_bearer_ctxt_marked_removal_header).(gie_len)) (ecall_at (encode_gtp_mod_bearer_response_bearer_ctxt_marked_removal_ie value.(mod_bearer_rsp_bearer_contexts_marked_removal))) ⨾
    enc_when (nz value.(mod_bearer_rsp_chg_rptng_act).(gtp_chg_rptng_act_header).(gie_len)) (ecall_at (encode_gtp_chg_rptng_act_ie value.(mod_bearer_rsp_chg_rptng_act))) ⨾
    enc_when (nz value.(mod_bearer_rsp_csg_info_rptng_act).(gtp_csg_info_rptng_act_header).(gie_len)) (ecall_at (encode_gtp_csg_info_rptng_act_ie value.(mod_bearer_rsp_csg_info_rptng_act))) ⨾
    enc_when (nz value.(mod_bearer_rsp_henb_info_rptng).(gtp_henb_info_rptng_header).(gie_len)) (ecall_at (encode_gtp_henb_info_rptng_ie value.(mod_bearer_rsp_henb_info_rptng))) ⨾
    enc_when (nz value.(mod_bearer_rsp_chrgng_gateway_name).(gtp_fully_qual_domain_name_header).(gie_len)) (ecall_at (encode_gtp_fully_qual_domain_name_ie value.(mod_bearer_rsp_chrgng_gateway_name))) ⨾
    enc_when (nz value.(mod_bearer_rsp_chrgng_gateway_addr).(gtp_ip_address_header).(gie_len)) (ecall_at (encode_gtp_ip_address_ie value.(mod_bearer_rsp_chrgng_gateway_addr))) ⨾
    enc_when (nz value.(mod_bearer_rsp_pgw_fqcsid).(gtp_fqcsid_header).(gie_len)) (ecall_at (encode_gtp_fqcsid_ie value.(mod_bearer_rsp_pgw_fqcsid))) ⨾
    enc_when (nz value.(mod_bearer_rsp_sgw_fqcsid).(gtp_fqcsid_header).(gie_len)) (ecall_at (encode_gtp_fqcsid_ie value.(mod_bearer_rsp_sgw_fqcsid))) ⨾
    enc_when (nz value.(mod_bearer_rsp_recovery).(gtp_recovery_header).(gie_len)) (ecall_at (encode_gtp_recovery_ie value.(mod_bearer_rsp_recovery))) ⨾
    enc_when (nz value.(mod_bearer_rsp_sgw_ldn).(gtp_local_distgsd_name_header).(gie_len)) (ecall_at (encode_gtp_local_distgsd_name_ie value.(mod_bearer_rsp_sgw_ldn))) ⨾
    enc_when (nz value.(mod_bearer_rsp_pgw_ldn).(gtp_local_distgsd_name_header).(gie_len)) (ecall_at (encode_gtp_local_distgsd_name_ie value.(mod_bearer_rsp_pgw_ldn))) ⨾
    enc_when (nz value.(mod_bearer_rsp_indctn_flgs).(gtp_indication_header).(gie_len)) (ecall_at (encode_gtp_indication_ie value.(mod_bearer_rsp_indctn_flgs))) ⨾
    enc_when (nz value.(mod_bearer_rsp_pres_rptng_area_act).(gtp_pres_rptng_area_act_header).(gie_len)) (ecall_at (encode_gtp_pres_rptng_area_act_ie value.(mod_bearer_rsp_pres_rptng_area_act))) ⨾
    enc_when (nz value.(mod_bearer_rsp_pgws_node_lvl_load_ctl_info).(gtp_load_ctl_info_header).(gie_len)) (ecall_at (encode_gtp_load_ctl_info_ie value.(mod_bearer_rsp_pgws_node_lvl_load_ctl_info))) ⨾
    enc_when (nz value.(mod_bearer_rsp_pgws_apn_lvl_load_ctl_info).(gtp_load_ctl_info_header).(gie_len)) (ecall_at (encode_gtp_load_ctl_info_ie value.(mod_bearer_rsp_pgws_apn_lvl_load_ctl_info))) ⨾
    enc_when (nz value.(mod_bearer_rsp_sgws_node_lvl_load_ctl_info).(gtp_load_ctl_info_header).(gie_len)) (ecall_at (encode_gtp_load_ctl_info_ie value.(mod_bearer_rsp_sgws_node_lvl_load_ctl_info))) ⨾
    enc_when (nz value.(mod_bearer_rsp_pgws_ovrld_ctl_info).(gtp_ovrld_ctl_info_header).(gie_len)) (ecall_at (encode_gtp_ovrld_ctl_info_ie value.(mod_bearer_rsp_pgws_ovrld_ctl_info))) ⨾
    enc_when (nz value.(mod_bearer_rsp_sgws_ovrld_ctl_info).(gtp_ovrld_ctl_info_header).(gie_len)) (ecall_at (encode_gtp_ovrld_ctl_info_ie value.(mod_bearer_rsp_sgws_ovrld_ctl_info))) ⨾
    enc_when (nz value.(mod_bearer_rsp_pdn_conn_chrgng_id).(gtp_charging_id_header).(gie_len)) (ecall_at (encode_gtp_charging_id_ie value.(mod_bearer_rsp_pdn_conn_chrgng_id))) ⨾
    enc_when (nz value.(mod_bearer_rsp_priv_ext).(gtp_priv_ext_header).(gie_len)) (ecall_at (encode_gtp_priv_ext_ie value.(mod_bearer_rsp_priv_ext)))).

Definition encode_gtp_create_sess_request__remote_ue_ctxt_connected_ie (value : gtp_create_sess_request__remote_ue_ctxt_connected_ie_t) : ie_encoder :=
  enc_bits (
    ecall (encode_ie_header_t value.(gtp_create_sess_request__remote_ue_ctxt_connected_header)) ⨾
    enc_to_bytes ⨾
    enc_when (nz value.(gtp_create_sess_request__remote_ue_ctxt_connected_remote_user_id).(gtp_remote_user_id_header).(gie_len)) (ecall_at (encode_gtp_remote_user_id_ie value.(gtp_create_sess_request__remote_ue_ctxt_connected_remote_user_id))) ⨾
    enc_when (nz value.(gtp_create_sess_request__remote_ue_ctxt_connected_rmt_ue_ip_info).(gtp_rmt_ue_ip_info_header).(gie_len)) (ecall_at (encode_gtp_rmt_ue_ip_info_ie value.(gtp_create_sess_request__remote_ue_ctxt_connected_rmt_ue_ip_info)))).

Definition encode_gtp_mod_bearer_command__overload_ctl_info_ie (value : gtp_mod_bearer_command__overload_ctl_info_ie_t) : ie_encoder :=
  enc_bits (
    ecall (encode_ie_header_t value.(gtp_mod_bearer_command__overload_ctl_info_header)) ⨾
    enc_to_bytes ⨾
    enc_when (nz value.(gtp_mod_bearer_command__overload_ctl_info_ovrld_ctl_seqn_nbr).(gtp_sequence_number_header).(gie_len)) (ecall_at (encode_gtp_sequence_number_ie value.(gtp_mod_bearer_command__overload_ctl_info_ovrld_ctl_seqn_nbr))) ⨾
    enc_when (nz value.(gtp_mod_bearer_command__overload_ctl_info_ovrld_reduction_metric).(gtp_metric_header).(gie_len)) (ecall_at (encode_gtp_metric_ie value.(gtp_mod_bearer_command__overload_ctl_info_ovrld_reduction_metric))) ⨾
    enc_when (nz value.(gtp_mod_bearer_command__overload_ctl_info_prd_of_validity).(gtp_epc_timer_header).(gie_len)) (ecall_at (encode_gtp_epc_timer_ie value.(gtp_mod_bearer_command__overload_ctl_info_prd_of_validity)))).

Definition encode_mbms_sess_start_rsp (value : mbms_sess_start_rsp_t) : ie_encoder :=
  enc_bits (
    ecall_at (encode_gtpv2c_header_t value.(mbms_sess_start_rsp_header)) ⨾
    enc_when (nz value.(mbms_sess_start_rsp_cause).(gtp_cause_header).(gie_len)) (ecall_at (encode_gtp_cause_ie value.(mbms_sess_start_rsp_cause))) ⨾
    enc_when (nz value.(mbms_sess_start_rsp_sender_fteid_ctl_plane).(gtp_fully_qual_tunn_endpt_idnt_header).(gie_len)) (ecall_at (encode_gtp_fully_qual_tunn_endpt_idnt_ie value.(mbms_sess_start_rsp_sender_fteid_ctl_plane))) ⨾
    enc_when (nz value.(mbms_sess_start_rsp_mbms_dist_ack).(gtp_mbms_dist_ack_header).(gie_len)) (ecall_at (encode_gtp_mbms_dist_ack_ie value.(mbms_sess_start_rsp_mbms_dist_ack))) ⨾
    enc_when (nz value.(mbms_sess_start_rsp_sn_u_sgsn_fteid).(gtp_fully_qual_tunn_endpt_idnt_header).(gie_len)) (ecall_at (encode_gtp_fully_qual_tunn_endpt_idnt_ie value.(mbms_sess_start_rsp_sn_u_sgsn_fteid))) ⨾
    enc_when (nz value.(mbms_sess_start_rsp_recovery).(gtp_recovery_header).(gie_len)) (ecall_at (encode_gtp_recovery_ie value.(mbms_sess_start_rsp_recovery))) ⨾
    enc_when (nz value.(mbms_sess_start_rsp_priv_ext).(gtp_priv_ext_header).(gie_len)) (ecall_at (encode_gtp_priv_ext_ie value.(mbms_sess_start_rsp_priv_ext)))).

Definition encode_context_request (value : context_request_t) : ie_encoder :=
  enc_bits (
    ecall_at (encode_gtpv2c_header_t value.(context_request_header)) ⨾
    enc_when (nz value.(context_request_imsi).(gtp_imsi_header).(gie_len)) (ecall_at (encode_gtp_imsi_ie value.(context_request_imsi))) ⨾
    enc_when (nz value.(context_request_guti).(gtp_guti_header).(gie_len)) (ecall_at (encode_gtp_guti_ie value.(context_request_guti))) ⨾
    enc_when (nz value.(context_request_rai).(gtp_user_loc_info_header).(gie_len)) (ecall_at (encode_gtp_user_loc_info_ie value.(context_request_rai))) ⨾
    enc_when (nz value.(context_request_ptmsi).(gtp_ptmsi_header).(gie_len)) (ecall_at (encode_gtp_ptmsi_ie value.(context_request_ptmsi))) ⨾
    enc_when (nz value.(context_request_ptmsi_signature).(gtp_ptmsi_signature_header).(gie_len)) (ecall_at (encode_gtp_ptmsi_signature_ie value.(context_request_ptmsi_signature))) ⨾
    enc_when (nz value.(context_request_cmplt_tau_req_msg).(gtp_cmplt_req_msg_header).(gie_len)) (ecall_at (encode_gtp_cmplt_req_msg_ie value.(context_request_cmplt_tau_req_msg))) ⨾
    enc_when (nz value.(context_request_s3s16s10n26_addr_and_teid_ctl_plane).(gtp_fully_qual_tunn_endpt_idnt_header).(gie_len)) (ecall_at (encode_gtp_fully_qual_tunn_endpt_idnt_ie value.(context_request_s3s16s10n26_addr_and_teid_ctl_plane))) ⨾
    enc_when (nz value.(context_request_udp_src_port_nbr).(gtp_port_number_header).(gie_len)) (ecall_at (encode_gtp_port_number_ie value.(context_request_udp_src_port_nbr))) ⨾
    enc_when (nz value.(context_request_rat_type).(gtp_rat_type_header).(gie_len)) (ecall_at (encode_gtp_rat_type_ie value.(context_request_rat_type))) ⨾
    enc_when (nz value.(context_request_indication).(gtp_indication_header).(gie_len)) (ecall_at (encode_gtp_indication_ie value.(context_request_indication))) ⨾
    enc_when (nz value.(context_request_hop_counter).(gtp_hop_counter_header).(gie_len)) (ecall_at (encode_gtp_hop_counter_ie value.(context_request_hop_counter))) ⨾
    enc_when (nz value.(context_request_target_plmn_id).(gtp_serving_network_header).(gie_len)) (ecall_at (encode_gtp_serving_network_ie value.(context_request_target_plmn_id))) ⨾
    enc_when (nz value.(context_request_mmes4_sgsn_ldn).(gtp_local_distgsd_name_header).(gie_len)) (ecall_at (encode_gtp_local_distgsd_name_ie value.(context_request_mmes4_sgsn_ldn))) ⨾
    enc_when (nz value.(context_request_sgsn_node_name).(gtp_fully_qual_domain_name_header).(gie_len)) (ecall_at (encode_gtp_fully_qual_domain_name_ie value.(context_request_sgsn_node_name))) ⨾
    enc_when (nz value.(context_request_mme_node_name).(gtp_fully_qual_domain_name_header).(gie_len)) (ecall_at (encode_gtp_fully_qual_domain_name_ie value.(context_request_mme_node_name))) ⨾
    enc_when (nz value.(context_request_sgsn_number).(gtp_node_number_header).(gie_len)) (ecall_at (encode_gtp_node_number_ie value.(context_request_sgsn_number))) ⨾
    enc_when (nz value.(context_request_sgsn_identifier).(gtp_node_identifier_header).(gie_len)) (ecall_at (encode_gtp_node_identifier_ie value.(context_request_sgsn_identifier))) ⨾
    enc_when (nz value.(context_request_mme_identifier).(gtp_node_identifier_header).(gie_len)) (ecall_at (encode_gtp_node_identifier_ie value.(context_request_mme_identifier))) ⨾
    enc_when (nz value.(context_request_ciot_optim_supp_indctn).(gtp_ciot_optim_supp_indctn_header).(gie_len)) (ecall_at (encode_gtp_ciot_optim_supp_indctn_ie value.(context_request_ciot_optim_supp_indctn))) ⨾
    enc_when (nz value.(context_request_priv_ext).(gtp_priv_ext_header).(gie_len)) (ecall_at (encode_gtp_priv_ext_ie value.(context_request_priv_ext)))).

Definition encode_gtp_fwd_reloc_request__mme_ue_scef_pdn_connections_ie (value : gtp_fwd_reloc_request__mme_ue_scef_pdn_connections_ie_t) : ie_encoder :=
  enc_bits (
    ecall (encode_ie_header_t value.(gtp_fwd_reloc_request__mme_ue_scef_pdn_connections_header)) ⨾
    enc_to_bytes ⨾
    enc_when (nz value.(gtp_fwd_reloc_request__mme_ue_scef_pdn_connections_apn).(gtp_acc_pt_name_header).(gie_len)) (ecall_at (encode_gtp_acc_pt_name_ie value.(gtp_fwd_reloc_request__mme_ue_scef_pdn_connections_apn))) ⨾
    enc_when (nz value.(gtp_fwd_reloc_request__mme_ue_scef_pdn_connections_dflt_eps_bearer_id).(gtp_eps_bearer_id_header).(gie_len)) (ecall_at (encode_gtp_eps_bearer_id_ie value.(gtp_fwd_reloc_request__mme_ue_scef_pdn_connections_dflt_eps_bearer_id))) ⨾
    enc_when (nz value.(gtp_fwd_reloc_request__mme_ue_scef_pdn_connections_scef_id).(gtp_node_identifier_header).(gie_len)) (ecall_at (encode_gtp_node_identifier_ie value.(gtp_fwd_reloc_request__mme_ue_scef_pdn_connections_scef_id)))).

Definition encode_mbms_sess_upd_req (value : mbms_sess_upd_req_t) : ie_encoder :=
  enc_bits (
    ecall_at (encode_gtpv2c_header_t value.(mbms_sess_upd_req_header)) ⨾
    enc_when (nz value.(mbms_sess_upd_req_mbms_svc_area).(gtp_mbms_svc_area_header).(gie_len)) (ecall_at (encode_gtp_mbms_svc_area_ie value.(mbms_sess_upd_req_mbms_svc_area))) ⨾
    enc_when (nz value.(mbms_sess_upd_req_tmgi).(gtp_tmgi_header).(gie_len)) (ecall_at (encode_gtp_tmgi_ie value.(mbms_sess_upd_req_tmgi))) ⨾
    enc_when (nz value.(mbms_sess_upd_req_sender_fteid_ctl_plane).(gtp_fully_qual_tunn_endpt_idnt_header).(gie_len)) (ecall_at (encode_gtp_fully_qual_tunn_endpt_idnt_ie value.(mbms_sess_upd_req_sender_fteid_ctl_plane))) ⨾
    enc_when (nz value.(mbms_sess_upd_req_mbms_sess_dur).(gtp_mbms_sess_dur_header).(gie_len)) (ecall_at (encode_gtp_mbms_sess_dur_ie value.(mbms_sess_upd_req_mbms_sess_dur))) ⨾
    enc_when (nz value.(mbms_sess_upd_req_qos_profile).(gtp_bearer_qlty_of_svc_header).(gie_len)) (ecall_at (encode_gtp_bearer_qlty_of_svc_ie value.(mbms_sess_upd_req_qos_profile))) ⨾
    enc_when (nz value.(mbms_sess_upd_req_mbms_sess_idnt).(gtp_mbms_sess_idnt_header).(gie_len)) (ecall_at (encode_gtp_mbms_sess_idnt_ie value.(mbms_sess_upd_req_mbms_sess_idnt))) ⨾
    enc_when (nz value.(mbms_sess_upd_req_mbms_flow_idnt).(gtp_mbms_flow_idnt_header).(gie_len)) (ecall_at (encode_gtp_mbms_flow_idnt_ie value.(mbms_sess_upd_req_mbms_flow_idnt))) ⨾
    enc_when (nz value.(mbms_sess_upd_req_mbms_time_to_data_xfer).(gtp_mbms_time_to_data_xfer_header).(gie_len)) (ecall_at (encode_gtp_mbms_time_to_data_xfer_ie value.(mbms_sess_upd_req_mbms_time_to_data_xfer))) ⨾
    enc_when (nz value.(mbms_sess_upd_req_mbms_data_xfer_start_upd_stop).(gtp_mbms_data_xfer_abs_time_header).(gie_len)) (ecall_at (encode_gtp_mbms_data_xfer_abs_time_ie value.(mbms_sess_upd_req_mbms_data_xfer_start_upd_stop))) ⨾
    enc_when (nz value.(mbms_sess_upd_req_mbms_cell_list).(gtp_ecgi_list_header).(gie_len)) (ecall_at (encode_gtp_ecgi_list_ie value.(mbms_sess_upd_req_mbms_cell_list))) ⨾
    enc_when (nz value.(mbms_sess_upd_req_priv_ext).(gtp_priv_ext_header).(gie_len)) (ecall_at (encode_gtp_priv_ext_ie value.(mbms_sess_upd_req_priv_ext)))).

Definition encode_gtp_create_sess_response_bearer_ctxt_created_ie (value : gtp_create_sess_response_bearer_ctxt_created_ie_t) : ie_encoder :=
  enc_bits (
    ecall (encode_ie_header_t value.(gtp_create_sess_response_bearer_ctxt_created_header)) ⨾
    enc_to_bytes ⨾
    enc_when (nz value.(gtp_create_sess_response_bearer_ctxt_created_eps_bearer_id).(gtp_eps_bearer_id_header).(gie_len)) (ecall_at (encode_gtp_eps_bearer_id_ie value.(gtp_create_sess_response_bearer_ctxt_created_eps_bearer_id))) ⨾
    enc_when (nz value.(gtp_create_sess_response_bearer_ctxt_created_cause).(gtp_cause_header).(gie_len)) (ecall_at (encode_gtp_cause_ie value.(gtp_create_sess_response_bearer_ctxt_created_cause))) ⨾
    enc_when (nz value.(gtp_create_sess_response_bearer_ctxt_created_s1u_sgw_fteid).(gtp_fully_qual_tunn_endpt_idnt_header).(gie_len)) (ecall_at (encode_gtp_fully_qual_tunn_endpt_idnt_ie value.(gtp_create_sess_response_bearer_ctxt_created_s1u_sgw_fteid))) ⨾
    enc_when (nz value.(gtp_create_sess_response_bearer_ctxt_created_s4_u_sgw_fteid).(gtp_fully_qual_tunn_endpt_idnt_header).(gie_len)) (ecall_at (encode_gtp_fully_qual_tunn_endpt_idnt_ie value.(gtp_create_sess_response_bearer_ctxt_created_s4_u_sgw_fteid))) ⨾
    enc_when (nz value.(gtp_create_sess_response_bearer_ctxt_created_s5s8_u_pgw_fteid).(gtp_fully_qual_tunn_endpt_idnt_header).(gie_len)) (ecall_at (encode_gtp_fully_qual_tunn_endpt_idnt_ie value.(gtp_create_sess_response_bearer_ctxt_created_s5s8_u_pgw_fteid))) ⨾
    enc_when (nz value.(gtp_create_sess_response_bearer_ctxt_created_s12_sgw_fteid).(gtp_fully_qual_tunn_endpt_idnt_header).(gie_len)) (ecall_at (encode_gtp_fully_qual_tunn_endpt_idnt_ie value.(gtp_create_sess_response_bearer_ctxt_created_s12_sgw_fteid))) ⨾
    enc_when (nz value.(gtp_create_sess_response_bearer_ctxt_created_s2b_u_pgw_fteid).(gtp_fully_qual_tunn_endpt_idnt_header).(gie_len)) (ecall_at (encode_gtp_fully_qual_tunn_endpt_idnt_ie value.(gtp_create_sess_response_bearer_ctxt_created_s2b_u_pgw_fteid))) ⨾
    enc_when (nz value.(gtp_create_sess_response_bearer_ctxt_created_s2a_u_pgw_fteid).(gtp_fully_qual_tunn_endpt_idnt_header).(gie_len)) (ecall_at (encode_gtp_fully_qual_tunn_endpt_idnt_ie value.(gtp_create_sess_response_bearer_ctxt_created_s2a_u_pgw_fteid))) ⨾
    enc_when (nz value.(gtp_create_sess_response_bearer_ctxt_created_bearer_lvl_qos).(gtp_bearer_qlty_of_svc_header).(gie_len)) (ecall_at (encode_gtp_bearer_qlty_of_svc_ie value.(gtp_create_sess_response_bearer_ctxt_created_bearer_lvl_qos))) ⨾
    enc_when (nz value.(gtp_create_sess_response_bearer_ctxt_created_charging_id).(gtp_charging_id_header).(gie_len)) (ecall_at (encode_gtp_charging_id_ie value.(gtp_create_sess_response_bearer_ctxt_created_charging_id))) ⨾
    enc_when (nz value.(gtp_create_sess_response_bearer_ctxt_created_bearer_flags).(gtp_bearer_flags_header).(gie_len)) (ecall_at (encode_gtp_bearer_flags_ie value.(gtp_create_sess_response_bearer_ctxt_created_bearer_flags))) ⨾
    enc_when (nz value.(gtp_create_sess_response_bearer_ctxt_created_s11_u_sgw_fteid).(gtp_fully_qual_tunn_endpt_idnt_header).(gie_len)) (ecall_at (encode_gtp_fully_qual_tunn_endpt_idnt_ie value.(gtp_create_sess_response_bearer_ctxt_created_s11_u_sgw_fteid)))).

Definition encode_gtp_create_sess_response_bearer_ctxt_marked_removal_ie (value : gtp_create_sess_response_bearer_ctxt_marked_removal_ie_t) : ie_encoder :=
  enc_bits (
    ecall (encode_ie_header_t value.(gtp_create_sess_response_bearer_ctxt_marked_removal_header)) ⨾
    enc_to_bytes ⨾
    enc_when (nz value.(gtp_create_sess_response_bearer_ctxt_marked_removal_eps_bearer_id).(gtp_eps_bearer_id_header).(gie_len)) (ecall_at (encode_gtp_eps_bearer_id_ie value.(gtp_create_sess_response_bearer_ctxt_marked_removal_eps_bearer_id))) ⨾
    enc_when (nz value.(gtp_create_sess_response_bearer_ctxt_marked_removal_cause).(gtp_cause_header).(gie_len)) (ecall_at (encode_gtp_cause_ie value.(gtp_create_sess_response_bearer_ctxt_marked_removal_cause)))).

Definition encode_create_sess_rsp (value : create_sess_rsp_t) : ie_encoder :=
  enc_bits (
    ecall_at (encode_gtpv2c_header_t value.(create_sess_rsp_header)) ⨾
    enc_when (nz value.(create_sess_rsp_cause).(gtp_cause_header).(gie_len)) (ecall_at (encode_gtp_cause_ie value.(create_sess_rsp_cause))) ⨾
    enc_when (nz value.(create_sess_rsp_chg_rptng_act).(gtp_chg_rptng_act_header).(gie_len)) (ecall_at (encode_gtp_chg_rptng_act_ie value.(create_sess_rsp_chg_rptng_act))) ⨾
    enc_when (nz value.(create_sess_rsp_csg_info_rptng_act).(gtp_csg_info_rptng_act_header).(gie_len)) (ecall_at (encode_gtp_csg_info_rptng_act_ie value.(create_sess_rsp_csg_info_rptng_act))) ⨾
    enc_when (nz value.(create_sess_rsp_henb_info_rptng).(gtp_henb_info_rptng_header).(gie_len)) (ecall_at (encode_gtp_henb_info_rptng_ie value.(create_sess_rsp_henb_info_rptng))) ⨾
    enc_when (nz value.(create_sess_rsp_sender_fteid_ctl_plane).(gtp_fully_qual_tunn_endpt_idnt_header).(gie_len)) (ecall_at (encode_gtp_fully_qual_tunn_endpt_idnt_ie value.(create_sess_rsp_sender_fteid_ctl_plane))) ⨾
    enc_when (nz value.(create_sess_rsp_pgw_s5s8_s2as2b_fteid_pmip_based_intfc_or_gtp_based_ctl_plane_intfc).(gtp_fully_qual_tunn_endpt_idnt_header).(gie_len)) (ecall_at (encode_gtp_fully_qual_tunn_endpt_idnt_ie value.(create_sess_rsp_pgw_s5s8_s2as2b_fteid_pmip_based_intfc_or_gtp_based_ctl_plane_intfc))) ⨾
    enc_when (nz value.(create_sess_rsp_paa).(gtp_pdn_addr_alloc_header).(gie_len)) (ecall_at (encode_gtp_pdn_addr_alloc_ie value.(create_sess_rsp_paa))) ⨾
    enc_when (nz value.(create_sess_rsp_apn_restriction).(gtp_apn_restriction_header).(gie_len)) (ecall_at (encode_gtp_apn_restriction_ie value.(create_sess_rsp_apn_restriction))) ⨾
    enc_when (nz value.(create_sess_rsp_apn_ambr).(gtp_agg_max_bit_rate_header).(gie_len)) (ecall_at (encode_gtp_agg_max_bit_rate_ie value.(create_sess_rsp_apn_ambr))) ⨾
    enc_when (nz value.(create_sess_rsp_linked_eps_bearer_id).(gtp_eps_bearer_id_header).(gie_len)) (ecall_at (encode_gtp_eps_bearer_id_ie value.(create_sess_rsp_linked_eps_bearer_id))) ⨾
    enc_when (nz value.(create_sess_rsp_pco_new).(pco_ie_header).(gie_len)) (ecall_at (encode_pco_ie_t value.(create_sess_rsp_pco_new))) ⨾
    enc_when (nz value.(create_sess_rsp_bearer_contexts_created).(gtp_create_sess_response_bearer_ctxt_created_header).(gie_len)) (ecall_at (encode_gtp_create_sess_response_bearer_ctxt_created_ie value.(create_sess_rsp_bearer_contexts_created))) ⨾
    enc_when (nz value.(create_sess_rsp_bearer_contexts_marked_removal).(gtp_create_sess_response_bearer_ctxt_marked_removal_header).(gie_len)) (ecall_at (encode_gtp_create_sess_response_bearer_ctxt_marked_removal_ie value.(create_sess_rsp_bearer_contexts_marked_removal))) ⨾
    enc_when (nz value.(create_sess_rsp_recovery).(gtp_recovery_header).(gie_len)) (ecall_at (encode_gtp_recovery_ie value.(create_sess_rsp_recovery))) ⨾
    enc_when (nz value.(create_sess_rsp_chrgng_gateway_name).(gtp_fully_qual_domain_name_header).(gie_len)) (ecall_at (encode_gtp_fully_qual_domain_name_ie value.(create_sess_rsp_chrgng_gateway_name))) ⨾
    enc_when (nz value.(create_sess_rsp_chrgng_gateway_addr).(gtp_ip_address_header).(gie_len)) (ecall_at (encode_gtp_ip_address_ie value.(create_sess_rsp_chrgng_gateway_addr))) ⨾
    enc_when (nz value.(create_sess_rsp_sgw_fqcsid).(gtp_fqcsid_header).(gie_len)) (ecall_at (encode_gtp_fqcsid_ie value.(create_sess_rsp_sgw_fqcsid))) ⨾
    enc_when (nz value.(create_sess_rsp_pgw_fqcsid).(gtp_fqcsid_header).(gie_len)) (ecall_at (encode_gtp_fqcsid_ie value.(create_sess_rsp_pgw_fqcsid))) ⨾
    enc_when (nz value.(create_sess_rsp_sgw_ldn).(gtp_local_distgsd_name_header).(gie_len)) (ecall_at (encode_gtp_local_distgsd_name_ie value.(create_sess_rsp_sgw_ldn))) ⨾
    enc_when (nz value.(create_sess_rsp_pgw_ldn).(gtp_local_distgsd_name_header).(gie_len)) (ecall_at (encode_gtp_local_distgsd_name_ie value.(create_sess_rsp_pgw_ldn))) ⨾
    enc_when (nz value.(create_sess_rsp_pgw_back_off_time).(gtp_epc_timer_header).(gie_len)) (ecall_at (encode_gtp_epc_timer_ie value.(create_sess_rsp_pgw_back_off_time))) ⨾
    enc_when (nz value.(create_sess_rsp_apco).(gtp_addtl_prot_cfg_opts_header).(gie_len)) (ecall_at (encode_gtp_addtl_prot_cfg_opts_ie value.(create_sess_rsp_apco))) ⨾
    enc_when (nz value.(create_sess_rsp_trstd_wlan_ipv4_parms).(gtp_ipv4_cfg_parms_header).(gie_len)) (ecall_at (encode_gtp_ipv4_cfg_parms_ie value.(create_sess_rsp_trstd_wlan_ipv4_parms))) ⨾
    enc_when (nz value.(create_sess_rsp_indctn_flgs).(gtp_indication_header).(gie_len)) (ecall_at (encode_gtp_indication_ie value.(create_sess_rsp_indctn_flgs))) ⨾
    enc_when (nz value.(create_sess_rsp_pres_rptng_area_act).(gtp_pres_rptng_area_act_header).(gie_len)) (ecall_at (encode_gtp_pres_rptng_area_act_ie value.(create_sess_rsp_pres_rptng_area_act))) ⨾
    enc_when (nz value.(create_sess_rsp_pgws_node_lvl_load_ctl_info).(gtp_load_ctl_info_header).(gie_len)) (ecall_at (encode_gtp_load_ctl_info_ie value.(create_sess_rsp_pgws_node_lvl_load_ctl_info))) ⨾
    enc_when (nz value.(create_sess_rsp_pgws_apn_lvl_load_ctl_info).(gtp_load_ctl_info_header).(gie_len)) (ecall_at (encode_gtp_load_ctl_info_ie value.(create_sess_rsp_pgws_apn_lvl_load_ctl_info))) ⨾
    enc_when (nz value.(create_sess_rsp_sgws_node_lvl_load_ctl_info).(gtp_load_ctl_info_header).(gie_len)) (ecall_at (encode_gtp_load_ctl_info_ie value.(create_sess_rsp_sgws_node_lvl_load_ctl_info))) ⨾
    enc_when (nz value.(create_sess_rsp_pgws_ovrld_ctl_info).(gtp_ovrld_ctl_info_header).(gie_len)) (ecall_at (encode_gtp_ovrld_ctl_info_ie value.(create_sess_rsp_pgws_ovrld_ctl_info))) ⨾
    enc_when (nz value.(create_sess_rsp_sgws_ovrld_ctl_info).(gtp_ovrld_ctl_info_header).(gie_len)) (ecall_at (encode_gtp_ovrld_ctl_info_ie value.(create_sess_rsp_sgws_ovrld_ctl_info))) ⨾
    enc_when (nz value.(create_sess_rsp_nbifom_cntnr).(gtp_full_qual_cntnr_header).(gie_len)) (ecall_at (encode_gtp_full_qual_cntnr_ie value.(create_sess_rsp_nbifom_cntnr))) ⨾
    enc_when (nz value.(create_sess_rsp_pdn_conn_chrgng_id).(gtp_charging_id_header).(gie_len)) (ecall_at (encode_gtp_charging_id_ie value.(create_sess_rsp_pdn_conn_chrgng_id))) ⨾
    enc_when (nz value.(create_sess_rsp_epco).(gtp_extnded_prot_cfg_opts_header).(gie_len)) (ecall_at (encode_gtp_extnded_prot_cfg_opts_ie value.(create_sess_rsp_epco))) ⨾
    enc_when (nz value.(create_sess_rsp_priv_ext).(gtp_priv_ext_header).(gie_len)) (ecall_at (encode_gtp_priv_ext_ie value.(create_sess_rsp_priv_ext)))).

Definition encode_fwd_acc_ctxt_ack (value : fwd_acc_ctxt_ack_t) : ie_encoder :=
  enc_bits (
    ecall_at (encode_gtpv2c_header_t value.(fwd_acc_ctxt_ack_header)) ⨾
    enc_when (nz value.(fwd_acc_ctxt_ack_cause).(gtp_cause_header).(gie_len)) (ecall_at (encode_gtp_cause_ie value.(fwd_acc_ctxt_ack_cause))) ⨾
    enc_when (nz value.(fwd_acc_ctxt_ack_priv_ext).(gtp_priv_ext_header).(gie_len)) (ecall_at (encode_gtp_priv_ext_ie value.(fwd_acc_ctxt_ack_priv_ext)))).

Definition encode_gtp_create_bearer_request__load_ctl_info_ie (value : gtp_create_bearer_request__load_ctl_info_ie_t) : ie_encoder :=
  enc_bits (
    ecall (encode_ie_header_t value.(gtp_create_bearer_request__load_ctl_info_header)) ⨾
    enc_to_bytes ⨾
    enc_when (nz value.(gtp_create_bearer_request__load_ctl_info_load_ctl_seqn_nbr).(gtp_sequence_number_header).(gie_len)) (ecall_at (encode_gtp_sequence_number_ie value.(gtp_create_bearer_request__load_ctl_info_load_ctl_seqn_nbr))) ⨾
    enc_when (nz value.(gtp_create_bearer_request__load_ctl_info_load_metric).(gtp_metric_header).(gie_len)) (ecall_at (encode_gtp_metric_ie value.(gtp_create_bearer_request__load_ctl_info_load_metric))) ⨾
    enc_when (nz value.(gtp_create_bearer_request__load_ctl_info_list_of_apn_and_rltv_cap).(gtp_apn_and_rltv_cap_header).(gie_len)) (ecall_at (encode_gtp_apn_and_rltv_cap_ie value.(gtp_create_bearer_request__load_ctl_info_list_of_apn_and_rltv_cap)))).

Definition encode_gtp_create_bearer_request_bearer_ctxt_ie (value : gtp_create_bearer_request_bearer_ctxt_ie_t) : ie_encoder :=
  enc_bits (
    ecall (encode_ie_header_t value.(gtp_create_bearer_request_bearer_ctxt_header)) ⨾
    enc_to_bytes ⨾
    enc_when (nz value.(gtp_create_bearer_request_bearer_ctxt_eps_bearer_id).(gtp_eps_bearer_id_header).(gie_len)) (ecall_at (encode_gtp_eps_bearer_id_ie value.(gtp_create_bearer_request_bearer_ctxt_eps_bearer_id))) ⨾
    enc_when (nz value.(gtp_create_bearer_request_bearer_ctxt_tft).(gtp_eps_bearer_lvl_traffic_flow_tmpl_header).(gie_len)) (ecall_at (encode_gtp_eps_bearer_lvl_traffic_flow_tmpl_ie value.(gtp_create_bearer_request_bearer_ctxt_tft))) ⨾
    enc_when (nz value.(gtp_create_bearer_request_bearer_ctxt_s1u_sgw_fteid).(gtp_fully_qual_tunn_endpt_idnt_header).(gie_len)) (ecall_at (encode_gtp_fully_qual_tunn_endpt_idnt_ie value.(gtp_create_bearer_request_bearer_ctxt_s1u_sgw_fteid))) ⨾
    enc_when (nz value.(gtp_create_bearer_request_bearer_ctxt_s58_u_pgw_fteid).(gtp_fully_qual_tunn_endpt_idnt_header).(gie_len)) (ecall_at (encode_gtp_fully_qual_tunn_endpt_idnt_ie value.(gtp_create_bearer_request_bearer_ctxt_s58_u_pgw_fteid))) ⨾
    enc_when (nz value.(gtp_create_bearer_request_bearer_ctxt_s12_sgw_fteid).(gtp_fully_qual_tunn_endpt_idnt_header).(gie_len)) (ecall_at (encode_gtp_fully_qual_tunn_endpt_idnt_ie value.(gtp_create_bearer_request_bearer_ctxt_s12_sgw_fteid))) ⨾
    enc_when (nz value.(gtp_create_bearer_request_bearer_ctxt_s4_u_sgw_fteid).(gtp_fully_qual_tunn_endpt_idnt_header).(gie_len)) (ecall_at (encode_gtp_fully_qual_tunn_endpt_idnt_ie value.(gtp_create_bearer_request_bearer_ctxt_s4_u_sgw_fteid))) ⨾
    enc_when (nz value.(gtp_create_bearer_request_bearer_ctxt_s2b_u_pgw_fteid).(gtp_fully_qual_tunn_endpt_idnt_header).(gie_len)) (ecall_at (encode_gtp_fully_qual_tunn_endpt_idnt_ie value.(gtp_create_bearer_request_bearer_ctxt_s2b_u_pgw_fteid))) ⨾
    enc_when (nz value.(gtp_create_bearer_request_bearer_ctxt_s2a_u_pgw_fteid).(gtp_fully_qual_tunn_endpt_idnt_header).(gie_len)) (ecall_at (encode_gtp_fully_qual_tunn_endpt_idnt_ie value.(gtp_create_bearer_request_bearer_ctxt_s2a_u_pgw_fteid))) ⨾
    enc_when (nz value.(gtp_create_bearer_request_bearer_ctxt_bearer_lvl_qos).(gtp_bearer_qlty_of_svc_header).(gie_len)) (ecall_at (encode_gtp_bearer_qlty_of_svc_ie value.(gtp_create_bearer_request_bearer_ctxt_bearer_lvl_qos))) ⨾
    enc_when (nz value.(gtp_create_bearer_request_bearer_ctxt_charging_id).(gtp_charging_id_header).(gie_len)) (ecall_at (encode_gtp_charging_id_ie value.(gtp_create_bearer_request_bearer_ctxt_charging_id))) ⨾
    enc_when (nz value.(gtp_create_bearer_request_bearer_ctxt_bearer_flags).(gtp_bearer_flags_header).(gie_len)) (ecall_at (encode_gtp_bearer_flags_ie value.(gtp_create_bearer_request_bearer_ctxt_bearer_flags))) ⨾
    enc_when (nz value.(gtp_create_bearer_request_bearer_ctxt_pco).(gtp_prot_cfg_opts_header).(gie_len)) (ecall_at (encode_gtp_prot_cfg_opts_ie value.(gtp_create_bearer_request_bearer_ctxt_pco))) ⨾
    enc_when (nz value.(gtp_create_bearer_request_bearer_ctxt_epco).(gtp_extnded_prot_cfg_opts_header).(gie_len)) (ecall_at (encode_gtp_extnded_prot_cfg_opts_ie value.(gtp_create_bearer_request_bearer_ctxt_epco))) ⨾
    enc_when (nz value.(gtp_create_bearer_request_bearer_ctxt_max_pckt_loss_rate).(gtp_max_pckt_loss_rate_header).(gie_len)) (ecall_at (encode_gtp_max_pckt_loss_rate_ie value.(gtp_create_bearer_request_bearer_ctxt_max_pckt_loss_rate)))).

Definition encode_create_bearer_req (value : create_bearer_req_t) : ie_encoder :=
  enc_bits (
    ecall_at (encode_gtpv2c_header_t value.(create_bearer_req_header)) ⨾
    enc_when (nz value.(create_bearer_req_pti).(gtp_proc_trans_id_header).(gie_len)) (ecall_at (encode_gtp_proc_trans_id_ie value.(create_bearer_req_pti))) ⨾
    enc_when (nz value.(create_bearer_req_lbi).(gtp_eps_bearer_id_header).(gie_len)) (ecall_at (encode_gtp_eps_bearer_id_ie value.(create_bearer_req_lbi))) ⨾
    enc_when (nz value.(create_bearer_req_pco).(gtp_prot_cfg_opts_header).(gie_len)) (ecall_at (encode_gtp_prot_cfg_opts_ie value.(create_bearer_req_pco))) ⨾
    enc_when (nz value.(create_bearer_req_bearer_contexts).(gtp_create_bearer_request_bearer_ctxt_header).(gie_len)) (ecall_at (encode_gtp_create_bearer_request_bearer_ctxt_ie value.(create_bearer_req_bearer_contexts))) ⨾
    enc_when (nz value.(create_bearer_req_pgw_fqcsid).(gtp_fqcsid_header).(gie_len)) (ecall_at (encode_gtp_fqcsid_ie value.(create_bearer_req_pgw_fqcsid))) ⨾
    enc_when (nz value.(create_bearer_req_sgw_fqcsid).(gtp_fqcsid_header).(gie_len)) (ecall_at (encode_gtp_fqcsid_ie value.(create_bearer_req_sgw_fqcsid))) ⨾
    enc_when (nz value.(create_bearer_req_chg_rptng_act).(gtp_chg_rptng_act_header).(gie_len)) (ecall_at (encode_gtp_chg_rptng_act_ie value.(create_bearer_req_chg_rptng_act))) ⨾
    enc_when (nz value.(create_bearer_req_csg_info_rptng_act).(gtp_csg_info_rptng_act_header).(gie_len)) (ecall_at (encode_gtp_csg_info_rptng_act_ie value.(create_bearer_req_csg_info_rptng_act))) ⨾
    enc_when (nz value.(create_bearer_req_henb_info_rptng).(gtp_henb_info_rptng_header).(gie_len)) (ecall_at (encode_gtp_henb_info_rptng_ie value.(create_bearer_req_henb_info_rptng))) ⨾
    enc_when (nz value.(create_bearer_req_pres_rptng_area_act).(gtp_pres_rptng_area_act_header).(gie_len)) (ecall_at (encode_gtp_pres_rptng_area_act_ie value.(create_bearer_req_pres_rptng_area_act))) ⨾
    enc_when (nz value.(create_bearer_req_indctn_flgs).(gtp_indication_header).(gie_len)) (ecall_at (encode_gtp_indication_ie value.(create_bearer_req_indctn_flgs))) ⨾
    enc_when (nz value.(create_bearer_req_pgws_node_lvl_load_ctl_info).(gtp_load_ctl_info_header).(gie_len)) (ecall_at (encode_gtp_load_ctl_info_ie value.(create_bearer_req_pgws_node_lvl_load_ctl_info))) ⨾
    enc_when (nz value.(create_bearer_req_pgws_apn_lvl_load_ctl_info).(gtp_load_ctl_info_header).(gie_len)) (ecall_at (encode_gtp_load_ctl_info_ie value.(create_bearer_req_pgws_apn_lvl_load_ctl_info))) ⨾
    enc_when (nz value.(create_bearer_req_sgws_node_lvl_load_ctl_info).(gtp_load_ctl_info_header).(gie_len)) (ecall_at (encode_gtp_load_ctl_info_ie value.(create_bearer_req_sgws_node_lvl_load_ctl_info))) ⨾
    enc_when (nz value.(create_bearer_req_pgws_ovrld_ctl_info).(gtp_ovrld_ctl_info_header).(gie_len)) (ecall_at (encode_gtp_ovrld_ctl_info_ie value.(create_bearer_req_pgws_ovrld_ctl_info))) ⨾
    enc_when (nz value.(create_bearer_req_sgws_ovrld_ctl_info).(gtp_ovrld_ctl_info_header).(gie_len)) (ecall_at (encode_gtp_ovrld_ctl_info_ie value.(create_bearer_req_sgws_ovrld_ctl_info))) ⨾
    enc_when (nz value.(create_bearer_req_nbifom_cntnr).(gtp_full_qual_cntnr_header).(gie_len)) (ecall_at (encode_gtp_full_qual_cntnr_ie value.(create_bearer_req_nbifom_cntnr))) ⨾
    enc_when (nz value.(create_bearer_req_priv_ext).(gtp_priv_ext_header).(gie_len)) (ecall_at (encode_gtp_priv_ext_ie value.(create_bearer_req_priv_ext)))).

Definition encode_gtp_create_sess_request__overload_ctl_info_ie (value : gtp_create_sess_request__overload_ctl_info_ie_t) : ie_encoder :=
  enc_bits (
    ecall (encode_ie_header_t value.(gtp_create_sess_request__overload_ctl_info_header)) ⨾
    enc_to_bytes ⨾
    enc_when (nz value.(gtp_create_sess_request__overload_ctl_info_ovrld_ctl_seqn_nbr).(gtp_sequence_number_header).(gie_len)) (ecall_at (encode_gtp_sequence_number_ie value.(gtp_create_sess_request__overload_ctl_info_ovrld_ctl_seqn_nbr))) ⨾
    enc_when (nz value.(gtp_create_sess_request__overload_ctl_info_ovrld_reduction_metric).(gtp_metric_header).(gie_len)) (ecall_at (encode_gtp_metric_ie value.(gtp_create_sess_request__overload_ctl_info_ovrld_reduction_metric))) ⨾
    enc_when (nz value.(gtp_create_sess_request__overload_ctl_info_prd_of_validity).(gtp_epc_timer_header).(gie_len)) (ecall_at (encode_gtp_epc_timer_ie value.(gtp_create_sess_request__overload_ctl_info_prd_of_validity)))).

Definition encode_bearer_rsrc_fail_indctn (value : bearer_rsrc_fail_indctn_t) : ie_encoder :=
  enc_bits (
    ecall_at (encode_gtpv2c_header_t value.(bearer_rsrc_fail_indctn_header)) ⨾
    enc_when (nz value.(bearer_rsrc_fail_indctn_cause).(gtp_cause_header).(gie_len)) (ecall_at (encode_gtp_cause_ie value.(bearer_rsrc_fail_indctn_cause))) ⨾
    enc_when (nz value.(bearer_rsrc_fail_indctn_linked_eps_bearer_id).(gtp_eps_bearer_id_header).(gie_len)) (ecall_at (encode_gtp_eps_bearer_id_ie value.(bearer_rsrc_fail_indctn_linked_eps_bearer_id))) ⨾
    enc_when (nz value.(bearer_rsrc_fail_indctn_pti).(gtp_proc_trans_id_header).(gie_len)) (ecall_at (encode_gtp_proc_trans_id_ie value.(bearer_rsrc_fail_indctn_pti))) ⨾
    enc_when (nz value.(bearer_rsrc_fail_indctn_indctn_flgs).(gtp_indication_header).(gie_len)) (ecall_at (encode_gtp_indication_ie value.(bearer_rsrc_fail_indctn_indctn_flgs))) ⨾
    enc_when (nz value.(bearer_rsrc_fail_indctn_pgws_ovrld_ctl_info).(gtp_ovrld_ctl_info_header).(gie_len)) (ecall_at (encode_gtp_ovrld_ctl_info_ie value.(bearer_rsrc_fail_indctn_pgws_ovrld_ctl_info))) ⨾
    enc_when (nz value.(bearer_rsrc_fail_indctn_sgws_ovrld_ctl_info).(gtp_ovrld_ctl_info_header).(gie_len)) (ecall_at (encode_gtp_ovrld_ctl_info_ie value.(bearer_rsrc_fail_indctn_sgws_ovrld_ctl_info))) ⨾
    enc_when (nz value.(bearer_rsrc_fail_indctn_recovery).(gtp_recovery_header).(gie_len)) (ecall_at (encode_gtp_recovery_ie value.(bearer_rsrc_fail_indctn_recovery))) ⨾
    enc_when (nz value.(bearer_rsrc_fail_indctn_nbifom_cntnr).(gtp_full_qual_cntnr_header).(gie_len)) (ecall_at (encode_gtp_full_qual_cntnr_ie value.(bearer_rsrc_fail_indctn_nbifom_cntnr))) ⨾
    enc_when (nz value.(bearer_rsrc_fail_indctn_priv_ext).(gtp_priv_ext_header).(gie_len)) (ecall_at (encode_gtp_priv_ext_ie value.(bearer_rsrc_fail_indctn_priv_ext)))).

Definition encode_gtp_create_sess_response__overload_ctl_info_ie (value : gtp_create_sess_response__overload_ctl_info_ie_t) : ie_encoder :=
  enc_bits (
    ecall (encode_ie_header_t value.(gtp_create_sess_response__overload_ctl_info_header)) ⨾
    enc_to_bytes ⨾
    enc_when (nz value.(gtp_create_sess_response__overload_ctl_info_ovrld_ctl_seqn_nbr).(gtp_sequence_number_header).(gie_len)) (ecall_at (encode_gtp_sequence_number_ie value.(gtp_create_sess_response__overload_ctl_info_ovrld_ctl_seqn_nbr))) ⨾
    enc_when (nz value.(gtp_create_sess_response__overload_ctl_info_ovrld_reduction_metric).(gtp_metric_header).(gie_len)) (ecall_at (encode_gtp_metric_ie value.(gtp_create_sess_response__overload_ctl_info_ovrld_reduction_metric))) ⨾
    enc_when (nz value.(gtp_create_sess_response__overload_ctl_info_prd_of_validity).(gtp_epc_timer_header).(gie_len)) (ecall_at (encode_gtp_epc_timer_ie value.(gtp_create_sess_response__overload_ctl_info_prd_of_validity))) ⨾
    enc_when (nz value.(gtp_create_sess_response__overload_ctl_info_apn).(gtp_acc_pt_name_header).(gie_len)) (ecall_at (encode_gtp_acc_pt_name_ie value.(gtp_create_sess_response__overload_ctl_info_apn)))).

Definition encode_pgw_dnlnk_trigrng_ack (value : pgw_dnlnk_trigrng_ack_t) : ie_encoder :=
  enc_bits (
    ecall_at (encode_gtpv2c_header_t value.(pgw_dnlnk_trigrng_ack_header)) ⨾
    enc_when (nz value.(pgw_dnlnk_trigrng_ack_cause).(gtp_cause_header).(gie_len)) (ecall_at (encode_gtp_cause_ie value.(pgw_dnlnk_trigrng_ack_cause))) ⨾
    enc_when (nz value.(pgw_dnlnk_trigrng_ack_imsi).(gtp_imsi_header).(gie_len)) (ecall_at (encode_gtp_imsi_ie value.(pgw_dnlnk_trigrng_ack_imsi))) ⨾
    enc_when (nz value.(pgw_dnlnk_trigrng_ack_mmes4_sgsn_idnt).(gtp_ip_address_header).(gie_len)) (ecall_at (encode_gtp_ip_address_ie value.(pgw_dnlnk_trigrng_ack_mmes4_sgsn_idnt))) ⨾
    enc_when (nz value.(pgw_dnlnk_trigrng_ack_priv_ext).(gtp_priv_ext_header).(gie_len)) (ecall_at (encode_gtp_priv_ext_ie value.(pgw_dnlnk_trigrng_ack_priv_ext)))).

Definition encode_gtp_create_bearer_request__overload_ctl_info_ie (value : gtp_create_bearer_request__overload_ctl_info_ie_t) : ie_encoder :=
  enc_bits (
    ecall (encode_ie_header_t value.(gtp_create_bearer_request__overload_ctl_info_header)) ⨾
    enc_to_bytes ⨾
    enc_when (nz value.(gtp_create_bearer_request__overload_ctl_info_ovrld_ctl_seqn_nbr).(gtp_sequence_number_header).(gie_len)) (ecall_at (encode_gtp_sequence_number_ie value.(gtp_create_bearer_request__overload_ctl_info_ovrld_ctl_seqn_nbr))) ⨾
    enc_when (nz value.(gtp_create_bearer_request__overload_ctl_info_ovrld_reduction_metric).(gtp_metric_header).(gie_len)) (ecall_at (encode_gtp_metric_ie value.(gtp_create_bearer_request__overload_ctl_info_ovrld_reduction_metric))) ⨾
    enc_when (nz value.(gtp_create_bearer_request__overload_ctl_info_prd_of_validity).(gtp_epc_timer_header).(gie_len)) (ecall_at (encode_gtp_epc_timer_ie value.(gtp_create_bearer_request__overload_ctl_info_prd_of_validity))) ⨾
    enc_when (nz value.(gtp_create_bearer_request__overload_ctl_info_apn).(gtp_acc_pt_name_header).(gie_len)) (ecall_at (encode_gtp_acc_pt_name_ie value.(gtp_create_bearer_request__overload_ctl_info_apn)))).

Definition encode_gtp_del_sess_request__overload_ctl_info_ie (value : gtp_del_sess_request__overload_ctl_info_ie_t) : ie_encoder :=
  enc_bits (
    ecall (encode_ie_header_t value.(gtp_del_sess_request__overload_ctl_info_header)) ⨾
    enc_to_bytes ⨾
    enc_when (nz value.(gtp_del_sess_request__overload_ctl_info_ovrld_ctl_seqn_nbr).(gtp_sequence_number_header).(gie_len)) (ecall_at (encode_gtp_sequence_number_ie value.(gtp_del_sess_request__overload_ctl_info_ovrld_ctl_seqn_nbr))) ⨾
    enc_when (nz value.(gtp_del_sess_request__overload_ctl_info_ovrld_reduction_metric).(gtp_metric_header).(gie_len)) (ecall_at (encode_gtp_metric_ie value.(gtp_del_sess_request__overload_ctl_info_ovrld_reduction_metric))) ⨾
    enc_when (nz value.(gtp_del_sess_request__overload_ctl_info_prd_of_validity).(gtp_epc_timer_header).(gie_len)) (ecall_at (encode_gtp_epc_timer_ie value.(gtp_del_sess_request__overload_ctl_info_prd_of_validity)))).

Definition encode_echo_response (value : echo_response_t) : ie_encoder :=
  enc_bits (
    ecall_at (encode_gtpv2c_header_t value.(echo_response_header)) ⨾
    enc_when (nz value.(echo_response_recovery).(gtp_recovery_header).(gie_len)) (ecall_at (encode_gtp_recovery_ie value.(echo_response_recovery))) ⨾
    enc_when (nz value.(echo_response_sending_node_feat).(gtp_node_features_header).(gie_len)) (ecall_at (encode_gtp_node_features_ie value.(echo_response_sending_node_feat))) ⨾
    enc_when (nz value.(echo_response_priv_ext).(gtp_priv_ext_header).(gie_len)) (ecall_at (encode_gtp_priv_ext_ie value.(echo_response_priv_ext)))).

Definition encode_mbms_sess_upd_rsp (value : mbms_sess_upd_rsp_t) : ie_encoder :=
  enc_bits (
    ecall_at (encode_gtpv2c_header_t value.(mbms_sess_upd_rsp_header)) ⨾
    enc_when (nz value.(mbms_sess_upd_rsp_cause).(gtp_cause_header).(gie_len)) (ecall_at (encode_gtp_cause_ie value.(mbms_sess_upd_rsp_cause))) ⨾
    enc_when (nz value.(mbms_sess_upd_rsp_mbms_dist_ack).(gtp_mbms_dist_ack_header).(gie_len)) (ecall_at (encode_gtp_mbms_dist_ack_ie value.(mbms_sess_upd_rsp_mbms_dist_ack))) ⨾
    enc_when (nz value.(mbms_sess_upd_rsp_sn_u_sgsn_fteid).(gtp_fully_qual_tunn_endpt_idnt_header).(gie_len)) (ecall_at (encode_gtp_fully_qual_tunn_endpt_idnt_ie value.(mbms_sess_upd_rsp_sn_u_sgsn_fteid))) ⨾
    enc_when (nz value.(mbms_sess_upd_rsp_recovery).(gtp_recovery_header).(gie_len)) (ecall_at (encode_gtp_recovery_ie value.(mbms_sess_upd_rsp_recovery))) ⨾
    enc_when (nz value.(mbms_sess_upd_rsp_priv_ext).(gtp_priv_ext_header).(gie_len)) (ecall_at (encode_gtp_priv_ext_ie value.(mbms_sess_upd_rsp_priv_ext)))).

Definition encode_gtp_del_bearer_fail_indication__bearer_ctxt_ie (value : gtp_del_bearer_fail_indication__bearer_ctxt_ie_t) : ie_encoder :=
  enc_bits (
    ecall (encode_ie_header_t value.(gtp_del_bearer_fail_indication__bearer_ctxt_header)) ⨾
    enc_to_bytes ⨾
    enc_when (nz value.(gtp_del_bearer_fail_indication__bearer_ctxt_eps_bearer_id).(gtp_eps_bearer_id_header).(gie_len)) (ecall_at (encode_gtp_eps_bearer_id_ie value.(gtp_del_bearer_fail_indication__bearer_ctxt_eps_bearer_id))) ⨾
    enc_when (nz value.(gtp_del_bearer_fail_indication__bearer_ctxt_cause).(gtp_cause_header).(gie_len)) (ecall_at (encode_gtp_cause_ie value.(gtp_del_bearer_fail_indication__bearer_ctxt_cause)))).

Definition encode_gtp_del_bearer_command__overload_ctl_info_ie (value : gtp_del_bearer_command__overload_ctl_info_ie_t) : ie_encoder :=
  enc_bits (
    ecall (encode_ie_header_t value.(gtp_del_bearer_command__overload_ctl_info_header)) ⨾
    enc_to_bytes ⨾
    enc_when (nz value.(gtp_del_bearer_command__overload_ctl_info_ovrld_ctl_seqn_nbr).(gtp_sequence_number_header).(gie_len)) (ecall_at (encode_gtp_sequence_number_ie value.(gtp_del_bearer_command__overload_ctl_info_ovrld_ctl_seqn_nbr))) ⨾
    enc_when (nz value.(gtp_del_bearer_command__overload_ctl_info_ovrld_reduction_metric).(gtp_metric_header).(gie_len)) (ecall_at (encode_gtp_metric_ie value.(gtp_del_bearer_command__overload_ctl_info_ovrld_reduction_metric))) ⨾
    enc_when (nz value.(gtp_del_bearer_command__overload_ctl_info_prd_of_validity).(gtp_epc_timer_header).(gie_len)) (ecall_at (encode_gtp_epc_timer_ie value.(gtp_del_bearer_command__overload_ctl_info_prd_of_validity)))).

Definition encode_gtp_fwd_reloc_request__remote_ue_ctxt_connected_ie (value : gtp_fwd_reloc_request__remote_ue_ctxt_connected_ie_t) : ie_encoder :=
  enc_bits (
    ecall (encode_ie_header_t value.(gtp_fwd_reloc_request__remote_ue_ctxt_connected_header)) ⨾
    enc_to_bytes ⨾
    enc_when (nz value.(gtp_fwd_reloc_request__remote_ue_ctxt_connected_remote_user_id).(gtp_remote_user_id_header).(gie_len)) (ecall_at (encode_gtp_remote_user_id_ie value.(gtp_fwd_reloc_request__remote_ue_ctxt_connected_remote_user_id))) ⨾
    enc_when (nz value.(gtp_fwd_reloc_request__remote_ue_ctxt_connected_rmt_ue_ip_info).(gtp_rmt_ue_ip_info_header).(gie_len)) (ecall_at (encode_gtp_rmt_ue_ip_info_ie value.(gtp_fwd_reloc_request__remote_ue_ctxt_connected_rmt_ue_ip_info)))).

Definition encode_mod_acc_bearers_rsp (value : mod_acc_bearers_rsp_t) : ie_encoder :=
  enc_bits (
    ecall_at (encode_gtpv2c_header_t value.(mod_acc_bearers_rsp_header)) ⨾
    enc_when (nz value.(mod_acc_bearers_rsp_cause).(gtp_cause_header).(gie_len)) (ecall_at (encode_gtp_cause_ie value.(mod_acc_bearers_rsp_cause))) ⨾
    enc_when (nz value.(mod_acc_bearers_rsp_bearer_contexts_modified).(gtp_bearer_context_header).(gie_len)) (ecall_at (encode_gtp_bearer_context_ie value.(mod_acc_bearers_rsp_bearer_contexts_modified))) ⨾
    enc_when (nz value.(mod_acc_bearers_rsp_bearer_contexts_marked_removal).(gtp_bearer_context_header).(gie_len)) (ecall_at (encode_gtp_bearer_context_ie value.(mod_acc_bearers_rsp_bearer_contexts_marked_removal))) ⨾
    enc_when (nz value.(mod_acc_bearers_rsp_recovery).(gtp_recovery_header).(gie_len)) (ecall_at (encode_gtp_recovery_ie value.(mod_acc_bearers_rsp_recovery))) ⨾
    enc_when (nz value.(mod_acc_bearers_rsp_indctn_flgs).(gtp_indication_header).(gie_len)) (ecall_at (encode_gtp_indication_ie value.(mod_acc_bearers_rsp_indctn_flgs))) ⨾
    enc_when (nz value.(mod_acc_bearers_rsp_sgws_node_lvl_load_ctl_info).(gtp_load_ctl_info_header).(gie_len)) (ecall_at (encode_gtp_load_ctl_info_ie value.(mod_acc_bearers_rsp_sgws_node_lvl_load_ctl_info))) ⨾
    enc_when (nz value.(mod_acc_bearers_rsp_sgws_ovrld_ctl_info).(gtp_ovrld_ctl_info_header).(gie_len)) (ecall_at (encode_gtp_ovrld_ctl_info_ie value.(mod_acc_bearers_rsp_sgws_ovrld_ctl_info))) ⨾
    enc_when (nz value.(mod_acc_bearers_rsp_priv_ext).(gtp_priv_ext_header).(gie_len)) (ecall_at (encode_gtp_priv_ext_ie value.(mod_acc_bearers_rsp_priv_ext)))).

Definition encode_gtp_mod_acc_bearers_response__overload_ctl_info_ie (value : gtp_mod_acc_bearers_response__overload_ctl_info_ie_t) : ie_encoder :=
  enc_bits (
    ecall (encode_ie_header_t value.(gtp_mod_acc_bearers_response__overload_ctl_info_header)) ⨾
    enc_to_bytes ⨾
    enc_when (nz value.(gtp_mod_acc_bearers_response__overload_ctl_info_ovrld_ctl_seqn_nbr).(gtp_sequence_number_header).(gie_len)) (ecall_at (encode_gtp_sequence_number_ie value.(gtp_mod_acc_bearers_response__overload_ctl_info_ovrld_ctl_seqn_nbr))) ⨾
    enc_when (nz value.(gtp_mod_acc_bearers_response__overload_ctl_info_ovrld_reduction_metric).(gtp_metric_header).(gie_len)) (ecall_at (encode_gtp_metric_ie value.(gtp_mod_acc_bearers_response__overload_ctl_info_ovrld_reduction_metric))) ⨾
    enc_when (nz value.(gtp_mod_acc_bearers_response__overload_ctl_info_prd_of_validity).(gtp_epc_timer_header).(gie_len)) (ecall_at (encode_gtp_epc_timer_ie value.(gtp_mod_acc_bearers_response__overload_ctl_info_prd_of_validity)))).

Definition encode_mod_bearer_fail_indctn (value : mod_bearer_fail_indctn_t) : ie_encoder :=
  enc_bits (
    ecall_at (encode_gtpv2c_header_t value.(mod_bearer_fail_indctn_header)) ⨾
    enc_when (nz value.(mod_bearer_fail_indctn_cause).(gtp_cause_header).(gie_len)) (ecall_at (encode_gtp_cause_ie value.(mod_bearer_fail_indctn_cause))) ⨾
    enc_when (nz value.(mod_bearer_fail_indctn_recovery).(gtp_recovery_header).(gie_len)) (ecall_at (encode_gtp_recovery_ie value.(mod_bearer_fail_indctn_recovery))) ⨾
    enc_when (nz value.(mod_bearer_fail_indctn_indctn_flgs).(gtp_indication_header).(gie_len)) (ecall_at (encode_gtp_indication_ie value.(mod_bearer_fail_indctn_indctn_flgs))) ⨾
    enc_when (nz value.(mod_bearer_fail_indctn_pgws_ovrld_ctl_info).(gtp_ovrld_ctl_info_header).(gie_len)) (ecall_at (encode_gtp_ovrld_ctl_info_ie value.(mod_bearer_fail_indctn_pgws_ovrld_ctl_info))) ⨾
    enc_when (nz value.(mod_bearer_fail_indctn_sgws_ovrld_ctl_info).(gtp_ovrld_ctl_info_header).(gie_len)) (ecall_at (encode_gtp_ovrld_ctl_info_ie value.(mod_bearer_fail_indctn_sgws_ovrld_ctl_info))) ⨾
    enc_when (nz value.(mod_bearer_fail_indctn_priv_ext).(gtp_priv_ext_header).(gie_len)) (ecall_at (encode_gtp_priv_ext_ie value.(mod_bearer_fail_indctn_priv_ext)))).

Definition encode_pgw_rstrt_notif_ack (value : pgw_rstrt_notif_ack_t) : ie_encoder :=
  enc_bits (
    ecall_at (encode_gtpv2c_header_t value.(pgw_rstrt_notif_ack_header)) ⨾
    enc_when (nz value.(pgw_rstrt_notif_ack_cause).(gtp_cause_header).(gie_len)) (ecall_at (encode_gtp_cause_ie value.(pgw_rstrt_notif_ack_cause))) ⨾
    enc_when (nz value.(pgw_rstrt_notif_ack_priv_ext).(gtp_priv_ext_header).(gie_len)) (ecall_at (encode_gtp_priv_ext_ie value.(pgw_rstrt_notif_ack_priv_ext)))).

Definition encode_gtp_ctxt_response__mmesgsn_ue_eps_pdn_connections_ie (value : gtp_ctxt_response__mmesgsn_ue_eps_pdn_connections_ie_t) : ie_encoder :=
  enc_bits (
    ecall (encode_ie_header_t value.(gtp_ctxt_response__mmesgsn_ue_eps_pdn_connections_header)) ⨾
    enc_to_bytes ⨾
    enc_when (nz value.(gtp_ctxt_response__mmesgsn_ue_eps_pdn_connections_apn).(gtp_acc_pt_name_header).(gie_len)) (ecall_at (encode_gtp_acc_pt_name_ie value.(gtp_ctxt_response__mmesgsn_ue_eps_pdn_connections_apn))) ⨾
    enc_when (nz value.(gtp_ctxt_response__mmesgsn_ue_eps_pdn_connections_apn_restriction).(gtp_apn_restriction_header).(gie_len)) (ecall_at (encode_gtp_apn_restriction_ie value.(gtp_ctxt_response__mmesgsn_ue_eps_pdn_connections_apn_restriction))) ⨾
    enc_when (nz value.(gtp_ctxt_response__mmesgsn_ue_eps_pdn_connections_selection_mode).(gtp_selection_mode_header).(gie_len)) (ecall_at (encode_gtp_selection_mode_ie value.(gtp_ctxt_response__mmesgsn_ue_eps_pdn_connections_selection_mode))) ⨾
    enc_when (nz value.(gtp_ctxt_response__mmesgsn_ue_eps_pdn_connections_ipv4_address).(gtp_ip_address_header).(gie_len)) (ecall_at (encode_gtp_ip_address_ie value.(gtp_ctxt_response__mmesgsn_ue_eps_pdn_connections_ipv4_address))) ⨾
    enc_when (nz value.(gtp_ctxt_response__mmesgsn_ue_eps_pdn_connections_ipv6_address).(gtp_ip_address_header).(gie_len)) (ecall_at (encode_gtp_ip_address_ie value.(gtp_ctxt_response__mmesgsn_ue_eps_pdn_connections_ipv6_address))) ⨾
    enc_when (nz value.(gtp_ctxt_response__mmesgsn_ue_eps_pdn_connections_linked_eps_bearer_id).(gtp_eps_bearer_id_header).(gie_len)) (ecall_at (encode_gtp_eps_bearer_id_ie value.(gtp_ctxt_response__mmesgsn_ue_eps_pdn_connections_linked_eps_bearer_id))) ⨾
    enc_when (nz value.(gtp_ctxt_response__mmesgsn_ue_eps_pdn_connections_pgw_s5s8_ip_addr_ctl_plane_or_pmip).(gtp_fully_qual_tunn_endpt_idnt_header).(gie_len)) (ecall_at (encode_gtp_fully_qual_tunn_endpt_idnt_ie value.(gtp_ctxt_response__mmesgsn_ue_eps_pdn_connections_pgw_s5s8_ip_addr_ctl_plane_or_pmip))) ⨾
    enc_when (nz value.(gtp_ctxt_response__mmesgsn_ue_eps_pdn_connections_pgw_node_name).(gtp_fully_qual_domain_name_header).(gie_len)) (ecall_at (encode_gtp_fully_qual_domain_name_ie value.(gtp_ctxt_response__mmesgsn_ue_eps_pdn_connections_pgw_node_name))) ⨾
    enc_when (nz value.(gtp_ctxt_response__mmesgsn_ue_eps_pdn_connections_bearer_contexts).(gtp_bearer_context_header).(gie_len)) (ecall_at (encode_gtp_bearer_context_ie value.(gtp_ctxt_response__mmesgsn_ue_eps_pdn_connections_bearer_contexts))) ⨾
    enc_when (nz value.(gtp_ctxt_response__mmesgsn_ue_eps_pdn_connections_apn_ambr).(gtp_agg_max_bit_rate_header).(gie_len)) (ecall_at (encode_gtp_agg_max_bit_rate_ie value.(gtp_ctxt_response__mmesgsn_ue_eps_pdn_connections_apn_ambr))) ⨾
    enc_when (nz value.(gtp_ctxt_response__mmesgsn_ue_eps_pdn_connections_chrgng_char).(gtp_chrgng_char_header).(gie_len)) (ecall_at (encode_gtp_chrgng_char_ie value.(gtp_ctxt_response__mmesgsn_ue_eps_pdn_connections_chrgng_char))) ⨾
    enc_when (nz value.(gtp_ctxt_response__mmesgsn_ue_eps_pdn_connections_chg_rptng_act).(gtp_chg_rptng_act_header).(gie_len)) (ecall_at (encode_gtp_chg_rptng_act_ie value.(gtp_ctxt_response__mmesgsn_ue_eps_pdn_connections_chg_rptng_act))) ⨾
    enc_when (nz value.(gtp_ctxt_response__mmesgsn_ue_eps_pdn_connections_csg_info_rptng_act).(gtp_csg_info_rptng_act_header).(gie_len)) (ecall_at (encode_gtp_csg_info_rptng_act_ie value.(gtp_ctxt_response__mmesgsn_ue_eps_pdn_connections_csg_info_rptng_act))) ⨾
    enc_when (nz value.(gtp_ctxt_response__mmesgsn_ue_eps_pdn_connections_henb_info_rptng).(gtp_henb_info_rptng_header).(gie_len)) (ecall_at (encode_gtp_henb_info_rptng_ie value.(gtp_ctxt_response__mmesgsn_ue_eps_pdn_connections_henb_info_rptng))) ⨾
    enc_when (nz value.(gtp_ctxt_response__mmesgsn_ue_eps_pdn_connections_indctn_flgs).(gtp_indication_header).(gie_len)) (ecall_at (encode_gtp_indication_ie value.(gtp_ctxt_response__mmesgsn_ue_eps_pdn_connections_indctn_flgs))) ⨾
    enc_when (nz value.(gtp_ctxt_response__mmesgsn_ue_eps_pdn_connections_sgnllng_priority_indctn).(gtp_sgnllng_priority_indctn_header).(gie_len)) (ecall_at (encode_gtp_sgnllng_priority_indctn_ie value.(gtp_ctxt_response__mmesgsn_ue_eps_pdn_connections_sgnllng_priority_indctn))) ⨾
    enc_when (nz value.(gtp_ctxt_response__mmesgsn_ue_eps_pdn_connections_chg_to_rpt_flgs).(gtp_chg_to_rpt_flgs_header).(gie_len)) (ecall_at (encode_gtp_chg_to_rpt_flgs_ie value.(gtp_ctxt_response__mmesgsn_ue_eps_pdn_connections_chg_to_rpt_flgs))) ⨾
    enc_when (nz value.(gtp_ctxt_response__mmesgsn_ue_eps_pdn_connections_local_home_ntwk_id).(gtp_fully_qual_domain_name_header).(gie_len)) (ecall_at (encode_gtp_fully_qual_domain_name_ie value.(gtp_ctxt_response__mmesgsn_ue_eps_pdn_connections_local_home_ntwk_id))) ⨾
    enc_when (nz value.(gtp_ctxt_response__mmesgsn_ue_eps_pdn_connections_pres_rptng_area_act).(gtp_pres_rptng_area_act_header).(gie_len)) (ecall_at (encode_gtp_pres_rptng_area_act_ie value.(gtp_ctxt_response__mmesgsn_ue_eps_pdn_connections_pres_rptng_area_act))) ⨾
    enc_when (nz value.(gtp_ctxt_response__mmesgsn_ue_eps_pdn_connections_wlan_offldblty_indctn).(gtp_wlan_offldblty_indctn_header).(gie_len)) (ecall_at (encode_gtp_wlan_offldblty_indctn_ie value.(gtp_ctxt_response__mmesgsn_ue_eps_pdn_connections_wlan_offldblty_indctn))) ⨾
    enc_when (nz value.(gtp_ctxt_response__mmesgsn_ue_eps_pdn_connections_rmt_ue_ctxt_connected).(gtp_rmt_ue_ctxt_header).(gie_len)) (ecall_at (encode_gtp_rmt_ue_ctxt_ie value.(gtp_ctxt_response__mmesgsn_ue_eps_pdn_connections_rmt_ue_ctxt_connected))) ⨾
    enc_when (nz value.(gtp_ctxt_response__mmesgsn_ue_eps_pdn_connections_pdn_type).(gtp_pdn_type_header).(gie_len)) (ecall_at (encode_gtp_pdn_type_ie value.(gtp_ctxt_response__mmesgsn_ue_eps_pdn_connections_pdn_type))) ⨾
    enc_when (nz value.(gtp_ctxt_response__mmesgsn_ue_eps_pdn_connections_hdr_comp_cfg).(gtp_hdr_comp_cfg_header).(gie_len)) (ecall_at (encode_gtp_hdr_comp_cfg_ie value.(gtp_ctxt_response__mmesgsn_ue_eps_pdn_connections_hdr_comp_cfg)))).

Definition encode_pgw_dnlnk_trigrng_notif (value : pgw_dnlnk_trigrng_notif_t) : ie_encoder :=
  enc_bits (
    ecall_at (encode_gtpv2c_header_t value.(pgw_dnlnk_trigrng_notif_header)) ⨾
    enc_when (nz value.(pgw_dnlnk_trigrng_notif_imsi).(gtp_imsi_header).(gie_len)) (ecall_at (encode_gtp_imsi_ie value.(pgw_dnlnk_trigrng_notif_imsi))) ⨾
    enc_when (nz value.(pgw_dnlnk_trigrng_notif_mmes4_sgsn_idnt).(gtp_ip_address_header).(gie_len)) (ecall_at (encode_gtp_ip_address_ie value.(pgw_dnlnk_trigrng_notif_mmes4_sgsn_idnt))) ⨾
    enc_when (nz value.(pgw_dnlnk_trigrng_notif_pgw_s5_fteid_gtp_or_pmip_ctl_plane).(gtp_fully_qual_tunn_endpt_idnt_header).(gie_len)) (ecall_at (encode_gtp_fully_qual_tunn_endpt_idnt_ie value.(pgw_dnlnk_trigrng_notif_pgw_s5_fteid_gtp_or_pmip_ctl_plane))) ⨾
    enc_when (nz value.(pgw_dnlnk_trigrng_notif_priv_ext).(gtp_priv_ext_header).(gie_len)) (ecall_at (encode_gtp_priv_ext_ie value.(pgw_dnlnk_trigrng_notif_priv_ext)))).

Definition encode_gtp_mod_bearer_response__overload_ctl_info_ie (value : gtp_mod_bearer_response__overload_ctl_info_ie_t) : ie_encoder :=
  enc_bits (
    ecall (encode_ie_header_t value.(gtp_mod_bearer_response__overload_ctl_info_header)) ⨾
    enc_to_bytes ⨾
    enc_when (nz value.(gtp_mod_bearer_response__overload_ctl_info_ovrld_ctl_seqn_nbr).(gtp_sequence_number_header).(gie_len)) (ecall_at (encode_gtp_sequence_number_ie value.(gtp_mod_bearer_response__overload_ctl_info_ovrld_ctl_seqn_nbr))) ⨾
    enc_when (nz value.(gtp_mod_bearer_response__overload_ctl_info_ovrld_reduction_metric).(gtp_metric_header).(gie_len)) (ecall_at (encode_gtp_metric_ie value.(gtp_mod_bearer_response__overload_ctl_info_ovrld_reduction_metric))) ⨾
    enc_when (nz value.(gtp_mod_bearer_response__overload_ctl_info_prd_of_validity).(gtp_epc_timer_header).(gie_len)) (ecall_at (encode_gtp_epc_timer_ie value.(gtp_mod_bearer_response__overload_ctl_info_prd_of_validity))) ⨾
    enc_when (nz value.(gtp_mod_bearer_response__overload_ctl_info_apn).(gtp_acc_pt_name_header).(gie_len)) (ecall_at (encode_gtp_acc_pt_name_ie value.(gtp_mod_bearer_response__overload_ctl_info_apn)))).

Definition encode_id_rsp (value : id_rsp_t) : ie_encoder :=
  enc_bits (
    ecall_at (encode_gtpv2c_header_t value.(id_rsp_header)) ⨾
    enc_when (nz value.(id_rsp_cause).(gtp_cause_header).(gie_len)) (ecall_at (encode_gtp_cause_ie value.(id_rsp_cause))) ⨾
    enc_when (nz value.(id_rsp_imsi).(gtp_imsi_header).(gie_len)) (ecall_at (encode_gtp_imsi_ie value.(id_rsp_imsi))) ⨾
    enc_when (nz value.(id_rsp_trc_info).(gtp_trc_info_header).(gie_len)) (ecall_at (encode_gtp_trc_info_ie value.(id_rsp_trc_info))) ⨾
    enc_when (nz value.(id_rsp_ue_usage_type).(gtp_integer_number_header).(gie_len)) (ecall_at (encode_gtp_integer_number_ie value.(id_rsp_ue_usage_type))) ⨾
    enc_when (nz value.(id_rsp_mntrng_evnt_info).(gtp_mntrng_evnt_info_header).(gie_len)) (ecall_at (encode_gtp_mntrng_evnt_info_ie value.(id_rsp_mntrng_evnt_info))) ⨾
    enc_when (nz value.(id_rsp_priv_ext).(gtp_priv_ext_header).(gie_len)) (ecall_at (encode_gtp_priv_ext_ie value.(id_rsp_priv_ext)))).

Definition encode_gtp_create_indir_data_fwdng_tunn_request__bearer_ctxt_ie (value : gtp_create_indir_data_fwdng_tunn_request__bearer_ctxt_ie_t) : ie_encoder :=
  enc_bits (
    ecall (encode_ie_header_t value.(gtp_create_indir_data_fwdng_tunn_request__bearer_ctxt_header)) ⨾
    enc_to_bytes ⨾
    enc_when (nz value.(gtp_create_indir_data_fwdng_tunn_request__bearer_ctxt_eps_bearer_id).(gtp_eps_bearer_id_header).(gie_len)) (ecall_at (encode_gtp_eps_bearer_id_ie value.(gtp_create_indir_data_fwdng_tunn_request__bearer_ctxt_eps_bearer_id))) ⨾
    enc_when (nz value.(gtp_create_indir_data_fwdng_tunn_request__bearer_ctxt_enb_fteid_dl_data_fwdng).(gtp_fully_qual_tunn_endpt_idnt_header).(gie_len)) (ecall_at (encode_gtp_fully_qual_tunn_endpt_idnt_ie value.(gtp_create_indir_data_fwdng_tunn_request__bearer_ctxt_enb_fteid_dl_data_fwdng))) ⨾
    enc_when (nz value.(gtp_create_indir_data_fwdng_tunn_request__bearer_ctxt_sgsn_fteid_dl_data_fwdng).(gtp_fully_qual_tunn_endpt_idnt_header).(gie_len)) (ecall_at (encode_gtp_fully_qual_tunn_endpt_idnt_ie value.(gtp_create_indir_data_fwdng_tunn_request__bearer_ctxt_sgsn_fteid_dl_data_fwdng))) ⨾
    enc_when (nz value.(gtp_create_indir_data_fwdng_tunn_request__bearer_ctxt_rnc_fteid_dl_data_fwdng).(gtp_fully_qual_tunn_endpt_idnt_header).(gie_len)) (ecall_at (encode_gtp_fully_qual_tunn_endpt_idnt_ie value.(gtp_create_indir_data_fwdng_tunn_request__bearer_ctxt_rnc_fteid_dl_data_fwdng))) ⨾
    enc_when (nz value.(gtp_create_indir_data_fwdng_tunn_request__bearer_ctxt_enb_fteid_ul_data_fwdng).(gtp_fully_qual_tunn_endpt_idnt_header).(gie_len)) (ecall_at (encode_gtp_fully_qual_tunn_endpt_idnt_ie value.(gtp_create_indir_data_fwdng_tunn_request__bearer_ctxt_enb_fteid_ul_data_fwdng))) ⨾
    enc_when (nz value.(gtp_create_indir_data_fwdng_tunn_request__bearer_ctxt_sgw_fteid_ul_data_fwdng).(gtp_fully_qual_tunn_endpt_idnt_header).(gie_len)) (ecall_at (encode_gtp_fully_qual_tunn_endpt_idnt_ie value.(gtp_create_indir_data_fwdng_tunn_request__bearer_ctxt_sgw_fteid_ul_data_fwdng))) ⨾
    enc_when (nz value.(gtp_create_indir_data_fwdng_tunn_request__bearer_ctxt_mme_fteid_dl_data_fwdng).(gtp_fully_qual_tunn_endpt_idnt_header).(gie_len)) (ecall_at (encode_gtp_fully_qual_tunn_endpt_idnt_ie value.(gtp_create_indir_data_fwdng_tunn_request__bearer_ctxt_mme_fteid_dl_data_fwdng)))).

Definition encode_gtp_create_sess_request_bearer_ctxt_to_be_removed_ie (value : gtp_create_sess_request_bearer_ctxt_to_be_removed_ie_t) : ie_encoder :=
  enc_bits (
    ecall (encode_ie_header_t value.(gtp_create_sess_request_bearer_ctxt_to_be_removed_header)) ⨾
    enc_to_bytes ⨾
    enc_when (nz value.(gtp_create_sess_request_bearer_ctxt_to_be_removed_eps_bearer_id).(gtp_eps_bearer_id_header).(gie_len)) (ecall_at (encode_gtp_eps_bearer_id_ie value.(gtp_create_sess_request_bearer_ctxt_to_be_removed_eps_bearer_id))) ⨾
    enc_when (nz value.(gtp_create_sess_request_bearer_ctxt_to_be_removed_s4_u_sgsn_fteid).(gtp_fully_qual_tunn_endpt_idnt_header).(gie_len)) (ecall_at (encode_gtp_fully_qual_tunn_endpt_idnt_ie value.(gtp_create_sess_request_bearer_ctxt_to_be_removed_s4_u_sgsn_fteid)))).

Definition encode_create_sess_req (value : create_sess_req_t) : ie_encoder :=
  enc_bits (
    ecall_at (encode_gtpv2c_header_t value.(create_sess_req_header)) ⨾
    enc_when (nz value.(create_sess_req_imsi).(gtp_imsi_header).(gie_len)) (ecall_at (encode_gtp_imsi_ie value.(create_sess_req_imsi))) ⨾
    enc_when (nz value.(create_sess_req_msisdn).(gtp_msisdn_header).(gie_len)) (ecall_at (encode_gtp_msisdn_ie value.(create_sess_req_msisdn))) ⨾
    enc_when (nz value.(create_sess_req_mei).(gtp_mbl_equip_idnty_header).(gie_len)) (ecall_at (encode_gtp_mbl_equip_idnty_ie value.(create_sess_req_mei))) ⨾
    enc_when (nz value.(create_sess_req_uli).(gtp_user_loc_info_header).(gie_len)) (ecall_at (encode_gtp_user_loc_info_ie value.(create_sess_req_uli))) ⨾
    enc_when (nz value.(create_sess_req_serving_network).(gtp_serving_network_header).(gie_len)) (ecall_at (encode_gtp_serving_network_ie value.(create_sess_req_serving_network))) ⨾
    enc_when (nz value.(create_sess_req_rat_type).(gtp_rat_type_header).(gie_len)) (ecall_at (encode_gtp_rat_type_ie value.(create_sess_req_rat_type))) ⨾
    enc_when (nz value.(create_sess_req_sender_fteid_ctl_plane).(gtp_fully_qual_tunn_endpt_idnt_header).(gie_len)) (ecall_at (encode_gtp_fully_qual_tunn_endpt_idnt_ie value.(create_sess_req_sender_fteid_ctl_plane))) ⨾
    enc_when (nz value.(create_sess_req_pgw_s5s8_addr_ctl_plane_or_pmip).(gtp_fully_qual_tunn_endpt_idnt_header).(gie_len)) (ecall_at (encode_gtp_fully_qual_tunn_endpt_idnt_ie value.(create_sess_req_pgw_s5s8_addr_ctl_plane_or_pmip))) ⨾
    enc_when (nz value.(create_sess_req_apn).(gtp_acc_pt_name_header).(gie_len)) (ecall_at (encode_gtp_acc_pt_name_ie value.(create_sess_req_apn))) ⨾
    enc_when (nz value.(create_sess_req_selection_mode).(gtp_selection_mode_header).(gie_len)) (ecall_at (encode_gtp_selection_mode_ie value.(create_sess_req_selection_mode))) ⨾
    enc_when (nz value.(create_sess_req_pdn_type).(gtp_pdn_type_header).(gie_len)) (ecall_at (encode_gtp_pdn_type_ie value.(create_sess_req_pdn_type))) ⨾
    enc_when (nz value.(create_sess_req_paa).(gtp_pdn_addr_alloc_header).(gie_len)) (ecall_at (encode_gtp_pdn_addr_alloc_ie value.(create_sess_req_paa))) ⨾
    enc_when (nz value.(create_sess_req_max_apn_rstrct).(gtp_apn_restriction_header).(gie_len)) (ecall_at (encode_gtp_apn_restriction_ie value.(create_sess_req_max_apn_rstrct))) ⨾
    enc_when (nz value.(create_sess_req_apn_ambr).(gtp_agg_max_bit_rate_header).(gie_len)) (ecall_at (encode_gtp_agg_max_bit_rate_ie value.(create_sess_req_apn_ambr))) ⨾
    enc_when (nz value.(create_sess_req_linked_eps_bearer_id).(gtp_eps_bearer_id_header).(gie_len)) (ecall_at (encode_gtp_eps_bearer_id_ie value.(create_sess_req_linked_eps_bearer_id))) ⨾
    enc_when (nz value.(create_sess_req_trstd_wlan_mode_indctn).(gtp_trstd_wlan_mode_indctn_header).(gie_len)) (ecall_at (encode_gtp_trstd_wlan_mode_indctn_ie value.(create_sess_req_trstd_wlan_mode_indctn))) ⨾
    enc_when (nz value.(create_sess_req_pco).(gtp_prot_cfg_opts_header).(gie_len)) (ecall_at (encode_gtp_prot_cfg_opts_ie value.(create_sess_req_pco))) ⨾
    enc_when (nz value.(create_sess_req_bearer_contexts_to_be_created).(gtp_create_sess_request_bearer_ctxt_to_be_created_header).(gie_len)) (ecall_at (encode_gtp_create_sess_request_bearer_ctxt_to_be_created_ie value.(create_sess_req_bearer_contexts_to_be_created))) ⨾
    enc_when (nz value.(create_sess_req_bearer_contexts_to_be_removed).(gtp_create_sess_request_bearer_ctxt_to_be_removed_header).(gie_len)) (ecall_at (encode_gtp_create_sess_request_bearer_ctxt_to_be_removed_ie value.(create_sess_req_bearer_contexts_to_be_removed))) ⨾
    enc_when (nz value.(create_sess_req_trc_info).(gtp_trc_info_header).(gie_len)) (ecall_at (encode_gtp_trc_info_ie value.(create_sess_req_trc_info))) ⨾
    enc_when (nz value.(create_sess_req_recovery).(gtp_recovery_header).(gie_len)) (ecall_at (encode_gtp_recovery_ie value.(create_sess_req_recovery))) ⨾
    enc_when (nz value.(create_sess_req_mme_fqcsid).(gtp_fqcsid_header).(gie_len)) (ecall_at (encode_gtp_fqcsid_ie value.(create_sess_req_mme_fqcsid))) ⨾
    enc_when (nz value.(create_sess_req_sgw_fqcsid).(gtp_fqcsid_header).(gie_len)) (ecall_at (encode_gtp_fqcsid_ie value.(create_sess_req_sgw_fqcsid))) ⨾
    enc_when (nz value.(create_sess_req_epdg_fqcsid).(gtp_fqcsid_header).(gie_len)) (ecall_at (encode_gtp_fqcsid_ie value.(create_sess_req_epdg_fqcsid))) ⨾
    enc_when (nz value.(create_sess_req_twan_fqcsid).(gtp_fqcsid_header).(gie_len)) (ecall_at (encode_gtp_fqcsid_ie value.(create_sess_req_twan_fqcsid))) ⨾
    enc_when (nz value.(create_sess_req_ue_time_zone).(gtp_ue_time_zone_header).(gie_len)) (ecall_at (encode_gtp_ue_time_zone_ie value.(create_sess_req_ue_time_zone))) ⨾
    enc_when (nz value.(create_sess_req_uci).(gtp_user_csg_info_header).(gie_len)) (ecall_at (encode_gtp_user_csg_info_ie value.(create_sess_req_uci))) ⨾
    enc_when (nz value.(create_sess_req_chrgng_char).(gtp_chrgng_char_header).(gie_len)) (ecall_at (encode_gtp_chrgng_char_ie value.(create_sess_req_chrgng_char))) ⨾
    enc_when (nz value.(create_sess_req_mmes4_sgsn_ldn).(gtp_local_distgsd_name_header).(gie_len)) (ecall_at (encode_gtp_local_distgsd_name_ie value.(create_sess_req_mmes4_sgsn_ldn))) ⨾
    enc_when (nz value.(create_sess_req_sgw_ldn).(gtp_local_distgsd_name_header).(gie_len)) (ecall_at (encode_gtp_local_distgsd_name_ie value.(create_sess_req_sgw_ldn))) ⨾
    enc_when (nz value.(create_sess_req_epdg_ldn).(gtp_local_distgsd_name_header).(gie_len)) (ecall_at (encode_gtp_local_distgsd_name_ie value.(create_sess_req_epdg_ldn))) ⨾
    enc_when (nz value.(create_sess_req_twan_ldn).(gtp_local_distgsd_name_header).(gie_len)) (ecall_at (encode_gtp_local_distgsd_name_ie value.(create_sess_req_twan_ldn))) ⨾
    enc_when (nz value.(create_sess_req_sgnllng_priority_indctn).(gtp_sgnllng_priority_indctn_header).(gie_len)) (ecall_at (encode_gtp_sgnllng_priority_indctn_ie value.(create_sess_req_sgnllng_priority_indctn))) ⨾
    enc_when (nz value.(create_sess_req_ue_local_ip_addr).(gtp_ip_address_header).(gie_len)) (ecall_at (encode_gtp_ip_address_ie value.(create_sess_req_ue_local_ip_addr))) ⨾
    enc_when (nz value.(create_sess_req_ue_udp_port).(gtp_port_number_header).(gie_len)) (ecall_at (encode_gtp_port_number_ie value.(create_sess_req_ue_udp_port))) ⨾
    enc_when (nz value.(create_sess_req_apco).(gtp_addtl_prot_cfg_opts_header).(gie_len)) (ecall_at (encode_gtp_addtl_prot_cfg_opts_ie value.(create_sess_req_apco))) ⨾
    enc_when (nz value.(create_sess_req_henb_local_ip_addr).(gtp_ip_address_header).(gie_len)) (ecall_at (encode_gtp_ip_address_ie value.(create_sess_req_henb_local_ip_addr))) ⨾
    enc_when (nz value.(create_sess_req_henb_udp_port).(gtp_port_number_header).(gie_len)) (ecall_at (encode_gtp_port_number_ie value.(create_sess_req_henb_udp_port))) ⨾
    enc_when (nz value.(create_sess_req_mmes4_sgsn_idnt).(gtp_ip_address_header).(gie_len)) (ecall_at (encode_gtp_ip_address_ie value.(create_sess_req_mmes4_sgsn_idnt))) ⨾
    enc_when (nz value.(create_sess_req_twan_identifier).(gtp_twan_identifier_header).(gie_len)) (ecall_at (encode_gtp_twan_identifier_ie value.(create_sess_req_twan_identifier))) ⨾
    enc_when (nz value.(create_sess_req_epdg_ip_address).(gtp_ip_address_header).(gie_len)) (ecall_at (encode_gtp_ip_address_ie value.(create_sess_req_epdg_ip_address))) ⨾
    enc_when (nz value.(create_sess_req_cn_oper_sel_entity).(gtp_cn_oper_sel_entity_header).(gie_len)) (ecall_at (encode_gtp_cn_oper_sel_entity_ie value.(create_sess_req_cn_oper_sel_entity))) ⨾
    enc_when (nz value.(create_sess_req_pres_rptng_area_info).(gtp_pres_rptng_area_info_header).(gie_len)) (ecall_at (encode_gtp_pres_rptng_area_info_ie value.(create_sess_req_pres_rptng_area_info))) ⨾
    enc_when (nz value.(create_sess_req_mmes4_sgsns_ovrld_ctl_info).(gtp_ovrld_ctl_info_header).(gie_len)) (ecall_at (encode_gtp_ovrld_ctl_info_ie value.(create_sess_req_mmes4_sgsns_ovrld_ctl_info))) ⨾
    enc_when (nz value.(create_sess_req_sgws_ovrld_ctl_info).(gtp_ovrld_ctl_info_header).(gie_len)) (ecall_at (encode_gtp_ovrld_ctl_info_ie value.(create_sess_req_sgws_ovrld_ctl_info))) ⨾
    enc_when (nz value.(create_sess_req_twanepdgs_ovrld_ctl_info).(gtp_ovrld_ctl_info_header).(gie_len)) (ecall_at (encode_gtp_ovrld_ctl_info_ie value.(create_sess_req_twanepdgs_ovrld_ctl_info))) ⨾
    enc_when (nz value.(create_sess_req_origination_time_stmp).(gtp_msec_time_stmp_header).(gie_len)) (ecall_at (encode_gtp_msec_time_stmp_ie value.(create_sess_req_origination_time_stmp))) ⨾
    enc_when (nz value.(create_sess_req_max_wait_time).(gtp_integer_number_header).(gie_len)) (ecall_at (encode_gtp_integer_number_ie value.(create_sess_req_max_wait_time))) ⨾
    enc_when (nz value.(create_sess_req_wlan_loc_info).(gtp_twan_identifier_header).(gie_len)) (ecall_at (encode_gtp_twan_identifier_ie value.(create_sess_req_wlan_loc_info))) ⨾
    enc_when (nz value.(create_sess_req_wlan_loc_ts).(gtp_twan_idnt_ts_header).(gie_len)) (ecall_at (encode_gtp_twan_idnt_ts_ie value.(create_sess_req_wlan_loc_ts))) ⨾
    enc_when (nz value.(create_sess_req_nbifom_cntnr).(gtp_full_qual_cntnr_header).(gie_len)) (ecall_at (encode_gtp_full_qual_cntnr_ie value.(create_sess_req_nbifom_cntnr))) ⨾
    enc_when (nz value.(create_sess_req_rmt_ue_ctxt_connected).(gtp_rmt_ue_ctxt_header).(gie_len)) (ecall_at (encode_gtp_rmt_ue_ctxt_ie value.(create_sess_req_rmt_ue_ctxt_connected))) ⨾
    enc_when (nz value.(create_sess_req_threegpp_aaa_server_idnt).(gtp_node_identifier_header).(gie_len)) (ecall_at (encode_gtp_node_identifier_ie value.(create_sess_req_threegpp_aaa_server_idnt))) ⨾
    enc_when (nz value.(create_sess_req_epco).(gtp_extnded_prot_cfg_opts_header).(gie_len)) (ecall_at (encode_gtp_extnded_prot_cfg_opts_ie value.(create_sess_req_epco))) ⨾
    enc_when (nz value.(create_sess_req_srvng_plmn_rate_ctl).(gtp_srvng_plmn_rate_ctl_header).(gie_len)) (ecall_at (encode_gtp_srvng_plmn_rate_ctl_ie value.(create_sess_req_srvng_plmn_rate_ctl))) ⨾
    enc_when (nz value.(create_sess_req_mo_exception_data_cntr).(gtp_counter_header).(gie_len)) (ecall_at (encode_gtp_counter_ie value.(create_sess_req_mo_exception_data_cntr))) ⨾
    enc_when (nz value.(create_sess_req_ue_tcp_port).(gtp_port_number_header).(gie_len)) (ecall_at (encode_gtp_port_number_ie value.(create_sess_req_ue_tcp_port))) ⨾
    enc_when (nz value.(create_sess_req_mapped_ue_usage_type).(gtp_mapped_ue_usage_type_header).(gie_len)) (ecall_at (encode_gtp_mapped_ue_usage_type_ie value.(create_sess_req_mapped_ue_usage_type))) ⨾
    enc_when (nz value.(create_sess_req_user_loc_info_sgw).(gtp_user_loc_info_header).(gie_len)) (ecall_at (encode_gtp_user_loc_info_ie value.(create_sess_req_user_loc_info_sgw))) ⨾
    enc_when (nz value.(create_sess_req_sgw_u_node_name).(gtp_fully_qual_domain_name_header).(gie_len)) (ecall_at (encode_gtp_fully_qual_domain_name_ie value.(create_sess_req_sgw_u_node_name))) ⨾
    enc_when (nz value.(create_sess_req_secdry_rat_usage_data_rpt).(gtp_secdry_rat_usage_data_rpt_header).(gie_len)) (ecall_at (encode_gtp_secdry_rat_usage_data_rpt_ie value.(create_sess_req_secdry_rat_usage_data_rpt))) ⨾
    enc_when (nz value.(create_sess_req_up_func_sel_indctn_flgs).(gtp_up_func_sel_indctn_flgs_header).(gie_len)) (ecall_at (encode_gtp_up_func_sel_indctn_flgs_ie value.(create_sess_req_up_func_sel_indctn_flgs))) ⨾
    enc_when (nz value.(create_sess_req_priv_ext).(gtp_priv_ext_header).(gie_len)) (ecall_at (encode_gtp_priv_ext_ie value.(create_sess_req_priv_ext)))).

Definition encode_gtp_upd_bearer_request__bearer_ctxt_ie (value : gtp_upd_bearer_request__bearer_ctxt_ie_t) : ie_encoder :=
  enc_bits (
    ecall (encode_ie_header_t value.(gtp_upd_bearer_request__bearer_ctxt_header)) ⨾
    enc_to_bytes ⨾
    enc_when (nz value.(gtp_upd_bearer_request__bearer_ctxt_eps_bearer_id).(gtp_eps_bearer_id_header).(gie_len)) (ecall_at (encode_gtp_eps_bearer_id_ie value.(gtp_upd_bearer_request__bearer_ctxt_eps_bearer_id))) ⨾
    enc_when (nz value.(gtp_upd_bearer_request__bearer_ctxt_tft).(gtp_eps_bearer_lvl_traffic_flow_tmpl_header).(gie_len)) (ecall_at (encode_gtp_eps_bearer_lvl_traffic_flow_tmpl_ie value.(gtp_upd_bearer_request__bearer_ctxt_tft))) ⨾
    enc_when (nz value.(gtp_upd_bearer_request__bearer_ctxt_bearer_lvl_qos).(gtp_bearer_qlty_of_svc_header).(gie_len)) (ecall_at (encode_gtp_bearer_qlty_of_svc_ie value.(gtp_upd_bearer_request__bearer_ctxt_bearer_lvl_qos))) ⨾
    enc_when (nz value.(gtp_upd_bearer_request__bearer_ctxt_bearer_flags).(gtp_bearer_flags_header).(gie_len)) (ecall_at (encode_gtp_bearer_flags_ie value.(gtp_upd_bearer_request__bearer_ctxt_bearer_flags))) ⨾
    enc_when (nz value.(gtp_upd_bearer_request__bearer_ctxt_pco).(gtp_prot_cfg_opts_header).(gie_len)) (ecall_at (encode_gtp_prot_cfg_opts_ie value.(gtp_upd_bearer_request__bearer_ctxt_pco))) ⨾
    enc_when (nz value.(gtp_upd_bearer_request__bearer_ctxt_apco).(gtp_addtl_prot_cfg_opts_header).(gie_len)) (ecall_at (encode_gtp_addtl_prot_cfg_opts_ie value.(gtp_upd_bearer_request__bearer_ctxt_apco))) ⨾
    enc_when (nz value.(gtp_upd_bearer_request__bearer_ctxt_epco).(gtp_extnded_prot_cfg_opts_header).(gie_len)) (ecall_at (encode_gtp_extnded_prot_cfg_opts_ie value.(gtp_upd_bearer_request__bearer_ctxt_epco))) ⨾
    enc_when (nz value.(gtp_upd_bearer_request__bearer_ctxt_max_pckt_loss_rate).(gtp_max_pckt_loss_rate_header).(gie_len)) (ecall_at (encode_gtp_max_pckt_loss_rate_ie value.(gtp_upd_bearer_request__bearer_ctxt_max_pckt_loss_rate)))).

Definition encode_upd_bearer_req (value : upd_bearer_req_t) : ie_encoder :=
  enc_bits (
    ecall_at (encode_gtpv2c_header_t value.(upd_bearer_req_header)) ⨾
    enc_for value.(upd_bearer_req_bearer_contexts) 0 (Z.to_nat value.(upd_bearer_req_bearer_context_count)) (fun x => enc_when (nz x.(gtp_upd_bearer_request__bearer_ctxt_header).(gie_len)) (ecall_at (encode_gtp_upd_bearer_request__bearer_ctxt_ie x))) ⨾
    enc_when (nz value.(upd_bearer_req_pti).(gtp_proc_trans_id_header).(gie_len)) (ecall_at (encode_gtp_proc_trans_id_ie value.(upd_bearer_req_pti))) ⨾
    enc_when (nz value.(upd_bearer_req_pco).(gtp_prot_cfg_opts_header).(gie_len)) (ecall_at (encode_gtp_prot_cfg_opts_ie value.(upd_bearer_req_pco))) ⨾
    enc_when (nz value.(upd_bearer_req_apn_ambr).(gtp_agg_max_bit_rate_header).(gie_len)) (ecall_at (encode_gtp_agg_max_bit_rate_ie value.(upd_bearer_req_apn_ambr))) ⨾
    enc_when (nz value.(upd_bearer_req_chg_rptng_act).(gtp_chg_rptng_act_header).(gie_len)) (ecall_at (encode_gtp_chg_rptng_act_ie value.(upd_bearer_req_chg_rptng_act))) ⨾
    enc_when (nz value.(upd_bearer_req_csg_info_rptng_act).(gtp_csg_info_rptng_act_header).(gie_len)) (ecall_at (encode_gtp_csg_info_rptng_act_ie value.(upd_bearer_req_csg_info_rptng_act))) ⨾
    enc_when (nz value.(upd_bearer_req_henb_info_rptng).(gtp_henb_info_rptng_header).(gie_len)) (ecall_at (encode_gtp_henb_info_rptng_ie value.(upd_bearer_req_henb_info_rptng))) ⨾
    enc_when (nz value.(upd_bearer_req_indctn_flgs).(gtp_indication_header).(gie_len)) (ecall_at (encode_gtp_indication_ie value.(upd_bearer_req_indctn_flgs))) ⨾
    enc_when (nz value.(upd_bearer_req_pgw_fqcsid).(gtp_fqcsid_header).(gie_len)) (ecall_at (encode_gtp_fqcsid_ie value.(upd_bearer_req_pgw_fqcsid))) ⨾
    enc_when (nz value.(upd_bearer_req_sgw_fqcsid).(gtp_fqcsid_header).(gie_len)) (ecall_at (encode_gtp_fqcsid_ie value.(upd_bearer_req_sgw_fqcsid))) ⨾
    enc_when (nz value.(upd_bearer_req_pres_rptng_area_act).(gtp_pres_rptng_area_act_header).(gie_len)) (ecall_at (encode_gtp_pres_rptng_area_act_ie value.(upd_bearer_req_pres_rptng_area_act))) ⨾
    enc_when (nz value.(upd_bearer_req_pgws_node_lvl_load_ctl_info).(gtp_load_ctl_info_header).(gie_len)) (ecall_at (encode_gtp_load_ctl_info_ie value.(upd_bearer_req_pgws_node_lvl_load_ctl_info))) ⨾
    enc_when (nz value.(upd_bearer_req_pgws_apn_lvl_load_ctl_info).(gtp_load_ctl_info_header).(gie_len)) (ecall_at (encode_gtp_load_ctl_info_ie value.(upd_bearer_req_pgws_apn_lvl_load_ctl_info))) ⨾
    enc_when (nz value.(upd_bearer_req_sgws_node_lvl_load_ctl_info).(gtp_load_ctl_info_header).(gie_len)) (ecall_at (encode_gtp_load_ctl_info_ie value.(upd_bearer_req_sgws_node_lvl_load_ctl_info))) ⨾
    enc_when (nz value.(upd_bearer_req_pgws_ovrld_ctl_info).(gtp_ovrld_ctl_info_header).(gie_len)) (ecall_at (encode_gtp_ovrld_ctl_info_ie value.(upd_bearer_req_pgws_ovrld_ctl_info))) ⨾
    enc_when (nz value.(upd_bearer_req_sgws_ovrld_ctl_info).(gtp_ovrld_ctl_info_header).(gie_len)) (ecall_at (encode_gtp_ovrld_ctl_info_ie value.(upd_bearer_req_sgws_ovrld_ctl_info))) ⨾
    enc_when (nz value.(upd_bearer_req_nbifom_cntnr).(gtp_full_qual_cntnr_header).(gie_len)) (ecall_at (encode_gtp_full_qual_cntnr_ie value.(upd_bearer_req_nbifom_cntnr))) ⨾
    enc_when (nz value.(upd_bearer_req_priv_ext).(gtp_priv_ext_header).(gie_len)) (ecall_at (encode_gtp_priv_ext_ie value.(upd_bearer_req_priv_ext)))).

Definition encode_gtp_del_bearer_response_bearer_ctxt_ie (value : gtp_del_bearer_response_bearer_ctxt_ie_t) : ie_encoder :=
  enc_bits (
    ecall (encode_ie_header_t value.(gtp_del_bearer_response_bearer_ctxt_header)) ⨾
    enc_to_bytes ⨾
    enc_when (nz value.(gtp_del_bearer_response_bearer_ctxt_eps_bearer_id).(gtp_eps_bearer_id_header).(gie_len)) (ecall_at (encode_gtp_eps_bearer_id_ie value.(gtp_del_bearer_response_bearer_ctxt_eps_bearer_id))) ⨾
    enc_when (nz value.(gtp_del_bearer_response_bearer_ctxt_cause).(gtp_cause_header).(gie_len)) (ecall_at (encode_gtp_cause_ie value.(gtp_del_bearer_response_bearer_ctxt_cause))) ⨾
    enc_when (nz value.(gtp_del_bearer_response_bearer_ctxt_pco).(gtp_prot_cfg_opts_header).(gie_len)) (ecall_at (encode_gtp_prot_cfg_opts_ie value.(gtp_del_bearer_response_bearer_ctxt_pco))) ⨾
    enc_when (nz value.(gtp_del_bearer_response_bearer_ctxt_ran_nas_cause).(gtp_ran_nas_cause_header).(gie_len)) (ecall_at (encode_gtp_ran_nas_cause_ie value.(gtp_del_bearer_response_bearer_ctxt_ran_nas_cause))) ⨾
    enc_when (nz value.(gtp_del_bearer_response_bearer_ctxt_epco).(gtp_extnded_prot_cfg_opts_header).(gie_len)) (ecall_at (encode_gtp_extnded_prot_cfg_opts_ie value.(gtp_del_bearer_response_bearer_ctxt_epco)))).

Definition encode_del_bearer_rsp (value : del_bearer_rsp_t) : ie_encoder :=
  enc_bits (
    ecall_at (encode_gtpv2c_header_t value.(del_bearer_rsp_header)) ⨾
    enc_when (nz value.(del_bearer_rsp_cause).(gtp_cause_header).(gie_len)) (ecall_at (encode_gtp_cause_ie value.(del_bearer_rsp_cause))) ⨾
    enc_when (nz value.(del_bearer_rsp_lbi).(gtp_eps_bearer_id_header).(gie_len)) (ecall_at (encode_gtp_eps_bearer_id_ie value.(del_bearer_rsp_lbi))) ⨾
    enc_for value.(del_bearer_rsp_bearer_contexts) 0 (Z.to_nat value.(del_bearer_rsp_bearer_count)) (fun x => enc_when (nz x.(gtp_del_bearer_response_bearer_ctxt_header).(gie_len)) (ecall_at (encode_gtp_del_bearer_response_bearer_ctxt_ie x))) ⨾
    enc_when (nz value.(del_bearer_rsp_recovery).(gtp_recovery_header).(gie_len)) (ecall_at (encode_gtp_recovery_ie value.(del_bearer_rsp_recovery))) ⨾
    enc_when (nz value.(del_bearer_rsp_mme_fqcsid).(gtp_fqcsid_header).(gie_len)) (ecall_at (encode_gtp_fqcsid_ie value.(del_bearer_rsp_mme_fqcsid))) ⨾
    enc_when (nz value.(del_bearer_rsp_sgw_fqcsid).(gtp_fqcsid_header).(gie_len)) (ecall_at (encode_gtp_fqcsid_ie value.(del_bearer_rsp_sgw_fqcsid))) ⨾
    enc_when (nz value.(del_bearer_rsp_epdg_fqcsid).(gtp_fqcsid_header).(gie_len)) (ecall_at (encode_gtp_fqcsid_ie value.(del_bearer_rsp_epdg_fqcsid))) ⨾
    enc_when (nz value.(del_bearer_rsp_twan_fqcsid).(gtp_fqcsid_header).(gie_len)) (ecall_at (encode_gtp_fqcsid_ie value.(del_bearer_rsp_twan_fqcsid))) ⨾
    enc_when (nz value.(del_bearer_rsp_pco).(gtp_prot_cfg_opts_header).(gie_len)) (ecall_at (encode_gtp_prot_cfg_opts_ie value.(del_bearer_rsp_pco))) ⨾
    enc_when (nz value.(del_bearer_rsp_ue_time_zone).(gtp_ue_time_zone_header).(gie_len)) (ecall_at (encode_gtp_ue_time_zone_ie value.(del_bearer_rsp_ue_time_zone))) ⨾
    enc_when (nz value.(del_bearer_rsp_uli).(gtp_user_loc_info_header).(gie_len)) (ecall_at (encode_gtp_user_loc_info_ie value.(del_bearer_rsp_uli))) ⨾
    enc_when (nz value.(del_bearer_rsp_uli_timestamp).(gtp_uli_timestamp_header).(gie_len)) (ecall_at (encode_gtp_uli_timestamp_ie value.(del_bearer_rsp_uli_timestamp))) ⨾
    enc_when (nz value.(del_bearer_rsp_twan_identifier).(gtp_twan_identifier_header).(gie_len)) (ecall_at (encode_gtp_twan_identifier_ie value.(del_bearer_rsp_twan_identifier))) ⨾
    enc_when (nz value.(del_bearer_rsp_twan_idnt_ts).(gtp_twan_idnt_ts_header).(gie_len)) (ecall_at (encode_gtp_twan_idnt_ts_ie value.(del_bearer_rsp_twan_idnt_ts))) ⨾
    enc_when (nz value.(del_bearer_rsp_mmes4_sgsns_ovrld_ctl_info).(gtp_ovrld_ctl_info_header).(gie_len)) (ecall_at (encode_gtp_ovrld_ctl_info_ie value.(del_bearer_rsp_mmes4_sgsns_ovrld_ctl_info))) ⨾
    enc_when (nz value.(del_bearer_rsp_sgws_ovrld_ctl_info).(gtp_ovrld_ctl_info_header).(gie_len)) (ecall_at (encode_gtp_ovrld_ctl_info_ie value.(del_bearer_rsp_sgws_ovrld_ctl_info))) ⨾
    enc_when (nz value.(del_bearer_rsp_mmes4_sgsn_idnt).(gtp_ip_address_header).(gie_len)) (ecall_at (encode_gtp_ip_address_ie value.(del_bearer_rsp_mmes4_sgsn_idnt))) ⨾
    enc_when (nz value.(del_bearer_rsp_twanepdgs_ovrld_ctl_info).(gtp_ovrld_ctl_info_header).(gie_len)) (ecall_at (encode_gtp_ovrld_ctl_info_ie value.(del_bearer_rsp_twanepdgs_ovrld_ctl_info))) ⨾
    enc_when (nz value.(del_bearer_rsp_wlan_loc_info).(gtp_twan_identifier_header).(gie_len)) (ecall_at (encode_gtp_twan_identifier_ie value.(del_bearer_rsp_wlan_loc_info))) ⨾
    enc_when (nz value.(del_bearer_rsp_wlan_loc_ts).(gtp_twan_idnt_ts_header).(gie_len)) (ecall_at (encode_gtp_twan_idnt_ts_ie value.(del_bearer_rsp_wlan_loc_ts))) ⨾
    enc_when (nz value.(del_bearer_rsp_ue_local_ip_addr).(gtp_ip_address_header).(gie_len)) (ecall_at (encode_gtp_ip_address_ie value.(del_bearer_rsp_ue_local_ip_addr))) ⨾
    enc_when (nz value.(del_bearer_rsp_ue_udp_port).(gtp_port_number_header).(gie_len)) (ecall_at (encode_gtp_port_number_ie value.(del_bearer_rsp_ue_udp_port))) ⨾
    enc_when (nz value.(del_bearer_rsp_nbifom_cntnr).(gtp_full_qual_cntnr_header).(gie_len)) (ecall_at (encode_gtp_full_qual_cntnr_ie value.(del_bearer_rsp_nbifom_cntnr))) ⨾
    enc_when (nz value.(del_bearer_rsp_ue_tcp_port).(gtp_port_number_header).(gie_len)) (ecall_at (encode_gtp_port_number_ie value.(del_bearer_rsp_ue_tcp_port))) ⨾
    enc_when (nz value.(del_bearer_rsp_secdry_rat_usage_data_rpt).(gtp_secdry_rat_usage_data_rpt_header).(gie_len)) (ecall_at (encode_gtp_secdry_rat_usage_data_rpt_ie value.(del_bearer_rsp_secdry_rat_usage_data_rpt))) ⨾
    enc_when (nz value.(del_bearer_rsp_priv_ext).(gtp_priv_ext_header).(gie_len)) (ecall_at (encode_gtp_priv_ext_ie value.(del_bearer_rsp_priv_ext)))).

Definition encode_pgw_rstrt_notif (value : pgw_rstrt_notif_t) : ie_encoder :=
  enc_bits (
    ecall_at (encode_gtpv2c_header_t value.(pgw_rstrt_notif_header)) ⨾
    enc_when (nz value.(pgw_rstrt_notif_pgw_s5s8_ip_addr_ctl_plane_or_pmip).(gtp_ip_address_header).(gie_len)) (ecall_at (encode_gtp_ip_address_ie value.(pgw_rstrt_notif_pgw_s5s8_ip_addr_ctl_plane_or_pmip))) ⨾
    enc_when (nz value.(pgw_rstrt_notif_sgw_s11s4_ip_addr_ctl_plane).(gtp_ip_address_header).(gie_len)) (ecall_at (encode_gtp_ip_address_ie value.(pgw_rstrt_notif_sgw_s11s4_ip_addr_ctl_plane))) ⨾
    enc_when (nz value.(pgw_rstrt_notif_cause).(gtp_cause_header).(gie_len)) (ecall_at (encode_gtp_cause_ie value.(pgw_rstrt_notif_cause))) ⨾
    enc_when (nz value.(pgw_rstrt_notif_priv_ext).(gtp_priv_ext_header).(gie_len)) (ecall_at (encode_gtp_priv_ext_ie value.(pgw_rstrt_notif_priv_ext)))).

Definition encode_reloc_cncl_req (value : reloc_cncl_req_t) : ie_encoder :=
  enc_bits (
    ecall_at (encode_gtpv2c_header_t value.(reloc_cncl_req_header)) ⨾
    enc_when (nz value.(reloc_cncl_req_imsi).(gtp_imsi_header).(gie_len)) (ecall_at (encode_gtp_imsi_ie value.(reloc_cncl_req_imsi))) ⨾
    enc_when (nz value.(reloc_cncl_req_mei).(gtp_mbl_equip_idnty_header).(gie_len)) (ecall_at (encode_gtp_mbl_equip_idnty_ie value.(reloc_cncl_req_mei))) ⨾
    enc_when (nz value.(reloc_cncl_req_indctn_flgs).(gtp_indication_header).(gie_len)) (ecall_at (encode_gtp_indication_ie value.(reloc_cncl_req_indctn_flgs))) ⨾
    enc_when (nz value.(reloc_cncl_req_ranap_cause).(gtp_full_qual_cause_header).(gie_len)) (ecall_at (encode_gtp_full_qual_cause_ie value.(reloc_cncl_req_ranap_cause))) ⨾
    enc_when (nz value.(reloc_cncl_req_priv_ext).(gtp_priv_ext_header).(gie_len)) (ecall_at (encode_gtp_priv_ext_ie value.(reloc_cncl_req_priv_ext)))).

Definition encode_gtp_del_sess_response__load_ctl_info_ie (value : gtp_del_sess_response__load_ctl_info_ie_t) : ie_encoder :=
  enc_bits (
    ecall (encode_ie_header_t value.(gtp_del_sess_response__load_ctl_info_header)) ⨾
    enc_to_bytes ⨾
    enc_when (nz value.(gtp_del_sess_response__load_ctl_info_load_ctl_seqn_nbr).(gtp_sequence_number_header).(gie_len)) (ecall_at (encode_gtp_sequence_number_ie value.(gtp_del_sess_response__load_ctl_info_load_ctl_seqn_nbr))) ⨾
    enc_when (nz value.(gtp_del_sess_response__load_ctl_info_load_metric).(gtp_metric_header).(gie_len)) (ecall_at (encode_gtp_metric_ie value.(gtp_del_sess_response__load_ctl_info_load_metric))) ⨾
    enc_when (nz value.(gtp_del_sess_response__load_ctl_info_list_of_apn_and_rltv_cap).(gtp_apn_and_rltv_cap_header).(gie_len)) (ecall_at (encode_gtp_apn_and_rltv_cap_ie value.(gtp_del_sess_response__load_ctl_info_list_of_apn_and_rltv_cap)))).

Definition encode_gtp_upd_bearer_request__load_ctl_info_ie (value : gtp_upd_bearer_request__load_ctl_info_ie_t) : ie_encoder :=
  enc_bits (
    ecall (encode_ie_header_t value.(gtp_upd_bearer_request__load_ctl_info_header)) ⨾
    enc_to_bytes ⨾
    enc_when (nz value.(gtp_upd_bearer_request__load_ctl_info_load_ctl_seqn_nbr).(gtp_sequence_number_header).(gie_len)) (ecall_at (encode_gtp_sequence_number_ie value.(gtp_upd_bearer_request__load_ctl_info_load_ctl_seqn_nbr))) ⨾
    enc_when (nz value.(gtp_upd_bearer_request__load_ctl_info_load_metric).(gtp_metric_header).(gie_len)) (ecall_at (encode_gtp_metric_ie value.(gtp_upd_bearer_request__load_ctl_info_load_metric))) ⨾
    enc_when (nz value.(gtp_upd_bearer_request__load_ctl_info_list_of_apn_and_rltv_cap).(gtp_apn_and_rltv_cap_header).(gie_len)) (ecall_at (encode_gtp_apn_and_rltv_cap_ie value.(gtp_upd_bearer_request__load_ctl_info_list_of_apn_and_rltv_cap)))).

Definition encode_gtp_upd_bearer_response__bearer_ctxt_ie (value : gtp_upd_bearer_response__bearer_ctxt_ie_t) : ie_encoder :=
  enc_bits (
    ecall (encode_ie_header_t value.(gtp_upd_bearer_response__bearer_ctxt_header)) ⨾
    enc_to_bytes ⨾
    enc_when (nz value.(gtp_upd_bearer_response__bearer_ctxt_eps_bearer_id).(gtp_eps_bearer_id_header).(gie_len)) (ecall_at (encode_gtp_eps_bearer_id_ie value.(gtp_upd_bearer_response__bearer_ctxt_eps_bearer_id))) ⨾
    enc_when (nz value.(gtp_upd_bearer_response__bearer_ctxt_cause).(gtp_cause_header).(gie_len)) (ecall_at (encode_gtp_cause_ie value.(gtp_upd_bearer_response__bearer_ctxt_cause))) ⨾
    enc_when (nz value.(gtp_upd_bearer_response__bearer_ctxt_s4_u_sgsn_fteid).(gtp_fully_qual_tunn_endpt_idnt_header).(gie_len)) (ecall_at (encode_gtp_fully_qual_tunn_endpt_idnt_ie value.(gtp_upd_bearer_response__bearer_ctxt_s4_u_sgsn_fteid))) ⨾
    enc_when (nz value.(gtp_upd_bearer_response__bearer_ctxt_s12_rnc_fteid).(gtp_fully_qual_tunn_endpt_idnt_header).(gie_len)) (ecall_at (encode_gtp_fully_qual_tunn_endpt_idnt_ie value.(gtp_upd_bearer_response__bearer_ctxt_s12_rnc_fteid))) ⨾
    enc_when (nz value.(gtp_upd_bearer_response__bearer_ctxt_pco).(gtp_prot_cfg_opts_header).(gie_len)) (ecall_at (encode_gtp_prot_cfg_opts_ie value.(gtp_upd_bearer_response__bearer_ctxt_pco))) ⨾
    enc_when (nz value.(gtp_upd_bearer_response__bearer_ctxt_ran_nas_cause).(gtp_ran_nas_cause_header).(gie_len)) (ecall_at (encode_gtp_ran_nas_cause_ie value.(gtp_upd_bearer_response__bearer_ctxt_ran_nas_cause))) ⨾
    enc_when (nz value.(gtp_upd_bearer_response__bearer_ctxt_epco).(gtp_extnded_prot_cfg_opts_header).(gie_len)) (ecall_at (encode_gtp_extnded_prot_cfg_opts_ie value.(gtp_upd_bearer_response__bearer_ctxt_epco)))).

Definition encode_gtp_create_bearer_response_bearer_ctxt_ie (value : gtp_create_bearer_response_bearer_ctxt_ie_t) : ie_encoder :=
  enc_bits (
    ecall (encode_ie_header_t value.(gtp_create_bearer_response_bearer_ctxt_header)) ⨾
    enc_to_bytes ⨾
    enc_when (nz value.(gtp_create_bearer_response_bearer_ctxt_eps_bearer_id).(gtp_eps_bearer_id_header).(gie_len)) (ecall_at (encode_gtp_eps_bearer_id_ie value.(gtp_create_bearer_response_bearer_ctxt_eps_bearer_id))) ⨾
    enc_when (nz value.(gtp_create_bearer_response_bearer_ctxt_cause).(gtp_cause_header).(gie_len)) (ecall_at (encode_gtp_cause_ie value.(gtp_create_bearer_response_bearer_ctxt_cause))) ⨾
    enc_when (nz value.(gtp_create_bearer_response_bearer_ctxt_s1u_enb_fteid).(gtp_fully_qual_tunn_endpt_idnt_header).(gie_len)) (ecall_at (encode_gtp_fully_qual_tunn_endpt_idnt_ie value.(gtp_create_bearer_response_bearer_ctxt_s1u_enb_fteid))) ⨾
    enc_when (nz value.(gtp_create_bearer_response_bearer_ctxt_s1u_sgw_fteid).(gtp_fully_qual_tunn_endpt_idnt_header).(gie_len)) (ecall_at (encode_gtp_fully_qual_tunn_endpt_idnt_ie value.(gtp_create_bearer_response_bearer_ctxt_s1u_sgw_fteid))) ⨾
    enc_when (nz value.(gtp_create_bearer_response_bearer_ctxt_s58_u_sgw_fteid).(gtp_fully_qual_tunn_endpt_idnt_header).(gie_len)) (ecall_at (encode_gtp_fully_qual_tunn_endpt_idnt_ie value.(gtp_create_bearer_response_bearer_ctxt_s58_u_sgw_fteid))) ⨾
    enc_when (nz value.(gtp_create_bearer_response_bearer_ctxt_s58_u_pgw_fteid).(gtp_fully_qual_tunn_endpt_idnt_header).(gie_len)) (ecall_at (encode_gtp_fully_qual_tunn_endpt_idnt_ie value.(gtp_create_bearer_response_bearer_ctxt_s58_u_pgw_fteid))) ⨾
    enc_when (nz value.(gtp_create_bearer_response_bearer_ctxt_s12_rnc_fteid).(gtp_fully_qual_tunn_endpt_idnt_header).(gie_len)) (ecall_at (encode_gtp_fully_qual_tunn_endpt_idnt_ie value.(gtp_create_bearer_response_bearer_ctxt_s12_rnc_fteid))) ⨾
    enc_when (nz value.(gtp_create_bearer_response_bearer_ctxt_s12_sgw_fteid).(gtp_fully_qual_tunn_endpt_idnt_header).(gie_len)) (ecall_at (encode_gtp_fully_qual_tunn_endpt_idnt_ie value.(gtp_create_bearer_response_bearer_ctxt_s12_sgw_fteid))) ⨾
    enc_when (nz value.(gtp_create_bearer_response_bearer_ctxt_s4_u_sgsn_fteid).(gtp_fully_qual_tunn_endpt_idnt_header).(gie_len)) (ecall_at (encode_gtp_fully_qual_tunn_endpt_idnt_ie value.(gtp_create_bearer_response_bearer_ctxt_s4_u_sgsn_fteid))) ⨾
    enc_when (nz value.(gtp_create_bearer_response_bearer_ctxt_s4_u_sgw_fteid).(gtp_fully_qual_tunn_endpt_idnt_header).(gie_len)) (ecall_at (encode_gtp_fully_qual_tunn_endpt_idnt_ie value.(gtp_create_bearer_response_bearer_ctxt_s4_u_sgw_fteid))) ⨾
    enc_when (nz value.(gtp_create_bearer_response_bearer_ctxt_s2b_u_epdg_fteid).(gtp_fully_qual_tunn_endpt_idnt_header).(gie_len)) (ecall_at (encode_gtp_fully_qual_tunn_endpt_idnt_ie value.(gtp_create_bearer_response_bearer_ctxt_s2b_u_epdg_fteid))) ⨾
    enc_when (nz value.(gtp_create_bearer_response_bearer_ctxt_s2b_u_pgw_fteid).(gtp_fully_qual_tunn_endpt_idnt_header).(gie_len)) (ecall_at (encode_gtp_fully_qual_tunn_endpt_idnt_ie value.(gtp_create_bearer_response_bearer_ctxt_s2b_u_pgw_fteid))) ⨾
    enc_when (nz value.(gtp_create_bearer_response_bearer_ctxt_s2a_u_twan_fteid).(gtp_fully_qual_tunn_endpt_idnt_header).(gie_len)) (ecall_at (encode_gtp_fully_qual_tunn_endpt_idnt_ie value.(gtp_create_bearer_response_bearer_ctxt_s2a_u_twan_fteid))) ⨾
    enc_when (nz value.(gtp_create_bearer_response_bearer_ctxt_s2a_u_pgw_fteid).(gtp_fully_qual_tunn_endpt_idnt_header).(gie_len)) (ecall_at (encode_gtp_fully_qual_tunn_endpt_idnt_ie value.(gtp_create_bearer_response_bearer_ctxt_s2a_u_pgw_fteid))) ⨾
    enc_when (nz value.(gtp_create_bearer_response_bearer_ctxt_pco).(gtp_prot_cfg_opts_header).(gie_len)) (ecall_at (encode_gtp_prot_cfg_opts_ie value.(gtp_create_bearer_response_bearer_ctxt_pco))) ⨾
    enc_when (nz value.(gtp_create_bearer_response_bearer_ctxt_ran_nas_cause).(gtp_ran_nas_cause_header).(gie_len)) (ecall_at (encode_gtp_ran_nas_cause_ie value.(gtp_create_bearer_response_bearer_ctxt_ran_nas_cause))) ⨾
    enc_when (nz value.(gtp_create_bearer_response_bearer_ctxt_epco).(gtp_extnded_prot_cfg_opts_header).(gie_len)) (ecall_at (encode_gtp_extnded_prot_cfg_opts_ie value.(gtp_create_bearer_response_bearer_ctxt_epco)))).

Definition encode_gtp_mod_acc_bearers_response__bearer_ctxt_marked_removal_ie (value : gtp_mod_acc_bearers_response__bearer_ctxt_marked_removal_ie_t) : ie_encoder :=
  enc_bits (
    ecall (encode_ie_header_t value.(gtp_mod_acc_bearers_response__bearer_ctxt_marked_removal_header)) ⨾
    enc_to_bytes ⨾
    enc_when (nz value.(gtp_mod_acc_bearers_response__bearer_ctxt_marked_removal_eps_bearer_id).(gtp_eps_bearer_id_header).(gie_len)) (ecall_at (encode_gtp_eps_bearer_id_ie value.(gtp_mod_acc_bearers_response__bearer_ctxt_marked_removal_eps_bearer_id))) ⨾
    enc_when (nz value.(gtp_mod_acc_bearers_response__bearer_ctxt_marked_removal_cause).(gtp_cause_header).(gie_len)) (ecall_at (encode_gtp_cause_ie value.(gtp_mod_acc_bearers_response__bearer_ctxt_marked_removal_cause)))).

Definition encode_upd_bearer_rsp (value : upd_bearer_rsp_t) : ie_encoder :=
  enc_bits (
    ecall_at (encode_gtpv2c_header_t value.(upd_bearer_rsp_header)) ⨾
    enc_when (nz value.(upd_bearer_rsp_cause).(gtp_cause_header).(gie_len)) (ecall_at (encode_gtp_cause_ie value.(upd_bearer_rsp_cause))) ⨾
    enc_for value.(upd_bearer_rsp_bearer_contexts) 0 (Z.to_nat value.(upd_bearer_rsp_bearer_context_count)) (fun x => enc_when (nz x.(gtp_upd_bearer_response__bearer_ctxt_header).(gie_len)) (ecall_at (encode_gtp_upd_bearer_response__bearer_ctxt_ie x))) ⨾
    enc_when (nz value.(upd_bearer_rsp_pco).(gtp_prot_cfg_opts_header).(gie_len)) (ecall_at (encode_gtp_prot_cfg_opts_ie value.(upd_bearer_rsp_pco))) ⨾
    enc_when (nz value.(upd_bearer_rsp_recovery).(gtp_recovery_header).(gie_len)) (ecall_at (encode_gtp_recovery_ie value.(upd_bearer_rsp_recovery))) ⨾
    enc_when (nz value.(upd_bearer_rsp_mme_fqcsid).(gtp_fqcsid_header).(gie_len)) (ecall_at (encode_gtp_fqcsid_ie value.(upd_bearer_rsp_mme_fqcsid))) ⨾
    enc_when (nz value.(upd_bearer_rsp_sgw_fqcsid).(gtp_fqcsid_header).(gie_len)) (ecall_at (encode_gtp_fqcsid_ie value.(upd_bearer_rsp_sgw_fqcsid))) ⨾
    enc_when (nz value.(upd_bearer_rsp_epdg_fqcsid).(gtp_fqcsid_header).(gie_len)) (ecall_at (encode_gtp_fqcsid_ie value.(upd_bearer_rsp_epdg_fqcsid))) ⨾
    enc_when (nz value.(upd_bearer_rsp_twan_fqcsid).(gtp_fqcsid_header).(gie_len)) (ecall_at (encode_gtp_fqcsid_ie value.(upd_bearer_rsp_twan_fqcsid))) ⨾
    enc_when (nz value.(upd_bearer_rsp_indctn_flgs).(gtp_indication_header).(gie_len)) (ecall_at (encode_gtp_indication_ie value.(upd_bearer_rsp_indctn_flgs))) ⨾
    enc_when (nz value.(upd_bearer_rsp_ue_time_zone).(gtp_ue_time_zone_header).(gie_len)) (ecall_at (encode_gtp_ue_time_zone_ie value.(upd_bearer_rsp_ue_time_zone))) ⨾
    enc_when (nz value.(upd_bearer_rsp_uli).(gtp_user_loc_info_header).(gie_len)) (ecall_at (encode_gtp_user_loc_info_ie value.(upd_bearer_rsp_uli))) ⨾
    enc_when (nz value.(upd_bearer_rsp_twan_identifier).(gtp_twan_identifier_header).(gie_len)) (ecall_at (encode_gtp_twan_identifier_ie value.(upd_bearer_rsp_twan_identifier))) ⨾
    enc_when (nz value.(upd_bearer_rsp_mmes4_sgsns_ovrld_ctl_info).(gtp_ovrld_ctl_info_header).(gie_len)) (ecall_at (encode_gtp_ovrld_ctl_info_ie value.(upd_bearer_rsp_mmes4_sgsns_ovrld_ctl_info))) ⨾
    enc_when (nz value.(upd_bearer_rsp_sgws_ovrld_ctl_info).(gtp_ovrld_ctl_info_header).(gie_len)) (ecall_at (encode_gtp_ovrld_ctl_info_ie value.(upd_bearer_rsp_sgws_ovrld_ctl_info))) ⨾
    enc_when (nz value.(upd_bearer_rsp_pres_rptng_area_info).(gtp_pres_rptng_area_info_header).(gie_len)) (ecall_at (encode_gtp_pres_rptng_area_info_ie value.(upd_bearer_rsp_pres_rptng_area_info))) ⨾
    enc_when (nz value.(upd_bearer_rsp_mmes4_sgsn_idnt).(gtp_ip_address_header).(gie_len)) (ecall_at (encode_gtp_ip_address_ie value.(upd_bearer_rsp_mmes4_sgsn_idnt))) ⨾
    enc_when (nz value.(upd_bearer_rsp_twanepdgs_ovrld_ctl_info).(gtp_ovrld_ctl_info_header).(gie_len)) (ecall_at (encode_gtp_ovrld_ctl_info_ie value.(upd_bearer_rsp_twanepdgs_ovrld_ctl_info))) ⨾
    enc_when (nz value.(upd_bearer_rsp_wlan_loc_info).(gtp_twan_identifier_header).(gie_len)) (ecall_at (encode_gtp_twan_identifier_ie value.(upd_bearer_rsp_wlan_loc_info))) ⨾
    enc_when (nz value.(upd_bearer_rsp_wlan_loc_ts).(gtp_twan_idnt_ts_header).(gie_len)) (ecall_at (encode_gtp_twan_idnt_ts_ie value.(upd_bearer_rsp_wlan_loc_ts))) ⨾
    enc_when (nz value.(upd_bearer_rsp_ue_local_ip_addr).(gtp_ip_address_header).(gie_len)) (ecall_at (encode_gtp_ip_address_ie value.(upd_bearer_rsp_ue_local_ip_addr))) ⨾
    enc_when (nz value.(upd_bearer_rsp_ue_udp_port).(gtp_port_number_header).(gie_len)) (ecall_at (encode_gtp_port_number_ie value.(upd_bearer_rsp_ue_udp_port))) ⨾
    enc_when (nz value.(upd_bearer_rsp_nbifom_cntnr).(gtp_full_qual_cntnr_header).(gie_len)) (ecall_at (encode_gtp_full_qual_cntnr_ie value.(upd_bearer_rsp_nbifom_cntnr))) ⨾
    enc_when (nz value.(upd_bearer_rsp_ue_tcp_port).(gtp_port_number_header).(gie_len)) (ecall_at (encode_gtp_port_number_ie value.(upd_bearer_rsp_ue_tcp_port))) ⨾
    enc_when (nz value.(upd_bearer_rsp_priv_ext).(gtp_priv_ext_header).(gie_len)) (ecall_at (encode_gtp_priv_ext_ie value.(upd_bearer_rsp_priv_ext)))).

Definition encode_gtp_create_sess_response__load_ctl_info_ie (value : gtp_create_sess_response__load_ctl_info_ie_t) : ie_encoder :=
  enc_bits (
    ecall (encode_ie_header_t value.(gtp_create_sess_response__load_ctl_info_header)) ⨾
    enc_to_bytes ⨾
    enc_when (nz value.(gtp_create_sess_response__load_ctl_info_load_ctl_seqn_nbr).(gtp_sequence_number_header).(gie_len)) (ecall_at (encode_gtp_sequence_number_ie value.(gtp_create_sess_response__load_ctl_info_load_ctl_seqn_nbr))) ⨾
    enc_when (nz value.(gtp_create_sess_response__load_ctl_info_load_metric).(gtp_metric_header).(gie_len)) (ecall_at (encode_gtp_metric_ie value.(gtp_create_sess_response__load_ctl_info_load_metric))) ⨾
    enc_when (nz value.(gtp_create_sess_response__load_ctl_info_list_of_apn_and_rltv_cap).(gtp_apn_and_rltv_cap_header).(gie_len)) (ecall_at (encode_gtp_apn_and_rltv_cap_ie value.(gtp_create_sess_response__load_ctl_info_list_of_apn_and_rltv_cap)))).

Definition encode_mod_acc_bearers_req (value : mod_acc_bearers_req_t) : ie_encoder :=
  enc_bits (
    ecall_at (encode_gtpv2c_header_t value.(mod_acc_bearers_req_header)) ⨾
    enc_when (nz value.(mod_acc_bearers_req_indctn_flgs).(gtp_indication_header).(gie_len)) (ecall_at (encode_gtp_indication_ie value.(mod_acc_bearers_req_indctn_flgs))) ⨾
    enc_when (nz value.(mod_acc_bearers_req_sender_fteid_ctl_plane).(gtp_fully_qual_tunn_endpt_idnt_header).(gie_len)) (ecall_at (encode_gtp_fully_qual_tunn_endpt_idnt_ie value.(mod_acc_bearers_req_sender_fteid_ctl_plane))) ⨾
    enc_when (nz value.(mod_acc_bearers_req_delay_dnlnk_pckt_notif_req).(gtp_delay_value_header).(gie_len)) (ecall_at (encode_gtp_delay_value_ie value.(mod_acc_bearers_req_delay_dnlnk_pckt_notif_req))) ⨾
    enc_when (nz value.(mod_acc_bearers_req_bearer_contexts_to_be_modified).(gtp_bearer_context_header).(gie_len)) (ecall_at (encode_gtp_bearer_context_ie value.(mod_acc_bearers_req_bearer_contexts_to_be_modified))) ⨾
    enc_when (nz value.(mod_acc_bearers_req_bearer_contexts_to_be_removed).(gtp_bearer_context_header).(gie_len)) (ecall_at (encode_gtp_bearer_context_ie value.(mod_acc_bearers_req_bearer_contexts_to_be_removed))) ⨾
    enc_when (nz value.(mod_acc_bearers_req_recovery).(gtp_recovery_header).(gie_len)) (ecall_at (encode_gtp_recovery_ie value.(mod_acc_bearers_req_recovery))) ⨾
    enc_when (nz value.(mod_acc_bearers_req_secdry_rat_usage_data_rpt).(gtp_secdry_rat_usage_data_rpt_header).(gie_len)) (ecall_at (encode_gtp_secdry_rat_usage_data_rpt_ie value.(mod_acc_bearers_req_secdry_rat_usage_data_rpt))) ⨾
    enc_when (nz value.(mod_acc_bearers_req_priv_ext).(gtp_priv_ext_header).(gie_len)) (ecall_at (encode_gtp_priv_ext_ie value.(mod_acc_bearers_req_priv_ext)))).

Definition encode_mbms_sess_stop_req (value : mbms_sess_stop_req_t) : ie_encoder :=
  enc_bits (
    ecall_at (encode_gtpv2c_header_t value.(mbms_sess_stop_req_header)) ⨾
    enc_when (nz value.(mbms_sess_stop_req_mbms_flow_idnt).(gtp_mbms_flow_idnt_header).(gie_len)) (ecall_at (encode_gtp_mbms_flow_idnt_ie value.(mbms_sess_stop_req_mbms_flow_idnt))) ⨾
    enc_when (nz value.(mbms_sess_stop_req_mbms_data_xfer_stop).(gtp_mbms_data_xfer_abs_time_header).(gie_len)) (ecall_at (encode_gtp_mbms_data_xfer_abs_time_ie value.(mbms_sess_stop_req_mbms_data_xfer_stop))) ⨾
    enc_when (nz value.(mbms_sess_stop_req_mbms_flags).(gtp_mbms_flags_header).(gie_len)) (ecall_at (encode_gtp_mbms_flags_ie value.(mbms_sess_stop_req_mbms_flags))) ⨾
    enc_when (nz value.(mbms_sess_stop_req_priv_ext).(gtp_priv_ext_header).(gie_len)) (ecall_at (encode_gtp_priv_ext_ie value.(mbms_sess_stop_req_priv_ext)))).

Definition encode_gtp_mod_acc_bearers_response__bearer_ctxt_modified_ie (value : gtp_mod_acc_bearers_response__bearer_ctxt_modified_ie_t) : ie_encoder :=
  enc_bits (
    ecall (encode_ie_header_t value.(gtp_mod_acc_bearers_response__bearer_ctxt_modified_header)) ⨾
    enc_to_bytes ⨾
    enc_when (nz value.(gtp_mod_acc_bearers_response__bearer_ctxt_modified_eps_bearer_id).(gtp_eps_bearer_id_header).(gie_len)) (ecall_at (encode_gtp_eps_bearer_id_ie value.(gtp_mod_acc_bearers_response__bearer_ctxt_modified_eps_bearer_id))) ⨾
    enc_when (nz value.(gtp_mod_acc_bearers_response__bearer_ctxt_modified_cause).(gtp_cause_header).(gie_len)) (ecall_at (encode_gtp_cause_ie value.(gtp_mod_acc_bearers_response__bearer_ctxt_modified_cause))) ⨾
    enc_when (nz value.(gtp_mod_acc_bearers_response__bearer_ctxt_modified_s1u_sgw_fteid).(gtp_fully_qual_tunn_endpt_idnt_header).(gie_len)) (ecall_at (encode_gtp_fully_qual_tunn_endpt_idnt_ie value.(gtp_mod_acc_bearers_response__bearer_ctxt_modified_s1u_sgw_fteid))) ⨾
    enc_when (nz value.(gtp_mod_acc_bearers_response__bearer_ctxt_modified_s11_u_sgw_fteid).(gtp_fully_qual_tunn_endpt_idnt_header).(gie_len)) (ecall_at (encode_gtp_fully_qual_tunn_endpt_idnt_ie value.(gtp_mod_acc_bearers_response__bearer_ctxt_modified_s11_u_sgw_fteid)))).

Definition encode_del_pdn_conn_set_req (value : del_pdn_conn_set_req_t) : ie_encoder :=
  enc_bits (
    ecall_at (encode_gtpv2c_header_t value.(del_pdn_conn_set_req_header)) ⨾
    enc_when (nz value.(del_pdn_conn_set_req_mme_fqcsid).(gtp_fqcsid_header).(gie_len)) (ecall_at (encode_gtp_fqcsid_ie value.(del_pdn_conn_set_req_mme_fqcsid))) ⨾
    enc_when (nz value.(del_pdn_conn_set_req_sgw_fqcsid).(gtp_fqcsid_header).(gie_len)) (ecall_at (encode_gtp_fqcsid_ie value.(del_pdn_conn_set_req_sgw_fqcsid))) ⨾
    enc_when (nz value.(del_pdn_conn_set_req_pgw_fqcsid).(gtp_fqcsid_header).(gie_len)) (ecall_at (encode_gtp_fqcsid_ie value.(del_pdn_conn_set_req_pgw_fqcsid))) ⨾
    enc_when (nz value.(del_pdn_conn_set_req_priv_ext).(gtp_priv_ext_header).(gie_len)) (ecall_at (encode_gtp_priv_ext_ie value.(del_pdn_conn_set_req_priv_ext)))).

Definition encode_del_pdn_conn_set_rsp (value : del_pdn_conn_set_rsp_t) : ie_encoder :=
  enc_bits (
    ecall_at (encode_gtpv2c_header_t value.(del_pdn_conn_set_rsp_header)) ⨾
    enc_when (nz value.(del_pdn_conn_set_rsp_cause).(gtp_cause_header).(gie_len)) (ecall_at (encode_gtp_cause_ie value.(del_pdn_conn_set_rsp_cause))) ⨾
    enc_when (nz value.(del_pdn_conn_set_rsp_recovery).(gtp_recovery_header).(gie_len)) (ecall_at (encode_gtp_recovery_ie value.(del_pdn_conn_set_rsp_recovery))) ⨾
    enc_when (nz value.(del_pdn_conn_set_rsp_priv_ext).(gtp_priv_ext_header).(gie_len)) (ecall_at (encode_gtp_priv_ext_ie value.(del_pdn_conn_set_rsp_priv_ext)))).

Definition encode_fwd_acc_ctxt_notif (value : fwd_acc_ctxt_notif_t) : ie_encoder :=
  enc_bits (
    ecall_at (encode_gtpv2c_header_t value.(fwd_acc_ctxt_notif_header)) ⨾
    enc_when (nz value.(fwd_acc_ctxt_notif_rab_contexts).(gtp_rab_context_header).(gie_len)) (ecall_at (encode_gtp_rab_context_ie value.(fwd_acc_ctxt_notif_rab_contexts))) ⨾
    enc_when (nz value.(fwd_acc_ctxt_notif_src_rnc_pdcp_ctxt_info).(gtp_src_rnc_pdcp_ctxt_info_header).(gie_len)) (ecall_at (encode_gtp_src_rnc_pdcp_ctxt_info_ie value.(fwd_acc_ctxt_notif_src_rnc_pdcp_ctxt_info))) ⨾
    enc_when (nz value.(fwd_acc_ctxt_notif_pdu_numbers).(gtp_pdu_numbers_header).(gie_len)) (ecall_at (encode_gtp_pdu_numbers_ie value.(fwd_acc_ctxt_notif_pdu_numbers))) ⨾
    enc_when (nz value.(fwd_acc_ctxt_notif_e_utran_transparent_cntnr).(gtp_full_qual_cntnr_header).(gie_len)) (ecall_at (encode_gtp_full_qual_cntnr_ie value.(fwd_acc_ctxt_notif_e_utran_transparent_cntnr))) ⨾
    enc_when (nz value.(fwd_acc_ctxt_notif_priv_ext).(gtp_priv_ext_header).(gie_len)) (ecall_at (encode_gtp_priv_ext_ie value.(fwd_acc_ctxt_notif_priv_ext)))).

Definition encode_gtp_del_bearer_request__load_ctl_info_ie (value : gtp_del_bearer_request__load_ctl_info_ie_t) : ie_encoder :=
  enc_bits (
    ecall (encode_ie_header_t value.(gtp_del_bearer_request__load_ctl_info_header)) ⨾
    enc_to_bytes ⨾
    enc_when (nz value.(gtp_del_bearer_request__load_ctl_info_load_ctl_seqn_nbr).(gtp_sequence_number_header).(gie_len)) (ecall_at (encode_gtp_sequence_number_ie value.(gtp_del_bearer_request__load_ctl_info_load_ctl_seqn_nbr))) ⨾
    enc_when (nz value.(gtp_del_bearer_request__load_ctl_info_load_metric).(gtp_metric_header).(gie_len)) (ecall_at (encode_gtp_metric_ie value.(gtp_del_bearer_request__load_ctl_info_load_metric))) ⨾
    enc_when (nz value.(gtp_del_bearer_request__load_ctl_info_list_of_apn_and_rltv_cap).(gtp_apn_and_rltv_cap_header).(gie_len)) (ecall_at (encode_gtp_apn_and_rltv_cap_ie value.(gtp_del_bearer_request__load_ctl_info_list_of_apn_and_rltv_cap)))).

Definition encode_gtp_del_bearer_response__overload_ctl_info_ie (value : gtp_del_bearer_response__overload_ctl_info_ie_t) : ie_encoder :=
  enc_bits (
    ecall (encode_ie_header_t value.(gtp_del_bearer_response__overload_ctl_info_header)) ⨾
    enc_to_bytes ⨾
    enc_when (nz value.(gtp_del_bearer_response__overload_ctl_info_ovrld_ctl_seqn_nbr).(gtp_sequence_number_header).(gie_len)) (ecall_at (encode_gtp_sequence_number_ie value.(gtp_del_bearer_response__overload_ctl_info_ovrld_ctl_seqn_nbr))) ⨾
    enc_when (nz value.(gtp_del_bearer_response__overload_ctl_info_ovrld_reduction_metric).(gtp_metric_header).(gie_len)) (ecall_at (encode_gtp_metric_ie value.(gtp_del_bearer_response__overload_ctl_info_ovrld_reduction_metric))) ⨾
    enc_when (nz value.(gtp_del_bearer_response__overload_ctl_info_prd_of_validity).(gtp_epc_timer_header).(gie_len)) (ecall_at (encode_gtp_epc_timer_ie value.(gtp_del_bearer_response__overload_ctl_info_prd_of_validity)))).

Definition encode_gtp_dnlnk_data_notification__overload_ctl_info_ie (value : gtp_dnlnk_data_notification__overload_ctl_info_ie_t) : ie_encoder :=
  enc_bits (
    ecall (encode_ie_header_t value.(gtp_dnlnk_data_notification__overload_ctl_info_header)) ⨾
    enc_to_bytes ⨾
    enc_when (nz value.(gtp_dnlnk_data_notification__overload_ctl_info_ovrld_ctl_seqn_nbr).(gtp_sequence_number_header).(gie_len)) (ecall_at (encode_gtp_sequence_number_ie value.(gtp_dnlnk_data_notification__overload_ctl_info_ovrld_ctl_seqn_nbr))) ⨾
    enc_when (nz value.(gtp_dnlnk_data_notification__overload_ctl_info_ovrld_reduction_metric).(gtp_metric_header).(gie_len)) (ecall_at (encode_gtp_metric_ie value.(gtp_dnlnk_data_notification__overload_ctl_info_ovrld_reduction_metric))) ⨾
    enc_when (nz value.(gtp_dnlnk_data_notification__overload_ctl_info_prd_of_validity).(gtp_epc_timer_header).(gie_len)) (ecall_at (encode_gtp_epc_timer_ie value.(gtp_dnlnk_data_notification__overload_ctl_info_prd_of_validity)))).

Definition encode_gtp_release_acc_bearers_response__overload_ctl_info_ie (value : gtp_release_acc_bearers_response__overload_ctl_info_ie_t) : ie_encoder :=
  enc_bits (
    ecall (encode_ie_header_t value.(gtp_release_acc_bearers_response__overload_ctl_info_header)) ⨾
    enc_to_bytes ⨾
    enc_when (nz value.(gtp_release_acc_bearers_response__overload_ctl_info_ovrld_ctl_seqn_nbr).(gtp_sequence_number_header).(gie_len)) (ecall_at (encode_gtp_sequence_number_ie value.(gtp_release_acc_bearers_response__overload_ctl_info_ovrld_ctl_seqn_nbr))) ⨾
    enc_when (nz value.(gtp_release_acc_bearers_response__overload_ctl_info_ovrld_reduction_metric).(gtp_metric_header).(gie_len)) (ecall_at (encode_gtp_metric_ie value.(gtp_release_acc_bearers_response__overload_ctl_info_ovrld_reduction_metric))) ⨾
    enc_when (nz value.(gtp_release_acc_bearers_response__overload_ctl_info_prd_of_validity).(gtp_epc_timer_header).(gie_len)) (ecall_at (encode_gtp_epc_timer_ie value.(gtp_release_acc_bearers_response__overload_ctl_info_prd_of_validity)))).

Definition encode_gtp_mod_bearer_fail_indication__overload_ctl_info_ie (value : gtp_mod_bearer_fail_indication__overload_ctl_info_ie_t) : ie_encoder :=
  enc_bits (
    ecall (encode_ie_header_t value.(gtp_mod_bearer_fail_indication__overload_ctl_info_header)) ⨾
    enc_to_bytes ⨾
    enc_when (nz value.(gtp_mod_bearer_fail_indication__overload_ctl_info_ovrld_ctl_seqn_nbr).(gtp_sequence_number_header).(gie_len)) (ecall_at (encode_gtp_sequence_number_ie value.(gtp_mod_bearer_fail_indication__overload_ctl_info_ovrld_ctl_seqn_nbr))) ⨾
    enc_when (nz value.(gtp_mod_bearer_fail_indication__overload_ctl_info_ovrld_reduction_metric).(gtp_metric_header).(gie_len)) (ecall_at (encode_gtp_metric_ie value.(gtp_mod_bearer_fail_indication__overload_ctl_info_ovrld_reduction_metric))) ⨾
    enc_when (nz value.(gtp_mod_bearer_fail_indication__overload_ctl_info_prd_of_validity).(gtp_epc_timer_header).(gie_len)) (ecall_at (encode_gtp_epc_timer_ie value.(gtp_mod_bearer_fail_indication__overload_ctl_info_prd_of_validity))) ⨾
    enc_when (nz value.(gtp_mod_bearer_fail_indication__overload_ctl_info_apn).(gtp_acc_pt_name_header).(gie_len)) (ecall_at (encode_gtp_acc_pt_name_ie value.(gtp_mod_bearer_fail_indication__overload_ctl_info_apn)))).

Definition encode_ctxt_ack (value : ctxt_ack_t) : ie_encoder :=
  enc_bits (
    ecall_at (encode_gtpv2c_header_t value.(ctxt_ack_header)) ⨾
    enc_when (nz value.(ctxt_ack_cause).(gtp_cause_header).(gie_len)) (ecall_at (encode_gtp_cause_ie value.(ctxt_ack_cause))) ⨾
    enc_when (nz value.(ctxt_ack_indctn_flgs).(gtp_indication_header).(gie_len)) (ecall_at (encode_gtp_indication_ie value.(ctxt_ack_indctn_flgs))) ⨾
    enc_when (nz value.(ctxt_ack_fwdng_fteid).(gtp_fully_qual_tunn_endpt_idnt_header).(gie_len)) (ecall_at (encode_gtp_fully_qual_tunn_endpt_idnt_ie value.(ctxt_ack_fwdng_fteid))) ⨾
    enc_when (nz value.(ctxt_ack_bearer_contexts).(gtp_bearer_context_header).(gie_len)) (ecall_at (encode_gtp_bearer_context_ie value.(ctxt_ack_bearer_contexts))) ⨾
    enc_when (nz value.(ctxt_ack_sgsn_number).(gtp_node_number_header).(gie_len)) (ecall_at (encode_gtp_node_number_ie value.(ctxt_ack_sgsn_number))) ⨾
    enc_when (nz value.(ctxt_ack_mme_nbr_mt_sms).(gtp_node_number_header).(gie_len)) (ecall_at (encode_gtp_node_number_ie value.(ctxt_ack_mme_nbr_mt_sms))) ⨾
    enc_when (nz value.(ctxt_ack_sgsn_idnt_mt_sms).(gtp_node_identifier_header).(gie_len)) (ecall_at (encode_gtp_node_identifier_ie value.(ctxt_ack_sgsn_idnt_mt_sms))) ⨾
    enc_when (nz value.(ctxt_ack_mme_idnt_mt_sms).(gtp_node_identifier_header).(gie_len)) (ecall_at (encode_gtp_node_identifier_ie value.(ctxt_ack_mme_idnt_mt_sms))) ⨾
    enc_when (nz value.(ctxt_ack_priv_ext).(gtp_priv_ext_header).(gie_len)) (ecall_at (encode_gtp_priv_ext_ie value.(ctxt_ack_priv_ext)))).

Definition encode_alert_mme_ack (value : alert_mme_ack_t) : ie_encoder :=
  enc_bits (
    ecall_at (encode_gtpv2c_header_t value.(alert_mme_ack_header)) ⨾
    enc_when (nz value.(alert_mme_ack_cause).(gtp_cause_header).(gie_len)) (ecall_at (encode_gtp_cause_ie value.(alert_mme_ack_cause))) ⨾
    enc_when (nz value.(alert_mme_ack_priv_ext).(gtp_priv_ext_header).(gie_len)) (ecall_at (encode_gtp_priv_ext_ie value.(alert_mme_ack_priv_ext)))).

Definition encode_create_fwdng_tunn_rsp (value : create_fwdng_tunn_rsp_t) : ie_encoder :=
  enc_bits (
    ecall_at (encode_gtpv2c_header_t value.(create_fwdng_tunn_rsp_header)) ⨾
    enc_when (nz value.(create_fwdng_tunn_rsp_cause).(gtp_cause_header).(gie_len)) (ecall_at (encode_gtp_cause_ie value.(create_fwdng_tunn_rsp_cause))) ⨾
    enc_when (nz value.(create_fwdng_tunn_rsp_s1u_data_fwdng).(gtp_s1u_data_fwdng_header).(gie_len)) (ecall_at (encode_gtp_s1u_data_fwdng_ie value.(create_fwdng_tunn_rsp_s1u_data_fwdng))) ⨾
    enc_when (nz value.(create_fwdng_tunn_rsp_priv_ext).(gtp_priv_ext_header).(gie_len)) (ecall_at (encode_gtp_priv_ext_ie value.(create_fwdng_tunn_rsp_priv_ext)))).

Definition encode_dnlnk_data_notif_fail_indctn (value : dnlnk_data_notif_fail_indctn_t) : ie_encoder :=
  enc_bits (
    ecall_at (encode_gtpv2c_header_t value.(dnlnk_data_notif_fail_indctn_header)) ⨾
    enc_when (nz value.(dnlnk_data_notif_fail_indctn_cause).(gtp_cause_header).(gie_len)) (ecall_at (encode_gtp_cause_ie value.(dnlnk_data_notif_fail_indctn_cause))) ⨾
    enc_when (nz value.(dnlnk_data_notif_fail_indctn_originating_node).(gtp_node_type_header).(gie_len)) (ecall_at (encode_gtp_node_type_ie value.(dnlnk_data_notif_fail_indctn_originating_node))) ⨾
    enc_when (nz value.(dnlnk_data_notif_fail_indctn_imsi).(gtp_imsi_header).(gie_len)) (ecall_at (encode_gtp_imsi_ie value.(dnlnk_data_notif_fail_indctn_imsi))) ⨾
    enc_when (nz value.(dnlnk_data_notif_fail_indctn_priv_ext).(gtp_priv_ext_header).(gie_len)) (ecall_at (encode_gtp_priv_ext_ie value.(dnlnk_data_notif_fail_indctn_priv_ext)))).

Definition encode_ue_actvty_ack (value : ue_actvty_ack_t) : ie_encoder :=
  enc_bits (
    ecall_at (encode_gtpv2c_header_t value.(ue_actvty_ack_header)) ⨾
    enc_when (nz value.(ue_actvty_ack_cause).(gtp_cause_header).(gie_len)) (ecall_at (encode_gtp_cause_ie value.(ue_actvty_ack_cause))) ⨾
    enc_when (nz value.(ue_actvty_ack_priv_ext).(gtp_priv_ext_header).(gie_len)) (ecall_at (encode_gtp_priv_ext_ie value.(ue_actvty_ack_priv_ext)))).

Definition encode_gtp_mod_bearer_command__bearer_ctxt_ie (value : gtp_mod_bearer_command__bearer_ctxt_ie_t) : ie_encoder :=
  enc_bits (
    ecall (encode_ie_header_t value.(gtp_mod_bearer_command__bearer_ctxt_header)) ⨾
    enc_to_bytes ⨾
    enc_when (nz value.(gtp_mod_bearer_command__bearer_ctxt_eps_bearer_id).(gtp_eps_bearer_id_header).(gie_len)) (ecall_at (encode_gtp_eps_bearer_id_ie value.(gtp_mod_bearer_command__bearer_ctxt_eps_bearer_id))) ⨾
    enc_when (nz value.(gtp_mod_bearer_command__bearer_ctxt_bearer_lvl_qos).(gtp_bearer_qlty_of_svc_header).(gie_len)) (ecall_at (encode_gtp_bearer_qlty_of_svc_ie value.(gtp_mod_bearer_command__bearer_ctxt_bearer_lvl_qos)))).

Definition encode_gtp_ctxt_response__mmesgsn_ue_scef_pdn_connections_ie (value : gtp_ctxt_response__mmesgsn_ue_scef_pdn_connections_ie_t) : ie_encoder :=
  enc_bits (
    ecall (encode_ie_header_t value.(gtp_ctxt_response__mmesgsn_ue_scef_pdn_connections_header)) ⨾
    enc_to_bytes ⨾
    enc_when (nz value.(gtp_ctxt_response__mmesgsn_ue_scef_pdn_connections_apn).(gtp_acc_pt_name_header).(gie_len)) (ecall_at (encode_gtp_acc_pt_name_ie value.(gtp_ctxt_response__mmesgsn_ue_scef_pdn_connections_apn))) ⨾
    enc_when (nz value.(gtp_ctxt_response__mmesgsn_ue_scef_pdn_connections_dflt_eps_bearer_id).(gtp_eps_bearer_id_header).(gie_len)) (ecall_at (encode_gtp_eps_bearer_id_ie value.(gtp_ctxt_response__mmesgsn_ue_scef_pdn_connections_dflt_eps_bearer_id))) ⨾
    enc_when (nz value.(gtp_ctxt_response__mmesgsn_ue_scef_pdn_connections_scef_id).(gtp_node_identifier_header).(gie_len)) (ecall_at (encode_gtp_node_identifier_ie value.(gtp_ctxt_response__mmesgsn_ue_scef_pdn_connections_scef_id)))).

Definition encode_gtp_release_acc_bearers_response__load_ctl_info_ie (value : gtp_release_acc_bearers_response__load_ctl_info_ie_t) : ie_encoder :=
  enc_bits (
    ecall (encode_ie_header_t value.(gtp_release_acc_bearers_response__load_ctl_info_header)) ⨾
    enc_to_bytes ⨾
    enc_when (nz value.(gtp_release_acc_bearers_response__load_ctl_info_load_ctl_seqn_nbr).(gtp_sequence_number_header).(gie_len)) (ecall_at (encode_gtp_sequence_number_ie value.(gtp_release_acc_bearers_response__load_ctl_info_load_ctl_seqn_nbr))) ⨾
    enc_when (nz value.(gtp_release_acc_bearers_response__load_ctl_info_load_metric).(gtp_metric_header).(gie_len)) (ecall_at (encode_gtp_metric_ie value.(gtp_release_acc_bearers_response__load_ctl_info_load_metric)))).

Definition encode_trc_sess_deact (value : trc_sess_deact_t) : ie_encoder :=
  enc_bits (
    ecall_at (encode_gtpv2c_header_t value.(trc_sess_deact_header)) ⨾
    enc_when (nz value.(trc_sess_deact_trace_reference).(gtp_trace_reference_header).(gie_len)) (ecall_at (encode_gtp_trace_reference_ie value.(trc_sess_deact_trace_reference)))).

Definition encode_dnlnk_data_notif (value : dnlnk_data_notif_t) : ie_encoder :=
  enc_bits (
    ecall_at (encode_gtpv2c_header_t value.(dnlnk_data_notif_header)) ⨾
    enc_when (nz value.(dnlnk_data_notif_cause).(gtp_cause_header).(gie_len)) (ecall_at (encode_gtp_cause_ie value.(dnlnk_data_notif_cause))) ⨾
    enc_when (nz value.(dnlnk_data_notif_eps_bearer_id).(gtp_eps_bearer_id_header).(gie_len)) (ecall_at (encode_gtp_eps_bearer_id_ie value.(dnlnk_data_notif_eps_bearer_id))) ⨾
    enc_when (nz value.(dnlnk_data_notif_alloc_reten_priority).(gtp_alloc_reten_priority_header).(gie_len)) (ecall_at (encode_gtp_alloc_reten_priority_ie value.(dnlnk_data_notif_alloc_reten_priority))) ⨾
    enc_when (nz value.(dnlnk_data_notif_imsi).(gtp_imsi_header).(gie_len)) (ecall_at (encode_gtp_imsi_ie value.(dnlnk_data_notif_imsi))) ⨾
    enc_when (nz value.(dnlnk_data_notif_sender_fteid_ctl_plane).(gtp_fully_qual_tunn_endpt_idnt_header).(gie_len)) (ecall_at (encode_gtp_fully_qual_tunn_endpt_idnt_ie value.(dnlnk_data_notif_sender_fteid_ctl_plane))) ⨾
    enc_when (nz value.(dnlnk_data_notif_indctn_flgs).(gtp_indication_header).(gie_len)) (ecall_at (encode_gtp_indication_ie value.(dnlnk_data_notif_indctn_flgs))) ⨾
    enc_when (nz value.(dnlnk_data_notif_sgws_node_lvl_load_ctl_info).(gtp_load_ctl_info_header).(gie_len)) (ecall_at (encode_gtp_load_ctl_info_ie value.(dnlnk_data_notif_sgws_node_lvl_load_ctl_info))) ⨾
    enc_when (nz value.(dnlnk_data_notif_sgws_ovrld_ctl_info).(gtp_ovrld_ctl_info_header).(gie_len)) (ecall_at (encode_gtp_ovrld_ctl_info_ie value.(dnlnk_data_notif_sgws_ovrld_ctl_info))) ⨾
    enc_when (nz value.(dnlnk_data_notif_paging_and_svc_info).(gtp_paging_and_svc_info_header).(gie_len)) (ecall_at (encode_gtp_paging_and_svc_info_ie value.(dnlnk_data_notif_paging_and_svc_info))) ⨾
    enc_when (nz value.(dnlnk_data_notif_priv_ext).(gtp_priv_ext_header).(gie_len)) (ecall_at (encode_gtp_priv_ext_ie value.(dnlnk_data_notif_priv_ext)))).

Definition encode_create_indir_data_fwdng_tunn_req (value : create_indir_data_fwdng_tunn_req_t) : ie_encoder :=
  enc_bits (
    ecall_at (encode_gtpv2c_header_t value.(create_indir_data_fwdng_tunn_req_header)) ⨾
    enc_when (nz value.(create_indir_data_fwdng_tunn_req_imsi).(gtp_imsi_header).(gie_len)) (ecall_at (encode_gtp_imsi_ie value.(create_indir_data_fwdng_tunn_req_imsi))) ⨾
    enc_when (nz value.(create_indir_data_fwdng_tunn_req_mei).(gtp_mbl_equip_idnty_header).(gie_len)) (ecall_at (encode_gtp_mbl_equip_idnty_ie value.(create_indir_data_fwdng_tunn_req_mei))) ⨾
    enc_when (nz value.(create_indir_data_fwdng_tunn_req_indctn_flgs).(gtp_indication_header).(gie_len)) (ecall_at (encode_gtp_indication_ie value.(create_indir_data_fwdng_tunn_req_indctn_flgs))) ⨾
    enc_when (nz value.(create_indir_data_fwdng_tunn_req_sender_fteid_ctl_plane).(gtp_fully_qual_tunn_endpt_idnt_header).(gie_len)) (ecall_at (encode_gtp_fully_qual_tunn_endpt_idnt_ie value.(create_indir_data_fwdng_tunn_req_sender_fteid_ctl_plane))) ⨾
    enc_when (nz value.(create_indir_data_fwdng_tunn_req_bearer_contexts).(gtp_bearer_context_header).(gie_len)) (ecall_at (encode_gtp_bearer_context_ie value.(create_indir_data_fwdng_tunn_req_bearer_contexts))) ⨾
    enc_when (nz value.(create_indir_data_fwdng_tunn_req_recovery).(gtp_recovery_header).(gie_len)) (ecall_at (encode_gtp_recovery_ie value.(create_indir_data_fwdng_tunn_req_recovery))) ⨾
    enc_when (nz value.(create_indir_data_fwdng_tunn_req_priv_ext).(gtp_priv_ext_header).(gie_len)) (ecall_at (encode_gtp_priv_ext_ie value.(create_indir_data_fwdng_tunn_req_priv_ext)))).

Definition encode_mbms_sess_start_req (value : mbms_sess_start_req_t) : ie_encoder :=
  enc_bits (
    ecall_at (encode_gtpv2c_header_t value.(mbms_sess_start_req_header)) ⨾
    enc_when (nz value.(mbms_sess_start_req_sender_fteid_ctl_plane).(gtp_fully_qual_tunn_endpt_idnt_header).(gie_len)) (ecall_at (encode_gtp_fully_qual_tunn_endpt_idnt_ie value.(mbms_sess_start_req_sender_fteid_ctl_plane))) ⨾
    enc_when (nz value.(mbms_sess_start_req_tmgi).(gtp_tmgi_header).(gie_len)) (ecall_at (encode_gtp_tmgi_ie value.(mbms_sess_start_req_tmgi))) ⨾
    enc_when (nz value.(mbms_sess_start_req_mbms_sess_dur).(gtp_mbms_sess_dur_header).(gie_len)) (ecall_at (encode_gtp_mbms_sess_dur_ie value.(mbms_sess_start_req_mbms_sess_dur))) ⨾
    enc_when (nz value.(mbms_sess_start_req_mbms_svc_area).(gtp_mbms_svc_area_header).(gie_len)) (ecall_at (encode_gtp_mbms_svc_area_ie value.(mbms_sess_start_req_mbms_svc_area))) ⨾
    enc_when (nz value.(mbms_sess_start_req_mbms_sess_idnt).(gtp_mbms_sess_idnt_header).(gie_len)) (ecall_at (encode_gtp_mbms_sess_idnt_ie value.(mbms_sess_start_req_mbms_sess_idnt))) ⨾
    enc_when (nz value.(mbms_sess_start_req_mbms_flow_idnt).(gtp_mbms_flow_idnt_header).(gie_len)) (ecall_at (encode_gtp_mbms_flow_idnt_ie value.(mbms_sess_start_req_mbms_flow_idnt))) ⨾
    enc_when (nz value.(mbms_sess_start_req_qos_profile).(gtp_bearer_qlty_of_svc_header).(gie_len)) (ecall_at (encode_gtp_bearer_qlty_of_svc_ie value.(mbms_sess_start_req_qos_profile))) ⨾
    enc_when (nz value.(mbms_sess_start_req_mbms_ip_multcst_dist).(gtp_mbms_ip_multcst_dist_header).(gie_len)) (ecall_at (encode_gtp_mbms_ip_multcst_dist_ie value.(mbms_sess_start_req_mbms_ip_multcst_dist))) ⨾
    enc_when (nz value.(mbms_sess_start_req_recovery).(gtp_recovery_header).(gie_len)) (ecall_at (encode_gtp_recovery_ie value.(mbms_sess_start_req_recovery))) ⨾
    enc_when (nz value.(mbms_sess_start_req_mbms_time_to_data_xfer).(gtp_mbms_time_to_data_xfer_header).(gie_len)) (ecall_at (encode_gtp_mbms_time_to_data_xfer_ie value.(mbms_sess_start_req_mbms_time_to_data_xfer))) ⨾
    enc_when (nz value.(mbms_sess_start_req_mbms_data_xfer_start).(gtp_mbms_data_xfer_abs_time_header).(gie_len)) (ecall_at (encode_gtp_mbms_data_xfer_abs_time_ie value.(mbms_sess_start_req_mbms_data_xfer_start))) ⨾
    enc_when (nz value.(mbms_sess_start_req_mbms_flags).(gtp_mbms_flags_header).(gie_len)) (ecall_at (encode_gtp_mbms_flags_ie value.(mbms_sess_start_req_mbms_flags))) ⨾
    enc_when (nz value.(mbms_sess_start_req_mbms_alternative_ip_multcst_dist).(gtp_mbms_ip_multcst_dist_header).(gie_len)) (ecall_at (encode_gtp_mbms_ip_multcst_dist_ie value.(mbms_sess_start_req_mbms_alternative_ip_multcst_dist))) ⨾
    enc_when (nz value.(mbms_sess_start_req_mbms_cell_list).(gtp_ecgi_list_header).(gie_len)) (ecall_at (encode_gtp_ecgi_list_ie value.(mbms_sess_start_req_mbms_cell_list))) ⨾
    enc_when (nz value.(mbms_sess_start_req_priv_ext).(gtp_priv_ext_header).(gie_len)) (ecall_at (encode_gtp_priv_ext_ie value.(mbms_sess_start_req_priv_ext)))).

Definition encode_del_bearer_req (value : del_bearer_req_t) : ie_encoder :=
  enc_bits (
    ecall_at (encode_gtpv2c_header_t value.(del_bearer_req_header)) ⨾
    enc_when (nz value.(del_bearer_req_lbi).(gtp_eps_bearer_id_header).(gie_len)) (ecall_at (encode_gtp_eps_bearer_id_ie value.(del_bearer_req_lbi))) ⨾
    enc_for value.(del_bearer_req_eps_bearer_ids) 0 (Z.to_nat value.(del_bearer_req_bearer_count)) (fun x => enc_when (nz x.(gtp_eps_bearer_id_header).(gie_len)) (ecall_at (encode_gtp_eps_bearer_id_ie x))) ⨾
    enc_when (nz value.(del_bearer_req_failed_bearer_contexts).(gtp_bearer_context_header).(gie_len)) (ecall_at (encode_gtp_bearer_context_ie value.(del_bearer_req_failed_bearer_contexts))) ⨾
    enc_when (nz value.(del_bearer_req_pti).(gtp_proc_trans_id_header).(gie_len)) (ecall_at (encode_gtp_proc_trans_id_ie value.(del_bearer_req_pti))) ⨾
    enc_when (nz value.(del_bearer_req_pco).(gtp_prot_cfg_opts_header).(gie_len)) (ecall_at (encode_gtp_prot_cfg_opts_ie value.(del_bearer_req_pco))) ⨾
    enc_when (nz value.(del_bearer_req_pgw_fqcsid).(gtp_fqcsid_header).(gie_len)) (ecall_at (encode_gtp_fqcsid_ie value.(del_bearer_req_pgw_fqcsid))) ⨾
    enc_when (nz value.(del_bearer_req_sgw_fqcsid).(gtp_fqcsid_header).(gie_len)) (ecall_at (encode_gtp_fqcsid_ie value.(del_bearer_req_sgw_fqcsid))) ⨾
    enc_when (nz value.(del_bearer_req_indctn_flgs).(gtp_indication_header).(gie_len)) (ecall_at (encode_gtp_indication_ie value.(del_bearer_req_indctn_flgs))) ⨾
    enc_when (nz value.(del_bearer_req_pgws_node_lvl_load_ctl_info).(gtp_load_ctl_info_header).(gie_len)) (ecall_at (encode_gtp_load_ctl_info_ie value.(del_bearer_req_pgws_node_lvl_load_ctl_info))) ⨾
    enc_when (nz value.(del_bearer_req_pgws_apn_lvl_load_ctl_info).(gtp_load_ctl_info_header).(gie_len)) (ecall_at (encode_gtp_load_ctl_info_ie value.(del_bearer_req_pgws_apn_lvl_load_ctl_info))) ⨾
    enc_when (nz value.(del_bearer_req_sgws_node_lvl_load_ctl_info).(gtp_load_ctl_info_header).(gie_len)) (ecall_at (encode_gtp_load_ctl_info_ie value.(del_bearer_req_sgws_node_lvl_load_ctl_info))) ⨾
    enc_when (nz value.(del_bearer_req_pgws_ovrld_ctl_info).(gtp_ovrld_ctl_info_header).(gie_len)) (ecall_at (encode_gtp_ovrld_ctl_info_ie value.(del_bearer_req_pgws_ovrld_ctl_info))) ⨾
    enc_when (nz value.(del_bearer_req_sgws_ovrld_ctl_info).(gtp_ovrld_ctl_info_header).(gie_len)) (ecall_at (encode_gtp_ovrld_ctl_info_ie value.(del_bearer_req_sgws_ovrld_ctl_info))) ⨾
    enc_when (nz value.(del_bearer_req_nbifom_cntnr).(gtp_full_qual_cntnr_header).(gie_len)) (ecall_at (encode_gtp_full_qual_cntnr_ie value.(del_bearer_req_nbifom_cntnr))) ⨾
    enc_when (nz value.(del_bearer_req_epco).(gtp_extnded_prot_cfg_opts_header).(gie_len)) (ecall_at (encode_gtp_extnded_prot_cfg_opts_ie value.(del_bearer_req_epco))) ⨾
    enc_when (nz value.(del_bearer_req_priv_ext).(gtp_priv_ext_header).(gie_len)) (ecall_at (encode_gtp_priv_ext_ie value.(del_bearer_req_priv_ext)))).

Definition encode_fwd_reloc_req (value : fwd_reloc_req_t) : ie_encoder :=
  enc_bits (
    ecall_at (encode_gtpv2c_header_t value.(fwd_reloc_req_header)) ⨾
    enc_when (nz value.(fwd_reloc_req_imsi).(gtp_imsi_header).(gie_len)) (ecall_at (encode_gtp_imsi_ie value.(fwd_reloc_req_imsi))) ⨾
    enc_when (nz value.(fwd_reloc_req_senders_fteid_ctl_plane).(gtp_fully_qual_tunn_endpt_idnt_header).(gie_len)) (ecall_at (encode_gtp_fully_qual_tunn_endpt_idnt_ie value.(fwd_reloc_req_senders_fteid_ctl_plane))) ⨾
    enc_when (nz value.(fwd_reloc_req_mmesgsnamf_ue_eps_pdn_connections).(gtp_pdn_connection_header).(gie_len)) (ecall_at (encode_gtp_pdn_connection_ie value.(fwd_reloc_req_mmesgsnamf_ue_eps_pdn_connections))) ⨾
    enc_when (nz value.(fwd_reloc_req_sgw_s11s4_ip_addr_and_teid_ctl_plane).(gtp_fully_qual_tunn_endpt_idnt_header).(gie_len)) (ecall_at (encode_gtp_fully_qual_tunn_endpt_idnt_ie value.(fwd_reloc_req_sgw_s11s4_ip_addr_and_teid_ctl_plane))) ⨾
    enc_when (nz value.(fwd_reloc_req_sgw_node_name).(gtp_fully_qual_domain_name_header).(gie_len)) (ecall_at (encode_gtp_fully_qual_domain_name_ie value.(fwd_reloc_req_sgw_node_name))) ⨾
    enc_when (nz value.(fwd_reloc_req_indctn_flgs).(gtp_indication_header).(gie_len)) (ecall_at (encode_gtp_indication_ie value.(fwd_reloc_req_indctn_flgs))) ⨾
    enc_when (nz value.(fwd_reloc_req_e_utran_transparent_cntnr).(gtp_full_qual_cntnr_header).(gie_len)) (ecall_at (encode_gtp_full_qual_cntnr_ie value.(fwd_reloc_req_e_utran_transparent_cntnr))) ⨾
    enc_when (nz value.(fwd_reloc_req_utran_transparent_cntnr).(gtp_full_qual_cntnr_header).(gie_len)) (ecall_at (encode_gtp_full_qual_cntnr_ie value.(fwd_reloc_req_utran_transparent_cntnr))) ⨾
    enc_when (nz value.(fwd_reloc_req_bss_container).(gtp_full_qual_cntnr_header).(gie_len)) (ecall_at (encode_gtp_full_qual_cntnr_ie value.(fwd_reloc_req_bss_container))) ⨾
    enc_when (nz value.(fwd_reloc_req_trgt_id).(gtp_trgt_id_header).(gie_len)) (ecall_at (encode_gtp_trgt_id_ie value.(fwd_reloc_req_trgt_id))) ⨾
    enc_when (nz value.(fwd_reloc_req_hrpd_acc_node_s101_ip_addr).(gtp_ip_address_header).(gie_len)) (ecall_at (encode_gtp_ip_address_ie value.(fwd_reloc_req_hrpd_acc_node_s101_ip_addr))) ⨾
    enc_when (nz value.(fwd_reloc_req_onexiws_sone02_ip_addr).(gtp_ip_address_header).(gie_len)) (ecall_at (encode_gtp_ip_address_ie value.(fwd_reloc_req_onexiws_sone02_ip_addr))) ⨾
    enc_when (nz value.(fwd_reloc_req_s1_ap_cause).(gtp_full_qual_cause_header).(gie_len)) (ecall_at (encode_gtp_full_qual_cause_ie value.(fwd_reloc_req_s1_ap_cause))) ⨾
    enc_when (nz value.(fwd_reloc_req_ranap_cause).(gtp_full_qual_cause_header).(gie_len)) (ecall_at (encode_gtp_full_qual_cause_ie value.(fwd_reloc_req_ranap_cause))) ⨾
    enc_when (nz value.(fwd_reloc_req_bssgp_cause).(gtp_full_qual_cause_header).(gie_len)) (ecall_at (encode_gtp_full_qual_cause_ie value.(fwd_reloc_req_bssgp_cause))) ⨾
    enc_when (nz value.(fwd_reloc_req_src_id).(gtp_src_id_header).(gie_len)) (ecall_at (encode_gtp_src_id_ie value.(fwd_reloc_req_src_id))) ⨾
    enc_when (nz value.(fwd_reloc_req_selected_plmn_id).(gtp_plmn_id_header).(gie_len)) (ecall_at (encode_gtp_plmn_id_ie value.(fwd_reloc_req_selected_plmn_id))) ⨾
    enc_when (nz value.(fwd_reloc_req_recovery).(gtp_recovery_header).(gie_len)) (ecall_at (encode_gtp_recovery_ie value.(fwd_reloc_req_recovery))) ⨾
    enc_when (nz value.(fwd_reloc_req_trc_info).(gtp_trc_info_header).(gie_len)) (ecall_at (encode_gtp_trc_info_ie value.(fwd_reloc_req_trc_info))) ⨾
    enc_when (nz value.(fwd_reloc_req_subscrbd_rfsp_idx).(gtp_rfsp_index_header).(gie_len)) (ecall_at (encode_gtp_rfsp_index_ie value.(fwd_reloc_req_subscrbd_rfsp_idx))) ⨾
    enc_when (nz value.(fwd_reloc_req_rfsp_idx_in_use).(gtp_rfsp_index_header).(gie_len)) (ecall_at (encode_gtp_rfsp_index_ie value.(fwd_reloc_req_rfsp_idx_in_use))) ⨾
    enc_when (nz value.(fwd_reloc_req_csg_id).(gtp_csg_id_header).(gie_len)) (ecall_at (encode_gtp_csg_id_ie value.(fwd_reloc_req_csg_id))) ⨾
    enc_when (nz value.(fwd_reloc_req_csg_memb_indctn).(gtp_csg_memb_indctn_header).(gie_len)) (ecall_at (encode_gtp_csg_memb_indctn_ie value.(fwd_reloc_req_csg_memb_indctn))) ⨾
    enc_when (nz value.(fwd_reloc_req_ue_time_zone).(gtp_ue_time_zone_header).(gie_len)) (ecall_at (encode_gtp_ue_time_zone_ie value.(fwd_reloc_req_ue_time_zone))) ⨾
    enc_when (nz value.(fwd_reloc_req_serving_network).(gtp_serving_network_header).(gie_len)) (ecall_at (encode_gtp_serving_network_ie value.(fwd_reloc_req_serving_network))) ⨾
    enc_when (nz value.(fwd_reloc_req_mmes4_sgsn_ldn).(gtp_local_distgsd_name_header).(gie_len)) (ecall_at (encode_gtp_local_distgsd_name_ie value.(fwd_reloc_req_mmes4_sgsn_ldn))) ⨾
    enc_when (nz value.(fwd_reloc_req_addtl_mm_ctxt_srvcc).(gtp_addtl_mm_ctxt_srvcc_header).(gie_len)) (ecall_at (encode_gtp_addtl_mm_ctxt_srvcc_ie value.(fwd_reloc_req_addtl_mm_ctxt_srvcc))) ⨾
    enc_when (nz value.(fwd_reloc_req_addtl_flgs_srvcc).(gtp_addtl_flgs_srvcc_header).(gie_len)) (ecall_at (encode_gtp_addtl_flgs_srvcc_ie value.(fwd_reloc_req_addtl_flgs_srvcc))) ⨾
    enc_when (nz value.(fwd_reloc_req_stn_sr).(gtp_stn_sr_header).(gie_len)) (ecall_at (encode_gtp_stn_sr_ie value.(fwd_reloc_req_stn_sr))) ⨾
    enc_when (nz value.(fwd_reloc_req_c_msisdn).(gtp_msisdn_header).(gie_len)) (ecall_at (encode_gtp_msisdn_ie value.(fwd_reloc_req_c_msisdn))) ⨾
    enc_when (nz value.(fwd_reloc_req_mdt_cfg).(gtp_mdt_cfg_header).(gie_len)) (ecall_at (encode_gtp_mdt_cfg_ie value.(fwd_reloc_req_mdt_cfg))) ⨾
    enc_when (nz value.(fwd_reloc_req_sgsn_node_name).(gtp_fully_qual_domain_name_header).(gie_len)) (ecall_at (encode_gtp_fully_qual_domain_name_ie value.(fwd_reloc_req_sgsn_node_name))) ⨾
    enc_when (nz value.(fwd_reloc_req_mme_node_name).(gtp_fully_qual_domain_name_header).(gie_len)) (ecall_at (encode_gtp_fully_qual_domain_name_ie value.(fwd_reloc_req_mme_node_name))) ⨾
    enc_when (nz value.(fwd_reloc_req_uci).(gtp_user_csg_info_header).(gie_len)) (ecall_at (encode_gtp_user_csg_info_ie value.(fwd_reloc_req_uci))) ⨾
    enc_when (nz value.(fwd_reloc_req_mntrng_evnt_info).(gtp_mntrng_evnt_info_header).(gie_len)) (ecall_at (encode_gtp_mntrng_evnt_info_ie value.(fwd_reloc_req_mntrng_evnt_info))) ⨾
    enc_when (nz value.(fwd_reloc_req_ue_usage_type).(gtp_integer_number_header).(gie_len)) (ecall_at (encode_gtp_integer_number_ie value.(fwd_reloc_req_ue_usage_type))) ⨾
    enc_when (nz value.(fwd_reloc_req_mmesgsn_ue_scef_pdn_connections).(gtp_scef_pdn_conn_header).(gie_len)) (ecall_at (encode_gtp_scef_pdn_conn_ie value.(fwd_reloc_req_mmesgsn_ue_scef_pdn_connections))) ⨾
    enc_when (nz value.(fwd_reloc_req_msisdn).(gtp_msisdn_header).(gie_len)) (ecall_at (encode_gtp_msisdn_ie value.(fwd_reloc_req_msisdn))) ⨾
    enc_when (nz value.(fwd_reloc_req_src_udp_port_nbr).(gtp_port_number_header).(gie_len)) (ecall_at (encode_gtp_port_number_ie value.(fwd_reloc_req_src_udp_port_nbr))) ⨾
    enc_when (nz value.(fwd_reloc_req_srvng_plmn_rate_ctl).(gtp_srvng_plmn_rate_ctl_header).(gie_len)) (ecall_at (encode_gtp_srvng_plmn_rate_ctl_ie value.(fwd_reloc_req_srvng_plmn_rate_ctl))) ⨾
    enc_when (nz value.(fwd_reloc_req_priv_ext).(gtp_priv_ext_header).(gie_len)) (ecall_at (encode_gtp_priv_ext_ie value.(fwd_reloc_req_priv_ext)))).

Definition encode_gtp_bearer_rsrc_fail_indication__overload_ctl_info_ie (value : gtp_bearer_rsrc_fail_indication__overload_ctl_info_ie_t) : ie_encoder :=
  enc_bits (
    ecall (encode_ie_header_t value.(gtp_bearer_rsrc_fail_indication__overload_ctl_info_header)) ⨾
    enc_to_bytes ⨾
    enc_when (nz value.(gtp_bearer_rsrc_fail_indication__overload_ctl_info_ovrld_ctl_seqn_nbr).(gtp_sequence_number_header).(gie_len)) (ecall_at (encode_gtp_sequence_number_ie value.(gtp_bearer_rsrc_fail_indication__overload_ctl_info_ovrld_ctl_seqn_nbr))) ⨾
    enc_when (nz value.(gtp_bearer_rsrc_fail_indication__overload_ctl_info_ovrld_reduction_metric).(gtp_metric_header).(gie_len)) (ecall_at (encode_gtp_metric_ie value.(gtp_bearer_rsrc_fail_indication__overload_ctl_info_ovrld_reduction_metric))) ⨾
    enc_when (nz value.(gtp_bearer_rsrc_fail_indication__overload_ctl_info_prd_of_validity).(gtp_epc_timer_header).(gie_len)) (ecall_at (encode_gtp_epc_timer_ie value.(gtp_bearer_rsrc_fail_indication__overload_ctl_info_prd_of_validity))) ⨾
    enc_when (nz value.(gtp_bearer_rsrc_fail_indication__overload_ctl_info_apn).(gtp_acc_pt_name_header).(gie_len)) (ecall_at (encode_gtp_acc_pt_name_ie value.(gtp_bearer_rsrc_fail_indication__overload_ctl_info_apn)))).

Definition encode_del_sess_req (value : del_sess_req_t) : ie_encoder :=
  enc_bits (
    ecall_at (encode_gtpv2c_header_t value.(del_sess_req_header)) ⨾
    enc_when (nz value.(del_sess_req_lbi).(gtp_eps_bearer_id_header).(gie_len)) (ecall_at (encode_gtp_eps_bearer_id_ie value.(del_sess_req_lbi))) ⨾
    enc_when (nz value.(del_sess_req_uli).(gtp_user_loc_info_header).(gie_len)) (ecall_at (encode_gtp_user_loc_info_ie value.(del_sess_req_uli))) ⨾
    enc_when (nz value.(del_sess_req_indctn_flgs).(gtp_indication_header).(gie_len)) (ecall_at (encode_gtp_indication_ie value.(del_sess_req_indctn_flgs))) ⨾
    enc_when (nz value.(del_sess_req_pco).(gtp_prot_cfg_opts_header).(gie_len)) (ecall_at (encode_gtp_prot_cfg_opts_ie value.(del_sess_req_pco))) ⨾
    enc_when (nz value.(del_sess_req_originating_node).(gtp_node_type_header).(gie_len)) (ecall_at (encode_gtp_node_type_ie value.(del_sess_req_originating_node))) ⨾
    enc_when (nz value.(del_sess_req_sender_fteid_ctl_plane).(gtp_fully_qual_tunn_endpt_idnt_header).(gie_len)) (ecall_at (encode_gtp_fully_qual_tunn_endpt_idnt_ie value.(del_sess_req_sender_fteid_ctl_plane))) ⨾
    enc_when (nz value.(del_sess_req_ue_time_zone).(gtp_ue_time_zone_header).(gie_len)) (ecall_at (encode_gtp_ue_time_zone_ie value.(del_sess_req_ue_time_zone))) ⨾
    enc_when (nz value.(del_sess_req_uli_timestamp).(gtp_uli_timestamp_header).(gie_len)) (ecall_at (encode_gtp_uli_timestamp_ie value.(del_sess_req_uli_timestamp))) ⨾
    enc_when (nz value.(del_sess_req_ran_nas_release_cause).(gtp_ran_nas_cause_header).(gie_len)) (ecall_at (encode_gtp_ran_nas_cause_ie value.(del_sess_req_ran_nas_release_cause))) ⨾
    enc_when (nz value.(del_sess_req_twan_identifier).(gtp_twan_identifier_header).(gie_len)) (ecall_at (encode_gtp_twan_identifier_ie value.(del_sess_req_twan_identifier))) ⨾
    enc_when (nz value.(del_sess_req_twan_idnt_ts).(gtp_twan_idnt_ts_header).(gie_len)) (ecall_at (encode_gtp_twan_idnt_ts_ie value.(del_sess_req_twan_idnt_ts))) ⨾
    enc_when (nz value.(del_sess_req_mmes4_sgsns_ovrld_ctl_info).(gtp_ovrld_ctl_info_header).(gie_len)) (ecall_at (encode_gtp_ovrld_ctl_info_ie value.(del_sess_req_mmes4_sgsns_ovrld_ctl_info))) ⨾
    enc_when (nz value.(del_sess_req_sgws_ovrld_ctl_info).(gtp_ovrld_ctl_info_header).(gie_len)) (ecall_at (encode_gtp_ovrld_ctl_info_ie value.(del_sess_req_sgws_ovrld_ctl_info))) ⨾
    enc_when (nz value.(del_sess_req_twanepdgs_ovrld_ctl_info).(gtp_ovrld_ctl_info_header).(gie_len)) (ecall_at (encode_gtp_ovrld_ctl_info_ie value.(del_sess_req_twanepdgs_ovrld_ctl_info))) ⨾
    enc_when (nz value.(del_sess_req_wlan_loc_info).(gtp_twan_identifier_header).(gie_len)) (ecall_at (encode_gtp_twan_identifier_ie value.(del_sess_req_wlan_loc_info))) ⨾
    enc_when (nz value.(del_sess_req_wlan_loc_ts).(gtp_twan_idnt_ts_header).(gie_len)) (ecall_at (encode_gtp_twan_idnt_ts_ie value.(del_sess_req_wlan_loc_ts))) ⨾
    enc_when (nz value.(del_sess_req_ue_local_ip_addr).(gtp_ip_address_header).(gie_len)) (ecall_at (encode_gtp_ip_address_ie value.(del_sess_req_ue_local_ip_addr))) ⨾
    enc_when (nz value.(del_sess_req_ue_udp_port).(gtp_port_number_header).(gie_len)) (ecall_at (encode_gtp_port_number_ie value.(del_sess_req_ue_udp_port))) ⨾
    enc_when (nz value.(del_sess_req_epco).(gtp_extnded_prot_cfg_opts_header).(gie_len)) (ecall_at (encode_gtp_extnded_prot_cfg_opts_ie value.(del_sess_req_epco))) ⨾
    enc_when (nz value.(del_sess_req_ue_tcp_port).(gtp_port_number_header).(gie_len)) (ecall_at (encode_gtp_port_number_ie value.(del_sess_req_ue_tcp_port))) ⨾
    enc_when (nz value.(del_sess_req_secdry_rat_usage_data_rpt).(gtp_secdry_rat_usage_data_rpt_header).(gie_len)) (ecall_at (encode_gtp_secdry_rat_usage_data_rpt_ie value.(del_sess_req_secdry_rat_usage_data_rpt))) ⨾
    enc_when (nz value.(del_sess_req_priv_ext).(gtp_priv_ext_header).(gie_len)) (ecall_at (encode_gtp_priv_ext_ie value.(del_sess_req_priv_ext)))).

Definition encode_gtp_mod_bearer_response__load_ctl_info_ie (value : gtp_mod_bearer_response__load_ctl_info_ie_t) : ie_encoder :=
  enc_bits (
    ecall (encode_ie_header_t value.(gtp_mod_bearer_response__load_ctl_info_header)) ⨾
    enc_to_bytes ⨾
    enc_when (nz value.(gtp_mod_bearer_response__load_ctl_info_load_ctl_seqn_nbr).(gtp_sequence_number_header).(gie_len)) (ecall_at (encode_gtp_sequence_number_ie value.(gtp_mod_bearer_response__load_ctl_info_load_ctl_seqn_nbr))) ⨾
    enc_when (nz value.(gtp_mod_bearer_response__load_ctl_info_load_metric).(gtp_metric_header).(gie_len)) (ecall_at (encode_gtp_metric_ie value.(gtp_mod_bearer_response__load_ctl_info_load_metric))) ⨾
    enc_when (nz value.(gtp_mod_bearer_response__load_ctl_info_list_of_apn_and_rltv_cap).(gtp_apn_and_rltv_cap_header).(gie_len)) (ecall_at (encode_gtp_apn_and_rltv_cap_ie value.(gtp_mod_bearer_response__load_ctl_info_list_of_apn_and_rltv_cap)))).

Definition encode_upd_pdn_conn_set_rsp (value : upd_pdn_conn_set_rsp_t) : ie_encoder :=
  enc_bits (
    ecall_at (encode_gtpv2c_header_t value.(upd_pdn_conn_set_rsp_header)) ⨾
    enc_when (nz value.(upd_pdn_conn_set_rsp_cause).(gtp_cause_header).(gie_len)) (ecall_at (encode_gtp_cause_ie value.(upd_pdn_conn_set_rsp_cause))) ⨾
    enc_when (nz value.(upd_pdn_conn_set_rsp_pgw_fqcsid).(gtp_fqcsid_header).(gie_len)) (ecall_at (encode_gtp_fqcsid_ie value.(upd_pdn_conn_set_rsp_pgw_fqcsid))) ⨾
    enc_when (nz value.(upd_pdn_conn_set_rsp_recovery).(gtp_recovery_header).(gie_len)) (ecall_at (encode_gtp_recovery_ie value.(upd_pdn_conn_set_rsp_recovery))) ⨾
    enc_when (nz value.(upd_pdn_conn_set_rsp_priv_ext).(gtp_priv_ext_header).(gie_len)) (ecall_at (encode_gtp_priv_ext_ie value.(upd_pdn_conn_set_rsp_priv_ext)))).

Definition encode_gtp_bearer_rsrc_command__overload_ctl_info_ie (value : gtp_bearer_rsrc_command__overload_ctl_info_ie_t) : ie_encoder :=
  enc_bits (
    ecall (encode_ie_header_t value.(gtp_bearer_rsrc_command__overload_ctl_info_header)) ⨾
    enc_to_bytes ⨾
    enc_when (nz value.(gtp_bearer_rsrc_command__overload_ctl_info_ovrld_ctl_seqn_nbr).(gtp_sequence_number_header).(gie_len)) (ecall_at (encode_gtp_sequence_number_ie value.(gtp_bearer_rsrc_command__overload_ctl_info_ovrld_ctl_seqn_nbr))) ⨾
    enc_when (nz value.(gtp_bearer_rsrc_command__overload_ctl_info_ovrld_reduction_metric).(gtp_metric_header).(gie_len)) (ecall_at (encode_gtp_metric_ie value.(gtp_bearer_rsrc_command__overload_ctl_info_ovrld_reduction_metric))) ⨾
    enc_when (nz value.(gtp_bearer_rsrc_command__overload_ctl_info_prd_of_validity).(gtp_epc_timer_header).(gie_len)) (ecall_at (encode_gtp_epc_timer_ie value.(gtp_bearer_rsrc_command__overload_ctl_info_prd_of_validity)))).

Definition encode_stop_paging_indctn (value : stop_paging_indctn_t) : ie_encoder :=
  enc_bits (
    ecall_at (encode_gtpv2c_header_t value.(stop_paging_indctn_header)) ⨾
    enc_when (nz value.(stop_paging_indctn_imsi).(gtp_imsi_header).(gie_len)) (ecall_at (encode_gtp_imsi_ie value.(stop_paging_indctn_imsi))) ⨾
    enc_when (nz value.(stop_paging_indctn_priv_ext).(gtp_priv_ext_header).(gie_len)) (ecall_at (encode_gtp_priv_ext_ie value.(stop_paging_indctn_priv_ext)))).

Definition encode_create_bearer_rsp (value : create_bearer_rsp_t) : ie_encoder :=
  enc_bits (
    ecall_at (encode_gtpv2c_header_t value.(create_bearer_rsp_header)) ⨾
    enc_when (nz value.(create_bearer_rsp_cause).(gtp_cause_header).(gie_len)) (ecall_at (encode_gtp_cause_ie value.(create_bearer_rsp_cause))) ⨾
    enc_when (nz value.(create_bearer_rsp_bearer_contexts).(gtp_create_bearer_response_bearer_ctxt_header).(gie_len)) (ecall_at (encode_gtp_create_bearer_response_bearer_ctxt_ie value.(create_bearer_rsp_bearer_contexts))) ⨾
    enc_when (nz value.(create_bearer_rsp_recovery).(gtp_recovery_header).(gie_len)) (ecall_at (encode_gtp_recovery_ie value.(create_bearer_rsp_recovery))) ⨾
    enc_when (nz value.(create_bearer_rsp_mme_fqcsid).(gtp_fqcsid_header).(gie_len)) (ecall_at (encode_gtp_fqcsid_ie value.(create_bearer_rsp_mme_fqcsid))) ⨾
    enc_when (nz value.(create_bearer_rsp_sgw_fqcsid).(gtp_fqcsid_header).(gie_len)) (ecall_at (encode_gtp_fqcsid_ie value.(create_bearer_rsp_sgw_fqcsid))) ⨾
    enc_when (nz value.(create_bearer_rsp_epdg_fqcsid).(gtp_fqcsid_header).(gie_len)) (ecall_at (encode_gtp_fqcsid_ie value.(create_bearer_rsp_epdg_fqcsid))) ⨾
    enc_when (nz value.(create_bearer_rsp_twan_fqcsid).(gtp_fqcsid_header).(gie_len)) (ecall_at (encode_gtp_fqcsid_ie value.(create_bearer_rsp_twan_fqcsid))) ⨾
    enc_when (nz value.(create_bearer_rsp_pco).(gtp_prot_cfg_opts_header).(gie_len)) (ecall_at (encode_gtp_prot_cfg_opts_ie value.(create_bearer_rsp_pco))) ⨾
    enc_when (nz value.(create_bearer_rsp_ue_time_zone).(gtp_ue_time_zone_header).(gie_len)) (ecall_at (encode_gtp_ue_time_zone_ie value.(create_bearer_rsp_ue_time_zone))) ⨾
    enc_when (nz value.(create_bearer_rsp_uli).(gtp_user_loc_info_header).(gie_len)) (ecall_at (encode_gtp_user_loc_info_ie value.(create_bearer_rsp_uli))) ⨾
    enc_when (nz value.(create_bearer_rsp_twan_identifier).(gtp_twan_identifier_header).(gie_len)) (ecall_at (encode_gtp_twan_identifier_ie value.(create_bearer_rsp_twan_identifier))) ⨾
    enc_when (nz value.(create_bearer_rsp_mmes4_sgsns_ovrld_ctl_info).(gtp_ovrld_ctl_info_header).(gie_len)) (ecall_at (encode_gtp_ovrld_ctl_info_ie value.(create_bearer_rsp_mmes4_sgsns_ovrld_ctl_info))) ⨾
    enc_when (nz value.(create_bearer_rsp_sgws_ovrld_ctl_info).(gtp_ovrld_ctl_info_header).(gie_len)) (ecall_at (encode_gtp_ovrld_ctl_info_ie value.(create_bearer_rsp_sgws_ovrld_ctl_info))) ⨾
    enc_when (nz value.(create_bearer_rsp_pres_rptng_area_info).(gtp_pres_rptng_area_info_header).(gie_len)) (ecall_at (encode_gtp_pres_rptng_area_info_ie value.(create_bearer_rsp_pres_rptng_area_info))) ⨾
    enc_when (nz value.(create_bearer_rsp_mmes4_sgsn_idnt).(gtp_ip_address_header).(gie_len)) (ecall_at (encode_gtp_ip_address_ie value.(create_bearer_rsp_mmes4_sgsn_idnt))) ⨾
    enc_when (nz value.(create_bearer_rsp_twanepdgs_ovrld_ctl_info).(gtp_ovrld_ctl_info_header).(gie_len)) (ecall_at (encode_gtp_ovrld_ctl_info_ie value.(create_bearer_rsp_twanepdgs_ovrld_ctl_info))) ⨾
    enc_when (nz value.(create_bearer_rsp_wlan_loc_info).(gtp_twan_identifier_header).(gie_len)) (ecall_at (encode_gtp_twan_identifier_ie value.(create_bearer_rsp_wlan_loc_info))) ⨾
    enc_when (nz value.(create_bearer_rsp_wlan_loc_ts).(gtp_twan_idnt_ts_header).(gie_len)) (ecall_at (encode_gtp_twan_idnt_ts_ie value.(create_bearer_rsp_wlan_loc_ts))) ⨾
    enc_when (nz value.(create_bearer_rsp_ue_local_ip_addr).(gtp_ip_address_header).(gie_len)) (ecall_at (encode_gtp_ip_address_ie value.(create_bearer_rsp_ue_local_ip_addr))) ⨾
    enc_when (nz value.(create_bearer_rsp_ue_udp_port).(gtp_port_number_header).(gie_len)) (ecall_at (encode_gtp_port_number_ie value.(create_bearer_rsp_ue_udp_port))) ⨾
    enc_when (nz value.(create_bearer_rsp_nbifom_cntnr).(gtp_full_qual_cntnr_header).(gie_len)) (ecall_at (encode_gtp_full_qual_cntnr_ie value.(create_bearer_rsp_nbifom_cntnr))) ⨾
    enc_when (nz value.(create_bearer_rsp_ue_tcp_port).(gtp_port_number_header).(gie_len)) (ecall_at (encode_gtp_port_number_ie value.(create_bearer_rsp_ue_tcp_port))) ⨾
    enc_when (nz value.(create_bearer_rsp_priv_ext).(gtp_priv_ext_header).(gie_len)) (ecall_at (encode_gtp_priv_ext_ie value.(create_bearer_rsp_priv_ext)))).

Definition encode_gtp_mod_acc_bearers_response__load_ctl_info_ie (value : gtp_mod_acc_bearers_response__load_ctl_info_ie_t) : ie_encoder :=
  enc_bits (
    ecall (encode_ie_header_t value.(gtp_mod_acc_bearers_response__load_ctl_info_header)) ⨾
    enc_to_bytes ⨾
    enc_when (nz value.(gtp_mod_acc_bearers_response__load_ctl_info_load_ctl_seqn_nbr).(gtp_sequence_number_header).(gie_len)) (ecall_at (encode_gtp_sequence_number_ie value.(gtp_mod_acc_bearers_response__load_ctl_info_load_ctl_seqn_nbr))) ⨾
    enc_when (nz value.(gtp_mod_acc_bearers_response__load_ctl_info_load_metric).(gtp_metric_header).(gie_len)) (ecall_at (encode_gtp_metric_ie value.(gtp_mod_acc_bearers_response__load_ctl_info_load_metric)))).

Definition encode_rmt_ue_rpt_ack (value : rmt_ue_rpt_ack_t) : ie_encoder :=
  enc_bits (
    ecall_at (encode_gtpv2c_header_t value.(rmt_ue_rpt_ack_header)) ⨾
    enc_when (nz value.(rmt_ue_rpt_ack_cause).(gtp_cause_header).(gie_len)) (ecall_at (encode_gtp_cause_ie value.(rmt_ue_rpt_ack_cause))) ⨾
    enc_when (nz value.(rmt_ue_rpt_ack_priv_ext).(gtp_priv_ext_header).(gie_len)) (ecall_at (encode_gtp_priv_ext_ie value.(rmt_ue_rpt_ack_priv_ext)))).

Definition encode_create_fwdng_tunn_req (value : create_fwdng_tunn_req_t) : ie_encoder :=
  enc_bits (
    ecall_at (encode_gtpv2c_header_t value.(create_fwdng_tunn_req_header)) ⨾
    enc_when (nz value.(create_fwdng_tunn_req_s103_pdn_data_fwdng_info).(gtp_s103_pdn_data_fwdng_info_header).(gie_len)) (ecall_at (encode_gtp_s103_pdn_data_fwdng_info_ie value.(create_fwdng_tunn_req_s103_pdn_data_fwdng_info))) ⨾
    enc_when (nz value.(create_fwdng_tunn_req_priv_ext).(gtp_priv_ext_header).(gie_len)) (ecall_at (encode_gtp_priv_ext_ie value.(create_fwdng_tunn_req_priv_ext)))).

Definition encode_upd_pdn_conn_set_req (value : upd_pdn_conn_set_req_t) : ie_encoder :=
  enc_bits (
    ecall_at (encode_gtpv2c_header_t value.(upd_pdn_conn_set_req_header)) ⨾
    enc_when (nz value.(upd_pdn_conn_set_req_mme_fqcsid).(gtp_fqcsid_header).(gie_len)) (ecall_at (encode_gtp_fqcsid_ie value.(upd_pdn_conn_set_req_mme_fqcsid))) ⨾
    enc_when (nz value.(upd_pdn_conn_set_req_sgw_fqcsid).(gtp_fqcsid_header).(gie_len)) (ecall_at (encode_gtp_fqcsid_ie value.(upd_pdn_conn_set_req_sgw_fqcsid))) ⨾
    enc_when (nz value.(upd_pdn_conn_set_req_priv_ext).(gtp_priv_ext_header).(gie_len)) (ecall_at (encode_gtp_priv_ext_ie value.(upd_pdn_conn_set_req_priv_ext)))).

Definition encode_gtp_del_sess_response__overload_ctl_info_ie (value : gtp_del_sess_response__overload_ctl_info_ie_t) : ie_encoder :=
  enc_bits (
    ecall (encode_ie_header_t value.(gtp_del_sess_response__overload_ctl_info_header)) ⨾
    enc_to_bytes ⨾
    enc_when (nz value.(gtp_del_sess_response__overload_ctl_info_ovrld_ctl_seqn_nbr).(gtp_sequence_number_header).(gie_len)) (ecall_at (encode_gtp_sequence_number_ie value.(gtp_del_sess_response__overload_ctl_info_ovrld_ctl_seqn_nbr))) ⨾
    enc_when (nz value.(gtp_del_sess_response__overload_ctl_info_ovrld_reduction_metric).(gtp_metric_header).(gie_len)) (ecall_at (encode_gtp_metric_ie value.(gtp_del_sess_response__overload_ctl_info_ovrld_reduction_metric))) ⨾
    enc_when (nz value.(gtp_del_sess_response__overload_ctl_info_prd_of_validity).(gtp_epc_timer_header).(gie_len)) (ecall_at (encode_gtp_epc_timer_ie value.(gtp_del_sess_response__overload_ctl_info_prd_of_validity))) ⨾
    enc_when (nz value.(gtp_del_sess_response__overload_ctl_info_apn).(gtp_acc_pt_name_header).(gie_len)) (ecall_at (encode_gtp_acc_pt_name_ie value.(gtp_del_sess_response__overload_ctl_info_apn)))).

Definition encode_gtp_mod_acc_bearers_request__bearer_ctxt_to_be_removed_ie (value : gtp_mod_acc_bearers_request__bearer_ctxt_to_be_removed_ie_t) : ie_encoder :=
  enc_bits (
    ecall (encode_ie_header_t value.(gtp_mod_acc_bearers_request__bearer_ctxt_to_be_removed_header)) ⨾
    enc_to_bytes ⨾
    enc_when (nz value.(gtp_mod_acc_bearers_request__bearer_ctxt_to_be_removed_eps_bearer_id).(gtp_eps_bearer_id_header).(gie_len)) (ecall_at (encode_gtp_eps_bearer_id_ie value.(gtp_mod_acc_bearers_request__bearer_ctxt_to_be_removed_eps_bearer_id)))).

Definition encode_gtp_create_indir_data_fwdng_tunn_response__bearer_ctxt_ie (value : gtp_create_indir_data_fwdng_tunn_response__bearer_ctxt_ie_t) : ie_encoder :=
  enc_bits (
    ecall (encode_ie_header_t value.(gtp_create_indir_data_fwdng_tunn_response__bearer_ctxt_header)) ⨾
    enc_to_bytes ⨾
    enc_when (nz value.(gtp_create_indir_data_fwdng_tunn_response__bearer_ctxt_eps_bearer_id).(gtp_eps_bearer_id_header).(gie_len)) (ecall_at (encode_gtp_eps_bearer_id_ie value.(gtp_create_indir_data_fwdng_tunn_response__bearer_ctxt_eps_bearer_id))) ⨾
    enc_when (nz value.(gtp_create_indir_data_fwdng_tunn_response__bearer_ctxt_cause).(gtp_cause_header).(gie_len)) (ecall_at (encode_gtp_cause_ie value.(gtp_create_indir_data_fwdng_tunn_response__bearer_ctxt_cause))) ⨾
    enc_when (nz value.(gtp_create_indir_data_fwdng_tunn_response__bearer_ctxt_s1u_sgw_fteid_dl_data_fwdng).(gtp_fully_qual_tunn_endpt_idnt_header).(gie_len)) (ecall_at (encode_gtp_fully_qual_tunn_endpt_idnt_ie value.(gtp_create_indir_data_fwdng_tunn_response__bearer_ctxt_s1u_sgw_fteid_dl_data_fwdng))) ⨾
    enc_when (nz value.(gtp_create_indir_data_fwdng_tunn_response__bearer_ctxt_s12_sgw_fteid_dl_data_fwdng).(gtp_fully_qual_tunn_endpt_idnt_header).(gie_len)) (ecall_at (encode_gtp_fully_qual_tunn_endpt_idnt_ie value.(gtp_create_indir_data_fwdng_tunn_response__bearer_ctxt_s12_sgw_fteid_dl_data_fwdng))) ⨾
    enc_when (nz value.(gtp_create_indir_data_fwdng_tunn_response__bearer_ctxt_s4_u_sgw_fteid_dl_data_fwdng).(gtp_fully_qual_tunn_endpt_idnt_header).(gie_len)) (ecall_at (encode_gtp_fully_qual_tunn_endpt_idnt_ie value.(gtp_create_indir_data_fwdng_tunn_response__bearer_ctxt_s4_u_sgw_fteid_dl_data_fwdng))) ⨾
    enc_when (nz value.(gtp_create_indir_data_fwdng_tunn_response__bearer_ctxt_sgw_fteid_dl_data_fwdng).(gtp_fully_qual_tunn_endpt_idnt_header).(gie_len)) (ecall_at (encode_gtp_fully_qual_tunn_endpt_idnt_ie value.(gtp_create_indir_data_fwdng_tunn_response__bearer_ctxt_sgw_fteid_dl_data_fwdng))) ⨾
    enc_when (nz value.(gtp_create_indir_data_fwdng_tunn_response__bearer_ctxt_s1u_sgw_fteid_ul_data_fwdng).(gtp_fully_qual_tunn_endpt_idnt_header).(gie_len)) (ecall_at (encode_gtp_fully_qual_tunn_endpt_idnt_ie value.(gtp_create_indir_data_fwdng_tunn_response__bearer_ctxt_s1u_sgw_fteid_ul_data_fwdng))) ⨾
    enc_when (nz value.(gtp_create_indir_data_fwdng_tunn_response__bearer_ctxt_sgw_fteid_ul_data_fwdng).(gtp_fully_qual_tunn_endpt_idnt_header).(gie_len)) (ecall_at (encode_gtp_fully_qual_tunn_endpt_idnt_ie value.(gtp_create_indir_data_fwdng_tunn_response__bearer_ctxt_sgw_fteid_ul_data_fwdng)))).

Definition encode_rel_acc_bearer_rsp (value : rel_acc_bearer_rsp_t) : ie_encoder :=
  enc_bits (
    ecall_at (encode_gtpv2c_header_t value.(rel_acc_bearer_rsp_header)) ⨾
    enc_when (nz value.(rel_acc_bearer_rsp_cause).(gtp_cause_header).(gie_len)) (ecall_at (encode_gtp_cause_ie value.(rel_acc_bearer_rsp_cause)))).
