(* ===== verification/GtpMsgsDecoder.v ===== *)
(** * Decoders of the GTPv2 messages and grouped elements
    (src/libgtpv2c/src/gtp_messages_decoder.c)

    After the header a decoder goes through the elements with [count], a uint16_t: the
    type and the instance are read at [buf + count], the decoder for them fills its
    member and returns what is added to [count], and an unknown element is skipped by
    its length.  [value] is the structure of the caller. *)

From S2P Require Import Prelude EncDecBits Codec GtpIes GtpIesDecoder GtpMsgs.

(** ** Statements *)

(** [type] and [instance] of the header at [here]. *)
Definition ie_key_at (here : list Z) : option (Z * Z) :=
  type ← load here 0; instance ← load here 3; Some (type, instance).

(** [count += sizeof(ie_header_t) + ntohs(ie_header->len);] *)
Definition skip_gie {T} (here : list Z) (value : T) : option (Z * T) :=
  len ← ntohs_at here 1; Some (4 + len, value).

(** A message: [reset] sets a counter to 0. *)
Definition dec_gtp_message {T} (header : T -> gtpv2c_header_t) (set_header : gtpv2c_header_t -> T -> T)
    (reset : T -> T) (step : Z * Z -> list Z -> T -> option (Z * T)) (value : T) : ie_decoder T := fun buf =>
  '(count, h) ← decode_gtpv2c_header_t (header value) buf;
  let buf_len := u16 (h.(gtpc_message_len) - (if nz h.(gtpc_teid_flag) then 8 else 4)) in
  tlv_loop ie_key_at step loop_fuel (drop (Z.to_nat count) buf) buf_len 0 (set_header h (reset value)).

(** A grouped element: [buf] is moved behind the header, and most of the decoders return
    [count] without the four bytes of the header, [extra] being 0 for these. *)
Definition dec_gtp_group {T} (set_header : ie_header_t -> T -> T) (extra : Z)
    (step : Z * Z -> list Z -> T -> option (Z * T)) (value : T) : ie_decoder T := fun buf =>
  '(count, h) ← decode_ie_header_t IE_HEADER_SIZE buf;
  '(count, value) ← tlv_loop ie_key_at step loop_fuel (drop (Z.to_nat (count / 8)) buf) h.(gie_len) 0
                      (set_header h value);
  Some (count + extra, value).

(** ** The decoders *)


Definition decode_detach_ack : detach_ack_t -> ie_decoder detach_ack_t :=
  dec_gtp_message detach_ack_header set_detach_ack_header id (fun '(ie_type, instance) here value =>
    if (ie_type =? GTP_IE_CAUSE) && (instance =? GTP_IE_INSTANCE_ZERO) then into decode_gtp_cause_ie value.(detach_ack_cause) set_detach_ack_cause here value
    else if (ie_type =? GTP_IE_RECOVERY) && (instance =? GTP_IE_INSTANCE_ZERO) then into decode_gtp_recovery_ie value.(detach_ack_recovery) set_detach_ack_recovery here value
    else if ie_type =? GTP_IE_PRIV_EXT then into decode_gtp_priv_ext_ie value.(detach_ack_priv_ext) set_detach_ack_priv_ext here value
    else skip_gie here value).

Definition decode_dnlnk_data_notif_ack : dnlnk_data_notif_ack_t -> ie_decoder dnlnk_data_notif_ack_t :=
  dec_gtp_message dnlnk_data_notif_ack_header set_dnlnk_data_notif_ack_header id (fun '(ie_type, instance) here value =>
    if (ie_type =? GTP_IE_CAUSE) && (instance =? GTP_IE_INSTANCE_ZERO) then into decode_gtp_cause_ie value.(dnlnk_data_notif_ack_cause) set_dnlnk_data_notif_ack_cause here value
    else if (ie_type =? GTP_IE_DELAY_VALUE) && (instance =? GTP_IE_INSTANCE_ZERO) then into decode_gtp_delay_value_ie value.(dnlnk_data_notif_ack_data_notif_delay) set_dnlnk_data_notif_ack_data_notif_delay here value
    else if (ie_type =? GTP_IE_RECOVERY) && (instance =? GTP_IE_INSTANCE_ZERO) then into decode_gtp_recovery_ie value.(dnlnk_data_notif_ack_recovery) set_dnlnk_data_notif_ack_recovery here value
    else if (ie_type =? GTP_IE_THROTTLING) && (instance =? GTP_IE_INSTANCE_ZERO) then into decode_gtp_throttling_ie value.(dnlnk_data_notif_ack_dl_low_priority_traffic_thrtlng) set_dnlnk_data_notif_ack_dl_low_priority_traffic_thrtlng here value
    else if (ie_type =? GTP_IE_IMSI) && (instance =? GTP_IE_INSTANCE_ZERO) then into decode_gtp_imsi_ie value.(dnlnk_data_notif_ack_imsi) set_dnlnk_data_notif_ack_imsi here value
    else if (ie_type =? GTP_IE_EPC_TIMER) && (instance =? GTP_IE_INSTANCE_ZERO) then into decode_gtp_epc_timer_ie value.(dnlnk_data_notif_ack_dl_buffering_dur) set_dnlnk_data_notif_ack_dl_buffering_dur here value
    else if (ie_type =? GTP_IE_INTEGER_NUMBER) && (instance =? GTP_IE_INSTANCE_ZERO) then into decode_gtp_integer_number_ie value.(dnlnk_data_notif_ack_dl_buffering_suggested_pckt_cnt) set_dnlnk_data_notif_ack_dl_buffering_suggested_pckt_cnt here value
    else if ie_type =? GTP_IE_PRIV_EXT then into decode_gtp_priv_ext_ie value.(dnlnk_data_notif_ack_priv_ext) set_dnlnk_data_notif_ack_priv_ext here value
    else skip_gie here value).

Definition decode_reloc_cncl_rsp : reloc_cncl_rsp_t -> ie_decoder reloc_cncl_rsp_t :=
  dec_gtp_message reloc_cncl_rsp_header set_reloc_cncl_rsp_header id (fun '(ie_type, instance) here value =>
    if (ie_type =? GTP_IE_CAUSE) && (instance =? GTP_IE_INSTANCE_ZERO) then into decode_gtp_cause_ie value.(reloc_cncl_rsp_cause) set_reloc_cncl_rsp_cause here value
    else if ie_type =? GTP_IE_PRIV_EXT then into decode_gtp_priv_ext_ie value.(reloc_cncl_rsp_priv_ext) set_reloc_cncl_rsp_priv_ext here value
    else skip_gie here value).

Definition decode_bearer_rsrc_cmd : bearer_rsrc_cmd_t -> ie_decoder bearer_rsrc_cmd_t :=
  dec_gtp_message bearer_rsrc_cmd_header set_bearer_rsrc_cmd_header id (fun '(ie_type, instance) here value =>
    if (ie_type =? GTP_IE_EPS_BEARER_ID) && (instance =? GTP_IE_INSTANCE_ZERO) then into decode_gtp_eps_bearer_id_ie value.(bearer_rsrc_cmd_lbi) set_bearer_rsrc_cmd_lbi here value
    else if (ie_type =? GTP_IE_PROC_TRANS_ID) && (instance =? GTP_IE_INSTANCE_ZERO) then into decode_gtp_proc_trans_id_ie value.(bearer_rsrc_cmd_pti) set_bearer_rsrc_cmd_pti here value
    else if (ie_type =? GTP_IE_FLOW_QLTY_OF_SVC) && (instance =? GTP_IE_INSTANCE_ZERO) then into decode_gtp_flow_qlty_of_svc_ie value.(bearer_rsrc_cmd_flow_qos) set_bearer_rsrc_cmd_flow_qos here value
    else if (ie_type =? GTP_IE_TRAFFIC_AGG_DESC) && (instance =? GTP_IE_INSTANCE_ZERO) then into decode_gtp_traffic_agg_desc_ie value.(bearer_rsrc_cmd_tad) set_bearer_rsrc_cmd_tad here value
    else if (ie_type =? GTP_IE_RAT_TYPE) && (instance =? GTP_IE_INSTANCE_ZERO) then into decode_gtp_rat_type_ie value.(bearer_rsrc_cmd_rat_type) set_bearer_rsrc_cmd_rat_type here value
    else if (ie_type =? GTP_IE_SERVING_NETWORK) && (instance =? GTP_IE_INSTANCE_ZERO) then into decode_gtp_serving_network_ie value.(bearer_rsrc_cmd_serving_network) set_bearer_rsrc_cmd_serving_network here value
    else if (ie_type =? GTP_IE_USER_LOC_INFO) && (instance =? GTP_IE_INSTANCE_ZERO) then into decode_gtp_user_loc_info_ie value.(bearer_rsrc_cmd_uli) set_bearer_rsrc_cmd_uli here value
    else if (ie_type =? GTP_IE_EPS_BEARER_ID) && (instance =? GTP_IE_INSTANCE_ONE) then into decode_gtp_eps_bearer_id_ie value.(bearer_rsrc_cmd_eps_bearer_id) set_bearer_rsrc_cmd_eps_bearer_id here value
    else if (ie_type =? GTP_IE_INDICATION) && (instance =? GTP_IE_INSTANCE_ZERO) then into decode_gtp_indication_ie value.(bearer_rsrc_cmd_indctn_flgs) set_bearer_rsrc_cmd_indctn_flgs here value
    else if (ie_type =? GTP_IE_FULLY_QUAL_TUNN_ENDPT_IDNT) && (instance =? GTP_IE_INSTANCE_ZERO) then into decode_gtp_fully_qual_tunn_endpt_idnt_ie value.(bearer_rsrc_cmd_s4_u_sgsn_fteid) set_bearer_rsrc_cmd_s4_u_sgsn_fteid here value
    else if (ie_type =? GTP_IE_FULLY_QUAL_TUNN_ENDPT_IDNT) && (instance =? GTP_IE_INSTANCE_ONE) then into decode_gtp_fully_qual_tunn_endpt_idnt_ie value.(bearer_rsrc_cmd_s12_rnc_fteid) set_bearer_rsrc_cmd_s12_rnc_fteid here value
    else if (ie_type =? GTP_IE_PROT_CFG_OPTS) && (instance =? GTP_IE_INSTANCE_ZERO) then into decode_gtp_prot_cfg_opts_ie value.(bearer_rsrc_cmd_pco) set_bearer_rsrc_cmd_pco here value
    else if (ie_type =? GTP_IE_SGNLLNG_PRIORITY_INDCTN) && (instance =? GTP_IE_INSTANCE_ZERO) then into decode_gtp_sgnllng_priority_indctn_ie value.(bearer_rsrc_cmd_sgnllng_priority_indctn) set_bearer_rsrc_cmd_sgnllng_priority_indctn here value
    else if (ie_type =? GTP_IE_OVRLD_CTL_INFO) && (instance =? GTP_IE_INSTANCE_ZERO) then into decode_gtp_ovrld_ctl_info_ie value.(bearer_rsrc_cmd_mmes4_sgsns_ovrld_ctl_info) set_bearer_rsrc_cmd_mmes4_sgsns_ovrld_ctl_info here value
    else if (ie_type =? GTP_IE_OVRLD_CTL_INFO) && (instance =? GTP_IE_INSTANCE_ONE) then into decode_gtp_ovrld_ctl_info_ie value.(bearer_rsrc_cmd_sgws_ovrld_ctl_info) set_bearer_rsrc_cmd_sgws_ovrld_ctl_info here value
    else if (ie_type =? GTP_IE_FULL_QUAL_CNTNR) && (instance =? GTP_IE_INSTANCE_ZERO) then into decode_gtp_full_qual_cntnr_ie value.(bearer_rsrc_cmd_nbifom_cntnr) set_bearer_rsrc_cmd_nbifom_cntnr here value
    else if (ie_type =? GTP_IE_EXTNDED_PROT_CFG_OPTS) && (instance =? GTP_IE_INSTANCE_ZERO) then into decode_gtp_extnded_prot_cfg_opts_ie value.(bearer_rsrc_cmd_epco) set_bearer_rsrc_cmd_epco here value
    else if (ie_type =? GTP_IE_FULLY_QUAL_TUNN_ENDPT_IDNT) && (instance =? GTP_IE_INSTANCE_TWO) then into decode_gtp_fully_qual_tunn_endpt_idnt_ie value.(bearer_rsrc_cmd_sender_fteid_ctl_plane) set_bearer_rsrc_cmd_sender_fteid_ctl_plane here value
    else if ie_type =? GTP_IE_PRIV_EXT then into decode_gtp_priv_ext_ie value.(bearer_rsrc_cmd_priv_ext) set_bearer_rsrc_cmd_priv_ext here value
    else skip_gie here value).

Definition decode_fwd_reloc_cmplt_ack : fwd_reloc_cmplt_ack_t -> ie_decoder fwd_reloc_cmplt_ack_t :=
  dec_gtp_message fwd_reloc_cmplt_ack_header set_fwd_reloc_cmplt_ack_header id (fun '(ie_type, instance) here value =>
    if (ie_type =? GTP_IE_CAUSE) && (instance =? GTP_IE_INSTANCE_ZERO) then into decode_gtp_cause_ie value.(fwd_reloc_cmplt_ack_cause) set_fwd_reloc_cmplt_ack_cause here value
    else if (ie_type =? GTP_IE_RECOVERY) && (instance =? GTP_IE_INSTANCE_ZERO) then into decode_gtp_recovery_ie value.(fwd_reloc_cmplt_ack_recovery) set_fwd_reloc_cmplt_ack_recovery here value
    else if (ie_type =? GTP_IE_SECDRY_RAT_USAGE_DATA_RPT) && (instance =? GTP_IE_INSTANCE_ZERO) then into decode_gtp_secdry_rat_usage_data_rpt_ie value.(fwd_reloc_cmplt_ack_secdry_rat_usage_data_rpt) set_fwd_reloc_cmplt_ack_secdry_rat_usage_data_rpt here value
    else if ie_type =? GTP_IE_PRIV_EXT then into decode_gtp_priv_ext_ie value.(fwd_reloc_cmplt_ack_priv_ext) set_fwd_reloc_cmplt_ack_priv_ext here value
    else skip_gie here value).

Definition decode_isr_status_indctn : isr_status_indctn_t -> ie_decoder isr_status_indctn_t :=
  dec_gtp_message isr_status_indctn_header set_isr_status_indctn_header id (fun '(ie_type, instance) here value =>
    if (ie_type =? GTP_IE_ACT_INDCTN) && (instance =? GTP_IE_INSTANCE_ZERO) then into decode_gtp_act_indctn_ie value.(isr_status_indctn_act_indctn) set_isr_status_indctn_act_indctn here value
    else if ie_type =? GTP_IE_PRIV_EXT then into decode_gtp_priv_ext_ie value.(isr_status_indctn_priv_ext) set_isr_status_indctn_priv_ext here value
    else skip_gie here value).

Definition decode_gtp_ctxt_acknowledge__bearer_ctxt_ie : gtp_ctxt_acknowledge__bearer_ctxt_ie_t -> ie_decoder gtp_ctxt_acknowledge__bearer_ctxt_ie_t :=
  dec_gtp_group set_gtp_ctxt_acknowledge__bearer_ctxt_header 0 (fun '(ie_type, instance) here value =>
    if (ie_type =? GTP_IE_EPS_BEARER_ID) && (instance =? GTP_IE_INSTANCE_ZERO) then into decode_gtp_eps_bearer_id_ie value.(gtp_ctxt_acknowledge__bearer_ctxt_eps_bearer_id) set_gtp_ctxt_acknowledge__bearer_ctxt_eps_bearer_id here value
    else if (ie_type =? GTP_IE_FULLY_QUAL_TUNN_ENDPT_IDNT) && (instance =? GTP_IE_INSTANCE_ZERO) then into decode_gtp_fully_qual_tunn_endpt_idnt_ie value.(gtp_ctxt_acknowledge__bearer_ctxt_fwdng_fteid) set_gtp_ctxt_acknowledge__bearer_ctxt_fwdng_fteid here value
    else skip_gie here value).

Definition decode_gtp_del_bearer_request__overload_ctl_info_ie : gtp_del_bearer_request__overload_ctl_info_ie_t -> ie_decoder gtp_del_bearer_request__overload_ctl_info_ie_t :=
  dec_gtp_group set_gtp_del_bearer_request__overload_ctl_info_header 0 (fun '(ie_type, instance) here value =>
    if (ie_type =? GTP_IE_SEQUENCE_NUMBER) && (instance =? GTP_IE_INSTANCE_ZERO) then into decode_gtp_sequence_number_ie value.(gtp_del_bearer_request__overload_ctl_info_ovrld_ctl_seqn_nbr) set_gtp_del_bearer_request__overload_ctl_info_ovrld_ctl_seqn_nbr here value
    else if (ie_type =? GTP_IE_METRIC) && (instance =? GTP_IE_INSTANCE_ZERO) then into decode_gtp_metric_ie value.(gtp_del_bearer_request__overload_ctl_info_ovrld_reduction_metric) set_gtp_del_bearer_request__overload_ctl_info_ovrld_reduction_metric here value
    else if (ie_type =? GTP_IE_EPC_TIMER) && (instance =? GTP_IE_INSTANCE_ZERO) then into decode_gtp_epc_timer_ie value.(gtp_del_bearer_request__overload_ctl_info_prd_of_validity) set_gtp_del_bearer_request__overload_ctl_info_prd_of_validity here value
    else if (ie_type =? GTP_IE_ACC_PT_NAME) && (instance =? GTP_IE_INSTANCE_ZERO) then into decode_gtp_acc_pt_name_ie value.(gtp_del_bearer_request__overload_ctl_info_apn) set_gtp_del_bearer_request__overload_ctl_info_apn here value
    else skip_gie here value).

Definition decode_gtp_create_bearer_response__overload_ctl_info_ie : gtp_create_bearer_response__overload_ctl_info_ie_t -> ie_decoder gtp_create_bearer_response__overload_ctl_info_ie_t :=
  dec_gtp_group set_gtp_create_bearer_response__overload_ctl_info_header 0 (fun '(ie_type, instance) here value =>
    if (ie_type =? GTP_IE_SEQUENCE_NUMBER) && (instance =? GTP_IE_INSTANCE_ZERO) then into decode_gtp_sequence_number_ie value.(gtp_create_bearer_response__overload_ctl_info_ovrld_ctl_seqn_nbr) set_gtp_create_bearer_response__overload_ctl_info_ovrld_ctl_seqn_nbr here value
    else if (ie_type =? GTP_IE_METRIC) && (instance =? GTP_IE_INSTANCE_ZERO) then into decode_gtp_metric_ie value.(gtp_create_bearer_response__overload_ctl_info_ovrld_reduction_metric) set_gtp_create_bearer_response__overload_ctl_info_ovrld_reduction_metric here value
    else if (ie_type =? GTP_IE_EPC_TIMER) && (instance =? GTP_IE_INSTANCE_ZERO) then into decode_gtp_epc_timer_ie value.(gtp_create_bearer_response__overload_ctl_info_prd_of_validity) set_gtp_create_bearer_response__overload_ctl_info_prd_of_validity here value
    else skip_gie here value).

Definition decode_gtp_mod_acc_bearers_request__bearer_ctxt_to_be_modified_ie : gtp_mod_acc_bearers_request__bearer_ctxt_to_be_modified_ie_t -> ie_decoder gtp_mod_acc_bearers_request__bearer_ctxt_to_be_modified_ie_t :=
  dec_gtp_group set_gtp_mod_acc_bearers_request__bearer_ctxt_to_be_modified_header 0 (fun '(ie_type, instance) here value =>
    if (ie_type =? GTP_IE_EPS_BEARER_ID) && (instance =? GTP_IE_INSTANCE_ZERO) then into decode_gtp_eps_bearer_id_ie value.(gtp_mod_acc_bearers_request__bearer_ctxt_to_be_modified_eps_bearer_id) set_gtp_mod_acc_bearers_request__bearer_ctxt_to_be_modified_eps_bearer_id here value
    else if (ie_type =? GTP_IE_FULLY_QUAL_TUNN_ENDPT_IDNT) && (instance =? GTP_IE_INSTANCE_ZERO) then into decode_gtp_fully_qual_tunn_endpt_idnt_ie value.(gtp_mod_acc_bearers_request__bearer_ctxt_to_be_modified_s1u_enb_fteid) set_gtp_mod_acc_bearers_request__bearer_ctxt_to_be_modified_s1u_enb_fteid here value
    else if (ie_type =? GTP_IE_FULLY_QUAL_TUNN_ENDPT_IDNT) && (instance =? GTP_IE_INSTANCE_ONE) then into decode_gtp_fully_qual_tunn_endpt_idnt_ie value.(gtp_mod_acc_bearers_request__bearer_ctxt_to_be_modified_s11_u_mme_fteid) set_gtp_mod_acc_bearers_request__bearer_ctxt_to_be_modified_s11_u_mme_fteid here value
    else skip_gie here value).

Definition decode_ran_info_rly : ran_info_rly_t -> ie_decoder ran_info_rly_t :=
  dec_gtp_message ran_info_rly_header set_ran_info_rly_header id (fun '(ie_type, instance) here value =>
    if (ie_type =? GTP_IE_FULL_QUAL_CNTNR) && (instance =? GTP_IE_INSTANCE_ZERO) then into decode_gtp_full_qual_cntnr_ie value.(ran_info_rly_bss_container) set_ran_info_rly_bss_container here value
    else if (ie_type =? GTP_IE_TRGT_ID) && (instance =? GTP_IE_INSTANCE_ZERO) then into decode_gtp_trgt_id_ie value.(ran_info_rly_rim_rtng_addr) set_ran_info_rly_rim_rtng_addr here value
    else if ie_type =? GTP_IE_PRIV_EXT then into decode_gtp_priv_ext_ie value.(ran_info_rly_priv_ext) set_ran_info_rly_priv_ext here value
    else skip_gie here value).

Definition decode_ue_reg_qry_rsp : ue_reg_qry_rsp_t -> ie_decoder ue_reg_qry_rsp_t :=
  dec_gtp_message ue_reg_qry_rsp_header set_ue_reg_qry_rsp_header id (fun '(ie_type, instance) here value =>
    if (ie_type =? GTP_IE_CAUSE) && (instance =? GTP_IE_INSTANCE_ZERO) then into decode_gtp_cause_ie value.(ue_reg_qry_rsp_cause) set_ue_reg_qry_rsp_cause here value
    else if (ie_type =? GTP_IE_IMSI) && (instance =? GTP_IE_INSTANCE_ZERO) then into decode_gtp_imsi_ie value.(ue_reg_qry_rsp_imsi) set_ue_reg_qry_rsp_imsi here value
    else if (ie_type =? GTP_IE_PLMN_ID) && (instance =? GTP_IE_INSTANCE_ZERO) then into decode_gtp_plmn_id_ie value.(ue_reg_qry_rsp_selected_core_ntwk_oper_idnt) set_ue_reg_qry_rsp_selected_core_ntwk_oper_idnt here value
    else if ie_type =? GTP_IE_PRIV_EXT then into decode_gtp_priv_ext_ie value.(ue_reg_qry_rsp_priv_ext) set_ue_reg_qry_rsp_priv_ext here value
    else skip_gie here value).

Definition decode_create_indir_data_fwdng_tunn_rsp : create_indir_data_fwdng_tunn_rsp_t -> ie_decoder create_indir_data_fwdng_tunn_rsp_t :=
  dec_gtp_message create_indir_data_fwdng_tunn_rsp_header set_create_indir_data_fwdng_tunn_rsp_header id (fun '(ie_type, instance) here value =>
    if (ie_type =? GTP_IE_CAUSE) && (instance =? GTP_IE_INSTANCE_ZERO) then into decode_gtp_cause_ie value.(create_indir_data_fwdng_tunn_rsp_cause) set_create_indir_data_fwdng_tunn_rsp_cause here value
    else if (ie_type =? GTP_IE_FULLY_QUAL_TUNN_ENDPT_IDNT) && (instance =? GTP_IE_INSTANCE_ZERO) then into decode_gtp_fully_qual_tunn_endpt_idnt_ie value.(create_indir_data_fwdng_tunn_rsp_sender_fteid_ctl_plane) set_create_indir_data_fwdng_tunn_rsp_sender_fteid_ctl_plane here value
    else if (ie_type =? GTP_IE_BEARER_CONTEXT) && (instance =? GTP_IE_INSTANCE_ZERO) then into decode_gtp_bearer_context_ie value.(create_indir_data_fwdng_tunn_rsp_bearer_contexts) set_create_indir_data_fwdng_tunn_rsp_bearer_contexts here value
    else if (ie_type =? GTP_IE_RECOVERY) && (instance =? GTP_IE_INSTANCE_ZERO) then into decode_gtp_recovery_ie value.(create_indir_data_fwdng_tunn_rsp_recovery) set_create_indir_data_fwdng_tunn_rsp_recovery here value
    else if ie_type =? GTP_IE_PRIV_EXT then into decode_gtp_priv_ext_ie value.(create_indir_data_fwdng_tunn_rsp_priv_ext) set_create_indir_data_fwdng_tunn_rsp_priv_ext here value
    else skip_gie here value).

Definition decode_gtp_rmt_ue_rpt_notification__remote_ue_ctxt_disconnected_ie : gtp_rmt_ue_rpt_notification__remote_ue_ctxt_disconnected_ie_t -> ie_decoder gtp_rmt_ue_rpt_notification__remote_ue_ctxt_disconnected_ie_t :=
  dec_gtp_group set_gtp_rmt_ue_rpt_notification__remote_ue_ctxt_disconnected_header 0 (fun '(ie_type, instance) here value =>
    if (ie_type =? GTP_IE_REMOTE_USER_ID) && (instance =? GTP_IE_INSTANCE_ZERO) then into decode_gtp_remote_user_id_ie value.(gtp_rmt_ue_rpt_notification__remote_ue_ctxt_disconnected_remote_user_id) set_gtp_rmt_ue_rpt_notification__remote_ue_ctxt_disconnected_remote_user_id here value
    else skip_gie here value).

Definition decode_gtp_rmt_ue_rpt_notification__remote_ue_ctxt_connected_ie : gtp_rmt_ue_rpt_notification__remote_ue_ctxt_connected_ie_t -> ie_decoder gtp_rmt_ue_rpt_notification__remote_ue_ctxt_connected_ie_t :=
  dec_gtp_group set_gtp_rmt_ue_rpt_notification__remote_ue_ctxt_connected_header 0 (fun '(ie_type, instance) here value =>
    if (ie_type =? GTP_IE_REMOTE_USER_ID) && (instance =? GTP_IE_INSTANCE_ZERO) then into decode_gtp_remote_user_id_ie value.(gtp_rmt_ue_rpt_notification__remote_ue_ctxt_connected_remote_user_id) set_gtp_rmt_ue_rpt_notification__remote_ue_ctxt_connected_remote_user_id here value
    else if (ie_type =? GTP_IE_RMT_UE_IP_INFO) && (instance =? GTP_IE_INSTANCE_ZERO) then into decode_gtp_rmt_ue_ip_info_ie value.(gtp_rmt_ue_rpt_notification__remote_ue_ctxt_connected_rmt_ue_ip_info) set_gtp_rmt_ue_rpt_notification__remote_ue_ctxt_connected_rmt_ue_ip_info here value
    else skip_gie here value).

Definition decode_fwd_reloc_cmplt_notif : fwd_reloc_cmplt_notif_t -> ie_decoder fwd_reloc_cmplt_notif_t :=
  dec_gtp_message fwd_reloc_cmplt_notif_header set_fwd_reloc_cmplt_notif_header id (fun '(ie_type, instance) here value =>
    if (ie_type =? GTP_IE_INDICATION) && (instance =? GTP_IE_INSTANCE_ZERO) then into decode_gtp_indication_ie value.(fwd_reloc_cmplt_notif_indctn_flgs) set_fwd_reloc_cmplt_notif_indctn_flgs here value
    else if ie_type =? GTP_IE_PRIV_EXT then into decode_gtp_priv_ext_ie value.(fwd_reloc_cmplt_notif_priv_ext) set_fwd_reloc_cmplt_notif_priv_ext here value
    else skip_gie here value).

Definition decode_gtp_del_bearer_fail_indication__overload_ctl_info_ie : gtp_del_bearer_fail_indication__overload_ctl_info_ie_t -> ie_decoder gtp_del_bearer_fail_indication__overload_ctl_info_ie_t :=
  dec_gtp_group set_gtp_del_bearer_fail_indication__overload_ctl_info_header 0 (fun '(ie_type, instance) here value =>
    if (ie_type =? GTP_IE_SEQUENCE_NUMBER) && (instance =? GTP_IE_INSTANCE_ZERO) then into decode_gtp_sequence_number_ie value.(gtp_del_bearer_fail_indication__overload_ctl_info_ovrld_ctl_seqn_nbr) set_gtp_del_bearer_fail_indication__overload_ctl_info_ovrld_ctl_seqn_nbr here value
    else if (ie_type =? GTP_IE_METRIC) && (instance =? GTP_IE_INSTANCE_ZERO) then into decode_gtp_metric_ie value.(gtp_del_bearer_fail_indication__overload_ctl_info_ovrld_reduction_metric) set_gtp_del_bearer_fail_indication__overload_ctl_info_ovrld_reduction_metric here value
    else if (ie_type =? GTP_IE_EPC_TIMER) && (instance =? GTP_IE_INSTANCE_ZERO) then into decode_gtp_epc_timer_ie value.(gtp_del_bearer_fail_indication__overload_ctl_info_prd_of_validity) set_gtp_del_bearer_fail_indication__overload_ctl_info_prd_of_validity here value
    else if (ie_type =? GTP_IE_ACC_PT_NAME) && (instance =? GTP_IE_INSTANCE_ZERO) then into decode_gtp_acc_pt_name_ie value.(gtp_del_bearer_fail_indication__overload_ctl_info_apn) set_gtp_del_bearer_fail_indication__overload_ctl_info_apn here value
    else skip_gie here value).

Definition decode_gtp_create_sess_request_bearer_ctxt_to_be_created_ie : gtp_create_sess_request_bearer_ctxt_to_be_created_ie_t -> ie_decoder gtp_create_sess_request_bearer_ctxt_to_be_created_ie_t :=
  dec_gtp_group set_gtp_create_sess_request_bearer_ctxt_to_be_created_header 0 (fun '(ie_type, instance) here value =>
    if (ie_type =? GTP_IE_EPS_BEARER_ID) && (instance =? GTP_IE_INSTANCE_ZERO) then into decode_gtp_eps_bearer_id_ie value.(gtp_create_sess_request_bearer_ctxt_to_be_created_eps_bearer_id) set_gtp_create_sess_request_bearer_ctxt_to_be_created_eps_bearer_id here value
    else if (ie_type =? GTP_IE_EPS_BEARER_LVL_TRAFFIC_FLOW_TMPL) && (instance =? GTP_IE_INSTANCE_ZERO) then into decode_gtp_eps_bearer_lvl_traffic_flow_tmpl_ie value.(gtp_create_sess_request_bearer_ctxt_to_be_created_tft) set_gtp_create_sess_request_bearer_ctxt_to_be_created_tft here value
    else if (ie_type =? GTP_IE_FULLY_QUAL_TUNN_ENDPT_IDNT) && (instance =? GTP_IE_INSTANCE_ZERO) then into decode_gtp_fully_qual_tunn_endpt_idnt_ie value.(gtp_create_sess_request_bearer_ctxt_to_be_created_s1u_enb_fteid) set_gtp_create_sess_request_bearer_ctxt_to_be_created_s1u_enb_fteid here value
    else if (ie_type =? GTP_IE_FULLY_QUAL_TUNN_ENDPT_IDNT) && (instance =? GTP_IE_INSTANCE_ONE) then into decode_gtp_fully_qual_tunn_endpt_idnt_ie value.(gtp_create_sess_request_bearer_ctxt_to_be_created_s4_u_sgsn_fteid) set_gtp_create_sess_request_bearer_ctxt_to_be_created_s4_u_sgsn_fteid here value
    else if (ie_type =? GTP_IE_FULLY_QUAL_TUNN_ENDPT_IDNT) && (instance =? GTP_IE_INSTANCE_TWO) then into decode_gtp_fully_qual_tunn_endpt_idnt_ie value.(gtp_create_sess_request_bearer_ctxt_to_be_created_s5s8_u_sgw_fteid) set_gtp_create_sess_request_bearer_ctxt_to_be_created_s5s8_u_sgw_fteid here value
    else if (ie_type =? GTP_IE_FULLY_QUAL_TUNN_ENDPT_IDNT) && (instance =? GTP_IE_INSTANCE_THREE) then into decode_gtp_fully_qual_tunn_endpt_idnt_ie value.(gtp_create_sess_request_bearer_ctxt_to_be_created_s5s8_u_pgw_fteid) set_gtp_create_sess_request_bearer_ctxt_to_be_created_s5s8_u_pgw_fteid here value
    else if (ie_type =? GTP_IE_FULLY_QUAL_TUNN_ENDPT_IDNT) && (instance =? GTP_IE_INSTANCE_FOUR) then into decode_gtp_fully_qual_tunn_endpt_idnt_ie value.(gtp_create_sess_request_bearer_ctxt_to_be_created_s12_rnc_fteid) set_gtp_create_sess_request_bearer_ctxt_to_be_created_s12_rnc_fteid here value
    else if (ie_type =? GTP_IE_FULLY_QUAL_TUNN_ENDPT_IDNT) && (instance =? GTP_IE_INSTANCE_FIVE) then into decode_gtp_fully_qual_tunn_endpt_idnt_ie value.(gtp_create_sess_request_bearer_ctxt_to_be_created_s2b_u_epdg_fteid) set_gtp_create_sess_request_bearer_ctxt_to_be_created_s2b_u_epdg_fteid here value
    else if (ie_type =? GTP_IE_FULLY_QUAL_TUNN_ENDPT_IDNT) && (instance =? GTP_IE_INSTANCE_SIX) then into decode_gtp_fully_qual_tunn_endpt_idnt_ie value.(gtp_create_sess_request_bearer_ctxt_to_be_created_s2a_u_twan_fteid) set_gtp_create_sess_request_bearer_ctxt_to_be_created_s2a_u_twan_fteid here value
    else if (ie_type =? GTP_IE_BEARER_QLTY_OF_SVC) && (instance =? GTP_IE_INSTANCE_ZERO) then into decode_gtp_bearer_qlty_of_svc_ie value.(gtp_create_sess_request_bearer_ctxt_to_be_created_bearer_lvl_qos) set_gtp_create_sess_request_bearer_ctxt_to_be_created_bearer_lvl_qos here value
    else if (ie_type =? GTP_IE_FULLY_QUAL_TUNN_ENDPT_IDNT) && (instance =? GTP_IE_INSTANCE_SEVEN) then into decode_gtp_fully_qual_tunn_endpt_idnt_ie value.(gtp_create_sess_request_bearer_ctxt_to_be_created_s11_u_mme_fteid) set_gtp_create_sess_request_bearer_ctxt_to_be_created_s11_u_mme_fteid here value
    else skip_gie here value).

Definition decode_gtp_del_bearer_command_bearer_ctxt_ie : gtp_del_bearer_command_bearer_ctxt_ie_t -> ie_decoder gtp_del_bearer_command_bearer_ctxt_ie_t :=
  dec_gtp_group set_gtp_del_bearer_command_bearer_ctxt_header 0 (fun '(ie_type, instance) here value =>
    if (ie_type =? GTP_IE_EPS_BEARER_ID) && (instance =? GTP_IE_INSTANCE_ZERO) then into decode_gtp_eps_bearer_id_ie value.(gtp_del_bearer_command_bearer_ctxt_eps_bearer_id) set_gtp_del_bearer_command_bearer_ctxt_eps_bearer_id here value
    else if (ie_type =? GTP_IE_BEARER_FLAGS) && (instance =? GTP_IE_INSTANCE_ZERO) then into decode_gtp_bearer_flags_ie value.(gtp_del_bearer_command_bearer_ctxt_bearer_flags) set_gtp_del_bearer_command_bearer_ctxt_bearer_flags here value
    else if (ie_type =? GTP_IE_RAN_NAS_CAUSE) && (instance =? GTP_IE_INSTANCE_ZERO) then into decode_gtp_ran_nas_cause_ie value.(gtp_del_bearer_command_bearer_ctxt_ran_nas_release_cause) set_gtp_del_bearer_command_bearer_ctxt_ran_nas_release_cause here value
    else skip_gie here value).

Definition decode_del_bearer_cmd : del_bearer_cmd_t -> ie_decoder del_bearer_cmd_t :=
  dec_gtp_message del_bearer_cmd_header set_del_bearer_cmd_header (fun value => set_del_bearer_cmd_bearer_count 0 value) (fun '(ie_type, instance) here value =>
    if (ie_type =? GTP_IE_BEARER_CONTEXT) && (instance =? GTP_IE_INSTANCE_ZERO) then into_next 8 decode_gtp_del_bearer_command_bearer_ctxt_ie value.(del_bearer_cmd_bearer_contexts) value.(del_bearer_cmd_bearer_count) set_del_bearer_cmd_bearer_contexts set_del_bearer_cmd_bearer_count here value
    else if (ie_type =? GTP_IE_USER_LOC_INFO) && (instance =? GTP_IE_INSTANCE_ZERO) then into decode_gtp_user_loc_info_ie value.(del_bearer_cmd_uli) set_del_bearer_cmd_uli here value
    else if (ie_type =? GTP_IE_ULI_TIMESTAMP) && (instance =? GTP_IE_INSTANCE_ZERO) then into decode_gtp_uli_timestamp_ie value.(del_bearer_cmd_uli_timestamp) set_del_bearer_cmd_uli_timestamp here value
    else if (ie_type =? GTP_IE_UE_TIME_ZONE) && (instance =? GTP_IE_INSTANCE_ZERO) then into decode_gtp_ue_time_zone_ie value.(del_bearer_cmd_ue_time_zone) set_del_bearer_cmd_ue_time_zone here value
    else if (ie_type =? GTP_IE_OVRLD_CTL_INFO) && (instance =? GTP_IE_INSTANCE_ZERO) then into decode_gtp_ovrld_ctl_info_ie value.(del_bearer_cmd_mmes4_sgsns_ovrld_ctl_info) set_del_bearer_cmd_mmes4_sgsns_ovrld_ctl_info here value
    else if (ie_type =? GTP_IE_OVRLD_CTL_INFO) && (instance =? GTP_IE_INSTANCE_ONE) then into decode_gtp_ovrld_ctl_info_ie value.(del_bearer_cmd_sgws_ovrld_ctl_info) set_del_bearer_cmd_sgws_ovrld_ctl_info here value
    else if (ie_type =? GTP_IE_FULLY_QUAL_TUNN_ENDPT_IDNT) && (instance =? GTP_IE_INSTANCE_ZERO) then into decode_gtp_fully_qual_tunn_endpt_idnt_ie value.(del_bearer_cmd_sender_fteid_ctl_plane) set_del_bearer_cmd_sender_fteid_ctl_plane here value
    else if (ie_type =? GTP_IE_SECDRY_RAT_USAGE_DATA_RPT) && (instance =? GTP_IE_INSTANCE_ZERO) then into decode_gtp_secdry_rat_usage_data_rpt_ie value.(del_bearer_cmd_secdry_rat_usage_data_rpt) set_del_bearer_cmd_secdry_rat_usage_data_rpt here value
    else if ie_type =? GTP_IE_PRIV_EXT then into decode_gtp_priv_ext_ie value.(del_bearer_cmd_priv_ext) set_del_bearer_cmd_priv_ext here value
    else skip_gie here value).

Definition decode_mod_bearer_cmd : mod_bearer_cmd_t -> ie_decoder mod_bearer_cmd_t :=
  dec_gtp_message mod_bearer_cmd_header set_mod_bearer_cmd_header id (fun '(ie_type, instance) here value =>
    if (ie_type =? GTP_IE_AGG_MAX_BIT_RATE) && (instance =? GTP_IE_INSTANCE_ZERO) then into decode_gtp_agg_max_bit_rate_ie value.(mod_bearer_cmd_apn_ambr) set_mod_bearer_cmd_apn_ambr here value
    else if (ie_type =? GTP_IE_BEARER_CONTEXT) && (instance =? GTP_IE_INSTANCE_ZERO) then into decode_gtp_bearer_context_ie value.(mod_bearer_cmd_bearer_context) set_mod_bearer_cmd_bearer_context here value
    else if (ie_type =? GTP_IE_OVRLD_CTL_INFO) && (instance =? GTP_IE_INSTANCE_ZERO) then into decode_gtp_ovrld_ctl_info_ie value.(mod_bearer_cmd_mmes4_sgsns_ovrld_ctl_info) set_mod_bearer_cmd_mmes4_sgsns_ovrld_ctl_info here value
    else if (ie_type =? GTP_IE_OVRLD_CTL_INFO) && (instance =? GTP_IE_INSTANCE_ONE) then into decode_gtp_ovrld_ctl_info_ie value.(mod_bearer_cmd_sgws_ovrld_ctl_info) set_mod_bearer_cmd_sgws_ovrld_ctl_info here value
    else if (ie_type =? GTP_IE_OVRLD_CTL_INFO) && (instance =? GTP_IE_INSTANCE_TWO) then into decode_gtp_ovrld_ctl_info_ie value.(mod_bearer_cmd_twanepdgs_ovrld_ctl_info) set_mod_bearer_cmd_twanepdgs_ovrld_ctl_info here value
    else if (ie_type =? GTP_IE_FULLY_QUAL_TUNN_ENDPT_IDNT) && (instance =? GTP_IE_INSTANCE_ZERO) then into decode_gtp_fully_qual_tunn_endpt_idnt_ie value.(mod_bearer_cmd_sender_fteid_ctl_plane) set_mod_bearer_cmd_sender_fteid_ctl_plane here value
    else if ie_type =? GTP_IE_PRIV_EXT then into decode_gtp_priv_ext_ie value.(mod_bearer_cmd_priv_ext) set_mod_bearer_cmd_priv_ext here value
    else skip_gie here value).

Definition decode_gtp_mod_bearer_request_bearer_ctxt_to_be_modified_ie : gtp_mod_bearer_request_bearer_ctxt_to_be_modified_ie_t -> ie_decoder gtp_mod_bearer_request_bearer_ctxt_to_be_modified_ie_t :=
  dec_gtp_group set_gtp_mod_bearer_request_bearer_ctxt_to_be_modified_header IE_HEADER_SIZE (fun '(ie_type, instance) here value =>
    if (ie_type =? GTP_IE_EPS_BEARER_ID) && (instance =? GTP_IE_INSTANCE_ZERO) then into decode_gtp_eps_bearer_id_ie value.(gtp_mod_bearer_request_bearer_ctxt_to_be_modified_eps_bearer_id) set_gtp_mod_bearer_request_bearer_ctxt_to_be_modified_eps_bearer_id here value
    else if (ie_type =? GTP_IE_FULLY_QUAL_TUNN_ENDPT_IDNT) && (instance =? GTP_IE_INSTANCE_ZERO) then into decode_gtp_fully_qual_tunn_endpt_idnt_ie value.(gtp_mod_bearer_request_bearer_ctxt_to_be_modified_s1_enodeb_fteid) set_gtp_mod_bearer_request_bearer_ctxt_to_be_modified_s1_enodeb_fteid here value
    else if (ie_type =? GTP_IE_FULLY_QUAL_TUNN_ENDPT_IDNT) && (instance =? GTP_IE_INSTANCE_ONE) then into decode_gtp_fully_qual_tunn_endpt_idnt_ie value.(gtp_mod_bearer_request_bearer_ctxt_to_be_modified_s58_u_sgw_fteid) set_gtp_mod_bearer_request_bearer_ctxt_to_be_modified_s58_u_sgw_fteid here value
    else if (ie_type =? GTP_IE_FULLY_QUAL_TUNN_ENDPT_IDNT) && (instance =? GTP_IE_INSTANCE_TWO) then into decode_gtp_fully_qual_tunn_endpt_idnt_ie value.(gtp_mod_bearer_request_bearer_ctxt_to_be_modified_s12_rnc_fteid) set_gtp_mod_bearer_request_bearer_ctxt_to_be_modified_s12_rnc_fteid here value
    else if (ie_type =? GTP_IE_FULLY_QUAL_TUNN_ENDPT_IDNT) && (instance =? GTP_IE_INSTANCE_THREE) then into decode_gtp_fully_qual_tunn_endpt_idnt_ie value.(gtp_mod_bearer_request_bearer_ctxt_to_be_modified_s4_u_sgsn_fteid) set_gtp_mod_bearer_request_bearer_ctxt_to_be_modified_s4_u_sgsn_fteid here value
    else if (ie_type =? GTP_IE_FULLY_QUAL_TUNN_ENDPT_IDNT) && (instance =? GTP_IE_INSTANCE_FOUR) then into decode_gtp_fully_qual_tunn_endpt_idnt_ie value.(gtp_mod_bearer_request_bearer_ctxt_to_be_modified_s11_u_mme_fteid) set_gtp_mod_bearer_request_bearer_ctxt_to_be_modified_s11_u_mme_fteid here value
    else skip_gie here value).

Definition decode_gtp_mod_bearer_request_bearer_ctxt_to_be_removed_ie : gtp_mod_bearer_request_bearer_ctxt_to_be_removed_ie_t -> ie_decoder gtp_mod_bearer_request_bearer_ctxt_to_be_removed_ie_t :=
  dec_gtp_group set_gtp_mod_bearer_request_bearer_ctxt_to_be_removed_header 0 (fun '(ie_type, instance) here value =>
    if (ie_type =? GTP_IE_EPS_BEARER_ID) && (instance =? GTP_IE_INSTANCE_ZERO) then into decode_gtp_eps_bearer_id_ie value.(gtp_mod_bearer_request_bearer_ctxt_to_be_removed_eps_bearer_id) set_gtp_mod_bearer_request_bearer_ctxt_to_be_removed_eps_bearer_id here value
    else skip_gie here value).

Definition decode_mod_bearer_req : mod_bearer_req_t -> ie_decoder mod_bearer_req_t :=
  dec_gtp_message mod_bearer_req_header set_mod_bearer_req_header id (fun '(ie_type, instance) here value =>
    if (ie_type =? GTP_IE_MBL_EQUIP_IDNTY) && (instance =? GTP_IE_INSTANCE_ZERO) then into decode_gtp_mbl_equip_idnty_ie value.(mod_bearer_req_mei) set_mod_bearer_req_mei here value
    else if (ie_type =? GTP_IE_USER_LOC_INFO) && (instance =? GTP_IE_INSTANCE_ZERO) then into decode_gtp_user_loc_info_ie value.(mod_bearer_req_uli) set_mod_bearer_req_uli here value
    else if (ie_type =? GTP_IE_SERVING_NETWORK) && (instance =? GTP_IE_INSTANCE_ZERO) then into decode_gtp_serving_network_ie value.(mod_bearer_req_serving_network) set_mod_bearer_req_serving_network here value
    else if (ie_type =? GTP_IE_SELECTION_MODE) && (instance =? GTP_IE_INSTANCE_ZERO) then into decode_gtp_selection_mode_ie value.(mod_bearer_req_selection_mode) set_mod_bearer_req_selection_mode here value
    else if (ie_type =? GTP_IE_FULLY_QUAL_TUNN_ENDPT_IDNT) && (instance =? GTP_IE_INSTANCE_ZERO) then into decode_gtp_fully_qual_tunn_endpt_idnt_ie value.(mod_bearer_req_sender_fteid_ctl_plane) set_mod_bearer_req_sender_fteid_ctl_plane here value
    else if (ie_type =? GTP_IE_AGG_MAX_BIT_RATE) && (instance =? GTP_IE_INSTANCE_ZERO) then into decode_gtp_agg_max_bit_rate_ie value.(mod_bearer_req_apn_ambr) set_mod_bearer_req_apn_ambr here value
    else if (ie_type =? GTP_IE_DELAY_VALUE) && (instance =? GTP_IE_INSTANCE_ZERO) then into decode_gtp_delay_value_ie value.(mod_bearer_req_delay_dnlnk_pckt_notif_req) set_mod_bearer_req_delay_dnlnk_pckt_notif_req here value
    else if (ie_type =? GTP_IE_MOD_BEARER_REQUEST_BEARER_CTXT_TO_BE_MODIFIED) && (instance =? GTP_IE_INSTANCE_ZERO) then into decode_gtp_mod_bearer_request_bearer_ctxt_to_be_modified_ie value.(mod_bearer_req_bearer_contexts_to_be_modified) set_mod_bearer_req_bearer_contexts_to_be_modified here value
    else if (ie_type =? GTP_IE_MOD_BEARER_REQUEST_BEARER_CTXT_TO_BE_REMOVED) && (instance =? GTP_IE_INSTANCE_ONE) then into decode_gtp_mod_bearer_request_bearer_ctxt_to_be_removed_ie value.(mod_bearer_req_bearer_contexts_to_be_removed) set_mod_bearer_req_bearer_contexts_to_be_removed here value
    else if (ie_type =? GTP_IE_RECOVERY) && (instance =? GTP_IE_INSTANCE_ZERO) then into decode_gtp_recovery_ie value.(mod_bearer_req_recovery) set_mod_bearer_req_recovery here value
    else if (ie_type =? GTP_IE_UE_TIME_ZONE) && (instance =? GTP_IE_INSTANCE_ZERO) then into decode_gtp_ue_time_zone_ie value.(mod_bearer_req_ue_time_zone) set_mod_bearer_req_ue_time_zone here value
    else if (ie_type =? GTP_IE_FQCSID) && (instance =? GTP_IE_INSTANCE_ZERO) then into decode_gtp_fqcsid_ie value.(mod_bearer_req_mme_fqcsid) set_mod_bearer_req_mme_fqcsid here value
    else if (ie_type =? GTP_IE_FQCSID) && (instance =? GTP_IE_INSTANCE_ONE) then into decode_gtp_fqcsid_ie value.(mod_bearer_req_sgw_fqcsid) set_mod_bearer_req_sgw_fqcsid here value
    else if (ie_type =? GTP_IE_USER_CSG_INFO) && (instance =? GTP_IE_INSTANCE_ZERO) then into decode_gtp_user_csg_info_ie value.(mod_bearer_req_uci) set_mod_bearer_req_uci here value
    else if (ie_type =? GTP_IE_IP_ADDRESS) && (instance =? GTP_IE_INSTANCE_ONE) then into decode_gtp_ip_address_ie value.(mod_bearer_req_ue_local_ip_addr) set_mod_bearer_req_ue_local_ip_addr here value
    else if (ie_type =? GTP_IE_PORT_NUMBER) && (instance =? GTP_IE_INSTANCE_ONE) then into decode_gtp_port_number_ie value.(mod_bearer_req_ue_udp_port) set_mod_bearer_req_ue_udp_port here value
    else if (ie_type =? GTP_IE_LOCAL_DISTGSD_NAME) && (instance =? GTP_IE_INSTANCE_ZERO) then into decode_gtp_local_distgsd_name_ie value.(mod_bearer_req_mmes4_sgsn_ldn) set_mod_bearer_req_mmes4_sgsn_ldn here value
    else if (ie_type =? GTP_IE_LOCAL_DISTGSD_NAME) && (instance =? GTP_IE_INSTANCE_ONE) then into decode_gtp_local_distgsd_name_ie value.(mod_bearer_req_sgw_ldn) set_mod_bearer_req_sgw_ldn here value
    else if (ie_type =? GTP_IE_IP_ADDRESS) && (instance =? GTP_IE_INSTANCE_ZERO) then into decode_gtp_ip_address_ie value.(mod_bearer_req_henb_local_ip_addr) set_mod_bearer_req_henb_local_ip_addr here value
    else if (ie_type =? GTP_IE_PORT_NUMBER) && (instance =? GTP_IE_INSTANCE_ZERO) then into decode_gtp_port_number_ie value.(mod_bearer_req_henb_udp_port) set_mod_bearer_req_henb_udp_port here value
    else if (ie_type =? GTP_IE_IP_ADDRESS) && (instance =? GTP_IE_INSTANCE_TWO) then into decode_gtp_ip_address_ie value.(mod_bearer_req_mmes4_sgsn_idnt) set_mod_bearer_req_mmes4_sgsn_idnt here value
    else if (ie_type =? GTP_IE_CN_OPER_SEL_ENTITY) && (instance =? GTP_IE_INSTANCE_ZERO) then into decode_gtp_cn_oper_sel_entity_ie value.(mod_bearer_req_cn_oper_sel_entity) set_mod_bearer_req_cn_oper_sel_entity here value
    else if (ie_type =? GTP_IE_PRES_RPTNG_AREA_INFO) && (instance =? GTP_IE_INSTANCE_ZERO) then into decode_gtp_pres_rptng_area_info_ie value.(mod_bearer_req_pres_rptng_area_info) set_mod_bearer_req_pres_rptng_area_info here value
    else if (ie_type =? GTP_IE_OVRLD_CTL_INFO) && (instance =? GTP_IE_INSTANCE_ZERO) then into decode_gtp_ovrld_ctl_info_ie value.(mod_bearer_req_mmes4_sgsns_ovrld_ctl_info) set_mod_bearer_req_mmes4_sgsns_ovrld_ctl_info here value
    else if (ie_type =? GTP_IE_OVRLD_CTL_INFO) && (instance =? GTP_IE_INSTANCE_ONE) then into decode_gtp_ovrld_ctl_info_ie value.(mod_bearer_req_sgws_ovrld_ctl_info) set_mod_bearer_req_sgws_ovrld_ctl_info here value
    else if (ie_type =? GTP_IE_OVRLD_CTL_INFO) && (instance =? GTP_IE_INSTANCE_TWO) then into decode_gtp_ovrld_ctl_info_ie value.(mod_bearer_req_epdgs_ovrld_ctl_info) set_mod_bearer_req_epdgs_ovrld_ctl_info here value
    else if (ie_type =? GTP_IE_SRVNG_PLMN_RATE_CTL) && (instance =? GTP_IE_INSTANCE_ZERO) then into decode_gtp_srvng_plmn_rate_ctl_ie value.(mod_bearer_req_srvng_plmn_rate_ctl) set_mod_bearer_req_srvng_plmn_rate_ctl here value
    else if (ie_type =? GTP_IE_COUNTER) && (instance =? GTP_IE_INSTANCE_ZERO) then into decode_gtp_counter_ie value.(mod_bearer_req_mo_exception_data_cntr) set_mod_bearer_req_mo_exception_data_cntr here value
    else if (ie_type =? GTP_IE_IMSI) && (instance =? GTP_IE_INSTANCE_ZERO) then into decode_gtp_imsi_ie value.(mod_bearer_req_imsi) set_mod_bearer_req_imsi here value
    else if (ie_type =? GTP_IE_USER_LOC_INFO) && (instance =? GTP_IE_INSTANCE_ONE) then into decode_gtp_user_loc_info_ie value.(mod_bearer_req_user_loc_info_sgw) set_mod_bearer_req_user_loc_info_sgw here value
    else if (ie_type =? GTP_IE_TWAN_IDENTIFIER) && (instance =? GTP_IE_INSTANCE_ZERO) then into decode_gtp_twan_identifier_ie value.(mod_bearer_req_wlan_loc_info) set_mod_bearer_req_wlan_loc_info here value
    else if (ie_type =? GTP_IE_TWAN_IDNT_TS) && (instance =? GTP_IE_INSTANCE_ZERO) then into decode_gtp_twan_idnt_ts_ie value.(mod_bearer_req_wlan_loc_ts) set_mod_bearer_req_wlan_loc_ts here value
    else if (ie_type =? GTP_IE_SECDRY_RAT_USAGE_DATA_RPT) && (instance =? GTP_IE_INSTANCE_ZERO) then into decode_gtp_secdry_rat_usage_data_rpt_ie value.(mod_bearer_req_secdry_rat_usage_data_rpt) set_mod_bearer_req_secdry_rat_usage_data_rpt here value
    else if ie_type =? GTP_IE_PRIV_EXT then into decode_gtp_priv_ext_ie value.(mod_bearer_req_priv_ext) set_mod_bearer_req_priv_ext here value
    else skip_gie here value).

Definition decode_gtp_upd_bearer_response__overload_ctl_info_ie : gtp_upd_bearer_response__overload_ctl_info_ie_t -> ie_decoder gtp_upd_bearer_response__overload_ctl_info_ie_t :=
  dec_gtp_group set_gtp_upd_bearer_response__overload_ctl_info_header 0 (fun '(ie_type, instance) here value =>
    if (ie_type =? GTP_IE_SEQUENCE_NUMBER) && (instance =? GTP_IE_INSTANCE_ZERO) then into decode_gtp_sequence_number_ie value.(gtp_upd_bearer_response__overload_ctl_info_ovrld_ctl_seqn_nbr) set_gtp_upd_bearer_response__overload_ctl_info_ovrld_ctl_seqn_nbr here value
    else if (ie_type =? GTP_IE_METRIC) && (instance =? GTP_IE_INSTANCE_ZERO) then into decode_gtp_metric_ie value.(gtp_upd_bearer_response__overload_ctl_info_ovrld_reduction_metric) set_gtp_upd_bearer_response__overload_ctl_info_ovrld_reduction_metric here value
    else if (ie_type =? GTP_IE_EPC_TIMER) && (instance =? GTP_IE_INSTANCE_ZERO) then into decode_gtp_epc_timer_ie value.(gtp_upd_bearer_response__overload_ctl_info_prd_of_validity) set_gtp_upd_bearer_response__overload_ctl_info_prd_of_validity here value
    else skip_gie here value).

Definition decode_gtp_del_bearer_request__bearer_ctxt_ie : gtp_del_bearer_request__bearer_ctxt_ie_t -> ie_decoder gtp_del_bearer_request__bearer_ctxt_ie_t :=
  dec_gtp_group set_gtp_del_bearer_request__bearer_ctxt_header 0 (fun '(ie_type, instance) here value =>
    if (ie_type =? GTP_IE_EPS_BEARER_ID) && (instance =? GTP_IE_INSTANCE_ZERO) then into decode_gtp_eps_bearer_id_ie value.(gtp_del_bearer_request__bearer_ctxt_eps_bearer_id) set_gtp_del_bearer_request__bearer_ctxt_eps_bearer_id here value
    else if (ie_type =? GTP_IE_CAUSE) && (instance =? GTP_IE_INSTANCE_ZERO) then into decode_gtp_cause_ie value.(gtp_del_bearer_request__bearer_ctxt_cause) set_gtp_del_bearer_request__bearer_ctxt_cause here value
    else skip_gie here value).

Definition decode_gtp_upd_bearer_request__overload_ctl_info_ie : gtp_upd_bearer_request__overload_ctl_info_ie_t -> ie_decoder gtp_upd_bearer_request__overload_ctl_info_ie_t :=
  dec_gtp_group set_gtp_upd_bearer_request__overload_ctl_info_header 0 (fun '(ie_type, instance) here value =>
    if (ie_type =? GTP_IE_SEQUENCE_NUMBER) && (instance =? GTP_IE_INSTANCE_ZERO) then into decode_gtp_sequence_number_ie value.(gtp_upd_bearer_request__overload_ctl_info_ovrld_ctl_seqn_nbr) set_gtp_upd_bearer_request__overload_ctl_info_ovrld_ctl_seqn_nbr here value
    else if (ie_type =? GTP_IE_METRIC) && (instance =? GTP_IE_INSTANCE_ZERO) then into decode_gtp_metric_ie value.(gtp_upd_bearer_request__overload_ctl_info_ovrld_reduction_metric) set_gtp_upd_bearer_request__overload_ctl_info_ovrld_reduction_metric here value
    else if (ie_type =? GTP_IE_EPC_TIMER) && (instance =? GTP_IE_INSTANCE_ZERO) then into decode_gtp_epc_timer_ie value.(gtp_upd_bearer_request__overload_ctl_info_prd_of_validity) set_gtp_upd_bearer_request__overload_ctl_info_prd_of_validity here value
    else if (ie_type =? GTP_IE_ACC_PT_NAME) && (instance =? GTP_IE_INSTANCE_ZERO) then into decode_gtp_acc_pt_name_ie value.(gtp_upd_bearer_request__overload_ctl_info_apn) set_gtp_upd_bearer_request__overload_ctl_info_apn here value
    else skip_gie here value).

Definition decode_id_req : id_req_t -> ie_decoder id_req_t :=
  dec_gtp_message id_req_header set_id_req_header id (fun '(ie_type, instance) here value =>
    if (ie_type =? GTP_IE_GUTI) && (instance =? GTP_IE_INSTANCE_ZERO) then into decode_gtp_guti_ie value.(id_req_guti) set_id_req_guti here value
    else if (ie_type =? GTP_IE_USER_LOC_INFO) && (instance =? GTP_IE_INSTANCE_ZERO) then into decode_gtp_user_loc_info_ie value.(id_req_rai) set_id_req_rai here value
    else if (ie_type =? GTP_IE_PTMSI) && (instance =? GTP_IE_INSTANCE_ZERO) then into decode_gtp_ptmsi_ie value.(id_req_ptmsi) set_id_req_ptmsi here value
    else if (ie_type =? GTP_IE_PTMSI_SIGNATURE) && (instance =? GTP_IE_INSTANCE_ZERO) then into decode_gtp_ptmsi_signature_ie value.(id_req_ptmsi_signature) set_id_req_ptmsi_signature here value
    else if (ie_type =? GTP_IE_CMPLT_REQ_MSG) && (instance =? GTP_IE_INSTANCE_ZERO) then into decode_gtp_cmplt_req_msg_ie value.(id_req_cmplt_attach_req_msg) set_id_req_cmplt_attach_req_msg here value
    else if (ie_type =? GTP_IE_IP_ADDRESS) && (instance =? GTP_IE_INSTANCE_ZERO) then into decode_gtp_ip_address_ie value.(id_req_addr_ctl_plane) set_id_req_addr_ctl_plane here value
    else if (ie_type =? GTP_IE_PORT_NUMBER) && (instance =? GTP_IE_INSTANCE_ZERO) then into decode_gtp_port_number_ie value.(id_req_udp_src_port_nbr) set_id_req_udp_src_port_nbr here value
    else if (ie_type =? GTP_IE_HOP_COUNTER) && (instance =? GTP_IE_INSTANCE_ZERO) then into decode_gtp_hop_counter_ie value.(id_req_hop_counter) set_id_req_hop_counter here value
    else if (ie_type =? GTP_IE_SERVING_NETWORK) && (instance =? GTP_IE_INSTANCE_ZERO) then into decode_gtp_serving_network_ie value.(id_req_target_plmn_id) set_id_req_target_plmn_id here value
    else if ie_type =? GTP_IE_PRIV_EXT then into decode_gtp_priv_ext_ie value.(id_req_priv_ext) set_id_req_priv_ext here value
    else skip_gie here value).

Definition decode_ue_reg_qry_req : ue_reg_qry_req_t -> ie_decoder ue_reg_qry_req_t :=
  dec_gtp_message ue_reg_qry_req_header set_ue_reg_qry_req_header id (fun '(ie_type, instance) here value =>
    if (ie_type =? GTP_IE_IMSI) && (instance =? GTP_IE_INSTANCE_ZERO) then into decode_gtp_imsi_ie value.(ue_reg_qry_req_imsi) set_ue_reg_qry_req_imsi here value
    else if ie_type =? GTP_IE_PRIV_EXT then into decode_gtp_priv_ext_ie value.(ue_reg_qry_req_priv_ext) set_ue_reg_qry_req_priv_ext here value
    else skip_gie here value).

Definition decode_gtp_fwd_reloc_request__mmesgsnamf_ue_eps_pdn_connections_ie : gtp_fwd_reloc_request__mmesgsnamf_ue_eps_pdn_connections_ie_t -> ie_decoder gtp_fwd_reloc_request__mmesgsnamf_ue_eps_pdn_connections_ie_t :=
  dec_gtp_group set_gtp_fwd_reloc_request__mmesgsnamf_ue_eps_pdn_connections_header 0 (fun '(ie_type, instance) here value =>
    if (ie_type =? GTP_IE_ACC_PT_NAME) && (instance =? GTP_IE_INSTANCE_ZERO) then into decode_gtp_acc_pt_name_ie value.(gtp_fwd_reloc_request__mmesgsnamf_ue_eps_pdn_connections_apn) set_gtp_fwd_reloc_request__mmesgsnamf_ue_eps_pdn_connections_apn here value
    else if (ie_type =? GTP_IE_APN_RESTRICTION) && (instance =? GTP_IE_INSTANCE_ZERO) then into decode_gtp_apn_restriction_ie value.(gtp_fwd_reloc_request__mmesgsnamf_ue_eps_pdn_connections_apn_restriction) set_gtp_fwd_reloc_request__mmesgsnamf_ue_eps_pdn_connections_apn_restriction here value
    else if (ie_type =? GTP_IE_SELECTION_MODE) && (instance =? GTP_IE_INSTANCE_ZERO) then into decode_gtp_selection_mode_ie value.(gtp_fwd_reloc_request__mmesgsnamf_ue_eps_pdn_connections_selection_mode) set_gtp_fwd_reloc_request__mmesgsnamf_ue_eps_pdn_connections_selection_mode here value
    else if (ie_type =? GTP_IE_IP_ADDRESS) && (instance =? GTP_IE_INSTANCE_ZERO) then into decode_gtp_ip_address_ie value.(gtp_fwd_reloc_request__mmesgsnamf_ue_eps_pdn_connections_ipv4_address) set_gtp_fwd_reloc_request__mmesgsnamf_ue_eps_pdn_connections_ipv4_address here value
    else if (ie_type =? GTP_IE_IP_ADDRESS) && (instance =? GTP_IE_INSTANCE_ONE) then into decode_gtp_ip_address_ie value.(gtp_fwd_reloc_request__mmesgsnamf_ue_eps_pdn_connections_ipv6_address) set_gtp_fwd_reloc_request__mmesgsnamf_ue_eps_pdn_connections_ipv6_address here value
    else if (ie_type =? GTP_IE_EPS_BEARER_ID) && (instance =? GTP_IE_INSTANCE_ZERO) then into decode_gtp_eps_bearer_id_ie value.(gtp_fwd_reloc_request__mmesgsnamf_ue_eps_pdn_connections_linked_eps_bearer_id) set_gtp_fwd_reloc_request__mmesgsnamf_ue_eps_pdn_connections_linked_eps_bearer_id here value
    else if (ie_type =? GTP_IE_FULLY_QUAL_TUNN_ENDPT_IDNT) && (instance =? GTP_IE_INSTANCE_ZERO) then into decode_gtp_fully_qual_tunn_endpt_idnt_ie value.(gtp_fwd_reloc_request__mmesgsnamf_ue_eps_pdn_connections_pgw_s5s8_ip_addr_ctl_plane_or_pmip) set_gtp_fwd_reloc_request__mmesgsnamf_ue_eps_pdn_connections_pgw_s5s8_ip_addr_ctl_plane_or_pmip here value
    else if (ie_type =? GTP_IE_BEARER_CONTEXT) && (instance =? GTP_IE_INSTANCE_ZERO) then into decode_gtp_bearer_context_ie value.(gtp_fwd_reloc_request__mmesgsnamf_ue_eps_pdn_connections_bearer_contexts) set_gtp_fwd_reloc_request__mmesgsnamf_ue_eps_pdn_connections_bearer_contexts here value
    else if (ie_type =? GTP_IE_AGG_MAX_BIT_RATE) && (instance =? GTP_IE_INSTANCE_ZERO) then into decode_gtp_agg_max_bit_rate_ie value.(gtp_fwd_reloc_request__mmesgsnamf_ue_eps_pdn_connections_apn_ambr) set_gtp_fwd_reloc_request__mmesgsnamf_ue_eps_pdn_connections_apn_ambr here value
    else if (ie_type =? GTP_IE_CHRGNG_CHAR) && (instance =? GTP_IE_INSTANCE_ZERO) then into decode_gtp_chrgng_char_ie value.(gtp_fwd_reloc_request__mmesgsnamf_ue_eps_pdn_connections_chrgng_char) set_gtp_fwd_reloc_request__mmesgsnamf_ue_eps_pdn_connections_chrgng_char here value
    else if (ie_type =? GTP_IE_CHG_RPTNG_ACT) && (instance =? GTP_IE_INSTANCE_ZERO) then into decode_gtp_chg_rptng_act_ie value.(gtp_fwd_reloc_request__mmesgsnamf_ue_eps_pdn_connections_chg_rptng_act) set_gtp_fwd_reloc_request__mmesgsnamf_ue_eps_pdn_connections_chg_rptng_act here value
    else if (ie_type =? GTP_IE_CSG_INFO_RPTNG_ACT) && (instance =? GTP_IE_INSTANCE_ZERO) then into decode_gtp_csg_info_rptng_act_ie value.(gtp_fwd_reloc_request__mmesgsnamf_ue_eps_pdn_connections_csg_info_rptng_act) set_gtp_fwd_reloc_request__mmesgsnamf_ue_eps_pdn_connections_csg_info_rptng_act here value
    else if (ie_type =? GTP_IE_HENB_INFO_RPTNG) && (instance =? GTP_IE_INSTANCE_ZERO) then into decode_gtp_henb_info_rptng_ie value.(gtp_fwd_reloc_request__mmesgsnamf_ue_eps_pdn_connections_henb_info_rptng) set_gtp_fwd_reloc_request__mmesgsnamf_ue_eps_pdn_connections_henb_info_rptng here value
    else if (ie_type =? GTP_IE_INDICATION) && (instance =? GTP_IE_INSTANCE_ZERO) then into decode_gtp_indication_ie value.(gtp_fwd_reloc_request__mmesgsnamf_ue_eps_pdn_connections_indctn_flgs) set_gtp_fwd_reloc_request__mmesgsnamf_ue_eps_pdn_connections_indctn_flgs here value
    else if (ie_type =? GTP_IE_SGNLLNG_PRIORITY_INDCTN) && (instance =? GTP_IE_INSTANCE_ZERO) then into decode_gtp_sgnllng_priority_indctn_ie value.(gtp_fwd_reloc_request__mmesgsnamf_ue_eps_pdn_connections_sgnllng_priority_indctn) set_gtp_fwd_reloc_request__mmesgsnamf_ue_eps_pdn_connections_sgnllng_priority_indctn here value
    else if (ie_type =? GTP_IE_CHG_TO_RPT_FLGS) && (instance =? GTP_IE_INSTANCE_ZERO) then into decode_gtp_chg_to_rpt_flgs_ie value.(gtp_fwd_reloc_request__mmesgsnamf_ue_eps_pdn_connections_chg_to_rpt_flgs) set_gtp_fwd_reloc_request__mmesgsnamf_ue_eps_pdn_connections_chg_to_rpt_flgs here value
    else if (ie_type =? GTP_IE_FULLY_QUAL_DOMAIN_NAME) && (instance =? GTP_IE_INSTANCE_ONE) then into decode_gtp_fully_qual_domain_name_ie value.(gtp_fwd_reloc_request__mmesgsnamf_ue_eps_pdn_connections_local_home_ntwk_id) set_gtp_fwd_reloc_request__mmesgsnamf_ue_eps_pdn_connections_local_home_ntwk_id here value
    else if (ie_type =? GTP_IE_PRES_RPTNG_AREA_ACT) && (instance =? GTP_IE_INSTANCE_ZERO) then into decode_gtp_pres_rptng_area_act_ie value.(gtp_fwd_reloc_request__mmesgsnamf_ue_eps_pdn_connections_pres_rptng_area_act) set_gtp_fwd_reloc_request__mmesgsnamf_ue_eps_pdn_connections_pres_rptng_area_act here value
    else if (ie_type =? GTP_IE_WLAN_OFFLDBLTY_INDCTN) && (instance =? GTP_IE_INSTANCE_ZERO) then into decode_gtp_wlan_offldblty_indctn_ie value.(gtp_fwd_reloc_request__mmesgsnamf_ue_eps_pdn_connections_wlan_offldblty_indctn) set_gtp_fwd_reloc_request__mmesgsnamf_ue_eps_pdn_connections_wlan_offldblty_indctn here value
    else if (ie_type =? GTP_IE_RMT_UE_CTXT) && (instance =? GTP_IE_INSTANCE_ZERO) then into decode_gtp_rmt_ue_ctxt_ie value.(gtp_fwd_reloc_request__mmesgsnamf_ue_eps_pdn_connections_rmt_ue_ctxt_connected) set_gtp_fwd_reloc_request__mmesgsnamf_ue_eps_pdn_connections_rmt_ue_ctxt_connected here value
    else if (ie_type =? GTP_IE_PDN_TYPE) && (instance =? GTP_IE_INSTANCE_ZERO) then into decode_gtp_pdn_type_ie value.(gtp_fwd_reloc_request__mmesgsnamf_ue_eps_pdn_connections_pdn_type) set_gtp_fwd_reloc_request__mmesgsnamf_ue_eps_pdn_connections_pdn_type here value
    else if (ie_type =? GTP_IE_HDR_COMP_CFG) && (instance =? GTP_IE_INSTANCE_ZERO) then into decode_gtp_hdr_comp_cfg_ie value.(gtp_fwd_reloc_request__mmesgsnamf_ue_eps_pdn_connections_hdr_comp_cfg) set_gtp_fwd_reloc_request__mmesgsnamf_ue_eps_pdn_connections_hdr_comp_cfg here value
    else skip_gie here value).

Definition decode_gtp_dnlnk_data_notification__load_ctl_info_ie : gtp_dnlnk_data_notification__load_ctl_info_ie_t -> ie_decoder gtp_dnlnk_data_notification__load_ctl_info_ie_t :=
  dec_gtp_group set_gtp_dnlnk_data_notification__load_ctl_info_header 0 (fun '(ie_type, instance) here value =>
    if (ie_type =? GTP_IE_SEQUENCE_NUMBER) && (instance =? GTP_IE_INSTANCE_ZERO) then into decode_gtp_sequence_number_ie value.(gtp_dnlnk_data_notification__load_ctl_info_load_ctl_seqn_nbr) set_gtp_dnlnk_data_notification__load_ctl_info_load_ctl_seqn_nbr here value
    else if (ie_type =? GTP_IE_METRIC) && (instance =? GTP_IE_INSTANCE_ZERO) then into decode_gtp_metric_ie value.(gtp_dnlnk_data_notification__load_ctl_info_load_metric) set_gtp_dnlnk_data_notification__load_ctl_info_load_metric here value
    else skip_gie here value).

Definition decode_del_sess_rsp : del_sess_rsp_t -> ie_decoder del_sess_rsp_t :=
  dec_gtp_message del_sess_rsp_header set_del_sess_rsp_header id (fun '(ie_type, instance) here value =>
    if (ie_type =? GTP_IE_CAUSE) && (instance =? GTP_IE_INSTANCE_ZERO) then into decode_gtp_cause_ie value.(del_sess_rsp_cause) set_del_sess_rsp_cause here value
    else if (ie_type =? GTP_IE_RECOVERY) && (instance =? GTP_IE_INSTANCE_ZERO) then into decode_gtp_recovery_ie value.(del_sess_rsp_recovery) set_del_sess_rsp_recovery here value
    else if (ie_type =? GTP_IE_PROT_CFG_OPTS) && (instance =? GTP_IE_INSTANCE_ZERO) then into decode_gtp_prot_cfg_opts_ie value.(del_sess_rsp_pco) set_del_sess_rsp_pco here value
    else if (ie_type =? GTP_IE_LOAD_CTL_INFO) && (instance =? GTP_IE_INSTANCE_ZERO) then into decode_gtp_load_ctl_info_ie value.(del_sess_rsp_pgws_node_lvl_load_ctl_info) set_del_sess_rsp_pgws_node_lvl_load_ctl_info here value
    else if (ie_type =? GTP_IE_LOAD_CTL_INFO) && (instance =? GTP_IE_INSTANCE_ONE) then into decode_gtp_load_ctl_info_ie value.(del_sess_rsp_pgws_apn_lvl_load_ctl_info) set_del_sess_rsp_pgws_apn_lvl_load_ctl_info here value
    else if (ie_type =? GTP_IE_LOAD_CTL_INFO) && (instance =? GTP_IE_INSTANCE_TWO) then into decode_gtp_load_ctl_info_ie value.(del_sess_rsp_sgws_node_lvl_load_ctl_info) set_del_sess_rsp_sgws_node_lvl_load_ctl_info here value
    else if (ie_type =? GTP_IE_OVRLD_CTL_INFO) && (instance =? GTP_IE_INSTANCE_ZERO) then into decode_gtp_ovrld_ctl_info_ie value.(del_sess_rsp_pgws_ovrld_ctl_info) set_del_sess_rsp_pgws_ovrld_ctl_info here value
    else if (ie_type =? GTP_IE_OVRLD_CTL_INFO) && (instance =? GTP_IE_INSTANCE_ONE) then into decode_gtp_ovrld_ctl_info_ie value.(del_sess_rsp_sgws_ovrld_ctl_info) set_del_sess_rsp_sgws_ovrld_ctl_info here value
    else if (ie_type =? GTP_IE_EXTNDED_PROT_CFG_OPTS) && (instance =? GTP_IE_INSTANCE_ZERO) then into decode_gtp_extnded_prot_cfg_opts_ie value.(del_sess_rsp_epco) set_del_sess_rsp_epco here value
    else if ie_type =? GTP_IE_PRIV_EXT then into decode_gtp_priv_ext_ie value.(del_sess_rsp_priv_ext) set_del_sess_rsp_priv_ext here value
    else skip_gie here value).

Definition decode_fwd_reloc_rsp : fwd_reloc_rsp_t -> ie_decoder fwd_reloc_rsp_t :=
  dec_gtp_message fwd_reloc_rsp_header set_fwd_reloc_rsp_header id (fun '(ie_type, instance) here value =>
    if (ie_type =? GTP_IE_CAUSE) && (instance =? GTP_IE_INSTANCE_ZERO) then into decode_gtp_cause_ie value.(fwd_reloc_rsp_cause) set_fwd_reloc_rsp_cause here value
    else if (ie_type =? GTP_IE_FULLY_QUAL_TUNN_ENDPT_IDNT) && (instance =? GTP_IE_INSTANCE_ZERO) then into decode_gtp_fully_qual_tunn_endpt_idnt_ie value.(fwd_reloc_rsp_senders_fteid_ctl_plane) set_fwd_reloc_rsp_senders_fteid_ctl_plane here value
    else if (ie_type =? GTP_IE_INDICATION) && (instance =? GTP_IE_INSTANCE_ZERO) then into decode_gtp_indication_ie value.(fwd_reloc_rsp_indctn_flgs) set_fwd_reloc_rsp_indctn_flgs here value
    else if (ie_type =? GTP_IE_BEARER_CONTEXT) && (instance =? GTP_IE_INSTANCE_ZERO) then into decode_gtp_bearer_context_ie value.(fwd_reloc_rsp_list_of_set_up_bearers) set_fwd_reloc_rsp_list_of_set_up_bearers here value
    else if (ie_type =? GTP_IE_BEARER_CONTEXT) && (instance =? GTP_IE_INSTANCE_ONE) then into decode_gtp_bearer_context_ie value.(fwd_reloc_rsp_list_of_set_up_rabs) set_fwd_reloc_rsp_list_of_set_up_rabs here value
    else if (ie_type =? GTP_IE_BEARER_CONTEXT) && (instance =? GTP_IE_INSTANCE_TWO) then into decode_gtp_bearer_context_ie value.(fwd_reloc_rsp_list_of_set_up_pfcs) set_fwd_reloc_rsp_list_of_set_up_pfcs here value
    else if (ie_type =? GTP_IE_FULL_QUAL_CAUSE) && (instance =? GTP_IE_INSTANCE_ZERO) then into decode_gtp_full_qual_cause_ie value.(fwd_reloc_rsp_s1_ap_cause) set_fwd_reloc_rsp_s1_ap_cause here value
    else if (ie_type =? GTP_IE_FULL_QUAL_CAUSE) && (instance =? GTP_IE_INSTANCE_ONE) then into decode_gtp_full_qual_cause_ie value.(fwd_reloc_rsp_ranap_cause) set_fwd_reloc_rsp_ranap_cause here value
    else if (ie_type =? GTP_IE_FULL_QUAL_CAUSE) && (instance =? GTP_IE_INSTANCE_TWO) then into decode_gtp_full_qual_cause_ie value.(fwd_reloc_rsp_bssgp_cause) set_fwd_reloc_rsp_bssgp_cause here value
    else if (ie_type =? GTP_IE_FULL_QUAL_CNTNR) && (instance =? GTP_IE_INSTANCE_ZERO) then into decode_gtp_full_qual_cntnr_ie value.(fwd_reloc_rsp_e_utran_transparent_cntnr) set_fwd_reloc_rsp_e_utran_transparent_cntnr here value
    else if (ie_type =? GTP_IE_FULL_QUAL_CNTNR) && (instance =? GTP_IE_INSTANCE_ONE) then into decode_gtp_full_qual_cntnr_ie value.(fwd_reloc_rsp_utran_transparent_cntnr) set_fwd_reloc_rsp_utran_transparent_cntnr here value
    else if (ie_type =? GTP_IE_FULL_QUAL_CNTNR) && (instance =? GTP_IE_INSTANCE_TWO) then into decode_gtp_full_qual_cntnr_ie value.(fwd_reloc_rsp_bss_container) set_fwd_reloc_rsp_bss_container here value
    else if (ie_type =? GTP_IE_LOCAL_DISTGSD_NAME) && (instance =? GTP_IE_INSTANCE_ZERO) then into decode_gtp_local_distgsd_name_ie value.(fwd_reloc_rsp_mmes4_sgsn_ldn) set_fwd_reloc_rsp_mmes4_sgsn_ldn here value
    else if (ie_type =? GTP_IE_FULLY_QUAL_DOMAIN_NAME) && (instance =? GTP_IE_INSTANCE_ZERO) then into decode_gtp_fully_qual_domain_name_ie value.(fwd_reloc_rsp_sgsn_node_name) set_fwd_reloc_rsp_sgsn_node_name here value
    else if (ie_type =? GTP_IE_FULLY_QUAL_DOMAIN_NAME) && (instance =? GTP_IE_INSTANCE_ONE) then into decode_gtp_fully_qual_domain_name_ie value.(fwd_reloc_rsp_mme_node_name) set_fwd_reloc_rsp_mme_node_name here value
    else if (ie_type =? GTP_IE_NODE_NUMBER) && (instance =? GTP_IE_INSTANCE_ZERO) then into decode_gtp_node_number_ie value.(fwd_reloc_rsp_sgsn_number) set_fwd_reloc_rsp_sgsn_number here value
    else if (ie_type =? GTP_IE_NODE_IDENTIFIER) && (instance =? GTP_IE_INSTANCE_ZERO) then into decode_gtp_node_identifier_ie value.(fwd_reloc_rsp_sgsn_identifier) set_fwd_reloc_rsp_sgsn_identifier here value
    else if (ie_type =? GTP_IE_NODE_IDENTIFIER) && (instance =? GTP_IE_INSTANCE_ONE) then into decode_gtp_node_identifier_ie value.(fwd_reloc_rsp_mme_identifier) set_fwd_reloc_rsp_mme_identifier here value
    else if (ie_type =? GTP_IE_NODE_NUMBER) && (instance =? GTP_IE_INSTANCE_ONE) then into decode_gtp_node_number_ie value.(fwd_reloc_rsp_mme_nbr_mt_sms) set_fwd_reloc_rsp_mme_nbr_mt_sms here value
    else if (ie_type =? GTP_IE_NODE_IDENTIFIER) && (instance =? GTP_IE_INSTANCE_TWO) then into decode_gtp_node_identifier_ie value.(fwd_reloc_rsp_sgsn_idnt_mt_sms) set_fwd_reloc_rsp_sgsn_idnt_mt_sms here value
    else if (ie_type =? GTP_IE_NODE_IDENTIFIER) && (instance =? GTP_IE_INSTANCE_THREE) then into decode_gtp_node_identifier_ie value.(fwd_reloc_rsp_mme_idnt_mt_sms) set_fwd_reloc_rsp_mme_idnt_mt_sms here value
    else if (ie_type =? GTP_IE_BEARER_CONTEXT) && (instance =? GTP_IE_INSTANCE_THREE) then into decode_gtp_bearer_context_ie value.(fwd_reloc_rsp_list_of_set_up_bearers_scef_pdn_connections) set_fwd_reloc_rsp_list_of_set_up_bearers_scef_pdn_connections here value
    else if ie_type =? GTP_IE_PRIV_EXT then into decode_gtp_priv_ext_ie value.(fwd_reloc_rsp_priv_ext) set_fwd_reloc_rsp_priv_ext here value
    else skip_gie here value).

Definition decode_trc_sess_actvn : trc_sess_actvn_t -> ie_decoder trc_sess_actvn_t :=
  dec_gtp_message trc_sess_actvn_header set_trc_sess_actvn_header id (fun '(ie_type, instance) here value =>
    if (ie_type =? GTP_IE_IMSI) && (instance =? GTP_IE_INSTANCE_ZERO) then into decode_gtp_imsi_ie value.(trc_sess_actvn_imsi) set_trc_sess_actvn_imsi here value
    else if (ie_type =? GTP_IE_TRC_INFO) && (instance =? GTP_IE_INSTANCE_ZERO) then into decode_gtp_trc_info_ie value.(trc_sess_actvn_trc_info) set_trc_sess_actvn_trc_info here value
    else if (ie_type =? GTP_IE_MBL_EQUIP_IDNTY) && (instance =? GTP_IE_INSTANCE_ZERO) then into decode_gtp_mbl_equip_idnty_ie value.(trc_sess_actvn_mei) set_trc_sess_actvn_mei here value
    else skip_gie here value).

Definition decode_cfg_xfer_tunn : cfg_xfer_tunn_t -> ie_decoder cfg_xfer_tunn_t :=
  dec_gtp_message cfg_xfer_tunn_header set_cfg_xfer_tunn_header id (fun '(ie_type, instance) here value =>
    if (ie_type =? GTP_IE_FULL_QUAL_CNTNR) && (instance =? GTP_IE_INSTANCE_ZERO) then into decode_gtp_full_qual_cntnr_ie value.(cfg_xfer_tunn_e_utran_transparent_cntnr) set_cfg_xfer_tunn_e_utran_transparent_cntnr here value
    else if (ie_type =? GTP_IE_TRGT_ID) && (instance =? GTP_IE_INSTANCE_ZERO) then into decode_gtp_trgt_id_ie value.(cfg_xfer_tunn_trgt_enb_id) set_cfg_xfer_tunn_trgt_enb_id here value
    else skip_gie here value).

Definition decode_detach_notif : detach_notif_t -> ie_decoder detach_notif_t :=
  dec_gtp_message detach_notif_header set_detach_notif_header id (fun '(ie_type, instance) here value =>
    if (ie_type =? GTP_IE_CAUSE) && (instance =? GTP_IE_INSTANCE_ZERO) then into decode_gtp_cause_ie value.(detach_notif_cause) set_detach_notif_cause here value
    else if (ie_type =? GTP_IE_DETACH_TYPE) && (instance =? GTP_IE_INSTANCE_ZERO) then into decode_gtp_detach_type_ie value.(detach_notif_detach_type) set_detach_notif_detach_type here value
    else if ie_type =? GTP_IE_PRIV_EXT then into decode_gtp_priv_ext_ie value.(detach_notif_priv_ext) set_detach_notif_priv_ext here value
    else skip_gie here value).

Definition decode_gtp_ctxt_response__bearer_ctxt_ie : gtp_ctxt_response__bearer_ctxt_ie_t -> ie_decoder gtp_ctxt_response__bearer_ctxt_ie_t :=
  dec_gtp_group set_gtp_ctxt_response__bearer_ctxt_header 0 (fun '(ie_type, instance) here value =>
    if (ie_type =? GTP_IE_EPS_BEARER_ID) && (instance =? GTP_IE_INSTANCE_ZERO) then into decode_gtp_eps_bearer_id_ie value.(gtp_ctxt_response__bearer_ctxt_eps_bearer_id) set_gtp_ctxt_response__bearer_ctxt_eps_bearer_id here value
    else if (ie_type =? GTP_IE_EPS_BEARER_LVL_TRAFFIC_FLOW_TMPL) && (instance =? GTP_IE_INSTANCE_ZERO) then into decode_gtp_eps_bearer_lvl_traffic_flow_tmpl_ie value.(gtp_ctxt_response__bearer_ctxt_tft) set_gtp_ctxt_response__bearer_ctxt_tft here value
    else if (ie_type =? GTP_IE_FULLY_QUAL_TUNN_ENDPT_IDNT) && (instance =? GTP_IE_INSTANCE_ZERO) then into decode_gtp_fully_qual_tunn_endpt_idnt_ie value.(gtp_ctxt_response__bearer_ctxt_sgw_s1s4s12s11_ip_addr_and_teid_user_plane) set_gtp_ctxt_response__bearer_ctxt_sgw_s1s4s12s11_ip_addr_and_teid_user_plane here value
    else if (ie_type =? GTP_IE_FULLY_QUAL_TUNN_ENDPT_IDNT) && (instance =? GTP_IE_INSTANCE_ONE) then into decode_gtp_fully_qual_tunn_endpt_idnt_ie value.(gtp_ctxt_response__bearer_ctxt_pgw_s5s8_ip_addr_and_teid_user_plane) set_gtp_ctxt_response__bearer_ctxt_pgw_s5s8_ip_addr_and_teid_user_plane here value
    else if (ie_type =? GTP_IE_BEARER_QLTY_OF_SVC) && (instance =? GTP_IE_INSTANCE_ZERO) then into decode_gtp_bearer_qlty_of_svc_ie value.(gtp_ctxt_response__bearer_ctxt_bearer_lvl_qos) set_gtp_ctxt_response__bearer_ctxt_bearer_lvl_qos here value
    else if (ie_type =? GTP_IE_FULL_QUAL_CNTNR) && (instance =? GTP_IE_INSTANCE_ZERO) then into decode_gtp_full_qual_cntnr_ie value.(gtp_ctxt_response__bearer_ctxt_bss_container) set_gtp_ctxt_response__bearer_ctxt_bss_container here value
    else if (ie_type =? GTP_IE_TRANS_IDNT) && (instance =? GTP_IE_INSTANCE_ZERO) then into decode_gtp_trans_idnt_ie value.(gtp_ctxt_response__bearer_ctxt_trans_idnt) set_gtp_ctxt_response__bearer_ctxt_trans_idnt here value
    else if (ie_type =? GTP_IE_FULLY_QUAL_TUNN_ENDPT_IDNT) && (instance =? GTP_IE_INSTANCE_TWO) then into decode_gtp_fully_qual_tunn_endpt_idnt_ie value.(gtp_ctxt_response__bearer_ctxt_sgw_s11_ip_addr_and_teid_user_plane) set_gtp_ctxt_response__bearer_ctxt_sgw_s11_ip_addr_and_teid_user_plane here value
    else skip_gie here value).

Definition decode_gtp_ctxt_response__remote_ue_ctxt_connected_ie : gtp_ctxt_response__remote_ue_ctxt_connected_ie_t -> ie_decoder gtp_ctxt_response__remote_ue_ctxt_connected_ie_t :=
  dec_gtp_group set_gtp_ctxt_response__remote_ue_ctxt_connected_header 0 (fun '(ie_type, instance) here value =>
    if (ie_type =? GTP_IE_REMOTE_USER_ID) && (instance =? GTP_IE_INSTANCE_ZERO) then into decode_gtp_remote_user_id_ie value.(gtp_ctxt_response__remote_ue_ctxt_connected_remote_user_id) set_gtp_ctxt_response__remote_ue_ctxt_connected_remote_user_id here value
    else if (ie_type =? GTP_IE_RMT_UE_IP_INFO) && (instance =? GTP_IE_INSTANCE_ZERO) then into decode_gtp_rmt_ue_ip_info_ie value.(gtp_ctxt_response__remote_ue_ctxt_connected_rmt_ue_ip_info) set_gtp_ctxt_response__remote_ue_ctxt_connected_rmt_ue_ip_info here value
    else skip_gie here value).

Definition decode_gtp_mod_bearer_request_overload_ctl_info_ie : gtp_mod_bearer_request_overload_ctl_info_ie_t -> ie_decoder gtp_mod_bearer_request_overload_ctl_info_ie_t :=
  dec_gtp_group set_gtp_mod_bearer_request_overload_ctl_info_header 0 (fun '(ie_type, instance) here value =>
    if (ie_type =? GTP_IE_SEQUENCE_NUMBER) && (instance =? GTP_IE_INSTANCE_ZERO) then into decode_gtp_sequence_number_ie value.(gtp_mod_bearer_request_overload_ctl_info_ovrld_ctl_seqn_nbr) set_gtp_mod_bearer_request_overload_ctl_info_ovrld_ctl_seqn_nbr here value
    else if (ie_type =? GTP_IE_METRIC) && (instance =? GTP_IE_INSTANCE_ZERO) then into decode_gtp_metric_ie value.(gtp_mod_bearer_request_overload_ctl_info_ovrld_reduction_metric) set_gtp_mod_bearer_request_overload_ctl_info_ovrld_reduction_metric here value
    else if (ie_type =? GTP_IE_EPC_TIMER) && (instance =? GTP_IE_INSTANCE_ZERO) then into decode_gtp_epc_timer_ie value.(gtp_mod_bearer_request_overload_ctl_info_prd_of_validity) set_gtp_mod_bearer_request_overload_ctl_info_prd_of_validity here value
    else skip_gie here value).

Definition decode_gtp_fwd_reloc_request__bearer_ctxt_ie : gtp_fwd_reloc_request__bearer_ctxt_ie_t -> ie_decoder gtp_fwd_reloc_request__bearer_ctxt_ie_t :=
  dec_gtp_group set_gtp_fwd_reloc_request__bearer_ctxt_header 0 (fun '(ie_type, instance) here value =>
    if (ie_type =? GTP_IE_EPS_BEARER_ID) && (instance =? GTP_IE_INSTANCE_ZERO) then into decode_gtp_eps_bearer_id_ie value.(gtp_fwd_reloc_request__bearer_ctxt_eps_bearer_id) set_gtp_fwd_reloc_request__bearer_ctxt_eps_bearer_id here value
    else if (ie_type =? GTP_IE_EPS_BEARER_LVL_TRAFFIC_FLOW_TMPL) && (instance =? GTP_IE_INSTANCE_ZERO) then into decode_gtp_eps_bearer_lvl_traffic_flow_tmpl_ie value.(gtp_fwd_reloc_request__bearer_ctxt_tft) set_gtp_fwd_reloc_request__bearer_ctxt_tft here value
    else if (ie_type =? GTP_IE_FULLY_QUAL_TUNN_ENDPT_IDNT) && (instance =? GTP_IE_INSTANCE_ZERO) then into decode_gtp_fully_qual_tunn_endpt_idnt_ie value.(gtp_fwd_reloc_request__bearer_ctxt_sgw_s1s4s12_ip_addr_and_teid_user_plane) set_gtp_fwd_reloc_request__bearer_ctxt_sgw_s1s4s12_ip_addr_and_teid_user_plane here value
    else if (ie_type =? GTP_IE_FULLY_QUAL_TUNN_ENDPT_IDNT) && (instance =? GTP_IE_INSTANCE_ONE) then into decode_gtp_fully_qual_tunn_endpt_idnt_ie value.(gtp_fwd_reloc_request__bearer_ctxt_pgw_s5s8_ip_addr_and_teid_user_plane) set_gtp_fwd_reloc_request__bearer_ctxt_pgw_s5s8_ip_addr_and_teid_user_plane here value
    else if (ie_type =? GTP_IE_BEARER_QLTY_OF_SVC) && (instance =? GTP_IE_INSTANCE_ZERO) then into decode_gtp_bearer_qlty_of_svc_ie value.(gtp_fwd_reloc_request__bearer_ctxt_bearer_lvl_qos) set_gtp_fwd_reloc_request__bearer_ctxt_bearer_lvl_qos here value
    else if (ie_type =? GTP_IE_FULL_QUAL_CNTNR) && (instance =? GTP_IE_INSTANCE_ZERO) then into decode_gtp_full_qual_cntnr_ie value.(gtp_fwd_reloc_request__bearer_ctxt_bss_container) set_gtp_fwd_reloc_request__bearer_ctxt_bss_container here value
    else if (ie_type =? GTP_IE_TRANS_IDNT) && (instance =? GTP_IE_INSTANCE_ZERO) then into decode_gtp_trans_idnt_ie value.(gtp_fwd_reloc_request__bearer_ctxt_trans_idnt) set_gtp_fwd_reloc_request__bearer_ctxt_trans_idnt here value
    else if (ie_type =? GTP_IE_BEARER_FLAGS) && (instance =? GTP_IE_INSTANCE_ZERO) then into decode_gtp_bearer_flags_ie value.(gtp_fwd_reloc_request__bearer_ctxt_bearer_flags) set_gtp_fwd_reloc_request__bearer_ctxt_bearer_flags here value
    else if (ie_type =? GTP_IE_FULLY_QUAL_TUNN_ENDPT_IDNT) && (instance =? GTP_IE_INSTANCE_TWO) then into decode_gtp_fully_qual_tunn_endpt_idnt_ie value.(gtp_fwd_reloc_request__bearer_ctxt_sgw_s11_ip_addr_and_teid_user_plane) set_gtp_fwd_reloc_request__bearer_ctxt_sgw_s11_ip_addr_and_teid_user_plane here value
    else skip_gie here value).

Definition decode_echo_request : echo_request_t -> ie_decoder echo_request_t :=
  dec_gtp_message echo_request_header set_echo_request_header id (fun '(ie_type, instance) here value =>
    if (ie_type =? GTP_IE_RECOVERY) && (instance =? GTP_IE_INSTANCE_ZERO) then into decode_gtp_recovery_ie value.(echo_request_recovery) set_echo_request_recovery here value
    else if (ie_type =? GTP_IE_NODE_FEATURES) && (instance =? GTP_IE_INSTANCE_ZERO) then into decode_gtp_node_features_ie value.(echo_request_sending_node_feat) set_echo_request_sending_node_feat here value
    else if ie_type =? GTP_IE_PRIV_EXT then into decode_gtp_priv_ext_ie value.(echo_request_priv_ext) set_echo_request_priv_ext here value
    else skip_gie here value).

Definition decode_rmt_ue_rpt_notif : rmt_ue_rpt_notif_t -> ie_decoder rmt_ue_rpt_notif_t :=
  dec_gtp_message rmt_ue_rpt_notif_header set_rmt_ue_rpt_notif_header id (fun '(ie_type, instance) here value =>
    if (ie_type =? GTP_IE_RMT_UE_CTXT) && (instance =? GTP_IE_INSTANCE_ZERO) then into decode_gtp_rmt_ue_ctxt_ie value.(rmt_ue_rpt_notif_rmt_ue_ctxt_connected) set_rmt_ue_rpt_notif_rmt_ue_ctxt_connected here value
    else if (ie_type =? GTP_IE_RMT_UE_CTXT) && (instance =? GTP_IE_INSTANCE_ONE) then into decode_gtp_rmt_ue_ctxt_ie value.(rmt_ue_rpt_notif_rmt_ue_ctxt_disconnected) set_rmt_ue_rpt_notif_rmt_ue_ctxt_disconnected here value
    else if ie_type =? GTP_IE_PRIV_EXT then into decode_gtp_priv_ext_ie value.(rmt_ue_rpt_notif_priv_ext) set_rmt_ue_rpt_notif_priv_ext here value
    else skip_gie here value).

Definition decode_del_bearer_fail_indctn : del_bearer_fail_indctn_t -> ie_decoder del_bearer_fail_indctn_t :=
  dec_gtp_message del_bearer_fail_indctn_header set_del_bearer_fail_indctn_header id (fun '(ie_type, instance) here value =>
    if (ie_type =? GTP_IE_CAUSE) && (instance =? GTP_IE_INSTANCE_ZERO) then into decode_gtp_cause_ie value.(del_bearer_fail_indctn_cause) set_del_bearer_fail_indctn_cause here value
    else if (ie_type =? GTP_IE_BEARER_CONTEXT) && (instance =? GTP_IE_INSTANCE_ZERO) then into decode_gtp_bearer_context_ie value.(del_bearer_fail_indctn_bearer_context) set_del_bearer_fail_indctn_bearer_context here value
    else if (ie_type =? GTP_IE_RECOVERY) && (instance =? GTP_IE_INSTANCE_ZERO) then into decode_gtp_recovery_ie value.(del_bearer_fail_indctn_recovery) set_del_bearer_fail_indctn_recovery here value
    else if (ie_type =? GTP_IE_INDICATION) && (instance =? GTP_IE_INSTANCE_ZERO) then into decode_gtp_indication_ie value.(del_bearer_fail_indctn_indctn_flgs) set_del_bearer_fail_indctn_indctn_flgs here value
    else if (ie_type =? GTP_IE_OVRLD_CTL_INFO) && (instance =? GTP_IE_INSTANCE_ZERO) then into decode_gtp_ovrld_ctl_info_ie value.(del_bearer_fail_indctn_pgws_ovrld_ctl_info) set_del_bearer_fail_indctn_pgws_ovrld_ctl_info here value
    else if (ie_type =? GTP_IE_OVRLD_CTL_INFO) && (instance =? GTP_IE_INSTANCE_ONE) then into decode_gtp_ovrld_ctl_info_ie value.(del_bearer_fail_indctn_sgws_ovrld_ctl_info) set_del_bearer_fail_indctn_sgws_ovrld_ctl_info here value
    else if ie_type =? GTP_IE_PRIV_EXT then into decode_gtp_priv_ext_ie value.(del_bearer_fail_indctn_priv_ext) set_del_bearer_fail_indctn_priv_ext here value
    else skip_gie here value).

Definition decode_ctxt_rsp : ctxt_rsp_t -> ie_decoder ctxt_rsp_t :=
  dec_gtp_message ctxt_rsp_header set_ctxt_rsp_header id (fun '(ie_type, instance) here value =>
    if (ie_type =? GTP_IE_CAUSE) && (instance =? GTP_IE_INSTANCE_ZERO) then into decode_gtp_cause_ie value.(ctxt_rsp_cause) set_ctxt_rsp_cause here value
    else if (ie_type =? GTP_IE_IMSI) && (instance =? GTP_IE_INSTANCE_ZERO) then into decode_gtp_imsi_ie value.(ctxt_rsp_imsi) set_ctxt_rsp_imsi here value
    else if (ie_type =? GTP_IE_PDN_CONNECTION) && (instance =? GTP_IE_INSTANCE_ZERO) then into decode_gtp_pdn_connection_ie value.(ctxt_rsp_mmesgsnamf_ue_eps_pdn_connections) set_ctxt_rsp_mmesgsnamf_ue_eps_pdn_connections here value
    else if (ie_type =? GTP_IE_FULLY_QUAL_TUNN_ENDPT_IDNT) && (instance =? GTP_IE_INSTANCE_ZERO) then into decode_gtp_fully_qual_tunn_endpt_idnt_ie value.(ctxt_rsp_sender_fteid_ctl_plane) set_ctxt_rsp_sender_fteid_ctl_plane here value
    else if (ie_type =? GTP_IE_FULLY_QUAL_TUNN_ENDPT_IDNT) && (instance =? GTP_IE_INSTANCE_ONE) then into decode_gtp_fully_qual_tunn_endpt_idnt_ie value.(ctxt_rsp_sgw_s11s4_ip_addr_and_teid_ctl_plane) set_ctxt_rsp_sgw_s11s4_ip_addr_and_teid_ctl_plane here value
    else if (ie_type =? GTP_IE_FULLY_QUAL_DOMAIN_NAME) && (instance =? GTP_IE_INSTANCE_ZERO) then into decode_gtp_fully_qual_domain_name_ie value.(ctxt_rsp_sgw_node_name) set_ctxt_rsp_sgw_node_name here value
    else if (ie_type =? GTP_IE_INDICATION) && (instance =? GTP_IE_INSTANCE_ZERO) then into decode_gtp_indication_ie value.(ctxt_rsp_indctn_flgs) set_ctxt_rsp_indctn_flgs here value
    else if (ie_type =? GTP_IE_TRC_INFO) && (instance =? GTP_IE_INSTANCE_ZERO) then into decode_gtp_trc_info_ie value.(ctxt_rsp_trc_info) set_ctxt_rsp_trc_info here value
    else if (ie_type =? GTP_IE_IP_ADDRESS) && (instance =? GTP_IE_INSTANCE_ZERO) then into decode_gtp_ip_address_ie value.(ctxt_rsp_hrpd_acc_node_s101_ip_addr) set_ctxt_rsp_hrpd_acc_node_s101_ip_addr here value
    else if (ie_type =? GTP_IE_IP_ADDRESS) && (instance =? GTP_IE_INSTANCE_ONE) then into decode_gtp_ip_address_ie value.(ctxt_rsp_onexiws_sone02_ip_addr) set_ctxt_rsp_onexiws_sone02_ip_addr here value
    else if (ie_type =? GTP_IE_RFSP_INDEX) && (instance =? GTP_IE_INSTANCE_ZERO) then into decode_gtp_rfsp_index_ie value.(ctxt_rsp_subscrbd_rfsp_idx) set_ctxt_rsp_subscrbd_rfsp_idx here value
    else if (ie_type =? GTP_IE_RFSP_INDEX) && (instance =? GTP_IE_INSTANCE_ONE) then into decode_gtp_rfsp_index_ie value.(ctxt_rsp_rfsp_idx_in_use) set_ctxt_rsp_rfsp_idx_in_use here value
    else if (ie_type =? GTP_IE_UE_TIME_ZONE) && (instance =? GTP_IE_INSTANCE_ZERO) then into decode_gtp_ue_time_zone_ie value.(ctxt_rsp_ue_time_zone) set_ctxt_rsp_ue_time_zone here value
    else if (ie_type =? GTP_IE_LOCAL_DISTGSD_NAME) && (instance =? GTP_IE_INSTANCE_ZERO) then into decode_gtp_local_distgsd_name_ie value.(ctxt_rsp_mmes4_sgsn_ldn) set_ctxt_rsp_mmes4_sgsn_ldn here value
    else if (ie_type =? GTP_IE_MDT_CFG) && (instance =? GTP_IE_INSTANCE_ZERO) then into decode_gtp_mdt_cfg_ie value.(ctxt_rsp_mdt_cfg) set_ctxt_rsp_mdt_cfg here value
    else if (ie_type =? GTP_IE_FULLY_QUAL_DOMAIN_NAME) && (instance =? GTP_IE_INSTANCE_ONE) then into decode_gtp_fully_qual_domain_name_ie value.(ctxt_rsp_sgsn_node_name) set_ctxt_rsp_sgsn_node_name here value
    else if (ie_type =? GTP_IE_FULLY_QUAL_DOMAIN_NAME) && (instance =? GTP_IE_INSTANCE_TWO) then into decode_gtp_fully_qual_domain_name_ie value.(ctxt_rsp_mme_node_name) set_ctxt_rsp_mme_node_name here value
    else if (ie_type =? GTP_IE_USER_CSG_INFO) && (instance =? GTP_IE_INSTANCE_ZERO) then into decode_gtp_user_csg_info_ie value.(ctxt_rsp_uci) set_ctxt_rsp_uci here value
    else if (ie_type =? GTP_IE_MNTRNG_EVNT_INFO) && (instance =? GTP_IE_INSTANCE_ZERO) then into decode_gtp_mntrng_evnt_info_ie value.(ctxt_rsp_mntrng_evnt_info) set_ctxt_rsp_mntrng_evnt_info here value
    else if (ie_type =? GTP_IE_INTEGER_NUMBER) && (instance =? GTP_IE_INSTANCE_ZERO) then into decode_gtp_integer_number_ie value.(ctxt_rsp_ue_usage_type) set_ctxt_rsp_ue_usage_type here value
    else if (ie_type =? GTP_IE_SCEF_PDN_CONN) && (instance =? GTP_IE_INSTANCE_ZERO) then into decode_gtp_scef_pdn_conn_ie value.(ctxt_rsp_mmesgsn_ue_scef_pdn_connections) set_ctxt_rsp_mmesgsn_ue_scef_pdn_connections here value
    else if (ie_type =? GTP_IE_RAT_TYPE) && (instance =? GTP_IE_INSTANCE_ZERO) then into decode_gtp_rat_type_ie value.(ctxt_rsp_rat_type) set_ctxt_rsp_rat_type here value
    else if (ie_type =? GTP_IE_SRVNG_PLMN_RATE_CTL) && (instance =? GTP_IE_INSTANCE_ZERO) then into decode_gtp_srvng_plmn_rate_ctl_ie value.(ctxt_rsp_srvng_plmn_rate_ctl) set_ctxt_rsp_srvng_plmn_rate_ctl here value
    else if (ie_type =? GTP_IE_COUNTER) && (instance =? GTP_IE_INSTANCE_ZERO) then into decode_gtp_counter_ie value.(ctxt_rsp_mo_exception_data_cntr) set_ctxt_rsp_mo_exception_data_cntr here value
    else if (ie_type =? GTP_IE_INTEGER_NUMBER) && (instance =? GTP_IE_INSTANCE_ONE) then into decode_gtp_integer_number_ie value.(ctxt_rsp_rem_running_svc_gap_timer) set_ctxt_rsp_rem_running_svc_gap_timer here value
    else if ie_type =? GTP_IE_PRIV_EXT then into decode_gtp_priv_ext_ie value.(ctxt_rsp_priv_ext) set_ctxt_rsp_priv_ext here value
    else skip_gie here value).

Definition decode_gtp_mod_bearer_response_bearer_ctxt_modified_ie : gtp_mod_bearer_response_bearer_ctxt_modified_ie_t -> ie_decoder gtp_mod_bearer_response_bearer_ctxt_modified_ie_t :=
  dec_gtp_group set_gtp_mod_bearer_response_bearer_ctxt_modified_header IE_HEADER_SIZE (fun '(ie_type, instance) here value =>
    if (ie_type =? GTP_IE_EPS_BEARER_ID) && (instance =? GTP_IE_INSTANCE_ZERO) then into decode_gtp_eps_bearer_id_ie value.(gtp_mod_bearer_response_bearer_ctxt_modified_eps_bearer_id) set_gtp_mod_bearer_response_bearer_ctxt_modified_eps_bearer_id here value
    else if (ie_type =? GTP_IE_CAUSE) && (instance =? GTP_IE_INSTANCE_ZERO) then into decode_gtp_cause_ie value.(gtp_mod_bearer_response_bearer_ctxt_modified_cause) set_gtp_mod_bearer_response_bearer_ctxt_modified_cause here value
    else if (ie_type =? GTP_IE_FULLY_QUAL_TUNN_ENDPT_IDNT) && (instance =? GTP_IE_INSTANCE_ZERO) then into decode_gtp_fully_qual_tunn_endpt_idnt_ie value.(gtp_mod_bearer_response_bearer_ctxt_modified_s1u_sgw_fteid) set_gtp_mod_bearer_response_bearer_ctxt_modified_s1u_sgw_fteid here value
    else if (ie_type =? GTP_IE_FULLY_QUAL_TUNN_ENDPT_IDNT) && (instance =? GTP_IE_INSTANCE_ONE) then into decode_gtp_fully_qual_tunn_endpt_idnt_ie value.(gtp_mod_bearer_response_bearer_ctxt_modified_s12_sgw_fteid) set_gtp_mod_bearer_response_bearer_ctxt_modified_s12_sgw_fteid here value
    else if (ie_type =? GTP_IE_FULLY_QUAL_TUNN_ENDPT_IDNT) && (instance =? GTP_IE_INSTANCE_TWO) then into decode_gtp_fully_qual_tunn_endpt_idnt_ie value.(gtp_mod_bearer_response_bearer_ctxt_modified_s4_u_sgw_fteid) set_gtp_mod_bearer_response_bearer_ctxt_modified_s4_u_sgw_fteid here value
    else if (ie_type =? GTP_IE_CHARGING_ID) && (instance =? GTP_IE_INSTANCE_ZERO) then into decode_gtp_charging_id_ie value.(gtp_mod_bearer_response_bearer_ctxt_modified_charging_id) set_gtp_mod_bearer_response_bearer_ctxt_modified_charging_id here value
    else if (ie_type =? GTP_IE_BEARER_FLAGS) && (instance =? GTP_IE_INSTANCE_ZERO) then into decode_gtp_bearer_flags_ie value.(gtp_mod_bearer_response_bearer_ctxt_modified_bearer_flags) set_gtp_mod_bearer_response_bearer_ctxt_modified_bearer_flags here value
    else if (ie_type =? GTP_IE_FULLY_QUAL_TUNN_ENDPT_IDNT) && (instance =? GTP_IE_INSTANCE_THREE) then into decode_gtp_fully_qual_tunn_endpt_idnt_ie value.(gtp_mod_bearer_response_bearer_ctxt_modified_s11_u_sgw_fteid) set_gtp_mod_bearer_response_bearer_ctxt_modified_s11_u_sgw_fteid here value
    else skip_gie here value).

Definition decode_gtp_mod_bearer_response_bearer_ctxt_marked_removal_ie : gtp_mod_bearer_response_bearer_ctxt_marked_removal_ie_t -> ie_decoder gtp_mod_bearer_response_bearer_ctxt_marked_removal_ie_t :=
  dec_gtp_group set_gtp_mod_bearer_response_bearer_ctxt_marked_removal_header 0 (fun '(ie_type, instance) here value =>
    if (ie_type =? GTP_IE_EPS_BEARER_ID) && (instance =? GTP_IE_INSTANCE_ZERO) then into decode_gtp_eps_bearer_id_ie value.(gtp_mod_bearer_response_bearer_ctxt_marked_removal_eps_bearer_id) set_gtp_mod_bearer_response_bearer_ctxt_marked_removal_eps_bearer_id here value
    else if (ie_type =? GTP_IE_CAUSE) && (instance =? GTP_IE_INSTANCE_ZERO) then into decode_gtp_cause_ie value.(gtp_mod_bearer_response_bearer_ctxt_marked_removal_cause) set_gtp_mod_bearer_response_bearer_ctxt_marked_removal_cause here value
    else skip_gie here value).

Definition decode_mod_bearer_rsp : mod_bearer_rsp_t -> ie_decoder mod_bearer_rsp_t :=
  dec_gtp_message mod_bearer_rsp_header set_mod_bearer_rsp_header id (fun '(ie_type, instance) here value =>
    if (ie_type =? GTP_IE_CAUSE) && (instance =? GTP_IE_INSTANCE_ZERO) then into decode_gtp_cause_ie value.(mod_bearer_rsp_cause) set_mod_bearer_rsp_cause here value
    else if (ie_type =? GTP_IE_MSISDN) && (instance =? GTP_IE_INSTANCE_ZERO) then into decode_gtp_msisdn_ie value.(mod_bearer_rsp_msisdn) set_mod_bearer_rsp_msisdn here value
    else if (ie_type =? GTP_IE_EPS_BEARER_ID) && (instance =? GTP_IE_INSTANCE_ZERO) then into decode_gtp_eps_bearer_id_ie value.(mod_bearer_rsp_linked_eps_bearer_id) set_mod_bearer_rsp_linked_eps_bearer_id here value
    else if (ie_type =? GTP_IE_APN_RESTRICTION) && (instance =? GTP_IE_INSTANCE_ZERO) then into decode_gtp_apn_restriction_ie value.(mod_bearer_rsp_apn_restriction) set_mod_bearer_rsp_apn_restriction here value
    else if (ie_type =? GTP_IE_PROT_CFG_OPTS) && (instance =? GTP_IE_INSTANCE_ZERO) then into decode_gtp_prot_cfg_opts_ie value.(mod_bearer_rsp_pco) set_mod_bearer_rsp_pco here value
    else if (ie_type =? GTP_IE_MOD_BEARER_RESPONSE_BEARER_CTXT_MODIFIED) && (instance =? GTP_IE_INSTANCE_ZERO) then into decode_gtp_mod_bearer_response_bearer_ctxt_modified_ie value.(mod_bearer_rsp_bearer_contexts_modified) set_mod_bearer_rsp_bearer_contexts_modified here value
    else if (ie_type =? GTP_IE_MOD_BEARER_RESPONSE_BEARER_CTXT_MARKED_REMOVAL) && (instance =? GTP_IE_INSTANCE_ONE) then into decode_gtp_mod_bearer_response_bearer_ctxt_marked_removal_ie value.(mod_bearer_rsp_bearer_contexts_marked_removal) set_mod_bearer_rsp_bearer_contexts_marked_removal here value
    else if (ie_type =? GTP_IE_CHG_RPTNG_ACT) && (instance =? GTP_IE_INSTANCE_ZERO) then into decode_gtp_chg_rptng_act_ie value.(mod_bearer_rsp_chg_rptng_act) set_mod_bearer_rsp_chg_rptng_act here value
    else if (ie_type =? GTP_IE_CSG_INFO_RPTNG_ACT) && (instance =? GTP_IE_INSTANCE_ZERO) then into decode_gtp_csg_info_rptng_act_ie value.(mod_bearer_rsp_csg_info_rptng_act) set_mod_bearer_rsp_csg_info_rptng_act here value
    else if (ie_type =? GTP_IE_HENB_INFO_RPTNG) && (instance =? GTP_IE_INSTANCE_ZERO) then into decode_gtp_henb_info_rptng_ie value.(mod_bearer_rsp_henb_info_rptng) set_mod_bearer_rsp_henb_info_rptng here value
    else if (ie_type =? GTP_IE_FULLY_QUAL_DOMAIN_NAME) && (instance =? GTP_IE_INSTANCE_ZERO) then into decode_gtp_fully_qual_domain_name_ie value.(mod_bearer_rsp_chrgng_gateway_name) set_mod_bearer_rsp_chrgng_gateway_name here value
    else if (ie_type =? GTP_IE_IP_ADDRESS) && (instance =? GTP_IE_INSTANCE_ZERO) then into decode_gtp_ip_address_ie value.(mod_bearer_rsp_chrgng_gateway_addr) set_mod_bearer_rsp_chrgng_gateway_addr here value
    else if (ie_type =? GTP_IE_FQCSID) && (instance =? GTP_IE_INSTANCE_ZERO) then into decode_gtp_fqcsid_ie value.(mod_bearer_rsp_pgw_fqcsid) set_mod_bearer_rsp_pgw_fqcsid here value
    else if (ie_type =? GTP_IE_FQCSID) && (instance =? GTP_IE_INSTANCE_ONE) then into decode_gtp_fqcsid_ie value.(mod_bearer_rsp_sgw_fqcsid) set_mod_bearer_rsp_sgw_fqcsid here value
    else if (ie_type =? GTP_IE_RECOVERY) && (instance =? GTP_IE_INSTANCE_ZERO) then into decode_gtp_recovery_ie value.(mod_bearer_rsp_recovery) set_mod_bearer_rsp_recovery here value
    else if (ie_type =? GTP_IE_LOCAL_DISTGSD_NAME) && (instance =? GTP_IE_INSTANCE_ZERO) then into decode_gtp_local_distgsd_name_ie value.(mod_bearer_rsp_sgw_ldn) set_mod_bearer_rsp_sgw_ldn here value
    else if (ie_type =? GTP_IE_LOCAL_DISTGSD_NAME) && (instance =? GTP_IE_INSTANCE_ONE) then into decode_gtp_local_distgsd_name_ie value.(mod_bearer_rsp_pgw_ldn) set_mod_bearer_rsp_pgw_ldn here value
    else if (ie_type =? GTP_IE_INDICATION) && (instance =? GTP_IE_INSTANCE_ZERO) then into decode_gtp_indication_ie value.(mod_bearer_rsp_indctn_flgs) set_mod_bearer_rsp_indctn_flgs here value
    else if (ie_type =? GTP_IE_PRES_RPTNG_AREA_ACT) && (instance =? GTP_IE_INSTANCE_ZERO) then into decode_gtp_pres_rptng_area_act_ie value.(mod_bearer_rsp_pres_rptng_area_act) set_mod_bearer_rsp_pres_rptng_area_act here value
    else if (ie_type =? GTP_IE_LOAD_CTL_INFO) && (instance =? GTP_IE_INSTANCE_ZERO) then into decode_gtp_load_ctl_info_ie value.(mod_bearer_rsp_pgws_node_lvl_load_ctl_info) set_mod_bearer_rsp_pgws_node_lvl_load_ctl_info here value
    else if (ie_type =? GTP_IE_LOAD_CTL_INFO) && (instance =? GTP_IE_INSTANCE_ONE) then into decode_gtp_load_ctl_info_ie value.(mod_bearer_rsp_pgws_apn_lvl_load_ctl_info) set_mod_bearer_rsp_pgws_apn_lvl_load_ctl_info here value
    else if (ie_type =? GTP_IE_LOAD_CTL_INFO) && (instance =? GTP_IE_INSTANCE_TWO) then into decode_gtp_load_ctl_info_ie value.(mod_bearer_rsp_sgws_node_lvl_load_ctl_info) set_mod_bearer_rsp_sgws_node_lvl_load_ctl_info here value
    else if (ie_type =? GTP_IE_OVRLD_CTL_INFO) && (instance =? GTP_IE_INSTANCE_ZERO) then into decode_gtp_ovrld_ctl_info_ie value.(mod_bearer_rsp_pgws_ovrld_ctl_info) set_mod_bearer_rsp_pgws_ovrld_ctl_info here value
    else if (ie_type =? GTP_IE_OVRLD_CTL_INFO) && (instance =? GTP_IE_INSTANCE_ONE) then into decode_gtp_ovrld_ctl_info_ie value.(mod_bearer_rsp_sgws_ovrld_ctl_info) set_mod_bearer_rsp_sgws_ovrld_ctl_info here value
    else if (ie_type =? GTP_IE_CHARGING_ID) && (instance =? GTP_IE_INSTANCE_ZERO) then into decode_gtp_charging_id_ie value.(mod_bearer_rsp_pdn_conn_chrgng_id) set_mod_bearer_rsp_pdn_conn_chrgng_id here value
    else if ie_type =? GTP_IE_PRIV_EXT then into decode_gtp_priv_ext_ie value.(mod_bearer_rsp_priv_ext) set_mod_bearer_rsp_priv_ext here value
    else skip_gie here value).

Definition decode_gtp_create_sess_request__remote_ue_ctxt_connected_ie : gtp_create_sess_request__remote_ue_ctxt_connected_ie_t -> ie_decoder gtp_create_sess_request__remote_ue_ctxt_connected_ie_t :=
  dec_gtp_group set_gtp_create_sess_request__remote_ue_ctxt_connected_header 0 (fun '(ie_type, instance) here value =>
    if (ie_type =? GTP_IE_REMOTE_USER_ID) && (instance =? GTP_IE_INSTANCE_ZERO) then into decode_gtp_remote_user_id_ie value.(gtp_create_sess_request__remote_ue_ctxt_connected_remote_user_id) set_gtp_create_sess_request__remote_ue_ctxt_connected_remote_user_id here value
    else if (ie_type =? GTP_IE_RMT_UE_IP_INFO) && (instance =? GTP_IE_INSTANCE_ZERO) then into decode_gtp_rmt_ue_ip_info_ie value.(gtp_create_sess_request__remote_ue_ctxt_connected_rmt_ue_ip_info) set_gtp_create_sess_request__remote_ue_ctxt_connected_rmt_ue_ip_info here value
    else skip_gie here value).

Definition decode_gtp_mod_bearer_command__overload_ctl_info_ie : gtp_mod_bearer_command__overload_ctl_info_ie_t -> ie_decoder gtp_mod_bearer_command__overload_ctl_info_ie_t :=
  dec_gtp_group set_gtp_mod_bearer_command__overload_ctl_info_header 0 (fun '(ie_type, instance) here value =>
    if (ie_type =? GTP_IE_SEQUENCE_NUMBER) && (instance =? GTP_IE_INSTANCE_ZERO) then into decode_gtp_sequence_number_ie value.(gtp_mod_bearer_command__overload_ctl_info_ovrld_ctl_seqn_nbr) set_gtp_mod_bearer_command__overload_ctl_info_ovrld_ctl_seqn_nbr here value
    else if (ie_type =? GTP_IE_METRIC) && (instance =? GTP_IE_INSTANCE_ZERO) then into decode_gtp_metric_ie value.(gtp_mod_bearer_command__overload_ctl_info_ovrld_reduction_metric) set_gtp_mod_bearer_command__overload_ctl_info_ovrld_reduction_metric here value
    else if (ie_type =? GTP_IE_EPC_TIMER) && (instance =? GTP_IE_INSTANCE_ZERO) then into decode_gtp_epc_timer_ie value.(gtp_mod_bearer_command__overload_ctl_info_prd_of_validity) set_gtp_mod_bearer_command__overload_ctl_info_prd_of_validity here value
    else skip_gie here value).

Definition decode_mbms_sess_start_rsp : mbms_sess_start_rsp_t -> ie_decoder mbms_sess_start_rsp_t :=
  dec_gtp_message mbms_sess_start_rsp_header set_mbms_sess_start_rsp_header id (fun '(ie_type, instance) here value =>
    if (ie_type =? GTP_IE_CAUSE) && (instance =? GTP_IE_INSTANCE_ZERO) then into decode_gtp_cause_ie value.(mbms_sess_start_rsp_cause) set_mbms_sess_start_rsp_cause here value
    else if (ie_type =? GTP_IE_FULLY_QUAL_TUNN_ENDPT_IDNT) && (instance =? GTP_IE_INSTANCE_ZERO) then into decode_gtp_fully_qual_tunn_endpt_idnt_ie value.(mbms_sess_start_rsp_sender_fteid_ctl_plane) set_mbms_sess_start_rsp_sender_fteid_ctl_plane here value
    else if (ie_type =? GTP_IE_MBMS_DIST_ACK) && (instance =? GTP_IE_INSTANCE_ZERO) then into decode_gtp_mbms_dist_ack_ie value.(mbms_sess_start_rsp_mbms_dist_ack) set_mbms_sess_start_rsp_mbms_dist_ack here value
    else if (ie_type =? GTP_IE_FULLY_QUAL_TUNN_ENDPT_IDNT) && (instance =? GTP_IE_INSTANCE_ONE) then into decode_gtp_fully_qual_tunn_endpt_idnt_ie value.(mbms_sess_start_rsp_sn_u_sgsn_fteid) set_mbms_sess_start_rsp_sn_u_sgsn_fteid here value
    else if (ie_type =? GTP_IE_RECOVERY) && (instance =? GTP_IE_INSTANCE_ZERO) then into decode_gtp_recovery_ie value.(mbms_sess_start_rsp_recovery) set_mbms_sess_start_rsp_recovery here value
    else if ie_type =? GTP_IE_PRIV_EXT then into decode_gtp_priv_ext_ie value.(mbms_sess_start_rsp_priv_ext) set_mbms_sess_start_rsp_priv_ext here value
    else skip_gie here value).

Definition decode_context_request : context_request_t -> ie_decoder context_request_t :=
  dec_gtp_message context_request_header set_context_request_header id (fun '(ie_type, instance) here value =>
    if (ie_type =? GTP_IE_IMSI) && (instance =? GTP_IE_INSTANCE_ZERO) then into decode_gtp_imsi_ie value.(context_request_imsi) set_context_request_imsi here value
    else if (ie_type =? GTP_IE_GUTI) && (instance =? GTP_IE_INSTANCE_ZERO) then into decode_gtp_guti_ie value.(context_request_guti) set_context_request_guti here value
    else if (ie_type =? GTP_IE_USER_LOC_INFO) && (instance =? GTP_IE_INSTANCE_ZERO) then into decode_gtp_user_loc_info_ie value.(context_request_rai) set_context_request_rai here value
    else if (ie_type =? GTP_IE_PTMSI) && (instance =? GTP_IE_INSTANCE_ZERO) then into decode_gtp_ptmsi_ie value.(context_request_ptmsi) set_context_request_ptmsi here value
    else if (ie_type =? GTP_IE_PTMSI_SIGNATURE) && (instance =? GTP_IE_INSTANCE_ZERO) then into decode_gtp_ptmsi_signature_ie value.(context_request_ptmsi_signature) set_context_request_ptmsi_signature here value
    else if (ie_type =? GTP_IE_CMPLT_REQ_MSG) && (instance =? GTP_IE_INSTANCE_ZERO) then into decode_gtp_cmplt_req_msg_ie value.(context_request_cmplt_tau_req_msg) set_context_request_cmplt_tau_req_msg here value
    else if (ie_type =? GTP_IE_FULLY_QUAL_TUNN_ENDPT_IDNT) && (instance =? GTP_IE_INSTANCE_ZERO) then into decode_gtp_fully_qual_tunn_endpt_idnt_ie value.(context_request_s3s16s10n26_addr_and_teid_ctl_plane) set_context_request_s3s16s10n26_addr_and_teid_ctl_plane here value
    else if (ie_type =? GTP_IE_PORT_NUMBER) && (instance =? GTP_IE_INSTANCE_ZERO) then into decode_gtp_port_number_ie value.(context_request_udp_src_port_nbr) set_context_request_udp_src_port_nbr here value
    else if (ie_type =? GTP_IE_RAT_TYPE) && (instance =? GTP_IE_INSTANCE_ZERO) then into decode_gtp_rat_type_ie value.(context_request_rat_type) set_context_request_rat_type here value
    else if (ie_type =? GTP_IE_INDICATION) && (instance =? GTP_IE_INSTANCE_ZERO) then into decode_gtp_indication_ie value.(context_request_indication) set_context_request_indication here value
    else if (ie_type =? GTP_IE_HOP_COUNTER) && (instance =? GTP_IE_INSTANCE_ZERO) then into decode_gtp_hop_counter_ie value.(context_request_hop_counter) set_context_request_hop_counter here value
    else if (ie_type =? GTP_IE_SERVING_NETWORK) && (instance =? GTP_IE_INSTANCE_ZERO) then into decode_gtp_serving_network_ie value.(context_request_target_plmn_id) set_context_request_target_plmn_id here value
    else if (ie_type =? GTP_IE_LOCAL_DISTGSD_NAME) && (instance =? GTP_IE_INSTANCE_ZERO) then into decode_gtp_local_distgsd_name_ie value.(context_request_mmes4_sgsn_ldn) set_context_request_mmes4_sgsn_ldn here value
    else if (ie_type =? GTP_IE_FULLY_QUAL_DOMAIN_NAME) && (instance =? GTP_IE_INSTANCE_ZERO) then into decode_gtp_fully_qual_domain_name_ie value.(context_request_sgsn_node_name) set_context_request_sgsn_node_name here value
    else if (ie_type =? GTP_IE_FULLY_QUAL_DOMAIN_NAME) && (instance =? GTP_IE_INSTANCE_ONE) then into decode_gtp_fully_qual_domain_name_ie value.(context_request_mme_node_name) set_context_request_mme_node_name here value
    else if (ie_type =? GTP_IE_NODE_NUMBER) && (instance =? GTP_IE_INSTANCE_ZERO) then into decode_gtp_node_number_ie value.(context_request_sgsn_number) set_context_request_sgsn_number here value
    else if (ie_type =? GTP_IE_NODE_IDENTIFIER) && (instance =? GTP_IE_INSTANCE_ZERO) then into decode_gtp_node_identifier_ie value.(context_request_sgsn_identifier) set_context_request_sgsn_identifier here value
    else if (ie_type =? GTP_IE_NODE_IDENTIFIER) && (instance =? GTP_IE_INSTANCE_ONE) then into decode_gtp_node_identifier_ie value.(context_request_mme_identifier) set_context_request_mme_identifier here value
    else if (ie_type =? GTP_IE_CIOT_OPTIM_SUPP_INDCTN) && (instance =? GTP_IE_INSTANCE_ZERO) then into decode_gtp_ciot_optim_supp_indctn_ie value.(context_request_ciot_optim_supp_indctn) set_context_request_ciot_optim_supp_indctn here value
    else if ie_type =? GTP_IE_PRIV_EXT then into decode_gtp_priv_ext_ie value.(context_request_priv_ext) set_context_request_priv_ext here value
    else skip_gie here value).

Definition decode_gtp_fwd_reloc_request__mme_ue_scef_pdn_connections_ie : gtp_fwd_reloc_request__mme_ue_scef_pdn_connections_ie_t -> ie_decoder gtp_fwd_reloc_request__mme_ue_scef_pdn_connections_ie_t :=
  dec_gtp_group set_gtp_fwd_reloc_request__mme_ue_scef_pdn_connections_header 0 (fun '(ie_type, instance) here value =>
    if (ie_type =? GTP_IE_ACC_PT_NAME) && (instance =? GTP_IE_INSTANCE_ZERO) then into decode_gtp_acc_pt_name_ie value.(gtp_fwd_reloc_request__mme_ue_scef_pdn_connections_apn) set_gtp_fwd_reloc_request__mme_ue_scef_pdn_connections_apn here value
    else if (ie_type =? GTP_IE_EPS_BEARER_ID) && (instance =? GTP_IE_INSTANCE_ZERO) then into decode_gtp_eps_bearer_id_ie value.(gtp_fwd_reloc_request__mme_ue_scef_pdn_connections_dflt_eps_bearer_id) set_gtp_fwd_reloc_request__mme_ue_scef_pdn_connections_dflt_eps_bearer_id here value
    else if (ie_type =? GTP_IE_NODE_IDENTIFIER) && (instance =? GTP_IE_INSTANCE_ZERO) then into decode_gtp_node_identifier_ie value.(gtp_fwd_reloc_request__mme_ue_scef_pdn_connections_scef_id) set_gtp_fwd_reloc_request__mme_ue_scef_pdn_connections_scef_id here value
    else skip_gie here value).

Definition decode_mbms_sess_upd_req : mbms_sess_upd_req_t -> ie_decoder mbms_sess_upd_req_t :=
  dec_gtp_message mbms_sess_upd_req_header set_mbms_sess_upd_req_header id (fun '(ie_type, instance) here value =>
    if (ie_type =? GTP_IE_MBMS_SVC_AREA) && (instance =? GTP_IE_INSTANCE_ZERO) then into decode_gtp_mbms_svc_area_ie value.(mbms_sess_upd_req_mbms_svc_area) set_mbms_sess_upd_req_mbms_svc_area here value
    else if (ie_type =? GTP_IE_TMGI) && (instance =? GTP_IE_INSTANCE_ZERO) then into decode_gtp_tmgi_ie value.(mbms_sess_upd_req_tmgi) set_mbms_sess_upd_req_tmgi here value
    else if (ie_type =? GTP_IE_FULLY_QUAL_TUNN_ENDPT_IDNT) && (instance =? GTP_IE_INSTANCE_ZERO) then into decode_gtp_fully_qual_tunn_endpt_idnt_ie value.(mbms_sess_upd_req_sender_fteid_ctl_plane) set_mbms_sess_upd_req_sender_fteid_ctl_plane here value
    else if (ie_type =? GTP_IE_MBMS_SESS_DUR) && (instance =? GTP_IE_INSTANCE_ZERO) then into decode_gtp_mbms_sess_dur_ie value.(mbms_sess_upd_req_mbms_sess_dur) set_mbms_sess_upd_req_mbms_sess_dur here value
    else if (ie_type =? GTP_IE_BEARER_QLTY_OF_SVC) && (instance =? GTP_IE_INSTANCE_ZERO) then into decode_gtp_bearer_qlty_of_svc_ie value.(mbms_sess_upd_req_qos_profile) set_mbms_sess_upd_req_qos_profile here value
    else if (ie_type =? GTP_IE_MBMS_SESS_IDNT) && (instance =? GTP_IE_INSTANCE_ZERO) then into decode_gtp_mbms_sess_idnt_ie value.(mbms_sess_upd_req_mbms_sess_idnt) set_mbms_sess_upd_req_mbms_sess_idnt here value
    else if (ie_type =? GTP_IE_MBMS_FLOW_IDNT) && (instance =? GTP_IE_INSTANCE_ZERO) then into decode_gtp_mbms_flow_idnt_ie value.(mbms_sess_upd_req_mbms_flow_idnt) set_mbms_sess_upd_req_mbms_flow_idnt here value
    else if (ie_type =? GTP_IE_MBMS_TIME_TO_DATA_XFER) && (instance =? GTP_IE_INSTANCE_ZERO) then into decode_gtp_mbms_time_to_data_xfer_ie value.(mbms_sess_upd_req_mbms_time_to_data_xfer) set_mbms_sess_upd_req_mbms_time_to_data_xfer here value
    else if (ie_type =? GTP_IE_MBMS_DATA_XFER_ABS_TIME) && (instance =? GTP_IE_INSTANCE_ZERO) then into decode_gtp_mbms_data_xfer_abs_time_ie value.(mbms_sess_upd_req_mbms_data_xfer_start_upd_stop) set_mbms_sess_upd_req_mbms_data_xfer_start_upd_stop here value
    else if (ie_type =? GTP_IE_ECGI_LIST) && (instance =? GTP_IE_INSTANCE_ZERO) then into decode_gtp_ecgi_list_ie value.(mbms_sess_upd_req_mbms_cell_list) set_mbms_sess_upd_req_mbms_cell_list here value
    else if ie_type =? GTP_IE_PRIV_EXT then into decode_gtp_priv_ext_ie value.(mbms_sess_upd_req_priv_ext) set_mbms_sess_upd_req_priv_ext here value
    else skip_gie here value).

Definition decode_gtp_create_sess_response_bearer_ctxt_created_ie : gtp_create_sess_response_bearer_ctxt_created_ie_t -> ie_decoder gtp_create_sess_response_bearer_ctxt_created_ie_t :=
  dec_gtp_group set_gtp_create_sess_response_bearer_ctxt_created_header IE_HEADER_SIZE (fun '(ie_type, instance) here value =>
    if (ie_type =? GTP_IE_EPS_BEARER_ID) && (instance =? GTP_IE_INSTANCE_ZERO) then into decode_gtp_eps_bearer_id_ie value.(gtp_create_sess_response_bearer_ctxt_created_eps_bearer_id) set_gtp_create_sess_response_bearer_ctxt_created_eps_bearer_id here value
    else if (ie_type =? GTP_IE_CAUSE) && (instance =? GTP_IE_INSTANCE_ZERO) then into decode_gtp_cause_ie value.(gtp_create_sess_response_bearer_ctxt_created_cause) set_gtp_create_sess_response_bearer_ctxt_created_cause here value
    else if (ie_type =? GTP_IE_FULLY_QUAL_TUNN_ENDPT_IDNT) && (instance =? GTP_IE_INSTANCE_ZERO) then into decode_gtp_fully_qual_tunn_endpt_idnt_ie value.(gtp_create_sess_response_bearer_ctxt_created_s1u_sgw_fteid) set_gtp_create_sess_response_bearer_ctxt_created_s1u_sgw_fteid here value
    else if (ie_type =? GTP_IE_FULLY_QUAL_TUNN_ENDPT_IDNT) && (instance =? GTP_IE_INSTANCE_ONE) then into decode_gtp_fully_qual_tunn_endpt_idnt_ie value.(gtp_create_sess_response_bearer_ctxt_created_s4_u_sgw_fteid) set_gtp_create_sess_response_bearer_ctxt_created_s4_u_sgw_fteid here value
    else if (ie_type =? GTP_IE_FULLY_QUAL_TUNN_ENDPT_IDNT) && (instance =? GTP_IE_INSTANCE_TWO) then into decode_gtp_fully_qual_tunn_endpt_idnt_ie value.(gtp_create_sess_response_bearer_ctxt_created_s5s8_u_pgw_fteid) set_gtp_create_sess_response_bearer_ctxt_created_s5s8_u_pgw_fteid here value
    else if (ie_type =? GTP_IE_FULLY_QUAL_TUNN_ENDPT_IDNT) && (instance =? GTP_IE_INSTANCE_THREE) then into decode_gtp_fully_qual_tunn_endpt_idnt_ie value.(gtp_create_sess_response_bearer_ctxt_created_s12_sgw_fteid) set_gtp_create_sess_response_bearer_ctxt_created_s12_sgw_fteid here value
    else if (ie_type =? GTP_IE_FULLY_QUAL_TUNN_ENDPT_IDNT) && (instance =? GTP_IE_INSTANCE_FOUR) then into decode_gtp_fully_qual_tunn_endpt_idnt_ie value.(gtp_create_sess_response_bearer_ctxt_created_s2b_u_pgw_fteid) set_gtp_create_sess_response_bearer_ctxt_created_s2b_u_pgw_fteid here value
    else if (ie_type =? GTP_IE_FULLY_QUAL_TUNN_ENDPT_IDNT) && (instance =? GTP_IE_INSTANCE_FIVE) then into decode_gtp_fully_qual_tunn_endpt_idnt_ie value.(gtp_create_sess_response_bearer_ctxt_created_s2a_u_pgw_fteid) set_gtp_create_sess_response_bearer_ctxt_created_s2a_u_pgw_fteid here value
    else if (ie_type =? GTP_IE_BEARER_QLTY_OF_SVC) && (instance =? GTP_IE_INSTANCE_ZERO) then into decode_gtp_bearer_qlty_of_svc_ie value.(gtp_create_sess_response_bearer_ctxt_created_bearer_lvl_qos) set_gtp_create_sess_response_bearer_ctxt_created_bearer_lvl_qos here value
    else if (ie_type =? GTP_IE_CHARGING_ID) && (instance =? GTP_IE_INSTANCE_ZERO) then into decode_gtp_charging_id_ie value.(gtp_create_sess_response_bearer_ctxt_created_charging_id) set_gtp_create_sess_response_bearer_ctxt_created_charging_id here value
    else if (ie_type =? GTP_IE_BEARER_FLAGS) && (instance =? GTP_IE_INSTANCE_ZERO) then into decode_gtp_bearer_flags_ie value.(gtp_create_sess_response_bearer_ctxt_created_bearer_flags) set_gtp_create_sess_response_bearer_ctxt_created_bearer_flags here value
    else if (ie_type =? GTP_IE_FULLY_QUAL_TUNN_ENDPT_IDNT) && (instance =? GTP_IE_INSTANCE_SIX) then into decode_gtp_fully_qual_tunn_endpt_idnt_ie value.(gtp_create_sess_response_bearer_ctxt_created_s11_u_sgw_fteid) set_gtp_create_sess_response_bearer_ctxt_created_s11_u_sgw_fteid here value
    else skip_gie here value).

Definition decode_gtp_create_sess_response_bearer_ctxt_marked_removal_ie : gtp_create_sess_response_bearer_ctxt_marked_removal_ie_t -> ie_decoder gtp_create_sess_response_bearer_ctxt_marked_removal_ie_t :=
  dec_gtp_group set_gtp_create_sess_response_bearer_ctxt_marked_removal_header 0 (fun '(ie_type, instance) here value =>
    if (ie_type =? GTP_IE_EPS_BEARER_ID) && (instance =? GTP_IE_INSTANCE_ZERO) then into decode_gtp_eps_bearer_id_ie value.(gtp_create_sess_response_bearer_ctxt_marked_removal_eps_bearer_id) set_gtp_create_sess_response_bearer_ctxt_marked_removal_eps_bearer_id here value
    else if (ie_type =? GTP_IE_CAUSE) && (instance =? GTP_IE_INSTANCE_ZERO) then into decode_gtp_cause_ie value.(gtp_create_sess_response_bearer_ctxt_marked_removal_cause) set_gtp_create_sess_response_bearer_ctxt_marked_removal_cause here value
    else skip_gie here value).

Definition decode_create_sess_rsp : create_sess_rsp_t -> ie_decoder create_sess_rsp_t :=
  dec_gtp_message create_sess_rsp_header set_create_sess_rsp_header id (fun '(ie_type, instance) here value =>
    if (ie_type =? GTP_IE_CAUSE) && (instance =? GTP_IE_INSTANCE_ZERO) then into decode_gtp_cause_ie value.(create_sess_rsp_cause) set_create_sess_rsp_cause here value
    else if (ie_type =? GTP_IE_CHG_RPTNG_ACT) && (instance =? GTP_IE_INSTANCE_ZERO) then into decode_gtp_chg_rptng_act_ie value.(create_sess_rsp_chg_rptng_act) set_create_sess_rsp_chg_rptng_act here value
    else if (ie_type =? GTP_IE_CSG_INFO_RPTNG_ACT) && (instance =? GTP_IE_INSTANCE_ZERO) then into decode_gtp_csg_info_rptng_act_ie value.(create_sess_rsp_csg_info_rptng_act) set_create_sess_rsp_csg_info_rptng_act here value
    else if (ie_type =? GTP_IE_HENB_INFO_RPTNG) && (instance =? GTP_IE_INSTANCE_ZERO) then into decode_gtp_henb_info_rptng_ie value.(create_sess_rsp_henb_info_rptng) set_create_sess_rsp_henb_info_rptng here value
    else if (ie_type =? GTP_IE_FULLY_QUAL_TUNN_ENDPT_IDNT) && (instance =? GTP_IE_INSTANCE_ZERO) then into decode_gtp_fully_qual_tunn_endpt_idnt_ie value.(create_sess_rsp_sender_fteid_ctl_plane) set_create_sess_rsp_sender_fteid_ctl_plane here value
    else if (ie_type =? GTP_IE_FULLY_QUAL_TUNN_ENDPT_IDNT) && (instance =? GTP_IE_INSTANCE_ONE) then into decode_gtp_fully_qual_tunn_endpt_idnt_ie value.(create_sess_rsp_pgw_s5s8_s2as2b_fteid_pmip_based_intfc_or_gtp_based_ctl_plane_intfc) set_create_sess_rsp_pgw_s5s8_s2as2b_fteid_pmip_based_intfc_or_gtp_based_ctl_plane_intfc here value
    else if (ie_type =? GTP_IE_PDN_ADDR_ALLOC) && (instance =? GTP_IE_INSTANCE_ZERO) then into decode_gtp_pdn_addr_alloc_ie value.(create_sess_rsp_paa) set_create_sess_rsp_paa here value
    else if (ie_type =? GTP_IE_APN_RESTRICTION) && (instance =? GTP_IE_INSTANCE_ZERO) then into decode_gtp_apn_restriction_ie value.(create_sess_rsp_apn_restriction) set_create_sess_rsp_apn_restriction here value
    else if (ie_type =? GTP_IE_AGG_MAX_BIT_RATE) && (instance =? GTP_IE_INSTANCE_ZERO) then into decode_gtp_agg_max_bit_rate_ie value.(create_sess_rsp_apn_ambr) set_create_sess_rsp_apn_ambr here value
    else if (ie_type =? GTP_IE_EPS_BEARER_ID) && (instance =? GTP_IE_INSTANCE_ZERO) then into decode_gtp_eps_bearer_id_ie value.(create_sess_rsp_linked_eps_bearer_id) set_create_sess_rsp_linked_eps_bearer_id here value
    else if (ie_type =? GTP_IE_PROT_CFG_OPTS) && (instance =? GTP_IE_INSTANCE_ZERO) then into decode_gtp_prot_cfg_opts_ie value.(create_sess_rsp_pco) set_create_sess_rsp_pco here value
    else if (ie_type =? GTP_IE_CREATE_SESS_RESPONSE_BEARER_CTXT_CREATED) && (instance =? GTP_IE_INSTANCE_ZERO) then into decode_gtp_create_sess_response_bearer_ctxt_created_ie value.(create_sess_rsp_bearer_contexts_created) set_create_sess_rsp_bearer_contexts_created here value
    else if (ie_type =? GTP_IE_CREATE_SESS_RESPONSE_BEARER_CTXT_MARKED_REMOVAL) && (instance =? GTP_IE_INSTANCE_ONE) then into decode_gtp_create_sess_response_bearer_ctxt_marked_removal_ie value.(create_sess_rsp_bearer_contexts_marked_removal) set_create_sess_rsp_bearer_contexts_marked_removal here value
    else if (ie_type =? GTP_IE_RECOVERY) && (instance =? GTP_IE_INSTANCE_ZERO) then into decode_gtp_recovery_ie value.(create_sess_rsp_recovery) set_create_sess_rsp_recovery here value
    else if (ie_type =? GTP_IE_FULLY_QUAL_DOMAIN_NAME) && (instance =? GTP_IE_INSTANCE_ZERO) then into decode_gtp_fully_qual_domain_name_ie value.(create_sess_rsp_chrgng_gateway_name) set_create_sess_rsp_chrgng_gateway_name here value
    else if (ie_type =? GTP_IE_IP_ADDRESS) && (instance =? GTP_IE_INSTANCE_ZERO) then into decode_gtp_ip_address_ie value.(create_sess_rsp_chrgng_gateway_addr) set_create_sess_rsp_chrgng_gateway_addr here value
    else if (ie_type =? GTP_IE_FQCSID) && (instance =? GTP_IE_INSTANCE_ZERO) then into decode_gtp_fqcsid_ie value.(create_sess_rsp_pgw_fqcsid) set_create_sess_rsp_pgw_fqcsid here value
    else if (ie_type =? GTP_IE_FQCSID) && (instance =? GTP_IE_INSTANCE_ONE) then into decode_gtp_fqcsid_ie value.(create_sess_rsp_sgw_fqcsid) set_create_sess_rsp_sgw_fqcsid here value
    else if (ie_type =? GTP_IE_LOCAL_DISTGSD_NAME) && (instance =? GTP_IE_INSTANCE_ZERO) then into decode_gtp_local_distgsd_name_ie value.(create_sess_rsp_sgw_ldn) set_create_sess_rsp_sgw_ldn here value
    else if (ie_type =? GTP_IE_LOCAL_DISTGSD_NAME) && (instance =? GTP_IE_INSTANCE_ONE) then into decode_gtp_local_distgsd_name_ie value.(create_sess_rsp_pgw_ldn) set_create_sess_rsp_pgw_ldn here value
    else if (ie_type =? GTP_IE_EPC_TIMER) && (instance =? GTP_IE_INSTANCE_ZERO) then into decode_gtp_epc_timer_ie value.(create_sess_rsp_pgw_back_off_time) set_create_sess_rsp_pgw_back_off_time here value
    else if (ie_type =? GTP_IE_ADDTL_PROT_CFG_OPTS) && (instance =? GTP_IE_INSTANCE_ZERO) then into decode_gtp_addtl_prot_cfg_opts_ie value.(create_sess_rsp_apco) set_create_sess_rsp_apco here value
    else if (ie_type =? GTP_IE_IPV4_CFG_PARMS) && (instance =? GTP_IE_INSTANCE_ZERO) then into decode_gtp_ipv4_cfg_parms_ie value.(create_sess_rsp_trstd_wlan_ipv4_parms) set_create_sess_rsp_trstd_wlan_ipv4_parms here value
    else if (ie_type =? GTP_IE_INDICATION) && (instance =? GTP_IE_INSTANCE_ZERO) then into decode_gtp_indication_ie value.(create_sess_rsp_indctn_flgs) set_create_sess_rsp_indctn_flgs here value
    else if (ie_type =? GTP_IE_PRES_RPTNG_AREA_ACT) && (instance =? GTP_IE_INSTANCE_ZERO) then into decode_gtp_pres_rptng_area_act_ie value.(create_sess_rsp_pres_rptng_area_act) set_create_sess_rsp_pres_rptng_area_act here value
    else if (ie_type =? GTP_IE_LOAD_CTL_INFO) && (instance =? GTP_IE_INSTANCE_ZERO) then into decode_gtp_load_ctl_info_ie value.(create_sess_rsp_pgws_node_lvl_load_ctl_info) set_create_sess_rsp_pgws_node_lvl_load_ctl_info here value
    else if (ie_type =? GTP_IE_LOAD_CTL_INFO) && (instance =? GTP_IE_INSTANCE_ONE) then into decode_gtp_load_ctl_info_ie value.(create_sess_rsp_pgws_apn_lvl_load_ctl_info) set_create_sess_rsp_pgws_apn_lvl_load_ctl_info here value
    else if (ie_type =? GTP_IE_LOAD_CTL_INFO) && (instance =? GTP_IE_INSTANCE_TWO) then into decode_gtp_load_ctl_info_ie value.(create_sess_rsp_sgws_node_lvl_load_ctl_info) set_create_sess_rsp_sgws_node_lvl_load_ctl_info here value
    else if (ie_type =? GTP_IE_OVRLD_CTL_INFO) && (instance =? GTP_IE_INSTANCE_ZERO) then into decode_gtp_ovrld_ctl_info_ie value.(create_sess_rsp_pgws_ovrld_ctl_info) set_create_sess_rsp_pgws_ovrld_ctl_info here value
    else if (ie_type =? GTP_IE_OVRLD_CTL_INFO) && (instance =? GTP_IE_INSTANCE_ONE) then into decode_gtp_ovrld_ctl_info_ie value.(create_sess_rsp_sgws_ovrld_ctl_info) set_create_sess_rsp_sgws_ovrld_ctl_info here value
    else if (ie_type =? GTP_IE_FULL_QUAL_CNTNR) && (instance =? GTP_IE_INSTANCE_ZERO) then into decode_gtp_full_qual_cntnr_ie value.(create_sess_rsp_nbifom_cntnr) set_create_sess_rsp_nbifom_cntnr here value
    else if (ie_type =? GTP_IE_CHARGING_ID) && (instance =? GTP_IE_INSTANCE_ZERO) then into decode_gtp_charging_id_ie value.(create_sess_rsp_pdn_conn_chrgng_id) set_create_sess_rsp_pdn_conn_chrgng_id here value
    else if (ie_type =? GTP_IE_EXTNDED_PROT_CFG_OPTS) && (instance =? GTP_IE_INSTANCE_ZERO) then into decode_gtp_extnded_prot_cfg_opts_ie value.(create_sess_rsp_epco) set_create_sess_rsp_epco here value
    else if ie_type =? GTP_IE_PRIV_EXT then into decode_gtp_priv_ext_ie value.(create_sess_rsp_priv_ext) set_create_sess_rsp_priv_ext here value
    else skip_gie here value).

Definition decode_fwd_acc_ctxt_ack : fwd_acc_ctxt_ack_t -> ie_decoder fwd_acc_ctxt_ack_t :=
  dec_gtp_message fwd_acc_ctxt_ack_header set_fwd_acc_ctxt_ack_header id (fun '(ie_type, instance) here value =>
    if (ie_type =? GTP_IE_CAUSE) && (instance =? GTP_IE_INSTANCE_ZERO) then into decode_gtp_cause_ie value.(fwd_acc_ctxt_ack_cause) set_fwd_acc_ctxt_ack_cause here value
    else if ie_type =? GTP_IE_PRIV_EXT then into decode_gtp_priv_ext_ie value.(fwd_acc_ctxt_ack_priv_ext) set_fwd_acc_ctxt_ack_priv_ext here value
    else skip_gie here value).

Definition decode_gtp_create_bearer_request__load_ctl_info_ie : gtp_create_bearer_request__load_ctl_info_ie_t -> ie_decoder gtp_create_bearer_request__load_ctl_info_ie_t :=
  dec_gtp_group set_gtp_create_bearer_request__load_ctl_info_header 0 (fun '(ie_type, instance) here value =>
    if (ie_type =? GTP_IE_SEQUENCE_NUMBER) && (instance =? GTP_IE_INSTANCE_ZERO) then into decode_gtp_sequence_number_ie value.(gtp_create_bearer_request__load_ctl_info_load_ctl_seqn_nbr) set_gtp_create_bearer_request__load_ctl_info_load_ctl_seqn_nbr here value
    else if (ie_type =? GTP_IE_METRIC) && (instance =? GTP_IE_INSTANCE_ZERO) then into decode_gtp_metric_ie value.(gtp_create_bearer_request__load_ctl_info_load_metric) set_gtp_create_bearer_request__load_ctl_info_load_metric here value
    else if (ie_type =? GTP_IE_APN_AND_RLTV_CAP) && (instance =? GTP_IE_INSTANCE_ZERO) then into decode_gtp_apn_and_rltv_cap_ie value.(gtp_create_bearer_request__load_ctl_info_list_of_apn_and_rltv_cap) set_gtp_create_bearer_request__load_ctl_info_list_of_apn_and_rltv_cap here value
    else skip_gie here value).

Definition decode_gtp_create_bearer_request_bearer_ctxt_ie : gtp_create_bearer_request_bearer_ctxt_ie_t -> ie_decoder gtp_create_bearer_request_bearer_ctxt_ie_t :=
  dec_gtp_group set_gtp_create_bearer_request_bearer_ctxt_header 0 (fun '(ie_type, instance) here value =>
    if (ie_type =? GTP_IE_EPS_BEARER_ID) && (instance =? GTP_IE_INSTANCE_ZERO) then into decode_gtp_eps_bearer_id_ie value.(gtp_create_bearer_request_bearer_ctxt_eps_bearer_id) set_gtp_create_bearer_request_bearer_ctxt_eps_bearer_id here value
    else if (ie_type =? GTP_IE_EPS_BEARER_LVL_TRAFFIC_FLOW_TMPL) && (instance =? GTP_IE_INSTANCE_ZERO) then into decode_gtp_eps_bearer_lvl_traffic_flow_tmpl_ie value.(gtp_create_bearer_request_bearer_ctxt_tft) set_gtp_create_bearer_request_bearer_ctxt_tft here value
    else if (ie_type =? GTP_IE_FULLY_QUAL_TUNN_ENDPT_IDNT) && (instance =? GTP_IE_INSTANCE_ZERO) then into decode_gtp_fully_qual_tunn_endpt_idnt_ie value.(gtp_create_bearer_request_bearer_ctxt_s1u_sgw_fteid) set_gtp_create_bearer_request_bearer_ctxt_s1u_sgw_fteid here value
    else if (ie_type =? GTP_IE_FULLY_QUAL_TUNN_ENDPT_IDNT) && (instance =? GTP_IE_INSTANCE_ONE) then into decode_gtp_fully_qual_tunn_endpt_idnt_ie value.(gtp_create_bearer_request_bearer_ctxt_s58_u_pgw_fteid) set_gtp_create_bearer_request_bearer_ctxt_s58_u_pgw_fteid here value
    else if (ie_type =? GTP_IE_FULLY_QUAL_TUNN_ENDPT_IDNT) && (instance =? GTP_IE_INSTANCE_TWO) then into decode_gtp_fully_qual_tunn_endpt_idnt_ie value.(gtp_create_bearer_request_bearer_ctxt_s12_sgw_fteid) set_gtp_create_bearer_request_bearer_ctxt_s12_sgw_fteid here value
    else if (ie_type =? GTP_IE_FULLY_QUAL_TUNN_ENDPT_IDNT) && (instance =? GTP_IE_INSTANCE_THREE) then into decode_gtp_fully_qual_tunn_endpt_idnt_ie value.(gtp_create_bearer_request_bearer_ctxt_s4_u_sgw_fteid) set_gtp_create_bearer_request_bearer_ctxt_s4_u_sgw_fteid here value
    else if (ie_type =? GTP_IE_FULLY_QUAL_TUNN_ENDPT_IDNT) && (instance =? GTP_IE_INSTANCE_FOUR) then into decode_gtp_fully_qual_tunn_endpt_idnt_ie value.(gtp_create_bearer_request_bearer_ctxt_s2b_u_pgw_fteid) set_gtp_create_bearer_request_bearer_ctxt_s2b_u_pgw_fteid here value
    else if (ie_type =? GTP_IE_FULLY_QUAL_TUNN_ENDPT_IDNT) && (instance =? GTP_IE_INSTANCE_FIVE) then into decode_gtp_fully_qual_tunn_endpt_idnt_ie value.(gtp_create_bearer_request_bearer_ctxt_s2a_u_pgw_fteid) set_gtp_create_bearer_request_bearer_ctxt_s2a_u_pgw_fteid here value
    else if (ie_type =? GTP_IE_BEARER_QLTY_OF_SVC) && (instance =? GTP_IE_INSTANCE_ZERO) then into decode_gtp_bearer_qlty_of_svc_ie value.(gtp_create_bearer_request_bearer_ctxt_bearer_lvl_qos) set_gtp_create_bearer_request_bearer_ctxt_bearer_lvl_qos here value
    else if (ie_type =? GTP_IE_CHARGING_ID) && (instance =? GTP_IE_INSTANCE_ZERO) then into decode_gtp_charging_id_ie value.(gtp_create_bearer_request_bearer_ctxt_charging_id) set_gtp_create_bearer_request_bearer_ctxt_charging_id here value
    else if (ie_type =? GTP_IE_BEARER_FLAGS) && (instance =? GTP_IE_INSTANCE_ZERO) then into decode_gtp_bearer_flags_ie value.(gtp_create_bearer_request_bearer_ctxt_bearer_flags) set_gtp_create_bearer_request_bearer_ctxt_bearer_flags here value
    else if (ie_type =? GTP_IE_PROT_CFG_OPTS) && (instance =? GTP_IE_INSTANCE_ZERO) then into decode_gtp_prot_cfg_opts_ie value.(gtp_create_bearer_request_bearer_ctxt_pco) set_gtp_create_bearer_request_bearer_ctxt_pco here value
    else if (ie_type =? GTP_IE_EXTNDED_PROT_CFG_OPTS) && (instance =? GTP_IE_INSTANCE_ZERO) then into decode_gtp_extnded_prot_cfg_opts_ie value.(gtp_create_bearer_request_bearer_ctxt_epco) set_gtp_create_bearer_request_bearer_ctxt_epco here value
    else if (ie_type =? GTP_IE_MAX_PCKT_LOSS_RATE) && (instance =? GTP_IE_INSTANCE_ZERO) then into decode_gtp_max_pckt_loss_rate_ie value.(gtp_create_bearer_request_bearer_ctxt_max_pckt_loss_rate) set_gtp_create_bearer_request_bearer_ctxt_max_pckt_loss_rate here value
    else skip_gie here value).

Definition decode_create_bearer_req : create_bearer_req_t -> ie_decoder create_bearer_req_t :=
  dec_gtp_message create_bearer_req_header set_create_bearer_req_header id (fun '(ie_type, instance) here value =>
    if (ie_type =? GTP_IE_PROC_TRANS_ID) && (instance =? GTP_IE_INSTANCE_ZERO) then into decode_gtp_proc_trans_id_ie value.(create_bearer_req_pti) set_create_bearer_req_pti here value
    else if (ie_type =? GTP_IE_EPS_BEARER_ID) && (instance =? GTP_IE_INSTANCE_ZERO) then into decode_gtp_eps_bearer_id_ie value.(create_bearer_req_lbi) set_create_bearer_req_lbi here value
    else if (ie_type =? GTP_IE_PROT_CFG_OPTS) && (instance =? GTP_IE_INSTANCE_ZERO) then into decode_gtp_prot_cfg_opts_ie value.(create_bearer_req_pco) set_create_bearer_req_pco here value
    else if (ie_type =? GTP_IE_BEARER_CONTEXT) && (instance =? GTP_IE_INSTANCE_ZERO) then into decode_gtp_create_bearer_request_bearer_ctxt_ie value.(create_bearer_req_bearer_contexts) set_create_bearer_req_bearer_contexts here value
    else if (ie_type =? GTP_IE_FQCSID) && (instance =? GTP_IE_INSTANCE_ZERO) then into decode_gtp_fqcsid_ie value.(create_bearer_req_pgw_fqcsid) set_create_bearer_req_pgw_fqcsid here value
    else if (ie_type =? GTP_IE_FQCSID) && (instance =? GTP_IE_INSTANCE_ONE) then into decode_gtp_fqcsid_ie value.(create_bearer_req_sgw_fqcsid) set_create_bearer_req_sgw_fqcsid here value
    else if (ie_type =? GTP_IE_CHG_RPTNG_ACT) && (instance =? GTP_IE_INSTANCE_ZERO) then into decode_gtp_chg_rptng_act_ie value.(create_bearer_req_chg_rptng_act) set_create_bearer_req_chg_rptng_act here value
    else if (ie_type =? GTP_IE_CSG_INFO_RPTNG_ACT) && (instance =? GTP_IE_INSTANCE_ZERO) then into decode_gtp_csg_info_rptng_act_ie value.(create_bearer_req_csg_info_rptng_act) set_create_bearer_req_csg_info_rptng_act here value
    else if (ie_type =? GTP_IE_HENB_INFO_RPTNG) && (instance =? GTP_IE_INSTANCE_ZERO) then into decode_gtp_henb_info_rptng_ie value.(create_bearer_req_henb_info_rptng) set_create_bearer_req_henb_info_rptng here value
    else if (ie_type =? GTP_IE_PRES_RPTNG_AREA_ACT) && (instance =? GTP_IE_INSTANCE_ZERO) then into decode_gtp_pres_rptng_area_act_ie value.(create_bearer_req_pres_rptng_area_act) set_create_bearer_req_pres_rptng_area_act here value
    else if (ie_type =? GTP_IE_INDICATION) && (instance =? GTP_IE_INSTANCE_ZERO) then into decode_gtp_indication_ie value.(create_bearer_req_indctn_flgs) set_create_bearer_req_indctn_flgs here value
    else if (ie_type =? GTP_IE_LOAD_CTL_INFO) && (instance =? GTP_IE_INSTANCE_ZERO) then into decode_gtp_load_ctl_info_ie value.(create_bearer_req_pgws_node_lvl_load_ctl_info) set_create_bearer_req_pgws_node_lvl_load_ctl_info here value
    else if (ie_type =? GTP_IE_LOAD_CTL_INFO) && (instance =? GTP_IE_INSTANCE_ONE) then into decode_gtp_load_ctl_info_ie value.(create_bearer_req_pgws_apn_lvl_load_ctl_info) set_create_bearer_req_pgws_apn_lvl_load_ctl_info here value
    else if (ie_type =? GTP_IE_LOAD_CTL_INFO) && (instance =? GTP_IE_INSTANCE_TWO) then into decode_gtp_load_ctl_info_ie value.(create_bearer_req_sgws_node_lvl_load_ctl_info) set_create_bearer_req_sgws_node_lvl_load_ctl_info here value
    else if (ie_type =? GTP_IE_OVRLD_CTL_INFO) && (instance =? GTP_IE_INSTANCE_ZERO) then into decode_gtp_ovrld_ctl_info_ie value.(create_bearer_req_pgws_ovrld_ctl_info) set_create_bearer_req_pgws_ovrld_ctl_info here value
    else if (ie_type =? GTP_IE_OVRLD_CTL_INFO) && (instance =? GTP_IE_INSTANCE_ONE) then into decode_gtp_ovrld_ctl_info_ie value.(create_bearer_req_sgws_ovrld_ctl_info) set_create_bearer_req_sgws_ovrld_ctl_info here value
    else if (ie_type =? GTP_IE_FULL_QUAL_CNTNR) && (instance =? GTP_IE_INSTANCE_ZERO) then into decode_gtp_full_qual_cntnr_ie value.(create_bearer_req_nbifom_cntnr) set_create_bearer_req_nbifom_cntnr here value
    else if ie_type =? GTP_IE_PRIV_EXT then into decode_gtp_priv_ext_ie value.(create_bearer_req_priv_ext) set_create_bearer_req_priv_ext here value
    else skip_gie here value).

Definition decode_gtp_create_sess_request__overload_ctl_info_ie : gtp_create_sess_request__overload_ctl_info_ie_t -> ie_decoder gtp_create_sess_request__overload_ctl_info_ie_t :=
  dec_gtp_group set_gtp_create_sess_request__overload_ctl_info_header 0 (fun '(ie_type, instance) here value =>
    if (ie_type =? GTP_IE_SEQUENCE_NUMBER) && (instance =? GTP_IE_INSTANCE_ZERO) then into decode_gtp_sequence_number_ie value.(gtp_create_sess_request__overload_ctl_info_ovrld_ctl_seqn_nbr) set_gtp_create_sess_request__overload_ctl_info_ovrld_ctl_seqn_nbr here value
    else if (ie_type =? GTP_IE_METRIC) && (instance =? GTP_IE_INSTANCE_ZERO) then into decode_gtp_metric_ie value.(gtp_create_sess_request__overload_ctl_info_ovrld_reduction_metric) set_gtp_create_sess_request__overload_ctl_info_ovrld_reduction_metric here value
    else if (ie_type =? GTP_IE_EPC_TIMER) && (instance =? GTP_IE_INSTANCE_ZERO) then into decode_gtp_epc_timer_ie value.(gtp_create_sess_request__overload_ctl_info_prd_of_validity) set_gtp_create_sess_request__overload_ctl_info_prd_of_validity here value
    else skip_gie here value).

Definition decode_bearer_rsrc_fail_indctn : bearer_rsrc_fail_indctn_t -> ie_decoder bearer_rsrc_fail_indctn_t :=
  dec_gtp_message bearer_rsrc_fail_indctn_header set_bearer_rsrc_fail_indctn_header id (fun '(ie_type, instance) here value =>
    if (ie_type =? GTP_IE_CAUSE) && (instance =? GTP_IE_INSTANCE_ZERO) then into decode_gtp_cause_ie value.(bearer_rsrc_fail_indctn_cause) set_bearer_rsrc_fail_indctn_cause here value
    else if (ie_type =? GTP_IE_EPS_BEARER_ID) && (instance =? GTP_IE_INSTANCE_ZERO) then into decode_gtp_eps_bearer_id_ie value.(bearer_rsrc_fail_indctn_linked_eps_bearer_id) set_bearer_rsrc_fail_indctn_linked_eps_bearer_id here value
    else if (ie_type =? GTP_IE_PROC_TRANS_ID) && (instance =? GTP_IE_INSTANCE_ZERO) then into decode_gtp_proc_trans_id_ie value.(bearer_rsrc_fail_indctn_pti) set_bearer_rsrc_fail_indctn_pti here value
    else if (ie_type =? GTP_IE_INDICATION) && (instance =? GTP_IE_INSTANCE_ZERO) then into decode_gtp_indication_ie value.(bearer_rsrc_fail_indctn_indctn_flgs) set_bearer_rsrc_fail_indctn_indctn_flgs here value
    else if (ie_type =? GTP_IE_OVRLD_CTL_INFO) && (instance =? GTP_IE_INSTANCE_ZERO) then into decode_gtp_ovrld_ctl_info_ie value.(bearer_rsrc_fail_indctn_pgws_ovrld_ctl_info) set_bearer_rsrc_fail_indctn_pgws_ovrld_ctl_info here value
    else if (ie_type =? GTP_IE_OVRLD_CTL_INFO) && (instance =? GTP_IE_INSTANCE_ONE) then into decode_gtp_ovrld_ctl_info_ie value.(bearer_rsrc_fail_indctn_sgws_ovrld_ctl_info) set_bearer_rsrc_fail_indctn_sgws_ovrld_ctl_info here value
    else if (ie_type =? GTP_IE_RECOVERY) && (instance =? GTP_IE_INSTANCE_ZERO) then into decode_gtp_recovery_ie value.(bearer_rsrc_fail_indctn_recovery) set_bearer_rsrc_fail_indctn_recovery here value
    else if (ie_type =? GTP_IE_FULL_QUAL_CNTNR) && (instance =? GTP_IE_INSTANCE_ZERO) then into decode_gtp_full_qual_cntnr_ie value.(bearer_rsrc_fail_indctn_nbifom_cntnr) set_bearer_rsrc_fail_indctn_nbifom_cntnr here value
    else if ie_type =? GTP_IE_PRIV_EXT then into decode_gtp_priv_ext_ie value.(bearer_rsrc_fail_indctn_priv_ext) set_bearer_rsrc_fail_indctn_priv_ext here value
    else skip_gie here value).

Definition decode_gtp_create_sess_response__overload_ctl_info_ie : gtp_create_sess_response__overload_ctl_info_ie_t -> ie_decoder gtp_create_sess_response__overload_ctl_info_ie_t :=
  dec_gtp_group set_gtp_create_sess_response__overload_ctl_info_header 0 (fun '(ie_type, instance) here value =>
    if (ie_type =? GTP_IE_SEQUENCE_NUMBER) && (instance =? GTP_IE_INSTANCE_ZERO) then into decode_gtp_sequence_number_ie value.(gtp_create_sess_response__overload_ctl_info_ovrld_ctl_seqn_nbr) set_gtp_create_sess_response__overload_ctl_info_ovrld_ctl_seqn_nbr here value
    else if (ie_type =? GTP_IE_METRIC) && (instance =? GTP_IE_INSTANCE_ZERO) then into decode_gtp_metric_ie value.(gtp_create_sess_response__overload_ctl_info_ovrld_reduction_metric) set_gtp_create_sess_response__overload_ctl_info_ovrld_reduction_metric here value
    else if (ie_type =? GTP_IE_EPC_TIMER) && (instance =? GTP_IE_INSTANCE_ZERO) then into decode_gtp_epc_timer_ie value.(gtp_create_sess_response__overload_ctl_info_prd_of_validity) set_gtp_create_sess_response__overload_ctl_info_prd_of_validity here value
    else if (ie_type =? GTP_IE_ACC_PT_NAME) && (instance =? GTP_IE_INSTANCE_ZERO) then into decode_gtp_acc_pt_name_ie value.(gtp_create_sess_response__overload_ctl_info_apn) set_gtp_create_sess_response__overload_ctl_info_apn here value
    else skip_gie here value).

Definition decode_pgw_dnlnk_trigrng_ack : pgw_dnlnk_trigrng_ack_t -> ie_decoder pgw_dnlnk_trigrng_ack_t :=
  dec_gtp_message pgw_dnlnk_trigrng_ack_header set_pgw_dnlnk_trigrng_ack_header id (fun '(ie_type, instance) here value =>
    if (ie_type =? GTP_IE_CAUSE) && (instance =? GTP_IE_INSTANCE_ZERO) then into decode_gtp_cause_ie value.(pgw_dnlnk_trigrng_ack_cause) set_pgw_dnlnk_trigrng_ack_cause here value
    else if (ie_type =? GTP_IE_IMSI) && (instance =? GTP_IE_INSTANCE_ZERO) then into decode_gtp_imsi_ie value.(pgw_dnlnk_trigrng_ack_imsi) set_pgw_dnlnk_trigrng_ack_imsi here value
    else if (ie_type =? GTP_IE_IP_ADDRESS) && (instance =? GTP_IE_INSTANCE_ZERO) then into decode_gtp_ip_address_ie value.(pgw_dnlnk_trigrng_ack_mmes4_sgsn_idnt) set_pgw_dnlnk_trigrng_ack_mmes4_sgsn_idnt here value
    else if ie_type =? GTP_IE_PRIV_EXT then into decode_gtp_priv_ext_ie value.(pgw_dnlnk_trigrng_ack_priv_ext) set_pgw_dnlnk_trigrng_ack_priv_ext here value
    else skip_gie here value).

Definition decode_gtp_create_bearer_request__overload_ctl_info_ie : gtp_create_bearer_request__overload_ctl_info_ie_t -> ie_decoder gtp_create_bearer_request__overload_ctl_info_ie_t :=
  dec_gtp_group set_gtp_create_bearer_request__overload_ctl_info_header 0 (fun '(ie_type, instance) here value =>
    if (ie_type =? GTP_IE_SEQUENCE_NUMBER) && (instance =? GTP_IE_INSTANCE_ZERO) then into decode_gtp_sequence_number_ie value.(gtp_create_bearer_request__overload_ctl_info_ovrld_ctl_seqn_nbr) set_gtp_create_bearer_request__overload_ctl_info_ovrld_ctl_seqn_nbr here value
    else if (ie_type =? GTP_IE_METRIC) && (instance =? GTP_IE_INSTANCE_ZERO) then into decode_gtp_metric_ie value.(gtp_create_bearer_request__overload_ctl_info_ovrld_reduction_metric) set_gtp_create_bearer_request__overload_ctl_info_ovrld_reduction_metric here value
    else if (ie_type =? GTP_IE_EPC_TIMER) && (instance =? GTP_IE_INSTANCE_ZERO) then into decode_gtp_epc_timer_ie value.(gtp_create_bearer_request__overload_ctl_info_prd_of_validity) set_gtp_create_bearer_request__overload_ctl_info_prd_of_validity here value
    else if (ie_type =? GTP_IE_ACC_PT_NAME) && (instance =? GTP_IE_INSTANCE_ZERO) then into decode_gtp_acc_pt_name_ie value.(gtp_create_bearer_request__overload_ctl_info_apn) set_gtp_create_bearer_request__overload_ctl_info_apn here value
    else skip_gie here value).

Definition decode_gtp_del_sess_request__overload_ctl_info_ie : gtp_del_sess_request__overload_ctl_info_ie_t -> ie_decoder gtp_del_sess_request__overload_ctl_info_ie_t :=
  dec_gtp_group set_gtp_del_sess_request__overload_ctl_info_header 0 (fun '(ie_type, instance) here value =>
    if (ie_type =? GTP_IE_SEQUENCE_NUMBER) && (instance =? GTP_IE_INSTANCE_ZERO) then into decode_gtp_sequence_number_ie value.(gtp_del_sess_request__overload_ctl_info_ovrld_ctl_seqn_nbr) set_gtp_del_sess_request__overload_ctl_info_ovrld_ctl_seqn_nbr here value
    else if (ie_type =? GTP_IE_METRIC) && (instance =? GTP_IE_INSTANCE_ZERO) then into decode_gtp_metric_ie value.(gtp_del_sess_request__overload_ctl_info_ovrld_reduction_metric) set_gtp_del_sess_request__overload_ctl_info_ovrld_reduction_metric here value
    else if (ie_type =? GTP_IE_EPC_TIMER) && (instance =? GTP_IE_INSTANCE_ZERO) then into decode_gtp_epc_timer_ie value.(gtp_del_sess_request__overload_ctl_info_prd_of_validity) set_gtp_del_sess_request__overload_ctl_info_prd_of_validity here value
    else skip_gie here value).

Definition decode_echo_response : echo_response_t -> ie_decoder echo_response_t :=
  dec_gtp_message echo_response_header set_echo_response_header id (fun '(ie_type, instance) here value =>
    if (ie_type =? GTP_IE_RECOVERY) && (instance =? GTP_IE_INSTANCE_ZERO) then into decode_gtp_recovery_ie value.(echo_response_recovery) set_echo_response_recovery here value
    else if (ie_type =? GTP_IE_NODE_FEATURES) && (instance =? GTP_IE_INSTANCE_ZERO) then into decode_gtp_node_features_ie value.(echo_response_sending_node_feat) set_echo_response_sending_node_feat here value
    else if ie_type =? GTP_IE_PRIV_EXT then into decode_gtp_priv_ext_ie value.(echo_response_priv_ext) set_echo_response_priv_ext here value
    else skip_gie here value).

Definition decode_mbms_sess_upd_rsp : mbms_sess_upd_rsp_t -> ie_decoder mbms_sess_upd_rsp_t :=
  dec_gtp_message mbms_sess_upd_rsp_header set_mbms_sess_upd_rsp_header id (fun '(ie_type, instance) here value =>
    if (ie_type =? GTP_IE_CAUSE) && (instance =? GTP_IE_INSTANCE_ZERO) then into decode_gtp_cause_ie value.(mbms_sess_upd_rsp_cause) set_mbms_sess_upd_rsp_cause here value
    else if (ie_type =? GTP_IE_MBMS_DIST_ACK) && (instance =? GTP_IE_INSTANCE_ZERO) then into decode_gtp_mbms_dist_ack_ie value.(mbms_sess_upd_rsp_mbms_dist_ack) set_mbms_sess_upd_rsp_mbms_dist_ack here value
    else if (ie_type =? GTP_IE_FULLY_QUAL_TUNN_ENDPT_IDNT) && (instance =? GTP_IE_INSTANCE_ZERO) then into decode_gtp_fully_qual_tunn_endpt_idnt_ie value.(mbms_sess_upd_rsp_sn_u_sgsn_fteid) set_mbms_sess_upd_rsp_sn_u_sgsn_fteid here value
    else if (ie_type =? GTP_IE_RECOVERY) && (instance =? GTP_IE_INSTANCE_ZERO) then into decode_gtp_recovery_ie value.(mbms_sess_upd_rsp_recovery) set_mbms_sess_upd_rsp_recovery here value
    else if ie_type =? GTP_IE_PRIV_EXT then into decode_gtp_priv_ext_ie value.(mbms_sess_upd_rsp_priv_ext) set_mbms_sess_upd_rsp_priv_ext here value
    else skip_gie here value).

Definition decode_gtp_del_bearer_fail_indication__bearer_ctxt_ie : gtp_del_bearer_fail_indication__bearer_ctxt_ie_t -> ie_decoder gtp_del_bearer_fail_indication__bearer_ctxt_ie_t :=
  dec_gtp_group set_gtp_del_bearer_fail_indication__bearer_ctxt_header 0 (fun '(ie_type, instance) here value =>
    if (ie_type =? GTP_IE_EPS_BEARER_ID) && (instance =? GTP_IE_INSTANCE_ZERO) then into decode_gtp_eps_bearer_id_ie value.(gtp_del_bearer_fail_indication__bearer_ctxt_eps_bearer_id) set_gtp_del_bearer_fail_indication__bearer_ctxt_eps_bearer_id here value
    else if (ie_type =? GTP_IE_CAUSE) && (instance =? GTP_IE_INSTANCE_ZERO) then into decode_gtp_cause_ie value.(gtp_del_bearer_fail_indication__bearer_ctxt_cause) set_gtp_del_bearer_fail_indication__bearer_ctxt_cause here value
    else skip_gie here value).

Definition decode_gtp_del_bearer_command__overload_ctl_info_ie : gtp_del_bearer_command__overload_ctl_info_ie_t -> ie_decoder gtp_del_bearer_command__overload_ctl_info_ie_t :=
  dec_gtp_group set_gtp_del_bearer_command__overload_ctl_info_header 0 (fun '(ie_type, instance) here value =>
    if (ie_type =? GTP_IE_SEQUENCE_NUMBER) && (instance =? GTP_IE_INSTANCE_ZERO) then into decode_gtp_sequence_number_ie value.(gtp_del_bearer_command__overload_ctl_info_ovrld_ctl_seqn_nbr) set_gtp_del_bearer_command__overload_ctl_info_ovrld_ctl_seqn_nbr here value
    else if (ie_type =? GTP_IE_METRIC) && (instance =? GTP_IE_INSTANCE_ZERO) then into decode_gtp_metric_ie value.(gtp_del_bearer_command__overload_ctl_info_ovrld_reduction_metric) set_gtp_del_bearer_command__overload_ctl_info_ovrld_reduction_metric here value
    else if (ie_type =? GTP_IE_EPC_TIMER) && (instance =? GTP_IE_INSTANCE_ZERO) then into decode_gtp_epc_timer_ie value.(gtp_del_bearer_command__overload_ctl_info_prd_of_validity) set_gtp_del_bearer_command__overload_ctl_info_prd_of_validity here value
    else skip_gie here value).

Definition decode_gtp_fwd_reloc_request__remote_ue_ctxt_connected_ie : gtp_fwd_reloc_request__remote_ue_ctxt_connected_ie_t -> ie_decoder gtp_fwd_reloc_request__remote_ue_ctxt_connected_ie_t :=
  dec_gtp_group set_gtp_fwd_reloc_request__remote_ue_ctxt_connected_header 0 (fun '(ie_type, instance) here value =>
    if (ie_type =? GTP_IE_REMOTE_USER_ID) && (instance =? GTP_IE_INSTANCE_ZERO) then into decode_gtp_remote_user_id_ie value.(gtp_fwd_reloc_request__remote_ue_ctxt_connected_remote_user_id) set_gtp_fwd_reloc_request__remote_ue_ctxt_connected_remote_user_id here value
    else if (ie_type =? GTP_IE_RMT_UE_IP_INFO) && (instance =? GTP_IE_INSTANCE_ZERO) then into decode_gtp_rmt_ue_ip_info_ie value.(gtp_fwd_reloc_request__remote_ue_ctxt_connected_rmt_ue_ip_info) set_gtp_fwd_reloc_request__remote_ue_ctxt_connected_rmt_ue_ip_info here value
    else skip_gie here value).

Definition decode_mod_acc_bearers_rsp : mod_acc_bearers_rsp_t -> ie_decoder mod_acc_bearers_rsp_t :=
  dec_gtp_message mod_acc_bearers_rsp_header set_mod_acc_bearers_rsp_header id (fun '(ie_type, instance) here value =>
    if (ie_type =? GTP_IE_CAUSE) && (instance =? GTP_IE_INSTANCE_ZERO) then into decode_gtp_cause_ie value.(mod_acc_bearers_rsp_cause) set_mod_acc_bearers_rsp_cause here value
    else if (ie_type =? GTP_IE_BEARER_CONTEXT) && (instance =? GTP_IE_INSTANCE_ZERO) then into decode_gtp_bearer_context_ie value.(mod_acc_bearers_rsp_bearer_contexts_modified) set_mod_acc_bearers_rsp_bearer_contexts_modified here value
    else if (ie_type =? GTP_IE_BEARER_CONTEXT) && (instance =? GTP_IE_INSTANCE_ONE) then into decode_gtp_bearer_context_ie value.(mod_acc_bearers_rsp_bearer_contexts_marked_removal) set_mod_acc_bearers_rsp_bearer_contexts_marked_removal here value
    else if (ie_type =? GTP_IE_RECOVERY) && (instance =? GTP_IE_INSTANCE_ZERO) then into decode_gtp_recovery_ie value.(mod_acc_bearers_rsp_recovery) set_mod_acc_bearers_rsp_recovery here value
    else if (ie_type =? GTP_IE_INDICATION) && (instance =? GTP_IE_INSTANCE_ZERO) then into decode_gtp_indication_ie value.(mod_acc_bearers_rsp_indctn_flgs) set_mod_acc_bearers_rsp_indctn_flgs here value
    else if (ie_type =? GTP_IE_LOAD_CTL_INFO) && (instance =? GTP_IE_INSTANCE_ZERO) then into decode_gtp_load_ctl_info_ie value.(mod_acc_bearers_rsp_sgws_node_lvl_load_ctl_info) set_mod_acc_bearers_rsp_sgws_node_lvl_load_ctl_info here value
    else if (ie_type =? GTP_IE_OVRLD_CTL_INFO) && (instance =? GTP_IE_INSTANCE_ZERO) then into decode_gtp_ovrld_ctl_info_ie value.(mod_acc_bearers_rsp_sgws_ovrld_ctl_info) set_mod_acc_bearers_rsp_sgws_ovrld_ctl_info here value
    else if ie_type =? GTP_IE_PRIV_EXT then into decode_gtp_priv_ext_ie value.(mod_acc_bearers_rsp_priv_ext) set_mod_acc_bearers_rsp_priv_ext here value
    else skip_gie here value).

Definition decode_gtp_mod_acc_bearers_response__overload_ctl_info_ie : gtp_mod_acc_bearers_response__overload_ctl_info_ie_t -> ie_decoder gtp_mod_acc_bearers_response__overload_ctl_info_ie_t :=
  dec_gtp_group set_gtp_mod_acc_bearers_response__overload_ctl_info_header 0 (fun '(ie_type, instance) here value =>
    if (ie_type =? GTP_IE_SEQUENCE_NUMBER) && (instance =? GTP_IE_INSTANCE_ZERO) then into decode_gtp_sequence_number_ie value.(gtp_mod_acc_bearers_response__overload_ctl_info_ovrld_ctl_seqn_nbr) set_gtp_mod_acc_bearers_response__overload_ctl_info_ovrld_ctl_seqn_nbr here value
    else if (ie_type =? GTP_IE_METRIC) && (instance =? GTP_IE_INSTANCE_ZERO) then into decode_gtp_metric_ie value.(gtp_mod_acc_bearers_response__overload_ctl_info_ovrld_reduction_metric) set_gtp_mod_acc_bearers_response__overload_ctl_info_ovrld_reduction_metric here value
    else if (ie_type =? GTP_IE_EPC_TIMER) && (instance =? GTP_IE_INSTANCE_ZERO) then into decode_gtp_epc_timer_ie value.(gtp_mod_acc_bearers_response__overload_ctl_info_prd_of_validity) set_gtp_mod_acc_bearers_response__overload_ctl_info_prd_of_validity here value
    else skip_gie here value).

Definition decode_mod_bearer_fail_indctn : mod_bearer_fail_indctn_t -> ie_decoder mod_bearer_fail_indctn_t :=
  dec_gtp_message mod_bearer_fail_indctn_header set_mod_bearer_fail_indctn_header id (fun '(ie_type, instance) here value =>
    if (ie_type =? GTP_IE_CAUSE) && (instance =? GTP_IE_INSTANCE_ZERO) then into decode_gtp_cause_ie value.(mod_bearer_fail_indctn_cause) set_mod_bearer_fail_indctn_cause here value
    else if (ie_type =? GTP_IE_RECOVERY) && (instance =? GTP_IE_INSTANCE_ZERO) then into decode_gtp_recovery_ie value.(mod_bearer_fail_indctn_recovery) set_mod_bearer_fail_indctn_recovery here value
    else if (ie_type =? GTP_IE_INDICATION) && (instance =? GTP_IE_INSTANCE_ZERO) then into decode_gtp_indication_ie value.(mod_bearer_fail_indctn_indctn_flgs) set_mod_bearer_fail_indctn_indctn_flgs here value
    else if (ie_type =? GTP_IE_OVRLD_CTL_INFO) && (instance =? GTP_IE_INSTANCE_ZERO) then into decode_gtp_ovrld_ctl_info_ie value.(mod_bearer_fail_indctn_pgws_ovrld_ctl_info) set_mod_bearer_fail_indctn_pgws_ovrld_ctl_info here value
    else if (ie_type =? GTP_IE_OVRLD_CTL_INFO) && (instance =? GTP_IE_INSTANCE_ONE) then into decode_gtp_ovrld_ctl_info_ie value.(mod_bearer_fail_indctn_sgws_ovrld_ctl_info) set_mod_bearer_fail_indctn_sgws_ovrld_ctl_info here value
    else if ie_type =? GTP_IE_PRIV_EXT then into decode_gtp_priv_ext_ie value.(mod_bearer_fail_indctn_priv_ext) set_mod_bearer_fail_indctn_priv_ext here value
    else skip_gie here value).

Definition decode_pgw_rstrt_notif_ack : pgw_rstrt_notif_ack_t -> ie_decoder pgw_rstrt_notif_ack_t :=
  dec_gtp_message pgw_rstrt_notif_ack_header set_pgw_rstrt_notif_ack_header id (fun '(ie_type, instance) here value =>
    if (ie_type =? GTP_IE_CAUSE) && (instance =? GTP_IE_INSTANCE_ZERO) then into decode_gtp_cause_ie value.(pgw_rstrt_notif_ack_cause) set_pgw_rstrt_notif_ack_cause here value
    else if ie_type =? GTP_IE_PRIV_EXT then into decode_gtp_priv_ext_ie value.(pgw_rstrt_notif_ack_priv_ext) set_pgw_rstrt_notif_ack_priv_ext here value
    else skip_gie here value).

Definition decode_gtp_ctxt_response__mmesgsn_ue_eps_pdn_connections_ie : gtp_ctxt_response__mmesgsn_ue_eps_pdn_connections_ie_t -> ie_decoder gtp_ctxt_response__mmesgsn_ue_eps_pdn_connections_ie_t :=
  dec_gtp_group set_gtp_ctxt_response__mmesgsn_ue_eps_pdn_connections_header 0 (fun '(ie_type, instance) here value =>
    if (ie_type =? GTP_IE_ACC_PT_NAME) && (instance =? GTP_IE_INSTANCE_ZERO) then into decode_gtp_acc_pt_name_ie value.(gtp_ctxt_response__mmesgsn_ue_eps_pdn_connections_apn) set_gtp_ctxt_response__mmesgsn_ue_eps_pdn_connections_apn here value
    else if (ie_type =? GTP_IE_APN_RESTRICTION) && (instance =? GTP_IE_INSTANCE_ZERO) then into decode_gtp_apn_restriction_ie value.(gtp_ctxt_response__mmesgsn_ue_eps_pdn_connections_apn_restriction) set_gtp_ctxt_response__mmesgsn_ue_eps_pdn_connections_apn_restriction here value
    else if (ie_type =? GTP_IE_SELECTION_MODE) && (instance =? GTP_IE_INSTANCE_ZERO) then into decode_gtp_selection_mode_ie value.(gtp_ctxt_response__mmesgsn_ue_eps_pdn_connections_selection_mode) set_gtp_ctxt_response__mmesgsn_ue_eps_pdn_connections_selection_mode here value
    else if (ie_type =? GTP_IE_IP_ADDRESS) && (instance =? GTP_IE_INSTANCE_ZERO) then into decode_gtp_ip_address_ie value.(gtp_ctxt_response__mmesgsn_ue_eps_pdn_connections_ipv4_address) set_gtp_ctxt_response__mmesgsn_ue_eps_pdn_connections_ipv4_address here value
    else if (ie_type =? GTP_IE_IP_ADDRESS) && (instance =? GTP_IE_INSTANCE_ONE) then into decode_gtp_ip_address_ie value.(gtp_ctxt_response__mmesgsn_ue_eps_pdn_connections_ipv6_address) set_gtp_ctxt_response__mmesgsn_ue_eps_pdn_connections_ipv6_address here value
    else if (ie_type =? GTP_IE_EPS_BEARER_ID) && (instance =? GTP_IE_INSTANCE_ZERO) then into decode_gtp_eps_bearer_id_ie value.(gtp_ctxt_response__mmesgsn_ue_eps_pdn_connections_linked_eps_bearer_id) set_gtp_ctxt_response__mmesgsn_ue_eps_pdn_connections_linked_eps_bearer_id here value
    else if (ie_type =? GTP_IE_FULLY_QUAL_TUNN_ENDPT_IDNT) && (instance =? GTP_IE_INSTANCE_ZERO) then into decode_gtp_fully_qual_tunn_endpt_idnt_ie value.(gtp_ctxt_response__mmesgsn_ue_eps_pdn_connections_pgw_s5s8_ip_addr_ctl_plane_or_pmip) set_gtp_ctxt_response__mmesgsn_ue_eps_pdn_connections_pgw_s5s8_ip_addr_ctl_plane_or_pmip here value
    else if (ie_type =? GTP_IE_FULLY_QUAL_DOMAIN_NAME) && (instance =? GTP_IE_INSTANCE_ZERO) then into decode_gtp_fully_qual_domain_name_ie value.(gtp_ctxt_response__mmesgsn_ue_eps_pdn_connections_pgw_node_name) set_gtp_ctxt_response__mmesgsn_ue_eps_pdn_connections_pgw_node_name here value
    else if (ie_type =? GTP_IE_BEARER_CONTEXT) && (instance =? GTP_IE_INSTANCE_ZERO) then into decode_gtp_bearer_context_ie value.(gtp_ctxt_response__mmesgsn_ue_eps_pdn_connections_bearer_contexts) set_gtp_ctxt_response__mmesgsn_ue_eps_pdn_connections_bearer_contexts here value
    else if (ie_type =? GTP_IE_AGG_MAX_BIT_RATE) && (instance =? GTP_IE_INSTANCE_ZERO) then into decode_gtp_agg_max_bit_rate_ie value.(gtp_ctxt_response__mmesgsn_ue_eps_pdn_connections_apn_ambr) set_gtp_ctxt_response__mmesgsn_ue_eps_pdn_connections_apn_ambr here value
    else if (ie_type =? GTP_IE_CHRGNG_CHAR) && (instance =? GTP_IE_INSTANCE_ZERO) then into decode_gtp_chrgng_char_ie value.(gtp_ctxt_response__mmesgsn_ue_eps_pdn_connections_chrgng_char) set_gtp_ctxt_response__mmesgsn_ue_eps_pdn_connections_chrgng_char here value
    else if (ie_type =? GTP_IE_CHG_RPTNG_ACT) && (instance =? GTP_IE_INSTANCE_ZERO) then into decode_gtp_chg_rptng_act_ie value.(gtp_ctxt_response__mmesgsn_ue_eps_pdn_connections_chg_rptng_act) set_gtp_ctxt_response__mmesgsn_ue_eps_pdn_connections_chg_rptng_act here value
    else if (ie_type =? GTP_IE_CSG_INFO_RPTNG_ACT) && (instance =? GTP_IE_INSTANCE_ZERO) then into decode_gtp_csg_info_rptng_act_ie value.(gtp_ctxt_response__mmesgsn_ue_eps_pdn_connections_csg_info_rptng_act) set_gtp_ctxt_response__mmesgsn_ue_eps_pdn_connections_csg_info_rptng_act here value
    else if (ie_type =? GTP_IE_HENB_INFO_RPTNG) && (instance =? GTP_IE_INSTANCE_ZERO) then into decode_gtp_henb_info_rptng_ie value.(gtp_ctxt_response__mmesgsn_ue_eps_pdn_connections_henb_info_rptng) set_gtp_ctxt_response__mmesgsn_ue_eps_pdn_connections_henb_info_rptng here value
    else if (ie_type =? GTP_IE_INDICATION) && (instance =? GTP_IE_INSTANCE_ZERO) then into decode_gtp_indication_ie value.(gtp_ctxt_response__mmesgsn_ue_eps_pdn_connections_indctn_flgs) set_gtp_ctxt_response__mmesgsn_ue_eps_pdn_connections_indctn_flgs here value
    else if (ie_type =? GTP_IE_SGNLLNG_PRIORITY_INDCTN) && (instance =? GTP_IE_INSTANCE_ZERO) then into decode_gtp_sgnllng_priority_indctn_ie value.(gtp_ctxt_response__mmesgsn_ue_eps_pdn_connections_sgnllng_priority_indctn) set_gtp_ctxt_response__mmesgsn_ue_eps_pdn_connections_sgnllng_priority_indctn here value
    else if (ie_type =? GTP_IE_CHG_TO_RPT_FLGS) && (instance =? GTP_IE_INSTANCE_ZERO) then into decode_gtp_chg_to_rpt_flgs_ie value.(gtp_ctxt_response__mmesgsn_ue_eps_pdn_connections_chg_to_rpt_flgs) set_gtp_ctxt_response__mmesgsn_ue_eps_pdn_connections_chg_to_rpt_flgs here value
    else if (ie_type =? GTP_IE_FULLY_QUAL_DOMAIN_NAME) && (instance =? GTP_IE_INSTANCE_ONE) then into decode_gtp_fully_qual_domain_name_ie value.(gtp_ctxt_response__mmesgsn_ue_eps_pdn_connections_local_home_ntwk_id) set_gtp_ctxt_response__mmesgsn_ue_eps_pdn_connections_local_home_ntwk_id here value
    else if (ie_type =? GTP_IE_PRES_RPTNG_AREA_ACT) && (instance =? GTP_IE_INSTANCE_ZERO) then into decode_gtp_pres_rptng_area_act_ie value.(gtp_ctxt_response__mmesgsn_ue_eps_pdn_connections_pres_rptng_area_act) set_gtp_ctxt_response__mmesgsn_ue_eps_pdn_connections_pres_rptng_area_act here value
    else if (ie_type =? GTP_IE_WLAN_OFFLDBLTY_INDCTN) && (instance =? GTP_IE_INSTANCE_ZERO) then into decode_gtp_wlan_offldblty_indctn_ie value.(gtp_ctxt_response__mmesgsn_ue_eps_pdn_connections_wlan_offldblty_indctn) set_gtp_ctxt_response__mmesgsn_ue_eps_pdn_connections_wlan_offldblty_indctn here value
    else if (ie_type =? GTP_IE_RMT_UE_CTXT) && (instance =? GTP_IE_INSTANCE_ZERO) then into decode_gtp_rmt_ue_ctxt_ie value.(gtp_ctxt_response__mmesgsn_ue_eps_pdn_connections_rmt_ue_ctxt_connected) set_gtp_ctxt_response__mmesgsn_ue_eps_pdn_connections_rmt_ue_ctxt_connected here value
    else if (ie_type =? GTP_IE_PDN_TYPE) && (instance =? GTP_IE_INSTANCE_ZERO) then into decode_gtp_pdn_type_ie value.(gtp_ctxt_response__mmesgsn_ue_eps_pdn_connections_pdn_type) set_gtp_ctxt_response__mmesgsn_ue_eps_pdn_connections_pdn_type here value
    else if (ie_type =? GTP_IE_HDR_COMP_CFG) && (instance =? GTP_IE_INSTANCE_ZERO) then into decode_gtp_hdr_comp_cfg_ie value.(gtp_ctxt_response__mmesgsn_ue_eps_pdn_connections_hdr_comp_cfg) set_gtp_ctxt_response__mmesgsn_ue_eps_pdn_connections_hdr_comp_cfg here value
    else skip_gie here value).

Definition decode_pgw_dnlnk_trigrng_notif : pgw_dnlnk_trigrng_notif_t -> ie_decoder pgw_dnlnk_trigrng_notif_t :=
  dec_gtp_message pgw_dnlnk_trigrng_notif_header set_pgw_dnlnk_trigrng_notif_header id (fun '(ie_type, instance) here value =>
    if (ie_type =? GTP_IE_IMSI) && (instance =? GTP_IE_INSTANCE_ZERO) then into decode_gtp_imsi_ie value.(pgw_dnlnk_trigrng_notif_imsi) set_pgw_dnlnk_trigrng_notif_imsi here value
    else if (ie_type =? GTP_IE_IP_ADDRESS) && (instance =? GTP_IE_INSTANCE_ZERO) then into decode_gtp_ip_address_ie value.(pgw_dnlnk_trigrng_notif_mmes4_sgsn_idnt) set_pgw_dnlnk_trigrng_notif_mmes4_sgsn_idnt here value
    else if (ie_type =? GTP_IE_FULLY_QUAL_TUNN_ENDPT_IDNT) && (instance =? GTP_IE_INSTANCE_ZERO) then into decode_gtp_fully_qual_tunn_endpt_idnt_ie value.(pgw_dnlnk_trigrng_notif_pgw_s5_fteid_gtp_or_pmip_ctl_plane) set_pgw_dnlnk_trigrng_notif_pgw_s5_fteid_gtp_or_pmip_ctl_plane here value
    else if ie_type =? GTP_IE_PRIV_EXT then into decode_gtp_priv_ext_ie value.(pgw_dnlnk_trigrng_notif_priv_ext) set_pgw_dnlnk_trigrng_notif_priv_ext here value
    else skip_gie here value).

Definition decode_gtp_mod_bearer_response__overload_ctl_info_ie : gtp_mod_bearer_response__overload_ctl_info_ie_t -> ie_decoder gtp_mod_bearer_response__overload_ctl_info_ie_t :=
  dec_gtp_group set_gtp_mod_bearer_response__overload_ctl_info_header 0 (fun '(ie_type, instance) here value =>
    if (ie_type =? GTP_IE_SEQUENCE_NUMBER) && (instance =? GTP_IE_INSTANCE_ZERO) then into decode_gtp_sequence_number_ie value.(gtp_mod_bearer_response__overload_ctl_info_ovrld_ctl_seqn_nbr) set_gtp_mod_bearer_response__overload_ctl_info_ovrld_ctl_seqn_nbr here value
    else if (ie_type =? GTP_IE_METRIC) && (instance =? GTP_IE_INSTANCE_ZERO) then into decode_gtp_metric_ie value.(gtp_mod_bearer_response__overload_ctl_info_ovrld_reduction_metric) set_gtp_mod_bearer_response__overload_ctl_info_ovrld_reduction_metric here value
    else if (ie_type =? GTP_IE_EPC_TIMER) && (instance =? GTP_IE_INSTANCE_ZERO) then into decode_gtp_epc_timer_ie value.(gtp_mod_bearer_response__overload_ctl_info_prd_of_validity) set_gtp_mod_bearer_response__overload_ctl_info_prd_of_validity here value
    else if (ie_type =? GTP_IE_ACC_PT_NAME) && (instance =? GTP_IE_INSTANCE_ZERO) then into decode_gtp_acc_pt_name_ie value.(gtp_mod_bearer_response__overload_ctl_info_apn) set_gtp_mod_bearer_response__overload_ctl_info_apn here value
    else skip_gie here value).

Definition decode_gtp_create_indir_data_fwdng_tunn_request__bearer_ctxt_ie : gtp_create_indir_data_fwdng_tunn_request__bearer_ctxt_ie_t -> ie_decoder gtp_create_indir_data_fwdng_tunn_request__bearer_ctxt_ie_t :=
  dec_gtp_group set_gtp_create_indir_data_fwdng_tunn_request__bearer_ctxt_header 0 (fun '(ie_type, instance) here value =>
    if (ie_type =? GTP_IE_EPS_BEARER_ID) && (instance =? GTP_IE_INSTANCE_ZERO) then into decode_gtp_eps_bearer_id_ie value.(gtp_create_indir_data_fwdng_tunn_request__bearer_ctxt_eps_bearer_id) set_gtp_create_indir_data_fwdng_tunn_request__bearer_ctxt_eps_bearer_id here value
    else if (ie_type =? GTP_IE_FULLY_QUAL_TUNN_ENDPT_IDNT) && (instance =? GTP_IE_INSTANCE_ZERO) then into decode_gtp_fully_qual_tunn_endpt_idnt_ie value.(gtp_create_indir_data_fwdng_tunn_request__bearer_ctxt_enb_fteid_dl_data_fwdng) set_gtp_create_indir_data_fwdng_tunn_request__bearer_ctxt_enb_fteid_dl_data_fwdng here value
    else if (ie_type =? GTP_IE_FULLY_QUAL_TUNN_ENDPT_IDNT) && (instance =? GTP_IE_INSTANCE_TWO) then into decode_gtp_fully_qual_tunn_endpt_idnt_ie value.(gtp_create_indir_data_fwdng_tunn_request__bearer_ctxt_sgsn_fteid_dl_data_fwdng) set_gtp_create_indir_data_fwdng_tunn_request__bearer_ctxt_sgsn_fteid_dl_data_fwdng here value
    else if (ie_type =? GTP_IE_FULLY_QUAL_TUNN_ENDPT_IDNT) && (instance =? GTP_IE_INSTANCE_THREE) then into decode_gtp_fully_qual_tunn_endpt_idnt_ie value.(gtp_create_indir_data_fwdng_tunn_request__bearer_ctxt_rnc_fteid_dl_data_fwdng) set_gtp_create_indir_data_fwdng_tunn_request__bearer_ctxt_rnc_fteid_dl_data_fwdng here value
    else if (ie_type =? GTP_IE_FULLY_QUAL_TUNN_ENDPT_IDNT) && (instance =? GTP_IE_INSTANCE_FOUR) then into decode_gtp_fully_qual_tunn_endpt_idnt_ie value.(gtp_create_indir_data_fwdng_tunn_request__bearer_ctxt_enb_fteid_ul_data_fwdng) set_gtp_create_indir_data_fwdng_tunn_request__bearer_ctxt_enb_fteid_ul_data_fwdng here value
    else if (ie_type =? GTP_IE_FULLY_QUAL_TUNN_ENDPT_IDNT) && (instance =? GTP_IE_INSTANCE_FIVE) then into decode_gtp_fully_qual_tunn_endpt_idnt_ie value.(gtp_create_indir_data_fwdng_tunn_request__bearer_ctxt_sgw_fteid_ul_data_fwdng) set_gtp_create_indir_data_fwdng_tunn_request__bearer_ctxt_sgw_fteid_ul_data_fwdng here value
    else if (ie_type =? GTP_IE_FULLY_QUAL_TUNN_ENDPT_IDNT) && (instance =? GTP_IE_INSTANCE_SIX) then into decode_gtp_fully_qual_tunn_endpt_idnt_ie value.(gtp_create_indir_data_fwdng_tunn_request__bearer_ctxt_mme_fteid_dl_data_fwdng) set_gtp_create_indir_data_fwdng_tunn_request__bearer_ctxt_mme_fteid_dl_data_fwdng here value
    else skip_gie here value).

Definition decode_gtp_create_sess_request_bearer_ctxt_to_be_removed_ie : gtp_create_sess_request_bearer_ctxt_to_be_removed_ie_t -> ie_decoder gtp_create_sess_request_bearer_ctxt_to_be_removed_ie_t :=
  dec_gtp_group set_gtp_create_sess_request_bearer_ctxt_to_be_removed_header 0 (fun '(ie_type, instance) here value =>
    if (ie_type =? GTP_IE_EPS_BEARER_ID) && (instance =? GTP_IE_INSTANCE_ZERO) then into decode_gtp_eps_bearer_id_ie value.(gtp_create_sess_request_bearer_ctxt_to_be_removed_eps_bearer_id) set_gtp_create_sess_request_bearer_ctxt_to_be_removed_eps_bearer_id here value
    else if (ie_type =? GTP_IE_FULLY_QUAL_TUNN_ENDPT_IDNT) && (instance =? GTP_IE_INSTANCE_ZERO) then into decode_gtp_fully_qual_tunn_endpt_idnt_ie value.(gtp_create_sess_request_bearer_ctxt_to_be_removed_s4_u_sgsn_fteid) set_gtp_create_sess_request_bearer_ctxt_to_be_removed_s4_u_sgsn_fteid here value
    else skip_gie here value).

Definition decode_create_sess_req : create_sess_req_t -> ie_decoder create_sess_req_t :=
  dec_gtp_message create_sess_req_header set_create_sess_req_header id (fun '(ie_type, instance) here value =>
    if (ie_type =? GTP_IE_IMSI) && (instance =? GTP_IE_INSTANCE_ZERO) then into decode_gtp_imsi_ie value.(create_sess_req_imsi) set_create_sess_req_imsi here value
    else if (ie_type =? GTP_IE_MSISDN) && (instance =? GTP_IE_INSTANCE_ZERO) then into decode_gtp_msisdn_ie value.(create_sess_req_msisdn) set_create_sess_req_msisdn here value
    else if (ie_type =? GTP_IE_MBL_EQUIP_IDNTY) && (instance =? GTP_IE_INSTANCE_ZERO) then into decode_gtp_mbl_equip_idnty_ie value.(create_sess_req_mei) set_create_sess_req_mei here value
    else if (ie_type =? GTP_IE_USER_LOC_INFO) && (instance =? GTP_IE_INSTANCE_ZERO) then into decode_gtp_user_loc_info_ie value.(create_sess_req_uli) set_create_sess_req_uli here value
    else if (ie_type =? GTP_IE_RAT_TYPE) && (instance =? GTP_IE_INSTANCE_ZERO) then into decode_gtp_rat_type_ie value.(create_sess_req_rat_type) set_create_sess_req_rat_type here value
    else if (ie_type =? GTP_IE_FULLY_QUAL_TUNN_ENDPT_IDNT) && (instance =? GTP_IE_INSTANCE_ZERO) then into decode_gtp_fully_qual_tunn_endpt_idnt_ie value.(create_sess_req_sender_fteid_ctl_plane) set_create_sess_req_sender_fteid_ctl_plane here value
    else if (ie_type =? GTP_IE_FULLY_QUAL_TUNN_ENDPT_IDNT) && (instance =? GTP_IE_INSTANCE_ONE) then into decode_gtp_fully_qual_tunn_endpt_idnt_ie value.(create_sess_req_pgw_s5s8_addr_ctl_plane_or_pmip) set_create_sess_req_pgw_s5s8_addr_ctl_plane_or_pmip here value
    else if (ie_type =? GTP_IE_ACC_PT_NAME) && (instance =? GTP_IE_INSTANCE_ZERO) then into decode_gtp_acc_pt_name_ie value.(create_sess_req_apn) set_create_sess_req_apn here value
    else if (ie_type =? GTP_IE_SELECTION_MODE) && (instance =? GTP_IE_INSTANCE_ZERO) then into decode_gtp_selection_mode_ie value.(create_sess_req_selection_mode) set_create_sess_req_selection_mode here value
    else if (ie_type =? GTP_IE_PDN_TYPE) && (instance =? GTP_IE_INSTANCE_ZERO) then into decode_gtp_pdn_type_ie value.(create_sess_req_pdn_type) set_create_sess_req_pdn_type here value
    else if (ie_type =? GTP_IE_PDN_ADDR_ALLOC) && (instance =? GTP_IE_INSTANCE_ZERO) then into decode_gtp_pdn_addr_alloc_ie value.(create_sess_req_paa) set_create_sess_req_paa here value
    else if (ie_type =? GTP_IE_APN_RESTRICTION) && (instance =? GTP_IE_INSTANCE_ZERO) then into decode_gtp_apn_restriction_ie value.(create_sess_req_max_apn_rstrct) set_create_sess_req_max_apn_rstrct here value
    else if (ie_type =? GTP_IE_AGG_MAX_BIT_RATE) && (instance =? GTP_IE_INSTANCE_ZERO) then into decode_gtp_agg_max_bit_rate_ie value.(create_sess_req_apn_ambr) set_create_sess_req_apn_ambr here value
    else if (ie_type =? GTP_IE_EPS_BEARER_ID) && (instance =? GTP_IE_INSTANCE_ZERO) then into decode_gtp_eps_bearer_id_ie value.(create_sess_req_linked_eps_bearer_id) set_create_sess_req_linked_eps_bearer_id here value
    else if (ie_type =? GTP_IE_TRSTD_WLAN_MODE_INDCTN) && (instance =? GTP_IE_INSTANCE_ZERO) then into decode_gtp_trstd_wlan_mode_indctn_ie value.(create_sess_req_trstd_wlan_mode_indctn) set_create_sess_req_trstd_wlan_mode_indctn here value
    else if (ie_type =? GTP_IE_PROT_CFG_OPTS) && (instance =? GTP_IE_INSTANCE_ZERO) then into decode_pco_ie_t value.(create_sess_req_pco_new) set_create_sess_req_pco_new here value
    else if (ie_type =? GTP_IE_CREATE_SESS_REQUEST_BEARER_CTXT_TO_BE_CREATED) && (instance =? GTP_IE_INSTANCE_ZERO) then into decode_gtp_create_sess_request_bearer_ctxt_to_be_created_ie value.(create_sess_req_bearer_contexts_to_be_created) set_create_sess_req_bearer_contexts_to_be_created here value
    else if (ie_type =? GTP_IE_CREATE_SESS_REQUEST_BEARER_CTXT_TO_BE_REMOVED) && (instance =? GTP_IE_INSTANCE_ONE) then into decode_gtp_create_sess_request_bearer_ctxt_to_be_removed_ie value.(create_sess_req_bearer_contexts_to_be_removed) set_create_sess_req_bearer_contexts_to_be_removed here value
    else if (ie_type =? GTP_IE_TRC_INFO) && (instance =? GTP_IE_INSTANCE_ZERO) then into decode_gtp_trc_info_ie value.(create_sess_req_trc_info) set_create_sess_req_trc_info here value
    else if (ie_type =? GTP_IE_RECOVERY) && (instance =? GTP_IE_INSTANCE_ZERO) then into decode_gtp_recovery_ie value.(create_sess_req_recovery) set_create_sess_req_recovery here value
    else if (ie_type =? GTP_IE_FQCSID) && (instance =? GTP_IE_INSTANCE_ZERO) then into decode_gtp_fqcsid_ie value.(create_sess_req_mme_fqcsid) set_create_sess_req_mme_fqcsid here value
    else if (ie_type =? GTP_IE_FQCSID) && (instance =? GTP_IE_INSTANCE_ONE) then into decode_gtp_fqcsid_ie value.(create_sess_req_sgw_fqcsid) set_create_sess_req_sgw_fqcsid here value
    else if (ie_type =? GTP_IE_FQCSID) && (instance =? GTP_IE_INSTANCE_TWO) then into decode_gtp_fqcsid_ie value.(create_sess_req_epdg_fqcsid) set_create_sess_req_epdg_fqcsid here value
    else if (ie_type =? GTP_IE_FQCSID) && (instance =? GTP_IE_INSTANCE_THREE) then into decode_gtp_fqcsid_ie value.(create_sess_req_twan_fqcsid) set_create_sess_req_twan_fqcsid here value
    else if (ie_type =? GTP_IE_UE_TIME_ZONE) && (instance =? GTP_IE_INSTANCE_ZERO) then into decode_gtp_ue_time_zone_ie value.(create_sess_req_ue_time_zone) set_create_sess_req_ue_time_zone here value
    else if (ie_type =? GTP_IE_USER_CSG_INFO) && (instance =? GTP_IE_INSTANCE_ZERO) then into decode_gtp_user_csg_info_ie value.(create_sess_req_uci) set_create_sess_req_uci here value
    else if (ie_type =? GTP_IE_CHRGNG_CHAR) && (instance =? GTP_IE_INSTANCE_ZERO) then into decode_gtp_chrgng_char_ie value.(create_sess_req_chrgng_char) set_create_sess_req_chrgng_char here value
    else if (ie_type =? GTP_IE_LOCAL_DISTGSD_NAME) && (instance =? GTP_IE_INSTANCE_ZERO) then into decode_gtp_local_distgsd_name_ie value.(create_sess_req_mmes4_sgsn_ldn) set_create_sess_req_mmes4_sgsn_ldn here value
    else if (ie_type =? GTP_IE_LOCAL_DISTGSD_NAME) && (instance =? GTP_IE_INSTANCE_ONE) then into decode_gtp_local_distgsd_name_ie value.(create_sess_req_sgw_ldn) set_create_sess_req_sgw_ldn here value
    else if (ie_type =? GTP_IE_LOCAL_DISTGSD_NAME) && (instance =? GTP_IE_INSTANCE_TWO) then into decode_gtp_local_distgsd_name_ie value.(create_sess_req_epdg_ldn) set_create_sess_req_epdg_ldn here value
    else if (ie_type =? GTP_IE_LOCAL_DISTGSD_NAME) && (instance =? GTP_IE_INSTANCE_THREE) then into decode_gtp_local_distgsd_name_ie value.(create_sess_req_twan_ldn) set_create_sess_req_twan_ldn here value
    else if (ie_type =? GTP_IE_SGNLLNG_PRIORITY_INDCTN) && (instance =? GTP_IE_INSTANCE_ZERO) then into decode_gtp_sgnllng_priority_indctn_ie value.(create_sess_req_sgnllng_priority_indctn) set_create_sess_req_sgnllng_priority_indctn here value
    else if (ie_type =? GTP_IE_IP_ADDRESS) && (instance =? GTP_IE_INSTANCE_ZERO) then into decode_gtp_ip_address_ie value.(create_sess_req_ue_local_ip_addr) set_create_sess_req_ue_local_ip_addr here value
    else if (ie_type =? GTP_IE_PORT_NUMBER) && (instance =? GTP_IE_INSTANCE_ZERO) then into decode_gtp_port_number_ie value.(create_sess_req_ue_udp_port) set_create_sess_req_ue_udp_port here value
    else if (ie_type =? GTP_IE_ADDTL_PROT_CFG_OPTS) && (instance =? GTP_IE_INSTANCE_ZERO) then into decode_gtp_addtl_prot_cfg_opts_ie value.(create_sess_req_apco) set_create_sess_req_apco here value
    else if (ie_type =? GTP_IE_IP_ADDRESS) && (instance =? GTP_IE_INSTANCE_ONE) then into decode_gtp_ip_address_ie value.(create_sess_req_henb_local_ip_addr) set_create_sess_req_henb_local_ip_addr here value
    else if (ie_type =? GTP_IE_PORT_NUMBER) && (instance =? GTP_IE_INSTANCE_ONE) then into decode_gtp_port_number_ie value.(create_sess_req_henb_udp_port) set_create_sess_req_henb_udp_port here value
    else if (ie_type =? GTP_IE_IP_ADDRESS) && (instance =? GTP_IE_INSTANCE_TWO) then into decode_gtp_ip_address_ie value.(create_sess_req_mmes4_sgsn_idnt) set_create_sess_req_mmes4_sgsn_idnt here value
    else if (ie_type =? GTP_IE_TWAN_IDENTIFIER) && (instance =? GTP_IE_INSTANCE_ZERO) then into decode_gtp_twan_identifier_ie value.(create_sess_req_twan_identifier) set_create_sess_req_twan_identifier here value
    else if (ie_type =? GTP_IE_IP_ADDRESS) && (instance =? GTP_IE_INSTANCE_THREE) then into decode_gtp_ip_address_ie value.(create_sess_req_epdg_ip_address) set_create_sess_req_epdg_ip_address here value
    else if (ie_type =? GTP_IE_CN_OPER_SEL_ENTITY) && (instance =? GTP_IE_INSTANCE_ZERO) then into decode_gtp_cn_oper_sel_entity_ie value.(create_sess_req_cn_oper_sel_entity) set_create_sess_req_cn_oper_sel_entity here value
    else if (ie_type =? GTP_IE_PRES_RPTNG_AREA_INFO) && (instance =? GTP_IE_INSTANCE_ZERO) then into decode_gtp_pres_rptng_area_info_ie value.(create_sess_req_pres_rptng_area_info) set_create_sess_req_pres_rptng_area_info here value
    else if (ie_type =? GTP_IE_OVRLD_CTL_INFO) && (instance =? GTP_IE_INSTANCE_ZERO) then into decode_gtp_ovrld_ctl_info_ie value.(create_sess_req_mmes4_sgsns_ovrld_ctl_info) set_create_sess_req_mmes4_sgsns_ovrld_ctl_info here value
    else if (ie_type =? GTP_IE_OVRLD_CTL_INFO) && (instance =? GTP_IE_INSTANCE_ONE) then into decode_gtp_ovrld_ctl_info_ie value.(create_sess_req_sgws_ovrld_ctl_info) set_create_sess_req_sgws_ovrld_ctl_info here value
    else if (ie_type =? GTP_IE_OVRLD_CTL_INFO) && (instance =? GTP_IE_INSTANCE_TWO) then into decode_gtp_ovrld_ctl_info_ie value.(create_sess_req_twanepdgs_ovrld_ctl_info) set_create_sess_req_twanepdgs_ovrld_ctl_info here value
    else if (ie_type =? GTP_IE_MSEC_TIME_STMP) && (instance =? GTP_IE_INSTANCE_ZERO) then into decode_gtp_msec_time_stmp_ie value.(create_sess_req_origination_time_stmp) set_create_sess_req_origination_time_stmp here value
    else if (ie_type =? GTP_IE_INTEGER_NUMBER) && (instance =? GTP_IE_INSTANCE_ZERO) then into decode_gtp_integer_number_ie value.(create_sess_req_max_wait_time) set_create_sess_req_max_wait_time here value
    else if (ie_type =? GTP_IE_TWAN_IDENTIFIER) && (instance =? GTP_IE_INSTANCE_ONE) then into decode_gtp_twan_identifier_ie value.(create_sess_req_wlan_loc_info) set_create_sess_req_wlan_loc_info here value
    else if (ie_type =? GTP_IE_TWAN_IDNT_TS) && (instance =? GTP_IE_INSTANCE_ZERO) then into decode_gtp_twan_idnt_ts_ie value.(create_sess_req_wlan_loc_ts) set_create_sess_req_wlan_loc_ts here value
    else if (ie_type =? GTP_IE_FULL_QUAL_CNTNR) && (instance =? GTP_IE_INSTANCE_ZERO) then into decode_gtp_full_qual_cntnr_ie value.(create_sess_req_nbifom_cntnr) set_create_sess_req_nbifom_cntnr here value
    else if (ie_type =? GTP_IE_RMT_UE_CTXT) && (instance =? GTP_IE_INSTANCE_ZERO) then into decode_gtp_rmt_ue_ctxt_ie value.(create_sess_req_rmt_ue_ctxt_connected) set_create_sess_req_rmt_ue_ctxt_connected here value
    else if (ie_type =? GTP_IE_NODE_IDENTIFIER) && (instance =? GTP_IE_INSTANCE_ZERO) then into decode_gtp_node_identifier_ie value.(create_sess_req_threegpp_aaa_server_idnt) set_create_sess_req_threegpp_aaa_server_idnt here value
    else if (ie_type =? GTP_IE_EXTNDED_PROT_CFG_OPTS) && (instance =? GTP_IE_INSTANCE_ZERO) then into decode_gtp_extnded_prot_cfg_opts_ie value.(create_sess_req_epco) set_create_sess_req_epco here value
    else if (ie_type =? GTP_IE_SRVNG_PLMN_RATE_CTL) && (instance =? GTP_IE_INSTANCE_ZERO) then into decode_gtp_srvng_plmn_rate_ctl_ie value.(create_sess_req_srvng_plmn_rate_ctl) set_create_sess_req_srvng_plmn_rate_ctl here value
    else if (ie_type =? GTP_IE_COUNTER) && (instance =? GTP_IE_INSTANCE_ZERO) then into decode_gtp_counter_ie value.(create_sess_req_mo_exception_data_cntr) set_create_sess_req_mo_exception_data_cntr here value
    else if (ie_type =? GTP_IE_PORT_NUMBER) && (instance =? GTP_IE_INSTANCE_TWO) then into decode_gtp_port_number_ie value.(create_sess_req_ue_tcp_port) set_create_sess_req_ue_tcp_port here value
    else if (ie_type =? GTP_IE_MAPPED_UE_USAGE_TYPE) && (instance =? GTP_IE_INSTANCE_ZERO) then into decode_gtp_mapped_ue_usage_type_ie value.(create_sess_req_mapped_ue_usage_type) set_create_sess_req_mapped_ue_usage_type here value
    else if (ie_type =? GTP_IE_USER_LOC_INFO) && (instance =? GTP_IE_INSTANCE_ONE) then into decode_gtp_user_loc_info_ie value.(create_sess_req_user_loc_info_sgw) set_create_sess_req_user_loc_info_sgw here value
    else if (ie_type =? GTP_IE_FULLY_QUAL_DOMAIN_NAME) && (instance =? GTP_IE_INSTANCE_ZERO) then into decode_gtp_fully_qual_domain_name_ie value.(create_sess_req_sgw_u_node_name) set_create_sess_req_sgw_u_node_name here value
    else if (ie_type =? GTP_IE_SECDRY_RAT_USAGE_DATA_RPT) && (instance =? GTP_IE_INSTANCE_ZERO) then into decode_gtp_secdry_rat_usage_data_rpt_ie value.(create_sess_req_secdry_rat_usage_data_rpt) set_create_sess_req_secdry_rat_usage_data_rpt here value
    else if (ie_type =? GTP_IE_UP_FUNC_SEL_INDCTN_FLGS) && (instance =? GTP_IE_INSTANCE_ZERO) then into decode_gtp_up_func_sel_indctn_flgs_ie value.(create_sess_req_up_func_sel_indctn_flgs) set_create_sess_req_up_func_sel_indctn_flgs here value
    else if ie_type =? GTP_IE_PRIV_EXT then into decode_gtp_priv_ext_ie value.(create_sess_req_priv_ext) set_create_sess_req_priv_ext here value
    else if (ie_type =? GTP_IE_SERVING_NETWORK) && (instance =? GTP_IE_INSTANCE_ZERO) then into decode_gtp_serving_network_ie value.(create_sess_req_serving_network) set_create_sess_req_serving_network here value
    else if (ie_type =? GTP_IE_INDICATION) && (instance =? GTP_IE_INSTANCE_ZERO) then into decode_gtp_indication_ie value.(create_sess_req_indctn_flgs) set_create_sess_req_indctn_flgs here value
    else skip_gie here value).

Definition decode_gtp_upd_bearer_request__bearer_ctxt_ie : gtp_upd_bearer_request__bearer_ctxt_ie_t -> ie_decoder gtp_upd_bearer_request__bearer_ctxt_ie_t :=
  dec_gtp_group set_gtp_upd_bearer_request__bearer_ctxt_header IE_HEADER_SIZE (fun '(ie_type, instance) here value =>
    if (ie_type =? GTP_IE_EPS_BEARER_ID) && (instance =? GTP_IE_INSTANCE_ZERO) then into decode_gtp_eps_bearer_id_ie value.(gtp_upd_bearer_request__bearer_ctxt_eps_bearer_id) set_gtp_upd_bearer_request__bearer_ctxt_eps_bearer_id here value
    else if (ie_type =? GTP_IE_EPS_BEARER_LVL_TRAFFIC_FLOW_TMPL) && (instance =? GTP_IE_INSTANCE_ZERO) then into decode_gtp_eps_bearer_lvl_traffic_flow_tmpl_ie value.(gtp_upd_bearer_request__bearer_ctxt_tft) set_gtp_upd_bearer_request__bearer_ctxt_tft here value
    else if (ie_type =? GTP_IE_BEARER_QLTY_OF_SVC) && (instance =? GTP_IE_INSTANCE_ZERO) then into decode_gtp_bearer_qlty_of_svc_ie value.(gtp_upd_bearer_request__bearer_ctxt_bearer_lvl_qos) set_gtp_upd_bearer_request__bearer_ctxt_bearer_lvl_qos here value
    else if (ie_type =? GTP_IE_BEARER_FLAGS) && (instance =? GTP_IE_INSTANCE_ZERO) then into decode_gtp_bearer_flags_ie value.(gtp_upd_bearer_request__bearer_ctxt_bearer_flags) set_gtp_upd_bearer_request__bearer_ctxt_bearer_flags here value
    else if (ie_type =? GTP_IE_PROT_CFG_OPTS) && (instance =? GTP_IE_INSTANCE_ZERO) then into decode_gtp_prot_cfg_opts_ie value.(gtp_upd_bearer_request__bearer_ctxt_pco) set_gtp_upd_bearer_request__bearer_ctxt_pco here value
    else if (ie_type =? GTP_IE_ADDTL_PROT_CFG_OPTS) && (instance =? GTP_IE_INSTANCE_ZERO) then into decode_gtp_addtl_prot_cfg_opts_ie value.(gtp_upd_bearer_request__bearer_ctxt_apco) set_gtp_upd_bearer_request__bearer_ctxt_apco here value
    else if (ie_type =? GTP_IE_EXTNDED_PROT_CFG_OPTS) && (instance =? GTP_IE_INSTANCE_ZERO) then into decode_gtp_extnded_prot_cfg_opts_ie value.(gtp_upd_bearer_request__bearer_ctxt_epco) set_gtp_upd_bearer_request__bearer_ctxt_epco here value
    else if (ie_type =? GTP_IE_MAX_PCKT_LOSS_RATE) && (instance =? GTP_IE_INSTANCE_ZERO) then into decode_gtp_max_pckt_loss_rate_ie value.(gtp_upd_bearer_request__bearer_ctxt_max_pckt_loss_rate) set_gtp_upd_bearer_request__bearer_ctxt_max_pckt_loss_rate here value
    else skip_gie here value).

Definition decode_upd_bearer_req : upd_bearer_req_t -> ie_decoder upd_bearer_req_t :=
  dec_gtp_message upd_bearer_req_header set_upd_bearer_req_header id (fun '(ie_type, instance) here value =>
    if (ie_type =? GTP_IE_BEARER_CONTEXT) && (instance =? GTP_IE_INSTANCE_ZERO) then into_next 32 decode_gtp_upd_bearer_request__bearer_ctxt_ie value.(upd_bearer_req_bearer_contexts) value.(upd_bearer_req_bearer_context_count) set_upd_bearer_req_bearer_contexts set_upd_bearer_req_bearer_context_count here value
    else if (ie_type =? GTP_IE_PROC_TRANS_ID) && (instance =? GTP_IE_INSTANCE_ZERO) then into decode_gtp_proc_trans_id_ie value.(upd_bearer_req_pti) set_upd_bearer_req_pti here value
    else if (ie_type =? GTP_IE_PROT_CFG_OPTS) && (instance =? GTP_IE_INSTANCE_ZERO) then into decode_gtp_prot_cfg_opts_ie value.(upd_bearer_req_pco) set_upd_bearer_req_pco here value
    else if (ie_type =? GTP_IE_AGG_MAX_BIT_RATE) && (instance =? GTP_IE_INSTANCE_ZERO) then into decode_gtp_agg_max_bit_rate_ie value.(upd_bearer_req_apn_ambr) set_upd_bearer_req_apn_ambr here value
    else if (ie_type =? GTP_IE_CHG_RPTNG_ACT) && (instance =? GTP_IE_INSTANCE_ZERO) then into decode_gtp_chg_rptng_act_ie value.(upd_bearer_req_chg_rptng_act) set_upd_bearer_req_chg_rptng_act here value
    else if (ie_type =? GTP_IE_CSG_INFO_RPTNG_ACT) && (instance =? GTP_IE_INSTANCE_ZERO) then into decode_gtp_csg_info_rptng_act_ie value.(upd_bearer_req_csg_info_rptng_act) set_upd_bearer_req_csg_info_rptng_act here value
    else if (ie_type =? GTP_IE_HENB_INFO_RPTNG) && (instance =? GTP_IE_INSTANCE_ZERO) then into decode_gtp_henb_info_rptng_ie value.(upd_bearer_req_henb_info_rptng) set_upd_bearer_req_henb_info_rptng here value
    else if (ie_type =? GTP_IE_INDICATION) && (instance =? GTP_IE_INSTANCE_ZERO) then into decode_gtp_indication_ie value.(upd_bearer_req_indctn_flgs) set_upd_bearer_req_indctn_flgs here value
    else if (ie_type =? GTP_IE_FQCSID) && (instance =? GTP_IE_INSTANCE_ZERO) then into decode_gtp_fqcsid_ie value.(upd_bearer_req_pgw_fqcsid) set_upd_bearer_req_pgw_fqcsid here value
    else if (ie_type =? GTP_IE_FQCSID) && (instance =? GTP_IE_INSTANCE_ONE) then into decode_gtp_fqcsid_ie value.(upd_bearer_req_sgw_fqcsid) set_upd_bearer_req_sgw_fqcsid here value
    else if (ie_type =? GTP_IE_PRES_RPTNG_AREA_ACT) && (instance =? GTP_IE_INSTANCE_ZERO) then into decode_gtp_pres_rptng_area_act_ie value.(upd_bearer_req_pres_rptng_area_act) set_upd_bearer_req_pres_rptng_area_act here value
    else if (ie_type =? GTP_IE_LOAD_CTL_INFO) && (instance =? GTP_IE_INSTANCE_ZERO) then into decode_gtp_load_ctl_info_ie value.(upd_bearer_req_pgws_node_lvl_load_ctl_info) set_upd_bearer_req_pgws_node_lvl_load_ctl_info here value
    else if (ie_type =? GTP_IE_LOAD_CTL_INFO) && (instance =? GTP_IE_INSTANCE_ONE) then into decode_gtp_load_ctl_info_ie value.(upd_bearer_req_pgws_apn_lvl_load_ctl_info) set_upd_bearer_req_pgws_apn_lvl_load_ctl_info here value
    else if (ie_type =? GTP_IE_LOAD_CTL_INFO) && (instance =? GTP_IE_INSTANCE_TWO) then into decode_gtp_load_ctl_info_ie value.(upd_bearer_req_sgws_node_lvl_load_ctl_info) set_upd_bearer_req_sgws_node_lvl_load_ctl_info here value
    else if (ie_type =? GTP_IE_OVRLD_CTL_INFO) && (instance =? GTP_IE_INSTANCE_ZERO) then into decode_gtp_ovrld_ctl_info_ie value.(upd_bearer_req_pgws_ovrld_ctl_info) set_upd_bearer_req_pgws_ovrld_ctl_info here value
    else if (ie_type =? GTP_IE_OVRLD_CTL_INFO) && (instance =? GTP_IE_INSTANCE_ONE) then into decode_gtp_ovrld_ctl_info_ie value.(upd_bearer_req_sgws_ovrld_ctl_info) set_upd_bearer_req_sgws_ovrld_ctl_info here value
    else if (ie_type =? GTP_IE_FULL_QUAL_CNTNR) && (instance =? GTP_IE_INSTANCE_ZERO) then into decode_gtp_full_qual_cntnr_ie value.(upd_bearer_req_nbifom_cntnr) set_upd_bearer_req_nbifom_cntnr here value
    else if ie_type =? GTP_IE_PRIV_EXT then into decode_gtp_priv_ext_ie value.(upd_bearer_req_priv_ext) set_upd_bearer_req_priv_ext here value
    else skip_gie here value).

Definition decode_gtp_del_bearer_response_bearer_ctxt_ie : gtp_del_bearer_response_bearer_ctxt_ie_t -> ie_decoder gtp_del_bearer_response_bearer_ctxt_ie_t :=
  dec_gtp_group set_gtp_del_bearer_response_bearer_ctxt_header IE_HEADER_SIZE (fun '(ie_type, instance) here value =>
    if (ie_type =? GTP_IE_EPS_BEARER_ID) && (instance =? GTP_IE_INSTANCE_ZERO) then into decode_gtp_eps_bearer_id_ie value.(gtp_del_bearer_response_bearer_ctxt_eps_bearer_id) set_gtp_del_bearer_response_bearer_ctxt_eps_bearer_id here value
    else if (ie_type =? GTP_IE_CAUSE) && (instance =? GTP_IE_INSTANCE_ZERO) then into decode_gtp_cause_ie value.(gtp_del_bearer_response_bearer_ctxt_cause) set_gtp_del_bearer_response_bearer_ctxt_cause here value
    else if (ie_type =? GTP_IE_PROT_CFG_OPTS) && (instance =? GTP_IE_INSTANCE_ZERO) then into decode_gtp_prot_cfg_opts_ie value.(gtp_del_bearer_response_bearer_ctxt_pco) set_gtp_del_bearer_response_bearer_ctxt_pco here value
    else if (ie_type =? GTP_IE_RAN_NAS_CAUSE) && (instance =? GTP_IE_INSTANCE_ZERO) then into decode_gtp_ran_nas_cause_ie value.(gtp_del_bearer_response_bearer_ctxt_ran_nas_cause) set_gtp_del_bearer_response_bearer_ctxt_ran_nas_cause here value
    else if (ie_type =? GTP_IE_EXTNDED_PROT_CFG_OPTS) && (instance =? GTP_IE_INSTANCE_ZERO) then into decode_gtp_extnded_prot_cfg_opts_ie value.(gtp_del_bearer_response_bearer_ctxt_epco) set_gtp_del_bearer_response_bearer_ctxt_epco here value
    else skip_gie here value).

Definition decode_del_bearer_rsp : del_bearer_rsp_t -> ie_decoder del_bearer_rsp_t :=
  dec_gtp_message del_bearer_rsp_header set_del_bearer_rsp_header (fun value => set_del_bearer_rsp_bearer_count 0 value) (fun '(ie_type, instance) here value =>
    if (ie_type =? GTP_IE_CAUSE) && (instance =? GTP_IE_INSTANCE_ZERO) then into decode_gtp_cause_ie value.(del_bearer_rsp_cause) set_del_bearer_rsp_cause here value
    else if (ie_type =? GTP_IE_EPS_BEARER_ID) && (instance =? GTP_IE_INSTANCE_ZERO) then into decode_gtp_eps_bearer_id_ie value.(del_bearer_rsp_lbi) set_del_bearer_rsp_lbi here value
    else if (ie_type =? GTP_IE_BEARER_CONTEXT) && (instance =? GTP_IE_INSTANCE_ZERO) then into_next 8 decode_gtp_del_bearer_response_bearer_ctxt_ie value.(del_bearer_rsp_bearer_contexts) value.(del_bearer_rsp_bearer_count) set_del_bearer_rsp_bearer_contexts set_del_bearer_rsp_bearer_count here value
    else if (ie_type =? GTP_IE_RECOVERY) && (instance =? GTP_IE_INSTANCE_ZERO) then into decode_gtp_recovery_ie value.(del_bearer_rsp_recovery) set_del_bearer_rsp_recovery here value
    else if (ie_type =? GTP_IE_FQCSID) && (instance =? GTP_IE_INSTANCE_ZERO) then into decode_gtp_fqcsid_ie value.(del_bearer_rsp_mme_fqcsid) set_del_bearer_rsp_mme_fqcsid here value
    else if (ie_type =? GTP_IE_FQCSID) && (instance =? GTP_IE_INSTANCE_ONE) then into decode_gtp_fqcsid_ie value.(del_bearer_rsp_sgw_fqcsid) set_del_bearer_rsp_sgw_fqcsid here value
    else if (ie_type =? GTP_IE_FQCSID) && (instance =? GTP_IE_INSTANCE_TWO) then into decode_gtp_fqcsid_ie value.(del_bearer_rsp_epdg_fqcsid) set_del_bearer_rsp_epdg_fqcsid here value
    else if (ie_type =? GTP_IE_FQCSID) && (instance =? GTP_IE_INSTANCE_THREE) then into decode_gtp_fqcsid_ie value.(del_bearer_rsp_twan_fqcsid) set_del_bearer_rsp_twan_fqcsid here value
    else if (ie_type =? GTP_IE_PROT_CFG_OPTS) && (instance =? GTP_IE_INSTANCE_ZERO) then into decode_gtp_prot_cfg_opts_ie value.(del_bearer_rsp_pco) set_del_bearer_rsp_pco here value
    else if (ie_type =? GTP_IE_UE_TIME_ZONE) && (instance =? GTP_IE_INSTANCE_ZERO) then into decode_gtp_ue_time_zone_ie value.(del_bearer_rsp_ue_time_zone) set_del_bearer_rsp_ue_time_zone here value
    else if (ie_type =? GTP_IE_USER_LOC_INFO) && (instance =? GTP_IE_INSTANCE_ZERO) then into decode_gtp_user_loc_info_ie value.(del_bearer_rsp_uli) set_del_bearer_rsp_uli here value
    else if (ie_type =? GTP_IE_ULI_TIMESTAMP) && (instance =? GTP_IE_INSTANCE_ZERO) then into decode_gtp_uli_timestamp_ie value.(del_bearer_rsp_uli_timestamp) set_del_bearer_rsp_uli_timestamp here value
    else if (ie_type =? GTP_IE_TWAN_IDENTIFIER) && (instance =? GTP_IE_INSTANCE_ZERO) then into decode_gtp_twan_identifier_ie value.(del_bearer_rsp_twan_identifier) set_del_bearer_rsp_twan_identifier here value
    else if (ie_type =? GTP_IE_TWAN_IDNT_TS) && (instance =? GTP_IE_INSTANCE_ZERO) then into decode_gtp_twan_idnt_ts_ie value.(del_bearer_rsp_twan_idnt_ts) set_del_bearer_rsp_twan_idnt_ts here value
    else if (ie_type =? GTP_IE_OVRLD_CTL_INFO) && (instance =? GTP_IE_INSTANCE_ZERO) then into decode_gtp_ovrld_ctl_info_ie value.(del_bearer_rsp_mmes4_sgsns_ovrld_ctl_info) set_del_bearer_rsp_mmes4_sgsns_ovrld_ctl_info here value
    else if (ie_type =? GTP_IE_OVRLD_CTL_INFO) && (instance =? GTP_IE_INSTANCE_ONE) then into decode_gtp_ovrld_ctl_info_ie value.(del_bearer_rsp_sgws_ovrld_ctl_info) set_del_bearer_rsp_sgws_ovrld_ctl_info here value
    else if (ie_type =? GTP_IE_IP_ADDRESS) && (instance =? GTP_IE_INSTANCE_ZERO) then into decode_gtp_ip_address_ie value.(del_bearer_rsp_mmes4_sgsn_idnt) set_del_bearer_rsp_mmes4_sgsn_idnt here value
    else if (ie_type =? GTP_IE_OVRLD_CTL_INFO) && (instance =? GTP_IE_INSTANCE_TWO) then into decode_gtp_ovrld_ctl_info_ie value.(del_bearer_rsp_twanepdgs_ovrld_ctl_info) set_del_bearer_rsp_twanepdgs_ovrld_ctl_info here value
    else if (ie_type =? GTP_IE_TWAN_IDENTIFIER) && (instance =? GTP_IE_INSTANCE_ONE) then into decode_gtp_twan_identifier_ie value.(del_bearer_rsp_wlan_loc_info) set_del_bearer_rsp_wlan_loc_info here value
    else if (ie_type =? GTP_IE_TWAN_IDNT_TS) && (instance =? GTP_IE_INSTANCE_ONE) then into decode_gtp_twan_idnt_ts_ie value.(del_bearer_rsp_wlan_loc_ts) set_del_bearer_rsp_wlan_loc_ts here value
    else if (ie_type =? GTP_IE_IP_ADDRESS) && (instance =? GTP_IE_INSTANCE_ZERO) then into decode_gtp_ip_address_ie value.(del_bearer_rsp_ue_local_ip_addr) set_del_bearer_rsp_ue_local_ip_addr here value
    else if (ie_type =? GTP_IE_PORT_NUMBER) && (instance =? GTP_IE_INSTANCE_ZERO) then into decode_gtp_port_number_ie value.(del_bearer_rsp_ue_udp_port) set_del_bearer_rsp_ue_udp_port here value
    else if (ie_type =? GTP_IE_FULL_QUAL_CNTNR) && (instance =? GTP_IE_INSTANCE_ZERO) then into decode_gtp_full_qual_cntnr_ie value.(del_bearer_rsp_nbifom_cntnr) set_del_bearer_rsp_nbifom_cntnr here value
    else if (ie_type =? GTP_IE_PORT_NUMBER) && (instance =? GTP_IE_INSTANCE_ONE) then into decode_gtp_port_number_ie value.(del_bearer_rsp_ue_tcp_port) set_del_bearer_rsp_ue_tcp_port here value
    else if (ie_type =? GTP_IE_SECDRY_RAT_USAGE_DATA_RPT) && (instance =? GTP_IE_INSTANCE_ZERO) then into decode_gtp_secdry_rat_usage_data_rpt_ie value.(del_bearer_rsp_secdry_rat_usage_data_rpt) set_del_bearer_rsp_secdry_rat_usage_data_rpt here value
    else if ie_type =? GTP_IE_PRIV_EXT then into decode_gtp_priv_ext_ie value.(del_bearer_rsp_priv_ext) set_del_bearer_rsp_priv_ext here value
    else skip_gie here value).

Definition decode_pgw_rstrt_notif : pgw_rstrt_notif_t -> ie_decoder pgw_rstrt_notif_t :=
  dec_gtp_message pgw_rstrt_notif_header set_pgw_rstrt_notif_header id (fun '(ie_type, instance) here value =>
    if (ie_type =? GTP_IE_IP_ADDRESS) && (instance =? GTP_IE_INSTANCE_ZERO) then into decode_gtp_ip_address_ie value.(pgw_rstrt_notif_pgw_s5s8_ip_addr_ctl_plane_or_pmip) set_pgw_rstrt_notif_pgw_s5s8_ip_addr_ctl_plane_or_pmip here value
    else if (ie_type =? GTP_IE_IP_ADDRESS) && (instance =? GTP_IE_INSTANCE_ONE) then into decode_gtp_ip_address_ie value.(pgw_rstrt_notif_sgw_s11s4_ip_addr_ctl_plane) set_pgw_rstrt_notif_sgw_s11s4_ip_addr_ctl_plane here value
    else if (ie_type =? GTP_IE_CAUSE) && (instance =? GTP_IE_INSTANCE_ZERO) then into decode_gtp_cause_ie value.(pgw_rstrt_notif_cause) set_pgw_rstrt_notif_cause here value
    else if ie_type =? GTP_IE_PRIV_EXT then into decode_gtp_priv_ext_ie value.(pgw_rstrt_notif_priv_ext) set_pgw_rstrt_notif_priv_ext here value
    else skip_gie here value).

Definition decode_reloc_cncl_req : reloc_cncl_req_t -> ie_decoder reloc_cncl_req_t :=
  dec_gtp_message reloc_cncl_req_header set_reloc_cncl_req_header id (fun '(ie_type, instance) here value =>
    if (ie_type =? GTP_IE_IMSI) && (instance =? GTP_IE_INSTANCE_ZERO) then into decode_gtp_imsi_ie value.(reloc_cncl_req_imsi) set_reloc_cncl_req_imsi here value
    else if (ie_type =? GTP_IE_MBL_EQUIP_IDNTY) && (instance =? GTP_IE_INSTANCE_ZERO) then into decode_gtp_mbl_equip_idnty_ie value.(reloc_cncl_req_mei) set_reloc_cncl_req_mei here value
    else if (ie_type =? GTP_IE_INDICATION) && (instance =? GTP_IE_INSTANCE_ZERO) then into decode_gtp_indication_ie value.(reloc_cncl_req_indctn_flgs) set_reloc_cncl_req_indctn_flgs here value
    else if (ie_type =? GTP_IE_FULL_QUAL_CAUSE) && (instance =? GTP_IE_INSTANCE_ZERO) then into decode_gtp_full_qual_cause_ie value.(reloc_cncl_req_ranap_cause) set_reloc_cncl_req_ranap_cause here value
    else if ie_type =? GTP_IE_PRIV_EXT then into decode_gtp_priv_ext_ie value.(reloc_cncl_req_priv_ext) set_reloc_cncl_req_priv_ext here value
    else skip_gie here value).

Definition decode_gtp_del_sess_response__load_ctl_info_ie : gtp_del_sess_response__load_ctl_info_ie_t -> ie_decoder gtp_del_sess_response__load_ctl_info_ie_t :=
  dec_gtp_group set_gtp_del_sess_response__load_ctl_info_header 0 (fun '(ie_type, instance) here value =>
    if (ie_type =? GTP_IE_SEQUENCE_NUMBER) && (instance =? GTP_IE_INSTANCE_ZERO) then into decode_gtp_sequence_number_ie value.(gtp_del_sess_response__load_ctl_info_load_ctl_seqn_nbr) set_gtp_del_sess_response__load_ctl_info_load_ctl_seqn_nbr here value
    else if (ie_type =? GTP_IE_METRIC) && (instance =? GTP_IE_INSTANCE_ZERO) then into decode_gtp_metric_ie value.(gtp_del_sess_response__load_ctl_info_load_metric) set_gtp_del_sess_response__load_ctl_info_load_metric here value
    else if (ie_type =? GTP_IE_APN_AND_RLTV_CAP) && (instance =? GTP_IE_INSTANCE_ZERO) then into decode_gtp_apn_and_rltv_cap_ie value.(gtp_del_sess_response__load_ctl_info_list_of_apn_and_rltv_cap) set_gtp_del_sess_response__load_ctl_info_list_of_apn_and_rltv_cap here value
    else skip_gie here value).

Definition decode_gtp_upd_bearer_request__load_ctl_info_ie : gtp_upd_bearer_request__load_ctl_info_ie_t -> ie_decoder gtp_upd_bearer_request__load_ctl_info_ie_t :=
  dec_gtp_group set_gtp_upd_bearer_request__load_ctl_info_header 0 (fun '(ie_type, instance) here value =>
    if (ie_type =? GTP_IE_SEQUENCE_NUMBER) && (instance =? GTP_IE_INSTANCE_ZERO) then into decode_gtp_sequence_number_ie value.(gtp_upd_bearer_request__load_ctl_info_load_ctl_seqn_nbr) set_gtp_upd_bearer_request__load_ctl_info_load_ctl_seqn_nbr here value
    else if (ie_type =? GTP_IE_METRIC) && (instance =? GTP_IE_INSTANCE_ZERO) then into decode_gtp_metric_ie value.(gtp_upd_bearer_request__load_ctl_info_load_metric) set_gtp_upd_bearer_request__load_ctl_info_load_metric here value
    else if (ie_type =? GTP_IE_APN_AND_RLTV_CAP) && (instance =? GTP_IE_INSTANCE_ZERO) then into decode_gtp_apn_and_rltv_cap_ie value.(gtp_upd_bearer_request__load_ctl_info_list_of_apn_and_rltv_cap) set_gtp_upd_bearer_request__load_ctl_info_list_of_apn_and_rltv_cap here value
    else skip_gie here value).

Definition decode_gtp_upd_bearer_response__bearer_ctxt_ie : gtp_upd_bearer_response__bearer_ctxt_ie_t -> ie_decoder gtp_upd_bearer_response__bearer_ctxt_ie_t :=
  dec_gtp_group set_gtp_upd_bearer_response__bearer_ctxt_header IE_HEADER_SIZE (fun '(ie_type, instance) here value =>
    if (ie_type =? GTP_IE_EPS_BEARER_ID) && (instance =? GTP_IE_INSTANCE_ZERO) then into decode_gtp_eps_bearer_id_ie value.(gtp_upd_bearer_response__bearer_ctxt_eps_bearer_id) set_gtp_upd_bearer_response__bearer_ctxt_eps_bearer_id here value
    else if (ie_type =? GTP_IE_CAUSE) && (instance =? GTP_IE_INSTANCE_ZERO) then into decode_gtp_cause_ie value.(gtp_upd_bearer_response__bearer_ctxt_cause) set_gtp_upd_bearer_response__bearer_ctxt_cause here value
    else if (ie_type =? GTP_IE_FULLY_QUAL_TUNN_ENDPT_IDNT) && (instance =? GTP_IE_INSTANCE_ZERO) then into decode_gtp_fully_qual_tunn_endpt_idnt_ie value.(gtp_upd_bearer_response__bearer_ctxt_s4_u_sgsn_fteid) set_gtp_upd_bearer_response__bearer_ctxt_s4_u_sgsn_fteid here value
    else if (ie_type =? GTP_IE_FULLY_QUAL_TUNN_ENDPT_IDNT) && (instance =? GTP_IE_INSTANCE_ONE) then into decode_gtp_fully_qual_tunn_endpt_idnt_ie value.(gtp_upd_bearer_response__bearer_ctxt_s12_rnc_fteid) set_gtp_upd_bearer_response__bearer_ctxt_s12_rnc_fteid here value
    else if (ie_type =? GTP_IE_PROT_CFG_OPTS) && (instance =? GTP_IE_INSTANCE_ZERO) then into decode_gtp_prot_cfg_opts_ie value.(gtp_upd_bearer_response__bearer_ctxt_pco) set_gtp_upd_bearer_response__bearer_ctxt_pco here value
    else if (ie_type =? GTP_IE_RAN_NAS_CAUSE) && (instance =? GTP_IE_INSTANCE_ZERO) then into decode_gtp_ran_nas_cause_ie value.(gtp_upd_bearer_response__bearer_ctxt_ran_nas_cause) set_gtp_upd_bearer_response__bearer_ctxt_ran_nas_cause here value
    else if (ie_type =? GTP_IE_EXTNDED_PROT_CFG_OPTS) && (instance =? GTP_IE_INSTANCE_ZERO) then into decode_gtp_extnded_prot_cfg_opts_ie value.(gtp_upd_bearer_response__bearer_ctxt_epco) set_gtp_upd_bearer_response__bearer_ctxt_epco here value
    else skip_gie here value).

Definition decode_gtp_create_bearer_response_bearer_ctxt_ie : gtp_create_bearer_response_bearer_ctxt_ie_t -> ie_decoder gtp_create_bearer_response_bearer_ctxt_ie_t :=
  dec_gtp_group set_gtp_create_bearer_response_bearer_ctxt_header 0 (fun '(ie_type, instance) here value =>
    if (ie_type =? GTP_IE_EPS_BEARER_ID) && (instance =? GTP_IE_INSTANCE_ZERO) then into decode_gtp_eps_bearer_id_ie value.(gtp_create_bearer_response_bearer_ctxt_eps_bearer_id) set_gtp_create_bearer_response_bearer_ctxt_eps_bearer_id here value
    else if (ie_type =? GTP_IE_CAUSE) && (instance =? GTP_IE_INSTANCE_ZERO) then into decode_gtp_cause_ie value.(gtp_create_bearer_response_bearer_ctxt_cause) set_gtp_create_bearer_response_bearer_ctxt_cause here value
    else if (ie_type =? GTP_IE_FULLY_QUAL_TUNN_ENDPT_IDNT) && (instance =? GTP_IE_INSTANCE_ZERO) then into decode_gtp_fully_qual_tunn_endpt_idnt_ie value.(gtp_create_bearer_response_bearer_ctxt_s1u_enb_fteid) set_gtp_create_bearer_response_bearer_ctxt_s1u_enb_fteid here value
    else if (ie_type =? GTP_IE_FULLY_QUAL_TUNN_ENDPT_IDNT) && (instance =? GTP_IE_INSTANCE_ONE) then into decode_gtp_fully_qual_tunn_endpt_idnt_ie value.(gtp_create_bearer_response_bearer_ctxt_s1u_sgw_fteid) set_gtp_create_bearer_response_bearer_ctxt_s1u_sgw_fteid here value
    else if (ie_type =? GTP_IE_FULLY_QUAL_TUNN_ENDPT_IDNT) && (instance =? GTP_IE_INSTANCE_TWO) then into decode_gtp_fully_qual_tunn_endpt_idnt_ie value.(gtp_create_bearer_response_bearer_ctxt_s58_u_sgw_fteid) set_gtp_create_bearer_response_bearer_ctxt_s58_u_sgw_fteid here value
    else if (ie_type =? GTP_IE_FULLY_QUAL_TUNN_ENDPT_IDNT) && (instance =? GTP_IE_INSTANCE_THREE) then into decode_gtp_fully_qual_tunn_endpt_idnt_ie value.(gtp_create_bearer_response_bearer_ctxt_s58_u_pgw_fteid) set_gtp_create_bearer_response_bearer_ctxt_s58_u_pgw_fteid here value
    else if (ie_type =? GTP_IE_FULLY_QUAL_TUNN_ENDPT_IDNT) && (instance =? GTP_IE_INSTANCE_FOUR) then into decode_gtp_fully_qual_tunn_endpt_idnt_ie value.(gtp_create_bearer_response_bearer_ctxt_s12_rnc_fteid) set_gtp_create_bearer_response_bearer_ctxt_s12_rnc_fteid here value
    else if (ie_type =? GTP_IE_FULLY_QUAL_TUNN_ENDPT_IDNT) && (instance =? GTP_IE_INSTANCE_FIVE) then into decode_gtp_fully_qual_tunn_endpt_idnt_ie value.(gtp_create_bearer_response_bearer_ctxt_s12_sgw_fteid) set_gtp_create_bearer_response_bearer_ctxt_s12_sgw_fteid here value
    else if (ie_type =? GTP_IE_FULLY_QUAL_TUNN_ENDPT_IDNT) && (instance =? GTP_IE_INSTANCE_SIX) then into decode_gtp_fully_qual_tunn_endpt_idnt_ie value.(gtp_create_bearer_response_bearer_ctxt_s4_u_sgsn_fteid) set_gtp_create_bearer_response_bearer_ctxt_s4_u_sgsn_fteid here value
    else if (ie_type =? GTP_IE_FULLY_QUAL_TUNN_ENDPT_IDNT) && (instance =? GTP_IE_INSTANCE_SEVEN) then into decode_gtp_fully_qual_tunn_endpt_idnt_ie value.(gtp_create_bearer_response_bearer_ctxt_s4_u_sgw_fteid) set_gtp_create_bearer_response_bearer_ctxt_s4_u_sgw_fteid here value
    else if (ie_type =? GTP_IE_FULLY_QUAL_TUNN_ENDPT_IDNT) && (instance =? GTP_IE_INSTANCE_EIGHT) then into decode_gtp_fully_qual_tunn_endpt_idnt_ie value.(gtp_create_bearer_response_bearer_ctxt_s2b_u_epdg_fteid) set_gtp_create_bearer_response_bearer_ctxt_s2b_u_epdg_fteid here value
    else if (ie_type =? GTP_IE_FULLY_QUAL_TUNN_ENDPT_IDNT) && (instance =? GTP_IE_INSTANCE_NINE) then into decode_gtp_fully_qual_tunn_endpt_idnt_ie value.(gtp_create_bearer_response_bearer_ctxt_s2b_u_pgw_fteid) set_gtp_create_bearer_response_bearer_ctxt_s2b_u_pgw_fteid here value
    else if (ie_type =? GTP_IE_FULLY_QUAL_TUNN_ENDPT_IDNT) && (instance =? GTP_IE_INSTANCE_TEN) then into decode_gtp_fully_qual_tunn_endpt_idnt_ie value.(gtp_create_bearer_response_bearer_ctxt_s2a_u_twan_fteid) set_gtp_create_bearer_response_bearer_ctxt_s2a_u_twan_fteid here value
    else if (ie_type =? GTP_IE_FULLY_QUAL_TUNN_ENDPT_IDNT) && (instance =? GTP_IE_INSTANCE_ELEVEN) then into decode_gtp_fully_qual_tunn_endpt_idnt_ie value.(gtp_create_bearer_response_bearer_ctxt_s2a_u_pgw_fteid) set_gtp_create_bearer_response_bearer_ctxt_s2a_u_pgw_fteid here value
    else if (ie_type =? GTP_IE_PROT_CFG_OPTS) && (instance =? GTP_IE_INSTANCE_ZERO) then into decode_gtp_prot_cfg_opts_ie value.(gtp_create_bearer_response_bearer_ctxt_pco) set_gtp_create_bearer_response_bearer_ctxt_pco here value
    else if (ie_type =? GTP_IE_RAN_NAS_CAUSE) && (instance =? GTP_IE_INSTANCE_ZERO) then into decode_gtp_ran_nas_cause_ie value.(gtp_create_bearer_response_bearer_ctxt_ran_nas_cause) set_gtp_create_bearer_response_bearer_ctxt_ran_nas_cause here value
    else if (ie_type =? GTP_IE_EXTNDED_PROT_CFG_OPTS) && (instance =? GTP_IE_INSTANCE_ZERO) then into decode_gtp_extnded_prot_cfg_opts_ie value.(gtp_create_bearer_response_bearer_ctxt_epco) set_gtp_create_bearer_response_bearer_ctxt_epco here value
    else skip_gie here value).

Definition decode_gtp_mod_acc_bearers_response__bearer_ctxt_marked_removal_ie : gtp_mod_acc_bearers_response__bearer_ctxt_marked_removal_ie_t -> ie_decoder gtp_mod_acc_bearers_response__bearer_ctxt_marked_removal_ie_t :=
  dec_gtp_group set_gtp_mod_acc_bearers_response__bearer_ctxt_marked_removal_header 0 (fun '(ie_type, instance) here value =>
    if (ie_type =? GTP_IE_EPS_BEARER_ID) && (instance =? GTP_IE_INSTANCE_ZERO) then into decode_gtp_eps_bearer_id_ie value.(gtp_mod_acc_bearers_response__bearer_ctxt_marked_removal_eps_bearer_id) set_gtp_mod_acc_bearers_response__bearer_ctxt_marked_removal_eps_bearer_id here value
    else if (ie_type =? GTP_IE_CAUSE) && (instance =? GTP_IE_INSTANCE_ZERO) then into decode_gtp_cause_ie value.(gtp_mod_acc_bearers_response__bearer_ctxt_marked_removal_cause) set_gtp_mod_acc_bearers_response__bearer_ctxt_marked_removal_cause here value
    else skip_gie here value).

Definition decode_upd_bearer_rsp : upd_bearer_rsp_t -> ie_decoder upd_bearer_rsp_t :=
  dec_gtp_message upd_bearer_rsp_header set_upd_bearer_rsp_header id (fun '(ie_type, instance) here value =>
    if (ie_type =? GTP_IE_CAUSE) && (instance =? GTP_IE_INSTANCE_ZERO) then into decode_gtp_cause_ie value.(upd_bearer_rsp_cause) set_upd_bearer_rsp_cause here value
    else if (ie_type =? GTP_IE_BEARER_CONTEXT) && (instance =? GTP_IE_INSTANCE_ZERO) then into_next 32 decode_gtp_upd_bearer_response__bearer_ctxt_ie value.(upd_bearer_rsp_bearer_contexts) value.(upd_bearer_rsp_bearer_context_count) set_upd_bearer_rsp_bearer_contexts set_upd_bearer_rsp_bearer_context_count here value
    else if (ie_type =? GTP_IE_PROT_CFG_OPTS) && (instance =? GTP_IE_INSTANCE_ZERO) then into decode_gtp_prot_cfg_opts_ie value.(upd_bearer_rsp_pco) set_upd_bearer_rsp_pco here value
    else if (ie_type =? GTP_IE_RECOVERY) && (instance =? GTP_IE_INSTANCE_ZERO) then into decode_gtp_recovery_ie value.(upd_bearer_rsp_recovery) set_upd_bearer_rsp_recovery here value
    else if (ie_type =? GTP_IE_FQCSID) && (instance =? GTP_IE_INSTANCE_ZERO) then into decode_gtp_fqcsid_ie value.(upd_bearer_rsp_mme_fqcsid) set_upd_bearer_rsp_mme_fqcsid here value
    else if (ie_type =? GTP_IE_FQCSID) && (instance =? GTP_IE_INSTANCE_ONE) then into decode_gtp_fqcsid_ie value.(upd_bearer_rsp_sgw_fqcsid) set_upd_bearer_rsp_sgw_fqcsid here value
    else if (ie_type =? GTP_IE_FQCSID) && (instance =? GTP_IE_INSTANCE_TWO) then into decode_gtp_fqcsid_ie value.(upd_bearer_rsp_epdg_fqcsid) set_upd_bearer_rsp_epdg_fqcsid here value
    else if (ie_type =? GTP_IE_FQCSID) && (instance =? GTP_IE_INSTANCE_THREE) then into decode_gtp_fqcsid_ie value.(upd_bearer_rsp_twan_fqcsid) set_upd_bearer_rsp_twan_fqcsid here value
    else if (ie_type =? GTP_IE_INDICATION) && (instance =? GTP_IE_INSTANCE_ZERO) then into decode_gtp_indication_ie value.(upd_bearer_rsp_indctn_flgs) set_upd_bearer_rsp_indctn_flgs here value
    else if (ie_type =? GTP_IE_UE_TIME_ZONE) && (instance =? GTP_IE_INSTANCE_ZERO) then into decode_gtp_ue_time_zone_ie value.(upd_bearer_rsp_ue_time_zone) set_upd_bearer_rsp_ue_time_zone here value
    else if (ie_type =? GTP_IE_USER_LOC_INFO) && (instance =? GTP_IE_INSTANCE_ZERO) then into decode_gtp_user_loc_info_ie value.(upd_bearer_rsp_uli) set_upd_bearer_rsp_uli here value
    else if (ie_type =? GTP_IE_TWAN_IDENTIFIER) && (instance =? GTP_IE_INSTANCE_ZERO) then into decode_gtp_twan_identifier_ie value.(upd_bearer_rsp_twan_identifier) set_upd_bearer_rsp_twan_identifier here value
    else if (ie_type =? GTP_IE_OVRLD_CTL_INFO) && (instance =? GTP_IE_INSTANCE_ZERO) then into decode_gtp_ovrld_ctl_info_ie value.(upd_bearer_rsp_mmes4_sgsns_ovrld_ctl_info) set_upd_bearer_rsp_mmes4_sgsns_ovrld_ctl_info here value
    else if (ie_type =? GTP_IE_OVRLD_CTL_INFO) && (instance =? GTP_IE_INSTANCE_ONE) then into decode_gtp_ovrld_ctl_info_ie value.(upd_bearer_rsp_sgws_ovrld_ctl_info) set_upd_bearer_rsp_sgws_ovrld_ctl_info here value
    else if (ie_type =? GTP_IE_PRES_RPTNG_AREA_INFO) && (instance =? GTP_IE_INSTANCE_ZERO) then into decode_gtp_pres_rptng_area_info_ie value.(upd_bearer_rsp_pres_rptng_area_info) set_upd_bearer_rsp_pres_rptng_area_info here value
    else if (ie_type =? GTP_IE_IP_ADDRESS) && (instance =? GTP_IE_INSTANCE_ZERO) then into decode_gtp_ip_address_ie value.(upd_bearer_rsp_mmes4_sgsn_idnt) set_upd_bearer_rsp_mmes4_sgsn_idnt here value
    else if (ie_type =? GTP_IE_OVRLD_CTL_INFO) && (instance =? GTP_IE_INSTANCE_TWO) then into decode_gtp_ovrld_ctl_info_ie value.(upd_bearer_rsp_twanepdgs_ovrld_ctl_info) set_upd_bearer_rsp_twanepdgs_ovrld_ctl_info here value
    else if (ie_type =? GTP_IE_TWAN_IDENTIFIER) && (instance =? GTP_IE_INSTANCE_ONE) then into decode_gtp_twan_identifier_ie value.(upd_bearer_rsp_wlan_loc_info) set_upd_bearer_rsp_wlan_loc_info here value
    else if (ie_type =? GTP_IE_TWAN_IDNT_TS) && (instance =? GTP_IE_INSTANCE_ONE) then into decode_gtp_twan_idnt_ts_ie value.(upd_bearer_rsp_wlan_loc_ts) set_upd_bearer_rsp_wlan_loc_ts here value
    else if (ie_type =? GTP_IE_IP_ADDRESS) && (instance =? GTP_IE_INSTANCE_ZERO) then into decode_gtp_ip_address_ie value.(upd_bearer_rsp_ue_local_ip_addr) set_upd_bearer_rsp_ue_local_ip_addr here value
    else if (ie_type =? GTP_IE_PORT_NUMBER) && (instance =? GTP_IE_INSTANCE_ZERO) then into decode_gtp_port_number_ie value.(upd_bearer_rsp_ue_udp_port) set_upd_bearer_rsp_ue_udp_port here value
    else if (ie_type =? GTP_IE_FULL_QUAL_CNTNR) && (instance =? GTP_IE_INSTANCE_ZERO) then into decode_gtp_full_qual_cntnr_ie value.(upd_bearer_rsp_nbifom_cntnr) set_upd_bearer_rsp_nbifom_cntnr here value
    else if (ie_type =? GTP_IE_PORT_NUMBER) && (instance =? GTP_IE_INSTANCE_ONE) then into decode_gtp_port_number_ie value.(upd_bearer_rsp_ue_tcp_port) set_upd_bearer_rsp_ue_tcp_port here value
    else if ie_type =? GTP_IE_PRIV_EXT then into decode_gtp_priv_ext_ie value.(upd_bearer_rsp_priv_ext) set_upd_bearer_rsp_priv_ext here value
    else skip_gie here value).

Definition decode_gtp_create_sess_response__load_ctl_info_ie : gtp_create_sess_response__load_ctl_info_ie_t -> ie_decoder gtp_create_sess_response__load_ctl_info_ie_t :=
  dec_gtp_group set_gtp_create_sess_response__load_ctl_info_header 0 (fun '(ie_type, instance) here value =>
    if (ie_type =? GTP_IE_SEQUENCE_NUMBER) && (instance =? GTP_IE_INSTANCE_ZERO) then into decode_gtp_sequence_number_ie value.(gtp_create_sess_response__load_ctl_info_load_ctl_seqn_nbr) set_gtp_create_sess_response__load_ctl_info_load_ctl_seqn_nbr here value
    else if (ie_type =? GTP_IE_METRIC) && (instance =? GTP_IE_INSTANCE_ZERO) then into decode_gtp_metric_ie value.(gtp_create_sess_response__load_ctl_info_load_metric) set_gtp_create_sess_response__load_ctl_info_load_metric here value
    else if (ie_type =? GTP_IE_APN_AND_RLTV_CAP) && (instance =? GTP_IE_INSTANCE_ZERO) then into decode_gtp_apn_and_rltv_cap_ie value.(gtp_create_sess_response__load_ctl_info_list_of_apn_and_rltv_cap) set_gtp_create_sess_response__load_ctl_info_list_of_apn_and_rltv_cap here value
    else skip_gie here value).

Definition decode_mod_acc_bearers_req : mod_acc_bearers_req_t -> ie_decoder mod_acc_bearers_req_t :=
  dec_gtp_message mod_acc_bearers_req_header set_mod_acc_bearers_req_header id (fun '(ie_type, instance) here value =>
    if (ie_type =? GTP_IE_INDICATION) && (instance =? GTP_IE_INSTANCE_ZERO) then into decode_gtp_indication_ie value.(mod_acc_bearers_req_indctn_flgs) set_mod_acc_bearers_req_indctn_flgs here value
    else if (ie_type =? GTP_IE_FULLY_QUAL_TUNN_ENDPT_IDNT) && (instance =? GTP_IE_INSTANCE_ZERO) then into decode_gtp_fully_qual_tunn_endpt_idnt_ie value.(mod_acc_bearers_req_sender_fteid_ctl_plane) set_mod_acc_bearers_req_sender_fteid_ctl_plane here value
    else if (ie_type =? GTP_IE_DELAY_VALUE) && (instance =? GTP_IE_INSTANCE_ZERO) then into decode_gtp_delay_value_ie value.(mod_acc_bearers_req_delay_dnlnk_pckt_notif_req) set_mod_acc_bearers_req_delay_dnlnk_pckt_notif_req here value
    else if (ie_type =? GTP_IE_BEARER_CONTEXT) && (instance =? GTP_IE_INSTANCE_ZERO) then into decode_gtp_bearer_context_ie value.(mod_acc_bearers_req_bearer_contexts_to_be_modified) set_mod_acc_bearers_req_bearer_contexts_to_be_modified here value
    else if (ie_type =? GTP_IE_BEARER_CONTEXT) && (instance =? GTP_IE_INSTANCE_ONE) then into decode_gtp_bearer_context_ie value.(mod_acc_bearers_req_bearer_contexts_to_be_removed) set_mod_acc_bearers_req_bearer_contexts_to_be_removed here value
    else if (ie_type =? GTP_IE_RECOVERY) && (instance =? GTP_IE_INSTANCE_ZERO) then into decode_gtp_recovery_ie value.(mod_acc_bearers_req_recovery) set_mod_acc_bearers_req_recovery here value
    else if (ie_type =? GTP_IE_SECDRY_RAT_USAGE_DATA_RPT) && (instance =? GTP_IE_INSTANCE_ZERO) then into decode_gtp_secdry_rat_usage_data_rpt_ie value.(mod_acc_bearers_req_secdry_rat_usage_data_rpt) set_mod_acc_bearers_req_secdry_rat_usage_data_rpt here value
    else if ie_type =? GTP_IE_PRIV_EXT then into decode_gtp_priv_ext_ie value.(mod_acc_bearers_req_priv_ext) set_mod_acc_bearers_req_priv_ext here value
    else skip_gie here value).

Definition decode_mbms_sess_stop_req : mbms_sess_stop_req_t -> ie_decoder mbms_sess_stop_req_t :=
  dec_gtp_message mbms_sess_stop_req_header set_mbms_sess_stop_req_header id (fun '(ie_type, instance) here value =>
    if (ie_type =? GTP_IE_MBMS_FLOW_IDNT) && (instance =? GTP_IE_INSTANCE_ZERO) then into decode_gtp_mbms_flow_idnt_ie value.(mbms_sess_stop_req_mbms_flow_idnt) set_mbms_sess_stop_req_mbms_flow_idnt here value
    else if (ie_type =? GTP_IE_MBMS_DATA_XFER_ABS_TIME) && (instance =? GTP_IE_INSTANCE_ZERO) then into decode_gtp_mbms_data_xfer_abs_time_ie value.(mbms_sess_stop_req_mbms_data_xfer_stop) set_mbms_sess_stop_req_mbms_data_xfer_stop here value
    else if (ie_type =? GTP_IE_MBMS_FLAGS) && (instance =? GTP_IE_INSTANCE_ZERO) then into decode_gtp_mbms_flags_ie value.(mbms_sess_stop_req_mbms_flags) set_mbms_sess_stop_req_mbms_flags here value
    else if ie_type =? GTP_IE_PRIV_EXT then into decode_gtp_priv_ext_ie value.(mbms_sess_stop_req_priv_ext) set_mbms_sess_stop_req_priv_ext here value
    else skip_gie here value).

Definition decode_gtp_mod_acc_bearers_response__bearer_ctxt_modified_ie : gtp_mod_acc_bearers_response__bearer_ctxt_modified_ie_t -> ie_decoder gtp_mod_acc_bearers_response__bearer_ctxt_modified_ie_t :=
  dec_gtp_group set_gtp_mod_acc_bearers_response__bearer_ctxt_modified_header 0 (fun '(ie_type, instance) here value =>
    if (ie_type =? GTP_IE_EPS_BEARER_ID) && (instance =? GTP_IE_INSTANCE_ZERO) then into decode_gtp_eps_bearer_id_ie value.(gtp_mod_acc_bearers_response__bearer_ctxt_modified_eps_bearer_id) set_gtp_mod_acc_bearers_response__bearer_ctxt_modified_eps_bearer_id here value
    else if (ie_type =? GTP_IE_CAUSE) && (instance =? GTP_IE_INSTANCE_ZERO) then into decode_gtp_cause_ie value.(gtp_mod_acc_bearers_response__bearer_ctxt_modified_cause) set_gtp_mod_acc_bearers_response__bearer_ctxt_modified_cause here value
    else if (ie_type =? GTP_IE_FULLY_QUAL_TUNN_ENDPT_IDNT) && (instance =? GTP_IE_INSTANCE_ZERO) then into decode_gtp_fully_qual_tunn_endpt_idnt_ie value.(gtp_mod_acc_bearers_response__bearer_ctxt_modified_s1u_sgw_fteid) set_gtp_mod_acc_bearers_response__bearer_ctxt_modified_s1u_sgw_fteid here value
    else if (ie_type =? GTP_IE_FULLY_QUAL_TUNN_ENDPT_IDNT) && (instance =? GTP_IE_INSTANCE_ONE) then into decode_gtp_fully_qual_tunn_endpt_idnt_ie value.(gtp_mod_acc_bearers_response__bearer_ctxt_modified_s11_u_sgw_fteid) set_gtp_mod_acc_bearers_response__bearer_ctxt_modified_s11_u_sgw_fteid here value
    else skip_gie here value).

Definition decode_del_pdn_conn_set_req : del_pdn_conn_set_req_t -> ie_decoder del_pdn_conn_set_req_t :=
  dec_gtp_message del_pdn_conn_set_req_header set_del_pdn_conn_set_req_header id (fun '(ie_type, instance) here value =>
    if (ie_type =? GTP_IE_FQCSID) && (instance =? GTP_IE_INSTANCE_ZERO) then into decode_gtp_fqcsid_ie value.(del_pdn_conn_set_req_mme_fqcsid) set_del_pdn_conn_set_req_mme_fqcsid here value
    else if (ie_type =? GTP_IE_FQCSID) && (instance =? GTP_IE_INSTANCE_ONE) then into decode_gtp_fqcsid_ie value.(del_pdn_conn_set_req_sgw_fqcsid) set_del_pdn_conn_set_req_sgw_fqcsid here value
    else if (ie_type =? GTP_IE_FQCSID) && (instance =? GTP_IE_INSTANCE_TWO) then into decode_gtp_fqcsid_ie value.(del_pdn_conn_set_req_pgw_fqcsid) set_del_pdn_conn_set_req_pgw_fqcsid here value
    else if (ie_type =? GTP_IE_FQCSID) && (instance =? GTP_IE_INSTANCE_THREE) then into decode_gtp_fqcsid_ie value.(del_pdn_conn_set_req_epdg_fqcsid) set_del_pdn_conn_set_req_epdg_fqcsid here value
    else if (ie_type =? GTP_IE_FQCSID) && (instance =? GTP_IE_INSTANCE_FOUR) then into decode_gtp_fqcsid_ie value.(del_pdn_conn_set_req_twan_fqcsid) set_del_pdn_conn_set_req_twan_fqcsid here value
    else if ie_type =? GTP_IE_PRIV_EXT then into decode_gtp_priv_ext_ie value.(del_pdn_conn_set_req_priv_ext) set_del_pdn_conn_set_req_priv_ext here value
    else skip_gie here value).

Definition decode_del_pdn_conn_set_rsp : del_pdn_conn_set_rsp_t -> ie_decoder del_pdn_conn_set_rsp_t :=
  dec_gtp_message del_pdn_conn_set_rsp_header set_del_pdn_conn_set_rsp_header id (fun '(ie_type, instance) here value =>
    if (ie_type =? GTP_IE_CAUSE) && (instance =? GTP_IE_INSTANCE_ZERO) then into decode_gtp_cause_ie value.(del_pdn_conn_set_rsp_cause) set_del_pdn_conn_set_rsp_cause here value
    else if (ie_type =? GTP_IE_RECOVERY) && (instance =? GTP_IE_INSTANCE_ZERO) then into decode_gtp_recovery_ie value.(del_pdn_conn_set_rsp_recovery) set_del_pdn_conn_set_rsp_recovery here value
    else if ie_type =? GTP_IE_PRIV_EXT then into decode_gtp_priv_ext_ie value.(del_pdn_conn_set_rsp_priv_ext) set_del_pdn_conn_set_rsp_priv_ext here value
    else skip_gie here value).

Definition decode_fwd_acc_ctxt_notif : fwd_acc_ctxt_notif_t -> ie_decoder fwd_acc_ctxt_notif_t :=
  dec_gtp_message fwd_acc_ctxt_notif_header set_fwd_acc_ctxt_notif_header id (fun '(ie_type, instance) here value =>
    if (ie_type =? GTP_IE_RAB_CONTEXT) && (instance =? GTP_IE_INSTANCE_ZERO) then into decode_gtp_rab_context_ie value.(fwd_acc_ctxt_notif_rab_contexts) set_fwd_acc_ctxt_notif_rab_contexts here value
    else if (ie_type =? GTP_IE_SRC_RNC_PDCP_CTXT_INFO) && (instance =? GTP_IE_INSTANCE_ZERO) then into decode_gtp_src_rnc_pdcp_ctxt_info_ie value.(fwd_acc_ctxt_notif_src_rnc_pdcp_ctxt_info) set_fwd_acc_ctxt_notif_src_rnc_pdcp_ctxt_info here value
    else if (ie_type =? GTP_IE_PDU_NUMBERS) && (instance =? GTP_IE_INSTANCE_ZERO) then into decode_gtp_pdu_numbers_ie value.(fwd_acc_ctxt_notif_pdu_numbers) set_fwd_acc_ctxt_notif_pdu_numbers here value
    else if (ie_type =? GTP_IE_FULL_QUAL_CNTNR) && (instance =? GTP_IE_INSTANCE_ZERO) then into decode_gtp_full_qual_cntnr_ie value.(fwd_acc_ctxt_notif_e_utran_transparent_cntnr) set_fwd_acc_ctxt_notif_e_utran_transparent_cntnr here value
    else if ie_type =? GTP_IE_PRIV_EXT then into decode_gtp_priv_ext_ie value.(fwd_acc_ctxt_notif_priv_ext) set_fwd_acc_ctxt_notif_priv_ext here value
    else skip_gie here value).

Definition decode_gtp_del_bearer_request__load_ctl_info_ie : gtp_del_bearer_request__load_ctl_info_ie_t -> ie_decoder gtp_del_bearer_request__load_ctl_info_ie_t :=
  dec_gtp_group set_gtp_del_bearer_request__load_ctl_info_header 0 (fun '(ie_type, instance) here value =>
    if (ie_type =? GTP_IE_SEQUENCE_NUMBER) && (instance =? GTP_IE_INSTANCE_ZERO) then into decode_gtp_sequence_number_ie value.(gtp_del_bearer_request__load_ctl_info_load_ctl_seqn_nbr) set_gtp_del_bearer_request__load_ctl_info_load_ctl_seqn_nbr here value
    else if (ie_type =? GTP_IE_METRIC) && (instance =? GTP_IE_INSTANCE_ZERO) then into decode_gtp_metric_ie value.(gtp_del_bearer_request__load_ctl_info_load_metric) set_gtp_del_bearer_request__load_ctl_info_load_metric here value
    else if (ie_type =? GTP_IE_APN_AND_RLTV_CAP) && (instance =? GTP_IE_INSTANCE_ZERO) then into decode_gtp_apn_and_rltv_cap_ie value.(gtp_del_bearer_request__load_ctl_info_list_of_apn_and_rltv_cap) set_gtp_del_bearer_request__load_ctl_info_list_of_apn_and_rltv_cap here value
    else skip_gie here value).

Definition decode_gtp_del_bearer_response__overload_ctl_info_ie : gtp_del_bearer_response__overload_ctl_info_ie_t -> ie_decoder gtp_del_bearer_response__overload_ctl_info_ie_t :=
  dec_gtp_group set_gtp_del_bearer_response__overload_ctl_info_header 0 (fun '(ie_type, instance) here value =>
    if (ie_type =? GTP_IE_SEQUENCE_NUMBER) && (instance =? GTP_IE_INSTANCE_ZERO) then into decode_gtp_sequence_number_ie value.(gtp_del_bearer_response__overload_ctl_info_ovrld_ctl_seqn_nbr) set_gtp_del_bearer_response__overload_ctl_info_ovrld_ctl_seqn_nbr here value
    else if (ie_type =? GTP_IE_METRIC) && (instance =? GTP_IE_INSTANCE_ZERO) then into decode_gtp_metric_ie value.(gtp_del_bearer_response__overload_ctl_info_ovrld_reduction_metric) set_gtp_del_bearer_response__overload_ctl_info_ovrld_reduction_metric here value
    else if (ie_type =? GTP_IE_EPC_TIMER) && (instance =? GTP_IE_INSTANCE_ZERO) then into decode_gtp_epc_timer_ie value.(gtp_del_bearer_response__overload_ctl_info_prd_of_validity) set_gtp_del_bearer_response__overload_ctl_info_prd_of_validity here value
    else skip_gie here value).

Definition decode_gtp_dnlnk_data_notification__overload_ctl_info_ie : gtp_dnlnk_data_notification__overload_ctl_info_ie_t -> ie_decoder gtp_dnlnk_data_notification__overload_ctl_info_ie_t :=
  dec_gtp_group set_gtp_dnlnk_data_notification__overload_ctl_info_header 0 (fun '(ie_type, instance) here value =>
    if (ie_type =? GTP_IE_SEQUENCE_NUMBER) && (instance =? GTP_IE_INSTANCE_ZERO) then into decode_gtp_sequence_number_ie value.(gtp_dnlnk_data_notification__overload_ctl_info_ovrld_ctl_seqn_nbr) set_gtp_dnlnk_data_notification__overload_ctl_info_ovrld_ctl_seqn_nbr here value
    else if (ie_type =? GTP_IE_METRIC) && (instance =? GTP_IE_INSTANCE_ZERO) then into decode_gtp_metric_ie value.(gtp_dnlnk_data_notification__overload_ctl_info_ovrld_reduction_metric) set_gtp_dnlnk_data_notification__overload_ctl_info_ovrld_reduction_metric here value
    else if (ie_type =? GTP_IE_EPC_TIMER) && (instance =? GTP_IE_INSTANCE_ZERO) then into decode_gtp_epc_timer_ie value.(gtp_dnlnk_data_notification__overload_ctl_info_prd_of_validity) set_gtp_dnlnk_data_notification__overload_ctl_info_prd_of_validity here value
    else skip_gie here value).

Definition decode_gtp_release_acc_bearers_response__overload_ctl_info_ie : gtp_release_acc_bearers_response__overload_ctl_info_ie_t -> ie_decoder gtp_release_acc_bearers_response__overload_ctl_info_ie_t :=
  dec_gtp_group set_gtp_release_acc_bearers_response__overload_ctl_info_header 0 (fun '(ie_type, instance) here value =>
    if (ie_type =? GTP_IE_SEQUENCE_NUMBER) && (instance =? GTP_IE_INSTANCE_ZERO) then into decode_gtp_sequence_number_ie value.(gtp_release_acc_bearers_response__overload_ctl_info_ovrld_ctl_seqn_nbr) set_gtp_release_acc_bearers_response__overload_ctl_info_ovrld_ctl_seqn_nbr here value
    else if (ie_type =? GTP_IE_METRIC) && (instance =? GTP_IE_INSTANCE_ZERO) then into decode_gtp_metric_ie value.(gtp_release_acc_bearers_response__overload_ctl_info_ovrld_reduction_metric) set_gtp_release_acc_bearers_response__overload_ctl_info_ovrld_reduction_metric here value
    else if (ie_type =? GTP_IE_EPC_TIMER) && (instance =? GTP_IE_INSTANCE_ZERO) then into decode_gtp_epc_timer_ie value.(gtp_release_acc_bearers_response__overload_ctl_info_prd_of_validity) set_gtp_release_acc_bearers_response__overload_ctl_info_prd_of_validity here value
    else skip_gie here value).

Definition decode_gtp_mod_bearer_fail_indication__overload_ctl_info_ie : gtp_mod_bearer_fail_indication__overload_ctl_info_ie_t -> ie_decoder gtp_mod_bearer_fail_indication__overload_ctl_info_ie_t :=
  dec_gtp_group set_gtp_mod_bearer_fail_indication__overload_ctl_info_header 0 (fun '(ie_type, instance) here value =>
    if (ie_type =? GTP_IE_SEQUENCE_NUMBER) && (instance =? GTP_IE_INSTANCE_ZERO) then into decode_gtp_sequence_number_ie value.(gtp_mod_bearer_fail_indication__overload_ctl_info_ovrld_ctl_seqn_nbr) set_gtp_mod_bearer_fail_indication__overload_ctl_info_ovrld_ctl_seqn_nbr here value
    else if (ie_type =? GTP_IE_METRIC) && (instance =? GTP_IE_INSTANCE_ZERO) then into decode_gtp_metric_ie value.(gtp_mod_bearer_fail_indication__overload_ctl_info_ovrld_reduction_metric) set_gtp_mod_bearer_fail_indication__overload_ctl_info_ovrld_reduction_metric here value
    else if (ie_type =? GTP_IE_EPC_TIMER) && (instance =? GTP_IE_INSTANCE_ZERO) then into decode_gtp_epc_timer_ie value.(gtp_mod_bearer_fail_indication__overload_ctl_info_prd_of_validity) set_gtp_mod_bearer_fail_indication__overload_ctl_info_prd_of_validity here value
    else if (ie_type =? GTP_IE_ACC_PT_NAME) && (instance =? GTP_IE_INSTANCE_ZERO) then into decode_gtp_acc_pt_name_ie value.(gtp_mod_bearer_fail_indication__overload_ctl_info_apn) set_gtp_mod_bearer_fail_indication__overload_ctl_info_apn here value
    else skip_gie here value).

Definition decode_ctxt_ack : ctxt_ack_t -> ie_decoder ctxt_ack_t :=
  dec_gtp_message ctxt_ack_header set_ctxt_ack_header id (fun '(ie_type, instance) here value =>
    if (ie_type =? GTP_IE_CAUSE) && (instance =? GTP_IE_INSTANCE_ZERO) then into decode_gtp_cause_ie value.(ctxt_ack_cause) set_ctxt_ack_cause here value
    else if (ie_type =? GTP_IE_INDICATION) && (instance =? GTP_IE_INSTANCE_ZERO) then into decode_gtp_indication_ie value.(ctxt_ack_indctn_flgs) set_ctxt_ack_indctn_flgs here value
    else if (ie_type =? GTP_IE_FULLY_QUAL_TUNN_ENDPT_IDNT) && (instance =? GTP_IE_INSTANCE_ZERO) then into decode_gtp_fully_qual_tunn_endpt_idnt_ie value.(ctxt_ack_fwdng_fteid) set_ctxt_ack_fwdng_fteid here value
    else if (ie_type =? GTP_IE_BEARER_CONTEXT) && (instance =? GTP_IE_INSTANCE_ZERO) then into decode_gtp_bearer_context_ie value.(ctxt_ack_bearer_contexts) set_ctxt_ack_bearer_contexts here value
    else if (ie_type =? GTP_IE_NODE_NUMBER) && (instance =? GTP_IE_INSTANCE_ZERO) then into decode_gtp_node_number_ie value.(ctxt_ack_sgsn_number) set_ctxt_ack_sgsn_number here value
    else if (ie_type =? GTP_IE_NODE_NUMBER) && (instance =? GTP_IE_INSTANCE_ONE) then into decode_gtp_node_number_ie value.(ctxt_ack_mme_nbr_mt_sms) set_ctxt_ack_mme_nbr_mt_sms here value
    else if (ie_type =? GTP_IE_NODE_IDENTIFIER) && (instance =? GTP_IE_INSTANCE_ZERO) then into decode_gtp_node_identifier_ie value.(ctxt_ack_sgsn_idnt_mt_sms) set_ctxt_ack_sgsn_idnt_mt_sms here value
    else if (ie_type =? GTP_IE_NODE_IDENTIFIER) && (instance =? GTP_IE_INSTANCE_ONE) then into decode_gtp_node_identifier_ie value.(ctxt_ack_mme_idnt_mt_sms) set_ctxt_ack_mme_idnt_mt_sms here value
    else if ie_type =? GTP_IE_PRIV_EXT then into decode_gtp_priv_ext_ie value.(ctxt_ack_priv_ext) set_ctxt_ack_priv_ext here value
    else skip_gie here value).

Definition decode_alert_mme_ack : alert_mme_ack_t -> ie_decoder alert_mme_ack_t :=
  dec_gtp_message alert_mme_ack_header set_alert_mme_ack_header id (fun '(ie_type, instance) here value =>
    if (ie_type =? GTP_IE_CAUSE) && (instance =? GTP_IE_INSTANCE_ZERO) then into decode_gtp_cause_ie value.(alert_mme_ack_cause) set_alert_mme_ack_cause here value
    else if ie_type =? GTP_IE_PRIV_EXT then into decode_gtp_priv_ext_ie value.(alert_mme_ack_priv_ext) set_alert_mme_ack_priv_ext here value
    else skip_gie here value).

Definition decode_create_fwdng_tunn_rsp : create_fwdng_tunn_rsp_t -> ie_decoder create_fwdng_tunn_rsp_t :=
  dec_gtp_message create_fwdng_tunn_rsp_header set_create_fwdng_tunn_rsp_header id (fun '(ie_type, instance) here value =>
    if (ie_type =? GTP_IE_CAUSE) && (instance =? GTP_IE_INSTANCE_ZERO) then into decode_gtp_cause_ie value.(create_fwdng_tunn_rsp_cause) set_create_fwdng_tunn_rsp_cause here value
    else if (ie_type =? GTP_IE_S1U_DATA_FWDNG) && (instance =? GTP_IE_INSTANCE_ZERO) then into decode_gtp_s1u_data_fwdng_ie value.(create_fwdng_tunn_rsp_s1u_data_fwdng) set_create_fwdng_tunn_rsp_s1u_data_fwdng here value
    else if ie_type =? GTP_IE_PRIV_EXT then into decode_gtp_priv_ext_ie value.(create_fwdng_tunn_rsp_priv_ext) set_create_fwdng_tunn_rsp_priv_ext here value
    else skip_gie here value).

Definition decode_dnlnk_data_notif_fail_indctn : dnlnk_data_notif_fail_indctn_t -> ie_decoder dnlnk_data_notif_fail_indctn_t :=
  dec_gtp_message dnlnk_data_notif_fail_indctn_header set_dnlnk_data_notif_fail_indctn_header id (fun '(ie_type, instance) here value =>
    if (ie_type =? GTP_IE_CAUSE) && (instance =? GTP_IE_INSTANCE_ZERO) then into decode_gtp_cause_ie value.(dnlnk_data_notif_fail_indctn_cause) set_dnlnk_data_notif_fail_indctn_cause here value
    else if (ie_type =? GTP_IE_NODE_TYPE) && (instance =? GTP_IE_INSTANCE_ZERO) then into decode_gtp_node_type_ie value.(dnlnk_data_notif_fail_indctn_originating_node) set_dnlnk_data_notif_fail_indctn_originating_node here value
    else if (ie_type =? GTP_IE_IMSI) && (instance =? GTP_IE_INSTANCE_ZERO) then into decode_gtp_imsi_ie value.(dnlnk_data_notif_fail_indctn_imsi) set_dnlnk_data_notif_fail_indctn_imsi here value
    else if ie_type =? GTP_IE_PRIV_EXT then into decode_gtp_priv_ext_ie value.(dnlnk_data_notif_fail_indctn_priv_ext) set_dnlnk_data_notif_fail_indctn_priv_ext here value
    else skip_gie here value).

Definition decode_ue_actvty_ack : ue_actvty_ack_t -> ie_decoder ue_actvty_ack_t :=
  dec_gtp_message ue_actvty_ack_header set_ue_actvty_ack_header id (fun '(ie_type, instance) here value =>
    if (ie_type =? GTP_IE_CAUSE) && (instance =? GTP_IE_INSTANCE_ZERO) then into decode_gtp_cause_ie value.(ue_actvty_ack_cause) set_ue_actvty_ack_cause here value
    else if ie_type =? GTP_IE_PRIV_EXT then into decode_gtp_priv_ext_ie value.(ue_actvty_ack_priv_ext) set_ue_actvty_ack_priv_ext here value
    else skip_gie here value).

Definition decode_gtp_mod_bearer_command__bearer_ctxt_ie : gtp_mod_bearer_command__bearer_ctxt_ie_t -> ie_decoder gtp_mod_bearer_command__bearer_ctxt_ie_t :=
  dec_gtp_group set_gtp_mod_bearer_command__bearer_ctxt_header 0 (fun '(ie_type, instance) here value =>
    if (ie_type =? GTP_IE_EPS_BEARER_ID) && (instance =? GTP_IE_INSTANCE_ZERO) then into decode_gtp_eps_bearer_id_ie value.(gtp_mod_bearer_command__bearer_ctxt_eps_bearer_id) set_gtp_mod_bearer_command__bearer_ctxt_eps_bearer_id here value
    else if (ie_type =? GTP_IE_BEARER_QLTY_OF_SVC) && (instance =? GTP_IE_INSTANCE_ZERO) then into decode_gtp_bearer_qlty_of_svc_ie value.(gtp_mod_bearer_command__bearer_ctxt_bearer_lvl_qos) set_gtp_mod_bearer_command__bearer_ctxt_bearer_lvl_qos here value
    else skip_gie here value).

Definition decode_gtp_ctxt_response__mmesgsn_ue_scef_pdn_connections_ie : gtp_ctxt_response__mmesgsn_ue_scef_pdn_connections_ie_t -> ie_decoder gtp_ctxt_response__mmesgsn_ue_scef_pdn_connections_ie_t :=
  dec_gtp_group set_gtp_ctxt_response__mmesgsn_ue_scef_pdn_connections_header 0 (fun '(ie_type, instance) here value =>
    if (ie_type =? GTP_IE_ACC_PT_NAME) && (instance =? GTP_IE_INSTANCE_ZERO) then into decode_gtp_acc_pt_name_ie value.(gtp_ctxt_response__mmesgsn_ue_scef_pdn_connections_apn) set_gtp_ctxt_response__mmesgsn_ue_scef_pdn_connections_apn here value
    else if (ie_type =? GTP_IE_EPS_BEARER_ID) && (instance =? GTP_IE_INSTANCE_ZERO) then into decode_gtp_eps_bearer_id_ie value.(gtp_ctxt_response__mmesgsn_ue_scef_pdn_connections_dflt_eps_bearer_id) set_gtp_ctxt_response__mmesgsn_ue_scef_pdn_connections_dflt_eps_bearer_id here value
    else if (ie_type =? GTP_IE_NODE_IDENTIFIER) && (instance =? GTP_IE_INSTANCE_ZERO) then into decode_gtp_node_identifier_ie value.(gtp_ctxt_response__mmesgsn_ue_scef_pdn_connections_scef_id) set_gtp_ctxt_response__mmesgsn_ue_scef_pdn_connections_scef_id here value
    else skip_gie here value).

Definition decode_gtp_release_acc_bearers_response__load_ctl_info_ie : gtp_release_acc_bearers_response__load_ctl_info_ie_t -> ie_decoder gtp_release_acc_bearers_response__load_ctl_info_ie_t :=
  dec_gtp_group set_gtp_release_acc_bearers_response__load_ctl_info_header 0 (fun '(ie_type, instance) here value =>
    if (ie_type =? GTP_IE_SEQUENCE_NUMBER) && (instance =? GTP_IE_INSTANCE_ZERO) then into decode_gtp_sequence_number_ie value.(gtp_release_acc_bearers_response__load_ctl_info_load_ctl_seqn_nbr) set_gtp_release_acc_bearers_response__load_ctl_info_load_ctl_seqn_nbr here value
    else if (ie_type =? GTP_IE_METRIC) && (instance =? GTP_IE_INSTANCE_ZERO) then into decode_gtp_metric_ie value.(gtp_release_acc_bearers_response__load_ctl_info_load_metric) set_gtp_release_acc_bearers_response__load_ctl_info_load_metric here value
    else skip_gie here value).

Definition decode_trc_sess_deact : trc_sess_deact_t -> ie_decoder trc_sess_deact_t :=
  dec_gtp_message trc_sess_deact_header set_trc_sess_deact_header id (fun '(ie_type, instance) here value =>
    if (ie_type =? GTP_IE_TRACE_REFERENCE) && (instance =? GTP_IE_INSTANCE_ZERO) then into decode_gtp_trace_reference_ie value.(trc_sess_deact_trace_reference) set_trc_sess_deact_trace_reference here value
    else skip_gie here value).

Definition decode_dnlnk_data_notif : dnlnk_data_notif_t -> ie_decoder dnlnk_data_notif_t :=
  dec_gtp_message dnlnk_data_notif_header set_dnlnk_data_notif_header id (fun '(ie_type, instance) here value =>
    if (ie_type =? GTP_IE_CAUSE) && (instance =? GTP_IE_INSTANCE_ZERO) then into decode_gtp_cause_ie value.(dnlnk_data_notif_cause) set_dnlnk_data_notif_cause here value
    else if (ie_type =? GTP_IE_EPS_BEARER_ID) && (instance =? GTP_IE_INSTANCE_ZERO) then into decode_gtp_eps_bearer_id_ie value.(dnlnk_data_notif_eps_bearer_id) set_dnlnk_data_notif_eps_bearer_id here value
    else if (ie_type =? GTP_IE_ALLOC_RETEN_PRIORITY) && (instance =? GTP_IE_INSTANCE_ZERO) then into decode_gtp_alloc_reten_priority_ie value.(dnlnk_data_notif_alloc_reten_priority) set_dnlnk_data_notif_alloc_reten_priority here value
    else if (ie_type =? GTP_IE_IMSI) && (instance =? GTP_IE_INSTANCE_ZERO) then into decode_gtp_imsi_ie value.(dnlnk_data_notif_imsi) set_dnlnk_data_notif_imsi here value
    else if (ie_type =? GTP_IE_FULLY_QUAL_TUNN_ENDPT_IDNT) && (instance =? GTP_IE_INSTANCE_ZERO) then into decode_gtp_fully_qual_tunn_endpt_idnt_ie value.(dnlnk_data_notif_sender_fteid_ctl_plane) set_dnlnk_data_notif_sender_fteid_ctl_plane here value
    else if (ie_type =? GTP_IE_INDICATION) && (instance =? GTP_IE_INSTANCE_ZERO) then into decode_gtp_indication_ie value.(dnlnk_data_notif_indctn_flgs) set_dnlnk_data_notif_indctn_flgs here value
    else if (ie_type =? GTP_IE_LOAD_CTL_INFO) && (instance =? GTP_IE_INSTANCE_ZERO) then into decode_gtp_load_ctl_info_ie value.(dnlnk_data_notif_sgws_node_lvl_load_ctl_info) set_dnlnk_data_notif_sgws_node_lvl_load_ctl_info here value
    else if (ie_type =? GTP_IE_OVRLD_CTL_INFO) && (instance =? GTP_IE_INSTANCE_ZERO) then into decode_gtp_ovrld_ctl_info_ie value.(dnlnk_data_notif_sgws_ovrld_ctl_info) set_dnlnk_data_notif_sgws_ovrld_ctl_info here value
    else if (ie_type =? GTP_IE_PAGING_AND_SVC_INFO) && (instance =? GTP_IE_INSTANCE_ZERO) then into decode_gtp_paging_and_svc_info_ie value.(dnlnk_data_notif_paging_and_svc_info) set_dnlnk_data_notif_paging_and_svc_info here value
    else if ie_type =? GTP_IE_PRIV_EXT then into decode_gtp_priv_ext_ie value.(dnlnk_data_notif_priv_ext) set_dnlnk_data_notif_priv_ext here value
    else skip_gie here value).

Definition decode_create_indir_data_fwdng_tunn_req : create_indir_data_fwdng_tunn_req_t -> ie_decoder create_indir_data_fwdng_tunn_req_t :=
  dec_gtp_message create_indir_data_fwdng_tunn_req_header set_create_indir_data_fwdng_tunn_req_header id (fun '(ie_type, instance) here value =>
    if (ie_type =? GTP_IE_IMSI) && (instance =? GTP_IE_INSTANCE_ZERO) then into decode_gtp_imsi_ie value.(create_indir_data_fwdng_tunn_req_imsi) set_create_indir_data_fwdng_tunn_req_imsi here value
    else if (ie_type =? GTP_IE_MBL_EQUIP_IDNTY) && (instance =? GTP_IE_INSTANCE_ZERO) then into decode_gtp_mbl_equip_idnty_ie value.(create_indir_data_fwdng_tunn_req_mei) set_create_indir_data_fwdng_tunn_req_mei here value
    else if (ie_type =? GTP_IE_INDICATION) && (instance =? GTP_IE_INSTANCE_ZERO) then into decode_gtp_indication_ie value.(create_indir_data_fwdng_tunn_req_indctn_flgs) set_create_indir_data_fwdng_tunn_req_indctn_flgs here value
    else if (ie_type =? GTP_IE_FULLY_QUAL_TUNN_ENDPT_IDNT) && (instance =? GTP_IE_INSTANCE_ZERO) then into decode_gtp_fully_qual_tunn_endpt_idnt_ie value.(create_indir_data_fwdng_tunn_req_sender_fteid_ctl_plane) set_create_indir_data_fwdng_tunn_req_sender_fteid_ctl_plane here value
    else if (ie_type =? GTP_IE_BEARER_CONTEXT) && (instance =? GTP_IE_INSTANCE_ZERO) then into decode_gtp_bearer_context_ie value.(create_indir_data_fwdng_tunn_req_bearer_contexts) set_create_indir_data_fwdng_tunn_req_bearer_contexts here value
    else if (ie_type =? GTP_IE_RECOVERY) && (instance =? GTP_IE_INSTANCE_ZERO) then into decode_gtp_recovery_ie value.(create_indir_data_fwdng_tunn_req_recovery) set_create_indir_data_fwdng_tunn_req_recovery here value
    else if ie_type =? GTP_IE_PRIV_EXT then into decode_gtp_priv_ext_ie value.(create_indir_data_fwdng_tunn_req_priv_ext) set_create_indir_data_fwdng_tunn_req_priv_ext here value
    else skip_gie here value).

Definition decode_mbms_sess_start_req : mbms_sess_start_req_t -> ie_decoder mbms_sess_start_req_t :=
  dec_gtp_message mbms_sess_start_req_header set_mbms_sess_start_req_header id (fun '(ie_type, instance) here value =>
    if (ie_type =? GTP_IE_FULLY_QUAL_TUNN_ENDPT_IDNT) && (instance =? GTP_IE_INSTANCE_ZERO) then into decode_gtp_fully_qual_tunn_endpt_idnt_ie value.(mbms_sess_start_req_sender_fteid_ctl_plane) set_mbms_sess_start_req_sender_fteid_ctl_plane here value
    else if (ie_type =? GTP_IE_TMGI) && (instance =? GTP_IE_INSTANCE_ZERO) then into decode_gtp_tmgi_ie value.(mbms_sess_start_req_tmgi) set_mbms_sess_start_req_tmgi here value
    else if (ie_type =? GTP_IE_MBMS_SESS_DUR) && (instance =? GTP_IE_INSTANCE_ZERO) then into decode_gtp_mbms_sess_dur_ie value.(mbms_sess_start_req_mbms_sess_dur) set_mbms_sess_start_req_mbms_sess_dur here value
    else if (ie_type =? GTP_IE_MBMS_SVC_AREA) && (instance =? GTP_IE_INSTANCE_ZERO) then into decode_gtp_mbms_svc_area_ie value.(mbms_sess_start_req_mbms_svc_area) set_mbms_sess_start_req_mbms_svc_area here value
    else if (ie_type =? GTP_IE_MBMS_SESS_IDNT) && (instance =? GTP_IE_INSTANCE_ZERO) then into decode_gtp_mbms_sess_idnt_ie value.(mbms_sess_start_req_mbms_sess_idnt) set_mbms_sess_start_req_mbms_sess_idnt here value
    else if (ie_type =? GTP_IE_MBMS_FLOW_IDNT) && (instance =? GTP_IE_INSTANCE_ZERO) then into decode_gtp_mbms_flow_idnt_ie value.(mbms_sess_start_req_mbms_flow_idnt) set_mbms_sess_start_req_mbms_flow_idnt here value
    else if (ie_type =? GTP_IE_BEARER_QLTY_OF_SVC) && (instance =? GTP_IE_INSTANCE_ZERO) then into decode_gtp_bearer_qlty_of_svc_ie value.(mbms_sess_start_req_qos_profile) set_mbms_sess_start_req_qos_profile here value
    else if (ie_type =? GTP_IE_MBMS_IP_MULTCST_DIST) && (instance =? GTP_IE_INSTANCE_ZERO) then into decode_gtp_mbms_ip_multcst_dist_ie value.(mbms_sess_start_req_mbms_ip_multcst_dist) set_mbms_sess_start_req_mbms_ip_multcst_dist here value
    else if (ie_type =? GTP_IE_RECOVERY) && (instance =? GTP_IE_INSTANCE_ZERO) then into decode_gtp_recovery_ie value.(mbms_sess_start_req_recovery) set_mbms_sess_start_req_recovery here value
    else if (ie_type =? GTP_IE_MBMS_TIME_TO_DATA_XFER) && (instance =? GTP_IE_INSTANCE_ZERO) then into decode_gtp_mbms_time_to_data_xfer_ie value.(mbms_sess_start_req_mbms_time_to_data_xfer) set_mbms_sess_start_req_mbms_time_to_data_xfer here value
    else if (ie_type =? GTP_IE_MBMS_DATA_XFER_ABS_TIME) && (instance =? GTP_IE_INSTANCE_ZERO) then into decode_gtp_mbms_data_xfer_abs_time_ie value.(mbms_sess_start_req_mbms_data_xfer_start) set_mbms_sess_start_req_mbms_data_xfer_start here value
    else if (ie_type =? GTP_IE_MBMS_FLAGS) && (instance =? GTP_IE_INSTANCE_ZERO) then into decode_gtp_mbms_flags_ie value.(mbms_sess_start_req_mbms_flags) set_mbms_sess_start_req_mbms_flags here value
    else if (ie_type =? GTP_IE_MBMS_IP_MULTCST_DIST) && (instance =? GTP_IE_INSTANCE_ONE) then into decode_gtp_mbms_ip_multcst_dist_ie value.(mbms_sess_start_req_mbms_alternative_ip_multcst_dist) set_mbms_sess_start_req_mbms_alternative_ip_multcst_dist here value
    else if (ie_type =? GTP_IE_ECGI_LIST) && (instance =? GTP_IE_INSTANCE_ZERO) then into decode_gtp_ecgi_list_ie value.(mbms_sess_start_req_mbms_cell_list) set_mbms_sess_start_req_mbms_cell_list here value
    else if ie_type =? GTP_IE_PRIV_EXT then into decode_gtp_priv_ext_ie value.(mbms_sess_start_req_priv_ext) set_mbms_sess_start_req_priv_ext here value
    else skip_gie here value).

Definition decode_del_bearer_req : del_bearer_req_t -> ie_decoder del_bearer_req_t :=
  dec_gtp_message del_bearer_req_header set_del_bearer_req_header id (fun '(ie_type, instance) here value =>
    if (ie_type =? GTP_IE_EPS_BEARER_ID) && (instance =? GTP_IE_INSTANCE_ZERO) then into decode_gtp_eps_bearer_id_ie value.(del_bearer_req_lbi) set_del_bearer_req_lbi here value
    else if (ie_type =? GTP_IE_EPS_BEARER_ID) && (instance =? GTP_IE_INSTANCE_ONE) then into_next 8 decode_gtp_eps_bearer_id_ie value.(del_bearer_req_eps_bearer_ids) value.(del_bearer_req_bearer_count) set_del_bearer_req_eps_bearer_ids set_del_bearer_req_bearer_count here value
    else if (ie_type =? GTP_IE_BEARER_CONTEXT) && (instance =? GTP_IE_INSTANCE_ZERO) then into decode_gtp_bearer_context_ie value.(del_bearer_req_failed_bearer_contexts) set_del_bearer_req_failed_bearer_contexts here value
    else if (ie_type =? GTP_IE_PROC_TRANS_ID) && (instance =? GTP_IE_INSTANCE_ZERO) then into decode_gtp_proc_trans_id_ie value.(del_bearer_req_pti) set_del_bearer_req_pti here value
    else if (ie_type =? GTP_IE_PROT_CFG_OPTS) && (instance =? GTP_IE_INSTANCE_ZERO) then into decode_gtp_prot_cfg_opts_ie value.(del_bearer_req_pco) set_del_bearer_req_pco here value
    else if (ie_type =? GTP_IE_FQCSID) && (instance =? GTP_IE_INSTANCE_ZERO) then into decode_gtp_fqcsid_ie value.(del_bearer_req_pgw_fqcsid) set_del_bearer_req_pgw_fqcsid here value
    else if (ie_type =? GTP_IE_FQCSID) && (instance =? GTP_IE_INSTANCE_ONE) then into decode_gtp_fqcsid_ie value.(del_bearer_req_sgw_fqcsid) set_del_bearer_req_sgw_fqcsid here value
    else if (ie_type =? GTP_IE_INDICATION) && (instance =? GTP_IE_INSTANCE_ZERO) then into decode_gtp_indication_ie value.(del_bearer_req_indctn_flgs) set_del_bearer_req_indctn_flgs here value
    else if (ie_type =? GTP_IE_LOAD_CTL_INFO) && (instance =? GTP_IE_INSTANCE_ZERO) then into decode_gtp_load_ctl_info_ie value.(del_bearer_req_pgws_node_lvl_load_ctl_info) set_del_bearer_req_pgws_node_lvl_load_ctl_info here value
    else if (ie_type =? GTP_IE_LOAD_CTL_INFO) && (instance =? GTP_IE_INSTANCE_ONE) then into decode_gtp_load_ctl_info_ie value.(del_bearer_req_pgws_apn_lvl_load_ctl_info) set_del_bearer_req_pgws_apn_lvl_load_ctl_info here value
    else if (ie_type =? GTP_IE_LOAD_CTL_INFO) && (instance =? GTP_IE_INSTANCE_TWO) then into decode_gtp_load_ctl_info_ie value.(del_bearer_req_sgws_node_lvl_load_ctl_info) set_del_bearer_req_sgws_node_lvl_load_ctl_info here value
    else if (ie_type =? GTP_IE_OVRLD_CTL_INFO) && (instance =? GTP_IE_INSTANCE_ZERO) then into decode_gtp_ovrld_ctl_info_ie value.(del_bearer_req_pgws_ovrld_ctl_info) set_del_bearer_req_pgws_ovrld_ctl_info here value
    else if (ie_type =? GTP_IE_OVRLD_CTL_INFO) && (instance =? GTP_IE_INSTANCE_ONE) then into decode_gtp_ovrld_ctl_info_ie value.(del_bearer_req_sgws_ovrld_ctl_info) set_del_bearer_req_sgws_ovrld_ctl_info here value
    else if (ie_type =? GTP_IE_FULL_QUAL_CNTNR) && (instance =? GTP_IE_INSTANCE_ZERO) then into decode_gtp_full_qual_cntnr_ie value.(del_bearer_req_nbifom_cntnr) set_del_bearer_req_nbifom_cntnr here value
    else if (ie_type =? GTP_IE_EXTNDED_PROT_CFG_OPTS) && (instance =? GTP_IE_INSTANCE_ZERO) then into decode_gtp_extnded_prot_cfg_opts_ie value.(del_bearer_req_epco) set_del_bearer_req_epco here value
    else if ie_type =? GTP_IE_PRIV_EXT then into decode_gtp_priv_ext_ie value.(del_bearer_req_priv_ext) set_del_bearer_req_priv_ext here value
    else skip_gie here value).

Definition decode_gtp_bearer_rsrc_fail_indication__overload_ctl_info_ie : gtp_bearer_rsrc_fail_indication__overload_ctl_info_ie_t -> ie_decoder gtp_bearer_rsrc_fail_indication__overload_ctl_info_ie_t :=
  dec_gtp_group set_gtp_bearer_rsrc_fail_indication__overload_ctl_info_header 0 (fun '(ie_type, instance) here value =>
    if (ie_type =? GTP_IE_SEQUENCE_NUMBER) && (instance =? GTP_IE_INSTANCE_ZERO) then into decode_gtp_sequence_number_ie value.(gtp_bearer_rsrc_fail_indication__overload_ctl_info_ovrld_ctl_seqn_nbr) set_gtp_bearer_rsrc_fail_indication__overload_ctl_info_ovrld_ctl_seqn_nbr here value
    else if (ie_type =? GTP_IE_METRIC) && (instance =? GTP_IE_INSTANCE_ZERO) then into decode_gtp_metric_ie value.(gtp_bearer_rsrc_fail_indication__overload_ctl_info_ovrld_reduction_metric) set_gtp_bearer_rsrc_fail_indication__overload_ctl_info_ovrld_reduction_metric here value
    else if (ie_type =? GTP_IE_EPC_TIMER) && (instance =? GTP_IE_INSTANCE_ZERO) then into decode_gtp_epc_timer_ie value.(gtp_bearer_rsrc_fail_indication__overload_ctl_info_prd_of_validity) set_gtp_bearer_rsrc_fail_indication__overload_ctl_info_prd_of_validity here value
    else if (ie_type =? GTP_IE_ACC_PT_NAME) && (instance =? GTP_IE_INSTANCE_ZERO) then into decode_gtp_acc_pt_name_ie value.(gtp_bearer_rsrc_fail_indication__overload_ctl_info_apn) set_gtp_bearer_rsrc_fail_indication__overload_ctl_info_apn here value
    else skip_gie here value).

Definition decode_del_sess_req : del_sess_req_t -> ie_decoder del_sess_req_t :=
  dec_gtp_message del_sess_req_header set_del_sess_req_header id (fun '(ie_type, instance) here value =>
    if (ie_type =? GTP_IE_EPS_BEARER_ID) && (instance =? GTP_IE_INSTANCE_ZERO) then into decode_gtp_eps_bearer_id_ie value.(del_sess_req_lbi) set_del_sess_req_lbi here value
    else if (ie_type =? GTP_IE_USER_LOC_INFO) && (instance =? GTP_IE_INSTANCE_ZERO) then into decode_gtp_user_loc_info_ie value.(del_sess_req_uli) set_del_sess_req_uli here value
    else if (ie_type =? GTP_IE_INDICATION) && (instance =? GTP_IE_INSTANCE_ZERO) then into decode_gtp_indication_ie value.(del_sess_req_indctn_flgs) set_del_sess_req_indctn_flgs here value
    else if (ie_type =? GTP_IE_PROT_CFG_OPTS) && (instance =? GTP_IE_INSTANCE_ZERO) then into decode_gtp_prot_cfg_opts_ie value.(del_sess_req_pco) set_del_sess_req_pco here value
    else if (ie_type =? GTP_IE_NODE_TYPE) && (instance =? GTP_IE_INSTANCE_ZERO) then into decode_gtp_node_type_ie value.(del_sess_req_originating_node) set_del_sess_req_originating_node here value
    else if (ie_type =? GTP_IE_FULLY_QUAL_TUNN_ENDPT_IDNT) && (instance =? GTP_IE_INSTANCE_ZERO) then into decode_gtp_fully_qual_tunn_endpt_idnt_ie value.(del_sess_req_sender_fteid_ctl_plane) set_del_sess_req_sender_fteid_ctl_plane here value
    else if (ie_type =? GTP_IE_UE_TIME_ZONE) && (instance =? GTP_IE_INSTANCE_ZERO) then into decode_gtp_ue_time_zone_ie value.(del_sess_req_ue_time_zone) set_del_sess_req_ue_time_zone here value
    else if (ie_type =? GTP_IE_ULI_TIMESTAMP) && (instance =? GTP_IE_INSTANCE_ZERO) then into decode_gtp_uli_timestamp_ie value.(del_sess_req_uli_timestamp) set_del_sess_req_uli_timestamp here value
    else if (ie_type =? GTP_IE_RAN_NAS_CAUSE) && (instance =? GTP_IE_INSTANCE_ZERO) then into decode_gtp_ran_nas_cause_ie value.(del_sess_req_ran_nas_release_cause) set_del_sess_req_ran_nas_release_cause here value
    else if (ie_type =? GTP_IE_TWAN_IDENTIFIER) && (instance =? GTP_IE_INSTANCE_ZERO) then into decode_gtp_twan_identifier_ie value.(del_sess_req_twan_identifier) set_del_sess_req_twan_identifier here value
    else if (ie_type =? GTP_IE_TWAN_IDNT_TS) && (instance =? GTP_IE_INSTANCE_ZERO) then into decode_gtp_twan_idnt_ts_ie value.(del_sess_req_twan_idnt_ts) set_del_sess_req_twan_idnt_ts here value
    else if (ie_type =? GTP_IE_OVRLD_CTL_INFO) && (instance =? GTP_IE_INSTANCE_ZERO) then into decode_gtp_ovrld_ctl_info_ie value.(del_sess_req_mmes4_sgsns_ovrld_ctl_info) set_del_sess_req_mmes4_sgsns_ovrld_ctl_info here value
    else if (ie_type =? GTP_IE_OVRLD_CTL_INFO) && (instance =? GTP_IE_INSTANCE_ONE) then into decode_gtp_ovrld_ctl_info_ie value.(del_sess_req_sgws_ovrld_ctl_info) set_del_sess_req_sgws_ovrld_ctl_info here value
    else if (ie_type =? GTP_IE_OVRLD_CTL_INFO) && (instance =? GTP_IE_INSTANCE_TWO) then into decode_gtp_ovrld_ctl_info_ie value.(del_sess_req_twanepdgs_ovrld_ctl_info) set_del_sess_req_twanepdgs_ovrld_ctl_info here value
    else if (ie_type =? GTP_IE_TWAN_IDENTIFIER) && (instance =? GTP_IE_INSTANCE_ONE) then into decode_gtp_twan_identifier_ie value.(del_sess_req_wlan_loc_info) set_del_sess_req_wlan_loc_info here value
    else if (ie_type =? GTP_IE_TWAN_IDNT_TS) && (instance =? GTP_IE_INSTANCE_ONE) then into decode_gtp_twan_idnt_ts_ie value.(del_sess_req_wlan_loc_ts) set_del_sess_req_wlan_loc_ts here value
    else if (ie_type =? GTP_IE_IP_ADDRESS) && (instance =? GTP_IE_INSTANCE_ZERO) then into decode_gtp_ip_address_ie value.(del_sess_req_ue_local_ip_addr) set_del_sess_req_ue_local_ip_addr here value
    else if (ie_type =? GTP_IE_PORT_NUMBER) && (instance =? GTP_IE_INSTANCE_ZERO) then into decode_gtp_port_number_ie value.(del_sess_req_ue_udp_port) set_del_sess_req_ue_udp_port here value
    else if (ie_type =? GTP_IE_EXTNDED_PROT_CFG_OPTS) && (instance =? GTP_IE_INSTANCE_ZERO) then into decode_gtp_extnded_prot_cfg_opts_ie value.(del_sess_req_epco) set_del_sess_req_epco here value
    else if (ie_type =? GTP_IE_PORT_NUMBER) && (instance =? GTP_IE_INSTANCE_ONE) then into decode_gtp_port_number_ie value.(del_sess_req_ue_tcp_port) set_del_sess_req_ue_tcp_port here value
    else if (ie_type =? GTP_IE_SECDRY_RAT_USAGE_DATA_RPT) && (instance =? GTP_IE_INSTANCE_ZERO) then into decode_gtp_secdry_rat_usage_data_rpt_ie value.(del_sess_req_secdry_rat_usage_data_rpt) set_del_sess_req_secdry_rat_usage_data_rpt here value
    else if ie_type =? GTP_IE_PRIV_EXT then into decode_gtp_priv_ext_ie value.(del_sess_req_priv_ext) set_del_sess_req_priv_ext here value
    else skip_gie here value).

Definition decode_gtp_mod_bearer_response__load_ctl_info_ie : gtp_mod_bearer_response__load_ctl_info_ie_t -> ie_decoder gtp_mod_bearer_response__load_ctl_info_ie_t :=
  dec_gtp_group set_gtp_mod_bearer_response__load_ctl_info_header 0 (fun '(ie_type, instance) here value =>
    if (ie_type =? GTP_IE_SEQUENCE_NUMBER) && (instance =? GTP_IE_INSTANCE_ZERO) then into decode_gtp_sequence_number_ie value.(gtp_mod_bearer_response__load_ctl_info_load_ctl_seqn_nbr) set_gtp_mod_bearer_response__load_ctl_info_load_ctl_seqn_nbr here value
    else if (ie_type =? GTP_IE_METRIC) && (instance =? GTP_IE_INSTANCE_ZERO) then into decode_gtp_metric_ie value.(gtp_mod_bearer_response__load_ctl_info_load_metric) set_gtp_mod_bearer_response__load_ctl_info_load_metric here value
    else if (ie_type =? GTP_IE_APN_AND_RLTV_CAP) && (instance =? GTP_IE_INSTANCE_ZERO) then into decode_gtp_apn_and_rltv_cap_ie value.(gtp_mod_bearer_response__load_ctl_info_list_of_apn_and_rltv_cap) set_gtp_mod_bearer_response__load_ctl_info_list_of_apn_and_rltv_cap here value
    else skip_gie here value).

Definition decode_upd_pdn_conn_set_rsp : upd_pdn_conn_set_rsp_t -> ie_decoder upd_pdn_conn_set_rsp_t :=
  dec_gtp_message upd_pdn_conn_set_rsp_header set_upd_pdn_conn_set_rsp_header id (fun '(ie_type, instance) here value =>
    if (ie_type =? GTP_IE_CAUSE) && (instance =? GTP_IE_INSTANCE_ZERO) then into decode_gtp_cause_ie value.(upd_pdn_conn_set_rsp_cause) set_upd_pdn_conn_set_rsp_cause here value
    else if (ie_type =? GTP_IE_FQCSID) && (instance =? GTP_IE_INSTANCE_ZERO) then into decode_gtp_fqcsid_ie value.(upd_pdn_conn_set_rsp_pgw_fqcsid) set_upd_pdn_conn_set_rsp_pgw_fqcsid here value
    else if (ie_type =? GTP_IE_RECOVERY) && (instance =? GTP_IE_INSTANCE_ZERO) then into decode_gtp_recovery_ie value.(upd_pdn_conn_set_rsp_recovery) set_upd_pdn_conn_set_rsp_recovery here value
    else if ie_type =? GTP_IE_PRIV_EXT then into decode_gtp_priv_ext_ie value.(upd_pdn_conn_set_rsp_priv_ext) set_upd_pdn_conn_set_rsp_priv_ext here value
    else skip_gie here value).

Definition decode_gtp_bearer_rsrc_command__overload_ctl_info_ie : gtp_bearer_rsrc_command__overload_ctl_info_ie_t -> ie_decoder gtp_bearer_rsrc_command__overload_ctl_info_ie_t :=
  dec_gtp_group set_gtp_bearer_rsrc_command__overload_ctl_info_header 0 (fun '(ie_type, instance) here value =>
    if (ie_type =? GTP_IE_SEQUENCE_NUMBER) && (instance =? GTP_IE_INSTANCE_ZERO) then into decode_gtp_sequence_number_ie value.(gtp_bearer_rsrc_command__overload_ctl_info_ovrld_ctl_seqn_nbr) set_gtp_bearer_rsrc_command__overload_ctl_info_ovrld_ctl_seqn_nbr here value
    else if (ie_type =? GTP_IE_METRIC) && (instance =? GTP_IE_INSTANCE_ZERO) then into decode_gtp_metric_ie value.(gtp_bearer_rsrc_command__overload_ctl_info_ovrld_reduction_metric) set_gtp_bearer_rsrc_command__overload_ctl_info_ovrld_reduction_metric here value
    else if (ie_type =? GTP_IE_EPC_TIMER) && (instance =? GTP_IE_INSTANCE_ZERO) then into decode_gtp_epc_timer_ie value.(gtp_bearer_rsrc_command__overload_ctl_info_prd_of_validity) set_gtp_bearer_rsrc_command__overload_ctl_info_prd_of_validity here value
    else skip_gie here value).

Definition decode_stop_paging_indctn : stop_paging_indctn_t -> ie_decoder stop_paging_indctn_t :=
  dec_gtp_message stop_paging_indctn_header set_stop_paging_indctn_header id (fun '(ie_type, instance) here value =>
    if (ie_type =? GTP_IE_IMSI) && (instance =? GTP_IE_INSTANCE_ZERO) then into decode_gtp_imsi_ie value.(stop_paging_indctn_imsi) set_stop_paging_indctn_imsi here value
    else if ie_type =? GTP_IE_PRIV_EXT then into decode_gtp_priv_ext_ie value.(stop_paging_indctn_priv_ext) set_stop_paging_indctn_priv_ext here value
    else skip_gie here value).

Definition decode_create_bearer_rsp : create_bearer_rsp_t -> ie_decoder create_bearer_rsp_t :=
  dec_gtp_message create_bearer_rsp_header set_create_bearer_rsp_header id (fun '(ie_type, instance) here value =>
    if (ie_type =? GTP_IE_CAUSE) && (instance =? GTP_IE_INSTANCE_ZERO) then into decode_gtp_cause_ie value.(create_bearer_rsp_cause) set_create_bearer_rsp_cause here value
    else if (ie_type =? GTP_IE_BEARER_CONTEXT) && (instance =? GTP_IE_INSTANCE_ZERO) then into decode_gtp_create_bearer_response_bearer_ctxt_ie value.(create_bearer_rsp_bearer_contexts) set_create_bearer_rsp_bearer_contexts here value
    else if (ie_type =? GTP_IE_RECOVERY) && (instance =? GTP_IE_INSTANCE_ZERO) then into decode_gtp_recovery_ie value.(create_bearer_rsp_recovery) set_create_bearer_rsp_recovery here value
    else if (ie_type =? GTP_IE_FQCSID) && (instance =? GTP_IE_INSTANCE_ZERO) then into decode_gtp_fqcsid_ie value.(create_bearer_rsp_mme_fqcsid) set_create_bearer_rsp_mme_fqcsid here value
    else if (ie_type =? GTP_IE_FQCSID) && (instance =? GTP_IE_INSTANCE_ONE) then into decode_gtp_fqcsid_ie value.(create_bearer_rsp_sgw_fqcsid) set_create_bearer_rsp_sgw_fqcsid here value
    else if (ie_type =? GTP_IE_FQCSID) && (instance =? GTP_IE_INSTANCE_TWO) then into decode_gtp_fqcsid_ie value.(create_bearer_rsp_epdg_fqcsid) set_create_bearer_rsp_epdg_fqcsid here value
    else if (ie_type =? GTP_IE_FQCSID) && (instance =? GTP_IE_INSTANCE_THREE) then into decode_gtp_fqcsid_ie value.(create_bearer_rsp_twan_fqcsid) set_create_bearer_rsp_twan_fqcsid here value
    else if (ie_type =? GTP_IE_PROT_CFG_OPTS) && (instance =? GTP_IE_INSTANCE_ZERO) then into decode_gtp_prot_cfg_opts_ie value.(create_bearer_rsp_pco) set_create_bearer_rsp_pco here value
    else if (ie_type =? GTP_IE_UE_TIME_ZONE) && (instance =? GTP_IE_INSTANCE_ZERO) then into decode_gtp_ue_time_zone_ie value.(create_bearer_rsp_ue_time_zone) set_create_bearer_rsp_ue_time_zone here value
    else if (ie_type =? GTP_IE_USER_LOC_INFO) && (instance =? GTP_IE_INSTANCE_ZERO) then into decode_gtp_user_loc_info_ie value.(create_bearer_rsp_uli) set_create_bearer_rsp_uli here value
    else if (ie_type =? GTP_IE_TWAN_IDENTIFIER) && (instance =? GTP_IE_INSTANCE_ZERO) then into decode_gtp_twan_identifier_ie value.(create_bearer_rsp_twan_identifier) set_create_bearer_rsp_twan_identifier here value
    else if (ie_type =? GTP_IE_OVRLD_CTL_INFO) && (instance =? GTP_IE_INSTANCE_ZERO) then into decode_gtp_ovrld_ctl_info_ie value.(create_bearer_rsp_mmes4_sgsns_ovrld_ctl_info) set_create_bearer_rsp_mmes4_sgsns_ovrld_ctl_info here value
    else if (ie_type =? GTP_IE_OVRLD_CTL_INFO) && (instance =? GTP_IE_INSTANCE_ONE) then into decode_gtp_ovrld_ctl_info_ie value.(create_bearer_rsp_sgws_ovrld_ctl_info) set_create_bearer_rsp_sgws_ovrld_ctl_info here value
    else if (ie_type =? GTP_IE_PRES_RPTNG_AREA_INFO) && (instance =? GTP_IE_INSTANCE_ZERO) then into decode_gtp_pres_rptng_area_info_ie value.(create_bearer_rsp_pres_rptng_area_info) set_create_bearer_rsp_pres_rptng_area_info here value
    else if (ie_type =? GTP_IE_IP_ADDRESS) && (instance =? GTP_IE_INSTANCE_ZERO) then into decode_gtp_ip_address_ie value.(create_bearer_rsp_mmes4_sgsn_idnt) set_create_bearer_rsp_mmes4_sgsn_idnt here value
    else if (ie_type =? GTP_IE_OVRLD_CTL_INFO) && (instance =? GTP_IE_INSTANCE_TWO) then into decode_gtp_ovrld_ctl_info_ie value.(create_bearer_rsp_twanepdgs_ovrld_ctl_info) set_create_bearer_rsp_twanepdgs_ovrld_ctl_info here value
    else if (ie_type =? GTP_IE_TWAN_IDENTIFIER) && (instance =? GTP_IE_INSTANCE_ONE) then into decode_gtp_twan_identifier_ie value.(create_bearer_rsp_wlan_loc_info) set_create_bearer_rsp_wlan_loc_info here value
    else if (ie_type =? GTP_IE_TWAN_IDNT_TS) && (instance =? GTP_IE_INSTANCE_ONE) then into decode_gtp_twan_idnt_ts_ie value.(create_bearer_rsp_wlan_loc_ts) set_create_bearer_rsp_wlan_loc_ts here value
    else if (ie_type =? GTP_IE_IP_ADDRESS) && (instance =? GTP_IE_INSTANCE_ZERO) then into decode_gtp_ip_address_ie value.(create_bearer_rsp_ue_local_ip_addr) set_create_bearer_rsp_ue_local_ip_addr here value
    else if (ie_type =? GTP_IE_PORT_NUMBER) && (instance =? GTP_IE_INSTANCE_ZERO) then into decode_gtp_port_number_ie value.(create_bearer_rsp_ue_udp_port) set_create_bearer_rsp_ue_udp_port here value
    else if (ie_type =? GTP_IE_FULL_QUAL_CNTNR) && (instance =? GTP_IE_INSTANCE_ZERO) then into decode_gtp_full_qual_cntnr_ie value.(create_bearer_rsp_nbifom_cntnr) set_create_bearer_rsp_nbifom_cntnr here value
    else if (ie_type =? GTP_IE_PORT_NUMBER) && (instance =? GTP_IE_INSTANCE_ONE) then into decode_gtp_port_number_ie value.(create_bearer_rsp_ue_tcp_port) set_create_bearer_rsp_ue_tcp_port here value
    else if ie_type =? GTP_IE_PRIV_EXT then into decode_gtp_priv_ext_ie value.(create_bearer_rsp_priv_ext) set_create_bearer_rsp_priv_ext here value
    else skip_gie here value).

Definition decode_gtp_mod_acc_bearers_response__load_ctl_info_ie : gtp_mod_acc_bearers_response__load_ctl_info_ie_t -> ie_decoder gtp_mod_acc_bearers_response__load_ctl_info_ie_t :=
  dec_gtp_group set_gtp_mod_acc_bearers_response__load_ctl_info_header 0 (fun '(ie_type, instance) here value =>
    if (ie_type =? GTP_IE_SEQUENCE_NUMBER) && (instance =? GTP_IE_INSTANCE_ZERO) then into decode_gtp_sequence_number_ie value.(gtp_mod_acc_bearers_response__load_ctl_info_load_ctl_seqn_nbr) set_gtp_mod_acc_bearers_response__load_ctl_info_load_ctl_seqn_nbr here value
    else if (ie_type =? GTP_IE_METRIC) && (instance =? GTP_IE_INSTANCE_ZERO) then into decode_gtp_metric_ie value.(gtp_mod_acc_bearers_response__load_ctl_info_load_metric) set_gtp_mod_acc_bearers_response__load_ctl_info_load_metric here value
    else skip_gie here value).

Definition decode_rmt_ue_rpt_ack : rmt_ue_rpt_ack_t -> ie_decoder rmt_ue_rpt_ack_t :=
  dec_gtp_message rmt_ue_rpt_ack_header set_rmt_ue_rpt_ack_header id (fun '(ie_type, instance) here value =>
    if (ie_type =? GTP_IE_CAUSE) && (instance =? GTP_IE_INSTANCE_ZERO) then into decode_gtp_cause_ie value.(rmt_ue_rpt_ack_cause) set_rmt_ue_rpt_ack_cause here value
    else if ie_type =? GTP_IE_PRIV_EXT then into decode_gtp_priv_ext_ie value.(rmt_ue_rpt_ack_priv_ext) set_rmt_ue_rpt_ack_priv_ext here value
    else skip_gie here value).

Definition decode_create_fwdng_tunn_req : create_fwdng_tunn_req_t -> ie_decoder create_fwdng_tunn_req_t :=
  dec_gtp_message create_fwdng_tunn_req_header set_create_fwdng_tunn_req_header id (fun '(ie_type, instance) here value =>
    if (ie_type =? GTP_IE_S103_PDN_DATA_FWDNG_INFO) && (instance =? GTP_IE_INSTANCE_ZERO) then into decode_gtp_s103_pdn_data_fwdng_info_ie value.(create_fwdng_tunn_req_s103_pdn_data_fwdng_info) set_create_fwdng_tunn_req_s103_pdn_data_fwdng_info here value
    else if ie_type =? GTP_IE_PRIV_EXT then into decode_gtp_priv_ext_ie value.(create_fwdng_tunn_req_priv_ext) set_create_fwdng_tunn_req_priv_ext here value
    else skip_gie here value).

Definition decode_upd_pdn_conn_set_req : upd_pdn_conn_set_req_t -> ie_decoder upd_pdn_conn_set_req_t :=
  dec_gtp_message upd_pdn_conn_set_req_header set_upd_pdn_conn_set_req_header id (fun '(ie_type, instance) here value =>
    if (ie_type =? GTP_IE_FQCSID) && (instance =? GTP_IE_INSTANCE_ZERO) then into decode_gtp_fqcsid_ie value.(upd_pdn_conn_set_req_mme_fqcsid) set_upd_pdn_conn_set_req_mme_fqcsid here value
    else if (ie_type =? GTP_IE_FQCSID) && (instance =? GTP_IE_INSTANCE_ONE) then into decode_gtp_fqcsid_ie value.(upd_pdn_conn_set_req_sgw_fqcsid) set_upd_pdn_conn_set_req_sgw_fqcsid here value
    else if ie_type =? GTP_IE_PRIV_EXT then into decode_gtp_priv_ext_ie value.(upd_pdn_conn_set_req_priv_ext) set_upd_pdn_conn_set_req_priv_ext here value
    else skip_gie here value).

Definition decode_gtp_del_sess_response__overload_ctl_info_ie : gtp_del_sess_response__overload_ctl_info_ie_t -> ie_decoder gtp_del_sess_response__overload_ctl_info_ie_t :=
  dec_gtp_group set_gtp_del_sess_response__overload_ctl_info_header 0 (fun '(ie_type, instance) here value =>
    if (ie_type =? GTP_IE_SEQUENCE_NUMBER) && (instance =? GTP_IE_INSTANCE_ZERO) then into decode_gtp_sequence_number_ie value.(gtp_del_sess_response__overload_ctl_info_ovrld_ctl_seqn_nbr) set_gtp_del_sess_response__overload_ctl_info_ovrld_ctl_seqn_nbr here value
    else if (ie_type =? GTP_IE_METRIC) && (instance =? GTP_IE_INSTANCE_ZERO) then into decode_gtp_metric_ie value.(gtp_del_sess_response__overload_ctl_info_ovrld_reduction_metric) set_gtp_del_sess_response__overload_ctl_info_ovrld_reduction_metric here value
    else if (ie_type =? GTP_IE_EPC_TIMER) && (instance =? GTP_IE_INSTANCE_ZERO) then into decode_gtp_epc_timer_ie value.(gtp_del_sess_response__overload_ctl_info_prd_of_validity) set_gtp_del_sess_response__overload_ctl_info_prd_of_validity here value
    else if (ie_type =? GTP_IE_ACC_PT_NAME) && (instance =? GTP_IE_INSTANCE_ZERO) then into decode_gtp_acc_pt_name_ie value.(gtp_del_sess_response__overload_ctl_info_apn) set_gtp_del_sess_response__overload_ctl_info_apn here value
    else skip_gie here value).

Definition decode_gtp_mod_acc_bearers_request__bearer_ctxt_to_be_removed_ie : gtp_mod_acc_bearers_request__bearer_ctxt_to_be_removed_ie_t -> ie_decoder gtp_mod_acc_bearers_request__bearer_ctxt_to_be_removed_ie_t :=
  dec_gtp_group set_gtp_mod_acc_bearers_request__bearer_ctxt_to_be_removed_header 0 (fun '(ie_type, instance) here value =>
    if (ie_type =? GTP_IE_EPS_BEARER_ID) && (instance =? GTP_IE_INSTANCE_ZERO) then into decode_gtp_eps_bearer_id_ie value.(gtp_mod_acc_bearers_request__bearer_ctxt_to_be_removed_eps_bearer_id) set_gtp_mod_acc_bearers_request__bearer_ctxt_to_be_removed_eps_bearer_id here value
    else skip_gie here value).

Definition decode_gtp_create_indir_data_fwdng_tunn_response__bearer_ctxt_ie : gtp_create_indir_data_fwdng_tunn_response__bearer_ctxt_ie_t -> ie_decoder gtp_create_indir_data_fwdng_tunn_response__bearer_ctxt_ie_t :=
  dec_gtp_group set_gtp_create_indir_data_fwdng_tunn_response__bearer_ctxt_header 0 (fun '(ie_type, instance) here value =>
    if (ie_type =? GTP_IE_EPS_BEARER_ID) && (instance =? GTP_IE_INSTANCE_ZERO) then into decode_gtp_eps_bearer_id_ie value.(gtp_create_indir_data_fwdng_tunn_response__bearer_ctxt_eps_bearer_id) set_gtp_create_indir_data_fwdng_tunn_response__bearer_ctxt_eps_bearer_id here value
    else if (ie_type =? GTP_IE_CAUSE) && (instance =? GTP_IE_INSTANCE_ZERO) then into decode_gtp_cause_ie value.(gtp_create_indir_data_fwdng_tunn_response__bearer_ctxt_cause) set_gtp_create_indir_data_fwdng_tunn_response__bearer_ctxt_cause here value
    else if (ie_type =? GTP_IE_FULLY_QUAL_TUNN_ENDPT_IDNT) && (instance =? GTP_IE_INSTANCE_ZERO) then into decode_gtp_fully_qual_tunn_endpt_idnt_ie value.(gtp_create_indir_data_fwdng_tunn_response__bearer_ctxt_s1u_sgw_fteid_dl_data_fwdng) set_gtp_create_indir_data_fwdng_tunn_response__bearer_ctxt_s1u_sgw_fteid_dl_data_fwdng here value
    else if (ie_type =? GTP_IE_FULLY_QUAL_TUNN_ENDPT_IDNT) && (instance =? GTP_IE_INSTANCE_ONE) then into decode_gtp_fully_qual_tunn_endpt_idnt_ie value.(gtp_create_indir_data_fwdng_tunn_response__bearer_ctxt_s12_sgw_fteid_dl_data_fwdng) set_gtp_create_indir_data_fwdng_tunn_response__bearer_ctxt_s12_sgw_fteid_dl_data_fwdng here value
    else if (ie_type =? GTP_IE_FULLY_QUAL_TUNN_ENDPT_IDNT) && (instance =? GTP_IE_INSTANCE_TWO) then into decode_gtp_fully_qual_tunn_endpt_idnt_ie value.(gtp_create_indir_data_fwdng_tunn_response__bearer_ctxt_s4_u_sgw_fteid_dl_data_fwdng) set_gtp_create_indir_data_fwdng_tunn_response__bearer_ctxt_s4_u_sgw_fteid_dl_data_fwdng here value
    else if (ie_type =? GTP_IE_FULLY_QUAL_TUNN_ENDPT_IDNT) && (instance =? GTP_IE_INSTANCE_THREE) then into decode_gtp_fully_qual_tunn_endpt_idnt_ie value.(gtp_create_indir_data_fwdng_tunn_response__bearer_ctxt_sgw_fteid_dl_data_fwdng) set_gtp_create_indir_data_fwdng_tunn_response__bearer_ctxt_sgw_fteid_dl_data_fwdng here value
    else if (ie_type =? GTP_IE_FULLY_QUAL_TUNN_ENDPT_IDNT) && (instance =? GTP_IE_INSTANCE_FOUR) then into decode_gtp_fully_qual_tunn_endpt_idnt_ie value.(gtp_create_indir_data_fwdng_tunn_response__bearer_ctxt_s1u_sgw_fteid_ul_data_fwdng) set_gtp_create_indir_data_fwdng_tunn_response__bearer_ctxt_s1u_sgw_fteid_ul_data_fwdng here value
    else if (ie_type =? GTP_IE_FULLY_QUAL_TUNN_ENDPT_IDNT) && (instance =? GTP_IE_INSTANCE_FIVE) then into decode_gtp_fully_qual_tunn_endpt_idnt_ie value.(gtp_create_indir_data_fwdng_tunn_response__bearer_ctxt_sgw_fteid_ul_data_fwdng) set_gtp_create_indir_data_fwdng_tunn_response__bearer_ctxt_sgw_fteid_ul_data_fwdng here value
    else skip_gie here value).

Definition decode_rel_acc_bearer_req (value : rel_acc_bearer_req_t) : ie_decoder rel_acc_bearer_req_t := fun buf =>
  '(count, header) ← decode_gtpv2c_header_t value.(rel_acc_bearer_req_header) buf;
  Some (u16 count, set_rel_acc_bearer_req_header header value).
