(* ===== verification/GtpGroups.v ===== *)
(** * Groups and messages of GTPv2

    The header of an element of libgtpv2c as an instance of [TlvHeader], and the rules for
    the idioms of src/libgtpv2c/src/gtp_messages_encoder.c and gtp_messages_decoder.c that
    are its own. *)

From S2P Require Import Prelude EncDecBits Codec CodecSpec Tlv GtpIes GtpIesEncoder GtpIesDecoder.
From S2P Require Import GtpIesSpec GtpIesOptional GtpIesLocation GtpMsgs GtpMsgsEncoder GtpMsgsDecoder.

(** ** The header of an element *)

#[global] Instance gtp_tlv_header : TlvHeader ie_header_t (Z * Z) :=
  {| th_layout := layout_gie_header; th_key h := (h.(gie_type), h.(gie_instance)); th_len := gie_len;
     th_read := ie_key_at; th_null := (0, 0) |}.

(** Four zero bytes at the start of a buffer. *)
Lemma holds_null here post : holds here (repeat false 32 ++ post) -> ∃ rest, here = [0; 0; 0; 0] ++ rest.
Proof. intros Hh. apply (holds_octets here [0; 0; 0; 0] post); [by repeat constructor|exact Hh]. Qed.

#[global] Instance gtp_tlv_header_ok : TlvHeaderOk ie_header_t (Z * Z).
Proof.
  split; [done| |].
  - intros h here post Hok Hh. destruct (wbits_gie_header h Hok) as [E Hb]. cbn [th_layout gtp_tlv_header] in Hh.
    rewrite E in Hh. by apply holds_octets in Hh as [rest ->].
  - intros here post Hh. by apply holds_null in Hh as [rest ->].
Qed.

Abbreviation GtpElem := (Elem ie_header_t).
Abbreviation GtpElemOk := (ElemOk ie_header_t (Z * Z)).

(** An unknown element of four zero bytes is passed over. *)
Lemma skip_gie_null {T} here post (v : T) : holds here (repeat false 32 ++ post) -> skip_gie here v = Some (4, v).
Proof. intros Hh. by apply holds_null in Hh as [rest ->]. Qed.

Ltac skip_null ::=
  split; [reflexivity|]; intros ? ? ? Hnull; exact (skip_gie_null _ _ _ Hnull).

(** ** Elements with optional parts as members *)

(** An element whose encoder and decoder agree on its good values. *)
Definition agreed_elem {T} (hdr : T -> ie_header_t) (f : T -> ie_encoder) (g : T -> ie_decoder T) (zero : T)
    (L : T -> layout) (good : T -> Prop) : GtpElem T :=
  {| el_header := hdr; el_encode := f; el_decode := g; el_zero := zero; el_unit := 8; el_short := false;
     el_layout := L; el_good v := good v ∧ layout_ok (layout_gie_header (hdr v)) ∧ 32 < size (L v) ∧ size (L v) mod 8 = 0 |}.

Lemma agreed_elem_ok {T} (hdr : T -> ie_header_t) f g zero L good (body : T -> layout) :
  (∀ v, good v -> agree f g zero (L v) v) -> (∀ v, L v = layout_gie_header (hdr v) ++ body v) ->
  @ElemOk _ _ T _ _ (agreed_elem hdr f g zero L good).
Proof.
  intros Ha Hb. split_elem; cbn; intros v (Hg & Hok & Hs & Hm).
  - by apply Ha.
  - by apply Ha.
  - exists (body v). rewrite Hb, size_app in *. change (size (layout_gie_header _)) with 32 in *.
    split; [done|]. split; [lia|]. split; [divlia|done].
Qed.

(** ** Groups *)

Lemma encodes_gtp_group h m L : places 8 m L ->
  encodes (enc_bits (ecall (encode_ie_header_t h) ⨾ enc_to_bytes ⨾ m)) (layout_gie_header h ++ L)
    (size (layout_gie_header h ++ L) / 8).
Proof.
  intros H. apply encodes_switch. eapply emits_switch_seq; [apply emits_gie_header1|reflexivity|].
  by apply emits_switch_here.
Qed.

Lemma decodes_gtp_group {T} (set_header : ie_header_t -> T -> T) (extra : Z) (short : bool) step zero h body v :
  extra = (if short then 0 else 4) -> group_good h body -> items 0 step (set_header h zero) body v ->
  decodes (dec_gtp_group set_header extra step zero) (layout_gie_header h ++ body)
    (returned short (size (layout_gie_header h ++ body) / 8)) v.
Proof.
  intros Hx (Hok & Hl & Hp) Hi buf post Hh Hs. cbn [th_layout th_len gtp_tlv_header] in Hok, Hl.
  rewrite size_app in *. change (size (layout_gie_header h)) with 32 in *.
  rewrite wbits_app, <- app_assoc in Hh. unfold dec_gtp_group.
  assert (Z.to_nat (size body / 8) <= loop_fuel)%nat as Hf by (unfold loop_fuel; divlia).
  revert Hf. generalize loop_fuel. intros fuel Hf.
  rewrite (decode_gie_header_decodes h Hok buf (wbits body ++ post) Hh) by done. cbn [mbind option_bind].
  pose proof (holds_drop buf _ _ (32 / 8) Hh eq_refl) as Hd.
  rewrite (tlv_loop_items 0 _ _ _ _ fuel _ [] post _ 0 Hi Hd); [|done|lia|lia|divlia|lia|done].
  cbn [mbind option_bind]. rewrite Hx. do 2 f_equal. destruct short; cbn [returned]; divlia.
Qed.

(** A group whose decoder leaves out the header ends in four zero bytes. *)
Definition short_good {Hdr Key} `{TlvHeader Hdr Key} (h : Hdr) (body : layout) : Prop := zero_tail (th_layout h ++ body).

(** ** Messages *)

(** The header of a message whose elements are [body]. *)
Definition gtp_message_good (h : gtpv2c_header_t) (body : layout) : Prop :=
  gtpv2c_header_ok h ∧ layout_ok (layout_gtpv2c_header h) ∧
  8 * (h.(gtpc_message_len) - (if nz h.(gtpc_teid_flag) then 8 else 4)) = size body.

Lemma decodes_gtp_message {T} (header : T -> gtpv2c_header_t) (set_header : gtpv2c_header_t -> T -> T) reset step zero h body v :
  header zero = zero_gtpv2c_header ->
  gtp_message_good h body -> items 0 step (set_header h (reset zero)) body v ->
  decodes (dec_gtp_message header set_header reset step zero) (layout_gtpv2c_header h ++ body) (size body / 8) v.
Proof.
  intros Hz (Ht & Hok & Hl) Hi buf post Hh Hs. rewrite wbits_app, <- app_assoc in Hh. rewrite size_app in Hs.
  pose proof (size_nonneg body). pose proof (size_nonneg (layout_gtpv2c_header h)).
  assert (size (layout_gtpv2c_header h) mod 8 = 0) as Hm
    by (unfold layout_gtpv2c_header; rewrite size_app, size_if; by destruct (_ =? 1)).
  unfold dec_gtp_message. rewrite Hz, (gtpv2c_header_decodes h Hok Ht buf (wbits body ++ post) Hh) by lia.
  cbn [mbind option_bind]. rewrite uwrap_small by lia.
  pose proof (holds_drop buf _ _ (size (layout_gtpv2c_header h) / 8) Hh ltac:(unfold size in *; divlia)) as Hd.
  rewrite (tlv_loop_items 0 _ _ _ _ _ _ [] post _ 0 Hi Hd); [done|done|lia|lia|divlia|lia|unfold loop_fuel; divlia].
Qed.

Lemma places_gtp_header h m L : places 8 m L ->
  places 8 (ecall_at (encode_gtpv2c_header_t h) ⨾ m) (layout_gtpv2c_header h ++ L).
Proof.
  intros H. apply places_seq; [by right| |done]. apply ecall_at_ok; [|done|by apply gtpv2c_header_encodes].
  unfold layout_gtpv2c_header. rewrite size_app, size_if. by destruct (_ =? 1).
Qed.
