(* ===== verification/GtpMsgsSpec.v ===== *)
(** * Wire layouts of the GTPv2 messages and grouped elements

    For each message and group with an encoder and a decoder: the layout of its members
    and the condition for a good value.  A member is used when its encoder and decoder
    agree and a branch of the decoding loop leads to it; a member of which this does not
    hold is absent (zero) in a good value.  A group whose decoder leaves the header out
    of the size it returns ends in four zero bytes ([short_good]).  [ElemOk] instances for
    the groups, [x_encodes] and [x_decodes] for the messages. *)

From S2P Require Import Prelude EncDecBits Codec CodecSpec Tlv GtpIes GtpIesEncoder GtpIesDecoder.
From S2P Require Import GtpIesSpec GtpIesOptional GtpIesLocation GtpMsgs GtpMsgsEncoder GtpMsgsDecoder GtpGroups.

(** ** Elements *)

#[global] Instance gtp_rfsp_index_elem : GtpElem gtp_rfsp_index_ie_t := regular_elem gtp_rfsp_index_header.
#[global] Instance gtp_rfsp_index_elem_ok : GtpElemOk gtp_rfsp_index_ie_t.
Proof. solve_regular. Qed.
#[global] Instance gtp_guti_elem : GtpElem gtp_guti_ie_t := regular_elem gtp_guti_header.
#[global] Instance gtp_guti_elem_ok : GtpElemOk gtp_guti_ie_t.
Proof. solve_regular. Qed.
#[global] Instance gtp_eps_bearer_id_elem : GtpElem gtp_eps_bearer_id_ie_t := regular_elem gtp_eps_bearer_id_header.
#[global] Instance gtp_eps_bearer_id_elem_ok : GtpElemOk gtp_eps_bearer_id_ie_t.
Proof. solve_regular. Qed.
#[global] Instance gtp_mdt_cfg_elem : GtpElem gtp_mdt_cfg_ie_t := regular_elem gtp_mdt_cfg_header.
#[global] Instance gtp_mdt_cfg_elem_ok : GtpElemOk gtp_mdt_cfg_ie_t.
Proof. solve_regular. Qed.
#[global] Instance gtp_ran_nas_cause_elem : GtpElem gtp_ran_nas_cause_ie_t := regular_elem gtp_ran_nas_cause_header.
#[global] Instance gtp_ran_nas_cause_elem_ok : GtpElemOk gtp_ran_nas_cause_ie_t.
Proof. solve_regular. Qed.
#[global] Instance gtp_pdn_type_elem : GtpElem gtp_pdn_type_ie_t := regular_elem gtp_pdn_type_header.
#[global] Instance gtp_pdn_type_elem_ok : GtpElemOk gtp_pdn_type_ie_t.
Proof. solve_regular. Qed.
#[global] Instance gtp_traffic_agg_desc_elem : GtpElem gtp_traffic_agg_desc_ie_t := regular_elem gtp_traffic_agg_desc_header.
#[global] Instance gtp_traffic_agg_desc_elem_ok : GtpElemOk gtp_traffic_agg_desc_ie_t.
Proof. solve_regular. Qed.
#[global] Instance gtp_flow_qlty_of_svc_elem : GtpElem gtp_flow_qlty_of_svc_ie_t := regular_elem gtp_flow_qlty_of_svc_header.
#[global] Instance gtp_flow_qlty_of_svc_elem_ok : GtpElemOk gtp_flow_qlty_of_svc_ie_t.
Proof. solve_regular. Qed.
#[global] Instance gtp_recovery_elem : GtpElem gtp_recovery_ie_t := regular_elem gtp_recovery_header.
#[global] Instance gtp_recovery_elem_ok : GtpElemOk gtp_recovery_ie_t.
Proof. solve_regular. Qed.
#[global] Instance gtp_srvng_plmn_rate_ctl_elem : GtpElem gtp_srvng_plmn_rate_ctl_ie_t := regular_elem gtp_srvng_plmn_rate_ctl_header.
#[global] Instance gtp_srvng_plmn_rate_ctl_elem_ok : GtpElemOk gtp_srvng_plmn_rate_ctl_ie_t.
Proof. solve_regular. Qed.
#[global] Instance gtp_mbms_dist_ack_elem : GtpElem gtp_mbms_dist_ack_ie_t := regular_elem gtp_mbms_dist_ack_header.
#[global] Instance gtp_mbms_dist_ack_elem_ok : GtpElemOk gtp_mbms_dist_ack_ie_t.
Proof. solve_regular. Qed.
#[global] Instance gtp_ue_time_zone_elem : GtpElem gtp_ue_time_zone_ie_t := regular_elem gtp_ue_time_zone_header.
#[global] Instance gtp_ue_time_zone_elem_ok : GtpElemOk gtp_ue_time_zone_ie_t.
Proof. solve_regular. Qed.
#[global] Instance gtp_pres_rptng_area_act_elem : GtpElem gtp_pres_rptng_area_act_ie_t := regular_elem gtp_pres_rptng_area_act_header.
#[global] Instance gtp_pres_rptng_area_act_elem_ok : GtpElemOk gtp_pres_rptng_area_act_ie_t.
Proof. solve_regular. Qed.
#[global] Instance gtp_proc_trans_id_elem : GtpElem gtp_proc_trans_id_ie_t := regular_elem gtp_proc_trans_id_header.
#[global] Instance gtp_proc_trans_id_elem_ok : GtpElemOk gtp_proc_trans_id_ie_t.
Proof. solve_regular. Qed.
#[global] Instance gtp_wlan_offldblty_indctn_elem : GtpElem gtp_wlan_offldblty_indctn_ie_t := regular_elem gtp_wlan_offldblty_indctn_header.
#[global] Instance gtp_wlan_offldblty_indctn_elem_ok : GtpElemOk gtp_wlan_offldblty_indctn_ie_t.
Proof. solve_regular. Qed.
#[global] Instance gtp_uli_timestamp_elem : GtpElem gtp_uli_timestamp_ie_t := regular_elem gtp_uli_timestamp_header.
#[global] Instance gtp_uli_timestamp_elem_ok : GtpElemOk gtp_uli_timestamp_ie_t.
Proof. solve_regular. Qed.
#[global] Instance gtp_max_pckt_loss_rate_elem : GtpElem gtp_max_pckt_loss_rate_ie_t := regular_elem gtp_max_pckt_loss_rate_header.
#[global] Instance gtp_max_pckt_loss_rate_elem_ok : GtpElemOk gtp_max_pckt_loss_rate_ie_t.
Proof. solve_regular. Qed.
#[global] Instance gtp_cn_oper_sel_entity_elem : GtpElem gtp_cn_oper_sel_entity_ie_t := regular_elem gtp_cn_oper_sel_entity_header.
#[global] Instance gtp_cn_oper_sel_entity_elem_ok : GtpElemOk gtp_cn_oper_sel_entity_ie_t.
Proof. solve_regular. Qed.
#[global] Instance gtp_alloc_reten_priority_elem : GtpElem gtp_alloc_reten_priority_ie_t := regular_elem gtp_alloc_reten_priority_header.
#[global] Instance gtp_alloc_reten_priority_elem_ok : GtpElemOk gtp_alloc_reten_priority_ie_t.
Proof. solve_regular. Qed.
#[global] Instance gtp_apn_restriction_elem : GtpElem gtp_apn_restriction_ie_t := regular_elem gtp_apn_restriction_header.
#[global] Instance gtp_apn_restriction_elem_ok : GtpElemOk gtp_apn_restriction_ie_t.
Proof. solve_regular. Qed.
#[global] Instance gtp_ptmsi_signature_elem : GtpElem gtp_ptmsi_signature_ie_t := regular_elem gtp_ptmsi_signature_header.
#[global] Instance gtp_ptmsi_signature_elem_ok : GtpElemOk gtp_ptmsi_signature_ie_t.
Proof. solve_regular. Qed.
#[global] Instance gtp_paging_and_svc_info_elem : GtpElem gtp_paging_and_svc_info_ie_t := regular_elem gtp_paging_and_svc_info_header.
#[global] Instance gtp_paging_and_svc_info_elem_ok : GtpElemOk gtp_paging_and_svc_info_ie_t.
Proof. solve_regular. Qed.
#[global] Instance gtp_ecgi_list_elem : GtpElem gtp_ecgi_list_ie_t := regular_elem gtp_ecgi_list_header.
#[global] Instance gtp_ecgi_list_elem_ok : GtpElemOk gtp_ecgi_list_ie_t.
Proof. solve_regular. Qed.
#[global] Instance gtp_agg_max_bit_rate_elem : GtpElem gtp_agg_max_bit_rate_ie_t := regular_elem gtp_agg_max_bit_rate_header.
#[global] Instance gtp_agg_max_bit_rate_elem_ok : GtpElemOk gtp_agg_max_bit_rate_ie_t.
Proof. solve_regular. Qed.
#[global] Instance gtp_cmplt_req_msg_elem : GtpElem gtp_cmplt_req_msg_ie_t := regular_elem gtp_cmplt_req_msg_header.
#[global] Instance gtp_cmplt_req_msg_elem_ok : GtpElemOk gtp_cmplt_req_msg_ie_t.
Proof. solve_regular. Qed.
#[global] Instance gtp_epc_timer_elem : GtpElem gtp_epc_timer_ie_t := regular_elem gtp_epc_timer_header.
#[global] Instance gtp_epc_timer_elem_ok : GtpElemOk gtp_epc_timer_ie_t.
Proof. solve_regular. Qed.
#[global] Instance gtp_tmgi_elem : GtpElem gtp_tmgi_ie_t := regular_elem gtp_tmgi_header.
#[global] Instance gtp_tmgi_elem_ok : GtpElemOk gtp_tmgi_ie_t.
Proof. solve_regular. Qed.
#[global] Instance gtp_mntrng_evnt_info_elem : GtpElem gtp_mntrng_evnt_info_ie_t := regular_elem gtp_mntrng_evnt_info_header.
#[global] Instance gtp_mntrng_evnt_info_elem_ok : GtpElemOk gtp_mntrng_evnt_info_ie_t.
Proof. solve_regular. Qed.
#[global] Instance gtp_rmt_ue_ip_info_elem : GtpElem gtp_rmt_ue_ip_info_ie_t := regular_elem gtp_rmt_ue_ip_info_header.
#[global] Instance gtp_rmt_ue_ip_info_elem_ok : GtpElemOk gtp_rmt_ue_ip_info_ie_t.
Proof. solve_regular. Qed.
#[global] Instance gtp_bearer_qlty_of_svc_elem : GtpElem gtp_bearer_qlty_of_svc_ie_t := regular_elem gtp_bearer_qlty_of_svc_header.
#[global] Instance gtp_bearer_qlty_of_svc_elem_ok : GtpElemOk gtp_bearer_qlty_of_svc_ie_t.
Proof. solve_regular. Qed.
#[global] Instance gtp_mapped_ue_usage_type_elem : GtpElem gtp_mapped_ue_usage_type_ie_t := regular_elem gtp_mapped_ue_usage_type_header.
#[global] Instance gtp_mapped_ue_usage_type_elem_ok : GtpElemOk gtp_mapped_ue_usage_type_ie_t.
Proof. solve_regular. Qed.
#[global] Instance gtp_local_distgsd_name_elem : GtpElem gtp_local_distgsd_name_ie_t := regular_elem gtp_local_distgsd_name_header.
#[global] Instance gtp_local_distgsd_name_elem_ok : GtpElemOk gtp_local_distgsd_name_ie_t.
Proof. solve_regular. Qed.
#[global] Instance gtp_csg_info_rptng_act_elem : GtpElem gtp_csg_info_rptng_act_ie_t := regular_elem gtp_csg_info_rptng_act_header.
#[global] Instance gtp_csg_info_rptng_act_elem_ok : GtpElemOk gtp_csg_info_rptng_act_ie_t.
Proof. solve_regular. Qed.
#[global] Instance gtp_secdry_rat_usage_data_rpt_elem : GtpElem gtp_secdry_rat_usage_data_rpt_ie_t := regular_elem gtp_secdry_rat_usage_data_rpt_header.
#[global] Instance gtp_secdry_rat_usage_data_rpt_elem_ok : GtpElemOk gtp_secdry_rat_usage_data_rpt_ie_t.
Proof. solve_regular. Qed.
#[global] Instance gtp_rat_type_elem : GtpElem gtp_rat_type_ie_t := regular_elem gtp_rat_type_header.
#[global] Instance gtp_rat_type_elem_ok : GtpElemOk gtp_rat_type_ie_t.
Proof. solve_regular. Qed.
#[global] Instance gtp_charging_id_elem : GtpElem gtp_charging_id_ie_t := regular_elem gtp_charging_id_header.
#[global] Instance gtp_charging_id_elem_ok : GtpElemOk gtp_charging_id_ie_t.
Proof. solve_regular. Qed.
#[global] Instance gtp_counter_elem : GtpElem gtp_counter_ie_t := regular_elem gtp_counter_header.
#[global] Instance gtp_counter_elem_ok : GtpElemOk gtp_counter_ie_t.
Proof. solve_regular. Qed.
#[global] Instance gtp_serving_network_elem : GtpElem gtp_serving_network_ie_t := regular_elem gtp_serving_network_header.
#[global] Instance gtp_serving_network_elem_ok : GtpElemOk gtp_serving_network_ie_t.
Proof. solve_regular. Qed.
#[global] Instance gtp_node_identifier_elem : GtpElem gtp_node_identifier_ie_t := regular_elem gtp_node_identifier_header.
#[global] Instance gtp_node_identifier_elem_ok : GtpElemOk gtp_node_identifier_ie_t.
Proof. solve_regular. Qed.
#[global] Instance gtp_mbms_ip_multcst_dist_elem : GtpElem gtp_mbms_ip_multcst_dist_ie_t := regular_elem gtp_mbms_ip_multcst_dist_header.
#[global] Instance gtp_mbms_ip_multcst_dist_elem_ok : GtpElemOk gtp_mbms_ip_multcst_dist_ie_t.
Proof. solve_regular. Qed.
#[global] Instance gtp_full_qual_cntnr_elem : GtpElem gtp_full_qual_cntnr_ie_t := regular_elem gtp_full_qual_cntnr_header.
#[global] Instance gtp_full_qual_cntnr_elem_ok : GtpElemOk gtp_full_qual_cntnr_ie_t.
Proof. solve_regular. Qed.
#[global] Instance gtp_mbms_data_xfer_abs_time_elem : GtpElem gtp_mbms_data_xfer_abs_time_ie_t := regular_elem gtp_mbms_data_xfer_abs_time_header.
#[global] Instance gtp_mbms_data_xfer_abs_time_elem_ok : GtpElemOk gtp_mbms_data_xfer_abs_time_ie_t.
Proof. solve_regular. Qed.
#[global] Instance gtp_twan_idnt_ts_elem : GtpElem gtp_twan_idnt_ts_ie_t := regular_elem gtp_twan_idnt_ts_header.
#[global] Instance gtp_twan_idnt_ts_elem_ok : GtpElemOk gtp_twan_idnt_ts_ie_t.
Proof. solve_regular. Qed.
#[global] Instance gtp_ptmsi_elem : GtpElem gtp_ptmsi_ie_t := regular_elem gtp_ptmsi_header.
#[global] Instance gtp_ptmsi_elem_ok : GtpElemOk gtp_ptmsi_ie_t.
Proof. solve_regular. Qed.
#[global] Instance gtp_node_type_elem : GtpElem gtp_node_type_ie_t := regular_elem gtp_node_type_header.
#[global] Instance gtp_node_type_elem_ok : GtpElemOk gtp_node_type_ie_t.
Proof. solve_regular. Qed.
#[global] Instance gtp_integer_number_elem : GtpElem gtp_integer_number_ie_t := regular_elem gtp_integer_number_header.
#[global] Instance gtp_integer_number_elem_ok : GtpElemOk gtp_integer_number_ie_t.
Proof. solve_regular. Qed.
#[global] Instance gtp_mbms_sess_dur_elem : GtpElem gtp_mbms_sess_dur_ie_t := regular_elem gtp_mbms_sess_dur_header.
#[global] Instance gtp_mbms_sess_dur_elem_ok : GtpElemOk gtp_mbms_sess_dur_ie_t.
Proof. solve_regular. Qed.
#[global] Instance gtp_metric_elem : GtpElem gtp_metric_ie_t := regular_elem gtp_metric_header.
#[global] Instance gtp_metric_elem_ok : GtpElemOk gtp_metric_ie_t.
Proof. solve_regular. Qed.
#[global] Instance gtp_ciot_optim_supp_indctn_elem : GtpElem gtp_ciot_optim_supp_indctn_ie_t := regular_elem gtp_ciot_optim_supp_indctn_header.
#[global] Instance gtp_ciot_optim_supp_indctn_elem_ok : GtpElemOk gtp_ciot_optim_supp_indctn_ie_t.
Proof. solve_regular. Qed.
#[global] Instance gtp_pdu_numbers_elem : GtpElem gtp_pdu_numbers_ie_t := regular_elem gtp_pdu_numbers_header.
#[global] Instance gtp_pdu_numbers_elem_ok : GtpElemOk gtp_pdu_numbers_ie_t.
Proof. solve_regular. Qed.
#[global] Instance gtp_rab_context_elem : GtpElem gtp_rab_context_ie_t := regular_elem gtp_rab_context_header.
#[global] Instance gtp_rab_context_elem_ok : GtpElemOk gtp_rab_context_ie_t.
Proof. solve_regular. Qed.
#[global] Instance gtp_node_number_elem : GtpElem gtp_node_number_ie_t := regular_elem gtp_node_number_header.
#[global] Instance gtp_node_number_elem_ok : GtpElemOk gtp_node_number_ie_t.
Proof. solve_regular. Qed.
#[global] Instance gtp_full_qual_cause_elem : GtpElem gtp_full_qual_cause_ie_t := regular_elem gtp_full_qual_cause_header.
#[global] Instance gtp_full_qual_cause_elem_ok : GtpElemOk gtp_full_qual_cause_ie_t.
Proof. solve_regular. Qed.
#[global] Instance gtp_ipv4_cfg_parms_elem : GtpElem gtp_ipv4_cfg_parms_ie_t := regular_elem gtp_ipv4_cfg_parms_header.
#[global] Instance gtp_ipv4_cfg_parms_elem_ok : GtpElemOk gtp_ipv4_cfg_parms_ie_t.
Proof. solve_regular. Qed.
#[global] Instance gtp_trace_reference_elem : GtpElem gtp_trace_reference_ie_t := regular_elem gtp_trace_reference_header.
#[global] Instance gtp_trace_reference_elem_ok : GtpElemOk gtp_trace_reference_ie_t.
Proof. solve_regular. Qed.
#[global] Instance gtp_node_features_elem : GtpElem gtp_node_features_ie_t := regular_elem gtp_node_features_header.
#[global] Instance gtp_node_features_elem_ok : GtpElemOk gtp_node_features_ie_t.
Proof. solve_regular. Qed.
#[global] Instance gtp_remote_user_id_elem : GtpElem gtp_remote_user_id_ie_t := regular_elem gtp_remote_user_id_header.
#[global] Instance gtp_remote_user_id_elem_ok : GtpElemOk gtp_remote_user_id_ie_t.
Proof. solve_regular. Qed.
#[global] Instance gtp_port_number_elem : GtpElem gtp_port_number_ie_t := regular_elem gtp_port_number_header.
#[global] Instance gtp_port_number_elem_ok : GtpElemOk gtp_port_number_ie_t.
Proof. solve_regular. Qed.
#[global] Instance gtp_plmn_id_elem : GtpElem gtp_plmn_id_ie_t := regular_elem gtp_plmn_id_header.
#[global] Instance gtp_plmn_id_elem_ok : GtpElemOk gtp_plmn_id_ie_t.
Proof. solve_regular. Qed.
#[global] Instance gtp_mbms_flow_idnt_elem : GtpElem gtp_mbms_flow_idnt_ie_t := regular_elem gtp_mbms_flow_idnt_header.
#[global] Instance gtp_mbms_flow_idnt_elem_ok : GtpElemOk gtp_mbms_flow_idnt_ie_t.
Proof. solve_regular. Qed.
#[global] Instance gtp_hdr_comp_cfg_elem : GtpElem gtp_hdr_comp_cfg_ie_t := regular_elem gtp_hdr_comp_cfg_header.
#[global] Instance gtp_hdr_comp_cfg_elem_ok : GtpElemOk gtp_hdr_comp_cfg_ie_t.
Proof. solve_regular. Qed.
#[global] Instance gtp_sgnllng_priority_indctn_elem : GtpElem gtp_sgnllng_priority_indctn_ie_t := regular_elem gtp_sgnllng_priority_indctn_header.
#[global] Instance gtp_sgnllng_priority_indctn_elem_ok : GtpElemOk gtp_sgnllng_priority_indctn_ie_t.
Proof. solve_regular. Qed.
#[global] Instance gtp_mbms_time_to_data_xfer_elem : GtpElem gtp_mbms_time_to_data_xfer_ie_t := regular_elem gtp_mbms_time_to_data_xfer_header.
#[global] Instance gtp_mbms_time_to_data_xfer_elem_ok : GtpElemOk gtp_mbms_time_to_data_xfer_ie_t.
Proof. solve_regular. Qed.
#[global] Instance gtp_trgt_id_elem : GtpElem gtp_trgt_id_ie_t := regular_elem gtp_trgt_id_header.
#[global] Instance gtp_trgt_id_elem_ok : GtpElemOk gtp_trgt_id_ie_t.
Proof. solve_regular. Qed.
#[global] Instance gtp_mbms_flags_elem : GtpElem gtp_mbms_flags_ie_t := regular_elem gtp_mbms_flags_header.
#[global] Instance gtp_mbms_flags_elem_ok : GtpElemOk gtp_mbms_flags_ie_t.
Proof. solve_regular. Qed.
#[global] Instance gtp_trans_idnt_elem : GtpElem gtp_trans_idnt_ie_t := regular_elem gtp_trans_idnt_header.
#[global] Instance gtp_trans_idnt_elem_ok : GtpElemOk gtp_trans_idnt_ie_t.
Proof. solve_regular. Qed.
#[global] Instance gtp_bearer_flags_elem : GtpElem gtp_bearer_flags_ie_t := regular_elem gtp_bearer_flags_header.
#[global] Instance gtp_bearer_flags_elem_ok : GtpElemOk gtp_bearer_flags_ie_t.
Proof. solve_regular. Qed.
#[global] Instance gtp_msec_time_stmp_elem : GtpElem gtp_msec_time_stmp_ie_t := regular_elem gtp_msec_time_stmp_header.
#[global] Instance gtp_msec_time_stmp_elem_ok : GtpElemOk gtp_msec_time_stmp_ie_t.
Proof. solve_regular. Qed.
#[global] Instance gtp_chg_to_rpt_flgs_elem : GtpElem gtp_chg_to_rpt_flgs_ie_t := regular_elem gtp_chg_to_rpt_flgs_header.
#[global] Instance gtp_chg_to_rpt_flgs_elem_ok : GtpElemOk gtp_chg_to_rpt_flgs_ie_t.
Proof. solve_regular. Qed.
#[global] Instance gtp_chg_rptng_act_elem : GtpElem gtp_chg_rptng_act_ie_t := regular_elem gtp_chg_rptng_act_header.
#[global] Instance gtp_chg_rptng_act_elem_ok : GtpElemOk gtp_chg_rptng_act_ie_t.
Proof. solve_regular. Qed.
#[global] Instance gtp_delay_value_elem : GtpElem gtp_delay_value_ie_t := regular_elem gtp_delay_value_header.
#[global] Instance gtp_delay_value_elem_ok : GtpElemOk gtp_delay_value_ie_t.
Proof. solve_regular. Qed.
#[global] Instance gtp_detach_type_elem : GtpElem gtp_detach_type_ie_t := regular_elem gtp_detach_type_header.
#[global] Instance gtp_detach_type_elem_ok : GtpElemOk gtp_detach_type_ie_t.
Proof. solve_regular. Qed.
#[global] Instance gtp_mbms_svc_area_elem : GtpElem gtp_mbms_svc_area_ie_t := regular_elem gtp_mbms_svc_area_header.
#[global] Instance gtp_mbms_svc_area_elem_ok : GtpElemOk gtp_mbms_svc_area_ie_t.
Proof. solve_regular. Qed.
#[global] Instance gtp_chrgng_char_elem : GtpElem gtp_chrgng_char_ie_t := regular_elem gtp_chrgng_char_header.
#[global] Instance gtp_chrgng_char_elem_ok : GtpElemOk gtp_chrgng_char_ie_t.
Proof. solve_regular. Qed.
#[global] Instance gtp_henb_info_rptng_elem : GtpElem gtp_henb_info_rptng_ie_t := regular_elem gtp_henb_info_rptng_header.
#[global] Instance gtp_henb_info_rptng_elem_ok : GtpElemOk gtp_henb_info_rptng_ie_t.
Proof. solve_regular. Qed.
#[global] Instance gtp_throttling_elem : GtpElem gtp_throttling_ie_t := regular_elem gtp_throttling_header.
#[global] Instance gtp_throttling_elem_ok : GtpElemOk gtp_throttling_ie_t.
Proof. solve_regular. Qed.
#[global] Instance gtp_src_rnc_pdcp_ctxt_info_elem : GtpElem gtp_src_rnc_pdcp_ctxt_info_ie_t := regular_elem gtp_src_rnc_pdcp_ctxt_info_header.
#[global] Instance gtp_src_rnc_pdcp_ctxt_info_elem_ok : GtpElemOk gtp_src_rnc_pdcp_ctxt_info_ie_t.
Proof. solve_regular. Qed.
#[global] Instance gtp_hop_counter_elem : GtpElem gtp_hop_counter_ie_t := regular_elem gtp_hop_counter_header.
#[global] Instance gtp_hop_counter_elem_ok : GtpElemOk gtp_hop_counter_ie_t.
Proof. solve_regular. Qed.
#[global] Instance gtp_mbms_sess_idnt_elem : GtpElem gtp_mbms_sess_idnt_ie_t := regular_elem gtp_mbms_sess_idnt_header.
#[global] Instance gtp_mbms_sess_idnt_elem_ok : GtpElemOk gtp_mbms_sess_idnt_ie_t.
Proof. solve_regular. Qed.
#[global] Instance gtp_apn_and_rltv_cap_elem : GtpElem gtp_apn_and_rltv_cap_ie_t := regular_elem gtp_apn_and_rltv_cap_header.
#[global] Instance gtp_apn_and_rltv_cap_elem_ok : GtpElemOk gtp_apn_and_rltv_cap_ie_t.
Proof. solve_regular. Qed.
#[global] Instance gtp_selection_mode_elem : GtpElem gtp_selection_mode_ie_t := regular_elem gtp_selection_mode_header.
#[global] Instance gtp_selection_mode_elem_ok : GtpElemOk gtp_selection_mode_ie_t.
Proof. solve_regular. Qed.
#[global] Instance gtp_up_func_sel_indctn_flgs_elem : GtpElem gtp_up_func_sel_indctn_flgs_ie_t := regular_elem gtp_up_func_sel_indctn_flgs_header.
#[global] Instance gtp_up_func_sel_indctn_flgs_elem_ok : GtpElemOk gtp_up_func_sel_indctn_flgs_ie_t.
Proof. solve_regular. Qed.
#[global] Instance gtp_mbl_equip_idnty_elem : GtpElem gtp_mbl_equip_idnty_ie_t := regular_elem gtp_mbl_equip_idnty_header.
#[global] Instance gtp_mbl_equip_idnty_elem_ok : GtpElemOk gtp_mbl_equip_idnty_ie_t.
Proof. solve_regular. Qed.
#[global] Instance gtp_priv_ext_elem : GtpElem gtp_priv_ext_ie_t := regular_elem gtp_priv_ext_header.
#[global] Instance gtp_priv_ext_elem_ok : GtpElemOk gtp_priv_ext_ie_t.
Proof. solve_regular. Qed.
#[global] Instance gtp_sequence_number_elem : GtpElem gtp_sequence_number_ie_t := regular_elem gtp_sequence_number_header.
#[global] Instance gtp_sequence_number_elem_ok : GtpElemOk gtp_sequence_number_ie_t.
Proof. solve_regular. Qed.
#[global] Instance apn_elem : GtpElem gtp_acc_pt_name_ie_t :=
  agreed_elem gtp_acc_pt_name_header encode_gtp_acc_pt_name_ie decode_gtp_acc_pt_name_ie zero_gtp_acc_pt_name layout_apn apn_good.
#[global] Instance apn_elem_ok : GtpElemOk gtp_acc_pt_name_ie_t.
Proof. exact (agreed_elem_ok _ _ _ _ _ _ _ apn_agree (fun _ => eq_refl)). Qed.
#[global] Instance fqdn_elem : GtpElem gtp_fully_qual_domain_name_ie_t :=
  agreed_elem gtp_fully_qual_domain_name_header encode_gtp_fully_qual_domain_name_ie decode_gtp_fully_qual_domain_name_ie zero_gtp_fully_qual_domain_name layout_fqdn fqdn_good.
#[global] Instance fqdn_elem_ok : GtpElemOk gtp_fully_qual_domain_name_ie_t.
Proof. exact (agreed_elem_ok _ _ _ _ _ _ _ fqdn_agree (fun _ => eq_refl)). Qed.
#[global] Instance tft_elem : GtpElem gtp_eps_bearer_lvl_traffic_flow_tmpl_ie_t :=
  agreed_elem gtp_eps_bearer_lvl_traffic_flow_tmpl_header encode_gtp_eps_bearer_lvl_traffic_flow_tmpl_ie decode_gtp_eps_bearer_lvl_traffic_flow_tmpl_ie zero_gtp_eps_bearer_lvl_traffic_flow_tmpl layout_tft tft_good.
#[global] Instance tft_elem_ok : GtpElemOk gtp_eps_bearer_lvl_traffic_flow_tmpl_ie_t.
Proof. exact (agreed_elem_ok _ _ _ _ _ _ _ tft_agree (fun _ => eq_refl)). Qed.
#[global] Instance load_ctl_elem : GtpElem gtp_load_ctl_info_ie_t :=
  agreed_elem gtp_load_ctl_info_header encode_gtp_load_ctl_info_ie decode_gtp_load_ctl_info_ie zero_gtp_load_ctl_info layout_load_ctl load_ctl_good.
#[global] Instance load_ctl_elem_ok : GtpElemOk gtp_load_ctl_info_ie_t.
Proof. exact (agreed_elem_ok _ _ _ _ _ _ _ load_ctl_agree (fun _ => eq_refl)). Qed.
#[global] Instance ovrld_ctl_elem : GtpElem gtp_ovrld_ctl_info_ie_t :=
  agreed_elem gtp_ovrld_ctl_info_header encode_gtp_ovrld_ctl_info_ie decode_gtp_ovrld_ctl_info_ie zero_gtp_ovrld_ctl_info layout_ovrld_ctl ovrld_ctl_good.
#[global] Instance ovrld_ctl_elem_ok : GtpElemOk gtp_ovrld_ctl_info_ie_t.
Proof. exact (agreed_elem_ok _ _ _ _ _ _ _ ovrld_ctl_agree (fun _ => eq_refl)). Qed.
#[global] Instance paa_elem : GtpElem gtp_pdn_addr_alloc_ie_t :=
  agreed_elem gtp_pdn_addr_alloc_header encode_gtp_pdn_addr_alloc_ie decode_gtp_pdn_addr_alloc_ie zero_gtp_pdn_addr_alloc layout_paa paa_good.
#[global] Instance paa_elem_ok : GtpElemOk gtp_pdn_addr_alloc_ie_t.
Proof. exact (agreed_elem_ok _ _ _ _ _ _ _ paa_agree (fun _ => eq_refl)). Qed.
#[global] Instance gtp_cause_elem : GtpElem gtp_cause_ie_t :=
  agreed_elem gtp_cause_header encode_gtp_cause_ie decode_gtp_cause_ie zero_gtp_cause layout_gtp_cause gtp_cause_good.
#[global] Instance gtp_cause_elem_ok : GtpElemOk gtp_cause_ie_t.
Proof. exact (agreed_elem_ok _ _ _ _ _ _ _ gtp_cause_agree (fun _ => eq_refl)). Qed.
#[global] Instance gtp_fteid_elem : GtpElem gtp_fully_qual_tunn_endpt_idnt_ie_t :=
  agreed_elem gtp_fully_qual_tunn_endpt_idnt_header encode_gtp_fully_qual_tunn_endpt_idnt_ie decode_gtp_fully_qual_tunn_endpt_idnt_ie zero_gtp_fully_qual_tunn_endpt_idnt layout_gtp_fteid gtp_fteid_good.
#[global] Instance gtp_fteid_elem_ok : GtpElemOk gtp_fully_qual_tunn_endpt_idnt_ie_t.
Proof. exact (agreed_elem_ok _ _ _ _ _ _ _ gtp_fteid_agree (fun _ => eq_refl)). Qed.
#[global] Instance msisdn_elem : GtpElem gtp_msisdn_ie_t :=
  agreed_elem gtp_msisdn_header encode_gtp_msisdn_ie decode_gtp_msisdn_ie zero_gtp_msisdn layout_msisdn msisdn_good.
#[global] Instance msisdn_elem_ok : GtpElemOk gtp_msisdn_ie_t.
Proof. exact (agreed_elem_ok _ _ _ _ _ _ _ msisdn_agree (fun _ => eq_refl)). Qed.
#[global] Instance imsi_elem : GtpElem gtp_imsi_ie_t :=
  agreed_elem gtp_imsi_header encode_gtp_imsi_ie decode_gtp_imsi_ie zero_gtp_imsi layout_imsi imsi_good.
#[global] Instance imsi_elem_ok : GtpElemOk gtp_imsi_ie_t.
Proof. exact (agreed_elem_ok _ _ _ _ _ _ _ imsi_agree (fun _ => eq_refl)). Qed.
#[global] Instance pco_elem : GtpElem gtp_prot_cfg_opts_ie_t :=
  agreed_elem gtp_prot_cfg_opts_header encode_gtp_prot_cfg_opts_ie decode_gtp_prot_cfg_opts_ie zero_gtp_prot_cfg_opts layout_pco pco_good.
#[global] Instance pco_elem_ok : GtpElemOk gtp_prot_cfg_opts_ie_t.
Proof. exact (agreed_elem_ok _ _ _ _ _ _ _ pco_agree (fun _ => eq_refl)). Qed.
#[global] Instance apco_elem : GtpElem gtp_addtl_prot_cfg_opts_ie_t :=
  agreed_elem gtp_addtl_prot_cfg_opts_header encode_gtp_addtl_prot_cfg_opts_ie decode_gtp_addtl_prot_cfg_opts_ie zero_gtp_addtl_prot_cfg_opts layout_apco apco_good.
#[global] Instance apco_elem_ok : GtpElemOk gtp_addtl_prot_cfg_opts_ie_t.
Proof. exact (agreed_elem_ok _ _ _ _ _ _ _ apco_agree (fun _ => eq_refl)). Qed.
#[global] Instance epco_elem : GtpElem gtp_extnded_prot_cfg_opts_ie_t :=
  agreed_elem gtp_extnded_prot_cfg_opts_header encode_gtp_extnded_prot_cfg_opts_ie decode_gtp_extnded_prot_cfg_opts_ie zero_gtp_extnded_prot_cfg_opts layout_epco epco_good.
#[global] Instance epco_elem_ok : GtpElemOk gtp_extnded_prot_cfg_opts_ie_t.
Proof. exact (agreed_elem_ok _ _ _ _ _ _ _ epco_agree (fun _ => eq_refl)). Qed.
#[global] Instance indication_elem : GtpElem gtp_indication_ie_t :=
  agreed_elem gtp_indication_header encode_gtp_indication_ie decode_gtp_indication_ie zero_gtp_indication layout_indication indication_good.
#[global] Instance indication_elem_ok : GtpElemOk gtp_indication_ie_t.
Proof. exact (agreed_elem_ok _ _ _ _ _ _ _ indication_agree (fun _ => eq_refl)). Qed.
#[global] Instance fqcsid_elem : GtpElem gtp_fqcsid_ie_t :=
  agreed_elem gtp_fqcsid_header encode_gtp_fqcsid_ie decode_gtp_fqcsid_ie zero_gtp_fqcsid layout_fqcsid fqcsid_good.
#[global] Instance fqcsid_elem_ok : GtpElemOk gtp_fqcsid_ie_t.
Proof. exact (agreed_elem_ok _ _ _ _ _ _ _ fqcsid_agree (fun _ => eq_refl)). Qed.
#[global] Instance uli_elem : GtpElem gtp_user_loc_info_ie_t :=
  agreed_elem gtp_user_loc_info_header encode_gtp_user_loc_info_ie decode_gtp_user_loc_info_ie zero_gtp_user_loc_info layout_uli uli_good.
#[global] Instance uli_elem_ok : GtpElemOk gtp_user_loc_info_ie_t.
Proof. exact (agreed_elem_ok _ _ _ _ _ _ _ uli_agree (fun _ => eq_refl)). Qed.

(** ** Groups and messages *)

Ltac gtp_member := first [member ecall_at_ok|members ecall_at_ok].

(** [gtp_create_sess_request_bearer_ctxt_to_be_created_ie_t] *)
Definition gtp_create_sess_request_bearer_ctxt_to_be_created_body (v : gtp_create_sess_request_bearer_ctxt_to_be_created_ie_t) : layout :=
  opt_layout v.(gtp_create_sess_request_bearer_ctxt_to_be_created_eps_bearer_id) ++
  opt_layout v.(gtp_create_sess_request_bearer_ctxt_to_be_created_tft) ++
  opt_layout v.(gtp_create_sess_request_bearer_ctxt_to_be_created_s1u_enb_fteid) ++
  opt_layout v.(gtp_create_sess_request_bearer_ctxt_to_be_created_s4_u_sgsn_fteid) ++
  opt_layout v.(gtp_create_sess_request_bearer_ctxt_to_be_created_s5s8_u_sgw_fteid) ++
  opt_layout v.(gtp_create_sess_request_bearer_ctxt_to_be_created_s5s8_u_pgw_fteid) ++
  opt_layout v.(gtp_create_sess_request_bearer_ctxt_to_be_created_s12_rnc_fteid) ++
  opt_layout v.(gtp_create_sess_request_bearer_ctxt_to_be_created_s2b_u_epdg_fteid) ++
  opt_layout v.(gtp_create_sess_request_bearer_ctxt_to_be_created_s2a_u_twan_fteid) ++
  opt_layout v.(gtp_create_sess_request_bearer_ctxt_to_be_created_bearer_lvl_qos) ++
  opt_layout v.(gtp_create_sess_request_bearer_ctxt_to_be_created_s11_u_mme_fteid) ++
  [].
Definition gtp_create_sess_request_bearer_ctxt_to_be_created_good (v : gtp_create_sess_request_bearer_ctxt_to_be_created_ie_t) : Prop :=
  group_good v.(gtp_create_sess_request_bearer_ctxt_to_be_created_header) (gtp_create_sess_request_bearer_ctxt_to_be_created_body v) ∧
  opt_good (GTP_IE_EPS_BEARER_ID, GTP_IE_INSTANCE_ZERO) v.(gtp_create_sess_request_bearer_ctxt_to_be_created_eps_bearer_id) ∧
  opt_good (GTP_IE_EPS_BEARER_LVL_TRAFFIC_FLOW_TMPL, GTP_IE_INSTANCE_ZERO) v.(gtp_create_sess_request_bearer_ctxt_to_be_created_tft) ∧
  opt_good (GTP_IE_FULLY_QUAL_TUNN_ENDPT_IDNT, GTP_IE_INSTANCE_ZERO) v.(gtp_create_sess_request_bearer_ctxt_to_be_created_s1u_enb_fteid) ∧
  opt_good (GTP_IE_FULLY_QUAL_TUNN_ENDPT_IDNT, GTP_IE_INSTANCE_ONE) v.(gtp_create_sess_request_bearer_ctxt_to_be_created_s4_u_sgsn_fteid) ∧
  opt_good (GTP_IE_FULLY_QUAL_TUNN_ENDPT_IDNT, GTP_IE_INSTANCE_TWO) v.(gtp_create_sess_request_bearer_ctxt_to_be_created_s5s8_u_sgw_fteid) ∧
  opt_good (GTP_IE_FULLY_QUAL_TUNN_ENDPT_IDNT, GTP_IE_INSTANCE_THREE) v.(gtp_create_sess_request_bearer_ctxt_to_be_created_s5s8_u_pgw_fteid) ∧
  opt_good (GTP_IE_FULLY_QUAL_TUNN_ENDPT_IDNT, GTP_IE_INSTANCE_FOUR) v.(gtp_create_sess_request_bearer_ctxt_to_be_created_s12_rnc_fteid) ∧
  opt_good (GTP_IE_FULLY_QUAL_TUNN_ENDPT_IDNT, GTP_IE_INSTANCE_FIVE) v.(gtp_create_sess_request_bearer_ctxt_to_be_created_s2b_u_epdg_fteid) ∧
  opt_good (GTP_IE_FULLY_QUAL_TUNN_ENDPT_IDNT, GTP_IE_INSTANCE_SIX) v.(gtp_create_sess_request_bearer_ctxt_to_be_created_s2a_u_twan_fteid) ∧
  opt_good (GTP_IE_BEARER_QLTY_OF_SVC, GTP_IE_INSTANCE_ZERO) v.(gtp_create_sess_request_bearer_ctxt_to_be_created_bearer_lvl_qos) ∧
  opt_good (GTP_IE_FULLY_QUAL_TUNN_ENDPT_IDNT, GTP_IE_INSTANCE_SEVEN) v.(gtp_create_sess_request_bearer_ctxt_to_be_created_s11_u_mme_fteid).
#[global] Instance gtp_create_sess_request_bearer_ctxt_to_be_created_elem : GtpElem gtp_create_sess_request_bearer_ctxt_to_be_created_ie_t :=
  {| el_header := gtp_create_sess_request_bearer_ctxt_to_be_created_header; el_encode := encode_gtp_create_sess_request_bearer_ctxt_to_be_created_ie; el_decode := decode_gtp_create_sess_request_bearer_ctxt_to_be_created_ie;
     el_zero := zero_gtp_create_sess_request_bearer_ctxt_to_be_created; el_unit := 8; el_short := true;
     el_layout v := layout_gie_header v.(gtp_create_sess_request_bearer_ctxt_to_be_created_header) ++ gtp_create_sess_request_bearer_ctxt_to_be_created_body v; el_good v := gtp_create_sess_request_bearer_ctxt_to_be_created_good v ∧ short_good v.(gtp_create_sess_request_bearer_ctxt_to_be_created_header) (gtp_create_sess_request_bearer_ctxt_to_be_created_body v) |}.
Lemma gtp_create_sess_request_bearer_ctxt_to_be_created_places v : gtp_create_sess_request_bearer_ctxt_to_be_created_good v -> encodes (encode_gtp_create_sess_request_bearer_ctxt_to_be_created_ie v) (el_layout v) (size (el_layout v) / 8).
Proof.
  intros Hg; unfold gtp_create_sess_request_bearer_ctxt_to_be_created_good in Hg; destruct_and! Hg. apply encodes_gtp_group. unfold gtp_create_sess_request_bearer_ctxt_to_be_created_body.
  place_members ltac:(gtp_member).
Qed.
Lemma gtp_create_sess_request_bearer_ctxt_to_be_created_items v : gtp_create_sess_request_bearer_ctxt_to_be_created_good v ->
  decodes (decode_gtp_create_sess_request_bearer_ctxt_to_be_created_ie zero_gtp_create_sess_request_bearer_ctxt_to_be_created) (el_layout v) (returned true (size (el_layout v) / 8)) v.
Proof.
  intros Hg; unfold gtp_create_sess_request_bearer_ctxt_to_be_created_good in Hg; destruct_and! Hg. apply decodes_gtp_group; [reflexivity|assumption|]. unfold gtp_create_sess_request_bearer_ctxt_to_be_created_body.
  read_rest v.
Qed.
#[global] Instance gtp_create_sess_request_bearer_ctxt_to_be_created_elem_ok : GtpElemOk gtp_create_sess_request_bearer_ctxt_to_be_created_ie_t.
Proof. split; [intros v [Hg _]; by apply gtp_create_sess_request_bearer_ctxt_to_be_created_places|intros v [Hg _]; by apply gtp_create_sess_request_bearer_ctxt_to_be_created_items|by intros v [_ Hz]|intros v [(Hh & _) _]; exact (group_element _ _ Hh)]. Qed.

(** [gtp_create_sess_request_bearer_ctxt_to_be_removed_ie_t] *)
Definition gtp_create_sess_request_bearer_ctxt_to_be_removed_body (v : gtp_create_sess_request_bearer_ctxt_to_be_removed_ie_t) : layout :=
  opt_layout v.(gtp_create_sess_request_bearer_ctxt_to_be_removed_eps_bearer_id) ++
  opt_layout v.(gtp_create_sess_request_bearer_ctxt_to_be_removed_s4_u_sgsn_fteid) ++
  [].
Definition gtp_create_sess_request_bearer_ctxt_to_be_removed_good (v : gtp_create_sess_request_bearer_ctxt_to_be_removed_ie_t) : Prop :=
  group_good v.(gtp_create_sess_request_bearer_ctxt_to_be_removed_header) (gtp_create_sess_request_bearer_ctxt_to_be_removed_body v) ∧
  opt_good (GTP_IE_EPS_BEARER_ID, GTP_IE_INSTANCE_ZERO) v.(gtp_create_sess_request_bearer_ctxt_to_be_removed_eps_bearer_id) ∧
  opt_good (GTP_IE_FULLY_QUAL_TUNN_ENDPT_IDNT, GTP_IE_INSTANCE_ZERO) v.(gtp_create_sess_request_bearer_ctxt_to_be_removed_s4_u_sgsn_fteid).
#[global] Instance gtp_create_sess_request_bearer_ctxt_to_be_removed_elem : GtpElem gtp_create_sess_request_bearer_ctxt_to_be_removed_ie_t :=
  {| el_header := gtp_create_sess_request_bearer_ctxt_to_be_removed_header; el_encode := encode_gtp_create_sess_request_bearer_ctxt_to_be_removed_ie; el_decode := decode_gtp_create_sess_request_bearer_ctxt_to_be_removed_ie;
     el_zero := zero_gtp_create_sess_request_bearer_ctxt_to_be_removed; el_unit := 8; el_short := true;
     el_layout v := layout_gie_header v.(gtp_create_sess_request_bearer_ctxt_to_be_removed_header) ++ gtp_create_sess_request_bearer_ctxt_to_be_removed_body v; el_good v := gtp_create_sess_request_bearer_ctxt_to_be_removed_good v ∧ short_good v.(gtp_create_sess_request_bearer_ctxt_to_be_removed_header) (gtp_create_sess_request_bearer_ctxt_to_be_removed_body v) |}.
Lemma gtp_create_sess_request_bearer_ctxt_to_be_removed_places v : gtp_create_sess_request_bearer_ctxt_to_be_removed_good v -> encodes (encode_gtp_create_sess_request_bearer_ctxt_to_be_removed_ie v) (el_layout v) (size (el_layout v) / 8).
Proof.
  intros Hg; unfold gtp_create_sess_request_bearer_ctxt_to_be_removed_good in Hg; destruct_and! Hg. apply encodes_gtp_group. unfold gtp_create_sess_request_bearer_ctxt_to_be_removed_body.
  place_members ltac:(gtp_member).
Qed.
Lemma gtp_create_sess_request_bearer_ctxt_to_be_removed_items v : gtp_create_sess_request_bearer_ctxt_to_be_removed_good v ->
  decodes (decode_gtp_create_sess_request_bearer_ctxt_to_be_removed_ie zero_gtp_create_sess_request_bearer_ctxt_to_be_removed) (el_layout v) (returned true (size (el_layout v) / 8)) v.
Proof.
  intros Hg; unfold gtp_create_sess_request_bearer_ctxt_to_be_removed_good in Hg; destruct_and! Hg. apply decodes_gtp_group; [reflexivity|assumption|]. unfold gtp_create_sess_request_bearer_ctxt_to_be_removed_body.
  read_rest v.
Qed.
#[global] Instance gtp_create_sess_request_bearer_ctxt_to_be_removed_elem_ok : GtpElemOk gtp_create_sess_request_bearer_ctxt_to_be_removed_ie_t.
Proof. split; [intros v [Hg _]; by apply gtp_create_sess_request_bearer_ctxt_to_be_removed_places|intros v [Hg _]; by apply gtp_create_sess_request_bearer_ctxt_to_be_removed_items|by intros v [_ Hz]|intros v [(Hh & _) _]; exact (group_element _ _ Hh)]. Qed.

(** [gtp_create_sess_request__overload_ctl_info_ie_t] *)
Definition gtp_create_sess_request__overload_ctl_info_body (v : gtp_create_sess_request__overload_ctl_info_ie_t) : layout :=
  opt_layout v.(gtp_create_sess_request__overload_ctl_info_ovrld_ctl_seqn_nbr) ++
  opt_layout v.(gtp_create_sess_request__overload_ctl_info_ovrld_reduction_metric) ++
  opt_layout v.(gtp_create_sess_request__overload_ctl_info_prd_of_validity) ++
  [].
Definition gtp_create_sess_request__overload_ctl_info_good (v : gtp_create_sess_request__overload_ctl_info_ie_t) : Prop :=
  group_good v.(gtp_create_sess_request__overload_ctl_info_header) (gtp_create_sess_request__overload_ctl_info_body v) ∧
  opt_good (GTP_IE_SEQUENCE_NUMBER, GTP_IE_INSTANCE_ZERO) v.(gtp_create_sess_request__overload_ctl_info_ovrld_ctl_seqn_nbr) ∧
  opt_good (GTP_IE_METRIC, GTP_IE_INSTANCE_ZERO) v.(gtp_create_sess_request__overload_ctl_info_ovrld_reduction_metric) ∧
  opt_good (GTP_IE_EPC_TIMER, GTP_IE_INSTANCE_ZERO) v.(gtp_create_sess_request__overload_ctl_info_prd_of_validity).
#[global] Instance gtp_create_sess_request__overload_ctl_info_elem : GtpElem gtp_create_sess_request__overload_ctl_info_ie_t :=
  {| el_header := gtp_create_sess_request__overload_ctl_info_header; el_encode := encode_gtp_create_sess_request__overload_ctl_info_ie; el_decode := decode_gtp_create_sess_request__overload_ctl_info_ie;
     el_zero := zero_gtp_create_sess_request__overload_ctl_info; el_unit := 8; el_short := true;
     el_layout v := layout_gie_header v.(gtp_create_sess_request__overload_ctl_info_header) ++ gtp_create_sess_request__overload_ctl_info_body v; el_good v := gtp_create_sess_request__overload_ctl_info_good v ∧ short_good v.(gtp_create_sess_request__overload_ctl_info_header) (gtp_create_sess_request__overload_ctl_info_body v) |}.
Lemma gtp_create_sess_request__overload_ctl_info_places v : gtp_create_sess_request__overload_ctl_info_good v -> encodes (encode_gtp_create_sess_request__overload_ctl_info_ie v) (el_layout v) (size (el_layout v) / 8).
Proof.
  intros Hg; unfold gtp_create_sess_request__overload_ctl_info_good in Hg; destruct_and! Hg. apply encodes_gtp_group. unfold gtp_create_sess_request__overload_ctl_info_body.
  place_members ltac:(gtp_member).
Qed.
Lemma gtp_create_sess_request__overload_ctl_info_items v : gtp_create_sess_request__overload_ctl_info_good v ->
  decodes (decode_gtp_create_sess_request__overload_ctl_info_ie zero_gtp_create_sess_request__overload_ctl_info) (el_layout v) (returned true (size (el_layout v) / 8)) v.
Proof.
  intros Hg; unfold gtp_create_sess_request__overload_ctl_info_good in Hg; destruct_and! Hg. apply decodes_gtp_group; [reflexivity|assumption|]. unfold gtp_create_sess_request__overload_ctl_info_body.
  read_rest v.
Qed.
#[global] Instance gtp_create_sess_request__overload_ctl_info_elem_ok : GtpElemOk gtp_create_sess_request__overload_ctl_info_ie_t.
Proof. split; [intros v [Hg _]; by apply gtp_create_sess_request__overload_ctl_info_places|intros v [Hg _]; by apply gtp_create_sess_request__overload_ctl_info_items|by intros v [_ Hz]|intros v [(Hh & _) _]; exact (group_element _ _ Hh)]. Qed.

(** [gtp_create_sess_request__remote_ue_ctxt_connected_ie_t] *)
Definition gtp_create_sess_request__remote_ue_ctxt_connected_body (v : gtp_create_sess_request__remote_ue_ctxt_connected_ie_t) : layout :=
  opt_layout v.(gtp_create_sess_request__remote_ue_ctxt_connected_remote_user_id) ++
  opt_layout v.(gtp_create_sess_request__remote_ue_ctxt_connected_rmt_ue_ip_info) ++
  [].
Definition gtp_create_sess_request__remote_ue_ctxt_connected_good (v : gtp_create_sess_request__remote_ue_ctxt_connected_ie_t) : Prop :=
  group_good v.(gtp_create_sess_request__remote_ue_ctxt_connected_header) (gtp_create_sess_request__remote_ue_ctxt_connected_body v) ∧
  opt_good (GTP_IE_REMOTE_USER_ID, GTP_IE_INSTANCE_ZERO) v.(gtp_create_sess_request__remote_ue_ctxt_connected_remote_user_id) ∧
  opt_good (GTP_IE_RMT_UE_IP_INFO, GTP_IE_INSTANCE_ZERO) v.(gtp_create_sess_request__remote_ue_ctxt_connected_rmt_ue_ip_info).
#[global] Instance gtp_create_sess_request__remote_ue_ctxt_connected_elem : GtpElem gtp_create_sess_request__remote_ue_ctxt_connected_ie_t :=
  {| el_header := gtp_create_sess_request__remote_ue_ctxt_connected_header; el_encode := encode_gtp_create_sess_request__remote_ue_ctxt_connected_ie; el_decode := decode_gtp_create_sess_request__remote_ue_ctxt_connected_ie;
     el_zero := zero_gtp_create_sess_request__remote_ue_ctxt_connected; el_unit := 8; el_short := true;
     el_layout v := layout_gie_header v.(gtp_create_sess_request__remote_ue_ctxt_connected_header) ++ gtp_create_sess_request__remote_ue_ctxt_connected_body v; el_good v := gtp_create_sess_request__remote_ue_ctxt_connected_good v ∧ short_good v.(gtp_create_sess_request__remote_ue_ctxt_connected_header) (gtp_create_sess_request__remote_ue_ctxt_connected_body v) |}.
Lemma gtp_create_sess_request__remote_ue_ctxt_connected_places v : gtp_create_sess_request__remote_ue_ctxt_connected_good v -> encodes (encode_gtp_create_sess_request__remote_ue_ctxt_connected_ie v) (el_layout v) (size (el_layout v) / 8).
Proof.
  intros Hg; unfold gtp_create_sess_request__remote_ue_ctxt_connected_good in Hg; destruct_and! Hg. apply encodes_gtp_group. unfold gtp_create_sess_request__remote_ue_ctxt_connected_body.
  place_members ltac:(gtp_member).
Qed.
Lemma gtp_create_sess_request__remote_ue_ctxt_connected_items v : gtp_create_sess_request__remote_ue_ctxt_connected_good v ->
  decodes (decode_gtp_create_sess_request__remote_ue_ctxt_connected_ie zero_gtp_create_sess_request__remote_ue_ctxt_connected) (el_layout v) (returned true (size (el_layout v) / 8)) v.
Proof.
  intros Hg; unfold gtp_create_sess_request__remote_ue_ctxt_connected_good in Hg; destruct_and! Hg. apply decodes_gtp_group; [reflexivity|assumption|]. unfold gtp_create_sess_request__remote_ue_ctxt_connected_body.
  read_rest v.
Qed.
#[global] Instance gtp_create_sess_request__remote_ue_ctxt_connected_elem_ok : GtpElemOk gtp_create_sess_request__remote_ue_ctxt_connected_ie_t.
Proof. split; [intros v [Hg _]; by apply gtp_create_sess_request__remote_ue_ctxt_connected_places|intros v [Hg _]; by apply gtp_create_sess_request__remote_ue_ctxt_connected_items|by intros v [_ Hz]|intros v [(Hh & _) _]; exact (group_element _ _ Hh)]. Qed.

(** [gtp_create_sess_response_bearer_ctxt_created_ie_t] *)
Definition gtp_create_sess_response_bearer_ctxt_created_body (v : gtp_create_sess_response_bearer_ctxt_created_ie_t) : layout :=
  opt_layout v.(gtp_create_sess_response_bearer_ctxt_created_eps_bearer_id) ++
  opt_layout v.(gtp_create_sess_response_bearer_ctxt_created_cause) ++
  opt_layout v.(gtp_create_sess_response_bearer_ctxt_created_s1u_sgw_fteid) ++
  opt_layout v.(gtp_create_sess_response_bearer_ctxt_created_s4_u_sgw_fteid) ++
  opt_layout v.(gtp_create_sess_response_bearer_ctxt_created_s5s8_u_pgw_fteid) ++
  opt_layout v.(gtp_create_sess_response_bearer_ctxt_created_s12_sgw_fteid) ++
  opt_layout v.(gtp_create_sess_response_bearer_ctxt_created_s2b_u_pgw_fteid) ++
  opt_layout v.(gtp_create_sess_response_bearer_ctxt_created_s2a_u_pgw_fteid) ++
  opt_layout v.(gtp_create_sess_response_bearer_ctxt_created_bearer_lvl_qos) ++
  opt_layout v.(gtp_create_sess_response_bearer_ctxt_created_charging_id) ++
  opt_layout v.(gtp_create_sess_response_bearer_ctxt_created_bearer_flags) ++
  opt_layout v.(gtp_create_sess_response_bearer_ctxt_created_s11_u_sgw_fteid) ++
  [].
Definition gtp_create_sess_response_bearer_ctxt_created_good (v : gtp_create_sess_response_bearer_ctxt_created_ie_t) : Prop :=
  group_good v.(gtp_create_sess_response_bearer_ctxt_created_header) (gtp_create_sess_response_bearer_ctxt_created_body v) ∧
  opt_good (GTP_IE_EPS_BEARER_ID, GTP_IE_INSTANCE_ZERO) v.(gtp_create_sess_response_bearer_ctxt_created_eps_bearer_id) ∧
  opt_good (GTP_IE_CAUSE, GTP_IE_INSTANCE_ZERO) v.(gtp_create_sess_response_bearer_ctxt_created_cause) ∧
  opt_good (GTP_IE_FULLY_QUAL_TUNN_ENDPT_IDNT, GTP_IE_INSTANCE_ZERO) v.(gtp_create_sess_response_bearer_ctxt_created_s1u_sgw_fteid) ∧
  opt_good (GTP_IE_FULLY_QUAL_TUNN_ENDPT_IDNT, GTP_IE_INSTANCE_ONE) v.(gtp_create_sess_response_bearer_ctxt_created_s4_u_sgw_fteid) ∧
  opt_good (GTP_IE_FULLY_QUAL_TUNN_ENDPT_IDNT, GTP_IE_INSTANCE_TWO) v.(gtp_create_sess_response_bearer_ctxt_created_s5s8_u_pgw_fteid) ∧
  opt_good (GTP_IE_FULLY_QUAL_TUNN_ENDPT_IDNT, GTP_IE_INSTANCE_THREE) v.(gtp_create_sess_response_bearer_ctxt_created_s12_sgw_fteid) ∧
  opt_good (GTP_IE_FULLY_QUAL_TUNN_ENDPT_IDNT, GTP_IE_INSTANCE_FOUR) v.(gtp_create_sess_response_bearer_ctxt_created_s2b_u_pgw_fteid) ∧
  opt_good (GTP_IE_FULLY_QUAL_TUNN_ENDPT_IDNT, GTP_IE_INSTANCE_FIVE) v.(gtp_create_sess_response_bearer_ctxt_created_s2a_u_pgw_fteid) ∧
  opt_good (GTP_IE_BEARER_QLTY_OF_SVC, GTP_IE_INSTANCE_ZERO) v.(gtp_create_sess_response_bearer_ctxt_created_bearer_lvl_qos) ∧
  opt_good (GTP_IE_CHARGING_ID, GTP_IE_INSTANCE_ZERO) v.(gtp_create_sess_response_bearer_ctxt_created_charging_id) ∧
  opt_good (GTP_IE_BEARER_FLAGS, GTP_IE_INSTANCE_ZERO) v.(gtp_create_sess_response_bearer_ctxt_created_bearer_flags) ∧
  opt_good (GTP_IE_FULLY_QUAL_TUNN_ENDPT_IDNT, GTP_IE_INSTANCE_SIX) v.(gtp_create_sess_response_bearer_ctxt_created_s11_u_sgw_fteid).
#[global] Instance gtp_create_sess_response_bearer_ctxt_created_elem : GtpElem gtp_create_sess_response_bearer_ctxt_created_ie_t :=
  {| el_header := gtp_create_sess_response_bearer_ctxt_created_header; el_encode := encode_gtp_create_sess_response_bearer_ctxt_created_ie; el_decode := decode_gtp_create_sess_response_bearer_ctxt_created_ie;
     el_zero := zero_gtp_create_sess_response_bearer_ctxt_created; el_unit := 8; el_short := false;
     el_layout v := layout_gie_header v.(gtp_create_sess_response_bearer_ctxt_created_header) ++ gtp_create_sess_response_bearer_ctxt_created_body v; el_good := gtp_create_sess_response_bearer_ctxt_created_good |}.
Lemma gtp_create_sess_response_bearer_ctxt_created_places v : gtp_create_sess_response_bearer_ctxt_created_good v -> encodes (encode_gtp_create_sess_response_bearer_ctxt_created_ie v) (el_layout v) (size (el_layout v) / 8).
Proof.
  intros Hg; unfold gtp_create_sess_response_bearer_ctxt_created_good in Hg; destruct_and! Hg. apply encodes_gtp_group. unfold gtp_create_sess_response_bearer_ctxt_created_body.
  place_members ltac:(gtp_member).
Qed.
Lemma gtp_create_sess_response_bearer_ctxt_created_items v : gtp_create_sess_response_bearer_ctxt_created_good v ->
  decodes (decode_gtp_create_sess_response_bearer_ctxt_created_ie zero_gtp_create_sess_response_bearer_ctxt_created) (el_layout v) (returned false (size (el_layout v) / 8)) v.
Proof.
  intros Hg; unfold gtp_create_sess_response_bearer_ctxt_created_good in Hg; destruct_and! Hg. apply decodes_gtp_group; [reflexivity|assumption|]. unfold gtp_create_sess_response_bearer_ctxt_created_body.
  read_rest v.
Qed.
#[global] Instance gtp_create_sess_response_bearer_ctxt_created_elem_ok : GtpElemOk gtp_create_sess_response_bearer_ctxt_created_ie_t.
Proof. split_elem; [apply gtp_create_sess_response_bearer_ctxt_created_places|apply gtp_create_sess_response_bearer_ctxt_created_items|intros v (Hh & _); exact (group_element _ _ Hh)]. Qed.

(** [gtp_create_sess_response_bearer_ctxt_marked_removal_ie_t] *)
Definition gtp_create_sess_response_bearer_ctxt_marked_removal_body (v : gtp_create_sess_response_bearer_ctxt_marked_removal_ie_t) : layout :=
  opt_layout v.(gtp_create_sess_response_bearer_ctxt_marked_removal_eps_bearer_id) ++
  opt_layout v.(gtp_create_sess_response_bearer_ctxt_marked_removal_cause) ++
  [].
Definition gtp_create_sess_response_bearer_ctxt_marked_removal_good (v : gtp_create_sess_response_bearer_ctxt_marked_removal_ie_t) : Prop :=
  group_good v.(gtp_create_sess_response_bearer_ctxt_marked_removal_header) (gtp_create_sess_response_bearer_ctxt_marked_removal_body v) ∧
  opt_good (GTP_IE_EPS_BEARER_ID, GTP_IE_INSTANCE_ZERO) v.(gtp_create_sess_response_bearer_ctxt_marked_removal_eps_bearer_id) ∧
  opt_good (GTP_IE_CAUSE, GTP_IE_INSTANCE_ZERO) v.(gtp_create_sess_response_bearer_ctxt_marked_removal_cause).
#[global] Instance gtp_create_sess_response_bearer_ctxt_marked_removal_elem : GtpElem gtp_create_sess_response_bearer_ctxt_marked_removal_ie_t :=
  {| el_header := gtp_create_sess_response_bearer_ctxt_marked_removal_header; el_encode := encode_gtp_create_sess_response_bearer_ctxt_marked_removal_ie; el_decode := decode_gtp_create_sess_response_bearer_ctxt_marked_removal_ie;
     el_zero := zero_gtp_create_sess_response_bearer_ctxt_marked_removal; el_unit := 8; el_short := true;
     el_layout v := layout_gie_header v.(gtp_create_sess_response_bearer_ctxt_marked_removal_header) ++ gtp_create_sess_response_bearer_ctxt_marked_removal_body v; el_good v := gtp_create_sess_response_bearer_ctxt_marked_removal_good v ∧ short_good v.(gtp_create_sess_response_bearer_ctxt_marked_removal_header) (gtp_create_sess_response_bearer_ctxt_marked_removal_body v) |}.
Lemma gtp_create_sess_response_bearer_ctxt_marked_removal_places v : gtp_create_sess_response_bearer_ctxt_marked_removal_good v -> encodes (encode_gtp_create_sess_response_bearer_ctxt_marked_removal_ie v) (el_layout v) (size (el_layout v) / 8).
Proof.
  intros Hg; unfold gtp_create_sess_response_bearer_ctxt_marked_removal_good in Hg; destruct_and! Hg. apply encodes_gtp_group. unfold gtp_create_sess_response_bearer_ctxt_marked_removal_body.
  place_members ltac:(gtp_member).
Qed.
Lemma gtp_create_sess_response_bearer_ctxt_marked_removal_items v : gtp_create_sess_response_bearer_ctxt_marked_removal_good v ->
  decodes (decode_gtp_create_sess_response_bearer_ctxt_marked_removal_ie zero_gtp_create_sess_response_bearer_ctxt_marked_removal) (el_layout v) (returned true (size (el_layout v) / 8)) v.
Proof.
  intros Hg; unfold gtp_create_sess_response_bearer_ctxt_marked_removal_good in Hg; destruct_and! Hg. apply decodes_gtp_group; [reflexivity|assumption|]. unfold gtp_create_sess_response_bearer_ctxt_marked_removal_body.
  read_rest v.
Qed.
#[global] Instance gtp_create_sess_response_bearer_ctxt_marked_removal_elem_ok : GtpElemOk gtp_create_sess_response_bearer_ctxt_marked_removal_ie_t.
Proof. split; [intros v [Hg _]; by apply gtp_create_sess_response_bearer_ctxt_marked_removal_places|intros v [Hg _]; by apply gtp_create_sess_response_bearer_ctxt_marked_removal_items|by intros v [_ Hz]|intros v [(Hh & _) _]; exact (group_element _ _ Hh)]. Qed.

(** [gtp_create_sess_response__load_ctl_info_ie_t] *)
Definition gtp_create_sess_response__load_ctl_info_body (v : gtp_create_sess_response__load_ctl_info_ie_t) : layout :=
  opt_layout v.(gtp_create_sess_response__load_ctl_info_load_ctl_seqn_nbr) ++
  opt_layout v.(gtp_create_sess_response__load_ctl_info_load_metric) ++
  opt_layout v.(gtp_create_sess_response__load_ctl_info_list_of_apn_and_rltv_cap) ++
  [].
Definition gtp_create_sess_response__load_ctl_info_good (v : gtp_create_sess_response__load_ctl_info_ie_t) : Prop :=
  group_good v.(gtp_create_sess_response__load_ctl_info_header) (gtp_create_sess_response__load_ctl_info_body v) ∧
  opt_good (GTP_IE_SEQUENCE_NUMBER, GTP_IE_INSTANCE_ZERO) v.(gtp_create_sess_response__load_ctl_info_load_ctl_seqn_nbr) ∧
  opt_good (GTP_IE_METRIC, GTP_IE_INSTANCE_ZERO) v.(gtp_create_sess_response__load_ctl_info_load_metric) ∧
  opt_good (GTP_IE_APN_AND_RLTV_CAP, GTP_IE_INSTANCE_ZERO) v.(gtp_create_sess_response__load_ctl_info_list_of_apn_and_rltv_cap).
#[global] Instance gtp_create_sess_response__load_ctl_info_elem : GtpElem gtp_create_sess_response__load_ctl_info_ie_t :=
  {| el_header := gtp_create_sess_response__load_ctl_info_header; el_encode := encode_gtp_create_sess_response__load_ctl_info_ie; el_decode := decode_gtp_create_sess_response__load_ctl_info_ie;
     el_zero := zero_gtp_create_sess_response__load_ctl_info; el_unit := 8; el_short := true;
     el_layout v := layout_gie_header v.(gtp_create_sess_response__load_ctl_info_header) ++ gtp_create_sess_response__load_ctl_info_body v; el_good v := gtp_create_sess_response__load_ctl_info_good v ∧ short_good v.(gtp_create_sess_response__load_ctl_info_header) (gtp_create_sess_response__load_ctl_info_body v) |}.
Lemma gtp_create_sess_response__load_ctl_info_places v : gtp_create_sess_response__load_ctl_info_good v -> encodes (encode_gtp_create_sess_response__load_ctl_info_ie v) (el_layout v) (size (el_layout v) / 8).
Proof.
  intros Hg; unfold gtp_create_sess_response__load_ctl_info_good in Hg; destruct_and! Hg. apply encodes_gtp_group. unfold gtp_create_sess_response__load_ctl_info_body.
  place_members ltac:(gtp_member).
Qed.
Lemma gtp_create_sess_response__load_ctl_info_items v : gtp_create_sess_response__load_ctl_info_good v ->
  decodes (decode_gtp_create_sess_response__load_ctl_info_ie zero_gtp_create_sess_response__load_ctl_info) (el_layout v) (returned true (size (el_layout v) / 8)) v.
Proof.
  intros Hg; unfold gtp_create_sess_response__load_ctl_info_good in Hg; destruct_and! Hg. apply decodes_gtp_group; [reflexivity|assumption|]. unfold gtp_create_sess_response__load_ctl_info_body.
  read_rest v.
Qed.
#[global] Instance gtp_create_sess_response__load_ctl_info_elem_ok : GtpElemOk gtp_create_sess_response__load_ctl_info_ie_t.
Proof. split; [intros v [Hg _]; by apply gtp_create_sess_response__load_ctl_info_places|intros v [Hg _]; by apply gtp_create_sess_response__load_ctl_info_items|by intros v [_ Hz]|intros v [(Hh & _) _]; exact (group_element _ _ Hh)]. Qed.

(** [gtp_create_sess_response__overload_ctl_info_ie_t] *)
Definition gtp_create_sess_response__overload_ctl_info_body (v : gtp_create_sess_response__overload_ctl_info_ie_t) : layout :=
  opt_layout v.(gtp_create_sess_response__overload_ctl_info_ovrld_ctl_seqn_nbr) ++
  opt_layout v.(gtp_create_sess_response__overload_ctl_info_ovrld_reduction_metric) ++
  opt_layout v.(gtp_create_sess_response__overload_ctl_info_prd_of_validity) ++
  opt_layout v.(gtp_create_sess_response__overload_ctl_info_apn) ++
  [].
Definition gtp_create_sess_response__overload_ctl_info_good (v : gtp_create_sess_response__overload_ctl_info_ie_t) : Prop :=
  group_good v.(gtp_create_sess_response__overload_ctl_info_header) (gtp_create_sess_response__overload_ctl_info_body v) ∧
  opt_good (GTP_IE_SEQUENCE_NUMBER, GTP_IE_INSTANCE_ZERO) v.(gtp_create_sess_response__overload_ctl_info_ovrld_ctl_seqn_nbr) ∧
  opt_good (GTP_IE_METRIC, GTP_IE_INSTANCE_ZERO) v.(gtp_create_sess_response__overload_ctl_info_ovrld_reduction_metric) ∧
  opt_good (GTP_IE_EPC_TIMER, GTP_IE_INSTANCE_ZERO) v.(gtp_create_sess_response__overload_ctl_info_prd_of_validity) ∧
  opt_good (GTP_IE_ACC_PT_NAME, GTP_IE_INSTANCE_ZERO) v.(gtp_create_sess_response__overload_ctl_info_apn).
#[global] Instance gtp_create_sess_response__overload_ctl_info_elem : GtpElem gtp_create_sess_response__overload_ctl_info_ie_t :=
  {| el_header := gtp_create_sess_response__overload_ctl_info_header; el_encode := encode_gtp_create_sess_response__overload_ctl_info_ie; el_decode := decode_gtp_create_sess_response__overload_ctl_info_ie;
     el_zero := zero_gtp_create_sess_response__overload_ctl_info; el_unit := 8; el_short := true;
     el_layout v := layout_gie_header v.(gtp_create_sess_response__overload_ctl_info_header) ++ gtp_create_sess_response__overload_ctl_info_body v; el_good v := gtp_create_sess_response__overload_ctl_info_good v ∧ short_good v.(gtp_create_sess_response__overload_ctl_info_header) (gtp_create_sess_response__overload_ctl_info_body v) |}.
Lemma gtp_create_sess_response__overload_ctl_info_places v : gtp_create_sess_response__overload_ctl_info_good v -> encodes (encode_gtp_create_sess_response__overload_ctl_info_ie v) (el_layout v) (size (el_layout v) / 8).
Proof.
  intros Hg; unfold gtp_create_sess_response__overload_ctl_info_good in Hg; destruct_and! Hg. apply encodes_gtp_group. unfold gtp_create_sess_response__overload_ctl_info_body.
  place_members ltac:(gtp_member).
Qed.
Lemma gtp_create_sess_response__overload_ctl_info_items v : gtp_create_sess_response__overload_ctl_info_good v ->
  decodes (decode_gtp_create_sess_response__overload_ctl_info_ie zero_gtp_create_sess_response__overload_ctl_info) (el_layout v) (returned true (size (el_layout v) / 8)) v.
Proof.
  intros Hg; unfold gtp_create_sess_response__overload_ctl_info_good in Hg; destruct_and! Hg. apply decodes_gtp_group; [reflexivity|assumption|]. unfold gtp_create_sess_response__overload_ctl_info_body.
  read_rest v.
Qed.
#[global] Instance gtp_create_sess_response__overload_ctl_info_elem_ok : GtpElemOk gtp_create_sess_response__overload_ctl_info_ie_t.
Proof. split; [intros v [Hg _]; by apply gtp_create_sess_response__overload_ctl_info_places|intros v [Hg _]; by apply gtp_create_sess_response__overload_ctl_info_items|by intros v [_ Hz]|intros v [(Hh & _) _]; exact (group_element _ _ Hh)]. Qed.

(** [gtp_create_bearer_request_bearer_ctxt_ie_t] *)
Definition gtp_create_bearer_request_bearer_ctxt_body (v : gtp_create_bearer_request_bearer_ctxt_ie_t) : layout :=
  opt_layout v.(gtp_create_bearer_request_bearer_ctxt_eps_bearer_id) ++
  opt_layout v.(gtp_create_bearer_request_bearer_ctxt_tft) ++
  opt_layout v.(gtp_create_bearer_request_bearer_ctxt_s1u_sgw_fteid) ++
  opt_layout v.(gtp_create_bearer_request_bearer_ctxt_s58_u_pgw_fteid) ++
  opt_layout v.(gtp_create_bearer_request_bearer_ctxt_s12_sgw_fteid) ++
  opt_layout v.(gtp_create_bearer_request_bearer_ctxt_s4_u_sgw_fteid) ++
  opt_layout v.(gtp_create_bearer_request_bearer_ctxt_s2b_u_pgw_fteid) ++
  opt_layout v.(gtp_create_bearer_request_bearer_ctxt_s2a_u_pgw_fteid) ++
  opt_layout v.(gtp_create_bearer_request_bearer_ctxt_bearer_lvl_qos) ++
  opt_layout v.(gtp_create_bearer_request_bearer_ctxt_charging_id) ++
  opt_layout v.(gtp_create_bearer_request_bearer_ctxt_bearer_flags) ++
  opt_layout v.(gtp_create_bearer_request_bearer_ctxt_pco) ++
  opt_layout v.(gtp_create_bearer_request_bearer_ctxt_epco) ++
  opt_layout v.(gtp_create_bearer_request_bearer_ctxt_max_pckt_loss_rate) ++
  [].
Definition gtp_create_bearer_request_bearer_ctxt_good (v : gtp_create_bearer_request_bearer_ctxt_ie_t) : Prop :=
  group_good v.(gtp_create_bearer_request_bearer_ctxt_header) (gtp_create_bearer_request_bearer_ctxt_body v) ∧
  opt_good (GTP_IE_EPS_BEARER_ID, GTP_IE_INSTANCE_ZERO) v.(gtp_create_bearer_request_bearer_ctxt_eps_bearer_id) ∧
  opt_good (GTP_IE_EPS_BEARER_LVL_TRAFFIC_FLOW_TMPL, GTP_IE_INSTANCE_ZERO) v.(gtp_create_bearer_request_bearer_ctxt_tft) ∧
  opt_good (GTP_IE_FULLY_QUAL_TUNN_ENDPT_IDNT, GTP_IE_INSTANCE_ZERO) v.(gtp_create_bearer_request_bearer_ctxt_s1u_sgw_fteid) ∧
  opt_good (GTP_IE_FULLY_QUAL_TUNN_ENDPT_IDNT, GTP_IE_INSTANCE_ONE) v.(gtp_create_bearer_request_bearer_ctxt_s58_u_pgw_fteid) ∧
  opt_good (GTP_IE_FULLY_QUAL_TUNN_ENDPT_IDNT, GTP_IE_INSTANCE_TWO) v.(gtp_create_bearer_request_bearer_ctxt_s12_sgw_fteid) ∧
  opt_good (GTP_IE_FULLY_QUAL_TUNN_ENDPT_IDNT, GTP_IE_INSTANCE_THREE) v.(gtp_create_bearer_request_bearer_ctxt_s4_u_sgw_fteid) ∧
  opt_good (GTP_IE_FULLY_QUAL_TUNN_ENDPT_IDNT, GTP_IE_INSTANCE_FOUR) v.(gtp_create_bearer_request_bearer_ctxt_s2b_u_pgw_fteid) ∧
  opt_good (GTP_IE_FULLY_QUAL_TUNN_ENDPT_IDNT, GTP_IE_INSTANCE_FIVE) v.(gtp_create_bearer_request_bearer_ctxt_s2a_u_pgw_fteid) ∧
  opt_good (GTP_IE_BEARER_QLTY_OF_SVC, GTP_IE_INSTANCE_ZERO) v.(gtp_create_bearer_request_bearer_ctxt_bearer_lvl_qos) ∧
  opt_good (GTP_IE_CHARGING_ID, GTP_IE_INSTANCE_ZERO) v.(gtp_create_bearer_request_bearer_ctxt_charging_id) ∧
  opt_good (GTP_IE_BEARER_FLAGS, GTP_IE_INSTANCE_ZERO) v.(gtp_create_bearer_request_bearer_ctxt_bearer_flags) ∧
  opt_good (GTP_IE_PROT_CFG_OPTS, GTP_IE_INSTANCE_ZERO) v.(gtp_create_bearer_request_bearer_ctxt_pco) ∧
  opt_good (GTP_IE_EXTNDED_PROT_CFG_OPTS, GTP_IE_INSTANCE_ZERO) v.(gtp_create_bearer_request_bearer_ctxt_epco) ∧
  opt_good (GTP_IE_MAX_PCKT_LOSS_RATE, GTP_IE_INSTANCE_ZERO) v.(gtp_create_bearer_request_bearer_ctxt_max_pckt_loss_rate).
#[global] Instance gtp_create_bearer_request_bearer_ctxt_elem : GtpElem gtp_create_bearer_request_bearer_ctxt_ie_t :=
  {| el_header := gtp_create_bearer_request_bearer_ctxt_header; el_encode := encode_gtp_create_bearer_request_bearer_ctxt_ie; el_decode := decode_gtp_create_bearer_request_bearer_ctxt_ie;
     el_zero := zero_gtp_create_bearer_request_bearer_ctxt; el_unit := 8; el_short := true;
     el_layout v := layout_gie_header v.(gtp_create_bearer_request_bearer_ctxt_header) ++ gtp_create_bearer_request_bearer_ctxt_body v; el_good v := gtp_create_bearer_request_bearer_ctxt_good v ∧ short_good v.(gtp_create_bearer_request_bearer_ctxt_header) (gtp_create_bearer_request_bearer_ctxt_body v) |}.
Lemma gtp_create_bearer_request_bearer_ctxt_places v : gtp_create_bearer_request_bearer_ctxt_good v -> encodes (encode_gtp_create_bearer_request_bearer_ctxt_ie v) (el_layout v) (size (el_layout v) / 8).
Proof.
  intros Hg; unfold gtp_create_bearer_request_bearer_ctxt_good in Hg; destruct_and! Hg. apply encodes_gtp_group. unfold gtp_create_bearer_request_bearer_ctxt_body.
  place_members ltac:(gtp_member).
Qed.
Lemma gtp_create_bearer_request_bearer_ctxt_items v : gtp_create_bearer_request_bearer_ctxt_good v ->
  decodes (decode_gtp_create_bearer_request_bearer_ctxt_ie zero_gtp_create_bearer_request_bearer_ctxt) (el_layout v) (returned true (size (el_layout v) / 8)) v.
Proof.
  intros Hg; unfold gtp_create_bearer_request_bearer_ctxt_good in Hg; destruct_and! Hg. apply decodes_gtp_group; [reflexivity|assumption|]. unfold gtp_create_bearer_request_bearer_ctxt_body.
  read_rest v.
Qed.
#[global] Instance gtp_create_bearer_request_bearer_ctxt_elem_ok : GtpElemOk gtp_create_bearer_request_bearer_ctxt_ie_t.
Proof. split; [intros v [Hg _]; by apply gtp_create_bearer_request_bearer_ctxt_places|intros v [Hg _]; by apply gtp_create_bearer_request_bearer_ctxt_items|by intros v [_ Hz]|intros v [(Hh & _) _]; exact (group_element _ _ Hh)]. Qed.

(** [gtp_create_bearer_request__load_ctl_info_ie_t] *)
Definition gtp_create_bearer_request__load_ctl_info_body (v : gtp_create_bearer_request__load_ctl_info_ie_t) : layout :=
  opt_layout v.(gtp_create_bearer_request__load_ctl_info_load_ctl_seqn_nbr) ++
  opt_layout v.(gtp_create_bearer_request__load_ctl_info_load_metric) ++
  opt_layout v.(gtp_create_bearer_request__load_ctl_info_list_of_apn_and_rltv_cap) ++
  [].
Definition gtp_create_bearer_request__load_ctl_info_good (v : gtp_create_bearer_request__load_ctl_info_ie_t) : Prop :=
  group_good v.(gtp_create_bearer_request__load_ctl_info_header) (gtp_create_bearer_request__load_ctl_info_body v) ∧
  opt_good (GTP_IE_SEQUENCE_NUMBER, GTP_IE_INSTANCE_ZERO) v.(gtp_create_bearer_request__load_ctl_info_load_ctl_seqn_nbr) ∧
  opt_good (GTP_IE_METRIC, GTP_IE_INSTANCE_ZERO) v.(gtp_create_bearer_request__load_ctl_info_load_metric) ∧
  opt_good (GTP_IE_APN_AND_RLTV_CAP, GTP_IE_INSTANCE_ZERO) v.(gtp_create_bearer_request__load_ctl_info_list_of_apn_and_rltv_cap).
#[global] Instance gtp_create_bearer_request__load_ctl_info_elem : GtpElem gtp_create_bearer_request__load_ctl_info_ie_t :=
  {| el_header := gtp_create_bearer_request__load_ctl_info_header; el_encode := encode_gtp_create_bearer_request__load_ctl_info_ie; el_decode := decode_gtp_create_bearer_request__load_ctl_info_ie;
     el_zero := zero_gtp_create_bearer_request__load_ctl_info; el_unit := 8; el_short := true;
     el_layout v := layout_gie_header v.(gtp_create_bearer_request__load_ctl_info_header) ++ gtp_create_bearer_request__load_ctl_info_body v; el_good v := gtp_create_bearer_request__load_ctl_info_good v ∧ short_good v.(gtp_create_bearer_request__load_ctl_info_header) (gtp_create_bearer_request__load_ctl_info_body v) |}.
Lemma gtp_create_bearer_request__load_ctl_info_places v : gtp_create_bearer_request__load_ctl_info_good v -> encodes (encode_gtp_create_bearer_request__load_ctl_info_ie v) (el_layout v) (size (el_layout v) / 8).
Proof.
  intros Hg; unfold gtp_create_bearer_request__load_ctl_info_good in Hg; destruct_and! Hg. apply encodes_gtp_group. unfold gtp_create_bearer_request__load_ctl_info_body.
  place_members ltac:(gtp_member).
Qed.
Lemma gtp_create_bearer_request__load_ctl_info_items v : gtp_create_bearer_request__load_ctl_info_good v ->
  decodes (decode_gtp_create_bearer_request__load_ctl_info_ie zero_gtp_create_bearer_request__load_ctl_info) (el_layout v) (returned true (size (el_layout v) / 8)) v.
Proof.
  intros Hg; unfold gtp_create_bearer_request__load_ctl_info_good in Hg; destruct_and! Hg. apply decodes_gtp_group; [reflexivity|assumption|]. unfold gtp_create_bearer_request__load_ctl_info_body.
  read_rest v.
Qed.
#[global] Instance gtp_create_bearer_request__load_ctl_info_elem_ok : GtpElemOk gtp_create_bearer_request__load_ctl_info_ie_t.
Proof. split; [intros v [Hg _]; by apply gtp_create_bearer_request__load_ctl_info_places|intros v [Hg _]; by apply gtp_create_bearer_request__load_ctl_info_items|by intros v [_ Hz]|intros v [(Hh & _) _]; exact (group_element _ _ Hh)]. Qed.

(** [gtp_create_bearer_request__overload_ctl_info_ie_t] *)
Definition gtp_create_bearer_request__overload_ctl_info_body (v : gtp_create_bearer_request__overload_ctl_info_ie_t) : layout :=
  opt_layout v.(gtp_create_bearer_request__overload_ctl_info_ovrld_ctl_seqn_nbr) ++
  opt_layout v.(gtp_create_bearer_request__overload_ctl_info_ovrld_reduction_metric) ++
  opt_layout v.(gtp_create_bearer_request__overload_ctl_info_prd_of_validity) ++
  opt_layout v.(gtp_create_bearer_request__overload_ctl_info_apn) ++
  [].
Definition gtp_create_bearer_request__overload_ctl_info_good (v : gtp_create_bearer_request__overload_ctl_info_ie_t) : Prop :=
  group_good v.(gtp_create_bearer_request__overload_ctl_info_header) (gtp_create_bearer_request__overload_ctl_info_body v) ∧
  opt_good (GTP_IE_SEQUENCE_NUMBER, GTP_IE_INSTANCE_ZERO) v.(gtp_create_bearer_request__overload_ctl_info_ovrld_ctl_seqn_nbr) ∧
  opt_good (GTP_IE_METRIC, GTP_IE_INSTANCE_ZERO) v.(gtp_create_bearer_request__overload_ctl_info_ovrld_reduction_metric) ∧
  opt_good (GTP_IE_EPC_TIMER, GTP_IE_INSTANCE_ZERO) v.(gtp_create_bearer_request__overload_ctl_info_prd_of_validity) ∧
  opt_good (GTP_IE_ACC_PT_NAME, GTP_IE_INSTANCE_ZERO) v.(gtp_create_bearer_request__overload_ctl_info_apn).
#[global] Instance gtp_create_bearer_request__overload_ctl_info_elem : GtpElem gtp_create_bearer_request__overload_ctl_info_ie_t :=
  {| el_header := gtp_create_bearer_request__overload_ctl_info_header; el_encode := encode_gtp_create_bearer_request__overload_ctl_info_ie; el_decode := decode_gtp_create_bearer_request__overload_ctl_info_ie;
     el_zero := zero_gtp_create_bearer_request__overload_ctl_info; el_unit := 8; el_short := true;
     el_layout v := layout_gie_header v.(gtp_create_bearer_request__overload_ctl_info_header) ++ gtp_create_bearer_request__overload_ctl_info_body v; el_good v := gtp_create_bearer_request__overload_ctl_info_good v ∧ short_good v.(gtp_create_bearer_request__overload_ctl_info_header) (gtp_create_bearer_request__overload_ctl_info_body v) |}.
Lemma gtp_create_bearer_request__overload_ctl_info_places v : gtp_create_bearer_request__overload_ctl_info_good v -> encodes (encode_gtp_create_bearer_request__overload_ctl_info_ie v) (el_layout v) (size (el_layout v) / 8).
Proof.
  intros Hg; unfold gtp_create_bearer_request__overload_ctl_info_good in Hg; destruct_and! Hg. apply encodes_gtp_group. unfold gtp_create_bearer_request__overload_ctl_info_body.
  place_members ltac:(gtp_member).
Qed.
Lemma gtp_create_bearer_request__overload_ctl_info_items v : gtp_create_bearer_request__overload_ctl_info_good v ->
  decodes (decode_gtp_create_bearer_request__overload_ctl_info_ie zero_gtp_create_bearer_request__overload_ctl_info) (el_layout v) (returned true (size (el_layout v) / 8)) v.
Proof.
  intros Hg; unfold gtp_create_bearer_request__overload_ctl_info_good in Hg; destruct_and! Hg. apply decodes_gtp_group; [reflexivity|assumption|]. unfold gtp_create_bearer_request__overload_ctl_info_body.
  read_rest v.
Qed.
#[global] Instance gtp_create_bearer_request__overload_ctl_info_elem_ok : GtpElemOk gtp_create_bearer_request__overload_ctl_info_ie_t.
Proof. split; [intros v [Hg _]; by apply gtp_create_bearer_request__overload_ctl_info_places|intros v [Hg _]; by apply gtp_create_bearer_request__overload_ctl_info_items|by intros v [_ Hz]|intros v [(Hh & _) _]; exact (group_element _ _ Hh)]. Qed.

(** [gtp_create_bearer_response_bearer_ctxt_ie_t] *)
Definition gtp_create_bearer_response_bearer_ctxt_body (v : gtp_create_bearer_response_bearer_ctxt_ie_t) : layout :=
  opt_layout v.(gtp_create_bearer_response_bearer_ctxt_eps_bearer_id) ++
  opt_layout v.(gtp_create_bearer_response_bearer_ctxt_cause) ++
  opt_layout v.(gtp_create_bearer_response_bearer_ctxt_s1u_enb_fteid) ++
  opt_layout v.(gtp_create_bearer_response_bearer_ctxt_s1u_sgw_fteid) ++
  opt_layout v.(gtp_create_bearer_response_bearer_ctxt_s58_u_sgw_fteid) ++
  opt_layout v.(gtp_create_bearer_response_bearer_ctxt_s58_u_pgw_fteid) ++
  opt_layout v.(gtp_create_bearer_response_bearer_ctxt_s12_rnc_fteid) ++
  opt_layout v.(gtp_create_bearer_response_bearer_ctxt_s12_sgw_fteid) ++
  opt_layout v.(gtp_create_bearer_response_bearer_ctxt_s4_u_sgsn_fteid) ++
  opt_layout v.(gtp_create_bearer_response_bearer_ctxt_s4_u_sgw_fteid) ++
  opt_layout v.(gtp_create_bearer_response_bearer_ctxt_s2b_u_epdg_fteid) ++
  opt_layout v.(gtp_create_bearer_response_bearer_ctxt_s2b_u_pgw_fteid) ++
  opt_layout v.(gtp_create_bearer_response_bearer_ctxt_s2a_u_twan_fteid) ++
  opt_layout v.(gtp_create_bearer_response_bearer_ctxt_s2a_u_pgw_fteid) ++
  opt_layout v.(gtp_create_bearer_response_bearer_ctxt_pco) ++
  opt_layout v.(gtp_create_bearer_response_bearer_ctxt_ran_nas_cause) ++
  opt_layout v.(gtp_create_bearer_response_bearer_ctxt_epco) ++
  [].
Definition gtp_create_bearer_response_bearer_ctxt_good (v : gtp_create_bearer_response_bearer_ctxt_ie_t) : Prop :=
  group_good v.(gtp_create_bearer_response_bearer_ctxt_header) (gtp_create_bearer_response_bearer_ctxt_body v) ∧
  opt_good (GTP_IE_EPS_BEARER_ID, GTP_IE_INSTANCE_ZERO) v.(gtp_create_bearer_response_bearer_ctxt_eps_bearer_id) ∧
  opt_good (GTP_IE_CAUSE, GTP_IE_INSTANCE_ZERO) v.(gtp_create_bearer_response_bearer_ctxt_cause) ∧
  opt_good (GTP_IE_FULLY_QUAL_TUNN_ENDPT_IDNT, GTP_IE_INSTANCE_ZERO) v.(gtp_create_bearer_response_bearer_ctxt_s1u_enb_fteid) ∧
  opt_good (GTP_IE_FULLY_QUAL_TUNN_ENDPT_IDNT, GTP_IE_INSTANCE_ONE) v.(gtp_create_bearer_response_bearer_ctxt_s1u_sgw_fteid) ∧
  opt_good (GTP_IE_FULLY_QUAL_TUNN_ENDPT_IDNT, GTP_IE_INSTANCE_TWO) v.(gtp_create_bearer_response_bearer_ctxt_s58_u_sgw_fteid) ∧
  opt_good (GTP_IE_FULLY_QUAL_TUNN_ENDPT_IDNT, GTP_IE_INSTANCE_THREE) v.(gtp_create_bearer_response_bearer_ctxt_s58_u_pgw_fteid) ∧
  opt_good (GTP_IE_FULLY_QUAL_TUNN_ENDPT_IDNT, GTP_IE_INSTANCE_FOUR) v.(gtp_create_bearer_response_bearer_ctxt_s12_rnc_fteid) ∧
  opt_good (GTP_IE_FULLY_QUAL_TUNN_ENDPT_IDNT, GTP_IE_INSTANCE_FIVE) v.(gtp_create_bearer_response_bearer_ctxt_s12_sgw_fteid) ∧
  opt_good (GTP_IE_FULLY_QUAL_TUNN_ENDPT_IDNT, GTP_IE_INSTANCE_SIX) v.(gtp_create_bearer_response_bearer_ctxt_s4_u_sgsn_fteid) ∧
  opt_good (GTP_IE_FULLY_QUAL_TUNN_ENDPT_IDNT, GTP_IE_INSTANCE_SEVEN) v.(gtp_create_bearer_response_bearer_ctxt_s4_u_sgw_fteid) ∧
  opt_good (GTP_IE_FULLY_QUAL_TUNN_ENDPT_IDNT, GTP_IE_INSTANCE_EIGHT) v.(gtp_create_bearer_response_bearer_ctxt_s2b_u_epdg_fteid) ∧
  opt_good (GTP_IE_FULLY_QUAL_TUNN_ENDPT_IDNT, GTP_IE_INSTANCE_NINE) v.(gtp_create_bearer_response_bearer_ctxt_s2b_u_pgw_fteid) ∧
  opt_good (GTP_IE_FULLY_QUAL_TUNN_ENDPT_IDNT, GTP_IE_INSTANCE_TEN) v.(gtp_create_bearer_response_bearer_ctxt_s2a_u_twan_fteid) ∧
  opt_good (GTP_IE_FULLY_QUAL_TUNN_ENDPT_IDNT, GTP_IE_INSTANCE_ELEVEN) v.(gtp_create_bearer_response_bearer_ctxt_s2a_u_pgw_fteid) ∧
  opt_good (GTP_IE_PROT_CFG_OPTS, GTP_IE_INSTANCE_ZERO) v.(gtp_create_bearer_response_bearer_ctxt_pco) ∧
  opt_good (GTP_IE_RAN_NAS_CAUSE, GTP_IE_INSTANCE_ZERO) v.(gtp_create_bearer_response_bearer_ctxt_ran_nas_cause) ∧
  opt_good (GTP_IE_EXTNDED_PROT_CFG_OPTS, GTP_IE_INSTANCE_ZERO) v.(gtp_create_bearer_response_bearer_ctxt_epco).
#[global] Instance gtp_create_bearer_response_bearer_ctxt_elem : GtpElem gtp_create_bearer_response_bearer_ctxt_ie_t :=
  {| el_header := gtp_create_bearer_response_bearer_ctxt_header; el_encode := encode_gtp_create_bearer_response_bearer_ctxt_ie; el_decode := decode_gtp_create_bearer_response_bearer_ctxt_ie;
     el_zero := zero_gtp_create_bearer_response_bearer_ctxt; el_unit := 8; el_short := true;
     el_layout v := layout_gie_header v.(gtp_create_bearer_response_bearer_ctxt_header) ++ gtp_create_bearer_response_bearer_ctxt_body v; el_good v := gtp_create_bearer_response_bearer_ctxt_good v ∧ short_good v.(gtp_create_bearer_response_bearer_ctxt_header) (gtp_create_bearer_response_bearer_ctxt_body v) |}.
Lemma gtp_create_bearer_response_bearer_ctxt_places v : gtp_create_bearer_response_bearer_ctxt_good v -> encodes (encode_gtp_create_bearer_response_bearer_ctxt_ie v) (el_layout v) (size (el_layout v) / 8).
Proof.
  intros Hg; unfold gtp_create_bearer_response_bearer_ctxt_good in Hg; destruct_and! Hg. apply encodes_gtp_group. unfold gtp_create_bearer_response_bearer_ctxt_body.
  place_members ltac:(gtp_member).
Qed.
Lemma gtp_create_bearer_response_bearer_ctxt_items v : gtp_create_bearer_response_bearer_ctxt_good v ->
  decodes (decode_gtp_create_bearer_response_bearer_ctxt_ie zero_gtp_create_bearer_response_bearer_ctxt) (el_layout v) (returned true (size (el_layout v) / 8)) v.
Proof.
  intros Hg; unfold gtp_create_bearer_response_bearer_ctxt_good in Hg; destruct_and! Hg. apply decodes_gtp_group; [reflexivity|assumption|]. unfold gtp_create_bearer_response_bearer_ctxt_body.
  read_rest v.
Qed.
#[global] Instance gtp_create_bearer_response_bearer_ctxt_elem_ok : GtpElemOk gtp_create_bearer_response_bearer_ctxt_ie_t.
Proof. split; [intros v [Hg _]; by apply gtp_create_bearer_response_bearer_ctxt_places|intros v [Hg _]; by apply gtp_create_bearer_response_bearer_ctxt_items|by intros v [_ Hz]|intros v [(Hh & _) _]; exact (group_element _ _ Hh)]. Qed.

(** [gtp_create_bearer_response__overload_ctl_info_ie_t] *)
Definition gtp_create_bearer_response__overload_ctl_info_body (v : gtp_create_bearer_response__overload_ctl_info_ie_t) : layout :=
  opt_layout v.(gtp_create_bearer_response__overload_ctl_info_ovrld_ctl_seqn_nbr) ++
  opt_layout v.(gtp_create_bearer_response__overload_ctl_info_ovrld_reduction_metric) ++
  opt_layout v.(gtp_create_bearer_response__overload_ctl_info_prd_of_validity) ++
  [].
Definition gtp_create_bearer_response__overload_ctl_info_good (v : gtp_create_bearer_response__overload_ctl_info_ie_t) : Prop :=
  group_good v.(gtp_create_bearer_response__overload_ctl_info_header) (gtp_create_bearer_response__overload_ctl_info_body v) ∧
  opt_good (GTP_IE_SEQUENCE_NUMBER, GTP_IE_INSTANCE_ZERO) v.(gtp_create_bearer_response__overload_ctl_info_ovrld_ctl_seqn_nbr) ∧
  opt_good (GTP_IE_METRIC, GTP_IE_INSTANCE_ZERO) v.(gtp_create_bearer_response__overload_ctl_info_ovrld_reduction_metric) ∧
  opt_good (GTP_IE_EPC_TIMER, GTP_IE_INSTANCE_ZERO) v.(gtp_create_bearer_response__overload_ctl_info_prd_of_validity).
#[global] Instance gtp_create_bearer_response__overload_ctl_info_elem : GtpElem gtp_create_bearer_response__overload_ctl_info_ie_t :=
  {| el_header := gtp_create_bearer_response__overload_ctl_info_header; el_encode := encode_gtp_create_bearer_response__overload_ctl_info_ie; el_decode := decode_gtp_create_bearer_response__overload_ctl_info_ie;
     el_zero := zero_gtp_create_bearer_response__overload_ctl_info; el_unit := 8; el_short := true;
     el_layout v := layout_gie_header v.(gtp_create_bearer_response__overload_ctl_info_header) ++ gtp_create_bearer_response__overload_ctl_info_body v; el_good v := gtp_create_bearer_response__overload_ctl_info_good v ∧ short_good v.(gtp_create_bearer_response__overload_ctl_info_header) (gtp_create_bearer_response__overload_ctl_info_body v) |}.
Lemma gtp_create_bearer_response__overload_ctl_info_places v : gtp_create_bearer_response__overload_ctl_info_good v -> encodes (encode_gtp_create_bearer_response__overload_ctl_info_ie v) (el_layout v) (size (el_layout v) / 8).
Proof.
  intros Hg; unfold gtp_create_bearer_response__overload_ctl_info_good in Hg; destruct_and! Hg. apply encodes_gtp_group. unfold gtp_create_bearer_response__overload_ctl_info_body.
  place_members ltac:(gtp_member).
Qed.
Lemma gtp_create_bearer_response__overload_ctl_info_items v : gtp_create_bearer_response__overload_ctl_info_good v ->
  decodes (decode_gtp_create_bearer_response__overload_ctl_info_ie zero_gtp_create_bearer_response__overload_ctl_info) (el_layout v) (returned true (size (el_layout v) / 8)) v.
Proof.
  intros Hg; unfold gtp_create_bearer_response__overload_ctl_info_good in Hg; destruct_and! Hg. apply decodes_gtp_group; [reflexivity|assumption|]. unfold gtp_create_bearer_response__overload_ctl_info_body.
  read_rest v.
Qed.
#[global] Instance gtp_create_bearer_response__overload_ctl_info_elem_ok : GtpElemOk gtp_create_bearer_response__overload_ctl_info_ie_t.
Proof. split; [intros v [Hg _]; by apply gtp_create_bearer_response__overload_ctl_info_places|intros v [Hg _]; by apply gtp_create_bearer_response__overload_ctl_info_items|by intros v [_ Hz]|intros v [(Hh & _) _]; exact (group_element _ _ Hh)]. Qed.

(** [gtp_bearer_rsrc_command__overload_ctl_info_ie_t] *)
Definition gtp_bearer_rsrc_command__overload_ctl_info_body (v : gtp_bearer_rsrc_command__overload_ctl_info_ie_t) : layout :=
  opt_layout v.(gtp_bearer_rsrc_command__overload_ctl_info_ovrld_ctl_seqn_nbr) ++
  opt_layout v.(gtp_bearer_rsrc_command__overload_ctl_info_ovrld_reduction_metric) ++
  opt_layout v.(gtp_bearer_rsrc_command__overload_ctl_info_prd_of_validity) ++
  [].
Definition gtp_bearer_rsrc_command__overload_ctl_info_good (v : gtp_bearer_rsrc_command__overload_ctl_info_ie_t) : Prop :=
  group_good v.(gtp_bearer_rsrc_command__overload_ctl_info_header) (gtp_bearer_rsrc_command__overload_ctl_info_body v) ∧
  opt_good (GTP_IE_SEQUENCE_NUMBER, GTP_IE_INSTANCE_ZERO) v.(gtp_bearer_rsrc_command__overload_ctl_info_ovrld_ctl_seqn_nbr) ∧
  opt_good (GTP_IE_METRIC, GTP_IE_INSTANCE_ZERO) v.(gtp_bearer_rsrc_command__overload_ctl_info_ovrld_reduction_metric) ∧
  opt_good (GTP_IE_EPC_TIMER, GTP_IE_INSTANCE_ZERO) v.(gtp_bearer_rsrc_command__overload_ctl_info_prd_of_validity).
#[global] Instance gtp_bearer_rsrc_command__overload_ctl_info_elem : GtpElem gtp_bearer_rsrc_command__overload_ctl_info_ie_t :=
  {| el_header := gtp_bearer_rsrc_command__overload_ctl_info_header; el_encode := encode_gtp_bearer_rsrc_command__overload_ctl_info_ie; el_decode := decode_gtp_bearer_rsrc_command__overload_ctl_info_ie;
     el_zero := zero_gtp_bearer_rsrc_command__overload_ctl_info; el_unit := 8; el_short := true;
     el_layout v := layout_gie_header v.(gtp_bearer_rsrc_command__overload_ctl_info_header) ++ gtp_bearer_rsrc_command__overload_ctl_info_body v; el_good v := gtp_bearer_rsrc_command__overload_ctl_info_good v ∧ short_good v.(gtp_bearer_rsrc_command__overload_ctl_info_header) (gtp_bearer_rsrc_command__overload_ctl_info_body v) |}.
Lemma gtp_bearer_rsrc_command__overload_ctl_info_places v : gtp_bearer_rsrc_command__overload_ctl_info_good v -> encodes (encode_gtp_bearer_rsrc_command__overload_ctl_info_ie v) (el_layout v) (size (el_layout v) / 8).
Proof.
  intros Hg; unfold gtp_bearer_rsrc_command__overload_ctl_info_good in Hg; destruct_and! Hg. apply encodes_gtp_group. unfold gtp_bearer_rsrc_command__overload_ctl_info_body.
  place_members ltac:(gtp_member).
Qed.
Lemma gtp_bearer_rsrc_command__overload_ctl_info_items v : gtp_bearer_rsrc_command__overload_ctl_info_good v ->
  decodes (decode_gtp_bearer_rsrc_command__overload_ctl_info_ie zero_gtp_bearer_rsrc_command__overload_ctl_info) (el_layout v) (returned true (size (el_layout v) / 8)) v.
Proof.
  intros Hg; unfold gtp_bearer_rsrc_command__overload_ctl_info_good in Hg; destruct_and! Hg. apply decodes_gtp_group; [reflexivity|assumption|]. unfold gtp_bearer_rsrc_command__overload_ctl_info_body.
  read_rest v.
Qed.
#[global] Instance gtp_bearer_rsrc_command__overload_ctl_info_elem_ok : GtpElemOk gtp_bearer_rsrc_command__overload_ctl_info_ie_t.
Proof. split; [intros v [Hg _]; by apply gtp_bearer_rsrc_command__overload_ctl_info_places|intros v [Hg _]; by apply gtp_bearer_rsrc_command__overload_ctl_info_items|by intros v [_ Hz]|intros v [(Hh & _) _]; exact (group_element _ _ Hh)]. Qed.

(** [gtp_bearer_rsrc_fail_indication__overload_ctl_info_ie_t] *)
Definition gtp_bearer_rsrc_fail_indication__overload_ctl_info_body (v : gtp_bearer_rsrc_fail_indication__overload_ctl_info_ie_t) : layout :=
  opt_layout v.(gtp_bearer_rsrc_fail_indication__overload_ctl_info_ovrld_ctl_seqn_nbr) ++
  opt_layout v.(gtp_bearer_rsrc_fail_indication__overload_ctl_info_ovrld_reduction_metric) ++
  opt_layout v.(gtp_bearer_rsrc_fail_indication__overload_ctl_info_prd_of_validity) ++
  opt_layout v.(gtp_bearer_rsrc_fail_indication__overload_ctl_info_apn) ++
  [].
Definition gtp_bearer_rsrc_fail_indication__overload_ctl_info_good (v : gtp_bearer_rsrc_fail_indication__overload_ctl_info_ie_t) : Prop :=
  group_good v.(gtp_bearer_rsrc_fail_indication__overload_ctl_info_header) (gtp_bearer_rsrc_fail_indication__overload_ctl_info_body v) ∧
  opt_good (GTP_IE_SEQUENCE_NUMBER, GTP_IE_INSTANCE_ZERO) v.(gtp_bearer_rsrc_fail_indication__overload_ctl_info_ovrld_ctl_seqn_nbr) ∧
  opt_good (GTP_IE_METRIC, GTP_IE_INSTANCE_ZERO) v.(gtp_bearer_rsrc_fail_indication__overload_ctl_info_ovrld_reduction_metric) ∧
  opt_good (GTP_IE_EPC_TIMER, GTP_IE_INSTANCE_ZERO) v.(gtp_bearer_rsrc_fail_indication__overload_ctl_info_prd_of_validity) ∧
  opt_good (GTP_IE_ACC_PT_NAME, GTP_IE_INSTANCE_ZERO) v.(gtp_bearer_rsrc_fail_indication__overload_ctl_info_apn).
#[global] Instance gtp_bearer_rsrc_fail_indication__overload_ctl_info_elem : GtpElem gtp_bearer_rsrc_fail_indication__overload_ctl_info_ie_t :=
  {| el_header := gtp_bearer_rsrc_fail_indication__overload_ctl_info_header; el_encode := encode_gtp_bearer_rsrc_fail_indication__overload_ctl_info_ie; el_decode := decode_gtp_bearer_rsrc_fail_indication__overload_ctl_info_ie;
     el_zero := zero_gtp_bearer_rsrc_fail_indication__overload_ctl_info; el_unit := 8; el_short := true;
     el_layout v := layout_gie_header v.(gtp_bearer_rsrc_fail_indication__overload_ctl_info_header) ++ gtp_bearer_rsrc_fail_indication__overload_ctl_info_body v; el_good v := gtp_bearer_rsrc_fail_indication__overload_ctl_info_good v ∧ short_good v.(gtp_bearer_rsrc_fail_indication__overload_ctl_info_header) (gtp_bearer_rsrc_fail_indication__overload_ctl_info_body v) |}.
Lemma gtp_bearer_rsrc_fail_indication__overload_ctl_info_places v : gtp_bearer_rsrc_fail_indication__overload_ctl_info_good v -> encodes (encode_gtp_bearer_rsrc_fail_indication__overload_ctl_info_ie v) (el_layout v) (size (el_layout v) / 8).
Proof.
  intros Hg; unfold gtp_bearer_rsrc_fail_indication__overload_ctl_info_good in Hg; destruct_and! Hg. apply encodes_gtp_group. unfold gtp_bearer_rsrc_fail_indication__overload_ctl_info_body.
  place_members ltac:(gtp_member).
Qed.
Lemma gtp_bearer_rsrc_fail_indication__overload_ctl_info_items v : gtp_bearer_rsrc_fail_indication__overload_ctl_info_good v ->
  decodes (decode_gtp_bearer_rsrc_fail_indication__overload_ctl_info_ie zero_gtp_bearer_rsrc_fail_indication__overload_ctl_info) (el_layout v) (returned true (size (el_layout v) / 8)) v.
Proof.
  intros Hg; unfold gtp_bearer_rsrc_fail_indication__overload_ctl_info_good in Hg; destruct_and! Hg. apply decodes_gtp_group; [reflexivity|assumption|]. unfold gtp_bearer_rsrc_fail_indication__overload_ctl_info_body.
  read_rest v.
Qed.
#[global] Instance gtp_bearer_rsrc_fail_indication__overload_ctl_info_elem_ok : GtpElemOk gtp_bearer_rsrc_fail_indication__overload_ctl_info_ie_t.
Proof. split; [intros v [Hg _]; by apply gtp_bearer_rsrc_fail_indication__overload_ctl_info_places|intros v [Hg _]; by apply gtp_bearer_rsrc_fail_indication__overload_ctl_info_items|by intros v [_ Hz]|intros v [(Hh & _) _]; exact (group_element _ _ Hh)]. Qed.

(** [gtp_mod_bearer_request_bearer_ctxt_to_be_modified_ie_t] *)
Definition gtp_mod_bearer_request_bearer_ctxt_to_be_modified_body (v : gtp_mod_bearer_request_bearer_ctxt_to_be_modified_ie_t) : layout :=
  opt_layout v.(gtp_mod_bearer_request_bearer_ctxt_to_be_modified_eps_bearer_id) ++
  opt_layout v.(gtp_mod_bearer_request_bearer_ctxt_to_be_modified_s1_enodeb_fteid) ++
  opt_layout v.(gtp_mod_bearer_request_bearer_ctxt_to_be_modified_s58_u_sgw_fteid) ++
  opt_layout v.(gtp_mod_bearer_request_bearer_ctxt_to_be_modified_s12_rnc_fteid) ++
  opt_layout v.(gtp_mod_bearer_request_bearer_ctxt_to_be_modified_s4_u_sgsn_fteid) ++
  opt_layout v.(gtp_mod_bearer_request_bearer_ctxt_to_be_modified_s11_u_mme_fteid) ++
  [].
Definition gtp_mod_bearer_request_bearer_ctxt_to_be_modified_good (v : gtp_mod_bearer_request_bearer_ctxt_to_be_modified_ie_t) : Prop :=
  group_good v.(gtp_mod_bearer_request_bearer_ctxt_to_be_modified_header) (gtp_mod_bearer_request_bearer_ctxt_to_be_modified_body v) ∧
  opt_good (GTP_IE_EPS_BEARER_ID, GTP_IE_INSTANCE_ZERO) v.(gtp_mod_bearer_request_bearer_ctxt_to_be_modified_eps_bearer_id) ∧
  opt_good (GTP_IE_FULLY_QUAL_TUNN_ENDPT_IDNT, GTP_IE_INSTANCE_ZERO) v.(gtp_mod_bearer_request_bearer_ctxt_to_be_modified_s1_enodeb_fteid) ∧
  opt_good (GTP_IE_FULLY_QUAL_TUNN_ENDPT_IDNT, GTP_IE_INSTANCE_ONE) v.(gtp_mod_bearer_request_bearer_ctxt_to_be_modified_s58_u_sgw_fteid) ∧
  opt_good (GTP_IE_FULLY_QUAL_TUNN_ENDPT_IDNT, GTP_IE_INSTANCE_TWO) v.(gtp_mod_bearer_request_bearer_ctxt_to_be_modified_s12_rnc_fteid) ∧
  opt_good (GTP_IE_FULLY_QUAL_TUNN_ENDPT_IDNT, GTP_IE_INSTANCE_THREE) v.(gtp_mod_bearer_request_bearer_ctxt_to_be_modified_s4_u_sgsn_fteid) ∧
  opt_good (GTP_IE_FULLY_QUAL_TUNN_ENDPT_IDNT, GTP_IE_INSTANCE_FOUR) v.(gtp_mod_bearer_request_bearer_ctxt_to_be_modified_s11_u_mme_fteid).
#[global] Instance gtp_mod_bearer_request_bearer_ctxt_to_be_modified_elem : GtpElem gtp_mod_bearer_request_bearer_ctxt_to_be_modified_ie_t :=
  {| el_header := gtp_mod_bearer_request_bearer_ctxt_to_be_modified_header; el_encode := encode_gtp_mod_bearer_request_bearer_ctxt_to_be_modified_ie; el_decode := decode_gtp_mod_bearer_request_bearer_ctxt_to_be_modified_ie;
     el_zero := zero_gtp_mod_bearer_request_bearer_ctxt_to_be_modified; el_unit := 8; el_short := false;
     el_layout v := layout_gie_header v.(gtp_mod_bearer_request_bearer_ctxt_to_be_modified_header) ++ gtp_mod_bearer_request_bearer_ctxt_to_be_modified_body v; el_good := gtp_mod_bearer_request_bearer_ctxt_to_be_modified_good |}.
Lemma gtp_mod_bearer_request_bearer_ctxt_to_be_modified_places v : gtp_mod_bearer_request_bearer_ctxt_to_be_modified_good v -> encodes (encode_gtp_mod_bearer_request_bearer_ctxt_to_be_modified_ie v) (el_layout v) (size (el_layout v) / 8).
Proof.
  intros Hg; unfold gtp_mod_bearer_request_bearer_ctxt_to_be_modified_good in Hg; destruct_and! Hg. apply encodes_gtp_group. unfold gtp_mod_bearer_request_bearer_ctxt_to_be_modified_body.
  place_members ltac:(gtp_member).
Qed.
Lemma gtp_mod_bearer_request_bearer_ctxt_to_be_modified_items v : gtp_mod_bearer_request_bearer_ctxt_to_be_modified_good v ->
  decodes (decode_gtp_mod_bearer_request_bearer_ctxt_to_be_modified_ie zero_gtp_mod_bearer_request_bearer_ctxt_to_be_modified) (el_layout v) (returned false (size (el_layout v) / 8)) v.
Proof.
  intros Hg; unfold gtp_mod_bearer_request_bearer_ctxt_to_be_modified_good in Hg; destruct_and! Hg. apply decodes_gtp_group; [reflexivity|assumption|]. unfold gtp_mod_bearer_request_bearer_ctxt_to_be_modified_body.
  read_rest v.
Qed.
#[global] Instance gtp_mod_bearer_request_bearer_ctxt_to_be_modified_elem_ok : GtpElemOk gtp_mod_bearer_request_bearer_ctxt_to_be_modified_ie_t.
Proof. split_elem; [apply gtp_mod_bearer_request_bearer_ctxt_to_be_modified_places|apply gtp_mod_bearer_request_bearer_ctxt_to_be_modified_items|intros v (Hh & _); exact (group_element _ _ Hh)]. Qed.

(** [gtp_mod_bearer_request_bearer_ctxt_to_be_removed_ie_t] *)
Definition gtp_mod_bearer_request_bearer_ctxt_to_be_removed_body (v : gtp_mod_bearer_request_bearer_ctxt_to_be_removed_ie_t) : layout :=
  opt_layout v.(gtp_mod_bearer_request_bearer_ctxt_to_be_removed_eps_bearer_id) ++
  [].
Definition gtp_mod_bearer_request_bearer_ctxt_to_be_removed_good (v : gtp_mod_bearer_request_bearer_ctxt_to_be_removed_ie_t) : Prop :=
  group_good v.(gtp_mod_bearer_request_bearer_ctxt_to_be_removed_header) (gtp_mod_bearer_request_bearer_ctxt_to_be_removed_body v) ∧
  opt_good (GTP_IE_EPS_BEARER_ID, GTP_IE_INSTANCE_ZERO) v.(gtp_mod_bearer_request_bearer_ctxt_to_be_removed_eps_bearer_id).
#[global] Instance gtp_mod_bearer_request_bearer_ctxt_to_be_removed_elem : GtpElem gtp_mod_bearer_request_bearer_ctxt_to_be_removed_ie_t :=
  {| el_header := gtp_mod_bearer_request_bearer_ctxt_to_be_removed_header; el_encode := encode_gtp_mod_bearer_request_bearer_ctxt_to_be_removed_ie; el_decode := decode_gtp_mod_bearer_request_bearer_ctxt_to_be_removed_ie;
     el_zero := zero_gtp_mod_bearer_request_bearer_ctxt_to_be_removed; el_unit := 8; el_short := true;
     el_layout v := layout_gie_header v.(gtp_mod_bearer_request_bearer_ctxt_to_be_removed_header) ++ gtp_mod_bearer_request_bearer_ctxt_to_be_removed_body v; el_good v := gtp_mod_bearer_request_bearer_ctxt_to_be_removed_good v ∧ short_good v.(gtp_mod_bearer_request_bearer_ctxt_to_be_removed_header) (gtp_mod_bearer_request_bearer_ctxt_to_be_removed_body v) |}.
Lemma gtp_mod_bearer_request_bearer_ctxt_to_be_removed_places v : gtp_mod_bearer_request_bearer_ctxt_to_be_removed_good v -> encodes (encode_gtp_mod_bearer_request_bearer_ctxt_to_be_removed_ie v) (el_layout v) (size (el_layout v) / 8).
Proof.
  intros Hg; unfold gtp_mod_bearer_request_bearer_ctxt_to_be_removed_good in Hg; destruct_and! Hg. apply encodes_gtp_group. unfold gtp_mod_bearer_request_bearer_ctxt_to_be_removed_body.
  place_members ltac:(gtp_member).
Qed.
Lemma gtp_mod_bearer_request_bearer_ctxt_to_be_removed_items v : gtp_mod_bearer_request_bearer_ctxt_to_be_removed_good v ->
  decodes (decode_gtp_mod_bearer_request_bearer_ctxt_to_be_removed_ie zero_gtp_mod_bearer_request_bearer_ctxt_to_be_removed) (el_layout v) (returned true (size (el_layout v) / 8)) v.
Proof.
  intros Hg; unfold gtp_mod_bearer_request_bearer_ctxt_to_be_removed_good in Hg; destruct_and! Hg. apply decodes_gtp_group; [reflexivity|assumption|]. unfold gtp_mod_bearer_request_bearer_ctxt_to_be_removed_body.
  read_rest v.
Qed.
#[global] Instance gtp_mod_bearer_request_bearer_ctxt_to_be_removed_elem_ok : GtpElemOk gtp_mod_bearer_request_bearer_ctxt_to_be_removed_ie_t.
Proof. split; [intros v [Hg _]; by apply gtp_mod_bearer_request_bearer_ctxt_to_be_removed_places|intros v [Hg _]; by apply gtp_mod_bearer_request_bearer_ctxt_to_be_removed_items|by intros v [_ Hz]|intros v [(Hh & _) _]; exact (group_element _ _ Hh)]. Qed.

(** [gtp_mod_bearer_request_overload_ctl_info_ie_t] *)
Definition gtp_mod_bearer_request_overload_ctl_info_body (v : gtp_mod_bearer_request_overload_ctl_info_ie_t) : layout :=
  opt_layout v.(gtp_mod_bearer_request_overload_ctl_info_ovrld_ctl_seqn_nbr) ++
  opt_layout v.(gtp_mod_bearer_request_overload_ctl_info_ovrld_reduction_metric) ++
  opt_layout v.(gtp_mod_bearer_request_overload_ctl_info_prd_of_validity) ++
  [].
Definition gtp_mod_bearer_request_overload_ctl_info_good (v : gtp_mod_bearer_request_overload_ctl_info_ie_t) : Prop :=
  group_good v.(gtp_mod_bearer_request_overload_ctl_info_header) (gtp_mod_bearer_request_overload_ctl_info_body v) ∧
  opt_good (GTP_IE_SEQUENCE_NUMBER, GTP_IE_INSTANCE_ZERO) v.(gtp_mod_bearer_request_overload_ctl_info_ovrld_ctl_seqn_nbr) ∧
  opt_good (GTP_IE_METRIC, GTP_IE_INSTANCE_ZERO) v.(gtp_mod_bearer_request_overload_ctl_info_ovrld_reduction_metric) ∧
  opt_good (GTP_IE_EPC_TIMER, GTP_IE_INSTANCE_ZERO) v.(gtp_mod_bearer_request_overload_ctl_info_prd_of_validity).
#[global] Instance gtp_mod_bearer_request_overload_ctl_info_elem : GtpElem gtp_mod_bearer_request_overload_ctl_info_ie_t :=
  {| el_header := gtp_mod_bearer_request_overload_ctl_info_header; el_encode := encode_gtp_mod_bearer_request_overload_ctl_info_ie; el_decode := decode_gtp_mod_bearer_request_overload_ctl_info_ie;
     el_zero := zero_gtp_mod_bearer_request_overload_ctl_info; el_unit := 8; el_short := true;
     el_layout v := layout_gie_header v.(gtp_mod_bearer_request_overload_ctl_info_header) ++ gtp_mod_bearer_request_overload_ctl_info_body v; el_good v := gtp_mod_bearer_request_overload_ctl_info_good v ∧ short_good v.(gtp_mod_bearer_request_overload_ctl_info_header) (gtp_mod_bearer_request_overload_ctl_info_body v) |}.
Lemma gtp_mod_bearer_request_overload_ctl_info_places v : gtp_mod_bearer_request_overload_ctl_info_good v -> encodes (encode_gtp_mod_bearer_request_overload_ctl_info_ie v) (el_layout v) (size (el_layout v) / 8).
Proof.
  intros Hg; unfold gtp_mod_bearer_request_overload_ctl_info_good in Hg; destruct_and! Hg. apply encodes_gtp_group. unfold gtp_mod_bearer_request_overload_ctl_info_body.
  place_members ltac:(gtp_member).
Qed.
Lemma gtp_mod_bearer_request_overload_ctl_info_items v : gtp_mod_bearer_request_overload_ctl_info_good v ->
  decodes (decode_gtp_mod_bearer_request_overload_ctl_info_ie zero_gtp_mod_bearer_request_overload_ctl_info) (el_layout v) (returned true (size (el_layout v) / 8)) v.
Proof.
  intros Hg; unfold gtp_mod_bearer_request_overload_ctl_info_good in Hg; destruct_and! Hg. apply decodes_gtp_group; [reflexivity|assumption|]. unfold gtp_mod_bearer_request_overload_ctl_info_body.
  read_rest v.
Qed.
#[global] Instance gtp_mod_bearer_request_overload_ctl_info_elem_ok : GtpElemOk gtp_mod_bearer_request_overload_ctl_info_ie_t.
Proof. split; [intros v [Hg _]; by apply gtp_mod_bearer_request_overload_ctl_info_places|intros v [Hg _]; by apply gtp_mod_bearer_request_overload_ctl_info_items|by intros v [_ Hz]|intros v [(Hh & _) _]; exact (group_element _ _ Hh)]. Qed.

(** [gtp_mod_bearer_response_bearer_ctxt_modified_ie_t] *)
Definition gtp_mod_bearer_response_bearer_ctxt_modified_body (v : gtp_mod_bearer_response_bearer_ctxt_modified_ie_t) : layout :=
  opt_layout v.(gtp_mod_bearer_response_bearer_ctxt_modified_eps_bearer_id) ++
  opt_layout v.(gtp_mod_bearer_response_bearer_ctxt_modified_cause) ++
  opt_layout v.(gtp_mod_bearer_response_bearer_ctxt_modified_s1u_sgw_fteid) ++
  opt_layout v.(gtp_mod_bearer_response_bearer_ctxt_modified_s12_sgw_fteid) ++
  opt_layout v.(gtp_mod_bearer_response_bearer_ctxt_modified_s4_u_sgw_fteid) ++
  opt_layout v.(gtp_mod_bearer_response_bearer_ctxt_modified_charging_id) ++
  opt_layout v.(gtp_mod_bearer_response_bearer_ctxt_modified_bearer_flags) ++
  opt_layout v.(gtp_mod_bearer_response_bearer_ctxt_modified_s11_u_sgw_fteid) ++
  [].
Definition gtp_mod_bearer_response_bearer_ctxt_modified_good (v : gtp_mod_bearer_response_bearer_ctxt_modified_ie_t) : Prop :=
  group_good v.(gtp_mod_bearer_response_bearer_ctxt_modified_header) (gtp_mod_bearer_response_bearer_ctxt_modified_body v) ∧
  opt_good (GTP_IE_EPS_BEARER_ID, GTP_IE_INSTANCE_ZERO) v.(gtp_mod_bearer_response_bearer_ctxt_modified_eps_bearer_id) ∧
  opt_good (GTP_IE_CAUSE, GTP_IE_INSTANCE_ZERO) v.(gtp_mod_bearer_response_bearer_ctxt_modified_cause) ∧
  opt_good (GTP_IE_FULLY_QUAL_TUNN_ENDPT_IDNT, GTP_IE_INSTANCE_ZERO) v.(gtp_mod_bearer_response_bearer_ctxt_modified_s1u_sgw_fteid) ∧
  opt_good (GTP_IE_FULLY_QUAL_TUNN_ENDPT_IDNT, GTP_IE_INSTANCE_ONE) v.(gtp_mod_bearer_response_bearer_ctxt_modified_s12_sgw_fteid) ∧
  opt_good (GTP_IE_FULLY_QUAL_TUNN_ENDPT_IDNT, GTP_IE_INSTANCE_TWO) v.(gtp_mod_bearer_response_bearer_ctxt_modified_s4_u_sgw_fteid) ∧
  opt_good (GTP_IE_CHARGING_ID, GTP_IE_INSTANCE_ZERO) v.(gtp_mod_bearer_response_bearer_ctxt_modified_charging_id) ∧
  opt_good (GTP_IE_BEARER_FLAGS, GTP_IE_INSTANCE_ZERO) v.(gtp_mod_bearer_response_bearer_ctxt_modified_bearer_flags) ∧
  opt_good (GTP_IE_FULLY_QUAL_TUNN_ENDPT_IDNT, GTP_IE_INSTANCE_THREE) v.(gtp_mod_bearer_response_bearer_ctxt_modified_s11_u_sgw_fteid).
#[global] Instance gtp_mod_bearer_response_bearer_ctxt_modified_elem : GtpElem gtp_mod_bearer_response_bearer_ctxt_modified_ie_t :=
  {| el_header := gtp_mod_bearer_response_bearer_ctxt_modified_header; el_encode := encode_gtp_mod_bearer_response_bearer_ctxt_modified_ie; el_decode := decode_gtp_mod_bearer_response_bearer_ctxt_modified_ie;
     el_zero := zero_gtp_mod_bearer_response_bearer_ctxt_modified; el_unit := 8; el_short := false;
     el_layout v := layout_gie_header v.(gtp_mod_bearer_response_bearer_ctxt_modified_header) ++ gtp_mod_bearer_response_bearer_ctxt_modified_body v; el_good := gtp_mod_bearer_response_bearer_ctxt_modified_good |}.
Lemma gtp_mod_bearer_response_bearer_ctxt_modified_places v : gtp_mod_bearer_response_bearer_ctxt_modified_good v -> encodes (encode_gtp_mod_bearer_response_bearer_ctxt_modified_ie v) (el_layout v) (size (el_layout v) / 8).
Proof.
  intros Hg; unfold gtp_mod_bearer_response_bearer_ctxt_modified_good in Hg; destruct_and! Hg. apply encodes_gtp_group. unfold gtp_mod_bearer_response_bearer_ctxt_modified_body.
  place_members ltac:(gtp_member).
Qed.
Lemma gtp_mod_bearer_response_bearer_ctxt_modified_items v : gtp_mod_bearer_response_bearer_ctxt_modified_good v ->
  decodes (decode_gtp_mod_bearer_response_bearer_ctxt_modified_ie zero_gtp_mod_bearer_response_bearer_ctxt_modified) (el_layout v) (returned false (size (el_layout v) / 8)) v.
Proof.
  intros Hg; unfold gtp_mod_bearer_response_bearer_ctxt_modified_good in Hg; destruct_and! Hg. apply decodes_gtp_group; [reflexivity|assumption|]. unfold gtp_mod_bearer_response_bearer_ctxt_modified_body.
  read_rest v.
Qed.
#[global] Instance gtp_mod_bearer_response_bearer_ctxt_modified_elem_ok : GtpElemOk gtp_mod_bearer_response_bearer_ctxt_modified_ie_t.
Proof. split_elem; [apply gtp_mod_bearer_response_bearer_ctxt_modified_places|apply gtp_mod_bearer_response_bearer_ctxt_modified_items|intros v (Hh & _); exact (group_element _ _ Hh)]. Qed.

(** [gtp_mod_bearer_response_bearer_ctxt_marked_removal_ie_t] *)
Definition gtp_mod_bearer_response_bearer_ctxt_marked_removal_body (v : gtp_mod_bearer_response_bearer_ctxt_marked_removal_ie_t) : layout :=
  opt_layout v.(gtp_mod_bearer_response_bearer_ctxt_marked_removal_eps_bearer_id) ++
  opt_layout v.(gtp_mod_bearer_response_bearer_ctxt_marked_removal_cause) ++
  [].
Definition gtp_mod_bearer_response_bearer_ctxt_marked_removal_good (v : gtp_mod_bearer_response_bearer_ctxt_marked_removal_ie_t) : Prop :=
  group_good v.(gtp_mod_bearer_response_bearer_ctxt_marked_removal_header) (gtp_mod_bearer_response_bearer_ctxt_marked_removal_body v) ∧
  opt_good (GTP_IE_EPS_BEARER_ID, GTP_IE_INSTANCE_ZERO) v.(gtp_mod_bearer_response_bearer_ctxt_marked_removal_eps_bearer_id) ∧
  opt_good (GTP_IE_CAUSE, GTP_IE_INSTANCE_ZERO) v.(gtp_mod_bearer_response_bearer_ctxt_marked_removal_cause).
#[global] Instance gtp_mod_bearer_response_bearer_ctxt_marked_removal_elem : GtpElem gtp_mod_bearer_response_bearer_ctxt_marked_removal_ie_t :=
  {| el_header := gtp_mod_bearer_response_bearer_ctxt_marked_removal_header; el_encode := encode_gtp_mod_bearer_response_bearer_ctxt_marked_removal_ie; el_decode := decode_gtp_mod_bearer_response_bearer_ctxt_marked_removal_ie;
     el_zero := zero_gtp_mod_bearer_response_bearer_ctxt_marked_removal; el_unit := 8; el_short := true;
     el_layout v := layout_gie_header v.(gtp_mod_bearer_response_bearer_ctxt_marked_removal_header) ++ gtp_mod_bearer_response_bearer_ctxt_marked_removal_body v; el_good v := gtp_mod_bearer_response_bearer_ctxt_marked_removal_good v ∧ short_good v.(gtp_mod_bearer_response_bearer_ctxt_marked_removal_header) (gtp_mod_bearer_response_bearer_ctxt_marked_removal_body v) |}.
Lemma gtp_mod_bearer_response_bearer_ctxt_marked_removal_places v : gtp_mod_bearer_response_bearer_ctxt_marked_removal_good v -> encodes (encode_gtp_mod_bearer_response_bearer_ctxt_marked_removal_ie v) (el_layout v) (size (el_layout v) / 8).
Proof.
  intros Hg; unfold gtp_mod_bearer_response_bearer_ctxt_marked_removal_good in Hg; destruct_and! Hg. apply encodes_gtp_group. unfold gtp_mod_bearer_response_bearer_ctxt_marked_removal_body.
  place_members ltac:(gtp_member).
Qed.
Lemma gtp_mod_bearer_response_bearer_ctxt_marked_removal_items v : gtp_mod_bearer_response_bearer_ctxt_marked_removal_good v ->
  decodes (decode_gtp_mod_bearer_response_bearer_ctxt_marked_removal_ie zero_gtp_mod_bearer_response_bearer_ctxt_marked_removal) (el_layout v) (returned true (size (el_layout v) / 8)) v.
Proof.
  intros Hg; unfold gtp_mod_bearer_response_bearer_ctxt_marked_removal_good in Hg; destruct_and! Hg. apply decodes_gtp_group; [reflexivity|assumption|]. unfold gtp_mod_bearer_response_bearer_ctxt_marked_removal_body.
  read_rest v.
Qed.
#[global] Instance gtp_mod_bearer_response_bearer_ctxt_marked_removal_elem_ok : GtpElemOk gtp_mod_bearer_response_bearer_ctxt_marked_removal_ie_t.
Proof. split; [intros v [Hg _]; by apply gtp_mod_bearer_response_bearer_ctxt_marked_removal_places|intros v [Hg _]; by apply gtp_mod_bearer_response_bearer_ctxt_marked_removal_items|by intros v [_ Hz]|intros v [(Hh & _) _]; exact (group_element _ _ Hh)]. Qed.

(** [gtp_mod_bearer_response__load_ctl_info_ie_t] *)
Definition gtp_mod_bearer_response__load_ctl_info_body (v : gtp_mod_bearer_response__load_ctl_info_ie_t) : layout :=
  opt_layout v.(gtp_mod_bearer_response__load_ctl_info_load_ctl_seqn_nbr) ++
  opt_layout v.(gtp_mod_bearer_response__load_ctl_info_load_metric) ++
  opt_layout v.(gtp_mod_bearer_response__load_ctl_info_list_of_apn_and_rltv_cap) ++
  [].
Definition gtp_mod_bearer_response__load_ctl_info_good (v : gtp_mod_bearer_response__load_ctl_info_ie_t) : Prop :=
  group_good v.(gtp_mod_bearer_response__load_ctl_info_header) (gtp_mod_bearer_response__load_ctl_info_body v) ∧
  opt_good (GTP_IE_SEQUENCE_NUMBER, GTP_IE_INSTANCE_ZERO) v.(gtp_mod_bearer_response__load_ctl_info_load_ctl_seqn_nbr) ∧
  opt_good (GTP_IE_METRIC, GTP_IE_INSTANCE_ZERO) v.(gtp_mod_bearer_response__load_ctl_info_load_metric) ∧
  opt_good (GTP_IE_APN_AND_RLTV_CAP, GTP_IE_INSTANCE_ZERO) v.(gtp_mod_bearer_response__load_ctl_info_list_of_apn_and_rltv_cap).
#[global] Instance gtp_mod_bearer_response__load_ctl_info_elem : GtpElem gtp_mod_bearer_response__load_ctl_info_ie_t :=
  {| el_header := gtp_mod_bearer_response__load_ctl_info_header; el_encode := encode_gtp_mod_bearer_response__load_ctl_info_ie; el_decode := decode_gtp_mod_bearer_response__load_ctl_info_ie;
     el_zero := zero_gtp_mod_bearer_response__load_ctl_info; el_unit := 8; el_short := true;
     el_layout v := layout_gie_header v.(gtp_mod_bearer_response__load_ctl_info_header) ++ gtp_mod_bearer_response__load_ctl_info_body v; el_good v := gtp_mod_bearer_response__load_ctl_info_good v ∧ short_good v.(gtp_mod_bearer_response__load_ctl_info_header) (gtp_mod_bearer_response__load_ctl_info_body v) |}.
Lemma gtp_mod_bearer_response__load_ctl_info_places v : gtp_mod_bearer_response__load_ctl_info_good v -> encodes (encode_gtp_mod_bearer_response__load_ctl_info_ie v) (el_layout v) (size (el_layout v) / 8).
Proof.
  intros Hg; unfold gtp_mod_bearer_response__load_ctl_info_good in Hg; destruct_and! Hg. apply encodes_gtp_group. unfold gtp_mod_bearer_response__load_ctl_info_body.
  place_members ltac:(gtp_member).
Qed.
Lemma gtp_mod_bearer_response__load_ctl_info_items v : gtp_mod_bearer_response__load_ctl_info_good v ->
  decodes (decode_gtp_mod_bearer_response__load_ctl_info_ie zero_gtp_mod_bearer_response__load_ctl_info) (el_layout v) (returned true (size (el_layout v) / 8)) v.
Proof.
  intros Hg; unfold gtp_mod_bearer_response__load_ctl_info_good in Hg; destruct_and! Hg. apply decodes_gtp_group; [reflexivity|assumption|]. unfold gtp_mod_bearer_response__load_ctl_info_body.
  read_rest v.
Qed.
#[global] Instance gtp_mod_bearer_response__load_ctl_info_elem_ok : GtpElemOk gtp_mod_bearer_response__load_ctl_info_ie_t.
Proof. split; [intros v [Hg _]; by apply gtp_mod_bearer_response__load_ctl_info_places|intros v [Hg _]; by apply gtp_mod_bearer_response__load_ctl_info_items|by intros v [_ Hz]|intros v [(Hh & _) _]; exact (group_element _ _ Hh)]. Qed.

(** [gtp_mod_bearer_response__overload_ctl_info_ie_t] *)
Definition gtp_mod_bearer_response__overload_ctl_info_body (v : gtp_mod_bearer_response__overload_ctl_info_ie_t) : layout :=
  opt_layout v.(gtp_mod_bearer_response__overload_ctl_info_ovrld_ctl_seqn_nbr) ++
  opt_layout v.(gtp_mod_bearer_response__overload_ctl_info_ovrld_reduction_metric) ++
  opt_layout v.(gtp_mod_bearer_response__overload_ctl_info_prd_of_validity) ++
  opt_layout v.(gtp_mod_bearer_response__overload_ctl_info_apn) ++
  [].
Definition gtp_mod_bearer_response__overload_ctl_info_good (v : gtp_mod_bearer_response__overload_ctl_info_ie_t) : Prop :=
  group_good v.(gtp_mod_bearer_response__overload_ctl_info_header) (gtp_mod_bearer_response__overload_ctl_info_body v) ∧
  opt_good (GTP_IE_SEQUENCE_NUMBER, GTP_IE_INSTANCE_ZERO) v.(gtp_mod_bearer_response__overload_ctl_info_ovrld_ctl_seqn_nbr) ∧
  opt_good (GTP_IE_METRIC, GTP_IE_INSTANCE_ZERO) v.(gtp_mod_bearer_response__overload_ctl_info_ovrld_reduction_metric) ∧
  opt_good (GTP_IE_EPC_TIMER, GTP_IE_INSTANCE_ZERO) v.(gtp_mod_bearer_response__overload_ctl_info_prd_of_validity) ∧
  opt_good (GTP_IE_ACC_PT_NAME, GTP_IE_INSTANCE_ZERO) v.(gtp_mod_bearer_response__overload_ctl_info_apn).
#[global] Instance gtp_mod_bearer_response__overload_ctl_info_elem : GtpElem gtp_mod_bearer_response__overload_ctl_info_ie_t :=
  {| el_header := gtp_mod_bearer_response__overload_ctl_info_header; el_encode := encode_gtp_mod_bearer_response__overload_ctl_info_ie; el_decode := decode_gtp_mod_bearer_response__overload_ctl_info_ie;
     el_zero := zero_gtp_mod_bearer_response__overload_ctl_info; el_unit := 8; el_short := true;
     el_layout v := layout_gie_header v.(gtp_mod_bearer_response__overload_ctl_info_header) ++ gtp_mod_bearer_response__overload_ctl_info_body v; el_good v := gtp_mod_bearer_response__overload_ctl_info_good v ∧ short_good v.(gtp_mod_bearer_response__overload_ctl_info_header) (gtp_mod_bearer_response__overload_ctl_info_body v) |}.
Lemma gtp_mod_bearer_response__overload_ctl_info_places v : gtp_mod_bearer_response__overload_ctl_info_good v -> encodes (encode_gtp_mod_bearer_response__overload_ctl_info_ie v) (el_layout v) (size (el_layout v) / 8).
Proof.
  intros Hg; unfold gtp_mod_bearer_response__overload_ctl_info_good in Hg; destruct_and! Hg. apply encodes_gtp_group. unfold gtp_mod_bearer_response__overload_ctl_info_body.
  place_members ltac:(gtp_member).
Qed.
Lemma gtp_mod_bearer_response__overload_ctl_info_items v : gtp_mod_bearer_response__overload_ctl_info_good v ->
  decodes (decode_gtp_mod_bearer_response__overload_ctl_info_ie zero_gtp_mod_bearer_response__overload_ctl_info) (el_layout v) (returned true (size (el_layout v) / 8)) v.
Proof.
  intros Hg; unfold gtp_mod_bearer_response__overload_ctl_info_good in Hg; destruct_and! Hg. apply decodes_gtp_group; [reflexivity|assumption|]. unfold gtp_mod_bearer_response__overload_ctl_info_body.
  read_rest v.
Qed.
#[global] Instance gtp_mod_bearer_response__overload_ctl_info_elem_ok : GtpElemOk gtp_mod_bearer_response__overload_ctl_info_ie_t.
Proof. split; [intros v [Hg _]; by apply gtp_mod_bearer_response__overload_ctl_info_places|intros v [Hg _]; by apply gtp_mod_bearer_response__overload_ctl_info_items|by intros v [_ Hz]|intros v [(Hh & _) _]; exact (group_element _ _ Hh)]. Qed.

(** [gtp_del_sess_request__overload_ctl_info_ie_t] *)
Definition gtp_del_sess_request__overload_ctl_info_body (v : gtp_del_sess_request__overload_ctl_info_ie_t) : layout :=
  opt_layout v.(gtp_del_sess_request__overload_ctl_info_ovrld_ctl_seqn_nbr) ++
  opt_layout v.(gtp_del_sess_request__overload_ctl_info_ovrld_reduction_metric) ++
  opt_layout v.(gtp_del_sess_request__overload_ctl_info_prd_of_validity) ++
  [].
Definition gtp_del_sess_request__overload_ctl_info_good (v : gtp_del_sess_request__overload_ctl_info_ie_t) : Prop :=
  group_good v.(gtp_del_sess_request__overload_ctl_info_header) (gtp_del_sess_request__overload_ctl_info_body v) ∧
  opt_good (GTP_IE_SEQUENCE_NUMBER, GTP_IE_INSTANCE_ZERO) v.(gtp_del_sess_request__overload_ctl_info_ovrld_ctl_seqn_nbr) ∧
  opt_good (GTP_IE_METRIC, GTP_IE_INSTANCE_ZERO) v.(gtp_del_sess_request__overload_ctl_info_ovrld_reduction_metric) ∧
  opt_good (GTP_IE_EPC_TIMER, GTP_IE_INSTANCE_ZERO) v.(gtp_del_sess_request__overload_ctl_info_prd_of_validity).
#[global] Instance gtp_del_sess_request__overload_ctl_info_elem : GtpElem gtp_del_sess_request__overload_ctl_info_ie_t :=
  {| el_header := gtp_del_sess_request__overload_ctl_info_header; el_encode := encode_gtp_del_sess_request__overload_ctl_info_ie; el_decode := decode_gtp_del_sess_request__overload_ctl_info_ie;
     el_zero := zero_gtp_del_sess_request__overload_ctl_info; el_unit := 8; el_short := true;
     el_layout v := layout_gie_header v.(gtp_del_sess_request__overload_ctl_info_header) ++ gtp_del_sess_request__overload_ctl_info_body v; el_good v := gtp_del_sess_request__overload_ctl_info_good v ∧ short_good v.(gtp_del_sess_request__overload_ctl_info_header) (gtp_del_sess_request__overload_ctl_info_body v) |}.
Lemma gtp_del_sess_request__overload_ctl_info_places v : gtp_del_sess_request__overload_ctl_info_good v -> encodes (encode_gtp_del_sess_request__overload_ctl_info_ie v) (el_layout v) (size (el_layout v) / 8).
Proof.
  intros Hg; unfold gtp_del_sess_request__overload_ctl_info_good in Hg; destruct_and! Hg. apply encodes_gtp_group. unfold gtp_del_sess_request__overload_ctl_info_body.
  place_members ltac:(gtp_member).
Qed.
Lemma gtp_del_sess_request__overload_ctl_info_items v : gtp_del_sess_request__overload_ctl_info_good v ->
  decodes (decode_gtp_del_sess_request__overload_ctl_info_ie zero_gtp_del_sess_request__overload_ctl_info) (el_layout v) (returned true (size (el_layout v) / 8)) v.
Proof.
  intros Hg; unfold gtp_del_sess_request__overload_ctl_info_good in Hg; destruct_and! Hg. apply decodes_gtp_group; [reflexivity|assumption|]. unfold gtp_del_sess_request__overload_ctl_info_body.
  read_rest v.
Qed.
#[global] Instance gtp_del_sess_request__overload_ctl_info_elem_ok : GtpElemOk gtp_del_sess_request__overload_ctl_info_ie_t.
Proof. split; [intros v [Hg _]; by apply gtp_del_sess_request__overload_ctl_info_places|intros v [Hg _]; by apply gtp_del_sess_request__overload_ctl_info_items|by intros v [_ Hz]|intros v [(Hh & _) _]; exact (group_element _ _ Hh)]. Qed.

(** [gtp_del_bearer_request__bearer_ctxt_ie_t] *)
Definition gtp_del_bearer_request__bearer_ctxt_body (v : gtp_del_bearer_request__bearer_ctxt_ie_t) : layout :=
  opt_layout v.(gtp_del_bearer_request__bearer_ctxt_eps_bearer_id) ++
  opt_layout v.(gtp_del_bearer_request__bearer_ctxt_cause) ++
  [].
Definition gtp_del_bearer_request__bearer_ctxt_good (v : gtp_del_bearer_request__bearer_ctxt_ie_t) : Prop :=
  group_good v.(gtp_del_bearer_request__bearer_ctxt_header) (gtp_del_bearer_request__bearer_ctxt_body v) ∧
  opt_good (GTP_IE_EPS_BEARER_ID, GTP_IE_INSTANCE_ZERO) v.(gtp_del_bearer_request__bearer_ctxt_eps_bearer_id) ∧
  opt_good (GTP_IE_CAUSE, GTP_IE_INSTANCE_ZERO) v.(gtp_del_bearer_request__bearer_ctxt_cause).
#[global] Instance gtp_del_bearer_request__bearer_ctxt_elem : GtpElem gtp_del_bearer_request__bearer_ctxt_ie_t :=
  {| el_header := gtp_del_bearer_request__bearer_ctxt_header; el_encode := encode_gtp_del_bearer_request__bearer_ctxt_ie; el_decode := decode_gtp_del_bearer_request__bearer_ctxt_ie;
     el_zero := zero_gtp_del_bearer_request__bearer_ctxt; el_unit := 8; el_short := true;
     el_layout v := layout_gie_header v.(gtp_del_bearer_request__bearer_ctxt_header) ++ gtp_del_bearer_request__bearer_ctxt_body v; el_good v := gtp_del_bearer_request__bearer_ctxt_good v ∧ short_good v.(gtp_del_bearer_request__bearer_ctxt_header) (gtp_del_bearer_request__bearer_ctxt_body v) |}.
Lemma gtp_del_bearer_request__bearer_ctxt_places v : gtp_del_bearer_request__bearer_ctxt_good v -> encodes (encode_gtp_del_bearer_request__bearer_ctxt_ie v) (el_layout v) (size (el_layout v) / 8).
Proof.
  intros Hg; unfold gtp_del_bearer_request__bearer_ctxt_good in Hg; destruct_and! Hg. apply encodes_gtp_group. unfold gtp_del_bearer_request__bearer_ctxt_body.
  place_members ltac:(gtp_member).
Qed.
Lemma gtp_del_bearer_request__bearer_ctxt_items v : gtp_del_bearer_request__bearer_ctxt_good v ->
  decodes (decode_gtp_del_bearer_request__bearer_ctxt_ie zero_gtp_del_bearer_request__bearer_ctxt) (el_layout v) (returned true (size (el_layout v) / 8)) v.
Proof.
  intros Hg; unfold gtp_del_bearer_request__bearer_ctxt_good in Hg; destruct_and! Hg. apply decodes_gtp_group; [reflexivity|assumption|]. unfold gtp_del_bearer_request__bearer_ctxt_body.
  read_rest v.
Qed.
#[global] Instance gtp_del_bearer_request__bearer_ctxt_elem_ok : GtpElemOk gtp_del_bearer_request__bearer_ctxt_ie_t.
Proof. split; [intros v [Hg _]; by apply gtp_del_bearer_request__bearer_ctxt_places|intros v [Hg _]; by apply gtp_del_bearer_request__bearer_ctxt_items|by intros v [_ Hz]|intros v [(Hh & _) _]; exact (group_element _ _ Hh)]. Qed.

(** [gtp_del_bearer_request__load_ctl_info_ie_t] *)
Definition gtp_del_bearer_request__load_ctl_info_body (v : gtp_del_bearer_request__load_ctl_info_ie_t) : layout :=
  opt_layout v.(gtp_del_bearer_request__load_ctl_info_load_ctl_seqn_nbr) ++
  opt_layout v.(gtp_del_bearer_request__load_ctl_info_load_metric) ++
  opt_layout v.(gtp_del_bearer_request__load_ctl_info_list_of_apn_and_rltv_cap) ++
  [].
Definition gtp_del_bearer_request__load_ctl_info_good (v : gtp_del_bearer_request__load_ctl_info_ie_t) : Prop :=
  group_good v.(gtp_del_bearer_request__load_ctl_info_header) (gtp_del_bearer_request__load_ctl_info_body v) ∧
  opt_good (GTP_IE_SEQUENCE_NUMBER, GTP_IE_INSTANCE_ZERO) v.(gtp_del_bearer_request__load_ctl_info_load_ctl_seqn_nbr) ∧
  opt_good (GTP_IE_METRIC, GTP_IE_INSTANCE_ZERO) v.(gtp_del_bearer_request__load_ctl_info_load_metric) ∧
  opt_good (GTP_IE_APN_AND_RLTV_CAP, GTP_IE_INSTANCE_ZERO) v.(gtp_del_bearer_request__load_ctl_info_list_of_apn_and_rltv_cap).
#[global] Instance gtp_del_bearer_request__load_ctl_info_elem : GtpElem gtp_del_bearer_request__load_ctl_info_ie_t :=
  {| el_header := gtp_del_bearer_request__load_ctl_info_header; el_encode := encode_gtp_del_bearer_request__load_ctl_info_ie; el_decode := decode_gtp_del_bearer_request__load_ctl_info_ie;
     el_zero := zero_gtp_del_bearer_request__load_ctl_info; el_unit := 8; el_short := true;
     el_layout v := layout_gie_header v.(gtp_del_bearer_request__load_ctl_info_header) ++ gtp_del_bearer_request__load_ctl_info_body v; el_good v := gtp_del_bearer_request__load_ctl_info_good v ∧ short_good v.(gtp_del_bearer_request__load_ctl_info_header) (gtp_del_bearer_request__load_ctl_info_body v) |}.
Lemma gtp_del_bearer_request__load_ctl_info_places v : gtp_del_bearer_request__load_ctl_info_good v -> encodes (encode_gtp_del_bearer_request__load_ctl_info_ie v) (el_layout v) (size (el_layout v) / 8).
Proof.
  intros Hg; unfold gtp_del_bearer_request__load_ctl_info_good in Hg; destruct_and! Hg. apply encodes_gtp_group. unfold gtp_del_bearer_request__load_ctl_info_body.
  place_members ltac:(gtp_member).
Qed.
Lemma gtp_del_bearer_request__load_ctl_info_items v : gtp_del_bearer_request__load_ctl_info_good v ->
  decodes (decode_gtp_del_bearer_request__load_ctl_info_ie zero_gtp_del_bearer_request__load_ctl_info) (el_layout v) (returned true (size (el_layout v) / 8)) v.
Proof.
  intros Hg; unfold gtp_del_bearer_request__load_ctl_info_good in Hg; destruct_and! Hg. apply decodes_gtp_group; [reflexivity|assumption|]. unfold gtp_del_bearer_request__load_ctl_info_body.
  read_rest v.
Qed.
#[global] Instance gtp_del_bearer_request__load_ctl_info_elem_ok : GtpElemOk gtp_del_bearer_request__load_ctl_info_ie_t.
Proof. split; [intros v [Hg _]; by apply gtp_del_bearer_request__load_ctl_info_places|intros v [Hg _]; by apply gtp_del_bearer_request__load_ctl_info_items|by intros v [_ Hz]|intros v [(Hh & _) _]; exact (group_element _ _ Hh)]. Qed.

(** [gtp_del_bearer_request__overload_ctl_info_ie_t] *)
Definition gtp_del_bearer_request__overload_ctl_info_body (v : gtp_del_bearer_request__overload_ctl_info_ie_t) : layout :=
  opt_layout v.(gtp_del_bearer_request__overload_ctl_info_ovrld_ctl_seqn_nbr) ++
  opt_layout v.(gtp_del_bearer_request__overload_ctl_info_ovrld_reduction_metric) ++
  opt_layout v.(gtp_del_bearer_request__overload_ctl_info_prd_of_validity) ++
  opt_layout v.(gtp_del_bearer_request__overload_ctl_info_apn) ++
  [].
Definition gtp_del_bearer_request__overload_ctl_info_good (v : gtp_del_bearer_request__overload_ctl_info_ie_t) : Prop :=
  group_good v.(gtp_del_bearer_request__overload_ctl_info_header) (gtp_del_bearer_request__overload_ctl_info_body v) ∧
  opt_good (GTP_IE_SEQUENCE_NUMBER, GTP_IE_INSTANCE_ZERO) v.(gtp_del_bearer_request__overload_ctl_info_ovrld_ctl_seqn_nbr) ∧
  opt_good (GTP_IE_METRIC, GTP_IE_INSTANCE_ZERO) v.(gtp_del_bearer_request__overload_ctl_info_ovrld_reduction_metric) ∧
  opt_good (GTP_IE_EPC_TIMER, GTP_IE_INSTANCE_ZERO) v.(gtp_del_bearer_request__overload_ctl_info_prd_of_validity) ∧
  opt_good (GTP_IE_ACC_PT_NAME, GTP_IE_INSTANCE_ZERO) v.(gtp_del_bearer_request__overload_ctl_info_apn).
#[global] Instance gtp_del_bearer_request__overload_ctl_info_elem : GtpElem gtp_del_bearer_request__overload_ctl_info_ie_t :=
  {| el_header := gtp_del_bearer_request__overload_ctl_info_header; el_encode := encode_gtp_del_bearer_request__overload_ctl_info_ie; el_decode := decode_gtp_del_bearer_request__overload_ctl_info_ie;
     el_zero := zero_gtp_del_bearer_request__overload_ctl_info; el_unit := 8; el_short := true;
     el_layout v := layout_gie_header v.(gtp_del_bearer_request__overload_ctl_info_header) ++ gtp_del_bearer_request__overload_ctl_info_body v; el_good v := gtp_del_bearer_request__overload_ctl_info_good v ∧ short_good v.(gtp_del_bearer_request__overload_ctl_info_header) (gtp_del_bearer_request__overload_ctl_info_body v) |}.
Lemma gtp_del_bearer_request__overload_ctl_info_places v : gtp_del_bearer_request__overload_ctl_info_good v -> encodes (encode_gtp_del_bearer_request__overload_ctl_info_ie v) (el_layout v) (size (el_layout v) / 8).
Proof.
  intros Hg; unfold gtp_del_bearer_request__overload_ctl_info_good in Hg; destruct_and! Hg. apply encodes_gtp_group. unfold gtp_del_bearer_request__overload_ctl_info_body.
  place_members ltac:(gtp_member).
Qed.
Lemma gtp_del_bearer_request__overload_ctl_info_items v : gtp_del_bearer_request__overload_ctl_info_good v ->
  decodes (decode_gtp_del_bearer_request__overload_ctl_info_ie zero_gtp_del_bearer_request__overload_ctl_info) (el_layout v) (returned true (size (el_layout v) / 8)) v.
Proof.
  intros Hg; unfold gtp_del_bearer_request__overload_ctl_info_good in Hg; destruct_and! Hg. apply decodes_gtp_group; [reflexivity|assumption|]. unfold gtp_del_bearer_request__overload_ctl_info_body.
  read_rest v.
Qed.
#[global] Instance gtp_del_bearer_request__overload_ctl_info_elem_ok : GtpElemOk gtp_del_bearer_request__overload_ctl_info_ie_t.
Proof. split; [intros v [Hg _]; by apply gtp_del_bearer_request__overload_ctl_info_places|intros v [Hg _]; by apply gtp_del_bearer_request__overload_ctl_info_items|by intros v [_ Hz]|intros v [(Hh & _) _]; exact (group_element _ _ Hh)]. Qed.

(** [gtp_del_sess_response__load_ctl_info_ie_t] *)
Definition gtp_del_sess_response__load_ctl_info_body (v : gtp_del_sess_response__load_ctl_info_ie_t) : layout :=
  opt_layout v.(gtp_del_sess_response__load_ctl_info_load_ctl_seqn_nbr) ++
  opt_layout v.(gtp_del_sess_response__load_ctl_info_load_metric) ++
  opt_layout v.(gtp_del_sess_response__load_ctl_info_list_of_apn_and_rltv_cap) ++
  [].
Definition gtp_del_sess_response__load_ctl_info_good (v : gtp_del_sess_response__load_ctl_info_ie_t) : Prop :=
  group_good v.(gtp_del_sess_response__load_ctl_info_header) (gtp_del_sess_response__load_ctl_info_body v) ∧
  opt_good (GTP_IE_SEQUENCE_NUMBER, GTP_IE_INSTANCE_ZERO) v.(gtp_del_sess_response__load_ctl_info_load_ctl_seqn_nbr) ∧
  opt_good (GTP_IE_METRIC, GTP_IE_INSTANCE_ZERO) v.(gtp_del_sess_response__load_ctl_info_load_metric) ∧
  opt_good (GTP_IE_APN_AND_RLTV_CAP, GTP_IE_INSTANCE_ZERO) v.(gtp_del_sess_response__load_ctl_info_list_of_apn_and_rltv_cap).
#[global] Instance gtp_del_sess_response__load_ctl_info_elem : GtpElem gtp_del_sess_response__load_ctl_info_ie_t :=
  {| el_header := gtp_del_sess_response__load_ctl_info_header; el_encode := encode_gtp_del_sess_response__load_ctl_info_ie; el_decode := decode_gtp_del_sess_response__load_ctl_info_ie;
     el_zero := zero_gtp_del_sess_response__load_ctl_info; el_unit := 8; el_short := true;
     el_layout v := layout_gie_header v.(gtp_del_sess_response__load_ctl_info_header) ++ gtp_del_sess_response__load_ctl_info_body v; el_good v := gtp_del_sess_response__load_ctl_info_good v ∧ short_good v.(gtp_del_sess_response__load_ctl_info_header) (gtp_del_sess_response__load_ctl_info_body v) |}.
Lemma gtp_del_sess_response__load_ctl_info_places v : gtp_del_sess_response__load_ctl_info_good v -> encodes (encode_gtp_del_sess_response__load_ctl_info_ie v) (el_layout v) (size (el_layout v) / 8).
Proof.
  intros Hg; unfold gtp_del_sess_response__load_ctl_info_good in Hg; destruct_and! Hg. apply encodes_gtp_group. unfold gtp_del_sess_response__load_ctl_info_body.
  place_members ltac:(gtp_member).
Qed.
Lemma gtp_del_sess_response__load_ctl_info_items v : gtp_del_sess_response__load_ctl_info_good v ->
  decodes (decode_gtp_del_sess_response__load_ctl_info_ie zero_gtp_del_sess_response__load_ctl_info) (el_layout v) (returned true (size (el_layout v) / 8)) v.
Proof.
  intros Hg; unfold gtp_del_sess_response__load_ctl_info_good in Hg; destruct_and! Hg. apply decodes_gtp_group; [reflexivity|assumption|]. unfold gtp_del_sess_response__load_ctl_info_body.
  read_rest v.
Qed.
#[global] Instance gtp_del_sess_response__load_ctl_info_elem_ok : GtpElemOk gtp_del_sess_response__load_ctl_info_ie_t.
Proof. split; [intros v [Hg _]; by apply gtp_del_sess_response__load_ctl_info_places|intros v [Hg _]; by apply gtp_del_sess_response__load_ctl_info_items|by intros v [_ Hz]|intros v [(Hh & _) _]; exact (group_element _ _ Hh)]. Qed.

(** [gtp_del_sess_response__overload_ctl_info_ie_t] *)
Definition gtp_del_sess_response__overload_ctl_info_body (v : gtp_del_sess_response__overload_ctl_info_ie_t) : layout :=
  opt_layout v.(gtp_del_sess_response__overload_ctl_info_ovrld_ctl_seqn_nbr) ++
  opt_layout v.(gtp_del_sess_response__overload_ctl_info_ovrld_reduction_metric) ++
  opt_layout v.(gtp_del_sess_response__overload_ctl_info_prd_of_validity) ++
  opt_layout v.(gtp_del_sess_response__overload_ctl_info_apn) ++
  [].
Definition gtp_del_sess_response__overload_ctl_info_good (v : gtp_del_sess_response__overload_ctl_info_ie_t) : Prop :=
  group_good v.(gtp_del_sess_response__overload_ctl_info_header) (gtp_del_sess_response__overload_ctl_info_body v) ∧
  opt_good (GTP_IE_SEQUENCE_NUMBER, GTP_IE_INSTANCE_ZERO) v.(gtp_del_sess_response__overload_ctl_info_ovrld_ctl_seqn_nbr) ∧
  opt_good (GTP_IE_METRIC, GTP_IE_INSTANCE_ZERO) v.(gtp_del_sess_response__overload_ctl_info_ovrld_reduction_metric) ∧
  opt_good (GTP_IE_EPC_TIMER, GTP_IE_INSTANCE_ZERO) v.(gtp_del_sess_response__overload_ctl_info_prd_of_validity) ∧
  opt_good (GTP_IE_ACC_PT_NAME, GTP_IE_INSTANCE_ZERO) v.(gtp_del_sess_response__overload_ctl_info_apn).
#[global] Instance gtp_del_sess_response__overload_ctl_info_elem : GtpElem gtp_del_sess_response__overload_ctl_info_ie_t :=
  {| el_header := gtp_del_sess_response__overload_ctl_info_header; el_encode := encode_gtp_del_sess_response__overload_ctl_info_ie; el_decode := decode_gtp_del_sess_response__overload_ctl_info_ie;
     el_zero := zero_gtp_del_sess_response__overload_ctl_info; el_unit := 8; el_short := true;
     el_layout v := layout_gie_header v.(gtp_del_sess_response__overload_ctl_info_header) ++ gtp_del_sess_response__overload_ctl_info_body v; el_good v := gtp_del_sess_response__overload_ctl_info_good v ∧ short_good v.(gtp_del_sess_response__overload_ctl_info_header) (gtp_del_sess_response__overload_ctl_info_body v) |}.
Lemma gtp_del_sess_response__overload_ctl_info_places v : gtp_del_sess_response__overload_ctl_info_good v -> encodes (encode_gtp_del_sess_response__overload_ctl_info_ie v) (el_layout v) (size (el_layout v) / 8).
Proof.
  intros Hg; unfold gtp_del_sess_response__overload_ctl_info_good in Hg; destruct_and! Hg. apply encodes_gtp_group. unfold gtp_del_sess_response__overload_ctl_info_body.
  place_members ltac:(gtp_member).
Qed.
Lemma gtp_del_sess_response__overload_ctl_info_items v : gtp_del_sess_response__overload_ctl_info_good v ->
  decodes (decode_gtp_del_sess_response__overload_ctl_info_ie zero_gtp_del_sess_response__overload_ctl_info) (el_layout v) (returned true (size (el_layout v) / 8)) v.
Proof.
  intros Hg; unfold gtp_del_sess_response__overload_ctl_info_good in Hg; destruct_and! Hg. apply decodes_gtp_group; [reflexivity|assumption|]. unfold gtp_del_sess_response__overload_ctl_info_body.
  read_rest v.
Qed.
#[global] Instance gtp_del_sess_response__overload_ctl_info_elem_ok : GtpElemOk gtp_del_sess_response__overload_ctl_info_ie_t.
Proof. split; [intros v [Hg _]; by apply gtp_del_sess_response__overload_ctl_info_places|intros v [Hg _]; by apply gtp_del_sess_response__overload_ctl_info_items|by intros v [_ Hz]|intros v [(Hh & _) _]; exact (group_element _ _ Hh)]. Qed.

(** [gtp_del_bearer_response_bearer_ctxt_ie_t] *)
Definition gtp_del_bearer_response_bearer_ctxt_body (v : gtp_del_bearer_response_bearer_ctxt_ie_t) : layout :=
  opt_layout v.(gtp_del_bearer_response_bearer_ctxt_eps_bearer_id) ++
  opt_layout v.(gtp_del_bearer_response_bearer_ctxt_cause) ++
  opt_layout v.(gtp_del_bearer_response_bearer_ctxt_pco) ++
  opt_layout v.(gtp_del_bearer_response_bearer_ctxt_ran_nas_cause) ++
  opt_layout v.(gtp_del_bearer_response_bearer_ctxt_epco) ++
  [].
Definition gtp_del_bearer_response_bearer_ctxt_good (v : gtp_del_bearer_response_bearer_ctxt_ie_t) : Prop :=
  group_good v.(gtp_del_bearer_response_bearer_ctxt_header) (gtp_del_bearer_response_bearer_ctxt_body v) ∧
  opt_good (GTP_IE_EPS_BEARER_ID, GTP_IE_INSTANCE_ZERO) v.(gtp_del_bearer_response_bearer_ctxt_eps_bearer_id) ∧
  opt_good (GTP_IE_CAUSE, GTP_IE_INSTANCE_ZERO) v.(gtp_del_bearer_response_bearer_ctxt_cause) ∧
  opt_good (GTP_IE_PROT_CFG_OPTS, GTP_IE_INSTANCE_ZERO) v.(gtp_del_bearer_response_bearer_ctxt_pco) ∧
  opt_good (GTP_IE_RAN_NAS_CAUSE, GTP_IE_INSTANCE_ZERO) v.(gtp_del_bearer_response_bearer_ctxt_ran_nas_cause) ∧
  opt_good (GTP_IE_EXTNDED_PROT_CFG_OPTS, GTP_IE_INSTANCE_ZERO) v.(gtp_del_bearer_response_bearer_ctxt_epco).
#[global] Instance gtp_del_bearer_response_bearer_ctxt_elem : GtpElem gtp_del_bearer_response_bearer_ctxt_ie_t :=
  {| el_header := gtp_del_bearer_response_bearer_ctxt_header; el_encode := encode_gtp_del_bearer_response_bearer_ctxt_ie; el_decode := decode_gtp_del_bearer_response_bearer_ctxt_ie;
     el_zero := zero_gtp_del_bearer_response_bearer_ctxt; el_unit := 8; el_short := false;
     el_layout v := layout_gie_header v.(gtp_del_bearer_response_bearer_ctxt_header) ++ gtp_del_bearer_response_bearer_ctxt_body v; el_good := gtp_del_bearer_response_bearer_ctxt_good |}.
Lemma gtp_del_bearer_response_bearer_ctxt_places v : gtp_del_bearer_response_bearer_ctxt_good v -> encodes (encode_gtp_del_bearer_response_bearer_ctxt_ie v) (el_layout v) (size (el_layout v) / 8).
Proof.
  intros Hg; unfold gtp_del_bearer_response_bearer_ctxt_good in Hg; destruct_and! Hg. apply encodes_gtp_group. unfold gtp_del_bearer_response_bearer_ctxt_body.
  place_members ltac:(gtp_member).
Qed.
Lemma gtp_del_bearer_response_bearer_ctxt_items v : gtp_del_bearer_response_bearer_ctxt_good v ->
  decodes (decode_gtp_del_bearer_response_bearer_ctxt_ie zero_gtp_del_bearer_response_bearer_ctxt) (el_layout v) (returned false (size (el_layout v) / 8)) v.
Proof.
  intros Hg; unfold gtp_del_bearer_response_bearer_ctxt_good in Hg; destruct_and! Hg. apply decodes_gtp_group; [reflexivity|assumption|]. unfold gtp_del_bearer_response_bearer_ctxt_body.
  read_rest v.
Qed.
#[global] Instance gtp_del_bearer_response_bearer_ctxt_elem_ok : GtpElemOk gtp_del_bearer_response_bearer_ctxt_ie_t.
Proof. split_elem; [apply gtp_del_bearer_response_bearer_ctxt_places|apply gtp_del_bearer_response_bearer_ctxt_items|intros v (Hh & _); exact (group_element _ _ Hh)]. Qed.

(** [gtp_del_bearer_response__overload_ctl_info_ie_t] *)
Definition gtp_del_bearer_response__overload_ctl_info_body (v : gtp_del_bearer_response__overload_ctl_info_ie_t) : layout :=
  opt_layout v.(gtp_del_bearer_response__overload_ctl_info_ovrld_ctl_seqn_nbr) ++
  opt_layout v.(gtp_del_bearer_response__overload_ctl_info_ovrld_reduction_metric) ++
  opt_layout v.(gtp_del_bearer_response__overload_ctl_info_prd_of_validity) ++
  [].
Definition gtp_del_bearer_response__overload_ctl_info_good (v : gtp_del_bearer_response__overload_ctl_info_ie_t) : Prop :=
  group_good v.(gtp_del_bearer_response__overload_ctl_info_header) (gtp_del_bearer_response__overload_ctl_info_body v) ∧
  opt_good (GTP_IE_SEQUENCE_NUMBER, GTP_IE_INSTANCE_ZERO) v.(gtp_del_bearer_response__overload_ctl_info_ovrld_ctl_seqn_nbr) ∧
  opt_good (GTP_IE_METRIC, GTP_IE_INSTANCE_ZERO) v.(gtp_del_bearer_response__overload_ctl_info_ovrld_reduction_metric) ∧
  opt_good (GTP_IE_EPC_TIMER, GTP_IE_INSTANCE_ZERO) v.(gtp_del_bearer_response__overload_ctl_info_prd_of_validity).
#[global] Instance gtp_del_bearer_response__overload_ctl_info_elem : GtpElem gtp_del_bearer_response__overload_ctl_info_ie_t :=
  {| el_header := gtp_del_bearer_response__overload_ctl_info_header; el_encode := encode_gtp_del_bearer_response__overload_ctl_info_ie; el_decode := decode_gtp_del_bearer_response__overload_ctl_info_ie;
     el_zero := zero_gtp_del_bearer_response__overload_ctl_info; el_unit := 8; el_short := true;
     el_layout v := layout_gie_header v.(gtp_del_bearer_response__overload_ctl_info_header) ++ gtp_del_bearer_response__overload_ctl_info_body v; el_good v := gtp_del_bearer_response__overload_ctl_info_good v ∧ short_good v.(gtp_del_bearer_response__overload_ctl_info_header) (gtp_del_bearer_response__overload_ctl_info_body v) |}.
Lemma gtp_del_bearer_response__overload_ctl_info_places v : gtp_del_bearer_response__overload_ctl_info_good v -> encodes (encode_gtp_del_bearer_response__overload_ctl_info_ie v) (el_layout v) (size (el_layout v) / 8).
Proof.
  intros Hg; unfold gtp_del_bearer_response__overload_ctl_info_good in Hg; destruct_and! Hg. apply encodes_gtp_group. unfold gtp_del_bearer_response__overload_ctl_info_body.
  place_members ltac:(gtp_member).
Qed.
Lemma gtp_del_bearer_response__overload_ctl_info_items v : gtp_del_bearer_response__overload_ctl_info_good v ->
  decodes (decode_gtp_del_bearer_response__overload_ctl_info_ie zero_gtp_del_bearer_response__overload_ctl_info) (el_layout v) (returned true (size (el_layout v) / 8)) v.
Proof.
  intros Hg; unfold gtp_del_bearer_response__overload_ctl_info_good in Hg; destruct_and! Hg. apply decodes_gtp_group; [reflexivity|assumption|]. unfold gtp_del_bearer_response__overload_ctl_info_body.
  read_rest v.
Qed.
#[global] Instance gtp_del_bearer_response__overload_ctl_info_elem_ok : GtpElemOk gtp_del_bearer_response__overload_ctl_info_ie_t.
Proof. split; [intros v [Hg _]; by apply gtp_del_bearer_response__overload_ctl_info_places|intros v [Hg _]; by apply gtp_del_bearer_response__overload_ctl_info_items|by intros v [_ Hz]|intros v [(Hh & _) _]; exact (group_element _ _ Hh)]. Qed.

(** [gtp_dnlnk_data_notification__load_ctl_info_ie_t] *)
Definition gtp_dnlnk_data_notification__load_ctl_info_body (v : gtp_dnlnk_data_notification__load_ctl_info_ie_t) : layout :=
  opt_layout v.(gtp_dnlnk_data_notification__load_ctl_info_load_ctl_seqn_nbr) ++
  opt_layout v.(gtp_dnlnk_data_notification__load_ctl_info_load_metric) ++
  [].
Definition gtp_dnlnk_data_notification__load_ctl_info_good (v : gtp_dnlnk_data_notification__load_ctl_info_ie_t) : Prop :=
  group_good v.(gtp_dnlnk_data_notification__load_ctl_info_header) (gtp_dnlnk_data_notification__load_ctl_info_body v) ∧
  opt_good (GTP_IE_SEQUENCE_NUMBER, GTP_IE_INSTANCE_ZERO) v.(gtp_dnlnk_data_notification__load_ctl_info_load_ctl_seqn_nbr) ∧
  opt_good (GTP_IE_METRIC, GTP_IE_INSTANCE_ZERO) v.(gtp_dnlnk_data_notification__load_ctl_info_load_metric).
#[global] Instance gtp_dnlnk_data_notification__load_ctl_info_elem : GtpElem gtp_dnlnk_data_notification__load_ctl_info_ie_t :=
  {| el_header := gtp_dnlnk_data_notification__load_ctl_info_header; el_encode := encode_gtp_dnlnk_data_notification__load_ctl_info_ie; el_decode := decode_gtp_dnlnk_data_notification__load_ctl_info_ie;
     el_zero := zero_gtp_dnlnk_data_notification__load_ctl_info; el_unit := 8; el_short := true;
     el_layout v := layout_gie_header v.(gtp_dnlnk_data_notification__load_ctl_info_header) ++ gtp_dnlnk_data_notification__load_ctl_info_body v; el_good v := gtp_dnlnk_data_notification__load_ctl_info_good v ∧ short_good v.(gtp_dnlnk_data_notification__load_ctl_info_header) (gtp_dnlnk_data_notification__load_ctl_info_body v) |}.
Lemma gtp_dnlnk_data_notification__load_ctl_info_places v : gtp_dnlnk_data_notification__load_ctl_info_good v -> encodes (encode_gtp_dnlnk_data_notification__load_ctl_info_ie v) (el_layout v) (size (el_layout v) / 8).
Proof.
  intros Hg; unfold gtp_dnlnk_data_notification__load_ctl_info_good in Hg; destruct_and! Hg. apply encodes_gtp_group. unfold gtp_dnlnk_data_notification__load_ctl_info_body.
  place_members ltac:(gtp_member).
Qed.
Lemma gtp_dnlnk_data_notification__load_ctl_info_items v : gtp_dnlnk_data_notification__load_ctl_info_good v ->
  decodes (decode_gtp_dnlnk_data_notification__load_ctl_info_ie zero_gtp_dnlnk_data_notification__load_ctl_info) (el_layout v) (returned true (size (el_layout v) / 8)) v.
Proof.
  intros Hg; unfold gtp_dnlnk_data_notification__load_ctl_info_good in Hg; destruct_and! Hg. apply decodes_gtp_group; [reflexivity|assumption|]. unfold gtp_dnlnk_data_notification__load_ctl_info_body.
  read_rest v.
Qed.
#[global] Instance gtp_dnlnk_data_notification__load_ctl_info_elem_ok : GtpElemOk gtp_dnlnk_data_notification__load_ctl_info_ie_t.
Proof. split; [intros v [Hg _]; by apply gtp_dnlnk_data_notification__load_ctl_info_places|intros v [Hg _]; by apply gtp_dnlnk_data_notification__load_ctl_info_items|by intros v [_ Hz]|intros v [(Hh & _) _]; exact (group_element _ _ Hh)]. Qed.

(** [gtp_dnlnk_data_notification__overload_ctl_info_ie_t] *)
Definition gtp_dnlnk_data_notification__overload_ctl_info_body (v : gtp_dnlnk_data_notification__overload_ctl_info_ie_t) : layout :=
  opt_layout v.(gtp_dnlnk_data_notification__overload_ctl_info_ovrld_ctl_seqn_nbr) ++
  opt_layout v.(gtp_dnlnk_data_notification__overload_ctl_info_ovrld_reduction_metric) ++
  opt_layout v.(gtp_dnlnk_data_notification__overload_ctl_info_prd_of_validity) ++
  [].
Definition gtp_dnlnk_data_notification__overload_ctl_info_good (v : gtp_dnlnk_data_notification__overload_ctl_info_ie_t) : Prop :=
  group_good v.(gtp_dnlnk_data_notification__overload_ctl_info_header) (gtp_dnlnk_data_notification__overload_ctl_info_body v) ∧
  opt_good (GTP_IE_SEQUENCE_NUMBER, GTP_IE_INSTANCE_ZERO) v.(gtp_dnlnk_data_notification__overload_ctl_info_ovrld_ctl_seqn_nbr) ∧
  opt_good (GTP_IE_METRIC, GTP_IE_INSTANCE_ZERO) v.(gtp_dnlnk_data_notification__overload_ctl_info_ovrld_reduction_metric) ∧
  opt_good (GTP_IE_EPC_TIMER, GTP_IE_INSTANCE_ZERO) v.(gtp_dnlnk_data_notification__overload_ctl_info_prd_of_validity).
#[global] Instance gtp_dnlnk_data_notification__overload_ctl_info_elem : GtpElem gtp_dnlnk_data_notification__overload_ctl_info_ie_t :=
  {| el_header := gtp_dnlnk_data_notification__overload_ctl_info_header; el_encode := encode_gtp_dnlnk_data_notification__overload_ctl_info_ie; el_decode := decode_gtp_dnlnk_data_notification__overload_ctl_info_ie;
     el_zero := zero_gtp_dnlnk_data_notification__overload_ctl_info; el_unit := 8; el_short := true;
     el_layout v := layout_gie_header v.(gtp_dnlnk_data_notification__overload_ctl_info_header) ++ gtp_dnlnk_data_notification__overload_ctl_info_body v; el_good v := gtp_dnlnk_data_notification__overload_ctl_info_good v ∧ short_good v.(gtp_dnlnk_data_notification__overload_ctl_info_header) (gtp_dnlnk_data_notification__overload_ctl_info_body v) |}.
Lemma gtp_dnlnk_data_notification__overload_ctl_info_places v : gtp_dnlnk_data_notification__overload_ctl_info_good v -> encodes (encode_gtp_dnlnk_data_notification__overload_ctl_info_ie v) (el_layout v) (size (el_layout v) / 8).
Proof.
  intros Hg; unfold gtp_dnlnk_data_notification__overload_ctl_info_good in Hg; destruct_and! Hg. apply encodes_gtp_group. unfold gtp_dnlnk_data_notification__overload_ctl_info_body.
  place_members ltac:(gtp_member).
Qed.
Lemma gtp_dnlnk_data_notification__overload_ctl_info_items v : gtp_dnlnk_data_notification__overload_ctl_info_good v ->
  decodes (decode_gtp_dnlnk_data_notification__overload_ctl_info_ie zero_gtp_dnlnk_data_notification__overload_ctl_info) (el_layout v) (returned true (size (el_layout v) / 8)) v.
Proof.
  intros Hg; unfold gtp_dnlnk_data_notification__overload_ctl_info_good in Hg; destruct_and! Hg. apply decodes_gtp_group; [reflexivity|assumption|]. unfold gtp_dnlnk_data_notification__overload_ctl_info_body.
  read_rest v.
Qed.
#[global] Instance gtp_dnlnk_data_notification__overload_ctl_info_elem_ok : GtpElemOk gtp_dnlnk_data_notification__overload_ctl_info_ie_t.
Proof. split; [intros v [Hg _]; by apply gtp_dnlnk_data_notification__overload_ctl_info_places|intros v [Hg _]; by apply gtp_dnlnk_data_notification__overload_ctl_info_items|by intros v [_ Hz]|intros v [(Hh & _) _]; exact (group_element _ _ Hh)]. Qed.

(** [gtp_mod_bearer_command__bearer_ctxt_ie_t] *)
Definition gtp_mod_bearer_command__bearer_ctxt_body (v : gtp_mod_bearer_command__bearer_ctxt_ie_t) : layout :=
  opt_layout v.(gtp_mod_bearer_command__bearer_ctxt_eps_bearer_id) ++
  opt_layout v.(gtp_mod_bearer_command__bearer_ctxt_bearer_lvl_qos) ++
  [].
Definition gtp_mod_bearer_command__bearer_ctxt_good (v : gtp_mod_bearer_command__bearer_ctxt_ie_t) : Prop :=
  group_good v.(gtp_mod_bearer_command__bearer_ctxt_header) (gtp_mod_bearer_command__bearer_ctxt_body v) ∧
  opt_good (GTP_IE_EPS_BEARER_ID, GTP_IE_INSTANCE_ZERO) v.(gtp_mod_bearer_command__bearer_ctxt_eps_bearer_id) ∧
  opt_good (GTP_IE_BEARER_QLTY_OF_SVC, GTP_IE_INSTANCE_ZERO) v.(gtp_mod_bearer_command__bearer_ctxt_bearer_lvl_qos).
#[global] Instance gtp_mod_bearer_command__bearer_ctxt_elem : GtpElem gtp_mod_bearer_command__bearer_ctxt_ie_t :=
  {| el_header := gtp_mod_bearer_command__bearer_ctxt_header; el_encode := encode_gtp_mod_bearer_command__bearer_ctxt_ie; el_decode := decode_gtp_mod_bearer_command__bearer_ctxt_ie;
     el_zero := zero_gtp_mod_bearer_command__bearer_ctxt; el_unit := 8; el_short := true;
     el_layout v := layout_gie_header v.(gtp_mod_bearer_command__bearer_ctxt_header) ++ gtp_mod_bearer_command__bearer_ctxt_body v; el_good v := gtp_mod_bearer_command__bearer_ctxt_good v ∧ short_good v.(gtp_mod_bearer_command__bearer_ctxt_header) (gtp_mod_bearer_command__bearer_ctxt_body v) |}.
Lemma gtp_mod_bearer_command__bearer_ctxt_places v : gtp_mod_bearer_command__bearer_ctxt_good v -> encodes (encode_gtp_mod_bearer_command__bearer_ctxt_ie v) (el_layout v) (size (el_layout v) / 8).
Proof.
  intros Hg; unfold gtp_mod_bearer_command__bearer_ctxt_good in Hg; destruct_and! Hg. apply encodes_gtp_group. unfold gtp_mod_bearer_command__bearer_ctxt_body.
  place_members ltac:(gtp_member).
Qed.
Lemma gtp_mod_bearer_command__bearer_ctxt_items v : gtp_mod_bearer_command__bearer_ctxt_good v ->
  decodes (decode_gtp_mod_bearer_command__bearer_ctxt_ie zero_gtp_mod_bearer_command__bearer_ctxt) (el_layout v) (returned true (size (el_layout v) / 8)) v.
Proof.
  intros Hg; unfold gtp_mod_bearer_command__bearer_ctxt_good in Hg; destruct_and! Hg. apply decodes_gtp_group; [reflexivity|assumption|]. unfold gtp_mod_bearer_command__bearer_ctxt_body.
  read_rest v.
Qed.
#[global] Instance gtp_mod_bearer_command__bearer_ctxt_elem_ok : GtpElemOk gtp_mod_bearer_command__bearer_ctxt_ie_t.
Proof. split; [intros v [Hg _]; by apply gtp_mod_bearer_command__bearer_ctxt_places|intros v [Hg _]; by apply gtp_mod_bearer_command__bearer_ctxt_items|by intros v [_ Hz]|intros v [(Hh & _) _]; exact (group_element _ _ Hh)]. Qed.

(** [gtp_mod_bearer_command__overload_ctl_info_ie_t] *)
Definition gtp_mod_bearer_command__overload_ctl_info_body (v : gtp_mod_bearer_command__overload_ctl_info_ie_t) : layout :=
  opt_layout v.(gtp_mod_bearer_command__overload_ctl_info_ovrld_ctl_seqn_nbr) ++
  opt_layout v.(gtp_mod_bearer_command__overload_ctl_info_ovrld_reduction_metric) ++
  opt_layout v.(gtp_mod_bearer_command__overload_ctl_info_prd_of_validity) ++
  [].
Definition gtp_mod_bearer_command__overload_ctl_info_good (v : gtp_mod_bearer_command__overload_ctl_info_ie_t) : Prop :=
  group_good v.(gtp_mod_bearer_command__overload_ctl_info_header) (gtp_mod_bearer_command__overload_ctl_info_body v) ∧
  opt_good (GTP_IE_SEQUENCE_NUMBER, GTP_IE_INSTANCE_ZERO) v.(gtp_mod_bearer_command__overload_ctl_info_ovrld_ctl_seqn_nbr) ∧
  opt_good (GTP_IE_METRIC, GTP_IE_INSTANCE_ZERO) v.(gtp_mod_bearer_command__overload_ctl_info_ovrld_reduction_metric) ∧
  opt_good (GTP_IE_EPC_TIMER, GTP_IE_INSTANCE_ZERO) v.(gtp_mod_bearer_command__overload_ctl_info_prd_of_validity).
#[global] Instance gtp_mod_bearer_command__overload_ctl_info_elem : GtpElem gtp_mod_bearer_command__overload_ctl_info_ie_t :=
  {| el_header := gtp_mod_bearer_command__overload_ctl_info_header; el_encode := encode_gtp_mod_bearer_command__overload_ctl_info_ie; el_decode := decode_gtp_mod_bearer_command__overload_ctl_info_ie;
     el_zero := zero_gtp_mod_bearer_command__overload_ctl_info; el_unit := 8; el_short := true;
     el_layout v := layout_gie_header v.(gtp_mod_bearer_command__overload_ctl_info_header) ++ gtp_mod_bearer_command__overload_ctl_info_body v; el_good v := gtp_mod_bearer_command__overload_ctl_info_good v ∧ short_good v.(gtp_mod_bearer_command__overload_ctl_info_header) (gtp_mod_bearer_command__overload_ctl_info_body v) |}.
Lemma gtp_mod_bearer_command__overload_ctl_info_places v : gtp_mod_bearer_command__overload_ctl_info_good v -> encodes (encode_gtp_mod_bearer_command__overload_ctl_info_ie v) (el_layout v) (size (el_layout v) / 8).
Proof.
  intros Hg; unfold gtp_mod_bearer_command__overload_ctl_info_good in Hg; destruct_and! Hg. apply encodes_gtp_group. unfold gtp_mod_bearer_command__overload_ctl_info_body.
  place_members ltac:(gtp_member).
Qed.
Lemma gtp_mod_bearer_command__overload_ctl_info_items v : gtp_mod_bearer_command__overload_ctl_info_good v ->
  decodes (decode_gtp_mod_bearer_command__overload_ctl_info_ie zero_gtp_mod_bearer_command__overload_ctl_info) (el_layout v) (returned true (size (el_layout v) / 8)) v.
Proof.
  intros Hg; unfold gtp_mod_bearer_command__overload_ctl_info_good in Hg; destruct_and! Hg. apply decodes_gtp_group; [reflexivity|assumption|]. unfold gtp_mod_bearer_command__overload_ctl_info_body.
  read_rest v.
Qed.
#[global] Instance gtp_mod_bearer_command__overload_ctl_info_elem_ok : GtpElemOk gtp_mod_bearer_command__overload_ctl_info_ie_t.
Proof. split; [intros v [Hg _]; by apply gtp_mod_bearer_command__overload_ctl_info_places|intros v [Hg _]; by apply gtp_mod_bearer_command__overload_ctl_info_items|by intros v [_ Hz]|intros v [(Hh & _) _]; exact (group_element _ _ Hh)]. Qed.

(** [gtp_mod_bearer_fail_indication__overload_ctl_info_ie_t] *)
Definition gtp_mod_bearer_fail_indication__overload_ctl_info_body (v : gtp_mod_bearer_fail_indication__overload_ctl_info_ie_t) : layout :=
  opt_layout v.(gtp_mod_bearer_fail_indication__overload_ctl_info_ovrld_ctl_seqn_nbr) ++
  opt_layout v.(gtp_mod_bearer_fail_indication__overload_ctl_info_ovrld_reduction_metric) ++
  opt_layout v.(gtp_mod_bearer_fail_indication__overload_ctl_info_prd_of_validity) ++
  opt_layout v.(gtp_mod_bearer_fail_indication__overload_ctl_info_apn) ++
  [].
Definition gtp_mod_bearer_fail_indication__overload_ctl_info_good (v : gtp_mod_bearer_fail_indication__overload_ctl_info_ie_t) : Prop :=
  group_good v.(gtp_mod_bearer_fail_indication__overload_ctl_info_header) (gtp_mod_bearer_fail_indication__overload_ctl_info_body v) ∧
  opt_good (GTP_IE_SEQUENCE_NUMBER, GTP_IE_INSTANCE_ZERO) v.(gtp_mod_bearer_fail_indication__overload_ctl_info_ovrld_ctl_seqn_nbr) ∧
  opt_good (GTP_IE_METRIC, GTP_IE_INSTANCE_ZERO) v.(gtp_mod_bearer_fail_indication__overload_ctl_info_ovrld_reduction_metric) ∧
  opt_good (GTP_IE_EPC_TIMER, GTP_IE_INSTANCE_ZERO) v.(gtp_mod_bearer_fail_indication__overload_ctl_info_prd_of_validity) ∧
  opt_good (GTP_IE_ACC_PT_NAME, GTP_IE_INSTANCE_ZERO) v.(gtp_mod_bearer_fail_indication__overload_ctl_info_apn).
#[global] Instance gtp_mod_bearer_fail_indication__overload_ctl_info_elem : GtpElem gtp_mod_bearer_fail_indication__overload_ctl_info_ie_t :=
  {| el_header := gtp_mod_bearer_fail_indication__overload_ctl_info_header; el_encode := encode_gtp_mod_bearer_fail_indication__overload_ctl_info_ie; el_decode := decode_gtp_mod_bearer_fail_indication__overload_ctl_info_ie;
     el_zero := zero_gtp_mod_bearer_fail_indication__overload_ctl_info; el_unit := 8; el_short := true;
     el_layout v := layout_gie_header v.(gtp_mod_bearer_fail_indication__overload_ctl_info_header) ++ gtp_mod_bearer_fail_indication__overload_ctl_info_body v; el_good v := gtp_mod_bearer_fail_indication__overload_ctl_info_good v ∧ short_good v.(gtp_mod_bearer_fail_indication__overload_ctl_info_header) (gtp_mod_bearer_fail_indication__overload_ctl_info_body v) |}.
Lemma gtp_mod_bearer_fail_indication__overload_ctl_info_places v : gtp_mod_bearer_fail_indication__overload_ctl_info_good v -> encodes (encode_gtp_mod_bearer_fail_indication__overload_ctl_info_ie v) (el_layout v) (size (el_layout v) / 8).
Proof.
  intros Hg; unfold gtp_mod_bearer_fail_indication__overload_ctl_info_good in Hg; destruct_and! Hg. apply encodes_gtp_group. unfold gtp_mod_bearer_fail_indication__overload_ctl_info_body.
  place_members ltac:(gtp_member).
Qed.
Lemma gtp_mod_bearer_fail_indication__overload_ctl_info_items v : gtp_mod_bearer_fail_indication__overload_ctl_info_good v ->
  decodes (decode_gtp_mod_bearer_fail_indication__overload_ctl_info_ie zero_gtp_mod_bearer_fail_indication__overload_ctl_info) (el_layout v) (returned true (size (el_layout v) / 8)) v.
Proof.
  intros Hg; unfold gtp_mod_bearer_fail_indication__overload_ctl_info_good in Hg; destruct_and! Hg. apply decodes_gtp_group; [reflexivity|assumption|]. unfold gtp_mod_bearer_fail_indication__overload_ctl_info_body.
  read_rest v.
Qed.
#[global] Instance gtp_mod_bearer_fail_indication__overload_ctl_info_elem_ok : GtpElemOk gtp_mod_bearer_fail_indication__overload_ctl_info_ie_t.
Proof. split; [intros v [Hg _]; by apply gtp_mod_bearer_fail_indication__overload_ctl_info_places|intros v [Hg _]; by apply gtp_mod_bearer_fail_indication__overload_ctl_info_items|by intros v [_ Hz]|intros v [(Hh & _) _]; exact (group_element _ _ Hh)]. Qed.

(** [gtp_upd_bearer_request__bearer_ctxt_ie_t] *)
Definition gtp_upd_bearer_request__bearer_ctxt_body (v : gtp_upd_bearer_request__bearer_ctxt_ie_t) : layout :=
  opt_layout v.(gtp_upd_bearer_request__bearer_ctxt_eps_bearer_id) ++
  opt_layout v.(gtp_upd_bearer_request__bearer_ctxt_tft) ++
  opt_layout v.(gtp_upd_bearer_request__bearer_ctxt_bearer_lvl_qos) ++
  opt_layout v.(gtp_upd_bearer_request__bearer_ctxt_bearer_flags) ++
  opt_layout v.(gtp_upd_bearer_request__bearer_ctxt_pco) ++
  opt_layout v.(gtp_upd_bearer_request__bearer_ctxt_apco) ++
  opt_layout v.(gtp_upd_bearer_request__bearer_ctxt_epco) ++
  opt_layout v.(gtp_upd_bearer_request__bearer_ctxt_max_pckt_loss_rate) ++
  [].
Definition gtp_upd_bearer_request__bearer_ctxt_good (v : gtp_upd_bearer_request__bearer_ctxt_ie_t) : Prop :=
  group_good v.(gtp_upd_bearer_request__bearer_ctxt_header) (gtp_upd_bearer_request__bearer_ctxt_body v) ∧
  opt_good (GTP_IE_EPS_BEARER_ID, GTP_IE_INSTANCE_ZERO) v.(gtp_upd_bearer_request__bearer_ctxt_eps_bearer_id) ∧
  opt_good (GTP_IE_EPS_BEARER_LVL_TRAFFIC_FLOW_TMPL, GTP_IE_INSTANCE_ZERO) v.(gtp_upd_bearer_request__bearer_ctxt_tft) ∧
  opt_good (GTP_IE_BEARER_QLTY_OF_SVC, GTP_IE_INSTANCE_ZERO) v.(gtp_upd_bearer_request__bearer_ctxt_bearer_lvl_qos) ∧
  opt_good (GTP_IE_BEARER_FLAGS, GTP_IE_INSTANCE_ZERO) v.(gtp_upd_bearer_request__bearer_ctxt_bearer_flags) ∧
  opt_good (GTP_IE_PROT_CFG_OPTS, GTP_IE_INSTANCE_ZERO) v.(gtp_upd_bearer_request__bearer_ctxt_pco) ∧
  opt_good (GTP_IE_ADDTL_PROT_CFG_OPTS, GTP_IE_INSTANCE_ZERO) v.(gtp_upd_bearer_request__bearer_ctxt_apco) ∧
  opt_good (GTP_IE_EXTNDED_PROT_CFG_OPTS, GTP_IE_INSTANCE_ZERO) v.(gtp_upd_bearer_request__bearer_ctxt_epco) ∧
  opt_good (GTP_IE_MAX_PCKT_LOSS_RATE, GTP_IE_INSTANCE_ZERO) v.(gtp_upd_bearer_request__bearer_ctxt_max_pckt_loss_rate).
#[global] Instance gtp_upd_bearer_request__bearer_ctxt_elem : GtpElem gtp_upd_bearer_request__bearer_ctxt_ie_t :=
  {| el_header := gtp_upd_bearer_request__bearer_ctxt_header; el_encode := encode_gtp_upd_bearer_request__bearer_ctxt_ie; el_decode := decode_gtp_upd_bearer_request__bearer_ctxt_ie;
     el_zero := zero_gtp_upd_bearer_request__bearer_ctxt; el_unit := 8; el_short := false;
     el_layout v := layout_gie_header v.(gtp_upd_bearer_request__bearer_ctxt_header) ++ gtp_upd_bearer_request__bearer_ctxt_body v; el_good := gtp_upd_bearer_request__bearer_ctxt_good |}.
Lemma gtp_upd_bearer_request__bearer_ctxt_places v : gtp_upd_bearer_request__bearer_ctxt_good v -> encodes (encode_gtp_upd_bearer_request__bearer_ctxt_ie v) (el_layout v) (size (el_layout v) / 8).
Proof.
  intros Hg; unfold gtp_upd_bearer_request__bearer_ctxt_good in Hg; destruct_and! Hg. apply encodes_gtp_group. unfold gtp_upd_bearer_request__bearer_ctxt_body.
  place_members ltac:(gtp_member).
Qed.
Lemma gtp_upd_bearer_request__bearer_ctxt_items v : gtp_upd_bearer_request__bearer_ctxt_good v ->
  decodes (decode_gtp_upd_bearer_request__bearer_ctxt_ie zero_gtp_upd_bearer_request__bearer_ctxt) (el_layout v) (returned false (size (el_layout v) / 8)) v.
Proof.
  intros Hg; unfold gtp_upd_bearer_request__bearer_ctxt_good in Hg; destruct_and! Hg. apply decodes_gtp_group; [reflexivity|assumption|]. unfold gtp_upd_bearer_request__bearer_ctxt_body.
  read_rest v.
Qed.
#[global] Instance gtp_upd_bearer_request__bearer_ctxt_elem_ok : GtpElemOk gtp_upd_bearer_request__bearer_ctxt_ie_t.
Proof. split_elem; [apply gtp_upd_bearer_request__bearer_ctxt_places|apply gtp_upd_bearer_request__bearer_ctxt_items|intros v (Hh & _); exact (group_element _ _ Hh)]. Qed.

(** [gtp_upd_bearer_request__load_ctl_info_ie_t] *)
Definition gtp_upd_bearer_request__load_ctl_info_body (v : gtp_upd_bearer_request__load_ctl_info_ie_t) : layout :=
  opt_layout v.(gtp_upd_bearer_request__load_ctl_info_load_ctl_seqn_nbr) ++
  opt_layout v.(gtp_upd_bearer_request__load_ctl_info_load_metric) ++
  opt_layout v.(gtp_upd_bearer_request__load_ctl_info_list_of_apn_and_rltv_cap) ++
  [].
Definition gtp_upd_bearer_request__load_ctl_info_good (v : gtp_upd_bearer_request__load_ctl_info_ie_t) : Prop :=
  group_good v.(gtp_upd_bearer_request__load_ctl_info_header) (gtp_upd_bearer_request__load_ctl_info_body v) ∧
  opt_good (GTP_IE_SEQUENCE_NUMBER, GTP_IE_INSTANCE_ZERO) v.(gtp_upd_bearer_request__load_ctl_info_load_ctl_seqn_nbr) ∧
  opt_good (GTP_IE_METRIC, GTP_IE_INSTANCE_ZERO) v.(gtp_upd_bearer_request__load_ctl_info_load_metric) ∧
  opt_good (GTP_IE_APN_AND_RLTV_CAP, GTP_IE_INSTANCE_ZERO) v.(gtp_upd_bearer_request__load_ctl_info_list_of_apn_and_rltv_cap).
#[global] Instance gtp_upd_bearer_request__load_ctl_info_elem : GtpElem gtp_upd_bearer_request__load_ctl_info_ie_t :=
  {| el_header := gtp_upd_bearer_request__load_ctl_info_header; el_encode := encode_gtp_upd_bearer_request__load_ctl_info_ie; el_decode := decode_gtp_upd_bearer_request__load_ctl_info_ie;
     el_zero := zero_gtp_upd_bearer_request__load_ctl_info; el_unit := 8; el_short := true;
     el_layout v := layout_gie_header v.(gtp_upd_bearer_request__load_ctl_info_header) ++ gtp_upd_bearer_request__load_ctl_info_body v; el_good v := gtp_upd_bearer_request__load_ctl_info_good v ∧ short_good v.(gtp_upd_bearer_request__load_ctl_info_header) (gtp_upd_bearer_request__load_ctl_info_body v) |}.
Lemma gtp_upd_bearer_request__load_ctl_info_places v : gtp_upd_bearer_request__load_ctl_info_good v -> encodes (encode_gtp_upd_bearer_request__load_ctl_info_ie v) (el_layout v) (size (el_layout v) / 8).
Proof.
  intros Hg; unfold gtp_upd_bearer_request__load_ctl_info_good in Hg; destruct_and! Hg. apply encodes_gtp_group. unfold gtp_upd_bearer_request__load_ctl_info_body.
  place_members ltac:(gtp_member).
Qed.
Lemma gtp_upd_bearer_request__load_ctl_info_items v : gtp_upd_bearer_request__load_ctl_info_good v ->
  decodes (decode_gtp_upd_bearer_request__load_ctl_info_ie zero_gtp_upd_bearer_request__load_ctl_info) (el_layout v) (returned true (size (el_layout v) / 8)) v.
Proof.
  intros Hg; unfold gtp_upd_bearer_request__load_ctl_info_good in Hg; destruct_and! Hg. apply decodes_gtp_group; [reflexivity|assumption|]. unfold gtp_upd_bearer_request__load_ctl_info_body.
  read_rest v.
Qed.
#[global] Instance gtp_upd_bearer_request__load_ctl_info_elem_ok : GtpElemOk gtp_upd_bearer_request__load_ctl_info_ie_t.
Proof. split; [intros v [Hg _]; by apply gtp_upd_bearer_request__load_ctl_info_places|intros v [Hg _]; by apply gtp_upd_bearer_request__load_ctl_info_items|by intros v [_ Hz]|intros v [(Hh & _) _]; exact (group_element _ _ Hh)]. Qed.

(** [gtp_upd_bearer_request__overload_ctl_info_ie_t] *)
Definition gtp_upd_bearer_request__overload_ctl_info_body (v : gtp_upd_bearer_request__overload_ctl_info_ie_t) : layout :=
  opt_layout v.(gtp_upd_bearer_request__overload_ctl_info_ovrld_ctl_seqn_nbr) ++
  opt_layout v.(gtp_upd_bearer_request__overload_ctl_info_ovrld_reduction_metric) ++
  opt_layout v.(gtp_upd_bearer_request__overload_ctl_info_prd_of_validity) ++
  opt_layout v.(gtp_upd_bearer_request__overload_ctl_info_apn) ++
  [].
Definition gtp_upd_bearer_request__overload_ctl_info_good (v : gtp_upd_bearer_request__overload_ctl_info_ie_t) : Prop :=
  group_good v.(gtp_upd_bearer_request__overload_ctl_info_header) (gtp_upd_bearer_request__overload_ctl_info_body v) ∧
  opt_good (GTP_IE_SEQUENCE_NUMBER, GTP_IE_INSTANCE_ZERO) v.(gtp_upd_bearer_request__overload_ctl_info_ovrld_ctl_seqn_nbr) ∧
  opt_good (GTP_IE_METRIC, GTP_IE_INSTANCE_ZERO) v.(gtp_upd_bearer_request__overload_ctl_info_ovrld_reduction_metric) ∧
  opt_good (GTP_IE_EPC_TIMER, GTP_IE_INSTANCE_ZERO) v.(gtp_upd_bearer_request__overload_ctl_info_prd_of_validity) ∧
  opt_good (GTP_IE_ACC_PT_NAME, GTP_IE_INSTANCE_ZERO) v.(gtp_upd_bearer_request__overload_ctl_info_apn).
#[global] Instance gtp_upd_bearer_request__overload_ctl_info_elem : GtpElem gtp_upd_bearer_request__overload_ctl_info_ie_t :=
  {| el_header := gtp_upd_bearer_request__overload_ctl_info_header; el_encode := encode_gtp_upd_bearer_request__overload_ctl_info_ie; el_decode := decode_gtp_upd_bearer_request__overload_ctl_info_ie;
     el_zero := zero_gtp_upd_bearer_request__overload_ctl_info; el_unit := 8; el_short := true;
     el_layout v := layout_gie_header v.(gtp_upd_bearer_request__overload_ctl_info_header) ++ gtp_upd_bearer_request__overload_ctl_info_body v; el_good v := gtp_upd_bearer_request__overload_ctl_info_good v ∧ short_good v.(gtp_upd_bearer_request__overload_ctl_info_header) (gtp_upd_bearer_request__overload_ctl_info_body v) |}.
Lemma gtp_upd_bearer_request__overload_ctl_info_places v : gtp_upd_bearer_request__overload_ctl_info_good v -> encodes (encode_gtp_upd_bearer_request__overload_ctl_info_ie v) (el_layout v) (size (el_layout v) / 8).
Proof.
  intros Hg; unfold gtp_upd_bearer_request__overload_ctl_info_good in Hg; destruct_and! Hg. apply encodes_gtp_group. unfold gtp_upd_bearer_request__overload_ctl_info_body.
  place_members ltac:(gtp_member).
Qed.
Lemma gtp_upd_bearer_request__overload_ctl_info_items v : gtp_upd_bearer_request__overload_ctl_info_good v ->
  decodes (decode_gtp_upd_bearer_request__overload_ctl_info_ie zero_gtp_upd_bearer_request__overload_ctl_info) (el_layout v) (returned true (size (el_layout v) / 8)) v.
Proof.
  intros Hg; unfold gtp_upd_bearer_request__overload_ctl_info_good in Hg; destruct_and! Hg. apply decodes_gtp_group; [reflexivity|assumption|]. unfold gtp_upd_bearer_request__overload_ctl_info_body.
  read_rest v.
Qed.
#[global] Instance gtp_upd_bearer_request__overload_ctl_info_elem_ok : GtpElemOk gtp_upd_bearer_request__overload_ctl_info_ie_t.
Proof. split; [intros v [Hg _]; by apply gtp_upd_bearer_request__overload_ctl_info_places|intros v [Hg _]; by apply gtp_upd_bearer_request__overload_ctl_info_items|by intros v [_ Hz]|intros v [(Hh & _) _]; exact (group_element _ _ Hh)]. Qed.

(** [gtp_upd_bearer_response__bearer_ctxt_ie_t] *)
Definition gtp_upd_bearer_response__bearer_ctxt_body (v : gtp_upd_bearer_response__bearer_ctxt_ie_t) : layout :=
  opt_layout v.(gtp_upd_bearer_response__bearer_ctxt_eps_bearer_id) ++
  opt_layout v.(gtp_upd_bearer_response__bearer_ctxt_cause) ++
  opt_layout v.(gtp_upd_bearer_response__bearer_ctxt_s4_u_sgsn_fteid) ++
  opt_layout v.(gtp_upd_bearer_response__bearer_ctxt_s12_rnc_fteid) ++
  opt_layout v.(gtp_upd_bearer_response__bearer_ctxt_pco) ++
  opt_layout v.(gtp_upd_bearer_response__bearer_ctxt_ran_nas_cause) ++
  opt_layout v.(gtp_upd_bearer_response__bearer_ctxt_epco) ++
  [].
Definition gtp_upd_bearer_response__bearer_ctxt_good (v : gtp_upd_bearer_response__bearer_ctxt_ie_t) : Prop :=
  group_good v.(gtp_upd_bearer_response__bearer_ctxt_header) (gtp_upd_bearer_response__bearer_ctxt_body v) ∧
  opt_good (GTP_IE_EPS_BEARER_ID, GTP_IE_INSTANCE_ZERO) v.(gtp_upd_bearer_response__bearer_ctxt_eps_bearer_id) ∧
  opt_good (GTP_IE_CAUSE, GTP_IE_INSTANCE_ZERO) v.(gtp_upd_bearer_response__bearer_ctxt_cause) ∧
  opt_good (GTP_IE_FULLY_QUAL_TUNN_ENDPT_IDNT, GTP_IE_INSTANCE_ZERO) v.(gtp_upd_bearer_response__bearer_ctxt_s4_u_sgsn_fteid) ∧
  opt_good (GTP_IE_FULLY_QUAL_TUNN_ENDPT_IDNT, GTP_IE_INSTANCE_ONE) v.(gtp_upd_bearer_response__bearer_ctxt_s12_rnc_fteid) ∧
  opt_good (GTP_IE_PROT_CFG_OPTS, GTP_IE_INSTANCE_ZERO) v.(gtp_upd_bearer_response__bearer_ctxt_pco) ∧
  opt_good (GTP_IE_RAN_NAS_CAUSE, GTP_IE_INSTANCE_ZERO) v.(gtp_upd_bearer_response__bearer_ctxt_ran_nas_cause) ∧
  opt_good (GTP_IE_EXTNDED_PROT_CFG_OPTS, GTP_IE_INSTANCE_ZERO) v.(gtp_upd_bearer_response__bearer_ctxt_epco).
#[global] Instance gtp_upd_bearer_response__bearer_ctxt_elem : GtpElem gtp_upd_bearer_response__bearer_ctxt_ie_t :=
  {| el_header := gtp_upd_bearer_response__bearer_ctxt_header; el_encode := encode_gtp_upd_bearer_response__bearer_ctxt_ie; el_decode := decode_gtp_upd_bearer_response__bearer_ctxt_ie;
     el_zero := zero_gtp_upd_bearer_response__bearer_ctxt; el_unit := 8; el_short := false;
     el_layout v := layout_gie_header v.(gtp_upd_bearer_response__bearer_ctxt_header) ++ gtp_upd_bearer_response__bearer_ctxt_body v; el_good := gtp_upd_bearer_response__bearer_ctxt_good |}.
Lemma gtp_upd_bearer_response__bearer_ctxt_places v : gtp_upd_bearer_response__bearer_ctxt_good v -> encodes (encode_gtp_upd_bearer_response__bearer_ctxt_ie v) (el_layout v) (size (el_layout v) / 8).
Proof.
  intros Hg; unfold gtp_upd_bearer_response__bearer_ctxt_good in Hg; destruct_and! Hg. apply encodes_gtp_group. unfold gtp_upd_bearer_response__bearer_ctxt_body.
  place_members ltac:(gtp_member).
Qed.
Lemma gtp_upd_bearer_response__bearer_ctxt_items v : gtp_upd_bearer_response__bearer_ctxt_good v ->
  decodes (decode_gtp_upd_bearer_response__bearer_ctxt_ie zero_gtp_upd_bearer_response__bearer_ctxt) (el_layout v) (returned false (size (el_layout v) / 8)) v.
Proof.
  intros Hg; unfold gtp_upd_bearer_response__bearer_ctxt_good in Hg; destruct_and! Hg. apply decodes_gtp_group; [reflexivity|assumption|]. unfold gtp_upd_bearer_response__bearer_ctxt_body.
  read_rest v.
Qed.
#[global] Instance gtp_upd_bearer_response__bearer_ctxt_elem_ok : GtpElemOk gtp_upd_bearer_response__bearer_ctxt_ie_t.
Proof. split_elem; [apply gtp_upd_bearer_response__bearer_ctxt_places|apply gtp_upd_bearer_response__bearer_ctxt_items|intros v (Hh & _); exact (group_element _ _ Hh)]. Qed.

(** [gtp_upd_bearer_response__overload_ctl_info_ie_t] *)
Definition gtp_upd_bearer_response__overload_ctl_info_body (v : gtp_upd_bearer_response__overload_ctl_info_ie_t) : layout :=
  opt_layout v.(gtp_upd_bearer_response__overload_ctl_info_ovrld_ctl_seqn_nbr) ++
  opt_layout v.(gtp_upd_bearer_response__overload_ctl_info_ovrld_reduction_metric) ++
  opt_layout v.(gtp_upd_bearer_response__overload_ctl_info_prd_of_validity) ++
  [].
Definition gtp_upd_bearer_response__overload_ctl_info_good (v : gtp_upd_bearer_response__overload_ctl_info_ie_t) : Prop :=
  group_good v.(gtp_upd_bearer_response__overload_ctl_info_header) (gtp_upd_bearer_response__overload_ctl_info_body v) ∧
  opt_good (GTP_IE_SEQUENCE_NUMBER, GTP_IE_INSTANCE_ZERO) v.(gtp_upd_bearer_response__overload_ctl_info_ovrld_ctl_seqn_nbr) ∧
  opt_good (GTP_IE_METRIC, GTP_IE_INSTANCE_ZERO) v.(gtp_upd_bearer_response__overload_ctl_info_ovrld_reduction_metric) ∧
  opt_good (GTP_IE_EPC_TIMER, GTP_IE_INSTANCE_ZERO) v.(gtp_upd_bearer_response__overload_ctl_info_prd_of_validity).
#[global] Instance gtp_upd_bearer_response__overload_ctl_info_elem : GtpElem gtp_upd_bearer_response__overload_ctl_info_ie_t :=
  {| el_header := gtp_upd_bearer_response__overload_ctl_info_header; el_encode := encode_gtp_upd_bearer_response__overload_ctl_info_ie; el_decode := decode_gtp_upd_bearer_response__overload_ctl_info_ie;
     el_zero := zero_gtp_upd_bearer_response__overload_ctl_info; el_unit := 8; el_short := true;
     el_layout v := layout_gie_header v.(gtp_upd_bearer_response__overload_ctl_info_header) ++ gtp_upd_bearer_response__overload_ctl_info_body v; el_good v := gtp_upd_bearer_response__overload_ctl_info_good v ∧ short_good v.(gtp_upd_bearer_response__overload_ctl_info_header) (gtp_upd_bearer_response__overload_ctl_info_body v) |}.
Lemma gtp_upd_bearer_response__overload_ctl_info_places v : gtp_upd_bearer_response__overload_ctl_info_good v -> encodes (encode_gtp_upd_bearer_response__overload_ctl_info_ie v) (el_layout v) (size (el_layout v) / 8).
Proof.
  intros Hg; unfold gtp_upd_bearer_response__overload_ctl_info_good in Hg; destruct_and! Hg. apply encodes_gtp_group. unfold gtp_upd_bearer_response__overload_ctl_info_body.
  place_members ltac:(gtp_member).
Qed.
Lemma gtp_upd_bearer_response__overload_ctl_info_items v : gtp_upd_bearer_response__overload_ctl_info_good v ->
  decodes (decode_gtp_upd_bearer_response__overload_ctl_info_ie zero_gtp_upd_bearer_response__overload_ctl_info) (el_layout v) (returned true (size (el_layout v) / 8)) v.
Proof.
  intros Hg; unfold gtp_upd_bearer_response__overload_ctl_info_good in Hg; destruct_and! Hg. apply decodes_gtp_group; [reflexivity|assumption|]. unfold gtp_upd_bearer_response__overload_ctl_info_body.
  read_rest v.
Qed.
#[global] Instance gtp_upd_bearer_response__overload_ctl_info_elem_ok : GtpElemOk gtp_upd_bearer_response__overload_ctl_info_ie_t.
Proof. split; [intros v [Hg _]; by apply gtp_upd_bearer_response__overload_ctl_info_places|intros v [Hg _]; by apply gtp_upd_bearer_response__overload_ctl_info_items|by intros v [_ Hz]|intros v [(Hh & _) _]; exact (group_element _ _ Hh)]. Qed.

(** [gtp_del_bearer_command_bearer_ctxt_ie_t] *)
Definition gtp_del_bearer_command_bearer_ctxt_body (v : gtp_del_bearer_command_bearer_ctxt_ie_t) : layout :=
  opt_layout v.(gtp_del_bearer_command_bearer_ctxt_eps_bearer_id) ++
  opt_layout v.(gtp_del_bearer_command_bearer_ctxt_bearer_flags) ++
  opt_layout v.(gtp_del_bearer_command_bearer_ctxt_ran_nas_release_cause) ++
  [].
Definition gtp_del_bearer_command_bearer_ctxt_good (v : gtp_del_bearer_command_bearer_ctxt_ie_t) : Prop :=
  group_good v.(gtp_del_bearer_command_bearer_ctxt_header) (gtp_del_bearer_command_bearer_ctxt_body v) ∧
  opt_good (GTP_IE_EPS_BEARER_ID, GTP_IE_INSTANCE_ZERO) v.(gtp_del_bearer_command_bearer_ctxt_eps_bearer_id) ∧
  opt_good (GTP_IE_BEARER_FLAGS, GTP_IE_INSTANCE_ZERO) v.(gtp_del_bearer_command_bearer_ctxt_bearer_flags) ∧
  opt_good (GTP_IE_RAN_NAS_CAUSE, GTP_IE_INSTANCE_ZERO) v.(gtp_del_bearer_command_bearer_ctxt_ran_nas_release_cause).
#[global] Instance gtp_del_bearer_command_bearer_ctxt_elem : GtpElem gtp_del_bearer_command_bearer_ctxt_ie_t :=
  {| el_header := gtp_del_bearer_command_bearer_ctxt_header; el_encode := encode_gtp_del_bearer_command_bearer_ctxt_ie; el_decode := decode_gtp_del_bearer_command_bearer_ctxt_ie;
     el_zero := zero_gtp_del_bearer_command_bearer_ctxt; el_unit := 8; el_short := true;
     el_layout v := layout_gie_header v.(gtp_del_bearer_command_bearer_ctxt_header) ++ gtp_del_bearer_command_bearer_ctxt_body v; el_good v := gtp_del_bearer_command_bearer_ctxt_good v ∧ short_good v.(gtp_del_bearer_command_bearer_ctxt_header) (gtp_del_bearer_command_bearer_ctxt_body v) |}.
Lemma gtp_del_bearer_command_bearer_ctxt_places v : gtp_del_bearer_command_bearer_ctxt_good v -> encodes (encode_gtp_del_bearer_command_bearer_ctxt_ie v) (el_layout v) (size (el_layout v) / 8).
Proof.
  intros Hg; unfold gtp_del_bearer_command_bearer_ctxt_good in Hg; destruct_and! Hg. apply encodes_gtp_group. unfold gtp_del_bearer_command_bearer_ctxt_body.
  place_members ltac:(gtp_member).
Qed.
Lemma gtp_del_bearer_command_bearer_ctxt_items v : gtp_del_bearer_command_bearer_ctxt_good v ->
  decodes (decode_gtp_del_bearer_command_bearer_ctxt_ie zero_gtp_del_bearer_command_bearer_ctxt) (el_layout v) (returned true (size (el_layout v) / 8)) v.
Proof.
  intros Hg; unfold gtp_del_bearer_command_bearer_ctxt_good in Hg; destruct_and! Hg. apply decodes_gtp_group; [reflexivity|assumption|]. unfold gtp_del_bearer_command_bearer_ctxt_body.
  read_rest v.
Qed.
#[global] Instance gtp_del_bearer_command_bearer_ctxt_elem_ok : GtpElemOk gtp_del_bearer_command_bearer_ctxt_ie_t.
Proof. split; [intros v [Hg _]; by apply gtp_del_bearer_command_bearer_ctxt_places|intros v [Hg _]; by apply gtp_del_bearer_command_bearer_ctxt_items|by intros v [_ Hz]|intros v [(Hh & _) _]; exact (group_element _ _ Hh)]. Qed.

(** [gtp_del_bearer_command__overload_ctl_info_ie_t] *)
Definition gtp_del_bearer_command__overload_ctl_info_body (v : gtp_del_bearer_command__overload_ctl_info_ie_t) : layout :=
  opt_layout v.(gtp_del_bearer_command__overload_ctl_info_ovrld_ctl_seqn_nbr) ++
  opt_layout v.(gtp_del_bearer_command__overload_ctl_info_ovrld_reduction_metric) ++
  opt_layout v.(gtp_del_bearer_command__overload_ctl_info_prd_of_validity) ++
  [].
Definition gtp_del_bearer_command__overload_ctl_info_good (v : gtp_del_bearer_command__overload_ctl_info_ie_t) : Prop :=
  group_good v.(gtp_del_bearer_command__overload_ctl_info_header) (gtp_del_bearer_command__overload_ctl_info_body v) ∧
  opt_good (GTP_IE_SEQUENCE_NUMBER, GTP_IE_INSTANCE_ZERO) v.(gtp_del_bearer_command__overload_ctl_info_ovrld_ctl_seqn_nbr) ∧
  opt_good (GTP_IE_METRIC, GTP_IE_INSTANCE_ZERO) v.(gtp_del_bearer_command__overload_ctl_info_ovrld_reduction_metric) ∧
  opt_good (GTP_IE_EPC_TIMER, GTP_IE_INSTANCE_ZERO) v.(gtp_del_bearer_command__overload_ctl_info_prd_of_validity).
#[global] Instance gtp_del_bearer_command__overload_ctl_info_elem : GtpElem gtp_del_bearer_command__overload_ctl_info_ie_t :=
  {| el_header := gtp_del_bearer_command__overload_ctl_info_header; el_encode := encode_gtp_del_bearer_command__overload_ctl_info_ie; el_decode := decode_gtp_del_bearer_command__overload_ctl_info_ie;
     el_zero := zero_gtp_del_bearer_command__overload_ctl_info; el_unit := 8; el_short := true;
     el_layout v := layout_gie_header v.(gtp_del_bearer_command__overload_ctl_info_header) ++ gtp_del_bearer_command__overload_ctl_info_body v; el_good v := gtp_del_bearer_command__overload_ctl_info_good v ∧ short_good v.(gtp_del_bearer_command__overload_ctl_info_header) (gtp_del_bearer_command__overload_ctl_info_body v) |}.
Lemma gtp_del_bearer_command__overload_ctl_info_places v : gtp_del_bearer_command__overload_ctl_info_good v -> encodes (encode_gtp_del_bearer_command__overload_ctl_info_ie v) (el_layout v) (size (el_layout v) / 8).
Proof.
  intros Hg; unfold gtp_del_bearer_command__overload_ctl_info_good in Hg; destruct_and! Hg. apply encodes_gtp_group. unfold gtp_del_bearer_command__overload_ctl_info_body.
  place_members ltac:(gtp_member).
Qed.
Lemma gtp_del_bearer_command__overload_ctl_info_items v : gtp_del_bearer_command__overload_ctl_info_good v ->
  decodes (decode_gtp_del_bearer_command__overload_ctl_info_ie zero_gtp_del_bearer_command__overload_ctl_info) (el_layout v) (returned true (size (el_layout v) / 8)) v.
Proof.
  intros Hg; unfold gtp_del_bearer_command__overload_ctl_info_good in Hg; destruct_and! Hg. apply decodes_gtp_group; [reflexivity|assumption|]. unfold gtp_del_bearer_command__overload_ctl_info_body.
  read_rest v.
Qed.
#[global] Instance gtp_del_bearer_command__overload_ctl_info_elem_ok : GtpElemOk gtp_del_bearer_command__overload_ctl_info_ie_t.
Proof. split; [intros v [Hg _]; by apply gtp_del_bearer_command__overload_ctl_info_places|intros v [Hg _]; by apply gtp_del_bearer_command__overload_ctl_info_items|by intros v [_ Hz]|intros v [(Hh & _) _]; exact (group_element _ _ Hh)]. Qed.

(** [gtp_del_bearer_fail_indication__bearer_ctxt_ie_t] *)
Definition gtp_del_bearer_fail_indication__bearer_ctxt_body (v : gtp_del_bearer_fail_indication__bearer_ctxt_ie_t) : layout :=
  opt_layout v.(gtp_del_bearer_fail_indication__bearer_ctxt_eps_bearer_id) ++
  opt_layout v.(gtp_del_bearer_fail_indication__bearer_ctxt_cause) ++
  [].
Definition gtp_del_bearer_fail_indication__bearer_ctxt_good (v : gtp_del_bearer_fail_indication__bearer_ctxt_ie_t) : Prop :=
  group_good v.(gtp_del_bearer_fail_indication__bearer_ctxt_header) (gtp_del_bearer_fail_indication__bearer_ctxt_body v) ∧
  opt_good (GTP_IE_EPS_BEARER_ID, GTP_IE_INSTANCE_ZERO) v.(gtp_del_bearer_fail_indication__bearer_ctxt_eps_bearer_id) ∧
  opt_good (GTP_IE_CAUSE, GTP_IE_INSTANCE_ZERO) v.(gtp_del_bearer_fail_indication__bearer_ctxt_cause).
#[global] Instance gtp_del_bearer_fail_indication__bearer_ctxt_elem : GtpElem gtp_del_bearer_fail_indication__bearer_ctxt_ie_t :=
  {| el_header := gtp_del_bearer_fail_indication__bearer_ctxt_header; el_encode := encode_gtp_del_bearer_fail_indication__bearer_ctxt_ie; el_decode := decode_gtp_del_bearer_fail_indication__bearer_ctxt_ie;
     el_zero := zero_gtp_del_bearer_fail_indication__bearer_ctxt; el_unit := 8; el_short := true;
     el_layout v := layout_gie_header v.(gtp_del_bearer_fail_indication__bearer_ctxt_header) ++ gtp_del_bearer_fail_indication__bearer_ctxt_body v; el_good v := gtp_del_bearer_fail_indication__bearer_ctxt_good v ∧ short_good v.(gtp_del_bearer_fail_indication__bearer_ctxt_header) (gtp_del_bearer_fail_indication__bearer_ctxt_body v) |}.
Lemma gtp_del_bearer_fail_indication__bearer_ctxt_places v : gtp_del_bearer_fail_indication__bearer_ctxt_good v -> encodes (encode_gtp_del_bearer_fail_indication__bearer_ctxt_ie v) (el_layout v) (size (el_layout v) / 8).
Proof.
  intros Hg; unfold gtp_del_bearer_fail_indication__bearer_ctxt_good in Hg; destruct_and! Hg. apply encodes_gtp_group. unfold gtp_del_bearer_fail_indication__bearer_ctxt_body.
  place_members ltac:(gtp_member).
Qed.
Lemma gtp_del_bearer_fail_indication__bearer_ctxt_items v : gtp_del_bearer_fail_indication__bearer_ctxt_good v ->
  decodes (decode_gtp_del_bearer_fail_indication__bearer_ctxt_ie zero_gtp_del_bearer_fail_indication__bearer_ctxt) (el_layout v) (returned true (size (el_layout v) / 8)) v.
Proof.
  intros Hg; unfold gtp_del_bearer_fail_indication__bearer_ctxt_good in Hg; destruct_and! Hg. apply decodes_gtp_group; [reflexivity|assumption|]. unfold gtp_del_bearer_fail_indication__bearer_ctxt_body.
  read_rest v.
Qed.
#[global] Instance gtp_del_bearer_fail_indication__bearer_ctxt_elem_ok : GtpElemOk gtp_del_bearer_fail_indication__bearer_ctxt_ie_t.
Proof. split; [intros v [Hg _]; by apply gtp_del_bearer_fail_indication__bearer_ctxt_places|intros v [Hg _]; by apply gtp_del_bearer_fail_indication__bearer_ctxt_items|by intros v [_ Hz]|intros v [(Hh & _) _]; exact (group_element _ _ Hh)]. Qed.

(** [gtp_del_bearer_fail_indication__overload_ctl_info_ie_t] *)
Definition gtp_del_bearer_fail_indication__overload_ctl_info_body (v : gtp_del_bearer_fail_indication__overload_ctl_info_ie_t) : layout :=
  opt_layout v.(gtp_del_bearer_fail_indication__overload_ctl_info_ovrld_ctl_seqn_nbr) ++
  opt_layout v.(gtp_del_bearer_fail_indication__overload_ctl_info_ovrld_reduction_metric) ++
  opt_layout v.(gtp_del_bearer_fail_indication__overload_ctl_info_prd_of_validity) ++
  opt_layout v.(gtp_del_bearer_fail_indication__overload_ctl_info_apn) ++
  [].
Definition gtp_del_bearer_fail_indication__overload_ctl_info_good (v : gtp_del_bearer_fail_indication__overload_ctl_info_ie_t) : Prop :=
  group_good v.(gtp_del_bearer_fail_indication__overload_ctl_info_header) (gtp_del_bearer_fail_indication__overload_ctl_info_body v) ∧
  opt_good (GTP_IE_SEQUENCE_NUMBER, GTP_IE_INSTANCE_ZERO) v.(gtp_del_bearer_fail_indication__overload_ctl_info_ovrld_ctl_seqn_nbr) ∧
  opt_good (GTP_IE_METRIC, GTP_IE_INSTANCE_ZERO) v.(gtp_del_bearer_fail_indication__overload_ctl_info_ovrld_reduction_metric) ∧
  opt_good (GTP_IE_EPC_TIMER, GTP_IE_INSTANCE_ZERO) v.(gtp_del_bearer_fail_indication__overload_ctl_info_prd_of_validity) ∧
  opt_good (GTP_IE_ACC_PT_NAME, GTP_IE_INSTANCE_ZERO) v.(gtp_del_bearer_fail_indication__overload_ctl_info_apn).
#[global] Instance gtp_del_bearer_fail_indication__overload_ctl_info_elem : GtpElem gtp_del_bearer_fail_indication__overload_ctl_info_ie_t :=
  {| el_header := gtp_del_bearer_fail_indication__overload_ctl_info_header; el_encode := encode_gtp_del_bearer_fail_indication__overload_ctl_info_ie; el_decode := decode_gtp_del_bearer_fail_indication__overload_ctl_info_ie;
     el_zero := zero_gtp_del_bearer_fail_indication__overload_ctl_info; el_unit := 8; el_short := true;
     el_layout v := layout_gie_header v.(gtp_del_bearer_fail_indication__overload_ctl_info_header) ++ gtp_del_bearer_fail_indication__overload_ctl_info_body v; el_good v := gtp_del_bearer_fail_indication__overload_ctl_info_good v ∧ short_good v.(gtp_del_bearer_fail_indication__overload_ctl_info_header) (gtp_del_bearer_fail_indication__overload_ctl_info_body v) |}.
Lemma gtp_del_bearer_fail_indication__overload_ctl_info_places v : gtp_del_bearer_fail_indication__overload_ctl_info_good v -> encodes (encode_gtp_del_bearer_fail_indication__overload_ctl_info_ie v) (el_layout v) (size (el_layout v) / 8).
Proof.
  intros Hg; unfold gtp_del_bearer_fail_indication__overload_ctl_info_good in Hg; destruct_and! Hg. apply encodes_gtp_group. unfold gtp_del_bearer_fail_indication__overload_ctl_info_body.
  place_members ltac:(gtp_member).
Qed.
Lemma gtp_del_bearer_fail_indication__overload_ctl_info_items v : gtp_del_bearer_fail_indication__overload_ctl_info_good v ->
  decodes (decode_gtp_del_bearer_fail_indication__overload_ctl_info_ie zero_gtp_del_bearer_fail_indication__overload_ctl_info) (el_layout v) (returned true (size (el_layout v) / 8)) v.
Proof.
  intros Hg; unfold gtp_del_bearer_fail_indication__overload_ctl_info_good in Hg; destruct_and! Hg. apply decodes_gtp_group; [reflexivity|assumption|]. unfold gtp_del_bearer_fail_indication__overload_ctl_info_body.
  read_rest v.
Qed.
#[global] Instance gtp_del_bearer_fail_indication__overload_ctl_info_elem_ok : GtpElemOk gtp_del_bearer_fail_indication__overload_ctl_info_ie_t.
Proof. split; [intros v [Hg _]; by apply gtp_del_bearer_fail_indication__overload_ctl_info_places|intros v [Hg _]; by apply gtp_del_bearer_fail_indication__overload_ctl_info_items|by intros v [_ Hz]|intros v [(Hh & _) _]; exact (group_element _ _ Hh)]. Qed.

(** [gtp_create_indir_data_fwdng_tunn_request__bearer_ctxt_ie_t] *)
Definition gtp_create_indir_data_fwdng_tunn_request__bearer_ctxt_body (v : gtp_create_indir_data_fwdng_tunn_request__bearer_ctxt_ie_t) : layout :=
  opt_layout v.(gtp_create_indir_data_fwdng_tunn_request__bearer_ctxt_eps_bearer_id) ++
  opt_layout v.(gtp_create_indir_data_fwdng_tunn_request__bearer_ctxt_enb_fteid_dl_data_fwdng) ++
  opt_layout v.(gtp_create_indir_data_fwdng_tunn_request__bearer_ctxt_sgsn_fteid_dl_data_fwdng) ++
  opt_layout v.(gtp_create_indir_data_fwdng_tunn_request__bearer_ctxt_rnc_fteid_dl_data_fwdng) ++
  opt_layout v.(gtp_create_indir_data_fwdng_tunn_request__bearer_ctxt_enb_fteid_ul_data_fwdng) ++
  opt_layout v.(gtp_create_indir_data_fwdng_tunn_request__bearer_ctxt_sgw_fteid_ul_data_fwdng) ++
  opt_layout v.(gtp_create_indir_data_fwdng_tunn_request__bearer_ctxt_mme_fteid_dl_data_fwdng) ++
  [].
Definition gtp_create_indir_data_fwdng_tunn_request__bearer_ctxt_good (v : gtp_create_indir_data_fwdng_tunn_request__bearer_ctxt_ie_t) : Prop :=
  group_good v.(gtp_create_indir_data_fwdng_tunn_request__bearer_ctxt_header) (gtp_create_indir_data_fwdng_tunn_request__bearer_ctxt_body v) ∧
  opt_good (GTP_IE_EPS_BEARER_ID, GTP_IE_INSTANCE_ZERO) v.(gtp_create_indir_data_fwdng_tunn_request__bearer_ctxt_eps_bearer_id) ∧
  opt_good (GTP_IE_FULLY_QUAL_TUNN_ENDPT_IDNT, GTP_IE_INSTANCE_ZERO) v.(gtp_create_indir_data_fwdng_tunn_request__bearer_ctxt_enb_fteid_dl_data_fwdng) ∧
  opt_good (GTP_IE_FULLY_QUAL_TUNN_ENDPT_IDNT, GTP_IE_INSTANCE_TWO) v.(gtp_create_indir_data_fwdng_tunn_request__bearer_ctxt_sgsn_fteid_dl_data_fwdng) ∧
  opt_good (GTP_IE_FULLY_QUAL_TUNN_ENDPT_IDNT, GTP_IE_INSTANCE_THREE) v.(gtp_create_indir_data_fwdng_tunn_request__bearer_ctxt_rnc_fteid_dl_data_fwdng) ∧
  opt_good (GTP_IE_FULLY_QUAL_TUNN_ENDPT_IDNT, GTP_IE_INSTANCE_FOUR) v.(gtp_create_indir_data_fwdng_tunn_request__bearer_ctxt_enb_fteid_ul_data_fwdng) ∧
  opt_good (GTP_IE_FULLY_QUAL_TUNN_ENDPT_IDNT, GTP_IE_INSTANCE_FIVE) v.(gtp_create_indir_data_fwdng_tunn_request__bearer_ctxt_sgw_fteid_ul_data_fwdng) ∧
  opt_good (GTP_IE_FULLY_QUAL_TUNN_ENDPT_IDNT, GTP_IE_INSTANCE_SIX) v.(gtp_create_indir_data_fwdng_tunn_request__bearer_ctxt_mme_fteid_dl_data_fwdng).
#[global] Instance gtp_create_indir_data_fwdng_tunn_request__bearer_ctxt_elem : GtpElem gtp_create_indir_data_fwdng_tunn_request__bearer_ctxt_ie_t :=
  {| el_header := gtp_create_indir_data_fwdng_tunn_request__bearer_ctxt_header; el_encode := encode_gtp_create_indir_data_fwdng_tunn_request__bearer_ctxt_ie; el_decode := decode_gtp_create_indir_data_fwdng_tunn_request__bearer_ctxt_ie;
     el_zero := zero_gtp_create_indir_data_fwdng_tunn_request__bearer_ctxt; el_unit := 8; el_short := true;
     el_layout v := layout_gie_header v.(gtp_create_indir_data_fwdng_tunn_request__bearer_ctxt_header) ++ gtp_create_indir_data_fwdng_tunn_request__bearer_ctxt_body v; el_good v := gtp_create_indir_data_fwdng_tunn_request__bearer_ctxt_good v ∧ short_good v.(gtp_create_indir_data_fwdng_tunn_request__bearer_ctxt_header) (gtp_create_indir_data_fwdng_tunn_request__bearer_ctxt_body v) |}.
Lemma gtp_create_indir_data_fwdng_tunn_request__bearer_ctxt_places v : gtp_create_indir_data_fwdng_tunn_request__bearer_ctxt_good v -> encodes (encode_gtp_create_indir_data_fwdng_tunn_request__bearer_ctxt_ie v) (el_layout v) (size (el_layout v) / 8).
Proof.
  intros Hg; unfold gtp_create_indir_data_fwdng_tunn_request__bearer_ctxt_good in Hg; destruct_and! Hg. apply encodes_gtp_group. unfold gtp_create_indir_data_fwdng_tunn_request__bearer_ctxt_body.
  place_members ltac:(gtp_member).
Qed.
Lemma gtp_create_indir_data_fwdng_tunn_request__bearer_ctxt_items v : gtp_create_indir_data_fwdng_tunn_request__bearer_ctxt_good v ->
  decodes (decode_gtp_create_indir_data_fwdng_tunn_request__bearer_ctxt_ie zero_gtp_create_indir_data_fwdng_tunn_request__bearer_ctxt) (el_layout v) (returned true (size (el_layout v) / 8)) v.
Proof.
  intros Hg; unfold gtp_create_indir_data_fwdng_tunn_request__bearer_ctxt_good in Hg; destruct_and! Hg. apply decodes_gtp_group; [reflexivity|assumption|]. unfold gtp_create_indir_data_fwdng_tunn_request__bearer_ctxt_body.
  read_rest v.
Qed.
#[global] Instance gtp_create_indir_data_fwdng_tunn_request__bearer_ctxt_elem_ok : GtpElemOk gtp_create_indir_data_fwdng_tunn_request__bearer_ctxt_ie_t.
Proof. split; [intros v [Hg _]; by apply gtp_create_indir_data_fwdng_tunn_request__bearer_ctxt_places|intros v [Hg _]; by apply gtp_create_indir_data_fwdng_tunn_request__bearer_ctxt_items|by intros v [_ Hz]|intros v [(Hh & _) _]; exact (group_element _ _ Hh)]. Qed.

(** [gtp_create_indir_data_fwdng_tunn_response__bearer_ctxt_ie_t] *)
Definition gtp_create_indir_data_fwdng_tunn_response__bearer_ctxt_body (v : gtp_create_indir_data_fwdng_tunn_response__bearer_ctxt_ie_t) : layout :=
  opt_layout v.(gtp_create_indir_data_fwdng_tunn_response__bearer_ctxt_eps_bearer_id) ++
  opt_layout v.(gtp_create_indir_data_fwdng_tunn_response__bearer_ctxt_cause) ++
  opt_layout v.(gtp_create_indir_data_fwdng_tunn_response__bearer_ctxt_s1u_sgw_fteid_dl_data_fwdng) ++
  opt_layout v.(gtp_create_indir_data_fwdng_tunn_response__bearer_ctxt_s12_sgw_fteid_dl_data_fwdng) ++
  opt_layout v.(gtp_create_indir_data_fwdng_tunn_response__bearer_ctxt_s4_u_sgw_fteid_dl_data_fwdng) ++
  opt_layout v.(gtp_create_indir_data_fwdng_tunn_response__bearer_ctxt_sgw_fteid_dl_data_fwdng) ++
  opt_layout v.(gtp_create_indir_data_fwdng_tunn_response__bearer_ctxt_s1u_sgw_fteid_ul_data_fwdng) ++
  opt_layout v.(gtp_create_indir_data_fwdng_tunn_response__bearer_ctxt_sgw_fteid_ul_data_fwdng) ++
  [].
Definition gtp_create_indir_data_fwdng_tunn_response__bearer_ctxt_good (v : gtp_create_indir_data_fwdng_tunn_response__bearer_ctxt_ie_t) : Prop :=
  group_good v.(gtp_create_indir_data_fwdng_tunn_response__bearer_ctxt_header) (gtp_create_indir_data_fwdng_tunn_response__bearer_ctxt_body v) ∧
  opt_good (GTP_IE_EPS_BEARER_ID, GTP_IE_INSTANCE_ZERO) v.(gtp_create_indir_data_fwdng_tunn_response__bearer_ctxt_eps_bearer_id) ∧
  opt_good (GTP_IE_CAUSE, GTP_IE_INSTANCE_ZERO) v.(gtp_create_indir_data_fwdng_tunn_response__bearer_ctxt_cause) ∧
  opt_good (GTP_IE_FULLY_QUAL_TUNN_ENDPT_IDNT, GTP_IE_INSTANCE_ZERO) v.(gtp_create_indir_data_fwdng_tunn_response__bearer_ctxt_s1u_sgw_fteid_dl_data_fwdng) ∧
  opt_good (GTP_IE_FULLY_QUAL_TUNN_ENDPT_IDNT, GTP_IE_INSTANCE_ONE) v.(gtp_create_indir_data_fwdng_tunn_response__bearer_ctxt_s12_sgw_fteid_dl_data_fwdng) ∧
  opt_good (GTP_IE_FULLY_QUAL_TUNN_ENDPT_IDNT, GTP_IE_INSTANCE_TWO) v.(gtp_create_indir_data_fwdng_tunn_response__bearer_ctxt_s4_u_sgw_fteid_dl_data_fwdng) ∧
  opt_good (GTP_IE_FULLY_QUAL_TUNN_ENDPT_IDNT, GTP_IE_INSTANCE_THREE) v.(gtp_create_indir_data_fwdng_tunn_response__bearer_ctxt_sgw_fteid_dl_data_fwdng) ∧
  opt_good (GTP_IE_FULLY_QUAL_TUNN_ENDPT_IDNT, GTP_IE_INSTANCE_FOUR) v.(gtp_create_indir_data_fwdng_tunn_response__bearer_ctxt_s1u_sgw_fteid_ul_data_fwdng) ∧
  opt_good (GTP_IE_FULLY_QUAL_TUNN_ENDPT_IDNT, GTP_IE_INSTANCE_FIVE) v.(gtp_create_indir_data_fwdng_tunn_response__bearer_ctxt_sgw_fteid_ul_data_fwdng).
#[global] Instance gtp_create_indir_data_fwdng_tunn_response__bearer_ctxt_elem : GtpElem gtp_create_indir_data_fwdng_tunn_response__bearer_ctxt_ie_t :=
  {| el_header := gtp_create_indir_data_fwdng_tunn_response__bearer_ctxt_header; el_encode := encode_gtp_create_indir_data_fwdng_tunn_response__bearer_ctxt_ie; el_decode := decode_gtp_create_indir_data_fwdng_tunn_response__bearer_ctxt_ie;
     el_zero := zero_gtp_create_indir_data_fwdng_tunn_response__bearer_ctxt; el_unit := 8; el_short := true;
     el_layout v := layout_gie_header v.(gtp_create_indir_data_fwdng_tunn_response__bearer_ctxt_header) ++ gtp_create_indir_data_fwdng_tunn_response__bearer_ctxt_body v; el_good v := gtp_create_indir_data_fwdng_tunn_response__bearer_ctxt_good v ∧ short_good v.(gtp_create_indir_data_fwdng_tunn_response__bearer_ctxt_header) (gtp_create_indir_data_fwdng_tunn_response__bearer_ctxt_body v) |}.
Lemma gtp_create_indir_data_fwdng_tunn_response__bearer_ctxt_places v : gtp_create_indir_data_fwdng_tunn_response__bearer_ctxt_good v -> encodes (encode_gtp_create_indir_data_fwdng_tunn_response__bearer_ctxt_ie v) (el_layout v) (size (el_layout v) / 8).
Proof.
  intros Hg; unfold gtp_create_indir_data_fwdng_tunn_response__bearer_ctxt_good in Hg; destruct_and! Hg. apply encodes_gtp_group. unfold gtp_create_indir_data_fwdng_tunn_response__bearer_ctxt_body.
  place_members ltac:(gtp_member).
Qed.
Lemma gtp_create_indir_data_fwdng_tunn_response__bearer_ctxt_items v : gtp_create_indir_data_fwdng_tunn_response__bearer_ctxt_good v ->
  decodes (decode_gtp_create_indir_data_fwdng_tunn_response__bearer_ctxt_ie zero_gtp_create_indir_data_fwdng_tunn_response__bearer_ctxt) (el_layout v) (returned true (size (el_layout v) / 8)) v.
Proof.
  intros Hg; unfold gtp_create_indir_data_fwdng_tunn_response__bearer_ctxt_good in Hg; destruct_and! Hg. apply decodes_gtp_group; [reflexivity|assumption|]. unfold gtp_create_indir_data_fwdng_tunn_response__bearer_ctxt_body.
  read_rest v.
Qed.
#[global] Instance gtp_create_indir_data_fwdng_tunn_response__bearer_ctxt_elem_ok : GtpElemOk gtp_create_indir_data_fwdng_tunn_response__bearer_ctxt_ie_t.
Proof. split; [intros v [Hg _]; by apply gtp_create_indir_data_fwdng_tunn_response__bearer_ctxt_places|intros v [Hg _]; by apply gtp_create_indir_data_fwdng_tunn_response__bearer_ctxt_items|by intros v [_ Hz]|intros v [(Hh & _) _]; exact (group_element _ _ Hh)]. Qed.

(** [gtp_release_acc_bearers_response__load_ctl_info_ie_t] *)
Definition gtp_release_acc_bearers_response__load_ctl_info_body (v : gtp_release_acc_bearers_response__load_ctl_info_ie_t) : layout :=
  opt_layout v.(gtp_release_acc_bearers_response__load_ctl_info_load_ctl_seqn_nbr) ++
  opt_layout v.(gtp_release_acc_bearers_response__load_ctl_info_load_metric) ++
  [].
Definition gtp_release_acc_bearers_response__load_ctl_info_good (v : gtp_release_acc_bearers_response__load_ctl_info_ie_t) : Prop :=
  group_good v.(gtp_release_acc_bearers_response__load_ctl_info_header) (gtp_release_acc_bearers_response__load_ctl_info_body v) ∧
  opt_good (GTP_IE_SEQUENCE_NUMBER, GTP_IE_INSTANCE_ZERO) v.(gtp_release_acc_bearers_response__load_ctl_info_load_ctl_seqn_nbr) ∧
  opt_good (GTP_IE_METRIC, GTP_IE_INSTANCE_ZERO) v.(gtp_release_acc_bearers_response__load_ctl_info_load_metric).
#[global] Instance gtp_release_acc_bearers_response__load_ctl_info_elem : GtpElem gtp_release_acc_bearers_response__load_ctl_info_ie_t :=
  {| el_header := gtp_release_acc_bearers_response__load_ctl_info_header; el_encode := encode_gtp_release_acc_bearers_response__load_ctl_info_ie; el_decode := decode_gtp_release_acc_bearers_response__load_ctl_info_ie;
     el_zero := zero_gtp_release_acc_bearers_response__load_ctl_info; el_unit := 8; el_short := true;
     el_layout v := layout_gie_header v.(gtp_release_acc_bearers_response__load_ctl_info_header) ++ gtp_release_acc_bearers_response__load_ctl_info_body v; el_good v := gtp_release_acc_bearers_response__load_ctl_info_good v ∧ short_good v.(gtp_release_acc_bearers_response__load_ctl_info_header) (gtp_release_acc_bearers_response__load_ctl_info_body v) |}.
Lemma gtp_release_acc_bearers_response__load_ctl_info_places v : gtp_release_acc_bearers_response__load_ctl_info_good v -> encodes (encode_gtp_release_acc_bearers_response__load_ctl_info_ie v) (el_layout v) (size (el_layout v) / 8).
Proof.
  intros Hg; unfold gtp_release_acc_bearers_response__load_ctl_info_good in Hg; destruct_and! Hg. apply encodes_gtp_group. unfold gtp_release_acc_bearers_response__load_ctl_info_body.
  place_members ltac:(gtp_member).
Qed.
Lemma gtp_release_acc_bearers_response__load_ctl_info_items v : gtp_release_acc_bearers_response__load_ctl_info_good v ->
  decodes (decode_gtp_release_acc_bearers_response__load_ctl_info_ie zero_gtp_release_acc_bearers_response__load_ctl_info) (el_layout v) (returned true (size (el_layout v) / 8)) v.
Proof.
  intros Hg; unfold gtp_release_acc_bearers_response__load_ctl_info_good in Hg; destruct_and! Hg. apply decodes_gtp_group; [reflexivity|assumption|]. unfold gtp_release_acc_bearers_response__load_ctl_info_body.
  read_rest v.
Qed.
#[global] Instance gtp_release_acc_bearers_response__load_ctl_info_elem_ok : GtpElemOk gtp_release_acc_bearers_response__load_ctl_info_ie_t.
Proof. split; [intros v [Hg _]; by apply gtp_release_acc_bearers_response__load_ctl_info_places|intros v [Hg _]; by apply gtp_release_acc_bearers_response__load_ctl_info_items|by intros v [_ Hz]|intros v [(Hh & _) _]; exact (group_element _ _ Hh)]. Qed.

(** [gtp_release_acc_bearers_response__overload_ctl_info_ie_t] *)
Definition gtp_release_acc_bearers_response__overload_ctl_info_body (v : gtp_release_acc_bearers_response__overload_ctl_info_ie_t) : layout :=
  opt_layout v.(gtp_release_acc_bearers_response__overload_ctl_info_ovrld_ctl_seqn_nbr) ++
  opt_layout v.(gtp_release_acc_bearers_response__overload_ctl_info_ovrld_reduction_metric) ++
  opt_layout v.(gtp_release_acc_bearers_response__overload_ctl_info_prd_of_validity) ++
  [].
Definition gtp_release_acc_bearers_response__overload_ctl_info_good (v : gtp_release_acc_bearers_response__overload_ctl_info_ie_t) : Prop :=
  group_good v.(gtp_release_acc_bearers_response__overload_ctl_info_header) (gtp_release_acc_bearers_response__overload_ctl_info_body v) ∧
  opt_good (GTP_IE_SEQUENCE_NUMBER, GTP_IE_INSTANCE_ZERO) v.(gtp_release_acc_bearers_response__overload_ctl_info_ovrld_ctl_seqn_nbr) ∧
  opt_good (GTP_IE_METRIC, GTP_IE_INSTANCE_ZERO) v.(gtp_release_acc_bearers_response__overload_ctl_info_ovrld_reduction_metric) ∧
  opt_good (GTP_IE_EPC_TIMER, GTP_IE_INSTANCE_ZERO) v.(gtp_release_acc_bearers_response__overload_ctl_info_prd_of_validity).
#[global] Instance gtp_release_acc_bearers_response__overload_ctl_info_elem : GtpElem gtp_release_acc_bearers_response__overload_ctl_info_ie_t :=
  {| el_header := gtp_release_acc_bearers_response__overload_ctl_info_header; el_encode := encode_gtp_release_acc_bearers_response__overload_ctl_info_ie; el_decode := decode_gtp_release_acc_bearers_response__overload_ctl_info_ie;
     el_zero := zero_gtp_release_acc_bearers_response__overload_ctl_info; el_unit := 8; el_short := true;
     el_layout v := layout_gie_header v.(gtp_release_acc_bearers_response__overload_ctl_info_header) ++ gtp_release_acc_bearers_response__overload_ctl_info_body v; el_good v := gtp_release_acc_bearers_response__overload_ctl_info_good v ∧ short_good v.(gtp_release_acc_bearers_response__overload_ctl_info_header) (gtp_release_acc_bearers_response__overload_ctl_info_body v) |}.
Lemma gtp_release_acc_bearers_response__overload_ctl_info_places v : gtp_release_acc_bearers_response__overload_ctl_info_good v -> encodes (encode_gtp_release_acc_bearers_response__overload_ctl_info_ie v) (el_layout v) (size (el_layout v) / 8).
Proof.
  intros Hg; unfold gtp_release_acc_bearers_response__overload_ctl_info_good in Hg; destruct_and! Hg. apply encodes_gtp_group. unfold gtp_release_acc_bearers_response__overload_ctl_info_body.
  place_members ltac:(gtp_member).
Qed.
Lemma gtp_release_acc_bearers_response__overload_ctl_info_items v : gtp_release_acc_bearers_response__overload_ctl_info_good v ->
  decodes (decode_gtp_release_acc_bearers_response__overload_ctl_info_ie zero_gtp_release_acc_bearers_response__overload_ctl_info) (el_layout v) (returned true (size (el_layout v) / 8)) v.
Proof.
  intros Hg; unfold gtp_release_acc_bearers_response__overload_ctl_info_good in Hg; destruct_and! Hg. apply decodes_gtp_group; [reflexivity|assumption|]. unfold gtp_release_acc_bearers_response__overload_ctl_info_body.
  read_rest v.
Qed.
#[global] Instance gtp_release_acc_bearers_response__overload_ctl_info_elem_ok : GtpElemOk gtp_release_acc_bearers_response__overload_ctl_info_ie_t.
Proof. split; [intros v [Hg _]; by apply gtp_release_acc_bearers_response__overload_ctl_info_places|intros v [Hg _]; by apply gtp_release_acc_bearers_response__overload_ctl_info_items|by intros v [_ Hz]|intros v [(Hh & _) _]; exact (group_element _ _ Hh)]. Qed.

(** [gtp_mod_acc_bearers_request__bearer_ctxt_to_be_modified_ie_t] *)
Definition gtp_mod_acc_bearers_request__bearer_ctxt_to_be_modified_body (v : gtp_mod_acc_bearers_request__bearer_ctxt_to_be_modified_ie_t) : layout :=
  opt_layout v.(gtp_mod_acc_bearers_request__bearer_ctxt_to_be_modified_eps_bearer_id) ++
  opt_layout v.(gtp_mod_acc_bearers_request__bearer_ctxt_to_be_modified_s1u_enb_fteid) ++
  opt_layout v.(gtp_mod_acc_bearers_request__bearer_ctxt_to_be_modified_s11_u_mme_fteid) ++
  [].
Definition gtp_mod_acc_bearers_request__bearer_ctxt_to_be_modified_good (v : gtp_mod_acc_bearers_request__bearer_ctxt_to_be_modified_ie_t) : Prop :=
  group_good v.(gtp_mod_acc_bearers_request__bearer_ctxt_to_be_modified_header) (gtp_mod_acc_bearers_request__bearer_ctxt_to_be_modified_body v) ∧
  opt_good (GTP_IE_EPS_BEARER_ID, GTP_IE_INSTANCE_ZERO) v.(gtp_mod_acc_bearers_request__bearer_ctxt_to_be_modified_eps_bearer_id) ∧
  opt_good (GTP_IE_FULLY_QUAL_TUNN_ENDPT_IDNT, GTP_IE_INSTANCE_ZERO) v.(gtp_mod_acc_bearers_request__bearer_ctxt_to_be_modified_s1u_enb_fteid) ∧
  opt_good (GTP_IE_FULLY_QUAL_TUNN_ENDPT_IDNT, GTP_IE_INSTANCE_ONE) v.(gtp_mod_acc_bearers_request__bearer_ctxt_to_be_modified_s11_u_mme_fteid).
#[global] Instance gtp_mod_acc_bearers_request__bearer_ctxt_to_be_modified_elem : GtpElem gtp_mod_acc_bearers_request__bearer_ctxt_to_be_modified_ie_t :=
  {| el_header := gtp_mod_acc_bearers_request__bearer_ctxt_to_be_modified_header; el_encode := encode_gtp_mod_acc_bearers_request__bearer_ctxt_to_be_modified_ie; el_decode := decode_gtp_mod_acc_bearers_request__bearer_ctxt_to_be_modified_ie;
     el_zero := zero_gtp_mod_acc_bearers_request__bearer_ctxt_to_be_modified; el_unit := 8; el_short := true;
     el_layout v := layout_gie_header v.(gtp_mod_acc_bearers_request__bearer_ctxt_to_be_modified_header) ++ gtp_mod_acc_bearers_request__bearer_ctxt_to_be_modified_body v; el_good v := gtp_mod_acc_bearers_request__bearer_ctxt_to_be_modified_good v ∧ short_good v.(gtp_mod_acc_bearers_request__bearer_ctxt_to_be_modified_header) (gtp_mod_acc_bearers_request__bearer_ctxt_to_be_modified_body v) |}.
Lemma gtp_mod_acc_bearers_request__bearer_ctxt_to_be_modified_places v : gtp_mod_acc_bearers_request__bearer_ctxt_to_be_modified_good v -> encodes (encode_gtp_mod_acc_bearers_request__bearer_ctxt_to_be_modified_ie v) (el_layout v) (size (el_layout v) / 8).
Proof.
  intros Hg; unfold gtp_mod_acc_bearers_request__bearer_ctxt_to_be_modified_good in Hg; destruct_and! Hg. apply encodes_gtp_group. unfold gtp_mod_acc_bearers_request__bearer_ctxt_to_be_modified_body.
  place_members ltac:(gtp_member).
Qed.
Lemma gtp_mod_acc_bearers_request__bearer_ctxt_to_be_modified_items v : gtp_mod_acc_bearers_request__bearer_ctxt_to_be_modified_good v ->
  decodes (decode_gtp_mod_acc_bearers_request__bearer_ctxt_to_be_modified_ie zero_gtp_mod_acc_bearers_request__bearer_ctxt_to_be_modified) (el_layout v) (returned true (size (el_layout v) / 8)) v.
Proof.
  intros Hg; unfold gtp_mod_acc_bearers_request__bearer_ctxt_to_be_modified_good in Hg; destruct_and! Hg. apply decodes_gtp_group; [reflexivity|assumption|]. unfold gtp_mod_acc_bearers_request__bearer_ctxt_to_be_modified_body.
  read_rest v.
Qed.
#[global] Instance gtp_mod_acc_bearers_request__bearer_ctxt_to_be_modified_elem_ok : GtpElemOk gtp_mod_acc_bearers_request__bearer_ctxt_to_be_modified_ie_t.
Proof. split; [intros v [Hg _]; by apply gtp_mod_acc_bearers_request__bearer_ctxt_to_be_modified_places|intros v [Hg _]; by apply gtp_mod_acc_bearers_request__bearer_ctxt_to_be_modified_items|by intros v [_ Hz]|intros v [(Hh & _) _]; exact (group_element _ _ Hh)]. Qed.

(** [gtp_mod_acc_bearers_request__bearer_ctxt_to_be_removed_ie_t] *)
Definition gtp_mod_acc_bearers_request__bearer_ctxt_to_be_removed_body (v : gtp_mod_acc_bearers_request__bearer_ctxt_to_be_removed_ie_t) : layout :=
  opt_layout v.(gtp_mod_acc_bearers_request__bearer_ctxt_to_be_removed_eps_bearer_id) ++
  [].
Definition gtp_mod_acc_bearers_request__bearer_ctxt_to_be_removed_good (v : gtp_mod_acc_bearers_request__bearer_ctxt_to_be_removed_ie_t) : Prop :=
  group_good v.(gtp_mod_acc_bearers_request__bearer_ctxt_to_be_removed_header) (gtp_mod_acc_bearers_request__bearer_ctxt_to_be_removed_body v) ∧
  opt_good (GTP_IE_EPS_BEARER_ID, GTP_IE_INSTANCE_ZERO) v.(gtp_mod_acc_bearers_request__bearer_ctxt_to_be_removed_eps_bearer_id).
#[global] Instance gtp_mod_acc_bearers_request__bearer_ctxt_to_be_removed_elem : GtpElem gtp_mod_acc_bearers_request__bearer_ctxt_to_be_removed_ie_t :=
  {| el_header := gtp_mod_acc_bearers_request__bearer_ctxt_to_be_removed_header; el_encode := encode_gtp_mod_acc_bearers_request__bearer_ctxt_to_be_removed_ie; el_decode := decode_gtp_mod_acc_bearers_request__bearer_ctxt_to_be_removed_ie;
     el_zero := zero_gtp_mod_acc_bearers_request__bearer_ctxt_to_be_removed; el_unit := 8; el_short := true;
     el_layout v := layout_gie_header v.(gtp_mod_acc_bearers_request__bearer_ctxt_to_be_removed_header) ++ gtp_mod_acc_bearers_request__bearer_ctxt_to_be_removed_body v; el_good v := gtp_mod_acc_bearers_request__bearer_ctxt_to_be_removed_good v ∧ short_good v.(gtp_mod_acc_bearers_request__bearer_ctxt_to_be_removed_header) (gtp_mod_acc_bearers_request__bearer_ctxt_to_be_removed_body v) |}.
Lemma gtp_mod_acc_bearers_request__bearer_ctxt_to_be_removed_places v : gtp_mod_acc_bearers_request__bearer_ctxt_to_be_removed_good v -> encodes (encode_gtp_mod_acc_bearers_request__bearer_ctxt_to_be_removed_ie v) (el_layout v) (size (el_layout v) / 8).
Proof.
  intros Hg; unfold gtp_mod_acc_bearers_request__bearer_ctxt_to_be_removed_good in Hg; destruct_and! Hg. apply encodes_gtp_group. unfold gtp_mod_acc_bearers_request__bearer_ctxt_to_be_removed_body.
  place_members ltac:(gtp_member).
Qed.
Lemma gtp_mod_acc_bearers_request__bearer_ctxt_to_be_removed_items v : gtp_mod_acc_bearers_request__bearer_ctxt_to_be_removed_good v ->
  decodes (decode_gtp_mod_acc_bearers_request__bearer_ctxt_to_be_removed_ie zero_gtp_mod_acc_bearers_request__bearer_ctxt_to_be_removed) (el_layout v) (returned true (size (el_layout v) / 8)) v.
Proof.
  intros Hg; unfold gtp_mod_acc_bearers_request__bearer_ctxt_to_be_removed_good in Hg; destruct_and! Hg. apply decodes_gtp_group; [reflexivity|assumption|]. unfold gtp_mod_acc_bearers_request__bearer_ctxt_to_be_removed_body.
  read_rest v.
Qed.
#[global] Instance gtp_mod_acc_bearers_request__bearer_ctxt_to_be_removed_elem_ok : GtpElemOk gtp_mod_acc_bearers_request__bearer_ctxt_to_be_removed_ie_t.
Proof. split; [intros v [Hg _]; by apply gtp_mod_acc_bearers_request__bearer_ctxt_to_be_removed_places|intros v [Hg _]; by apply gtp_mod_acc_bearers_request__bearer_ctxt_to_be_removed_items|by intros v [_ Hz]|intros v [(Hh & _) _]; exact (group_element _ _ Hh)]. Qed.

(** [gtp_mod_acc_bearers_response__bearer_ctxt_modified_ie_t] *)
Definition gtp_mod_acc_bearers_response__bearer_ctxt_modified_body (v : gtp_mod_acc_bearers_response__bearer_ctxt_modified_ie_t) : layout :=
  opt_layout v.(gtp_mod_acc_bearers_response__bearer_ctxt_modified_eps_bearer_id) ++
  opt_layout v.(gtp_mod_acc_bearers_response__bearer_ctxt_modified_cause) ++
  opt_layout v.(gtp_mod_acc_bearers_response__bearer_ctxt_modified_s1u_sgw_fteid) ++
  opt_layout v.(gtp_mod_acc_bearers_response__bearer_ctxt_modified_s11_u_sgw_fteid) ++
  [].
Definition gtp_mod_acc_bearers_response__bearer_ctxt_modified_good (v : gtp_mod_acc_bearers_response__bearer_ctxt_modified_ie_t) : Prop :=
  group_good v.(gtp_mod_acc_bearers_response__bearer_ctxt_modified_header) (gtp_mod_acc_bearers_response__bearer_ctxt_modified_body v) ∧
  opt_good (GTP_IE_EPS_BEARER_ID, GTP_IE_INSTANCE_ZERO) v.(gtp_mod_acc_bearers_response__bearer_ctxt_modified_eps_bearer_id) ∧
  opt_good (GTP_IE_CAUSE, GTP_IE_INSTANCE_ZERO) v.(gtp_mod_acc_bearers_response__bearer_ctxt_modified_cause) ∧
  opt_good (GTP_IE_FULLY_QUAL_TUNN_ENDPT_IDNT, GTP_IE_INSTANCE_ZERO) v.(gtp_mod_acc_bearers_response__bearer_ctxt_modified_s1u_sgw_fteid) ∧
  opt_good (GTP_IE_FULLY_QUAL_TUNN_ENDPT_IDNT, GTP_IE_INSTANCE_ONE) v.(gtp_mod_acc_bearers_response__bearer_ctxt_modified_s11_u_sgw_fteid).
#[global] Instance gtp_mod_acc_bearers_response__bearer_ctxt_modified_elem : GtpElem gtp_mod_acc_bearers_response__bearer_ctxt_modified_ie_t :=
  {| el_header := gtp_mod_acc_bearers_response__bearer_ctxt_modified_header; el_encode := encode_gtp_mod_acc_bearers_response__bearer_ctxt_modified_ie; el_decode := decode_gtp_mod_acc_bearers_response__bearer_ctxt_modified_ie;
     el_zero := zero_gtp_mod_acc_bearers_response__bearer_ctxt_modified; el_unit := 8; el_short := true;
     el_layout v := layout_gie_header v.(gtp_mod_acc_bearers_response__bearer_ctxt_modified_header) ++ gtp_mod_acc_bearers_response__bearer_ctxt_modified_body v; el_good v := gtp_mod_acc_bearers_response__bearer_ctxt_modified_good v ∧ short_good v.(gtp_mod_acc_bearers_response__bearer_ctxt_modified_header) (gtp_mod_acc_bearers_response__bearer_ctxt_modified_body v) |}.
Lemma gtp_mod_acc_bearers_response__bearer_ctxt_modified_places v : gtp_mod_acc_bearers_response__bearer_ctxt_modified_good v -> encodes (encode_gtp_mod_acc_bearers_response__bearer_ctxt_modified_ie v) (el_layout v) (size (el_layout v) / 8).
Proof.
  intros Hg; unfold gtp_mod_acc_bearers_response__bearer_ctxt_modified_good in Hg; destruct_and! Hg. apply encodes_gtp_group. unfold gtp_mod_acc_bearers_response__bearer_ctxt_modified_body.
  place_members ltac:(gtp_member).
Qed.
Lemma gtp_mod_acc_bearers_response__bearer_ctxt_modified_items v : gtp_mod_acc_bearers_response__bearer_ctxt_modified_good v ->
  decodes (decode_gtp_mod_acc_bearers_response__bearer_ctxt_modified_ie zero_gtp_mod_acc_bearers_response__bearer_ctxt_modified) (el_layout v) (returned true (size (el_layout v) / 8)) v.
Proof.
  intros Hg; unfold gtp_mod_acc_bearers_response__bearer_ctxt_modified_good in Hg; destruct_and! Hg. apply decodes_gtp_group; [reflexivity|assumption|]. unfold gtp_mod_acc_bearers_response__bearer_ctxt_modified_body.
  read_rest v.
Qed.
#[global] Instance gtp_mod_acc_bearers_response__bearer_ctxt_modified_elem_ok : GtpElemOk gtp_mod_acc_bearers_response__bearer_ctxt_modified_ie_t.
Proof. split; [intros v [Hg _]; by apply gtp_mod_acc_bearers_response__bearer_ctxt_modified_places|intros v [Hg _]; by apply gtp_mod_acc_bearers_response__bearer_ctxt_modified_items|by intros v [_ Hz]|intros v [(Hh & _) _]; exact (group_element _ _ Hh)]. Qed.

(** [gtp_mod_acc_bearers_response__bearer_ctxt_marked_removal_ie_t] *)
Definition gtp_mod_acc_bearers_response__bearer_ctxt_marked_removal_body (v : gtp_mod_acc_bearers_response__bearer_ctxt_marked_removal_ie_t) : layout :=
  opt_layout v.(gtp_mod_acc_bearers_response__bearer_ctxt_marked_removal_eps_bearer_id) ++
  opt_layout v.(gtp_mod_acc_bearers_response__bearer_ctxt_marked_removal_cause) ++
  [].
Definition gtp_mod_acc_bearers_response__bearer_ctxt_marked_removal_good (v : gtp_mod_acc_bearers_response__bearer_ctxt_marked_removal_ie_t) : Prop :=
  group_good v.(gtp_mod_acc_bearers_response__bearer_ctxt_marked_removal_header) (gtp_mod_acc_bearers_response__bearer_ctxt_marked_removal_body v) ∧
  opt_good (GTP_IE_EPS_BEARER_ID, GTP_IE_INSTANCE_ZERO) v.(gtp_mod_acc_bearers_response__bearer_ctxt_marked_removal_eps_bearer_id) ∧
  opt_good (GTP_IE_CAUSE, GTP_IE_INSTANCE_ZERO) v.(gtp_mod_acc_bearers_response__bearer_ctxt_marked_removal_cause).
#[global] Instance gtp_mod_acc_bearers_response__bearer_ctxt_marked_removal_elem : GtpElem gtp_mod_acc_bearers_response__bearer_ctxt_marked_removal_ie_t :=
  {| el_header := gtp_mod_acc_bearers_response__bearer_ctxt_marked_removal_header; el_encode := encode_gtp_mod_acc_bearers_response__bearer_ctxt_marked_removal_ie; el_decode := decode_gtp_mod_acc_bearers_response__bearer_ctxt_marked_removal_ie;
     el_zero := zero_gtp_mod_acc_bearers_response__bearer_ctxt_marked_removal; el_unit := 8; el_short := true;
     el_layout v := layout_gie_header v.(gtp_mod_acc_bearers_response__bearer_ctxt_marked_removal_header) ++ gtp_mod_acc_bearers_response__bearer_ctxt_marked_removal_body v; el_good v := gtp_mod_acc_bearers_response__bearer_ctxt_marked_removal_good v ∧ short_good v.(gtp_mod_acc_bearers_response__bearer_ctxt_marked_removal_header) (gtp_mod_acc_bearers_response__bearer_ctxt_marked_removal_body v) |}.
Lemma gtp_mod_acc_bearers_response__bearer_ctxt_marked_removal_places v : gtp_mod_acc_bearers_response__bearer_ctxt_marked_removal_good v -> encodes (encode_gtp_mod_acc_bearers_response__bearer_ctxt_marked_removal_ie v) (el_layout v) (size (el_layout v) / 8).
Proof.
  intros Hg; unfold gtp_mod_acc_bearers_response__bearer_ctxt_marked_removal_good in Hg; destruct_and! Hg. apply encodes_gtp_group. unfold gtp_mod_acc_bearers_response__bearer_ctxt_marked_removal_body.
  place_members ltac:(gtp_member).
Qed.
Lemma gtp_mod_acc_bearers_response__bearer_ctxt_marked_removal_items v : gtp_mod_acc_bearers_response__bearer_ctxt_marked_removal_good v ->
  decodes (decode_gtp_mod_acc_bearers_response__bearer_ctxt_marked_removal_ie zero_gtp_mod_acc_bearers_response__bearer_ctxt_marked_removal) (el_layout v) (returned true (size (el_layout v) / 8)) v.
Proof.
  intros Hg; unfold gtp_mod_acc_bearers_response__bearer_ctxt_marked_removal_good in Hg; destruct_and! Hg. apply decodes_gtp_group; [reflexivity|assumption|]. unfold gtp_mod_acc_bearers_response__bearer_ctxt_marked_removal_body.
  read_rest v.
Qed.
#[global] Instance gtp_mod_acc_bearers_response__bearer_ctxt_marked_removal_elem_ok : GtpElemOk gtp_mod_acc_bearers_response__bearer_ctxt_marked_removal_ie_t.
Proof. split; [intros v [Hg _]; by apply gtp_mod_acc_bearers_response__bearer_ctxt_marked_removal_places|intros v [Hg _]; by apply gtp_mod_acc_bearers_response__bearer_ctxt_marked_removal_items|by intros v [_ Hz]|intros v [(Hh & _) _]; exact (group_element _ _ Hh)]. Qed.

(** [gtp_mod_acc_bearers_response__load_ctl_info_ie_t] *)
Definition gtp_mod_acc_bearers_response__load_ctl_info_body (v : gtp_mod_acc_bearers_response__load_ctl_info_ie_t) : layout :=
  opt_layout v.(gtp_mod_acc_bearers_response__load_ctl_info_load_ctl_seqn_nbr) ++
  opt_layout v.(gtp_mod_acc_bearers_response__load_ctl_info_load_metric) ++
  [].
Definition gtp_mod_acc_bearers_response__load_ctl_info_good (v : gtp_mod_acc_bearers_response__load_ctl_info_ie_t) : Prop :=
  group_good v.(gtp_mod_acc_bearers_response__load_ctl_info_header) (gtp_mod_acc_bearers_response__load_ctl_info_body v) ∧
  opt_good (GTP_IE_SEQUENCE_NUMBER, GTP_IE_INSTANCE_ZERO) v.(gtp_mod_acc_bearers_response__load_ctl_info_load_ctl_seqn_nbr) ∧
  opt_good (GTP_IE_METRIC, GTP_IE_INSTANCE_ZERO) v.(gtp_mod_acc_bearers_response__load_ctl_info_load_metric).
#[global] Instance gtp_mod_acc_bearers_response__load_ctl_info_elem : GtpElem gtp_mod_acc_bearers_response__load_ctl_info_ie_t :=
  {| el_header := gtp_mod_acc_bearers_response__load_ctl_info_header; el_encode := encode_gtp_mod_acc_bearers_response__load_ctl_info_ie; el_decode := decode_gtp_mod_acc_bearers_response__load_ctl_info_ie;
     el_zero := zero_gtp_mod_acc_bearers_response__load_ctl_info; el_unit := 8; el_short := true;
     el_layout v := layout_gie_header v.(gtp_mod_acc_bearers_response__load_ctl_info_header) ++ gtp_mod_acc_bearers_response__load_ctl_info_body v; el_good v := gtp_mod_acc_bearers_response__load_ctl_info_good v ∧ short_good v.(gtp_mod_acc_bearers_response__load_ctl_info_header) (gtp_mod_acc_bearers_response__load_ctl_info_body v) |}.
Lemma gtp_mod_acc_bearers_response__load_ctl_info_places v : gtp_mod_acc_bearers_response__load_ctl_info_good v -> encodes (encode_gtp_mod_acc_bearers_response__load_ctl_info_ie v) (el_layout v) (size (el_layout v) / 8).
Proof.
  intros Hg; unfold gtp_mod_acc_bearers_response__load_ctl_info_good in Hg; destruct_and! Hg. apply encodes_gtp_group. unfold gtp_mod_acc_bearers_response__load_ctl_info_body.
  place_members ltac:(gtp_member).
Qed.
Lemma gtp_mod_acc_bearers_response__load_ctl_info_items v : gtp_mod_acc_bearers_response__load_ctl_info_good v ->
  decodes (decode_gtp_mod_acc_bearers_response__load_ctl_info_ie zero_gtp_mod_acc_bearers_response__load_ctl_info) (el_layout v) (returned true (size (el_layout v) / 8)) v.
Proof.
  intros Hg; unfold gtp_mod_acc_bearers_response__load_ctl_info_good in Hg; destruct_and! Hg. apply decodes_gtp_group; [reflexivity|assumption|]. unfold gtp_mod_acc_bearers_response__load_ctl_info_body.
  read_rest v.
Qed.
#[global] Instance gtp_mod_acc_bearers_response__load_ctl_info_elem_ok : GtpElemOk gtp_mod_acc_bearers_response__load_ctl_info_ie_t.
Proof. split; [intros v [Hg _]; by apply gtp_mod_acc_bearers_response__load_ctl_info_places|intros v [Hg _]; by apply gtp_mod_acc_bearers_response__load_ctl_info_items|by intros v [_ Hz]|intros v [(Hh & _) _]; exact (group_element _ _ Hh)]. Qed.

(** [gtp_mod_acc_bearers_response__overload_ctl_info_ie_t] *)
Definition gtp_mod_acc_bearers_response__overload_ctl_info_body (v : gtp_mod_acc_bearers_response__overload_ctl_info_ie_t) : layout :=
  opt_layout v.(gtp_mod_acc_bearers_response__overload_ctl_info_ovrld_ctl_seqn_nbr) ++
  opt_layout v.(gtp_mod_acc_bearers_response__overload_ctl_info_ovrld_reduction_metric) ++
  opt_layout v.(gtp_mod_acc_bearers_response__overload_ctl_info_prd_of_validity) ++
  [].
Definition gtp_mod_acc_bearers_response__overload_ctl_info_good (v : gtp_mod_acc_bearers_response__overload_ctl_info_ie_t) : Prop :=
  group_good v.(gtp_mod_acc_bearers_response__overload_ctl_info_header) (gtp_mod_acc_bearers_response__overload_ctl_info_body v) ∧
  opt_good (GTP_IE_SEQUENCE_NUMBER, GTP_IE_INSTANCE_ZERO) v.(gtp_mod_acc_bearers_response__overload_ctl_info_ovrld_ctl_seqn_nbr) ∧
  opt_good (GTP_IE_METRIC, GTP_IE_INSTANCE_ZERO) v.(gtp_mod_acc_bearers_response__overload_ctl_info_ovrld_reduction_metric) ∧
  opt_good (GTP_IE_EPC_TIMER, GTP_IE_INSTANCE_ZERO) v.(gtp_mod_acc_bearers_response__overload_ctl_info_prd_of_validity).
#[global] Instance gtp_mod_acc_bearers_response__overload_ctl_info_elem : GtpElem gtp_mod_acc_bearers_response__overload_ctl_info_ie_t :=
  {| el_header := gtp_mod_acc_bearers_response__overload_ctl_info_header; el_encode := encode_gtp_mod_acc_bearers_response__overload_ctl_info_ie; el_decode := decode_gtp_mod_acc_bearers_response__overload_ctl_info_ie;
     el_zero := zero_gtp_mod_acc_bearers_response__overload_ctl_info; el_unit := 8; el_short := true;
     el_layout v := layout_gie_header v.(gtp_mod_acc_bearers_response__overload_ctl_info_header) ++ gtp_mod_acc_bearers_response__overload_ctl_info_body v; el_good v := gtp_mod_acc_bearers_response__overload_ctl_info_good v ∧ short_good v.(gtp_mod_acc_bearers_response__overload_ctl_info_header) (gtp_mod_acc_bearers_response__overload_ctl_info_body v) |}.
Lemma gtp_mod_acc_bearers_response__overload_ctl_info_places v : gtp_mod_acc_bearers_response__overload_ctl_info_good v -> encodes (encode_gtp_mod_acc_bearers_response__overload_ctl_info_ie v) (el_layout v) (size (el_layout v) / 8).
Proof.
  intros Hg; unfold gtp_mod_acc_bearers_response__overload_ctl_info_good in Hg; destruct_and! Hg. apply encodes_gtp_group. unfold gtp_mod_acc_bearers_response__overload_ctl_info_body.
  place_members ltac:(gtp_member).
Qed.
Lemma gtp_mod_acc_bearers_response__overload_ctl_info_items v : gtp_mod_acc_bearers_response__overload_ctl_info_good v ->
  decodes (decode_gtp_mod_acc_bearers_response__overload_ctl_info_ie zero_gtp_mod_acc_bearers_response__overload_ctl_info) (el_layout v) (returned true (size (el_layout v) / 8)) v.
Proof.
  intros Hg; unfold gtp_mod_acc_bearers_response__overload_ctl_info_good in Hg; destruct_and! Hg. apply decodes_gtp_group; [reflexivity|assumption|]. unfold gtp_mod_acc_bearers_response__overload_ctl_info_body.
  read_rest v.
Qed.
#[global] Instance gtp_mod_acc_bearers_response__overload_ctl_info_elem_ok : GtpElemOk gtp_mod_acc_bearers_response__overload_ctl_info_ie_t.
Proof. split; [intros v [Hg _]; by apply gtp_mod_acc_bearers_response__overload_ctl_info_places|intros v [Hg _]; by apply gtp_mod_acc_bearers_response__overload_ctl_info_items|by intros v [_ Hz]|intros v [(Hh & _) _]; exact (group_element _ _ Hh)]. Qed.

(** [gtp_rmt_ue_rpt_notification__remote_ue_ctxt_connected_ie_t] *)
Definition gtp_rmt_ue_rpt_notification__remote_ue_ctxt_connected_body (v : gtp_rmt_ue_rpt_notification__remote_ue_ctxt_connected_ie_t) : layout :=
  opt_layout v.(gtp_rmt_ue_rpt_notification__remote_ue_ctxt_connected_remote_user_id) ++
  opt_layout v.(gtp_rmt_ue_rpt_notification__remote_ue_ctxt_connected_rmt_ue_ip_info) ++
  [].
Definition gtp_rmt_ue_rpt_notification__remote_ue_ctxt_connected_good (v : gtp_rmt_ue_rpt_notification__remote_ue_ctxt_connected_ie_t) : Prop :=
  group_good v.(gtp_rmt_ue_rpt_notification__remote_ue_ctxt_connected_header) (gtp_rmt_ue_rpt_notification__remote_ue_ctxt_connected_body v) ∧
  opt_good (GTP_IE_REMOTE_USER_ID, GTP_IE_INSTANCE_ZERO) v.(gtp_rmt_ue_rpt_notification__remote_ue_ctxt_connected_remote_user_id) ∧
  opt_good (GTP_IE_RMT_UE_IP_INFO, GTP_IE_INSTANCE_ZERO) v.(gtp_rmt_ue_rpt_notification__remote_ue_ctxt_connected_rmt_ue_ip_info).
#[global] Instance gtp_rmt_ue_rpt_notification__remote_ue_ctxt_connected_elem : GtpElem gtp_rmt_ue_rpt_notification__remote_ue_ctxt_connected_ie_t :=
  {| el_header := gtp_rmt_ue_rpt_notification__remote_ue_ctxt_connected_header; el_encode := encode_gtp_rmt_ue_rpt_notification__remote_ue_ctxt_connected_ie; el_decode := decode_gtp_rmt_ue_rpt_notification__remote_ue_ctxt_connected_ie;
     el_zero := zero_gtp_rmt_ue_rpt_notification__remote_ue_ctxt_connected; el_unit := 8; el_short := true;
     el_layout v := layout_gie_header v.(gtp_rmt_ue_rpt_notification__remote_ue_ctxt_connected_header) ++ gtp_rmt_ue_rpt_notification__remote_ue_ctxt_connected_body v; el_good v := gtp_rmt_ue_rpt_notification__remote_ue_ctxt_connected_good v ∧ short_good v.(gtp_rmt_ue_rpt_notification__remote_ue_ctxt_connected_header) (gtp_rmt_ue_rpt_notification__remote_ue_ctxt_connected_body v) |}.
Lemma gtp_rmt_ue_rpt_notification__remote_ue_ctxt_connected_places v : gtp_rmt_ue_rpt_notification__remote_ue_ctxt_connected_good v -> encodes (encode_gtp_rmt_ue_rpt_notification__remote_ue_ctxt_connected_ie v) (el_layout v) (size (el_layout v) / 8).
Proof.
  intros Hg; unfold gtp_rmt_ue_rpt_notification__remote_ue_ctxt_connected_good in Hg; destruct_and! Hg. apply encodes_gtp_group. unfold gtp_rmt_ue_rpt_notification__remote_ue_ctxt_connected_body.
  place_members ltac:(gtp_member).
Qed.
Lemma gtp_rmt_ue_rpt_notification__remote_ue_ctxt_connected_items v : gtp_rmt_ue_rpt_notification__remote_ue_ctxt_connected_good v ->
  decodes (decode_gtp_rmt_ue_rpt_notification__remote_ue_ctxt_connected_ie zero_gtp_rmt_ue_rpt_notification__remote_ue_ctxt_connected) (el_layout v) (returned true (size (el_layout v) / 8)) v.
Proof.
  intros Hg; unfold gtp_rmt_ue_rpt_notification__remote_ue_ctxt_connected_good in Hg; destruct_and! Hg. apply decodes_gtp_group; [reflexivity|assumption|]. unfold gtp_rmt_ue_rpt_notification__remote_ue_ctxt_connected_body.
  read_rest v.
Qed.
#[global] Instance gtp_rmt_ue_rpt_notification__remote_ue_ctxt_connected_elem_ok : GtpElemOk gtp_rmt_ue_rpt_notification__remote_ue_ctxt_connected_ie_t.
Proof. split; [intros v [Hg _]; by apply gtp_rmt_ue_rpt_notification__remote_ue_ctxt_connected_places|intros v [Hg _]; by apply gtp_rmt_ue_rpt_notification__remote_ue_ctxt_connected_items|by intros v [_ Hz]|intros v [(Hh & _) _]; exact (group_element _ _ Hh)]. Qed.

(** [gtp_rmt_ue_rpt_notification__remote_ue_ctxt_disconnected_ie_t] *)
Definition gtp_rmt_ue_rpt_notification__remote_ue_ctxt_disconnected_body (v : gtp_rmt_ue_rpt_notification__remote_ue_ctxt_disconnected_ie_t) : layout :=
  opt_layout v.(gtp_rmt_ue_rpt_notification__remote_ue_ctxt_disconnected_remote_user_id) ++
  [].
Definition gtp_rmt_ue_rpt_notification__remote_ue_ctxt_disconnected_good (v : gtp_rmt_ue_rpt_notification__remote_ue_ctxt_disconnected_ie_t) : Prop :=
  group_good v.(gtp_rmt_ue_rpt_notification__remote_ue_ctxt_disconnected_header) (gtp_rmt_ue_rpt_notification__remote_ue_ctxt_disconnected_body v) ∧
  opt_good (GTP_IE_REMOTE_USER_ID, GTP_IE_INSTANCE_ZERO) v.(gtp_rmt_ue_rpt_notification__remote_ue_ctxt_disconnected_remote_user_id).
#[global] Instance gtp_rmt_ue_rpt_notification__remote_ue_ctxt_disconnected_elem : GtpElem gtp_rmt_ue_rpt_notification__remote_ue_ctxt_disconnected_ie_t :=
  {| el_header := gtp_rmt_ue_rpt_notification__remote_ue_ctxt_disconnected_header; el_encode := encode_gtp_rmt_ue_rpt_notification__remote_ue_ctxt_disconnected_ie; el_decode := decode_gtp_rmt_ue_rpt_notification__remote_ue_ctxt_disconnected_ie;
     el_zero := zero_gtp_rmt_ue_rpt_notification__remote_ue_ctxt_disconnected; el_unit := 8; el_short := true;
     el_layout v := layout_gie_header v.(gtp_rmt_ue_rpt_notification__remote_ue_ctxt_disconnected_header) ++ gtp_rmt_ue_rpt_notification__remote_ue_ctxt_disconnected_body v; el_good v := gtp_rmt_ue_rpt_notification__remote_ue_ctxt_disconnected_good v ∧ short_good v.(gtp_rmt_ue_rpt_notification__remote_ue_ctxt_disconnected_header) (gtp_rmt_ue_rpt_notification__remote_ue_ctxt_disconnected_body v) |}.
Lemma gtp_rmt_ue_rpt_notification__remote_ue_ctxt_disconnected_places v : gtp_rmt_ue_rpt_notification__remote_ue_ctxt_disconnected_good v -> encodes (encode_gtp_rmt_ue_rpt_notification__remote_ue_ctxt_disconnected_ie v) (el_layout v) (size (el_layout v) / 8).
Proof.
  intros Hg; unfold gtp_rmt_ue_rpt_notification__remote_ue_ctxt_disconnected_good in Hg; destruct_and! Hg. apply encodes_gtp_group. unfold gtp_rmt_ue_rpt_notification__remote_ue_ctxt_disconnected_body.
  place_members ltac:(gtp_member).
Qed.
Lemma gtp_rmt_ue_rpt_notification__remote_ue_ctxt_disconnected_items v : gtp_rmt_ue_rpt_notification__remote_ue_ctxt_disconnected_good v ->
  decodes (decode_gtp_rmt_ue_rpt_notification__remote_ue_ctxt_disconnected_ie zero_gtp_rmt_ue_rpt_notification__remote_ue_ctxt_disconnected) (el_layout v) (returned true (size (el_layout v) / 8)) v.
Proof.
  intros Hg; unfold gtp_rmt_ue_rpt_notification__remote_ue_ctxt_disconnected_good in Hg; destruct_and! Hg. apply decodes_gtp_group; [reflexivity|assumption|]. unfold gtp_rmt_ue_rpt_notification__remote_ue_ctxt_disconnected_body.
  read_rest v.
Qed.
#[global] Instance gtp_rmt_ue_rpt_notification__remote_ue_ctxt_disconnected_elem_ok : GtpElemOk gtp_rmt_ue_rpt_notification__remote_ue_ctxt_disconnected_ie_t.
Proof. split; [intros v [Hg _]; by apply gtp_rmt_ue_rpt_notification__remote_ue_ctxt_disconnected_places|intros v [Hg _]; by apply gtp_rmt_ue_rpt_notification__remote_ue_ctxt_disconnected_items|by intros v [_ Hz]|intros v [(Hh & _) _]; exact (group_element _ _ Hh)]. Qed.

(** [gtp_fwd_reloc_request__mmesgsnamf_ue_eps_pdn_connections_ie_t] *)
Definition gtp_fwd_reloc_request__mmesgsnamf_ue_eps_pdn_connections_body (v : gtp_fwd_reloc_request__mmesgsnamf_ue_eps_pdn_connections_ie_t) : layout :=
  opt_layout v.(gtp_fwd_reloc_request__mmesgsnamf_ue_eps_pdn_connections_apn) ++
  opt_layout v.(gtp_fwd_reloc_request__mmesgsnamf_ue_eps_pdn_connections_apn_restriction) ++
  opt_layout v.(gtp_fwd_reloc_request__mmesgsnamf_ue_eps_pdn_connections_selection_mode) ++
  opt_layout v.(gtp_fwd_reloc_request__mmesgsnamf_ue_eps_pdn_connections_linked_eps_bearer_id) ++
  opt_layout v.(gtp_fwd_reloc_request__mmesgsnamf_ue_eps_pdn_connections_pgw_s5s8_ip_addr_ctl_plane_or_pmip) ++
  opt_layout v.(gtp_fwd_reloc_request__mmesgsnamf_ue_eps_pdn_connections_apn_ambr) ++
  opt_layout v.(gtp_fwd_reloc_request__mmesgsnamf_ue_eps_pdn_connections_chrgng_char) ++
  opt_layout v.(gtp_fwd_reloc_request__mmesgsnamf_ue_eps_pdn_connections_chg_rptng_act) ++
  opt_layout v.(gtp_fwd_reloc_request__mmesgsnamf_ue_eps_pdn_connections_csg_info_rptng_act) ++
  opt_layout v.(gtp_fwd_reloc_request__mmesgsnamf_ue_eps_pdn_connections_henb_info_rptng) ++
  opt_layout v.(gtp_fwd_reloc_request__mmesgsnamf_ue_eps_pdn_connections_indctn_flgs) ++
  opt_layout v.(gtp_fwd_reloc_request__mmesgsnamf_ue_eps_pdn_connections_sgnllng_priority_indctn) ++
  opt_layout v.(gtp_fwd_reloc_request__mmesgsnamf_ue_eps_pdn_connections_chg_to_rpt_flgs) ++
  opt_layout v.(gtp_fwd_reloc_request__mmesgsnamf_ue_eps_pdn_connections_local_home_ntwk_id) ++
  opt_layout v.(gtp_fwd_reloc_request__mmesgsnamf_ue_eps_pdn_connections_pres_rptng_area_act) ++
  opt_layout v.(gtp_fwd_reloc_request__mmesgsnamf_ue_eps_pdn_connections_wlan_offldblty_indctn) ++
  opt_layout v.(gtp_fwd_reloc_request__mmesgsnamf_ue_eps_pdn_connections_pdn_type) ++
  opt_layout v.(gtp_fwd_reloc_request__mmesgsnamf_ue_eps_pdn_connections_hdr_comp_cfg) ++
  [].
Definition gtp_fwd_reloc_request__mmesgsnamf_ue_eps_pdn_connections_good (v : gtp_fwd_reloc_request__mmesgsnamf_ue_eps_pdn_connections_ie_t) : Prop :=
  group_good v.(gtp_fwd_reloc_request__mmesgsnamf_ue_eps_pdn_connections_header) (gtp_fwd_reloc_request__mmesgsnamf_ue_eps_pdn_connections_body v) ∧
  opt_good (GTP_IE_ACC_PT_NAME, GTP_IE_INSTANCE_ZERO) v.(gtp_fwd_reloc_request__mmesgsnamf_ue_eps_pdn_connections_apn) ∧
  opt_good (GTP_IE_APN_RESTRICTION, GTP_IE_INSTANCE_ZERO) v.(gtp_fwd_reloc_request__mmesgsnamf_ue_eps_pdn_connections_apn_restriction) ∧
  opt_good (GTP_IE_SELECTION_MODE, GTP_IE_INSTANCE_ZERO) v.(gtp_fwd_reloc_request__mmesgsnamf_ue_eps_pdn_connections_selection_mode) ∧
  opt_good (GTP_IE_EPS_BEARER_ID, GTP_IE_INSTANCE_ZERO) v.(gtp_fwd_reloc_request__mmesgsnamf_ue_eps_pdn_connections_linked_eps_bearer_id) ∧
  opt_good (GTP_IE_FULLY_QUAL_TUNN_ENDPT_IDNT, GTP_IE_INSTANCE_ZERO) v.(gtp_fwd_reloc_request__mmesgsnamf_ue_eps_pdn_connections_pgw_s5s8_ip_addr_ctl_plane_or_pmip) ∧
  opt_good (GTP_IE_AGG_MAX_BIT_RATE, GTP_IE_INSTANCE_ZERO) v.(gtp_fwd_reloc_request__mmesgsnamf_ue_eps_pdn_connections_apn_ambr) ∧
  opt_good (GTP_IE_CHRGNG_CHAR, GTP_IE_INSTANCE_ZERO) v.(gtp_fwd_reloc_request__mmesgsnamf_ue_eps_pdn_connections_chrgng_char) ∧
  opt_good (GTP_IE_CHG_RPTNG_ACT, GTP_IE_INSTANCE_ZERO) v.(gtp_fwd_reloc_request__mmesgsnamf_ue_eps_pdn_connections_chg_rptng_act) ∧
  opt_good (GTP_IE_CSG_INFO_RPTNG_ACT, GTP_IE_INSTANCE_ZERO) v.(gtp_fwd_reloc_request__mmesgsnamf_ue_eps_pdn_connections_csg_info_rptng_act) ∧
  opt_good (GTP_IE_HENB_INFO_RPTNG, GTP_IE_INSTANCE_ZERO) v.(gtp_fwd_reloc_request__mmesgsnamf_ue_eps_pdn_connections_henb_info_rptng) ∧
  opt_good (GTP_IE_INDICATION, GTP_IE_INSTANCE_ZERO) v.(gtp_fwd_reloc_request__mmesgsnamf_ue_eps_pdn_connections_indctn_flgs) ∧
  opt_good (GTP_IE_SGNLLNG_PRIORITY_INDCTN, GTP_IE_INSTANCE_ZERO) v.(gtp_fwd_reloc_request__mmesgsnamf_ue_eps_pdn_connections_sgnllng_priority_indctn) ∧
  opt_good (GTP_IE_CHG_TO_RPT_FLGS, GTP_IE_INSTANCE_ZERO) v.(gtp_fwd_reloc_request__mmesgsnamf_ue_eps_pdn_connections_chg_to_rpt_flgs) ∧
  opt_good (GTP_IE_FULLY_QUAL_DOMAIN_NAME, GTP_IE_INSTANCE_ONE) v.(gtp_fwd_reloc_request__mmesgsnamf_ue_eps_pdn_connections_local_home_ntwk_id) ∧
  opt_good (GTP_IE_PRES_RPTNG_AREA_ACT, GTP_IE_INSTANCE_ZERO) v.(gtp_fwd_reloc_request__mmesgsnamf_ue_eps_pdn_connections_pres_rptng_area_act) ∧
  opt_good (GTP_IE_WLAN_OFFLDBLTY_INDCTN, GTP_IE_INSTANCE_ZERO) v.(gtp_fwd_reloc_request__mmesgsnamf_ue_eps_pdn_connections_wlan_offldblty_indctn) ∧
  opt_good (GTP_IE_PDN_TYPE, GTP_IE_INSTANCE_ZERO) v.(gtp_fwd_reloc_request__mmesgsnamf_ue_eps_pdn_connections_pdn_type) ∧
  opt_good (GTP_IE_HDR_COMP_CFG, GTP_IE_INSTANCE_ZERO) v.(gtp_fwd_reloc_request__mmesgsnamf_ue_eps_pdn_connections_hdr_comp_cfg) ∧
  v.(gtp_fwd_reloc_request__mmesgsnamf_ue_eps_pdn_connections_ipv4_address) = zero_gtp_ip_address ∧
  v.(gtp_fwd_reloc_request__mmesgsnamf_ue_eps_pdn_connections_ipv6_address) = zero_gtp_ip_address ∧
  v.(gtp_fwd_reloc_request__mmesgsnamf_ue_eps_pdn_connections_bearer_contexts) = zero_gtp_bearer_context ∧
  v.(gtp_fwd_reloc_request__mmesgsnamf_ue_eps_pdn_connections_rmt_ue_ctxt_connected) = zero_gtp_rmt_ue_ctxt.
#[global] Instance gtp_fwd_reloc_request__mmesgsnamf_ue_eps_pdn_connections_elem : GtpElem gtp_fwd_reloc_request__mmesgsnamf_ue_eps_pdn_connections_ie_t :=
  {| el_header := gtp_fwd_reloc_request__mmesgsnamf_ue_eps_pdn_connections_header; el_encode := encode_gtp_fwd_reloc_request__mmesgsnamf_ue_eps_pdn_connections_ie; el_decode := decode_gtp_fwd_reloc_request__mmesgsnamf_ue_eps_pdn_connections_ie;
     el_zero := zero_gtp_fwd_reloc_request__mmesgsnamf_ue_eps_pdn_connections; el_unit := 8; el_short := true;
     el_layout v := layout_gie_header v.(gtp_fwd_reloc_request__mmesgsnamf_ue_eps_pdn_connections_header) ++ gtp_fwd_reloc_request__mmesgsnamf_ue_eps_pdn_connections_body v; el_good v := gtp_fwd_reloc_request__mmesgsnamf_ue_eps_pdn_connections_good v ∧ short_good v.(gtp_fwd_reloc_request__mmesgsnamf_ue_eps_pdn_connections_header) (gtp_fwd_reloc_request__mmesgsnamf_ue_eps_pdn_connections_body v) |}.
Lemma gtp_fwd_reloc_request__mmesgsnamf_ue_eps_pdn_connections_places v : gtp_fwd_reloc_request__mmesgsnamf_ue_eps_pdn_connections_good v -> encodes (encode_gtp_fwd_reloc_request__mmesgsnamf_ue_eps_pdn_connections_ie v) (el_layout v) (size (el_layout v) / 8).
Proof.
  intros Hg; unfold gtp_fwd_reloc_request__mmesgsnamf_ue_eps_pdn_connections_good in Hg; destruct_and! Hg. apply encodes_gtp_group. unfold gtp_fwd_reloc_request__mmesgsnamf_ue_eps_pdn_connections_body.
  place_members ltac:(gtp_member).
Qed.
Lemma gtp_fwd_reloc_request__mmesgsnamf_ue_eps_pdn_connections_items v : gtp_fwd_reloc_request__mmesgsnamf_ue_eps_pdn_connections_good v ->
  decodes (decode_gtp_fwd_reloc_request__mmesgsnamf_ue_eps_pdn_connections_ie zero_gtp_fwd_reloc_request__mmesgsnamf_ue_eps_pdn_connections) (el_layout v) (returned true (size (el_layout v) / 8)) v.
Proof.
  intros Hg; unfold gtp_fwd_reloc_request__mmesgsnamf_ue_eps_pdn_connections_good in Hg; destruct_and! Hg. apply decodes_gtp_group; [reflexivity|assumption|]. unfold gtp_fwd_reloc_request__mmesgsnamf_ue_eps_pdn_connections_body.
  read_rest v.
Qed.
#[global] Instance gtp_fwd_reloc_request__mmesgsnamf_ue_eps_pdn_connections_elem_ok : GtpElemOk gtp_fwd_reloc_request__mmesgsnamf_ue_eps_pdn_connections_ie_t.
Proof. split; [intros v [Hg _]; by apply gtp_fwd_reloc_request__mmesgsnamf_ue_eps_pdn_connections_places|intros v [Hg _]; by apply gtp_fwd_reloc_request__mmesgsnamf_ue_eps_pdn_connections_items|by intros v [_ Hz]|intros v [(Hh & _) _]; exact (group_element _ _ Hh)]. Qed.

(** [gtp_fwd_reloc_request__bearer_ctxt_ie_t] *)
Definition gtp_fwd_reloc_request__bearer_ctxt_body (v : gtp_fwd_reloc_request__bearer_ctxt_ie_t) : layout :=
  opt_layout v.(gtp_fwd_reloc_request__bearer_ctxt_eps_bearer_id) ++
  opt_layout v.(gtp_fwd_reloc_request__bearer_ctxt_tft) ++
  opt_layout v.(gtp_fwd_reloc_request__bearer_ctxt_sgw_s1s4s12_ip_addr_and_teid_user_plane) ++
  opt_layout v.(gtp_fwd_reloc_request__bearer_ctxt_pgw_s5s8_ip_addr_and_teid_user_plane) ++
  opt_layout v.(gtp_fwd_reloc_request__bearer_ctxt_bearer_lvl_qos) ++
  opt_layout v.(gtp_fwd_reloc_request__bearer_ctxt_bss_container) ++
  opt_layout v.(gtp_fwd_reloc_request__bearer_ctxt_trans_idnt) ++
  opt_layout v.(gtp_fwd_reloc_request__bearer_ctxt_bearer_flags) ++
  opt_layout v.(gtp_fwd_reloc_request__bearer_ctxt_sgw_s11_ip_addr_and_teid_user_plane) ++
  [].
Definition gtp_fwd_reloc_request__bearer_ctxt_good (v : gtp_fwd_reloc_request__bearer_ctxt_ie_t) : Prop :=
  group_good v.(gtp_fwd_reloc_request__bearer_ctxt_header) (gtp_fwd_reloc_request__bearer_ctxt_body v) ∧
  opt_good (GTP_IE_EPS_BEARER_ID, GTP_IE_INSTANCE_ZERO) v.(gtp_fwd_reloc_request__bearer_ctxt_eps_bearer_id) ∧
  opt_good (GTP_IE_EPS_BEARER_LVL_TRAFFIC_FLOW_TMPL, GTP_IE_INSTANCE_ZERO) v.(gtp_fwd_reloc_request__bearer_ctxt_tft) ∧
  opt_good (GTP_IE_FULLY_QUAL_TUNN_ENDPT_IDNT, GTP_IE_INSTANCE_ZERO) v.(gtp_fwd_reloc_request__bearer_ctxt_sgw_s1s4s12_ip_addr_and_teid_user_plane) ∧
  opt_good (GTP_IE_FULLY_QUAL_TUNN_ENDPT_IDNT, GTP_IE_INSTANCE_ONE) v.(gtp_fwd_reloc_request__bearer_ctxt_pgw_s5s8_ip_addr_and_teid_user_plane) ∧
  opt_good (GTP_IE_BEARER_QLTY_OF_SVC, GTP_IE_INSTANCE_ZERO) v.(gtp_fwd_reloc_request__bearer_ctxt_bearer_lvl_qos) ∧
  opt_good (GTP_IE_FULL_QUAL_CNTNR, GTP_IE_INSTANCE_ZERO) v.(gtp_fwd_reloc_request__bearer_ctxt_bss_container) ∧
  opt_good (GTP_IE_TRANS_IDNT, GTP_IE_INSTANCE_ZERO) v.(gtp_fwd_reloc_request__bearer_ctxt_trans_idnt) ∧
  opt_good (GTP_IE_BEARER_FLAGS, GTP_IE_INSTANCE_ZERO) v.(gtp_fwd_reloc_request__bearer_ctxt_bearer_flags) ∧
  opt_good (GTP_IE_FULLY_QUAL_TUNN_ENDPT_IDNT, GTP_IE_INSTANCE_TWO) v.(gtp_fwd_reloc_request__bearer_ctxt_sgw_s11_ip_addr_and_teid_user_plane).
#[global] Instance gtp_fwd_reloc_request__bearer_ctxt_elem : GtpElem gtp_fwd_reloc_request__bearer_ctxt_ie_t :=
  {| el_header := gtp_fwd_reloc_request__bearer_ctxt_header; el_encode := encode_gtp_fwd_reloc_request__bearer_ctxt_ie; el_decode := decode_gtp_fwd_reloc_request__bearer_ctxt_ie;
     el_zero := zero_gtp_fwd_reloc_request__bearer_ctxt; el_unit := 8; el_short := true;
     el_layout v := layout_gie_header v.(gtp_fwd_reloc_request__bearer_ctxt_header) ++ gtp_fwd_reloc_request__bearer_ctxt_body v; el_good v := gtp_fwd_reloc_request__bearer_ctxt_good v ∧ short_good v.(gtp_fwd_reloc_request__bearer_ctxt_header) (gtp_fwd_reloc_request__bearer_ctxt_body v) |}.
Lemma gtp_fwd_reloc_request__bearer_ctxt_places v : gtp_fwd_reloc_request__bearer_ctxt_good v -> encodes (encode_gtp_fwd_reloc_request__bearer_ctxt_ie v) (el_layout v) (size (el_layout v) / 8).
Proof.
  intros Hg; unfold gtp_fwd_reloc_request__bearer_ctxt_good in Hg; destruct_and! Hg. apply encodes_gtp_group. unfold gtp_fwd_reloc_request__bearer_ctxt_body.
  place_members ltac:(gtp_member).
Qed.
Lemma gtp_fwd_reloc_request__bearer_ctxt_items v : gtp_fwd_reloc_request__bearer_ctxt_good v ->
  decodes (decode_gtp_fwd_reloc_request__bearer_ctxt_ie zero_gtp_fwd_reloc_request__bearer_ctxt) (el_layout v) (returned true (size (el_layout v) / 8)) v.
Proof.
  intros Hg; unfold gtp_fwd_reloc_request__bearer_ctxt_good in Hg; destruct_and! Hg. apply decodes_gtp_group; [reflexivity|assumption|]. unfold gtp_fwd_reloc_request__bearer_ctxt_body.
  read_rest v.
Qed.
#[global] Instance gtp_fwd_reloc_request__bearer_ctxt_elem_ok : GtpElemOk gtp_fwd_reloc_request__bearer_ctxt_ie_t.
Proof. split; [intros v [Hg _]; by apply gtp_fwd_reloc_request__bearer_ctxt_places|intros v [Hg _]; by apply gtp_fwd_reloc_request__bearer_ctxt_items|by intros v [_ Hz]|intros v [(Hh & _) _]; exact (group_element _ _ Hh)]. Qed.

(** [gtp_fwd_reloc_request__remote_ue_ctxt_connected_ie_t] *)
Definition gtp_fwd_reloc_request__remote_ue_ctxt_connected_body (v : gtp_fwd_reloc_request__remote_ue_ctxt_connected_ie_t) : layout :=
  opt_layout v.(gtp_fwd_reloc_request__remote_ue_ctxt_connected_remote_user_id) ++
  opt_layout v.(gtp_fwd_reloc_request__remote_ue_ctxt_connected_rmt_ue_ip_info) ++
  [].
Definition gtp_fwd_reloc_request__remote_ue_ctxt_connected_good (v : gtp_fwd_reloc_request__remote_ue_ctxt_connected_ie_t) : Prop :=
  group_good v.(gtp_fwd_reloc_request__remote_ue_ctxt_connected_header) (gtp_fwd_reloc_request__remote_ue_ctxt_connected_body v) ∧
  opt_good (GTP_IE_REMOTE_USER_ID, GTP_IE_INSTANCE_ZERO) v.(gtp_fwd_reloc_request__remote_ue_ctxt_connected_remote_user_id) ∧
  opt_good (GTP_IE_RMT_UE_IP_INFO, GTP_IE_INSTANCE_ZERO) v.(gtp_fwd_reloc_request__remote_ue_ctxt_connected_rmt_ue_ip_info).
#[global] Instance gtp_fwd_reloc_request__remote_ue_ctxt_connected_elem : GtpElem gtp_fwd_reloc_request__remote_ue_ctxt_connected_ie_t :=
  {| el_header := gtp_fwd_reloc_request__remote_ue_ctxt_connected_header; el_encode := encode_gtp_fwd_reloc_request__remote_ue_ctxt_connected_ie; el_decode := decode_gtp_fwd_reloc_request__remote_ue_ctxt_connected_ie;
     el_zero := zero_gtp_fwd_reloc_request__remote_ue_ctxt_connected; el_unit := 8; el_short := true;
     el_layout v := layout_gie_header v.(gtp_fwd_reloc_request__remote_ue_ctxt_connected_header) ++ gtp_fwd_reloc_request__remote_ue_ctxt_connected_body v; el_good v := gtp_fwd_reloc_request__remote_ue_ctxt_connected_good v ∧ short_good v.(gtp_fwd_reloc_request__remote_ue_ctxt_connected_header) (gtp_fwd_reloc_request__remote_ue_ctxt_connected_body v) |}.
Lemma gtp_fwd_reloc_request__remote_ue_ctxt_connected_places v : gtp_fwd_reloc_request__remote_ue_ctxt_connected_good v -> encodes (encode_gtp_fwd_reloc_request__remote_ue_ctxt_connected_ie v) (el_layout v) (size (el_layout v) / 8).
Proof.
  intros Hg; unfold gtp_fwd_reloc_request__remote_ue_ctxt_connected_good in Hg; destruct_and! Hg. apply encodes_gtp_group. unfold gtp_fwd_reloc_request__remote_ue_ctxt_connected_body.
  place_members ltac:(gtp_member).
Qed.
Lemma gtp_fwd_reloc_request__remote_ue_ctxt_connected_items v : gtp_fwd_reloc_request__remote_ue_ctxt_connected_good v ->
  decodes (decode_gtp_fwd_reloc_request__remote_ue_ctxt_connected_ie zero_gtp_fwd_reloc_request__remote_ue_ctxt_connected) (el_layout v) (returned true (size (el_layout v) / 8)) v.
Proof.
  intros Hg; unfold gtp_fwd_reloc_request__remote_ue_ctxt_connected_good in Hg; destruct_and! Hg. apply decodes_gtp_group; [reflexivity|assumption|]. unfold gtp_fwd_reloc_request__remote_ue_ctxt_connected_body.
  read_rest v.
Qed.
#[global] Instance gtp_fwd_reloc_request__remote_ue_ctxt_connected_elem_ok : GtpElemOk gtp_fwd_reloc_request__remote_ue_ctxt_connected_ie_t.
Proof. split; [intros v [Hg _]; by apply gtp_fwd_reloc_request__remote_ue_ctxt_connected_places|intros v [Hg _]; by apply gtp_fwd_reloc_request__remote_ue_ctxt_connected_items|by intros v [_ Hz]|intros v [(Hh & _) _]; exact (group_element _ _ Hh)]. Qed.

(** [gtp_fwd_reloc_request__mme_ue_scef_pdn_connections_ie_t] *)
Definition gtp_fwd_reloc_request__mme_ue_scef_pdn_connections_body (v : gtp_fwd_reloc_request__mme_ue_scef_pdn_connections_ie_t) : layout :=
  opt_layout v.(gtp_fwd_reloc_request__mme_ue_scef_pdn_connections_apn) ++
  opt_layout v.(gtp_fwd_reloc_request__mme_ue_scef_pdn_connections_dflt_eps_bearer_id) ++
  opt_layout v.(gtp_fwd_reloc_request__mme_ue_scef_pdn_connections_scef_id) ++
  [].
Definition gtp_fwd_reloc_request__mme_ue_scef_pdn_connections_good (v : gtp_fwd_reloc_request__mme_ue_scef_pdn_connections_ie_t) : Prop :=
  group_good v.(gtp_fwd_reloc_request__mme_ue_scef_pdn_connections_header) (gtp_fwd_reloc_request__mme_ue_scef_pdn_connections_body v) ∧
  opt_good (GTP_IE_ACC_PT_NAME, GTP_IE_INSTANCE_ZERO) v.(gtp_fwd_reloc_request__mme_ue_scef_pdn_connections_apn) ∧
  opt_good (GTP_IE_EPS_BEARER_ID, GTP_IE_INSTANCE_ZERO) v.(gtp_fwd_reloc_request__mme_ue_scef_pdn_connections_dflt_eps_bearer_id) ∧
  opt_good (GTP_IE_NODE_IDENTIFIER, GTP_IE_INSTANCE_ZERO) v.(gtp_fwd_reloc_request__mme_ue_scef_pdn_connections_scef_id).
#[global] Instance gtp_fwd_reloc_request__mme_ue_scef_pdn_connections_elem : GtpElem gtp_fwd_reloc_request__mme_ue_scef_pdn_connections_ie_t :=
  {| el_header := gtp_fwd_reloc_request__mme_ue_scef_pdn_connections_header; el_encode := encode_gtp_fwd_reloc_request__mme_ue_scef_pdn_connections_ie; el_decode := decode_gtp_fwd_reloc_request__mme_ue_scef_pdn_connections_ie;
     el_zero := zero_gtp_fwd_reloc_request__mme_ue_scef_pdn_connections; el_unit := 8; el_short := true;
     el_layout v := layout_gie_header v.(gtp_fwd_reloc_request__mme_ue_scef_pdn_connections_header) ++ gtp_fwd_reloc_request__mme_ue_scef_pdn_connections_body v; el_good v := gtp_fwd_reloc_request__mme_ue_scef_pdn_connections_good v ∧ short_good v.(gtp_fwd_reloc_request__mme_ue_scef_pdn_connections_header) (gtp_fwd_reloc_request__mme_ue_scef_pdn_connections_body v) |}.
Lemma gtp_fwd_reloc_request__mme_ue_scef_pdn_connections_places v : gtp_fwd_reloc_request__mme_ue_scef_pdn_connections_good v -> encodes (encode_gtp_fwd_reloc_request__mme_ue_scef_pdn_connections_ie v) (el_layout v) (size (el_layout v) / 8).
Proof.
  intros Hg; unfold gtp_fwd_reloc_request__mme_ue_scef_pdn_connections_good in Hg; destruct_and! Hg. apply encodes_gtp_group. unfold gtp_fwd_reloc_request__mme_ue_scef_pdn_connections_body.
  place_members ltac:(gtp_member).
Qed.
Lemma gtp_fwd_reloc_request__mme_ue_scef_pdn_connections_items v : gtp_fwd_reloc_request__mme_ue_scef_pdn_connections_good v ->
  decodes (decode_gtp_fwd_reloc_request__mme_ue_scef_pdn_connections_ie zero_gtp_fwd_reloc_request__mme_ue_scef_pdn_connections) (el_layout v) (returned true (size (el_layout v) / 8)) v.
Proof.
  intros Hg; unfold gtp_fwd_reloc_request__mme_ue_scef_pdn_connections_good in Hg; destruct_and! Hg. apply decodes_gtp_group; [reflexivity|assumption|]. unfold gtp_fwd_reloc_request__mme_ue_scef_pdn_connections_body.
  read_rest v.
Qed.
#[global] Instance gtp_fwd_reloc_request__mme_ue_scef_pdn_connections_elem_ok : GtpElemOk gtp_fwd_reloc_request__mme_ue_scef_pdn_connections_ie_t.
Proof. split; [intros v [Hg _]; by apply gtp_fwd_reloc_request__mme_ue_scef_pdn_connections_places|intros v [Hg _]; by apply gtp_fwd_reloc_request__mme_ue_scef_pdn_connections_items|by intros v [_ Hz]|intros v [(Hh & _) _]; exact (group_element _ _ Hh)]. Qed.

(** [gtp_ctxt_response__mmesgsn_ue_eps_pdn_connections_ie_t] *)
Definition gtp_ctxt_response__mmesgsn_ue_eps_pdn_connections_body (v : gtp_ctxt_response__mmesgsn_ue_eps_pdn_connections_ie_t) : layout :=
  opt_layout v.(gtp_ctxt_response__mmesgsn_ue_eps_pdn_connections_apn) ++
  opt_layout v.(gtp_ctxt_response__mmesgsn_ue_eps_pdn_connections_apn_restriction) ++
  opt_layout v.(gtp_ctxt_response__mmesgsn_ue_eps_pdn_connections_selection_mode) ++
  opt_layout v.(gtp_ctxt_response__mmesgsn_ue_eps_pdn_connections_linked_eps_bearer_id) ++
  opt_layout v.(gtp_ctxt_response__mmesgsn_ue_eps_pdn_connections_pgw_s5s8_ip_addr_ctl_plane_or_pmip) ++
  opt_layout v.(gtp_ctxt_response__mmesgsn_ue_eps_pdn_connections_pgw_node_name) ++
  opt_layout v.(gtp_ctxt_response__mmesgsn_ue_eps_pdn_connections_apn_ambr) ++
  opt_layout v.(gtp_ctxt_response__mmesgsn_ue_eps_pdn_connections_chrgng_char) ++
  opt_layout v.(gtp_ctxt_response__mmesgsn_ue_eps_pdn_connections_chg_rptng_act) ++
  opt_layout v.(gtp_ctxt_response__mmesgsn_ue_eps_pdn_connections_csg_info_rptng_act) ++
  opt_layout v.(gtp_ctxt_response__mmesgsn_ue_eps_pdn_connections_henb_info_rptng) ++
  opt_layout v.(gtp_ctxt_response__mmesgsn_ue_eps_pdn_connections_indctn_flgs) ++
  opt_layout v.(gtp_ctxt_response__mmesgsn_ue_eps_pdn_connections_sgnllng_priority_indctn) ++
  opt_layout v.(gtp_ctxt_response__mmesgsn_ue_eps_pdn_connections_chg_to_rpt_flgs) ++
  opt_layout v.(gtp_ctxt_response__mmesgsn_ue_eps_pdn_connections_local_home_ntwk_id) ++
  opt_layout v.(gtp_ctxt_response__mmesgsn_ue_eps_pdn_connections_pres_rptng_area_act) ++
  opt_layout v.(gtp_ctxt_response__mmesgsn_ue_eps_pdn_connections_wlan_offldblty_indctn) ++
  opt_layout v.(gtp_ctxt_response__mmesgsn_ue_eps_pdn_connections_pdn_type) ++
  opt_layout v.(gtp_ctxt_response__mmesgsn_ue_eps_pdn_connections_hdr_comp_cfg) ++
  [].
Definition gtp_ctxt_response__mmesgsn_ue_eps_pdn_connections_good (v : gtp_ctxt_response__mmesgsn_ue_eps_pdn_connections_ie_t) : Prop :=
  group_good v.(gtp_ctxt_response__mmesgsn_ue_eps_pdn_connections_header) (gtp_ctxt_response__mmesgsn_ue_eps_pdn_connections_body v) ∧
  opt_good (GTP_IE_ACC_PT_NAME, GTP_IE_INSTANCE_ZERO) v.(gtp_ctxt_response__mmesgsn_ue_eps_pdn_connections_apn) ∧
  opt_good (GTP_IE_APN_RESTRICTION, GTP_IE_INSTANCE_ZERO) v.(gtp_ctxt_response__mmesgsn_ue_eps_pdn_connections_apn_restriction) ∧
  opt_good (GTP_IE_SELECTION_MODE, GTP_IE_INSTANCE_ZERO) v.(gtp_ctxt_response__mmesgsn_ue_eps_pdn_connections_selection_mode) ∧
  opt_good (GTP_IE_EPS_BEARER_ID, GTP_IE_INSTANCE_ZERO) v.(gtp_ctxt_response__mmesgsn_ue_eps_pdn_connections_linked_eps_bearer_id) ∧
  opt_good (GTP_IE_FULLY_QUAL_TUNN_ENDPT_IDNT, GTP_IE_INSTANCE_ZERO) v.(gtp_ctxt_response__mmesgsn_ue_eps_pdn_connections_pgw_s5s8_ip_addr_ctl_plane_or_pmip) ∧
  opt_good (GTP_IE_FULLY_QUAL_DOMAIN_NAME, GTP_IE_INSTANCE_ZERO) v.(gtp_ctxt_response__mmesgsn_ue_eps_pdn_connections_pgw_node_name) ∧
  opt_good (GTP_IE_AGG_MAX_BIT_RATE, GTP_IE_INSTANCE_ZERO) v.(gtp_ctxt_response__mmesgsn_ue_eps_pdn_connections_apn_ambr) ∧
  opt_good (GTP_IE_CHRGNG_CHAR, GTP_IE_INSTANCE_ZERO) v.(gtp_ctxt_response__mmesgsn_ue_eps_pdn_connections_chrgng_char) ∧
  opt_good (GTP_IE_CHG_RPTNG_ACT, GTP_IE_INSTANCE_ZERO) v.(gtp_ctxt_response__mmesgsn_ue_eps_pdn_connections_chg_rptng_act) ∧
  opt_good (GTP_IE_CSG_INFO_RPTNG_ACT, GTP_IE_INSTANCE_ZERO) v.(gtp_ctxt_response__mmesgsn_ue_eps_pdn_connections_csg_info_rptng_act) ∧
  opt_good (GTP_IE_HENB_INFO_RPTNG, GTP_IE_INSTANCE_ZERO) v.(gtp_ctxt_response__mmesgsn_ue_eps_pdn_connections_henb_info_rptng) ∧
  opt_good (GTP_IE_INDICATION, GTP_IE_INSTANCE_ZERO) v.(gtp_ctxt_response__mmesgsn_ue_eps_pdn_connections_indctn_flgs) ∧
  opt_good (GTP_IE_SGNLLNG_PRIORITY_INDCTN, GTP_IE_INSTANCE_ZERO) v.(gtp_ctxt_response__mmesgsn_ue_eps_pdn_connections_sgnllng_priority_indctn) ∧
  opt_good (GTP_IE_CHG_TO_RPT_FLGS, GTP_IE_INSTANCE_ZERO) v.(gtp_ctxt_response__mmesgsn_ue_eps_pdn_connections_chg_to_rpt_flgs) ∧
  opt_good (GTP_IE_FULLY_QUAL_DOMAIN_NAME, GTP_IE_INSTANCE_ONE) v.(gtp_ctxt_response__mmesgsn_ue_eps_pdn_connections_local_home_ntwk_id) ∧
  opt_good (GTP_IE_PRES_RPTNG_AREA_ACT, GTP_IE_INSTANCE_ZERO) v.(gtp_ctxt_response__mmesgsn_ue_eps_pdn_connections_pres_rptng_area_act) ∧
  opt_good (GTP_IE_WLAN_OFFLDBLTY_INDCTN, GTP_IE_INSTANCE_ZERO) v.(gtp_ctxt_response__mmesgsn_ue_eps_pdn_connections_wlan_offldblty_indctn) ∧
  opt_good (GTP_IE_PDN_TYPE, GTP_IE_INSTANCE_ZERO) v.(gtp_ctxt_response__mmesgsn_ue_eps_pdn_connections_pdn_type) ∧
  opt_good (GTP_IE_HDR_COMP_CFG, GTP_IE_INSTANCE_ZERO) v.(gtp_ctxt_response__mmesgsn_ue_eps_pdn_connections_hdr_comp_cfg) ∧
  v.(gtp_ctxt_response__mmesgsn_ue_eps_pdn_connections_ipv4_address) = zero_gtp_ip_address ∧
  v.(gtp_ctxt_response__mmesgsn_ue_eps_pdn_connections_ipv6_address) = zero_gtp_ip_address ∧
  v.(gtp_ctxt_response__mmesgsn_ue_eps_pdn_connections_bearer_contexts) = zero_gtp_bearer_context ∧
  v.(gtp_ctxt_response__mmesgsn_ue_eps_pdn_connections_rmt_ue_ctxt_connected) = zero_gtp_rmt_ue_ctxt.
#[global] Instance gtp_ctxt_response__mmesgsn_ue_eps_pdn_connections_elem : GtpElem gtp_ctxt_response__mmesgsn_ue_eps_pdn_connections_ie_t :=
  {| el_header := gtp_ctxt_response__mmesgsn_ue_eps_pdn_connections_header; el_encode := encode_gtp_ctxt_response__mmesgsn_ue_eps_pdn_connections_ie; el_decode := decode_gtp_ctxt_response__mmesgsn_ue_eps_pdn_connections_ie;
     el_zero := zero_gtp_ctxt_response__mmesgsn_ue_eps_pdn_connections; el_unit := 8; el_short := true;
     el_layout v := layout_gie_header v.(gtp_ctxt_response__mmesgsn_ue_eps_pdn_connections_header) ++ gtp_ctxt_response__mmesgsn_ue_eps_pdn_connections_body v; el_good v := gtp_ctxt_response__mmesgsn_ue_eps_pdn_connections_good v ∧ short_good v.(gtp_ctxt_response__mmesgsn_ue_eps_pdn_connections_header) (gtp_ctxt_response__mmesgsn_ue_eps_pdn_connections_body v) |}.
Lemma gtp_ctxt_response__mmesgsn_ue_eps_pdn_connections_places v : gtp_ctxt_response__mmesgsn_ue_eps_pdn_connections_good v -> encodes (encode_gtp_ctxt_response__mmesgsn_ue_eps_pdn_connections_ie v) (el_layout v) (size (el_layout v) / 8).
Proof.
  intros Hg; unfold gtp_ctxt_response__mmesgsn_ue_eps_pdn_connections_good in Hg; destruct_and! Hg. apply encodes_gtp_group. unfold gtp_ctxt_response__mmesgsn_ue_eps_pdn_connections_body.
  place_members ltac:(gtp_member).
Qed.
Lemma gtp_ctxt_response__mmesgsn_ue_eps_pdn_connections_items v : gtp_ctxt_response__mmesgsn_ue_eps_pdn_connections_good v ->
  decodes (decode_gtp_ctxt_response__mmesgsn_ue_eps_pdn_connections_ie zero_gtp_ctxt_response__mmesgsn_ue_eps_pdn_connections) (el_layout v) (returned true (size (el_layout v) / 8)) v.
Proof.
  intros Hg; unfold gtp_ctxt_response__mmesgsn_ue_eps_pdn_connections_good in Hg; destruct_and! Hg. apply decodes_gtp_group; [reflexivity|assumption|]. unfold gtp_ctxt_response__mmesgsn_ue_eps_pdn_connections_body.
  read_rest v.
Qed.
#[global] Instance gtp_ctxt_response__mmesgsn_ue_eps_pdn_connections_elem_ok : GtpElemOk gtp_ctxt_response__mmesgsn_ue_eps_pdn_connections_ie_t.
Proof. split; [intros v [Hg _]; by apply gtp_ctxt_response__mmesgsn_ue_eps_pdn_connections_places|intros v [Hg _]; by apply gtp_ctxt_response__mmesgsn_ue_eps_pdn_connections_items|by intros v [_ Hz]|intros v [(Hh & _) _]; exact (group_element _ _ Hh)]. Qed.

(** [gtp_ctxt_response__bearer_ctxt_ie_t] *)
Definition gtp_ctxt_response__bearer_ctxt_body (v : gtp_ctxt_response__bearer_ctxt_ie_t) : layout :=
  opt_layout v.(gtp_ctxt_response__bearer_ctxt_eps_bearer_id) ++
  opt_layout v.(gtp_ctxt_response__bearer_ctxt_tft) ++
  opt_layout v.(gtp_ctxt_response__bearer_ctxt_sgw_s1s4s12s11_ip_addr_and_teid_user_plane) ++
  opt_layout v.(gtp_ctxt_response__bearer_ctxt_pgw_s5s8_ip_addr_and_teid_user_plane) ++
  opt_layout v.(gtp_ctxt_response__bearer_ctxt_bearer_lvl_qos) ++
  opt_layout v.(gtp_ctxt_response__bearer_ctxt_bss_container) ++
  opt_layout v.(gtp_ctxt_response__bearer_ctxt_trans_idnt) ++
  opt_layout v.(gtp_ctxt_response__bearer_ctxt_sgw_s11_ip_addr_and_teid_user_plane) ++
  [].
Definition gtp_ctxt_response__bearer_ctxt_good (v : gtp_ctxt_response__bearer_ctxt_ie_t) : Prop :=
  group_good v.(gtp_ctxt_response__bearer_ctxt_header) (gtp_ctxt_response__bearer_ctxt_body v) ∧
  opt_good (GTP_IE_EPS_BEARER_ID, GTP_IE_INSTANCE_ZERO) v.(gtp_ctxt_response__bearer_ctxt_eps_bearer_id) ∧
  opt_good (GTP_IE_EPS_BEARER_LVL_TRAFFIC_FLOW_TMPL, GTP_IE_INSTANCE_ZERO) v.(gtp_ctxt_response__bearer_ctxt_tft) ∧
  opt_good (GTP_IE_FULLY_QUAL_TUNN_ENDPT_IDNT, GTP_IE_INSTANCE_ZERO) v.(gtp_ctxt_response__bearer_ctxt_sgw_s1s4s12s11_ip_addr_and_teid_user_plane) ∧
  opt_good (GTP_IE_FULLY_QUAL_TUNN_ENDPT_IDNT, GTP_IE_INSTANCE_ONE) v.(gtp_ctxt_response__bearer_ctxt_pgw_s5s8_ip_addr_and_teid_user_plane) ∧
  opt_good (GTP_IE_BEARER_QLTY_OF_SVC, GTP_IE_INSTANCE_ZERO) v.(gtp_ctxt_response__bearer_ctxt_bearer_lvl_qos) ∧
  opt_good (GTP_IE_FULL_QUAL_CNTNR, GTP_IE_INSTANCE_ZERO) v.(gtp_ctxt_response__bearer_ctxt_bss_container) ∧
  opt_good (GTP_IE_TRANS_IDNT, GTP_IE_INSTANCE_ZERO) v.(gtp_ctxt_response__bearer_ctxt_trans_idnt) ∧
  opt_good (GTP_IE_FULLY_QUAL_TUNN_ENDPT_IDNT, GTP_IE_INSTANCE_TWO) v.(gtp_ctxt_response__bearer_ctxt_sgw_s11_ip_addr_and_teid_user_plane).
#[global] Instance gtp_ctxt_response__bearer_ctxt_elem : GtpElem gtp_ctxt_response__bearer_ctxt_ie_t :=
  {| el_header := gtp_ctxt_response__bearer_ctxt_header; el_encode := encode_gtp_ctxt_response__bearer_ctxt_ie; el_decode := decode_gtp_ctxt_response__bearer_ctxt_ie;
     el_zero := zero_gtp_ctxt_response__bearer_ctxt; el_unit := 8; el_short := true;
     el_layout v := layout_gie_header v.(gtp_ctxt_response__bearer_ctxt_header) ++ gtp_ctxt_response__bearer_ctxt_body v; el_good v := gtp_ctxt_response__bearer_ctxt_good v ∧ short_good v.(gtp_ctxt_response__bearer_ctxt_header) (gtp_ctxt_response__bearer_ctxt_body v) |}.
Lemma gtp_ctxt_response__bearer_ctxt_places v : gtp_ctxt_response__bearer_ctxt_good v -> encodes (encode_gtp_ctxt_response__bearer_ctxt_ie v) (el_layout v) (size (el_layout v) / 8).
Proof.
  intros Hg; unfold gtp_ctxt_response__bearer_ctxt_good in Hg; destruct_and! Hg. apply encodes_gtp_group. unfold gtp_ctxt_response__bearer_ctxt_body.
  place_members ltac:(gtp_member).
Qed.
Lemma gtp_ctxt_response__bearer_ctxt_items v : gtp_ctxt_response__bearer_ctxt_good v ->
  decodes (decode_gtp_ctxt_response__bearer_ctxt_ie zero_gtp_ctxt_response__bearer_ctxt) (el_layout v) (returned true (size (el_layout v) / 8)) v.
Proof.
  intros Hg; unfold gtp_ctxt_response__bearer_ctxt_good in Hg; destruct_and! Hg. apply decodes_gtp_group; [reflexivity|assumption|]. unfold gtp_ctxt_response__bearer_ctxt_body.
  read_rest v.
Qed.
#[global] Instance gtp_ctxt_response__bearer_ctxt_elem_ok : GtpElemOk gtp_ctxt_response__bearer_ctxt_ie_t.
Proof. split; [intros v [Hg _]; by apply gtp_ctxt_response__bearer_ctxt_places|intros v [Hg _]; by apply gtp_ctxt_response__bearer_ctxt_items|by intros v [_ Hz]|intros v [(Hh & _) _]; exact (group_element _ _ Hh)]. Qed.

(** [gtp_ctxt_response__remote_ue_ctxt_connected_ie_t] *)
Definition gtp_ctxt_response__remote_ue_ctxt_connected_body (v : gtp_ctxt_response__remote_ue_ctxt_connected_ie_t) : layout :=
  opt_layout v.(gtp_ctxt_response__remote_ue_ctxt_connected_remote_user_id) ++
  opt_layout v.(gtp_ctxt_response__remote_ue_ctxt_connected_rmt_ue_ip_info) ++
  [].
Definition gtp_ctxt_response__remote_ue_ctxt_connected_good (v : gtp_ctxt_response__remote_ue_ctxt_connected_ie_t) : Prop :=
  group_good v.(gtp_ctxt_response__remote_ue_ctxt_connected_header) (gtp_ctxt_response__remote_ue_ctxt_connected_body v) ∧
  opt_good (GTP_IE_REMOTE_USER_ID, GTP_IE_INSTANCE_ZERO) v.(gtp_ctxt_response__remote_ue_ctxt_connected_remote_user_id) ∧
  opt_good (GTP_IE_RMT_UE_IP_INFO, GTP_IE_INSTANCE_ZERO) v.(gtp_ctxt_response__remote_ue_ctxt_connected_rmt_ue_ip_info).
#[global] Instance gtp_ctxt_response__remote_ue_ctxt_connected_elem : GtpElem gtp_ctxt_response__remote_ue_ctxt_connected_ie_t :=
  {| el_header := gtp_ctxt_response__remote_ue_ctxt_connected_header; el_encode := encode_gtp_ctxt_response__remote_ue_ctxt_connected_ie; el_decode := decode_gtp_ctxt_response__remote_ue_ctxt_connected_ie;
     el_zero := zero_gtp_ctxt_response__remote_ue_ctxt_connected; el_unit := 8; el_short := true;
     el_layout v := layout_gie_header v.(gtp_ctxt_response__remote_ue_ctxt_connected_header) ++ gtp_ctxt_response__remote_ue_ctxt_connected_body v; el_good v := gtp_ctxt_response__remote_ue_ctxt_connected_good v ∧ short_good v.(gtp_ctxt_response__remote_ue_ctxt_connected_header) (gtp_ctxt_response__remote_ue_ctxt_connected_body v) |}.
Lemma gtp_ctxt_response__remote_ue_ctxt_connected_places v : gtp_ctxt_response__remote_ue_ctxt_connected_good v -> encodes (encode_gtp_ctxt_response__remote_ue_ctxt_connected_ie v) (el_layout v) (size (el_layout v) / 8).
Proof.
  intros Hg; unfold gtp_ctxt_response__remote_ue_ctxt_connected_good in Hg; destruct_and! Hg. apply encodes_gtp_group. unfold gtp_ctxt_response__remote_ue_ctxt_connected_body.
  place_members ltac:(gtp_member).
Qed.
Lemma gtp_ctxt_response__remote_ue_ctxt_connected_items v : gtp_ctxt_response__remote_ue_ctxt_connected_good v ->
  decodes (decode_gtp_ctxt_response__remote_ue_ctxt_connected_ie zero_gtp_ctxt_response__remote_ue_ctxt_connected) (el_layout v) (returned true (size (el_layout v) / 8)) v.
Proof.
  intros Hg; unfold gtp_ctxt_response__remote_ue_ctxt_connected_good in Hg; destruct_and! Hg. apply decodes_gtp_group; [reflexivity|assumption|]. unfold gtp_ctxt_response__remote_ue_ctxt_connected_body.
  read_rest v.
Qed.
#[global] Instance gtp_ctxt_response__remote_ue_ctxt_connected_elem_ok : GtpElemOk gtp_ctxt_response__remote_ue_ctxt_connected_ie_t.
Proof. split; [intros v [Hg _]; by apply gtp_ctxt_response__remote_ue_ctxt_connected_places|intros v [Hg _]; by apply gtp_ctxt_response__remote_ue_ctxt_connected_items|by intros v [_ Hz]|intros v [(Hh & _) _]; exact (group_element _ _ Hh)]. Qed.

(** [gtp_ctxt_response__mmesgsn_ue_scef_pdn_connections_ie_t] *)
Definition gtp_ctxt_response__mmesgsn_ue_scef_pdn_connections_body (v : gtp_ctxt_response__mmesgsn_ue_scef_pdn_connections_ie_t) : layout :=
  opt_layout v.(gtp_ctxt_response__mmesgsn_ue_scef_pdn_connections_apn) ++
  opt_layout v.(gtp_ctxt_response__mmesgsn_ue_scef_pdn_connections_dflt_eps_bearer_id) ++
  opt_layout v.(gtp_ctxt_response__mmesgsn_ue_scef_pdn_connections_scef_id) ++
  [].
Definition gtp_ctxt_response__mmesgsn_ue_scef_pdn_connections_good (v : gtp_ctxt_response__mmesgsn_ue_scef_pdn_connections_ie_t) : Prop :=
  group_good v.(gtp_ctxt_response__mmesgsn_ue_scef_pdn_connections_header) (gtp_ctxt_response__mmesgsn_ue_scef_pdn_connections_body v) ∧
  opt_good (GTP_IE_ACC_PT_NAME, GTP_IE_INSTANCE_ZERO) v.(gtp_ctxt_response__mmesgsn_ue_scef_pdn_connections_apn) ∧
  opt_good (GTP_IE_EPS_BEARER_ID, GTP_IE_INSTANCE_ZERO) v.(gtp_ctxt_response__mmesgsn_ue_scef_pdn_connections_dflt_eps_bearer_id) ∧
  opt_good (GTP_IE_NODE_IDENTIFIER, GTP_IE_INSTANCE_ZERO) v.(gtp_ctxt_response__mmesgsn_ue_scef_pdn_connections_scef_id).
#[global] Instance gtp_ctxt_response__mmesgsn_ue_scef_pdn_connections_elem : GtpElem gtp_ctxt_response__mmesgsn_ue_scef_pdn_connections_ie_t :=
  {| el_header := gtp_ctxt_response__mmesgsn_ue_scef_pdn_connections_header; el_encode := encode_gtp_ctxt_response__mmesgsn_ue_scef_pdn_connections_ie; el_decode := decode_gtp_ctxt_response__mmesgsn_ue_scef_pdn_connections_ie;
     el_zero := zero_gtp_ctxt_response__mmesgsn_ue_scef_pdn_connections; el_unit := 8; el_short := true;
     el_layout v := layout_gie_header v.(gtp_ctxt_response__mmesgsn_ue_scef_pdn_connections_header) ++ gtp_ctxt_response__mmesgsn_ue_scef_pdn_connections_body v; el_good v := gtp_ctxt_response__mmesgsn_ue_scef_pdn_connections_good v ∧ short_good v.(gtp_ctxt_response__mmesgsn_ue_scef_pdn_connections_header) (gtp_ctxt_response__mmesgsn_ue_scef_pdn_connections_body v) |}.
Lemma gtp_ctxt_response__mmesgsn_ue_scef_pdn_connections_places v : gtp_ctxt_response__mmesgsn_ue_scef_pdn_connections_good v -> encodes (encode_gtp_ctxt_response__mmesgsn_ue_scef_pdn_connections_ie v) (el_layout v) (size (el_layout v) / 8).
Proof.
  intros Hg; unfold gtp_ctxt_response__mmesgsn_ue_scef_pdn_connections_good in Hg; destruct_and! Hg. apply encodes_gtp_group. unfold gtp_ctxt_response__mmesgsn_ue_scef_pdn_connections_body.
  place_members ltac:(gtp_member).
Qed.
Lemma gtp_ctxt_response__mmesgsn_ue_scef_pdn_connections_items v : gtp_ctxt_response__mmesgsn_ue_scef_pdn_connections_good v ->
  decodes (decode_gtp_ctxt_response__mmesgsn_ue_scef_pdn_connections_ie zero_gtp_ctxt_response__mmesgsn_ue_scef_pdn_connections) (el_layout v) (returned true (size (el_layout v) / 8)) v.
Proof.
  intros Hg; unfold gtp_ctxt_response__mmesgsn_ue_scef_pdn_connections_good in Hg; destruct_and! Hg. apply decodes_gtp_group; [reflexivity|assumption|]. unfold gtp_ctxt_response__mmesgsn_ue_scef_pdn_connections_body.
  read_rest v.
Qed.
#[global] Instance gtp_ctxt_response__mmesgsn_ue_scef_pdn_connections_elem_ok : GtpElemOk gtp_ctxt_response__mmesgsn_ue_scef_pdn_connections_ie_t.
Proof. split; [intros v [Hg _]; by apply gtp_ctxt_response__mmesgsn_ue_scef_pdn_connections_places|intros v [Hg _]; by apply gtp_ctxt_response__mmesgsn_ue_scef_pdn_connections_items|by intros v [_ Hz]|intros v [(Hh & _) _]; exact (group_element _ _ Hh)]. Qed.

(** [gtp_ctxt_acknowledge__bearer_ctxt_ie_t] *)
Definition gtp_ctxt_acknowledge__bearer_ctxt_body (v : gtp_ctxt_acknowledge__bearer_ctxt_ie_t) : layout :=
  opt_layout v.(gtp_ctxt_acknowledge__bearer_ctxt_eps_bearer_id) ++
  opt_layout v.(gtp_ctxt_acknowledge__bearer_ctxt_fwdng_fteid) ++
  [].
Definition gtp_ctxt_acknowledge__bearer_ctxt_good (v : gtp_ctxt_acknowledge__bearer_ctxt_ie_t) : Prop :=
  group_good v.(gtp_ctxt_acknowledge__bearer_ctxt_header) (gtp_ctxt_acknowledge__bearer_ctxt_body v) ∧
  opt_good (GTP_IE_EPS_BEARER_ID, GTP_IE_INSTANCE_ZERO) v.(gtp_ctxt_acknowledge__bearer_ctxt_eps_bearer_id) ∧
  opt_good (GTP_IE_FULLY_QUAL_TUNN_ENDPT_IDNT, GTP_IE_INSTANCE_ZERO) v.(gtp_ctxt_acknowledge__bearer_ctxt_fwdng_fteid).
#[global] Instance gtp_ctxt_acknowledge__bearer_ctxt_elem : GtpElem gtp_ctxt_acknowledge__bearer_ctxt_ie_t :=
  {| el_header := gtp_ctxt_acknowledge__bearer_ctxt_header; el_encode := encode_gtp_ctxt_acknowledge__bearer_ctxt_ie; el_decode := decode_gtp_ctxt_acknowledge__bearer_ctxt_ie;
     el_zero := zero_gtp_ctxt_acknowledge__bearer_ctxt; el_unit := 8; el_short := true;
     el_layout v := layout_gie_header v.(gtp_ctxt_acknowledge__bearer_ctxt_header) ++ gtp_ctxt_acknowledge__bearer_ctxt_body v; el_good v := gtp_ctxt_acknowledge__bearer_ctxt_good v ∧ short_good v.(gtp_ctxt_acknowledge__bearer_ctxt_header) (gtp_ctxt_acknowledge__bearer_ctxt_body v) |}.
Lemma gtp_ctxt_acknowledge__bearer_ctxt_places v : gtp_ctxt_acknowledge__bearer_ctxt_good v -> encodes (encode_gtp_ctxt_acknowledge__bearer_ctxt_ie v) (el_layout v) (size (el_layout v) / 8).
Proof.
  intros Hg; unfold gtp_ctxt_acknowledge__bearer_ctxt_good in Hg; destruct_and! Hg. apply encodes_gtp_group. unfold gtp_ctxt_acknowledge__bearer_ctxt_body.
  place_members ltac:(gtp_member).
Qed.
Lemma gtp_ctxt_acknowledge__bearer_ctxt_items v : gtp_ctxt_acknowledge__bearer_ctxt_good v ->
  decodes (decode_gtp_ctxt_acknowledge__bearer_ctxt_ie zero_gtp_ctxt_acknowledge__bearer_ctxt) (el_layout v) (returned true (size (el_layout v) / 8)) v.
Proof.
  intros Hg; unfold gtp_ctxt_acknowledge__bearer_ctxt_good in Hg; destruct_and! Hg. apply decodes_gtp_group; [reflexivity|assumption|]. unfold gtp_ctxt_acknowledge__bearer_ctxt_body.
  read_rest v.
Qed.
#[global] Instance gtp_ctxt_acknowledge__bearer_ctxt_elem_ok : GtpElemOk gtp_ctxt_acknowledge__bearer_ctxt_ie_t.
Proof. split; [intros v [Hg _]; by apply gtp_ctxt_acknowledge__bearer_ctxt_places|intros v [Hg _]; by apply gtp_ctxt_acknowledge__bearer_ctxt_items|by intros v [_ Hz]|intros v [(Hh & _) _]; exact (group_element _ _ Hh)]. Qed.

(** [echo_request_t] *)
Definition echo_request_body (v : echo_request_t) : layout :=
  opt_layout v.(echo_request_recovery) ++
  opt_layout v.(echo_request_sending_node_feat) ++
  opt_layout v.(echo_request_priv_ext) ++
  [].
Definition echo_request_good (v : echo_request_t) : Prop :=
  gtp_message_good v.(echo_request_header) (echo_request_body v) ∧
  opt_good (GTP_IE_RECOVERY, GTP_IE_INSTANCE_ZERO) v.(echo_request_recovery) ∧
  opt_good (GTP_IE_NODE_FEATURES, GTP_IE_INSTANCE_ZERO) v.(echo_request_sending_node_feat) ∧
  opt_good (GTP_IE_PRIV_EXT, GTP_IE_INSTANCE_ZERO) v.(echo_request_priv_ext).
Definition echo_request_layout (v : echo_request_t) : layout := layout_gtpv2c_header v.(echo_request_header) ++ echo_request_body v.
Lemma echo_request_encodes v : echo_request_good v -> encodes (encode_echo_request v) (echo_request_layout v) (size (echo_request_layout v) / 8).
Proof.
  intros Hg; unfold echo_request_good in Hg; destruct_and! Hg.
  apply (encodes_enc_bits 8); [by right|]. apply places_gtp_header. unfold echo_request_body.
  place_members ltac:(gtp_member).
Qed.
Lemma echo_request_decodes v : echo_request_good v ->
  decodes (decode_echo_request zero_echo_request) (echo_request_layout v) (size (echo_request_body v) / 8) v.
Proof.
  intros Hg; unfold echo_request_good in Hg; destruct_and! Hg. apply decodes_gtp_message; [reflexivity|assumption|]. unfold echo_request_body.
  read_rest v.
Qed.

(** [echo_response_t] *)
Definition echo_response_body (v : echo_response_t) : layout :=
  opt_layout v.(echo_response_recovery) ++
  opt_layout v.(echo_response_sending_node_feat) ++
  opt_layout v.(echo_response_priv_ext) ++
  [].
Definition echo_response_good (v : echo_response_t) : Prop :=
  gtp_message_good v.(echo_response_header) (echo_response_body v) ∧
  opt_good (GTP_IE_RECOVERY, GTP_IE_INSTANCE_ZERO) v.(echo_response_recovery) ∧
  opt_good (GTP_IE_NODE_FEATURES, GTP_IE_INSTANCE_ZERO) v.(echo_response_sending_node_feat) ∧
  opt_good (GTP_IE_PRIV_EXT, GTP_IE_INSTANCE_ZERO) v.(echo_response_priv_ext).
Definition echo_response_layout (v : echo_response_t) : layout := layout_gtpv2c_header v.(echo_response_header) ++ echo_response_body v.
Lemma echo_response_encodes v : echo_response_good v -> encodes (encode_echo_response v) (echo_response_layout v) (size (echo_response_layout v) / 8).
Proof.
  intros Hg; unfold echo_response_good in Hg; destruct_and! Hg.
  apply (encodes_enc_bits 8); [by right|]. apply places_gtp_header. unfold echo_response_body.
  place_members ltac:(gtp_member).
Qed.
Lemma echo_response_decodes v : echo_response_good v ->
  decodes (decode_echo_response zero_echo_response) (echo_response_layout v) (size (echo_response_body v) / 8) v.
Proof.
  intros Hg; unfold echo_response_good in Hg; destruct_and! Hg. apply decodes_gtp_message; [reflexivity|assumption|]. unfold echo_response_body.
  read_rest v.
Qed.

(** [create_sess_req_t] *)
Definition create_sess_req_body (v : create_sess_req_t) : layout :=
  opt_layout v.(create_sess_req_imsi) ++
  opt_layout v.(create_sess_req_msisdn) ++
  opt_layout v.(create_sess_req_mei) ++
  opt_layout v.(create_sess_req_uli) ++
  opt_layout v.(create_sess_req_serving_network) ++
  opt_layout v.(create_sess_req_rat_type) ++
  opt_layout v.(create_sess_req_sender_fteid_ctl_plane) ++
  opt_layout v.(create_sess_req_pgw_s5s8_addr_ctl_plane_or_pmip) ++
  opt_layout v.(create_sess_req_apn) ++
  opt_layout v.(create_sess_req_selection_mode) ++
  opt_layout v.(create_sess_req_pdn_type) ++
  opt_layout v.(create_sess_req_paa) ++
  opt_layout v.(create_sess_req_max_apn_rstrct) ++
  opt_layout v.(create_sess_req_apn_ambr) ++
  opt_layout v.(create_sess_req_linked_eps_bearer_id) ++
  opt_layout v.(create_sess_req_bearer_contexts_to_be_created) ++
  opt_layout v.(create_sess_req_bearer_contexts_to_be_removed) ++
  opt_layout v.(create_sess_req_recovery) ++
  opt_layout v.(create_sess_req_mme_fqcsid) ++
  opt_layout v.(create_sess_req_sgw_fqcsid) ++
  opt_layout v.(create_sess_req_epdg_fqcsid) ++
  opt_layout v.(create_sess_req_twan_fqcsid) ++
  opt_layout v.(create_sess_req_ue_time_zone) ++
  opt_layout v.(create_sess_req_chrgng_char) ++
  opt_layout v.(create_sess_req_mmes4_sgsn_ldn) ++
  opt_layout v.(create_sess_req_sgw_ldn) ++
  opt_layout v.(create_sess_req_epdg_ldn) ++
  opt_layout v.(create_sess_req_twan_ldn) ++
  opt_layout v.(create_sess_req_sgnllng_priority_indctn) ++
  opt_layout v.(create_sess_req_ue_udp_port) ++
  opt_layout v.(create_sess_req_apco) ++
  opt_layout v.(create_sess_req_henb_udp_port) ++
  opt_layout v.(create_sess_req_cn_oper_sel_entity) ++
  opt_layout v.(create_sess_req_mmes4_sgsns_ovrld_ctl_info) ++
  opt_layout v.(create_sess_req_sgws_ovrld_ctl_info) ++
  opt_layout v.(create_sess_req_twanepdgs_ovrld_ctl_info) ++
  opt_layout v.(create_sess_req_origination_time_stmp) ++
  opt_layout v.(create_sess_req_max_wait_time) ++
  opt_layout v.(create_sess_req_wlan_loc_ts) ++
  opt_layout v.(create_sess_req_nbifom_cntnr) ++
  opt_layout v.(create_sess_req_threegpp_aaa_server_idnt) ++
  opt_layout v.(create_sess_req_epco) ++
  opt_layout v.(create_sess_req_srvng_plmn_rate_ctl) ++
  opt_layout v.(create_sess_req_mo_exception_data_cntr) ++
  opt_layout v.(create_sess_req_ue_tcp_port) ++
  opt_layout v.(create_sess_req_mapped_ue_usage_type) ++
  opt_layout v.(create_sess_req_user_loc_info_sgw) ++
  opt_layout v.(create_sess_req_sgw_u_node_name) ++
  opt_layout v.(create_sess_req_secdry_rat_usage_data_rpt) ++
  opt_layout v.(create_sess_req_up_func_sel_indctn_flgs) ++
  opt_layout v.(create_sess_req_priv_ext) ++
  [].
Definition create_sess_req_good (v : create_sess_req_t) : Prop :=
  gtp_message_good v.(create_sess_req_header) (create_sess_req_body v) ∧
  opt_good (GTP_IE_IMSI, GTP_IE_INSTANCE_ZERO) v.(create_sess_req_imsi) ∧
  opt_good (GTP_IE_MSISDN, GTP_IE_INSTANCE_ZERO) v.(create_sess_req_msisdn) ∧
  opt_good (GTP_IE_MBL_EQUIP_IDNTY, GTP_IE_INSTANCE_ZERO) v.(create_sess_req_mei) ∧
  opt_good (GTP_IE_USER_LOC_INFO, GTP_IE_INSTANCE_ZERO) v.(create_sess_req_uli) ∧
  opt_good (GTP_IE_SERVING_NETWORK, GTP_IE_INSTANCE_ZERO) v.(create_sess_req_serving_network) ∧
  opt_good (GTP_IE_RAT_TYPE, GTP_IE_INSTANCE_ZERO) v.(create_sess_req_rat_type) ∧
  opt_good (GTP_IE_FULLY_QUAL_TUNN_ENDPT_IDNT, GTP_IE_INSTANCE_ZERO) v.(create_sess_req_sender_fteid_ctl_plane) ∧
  opt_good (GTP_IE_FULLY_QUAL_TUNN_ENDPT_IDNT, GTP_IE_INSTANCE_ONE) v.(create_sess_req_pgw_s5s8_addr_ctl_plane_or_pmip) ∧
  opt_good (GTP_IE_ACC_PT_NAME, GTP_IE_INSTANCE_ZERO) v.(create_sess_req_apn) ∧
  opt_good (GTP_IE_SELECTION_MODE, GTP_IE_INSTANCE_ZERO) v.(create_sess_req_selection_mode) ∧
  opt_good (GTP_IE_PDN_TYPE, GTP_IE_INSTANCE_ZERO) v.(create_sess_req_pdn_type) ∧
  opt_good (GTP_IE_PDN_ADDR_ALLOC, GTP_IE_INSTANCE_ZERO) v.(create_sess_req_paa) ∧
  opt_good (GTP_IE_APN_RESTRICTION, GTP_IE_INSTANCE_ZERO) v.(create_sess_req_max_apn_rstrct) ∧
  opt_good (GTP_IE_AGG_MAX_BIT_RATE, GTP_IE_INSTANCE_ZERO) v.(create_sess_req_apn_ambr) ∧
  opt_good (GTP_IE_EPS_BEARER_ID, GTP_IE_INSTANCE_ZERO) v.(create_sess_req_linked_eps_bearer_id) ∧
  opt_good (GTP_IE_CREATE_SESS_REQUEST_BEARER_CTXT_TO_BE_CREATED, GTP_IE_INSTANCE_ZERO) v.(create_sess_req_bearer_contexts_to_be_created) ∧
  opt_good (GTP_IE_CREATE_SESS_REQUEST_BEARER_CTXT_TO_BE_REMOVED, GTP_IE_INSTANCE_ONE) v.(create_sess_req_bearer_contexts_to_be_removed) ∧
  opt_good (GTP_IE_RECOVERY, GTP_IE_INSTANCE_ZERO) v.(create_sess_req_recovery) ∧
  opt_good (GTP_IE_FQCSID, GTP_IE_INSTANCE_ZERO) v.(create_sess_req_mme_fqcsid) ∧
  opt_good (GTP_IE_FQCSID, GTP_IE_INSTANCE_ONE) v.(create_sess_req_sgw_fqcsid) ∧
  opt_good (GTP_IE_FQCSID, GTP_IE_INSTANCE_TWO) v.(create_sess_req_epdg_fqcsid) ∧
  opt_good (GTP_IE_FQCSID, GTP_IE_INSTANCE_THREE) v.(create_sess_req_twan_fqcsid) ∧
  opt_good (GTP_IE_UE_TIME_ZONE, GTP_IE_INSTANCE_ZERO) v.(create_sess_req_ue_time_zone) ∧
  opt_good (GTP_IE_CHRGNG_CHAR, GTP_IE_INSTANCE_ZERO) v.(create_sess_req_chrgng_char) ∧
  opt_good (GTP_IE_LOCAL_DISTGSD_NAME, GTP_IE_INSTANCE_ZERO) v.(create_sess_req_mmes4_sgsn_ldn) ∧
  opt_good (GTP_IE_LOCAL_DISTGSD_NAME, GTP_IE_INSTANCE_ONE) v.(create_sess_req_sgw_ldn) ∧
  opt_good (GTP_IE_LOCAL_DISTGSD_NAME, GTP_IE_INSTANCE_TWO) v.(create_sess_req_epdg_ldn) ∧
  opt_good (GTP_IE_LOCAL_DISTGSD_NAME, GTP_IE_INSTANCE_THREE) v.(create_sess_req_twan_ldn) ∧
  opt_good (GTP_IE_SGNLLNG_PRIORITY_INDCTN, GTP_IE_INSTANCE_ZERO) v.(create_sess_req_sgnllng_priority_indctn) ∧
  opt_good (GTP_IE_PORT_NUMBER, GTP_IE_INSTANCE_ZERO) v.(create_sess_req_ue_udp_port) ∧
  opt_good (GTP_IE_ADDTL_PROT_CFG_OPTS, GTP_IE_INSTANCE_ZERO) v.(create_sess_req_apco) ∧
  opt_good (GTP_IE_PORT_NUMBER, GTP_IE_INSTANCE_ONE) v.(create_sess_req_henb_udp_port) ∧
  opt_good (GTP_IE_CN_OPER_SEL_ENTITY, GTP_IE_INSTANCE_ZERO) v.(create_sess_req_cn_oper_sel_entity) ∧
  opt_good (GTP_IE_OVRLD_CTL_INFO, GTP_IE_INSTANCE_ZERO) v.(create_sess_req_mmes4_sgsns_ovrld_ctl_info) ∧
  opt_good (GTP_IE_OVRLD_CTL_INFO, GTP_IE_INSTANCE_ONE) v.(create_sess_req_sgws_ovrld_ctl_info) ∧
  opt_good (GTP_IE_OVRLD_CTL_INFO, GTP_IE_INSTANCE_TWO) v.(create_sess_req_twanepdgs_ovrld_ctl_info) ∧
  opt_good (GTP_IE_MSEC_TIME_STMP, GTP_IE_INSTANCE_ZERO) v.(create_sess_req_origination_time_stmp) ∧
  opt_good (GTP_IE_INTEGER_NUMBER, GTP_IE_INSTANCE_ZERO) v.(create_sess_req_max_wait_time) ∧
  opt_good (GTP_IE_TWAN_IDNT_TS, GTP_IE_INSTANCE_ZERO) v.(create_sess_req_wlan_loc_ts) ∧
  opt_good (GTP_IE_FULL_QUAL_CNTNR, GTP_IE_INSTANCE_ZERO) v.(create_sess_req_nbifom_cntnr) ∧
  opt_good (GTP_IE_NODE_IDENTIFIER, GTP_IE_INSTANCE_ZERO) v.(create_sess_req_threegpp_aaa_server_idnt) ∧
  opt_good (GTP_IE_EXTNDED_PROT_CFG_OPTS, GTP_IE_INSTANCE_ZERO) v.(create_sess_req_epco) ∧
  opt_good (GTP_IE_SRVNG_PLMN_RATE_CTL, GTP_IE_INSTANCE_ZERO) v.(create_sess_req_srvng_plmn_rate_ctl) ∧
  opt_good (GTP_IE_COUNTER, GTP_IE_INSTANCE_ZERO) v.(create_sess_req_mo_exception_data_cntr) ∧
  opt_good (GTP_IE_PORT_NUMBER, GTP_IE_INSTANCE_TWO) v.(create_sess_req_ue_tcp_port) ∧
  opt_good (GTP_IE_MAPPED_UE_USAGE_TYPE, GTP_IE_INSTANCE_ZERO) v.(create_sess_req_mapped_ue_usage_type) ∧
  opt_good (GTP_IE_USER_LOC_INFO, GTP_IE_INSTANCE_ONE) v.(create_sess_req_user_loc_info_sgw) ∧
  opt_good (GTP_IE_FULLY_QUAL_DOMAIN_NAME, GTP_IE_INSTANCE_ZERO) v.(create_sess_req_sgw_u_node_name) ∧
  opt_good (GTP_IE_SECDRY_RAT_USAGE_DATA_RPT, GTP_IE_INSTANCE_ZERO) v.(create_sess_req_secdry_rat_usage_data_rpt) ∧
  opt_good (GTP_IE_UP_FUNC_SEL_INDCTN_FLGS, GTP_IE_INSTANCE_ZERO) v.(create_sess_req_up_func_sel_indctn_flgs) ∧
  opt_good (GTP_IE_PRIV_EXT, GTP_IE_INSTANCE_ZERO) v.(create_sess_req_priv_ext) ∧
  v.(create_sess_req_indctn_flgs) = zero_gtp_indication ∧
  v.(create_sess_req_trstd_wlan_mode_indctn) = zero_gtp_trstd_wlan_mode_indctn ∧
  v.(create_sess_req_pco) = zero_gtp_prot_cfg_opts ∧
  v.(create_sess_req_trc_info) = zero_gtp_trc_info ∧
  v.(create_sess_req_uci) = zero_gtp_user_csg_info ∧
  v.(create_sess_req_ue_local_ip_addr) = zero_gtp_ip_address ∧
  v.(create_sess_req_henb_local_ip_addr) = zero_gtp_ip_address ∧
  v.(create_sess_req_mmes4_sgsn_idnt) = zero_gtp_ip_address ∧
  v.(create_sess_req_twan_identifier) = zero_gtp_twan_identifier ∧
  v.(create_sess_req_epdg_ip_address) = zero_gtp_ip_address ∧
  v.(create_sess_req_pres_rptng_area_info) = zero_gtp_pres_rptng_area_info ∧
  v.(create_sess_req_wlan_loc_info) = zero_gtp_twan_identifier ∧
  v.(create_sess_req_rmt_ue_ctxt_connected) = zero_gtp_rmt_ue_ctxt ∧
  v.(create_sess_req_pco_new) = zero_pco_ie.
Definition create_sess_req_layout (v : create_sess_req_t) : layout := layout_gtpv2c_header v.(create_sess_req_header) ++ create_sess_req_body v.
Lemma create_sess_req_encodes v : create_sess_req_good v -> encodes (encode_create_sess_req v) (create_sess_req_layout v) (size (create_sess_req_layout v) / 8).
Proof.
  intros Hg; unfold create_sess_req_good in Hg; destruct_and! Hg.
  apply (encodes_enc_bits 8); [by right|]. apply places_gtp_header. unfold create_sess_req_body.
  place_members ltac:(gtp_member).
Qed.
Lemma create_sess_req_decodes v : create_sess_req_good v ->
  decodes (decode_create_sess_req zero_create_sess_req) (create_sess_req_layout v) (size (create_sess_req_body v) / 8) v.
Proof.
  intros Hg; unfold create_sess_req_good in Hg; destruct_and! Hg. apply decodes_gtp_message; [reflexivity|assumption|]. unfold create_sess_req_body.
  read_rest v.
Qed.

(** [create_sess_rsp_t] *)
Definition create_sess_rsp_body (v : create_sess_rsp_t) : layout :=
  opt_layout v.(create_sess_rsp_cause) ++
  opt_layout v.(create_sess_rsp_chg_rptng_act) ++
  opt_layout v.(create_sess_rsp_csg_info_rptng_act) ++
  opt_layout v.(create_sess_rsp_henb_info_rptng) ++
  opt_layout v.(create_sess_rsp_sender_fteid_ctl_plane) ++
  opt_layout v.(create_sess_rsp_pgw_s5s8_s2as2b_fteid_pmip_based_intfc_or_gtp_based_ctl_plane_intfc) ++
  opt_layout v.(create_sess_rsp_paa) ++
  opt_layout v.(create_sess_rsp_apn_restriction) ++
  opt_layout v.(create_sess_rsp_apn_ambr) ++
  opt_layout v.(create_sess_rsp_linked_eps_bearer_id) ++
  opt_layout v.(create_sess_rsp_bearer_contexts_created) ++
  opt_layout v.(create_sess_rsp_bearer_contexts_marked_removal) ++
  opt_layout v.(create_sess_rsp_recovery) ++
  opt_layout v.(create_sess_rsp_chrgng_gateway_name) ++
  opt_layout v.(create_sess_rsp_sgw_fqcsid) ++
  opt_layout v.(create_sess_rsp_pgw_fqcsid) ++
  opt_layout v.(create_sess_rsp_sgw_ldn) ++
  opt_layout v.(create_sess_rsp_pgw_ldn) ++
  opt_layout v.(create_sess_rsp_pgw_back_off_time) ++
  opt_layout v.(create_sess_rsp_apco) ++
  opt_layout v.(create_sess_rsp_trstd_wlan_ipv4_parms) ++
  opt_layout v.(create_sess_rsp_indctn_flgs) ++
  opt_layout v.(create_sess_rsp_pres_rptng_area_act) ++
  opt_layout v.(create_sess_rsp_pgws_node_lvl_load_ctl_info) ++
  opt_layout v.(create_sess_rsp_pgws_apn_lvl_load_ctl_info) ++
  opt_layout v.(create_sess_rsp_sgws_node_lvl_load_ctl_info) ++
  opt_layout v.(create_sess_rsp_pgws_ovrld_ctl_info) ++
  opt_layout v.(create_sess_rsp_sgws_ovrld_ctl_info) ++
  opt_layout v.(create_sess_rsp_nbifom_cntnr) ++
  opt_layout v.(create_sess_rsp_pdn_conn_chrgng_id) ++
  opt_layout v.(create_sess_rsp_epco) ++
  opt_layout v.(create_sess_rsp_priv_ext) ++
  [].
Definition create_sess_rsp_good (v : create_sess_rsp_t) : Prop :=
  gtp_message_good v.(create_sess_rsp_header) (create_sess_rsp_body v) ∧
  opt_good (GTP_IE_CAUSE, GTP_IE_INSTANCE_ZERO) v.(create_sess_rsp_cause) ∧
  opt_good (GTP_IE_CHG_RPTNG_ACT, GTP_IE_INSTANCE_ZERO) v.(create_sess_rsp_chg_rptng_act) ∧
  opt_good (GTP_IE_CSG_INFO_RPTNG_ACT, GTP_IE_INSTANCE_ZERO) v.(create_sess_rsp_csg_info_rptng_act) ∧
  opt_good (GTP_IE_HENB_INFO_RPTNG, GTP_IE_INSTANCE_ZERO) v.(create_sess_rsp_henb_info_rptng) ∧
  opt_good (GTP_IE_FULLY_QUAL_TUNN_ENDPT_IDNT, GTP_IE_INSTANCE_ZERO) v.(create_sess_rsp_sender_fteid_ctl_plane) ∧
  opt_good (GTP_IE_FULLY_QUAL_TUNN_ENDPT_IDNT, GTP_IE_INSTANCE_ONE) v.(create_sess_rsp_pgw_s5s8_s2as2b_fteid_pmip_based_intfc_or_gtp_based_ctl_plane_intfc) ∧
  opt_good (GTP_IE_PDN_ADDR_ALLOC, GTP_IE_INSTANCE_ZERO) v.(create_sess_rsp_paa) ∧
  opt_good (GTP_IE_APN_RESTRICTION, GTP_IE_INSTANCE_ZERO) v.(create_sess_rsp_apn_restriction) ∧
  opt_good (GTP_IE_AGG_MAX_BIT_RATE, GTP_IE_INSTANCE_ZERO) v.(create_sess_rsp_apn_ambr) ∧
  opt_good (GTP_IE_EPS_BEARER_ID, GTP_IE_INSTANCE_ZERO) v.(create_sess_rsp_linked_eps_bearer_id) ∧
  opt_good (GTP_IE_CREATE_SESS_RESPONSE_BEARER_CTXT_CREATED, GTP_IE_INSTANCE_ZERO) v.(create_sess_rsp_bearer_contexts_created) ∧
  opt_good (GTP_IE_CREATE_SESS_RESPONSE_BEARER_CTXT_MARKED_REMOVAL, GTP_IE_INSTANCE_ONE) v.(create_sess_rsp_bearer_contexts_marked_removal) ∧
  opt_good (GTP_IE_RECOVERY, GTP_IE_INSTANCE_ZERO) v.(create_sess_rsp_recovery) ∧
  opt_good (GTP_IE_FULLY_QUAL_DOMAIN_NAME, GTP_IE_INSTANCE_ZERO) v.(create_sess_rsp_chrgng_gateway_name) ∧
  opt_good (GTP_IE_FQCSID, GTP_IE_INSTANCE_ONE) v.(create_sess_rsp_sgw_fqcsid) ∧
  opt_good (GTP_IE_FQCSID, GTP_IE_INSTANCE_ZERO) v.(create_sess_rsp_pgw_fqcsid) ∧
  opt_good (GTP_IE_LOCAL_DISTGSD_NAME, GTP_IE_INSTANCE_ZERO) v.(create_sess_rsp_sgw_ldn) ∧
  opt_good (GTP_IE_LOCAL_DISTGSD_NAME, GTP_IE_INSTANCE_ONE) v.(create_sess_rsp_pgw_ldn) ∧
  opt_good (GTP_IE_EPC_TIMER, GTP_IE_INSTANCE_ZERO) v.(create_sess_rsp_pgw_back_off_time) ∧
  opt_good (GTP_IE_ADDTL_PROT_CFG_OPTS, GTP_IE_INSTANCE_ZERO) v.(create_sess_rsp_apco) ∧
  opt_good (GTP_IE_IPV4_CFG_PARMS, GTP_IE_INSTANCE_ZERO) v.(create_sess_rsp_trstd_wlan_ipv4_parms) ∧
  opt_good (GTP_IE_INDICATION, GTP_IE_INSTANCE_ZERO) v.(create_sess_rsp_indctn_flgs) ∧
  opt_good (GTP_IE_PRES_RPTNG_AREA_ACT, GTP_IE_INSTANCE_ZERO) v.(create_sess_rsp_pres_rptng_area_act) ∧
  opt_good (GTP_IE_LOAD_CTL_INFO, GTP_IE_INSTANCE_ZERO) v.(create_sess_rsp_pgws_node_lvl_load_ctl_info) ∧
  opt_good (GTP_IE_LOAD_CTL_INFO, GTP_IE_INSTANCE_ONE) v.(create_sess_rsp_pgws_apn_lvl_load_ctl_info) ∧
  opt_good (GTP_IE_LOAD_CTL_INFO, GTP_IE_INSTANCE_TWO) v.(create_sess_rsp_sgws_node_lvl_load_ctl_info) ∧
  opt_good (GTP_IE_OVRLD_CTL_INFO, GTP_IE_INSTANCE_ZERO) v.(create_sess_rsp_pgws_ovrld_ctl_info) ∧
  opt_good (GTP_IE_OVRLD_CTL_INFO, GTP_IE_INSTANCE_ONE) v.(create_sess_rsp_sgws_ovrld_ctl_info) ∧
  opt_good (GTP_IE_FULL_QUAL_CNTNR, GTP_IE_INSTANCE_ZERO) v.(create_sess_rsp_nbifom_cntnr) ∧
  opt_good (GTP_IE_CHARGING_ID, GTP_IE_INSTANCE_ZERO) v.(create_sess_rsp_pdn_conn_chrgng_id) ∧
  opt_good (GTP_IE_EXTNDED_PROT_CFG_OPTS, GTP_IE_INSTANCE_ZERO) v.(create_sess_rsp_epco) ∧
  opt_good (GTP_IE_PRIV_EXT, GTP_IE_INSTANCE_ZERO) v.(create_sess_rsp_priv_ext) ∧
  v.(create_sess_rsp_pco) = zero_gtp_prot_cfg_opts ∧
  v.(create_sess_rsp_chrgng_gateway_addr) = zero_gtp_ip_address ∧
  v.(create_sess_rsp_pco_new) = zero_pco_ie.
Definition create_sess_rsp_layout (v : create_sess_rsp_t) : layout := layout_gtpv2c_header v.(create_sess_rsp_header) ++ create_sess_rsp_body v.
Lemma create_sess_rsp_encodes v : create_sess_rsp_good v -> encodes (encode_create_sess_rsp v) (create_sess_rsp_layout v) (size (create_sess_rsp_layout v) / 8).
Proof.
  intros Hg; unfold create_sess_rsp_good in Hg; destruct_and! Hg.
  apply (encodes_enc_bits 8); [by right|]. apply places_gtp_header. unfold create_sess_rsp_body.
  place_members ltac:(gtp_member).
Qed.
Lemma create_sess_rsp_decodes v : create_sess_rsp_good v ->
  decodes (decode_create_sess_rsp zero_create_sess_rsp) (create_sess_rsp_layout v) (size (create_sess_rsp_body v) / 8) v.
Proof.
  intros Hg; unfold create_sess_rsp_good in Hg; destruct_and! Hg. apply decodes_gtp_message; [reflexivity|assumption|]. unfold create_sess_rsp_body.
  read_rest v.
Qed.

(** [create_bearer_req_t] *)
Definition create_bearer_req_body (v : create_bearer_req_t) : layout :=
  opt_layout v.(create_bearer_req_pti) ++
  opt_layout v.(create_bearer_req_lbi) ++
  opt_layout v.(create_bearer_req_pco) ++
  opt_layout v.(create_bearer_req_bearer_contexts) ++
  opt_layout v.(create_bearer_req_pgw_fqcsid) ++
  opt_layout v.(create_bearer_req_sgw_fqcsid) ++
  opt_layout v.(create_bearer_req_chg_rptng_act) ++
  opt_layout v.(create_bearer_req_csg_info_rptng_act) ++
  opt_layout v.(create_bearer_req_henb_info_rptng) ++
  opt_layout v.(create_bearer_req_pres_rptng_area_act) ++
  opt_layout v.(create_bearer_req_indctn_flgs) ++
  opt_layout v.(create_bearer_req_pgws_node_lvl_load_ctl_info) ++
  opt_layout v.(create_bearer_req_pgws_apn_lvl_load_ctl_info) ++
  opt_layout v.(create_bearer_req_sgws_node_lvl_load_ctl_info) ++
  opt_layout v.(create_bearer_req_pgws_ovrld_ctl_info) ++
  opt_layout v.(create_bearer_req_sgws_ovrld_ctl_info) ++
  opt_layout v.(create_bearer_req_nbifom_cntnr) ++
  opt_layout v.(create_bearer_req_priv_ext) ++
  [].
Definition create_bearer_req_good (v : create_bearer_req_t) : Prop :=
  gtp_message_good v.(create_bearer_req_header) (create_bearer_req_body v) ∧
  opt_good (GTP_IE_PROC_TRANS_ID, GTP_IE_INSTANCE_ZERO) v.(create_bearer_req_pti) ∧
  opt_good (GTP_IE_EPS_BEARER_ID, GTP_IE_INSTANCE_ZERO) v.(create_bearer_req_lbi) ∧
  opt_good (GTP_IE_PROT_CFG_OPTS, GTP_IE_INSTANCE_ZERO) v.(create_bearer_req_pco) ∧
  opt_good (GTP_IE_BEARER_CONTEXT, GTP_IE_INSTANCE_ZERO) v.(create_bearer_req_bearer_contexts) ∧
  opt_good (GTP_IE_FQCSID, GTP_IE_INSTANCE_ZERO) v.(create_bearer_req_pgw_fqcsid) ∧
  opt_good (GTP_IE_FQCSID, GTP_IE_INSTANCE_ONE) v.(create_bearer_req_sgw_fqcsid) ∧
  opt_good (GTP_IE_CHG_RPTNG_ACT, GTP_IE_INSTANCE_ZERO) v.(create_bearer_req_chg_rptng_act) ∧
  opt_good (GTP_IE_CSG_INFO_RPTNG_ACT, GTP_IE_INSTANCE_ZERO) v.(create_bearer_req_csg_info_rptng_act) ∧
  opt_good (GTP_IE_HENB_INFO_RPTNG, GTP_IE_INSTANCE_ZERO) v.(create_bearer_req_henb_info_rptng) ∧
  opt_good (GTP_IE_PRES_RPTNG_AREA_ACT, GTP_IE_INSTANCE_ZERO) v.(create_bearer_req_pres_rptng_area_act) ∧
  opt_good (GTP_IE_INDICATION, GTP_IE_INSTANCE_ZERO) v.(create_bearer_req_indctn_flgs) ∧
  opt_good (GTP_IE_LOAD_CTL_INFO, GTP_IE_INSTANCE_ZERO) v.(create_bearer_req_pgws_node_lvl_load_ctl_info) ∧
  opt_good (GTP_IE_LOAD_CTL_INFO, GTP_IE_INSTANCE_ONE) v.(create_bearer_req_pgws_apn_lvl_load_ctl_info) ∧
  opt_good (GTP_IE_LOAD_CTL_INFO, GTP_IE_INSTANCE_TWO) v.(create_bearer_req_sgws_node_lvl_load_ctl_info) ∧
  opt_good (GTP_IE_OVRLD_CTL_INFO, GTP_IE_INSTANCE_ZERO) v.(create_bearer_req_pgws_ovrld_ctl_info) ∧
  opt_good (GTP_IE_OVRLD_CTL_INFO, GTP_IE_INSTANCE_ONE) v.(create_bearer_req_sgws_ovrld_ctl_info) ∧
  opt_good (GTP_IE_FULL_QUAL_CNTNR, GTP_IE_INSTANCE_ZERO) v.(create_bearer_req_nbifom_cntnr) ∧
  opt_good (GTP_IE_PRIV_EXT, GTP_IE_INSTANCE_ZERO) v.(create_bearer_req_priv_ext).
Definition create_bearer_req_layout (v : create_bearer_req_t) : layout := layout_gtpv2c_header v.(create_bearer_req_header) ++ create_bearer_req_body v.
Lemma create_bearer_req_encodes v : create_bearer_req_good v -> encodes (encode_create_bearer_req v) (create_bearer_req_layout v) (size (create_bearer_req_layout v) / 8).
Proof.
  intros Hg; unfold create_bearer_req_good in Hg; destruct_and! Hg.
  apply (encodes_enc_bits 8); [by right|]. apply places_gtp_header. unfold create_bearer_req_body.
  place_members ltac:(gtp_member).
Qed.
Lemma create_bearer_req_decodes v : create_bearer_req_good v ->
  decodes (decode_create_bearer_req zero_create_bearer_req) (create_bearer_req_layout v) (size (create_bearer_req_body v) / 8) v.
Proof.
  intros Hg; unfold create_bearer_req_good in Hg; destruct_and! Hg. apply decodes_gtp_message; [reflexivity|assumption|]. unfold create_bearer_req_body.
  read_rest v.
Qed.

(** [create_bearer_rsp_t] *)
Definition create_bearer_rsp_body (v : create_bearer_rsp_t) : layout :=
  opt_layout v.(create_bearer_rsp_cause) ++
  opt_layout v.(create_bearer_rsp_bearer_contexts) ++
  opt_layout v.(create_bearer_rsp_recovery) ++
  opt_layout v.(create_bearer_rsp_mme_fqcsid) ++
  opt_layout v.(create_bearer_rsp_sgw_fqcsid) ++
  opt_layout v.(create_bearer_rsp_epdg_fqcsid) ++
  opt_layout v.(create_bearer_rsp_twan_fqcsid) ++
  opt_layout v.(create_bearer_rsp_pco) ++
  opt_layout v.(create_bearer_rsp_ue_time_zone) ++
  opt_layout v.(create_bearer_rsp_uli) ++
  opt_layout v.(create_bearer_rsp_mmes4_sgsns_ovrld_ctl_info) ++
  opt_layout v.(create_bearer_rsp_sgws_ovrld_ctl_info) ++
  opt_layout v.(create_bearer_rsp_twanepdgs_ovrld_ctl_info) ++
  opt_layout v.(create_bearer_rsp_wlan_loc_ts) ++
  opt_layout v.(create_bearer_rsp_ue_udp_port) ++
  opt_layout v.(create_bearer_rsp_nbifom_cntnr) ++
  opt_layout v.(create_bearer_rsp_ue_tcp_port) ++
  opt_layout v.(create_bearer_rsp_priv_ext) ++
  [].
Definition create_bearer_rsp_good (v : create_bearer_rsp_t) : Prop :=
  gtp_message_good v.(create_bearer_rsp_header) (create_bearer_rsp_body v) ∧
  opt_good (GTP_IE_CAUSE, GTP_IE_INSTANCE_ZERO) v.(create_bearer_rsp_cause) ∧
  opt_good (GTP_IE_BEARER_CONTEXT, GTP_IE_INSTANCE_ZERO) v.(create_bearer_rsp_bearer_contexts) ∧
  opt_good (GTP_IE_RECOVERY, GTP_IE_INSTANCE_ZERO) v.(create_bearer_rsp_recovery) ∧
  opt_good (GTP_IE_FQCSID, GTP_IE_INSTANCE_ZERO) v.(create_bearer_rsp_mme_fqcsid) ∧
  opt_good (GTP_IE_FQCSID, GTP_IE_INSTANCE_ONE) v.(create_bearer_rsp_sgw_fqcsid) ∧
  opt_good (GTP_IE_FQCSID, GTP_IE_INSTANCE_TWO) v.(create_bearer_rsp_epdg_fqcsid) ∧
  opt_good (GTP_IE_FQCSID, GTP_IE_INSTANCE_THREE) v.(create_bearer_rsp_twan_fqcsid) ∧
  opt_good (GTP_IE_PROT_CFG_OPTS, GTP_IE_INSTANCE_ZERO) v.(create_bearer_rsp_pco) ∧
  opt_good (GTP_IE_UE_TIME_ZONE, GTP_IE_INSTANCE_ZERO) v.(create_bearer_rsp_ue_time_zone) ∧
  opt_good (GTP_IE_USER_LOC_INFO, GTP_IE_INSTANCE_ZERO) v.(create_bearer_rsp_uli) ∧
  opt_good (GTP_IE_OVRLD_CTL_INFO, GTP_IE_INSTANCE_ZERO) v.(create_bearer_rsp_mmes4_sgsns_ovrld_ctl_info) ∧
  opt_good (GTP_IE_OVRLD_CTL_INFO, GTP_IE_INSTANCE_ONE) v.(create_bearer_rsp_sgws_ovrld_ctl_info) ∧
  opt_good (GTP_IE_OVRLD_CTL_INFO, GTP_IE_INSTANCE_TWO) v.(create_bearer_rsp_twanepdgs_ovrld_ctl_info) ∧
  opt_good (GTP_IE_TWAN_IDNT_TS, GTP_IE_INSTANCE_ONE) v.(create_bearer_rsp_wlan_loc_ts) ∧
  opt_good (GTP_IE_PORT_NUMBER, GTP_IE_INSTANCE_ZERO) v.(create_bearer_rsp_ue_udp_port) ∧
  opt_good (GTP_IE_FULL_QUAL_CNTNR, GTP_IE_INSTANCE_ZERO) v.(create_bearer_rsp_nbifom_cntnr) ∧
  opt_good (GTP_IE_PORT_NUMBER, GTP_IE_INSTANCE_ONE) v.(create_bearer_rsp_ue_tcp_port) ∧
  opt_good (GTP_IE_PRIV_EXT, GTP_IE_INSTANCE_ZERO) v.(create_bearer_rsp_priv_ext) ∧
  v.(create_bearer_rsp_twan_identifier) = zero_gtp_twan_identifier ∧
  v.(create_bearer_rsp_pres_rptng_area_info) = zero_gtp_pres_rptng_area_info ∧
  v.(create_bearer_rsp_mmes4_sgsn_idnt) = zero_gtp_ip_address ∧
  v.(create_bearer_rsp_wlan_loc_info) = zero_gtp_twan_identifier ∧
  v.(create_bearer_rsp_ue_local_ip_addr) = zero_gtp_ip_address.
Definition create_bearer_rsp_layout (v : create_bearer_rsp_t) : layout := layout_gtpv2c_header v.(create_bearer_rsp_header) ++ create_bearer_rsp_body v.
Lemma create_bearer_rsp_encodes v : create_bearer_rsp_good v -> encodes (encode_create_bearer_rsp v) (create_bearer_rsp_layout v) (size (create_bearer_rsp_layout v) / 8).
Proof.
  intros Hg; unfold create_bearer_rsp_good in Hg; destruct_and! Hg.
  apply (encodes_enc_bits 8); [by right|]. apply places_gtp_header. unfold create_bearer_rsp_body.
  place_members ltac:(gtp_member).
Qed.
Lemma create_bearer_rsp_decodes v : create_bearer_rsp_good v ->
  decodes (decode_create_bearer_rsp zero_create_bearer_rsp) (create_bearer_rsp_layout v) (size (create_bearer_rsp_body v) / 8) v.
Proof.
  intros Hg; unfold create_bearer_rsp_good in Hg; destruct_and! Hg. apply decodes_gtp_message; [reflexivity|assumption|]. unfold create_bearer_rsp_body.
  read_rest v.
Qed.

(** [bearer_rsrc_cmd_t] *)
Definition bearer_rsrc_cmd_body (v : bearer_rsrc_cmd_t) : layout :=
  opt_layout v.(bearer_rsrc_cmd_lbi) ++
  opt_layout v.(bearer_rsrc_cmd_pti) ++
  opt_layout v.(bearer_rsrc_cmd_flow_qos) ++
  opt_layout v.(bearer_rsrc_cmd_tad) ++
  opt_layout v.(bearer_rsrc_cmd_rat_type) ++
  opt_layout v.(bearer_rsrc_cmd_serving_network) ++
  opt_layout v.(bearer_rsrc_cmd_uli) ++
  opt_layout v.(bearer_rsrc_cmd_eps_bearer_id) ++
  opt_layout v.(bearer_rsrc_cmd_indctn_flgs) ++
  opt_layout v.(bearer_rsrc_cmd_s4_u_sgsn_fteid) ++
  opt_layout v.(bearer_rsrc_cmd_s12_rnc_fteid) ++
  opt_layout v.(bearer_rsrc_cmd_pco) ++
  opt_layout v.(bearer_rsrc_cmd_sgnllng_priority_indctn) ++
  opt_layout v.(bearer_rsrc_cmd_mmes4_sgsns_ovrld_ctl_info) ++
  opt_layout v.(bearer_rsrc_cmd_sgws_ovrld_ctl_info) ++
  opt_layout v.(bearer_rsrc_cmd_nbifom_cntnr) ++
  opt_layout v.(bearer_rsrc_cmd_epco) ++
  opt_layout v.(bearer_rsrc_cmd_sender_fteid_ctl_plane) ++
  opt_layout v.(bearer_rsrc_cmd_priv_ext) ++
  [].
Definition bearer_rsrc_cmd_good (v : bearer_rsrc_cmd_t) : Prop :=
  gtp_message_good v.(bearer_rsrc_cmd_header) (bearer_rsrc_cmd_body v) ∧
  opt_good (GTP_IE_EPS_BEARER_ID, GTP_IE_INSTANCE_ZERO) v.(bearer_rsrc_cmd_lbi) ∧
  opt_good (GTP_IE_PROC_TRANS_ID, GTP_IE_INSTANCE_ZERO) v.(bearer_rsrc_cmd_pti) ∧
  opt_good (GTP_IE_FLOW_QLTY_OF_SVC, GTP_IE_INSTANCE_ZERO) v.(bearer_rsrc_cmd_flow_qos) ∧
  opt_good (GTP_IE_TRAFFIC_AGG_DESC, GTP_IE_INSTANCE_ZERO) v.(bearer_rsrc_cmd_tad) ∧
  opt_good (GTP_IE_RAT_TYPE, GTP_IE_INSTANCE_ZERO) v.(bearer_rsrc_cmd_rat_type) ∧
  opt_good (GTP_IE_SERVING_NETWORK, GTP_IE_INSTANCE_ZERO) v.(bearer_rsrc_cmd_serving_network) ∧
  opt_good (GTP_IE_USER_LOC_INFO, GTP_IE_INSTANCE_ZERO) v.(bearer_rsrc_cmd_uli) ∧
  opt_good (GTP_IE_EPS_BEARER_ID, GTP_IE_INSTANCE_ONE) v.(bearer_rsrc_cmd_eps_bearer_id) ∧
  opt_good (GTP_IE_INDICATION, GTP_IE_INSTANCE_ZERO) v.(bearer_rsrc_cmd_indctn_flgs) ∧
  opt_good (GTP_IE_FULLY_QUAL_TUNN_ENDPT_IDNT, GTP_IE_INSTANCE_ZERO) v.(bearer_rsrc_cmd_s4_u_sgsn_fteid) ∧
  opt_good (GTP_IE_FULLY_QUAL_TUNN_ENDPT_IDNT, GTP_IE_INSTANCE_ONE) v.(bearer_rsrc_cmd_s12_rnc_fteid) ∧
  opt_good (GTP_IE_PROT_CFG_OPTS, GTP_IE_INSTANCE_ZERO) v.(bearer_rsrc_cmd_pco) ∧
  opt_good (GTP_IE_SGNLLNG_PRIORITY_INDCTN, GTP_IE_INSTANCE_ZERO) v.(bearer_rsrc_cmd_sgnllng_priority_indctn) ∧
  opt_good (GTP_IE_OVRLD_CTL_INFO, GTP_IE_INSTANCE_ZERO) v.(bearer_rsrc_cmd_mmes4_sgsns_ovrld_ctl_info) ∧
  opt_good (GTP_IE_OVRLD_CTL_INFO, GTP_IE_INSTANCE_ONE) v.(bearer_rsrc_cmd_sgws_ovrld_ctl_info) ∧
  opt_good (GTP_IE_FULL_QUAL_CNTNR, GTP_IE_INSTANCE_ZERO) v.(bearer_rsrc_cmd_nbifom_cntnr) ∧
  opt_good (GTP_IE_EXTNDED_PROT_CFG_OPTS, GTP_IE_INSTANCE_ZERO) v.(bearer_rsrc_cmd_epco) ∧
  opt_good (GTP_IE_FULLY_QUAL_TUNN_ENDPT_IDNT, GTP_IE_INSTANCE_TWO) v.(bearer_rsrc_cmd_sender_fteid_ctl_plane) ∧
  opt_good (GTP_IE_PRIV_EXT, GTP_IE_INSTANCE_ZERO) v.(bearer_rsrc_cmd_priv_ext).
Definition bearer_rsrc_cmd_layout (v : bearer_rsrc_cmd_t) : layout := layout_gtpv2c_header v.(bearer_rsrc_cmd_header) ++ bearer_rsrc_cmd_body v.
Lemma bearer_rsrc_cmd_encodes v : bearer_rsrc_cmd_good v -> encodes (encode_bearer_rsrc_cmd v) (bearer_rsrc_cmd_layout v) (size (bearer_rsrc_cmd_layout v) / 8).
Proof.
  intros Hg; unfold bearer_rsrc_cmd_good in Hg; destruct_and! Hg.
  apply (encodes_enc_bits 8); [by right|]. apply places_gtp_header. unfold bearer_rsrc_cmd_body.
  place_members ltac:(gtp_member).
Qed.
Lemma bearer_rsrc_cmd_decodes v : bearer_rsrc_cmd_good v ->
  decodes (decode_bearer_rsrc_cmd zero_bearer_rsrc_cmd) (bearer_rsrc_cmd_layout v) (size (bearer_rsrc_cmd_body v) / 8) v.
Proof.
  intros Hg; unfold bearer_rsrc_cmd_good in Hg; destruct_and! Hg. apply decodes_gtp_message; [reflexivity|assumption|]. unfold bearer_rsrc_cmd_body.
  read_rest v.
Qed.

(** [bearer_rsrc_fail_indctn_t] *)
Definition bearer_rsrc_fail_indctn_body (v : bearer_rsrc_fail_indctn_t) : layout :=
  opt_layout v.(bearer_rsrc_fail_indctn_cause) ++
  opt_layout v.(bearer_rsrc_fail_indctn_linked_eps_bearer_id) ++
  opt_layout v.(bearer_rsrc_fail_indctn_pti) ++
  opt_layout v.(bearer_rsrc_fail_indctn_indctn_flgs) ++
  opt_layout v.(bearer_rsrc_fail_indctn_pgws_ovrld_ctl_info) ++
  opt_layout v.(bearer_rsrc_fail_indctn_sgws_ovrld_ctl_info) ++
  opt_layout v.(bearer_rsrc_fail_indctn_recovery) ++
  opt_layout v.(bearer_rsrc_fail_indctn_nbifom_cntnr) ++
  opt_layout v.(bearer_rsrc_fail_indctn_priv_ext) ++
  [].
Definition bearer_rsrc_fail_indctn_good (v : bearer_rsrc_fail_indctn_t) : Prop :=
  gtp_message_good v.(bearer_rsrc_fail_indctn_header) (bearer_rsrc_fail_indctn_body v) ∧
  opt_good (GTP_IE_CAUSE, GTP_IE_INSTANCE_ZERO) v.(bearer_rsrc_fail_indctn_cause) ∧
  opt_good (GTP_IE_EPS_BEARER_ID, GTP_IE_INSTANCE_ZERO) v.(bearer_rsrc_fail_indctn_linked_eps_bearer_id) ∧
  opt_good (GTP_IE_PROC_TRANS_ID, GTP_IE_INSTANCE_ZERO) v.(bearer_rsrc_fail_indctn_pti) ∧
  opt_good (GTP_IE_INDICATION, GTP_IE_INSTANCE_ZERO) v.(bearer_rsrc_fail_indctn_indctn_flgs) ∧
  opt_good (GTP_IE_OVRLD_CTL_INFO, GTP_IE_INSTANCE_ZERO) v.(bearer_rsrc_fail_indctn_pgws_ovrld_ctl_info) ∧
  opt_good (GTP_IE_OVRLD_CTL_INFO, GTP_IE_INSTANCE_ONE) v.(bearer_rsrc_fail_indctn_sgws_ovrld_ctl_info) ∧
  opt_good (GTP_IE_RECOVERY, GTP_IE_INSTANCE_ZERO) v.(bearer_rsrc_fail_indctn_recovery) ∧
  opt_good (GTP_IE_FULL_QUAL_CNTNR, GTP_IE_INSTANCE_ZERO) v.(bearer_rsrc_fail_indctn_nbifom_cntnr) ∧
  opt_good (GTP_IE_PRIV_EXT, GTP_IE_INSTANCE_ZERO) v.(bearer_rsrc_fail_indctn_priv_ext).
Definition bearer_rsrc_fail_indctn_layout (v : bearer_rsrc_fail_indctn_t) : layout := layout_gtpv2c_header v.(bearer_rsrc_fail_indctn_header) ++ bearer_rsrc_fail_indctn_body v.
Lemma bearer_rsrc_fail_indctn_encodes v : bearer_rsrc_fail_indctn_good v -> encodes (encode_bearer_rsrc_fail_indctn v) (bearer_rsrc_fail_indctn_layout v) (size (bearer_rsrc_fail_indctn_layout v) / 8).
Proof.
  intros Hg; unfold bearer_rsrc_fail_indctn_good in Hg; destruct_and! Hg.
  apply (encodes_enc_bits 8); [by right|]. apply places_gtp_header. unfold bearer_rsrc_fail_indctn_body.
  place_members ltac:(gtp_member).
Qed.
Lemma bearer_rsrc_fail_indctn_decodes v : bearer_rsrc_fail_indctn_good v ->
  decodes (decode_bearer_rsrc_fail_indctn zero_bearer_rsrc_fail_indctn) (bearer_rsrc_fail_indctn_layout v) (size (bearer_rsrc_fail_indctn_body v) / 8) v.
Proof.
  intros Hg; unfold bearer_rsrc_fail_indctn_good in Hg; destruct_and! Hg. apply decodes_gtp_message; [reflexivity|assumption|]. unfold bearer_rsrc_fail_indctn_body.
  read_rest v.
Qed.

(** [mod_bearer_req_t] *)
Definition mod_bearer_req_body (v : mod_bearer_req_t) : layout :=
  opt_layout v.(mod_bearer_req_mei) ++
  opt_layout v.(mod_bearer_req_uli) ++
  opt_layout v.(mod_bearer_req_serving_network) ++
  opt_layout v.(mod_bearer_req_selection_mode) ++
  opt_layout v.(mod_bearer_req_sender_fteid_ctl_plane) ++
  opt_layout v.(mod_bearer_req_apn_ambr) ++
  opt_layout v.(mod_bearer_req_delay_dnlnk_pckt_notif_req) ++
  opt_layout v.(mod_bearer_req_bearer_contexts_to_be_modified) ++
  opt_layout v.(mod_bearer_req_bearer_contexts_to_be_removed) ++
  opt_layout v.(mod_bearer_req_recovery) ++
  opt_layout v.(mod_bearer_req_ue_time_zone) ++
  opt_layout v.(mod_bearer_req_mme_fqcsid) ++
  opt_layout v.(mod_bearer_req_sgw_fqcsid) ++
  opt_layout v.(mod_bearer_req_ue_udp_port) ++
  opt_layout v.(mod_bearer_req_mmes4_sgsn_ldn) ++
  opt_layout v.(mod_bearer_req_sgw_ldn) ++
  opt_layout v.(mod_bearer_req_henb_udp_port) ++
  opt_layout v.(mod_bearer_req_cn_oper_sel_entity) ++
  opt_layout v.(mod_bearer_req_mmes4_sgsns_ovrld_ctl_info) ++
  opt_layout v.(mod_bearer_req_sgws_ovrld_ctl_info) ++
  opt_layout v.(mod_bearer_req_epdgs_ovrld_ctl_info) ++
  opt_layout v.(mod_bearer_req_srvng_plmn_rate_ctl) ++
  opt_layout v.(mod_bearer_req_mo_exception_data_cntr) ++
  opt_layout v.(mod_bearer_req_imsi) ++
  opt_layout v.(mod_bearer_req_user_loc_info_sgw) ++
  opt_layout v.(mod_bearer_req_wlan_loc_ts) ++
  opt_layout v.(mod_bearer_req_secdry_rat_usage_data_rpt) ++
  opt_layout v.(mod_bearer_req_priv_ext) ++
  [].
Definition mod_bearer_req_good (v : mod_bearer_req_t) : Prop :=
  gtp_message_good v.(mod_bearer_req_header) (mod_bearer_req_body v) ∧
  opt_good (GTP_IE_MBL_EQUIP_IDNTY, GTP_IE_INSTANCE_ZERO) v.(mod_bearer_req_mei) ∧
  opt_good (GTP_IE_USER_LOC_INFO, GTP_IE_INSTANCE_ZERO) v.(mod_bearer_req_uli) ∧
  opt_good (GTP_IE_SERVING_NETWORK, GTP_IE_INSTANCE_ZERO) v.(mod_bearer_req_serving_network) ∧
  opt_good (GTP_IE_SELECTION_MODE, GTP_IE_INSTANCE_ZERO) v.(mod_bearer_req_selection_mode) ∧
  opt_good (GTP_IE_FULLY_QUAL_TUNN_ENDPT_IDNT, GTP_IE_INSTANCE_ZERO) v.(mod_bearer_req_sender_fteid_ctl_plane) ∧
  opt_good (GTP_IE_AGG_MAX_BIT_RATE, GTP_IE_INSTANCE_ZERO) v.(mod_bearer_req_apn_ambr) ∧
  opt_good (GTP_IE_DELAY_VALUE, GTP_IE_INSTANCE_ZERO) v.(mod_bearer_req_delay_dnlnk_pckt_notif_req) ∧
  opt_good (GTP_IE_MOD_BEARER_REQUEST_BEARER_CTXT_TO_BE_MODIFIED, GTP_IE_INSTANCE_ZERO) v.(mod_bearer_req_bearer_contexts_to_be_modified) ∧
  opt_good (GTP_IE_MOD_BEARER_REQUEST_BEARER_CTXT_TO_BE_REMOVED, GTP_IE_INSTANCE_ONE) v.(mod_bearer_req_bearer_contexts_to_be_removed) ∧
  opt_good (GTP_IE_RECOVERY, GTP_IE_INSTANCE_ZERO) v.(mod_bearer_req_recovery) ∧
  opt_good (GTP_IE_UE_TIME_ZONE, GTP_IE_INSTANCE_ZERO) v.(mod_bearer_req_ue_time_zone) ∧
  opt_good (GTP_IE_FQCSID, GTP_IE_INSTANCE_ZERO) v.(mod_bearer_req_mme_fqcsid) ∧
  opt_good (GTP_IE_FQCSID, GTP_IE_INSTANCE_ONE) v.(mod_bearer_req_sgw_fqcsid) ∧
  opt_good (GTP_IE_PORT_NUMBER, GTP_IE_INSTANCE_ONE) v.(mod_bearer_req_ue_udp_port) ∧
  opt_good (GTP_IE_LOCAL_DISTGSD_NAME, GTP_IE_INSTANCE_ZERO) v.(mod_bearer_req_mmes4_sgsn_ldn) ∧
  opt_good (GTP_IE_LOCAL_DISTGSD_NAME, GTP_IE_INSTANCE_ONE) v.(mod_bearer_req_sgw_ldn) ∧
  opt_good (GTP_IE_PORT_NUMBER, GTP_IE_INSTANCE_ZERO) v.(mod_bearer_req_henb_udp_port) ∧
  opt_good (GTP_IE_CN_OPER_SEL_ENTITY, GTP_IE_INSTANCE_ZERO) v.(mod_bearer_req_cn_oper_sel_entity) ∧
  opt_good (GTP_IE_OVRLD_CTL_INFO, GTP_IE_INSTANCE_ZERO) v.(mod_bearer_req_mmes4_sgsns_ovrld_ctl_info) ∧
  opt_good (GTP_IE_OVRLD_CTL_INFO, GTP_IE_INSTANCE_ONE) v.(mod_bearer_req_sgws_ovrld_ctl_info) ∧
  opt_good (GTP_IE_OVRLD_CTL_INFO, GTP_IE_INSTANCE_TWO) v.(mod_bearer_req_epdgs_ovrld_ctl_info) ∧
  opt_good (GTP_IE_SRVNG_PLMN_RATE_CTL, GTP_IE_INSTANCE_ZERO) v.(mod_bearer_req_srvng_plmn_rate_ctl) ∧
  opt_good (GTP_IE_COUNTER, GTP_IE_INSTANCE_ZERO) v.(mod_bearer_req_mo_exception_data_cntr) ∧
  opt_good (GTP_IE_IMSI, GTP_IE_INSTANCE_ZERO) v.(mod_bearer_req_imsi) ∧
  opt_good (GTP_IE_USER_LOC_INFO, GTP_IE_INSTANCE_ONE) v.(mod_bearer_req_user_loc_info_sgw) ∧
  opt_good (GTP_IE_TWAN_IDNT_TS, GTP_IE_INSTANCE_ZERO) v.(mod_bearer_req_wlan_loc_ts) ∧
  opt_good (GTP_IE_SECDRY_RAT_USAGE_DATA_RPT, GTP_IE_INSTANCE_ZERO) v.(mod_bearer_req_secdry_rat_usage_data_rpt) ∧
  opt_good (GTP_IE_PRIV_EXT, GTP_IE_INSTANCE_ZERO) v.(mod_bearer_req_priv_ext) ∧
  v.(mod_bearer_req_indctn_flgs) = zero_gtp_indication ∧
  v.(mod_bearer_req_uci) = zero_gtp_user_csg_info ∧
  v.(mod_bearer_req_ue_local_ip_addr) = zero_gtp_ip_address ∧
  v.(mod_bearer_req_henb_local_ip_addr) = zero_gtp_ip_address ∧
  v.(mod_bearer_req_mmes4_sgsn_idnt) = zero_gtp_ip_address ∧
  v.(mod_bearer_req_pres_rptng_area_info) = zero_gtp_pres_rptng_area_info ∧
  v.(mod_bearer_req_wlan_loc_info) = zero_gtp_twan_identifier.
Definition mod_bearer_req_layout (v : mod_bearer_req_t) : layout := layout_gtpv2c_header v.(mod_bearer_req_header) ++ mod_bearer_req_body v.
Lemma mod_bearer_req_encodes v : mod_bearer_req_good v -> encodes (encode_mod_bearer_req v) (mod_bearer_req_layout v) (size (mod_bearer_req_layout v) / 8).
Proof.
  intros Hg; unfold mod_bearer_req_good in Hg; destruct_and! Hg.
  apply (encodes_enc_bits 8); [by right|]. apply places_gtp_header. unfold mod_bearer_req_body.
  place_members ltac:(gtp_member).
Qed.
Lemma mod_bearer_req_decodes v : mod_bearer_req_good v ->
  decodes (decode_mod_bearer_req zero_mod_bearer_req) (mod_bearer_req_layout v) (size (mod_bearer_req_body v) / 8) v.
Proof.
  intros Hg; unfold mod_bearer_req_good in Hg; destruct_and! Hg. apply decodes_gtp_message; [reflexivity|assumption|]. unfold mod_bearer_req_body.
  read_rest v.
Qed.

(** [mod_bearer_rsp_t] *)
Definition mod_bearer_rsp_body (v : mod_bearer_rsp_t) : layout :=
  opt_layout v.(mod_bearer_rsp_cause) ++
  opt_layout v.(mod_bearer_rsp_msisdn) ++
  opt_layout v.(mod_bearer_rsp_linked_eps_bearer_id) ++
  opt_layout v.(mod_bearer_rsp_apn_restriction) ++
  opt_layout v.(mod_bearer_rsp_pco) ++
  opt_layout v.(mod_bearer_rsp_bearer_contexts_modified) ++
  opt_layout v.(mod_bearer_rsp_bearer_contexts_marked_removal) ++
  opt_layout v.(mod_bearer_rsp_chg_rptng_act) ++
  opt_layout v.(mod_bearer_rsp_csg_info_rptng_act) ++
  opt_layout v.(mod_bearer_rsp_henb_info_rptng) ++
  opt_layout v.(mod_bearer_rsp_chrgng_gateway_name) ++
  opt_layout v.(mod_bearer_rsp_pgw_fqcsid) ++
  opt_layout v.(mod_bearer_rsp_sgw_fqcsid) ++
  opt_layout v.(mod_bearer_rsp_recovery) ++
  opt_layout v.(mod_bearer_rsp_sgw_ldn) ++
  opt_layout v.(mod_bearer_rsp_pgw_ldn) ++
  opt_layout v.(mod_bearer_rsp_indctn_flgs) ++
  opt_layout v.(mod_bearer_rsp_pres_rptng_area_act) ++
  opt_layout v.(mod_bearer_rsp_pgws_node_lvl_load_ctl_info) ++
  opt_layout v.(mod_bearer_rsp_pgws_apn_lvl_load_ctl_info) ++
  opt_layout v.(mod_bearer_rsp_sgws_node_lvl_load_ctl_info) ++
  opt_layout v.(mod_bearer_rsp_pgws_ovrld_ctl_info) ++
  opt_layout v.(mod_bearer_rsp_sgws_ovrld_ctl_info) ++
  opt_layout v.(mod_bearer_rsp_pdn_conn_chrgng_id) ++
  opt_layout v.(mod_bearer_rsp_priv_ext) ++
  [].
Definition mod_bearer_rsp_good (v : mod_bearer_rsp_t) : Prop :=
  gtp_message_good v.(mod_bearer_rsp_header) (mod_bearer_rsp_body v) ∧
  opt_good (GTP_IE_CAUSE, GTP_IE_INSTANCE_ZERO) v.(mod_bearer_rsp_cause) ∧
  opt_good (GTP_IE_MSISDN, GTP_IE_INSTANCE_ZERO) v.(mod_bearer_rsp_msisdn) ∧
  opt_good (GTP_IE_EPS_BEARER_ID, GTP_IE_INSTANCE_ZERO) v.(mod_bearer_rsp_linked_eps_bearer_id) ∧
  opt_good (GTP_IE_APN_RESTRICTION, GTP_IE_INSTANCE_ZERO) v.(mod_bearer_rsp_apn_restriction) ∧
  opt_good (GTP_IE_PROT_CFG_OPTS, GTP_IE_INSTANCE_ZERO) v.(mod_bearer_rsp_pco) ∧
  opt_good (GTP_IE_MOD_BEARER_RESPONSE_BEARER_CTXT_MODIFIED, GTP_IE_INSTANCE_ZERO) v.(mod_bearer_rsp_bearer_contexts_modified) ∧
  opt_good (GTP_IE_MOD_BEARER_RESPONSE_BEARER_CTXT_MARKED_REMOVAL, GTP_IE_INSTANCE_ONE) v.(mod_bearer_rsp_bearer_contexts_marked_removal) ∧
  opt_good (GTP_IE_CHG_RPTNG_ACT, GTP_IE_INSTANCE_ZERO) v.(mod_bearer_rsp_chg_rptng_act) ∧
  opt_good (GTP_IE_CSG_INFO_RPTNG_ACT, GTP_IE_INSTANCE_ZERO) v.(mod_bearer_rsp_csg_info_rptng_act) ∧
  opt_good (GTP_IE_HENB_INFO_RPTNG, GTP_IE_INSTANCE_ZERO) v.(mod_bearer_rsp_henb_info_rptng) ∧
  opt_good (GTP_IE_FULLY_QUAL_DOMAIN_NAME, GTP_IE_INSTANCE_ZERO) v.(mod_bearer_rsp_chrgng_gateway_name) ∧
  opt_good (GTP_IE_FQCSID, GTP_IE_INSTANCE_ZERO) v.(mod_bearer_rsp_pgw_fqcsid) ∧
  opt_good (GTP_IE_FQCSID, GTP_IE_INSTANCE_ONE) v.(mod_bearer_rsp_sgw_fqcsid) ∧
  opt_good (GTP_IE_RECOVERY, GTP_IE_INSTANCE_ZERO) v.(mod_bearer_rsp_recovery) ∧
  opt_good (GTP_IE_LOCAL_DISTGSD_NAME, GTP_IE_INSTANCE_ZERO) v.(mod_bearer_rsp_sgw_ldn) ∧
  opt_good (GTP_IE_LOCAL_DISTGSD_NAME, GTP_IE_INSTANCE_ONE) v.(mod_bearer_rsp_pgw_ldn) ∧
  opt_good (GTP_IE_INDICATION, GTP_IE_INSTANCE_ZERO) v.(mod_bearer_rsp_indctn_flgs) ∧
  opt_good (GTP_IE_PRES_RPTNG_AREA_ACT, GTP_IE_INSTANCE_ZERO) v.(mod_bearer_rsp_pres_rptng_area_act) ∧
  opt_good (GTP_IE_LOAD_CTL_INFO, GTP_IE_INSTANCE_ZERO) v.(mod_bearer_rsp_pgws_node_lvl_load_ctl_info) ∧
  opt_good (GTP_IE_LOAD_CTL_INFO, GTP_IE_INSTANCE_ONE) v.(mod_bearer_rsp_pgws_apn_lvl_load_ctl_info) ∧
  opt_good (GTP_IE_LOAD_CTL_INFO, GTP_IE_INSTANCE_TWO) v.(mod_bearer_rsp_sgws_node_lvl_load_ctl_info) ∧
  opt_good (GTP_IE_OVRLD_CTL_INFO, GTP_IE_INSTANCE_ZERO) v.(mod_bearer_rsp_pgws_ovrld_ctl_info) ∧
  opt_good (GTP_IE_OVRLD_CTL_INFO, GTP_IE_INSTANCE_ONE) v.(mod_bearer_rsp_sgws_ovrld_ctl_info) ∧
  opt_good (GTP_IE_CHARGING_ID, GTP_IE_INSTANCE_ZERO) v.(mod_bearer_rsp_pdn_conn_chrgng_id) ∧
  opt_good (GTP_IE_PRIV_EXT, GTP_IE_INSTANCE_ZERO) v.(mod_bearer_rsp_priv_ext) ∧
  v.(mod_bearer_rsp_chrgng_gateway_addr) = zero_gtp_ip_address.
Definition mod_bearer_rsp_layout (v : mod_bearer_rsp_t) : layout := layout_gtpv2c_header v.(mod_bearer_rsp_header) ++ mod_bearer_rsp_body v.
Lemma mod_bearer_rsp_encodes v : mod_bearer_rsp_good v -> encodes (encode_mod_bearer_rsp v) (mod_bearer_rsp_layout v) (size (mod_bearer_rsp_layout v) / 8).
Proof.
  intros Hg; unfold mod_bearer_rsp_good in Hg; destruct_and! Hg.
  apply (encodes_enc_bits 8); [by right|]. apply places_gtp_header. unfold mod_bearer_rsp_body.
  place_members ltac:(gtp_member).
Qed.
Lemma mod_bearer_rsp_decodes v : mod_bearer_rsp_good v ->
  decodes (decode_mod_bearer_rsp zero_mod_bearer_rsp) (mod_bearer_rsp_layout v) (size (mod_bearer_rsp_body v) / 8) v.
Proof.
  intros Hg; unfold mod_bearer_rsp_good in Hg; destruct_and! Hg. apply decodes_gtp_message; [reflexivity|assumption|]. unfold mod_bearer_rsp_body.
  read_rest v.
Qed.

(** [del_sess_req_t] *)
Definition del_sess_req_body (v : del_sess_req_t) : layout :=
  opt_layout v.(del_sess_req_lbi) ++
  opt_layout v.(del_sess_req_uli) ++
  opt_layout v.(del_sess_req_indctn_flgs) ++
  opt_layout v.(del_sess_req_pco) ++
  opt_layout v.(del_sess_req_originating_node) ++
  opt_layout v.(del_sess_req_sender_fteid_ctl_plane) ++
  opt_layout v.(del_sess_req_ue_time_zone) ++
  opt_layout v.(del_sess_req_uli_timestamp) ++
  opt_layout v.(del_sess_req_ran_nas_release_cause) ++
  opt_layout v.(del_sess_req_twan_idnt_ts) ++
  opt_layout v.(del_sess_req_mmes4_sgsns_ovrld_ctl_info) ++
  opt_layout v.(del_sess_req_sgws_ovrld_ctl_info) ++
  opt_layout v.(del_sess_req_twanepdgs_ovrld_ctl_info) ++
  opt_layout v.(del_sess_req_wlan_loc_ts) ++
  opt_layout v.(del_sess_req_ue_udp_port) ++
  opt_layout v.(del_sess_req_epco) ++
  opt_layout v.(del_sess_req_ue_tcp_port) ++
  opt_layout v.(del_sess_req_secdry_rat_usage_data_rpt) ++
  opt_layout v.(del_sess_req_priv_ext) ++
  [].
Definition del_sess_req_good (v : del_sess_req_t) : Prop :=
  gtp_message_good v.(del_sess_req_header) (del_sess_req_body v) ∧
  opt_good (GTP_IE_EPS_BEARER_ID, GTP_IE_INSTANCE_ZERO) v.(del_sess_req_lbi) ∧
  opt_good (GTP_IE_USER_LOC_INFO, GTP_IE_INSTANCE_ZERO) v.(del_sess_req_uli) ∧
  opt_good (GTP_IE_INDICATION, GTP_IE_INSTANCE_ZERO) v.(del_sess_req_indctn_flgs) ∧
  opt_good (GTP_IE_PROT_CFG_OPTS, GTP_IE_INSTANCE_ZERO) v.(del_sess_req_pco) ∧
  opt_good (GTP_IE_NODE_TYPE, GTP_IE_INSTANCE_ZERO) v.(del_sess_req_originating_node) ∧
  opt_good (GTP_IE_FULLY_QUAL_TUNN_ENDPT_IDNT, GTP_IE_INSTANCE_ZERO) v.(del_sess_req_sender_fteid_ctl_plane) ∧
  opt_good (GTP_IE_UE_TIME_ZONE, GTP_IE_INSTANCE_ZERO) v.(del_sess_req_ue_time_zone) ∧
  opt_good (GTP_IE_ULI_TIMESTAMP, GTP_IE_INSTANCE_ZERO) v.(del_sess_req_uli_timestamp) ∧
  opt_good (GTP_IE_RAN_NAS_CAUSE, GTP_IE_INSTANCE_ZERO) v.(del_sess_req_ran_nas_release_cause) ∧
  opt_good (GTP_IE_TWAN_IDNT_TS, GTP_IE_INSTANCE_ZERO) v.(del_sess_req_twan_idnt_ts) ∧
  opt_good (GTP_IE_OVRLD_CTL_INFO, GTP_IE_INSTANCE_ZERO) v.(del_sess_req_mmes4_sgsns_ovrld_ctl_info) ∧
  opt_good (GTP_IE_OVRLD_CTL_INFO, GTP_IE_INSTANCE_ONE) v.(del_sess_req_sgws_ovrld_ctl_info) ∧
  opt_good (GTP_IE_OVRLD_CTL_INFO, GTP_IE_INSTANCE_TWO) v.(del_sess_req_twanepdgs_ovrld_ctl_info) ∧
  opt_good (GTP_IE_TWAN_IDNT_TS, GTP_IE_INSTANCE_ONE) v.(del_sess_req_wlan_loc_ts) ∧
  opt_good (GTP_IE_PORT_NUMBER, GTP_IE_INSTANCE_ZERO) v.(del_sess_req_ue_udp_port) ∧
  opt_good (GTP_IE_EXTNDED_PROT_CFG_OPTS, GTP_IE_INSTANCE_ZERO) v.(del_sess_req_epco) ∧
  opt_good (GTP_IE_PORT_NUMBER, GTP_IE_INSTANCE_ONE) v.(del_sess_req_ue_tcp_port) ∧
  opt_good (GTP_IE_SECDRY_RAT_USAGE_DATA_RPT, GTP_IE_INSTANCE_ZERO) v.(del_sess_req_secdry_rat_usage_data_rpt) ∧
  opt_good (GTP_IE_PRIV_EXT, GTP_IE_INSTANCE_ZERO) v.(del_sess_req_priv_ext) ∧
  v.(del_sess_req_twan_identifier) = zero_gtp_twan_identifier ∧
  v.(del_sess_req_wlan_loc_info) = zero_gtp_twan_identifier ∧
  v.(del_sess_req_ue_local_ip_addr) = zero_gtp_ip_address.
Definition del_sess_req_layout (v : del_sess_req_t) : layout := layout_gtpv2c_header v.(del_sess_req_header) ++ del_sess_req_body v.
Lemma del_sess_req_encodes v : del_sess_req_good v -> encodes (encode_del_sess_req v) (del_sess_req_layout v) (size (del_sess_req_layout v) / 8).
Proof.
  intros Hg; unfold del_sess_req_good in Hg; destruct_and! Hg.
  apply (encodes_enc_bits 8); [by right|]. apply places_gtp_header. unfold del_sess_req_body.
  place_members ltac:(gtp_member).
Qed.
Lemma del_sess_req_decodes v : del_sess_req_good v ->
  decodes (decode_del_sess_req zero_del_sess_req) (del_sess_req_layout v) (size (del_sess_req_body v) / 8) v.
Proof.
  intros Hg; unfold del_sess_req_good in Hg; destruct_and! Hg. apply decodes_gtp_message; [reflexivity|assumption|]. unfold del_sess_req_body.
  read_rest v.
Qed.

(** [del_bearer_req_t] *)
Definition del_bearer_req_body (v : del_bearer_req_t) : layout :=
  opt_layout v.(del_bearer_req_lbi) ++
  arr_layout v.(del_bearer_req_bearer_count) v.(del_bearer_req_eps_bearer_ids) ++
  opt_layout v.(del_bearer_req_pti) ++
  opt_layout v.(del_bearer_req_pco) ++
  opt_layout v.(del_bearer_req_pgw_fqcsid) ++
  opt_layout v.(del_bearer_req_sgw_fqcsid) ++
  opt_layout v.(del_bearer_req_indctn_flgs) ++
  opt_layout v.(del_bearer_req_pgws_node_lvl_load_ctl_info) ++
  opt_layout v.(del_bearer_req_pgws_apn_lvl_load_ctl_info) ++
  opt_layout v.(del_bearer_req_sgws_node_lvl_load_ctl_info) ++
  opt_layout v.(del_bearer_req_pgws_ovrld_ctl_info) ++
  opt_layout v.(del_bearer_req_sgws_ovrld_ctl_info) ++
  opt_layout v.(del_bearer_req_nbifom_cntnr) ++
  opt_layout v.(del_bearer_req_epco) ++
  opt_layout v.(del_bearer_req_priv_ext) ++
  [].
Definition del_bearer_req_good (v : del_bearer_req_t) : Prop :=
  gtp_message_good v.(del_bearer_req_header) (del_bearer_req_body v) ∧
  opt_good (GTP_IE_EPS_BEARER_ID, GTP_IE_INSTANCE_ZERO) v.(del_bearer_req_lbi) ∧
  arr_good MAX_BEARER (GTP_IE_EPS_BEARER_ID, GTP_IE_INSTANCE_ONE) v.(del_bearer_req_bearer_count) v.(del_bearer_req_eps_bearer_ids) ∧
  opt_good (GTP_IE_PROC_TRANS_ID, GTP_IE_INSTANCE_ZERO) v.(del_bearer_req_pti) ∧
  opt_good (GTP_IE_PROT_CFG_OPTS, GTP_IE_INSTANCE_ZERO) v.(del_bearer_req_pco) ∧
  opt_good (GTP_IE_FQCSID, GTP_IE_INSTANCE_ZERO) v.(del_bearer_req_pgw_fqcsid) ∧
  opt_good (GTP_IE_FQCSID, GTP_IE_INSTANCE_ONE) v.(del_bearer_req_sgw_fqcsid) ∧
  opt_good (GTP_IE_INDICATION, GTP_IE_INSTANCE_ZERO) v.(del_bearer_req_indctn_flgs) ∧
  opt_good (GTP_IE_LOAD_CTL_INFO, GTP_IE_INSTANCE_ZERO) v.(del_bearer_req_pgws_node_lvl_load_ctl_info) ∧
  opt_good (GTP_IE_LOAD_CTL_INFO, GTP_IE_INSTANCE_ONE) v.(del_bearer_req_pgws_apn_lvl_load_ctl_info) ∧
  opt_good (GTP_IE_LOAD_CTL_INFO, GTP_IE_INSTANCE_TWO) v.(del_bearer_req_sgws_node_lvl_load_ctl_info) ∧
  opt_good (GTP_IE_OVRLD_CTL_INFO, GTP_IE_INSTANCE_ZERO) v.(del_bearer_req_pgws_ovrld_ctl_info) ∧
  opt_good (GTP_IE_OVRLD_CTL_INFO, GTP_IE_INSTANCE_ONE) v.(del_bearer_req_sgws_ovrld_ctl_info) ∧
  opt_good (GTP_IE_FULL_QUAL_CNTNR, GTP_IE_INSTANCE_ZERO) v.(del_bearer_req_nbifom_cntnr) ∧
  opt_good (GTP_IE_EXTNDED_PROT_CFG_OPTS, GTP_IE_INSTANCE_ZERO) v.(del_bearer_req_epco) ∧
  opt_good (GTP_IE_PRIV_EXT, GTP_IE_INSTANCE_ZERO) v.(del_bearer_req_priv_ext) ∧
  v.(del_bearer_req_failed_bearer_contexts) = zero_gtp_bearer_context.
Definition del_bearer_req_layout (v : del_bearer_req_t) : layout := layout_gtpv2c_header v.(del_bearer_req_header) ++ del_bearer_req_body v.
Lemma del_bearer_req_encodes v : del_bearer_req_good v -> encodes (encode_del_bearer_req v) (del_bearer_req_layout v) (size (del_bearer_req_layout v) / 8).
Proof.
  intros Hg; unfold del_bearer_req_good in Hg; destruct_and! Hg.
  apply (encodes_enc_bits 8); [by right|]. apply places_gtp_header. unfold del_bearer_req_body.
  place_members ltac:(gtp_member).
Qed.
Lemma del_bearer_req_decodes v : del_bearer_req_good v ->
  decodes (decode_del_bearer_req zero_del_bearer_req) (del_bearer_req_layout v) (size (del_bearer_req_body v) / 8) v.
Proof.
  intros Hg; unfold del_bearer_req_good in Hg; destruct_and! Hg. apply decodes_gtp_message; [reflexivity|assumption|]. unfold del_bearer_req_body.
  repeat read_member. read_members (GTP_IE_EPS_BEARER_ID, GTP_IE_INSTANCE_ONE) 8 MAX_BEARER del_bearer_req_eps_bearer_ids del_bearer_req_bearer_count set_del_bearer_req_eps_bearer_ids set_del_bearer_req_bearer_count.
  read_rest v.
Qed.

(** [del_sess_rsp_t] *)
Definition del_sess_rsp_body (v : del_sess_rsp_t) : layout :=
  opt_layout v.(del_sess_rsp_cause) ++
  opt_layout v.(del_sess_rsp_recovery) ++
  opt_layout v.(del_sess_rsp_pco) ++
  opt_layout v.(del_sess_rsp_pgws_node_lvl_load_ctl_info) ++
  opt_layout v.(del_sess_rsp_pgws_apn_lvl_load_ctl_info) ++
  opt_layout v.(del_sess_rsp_sgws_node_lvl_load_ctl_info) ++
  opt_layout v.(del_sess_rsp_pgws_ovrld_ctl_info) ++
  opt_layout v.(del_sess_rsp_sgws_ovrld_ctl_info) ++
  opt_layout v.(del_sess_rsp_epco) ++
  opt_layout v.(del_sess_rsp_priv_ext) ++
  [].
Definition del_sess_rsp_good (v : del_sess_rsp_t) : Prop :=
  gtp_message_good v.(del_sess_rsp_header) (del_sess_rsp_body v) ∧
  opt_good (GTP_IE_CAUSE, GTP_IE_INSTANCE_ZERO) v.(del_sess_rsp_cause) ∧
  opt_good (GTP_IE_RECOVERY, GTP_IE_INSTANCE_ZERO) v.(del_sess_rsp_recovery) ∧
  opt_good (GTP_IE_PROT_CFG_OPTS, GTP_IE_INSTANCE_ZERO) v.(del_sess_rsp_pco) ∧
  opt_good (GTP_IE_LOAD_CTL_INFO, GTP_IE_INSTANCE_ZERO) v.(del_sess_rsp_pgws_node_lvl_load_ctl_info) ∧
  opt_good (GTP_IE_LOAD_CTL_INFO, GTP_IE_INSTANCE_ONE) v.(del_sess_rsp_pgws_apn_lvl_load_ctl_info) ∧
  opt_good (GTP_IE_LOAD_CTL_INFO, GTP_IE_INSTANCE_TWO) v.(del_sess_rsp_sgws_node_lvl_load_ctl_info) ∧
  opt_good (GTP_IE_OVRLD_CTL_INFO, GTP_IE_INSTANCE_ZERO) v.(del_sess_rsp_pgws_ovrld_ctl_info) ∧
  opt_good (GTP_IE_OVRLD_CTL_INFO, GTP_IE_INSTANCE_ONE) v.(del_sess_rsp_sgws_ovrld_ctl_info) ∧
  opt_good (GTP_IE_EXTNDED_PROT_CFG_OPTS, GTP_IE_INSTANCE_ZERO) v.(del_sess_rsp_epco) ∧
  opt_good (GTP_IE_PRIV_EXT, GTP_IE_INSTANCE_ZERO) v.(del_sess_rsp_priv_ext) ∧
  v.(del_sess_rsp_indctn_flgs) = zero_gtp_indication.
Definition del_sess_rsp_layout (v : del_sess_rsp_t) : layout := layout_gtpv2c_header v.(del_sess_rsp_header) ++ del_sess_rsp_body v.
Lemma del_sess_rsp_encodes v : del_sess_rsp_good v -> encodes (encode_del_sess_rsp v) (del_sess_rsp_layout v) (size (del_sess_rsp_layout v) / 8).
Proof.
  intros Hg; unfold del_sess_rsp_good in Hg; destruct_and! Hg.
  apply (encodes_enc_bits 8); [by right|]. apply places_gtp_header. unfold del_sess_rsp_body.
  place_members ltac:(gtp_member).
Qed.
Lemma del_sess_rsp_decodes v : del_sess_rsp_good v ->
  decodes (decode_del_sess_rsp zero_del_sess_rsp) (del_sess_rsp_layout v) (size (del_sess_rsp_body v) / 8) v.
Proof.
  intros Hg; unfold del_sess_rsp_good in Hg; destruct_and! Hg. apply decodes_gtp_message; [reflexivity|assumption|]. unfold del_sess_rsp_body.
  read_rest v.
Qed.

(** [del_bearer_rsp_t] *)
Definition del_bearer_rsp_body (v : del_bearer_rsp_t) : layout :=
  opt_layout v.(del_bearer_rsp_cause) ++
  opt_layout v.(del_bearer_rsp_lbi) ++
  arr_layout v.(del_bearer_rsp_bearer_count) v.(del_bearer_rsp_bearer_contexts) ++
  opt_layout v.(del_bearer_rsp_recovery) ++
  opt_layout v.(del_bearer_rsp_mme_fqcsid) ++
  opt_layout v.(del_bearer_rsp_sgw_fqcsid) ++
  opt_layout v.(del_bearer_rsp_epdg_fqcsid) ++
  opt_layout v.(del_bearer_rsp_twan_fqcsid) ++
  opt_layout v.(del_bearer_rsp_pco) ++
  opt_layout v.(del_bearer_rsp_ue_time_zone) ++
  opt_layout v.(del_bearer_rsp_uli) ++
  opt_layout v.(del_bearer_rsp_uli_timestamp) ++
  opt_layout v.(del_bearer_rsp_twan_idnt_ts) ++
  opt_layout v.(del_bearer_rsp_mmes4_sgsns_ovrld_ctl_info) ++
  opt_layout v.(del_bearer_rsp_sgws_ovrld_ctl_info) ++
  opt_layout v.(del_bearer_rsp_twanepdgs_ovrld_ctl_info) ++
  opt_layout v.(del_bearer_rsp_wlan_loc_ts) ++
  opt_layout v.(del_bearer_rsp_ue_udp_port) ++
  opt_layout v.(del_bearer_rsp_nbifom_cntnr) ++
  opt_layout v.(del_bearer_rsp_ue_tcp_port) ++
  opt_layout v.(del_bearer_rsp_secdry_rat_usage_data_rpt) ++
  opt_layout v.(del_bearer_rsp_priv_ext) ++
  [].
Definition del_bearer_rsp_good (v : del_bearer_rsp_t) : Prop :=
  gtp_message_good v.(del_bearer_rsp_header) (del_bearer_rsp_body v) ∧
  opt_good (GTP_IE_CAUSE, GTP_IE_INSTANCE_ZERO) v.(del_bearer_rsp_cause) ∧
  opt_good (GTP_IE_EPS_BEARER_ID, GTP_IE_INSTANCE_ZERO) v.(del_bearer_rsp_lbi) ∧
  arr_good MAX_BEARER (GTP_IE_BEARER_CONTEXT, GTP_IE_INSTANCE_ZERO) v.(del_bearer_rsp_bearer_count) v.(del_bearer_rsp_bearer_contexts) ∧
  opt_good (GTP_IE_RECOVERY, GTP_IE_INSTANCE_ZERO) v.(del_bearer_rsp_recovery) ∧
  opt_good (GTP_IE_FQCSID, GTP_IE_INSTANCE_ZERO) v.(del_bearer_rsp_mme_fqcsid) ∧
  opt_good (GTP_IE_FQCSID, GTP_IE_INSTANCE_ONE) v.(del_bearer_rsp_sgw_fqcsid) ∧
  opt_good (GTP_IE_FQCSID, GTP_IE_INSTANCE_TWO) v.(del_bearer_rsp_epdg_fqcsid) ∧
  opt_good (GTP_IE_FQCSID, GTP_IE_INSTANCE_THREE) v.(del_bearer_rsp_twan_fqcsid) ∧
  opt_good (GTP_IE_PROT_CFG_OPTS, GTP_IE_INSTANCE_ZERO) v.(del_bearer_rsp_pco) ∧
  opt_good (GTP_IE_UE_TIME_ZONE, GTP_IE_INSTANCE_ZERO) v.(del_bearer_rsp_ue_time_zone) ∧
  opt_good (GTP_IE_USER_LOC_INFO, GTP_IE_INSTANCE_ZERO) v.(del_bearer_rsp_uli) ∧
  opt_good (GTP_IE_ULI_TIMESTAMP, GTP_IE_INSTANCE_ZERO) v.(del_bearer_rsp_uli_timestamp) ∧
  opt_good (GTP_IE_TWAN_IDNT_TS, GTP_IE_INSTANCE_ZERO) v.(del_bearer_rsp_twan_idnt_ts) ∧
  opt_good (GTP_IE_OVRLD_CTL_INFO, GTP_IE_INSTANCE_ZERO) v.(del_bearer_rsp_mmes4_sgsns_ovrld_ctl_info) ∧
  opt_good (GTP_IE_OVRLD_CTL_INFO, GTP_IE_INSTANCE_ONE) v.(del_bearer_rsp_sgws_ovrld_ctl_info) ∧
  opt_good (GTP_IE_OVRLD_CTL_INFO, GTP_IE_INSTANCE_TWO) v.(del_bearer_rsp_twanepdgs_ovrld_ctl_info) ∧
  opt_good (GTP_IE_TWAN_IDNT_TS, GTP_IE_INSTANCE_ONE) v.(del_bearer_rsp_wlan_loc_ts) ∧
  opt_good (GTP_IE_PORT_NUMBER, GTP_IE_INSTANCE_ZERO) v.(del_bearer_rsp_ue_udp_port) ∧
  opt_good (GTP_IE_FULL_QUAL_CNTNR, GTP_IE_INSTANCE_ZERO) v.(del_bearer_rsp_nbifom_cntnr) ∧
  opt_good (GTP_IE_PORT_NUMBER, GTP_IE_INSTANCE_ONE) v.(del_bearer_rsp_ue_tcp_port) ∧
  opt_good (GTP_IE_SECDRY_RAT_USAGE_DATA_RPT, GTP_IE_INSTANCE_ZERO) v.(del_bearer_rsp_secdry_rat_usage_data_rpt) ∧
  opt_good (GTP_IE_PRIV_EXT, GTP_IE_INSTANCE_ZERO) v.(del_bearer_rsp_priv_ext) ∧
  v.(del_bearer_rsp_twan_identifier) = zero_gtp_twan_identifier ∧
  v.(del_bearer_rsp_mmes4_sgsn_idnt) = zero_gtp_ip_address ∧
  v.(del_bearer_rsp_wlan_loc_info) = zero_gtp_twan_identifier ∧
  v.(del_bearer_rsp_ue_local_ip_addr) = zero_gtp_ip_address.
Definition del_bearer_rsp_layout (v : del_bearer_rsp_t) : layout := layout_gtpv2c_header v.(del_bearer_rsp_header) ++ del_bearer_rsp_body v.
Lemma del_bearer_rsp_encodes v : del_bearer_rsp_good v -> encodes (encode_del_bearer_rsp v) (del_bearer_rsp_layout v) (size (del_bearer_rsp_layout v) / 8).
Proof.
  intros Hg; unfold del_bearer_rsp_good in Hg; destruct_and! Hg.
  apply (encodes_enc_bits 8); [by right|]. apply places_gtp_header. unfold del_bearer_rsp_body.
  place_members ltac:(gtp_member).
Qed.
Lemma del_bearer_rsp_decodes v : del_bearer_rsp_good v ->
  decodes (decode_del_bearer_rsp zero_del_bearer_rsp) (del_bearer_rsp_layout v) (size (del_bearer_rsp_body v) / 8) v.
Proof.
  intros Hg; unfold del_bearer_rsp_good in Hg; destruct_and! Hg. apply decodes_gtp_message; [reflexivity|assumption|]. unfold del_bearer_rsp_body.
  repeat read_member. read_members (GTP_IE_BEARER_CONTEXT, GTP_IE_INSTANCE_ZERO) 8 MAX_BEARER del_bearer_rsp_bearer_contexts del_bearer_rsp_bearer_count set_del_bearer_rsp_bearer_contexts set_del_bearer_rsp_bearer_count.
  read_rest v.
Qed.

(** [dnlnk_data_notif_t] *)
Definition dnlnk_data_notif_body (v : dnlnk_data_notif_t) : layout :=
  opt_layout v.(dnlnk_data_notif_cause) ++
  opt_layout v.(dnlnk_data_notif_eps_bearer_id) ++
  opt_layout v.(dnlnk_data_notif_alloc_reten_priority) ++
  opt_layout v.(dnlnk_data_notif_imsi) ++
  opt_layout v.(dnlnk_data_notif_sender_fteid_ctl_plane) ++
  opt_layout v.(dnlnk_data_notif_indctn_flgs) ++
  opt_layout v.(dnlnk_data_notif_sgws_node_lvl_load_ctl_info) ++
  opt_layout v.(dnlnk_data_notif_sgws_ovrld_ctl_info) ++
  opt_layout v.(dnlnk_data_notif_paging_and_svc_info) ++
  opt_layout v.(dnlnk_data_notif_priv_ext) ++
  [].
Definition dnlnk_data_notif_good (v : dnlnk_data_notif_t) : Prop :=
  gtp_message_good v.(dnlnk_data_notif_header) (dnlnk_data_notif_body v) ∧
  opt_good (GTP_IE_CAUSE, GTP_IE_INSTANCE_ZERO) v.(dnlnk_data_notif_cause) ∧
  opt_good (GTP_IE_EPS_BEARER_ID, GTP_IE_INSTANCE_ZERO) v.(dnlnk_data_notif_eps_bearer_id) ∧
  opt_good (GTP_IE_ALLOC_RETEN_PRIORITY, GTP_IE_INSTANCE_ZERO) v.(dnlnk_data_notif_alloc_reten_priority) ∧
  opt_good (GTP_IE_IMSI, GTP_IE_INSTANCE_ZERO) v.(dnlnk_data_notif_imsi) ∧
  opt_good (GTP_IE_FULLY_QUAL_TUNN_ENDPT_IDNT, GTP_IE_INSTANCE_ZERO) v.(dnlnk_data_notif_sender_fteid_ctl_plane) ∧
  opt_good (GTP_IE_INDICATION, GTP_IE_INSTANCE_ZERO) v.(dnlnk_data_notif_indctn_flgs) ∧
  opt_good (GTP_IE_LOAD_CTL_INFO, GTP_IE_INSTANCE_ZERO) v.(dnlnk_data_notif_sgws_node_lvl_load_ctl_info) ∧
  opt_good (GTP_IE_OVRLD_CTL_INFO, GTP_IE_INSTANCE_ZERO) v.(dnlnk_data_notif_sgws_ovrld_ctl_info) ∧
  opt_good (GTP_IE_PAGING_AND_SVC_INFO, GTP_IE_INSTANCE_ZERO) v.(dnlnk_data_notif_paging_and_svc_info) ∧
  opt_good (GTP_IE_PRIV_EXT, GTP_IE_INSTANCE_ZERO) v.(dnlnk_data_notif_priv_ext).
Definition dnlnk_data_notif_layout (v : dnlnk_data_notif_t) : layout := layout_gtpv2c_header v.(dnlnk_data_notif_header) ++ dnlnk_data_notif_body v.
Lemma dnlnk_data_notif_encodes v : dnlnk_data_notif_good v -> encodes (encode_dnlnk_data_notif v) (dnlnk_data_notif_layout v) (size (dnlnk_data_notif_layout v) / 8).
Proof.
  intros Hg; unfold dnlnk_data_notif_good in Hg; destruct_and! Hg.
  apply (encodes_enc_bits 8); [by right|]. apply places_gtp_header. unfold dnlnk_data_notif_body.
  place_members ltac:(gtp_member).
Qed.
Lemma dnlnk_data_notif_decodes v : dnlnk_data_notif_good v ->
  decodes (decode_dnlnk_data_notif zero_dnlnk_data_notif) (dnlnk_data_notif_layout v) (size (dnlnk_data_notif_body v) / 8) v.
Proof.
  intros Hg; unfold dnlnk_data_notif_good in Hg; destruct_and! Hg. apply decodes_gtp_message; [reflexivity|assumption|]. unfold dnlnk_data_notif_body.
  read_rest v.
Qed.

(** [dnlnk_data_notif_ack_t] *)
Definition dnlnk_data_notif_ack_body (v : dnlnk_data_notif_ack_t) : layout :=
  opt_layout v.(dnlnk_data_notif_ack_cause) ++
  opt_layout v.(dnlnk_data_notif_ack_data_notif_delay) ++
  opt_layout v.(dnlnk_data_notif_ack_recovery) ++
  opt_layout v.(dnlnk_data_notif_ack_dl_low_priority_traffic_thrtlng) ++
  opt_layout v.(dnlnk_data_notif_ack_imsi) ++
  opt_layout v.(dnlnk_data_notif_ack_dl_buffering_dur) ++
  opt_layout v.(dnlnk_data_notif_ack_dl_buffering_suggested_pckt_cnt) ++
  opt_layout v.(dnlnk_data_notif_ack_priv_ext) ++
  [].
Definition dnlnk_data_notif_ack_good (v : dnlnk_data_notif_ack_t) : Prop :=
  gtp_message_good v.(dnlnk_data_notif_ack_header) (dnlnk_data_notif_ack_body v) ∧
  opt_good (GTP_IE_CAUSE, GTP_IE_INSTANCE_ZERO) v.(dnlnk_data_notif_ack_cause) ∧
  opt_good (GTP_IE_DELAY_VALUE, GTP_IE_INSTANCE_ZERO) v.(dnlnk_data_notif_ack_data_notif_delay) ∧
  opt_good (GTP_IE_RECOVERY, GTP_IE_INSTANCE_ZERO) v.(dnlnk_data_notif_ack_recovery) ∧
  opt_good (GTP_IE_THROTTLING, GTP_IE_INSTANCE_ZERO) v.(dnlnk_data_notif_ack_dl_low_priority_traffic_thrtlng) ∧
  opt_good (GTP_IE_IMSI, GTP_IE_INSTANCE_ZERO) v.(dnlnk_data_notif_ack_imsi) ∧
  opt_good (GTP_IE_EPC_TIMER, GTP_IE_INSTANCE_ZERO) v.(dnlnk_data_notif_ack_dl_buffering_dur) ∧
  opt_good (GTP_IE_INTEGER_NUMBER, GTP_IE_INSTANCE_ZERO) v.(dnlnk_data_notif_ack_dl_buffering_suggested_pckt_cnt) ∧
  opt_good (GTP_IE_PRIV_EXT, GTP_IE_INSTANCE_ZERO) v.(dnlnk_data_notif_ack_priv_ext).
Definition dnlnk_data_notif_ack_layout (v : dnlnk_data_notif_ack_t) : layout := layout_gtpv2c_header v.(dnlnk_data_notif_ack_header) ++ dnlnk_data_notif_ack_body v.
Lemma dnlnk_data_notif_ack_encodes v : dnlnk_data_notif_ack_good v -> encodes (encode_dnlnk_data_notif_ack v) (dnlnk_data_notif_ack_layout v) (size (dnlnk_data_notif_ack_layout v) / 8).
Proof.
  intros Hg; unfold dnlnk_data_notif_ack_good in Hg; destruct_and! Hg.
  apply (encodes_enc_bits 8); [by right|]. apply places_gtp_header. unfold dnlnk_data_notif_ack_body.
  place_members ltac:(gtp_member).
Qed.
Lemma dnlnk_data_notif_ack_decodes v : dnlnk_data_notif_ack_good v ->
  decodes (decode_dnlnk_data_notif_ack zero_dnlnk_data_notif_ack) (dnlnk_data_notif_ack_layout v) (size (dnlnk_data_notif_ack_body v) / 8) v.
Proof.
  intros Hg; unfold dnlnk_data_notif_ack_good in Hg; destruct_and! Hg. apply decodes_gtp_message; [reflexivity|assumption|]. unfold dnlnk_data_notif_ack_body.
  read_rest v.
Qed.

(** [dnlnk_data_notif_fail_indctn_t] *)
Definition dnlnk_data_notif_fail_indctn_body (v : dnlnk_data_notif_fail_indctn_t) : layout :=
  opt_layout v.(dnlnk_data_notif_fail_indctn_cause) ++
  opt_layout v.(dnlnk_data_notif_fail_indctn_originating_node) ++
  opt_layout v.(dnlnk_data_notif_fail_indctn_imsi) ++
  opt_layout v.(dnlnk_data_notif_fail_indctn_priv_ext) ++
  [].
Definition dnlnk_data_notif_fail_indctn_good (v : dnlnk_data_notif_fail_indctn_t) : Prop :=
  gtp_message_good v.(dnlnk_data_notif_fail_indctn_header) (dnlnk_data_notif_fail_indctn_body v) ∧
  opt_good (GTP_IE_CAUSE, GTP_IE_INSTANCE_ZERO) v.(dnlnk_data_notif_fail_indctn_cause) ∧
  opt_good (GTP_IE_NODE_TYPE, GTP_IE_INSTANCE_ZERO) v.(dnlnk_data_notif_fail_indctn_originating_node) ∧
  opt_good (GTP_IE_IMSI, GTP_IE_INSTANCE_ZERO) v.(dnlnk_data_notif_fail_indctn_imsi) ∧
  opt_good (GTP_IE_PRIV_EXT, GTP_IE_INSTANCE_ZERO) v.(dnlnk_data_notif_fail_indctn_priv_ext).
Definition dnlnk_data_notif_fail_indctn_layout (v : dnlnk_data_notif_fail_indctn_t) : layout := layout_gtpv2c_header v.(dnlnk_data_notif_fail_indctn_header) ++ dnlnk_data_notif_fail_indctn_body v.
Lemma dnlnk_data_notif_fail_indctn_encodes v : dnlnk_data_notif_fail_indctn_good v -> encodes (encode_dnlnk_data_notif_fail_indctn v) (dnlnk_data_notif_fail_indctn_layout v) (size (dnlnk_data_notif_fail_indctn_layout v) / 8).
Proof.
  intros Hg; unfold dnlnk_data_notif_fail_indctn_good in Hg; destruct_and! Hg.
  apply (encodes_enc_bits 8); [by right|]. apply places_gtp_header. unfold dnlnk_data_notif_fail_indctn_body.
  place_members ltac:(gtp_member).
Qed.
Lemma dnlnk_data_notif_fail_indctn_decodes v : dnlnk_data_notif_fail_indctn_good v ->
  decodes (decode_dnlnk_data_notif_fail_indctn zero_dnlnk_data_notif_fail_indctn) (dnlnk_data_notif_fail_indctn_layout v) (size (dnlnk_data_notif_fail_indctn_body v) / 8) v.
Proof.
  intros Hg; unfold dnlnk_data_notif_fail_indctn_good in Hg; destruct_and! Hg. apply decodes_gtp_message; [reflexivity|assumption|]. unfold dnlnk_data_notif_fail_indctn_body.
  read_rest v.
Qed.

(** [mod_bearer_cmd_t] *)
Definition mod_bearer_cmd_body (v : mod_bearer_cmd_t) : layout :=
  opt_layout v.(mod_bearer_cmd_apn_ambr) ++
  opt_layout v.(mod_bearer_cmd_mmes4_sgsns_ovrld_ctl_info) ++
  opt_layout v.(mod_bearer_cmd_sgws_ovrld_ctl_info) ++
  opt_layout v.(mod_bearer_cmd_twanepdgs_ovrld_ctl_info) ++
  opt_layout v.(mod_bearer_cmd_sender_fteid_ctl_plane) ++
  opt_layout v.(mod_bearer_cmd_priv_ext) ++
  [].
Definition mod_bearer_cmd_good (v : mod_bearer_cmd_t) : Prop :=
  gtp_message_good v.(mod_bearer_cmd_header) (mod_bearer_cmd_body v) ∧
  opt_good (GTP_IE_AGG_MAX_BIT_RATE, GTP_IE_INSTANCE_ZERO) v.(mod_bearer_cmd_apn_ambr) ∧
  opt_good (GTP_IE_OVRLD_CTL_INFO, GTP_IE_INSTANCE_ZERO) v.(mod_bearer_cmd_mmes4_sgsns_ovrld_ctl_info) ∧
  opt_good (GTP_IE_OVRLD_CTL_INFO, GTP_IE_INSTANCE_ONE) v.(mod_bearer_cmd_sgws_ovrld_ctl_info) ∧
  opt_good (GTP_IE_OVRLD_CTL_INFO, GTP_IE_INSTANCE_TWO) v.(mod_bearer_cmd_twanepdgs_ovrld_ctl_info) ∧
  opt_good (GTP_IE_FULLY_QUAL_TUNN_ENDPT_IDNT, GTP_IE_INSTANCE_ZERO) v.(mod_bearer_cmd_sender_fteid_ctl_plane) ∧
  opt_good (GTP_IE_PRIV_EXT, GTP_IE_INSTANCE_ZERO) v.(mod_bearer_cmd_priv_ext) ∧
  v.(mod_bearer_cmd_bearer_context) = zero_gtp_bearer_context.
Definition mod_bearer_cmd_layout (v : mod_bearer_cmd_t) : layout := layout_gtpv2c_header v.(mod_bearer_cmd_header) ++ mod_bearer_cmd_body v.
Lemma mod_bearer_cmd_encodes v : mod_bearer_cmd_good v -> encodes (encode_mod_bearer_cmd v) (mod_bearer_cmd_layout v) (size (mod_bearer_cmd_layout v) / 8).
Proof.
  intros Hg; unfold mod_bearer_cmd_good in Hg; destruct_and! Hg.
  apply (encodes_enc_bits 8); [by right|]. apply places_gtp_header. unfold mod_bearer_cmd_body.
  place_members ltac:(gtp_member).
Qed.
Lemma mod_bearer_cmd_decodes v : mod_bearer_cmd_good v ->
  decodes (decode_mod_bearer_cmd zero_mod_bearer_cmd) (mod_bearer_cmd_layout v) (size (mod_bearer_cmd_body v) / 8) v.
Proof.
  intros Hg; unfold mod_bearer_cmd_good in Hg; destruct_and! Hg. apply decodes_gtp_message; [reflexivity|assumption|]. unfold mod_bearer_cmd_body.
  read_rest v.
Qed.

(** [mod_bearer_fail_indctn_t] *)
Definition mod_bearer_fail_indctn_body (v : mod_bearer_fail_indctn_t) : layout :=
  opt_layout v.(mod_bearer_fail_indctn_cause) ++
  opt_layout v.(mod_bearer_fail_indctn_recovery) ++
  opt_layout v.(mod_bearer_fail_indctn_indctn_flgs) ++
  opt_layout v.(mod_bearer_fail_indctn_pgws_ovrld_ctl_info) ++
  opt_layout v.(mod_bearer_fail_indctn_sgws_ovrld_ctl_info) ++
  opt_layout v.(mod_bearer_fail_indctn_priv_ext) ++
  [].
Definition mod_bearer_fail_indctn_good (v : mod_bearer_fail_indctn_t) : Prop :=
  gtp_message_good v.(mod_bearer_fail_indctn_header) (mod_bearer_fail_indctn_body v) ∧
  opt_good (GTP_IE_CAUSE, GTP_IE_INSTANCE_ZERO) v.(mod_bearer_fail_indctn_cause) ∧
  opt_good (GTP_IE_RECOVERY, GTP_IE_INSTANCE_ZERO) v.(mod_bearer_fail_indctn_recovery) ∧
  opt_good (GTP_IE_INDICATION, GTP_IE_INSTANCE_ZERO) v.(mod_bearer_fail_indctn_indctn_flgs) ∧
  opt_good (GTP_IE_OVRLD_CTL_INFO, GTP_IE_INSTANCE_ZERO) v.(mod_bearer_fail_indctn_pgws_ovrld_ctl_info) ∧
  opt_good (GTP_IE_OVRLD_CTL_INFO, GTP_IE_INSTANCE_ONE) v.(mod_bearer_fail_indctn_sgws_ovrld_ctl_info) ∧
  opt_good (GTP_IE_PRIV_EXT, GTP_IE_INSTANCE_ZERO) v.(mod_bearer_fail_indctn_priv_ext).
Definition mod_bearer_fail_indctn_layout (v : mod_bearer_fail_indctn_t) : layout := layout_gtpv2c_header v.(mod_bearer_fail_indctn_header) ++ mod_bearer_fail_indctn_body v.
Lemma mod_bearer_fail_indctn_encodes v : mod_bearer_fail_indctn_good v -> encodes (encode_mod_bearer_fail_indctn v) (mod_bearer_fail_indctn_layout v) (size (mod_bearer_fail_indctn_layout v) / 8).
Proof.
  intros Hg; unfold mod_bearer_fail_indctn_good in Hg; destruct_and! Hg.
  apply (encodes_enc_bits 8); [by right|]. apply places_gtp_header. unfold mod_bearer_fail_indctn_body.
  place_members ltac:(gtp_member).
Qed.
Lemma mod_bearer_fail_indctn_decodes v : mod_bearer_fail_indctn_good v ->
  decodes (decode_mod_bearer_fail_indctn zero_mod_bearer_fail_indctn) (mod_bearer_fail_indctn_layout v) (size (mod_bearer_fail_indctn_body v) / 8) v.
Proof.
  intros Hg; unfold mod_bearer_fail_indctn_good in Hg; destruct_and! Hg. apply decodes_gtp_message; [reflexivity|assumption|]. unfold mod_bearer_fail_indctn_body.
  read_rest v.
Qed.

(** [upd_bearer_req_t] *)
Definition upd_bearer_req_body (v : upd_bearer_req_t) : layout :=
  arr_layout v.(upd_bearer_req_bearer_context_count) v.(upd_bearer_req_bearer_contexts) ++
  opt_layout v.(upd_bearer_req_pti) ++
  opt_layout v.(upd_bearer_req_pco) ++
  opt_layout v.(upd_bearer_req_apn_ambr) ++
  opt_layout v.(upd_bearer_req_chg_rptng_act) ++
  opt_layout v.(upd_bearer_req_csg_info_rptng_act) ++
  opt_layout v.(upd_bearer_req_henb_info_rptng) ++
  opt_layout v.(upd_bearer_req_indctn_flgs) ++
  opt_layout v.(upd_bearer_req_pgw_fqcsid) ++
  opt_layout v.(upd_bearer_req_sgw_fqcsid) ++
  opt_layout v.(upd_bearer_req_pres_rptng_area_act) ++
  opt_layout v.(upd_bearer_req_pgws_node_lvl_load_ctl_info) ++
  opt_layout v.(upd_bearer_req_pgws_apn_lvl_load_ctl_info) ++
  opt_layout v.(upd_bearer_req_sgws_node_lvl_load_ctl_info) ++
  opt_layout v.(upd_bearer_req_pgws_ovrld_ctl_info) ++
  opt_layout v.(upd_bearer_req_sgws_ovrld_ctl_info) ++
  opt_layout v.(upd_bearer_req_nbifom_cntnr) ++
  opt_layout v.(upd_bearer_req_priv_ext) ++
  [].
Definition upd_bearer_req_good (v : upd_bearer_req_t) : Prop :=
  gtp_message_good v.(upd_bearer_req_header) (upd_bearer_req_body v) ∧
  arr_good MAX_BEARERS_PER_UE (GTP_IE_BEARER_CONTEXT, GTP_IE_INSTANCE_ZERO) v.(upd_bearer_req_bearer_context_count) v.(upd_bearer_req_bearer_contexts) ∧
  opt_good (GTP_IE_PROC_TRANS_ID, GTP_IE_INSTANCE_ZERO) v.(upd_bearer_req_pti) ∧
  opt_good (GTP_IE_PROT_CFG_OPTS, GTP_IE_INSTANCE_ZERO) v.(upd_bearer_req_pco) ∧
  opt_good (GTP_IE_AGG_MAX_BIT_RATE, GTP_IE_INSTANCE_ZERO) v.(upd_bearer_req_apn_ambr) ∧
  opt_good (GTP_IE_CHG_RPTNG_ACT, GTP_IE_INSTANCE_ZERO) v.(upd_bearer_req_chg_rptng_act) ∧
  opt_good (GTP_IE_CSG_INFO_RPTNG_ACT, GTP_IE_INSTANCE_ZERO) v.(upd_bearer_req_csg_info_rptng_act) ∧
  opt_good (GTP_IE_HENB_INFO_RPTNG, GTP_IE_INSTANCE_ZERO) v.(upd_bearer_req_henb_info_rptng) ∧
  opt_good (GTP_IE_INDICATION, GTP_IE_INSTANCE_ZERO) v.(upd_bearer_req_indctn_flgs) ∧
  opt_good (GTP_IE_FQCSID, GTP_IE_INSTANCE_ZERO) v.(upd_bearer_req_pgw_fqcsid) ∧
  opt_good (GTP_IE_FQCSID, GTP_IE_INSTANCE_ONE) v.(upd_bearer_req_sgw_fqcsid) ∧
  opt_good (GTP_IE_PRES_RPTNG_AREA_ACT, GTP_IE_INSTANCE_ZERO) v.(upd_bearer_req_pres_rptng_area_act) ∧
  opt_good (GTP_IE_LOAD_CTL_INFO, GTP_IE_INSTANCE_ZERO) v.(upd_bearer_req_pgws_node_lvl_load_ctl_info) ∧
  opt_good (GTP_IE_LOAD_CTL_INFO, GTP_IE_INSTANCE_ONE) v.(upd_bearer_req_pgws_apn_lvl_load_ctl_info) ∧
  opt_good (GTP_IE_LOAD_CTL_INFO, GTP_IE_INSTANCE_TWO) v.(upd_bearer_req_sgws_node_lvl_load_ctl_info) ∧
  opt_good (GTP_IE_OVRLD_CTL_INFO, GTP_IE_INSTANCE_ZERO) v.(upd_bearer_req_pgws_ovrld_ctl_info) ∧
  opt_good (GTP_IE_OVRLD_CTL_INFO, GTP_IE_INSTANCE_ONE) v.(upd_bearer_req_sgws_ovrld_ctl_info) ∧
  opt_good (GTP_IE_FULL_QUAL_CNTNR, GTP_IE_INSTANCE_ZERO) v.(upd_bearer_req_nbifom_cntnr) ∧
  opt_good (GTP_IE_PRIV_EXT, GTP_IE_INSTANCE_ZERO) v.(upd_bearer_req_priv_ext).
Definition upd_bearer_req_layout (v : upd_bearer_req_t) : layout := layout_gtpv2c_header v.(upd_bearer_req_header) ++ upd_bearer_req_body v.
Lemma upd_bearer_req_encodes v : upd_bearer_req_good v -> encodes (encode_upd_bearer_req v) (upd_bearer_req_layout v) (size (upd_bearer_req_layout v) / 8).
Proof.
  intros Hg; unfold upd_bearer_req_good in Hg; destruct_and! Hg.
  apply (encodes_enc_bits 8); [by right|]. apply places_gtp_header. unfold upd_bearer_req_body.
  place_members ltac:(gtp_member).
Qed.
Lemma upd_bearer_req_decodes v : upd_bearer_req_good v ->
  decodes (decode_upd_bearer_req zero_upd_bearer_req) (upd_bearer_req_layout v) (size (upd_bearer_req_body v) / 8) v.
Proof.
  intros Hg; unfold upd_bearer_req_good in Hg; destruct_and! Hg. apply decodes_gtp_message; [reflexivity|assumption|]. unfold upd_bearer_req_body.
  repeat read_member. read_members (GTP_IE_BEARER_CONTEXT, GTP_IE_INSTANCE_ZERO) 32 MAX_BEARERS_PER_UE upd_bearer_req_bearer_contexts upd_bearer_req_bearer_context_count set_upd_bearer_req_bearer_contexts set_upd_bearer_req_bearer_context_count.
  read_rest v.
Qed.

(** [upd_bearer_rsp_t] *)
Definition upd_bearer_rsp_body (v : upd_bearer_rsp_t) : layout :=
  opt_layout v.(upd_bearer_rsp_cause) ++
  arr_layout v.(upd_bearer_rsp_bearer_context_count) v.(upd_bearer_rsp_bearer_contexts) ++
  opt_layout v.(upd_bearer_rsp_pco) ++
  opt_layout v.(upd_bearer_rsp_recovery) ++
  opt_layout v.(upd_bearer_rsp_mme_fqcsid) ++
  opt_layout v.(upd_bearer_rsp_sgw_fqcsid) ++
  opt_layout v.(upd_bearer_rsp_epdg_fqcsid) ++
  opt_layout v.(upd_bearer_rsp_twan_fqcsid) ++
  opt_layout v.(upd_bearer_rsp_indctn_flgs) ++
  opt_layout v.(upd_bearer_rsp_ue_time_zone) ++
  opt_layout v.(upd_bearer_rsp_uli) ++
  opt_layout v.(upd_bearer_rsp_mmes4_sgsns_ovrld_ctl_info) ++
  opt_layout v.(upd_bearer_rsp_sgws_ovrld_ctl_info) ++
  opt_layout v.(upd_bearer_rsp_twanepdgs_ovrld_ctl_info) ++
  opt_layout v.(upd_bearer_rsp_wlan_loc_ts) ++
  opt_layout v.(upd_bearer_rsp_ue_udp_port) ++
  opt_layout v.(upd_bearer_rsp_nbifom_cntnr) ++
  opt_layout v.(upd_bearer_rsp_ue_tcp_port) ++
  opt_layout v.(upd_bearer_rsp_priv_ext) ++
  [].
Definition upd_bearer_rsp_good (v : upd_bearer_rsp_t) : Prop :=
  gtp_message_good v.(upd_bearer_rsp_header) (upd_bearer_rsp_body v) ∧
  opt_good (GTP_IE_CAUSE, GTP_IE_INSTANCE_ZERO) v.(upd_bearer_rsp_cause) ∧
  arr_good MAX_BEARERS_PER_UE (GTP_IE_BEARER_CONTEXT, GTP_IE_INSTANCE_ZERO) v.(upd_bearer_rsp_bearer_context_count) v.(upd_bearer_rsp_bearer_contexts) ∧
  opt_good (GTP_IE_PROT_CFG_OPTS, GTP_IE_INSTANCE_ZERO) v.(upd_bearer_rsp_pco) ∧
  opt_good (GTP_IE_RECOVERY, GTP_IE_INSTANCE_ZERO) v.(upd_bearer_rsp_recovery) ∧
  opt_good (GTP_IE_FQCSID, GTP_IE_INSTANCE_ZERO) v.(upd_bearer_rsp_mme_fqcsid) ∧
  opt_good (GTP_IE_FQCSID, GTP_IE_INSTANCE_ONE) v.(upd_bearer_rsp_sgw_fqcsid) ∧
  opt_good (GTP_IE_FQCSID, GTP_IE_INSTANCE_TWO) v.(upd_bearer_rsp_epdg_fqcsid) ∧
  opt_good (GTP_IE_FQCSID, GTP_IE_INSTANCE_THREE) v.(upd_bearer_rsp_twan_fqcsid) ∧
  opt_good (GTP_IE_INDICATION, GTP_IE_INSTANCE_ZERO) v.(upd_bearer_rsp_indctn_flgs) ∧
  opt_good (GTP_IE_UE_TIME_ZONE, GTP_IE_INSTANCE_ZERO) v.(upd_bearer_rsp_ue_time_zone) ∧
  opt_good (GTP_IE_USER_LOC_INFO, GTP_IE_INSTANCE_ZERO) v.(upd_bearer_rsp_uli) ∧
  opt_good (GTP_IE_OVRLD_CTL_INFO, GTP_IE_INSTANCE_ZERO) v.(upd_bearer_rsp_mmes4_sgsns_ovrld_ctl_info) ∧
  opt_good (GTP_IE_OVRLD_CTL_INFO, GTP_IE_INSTANCE_ONE) v.(upd_bearer_rsp_sgws_ovrld_ctl_info) ∧
  opt_good (GTP_IE_OVRLD_CTL_INFO, GTP_IE_INSTANCE_TWO) v.(upd_bearer_rsp_twanepdgs_ovrld_ctl_info) ∧
  opt_good (GTP_IE_TWAN_IDNT_TS, GTP_IE_INSTANCE_ONE) v.(upd_bearer_rsp_wlan_loc_ts) ∧
  opt_good (GTP_IE_PORT_NUMBER, GTP_IE_INSTANCE_ZERO) v.(upd_bearer_rsp_ue_udp_port) ∧
  opt_good (GTP_IE_FULL_QUAL_CNTNR, GTP_IE_INSTANCE_ZERO) v.(upd_bearer_rsp_nbifom_cntnr) ∧
  opt_good (GTP_IE_PORT_NUMBER, GTP_IE_INSTANCE_ONE) v.(upd_bearer_rsp_ue_tcp_port) ∧
  opt_good (GTP_IE_PRIV_EXT, GTP_IE_INSTANCE_ZERO) v.(upd_bearer_rsp_priv_ext) ∧
  v.(upd_bearer_rsp_twan_identifier) = zero_gtp_twan_identifier ∧
  v.(upd_bearer_rsp_pres_rptng_area_info) = zero_gtp_pres_rptng_area_info ∧
  v.(upd_bearer_rsp_mmes4_sgsn_idnt) = zero_gtp_ip_address ∧
  v.(upd_bearer_rsp_wlan_loc_info) = zero_gtp_twan_identifier ∧
  v.(upd_bearer_rsp_ue_local_ip_addr) = zero_gtp_ip_address.
Definition upd_bearer_rsp_layout (v : upd_bearer_rsp_t) : layout := layout_gtpv2c_header v.(upd_bearer_rsp_header) ++ upd_bearer_rsp_body v.
Lemma upd_bearer_rsp_encodes v : upd_bearer_rsp_good v -> encodes (encode_upd_bearer_rsp v) (upd_bearer_rsp_layout v) (size (upd_bearer_rsp_layout v) / 8).
Proof.
  intros Hg; unfold upd_bearer_rsp_good in Hg; destruct_and! Hg.
  apply (encodes_enc_bits 8); [by right|]. apply places_gtp_header. unfold upd_bearer_rsp_body.
  place_members ltac:(gtp_member).
Qed.
Lemma upd_bearer_rsp_decodes v : upd_bearer_rsp_good v ->
  decodes (decode_upd_bearer_rsp zero_upd_bearer_rsp) (upd_bearer_rsp_layout v) (size (upd_bearer_rsp_body v) / 8) v.
Proof.
  intros Hg; unfold upd_bearer_rsp_good in Hg; destruct_and! Hg. apply decodes_gtp_message; [reflexivity|assumption|]. unfold upd_bearer_rsp_body.
  repeat read_member. read_members (GTP_IE_BEARER_CONTEXT, GTP_IE_INSTANCE_ZERO) 32 MAX_BEARERS_PER_UE upd_bearer_rsp_bearer_contexts upd_bearer_rsp_bearer_context_count set_upd_bearer_rsp_bearer_contexts set_upd_bearer_rsp_bearer_context_count.
  read_rest v.
Qed.

(** [del_bearer_cmd_t] *)
Definition del_bearer_cmd_body (v : del_bearer_cmd_t) : layout :=
  arr_layout v.(del_bearer_cmd_bearer_count) v.(del_bearer_cmd_bearer_contexts) ++
  opt_layout v.(del_bearer_cmd_uli) ++
  opt_layout v.(del_bearer_cmd_uli_timestamp) ++
  opt_layout v.(del_bearer_cmd_ue_time_zone) ++
  opt_layout v.(del_bearer_cmd_mmes4_sgsns_ovrld_ctl_info) ++
  opt_layout v.(del_bearer_cmd_sgws_ovrld_ctl_info) ++
  opt_layout v.(del_bearer_cmd_sender_fteid_ctl_plane) ++
  opt_layout v.(del_bearer_cmd_secdry_rat_usage_data_rpt) ++
  opt_layout v.(del_bearer_cmd_priv_ext) ++
  [].
Definition del_bearer_cmd_good (v : del_bearer_cmd_t) : Prop :=
  gtp_message_good v.(del_bearer_cmd_header) (del_bearer_cmd_body v) ∧
  arr_good MAX_BEARER (GTP_IE_BEARER_CONTEXT, GTP_IE_INSTANCE_ZERO) v.(del_bearer_cmd_bearer_count) v.(del_bearer_cmd_bearer_contexts) ∧
  opt_good (GTP_IE_USER_LOC_INFO, GTP_IE_INSTANCE_ZERO) v.(del_bearer_cmd_uli) ∧
  opt_good (GTP_IE_ULI_TIMESTAMP, GTP_IE_INSTANCE_ZERO) v.(del_bearer_cmd_uli_timestamp) ∧
  opt_good (GTP_IE_UE_TIME_ZONE, GTP_IE_INSTANCE_ZERO) v.(del_bearer_cmd_ue_time_zone) ∧
  opt_good (GTP_IE_OVRLD_CTL_INFO, GTP_IE_INSTANCE_ZERO) v.(del_bearer_cmd_mmes4_sgsns_ovrld_ctl_info) ∧
  opt_good (GTP_IE_OVRLD_CTL_INFO, GTP_IE_INSTANCE_ONE) v.(del_bearer_cmd_sgws_ovrld_ctl_info) ∧
  opt_good (GTP_IE_FULLY_QUAL_TUNN_ENDPT_IDNT, GTP_IE_INSTANCE_ZERO) v.(del_bearer_cmd_sender_fteid_ctl_plane) ∧
  opt_good (GTP_IE_SECDRY_RAT_USAGE_DATA_RPT, GTP_IE_INSTANCE_ZERO) v.(del_bearer_cmd_secdry_rat_usage_data_rpt) ∧
  opt_good (GTP_IE_PRIV_EXT, GTP_IE_INSTANCE_ZERO) v.(del_bearer_cmd_priv_ext).
Definition del_bearer_cmd_layout (v : del_bearer_cmd_t) : layout := layout_gtpv2c_header v.(del_bearer_cmd_header) ++ del_bearer_cmd_body v.
Lemma del_bearer_cmd_encodes v : del_bearer_cmd_good v -> encodes (encode_del_bearer_cmd v) (del_bearer_cmd_layout v) (size (del_bearer_cmd_layout v) / 8).
Proof.
  intros Hg; unfold del_bearer_cmd_good in Hg; destruct_and! Hg.
  apply (encodes_enc_bits 8); [by right|]. apply places_gtp_header. unfold del_bearer_cmd_body.
  place_members ltac:(gtp_member).
Qed.
Lemma del_bearer_cmd_decodes v : del_bearer_cmd_good v ->
  decodes (decode_del_bearer_cmd zero_del_bearer_cmd) (del_bearer_cmd_layout v) (size (del_bearer_cmd_body v) / 8) v.
Proof.
  intros Hg; unfold del_bearer_cmd_good in Hg; destruct_and! Hg. apply decodes_gtp_message; [reflexivity|assumption|]. unfold del_bearer_cmd_body.
  repeat read_member. read_members (GTP_IE_BEARER_CONTEXT, GTP_IE_INSTANCE_ZERO) 8 MAX_BEARER del_bearer_cmd_bearer_contexts del_bearer_cmd_bearer_count set_del_bearer_cmd_bearer_contexts set_del_bearer_cmd_bearer_count.
  read_rest v.
Qed.

(** [del_bearer_fail_indctn_t] *)
Definition del_bearer_fail_indctn_body (v : del_bearer_fail_indctn_t) : layout :=
  opt_layout v.(del_bearer_fail_indctn_cause) ++
  opt_layout v.(del_bearer_fail_indctn_recovery) ++
  opt_layout v.(del_bearer_fail_indctn_indctn_flgs) ++
  opt_layout v.(del_bearer_fail_indctn_pgws_ovrld_ctl_info) ++
  opt_layout v.(del_bearer_fail_indctn_sgws_ovrld_ctl_info) ++
  opt_layout v.(del_bearer_fail_indctn_priv_ext) ++
  [].
Definition del_bearer_fail_indctn_good (v : del_bearer_fail_indctn_t) : Prop :=
  gtp_message_good v.(del_bearer_fail_indctn_header) (del_bearer_fail_indctn_body v) ∧
  opt_good (GTP_IE_CAUSE, GTP_IE_INSTANCE_ZERO) v.(del_bearer_fail_indctn_cause) ∧
  opt_good (GTP_IE_RECOVERY, GTP_IE_INSTANCE_ZERO) v.(del_bearer_fail_indctn_recovery) ∧
  opt_good (GTP_IE_INDICATION, GTP_IE_INSTANCE_ZERO) v.(del_bearer_fail_indctn_indctn_flgs) ∧
  opt_good (GTP_IE_OVRLD_CTL_INFO, GTP_IE_INSTANCE_ZERO) v.(del_bearer_fail_indctn_pgws_ovrld_ctl_info) ∧
  opt_good (GTP_IE_OVRLD_CTL_INFO, GTP_IE_INSTANCE_ONE) v.(del_bearer_fail_indctn_sgws_ovrld_ctl_info) ∧
  opt_good (GTP_IE_PRIV_EXT, GTP_IE_INSTANCE_ZERO) v.(del_bearer_fail_indctn_priv_ext) ∧
  v.(del_bearer_fail_indctn_bearer_context) = zero_gtp_bearer_context.
Definition del_bearer_fail_indctn_layout (v : del_bearer_fail_indctn_t) : layout := layout_gtpv2c_header v.(del_bearer_fail_indctn_header) ++ del_bearer_fail_indctn_body v.
Lemma del_bearer_fail_indctn_encodes v : del_bearer_fail_indctn_good v -> encodes (encode_del_bearer_fail_indctn v) (del_bearer_fail_indctn_layout v) (size (del_bearer_fail_indctn_layout v) / 8).
Proof.
  intros Hg; unfold del_bearer_fail_indctn_good in Hg; destruct_and! Hg.
  apply (encodes_enc_bits 8); [by right|]. apply places_gtp_header. unfold del_bearer_fail_indctn_body.
  place_members ltac:(gtp_member).
Qed.
Lemma del_bearer_fail_indctn_decodes v : del_bearer_fail_indctn_good v ->
  decodes (decode_del_bearer_fail_indctn zero_del_bearer_fail_indctn) (del_bearer_fail_indctn_layout v) (size (del_bearer_fail_indctn_body v) / 8) v.
Proof.
  intros Hg; unfold del_bearer_fail_indctn_good in Hg; destruct_and! Hg. apply decodes_gtp_message; [reflexivity|assumption|]. unfold del_bearer_fail_indctn_body.
  read_rest v.
Qed.

(** [create_indir_data_fwdng_tunn_req_t] *)
Definition create_indir_data_fwdng_tunn_req_body (v : create_indir_data_fwdng_tunn_req_t) : layout :=
  opt_layout v.(create_indir_data_fwdng_tunn_req_imsi) ++
  opt_layout v.(create_indir_data_fwdng_tunn_req_mei) ++
  opt_layout v.(create_indir_data_fwdng_tunn_req_indctn_flgs) ++
  opt_layout v.(create_indir_data_fwdng_tunn_req_sender_fteid_ctl_plane) ++
  opt_layout v.(create_indir_data_fwdng_tunn_req_recovery) ++
  opt_layout v.(create_indir_data_fwdng_tunn_req_priv_ext) ++
  [].
Definition create_indir_data_fwdng_tunn_req_good (v : create_indir_data_fwdng_tunn_req_t) : Prop :=
  gtp_message_good v.(create_indir_data_fwdng_tunn_req_header) (create_indir_data_fwdng_tunn_req_body v) ∧
  opt_good (GTP_IE_IMSI, GTP_IE_INSTANCE_ZERO) v.(create_indir_data_fwdng_tunn_req_imsi) ∧
  opt_good (GTP_IE_MBL_EQUIP_IDNTY, GTP_IE_INSTANCE_ZERO) v.(create_indir_data_fwdng_tunn_req_mei) ∧
  opt_good (GTP_IE_INDICATION, GTP_IE_INSTANCE_ZERO) v.(create_indir_data_fwdng_tunn_req_indctn_flgs) ∧
  opt_good (GTP_IE_FULLY_QUAL_TUNN_ENDPT_IDNT, GTP_IE_INSTANCE_ZERO) v.(create_indir_data_fwdng_tunn_req_sender_fteid_ctl_plane) ∧
  opt_good (GTP_IE_RECOVERY, GTP_IE_INSTANCE_ZERO) v.(create_indir_data_fwdng_tunn_req_recovery) ∧
  opt_good (GTP_IE_PRIV_EXT, GTP_IE_INSTANCE_ZERO) v.(create_indir_data_fwdng_tunn_req_priv_ext) ∧
  v.(create_indir_data_fwdng_tunn_req_bearer_contexts) = zero_gtp_bearer_context.
Definition create_indir_data_fwdng_tunn_req_layout (v : create_indir_data_fwdng_tunn_req_t) : layout := layout_gtpv2c_header v.(create_indir_data_fwdng_tunn_req_header) ++ create_indir_data_fwdng_tunn_req_body v.
Lemma create_indir_data_fwdng_tunn_req_encodes v : create_indir_data_fwdng_tunn_req_good v -> encodes (encode_create_indir_data_fwdng_tunn_req v) (create_indir_data_fwdng_tunn_req_layout v) (size (create_indir_data_fwdng_tunn_req_layout v) / 8).
Proof.
  intros Hg; unfold create_indir_data_fwdng_tunn_req_good in Hg; destruct_and! Hg.
  apply (encodes_enc_bits 8); [by right|]. apply places_gtp_header. unfold create_indir_data_fwdng_tunn_req_body.
  place_members ltac:(gtp_member).
Qed.
Lemma create_indir_data_fwdng_tunn_req_decodes v : create_indir_data_fwdng_tunn_req_good v ->
  decodes (decode_create_indir_data_fwdng_tunn_req zero_create_indir_data_fwdng_tunn_req) (create_indir_data_fwdng_tunn_req_layout v) (size (create_indir_data_fwdng_tunn_req_body v) / 8) v.
Proof.
  intros Hg; unfold create_indir_data_fwdng_tunn_req_good in Hg; destruct_and! Hg. apply decodes_gtp_message; [reflexivity|assumption|]. unfold create_indir_data_fwdng_tunn_req_body.
  read_rest v.
Qed.

(** [create_indir_data_fwdng_tunn_rsp_t] *)
Definition create_indir_data_fwdng_tunn_rsp_body (v : create_indir_data_fwdng_tunn_rsp_t) : layout :=
  opt_layout v.(create_indir_data_fwdng_tunn_rsp_cause) ++
  opt_layout v.(create_indir_data_fwdng_tunn_rsp_sender_fteid_ctl_plane) ++
  opt_layout v.(create_indir_data_fwdng_tunn_rsp_recovery) ++
  opt_layout v.(create_indir_data_fwdng_tunn_rsp_priv_ext) ++
  [].
Definition create_indir_data_fwdng_tunn_rsp_good (v : create_indir_data_fwdng_tunn_rsp_t) : Prop :=
  gtp_message_good v.(create_indir_data_fwdng_tunn_rsp_header) (create_indir_data_fwdng_tunn_rsp_body v) ∧
  opt_good (GTP_IE_CAUSE, GTP_IE_INSTANCE_ZERO) v.(create_indir_data_fwdng_tunn_rsp_cause) ∧
  opt_good (GTP_IE_FULLY_QUAL_TUNN_ENDPT_IDNT, GTP_IE_INSTANCE_ZERO) v.(create_indir_data_fwdng_tunn_rsp_sender_fteid_ctl_plane) ∧
  opt_good (GTP_IE_RECOVERY, GTP_IE_INSTANCE_ZERO) v.(create_indir_data_fwdng_tunn_rsp_recovery) ∧
  opt_good (GTP_IE_PRIV_EXT, GTP_IE_INSTANCE_ZERO) v.(create_indir_data_fwdng_tunn_rsp_priv_ext) ∧
  v.(create_indir_data_fwdng_tunn_rsp_bearer_contexts) = zero_gtp_bearer_context.
Definition create_indir_data_fwdng_tunn_rsp_layout (v : create_indir_data_fwdng_tunn_rsp_t) : layout := layout_gtpv2c_header v.(create_indir_data_fwdng_tunn_rsp_header) ++ create_indir_data_fwdng_tunn_rsp_body v.
Lemma create_indir_data_fwdng_tunn_rsp_encodes v : create_indir_data_fwdng_tunn_rsp_good v -> encodes (encode_create_indir_data_fwdng_tunn_rsp v) (create_indir_data_fwdng_tunn_rsp_layout v) (size (create_indir_data_fwdng_tunn_rsp_layout v) / 8).
Proof.
  intros Hg; unfold create_indir_data_fwdng_tunn_rsp_good in Hg; destruct_and! Hg.
  apply (encodes_enc_bits 8); [by right|]. apply places_gtp_header. unfold create_indir_data_fwdng_tunn_rsp_body.
  place_members ltac:(gtp_member).
Qed.
Lemma create_indir_data_fwdng_tunn_rsp_decodes v : create_indir_data_fwdng_tunn_rsp_good v ->
  decodes (decode_create_indir_data_fwdng_tunn_rsp zero_create_indir_data_fwdng_tunn_rsp) (create_indir_data_fwdng_tunn_rsp_layout v) (size (create_indir_data_fwdng_tunn_rsp_body v) / 8) v.
Proof.
  intros Hg; unfold create_indir_data_fwdng_tunn_rsp_good in Hg; destruct_and! Hg. apply decodes_gtp_message; [reflexivity|assumption|]. unfold create_indir_data_fwdng_tunn_rsp_body.
  read_rest v.
Qed.

(** [stop_paging_indctn_t] *)
Definition stop_paging_indctn_body (v : stop_paging_indctn_t) : layout :=
  opt_layout v.(stop_paging_indctn_imsi) ++
  opt_layout v.(stop_paging_indctn_priv_ext) ++
  [].
Definition stop_paging_indctn_good (v : stop_paging_indctn_t) : Prop :=
  gtp_message_good v.(stop_paging_indctn_header) (stop_paging_indctn_body v) ∧
  opt_good (GTP_IE_IMSI, GTP_IE_INSTANCE_ZERO) v.(stop_paging_indctn_imsi) ∧
  opt_good (GTP_IE_PRIV_EXT, GTP_IE_INSTANCE_ZERO) v.(stop_paging_indctn_priv_ext).
Definition stop_paging_indctn_layout (v : stop_paging_indctn_t) : layout := layout_gtpv2c_header v.(stop_paging_indctn_header) ++ stop_paging_indctn_body v.
Lemma stop_paging_indctn_encodes v : stop_paging_indctn_good v -> encodes (encode_stop_paging_indctn v) (stop_paging_indctn_layout v) (size (stop_paging_indctn_layout v) / 8).
Proof.
  intros Hg; unfold stop_paging_indctn_good in Hg; destruct_and! Hg.
  apply (encodes_enc_bits 8); [by right|]. apply places_gtp_header. unfold stop_paging_indctn_body.
  place_members ltac:(gtp_member).
Qed.
Lemma stop_paging_indctn_decodes v : stop_paging_indctn_good v ->
  decodes (decode_stop_paging_indctn zero_stop_paging_indctn) (stop_paging_indctn_layout v) (size (stop_paging_indctn_body v) / 8) v.
Proof.
  intros Hg; unfold stop_paging_indctn_good in Hg; destruct_and! Hg. apply decodes_gtp_message; [reflexivity|assumption|]. unfold stop_paging_indctn_body.
  read_rest v.
Qed.

(** [mod_acc_bearers_req_t] *)
Definition mod_acc_bearers_req_body (v : mod_acc_bearers_req_t) : layout :=
  opt_layout v.(mod_acc_bearers_req_indctn_flgs) ++
  opt_layout v.(mod_acc_bearers_req_sender_fteid_ctl_plane) ++
  opt_layout v.(mod_acc_bearers_req_delay_dnlnk_pckt_notif_req) ++
  opt_layout v.(mod_acc_bearers_req_recovery) ++
  opt_layout v.(mod_acc_bearers_req_secdry_rat_usage_data_rpt) ++
  opt_layout v.(mod_acc_bearers_req_priv_ext) ++
  [].
Definition mod_acc_bearers_req_good (v : mod_acc_bearers_req_t) : Prop :=
  gtp_message_good v.(mod_acc_bearers_req_header) (mod_acc_bearers_req_body v) ∧
  opt_good (GTP_IE_INDICATION, GTP_IE_INSTANCE_ZERO) v.(mod_acc_bearers_req_indctn_flgs) ∧
  opt_good (GTP_IE_FULLY_QUAL_TUNN_ENDPT_IDNT, GTP_IE_INSTANCE_ZERO) v.(mod_acc_bearers_req_sender_fteid_ctl_plane) ∧
  opt_good (GTP_IE_DELAY_VALUE, GTP_IE_INSTANCE_ZERO) v.(mod_acc_bearers_req_delay_dnlnk_pckt_notif_req) ∧
  opt_good (GTP_IE_RECOVERY, GTP_IE_INSTANCE_ZERO) v.(mod_acc_bearers_req_recovery) ∧
  opt_good (GTP_IE_SECDRY_RAT_USAGE_DATA_RPT, GTP_IE_INSTANCE_ZERO) v.(mod_acc_bearers_req_secdry_rat_usage_data_rpt) ∧
  opt_good (GTP_IE_PRIV_EXT, GTP_IE_INSTANCE_ZERO) v.(mod_acc_bearers_req_priv_ext) ∧
  v.(mod_acc_bearers_req_bearer_contexts_to_be_modified) = zero_gtp_bearer_context ∧
  v.(mod_acc_bearers_req_bearer_contexts_to_be_removed) = zero_gtp_bearer_context.
Definition mod_acc_bearers_req_layout (v : mod_acc_bearers_req_t) : layout := layout_gtpv2c_header v.(mod_acc_bearers_req_header) ++ mod_acc_bearers_req_body v.
Lemma mod_acc_bearers_req_encodes v : mod_acc_bearers_req_good v -> encodes (encode_mod_acc_bearers_req v) (mod_acc_bearers_req_layout v) (size (mod_acc_bearers_req_layout v) / 8).
Proof.
  intros Hg; unfold mod_acc_bearers_req_good in Hg; destruct_and! Hg.
  apply (encodes_enc_bits 8); [by right|]. apply places_gtp_header. unfold mod_acc_bearers_req_body.
  place_members ltac:(gtp_member).
Qed.
Lemma mod_acc_bearers_req_decodes v : mod_acc_bearers_req_good v ->
  decodes (decode_mod_acc_bearers_req zero_mod_acc_bearers_req) (mod_acc_bearers_req_layout v) (size (mod_acc_bearers_req_body v) / 8) v.
Proof.
  intros Hg; unfold mod_acc_bearers_req_good in Hg; destruct_and! Hg. apply decodes_gtp_message; [reflexivity|assumption|]. unfold mod_acc_bearers_req_body.
  read_rest v.
Qed.

(** [mod_acc_bearers_rsp_t] *)
Definition mod_acc_bearers_rsp_body (v : mod_acc_bearers_rsp_t) : layout :=
  opt_layout v.(mod_acc_bearers_rsp_cause) ++
  opt_layout v.(mod_acc_bearers_rsp_recovery) ++
  opt_layout v.(mod_acc_bearers_rsp_indctn_flgs) ++
  opt_layout v.(mod_acc_bearers_rsp_sgws_node_lvl_load_ctl_info) ++
  opt_layout v.(mod_acc_bearers_rsp_sgws_ovrld_ctl_info) ++
  opt_layout v.(mod_acc_bearers_rsp_priv_ext) ++
  [].
Definition mod_acc_bearers_rsp_good (v : mod_acc_bearers_rsp_t) : Prop :=
  gtp_message_good v.(mod_acc_bearers_rsp_header) (mod_acc_bearers_rsp_body v) ∧
  opt_good (GTP_IE_CAUSE, GTP_IE_INSTANCE_ZERO) v.(mod_acc_bearers_rsp_cause) ∧
  opt_good (GTP_IE_RECOVERY, GTP_IE_INSTANCE_ZERO) v.(mod_acc_bearers_rsp_recovery) ∧
  opt_good (GTP_IE_INDICATION, GTP_IE_INSTANCE_ZERO) v.(mod_acc_bearers_rsp_indctn_flgs) ∧
  opt_good (GTP_IE_LOAD_CTL_INFO, GTP_IE_INSTANCE_ZERO) v.(mod_acc_bearers_rsp_sgws_node_lvl_load_ctl_info) ∧
  opt_good (GTP_IE_OVRLD_CTL_INFO, GTP_IE_INSTANCE_ZERO) v.(mod_acc_bearers_rsp_sgws_ovrld_ctl_info) ∧
  opt_good (GTP_IE_PRIV_EXT, GTP_IE_INSTANCE_ZERO) v.(mod_acc_bearers_rsp_priv_ext) ∧
  v.(mod_acc_bearers_rsp_bearer_contexts_modified) = zero_gtp_bearer_context ∧
  v.(mod_acc_bearers_rsp_bearer_contexts_marked_removal) = zero_gtp_bearer_context.
Definition mod_acc_bearers_rsp_layout (v : mod_acc_bearers_rsp_t) : layout := layout_gtpv2c_header v.(mod_acc_bearers_rsp_header) ++ mod_acc_bearers_rsp_body v.
Lemma mod_acc_bearers_rsp_encodes v : mod_acc_bearers_rsp_good v -> encodes (encode_mod_acc_bearers_rsp v) (mod_acc_bearers_rsp_layout v) (size (mod_acc_bearers_rsp_layout v) / 8).
Proof.
  intros Hg; unfold mod_acc_bearers_rsp_good in Hg; destruct_and! Hg.
  apply (encodes_enc_bits 8); [by right|]. apply places_gtp_header. unfold mod_acc_bearers_rsp_body.
  place_members ltac:(gtp_member).
Qed.
Lemma mod_acc_bearers_rsp_decodes v : mod_acc_bearers_rsp_good v ->
  decodes (decode_mod_acc_bearers_rsp zero_mod_acc_bearers_rsp) (mod_acc_bearers_rsp_layout v) (size (mod_acc_bearers_rsp_body v) / 8) v.
Proof.
  intros Hg; unfold mod_acc_bearers_rsp_good in Hg; destruct_and! Hg. apply decodes_gtp_message; [reflexivity|assumption|]. unfold mod_acc_bearers_rsp_body.
  read_rest v.
Qed.

(** [rmt_ue_rpt_notif_t] *)
Definition rmt_ue_rpt_notif_body (v : rmt_ue_rpt_notif_t) : layout :=
  opt_layout v.(rmt_ue_rpt_notif_priv_ext) ++
  [].
Definition rmt_ue_rpt_notif_good (v : rmt_ue_rpt_notif_t) : Prop :=
  gtp_message_good v.(rmt_ue_rpt_notif_header) (rmt_ue_rpt_notif_body v) ∧
  opt_good (GTP_IE_PRIV_EXT, GTP_IE_INSTANCE_ZERO) v.(rmt_ue_rpt_notif_priv_ext) ∧
  v.(rmt_ue_rpt_notif_rmt_ue_ctxt_connected) = zero_gtp_rmt_ue_ctxt ∧
  v.(rmt_ue_rpt_notif_rmt_ue_ctxt_disconnected) = zero_gtp_rmt_ue_ctxt.
Definition rmt_ue_rpt_notif_layout (v : rmt_ue_rpt_notif_t) : layout := layout_gtpv2c_header v.(rmt_ue_rpt_notif_header) ++ rmt_ue_rpt_notif_body v.
Lemma rmt_ue_rpt_notif_encodes v : rmt_ue_rpt_notif_good v -> encodes (encode_rmt_ue_rpt_notif v) (rmt_ue_rpt_notif_layout v) (size (rmt_ue_rpt_notif_layout v) / 8).
Proof.
  intros Hg; unfold rmt_ue_rpt_notif_good in Hg; destruct_and! Hg.
  apply (encodes_enc_bits 8); [by right|]. apply places_gtp_header. unfold rmt_ue_rpt_notif_body.
  place_members ltac:(gtp_member).
Qed.
Lemma rmt_ue_rpt_notif_decodes v : rmt_ue_rpt_notif_good v ->
  decodes (decode_rmt_ue_rpt_notif zero_rmt_ue_rpt_notif) (rmt_ue_rpt_notif_layout v) (size (rmt_ue_rpt_notif_body v) / 8) v.
Proof.
  intros Hg; unfold rmt_ue_rpt_notif_good in Hg; destruct_and! Hg. apply decodes_gtp_message; [reflexivity|assumption|]. unfold rmt_ue_rpt_notif_body.
  read_rest v.
Qed.

(** [rmt_ue_rpt_ack_t] *)
Definition rmt_ue_rpt_ack_body (v : rmt_ue_rpt_ack_t) : layout :=
  opt_layout v.(rmt_ue_rpt_ack_cause) ++
  opt_layout v.(rmt_ue_rpt_ack_priv_ext) ++
  [].
Definition rmt_ue_rpt_ack_good (v : rmt_ue_rpt_ack_t) : Prop :=
  gtp_message_good v.(rmt_ue_rpt_ack_header) (rmt_ue_rpt_ack_body v) ∧
  opt_good (GTP_IE_CAUSE, GTP_IE_INSTANCE_ZERO) v.(rmt_ue_rpt_ack_cause) ∧
  opt_good (GTP_IE_PRIV_EXT, GTP_IE_INSTANCE_ZERO) v.(rmt_ue_rpt_ack_priv_ext).
Definition rmt_ue_rpt_ack_layout (v : rmt_ue_rpt_ack_t) : layout := layout_gtpv2c_header v.(rmt_ue_rpt_ack_header) ++ rmt_ue_rpt_ack_body v.
Lemma rmt_ue_rpt_ack_encodes v : rmt_ue_rpt_ack_good v -> encodes (encode_rmt_ue_rpt_ack v) (rmt_ue_rpt_ack_layout v) (size (rmt_ue_rpt_ack_layout v) / 8).
Proof.
  intros Hg; unfold rmt_ue_rpt_ack_good in Hg; destruct_and! Hg.
  apply (encodes_enc_bits 8); [by right|]. apply places_gtp_header. unfold rmt_ue_rpt_ack_body.
  place_members ltac:(gtp_member).
Qed.
Lemma rmt_ue_rpt_ack_decodes v : rmt_ue_rpt_ack_good v ->
  decodes (decode_rmt_ue_rpt_ack zero_rmt_ue_rpt_ack) (rmt_ue_rpt_ack_layout v) (size (rmt_ue_rpt_ack_body v) / 8) v.
Proof.
  intros Hg; unfold rmt_ue_rpt_ack_good in Hg; destruct_and! Hg. apply decodes_gtp_message; [reflexivity|assumption|]. unfold rmt_ue_rpt_ack_body.
  read_rest v.
Qed.

(** [fwd_reloc_rsp_t] *)
Definition fwd_reloc_rsp_body (v : fwd_reloc_rsp_t) : layout :=
  opt_layout v.(fwd_reloc_rsp_cause) ++
  opt_layout v.(fwd_reloc_rsp_senders_fteid_ctl_plane) ++
  opt_layout v.(fwd_reloc_rsp_indctn_flgs) ++
  opt_layout v.(fwd_reloc_rsp_s1_ap_cause) ++
  opt_layout v.(fwd_reloc_rsp_ranap_cause) ++
  opt_layout v.(fwd_reloc_rsp_bssgp_cause) ++
  opt_layout v.(fwd_reloc_rsp_e_utran_transparent_cntnr) ++
  opt_layout v.(fwd_reloc_rsp_utran_transparent_cntnr) ++
  opt_layout v.(fwd_reloc_rsp_bss_container) ++
  opt_layout v.(fwd_reloc_rsp_mmes4_sgsn_ldn) ++
  opt_layout v.(fwd_reloc_rsp_sgsn_node_name) ++
  opt_layout v.(fwd_reloc_rsp_mme_node_name) ++
  opt_layout v.(fwd_reloc_rsp_sgsn_number) ++
  opt_layout v.(fwd_reloc_rsp_sgsn_identifier) ++
  opt_layout v.(fwd_reloc_rsp_mme_identifier) ++
  opt_layout v.(fwd_reloc_rsp_mme_nbr_mt_sms) ++
  opt_layout v.(fwd_reloc_rsp_sgsn_idnt_mt_sms) ++
  opt_layout v.(fwd_reloc_rsp_mme_idnt_mt_sms) ++
  opt_layout v.(fwd_reloc_rsp_priv_ext) ++
  [].
Definition fwd_reloc_rsp_good (v : fwd_reloc_rsp_t) : Prop :=
  gtp_message_good v.(fwd_reloc_rsp_header) (fwd_reloc_rsp_body v) ∧
  opt_good (GTP_IE_CAUSE, GTP_IE_INSTANCE_ZERO) v.(fwd_reloc_rsp_cause) ∧
  opt_good (GTP_IE_FULLY_QUAL_TUNN_ENDPT_IDNT, GTP_IE_INSTANCE_ZERO) v.(fwd_reloc_rsp_senders_fteid_ctl_plane) ∧
  opt_good (GTP_IE_INDICATION, GTP_IE_INSTANCE_ZERO) v.(fwd_reloc_rsp_indctn_flgs) ∧
  opt_good (GTP_IE_FULL_QUAL_CAUSE, GTP_IE_INSTANCE_ZERO) v.(fwd_reloc_rsp_s1_ap_cause) ∧
  opt_good (GTP_IE_FULL_QUAL_CAUSE, GTP_IE_INSTANCE_ONE) v.(fwd_reloc_rsp_ranap_cause) ∧
  opt_good (GTP_IE_FULL_QUAL_CAUSE, GTP_IE_INSTANCE_TWO) v.(fwd_reloc_rsp_bssgp_cause) ∧
  opt_good (GTP_IE_FULL_QUAL_CNTNR, GTP_IE_INSTANCE_ZERO) v.(fwd_reloc_rsp_e_utran_transparent_cntnr) ∧
  opt_good (GTP_IE_FULL_QUAL_CNTNR, GTP_IE_INSTANCE_ONE) v.(fwd_reloc_rsp_utran_transparent_cntnr) ∧
  opt_good (GTP_IE_FULL_QUAL_CNTNR, GTP_IE_INSTANCE_TWO) v.(fwd_reloc_rsp_bss_container) ∧
  opt_good (GTP_IE_LOCAL_DISTGSD_NAME, GTP_IE_INSTANCE_ZERO) v.(fwd_reloc_rsp_mmes4_sgsn_ldn) ∧
  opt_good (GTP_IE_FULLY_QUAL_DOMAIN_NAME, GTP_IE_INSTANCE_ZERO) v.(fwd_reloc_rsp_sgsn_node_name) ∧
  opt_good (GTP_IE_FULLY_QUAL_DOMAIN_NAME, GTP_IE_INSTANCE_ONE) v.(fwd_reloc_rsp_mme_node_name) ∧
  opt_good (GTP_IE_NODE_NUMBER, GTP_IE_INSTANCE_ZERO) v.(fwd_reloc_rsp_sgsn_number) ∧
  opt_good (GTP_IE_NODE_IDENTIFIER, GTP_IE_INSTANCE_ZERO) v.(fwd_reloc_rsp_sgsn_identifier) ∧
  opt_good (GTP_IE_NODE_IDENTIFIER, GTP_IE_INSTANCE_ONE) v.(fwd_reloc_rsp_mme_identifier) ∧
  opt_good (GTP_IE_NODE_NUMBER, GTP_IE_INSTANCE_ONE) v.(fwd_reloc_rsp_mme_nbr_mt_sms) ∧
  opt_good (GTP_IE_NODE_IDENTIFIER, GTP_IE_INSTANCE_TWO) v.(fwd_reloc_rsp_sgsn_idnt_mt_sms) ∧
  opt_good (GTP_IE_NODE_IDENTIFIER, GTP_IE_INSTANCE_THREE) v.(fwd_reloc_rsp_mme_idnt_mt_sms) ∧
  opt_good (GTP_IE_PRIV_EXT, GTP_IE_INSTANCE_ZERO) v.(fwd_reloc_rsp_priv_ext) ∧
  v.(fwd_reloc_rsp_list_of_set_up_bearers) = zero_gtp_bearer_context ∧
  v.(fwd_reloc_rsp_list_of_set_up_rabs) = zero_gtp_bearer_context ∧
  v.(fwd_reloc_rsp_list_of_set_up_pfcs) = zero_gtp_bearer_context ∧
  v.(fwd_reloc_rsp_list_of_set_up_bearers_scef_pdn_connections) = zero_gtp_bearer_context.
Definition fwd_reloc_rsp_layout (v : fwd_reloc_rsp_t) : layout := layout_gtpv2c_header v.(fwd_reloc_rsp_header) ++ fwd_reloc_rsp_body v.
Lemma fwd_reloc_rsp_encodes v : fwd_reloc_rsp_good v -> encodes (encode_fwd_reloc_rsp v) (fwd_reloc_rsp_layout v) (size (fwd_reloc_rsp_layout v) / 8).
Proof.
  intros Hg; unfold fwd_reloc_rsp_good in Hg; destruct_and! Hg.
  apply (encodes_enc_bits 8); [by right|]. apply places_gtp_header. unfold fwd_reloc_rsp_body.
  place_members ltac:(gtp_member).
Qed.
Lemma fwd_reloc_rsp_decodes v : fwd_reloc_rsp_good v ->
  decodes (decode_fwd_reloc_rsp zero_fwd_reloc_rsp) (fwd_reloc_rsp_layout v) (size (fwd_reloc_rsp_body v) / 8) v.
Proof.
  intros Hg; unfold fwd_reloc_rsp_good in Hg; destruct_and! Hg. apply decodes_gtp_message; [reflexivity|assumption|]. unfold fwd_reloc_rsp_body.
  read_rest v.
Qed.

(** [fwd_reloc_cmplt_notif_t] *)
Definition fwd_reloc_cmplt_notif_body (v : fwd_reloc_cmplt_notif_t) : layout :=
  opt_layout v.(fwd_reloc_cmplt_notif_indctn_flgs) ++
  opt_layout v.(fwd_reloc_cmplt_notif_priv_ext) ++
  [].
Definition fwd_reloc_cmplt_notif_good (v : fwd_reloc_cmplt_notif_t) : Prop :=
  gtp_message_good v.(fwd_reloc_cmplt_notif_header) (fwd_reloc_cmplt_notif_body v) ∧
  opt_good (GTP_IE_INDICATION, GTP_IE_INSTANCE_ZERO) v.(fwd_reloc_cmplt_notif_indctn_flgs) ∧
  opt_good (GTP_IE_PRIV_EXT, GTP_IE_INSTANCE_ZERO) v.(fwd_reloc_cmplt_notif_priv_ext).
Definition fwd_reloc_cmplt_notif_layout (v : fwd_reloc_cmplt_notif_t) : layout := layout_gtpv2c_header v.(fwd_reloc_cmplt_notif_header) ++ fwd_reloc_cmplt_notif_body v.
Lemma fwd_reloc_cmplt_notif_encodes v : fwd_reloc_cmplt_notif_good v -> encodes (encode_fwd_reloc_cmplt_notif v) (fwd_reloc_cmplt_notif_layout v) (size (fwd_reloc_cmplt_notif_layout v) / 8).
Proof.
  intros Hg; unfold fwd_reloc_cmplt_notif_good in Hg; destruct_and! Hg.
  apply (encodes_enc_bits 8); [by right|]. apply places_gtp_header. unfold fwd_reloc_cmplt_notif_body.
  place_members ltac:(gtp_member).
Qed.
Lemma fwd_reloc_cmplt_notif_decodes v : fwd_reloc_cmplt_notif_good v ->
  decodes (decode_fwd_reloc_cmplt_notif zero_fwd_reloc_cmplt_notif) (fwd_reloc_cmplt_notif_layout v) (size (fwd_reloc_cmplt_notif_body v) / 8) v.
Proof.
  intros Hg; unfold fwd_reloc_cmplt_notif_good in Hg; destruct_and! Hg. apply decodes_gtp_message; [reflexivity|assumption|]. unfold fwd_reloc_cmplt_notif_body.
  read_rest v.
Qed.

(** [fwd_reloc_cmplt_ack_t] *)
Definition fwd_reloc_cmplt_ack_body (v : fwd_reloc_cmplt_ack_t) : layout :=
  opt_layout v.(fwd_reloc_cmplt_ack_cause) ++
  opt_layout v.(fwd_reloc_cmplt_ack_recovery) ++
  opt_layout v.(fwd_reloc_cmplt_ack_secdry_rat_usage_data_rpt) ++
  opt_layout v.(fwd_reloc_cmplt_ack_priv_ext) ++
  [].
Definition fwd_reloc_cmplt_ack_good (v : fwd_reloc_cmplt_ack_t) : Prop :=
  gtp_message_good v.(fwd_reloc_cmplt_ack_header) (fwd_reloc_cmplt_ack_body v) ∧
  opt_good (GTP_IE_CAUSE, GTP_IE_INSTANCE_ZERO) v.(fwd_reloc_cmplt_ack_cause) ∧
  opt_good (GTP_IE_RECOVERY, GTP_IE_INSTANCE_ZERO) v.(fwd_reloc_cmplt_ack_recovery) ∧
  opt_good (GTP_IE_SECDRY_RAT_USAGE_DATA_RPT, GTP_IE_INSTANCE_ZERO) v.(fwd_reloc_cmplt_ack_secdry_rat_usage_data_rpt) ∧
  opt_good (GTP_IE_PRIV_EXT, GTP_IE_INSTANCE_ZERO) v.(fwd_reloc_cmplt_ack_priv_ext).
Definition fwd_reloc_cmplt_ack_layout (v : fwd_reloc_cmplt_ack_t) : layout := layout_gtpv2c_header v.(fwd_reloc_cmplt_ack_header) ++ fwd_reloc_cmplt_ack_body v.
Lemma fwd_reloc_cmplt_ack_encodes v : fwd_reloc_cmplt_ack_good v -> encodes (encode_fwd_reloc_cmplt_ack v) (fwd_reloc_cmplt_ack_layout v) (size (fwd_reloc_cmplt_ack_layout v) / 8).
Proof.
  intros Hg; unfold fwd_reloc_cmplt_ack_good in Hg; destruct_and! Hg.
  apply (encodes_enc_bits 8); [by right|]. apply places_gtp_header. unfold fwd_reloc_cmplt_ack_body.
  place_members ltac:(gtp_member).
Qed.
Lemma fwd_reloc_cmplt_ack_decodes v : fwd_reloc_cmplt_ack_good v ->
  decodes (decode_fwd_reloc_cmplt_ack zero_fwd_reloc_cmplt_ack) (fwd_reloc_cmplt_ack_layout v) (size (fwd_reloc_cmplt_ack_body v) / 8) v.
Proof.
  intros Hg; unfold fwd_reloc_cmplt_ack_good in Hg; destruct_and! Hg. apply decodes_gtp_message; [reflexivity|assumption|]. unfold fwd_reloc_cmplt_ack_body.
  read_rest v.
Qed.

(** [context_request_t] *)
Definition context_request_body (v : context_request_t) : layout :=
  opt_layout v.(context_request_imsi) ++
  opt_layout v.(context_request_guti) ++
  opt_layout v.(context_request_rai) ++
  opt_layout v.(context_request_ptmsi) ++
  opt_layout v.(context_request_ptmsi_signature) ++
  opt_layout v.(context_request_cmplt_tau_req_msg) ++
  opt_layout v.(context_request_s3s16s10n26_addr_and_teid_ctl_plane) ++
  opt_layout v.(context_request_udp_src_port_nbr) ++
  opt_layout v.(context_request_rat_type) ++
  opt_layout v.(context_request_indication) ++
  opt_layout v.(context_request_hop_counter) ++
  opt_layout v.(context_request_target_plmn_id) ++
  opt_layout v.(context_request_mmes4_sgsn_ldn) ++
  opt_layout v.(context_request_sgsn_node_name) ++
  opt_layout v.(context_request_mme_node_name) ++
  opt_layout v.(context_request_sgsn_number) ++
  opt_layout v.(context_request_sgsn_identifier) ++
  opt_layout v.(context_request_mme_identifier) ++
  opt_layout v.(context_request_ciot_optim_supp_indctn) ++
  opt_layout v.(context_request_priv_ext) ++
  [].
Definition context_request_good (v : context_request_t) : Prop :=
  gtp_message_good v.(context_request_header) (context_request_body v) ∧
  opt_good (GTP_IE_IMSI, GTP_IE_INSTANCE_ZERO) v.(context_request_imsi) ∧
  opt_good (GTP_IE_GUTI, GTP_IE_INSTANCE_ZERO) v.(context_request_guti) ∧
  opt_good (GTP_IE_USER_LOC_INFO, GTP_IE_INSTANCE_ZERO) v.(context_request_rai) ∧
  opt_good (GTP_IE_PTMSI, GTP_IE_INSTANCE_ZERO) v.(context_request_ptmsi) ∧
  opt_good (GTP_IE_PTMSI_SIGNATURE, GTP_IE_INSTANCE_ZERO) v.(context_request_ptmsi_signature) ∧
  opt_good (GTP_IE_CMPLT_REQ_MSG, GTP_IE_INSTANCE_ZERO) v.(context_request_cmplt_tau_req_msg) ∧
  opt_good (GTP_IE_FULLY_QUAL_TUNN_ENDPT_IDNT, GTP_IE_INSTANCE_ZERO) v.(context_request_s3s16s10n26_addr_and_teid_ctl_plane) ∧
  opt_good (GTP_IE_PORT_NUMBER, GTP_IE_INSTANCE_ZERO) v.(context_request_udp_src_port_nbr) ∧
  opt_good (GTP_IE_RAT_TYPE, GTP_IE_INSTANCE_ZERO) v.(context_request_rat_type) ∧
  opt_good (GTP_IE_INDICATION, GTP_IE_INSTANCE_ZERO) v.(context_request_indication) ∧
  opt_good (GTP_IE_HOP_COUNTER, GTP_IE_INSTANCE_ZERO) v.(context_request_hop_counter) ∧
  opt_good (GTP_IE_SERVING_NETWORK, GTP_IE_INSTANCE_ZERO) v.(context_request_target_plmn_id) ∧
  opt_good (GTP_IE_LOCAL_DISTGSD_NAME, GTP_IE_INSTANCE_ZERO) v.(context_request_mmes4_sgsn_ldn) ∧
  opt_good (GTP_IE_FULLY_QUAL_DOMAIN_NAME, GTP_IE_INSTANCE_ZERO) v.(context_request_sgsn_node_name) ∧
  opt_good (GTP_IE_FULLY_QUAL_DOMAIN_NAME, GTP_IE_INSTANCE_ONE) v.(context_request_mme_node_name) ∧
  opt_good (GTP_IE_NODE_NUMBER, GTP_IE_INSTANCE_ZERO) v.(context_request_sgsn_number) ∧
  opt_good (GTP_IE_NODE_IDENTIFIER, GTP_IE_INSTANCE_ZERO) v.(context_request_sgsn_identifier) ∧
  opt_good (GTP_IE_NODE_IDENTIFIER, GTP_IE_INSTANCE_ONE) v.(context_request_mme_identifier) ∧
  opt_good (GTP_IE_CIOT_OPTIM_SUPP_INDCTN, GTP_IE_INSTANCE_ZERO) v.(context_request_ciot_optim_supp_indctn) ∧
  opt_good (GTP_IE_PRIV_EXT, GTP_IE_INSTANCE_ZERO) v.(context_request_priv_ext).
Definition context_request_layout (v : context_request_t) : layout := layout_gtpv2c_header v.(context_request_header) ++ context_request_body v.
Lemma context_request_encodes v : context_request_good v -> encodes (encode_context_request v) (context_request_layout v) (size (context_request_layout v) / 8).
Proof.
  intros Hg; unfold context_request_good in Hg; destruct_and! Hg.
  apply (encodes_enc_bits 8); [by right|]. apply places_gtp_header. unfold context_request_body.
  place_members ltac:(gtp_member).
Qed.
Lemma context_request_decodes v : context_request_good v ->
  decodes (decode_context_request zero_context_request) (context_request_layout v) (size (context_request_body v) / 8) v.
Proof.
  intros Hg; unfold context_request_good in Hg; destruct_and! Hg. apply decodes_gtp_message; [reflexivity|assumption|]. unfold context_request_body.
  read_rest v.
Qed.

(** [ctxt_rsp_t] *)
Definition ctxt_rsp_body (v : ctxt_rsp_t) : layout :=
  opt_layout v.(ctxt_rsp_cause) ++
  opt_layout v.(ctxt_rsp_imsi) ++
  opt_layout v.(ctxt_rsp_sender_fteid_ctl_plane) ++
  opt_layout v.(ctxt_rsp_sgw_s11s4_ip_addr_and_teid_ctl_plane) ++
  opt_layout v.(ctxt_rsp_sgw_node_name) ++
  opt_layout v.(ctxt_rsp_indctn_flgs) ++
  opt_layout v.(ctxt_rsp_subscrbd_rfsp_idx) ++
  opt_layout v.(ctxt_rsp_rfsp_idx_in_use) ++
  opt_layout v.(ctxt_rsp_ue_time_zone) ++
  opt_layout v.(ctxt_rsp_mmes4_sgsn_ldn) ++
  opt_layout v.(ctxt_rsp_mdt_cfg) ++
  opt_layout v.(ctxt_rsp_sgsn_node_name) ++
  opt_layout v.(ctxt_rsp_mme_node_name) ++
  opt_layout v.(ctxt_rsp_mntrng_evnt_info) ++
  opt_layout v.(ctxt_rsp_ue_usage_type) ++
  opt_layout v.(ctxt_rsp_rat_type) ++
  opt_layout v.(ctxt_rsp_srvng_plmn_rate_ctl) ++
  opt_layout v.(ctxt_rsp_mo_exception_data_cntr) ++
  opt_layout v.(ctxt_rsp_rem_running_svc_gap_timer) ++
  opt_layout v.(ctxt_rsp_priv_ext) ++
  [].
Definition ctxt_rsp_good (v : ctxt_rsp_t) : Prop :=
  gtp_message_good v.(ctxt_rsp_header) (ctxt_rsp_body v) ∧
  opt_good (GTP_IE_CAUSE, GTP_IE_INSTANCE_ZERO) v.(ctxt_rsp_cause) ∧
  opt_good (GTP_IE_IMSI, GTP_IE_INSTANCE_ZERO) v.(ctxt_rsp_imsi) ∧
  opt_good (GTP_IE_FULLY_QUAL_TUNN_ENDPT_IDNT, GTP_IE_INSTANCE_ZERO) v.(ctxt_rsp_sender_fteid_ctl_plane) ∧
  opt_good (GTP_IE_FULLY_QUAL_TUNN_ENDPT_IDNT, GTP_IE_INSTANCE_ONE) v.(ctxt_rsp_sgw_s11s4_ip_addr_and_teid_ctl_plane) ∧
  opt_good (GTP_IE_FULLY_QUAL_DOMAIN_NAME, GTP_IE_INSTANCE_ZERO) v.(ctxt_rsp_sgw_node_name) ∧
  opt_good (GTP_IE_INDICATION, GTP_IE_INSTANCE_ZERO) v.(ctxt_rsp_indctn_flgs) ∧
  opt_good (GTP_IE_RFSP_INDEX, GTP_IE_INSTANCE_ZERO) v.(ctxt_rsp_subscrbd_rfsp_idx) ∧
  opt_good (GTP_IE_RFSP_INDEX, GTP_IE_INSTANCE_ONE) v.(ctxt_rsp_rfsp_idx_in_use) ∧
  opt_good (GTP_IE_UE_TIME_ZONE, GTP_IE_INSTANCE_ZERO) v.(ctxt_rsp_ue_time_zone) ∧
  opt_good (GTP_IE_LOCAL_DISTGSD_NAME, GTP_IE_INSTANCE_ZERO) v.(ctxt_rsp_mmes4_sgsn_ldn) ∧
  opt_good (GTP_IE_MDT_CFG, GTP_IE_INSTANCE_ZERO) v.(ctxt_rsp_mdt_cfg) ∧
  opt_good (GTP_IE_FULLY_QUAL_DOMAIN_NAME, GTP_IE_INSTANCE_ONE) v.(ctxt_rsp_sgsn_node_name) ∧
  opt_good (GTP_IE_FULLY_QUAL_DOMAIN_NAME, GTP_IE_INSTANCE_TWO) v.(ctxt_rsp_mme_node_name) ∧
  opt_good (GTP_IE_MNTRNG_EVNT_INFO, GTP_IE_INSTANCE_ZERO) v.(ctxt_rsp_mntrng_evnt_info) ∧
  opt_good (GTP_IE_INTEGER_NUMBER, GTP_IE_INSTANCE_ZERO) v.(ctxt_rsp_ue_usage_type) ∧
  opt_good (GTP_IE_RAT_TYPE, GTP_IE_INSTANCE_ZERO) v.(ctxt_rsp_rat_type) ∧
  opt_good (GTP_IE_SRVNG_PLMN_RATE_CTL, GTP_IE_INSTANCE_ZERO) v.(ctxt_rsp_srvng_plmn_rate_ctl) ∧
  opt_good (GTP_IE_COUNTER, GTP_IE_INSTANCE_ZERO) v.(ctxt_rsp_mo_exception_data_cntr) ∧
  opt_good (GTP_IE_INTEGER_NUMBER, GTP_IE_INSTANCE_ONE) v.(ctxt_rsp_rem_running_svc_gap_timer) ∧
  opt_good (GTP_IE_PRIV_EXT, GTP_IE_INSTANCE_ZERO) v.(ctxt_rsp_priv_ext) ∧
  v.(ctxt_rsp_mmesgsnamf_ue_eps_pdn_connections) = zero_gtp_pdn_connection ∧
  v.(ctxt_rsp_trc_info) = zero_gtp_trc_info ∧
  v.(ctxt_rsp_hrpd_acc_node_s101_ip_addr) = zero_gtp_ip_address ∧
  v.(ctxt_rsp_onexiws_sone02_ip_addr) = zero_gtp_ip_address ∧
  v.(ctxt_rsp_uci) = zero_gtp_user_csg_info ∧
  v.(ctxt_rsp_mmesgsn_ue_scef_pdn_connections) = zero_gtp_scef_pdn_conn.
Definition ctxt_rsp_layout (v : ctxt_rsp_t) : layout := layout_gtpv2c_header v.(ctxt_rsp_header) ++ ctxt_rsp_body v.
Lemma ctxt_rsp_encodes v : ctxt_rsp_good v -> encodes (encode_ctxt_rsp v) (ctxt_rsp_layout v) (size (ctxt_rsp_layout v) / 8).
Proof.
  intros Hg; unfold ctxt_rsp_good in Hg; destruct_and! Hg.
  apply (encodes_enc_bits 8); [by right|]. apply places_gtp_header. unfold ctxt_rsp_body.
  place_members ltac:(gtp_member).
Qed.
Lemma ctxt_rsp_decodes v : ctxt_rsp_good v ->
  decodes (decode_ctxt_rsp zero_ctxt_rsp) (ctxt_rsp_layout v) (size (ctxt_rsp_body v) / 8) v.
Proof.
  intros Hg; unfold ctxt_rsp_good in Hg; destruct_and! Hg. apply decodes_gtp_message; [reflexivity|assumption|]. unfold ctxt_rsp_body.
  read_rest v.
Qed.

(** [ctxt_ack_t] *)
Definition ctxt_ack_body (v : ctxt_ack_t) : layout :=
  opt_layout v.(ctxt_ack_cause) ++
  opt_layout v.(ctxt_ack_indctn_flgs) ++
  opt_layout v.(ctxt_ack_fwdng_fteid) ++
  opt_layout v.(ctxt_ack_sgsn_number) ++
  opt_layout v.(ctxt_ack_mme_nbr_mt_sms) ++
  opt_layout v.(ctxt_ack_sgsn_idnt_mt_sms) ++
  opt_layout v.(ctxt_ack_mme_idnt_mt_sms) ++
  opt_layout v.(ctxt_ack_priv_ext) ++
  [].
Definition ctxt_ack_good (v : ctxt_ack_t) : Prop :=
  gtp_message_good v.(ctxt_ack_header) (ctxt_ack_body v) ∧
  opt_good (GTP_IE_CAUSE, GTP_IE_INSTANCE_ZERO) v.(ctxt_ack_cause) ∧
  opt_good (GTP_IE_INDICATION, GTP_IE_INSTANCE_ZERO) v.(ctxt_ack_indctn_flgs) ∧
  opt_good (GTP_IE_FULLY_QUAL_TUNN_ENDPT_IDNT, GTP_IE_INSTANCE_ZERO) v.(ctxt_ack_fwdng_fteid) ∧
  opt_good (GTP_IE_NODE_NUMBER, GTP_IE_INSTANCE_ZERO) v.(ctxt_ack_sgsn_number) ∧
  opt_good (GTP_IE_NODE_NUMBER, GTP_IE_INSTANCE_ONE) v.(ctxt_ack_mme_nbr_mt_sms) ∧
  opt_good (GTP_IE_NODE_IDENTIFIER, GTP_IE_INSTANCE_ZERO) v.(ctxt_ack_sgsn_idnt_mt_sms) ∧
  opt_good (GTP_IE_NODE_IDENTIFIER, GTP_IE_INSTANCE_ONE) v.(ctxt_ack_mme_idnt_mt_sms) ∧
  opt_good (GTP_IE_PRIV_EXT, GTP_IE_INSTANCE_ZERO) v.(ctxt_ack_priv_ext) ∧
  v.(ctxt_ack_bearer_contexts) = zero_gtp_bearer_context.
Definition ctxt_ack_layout (v : ctxt_ack_t) : layout := layout_gtpv2c_header v.(ctxt_ack_header) ++ ctxt_ack_body v.
Lemma ctxt_ack_encodes v : ctxt_ack_good v -> encodes (encode_ctxt_ack v) (ctxt_ack_layout v) (size (ctxt_ack_layout v) / 8).
Proof.
  intros Hg; unfold ctxt_ack_good in Hg; destruct_and! Hg.
  apply (encodes_enc_bits 8); [by right|]. apply places_gtp_header. unfold ctxt_ack_body.
  place_members ltac:(gtp_member).
Qed.
Lemma ctxt_ack_decodes v : ctxt_ack_good v ->
  decodes (decode_ctxt_ack zero_ctxt_ack) (ctxt_ack_layout v) (size (ctxt_ack_body v) / 8) v.
Proof.
  intros Hg; unfold ctxt_ack_good in Hg; destruct_and! Hg. apply decodes_gtp_message; [reflexivity|assumption|]. unfold ctxt_ack_body.
  read_rest v.
Qed.

(** [id_req_t] *)
Definition id_req_body (v : id_req_t) : layout :=
  opt_layout v.(id_req_guti) ++
  opt_layout v.(id_req_rai) ++
  opt_layout v.(id_req_ptmsi) ++
  opt_layout v.(id_req_ptmsi_signature) ++
  opt_layout v.(id_req_cmplt_attach_req_msg) ++
  opt_layout v.(id_req_udp_src_port_nbr) ++
  opt_layout v.(id_req_hop_counter) ++
  opt_layout v.(id_req_target_plmn_id) ++
  opt_layout v.(id_req_priv_ext) ++
  [].
Definition id_req_good (v : id_req_t) : Prop :=
  gtp_message_good v.(id_req_header) (id_req_body v) ∧
  opt_good (GTP_IE_GUTI, GTP_IE_INSTANCE_ZERO) v.(id_req_guti) ∧
  opt_good (GTP_IE_USER_LOC_INFO, GTP_IE_INSTANCE_ZERO) v.(id_req_rai) ∧
  opt_good (GTP_IE_PTMSI, GTP_IE_INSTANCE_ZERO) v.(id_req_ptmsi) ∧
  opt_good (GTP_IE_PTMSI_SIGNATURE, GTP_IE_INSTANCE_ZERO) v.(id_req_ptmsi_signature) ∧
  opt_good (GTP_IE_CMPLT_REQ_MSG, GTP_IE_INSTANCE_ZERO) v.(id_req_cmplt_attach_req_msg) ∧
  opt_good (GTP_IE_PORT_NUMBER, GTP_IE_INSTANCE_ZERO) v.(id_req_udp_src_port_nbr) ∧
  opt_good (GTP_IE_HOP_COUNTER, GTP_IE_INSTANCE_ZERO) v.(id_req_hop_counter) ∧
  opt_good (GTP_IE_SERVING_NETWORK, GTP_IE_INSTANCE_ZERO) v.(id_req_target_plmn_id) ∧
  opt_good (GTP_IE_PRIV_EXT, GTP_IE_INSTANCE_ZERO) v.(id_req_priv_ext) ∧
  v.(id_req_addr_ctl_plane) = zero_gtp_ip_address.
Definition id_req_layout (v : id_req_t) : layout := layout_gtpv2c_header v.(id_req_header) ++ id_req_body v.
Lemma id_req_encodes v : id_req_good v -> encodes (encode_id_req v) (id_req_layout v) (size (id_req_layout v) / 8).
Proof.
  intros Hg; unfold id_req_good in Hg; destruct_and! Hg.
  apply (encodes_enc_bits 8); [by right|]. apply places_gtp_header. unfold id_req_body.
  place_members ltac:(gtp_member).
Qed.
Lemma id_req_decodes v : id_req_good v ->
  decodes (decode_id_req zero_id_req) (id_req_layout v) (size (id_req_body v) / 8) v.
Proof.
  intros Hg; unfold id_req_good in Hg; destruct_and! Hg. apply decodes_gtp_message; [reflexivity|assumption|]. unfold id_req_body.
  read_rest v.
Qed.

(** [fwd_acc_ctxt_notif_t] *)
Definition fwd_acc_ctxt_notif_body (v : fwd_acc_ctxt_notif_t) : layout :=
  opt_layout v.(fwd_acc_ctxt_notif_rab_contexts) ++
  opt_layout v.(fwd_acc_ctxt_notif_src_rnc_pdcp_ctxt_info) ++
  opt_layout v.(fwd_acc_ctxt_notif_pdu_numbers) ++
  opt_layout v.(fwd_acc_ctxt_notif_e_utran_transparent_cntnr) ++
  opt_layout v.(fwd_acc_ctxt_notif_priv_ext) ++
  [].
Definition fwd_acc_ctxt_notif_good (v : fwd_acc_ctxt_notif_t) : Prop :=
  gtp_message_good v.(fwd_acc_ctxt_notif_header) (fwd_acc_ctxt_notif_body v) ∧
  opt_good (GTP_IE_RAB_CONTEXT, GTP_IE_INSTANCE_ZERO) v.(fwd_acc_ctxt_notif_rab_contexts) ∧
  opt_good (GTP_IE_SRC_RNC_PDCP_CTXT_INFO, GTP_IE_INSTANCE_ZERO) v.(fwd_acc_ctxt_notif_src_rnc_pdcp_ctxt_info) ∧
  opt_good (GTP_IE_PDU_NUMBERS, GTP_IE_INSTANCE_ZERO) v.(fwd_acc_ctxt_notif_pdu_numbers) ∧
  opt_good (GTP_IE_FULL_QUAL_CNTNR, GTP_IE_INSTANCE_ZERO) v.(fwd_acc_ctxt_notif_e_utran_transparent_cntnr) ∧
  opt_good (GTP_IE_PRIV_EXT, GTP_IE_INSTANCE_ZERO) v.(fwd_acc_ctxt_notif_priv_ext).
Definition fwd_acc_ctxt_notif_layout (v : fwd_acc_ctxt_notif_t) : layout := layout_gtpv2c_header v.(fwd_acc_ctxt_notif_header) ++ fwd_acc_ctxt_notif_body v.
Lemma fwd_acc_ctxt_notif_encodes v : fwd_acc_ctxt_notif_good v -> encodes (encode_fwd_acc_ctxt_notif v) (fwd_acc_ctxt_notif_layout v) (size (fwd_acc_ctxt_notif_layout v) / 8).
Proof.
  intros Hg; unfold fwd_acc_ctxt_notif_good in Hg; destruct_and! Hg.
  apply (encodes_enc_bits 8); [by right|]. apply places_gtp_header. unfold fwd_acc_ctxt_notif_body.
  place_members ltac:(gtp_member).
Qed.
Lemma fwd_acc_ctxt_notif_decodes v : fwd_acc_ctxt_notif_good v ->
  decodes (decode_fwd_acc_ctxt_notif zero_fwd_acc_ctxt_notif) (fwd_acc_ctxt_notif_layout v) (size (fwd_acc_ctxt_notif_body v) / 8) v.
Proof.
  intros Hg; unfold fwd_acc_ctxt_notif_good in Hg; destruct_and! Hg. apply decodes_gtp_message; [reflexivity|assumption|]. unfold fwd_acc_ctxt_notif_body.
  read_rest v.
Qed.

(** [fwd_acc_ctxt_ack_t] *)
Definition fwd_acc_ctxt_ack_body (v : fwd_acc_ctxt_ack_t) : layout :=
  opt_layout v.(fwd_acc_ctxt_ack_cause) ++
  opt_layout v.(fwd_acc_ctxt_ack_priv_ext) ++
  [].
Definition fwd_acc_ctxt_ack_good (v : fwd_acc_ctxt_ack_t) : Prop :=
  gtp_message_good v.(fwd_acc_ctxt_ack_header) (fwd_acc_ctxt_ack_body v) ∧
  opt_good (GTP_IE_CAUSE, GTP_IE_INSTANCE_ZERO) v.(fwd_acc_ctxt_ack_cause) ∧
  opt_good (GTP_IE_PRIV_EXT, GTP_IE_INSTANCE_ZERO) v.(fwd_acc_ctxt_ack_priv_ext).
Definition fwd_acc_ctxt_ack_layout (v : fwd_acc_ctxt_ack_t) : layout := layout_gtpv2c_header v.(fwd_acc_ctxt_ack_header) ++ fwd_acc_ctxt_ack_body v.
Lemma fwd_acc_ctxt_ack_encodes v : fwd_acc_ctxt_ack_good v -> encodes (encode_fwd_acc_ctxt_ack v) (fwd_acc_ctxt_ack_layout v) (size (fwd_acc_ctxt_ack_layout v) / 8).
Proof.
  intros Hg; unfold fwd_acc_ctxt_ack_good in Hg; destruct_and! Hg.
  apply (encodes_enc_bits 8); [by right|]. apply places_gtp_header. unfold fwd_acc_ctxt_ack_body.
  place_members ltac:(gtp_member).
Qed.
Lemma fwd_acc_ctxt_ack_decodes v : fwd_acc_ctxt_ack_good v ->
  decodes (decode_fwd_acc_ctxt_ack zero_fwd_acc_ctxt_ack) (fwd_acc_ctxt_ack_layout v) (size (fwd_acc_ctxt_ack_body v) / 8) v.
Proof.
  intros Hg; unfold fwd_acc_ctxt_ack_good in Hg; destruct_and! Hg. apply decodes_gtp_message; [reflexivity|assumption|]. unfold fwd_acc_ctxt_ack_body.
  read_rest v.
Qed.

(** [detach_notif_t] *)
Definition detach_notif_body (v : detach_notif_t) : layout :=
  opt_layout v.(detach_notif_cause) ++
  opt_layout v.(detach_notif_detach_type) ++
  opt_layout v.(detach_notif_priv_ext) ++
  [].
Definition detach_notif_good (v : detach_notif_t) : Prop :=
  gtp_message_good v.(detach_notif_header) (detach_notif_body v) ∧
  opt_good (GTP_IE_CAUSE, GTP_IE_INSTANCE_ZERO) v.(detach_notif_cause) ∧
  opt_good (GTP_IE_DETACH_TYPE, GTP_IE_INSTANCE_ZERO) v.(detach_notif_detach_type) ∧
  opt_good (GTP_IE_PRIV_EXT, GTP_IE_INSTANCE_ZERO) v.(detach_notif_priv_ext).
Definition detach_notif_layout (v : detach_notif_t) : layout := layout_gtpv2c_header v.(detach_notif_header) ++ detach_notif_body v.
Lemma detach_notif_encodes v : detach_notif_good v -> encodes (encode_detach_notif v) (detach_notif_layout v) (size (detach_notif_layout v) / 8).
Proof.
  intros Hg; unfold detach_notif_good in Hg; destruct_and! Hg.
  apply (encodes_enc_bits 8); [by right|]. apply places_gtp_header. unfold detach_notif_body.
  place_members ltac:(gtp_member).
Qed.
Lemma detach_notif_decodes v : detach_notif_good v ->
  decodes (decode_detach_notif zero_detach_notif) (detach_notif_layout v) (size (detach_notif_body v) / 8) v.
Proof.
  intros Hg; unfold detach_notif_good in Hg; destruct_and! Hg. apply decodes_gtp_message; [reflexivity|assumption|]. unfold detach_notif_body.
  read_rest v.
Qed.

(** [detach_ack_t] *)
Definition detach_ack_body (v : detach_ack_t) : layout :=
  opt_layout v.(detach_ack_cause) ++
  opt_layout v.(detach_ack_recovery) ++
  opt_layout v.(detach_ack_priv_ext) ++
  [].
Definition detach_ack_good (v : detach_ack_t) : Prop :=
  gtp_message_good v.(detach_ack_header) (detach_ack_body v) ∧
  opt_good (GTP_IE_CAUSE, GTP_IE_INSTANCE_ZERO) v.(detach_ack_cause) ∧
  opt_good (GTP_IE_RECOVERY, GTP_IE_INSTANCE_ZERO) v.(detach_ack_recovery) ∧
  opt_good (GTP_IE_PRIV_EXT, GTP_IE_INSTANCE_ZERO) v.(detach_ack_priv_ext).
Definition detach_ack_layout (v : detach_ack_t) : layout := layout_gtpv2c_header v.(detach_ack_header) ++ detach_ack_body v.
Lemma detach_ack_encodes v : detach_ack_good v -> encodes (encode_detach_ack v) (detach_ack_layout v) (size (detach_ack_layout v) / 8).
Proof.
  intros Hg; unfold detach_ack_good in Hg; destruct_and! Hg.
  apply (encodes_enc_bits 8); [by right|]. apply places_gtp_header. unfold detach_ack_body.
  place_members ltac:(gtp_member).
Qed.
Lemma detach_ack_decodes v : detach_ack_good v ->
  decodes (decode_detach_ack zero_detach_ack) (detach_ack_layout v) (size (detach_ack_body v) / 8) v.
Proof.
  intros Hg; unfold detach_ack_good in Hg; destruct_and! Hg. apply decodes_gtp_message; [reflexivity|assumption|]. unfold detach_ack_body.
  read_rest v.
Qed.

(** [reloc_cncl_req_t] *)
Definition reloc_cncl_req_body (v : reloc_cncl_req_t) : layout :=
  opt_layout v.(reloc_cncl_req_imsi) ++
  opt_layout v.(reloc_cncl_req_mei) ++
  opt_layout v.(reloc_cncl_req_indctn_flgs) ++
  opt_layout v.(reloc_cncl_req_ranap_cause) ++
  opt_layout v.(reloc_cncl_req_priv_ext) ++
  [].
Definition reloc_cncl_req_good (v : reloc_cncl_req_t) : Prop :=
  gtp_message_good v.(reloc_cncl_req_header) (reloc_cncl_req_body v) ∧
  opt_good (GTP_IE_IMSI, GTP_IE_INSTANCE_ZERO) v.(reloc_cncl_req_imsi) ∧
  opt_good (GTP_IE_MBL_EQUIP_IDNTY, GTP_IE_INSTANCE_ZERO) v.(reloc_cncl_req_mei) ∧
  opt_good (GTP_IE_INDICATION, GTP_IE_INSTANCE_ZERO) v.(reloc_cncl_req_indctn_flgs) ∧
  opt_good (GTP_IE_FULL_QUAL_CAUSE, GTP_IE_INSTANCE_ZERO) v.(reloc_cncl_req_ranap_cause) ∧
  opt_good (GTP_IE_PRIV_EXT, GTP_IE_INSTANCE_ZERO) v.(reloc_cncl_req_priv_ext).
Definition reloc_cncl_req_layout (v : reloc_cncl_req_t) : layout := layout_gtpv2c_header v.(reloc_cncl_req_header) ++ reloc_cncl_req_body v.
Lemma reloc_cncl_req_encodes v : reloc_cncl_req_good v -> encodes (encode_reloc_cncl_req v) (reloc_cncl_req_layout v) (size (reloc_cncl_req_layout v) / 8).
Proof.
  intros Hg; unfold reloc_cncl_req_good in Hg; destruct_and! Hg.
  apply (encodes_enc_bits 8); [by right|]. apply places_gtp_header. unfold reloc_cncl_req_body.
  place_members ltac:(gtp_member).
Qed.
Lemma reloc_cncl_req_decodes v : reloc_cncl_req_good v ->
  decodes (decode_reloc_cncl_req zero_reloc_cncl_req) (reloc_cncl_req_layout v) (size (reloc_cncl_req_body v) / 8) v.
Proof.
  intros Hg; unfold reloc_cncl_req_good in Hg; destruct_and! Hg. apply decodes_gtp_message; [reflexivity|assumption|]. unfold reloc_cncl_req_body.
  read_rest v.
Qed.

(** [reloc_cncl_rsp_t] *)
Definition reloc_cncl_rsp_body (v : reloc_cncl_rsp_t) : layout :=
  opt_layout v.(reloc_cncl_rsp_cause) ++
  opt_layout v.(reloc_cncl_rsp_priv_ext) ++
  [].
Definition reloc_cncl_rsp_good (v : reloc_cncl_rsp_t) : Prop :=
  gtp_message_good v.(reloc_cncl_rsp_header) (reloc_cncl_rsp_body v) ∧
  opt_good (GTP_IE_CAUSE, GTP_IE_INSTANCE_ZERO) v.(reloc_cncl_rsp_cause) ∧
  opt_good (GTP_IE_PRIV_EXT, GTP_IE_INSTANCE_ZERO) v.(reloc_cncl_rsp_priv_ext).
Definition reloc_cncl_rsp_layout (v : reloc_cncl_rsp_t) : layout := layout_gtpv2c_header v.(reloc_cncl_rsp_header) ++ reloc_cncl_rsp_body v.
Lemma reloc_cncl_rsp_encodes v : reloc_cncl_rsp_good v -> encodes (encode_reloc_cncl_rsp v) (reloc_cncl_rsp_layout v) (size (reloc_cncl_rsp_layout v) / 8).
Proof.
  intros Hg; unfold reloc_cncl_rsp_good in Hg; destruct_and! Hg.
  apply (encodes_enc_bits 8); [by right|]. apply places_gtp_header. unfold reloc_cncl_rsp_body.
  place_members ltac:(gtp_member).
Qed.
Lemma reloc_cncl_rsp_decodes v : reloc_cncl_rsp_good v ->
  decodes (decode_reloc_cncl_rsp zero_reloc_cncl_rsp) (reloc_cncl_rsp_layout v) (size (reloc_cncl_rsp_body v) / 8) v.
Proof.
  intros Hg; unfold reloc_cncl_rsp_good in Hg; destruct_and! Hg. apply decodes_gtp_message; [reflexivity|assumption|]. unfold reloc_cncl_rsp_body.
  read_rest v.
Qed.

(** [cfg_xfer_tunn_t] *)
Definition cfg_xfer_tunn_body (v : cfg_xfer_tunn_t) : layout :=
  opt_layout v.(cfg_xfer_tunn_e_utran_transparent_cntnr) ++
  opt_layout v.(cfg_xfer_tunn_trgt_enb_id) ++
  [].
Definition cfg_xfer_tunn_good (v : cfg_xfer_tunn_t) : Prop :=
  gtp_message_good v.(cfg_xfer_tunn_header) (cfg_xfer_tunn_body v) ∧
  opt_good (GTP_IE_FULL_QUAL_CNTNR, GTP_IE_INSTANCE_ZERO) v.(cfg_xfer_tunn_e_utran_transparent_cntnr) ∧
  opt_good (GTP_IE_TRGT_ID, GTP_IE_INSTANCE_ZERO) v.(cfg_xfer_tunn_trgt_enb_id).
Definition cfg_xfer_tunn_layout (v : cfg_xfer_tunn_t) : layout := layout_gtpv2c_header v.(cfg_xfer_tunn_header) ++ cfg_xfer_tunn_body v.
Lemma cfg_xfer_tunn_encodes v : cfg_xfer_tunn_good v -> encodes (encode_cfg_xfer_tunn v) (cfg_xfer_tunn_layout v) (size (cfg_xfer_tunn_layout v) / 8).
Proof.
  intros Hg; unfold cfg_xfer_tunn_good in Hg; destruct_and! Hg.
  apply (encodes_enc_bits 8); [by right|]. apply places_gtp_header. unfold cfg_xfer_tunn_body.
  place_members ltac:(gtp_member).
Qed.
Lemma cfg_xfer_tunn_decodes v : cfg_xfer_tunn_good v ->
  decodes (decode_cfg_xfer_tunn zero_cfg_xfer_tunn) (cfg_xfer_tunn_layout v) (size (cfg_xfer_tunn_body v) / 8) v.
Proof.
  intros Hg; unfold cfg_xfer_tunn_good in Hg; destruct_and! Hg. apply decodes_gtp_message; [reflexivity|assumption|]. unfold cfg_xfer_tunn_body.
  read_rest v.
Qed.

(** [ran_info_rly_t] *)
Definition ran_info_rly_body (v : ran_info_rly_t) : layout :=
  opt_layout v.(ran_info_rly_bss_container) ++
  opt_layout v.(ran_info_rly_rim_rtng_addr) ++
  opt_layout v.(ran_info_rly_priv_ext) ++
  [].
Definition ran_info_rly_good (v : ran_info_rly_t) : Prop :=
  gtp_message_good v.(ran_info_rly_header) (ran_info_rly_body v) ∧
  opt_good (GTP_IE_FULL_QUAL_CNTNR, GTP_IE_INSTANCE_ZERO) v.(ran_info_rly_bss_container) ∧
  opt_good (GTP_IE_TRGT_ID, GTP_IE_INSTANCE_ZERO) v.(ran_info_rly_rim_rtng_addr) ∧
  opt_good (GTP_IE_PRIV_EXT, GTP_IE_INSTANCE_ZERO) v.(ran_info_rly_priv_ext).
Definition ran_info_rly_layout (v : ran_info_rly_t) : layout := layout_gtpv2c_header v.(ran_info_rly_header) ++ ran_info_rly_body v.
Lemma ran_info_rly_encodes v : ran_info_rly_good v -> encodes (encode_ran_info_rly v) (ran_info_rly_layout v) (size (ran_info_rly_layout v) / 8).
Proof.
  intros Hg; unfold ran_info_rly_good in Hg; destruct_and! Hg.
  apply (encodes_enc_bits 8); [by right|]. apply places_gtp_header. unfold ran_info_rly_body.
  place_members ltac:(gtp_member).
Qed.
Lemma ran_info_rly_decodes v : ran_info_rly_good v ->
  decodes (decode_ran_info_rly zero_ran_info_rly) (ran_info_rly_layout v) (size (ran_info_rly_body v) / 8) v.
Proof.
  intros Hg; unfold ran_info_rly_good in Hg; destruct_and! Hg. apply decodes_gtp_message; [reflexivity|assumption|]. unfold ran_info_rly_body.
  read_rest v.
Qed.

(** [isr_status_indctn_t] *)
Definition isr_status_indctn_body (v : isr_status_indctn_t) : layout :=
  opt_layout v.(isr_status_indctn_priv_ext) ++
  [].
Definition isr_status_indctn_good (v : isr_status_indctn_t) : Prop :=
  gtp_message_good v.(isr_status_indctn_header) (isr_status_indctn_body v) ∧
  opt_good (GTP_IE_PRIV_EXT, GTP_IE_INSTANCE_ZERO) v.(isr_status_indctn_priv_ext) ∧
  v.(isr_status_indctn_act_indctn) = zero_gtp_act_indctn.
Definition isr_status_indctn_layout (v : isr_status_indctn_t) : layout := layout_gtpv2c_header v.(isr_status_indctn_header) ++ isr_status_indctn_body v.
Lemma isr_status_indctn_encodes v : isr_status_indctn_good v -> encodes (encode_isr_status_indctn v) (isr_status_indctn_layout v) (size (isr_status_indctn_layout v) / 8).
Proof.
  intros Hg; unfold isr_status_indctn_good in Hg; destruct_and! Hg.
  apply (encodes_enc_bits 8); [by right|]. apply places_gtp_header. unfold isr_status_indctn_body.
  place_members ltac:(gtp_member).
Qed.
Lemma isr_status_indctn_decodes v : isr_status_indctn_good v ->
  decodes (decode_isr_status_indctn zero_isr_status_indctn) (isr_status_indctn_layout v) (size (isr_status_indctn_body v) / 8) v.
Proof.
  intros Hg; unfold isr_status_indctn_good in Hg; destruct_and! Hg. apply decodes_gtp_message; [reflexivity|assumption|]. unfold isr_status_indctn_body.
  read_rest v.
Qed.

(** [ue_reg_qry_req_t] *)
Definition ue_reg_qry_req_body (v : ue_reg_qry_req_t) : layout :=
  opt_layout v.(ue_reg_qry_req_imsi) ++
  opt_layout v.(ue_reg_qry_req_priv_ext) ++
  [].
Definition ue_reg_qry_req_good (v : ue_reg_qry_req_t) : Prop :=
  gtp_message_good v.(ue_reg_qry_req_header) (ue_reg_qry_req_body v) ∧
  opt_good (GTP_IE_IMSI, GTP_IE_INSTANCE_ZERO) v.(ue_reg_qry_req_imsi) ∧
  opt_good (GTP_IE_PRIV_EXT, GTP_IE_INSTANCE_ZERO) v.(ue_reg_qry_req_priv_ext).
Definition ue_reg_qry_req_layout (v : ue_reg_qry_req_t) : layout := layout_gtpv2c_header v.(ue_reg_qry_req_header) ++ ue_reg_qry_req_body v.
Lemma ue_reg_qry_req_encodes v : ue_reg_qry_req_good v -> encodes (encode_ue_reg_qry_req v) (ue_reg_qry_req_layout v) (size (ue_reg_qry_req_layout v) / 8).
Proof.
  intros Hg; unfold ue_reg_qry_req_good in Hg; destruct_and! Hg.
  apply (encodes_enc_bits 8); [by right|]. apply places_gtp_header. unfold ue_reg_qry_req_body.
  place_members ltac:(gtp_member).
Qed.
Lemma ue_reg_qry_req_decodes v : ue_reg_qry_req_good v ->
  decodes (decode_ue_reg_qry_req zero_ue_reg_qry_req) (ue_reg_qry_req_layout v) (size (ue_reg_qry_req_body v) / 8) v.
Proof.
  intros Hg; unfold ue_reg_qry_req_good in Hg; destruct_and! Hg. apply decodes_gtp_message; [reflexivity|assumption|]. unfold ue_reg_qry_req_body.
  read_rest v.
Qed.

(** [ue_reg_qry_rsp_t] *)
Definition ue_reg_qry_rsp_body (v : ue_reg_qry_rsp_t) : layout :=
  opt_layout v.(ue_reg_qry_rsp_cause) ++
  opt_layout v.(ue_reg_qry_rsp_imsi) ++
  opt_layout v.(ue_reg_qry_rsp_selected_core_ntwk_oper_idnt) ++
  opt_layout v.(ue_reg_qry_rsp_priv_ext) ++
  [].
Definition ue_reg_qry_rsp_good (v : ue_reg_qry_rsp_t) : Prop :=
  gtp_message_good v.(ue_reg_qry_rsp_header) (ue_reg_qry_rsp_body v) ∧
  opt_good (GTP_IE_CAUSE, GTP_IE_INSTANCE_ZERO) v.(ue_reg_qry_rsp_cause) ∧
  opt_good (GTP_IE_IMSI, GTP_IE_INSTANCE_ZERO) v.(ue_reg_qry_rsp_imsi) ∧
  opt_good (GTP_IE_PLMN_ID, GTP_IE_INSTANCE_ZERO) v.(ue_reg_qry_rsp_selected_core_ntwk_oper_idnt) ∧
  opt_good (GTP_IE_PRIV_EXT, GTP_IE_INSTANCE_ZERO) v.(ue_reg_qry_rsp_priv_ext).
Definition ue_reg_qry_rsp_layout (v : ue_reg_qry_rsp_t) : layout := layout_gtpv2c_header v.(ue_reg_qry_rsp_header) ++ ue_reg_qry_rsp_body v.
Lemma ue_reg_qry_rsp_encodes v : ue_reg_qry_rsp_good v -> encodes (encode_ue_reg_qry_rsp v) (ue_reg_qry_rsp_layout v) (size (ue_reg_qry_rsp_layout v) / 8).
Proof.
  intros Hg; unfold ue_reg_qry_rsp_good in Hg; destruct_and! Hg.
  apply (encodes_enc_bits 8); [by right|]. apply places_gtp_header. unfold ue_reg_qry_rsp_body.
  place_members ltac:(gtp_member).
Qed.
Lemma ue_reg_qry_rsp_decodes v : ue_reg_qry_rsp_good v ->
  decodes (decode_ue_reg_qry_rsp zero_ue_reg_qry_rsp) (ue_reg_qry_rsp_layout v) (size (ue_reg_qry_rsp_body v) / 8) v.
Proof.
  intros Hg; unfold ue_reg_qry_rsp_good in Hg; destruct_and! Hg. apply decodes_gtp_message; [reflexivity|assumption|]. unfold ue_reg_qry_rsp_body.
  read_rest v.
Qed.

(** [alert_mme_ack_t] *)
Definition alert_mme_ack_body (v : alert_mme_ack_t) : layout :=
  opt_layout v.(alert_mme_ack_cause) ++
  opt_layout v.(alert_mme_ack_priv_ext) ++
  [].
Definition alert_mme_ack_good (v : alert_mme_ack_t) : Prop :=
  gtp_message_good v.(alert_mme_ack_header) (alert_mme_ack_body v) ∧
  opt_good (GTP_IE_CAUSE, GTP_IE_INSTANCE_ZERO) v.(alert_mme_ack_cause) ∧
  opt_good (GTP_IE_PRIV_EXT, GTP_IE_INSTANCE_ZERO) v.(alert_mme_ack_priv_ext).
Definition alert_mme_ack_layout (v : alert_mme_ack_t) : layout := layout_gtpv2c_header v.(alert_mme_ack_header) ++ alert_mme_ack_body v.
Lemma alert_mme_ack_encodes v : alert_mme_ack_good v -> encodes (encode_alert_mme_ack v) (alert_mme_ack_layout v) (size (alert_mme_ack_layout v) / 8).
Proof.
  intros Hg; unfold alert_mme_ack_good in Hg; destruct_and! Hg.
  apply (encodes_enc_bits 8); [by right|]. apply places_gtp_header. unfold alert_mme_ack_body.
  place_members ltac:(gtp_member).
Qed.
Lemma alert_mme_ack_decodes v : alert_mme_ack_good v ->
  decodes (decode_alert_mme_ack zero_alert_mme_ack) (alert_mme_ack_layout v) (size (alert_mme_ack_body v) / 8) v.
Proof.
  intros Hg; unfold alert_mme_ack_good in Hg; destruct_and! Hg. apply decodes_gtp_message; [reflexivity|assumption|]. unfold alert_mme_ack_body.
  read_rest v.
Qed.

(** [ue_actvty_ack_t] *)
Definition ue_actvty_ack_body (v : ue_actvty_ack_t) : layout :=
  opt_layout v.(ue_actvty_ack_cause) ++
  opt_layout v.(ue_actvty_ack_priv_ext) ++
  [].
Definition ue_actvty_ack_good (v : ue_actvty_ack_t) : Prop :=
  gtp_message_good v.(ue_actvty_ack_header) (ue_actvty_ack_body v) ∧
  opt_good (GTP_IE_CAUSE, GTP_IE_INSTANCE_ZERO) v.(ue_actvty_ack_cause) ∧
  opt_good (GTP_IE_PRIV_EXT, GTP_IE_INSTANCE_ZERO) v.(ue_actvty_ack_priv_ext).
Definition ue_actvty_ack_layout (v : ue_actvty_ack_t) : layout := layout_gtpv2c_header v.(ue_actvty_ack_header) ++ ue_actvty_ack_body v.
Lemma ue_actvty_ack_encodes v : ue_actvty_ack_good v -> encodes (encode_ue_actvty_ack v) (ue_actvty_ack_layout v) (size (ue_actvty_ack_layout v) / 8).
Proof.
  intros Hg; unfold ue_actvty_ack_good in Hg; destruct_and! Hg.
  apply (encodes_enc_bits 8); [by right|]. apply places_gtp_header. unfold ue_actvty_ack_body.
  place_members ltac:(gtp_member).
Qed.
Lemma ue_actvty_ack_decodes v : ue_actvty_ack_good v ->
  decodes (decode_ue_actvty_ack zero_ue_actvty_ack) (ue_actvty_ack_layout v) (size (ue_actvty_ack_body v) / 8) v.
Proof.
  intros Hg; unfold ue_actvty_ack_good in Hg; destruct_and! Hg. apply decodes_gtp_message; [reflexivity|assumption|]. unfold ue_actvty_ack_body.
  read_rest v.
Qed.

(** [create_fwdng_tunn_req_t] *)
Definition create_fwdng_tunn_req_body (v : create_fwdng_tunn_req_t) : layout :=
  opt_layout v.(create_fwdng_tunn_req_priv_ext) ++
  [].
Definition create_fwdng_tunn_req_good (v : create_fwdng_tunn_req_t) : Prop :=
  gtp_message_good v.(create_fwdng_tunn_req_header) (create_fwdng_tunn_req_body v) ∧
  opt_good (GTP_IE_PRIV_EXT, GTP_IE_INSTANCE_ZERO) v.(create_fwdng_tunn_req_priv_ext) ∧
  v.(create_fwdng_tunn_req_s103_pdn_data_fwdng_info) = zero_gtp_s103_pdn_data_fwdng_info.
Definition create_fwdng_tunn_req_layout (v : create_fwdng_tunn_req_t) : layout := layout_gtpv2c_header v.(create_fwdng_tunn_req_header) ++ create_fwdng_tunn_req_body v.
Lemma create_fwdng_tunn_req_encodes v : create_fwdng_tunn_req_good v -> encodes (encode_create_fwdng_tunn_req v) (create_fwdng_tunn_req_layout v) (size (create_fwdng_tunn_req_layout v) / 8).
Proof.
  intros Hg; unfold create_fwdng_tunn_req_good in Hg; destruct_and! Hg.
  apply (encodes_enc_bits 8); [by right|]. apply places_gtp_header. unfold create_fwdng_tunn_req_body.
  place_members ltac:(gtp_member).
Qed.
Lemma create_fwdng_tunn_req_decodes v : create_fwdng_tunn_req_good v ->
  decodes (decode_create_fwdng_tunn_req zero_create_fwdng_tunn_req) (create_fwdng_tunn_req_layout v) (size (create_fwdng_tunn_req_body v) / 8) v.
Proof.
  intros Hg; unfold create_fwdng_tunn_req_good in Hg; destruct_and! Hg. apply decodes_gtp_message; [reflexivity|assumption|]. unfold create_fwdng_tunn_req_body.
  read_rest v.
Qed.

(** [create_fwdng_tunn_rsp_t] *)
Definition create_fwdng_tunn_rsp_body (v : create_fwdng_tunn_rsp_t) : layout :=
  opt_layout v.(create_fwdng_tunn_rsp_cause) ++
  opt_layout v.(create_fwdng_tunn_rsp_priv_ext) ++
  [].
Definition create_fwdng_tunn_rsp_good (v : create_fwdng_tunn_rsp_t) : Prop :=
  gtp_message_good v.(create_fwdng_tunn_rsp_header) (create_fwdng_tunn_rsp_body v) ∧
  opt_good (GTP_IE_CAUSE, GTP_IE_INSTANCE_ZERO) v.(create_fwdng_tunn_rsp_cause) ∧
  opt_good (GTP_IE_PRIV_EXT, GTP_IE_INSTANCE_ZERO) v.(create_fwdng_tunn_rsp_priv_ext) ∧
  v.(create_fwdng_tunn_rsp_s1u_data_fwdng) = zero_gtp_s1u_data_fwdng.
Definition create_fwdng_tunn_rsp_layout (v : create_fwdng_tunn_rsp_t) : layout := layout_gtpv2c_header v.(create_fwdng_tunn_rsp_header) ++ create_fwdng_tunn_rsp_body v.
Lemma create_fwdng_tunn_rsp_encodes v : create_fwdng_tunn_rsp_good v -> encodes (encode_create_fwdng_tunn_rsp v) (create_fwdng_tunn_rsp_layout v) (size (create_fwdng_tunn_rsp_layout v) / 8).
Proof.
  intros Hg; unfold create_fwdng_tunn_rsp_good in Hg; destruct_and! Hg.
  apply (encodes_enc_bits 8); [by right|]. apply places_gtp_header. unfold create_fwdng_tunn_rsp_body.
  place_members ltac:(gtp_member).
Qed.
Lemma create_fwdng_tunn_rsp_decodes v : create_fwdng_tunn_rsp_good v ->
  decodes (decode_create_fwdng_tunn_rsp zero_create_fwdng_tunn_rsp) (create_fwdng_tunn_rsp_layout v) (size (create_fwdng_tunn_rsp_body v) / 8) v.
Proof.
  intros Hg; unfold create_fwdng_tunn_rsp_good in Hg; destruct_and! Hg. apply decodes_gtp_message; [reflexivity|assumption|]. unfold create_fwdng_tunn_rsp_body.
  read_rest v.
Qed.

(** [del_pdn_conn_set_req_t] *)
Definition del_pdn_conn_set_req_body (v : del_pdn_conn_set_req_t) : layout :=
  opt_layout v.(del_pdn_conn_set_req_mme_fqcsid) ++
  opt_layout v.(del_pdn_conn_set_req_sgw_fqcsid) ++
  opt_layout v.(del_pdn_conn_set_req_pgw_fqcsid) ++
  opt_layout v.(del_pdn_conn_set_req_priv_ext) ++
  [].
Definition del_pdn_conn_set_req_good (v : del_pdn_conn_set_req_t) : Prop :=
  gtp_message_good v.(del_pdn_conn_set_req_header) (del_pdn_conn_set_req_body v) ∧
  opt_good (GTP_IE_FQCSID, GTP_IE_INSTANCE_ZERO) v.(del_pdn_conn_set_req_mme_fqcsid) ∧
  opt_good (GTP_IE_FQCSID, GTP_IE_INSTANCE_ONE) v.(del_pdn_conn_set_req_sgw_fqcsid) ∧
  opt_good (GTP_IE_FQCSID, GTP_IE_INSTANCE_TWO) v.(del_pdn_conn_set_req_pgw_fqcsid) ∧
  opt_good (GTP_IE_PRIV_EXT, GTP_IE_INSTANCE_ZERO) v.(del_pdn_conn_set_req_priv_ext) ∧
  v.(del_pdn_conn_set_req_epdg_fqcsid) = zero_gtp_fqcsid ∧
  v.(del_pdn_conn_set_req_twan_fqcsid) = zero_gtp_fqcsid.
Definition del_pdn_conn_set_req_layout (v : del_pdn_conn_set_req_t) : layout := layout_gtpv2c_header v.(del_pdn_conn_set_req_header) ++ del_pdn_conn_set_req_body v.
Lemma del_pdn_conn_set_req_encodes v : del_pdn_conn_set_req_good v -> encodes (encode_del_pdn_conn_set_req v) (del_pdn_conn_set_req_layout v) (size (del_pdn_conn_set_req_layout v) / 8).
Proof.
  intros Hg; unfold del_pdn_conn_set_req_good in Hg; destruct_and! Hg.
  apply (encodes_enc_bits 8); [by right|]. apply places_gtp_header. unfold del_pdn_conn_set_req_body.
  place_members ltac:(gtp_member).
Qed.
Lemma del_pdn_conn_set_req_decodes v : del_pdn_conn_set_req_good v ->
  decodes (decode_del_pdn_conn_set_req zero_del_pdn_conn_set_req) (del_pdn_conn_set_req_layout v) (size (del_pdn_conn_set_req_body v) / 8) v.
Proof.
  intros Hg; unfold del_pdn_conn_set_req_good in Hg; destruct_and! Hg. apply decodes_gtp_message; [reflexivity|assumption|]. unfold del_pdn_conn_set_req_body.
  read_rest v.
Qed.

(** [del_pdn_conn_set_rsp_t] *)
Definition del_pdn_conn_set_rsp_body (v : del_pdn_conn_set_rsp_t) : layout :=
  opt_layout v.(del_pdn_conn_set_rsp_cause) ++
  opt_layout v.(del_pdn_conn_set_rsp_recovery) ++
  opt_layout v.(del_pdn_conn_set_rsp_priv_ext) ++
  [].
Definition del_pdn_conn_set_rsp_good (v : del_pdn_conn_set_rsp_t) : Prop :=
  gtp_message_good v.(del_pdn_conn_set_rsp_header) (del_pdn_conn_set_rsp_body v) ∧
  opt_good (GTP_IE_CAUSE, GTP_IE_INSTANCE_ZERO) v.(del_pdn_conn_set_rsp_cause) ∧
  opt_good (GTP_IE_RECOVERY, GTP_IE_INSTANCE_ZERO) v.(del_pdn_conn_set_rsp_recovery) ∧
  opt_good (GTP_IE_PRIV_EXT, GTP_IE_INSTANCE_ZERO) v.(del_pdn_conn_set_rsp_priv_ext).
Definition del_pdn_conn_set_rsp_layout (v : del_pdn_conn_set_rsp_t) : layout := layout_gtpv2c_header v.(del_pdn_conn_set_rsp_header) ++ del_pdn_conn_set_rsp_body v.
Lemma del_pdn_conn_set_rsp_encodes v : del_pdn_conn_set_rsp_good v -> encodes (encode_del_pdn_conn_set_rsp v) (del_pdn_conn_set_rsp_layout v) (size (del_pdn_conn_set_rsp_layout v) / 8).
Proof.
  intros Hg; unfold del_pdn_conn_set_rsp_good in Hg; destruct_and! Hg.
  apply (encodes_enc_bits 8); [by right|]. apply places_gtp_header. unfold del_pdn_conn_set_rsp_body.
  place_members ltac:(gtp_member).
Qed.
Lemma del_pdn_conn_set_rsp_decodes v : del_pdn_conn_set_rsp_good v ->
  decodes (decode_del_pdn_conn_set_rsp zero_del_pdn_conn_set_rsp) (del_pdn_conn_set_rsp_layout v) (size (del_pdn_conn_set_rsp_body v) / 8) v.
Proof.
  intros Hg; unfold del_pdn_conn_set_rsp_good in Hg; destruct_and! Hg. apply decodes_gtp_message; [reflexivity|assumption|]. unfold del_pdn_conn_set_rsp_body.
  read_rest v.
Qed.

(** [upd_pdn_conn_set_req_t] *)
Definition upd_pdn_conn_set_req_body (v : upd_pdn_conn_set_req_t) : layout :=
  opt_layout v.(upd_pdn_conn_set_req_mme_fqcsid) ++
  opt_layout v.(upd_pdn_conn_set_req_sgw_fqcsid) ++
  opt_layout v.(upd_pdn_conn_set_req_priv_ext) ++
  [].
Definition upd_pdn_conn_set_req_good (v : upd_pdn_conn_set_req_t) : Prop :=
  gtp_message_good v.(upd_pdn_conn_set_req_header) (upd_pdn_conn_set_req_body v) ∧
  opt_good (GTP_IE_FQCSID, GTP_IE_INSTANCE_ZERO) v.(upd_pdn_conn_set_req_mme_fqcsid) ∧
  opt_good (GTP_IE_FQCSID, GTP_IE_INSTANCE_ONE) v.(upd_pdn_conn_set_req_sgw_fqcsid) ∧
  opt_good (GTP_IE_PRIV_EXT, GTP_IE_INSTANCE_ZERO) v.(upd_pdn_conn_set_req_priv_ext).
Definition upd_pdn_conn_set_req_layout (v : upd_pdn_conn_set_req_t) : layout := layout_gtpv2c_header v.(upd_pdn_conn_set_req_header) ++ upd_pdn_conn_set_req_body v.
Lemma upd_pdn_conn_set_req_encodes v : upd_pdn_conn_set_req_good v -> encodes (encode_upd_pdn_conn_set_req v) (upd_pdn_conn_set_req_layout v) (size (upd_pdn_conn_set_req_layout v) / 8).
Proof.
  intros Hg; unfold upd_pdn_conn_set_req_good in Hg; destruct_and! Hg.
  apply (encodes_enc_bits 8); [by right|]. apply places_gtp_header. unfold upd_pdn_conn_set_req_body.
  place_members ltac:(gtp_member).
Qed.
Lemma upd_pdn_conn_set_req_decodes v : upd_pdn_conn_set_req_good v ->
  decodes (decode_upd_pdn_conn_set_req zero_upd_pdn_conn_set_req) (upd_pdn_conn_set_req_layout v) (size (upd_pdn_conn_set_req_body v) / 8) v.
Proof.
  intros Hg; unfold upd_pdn_conn_set_req_good in Hg; destruct_and! Hg. apply decodes_gtp_message; [reflexivity|assumption|]. unfold upd_pdn_conn_set_req_body.
  read_rest v.
Qed.

(** [upd_pdn_conn_set_rsp_t] *)
Definition upd_pdn_conn_set_rsp_body (v : upd_pdn_conn_set_rsp_t) : layout :=
  opt_layout v.(upd_pdn_conn_set_rsp_cause) ++
  opt_layout v.(upd_pdn_conn_set_rsp_pgw_fqcsid) ++
  opt_layout v.(upd_pdn_conn_set_rsp_recovery) ++
  opt_layout v.(upd_pdn_conn_set_rsp_priv_ext) ++
  [].
Definition upd_pdn_conn_set_rsp_good (v : upd_pdn_conn_set_rsp_t) : Prop :=
  gtp_message_good v.(upd_pdn_conn_set_rsp_header) (upd_pdn_conn_set_rsp_body v) ∧
  opt_good (GTP_IE_CAUSE, GTP_IE_INSTANCE_ZERO) v.(upd_pdn_conn_set_rsp_cause) ∧
  opt_good (GTP_IE_FQCSID, GTP_IE_INSTANCE_ZERO) v.(upd_pdn_conn_set_rsp_pgw_fqcsid) ∧
  opt_good (GTP_IE_RECOVERY, GTP_IE_INSTANCE_ZERO) v.(upd_pdn_conn_set_rsp_recovery) ∧
  opt_good (GTP_IE_PRIV_EXT, GTP_IE_INSTANCE_ZERO) v.(upd_pdn_conn_set_rsp_priv_ext).
Definition upd_pdn_conn_set_rsp_layout (v : upd_pdn_conn_set_rsp_t) : layout := layout_gtpv2c_header v.(upd_pdn_conn_set_rsp_header) ++ upd_pdn_conn_set_rsp_body v.
Lemma upd_pdn_conn_set_rsp_encodes v : upd_pdn_conn_set_rsp_good v -> encodes (encode_upd_pdn_conn_set_rsp v) (upd_pdn_conn_set_rsp_layout v) (size (upd_pdn_conn_set_rsp_layout v) / 8).
Proof.
  intros Hg; unfold upd_pdn_conn_set_rsp_good in Hg; destruct_and! Hg.
  apply (encodes_enc_bits 8); [by right|]. apply places_gtp_header. unfold upd_pdn_conn_set_rsp_body.
  place_members ltac:(gtp_member).
Qed.
Lemma upd_pdn_conn_set_rsp_decodes v : upd_pdn_conn_set_rsp_good v ->
  decodes (decode_upd_pdn_conn_set_rsp zero_upd_pdn_conn_set_rsp) (upd_pdn_conn_set_rsp_layout v) (size (upd_pdn_conn_set_rsp_body v) / 8) v.
Proof.
  intros Hg; unfold upd_pdn_conn_set_rsp_good in Hg; destruct_and! Hg. apply decodes_gtp_message; [reflexivity|assumption|]. unfold upd_pdn_conn_set_rsp_body.
  read_rest v.
Qed.

(** [pgw_rstrt_notif_t] *)
Definition pgw_rstrt_notif_body (v : pgw_rstrt_notif_t) : layout :=
  opt_layout v.(pgw_rstrt_notif_cause) ++
  opt_layout v.(pgw_rstrt_notif_priv_ext) ++
  [].
Definition pgw_rstrt_notif_good (v : pgw_rstrt_notif_t) : Prop :=
  gtp_message_good v.(pgw_rstrt_notif_header) (pgw_rstrt_notif_body v) ∧
  opt_good (GTP_IE_CAUSE, GTP_IE_INSTANCE_ZERO) v.(pgw_rstrt_notif_cause) ∧
  opt_good (GTP_IE_PRIV_EXT, GTP_IE_INSTANCE_ZERO) v.(pgw_rstrt_notif_priv_ext) ∧
  v.(pgw_rstrt_notif_pgw_s5s8_ip_addr_ctl_plane_or_pmip) = zero_gtp_ip_address ∧
  v.(pgw_rstrt_notif_sgw_s11s4_ip_addr_ctl_plane) = zero_gtp_ip_address.
Definition pgw_rstrt_notif_layout (v : pgw_rstrt_notif_t) : layout := layout_gtpv2c_header v.(pgw_rstrt_notif_header) ++ pgw_rstrt_notif_body v.
Lemma pgw_rstrt_notif_encodes v : pgw_rstrt_notif_good v -> encodes (encode_pgw_rstrt_notif v) (pgw_rstrt_notif_layout v) (size (pgw_rstrt_notif_layout v) / 8).
Proof.
  intros Hg; unfold pgw_rstrt_notif_good in Hg; destruct_and! Hg.
  apply (encodes_enc_bits 8); [by right|]. apply places_gtp_header. unfold pgw_rstrt_notif_body.
  place_members ltac:(gtp_member).
Qed.
Lemma pgw_rstrt_notif_decodes v : pgw_rstrt_notif_good v ->
  decodes (decode_pgw_rstrt_notif zero_pgw_rstrt_notif) (pgw_rstrt_notif_layout v) (size (pgw_rstrt_notif_body v) / 8) v.
Proof.
  intros Hg; unfold pgw_rstrt_notif_good in Hg; destruct_and! Hg. apply decodes_gtp_message; [reflexivity|assumption|]. unfold pgw_rstrt_notif_body.
  read_rest v.
Qed.

(** [pgw_rstrt_notif_ack_t] *)
Definition pgw_rstrt_notif_ack_body (v : pgw_rstrt_notif_ack_t) : layout :=
  opt_layout v.(pgw_rstrt_notif_ack_cause) ++
  opt_layout v.(pgw_rstrt_notif_ack_priv_ext) ++
  [].
Definition pgw_rstrt_notif_ack_good (v : pgw_rstrt_notif_ack_t) : Prop :=
  gtp_message_good v.(pgw_rstrt_notif_ack_header) (pgw_rstrt_notif_ack_body v) ∧
  opt_good (GTP_IE_CAUSE, GTP_IE_INSTANCE_ZERO) v.(pgw_rstrt_notif_ack_cause) ∧
  opt_good (GTP_IE_PRIV_EXT, GTP_IE_INSTANCE_ZERO) v.(pgw_rstrt_notif_ack_priv_ext).
Definition pgw_rstrt_notif_ack_layout (v : pgw_rstrt_notif_ack_t) : layout := layout_gtpv2c_header v.(pgw_rstrt_notif_ack_header) ++ pgw_rstrt_notif_ack_body v.
Lemma pgw_rstrt_notif_ack_encodes v : pgw_rstrt_notif_ack_good v -> encodes (encode_pgw_rstrt_notif_ack v) (pgw_rstrt_notif_ack_layout v) (size (pgw_rstrt_notif_ack_layout v) / 8).
Proof.
  intros Hg; unfold pgw_rstrt_notif_ack_good in Hg; destruct_and! Hg.
  apply (encodes_enc_bits 8); [by right|]. apply places_gtp_header. unfold pgw_rstrt_notif_ack_body.
  place_members ltac:(gtp_member).
Qed.
Lemma pgw_rstrt_notif_ack_decodes v : pgw_rstrt_notif_ack_good v ->
  decodes (decode_pgw_rstrt_notif_ack zero_pgw_rstrt_notif_ack) (pgw_rstrt_notif_ack_layout v) (size (pgw_rstrt_notif_ack_body v) / 8) v.
Proof.
  intros Hg; unfold pgw_rstrt_notif_ack_good in Hg; destruct_and! Hg. apply decodes_gtp_message; [reflexivity|assumption|]. unfold pgw_rstrt_notif_ack_body.
  read_rest v.
Qed.

(** [pgw_dnlnk_trigrng_notif_t] *)
Definition pgw_dnlnk_trigrng_notif_body (v : pgw_dnlnk_trigrng_notif_t) : layout :=
  opt_layout v.(pgw_dnlnk_trigrng_notif_imsi) ++
  opt_layout v.(pgw_dnlnk_trigrng_notif_pgw_s5_fteid_gtp_or_pmip_ctl_plane) ++
  opt_layout v.(pgw_dnlnk_trigrng_notif_priv_ext) ++
  [].
Definition pgw_dnlnk_trigrng_notif_good (v : pgw_dnlnk_trigrng_notif_t) : Prop :=
  gtp_message_good v.(pgw_dnlnk_trigrng_notif_header) (pgw_dnlnk_trigrng_notif_body v) ∧
  opt_good (GTP_IE_IMSI, GTP_IE_INSTANCE_ZERO) v.(pgw_dnlnk_trigrng_notif_imsi) ∧
  opt_good (GTP_IE_FULLY_QUAL_TUNN_ENDPT_IDNT, GTP_IE_INSTANCE_ZERO) v.(pgw_dnlnk_trigrng_notif_pgw_s5_fteid_gtp_or_pmip_ctl_plane) ∧
  opt_good (GTP_IE_PRIV_EXT, GTP_IE_INSTANCE_ZERO) v.(pgw_dnlnk_trigrng_notif_priv_ext) ∧
  v.(pgw_dnlnk_trigrng_notif_mmes4_sgsn_idnt) = zero_gtp_ip_address.
Definition pgw_dnlnk_trigrng_notif_layout (v : pgw_dnlnk_trigrng_notif_t) : layout := layout_gtpv2c_header v.(pgw_dnlnk_trigrng_notif_header) ++ pgw_dnlnk_trigrng_notif_body v.
Lemma pgw_dnlnk_trigrng_notif_encodes v : pgw_dnlnk_trigrng_notif_good v -> encodes (encode_pgw_dnlnk_trigrng_notif v) (pgw_dnlnk_trigrng_notif_layout v) (size (pgw_dnlnk_trigrng_notif_layout v) / 8).
Proof.
  intros Hg; unfold pgw_dnlnk_trigrng_notif_good in Hg; destruct_and! Hg.
  apply (encodes_enc_bits 8); [by right|]. apply places_gtp_header. unfold pgw_dnlnk_trigrng_notif_body.
  place_members ltac:(gtp_member).
Qed.
Lemma pgw_dnlnk_trigrng_notif_decodes v : pgw_dnlnk_trigrng_notif_good v ->
  decodes (decode_pgw_dnlnk_trigrng_notif zero_pgw_dnlnk_trigrng_notif) (pgw_dnlnk_trigrng_notif_layout v) (size (pgw_dnlnk_trigrng_notif_body v) / 8) v.
Proof.
  intros Hg; unfold pgw_dnlnk_trigrng_notif_good in Hg; destruct_and! Hg. apply decodes_gtp_message; [reflexivity|assumption|]. unfold pgw_dnlnk_trigrng_notif_body.
  read_rest v.
Qed.

(** [pgw_dnlnk_trigrng_ack_t] *)
Definition pgw_dnlnk_trigrng_ack_body (v : pgw_dnlnk_trigrng_ack_t) : layout :=
  opt_layout v.(pgw_dnlnk_trigrng_ack_cause) ++
  opt_layout v.(pgw_dnlnk_trigrng_ack_imsi) ++
  opt_layout v.(pgw_dnlnk_trigrng_ack_priv_ext) ++
  [].
Definition pgw_dnlnk_trigrng_ack_good (v : pgw_dnlnk_trigrng_ack_t) : Prop :=
  gtp_message_good v.(pgw_dnlnk_trigrng_ack_header) (pgw_dnlnk_trigrng_ack_body v) ∧
  opt_good (GTP_IE_CAUSE, GTP_IE_INSTANCE_ZERO) v.(pgw_dnlnk_trigrng_ack_cause) ∧
  opt_good (GTP_IE_IMSI, GTP_IE_INSTANCE_ZERO) v.(pgw_dnlnk_trigrng_ack_imsi) ∧
  opt_good (GTP_IE_PRIV_EXT, GTP_IE_INSTANCE_ZERO) v.(pgw_dnlnk_trigrng_ack_priv_ext) ∧
  v.(pgw_dnlnk_trigrng_ack_mmes4_sgsn_idnt) = zero_gtp_ip_address.
Definition pgw_dnlnk_trigrng_ack_layout (v : pgw_dnlnk_trigrng_ack_t) : layout := layout_gtpv2c_header v.(pgw_dnlnk_trigrng_ack_header) ++ pgw_dnlnk_trigrng_ack_body v.
Lemma pgw_dnlnk_trigrng_ack_encodes v : pgw_dnlnk_trigrng_ack_good v -> encodes (encode_pgw_dnlnk_trigrng_ack v) (pgw_dnlnk_trigrng_ack_layout v) (size (pgw_dnlnk_trigrng_ack_layout v) / 8).
Proof.
  intros Hg; unfold pgw_dnlnk_trigrng_ack_good in Hg; destruct_and! Hg.
  apply (encodes_enc_bits 8); [by right|]. apply places_gtp_header. unfold pgw_dnlnk_trigrng_ack_body.
  place_members ltac:(gtp_member).
Qed.
Lemma pgw_dnlnk_trigrng_ack_decodes v : pgw_dnlnk_trigrng_ack_good v ->
  decodes (decode_pgw_dnlnk_trigrng_ack zero_pgw_dnlnk_trigrng_ack) (pgw_dnlnk_trigrng_ack_layout v) (size (pgw_dnlnk_trigrng_ack_body v) / 8) v.
Proof.
  intros Hg; unfold pgw_dnlnk_trigrng_ack_good in Hg; destruct_and! Hg. apply decodes_gtp_message; [reflexivity|assumption|]. unfold pgw_dnlnk_trigrng_ack_body.
  read_rest v.
Qed.

(** [trc_sess_actvn_t] *)
Definition trc_sess_actvn_body (v : trc_sess_actvn_t) : layout :=
  opt_layout v.(trc_sess_actvn_imsi) ++
  opt_layout v.(trc_sess_actvn_mei) ++
  [].
Definition trc_sess_actvn_good (v : trc_sess_actvn_t) : Prop :=
  gtp_message_good v.(trc_sess_actvn_header) (trc_sess_actvn_body v) ∧
  opt_good (GTP_IE_IMSI, GTP_IE_INSTANCE_ZERO) v.(trc_sess_actvn_imsi) ∧
  opt_good (GTP_IE_MBL_EQUIP_IDNTY, GTP_IE_INSTANCE_ZERO) v.(trc_sess_actvn_mei) ∧
  v.(trc_sess_actvn_trc_info) = zero_gtp_trc_info.
Definition trc_sess_actvn_layout (v : trc_sess_actvn_t) : layout := layout_gtpv2c_header v.(trc_sess_actvn_header) ++ trc_sess_actvn_body v.
Lemma trc_sess_actvn_encodes v : trc_sess_actvn_good v -> encodes (encode_trc_sess_actvn v) (trc_sess_actvn_layout v) (size (trc_sess_actvn_layout v) / 8).
Proof.
  intros Hg; unfold trc_sess_actvn_good in Hg; destruct_and! Hg.
  apply (encodes_enc_bits 8); [by right|]. apply places_gtp_header. unfold trc_sess_actvn_body.
  place_members ltac:(gtp_member).
Qed.
Lemma trc_sess_actvn_decodes v : trc_sess_actvn_good v ->
  decodes (decode_trc_sess_actvn zero_trc_sess_actvn) (trc_sess_actvn_layout v) (size (trc_sess_actvn_body v) / 8) v.
Proof.
  intros Hg; unfold trc_sess_actvn_good in Hg; destruct_and! Hg. apply decodes_gtp_message; [reflexivity|assumption|]. unfold trc_sess_actvn_body.
  read_rest v.
Qed.

(** [trc_sess_deact_t] *)
Definition trc_sess_deact_body (v : trc_sess_deact_t) : layout :=
  opt_layout v.(trc_sess_deact_trace_reference) ++
  [].
Definition trc_sess_deact_good (v : trc_sess_deact_t) : Prop :=
  gtp_message_good v.(trc_sess_deact_header) (trc_sess_deact_body v) ∧
  opt_good (GTP_IE_TRACE_REFERENCE, GTP_IE_INSTANCE_ZERO) v.(trc_sess_deact_trace_reference).
Definition trc_sess_deact_layout (v : trc_sess_deact_t) : layout := layout_gtpv2c_header v.(trc_sess_deact_header) ++ trc_sess_deact_body v.
Lemma trc_sess_deact_encodes v : trc_sess_deact_good v -> encodes (encode_trc_sess_deact v) (trc_sess_deact_layout v) (size (trc_sess_deact_layout v) / 8).
Proof.
  intros Hg; unfold trc_sess_deact_good in Hg; destruct_and! Hg.
  apply (encodes_enc_bits 8); [by right|]. apply places_gtp_header. unfold trc_sess_deact_body.
  place_members ltac:(gtp_member).
Qed.
Lemma trc_sess_deact_decodes v : trc_sess_deact_good v ->
  decodes (decode_trc_sess_deact zero_trc_sess_deact) (trc_sess_deact_layout v) (size (trc_sess_deact_body v) / 8) v.
Proof.
  intros Hg; unfold trc_sess_deact_good in Hg; destruct_and! Hg. apply decodes_gtp_message; [reflexivity|assumption|]. unfold trc_sess_deact_body.
  read_rest v.
Qed.

(** [mbms_sess_start_req_t] *)
Definition mbms_sess_start_req_body (v : mbms_sess_start_req_t) : layout :=
  opt_layout v.(mbms_sess_start_req_sender_fteid_ctl_plane) ++
  opt_layout v.(mbms_sess_start_req_tmgi) ++
  opt_layout v.(mbms_sess_start_req_mbms_sess_dur) ++
  opt_layout v.(mbms_sess_start_req_mbms_svc_area) ++
  opt_layout v.(mbms_sess_start_req_mbms_sess_idnt) ++
  opt_layout v.(mbms_sess_start_req_mbms_flow_idnt) ++
  opt_layout v.(mbms_sess_start_req_qos_profile) ++
  opt_layout v.(mbms_sess_start_req_mbms_ip_multcst_dist) ++
  opt_layout v.(mbms_sess_start_req_recovery) ++
  opt_layout v.(mbms_sess_start_req_mbms_time_to_data_xfer) ++
  opt_layout v.(mbms_sess_start_req_mbms_data_xfer_start) ++
  opt_layout v.(mbms_sess_start_req_mbms_flags) ++
  opt_layout v.(mbms_sess_start_req_mbms_alternative_ip_multcst_dist) ++
  opt_layout v.(mbms_sess_start_req_mbms_cell_list) ++
  opt_layout v.(mbms_sess_start_req_priv_ext) ++
  [].
Definition mbms_sess_start_req_good (v : mbms_sess_start_req_t) : Prop :=
  gtp_message_good v.(mbms_sess_start_req_header) (mbms_sess_start_req_body v) ∧
  opt_good (GTP_IE_FULLY_QUAL_TUNN_ENDPT_IDNT, GTP_IE_INSTANCE_ZERO) v.(mbms_sess_start_req_sender_fteid_ctl_plane) ∧
  opt_good (GTP_IE_TMGI, GTP_IE_INSTANCE_ZERO) v.(mbms_sess_start_req_tmgi) ∧
  opt_good (GTP_IE_MBMS_SESS_DUR, GTP_IE_INSTANCE_ZERO) v.(mbms_sess_start_req_mbms_sess_dur) ∧
  opt_good (GTP_IE_MBMS_SVC_AREA, GTP_IE_INSTANCE_ZERO) v.(mbms_sess_start_req_mbms_svc_area) ∧
  opt_good (GTP_IE_MBMS_SESS_IDNT, GTP_IE_INSTANCE_ZERO) v.(mbms_sess_start_req_mbms_sess_idnt) ∧
  opt_good (GTP_IE_MBMS_FLOW_IDNT, GTP_IE_INSTANCE_ZERO) v.(mbms_sess_start_req_mbms_flow_idnt) ∧
  opt_good (GTP_IE_BEARER_QLTY_OF_SVC, GTP_IE_INSTANCE_ZERO) v.(mbms_sess_start_req_qos_profile) ∧
  opt_good (GTP_IE_MBMS_IP_MULTCST_DIST, GTP_IE_INSTANCE_ZERO) v.(mbms_sess_start_req_mbms_ip_multcst_dist) ∧
  opt_good (GTP_IE_RECOVERY, GTP_IE_INSTANCE_ZERO) v.(mbms_sess_start_req_recovery) ∧
  opt_good (GTP_IE_MBMS_TIME_TO_DATA_XFER, GTP_IE_INSTANCE_ZERO) v.(mbms_sess_start_req_mbms_time_to_data_xfer) ∧
  opt_good (GTP_IE_MBMS_DATA_XFER_ABS_TIME, GTP_IE_INSTANCE_ZERO) v.(mbms_sess_start_req_mbms_data_xfer_start) ∧
  opt_good (GTP_IE_MBMS_FLAGS, GTP_IE_INSTANCE_ZERO) v.(mbms_sess_start_req_mbms_flags) ∧
  opt_good (GTP_IE_MBMS_IP_MULTCST_DIST, GTP_IE_INSTANCE_ONE) v.(mbms_sess_start_req_mbms_alternative_ip_multcst_dist) ∧
  opt_good (GTP_IE_ECGI_LIST, GTP_IE_INSTANCE_ZERO) v.(mbms_sess_start_req_mbms_cell_list) ∧
  opt_good (GTP_IE_PRIV_EXT, GTP_IE_INSTANCE_ZERO) v.(mbms_sess_start_req_priv_ext).
Definition mbms_sess_start_req_layout (v : mbms_sess_start_req_t) : layout := layout_gtpv2c_header v.(mbms_sess_start_req_header) ++ mbms_sess_start_req_body v.
Lemma mbms_sess_start_req_encodes v : mbms_sess_start_req_good v -> encodes (encode_mbms_sess_start_req v) (mbms_sess_start_req_layout v) (size (mbms_sess_start_req_layout v) / 8).
Proof.
  intros Hg; unfold mbms_sess_start_req_good in Hg; destruct_and! Hg.
  apply (encodes_enc_bits 8); [by right|]. apply places_gtp_header. unfold mbms_sess_start_req_body.
  place_members ltac:(gtp_member).
Qed.
Lemma mbms_sess_start_req_decodes v : mbms_sess_start_req_good v ->
  decodes (decode_mbms_sess_start_req zero_mbms_sess_start_req) (mbms_sess_start_req_layout v) (size (mbms_sess_start_req_body v) / 8) v.
Proof.
  intros Hg; unfold mbms_sess_start_req_good in Hg; destruct_and! Hg. apply decodes_gtp_message; [reflexivity|assumption|]. unfold mbms_sess_start_req_body.
  read_rest v.
Qed.

(** [mbms_sess_start_rsp_t] *)
Definition mbms_sess_start_rsp_body (v : mbms_sess_start_rsp_t) : layout :=
  opt_layout v.(mbms_sess_start_rsp_cause) ++
  opt_layout v.(mbms_sess_start_rsp_sender_fteid_ctl_plane) ++
  opt_layout v.(mbms_sess_start_rsp_mbms_dist_ack) ++
  opt_layout v.(mbms_sess_start_rsp_sn_u_sgsn_fteid) ++
  opt_layout v.(mbms_sess_start_rsp_recovery) ++
  opt_layout v.(mbms_sess_start_rsp_priv_ext) ++
  [].
Definition mbms_sess_start_rsp_good (v : mbms_sess_start_rsp_t) : Prop :=
  gtp_message_good v.(mbms_sess_start_rsp_header) (mbms_sess_start_rsp_body v) ∧
  opt_good (GTP_IE_CAUSE, GTP_IE_INSTANCE_ZERO) v.(mbms_sess_start_rsp_cause) ∧
  opt_good (GTP_IE_FULLY_QUAL_TUNN_ENDPT_IDNT, GTP_IE_INSTANCE_ZERO) v.(mbms_sess_start_rsp_sender_fteid_ctl_plane) ∧
  opt_good (GTP_IE_MBMS_DIST_ACK, GTP_IE_INSTANCE_ZERO) v.(mbms_sess_start_rsp_mbms_dist_ack) ∧
  opt_good (GTP_IE_FULLY_QUAL_TUNN_ENDPT_IDNT, GTP_IE_INSTANCE_ONE) v.(mbms_sess_start_rsp_sn_u_sgsn_fteid) ∧
  opt_good (GTP_IE_RECOVERY, GTP_IE_INSTANCE_ZERO) v.(mbms_sess_start_rsp_recovery) ∧
  opt_good (GTP_IE_PRIV_EXT, GTP_IE_INSTANCE_ZERO) v.(mbms_sess_start_rsp_priv_ext).
Definition mbms_sess_start_rsp_layout (v : mbms_sess_start_rsp_t) : layout := layout_gtpv2c_header v.(mbms_sess_start_rsp_header) ++ mbms_sess_start_rsp_body v.
Lemma mbms_sess_start_rsp_encodes v : mbms_sess_start_rsp_good v -> encodes (encode_mbms_sess_start_rsp v) (mbms_sess_start_rsp_layout v) (size (mbms_sess_start_rsp_layout v) / 8).
Proof.
  intros Hg; unfold mbms_sess_start_rsp_good in Hg; destruct_and! Hg.
  apply (encodes_enc_bits 8); [by right|]. apply places_gtp_header. unfold mbms_sess_start_rsp_body.
  place_members ltac:(gtp_member).
Qed.
Lemma mbms_sess_start_rsp_decodes v : mbms_sess_start_rsp_good v ->
  decodes (decode_mbms_sess_start_rsp zero_mbms_sess_start_rsp) (mbms_sess_start_rsp_layout v) (size (mbms_sess_start_rsp_body v) / 8) v.
Proof.
  intros Hg; unfold mbms_sess_start_rsp_good in Hg; destruct_and! Hg. apply decodes_gtp_message; [reflexivity|assumption|]. unfold mbms_sess_start_rsp_body.
  read_rest v.
Qed.

(** [mbms_sess_upd_req_t] *)
Definition mbms_sess_upd_req_body (v : mbms_sess_upd_req_t) : layout :=
  opt_layout v.(mbms_sess_upd_req_mbms_svc_area) ++
  opt_layout v.(mbms_sess_upd_req_tmgi) ++
  opt_layout v.(mbms_sess_upd_req_sender_fteid_ctl_plane) ++
  opt_layout v.(mbms_sess_upd_req_mbms_sess_dur) ++
  opt_layout v.(mbms_sess_upd_req_qos_profile) ++
  opt_layout v.(mbms_sess_upd_req_mbms_sess_idnt) ++
  opt_layout v.(mbms_sess_upd_req_mbms_flow_idnt) ++
  opt_layout v.(mbms_sess_upd_req_mbms_time_to_data_xfer) ++
  opt_layout v.(mbms_sess_upd_req_mbms_data_xfer_start_upd_stop) ++
  opt_layout v.(mbms_sess_upd_req_mbms_cell_list) ++
  opt_layout v.(mbms_sess_upd_req_priv_ext) ++
  [].
Definition mbms_sess_upd_req_good (v : mbms_sess_upd_req_t) : Prop :=
  gtp_message_good v.(mbms_sess_upd_req_header) (mbms_sess_upd_req_body v) ∧
  opt_good (GTP_IE_MBMS_SVC_AREA, GTP_IE_INSTANCE_ZERO) v.(mbms_sess_upd_req_mbms_svc_area) ∧
  opt_good (GTP_IE_TMGI, GTP_IE_INSTANCE_ZERO) v.(mbms_sess_upd_req_tmgi) ∧
  opt_good (GTP_IE_FULLY_QUAL_TUNN_ENDPT_IDNT, GTP_IE_INSTANCE_ZERO) v.(mbms_sess_upd_req_sender_fteid_ctl_plane) ∧
  opt_good (GTP_IE_MBMS_SESS_DUR, GTP_IE_INSTANCE_ZERO) v.(mbms_sess_upd_req_mbms_sess_dur) ∧
  opt_good (GTP_IE_BEARER_QLTY_OF_SVC, GTP_IE_INSTANCE_ZERO) v.(mbms_sess_upd_req_qos_profile) ∧
  opt_good (GTP_IE_MBMS_SESS_IDNT, GTP_IE_INSTANCE_ZERO) v.(mbms_sess_upd_req_mbms_sess_idnt) ∧
  opt_good (GTP_IE_MBMS_FLOW_IDNT, GTP_IE_INSTANCE_ZERO) v.(mbms_sess_upd_req_mbms_flow_idnt) ∧
  opt_good (GTP_IE_MBMS_TIME_TO_DATA_XFER, GTP_IE_INSTANCE_ZERO) v.(mbms_sess_upd_req_mbms_time_to_data_xfer) ∧
  opt_good (GTP_IE_MBMS_DATA_XFER_ABS_TIME, GTP_IE_INSTANCE_ZERO) v.(mbms_sess_upd_req_mbms_data_xfer_start_upd_stop) ∧
  opt_good (GTP_IE_ECGI_LIST, GTP_IE_INSTANCE_ZERO) v.(mbms_sess_upd_req_mbms_cell_list) ∧
  opt_good (GTP_IE_PRIV_EXT, GTP_IE_INSTANCE_ZERO) v.(mbms_sess_upd_req_priv_ext).
Definition mbms_sess_upd_req_layout (v : mbms_sess_upd_req_t) : layout := layout_gtpv2c_header v.(mbms_sess_upd_req_header) ++ mbms_sess_upd_req_body v.
Lemma mbms_sess_upd_req_encodes v : mbms_sess_upd_req_good v -> encodes (encode_mbms_sess_upd_req v) (mbms_sess_upd_req_layout v) (size (mbms_sess_upd_req_layout v) / 8).
Proof.
  intros Hg; unfold mbms_sess_upd_req_good in Hg; destruct_and! Hg.
  apply (encodes_enc_bits 8); [by right|]. apply places_gtp_header. unfold mbms_sess_upd_req_body.
  place_members ltac:(gtp_member).
Qed.
Lemma mbms_sess_upd_req_decodes v : mbms_sess_upd_req_good v ->
  decodes (decode_mbms_sess_upd_req zero_mbms_sess_upd_req) (mbms_sess_upd_req_layout v) (size (mbms_sess_upd_req_body v) / 8) v.
Proof.
  intros Hg; unfold mbms_sess_upd_req_good in Hg; destruct_and! Hg. apply decodes_gtp_message; [reflexivity|assumption|]. unfold mbms_sess_upd_req_body.
  read_rest v.
Qed.

(** [mbms_sess_upd_rsp_t] *)
Definition mbms_sess_upd_rsp_body (v : mbms_sess_upd_rsp_t) : layout :=
  opt_layout v.(mbms_sess_upd_rsp_cause) ++
  opt_layout v.(mbms_sess_upd_rsp_mbms_dist_ack) ++
  opt_layout v.(mbms_sess_upd_rsp_sn_u_sgsn_fteid) ++
  opt_layout v.(mbms_sess_upd_rsp_recovery) ++
  opt_layout v.(mbms_sess_upd_rsp_priv_ext) ++
  [].
Definition mbms_sess_upd_rsp_good (v : mbms_sess_upd_rsp_t) : Prop :=
  gtp_message_good v.(mbms_sess_upd_rsp_header) (mbms_sess_upd_rsp_body v) ∧
  opt_good (GTP_IE_CAUSE, GTP_IE_INSTANCE_ZERO) v.(mbms_sess_upd_rsp_cause) ∧
  opt_good (GTP_IE_MBMS_DIST_ACK, GTP_IE_INSTANCE_ZERO) v.(mbms_sess_upd_rsp_mbms_dist_ack) ∧
  opt_good (GTP_IE_FULLY_QUAL_TUNN_ENDPT_IDNT, GTP_IE_INSTANCE_ZERO) v.(mbms_sess_upd_rsp_sn_u_sgsn_fteid) ∧
  opt_good (GTP_IE_RECOVERY, GTP_IE_INSTANCE_ZERO) v.(mbms_sess_upd_rsp_recovery) ∧
  opt_good (GTP_IE_PRIV_EXT, GTP_IE_INSTANCE_ZERO) v.(mbms_sess_upd_rsp_priv_ext).
Definition mbms_sess_upd_rsp_layout (v : mbms_sess_upd_rsp_t) : layout := layout_gtpv2c_header v.(mbms_sess_upd_rsp_header) ++ mbms_sess_upd_rsp_body v.
Lemma mbms_sess_upd_rsp_encodes v : mbms_sess_upd_rsp_good v -> encodes (encode_mbms_sess_upd_rsp v) (mbms_sess_upd_rsp_layout v) (size (mbms_sess_upd_rsp_layout v) / 8).
Proof.
  intros Hg; unfold mbms_sess_upd_rsp_good in Hg; destruct_and! Hg.
  apply (encodes_enc_bits 8); [by right|]. apply places_gtp_header. unfold mbms_sess_upd_rsp_body.
  place_members ltac:(gtp_member).
Qed.
Lemma mbms_sess_upd_rsp_decodes v : mbms_sess_upd_rsp_good v ->
  decodes (decode_mbms_sess_upd_rsp zero_mbms_sess_upd_rsp) (mbms_sess_upd_rsp_layout v) (size (mbms_sess_upd_rsp_body v) / 8) v.
Proof.
  intros Hg; unfold mbms_sess_upd_rsp_good in Hg; destruct_and! Hg. apply decodes_gtp_message; [reflexivity|assumption|]. unfold mbms_sess_upd_rsp_body.
  read_rest v.
Qed.

(** [mbms_sess_stop_req_t] *)
Definition mbms_sess_stop_req_body (v : mbms_sess_stop_req_t) : layout :=
  opt_layout v.(mbms_sess_stop_req_mbms_flow_idnt) ++
  opt_layout v.(mbms_sess_stop_req_mbms_data_xfer_stop) ++
  opt_layout v.(mbms_sess_stop_req_mbms_flags) ++
  opt_layout v.(mbms_sess_stop_req_priv_ext) ++
  [].
Definition mbms_sess_stop_req_good (v : mbms_sess_stop_req_t) : Prop :=
  gtp_message_good v.(mbms_sess_stop_req_header) (mbms_sess_stop_req_body v) ∧
  opt_good (GTP_IE_MBMS_FLOW_IDNT, GTP_IE_INSTANCE_ZERO) v.(mbms_sess_stop_req_mbms_flow_idnt) ∧
  opt_good (GTP_IE_MBMS_DATA_XFER_ABS_TIME, GTP_IE_INSTANCE_ZERO) v.(mbms_sess_stop_req_mbms_data_xfer_stop) ∧
  opt_good (GTP_IE_MBMS_FLAGS, GTP_IE_INSTANCE_ZERO) v.(mbms_sess_stop_req_mbms_flags) ∧
  opt_good (GTP_IE_PRIV_EXT, GTP_IE_INSTANCE_ZERO) v.(mbms_sess_stop_req_priv_ext).
Definition mbms_sess_stop_req_layout (v : mbms_sess_stop_req_t) : layout := layout_gtpv2c_header v.(mbms_sess_stop_req_header) ++ mbms_sess_stop_req_body v.
Lemma mbms_sess_stop_req_encodes v : mbms_sess_stop_req_good v -> encodes (encode_mbms_sess_stop_req v) (mbms_sess_stop_req_layout v) (size (mbms_sess_stop_req_layout v) / 8).
Proof.
  intros Hg; unfold mbms_sess_stop_req_good in Hg; destruct_and! Hg.
  apply (encodes_enc_bits 8); [by right|]. apply places_gtp_header. unfold mbms_sess_stop_req_body.
  place_members ltac:(gtp_member).
Qed.
Lemma mbms_sess_stop_req_decodes v : mbms_sess_stop_req_good v ->
  decodes (decode_mbms_sess_stop_req zero_mbms_sess_stop_req) (mbms_sess_stop_req_layout v) (size (mbms_sess_stop_req_body v) / 8) v.
Proof.
  intros Hg; unfold mbms_sess_stop_req_good in Hg; destruct_and! Hg. apply decodes_gtp_message; [reflexivity|assumption|]. unfold mbms_sess_stop_req_body.
  read_rest v.
Qed.
