(* ===== verification/GtpMsgsProps.v ===== *)
(** * Properties of the GTPv2 elements, groups and messages

    The round trips of the elements and messages, the sizes the decoders of the groups
    return, and the bounds of the arrays. *)

From S2P Require Import Prelude EncDecBits Codec CodecSpec Tlv GtpIes GtpIesEncoder GtpIesDecoder.
From S2P Require Import GtpIesSpec GtpIesOptional GtpIesLocation.
From S2P Require Import GtpMsgs GtpMsgsEncoder GtpMsgsDecoder GtpGroups GtpMsgsSpec.

(** ** Elements *)

(** The elements of fixed form, and those with optional or variable parts. *)
Inductive gtp_ie : Type :=
| GOI_regular (i : gtp_regular_ie)
| GOI_acc_pt_name (v : gtp_acc_pt_name_ie_t)
| GOI_fully_qual_domain_name (v : gtp_fully_qual_domain_name_ie_t)
| GOI_eps_bearer_lvl_traffic_flow_tmpl (v : gtp_eps_bearer_lvl_traffic_flow_tmpl_ie_t)
| GOI_load_ctl_info (v : gtp_load_ctl_info_ie_t)
| GOI_ovrld_ctl_info (v : gtp_ovrld_ctl_info_ie_t)
| GOI_pdn_addr_alloc (v : gtp_pdn_addr_alloc_ie_t)
| GOI_cause (v : gtp_cause_ie_t)
| GOI_fully_qual_tunn_endpt_idnt (v : gtp_fully_qual_tunn_endpt_idnt_ie_t)
| GOI_msisdn (v : gtp_msisdn_ie_t)
| GOI_imsi (v : gtp_imsi_ie_t)
| GOI_prot_cfg_opts (v : gtp_prot_cfg_opts_ie_t)
| GOI_addtl_prot_cfg_opts (v : gtp_addtl_prot_cfg_opts_ie_t)
| GOI_extnded_prot_cfg_opts (v : gtp_extnded_prot_cfg_opts_ie_t)
| GOI_indication (v : gtp_indication_ie_t)
| GOI_fqcsid (v : gtp_fqcsid_ie_t)
| GOI_user_loc_info (v : gtp_user_loc_info_ie_t).

Definition gtp_ie_encode (i : gtp_ie) : ie_encoder :=
  match i with
  | GOI_regular i => gtp_regular_encode i
  | GOI_acc_pt_name v => encode_gtp_acc_pt_name_ie v
  | GOI_fully_qual_domain_name v => encode_gtp_fully_qual_domain_name_ie v
  | GOI_eps_bearer_lvl_traffic_flow_tmpl v => encode_gtp_eps_bearer_lvl_traffic_flow_tmpl_ie v
  | GOI_load_ctl_info v => encode_gtp_load_ctl_info_ie v
  | GOI_ovrld_ctl_info v => encode_gtp_ovrld_ctl_info_ie v
  | GOI_pdn_addr_alloc v => encode_gtp_pdn_addr_alloc_ie v
  | GOI_cause v => encode_gtp_cause_ie v
  | GOI_fully_qual_tunn_endpt_idnt v => encode_gtp_fully_qual_tunn_endpt_idnt_ie v
  | GOI_msisdn v => encode_gtp_msisdn_ie v
  | GOI_imsi v => encode_gtp_imsi_ie v
  | GOI_prot_cfg_opts v => encode_gtp_prot_cfg_opts_ie v
  | GOI_addtl_prot_cfg_opts v => encode_gtp_addtl_prot_cfg_opts_ie v
  | GOI_extnded_prot_cfg_opts v => encode_gtp_extnded_prot_cfg_opts_ie v
  | GOI_indication v => encode_gtp_indication_ie v
  | GOI_fqcsid v => encode_gtp_fqcsid_ie v
  | GOI_user_loc_info v => encode_gtp_user_loc_info_ie v
  end.

(** The decoder of the same type, into a zeroed structure. *)
Definition gtp_ie_decode (i : gtp_ie) (buf : list Z) : option (Z * gtp_ie) :=
  match i with
  | GOI_regular i => '(k, x) ← gtp_regular_decode i buf; Some (k, GOI_regular x)
  | GOI_acc_pt_name _ => '(k, x) ← decode_gtp_acc_pt_name_ie zero_gtp_acc_pt_name buf; Some (k, GOI_acc_pt_name x)
  | GOI_fully_qual_domain_name _ => '(k, x) ← decode_gtp_fully_qual_domain_name_ie zero_gtp_fully_qual_domain_name buf; Some (k, GOI_fully_qual_domain_name x)
  | GOI_eps_bearer_lvl_traffic_flow_tmpl _ => '(k, x) ← decode_gtp_eps_bearer_lvl_traffic_flow_tmpl_ie zero_gtp_eps_bearer_lvl_traffic_flow_tmpl buf; Some (k, GOI_eps_bearer_lvl_traffic_flow_tmpl x)
  | GOI_load_ctl_info _ => '(k, x) ← decode_gtp_load_ctl_info_ie zero_gtp_load_ctl_info buf; Some (k, GOI_load_ctl_info x)
  | GOI_ovrld_ctl_info _ => '(k, x) ← decode_gtp_ovrld_ctl_info_ie zero_gtp_ovrld_ctl_info buf; Some (k, GOI_ovrld_ctl_info x)
  | GOI_pdn_addr_alloc _ => '(k, x) ← decode_gtp_pdn_addr_alloc_ie zero_gtp_pdn_addr_alloc buf; Some (k, GOI_pdn_addr_alloc x)
  | GOI_cause _ => '(k, x) ← decode_gtp_cause_ie zero_gtp_cause buf; Some (k, GOI_cause x)
  | GOI_fully_qual_tunn_endpt_idnt _ => '(k, x) ← decode_gtp_fully_qual_tunn_endpt_idnt_ie zero_gtp_fully_qual_tunn_endpt_idnt buf; Some (k, GOI_fully_qual_tunn_endpt_idnt x)
  | GOI_msisdn _ => '(k, x) ← decode_gtp_msisdn_ie zero_gtp_msisdn buf; Some (k, GOI_msisdn x)
  | GOI_imsi _ => '(k, x) ← decode_gtp_imsi_ie zero_gtp_imsi buf; Some (k, GOI_imsi x)
  | GOI_prot_cfg_opts _ => '(k, x) ← decode_gtp_prot_cfg_opts_ie zero_gtp_prot_cfg_opts buf; Some (k, GOI_prot_cfg_opts x)
  | GOI_addtl_prot_cfg_opts _ => '(k, x) ← decode_gtp_addtl_prot_cfg_opts_ie zero_gtp_addtl_prot_cfg_opts buf; Some (k, GOI_addtl_prot_cfg_opts x)
  | GOI_extnded_prot_cfg_opts _ => '(k, x) ← decode_gtp_extnded_prot_cfg_opts_ie zero_gtp_extnded_prot_cfg_opts buf; Some (k, GOI_extnded_prot_cfg_opts x)
  | GOI_indication _ => '(k, x) ← decode_gtp_indication_ie zero_gtp_indication buf; Some (k, GOI_indication x)
  | GOI_fqcsid _ => '(k, x) ← decode_gtp_fqcsid_ie zero_gtp_fqcsid buf; Some (k, GOI_fqcsid x)
  | GOI_user_loc_info _ => '(k, x) ← decode_gtp_user_loc_info_ie zero_gtp_user_loc_info buf; Some (k, GOI_user_loc_info x)
  end.

Definition gtp_ie_layout (i : gtp_ie) : layout :=
  match i with
  | GOI_regular i => gtp_regular_layout i
  | GOI_acc_pt_name v => layout_apn v
  | GOI_fully_qual_domain_name v => layout_fqdn v
  | GOI_eps_bearer_lvl_traffic_flow_tmpl v => layout_tft v
  | GOI_load_ctl_info v => layout_load_ctl v
  | GOI_ovrld_ctl_info v => layout_ovrld_ctl v
  | GOI_pdn_addr_alloc v => layout_paa v
  | GOI_cause v => layout_gtp_cause v
  | GOI_fully_qual_tunn_endpt_idnt v => layout_gtp_fteid v
  | GOI_msisdn v => layout_msisdn v
  | GOI_imsi v => layout_imsi v
  | GOI_prot_cfg_opts v => layout_pco v
  | GOI_addtl_prot_cfg_opts v => layout_apco v
  | GOI_extnded_prot_cfg_opts v => layout_epco v
  | GOI_indication v => layout_indication v
  | GOI_fqcsid v => layout_fqcsid v
  | GOI_user_loc_info v => layout_uli v
  end.

Definition gtp_ie_good (i : gtp_ie) : Prop :=
  match i with
  | GOI_regular i => layout_ok (gtp_regular_layout i)
  | GOI_acc_pt_name v => apn_good v
  | GOI_fully_qual_domain_name v => fqdn_good v
  | GOI_eps_bearer_lvl_traffic_flow_tmpl v => tft_good v
  | GOI_load_ctl_info v => load_ctl_good v
  | GOI_ovrld_ctl_info v => ovrld_ctl_good v
  | GOI_pdn_addr_alloc v => paa_good v
  | GOI_cause v => gtp_cause_good v
  | GOI_fully_qual_tunn_endpt_idnt v => gtp_fteid_good v
  | GOI_msisdn v => msisdn_good v
  | GOI_imsi v => imsi_good v
  | GOI_prot_cfg_opts v => pco_good v
  | GOI_addtl_prot_cfg_opts v => apco_good v
  | GOI_extnded_prot_cfg_opts v => epco_good v
  | GOI_indication v => indication_good v
  | GOI_fqcsid v => fqcsid_good v
  | GOI_user_loc_info v => uli_good v
  end.

Lemma gtp_ie_encodes i : gtp_ie_good i ->
  encodes (gtp_ie_encode i) (gtp_ie_layout i) (size (gtp_ie_layout i) / 8).
Proof.
  destruct i; cbn [gtp_ie_good gtp_ie_encode gtp_ie_layout]; intros Hg;
    [apply gtp_regular_encodes|by apply apn_agree|
     by apply fqdn_agree|
     by apply tft_agree|
     by apply load_ctl_agree|
     by apply ovrld_ctl_agree|
     by apply paa_agree|
     by apply gtp_cause_agree|
     by apply gtp_fteid_agree|
     by apply msisdn_agree|
     by apply imsi_agree|
     by apply pco_agree|
     by apply apco_agree|
     by apply epco_agree|
     by apply indication_agree|
     by apply fqcsid_agree|
     by apply uli_agree].
Qed.

Lemma gtp_ie_decodes i : gtp_ie_good i ->
  decodes (gtp_ie_decode i) (gtp_ie_layout i) (size (gtp_ie_layout i) / 8) i.
Proof.
  destruct i; intros Hg buf post Hh Hs; unfold gtp_ie_decode;
    [rewrite (gtp_regular_decodes i buf post Hg Hh Hs)|rewrite (proj2 (apn_agree v Hg) buf post Hh Hs)|
     rewrite (proj2 (fqdn_agree v Hg) buf post Hh Hs)|
     rewrite (proj2 (tft_agree v Hg) buf post Hh Hs)|
     rewrite (proj2 (load_ctl_agree v Hg) buf post Hh Hs)|
     rewrite (proj2 (ovrld_ctl_agree v Hg) buf post Hh Hs)|
     rewrite (proj2 (paa_agree v Hg) buf post Hh Hs)|
     rewrite (proj2 (gtp_cause_agree v Hg) buf post Hh Hs)|
     rewrite (proj2 (gtp_fteid_agree v Hg) buf post Hh Hs)|
     rewrite (proj2 (msisdn_agree v Hg) buf post Hh Hs)|
     rewrite (proj2 (imsi_agree v Hg) buf post Hh Hs)|
     rewrite (proj2 (pco_agree v Hg) buf post Hh Hs)|
     rewrite (proj2 (apco_agree v Hg) buf post Hh Hs)|
     rewrite (proj2 (epco_agree v Hg) buf post Hh Hs)|
     rewrite (proj2 (indication_agree v Hg) buf post Hh Hs)|
     rewrite (proj2 (fqcsid_agree v Hg) buf post Hh Hs)|
     rewrite (proj2 (uli_agree v Hg) buf post Hh Hs)]; done.
Qed.

(** ** Groups *)

Inductive gtp_group : Type :=
| GRP_create_sess_request_bearer_ctxt_to_be_created (v : gtp_create_sess_request_bearer_ctxt_to_be_created_ie_t)
| GRP_create_sess_request_bearer_ctxt_to_be_removed (v : gtp_create_sess_request_bearer_ctxt_to_be_removed_ie_t)
| GRP_create_sess_request__overload_ctl_info (v : gtp_create_sess_request__overload_ctl_info_ie_t)
| GRP_create_sess_request__remote_ue_ctxt_connected (v : gtp_create_sess_request__remote_ue_ctxt_connected_ie_t)
| GRP_create_sess_response_bearer_ctxt_created (v : gtp_create_sess_response_bearer_ctxt_created_ie_t)
| GRP_create_sess_response_bearer_ctxt_marked_removal (v : gtp_create_sess_response_bearer_ctxt_marked_removal_ie_t)
| GRP_create_sess_response__load_ctl_info (v : gtp_create_sess_response__load_ctl_info_ie_t)
| GRP_create_sess_response__overload_ctl_info (v : gtp_create_sess_response__overload_ctl_info_ie_t)
| GRP_create_bearer_request_bearer_ctxt (v : gtp_create_bearer_request_bearer_ctxt_ie_t)
| GRP_create_bearer_request__load_ctl_info (v : gtp_create_bearer_request__load_ctl_info_ie_t)
| GRP_create_bearer_request__overload_ctl_info (v : gtp_create_bearer_request__overload_ctl_info_ie_t)
| GRP_create_bearer_response_bearer_ctxt (v : gtp_create_bearer_response_bearer_ctxt_ie_t)
| GRP_create_bearer_response__overload_ctl_info (v : gtp_create_bearer_response__overload_ctl_info_ie_t)
| GRP_bearer_rsrc_command__overload_ctl_info (v : gtp_bearer_rsrc_command__overload_ctl_info_ie_t)
| GRP_bearer_rsrc_fail_indication__overload_ctl_info (v : gtp_bearer_rsrc_fail_indication__overload_ctl_info_ie_t)
| GRP_mod_bearer_request_bearer_ctxt_to_be_modified (v : gtp_mod_bearer_request_bearer_ctxt_to_be_modified_ie_t)
| GRP_mod_bearer_request_bearer_ctxt_to_be_removed (v : gtp_mod_bearer_request_bearer_ctxt_to_be_removed_ie_t)
| GRP_mod_bearer_request_overload_ctl_info (v : gtp_mod_bearer_request_overload_ctl_info_ie_t)
| GRP_mod_bearer_response_bearer_ctxt_modified (v : gtp_mod_bearer_response_bearer_ctxt_modified_ie_t)
| GRP_mod_bearer_response_bearer_ctxt_marked_removal (v : gtp_mod_bearer_response_bearer_ctxt_marked_removal_ie_t)
| GRP_mod_bearer_response__load_ctl_info (v : gtp_mod_bearer_response__load_ctl_info_ie_t)
| GRP_mod_bearer_response__overload_ctl_info (v : gtp_mod_bearer_response__overload_ctl_info_ie_t)
| GRP_del_sess_request__overload_ctl_info (v : gtp_del_sess_request__overload_ctl_info_ie_t)
| GRP_del_bearer_request__bearer_ctxt (v : gtp_del_bearer_request__bearer_ctxt_ie_t)
| GRP_del_bearer_request__load_ctl_info (v : gtp_del_bearer_request__load_ctl_info_ie_t)
| GRP_del_bearer_request__overload_ctl_info (v : gtp_del_bearer_request__overload_ctl_info_ie_t)
| GRP_del_sess_response__load_ctl_info (v : gtp_del_sess_response__load_ctl_info_ie_t)
| GRP_del_sess_response__overload_ctl_info (v : gtp_del_sess_response__overload_ctl_info_ie_t)
| GRP_del_bearer_response_bearer_ctxt (v : gtp_del_bearer_response_bearer_ctxt_ie_t)
| GRP_del_bearer_response__overload_ctl_info (v : gtp_del_bearer_response__overload_ctl_info_ie_t)
| GRP_dnlnk_data_notification__load_ctl_info (v : gtp_dnlnk_data_notification__load_ctl_info_ie_t)
| GRP_dnlnk_data_notification__overload_ctl_info (v : gtp_dnlnk_data_notification__overload_ctl_info_ie_t)
| GRP_mod_bearer_command__bearer_ctxt (v : gtp_mod_bearer_command__bearer_ctxt_ie_t)
| GRP_mod_bearer_command__overload_ctl_info (v : gtp_mod_bearer_command__overload_ctl_info_ie_t)
| GRP_mod_bearer_fail_indication__overload_ctl_info (v : gtp_mod_bearer_fail_indication__overload_ctl_info_ie_t)
| GRP_upd_bearer_request__bearer_ctxt (v : gtp_upd_bearer_request__bearer_ctxt_ie_t)
| GRP_upd_bearer_request__load_ctl_info (v : gtp_upd_bearer_request__load_ctl_info_ie_t)
| GRP_upd_bearer_request__overload_ctl_info (v : gtp_upd_bearer_request__overload_ctl_info_ie_t)
| GRP_upd_bearer_response__bearer_ctxt (v : gtp_upd_bearer_response__bearer_ctxt_ie_t)
| GRP_upd_bearer_response__overload_ctl_info (v : gtp_upd_bearer_response__overload_ctl_info_ie_t)
| GRP_del_bearer_command_bearer_ctxt (v : gtp_del_bearer_command_bearer_ctxt_ie_t)
| GRP_del_bearer_command__overload_ctl_info (v : gtp_del_bearer_command__overload_ctl_info_ie_t)
| GRP_del_bearer_fail_indication__bearer_ctxt (v : gtp_del_bearer_fail_indication__bearer_ctxt_ie_t)
| GRP_del_bearer_fail_indication__overload_ctl_info (v : gtp_del_bearer_fail_indication__overload_ctl_info_ie_t)
| GRP_create_indir_data_fwdng_tunn_request__bearer_ctxt (v : gtp_create_indir_data_fwdng_tunn_request__bearer_ctxt_ie_t)
| GRP_create_indir_data_fwdng_tunn_response__bearer_ctxt (v : gtp_create_indir_data_fwdng_tunn_response__bearer_ctxt_ie_t)
| GRP_release_acc_bearers_response__load_ctl_info (v : gtp_release_acc_bearers_response__load_ctl_info_ie_t)
| GRP_release_acc_bearers_response__overload_ctl_info (v : gtp_release_acc_bearers_response__overload_ctl_info_ie_t)
| GRP_mod_acc_bearers_request__bearer_ctxt_to_be_modified (v : gtp_mod_acc_bearers_request__bearer_ctxt_to_be_modified_ie_t)
| GRP_mod_acc_bearers_request__bearer_ctxt_to_be_removed (v : gtp_mod_acc_bearers_request__bearer_ctxt_to_be_removed_ie_t)
| GRP_mod_acc_bearers_response__bearer_ctxt_modified (v : gtp_mod_acc_bearers_response__bearer_ctxt_modified_ie_t)
| GRP_mod_acc_bearers_response__bearer_ctxt_marked_removal (v : gtp_mod_acc_bearers_response__bearer_ctxt_marked_removal_ie_t)
| GRP_mod_acc_bearers_response__load_ctl_info (v : gtp_mod_acc_bearers_response__load_ctl_info_ie_t)
| GRP_mod_acc_bearers_response__overload_ctl_info (v : gtp_mod_acc_bearers_response__overload_ctl_info_ie_t)
| GRP_rmt_ue_rpt_notification__remote_ue_ctxt_connected (v : gtp_rmt_ue_rpt_notification__remote_ue_ctxt_connected_ie_t)
| GRP_rmt_ue_rpt_notification__remote_ue_ctxt_disconnected (v : gtp_rmt_ue_rpt_notification__remote_ue_ctxt_disconnected_ie_t)
| GRP_fwd_reloc_request__mmesgsnamf_ue_eps_pdn_connections (v : gtp_fwd_reloc_request__mmesgsnamf_ue_eps_pdn_connections_ie_t)
| GRP_fwd_reloc_request__bearer_ctxt (v : gtp_fwd_reloc_request__bearer_ctxt_ie_t)
| GRP_fwd_reloc_request__remote_ue_ctxt_connected (v : gtp_fwd_reloc_request__remote_ue_ctxt_connected_ie_t)
| GRP_fwd_reloc_request__mme_ue_scef_pdn_connections (v : gtp_fwd_reloc_request__mme_ue_scef_pdn_connections_ie_t)
| GRP_ctxt_response__mmesgsn_ue_eps_pdn_connections (v : gtp_ctxt_response__mmesgsn_ue_eps_pdn_connections_ie_t)
| GRP_ctxt_response__bearer_ctxt (v : gtp_ctxt_response__bearer_ctxt_ie_t)
| GRP_ctxt_response__remote_ue_ctxt_connected (v : gtp_ctxt_response__remote_ue_ctxt_connected_ie_t)
| GRP_ctxt_response__mmesgsn_ue_scef_pdn_connections (v : gtp_ctxt_response__mmesgsn_ue_scef_pdn_connections_ie_t)
| GRP_ctxt_acknowledge__bearer_ctxt (v : gtp_ctxt_acknowledge__bearer_ctxt_ie_t).

Definition gtp_group_encode (g : gtp_group) : ie_encoder :=
  match g with
  | GRP_create_sess_request_bearer_ctxt_to_be_created v => encode_gtp_create_sess_request_bearer_ctxt_to_be_created_ie v
  | GRP_create_sess_request_bearer_ctxt_to_be_removed v => encode_gtp_create_sess_request_bearer_ctxt_to_be_removed_ie v
  | GRP_create_sess_request__overload_ctl_info v => encode_gtp_create_sess_request__overload_ctl_info_ie v
  | GRP_create_sess_request__remote_ue_ctxt_connected v => encode_gtp_create_sess_request__remote_ue_ctxt_connected_ie v
  | GRP_create_sess_response_bearer_ctxt_created v => encode_gtp_create_sess_response_bearer_ctxt_created_ie v
  | GRP_create_sess_response_bearer_ctxt_marked_removal v => encode_gtp_create_sess_response_bearer_ctxt_marked_removal_ie v
  | GRP_create_sess_response__load_ctl_info v => encode_gtp_create_sess_response__load_ctl_info_ie v
  | GRP_create_sess_response__overload_ctl_info v => encode_gtp_create_sess_response__overload_ctl_info_ie v
  | GRP_create_bearer_request_bearer_ctxt v => encode_gtp_create_bearer_request_bearer_ctxt_ie v
  | GRP_create_bearer_request__load_ctl_info v => encode_gtp_create_bearer_request__load_ctl_info_ie v
  | GRP_create_bearer_request__overload_ctl_info v => encode_gtp_create_bearer_request__overload_ctl_info_ie v
  | GRP_create_bearer_response_bearer_ctxt v => encode_gtp_create_bearer_response_bearer_ctxt_ie v
  | GRP_create_bearer_response__overload_ctl_info v => encode_gtp_create_bearer_response__overload_ctl_info_ie v
  | GRP_bearer_rsrc_command__overload_ctl_info v => encode_gtp_bearer_rsrc_command__overload_ctl_info_ie v
  | GRP_bearer_rsrc_fail_indication__overload_ctl_info v => encode_gtp_bearer_rsrc_fail_indication__overload_ctl_info_ie v
  | GRP_mod_bearer_request_bearer_ctxt_to_be_modified v => encode_gtp_mod_bearer_request_bearer_ctxt_to_be_modified_ie v
  | GRP_mod_bearer_request_bearer_ctxt_to_be_removed v => encode_gtp_mod_bearer_request_bearer_ctxt_to_be_removed_ie v
  | GRP_mod_bearer_request_overload_ctl_info v => encode_gtp_mod_bearer_request_overload_ctl_info_ie v
  | GRP_mod_bearer_response_bearer_ctxt_modified v => encode_gtp_mod_bearer_response_bearer_ctxt_modified_ie v
  | GRP_mod_bearer_response_bearer_ctxt_marked_removal v => encode_gtp_mod_bearer_response_bearer_ctxt_marked_removal_ie v
  | GRP_mod_bearer_response__load_ctl_info v => encode_gtp_mod_bearer_response__load_ctl_info_ie v
  | GRP_mod_bearer_response__overload_ctl_info v => encode_gtp_mod_bearer_response__overload_ctl_info_ie v
  | GRP_del_sess_request__overload_ctl_info v => encode_gtp_del_sess_request__overload_ctl_info_ie v
  | GRP_del_bearer_request__bearer_ctxt v => encode_gtp_del_bearer_request__bearer_ctxt_ie v
  | GRP_del_bearer_request__load_ctl_info v => encode_gtp_del_bearer_request__load_ctl_info_ie v
  | GRP_del_bearer_request__overload_ctl_info v => encode_gtp_del_bearer_request__overload_ctl_info_ie v
  | GRP_del_sess_response__load_ctl_info v => encode_gtp_del_sess_response__load_ctl_info_ie v
  | GRP_del_sess_response__overload_ctl_info v => encode_gtp_del_sess_response__overload_ctl_info_ie v
  | GRP_del_bearer_response_bearer_ctxt v => encode_gtp_del_bearer_response_bearer_ctxt_ie v
  | GRP_del_bearer_response__overload_ctl_info v => encode_gtp_del_bearer_response__overload_ctl_info_ie v
  | GRP_dnlnk_data_notification__load_ctl_info v => encode_gtp_dnlnk_data_notification__load_ctl_info_ie v
  | GRP_dnlnk_data_notification__overload_ctl_info v => encode_gtp_dnlnk_data_notification__overload_ctl_info_ie v
  | GRP_mod_bearer_command__bearer_ctxt v => encode_gtp_mod_bearer_command__bearer_ctxt_ie v
  | GRP_mod_bearer_command__overload_ctl_info v => encode_gtp_mod_bearer_command__overload_ctl_info_ie v
  | GRP_mod_bearer_fail_indication__overload_ctl_info v => encode_gtp_mod_bearer_fail_indication__overload_ctl_info_ie v
  | GRP_upd_bearer_request__bearer_ctxt v => encode_gtp_upd_bearer_request__bearer_ctxt_ie v
  | GRP_upd_bearer_request__load_ctl_info v => encode_gtp_upd_bearer_request__load_ctl_info_ie v
  | GRP_upd_bearer_request__overload_ctl_info v => encode_gtp_upd_bearer_request__overload_ctl_info_ie v
  | GRP_upd_bearer_response__bearer_ctxt v => encode_gtp_upd_bearer_response__bearer_ctxt_ie v
  | GRP_upd_bearer_response__overload_ctl_info v => encode_gtp_upd_bearer_response__overload_ctl_info_ie v
  | GRP_del_bearer_command_bearer_ctxt v => encode_gtp_del_bearer_command_bearer_ctxt_ie v
  | GRP_del_bearer_command__overload_ctl_info v => encode_gtp_del_bearer_command__overload_ctl_info_ie v
  | GRP_del_bearer_fail_indication__bearer_ctxt v => encode_gtp_del_bearer_fail_indication__bearer_ctxt_ie v
  | GRP_del_bearer_fail_indication__overload_ctl_info v => encode_gtp_del_bearer_fail_indication__overload_ctl_info_ie v
  | GRP_create_indir_data_fwdng_tunn_request__bearer_ctxt v => encode_gtp_create_indir_data_fwdng_tunn_request__bearer_ctxt_ie v
  | GRP_create_indir_data_fwdng_tunn_response__bearer_ctxt v => encode_gtp_create_indir_data_fwdng_tunn_response__bearer_ctxt_ie v
  | GRP_release_acc_bearers_response__load_ctl_info v => encode_gtp_release_acc_bearers_response__load_ctl_info_ie v
  | GRP_release_acc_bearers_response__overload_ctl_info v => encode_gtp_release_acc_bearers_response__overload_ctl_info_ie v
  | GRP_mod_acc_bearers_request__bearer_ctxt_to_be_modified v => encode_gtp_mod_acc_bearers_request__bearer_ctxt_to_be_modified_ie v
  | GRP_mod_acc_bearers_request__bearer_ctxt_to_be_removed v => encode_gtp_mod_acc_bearers_request__bearer_ctxt_to_be_removed_ie v
  | GRP_mod_acc_bearers_response__bearer_ctxt_modified v => encode_gtp_mod_acc_bearers_response__bearer_ctxt_modified_ie v
  | GRP_mod_acc_bearers_response__bearer_ctxt_marked_removal v => encode_gtp_mod_acc_bearers_response__bearer_ctxt_marked_removal_ie v
  | GRP_mod_acc_bearers_response__load_ctl_info v => encode_gtp_mod_acc_bearers_response__load_ctl_info_ie v
  | GRP_mod_acc_bearers_response__overload_ctl_info v => encode_gtp_mod_acc_bearers_response__overload_ctl_info_ie v
  | GRP_rmt_ue_rpt_notification__remote_ue_ctxt_connected v => encode_gtp_rmt_ue_rpt_notification__remote_ue_ctxt_connected_ie v
  | GRP_rmt_ue_rpt_notification__remote_ue_ctxt_disconnected v => encode_gtp_rmt_ue_rpt_notification__remote_ue_ctxt_disconnected_ie v
  | GRP_fwd_reloc_request__mmesgsnamf_ue_eps_pdn_connections v => encode_gtp_fwd_reloc_request__mmesgsnamf_ue_eps_pdn_connections_ie v
  | GRP_fwd_reloc_request__bearer_ctxt v => encode_gtp_fwd_reloc_request__bearer_ctxt_ie v
  | GRP_fwd_reloc_request__remote_ue_ctxt_connected v => encode_gtp_fwd_reloc_request__remote_ue_ctxt_connected_ie v
  | GRP_fwd_reloc_request__mme_ue_scef_pdn_connections v => encode_gtp_fwd_reloc_request__mme_ue_scef_pdn_connections_ie v
  | GRP_ctxt_response__mmesgsn_ue_eps_pdn_connections v => encode_gtp_ctxt_response__mmesgsn_ue_eps_pdn_connections_ie v
  | GRP_ctxt_response__bearer_ctxt v => encode_gtp_ctxt_response__bearer_ctxt_ie v
  | GRP_ctxt_response__remote_ue_ctxt_connected v => encode_gtp_ctxt_response__remote_ue_ctxt_connected_ie v
  | GRP_ctxt_response__mmesgsn_ue_scef_pdn_connections v => encode_gtp_ctxt_response__mmesgsn_ue_scef_pdn_connections_ie v
  | GRP_ctxt_acknowledge__bearer_ctxt v => encode_gtp_ctxt_acknowledge__bearer_ctxt_ie v
  end.

Definition gtp_group_decode (g : gtp_group) (buf : list Z) : option (Z * gtp_group) :=
  match g with
  | GRP_create_sess_request_bearer_ctxt_to_be_created _ => '(k, x) ← decode_gtp_create_sess_request_bearer_ctxt_to_be_created_ie zero_gtp_create_sess_request_bearer_ctxt_to_be_created buf; Some (k, GRP_create_sess_request_bearer_ctxt_to_be_created x)
  | GRP_create_sess_request_bearer_ctxt_to_be_removed _ => '(k, x) ← decode_gtp_create_sess_request_bearer_ctxt_to_be_removed_ie zero_gtp_create_sess_request_bearer_ctxt_to_be_removed buf; Some (k, GRP_create_sess_request_bearer_ctxt_to_be_removed x)
  | GRP_create_sess_request__overload_ctl_info _ => '(k, x) ← decode_gtp_create_sess_request__overload_ctl_info_ie zero_gtp_create_sess_request__overload_ctl_info buf; Some (k, GRP_create_sess_request__overload_ctl_info x)
  | GRP_create_sess_request__remote_ue_ctxt_connected _ => '(k, x) ← decode_gtp_create_sess_request__remote_ue_ctxt_connected_ie zero_gtp_create_sess_request__remote_ue_ctxt_connected buf; Some (k, GRP_create_sess_request__remote_ue_ctxt_connected x)
  | GRP_create_sess_response_bearer_ctxt_created _ => '(k, x) ← decode_gtp_create_sess_response_bearer_ctxt_created_ie zero_gtp_create_sess_response_bearer_ctxt_created buf; Some (k, GRP_create_sess_response_bearer_ctxt_created x)
  | GRP_create_sess_response_bearer_ctxt_marked_removal _ => '(k, x) ← decode_gtp_create_sess_response_bearer_ctxt_marked_removal_ie zero_gtp_create_sess_response_bearer_ctxt_marked_removal buf; Some (k, GRP_create_sess_response_bearer_ctxt_marked_removal x)
  | GRP_create_sess_response__load_ctl_info _ => '(k, x) ← decode_gtp_create_sess_response__load_ctl_info_ie zero_gtp_create_sess_response__load_ctl_info buf; Some (k, GRP_create_sess_response__load_ctl_info x)
  | GRP_create_sess_response__overload_ctl_info _ => '(k, x) ← decode_gtp_create_sess_response__overload_ctl_info_ie zero_gtp_create_sess_response__overload_ctl_info buf; Some (k, GRP_create_sess_response__overload_ctl_info x)
  | GRP_create_bearer_request_bearer_ctxt _ => '(k, x) ← decode_gtp_create_bearer_request_bearer_ctxt_ie zero_gtp_create_bearer_request_bearer_ctxt buf; Some (k, GRP_create_bearer_request_bearer_ctxt x)
  | GRP_create_bearer_request__load_ctl_info _ => '(k, x) ← decode_gtp_create_bearer_request__load_ctl_info_ie zero_gtp_create_bearer_request__load_ctl_info buf; Some (k, GRP_create_bearer_request__load_ctl_info x)
  | GRP_create_bearer_request__overload_ctl_info _ => '(k, x) ← decode_gtp_create_bearer_request__overload_ctl_info_ie zero_gtp_create_bearer_request__overload_ctl_info buf; Some (k, GRP_create_bearer_request__overload_ctl_info x)
  | GRP_create_bearer_response_bearer_ctxt _ => '(k, x) ← decode_gtp_create_bearer_response_bearer_ctxt_ie zero_gtp_create_bearer_response_bearer_ctxt buf; Some (k, GRP_create_bearer_response_bearer_ctxt x)
  | GRP_create_bearer_response__overload_ctl_info _ => '(k, x) ← decode_gtp_create_bearer_response__overload_ctl_info_ie zero_gtp_create_bearer_response__overload_ctl_info buf; Some (k, GRP_create_bearer_response__overload_ctl_info x)
  | GRP_bearer_rsrc_command__overload_ctl_info _ => '(k, x) ← decode_gtp_bearer_rsrc_command__overload_ctl_info_ie zero_gtp_bearer_rsrc_command__overload_ctl_info buf; Some (k, GRP_bearer_rsrc_command__overload_ctl_info x)
  | GRP_bearer_rsrc_fail_indication__overload_ctl_info _ => '(k, x) ← decode_gtp_bearer_rsrc_fail_indication__overload_ctl_info_ie zero_gtp_bearer_rsrc_fail_indication__overload_ctl_info buf; Some (k, GRP_bearer_rsrc_fail_indication__overload_ctl_info x)
  | GRP_mod_bearer_request_bearer_ctxt_to_be_modified _ => '(k, x) ← decode_gtp_mod_bearer_request_bearer_ctxt_to_be_modified_ie zero_gtp_mod_bearer_request_bearer_ctxt_to_be_modified buf; Some (k, GRP_mod_bearer_request_bearer_ctxt_to_be_modified x)
  | GRP_mod_bearer_request_bearer_ctxt_to_be_removed _ => '(k, x) ← decode_gtp_mod_bearer_request_bearer_ctxt_to_be_removed_ie zero_gtp_mod_bearer_request_bearer_ctxt_to_be_removed buf; Some (k, GRP_mod_bearer_request_bearer_ctxt_to_be_removed x)
  | GRP_mod_bearer_request_overload_ctl_info _ => '(k, x) ← decode_gtp_mod_bearer_request_overload_ctl_info_ie zero_gtp_mod_bearer_request_overload_ctl_info buf; Some (k, GRP_mod_bearer_request_overload_ctl_info x)
  | GRP_mod_bearer_response_bearer_ctxt_modified _ => '(k, x) ← decode_gtp_mod_bearer_response_bearer_ctxt_modified_ie zero_gtp_mod_bearer_response_bearer_ctxt_modified buf; Some (k, GRP_mod_bearer_response_bearer_ctxt_modified x)
  | GRP_mod_bearer_response_bearer_ctxt_marked_removal _ => '(k, x) ← decode_gtp_mod_bearer_response_bearer_ctxt_marked_removal_ie zero_gtp_mod_bearer_response_bearer_ctxt_marked_removal buf; Some (k, GRP_mod_bearer_response_bearer_ctxt_marked_removal x)
  | GRP_mod_bearer_response__load_ctl_info _ => '(k, x) ← decode_gtp_mod_bearer_response__load_ctl_info_ie zero_gtp_mod_bearer_response__load_ctl_info buf; Some (k, GRP_mod_bearer_response__load_ctl_info x)
  | GRP_mod_bearer_response__overload_ctl_info _ => '(k, x) ← decode_gtp_mod_bearer_response__overload_ctl_info_ie zero_gtp_mod_bearer_response__overload_ctl_info buf; Some (k, GRP_mod_bearer_response__overload_ctl_info x)
  | GRP_del_sess_request__overload_ctl_info _ => '(k, x) ← decode_gtp_del_sess_request__overload_ctl_info_ie zero_gtp_del_sess_request__overload_ctl_info buf; Some (k, GRP_del_sess_request__overload_ctl_info x)
  | GRP_del_bearer_request__bearer_ctxt _ => '(k, x) ← decode_gtp_del_bearer_request__bearer_ctxt_ie zero_gtp_del_bearer_request__bearer_ctxt buf; Some (k, GRP_del_bearer_request__bearer_ctxt x)
  | GRP_del_bearer_request__load_ctl_info _ => '(k, x) ← decode_gtp_del_bearer_request__load_ctl_info_ie zero_gtp_del_bearer_request__load_ctl_info buf; Some (k, GRP_del_bearer_request__load_ctl_info x)
  | GRP_del_bearer_request__overload_ctl_info _ => '(k, x) ← decode_gtp_del_bearer_request__overload_ctl_info_ie zero_gtp_del_bearer_request__overload_ctl_info buf; Some (k, GRP_del_bearer_request__overload_ctl_info x)
  | GRP_del_sess_response__load_ctl_info _ => '(k, x) ← decode_gtp_del_sess_response__load_ctl_info_ie zero_gtp_del_sess_response__load_ctl_info buf; Some (k, GRP_del_sess_response__load_ctl_info x)
  | GRP_del_sess_response__overload_ctl_info _ => '(k, x) ← decode_gtp_del_sess_response__overload_ctl_info_ie zero_gtp_del_sess_response__overload_ctl_info buf; Some (k, GRP_del_sess_response__overload_ctl_info x)
  | GRP_del_bearer_response_bearer_ctxt _ => '(k, x) ← decode_gtp_del_bearer_response_bearer_ctxt_ie zero_gtp_del_bearer_response_bearer_ctxt buf; Some (k, GRP_del_bearer_response_bearer_ctxt x)
  | GRP_del_bearer_response__overload_ctl_info _ => '(k, x) ← decode_gtp_del_bearer_response__overload_ctl_info_ie zero_gtp_del_bearer_response__overload_ctl_info buf; Some (k, GRP_del_bearer_response__overload_ctl_info x)
  | GRP_dnlnk_data_notification__load_ctl_info _ => '(k, x) ← decode_gtp_dnlnk_data_notification__load_ctl_info_ie zero_gtp_dnlnk_data_notification__load_ctl_info buf; Some (k, GRP_dnlnk_data_notification__load_ctl_info x)
  | GRP_dnlnk_data_notification__overload_ctl_info _ => '(k, x) ← decode_gtp_dnlnk_data_notification__overload_ctl_info_ie zero_gtp_dnlnk_data_notification__overload_ctl_info buf; Some (k, GRP_dnlnk_data_notification__overload_ctl_info x)
  | GRP_mod_bearer_command__bearer_ctxt _ => '(k, x) ← decode_gtp_mod_bearer_command__bearer_ctxt_ie zero_gtp_mod_bearer_command__bearer_ctxt buf; Some (k, GRP_mod_bearer_command__bearer_ctxt x)
  | GRP_mod_bearer_command__overload_ctl_info _ => '(k, x) ← decode_gtp_mod_bearer_command__overload_ctl_info_ie zero_gtp_mod_bearer_command__overload_ctl_info buf; Some (k, GRP_mod_bearer_command__overload_ctl_info x)
  | GRP_mod_bearer_fail_indication__overload_ctl_info _ => '(k, x) ← decode_gtp_mod_bearer_fail_indication__overload_ctl_info_ie zero_gtp_mod_bearer_fail_indication__overload_ctl_info buf; Some (k, GRP_mod_bearer_fail_indication__overload_ctl_info x)
  | GRP_upd_bearer_request__bearer_ctxt _ => '(k, x) ← decode_gtp_upd_bearer_request__bearer_ctxt_ie zero_gtp_upd_bearer_request__bearer_ctxt buf; Some (k, GRP_upd_bearer_request__bearer_ctxt x)
  | GRP_upd_bearer_request__load_ctl_info _ => '(k, x) ← decode_gtp_upd_bearer_request__load_ctl_info_ie zero_gtp_upd_bearer_request__load_ctl_info buf; Some (k, GRP_upd_bearer_request__load_ctl_info x)
  | GRP_upd_bearer_request__overload_ctl_info _ => '(k, x) ← decode_gtp_upd_bearer_request__overload_ctl_info_ie zero_gtp_upd_bearer_request__overload_ctl_info buf; Some (k, GRP_upd_bearer_request__overload_ctl_info x)
  | GRP_upd_bearer_response__bearer_ctxt _ => '(k, x) ← decode_gtp_upd_bearer_response__bearer_ctxt_ie zero_gtp_upd_bearer_response__bearer_ctxt buf; Some (k, GRP_upd_bearer_response__bearer_ctxt x)
  | GRP_upd_bearer_response__overload_ctl_info _ => '(k, x) ← decode_gtp_upd_bearer_response__overload_ctl_info_ie zero_gtp_upd_bearer_response__overload_ctl_info buf; Some (k, GRP_upd_bearer_response__overload_ctl_info x)
  | GRP_del_bearer_command_bearer_ctxt _ => '(k, x) ← decode_gtp_del_bearer_command_bearer_ctxt_ie zero_gtp_del_bearer_command_bearer_ctxt buf; Some (k, GRP_del_bearer_command_bearer_ctxt x)
  | GRP_del_bearer_command__overload_ctl_info _ => '(k, x) ← decode_gtp_del_bearer_command__overload_ctl_info_ie zero_gtp_del_bearer_command__overload_ctl_info buf; Some (k, GRP_del_bearer_command__overload_ctl_info x)
  | GRP_del_bearer_fail_indication__bearer_ctxt _ => '(k, x) ← decode_gtp_del_bearer_fail_indication__bearer_ctxt_ie zero_gtp_del_bearer_fail_indication__bearer_ctxt buf; Some (k, GRP_del_bearer_fail_indication__bearer_ctxt x)
  | GRP_del_bearer_fail_indication__overload_ctl_info _ => '(k, x) ← decode_gtp_del_bearer_fail_indication__overload_ctl_info_ie zero_gtp_del_bearer_fail_indication__overload_ctl_info buf; Some (k, GRP_del_bearer_fail_indication__overload_ctl_info x)
  | GRP_create_indir_data_fwdng_tunn_request__bearer_ctxt _ => '(k, x) ← decode_gtp_create_indir_data_fwdng_tunn_request__bearer_ctxt_ie zero_gtp_create_indir_data_fwdng_tunn_request__bearer_ctxt buf; Some (k, GRP_create_indir_data_fwdng_tunn_request__bearer_ctxt x)
  | GRP_create_indir_data_fwdng_tunn_response__bearer_ctxt _ => '(k, x) ← decode_gtp_create_indir_data_fwdng_tunn_response__bearer_ctxt_ie zero_gtp_create_indir_data_fwdng_tunn_response__bearer_ctxt buf; Some (k, GRP_create_indir_data_fwdng_tunn_response__bearer_ctxt x)
  | GRP_release_acc_bearers_response__load_ctl_info _ => '(k, x) ← decode_gtp_release_acc_bearers_response__load_ctl_info_ie zero_gtp_release_acc_bearers_response__load_ctl_info buf; Some (k, GRP_release_acc_bearers_response__load_ctl_info x)
  | GRP_release_acc_bearers_response__overload_ctl_info _ => '(k, x) ← decode_gtp_release_acc_bearers_response__overload_ctl_info_ie zero_gtp_release_acc_bearers_response__overload_ctl_info buf; Some (k, GRP_release_acc_bearers_response__overload_ctl_info x)
  | GRP_mod_acc_bearers_request__bearer_ctxt_to_be_modified _ => '(k, x) ← decode_gtp_mod_acc_bearers_request__bearer_ctxt_to_be_modified_ie zero_gtp_mod_acc_bearers_request__bearer_ctxt_to_be_modified buf; Some (k, GRP_mod_acc_bearers_request__bearer_ctxt_to_be_modified x)
  | GRP_mod_acc_bearers_request__bearer_ctxt_to_be_removed _ => '(k, x) ← decode_gtp_mod_acc_bearers_request__bearer_ctxt_to_be_removed_ie zero_gtp_mod_acc_bearers_request__bearer_ctxt_to_be_removed buf; Some (k, GRP_mod_acc_bearers_request__bearer_ctxt_to_be_removed x)
  | GRP_mod_acc_bearers_response__bearer_ctxt_modified _ => '(k, x) ← decode_gtp_mod_acc_bearers_response__bearer_ctxt_modified_ie zero_gtp_mod_acc_bearers_response__bearer_ctxt_modified buf; Some (k, GRP_mod_acc_bearers_response__bearer_ctxt_modified x)
  | GRP_mod_acc_bearers_response__bearer_ctxt_marked_removal _ => '(k, x) ← decode_gtp_mod_acc_bearers_response__bearer_ctxt_marked_removal_ie zero_gtp_mod_acc_bearers_response__bearer_ctxt_marked_removal buf; Some (k, GRP_mod_acc_bearers_response__bearer_ctxt_marked_removal x)
  | GRP_mod_acc_bearers_response__load_ctl_info _ => '(k, x) ← decode_gtp_mod_acc_bearers_response__load_ctl_info_ie zero_gtp_mod_acc_bearers_response__load_ctl_info buf; Some (k, GRP_mod_acc_bearers_response__load_ctl_info x)
  | GRP_mod_acc_bearers_response__overload_ctl_info _ => '(k, x) ← decode_gtp_mod_acc_bearers_response__overload_ctl_info_ie zero_gtp_mod_acc_bearers_response__overload_ctl_info buf; Some (k, GRP_mod_acc_bearers_response__overload_ctl_info x)
  | GRP_rmt_ue_rpt_notification__remote_ue_ctxt_connected _ => '(k, x) ← decode_gtp_rmt_ue_rpt_notification__remote_ue_ctxt_connected_ie zero_gtp_rmt_ue_rpt_notification__remote_ue_ctxt_connected buf; Some (k, GRP_rmt_ue_rpt_notification__remote_ue_ctxt_connected x)
  | GRP_rmt_ue_rpt_notification__remote_ue_ctxt_disconnected _ => '(k, x) ← decode_gtp_rmt_ue_rpt_notification__remote_ue_ctxt_disconnected_ie zero_gtp_rmt_ue_rpt_notification__remote_ue_ctxt_disconnected buf; Some (k, GRP_rmt_ue_rpt_notification__remote_ue_ctxt_disconnected x)
  | GRP_fwd_reloc_request__mmesgsnamf_ue_eps_pdn_connections _ => '(k, x) ← decode_gtp_fwd_reloc_request__mmesgsnamf_ue_eps_pdn_connections_ie zero_gtp_fwd_reloc_request__mmesgsnamf_ue_eps_pdn_connections buf; Some (k, GRP_fwd_reloc_request__mmesgsnamf_ue_eps_pdn_connections x)
  | GRP_fwd_reloc_request__bearer_ctxt _ => '(k, x) ← decode_gtp_fwd_reloc_request__bearer_ctxt_ie zero_gtp_fwd_reloc_request__bearer_ctxt buf; Some (k, GRP_fwd_reloc_request__bearer_ctxt x)
  | GRP_fwd_reloc_request__remote_ue_ctxt_connected _ => '(k, x) ← decode_gtp_fwd_reloc_request__remote_ue_ctxt_connected_ie zero_gtp_fwd_reloc_request__remote_ue_ctxt_connected buf; Some (k, GRP_fwd_reloc_request__remote_ue_ctxt_connected x)
  | GRP_fwd_reloc_request__mme_ue_scef_pdn_connections _ => '(k, x) ← decode_gtp_fwd_reloc_request__mme_ue_scef_pdn_connections_ie zero_gtp_fwd_reloc_request__mme_ue_scef_pdn_connections buf; Some (k, GRP_fwd_reloc_request__mme_ue_scef_pdn_connections x)
  | GRP_ctxt_response__mmesgsn_ue_eps_pdn_connections _ => '(k, x) ← decode_gtp_ctxt_response__mmesgsn_ue_eps_pdn_connections_ie zero_gtp_ctxt_response__mmesgsn_ue_eps_pdn_connections buf; Some (k, GRP_ctxt_response__mmesgsn_ue_eps_pdn_connections x)
  | GRP_ctxt_response__bearer_ctxt _ => '(k, x) ← decode_gtp_ctxt_response__bearer_ctxt_ie zero_gtp_ctxt_response__bearer_ctxt buf; Some (k, GRP_ctxt_response__bearer_ctxt x)
  | GRP_ctxt_response__remote_ue_ctxt_connected _ => '(k, x) ← decode_gtp_ctxt_response__remote_ue_ctxt_connected_ie zero_gtp_ctxt_response__remote_ue_ctxt_connected buf; Some (k, GRP_ctxt_response__remote_ue_ctxt_connected x)
  | GRP_ctxt_response__mmesgsn_ue_scef_pdn_connections _ => '(k, x) ← decode_gtp_ctxt_response__mmesgsn_ue_scef_pdn_connections_ie zero_gtp_ctxt_response__mmesgsn_ue_scef_pdn_connections buf; Some (k, GRP_ctxt_response__mmesgsn_ue_scef_pdn_connections x)
  | GRP_ctxt_acknowledge__bearer_ctxt _ => '(k, x) ← decode_gtp_ctxt_acknowledge__bearer_ctxt_ie zero_gtp_ctxt_acknowledge__bearer_ctxt buf; Some (k, GRP_ctxt_acknowledge__bearer_ctxt x)
  end.

Definition gtp_group_layout (g : gtp_group) : layout :=
  match g with
  | GRP_create_sess_request_bearer_ctxt_to_be_created v => layout_gie_header v.(gtp_create_sess_request_bearer_ctxt_to_be_created_header) ++ gtp_create_sess_request_bearer_ctxt_to_be_created_body v
  | GRP_create_sess_request_bearer_ctxt_to_be_removed v => layout_gie_header v.(gtp_create_sess_request_bearer_ctxt_to_be_removed_header) ++ gtp_create_sess_request_bearer_ctxt_to_be_removed_body v
  | GRP_create_sess_request__overload_ctl_info v => layout_gie_header v.(gtp_create_sess_request__overload_ctl_info_header) ++ gtp_create_sess_request__overload_ctl_info_body v
  | GRP_create_sess_request__remote_ue_ctxt_connected v => layout_gie_header v.(gtp_create_sess_request__remote_ue_ctxt_connected_header) ++ gtp_create_sess_request__remote_ue_ctxt_connected_body v
  | GRP_create_sess_response_bearer_ctxt_created v => layout_gie_header v.(gtp_create_sess_response_bearer_ctxt_created_header) ++ gtp_create_sess_response_bearer_ctxt_created_body v
  | GRP_create_sess_response_bearer_ctxt_marked_removal v => layout_gie_header v.(gtp_create_sess_response_bearer_ctxt_marked_removal_header) ++ gtp_create_sess_response_bearer_ctxt_marked_removal_body v
  | GRP_create_sess_response__load_ctl_info v => layout_gie_header v.(gtp_create_sess_response__load_ctl_info_header) ++ gtp_create_sess_response__load_ctl_info_body v
  | GRP_create_sess_response__overload_ctl_info v => layout_gie_header v.(gtp_create_sess_response__overload_ctl_info_header) ++ gtp_create_sess_response__overload_ctl_info_body v
  | GRP_create_bearer_request_bearer_ctxt v => layout_gie_header v.(gtp_create_bearer_request_bearer_ctxt_header) ++ gtp_create_bearer_request_bearer_ctxt_body v
  | GRP_create_bearer_request__load_ctl_info v => layout_gie_header v.(gtp_create_bearer_request__load_ctl_info_header) ++ gtp_create_bearer_request__load_ctl_info_body v
  | GRP_create_bearer_request__overload_ctl_info v => layout_gie_header v.(gtp_create_bearer_request__overload_ctl_info_header) ++ gtp_create_bearer_request__overload_ctl_info_body v
  | GRP_create_bearer_response_bearer_ctxt v => layout_gie_header v.(gtp_create_bearer_response_bearer_ctxt_header) ++ gtp_create_bearer_response_bearer_ctxt_body v
  | GRP_create_bearer_response__overload_ctl_info v => layout_gie_header v.(gtp_create_bearer_response__overload_ctl_info_header) ++ gtp_create_bearer_response__overload_ctl_info_body v
  | GRP_bearer_rsrc_command__overload_ctl_info v => layout_gie_header v.(gtp_bearer_rsrc_command__overload_ctl_info_header) ++ gtp_bearer_rsrc_command__overload_ctl_info_body v
  | GRP_bearer_rsrc_fail_indication__overload_ctl_info v => layout_gie_header v.(gtp_bearer_rsrc_fail_indication__overload_ctl_info_header) ++ gtp_bearer_rsrc_fail_indication__overload_ctl_info_body v
  | GRP_mod_bearer_request_bearer_ctxt_to_be_modified v => layout_gie_header v.(gtp_mod_bearer_request_bearer_ctxt_to_be_modified_header) ++ gtp_mod_bearer_request_bearer_ctxt_to_be_modified_body v
  | GRP_mod_bearer_request_bearer_ctxt_to_be_removed v => layout_gie_header v.(gtp_mod_bearer_request_bearer_ctxt_to_be_removed_header) ++ gtp_mod_bearer_request_bearer_ctxt_to_be_removed_body v
  | GRP_mod_bearer_request_overload_ctl_info v => layout_gie_header v.(gtp_mod_bearer_request_overload_ctl_info_header) ++ gtp_mod_bearer_request_overload_ctl_info_body v
  | GRP_mod_bearer_response_bearer_ctxt_modified v => layout_gie_header v.(gtp_mod_bearer_response_bearer_ctxt_modified_header) ++ gtp_mod_bearer_response_bearer_ctxt_modified_body v
  | GRP_mod_bearer_response_bearer_ctxt_marked_removal v => layout_gie_header v.(gtp_mod_bearer_response_bearer_ctxt_marked_removal_header) ++ gtp_mod_bearer_response_bearer_ctxt_marked_removal_body v
  | GRP_mod_bearer_response__load_ctl_info v => layout_gie_header v.(gtp_mod_bearer_response__load_ctl_info_header) ++ gtp_mod_bearer_response__load_ctl_info_body v
  | GRP_mod_bearer_response__overload_ctl_info v => layout_gie_header v.(gtp_mod_bearer_response__overload_ctl_info_header) ++ gtp_mod_bearer_response__overload_ctl_info_body v
  | GRP_del_sess_request__overload_ctl_info v => layout_gie_header v.(gtp_del_sess_request__overload_ctl_info_header) ++ gtp_del_sess_request__overload_ctl_info_body v
  | GRP_del_bearer_request__bearer_ctxt v => layout_gie_header v.(gtp_del_bearer_request__bearer_ctxt_header) ++ gtp_del_bearer_request__bearer_ctxt_body v
  | GRP_del_bearer_request__load_ctl_info v => layout_gie_header v.(gtp_del_bearer_request__load_ctl_info_header) ++ gtp_del_bearer_request__load_ctl_info_body v
  | GRP_del_bearer_request__overload_ctl_info v => layout_gie_header v.(gtp_del_bearer_request__overload_ctl_info_header) ++ gtp_del_bearer_request__overload_ctl_info_body v
  | GRP_del_sess_response__load_ctl_info v => layout_gie_header v.(gtp_del_sess_response__load_ctl_info_header) ++ gtp_del_sess_response__load_ctl_info_body v
  | GRP_del_sess_response__overload_ctl_info v => layout_gie_header v.(gtp_del_sess_response__overload_ctl_info_header) ++ gtp_del_sess_response__overload_ctl_info_body v
  | GRP_del_bearer_response_bearer_ctxt v => layout_gie_header v.(gtp_del_bearer_response_bearer_ctxt_header) ++ gtp_del_bearer_response_bearer_ctxt_body v
  | GRP_del_bearer_response__overload_ctl_info v => layout_gie_header v.(gtp_del_bearer_response__overload_ctl_info_header) ++ gtp_del_bearer_response__overload_ctl_info_body v
  | GRP_dnlnk_data_notification__load_ctl_info v => layout_gie_header v.(gtp_dnlnk_data_notification__load_ctl_info_header) ++ gtp_dnlnk_data_notification__load_ctl_info_body v
  | GRP_dnlnk_data_notification__overload_ctl_info v => layout_gie_header v.(gtp_dnlnk_data_notification__overload_ctl_info_header) ++ gtp_dnlnk_data_notification__overload_ctl_info_body v
  | GRP_mod_bearer_command__bearer_ctxt v => layout_gie_header v.(gtp_mod_bearer_command__bearer_ctxt_header) ++ gtp_mod_bearer_command__bearer_ctxt_body v
  | GRP_mod_bearer_command__overload_ctl_info v => layout_gie_header v.(gtp_mod_bearer_command__overload_ctl_info_header) ++ gtp_mod_bearer_command__overload_ctl_info_body v
  | GRP_mod_bearer_fail_indication__overload_ctl_info v => layout_gie_header v.(gtp_mod_bearer_fail_indication__overload_ctl_info_header) ++ gtp_mod_bearer_fail_indication__overload_ctl_info_body v
  | GRP_upd_bearer_request__bearer_ctxt v => layout_gie_header v.(gtp_upd_bearer_request__bearer_ctxt_header) ++ gtp_upd_bearer_request__bearer_ctxt_body v
  | GRP_upd_bearer_request__load_ctl_info v => layout_gie_header v.(gtp_upd_bearer_request__load_ctl_info_header) ++ gtp_upd_bearer_request__load_ctl_info_body v
  | GRP_upd_bearer_request__overload_ctl_info v => layout_gie_header v.(gtp_upd_bearer_request__overload_ctl_info_header) ++ gtp_upd_bearer_request__overload_ctl_info_body v
  | GRP_upd_bearer_response__bearer_ctxt v => layout_gie_header v.(gtp_upd_bearer_response__bearer_ctxt_header) ++ gtp_upd_bearer_response__bearer_ctxt_body v
  | GRP_upd_bearer_response__overload_ctl_info v => layout_gie_header v.(gtp_upd_bearer_response__overload_ctl_info_header) ++ gtp_upd_bearer_response__overload_ctl_info_body v
  | GRP_del_bearer_command_bearer_ctxt v => layout_gie_header v.(gtp_del_bearer_command_bearer_ctxt_header) ++ gtp_del_bearer_command_bearer_ctxt_body v
  | GRP_del_bearer_command__overload_ctl_info v => layout_gie_header v.(gtp_del_bearer_command__overload_ctl_info_header) ++ gtp_del_bearer_command__overload_ctl_info_body v
  | GRP_del_bearer_fail_indication__bearer_ctxt v => layout_gie_header v.(gtp_del_bearer_fail_indication__bearer_ctxt_header) ++ gtp_del_bearer_fail_indication__bearer_ctxt_body v
  | GRP_del_bearer_fail_indication__overload_ctl_info v => layout_gie_header v.(gtp_del_bearer_fail_indication__overload_ctl_info_header) ++ gtp_del_bearer_fail_indication__overload_ctl_info_body v
  | GRP_create_indir_data_fwdng_tunn_request__bearer_ctxt v => layout_gie_header v.(gtp_create_indir_data_fwdng_tunn_request__bearer_ctxt_header) ++ gtp_create_indir_data_fwdng_tunn_request__bearer_ctxt_body v
  | GRP_create_indir_data_fwdng_tunn_response__bearer_ctxt v => layout_gie_header v.(gtp_create_indir_data_fwdng_tunn_response__bearer_ctxt_header) ++ gtp_create_indir_data_fwdng_tunn_response__bearer_ctxt_body v
  | GRP_release_acc_bearers_response__load_ctl_info v => layout_gie_header v.(gtp_release_acc_bearers_response__load_ctl_info_header) ++ gtp_release_acc_bearers_response__load_ctl_info_body v
  | GRP_release_acc_bearers_response__overload_ctl_info v => layout_gie_header v.(gtp_release_acc_bearers_response__overload_ctl_info_header) ++ gtp_release_acc_bearers_response__overload_ctl_info_body v
  | GRP_mod_acc_bearers_request__bearer_ctxt_to_be_modified v => layout_gie_header v.(gtp_mod_acc_bearers_request__bearer_ctxt_to_be_modified_header) ++ gtp_mod_acc_bearers_request__bearer_ctxt_to_be_modified_body v
  | GRP_mod_acc_bearers_request__bearer_ctxt_to_be_removed v => layout_gie_header v.(gtp_mod_acc_bearers_request__bearer_ctxt_to_be_removed_header) ++ gtp_mod_acc_bearers_request__bearer_ctxt_to_be_removed_body v
  | GRP_mod_acc_bearers_response__bearer_ctxt_modified v => layout_gie_header v.(gtp_mod_acc_bearers_response__bearer_ctxt_modified_header) ++ gtp_mod_acc_bearers_response__bearer_ctxt_modified_body v
  | GRP_mod_acc_bearers_response__bearer_ctxt_marked_removal v => layout_gie_header v.(gtp_mod_acc_bearers_response__bearer_ctxt_marked_removal_header) ++ gtp_mod_acc_bearers_response__bearer_ctxt_marked_removal_body v
  | GRP_mod_acc_bearers_response__load_ctl_info v => layout_gie_header v.(gtp_mod_acc_bearers_response__load_ctl_info_header) ++ gtp_mod_acc_bearers_response__load_ctl_info_body v
  | GRP_mod_acc_bearers_response__overload_ctl_info v => layout_gie_header v.(gtp_mod_acc_bearers_response__overload_ctl_info_header) ++ gtp_mod_acc_bearers_response__overload_ctl_info_body v
  | GRP_rmt_ue_rpt_notification__remote_ue_ctxt_connected v => layout_gie_header v.(gtp_rmt_ue_rpt_notification__remote_ue_ctxt_connected_header) ++ gtp_rmt_ue_rpt_notification__remote_ue_ctxt_connected_body v
  | GRP_rmt_ue_rpt_notification__remote_ue_ctxt_disconnected v => layout_gie_header v.(gtp_rmt_ue_rpt_notification__remote_ue_ctxt_disconnected_header) ++ gtp_rmt_ue_rpt_notification__remote_ue_ctxt_disconnected_body v
  | GRP_fwd_reloc_request__mmesgsnamf_ue_eps_pdn_connections v => layout_gie_header v.(gtp_fwd_reloc_request__mmesgsnamf_ue_eps_pdn_connections_header) ++ gtp_fwd_reloc_request__mmesgsnamf_ue_eps_pdn_connections_body v
  | GRP_fwd_reloc_request__bearer_ctxt v => layout_gie_header v.(gtp_fwd_reloc_request__bearer_ctxt_header) ++ gtp_fwd_reloc_request__bearer_ctxt_body v
  | GRP_fwd_reloc_request__remote_ue_ctxt_connected v => layout_gie_header v.(gtp_fwd_reloc_request__remote_ue_ctxt_connected_header) ++ gtp_fwd_reloc_request__remote_ue_ctxt_connected_body v
  | GRP_fwd_reloc_request__mme_ue_scef_pdn_connections v => layout_gie_header v.(gtp_fwd_reloc_request__mme_ue_scef_pdn_connections_header) ++ gtp_fwd_reloc_request__mme_ue_scef_pdn_connections_body v
  | GRP_ctxt_response__mmesgsn_ue_eps_pdn_connections v => layout_gie_header v.(gtp_ctxt_response__mmesgsn_ue_eps_pdn_connections_header) ++ gtp_ctxt_response__mmesgsn_ue_eps_pdn_connections_body v
  | GRP_ctxt_response__bearer_ctxt v => layout_gie_header v.(gtp_ctxt_response__bearer_ctxt_header) ++ gtp_ctxt_response__bearer_ctxt_body v
  | GRP_ctxt_response__remote_ue_ctxt_connected v => layout_gie_header v.(gtp_ctxt_response__remote_ue_ctxt_connected_header) ++ gtp_ctxt_response__remote_ue_ctxt_connected_body v
  | GRP_ctxt_response__mmesgsn_ue_scef_pdn_connections v => layout_gie_header v.(gtp_ctxt_response__mmesgsn_ue_scef_pdn_connections_header) ++ gtp_ctxt_response__mmesgsn_ue_scef_pdn_connections_body v
  | GRP_ctxt_acknowledge__bearer_ctxt v => layout_gie_header v.(gtp_ctxt_acknowledge__bearer_ctxt_header) ++ gtp_ctxt_acknowledge__bearer_ctxt_body v
  end.

Definition gtp_group_good (g : gtp_group) : Prop :=
  match g with
  | GRP_create_sess_request_bearer_ctxt_to_be_created v => gtp_create_sess_request_bearer_ctxt_to_be_created_good v
  | GRP_create_sess_request_bearer_ctxt_to_be_removed v => gtp_create_sess_request_bearer_ctxt_to_be_removed_good v
  | GRP_create_sess_request__overload_ctl_info v => gtp_create_sess_request__overload_ctl_info_good v
  | GRP_create_sess_request__remote_ue_ctxt_connected v => gtp_create_sess_request__remote_ue_ctxt_connected_good v
  | GRP_create_sess_response_bearer_ctxt_created v => gtp_create_sess_response_bearer_ctxt_created_good v
  | GRP_create_sess_response_bearer_ctxt_marked_removal v => gtp_create_sess_response_bearer_ctxt_marked_removal_good v
  | GRP_create_sess_response__load_ctl_info v => gtp_create_sess_response__load_ctl_info_good v
  | GRP_create_sess_response__overload_ctl_info v => gtp_create_sess_response__overload_ctl_info_good v
  | GRP_create_bearer_request_bearer_ctxt v => gtp_create_bearer_request_bearer_ctxt_good v
  | GRP_create_bearer_request__load_ctl_info v => gtp_create_bearer_request__load_ctl_info_good v
  | GRP_create_bearer_request__overload_ctl_info v => gtp_create_bearer_request__overload_ctl_info_good v
  | GRP_create_bearer_response_bearer_ctxt v => gtp_create_bearer_response_bearer_ctxt_good v
  | GRP_create_bearer_response__overload_ctl_info v => gtp_create_bearer_response__overload_ctl_info_good v
  | GRP_bearer_rsrc_command__overload_ctl_info v => gtp_bearer_rsrc_command__overload_ctl_info_good v
  | GRP_bearer_rsrc_fail_indication__overload_ctl_info v => gtp_bearer_rsrc_fail_indication__overload_ctl_info_good v
  | GRP_mod_bearer_request_bearer_ctxt_to_be_modified v => gtp_mod_bearer_request_bearer_ctxt_to_be_modified_good v
  | GRP_mod_bearer_request_bearer_ctxt_to_be_removed v => gtp_mod_bearer_request_bearer_ctxt_to_be_removed_good v
  | GRP_mod_bearer_request_overload_ctl_info v => gtp_mod_bearer_request_overload_ctl_info_good v
  | GRP_mod_bearer_response_bearer_ctxt_modified v => gtp_mod_bearer_response_bearer_ctxt_modified_good v
  | GRP_mod_bearer_response_bearer_ctxt_marked_removal v => gtp_mod_bearer_response_bearer_ctxt_marked_removal_good v
  | GRP_mod_bearer_response__load_ctl_info v => gtp_mod_bearer_response__load_ctl_info_good v
  | GRP_mod_bearer_response__overload_ctl_info v => gtp_mod_bearer_response__overload_ctl_info_good v
  | GRP_del_sess_request__overload_ctl_info v => gtp_del_sess_request__overload_ctl_info_good v
  | GRP_del_bearer_request__bearer_ctxt v => gtp_del_bearer_request__bearer_ctxt_good v
  | GRP_del_bearer_request__load_ctl_info v => gtp_del_bearer_request__load_ctl_info_good v
  | GRP_del_bearer_request__overload_ctl_info v => gtp_del_bearer_request__overload_ctl_info_good v
  | GRP_del_sess_response__load_ctl_info v => gtp_del_sess_response__load_ctl_info_good v
  | GRP_del_sess_response__overload_ctl_info v => gtp_del_sess_response__overload_ctl_info_good v
  | GRP_del_bearer_response_bearer_ctxt v => gtp_del_bearer_response_bearer_ctxt_good v
  | GRP_del_bearer_response__overload_ctl_info v => gtp_del_bearer_response__overload_ctl_info_good v
  | GRP_dnlnk_data_notification__load_ctl_info v => gtp_dnlnk_data_notification__load_ctl_info_good v
  | GRP_dnlnk_data_notification__overload_ctl_info v => gtp_dnlnk_data_notification__overload_ctl_info_good v
  | GRP_mod_bearer_command__bearer_ctxt v => gtp_mod_bearer_command__bearer_ctxt_good v
  | GRP_mod_bearer_command__overload_ctl_info v => gtp_mod_bearer_command__overload_ctl_info_good v
  | GRP_mod_bearer_fail_indication__overload_ctl_info v => gtp_mod_bearer_fail_indication__overload_ctl_info_good v
  | GRP_upd_bearer_request__bearer_ctxt v => gtp_upd_bearer_request__bearer_ctxt_good v
  | GRP_upd_bearer_request__load_ctl_info v => gtp_upd_bearer_request__load_ctl_info_good v
  | GRP_upd_bearer_request__overload_ctl_info v => gtp_upd_bearer_request__overload_ctl_info_good v
  | GRP_upd_bearer_response__bearer_ctxt v => gtp_upd_bearer_response__bearer_ctxt_good v
  | GRP_upd_bearer_response__overload_ctl_info v => gtp_upd_bearer_response__overload_ctl_info_good v
  | GRP_del_bearer_command_bearer_ctxt v => gtp_del_bearer_command_bearer_ctxt_good v
  | GRP_del_bearer_command__overload_ctl_info v => gtp_del_bearer_command__overload_ctl_info_good v
  | GRP_del_bearer_fail_indication__bearer_ctxt v => gtp_del_bearer_fail_indication__bearer_ctxt_good v
  | GRP_del_bearer_fail_indication__overload_ctl_info v => gtp_del_bearer_fail_indication__overload_ctl_info_good v
  | GRP_create_indir_data_fwdng_tunn_request__bearer_ctxt v => gtp_create_indir_data_fwdng_tunn_request__bearer_ctxt_good v
  | GRP_create_indir_data_fwdng_tunn_response__bearer_ctxt v => gtp_create_indir_data_fwdng_tunn_response__bearer_ctxt_good v
  | GRP_release_acc_bearers_response__load_ctl_info v => gtp_release_acc_bearers_response__load_ctl_info_good v
  | GRP_release_acc_bearers_response__overload_ctl_info v => gtp_release_acc_bearers_response__overload_ctl_info_good v
  | GRP_mod_acc_bearers_request__bearer_ctxt_to_be_modified v => gtp_mod_acc_bearers_request__bearer_ctxt_to_be_modified_good v
  | GRP_mod_acc_bearers_request__bearer_ctxt_to_be_removed v => gtp_mod_acc_bearers_request__bearer_ctxt_to_be_removed_good v
  | GRP_mod_acc_bearers_response__bearer_ctxt_modified v => gtp_mod_acc_bearers_response__bearer_ctxt_modified_good v
  | GRP_mod_acc_bearers_response__bearer_ctxt_marked_removal v => gtp_mod_acc_bearers_response__bearer_ctxt_marked_removal_good v
  | GRP_mod_acc_bearers_response__load_ctl_info v => gtp_mod_acc_bearers_response__load_ctl_info_good v
  | GRP_mod_acc_bearers_response__overload_ctl_info v => gtp_mod_acc_bearers_response__overload_ctl_info_good v
  | GRP_rmt_ue_rpt_notification__remote_ue_ctxt_connected v => gtp_rmt_ue_rpt_notification__remote_ue_ctxt_connected_good v
  | GRP_rmt_ue_rpt_notification__remote_ue_ctxt_disconnected v => gtp_rmt_ue_rpt_notification__remote_ue_ctxt_disconnected_good v
  | GRP_fwd_reloc_request__mmesgsnamf_ue_eps_pdn_connections v => gtp_fwd_reloc_request__mmesgsnamf_ue_eps_pdn_connections_good v
  | GRP_fwd_reloc_request__bearer_ctxt v => gtp_fwd_reloc_request__bearer_ctxt_good v
  | GRP_fwd_reloc_request__remote_ue_ctxt_connected v => gtp_fwd_reloc_request__remote_ue_ctxt_connected_good v
  | GRP_fwd_reloc_request__mme_ue_scef_pdn_connections v => gtp_fwd_reloc_request__mme_ue_scef_pdn_connections_good v
  | GRP_ctxt_response__mmesgsn_ue_eps_pdn_connections v => gtp_ctxt_response__mmesgsn_ue_eps_pdn_connections_good v
  | GRP_ctxt_response__bearer_ctxt v => gtp_ctxt_response__bearer_ctxt_good v
  | GRP_ctxt_response__remote_ue_ctxt_connected v => gtp_ctxt_response__remote_ue_ctxt_connected_good v
  | GRP_ctxt_response__mmesgsn_ue_scef_pdn_connections v => gtp_ctxt_response__mmesgsn_ue_scef_pdn_connections_good v
  | GRP_ctxt_acknowledge__bearer_ctxt v => gtp_ctxt_acknowledge__bearer_ctxt_good v
  end.

(** The groups whose decoders return the size with the header. *)
Definition counts_header (g : gtp_group) : bool :=
  match g with
  | GRP_create_sess_response_bearer_ctxt_created _
  | GRP_mod_bearer_request_bearer_ctxt_to_be_modified _
  | GRP_mod_bearer_response_bearer_ctxt_modified _
  | GRP_del_bearer_response_bearer_ctxt _
  | GRP_upd_bearer_request__bearer_ctxt _
  | GRP_upd_bearer_response__bearer_ctxt _ => true
  | _ => false
  end.

Lemma gtp_group_encodes g : gtp_group_good g ->
  encodes (gtp_group_encode g) (gtp_group_layout g) (size (gtp_group_layout g) / 8).
Proof.
  destruct g; cbn [gtp_group_good gtp_group_encode gtp_group_layout]; intros Hg;
    [apply gtp_create_sess_request_bearer_ctxt_to_be_created_places|
     apply gtp_create_sess_request_bearer_ctxt_to_be_removed_places|
     apply gtp_create_sess_request__overload_ctl_info_places|
     apply gtp_create_sess_request__remote_ue_ctxt_connected_places|
     apply gtp_create_sess_response_bearer_ctxt_created_places|
     apply gtp_create_sess_response_bearer_ctxt_marked_removal_places|
     apply gtp_create_sess_response__load_ctl_info_places|
     apply gtp_create_sess_response__overload_ctl_info_places|
     apply gtp_create_bearer_request_bearer_ctxt_places|
     apply gtp_create_bearer_request__load_ctl_info_places|
     apply gtp_create_bearer_request__overload_ctl_info_places|
     apply gtp_create_bearer_response_bearer_ctxt_places|
     apply gtp_create_bearer_response__overload_ctl_info_places|
     apply gtp_bearer_rsrc_command__overload_ctl_info_places|
     apply gtp_bearer_rsrc_fail_indication__overload_ctl_info_places|
     apply gtp_mod_bearer_request_bearer_ctxt_to_be_modified_places|
     apply gtp_mod_bearer_request_bearer_ctxt_to_be_removed_places|
     apply gtp_mod_bearer_request_overload_ctl_info_places|
     apply gtp_mod_bearer_response_bearer_ctxt_modified_places|
     apply gtp_mod_bearer_response_bearer_ctxt_marked_removal_places|
     apply gtp_mod_bearer_response__load_ctl_info_places|
     apply gtp_mod_bearer_response__overload_ctl_info_places|
     apply gtp_del_sess_request__overload_ctl_info_places|
     apply gtp_del_bearer_request__bearer_ctxt_places|
     apply gtp_del_bearer_request__load_ctl_info_places|
     apply gtp_del_bearer_request__overload_ctl_info_places|
     apply gtp_del_sess_response__load_ctl_info_places|
     apply gtp_del_sess_response__overload_ctl_info_places|
     apply gtp_del_bearer_response_bearer_ctxt_places|
     apply gtp_del_bearer_response__overload_ctl_info_places|
     apply gtp_dnlnk_data_notification__load_ctl_info_places|
     apply gtp_dnlnk_data_notification__overload_ctl_info_places|
     apply gtp_mod_bearer_command__bearer_ctxt_places|
     apply gtp_mod_bearer_command__overload_ctl_info_places|
     apply gtp_mod_bearer_fail_indication__overload_ctl_info_places|
     apply gtp_upd_bearer_request__bearer_ctxt_places|
     apply gtp_upd_bearer_request__load_ctl_info_places|
     apply gtp_upd_bearer_request__overload_ctl_info_places|
     apply gtp_upd_bearer_response__bearer_ctxt_places|
     apply gtp_upd_bearer_response__overload_ctl_info_places|
     apply gtp_del_bearer_command_bearer_ctxt_places|
     apply gtp_del_bearer_command__overload_ctl_info_places|
     apply gtp_del_bearer_fail_indication__bearer_ctxt_places|
     apply gtp_del_bearer_fail_indication__overload_ctl_info_places|
     apply gtp_create_indir_data_fwdng_tunn_request__bearer_ctxt_places|
     apply gtp_create_indir_data_fwdng_tunn_response__bearer_ctxt_places|
     apply gtp_release_acc_bearers_response__load_ctl_info_places|
     apply gtp_release_acc_bearers_response__overload_ctl_info_places|
     apply gtp_mod_acc_bearers_request__bearer_ctxt_to_be_modified_places|
     apply gtp_mod_acc_bearers_request__bearer_ctxt_to_be_removed_places|
     apply gtp_mod_acc_bearers_response__bearer_ctxt_modified_places|
     apply gtp_mod_acc_bearers_response__bearer_ctxt_marked_removal_places|
     apply gtp_mod_acc_bearers_response__load_ctl_info_places|
     apply gtp_mod_acc_bearers_response__overload_ctl_info_places|
     apply gtp_rmt_ue_rpt_notification__remote_ue_ctxt_connected_places|
     apply gtp_rmt_ue_rpt_notification__remote_ue_ctxt_disconnected_places|
     apply gtp_fwd_reloc_request__mmesgsnamf_ue_eps_pdn_connections_places|
     apply gtp_fwd_reloc_request__bearer_ctxt_places|
     apply gtp_fwd_reloc_request__remote_ue_ctxt_connected_places|
     apply gtp_fwd_reloc_request__mme_ue_scef_pdn_connections_places|
     apply gtp_ctxt_response__mmesgsn_ue_eps_pdn_connections_places|
     apply gtp_ctxt_response__bearer_ctxt_places|
     apply gtp_ctxt_response__remote_ue_ctxt_connected_places|
     apply gtp_ctxt_response__mmesgsn_ue_scef_pdn_connections_places|
     apply gtp_ctxt_acknowledge__bearer_ctxt_places]; exact Hg.
Qed.

Lemma gtp_group_decodes g : gtp_group_good g ->
  decodes (gtp_group_decode g) (gtp_group_layout g) (returned (negb (counts_header g)) (size (gtp_group_layout g) / 8)) g.
Proof.
  destruct g; intros Hg buf post Hh Hs; unfold gtp_group_decode;
    [rewrite (gtp_create_sess_request_bearer_ctxt_to_be_created_items v Hg buf post Hh Hs)|
     rewrite (gtp_create_sess_request_bearer_ctxt_to_be_removed_items v Hg buf post Hh Hs)|
     rewrite (gtp_create_sess_request__overload_ctl_info_items v Hg buf post Hh Hs)|
     rewrite (gtp_create_sess_request__remote_ue_ctxt_connected_items v Hg buf post Hh Hs)|
     rewrite (gtp_create_sess_response_bearer_ctxt_created_items v Hg buf post Hh Hs)|
     rewrite (gtp_create_sess_response_bearer_ctxt_marked_removal_items v Hg buf post Hh Hs)|
     rewrite (gtp_create_sess_response__load_ctl_info_items v Hg buf post Hh Hs)|
     rewrite (gtp_create_sess_response__overload_ctl_info_items v Hg buf post Hh Hs)|
     rewrite (gtp_create_bearer_request_bearer_ctxt_items v Hg buf post Hh Hs)|
     rewrite (gtp_create_bearer_request__load_ctl_info_items v Hg buf post Hh Hs)|
     rewrite (gtp_create_bearer_request__overload_ctl_info_items v Hg buf post Hh Hs)|
     rewrite (gtp_create_bearer_response_bearer_ctxt_items v Hg buf post Hh Hs)|
     rewrite (gtp_create_bearer_response__overload_ctl_info_items v Hg buf post Hh Hs)|
     rewrite (gtp_bearer_rsrc_command__overload_ctl_info_items v Hg buf post Hh Hs)|
     rewrite (gtp_bearer_rsrc_fail_indication__overload_ctl_info_items v Hg buf post Hh Hs)|
     rewrite (gtp_mod_bearer_request_bearer_ctxt_to_be_modified_items v Hg buf post Hh Hs)|
     rewrite (gtp_mod_bearer_request_bearer_ctxt_to_be_removed_items v Hg buf post Hh Hs)|
     rewrite (gtp_mod_bearer_request_overload_ctl_info_items v Hg buf post Hh Hs)|
     rewrite (gtp_mod_bearer_response_bearer_ctxt_modified_items v Hg buf post Hh Hs)|
     rewrite (gtp_mod_bearer_response_bearer_ctxt_marked_removal_items v Hg buf post Hh Hs)|
     rewrite (gtp_mod_bearer_response__load_ctl_info_items v Hg buf post Hh Hs)|
     rewrite (gtp_mod_bearer_response__overload_ctl_info_items v Hg buf post Hh Hs)|
     rewrite (gtp_del_sess_request__overload_ctl_info_items v Hg buf post Hh Hs)|
     rewrite (gtp_del_bearer_request__bearer_ctxt_items v Hg buf post Hh Hs)|
     rewrite (gtp_del_bearer_request__load_ctl_info_items v Hg buf post Hh Hs)|
     rewrite (gtp_del_bearer_request__overload_ctl_info_items v Hg buf post Hh Hs)|
     rewrite (gtp_del_sess_response__load_ctl_info_items v Hg buf post Hh Hs)|
     rewrite (gtp_del_sess_response__overload_ctl_info_items v Hg buf post Hh Hs)|
     rewrite (gtp_del_bearer_response_bearer_ctxt_items v Hg buf post Hh Hs)|
     rewrite (gtp_del_bearer_response__overload_ctl_info_items v Hg buf post Hh Hs)|
     rewrite (gtp_dnlnk_data_notification__load_ctl_info_items v Hg buf post Hh Hs)|
     rewrite (gtp_dnlnk_data_notification__overload_ctl_info_items v Hg buf post Hh Hs)|
     rewrite (gtp_mod_bearer_command__bearer_ctxt_items v Hg buf post Hh Hs)|
     rewrite (gtp_mod_bearer_command__overload_ctl_info_items v Hg buf post Hh Hs)|
     rewrite (gtp_mod_bearer_fail_indication__overload_ctl_info_items v Hg buf post Hh Hs)|
     rewrite (gtp_upd_bearer_request__bearer_ctxt_items v Hg buf post Hh Hs)|
     rewrite (gtp_upd_bearer_request__load_ctl_info_items v Hg buf post Hh Hs)|
     rewrite (gtp_upd_bearer_request__overload_ctl_info_items v Hg buf post Hh Hs)|
     rewrite (gtp_upd_bearer_response__bearer_ctxt_items v Hg buf post Hh Hs)|
     rewrite (gtp_upd_bearer_response__overload_ctl_info_items v Hg buf post Hh Hs)|
     rewrite (gtp_del_bearer_command_bearer_ctxt_items v Hg buf post Hh Hs)|
     rewrite (gtp_del_bearer_command__overload_ctl_info_items v Hg buf post Hh Hs)|
     rewrite (gtp_del_bearer_fail_indication__bearer_ctxt_items v Hg buf post Hh Hs)|
     rewrite (gtp_del_bearer_fail_indication__overload_ctl_info_items v Hg buf post Hh Hs)|
     rewrite (gtp_create_indir_data_fwdng_tunn_request__bearer_ctxt_items v Hg buf post Hh Hs)|
     rewrite (gtp_create_indir_data_fwdng_tunn_response__bearer_ctxt_items v Hg buf post Hh Hs)|
     rewrite (gtp_release_acc_bearers_response__load_ctl_info_items v Hg buf post Hh Hs)|
     rewrite (gtp_release_acc_bearers_response__overload_ctl_info_items v Hg buf post Hh Hs)|
     rewrite (gtp_mod_acc_bearers_request__bearer_ctxt_to_be_modified_items v Hg buf post Hh Hs)|
     rewrite (gtp_mod_acc_bearers_request__bearer_ctxt_to_be_removed_items v Hg buf post Hh Hs)|
     rewrite (gtp_mod_acc_bearers_response__bearer_ctxt_modified_items v Hg buf post Hh Hs)|
     rewrite (gtp_mod_acc_bearers_response__bearer_ctxt_marked_removal_items v Hg buf post Hh Hs)|
     rewrite (gtp_mod_acc_bearers_response__load_ctl_info_items v Hg buf post Hh Hs)|
     rewrite (gtp_mod_acc_bearers_response__overload_ctl_info_items v Hg buf post Hh Hs)|
     rewrite (gtp_rmt_ue_rpt_notification__remote_ue_ctxt_connected_items v Hg buf post Hh Hs)|
     rewrite (gtp_rmt_ue_rpt_notification__remote_ue_ctxt_disconnected_items v Hg buf post Hh Hs)|
     rewrite (gtp_fwd_reloc_request__mmesgsnamf_ue_eps_pdn_connections_items v Hg buf post Hh Hs)|
     rewrite (gtp_fwd_reloc_request__bearer_ctxt_items v Hg buf post Hh Hs)|
     rewrite (gtp_fwd_reloc_request__remote_ue_ctxt_connected_items v Hg buf post Hh Hs)|
     rewrite (gtp_fwd_reloc_request__mme_ue_scef_pdn_connections_items v Hg buf post Hh Hs)|
     rewrite (gtp_ctxt_response__mmesgsn_ue_eps_pdn_connections_items v Hg buf post Hh Hs)|
     rewrite (gtp_ctxt_response__bearer_ctxt_items v Hg buf post Hh Hs)|
     rewrite (gtp_ctxt_response__remote_ue_ctxt_connected_items v Hg buf post Hh Hs)|
     rewrite (gtp_ctxt_response__mmesgsn_ue_scef_pdn_connections_items v Hg buf post Hh Hs)|
     rewrite (gtp_ctxt_acknowledge__bearer_ctxt_items v Hg buf post Hh Hs)]; done.
Qed.

(** ** Messages *)

Inductive gtp_message : Type :=
| GMSG_echo_request (v : echo_request_t)
| GMSG_echo_response (v : echo_response_t)
| GMSG_create_sess_req (v : create_sess_req_t)
| GMSG_create_sess_rsp (v : create_sess_rsp_t)
| GMSG_create_bearer_req (v : create_bearer_req_t)
| GMSG_create_bearer_rsp (v : create_bearer_rsp_t)
| GMSG_bearer_rsrc_cmd (v : bearer_rsrc_cmd_t)
| GMSG_bearer_rsrc_fail_indctn (v : bearer_rsrc_fail_indctn_t)
| GMSG_mod_bearer_req (v : mod_bearer_req_t)
| GMSG_mod_bearer_rsp (v : mod_bearer_rsp_t)
| GMSG_del_sess_req (v : del_sess_req_t)
| GMSG_del_bearer_req (v : del_bearer_req_t)
| GMSG_del_sess_rsp (v : del_sess_rsp_t)
| GMSG_del_bearer_rsp (v : del_bearer_rsp_t)
| GMSG_dnlnk_data_notif (v : dnlnk_data_notif_t)
| GMSG_dnlnk_data_notif_ack (v : dnlnk_data_notif_ack_t)
| GMSG_dnlnk_data_notif_fail_indctn (v : dnlnk_data_notif_fail_indctn_t)
| GMSG_mod_bearer_cmd (v : mod_bearer_cmd_t)
| GMSG_mod_bearer_fail_indctn (v : mod_bearer_fail_indctn_t)
| GMSG_upd_bearer_req (v : upd_bearer_req_t)
| GMSG_upd_bearer_rsp (v : upd_bearer_rsp_t)
| GMSG_del_bearer_cmd (v : del_bearer_cmd_t)
| GMSG_del_bearer_fail_indctn (v : del_bearer_fail_indctn_t)
| GMSG_create_indir_data_fwdng_tunn_req (v : create_indir_data_fwdng_tunn_req_t)
| GMSG_create_indir_data_fwdng_tunn_rsp (v : create_indir_data_fwdng_tunn_rsp_t)
| GMSG_stop_paging_indctn (v : stop_paging_indctn_t)
| GMSG_mod_acc_bearers_req (v : mod_acc_bearers_req_t)
| GMSG_mod_acc_bearers_rsp (v : mod_acc_bearers_rsp_t)
| GMSG_rmt_ue_rpt_notif (v : rmt_ue_rpt_notif_t)
| GMSG_rmt_ue_rpt_ack (v : rmt_ue_rpt_ack_t)
| GMSG_fwd_reloc_rsp (v : fwd_reloc_rsp_t)
| GMSG_fwd_reloc_cmplt_notif (v : fwd_reloc_cmplt_notif_t)
| GMSG_fwd_reloc_cmplt_ack (v : fwd_reloc_cmplt_ack_t)
| GMSG_context_request (v : context_request_t)
| GMSG_ctxt_rsp (v : ctxt_rsp_t)
| GMSG_ctxt_ack (v : ctxt_ack_t)
| GMSG_id_req (v : id_req_t)
| GMSG_fwd_acc_ctxt_notif (v : fwd_acc_ctxt_notif_t)
| GMSG_fwd_acc_ctxt_ack (v : fwd_acc_ctxt_ack_t)
| GMSG_detach_notif (v : detach_notif_t)
| GMSG_detach_ack (v : detach_ack_t)
| GMSG_reloc_cncl_req (v : reloc_cncl_req_t)
| GMSG_reloc_cncl_rsp (v : reloc_cncl_rsp_t)
| GMSG_cfg_xfer_tunn (v : cfg_xfer_tunn_t)
| GMSG_ran_info_rly (v : ran_info_rly_t)
| GMSG_isr_status_indctn (v : isr_status_indctn_t)
| GMSG_ue_reg_qry_req (v : ue_reg_qry_req_t)
| GMSG_ue_reg_qry_rsp (v : ue_reg_qry_rsp_t)
| GMSG_alert_mme_ack (v : alert_mme_ack_t)
| GMSG_ue_actvty_ack (v : ue_actvty_ack_t)
| GMSG_create_fwdng_tunn_req (v : create_fwdng_tunn_req_t)
| GMSG_create_fwdng_tunn_rsp (v : create_fwdng_tunn_rsp_t)
| GMSG_del_pdn_conn_set_req (v : del_pdn_conn_set_req_t)
| GMSG_del_pdn_conn_set_rsp (v : del_pdn_conn_set_rsp_t)
| GMSG_upd_pdn_conn_set_req (v : upd_pdn_conn_set_req_t)
| GMSG_upd_pdn_conn_set_rsp (v : upd_pdn_conn_set_rsp_t)
| GMSG_pgw_rstrt_notif (v : pgw_rstrt_notif_t)
| GMSG_pgw_rstrt_notif_ack (v : pgw_rstrt_notif_ack_t)
| GMSG_pgw_dnlnk_trigrng_notif (v : pgw_dnlnk_trigrng_notif_t)
| GMSG_pgw_dnlnk_trigrng_ack (v : pgw_dnlnk_trigrng_ack_t)
| GMSG_trc_sess_actvn (v : trc_sess_actvn_t)
| GMSG_trc_sess_deact (v : trc_sess_deact_t)
| GMSG_mbms_sess_start_req (v : mbms_sess_start_req_t)
| GMSG_mbms_sess_start_rsp (v : mbms_sess_start_rsp_t)
| GMSG_mbms_sess_upd_req (v : mbms_sess_upd_req_t)
| GMSG_mbms_sess_upd_rsp (v : mbms_sess_upd_rsp_t)
| GMSG_mbms_sess_stop_req (v : mbms_sess_stop_req_t).

Definition gtp_message_encode (m : gtp_message) : ie_encoder :=
  match m with
  | GMSG_echo_request v => encode_echo_request v
  | GMSG_echo_response v => encode_echo_response v
  | GMSG_create_sess_req v => encode_create_sess_req v
  | GMSG_create_sess_rsp v => encode_create_sess_rsp v
  | GMSG_create_bearer_req v => encode_create_bearer_req v
  | GMSG_create_bearer_rsp v => encode_create_bearer_rsp v
  | GMSG_bearer_rsrc_cmd v => encode_bearer_rsrc_cmd v
  | GMSG_bearer_rsrc_fail_indctn v => encode_bearer_rsrc_fail_indctn v
  | GMSG_mod_bearer_req v => encode_mod_bearer_req v
  | GMSG_mod_bearer_rsp v => encode_mod_bearer_rsp v
  | GMSG_del_sess_req v => encode_del_sess_req v
  | GMSG_del_bearer_req v => encode_del_bearer_req v
  | GMSG_del_sess_rsp v => encode_del_sess_rsp v
  | GMSG_del_bearer_rsp v => encode_del_bearer_rsp v
  | GMSG_dnlnk_data_notif v => encode_dnlnk_data_notif v
  | GMSG_dnlnk_data_notif_ack v => encode_dnlnk_data_notif_ack v
  | GMSG_dnlnk_data_notif_fail_indctn v => encode_dnlnk_data_notif_fail_indctn v
  | GMSG_mod_bearer_cmd v => encode_mod_bearer_cmd v
  | GMSG_mod_bearer_fail_indctn v => encode_mod_bearer_fail_indctn v
  | GMSG_upd_bearer_req v => encode_upd_bearer_req v
  | GMSG_upd_bearer_rsp v => encode_upd_bearer_rsp v
  | GMSG_del_bearer_cmd v => encode_del_bearer_cmd v
  | GMSG_del_bearer_fail_indctn v => encode_del_bearer_fail_indctn v
  | GMSG_create_indir_data_fwdng_tunn_req v => encode_create_indir_data_fwdng_tunn_req v
  | GMSG_create_indir_data_fwdng_tunn_rsp v => encode_create_indir_data_fwdng_tunn_rsp v
  | GMSG_stop_paging_indctn v => encode_stop_paging_indctn v
  | GMSG_mod_acc_bearers_req v => encode_mod_acc_bearers_req v
  | GMSG_mod_acc_bearers_rsp v => encode_mod_acc_bearers_rsp v
  | GMSG_rmt_ue_rpt_notif v => encode_rmt_ue_rpt_notif v
  | GMSG_rmt_ue_rpt_ack v => encode_rmt_ue_rpt_ack v
  | GMSG_fwd_reloc_rsp v => encode_fwd_reloc_rsp v
  | GMSG_fwd_reloc_cmplt_notif v => encode_fwd_reloc_cmplt_notif v
  | GMSG_fwd_reloc_cmplt_ack v => encode_fwd_reloc_cmplt_ack v
  | GMSG_context_request v => encode_context_request v
  | GMSG_ctxt_rsp v => encode_ctxt_rsp v
  | GMSG_ctxt_ack v => encode_ctxt_ack v
  | GMSG_id_req v => encode_id_req v
  | GMSG_fwd_acc_ctxt_notif v => encode_fwd_acc_ctxt_notif v
  | GMSG_fwd_acc_ctxt_ack v => encode_fwd_acc_ctxt_ack v
  | GMSG_detach_notif v => encode_detach_notif v
  | GMSG_detach_ack v => encode_detach_ack v
  | GMSG_reloc_cncl_req v => encode_reloc_cncl_req v
  | GMSG_reloc_cncl_rsp v => encode_reloc_cncl_rsp v
  | GMSG_cfg_xfer_tunn v => encode_cfg_xfer_tunn v
  | GMSG_ran_info_rly v => encode_ran_info_rly v
  | GMSG_isr_status_indctn v => encode_isr_status_indctn v
  | GMSG_ue_reg_qry_req v => encode_ue_reg_qry_req v
  | GMSG_ue_reg_qry_rsp v => encode_ue_reg_qry_rsp v
  | GMSG_alert_mme_ack v => encode_alert_mme_ack v
  | GMSG_ue_actvty_ack v => encode_ue_actvty_ack v
  | GMSG_create_fwdng_tunn_req v => encode_create_fwdng_tunn_req v
  | GMSG_create_fwdng_tunn_rsp v => encode_create_fwdng_tunn_rsp v
  | GMSG_del_pdn_conn_set_req v => encode_del_pdn_conn_set_req v
  | GMSG_del_pdn_conn_set_rsp v => encode_del_pdn_conn_set_rsp v
  | GMSG_upd_pdn_conn_set_req v => encode_upd_pdn_conn_set_req v
  | GMSG_upd_pdn_conn_set_rsp v => encode_upd_pdn_conn_set_rsp v
  | GMSG_pgw_rstrt_notif v => encode_pgw_rstrt_notif v
  | GMSG_pgw_rstrt_notif_ack v => encode_pgw_rstrt_notif_ack v
  | GMSG_pgw_dnlnk_trigrng_notif v => encode_pgw_dnlnk_trigrng_notif v
  | GMSG_pgw_dnlnk_trigrng_ack v => encode_pgw_dnlnk_trigrng_ack v
  | GMSG_trc_sess_actvn v => encode_trc_sess_actvn v
  | GMSG_trc_sess_deact v => encode_trc_sess_deact v
  | GMSG_mbms_sess_start_req v => encode_mbms_sess_start_req v
  | GMSG_mbms_sess_start_rsp v => encode_mbms_sess_start_rsp v
  | GMSG_mbms_sess_upd_req v => encode_mbms_sess_upd_req v
  | GMSG_mbms_sess_upd_rsp v => encode_mbms_sess_upd_rsp v
  | GMSG_mbms_sess_stop_req v => encode_mbms_sess_stop_req v
  end.

Definition gtp_message_decode (m : gtp_message) (buf : list Z) : option (Z * gtp_message) :=
  match m with
  | GMSG_echo_request _ => '(k, x) ← decode_echo_request zero_echo_request buf; Some (k, GMSG_echo_request x)
  | GMSG_echo_response _ => '(k, x) ← decode_echo_response zero_echo_response buf; Some (k, GMSG_echo_response x)
  | GMSG_create_sess_req _ => '(k, x) ← decode_create_sess_req zero_create_sess_req buf; Some (k, GMSG_create_sess_req x)
  | GMSG_create_sess_rsp _ => '(k, x) ← decode_create_sess_rsp zero_create_sess_rsp buf; Some (k, GMSG_create_sess_rsp x)
  | GMSG_create_bearer_req _ => '(k, x) ← decode_create_bearer_req zero_create_bearer_req buf; Some (k, GMSG_create_bearer_req x)
  | GMSG_create_bearer_rsp _ => '(k, x) ← decode_create_bearer_rsp zero_create_bearer_rsp buf; Some (k, GMSG_create_bearer_rsp x)
  | GMSG_bearer_rsrc_cmd _ => '(k, x) ← decode_bearer_rsrc_cmd zero_bearer_rsrc_cmd buf; Some (k, GMSG_bearer_rsrc_cmd x)
  | GMSG_bearer_rsrc_fail_indctn _ => '(k, x) ← decode_bearer_rsrc_fail_indctn zero_bearer_rsrc_fail_indctn buf; Some (k, GMSG_bearer_rsrc_fail_indctn x)
  | GMSG_mod_bearer_req _ => '(k, x) ← decode_mod_bearer_req zero_mod_bearer_req buf; Some (k, GMSG_mod_bearer_req x)
  | GMSG_mod_bearer_rsp _ => '(k, x) ← decode_mod_bearer_rsp zero_mod_bearer_rsp buf; Some (k, GMSG_mod_bearer_rsp x)
  | GMSG_del_sess_req _ => '(k, x) ← decode_del_sess_req zero_del_sess_req buf; Some (k, GMSG_del_sess_req x)
  | GMSG_del_bearer_req _ => '(k, x) ← decode_del_bearer_req zero_del_bearer_req buf; Some (k, GMSG_del_bearer_req x)
  | GMSG_del_sess_rsp _ => '(k, x) ← decode_del_sess_rsp zero_del_sess_rsp buf; Some (k, GMSG_del_sess_rsp x)
  | GMSG_del_bearer_rsp _ => '(k, x) ← decode_del_bearer_rsp zero_del_bearer_rsp buf; Some (k, GMSG_del_bearer_rsp x)
  | GMSG_dnlnk_data_notif _ => '(k, x) ← decode_dnlnk_data_notif zero_dnlnk_data_notif buf; Some (k, GMSG_dnlnk_data_notif x)
  | GMSG_dnlnk_data_notif_ack _ => '(k, x) ← decode_dnlnk_data_notif_ack zero_dnlnk_data_notif_ack buf; Some (k, GMSG_dnlnk_data_notif_ack x)
  | GMSG_dnlnk_data_notif_fail_indctn _ => '(k, x) ← decode_dnlnk_data_notif_fail_indctn zero_dnlnk_data_notif_fail_indctn buf; Some (k, GMSG_dnlnk_data_notif_fail_indctn x)
  | GMSG_mod_bearer_cmd _ => '(k, x) ← decode_mod_bearer_cmd zero_mod_bearer_cmd buf; Some (k, GMSG_mod_bearer_cmd x)
  | GMSG_mod_bearer_fail_indctn _ => '(k, x) ← decode_mod_bearer_fail_indctn zero_mod_bearer_fail_indctn buf; Some (k, GMSG_mod_bearer_fail_indctn x)
  | GMSG_upd_bearer_req _ => '(k, x) ← decode_upd_bearer_req zero_upd_bearer_req buf; Some (k, GMSG_upd_bearer_req x)
  | GMSG_upd_bearer_rsp _ => '(k, x) ← decode_upd_bearer_rsp zero_upd_bearer_rsp buf; Some (k, GMSG_upd_bearer_rsp x)
  | GMSG_del_bearer_cmd _ => '(k, x) ← decode_del_bearer_cmd zero_del_bearer_cmd buf; Some (k, GMSG_del_bearer_cmd x)
  | GMSG_del_bearer_fail_indctn _ => '(k, x) ← decode_del_bearer_fail_indctn zero_del_bearer_fail_indctn buf; Some (k, GMSG_del_bearer_fail_indctn x)
  | GMSG_create_indir_data_fwdng_tunn_req _ => '(k, x) ← decode_create_indir_data_fwdng_tunn_req zero_create_indir_data_fwdng_tunn_req buf; Some (k, GMSG_create_indir_data_fwdng_tunn_req x)
  | GMSG_create_indir_data_fwdng_tunn_rsp _ => '(k, x) ← decode_create_indir_data_fwdng_tunn_rsp zero_create_indir_data_fwdng_tunn_rsp buf; Some (k, GMSG_create_indir_data_fwdng_tunn_rsp x)
  | GMSG_stop_paging_indctn _ => '(k, x) ← decode_stop_paging_indctn zero_stop_paging_indctn buf; Some (k, GMSG_stop_paging_indctn x)
  | GMSG_mod_acc_bearers_req _ => '(k, x) ← decode_mod_acc_bearers_req zero_mod_acc_bearers_req buf; Some (k, GMSG_mod_acc_bearers_req x)
  | GMSG_mod_acc_bearers_rsp _ => '(k, x) ← decode_mod_acc_bearers_rsp zero_mod_acc_bearers_rsp buf; Some (k, GMSG_mod_acc_bearers_rsp x)
  | GMSG_rmt_ue_rpt_notif _ => '(k, x) ← decode_rmt_ue_rpt_notif zero_rmt_ue_rpt_notif buf; Some (k, GMSG_rmt_ue_rpt_notif x)
  | GMSG_rmt_ue_rpt_ack _ => '(k, x) ← decode_rmt_ue_rpt_ack zero_rmt_ue_rpt_ack buf; Some (k, GMSG_rmt_ue_rpt_ack x)
  | GMSG_fwd_reloc_rsp _ => '(k, x) ← decode_fwd_reloc_rsp zero_fwd_reloc_rsp buf; Some (k, GMSG_fwd_reloc_rsp x)
  | GMSG_fwd_reloc_cmplt_notif _ => '(k, x) ← decode_fwd_reloc_cmplt_notif zero_fwd_reloc_cmplt_notif buf; Some (k, GMSG_fwd_reloc_cmplt_notif x)
  | GMSG_fwd_reloc_cmplt_ack _ => '(k, x) ← decode_fwd_reloc_cmplt_ack zero_fwd_reloc_cmplt_ack buf; Some (k, GMSG_fwd_reloc_cmplt_ack x)
  | GMSG_context_request _ => '(k, x) ← decode_context_request zero_context_request buf; Some (k, GMSG_context_request x)
  | GMSG_ctxt_rsp _ => '(k, x) ← decode_ctxt_rsp zero_ctxt_rsp buf; Some (k, GMSG_ctxt_rsp x)
  | GMSG_ctxt_ack _ => '(k, x) ← decode_ctxt_ack zero_ctxt_ack buf; Some (k, GMSG_ctxt_ack x)
  | GMSG_id_req _ => '(k, x) ← decode_id_req zero_id_req buf; Some (k, GMSG_id_req x)
  | GMSG_fwd_acc_ctxt_notif _ => '(k, x) ← decode_fwd_acc_ctxt_notif zero_fwd_acc_ctxt_notif buf; Some (k, GMSG_fwd_acc_ctxt_notif x)
  | GMSG_fwd_acc_ctxt_ack _ => '(k, x) ← decode_fwd_acc_ctxt_ack zero_fwd_acc_ctxt_ack buf; Some (k, GMSG_fwd_acc_ctxt_ack x)
  | GMSG_detach_notif _ => '(k, x) ← decode_detach_notif zero_detach_notif buf; Some (k, GMSG_detach_notif x)
  | GMSG_detach_ack _ => '(k, x) ← decode_detach_ack zero_detach_ack buf; Some (k, GMSG_detach_ack x)
  | GMSG_reloc_cncl_req _ => '(k, x) ← decode_reloc_cncl_req zero_reloc_cncl_req buf; Some (k, GMSG_reloc_cncl_req x)
  | GMSG_reloc_cncl_rsp _ => '(k, x) ← decode_reloc_cncl_rsp zero_reloc_cncl_rsp buf; Some (k, GMSG_reloc_cncl_rsp x)
  | GMSG_cfg_xfer_tunn _ => '(k, x) ← decode_cfg_xfer_tunn zero_cfg_xfer_tunn buf; Some (k, GMSG_cfg_xfer_tunn x)
  | GMSG_ran_info_rly _ => '(k, x) ← decode_ran_info_rly zero_ran_info_rly buf; Some (k, GMSG_ran_info_rly x)
  | GMSG_isr_status_indctn _ => '(k, x) ← decode_isr_status_indctn zero_isr_status_indctn buf; Some (k, GMSG_isr_status_indctn x)
  | GMSG_ue_reg_qry_req _ => '(k, x) ← decode_ue_reg_qry_req zero_ue_reg_qry_req buf; Some (k, GMSG_ue_reg_qry_req x)
  | GMSG_ue_reg_qry_rsp _ => '(k, x) ← decode_ue_reg_qry_rsp zero_ue_reg_qry_rsp buf; Some (k, GMSG_ue_reg_qry_rsp x)
  | GMSG_alert_mme_ack _ => '(k, x) ← decode_alert_mme_ack zero_alert_mme_ack buf; Some (k, GMSG_alert_mme_ack x)
  | GMSG_ue_actvty_ack _ => '(k, x) ← decode_ue_actvty_ack zero_ue_actvty_ack buf; Some (k, GMSG_ue_actvty_ack x)
  | GMSG_create_fwdng_tunn_req _ => '(k, x) ← decode_create_fwdng_tunn_req zero_create_fwdng_tunn_req buf; Some (k, GMSG_create_fwdng_tunn_req x)
  | GMSG_create_fwdng_tunn_rsp _ => '(k, x) ← decode_create_fwdng_tunn_rsp zero_create_fwdng_tunn_rsp buf; Some (k, GMSG_create_fwdng_tunn_rsp x)
  | GMSG_del_pdn_conn_set_req _ => '(k, x) ← decode_del_pdn_conn_set_req zero_del_pdn_conn_set_req buf; Some (k, GMSG_del_pdn_conn_set_req x)
  | GMSG_del_pdn_conn_set_rsp _ => '(k, x) ← decode_del_pdn_conn_set_rsp zero_del_pdn_conn_set_rsp buf; Some (k, GMSG_del_pdn_conn_set_rsp x)
  | GMSG_upd_pdn_conn_set_req _ => '(k, x) ← decode_upd_pdn_conn_set_req zero_upd_pdn_conn_set_req buf; Some (k, GMSG_upd_pdn_conn_set_req x)
  | GMSG_upd_pdn_conn_set_rsp _ => '(k, x) ← decode_upd_pdn_conn_set_rsp zero_upd_pdn_conn_set_rsp buf; Some (k, GMSG_upd_pdn_conn_set_rsp x)
  | GMSG_pgw_rstrt_notif _ => '(k, x) ← decode_pgw_rstrt_notif zero_pgw_rstrt_notif buf; Some (k, GMSG_pgw_rstrt_notif x)
  | GMSG_pgw_rstrt_notif_ack _ => '(k, x) ← decode_pgw_rstrt_notif_ack zero_pgw_rstrt_notif_ack buf; Some (k, GMSG_pgw_rstrt_notif_ack x)
  | GMSG_pgw_dnlnk_trigrng_notif _ => '(k, x) ← decode_pgw_dnlnk_trigrng_notif zero_pgw_dnlnk_trigrng_notif buf; Some (k, GMSG_pgw_dnlnk_trigrng_notif x)
  | GMSG_pgw_dnlnk_trigrng_ack _ => '(k, x) ← decode_pgw_dnlnk_trigrng_ack zero_pgw_dnlnk_trigrng_ack buf; Some (k, GMSG_pgw_dnlnk_trigrng_ack x)
  | GMSG_trc_sess_actvn _ => '(k, x) ← decode_trc_sess_actvn zero_trc_sess_actvn buf; Some (k, GMSG_trc_sess_actvn x)
  | GMSG_trc_sess_deact _ => '(k, x) ← decode_trc_sess_deact zero_trc_sess_deact buf; Some (k, GMSG_trc_sess_deact x)
  | GMSG_mbms_sess_start_req _ => '(k, x) ← decode_mbms_sess_start_req zero_mbms_sess_start_req buf; Some (k, GMSG_mbms_sess_start_req x)
  | GMSG_mbms_sess_start_rsp _ => '(k, x) ← decode_mbms_sess_start_rsp zero_mbms_sess_start_rsp buf; Some (k, GMSG_mbms_sess_start_rsp x)
  | GMSG_mbms_sess_upd_req _ => '(k, x) ← decode_mbms_sess_upd_req zero_mbms_sess_upd_req buf; Some (k, GMSG_mbms_sess_upd_req x)
  | GMSG_mbms_sess_upd_rsp _ => '(k, x) ← decode_mbms_sess_upd_rsp zero_mbms_sess_upd_rsp buf; Some (k, GMSG_mbms_sess_upd_rsp x)
  | GMSG_mbms_sess_stop_req _ => '(k, x) ← decode_mbms_sess_stop_req zero_mbms_sess_stop_req buf; Some (k, GMSG_mbms_sess_stop_req x)
  end.

Definition gtp_message_body (m : gtp_message) : layout :=
  match m with
  | GMSG_echo_request v => echo_request_body v
  | GMSG_echo_response v => echo_response_body v
  | GMSG_create_sess_req v => create_sess_req_body v
  | GMSG_create_sess_rsp v => create_sess_rsp_body v
  | GMSG_create_bearer_req v => create_bearer_req_body v
  | GMSG_create_bearer_rsp v => create_bearer_rsp_body v
  | GMSG_bearer_rsrc_cmd v => bearer_rsrc_cmd_body v
  | GMSG_bearer_rsrc_fail_indctn v => bearer_rsrc_fail_indctn_body v
  | GMSG_mod_bearer_req v => mod_bearer_req_body v
  | GMSG_mod_bearer_rsp v => mod_bearer_rsp_body v
  | GMSG_del_sess_req v => del_sess_req_body v
  | GMSG_del_bearer_req v => del_bearer_req_body v
  | GMSG_del_sess_rsp v => del_sess_rsp_body v
  | GMSG_del_bearer_rsp v => del_bearer_rsp_body v
  | GMSG_dnlnk_data_notif v => dnlnk_data_notif_body v
  | GMSG_dnlnk_data_notif_ack v => dnlnk_data_notif_ack_body v
  | GMSG_dnlnk_data_notif_fail_indctn v => dnlnk_data_notif_fail_indctn_body v
  | GMSG_mod_bearer_cmd v => mod_bearer_cmd_body v
  | GMSG_mod_bearer_fail_indctn v => mod_bearer_fail_indctn_body v
  | GMSG_upd_bearer_req v => upd_bearer_req_body v
  | GMSG_upd_bearer_rsp v => upd_bearer_rsp_body v
  | GMSG_del_bearer_cmd v => del_bearer_cmd_body v
  | GMSG_del_bearer_fail_indctn v => del_bearer_fail_indctn_body v
  | GMSG_create_indir_data_fwdng_tunn_req v => create_indir_data_fwdng_tunn_req_body v
  | GMSG_create_indir_data_fwdng_tunn_rsp v => create_indir_data_fwdng_tunn_rsp_body v
  | GMSG_stop_paging_indctn v => stop_paging_indctn_body v
  | GMSG_mod_acc_bearers_req v => mod_acc_bearers_req_body v
  | GMSG_mod_acc_bearers_rsp v => mod_acc_bearers_rsp_body v
  | GMSG_rmt_ue_rpt_notif v => rmt_ue_rpt_notif_body v
  | GMSG_rmt_ue_rpt_ack v => rmt_ue_rpt_ack_body v
  | GMSG_fwd_reloc_rsp v => fwd_reloc_rsp_body v
  | GMSG_fwd_reloc_cmplt_notif v => fwd_reloc_cmplt_notif_body v
  | GMSG_fwd_reloc_cmplt_ack v => fwd_reloc_cmplt_ack_body v
  | GMSG_context_request v => context_request_body v
  | GMSG_ctxt_rsp v => ctxt_rsp_body v
  | GMSG_ctxt_ack v => ctxt_ack_body v
  | GMSG_id_req v => id_req_body v
  | GMSG_fwd_acc_ctxt_notif v => fwd_acc_ctxt_notif_body v
  | GMSG_fwd_acc_ctxt_ack v => fwd_acc_ctxt_ack_body v
  | GMSG_detach_notif v => detach_notif_body v
  | GMSG_detach_ack v => detach_ack_body v
  | GMSG_reloc_cncl_req v => reloc_cncl_req_body v
  | GMSG_reloc_cncl_rsp v => reloc_cncl_rsp_body v
  | GMSG_cfg_xfer_tunn v => cfg_xfer_tunn_body v
  | GMSG_ran_info_rly v => ran_info_rly_body v
  | GMSG_isr_status_indctn v => isr_status_indctn_body v
  | GMSG_ue_reg_qry_req v => ue_reg_qry_req_body v
  | GMSG_ue_reg_qry_rsp v => ue_reg_qry_rsp_body v
  | GMSG_alert_mme_ack v => alert_mme_ack_body v
  | GMSG_ue_actvty_ack v => ue_actvty_ack_body v
  | GMSG_create_fwdng_tunn_req v => create_fwdng_tunn_req_body v
  | GMSG_create_fwdng_tunn_rsp v => create_fwdng_tunn_rsp_body v
  | GMSG_del_pdn_conn_set_req v => del_pdn_conn_set_req_body v
  | GMSG_del_pdn_conn_set_rsp v => del_pdn_conn_set_rsp_body v
  | GMSG_upd_pdn_conn_set_req v => upd_pdn_conn_set_req_body v
  | GMSG_upd_pdn_conn_set_rsp v => upd_pdn_conn_set_rsp_body v
  | GMSG_pgw_rstrt_notif v => pgw_rstrt_notif_body v
  | GMSG_pgw_rstrt_notif_ack v => pgw_rstrt_notif_ack_body v
  | GMSG_pgw_dnlnk_trigrng_notif v => pgw_dnlnk_trigrng_notif_body v
  | GMSG_pgw_dnlnk_trigrng_ack v => pgw_dnlnk_trigrng_ack_body v
  | GMSG_trc_sess_actvn v => trc_sess_actvn_body v
  | GMSG_trc_sess_deact v => trc_sess_deact_body v
  | GMSG_mbms_sess_start_req v => mbms_sess_start_req_body v
  | GMSG_mbms_sess_start_rsp v => mbms_sess_start_rsp_body v
  | GMSG_mbms_sess_upd_req v => mbms_sess_upd_req_body v
  | GMSG_mbms_sess_upd_rsp v => mbms_sess_upd_rsp_body v
  | GMSG_mbms_sess_stop_req v => mbms_sess_stop_req_body v
  end.

Definition gtp_message_layout (m : gtp_message) : layout :=
  match m with
  | GMSG_echo_request v => echo_request_layout v
  | GMSG_echo_response v => echo_response_layout v
  | GMSG_create_sess_req v => create_sess_req_layout v
  | GMSG_create_sess_rsp v => create_sess_rsp_layout v
  | GMSG_create_bearer_req v => create_bearer_req_layout v
  | GMSG_create_bearer_rsp v => create_bearer_rsp_layout v
  | GMSG_bearer_rsrc_cmd v => bearer_rsrc_cmd_layout v
  | GMSG_bearer_rsrc_fail_indctn v => bearer_rsrc_fail_indctn_layout v
  | GMSG_mod_bearer_req v => mod_bearer_req_layout v
  | GMSG_mod_bearer_rsp v => mod_bearer_rsp_layout v
  | GMSG_del_sess_req v => del_sess_req_layout v
  | GMSG_del_bearer_req v => del_bearer_req_layout v
  | GMSG_del_sess_rsp v => del_sess_rsp_layout v
  | GMSG_del_bearer_rsp v => del_bearer_rsp_layout v
  | GMSG_dnlnk_data_notif v => dnlnk_data_notif_layout v
  | GMSG_dnlnk_data_notif_ack v => dnlnk_data_notif_ack_layout v
  | GMSG_dnlnk_data_notif_fail_indctn v => dnlnk_data_notif_fail_indctn_layout v
  | GMSG_mod_bearer_cmd v => mod_bearer_cmd_layout v
  | GMSG_mod_bearer_fail_indctn v => mod_bearer_fail_indctn_layout v
  | GMSG_upd_bearer_req v => upd_bearer_req_layout v
  | GMSG_upd_bearer_rsp v => upd_bearer_rsp_layout v
  | GMSG_del_bearer_cmd v => del_bearer_cmd_layout v
  | GMSG_del_bearer_fail_indctn v => del_bearer_fail_indctn_layout v
  | GMSG_create_indir_data_fwdng_tunn_req v => create_indir_data_fwdng_tunn_req_layout v
  | GMSG_create_indir_data_fwdng_tunn_rsp v => create_indir_data_fwdng_tunn_rsp_layout v
  | GMSG_stop_paging_indctn v => stop_paging_indctn_layout v
  | GMSG_mod_acc_bearers_req v => mod_acc_bearers_req_layout v
  | GMSG_mod_acc_bearers_rsp v => mod_acc_bearers_rsp_layout v
  | GMSG_rmt_ue_rpt_notif v => rmt_ue_rpt_notif_layout v
  | GMSG_rmt_ue_rpt_ack v => rmt_ue_rpt_ack_layout v
  | GMSG_fwd_reloc_rsp v => fwd_reloc_rsp_layout v
  | GMSG_fwd_reloc_cmplt_notif v => fwd_reloc_cmplt_notif_layout v
  | GMSG_fwd_reloc_cmplt_ack v => fwd_reloc_cmplt_ack_layout v
  | GMSG_context_request v => context_request_layout v
  | GMSG_ctxt_rsp v => ctxt_rsp_layout v
  | GMSG_ctxt_ack v => ctxt_ack_layout v
  | GMSG_id_req v => id_req_layout v
  | GMSG_fwd_acc_ctxt_notif v => fwd_acc_ctxt_notif_layout v
  | GMSG_fwd_acc_ctxt_ack v => fwd_acc_ctxt_ack_layout v
  | GMSG_detach_notif v => detach_notif_layout v
  | GMSG_detach_ack v => detach_ack_layout v
  | GMSG_reloc_cncl_req v => reloc_cncl_req_layout v
  | GMSG_reloc_cncl_rsp v => reloc_cncl_rsp_layout v
  | GMSG_cfg_xfer_tunn v => cfg_xfer_tunn_layout v
  | GMSG_ran_info_rly v => ran_info_rly_layout v
  | GMSG_isr_status_indctn v => isr_status_indctn_layout v
  | GMSG_ue_reg_qry_req v => ue_reg_qry_req_layout v
  | GMSG_ue_reg_qry_rsp v => ue_reg_qry_rsp_layout v
  | GMSG_alert_mme_ack v => alert_mme_ack_layout v
  | GMSG_ue_actvty_ack v => ue_actvty_ack_layout v
  | GMSG_create_fwdng_tunn_req v => create_fwdng_tunn_req_layout v
  | GMSG_create_fwdng_tunn_rsp v => create_fwdng_tunn_rsp_layout v
  | GMSG_del_pdn_conn_set_req v => del_pdn_conn_set_req_layout v
  | GMSG_del_pdn_conn_set_rsp v => del_pdn_conn_set_rsp_layout v
  | GMSG_upd_pdn_conn_set_req v => upd_pdn_conn_set_req_layout v
  | GMSG_upd_pdn_conn_set_rsp v => upd_pdn_conn_set_rsp_layout v
  | GMSG_pgw_rstrt_notif v => pgw_rstrt_notif_layout v
  | GMSG_pgw_rstrt_notif_ack v => pgw_rstrt_notif_ack_layout v
  | GMSG_pgw_dnlnk_trigrng_notif v => pgw_dnlnk_trigrng_notif_layout v
  | GMSG_pgw_dnlnk_trigrng_ack v => pgw_dnlnk_trigrng_ack_layout v
  | GMSG_trc_sess_actvn v => trc_sess_actvn_layout v
  | GMSG_trc_sess_deact v => trc_sess_deact_layout v
  | GMSG_mbms_sess_start_req v => mbms_sess_start_req_layout v
  | GMSG_mbms_sess_start_rsp v => mbms_sess_start_rsp_layout v
  | GMSG_mbms_sess_upd_req v => mbms_sess_upd_req_layout v
  | GMSG_mbms_sess_upd_rsp v => mbms_sess_upd_rsp_layout v
  | GMSG_mbms_sess_stop_req v => mbms_sess_stop_req_layout v
  end.

(** Members in range, lengths, types and instances in the headers as the standard asks,
    groups of the short form ending in zeros. *)
Definition gtp_message_ok (m : gtp_message) : Prop :=
  match m with
  | GMSG_echo_request v => echo_request_good v
  | GMSG_echo_response v => echo_response_good v
  | GMSG_create_sess_req v => create_sess_req_good v
  | GMSG_create_sess_rsp v => create_sess_rsp_good v
  | GMSG_create_bearer_req v => create_bearer_req_good v
  | GMSG_create_bearer_rsp v => create_bearer_rsp_good v
  | GMSG_bearer_rsrc_cmd v => bearer_rsrc_cmd_good v
  | GMSG_bearer_rsrc_fail_indctn v => bearer_rsrc_fail_indctn_good v
  | GMSG_mod_bearer_req v => mod_bearer_req_good v
  | GMSG_mod_bearer_rsp v => mod_bearer_rsp_good v
  | GMSG_del_sess_req v => del_sess_req_good v
  | GMSG_del_bearer_req v => del_bearer_req_good v
  | GMSG_del_sess_rsp v => del_sess_rsp_good v
  | GMSG_del_bearer_rsp v => del_bearer_rsp_good v
  | GMSG_dnlnk_data_notif v => dnlnk_data_notif_good v
  | GMSG_dnlnk_data_notif_ack v => dnlnk_data_notif_ack_good v
  | GMSG_dnlnk_data_notif_fail_indctn v => dnlnk_data_notif_fail_indctn_good v
  | GMSG_mod_bearer_cmd v => mod_bearer_cmd_good v
  | GMSG_mod_bearer_fail_indctn v => mod_bearer_fail_indctn_good v
  | GMSG_upd_bearer_req v => upd_bearer_req_good v
  | GMSG_upd_bearer_rsp v => upd_bearer_rsp_good v
  | GMSG_del_bearer_cmd v => del_bearer_cmd_good v
  | GMSG_del_bearer_fail_indctn v => del_bearer_fail_indctn_good v
  | GMSG_create_indir_data_fwdng_tunn_req v => create_indir_data_fwdng_tunn_req_good v
  | GMSG_create_indir_data_fwdng_tunn_rsp v => create_indir_data_fwdng_tunn_rsp_good v
  | GMSG_stop_paging_indctn v => stop_paging_indctn_good v
  | GMSG_mod_acc_bearers_req v => mod_acc_bearers_req_good v
  | GMSG_mod_acc_bearers_rsp v => mod_acc_bearers_rsp_good v
  | GMSG_rmt_ue_rpt_notif v => rmt_ue_rpt_notif_good v
  | GMSG_rmt_ue_rpt_ack v => rmt_ue_rpt_ack_good v
  | GMSG_fwd_reloc_rsp v => fwd_reloc_rsp_good v
  | GMSG_fwd_reloc_cmplt_notif v => fwd_reloc_cmplt_notif_good v
  | GMSG_fwd_reloc_cmplt_ack v => fwd_reloc_cmplt_ack_good v
  | GMSG_context_request v => context_request_good v
  | GMSG_ctxt_rsp v => ctxt_rsp_good v
  | GMSG_ctxt_ack v => ctxt_ack_good v
  | GMSG_id_req v => id_req_good v
  | GMSG_fwd_acc_ctxt_notif v => fwd_acc_ctxt_notif_good v
  | GMSG_fwd_acc_ctxt_ack v => fwd_acc_ctxt_ack_good v
  | GMSG_detach_notif v => detach_notif_good v
  | GMSG_detach_ack v => detach_ack_good v
  | GMSG_reloc_cncl_req v => reloc_cncl_req_good v
  | GMSG_reloc_cncl_rsp v => reloc_cncl_rsp_good v
  | GMSG_cfg_xfer_tunn v => cfg_xfer_tunn_good v
  | GMSG_ran_info_rly v => ran_info_rly_good v
  | GMSG_isr_status_indctn v => isr_status_indctn_good v
  | GMSG_ue_reg_qry_req v => ue_reg_qry_req_good v
  | GMSG_ue_reg_qry_rsp v => ue_reg_qry_rsp_good v
  | GMSG_alert_mme_ack v => alert_mme_ack_good v
  | GMSG_ue_actvty_ack v => ue_actvty_ack_good v
  | GMSG_create_fwdng_tunn_req v => create_fwdng_tunn_req_good v
  | GMSG_create_fwdng_tunn_rsp v => create_fwdng_tunn_rsp_good v
  | GMSG_del_pdn_conn_set_req v => del_pdn_conn_set_req_good v
  | GMSG_del_pdn_conn_set_rsp v => del_pdn_conn_set_rsp_good v
  | GMSG_upd_pdn_conn_set_req v => upd_pdn_conn_set_req_good v
  | GMSG_upd_pdn_conn_set_rsp v => upd_pdn_conn_set_rsp_good v
  | GMSG_pgw_rstrt_notif v => pgw_rstrt_notif_good v
  | GMSG_pgw_rstrt_notif_ack v => pgw_rstrt_notif_ack_good v
  | GMSG_pgw_dnlnk_trigrng_notif v => pgw_dnlnk_trigrng_notif_good v
  | GMSG_pgw_dnlnk_trigrng_ack v => pgw_dnlnk_trigrng_ack_good v
  | GMSG_trc_sess_actvn v => trc_sess_actvn_good v
  | GMSG_trc_sess_deact v => trc_sess_deact_good v
  | GMSG_mbms_sess_start_req v => mbms_sess_start_req_good v
  | GMSG_mbms_sess_start_rsp v => mbms_sess_start_rsp_good v
  | GMSG_mbms_sess_upd_req v => mbms_sess_upd_req_good v
  | GMSG_mbms_sess_upd_rsp v => mbms_sess_upd_rsp_good v
  | GMSG_mbms_sess_stop_req v => mbms_sess_stop_req_good v
  end.

Lemma gtp_message_encodes m : gtp_message_ok m ->
  encodes (gtp_message_encode m) (gtp_message_layout m) (size (gtp_message_layout m) / 8).
Proof.
  destruct m; cbn [gtp_message_ok gtp_message_encode gtp_message_layout];
    [apply echo_request_encodes|
     apply echo_response_encodes|
     apply create_sess_req_encodes|
     apply create_sess_rsp_encodes|
     apply create_bearer_req_encodes|
     apply create_bearer_rsp_encodes|
     apply bearer_rsrc_cmd_encodes|
     apply bearer_rsrc_fail_indctn_encodes|
     apply mod_bearer_req_encodes|
     apply mod_bearer_rsp_encodes|
     apply del_sess_req_encodes|
     apply del_bearer_req_encodes|
     apply del_sess_rsp_encodes|
     apply del_bearer_rsp_encodes|
     apply dnlnk_data_notif_encodes|
     apply dnlnk_data_notif_ack_encodes|
     apply dnlnk_data_notif_fail_indctn_encodes|
     apply mod_bearer_cmd_encodes|
     apply mod_bearer_fail_indctn_encodes|
     apply upd_bearer_req_encodes|
     apply upd_bearer_rsp_encodes|
     apply del_bearer_cmd_encodes|
     apply del_bearer_fail_indctn_encodes|
     apply create_indir_data_fwdng_tunn_req_encodes|
     apply create_indir_data_fwdng_tunn_rsp_encodes|
     apply stop_paging_indctn_encodes|
     apply mod_acc_bearers_req_encodes|
     apply mod_acc_bearers_rsp_encodes|
     apply rmt_ue_rpt_notif_encodes|
     apply rmt_ue_rpt_ack_encodes|
     apply fwd_reloc_rsp_encodes|
     apply fwd_reloc_cmplt_notif_encodes|
     apply fwd_reloc_cmplt_ack_encodes|
     apply context_request_encodes|
     apply ctxt_rsp_encodes|
     apply ctxt_ack_encodes|
     apply id_req_encodes|
     apply fwd_acc_ctxt_notif_encodes|
     apply fwd_acc_ctxt_ack_encodes|
     apply detach_notif_encodes|
     apply detach_ack_encodes|
     apply reloc_cncl_req_encodes|
     apply reloc_cncl_rsp_encodes|
     apply cfg_xfer_tunn_encodes|
     apply ran_info_rly_encodes|
     apply isr_status_indctn_encodes|
     apply ue_reg_qry_req_encodes|
     apply ue_reg_qry_rsp_encodes|
     apply alert_mme_ack_encodes|
     apply ue_actvty_ack_encodes|
     apply create_fwdng_tunn_req_encodes|
     apply create_fwdng_tunn_rsp_encodes|
     apply del_pdn_conn_set_req_encodes|
     apply del_pdn_conn_set_rsp_encodes|
     apply upd_pdn_conn_set_req_encodes|
     apply upd_pdn_conn_set_rsp_encodes|
     apply pgw_rstrt_notif_encodes|
     apply pgw_rstrt_notif_ack_encodes|
     apply pgw_dnlnk_trigrng_notif_encodes|
     apply pgw_dnlnk_trigrng_ack_encodes|
     apply trc_sess_actvn_encodes|
     apply trc_sess_deact_encodes|
     apply mbms_sess_start_req_encodes|
     apply mbms_sess_start_rsp_encodes|
     apply mbms_sess_upd_req_encodes|
     apply mbms_sess_upd_rsp_encodes|
     apply mbms_sess_stop_req_encodes].
Qed.

Lemma gtp_message_decodes m : gtp_message_ok m ->
  decodes (gtp_message_decode m) (gtp_message_layout m) (size (gtp_message_body m) / 8) m.
Proof.
  destruct m; intros Hg buf post Hh Hs; unfold gtp_message_decode;
    [rewrite (echo_request_decodes v Hg buf post Hh Hs)|
     rewrite (echo_response_decodes v Hg buf post Hh Hs)|
     rewrite (create_sess_req_decodes v Hg buf post Hh Hs)|
     rewrite (create_sess_rsp_decodes v Hg buf post Hh Hs)|
     rewrite (create_bearer_req_decodes v Hg buf post Hh Hs)|
     rewrite (create_bearer_rsp_decodes v Hg buf post Hh Hs)|
     rewrite (bearer_rsrc_cmd_decodes v Hg buf post Hh Hs)|
     rewrite (bearer_rsrc_fail_indctn_decodes v Hg buf post Hh Hs)|
     rewrite (mod_bearer_req_decodes v Hg buf post Hh Hs)|
     rewrite (mod_bearer_rsp_decodes v Hg buf post Hh Hs)|
     rewrite (del_sess_req_decodes v Hg buf post Hh Hs)|
     rewrite (del_bearer_req_decodes v Hg buf post Hh Hs)|
     rewrite (del_sess_rsp_decodes v Hg buf post Hh Hs)|
     rewrite (del_bearer_rsp_decodes v Hg buf post Hh Hs)|
     rewrite (dnlnk_data_notif_decodes v Hg buf post Hh Hs)|
     rewrite (dnlnk_data_notif_ack_decodes v Hg buf post Hh Hs)|
     rewrite (dnlnk_data_notif_fail_indctn_decodes v Hg buf post Hh Hs)|
     rewrite (mod_bearer_cmd_decodes v Hg buf post Hh Hs)|
     rewrite (mod_bearer_fail_indctn_decodes v Hg buf post Hh Hs)|
     rewrite (upd_bearer_req_decodes v Hg buf post Hh Hs)|
     rewrite (upd_bearer_rsp_decodes v Hg buf post Hh Hs)|
     rewrite (del_bearer_cmd_decodes v Hg buf post Hh Hs)|
     rewrite (del_bearer_fail_indctn_decodes v Hg buf post Hh Hs)|
     rewrite (create_indir_data_fwdng_tunn_req_decodes v Hg buf post Hh Hs)|
     rewrite (create_indir_data_fwdng_tunn_rsp_decodes v Hg buf post Hh Hs)|
     rewrite (stop_paging_indctn_decodes v Hg buf post Hh Hs)|
     rewrite (mod_acc_bearers_req_decodes v Hg buf post Hh Hs)|
     rewrite (mod_acc_bearers_rsp_decodes v Hg buf post Hh Hs)|
     rewrite (rmt_ue_rpt_notif_decodes v Hg buf post Hh Hs)|
     rewrite (rmt_ue_rpt_ack_decodes v Hg buf post Hh Hs)|
     rewrite (fwd_reloc_rsp_decodes v Hg buf post Hh Hs)|
     rewrite (fwd_reloc_cmplt_notif_decodes v Hg buf post Hh Hs)|
     rewrite (fwd_reloc_cmplt_ack_decodes v Hg buf post Hh Hs)|
     rewrite (context_request_decodes v Hg buf post Hh Hs)|
     rewrite (ctxt_rsp_decodes v Hg buf post Hh Hs)|
     rewrite (ctxt_ack_decodes v Hg buf post Hh Hs)|
     rewrite (id_req_decodes v Hg buf post Hh Hs)|
     rewrite (fwd_acc_ctxt_notif_decodes v Hg buf post Hh Hs)|
     rewrite (fwd_acc_ctxt_ack_decodes v Hg buf post Hh Hs)|
     rewrite (detach_notif_decodes v Hg buf post Hh Hs)|
     rewrite (detach_ack_decodes v Hg buf post Hh Hs)|
     rewrite (reloc_cncl_req_decodes v Hg buf post Hh Hs)|
     rewrite (reloc_cncl_rsp_decodes v Hg buf post Hh Hs)|
     rewrite (cfg_xfer_tunn_decodes v Hg buf post Hh Hs)|
     rewrite (ran_info_rly_decodes v Hg buf post Hh Hs)|
     rewrite (isr_status_indctn_decodes v Hg buf post Hh Hs)|
     rewrite (ue_reg_qry_req_decodes v Hg buf post Hh Hs)|
     rewrite (ue_reg_qry_rsp_decodes v Hg buf post Hh Hs)|
     rewrite (alert_mme_ack_decodes v Hg buf post Hh Hs)|
     rewrite (ue_actvty_ack_decodes v Hg buf post Hh Hs)|
     rewrite (create_fwdng_tunn_req_decodes v Hg buf post Hh Hs)|
     rewrite (create_fwdng_tunn_rsp_decodes v Hg buf post Hh Hs)|
     rewrite (del_pdn_conn_set_req_decodes v Hg buf post Hh Hs)|
     rewrite (del_pdn_conn_set_rsp_decodes v Hg buf post Hh Hs)|
     rewrite (upd_pdn_conn_set_req_decodes v Hg buf post Hh Hs)|
     rewrite (upd_pdn_conn_set_rsp_decodes v Hg buf post Hh Hs)|
     rewrite (pgw_rstrt_notif_decodes v Hg buf post Hh Hs)|
     rewrite (pgw_rstrt_notif_ack_decodes v Hg buf post Hh Hs)|
     rewrite (pgw_dnlnk_trigrng_notif_decodes v Hg buf post Hh Hs)|
     rewrite (pgw_dnlnk_trigrng_ack_decodes v Hg buf post Hh Hs)|
     rewrite (trc_sess_actvn_decodes v Hg buf post Hh Hs)|
     rewrite (trc_sess_deact_decodes v Hg buf post Hh Hs)|
     rewrite (mbms_sess_start_req_decodes v Hg buf post Hh Hs)|
     rewrite (mbms_sess_start_rsp_decodes v Hg buf post Hh Hs)|
     rewrite (mbms_sess_upd_req_decodes v Hg buf post Hh Hs)|
     rewrite (mbms_sess_upd_rsp_decodes v Hg buf post Hh Hs)|
     rewrite (mbms_sess_stop_req_decodes v Hg buf post Hh Hs)]; done.
Qed.

(** ** Round trips *)

(** C3: Each of the 114 GTPv2 elements whose two sides agree, 98 of fixed form and 16 with
    optional or variable parts (among them IMSI, F-TEID, PAA, APN, user location), is read
    back unchanged by its decoder wherever in a message its encoder wrote it; both return
    the size in bytes.  Members are in range; an F-TEID has an IPv4 address, protocol
    configuration options have one byte, indication flags seven bytes and an IMSI 7 or 8. *)
Theorem gtp_ie_roundtrip i buf w base :
  gtp_ie_good i -> size (gtp_ie_layout i) < 65536 -> message_room buf w base (size (gtp_ie_layout i)) ->
  round_trips (gtp_ie_encode i) (gtp_ie_decode i)
    (size (gtp_ie_layout i) / 8) (size (gtp_ie_layout i) / 8) i buf base.
Proof.
  intros Hg Hs Hr. eapply codec_round_trips; [by apply gtp_ie_encodes|by apply gtp_ie_decodes|done|exact Hr].
Qed.

(** An F-TEID of an S11 interface with the address 10.0.5.1. *)
Definition example_fteid (instance : Z) : gtp_fully_qual_tunn_endpt_idnt_ie_t :=
  mk_gtp_fully_qual_tunn_endpt_idnt (mk_gie 87 9 instance) 1 0 10 7 (((10 * 256 + 0) * 256 + 5) * 256 + 1) (repeat 0 16).

(** A concrete element, group or message is checked by evaluation. *)
Ltac good_gtp :=
  repeat lazymatch goal with
  | |- _ ∧ _ => split
  | |- layout_ok _ => apply layout_okb_spec; vm_compute; reflexivity
  | |- Forall _ (ie_layout _) => apply layout_okb_spec; vm_compute; reflexivity
  | |- gtp_create_sess_request_bearer_ctxt_to_be_created_good _ => hnf
  | |- opt_good _ _ => hnf
  | |- el_good _ => hnf
  | |- group_good _ _ => split
  | |- short_good _ _ => vm_compute; reflexivity
  | |- gtp_message_good _ _ => split
  | |- gtpv2c_header_ok _ => split
  | |- gtp_fteid_good _ => split
  | |- imsi_good _ => split
  | |- apn_good _ => split
  | |- padded _ _ _ => split
  | |- bytes_ok _ => repeat constructor; unfold byte_ok; lia
  | |- _ <= _ => vm_compute; discriminate
  | |- _ < _ => reflexivity
  | |- _ = _ -> _ => intros; reflexivity
  | |- _ ≠ _ -> _ => let H := fresh in intros H; by destruct H
  | |- _ = _ => reflexivity
  end.

Lemma gtp_ie_roundtrip_witness :
  round_trips (gtp_ie_encode (GOI_fully_qual_tunn_endpt_idnt (example_fteid 0)))
    (gtp_ie_decode (GOI_fully_qual_tunn_endpt_idnt (example_fteid 0)))
    13 13 (GOI_fully_qual_tunn_endpt_idnt (example_fteid 0)) (repeat 0 20) 0.
Proof.
  apply (gtp_ie_roundtrip (GOI_fully_qual_tunn_endpt_idnt (example_fteid 0)) (repeat 0 20) [] 0).
  - hnf. good_gtp.
  - reflexivity.
  - apply message_room_zero. vm_compute. discriminate.
Defined.

(** C2: Each of the 67 GTPv2 messages that have an encoder and a decoder is read back
    unchanged by its decoder from the bytes its encoder wrote, with its elements, groups and
    arrays, if it has only members on which encoder and decoder agree.  These conditions are
    [gtp_message_ok].

    The groups whose decoders return four bytes too few end in four zero bytes, which the
    loop then takes for an unknown element of length 0: so it is with the bearer context of
    a default bearer, which ends in the guaranteed bit rate 0.  An F-TEID has an IPv4 address,
    protocol configuration options have one byte, indication flags seven bytes, an IMSI 7 or
    8 bytes, a cause of two bytes no offending element.

    Absent are: in a create session request the indication flags, WLAN mode, protocol
    configuration options, trace information, user CSG information, local addresses of UE
    and HeNB, SGSN and TWAN identifiers, ePDG address, area information, WLAN location and
    remote UE contexts; the protocol configuration options and charging gateway addresses of
    create session and modify bearer responses; in a modify bearer request the indication
    flags and the members named for the create session request; TWAN and SGSN identifiers,
    WLAN location, area information and the local address of the UE in create, update and
    delete bearer responses and delete session requests; the indication flags of a delete
    session response; the bearer contexts of delete bearer requests and failure indications,
    modify bearer commands, modify access bearers messages, indirect tunnel messages and
    context acknowledges; the PDN connections, addresses, trace and CSG members of context
    responses, the set up lists of relocation responses, the addresses of identification
    requests and of restart notifications, the action, forwarding, trace and remote UE
    members of the status, tunnel, trace and remote UE messages, the ePDG and TWAN
    identifiers of connection set requests, and the SGSN identifiers of triggering messages.
    [bearer_context_hides_elements] is what happens otherwise to a create session request. *)
Theorem gtp_message_roundtrip m buf w base :
  gtp_message_ok m -> size (gtp_message_layout m) < 65536 ->
  message_room buf w base (size (gtp_message_layout m)) ->
  round_trips (gtp_message_encode m) (gtp_message_decode m)
    (size (gtp_message_layout m) / 8) (size (gtp_message_body m) / 8) m buf base.
Proof.
  intros Hok Hs Hr.
  eapply codec_round_trips; [by apply gtp_message_encodes|by apply gtp_message_decodes|done|exact Hr].
Qed.

(** A default bearer, and a create session request for it. *)
Definition example_bearer : gtp_create_sess_request_bearer_ctxt_to_be_created_ie_t :=
  set_gtp_create_sess_request_bearer_ctxt_to_be_created_eps_bearer_id (mk_gtp_eps_bearer_id (mk_gie 73 1 0) 0 5)
  (set_gtp_create_sess_request_bearer_ctxt_to_be_created_bearer_lvl_qos
    (mk_gtp_bearer_qlty_of_svc (mk_gie 80 22 0) 0 1 9 0 0 9 0 0 0 0)
  (set_gtp_create_sess_request_bearer_ctxt_to_be_created_header (mk_gie 93 31 0)
    zero_gtp_create_sess_request_bearer_ctxt_to_be_created)).

Definition example_session_request : create_sess_req_t :=
  set_create_sess_req_imsi
    (mk_gtp_imsi (mk_gie 1 8 0) (of_le_bytes [0x80; 0x10; 0; 0; 0; 0; 0; 0xf1]) 80100000000001)
  (set_create_sess_req_rat_type (mk_gtp_rat_type (mk_gie 82 1 0) 6)
  (set_create_sess_req_sender_fteid_ctl_plane (example_fteid 0)
  (set_create_sess_req_apn (mk_gtp_acc_pt_name (mk_gie 71 4 0) ([3; 105; 109; 115] ++ repeat 0 124))
  (set_create_sess_req_bearer_contexts_to_be_created example_bearer
  (set_create_sess_req_recovery (mk_gtp_recovery (mk_gie 3 1 0) 9)
  (set_create_sess_req_header (mk_gtpv2c_header 0 1 0 2 32 (8 + 12 + 5 + 13 + 8 + 35 + 5) 0 1 0) zero_create_sess_req)))))).

Lemma gtp_message_roundtrip_witness :
  round_trips (gtp_message_encode (GMSG_create_sess_req example_session_request))
    (gtp_message_decode (GMSG_create_sess_req example_session_request)) 90 78
    (GMSG_create_sess_req example_session_request) (repeat 0 100) 0.
Proof.
  apply (gtp_message_roundtrip (GMSG_create_sess_req example_session_request) (repeat 0 100) [] 0).
  - hnf. good_gtp.
  - reflexivity.
  - apply message_room_zero. vm_compute. discriminate.
Defined.

(** ** Sizes of the groups *)

(** C26: Each of the 65 groups is read back unchanged, and its encoder returns its size.  Six
    of the decoders return that size too; the other 59 return four bytes less, since they
    count from behind the header of the group.  The elements of a group are those of
    [gtp_ie_roundtrip], with its conditions. *)
Theorem gtp_group_sizes g buf w base :
  gtp_group_good g -> size (gtp_group_layout g) < 65536 ->
  message_room buf w base (size (gtp_group_layout g)) ->
  round_trips (gtp_group_encode g) (gtp_group_decode g) (size (gtp_group_layout g) / 8)
    (if counts_header g then size (gtp_group_layout g) / 8 else size (gtp_group_layout g) / 8 - 4) g buf base.
Proof.
  intros Hg Hs Hr. pose proof (gtp_group_decodes g Hg) as Hd.
  eapply codec_round_trips; [by apply gtp_group_encodes| |done|exact Hr].
  destruct (counts_header g); exact Hd.
Qed.

Lemma gtp_group_sizes_witness :
  round_trips (gtp_group_encode (GRP_create_sess_request_bearer_ctxt_to_be_created example_bearer))
    (gtp_group_decode (GRP_create_sess_request_bearer_ctxt_to_be_created example_bearer)) 35 31
    (GRP_create_sess_request_bearer_ctxt_to_be_created example_bearer) (repeat 0 40) 0.
Proof.
  apply (gtp_group_sizes (GRP_create_sess_request_bearer_ctxt_to_be_created example_bearer) (repeat 0 40) [] 0).
  - hnf. good_gtp.
  - reflexivity.
  - apply message_room_zero. vm_compute. discriminate.
Defined.

(** ** Bounds *)

(** An FQ-CSID with up to eight connection set identifiers is decoded with them.  With
    nine to fifteen, which the four bits of their number allow, the decoder writes behind
    the array. *)
Theorem fqcsid_bound h ty addr ids buf post :
  layout_ok (layout_gie_header h ++ [(4, ty); (4, Z.of_nat (length ids)); (32, addr)] ++ (pair 16 <$> ids)) ->
  holds buf (wbits (layout_gie_header h ++ [(4, ty); (4, Z.of_nat (length ids)); (32, addr)] ++ (pair 16 <$> ids)) ++ post) ->
  decode_gtp_fqcsid_ie zero_gtp_fqcsid buf =
    if (length ids <=? 8)%nat
    then Some (9 + 2 * Z.of_nat (length ids),
               mk_gtp_fqcsid h ty (Z.of_nat (length ids)) addr (ids ++ repeat 0 (8 - length ids)))
    else None.
Proof.
  intros Hok Hh. pose proof Hok as [H1 H2]%layout_ok_app. apply layout_ok_app in H2 as [H2 H3].
  assert (Z.of_nat (length ids) < 16) as Hn by (apply Forall_cons_1 in H2 as [_ H2]; apply Forall_cons_1 in H2 as [H2 _]; lia).
  destruct (Nat.leb_spec (length ids) 8).
  - set (v := mk_gtp_fqcsid h ty (Z.of_nat (length ids)) addr (ids ++ repeat 0 (8 - length ids))).
    assert (layout_fqcsid v = layout_gie_header h ++ [(4, ty); (4, Z.of_nat (length ids)); (32, addr)] ++ (pair 16 <$> ids)) as E.
    { unfold layout_fqcsid, csids, v. cbn -[repeat]. by rewrite Nat2Z.id, take_app_length. }
    assert (size (layout_fqcsid v) = 72 + 16 * Z.of_nat (length ids)) as Hs
      by (rewrite E, !size_app, size_pairs; change (size (layout_gie_header h)) with 32;
          change (size [(4, ty); (4, Z.of_nat (length ids)); (32, addr)]) with 40; lia).
    rewrite <- E in Hok, Hh. destruct (fqcsid_agree v) as [_ D].
    + split; [done|]. cbn -[repeat]. rewrite length_app, repeat_length, Nat2Z.id, drop_app_length. split; [lia|]. split; [lia|done].
    + rewrite (D buf post Hh) by lia. do 2 f_equal. rewrite Hs. divlia.
  - unfold decode_gtp_fqcsid_ie. rewrite !wbits_app, <- !app_assoc in Hh.
    assert (reads 0 (header ← dcall (decode_ie_header_t IE_HEADER_SIZE); a ← get 4; b ← get 4; c ← get 32; mret (header, a, b, c))
      (layout_gie_header h ++ [(4, ty); (4, Z.of_nat (length ids)); (32, addr)]) (h, ty, Z.of_nat (length ids), addr)) as R.
    { apply reads_gie_header; [done|]. repeat read_step H2. }
    destruct (R buf [] (wbits (pair 16 <$> ids) ++ post) 0 0) as [d E]; [by rewrite wbits_app, <- app_assoc|done..|].
    clear R. unfold dec_bytes, mbind, dec_bind in *.
    destruct (dcall _ buf _) as [[hd [t0 d0]]|]; [|done]. destruct (get 4 buf (t0, d0)) as [[a [t1 d1]]|]; [|done].
    destruct (get 4 buf (t1, d1)) as [[b [t2 d2]]|]; [|done]. destruct (get 32 buf (t2, d2)) as [[c [t3 d3]]|]; [|done].
    cbn in E. injection E as -> -> -> -> -> ->. rewrite Nat2Z.id, get_each_overrun; cbn; lia || done.
Qed.

Lemma fqcsid_bound_witness :
  decode_gtp_fqcsid_ie zero_gtp_fqcsid ([132; 0; 7; 0] ++ [1; 10; 0; 0; 1] ++ [0; 3]) =
    Some (11, mk_gtp_fqcsid (mk_gie 132 7 0) 0 1 167772161 [3; 0; 0; 0; 0; 0; 0; 0]) ∧
  decode_gtp_fqcsid_ie zero_gtp_fqcsid ([132; 0; 23; 0] ++ [9; 10; 0; 0; 1] ++ concat (repeat [0; 3] 9)) = None.
Proof.
  split.
  - apply (fqcsid_bound (mk_gie 132 7 0) 0 167772161 [3] _ []);
      [apply layout_okb_spec; reflexivity|apply holdsb_spec; vm_compute; reflexivity].
  - apply (fqcsid_bound (mk_gie 132 23 0) 0 167772161 (repeat 3 9) _ []);
      [apply layout_okb_spec; reflexivity|apply holdsb_spec; vm_compute; reflexivity].
Defined.

(** ** Elements that are lost *)

(** The loop goes on four bytes before the end of a group of the short form. *)
Lemma ie_key_octets here t hi lo i post : bytes_ok [t; hi; lo; i] ->
  holds here (wbits (octets [t; hi; lo; i]) ++ post) ->
  ie_key_at here = Some (t, i) ∧ ∀ T (v : T), skip_gie here v = Some (4 + (256 * hi + lo), v).
Proof. intros Hb Hh. by apply holds_octets in Hh as [rest ->]. Qed.

Section after_short_group.
Context {T V : Type} `{EV : GtpElem V, !GtpElemOk V} (step : Z * Z -> list Z -> T -> option (Z * T)).
Context (code : Z * Z) (get : T -> V) (set : V -> T -> T).

Lemma short_group_hides (x : V) (g : layout) v w t hi lo i rest fuel buf post :
  (∀ here v, step code here v = into el_decode (get v) set here v) -> (∀ here v, step (t, i) here v = skip_gie here v) ->
  get v = el_zero -> th_key (el_header x) = code -> element_layout (el_header x) g ->
  decodes (el_decode el_zero) g (size g / 8 - 4) x ->
  wbits g = w ++ wbits (octets [t; hi; lo; i]) -> bytes_ok [t; hi; lo; i] ->
  256 * hi + lo = Z.of_nat (length rest) -> size g / 8 + Z.of_nat (length rest) < 65536 -> size g < 65536 ->
  holds buf (wbits g ++ wbits (octets rest) ++ post) ->
  tlv_loop ie_key_at step (S (S fuel)) buf (size g / 8 + Z.of_nat (length rest)) 0 v
  = Some (size g / 8 + Z.of_nat (length rest), set x v).
Proof.
  intros Hs1 Hs2 Hz Hc He Hd Hw Hb Hl Hn Hs Hh. pose proof (element_size _ _ He) as [Hm Hp].
  destruct He as (body & Eg & _ & _ & Hok).
  rewrite (tlv_loop_step _ _ _ _ _ _ _ code (size g / 8 - 4) (set x v)); [|divlia| |].
  2: { rewrite <- Hc, drop_0. apply (th_reads _ _ (wbits body ++ wbits (octets rest) ++ post) Hok).
       by rewrite Eg, wbits_app, <- app_assoc in Hh. }
  2: { rewrite Hs1, Hz. unfold into. rewrite drop_0. by rewrite (Hd _ _ Hh Hs). }
  rewrite uwrap_small by divlia.
  destruct (ie_key_octets (drop (Z.to_nat (0 + (size g / 8 - 4))) buf) t hi lo i (wbits (octets rest) ++ post) Hb) as [Ek Esk].
  { rewrite Hw, <- app_assoc in Hh. apply (holds_drop _ _ _ _ Hh).
    assert (size g = Z.of_nat (length w) + 32) by (unfold size; rewrite Hw, length_app, length_wbits_octets; cbn [length]; lia).
    divlia. }
  rewrite (tlv_loop_step _ _ _ _ _ _ _ (t, i) (4 + (256 * hi + lo)) (set x v)); [|divlia|done|by rewrite Hs2].
  rewrite uwrap_small by divlia. rewrite tlv_loop_done by lia. do 2 f_equal. lia.
Qed.
End after_short_group.

(** C27: In a create session request the elements behind the bearer context can be lost.  The
    decoder goes on at the last four bytes of the bearer context; when they are t, a
    length and an instance, with t no type of an element (an F-TEID at the end with an
    address 10.0.l.i is enough), everything in that length is skipped, whatever it is. *)
Theorem bearer_context_hides_elements h g w t hi lo i rest buf post :
  gtpv2c_header_ok h -> layout_ok (layout_gtpv2c_header h) ->
  gtp_create_sess_request_bearer_ctxt_to_be_created_good g ->
  th_key g.(gtp_create_sess_request_bearer_ctxt_to_be_created_header) = (93, 0) ->
  wbits (el_layout g) = w ++ wbits (octets [t; hi; lo; i]) -> bytes_ok [t; hi; lo; i] -> 3 < t < 71 ->
  256 * hi + lo = Z.of_nat (length rest) ->
  h.(gtpc_message_len) = (if nz h.(gtpc_teid_flag) then 8 else 4) + (size (el_layout g) / 8 + Z.of_nat (length rest)) ->
  holds buf (wbits (layout_gtpv2c_header h) ++ wbits (el_layout g) ++ wbits (octets rest) ++ post) ->
  size (el_layout g) < 65536 ->
  decode_create_sess_req zero_create_sess_req buf =
    Some (size (el_layout g) / 8 + Z.of_nat (length rest),
          set_create_sess_req_bearer_contexts_to_be_created g (set_create_sess_req_header h zero_create_sess_req)).
Proof.
  intros Hho Hok Hg Hk Hw Hb Ht Hl Hm Hh Hs. unfold decode_create_sess_req, dec_gtp_message.
  assert (size (layout_gtpv2c_header h) mod 8 = 0 ∧ size (layout_gtpv2c_header h) < 65536 ∧ 0 <= h.(gtpc_message_len) < 65536)
    as (Hz & Hz' & Hlen).
  { unfold layout_gtpv2c_header in *. rewrite size_app, size_if. split; [by destruct (_ =? 1)|]. split; [by destruct (_ =? 1)|].
    apply layout_ok_app in Hok as [Hok _]. do 5 apply Forall_cons_1 in Hok as [_ Hok]. by apply Forall_cons_1 in Hok as [Hok _]. }
  change (create_sess_req_header zero_create_sess_req) with zero_gtpv2c_header.
  rewrite (gtpv2c_header_decodes h Hok Hho buf _ Hh Hz'). cbn [mbind option_bind].
  pose proof (size_nonneg (el_layout g)).
  rewrite Hm, Z.add_simpl_l, uwrap_small by (destruct (nz _); divlia).
  assert (∃ fuel, loop_fuel = S (S fuel)) as [fuel ->] by (exists (loop_fuel - 2)%nat; unfold loop_fuel; lia).
  pose proof (holds_drop buf _ _ (size (layout_gtpv2c_header h) / 8) Hh ltac:(unfold size in *; divlia)) as Hd.
  eapply (short_group_hides _ (93, 0) create_sess_req_bearer_contexts_to_be_created
    set_create_sess_req_bearer_contexts_to_be_created g (el_layout g) _ w t hi lo i rest fuel _ post);
    try done; [| | |destruct (nz _); lia].
  - intros here v. cbv beta iota. repeat match goal with |- context [t =? ?c] => rewrite (proj2 (Z.eqb_neq t c)) by (unfold c; lia) end. reflexivity.
  - exact (group_element _ _ (proj1 Hg)).
  - exact (gtp_create_sess_request_bearer_ctxt_to_be_created_items g Hg).
Qed.

(** A bearer context that ends in an F-TEID with the address 10.0.5.1, and a recovery
    element of five bytes behind it. *)
Lemma bearer_context_hides_elements_witness :
  let g := set_gtp_create_sess_request_bearer_ctxt_to_be_created_s5s8_u_pgw_fteid (example_fteid 3)
    (set_gtp_create_sess_request_bearer_ctxt_to_be_created_header (mk_gie 93 13 0)
      zero_gtp_create_sess_request_bearer_ctxt_to_be_created) in
  let h := mk_gtpv2c_header 0 1 0 2 32 (8 + 17 + 5) 0 1 0 in
  decode_create_sess_req zero_create_sess_req
    ([72; 32; 0; 30; 0; 0; 0; 0; 0; 0; 1; 0] ++ [93; 0; 13; 0] ++ [87; 0; 9; 3; 138; 0; 0; 0; 7; 10; 0; 5; 1] ++ [3; 0; 1; 0; 9]) =
    Some (22, set_create_sess_req_bearer_contexts_to_be_created g (set_create_sess_req_header h zero_create_sess_req)).
Proof.
  intros g h.
  apply (bearer_context_hides_elements h g (take 104 (wbits (el_layout g))) 10 0 5 1 [3; 0; 1; 0; 9] _ []);
    [good_gtp|good_gtp|good_gtp|reflexivity|vm_compute; reflexivity|good_gtp|lia|reflexivity|reflexivity|
     apply holdsb_spec; vm_compute; reflexivity|reflexivity].
Defined.

(** As in PFCP, an unknown element whose length field is 65532 is skipped by no bytes, and
    the loop that meets it never ends. *)
Lemma gtp_unknown_element_hangs {T} (step : Z * Z -> list Z -> T -> option (Z * T)) t i rest buf_len value fuel :
  (∀ here v, step (t, i) here v = skip_gie here v) -> 0 < buf_len ->
  tlv_loop ie_key_at step fuel (t :: 255 :: 252 :: i :: rest) buf_len 0 value = None.
Proof.
  intros Hskip Hl. induction fuel as [|fuel IH]; [cbn [tlv_loop]; by rewrite (proj2 (Z.ltb_lt 0 buf_len))|].
  rewrite (tlv_loop_step _ _ _ _ _ _ _ (t, i) 65536 value); [exact IH|done|done|]. by rewrite Hskip.
Qed.

(** A container of protocol configuration options that is longer than its array is copied
    over the end of it. *)
Lemma pco_container_overrun buf len hi lo opt_len left count ids :
  count < len -> load buf count = Some hi -> load buf (count + 1) = Some lo -> load buf (count + 2) = Some opt_len ->
  20 < opt_len -> (∃ id, ids !! 0%nat = Some id ∧ length id.(pco_opt_data) = 20%nat) ->
  pco_containers (S left) 0 buf len count ids = None.
Proof.
  intros Hc Eh El Eo Ho (id & Ei & Hd). cbn [pco_containers]. rewrite (proj2 (Z.ltb_lt count len)) by done.
  rewrite Ei, Eh, El, Eo. cbn [mbind option_bind]. rewrite memcpy_overrun; [done|lia..].
Qed.
