(* ===== verification/IpPool.v ===== *)
(** * UE address pools (src/cpplib/ip_pool_mgmt.h, src/cp/ip_pool.c)

    The dynamic pool is a queue of addresses, the static pool a tree with one
    level per octet whose leaves carry a flag.  [acquire_ip], [release_ip],
    [reserve_ip_node] and [release_ip_node] are what the session procedures call;
    the use of them by the create session handler is modelled with its address
    part.  An address is a 32-bit [Z], in host or in network order as said. *)

From stdpp Require Import relations.
From S2P Require Import Prelude Codec.

#[local] Set Warnings "-register-all,-clear-no-such-hyp".

(** ** Byte order *)

(** [htonl] and [ntohl] on a little-endian host. *)
Definition htonl (v : Z) : Z := of_le_bytes (rev (le_bytes 4 v)).
#[global] Arguments htonl : simpl never.

(** ** The dynamic pool *)

(** [while ((n & 0x1) == 0x0) { total_address <<= 1; n >>= 1; }]; no result when
    the fuel does not reach the end of the loop. *)
Fixpoint count_addresses (fuel : nat) (n total_address : Z) : option Z :=
  match fuel with
  | O => None
  | S fuel' =>
      if Z.land n 1 =? 0 then count_addresses fuel' (Z.shiftr n 1) (u32 (Z.shiftl total_address 1))
      else Some total_address
  end.

(** A mask other than zero leaves the loop within 32 rounds. *)
Definition mask_fuel : nat := 33.

Definition dynamic_gen_pool (net mask : Z) (pool_m : list Z) : option (list Z) :=
  total_address ← count_addresses mask_fuel mask 1;
  Some (pool_m ++ map (fun i => u32 (net + Z.of_nat i)) (rev (seq 1 (Z.to_nat (u32 (total_address - 2)))))).

Definition get_ip (pool_m : list Z) : Z * list Z :=
  match pool_m with [] => (0, []) | addr :: pool_m' => (addr, pool_m') end.

Definition free_ip (pool_m : list Z) (ip : Z) : list Z := pool_m ++ [ip].

Definition GTPV2C_CAUSE_ALL_DYNAMIC_ADDRESSES_OCCUPIED : Z := 84.
Definition GTPV2C_CAUSE_REQUEST_REJECTED : Z := 94.

(** The cause and the address in network order, which is not set on failure. *)
Definition acquire_ip (pool_m : list Z) (ipv4 : Z) : Z * Z * list Z :=
  let '(addr, pool_m) := get_ip pool_m in
  if addr =? 0 then (GTPV2C_CAUSE_ALL_DYNAMIC_ADDRESSES_OCCUPIED, ipv4, pool_m)
  else (0, htonl addr, pool_m).

(** The first conversion is for the log, the second undoes it. *)
Definition release_ip (pool_m : list Z) (ipv4 : Z) : list Z :=
  let ipv4 := htonl ipv4 in
  let ipv4 := htonl ipv4 in
  free_ip pool_m ipv4.
#[global] Arguments release_ip : simpl never.

(** ** The static pool *)

(** [octet] is indexed by a byte, [None] is the NULL pointer.  The printed form of
    the address in a leaf is left out. *)
Inductive ip_table : Type := IpTable { octet : Z -> option ip_table; used : bool }.

Definition empty_table : ip_table := IpTable (fun _ => None) false.

Definition set_octet (t : ip_table) (byte : Z) (s : ip_table) : ip_table :=
  IpTable (fun b => if b =? byte then Some s else octet t b) (used t).

(** [byte = (mask[i] & addr) >> shift[i]] for i = 0..3 *)
Definition octets_of (addr : Z) : list Z :=
  map (fun '(mask, shift) => Z.shiftr (Z.land mask addr) shift)
    [(0xff000000, 24); (0xff0000, 16); (0xff00, 8); (0xff, 0)].

(** The walk down the tree, allocating the nodes that are missing. *)
Fixpoint add_path (t : ip_table) (path : list Z) {struct path} : ip_table :=
  match path with
  | [] => t
  | byte :: path' =>
      let s := default empty_table (octet t byte) in
      set_octet t byte (add_path s path')
  end.

Definition add_ipaddr_in_pool (t : ip_table) (host : Z) : ip_table := add_path t (octets_of host).

(** The walk of [reserve_ip_node] and [release_ip_node]: fails at a NULL pointer,
    else [f] updates the leaf. *)
Fixpoint update_path (f : ip_table -> option ip_table) (t : ip_table) (path : list Z)
    {struct path} : option ip_table :=
  match path with
  | [] => f t
  | byte :: path' =>
      s ← octet t byte;
      s' ← update_path f s path';
      Some (set_octet t byte s')
  end.

Definition static_gen_pool (net mask : Z) : option ip_table :=
  total_address ← count_addresses mask_fuel mask 1;
  Some (foldl (fun t i => add_ipaddr_in_pool t (u32 (net + Z.of_nat i))) empty_table
          (seq 1 (Z.to_nat (u32 (total_address - 1)) - 1))).

(** The argument is [addr_pool_m] of the pool object, [None] when it is NULL (its
    allocation failed).  The object itself is there once the configuration has a
    static pool; without one [getIpPool] gives a NULL object, and the call of the
    wrapper has no defined result. *)
Definition reserve_ip_node (pool : option ip_table) (host : Z) : bool * option ip_table :=
  match pool with
  | None => (false, None)
  | Some t =>
      match update_path (fun s => if used s then None else Some (IpTable (octet s) true)) t (octets_of host) with
      | Some t' => (true, Some t')
      | None => (false, Some t)
      end
  end.

Definition release_ip_node (pool : option ip_table) (host : Z) : bool * option ip_table :=
  match pool with
  | None => (false, None)
  | Some t =>
      match update_path (fun s => if used s then Some (IpTable (octet s) false) else None) t (octets_of host) with
      | Some t' => (true, Some t')
      | None => (false, Some t)
      end
  end.

(** ** The address part of the create session handler *)

Record pools := mk_pools { dynamic_pool : list Z; static_pool : option ip_table }.

(** How the address of a session is obtained: the flags of [pdn_flags]. *)
Inductive addr_method := PDN_ADDR_ALLOC_CONTROL | PDN_ADDR_ALLOC_UPF.

(** [ue_ip] is in network order. *)
Record ue_address := mk_ue_address { ue_ip : Z; static_addr_pdn : bool; addr_upf_alloc : addr_method }.

(** What the handler looks at: the PDN address of the request (network order,
    [is_ipv4] for its type) and two properties of the selected user plane. *)
Record addr_request := mk_addr_request {
  is_ipv4 : bool; paa_ipv4 : Z; upf_feat_ueip : bool; upf_global_address : bool }.

Definition select_ue_address (p : pools) (r : addr_request) : (Z + ue_address) * pools :=
  if r.(is_ipv4) && nz r.(paa_ipv4) then
    let '(found, st) := reserve_ip_node p.(static_pool) (htonl r.(paa_ipv4)) in
    let p := mk_pools p.(dynamic_pool) st in
    if found then (inr (mk_ue_address r.(paa_ipv4) true PDN_ADDR_ALLOC_CONTROL), p)
    else (inl GTPV2C_CAUSE_REQUEST_REJECTED, p)
  else if r.(upf_feat_ueip) then (inr (mk_ue_address 0 false PDN_ADDR_ALLOC_UPF), p)
  else if r.(upf_global_address) then
    let '(ret, ip, dyn) := acquire_ip p.(dynamic_pool) 0 in
    let p := mk_pools dyn p.(static_pool) in
    if nz ret then (inl GTPV2C_CAUSE_ALL_DYNAMIC_ADDRESSES_OCCUPIED, p)
    else (inr (mk_ue_address ip false PDN_ADDR_ALLOC_CONTROL), p)
  else (inr (mk_ue_address 0 false PDN_ADDR_ALLOC_UPF), p).

(** [create_ret] is what [create_ue_context] returned.  On success the result is
    the address stored in the PDN ([pdn->ipv4], host order) with its flags. *)
Definition create_session_address (p : pools) (r : addr_request) (create_ret : Z)
    : (Z + ue_address) * pools :=
  match select_ue_address p r with
  | (inl cause, p) => (inl cause, p)
  | (inr a, p) =>
      if nz create_ret then
        (inl create_ret,
         if a.(static_addr_pdn) then p
         else mk_pools (release_ip p.(dynamic_pool) (htonl a.(ue_ip))) p.(static_pool))
      else (inr (mk_ue_address (htonl a.(ue_ip)) a.(static_addr_pdn) a.(addr_upf_alloc)), p)
  end.

(** The release of the address when the PDN connection ends. *)
Definition release_session_address (p : pools) (a : ue_address) : pools :=
  if a.(static_addr_pdn) then
    mk_pools p.(dynamic_pool) (snd (release_ip_node p.(static_pool) a.(ue_ip)))
  else
    match a.(addr_upf_alloc) with
    | PDN_ADDR_ALLOC_CONTROL => mk_pools (release_ip p.(dynamic_pool) a.(ue_ip)) p.(static_pool)
    | PDN_ADDR_ALLOC_UPF => p
    end.

(** The end of [delete_context], which the detach procedure calls for a delete
    session request before it asks the user plane to delete the session: a static
    address is released here, and once more when the connection ends. *)
Definition delete_context_address (p : pools) (a : ue_address) : pools :=
  if a.(static_addr_pdn) then
    mk_pools p.(dynamic_pool) (snd (release_ip_node p.(static_pool) a.(ue_ip)))
  else p.

(** ** Byte order lemmas *)

Lemma bytes_ok_rev l : bytes_ok l -> bytes_ok (rev l).
Proof. intros H. by apply Forall_rev. Qed.

Lemma htonl_involutive v : 0 <= v < 2 ^ 32 -> htonl (htonl v) = v.
Proof.
  intros Hv. unfold htonl.
  assert (le_bytes 4 (of_le_bytes (rev (le_bytes 4 v))) = rev (le_bytes 4 v)) as ->.
  { apply (le_of_le_bytes (rev (le_bytes 4 v))), bytes_ok_rev, bytes_ok_le_bytes. }
  rewrite rev_involutive, of_le_le_bytes. by apply Z.mod_small.
Qed.

Lemma htonl_range v : 0 <= htonl v < 2 ^ 32.
Proof.
  unfold htonl. apply (of_le_bytes_range (rev (le_bytes 4 v))), bytes_ok_rev, bytes_ok_le_bytes.
Qed.

Lemma release_ip_spec pool ip : 0 <= ip < 2 ^ 32 -> release_ip pool ip = pool ++ [ip].
Proof. intros H. unfold release_ip, free_ip. by rewrite htonl_involutive. Qed.

(** ** The loop over the mask *)

Lemma count_addresses_spec fuel k m t :
  Z.odd m = true -> 0 <= m -> (k < fuel)%nat -> 0 <= t -> t * 2 ^ Z.of_nat k < 2 ^ 32 ->
  count_addresses fuel (m * 2 ^ Z.of_nat k) t = Some (t * 2 ^ Z.of_nat k).
Proof.
  intros Hodd Hm. revert fuel t; induction k as [|k IH]; intros [|fuel] t Hf Ht Hlt; try lia.
  - cbn [count_addresses]. change (Z.of_nat 0) with 0. rewrite !Z.mul_1_r.
    change 1 with (Z.ones 1) at 1. rewrite Z.land_ones by lia. change (2 ^ 1) with 2.
    rewrite <- Z.bit0_mod, Z.bit0_odd, Hodd. done.
  - cbn [count_addresses]. rewrite Nat2Z.inj_succ, Z.pow_succ_r in * by lia.
    replace (m * (2 * 2 ^ Z.of_nat k)) with (m * 2 ^ Z.of_nat k * 2) by ring.
    change 1 with (Z.ones 1) at 1. rewrite Z.land_ones by lia. change (2 ^ 1) with 2.
    rewrite Z_mod_mult. cbn [Z.eqb].
    rewrite Z.shiftr_div_pow2, Z.shiftl_mul_pow2 by lia. change (2 ^ 1) with 2.
    rewrite Z.div_mul by lia. pose proof (Z.pow_pos_nonneg 2 (Z.of_nat k)).
    rewrite uwrap_small by nia. rewrite IH by nia. f_equal. ring.
Qed.

(** The zero mask is never left. *)
Lemma count_addresses_zero fuel t : count_addresses fuel 0 t = None.
Proof. revert t; induction fuel as [|fuel IH]; intros t; [done|]. cbn [count_addresses]. apply IH. Qed.

(** A mask of [32 - k] leading ones, with [k] host bits. *)
Definition prefix_mask (k : nat) : Z := 2 ^ 32 - 2 ^ Z.of_nat k.

Lemma prefix_mask_odd k : (k < 32)%nat ->
  prefix_mask k = (2 ^ (32 - Z.of_nat k) - 1) * 2 ^ Z.of_nat k ∧
  Z.odd (2 ^ (32 - Z.of_nat k) - 1) = true ∧ 0 <= 2 ^ (32 - Z.of_nat k) - 1.
Proof.
  intros Hk. assert (2 ^ 32 = 2 ^ (32 - Z.of_nat k) * 2 ^ Z.of_nat k) as E
    by (rewrite <- Z.pow_add_r by lia; f_equal; lia).
  pose proof (Z.pow_pos_nonneg 2 (32 - Z.of_nat k)).
  split; [unfold prefix_mask; rewrite E; ring|]. split; [|lia].
  rewrite Z.odd_sub, Z.odd_pow by lia. done.
Qed.

Lemma dynamic_gen_pool_eq net k : (2 <= k < 32)%nat ->
  dynamic_gen_pool net (prefix_mask k) []
  = Some (map (fun i => u32 (net + Z.of_nat i)) (rev (seq 1 (Nat.pow 2 k - 2)))).
Proof.
  intros Hk. destruct (prefix_mask_odd k) as (E & Ho & Hp); [lia|]. unfold dynamic_gen_pool.
  assert (2 ^ Z.of_nat k < 2 ^ 32) by (apply Z.pow_lt_mono_r; lia).
  assert (2 ^ 2 <= 2 ^ Z.of_nat k) by (apply Z.pow_le_mono_r; lia).
  rewrite E, count_addresses_spec by (auto; unfold mask_fuel; lia). cbn [mbind option_bind app].
  rewrite uwrap_small by lia. do 4 f_equal.
  rewrite Z.mul_1_l, Z2Nat.inj_sub, Z2Nat.inj_pow, Nat2Z.id by lia. done.
Qed.

Lemma u32_add_inj net i j :
  0 <= i < 2 ^ 32 -> 0 <= j < 2 ^ 32 -> u32 (net + i) = u32 (net + j) -> i = j.
Proof.
  intros Hi Hj E. unfold uwrap in E.
  assert ((net + i - net) mod 2 ^ 32 = (net + j - net) mod 2 ^ 32) as E'
    by (rewrite <- (Zminus_mod_idemp_l (net + i)), <- (Zminus_mod_idemp_l (net + j)), E; done).
  replace (net + i - net) with i in E' by lia. replace (net + j - net) with j in E' by lia.
  by rewrite !Z.mod_small in E'.
Qed.

Lemma gen_pool_nodup net k n : (k < 32)%nat -> (n <= Nat.pow 2 k)%nat ->
  NoDup (map (fun i => u32 (net + Z.of_nat i)) (rev (seq 1 n))).
Proof.
  intros Hk Hn. assert (Z.of_nat n < 2 ^ 32).
  { assert (Z.of_nat n <= 2 ^ Z.of_nat k) by (change 2 with (Z.of_nat 2); rewrite <- Nat2Z.inj_pow; lia).
    assert (2 ^ Z.of_nat k < 2 ^ 32) by (apply Z.pow_lt_mono_r; lia). lia. }
  apply NoDup_fmap_2_strong.
  - intros i j Hi Hj E. apply list_elem_of_In, in_rev, in_seq in Hi. apply list_elem_of_In, in_rev, in_seq in Hj.
    apply u32_add_inj in E; lia.
  - apply NoDup_ListNoDup, List.NoDup_rev, List.seq_NoDup.
Qed.

(** ** The static tree as a map from addresses to flags *)

(** The node at the end of a path. *)
Fixpoint sub (t : ip_table) (path : list Z) {struct path} : option ip_table :=
  match path with [] => Some t | b :: path' => s ← octet t b; sub s path' end.

(** The flag of a host of the pool, [None] for an address outside it. *)
Definition leaf_flag (pool : option ip_table) (host : Z) : option bool :=
  t ← pool; s ← sub t (octets_of host); Some (used s).

Lemma octets_of_bytes a : octets_of a = rev (le_bytes 4 a).
Proof.
  unfold octets_of. cbn [map le_bytes rev app]. rewrite !Z.shiftr_land.
  rewrite !Z.div_div by lia.
  assert (∀ x, Z.land 255 x = u8 x) as E.
  { intros x. rewrite Z.land_comm. change 255 with (Z.ones 8). by apply Z.land_ones. }
  change (Z.shiftr 4278190080 24) with 255. change (Z.shiftr 16711680 16) with 255.
  change (Z.shiftr 65280 8) with 255. change (Z.shiftr 255 0) with 255.
  rewrite !E, !Z.shiftr_div_pow2 by lia. change (2 ^ 0) with 1. by rewrite Z.div_1_r.
Qed.

Lemma octets_of_inj a b : 0 <= a < 2 ^ 32 -> 0 <= b < 2 ^ 32 -> octets_of a = octets_of b -> a = b.
Proof.
  rewrite !octets_of_bytes. intros Ha Hb E. apply (f_equal (fun l => of_le_bytes (rev l))) in E.
  rewrite !rev_involutive, !of_le_le_bytes, !Z.mod_small in E; done.
Qed.

Lemma length_octets_of a : length (octets_of a) = 4%nat.
Proof. done. Qed.

Lemma sub_set_octet t b s b' path :
  sub (set_octet t b s) (b' :: path) = if b' =? b then sub s path else sub t (b' :: path).
Proof. cbn [sub]. unfold set_octet. cbn [octet]. by destruct (b' =? b). Qed.

(** What an update of a leaf does to the tree. *)
Lemma update_path_Some f t path t' :
  update_path f t path = Some t' ->
  ∃ s s', sub t path = Some s ∧ f s = Some s' ∧ sub t' path = Some s' ∧
    ∀ p, length p = length path -> p ≠ path -> sub t' p = sub t p.
Proof.
  revert t t'; induction path as [|b path IH]; intros t t' H; cbn [update_path] in H.
  { exists t, t'. split_and!; auto. intros [|]; done. }
  destruct (octet t b) as [s|] eqn:Hs; [|done]. cbn [mbind option_bind] in H.
  destruct (update_path f s path) as [s'|] eqn:Hu; [|done]. cbn [mbind option_bind] in H. simplify_eq.
  destruct (IH _ _ Hu) as (x & x' & H1 & H2 & H3 & H4). exists x, x'. split_and!; auto.
  { cbn [sub]. by rewrite Hs. } { rewrite sub_set_octet, Z.eqb_refl. done. }
  intros [|b' p] Hl Hne; [done|]. rewrite sub_set_octet. destruct (Z.eqb_spec b' b) as [->|]; [|done].
  cbn [sub]. rewrite Hs. cbn [mbind option_bind]. apply H4; [by simplify_eq/=|congruence].
Qed.

Lemma update_path_None f t path :
  update_path f t path = None -> sub t path = None ∨ ∃ s, sub t path = Some s ∧ f s = None.
Proof.
  revert t; induction path as [|b path IH]; intros t H; cbn [update_path sub] in *; [eauto|].
  destruct (octet t b) as [s|]; [|by left]. cbn [mbind option_bind] in *.
  destruct (update_path f s path) eqn:Hu; [done|]. by apply IH.
Qed.

(** The two operations on the static pool, seen through the flags: the flag of
    [host] is turned from [b] to [negb b], or nothing happens. *)
Definition flips (b : bool) (pool : option ip_table) (host : Z) (r : bool * option ip_table) : Prop :=
  (leaf_flag pool host = Some b ∧ fst r = true ∧
   ∀ h, 0 <= h < 2 ^ 32 ->
     leaf_flag (snd r) h = if h =? host then Some (negb b) else leaf_flag pool h) ∨
  (leaf_flag pool host ≠ Some b ∧ r = (false, pool)).

Lemma update_flips b f t host :
  0 <= host < 2 ^ 32 ->
  (∀ s, f s = if eqb (used s) b then Some (IpTable (octet s) (negb b)) else None) ->
  flips b (Some t) host
    (match update_path f t (octets_of host) with Some t' => (true, Some t') | None => (false, Some t) end).
Proof.
  intros Hh Hf. unfold flips, leaf_flag. cbn [mbind option_bind].
  destruct (update_path f t (octets_of host)) as [t'|] eqn:Hu.
  - left. apply update_path_Some in Hu as (s & s' & H1 & H2 & H3 & H4). rewrite Hf in H2.
    destruct (eqb (used s) b) eqn:Hb; [|done]. apply eqb_prop in Hb. simplify_eq.
    split; [by rewrite H1|]. split; [done|]. intros h Hr. cbn [snd mbind option_bind].
    destruct (Z.eqb_spec h host) as [->|Hne]; [by rewrite H3|].
    rewrite H4; [done|done|]. intros E. by apply octets_of_inj in E.
  - right. split; [|done]. apply update_path_None in Hu as [H|(s & H & Hn)]; rewrite H; cbn; [done|].
    rewrite Hf in Hn. destruct (eqb (used s) b) eqn:Hb; [done|]. apply eqb_false_iff in Hb. congruence.
Qed.

Lemma reserve_flips pool host : 0 <= host < 2 ^ 32 -> flips false pool host (reserve_ip_node pool host).
Proof.
  intros Hh. destruct pool as [t|]; [|right; done]. apply update_flips; [done|].
  intros s. by destruct (used s).
Qed.

Lemma release_flips pool host : 0 <= host < 2 ^ 32 -> flips true pool host (release_ip_node pool host).
Proof.
  intros Hh. destruct pool as [t|]; [|right; done]. apply update_flips; [done|].
  intros s. by destruct (used s).
Qed.

(** ** The pools as the sessions use them *)


(** A request with a 32-bit address that is accepted, or refused by the address
    selection, a request to delete a session (when [deletes] allows them), which
    stays until its end, and the end of a session. *)
Inductive pool_step (deletes : Prop) : pools * list ue_address -> pools * list ue_address -> Prop :=
| step_accept p ss r a p' :
    0 <= r.(paa_ipv4) < 2 ^ 32 -> create_session_address p r 0 = (inr a, p') ->
    pool_step deletes (p, ss) (p', a :: ss)
| step_refuse p ss r cause p' :
    0 <= r.(paa_ipv4) < 2 ^ 32 -> create_session_address p r 0 = (inl cause, p') ->
    pool_step deletes (p, ss) (p', ss)
| step_delete p ss a :
    deletes -> a ∈ ss -> pool_step deletes (p, ss) (delete_context_address p a, ss)
| step_end p ss1 a ss2 :
    pool_step deletes (p, ss1 ++ a :: ss2) (release_session_address p a, ss1 ++ ss2).














(** ** Properties *)






(** A small static pool, and a session that holds its address 3. *)
Definition example_static : option ip_table := static_gen_pool 0x0a000000 0xfffffff8.
Definition example_session : ue_address := mk_ue_address 0x0a000003 true PDN_ADDR_ALLOC_CONTROL.


(** A request for a free static address of the pool is accepted. *)
Lemma static_accepted (d : Prop) dyn st ss h :
  0 < h < 2 ^ 32 -> leaf_flag st h = Some false ->
  ∃ st', pool_step d (mk_pools dyn st, ss) (mk_pools dyn st', mk_ue_address h true PDN_ADDR_ALLOC_CONTROL :: ss) ∧
    leaf_flag st' h = Some true.
Proof.
  intros Hh Hf. destruct (reserve_flips st h ltac:(lia)) as [(_ & Ht & Hl)|[Hno _]]; [|done].
  destruct (reserve_ip_node st h) as [b st'] eqn:E. cbn [fst snd negb] in Ht, Hl. subst b. exists st'. split.
  - apply (step_accept _ _ _ (mk_addr_request true (htonl h) false true)); [apply htonl_range|].
    unfold create_session_address, select_ue_address. cbn [is_ipv4 paa_ipv4 andb].
    assert (nz (htonl h) = true) as ->.
    { unfold nz. destruct (Z.eqb_spec (htonl h) 0) as [E0|]; [|done].
      apply (f_equal htonl) in E0. rewrite htonl_involutive in E0 by lia. change (htonl 0) with 0 in E0. lia. }
    cbn [static_pool dynamic_pool]. rewrite htonl_involutive, E by lia. cbn. by rewrite htonl_involutive by lia.
  - rewrite Hl by lia. by rewrite Z.eqb_refl.
Qed.

(** C23: The delete session request releases a static address while its session still
    has it: a second session then gets the same address.  When the first session
    ends, the address is released once more, now under the second session, which
    keeps it: the pool would give it to a third one. *)
Theorem static_address_shared dyn st h :
  0 < h < 2 ^ 32 -> leaf_flag st h = Some false ->
  let a := mk_ue_address h true PDN_ADDR_ALLOC_CONTROL in
  ∃ p p', rtc (pool_step True) (mk_pools dyn st, []) (p, [a; a]) ∧
    pool_step True (p, [a; a]) (p', [a]) ∧ leaf_flag (static_pool p') h = Some false.
Proof.
  intros Hh Hf a. destruct (static_accepted True dyn st [] h Hh Hf) as (st1 & S1 & F1).
  assert (∀ t, leaf_flag t h = Some true -> leaf_flag (snd (release_ip_node t h)) h = Some false) as Rel.
  { intros t Ht. destruct (release_flips t h ltac:(lia)) as [(_ & _ & Hl)|[Hno _]]; [|done].
    rewrite Hl by lia. by rewrite Z.eqb_refl. }
  destruct (static_accepted True dyn (snd (release_ip_node st1 h)) [a] h Hh (Rel _ F1)) as (st2 & S2 & F2).
  exists (mk_pools dyn st2), (mk_pools dyn (snd (release_ip_node st2 h))). split_and!.
  - eapply rtc_l; [exact S1|]. eapply rtc_l; [|apply rtc_once, S2].
    apply (step_delete True (mk_pools dyn st1) [a] a I). apply elem_of_cons. by left.
  - apply (step_end True (mk_pools dyn st2) [] a [a]).
  - by apply Rel.
Qed.

Lemma static_address_shared_witness :
  ∃ p p', rtc (pool_step True) (mk_pools [] example_static, []) (p, [example_session; example_session]) ∧
    pool_step True (p, [example_session; example_session]) (p', [example_session]) ∧
    leaf_flag (static_pool p') 0x0a000003 = Some false.
Proof. apply (static_address_shared [] example_static 0x0a000003); [lia|reflexivity]. Defined.

(** A pool of [2^k] addresses (a mask with [k] host bits, 2 to 31) holds each
    address of the network once, except the first and the last; the loop over
    the mask ends.  With the zero mask it does not end. *)
Theorem gen_pool_contents net k :
  (2 <= k < 32)%nat ->
  (∃ pool, dynamic_gen_pool net (prefix_mask k) [] = Some pool ∧ NoDup pool ∧
    Z.of_nat (length pool) = 2 ^ Z.of_nat k - 2 ∧
    ∀ a, a ∈ pool ↔ ∃ i, 1 <= i <= 2 ^ Z.of_nat k - 2 ∧ a = u32 (net + i)) ∧
  ∀ fuel, count_addresses fuel 0 1 = None.
Proof.
  intros Hk. split; [|intros; apply count_addresses_zero]. eexists. split; [by apply dynamic_gen_pool_eq|].
  assert (Z.of_nat (Nat.pow 2 k) = 2 ^ Z.of_nat k) as E by (by rewrite Nat2Z.inj_pow).
  assert (2 ^ 2 <= 2 ^ Z.of_nat k) by (apply Z.pow_le_mono_r; lia).
  split; [apply (gen_pool_nodup _ k); lia|]. rewrite length_map, length_rev, length_seq. split; [lia|].
  intros a. rewrite list_elem_of_In, in_map_iff. split.
  - intros (i & <- & Hi). apply in_rev, in_seq in Hi. exists (Z.of_nat i). lia.
  - intros (i & Hi & ->). exists (Z.to_nat i). rewrite Z2Nat.id by lia. split; [done|].
    rewrite <- in_rev, in_seq. lia.
Qed.

Lemma gen_pool_contents_witness :
  (∃ pool, dynamic_gen_pool 0x0afa0000 (prefix_mask 16) [] = Some pool ∧ NoDup pool ∧
    Z.of_nat (length pool) = 2 ^ Z.of_nat 16 - 2 ∧
    ∀ a, a ∈ pool ↔ ∃ i, 1 <= i <= 2 ^ Z.of_nat 16 - 2 ∧ a = u32 (0x0afa0000 + i)) ∧
  ∀ fuel, count_addresses fuel 0 1 = None.
Proof. apply (gen_pool_contents 0x0afa0000 16). lia. Defined.

(** A rejected create session request gives back the address it had taken
    from the dynamic pool, but (a) when the user plane assigns addresses it puts
    the address 0 into the pool, which the next requests take for an exhausted
    pool, and (b) it leaves a static address reserved. *)
Theorem rejected_request_addresses dyn st r cause :
  nz cause = true -> 0 <= r.(paa_ipv4) < 2 ^ 32 ->
  let p := mk_pools dyn st in
  let p' := snd (create_session_address p r cause) in
  (is_ipv4 r = false -> upf_feat_ueip r = false -> upf_global_address r = true ->
   ∀ a rest, dyn = a :: rest -> 0 < a < 2 ^ 32 -> p' = mk_pools (rest ++ [a]) st) ∧
  (is_ipv4 r = false -> upf_feat_ueip r = true -> p' = mk_pools (dyn ++ [0]) st) ∧
  (is_ipv4 r = true -> nz r.(paa_ipv4) = true -> leaf_flag st (htonl r.(paa_ipv4)) = Some false ->
   leaf_flag (static_pool p') (htonl r.(paa_ipv4)) = Some true) ∧
  acquire_ip (0 :: dyn) 0 = (GTPV2C_CAUSE_ALL_DYNAMIC_ADDRESSES_OCCUPIED, 0, dyn).
Proof.
  intros Hc Hr p p'. subst p p'. unfold create_session_address, select_ue_address. split_and!; [..|done].
  - intros -> -> ->. intros a rest -> Ha. cbn. unfold acquire_ip, get_ip. zcases.
    cbn. rewrite Hc. cbn. by rewrite htonl_involutive, release_ip_spec by lia.
  - intros -> ->. cbn. rewrite Hc. cbn. change (htonl 0) with 0. by rewrite release_ip_spec.
  - intros -> Hp Hf. rewrite Hp. cbn.
    destruct (reserve_flips st (htonl (paa_ipv4 r)) (htonl_range _)) as [(_ & Ht & Hl)|[Hno _]]; [|done].
    destruct (reserve_ip_node st (htonl (paa_ipv4 r))) as [[] st'] eqn:E; [|done]. cbn in *. rewrite Hc. cbn.
    rewrite Hl by apply htonl_range. by rewrite Z.eqb_refl.
Qed.

Lemma rejected_request_addresses_witness :
  snd (create_session_address (mk_pools [10; 11] None) (mk_addr_request false 0 true false) 94)
  = mk_pools [10; 11; 0] None.
Proof.
  refine (proj1 (proj2 (rejected_request_addresses [10; 11] None (mk_addr_request false 0 true false) 94 _ _)) _ _);
    cbn; try lia; reflexivity.
Defined.

(** C38: The static pool refines a map from addresses to used flags: a
    reservation succeeds exactly for an unused address of the pool and marks it,
    a release succeeds exactly for a used one and clears it, and no other address
    changes. *)
Theorem static_pool_refines pool host h :
  0 <= host < 2 ^ 32 -> 0 <= h < 2 ^ 32 ->
  (fst (reserve_ip_node pool host) = true <-> leaf_flag pool host = Some false) ∧
  (fst (release_ip_node pool host) = true <-> leaf_flag pool host = Some true) ∧
  leaf_flag (snd (reserve_ip_node pool host)) h =
    (if (h =? host) && fst (reserve_ip_node pool host) then Some true else leaf_flag pool h) ∧
  leaf_flag (snd (release_ip_node pool host)) h =
    (if (h =? host) && fst (release_ip_node pool host) then Some false else leaf_flag pool h).
Proof.
  intros Hhost Hh.
  destruct (reserve_flips pool host Hhost) as [(A & B & C)|(A & B)];
  destruct (release_flips pool host Hhost) as [(A' & B' & C')|(A' & B')]; try congruence;
    rewrite ?B, ?B', ?C, ?C' by done; cbn [fst snd]; rewrite ?andb_true_r, ?andb_false_r;
    (split_and!; [..|done|done]; split; congruence).
Qed.

Lemma static_pool_refines_witness :
  (fst (reserve_ip_node (static_gen_pool 0x0a000000 0xfffffff8) 0x0a000003) = true <->
   leaf_flag (static_gen_pool 0x0a000000 0xfffffff8) 0x0a000003 = Some false) ∧
  (fst (release_ip_node (static_gen_pool 0x0a000000 0xfffffff8) 0x0a000003) = true <->
   leaf_flag (static_gen_pool 0x0a000000 0xfffffff8) 0x0a000003 = Some true) ∧
  leaf_flag (snd (reserve_ip_node (static_gen_pool 0x0a000000 0xfffffff8) 0x0a000003)) 0x0a000003 = Some true ∧
  leaf_flag (snd (release_ip_node (static_gen_pool 0x0a000000 0xfffffff8) 0x0a000003)) 0x0a000003 = Some false.
Proof.
  apply (static_pool_refines (static_gen_pool 0x0a000000 0xfffffff8) 0x0a000003 0x0a000003); lia.
Defined.
