(* ===== verification/Peer.v ===== *)
(** * Path management of the peers (src/cp/cp_peer.c)

    Every node the control plane talks to has an entry with two timers: the
    periodic timer [pt] starts an echo (or PFCP heartbeat) request when the peer
    was silent, the transmit timer [tt] repeats it, and after [itr] repetitions
    without an answer the peer is given up.  An expired timer queues an event,
    which the main loop handles later; [ti], the pointer to the timer in the
    event, is the entry's identity and the timer's name, so that an event for an
    entry that was deleted in between names no timer of a new entry. *)

From stdpp Require Import gmap relations.
From S2P Require Import Prelude.

(** ** Data *)

Definition S11_SGW_PORT_ID : Z := 0.
Definition S5S8_SGWC_PORT_ID : Z := 1.
Definition SX_PORT_ID : Z := 2.
Definition S5S8_PGWC_PORT_ID : Z := 3.

Inductive timer_name := Pt | Tt.
#[global] Instance timer_name_eq_dec : EqDecision timer_name.
Proof. solve_decision. Defined.

(** [md_id] is the identity of the allocation; [pt_on] and [tt_on] say whether
    the timers run.  The members the code never reads are left out. *)
Record peerData_t := mk_peer {
  md_id : nat;
  portId : Z;
  itr : Z;
  itr_cnt : Z;
  dstIP : Z;
  pt_on : bool;
  tt_on : bool;
}.

Record peer_data := mk_event { ti : nat * timer_name; dest_addr : Z }.

(** What the handlers make visible outside. *)
Inductive peer_action :=
| EchoRequest (port addr seq : Z)
| Heartbeat (addr seq : Z)
| UpfDown (addr : Z).

Record peer_state := mk_peers {
  peer_table : gmap Z peerData_t;
  next_id : nat;
  events : list peer_data;
  conn_cnt : Z;
  gtpc_mme_seqnb : Z;
  gtpc_sgwc_seqnb : Z;
  gtpc_pgwc_seqnb : Z;
  pfcp_seqnb : Z;
  pfcp_seq_no_offset : Z;
  actions : list peer_action;
}.

(** ** Operations *)

Definition set_timers (md : peerData_t) (pt tt : bool) : peerData_t :=
  mk_peer md.(md_id) md.(portId) md.(itr) md.(itr_cnt) md.(dstIP) pt tt.
Definition set_itr_cnt (md : peerData_t) (n : Z) : peerData_t :=
  mk_peer md.(md_id) md.(portId) md.(itr) n md.(dstIP) md.(pt_on) md.(tt_on).
Definition set_table (s : peer_state) (t : gmap Z peerData_t) : peer_state :=
  mk_peers t s.(next_id) s.(events) s.(conn_cnt) s.(gtpc_mme_seqnb) s.(gtpc_sgwc_seqnb)
    s.(gtpc_pgwc_seqnb) s.(pfcp_seqnb) s.(pfcp_seq_no_offset) s.(actions).
Definition add_action (s : peer_state) (a : peer_action) : peer_state :=
  mk_peers s.(peer_table) s.(next_id) s.(events) s.(conn_cnt) s.(gtpc_mme_seqnb) s.(gtpc_sgwc_seqnb)
    s.(gtpc_pgwc_seqnb) s.(pfcp_seqnb) s.(pfcp_seq_no_offset) (s.(actions) ++ [a]).

(** [timerCallback]: the callback of both timers, on the timer thread. *)
Definition timerCallback (s : peer_state) (md : peerData_t) (t : timer_name) : peer_state :=
  mk_peers s.(peer_table) s.(next_id) (s.(events) ++ [mk_event (md.(md_id), t) md.(dstIP)])
    s.(conn_cnt) s.(gtpc_mme_seqnb) s.(gtpc_sgwc_seqnb)
    s.(gtpc_pgwc_seqnb) s.(pfcp_seqnb) s.(pfcp_seq_no_offset) s.(actions).

(** The request of one round: a new sequence number when the periodic timer has
    expired, the last one again for a repetition.  The PFCP number comes from the
    generator of the PFCP messages and is cut to 16 bits by [pfcp_seqnb]. *)
Definition send_request (s : peer_state) (md : peerData_t) (is_pt : bool) (addr : Z) : peer_state :=
  if md.(portId) =? S11_SGW_PORT_ID then
    let n := if is_pt then u16 (s.(gtpc_mme_seqnb) + 1) else s.(gtpc_mme_seqnb) in
    add_action
      (mk_peers s.(peer_table) s.(next_id) s.(events) s.(conn_cnt) n s.(gtpc_sgwc_seqnb)
         s.(gtpc_pgwc_seqnb) s.(pfcp_seqnb) s.(pfcp_seq_no_offset) s.(actions))
      (EchoRequest S11_SGW_PORT_ID addr n)
  else if md.(portId) =? S5S8_SGWC_PORT_ID then
    let n := if is_pt then u16 (s.(gtpc_sgwc_seqnb) + 1) else s.(gtpc_sgwc_seqnb) in
    add_action
      (mk_peers s.(peer_table) s.(next_id) s.(events) s.(conn_cnt) s.(gtpc_mme_seqnb) n
         s.(gtpc_pgwc_seqnb) s.(pfcp_seqnb) s.(pfcp_seq_no_offset) s.(actions))
      (EchoRequest S5S8_SGWC_PORT_ID addr n)
  else if md.(portId) =? S5S8_PGWC_PORT_ID then
    let n := if is_pt then u16 (s.(gtpc_pgwc_seqnb) + 1) else s.(gtpc_pgwc_seqnb) in
    add_action
      (mk_peers s.(peer_table) s.(next_id) s.(events) s.(conn_cnt) s.(gtpc_mme_seqnb)
         s.(gtpc_sgwc_seqnb) n s.(pfcp_seqnb) s.(pfcp_seq_no_offset) s.(actions))
      (EchoRequest S5S8_PGWC_PORT_ID addr n)
  else if md.(portId) =? SX_PORT_ID then
    let offset := if is_pt then u32 (s.(pfcp_seq_no_offset) + 1) else s.(pfcp_seq_no_offset) in
    let n := if is_pt then u16 offset else s.(pfcp_seqnb) in
    add_action
      (mk_peers s.(peer_table) s.(next_id) s.(events) s.(conn_cnt) s.(gtpc_mme_seqnb)
         s.(gtpc_sgwc_seqnb) s.(gtpc_pgwc_seqnb) n offset s.(actions))
      (Heartbeat addr n)
  else s.

Definition known_port (p : Z) : bool :=
  (p =? S11_SGW_PORT_ID) || (p =? S5S8_SGWC_PORT_ID) || (p =? S5S8_PGWC_PORT_ID) || (p =? SX_PORT_ID).

(** [handle_timeout_event]; [ok] is what [timer_settime] says of the start of
    the transmit timer. *)
Definition handle_timeout_event (ok : bool) (s : peer_state) (e : peer_data) : peer_state :=
  match s.(peer_table) !! e.(dest_addr) with
  | None => s
  | Some md =>
      let is_pt := bool_decide (e.(ti) = (md.(md_id), Pt)) in
      let is_tt := bool_decide (e.(ti) = (md.(md_id), Tt)) in
      if md.(itr_cnt) =? md.(itr) then
        let s := if md.(portId) =? SX_PORT_ID then add_action s (UpfDown e.(dest_addr)) else s in
        set_table s (delete md.(dstIP) s.(peer_table))
      else
        let s := send_request s md is_pt e.(dest_addr) in
        let md := if is_tt && known_port md.(portId) then set_itr_cnt md (u8 (md.(itr_cnt) + 1)) else md in
        let md := if is_pt then set_timers md false (ok || md.(tt_on)) else md in
        set_table s (<[e.(dest_addr) := md]> s.(peer_table))
  end.

(** The main loop takes the first event. *)
Definition next_event (ok : bool) (s : peer_state) : option peer_state :=
  match s.(events) with
  | [] => None
  | e :: rest =>
      Some (handle_timeout_event ok
              (mk_peers s.(peer_table) s.(next_id) rest s.(conn_cnt) s.(gtpc_mme_seqnb) s.(gtpc_sgwc_seqnb)
                 s.(gtpc_pgwc_seqnb) s.(pfcp_seqnb) s.(pfcp_seq_no_offset) s.(actions)) e)
  end.

Definition add_node_conn_entry (transmit_cnt : Z) (ok : bool) (s : peer_state) (ip port : Z) : peer_state :=
  match s.(peer_table) !! ip with
  | None =>
      let md := mk_peer s.(next_id) port (u8 transmit_cnt) 0 ip ok false in
      mk_peers (<[ip := md]> s.(peer_table)) (S s.(next_id)) s.(events) (s.(conn_cnt) + 1)
        s.(gtpc_mme_seqnb) s.(gtpc_sgwc_seqnb) s.(gtpc_pgwc_seqnb) s.(pfcp_seqnb) s.(pfcp_seq_no_offset)
        s.(actions)
  | Some md => set_table s (<[ip := set_timers md (ok || md.(pt_on)) md.(tt_on)]> s.(peer_table))
  end.

Definition process_response (ok : bool) (s : peer_state) (ip : Z) : peer_state :=
  match s.(peer_table) !! ip with
  | None => s
  | Some md => set_table s (<[ip := set_timers (set_itr_cnt md 0) ok false]> s.(peer_table))
  end.

(** ** The component as a step relation *)

Definition timer_on (md : peerData_t) (t : timer_name) : bool :=
  match t with Pt => md.(pt_on) | Tt => md.(tt_on) end.

Inductive peer_step (transmit_cnt : Z) : peer_state -> peer_state -> Prop :=
| peer_expire s ip md t :
    s.(peer_table) !! ip = Some md -> timer_on md t = true ->
    peer_step transmit_cnt s (timerCallback s md t)
| peer_event ok s s' : next_event ok s = Some s' -> peer_step transmit_cnt s s'
| peer_add ok s ip port : peer_step transmit_cnt s (add_node_conn_entry transmit_cnt ok s ip port)
| peer_response ok s ip : peer_step transmit_cnt s (process_response ok s ip).

(** An entry is found under its own address and its counter is in range. *)
Definition peer_ok (next : nat) (ip : Z) (md : peerData_t) : Prop :=
  md.(dstIP) = ip ∧ 0 <= md.(itr_cnt) <= md.(itr) ∧ md.(itr) < 256 ∧ (md.(md_id) < next)%nat.

Definition peers_ok (s : peer_state) : Prop :=
  map_Forall (peer_ok s.(next_id)) s.(peer_table).

(** The sends do not touch the table. *)
Lemma send_request_table s md is_pt a :
  peer_table (send_request s md is_pt a) = peer_table s ∧ next_id (send_request s md is_pt a) = next_id s ∧
  events (send_request s md is_pt a) = events s.
Proof. unfold send_request. by repeat case_match. Qed.

Lemma peer_ok_count n ip md : peer_ok n ip md -> (md.(itr_cnt) =? md.(itr)) = false ->
  u8 (md.(itr_cnt) + 1) = md.(itr_cnt) + 1 ∧ peer_ok n ip (set_itr_cnt md (md.(itr_cnt) + 1)).
Proof.
  intros (H1 & H2 & H3 & H4) Hne%Z.eqb_neq. split; [apply uwrap_small; lia|].
  unfold peer_ok, set_itr_cnt; cbn. lia.
Qed.

Lemma handle_timeout_ok ok s e : peers_ok s -> peers_ok (handle_timeout_event ok s e).
Proof.
  intros H. unfold handle_timeout_event. destruct (peer_table s !! dest_addr e) as [md|] eqn:E; [|done].
  pose proof (H _ _ E) as Hmd. destruct (itr_cnt md =? itr md) eqn:Ec.
  - unfold peers_ok. assert (next_id (if portId md =? SX_PORT_ID then add_action s (UpfDown (dest_addr e)) else s) = next_id s
      ∧ peer_table (if portId md =? SX_PORT_ID then add_action s (UpfDown (dest_addr e)) else s) = peer_table s)
      as [E1 E2] by (by case_match). cbn. rewrite E1, E2. by apply map_Forall_delete.
  - destruct (send_request_table s md (bool_decide (ti e = (md_id md, Pt))) (dest_addr e)) as (Et & En & _).
    destruct (peer_ok_count _ _ _ Hmd Ec) as [Ew Hc]. unfold peers_ok. cbn. rewrite Et, En, Ew.
    apply map_Forall_insert_2; [|done]. destruct (_ && _), (bool_decide (ti e = (md_id md, Pt))); exact Hc || exact Hmd.
Qed.

Lemma peer_step_ok n s s' : peer_step n s s' -> peers_ok s -> peers_ok s'.
Proof.
  intros Hs H. destruct Hs as [s ip md t E Ht|ok s s' E|ok s ip port|ok s ip].
  - exact H.
  - unfold next_event in E. destruct (events s) as [|e rest]; [done|]. simplify_eq.
    by apply handle_timeout_ok.
  - unfold add_node_conn_entry, peers_ok. destruct (peer_table s !! ip) as [md|] eqn:E; cbn.
    + apply map_Forall_insert_2; [exact (H _ _ E)|exact H].
    + apply map_Forall_insert_2.
      * pose proof (uwrap_range 8 n ltac:(lia)). unfold peer_ok; cbn. lia.
      * intros i x Hx. destruct (H _ _ Hx) as (? & ? & ? & ?). unfold peer_ok. lia.
  - unfold process_response, peers_ok. destruct (peer_table s !! ip) as [md|] eqn:E; [|exact H]. cbn.
    apply map_Forall_insert_2; [|exact H]. destruct (H _ _ E) as (? & ? & ? & ?).
    unfold peer_ok; cbn. lia.
Qed.

(** ** A run of events for one peer *)

Definition event_of (md : peerData_t) (t : timer_name) : peer_data := mk_event (md.(md_id), t) md.(dstIP).

Definition handle_all (ok : bool) (s : peer_state) (es : list peer_data) : peer_state :=
  foldl (handle_timeout_event ok) s es.

(** Events change the entry of their peer only in the counter and the timers,
    and the counter by at most one each. *)
Lemma handle_keeps ok s e ip md :
  peers_ok s -> s.(peer_table) !! ip = Some md -> md.(itr_cnt) < md.(itr) ->
  ∃ md', (handle_timeout_event ok s e).(peer_table) !! ip = Some md' ∧
    md'.(itr) = md.(itr) ∧ md'.(itr_cnt) <= md.(itr_cnt) + 1.
Proof.
  intros H E Hlt. unfold handle_timeout_event.
  destruct (peer_table s !! dest_addr e) as [me|] eqn:Ee; [|exists md; split_and!; auto; lia].
  destruct (send_request_table s me (bool_decide (ti e = (md_id me, Pt))) (dest_addr e)) as (Et & _ & _).
  destruct (decide (dest_addr e = ip)) as [Hd|Hne].
  - rewrite Hd in *. assert (me = md) as -> by congruence. assert ((itr_cnt md =? itr md) = false) as Ec by (apply Z.eqb_neq; lia).
    rewrite Ec. cbn. rewrite Et, lookup_insert_eq.
    eexists. split; [done|]. destruct (peer_ok_count _ _ _ (H _ _ E) Ec) as [Ew _].
    rewrite Ew. destruct (_ && _), (bool_decide _); cbn; lia.
  - destruct (itr_cnt me =? itr me) eqn:Ec.
    + pose proof (H _ _ Ee) as (Hd & _). exists md. cbn. case_match; cbn; rewrite Hd, lookup_delete_ne by done;
        (split_and!; [done|done|lia]).
    + exists md. cbn. rewrite Et, lookup_insert_ne by done. split_and!; [done|done|lia].
Qed.

Lemma handle_all_keeps ok es s ip md :
  peers_ok s -> s.(peer_table) !! ip = Some md -> md.(itr_cnt) + Z.of_nat (length es) <= md.(itr) ->
  ∃ md', (handle_all ok s es).(peer_table) !! ip = Some md' ∧
    md'.(itr) = md.(itr) ∧ md'.(itr_cnt) <= md.(itr_cnt) + Z.of_nat (length es).
Proof.
  revert s md; induction es as [|e es IH]; intros s md H E Hle; cbn [handle_all foldl length] in *.
  { exists md. split_and!; auto; lia. }
  destruct (handle_keeps ok s e ip md H E) as (m1 & E1 & Hi & Hc); [lia|].
  destruct (IH _ m1 (handle_timeout_ok ok s e H) E1) as (m2 & E2 & Hi2 & Hc2); [lia|].
  exists m2. split_and!; auto; lia.
Qed.

(** The request a peer on port [p] is sent, with sequence number [n]. *)
Definition request (p addr n : Z) : peer_action :=
  if p =? SX_PORT_ID then Heartbeat addr n else EchoRequest p addr n.

(** The number of the last request on a port, and the next one. *)
Definition last_seq (s : peer_state) (p : Z) : Z :=
  if p =? S11_SGW_PORT_ID then s.(gtpc_mme_seqnb)
  else if p =? S5S8_SGWC_PORT_ID then s.(gtpc_sgwc_seqnb)
  else if p =? S5S8_PGWC_PORT_ID then s.(gtpc_pgwc_seqnb)
  else s.(pfcp_seqnb).
Definition next_seq (s : peer_state) (p : Z) : Z :=
  if p =? SX_PORT_ID then u16 (u32 (s.(pfcp_seq_no_offset) + 1)) else u16 (last_seq s p + 1).

Lemma known_port_cases p : known_port p = true ->
  p = S11_SGW_PORT_ID ∨ p = S5S8_SGWC_PORT_ID ∨ p = S5S8_PGWC_PORT_ID ∨ p = SX_PORT_ID.
Proof.
  unfold known_port. rewrite !orb_true_iff, !Z.eqb_eq. tauto.
Qed.

Lemma send_request_known s md (is_pt : bool) a : known_port md.(portId) = true ->
  let n := if is_pt then next_seq s md.(portId) else last_seq s md.(portId) in
  actions (send_request s md is_pt a) = actions s ++ [request md.(portId) a n] ∧
  last_seq (send_request s md is_pt a) md.(portId) = n.
Proof.
  intros Hp. unfold send_request. apply known_port_cases in Hp as [E|[E|[E|E]]]; rewrite E; by destruct is_pt.
Qed.

(** One repetition. *)
Lemma handle_repeat ok s md :
  peers_ok s -> s.(peer_table) !! md.(dstIP) = Some md -> known_port md.(portId) = true ->
  md.(itr_cnt) < md.(itr) ->
  let s' := handle_timeout_event ok s (event_of md Tt) in
  s'.(peer_table) !! md.(dstIP) = Some (set_itr_cnt md (md.(itr_cnt) + 1)) ∧ peers_ok s' ∧
  actions s' = actions s ++ [request md.(portId) md.(dstIP) (last_seq s md.(portId))] ∧
  last_seq s' md.(portId) = last_seq s md.(portId).
Proof.
  intros H E Hp Hlt s'. split; [|split; [by apply handle_timeout_ok|]]; subst s';
    unfold handle_timeout_event, event_of; cbn [dest_addr ti]; rewrite E;
    assert ((itr_cnt md =? itr md) = false) as Ec by (apply Z.eqb_neq; lia); rewrite Ec;
    rewrite (bool_decide_eq_false_2 ((md_id md, Tt) = (md_id md, Pt))) by congruence;
    rewrite (bool_decide_eq_true_2 ((md_id md, Tt) = (md_id md, Tt))) by done; rewrite Hp; cbn [andb].
  - cbn. rewrite lookup_insert_eq. f_equal. by rewrite (proj1 (peer_ok_count _ _ _ (H _ _ E) Ec)).
  - destruct (send_request_known s md false (dstIP md) Hp) as [Ea El]. split; [exact Ea|]. exact El.
Qed.

(** The first request of a round. *)
Lemma handle_periodic ok s md :
  peers_ok s -> s.(peer_table) !! md.(dstIP) = Some md -> known_port md.(portId) = true ->
  md.(itr_cnt) < md.(itr) ->
  let s' := handle_timeout_event ok s (event_of md Pt) in
  s'.(peer_table) !! md.(dstIP) = Some (set_timers md false (ok || md.(tt_on))) ∧ peers_ok s' ∧
  actions s' = actions s ++ [request md.(portId) md.(dstIP) (next_seq s md.(portId))] ∧
  last_seq s' md.(portId) = next_seq s md.(portId).
Proof.
  intros H E Hp Hlt s'. split; [|split; [by apply handle_timeout_ok|]]; subst s';
    unfold handle_timeout_event, event_of; cbn [dest_addr ti]; rewrite E;
    assert ((itr_cnt md =? itr md) = false) as Ec by (apply Z.eqb_neq; lia); rewrite Ec;
    rewrite (bool_decide_eq_false_2 ((md_id md, Pt) = (md_id md, Tt))) by congruence;
    rewrite (bool_decide_eq_true_2 ((md_id md, Pt) = (md_id md, Pt))) by done; cbn [andb].
  - cbn. by rewrite lookup_insert_eq.
  - destruct (send_request_known s md true (dstIP md) Hp) as [Ea El]. split; [exact Ea|exact El].
Qed.

(** ** A peer that does not answer *)

(** One round: a running timer of the peer expires, and the main loop handles the event. *)
Definition silent_round (ip : Z) (s s' : peer_state) : Prop :=
  ∃ md t, s.(peer_table) !! ip = Some md ∧ timer_on md t = true ∧ next_event true (timerCallback s md t) = Some s'.

(** The rounds that are left: the repetitions, the expiry of the periodic timer if it
    runs, and the expiry that gives the peer up. *)
Definition rounds_left (md : peerData_t) : Z := md.(itr) - md.(itr_cnt) + (if md.(pt_on) then 1 else 0) + 1.

(** A peer with a timer that runs, and no event in the queue. *)
Definition watched (s : peer_state) (ip : Z) (md : peerData_t) : Prop :=
  peers_ok s ∧ s.(events) = [] ∧ s.(peer_table) !! ip = Some md ∧ known_port md.(portId) = true ∧
  (md.(pt_on) || md.(tt_on)) = true.

Lemma handle_events ok s e : events (handle_timeout_event ok s e) = events s.
Proof.
  unfold handle_timeout_event. case_match; [|done]. case_match; [by case_match|]. cbn. apply send_request_table.
Qed.

(** With an empty queue a round is the handling of the event. *)
Lemma round_handles ip s s' : s.(events) = [] -> peers_ok s ->
  silent_round ip s s' <-> ∃ md t, s.(peer_table) !! ip = Some md ∧ timer_on md t = true ∧
    s' = handle_timeout_event true s (event_of md t) ∧ md.(dstIP) = ip.
Proof.
  intros He Hok. unfold silent_round, next_event, timerCallback. cbn. rewrite He. cbn. split.
  - intros (md & t & E & Ht & [= <-]). exists md, t. destruct (Hok _ _ E) as [Hd _]. destruct s; cbn in *. by subst.
  - intros (md & t & E & Ht & -> & _). exists md, t. split_and!; [done|done|]. destruct s; cbn in *. by subst.
Qed.

(** A round of a watched peer gives it up, or leaves it watched with fewer rounds. *)
Lemma round_progress ip s s' md : watched s ip md -> silent_round ip s s' ->
  (s'.(peer_table) !! ip = None ∧ 1 <= rounds_left md) ∨
  ∃ md', watched s' ip md' ∧ rounds_left md' = rounds_left md - 1.
Proof.
  intros (Hok & He & E & Hp & Ht) Hr. pose proof (Hok _ _ E) as (Hd & Hc & Hi & _). apply round_handles in Hr as (md0 & t & E0 & Ht0 & -> & _); [|done..].
  assert (md0 = md) as -> by congruence. destruct (Z.eqb_spec (itr_cnt md) (itr md)) as [Ec|Ec].
  - left. split; [|unfold rounds_left; destruct (pt_on md); lia]. unfold handle_timeout_event, event_of. cbn [dest_addr].
    rewrite Hd, E, (proj2 (Z.eqb_eq _ _) Ec), Hd. case_match; cbn; apply lookup_delete_eq.
  - right. rewrite <- Hd in E. unfold watched. rewrite handle_events. destruct t; cbn in Ht0.
    + destruct (handle_periodic true s md Hok E Hp) as (E1 & H1 & _); [lia|]. rewrite Hd in E1.
      eexists. split; [split_and!; [done|done|exact E1|done|done]|]. unfold rounds_left. rewrite Ht0. cbn. lia.
    + destruct (handle_repeat true s md Hok E Hp) as (E1 & H1 & _); [lia|]. rewrite Hd in E1.
      eexists. split; [split_and!; [done|done|exact E1|done|cbn; by rewrite Ht0, orb_true_r]|]. unfold rounds_left. cbn. lia.
Qed.
Lemma watched_round ip s md : watched s ip md -> ∃ s', silent_round ip s s'.
Proof.
  intros (Hok & He & E & _ & Ht). pose proof (Hok _ _ E) as [Hd _].
  assert (∃ t, timer_on md t = true) as [t Ht'] by (apply orb_true_iff in Ht as [Ht|Ht]; [by exists Pt|by exists Tt]).
  eexists. apply round_handles; eauto 6.
Qed.
Lemma gone_no_round ip s s' : s.(peer_table) !! ip = None -> ¬ silent_round ip s s'.
Proof. intros E (md & t & E' & _). congruence. Qed.

Lemma rounds_bounded ip n : ∀ s s' md, watched s ip md -> nsteps (silent_round ip) n s s' ->
  Z.of_nat n <= rounds_left md ∧ (s'.(peer_table) !! ip = None ∨ ∃ md', watched s' ip md').
Proof.
  induction n as [|n IH]; intros s s' md Hw Hn.
  - inversion Hn; subst. split; [|eauto]. destruct Hw as (Hok & _ & E & _). destruct (Hok _ _ E) as (_ & ? & _).
    unfold rounds_left. destruct (pt_on md); lia.
  - inversion Hn as [|? ? s1 ? Hr Hn']; subst. destruct (round_progress ip s s1 md Hw Hr) as [[Hg Hl]|(m1 & Hw1 & Hl)].
    + destruct n; [inversion Hn'; subst; split; [lia|by left]|].
      inversion Hn'; subst. exfalso. by eapply gone_no_round.
    + destruct (IH s1 s' m1 Hw1 Hn') as [Hb Hs]. split; [lia|done].
Qed.

(** The state after [n] rounds of a peer whose periodic timer has just been started. *)
Definition silent_state (s : peer_state) (md : peerData_t) (n : nat) (s' : peer_state) : Prop :=
  let req := request md.(portId) md.(dstIP) (next_seq s md.(portId)) in
  match n with
  | O => s' = s
  | S k =>
      if decide (Z.of_nat k <= md.(itr)) then
        s'.(peer_table) !! md.(dstIP) = Some (set_itr_cnt (set_timers md false true) (Z.of_nat k)) ∧ peers_ok s' ∧
        s'.(events) = [] ∧ last_seq s' md.(portId) = next_seq s md.(portId) ∧ actions s' = actions s ++ repeat req n
      else
        s'.(peer_table) !! md.(dstIP) = None ∧
        actions s' = actions s ++ repeat req k ++ (if md.(portId) =? SX_PORT_ID then [UpfDown md.(dstIP)] else [])
  end.

Lemma silent_states s md n s' : watched s md.(dstIP) md -> md.(pt_on) = true -> md.(tt_on) = false ->
  md.(itr_cnt) = 0 -> 0 < md.(itr) -> nsteps (silent_round md.(dstIP)) n s s' -> silent_state s md n s'.
Proof.
  intros (Hok & He & E & Hp & _) Hpt Htt H0 Hi. revert s'. induction n as [|n IH]; intros s' Hn.
  { by inversion Hn. }
  apply nsteps_inv_r in Hn as (s1 & Hn & Hr). specialize (IH s1 Hn). destruct n as [|k]; cbn [silent_state] in *.
  - subst s1. apply round_handles in Hr as (m & t & E' & Ht & -> & _); [|done..]. assert (m = md) as -> by congruence.
    destruct t; cbn in Ht; [|congruence]. destruct (decide _); [|lia].
    destruct (handle_periodic true s md Hok E Hp) as (E1 & H1 & A1 & L1); [lia|].
    split_and!; [rewrite E1; f_equal; unfold set_itr_cnt, set_timers; cbn; by rewrite H0|done|by rewrite handle_events|done|done].
  - destruct (decide (Z.of_nat k <= itr md)) as [Hk|Hk]; [|by destruct IH as [Hg _]; destruct (gone_no_round _ _ _ Hg Hr)].
    destruct IH as (E1 & H1 & He1 & L1 & A1). apply round_handles in Hr as (m & t & E' & Ht & -> & _); [|done..].
    set (m1 := set_itr_cnt (set_timers md false true) (Z.of_nat k)) in *. assert (m = m1) as -> by congruence.
    destruct t; cbn in Ht; [done|]. destruct (decide (Z.of_nat (S k) <= itr md)) as [Hk'|Hk'].
    + destruct (handle_repeat true s1 m1 H1 E1 Hp) as (E2 & H2 & A2 & L2); [cbn; lia|]. cbn in E2, A2, L2.
      split_and!; [etrans; [exact E2|]; unfold m1, set_itr_cnt; cbn; do 2 f_equal; lia|done|by rewrite handle_events|by rewrite L2|].
      rewrite A2, L1, A1, <- app_assoc. f_equal. change [?x] with (repeat x 1). by rewrite <- repeat_app, Nat.add_comm.
    + assert (Z.of_nat k = itr md) as Ek by lia. unfold handle_timeout_event, event_of. cbn [dest_addr]. change (dstIP m1) with (dstIP md).
      rewrite E1. change (itr_cnt m1) with (Z.of_nat k). change (itr m1) with (itr md). change (portId m1) with (portId md). rewrite Ek, Z.eqb_refl.
      destruct (portId md =? SX_PORT_ID); cbn; (split; [apply lookup_delete_eq|]); rewrite A1, ?app_nil_r, <- ?app_assoc; done.
Qed.

(** ** Properties *)

(** C39: In every reachable state a peer is stored under its own address and its
    count of unanswered requests does not exceed the configured number, so that
    the comparison for equality that gives a peer up cannot be skipped over. *)
Theorem peers_reachable_ok transmit_cnt s :
  rtc (peer_step transmit_cnt) (mk_peers ∅ 0 [] 0 0 0 0 1 0 []) s -> peers_ok s.
Proof.
  intros H. assert (∀ s0, rtc (peer_step transmit_cnt) s0 s -> peers_ok s0 -> peers_ok s) as K.
  { intros s0 Hr. induction Hr; eauto using peer_step_ok. }
  apply (K _ H). apply map_Forall_empty.
Qed.

Lemma peers_reachable_ok_witness :
  peers_ok (add_node_conn_entry 5 true (mk_peers ∅ 0 [] 0 0 0 0 1 0 []) 0x7f000001 SX_PORT_ID).
Proof. apply (peers_reachable_ok 5). apply rtc_once. apply peer_add. Defined.

(** C40: A peer that does not answer is given up, if its timers can be started.  As long as
    it is in the table one of its timers runs, so that there is a next round (an expiry and
    its event); after at most [itr - itr_cnt + 2] rounds it is gone.  From the start of the
    periodic timer the rounds are exact: one request with a new sequence number, [itr]
    repetitions with the same number, and then the entry is deleted and a user plane node
    is reported down.  The periodic and the transmit timer repeat until they are stopped. *)
Theorem silent_peer_given_up s md n s' :
  watched s md.(dstIP) md -> nsteps (silent_round md.(dstIP)) n s s' ->
  Z.of_nat n <= rounds_left md ∧
  (s'.(peer_table) !! md.(dstIP) = None ∨ ∃ s'', silent_round md.(dstIP) s' s'') ∧
  (md.(pt_on) = true -> md.(tt_on) = false -> md.(itr_cnt) = 0 -> 0 < md.(itr) -> silent_state s md n s').
Proof.
  intros Hw Hn. destruct (rounds_bounded _ n s s' md Hw Hn) as [Hb Hs]. split_and!; [done| |].
  - destruct Hs as [Hg|[m Hm]]; [by left|right]. by apply (watched_round _ _ m).
  - intros. by apply silent_states.
Qed.

Definition silent_example : peer_state := mk_peers {[ 7 := mk_peer 0 SX_PORT_ID 2 0 7 true false ]} 1 [] 1 0 0 0 1 0 [].
Lemma silent_round_handles ip s md t : events s = [] -> peers_ok s -> s.(peer_table) !! ip = Some md -> timer_on md t = true ->
  silent_round ip s (handle_timeout_event true s (event_of md t)).
Proof. intros He Hok E Ht. apply round_handles; [done..|]. exists md, t. destruct (Hok _ _ E) as [Hd _]. done. Qed.
Lemma silent_peer_given_up_witness :
  ∃ s', nsteps (silent_round 7) 4 silent_example s' ∧ s'.(peer_table) !! 7 = None ∧
    actions s' = [Heartbeat 7 1; Heartbeat 7 1; Heartbeat 7 1; UpfDown 7].
Proof.
  assert (Hw : watched silent_example 7 (mk_peer 0 SX_PORT_ID 2 0 7 true false)).
  { split_and!; try reflexivity. apply map_Forall_singleton. unfold peer_ok; cbn. lia. }
  assert (Hn : ∃ s', nsteps (silent_round 7) 4 silent_example s').
  { pose proof Hw as (Hok & _). eexists.
    eapply nsteps_l; [eapply (silent_round_handles 7 _ _ Pt); [reflexivity|exact Hok|reflexivity|reflexivity]|].
    do 2 (eapply nsteps_l; [eapply (silent_round_handles 7 _ _ Tt); [reflexivity|repeat apply handle_timeout_ok; exact Hok|reflexivity|reflexivity]|]).
    eapply nsteps_l; [eapply (silent_round_handles 7 _ _ Tt); [reflexivity|repeat apply handle_timeout_ok; exact Hok|reflexivity|reflexivity]|].
    apply nsteps_O. }
  destruct Hn as [s' Hn]. exists s'. split; [exact Hn|].
  destruct (silent_peer_given_up silent_example (mk_peer 0 SX_PORT_ID 2 0 7 true false) 4 s' Hw Hn) as (_ & _ & H).
  exact (H eq_refl eq_refl eq_refl eq_refl).
Defined.

(** A peer that answers is kept: after a response, as many timer events as
    the configured number of repetitions leave its entry in the table. *)
Theorem answered_peer_kept ok s ip md es :
  peers_ok s -> s.(peer_table) !! ip = Some md -> Z.of_nat (length es) <= md.(itr) ->
  is_Some ((handle_all ok (process_response ok s ip) es).(peer_table) !! ip).
Proof.
  intros H E Hle.
  destruct (handle_all_keeps ok es (process_response ok s ip) ip (set_timers (set_itr_cnt md 0) ok false))
    as (md' & -> & _); [| |cbn; lia|by eexists].
  - by apply (peer_step_ok 0 s), H; constructor.
  - unfold process_response. rewrite E. cbn. apply lookup_insert_eq.
Qed.

Lemma answered_peer_kept_witness :
  is_Some ((handle_all true
    (process_response true (mk_peers {[ 7 := mk_peer 0 SX_PORT_ID 2 2 7 false true ]} 1 [] 1 0 0 0 1 0 []) 7)
    [mk_event (0%nat, Tt) 7; mk_event (0%nat, Tt) 7]).(peer_table) !! 7).
Proof.
  apply (answered_peer_kept true (mk_peers {[ 7 := mk_peer 0 SX_PORT_ID 2 2 7 false true ]} 1 [] 1 0 0 0 1 0 [])
           7 (mk_peer 0 SX_PORT_ID 2 2 7 false true)); try reflexivity; try (cbn; lia).
  apply map_Forall_singleton. unfold peer_ok; cbn. lia.
Defined.
