(* ===== verification/Teid.v ===== *)
(** * Tunnel and session identifiers (src/cp/ue.c, src/cp/vepc_cp_dp_api.h)

    The counters of ue.c from which tunnel endpoint ids are made, and the session
    id that combines the tunnel id of a UE with a bearer id. *)

From S2P Require Import Prelude.

(** ** The code *)

(** The role of the gateway (src/cpplib/spgw_config_struct.h). *)
Inductive cp_type_t := SGWC | PGWC | SAEGWC.

(** The static variables of ue.c, with their initial values in [initial_teids]. *)
Record teid_globals := mk_teids {
  s11_sgw_gtpc_teid_offset : Z;
  s5s8_pgw_gtpc_teid_offset : Z;
  sgw_gtpc_base_teid : Z;
  sgw_gtpc_teid_offset : Z;
  pgw_gtpc_base_teid : Z;
  pgw_gtpc_teid_offset : Z;
  teid_range : Z;
  sgw_gtpu_base_teid : Z;
  pgw_gtpu_base_teid : Z;
}.
Definition initial_teids : teid_globals := mk_teids 0 0 0xC0FFEE 0 0xD0FFEE 0 0xf0 0xf0000001 0x00000001.
Definition s11_sgw_gtpc_base_teid : Z := 0xC0FFEE.
Definition s5s8_pgw_gtpc_base_teid : Z := 0xD0FFEE.

Definition set_base_teid (ty : cp_type_t) (val : Z) (g : teid_globals) : teid_globals :=
  let base := u32 (u32 (Z.shiftl val 24) + 1) in
  match ty with
  | SAEGWC => mk_teids g.(s11_sgw_gtpc_teid_offset) g.(s5s8_pgw_gtpc_teid_offset) base g.(sgw_gtpc_teid_offset) g.(pgw_gtpc_base_teid)
                g.(pgw_gtpc_teid_offset) val g.(sgw_gtpu_base_teid) g.(pgw_gtpu_base_teid)
  | PGWC => mk_teids g.(s11_sgw_gtpc_teid_offset) g.(s5s8_pgw_gtpc_teid_offset) g.(sgw_gtpc_base_teid) g.(sgw_gtpc_teid_offset) base
                g.(pgw_gtpc_teid_offset) val g.(sgw_gtpu_base_teid) g.(pgw_gtpu_base_teid)
  | SGWC => mk_teids g.(s11_sgw_gtpc_teid_offset) g.(s5s8_pgw_gtpc_teid_offset) g.(sgw_gtpc_base_teid) g.(sgw_gtpc_teid_offset)
                g.(pgw_gtpc_base_teid) g.(pgw_gtpc_teid_offset) val g.(sgw_gtpu_base_teid) g.(pgw_gtpu_base_teid)
  end.

(** [__builtin_ffs(~bitmap) - 1] of a 16-bit bitmap: the lowest bit that is not
    set, 16 when all are, because the complement is taken of an [int]. *)
Definition free_index (bitmap : Z) : Z :=
  Z.of_nat (default 16%nat (head (List.filter (fun i => negb (Z.testbit bitmap (Z.of_nat i))) (seq 0 16)))).

(** [bitmap |= (0x01 << index)] into 16 bits. *)
Definition take_index (bitmap index : Z) : Z := u16 (Z.lor bitmap (Z.shiftl 1 index)).

(** [(base & 0x00ffffff) | ((range + index) << 24)] *)
Definition gtpu_teid (base range index : Z) : Z :=
  Z.lor (Z.land base 0x00ffffff) (u32 (Z.shiftl (range + index) 24)).

(** The new [s1u_sgw_gtpu_teid] of the bearer and [teid_bitmap] of the context. *)
Definition set_s1u_sgw_gtpu_teid (ty : cp_type_t) (g : teid_globals) (bitmap : Z) : Z * Z * teid_globals :=
  let index := free_index bitmap in
  let g :=
    match ty with
    | SAEGWC => mk_teids g.(s11_sgw_gtpc_teid_offset) g.(s5s8_pgw_gtpc_teid_offset) g.(sgw_gtpc_base_teid)
                  (u32 (g.(sgw_gtpc_teid_offset) + 1)) g.(pgw_gtpc_base_teid) g.(pgw_gtpc_teid_offset)
                  g.(teid_range) (u32 (g.(sgw_gtpc_base_teid) + g.(sgw_gtpc_teid_offset))) g.(pgw_gtpu_base_teid)
    | _ => g
    end in
  (gtpu_teid g.(sgw_gtpu_base_teid) g.(teid_range) index, take_index bitmap index, g).

Definition set_s5s8_pgw_gtpc_teid (g : teid_globals) : Z * teid_globals :=
  (u32 (s5s8_pgw_gtpc_base_teid + g.(s5s8_pgw_gtpc_teid_offset)),
   mk_teids g.(s11_sgw_gtpc_teid_offset) (u32 (g.(s5s8_pgw_gtpc_teid_offset) + 1)) g.(sgw_gtpc_base_teid) g.(sgw_gtpc_teid_offset)
     g.(pgw_gtpc_base_teid) g.(pgw_gtpc_teid_offset) g.(teid_range) g.(sgw_gtpu_base_teid) g.(pgw_gtpu_base_teid)).

Definition set_s5s8_pgw_gtpu_teid (ty : cp_type_t) (g : teid_globals) (bitmap : Z) : Z * Z * teid_globals :=
  let index := free_index bitmap in
  let g :=
    match ty with
    | PGWC => mk_teids g.(s11_sgw_gtpc_teid_offset) g.(s5s8_pgw_gtpc_teid_offset) g.(sgw_gtpc_base_teid) g.(sgw_gtpc_teid_offset)
                g.(pgw_gtpc_base_teid) (u32 (g.(pgw_gtpc_teid_offset) + 1)) g.(teid_range)
                g.(sgw_gtpu_base_teid) (u32 (g.(pgw_gtpc_base_teid) + g.(pgw_gtpc_teid_offset)))
    | _ => g
    end in
  (gtpu_teid g.(pgw_gtpu_base_teid) g.(teid_range) index, take_index bitmap index, g).

(** The bearers of a PDN connection share the low 24 bits of its tunnel id. *)
Definition set_s5s8_pgw_gtpu_teid_using_pdn (gtpc_teid bitmap : Z) : Z * Z :=
  let index := free_index bitmap in
  (gtpu_teid gtpc_teid 0xf0 index, take_index bitmap index).

(** Session ids. *)
Definition SESS_ID (ue_id br_id : Z) : Z := Z.lor (u64 (Z.shiftl ue_id 4)) (Z.land 0xf br_id).
Definition UE_SESS_ID (x : Z) : Z := Z.shiftr (Z.land x 0xffffffff) 4.
Definition UE_BEAR_ID (x : Z) : Z := Z.land x 0xf.

(** ** Lemmas *)

Lemma gtpu_teid_low base range index : gtpu_teid base range index mod 2 ^ 24 = base mod 2 ^ 24.
Proof.
  unfold gtpu_teid. change 0x00ffffff with (Z.ones 24). rewrite Z.land_ones by lia.
  rewrite <- !Z.land_ones by lia. apply Z.bits_inj'. intros i Hi.
  rewrite !Z.land_spec, Z.lor_spec, Z.land_spec. destruct (Z.ltb_spec i 24).
  - rewrite Z.ones_spec_low, !andb_true_r by lia. rewrite uwrap_testbit by lia.
    rewrite Z.shiftl_spec_low by lia. rewrite andb_false_r. by rewrite orb_false_r.
  - by rewrite Z.ones_spec_high, !andb_false_r by lia.
Qed.

Lemma gtpu_teid_high base range index : 0 <= range + index < 256 ->
  Z.shiftr (gtpu_teid base range index) 24 = range + index.
Proof.
  intros Hr. unfold gtpu_teid. change 0x00ffffff with (Z.ones 24).
  rewrite Z.shiftr_lor, uwrap_small, Z.shiftr_shiftl_l by (rewrite ?Z.shiftl_mul_pow2 by lia; lia).
  rewrite Z.land_ones, (Z.shiftr_div_pow2 (base mod _)) by lia.
  rewrite (Z.div_small (base mod 2 ^ 24)) by (apply Z.mod_pos_bound; lia). rewrite Z.lor_0_l. apply Z.shiftl_0_r.
Qed.

Lemma mod24_u32 x : u32 x mod 2 ^ 24 = x mod 2 ^ 24.
Proof.
  unfold uwrap. change (2 ^ 32) with (2 ^ 24 * 2 ^ 8). rewrite Z.rem_mul_r by lia.
  by rewrite Z.mul_comm, Z_mod_plus_full, Z.mod_mod.
Qed.

Lemma mod24_add a x : (a + u32 x) mod 2 ^ 24 = (a + x) mod 2 ^ 24.
Proof. rewrite (Zplus_mod a (u32 x)), mod24_u32, <- Zplus_mod. done. Qed.

(** [k] allocations with the given bitmaps. *)
Fixpoint s1u_teids (g : teid_globals) (bitmaps : list Z) : list Z :=
  match bitmaps with
  | [] => []
  | b :: rest => let '(t, _, g') := set_s1u_sgw_gtpu_teid SAEGWC g b in t :: s1u_teids g' rest
  end.

Lemma s1u_teids_low g bitmaps i t : s1u_teids g bitmaps !! i = Some t ->
  t mod 2 ^ 24 = (g.(sgw_gtpc_base_teid) + g.(sgw_gtpc_teid_offset) + Z.of_nat i) mod 2 ^ 24.
Proof.
  revert g i; induction bitmaps as [|b rest IH]; intros g i H; [done|].
  cbn [s1u_teids set_s1u_sgw_gtpu_teid] in H. destruct i as [|i]; cbn in H.
  - simplify_eq. rewrite gtpu_teid_low, mod24_u32. f_equal; lia.
  - apply IH in H. rewrite H. cbn [sgw_gtpc_base_teid sgw_gtpc_teid_offset].
    rewrite (Z.add_comm (sgw_gtpc_base_teid g) (u32 _)), <- Z.add_assoc, (Z.add_comm (u32 _)), mod24_add.
    f_equal. lia.
Qed.

Lemma mod24_inj a i j : 0 <= i < 2 ^ 24 -> 0 <= j < 2 ^ 24 ->
  (a + i) mod 2 ^ 24 = (a + j) mod 2 ^ 24 -> i = j.
Proof.
  intros Hi Hj E. assert ((a + i - a) mod 2 ^ 24 = (a + j - a) mod 2 ^ 24) as E'
    by (rewrite <- (Zminus_mod_idemp_l (a + i)), <- (Zminus_mod_idemp_l (a + j)), E; done).
  replace (a + i - a) with i in E' by lia. replace (a + j - a) with j in E' by lia.
  by rewrite !Z.mod_small in E'.
Qed.

(** ** Properties *)

(** The user plane tunnel ids of an SAE gateway are all different, whatever
    the contexts they are made for, in any run of at most 2^24 allocations. *)
Theorem s1u_teids_unique g bitmaps :
  Z.of_nat (length bitmaps) <= 2 ^ 24 -> NoDup (s1u_teids g bitmaps).
Proof.
  intros Hl. apply NoDup_alt. intros i j t Hi Hj.
  assert (∀ k u, s1u_teids g bitmaps !! k = Some u -> (k < length bitmaps)%nat) as Hk.
  { intros k u H. apply lookup_lt_Some in H. revert H. generalize g. clear.
    assert (∀ b g, length (s1u_teids g b) = length b) as E.
    { induction b as [|x b IH]; intros g; [done|]. cbn. by rewrite IH. }
    intros g. by rewrite E. }
  pose proof (Hk _ _ Hi). pose proof (Hk _ _ Hj).
  apply s1u_teids_low in Hi. apply s1u_teids_low in Hj. rewrite Hi in Hj. apply mod24_inj in Hj; lia.
Qed.

Lemma s1u_teids_unique_witness : NoDup (s1u_teids initial_teids [0; 0; 1]).
Proof. apply (s1u_teids_unique initial_teids [0; 0; 1]). cbn; lia. Defined.

(** The bitmap of a context whose first [k] indexes are taken. *)
Lemma free_index_ones k : (k <= 16)%nat -> free_index (2 ^ Z.of_nat k - 1) = Z.of_nat k.
Proof. intros H. do 17 (destruct k as [|k]; [reflexivity|]). lia. Qed.

Lemma take_index_ones k : (k < 16)%nat ->
  take_index (2 ^ Z.of_nat k - 1) (Z.of_nat k) = 2 ^ Z.of_nat (S k) - 1.
Proof. intros H. do 16 (destruct k as [|k]; [reflexivity|]). lia. Qed.

(** The first [n] bearers of a PDN connection. *)
Fixpoint pdn_teids (gtpc_teid bitmap : Z) (n : nat) : list Z :=
  match n with
  | O => []
  | S n' => let '(t, b) := set_s5s8_pgw_gtpu_teid_using_pdn gtpc_teid bitmap in t :: pdn_teids gtpc_teid b n'
  end.

Lemma pdn_teids_lookup gtpc n k i t : (k + n <= 16)%nat ->
  pdn_teids gtpc (2 ^ Z.of_nat k - 1) n !! i = Some t -> t = gtpu_teid gtpc 0xf0 (Z.of_nat (k + i)) ∧ (i < n)%nat.
Proof.
  revert k i; induction n as [|n IH]; intros k i Hn H; [done|]. cbn [pdn_teids set_s5s8_pgw_gtpu_teid_using_pdn] in H.
  rewrite free_index_ones, take_index_ones in H by lia. destruct i as [|i]; cbn in H.
  - simplify_eq. rewrite Nat.add_0_r. split; [done|lia].
  - apply IH in H; [|lia]. destruct H as [-> ?]. split; [do 2 f_equal; lia|lia].
Qed.

(** The bearers of a PDN connection get different tunnel ids as long as there
    are at most 16 of them; with all 16 indexes taken the range overflows its
    byte, and every further bearer gets the same tunnel id as the next one. *)
Theorem pdn_bearer_teids gtpc n :
  ((n <= 16)%nat -> NoDup (pdn_teids gtpc 0 n)) ∧
  (0 <= gtpc < 2 ^ 32 -> pdn_teids gtpc 0xffff n = repeat (gtpc mod 2 ^ 24) n).
Proof.
  split.
  - intros Hn. apply NoDup_alt. intros i j t Hi Hj.
    apply (pdn_teids_lookup gtpc n 0) in Hi as [Hi ?]; [|lia]. apply (pdn_teids_lookup gtpc n 0) in Hj as [Hj ?]; [|lia].
    rewrite Hi in Hj. apply (f_equal (fun x => Z.shiftr x 24)) in Hj. rewrite !gtpu_teid_high in Hj by lia. lia.
  - intros Hg. induction n as [|n IH]; [done|]. cbn [pdn_teids repeat]. unfold set_s5s8_pgw_gtpu_teid_using_pdn.
    change (free_index 0xffff) with 16. change (take_index 0xffff 16) with 0xffff. rewrite IH. f_equal.
    unfold gtpu_teid. change (u32 (Z.shiftl (0xf0 + 16) 24)) with 0. rewrite Z.lor_0_r.
    change 0x00ffffff with (Z.ones 24). by rewrite Z.land_ones.
Qed.

Lemma pdn_bearer_teids_witness :
  NoDup (pdn_teids 0xD0FFEE 0 3) ∧ pdn_teids 0xD0FFEE 0xffff 2 = [0xD0FFEE; 0xD0FFEE].
Proof.
  split; [apply (pdn_bearer_teids 0xD0FFEE 3); lia|].
  refine (proj2 (pdn_bearer_teids 0xD0FFEE 2) _). lia.
Defined.

Lemma sess_id_sum teid ebi : 0 <= teid < 2 ^ 32 -> 0 <= ebi < 16 -> SESS_ID teid ebi = teid * 16 + ebi.
Proof.
  intros Ht He. unfold SESS_ID. rewrite Z.land_comm. change 0xf with (Z.ones 4).
  rewrite Z.land_ones, (Z.mod_small ebi), Z.shiftl_mul_pow2, uwrap_small by lia.
  assert (Z.land (teid * 2 ^ 4) ebi = 0) as E.
  { apply Z.bits_inj'. intros i Hi. rewrite Z.land_spec, Z.bits_0. destruct (Z.ltb_spec i 4).
    - by rewrite Z.mul_pow2_bits_low.
    - rewrite (testbit_high ebi 4) by lia. apply andb_false_r. }
  rewrite <- Z.lxor_lor, <- Z.add_nocarry_lxor by done. done.
Qed.

Lemma ue_sess_id_eq teid ebi : 0 <= teid < 2 ^ 32 -> 0 <= ebi < 16 ->
  UE_SESS_ID (SESS_ID teid ebi) = teid mod 2 ^ 28.
Proof.
  intros Ht He. rewrite sess_id_sum by lia. unfold UE_SESS_ID.
  change 0xffffffff with (Z.ones 32). rewrite Z.land_ones, Z.shiftr_div_pow2 by lia. change (2 ^ 4) with 16.
  change (2 ^ 32) with 4294967296. change (2 ^ 28) with 268435456.
  pose proof (Z.div_mod teid 268435456 ltac:(lia)). pose proof (Z.mod_pos_bound teid 268435456 ltac:(lia)).
  symmetry. apply Z.div_unique with ebi; [lia|]. symmetry.
  apply Z.mod_unique with (teid / 268435456); lia.
Qed.

(** A session id gives back its bearer id, and the tunnel id of its UE only
    up to 28 bits: [UE_SESS_ID] masks the id to 32 bits before it shifts, so that
    the check of a PDN connection's session id against its UE fails for every
    tunnel id from 2^28 on. *)
Theorem sess_id_roundtrip teid ebi :
  0 <= teid < 2 ^ 32 -> 0 <= ebi < 16 ->
  UE_BEAR_ID (SESS_ID teid ebi) = ebi ∧ UE_SESS_ID (SESS_ID teid ebi) = teid mod 2 ^ 28 ∧
  (UE_SESS_ID (SESS_ID teid ebi) = teid <-> teid < 2 ^ 28).
Proof.
  intros Ht He. rewrite ue_sess_id_eq by lia. split_and!; [|done|].
  - rewrite sess_id_sum by lia. unfold UE_BEAR_ID. change 0xf with (Z.ones 4). rewrite Z.land_ones by lia.
    rewrite Z.add_comm. change (2 ^ 4) with 16. rewrite Z_mod_plus_full. apply Z.mod_small; lia.
  - pose proof (Z.mod_pos_bound teid (2 ^ 28) ltac:(lia)). split; [lia|]. intros. apply Z.mod_small. lia.
Qed.

Lemma sess_id_roundtrip_witness :
  UE_BEAR_ID (SESS_ID 0xC0FFEE 5) = 5 ∧ UE_SESS_ID (SESS_ID 0xC0FFEE 5) = 0xC0FFEE mod 2 ^ 28 ∧
  (UE_SESS_ID (SESS_ID 0xC0FFEE 5) = 0xC0FFEE <-> 0xC0FFEE < 2 ^ 28).
Proof. apply (sess_id_roundtrip 0xC0FFEE 5); lia. Defined.
