(* ===== verification/CpState.v ===== *)
(** * State of the control plane

    The objects the control plane allocates (transactions, procedures, UE
    contexts, PDN connections, bearers, received messages, user plane nodes), as a
    heap per type, and the tables of src/cpplib that find them.  A pointer is a [ptr]; NULL is
    [None]; an address that is in no heap was never allocated or has been freed.
    Members of the C structures that no modelled operation reads or writes are
    left out.

    Operations run in a monad of state and abnormal end: a failed [assert], an
    access through NULL or to freed memory, and an index out of range have no
    result. *)

From stdpp Require Import gmap strings.
From S2P Require Import Prelude Peer IpPool Teid.

Abbreviation ptr := positive.

(** ** Procedures (src/cp/procedures/proc_struct.h) *)

Inductive sm_proc :=
| NONE_PROC | INITIAL_PDN_ATTACH_PROC | SERVICE_REQUEST_PROC | SGW_RELOCATION_PROC
| CONN_SUSPEND_PROC | DETACH_PROC | RAR_PROC | DED_BER_ACTIVATION_PROC
| PDN_GW_INIT_BEARER_DEACTIVATION | MME_INI_DEDICATED_BEARER_DEACTIVATION_PROC
| UPDATE_BEARER_PROC | RESTORATION_RECOVERY_PROC | PAGING_PROC | USAGE_REPORT_PROC
| S1_RELEASE_PROC | PFCP_ASSOC_SETUP_PROC | SGW_RELOCATION_DETACH_PROC
| NW_INIT_DETACH_PROC | END_PROC.
#[global] Instance sm_proc_eq_dec : EqDecision sm_proc.
Proof. solve_decision. Defined.

Inductive proc_result := PROC_RESULT_SUCCESS | PROC_RESULT_FAILURE.

Definition PROC_FLAGS_RUNNING : Z := 0x00000001.
Definition MAX_CHILD_PROC : nat := 8.
(** The events of src/cp/procedures/proc_struct.h that are modelled. *)
Definition PFCP_ASSOC_SETUP_RESP_RCVD_EVNT : Z := 3.
Definition RE_AUTH_REQ_RCVD_EVNT : Z := 20.
Definition PFCP_ASSOCIATION_SETUP : Z := 41.
Definition PFCP_ASSOCIATION_SETUP_RSP : Z := 42.
Definition PFCP_ASSOC_SETUP_SUCCESS : Z := 43.
Definition PFCP_ASSOC_SETUP_FAILED : Z := 44.
Definition PFCP_SESS_EST_EVNT : Z := 45.
Definition SEND_RE_AUTH_RSP_EVNT : Z := 50.

(** A procedure of a subscriber, or of a user plane node. *)
Record proc_context_t := mk_proc {
  proc_type : sm_proc;
  proc_flags : Z;
  result : proc_result;
  proc_ue : option ptr; (* ue_context *)
  proc_pdn : option ptr; (* pdn_context *)
  proc_upf : option ptr; (* upf_context *)
  pfcp_trans : option ptr;
  gtpc_trans : option ptr;
  gx_trans : option ptr;
  proc_msg : option ptr; (* msg_info *)
  child_procs_cnt : Z; (* uint8_t *)
  child_procs : list (option ptr); (* child_procs[MAX_CHILD_PROC] *)
  parent_proc : option ptr;
}.
Definition set_proc_flags (v : Z) (x : proc_context_t) : proc_context_t :=
  mk_proc x.(proc_type) v x.(result) x.(proc_ue) x.(proc_pdn) x.(proc_upf) x.(pfcp_trans) x.(gtpc_trans) x.(gx_trans) x.(proc_msg) x.(child_procs_cnt) x.(child_procs) x.(parent_proc).
Definition set_result (v : proc_result) (x : proc_context_t) : proc_context_t :=
  mk_proc x.(proc_type) x.(proc_flags) v x.(proc_ue) x.(proc_pdn) x.(proc_upf) x.(pfcp_trans) x.(gtpc_trans) x.(gx_trans) x.(proc_msg) x.(child_procs_cnt) x.(child_procs) x.(parent_proc).
Definition set_proc_upf (v : option ptr) (x : proc_context_t) : proc_context_t :=
  mk_proc x.(proc_type) x.(proc_flags) x.(result) x.(proc_ue) x.(proc_pdn) v x.(pfcp_trans) x.(gtpc_trans) x.(gx_trans) x.(proc_msg) x.(child_procs_cnt) x.(child_procs) x.(parent_proc).
Definition set_pfcp_trans (v : option ptr) (x : proc_context_t) : proc_context_t :=
  mk_proc x.(proc_type) x.(proc_flags) x.(result) x.(proc_ue) x.(proc_pdn) x.(proc_upf) v x.(gtpc_trans) x.(gx_trans) x.(proc_msg) x.(child_procs_cnt) x.(child_procs) x.(parent_proc).
Definition set_gtpc_trans (v : option ptr) (x : proc_context_t) : proc_context_t :=
  mk_proc x.(proc_type) x.(proc_flags) x.(result) x.(proc_ue) x.(proc_pdn) x.(proc_upf) x.(pfcp_trans) v x.(gx_trans) x.(proc_msg) x.(child_procs_cnt) x.(child_procs) x.(parent_proc).
Definition set_gx_trans (v : option ptr) (x : proc_context_t) : proc_context_t :=
  mk_proc x.(proc_type) x.(proc_flags) x.(result) x.(proc_ue) x.(proc_pdn) x.(proc_upf) x.(pfcp_trans) x.(gtpc_trans) v x.(proc_msg) x.(child_procs_cnt) x.(child_procs) x.(parent_proc).
Definition set_proc_msg (v : option ptr) (x : proc_context_t) : proc_context_t :=
  mk_proc x.(proc_type) x.(proc_flags) x.(result) x.(proc_ue) x.(proc_pdn) x.(proc_upf) x.(pfcp_trans) x.(gtpc_trans) x.(gx_trans) v x.(child_procs_cnt) x.(child_procs) x.(parent_proc).
Definition set_child_procs_cnt (v : Z) (x : proc_context_t) : proc_context_t :=
  mk_proc x.(proc_type) x.(proc_flags) x.(result) x.(proc_ue) x.(proc_pdn) x.(proc_upf) x.(pfcp_trans) x.(gtpc_trans) x.(gx_trans) x.(proc_msg) v x.(child_procs) x.(parent_proc).
Definition set_child_procs (v : list (option ptr)) (x : proc_context_t) : proc_context_t :=
  mk_proc x.(proc_type) x.(proc_flags) x.(result) x.(proc_ue) x.(proc_pdn) x.(proc_upf) x.(pfcp_trans) x.(gtpc_trans) x.(gx_trans) x.(proc_msg) x.(child_procs_cnt) v x.(parent_proc).
Definition set_parent_proc (v : option ptr) (x : proc_context_t) : proc_context_t :=
  mk_proc x.(proc_type) x.(proc_flags) x.(result) x.(proc_ue) x.(proc_pdn) x.(proc_upf) x.(pfcp_trans) x.(gtpc_trans) x.(gx_trans) x.(proc_msg) x.(child_procs_cnt) x.(child_procs) v.

(** A received message that procedures share. *)
Record msg_info_t := mk_msg {
  refCnt : Z; (* uint32_t *)
  msg_event : Z; (* event *)
  msg_proc : option ptr; (* proc_context *)
  msg_pdn : option ptr; (* pdn_context *)
  msg_type : Z; (* uint8_t *)
}.
Definition set_refCnt (v : Z) (x : msg_info_t) : msg_info_t :=
  mk_msg v x.(msg_event) x.(msg_proc) x.(msg_pdn) x.(msg_type).
Definition set_msg_event (v : Z) (x : msg_info_t) : msg_info_t :=
  mk_msg x.(refCnt) v x.(msg_proc) x.(msg_pdn) x.(msg_type).
Definition set_msg_proc (v : option ptr) (x : msg_info_t) : msg_info_t :=
  mk_msg x.(refCnt) x.(msg_event) v x.(msg_pdn) x.(msg_type).
Definition set_msg_type (v : Z) (x : msg_info_t) : msg_info_t :=
  mk_msg x.(refCnt) x.(msg_event) x.(msg_proc) x.(msg_pdn) v.

(** ** Transactions (src/cp/procedures/trans_struct.h, src/cp/cp_timer.h) *)

Definition DELAYED_DELETE : Z := 0x01.
Definition SELF_INITIATED : Z := 0x02.

(** The callbacks of a transaction timer, and that of the timer of a node. *)
Inductive retry_cb := RETRY_TRANSACTION | RETRY_PFCP_NODE | UPF_ASSOCIATION.

(** [ti_id] is the timer id of the system, 0 for none. *)
Record gstimerinfo_t := mk_timer { ti_id : Z; ti_cb : retry_cb; ti_ms : Z }.

(** A transaction; [timeout_function] is the address of the function. *)
Record transData_t := mk_trans {
  tr_flags : Z;
  tr_itr_cnt : Z; (* uint8_t *)
  tr_sequence : Z;
  tr_buf : list Z; (* the buf_len bytes of buf *)
  tr_cb_data : option ptr;
  tr_proc : option ptr; (* proc_context *)
  tr_rt : gstimerinfo_t;
  tr_timeout : Z; (* timeout_function *)
  tr_addr : Z; (* peer_sockaddr *)
  tr_port : Z;
}.
Definition set_tr_flags (v : Z) (x : transData_t) : transData_t :=
  mk_trans v x.(tr_itr_cnt) x.(tr_sequence) x.(tr_buf) x.(tr_cb_data) x.(tr_proc) x.(tr_rt) x.(tr_timeout) x.(tr_addr) x.(tr_port).
Definition set_tr_itr_cnt (v : Z) (x : transData_t) : transData_t :=
  mk_trans x.(tr_flags) v x.(tr_sequence) x.(tr_buf) x.(tr_cb_data) x.(tr_proc) x.(tr_rt) x.(tr_timeout) x.(tr_addr) x.(tr_port).
Definition set_tr_sequence (v : Z) (x : transData_t) : transData_t :=
  mk_trans x.(tr_flags) x.(tr_itr_cnt) v x.(tr_buf) x.(tr_cb_data) x.(tr_proc) x.(tr_rt) x.(tr_timeout) x.(tr_addr) x.(tr_port).
Definition set_tr_proc (v : option ptr) (x : transData_t) : transData_t :=
  mk_trans x.(tr_flags) x.(tr_itr_cnt) x.(tr_sequence) x.(tr_buf) x.(tr_cb_data) v x.(tr_rt) x.(tr_timeout) x.(tr_addr) x.(tr_port).
Definition set_tr_rt (v : gstimerinfo_t) (x : transData_t) : transData_t :=
  mk_trans x.(tr_flags) x.(tr_itr_cnt) x.(tr_sequence) x.(tr_buf) x.(tr_cb_data) x.(tr_proc) v x.(tr_timeout) x.(tr_addr) x.(tr_port).

(** ** Contexts (src/cp/ue.h, src/cp/pdn.h, src/cp/bearer.h) *)

Definition MAX_BEARERS : nat := 15.
Definition MAX_FILTERS_PER_UE : nat := 16.

Inductive UE_CONTEXT_STATE :=
| UE_STATE_UNKNOWN | UE_STATE_ACTIVE_PENDING | UE_STATE_ACTIVE | UE_STATE_IDLE_PENDING
| UE_STATE_IDLE | UE_STATE_DETACH_PENDING | UE_STATE_PAGING_PENDING | UE_STATE_DETACH.
Inductive PDN_CONTEXT_STATE :=
| PDN_STATE_UNKNOWN | PDN_STATE_ACTIVE_PENDING | PDN_STATE_ACTIVE | PDN_STATE_PAGING_PENDING
| PDN_STATE_DETACH_PENDING | PDN_STATE_IDLE_PENDING | PDN_STATE_IDLE | PDN_STATE_DETACH.

(** A UE context. *)
Record ue_context_t := mk_ue {
  ue_state : UE_CONTEXT_STATE;
  imsi : Z;
  imsi_len : Z;
  s11_sgw_gtpc_teid : Z;
  bearer_bitmap : Z; (* uint16_t *)
  teid_bitmap : Z; (* uint16_t *)
  num_pdns : Z; (* uint8_t *)
  ue_pdns : list (option ptr); (* pdns[MAX_BEARERS] *)
  ue_bearers : list (option ptr); (* eps_bearers[MAX_BEARERS] *)
  pending_sub_procs : list ptr; (* TAILQ *)
  ue_upf : option ptr; (* upf_context *)
}.
Definition set_ue_state (v : UE_CONTEXT_STATE) (x : ue_context_t) : ue_context_t :=
  mk_ue v x.(imsi) x.(imsi_len) x.(s11_sgw_gtpc_teid) x.(bearer_bitmap) x.(teid_bitmap) x.(num_pdns) x.(ue_pdns) x.(ue_bearers) x.(pending_sub_procs) x.(ue_upf).
Definition set_s11_sgw_gtpc_teid (v : Z) (x : ue_context_t) : ue_context_t :=
  mk_ue x.(ue_state) x.(imsi) x.(imsi_len) v x.(bearer_bitmap) x.(teid_bitmap) x.(num_pdns) x.(ue_pdns) x.(ue_bearers) x.(pending_sub_procs) x.(ue_upf).
Definition set_bearer_bitmap (v : Z) (x : ue_context_t) : ue_context_t :=
  mk_ue x.(ue_state) x.(imsi) x.(imsi_len) x.(s11_sgw_gtpc_teid) v x.(teid_bitmap) x.(num_pdns) x.(ue_pdns) x.(ue_bearers) x.(pending_sub_procs) x.(ue_upf).
Definition set_teid_bitmap (v : Z) (x : ue_context_t) : ue_context_t :=
  mk_ue x.(ue_state) x.(imsi) x.(imsi_len) x.(s11_sgw_gtpc_teid) x.(bearer_bitmap) v x.(num_pdns) x.(ue_pdns) x.(ue_bearers) x.(pending_sub_procs) x.(ue_upf).
Definition set_num_pdns (v : Z) (x : ue_context_t) : ue_context_t :=
  mk_ue x.(ue_state) x.(imsi) x.(imsi_len) x.(s11_sgw_gtpc_teid) x.(bearer_bitmap) x.(teid_bitmap) v x.(ue_pdns) x.(ue_bearers) x.(pending_sub_procs) x.(ue_upf).
Definition set_ue_pdns (v : list (option ptr)) (x : ue_context_t) : ue_context_t :=
  mk_ue x.(ue_state) x.(imsi) x.(imsi_len) x.(s11_sgw_gtpc_teid) x.(bearer_bitmap) x.(teid_bitmap) x.(num_pdns) v x.(ue_bearers) x.(pending_sub_procs) x.(ue_upf).
Definition set_ue_bearers (v : list (option ptr)) (x : ue_context_t) : ue_context_t :=
  mk_ue x.(ue_state) x.(imsi) x.(imsi_len) x.(s11_sgw_gtpc_teid) x.(bearer_bitmap) x.(teid_bitmap) x.(num_pdns) x.(ue_pdns) v x.(pending_sub_procs) x.(ue_upf).
Definition set_pending_sub_procs (v : list ptr) (x : ue_context_t) : ue_context_t :=
  mk_ue x.(ue_state) x.(imsi) x.(imsi_len) x.(s11_sgw_gtpc_teid) x.(bearer_bitmap) x.(teid_bitmap) x.(num_pdns) x.(ue_pdns) x.(ue_bearers) v x.(ue_upf).
Definition set_ue_upf (v : option ptr) (x : ue_context_t) : ue_context_t :=
  mk_ue x.(ue_state) x.(imsi) x.(imsi_len) x.(s11_sgw_gtpc_teid) x.(bearer_bitmap) x.(teid_bitmap) x.(num_pdns) x.(ue_pdns) x.(ue_bearers) x.(pending_sub_procs) v.

(** The quality of service of a bearer, with its allocation and retention priority. *)
Record bearer_qos_ie := mk_qos {
  qci : Z;
  preemption_vulnerability : Z;
  priority_level : Z;
  preemption_capability : Z;
}.

(** A rule of the policy server that is not installed yet, with its [dyn_rule]. *)
Inductive rule_action_t :=
| RULE_ACTION_INVALID | RULE_ACTION_ADD | RULE_ACTION_MODIFY | RULE_ACTION_DELETE | RULE_ACTION_MAX.
Record pcc_rule_t := mk_pcc_rule {
  pcc_flags : Z; pcc_action : rule_action_t; pcc_rule_name : string; pcc_qos : bearer_qos_ie;
}.

(** A PDN connection. *)
Record pdn_connection_t := mk_pdn {
  pdn_state : PDN_CONTEXT_STATE;
  call_id : Z;
  apn : list Z;
  apn_len : Z;
  seid : Z;
  pdn_ipv4 : Z; (* host order *)
  s5s8_pgw_gtpc_teid : Z;
  default_bearer_id : Z;
  num_bearer : Z; (* uint8_t *)
  pdn_context : option ptr; (* context *)
  pdn_bearers : list (option ptr); (* eps_bearers[MAX_BEARERS] *)
  gx_sess_id : string;
  pending_pcc_rules : list pcc_rule_t; (* TAILQ in policy *)
  pdn_flags : Z;
}.
Definition set_pdn_state (v : PDN_CONTEXT_STATE) (x : pdn_connection_t) : pdn_connection_t :=
  mk_pdn v x.(call_id) x.(apn) x.(apn_len) x.(seid) x.(pdn_ipv4) x.(s5s8_pgw_gtpc_teid) x.(default_bearer_id) x.(num_bearer) x.(pdn_context) x.(pdn_bearers) x.(gx_sess_id) x.(pending_pcc_rules) x.(pdn_flags).
Definition set_apn (v : list Z) (x : pdn_connection_t) : pdn_connection_t :=
  mk_pdn x.(pdn_state) x.(call_id) v x.(apn_len) x.(seid) x.(pdn_ipv4) x.(s5s8_pgw_gtpc_teid) x.(default_bearer_id) x.(num_bearer) x.(pdn_context) x.(pdn_bearers) x.(gx_sess_id) x.(pending_pcc_rules) x.(pdn_flags).
Definition set_apn_len (v : Z) (x : pdn_connection_t) : pdn_connection_t :=
  mk_pdn x.(pdn_state) x.(call_id) x.(apn) v x.(seid) x.(pdn_ipv4) x.(s5s8_pgw_gtpc_teid) x.(default_bearer_id) x.(num_bearer) x.(pdn_context) x.(pdn_bearers) x.(gx_sess_id) x.(pending_pcc_rules) x.(pdn_flags).
Definition set_pdn_ipv4 (v : Z) (x : pdn_connection_t) : pdn_connection_t :=
  mk_pdn x.(pdn_state) x.(call_id) x.(apn) x.(apn_len) x.(seid) v x.(s5s8_pgw_gtpc_teid) x.(default_bearer_id) x.(num_bearer) x.(pdn_context) x.(pdn_bearers) x.(gx_sess_id) x.(pending_pcc_rules) x.(pdn_flags).
Definition set_default_bearer_id (v : Z) (x : pdn_connection_t) : pdn_connection_t :=
  mk_pdn x.(pdn_state) x.(call_id) x.(apn) x.(apn_len) x.(seid) x.(pdn_ipv4) x.(s5s8_pgw_gtpc_teid) v x.(num_bearer) x.(pdn_context) x.(pdn_bearers) x.(gx_sess_id) x.(pending_pcc_rules) x.(pdn_flags).
Definition set_num_bearer (v : Z) (x : pdn_connection_t) : pdn_connection_t :=
  mk_pdn x.(pdn_state) x.(call_id) x.(apn) x.(apn_len) x.(seid) x.(pdn_ipv4) x.(s5s8_pgw_gtpc_teid) x.(default_bearer_id) v x.(pdn_context) x.(pdn_bearers) x.(gx_sess_id) x.(pending_pcc_rules) x.(pdn_flags).
Definition set_pdn_bearers (v : list (option ptr)) (x : pdn_connection_t) : pdn_connection_t :=
  mk_pdn x.(pdn_state) x.(call_id) x.(apn) x.(apn_len) x.(seid) x.(pdn_ipv4) x.(s5s8_pgw_gtpc_teid) x.(default_bearer_id) x.(num_bearer) x.(pdn_context) v x.(gx_sess_id) x.(pending_pcc_rules) x.(pdn_flags).
Definition set_pending_pcc_rules (v : list pcc_rule_t) (x : pdn_connection_t) : pdn_connection_t :=
  mk_pdn x.(pdn_state) x.(call_id) x.(apn) x.(apn_len) x.(seid) x.(pdn_ipv4) x.(s5s8_pgw_gtpc_teid) x.(default_bearer_id) x.(num_bearer) x.(pdn_context) x.(pdn_bearers) x.(gx_sess_id) v x.(pdn_flags).
Definition set_pdn_flags (v : Z) (x : pdn_connection_t) : pdn_connection_t :=
  mk_pdn x.(pdn_state) x.(call_id) x.(apn) x.(apn_len) x.(seid) x.(pdn_ipv4) x.(s5s8_pgw_gtpc_teid) x.(default_bearer_id) x.(num_bearer) x.(pdn_context) x.(pdn_bearers) x.(gx_sess_id) x.(pending_pcc_rules) v.

(** An EPS bearer. *)
Record eps_bearer_t := mk_bearer {
  eps_bearer_id : Z;
  pdrs : list (option Z); (* the first pdr_count of pdrs, by rule_id *)
  qer_ids : list Z; (* the first qer_count of qer_id *)
  qos : bearer_qos_ie;
  s1u_sgw_gtpu_teid : Z;
  s5s8_pgw_gtpu_teid : Z;
  bearer_pdn : option ptr; (* pdn *)
  packet_filter_map : list Z;
  dynamic_rules : list (option string); (* dynamic_rules[16], by rule_name *)
}.
Definition set_eps_bearer_id (v : Z) (x : eps_bearer_t) : eps_bearer_t :=
  mk_bearer v x.(pdrs) x.(qer_ids) x.(qos) x.(s1u_sgw_gtpu_teid) x.(s5s8_pgw_gtpu_teid) x.(bearer_pdn) x.(packet_filter_map) x.(dynamic_rules).
Definition set_bearer_pdn (v : option ptr) (x : eps_bearer_t) : eps_bearer_t :=
  mk_bearer x.(eps_bearer_id) x.(pdrs) x.(qer_ids) x.(qos) x.(s1u_sgw_gtpu_teid) x.(s5s8_pgw_gtpu_teid) v x.(packet_filter_map) x.(dynamic_rules).
Definition set_packet_filter_map (v : list Z) (x : eps_bearer_t) : eps_bearer_t :=
  mk_bearer x.(eps_bearer_id) x.(pdrs) x.(qer_ids) x.(qos) x.(s1u_sgw_gtpu_teid) x.(s5s8_pgw_gtpu_teid) x.(bearer_pdn) v x.(dynamic_rules).

(** ** User plane nodes (src/cp/upf_struct.h) *)

Definition PFCP_ASSOC_REQ_SNT_STATE : Z := 1.
Definition PFCP_ASSOC_RESP_RCVD_STATE : Z := 2.

(** A user plane node.  The procedures that wait for it are kept by the keys of a LIST. *)
Record upf_context_t := mk_upf {
  upf_addr : Z; (* upf_sockaddr.sin_addr.s_addr *)
  fqdn : string;
  up_supp_features : Z; (* uint16_t *)
  add_up_supp_features1 : Z; (* uint16_t *)
  add_up_supp_features2 : Z; (* uint16_t *)
  s1u_ip : Z;
  s5s8_pgwu_ip : Z;
  upf_state : Z; (* uint8_t *)
  upf_proc : option ptr; (* the association setup procedure *)
  upf_pt : gstimerinfo_t;
  upf_sub_procs : list ptr; (* pending_sub_procs, the procedures of the keys *)
  upf_node_procs : list ptr; (* pending_node_procs *)
  global_address : bool;
}.
Definition set_upf_addr (v : Z) (x : upf_context_t) : upf_context_t :=
  mk_upf v x.(fqdn) x.(up_supp_features) x.(add_up_supp_features1) x.(add_up_supp_features2) x.(s1u_ip) x.(s5s8_pgwu_ip) x.(upf_state) x.(upf_proc) x.(upf_pt) x.(upf_sub_procs) x.(upf_node_procs) x.(global_address).
Definition set_fqdn (v : string) (x : upf_context_t) : upf_context_t :=
  mk_upf x.(upf_addr) v x.(up_supp_features) x.(add_up_supp_features1) x.(add_up_supp_features2) x.(s1u_ip) x.(s5s8_pgwu_ip) x.(upf_state) x.(upf_proc) x.(upf_pt) x.(upf_sub_procs) x.(upf_node_procs) x.(global_address).
Definition set_up_supp_features (v : Z) (x : upf_context_t) : upf_context_t :=
  mk_upf x.(upf_addr) x.(fqdn) v x.(add_up_supp_features1) x.(add_up_supp_features2) x.(s1u_ip) x.(s5s8_pgwu_ip) x.(upf_state) x.(upf_proc) x.(upf_pt) x.(upf_sub_procs) x.(upf_node_procs) x.(global_address).
Definition set_add_up_supp_features1 (v : Z) (x : upf_context_t) : upf_context_t :=
  mk_upf x.(upf_addr) x.(fqdn) x.(up_supp_features) v x.(add_up_supp_features2) x.(s1u_ip) x.(s5s8_pgwu_ip) x.(upf_state) x.(upf_proc) x.(upf_pt) x.(upf_sub_procs) x.(upf_node_procs) x.(global_address).
Definition set_add_up_supp_features2 (v : Z) (x : upf_context_t) : upf_context_t :=
  mk_upf x.(upf_addr) x.(fqdn) x.(up_supp_features) x.(add_up_supp_features1) v x.(s1u_ip) x.(s5s8_pgwu_ip) x.(upf_state) x.(upf_proc) x.(upf_pt) x.(upf_sub_procs) x.(upf_node_procs) x.(global_address).
Definition set_s1u_ip (v : Z) (x : upf_context_t) : upf_context_t :=
  mk_upf x.(upf_addr) x.(fqdn) x.(up_supp_features) x.(add_up_supp_features1) x.(add_up_supp_features2) v x.(s5s8_pgwu_ip) x.(upf_state) x.(upf_proc) x.(upf_pt) x.(upf_sub_procs) x.(upf_node_procs) x.(global_address).
Definition set_s5s8_pgwu_ip (v : Z) (x : upf_context_t) : upf_context_t :=
  mk_upf x.(upf_addr) x.(fqdn) x.(up_supp_features) x.(add_up_supp_features1) x.(add_up_supp_features2) x.(s1u_ip) v x.(upf_state) x.(upf_proc) x.(upf_pt) x.(upf_sub_procs) x.(upf_node_procs) x.(global_address).
Definition set_upf_state (v : Z) (x : upf_context_t) : upf_context_t :=
  mk_upf x.(upf_addr) x.(fqdn) x.(up_supp_features) x.(add_up_supp_features1) x.(add_up_supp_features2) x.(s1u_ip) x.(s5s8_pgwu_ip) v x.(upf_proc) x.(upf_pt) x.(upf_sub_procs) x.(upf_node_procs) x.(global_address).
Definition set_upf_proc (v : option ptr) (x : upf_context_t) : upf_context_t :=
  mk_upf x.(upf_addr) x.(fqdn) x.(up_supp_features) x.(add_up_supp_features1) x.(add_up_supp_features2) x.(s1u_ip) x.(s5s8_pgwu_ip) x.(upf_state) v x.(upf_pt) x.(upf_sub_procs) x.(upf_node_procs) x.(global_address).
Definition set_upf_pt (v : gstimerinfo_t) (x : upf_context_t) : upf_context_t :=
  mk_upf x.(upf_addr) x.(fqdn) x.(up_supp_features) x.(add_up_supp_features1) x.(add_up_supp_features2) x.(s1u_ip) x.(s5s8_pgwu_ip) x.(upf_state) x.(upf_proc) v x.(upf_sub_procs) x.(upf_node_procs) x.(global_address).
Definition set_upf_sub_procs (v : list ptr) (x : upf_context_t) : upf_context_t :=
  mk_upf x.(upf_addr) x.(fqdn) x.(up_supp_features) x.(add_up_supp_features1) x.(add_up_supp_features2) x.(s1u_ip) x.(s5s8_pgwu_ip) x.(upf_state) x.(upf_proc) x.(upf_pt) v x.(upf_node_procs) x.(global_address).
Definition set_upf_node_procs (v : list ptr) (x : upf_context_t) : upf_context_t :=
  mk_upf x.(upf_addr) x.(fqdn) x.(up_supp_features) x.(add_up_supp_features1) x.(add_up_supp_features2) x.(s1u_ip) x.(s5s8_pgwu_ip) x.(upf_state) x.(upf_proc) x.(upf_pt) x.(upf_sub_procs) v x.(global_address).
Definition set_global_address (v : bool) (x : upf_context_t) : upf_context_t :=
  mk_upf x.(upf_addr) x.(fqdn) x.(up_supp_features) x.(add_up_supp_features1) x.(add_up_supp_features2) x.(s1u_ip) x.(s5s8_pgwu_ip) x.(upf_state) x.(upf_proc) x.(upf_pt) x.(upf_sub_procs) x.(upf_node_procs) v.

(** A zeroed allocation ([calloc]). *)
Definition zero_ue : ue_context_t :=
  mk_ue UE_STATE_UNKNOWN 0 0 0 0 0 0 (repeat None MAX_BEARERS) (repeat None MAX_BEARERS) [] None.
Definition zero_pdn : pdn_connection_t :=
  mk_pdn PDN_STATE_UNKNOWN 0 [] 0 0 0 0 0 0 None (repeat None MAX_BEARERS) EmptyString [] 0.
Definition zero_bearer : eps_bearer_t :=
  mk_bearer 0 [] [] (mk_qos 0 0 0 0) 0 0 None (repeat 0 MAX_FILTERS_PER_UE) (repeat None 16).
Definition zero_proc : proc_context_t :=
  mk_proc NONE_PROC 0 PROC_RESULT_SUCCESS None None None None None None None 0 (repeat None MAX_CHILD_PROC) None.
Definition zero_timer : gstimerinfo_t := mk_timer 0 RETRY_TRANSACTION 0.
Definition zero_upf : upf_context_t :=
  mk_upf 0 EmptyString 0 0 0 0 0 0 None zero_timer [] [] false.

(** ** The whole state *)

(** What the operations make happen outside the modelled state: a message sent
    again, a PFCP message sent, a timeout function called, the handler of a
    procedure called with its message, a Create Session Response with an error
    cause sent, a Re-Auth-Answer sent. *)
Inductive cp_action :=
| Resend (buf : list Z) (peer : Z)
| SendPfcp (buf : list Z) (peer : Z)
| CallTimeout (fn : Z) (arg : option ptr)
| CallHandler (p : ptr)
| CsErrorResponse (p : ptr) (cause : Z)
| SendRaa (sess_id : string) (r : proc_result).

(** A transaction is found by source address, source port and sequence number. *)
Abbreviation trans_key := (Z * Z * Z)%type.

(** The allocated objects. *)
Record heaps := mk_heaps {
  h_trans : gmap ptr transData_t;
  h_procs : gmap ptr proc_context_t;
  h_ues : gmap ptr ue_context_t;
  h_pdns : gmap ptr pdn_connection_t;
  h_bearers : gmap ptr eps_bearer_t;
  h_msgs : gmap ptr msg_info_t;
  h_upfs : gmap ptr upf_context_t;
}.
Definition set_h_trans (v : gmap ptr transData_t) (x : heaps) : heaps :=
  mk_heaps v x.(h_procs) x.(h_ues) x.(h_pdns) x.(h_bearers) x.(h_msgs) x.(h_upfs).
Definition set_h_procs (v : gmap ptr proc_context_t) (x : heaps) : heaps :=
  mk_heaps x.(h_trans) v x.(h_ues) x.(h_pdns) x.(h_bearers) x.(h_msgs) x.(h_upfs).
Definition set_h_ues (v : gmap ptr ue_context_t) (x : heaps) : heaps :=
  mk_heaps x.(h_trans) x.(h_procs) v x.(h_pdns) x.(h_bearers) x.(h_msgs) x.(h_upfs).
Definition set_h_pdns (v : gmap ptr pdn_connection_t) (x : heaps) : heaps :=
  mk_heaps x.(h_trans) x.(h_procs) x.(h_ues) v x.(h_bearers) x.(h_msgs) x.(h_upfs).
Definition set_h_bearers (v : gmap ptr eps_bearer_t) (x : heaps) : heaps :=
  mk_heaps x.(h_trans) x.(h_procs) x.(h_ues) x.(h_pdns) v x.(h_msgs) x.(h_upfs).
Definition set_h_msgs (v : gmap ptr msg_info_t) (x : heaps) : heaps :=
  mk_heaps x.(h_trans) x.(h_procs) x.(h_ues) x.(h_pdns) x.(h_bearers) v x.(h_upfs).
Definition set_h_upfs (v : gmap ptr upf_context_t) (x : heaps) : heaps :=
  mk_heaps x.(h_trans) x.(h_procs) x.(h_ues) x.(h_pdns) x.(h_bearers) x.(h_msgs) v.

(** The tables of src/cpplib. *)
Record tables := mk_tables {
  gtp_map : gmap trans_key ptr;
  pfcp_map : gmap trans_key ptr;
  gx_map : gmap Z ptr;
  ue_by_imsi : gmap Z ptr;
  ue_by_teid : gmap Z ptr;
  pdn_by_teid : gmap Z ptr;
  pdn_by_callid : gmap Z ptr;
  ue_by_seid : gmap Z ptr;
  ue_by_gxsess : gmap string ptr;
  qer_table : gmap Z unit;
  pdr_table : gmap Z unit;
  rule_table : gmap string Z;
  upf_by_ip : gmap Z ptr;
  upf_by_service : gmap string ptr;
}.
Definition set_gtp_map (v : gmap trans_key ptr) (x : tables) : tables :=
  mk_tables v x.(pfcp_map) x.(gx_map) x.(ue_by_imsi) x.(ue_by_teid) x.(pdn_by_teid) x.(pdn_by_callid) x.(ue_by_seid) x.(ue_by_gxsess) x.(qer_table) x.(pdr_table) x.(rule_table) x.(upf_by_ip) x.(upf_by_service).
Definition set_pfcp_map (v : gmap trans_key ptr) (x : tables) : tables :=
  mk_tables x.(gtp_map) v x.(gx_map) x.(ue_by_imsi) x.(ue_by_teid) x.(pdn_by_teid) x.(pdn_by_callid) x.(ue_by_seid) x.(ue_by_gxsess) x.(qer_table) x.(pdr_table) x.(rule_table) x.(upf_by_ip) x.(upf_by_service).
Definition set_gx_map (v : gmap Z ptr) (x : tables) : tables :=
  mk_tables x.(gtp_map) x.(pfcp_map) v x.(ue_by_imsi) x.(ue_by_teid) x.(pdn_by_teid) x.(pdn_by_callid) x.(ue_by_seid) x.(ue_by_gxsess) x.(qer_table) x.(pdr_table) x.(rule_table) x.(upf_by_ip) x.(upf_by_service).
Definition set_ue_by_imsi (v : gmap Z ptr) (x : tables) : tables :=
  mk_tables x.(gtp_map) x.(pfcp_map) x.(gx_map) v x.(ue_by_teid) x.(pdn_by_teid) x.(pdn_by_callid) x.(ue_by_seid) x.(ue_by_gxsess) x.(qer_table) x.(pdr_table) x.(rule_table) x.(upf_by_ip) x.(upf_by_service).
Definition set_ue_by_teid (v : gmap Z ptr) (x : tables) : tables :=
  mk_tables x.(gtp_map) x.(pfcp_map) x.(gx_map) x.(ue_by_imsi) v x.(pdn_by_teid) x.(pdn_by_callid) x.(ue_by_seid) x.(ue_by_gxsess) x.(qer_table) x.(pdr_table) x.(rule_table) x.(upf_by_ip) x.(upf_by_service).
Definition set_pdn_by_teid (v : gmap Z ptr) (x : tables) : tables :=
  mk_tables x.(gtp_map) x.(pfcp_map) x.(gx_map) x.(ue_by_imsi) x.(ue_by_teid) v x.(pdn_by_callid) x.(ue_by_seid) x.(ue_by_gxsess) x.(qer_table) x.(pdr_table) x.(rule_table) x.(upf_by_ip) x.(upf_by_service).
Definition set_pdn_by_callid (v : gmap Z ptr) (x : tables) : tables :=
  mk_tables x.(gtp_map) x.(pfcp_map) x.(gx_map) x.(ue_by_imsi) x.(ue_by_teid) x.(pdn_by_teid) v x.(ue_by_seid) x.(ue_by_gxsess) x.(qer_table) x.(pdr_table) x.(rule_table) x.(upf_by_ip) x.(upf_by_service).
Definition set_ue_by_seid (v : gmap Z ptr) (x : tables) : tables :=
  mk_tables x.(gtp_map) x.(pfcp_map) x.(gx_map) x.(ue_by_imsi) x.(ue_by_teid) x.(pdn_by_teid) x.(pdn_by_callid) v x.(ue_by_gxsess) x.(qer_table) x.(pdr_table) x.(rule_table) x.(upf_by_ip) x.(upf_by_service).
Definition set_ue_by_gxsess (v : gmap string ptr) (x : tables) : tables :=
  mk_tables x.(gtp_map) x.(pfcp_map) x.(gx_map) x.(ue_by_imsi) x.(ue_by_teid) x.(pdn_by_teid) x.(pdn_by_callid) x.(ue_by_seid) v x.(qer_table) x.(pdr_table) x.(rule_table) x.(upf_by_ip) x.(upf_by_service).
Definition set_qer_table (v : gmap Z unit) (x : tables) : tables :=
  mk_tables x.(gtp_map) x.(pfcp_map) x.(gx_map) x.(ue_by_imsi) x.(ue_by_teid) x.(pdn_by_teid) x.(pdn_by_callid) x.(ue_by_seid) x.(ue_by_gxsess) v x.(pdr_table) x.(rule_table) x.(upf_by_ip) x.(upf_by_service).
Definition set_pdr_table (v : gmap Z unit) (x : tables) : tables :=
  mk_tables x.(gtp_map) x.(pfcp_map) x.(gx_map) x.(ue_by_imsi) x.(ue_by_teid) x.(pdn_by_teid) x.(pdn_by_callid) x.(ue_by_seid) x.(ue_by_gxsess) x.(qer_table) v x.(rule_table) x.(upf_by_ip) x.(upf_by_service).
Definition set_rule_table (v : gmap string Z) (x : tables) : tables :=
  mk_tables x.(gtp_map) x.(pfcp_map) x.(gx_map) x.(ue_by_imsi) x.(ue_by_teid) x.(pdn_by_teid) x.(pdn_by_callid) x.(ue_by_seid) x.(ue_by_gxsess) x.(qer_table) x.(pdr_table) v x.(upf_by_ip) x.(upf_by_service).
Definition set_upf_by_ip (v : gmap Z ptr) (x : tables) : tables :=
  mk_tables x.(gtp_map) x.(pfcp_map) x.(gx_map) x.(ue_by_imsi) x.(ue_by_teid) x.(pdn_by_teid) x.(pdn_by_callid) x.(ue_by_seid) x.(ue_by_gxsess) x.(qer_table) x.(pdr_table) x.(rule_table) v x.(upf_by_service).
Definition set_upf_by_service (v : gmap string ptr) (x : tables) : tables :=
  mk_tables x.(gtp_map) x.(pfcp_map) x.(gx_map) x.(ue_by_imsi) x.(ue_by_teid) x.(pdn_by_teid) x.(pdn_by_callid) x.(ue_by_seid) x.(ue_by_gxsess) x.(qer_table) x.(pdr_table) x.(rule_table) x.(upf_by_ip) v.

(** An event for a user plane node that waits in the queue of the main loop. *)
Inductive stack_event :=
| UPF_CONNECTION_SETUP_SUCCESS (upf : ptr)
| UPF_CONNECTION_SETUP_FAILED (upf : ptr)
| UPF_ASSOCIATION_SETUP (upf : option ptr).
#[global] Instance stack_event_eq_dec : EqDecision stack_event.
Proof. solve_decision. Defined.

(** The answers the system will give, in order. *)
Record oracle := mk_oracle {
  or_dns : list Z; (* addresses names resolve to, 0 for none *)
  or_rand : list Z; (* rand() *)
  or_tids : list (option Z); (* timer_create *)
  or_set : list bool; (* timer_settime *)
  or_mem : list bool; (* calloc *)
}.
Definition set_or_dns (v : list Z) (x : oracle) : oracle :=
  mk_oracle v x.(or_rand) x.(or_tids) x.(or_set) x.(or_mem).
Definition set_or_rand (v : list Z) (x : oracle) : oracle :=
  mk_oracle x.(or_dns) v x.(or_tids) x.(or_set) x.(or_mem).
Definition set_or_tids (v : list (option Z)) (x : oracle) : oracle :=
  mk_oracle x.(or_dns) x.(or_rand) v x.(or_set) x.(or_mem).
Definition set_or_set (v : list bool) (x : oracle) : oracle :=
  mk_oracle x.(or_dns) x.(or_rand) x.(or_tids) v x.(or_mem).
Definition set_or_mem (v : list bool) (x : oracle) : oracle :=
  mk_oracle x.(or_dns) x.(or_rand) x.(or_tids) x.(or_set) v.

(** What the operations on user plane nodes use besides. *)
Record node_state := mk_nodes {
  peers : peer_state; (* the supervised peers *)
  recov_times : gmap Z Z; (* of the peers, by address *)
  stack_events : list stack_event;
  assoc_timer : gstimerinfo_t; (* the static timer for all nodes *)
  answers : oracle;
}.
Definition set_peers (v : peer_state) (x : node_state) : node_state :=
  mk_nodes v x.(recov_times) x.(stack_events) x.(assoc_timer) x.(answers).
Definition set_recov_times (v : gmap Z Z) (x : node_state) : node_state :=
  mk_nodes x.(peers) v x.(stack_events) x.(assoc_timer) x.(answers).
Definition set_stack_events (v : list stack_event) (x : node_state) : node_state :=
  mk_nodes x.(peers) x.(recov_times) v x.(assoc_timer) x.(answers).
Definition set_assoc_timer (v : gstimerinfo_t) (x : node_state) : node_state :=
  mk_nodes x.(peers) x.(recov_times) x.(stack_events) v x.(answers).
Definition set_answers (v : oracle) (x : node_state) : node_state :=
  mk_nodes x.(peers) x.(recov_times) x.(stack_events) x.(assoc_timer) v.

Definition no_peers : peer_state := mk_peers ∅ 0%nat [] 0 0 0 0 0 0 [].
Definition no_answers : oracle := mk_oracle [] [] [] [] [].
Definition no_nodes : node_state := mk_nodes no_peers ∅ [] zero_timer no_answers.

(** The state the operations thread. *)
Record cp := mk_cp {
  heap : heaps;
  tabs : tables;
  timers : gmap Z bool; (* existing timers, true when running *)
  free_queue : list ptr; (* transactions to be freed *)
  cp_pools : pools;
  cp_teids : teid_globals; (* the counters of ue.c *)
  next_ptr : ptr;
  nodes : node_state;
  trace : list cp_action;
}.
Definition set_heap (v : heaps) (x : cp) : cp :=
  mk_cp v x.(tabs) x.(timers) x.(free_queue) x.(cp_pools) x.(cp_teids) x.(next_ptr) x.(nodes) x.(trace).
Definition set_tabs (v : tables) (x : cp) : cp :=
  mk_cp x.(heap) v x.(timers) x.(free_queue) x.(cp_pools) x.(cp_teids) x.(next_ptr) x.(nodes) x.(trace).
Definition set_timers (v : gmap Z bool) (x : cp) : cp :=
  mk_cp x.(heap) x.(tabs) v x.(free_queue) x.(cp_pools) x.(cp_teids) x.(next_ptr) x.(nodes) x.(trace).
Definition set_free_queue (v : list ptr) (x : cp) : cp :=
  mk_cp x.(heap) x.(tabs) x.(timers) v x.(cp_pools) x.(cp_teids) x.(next_ptr) x.(nodes) x.(trace).
Definition set_cp_pools (v : pools) (x : cp) : cp :=
  mk_cp x.(heap) x.(tabs) x.(timers) x.(free_queue) v x.(cp_teids) x.(next_ptr) x.(nodes) x.(trace).
Definition set_cp_teids (v : teid_globals) (x : cp) : cp :=
  mk_cp x.(heap) x.(tabs) x.(timers) x.(free_queue) x.(cp_pools) v x.(next_ptr) x.(nodes) x.(trace).
Definition set_next_ptr (v : ptr) (x : cp) : cp :=
  mk_cp x.(heap) x.(tabs) x.(timers) x.(free_queue) x.(cp_pools) x.(cp_teids) v x.(nodes) x.(trace).
Definition set_nodes (v : node_state) (x : cp) : cp :=
  mk_cp x.(heap) x.(tabs) x.(timers) x.(free_queue) x.(cp_pools) x.(cp_teids) x.(next_ptr) v x.(trace).
Definition set_trace (v : list cp_action) (x : cp) : cp :=
  mk_cp x.(heap) x.(tabs) x.(timers) x.(free_queue) x.(cp_pools) x.(cp_teids) x.(next_ptr) x.(nodes) v.

(** The addresses the control plane sends from, its role and its other settings;
    [start_time] is the time of its start. *)
Record cp_config_t := mk_config {
  cp_type : cp_type_t; s11_addr : Z; s11_port : Z; pfcp_addr : Z; pfcp_port : Z; request_timeout : Z;
  transmit_cnt : Z; pfcp_hb_ts_fail : bool; start_time : Z;
}.

(** ** The monad *)

Definition cpM (A : Type) : Type := cp -> option (A * cp).
#[global] Instance cpM_ret : MRet cpM := fun A x s => Some (x, s).
#[global] Instance cpM_bind : MBind cpM := fun A B k m s =>
  match m s with Some (x, s') => k x s' | None => None end.

Definition crash {A} : cpM A := fun _ => None.
Definition gets {A} (f : cp -> A) : cpM A := fun s => Some (f s, s).
Definition modify (f : cp -> cp) : cpM unit := fun s => Some (tt, f s).
Definition assert_ (b : bool) : cpM unit := if b then mret tt else crash.
(** A pointer that is followed. *)
Definition nonnull {A} (o : option A) : cpM A := match o with Some x => mret x | None => crash end.

Definition on_heap (f : heaps -> heaps) (s : cp) : cp := set_heap (f s.(heap)) s.
Definition on_tabs (f : tables -> tables) (s : cp) : cp := set_tabs (f s.(tabs)) s.
Definition on_nodes (f : node_state -> node_state) (s : cp) : cp := set_nodes (f s.(nodes)) s.
Definition emit (a : cp_action) : cpM unit := modify (fun s => set_trace (s.(trace) ++ [a]) s).


Definition load_trans (p : ptr) : cpM transData_t := fun s => x ← s.(heap).(h_trans) !! p; Some (x, s).
Definition update_trans (p : ptr) (f : transData_t -> transData_t) : cpM unit := fun s =>
  x ← s.(heap).(h_trans) !! p; Some (tt, on_heap (fun h => set_h_trans (<[p := f x]> h.(h_trans)) h) s).
Definition free_trans (p : ptr) : cpM unit := fun s =>
  _ ← s.(heap).(h_trans) !! p; Some (tt, on_heap (fun h => set_h_trans (delete p h.(h_trans)) h) s).

Definition load_proc (p : ptr) : cpM proc_context_t := fun s => x ← s.(heap).(h_procs) !! p; Some (x, s).
Definition update_proc (p : ptr) (f : proc_context_t -> proc_context_t) : cpM unit := fun s =>
  x ← s.(heap).(h_procs) !! p; Some (tt, on_heap (fun h => set_h_procs (<[p := f x]> h.(h_procs)) h) s).
Definition free_proc (p : ptr) : cpM unit := fun s =>
  _ ← s.(heap).(h_procs) !! p; Some (tt, on_heap (fun h => set_h_procs (delete p h.(h_procs)) h) s).

Definition load_ue (p : ptr) : cpM ue_context_t := fun s => x ← s.(heap).(h_ues) !! p; Some (x, s).
Definition update_ue (p : ptr) (f : ue_context_t -> ue_context_t) : cpM unit := fun s =>
  x ← s.(heap).(h_ues) !! p; Some (tt, on_heap (fun h => set_h_ues (<[p := f x]> h.(h_ues)) h) s).
Definition free_ue (p : ptr) : cpM unit := fun s =>
  _ ← s.(heap).(h_ues) !! p; Some (tt, on_heap (fun h => set_h_ues (delete p h.(h_ues)) h) s).

Definition load_pdn (p : ptr) : cpM pdn_connection_t := fun s => x ← s.(heap).(h_pdns) !! p; Some (x, s).
Definition update_pdn (p : ptr) (f : pdn_connection_t -> pdn_connection_t) : cpM unit := fun s =>
  x ← s.(heap).(h_pdns) !! p; Some (tt, on_heap (fun h => set_h_pdns (<[p := f x]> h.(h_pdns)) h) s).
Definition free_pdn (p : ptr) : cpM unit := fun s =>
  _ ← s.(heap).(h_pdns) !! p; Some (tt, on_heap (fun h => set_h_pdns (delete p h.(h_pdns)) h) s).

Definition load_bearer (p : ptr) : cpM eps_bearer_t := fun s => x ← s.(heap).(h_bearers) !! p; Some (x, s).
Definition update_bearer (p : ptr) (f : eps_bearer_t -> eps_bearer_t) : cpM unit := fun s =>
  x ← s.(heap).(h_bearers) !! p; Some (tt, on_heap (fun h => set_h_bearers (<[p := f x]> h.(h_bearers)) h) s).
Definition free_bearer (p : ptr) : cpM unit := fun s =>
  _ ← s.(heap).(h_bearers) !! p; Some (tt, on_heap (fun h => set_h_bearers (delete p h.(h_bearers)) h) s).

Definition load_msg (p : ptr) : cpM msg_info_t := fun s => x ← s.(heap).(h_msgs) !! p; Some (x, s).
Definition update_msg (p : ptr) (f : msg_info_t -> msg_info_t) : cpM unit := fun s =>
  x ← s.(heap).(h_msgs) !! p; Some (tt, on_heap (fun h => set_h_msgs (<[p := f x]> h.(h_msgs)) h) s).
Definition free_msg (p : ptr) : cpM unit := fun s =>
  _ ← s.(heap).(h_msgs) !! p; Some (tt, on_heap (fun h => set_h_msgs (delete p h.(h_msgs)) h) s).

Definition load_upf (p : ptr) : cpM upf_context_t := fun s => x ← s.(heap).(h_upfs) !! p; Some (x, s).
Definition update_upf (p : ptr) (f : upf_context_t -> upf_context_t) : cpM unit := fun s =>
  x ← s.(heap).(h_upfs) !! p; Some (tt, on_heap (fun h => set_h_upfs (<[p := f x]> h.(h_upfs)) h) s).
Definition free_upf (p : ptr) : cpM unit := fun s =>
  _ ← s.(heap).(h_upfs) !! p; Some (tt, on_heap (fun h => set_h_upfs (delete p h.(h_upfs)) h) s).

(** [calloc] of a new object. *)
Definition alloc (put : ptr -> heaps -> heaps) : cpM ptr := fun s =>
  let p := s.(next_ptr) in Some (p, set_next_ptr (Pos.succ p) (on_heap (put p) s)).
