(* ===== verification/Transactions.v ===== *)
(** * Transactions and their timers (src/cp/cp_transactions.c, src/cp/cp_timer.c)

    Tables of outstanding requests, retransmission and timeout, and the release
    of a transaction: it is unlinked, its timer stopped, and the memory freed
    later by a separate thread.  The answers of the system to [timer_create] and
    [timer_settime] are arguments. *)

From stdpp Require Import gmap strings.
From S2P Require Import Prelude IpPool Teid CpState.

(** ** Tables (src/cpplib/spgw_tables.cpp) *)

(** [std::map::insert]: an entry that exists stays. *)
Definition map_insert {K A} `{Countable K} (k : K) (v : A) (m : gmap K A) : gmap K A :=
  match m !! k with Some _ => m | None => <[k := v]> m end.

Definition add_pfcp_trans (addr port seq : Z) (t : ptr) : cpM bool :=
  _ ← modify (on_tabs (fun x => set_pfcp_map (map_insert (addr, port, seq) t x.(pfcp_map)) x)); mret true.
Definition find_pfcp_trans (addr port seq : Z) : cpM (option ptr) :=
  gets (fun s => s.(tabs).(pfcp_map) !! (addr, port, seq)).
Definition delete_pfcp_trans (addr port seq : Z) : cpM (option ptr) :=
  t ← find_pfcp_trans addr port seq;
  _ ← modify (on_tabs (fun x => set_pfcp_map (delete (addr, port, seq) x.(pfcp_map)) x)); mret t.

Definition add_gtp_trans (addr port seq : Z) (t : ptr) : cpM bool :=
  _ ← modify (on_tabs (fun x => set_gtp_map (map_insert (addr, port, seq) t x.(gtp_map)) x)); mret true.
Definition find_gtp_trans (addr port seq : Z) : cpM (option ptr) :=
  gets (fun s => s.(tabs).(gtp_map) !! (addr, port, seq)).
Definition delete_gtp_trans (addr port seq : Z) : cpM (option ptr) :=
  t ← find_gtp_trans addr port seq;
  _ ← modify (on_tabs (fun x => set_gtp_map (delete (addr, port, seq) x.(gtp_map)) x)); mret t.

Definition add_gx_trans (seq : Z) (t : ptr) : cpM bool :=
  _ ← modify (on_tabs (fun x => set_gx_map (map_insert seq t x.(gx_map)) x)); mret true.
Definition find_gx_trans (seq : Z) : cpM (option ptr) := gets (fun s => s.(tabs).(gx_map) !! seq).
Definition delete_gx_trans (seq : Z) : cpM (option ptr) :=
  t ← find_gx_trans seq;
  _ ← modify (on_tabs (fun x => set_gx_map (delete seq x.(gx_map)) x)); mret t.

(** ** Timers (src/cp/cp_timer.c) *)

(** [init_timer]: [tid] is the id [timer_create] gives, [None] when it fails. *)
Definition init_timer (tid : option Z) (t : ptr) (ms : Z) (cb : retry_cb) : cpM bool :=
  tr ← load_trans t;
  match tid with
  | Some id =>
      _ ← update_trans t (set_tr_rt (mk_timer id cb ms));
      _ ← modify (fun s => set_timers (<[id := false]> s.(timers)) s);
      mret true
  | None => _ ← update_trans t (set_tr_rt (mk_timer tr.(tr_rt).(ti_id) cb ms)); mret false
  end.

(** [starttimer]: [ok] is the answer of [timer_settime]. *)
Definition starttimer (ok : bool) (t : ptr) : cpM bool :=
  tr ← load_trans t;
  _ ← (if ok then modify (fun s => set_timers (<[tr.(tr_rt).(ti_id) := true]> s.(timers)) s) else mret tt);
  mret ok.

Definition stoptimer (tid : Z) : cpM unit :=
  modify (fun s => set_timers (alter (fun _ => false) tid s.(timers)) s).
Definition deinittimer (tid : Z) : cpM unit :=
  modify (fun s => set_timers (delete tid s.(timers)) s).

(** ** Start of a transaction *)

(** [calloc] can fail, in which case NULL is returned.  The result of
    [starttimer] is compared with [< 0], which a [bool] never is. *)
Definition start_transaction_timer (cfg : cp_config_t) (mem : bool) (tid : option Z) (ok : bool)
    (cb_data : option ptr) (buf : list Z) (cb_timeout : Z) (cb_retry : retry_cb) : cpM (option ptr) :=
  if mem then
    t ← alloc (fun p h => set_h_trans (<[p := mk_trans 0 0 0 buf cb_data None (mk_timer 0 cb_retry 0)
                                        cb_timeout 0 0]> h.(h_trans)) h);
    created ← init_timer tid t cfg.(request_timeout) cb_retry;
    if created : bool then _ ← starttimer ok t; mret (Some t) else mret None
  else mret None.

Definition start_response_wait_timer cfg mem tid ok context buf cb :=
  start_transaction_timer cfg mem tid ok context buf cb RETRY_TRANSACTION.
Definition start_pfcp_response_wait_timer cfg mem tid ok context buf cb :=
  start_transaction_timer cfg mem tid ok context buf cb RETRY_PFCP_NODE.

Definition restart_response_wait_timer (cfg : cp_config_t) (tid : option Z) (ok : bool) (t : ptr)
    : cpM (option ptr) :=
  created ← init_timer tid t cfg.(request_timeout) RETRY_TRANSACTION;
  if created : bool then _ ← starttimer ok t; mret (Some t) else mret None.

(** ** Retry and timeout *)

Definition stop_transaction_timer (t : ptr) : cpM unit :=
  tr ← load_trans t;
  let rt := tr.(tr_rt) in
  if nz rt.(ti_id) then
    _ ← stoptimer rt.(ti_id);
    _ ← deinittimer rt.(ti_id);
    update_trans t (set_tr_rt (mk_timer 0 rt.(ti_cb) rt.(ti_ms)))
  else mret tt.

Definition is_transaction_timer_started (t : ptr) : cpM bool :=
  tr ← load_trans t; mret (nz tr.(tr_rt).(ti_id)).

Definition IS_TRANS_DELAYED_DELETE (tr : transData_t) : bool := nz (Z.land tr.(tr_flags) DELAYED_DELETE).
Definition IS_TRANS_SELF_INITIATED (tr : transData_t) : bool := nz (Z.land tr.(tr_flags) SELF_INITIATED).

(** [pfcp_timer_retry_send] without packet capture; a short send is logged. *)
Definition pfcp_timer_retry_send (tr : transData_t) (peer : Z) : cpM unit := emit (Resend tr.(tr_buf) peer).

Definition pfcp_node_transaction_retry_callback (t : ptr) : cpM unit :=
  tr ← load_trans t;
  if 3 <=? tr.(tr_itr_cnt) then
    _ ← stop_transaction_timer t;
    emit (CallTimeout tr.(tr_timeout) (Some t))
  else
    upf ← nonnull tr.(tr_cb_data);
    upf_context ← load_upf upf;
    _ ← pfcp_timer_retry_send tr upf_context.(upf_addr);
    update_trans t (set_tr_itr_cnt (u8 (tr.(tr_itr_cnt) + 1))).

Definition transaction_retry_callback (t : ptr) : cpM unit :=
  tr ← load_trans t;
  if IS_TRANS_DELAYED_DELETE tr then mret tt
  else
    _ ← stop_transaction_timer t;
    emit (CallTimeout tr.(tr_timeout) tr.(tr_cb_data)).

(** ** Release of a transaction *)

Definition delayed_free (t : ptr) : cpM unit :=
  tr ← load_trans t;
  if IS_TRANS_DELAYED_DELETE tr then mret tt
  else
    _ ← update_trans t (set_tr_flags (Z.lor tr.(tr_flags) DELAYED_DELETE));
    modify (fun s => set_free_queue (s.(free_queue) ++ [t]) s).

(** The [proc != NULL] test at the end. *)
Definition unlink (proc : option ptr) (f : proc_context_t -> proc_context_t) : cpM unit :=
  match proc with Some p => update_proc p f | None => mret tt end.

Definition cleanup_gtpc_trans (cfg : cp_config_t) (t : ptr) : cpM unit :=
  tr ← load_trans t;
  '(addr, port) ←
    (if IS_TRANS_SELF_INITIATED tr then mret (cfg.(s11_addr), cfg.(s11_port))
     else
       p ← nonnull tr.(tr_proc);
       proc ← load_proc p;
       t' ← nonnull proc.(gtpc_trans);
       tr' ← load_trans t';
       mret (tr'.(tr_addr), tr'.(tr_port)));
  found ← delete_gtp_trans addr port tr.(tr_sequence);
  _ ← assert_ (match found with Some t' => bool_decide (t = t') | None => true end);
  _ ← stop_transaction_timer t;
  _ ← delayed_free t;
  unlink tr.(tr_proc) (set_gtpc_trans None).

Definition cleanup_pfcp_trans (cfg : cp_config_t) (t : ptr) : cpM unit :=
  tr ← load_trans t;
  let '(addr, port) :=
    if IS_TRANS_SELF_INITIATED tr then (cfg.(pfcp_addr), cfg.(pfcp_port)) else (tr.(tr_addr), tr.(tr_port)) in
  found ← delete_pfcp_trans addr port tr.(tr_sequence);
  _ ← assert_ (match found with Some t' => bool_decide (t = t') | None => true end);
  _ ← stop_transaction_timer t;
  _ ← delayed_free t;
  unlink tr.(tr_proc) (set_pfcp_trans None).

Definition cleanup_gx_trans (t : ptr) : cpM unit :=
  tr ← load_trans t;
  found ← delete_gx_trans tr.(tr_sequence);
  _ ← assert_ (match found with Some t' => bool_decide (t = t') | None => true end);
  _ ← stop_transaction_timer t;
  _ ← delayed_free t;
  unlink tr.(tr_proc) (set_gx_trans None).

(** One round of the thread that frees ([delayed_task_handler]): the first entry
    of the queue. *)
Definition free_delayed : cpM unit :=
  q ← gets free_queue;
  match q with
  | [] => mret tt
  | t :: rest => _ ← modify (set_free_queue rest); free_trans t
  end.

(** ** Running the operations *)

Abbreviation transs s := (h_trans (heap s)).
Abbreviation procs s := (h_procs (heap s)).

Definition put_trans (t : ptr) (tr : transData_t) (s : cp) : cp :=
  on_heap (fun h => set_h_trans (<[t := tr]> h.(h_trans)) h) s.
Definition put_proc (p : ptr) (pc : proc_context_t) (s : cp) : cp :=
  on_heap (fun h => set_h_procs (<[p := pc]> h.(h_procs)) h) s.

(** The transaction after its timer was stopped, and marked for deletion. *)
Definition timer_cleared (tr : transData_t) : transData_t :=
  set_tr_rt (mk_timer (if nz tr.(tr_rt).(ti_id) then 0 else tr.(tr_rt).(ti_id)) tr.(tr_rt).(ti_cb) tr.(tr_rt).(ti_ms)) tr.
Definition marked (tr : transData_t) : transData_t :=
  set_tr_flags (Z.lor tr.(tr_flags) DELAYED_DELETE) (timer_cleared tr).

Lemma timer_cleared_id tr : tr.(tr_rt).(ti_id) = 0 -> timer_cleared tr = tr.
Proof. intros H. destruct tr as [? ? ? ? ? ? [] ? ? ?]; cbn in *; subst. reflexivity. Qed.

Lemma nz_true v : nz v = true -> v ≠ 0.
Proof. unfold nz. destruct (Z.eqb_spec v 0); done. Qed.
Lemma nz_false v : nz v = false -> v = 0.
Proof. unfold nz. destruct (Z.eqb_spec v 0); done. Qed.

Lemma mbind_eq {A B} (m : cpM A) (k : A -> cpM B) s x s' :
  m s = Some (x, s') -> (m ≫= k) s = k x s'.
Proof. intros E. unfold mbind, cpM_bind. by rewrite E. Qed.

Lemma load_trans_eq t s tr : transs s !! t = Some tr -> load_trans t s = Some (tr, s).
Proof. intros E. unfold load_trans. by rewrite E. Qed.
Lemma load_proc_eq p s pc : procs s !! p = Some pc -> load_proc p s = Some (pc, s).
Proof. intros E. unfold load_proc. by rewrite E. Qed.
Lemma update_trans_eq t s tr f : transs s !! t = Some tr ->
  update_trans t f s = Some (tt, put_trans t (f tr) s).
Proof. intros E. unfold update_trans. by rewrite E. Qed.
Lemma update_proc_eq p s pc f : procs s !! p = Some pc ->
  update_proc p f s = Some (tt, put_proc p (f pc) s).
Proof. intros E. unfold update_proc. by rewrite E. Qed.

(** One statement of an operation whose effect is known by [E]. *)
Ltac step E := rewrite (mbind_eq _ _ _ _ _ E); cbn beta iota.

Lemma delete_alter_eq {A} (f : A -> A) (i : Z) (m : gmap Z A) : delete i (alter f i m) = delete i m.
Proof.
  apply map_eq. intros j. destruct (decide (j = i)) as [->|Hne].
  - by rewrite !lookup_delete_eq.
  - by rewrite !lookup_delete_ne, lookup_alter_ne by done.
Qed.

(** The state after the timer of [t] was stopped. *)
Definition after_stop (t : ptr) (tr : transData_t) (s : cp) : cp :=
  if nz tr.(tr_rt).(ti_id) then
    put_trans t (timer_cleared tr) (set_timers (delete tr.(tr_rt).(ti_id) s.(timers)) s)
  else s.

Lemma stop_transaction_timer_eq t s tr : transs s !! t = Some tr ->
  stop_transaction_timer t s = Some (tt, after_stop t tr s).
Proof.
  intros E. unfold stop_transaction_timer, after_stop. step (load_trans_eq t s tr E).
  destruct (nz (ti_id (tr_rt tr))) eqn:Hn; [|done].
  unfold stoptimer, deinittimer, modify. unfold mbind at 1, cpM_bind.
  unfold mbind, cpM_bind. rewrite (update_trans_eq t _ tr); [|exact E].
  unfold timer_cleared. rewrite Hn. cbn [set_timers timers]. by rewrite delete_alter_eq.
Qed.

Lemma after_stop_trans t tr s : transs s !! t = Some tr ->
  transs (after_stop t tr s) = <[t := timer_cleared tr]> (transs s) ∧
  procs (after_stop t tr s) = procs s ∧ tabs (after_stop t tr s) = tabs s ∧
  free_queue (after_stop t tr s) = free_queue s ∧ trace (after_stop t tr s) = trace s.
Proof.
  intros E. unfold after_stop. destruct (nz _) eqn:Hn; [done|]. apply nz_false in Hn.
  rewrite timer_cleared_id by done. split_and!; auto. by rewrite insert_id.
Qed.

(** What releasing a transaction does: [m] is the table update. *)
Definition after_release (t : ptr) (tr : transData_t) (s : cp) : cp :=
  set_free_queue (s.(free_queue) ++ [t]) (put_trans t (marked tr) (after_stop t tr s)).

Lemma release_eq t s tr : transs s !! t = Some tr -> IS_TRANS_DELAYED_DELETE tr = false ->
  (_ ← stop_transaction_timer t; delayed_free t) s = Some (tt, after_release t tr s).
Proof.
  intros E Hd. step (stop_transaction_timer_eq t s tr E).
  destruct (after_stop_trans t tr s E) as (Et & _ & _ & Eq & _).
  unfold delayed_free. assert (transs (after_stop t tr s) !! t = Some (timer_cleared tr)) as E'
    by (rewrite Et; apply lookup_insert_eq).
  step (load_trans_eq _ _ _ E'). change (IS_TRANS_DELAYED_DELETE (timer_cleared tr)) with (IS_TRANS_DELAYED_DELETE tr).
  rewrite Hd. step (update_trans_eq _ _ _ (set_tr_flags (Z.lor (tr_flags (timer_cleared tr)) DELAYED_DELETE)) E').
  unfold modify, after_release. cbn [put_trans on_heap set_heap free_queue set_free_queue].
  by rewrite Eq.
Qed.

(** ** The invariant of tables, procedures and the free queue *)

Inductive trans_kind := KGtp | KPfcp | KGx.

Definition gtp_key (cfg : cp_config_t) (tr : transData_t) : trans_key :=
  if IS_TRANS_SELF_INITIATED tr then (cfg.(s11_addr), cfg.(s11_port), tr.(tr_sequence))
  else (tr.(tr_addr), tr.(tr_port), tr.(tr_sequence)).
Definition pfcp_key (cfg : cp_config_t) (tr : transData_t) : trans_key :=
  if IS_TRANS_SELF_INITIATED tr then (cfg.(pfcp_addr), cfg.(pfcp_port), tr.(tr_sequence))
  else (tr.(tr_addr), tr.(tr_port), tr.(tr_sequence)).

(** [t] is allocated, not given up, and satisfies [P]. *)
Definition live (s : cp) (t : ptr) (P : transData_t -> Prop) : Prop :=
  ∃ tr, transs s !! t = Some tr ∧ IS_TRANS_DELAYED_DELETE tr = false ∧ P tr.

(** A table whose entries are live transactions of one kind, under their keys. *)
Definition table_ok {K} `{Countable K} (kd : ptr -> trans_kind) (k : trans_kind) (key : transData_t -> K)
    (m : gmap K ptr) (s : cp) : Prop :=
  ∀ i t, m !! i = Some t -> kd t = k ∧ live s t (fun tr => key tr = i).

(** The links from procedures lead to live transactions that lead back.  When
    [unique] holds, their key is in the table for them or not at all (a response
    takes it out). *)
Definition links_ok {K} `{Countable K} (unique : Prop) (kd : ptr -> trans_kind) (k : trans_kind)
    (link : proc_context_t -> option ptr) (key : transData_t -> K) (m : gmap K ptr) (s : cp) : Prop :=
  ∀ p pc t, procs s !! p = Some pc -> link pc = Some t ->
    kd t = k ∧ live s t (fun tr => tr.(tr_proc) = Some p ∧ (unique -> ∀ t', m !! key tr = Some t' -> t' = t)).

Record links_inv (unique : Prop) (cfg : cp_config_t) (kd : ptr -> trans_kind) (s : cp) : Prop := {
  inv_gtp : table_ok kd KGtp (gtp_key cfg) s.(tabs).(gtp_map) s;
  inv_pfcp : table_ok kd KPfcp (pfcp_key cfg) s.(tabs).(pfcp_map) s;
  inv_gx : table_ok kd KGx tr_sequence s.(tabs).(gx_map) s;
  inv_gtpc_link : links_ok unique kd KGtp gtpc_trans (gtp_key cfg) s.(tabs).(gtp_map) s;
  inv_pfcp_link : links_ok unique kd KPfcp pfcp_trans (pfcp_key cfg) s.(tabs).(pfcp_map) s;
  inv_gx_link : links_ok unique kd KGx gx_trans tr_sequence s.(tabs).(gx_map) s;
  inv_queue_nodup : NoDup s.(free_queue);
  inv_queue t : t ∈ s.(free_queue) <-> ∃ tr, transs s !! t = Some tr ∧ IS_TRANS_DELAYED_DELETE tr = true;
}.
Arguments inv_gtp {_}. Arguments inv_pfcp {_}. Arguments inv_gx {_}.
Arguments inv_gtpc_link {_}. Arguments inv_pfcp_link {_}. Arguments inv_gx_link {_}.
Arguments inv_queue_nodup {_}. Arguments inv_queue {_}.

(** With nothing said about duplicate keys, and without duplicate keys. *)
Abbreviation consistent := (links_inv False).
Abbreviation trans_inv := (links_inv True).

Lemma marked_delayed tr : IS_TRANS_DELAYED_DELETE (marked tr) = true.
Proof.
  unfold IS_TRANS_DELAYED_DELETE, marked, nz, DELAYED_DELETE. cbn [tr_flags set_tr_flags].
  rewrite Z.land_lor_distr_l. change (Z.land 1 1) with 1.
  destruct (Z.eqb_spec (Z.lor (Z.land (tr_flags tr) 1) 1) 0) as [E|]; [|done].
  apply Z.lor_eq_0_iff in E as [_ E]. done.
Qed.

(** A transaction other than [t] is as it was. *)
Lemma live_other s s' t tr t' (P : transData_t -> Prop) :
  transs s' = <[t := tr]> (transs s) -> t' ≠ t -> live s t' P -> live s' t' P.
Proof. intros E Hne (x & Hx & ?). exists x. rewrite E, lookup_insert_ne by congruence. done. Qed.

(** The tables and links of [s'] are those of [s] that do not lead to [t]. *)
Definition forgets_table {K} `{Countable K} (t : ptr) (m m' : gmap K ptr) : Prop :=
  ∀ i t', m' !! i = Some t' -> m !! i = Some t' ∧ t' ≠ t.
Definition forgets_link (t : ptr) (link : proc_context_t -> option ptr) (s s' : cp) : Prop :=
  ∀ p pc' t', procs s' !! p = Some pc' -> link pc' = Some t' ->
    ∃ pc, procs s !! p = Some pc ∧ link pc = Some t' ∧ t' ≠ t.

Record forgets (t : ptr) (s s' : cp) : Prop := {
  forgets_gtp : forgets_table t s.(tabs).(gtp_map) s'.(tabs).(gtp_map);
  forgets_pfcp : forgets_table t s.(tabs).(pfcp_map) s'.(tabs).(pfcp_map);
  forgets_gx : forgets_table t s.(tabs).(gx_map) s'.(tabs).(gx_map);
  forgets_gtpc_link : forgets_link t gtpc_trans s s';
  forgets_pfcp_link : forgets_link t pfcp_trans s s';
  forgets_gx_link : forgets_link t gx_trans s s';
}.

Lemma table_ok_forget {K} `{Countable K} kd k (key : transData_t -> K) m m' s s' t tr :
  transs s' = <[t := tr]> (transs s) -> forgets_table t m m' ->
  table_ok kd k key m s -> table_ok kd k key m' s'.
Proof.
  intros E F T i t' Hi. destruct (F _ _ Hi) as [Hi' Hne]. destruct (T _ _ Hi') as [Hk Hl].
  split; [done|]. by eapply live_other.
Qed.

Lemma links_ok_forget {K} `{Countable K} u kd k link (key : transData_t -> K) m m' s s' t tr :
  transs s' = <[t := tr]> (transs s) -> forgets_link t link s s' -> forgets_table t m m' ->
  links_ok u kd k link key m s -> links_ok u kd k link key m' s'.
Proof.
  intros E F Fm T p pc' t' Hp Hl. destruct (F _ _ _ Hp Hl) as (pc & Hp' & Hl' & Hne).
  destruct (T _ _ _ Hp' Hl') as [Hk (x & Hx & Hd & Hb & Hu)]. split; [done|].
  exists x. rewrite E, lookup_insert_ne by congruence. split_and!; auto.
  intros Hun t2 H2. apply Hu; [done|]. by apply Fm in H2 as [? _].
Qed.

(** Releasing [t] keeps the invariant once nothing leads to it any more. *)
Lemma release_inv u cfg kd s s' t tr :
  links_inv u cfg kd s -> transs s !! t = Some tr -> IS_TRANS_DELAYED_DELETE tr = false ->
  forgets t s s' -> transs s' = <[t := marked tr]> (transs s) ->
  s'.(free_queue) = s.(free_queue) ++ [t] -> links_inv u cfg kd s'.
Proof.
  intros [I1 I2 I3 I4 I5 I6 I7 I8] Ht Hd [F1 F2 F3 F4 F5 F6] Et Eq.
  assert (t ∉ free_queue s) as Hnot.
  { intros Hin. apply I8 in Hin as (x & Hx & ?). congruence. }
  split; try by (eapply table_ok_forget; eauto) || (eapply links_ok_forget; eauto).
  - rewrite Eq. apply list.NoDup_app. split_and!; [done| |apply NoDup_singleton].
    intros x Hx ->%list_elem_of_singleton. done.
  - intros x. rewrite Eq, elem_of_app, list_elem_of_singleton, I8, Et.
    destruct (decide (x = t)) as [->|Hne].
    + rewrite lookup_insert_eq. split; [intros _|by right]. eauto using marked_delayed.
    + rewrite lookup_insert_ne by congruence. split; [intros [?|]; done|by left].
Qed.

(** ** Cleanup of the transaction of a procedure *)

Lemma forgets_delete {K} `{Countable K} kd k (key : transData_t -> K) m s t tr :
  table_ok kd k key m s -> transs s !! t = Some tr -> forgets_table t m (delete (key tr) m).
Proof.
  intros T Ht i t' Hi. apply lookup_delete_Some in Hi as [Hne Hi]. split; [done|]. intros ->.
  destruct (T _ _ Hi) as [_ (x & Hx & _ & Hk)]. congruence.
Qed.

Lemma forgets_same {K} `{Countable K} kd k k' (key : transData_t -> K) m s t :
  table_ok kd k key m s -> kd t = k' -> k ≠ k' -> forgets_table t m m.
Proof. intros T Hk Hne i t' Hi. split; [done|]. intros ->. destruct (T _ _ Hi). congruence. Qed.

(** Clearing one link of [p] and no other. *)
Lemma forgets_links {K} `{Countable K} u kd k link (key : transData_t -> K) m s s' t p pc' :
  links_ok u kd k link key m s -> procs s' = <[p := pc']> (procs s) ->
  (∀ t', link pc' = Some t' -> t' ≠ t ∧ ∃ pc, procs s !! p = Some pc ∧ link pc = Some t') ->
  live s t (fun tr => tr.(tr_proc) = Some p) -> forgets_link t link s s'.
Proof.
  intros L Ep Hp (x & Hx & _ & Hb) q qc t' Hq Hl. rewrite Ep in Hq.
  destruct (decide (q = p)) as [->|Hne].
  - rewrite lookup_insert_eq in Hq. simplify_eq. destruct (Hp _ Hl) as (Hn & pc & ? & ?). eauto.
  - rewrite lookup_insert_ne in Hq by congruence. exists qc. split_and!; auto. intros ->.
    destruct (L _ _ _ Hq Hl) as [_ (y & Hy & _ & Hb' & _)]. congruence.
Qed.

(** The common end of the three cleanup functions. *)
Definition cleaned (t p : ptr) (tr : transData_t) (pc : proc_context_t) (s1 : cp) : cp :=
  put_proc p pc (after_release t tr s1).

Lemma release_unlink_eq t tr p pc f s1 :
  transs s1 !! t = Some tr -> IS_TRANS_DELAYED_DELETE tr = false -> procs s1 !! p = Some pc ->
  (_ ← stop_transaction_timer t; _ ← delayed_free t; unlink (Some p) f) s1 = Some (tt, cleaned t p tr (f pc) s1).
Proof.
  intros Ht Hd Hp. pose proof (release_eq t s1 tr Ht Hd) as E.
  unfold mbind at 1, cpM_bind in E. unfold mbind at 1, cpM_bind.
  destruct (stop_transaction_timer t s1) as [[[] s2]|]; [|done].
  step E. cbn [unlink]. apply update_proc_eq.
  unfold after_release. cbn. by rewrite (proj1 (proj2 (after_stop_trans t tr s1 Ht))).
Qed.

Lemma cleaned_fields t p tr pc s1 : transs s1 !! t = Some tr ->
  let s' := cleaned t p tr pc s1 in
  transs s' = <[t := marked tr]> (transs s1) ∧ procs s' = <[p := pc]> (procs s1) ∧
  tabs s' = tabs s1 ∧ free_queue s' = free_queue s1 ++ [t].
Proof.
  intros Ht. destruct (after_stop_trans t tr s1 Ht) as (E1 & E2 & E3 & E4 & _).
  unfold cleaned, after_release. cbn. rewrite E1, E2, E3. by rewrite insert_insert_eq.
Qed.

(** The timers of the system without the one of [tr], if it has one. *)
Definition timer_gone (tr : transData_t) (ts : gmap Z bool) : gmap Z bool :=
  if tr.(tr_rt).(ti_id) =? 0 then ts else delete tr.(tr_rt).(ti_id) ts.

(** What a cleanup of the transaction [t] of procedure [p] achieves. *)
Definition cleanup_done (u : Prop) (cfg : cp_config_t) (kd : ptr -> trans_kind) (t p : ptr) (pc' : proc_context_t)
    (s s' : cp) : Prop :=
  links_inv u cfg kd s' ∧ procs s' = <[p := pc']> (procs s) ∧ free_queue s' = free_queue s ++ [t] ∧
  (∃ tr, transs s !! t = Some tr ∧ transs s' = <[t := marked tr]> (transs s)) ∧ forgets t s s' ∧
  heap s' = set_h_trans (transs s') (set_h_procs (procs s') (heap s)) ∧ trace s' = trace s ∧
  (∀ tr, transs s !! t = Some tr -> timers s' = timer_gone tr (timers s)).

Lemma cleaned_heap t p tr pc s1 :
  heap (cleaned t p tr pc s1)
  = set_h_trans (transs (cleaned t p tr pc s1)) (set_h_procs (procs (cleaned t p tr pc s1)) (heap s1)).
Proof. unfold cleaned, after_release, after_stop. by destruct (nz _). Qed.
Lemma cleaned_trace t p tr pc s1 : trace (cleaned t p tr pc s1) = trace s1.
Proof. unfold cleaned, after_release, after_stop. by destruct (nz _). Qed.

Lemma cleaned_timers t p tr pc s1 : timers (cleaned t p tr pc s1) = timer_gone tr (timers s1).
Proof. unfold cleaned, after_release, after_stop, timer_gone, nz. by destruct (_ =? 0). Qed.

(** The procedure without its link to a transaction of kind [k]. *)
Definition clear_link (k : trans_kind) : proc_context_t -> proc_context_t :=
  match k with KGtp => set_gtpc_trans None | KPfcp => set_pfcp_trans None | KGx => set_gx_trans None end.

(** [s1] is [s] after the table update of the cleanup of [t]. *)
Lemma cleanup_finish u cfg kd k s s1 t tr p pc :
  links_inv u cfg kd s -> kd t = k -> transs s !! t = Some tr -> IS_TRANS_DELAYED_DELETE tr = false ->
  tr.(tr_proc) = Some p -> procs s !! p = Some pc ->
  heap s1 = heap s -> free_queue s1 = free_queue s -> trace s1 = trace s -> timers s1 = timers s ->
  forgets_table t (gtp_map (tabs s)) (gtp_map (tabs s1)) ->
  forgets_table t (pfcp_map (tabs s)) (pfcp_map (tabs s1)) ->
  forgets_table t (gx_map (tabs s)) (gx_map (tabs s1)) ->
  cleanup_done u cfg kd t p (clear_link k pc) s (cleaned t p tr (clear_link k pc) s1).
Proof.
  intros I Hk Ht Hd Hb Hp Eh Eq Etr Etm F1 F2 F3. assert (transs s1 !! t = Some tr) as Ht1 by (by rewrite Eh).
  destruct (cleaned_fields t p tr (clear_link k pc) s1 Ht1) as (E1 & E2 & E3 & E4).
  set (s' := cleaned t p tr (clear_link k pc) s1) in *. rewrite Eh in E1, E2. rewrite Eq in E4.
  assert (Lv : live s t (fun tr => tr_proc tr = Some p)) by (exists tr; auto).
  assert (Other : ∀ k' (link : proc_context_t -> option ptr) t', k' ≠ k -> link pc = Some t' -> kd t' = k' ->
    t' ≠ t ∧ ∃ pc0, procs s !! p = Some pc0 ∧ link pc0 = Some t').
  { intros k' link t' Hne Hl Hk'. split; [congruence|eauto]. }
  assert (F : forgets t s s').
  { split; rewrite ?E3; auto.
    - eapply forgets_links; [apply (inv_gtpc_link _ _ _ I)|exact E2| |exact Lv]. intros t' Hl.
      destruct k; [done|..]; (eapply (Other KGtp); [done|exact Hl|by apply (inv_gtpc_link _ _ _ I _ _ _ Hp Hl)]).
    - eapply forgets_links; [apply (inv_pfcp_link _ _ _ I)|exact E2| |exact Lv]. intros t' Hl.
      destruct k; [|done|]; (eapply (Other KPfcp); [done|exact Hl|by apply (inv_pfcp_link _ _ _ I _ _ _ Hp Hl)]).
    - eapply forgets_links; [apply (inv_gx_link _ _ _ I)|exact E2| |exact Lv]. intros t' Hl.
      destruct k; [..|done]; (eapply (Other KGx); [done|exact Hl|by apply (inv_gx_link _ _ _ I _ _ _ Hp Hl)]). }
  split; [by eapply (release_inv u cfg kd s); eauto|]. split_and!; [exact E2|exact E4|by exists tr|exact F| | |].
  - rewrite <- Eh. apply cleaned_heap.
  - unfold s'. by rewrite cleaned_trace.
  - intros tr' Ht'. simplify_eq. unfold s'. by rewrite cleaned_timers, Etm.
Qed.

(** The transaction that the key of [tr] leads to. *)
Definition holder (k : trans_kind) (cfg : cp_config_t) (tr : transData_t) (s : cp) : option ptr :=
  match k with
  | KGtp => gtp_map (tabs s) !! gtp_key cfg tr
  | KPfcp => pfcp_map (tabs s) !! pfcp_key cfg tr
  | KGx => gx_map (tabs s) !! tr_sequence tr
  end.

(** The table lookup and the assertion of the cleanup functions. *)
Lemma assert_own (o : option ptr) t s1 : (∀ t', o = Some t' -> t' = t) ->
  assert_ (match o with Some t' => bool_decide (t = t') | None => true end) s1 = Some (tt, s1).
Proof.
  intros H. destruct o as [t'|]; [|done]. rewrite (H t' eq_refl), bool_decide_true; done.
Qed.

Lemma cleanup_pfcp_runs u cfg kd s p pc t :
  links_inv u cfg kd s -> procs s !! p = Some pc -> pfcp_trans pc = Some t ->
  (∀ tr, transs s !! t = Some tr -> ∀ t', holder KPfcp cfg tr s = Some t' -> t' = t) ->
  ∃ s', cleanup_pfcp_trans cfg t s = Some (tt, s') ∧ cleanup_done u cfg kd t p (clear_link KPfcp pc) s s'.
Proof.
  intros I Hp Hl Hh. destruct (inv_pfcp_link _ _ _ I _ _ _ Hp Hl) as [Hk (tr & Ht & Hd & Hb & _)].
  specialize (Hh tr Ht) as Hu. cbn [holder] in Hu.
  set (s1 := on_tabs (fun x => set_pfcp_map (delete (pfcp_key cfg tr) x.(pfcp_map)) x) s).
  exists (cleaned t p tr (clear_link KPfcp pc) s1). split.
  - unfold cleanup_pfcp_trans. step (load_trans_eq t s tr Ht).
    assert (∃ addr port, (if IS_TRANS_SELF_INITIATED tr then (pfcp_addr cfg, pfcp_port cfg) else (tr_addr tr, tr_port tr))
              = (addr, port) ∧ pfcp_key cfg tr = (addr, port, tr_sequence tr)) as (addr & port & -> & Ek).
    { unfold pfcp_key. destruct (IS_TRANS_SELF_INITIATED tr); eauto. }
    assert (delete_pfcp_trans addr port (tr_sequence tr) s = Some (pfcp_map (tabs s) !! pfcp_key cfg tr, s1)) as E
      by (unfold s1; by rewrite Ek). step E. step (assert_own _ t s1 Hu). rewrite Hb.
    by apply (release_unlink_eq t tr p pc (set_pfcp_trans None) s1).
  - apply cleanup_finish; auto; cbn.
    + eapply forgets_same; [apply (inv_gtp _ _ _ I)|exact Hk|done].
    + eapply forgets_delete; [apply (inv_pfcp _ _ _ I)|exact Ht].
    + eapply forgets_same; [apply (inv_gx _ _ _ I)|exact Hk|done].
Qed.

Lemma cleanup_gtpc_runs u cfg kd s p pc t :
  links_inv u cfg kd s -> procs s !! p = Some pc -> gtpc_trans pc = Some t ->
  (∀ tr, transs s !! t = Some tr -> ∀ t', holder KGtp cfg tr s = Some t' -> t' = t) ->
  ∃ s', cleanup_gtpc_trans cfg t s = Some (tt, s') ∧ cleanup_done u cfg kd t p (clear_link KGtp pc) s s'.
Proof.
  intros I Hp Hl Hh. destruct (inv_gtpc_link _ _ _ I _ _ _ Hp Hl) as [Hk (tr & Ht & Hd & Hb & _)].
  specialize (Hh tr Ht) as Hu. cbn [holder] in Hu.
  set (s1 := on_tabs (fun x => set_gtp_map (delete (gtp_key cfg tr) x.(gtp_map)) x) s).
  exists (cleaned t p tr (clear_link KGtp pc) s1). split.
  - unfold cleanup_gtpc_trans. step (load_trans_eq t s tr Ht). rewrite Hb.
    assert (∃ addr port, (if IS_TRANS_SELF_INITIATED tr then mret (s11_addr cfg, s11_port cfg)
        else p ← nonnull (Some p); proc ← load_proc p; t' ← nonnull (gtpc_trans proc); tr' ← load_trans t';
             mret (tr_addr tr', tr_port tr')) s = Some ((addr, port), s) ∧
        gtp_key cfg tr = (addr, port, tr_sequence tr)) as (addr & port & Ea & Ek).
    { unfold gtp_key. destruct (IS_TRANS_SELF_INITIATED tr); [by eauto|]. do 2 eexists. split; [|done].
      cbn [nonnull]. unfold mbind at 1, cpM_bind. cbn [mret cpM_ret]. step (load_proc_eq p s pc Hp). rewrite Hl.
      cbn [nonnull]. unfold mbind at 1, cpM_bind. cbn [mret cpM_ret]. by step (load_trans_eq t s tr Ht). }
    step Ea.
    assert (delete_gtp_trans addr port (tr_sequence tr) s = Some (gtp_map (tabs s) !! gtp_key cfg tr, s1)) as E
      by (unfold s1; by rewrite Ek). step E. step (assert_own _ t s1 Hu).
    by apply (release_unlink_eq t tr p pc (set_gtpc_trans None) s1).
  - apply cleanup_finish; auto; cbn.
    + eapply forgets_delete; [apply (inv_gtp _ _ _ I)|exact Ht].
    + eapply forgets_same; [apply (inv_pfcp _ _ _ I)|exact Hk|done].
    + eapply forgets_same; [apply (inv_gx _ _ _ I)|exact Hk|done].
Qed.

Lemma cleanup_gx_runs u cfg kd s p pc t :
  links_inv u cfg kd s -> procs s !! p = Some pc -> gx_trans pc = Some t ->
  (∀ tr, transs s !! t = Some tr -> ∀ t', holder KGx cfg tr s = Some t' -> t' = t) ->
  ∃ s', cleanup_gx_trans t s = Some (tt, s') ∧ cleanup_done u cfg kd t p (clear_link KGx pc) s s'.
Proof.
  intros I Hp Hl Hh. destruct (inv_gx_link _ _ _ I _ _ _ Hp Hl) as [Hk (tr & Ht & Hd & Hb & _)].
  specialize (Hh tr Ht) as Hu. cbn [holder] in Hu.
  set (s1 := on_tabs (fun x => set_gx_map (delete (tr_sequence tr) x.(gx_map)) x) s).
  exists (cleaned t p tr (clear_link KGx pc) s1). split.
  - unfold cleanup_gx_trans. step (load_trans_eq t s tr Ht).
    assert (delete_gx_trans (tr_sequence tr) s = Some (gx_map (tabs s) !! tr_sequence tr, s1)) as E by done.
    step E. step (assert_own _ t s1 Hu). rewrite Hb.
    by apply (release_unlink_eq t tr p pc (set_gx_trans None) s1).
  - apply cleanup_finish; auto; cbn.
    + eapply forgets_same; [apply (inv_gtp _ _ _ I)|exact Hk|done].
    + eapply forgets_same; [apply (inv_pfcp _ _ _ I)|exact Hk|done].
    + eapply forgets_delete; [apply (inv_gx _ _ _ I)|exact Ht].
Qed.

(** ** Properties *)

(** The cleanup function and the link of a kind. *)
Definition cleanup_of (k : trans_kind) (cfg : cp_config_t) (t : ptr) : cpM unit :=
  match k with KGtp => cleanup_gtpc_trans cfg t | KPfcp => cleanup_pfcp_trans cfg t | KGx => cleanup_gx_trans t end.
Definition link_of (k : trans_kind) : proc_context_t -> option ptr :=
  match k with KGtp => gtpc_trans | KPfcp => pfcp_trans | KGx => gx_trans end.

(** A transaction that nothing refers to any more. *)
Definition unreferenced (t : ptr) (s : cp) : Prop :=
  (∀ i, gtp_map (tabs s) !! i ≠ Some t) ∧ (∀ i, pfcp_map (tabs s) !! i ≠ Some t) ∧
  (∀ i, gx_map (tabs s) !! i ≠ Some t) ∧
  ∀ p pc, procs s !! p = Some pc -> gtpc_trans pc ≠ Some t ∧ pfcp_trans pc ≠ Some t ∧ gx_trans pc ≠ Some t.

Lemma forgets_unreferenced t s s' : forgets t s s' -> unreferenced t s'.
Proof.
  intros [F1 F2 F3 F4 F5 F6]. split_and!; try (intros i Hi; (apply F1 in Hi || apply F2 in Hi || apply F3 in Hi); by destruct Hi).
  intros p pc Hp. split_and!; intros Hl;
    [destruct (F4 _ _ _ Hp Hl) as (? & ? & ? & ?)|destruct (F5 _ _ _ Hp Hl) as (? & ? & ? & ?)|
     destruct (F6 _ _ _ Hp Hl) as (? & ? & ? & ?)]; done.
Qed.

(** The cleanup of a linked transaction runs to its end when its key leads to it
    or nowhere. *)
Lemma cleanup_runs u k cfg kd s p pc t :
  links_inv u cfg kd s -> procs s !! p = Some pc -> link_of k pc = Some t ->
  (∀ tr, transs s !! t = Some tr -> ∀ t', holder k cfg tr s = Some t' -> t' = t) ->
  ∃ s', cleanup_of k cfg t s = Some (tt, s') ∧ cleanup_done u cfg kd t p (clear_link k pc) s s'.
Proof. destruct k; [apply cleanup_gtpc_runs|apply cleanup_pfcp_runs|apply cleanup_gx_runs]. Qed.

(** What the invariant says of a link of kind [k]. *)
Lemma link_live u k cfg kd s p pc t :
  links_inv u cfg kd s -> procs s !! p = Some pc -> link_of k pc = Some t ->
  live s t (fun tr => tr.(tr_proc) = Some p ∧ (u -> ∀ t', holder k cfg tr s = Some t' -> t' = t)).
Proof.
  intros I Hp Hl. destruct k; [by apply (inv_gtpc_link _ _ _ I p pc)|by apply (inv_pfcp_link _ _ _ I p pc)|
    by apply (inv_gx_link _ _ _ I p pc)].
Qed.

(** Without duplicate keys it always does. *)
Lemma cleanup_linked k cfg kd s p pc t :
  trans_inv cfg kd s -> procs s !! p = Some pc -> link_of k pc = Some t ->
  ∃ s', cleanup_of k cfg t s = Some (tt, s') ∧ cleanup_done True cfg kd t p (clear_link k pc) s s'.
Proof.
  intros I Hp Hl. eapply cleanup_runs; eauto. intros tr Ht.
  destruct (link_live _ _ _ _ _ _ _ _ I Hp Hl) as (x & Hx & _ & _ & Hu). simplify_eq. by apply Hu.
Qed.

(** A state without duplicate keys keeps the weaker invariant, too. *)
Lemma links_inv_weaken (u v : Prop) cfg kd s : (v -> u) -> links_inv u cfg kd s -> links_inv v cfg kd s.
Proof.
  intros Huv [I1 I2 I3 I4 I5 I6 I7 I8].
  assert (W : ∀ K (E : EqDecision K) (C : Countable K) k link (key : transData_t -> K) m,
    links_ok u kd k link key m s -> links_ok v kd k link key m s).
  { intros K E C k link key m L p pc t Hp Hl. destruct (L p pc t Hp Hl) as [Hk (tr & ? & ? & ? & ?)].
    split; [done|]. exists tr. split_and!; auto. }
  split; auto.
Qed.

(** The assertion: the key leads to another transaction. *)
Lemma cleanup_aborts u k cfg kd s p pc t tr t' :
  links_inv u cfg kd s -> procs s !! p = Some pc -> link_of k pc = Some t -> transs s !! t = Some tr ->
  holder k cfg tr s = Some t' -> t' ≠ t -> cleanup_of k cfg t s = None.
Proof.
  intros I Hp Hl Ht Hh Hne. destruct (link_live _ _ _ _ _ _ _ _ I Hp Hl) as (x & Hx & _ & Hb & _).
  assert (tr = x) as -> by congruence. destruct k; cbn [cleanup_of link_of holder] in *;
    [unfold cleanup_gtpc_trans|unfold cleanup_pfcp_trans|unfold cleanup_gx_trans]; step (load_trans_eq t s x Ht).
  - rewrite Hb. unfold gtp_key in Hh.
    destruct (IS_TRANS_SELF_INITIATED x); unfold nonnull, load_proc, load_trans, delete_gtp_trans, find_gtp_trans, gets, modify, mbind, cpM_bind;
      cbn; rewrite ?Hp; cbn; rewrite ?Hl; cbn; rewrite ?Ht; cbn; rewrite Hh, bool_decide_false by congruence; done.
  - unfold pfcp_key in Hh.
    destruct (IS_TRANS_SELF_INITIATED x); unfold delete_pfcp_trans, find_pfcp_trans, gets, modify, mbind, cpM_bind;
      cbn; rewrite Hh, bool_decide_false by congruence; done.
  - unfold delete_gx_trans, find_gx_trans, gets, modify, mbind, cpM_bind; cbn.
    rewrite Hh, bool_decide_false by congruence; done.
Qed.

(** C19: Cleaning up the transaction [t] of a procedure (GTP, PFCP or Gx), in any
    state whose tables and links lead to live transactions.  The one thing that can
    go wrong is that the table has another transaction under the key of [t] (the
    tables keep the first of two): then the assertion of the cleanup fails.  In
    every other case the cleanup returns; afterwards no table and no procedure
    refers to [t], the procedure has lost that link and nothing else, no other
    procedure and no other transaction changed, the timer of [t] no longer exists
    and all other timers are as they were, [t] is marked, holds no timer id and is
    queued once to be freed, nothing is sent, and the state is consistent again,
    without duplicate keys if it was so before. *)
Theorem cleanup_safe cfg kd k s p pc t tr :
  consistent cfg kd s -> procs s !! p = Some pc -> link_of k pc = Some t -> transs s !! t = Some tr ->
  ((∃ t', holder k cfg tr s = Some t' ∧ t' ≠ t) -> cleanup_of k cfg t s = None) ∧
  (¬ (∃ t', holder k cfg tr s = Some t' ∧ t' ≠ t) ->
   ∃ s' tr', cleanup_of k cfg t s = Some (tt, s') ∧ consistent cfg kd s' ∧ unreferenced t s' ∧
     procs s' = <[p := clear_link k pc]> (procs s) ∧ transs s' = <[t := tr']> (transs s) ∧
     timers s' = timer_gone tr (timers s) ∧ tr'.(tr_rt).(ti_id) = 0 ∧ IS_TRANS_DELAYED_DELETE tr' = true ∧
     free_queue s' = free_queue s ++ [t] ∧ trace s' = trace s ∧ (trans_inv cfg kd s -> trans_inv cfg kd s')).
Proof.
  intros I Hp Hl Ht. split.
  { intros (t' & Hh & Hne). by eapply cleanup_aborts. }
  intros Hno. assert (Hu : ∀ x, transs s !! t = Some x -> ∀ t', holder k cfg x s = Some t' -> t' = t).
  { intros x Hx t' Hh. simplify_eq. destruct (decide (t' = t)); [done|]. destruct Hno. eauto. }
  destruct (cleanup_runs _ k _ _ _ _ _ _ I Hp Hl Hu) as (s' & E & I' & P & Q & (x & Hx & E') & F & _ & T & Tm).
  assert (tr = x) as -> by congruence. exists s', (marked x). split_and!; eauto using forgets_unreferenced, marked_delayed.
  - cbn. destruct (nz (ti_id (tr_rt x))) eqn:Hn; [done|by apply nz_false].
  - intros J. destruct (cleanup_linked k _ _ _ _ _ _ J Hp Hl) as (s2 & E2 & J2 & _). by simplify_eq.
Qed.

(** An example state: procedure 1 with the PFCP transaction 2. *)
Definition example_config : cp_config_t := mk_config SAEGWC 10 2123 11 8805 3000 3 true 100.
Definition example_trans : transData_t :=
  mk_trans SELF_INITIATED 0 7 [1; 2; 3] None (Some 1%positive) (mk_timer 5 RETRY_TRANSACTION 3000) 99 0 0.
Definition example_proc : proc_context_t :=
  mk_proc S1_RELEASE_PROC 0 PROC_RESULT_SUCCESS None None None (Some 2%positive) None None None
    0 (repeat None MAX_CHILD_PROC) None.
Definition example_with (pc : proc_context_t) (us : gmap ptr ue_context_t) (ps : gmap ptr pdn_connection_t) : cp :=
  mk_cp (mk_heaps {[ 2%positive := example_trans ]} {[ 1%positive := pc ]} us ps ∅ ∅ ∅)
    (mk_tables ∅ {[ (11, 8805, 7) := 2%positive ]} ∅ ∅ ∅ ∅ ∅ ∅ ∅ ∅ ∅ ∅ ∅ ∅)
    {[ 5 := true ]} [] (mk_pools [] None) initial_teids 3%positive no_nodes [].
Definition example_state : cp := example_with example_proc ∅ ∅.

Lemma example_inv pc us ps : gtpc_trans pc = None -> pfcp_trans pc = Some 2%positive -> gx_trans pc = None ->
  trans_inv example_config (fun _ => KPfcp) (example_with pc us ps).
Proof.
  intros H1 H2 H3. split; cbn -[example_trans].
  - intros i t Hi. by rewrite lookup_empty in Hi.
  - intros i t [<- <-]%lookup_singleton_Some. split; [done|]. exists example_trans. done.
  - intros i t Hi. by rewrite lookup_empty in Hi.
  - intros p x t Hp Hl. cbn in Hp. apply lookup_singleton_Some in Hp as [<- <-]. congruence.
  - intros p x t Hp Hl. cbn in Hp. apply lookup_singleton_Some in Hp as [<- <-]. rewrite H2 in Hl. simplify_eq.
    split; [done|]. exists example_trans. split_and!; try done. intros _ t' Ht'. cbn in Ht'.
    by apply lookup_singleton_Some in Ht' as [_ <-].
  - intros p x t Hp Hl. cbn in Hp. apply lookup_singleton_Some in Hp as [<- <-]. congruence.
  - apply NoDup_nil_2.
  - intros t. split; [by intros ?%not_elem_of_nil|].
    intros (tr & Ht & Hd). cbn in Ht. by apply lookup_singleton_Some in Ht as [<- <-].
Qed.

(** The same procedure when its key leads to the transaction 8. *)
Lemma example_other_holder : consistent example_config (fun _ => KPfcp)
  (put_trans 8%positive example_trans (on_tabs (set_pfcp_map {[ (11, 8805, 7) := 8%positive ]}) example_state)).
Proof.
  split; cbn -[example_trans].
  - intros i t Hi. by rewrite lookup_empty in Hi.
  - intros i t [<- <-]%lookup_singleton_Some. split; [done|]. by exists example_trans.
  - intros i t Hi. by rewrite lookup_empty in Hi.
  - intros p x t Hp Hl. cbn in Hp. apply lookup_singleton_Some in Hp as [<- <-]. done.
  - intros p x t Hp Hl. cbn in Hp. apply lookup_singleton_Some in Hp as [<- <-]. cbn in Hl. simplify_eq.
    split; [done|]. by exists example_trans.
  - intros p x t Hp Hl. cbn in Hp. apply lookup_singleton_Some in Hp as [<- <-]. done.
  - apply NoDup_nil_2.
  - intros t. split; [by intros ?%not_elem_of_nil|]. intros (tr & Ht & Hd). exfalso.
    cbn in Ht. apply lookup_insert_Some in Ht as [[_ <-]|[_ Ht]]; [done|].
    by apply lookup_singleton_Some in Ht as [_ <-].
Qed.

Lemma cleanup_safe_witness :
  cleanup_of KPfcp example_config 2%positive (put_trans 8%positive example_trans (on_tabs (set_pfcp_map {[ (11, 8805, 7) := 8%positive ]}) example_state)) = None ∧
  ∃ s' tr', cleanup_of KPfcp example_config 2%positive example_state = Some (tt, s') ∧
    unreferenced 2%positive s' ∧ transs s' = <[2%positive := tr']> (transs example_state) ∧
    timers s' = ∅ ∧ tr'.(tr_rt).(ti_id) = 0 ∧ free_queue s' = [2%positive].
Proof.
  split.
  - eapply (cleanup_safe example_config (fun _ => KPfcp) KPfcp _ 1%positive example_proc 2%positive example_trans);
      [apply example_other_holder|reflexivity|reflexivity|reflexivity|]. by exists 8%positive.
  - destruct (cleanup_safe example_config (fun _ => KPfcp) KPfcp example_state 1%positive example_proc 2%positive example_trans)
      as [_ (s' & tr' & E & _ & U & _ & T & Tm & Z0 & _ & Q & _)];
      [by eapply links_inv_weaken; [|by apply example_inv]|reflexivity|reflexivity|reflexivity| |].
    + intros (t' & Hh & Hne). vm_compute in Hh. congruence.
    + exists s', tr'. rewrite Tm. split_and!; auto.
Defined.

(** The freeing thread only frees transactions that nothing refers to, and
    never one that was freed before: in a consistent state a round succeeds and
    leaves a consistent state. *)
Theorem free_delayed_safe cfg kd s :
  trans_inv cfg kd s ->
  ∃ s', free_delayed s = Some (tt, s') ∧ trans_inv cfg kd s' ∧
    ∀ t, head (free_queue s) = Some t -> unreferenced t s ∧ transs s' = delete t (transs s).
Proof.
  intros I. unfold free_delayed, gets. unfold mbind at 1, cpM_bind.
  destruct (free_queue s) as [|t rest] eqn:Eq; [exists s; split_and!; auto; done|].
  destruct (proj1 (inv_queue _ _ _ I t)) as (tr & Ht & Hd); [rewrite Eq; apply elem_of_cons; by left|].
  set (s' := on_heap (fun h => set_h_trans (delete t h.(h_trans)) h) (set_free_queue rest s)).
  exists s'. assert (Dead : ∀ t' P, live s t' P -> t' ≠ t) by (intros t' P (x & Hx & Hn & _) ->; congruence).
  assert (Alive : ∀ t' P, live s t' P -> live s' t' P).
  { intros t' P Hl. pose proof (Dead _ _ Hl). destruct Hl as (x & Hx & ?). exists x. split; [|done].
    cbn. rewrite lookup_delete_ne; congruence. }
  split; [|split].
  - unfold modify, mbind, cpM_bind, free_trans. cbn. by rewrite Ht.
  - destruct I as [I1 I2 I3 I4 I5 I6 I7 I8].
    split; try (intros i x Hi; (destruct (I1 _ _ Hi) || destruct (I2 _ _ Hi) || destruct (I3 _ _ Hi)); by eauto);
      try (intros q qc x Hq Hl; (destruct (I4 _ _ _ Hq Hl) || destruct (I5 _ _ _ Hq Hl) || destruct (I6 _ _ _ Hq Hl)); by eauto).
    + cbn. rewrite Eq in I7. by apply list.NoDup_cons in I7 as [_ ?].
    + intros x. cbn. rewrite Eq in I7, I8. apply list.NoDup_cons in I7 as [Hn _]. specialize (I8 x).
      rewrite elem_of_cons in I8. destruct (decide (x = t)) as [->|Hne].
      * rewrite lookup_delete_eq. split; [done|]. by intros (? & ? & ?).
      * rewrite lookup_delete_ne by congruence. rewrite <- I8. split; [by right|by intros [|]].
  - intros t' [= <-]. split; [|done]. destruct I as [I1 I2 I3 I4 I5 I6 _ _].
    split_and!; try (intros i Hi; (destruct (I1 _ _ Hi) as [_ L] || destruct (I2 _ _ Hi) as [_ L] || destruct (I3 _ _ Hi) as [_ L]);
      by apply Dead in L).
    intros p pc Hp. split_and!; intros Hl;
      [destruct (I4 _ _ _ Hp Hl) as [_ L]|destruct (I5 _ _ _ Hp Hl) as [_ L]|destruct (I6 _ _ _ Hp Hl) as [_ L]];
      by apply Dead in L.
Qed.

(** The same transaction after its release. *)
Definition example_released : cp :=
  mk_cp (mk_heaps {[ 2%positive := marked example_trans ]} ∅ ∅ ∅ ∅ ∅ ∅)
    (mk_tables ∅ ∅ ∅ ∅ ∅ ∅ ∅ ∅ ∅ ∅ ∅ ∅ ∅ ∅) ∅ [2%positive] (mk_pools [] None) initial_teids 3%positive no_nodes [].

Lemma example_released_inv : trans_inv example_config (fun _ => KPfcp) example_released.
Proof.
  split; try (intros i t Hi; cbn in Hi; by rewrite lookup_empty in Hi);
    try (intros p pc t Hp; cbn in Hp; by rewrite lookup_empty in Hp).
  - apply NoDup_singleton.
  - intros t. cbn. rewrite list_elem_of_singleton. split.
    + intros ->. exists (marked example_trans). done.
    + intros (tr & Ht & _). by apply lookup_singleton_Some in Ht as [<- _].
Qed.

Lemma free_delayed_safe_witness :
  ∃ s', free_delayed example_released = Some (tt, s') ∧ trans_inv example_config (fun _ => KPfcp) s' ∧
    ∀ t, head (free_queue example_released) = Some t ->
      unreferenced t example_released ∧ transs s' = delete t (transs example_released).
Proof. apply (free_delayed_safe example_config (fun _ => KPfcp) example_released). apply example_released_inv. Defined.

(** The timer of a transaction expires [n] times. *)
Fixpoint expire (n : nat) (cb : cpM unit) : cpM unit :=
  match n with O => mret tt | S n' => _ ← cb; expire n' cb end.

Lemma expire_app n m cb s : expire (n + m) cb s = (_ ← expire n cb; expire m cb) s.
Proof.
  revert s; induction n as [|n IH]; intros s; [done|]. cbn [expire Nat.add].
  unfold mbind, cpM_bind in *. destruct (cb s) as [[[] s']|]; [apply IH|done].
Qed.

(** One retransmission. *)
Lemma pfcp_node_retry_eq t s tr upf nd :
  transs s !! t = Some tr -> tr.(tr_itr_cnt) < 3 -> tr.(tr_cb_data) = Some upf ->
  h_upfs (heap s) !! upf = Some nd ->
  pfcp_node_transaction_retry_callback t s
  = Some (tt, put_trans t (set_tr_itr_cnt (u8 (tr.(tr_itr_cnt) + 1)) tr)
                (set_trace (trace s ++ [Resend tr.(tr_buf) nd.(upf_addr)]) s)).
Proof.
  intros Ht Hc Hd Hu. unfold pfcp_node_transaction_retry_callback. step (load_trans_eq t s tr Ht).
  rewrite (proj2 (Z.leb_gt 3 _)) by lia. rewrite Hd. cbn [nonnull].
  unfold load_upf, mbind, cpM_bind. cbn [mret cpM_ret nonnull]. rewrite Hu. cbn [mbind option_bind].
  unfold pfcp_timer_retry_send, emit, modify. by apply update_trans_eq.
Qed.

Lemma pfcp_node_retries t n s tr upf nd :
  transs s !! t = Some tr -> 0 <= tr.(tr_itr_cnt) -> tr.(tr_itr_cnt) + Z.of_nat n <= 3 ->
  tr.(tr_cb_data) = Some upf -> h_upfs (heap s) !! upf = Some nd ->
  ∃ s', expire n (pfcp_node_transaction_retry_callback t) s = Some (tt, s') ∧
    transs s' !! t = Some (set_tr_itr_cnt (tr.(tr_itr_cnt) + Z.of_nat n) tr) ∧
    trace s' = trace s ++ repeat (Resend tr.(tr_buf) nd.(upf_addr)) n ∧ h_upfs (heap s') = h_upfs (heap s).
Proof.
  revert s tr; induction n as [|n IH]; intros s tr Ht H0 Hc Hd Hu.
  { exists s. cbn. rewrite app_nil_r, Z.add_0_r. split_and!; auto. rewrite Ht. by destruct tr. }
  cbn [expire]. step (pfcp_node_retry_eq t s tr upf nd Ht ltac:(lia) Hd Hu).
  rewrite uwrap_small by lia.
  destruct (IH (put_trans t (set_tr_itr_cnt (tr.(tr_itr_cnt) + 1) tr) (set_trace (trace s ++ [Resend (tr_buf tr) nd.(upf_addr)]) s))
    (set_tr_itr_cnt (tr.(tr_itr_cnt) + 1) tr)) as (s' & E & E1 & E2 & E3); try done; try (cbn; lia).
  { cbn. apply lookup_insert_eq. }
  exists s'. split_and!; auto; [rewrite E1; cbn|rewrite E2; cbn; by rewrite <- app_assoc].
  unfold set_tr_itr_cnt; cbn. do 2 f_equal; lia.
Qed.

(** A request to a user plane node that is not answered is sent again
    exactly three times; at the fourth expiry the timer is stopped and the
    timeout function is called once, with the transaction. *)
Theorem pfcp_node_retry_bound t s tr upf nd :
  transs s !! t = Some tr -> tr.(tr_itr_cnt) = 0 -> tr.(tr_cb_data) = Some upf ->
  h_upfs (heap s) !! upf = Some nd ->
  ∃ s' tr', expire 4 (pfcp_node_transaction_retry_callback t) s = Some (tt, s') ∧
    trace s' = trace s ++ repeat (Resend tr.(tr_buf) nd.(upf_addr)) 3 ++ [CallTimeout tr.(tr_timeout) (Some t)] ∧
    transs s' !! t = Some tr' ∧ tr'.(tr_rt).(ti_id) = 0.
Proof.
  intros Ht H0 Hd Hu.
  destruct (pfcp_node_retries t 3 s tr upf nd Ht) as (s3 & E3 & T3 & A3 & _); auto; try lia.
  set (tr3 := set_tr_itr_cnt (tr.(tr_itr_cnt) + Z.of_nat 3) tr) in *.
  assert (E4 : pfcp_node_transaction_retry_callback t s3 =
    Some (tt, set_trace (trace (after_stop t tr3 s3) ++ [CallTimeout (tr_timeout tr) (Some t)]) (after_stop t tr3 s3))).
  { unfold pfcp_node_transaction_retry_callback. step (load_trans_eq t s3 tr3 T3).
    replace (3 <=? tr_itr_cnt tr3) with true by (cbn; rewrite H0; done).
    by step (stop_transaction_timer_eq t s3 tr3 T3). }
  rewrite (expire_app 3 1). step E3. cbn [expire]. step E4. do 2 eexists. split; [done|].
  destruct (after_stop_trans t tr3 s3 T3) as (S1 & _ & _ & _ & S5). cbn [trace set_trace transs heap].
  rewrite S1, S5, A3, lookup_insert_eq. split_and!; [by rewrite <- app_assoc|done|].
  unfold timer_cleared; cbn. destruct (nz (ti_id (tr_rt tr))) eqn:Hn; [done|by apply nz_false].
Qed.

(** A node request: transaction 2 to the user plane node 4 at address 77. *)
Definition example_node_state : cp :=
  mk_cp (mk_heaps {[ 2%positive := mk_trans SELF_INITIATED 0 7 [1; 2; 3] (Some 4%positive) None
                       (mk_timer 5 RETRY_PFCP_NODE 3000) 99 0 0 ]} ∅ ∅ ∅ ∅ ∅ {[ 4%positive := set_upf_addr 77 zero_upf ]})
    (mk_tables ∅ ∅ ∅ ∅ ∅ ∅ ∅ ∅ ∅ ∅ ∅ ∅ ∅ ∅) {[ 5 := true ]} [] (mk_pools [] None) initial_teids 5%positive no_nodes [].

Lemma pfcp_node_retry_bound_witness :
  ∃ s' tr', expire 4 (pfcp_node_transaction_retry_callback 2%positive) example_node_state = Some (tt, s') ∧
    trace s' = [Resend [1; 2; 3] 77; Resend [1; 2; 3] 77; Resend [1; 2; 3] 77; CallTimeout 99 (Some 2%positive)] ∧
    transs s' !! 2%positive = Some tr' ∧ tr'.(tr_rt).(ti_id) = 0.
Proof.
  apply (pfcp_node_retry_bound 2%positive example_node_state
           (mk_trans SELF_INITIATED 0 7 [1; 2; 3] (Some 4%positive) None (mk_timer 5 RETRY_PFCP_NODE 3000) 99 0 0)
           4%positive (set_upf_addr 77 zero_upf)); reflexivity.
Defined.

(** A timer event that arrives after its transaction was released is ignored
    by [transaction_retry_callback], but [pfcp_node_transaction_retry_callback]
    does not look at the mark: it sends the message again. *)
Theorem released_retry t s tr upf nd :
  transs s !! t = Some tr -> IS_TRANS_DELAYED_DELETE tr = true ->
  transaction_retry_callback t s = Some (tt, s) ∧
  (tr.(tr_itr_cnt) < 3 -> tr.(tr_cb_data) = Some upf -> h_upfs (heap s) !! upf = Some nd ->
   ∃ s', pfcp_node_transaction_retry_callback t s = Some (tt, s') ∧
     trace s' = trace s ++ [Resend tr.(tr_buf) nd.(upf_addr)]).
Proof.
  intros Ht Hd. split.
  - unfold transaction_retry_callback. step (load_trans_eq t s tr Ht). by rewrite Hd.
  - intros Hc Hcb Hu. rewrite (pfcp_node_retry_eq t s tr upf nd) by auto. by eexists.
Qed.

Lemma released_retry_witness :
  transaction_retry_callback 2%positive example_released = Some (tt, example_released) ∧
  (tr_itr_cnt (marked example_trans) < 3 -> tr_cb_data (marked example_trans) = Some 4%positive ->
   h_upfs (heap example_released) !! 4%positive = Some (set_upf_addr 77 zero_upf) ->
   ∃ s', pfcp_node_transaction_retry_callback 2%positive example_released = Some (tt, s') ∧
     trace s' = trace example_released ++ [Resend (tr_buf (marked example_trans)) 77]).
Proof.
  apply (released_retry 2%positive example_released (marked example_trans) 4%positive (set_upf_addr 77 zero_upf)); reflexivity.
Defined.

(** The tables keep the first of two transactions with the same key without
    saying so; when the second one is cleaned up, the assertion that it is the one
    in the table fails. *)
Theorem duplicate_key_aborts cfg t1 t2 s tr :
  t1 ≠ t2 -> transs s !! t2 = Some tr -> pfcp_map (tabs s) !! pfcp_key cfg tr = Some t1 ->
  let '(addr, port, seq) := pfcp_key cfg tr in
  add_pfcp_trans addr port seq t2 s = Some (true, s) ∧ cleanup_pfcp_trans cfg t2 s = None.
Proof.
  intros Hne Ht Hm. destruct (pfcp_key cfg tr) as [[addr port] seq] eqn:Ek. split.
  - unfold add_pfcp_trans, modify, mbind, cpM_bind, map_insert. cbn [mret cpM_ret].
    do 2 f_equal. unfold on_tabs. rewrite Hm. by destruct s as [? []].
  - unfold cleanup_pfcp_trans. step (load_trans_eq t2 s tr Ht). unfold pfcp_key in Ek.
    destruct (IS_TRANS_SELF_INITIATED tr); simplify_eq;
      unfold delete_pfcp_trans, find_pfcp_trans, gets, modify, mbind, cpM_bind; cbn; rewrite Hm;
      rewrite bool_decide_false by congruence; done.
Qed.

Lemma duplicate_key_aborts_witness :
  let s := put_trans 8%positive example_trans example_state in
  add_pfcp_trans 11 8805 7 8%positive s = Some (true, s) ∧ cleanup_pfcp_trans example_config 8%positive s = None.
Proof.
  apply (duplicate_key_aborts example_config 2%positive 8%positive
           (put_trans 8%positive example_trans example_state) example_trans); [done|reflexivity|reflexivity].
Defined.
