(* ===== verification/UeContext.v ===== *)
(** * UE contexts, PDN connections and bearers (src/cp/ue.c, pdn.c, bearer.c)

    Creation of a UE context with its first PDN connection and default bearer,
    lookup of a bearer by its quality of service, and the release of bearers, PDN
    connections and UE contexts.  The answers of [calloc] are arguments. *)

From stdpp Require Import gmap strings pretty.
From S2P Require Import Prelude Codec IpPool Teid CpState Transactions.

(** ** Arrays *)

Definition array_get {A} (l : list A) (i : Z) : cpM A :=
  nonnull (if 0 <=? i then l !! Z.to_nat i else None).
Definition array_put {A} (l : list A) (i : Z) (v : A) : cpM (list A) :=
  if (0 <=? i) && (i <? Z.of_nat (length l)) then mret (<[Z.to_nat i := v]> l) else crash.

(** ** Tables (src/cpplib/ue_tables.h, pdn_tables.h, qer_tables.h, pdr_tables.h, rule_tables.h) *)

Definition ue_context_entry_add_imsiKey (imsi : Z) (u : ptr) : cpM Z :=
  _ ← modify (on_tabs (fun x => set_ue_by_imsi (map_insert imsi u x.(ue_by_imsi)) x)); mret 0.
Definition ue_context_entry_lookup_imsiKey (imsi : Z) : cpM (option ptr) :=
  gets (fun s => s.(tabs).(ue_by_imsi) !! imsi).
Definition ue_context_delete_entry_imsiKey (imsi : Z) : cpM Z :=
  _ ← modify (on_tabs (fun x => set_ue_by_imsi (delete imsi x.(ue_by_imsi)) x)); mret 0.

Definition ue_context_entry_add_teidKey (teid : Z) (u : ptr) : cpM Z :=
  _ ← modify (on_tabs (fun x => set_ue_by_teid (map_insert teid u x.(ue_by_teid)) x)); mret 0.
Definition get_ue_context (teid : Z) : cpM (option ptr) := gets (fun s => s.(tabs).(ue_by_teid) !! teid).
Definition ue_context_delete_entry_teidKey (teid : Z) : cpM Z :=
  _ ← modify (on_tabs (fun x => set_ue_by_teid (delete teid x.(ue_by_teid)) x)); mret 0.

Definition add_sess_entry_seid (seid : Z) (u : ptr) : cpM Z :=
  _ ← modify (on_tabs (fun x => set_ue_by_seid (map_insert seid u x.(ue_by_seid)) x)); mret 0.
Definition get_sess_entry_seid (seid : Z) : cpM (option ptr) := gets (fun s => s.(tabs).(ue_by_seid) !! seid).
Definition del_sess_entry_seid (seid : Z) : cpM Z :=
  _ ← modify (on_tabs (fun x => set_ue_by_seid (delete seid x.(ue_by_seid)) x)); mret 0.

Definition gxsessid_context_entry_add (sess_id : string) (u : ptr) : cpM Z :=
  _ ← modify (on_tabs (fun x => set_ue_by_gxsess (map_insert sess_id u x.(ue_by_gxsess)) x)); mret 0.
Definition get_ue_context_from_gxsessid (sess_id : string) : cpM (option ptr) :=
  gets (fun s => s.(tabs).(ue_by_gxsess) !! sess_id).
Definition remove_gxsessid_to_context (sess_id : string) : cpM Z :=
  _ ← modify (on_tabs (fun x => set_ue_by_gxsess (delete sess_id x.(ue_by_gxsess)) x)); mret 0.

Definition add_pdn_conn_entry (call_id : Z) (p : ptr) : cpM Z :=
  _ ← modify (on_tabs (fun x => set_pdn_by_callid (map_insert call_id p x.(pdn_by_callid)) x)); mret 0.
Definition get_pdn_conn_entry (call_id : Z) : cpM (option ptr) :=
  gets (fun s => s.(tabs).(pdn_by_callid) !! call_id).
Definition del_pdn_conn_entry (call_id : Z) : cpM Z :=
  _ ← modify (on_tabs (fun x => set_pdn_by_callid (delete call_id x.(pdn_by_callid)) x)); mret 0.

Definition pdn_context_entry_add_teidKey (teid : Z) (p : ptr) : cpM Z :=
  _ ← modify (on_tabs (fun x => set_pdn_by_teid (map_insert teid p x.(pdn_by_teid)) x)); mret 0.
Definition get_pdn_context (teid : Z) : cpM (option ptr) := gets (fun s => s.(tabs).(pdn_by_teid) !! teid).
Definition pdn_context_delete_entry_teidKey (teid : Z) : cpM Z :=
  _ ← modify (on_tabs (fun x => set_pdn_by_teid (delete teid x.(pdn_by_teid)) x)); mret 0.

(** These two free what the entry points to, and say when there is no entry. *)
Definition del_qer_entry (qer_id : Z) : cpM Z :=
  t ← gets (fun s => s.(tabs).(qer_table));
  match t !! qer_id with
  | None => mret (-1)
  | Some _ => _ ← modify (on_tabs (fun x => set_qer_table (delete qer_id x.(qer_table)) x)); mret 0
  end.
Definition del_pdr_entry (pdr_id : Z) : cpM Z :=
  t ← gets (fun s => s.(tabs).(pdr_table));
  match t !! pdr_id with
  | None => mret (-1)
  | Some _ => _ ← modify (on_tabs (fun x => set_pdr_table (delete pdr_id x.(pdr_table)) x)); mret 0
  end.

Definition add_rule_name_entry (rule_name : string) (bearer : Z) : cpM Z :=
  _ ← modify (on_tabs (fun x => set_rule_table (map_insert rule_name bearer x.(rule_table)) x)); mret 0.
(** The [uint8_t] that was stored is returned as an [int8_t]. *)
Definition get_rule_name_entry (rule_name : string) : cpM Z :=
  gets (fun s => match s.(tabs).(rule_table) !! rule_name with
                 | Some b => if b <? 128 then b else b - 256
                 | None => -1
                 end).
Definition del_rule_name_entry (rule_name : string) : cpM Z :=
  _ ← modify (on_tabs (fun x => set_rule_table (delete rule_name x.(rule_table)) x)); mret 0.

(** ** Bearers (src/cp/bearer.c, src/cp/pdn.c) *)

(** [sprintf("%s%d")] of a rule name and a call id, which is printed as an [int]. *)
Definition rule_key (rule_name : string) (call_id : Z) : string :=
  rule_name +:+ pretty (if call_id <? 2 ^ 31 then call_id else call_id - 2 ^ 32).

Definition get_default_bearer (p : ptr) : cpM (option ptr) :=
  pdn ← load_pdn p; array_get pdn.(pdn_bearers) (pdn.(default_bearer_id) - 5).

Definition same_qos (q1 q2 : bearer_qos_ie) : bool :=
  (q1.(qci) =? q2.(qci)) && (q1.(preemption_vulnerability) =? q2.(preemption_vulnerability)) &&
  (q1.(priority_level) =? q2.(priority_level)) && (q1.(preemption_capability) =? q2.(preemption_capability)).

Fixpoint find_bearer (bearers : list (option ptr)) (q : bearer_qos_ie) : cpM (option ptr) :=
  match bearers with
  | [] => mret None
  | None :: rest => find_bearer rest q
  | Some b :: rest =>
      bearer ← load_bearer b;
      if same_qos bearer.(qos) q then mret (Some b) else find_bearer rest q
  end.
Definition get_bearer (p : ptr) (q : bearer_qos_ie) : cpM (option ptr) :=
  pdn ← load_pdn p; find_bearer pdn.(pdn_bearers) q.

Definition compare_default_bearer_qos (default_bearer_qos rule_qos : bearer_qos_ie) : Z :=
  if negb (default_bearer_qos.(qci) =? rule_qos.(qci)) then -1
  else if negb (default_bearer_qos.(preemption_vulnerability) =? rule_qos.(preemption_vulnerability)) then -1
  else if negb (default_bearer_qos.(priority_level) =? rule_qos.(priority_level)) then -1
  else if negb (default_bearer_qos.(preemption_capability) =? rule_qos.(preemption_capability)) then -1
  else 0.

Fixpoint for_each {A} (f : A -> cpM unit) (l : list A) : cpM unit :=
  match l with [] => mret tt | x :: rest => _ ← f x; for_each f rest end.

(** The ids are those of the bearer that [context->eps_bearers] points to; a
    failed deletion is logged. *)
Definition del_rule_entries (u : ptr) (ebi_index : Z) : cpM Z :=
  context ← load_ue u;
  slot ← array_get context.(ue_bearers) ebi_index;
  b ← nonnull slot;
  bearer ← load_bearer b;
  _ ← for_each (fun qer => _ ← del_qer_entry qer; mret tt) bearer.(qer_ids);
  _ ← for_each (fun pdr : option Z =>
        match pdr with None => mret tt | Some rule_id => _ ← del_pdr_entry rule_id; mret tt end) bearer.(pdrs);
  mret 0.

Definition cleanup_bearer_context (b : ptr) : cpM unit :=
  bearer ← load_bearer b;
  _ ← for_each (fun rule : option string =>
        match rule with
        | None => mret tt
        | Some name =>
            p ← nonnull bearer.(bearer_pdn);
            pdn ← load_pdn p;
            _ ← del_rule_name_entry (rule_key name pdn.(call_id)); mret tt
        end) bearer.(dynamic_rules);
  let ebi_index := u64 (bearer.(eps_bearer_id) - 5) in
  p ← nonnull bearer.(bearer_pdn);
  pdn ← load_pdn p;
  u ← nonnull pdn.(pdn_context);
  _ ← del_rule_entries u (u8 ebi_index);
  slots ← array_put pdn.(pdn_bearers) ebi_index None;
  _ ← update_pdn p (set_pdn_bearers slots);
  context ← load_ue u;
  slots ← array_put context.(ue_bearers) ebi_index None;
  _ ← update_ue u (set_ue_bearers slots);
  free_bearer b.

(** ** PDN connections (src/cp/pdn.c) *)

Definition IF_PDN_ADDR_STATIC (pdn : pdn_connection_t) : bool := Z.land pdn.(pdn_flags) 1 =? 1.
Definition IF_PDN_ADDR_ALLOC_CONTROL (pdn : pdn_connection_t) : bool := nz (Z.land pdn.(pdn_flags) 2).

(** One turn of the loop over the bearers. *)
Definition cleanup_pdn_bearer (p : ptr) (i : nat) : cpM unit :=
  pdn ← load_pdn p;
  slot ← array_get pdn.(pdn_bearers) (Z.of_nat i);
  match slot with
  | None => mret tt
  | Some b =>
      _ ← cleanup_bearer_context b;
      pdn ← load_pdn p;
      u ← nonnull pdn.(pdn_context);
      context ← load_ue u;
      slots ← array_put context.(ue_pdns) (Z.of_nat i) None;
      update_ue u (fun c => set_bearer_bitmap (Z.ldiff c.(bearer_bitmap) (Z.shiftl 1 (Z.of_nat i)))
                              (set_ue_pdns slots c))
  end.

Definition release_pdn_address (pdn : pdn_connection_t) : cpM unit :=
  modify (fun s => set_cp_pools
    (if IF_PDN_ADDR_STATIC pdn then
       release_session_address s.(cp_pools) (mk_ue_address pdn.(pdn_ipv4) true PDN_ADDR_ALLOC_CONTROL)
     else if IF_PDN_ADDR_ALLOC_CONTROL pdn then
       release_session_address s.(cp_pools) (mk_ue_address pdn.(pdn_ipv4) false PDN_ADDR_ALLOC_CONTROL)
     else s.(cp_pools)) s).

Definition cleanup_pdn_context (p : ptr) : cpM unit :=
  pdn ← load_pdn p;
  u ← nonnull pdn.(pdn_context);
  context ← load_ue u;
  _ ← assert_ (context.(s11_sgw_gtpc_teid) =? UE_SESS_ID pdn.(seid));
  _ ← for_each (cleanup_pdn_bearer p) (seq 0 MAX_BEARERS);
  _ ← update_pdn p (set_pending_pcc_rules []);
  _ ← del_sess_entry_seid pdn.(seid);
  _ ← del_pdn_conn_entry pdn.(call_id);
  _ ← remove_gxsessid_to_context pdn.(gx_sess_id);
  _ ← pdn_context_delete_entry_teidKey context.(s11_sgw_gtpc_teid);
  _ ← update_ue u (fun c => set_teid_bitmap 0 (set_num_pdns (u8 (c.(num_pdns) - 1)) c));
  _ ← release_pdn_address pdn;
  free_pdn p.

(** ** UE contexts (src/cp/ue.c) *)

(** The transactions of a procedure that goes away with its UE: the Gx
    transaction too is handed to [cleanup_pfcp_trans]. *)
Definition cleanup_pending_proc (cfg : cp_config_t) (q : ptr) : cpM unit :=
  proc ← load_proc q;
  _ ← match proc.(gtpc_trans) with None => mret tt | Some t => cleanup_gtpc_trans cfg t end;
  proc ← load_proc q;
  _ ← match proc.(pfcp_trans) with None => mret tt | Some t => cleanup_pfcp_trans cfg t end;
  proc ← load_proc q;
  _ ← match proc.(gx_trans) with None => mret tt | Some t => cleanup_pfcp_trans cfg t end;
  free_proc q.

(** Whether the context was freed, in which case the caller's pointer is NULL. *)
Definition cleanup_ue_context (cfg : cp_config_t) (u : ptr) : cpM bool :=
  context ← load_ue u;
  if context.(num_pdns) =? 0 then
    _ ← ue_context_delete_entry_imsiKey context.(imsi);
    _ ← ue_context_delete_entry_teidKey context.(s11_sgw_gtpc_teid);
    _ ← for_each (fun q => _ ← update_ue u (fun c => set_pending_sub_procs (tail c.(pending_sub_procs)) c);
                           cleanup_pending_proc cfg q) context.(pending_sub_procs);
    _ ← free_ue u;
    mret true
  else mret false.

Definition GTPV2C_CAUSE_SYSTEM_FAILURE : Z := 72.
Definition ENOENT : Z := 2.
Definition MAX_APN_LEN : Z := 64.

(** [memcpy] of the received bytes over a [uint64_t] of ones. *)
Definition imsi_key (imsi_val : list Z) : cpM Z :=
  if (length imsi_val <=? 8)%nat then mret (of_le_bytes (imsi_val ++ drop (length imsi_val) (repeat 0xff 8)))
  else crash.

(** The C string in a buffer, for [strcpy] to [pdn->apn]. *)
Fixpoint c_string (l : list Z) : list Z :=
  match l with [] => [] | b :: rest => if b =? 0 then [] else b :: c_string rest end.

(** The tunnel id of a new context. *)
Definition new_context_teid (cfg : cp_config_t) : cpM Z :=
  g ← gets cp_teids;
  match cfg.(cp_type) with
  | SAEGWC =>
      _ ← modify (set_cp_teids (mk_teids (u32 (g.(s11_sgw_gtpc_teid_offset) + 1)) g.(s5s8_pgw_gtpc_teid_offset)
            g.(sgw_gtpc_base_teid) g.(sgw_gtpc_teid_offset) g.(pgw_gtpc_base_teid) g.(pgw_gtpc_teid_offset)
            g.(teid_range) g.(sgw_gtpu_base_teid) g.(pgw_gtpu_base_teid)));
      mret (u32 (s11_sgw_gtpc_base_teid + g.(s11_sgw_gtpc_teid_offset)))
  | PGWC => mret (u32 (s5s8_pgw_gtpc_base_teid + g.(s5s8_pgw_gtpc_teid_offset)))
  | SGWC => mret 0
  end.

Definition alloc_ue (x : ue_context_t) : cpM ptr := alloc (fun p h => set_h_ues (<[p := x]> h.(h_ues)) h).
Definition alloc_pdn (x : pdn_connection_t) : cpM ptr := alloc (fun p h => set_h_pdns (<[p := x]> h.(h_pdns)) h).
Definition alloc_bearer (x : eps_bearer_t) : cpM ptr :=
  alloc (fun p h => set_h_bearers (<[p := x]> h.(h_bearers)) h).

(** The default bearer and the PDN connection of a fresh context, [None] when an
    allocation fails: [mem_bearer] and [mem_pdn] are the answers of [calloc]. *)
Definition new_default_bearer (mem_bearer mem_pdn : bool) (u : ptr) (ebi ebi_index : Z)
    : cpM (option (ptr * ptr)) :=
  context ← load_ue u;
  slot ← array_get context.(ue_bearers) ebi_index;
  match slot with
  | Some b =>
      bearer ← load_bearer b;
      old ← nonnull bearer.(bearer_pdn);
      old_pdn ← load_pdn old;
      slots ← array_put old_pdn.(pdn_bearers) ebi_index None;
      _ ← update_pdn old (set_pdn_bearers slots);
      _ ← update_bearer b (fun _ => zero_bearer);
      if mem_pdn then
        p ← alloc_pdn (set_default_bearer_id ebi (set_num_bearer 1 zero_pdn));
        pdns ← array_put context.(ue_pdns) ebi_index (Some p);
        _ ← update_ue u (fun c => set_num_pdns (u8 (c.(num_pdns) + 1)) (set_ue_pdns pdns c));
        slots ← array_put zero_pdn.(pdn_bearers) ebi_index (Some b);
        _ ← update_pdn p (set_pdn_bearers slots);
        mret (Some (b, p))
      else mret None
  | None =>
      if mem_bearer then
        b ← alloc_bearer (set_eps_bearer_id ebi zero_bearer);
        if mem_pdn then
          p ← alloc_pdn (set_default_bearer_id ebi (set_num_bearer 1 zero_pdn));
          bearers ← array_put context.(ue_bearers) ebi_index (Some b);
          pdns ← array_put context.(ue_pdns) ebi_index (Some p);
          _ ← update_ue u (fun c => set_bearer_bitmap (u16 (Z.lor c.(bearer_bitmap) (Z.shiftl 1 ebi_index)))
                (set_num_pdns (u8 (c.(num_pdns) + 1)) (set_ue_pdns pdns (set_ue_bearers bearers c))));
          slots ← array_put zero_pdn.(pdn_bearers) ebi_index (Some b);
          _ ← update_pdn p (set_pdn_bearers slots);
          mret (Some (b, p))
        else mret None
      else mret None
  end.

(** The cause, and what [*context] is afterwards. *)
Definition create_ue_context (cfg : cp_config_t) (mem_ue mem_bearer mem_pdn : bool) (imsi_val : list Z)
    (ebi : Z) (apn : list Z) (apn_len : Z) : cpM (Z * option ptr) :=
  imsi ← imsi_key imsi_val;
  found ← ue_context_entry_lookup_imsiKey imsi;
  match found with
  | Some u => mret (GTPV2C_CAUSE_REQUEST_REJECTED, Some u)
  | None =>
      if negb mem_ue then mret (GTPV2C_CAUSE_SYSTEM_FAILURE, None)
      else
        u ← alloc_ue (mk_ue UE_STATE_UNKNOWN imsi (Z.of_nat (length imsi_val)) 0 0 0 0
                        (repeat None MAX_BEARERS) (repeat None MAX_BEARERS) [] None);
        _ ← ue_context_entry_add_imsiKey imsi u;
        teid ← new_context_teid cfg;
        _ ← update_ue u (fun c => set_pending_sub_procs [] (set_s11_sgw_gtpc_teid teid c));
        _ ← ue_context_entry_add_teidKey teid u;
        let ebi_index := u8 (ebi - 5) in
        made ← new_default_bearer mem_bearer mem_pdn u ebi ebi_index;
        match made with
        | None => mret (GTPV2C_CAUSE_SYSTEM_FAILURE, Some u)
        | Some (b, p) =>
            _ ← update_bearer b (fun x => set_eps_bearer_id ebi (set_bearer_pdn (Some p)
                  (set_packet_filter_map (repeat (- ENOENT) MAX_FILTERS_PER_UE) x)));
            _ ← pdn_context_entry_add_teidKey teid p;
            _ ← assert_ (Z.of_nat (length (c_string apn)) <? MAX_APN_LEN);
            _ ← update_pdn p (fun x => set_apn_len apn_len (set_apn (c_string apn) x));
            mret (0, Some u)
        end
  end.

(** ** Running the operations *)

Abbreviation ues s := (h_ues (heap s)).
Abbreviation pdns s := (h_pdns (heap s)).
Abbreviation bearers s := (h_bearers (heap s)).

Lemma load_ue_eq u s c : ues s !! u = Some c -> load_ue u s = Some (c, s).
Proof. intros E. unfold load_ue. by rewrite E. Qed.
Lemma load_pdn_eq p s pd : pdns s !! p = Some pd -> load_pdn p s = Some (pd, s).
Proof. intros E. unfold load_pdn. by rewrite E. Qed.
Lemma load_bearer_eq b s br : bearers s !! b = Some br -> load_bearer b s = Some (br, s).
Proof. intros E. unfold load_bearer. by rewrite E. Qed.
Lemma update_ue_eq u s c f : ues s !! u = Some c ->
  update_ue u f s = Some (tt, on_heap (fun h => set_h_ues (<[u := f c]> h.(h_ues)) h) s).
Proof. intros E. unfold update_ue. by rewrite E. Qed.
Lemma update_pdn_eq p s pd f : pdns s !! p = Some pd ->
  update_pdn p f s = Some (tt, on_heap (fun h => set_h_pdns (<[p := f pd]> h.(h_pdns)) h) s).
Proof. intros E. unfold update_pdn. by rewrite E. Qed.
Lemma free_bearer_eq b s br : bearers s !! b = Some br ->
  free_bearer b s = Some (tt, on_heap (fun h => set_h_bearers (delete b h.(h_bearers)) h) s).
Proof. intros E. unfold free_bearer. by rewrite E. Qed.
Lemma free_pdn_eq p s pd : pdns s !! p = Some pd ->
  free_pdn p s = Some (tt, on_heap (fun h => set_h_pdns (delete p h.(h_pdns)) h) s).
Proof. intros E. unfold free_pdn. by rewrite E. Qed.
Lemma nonnull_eq {A} (x : A) s : nonnull (Some x) s = Some (x, s).
Proof. done. Qed.

Lemma array_get_eq {A} (l : list A) (i : nat) x s : l !! i = Some x ->
  array_get l (Z.of_nat i) s = Some (x, s).
Proof.
  intros E. unfold array_get. rewrite (proj2 (Z.leb_le 0 _)) by lia. by rewrite Nat2Z.id, E.
Qed.
Lemma array_put_eq {A} (l : list A) (i : nat) v s : (i < length l)%nat ->
  array_put l (Z.of_nat i) v s = Some (<[i := v]> l, s).
Proof.
  intros E. unfold array_put. rewrite (proj2 (Z.leb_le 0 _)), (proj2 (Z.ltb_lt _ _)) by lia.
  by rewrite Nat2Z.id.
Qed.

(** Removal of several keys. *)
Definition delete_all {K A} `{Countable K} (l : list K) (m : gmap K A) : gmap K A :=
  foldl (fun m k => delete k m) m l.

Lemma delete_all_subseteq {K A} `{Countable K} (l : list K) (m : gmap K A) : delete_all l m ⊆ m.
Proof.
  revert m; induction l as [|k l IH]; intros m; [done|]. cbn. etrans; [apply IH|apply delete_subseteq].
Qed.

Lemma delete_all_none {K A} `{Countable K} (l : list K) (m : gmap K A) k :
  k ∈ l -> delete_all l m !! k = None.
Proof.
  revert m; induction l as [|k' l IH]; intros m Hk; [by apply not_elem_of_nil in Hk|].
  apply elem_of_cons in Hk as [->|Hk]; [|by apply IH]. cbn.
  eapply lookup_weaken_None; [|apply delete_all_subseteq]. apply lookup_delete_eq.
Qed.

Lemma delete_all_other {K A} `{Countable K} (l : list K) (m : gmap K A) k :
  k ∉ l -> delete_all l m !! k = m !! k.
Proof.
  revert m; induction l as [|k' l IH]; intros m Hk; [done|]. apply not_elem_of_cons in Hk as [Hne Hk].
  change (delete_all (k' :: l) m) with (delete_all l (delete k' m)). rewrite IH by done. by apply lookup_delete_ne.
Qed.

Lemma delete_all_absent {K A} `{Countable K} (k : K) (l : list K) (m : gmap K A) :
  m !! k = None -> delete_all (k :: l) m = delete_all l m.
Proof. intros E. change (delete_all (k :: l) m) with (delete_all l (delete k m)). by rewrite delete_id. Qed.

Lemma del_qers_eq l s :
  for_each (fun qer => _ ← del_qer_entry qer; mret tt) l s
  = Some (tt, on_tabs (fun x => set_qer_table (delete_all l x.(qer_table)) x) s).
Proof.
  revert s; induction l as [|q l IH]; intros s; [by destruct s as [? []]|].
  cbn [for_each]. unfold mbind, cpM_bind. unfold del_qer_entry, gets, mbind, cpM_bind.
  destruct (qer_table (tabs s) !! q) eqn:E; cbn [modify mret cpM_ret]; rewrite IH; [done|].
  unfold on_tabs. by rewrite delete_all_absent.
Qed.

Lemma del_pdrs_eq (l : list (option Z)) s :
  for_each (fun pdr : option Z =>
    match pdr with None => mret tt | Some rule_id => _ ← del_pdr_entry rule_id; mret tt end) l s
  = Some (tt, on_tabs (fun x => set_pdr_table (delete_all (omap id l) x.(pdr_table)) x) s).
Proof.
  revert s; induction l as [|[q|] l IH]; intros s; [by destruct s as [? []]| |apply IH].
  change (omap id (Some q :: l)) with (q :: omap id l).
  cbn [for_each]. unfold mbind, cpM_bind. unfold del_pdr_entry, gets, mbind, cpM_bind.
  destruct (pdr_table (tabs s) !! q) eqn:E; cbn [modify mret cpM_ret]; rewrite IH; [done|].
  unfold on_tabs. by rewrite delete_all_absent.
Qed.

Lemma del_rule_entries_eq u (i : nat) s c b br :
  ues s !! u = Some c -> ue_bearers c !! i = Some (Some b) -> bearers s !! b = Some br ->
  del_rule_entries u (Z.of_nat i) s
  = Some (0, on_tabs (fun x => set_pdr_table (delete_all (omap id br.(pdrs)) x.(pdr_table))
                                 (set_qer_table (delete_all br.(qer_ids) x.(qer_table)) x)) s).
Proof.
  intros Hu Hi Hb. unfold del_rule_entries. step (load_ue_eq u s c Hu).
  step (array_get_eq (ue_bearers c) i _ s Hi). step (nonnull_eq b s). step (load_bearer_eq b s br Hb).
  step (del_qers_eq br.(qer_ids) s). step (del_pdrs_eq br.(pdrs) (on_tabs (fun x => set_qer_table
    (delete_all br.(qer_ids) x.(qer_table)) x) s)). done.
Qed.

Definition rule_keys (br : eps_bearer_t) (call_id : Z) : list string :=
  map (fun name => rule_key name call_id) (omap id br.(dynamic_rules)).

Lemma del_rules_eq (rules : list (option string)) bp p pd s :
  bp = Some p -> pdns s !! p = Some pd ->
  for_each (fun rule : option string =>
    match rule with
    | None => mret tt
    | Some name =>
        p ← nonnull bp; pdn ← load_pdn p;
        _ ← del_rule_name_entry (rule_key name pdn.(call_id)); mret tt
    end) rules s
  = Some (tt, on_tabs (fun x => set_rule_table
      (delete_all (map (fun name => rule_key name pd.(call_id)) (omap id rules)) x.(rule_table)) x) s).
Proof.
  intros -> Hp. revert s Hp; induction rules as [|[name|] rules IH]; intros s Hp;
    [by destruct s as [? []]| |by apply IH].
  cbn [for_each]. change (omap id (Some name :: rules)) with (name :: omap id rules). cbn [map].
  assert (forall {B} (k : unit -> cpM B),
    ((p ← nonnull (Some p); pdn ← load_pdn p; _ ← del_rule_name_entry (rule_key name pdn.(call_id)); mret tt) ≫= k) s
    = k tt (on_tabs (fun x => set_rule_table (delete (rule_key name pd.(call_id)) x.(rule_table)) x) s)) as E.
  { intros B k. unfold mbind, cpM_bind, nonnull. cbn [mret cpM_ret]. by rewrite (load_pdn_eq p s pd Hp). }
  rewrite E. by rewrite IH.
Qed.

(** The state after the bearer [b] in slot [i] is released. *)
Definition bearer_cleaned (b : ptr) (br : eps_bearer_t) (p : ptr) (pd : pdn_connection_t) (u : ptr)
    (c : ue_context_t) (i : nat) (s : cp) : cp :=
  on_heap (fun h => set_h_bearers (delete b h.(h_bearers))
                     (set_h_ues (<[u := set_ue_bearers (<[i := None]> c.(ue_bearers)) c]> h.(h_ues))
                       (set_h_pdns (<[p := set_pdn_bearers (<[i := None]> pd.(pdn_bearers)) pd]> h.(h_pdns)) h)))
    (on_tabs (fun x => set_pdr_table (delete_all (omap id br.(pdrs)) x.(pdr_table))
                        (set_qer_table (delete_all br.(qer_ids) x.(qer_table))
                          (set_rule_table (delete_all (rule_keys br pd.(call_id)) x.(rule_table)) x))) s).

(** A PDN connection whose bearers are where their ids say, in the connection and
    in the context of its UE. *)
Record pdn_ok (s : cp) (p : ptr) (pd : pdn_connection_t) (u : ptr) (c : ue_context_t) : Prop := {
  pdn_there : pdns s !! p = Some pd;
  pdn_linked : pdn_context pd = Some u;
  ue_there : ues s !! u = Some c;
  pdn_slots : length (pdn_bearers pd) = MAX_BEARERS;
  ue_slots : length (ue_bearers c) = MAX_BEARERS;
  ue_pdn_slots : length (ue_pdns c) = MAX_BEARERS;
  bearer_slots i b : pdn_bearers pd !! i = Some (Some b) ->
    ∃ br, bearers s !! b = Some br ∧ eps_bearer_id br = Z.of_nat i + 5 ∧ bearer_pdn br = Some p ∧
          ue_bearers c !! i = Some (Some b);
}.

Lemma cleanup_bearer_context_eq s p pd u c i b br :
  pdn_ok s p pd u c -> pdn_bearers pd !! i = Some (Some b) -> bearers s !! b = Some br ->
  cleanup_bearer_context b s = Some (tt, bearer_cleaned b br p pd u c i s).
Proof.
  intros [Hp Hl Hu L1 L2 L3 HB] Hi Hb. destruct (HB _ _ Hi) as (br' & Hb' & Hid & Hbp & Hui). simplify_eq.
  assert ((i < MAX_BEARERS)%nat) as Hlt by (rewrite <- L1; by eapply lookup_lt_Some).
  unfold cleanup_bearer_context. step (load_bearer_eq b s br Hb).
  step (del_rules_eq br.(dynamic_rules) (bearer_pdn br) p pd s Hbp Hp). cbv zeta.
  rewrite Hbp. set (s1 := on_tabs _ s). step (nonnull_eq p s1). step (load_pdn_eq p s1 pd Hp). rewrite Hl.
  step (nonnull_eq u s1). rewrite Hid. replace (Z.of_nat i + 5 - 5) with (Z.of_nat i) by lia.
  unfold MAX_BEARERS in Hlt. rewrite (uwrap_small 64), (uwrap_small 8) by lia.
  step (del_rule_entries_eq u i s1 c b br Hu Hui Hb). set (s2 := on_tabs _ s1).
  step (array_put_eq (pdn_bearers pd) i None s2 ltac:(rewrite L1; exact Hlt)).
  step (update_pdn_eq p s2 pd (set_pdn_bearers (<[i := None]> pd.(pdn_bearers))) Hp). set (s3 := on_heap _ s2).
  step (load_ue_eq u s3 c Hu). step (array_put_eq (ue_bearers c) i None s3 ltac:(rewrite L2; exact Hlt)).
  step (update_ue_eq u s3 c (set_ue_bearers (<[i := None]> c.(ue_bearers))) Hu). set (s4 := on_heap _ s3).
  by rewrite (free_bearer_eq b s4 br Hb).
Qed.

(** An emptied slot. *)
Definition no_bearer (o : option ptr) : option ptr := None.

Definition has_bearer (pd : pdn_connection_t) (i : nat) : bool :=
  match pdn_bearers pd !! i with Some (Some _) => true | _ => false end.

(** [P] holds of a bearer in a slot below [k]. *)
Definition of_bearers (s : cp) (pd : pdn_connection_t) (k : nat) (P : eps_bearer_t -> Prop) : Prop :=
  ∃ i b br, (i < k)%nat ∧ pdn_bearers pd !! i = Some (Some b) ∧ bearers s !! b = Some br ∧ P br.

(** What the release of the bearers in the slots below [k] has done to the bearers
    ([hb]), the PDN connection ([pd']), the UE context ([c']) and the tables of
    packet detection rules, QoS rules and rule names. *)
Record released_upto (s : cp) (pd : pdn_connection_t) (c : ue_context_t) (k : nat)
    (hb : gmap ptr eps_bearer_t) (pd' : pdn_connection_t) (c' : ue_context_t)
    (tp tq : gmap Z unit) (tr : gmap string Z) : Prop := {
  rel_pdn : pd' = set_pdn_bearers (pdn_bearers pd') pd;
  rel_ue : c' = set_bearer_bitmap (bearer_bitmap c') (set_ue_pdns (ue_pdns c') (set_ue_bearers (ue_bearers c') c));
  rel_slots i : pdn_bearers pd' !! i = if decide (i < k)%nat then no_bearer <$> (pdn_bearers pd !! i) else pdn_bearers pd !! i;
  rel_ue_slots i : ue_bearers c' !! i =
    if decide (i < k)%nat then (if has_bearer pd i then no_bearer <$> (ue_bearers c !! i) else ue_bearers c !! i)
    else ue_bearers c !! i;
  rel_ue_pdns i : ue_pdns c' !! i =
    if decide (i < k)%nat then (if has_bearer pd i then no_bearer <$> (ue_pdns c !! i) else ue_pdns c !! i)
    else ue_pdns c !! i;
  rel_bits i : Z.testbit (bearer_bitmap c') (Z.of_nat i) =
    Z.testbit (bearer_bitmap c) (Z.of_nat i) && negb ((i <? k)%nat && has_bearer pd i);
  rel_freed i b : (i < k)%nat -> pdn_bearers pd !! i = Some (Some b) -> hb !! b = None;
  rel_kept b : (∀ i, (i < k)%nat -> pdn_bearers pd !! i ≠ Some (Some b)) -> hb !! b = bearers s !! b;
  rel_pdrs x : ¬ of_bearers s pd k (fun br => Some x ∈ br.(pdrs)) -> tp !! x = pdr_table (tabs s) !! x;
  rel_qers x : ¬ of_bearers s pd k (fun br => x ∈ br.(qer_ids)) -> tq !! x = qer_table (tabs s) !! x;
  rel_rules x : ¬ of_bearers s pd k (fun br => ∃ name, Some name ∈ br.(dynamic_rules) ∧ x = rule_key name pd.(call_id)) ->
    tr !! x = rule_table (tabs s) !! x;
  rel_gone i b br : (i < k)%nat -> pdn_bearers pd !! i = Some (Some b) -> bearers s !! b = Some br ->
    (∀ x, Some x ∈ br.(pdrs) -> tp !! x = None) ∧ (∀ x, x ∈ br.(qer_ids) -> tq !! x = None) ∧
    ∀ x, Some x ∈ br.(dynamic_rules) -> tr !! rule_key x pd.(call_id) = None;
}.

Definition reshape (u p : ptr) (hb : gmap ptr eps_bearer_t) (pd' : pdn_connection_t) (c' : ue_context_t)
    (tp tq : gmap Z unit) (tr : gmap string Z) (s : cp) : cp :=
  on_heap (fun h => set_h_bearers hb (set_h_ues (<[u := c']> h.(h_ues)) (set_h_pdns (<[p := pd']> h.(h_pdns)) h)))
    (on_tabs (fun x => set_pdr_table tp (set_qer_table tq (set_rule_table tr x))) s).

Lemma released_none s p pd u c : pdn_ok s p pd u c ->
  released_upto s pd c 0 (bearers s) pd c (pdr_table (tabs s)) (qer_table (tabs s)) (rule_table (tabs s)) ∧
  reshape u p (bearers s) pd c (pdr_table (tabs s)) (qer_table (tabs s)) (rule_table (tabs s)) s = s.
Proof.
  intros [Hp Hl Hu _ _ _ _]. split.
  - split; try done; try (intros; lia); [by destruct pd|by destruct c|]. intros. by rewrite andb_true_r.
  - unfold reshape, on_heap, on_tabs. destruct s as [[] []]; cbn in *. by rewrite !insert_id.
Qed.

Lemma same_length_lookup {A} (l l' : list A) :
  (∀ i, is_Some (l !! i) <-> is_Some (l' !! i)) -> length l = length l'.
Proof.
  intros H. apply Nat.le_antisymm; apply Nat.nlt_ge; intros Hlt; apply lookup_lt_is_Some_2 in Hlt;
    apply H, lookup_lt_is_Some_1 in Hlt; lia.
Qed.

(** The bearers that are not released yet are in order. *)
Lemma released_pdn_ok s p pd u c k hb pd' c' tp tq tr :
  pdn_ok s p pd u c -> released_upto s pd c k hb pd' c' tp tq tr ->
  pdn_ok (reshape u p hb pd' c' tp tq tr s) p pd' u c'.
Proof.
  intros [Hp Hl Hu L1 L2 L3 HB] R.
  assert (∀ (l l' : list (option ptr)) f, (∀ i, l' !! i = f i (l !! i)) ->
    (∀ i o, is_Some (f i o) <-> is_Some o) -> length l = MAX_BEARERS -> length l' = MAX_BEARERS) as Len.
  { intros l l' f E Hf <-. symmetry. apply same_length_lookup. intros i. by rewrite E, Hf. }
  split.
  - cbn. apply lookup_insert_eq.
  - by rewrite (rel_pdn _ _ _ _ _ _ _ _ _ _ R).
  - cbn. apply lookup_insert_eq.
  - eapply (Len (pdn_bearers pd) _ (fun i o => if decide (i < k)%nat then no_bearer <$> o else o));
      [apply (rel_slots _ _ _ _ _ _ _ _ _ _ R)| |done]. intros i o. case_decide; [apply fmap_is_Some|done].
  - eapply (Len (ue_bearers c) _ (fun i o => if decide (i < k)%nat then (if has_bearer pd i then no_bearer <$> o else o) else o));
      [apply (rel_ue_slots _ _ _ _ _ _ _ _ _ _ R)| |done]. intros i o. case_decide; [destruct (has_bearer pd i); [apply fmap_is_Some|done]|done].
  - eapply (Len (ue_pdns c) _ (fun i o => if decide (i < k)%nat then (if has_bearer pd i then no_bearer <$> o else o) else o));
      [apply (rel_ue_pdns _ _ _ _ _ _ _ _ _ _ R)| |done]. intros i o. case_decide; [destruct (has_bearer pd i); [apply fmap_is_Some|done]|done].
  - intros i b Hi. rewrite (rel_slots _ _ _ _ _ _ _ _ _ _ R) in Hi.
    destruct (decide (i < k)%nat) as [|Hk]; [by destruct (pdn_bearers pd !! i)|].
    destruct (HB _ _ Hi) as (br & Hb & Hid & Hbp & Hui). exists br. split_and!; auto.
    + cbn. rewrite (rel_kept _ _ _ _ _ _ _ _ _ _ R); [done|]. intros j Hj Hjb.
      destruct (HB _ _ Hjb) as (br' & Hb' & Hid' & _). simplify_eq. lia.
    + rewrite (rel_ue_slots _ _ _ _ _ _ _ _ _ _ R), decide_False by done. done.
Qed.

Lemma released_skip s pd c k hb pd' c' tp tq tr :
  pdn_bearers pd !! k = Some None -> released_upto s pd c k hb pd' c' tp tq tr ->
  released_upto s pd c (S k) hb pd' c' tp tq tr.
Proof.
  intros Hk [R1 R2 R3 R4 R5 R6 R7 R8 R9 R10 R11 R12].
  assert (has_bearer pd k = false) as Hb by (unfold has_bearer; by rewrite Hk).
  assert (∀ i b, (i < S k)%nat -> pdn_bearers pd !! i = Some (Some b) -> (i < k)%nat) as Lt.
  { intros i b Hi Hib. assert (i ≠ k) by (intros ->; congruence). lia. }
  split; try done.
  - intros i. rewrite R3. repeat case_decide; try done; try lia. replace i with k by lia. by rewrite Hk.
  - intros i. rewrite R4. repeat case_decide; try done; try lia. replace i with k by lia. by rewrite Hb.
  - intros i. rewrite R5. repeat case_decide; try done; try lia. replace i with k by lia. by rewrite Hb.
  - intros i. rewrite R6. f_equal. destruct (Nat.ltb_spec i k), (Nat.ltb_spec i (S k)); try done; try lia.
    replace i with k by lia. by rewrite Hb.
  - intros i b Hi Hib. eapply R7; eauto.
  - intros b H. apply R8. intros i Hi. apply H. lia.
  - intros x Hx. apply R9. intros (i & b & br & Hi & H). apply Hx. exists i, b, br. split; [lia|done].
  - intros x Hx. apply R10. intros (i & b & br & Hi & H). apply Hx. exists i, b, br. split; [lia|done].
  - intros x Hx. apply R11. intros (i & b & br & Hi & H). apply Hx. exists i, b, br. split; [lia|done].
  - intros i b br Hi Hib. eapply R12; eauto.
Qed.

(** The context after one more slot was emptied. *)
Definition ue_slot_cleared (k : nat) (c' : ue_context_t) : ue_context_t :=
  let c1 := set_ue_bearers (<[k := None]> c'.(ue_bearers)) c' in
  set_bearer_bitmap (Z.ldiff c1.(bearer_bitmap) (Z.shiftl 1 (Z.of_nat k)))
    (set_ue_pdns (<[k := None]> c1.(ue_pdns)) c1).

Lemma cleared_slot (l l0 : list (option ptr)) (k i : nat) : l !! k = l0 !! k ->
  <[k := None]> l !! i = if decide (i = k) then no_bearer <$> (l0 !! k) else l !! i.
Proof.
  intros E. case_decide as Hi; [subst i|by rewrite list_lookup_insert_ne].
  rewrite <- E. destruct (l !! k) eqn:Hk; cbn.
  - rewrite list_lookup_insert_eq; [done|by eapply lookup_lt_Some].
  - rewrite list_insert_ge by (by apply lookup_ge_None). by rewrite Hk.
Qed.

Lemma released_one s pd c k b br hb pd' c' tp tq tr :
  pdn_bearers pd !! k = Some (Some b) -> bearers s !! b = Some br ->
  released_upto s pd c k hb pd' c' tp tq tr ->
  released_upto s pd c (S k) (delete b hb) (set_pdn_bearers (<[k := None]> pd'.(pdn_bearers)) pd')
    (ue_slot_cleared k c') (delete_all (omap id br.(pdrs)) tp) (delete_all br.(qer_ids) tq)
    (delete_all (rule_keys br pd.(call_id)) tr).
Proof.
  intros Hk Hbr [R1 R2 R3 R4 R5 R6 R7 R8 R9 R10 R11 R12].
  assert (has_bearer pd k = true) as Hb by (unfold has_bearer; by rewrite Hk).
  assert (More : ∀ P, ¬ of_bearers s pd (S k) P -> ¬ P br ∧ ¬ of_bearers s pd k P).
  { intros P HP. split; [intros ?; apply HP; exists k, b, br; split_and!; auto; lia|].
    intros (i & x & y & Hi & H). apply HP. exists i, x, y. split; [lia|done]. }
  split.
  - by rewrite R1.
  - unfold ue_slot_cleared. by rewrite R2.
  - intros i. cbn. rewrite (cleared_slot _ (pdn_bearers pd)) by (rewrite R3, decide_False; [done|lia]).
    rewrite R3. repeat case_decide; subst; try done; lia.
  - intros i. cbn. rewrite (cleared_slot _ (ue_bearers c)) by (rewrite R4, decide_False; [done|lia]).
    rewrite R4. repeat case_decide; subst; try done; try lia. by rewrite Hb.
  - intros i. cbn. rewrite (cleared_slot _ (ue_pdns c)) by (rewrite R5, decide_False; [done|lia]).
    rewrite R5. repeat case_decide; subst; try done; try lia. by rewrite Hb.
  - intros i. cbn. rewrite Z.ldiff_spec, R6, Z.shiftl_1_l, Z.pow2_bits_eqb, <- andb_assoc by lia. f_equal.
    destruct (Z.eqb_spec (Z.of_nat k) (Z.of_nat i)), (Nat.ltb_spec i k), (Nat.leb_spec i k); try lia;
      [|by cbn; rewrite ?andb_true_r..]. assert (i = k) as -> by lia. by rewrite Hb.
  - intros i b' Hi Hib. destruct (decide (b' = b)) as [->|Hne]; [apply lookup_delete_eq|].
    rewrite lookup_delete_ne by congruence. apply (R7 i); [|done].
    assert (i ≠ k) by (intros ->; congruence). lia.
  - intros b' H. rewrite lookup_delete_ne by (intros ->; by apply (H k); [lia|]).
    apply R8. intros i Hi. apply H. lia.
  - intros x [H1 H2]%More. rewrite delete_all_other; [by apply R9|]. intros (y & Hy & Ey)%list_elem_of_omap.
    unfold id in Ey. subst y. by apply H1.
  - intros x [H1 H2]%More. rewrite delete_all_other; [by apply R10|done].
  - intros x [H1 H2]%More. rewrite delete_all_other; [by apply R11|]. unfold rule_keys.
    intros (y & -> & Hy)%list_elem_of_fmap. apply H1. exists y. split; [|done].
    apply list_elem_of_omap in Hy as (z & Hz & Ez). unfold id in Ez. by subst z.
  - intros i b' br' Hi Hib Hbr'. destruct (decide (i = k)) as [->|Hne].
    + simplify_eq. split_and!; intros x Hx; apply delete_all_none; [|done|].
      * apply list_elem_of_omap. eauto.
      * unfold rule_keys. apply list_elem_of_fmap. exists x. split; [done|]. apply list_elem_of_omap. eauto.
    + destruct (R12 i b' br' ltac:(lia) Hib Hbr') as (H1 & H2 & H3).
      split_and!; intros x Hx; (eapply lookup_weaken_None; [|apply delete_all_subseteq]); auto.
Qed.

(** One turn of the loop. *)
Lemma cleanup_pdn_bearer_step s p pd u c k hb pd' c' tp tq tr :
  pdn_ok s p pd u c -> (k < MAX_BEARERS)%nat -> released_upto s pd c k hb pd' c' tp tq tr ->
  ∃ hb2 pd2 c2 tp2 tq2 tr2, released_upto s pd c (S k) hb2 pd2 c2 tp2 tq2 tr2 ∧
    cleanup_pdn_bearer p k (reshape u p hb pd' c' tp tq tr s)
    = Some (tt, reshape u p hb2 pd2 c2 tp2 tq2 tr2 s).
Proof.
  intros I Hk R. pose proof (released_pdn_ok _ _ _ _ _ _ _ _ _ _ _ _ I R) as I'.
  set (s' := reshape u p hb pd' c' tp tq tr s) in *.
  assert (pdn_bearers pd' !! k = pdn_bearers pd !! k) as Ek.
  { by rewrite (rel_slots _ _ _ _ _ _ _ _ _ _ R), decide_False by lia. }
  destruct (lookup_lt_is_Some_2 (pdn_bearers pd) k) as [slot Hslot]; [by rewrite (pdn_slots _ _ _ _ _ I)|].
  unfold cleanup_pdn_bearer. step (load_pdn_eq p s' pd' (pdn_there _ _ _ _ _ I')).
  step (array_get_eq (pdn_bearers pd') k slot s' ltac:(by rewrite Ek)).
  destruct slot as [b|]; [|do 6 eexists; split; [by apply released_skip|done]].
  destruct (bearer_slots _ _ _ _ _ I k b Hslot) as (br & Hb & Hid & Hbp & Hui).
  assert (bearers s' !! b = Some br) as Hb'.
  { destruct (bearer_slots _ _ _ _ _ I' k b ltac:(by rewrite Ek)) as (br' & Hb' & _). rewrite Hb'.
    cbn in Hb'. destruct (rel_kept _ _ _ _ _ _ _ _ _ _ R b) as [].
    - intros i Hi Hib. pose proof (rel_freed _ _ _ _ _ _ _ _ _ _ R i b Hi Hib). congruence.
    - congruence. }
  step (cleanup_bearer_context_eq s' p pd' u c' k b br I' ltac:(by rewrite Ek) Hb').
  do 6 eexists. split; [by eapply released_one|].
  set (s1 := bearer_cleaned b br p pd' u c' k s').
  assert (pdns s1 !! p = Some (set_pdn_bearers (<[k := None]> pd'.(pdn_bearers)) pd')) as Hp1.
  { cbn. apply lookup_insert_eq. }
  assert (ues s1 !! u = Some (set_ue_bearers (<[k := None]> c'.(ue_bearers)) c')) as Hu1.
  { cbn. apply lookup_insert_eq. }
  step (load_pdn_eq _ _ _ Hp1). cbn [pdn_context set_pdn_bearers]. rewrite (pdn_linked _ _ _ _ _ I').
  step (nonnull_eq u s1). step (load_ue_eq _ _ _ Hu1).
  step (array_put_eq (ue_pdns c') k None s1 ltac:(by rewrite (ue_pdn_slots _ _ _ _ _ I'))).
  rewrite (update_ue_eq _ _ _ _ Hu1). unfold s1, s', reshape, bearer_cleaned, on_heap, on_tabs, ue_slot_cleared.
  cbn. rewrite !insert_insert_eq. by rewrite (rel_pdn _ _ _ _ _ _ _ _ _ _ R).
Qed.

Lemma cleanup_pdn_loop s p pd u c n k hb pd' c' tp tq tr :
  pdn_ok s p pd u c -> (k + n <= MAX_BEARERS)%nat -> released_upto s pd c k hb pd' c' tp tq tr ->
  ∃ hb2 pd2 c2 tp2 tq2 tr2, released_upto s pd c (k + n) hb2 pd2 c2 tp2 tq2 tr2 ∧
    for_each (cleanup_pdn_bearer p) (seq k n) (reshape u p hb pd' c' tp tq tr s)
    = Some (tt, reshape u p hb2 pd2 c2 tp2 tq2 tr2 s).
Proof.
  intros I. revert k hb pd' c' tp tq tr; induction n as [|n IH]; intros k hb pd' c' tp tq tr Hk R.
  { rewrite Nat.add_0_r. do 6 eexists. split; [exact R|done]. }
  destruct (cleanup_pdn_bearer_step s p pd u c k hb pd' c' tp tq tr I ltac:(lia) R)
    as (hb2 & pd2 & c2 & tp2 & tq2 & tr2 & R2 & E).
  destruct (IH (S k) hb2 pd2 c2 tp2 tq2 tr2 ltac:(lia) R2) as (hb3 & pd3 & c3 & tp3 & tq3 & tr3 & R3 & E3).
  do 6 eexists. replace (k + S n)%nat with (S k + n)%nat by lia. split; [exact R3|].
  cbn [seq for_each]. by step E.
Qed.

(** The pools after the address of a PDN connection was given back. *)
Definition pools_after (pd : pdn_connection_t) (pl : pools) : pools :=
  if IF_PDN_ADDR_STATIC pd then
    release_session_address pl (mk_ue_address pd.(pdn_ipv4) true PDN_ADDR_ALLOC_CONTROL)
  else if IF_PDN_ADDR_ALLOC_CONTROL pd then
    release_session_address pl (mk_ue_address pd.(pdn_ipv4) false PDN_ADDR_ALLOC_CONTROL)
  else pl.

(** The context after it lost a PDN connection. *)
Definition ue_lost_pdn (c : ue_context_t) : ue_context_t :=
  set_teid_bitmap 0 (set_num_pdns (u8 (c.(num_pdns) - 1)) c).

(** The state after the release of the PDN connection [p]. *)
Definition pdn_gone (u p : ptr) (pd : pdn_connection_t) (hb : gmap ptr eps_bearer_t) (c' : ue_context_t)
    (tp tq : gmap Z unit) (tr : gmap string Z) (s : cp) : cp :=
  on_heap (fun h => set_h_bearers hb (set_h_ues (<[u := ue_lost_pdn c']> h.(h_ues))
                                       (set_h_pdns (delete p h.(h_pdns)) h)))
    (on_tabs (fun x => set_pdr_table tp (set_qer_table tq (set_rule_table tr
       (set_pdn_by_teid (delete c'.(s11_sgw_gtpc_teid) x.(pdn_by_teid))
       (set_ue_by_gxsess (delete pd.(gx_sess_id) x.(ue_by_gxsess))
       (set_pdn_by_callid (delete pd.(call_id) x.(pdn_by_callid))
       (set_ue_by_seid (delete pd.(seid) x.(ue_by_seid)) x)))))))
       (set_cp_pools (pools_after pd s.(cp_pools)) s)).

Lemma cleanup_pdn_context_eq s p pd u c :
  pdn_ok s p pd u c -> c.(s11_sgw_gtpc_teid) = UE_SESS_ID pd.(seid) ->
  ∃ hb pd' c' tp tq tr, released_upto s pd c MAX_BEARERS hb pd' c' tp tq tr ∧
    cleanup_pdn_context p s = Some (tt, pdn_gone u p pd hb c' tp tq tr s).
Proof.
  intros I Ht. destruct (released_none s p pd u c I) as [R0 E0].
  destruct (cleanup_pdn_loop s p pd u c MAX_BEARERS 0 _ _ _ _ _ _ I ltac:(lia) R0)
    as (hb & pd' & c' & tp & tq & tr & R & E).
  do 6 eexists. split; [exact R|]. rewrite E0 in E. unfold cleanup_pdn_context.
  step (load_pdn_eq p s pd (pdn_there _ _ _ _ _ I)). rewrite (pdn_linked _ _ _ _ _ I). step (nonnull_eq u s).
  step (load_ue_eq u s c (ue_there _ _ _ _ _ I)). rewrite Ht, Z.eqb_refl. unfold assert_.
  unfold mbind at 1, cpM_bind. cbn [mret cpM_ret]. step E.
  set (s1 := reshape u p hb pd' c' tp tq tr s).
  assert (pdns s1 !! p = Some pd') as Hp1 by (cbn; apply lookup_insert_eq).
  step (update_pdn_eq p s1 pd' (set_pending_pcc_rules []) Hp1).
  unfold del_sess_entry_seid, del_pdn_conn_entry, remove_gxsessid_to_context, pdn_context_delete_entry_teidKey,
    modify, mbind, cpM_bind. cbn [mret cpM_ret].
  set (s2 := on_tabs _ (on_tabs _ _)). assert (ues s2 !! u = Some c') as Hu2 by (cbn; apply lookup_insert_eq).
  rewrite (update_ue_eq u s2 c' _ Hu2). unfold release_pdn_address, modify. set (s3 := set_cp_pools _ _).
  assert (pdns s3 !! p = Some (set_pending_pcc_rules [] pd')) as Hp3 by (cbn; apply lookup_insert_eq).
  rewrite (free_pdn_eq p s3 _ Hp3). do 2 f_equal.
  assert (s11_sgw_gtpc_teid c' = UE_SESS_ID (seid pd)) as Ht' by (by rewrite (rel_ue _ _ _ _ _ _ _ _ _ _ R)).
  unfold s3, s2, s1, pdn_gone, reshape, on_heap, on_tabs, ue_lost_pdn, pools_after. cbn.
  by rewrite Ht', !insert_insert_eq, !delete_insert_eq.
Qed.

(** ** Release of a PDN connection *)

(** The assertion: the tunnel id of the context is not the one in the session id. *)
Lemma cleanup_pdn_context_aborts s p pd u c :
  pdn_ok s p pd u c -> c.(s11_sgw_gtpc_teid) ≠ UE_SESS_ID pd.(seid) -> cleanup_pdn_context p s = None.
Proof.
  intros I Ht. unfold cleanup_pdn_context. step (load_pdn_eq p s pd (pdn_there _ _ _ _ _ I)).
  rewrite (pdn_linked _ _ _ _ _ I). step (nonnull_eq u s). step (load_ue_eq u s c (ue_there _ _ _ _ _ I)).
  by rewrite (proj2 (Z.eqb_neq _ _) Ht).
Qed.

(** [P] holds of a bearer of [pd]. *)
Definition of_bearer (s : cp) (pd : pdn_connection_t) (P : eps_bearer_t -> Prop) : Prop :=
  ∃ i b br, pdn_bearers pd !! i = Some (Some b) ∧ bearers s !! b = Some br ∧ P br.

(** The table [m'] is [m] without the entries under the keys [P]. *)
Definition exactly_without {K A} `{Countable K} (P : K -> Prop) (m m' : gmap K A) : Prop :=
  (∀ x, P x -> m' !! x = None) ∧ (∀ x, ¬ P x -> m' !! x = m !! x).

(** C18: Releasing a PDN connection whose bearers are where their ids say.  When the
    tunnel id of the UE context is not the one in the session id, the assertion at
    the start fails (for contexts with tunnel ids from 2^28 on it always does).
    Otherwise the release returns.  Afterwards the connection and exactly its bearers
    are freed; nothing finds the session any more by session id, call id, Gx session
    or tunnel id, and all other entries of these tables are there; of the packet
    detection rules, the QoS rules and the rule names exactly those of its bearers
    are out of the tables; its slots and bits in the UE context are empty, all others
    and the rest of the context are unchanged, with one connection less and a cleared
    tunnel bitmap; its address is given back to the pool its flags name; no other
    object, table or timer has changed and nothing was sent. *)
Theorem pdn_released s p pd u c :
  pdn_ok s p pd u c ->
  (c.(s11_sgw_gtpc_teid) ≠ UE_SESS_ID pd.(seid) -> cleanup_pdn_context p s = None) ∧
  (c.(s11_sgw_gtpc_teid) = UE_SESS_ID pd.(seid) ->
   ∃ s' c', cleanup_pdn_context p s = Some (tt, s') ∧ pdns s' = delete p (pdns s) ∧ ues s' = <[u := c']> (ues s) ∧
    exactly_without (fun b => ∃ i, pdn_bearers pd !! i = Some (Some b)) (bearers s) (bearers s') ∧
    ue_by_seid (tabs s') = delete pd.(seid) (ue_by_seid (tabs s)) ∧
    pdn_by_callid (tabs s') = delete pd.(call_id) (pdn_by_callid (tabs s)) ∧
    ue_by_gxsess (tabs s') = delete pd.(gx_sess_id) (ue_by_gxsess (tabs s)) ∧
    pdn_by_teid (tabs s') = delete c.(s11_sgw_gtpc_teid) (pdn_by_teid (tabs s)) ∧
    exactly_without (fun x => of_bearer s pd (fun br => Some x ∈ br.(pdrs))) (pdr_table (tabs s)) (pdr_table (tabs s')) ∧
    exactly_without (fun x => of_bearer s pd (fun br => x ∈ br.(qer_ids))) (qer_table (tabs s)) (qer_table (tabs s')) ∧
    exactly_without (fun x => of_bearer s pd (fun br => ∃ name, Some name ∈ br.(dynamic_rules) ∧
      x = rule_key name pd.(call_id))) (rule_table (tabs s)) (rule_table (tabs s')) ∧
    (∀ i, (i < MAX_BEARERS)%nat -> has_bearer pd i = true ->
       ue_bearers c' !! i = Some None ∧ ue_pdns c' !! i = Some None ∧
       Z.testbit c'.(bearer_bitmap) (Z.of_nat i) = false) ∧
    (∀ i, has_bearer pd i = false -> ue_bearers c' !! i = ue_bearers c !! i ∧ ue_pdns c' !! i = ue_pdns c !! i ∧
       Z.testbit c'.(bearer_bitmap) (Z.of_nat i) = Z.testbit c.(bearer_bitmap) (Z.of_nat i)) ∧
    c' = set_num_pdns (u8 (c.(num_pdns) - 1)) (set_teid_bitmap 0 (set_bearer_bitmap c'.(bearer_bitmap)
           (set_ue_pdns c'.(ue_pdns) (set_ue_bearers c'.(ue_bearers) c)))) ∧
    s'.(cp_pools) = pools_after pd s.(cp_pools) ∧
    s'.(heap) = set_h_bearers (bearers s') (set_h_ues (ues s') (set_h_pdns (pdns s') s.(heap))) ∧
    s'.(tabs) = set_pdr_table (pdr_table (tabs s')) (set_qer_table (qer_table (tabs s'))
      (set_rule_table (rule_table (tabs s')) (set_pdn_by_teid (pdn_by_teid (tabs s'))
      (set_ue_by_gxsess (ue_by_gxsess (tabs s')) (set_pdn_by_callid (pdn_by_callid (tabs s'))
      (set_ue_by_seid (ue_by_seid (tabs s')) s.(tabs))))))) ∧
    s' = set_heap s'.(heap) (set_tabs s'.(tabs) (set_cp_pools s'.(cp_pools) s))).
Proof.
  intros I. split; [by eapply cleanup_pdn_context_aborts|]. intros Ht.
  destruct (cleanup_pdn_context_eq s p pd u c I Ht) as (hb & pd' & c' & tp & tq & tr & R & E).
  assert (∀ i b, pdn_bearers pd !! i = Some (Some b) -> (i < MAX_BEARERS)%nat) as Lt.
  { intros i b Hi. rewrite <- (pdn_slots _ _ _ _ _ I). by eapply lookup_lt_Some. }
  assert (∀ P, of_bearers s pd MAX_BEARERS P -> of_bearer s pd P) as Of.
  { intros P (i & b & br & _ & H). by exists i, b, br. }
  assert (s11_sgw_gtpc_teid c' = s11_sgw_gtpc_teid c) as Et by (by rewrite (rel_ue _ _ _ _ _ _ _ _ _ _ R)).
  do 2 eexists. split; [exact E|]. split; [done|]. split; [done|]. split_and!; try done; cbn.
  - split.
    + intros b (i & Hi). eapply (rel_freed _ _ _ _ _ _ _ _ _ _ R); eauto.
    + intros b Hb. apply (rel_kept _ _ _ _ _ _ _ _ _ _ R). intros i _ Hi. apply Hb. eauto.
  - by rewrite Et.
  - split.
    + intros x (i & b & br & Hi & Hb & Hx). destruct (rel_gone _ _ _ _ _ _ _ _ _ _ R i b br) as (H & _ & _); eauto.
    + intros x Hx. apply (rel_pdrs _ _ _ _ _ _ _ _ _ _ R). by intros ?%Of.
  - split.
    + intros x (i & b & br & Hi & Hb & Hx). destruct (rel_gone _ _ _ _ _ _ _ _ _ _ R i b br) as (_ & H & _); eauto.
    + intros x Hx. apply (rel_qers _ _ _ _ _ _ _ _ _ _ R). by intros ?%Of.
  - split.
    + intros x (i & b & br & Hi & Hb & name & Hx & ->). destruct (rel_gone _ _ _ _ _ _ _ _ _ _ R i b br) as (_ & _ & H); eauto.
    + intros x Hx. apply (rel_rules _ _ _ _ _ _ _ _ _ _ R). by intros ?%Of.
  - intros i Hi Hb. rewrite (rel_ue_slots _ _ _ _ _ _ _ _ _ _ R), (rel_ue_pdns _ _ _ _ _ _ _ _ _ _ R),
      (rel_bits _ _ _ _ _ _ _ _ _ _ R), !decide_True, Hb, (proj2 (Nat.ltb_lt _ _)) by done.
    destruct (lookup_lt_is_Some_2 (ue_bearers c) i) as [x ->]; [by rewrite (ue_slots _ _ _ _ _ I)|].
    destruct (lookup_lt_is_Some_2 (ue_pdns c) i) as [y ->]; [by rewrite (ue_pdn_slots _ _ _ _ _ I)|].
    split_and!; auto. apply andb_false_r.
  - intros i Hb. rewrite (rel_ue_slots _ _ _ _ _ _ _ _ _ _ R), (rel_ue_pdns _ _ _ _ _ _ _ _ _ _ R),
      (rel_bits _ _ _ _ _ _ _ _ _ _ R), Hb, andb_false_r, andb_true_r. by case_decide.
  - by rewrite (rel_ue _ _ _ _ _ _ _ _ _ _ R).
Qed.

(** ** Creation of a context *)

(** No object has the next address. *)
Definition fresh (s : cp) : Prop :=
  ∀ x, (s.(next_ptr) <= x)%positive -> ues s !! x = None ∧ pdns s !! x = None ∧ bearers s !! x = None.

(** The objects [create_ue_context] makes. *)
Definition new_ue (imsi len teid ebi : Z) (b p : ptr) : ue_context_t :=
  mk_ue UE_STATE_UNKNOWN imsi len teid (2 ^ (ebi - 5)) 0 1
    (<[Z.to_nat (ebi - 5) := Some p]> (repeat None MAX_BEARERS))
    (<[Z.to_nat (ebi - 5) := Some b]> (repeat None MAX_BEARERS)) [] None.
Definition new_pdn (ebi : Z) (apn : list Z) (apn_len : Z) (b : ptr) : pdn_connection_t :=
  mk_pdn PDN_STATE_UNKNOWN 0 (c_string apn) apn_len 0 0 0 ebi 1 None
    (<[Z.to_nat (ebi - 5) := Some b]> (repeat None MAX_BEARERS)) EmptyString [] 0.
Definition new_bearer (ebi : Z) (p : ptr) : eps_bearer_t :=
  mk_bearer ebi [] [] (mk_qos 0 0 0 0) 0 0 (Some p) (repeat (- ENOENT) MAX_FILTERS_PER_UE) (repeat None 16).

Definition teid_taken (g : teid_globals) : teid_globals :=
  mk_teids (u32 (g.(s11_sgw_gtpc_teid_offset) + 1)) g.(s5s8_pgw_gtpc_teid_offset)
    g.(sgw_gtpc_base_teid) g.(sgw_gtpc_teid_offset) g.(pgw_gtpc_base_teid) g.(pgw_gtpc_teid_offset)
    g.(teid_range) g.(sgw_gtpu_base_teid) g.(pgw_gtpu_base_teid).

(** The state after a successful creation for a combined gateway. *)
Definition ue_created (imsi len ebi : Z) (apn : list Z) (apn_len : Z) (s : cp) : cp :=
  let u := s.(next_ptr) in let b := Pos.succ u in let p := Pos.succ b in
  let teid := u32 (s11_sgw_gtpc_base_teid + s.(cp_teids).(s11_sgw_gtpc_teid_offset)) in
  mk_cp (set_h_ues (<[u := new_ue imsi len teid ebi b p]> (ues s))
          (set_h_pdns (<[p := new_pdn ebi apn apn_len b]> (pdns s))
            (set_h_bearers (<[b := new_bearer ebi p]> (bearers s)) s.(heap))))
    (set_pdn_by_teid (map_insert teid p (pdn_by_teid (tabs s)))
      (set_ue_by_teid (map_insert teid u (ue_by_teid (tabs s)))
        (set_ue_by_imsi (<[imsi := u]> (ue_by_imsi (tabs s))) s.(tabs))))
    s.(timers) s.(free_queue) s.(cp_pools) (teid_taken s.(cp_teids)) (Pos.succ p) s.(nodes) s.(trace).

(** One statement whose effect is found by evaluation. *)
Ltac run := erewrite mbind_eq by reflexivity; cbn beta iota.

Lemma empty_slot (i : nat) : (i < MAX_BEARERS)%nat -> repeat (@None ptr) MAX_BEARERS !! i = Some None.
Proof. intros Hi. do 15 (destruct i as [|i]; [done|]). unfold MAX_BEARERS in Hi. lia. Qed.

Lemma new_default_bearer_eq u c ebi (i : nat) s :
  ues s !! u = Some c -> ue_bearers c = repeat None MAX_BEARERS -> ue_pdns c = repeat None MAX_BEARERS ->
  (i < MAX_BEARERS)%nat ->
  let b := s.(next_ptr) in let p := Pos.succ b in
  new_default_bearer true true u ebi (Z.of_nat i) s
  = Some (Some (b, p),
      set_next_ptr (Pos.succ p) (on_heap (fun h =>
        set_h_ues (<[u := set_bearer_bitmap (u16 (Z.lor c.(bearer_bitmap) (Z.shiftl 1 (Z.of_nat i))))
                     (set_num_pdns (u8 (c.(num_pdns) + 1))
                       (set_ue_pdns (<[i := Some p]> (repeat None MAX_BEARERS))
                         (set_ue_bearers (<[i := Some b]> (repeat None MAX_BEARERS)) c)))]> h.(h_ues))
        (set_h_pdns (<[p := set_pdn_bearers (<[i := Some b]> (repeat None MAX_BEARERS))
                              (set_default_bearer_id ebi (set_num_bearer 1 zero_pdn))]> h.(h_pdns))
        (set_h_bearers (<[b := set_eps_bearer_id ebi zero_bearer]> h.(h_bearers)) h))) s)).
Proof.
  intros Hu Hb Hp Hi b p. unfold new_default_bearer. step (load_ue_eq u s c Hu). rewrite Hb, Hp.
  step (array_get_eq (repeat (@None ptr) MAX_BEARERS) i None s (empty_slot i Hi)).
  run. run. set (s2 := set_next_ptr _ (on_heap _ (set_next_ptr _ _))).
  step (array_put_eq (repeat (@None ptr) MAX_BEARERS) i (Some b) s2 ltac:(by rewrite repeat_length)).
  step (array_put_eq (repeat (@None ptr) MAX_BEARERS) i (Some p) s2 ltac:(by rewrite repeat_length)).
  assert (ues s2 !! u = Some c) as Hu2 by done. erewrite mbind_eq by (by apply update_ue_eq). cbn beta iota.
  set (s3 := on_heap _ s2).
  step (array_put_eq (pdn_bearers zero_pdn) i (Some b) s3 ltac:(done)).
  assert (pdns s3 !! p = Some (set_default_bearer_id ebi (set_num_bearer 1 zero_pdn))) as Hp3
    by (cbn; apply lookup_insert_eq).
  erewrite mbind_eq by (by apply update_pdn_eq). cbn beta iota. unfold mret, cpM_ret. do 2 f_equal.
  unfold s3, s2, on_heap. cbn. by rewrite insert_insert_eq.
Qed.

Lemma create_ue_context_eq cfg imsi_val imsi ebi apn apn_len s :
  cfg.(cp_type) = SAEGWC -> imsi_key imsi_val s = Some (imsi, s) -> ue_by_imsi (tabs s) !! imsi = None ->
  5 <= ebi < 20 -> Z.of_nat (length (c_string apn)) < MAX_APN_LEN -> fresh s ->
  create_ue_context cfg true true true imsi_val ebi apn apn_len s
  = Some ((0, Some s.(next_ptr)), ue_created imsi (Z.of_nat (length imsi_val)) ebi apn apn_len s).
Proof.
  intros Hc Hi Hf He Ha Fr. unfold create_ue_context. step Hi.
  unfold ue_context_entry_lookup_imsiKey, gets. unfold mbind at 1, cpM_bind. rewrite Hf. cbn [negb].
  assert (u8 (ebi - 5) = Z.of_nat (Z.to_nat (ebi - 5))) as Ei by (rewrite uwrap_small; lia).
  assert ((Z.to_nat (ebi - 5) < MAX_BEARERS)%nat) as Hlt by (unfold MAX_BEARERS; lia).
  set (i := Z.to_nat (ebi - 5)) in *.
  run. run.
  erewrite mbind_eq; [|unfold new_context_teid; erewrite mbind_eq by reflexivity; rewrite Hc; reflexivity].
  cbn beta iota. set (s1 := set_cp_teids _ _). set (teid := u32 _).
  assert (ues s1 !! s.(next_ptr) = Some (mk_ue UE_STATE_UNKNOWN imsi (Z.of_nat (length imsi_val)) 0 0 0 0
    (repeat None MAX_BEARERS) (repeat None MAX_BEARERS) [] None)) as Hu1 by (cbn; apply lookup_insert_eq).
  erewrite mbind_eq by (by apply update_ue_eq). cbn beta iota. run. rewrite Ei.
  set (s2 := on_tabs _ (on_heap _ s1)).
  erewrite mbind_eq; [|apply new_default_bearer_eq; [cbn; apply lookup_insert_eq|done|done|done]].
  cbn beta iota. set (s3 := set_next_ptr _ (on_heap _ s2)).
  erewrite mbind_eq; [|unfold update_bearer; cbn; rewrite lookup_insert_eq; reflexivity].
  cbn beta iota. run. rewrite (proj2 (Z.ltb_lt _ _) Ha). run.
  erewrite mbind_eq; [|unfold update_pdn; cbn; rewrite lookup_insert_eq; reflexivity].
  unfold mret, cpM_ret. do 2 f_equal.
  unfold s3, s2, s1, ue_created, on_heap, on_tabs, new_ue, new_pdn, new_bearer. cbn.
  rewrite !insert_insert_eq. unfold map_insert at 3. rewrite Hf. fold i.
  assert (u16 (Z.lor 0 (Z.shiftl 1 (Z.of_nat i))) = 2 ^ (ebi - 5)) as ->; [|done].
  rewrite Z.lor_0_l, Z.shiftl_1_l. unfold i. rewrite Z2Nat.id by lia. apply uwrap_small.
  split; [apply Z.pow_nonneg; lia|apply Z.pow_lt_mono_r; lia].
Qed.

(** For a subscriber that is not known, a combined gateway creates a context
    that is found by its IMSI and by its new tunnel id, with a PDN connection
    found by the same tunnel id whose default bearer is the new bearer; what
    existed before is unchanged, and a second request for the same subscriber is
    rejected without any effect. *)
Theorem ue_context_created cfg imsi_val imsi ebi apn apn_len s :
  let u := s.(next_ptr) in let b := Pos.succ u in let p := Pos.succ b in
  let teid := u32 (s11_sgw_gtpc_base_teid + s.(cp_teids).(s11_sgw_gtpc_teid_offset)) in
  cfg.(cp_type) = SAEGWC -> imsi_key imsi_val s = Some (imsi, s) -> ue_by_imsi (tabs s) !! imsi = None ->
  ue_by_teid (tabs s) !! teid = None -> pdn_by_teid (tabs s) !! teid = None ->
  5 <= ebi < 20 -> Z.of_nat (length (c_string apn)) < MAX_APN_LEN -> fresh s ->
  ∃ s', create_ue_context cfg true true true imsi_val ebi apn apn_len s = Some ((0, Some u), s') ∧ fresh s' ∧
    ue_context_entry_lookup_imsiKey imsi s' = Some (Some u, s') ∧ get_ue_context teid s' = Some (Some u, s') ∧
    get_pdn_context teid s' = Some (Some p, s') ∧ get_default_bearer p s' = Some (Some b, s') ∧
    (∃ c, load_ue u s' = Some (c, s') ∧ ue_bearers c !! Z.to_nat (ebi - 5) = Some (Some b) ∧
          ue_pdns c !! Z.to_nat (ebi - 5) = Some (Some p) ∧ c.(num_pdns) = 1) ∧
    (∃ br, load_bearer b s' = Some (br, s') ∧ br.(eps_bearer_id) = ebi ∧ br.(bearer_pdn) = Some p) ∧
    (∀ x, x ≠ u -> ues s' !! x = ues s !! x) ∧ (∀ x, x ≠ p -> pdns s' !! x = pdns s !! x) ∧
    (∀ x, x ≠ b -> bearers s' !! x = bearers s !! x) ∧
    create_ue_context cfg true true true imsi_val ebi apn apn_len s'
    = Some ((GTPV2C_CAUSE_REQUEST_REJECTED, Some u), s').
Proof.
  intros u b p teid Hc Hi Hf Ht Hpt He Ha Fr.
  exists (ue_created imsi (Z.of_nat (length imsi_val)) ebi apn apn_len s).
  set (s' := ue_created _ _ _ _ _ s).
  assert ((Z.to_nat (ebi - 5) < MAX_BEARERS)%nat) as Hlt by (unfold MAX_BEARERS; lia).
  assert (∀ x : ptr, <[Z.to_nat (ebi - 5) := Some x]> (repeat None MAX_BEARERS) !! Z.to_nat (ebi - 5) = Some (Some x)) as Slot.
  { intros x. apply list_lookup_insert_eq. by rewrite repeat_length. }
  assert (∀ (m : gmap Z ptr) x, m !! teid = None -> map_insert teid x m !! teid = Some x) as Ins.
  { intros m x E. unfold map_insert. rewrite E. apply lookup_insert_eq. }
  split; [by apply create_ue_context_eq|]. split_and!.
  - intros x Hx. cbn in Hx. cbn. rewrite !lookup_insert_ne by lia. apply Fr. lia.
  - unfold ue_context_entry_lookup_imsiKey, gets. cbn. by rewrite lookup_insert_eq.
  - unfold get_ue_context, gets. cbn. by rewrite Ins.
  - unfold get_pdn_context, gets. cbn. by rewrite Ins.
  - unfold get_default_bearer. erewrite mbind_eq by (apply load_pdn_eq; cbn; apply lookup_insert_eq).
    cbn [default_bearer_id new_pdn pdn_bearers]. replace (ebi - 5) with (Z.of_nat (Z.to_nat (ebi - 5))) at 2 by lia.
    apply array_get_eq. apply Slot.
  - eexists. split; [apply load_ue_eq; cbn; apply lookup_insert_eq|]. split_and!; auto; apply Slot.
  - eexists. split; [apply load_bearer_eq; cbn; apply lookup_insert_eq|]. done.
  - intros x Hx. cbn. by rewrite lookup_insert_ne.
  - intros x Hx. cbn. by rewrite lookup_insert_ne.
  - intros x Hx. cbn. by rewrite lookup_insert_ne.
  - unfold create_ue_context. rewrite (mbind_eq _ _ _ imsi s').
    + erewrite mbind_eq; [|unfold ue_context_entry_lookup_imsiKey, gets; cbn; rewrite lookup_insert_eq; reflexivity]. done.
    + unfold imsi_key in *. destruct (length imsi_val <=? 8)%nat; [|done].
      unfold mret, cpM_ret in *. by simplify_eq.
Qed.

(** An empty control plane, whose next subscriber gets the first tunnel id. *)
Definition empty_cp : cp :=
  mk_cp (mk_heaps ∅ ∅ ∅ ∅ ∅ ∅ ∅) (mk_tables ∅ ∅ ∅ ∅ ∅ ∅ ∅ ∅ ∅ ∅ ∅ ∅ ∅ ∅) ∅ [] (mk_pools [] None) initial_teids 1%positive no_nodes [].

Lemma empty_cp_fresh : fresh empty_cp.
Proof. intros x _. cbn. by rewrite !lookup_empty. Qed.

Definition example_imsi : list Z := [0x02; 0x08; 0x93; 0x00; 0x00; 0x00; 0x10; 0xf1].

Lemma ue_context_created_witness :
  ∃ s', create_ue_context example_config true true true example_imsi 5 [0x69; 0] 2 empty_cp
        = Some ((0, Some 1%positive), s') ∧ get_ue_context 0xC0FFEE s' = Some (Some 1%positive, s').
Proof.
  destruct (ue_context_created example_config example_imsi (of_le_bytes example_imsi) 5 [0x69; 0] 2 empty_cp)
    as (s' & E & _ & _ & E' & _); try reflexivity; try apply empty_cp_fresh; [lia|].
  exists s'. split; [exact E|exact E'].
Defined.

(** The PDN connection [p] becomes [pd]. *)
Definition put_pdn (p : ptr) (pd : pdn_connection_t) (s : cp) : cp :=
  on_heap (fun h => set_h_pdns (<[p := pd]> h.(h_pdns)) h) s.

(** A new context is in order once its PDN connection is linked to it. *)
Lemma created_pdn_ok imsi len ebi apn apn_len s pd :
  let u := s.(next_ptr) in let b := Pos.succ u in let p := Pos.succ b in
  let teid := u32 (s11_sgw_gtpc_base_teid + s.(cp_teids).(s11_sgw_gtpc_teid_offset)) in
  5 <= ebi < 20 -> pdn_bearers pd = pdn_bearers (new_pdn ebi apn apn_len b) -> pdn_context pd = Some u ->
  pdn_ok (put_pdn p pd (ue_created imsi len ebi apn apn_len s)) p pd u (new_ue imsi len teid ebi b p).
Proof.
  intros u b p teid He Hb Hc.
  assert ((Z.to_nat (ebi - 5) < MAX_BEARERS)%nat) as Hlt by (unfold MAX_BEARERS; lia).
  split; try done; try (cbn; apply lookup_insert_eq); try (by rewrite ?Hb; cbn; rewrite length_insert).
  intros i x Hi. rewrite Hb in Hi. unfold new_pdn in Hi. cbn [pdn_bearers] in Hi.
  destruct (decide (i = Z.to_nat (ebi - 5))) as [->|Hne].
  - rewrite list_lookup_insert_eq in Hi by (by rewrite repeat_length). simplify_eq.
    exists (new_bearer ebi p). split_and!; [cbn; apply lookup_insert_eq|cbn; lia|done|].
    unfold new_ue. cbn [ue_bearers]. apply list_lookup_insert_eq. by rewrite repeat_length.
  - rewrite list_lookup_insert_ne in Hi by done.
    assert ((i < MAX_BEARERS)%nat) as Hlt' by (apply lookup_lt_Some in Hi; by rewrite repeat_length in Hi).
    by rewrite empty_slot in Hi.
Qed.

Lemma cleanup_ue_idle_eq cfg u c s :
  ues s !! u = Some c -> c.(num_pdns) = 0 -> c.(pending_sub_procs) = [] ->
  cleanup_ue_context cfg u s
  = Some (true, on_heap (fun h => set_h_ues (delete u h.(h_ues)) h)
      (on_tabs (fun x => set_ue_by_teid (delete c.(s11_sgw_gtpc_teid) x.(ue_by_teid))
                           (set_ue_by_imsi (delete c.(imsi) x.(ue_by_imsi)) x)) s)).
Proof.
  intros Hu Hn Hq. unfold cleanup_ue_context. step (load_ue_eq u s c Hu). rewrite Hn, Hq. cbn [Z.eqb].
  run. run. run. unfold free_ue, mbind, cpM_bind. cbn. by rewrite Hu.
Qed.

Lemma insert_delete_fresh {K A} `{Countable K} (m : gmap K A) k v : m !! k = None -> delete k (map_insert k v m) = m.
Proof. intros E. unfold map_insert. rewrite E. by apply delete_insert_id. Qed.

(** C37: A subscriber that attaches and detaches leaves nothing behind: when the
    PDN connection of a new context was linked to it, with its session id, the
    release of the connection and of the context restores the contexts, PDN
    connections and bearers, and the three tables that the creation changes, by
    IMSI and by tunnel id of context and connection.  This holds
    for tunnel ids below 2^28; from there on the release ends in a failed
    assertion. *)
Theorem attach_detach cfg imsi_val imsi ebi apn apn_len s pd :
  let u := s.(next_ptr) in let b := Pos.succ u in let p := Pos.succ b in
  let teid := u32 (s11_sgw_gtpc_base_teid + s.(cp_teids).(s11_sgw_gtpc_teid_offset)) in
  cfg.(cp_type) = SAEGWC -> imsi_key imsi_val s = Some (imsi, s) -> ue_by_imsi (tabs s) !! imsi = None ->
  ue_by_teid (tabs s) !! teid = None -> pdn_by_teid (tabs s) !! teid = None ->
  5 <= ebi < 16 -> Z.of_nat (length (c_string apn)) < MAX_APN_LEN -> fresh s ->
  pdn_bearers pd = pdn_bearers (new_pdn ebi apn apn_len b) -> pdn_context pd = Some u ->
  pd.(seid) = SESS_ID teid ebi ->
  ∃ s1, create_ue_context cfg true true true imsi_val ebi apn apn_len s = Some ((0, Some u), s1) ∧
    (teid < 2 ^ 28 ->
     ∃ s2, (_ ← cleanup_pdn_context p; cleanup_ue_context cfg u) (put_pdn p pd s1) = Some (true, s2) ∧
       ues s2 = ues s ∧ pdns s2 = pdns s ∧ bearers s2 = bearers s ∧ ue_by_imsi (tabs s2) = ue_by_imsi (tabs s) ∧
       ue_by_teid (tabs s2) = ue_by_teid (tabs s) ∧ pdn_by_teid (tabs s2) = pdn_by_teid (tabs s)) ∧
    (2 ^ 28 <= teid -> cleanup_pdn_context p (put_pdn p pd s1) = None).
Proof.
  intros u b p teid Hc Hi Hf Ht Hpt He Ha Fr Hb Hl Hs.
  exists (ue_created imsi (Z.of_nat (length imsi_val)) ebi apn apn_len s).
  set (s1 := ue_created _ _ _ _ _ s). set (c := new_ue imsi (Z.of_nat (length imsi_val)) teid ebi b p).
  assert (pdn_ok (put_pdn p pd s1) p pd u c) as I by (apply created_pdn_ok; [lia|done|done]).
  assert (0 <= teid < 2 ^ 32) as Hr by (apply uwrap_range; lia).
  destruct (Fr u ltac:(lia)) as (Fu & _ & _). destruct (Fr p ltac:(lia)) as (_ & Fp & _).
  destruct (Fr b ltac:(lia)) as (_ & _ & Fb).
  split; [apply create_ue_context_eq; auto; lia|]. split; intros Hsmall.
  - destruct (cleanup_pdn_context_eq _ p pd u c I) as (hb & pd' & c' & tp & tq & tr & R & E).
    { rewrite Hs, ue_sess_id_eq, Z.mod_small by lia. done. }
    pose proof (rel_ue _ _ _ _ _ _ _ _ _ _ R) as Ec. step E. rewrite (cleanup_ue_idle_eq cfg u (ue_lost_pdn c')).
    2: cbn; apply lookup_insert_eq. 2,3: by rewrite Ec.
    eexists. split; [reflexivity|]. split_and!; cbn.
    + rewrite Ec. cbn. by rewrite !delete_insert_eq, delete_id.
    + by rewrite !delete_insert_eq, delete_id.
    + apply map_eq. intros x. destruct (decide (x = b)) as [->|Hx].
      * rewrite Fb. apply (rel_freed _ _ _ _ _ _ _ _ _ _ R (Z.to_nat (ebi - 5))); [unfold MAX_BEARERS; lia|].
        rewrite Hb. apply list_lookup_insert_eq. rewrite repeat_length. unfold MAX_BEARERS; lia.
      * rewrite (rel_kept _ _ _ _ _ _ _ _ _ _ R); [cbn; by rewrite lookup_insert_ne|]. intros i _ Hix.
        destruct (bearer_slots _ _ _ _ _ I i x Hix) as (br & _ & _ & _ & Hx'). unfold c, new_ue in Hx'.
        cbn [ue_bearers] in Hx'. apply list_lookup_insert_Some in Hx' as [(_ & [= ->] & _)|(_ & Hn)]; [done|].
        assert ((i < MAX_BEARERS)%nat) as Hlt by (apply lookup_lt_Some in Hn; by rewrite repeat_length in Hn).
        by rewrite empty_slot in Hn.
    + rewrite Ec. cbn. by rewrite delete_insert_id.
    + rewrite Ec. cbn. by rewrite insert_delete_fresh.
    + rewrite Ec. cbn. by rewrite insert_delete_fresh.
  - unfold cleanup_pdn_context. step (load_pdn_eq _ _ _ (pdn_there _ _ _ _ _ I)). rewrite Hl.
    step (nonnull_eq u (put_pdn p pd s1)). step (load_ue_eq _ _ _ (ue_there _ _ _ _ _ I)). rewrite Hs.
    pose proof (Z.mod_pos_bound teid (2 ^ 28) ltac:(lia)).
    rewrite ue_sess_id_eq, (proj2 (Z.eqb_neq _ _)) by (cbn [c new_ue s11_sgw_gtpc_teid]; lia). done.
Qed.

(** The PDN connection of the first subscriber, linked to its context. *)
Definition example_pdn : pdn_connection_t :=
  mk_pdn PDN_STATE_ACTIVE 7 [0x69] 2 (SESS_ID 0xC0FFEE 5) 0x0a000001 0 5 1 (Some 1%positive)
    (<[0%nat := Some 2%positive]> (repeat None MAX_BEARERS)) "gx" [] 2.
Definition example_attached : cp :=
  put_pdn 3%positive example_pdn (ue_created (of_le_bytes example_imsi) 8 5 [0x69; 0] 2 empty_cp).
Definition example_ue : ue_context_t := new_ue (of_le_bytes example_imsi) 8 0xC0FFEE 5 2%positive 3%positive.

Lemma example_attached_ok : pdn_ok example_attached 3%positive example_pdn 1%positive example_ue.
Proof. apply (created_pdn_ok (of_le_bytes example_imsi) 8 5 [0x69; 0] 2 empty_cp example_pdn); [lia|done|done]. Qed.

Lemma pdn_released_witness :
  ∃ s' c', cleanup_pdn_context 3%positive example_attached = Some (tt, s') ∧
    pdns s' = delete 3%positive (pdns example_attached) ∧ ues s' = <[1%positive := c']> (ues example_attached).
Proof.
  destruct (pdn_released example_attached 3%positive example_pdn 1%positive example_ue) as [_ H].
  - apply example_attached_ok.
  - destruct (H eq_refl) as (s' & c' & E1 & E2 & E3 & _). exists s', c'. auto.
Defined.

Lemma attach_detach_witness :
  ∃ s1, create_ue_context example_config true true true example_imsi 5 [0x69; 0] 2 empty_cp
        = Some ((0, Some 1%positive), s1) ∧
    ∃ s2, (_ ← cleanup_pdn_context 3%positive; cleanup_ue_context example_config 1%positive)
            (put_pdn 3%positive example_pdn s1) = Some (true, s2) ∧ ues s2 = ∅ ∧ pdns s2 = ∅.
Proof.
  destruct (attach_detach example_config example_imsi (of_le_bytes example_imsi) 5 [0x69; 0] 2 empty_cp example_pdn)
    as (s1 & E & Hsmall & _); try reflexivity; try apply empty_cp_fresh; [lia|].
  exists s1. split; [exact E|]. destruct Hsmall as (s2 & E2 & U & P & _); [done|].
  exists s2. split; [exact E2|]. split; [exact U|exact P].
Defined.
