(* ===== verification/Proc.v ===== *)
(** * Procedures of a subscriber (src/cp/procedures/proc.c, proc_rar.c)

    A procedure is queued at its UE context and runs when it is the first of the
    queue, or when its parent, a Re-Auth-Request procedure, lets it run in
    parallel.  At its end its transactions and its message are released and the
    next procedure is started.  A call of a procedure's handler is recorded in the
    trace: it is the last thing [start_procedure] and [end_procedure] do, except
    that the last child of a Re-Auth-Request procedure ends that procedure before
    it ends itself. *)

From stdpp Require Import gmap strings.
From S2P Require Import Prelude IpPool Teid CpState Transactions UeContext.

#[local] Set Warnings "-clear-no-such-hyp".

(** ** The code *)

(** The new states of the contexts of a procedure. *)
Definition set_states (proc : proc_context_t) (us : UE_CONTEXT_STATE) (ps : PDN_CONTEXT_STATE) : cpM unit :=
  u ← nonnull proc.(proc_ue);
  _ ← update_ue u (set_ue_state us);
  p ← nonnull proc.(proc_pdn);
  update_pdn p (set_pdn_state ps).

(** The [default] case holds [assert("unknown proc")], which never fails. *)
Definition start_procedure_direct (p : ptr) : cpM unit :=
  proc ← load_proc p;
  _ ← update_proc p (fun x => set_proc_flags (Z.lor x.(proc_flags) PROC_FLAGS_RUNNING) x);
  match proc.(proc_type) with
  | INITIAL_PDN_ATTACH_PROC | SERVICE_REQUEST_PROC | USAGE_REPORT_PROC
  | DED_BER_ACTIVATION_PROC | RAR_PROC => emit (CallHandler p)
  | S1_RELEASE_PROC =>
      _ ← set_states proc UE_STATE_IDLE_PENDING PDN_STATE_IDLE_PENDING; emit (CallHandler p)
  | DETACH_PROC | NW_INIT_DETACH_PROC =>
      _ ← set_states proc UE_STATE_DETACH_PENDING PDN_STATE_DETACH_PENDING; emit (CallHandler p)
  | PAGING_PROC =>
      _ ← set_states proc UE_STATE_PAGING_PENDING PDN_STATE_PAGING_PENDING; emit (CallHandler p)
  | _ => mret tt
  end.

(** The loop over the queue: [allowed] is [allowed_parellel]. *)
Fixpoint parallel_loop (n : ptr) (new_proc : proc_context_t) (queue : list ptr) (allowed : bool) : cpM bool :=
  match queue with
  | [] => mret allowed
  | t :: rest =>
      if bool_decide (t = n) then parallel_loop n new_proc rest allowed
      else
        temp ← load_proc t;
        if bool_decide (temp.(proc_type) = RAR_PROC) then
          let child := bool_decide (new_proc.(parent_proc) = Some t) in
          let allowed := if bool_decide (new_proc.(proc_type) = DED_BER_ACTIVATION_PROC) && child then true else allowed in
          let allowed := if bool_decide (new_proc.(proc_type) = NW_INIT_DETACH_PROC) && child then true else allowed in
          parallel_loop n new_proc rest allowed
        else parallel_loop n new_proc rest false
  end.

Definition start_procedure (n : ptr) : cpM unit :=
  new_proc ← load_proc n;
  match new_proc.(proc_ue) with
  | None => start_procedure_direct n
  | Some u =>
      _ ← update_ue u (fun c => set_pending_sub_procs (c.(pending_sub_procs) ++ [n]) c);
      context ← load_ue u;
      first ← nonnull (head context.(pending_sub_procs));
      if bool_decide (first = n) then start_procedure_direct n
      else
        allowed ← parallel_loop n new_proc context.(pending_sub_procs) false;
        if allowed : bool then start_procedure_direct n else mret tt
  end.

Definition alloc_msg (x : msg_info_t) : cpM ptr := alloc (fun p h => set_h_msgs (<[p := x]> h.(h_msgs)) h).
Definition alloc_proc (x : proc_context_t) : cpM ptr := alloc (fun p h => set_h_procs (<[p := x]> h.(h_procs)) h).

(** [SET_PROC_MSG] of proc_struct.h: the procedure takes the message [m]; an older
    message of the procedure is freed whoever else uses it. *)
Definition SET_PROC_MSG (p m : ptr) : cpM unit :=
  proc ← load_proc p;
  _ ← match proc.(proc_msg) with None => mret tt | Some old => free_msg old end;
  _ ← update_proc p (set_proc_msg (Some m));
  update_msg m (fun x => set_refCnt (u32 (x.(refCnt) + 1)) x).

(** The transactions and the message of a procedure that ends. *)
Definition end_transactions (cfg : cp_config_t) (p : ptr) : cpM unit :=
  proc ← load_proc p;
  _ ← match proc.(gtpc_trans) with None => mret tt | Some t => cleanup_gtpc_trans cfg t end;
  proc ← load_proc p;
  _ ← match proc.(pfcp_trans) with None => mret tt | Some t => cleanup_pfcp_trans cfg t end;
  proc ← load_proc p;
  match proc.(gx_trans) with None => mret tt | Some t => cleanup_gx_trans t end.

Definition end_message (p : ptr) : cpM unit :=
  proc ← load_proc p;
  match proc.(proc_msg) with
  | None => mret tt
  | Some m =>
      _ ← update_msg m (fun x => set_refCnt (u32 (x.(refCnt) - 1)) x);
      msg ← load_msg m;
      if msg.(refCnt) =? 1 then free_msg m else mret tt
  end.

(** [if(context->num_pdns == 0) cleanup_ue_context(&context)], and what [context]
    is afterwards. *)
Definition release_ue (cfg : cp_config_t) (u : ptr) : cpM (option ptr) :=
  context ← load_ue u;
  if context.(num_pdns) =? 0 then
    freed ← cleanup_ue_context cfg u; mret (if freed : bool then None else Some u)
  else mret (Some u).

(** The [switch] of [end_procedure]; the result is [context] after it.
    [child_done] is the [child_proc_done] of the parent procedure. *)
Definition end_by_type (child_done : ptr -> cpM unit) (cfg : cp_config_t) (p : ptr) : cpM (option ptr) :=
  proc ← load_proc p;
  match proc.(proc_type) with
  | INITIAL_PDN_ATTACH_PROC =>
      context ←
        match proc.(proc_ue), proc.(result), proc.(proc_pdn) with
        | Some u, PROC_RESULT_SUCCESS, pdn =>
            _ ← update_ue u (set_ue_state UE_STATE_ACTIVE);
            pd ← nonnull pdn;
            _ ← update_pdn pd (set_pdn_state PDN_STATE_ACTIVE);
            mret (Some u)
        | Some u, PROC_RESULT_FAILURE, Some pd => _ ← cleanup_pdn_context pd; release_ue cfg u
        | context, _, _ => mret context
        end;
      _ ← free_proc p;
      mret context
  | S1_RELEASE_PROC =>
      _ ← set_states proc UE_STATE_IDLE PDN_STATE_IDLE; _ ← free_proc p; mret proc.(proc_ue)
  | SERVICE_REQUEST_PROC =>
      _ ← free_proc p;
      freed ← load_proc p;
      mret freed.(proc_ue)
  | DETACH_PROC =>
      _ ← set_states proc UE_STATE_DETACH PDN_STATE_DETACH;
      _ ← free_proc p;
      pd ← nonnull proc.(proc_pdn);
      _ ← cleanup_pdn_context pd;
      u ← nonnull proc.(proc_ue);
      release_ue cfg u
  | USAGE_REPORT_PROC | PAGING_PROC =>
      _ ← set_states proc UE_STATE_ACTIVE PDN_STATE_ACTIVE; _ ← free_proc p; mret proc.(proc_ue)
  | DED_BER_ACTIVATION_PROC =>
      _ ← match proc.(parent_proc) with None => mret tt | Some _ => child_done p end;
      _ ← free_proc p; mret proc.(proc_ue)
  | RAR_PROC => _ ← free_proc p; mret proc.(proc_ue)
  | NW_INIT_DETACH_PROC =>
      _ ← match proc.(parent_proc) with None => mret tt | Some _ => child_done p end;
      _ ← free_proc p;
      pd ← nonnull proc.(proc_pdn);
      _ ← cleanup_pdn_context pd;
      u ← nonnull proc.(proc_ue);
      release_ue cfg u
  | _ => crash
  end.

(** The first procedure of the queue that does not run is started. *)
Definition is_running (proc : proc_context_t) : bool := nz (Z.land proc.(proc_flags) PROC_FLAGS_RUNNING).
Fixpoint start_next (queue : list ptr) : cpM unit :=
  match queue with
  | [] => mret tt
  | t :: rest =>
      temp ← load_proc t;
      if is_running temp then start_next rest else start_procedure_direct t
  end.

(** [TAILQ_REMOVE]; the links of a procedure that is not in the queue are not set. *)
Definition remove_pending (u p : ptr) : cpM unit :=
  c ← load_ue u;
  if bool_decide (p ∈ c.(pending_sub_procs)) then
    update_ue u (fun c => set_pending_sub_procs
      (List.filter (fun t => negb (bool_decide (t = p))) c.(pending_sub_procs)) c)
  else crash.

Definition end_procedure_with (child_done : ptr -> cpM unit) (cfg : cp_config_t) (p : ptr) : cpM unit :=
  _ ← end_transactions cfg p;
  _ ← end_message p;
  proc ← load_proc p;
  _ ← match proc.(proc_ue) with
      | None => mret tt
      | Some u => remove_pending u p
      end;
  context ← end_by_type child_done cfg p;
  match context with
  | None => mret tt
  | Some u => c ← load_ue u; start_next c.(pending_sub_procs)
  end.

(** ** The parent of parallel procedures (src/cp/procedures/proc_rar.c) *)

Definition add_rar_child_proc (parent child : ptr) : cpM unit :=
  proc ← load_proc parent;
  slots ← array_put proc.(child_procs) proc.(child_procs_cnt) (Some child);
  update_proc parent (fun x => set_child_procs_cnt (u8 (x.(child_procs_cnt) + 1)) (set_child_procs slots x)).

(** [send_raa] and, through [proc_rar_complete], the end of the procedure.  The end
    of a [RAR_PROC] does not look at a parent. *)
Definition send_raa (cfg : cp_config_t) (m : ptr) : cpM unit :=
  msg ← load_msg m;
  q ← nonnull msg.(msg_proc);
  proc ← load_proc q;
  pd ← nonnull proc.(proc_pdn);
  pdn ← load_pdn pd;
  _ ← emit (SendRaa pdn.(gx_sess_id) proc.(result));
  end_procedure_with (fun _ => crash) cfg q.

Fixpoint index_of (child : ptr) (slots : list (option ptr)) : option nat :=
  match slots with
  | [] => None
  | x :: rest => if bool_decide (x = Some child) then Some O else S <$> index_of child rest
  end.

(** Only a [RAR_PROC] has a [child_proc_done] function; its handler takes the event
    [SEND_RE_AUTH_RSP_EVNT] to [send_raa]. *)
Definition done_rar_child_proc (cfg : cp_config_t) (child : ptr) : cpM unit :=
  proc ← load_proc child;
  q ← nonnull proc.(parent_proc);
  p_proc ← load_proc q;
  _ ← assert_ (bool_decide (p_proc.(proc_type) = RAR_PROC));
  _ ← match index_of child p_proc.(child_procs) with
      | None => mret tt
      | Some i => update_proc q (fun x => set_child_procs (<[i := None]> x.(child_procs))
                                            (set_child_procs_cnt (u8 (x.(child_procs_cnt) - 1)) x))
      end;
  p_proc ← load_proc q;
  if p_proc.(child_procs_cnt) =? 0 then
    m ← nonnull p_proc.(proc_msg);
    _ ← update_msg m (set_msg_event SEND_RE_AUTH_RSP_EVNT);
    _ ← update_proc q (set_result proc.(result));
    send_raa cfg m
  else mret tt.

Definition end_procedure (cfg : cp_config_t) (p : ptr) : cpM unit :=
  end_procedure_with (done_rar_child_proc cfg) cfg p.

Definition get_first_procedure (context : option ptr) : cpM (option ptr) :=
  match context with None => mret None | Some u => c ← load_ue u; mret (head c.(pending_sub_procs)) end.

(** The removal of a procedure that is queued. *)
Lemma remove_pending_some u p s s' : remove_pending u p s = Some (tt, s') ->
  update_ue u (fun c => set_pending_sub_procs
    (List.filter (fun t => negb (bool_decide (t = p))) c.(pending_sub_procs)) c) s = Some (tt, s').
Proof.
  unfold remove_pending, mbind, cpM_bind. destruct (load_ue u s) as [[c s1]|] eqn:E; [|done].
  assert (s1 = s) as -> by (unfold load_ue in E; destruct (h_ues (heap s) !! u); [|done]; cbn in E; by simplify_eq).
  by case_bool_decide.
Qed.
Lemma remove_pending_eq u p c s : h_ues (heap s) !! u = Some c -> p ∈ c.(pending_sub_procs) ->
  remove_pending u p s = update_ue u (fun c => set_pending_sub_procs
    (List.filter (fun t => negb (bool_decide (t = p))) c.(pending_sub_procs)) c) s.
Proof.
  intros Hu Hp. unfold remove_pending, mbind, cpM_bind. unfold load_ue at 1. rewrite Hu. cbn.
  by rewrite bool_decide_true.
Qed.

(** ** What the scheduling of procedures depends on *)

(** For each procedure its UE and whether it runs; for each UE its queue. *)
Definition proc_view (pc : proc_context_t) : option ptr * bool := (proc_ue pc, is_running pc).
Definition sched_view (s : cp) : gmap ptr (option ptr * bool) * gmap ptr (list ptr) :=
  (proc_view <$> procs s, pending_sub_procs <$> ues s).

(** An operation that leaves the scheduling as it is. *)
Definition quiet {A} (m : cpM A) : Prop :=
  ∀ s x s', m s = Some (x, s') -> sched_view s' = sched_view s.

Lemma quiet_ret {A} (x : A) : quiet (mret x).
Proof. intros s y s' [= <- <-]. done. Qed.
Lemma quiet_crash {A} : quiet (crash (A := A)).
Proof. intros s y s' [=]. Qed.
Lemma quiet_nonnull {A} (o : option A) : quiet (nonnull o).
Proof. destruct o; [apply quiet_ret|apply quiet_crash]. Qed.
Lemma quiet_assert b : quiet (assert_ b).
Proof. destruct b; [apply quiet_ret|apply quiet_crash]. Qed.
Lemma quiet_gets {A} (f : cp -> A) : quiet (gets f).
Proof. intros s y s' [= <- <-]. done. Qed.
Lemma quiet_modify f : (∀ s, sched_view (f s) = sched_view s) -> quiet (modify f).
Proof. intros H s y s' [= _ <-]. apply H. Qed.
Lemma quiet_bind {A B} (m : cpM A) (k : A -> cpM B) : quiet m -> (∀ x, quiet (k x)) -> quiet (m ≫= k).
Proof.
  intros Hm Hk s y s' E. unfold mbind, cpM_bind in E. destruct (m s) as [[x s1]|] eqn:E1; [|done].
  etrans; [by eapply Hk|by eapply Hm].
Qed.
Lemma quiet_for_each {A} (f : A -> cpM unit) l : (∀ x, quiet (f x)) -> quiet (for_each f l).
Proof. intros H. induction l as [|x l IH]; [apply quiet_ret|]. cbn. by apply quiet_bind. Qed.

(** Reading and writing objects other than the queues and the running flags. *)
Lemma quiet_load {A} (m : cpM A) : (∀ s x s', m s = Some (x, s') -> s' = s) -> quiet m.
Proof. intros H s x s' E. by rewrite (H _ _ _ E). Qed.

Ltac quiet_heap :=
  intros s x s' E;
  unfold load_trans, load_proc, load_ue, load_pdn, load_bearer, load_msg, update_trans, update_pdn, update_msg,
    free_bearer, free_pdn, free_msg in E;
  match type of E with context [?m !! ?k] => destruct (m !! k) end; cbn in E; simplify_eq; done.

Lemma quiet_load_trans t : quiet (load_trans t). Proof. quiet_heap. Qed.
Lemma quiet_load_proc t : quiet (load_proc t). Proof. quiet_heap. Qed.
Lemma quiet_load_ue t : quiet (load_ue t). Proof. quiet_heap. Qed.
Lemma quiet_load_pdn t : quiet (load_pdn t). Proof. quiet_heap. Qed.
Lemma quiet_load_bearer t : quiet (load_bearer t). Proof. quiet_heap. Qed.
Lemma quiet_load_msg t : quiet (load_msg t). Proof. quiet_heap. Qed.
Lemma quiet_update_trans t f : quiet (update_trans t f). Proof. quiet_heap. Qed.
Lemma quiet_update_pdn t f : quiet (update_pdn t f). Proof. quiet_heap. Qed.
Lemma quiet_update_msg t f : quiet (update_msg t f). Proof. quiet_heap. Qed.
Lemma quiet_free_bearer t : quiet (free_bearer t). Proof. quiet_heap. Qed.
Lemma quiet_free_pdn t : quiet (free_pdn t). Proof. quiet_heap. Qed.
Lemma quiet_free_msg t : quiet (free_msg t). Proof. quiet_heap. Qed.

Lemma quiet_update_proc t f : (∀ x, proc_view (f x) = proc_view x) -> quiet (update_proc t f).
Proof.
  intros H s x s' E. unfold update_proc in E. destruct (procs s !! t) as [pc|] eqn:Ht; [|done]. cbn in E. simplify_eq.
  unfold sched_view. cbn. rewrite fmap_insert, H. f_equal. apply insert_id. by rewrite lookup_fmap, Ht.
Qed.
Lemma quiet_update_ue u f : (∀ c, pending_sub_procs (f c) = pending_sub_procs c) -> quiet (update_ue u f).
Proof.
  intros H s x s' E. unfold update_ue in E. destruct (ues s !! u) as [c|] eqn:Hu; [|done]. cbn in E. simplify_eq.
  unfold sched_view. cbn. rewrite fmap_insert, H. f_equal. apply insert_id. by rewrite lookup_fmap, Hu.
Qed.

Create HintDb quiet.
#[export] Hint Resolve quiet_ret quiet_crash quiet_nonnull quiet_assert quiet_gets quiet_load_trans quiet_load_proc
  quiet_load_ue quiet_load_pdn quiet_load_bearer quiet_load_msg quiet_update_trans quiet_update_pdn quiet_update_msg
  quiet_free_bearer quiet_free_pdn quiet_free_msg : quiet.

(** Decomposes a program into its statements. *)
Ltac quiet_step :=
  first
    [ solve [auto with quiet]
    | apply quiet_bind; [|intros ?]
    | apply quiet_for_each; intros ?
    | apply quiet_update_proc; intros ?; done
    | apply quiet_update_ue; intros ?; done
    | apply quiet_modify; intros ?; done
    | case_match ].
Ltac quiet_auto := repeat quiet_step.

Lemma quiet_cleanup_gtpc cfg t : quiet (cleanup_gtpc_trans cfg t).
Proof. unfold cleanup_gtpc_trans, delete_gtp_trans, find_gtp_trans, stop_transaction_timer, stoptimer, deinittimer,
  delayed_free, unlink. quiet_auto. Qed.
Lemma quiet_cleanup_pfcp cfg t : quiet (cleanup_pfcp_trans cfg t).
Proof. unfold cleanup_pfcp_trans, delete_pfcp_trans, find_pfcp_trans, stop_transaction_timer, stoptimer, deinittimer,
  delayed_free, unlink. quiet_auto. Qed.
Lemma quiet_cleanup_gx t : quiet (cleanup_gx_trans t).
Proof. unfold cleanup_gx_trans, delete_gx_trans, find_gx_trans, stop_transaction_timer, stoptimer, deinittimer,
  delayed_free, unlink. quiet_auto. Qed.
#[export] Hint Resolve quiet_cleanup_gtpc quiet_cleanup_pfcp quiet_cleanup_gx : quiet.

Lemma quiet_array_get {A} (l : list A) i : quiet (array_get l i).
Proof. unfold array_get. auto with quiet. Qed.
Lemma quiet_array_put {A} (l : list A) i v : quiet (array_put l i v).
Proof. unfold array_put. quiet_auto. Qed.
#[export] Hint Resolve quiet_array_get quiet_array_put : quiet.

Lemma quiet_cleanup_bearer b : quiet (cleanup_bearer_context b).
Proof. unfold cleanup_bearer_context, del_rule_entries, del_qer_entry, del_pdr_entry, del_rule_name_entry. quiet_auto. Qed.
#[export] Hint Resolve quiet_cleanup_bearer : quiet.
Lemma quiet_cleanup_pdn p : quiet (cleanup_pdn_context p).
Proof.
  unfold cleanup_pdn_context, cleanup_pdn_bearer, del_sess_entry_seid, del_pdn_conn_entry, remove_gxsessid_to_context,
    pdn_context_delete_entry_teidKey, release_pdn_address. quiet_auto.
Qed.
Lemma quiet_end_transactions cfg p : quiet (end_transactions cfg p).
Proof. unfold end_transactions. quiet_auto. Qed.
Lemma quiet_end_message p : quiet (end_message p).
Proof. unfold end_message. quiet_auto. Qed.
Lemma quiet_set_states proc us ps : quiet (set_states proc us ps).
Proof. unfold set_states. quiet_auto. Qed.
Lemma quiet_emit a : quiet (emit a).
Proof. apply quiet_modify. done. Qed.
#[export] Hint Resolve quiet_cleanup_pdn quiet_end_transactions quiet_end_message quiet_set_states quiet_emit : quiet.

(** ** The queues *)

Abbreviation sview := (gmap ptr (option ptr * bool) * gmap ptr (list ptr))%type.

(** Every queued procedure is queued once, at its own UE; the first procedure of
    every queue runs, except at the UEs of [E]. *)
Record queues_ok (E : gset ptr) (v : sview) : Prop := {
  q_nodup u q : v.2 !! u = Some q -> NoDup q;
  q_owned u q t : v.2 !! u = Some q -> t ∈ q -> ∃ r, v.1 !! t = Some (Some u, r);
  q_head u q t : v.2 !! u = Some q -> head q = Some t -> u ∉ E -> v.1 !! t = Some (Some u, true);
}.

Definition unqueued (t : ptr) (v : sview) : Prop := ∀ u q, v.2 !! u = Some q -> t ∉ q.

(** [v'] has the procedures of [v] as they are or running, and the same queues. *)
Definition more_running (v v' : sview) : Prop :=
  v'.2 = v.2 ∧ ∀ t ue r, v.1 !! t = Some (ue, r) -> ∃ r', v'.1 !! t = Some (ue, r') ∧ (r = true -> r' = true).

Lemma more_running_refl v : more_running v v.
Proof. split; [done|]. eauto. Qed.

Lemma more_running_ok E v v' : more_running v v' -> queues_ok E v -> queues_ok E v'.
Proof.
  intros [E2 M] [Q1 Q2 Q3]. split; rewrite E2.
  - apply Q1.
  - intros u q t Hu Ht. destruct (Q2 u q t Hu Ht) as [r Hr]. destruct (M _ _ _ Hr) as (r' & Hr' & _). eauto.
  - intros u q t Hu Ht Hn. destruct (M _ _ _ (Q3 u q t Hu Ht Hn)) as (r' & Hr' & H').
    by rewrite H' in Hr'.
Qed.

(** From a bind that succeeds, its parts. *)
Lemma bind_inv {A B} (m : cpM A) (k : A -> cpM B) s y s' :
  (m ≫= k) s = Some (y, s') -> ∃ x s1, m s = Some (x, s1) ∧ k x s1 = Some (y, s').
Proof. unfold mbind, cpM_bind. destruct (m s) as [[x s1]|]; [eauto|done]. Qed.

Ltac inv_bind E x s1 E1 := apply bind_inv in E as (x & s1 & E1 & E).

Lemma load_proc_inv p s pc s' : load_proc p s = Some (pc, s') -> s' = s ∧ procs s !! p = Some pc.
Proof. unfold load_proc. destruct (procs s !! p) eqn:E; cbn; intros; by simplify_eq. Qed.
Lemma load_ue_inv u s c s' : load_ue u s = Some (c, s') -> s' = s ∧ ues s !! u = Some c.
Proof. unfold load_ue. destruct (ues s !! u) eqn:E; cbn; intros; by simplify_eq. Qed.
Lemma view_proc s p pc : procs s !! p = Some pc -> (sched_view s).1 !! p = Some (proc_view pc).
Proof. intros E. cbn. by rewrite lookup_fmap, E. Qed.
Lemma view_ue s u c : ues s !! u = Some c -> (sched_view s).2 !! u = Some (pending_sub_procs c).
Proof. intros E. cbn. by rewrite lookup_fmap, E. Qed.

Lemma running_set x : is_running (set_proc_flags (Z.lor x.(proc_flags) PROC_FLAGS_RUNNING) x) = true.
Proof.
  unfold is_running, nz, PROC_FLAGS_RUNNING. cbn [proc_flags set_proc_flags]. rewrite Z.land_lor_distr_l.
  destruct (Z.eqb_spec (Z.lor (Z.land (proc_flags x) 1) (Z.land 1 1)) 0) as [H|]; [|done].
  by apply Z.lor_eq_0_iff in H as [_ H].
Qed.

Lemma start_direct_view p s s' : start_procedure_direct p s = Some (tt, s') ->
  ∃ pc, procs s !! p = Some pc ∧
    sched_view s' = (<[p := (proc_ue pc, true)]> (sched_view s).1, (sched_view s).2).
Proof.
  intros E. unfold start_procedure_direct in E. inv_bind E pc s1 E1. apply load_proc_inv in E1 as [-> Hp].
  exists pc. split; [done|]. inv_bind E x s1 E1. rewrite (update_proc_eq p s pc _ Hp) in E1. simplify_eq.
  assert (sched_view s' = sched_view (put_proc p (set_proc_flags (Z.lor (proc_flags pc) PROC_FLAGS_RUNNING) pc) s)) as ->.
  { match type of E with ?m _ = _ => assert (quiet m) as Hq by (destruct (proc_type pc); quiet_auto) end.
    by apply Hq in E. }
  unfold sched_view. cbn. rewrite fmap_insert. unfold proc_view at 1. by rewrite running_set.
Qed.

Lemma start_direct_more p s s' : start_procedure_direct p s = Some (tt, s') ->
  more_running (sched_view s) (sched_view s') ∧ ∃ ue, (sched_view s').1 !! p = Some (ue, true).
Proof.
  intros E. apply start_direct_view in E as (pc & Hp & ->). split.
  - split; [done|]. intros t ue r Ht. cbn [fst]. destruct (decide (t = p)) as [->|Hne].
    + rewrite (view_proc _ _ _ Hp) in Ht. unfold proc_view in Ht. simplify_eq. rewrite lookup_insert_eq. eauto.
    + rewrite lookup_insert_ne by done. eauto.
  - cbn [fst]. rewrite lookup_insert_eq. eauto.
Qed.

Lemma start_next_more q s s' : start_next q s = Some (tt, s') ->
  more_running (sched_view s) (sched_view s') ∧
  ∀ h, head q = Some h -> ∃ ue, (sched_view s').1 !! h = Some (ue, true).
Proof.
  revert s; induction q as [|t q IH]; intros s E.
  { unfold start_next, mret, cpM_ret in E. simplify_eq. split; [apply more_running_refl|done]. }
  cbn [start_next] in E. inv_bind E pc s1 E1. apply load_proc_inv in E1 as [-> Hp].
  destruct (is_running pc) eqn:Hr.
  - apply IH in E as [M _]. split; [done|]. intros h [= <-].
    destruct (proj2 M t (proc_ue pc) true) as (r' & Hr' & H'); [rewrite (view_proc _ _ _ Hp); unfold proc_view; by rewrite Hr|].
    rewrite H' in Hr' by done. eauto.
  - apply start_direct_more in E as [M H]. split; [done|]. intros h [= <-]. done.
Qed.

(** *** Removal of procedures and UEs *)

Lemma elem_filter_neq (p t : ptr) q :
  t ∈ List.filter (fun t => negb (bool_decide (t = p))) q <-> t ∈ q ∧ t ≠ p.
Proof. rewrite !list_elem_of_In, List.filter_In. destruct (decide (t = p)); case_bool_decide; naive_solver. Qed.

(** Taking [p] out of the queue of its UE. *)
Lemma dequeue_ok E v u q p :
  queues_ok E v -> v.2 !! u = Some q -> (∀ w r, v.1 !! p = Some (Some w, r) -> w = u) ->
  let v' := (v.1, <[u := List.filter (fun t => negb (bool_decide (t = p))) q]> v.2) in
  queues_ok ({[u]} ∪ E) v' ∧ unqueued p v' ∧ ∀ t, unqueued t v -> unqueued t v'.
Proof.
  intros [Q1 Q2 Q3] Hu Hp v'.
  assert (∀ w q', v'.2 !! w = Some q' -> ∃ q0, v.2 !! w = Some q0 ∧ ∀ t, t ∈ q' -> t ∈ q0 ∧ (w = u -> t ≠ p)) as Sub.
  { intros w q' Hw. cbn in Hw. destruct (decide (w = u)) as [->|Hne].
    - rewrite lookup_insert_eq in Hw. simplify_eq. exists q. split; [done|]. intros t Ht%elem_filter_neq. naive_solver.
    - rewrite lookup_insert_ne in Hw by done. exists q'. naive_solver. }
  split_and!.
  - split.
    + intros w q' Hw. cbn in Hw. destruct (decide (w = u)) as [->|Hne].
      * rewrite lookup_insert_eq in Hw. simplify_eq. apply NoDup_ListNoDup, List.NoDup_filter, NoDup_ListNoDup. eauto.
      * rewrite lookup_insert_ne in Hw by done. eauto.
    + intros w q' t Hw Ht. destruct (Sub _ _ Hw) as (q0 & Hq0 & S). destruct (S t Ht). eauto.
    + intros w q' t Hw Ht Hn. assert (w ≠ u) by set_solver. cbn in Hw. rewrite lookup_insert_ne in Hw by done.
      apply (Q3 w q'); auto. set_solver.
  - intros w q' Hw Ht. destruct (Sub _ _ Hw) as (q0 & Hq0 & S). destruct (S p Ht) as [Hin Hne].
    destruct (Q2 _ _ _ Hq0 Hin) as [r Hr]. apply Hne; [by eapply Hp|done].
  - intros t Hun w q' Hw Ht. destruct (Sub _ _ Hw) as (q0 & Hq0 & S). destruct (S t Ht). by eapply Hun.
Qed.

Lemma free_proc_inv p s s' : free_proc p s = Some (tt, s') ->
  sched_view s' = (delete p (sched_view s).1, (sched_view s).2).
Proof.
  unfold free_proc. destruct (procs s !! p); cbn; intros; simplify_eq. unfold sched_view. cbn. by rewrite fmap_delete.
Qed.

Lemma forget_proc_ok E v p : queues_ok E v -> unqueued p v -> queues_ok E (delete p v.1, v.2).
Proof.
  intros [Q1 Q2 Q3] Hp. assert (∀ u q t, v.2 !! u = Some q -> t ∈ q -> t ≠ p) as Ne.
  { intros u q t Hu Ht ->. by eapply Hp. }
  split; cbn; [done| |].
  - intros u q t Hu Ht. rewrite lookup_delete_ne by (symmetry; eauto). eauto.
  - intros u q t Hu Ht Hn. rewrite lookup_delete_ne; [eauto|]. symmetry. eapply Ne; [done|].
    destruct q; [done|]. cbn in Ht. simplify_eq. by left.
Qed.

Lemma cleanup_pending_view cfg q s s' : cleanup_pending_proc cfg q s = Some (tt, s') ->
  sched_view s' = (delete q (sched_view s).1, (sched_view s).2).
Proof.
  intros E. unfold cleanup_pending_proc in E.
  assert (∀ {A} (o : option A) (f : A -> cpM unit), (∀ x, quiet (f x)) ->
    quiet (match o with None => mret tt | Some x => f x end)) as Opt by (intros A [x|] f H; auto with quiet).
  inv_bind E pc s1 E1. inv_bind E x1 s2 E2. inv_bind E pc' s3 E3. inv_bind E x2 s4 E4.
  inv_bind E pc'' s5 E5. inv_bind E x3 s6 E6. apply free_proc_inv in E.
  apply quiet_load_proc in E1, E3, E5. apply Opt in E2, E4, E6; [|auto with quiet..].
  by rewrite E, E6, E5, E4, E3, E2, E1.
Qed.

Lemma update_queue_view u f s s' : update_ue u f s = Some (tt, s') ->
  ∃ c, ues s !! u = Some c ∧ sched_view s' = ((sched_view s).1, <[u := pending_sub_procs (f c)]> (sched_view s).2).
Proof.
  unfold update_ue. destruct (ues s !! u) as [c|] eqn:E; cbn; intros; simplify_eq. exists c.
  split; [done|]. unfold sched_view. cbn. by rewrite fmap_insert.
Qed.

Lemma cleanup_queue_view cfg u l s s' :
  for_each (fun q => _ ← update_ue u (fun c => set_pending_sub_procs (tail c.(pending_sub_procs)) c);
                     cleanup_pending_proc cfg q) l s = Some (tt, s') ->
  (sched_view s').1 = delete_all l (sched_view s).1 ∧ delete u (sched_view s').2 = delete u (sched_view s).2.
Proof.
  revert s; induction l as [|q l IH]; intros s E; cbn [for_each] in E.
  { unfold mret, cpM_ret in E. by simplify_eq. }
  inv_bind E x s1 E1. inv_bind E1 y s2 E2. destruct x, y.
  apply update_queue_view in E2 as (c & _ & V2). apply cleanup_pending_view in E1. apply IH in E as [-> ->].
  rewrite E1, V2. cbn [fst snd]. split; [done|]. by rewrite delete_insert_eq.
Qed.

Lemma cleanup_ue_view cfg u b s s' : cleanup_ue_context cfg u s = Some (b, s') ->
  (b = false ∧ sched_view s' = sched_view s) ∨
  (b = true ∧ ∃ q, (sched_view s).2 !! u = Some q ∧
     sched_view s' = (delete_all q (sched_view s).1, delete u (sched_view s).2)).
Proof.
  intros E. unfold cleanup_ue_context in E. inv_bind E c s1 E1. apply load_ue_inv in E1 as [-> Hu].
  destruct (num_pdns c =? 0); [right|left].
  - inv_bind E x1 s1 E1. inv_bind E x2 s2 E2. inv_bind E x3 s3 E3. inv_bind E x4 s4 E4.
    unfold mret, cpM_ret in E. simplify_eq. split; [done|]. exists (pending_sub_procs c).
    split; [by apply view_ue|]. destruct x3. apply cleanup_queue_view in E3 as [V1 V2].
    assert (quiet (ue_context_delete_entry_imsiKey (imsi c))) as H1 by (unfold ue_context_delete_entry_imsiKey; quiet_auto).
    assert (quiet (ue_context_delete_entry_teidKey (s11_sgw_gtpc_teid c))) as H2
      by (unfold ue_context_delete_entry_teidKey; quiet_auto).
    apply H1 in E1. apply H2 in E2. rewrite E2, E1 in V1, V2.
    unfold free_ue in E4. destruct (ues s3 !! u); cbn in E4; simplify_eq.
    transitivity ((sched_view s3).1, delete u (sched_view s3).2); [|by rewrite V1, V2].
    unfold sched_view. cbn. by rewrite fmap_delete.
  - unfold mret, cpM_ret in E. by simplify_eq.
Qed.

Lemma delete_all_ne {K A} `{Countable K} (l : list K) (m : gmap K A) k : k ∉ l -> delete_all l m !! k = m !! k.
Proof.
  revert m; induction l as [|x l IH]; intros m Hk; [done|]. apply not_elem_of_cons in Hk as [Hne Hk].
  change (delete_all (x :: l) m) with (delete_all l (delete x m)). rewrite IH, lookup_delete_ne; done.
Qed.

(** The UE [u] goes away with its queue. *)
Lemma forget_ue_ok E v u q :
  queues_ok ({[u]} ∪ E) v -> v.2 !! u = Some q ->
  queues_ok E (delete_all q v.1, delete u v.2) ∧ ∀ t, unqueued t v -> unqueued t (delete_all q v.1, delete u v.2).
Proof.
  intros [Q1 Q2 Q3] Hu.
  assert (∀ w q' t, delete u v.2 !! w = Some q' -> t ∈ q' -> w ≠ u ∧ v.2 !! w = Some q' ∧ delete_all q v.1 !! t = v.1 !! t) as Sub.
  { intros w q' t [Hne Hw]%lookup_delete_Some Ht. split_and!; auto. apply delete_all_ne. intros Hin.
    destruct (Q2 _ _ _ Hu Hin), (Q2 _ _ _ Hw Ht). congruence. }
  split; [split|]; cbn.
  - intros w q' [_ Hw]%lookup_delete_Some. eauto.
  - intros w q' t Hw Ht. destruct (Sub _ _ _ Hw Ht) as (_ & Hw' & ->). eauto.
  - intros w q' t Hw Ht Hn. destruct (Sub w q' t Hw) as (Hne & Hw' & ->).
    { destruct q'; [done|]. cbn in Ht. simplify_eq. by left. }
    apply (Q3 w q'); auto. set_solver.
  - intros t Hun w q' Hw. cbn in Hw. apply lookup_delete_Some in Hw as [_ Hw]. by eapply Hun.
Qed.

(** The UE that a result of the [switch] leaves to be scheduled. *)
Definition pending_ue (r : option ptr) : gset ptr := match r with Some u => {[u]} | None => ∅ end.

(** [m] keeps the queues in order, and no queue gets longer. *)
Definition keeps_queues {A} (E : gset ptr) (m : cpM A) (E' : A -> gset ptr) : Prop :=
  ∀ s x s', m s = Some (x, s') -> queues_ok E (sched_view s) ->
    queues_ok (E' x) (sched_view s') ∧ ∀ t, unqueued t (sched_view s) -> unqueued t (sched_view s').

Lemma keeps_quiet {A} E (m : cpM A) : quiet m -> keeps_queues E m (fun _ => E).
Proof. intros H s x s' Em Q. rewrite (H _ _ _ Em). auto. Qed.

Lemma keeps_bind {A B} E E1 E2 (m : cpM A) (k : A -> cpM B) :
  keeps_queues E m E1 -> (∀ x, keeps_queues (E1 x) (k x) E2) -> keeps_queues E (m ≫= k) E2.
Proof.
  intros Hm Hk s y s' Em Q. inv_bind Em x s1 Em1. destruct (Hm _ _ _ Em1 Q) as [Q1 U1].
  destruct (Hk _ _ _ _ Em Q1) as [Q2 U2]. auto.
Qed.

Lemma keeps_release_ue cfg u E : keeps_queues ({[u]} ∪ E) (release_ue cfg u) (fun r => pending_ue r ∪ E).
Proof.
  intros s r s' Em Q. unfold release_ue in Em. inv_bind Em c s1 E1. apply load_ue_inv in E1 as [-> Hu].
  destruct (num_pdns c =? 0).
  - inv_bind Em b s1 E1. unfold mret, cpM_ret in Em. apply cleanup_ue_view in E1 as [[-> V]|[-> (q & Hq & V)]];
      injection Em as <- <-.
    + rewrite V. auto.
    + rewrite V. cbn [pending_ue]. rewrite union_empty_l_L. by apply forget_ue_ok.
  - injection Em as <- <-. auto.
Qed.

(** The last part of [end_procedure]: the queue of [u] is in order again. *)
Lemma keeps_start_next u E :
  keeps_queues ({[u]} ∪ E) (c ← load_ue u; start_next c.(pending_sub_procs)) (fun _ => E).
Proof.
  intros s [] s' Em Q. inv_bind Em c s1 E1. apply load_ue_inv in E1 as [-> Hu]. apply view_ue in Hu.
  apply start_next_more in Em as [M Hh]. pose proof (more_running_ok _ _ _ M Q) as [Q1 Q2 Q3].
  destruct M as [V2 M]. split; [|intros t Hun w q Hw; rewrite V2 in Hw; by eapply Hun].
  split; [done|done|]. intros w q t Hw Ht Hn. destruct (decide (w = u)) as [->|Hne].
  - rewrite V2, Hu in Hw. injection Hw as <-. destruct (Hh t Ht) as [ue Hue].
    destruct (Q2 u (pending_sub_procs c) t) as [r Hr]; [by rewrite V2| |congruence].
    destruct (pending_sub_procs c); [done|]. cbn in Ht. simplify_eq. by left.
  - apply (Q3 w q); auto. set_solver.
Qed.

Lemma keeps_free_proc E p s s' : free_proc p s = Some (tt, s') -> queues_ok E (sched_view s) ->
  unqueued p (sched_view s) -> queues_ok E (sched_view s') ∧ ∀ t, unqueued t (sched_view s) -> unqueued t (sched_view s').
Proof. intros V Q Hp. apply free_proc_inv in V. rewrite V. split; [by apply forget_proc_ok|done]. Qed.

(** *** The end of a procedure *)

(** The queues are in order, [p] is in none, and none is longer than in [s0]. *)
Definition in_order (E : gset ptr) (p : ptr) (s0 s : cp) : Prop :=
  queues_ok E (sched_view s) ∧ unqueued p (sched_view s) ∧
  ∀ t, unqueued t (sched_view s0) -> unqueued t (sched_view s).

Lemma in_order_quiet {A} E p s0 s (m : cpM A) x s' : quiet m -> m s = Some (x, s') ->
  in_order E p s0 s -> in_order E p s0 s'.
Proof. intros H Em. unfold in_order. by rewrite (H _ _ _ Em). Qed.
Lemma in_order_free E p s0 s s' : free_proc p s = Some (tt, s') -> in_order E p s0 s -> in_order E p s0 s'.
Proof. intros Em (Q & Hp & U). destruct (keeps_free_proc E p s s' Em Q Hp) as [Q' U']. split_and!; auto. Qed.
Lemma in_order_release cfg E p u s0 s r s' : release_ue cfg u s = Some (r, s') ->
  in_order ({[u]} ∪ E) p s0 s -> in_order (pending_ue r ∪ E) p s0 s'.
Proof. intros Em (Q & Hp & U). destruct (keeps_release_ue cfg u E s r s' Em Q) as [Q' U']. split_and!; auto. Qed.

(** A [child_proc_done] that does so too. *)
Definition keeps_order (f : ptr -> cpM unit) : Prop :=
  ∀ E p s0 s s', f p s = Some (tt, s') -> in_order E p s0 s -> in_order E p s0 s'.

Lemma in_order_child (cd : ptr -> cpM unit) (o : option ptr) E p s0 s s' : keeps_order cd ->
  (match o with None => mret tt | Some _ => cd p end) s = Some (tt, s') -> in_order E p s0 s -> in_order E p s0 s'.
Proof. intros H. destruct o; [apply H|]. intros [= <-]. auto. Qed.

(** The release of the PDN connection and the UE of a detached subscriber. *)
Lemma in_order_detach cfg E p (pd ue : option ptr) s0 s r s' :
  (pd ← nonnull pd; _ ← cleanup_pdn_context pd; u ← nonnull ue; release_ue cfg u) s = Some (r, s') ->
  in_order (pending_ue ue ∪ E) p s0 s -> in_order (pending_ue r ∪ E) p s0 s'.
Proof.
  intros Em I. inv_bind Em pd0 s1 E1. inv_bind Em x s2 E2. inv_bind Em u s3 E3.
  destruct ue as [w|]; [|done]. injection E3 as -> ->.
  eapply in_order_release; [exact Em|]. eapply in_order_quiet; [|exact E2|]; [auto with quiet|].
  eapply in_order_quiet; [|exact E1|exact I]. auto with quiet.
Qed.

Lemma end_by_type_order cd cfg p pc E s0 s r s' :
  keeps_order cd -> procs s !! p = Some pc -> end_by_type cd cfg p s = Some (r, s') ->
  in_order (pending_ue (proc_ue pc) ∪ E) p s0 s -> in_order (pending_ue r ∪ E) p s0 s'.
Proof.
  intros Hcd Hp Em I. unfold end_by_type in Em. inv_bind Em pc0 s1 E1. apply load_proc_inv in E1 as [-> E1].
  assert (pc0 = pc) as -> by congruence. clear E1.
  assert (∀ us ps, (_ ← set_states pc us ps; _ ← free_proc p; mret (proc_ue pc)) s = Some (r, s') ->
    in_order (pending_ue r ∪ E) p s0 s') as Simple.
  { intros us ps H. inv_bind H x1 s1 H1. inv_bind H x2 s2 H2. injection H as <- <-. destruct x2.
    eapply in_order_free; [exact H2|]. eapply in_order_quiet; [|exact H1|done]. auto with quiet. }
  destruct (proc_type pc); try done; try (by eapply Simple).
  - inv_bind Em ctx s1 E1. inv_bind Em x s2 E2. injection Em as <- <-. destruct x.
    eapply in_order_free; [exact E2|]. destruct (proc_ue pc) as [u|], (result pc), (proc_pdn pc) as [pd|];
      try (injection E1 as <- <-; exact I).
    + inv_bind E1 x s3 E3. inv_bind E1 x' s4 E4. inv_bind E1 x'' s5 E5. injection E1 as <- <-.
      assert (quiet (update_ue u (set_ue_state UE_STATE_ACTIVE))) by (by apply quiet_update_ue).
      eapply in_order_quiet; [|exact E5|]; [auto with quiet|]. eapply in_order_quiet; [|exact E4|]; [auto with quiet|].
      by eapply in_order_quiet; [|exact E3|].
    + inv_bind E1 x s3 E3. by inv_bind E1 x' s4 E4.
    + inv_bind E1 x s3 E3. eapply in_order_release; [exact E1|].
      eapply in_order_quiet; [|exact E3|exact I]. auto with quiet.
  - inv_bind Em x s1 E1. inv_bind Em freed s2 E2. destruct x. exfalso. apply load_proc_inv in E2 as [-> E2].
    unfold free_proc in E1. rewrite Hp in E1. injection E1 as <-. cbn in E2. by rewrite lookup_delete_eq in E2.
  - inv_bind Em x1 s1 E1. inv_bind Em x2 s2 E2. destruct x2. eapply in_order_detach; [exact Em|].
    eapply in_order_free; [exact E2|]. eapply in_order_quiet; [|exact E1|exact I]. auto with quiet.
  - inv_bind Em x s1 E1. injection Em as <- <-. destruct x. by eapply in_order_free.
  - inv_bind Em x1 s1 E1. inv_bind Em x2 s2 E2. injection Em as <- <-. destruct x1, x2.
    eapply in_order_free; [exact E2|]. by eapply in_order_child.
  - inv_bind Em x1 s1 E1. inv_bind Em x2 s2 E2. destruct x1, x2. eapply in_order_detach; [exact Em|].
    eapply in_order_free; [exact E2|]. by eapply in_order_child.
Qed.

Lemma update_ue_procs u f s s' : update_ue u f s = Some (tt, s') -> procs s' = procs s.
Proof. unfold update_ue. destruct (ues s !! u); cbn; intros; by simplify_eq. Qed.

(** The procedure leaves the queue of its UE. *)
Lemma leave_queue_order E p pc s s' : procs s !! p = Some pc -> queues_ok E (sched_view s) ->
  (match proc_ue pc with
   | None => mret tt
   | Some u => remove_pending u p
   end) s = Some (tt, s') ->
  procs s' !! p = Some pc ∧ in_order (pending_ue (proc_ue pc) ∪ E) p s s'.
Proof.
  intros Hp Q Em. pose proof (view_proc _ _ _ Hp) as Hv. unfold proc_view in Hv. destruct (proc_ue pc) as [u|] eqn:Hu.
  - apply remove_pending_some in Em. rewrite (update_ue_procs _ _ _ _ Em). split; [done|]. apply update_queue_view in Em as (c & Hc & V).
    destruct (dequeue_ok E (sched_view s) u (pending_sub_procs c) p Q) as (Q' & U & U').
    + by apply view_ue.
    + intros w r Hw. congruence.
    + unfold in_order. rewrite V. auto.
  - injection Em as <-. split; [done|]. cbn [pending_ue]. rewrite union_empty_l_L. split_and!; auto.
    intros w q Hw Hin. destruct (q_owned _ _ Q w q p Hw Hin) as [r Hr]. congruence.
Qed.

Lemma end_with_queues cd cfg p E s s' : keeps_order cd -> end_procedure_with cd cfg p s = Some (tt, s') ->
  queues_ok E (sched_view s) ->
  queues_ok E (sched_view s') ∧ ∀ t, unqueued t (sched_view s) -> unqueued t (sched_view s').
Proof.
  intros Hcd Em Q. unfold end_procedure_with in Em. inv_bind Em x1 s1 E1. inv_bind Em x2 s2 E2.
  apply quiet_end_transactions in E1. apply quiet_end_message in E2. rewrite E1 in E2. rewrite <- E2 in *. clear s E1 E2 s1.
  inv_bind Em pc s3 E3. apply load_proc_inv in E3 as [-> Hp]. inv_bind Em x4 s4 E4. destruct x4.
  destruct (leave_queue_order E p pc s2 s4 Hp Q E4) as [Hp4 I4]. inv_bind Em r s5 E5.
  pose proof (end_by_type_order cd cfg p pc E s2 s4 r s5 Hcd Hp4 E5 I4) as (Q5 & _ & U5).
  destruct r as [u|].
  - destruct (keeps_start_next u E s5 tt s' Em Q5) as [Q' U']. auto.
  - injection Em as <-. cbn [pending_ue] in Q5. rewrite union_empty_l_L in Q5. auto.
Qed.

Lemma keeps_order_none : keeps_order (fun _ => crash).
Proof. intros E p s0 s s' [=]. Qed.

Lemma send_raa_order cfg m E p s0 s s' : send_raa cfg m s = Some (tt, s') ->
  in_order E p s0 s -> in_order E p s0 s'.
Proof.
  intros Em I. unfold send_raa in Em. inv_bind Em x1 s1 E1. inv_bind Em q s2 E2. inv_bind Em x3 s3 E3.
  inv_bind Em x4 s4 E4. inv_bind Em x5 s5 E5. inv_bind Em x6 s6 E6.
  assert (in_order E p s0 s6) as (Q & Hp & U).
  { eapply in_order_quiet; [|exact E6|]; [auto with quiet|]. eapply in_order_quiet; [|exact E5|]; [auto with quiet|].
    eapply in_order_quiet; [|exact E4|]; [auto with quiet|]. eapply in_order_quiet; [|exact E3|]; [auto with quiet|].
    eapply in_order_quiet; [|exact E2|]; [auto with quiet|]. eapply in_order_quiet; [|exact E1|exact I]. auto with quiet. }
  destruct (end_with_queues _ cfg q E s6 s' keeps_order_none Em Q) as [Q' U']. split_and!; auto.
Qed.

Lemma keeps_order_rar cfg : keeps_order (done_rar_child_proc cfg).
Proof.
  intros E p s0 s s' Em I. unfold done_rar_child_proc in Em.
  inv_bind Em pc s1 E1. inv_bind Em q s2 E2. inv_bind Em pp s3 E3. inv_bind Em x4 s4 E4. inv_bind Em x5 s5 E5.
  inv_bind Em pp' s6 E6.
  assert (in_order E p s0 s6) as I6.
  { eapply in_order_quiet; [|exact E6|]; [auto with quiet|]. eapply in_order_quiet; [|exact E5|]; [quiet_auto|].
    eapply in_order_quiet; [|exact E4|]; [auto with quiet|]. eapply in_order_quiet; [|exact E3|]; [auto with quiet|].
    eapply in_order_quiet; [|exact E2|]; [auto with quiet|]. eapply in_order_quiet; [|exact E1|exact I]. auto with quiet. }
  destruct (child_procs_cnt pp' =? 0); [|by injection Em as <-].
  inv_bind Em m s7 E7. inv_bind Em x8 s8 E8. inv_bind Em x9 s9 E9. eapply send_raa_order; [exact Em|].
  eapply in_order_quiet; [|exact E9|]; [quiet_auto|]. eapply in_order_quiet; [|exact E8|]; [auto with quiet|].
  eapply in_order_quiet; [|exact E7|exact I6]. auto with quiet.
Qed.

Lemma end_procedure_queues cfg p E s s' : end_procedure cfg p s = Some (tt, s') ->
  queues_ok E (sched_view s) -> queues_ok E (sched_view s').
Proof. intros Em Q. eapply end_with_queues; [apply keeps_order_rar|exact Em|exact Q]. Qed.

(** ** When a procedure starts *)

Definition is_rar (s : cp) (t : ptr) : Prop := ∃ pc, procs s !! t = Some pc ∧ proc_type pc = RAR_PROC.

(** A procedure that a Re-Auth-Request starts. *)
Definition child_type (pc : proc_context_t) : Prop :=
  proc_type pc = DED_BER_ACTIVATION_PROC ∨ proc_type pc = NW_INIT_DETACH_PROC.

(** The queue is empty, or the parent is in it and only Re-Auth-Request procedures
    follow the parent. *)
Definition may_run (s : cp) (np : proc_context_t) (q : list ptr) : Prop :=
  q = [] ∨ ∃ q1 r q2, q = q1 ++ r :: q2 ∧ is_rar s r ∧ parent_proc np = Some r ∧ child_type np ∧
    ∀ t, t ∈ q2 -> is_rar s t.

Lemma parallel_loop_spec n np q acc s :
  n ∉ q -> (∀ t, t ∈ q -> is_Some (procs s !! t)) ->
  ∃ b, parallel_loop n np (q ++ [n]) acc s = Some (b, s) ∧
    (b = true <-> (acc = true ∧ ∀ t, t ∈ q -> is_rar s t) ∨
       ∃ q1 r q2, q = q1 ++ r :: q2 ∧ is_rar s r ∧ parent_proc np = Some r ∧ child_type np ∧
         ∀ t, t ∈ q2 -> is_rar s t).
Proof.
  revert acc; induction q as [|t q IH]; intros acc Hn Hq; cbn [app parallel_loop].
  { rewrite bool_decide_true by done. exists acc. split; [done|]. split.
    - intros ->. left. split; [done|]. by intros t ?%not_elem_of_nil.
    - intros [[-> _]|(q1 & r & q2 & E & _)]; [done|]. by destruct q1. }
  apply not_elem_of_cons in Hn as [Hne Hn]. rewrite bool_decide_false by congruence.
  destruct (Hq t) as [pc Hp]; [by left|]. step (load_proc_eq t s pc Hp).
  assert (∀ t', t' ∈ q -> is_Some (procs s !! t')) as Hq' by (intros; apply Hq; by right).
  destruct (decide (proc_type pc = RAR_PROC)) as [Hr|Hr];
    [rewrite bool_decide_true by done|rewrite bool_decide_false by done].
  - cbv zeta. set (acc' := if _ && _ then true else _).
    assert (acc' = true <-> acc = true ∨ (child_type np ∧ parent_proc np = Some t)) as Ha.
    { unfold acc', child_type. repeat case_bool_decide; cbn; naive_solver. }
    destruct (IH acc' Hn Hq') as (b & E & Hb). exists b. split; [exact E|]. rewrite Hb. split.
    + intros [[[Ht|[Hc Hpar]]%Ha Hall]|(q1 & r & q2 & -> & H)].
      * left. split; [done|]. intros x [->|Hx]%elem_of_cons; [by exists pc|auto].
      * right. exists [], t, q. split_and!; auto. by exists pc.
      * right. by exists (t :: q1), r, q2.
    + intros [[Ht Hall]|(q1 & r & q2 & Eq & H1 & H2 & H3 & H4)].
      * left. split; [apply Ha; auto|]. intros x Hx. apply Hall. by right.
      * destruct q1 as [|t1 q1]; cbn in Eq; injection Eq as -> ->.
        -- left. split; [apply Ha; auto|done].
        -- right. by exists q1, r, q2.
  - destruct (IH false Hn Hq') as (b & E & Hb). exists b. split; [exact E|]. rewrite Hb. split.
    + intros [[? _]|(q1 & r & q2 & -> & H)]; [done|]. right. by exists (t :: q1), r, q2.
    + assert (¬ is_rar s t) as Nr by (intros (pc' & H1 & H2); congruence).
      intros [[_ Hall]|(q1 & r & q2 & Eq & H1 & H2 & H3 & H4)]; [destruct Nr; apply Hall; by left|].
      destruct q1 as [|t1 q1]; cbn in Eq; injection Eq as -> ->; [done|]. right. by exists q1, r, q2.
Qed.

(** A procedure of a kind that is handled, with the contexts its start needs. *)
Definition startable (s : cp) (pc : proc_context_t) : Prop :=
  match proc_type pc with
  | INITIAL_PDN_ATTACH_PROC | SERVICE_REQUEST_PROC | USAGE_REPORT_PROC | DED_BER_ACTIVATION_PROC | RAR_PROC => True
  | S1_RELEASE_PROC | DETACH_PROC | NW_INIT_DETACH_PROC | PAGING_PROC =>
      ∃ u p, proc_ue pc = Some u ∧ proc_pdn pc = Some p ∧ is_Some (ues s !! u) ∧ is_Some (pdns s !! p)
  | _ => False
  end.

Lemma set_states_eq pc u p c pd us ps s :
  proc_ue pc = Some u -> proc_pdn pc = Some p -> ues s !! u = Some c -> pdns s !! p = Some pd ->
  set_states pc us ps s = Some (tt, on_heap (fun h => set_h_pdns (<[p := set_pdn_state ps pd]> h.(h_pdns))
                                  (set_h_ues (<[u := set_ue_state us c]> h.(h_ues)) h)) s).
Proof.
  intros Hu Hp Hc Hd. unfold set_states. rewrite Hu, Hp. step (nonnull_eq u s).
  step (update_ue_eq u s c (set_ue_state us) Hc). step (nonnull_eq p (on_heap (fun h => set_h_ues (<[u := set_ue_state us c]> h.(h_ues)) h) s)).
  by rewrite (update_pdn_eq p _ pd).
Qed.

Lemma start_direct_runs n np s : procs s !! n = Some np -> startable s np ->
  ∃ s', start_procedure_direct n s = Some (tt, s') ∧ trace s' = trace s ++ [CallHandler n].
Proof.
  intros Hn Hs. unfold start_procedure_direct. step (load_proc_eq n s np Hn).
  step (update_proc_eq n s np (fun x => set_proc_flags (Z.lor x.(proc_flags) PROC_FLAGS_RUNNING) x) Hn).
  set (s1 := put_proc n _ s). unfold startable in Hs.
  assert (∀ us ps, (∃ u p, proc_ue np = Some u ∧ proc_pdn np = Some p ∧ is_Some (ues s !! u) ∧ is_Some (pdns s !! p)) ->
    ∃ s', (_ ← set_states np us ps; emit (CallHandler n)) s1 = Some (tt, s') ∧ trace s' = trace s ++ [CallHandler n]) as St.
  { intros us ps (u & p & Hu & Hp & [c Hc] & [pd Hd]). eexists. split.
    - step (set_states_eq np u p c pd us ps s1 Hu Hp Hc Hd). reflexivity.
    - done. }
  destruct (proc_type np); try done; try (by apply St); eexists; split; reflexivity.
Qed.

(** ** Properties *)

Lemma start_procedure_enqueue n np u c s : procs s !! n = Some np -> proc_ue np = Some u -> ues s !! u = Some c ->
  let c1 := set_pending_sub_procs (c.(pending_sub_procs) ++ [n]) c in
  let s1 := on_heap (fun h => set_h_ues (<[u := c1]> h.(h_ues)) h) s in
  start_procedure n s =
    (first ← nonnull (head (c.(pending_sub_procs) ++ [n]));
     if bool_decide (first = n) then start_procedure_direct n
     else allowed ← parallel_loop n np (c.(pending_sub_procs) ++ [n]) false;
          if allowed : bool then start_procedure_direct n else mret tt) s1.
Proof.
  intros Hn Hu Hc c1 s1. unfold start_procedure. step (load_proc_eq n s np Hn). rewrite Hu.
  step (update_ue_eq u s c (fun c => set_pending_sub_procs (c.(pending_sub_procs) ++ [n]) c) Hc).
  assert (ues s1 !! u = Some c1) as H1 by (cbn; apply lookup_insert_eq). by step (load_ue_eq u s1 c1 H1).
Qed.

(** A started procedure is put at the end of the queue of its UE, and its
    handler is called exactly when the queue was empty or when its parent, a
    Re-Auth-Request procedure, is in the queue and is followed by such procedures
    only; otherwise nothing but the queue changes.  A procedure of another kind
    that runs before the parent does not keep the new one waiting. *)
Theorem start_procedure_runs n np u c s :
  procs s !! n = Some np -> proc_ue np = Some u -> ues s !! u = Some c -> n ∉ c.(pending_sub_procs) ->
  (∀ t, t ∈ c.(pending_sub_procs) -> is_Some (procs s !! t)) -> startable s np ->
  ∃ s', start_procedure n s = Some (tt, s') ∧
    (sched_view s').2 = <[u := c.(pending_sub_procs) ++ [n]]> (sched_view s).2 ∧
    ((may_run s np c.(pending_sub_procs) ∧ trace s' = trace s ++ [CallHandler n]) ∨
     (¬ may_run s np c.(pending_sub_procs) ∧ trace s' = trace s ∧ procs s' = procs s)).
Proof.
  intros Hn Hu Hc Hnot Hq Hs. pose proof (start_procedure_enqueue n np u c s Hn Hu Hc) as E. cbv zeta in E.
  set (q := c.(pending_sub_procs)) in *. set (s1 := on_heap _ s) in E.
  assert (startable s1 np) as Hs1.
  { unfold startable in *. destruct (proc_type np); try done; destruct Hs as (w & p & ? & ? & [x Hx] & ?);
      exists w, p; split_and!; auto; cbn; rewrite lookup_insert_is_Some; destruct (decide (u = w)); eauto. }
  assert (∀ x, start_procedure_direct n s1 = Some (tt, x) ->
    (sched_view x).2 = <[u := q ++ [n]]> (sched_view s).2) as Vq.
  { intros x Ex. apply start_direct_view in Ex as (pc & _ & ->). cbn [snd]. cbn. by rewrite fmap_insert. }
  destruct (start_direct_runs n np s1 Hn Hs1) as (s' & Es & Et).
  destruct q as [|h q0] eqn:Hq0.
  { exists s'. split; [|split; [by apply Vq|left; split; [by left|done]]].
    rewrite E. cbn [app head]. step (nonnull_eq n s1). by rewrite bool_decide_true. }
  assert (h ≠ n) as Hh by (intros ->; apply Hnot; by left).
  destruct (parallel_loop_spec n np (h :: q0) false s1 Hnot Hq) as (b & Eb & Hb).
  assert (b = true <-> may_run s np (h :: q0)) as Hb'.
  { rewrite Hb. unfold may_run. change (is_rar s1) with (is_rar s).
    split; [intros [[H _]|H]|intros [H|H]]; try done; by right. }
  destruct b.
  - exists s'. split; [|split; [by apply Vq|left; split; [by apply Hb'|done]]].
    rewrite E. cbn [app head]. step (nonnull_eq h s1). rewrite bool_decide_false by done. by step Eb.
  - exists s1. split; [|split; [cbn; by rewrite fmap_insert|right; split_and!; [|done|done]]].
    + rewrite E. cbn [app head]. step (nonnull_eq h s1). rewrite bool_decide_false by done. by step Eb.
    + intros H%Hb'. done.
Qed.

(** A UE with one queue member: a Re-Auth-Request procedure that runs. *)
Definition example_rar : proc_context_t :=
  mk_proc RAR_PROC 1 PROC_RESULT_SUCCESS (Some 1%positive) (Some 3%positive) None None None None None
    1 (<[0%nat := Some 11%positive]> (repeat None MAX_CHILD_PROC)) None.
Definition example_child : proc_context_t :=
  mk_proc DED_BER_ACTIVATION_PROC 0 PROC_RESULT_SUCCESS (Some 1%positive) (Some 3%positive) None None None None None
    0 (repeat None MAX_CHILD_PROC) (Some 10%positive).
Definition example_queue : cp :=
  put_proc 11%positive example_child (put_proc 10%positive example_rar
    (on_heap (fun h => set_h_ues {[ 1%positive := set_pending_sub_procs [10%positive] example_ue ]} h) empty_cp)).

Lemma start_procedure_runs_witness :
  ∃ s', start_procedure 11%positive example_queue = Some (tt, s') ∧
    (sched_view s').2 = <[1%positive := [10%positive; 11%positive]]> (sched_view example_queue).2 ∧
    ((may_run example_queue example_child [10%positive] ∧ trace s' = [CallHandler 11%positive]) ∨
     (¬ may_run example_queue example_child [10%positive] ∧ trace s' = [] ∧ procs s' = procs example_queue)).
Proof.
  apply (start_procedure_runs 11%positive example_child 1%positive
           (set_pending_sub_procs [10%positive] example_ue) example_queue); try reflexivity.
  - cbn. by rewrite list_elem_of_singleton.
  - cbn. intros t ->%list_elem_of_singleton. by eexists.
Defined.

Lemma enqueue_ok E v u q n r : queues_ok E v -> v.2 !! u = Some q -> v.1 !! n = Some (Some u, r) ->
  unqueued n v -> queues_ok (match q with [] => {[u]} ∪ E | _ => E end) (v.1, <[u := q ++ [n]]> v.2).
Proof.
  intros [Q1 Q2 Q3] Hu Hn Hun. split; cbn.
  - intros w q'. destruct (decide (w = u)) as [->|Hne].
    + rewrite lookup_insert_eq. intros [= <-]. apply list.NoDup_app. split_and!; [eauto| |apply NoDup_singleton].
      intros t Ht ->%list_elem_of_singleton. by eapply Hun.
    + rewrite lookup_insert_ne by done. eauto.
  - intros w q' t. destruct (decide (w = u)) as [->|Hne].
    + rewrite lookup_insert_eq. intros [= <-] [Ht| ->%list_elem_of_singleton]%elem_of_app; eauto.
    + rewrite lookup_insert_ne by done. eauto.
  - intros w q' t. destruct (decide (w = u)) as [->|Hne].
    + rewrite lookup_insert_eq. intros [= <-] Ht HE. destruct q as [|h q]; [set_solver|]. by apply (Q3 u (h :: q)).
    + rewrite lookup_insert_ne by done. intros Hw Ht HE. apply (Q3 w q'); auto. destruct q; [set_solver|done].
Qed.

Lemma start_procedure_queues n np s s' : procs s !! n = Some np -> unqueued n (sched_view s) ->
  start_procedure n s = Some (tt, s') -> queues_ok ∅ (sched_view s) -> queues_ok ∅ (sched_view s').
Proof.
  intros Hn Hun E Q. destruct (proc_ue np) as [u|] eqn:Hu.
  2: { unfold start_procedure in E. rewrite (mbind_eq _ _ _ _ _ (load_proc_eq n s np Hn)), Hu in E.
       apply start_direct_more in E as [M _]. by eapply more_running_ok. }
  pose proof (view_proc _ _ _ Hn) as Hv. unfold proc_view in Hv. rewrite Hu in Hv.
  destruct (ues s !! u) as [c|] eqn:Hc.
  2: { unfold start_procedure in E. rewrite (mbind_eq _ _ _ _ _ (load_proc_eq n s np Hn)), Hu in E.
       inv_bind E x s1 E1. unfold update_ue in E1. by rewrite Hc in E1. }
  rewrite (start_procedure_enqueue n np u c s Hn Hu Hc) in E. set (s1 := on_heap _ s) in E.
  pose proof (enqueue_ok ∅ _ u (pending_sub_procs c) n _ Q (view_ue _ _ _ Hc) Hv Hun) as Q1.
  assert (sched_view s1 = ((sched_view s).1, <[u := pending_sub_procs c ++ [n]]> (sched_view s).2)) as V1.
  { unfold sched_view. cbn. by rewrite fmap_insert. }
  rewrite <- V1 in Q1. inv_bind E h0 s2 E2. destruct (pending_sub_procs c) as [|h q] eqn:Hq; injection E2 as <- <-.
  - rewrite bool_decide_true in E by done. apply start_direct_more in E as [M [ue Hue]].
    pose proof (more_running_ok _ _ _ M Q1) as [P1 P2 P3]. split; [done|done|]. intros w q t Hw Ht _.
    destruct (decide (w = u)) as [->|Hne]; [|apply (P3 w q); auto; set_solver].
    pose proof (proj1 M) as V2. rewrite V2, V1 in Hw. cbn [snd] in Hw. rewrite lookup_insert_eq in Hw.
    injection Hw as <-. injection Ht as <-. destruct (P2 u [n] n) as [r Hr].
    + rewrite V2, V1. cbn [snd]. apply lookup_insert_eq.
    + by left.
    + congruence.
  - assert (h ≠ n) as Hh by (intros ->; eapply (Hun u (n :: q)); [by rewrite (view_ue _ _ _ Hc), Hq|by left]).
    rewrite bool_decide_false in E by done. inv_bind E b s2 E2.
    assert (∀ l acc, quiet (parallel_loop n np l acc)) as Ql.
    { clear. induction l as [|t l IH]; intros acc; cbn [parallel_loop]; [auto with quiet|].
      case_match; [apply IH|]. apply quiet_bind; [auto with quiet|]. intros pc. case_match; apply IH. }
    apply Ql in E2. rewrite <- E2 in Q1. destruct b; [|injection E as <-; done].
    apply start_direct_more in E as [M _]. by eapply more_running_ok.
Qed.

(** What happens to procedures and UEs between two states: a procedure that is in
    no queue is started, a procedure ends, a procedure or a UE is created, or
    something that concerns neither the queues nor the running flags happens. *)
Inductive sched_step (cfg : cp_config_t) : cp -> cp -> Prop :=
| step_start n np s s' : procs s !! n = Some np -> unqueued n (sched_view s) ->
    start_procedure n s = Some (tt, s') -> sched_step cfg s s'
| step_end p s s' : end_procedure cfg p s = Some (tt, s') -> sched_step cfg s s'
| step_new_proc n pc s : procs s !! n = None -> sched_step cfg s (put_proc n pc s)
| step_new_ue u c s : ues s !! u = None -> pending_sub_procs c = [] ->
    sched_step cfg s (on_heap (fun h => set_h_ues (<[u := c]> h.(h_ues)) h) s)
| step_other s s' : sched_view s' = sched_view s -> sched_step cfg s s'.

Lemma sched_step_ok cfg s s' : sched_step cfg s s' -> queues_ok ∅ (sched_view s) -> queues_ok ∅ (sched_view s').
Proof.
  intros [n np s1 s2 Hn Hu E|p s1 s2 E|n pc s1 Hn|u c s1 Hu Hc|s1 s2 E] Q.
  - by eapply start_procedure_queues.
  - by eapply end_procedure_queues.
  - assert (sched_view (put_proc n pc s1) = (<[n := proc_view pc]> (sched_view s1).1, (sched_view s1).2)) as ->.
    { unfold sched_view. cbn. by rewrite fmap_insert. }
    assert ((sched_view s1).1 !! n = None) as Hv by (cbn; by rewrite lookup_fmap, Hn).
    apply (more_running_ok ∅ (sched_view s1)); [|done]. split; [done|]. intros t ue r Ht. cbn [fst].
    rewrite lookup_insert_ne by congruence. eauto.
  - set (s3 := on_heap _ s1). assert (sched_view s3 = ((sched_view s1).1, <[u := []]> (sched_view s1).2)) as ->.
    { unfold sched_view. cbn. by rewrite fmap_insert, Hc. }
    destruct Q as [Q1 Q2 Q3]. split; cbn [fst snd]; intros w q.
    + intros [[<- <-]|[Hne Hw]]%lookup_insert_Some; [apply NoDup_nil_2|eauto].
    + intros t [[<- <-]|[Hne Hw]]%lookup_insert_Some; [by intros ?%not_elem_of_nil|eauto].
    + intros t [[<- <-]|[Hne Hw]]%lookup_insert_Some; [done|eauto].
  - by rewrite E.
Qed.

(** C17: No procedure waits for nothing: in every state that is reached from one
    without UEs by starting and ending procedures and by creating procedures and
    UEs, the procedures in a queue exist, belong to that UE and occur once, and
    the first one of a queue that is not empty runs. *)
Theorem first_procedure_runs cfg s0 s u c :
  rtc (sched_step cfg) s0 s -> ues s0 = ∅ -> ues s !! u = Some c ->
  NoDup c.(pending_sub_procs) ∧
  (∀ t, t ∈ c.(pending_sub_procs) -> ∃ pc, procs s !! t = Some pc ∧ proc_ue pc = Some u) ∧
  (∀ t, head c.(pending_sub_procs) = Some t -> ∃ pc, procs s !! t = Some pc ∧ is_running pc = true).
Proof.
  intros R H0 Hu. assert (queues_ok ∅ (sched_view s)) as [Q1 Q2 Q3].
  { assert (queues_ok ∅ (sched_view s0)) as Q.
    { assert ((sched_view s0).2 = ∅) as E by (cbn; rewrite H0; apply fmap_empty).
      split; intros w q; rewrite E, lookup_empty; done. }
    clear Hu H0. induction R as [|s1 s2 s3 St _ IH]; [done|]. apply IH. by eapply sched_step_ok. }
  apply view_ue in Hu. split_and!.
  - by apply Q1 in Hu.
  - intros t Ht. destruct (Q2 u _ t Hu Ht) as [r Hr]. cbn in Hr. apply lookup_fmap_Some in Hr as (pc & Hv & Hp).
    exists pc. unfold proc_view in Hv. by simplify_eq.
  - intros t Ht. pose proof (Q3 u _ t Hu Ht ltac:(set_solver)) as Hr. cbn in Hr.
    apply lookup_fmap_Some in Hr as (pc & Hv & Hp). exists pc. unfold proc_view in Hv. by simplify_eq.
Qed.

(** A subscriber whose attach procedure was started. *)
Definition example_attach : proc_context_t :=
  mk_proc INITIAL_PDN_ATTACH_PROC 0 PROC_RESULT_SUCCESS (Some 1%positive) (Some 3%positive) None None None None None
    0 (repeat None MAX_CHILD_PROC) None.
Definition example_ready : cp :=
  put_proc 10%positive example_attach (on_heap (fun h => set_h_ues {[ 1%positive := example_ue ]} h) empty_cp).
Definition example_started : cp :=
  match start_procedure 10%positive example_ready with Some (_, s) => s | None => empty_cp end.

Lemma example_started_reached : rtc (sched_step example_config) empty_cp example_started.
Proof.
  eapply rtc_l; [by apply (step_new_ue example_config 1%positive example_ue empty_cp)|].
  eapply rtc_l; [by apply (step_new_proc example_config 10%positive example_attach)|].
  apply rtc_once. apply (step_start example_config 10%positive example_attach); [reflexivity| |reflexivity].
  intros u q Hq. cbn in Hq. rewrite lookup_fmap in Hq. apply fmap_Some in Hq as (c & Hc & ->).
  apply lookup_insert_Some in Hc as [[_ <-]|[_ Hc]]; [by apply not_elem_of_nil|by rewrite lookup_empty in Hc].
Qed.

Lemma first_procedure_runs_witness :
  ∃ c, ues example_started !! 1%positive = Some c ∧ c.(pending_sub_procs) = [10%positive] ∧
    ∃ pc, procs example_started !! 10%positive = Some pc ∧ is_running pc = true.
Proof.
  eexists. split; [reflexivity|]. split; [reflexivity|].
  destruct (first_procedure_runs example_config empty_cp example_started 1%positive
              (set_pending_sub_procs [10%positive] example_ue)) as (_ & _ & H);
    [apply example_started_reached|reflexivity|reflexivity|].
  apply H. reflexivity.
Defined.

(** *** The end of a procedure, in full *)

(** The procedure without its transactions. *)
Definition unlinked (pc : proc_context_t) : proc_context_t :=
  set_gx_trans None (set_pfcp_trans None (set_gtpc_trans None pc)).

(** [s'] is [s] but for transactions, timers and the links of [p]. *)
Definition same_contexts (s s' : cp) : Prop :=
  ues s' = ues s ∧ pdns s' = pdns s ∧ bearers s' = bearers s ∧ h_msgs (heap s') = h_msgs (heap s) ∧ trace s' = trace s.

(** The cleanup of the transaction behind one link, if there is one. *)
Lemma end_link k cfg kd p pc s : trans_inv cfg kd s -> procs s !! p = Some pc ->
  ∃ s', (match link_of k pc with None => mret tt | Some t => cleanup_of k cfg t end) s = Some (tt, s') ∧
    trans_inv cfg kd s' ∧ procs s' = <[p := clear_link k pc]> (procs s) ∧ same_contexts s s'.
Proof.
  intros I Hp. destruct (link_of k pc) as [t|] eqn:Hl.
  - assert (∃ s', cleanup_of k cfg t s = Some (tt, s') ∧ cleanup_done True cfg kd t p (clear_link k pc) s s')
      as (s' & E & I' & Ep & _ & _ & _ & Eh & Et & _).
    { by eapply cleanup_linked. }
    exists s'. split_and!; auto. split_and!; auto; by rewrite Eh.
  - exists s. split_and!; auto; [|by split_and!]. rewrite insert_id; [done|]. rewrite Hp. f_equal.
    destruct pc, k; cbn in *; by subst.
Qed.

Lemma end_transactions_ok cfg kd p pc s : trans_inv cfg kd s -> procs s !! p = Some pc ->
  ∃ s', end_transactions cfg p s = Some (tt, s') ∧ trans_inv cfg kd s' ∧
    procs s' = <[p := unlinked pc]> (procs s) ∧ same_contexts s s'.
Proof.
  intros I Hp. unfold end_transactions. step (load_proc_eq p s pc Hp).
  destruct (end_link KGtp cfg kd p pc s I Hp) as (s1 & E1 & I1 & P1 & (A1 & A2 & A3 & A4 & A5)). step E1.
  assert (procs s1 !! p = Some (clear_link KGtp pc)) as Hp1 by (rewrite P1; apply lookup_insert_eq).
  step (load_proc_eq p s1 _ Hp1).
  destruct (end_link KPfcp cfg kd p _ s1 I1 Hp1) as (s2 & E2 & I2 & P2 & (B1 & B2 & B3 & B4 & B5)). step E2.
  assert (procs s2 !! p = Some (clear_link KPfcp (clear_link KGtp pc))) as Hp2 by (rewrite P2; apply lookup_insert_eq).
  step (load_proc_eq p s2 _ Hp2).
  destruct (end_link KGx cfg kd p _ s2 I2 Hp2) as (s3 & E3 & I3 & P3 & (C1 & C2 & C3 & C4 & C5)).
  exists s3. split_and!; [exact E3|exact I3| |].
  - by rewrite P3, P2, P1, !insert_insert_eq.
  - split_and!; congruence.
Qed.

(** The next procedure: the first of the queue that does not run. *)
Fixpoint next_proc (s : cp) (q : list ptr) : option ptr :=
  match q with
  | [] => None
  | t :: rest =>
      match procs s !! t with
      | Some pc => if is_running pc then next_proc s rest else Some t
      | None => None
      end
  end.

Lemma start_next_runs q s : (∀ t, t ∈ q -> is_Some (procs s !! t)) ->
  (∀ t pc, next_proc s q = Some t -> procs s !! t = Some pc -> startable s pc) ->
  ∃ s', start_next q s = Some (tt, s') ∧ trace s' = trace s ++ map CallHandler (option_list (next_proc s q)) ∧
    (next_proc s q = None -> s' = s).
Proof.
  induction q as [|t q IH]; intros Hq Hs.
  { exists s. cbn. rewrite app_nil_r. auto. }
  destruct (Hq t) as [pc Hp]; [by left|]. cbn [start_next next_proc] in *. rewrite Hp in Hs |- *.
  step (load_proc_eq t s pc Hp). destruct (is_running pc).
  - apply IH; [|done]. intros x Hx. apply Hq. by right.
  - destruct (start_direct_runs t pc s Hp) as (s' & E & Et); [by eapply Hs|]. exists s'.
    split_and!; [exact E|exact Et|done].
Qed.

(** Freeing a procedure that has no transactions. *)
Lemma trans_inv_free cfg kd p s : trans_inv cfg kd s ->
  trans_inv cfg kd (on_heap (fun h => set_h_procs (delete p h.(h_procs)) h) s).
Proof.
  intros [I1 I2 I3 I4 I5 I6 I7 I8]. split; auto; intros q pc t Hq Hl; cbn in Hq; apply lookup_delete_Some in Hq as [_ Hq];
    [destruct (I4 _ _ _ Hq Hl)|destruct (I5 _ _ _ Hq Hl)|destruct (I6 _ _ _ Hq Hl)]; auto.
Qed.

(** The states that a procedure without further consequences leaves behind. *)
Definition final_states (ty : sm_proc) : option (UE_CONTEXT_STATE * PDN_CONTEXT_STATE) :=
  match ty with
  | S1_RELEASE_PROC => Some (UE_STATE_IDLE, PDN_STATE_IDLE)
  | USAGE_REPORT_PROC | PAGING_PROC => Some (UE_STATE_ACTIVE, PDN_STATE_ACTIVE)
  | _ => None
  end.

Definition without (p : ptr) (q : list ptr) : list ptr := List.filter (fun t => negb (bool_decide (t = p))) q.

(** The state before the next procedure is started. *)
Definition ended_state (p u d : ptr) (us : UE_CONTEXT_STATE) (ps : PDN_CONTEXT_STATE) (c : ue_context_t)
    (pd : pdn_connection_t) (s1 : cp) : cp :=
  on_heap (fun h => set_h_procs (delete p h.(h_procs))
    (set_h_pdns (<[d := set_pdn_state ps pd]> h.(h_pdns))
      (set_h_ues (<[u := set_ue_state us (set_pending_sub_procs (without p c.(pending_sub_procs)) c)]> h.(h_ues)) h))) s1.

Lemma end_with_eq cd cfg p pc u d us ps c pd s s1 :
  end_transactions cfg p s = Some (tt, s1) -> procs s1 !! p = Some pc -> final_states (proc_type pc) = Some (us, ps) ->
  proc_msg pc = None -> proc_ue pc = Some u -> proc_pdn pc = Some d -> ues s1 !! u = Some c -> pdns s1 !! d = Some pd ->
  p ∈ c.(pending_sub_procs) ->
  end_procedure_with cd cfg p s
  = start_next (without p c.(pending_sub_procs)) (ended_state p u d us ps c pd s1).
Proof.
  intros E Hp Hf Hm Hu Hd Hc Hpd Hin. unfold end_procedure_with. step E. unfold end_message at 1.
  assert ((proc ← load_proc p; match proc_msg proc with None => mret tt | Some m =>
    _ ← update_msg m (fun x => set_refCnt (u32 (x.(refCnt) - 1)) x); msg ← load_msg m;
    if refCnt msg =? 1 then free_msg m else mret tt end) s1 = Some (tt, s1)) as Em.
  { step (load_proc_eq p s1 pc Hp). by rewrite Hm. }
  step Em. step (load_proc_eq p s1 pc Hp). rewrite Hu.
  rewrite (mbind_eq (remove_pending u p) _ _ _ _ (eq_trans (remove_pending_eq u p c s1 Hc Hin)
    (update_ue_eq u s1 c (fun c => set_pending_sub_procs (without p c.(pending_sub_procs)) c) Hc))).
  set (c1 := set_pending_sub_procs _ c). set (s2 := on_heap _ s1).
  assert (ues s2 !! u = Some c1) as Hc2 by (cbn; apply lookup_insert_eq).
  assert (end_by_type cd cfg p s2 = Some (Some u, ended_state p u d us ps c pd s1)) as Et.
  { unfold end_by_type. step (load_proc_eq p s2 pc Hp).
    pose proof (set_states_eq pc u d c1 pd us ps s2 Hu Hd Hc2 Hpd) as Es.
    destruct (proc_type pc); cbn in Hf; try done; injection Hf as <- <-; step Es; set (s3 := on_heap _ s2);
      (assert (free_proc p s3 = Some (tt, on_heap (fun h => set_h_procs (delete p h.(h_procs)) h) s3)) as Ef
        by (unfold free_proc; cbn; by rewrite Hp)); step Ef; rewrite Hu; unfold mret, cpM_ret, s3, s2, ended_state, on_heap;
      cbn; by rewrite insert_insert_eq. }
  step Et. set (s4 := ended_state p u d us ps c pd s1).
  assert (ues s4 !! u = Some (set_ue_state us c1)) as Hc4 by (cbn; apply lookup_insert_eq).
  by step (load_ue_eq u s4 _ Hc4).
Qed.

(** The end of an S1 release, paging or usage report procedure: its
    transactions are released, the UE and the PDN connection get their final
    states, the procedure leaves the queue and is freed, and the handler of the
    first procedure of the queue that does not run yet is called, even when
    others run already ([s''] is the state before that call). *)
Theorem simple_procedure_ends cfg kd p pc u d us ps c pd s :
  trans_inv cfg kd s -> procs s !! p = Some pc -> final_states (proc_type pc) = Some (us, ps) ->
  proc_msg pc = None -> proc_ue pc = Some u -> proc_pdn pc = Some d -> ues s !! u = Some c -> pdns s !! d = Some pd ->
  p ∈ c.(pending_sub_procs) -> (∀ t, t ∈ c.(pending_sub_procs) -> is_Some (procs s !! t)) ->
  (∀ t x, next_proc s (without p c.(pending_sub_procs)) = Some t -> procs s !! t = Some x -> startable s x) ->
  ∃ s' s'', end_procedure cfg p s = Some (tt, s') ∧ trans_inv cfg kd s'' ∧ procs s'' = delete p (procs s) ∧
    ues s'' = <[u := set_ue_state us (set_pending_sub_procs (without p c.(pending_sub_procs)) c)]> (ues s) ∧
    pdns s'' = <[d := set_pdn_state ps pd]> (pdns s) ∧
    trace s' = trace s ++ map CallHandler (option_list (next_proc s (without p c.(pending_sub_procs)))) ∧
    (next_proc s (without p c.(pending_sub_procs)) = None -> s' = s'') ∧
    sched_view s'' = (delete p (sched_view s).1, <[u := without p c.(pending_sub_procs)]> (sched_view s).2).
Proof.
  intros I Hp Hf Hm Hu Hd Hc Hpd Hin Hq Hs. set (q := without p c.(pending_sub_procs)) in *.
  destruct (end_transactions_ok cfg kd p pc s I Hp) as (s1 & E1 & I1 & P1 & (A1 & A2 & A3 & A4 & A5)).
  assert (procs s1 !! p = Some (unlinked pc)) as Hp1 by (rewrite P1; apply lookup_insert_eq).
  set (s2 := ended_state p u d us ps c pd s1).
  assert (procs s2 = delete p (procs s)) as P2 by (cbn; by rewrite P1, delete_insert_eq).
  assert (∀ t, t ∈ q -> t ≠ p) as Hne by (intros t Ht; by apply elem_filter_neq in Ht as [_ ?]).
  assert (∀ l, (∀ t, t ∈ l -> t ≠ p) -> next_proc s2 l = next_proc s l) as Nx.
  { clear -P2. induction l as [|t l IH]; intros H; [done|]. cbn [next_proc]. rewrite P2, lookup_delete_ne.
    - destruct (procs s !! t); [|done]. rewrite IH; [done|]. intros x Hx. apply H. by right.
    - symmetry. apply H. by left. }
  pose proof (end_with_eq (done_rar_child_proc cfg) cfg p (unlinked pc) u d us ps c pd s s1 E1 Hp1 Hf Hm Hu Hd
    ltac:(by rewrite A1) ltac:(by rewrite A2) Hin) as E. fold q s2 in E.
  destruct (start_next_runs q s2) as (s' & Es & Et & Ex).
  - intros t Ht. rewrite P2, lookup_delete_ne; [apply Hq; by apply elem_filter_neq in Ht as [? _]|]. symmetry. auto.
  - intros t x Hn Hx. rewrite (Nx q Hne) in Hn. rewrite P2 in Hx. apply lookup_delete_Some in Hx as [_ Hx].
    specialize (Hs t x Hn Hx). unfold startable in *. destruct (proc_type x); try done;
      destruct Hs as (w & y & ? & ? & ? & ?); exists w, y; split_and!; auto; cbn; rewrite ?A1, ?A2; rewrite lookup_insert_is_Some';
      auto.
  - exists s', s2. rewrite (Nx q Hne) in Et, Ex. split_and!; auto.
    + unfold end_procedure. by rewrite E.
    + pose proof (trans_inv_free cfg kd p s1 I1) as [J1 J2 J3 J4 J5 J6 J7 J8]. by split.
    + cbn. by rewrite A1.
    + cbn. by rewrite A2.
    + rewrite Et. cbn. by rewrite A5.
    + unfold sched_view. rewrite P2. cbn. by rewrite fmap_delete, A1, fmap_insert.
Qed.

(** The S1 release of a subscriber, with the PFCP transaction of [example_state]. *)
Definition example_release : proc_context_t :=
  mk_proc S1_RELEASE_PROC 1 PROC_RESULT_SUCCESS (Some 20%positive) (Some 21%positive) None (Some 2%positive) None None None
    0 (repeat None MAX_CHILD_PROC) None.
Definition example_releasing : cp :=
  example_with example_release {[ 20%positive := set_pending_sub_procs [1%positive] example_ue ]}
    {[ 21%positive := example_pdn ]}.

Lemma simple_procedure_ends_witness :
  ∃ s', end_procedure example_config 1%positive example_releasing = Some (tt, s') ∧ trace s' = [] ∧ procs s' = ∅.
Proof.
  destruct (simple_procedure_ends example_config (fun _ => KPfcp) 1%positive example_release 20%positive 21%positive
    UE_STATE_IDLE PDN_STATE_IDLE (set_pending_sub_procs [1%positive] example_ue) example_pdn example_releasing)
    as (s' & s'' & E & _ & P & _ & _ & T & X & _); try reflexivity.
  - by apply example_inv.
  - apply elem_of_cons. by left.
  - cbn. intros t ->%list_elem_of_singleton. by eexists.
  - intros t x Hn. discriminate Hn.
  - exists s'. split; [exact E|]. split; [exact T|]. rewrite X by reflexivity. rewrite P. reflexivity.
Defined.

(** *** The Gx transactions of a UE that goes away *)

(** [cleanup_pfcp_trans] on a live transaction of [p] that is not in its table. *)
Lemma cleanup_pfcp_absent cfg s t tr p pc :
  transs s !! t = Some tr -> IS_TRANS_DELAYED_DELETE tr = false -> tr.(tr_proc) = Some p -> procs s !! p = Some pc ->
  pfcp_map (tabs s) !! pfcp_key cfg tr = None ->
  ∃ s1, cleanup_pfcp_trans cfg t s = Some (tt, cleaned t p tr (set_pfcp_trans None pc) s1) ∧
    heap s1 = heap s ∧ gx_map (tabs s1) = gx_map (tabs s) ∧ free_queue s1 = free_queue s.
Proof.
  intros Ht Hd Hb Hp Hm. set (s1 := on_tabs (fun x => set_pfcp_map (delete (pfcp_key cfg tr) x.(pfcp_map)) x) s).
  exists s1. split; [|done]. unfold cleanup_pfcp_trans. step (load_trans_eq t s tr Ht).
  assert (∃ addr port, (if IS_TRANS_SELF_INITIATED tr then (pfcp_addr cfg, pfcp_port cfg) else (tr_addr tr, tr_port tr))
            = (addr, port) ∧ pfcp_key cfg tr = (addr, port, tr_sequence tr)) as (addr & port & -> & Ek).
  { unfold pfcp_key. destruct (IS_TRANS_SELF_INITIATED tr); eauto. }
  assert (delete_pfcp_trans addr port (tr_sequence tr) s = Some (pfcp_map (tabs s) !! pfcp_key cfg tr, s1)) as E
    by (unfold s1; by rewrite Ek).
  step E. rewrite Hm. unfold assert_. unfold mbind at 1, cpM_bind. cbn [mret cpM_ret]. rewrite Hb.
  by apply (release_unlink_eq t tr p pc (set_pfcp_trans None) s1).
Qed.

(** When a UE context goes away, a Gx transaction of a procedure in its queue
    is released as if it were a PFCP transaction: it stays in the table of Gx
    transactions although it is queued to be freed, and the tables are no longer
    consistent.  If the PFCP table holds a transaction under its key, the release
    ends in a failed assertion. *)
Theorem gx_trans_left cfg kd q pc t tr s :
  trans_inv cfg kd s -> procs s !! q = Some pc -> gtpc_trans pc = None -> pfcp_trans pc = None ->
  gx_trans pc = Some t -> transs s !! t = Some tr -> gx_map (tabs s) !! tr_sequence tr = Some t ->
  (pfcp_map (tabs s) !! pfcp_key cfg tr = None ->
   ∃ s', cleanup_pending_proc cfg q s = Some (tt, s') ∧ find_gx_trans (tr_sequence tr) s' = Some (Some t, s') ∧
     t ∈ free_queue s' ∧ ¬ trans_inv cfg kd s') ∧
  (∀ t', pfcp_map (tabs s) !! pfcp_key cfg tr = Some t' -> cleanup_pending_proc cfg q s = None).
Proof.
  intros I Hq Hg Hpf Hx Ht Hm. destruct (inv_gx_link _ _ _ I _ _ _ Hq Hx) as [Hk (tr' & Ht' & Hd & Hb & _)].
  assert (tr' = tr) as -> by congruence.
  assert (∀ r, cleanup_pending_proc cfg q s = r <->
    (_ ← cleanup_pfcp_trans cfg t; free_proc q) s = r) as Red.
  { intros r. unfold cleanup_pending_proc. step (load_proc_eq q s pc Hq). rewrite Hg. run.
    step (load_proc_eq q s pc Hq). rewrite Hpf. run. step (load_proc_eq q s pc Hq). by rewrite Hx. }
  split.
  - intros Hn. destruct (cleanup_pfcp_absent cfg s t tr q pc Ht Hd Hb Hq Hn) as (s1 & E & Eh & Eg & Ef).
    assert (transs s1 !! t = Some tr) as Ht1 by (by rewrite Eh).
    destruct (cleaned_fields t q tr (set_pfcp_trans None pc) s1 Ht1) as (F1 & F2 & F3 & F4).
    set (s2 := cleaned _ _ _ _ s1) in *. clearbody s2.
    exists (on_heap (fun h => set_h_procs (delete q h.(h_procs)) h) s2). split_and!.
    + apply Red. step E. unfold free_proc. rewrite F2, lookup_insert_eq. done.
    + unfold find_gx_trans, gets. cbn. by rewrite F3, Eg, Hm.
    + cbn. rewrite F4. apply elem_of_app. right. by left.
    + intros J. destruct (inv_gx _ _ _ J (tr_sequence tr) t) as [_ (x & Hx' & Hx'' & _)].
      { cbn. by rewrite F3, Eg, Hm. }
      cbn in Hx'. rewrite F1, lookup_insert_eq in Hx'. simplify_eq. by rewrite marked_delayed in Hx''.
  - intros t' Hm'. apply Red. destruct (inv_pfcp _ _ _ I _ _ Hm') as [Hk' _].
    assert (t ≠ t') as Hne by congruence. assert (cleanup_pfcp_trans cfg t s = None) as E.
    { unfold cleanup_pfcp_trans. step (load_trans_eq t s tr Ht). unfold pfcp_key in Hm'.
      destruct (IS_TRANS_SELF_INITIATED tr);
        unfold delete_pfcp_trans, find_pfcp_trans, gets, modify, mbind, cpM_bind; cbn; rewrite Hm';
        rewrite bool_decide_false by congruence; done. }
    unfold mbind, cpM_bind. by rewrite E.
Qed.

(** A procedure that waits for an answer on Gx. *)
Definition example_gx_trans : transData_t :=
  mk_trans SELF_INITIATED 0 9 [1] None (Some 1%positive) (mk_timer 0 RETRY_TRANSACTION 3000) 99 0 0.
Definition example_gx_proc : proc_context_t :=
  mk_proc INITIAL_PDN_ATTACH_PROC 1 PROC_RESULT_SUCCESS None None None None None (Some 2%positive) None
    0 (repeat None MAX_CHILD_PROC) None.
Definition example_gx_state : cp :=
  mk_cp (mk_heaps {[ 2%positive := example_gx_trans ]} {[ 1%positive := example_gx_proc ]} ∅ ∅ ∅ ∅ ∅)
    (mk_tables ∅ ∅ {[ 9 := 2%positive ]} ∅ ∅ ∅ ∅ ∅ ∅ ∅ ∅ ∅ ∅ ∅) ∅ [] (mk_pools [] None) initial_teids 3%positive no_nodes [].

Lemma example_gx_inv : trans_inv example_config (fun _ => KGx) example_gx_state.
Proof.
  split; cbn -[example_gx_trans].
  - intros i t Hi. by rewrite lookup_empty in Hi.
  - intros i t Hi. by rewrite lookup_empty in Hi.
  - intros i t [<- <-]%lookup_singleton_Some. split; [done|]. by exists example_gx_trans.
  - intros p x t Hp Hl. cbn in Hp. by apply lookup_singleton_Some in Hp as [<- <-].
  - intros p x t Hp Hl. cbn in Hp. by apply lookup_singleton_Some in Hp as [<- <-].
  - intros p x t Hp Hl. cbn in Hp. apply lookup_singleton_Some in Hp as [<- <-]. cbn in Hl. simplify_eq.
    split; [done|]. exists example_gx_trans. split_and!; try done. intros _ t' Ht'. cbn in Ht'.
    by apply lookup_singleton_Some in Ht' as [_ <-].
  - apply NoDup_nil_2.
  - intros t. split; [by intros ?%not_elem_of_nil|].
    intros (tr & Ht & Hd). cbn in Ht. by apply lookup_singleton_Some in Ht as [<- <-].
Qed.

Lemma gx_trans_left_witness :
  ∃ s', cleanup_pending_proc example_config 1%positive example_gx_state = Some (tt, s') ∧
    find_gx_trans 9 s' = Some (Some 2%positive, s') ∧ 2%positive ∈ free_queue s' ∧
    ¬ trans_inv example_config (fun _ => KGx) s'.
Proof.
  refine (proj1 (gx_trans_left example_config (fun _ => KGx) 1%positive example_gx_proc 2%positive example_gx_trans
                   example_gx_state _ _ _ _ _ _ _) _); try reflexivity. apply example_gx_inv.
Defined.

(** *** Messages, and procedures that cannot end *)

Abbreviation msgs s := (h_msgs (heap s)).

(** A message that a procedure takes is not freed when the procedure ends:
    the counter goes back to 0, and the test compares it with 1.  A message that
    is taken twice, by two procedures, is freed with the first of them, while the
    second one still refers to it. *)
Theorem message_release p pc m msg s :
  procs s !! p = Some pc -> proc_msg pc = None -> msgs s !! m = Some msg -> 0 <= msg.(refCnt) < 2 ^ 32 - 1 ->
  ∃ s', (_ ← SET_PROC_MSG p m; end_message p) s = Some (tt, s') ∧
    (msg.(refCnt) ≠ 1 -> msgs s' = msgs s) ∧ (msg.(refCnt) = 1 -> msgs s' = delete m (msgs s)).
Proof.
  intros Hp Hm Hmsg Hr. set (s1 := put_proc p (set_proc_msg (Some m) pc) s).
  set (s2 := on_heap (fun h => set_h_msgs (<[m := set_refCnt (refCnt msg + 1) msg]> h.(h_msgs)) h) s1).
  set (s3 := on_heap (fun h => set_h_msgs (<[m := msg]> h.(h_msgs)) h) s1).
  assert (SET_PROC_MSG p m s = Some (tt, s2)) as E.
  { unfold SET_PROC_MSG. step (load_proc_eq p s pc Hp). rewrite Hm. run.
    step (update_proc_eq p s pc (set_proc_msg (Some m)) Hp). unfold update_msg. cbn. rewrite Hmsg. cbn.
    by rewrite uwrap_small by lia. }
  assert (procs s2 !! p = Some (set_proc_msg (Some m) pc)) as Hp2 by (cbn; apply lookup_insert_eq).
  assert (end_message p s2 = if refCnt msg =? 1 then Some (tt, on_heap (fun h => set_h_msgs (delete m h.(h_msgs)) h) s3)
    else Some (tt, s3)) as E2.
  { unfold end_message. step (load_proc_eq p s2 _ Hp2). cbn [proc_msg set_proc_msg].
    assert (update_msg m (fun x => set_refCnt (u32 (x.(refCnt) - 1)) x) s2 = Some (tt, s3)) as Eu.
    { unfold update_msg, s2, s3. cbn. rewrite lookup_insert_eq. cbn. do 2 f_equal. unfold on_heap. cbn.
      rewrite insert_insert_eq, uwrap_small by lia. replace (refCnt msg + 1 - 1) with (refCnt msg) by lia.
      by destruct msg. }
    step Eu. assert (msgs s3 !! m = Some msg) as Hm3 by (cbn; apply lookup_insert_eq).
    assert (load_msg m s3 = Some (msg, s3)) as El by (unfold load_msg; by rewrite Hm3).
    step El. destruct (refCnt msg =? 1); [|done]. unfold free_msg. by rewrite Hm3. }
  step E. rewrite E2. destruct (Z.eqb_spec (refCnt msg) 1).
  - eexists. split; [done|]. split; [done|]. intros _. cbn. by rewrite delete_insert_eq.
  - eexists. split; [done|]. split; [|done]. intros _. cbn. by rewrite insert_id.
Qed.

Definition example_msg_state : cp :=
  on_heap (fun h => set_h_msgs {[ 30%positive := mk_msg 0 20 None None 0 ]} h) example_ready.

Lemma message_release_witness :
  ∃ s', (_ ← SET_PROC_MSG 10%positive 30%positive; end_message 10%positive) example_msg_state = Some (tt, s') ∧
    msgs s' = {[ 30%positive := mk_msg 0 20 None None 0 ]}.
Proof.
  destruct (message_release 10%positive example_attach 30%positive (mk_msg 0 20 None None 0) example_msg_state)
    as (s' & E & H & _); try reflexivity; [cbn; lia|].
  exists s'. split; [exact E|]. apply H. done.
Defined.

Lemma end_message_procs p s s' : end_message p s = Some (tt, s') -> procs s' = procs s.
Proof.
  intros E. unfold end_message in E. inv_bind E pc s1 E1. apply load_proc_inv in E1 as [-> _].
  destruct (proc_msg pc) as [m|]; [|by injection E as <-]. inv_bind E x s1 E1. inv_bind E msg s2 E2.
  unfold update_msg in E1. destruct (msgs s !! m); [|done]. cbn in E1. injection E1 as _ <-.
  unfold load_msg in E2. destruct (_ !! m) in E2; [|done]. cbn in E2. injection E2 as _ <-.
  destruct (refCnt msg =? 1); [|by injection E as <-]. unfold free_msg in E. destruct (_ !! m) in E; [|done].
  cbn in E. by injection E as <-.
Qed.

(** The kinds of procedures that have a case in [start_procedure_direct]. *)
Definition handled (ty : sm_proc) : bool :=
  match ty with
  | INITIAL_PDN_ATTACH_PROC | S1_RELEASE_PROC | SERVICE_REQUEST_PROC | DETACH_PROC | NW_INIT_DETACH_PROC
  | USAGE_REPORT_PROC | PAGING_PROC | DED_BER_ACTIVATION_PROC | RAR_PROC => true
  | _ => false
  end.

Lemma end_fails cfg kd p pc s : trans_inv cfg kd s -> procs s !! p = Some pc ->
  (∀ s2 cd, procs s2 !! p = Some (unlinked pc) -> end_by_type cd cfg p s2 = None) -> end_procedure cfg p s = None.
Proof.
  intros I Hp H. destruct (end_transactions_ok cfg kd p pc s I Hp) as (s1 & E1 & _ & P1 & _).
  assert (procs s1 !! p = Some (unlinked pc)) as Hp1 by (rewrite P1; apply lookup_insert_eq).
  unfold end_procedure, end_procedure_with. step E1. destruct ((_ ← end_message p; _) s1) as [[[] s']|] eqn:E; [|done].
  exfalso. inv_bind E x2 s2 E2. destruct x2. apply end_message_procs in E2. inv_bind E pc' s3 E3.
  apply load_proc_inv in E3 as [-> Hp3]. inv_bind E x4 s4 E4. destruct x4. inv_bind E r s5 E5.
  rewrite H in E5; [done|]. destruct (proc_ue pc').
  - apply remove_pending_some, update_ue_procs in E4. by rewrite E4, E2.
  - injection E4 as <-. by rewrite E2.
Qed.

(** The end of a service request procedure always reads the procedure after
    it was freed.  A procedure of a kind without a case in
    [start_procedure_direct] is marked as running when it is started, but no
    handler is called for it, and its end is a failed assertion. *)
Theorem procedures_that_cannot_end cfg kd p pc s :
  trans_inv cfg kd s -> procs s !! p = Some pc ->
  (proc_type pc = SERVICE_REQUEST_PROC -> end_procedure cfg p s = None) ∧
  (handled (proc_type pc) = false -> end_procedure cfg p s = None ∧
   ∃ s', start_procedure_direct p s = Some (tt, s') ∧ trace s' = trace s ∧
     (sched_view s').1 !! p = Some (proc_ue pc, true)).
Proof.
  intros I Hp. split; [|split].
  - intros Ht. apply (end_fails cfg kd p pc s I Hp). intros s2 cd Hp2.
    destruct (end_by_type cd cfg p s2) as [[r s3]|] eqn:E; [exfalso|done]. unfold end_by_type in E.
    inv_bind E pc0 s4 E4. apply load_proc_inv in E4 as [-> E4]. rewrite Hp2 in E4. injection E4 as <-.
    cbn [proc_type unlinked set_gx_trans set_pfcp_trans set_gtpc_trans] in E. rewrite Ht in E.
    inv_bind E x s5 E5. inv_bind E y s6 E6. apply load_proc_inv in E6 as [-> E6].
    unfold free_proc in E5. rewrite Hp2 in E5. injection E5 as _ <-. cbn in E6. by rewrite lookup_delete_eq in E6.
  - apply (end_fails cfg kd p pc s I Hp). intros s2 cd Hp2. unfold end_by_type.
    step (load_proc_eq p s2 _ Hp2). cbn [proc_type unlinked set_gx_trans set_pfcp_trans set_gtpc_trans].
    by destruct (proc_type pc).
  - assert (∃ s', start_procedure_direct p s = Some (tt, s') ∧ trace s' = trace s) as (s' & E & Et).
    { unfold start_procedure_direct. step (load_proc_eq p s pc Hp).
      step (update_proc_eq p s pc (fun x => set_proc_flags (Z.lor x.(proc_flags) PROC_FLAGS_RUNNING) x) Hp).
      destruct (proc_type pc); try done; by eexists. }
    exists s'. split_and!; [done..|]. apply start_direct_view in E as (pc' & Hp' & ->). cbn [fst].
    rewrite lookup_insert_eq. congruence.
Qed.

Lemma procedures_that_cannot_end_witness :
  let pc := mk_proc SERVICE_REQUEST_PROC 1 PROC_RESULT_SUCCESS None None None (Some 2%positive) None None None
              0 (repeat None MAX_CHILD_PROC) None in
  end_procedure example_config 1%positive (example_with pc ∅ ∅) = None.
Proof.
  intros pc. refine (proj1 (procedures_that_cannot_end example_config (fun _ => KPfcp) 1%positive pc
                              (example_with pc ∅ ∅) _ _) _); [by apply example_inv|reflexivity|reflexivity].
Defined.
