(* ===== verification/Rar.v ===== *)
(** * The Re-Auth-Request procedure (src/cp/procedures/proc_rar.c, proc_nw_init_detach.c)

    The part of the handler that looks, among the rules the policy server sent, for
    one whose removal detaches the PDN connection, and starts a network initiated
    detach for it. *)

From stdpp Require Import gmap strings.
From S2P Require Import Prelude IpPool Teid CpState Transactions UeContext Proc.

(** ** The code *)

Definition SEND_PFCP_DEL_SESSION_REQ : Z := 39.
Definition PCC_RULE_OP_PENDING : Z := 1.

(** [ue] and [pdn] are the contexts in the message. *)
Definition alloc_nw_init_detach_proc (m : ptr) (ue pdn : option ptr) : cpM ptr :=
  p ← alloc_proc (mk_proc NW_INIT_DETACH_PROC 0 PROC_RESULT_SUCCESS ue pdn None None None None None
                    0 (repeat None MAX_CHILD_PROC) None);
  _ ← update_msg m (set_msg_proc (Some p));
  _ ← SET_PROC_MSG p m;
  mret p.

(** A message with [event], the new procedure, and its start as a child of [rar]. *)
Definition start_rar_detach (rar : ptr) : cpM unit :=
  proc_rar ← load_proc rar;
  m ← alloc_msg (mk_msg 0 SEND_PFCP_DEL_SESSION_REQ None proc_rar.(proc_pdn) 0);
  p ← alloc_nw_init_detach_proc m proc_rar.(proc_ue) proc_rar.(proc_pdn);
  _ ← update_proc p (set_parent_proc (Some rar));
  _ ← add_rar_child_proc rar p;
  start_procedure p.

(** The inner loop: whether a rule to be deleted has a bearer. *)
Fixpoint find_rule_to_delete (pdn : pdn_connection_t) (rules : list pcc_rule_t) : cpM bool :=
  match rules with
  | [] => mret false
  | rule :: rest =>
      match rule.(pcc_action) with
      | RULE_ACTION_DELETE =>
          if Z.land rule.(pcc_flags) PCC_RULE_OP_PENDING =? 0 then
            bearer_id ← get_rule_name_entry (rule_key rule.(pcc_rule_name) pdn.(call_id));
            if bearer_id =? -1 then find_rule_to_delete pdn rest
            else
              slot ← array_get pdn.(pdn_bearers) bearer_id;
              match slot with Some _ => mret true | None => find_rule_to_delete pdn rest end
          else find_rule_to_delete pdn rest
      | _ => find_rule_to_delete pdn rest
      end
  end.

(** The outer [while(1)], which is left when a procedure was created; [fuel] bounds
    the turns, and the result says whether it was left. *)
Fixpoint delete_rules_loop (fuel : nat) (rar : ptr) : cpM bool :=
  match fuel with
  | O => mret false
  | S fuel =>
      proc_rar ← load_proc rar;
      p ← nonnull proc_rar.(proc_pdn);
      pdn ← load_pdn p;
      found ← find_rule_to_delete pdn pdn.(pending_pcc_rules);
      if found : bool then _ ← start_rar_detach rar; mret true
      else delete_rules_loop fuel rar
  end.

(** ** Properties *)

(** A rule whose removal detaches the connection. *)
Definition to_delete (s : cp) (pd : pdn_connection_t) (rule : pcc_rule_t) : Prop :=
  rule.(pcc_action) = RULE_ACTION_DELETE ∧ Z.land rule.(pcc_flags) PCC_RULE_OP_PENDING = 0 ∧
  ∃ (i : nat) b, rule_table (tabs s) !! rule_key rule.(pcc_rule_name) pd.(call_id) = Some (Z.of_nat i) ∧
    pdn_bearers pd !! i = Some (Some b).

(** The bearer ids in the table of rule names are slots of the PDN connection. *)
Definition rule_ids_ok (s : cp) (pd : pdn_connection_t) : Prop :=
  length (pdn_bearers pd) = MAX_BEARERS ∧
  ∀ k b, rule_table (tabs s) !! k = Some b -> 0 <= b < Z.of_nat MAX_BEARERS.

Lemma find_rule_spec s pd rules : rule_ids_ok s pd ->
  ∃ b, find_rule_to_delete pd rules s = Some (b, s) ∧ (b = true <-> ∃ rule, rule ∈ rules ∧ to_delete s pd rule).
Proof.
  intros [HL Hids]. induction rules as [|rule rules (b & E & Hb)].
  { exists false. split; [done|]. split; [done|]. by intros (r & ?%not_elem_of_nil & _). }
  assert (¬ to_delete s pd rule -> find_rule_to_delete pd (rule :: rules) s = find_rule_to_delete pd rules s ->
    ∃ b, find_rule_to_delete pd (rule :: rules) s = Some (b, s) ∧
      (b = true <-> ∃ r, r ∈ rule :: rules ∧ to_delete s pd r)) as Skip.
  { intros Hn ->. exists b. split; [exact E|]. rewrite Hb. split.
    - intros (r & Hr & Hd). exists r. split; [by right|done].
    - intros (r & [->|Hr]%elem_of_cons & Hd); [done|]. by exists r. }
  destruct (pcc_action rule) eqn:Ha; try (apply Skip; [intros [? _]; congruence|];
    cbn [find_rule_to_delete]; by rewrite Ha).
  destruct (Z.eqb_spec (Z.land (pcc_flags rule) PCC_RULE_OP_PENDING) 0) as [Hf|Hf].
  2: { apply Skip; [intros (_ & ? & _); congruence|]. cbn [find_rule_to_delete]. rewrite Ha.
       by rewrite (proj2 (Z.eqb_neq _ _) Hf). }
  destruct (rule_table (tabs s) !! rule_key (pcc_rule_name rule) (call_id pd)) as [i|] eqn:Hi.
  2: { apply Skip; [intros (_ & _ & ? & ? & ? & _); congruence|]. cbn [find_rule_to_delete]. rewrite Ha, Hf, Z.eqb_refl.
       unfold get_rule_name_entry, gets. unfold mbind at 1, cpM_bind. by rewrite Hi. }
  pose proof (Hids _ _ Hi) as Hr. unfold MAX_BEARERS in Hr.
  destruct (lookup_lt_is_Some_2 (pdn_bearers pd) (Z.to_nat i)) as [slot Hs]; [rewrite HL; unfold MAX_BEARERS; lia|].
  assert (find_rule_to_delete pd (rule :: rules) s =
    match slot with Some _ => Some (true, s) | None => find_rule_to_delete pd rules s end) as Ef.
  { cbn [find_rule_to_delete]. rewrite Ha, Hf, Z.eqb_refl. unfold get_rule_name_entry, gets.
    unfold mbind at 1, cpM_bind. rewrite Hi, (proj2 (Z.ltb_lt i 128)), (proj2 (Z.eqb_neq i (-1))) by lia.
    replace i with (Z.of_nat (Z.to_nat i)) by lia. step (array_get_eq (pdn_bearers pd) (Z.to_nat i) slot s Hs).
    by destruct slot. }
  destruct slot as [x|].
  - exists true. split; [exact Ef|]. split; [|done]. intros _. exists rule. split; [by left|]. split_and!; auto.
    exists (Z.to_nat i), x. rewrite Z2Nat.id by lia. auto.
  - apply Skip; [|exact Ef]. intros (_ & _ & j & y & Hj & Hy). rewrite Hi in Hj. simplify_eq.
    rewrite Nat2Z.id in Hs. congruence.
Qed.

(** The loop over the rules to be deleted is left only when one was found:
    when the policy server sent no rule whose removal detaches the connection, for
    example when it only installs rules, the loop turns for ever; otherwise it is
    left in its first turn. *)
Theorem delete_rules_loop_ends rar pc p pd s :
  procs s !! rar = Some pc -> proc_pdn pc = Some p -> pdns s !! p = Some pd -> rule_ids_ok s pd ->
  ((¬ ∃ rule, rule ∈ pd.(pending_pcc_rules) ∧ to_delete s pd rule) ->
   ∀ fuel, delete_rules_loop fuel rar s = Some (false, s)) ∧
  ((∃ rule, rule ∈ pd.(pending_pcc_rules) ∧ to_delete s pd rule) ->
   ∀ fuel, delete_rules_loop (S fuel) rar s = (_ ← start_rar_detach rar; mret true) s).
Proof.
  intros Hr Hp Hd Ok. destruct (find_rule_spec s pd pd.(pending_pcc_rules) Ok) as (b & E & Hb).
  assert (∀ fuel, delete_rules_loop (S fuel) rar s =
    if b then (_ ← start_rar_detach rar; mret true) s else delete_rules_loop fuel rar s) as Turn.
  { intros fuel. cbn [delete_rules_loop]. step (load_proc_eq rar s pc Hr). rewrite Hp. step (nonnull_eq p s).
    step (load_pdn_eq p s pd Hd). step E. by destruct b. }
  split.
  - intros Hn fuel. assert (b = false) as -> by (destruct b; [destruct Hn; by apply Hb|done]).
    induction fuel as [|fuel IH]; [done|]. by rewrite Turn.
  - intros Hy fuel. rewrite Turn. by rewrite (proj2 Hb Hy).
Qed.

(** A Re-Auth-Request that installs one rule. *)
Definition example_rar_state : cp :=
  put_pdn 3%positive (set_pending_pcc_rules [mk_pcc_rule 0 RULE_ACTION_ADD "video" (mk_qos 1 0 1 0)] example_pdn)
    example_queue.

Lemma delete_rules_loop_ends_witness :
  delete_rules_loop 1000 10%positive example_rar_state = Some (false, example_rar_state).
Proof.
  refine (proj1 (delete_rules_loop_ends 10%positive example_rar 3%positive
    (set_pending_pcc_rules [mk_pcc_rule 0 RULE_ACTION_ADD "video" (mk_qos 1 0 1 0)] example_pdn) example_rar_state
    _ _ _ _) _ 1000%nat); try reflexivity.
  - split; [reflexivity|]. intros k b Hk. cbn in Hk. by rewrite lookup_empty in Hk.
  - intros (rule & ->%list_elem_of_singleton & H & _). discriminate H.
Defined.
