(* ===== verification/Upf.v ===== *)
(** * User plane nodes (src/cp/upf.c, src/cp/procedures/proc_pfcp_assoc_setup.c)

    The gateway knows its user plane nodes by service name and, once the name is
    resolved, by address.  Before a node can serve a subscriber an association is set
    up with it; procedures that need the node in the meantime wait at its context and
    are answered when the association is there or has failed.  A failed association
    is tried again after a random time, and the loss of a node, seen by the missing or
    changed heartbeat, starts it anew.  Also here: the PFCP messages that concern
    nodes (src/cp/pfcp/msg), the elements set in them (pfcp_cp_set_ie.c), and the part
    of the attach that waits for a node (proc_initial_attach.c).

    What the system answers (names, random numbers, timers) is taken from [answers]. *)

From stdpp Require Import gmap strings.
From S2P Require Import Prelude EncDecBits Codec PfcpIes PfcpMsgs PfcpMsgsEncoder PfcpMsgsDecoder.
From S2P Require Import Peer IpPool Teid CpState Transactions UeContext Proc.

(** ** Tables (src/cpplib/upf_tables.h, peer_tables.h) *)

Definition upf_context_entry_add (upf_ip : Z) (entry : ptr) : cpM Z :=
  _ ← modify (on_tabs (fun x => set_upf_by_ip (map_insert upf_ip entry x.(upf_by_ip)) x)); mret 0.
Definition upf_context_entry_lookup (upf_ip : Z) : cpM (option ptr) :=
  gets (fun s => s.(tabs).(upf_by_ip) !! upf_ip).
Definition upf_context_delete_entry (upf_ip : Z) : cpM Z :=
  _ ← modify (on_tabs (fun x => set_upf_by_ip (delete upf_ip x.(upf_by_ip)) x)); mret 0.

(** A NULL name given to [operator<<] has no defined result. *)
Definition upf_context_entry_add_service (service : option string) (entry : ptr) : cpM Z :=
  name ← nonnull service;
  _ ← modify (on_tabs (fun x => set_upf_by_service (map_insert name entry x.(upf_by_service)) x)); mret 0.
Definition upf_context_entry_lookup_service (service : string) : cpM (option ptr) :=
  gets (fun s => s.(tabs).(upf_by_service) !! service).

(** The recovery time is kept in the record of the peer, 0 in a new record. *)
Definition is_peer (ip : Z) (s : cp) : bool := bool_decide (is_Some (peer_table s.(nodes).(peers) !! ip)).
Definition set_recov_time (ip time : Z) : cpM unit :=
  modify (fun s => if is_peer ip s then on_nodes (fun n => set_recov_times (<[ip := time]> n.(recov_times)) n) s else s).
Definition add_ip_to_heartbeat_hash (ip recovery_time : Z) : cpM unit := set_recov_time ip recovery_time.
Definition delete_entry_heartbeat_hash (ip : Z) : cpM unit := set_recov_time ip 0.
Definition peer_heartbeat_entry_lookup (ip : Z) : cpM (option Z) :=
  gets (fun s => if is_peer ip s then Some (default 0 (s.(nodes).(recov_times) !! ip)) else None).

(** ** System answers, events, timers *)

(** The next answer of a kind; [d] when there is no more. *)
Definition next_answer {A} (get : oracle -> list A) (set : list A -> oracle -> oracle) (d : A) : cpM A :=
  l ← gets (fun s => get s.(nodes).(answers));
  match l with
  | [] => mret d
  | x :: rest => _ ← modify (on_nodes (fun n => set_answers (set rest n.(answers)) n)); mret x
  end.

(** The address the resolver thread finds, 0 when it finds none or is too late. *)
Definition upf_name_resolve (name : string) : cpM Z := next_answer or_dns set_or_dns 0.
Definition rand : cpM Z := next_answer or_rand set_or_rand 0.
Definition timer_create : cpM (option Z) := next_answer or_tids set_or_tids None.
Definition timer_settime : cpM bool := next_answer or_set set_or_set false.
Definition calloc_ok : cpM bool := next_answer or_mem set_or_mem false.

Definition queue_stack_unwind_event (e : stack_event) : cpM unit :=
  modify (on_nodes (fun n => set_stack_events (n.(stack_events) ++ [e]) n)).

(** [timer = &upf_pt] or [timer = &upf_ctxt->upf_pt]. *)
Definition get_timer (upf : option ptr) : cpM gstimerinfo_t :=
  match upf with
  | None => gets (fun s => s.(nodes).(assoc_timer))
  | Some u => n ← load_upf u; mret n.(upf_pt)
  end.
Definition put_timer (upf : option ptr) (ti : gstimerinfo_t) : cpM unit :=
  match upf with
  | None => modify (on_nodes (set_assoc_timer ti))
  | Some u => update_upf u (set_upf_pt ti)
  end.

(** [startTimer]: a time of 0 disarms the timer. *)
Definition startTimer (timer : gstimerinfo_t) : cpM bool :=
  ok ← timer_settime;
  _ ← (if ok : bool
       then modify (fun s => set_timers (<[timer.(ti_id) := nz timer.(ti_ms)]> s.(timers)) s)
       else mret tt);
  mret ok.

Definition schedule_pfcp_association (timeout : Z) (upf : option ptr) : cpM unit :=
  timer ← get_timer upf;
  tid ← timer_create;
  let timer := mk_timer (default timer.(ti_id) tid) UPF_ASSOCIATION (timeout * 1000) in
  _ ← put_timer upf timer;
  match tid with
  | None => mret tt
  | Some id =>
      _ ← modify (fun s => set_timers (<[id := false]> s.(timers)) s);
      _ ← startTimer timer;
      mret tt
  end.

Definition upfAssociationTimerCallback (upf : option ptr) : cpM unit :=
  timer ← get_timer upf;
  _ ← stoptimer timer.(ti_id);
  _ ← deinittimer timer.(ti_id);
  queue_stack_unwind_event (UPF_ASSOCIATION_SETUP upf).

(** ** Contexts of nodes *)

(** The result and what [*upf_ctxt] is afterwards: it is not taken back when the
    context is freed. *)
Definition create_upf_context (upf_ip : Z) (service_name : option string) : cpM (Z * option ptr) :=
  mem ← calloc_ok;
  if negb mem then mret (-1, None)
  else
    u ← alloc (fun p h => set_h_upfs (<[p := set_upf_addr upf_ip zero_upf]> h.(h_upfs)) h);
    ret ← (if nz upf_ip then upf_context_entry_add upf_ip u else mret 0);
    if nz ret then _ ← free_upf u; mret (-1, Some u)
    else
      ret ← upf_context_entry_add_service service_name u;
      if nz ret then
        _ ← (if nz upf_ip then upf_context_delete_entry upf_ip else mret 0);
        _ ← free_upf u; mret (-1, Some u)
      else
        _ ← update_upf u (fun x => set_upf_sub_procs [] (set_upf_node_procs [] x));
        mret (0, Some u).

Definition get_upf_context (user_plane_service : string) (global : bool) : cpM (option ptr) :=
  found ← upf_context_entry_lookup_service user_plane_service;
  match found with
  | None =>
      addr ← upf_name_resolve user_plane_service;
      '(_, upf) ← create_upf_context addr (Some user_plane_service);
      match upf with
      | None => mret None
      | Some u =>
          _ ← update_upf u (fun x => set_global_address global (set_fqdn user_plane_service x));
          mret (Some u)
      end
  | Some u =>
      n ← load_upf u;
      if n.(upf_addr) =? 0 then
        _ ← update_upf u (set_global_address global);
        addr ← upf_name_resolve user_plane_service;
        _ ← update_upf u (set_upf_addr addr);
        if nz addr then
          ret ← upf_context_entry_add addr u;
          mret (if nz ret then None else Some u)
        else mret (Some u)
      else mret (Some u)
  end.

Definition upf_down_event (upf_ip : Z) : cpM unit :=
  upf ← upf_context_entry_lookup upf_ip;
  _ ← match upf with
      | None => mret tt
      | Some u => update_upf u (fun x => set_upf_addr 0 (set_upf_state 0 x))
      end;
  _ ← delete_entry_heartbeat_hash upf_ip;
  r ← rand;
  schedule_pfcp_association (r mod 30) upf.

Definition config_disable_upf (upf_service_name : string) : cpM unit :=
  upf ← upf_context_entry_lookup_service upf_service_name;
  match upf with
  | None => mret tt
  | Some u =>
      n ← load_upf u;
      _ ← modify (on_nodes (fun x => set_peers (set_table x.(peers) (delete n.(upf_addr) (peer_table x.(peers))))
                                       (set_recov_times (delete n.(upf_addr) x.(recov_times)) x)));
      _ ← update_upf u (set_upf_state 0);
      _ ← upf_context_delete_entry n.(upf_addr);
      delete_entry_heartbeat_hash n.(upf_addr)
  end.

(** ** Messages (src/cp/pfcp/common/pfcp_cp_set_ie.c) *)

Definition PFCP_VERSION : Z := 1.
Definition PFCP_HEARTBEAT_RESPONSE : Z := 2.
Definition PFCP_ASSOCIATION_SETUP_REQUEST : Z := 5.
Definition PFCP_ASSOCIATION_SETUP_RESPONSE : Z := 6.
Definition REQUESTACCEPTED : Z := 1.
Definition SOURCE_INTERFACE_VALUE_ACCESS : Z := 0.
Definition NODE_ID_TYPE_TYPE_IPV4ADDRESS : Z := 0.

Definition generate_seq_no : cpM Z :=
  ps ← gets (fun s => s.(nodes).(peers));
  let offset := u32 (ps.(pfcp_seq_no_offset) + 1) in
  _ ← modify (on_nodes (set_peers
        (mk_peers ps.(peer_table) ps.(next_id) ps.(events) ps.(conn_cnt) ps.(gtpc_mme_seqnb) ps.(gtpc_sgwc_seqnb)
           ps.(gtpc_pgwc_seqnb) ps.(pfcp_seqnb) offset ps.(actions))));
  mret offset.

(** The header of a message that was cleared before; the sequence number is stored
    in 24 bits. *)
Definition set_pfcp_seid_header (type : Z) (flag : bool) (seq : Z) : pfcp_header_t :=
  mk_header (if flag then 1 else 0) 0 0 PFCP_VERSION type 0
    (if flag then inl (mk_has_seid 0 (uwrap 24 seq) 0 0) else inr (mk_no_seid (uwrap 24 seq) 0)).

(** The header has the length of the type octet and the address. *)
Definition set_node_id (nodeid_value : Z) : pfcp_node_id_ie_t :=
  mk_node_id (mk_ie_header PFCP_IE_NODE_ID 5) 0 NODE_ID_TYPE_TYPE_IPV4ADDRESS (le_bytes 4 nodeid_value ++ repeat 0 4).
Definition set_recovery_time_stamp (cfg : cp_config_t) : pfcp_rcvry_time_stmp_ie_t :=
  mk_rcvry_time_stmp (mk_ie_header PFCP_IE_RCVRY_TIME_STMP 4) cfg.(start_time).
Definition set_cause (cause_val : Z) : pfcp_cause_ie_t := mk_cause (mk_ie_header PFCP_IE_CAUSE 1) cause_val.

(** [header->message_len = htons(encoded - 4)] in the encoded message, and the bytes
    that are sent. *)
Definition finish_message (r : option (Z * list Z)) : cpM (list Z) :=
  '(encoded, msg) ← nonnull r;
  msg ← nonnull (store msg 2 (u8 ((encoded - 4) / 256)));
  msg ← nonnull (store msg 3 (u8 (encoded - 4)));
  mret (take (Z.to_nat encoded) msg).

Definition fill_pfcp_association_setup_req (cfg : cp_config_t) (seq : Z) : pfcp_assn_setup_req_t :=
  set_assn_setup_req_rcvry_time_stmp (set_recovery_time_stamp cfg)
    (set_assn_setup_req_node_id (set_node_id cfg.(pfcp_addr))
      (set_assn_setup_req_header (set_pfcp_seid_header PFCP_ASSOCIATION_SETUP_REQUEST false seq) zero_assn_setup_req)).

Definition fill_pfcp_association_setup_rsp (cfg : cp_config_t) (seq : Z) : pfcp_assn_setup_rsp_t :=
  set_assn_setup_rsp_cause (set_cause REQUESTACCEPTED)
    (set_assn_setup_rsp_rcvry_time_stmp (set_recovery_time_stamp cfg)
      (set_assn_setup_rsp_node_id (set_node_id cfg.(pfcp_addr))
        (set_assn_setup_rsp_header (set_pfcp_seid_header PFCP_ASSOCIATION_SETUP_RESPONSE false seq)
          zero_assn_setup_rsp))).

Definition fill_pfcp_heartbeat_resp (cfg : cp_config_t) : pfcp_hrtbeat_rsp_t :=
  set_hrtbeat_rsp_rcvry_time_stmp (set_recovery_time_stamp cfg)
    (set_hrtbeat_rsp_header (set_pfcp_seid_header PFCP_HEARTBEAT_RESPONSE false 1) zero_hrtbeat_rsp).

(** [header.seid_seqno.no_seid.seq_no]: the low bits of the session id when the
    other member of the union was filled. *)
Definition no_seid_seq (h : pfcp_header_t) : Z :=
  match h.(header_seid_seqno) with inl hs => uwrap 24 hs.(hs_seid) | inr ns => ns.(ns_seq_no) end.

(** ** The association procedure (src/cp/procedures/proc_pfcp_assoc_setup.c) *)

(** [process_assoc_resp_timeout_handler] as the timeout function of a transaction. *)
Definition ASSOC_RESP_TIMEOUT : Z := 1.

Definition alloc_pfcp_association_setup_proc (u : ptr) : cpM ptr :=
  m ← alloc_msg (mk_msg 0 PFCP_ASSOCIATION_SETUP None None 0);
  p ← alloc_proc (mk_proc PFCP_ASSOC_SETUP_PROC 0 PROC_RESULT_SUCCESS None None None None None None None
                    0 (repeat None MAX_CHILD_PROC) None);
  _ ← SET_PROC_MSG p m;
  _ ← update_proc p (set_proc_upf (Some u));
  _ ← update_msg m (set_msg_proc (Some p));
  _ ← update_upf u (set_upf_proc (Some p));
  mret p.

Definition assoication_setup_request (cfg : cp_config_t) (p : ptr) : cpM Z :=
  proc ← load_proc p;
  u ← nonnull proc.(proc_upf);
  seq_num ← generate_seq_no;
  buf ← finish_message (encode_pfcp_assn_setup_req_t (fill_pfcp_association_setup_req cfg seq_num) (repeat 0 256) 0);
  upf ← load_upf u;
  _ ← emit (SendPfcp buf upf.(upf_addr));
  mem ← calloc_ok;
  tid ← timer_create;
  ok ← timer_settime;
  trans ← start_response_wait_timer cfg mem tid ok (Some p) buf ASSOC_RESP_TIMEOUT;
  t ← nonnull trans;
  _ ← update_trans t (fun x => set_tr_sequence seq_num (set_tr_flags (Z.lor x.(tr_flags) SELF_INITIATED) x));
  _ ← add_pfcp_trans cfg.(pfcp_addr) cfg.(pfcp_port) seq_num t;
  _ ← update_proc p (set_pfcp_trans (Some t));
  _ ← update_trans t (set_tr_proc (Some p));
  _ ← update_upf u (fun x => set_upf_state PFCP_ASSOC_REQ_SNT_STATE (set_upf_proc (Some p) x));
  mret 0.

Definition association_setup_handler (cfg : cp_config_t) (p : ptr) : cpM Z :=
  proc ← load_proc p;
  u ← nonnull proc.(proc_upf);
  n ← load_upf u;
  _ ← assert_ (negb (n.(upf_state) =? PFCP_ASSOC_RESP_RCVD_STATE));
  _ ← update_upf u (set_upf_addr 0);
  upf ← get_upf_context n.(fqdn) n.(global_address);
  u ← nonnull upf;
  n ← load_upf u;
  if n.(upf_addr) =? 0 then
    _ ← update_upf u (set_upf_state 0);
    _ ← queue_stack_unwind_event (UPF_CONNECTION_SETUP_FAILED u);
    mret (-1)
  else
    ret ← assoication_setup_request cfg p;
    if nz ret then
      _ ← update_upf u (set_upf_state 0);
      _ ← queue_stack_unwind_event (UPF_CONNECTION_SETUP_FAILED u);
      mret (-1)
    else mret 0.

Definition buffer_csr_request (p : ptr) : cpM unit :=
  proc ← load_proc p;
  c ← nonnull proc.(proc_ue);
  ue ← load_ue c;
  u ← nonnull ue.(ue_upf);
  update_upf u (fun x => set_upf_sub_procs (p :: x.(upf_sub_procs)) x).

(** What an association message says about the node; [info] is the first of the user
    plane addresses. *)
Definition note_user_plane (cfg : cp_config_t) (u : ptr) (info : pfcp_user_plane_ip_rsrc_info_ie_t) : cpM unit :=
  let access := (info.(user_plane_ip_rsrc_info_assosi) =? 1) &&
                (info.(user_plane_ip_rsrc_info_src_intfc) =? SOURCE_INTERFACE_VALUE_ACCESS) in
  _ ← match cfg.(cp_type) with
      | PGWC => if access then update_upf u (set_s5s8_pgwu_ip info.(user_plane_ip_rsrc_info_ipv4_address)) else mret tt
      | SAEGWC => if access then update_upf u (set_s1u_ip info.(user_plane_ip_rsrc_info_ipv4_address)) else mret tt
      | SGWC => crash
      end;
  if nz info.(user_plane_ip_rsrc_info_teidri) then
    modify (fun s => set_cp_teids (set_base_teid cfg.(cp_type) info.(user_plane_ip_rsrc_info_teid_range) s.(cp_teids)) s)
  else mret tt.

(** The node is supervised from now on. *)
Definition watch_node (cfg : cp_config_t) (peer time : Z) : cpM unit :=
  _ ← add_ip_to_heartbeat_hash peer time;
  ok ← timer_settime;
  modify (on_nodes (fun x => set_peers (add_node_conn_entry cfg.(transmit_cnt) ok x.(peers) peer SX_PORT_ID) x)).

(** [m] is the message object, [rsp] and [peer] its content. *)
Definition handle_pfcp_association_setup_response (cfg : cp_config_t) (p m : ptr) (rsp : pfcp_assn_setup_rsp_t)
    (peer : Z) : cpM Z :=
  proc ← load_proc p;
  u ← nonnull proc.(proc_upf);
  if negb (cause_value rsp.(assn_setup_rsp_cause) =? REQUESTACCEPTED) then
    _ ← update_upf u (set_upf_state 0);
    _ ← queue_stack_unwind_event (UPF_CONNECTION_SETUP_FAILED u);
    mret 0
  else
    let feat := rsp.(assn_setup_rsp_up_func_feat) in
    info ← nonnull (rsp.(assn_setup_rsp_user_plane_ip_rsrc_info) !! 0%nat);
    _ ← update_msg m (set_msg_event PFCP_ASSOC_SETUP_RESP_RCVD_EVNT);
    _ ← update_upf u (fun x => set_add_up_supp_features2 feat.(up_func_feat_add_sup_feat2)
          (set_add_up_supp_features1 feat.(up_func_feat_add_sup_feat1)
            (set_up_supp_features feat.(up_func_feat_sup_feat)
              (set_upf_state PFCP_ASSOC_RESP_RCVD_STATE x))));
    _ ← note_user_plane cfg u info;
    _ ← watch_node cfg peer (rcvry_time_stmp_val rsp.(assn_setup_rsp_rcvry_time_stmp));
    _ ← queue_stack_unwind_event (UPF_CONNECTION_SETUP_SUCCESS u);
    mret 0.

Definition pfcp_association_event_handler (cfg : cp_config_t) (p m : ptr) (rsp : pfcp_assn_setup_rsp_t) (peer : Z)
    : cpM unit :=
  msg ← load_msg m;
  let event := u8 msg.(msg_event) in
  if event =? PFCP_ASSOCIATION_SETUP then _ ← association_setup_handler cfg p; mret tt
  else if event =? PFCP_ASSOCIATION_SETUP_RSP then
    _ ← handle_pfcp_association_setup_response cfg p m rsp peer; mret tt
  else crash.

(** The handler of the first procedure is called with the message of the new one,
    whose content was never filled. *)
Definition start_upf_procedure (cfg : cp_config_t) (p m : ptr) : cpM unit :=
  proc ← load_proc p;
  u ← nonnull proc.(proc_upf);
  _ ← update_upf u (fun x => set_upf_node_procs (x.(upf_node_procs) ++ [p]) x);
  n ← load_upf u;
  first ← nonnull (head n.(upf_node_procs));
  proc ← load_proc first;
  if bool_decide (proc.(proc_type) = PFCP_ASSOC_SETUP_PROC) then
    _ ← pfcp_association_event_handler cfg first m zero_assn_setup_rsp 0;
    update_upf u (fun x => set_upf_node_procs
      (List.filter (fun q => negb (bool_decide (q = first))) x.(upf_node_procs)) x)
  else mret tt.

(** [alloc_pfcp_association_setup_proc] and [start_upf_procedure] of a node. *)
Definition start_association (cfg : cp_config_t) (u : ptr) : cpM unit :=
  p ← alloc_pfcp_association_setup_proc u;
  proc ← load_proc p;
  m ← nonnull proc.(proc_msg);
  start_upf_procedure cfg p m.

Definition initiate_pfcp_association (cfg : cp_config_t) (u : ptr) : cpM unit :=
  n ← load_upf u;
  if n.(upf_state) =? 0 then start_association cfg u else mret tt.

(** One turn of the loop over the configured services; the result is
    [schedule_association]. *)
Definition initiate_service (cfg : cp_config_t) (service : string * bool) : cpM bool :=
  upf ← get_upf_context service.1 service.2;
  match upf with
  | None => mret true
  | Some u =>
      n ← load_upf u;
      if n.(upf_addr) =? 0 then
        r ← rand;
        _ ← schedule_pfcp_association (r mod 30) (Some u);
        mret false
      else
        _ ← initiate_pfcp_association cfg u;
        mret false
  end.

Definition MAX_UPF : nat := 100.

Fixpoint initiate_services (cfg : cp_config_t) (services : list (string * bool)) (again : bool) : cpM bool :=
  match services with
  | [] => mret again
  | service :: rest => b ← initiate_service cfg service; initiate_services cfg rest (again || b)
  end.

(** [services] are the user plane services of the configuration. *)
Definition initiate_all_pfcp_association (cfg : cp_config_t) (services : list (string * bool)) : cpM unit :=
  again ← initiate_services cfg (take MAX_UPF services) false;
  if again : bool then r ← rand; schedule_pfcp_association (r mod 30) None else mret tt.

Definition handleUpfAssociationTimeoutEvent (cfg : cp_config_t) (services : list (string * bool)) (upf : option ptr)
    : cpM unit :=
  match upf with
  | None => initiate_all_pfcp_association cfg services
  | Some u => initiate_pfcp_association cfg u
  end.

(** ** The end of the association procedure *)

Definition end_upf_procedure (cfg : cp_config_t) (p : ptr) : cpM unit :=
  proc ← load_proc p;
  _ ← match proc.(pfcp_trans) with None => mret tt | Some t => cleanup_pfcp_trans cfg t end;
  _ ← end_message p;
  u ← nonnull proc.(proc_upf);
  _ ← update_upf u (set_upf_proc None);
  free_proc p.

Definition proc_pfcp_assoc_setup_complete (cfg : cp_config_t) (p : ptr) : cpM unit := end_upf_procedure cfg p.

Definition proc_pfcp_assoc_setup_success (cfg : cp_config_t) (p : ptr) : cpM unit :=
  _ ← update_proc p (set_result PROC_RESULT_SUCCESS);
  proc_pfcp_assoc_setup_complete cfg p.

Definition proc_pfcp_assoc_setup_failure (cfg : cp_config_t) (p : ptr) : cpM unit :=
  proc ← load_proc p;
  u ← nonnull proc.(proc_upf);
  _ ← update_proc p (set_result PROC_RESULT_FAILURE);
  _ ← update_upf u (set_upf_state 0);
  n ← load_upf u;
  _ ← upf_context_delete_entry n.(upf_addr);
  _ ← update_upf u (set_upf_addr 0);
  _ ← proc_pfcp_assoc_setup_complete cfg p;
  r ← rand;
  schedule_pfcp_association (r mod 30) (Some u).

(** ** Answering the procedures that wait *)

Section handlers.
Context (cfg : cp_config_t).
(** [proc->handler(proc, msg)] of a procedure of a subscriber. *)
Context (handler : ptr -> ptr -> cpM unit).

(** The [while] loops of [upf_pfcp_setup_failure] and [upf_pfcp_setup_success]: the
    first key is removed, its procedure called, and the list looked at again.  [fuel]
    bounds the turns; the result says whether the list was found empty. *)
Fixpoint answer_buffered (fuel : nat) (event : Z) (u : ptr) : cpM bool :=
  match fuel with
  | O => mret false
  | S fuel =>
      n ← load_upf u;
      match n.(upf_sub_procs) with
      | [] => mret true
      | p :: rest =>
          _ ← update_upf u (set_upf_sub_procs rest);
          proc ← load_proc p;
          m ← nonnull proc.(proc_msg);
          _ ← update_msg m (fun x => set_msg_event event (set_msg_type event x));
          _ ← handler p m;
          answer_buffered fuel event u
      end
  end.

Definition upf_pfcp_setup_failure (fuel : nat) (u : ptr) : cpM bool :=
  ended ← answer_buffered fuel PFCP_ASSOC_SETUP_FAILED u;
  if ended : bool then
    n ← load_upf u;
    _ ← match n.(upf_proc) with None => mret tt | Some p => proc_pfcp_assoc_setup_failure cfg p end;
    mret true
  else mret false.

Definition upf_pfcp_setup_success (fuel : nat) (u : ptr) : cpM bool :=
  ended ← answer_buffered fuel PFCP_ASSOC_SETUP_SUCCESS u;
  if ended : bool then
    n ← load_upf u;
    p ← nonnull n.(upf_proc);
    _ ← proc_pfcp_assoc_setup_success cfg p;
    mret true
  else mret false.

Definition process_assoc_resp_timeout_handler (fuel : nat) (p : ptr) : cpM bool :=
  proc ← load_proc p;
  u ← nonnull proc.(proc_upf);
  upf_pfcp_setup_failure fuel u.

(** The timer of the transaction of an association request: [transaction_retry_callback]
    with its call of the timeout function. *)
Definition association_timer_expires (fuel : nat) (t : ptr) : cpM bool :=
  tr ← load_trans t;
  _ ← transaction_retry_callback t;
  if IS_TRANS_DELAYED_DELETE tr then mret true
  else p ← nonnull tr.(tr_cb_data); process_assoc_resp_timeout_handler fuel p.

(** One event of the main loop ([incoming_event_handler]). *)
Definition handle_stack_event (fuel : nat) (services : list (string * bool)) (e : stack_event) : cpM bool :=
  match e with
  | UPF_CONNECTION_SETUP_SUCCESS u => upf_pfcp_setup_success fuel u
  | UPF_CONNECTION_SETUP_FAILED u => upf_pfcp_setup_failure fuel u
  | UPF_ASSOCIATION_SETUP upf => _ ← handleUpfAssociationTimeoutEvent cfg services upf; mret true
  end.

Definition next_stack_event (fuel : nat) (services : list (string * bool)) : cpM bool :=
  q ← gets (fun s => s.(nodes).(stack_events));
  match q with
  | [] => mret true
  | e :: rest =>
      _ ← modify (on_nodes (set_stack_events rest));
      handle_stack_event fuel services e
  end.

(** ** Received messages (src/cp/pfcp/msg) *)

(** [m] is the message object, [buf] its bytes.  A transaction is found by its sequence
    number only, whatever its procedure. *)
Definition handle_pfcp_association_setup_response_msg (m : ptr) (buf : list Z) (peer : Z) : cpM Z :=
  '(decoded, rsp) ← nonnull (decode_pfcp_assn_setup_rsp_t zero_assn_setup_rsp buf);
  if decoded <=? 0 then mret (-1)
  else
    trans ← delete_pfcp_trans cfg.(pfcp_addr) cfg.(pfcp_port) (no_seid_seq rsp.(assn_setup_rsp_header));
    match trans with
    | None => mret (-1)
    | Some t =>
        tr ← load_trans t;
        p ← nonnull tr.(tr_proc);
        _ ← update_proc p (set_pfcp_trans None);
        _ ← stop_transaction_timer t;
        _ ← delayed_free t;
        _ ← update_msg m (fun x => set_msg_event PFCP_ASSOCIATION_SETUP_RSP (set_msg_proc (Some p) x));
        _ ← SET_PROC_MSG p m;
        proc ← load_proc p;
        _ ← (if bool_decide (proc.(proc_type) = PFCP_ASSOC_SETUP_PROC)
             then pfcp_association_event_handler cfg p m rsp peer
             else handler p m);
        mret 0
    end.

End handlers.

Definition handle_pfcp_association_setup_request_msg (cfg : cp_config_t) (buf : list Z) (peer : Z) : cpM Z :=
  '(decoded, req) ← nonnull (decode_pfcp_assn_setup_req_t zero_assn_setup_req buf);
  if decoded <=? 0 then mret (-1)
  else
    found ← upf_context_entry_lookup peer;
    upf ← match found with
          | Some u => mret (Some u)
          | None => '(_, created) ← create_upf_context peer None; mret created
          end;
    u ← nonnull upf;
    _ ← update_upf u (set_up_supp_features (up_func_feat_sup_feat req.(assn_setup_req_up_func_feat)));
    info ← nonnull (req.(assn_setup_req_user_plane_ip_rsrc_info) !! 0%nat);
    _ ← note_user_plane cfg u info;
    _ ← watch_node cfg peer (rcvry_time_stmp_val req.(assn_setup_req_rcvry_time_stmp));
    pkt ← finish_message (encode_pfcp_assn_setup_rsp_t
            (fill_pfcp_association_setup_rsp cfg (no_seid_seq req.(assn_setup_req_header))) (repeat 0 256) 0);
    n ← load_upf u;
    _ ← emit (SendPfcp pkt n.(upf_addr));
    _ ← update_upf u (set_upf_state PFCP_ASSOC_RESP_RCVD_STATE);
    mret 0.

(** A message of the peer resets its supervision. *)
Definition peer_answers (peer : Z) : cpM unit :=
  ok ← timer_settime;
  modify (on_nodes (fun x => set_peers (process_response ok x.(peers) peer) x)).

(** The answer has the sequence number of the request. *)
Definition process_heartbeat_request (cfg : cp_config_t) (buf : list Z) (peer : Z) : cpM Z :=
  '(_, req) ← nonnull (decode_pfcp_hrtbeat_req_t zero_hrtbeat_req buf);
  let rsp := fill_pfcp_heartbeat_resp cfg in
  let h := rsp.(hrtbeat_rsp_header) in
  let rsp := set_hrtbeat_rsp_header
    (mk_header h.(header_s) h.(header_mp) h.(header_spare) h.(header_version) h.(header_message_type)
       h.(header_message_len) (inr (mk_no_seid (no_seid_seq req.(hrtbeat_req_header)) 0))) rsp in
  pkt ← finish_message (encode_pfcp_hrtbeat_rsp_t rsp (repeat 0 1024) 0);
  _ ← peer_answers peer;
  _ ← emit (SendPfcp pkt peer);
  mret 0.

Definition process_heartbeat_response (cfg : cp_config_t) (buf : list Z) (peer : Z) : cpM Z :=
  _ ← peer_answers peer;
  '(_, rsp) ← nonnull (decode_pfcp_hrtbeat_rsp_t zero_hrtbeat_rsp buf);
  found ← peer_heartbeat_entry_lookup peer;
  match found with
  | None => mret 0
  | Some recov_time =>
      let update_recov_time := rcvry_time_stmp_val rsp.(hrtbeat_rsp_rcvry_time_stmp) in
      _ ← (if recov_time =? 0 then add_ip_to_heartbeat_hash peer update_recov_time
           else if negb (update_recov_time =? recov_time) then
             _ ← add_ip_to_heartbeat_hash peer update_recov_time;
             if cfg.(pfcp_hb_ts_fail) then upf_down_event peer else mret tt
           else mret tt);
      mret 0
  end.

(** [handle_timeout_event] of a supervised peer with the loss of a node. *)
Definition peer_timeout_event (e : peer_data) : cpM unit :=
  ps ← gets (fun s => s.(nodes).(peers));
  _ ← match ps.(peer_table) !! e.(dest_addr) with
      | Some md => if (md.(itr_cnt) =? md.(itr)) && (md.(portId) =? SX_PORT_ID)
                   then upf_down_event e.(dest_addr) else mret tt
      | None => mret tt
      end;
  ok ← timer_settime;
  modify (on_nodes (fun x =>
    let ps := handle_timeout_event ok x.(peers) e in
    set_peers ps (set_recov_times (filter (fun '(ip, _) => is_Some (ps.(peer_table) !! ip)) x.(recov_times)) x))).

(** ** The attach and its node (src/cp/procedures/proc_initial_attach.c) *)

Definition UPF_ASSOCIATION_PENDING : Z := 0x00000001.
Definition IS_UPF_SUPP_FEAT_UEIP (upf : upf_context_t) : bool := nz (Z.land upf.(add_up_supp_features1) 0x0400).
Definition IF_PDN_ADDR_ALLOC_UPF (pdn : pdn_connection_t) : bool := nz (Z.land pdn.(pdn_flags) 4).
Definition GTPV2C_CAUSE_REMOTE_PEER_NOT_RESPONDING : Z := 100.
Definition GTPV2C_CAUSE_INVALID_PEER : Z := 109.

Section attach.
Context (cfg : cp_config_t).
(** [process_pfcp_sess_est_request] of a procedure and its node, and the handling of
    the other events of an attach. *)
Context (sess_est_request : ptr -> ptr -> cpM (option ptr)) (other_event : ptr -> ptr -> cpM unit).

Definition proc_initial_attach_failure (p : ptr) (cause : Z) : cpM unit :=
  proc ← load_proc p;
  t ← nonnull proc.(gtpc_trans);
  _ ← load_trans t;
  _ ← (if cause =? -1 then mret tt else emit (CsErrorResponse p cause));
  _ ← update_proc p (set_result PROC_RESULT_FAILURE);
  end_procedure cfg p.

Definition wait_for_node (p : ptr) : cpM unit :=
  _ ← buffer_csr_request p;
  update_proc p (fun x => set_proc_flags (Z.lor x.(proc_flags) UPF_ASSOCIATION_PENDING) x).

(** The address the control plane had taken goes back when the node chooses it. *)
Definition leave_address_to_node (d : ptr) : cpM unit :=
  pdn ← load_pdn d;
  if IF_PDN_ADDR_ALLOC_CONTROL pdn then
    _ ← modify (fun s => set_cp_pools
          (mk_pools (release_ip (dynamic_pool s.(cp_pools)) pdn.(pdn_ipv4)) (static_pool s.(cp_pools))) s);
    update_pdn d (fun x => set_pdn_flags (Z.lor (Z.ldiff x.(pdn_flags) 2) 4) (set_pdn_ipv4 0 x))
  else mret tt.

Definition initiate_upf_session (p m : ptr) : cpM unit :=
  proc ← load_proc p;
  c ← nonnull proc.(proc_ue);
  context ← load_ue c;
  u ← nonnull context.(ue_upf);
  upf ← load_upf u;
  if upf.(upf_state) =? PFCP_ASSOC_REQ_SNT_STATE then wait_for_node p
  else if upf.(upf_state) =? PFCP_ASSOC_RESP_RCVD_STATE then
    msg ← load_msg m;
    d ← nonnull msg.(msg_pdn);
    pdn ← load_pdn d;
    if negb (IS_UPF_SUPP_FEAT_UEIP upf) && IF_PDN_ADDR_ALLOC_UPF pdn then
      proc_initial_attach_failure p GTPV2C_CAUSE_REQUEST_REJECTED
    else
      _ ← (if IS_UPF_SUPP_FEAT_UEIP upf then leave_address_to_node d else mret tt);
      trans ← sess_est_request p u;
      match trans with
      | None => proc_initial_attach_failure p GTPV2C_CAUSE_INVALID_PEER
      | Some t => update_proc p (set_pfcp_trans (Some t))
      end
  else
    _ ← wait_for_node p;
    start_association cfg u.

Definition initial_attach_event_handler (p m : ptr) : cpM unit :=
  msg ← load_msg m;
  let event := u8 msg.(msg_event) in
  if (event =? PFCP_ASSOC_SETUP_SUCCESS) || (event =? PFCP_SESS_EST_EVNT) then initiate_upf_session p m
  else if event =? PFCP_ASSOC_SETUP_FAILED then
    proc_initial_attach_failure p GTPV2C_CAUSE_REMOTE_PEER_NOT_RESPONDING
  else other_event p m.

End attach.

(** ** Running the operations *)

Abbreviation upfs s := (h_upfs (heap s)).

Definition put_upf (u : ptr) (n : upf_context_t) (s : cp) : cp :=
  on_heap (fun h => set_h_upfs (<[u := n]> h.(h_upfs)) h) s.

Lemma load_upf_eq u s n : upfs s !! u = Some n -> load_upf u s = Some (n, s).
Proof. intros E. unfold load_upf. by rewrite E. Qed.
Lemma update_upf_eq u s n f : upfs s !! u = Some n -> update_upf u f s = Some (tt, put_upf u (f n) s).
Proof. intros E. unfold update_upf. by rewrite E. Qed.
Lemma mbind_some {A B} (m : cpM A) (k : A -> cpM B) s y s' :
  (m ≫= k) s = Some (y, s') -> ∃ x s1, m s = Some (x, s1) ∧ k x s1 = Some (y, s').
Proof. unfold mbind, cpM_bind. destruct (m s) as [[x s1]|]; [eauto|done]. Qed.

(** ** A node that is lost before its association is reported *)

Section lost.
Context (cfg : cp_config_t) (sess_est_request : ptr -> ptr -> cpM (option ptr)) (other_event : ptr -> ptr -> cpM unit).

(** An attach is the first to wait for a node with which the association is pending. *)
Definition attach_waits (u p : ptr) (s : cp) : Prop :=
  ∃ n rest pc m x c ue,
    upfs s !! u = Some n ∧ n.(upf_state) = PFCP_ASSOC_REQ_SNT_STATE ∧ n.(upf_sub_procs) = p :: rest ∧
    procs s !! p = Some pc ∧ pc.(proc_msg) = Some m ∧ msgs s !! m = Some x ∧
    pc.(proc_ue) = Some c ∧ ues s !! c = Some ue ∧ ue.(ue_upf) = Some u.

(** Its answer makes it wait again. *)
Lemma attach_waits_again u p fuel s : attach_waits u p s ->
  ∃ s', answer_buffered (initial_attach_event_handler cfg sess_est_request other_event) (S fuel)
          PFCP_ASSOC_SETUP_SUCCESS u s
        = answer_buffered (initial_attach_event_handler cfg sess_est_request other_event) fuel
          PFCP_ASSOC_SETUP_SUCCESS u s' ∧ attach_waits u p s'.
Proof.
  intros (n & rest & pc & m & x & c & ue & Hn & Hst & Hw & Hp & Hm & Hx & Hc & Hue & Hu).
  cbn [answer_buffered]. step (load_upf_eq u s n Hn). rewrite Hw.
  step (update_upf_eq u s n (set_upf_sub_procs rest) Hn). set (s1 := put_upf _ _ s).
  step (load_proc_eq p s1 pc Hp). rewrite Hm. step (nonnull_eq m s1).
  erewrite mbind_eq by (unfold update_msg; cbn; rewrite Hx; reflexivity). cbn beta iota. set (s2 := on_heap _ s1).
  set (n1 := set_upf_sub_procs rest n).
  assert (Hn2 : upfs s2 !! u = Some n1) by (cbn; apply lookup_insert_eq).
  assert (E : initial_attach_event_handler cfg sess_est_request other_event p m s2
    = Some (tt, put_proc p (set_proc_flags (Z.lor (proc_flags pc) UPF_ASSOCIATION_PENDING) pc)
                  (put_upf u (set_upf_sub_procs (p :: rest) n1) s2))).
  { unfold initial_attach_event_handler. erewrite mbind_eq by (unfold load_msg; cbn; rewrite lookup_insert_eq; reflexivity).
    cbn [msg_event set_msg_event]. change (_ || _) with true. cbv iota.
    unfold initiate_upf_session. step (load_proc_eq p s2 pc Hp). rewrite Hc. step (nonnull_eq c s2).
    step (load_ue_eq c s2 ue Hue). rewrite Hu. step (nonnull_eq u s2). step (load_upf_eq u s2 n1 Hn2).
    cbn [n1 upf_state set_upf_sub_procs]. rewrite Hst. cbn [Z.eqb PFCP_ASSOC_REQ_SNT_STATE Pos.eqb].
    unfold wait_for_node, buffer_csr_request. erewrite mbind_eq.
    2: { step (load_proc_eq p s2 pc Hp). rewrite Hc. step (nonnull_eq c s2). step (load_ue_eq c s2 ue Hue).
         rewrite Hu. step (nonnull_eq u s2). by apply update_upf_eq. }
    rewrite (update_proc_eq p _ pc); [done|exact Hp]. }
  step E. eexists. split; [done|].
  exists (set_upf_sub_procs (p :: rest) n1), rest, (set_proc_flags (Z.lor (proc_flags pc) UPF_ASSOCIATION_PENDING) pc),
    m, (set_msg_event PFCP_ASSOC_SETUP_SUCCESS (set_msg_type PFCP_ASSOC_SETUP_SUCCESS x)), c, ue. cbn. rewrite !lookup_insert_eq. done.
Qed.

Lemma attach_waits_forever u p fuel s : attach_waits u p s ->
  ∃ s', answer_buffered (initial_attach_event_handler cfg sess_est_request other_event) fuel
          PFCP_ASSOC_SETUP_SUCCESS u s = Some (false, s').
Proof.
  revert s. induction fuel as [|fuel IH]; intros s H; [by eexists|].
  destruct (attach_waits_again u p fuel s H) as (s' & -> & H'). by apply IH.
Qed.
End lost.

(** When the success of an association is reported while the node has an
    association pending again (it was lost in between and a new one was started), the
    attach that waits for it is answered by making it wait again, and the loop over
    the waiting procedures never ends, whatever the number of turns. *)
Theorem success_after_loss_never_ends cfg sess_est_request other_event u p fuel s :
  attach_waits u p s ->
  ∃ s', upf_pfcp_setup_success cfg (initial_attach_event_handler cfg sess_est_request other_event) fuel u s
        = Some (false, s').
Proof.
  intros H. destruct (attach_waits_forever cfg sess_est_request other_event u p fuel s H) as (s' & E).
  exists s'. unfold upf_pfcp_setup_success. by step E.
Qed.

(** An attach 10 of the subscriber 1 waits for the node 4, whose association is
    complete; the success is still to be reported, and the node is supervised. *)
Definition example_attach_proc : proc_context_t :=
  mk_proc INITIAL_PDN_ATTACH_PROC 1 PROC_RESULT_SUCCESS (Some 1%positive) (Some 3%positive) None None None None
    (Some 20%positive) 0 (repeat None MAX_CHILD_PROC) None.
Definition example_assoc_proc : proc_context_t := set_proc_upf (Some 4%positive)
  (mk_proc PFCP_ASSOC_SETUP_PROC 0 PROC_RESULT_SUCCESS None None None None None None
     (Some 22%positive) 0 (repeat None MAX_CHILD_PROC) None).
Definition example_node (state : Z) : upf_context_t :=
  set_upf_sub_procs [10%positive] (set_upf_proc (Some 12%positive) (set_upf_state state
    (set_fqdn "upf" (set_upf_addr 77 zero_upf)))).
Definition example_reported (state : Z) : cp :=
  set_next_ptr 40%positive
  (on_nodes (fun n => set_stack_events [UPF_CONNECTION_SETUP_SUCCESS 4%positive]
      (set_answers (mk_oracle [77] [7] [Some 5; Some 6] [true; true] [true]) n))
  (on_tabs (fun t => set_upf_by_service {[ "upf" := 4%positive ]} (set_upf_by_ip {[ 77 := 4%positive ]} t))
  (on_heap (fun h => set_h_upfs {[ 4%positive := example_node state ]}
    (set_h_msgs {[ 20%positive := mk_msg 1 0 None (Some 3%positive) 0; 22%positive := mk_msg 1 0 None None 0 ]}
    (set_h_procs {[ 10%positive := example_attach_proc; 12%positive := example_assoc_proc ]}
    (set_h_ues {[ 1%positive := set_ue_upf (Some 4%positive) zero_ue ]} h)))) empty_cp))).

Lemma success_after_loss_never_ends_witness :
  ∃ s', upf_pfcp_setup_success example_config
          (initial_attach_event_handler example_config (fun _ _ => mret None) (fun _ _ => crash)) 1000 4%positive
          (example_reported PFCP_ASSOC_REQ_SNT_STATE) = Some (false, s').
Proof.
  apply (success_after_loss_never_ends example_config (fun _ _ => mret None) (fun _ _ => crash) 4%positive 10%positive).
  exists (example_node PFCP_ASSOC_REQ_SNT_STATE), [], example_attach_proc, 20%positive, (mk_msg 1 0 None (Some 3%positive) 0),
    1%positive, (set_ue_upf (Some 4%positive) zero_ue). split_and!; reflexivity.
Defined.

(** The whole course: the node is lost after its association was accepted, and the
    report of the success does not come to an end. *)
Example lost_node_example :
  match (_ ← upf_down_event 77;
         next_stack_event example_config
           (initial_attach_event_handler example_config (fun _ _ => mret None) (fun _ _ => crash)) 50 [])
        (example_reported PFCP_ASSOC_RESP_RCVD_STATE) with
  | Some (ended, s') => ended = false ∧ (upf_state <$> upfs s' !! 4%positive) = Some PFCP_ASSOC_REQ_SNT_STATE
  | None => False
  end.
Proof. vm_compute. done. Qed.

(** ** What an operation leaves alone *)

Section spares.
Context {V : Type} (view : cp -> V).

Definition spares {A} (m : cpM A) : Prop := ∀ s x s', m s = Some (x, s') -> view s' = view s.

Lemma spares_ret {A} (x : A) : spares (mret x).
Proof. intros s y s' [= <- <-]. done. Qed.
Lemma spares_crash {A} : spares (crash (A := A)).
Proof. intros s y s' [=]. Qed.
Lemma spares_nonnull {A} (o : option A) : spares (nonnull o).
Proof. destruct o; [apply spares_ret|apply spares_crash]. Qed.
Lemma spares_assert b : spares (assert_ b).
Proof. destruct b; [apply spares_ret|apply spares_crash]. Qed.
Lemma spares_gets {A} (f : cp -> A) : spares (gets f).
Proof. intros s y s' [= <- <-]. done. Qed.
Lemma spares_modify f : (∀ s, view (f s) = view s) -> spares (modify f).
Proof. intros H s y s' [= _ <-]. apply H. Qed.
Lemma spares_bind {A B} (m : cpM A) (k : A -> cpM B) : spares m -> (∀ x, spares (k x)) -> spares (m ≫= k).
Proof.
  intros Hm Hk s y s' (x & s1 & E1 & E)%mbind_some. etrans; [by eapply Hk|by eapply Hm].
Qed.
End spares.

Create HintDb spares.
#[export] Hint Resolve spares_ret spares_crash spares_nonnull spares_assert spares_gets : spares.

(** One access to a heap. *)
Ltac spares_heap :=
  let E := fresh in intros ? ? ? E;
  unfold load_trans, load_proc, load_ue, load_pdn, load_bearer, load_msg, load_upf, update_trans, update_proc,
    update_ue, update_pdn, update_bearer, update_msg, update_upf, free_trans, free_proc, free_ue, free_pdn,
    free_bearer, free_msg, free_upf, emit, modify, alloc in E;
  try match type of E with context [?m !! ?k] => destruct (m !! k) end; cbn in E; simplify_eq; done.

(** Decomposes a program into its statements. *)
Ltac spares_step :=
  first
    [ solve [auto with spares]
    | apply spares_bind; [|intros ?]
    | apply spares_modify; intros ?; done
    | solve [spares_heap]
    | case_match ].
Ltac spares_auto := repeat spares_step.

(** The nodes, with their tables, events, timers and supervision. *)
Definition node_view (s : cp) : node_state * gmap ptr upf_context_t * gmap Z ptr * gmap string ptr :=
  (s.(nodes), upfs s, s.(tabs).(upf_by_ip), s.(tabs).(upf_by_service)).

Lemma cleanup_pfcp_spares cfg t : spares node_view (cleanup_pfcp_trans cfg t).
Proof.
  unfold cleanup_pfcp_trans, delete_pfcp_trans, find_pfcp_trans, stop_transaction_timer, stoptimer, deinittimer,
    delayed_free, unlink. spares_auto.
Qed.
Lemma end_message_spares p : spares node_view (end_message p).
Proof. unfold end_message. spares_auto. Qed.

(** ** The procedures that wait for a node *)

(** What [s'] has kept of [s]: the nodes are the same; a procedure or a subscriber that
    is still there belongs to the same subscriber or uses the same node. *)
Definition still_links (s s' : cp) : Prop :=
  upfs s' = upfs s ∧
  (∀ q qc', procs s' !! q = Some qc' -> ∃ qc, procs s !! q = Some qc ∧ proc_ue qc' = proc_ue qc) ∧
  ∀ c x', ues s' !! c = Some x' -> ∃ x, ues s !! c = Some x ∧ ue_upf x' = ue_upf x.

#[global] Instance still_links_preorder : PreOrder still_links.
Proof.
  split; [intros s; split_and!; eauto|]. intros s1 s2 s3 (A1 & A2 & A3) (B1 & B2 & B3).
  split_and!; [congruence| |].
  - intros q qc3 (qc2 & H2 & E2)%B2. apply A2 in H2 as (qc & H1 & E1). exists qc. split; [done|congruence].
  - intros c x3 (x2 & H2 & E2)%B3. apply A3 in H2 as (x & H1 & E1). exists x. split; [done|congruence].
Qed.

(** An operation whose effect is in the preorder [R], whatever it starts from. *)
Section within.
Context (R : cp -> cp -> Prop) `{!PreOrder R}.

Definition within {A} (m : cpM A) : Prop := ∀ s x s', m s = Some (x, s') -> R s s'.

Lemma within_ret {A} (x : A) : within (mret x).
Proof. intros s y s' [= <- <-]. done. Qed.
Lemma within_crash {A} : within (crash (A := A)).
Proof. intros s y s' [=]. Qed.
Lemma within_nonnull {A} (o : option A) : within (nonnull o).
Proof. destruct o; [apply within_ret|apply within_crash]. Qed.
Lemma within_assert b : within (assert_ b).
Proof. destruct b; [apply within_ret|apply within_crash]. Qed.
Lemma within_gets {A} (f : cp -> A) : within (gets f).
Proof. intros s y s' [= <- <-]. done. Qed.
Lemma within_modify f : (∀ s, R s (f s)) -> within (modify f).
Proof. intros H s y s' [= _ <-]. apply H. Qed.
Lemma within_bind {A B} (m : cpM A) (k : A -> cpM B) : within m -> (∀ x, within (k x)) -> within (m ≫= k).
Proof. intros Hm Hk s y s' (x & s1 & E1 & E)%mbind_some. etrans; [by eapply Hm|by eapply Hk]. Qed.
Lemma within_for_each {A} (f : A -> cpM unit) l : (∀ x, within (f x)) -> within (for_each f l).
Proof. intros H. induction l as [|x l IH]; [apply within_ret|]. cbn. by apply within_bind. Qed.
Lemma within_array_get {A} (l : list A) i : within (array_get l i).
Proof. unfold array_get. case_match; [apply within_nonnull|apply within_crash]. Qed.
Lemma within_array_put {A} (l : list A) i v : within (array_put l i v).
Proof. unfold array_put. case_match; [apply within_ret|apply within_crash]. Qed.
End within.

(** Accesses to the heap. *)
Ltac links_same :=
  let E := fresh in intros ? ? ? E;
  unfold load_trans, load_proc, load_ue, load_pdn, load_bearer, load_msg, load_upf, update_trans, update_pdn,
    update_bearer, update_msg, free_trans, free_pdn, free_bearer, free_msg, emit, modify, alloc in E;
  try match type of E with context [?m !! ?k] => destruct (m !! k) end; cbn in E; simplify_eq;
  split_and!; cbn; eauto.

Lemma update_proc_links p f : (∀ x, proc_ue (f x) = proc_ue x) -> within still_links (update_proc p f).
Proof.
  intros Hf s [] s' E. unfold update_proc in E. destruct (procs s !! p) as [pc|] eqn:Hp; [|done]. cbn in E. simplify_eq.
  split_and!; cbn; eauto. intros q qc'. destruct (decide (q = p)) as [->|Hne].
  - rewrite lookup_insert_eq. intros [= <-]. eauto.
  - rewrite lookup_insert_ne by done. eauto.
Qed.
Lemma update_ue_links c f : (∀ x, ue_upf (f x) = ue_upf x) -> within still_links (update_ue c f).
Proof.
  intros Hf s [] s' E. unfold update_ue in E. destruct (ues s !! c) as [x|] eqn:Hc; [|done]. cbn in E. simplify_eq.
  split_and!; cbn; eauto. intros q x'. destruct (decide (q = c)) as [->|Hne].
  - rewrite lookup_insert_eq. intros [= <-]. eauto.
  - rewrite lookup_insert_ne by done. eauto.
Qed.
Lemma free_proc_links p : within still_links (free_proc p).
Proof.
  intros s [] s' E. unfold free_proc in E. destruct (procs s !! p) as [pc|]; [|done]. cbn in E. simplify_eq.
  split_and!; cbn; eauto. intros q qc' [_ Hq]%lookup_delete_Some. eauto.
Qed.
Lemma free_ue_links c : within still_links (free_ue c).
Proof.
  intros s [] s' E. unfold free_ue in E. destruct (ues s !! c) as [x|]; [|done]. cbn in E. simplify_eq.
  split_and!; cbn; eauto. intros q x' [_ Hq]%lookup_delete_Some. eauto.
Qed.

Create HintDb links.
#[export] Hint Resolve free_proc_links free_ue_links : links.

Ltac within_step heap :=
  first
    [ apply within_ret; apply _ | apply within_crash | apply within_nonnull; apply _ | apply within_assert; apply _
    | apply within_gets; apply _ | apply within_array_get; apply _ | apply within_array_put; apply _
    | apply within_bind; [apply _| |intros ?]
    | apply within_for_each; [apply _|intros ?]
    | solve [heap]
    | case_match ].
Ltac links_step :=
  first
    [ solve [auto with links]
    | apply update_proc_links; done | apply update_ue_links; done
    | apply within_modify; intros ?; split_and!; cbn; by eauto
    | within_step links_same ].
Ltac links_auto := repeat links_step.

Lemma cleanup_gtpc_links cfg t : within still_links (cleanup_gtpc_trans cfg t).
Proof.
  unfold cleanup_gtpc_trans, delete_gtp_trans, find_gtp_trans, stop_transaction_timer, stoptimer, deinittimer,
    delayed_free, unlink. links_auto.
Qed.
Lemma cleanup_pfcp_links cfg t : within still_links (cleanup_pfcp_trans cfg t).
Proof.
  unfold cleanup_pfcp_trans, delete_pfcp_trans, find_pfcp_trans, stop_transaction_timer, stoptimer, deinittimer,
    delayed_free, unlink. links_auto.
Qed.
Lemma cleanup_gx_links t : within still_links (cleanup_gx_trans t).
Proof.
  unfold cleanup_gx_trans, delete_gx_trans, find_gx_trans, stop_transaction_timer, stoptimer, deinittimer,
    delayed_free, unlink. links_auto.
Qed.
#[export] Hint Resolve cleanup_gtpc_links cleanup_pfcp_links cleanup_gx_links : links.

Lemma del_rule_entries_links u i : within still_links (del_rule_entries u i).
Proof. unfold del_rule_entries, del_qer_entry, del_pdr_entry. links_auto. Qed.
#[local] Hint Resolve del_rule_entries_links : links.
Lemma cleanup_bearer_links b : within still_links (cleanup_bearer_context b).
Proof. unfold cleanup_bearer_context, del_rule_name_entry. links_auto. Qed.
#[local] Hint Resolve cleanup_bearer_links : links.
Lemma cleanup_pdn_bearer_links p i : within still_links (cleanup_pdn_bearer p i).
Proof. unfold cleanup_pdn_bearer. links_auto. Qed.
#[local] Hint Resolve cleanup_pdn_bearer_links : links.
Lemma cleanup_pdn_links d : within still_links (cleanup_pdn_context d).
Proof.
  unfold cleanup_pdn_context, del_sess_entry_seid, del_pdn_conn_entry, remove_gxsessid_to_context,
    pdn_context_delete_entry_teidKey, release_pdn_address. links_auto.
Qed.
Lemma release_ue_links cfg c : within still_links (release_ue cfg c).
Proof.
  unfold release_ue, cleanup_ue_context, ue_context_delete_entry_imsiKey, ue_context_delete_entry_teidKey,
    cleanup_pending_proc. links_auto.
Qed.
Lemma start_next_links q : within still_links (start_next q).
Proof.
  induction q as [|t q IH]; cbn [start_next]; [links_auto|]. unfold start_procedure_direct. links_auto.
Qed.
#[export] Hint Resolve cleanup_pdn_links release_ue_links start_next_links : links.

Lemma end_procedure_with_links child cfg p : (∀ q, within still_links (child q)) ->
  within still_links (end_procedure_with child cfg p).
Proof. intros Hc. unfold end_procedure_with, end_transactions, end_message, end_by_type, set_states. links_auto. Qed.
#[local] Hint Resolve end_procedure_with_links within_crash : links.
Lemma end_procedure_links cfg p : within still_links (end_procedure cfg p).
Proof.
  apply end_procedure_with_links. intros q. unfold done_rar_child_proc, send_raa. links_auto.
Qed.
#[export] Hint Resolve end_procedure_links : links.

(** The attach procedure that waits is answered by its handler. *)
Section attach_answers.
Context (cfg : cp_config_t) (sess_est_request : ptr -> ptr -> cpM (option ptr)) (other_event : ptr -> ptr -> cpM unit).
Context (est_links : ∀ p u, within still_links (sess_est_request p u)).

Abbreviation attach_handler := (initial_attach_event_handler cfg sess_est_request other_event).

(** The subscriber of [p], if both are there, uses the node [u]. *)
Definition waits_for (u p : ptr) (s : cp) : Prop :=
  ∀ pc c x u', procs s !! p = Some pc -> proc_ue pc = Some c -> ues s !! c = Some x -> ue_upf x = Some u' -> u' = u.

Lemma waits_for_links u p s s' : still_links s s' -> waits_for u p s -> waits_for u p s'.
Proof.
  intros (_ & Lp & Lu) Hw pc c x u' (pc0 & Hp & Ep)%Lp Hc (x0 & Hx & Ex)%Lu Hu. eapply Hw; eauto; congruence.
Qed.

Lemma attach_failure_links p cause : within still_links (proc_initial_attach_failure cfg p cause).
Proof. unfold proc_initial_attach_failure. links_auto. Qed.
Lemma leave_address_links d : within still_links (leave_address_to_node d).
Proof. unfold leave_address_to_node. links_auto. Qed.
#[local] Hint Resolve attach_failure_links leave_address_links est_links : links.

(** The events a waiting procedure is answered with; a success is reported by a node
    whose association is complete. *)
Definition reports (event : Z) (n : upf_context_t) : Prop :=
  event = PFCP_ASSOC_SETUP_FAILED ∨ event = PFCP_ASSOC_SETUP_SUCCESS ∧ n.(upf_state) = PFCP_ASSOC_RESP_RCVD_STATE.

Lemma attach_handler_links u n p m x s s' :
  upfs s !! u = Some n -> waits_for u p s -> msgs s !! m = Some x -> reports x.(msg_event) n ->
  attach_handler p m s = Some (tt, s') -> still_links s s'.
Proof.
  intros Hn Hw Hx Hr E. unfold initial_attach_event_handler in E.
  rewrite (mbind_eq (load_msg m) _ s x s) in E by (unfold load_msg; by rewrite Hx).
  destruct Hr as [Hr|[Hr Hst]]; rewrite Hr in E; [exact (attach_failure_links p _ _ _ _ E)|].
  change (initiate_upf_session cfg sess_est_request p m s = Some (tt, s')) in E. unfold initiate_upf_session in E.
  apply mbind_some in E as (pc & s1 & E1 & E). unfold load_proc in E1.
  destruct (procs s !! p) as [pc'|] eqn:Hp; [|done]. cbn in E1. simplify_eq.
  destruct (proc_ue pc) as [c|] eqn:Hc; [|done]. rewrite (mbind_eq _ _ _ _ _ (nonnull_eq c s1)) in E.
  apply mbind_some in E as (ue & s2 & E2 & E). unfold load_ue in E2.
  destruct (ues s1 !! c) as [ue'|] eqn:Hu; [|done]. cbn in E2. simplify_eq.
  destruct (ue_upf ue) as [u'|] eqn:Hup; [|done]. rewrite (mbind_eq _ _ _ _ _ (nonnull_eq u' s2)) in E.
  assert (u' = u) as -> by (by eapply Hw). rewrite (mbind_eq _ _ _ _ _ (load_upf_eq u s2 n Hn)), Hst in E.
  change (PFCP_ASSOC_RESP_RCVD_STATE =? PFCP_ASSOC_REQ_SNT_STATE) with false in E. rewrite Z.eqb_refl in E. cbv iota beta in E.
  match type of E with ?k s2 = _ => assert (within still_links k) as W; [|exact (W _ _ _ E)] end. links_auto.
Qed.
End attach_answers.

(** The rejections of create session requests that were sent. *)
Definition cs_errors (s : cp) : list (ptr * Z) :=
  omap (fun o => match o with CsErrorResponse p cause => Some (p, cause) | _ => None end) s.(trace).
Definition same_errors (s s' : cp) : Prop := cs_errors s' = cs_errors s.

#[global] Instance same_errors_preorder : PreOrder same_errors.
Proof. split; [done|]. intros s1 s2 s3 E1 E2. unfold same_errors in *. congruence. Qed.

Lemma emit_errors o : match o with CsErrorResponse _ _ => False | _ => True end -> within same_errors (emit o).
Proof.
  intros Ho s [] s' [= <-]. unfold same_errors, cs_errors. cbn. rewrite omap_app. destruct o; done || by rewrite app_nil_r.
Qed.

Ltac errors_same :=
  let E := fresh in intros ? ? ? E;
  unfold load_trans, load_proc, load_ue, load_pdn, load_bearer, load_msg, load_upf, update_trans, update_proc, update_ue,
    update_pdn, update_bearer, update_msg, free_trans, free_proc, free_ue, free_pdn, free_bearer, free_msg in E;
  match type of E with context [?m !! ?k] => destruct (m !! k) end; cbn in E; simplify_eq; reflexivity.
Create HintDb errors.
Ltac errors_step :=
  first
    [ solve [auto with errors]
    | apply emit_errors; exact I
    | apply within_modify; intros ?; reflexivity
    | within_step errors_same ].
Ltac errors_auto := repeat errors_step.

Lemma cleanup_gtpc_errors cfg t : within same_errors (cleanup_gtpc_trans cfg t).
Proof.
  unfold cleanup_gtpc_trans, delete_gtp_trans, find_gtp_trans, stop_transaction_timer, stoptimer, deinittimer,
    delayed_free, unlink. errors_auto.
Qed.
Lemma cleanup_pfcp_errors cfg t : within same_errors (cleanup_pfcp_trans cfg t).
Proof.
  unfold cleanup_pfcp_trans, delete_pfcp_trans, find_pfcp_trans, stop_transaction_timer, stoptimer, deinittimer,
    delayed_free, unlink. errors_auto.
Qed.
Lemma cleanup_gx_errors t : within same_errors (cleanup_gx_trans t).
Proof.
  unfold cleanup_gx_trans, delete_gx_trans, find_gx_trans, stop_transaction_timer, stoptimer, deinittimer,
    delayed_free, unlink. errors_auto.
Qed.
Lemma del_rule_entries_errors u i : within same_errors (del_rule_entries u i).
Proof. unfold del_rule_entries, del_qer_entry, del_pdr_entry. errors_auto. Qed.
#[local] Hint Resolve cleanup_gtpc_errors cleanup_pfcp_errors cleanup_gx_errors del_rule_entries_errors : errors.
Lemma cleanup_bearer_errors b : within same_errors (cleanup_bearer_context b).
Proof. unfold cleanup_bearer_context, del_rule_name_entry. errors_auto. Qed.
#[local] Hint Resolve cleanup_bearer_errors : errors.
Lemma cleanup_pdn_bearer_errors p i : within same_errors (cleanup_pdn_bearer p i).
Proof. unfold cleanup_pdn_bearer. errors_auto. Qed.
#[local] Hint Resolve cleanup_pdn_bearer_errors : errors.
Lemma cleanup_pdn_errors d : within same_errors (cleanup_pdn_context d).
Proof.
  unfold cleanup_pdn_context, del_sess_entry_seid, del_pdn_conn_entry, remove_gxsessid_to_context,
    pdn_context_delete_entry_teidKey, release_pdn_address. errors_auto.
Qed.
Lemma release_ue_errors cfg c : within same_errors (release_ue cfg c).
Proof.
  unfold release_ue, cleanup_ue_context, ue_context_delete_entry_imsiKey, ue_context_delete_entry_teidKey,
    cleanup_pending_proc. errors_auto.
Qed.
Lemma start_next_errors q : within same_errors (start_next q).
Proof.
  induction q as [|t q IH]; cbn [start_next]; [errors_auto|]. unfold start_procedure_direct, set_states. errors_auto.
Qed.
#[local] Hint Resolve cleanup_pdn_errors release_ue_errors start_next_errors : errors.
Lemma end_procedure_with_errors child cfg p : (∀ q, within same_errors (child q)) ->
  within same_errors (end_procedure_with child cfg p).
Proof. intros Hc. unfold end_procedure_with, end_transactions, end_message, end_by_type, set_states. errors_auto. Qed.
#[local] Hint Resolve end_procedure_with_errors within_crash : errors.
Lemma end_procedure_errors cfg p : within same_errors (end_procedure cfg p).
Proof. apply end_procedure_with_errors. intros q. unfold done_rar_child_proc, send_raa. errors_auto. Qed.

(** A rejected attach gets one answer, with the cause. *)
Lemma attach_failure_errors cfg p cause s s' : cause ≠ -1 ->
  proc_initial_attach_failure cfg p cause s = Some (tt, s') -> cs_errors s' = cs_errors s ++ [(p, cause)].
Proof.
  intros Hc E. unfold proc_initial_attach_failure in E. rewrite (proj2 (Z.eqb_neq _ _) Hc) in E.
  apply mbind_some in E as (pc & s1 & E1 & E). apply mbind_some in E as (t & s2 & E2 & E).
  apply mbind_some in E as (tr & s3 & E3 & E). apply mbind_some in E as ([] & s4 & E4 & E).
  assert (s3 = s) as ->.
  { unfold load_proc in E1. destruct (procs s !! p); [|done]. cbn in E1. simplify_eq.
    destruct (gtpc_trans pc); [|done]. injection E2 as <- <-. unfold load_trans in E3.
    destruct (transs _ !! _); [|done]. cbn in E3. by simplify_eq. }
  assert (within same_errors (_ ← update_proc p (set_result PROC_RESULT_FAILURE); end_procedure cfg p)) as W.
  { pose proof (end_procedure_errors cfg p). errors_auto. }
  rewrite (W _ _ _ E). injection E4 as <-. unfold cs_errors. cbn. by rewrite omap_app.
Qed.

(** One answer after the other: the procedures [ps] are those that wait for [u], each
    is called with its message, of which the event and the type say [event], in the
    state in which it no longer waits. *)
Section answered.
Context (handler : ptr -> ptr -> cpM unit) (event : Z) (u : ptr).

Definition called (n : upf_context_t) (m : ptr) (x : msg_info_t) (ps : list ptr) (s : cp) : cp :=
  on_heap (fun h => set_h_msgs (<[m := mk_msg x.(refCnt) event x.(msg_proc) x.(msg_pdn) event]> h.(h_msgs)) h)
    (put_upf u (set_upf_sub_procs ps n) s).

Inductive answered : list ptr -> cp -> cp -> Prop :=
| answered_none s : answered [] s s
| answered_next p ps n pc m x s s1 s' :
    upfs s !! u = Some n -> n.(upf_sub_procs) = p :: ps ->
    procs s !! p = Some pc -> pc.(proc_msg) = Some m -> msgs s !! m = Some x ->
    handler p m (called n m x ps s) = Some (tt, s1) -> answered ps s1 s' -> answered (p :: ps) s s'.

(** [I] holds when the procedures [ps] wait, and after each of the answers. *)
Context (I : list ptr -> cp -> Prop).
Context (I_waiting : ∀ ps s, I ps s -> ∃ n, upfs s !! u = Some n ∧ n.(upf_sub_procs) = ps).
Context (I_next : ∀ p ps n m x s s1, I (p :: ps) s -> upfs s !! u = Some n -> msgs s !! m = Some x ->
  handler p m (called n m x ps s) = Some (tt, s1) -> I ps s1).

Lemma answered_keeps ps s s' : answered ps s s' -> I ps s -> I [] s'.
Proof. induction 1; eauto. Qed.

(** The loop with enough turns does just this. *)
Lemma answer_buffered_answers ps fuel s b s' : I ps s -> (length ps < fuel)%nat ->
  answer_buffered handler fuel event u s = Some (b, s') <-> b = true ∧ answered ps s s'.
Proof.
  revert fuel s. induction ps as [|p ps IH]; intros fuel s HI Hf; (destruct fuel as [|fuel]; [cbn in Hf; lia|]);
    destruct (I_waiting _ _ HI) as (n & Hn & Hs); cbn [answer_buffered];
    rewrite (mbind_eq _ _ _ _ _ (load_upf_eq u s n Hn)), Hs.
  { split; [intros [= <- <-]; split; [done|constructor]|]. intros [-> H]. by inversion H. }
  rewrite (mbind_eq _ _ _ _ _ (update_upf_eq u s n (set_upf_sub_procs ps) Hn)).
  split.
  - intros (pc & s2 & E2 & E)%mbind_some. unfold load_proc in E2. cbn in E2.
    destruct (procs s !! p) as [pc'|] eqn:Hp; [|done]. cbn in E2. simplify_eq.
    destruct (proc_msg pc) as [m|] eqn:Hm; [|done]. rewrite (mbind_eq _ _ _ _ _ (nonnull_eq m _)) in E.
    apply mbind_some in E as ([] & s3 & E3 & E). unfold update_msg in E3. cbn in E3.
    destruct (msgs s !! m) as [x|] eqn:Hx; [|done]. cbn in E3. simplify_eq.
    apply mbind_some in E as ([] & s1 & E1 & E). change (handler p m (called n m x ps s) = Some (tt, s1)) in E1.
    apply IH in E as [-> Ha]; [|by eauto|cbn in Hf; lia]. split; [done|]. by econstructor.
  - intros [-> H]. inversion H as [|p' ps' n' pc m x s0 s1 s0' Hn' Hs' Hp Hm Hx E1 Ha]; simplify_eq.
    rewrite (mbind_eq _ _ (put_upf u (set_upf_sub_procs ps n) s) pc _) by (by apply load_proc_eq). rewrite Hm.
    rewrite (mbind_eq _ _ _ _ _ (nonnull_eq m _)).
    erewrite mbind_eq by (unfold update_msg; cbn; rewrite Hx; reflexivity).
    erewrite mbind_eq by exact E1. apply IH; [by eauto|cbn in Hf; lia|done].
Qed.
End answered.

Section waiting.
Context (cfg : cp_config_t) (sess_est_request : ptr -> ptr -> cpM (option ptr)) (other_event : ptr -> ptr -> cpM unit).
Context (est_links : ∀ p u, within still_links (sess_est_request p u)).

Abbreviation handler := (initial_attach_event_handler cfg sess_est_request other_event).

(** The node [n] with the procedures [ps] that wait for it. *)
Definition node_waited (u : ptr) (n : upf_context_t) (ps : list ptr) (s : cp) : Prop :=
  upfs s !! u = Some (set_upf_sub_procs ps n) ∧ ∀ p, p ∈ ps -> waits_for u p s.

Lemma node_waited_next event u n p ps n' m x s s1 :
  reports event n -> node_waited u n (p :: ps) s -> upfs s !! u = Some n' -> msgs s !! m = Some x ->
  handler p m (called event u n' m x ps s) = Some (tt, s1) -> node_waited u n ps s1.
Proof.
  intros Hr [Hn Hw] Hn' Hx E. simplify_eq. set (s0 := called _ _ _ _ _ _ _) in *.
  assert (upfs s0 !! u = Some (set_upf_sub_procs ps n)) as Hn0 by (cbn; apply lookup_insert_eq).
  assert (∀ q, q ∈ p :: ps -> waits_for u q s0) as Hw0 by (intros q Hq; by apply Hw).
  assert (still_links s0 s1) as L.
  { apply (attach_handler_links cfg sess_est_request other_event est_links u (set_upf_sub_procs ps n) p m
      (mk_msg x.(refCnt) event x.(msg_proc) x.(msg_pdn) event)); [done| | |exact Hr|exact E].
    - apply Hw0, elem_of_cons. by left.
    - cbn. apply lookup_insert_eq. }
  split; [by rewrite (proj1 L)|]. intros q Hq. eapply waits_for_links; [done|]. apply Hw0, elem_of_cons. by right.
Qed.

Lemma failed_errors u ps s s' : answered handler PFCP_ASSOC_SETUP_FAILED u ps s s' ->
  cs_errors s' = cs_errors s ++ map (fun p => (p, GTPV2C_CAUSE_REMOTE_PEER_NOT_RESPONDING)) ps.
Proof.
  induction 1 as [s|p ps n pc m x s s1 s' Hn Hs Hp Hm Hx E _ IH]; [by rewrite app_nil_r|].
  rewrite IH. cbn [map]. rewrite cons_middle, app_assoc. f_equal.
  unfold initial_attach_event_handler in E. erewrite mbind_eq in E by (unfold load_msg; cbn; rewrite lookup_insert_eq; reflexivity).
  by apply attach_failure_errors in E.
Qed.

(** What both loops have done when they end. *)
Lemma waiting_loop event u n fuel s b s1 :
  reports event n -> upfs s !! u = Some n -> (∀ p, p ∈ n.(upf_sub_procs) -> waits_for u p s) ->
  (length n.(upf_sub_procs) < fuel)%nat ->
  answer_buffered handler fuel event u s = Some (b, s1) <->
  b = true ∧ answered handler event u n.(upf_sub_procs) s s1 ∧ upfs s1 !! u = Some (set_upf_sub_procs [] n).
Proof.
  intros Hr Hn Hw Hf.
  assert (node_waited u n n.(upf_sub_procs) s) as HI by (split; [rewrite Hn; by destruct n|done]).
  assert (∀ p ps n' m x s0 s2, node_waited u n (p :: ps) s0 -> upfs s0 !! u = Some n' -> msgs s0 !! m = Some x ->
    handler p m (called event u n' m x ps s0) = Some (tt, s2) -> node_waited u n ps s2) as Next
    by (intros; by eapply node_waited_next).
  rewrite (answer_buffered_answers handler event u (node_waited u n)); [|by intros ps s0 [H0 _]; eexists|exact Next|exact HI|done].
  split; [|by intros (? & ? & _)]. intros [-> Ha]. split_and!; [done|done|].
  by destruct (answered_keeps handler event u (node_waited u n) Next _ _ _ Ha HI) as [? _].
Qed.
End waiting.

(** C28: The attach procedures that wait for a node are answered exactly once each, in the
    order of the list, when the association with the node has failed or, the node still
    being associated, has succeeded.  [upf_pfcp_setup_failure] and
    [upf_pfcp_setup_success] come to their ends, within as many turns as procedures wait
    and one more, exactly when each procedure can be called one after the other, each off
    the list and with its own message, which has the event and the type
    PFCP_ASSOC_SETUP_FAILED or PFCP_ASSOC_SETUP_SUCCESS; then nobody waits, the node is
    otherwise as it was, and the association procedure is ended with that outcome.  On a
    failure every one of them is rejected, once and with the cause "remote peer not
    responding".  The subscribers of the waiting procedures use the node; the request for
    the session is a parameter that changes no node and moves no procedure or subscriber;
    procedures started by the end of another one are recorded, not run. *)
Theorem waiting_answered_once cfg sess_est_request other_event u n fuel s :
  (∀ p u', within still_links (sess_est_request p u')) -> upfs s !! u = Some n ->
  (∀ p, p ∈ n.(upf_sub_procs) -> waits_for u p s) -> (length n.(upf_sub_procs) < fuel)%nat ->
  let handler := initial_attach_event_handler cfg sess_est_request other_event in
  let ps := n.(upf_sub_procs) in
  (∀ b s', upf_pfcp_setup_failure cfg handler fuel u s = Some (b, s') <->
     b = true ∧ ∃ s1, answered handler PFCP_ASSOC_SETUP_FAILED u ps s s1 ∧
       upfs s1 !! u = Some (set_upf_sub_procs [] n) ∧
       cs_errors s1 = cs_errors s ++ map (fun p => (p, GTPV2C_CAUSE_REMOTE_PEER_NOT_RESPONDING)) ps ∧
       match n.(upf_proc) with
       | None => s' = s1
       | Some q => proc_pfcp_assoc_setup_failure cfg q s1 = Some (tt, s')
       end) ∧
  (n.(upf_state) = PFCP_ASSOC_RESP_RCVD_STATE ->
   ∀ b s', upf_pfcp_setup_success cfg handler fuel u s = Some (b, s') <->
     b = true ∧ ∃ s1 q, answered handler PFCP_ASSOC_SETUP_SUCCESS u ps s s1 ∧
       upfs s1 !! u = Some (set_upf_sub_procs [] n) ∧ n.(upf_proc) = Some q ∧
       proc_pfcp_assoc_setup_success cfg q s1 = Some (tt, s')).
Proof.
  intros Hest Hn Hw Hf handler ps. split.
  - intros b s'. unfold upf_pfcp_setup_failure. split.
    + intros (b1 & s1 & E1 & E)%mbind_some.
      apply (waiting_loop cfg sess_est_request other_event Hest _ u n) in E1 as (-> & Ha & Hn1); [|by left|done..].
      rewrite (mbind_eq _ _ _ _ _ (load_upf_eq u s1 _ Hn1)) in E. apply mbind_some in E as ([] & s2 & E2 & [= <- <-]).
      split; [done|]. exists s1. split_and!; [done|done|by eapply failed_errors|].
      change (upf_proc (set_upf_sub_procs [] n)) with (upf_proc n) in E2. destruct (upf_proc n); [done|by injection E2].
    + intros [-> (s1 & Ha & Hn1 & _ & Hp)].
      assert (answer_buffered handler fuel PFCP_ASSOC_SETUP_FAILED u s = Some (true, s1)) as E1
        by (apply (waiting_loop cfg sess_est_request other_event Hest _ u n); [by left|done..]).
      rewrite (mbind_eq _ _ _ _ _ E1), (mbind_eq _ _ _ _ _ (load_upf_eq u s1 _ Hn1)).
      change (upf_proc (set_upf_sub_procs [] n)) with (upf_proc n). destruct (upf_proc n); [by rewrite (mbind_eq _ _ _ _ _ Hp)|by subst].
  - intros Hst b s'. unfold upf_pfcp_setup_success. split.
    + intros (b1 & s1 & E1 & E)%mbind_some.
      apply (waiting_loop cfg sess_est_request other_event Hest _ u n) in E1 as (-> & Ha & Hn1); [|by right|done..].
      rewrite (mbind_eq _ _ _ _ _ (load_upf_eq u s1 _ Hn1)) in E.
      change (upf_proc (set_upf_sub_procs [] n)) with (upf_proc n) in E. destruct (upf_proc n) as [q|] eqn:Hq; [|done].
      rewrite (mbind_eq _ _ _ _ _ (nonnull_eq q s1)) in E. apply mbind_some in E as ([] & s2 & E2 & [= <- <-]).
      split; [done|]. by exists s1, q.
    + intros [-> (s1 & q & Ha & Hn1 & Hq & Hp)].
      assert (answer_buffered handler fuel PFCP_ASSOC_SETUP_SUCCESS u s = Some (true, s1)) as E1
        by (apply (waiting_loop cfg sess_est_request other_event Hest _ u n); [by right|done..]).
      rewrite (mbind_eq _ _ _ _ _ E1), (mbind_eq _ _ _ _ _ (load_upf_eq u s1 _ Hn1)).
      change (upf_proc (set_upf_sub_procs [] n)) with (upf_proc n). rewrite Hq, (mbind_eq _ _ _ _ _ (nonnull_eq q s1)).
      by rewrite (mbind_eq _ _ _ _ _ Hp).
Qed.

(** The attaches 10 and 11 of the subscribers 1 and 2 wait for the node 4. *)
Definition example_waiting_attach (u m t : ptr) : proc_context_t :=
  mk_proc INITIAL_PDN_ATTACH_PROC 1 PROC_RESULT_SUCCESS (Some u) None None None (Some t) None
    (Some m) 0 (repeat None MAX_CHILD_PROC) None.
Definition example_waiting (state : Z) : cp :=
  on_nodes (set_answers (mk_oracle [] [37] [Some 8] [true] []))
  (on_heap (fun h => set_h_upfs {[ 4%positive := set_upf_sub_procs [11; 10]%positive (example_node state) ]}
    (set_h_msgs {[ 20%positive := mk_msg 1 0 None (Some 3%positive) 32; 21%positive := mk_msg 1 0 None (Some 3%positive) 32;
                   22%positive := mk_msg 1 0 None None 0 ]}
    (set_h_procs {[ 10%positive := example_waiting_attach 1 20 5; 11%positive := example_waiting_attach 2 21 6;
                    12%positive := example_assoc_proc ]}
    (set_h_trans {[ 5%positive := mk_trans 0 0 7 [] None (Some 10%positive) (mk_timer 0 RETRY_TRANSACTION 0) 0 0 0;
                    6%positive := mk_trans 0 0 8 [] None (Some 11%positive) (mk_timer 0 RETRY_TRANSACTION 0) 0 0 0 ]}
    (set_h_pdns {[ 3%positive := zero_pdn ]}
    (set_h_ues {[ 1%positive := set_pending_sub_procs [10%positive] (set_ue_upf (Some 4%positive) zero_ue);
                  2%positive := set_pending_sub_procs [11%positive] (set_ue_upf (Some 4%positive) zero_ue) ]} h)))))) empty_cp).

Lemma example_waiting_for state p : waits_for 4%positive p (example_waiting state).
Proof.
  intros pc c x u' _ _ Hx Hu. cbn in Hx. apply lookup_insert_Some in Hx as [[_ <-]|[_ Hx]]; [by injection Hu|].
  apply lookup_singleton_Some in Hx as [_ <-]. by injection Hu.
Qed.

Lemma waiting_answered_once_witness :
  let handler := initial_attach_event_handler example_config (fun _ _ => mret (Some 2%positive)) (fun _ _ => crash) in
  (∃ s', answered handler PFCP_ASSOC_SETUP_FAILED 4%positive [11; 10]%positive (example_waiting PFCP_ASSOC_REQ_SNT_STATE) s' ∧
     cs_errors s' = [(11%positive, 100); (10%positive, 100)]) ∧
  ∃ s', answered handler PFCP_ASSOC_SETUP_SUCCESS 4%positive [11; 10]%positive (example_waiting PFCP_ASSOC_RESP_RCVD_STATE) s'.
Proof.
  intros handler. split.
  - destruct (waiting_answered_once example_config (fun _ _ => mret (Some 2%positive)) (fun _ _ => crash) 4%positive _ 3
      (example_waiting PFCP_ASSOC_REQ_SNT_STATE) (fun _ _ => within_ret still_links _) eq_refl
      (fun p _ => example_waiting_for _ p) ltac:(cbn; lia)) as [F _].
    destruct (upf_pfcp_setup_failure example_config handler 3 4%positive (example_waiting PFCP_ASSOC_REQ_SNT_STATE))
      as [[b s']|] eqn:E; [|vm_compute in E; discriminate].
    apply F in E as [_ (s1 & Ha & _ & Hc & _)]. exists s1. split; [exact Ha|exact Hc].
  - destruct (waiting_answered_once example_config (fun _ _ => mret (Some 2%positive)) (fun _ _ => crash) 4%positive _ 3
      (example_waiting PFCP_ASSOC_RESP_RCVD_STATE) (fun _ _ => within_ret still_links _) eq_refl
      (fun p _ => example_waiting_for _ p) ltac:(cbn; lia)) as [_ S].
    specialize (S eq_refl).
    destruct (upf_pfcp_setup_success example_config handler 3 4%positive (example_waiting PFCP_ASSOC_RESP_RCVD_STATE))
      as [[b s']|] eqn:E; [|vm_compute in E; discriminate].
    apply S in E as [_ (s1 & q & Ha & _)]. by exists s1.
Defined.

(** ** The end of an association that failed *)

Lemma next_answer_eq {A} (get : oracle -> list A) set d x rest s :
  get s.(nodes).(answers) = x :: rest ->
  next_answer get set d s = Some (x, on_nodes (fun n => set_answers (set rest n.(answers)) n) s).
Proof. intros E. unfold next_answer, gets, mbind, cpM_bind. by rewrite E. Qed.

(** [s'] has the timer [id] for the node, armed unless the time is 0. *)
Definition scheduled (id timeout : Z) (u : ptr) (n : upf_context_t) (s s' : cp) : Prop :=
  s'.(timers) !! id = Some (nz timeout) ∧
  upfs s' = <[u := set_upf_pt (mk_timer id UPF_ASSOCIATION (timeout * 1000)) n]> (upfs s) ∧
  procs s' = procs s ∧ s'.(tabs) = s.(tabs) ∧ s'.(nodes).(stack_events) = s.(nodes).(stack_events).

Lemma schedule_eq timeout u n s id tids sets :
  upfs s !! u = Some n -> or_tids s.(nodes).(answers) = Some id :: tids -> or_set s.(nodes).(answers) = true :: sets ->
  ∃ s', schedule_pfcp_association timeout (Some u) s = Some (tt, s') ∧ scheduled id timeout u n s s'.
Proof.
  intros Hn Ht Hs. unfold schedule_pfcp_association. erewrite mbind_eq by (unfold get_timer; by step (load_upf_eq u s n Hn)).
  cbn beta iota. step (next_answer_eq or_tids set_or_tids None (Some id) tids s Ht). set (s1 := on_nodes _ s).
  cbn [default put_timer]. assert (Hn1 : upfs s1 !! u = Some n) by done.
  step (update_upf_eq u s1 n (set_upf_pt (mk_timer id UPF_ASSOCIATION (timeout * 1000))) Hn1).
  run. set (s2 := set_timers _ _). unfold startTimer. erewrite mbind_eq.
  2: { step (next_answer_eq or_set set_or_set false true sets s2 Hs). run. reflexivity. }
  eexists. split; [reflexivity|]. cbn [ti_id ti_ms]. split_and!; try done.
  cbn. rewrite lookup_insert_eq. unfold nz. f_equal.
  destruct (Z.eqb_spec timeout 0), (Z.eqb_spec (timeout * 1000) 0); done || lia.
Qed.

(** The invariant of transactions looks at the links of procedures only. *)
Lemma set_result_inv cfg kd s s' p pc r : trans_inv cfg kd s -> procs s !! p = Some pc ->
  procs s' = <[p := set_result r pc]> (procs s) -> transs s' = transs s -> s'.(free_queue) = s.(free_queue) ->
  gtp_map (tabs s') = gtp_map (tabs s) -> pfcp_map (tabs s') = pfcp_map (tabs s) -> gx_map (tabs s') = gx_map (tabs s) ->
  trans_inv cfg kd s'.
Proof.
  intros [I1 I2 I3 I4 I5 I6 I7 I8] Hp Ep Et Eq E1 E2 E3.
  assert (L : ∀ q qc, procs s' !! q = Some qc -> ∃ qc0, procs s !! q = Some qc0 ∧ gtpc_trans qc0 = gtpc_trans qc ∧
    pfcp_trans qc0 = pfcp_trans qc ∧ gx_trans qc0 = gx_trans qc).
  { intros q qc. rewrite Ep. destruct (decide (q = p)) as [->|Hne].
    - rewrite lookup_insert_eq. intros [= <-]. by exists pc.
    - rewrite lookup_insert_ne by done. eauto. }
  assert (Lv : ∀ t P, live s t P -> live s' t P) by (intros t P (tr & ? & ?); exists tr; by rewrite Et).
  split; rewrite ?E1, ?E2, ?E3, ?Eq; try done;
    try (intros i t Hi; (destruct (I1 _ _ Hi) || destruct (I2 _ _ Hi) || destruct (I3 _ _ Hi)); by eauto).
  - intros q qc t (qc0 & Hq & L1 & _)%L Hl. rewrite <- L1 in Hl. destruct (I4 _ _ _ Hq Hl). eauto.
  - intros q qc t (qc0 & Hq & _ & L2 & _)%L Hl. rewrite <- L2 in Hl. destruct (I5 _ _ _ Hq Hl). eauto.
  - intros q qc t (qc0 & Hq & _ & _ & L3)%L Hl. rewrite <- L3 in Hl. destruct (I6 _ _ _ Hq Hl). eauto.
  - intros t. by rewrite Et.
Qed.

(** The transaction and the message of the procedure are released and the procedure
    freed. *)
Lemma end_upf_procedure_eq cfg kd p pc u n m x s :
  trans_inv cfg kd s -> procs s !! p = Some pc -> pc.(proc_upf) = Some u -> upfs s !! u = Some n ->
  pc.(proc_msg) = Some m -> msgs s !! m = Some x ->
  ∃ s', end_upf_procedure cfg p s = Some (tt, s') ∧ procs s' = delete p (procs s) ∧
    upfs s' = <[u := set_upf_proc None n]> (upfs s) ∧ s'.(nodes) = s.(nodes) ∧
    s'.(tabs).(upf_by_ip) = s.(tabs).(upf_by_ip) ∧ s'.(tabs).(upf_by_service) = s.(tabs).(upf_by_service).
Proof.
  intros I Hp Hu Hn Hm Hx. unfold end_upf_procedure. step (load_proc_eq p s pc Hp).
  assert (∃ s1 pc1, (match pfcp_trans pc with None => mret tt | Some t => cleanup_pfcp_trans cfg t end) s = Some (tt, s1) ∧
    procs s1 = <[p := pc1]> (procs s) ∧ proc_msg pc1 = Some m ∧ msgs s1 = msgs s) as (s1 & pc1 & E1 & P1 & M1 & X1).
  { destruct (pfcp_trans pc) as [t|] eqn:Et.
    - destruct (cleanup_linked KPfcp cfg kd s p pc t I Hp Et) as (s1 & E1 & _ & P1 & _ & _ & _ & H1 & _).
      exists s1, (clear_link KPfcp pc). split_and!; [done|done|done|]. by rewrite H1.
    - exists s, pc. split_and!; [done|by rewrite insert_id|done|done]. }
  step E1. assert (Hp1 : procs s1 !! p = Some pc1) by (rewrite P1; apply lookup_insert_eq).
  assert (node_view s1 = node_view s) as V1.
  { destruct (pfcp_trans pc); [by eapply cleanup_pfcp_spares|by injection E1 as <-]. }
  assert (∃ s2, end_message p s1 = Some (tt, s2)) as (s2 & E2).
  { unfold end_message. step (load_proc_eq p s1 pc1 Hp1). rewrite M1. erewrite mbind_eq.
    2: { unfold update_msg. rewrite X1, Hx. reflexivity. }
    cbn beta iota. erewrite mbind_eq by (unfold load_msg; cbn; rewrite lookup_insert_eq; reflexivity).
    cbn beta iota. destruct (_ =? 1); [|by eexists]. unfold free_msg. cbn. rewrite lookup_insert_eq. by eexists. }
  step E2. pose proof (end_message_spares p _ _ _ E2) as V2. pose proof (end_message_procs p _ _ E2) as P2.
  rewrite Hu. step (nonnull_eq u s2). rewrite V1 in V2. unfold node_view in V2. injection V2 as N2 U2 I2 S2.
  assert (Hn2 : upfs s2 !! u = Some n) by (by rewrite U2).
  step (update_upf_eq u s2 n (set_upf_proc None) Hn2). eexists. split.
  { unfold free_proc. cbn. rewrite P2, Hp1. reflexivity. }
  cbn. rewrite P2, P1, U2. split_and!; auto. by rewrite delete_insert_eq.
Qed.

(** When an association has failed, its procedure is gone, the node is back in its
    initial state without an address and no longer found by the old one, and its
    timer is created; the timer is armed, so that the association is tried again,
    exactly when the random time is not 0. *)
Theorem failed_association_retried cfg kd p pc u n m x s r rands id tids sets :
  trans_inv cfg kd s -> procs s !! p = Some pc -> pc.(proc_upf) = Some u -> upfs s !! u = Some n ->
  pc.(proc_msg) = Some m -> msgs s !! m = Some x ->
  or_rand s.(nodes).(answers) = r :: rands -> or_tids s.(nodes).(answers) = Some id :: tids ->
  or_set s.(nodes).(answers) = true :: sets ->
  ∃ s' n', proc_pfcp_assoc_setup_failure cfg p s = Some (tt, s') ∧ procs s' = delete p (procs s) ∧
    upfs s' = <[u := n']> (upfs s) ∧ n'.(upf_state) = 0 ∧ n'.(upf_addr) = 0 ∧ n'.(upf_proc) = None ∧
    n'.(upf_pt) = mk_timer id UPF_ASSOCIATION (r mod 30 * 1000) ∧ n'.(fqdn) = n.(fqdn) ∧
    n'.(upf_sub_procs) = n.(upf_sub_procs) ∧
    s'.(tabs).(upf_by_ip) = delete n.(upf_addr) s.(tabs).(upf_by_ip) ∧
    s'.(tabs).(upf_by_service) = s.(tabs).(upf_by_service) ∧
    s'.(timers) !! id = Some (nz (r mod 30)).
Proof.
  intros I Hp Hu Hn Hm Hx Hr Ht Hs. unfold proc_pfcp_assoc_setup_failure.
  step (load_proc_eq p s pc Hp). rewrite Hu. step (nonnull_eq u s).
  step (update_proc_eq p s pc (set_result PROC_RESULT_FAILURE) Hp). set (pc1 := set_result PROC_RESULT_FAILURE pc).
  set (s1 := put_proc p pc1 s). assert (Hn1 : upfs s1 !! u = Some n) by done.
  step (update_upf_eq u s1 n (set_upf_state 0) Hn1). set (n1 := set_upf_state 0 n). set (s2 := put_upf u n1 s1).
  assert (Hn2 : upfs s2 !! u = Some n1) by (cbn; apply lookup_insert_eq).
  step (load_upf_eq u s2 n1 Hn2). run. set (s3 := on_tabs _ s2).
  step (update_upf_eq u s3 n1 (set_upf_addr 0) Hn2). set (n2 := set_upf_addr 0 n1). set (s4 := put_upf u n2 s3).
  assert (I4 : trans_inv cfg kd s4) by (by eapply set_result_inv).
  destruct (end_upf_procedure_eq cfg kd p pc1 u n2 m x s4 I4) as (s5 & E5 & P5 & U5 & N5 & T5 & V5); try done.
  { cbn. apply lookup_insert_eq. } { cbn. apply lookup_insert_eq. }
  unfold proc_pfcp_assoc_setup_complete. step E5. unfold rand.
  assert (A5 : answers (nodes s5) = answers (nodes s)) by (by rewrite N5).
  step (next_answer_eq or_rand set_or_rand 0 r rands s5 ltac:(by rewrite A5)). set (s6 := on_nodes _ s5).
  destruct (schedule_eq (r mod 30) u (set_upf_proc None n2) s6 id tids sets) as (s' & E & T & U & P & B & _).
  { cbn. rewrite U5. apply lookup_insert_eq. } { cbn. by rewrite A5. } { cbn. by rewrite A5. }
  exists s', (set_upf_pt (mk_timer id UPF_ASSOCIATION (r mod 30 * 1000)) (set_upf_proc None n2)).
  split_and!; try done.
  - rewrite P. cbn. rewrite P5. cbn. by rewrite delete_insert_eq.
  - rewrite U. cbn. rewrite U5. cbn. by rewrite !insert_insert_eq.
  - rewrite B. cbn. by rewrite T5.
  - rewrite B. cbn. by rewrite V5.
Qed.

(** The node 4 with the outstanding request 2 of the procedure 1. *)
Definition example_failing_proc : proc_context_t :=
  set_proc_upf (Some 4%positive) (set_proc_msg (Some 22%positive) example_proc).
Definition example_failing : cp :=
  on_nodes (set_answers (mk_oracle [] [37] [Some 8] [true] []))
  (on_tabs (set_upf_by_ip {[ 77 := 4%positive ]})
  (on_heap (fun h => set_h_upfs {[ 4%positive := example_node PFCP_ASSOC_REQ_SNT_STATE ]}
    (set_h_msgs {[ 22%positive := mk_msg 1 0 None None 0 ]} h)) (example_with example_failing_proc ∅ ∅))).

Lemma failed_association_retried_witness :
  ∃ s' n', proc_pfcp_assoc_setup_failure example_config 1%positive example_failing = Some (tt, s') ∧
    procs s' = ∅ ∧ upfs s' = {[ 4%positive := n' ]} ∧ n'.(upf_state) = 0 ∧ n'.(upf_addr) = 0 ∧
    n'.(upf_proc) = None ∧ n'.(upf_pt) = mk_timer 8 UPF_ASSOCIATION 7000 ∧ n'.(fqdn) = "upf" ∧
    n'.(upf_sub_procs) = [10%positive] ∧ s'.(tabs).(upf_by_ip) = ∅ ∧ s'.(tabs).(upf_by_service) = ∅ ∧
    s'.(timers) !! 8 = Some true.
Proof.
  apply (failed_association_retried example_config (fun _ => KPfcp) 1%positive example_failing_proc 4%positive
           (example_node PFCP_ASSOC_REQ_SNT_STATE) 22%positive (mk_msg 1 0 None None 0) example_failing 37 [] 8 [] []);
    try reflexivity.
  eapply (set_result_inv _ _ (example_with example_failing_proc ∅ ∅) _ 1%positive example_failing_proc PROC_RESULT_SUCCESS);
    [by apply example_inv|reflexivity..].
Defined.

(** ** An association that is accepted *)

Definition record_call (p m : ptr) : cpM unit := emit (CallHandler p).

Lemma release_then {A} t tr s (k : cpM A) : transs s !! t = Some tr -> IS_TRANS_DELAYED_DELETE tr = false ->
  (_ ← stop_transaction_timer t; _ ← delayed_free t; k) s = k (after_release t tr s).
Proof.
  intros Ht Hd. pose proof (release_eq t s tr Ht Hd) as E. unfold mbind, cpM_bind in *.
  destruct (stop_transaction_timer t s) as [[[] s1]|]; [|done]. by rewrite E.
Qed.

Lemma after_release_heap t tr s : transs s !! t = Some tr ->
  heap (after_release t tr s) = set_h_trans (<[t := marked tr]> (transs s)) (heap s) ∧
  tabs (after_release t tr s) = tabs s ∧ nodes (after_release t tr s) = nodes s ∧
  free_queue (after_release t tr s) = free_queue s ++ [t] ∧ cp_teids (after_release t tr s) = cp_teids s.
Proof.
  intros Ht. unfold after_release, after_stop. destruct (nz (ti_id (tr_rt tr))) eqn:Hn; cbn; split_and!; try done.
  by rewrite insert_insert_eq.
Qed.

(** The context of a node after an accepted response. *)
Definition associated (rsp : pfcp_assn_setup_rsp_t) (info : pfcp_user_plane_ip_rsrc_info_ie_t) (n : upf_context_t)
    : upf_context_t :=
  let feat := rsp.(assn_setup_rsp_up_func_feat) in
  mk_upf n.(upf_addr) n.(fqdn) feat.(up_func_feat_sup_feat) feat.(up_func_feat_add_sup_feat1)
    feat.(up_func_feat_add_sup_feat2)
    (if (info.(user_plane_ip_rsrc_info_assosi) =? 1) &&
        (info.(user_plane_ip_rsrc_info_src_intfc) =? SOURCE_INTERFACE_VALUE_ACCESS)
     then info.(user_plane_ip_rsrc_info_ipv4_address) else n.(s1u_ip))
    n.(s5s8_pgwu_ip) PFCP_ASSOC_RESP_RCVD_STATE n.(upf_proc) n.(upf_pt) n.(upf_sub_procs) n.(upf_node_procs)
    n.(global_address).

Lemma note_user_plane_eq cfg u n info s : cfg.(cp_type) = SAEGWC -> upfs s !! u = Some n ->
  ∃ s', note_user_plane cfg u info s = Some (tt, s') ∧ s'.(nodes) = s.(nodes) ∧ s'.(tabs) = s.(tabs) ∧
    heap s' = set_h_upfs (<[u := if (info.(user_plane_ip_rsrc_info_assosi) =? 1) &&
                                   (info.(user_plane_ip_rsrc_info_src_intfc) =? SOURCE_INTERFACE_VALUE_ACCESS)
                                 then set_s1u_ip info.(user_plane_ip_rsrc_info_ipv4_address) n else n]> (upfs s)) (heap s) ∧
    s'.(free_queue) = s.(free_queue) ∧
    s'.(cp_teids) = if nz info.(user_plane_ip_rsrc_info_teidri)
                    then set_base_teid SAEGWC info.(user_plane_ip_rsrc_info_teid_range) s.(cp_teids) else s.(cp_teids).
Proof.
  intros Hc Hn. unfold note_user_plane. rewrite Hc. destruct (_ && _).
  - step (update_upf_eq u s n (set_s1u_ip (user_plane_ip_rsrc_info_ipv4_address info)) Hn).
    destruct (nz (user_plane_ip_rsrc_info_teidri info)); eexists; (split; [reflexivity|done]).
  - run. destruct (nz (user_plane_ip_rsrc_info_teidri info)); eexists;
      (split; [reflexivity|]); cbn; rewrite insert_id by done; by destruct (heap s).
Qed.

Lemma watch_node_eq cfg peer time s ok sets : or_set s.(nodes).(answers) = ok :: sets ->
  ∃ s', watch_node cfg peer time s = Some (tt, s') ∧ heap s' = heap s ∧ tabs s' = tabs s ∧
    s'.(free_queue) = s.(free_queue) ∧ s'.(cp_teids) = s.(cp_teids) ∧
    s'.(nodes).(stack_events) = s.(nodes).(stack_events) ∧
    s'.(nodes).(peers) = add_node_conn_entry cfg.(transmit_cnt) ok s.(nodes).(peers) peer SX_PORT_ID ∧
    s'.(nodes).(recov_times) = if is_peer peer s then <[peer := time]> s.(nodes).(recov_times) else s.(nodes).(recov_times).
Proof.
  intros Ha. unfold watch_node, add_ip_to_heartbeat_hash, set_recov_time. run. destruct (is_peer peer s);
    (erewrite mbind_eq by (unfold timer_settime; by apply next_answer_eq)); eexists; (split; [reflexivity|done]).
Qed.

(** The request [t] of the procedure [p] for the node [u] waits for its answer under
    the number [seq]; [old] is the message of the procedure. *)
Record requested (cfg : cp_config_t) (u p t old : ptr) (n : upf_context_t) (pc : proc_context_t) (tr : transData_t)
    (seq : Z) (s : cp) : Prop := {
  rq_key : pfcp_map (tabs s) !! (cfg.(pfcp_addr), cfg.(pfcp_port), seq) = Some t;
  rq_trans : transs s !! t = Some tr;
  rq_live : IS_TRANS_DELAYED_DELETE tr = false;
  rq_link : tr.(tr_proc) = Some p;
  rq_proc : procs s !! p = Some pc;
  rq_type : pc.(proc_type) = PFCP_ASSOC_SETUP_PROC;
  rq_msg : pc.(proc_msg) = Some old;
  rq_old : is_Some (msgs s !! old);
  rq_upf : pc.(proc_upf) = Some u;
  rq_node : upfs s !! u = Some n;
}.

Lemma SET_PROC_MSG_eq p pc old m x s :
  procs s !! p = Some pc -> proc_msg pc = Some old -> is_Some (msgs s !! old) -> msgs s !! m = Some x -> m ≠ old ->
  SET_PROC_MSG p m s = Some (tt, on_heap (fun h =>
    set_h_msgs (<[m := set_refCnt (u32 (refCnt x + 1)) x]> (delete old (h_msgs h)))
      (set_h_procs (<[p := set_proc_msg (Some m) pc]> (h_procs h)) h)) s).
Proof.
  intros Hp Ho [y Hy] Hx Hne. unfold SET_PROC_MSG. step (load_proc_eq p s pc Hp). rewrite Ho.
  erewrite mbind_eq by (unfold free_msg; rewrite Hy; reflexivity). cbn beta iota.
  erewrite mbind_eq by (by apply update_proc_eq). cbn beta iota. unfold update_msg. cbn.
  by rewrite lookup_delete_ne, Hx by done.
Qed.

(** The reception of the response up to its evaluation. *)
Lemma response_received cfg handler u p t old n pc tr seq s m x buf peer k rsp :
  requested cfg u p t old n pc tr seq s -> msgs s !! m = Some x -> m ≠ old -> 
  decode_pfcp_assn_setup_rsp_t zero_assn_setup_rsp buf = Some (k, rsp) -> 0 < k ->
  no_seid_seq rsp.(assn_setup_rsp_header) = seq ->
  ∃ s1 x1, handle_pfcp_association_setup_response_msg cfg handler m buf peer s
      = (_ ← handle_pfcp_association_setup_response cfg p m rsp peer; mret 0) s1 ∧
    heap s1 = set_h_trans (<[t := marked tr]> (transs s))
                (set_h_msgs (<[m := x1]> (delete old (msgs s)))
                  (set_h_procs (<[p := set_proc_msg (Some m) (set_pfcp_trans None pc)]> (procs s)) (heap s))) ∧
    tabs s1 = set_pfcp_map (delete (cfg.(pfcp_addr), cfg.(pfcp_port), seq) (pfcp_map (tabs s))) (tabs s) ∧
    nodes s1 = nodes s ∧ free_queue s1 = free_queue s ++ [t] ∧ cp_teids s1 = cp_teids s.
Proof.
  intros [Rk Rt Rl Rp Rc Rty Rm Ro Ru Rn] Hm Hne Hd Hk Hseq.
  unfold handle_pfcp_association_setup_response_msg. rewrite Hd. step (nonnull_eq (k, rsp) s).
  rewrite (proj2 (Z.leb_gt k 0)) by done. rewrite Hseq.
  erewrite mbind_eq by (unfold delete_pfcp_trans, find_pfcp_trans; reflexivity). cbn beta iota. rewrite Rk.
  set (s1 := on_tabs _ s). step (load_trans_eq t s1 tr Rt). rewrite Rp. step (nonnull_eq p s1).
  step (update_proc_eq p s1 pc (set_pfcp_trans None) Rc). set (pc1 := set_pfcp_trans None pc). set (s2 := put_proc p pc1 s1).
  rewrite (release_then t tr s2) by done. destruct (after_release_heap t tr s2 Rt) as (H3 & T3 & N3 & Q3 & G3).
  set (s3 := after_release t tr s2) in *. clearbody s3. assert (Hm3 : msgs s3 !! m = Some x) by (by rewrite H3).
  erewrite mbind_eq by (unfold update_msg; rewrite Hm3; reflexivity). cbn beta iota. set (x3 := set_msg_event _ _).
  set (s4 := on_heap _ s3). assert (Hp4 : procs s4 !! p = Some pc1) by (cbn; rewrite H3; cbn; apply lookup_insert_eq).
  assert (Ho4 : is_Some (msgs s4 !! old)) by (cbn; rewrite H3; cbn; rewrite lookup_insert_ne by done; eauto).
  assert (Hm4 : msgs s4 !! m = Some x3) by (cbn; apply lookup_insert_eq).
  step (SET_PROC_MSG_eq p pc1 old m x3 s4 Hp4 Rm Ho4 Hm4 Hne).
  set (x4 := set_refCnt _ x3). set (s5 := on_heap _ _). set (pc2 := set_proc_msg (Some m) pc1) in *.
  assert (Hp5 : procs s5 !! p = Some pc2) by (cbn; apply lookup_insert_eq).
  step (load_proc_eq p s5 pc2 Hp5). cbn [pc2 pc1 proc_type set_proc_msg set_pfcp_trans].
  rewrite bool_decide_true by done. exists s5, x4. split.
  { unfold pfcp_association_event_handler, mbind, cpM_bind.
    unfold load_msg. cbn [msgs heap s5 on_heap set_heap h_msgs set_h_msgs]. rewrite lookup_insert_eq. cbn [mbind option_bind].
    change (u8 (msg_event x4) =? PFCP_ASSOCIATION_SETUP) with false.
    change (u8 (msg_event x4) =? PFCP_ASSOCIATION_SETUP_RSP) with true. cbv iota.
    cbn beta. by destruct (handle_pfcp_association_setup_response cfg p m rsp peer s5) as [[]|]. }
  unfold s5, s4. cbn. rewrite H3, T3, N3, Q3, G3. cbn. split_and!; try done.
  rewrite !insert_insert_eq, delete_insert_ne, insert_insert_eq by done. done.
Qed.

(** C29: In the combined gateway (SAEGWC), a response that accepts the association ends the transaction of the request,
    makes the node usable with the features and the address the response has, takes
    its tunnel ids from the range of the response, puts the node under supervision
    and queues one event for the procedures that wait.  The recovery time of the
    response is recorded only for a node that was supervised before. *)
Theorem association_accepted cfg handler u p t old n pc tr seq s m x buf peer k rsp info ok sets :
  requested cfg u p t old n pc tr seq s -> msgs s !! m = Some x -> m ≠ old -> cfg.(cp_type) = SAEGWC ->
  decode_pfcp_assn_setup_rsp_t zero_assn_setup_rsp buf = Some (k, rsp) -> 0 < k ->
  no_seid_seq rsp.(assn_setup_rsp_header) = seq -> cause_value rsp.(assn_setup_rsp_cause) = REQUESTACCEPTED ->
  rsp.(assn_setup_rsp_user_plane_ip_rsrc_info) !! 0%nat = Some info -> or_set s.(nodes).(answers) = ok :: sets ->
  ∃ s', handle_pfcp_association_setup_response_msg cfg handler m buf peer s = Some (0, s') ∧
    upfs s' = <[u := associated rsp info n]> (upfs s) ∧
    s'.(nodes).(stack_events) = s.(nodes).(stack_events) ++ [UPF_CONNECTION_SETUP_SUCCESS u] ∧
    pfcp_map (tabs s') = delete (cfg.(pfcp_addr), cfg.(pfcp_port), seq) (pfcp_map (tabs s)) ∧
    transs s' = <[t := marked tr]> (transs s) ∧ s'.(free_queue) = s.(free_queue) ++ [t] ∧
    procs s' = <[p := set_proc_msg (Some m) (set_pfcp_trans None pc)]> (procs s) ∧
    s'.(nodes).(peers) = add_node_conn_entry cfg.(transmit_cnt) ok s.(nodes).(peers) peer SX_PORT_ID ∧
    s'.(nodes).(recov_times) =
      (if is_peer peer s then <[peer := rcvry_time_stmp_val rsp.(assn_setup_rsp_rcvry_time_stmp)]> s.(nodes).(recov_times)
       else s.(nodes).(recov_times)) ∧
    s'.(cp_teids) = (if nz info.(user_plane_ip_rsrc_info_teidri)
                     then set_base_teid SAEGWC info.(user_plane_ip_rsrc_info_teid_range) s.(cp_teids) else s.(cp_teids)).
Proof.
  intros R Hm Hne Hc Hd Hk Hseq Hcause Hinfo Ha.
  destruct (response_received cfg handler u p t old n pc tr seq s m x buf peer k rsp R Hm Hne Hd Hk Hseq)
    as (s1 & x1 & -> & H1 & T1 & N1 & Q1 & G1). destruct R as [Rk Rt Rl Rp Rc Rty Rm Ro Ru Rn].
  unfold handle_pfcp_association_setup_response. set (pc2 := set_proc_msg (Some m) (set_pfcp_trans None pc)) in *.
  assert (Hp1 : procs s1 !! p = Some pc2) by (rewrite H1; cbn; apply lookup_insert_eq).
  assert (Hm1 : msgs s1 !! m = Some x1) by (rewrite H1; cbn; apply lookup_insert_eq).
  assert (Hu1 : upfs s1 !! u = Some n) by (by rewrite H1).
  rewrite Hcause, Hinfo. change (negb (REQUESTACCEPTED =? REQUESTACCEPTED)) with false.
  set (acc := fun n0 => set_add_up_supp_features2 _ _).
  assert (Em : update_msg m (set_msg_event PFCP_ASSOC_SETUP_RESP_RCVD_EVNT) s1 = Some (tt, on_heap (fun h =>
    set_h_msgs (<[m := set_msg_event PFCP_ASSOC_SETUP_RESP_RCVD_EVNT x1]> h.(h_msgs)) h) s1))
    by (unfold update_msg; by rewrite Hm1). set (s2 := on_heap _ s1) in Em.
  destruct (note_user_plane_eq cfg u (acc n) info (put_upf u (acc n) s2) Hc) as (s3 & E3 & N3 & T3 & H3 & Q3 & G3);
    [cbn; apply lookup_insert_eq|].
  destruct (watch_node_eq cfg peer (rcvry_time_stmp_val (assn_setup_rsp_rcvry_time_stmp rsp)) s3 ok sets)
    as (s4 & E4 & H4 & T4 & Q4 & G4 & V4 & P4 & R4); [rewrite N3; cbn; by rewrite N1|].
  eexists. split.
  { erewrite mbind_eq; [reflexivity|]. step (load_proc_eq p s1 pc2 Hp1).
    change (proc_upf pc2) with (proc_upf pc). rewrite Ru. step (nonnull_eq u s1). step (nonnull_eq info s1). step Em. erewrite mbind_eq by (by apply update_upf_eq). cbn beta iota. step E3. step E4. run. reflexivity. }
  cbn. rewrite H4, T4, Q4, G4, V4, P4, R4, H3, Q3, G3, T3, N3. unfold is_peer. rewrite N3. cbn. rewrite H1, T1, N1, Q1, G1. cbn.
  split_and!; try done. rewrite insert_insert_eq. unfold acc, associated. by destruct (_ && _).
Qed.

(** A response with number 7 that accepts: cause, recovery time, features. *)
Definition example_accept : list Z :=
  [32; 6; 0; 23; 0; 0; 7; 0; 0; 19; 0; 1; 1; 0; 96; 0; 4; 0; 0; 1; 44; 0; 43; 0; 2; 0; 5].
Definition example_accept_rsp : pfcp_assn_setup_rsp_t :=
  Eval vm_compute in match decode_pfcp_assn_setup_rsp_t zero_assn_setup_rsp example_accept with
                     | Some (_, rsp) => rsp
                     | None => zero_assn_setup_rsp
                     end.
Definition example_request_proc : proc_context_t :=
  mk_proc PFCP_ASSOC_SETUP_PROC 0 PROC_RESULT_SUCCESS None None (Some 4%positive) (Some 2%positive) None None
    (Some 22%positive) 0 (repeat None MAX_CHILD_PROC) None.
Definition example_requested : cp :=
  on_nodes (set_answers (mk_oracle [] [] [] [true] []))
  (on_heap (fun h => set_h_upfs {[ 4%positive := example_node PFCP_ASSOC_REQ_SNT_STATE ]}
    (set_h_msgs {[ 22%positive := mk_msg 1 0 None None 0; 23%positive := mk_msg 0 0 None None 0 ]} h))
    (example_with example_request_proc ∅ ∅)).

Lemma association_accepted_witness :
  ∃ s', handle_pfcp_association_setup_response_msg example_config record_call 23%positive example_accept 77 example_requested
        = Some (0, s') ∧
    (upf_state <$> upfs s' !! 4%positive) = Some PFCP_ASSOC_RESP_RCVD_STATE ∧
    s'.(nodes).(stack_events) = [UPF_CONNECTION_SETUP_SUCCESS 4%positive] ∧
    is_Some (peer_table s'.(nodes).(peers) !! 77) ∧ s'.(nodes).(recov_times) = ∅.
Proof.
  destruct (association_accepted example_config record_call 4%positive 1%positive 2%positive 22%positive
    (example_node PFCP_ASSOC_REQ_SNT_STATE) example_request_proc example_trans 7 example_requested 23%positive
    (mk_msg 0 0 None None 0) example_accept 77 19 example_accept_rsp zero_user_plane_ip_rsrc_info true [])
    as (s' & E & U & V & _ & _ & _ & _ & P & R & _); try reflexivity.
  - split; try reflexivity. by exists (mk_msg 1 0 None None 0).
  - done.
  - exists s'. rewrite U, V, P, R. split_and!; [exact E|reflexivity|reflexivity|vm_compute; eauto|reflexivity].
Defined.
