(* ===== verification/UpfMsgs.v ===== *)
(** * The messages to user plane nodes on the wire

    The association request and response and the heartbeat response are filled,
    encoded, and given their length afterwards ([Upf]); here they are read back by the
    decoders of libpfcp.  The sequence number of a request has 24 bits in the message
    but 32 in the table of transactions. *)

From stdpp Require Import gmap strings.
From S2P Require Import Prelude EncDecBits Codec CodecSpec Tlv PfcpIes PfcpIesEncoder PfcpIesDecoder PfcpIesSpec.
From S2P Require Import PfcpIesOptional PfcpMsgs PfcpMsgsEncoder PfcpMsgsDecoder PfcpGroups PfcpMsgsSpec.
From S2P Require Import Peer IpPool Teid CpState Transactions UeContext Proc Upf.

#[local] Set Warnings "-clear-no-such-hyp".

(** ** The length of a finished message *)

Definition with_len (len : Z) (h : pfcp_header_t) : pfcp_header_t :=
  mk_header h.(header_s) h.(header_mp) h.(header_spare) h.(header_version) h.(header_message_type) len
    h.(header_seid_seqno).

Lemma header_bits h body : ∃ a c, length a = 16%nat ∧
  ∀ len, wbits (layout_header (with_len len h) ++ body) = a ++ nbits 16 len ++ c.
Proof.
  exists (wbits [(3, h.(header_version)); (3, h.(header_spare)); (1, h.(header_mp)); (1, h.(header_s)); (8, h.(header_message_type))]).
  eexists. split; [done|]. intros len. unfold layout_header.
  cbn [with_len header_version header_spare header_mp header_s header_message_type header_message_len header_seid_seqno app].
  unfold wbits. cbn [map concat app]. rewrite app_nil_r, <- !app_assoc. done.
Qed.

(** A message encoded with length 0 and finished holds the length of what follows the
    first four bytes. *)
Lemma finish_message_holds f h body r (room : nat) s :
  encodes f (layout_header (with_len 0 h) ++ body) r ->
  size (layout_header (with_len 0 h) ++ body) = 8 * r -> 4 <= r <= Z.of_nat room -> r < 8192 ->
  ∃ buf, finish_message (f (repeat 0 room) 0) s = Some (buf, s) ∧
    holds buf (wbits (layout_header (with_len (r - 4) h) ++ body)) ∧ Z.of_nat (length buf) = r.
Proof.
  intros He Hs Hr Hm. destruct (He (repeat 0 room) 0 []) as (b0 & E & Hh & Hl);
    [done|apply holds_zero|done|cbn [length]; rewrite repeat_length; lia|lia|].
  destruct (header_bits h body) as (a & c & Ha & Hw). rewrite app_nil_l, Hw in Hh. rewrite repeat_length in Hl.
  destruct (holds_put_len b0 a (nbits 16 0) c (r - 4) Hh Ha (length_nbits 16 0)) as (b1 & b2 & E1 & E2 & Hh2 & Hl2); [lia|].
  exists (take (Z.to_nat r) b2). split.
  { unfold finish_message. rewrite E. step (nonnull_eq (r, b0) s). rewrite E1. step (nonnull_eq b1 s). rewrite E2.
    by step (nonnull_eq b2 s). }
  rewrite length_take. split; [|lia]. rewrite Hw. apply holds_take_self; [done| |lia].
  rewrite <- Hw. replace (Z.of_nat (length (wbits _))) with (size (layout_header (with_len (r - 4) h) ++ body)); [|done].
  rewrite size_app in *. rewrite <- (Z2Nat.id r) in Hs by lia. rewrite <- Hs. done.
Qed.

(** ** The messages *)

(** The addresses and times of the configuration are 32-bit numbers. *)
Definition config_ok (cfg : cp_config_t) : Prop := 0 <= cfg.(pfcp_addr) < 2 ^ 32 ∧ 0 <= cfg.(start_time) < 2 ^ 32.

Ltac field_ok := apply (uwrap_range 8); lia.

Lemma node_id_good addr : opt_good PFCP_IE_NODE_ID (set_node_id addr).
Proof.
  hnf. cbn. split; [done|]. hnf. split_and!; try done.
  - repeat (apply Forall_cons_2; [first [apply byte_ok_uwrap|done]|]). apply Forall_nil_2.
  - unfold layout_node_id. cbn. unfold layout_ok. repeat (apply Forall_cons_2; [first [field_ok|split; vm_compute; congruence]|]). apply Forall_nil_2.
Qed.
Lemma recovery_good cfg : config_ok cfg -> opt_good PFCP_IE_RCVRY_TIME_STMP (set_recovery_time_stamp cfg).
Proof.
  intros [_ H]. hnf. cbn. split; [done|]. hnf. repeat (split || apply Forall_cons_2 || apply Forall_nil_2); cbn; try done; lia.
Qed.
Lemma cause_good v : 0 <= v < 256 -> opt_good PFCP_IE_CAUSE (set_cause v).
Proof.
  intros H. hnf. cbn. split; [done|]. hnf. repeat (split || apply Forall_cons_2 || apply Forall_nil_2); cbn; try done; lia.
Qed.

Lemma header_good len type seq body : 0 <= type < 256 -> 4 <= len < 65536 -> size body = 8 * (len - 4) ->
  message_good (with_len len (set_pfcp_seid_header type false seq)) body.
Proof.
  intros Ht Hl Hs. split; [done|]. split; [|cbn; lia]. pose proof (uwrap_range 24 seq ltac:(lia)).
  repeat (split || apply Forall_cons_2 || apply Forall_nil_2); cbn; try done; lia.
Qed.

(** The association request as it is read back: with its length. *)
Definition association_request (cfg : cp_config_t) (seq : Z) : pfcp_assn_setup_req_t :=
  set_assn_setup_req_header (with_len 21 (set_pfcp_seid_header PFCP_ASSOCIATION_SETUP_REQUEST false seq))
    (fill_pfcp_association_setup_req cfg seq).

Lemma request_good cfg seq : config_ok cfg -> assn_setup_req_good (association_request cfg seq).
Proof.
  intros Hc. split; [by apply header_good|]. split; [apply node_id_good|]. split; [by apply recovery_good|].
  split; [done|]. split; [done|]. split; [done|]. split; [constructor|done].
Qed.

Definition association_response (cfg : cp_config_t) (seq : Z) : pfcp_assn_setup_rsp_t :=
  set_assn_setup_rsp_header (with_len 26 (set_pfcp_seid_header PFCP_ASSOCIATION_SETUP_RESPONSE false seq))
    (fill_pfcp_association_setup_rsp cfg seq).
Definition heartbeat_response (cfg : cp_config_t) (seq : Z) : pfcp_hrtbeat_rsp_t :=
  set_hrtbeat_rsp_header (with_len 12 (set_pfcp_seid_header PFCP_HEARTBEAT_RESPONSE false seq))
    (fill_pfcp_heartbeat_resp cfg).

Lemma response_good cfg seq : config_ok cfg -> assn_setup_rsp_good (association_response cfg seq).
Proof.
  intros Hc. split; [by apply header_good|]. split; [apply node_id_good|]. split; [by apply cause_good|].
  split; [by apply recovery_good|]. split; [done|]. split; [done|]. split; [done|]. split; [constructor|done].
Qed.
Lemma heartbeat_good cfg seq : config_ok cfg -> hrtbeat_rsp_good (heartbeat_response cfg seq).
Proof. intros Hc. split; [by apply header_good|by apply recovery_good]. Qed.

(** The encoders do not look at the length in the header. *)
Lemma request_encodes v h : assn_setup_req_good (set_assn_setup_req_header h v) -> header_tagged v.(assn_setup_req_header) ->
  encodes (encode_pfcp_assn_setup_req_t v) (assn_setup_req_layout v) (size (assn_setup_req_layout v) / 8).
Proof.
  intros Hg Ht; unfold assn_setup_req_good in Hg; destruct v as [? ? ? ? ? ? ?]; cbn in Hg; destruct_and! Hg.
  apply (encodes_enc_bits 8); [by right|]. apply places_header; [done|]. unfold assn_setup_req_body.
  place_members ltac:(pfcp_member).
Qed.
Lemma response_encodes v h : assn_setup_rsp_good (set_assn_setup_rsp_header h v) -> header_tagged v.(assn_setup_rsp_header) ->
  encodes (encode_pfcp_assn_setup_rsp_t v) (assn_setup_rsp_layout v) (size (assn_setup_rsp_layout v) / 8).
Proof.
  intros Hg Ht; unfold assn_setup_rsp_good in Hg; destruct v as [? ? ? ? ? ? ? ?]; cbn in Hg; destruct_and! Hg.
  apply (encodes_enc_bits 8); [by right|]. apply places_header; [done|]. unfold assn_setup_rsp_body.
  place_members ltac:(pfcp_member).
Qed.
Lemma heartbeat_encodes v h : hrtbeat_rsp_good (set_hrtbeat_rsp_header h v) -> header_tagged v.(hrtbeat_rsp_header) ->
  encodes (encode_pfcp_hrtbeat_rsp_t v) (hrtbeat_rsp_layout v) (size (hrtbeat_rsp_layout v) / 8).
Proof.
  intros Hg Ht; unfold hrtbeat_rsp_good in Hg; destruct v as [? ?]; cbn in Hg; destruct_and! Hg.
  apply (encodes_enc_bits 8); [by right|]. apply places_header; [done|]. unfold hrtbeat_rsp_body.
  place_members ltac:(pfcp_member).
Qed.

(** A message of [n] bytes, [k] of them behind the header, that its receiver reads as
    [x]. *)
Definition read_back {A} (g : ie_decoder A) (r : option (Z * list Z)) (n k : Z) (x : A) (s : cp) : Prop :=
  ∃ buf, finish_message r s = Some (buf, s) ∧ Z.of_nat (length buf) = n ∧ g buf = Some (k, x).

Lemma finish_read_back {A} (g : ie_decoder A) f h body r (room : nat) x s :
  encodes f (layout_header (with_len 0 h) ++ body) r -> size (layout_header (with_len 0 h) ++ body) = 8 * r ->
  4 <= r <= Z.of_nat room -> r < 8192 ->
  decodes g (layout_header (with_len (r - 4) h) ++ body) (size body / 8) x ->
  read_back g (f (repeat 0 room) 0) r (size body / 8) x s.
Proof.
  intros He Hs Hr Hm Hd. destruct (finish_message_holds f h body r room s He Hs Hr Hm) as (buf & E & Hh & Hl).
  exists buf. split_and!; [done|done|]. apply (Hd buf []); [by rewrite app_nil_r|].
  rewrite size_app in *. change (size (layout_header (with_len (r - 4) h))) with (size (layout_header (with_len 0 h))). lia.
Qed.

(** C30: The association request, the association response and the heartbeat response
    of the gateway are read by a node as they were filled: the address of the gateway
    as node id, the time of its start, the cause, the sequence number cut to 24 bits,
    and the length that was put in afterwards. *)
Theorem node_messages_read_back cfg seq s : config_ok cfg ->
  read_back (decode_pfcp_assn_setup_req_t zero_assn_setup_req)
    (encode_pfcp_assn_setup_req_t (fill_pfcp_association_setup_req cfg seq) (repeat 0 256) 0) 25 17
    (association_request cfg seq) s ∧
  read_back (decode_pfcp_assn_setup_rsp_t zero_assn_setup_rsp)
    (encode_pfcp_assn_setup_rsp_t (fill_pfcp_association_setup_rsp cfg seq) (repeat 0 256) 0) 30 22
    (association_response cfg seq) s ∧
  read_back (decode_pfcp_hrtbeat_rsp_t zero_hrtbeat_rsp)
    (encode_pfcp_hrtbeat_rsp_t (set_hrtbeat_rsp_header (with_len 0 (heartbeat_response cfg seq).(hrtbeat_rsp_header))
       (fill_pfcp_heartbeat_resp cfg)) (repeat 0 1024) 0) 16 8
    (heartbeat_response cfg seq) s.
Proof.
  intros Hc. split_and!.
  - apply (finish_read_back _ _ (assn_setup_req_header (association_request cfg seq)) (assn_setup_req_body (association_request cfg seq)) 25);
      [|done|done|done|by apply (assn_setup_req_decodes _ (request_good cfg seq Hc))].
    by apply (request_encodes (fill_pfcp_association_setup_req cfg seq) _ (request_good cfg seq Hc)).
  - apply (finish_read_back _ _ (assn_setup_rsp_header (association_response cfg seq)) (assn_setup_rsp_body (association_response cfg seq)) 30);
      [|done|done|done|by apply (assn_setup_rsp_decodes _ (response_good cfg seq Hc))].
    by apply (response_encodes (fill_pfcp_association_setup_rsp cfg seq) _ (response_good cfg seq Hc)).
  - apply (finish_read_back _ _ (hrtbeat_rsp_header (heartbeat_response cfg seq)) (hrtbeat_rsp_body (heartbeat_response cfg seq)) 16);
      [|done|done|done|by apply (hrtbeat_rsp_decodes _ (heartbeat_good cfg seq Hc))].
    by apply (heartbeat_encodes (set_hrtbeat_rsp_header (with_len 0 (heartbeat_response cfg seq).(hrtbeat_rsp_header))
      (fill_pfcp_heartbeat_resp cfg)) (heartbeat_response cfg seq).(hrtbeat_rsp_header) (heartbeat_good cfg seq Hc)).
Qed.

Lemma node_messages_read_back_witness :
  config_ok example_config ∧
  read_back (decode_pfcp_assn_setup_req_t zero_assn_setup_req)
    (encode_pfcp_assn_setup_req_t (fill_pfcp_association_setup_req example_config 7) (repeat 0 256) 0) 25 17
    (association_request example_config 7) empty_cp.
Proof.
  assert (Hc : config_ok example_config) by (split; cbn; lia). split; [exact Hc|].
  exact (proj1 (node_messages_read_back example_config 7 empty_cp Hc)).
Defined.

(** ** Sequence numbers *)

(** The number in a request is the number of its transaction as long as that is
    below 2^24.  From then on the response, which repeats the number of the request,
    finds no transaction and is dropped, and the association is never accepted. *)
Theorem sequence_number_space cfg handler seq s m buf peer k rsp : 0 <= seq < 2 ^ 32 ->
  decode_pfcp_assn_setup_rsp_t zero_assn_setup_rsp buf = Some (k, rsp) -> 0 < k ->
  let number := no_seid_seq (assn_setup_req_header (association_request cfg seq)) in
  no_seid_seq rsp.(assn_setup_rsp_header) = number ->
  (number = seq <-> seq < 2 ^ 24) ∧
  (2 ^ 24 <= seq -> pfcp_map (tabs s) !! (cfg.(pfcp_addr), cfg.(pfcp_port), number) = None ->
   handle_pfcp_association_setup_response_msg cfg handler m buf peer s = Some (-1, s)).
Proof.
  intros Hs Hd Hk number Hn. pose proof (uwrap_range 24 seq ltac:(lia)) as Hr.
  assert (Hnum : number = uwrap 24 seq) by done. split.
  - rewrite Hnum. split; [lia|]. intros H. apply uwrap_small. lia.
  - intros _ Hf. unfold handle_pfcp_association_setup_response_msg. rewrite Hd. step (nonnull_eq (k, rsp) s).
    rewrite (proj2 (Z.leb_gt k 0)) by done. rewrite Hn.
    erewrite mbind_eq by (unfold delete_pfcp_trans, find_pfcp_trans; reflexivity). cbn beta iota. rewrite Hf.
    unfold mret, cpM_ret. do 2 f_equal. unfold on_tabs. rewrite delete_id by done. by destruct s as [? []].
Qed.

Lemma sequence_number_space_witness :
  handle_pfcp_association_setup_response_msg example_config record_call 23%positive example_accept 77 empty_cp
  = Some (-1, empty_cp).
Proof.
  refine (proj2 (sequence_number_space example_config record_call (2 ^ 24 + 7) empty_cp 23%positive example_accept 77 19
                   example_accept_rsp _ _ _ _) _ _); try reflexivity; cbn; lia.
Defined.
