(* ===== verification/PfcpSetIe.v ===== *)
(** * The elements of a PFCP session request (src/cp/pfcp/common/pfcp_cp_set_ie.c)

    A function that fills a structure takes the structure as it was and returns it with
    the members it assigns, and the size it returns.  The structures of libpfcp are packed,
    so [sizeof] is the sum of the members.  The checks of a received request
    ([cause_check_x]) return the cause and the code of the offending element. *)

From S2P Require Import Prelude EncDecBits Teid PfcpIes PfcpIesOptional PfcpMsgs.

(** ** Constants (src/libpfcp/include/pfcp_enum.h, pfcp_ies.h, src/cp/pdn.h) *)

Definition SOURCE_INTERFACE_VALUE_ACCESS : Z := 0.
Definition SOURCE_INTERFACE_VALUE_CORE : Z := 1.
Definition SOURCE_INTERFACE_VALUE_UNKNOWN : Z := 3.
Definition UL_GATE_OPEN : Z := 0.
Definition UL_GATE_CLOSED : Z := 1.
Definition DL_GATE_OPEN : Z := 0.
Definition UPLINKDOWNLINK_TIME_UNIT_MINUTE : Z := 0.
Definition PDN_ADDR_ALLOC_CONTROL : Z := 2.
Definition PDN_ADDR_ALLOC_UPF : Z := 4.
Definition PRESENT : Z := 1.
Definition REQUESTACCEPTED : Z := 1.
Definition MANDATORYIEMISSING : Z := 66.
Definition CONDITIONALIEMISSING : Z := 67.
Definition INVALIDLENGTH : Z := 68.
Definition UP_PDIU : Z := 9.
Definition UP_TRACE : Z := 12.
Definition PDN_IP_TYPE_IPV4 : Z := 1.
Definition PDN_IP_TYPE_IPV6 : Z := 2.
Definition PDN_IP_TYPE_IPV4V6 : Z := 3.

(** [sizeof] of the packed structures. *)
Definition sizeof_ie_header : Z := 4.
Definition sizeof_octet_ie : Z := sizeof_ie_header + 1. (* one uint8_t member *)
Definition sizeof_u16_ie : Z := sizeof_ie_header + 2.
Definition sizeof_u32_ie : Z := sizeof_ie_header + 4.
Definition sizeof_rate_ie : Z := sizeof_ie_header + 10. (* two members of 40 bits *)
Definition sizeof_ntwk_inst_ie : Z := sizeof_ie_header + 32.
Definition sizeof_fteid_ie : Z := sizeof_ie_header + 26.
Definition sizeof_ue_ip_address_ie : Z := sizeof_ie_header + 22.
Definition sizeof_fseid_ie : Z := sizeof_ie_header + 29.
Definition sizeof_volume_ie : Z := sizeof_ie_header + 25. (* thresholds and quotas *)
Definition sizeof_rmt_gtpu_peer_ie : Z := sizeof_ie_header + 21.
Definition IPV4_SIZE : Z := 4.
Definition IPV6_SIZE : Z := 16.

(** [htonl] on the little-endian machine. *)
Definition htonl (v : Z) : Z := bswap32 v.

(** ** Headers *)

Definition pfcp_set_ie_header (type length : Z) : pfcp_ie_header_t := mk_ie_header (u8 type) (u16 length).

(** An element of which the header stays and the length changes. *)
Definition with_ie_len (len : Z) (h : pfcp_ie_header_t) : pfcp_ie_header_t := mk_ie_header h.(ie_type) (u16 len).

(** ** Elements *)

Definition set_bar_id : pfcp_bar_id_ie_t := mk_bar_id (pfcp_set_ie_header PFCP_IE_BAR_ID 1) 1.
Definition set_dl_data_notification_delay : pfcp_dnlnk_data_notif_delay_ie_t :=
  mk_dnlnk_data_notif_delay (pfcp_set_ie_header PFCP_IE_DNLNK_DATA_NOTIF_DELAY 1) 123.
Definition set_sgstd_buff_pkts_cnt : pfcp_suggstd_buf_pckts_cnt_ie_t :=
  mk_suggstd_buf_pckts_cnt (pfcp_set_ie_header PFCP_IE_DL_BUF_SUGGSTD_PCKT_CNT 1) 121.

Definition set_pdr_id : pfcp_pdr_id_ie_t * Z :=
  (mk_pdr_id (pfcp_set_ie_header PFCP_IE_PDR_ID (sizeof_u16_ie - sizeof_ie_header)) 0, sizeof_u16_ie).
Definition set_far_id : pfcp_far_id_ie_t * Z :=
  (mk_far_id (pfcp_set_ie_header PFCP_IE_FAR_ID (sizeof_u32_ie - sizeof_ie_header)) 0, sizeof_u32_ie).
Definition set_far_id_mbr : pfcp_far_id_ie_t * Z := (mk_far_id (pfcp_set_ie_header PFCP_IE_FAR_ID 4) 0, sizeof_u32_ie).
Definition set_urr_id : pfcp_urr_id_ie_t * Z := (mk_urr_id (pfcp_set_ie_header PFCP_IE_URR_ID 4) 0, sizeof_u32_ie).
Definition set_qer_id : pfcp_qer_id_ie_t * Z :=
  (mk_qer_id (pfcp_set_ie_header PFCP_IE_QER_ID (sizeof_u32_ie - sizeof_ie_header)) 0, sizeof_u32_ie).
Definition set_precedence : pfcp_precedence_ie_t * Z :=
  (mk_precedence (pfcp_set_ie_header PFCP_IE_PRECEDENCE (sizeof_u32_ie - sizeof_ie_header)) 0, sizeof_u32_ie).
Definition set_outer_hdr_removal : pfcp_outer_hdr_removal_ie_t * Z :=
  (mk_outer_hdr_removal (pfcp_set_ie_header PFCP_IE_OUTER_HDR_REMOVAL 1) 0, sizeof_octet_ie).
Definition set_qer_correl_id : pfcp_qer_corr_id_ie_t * Z :=
  (mk_qer_corr_id (pfcp_set_ie_header PFCP_IE_QER_CORR_ID (sizeof_u32_ie - sizeof_ie_header)) 0, sizeof_u32_ie).

Definition set_measurement_method (x : pfcp_meas_mthd_ie_t) : pfcp_meas_mthd_ie_t * Z :=
  (mk_meas_mthd (pfcp_set_ie_header PFCP_IE_MEAS_MTHD 1) x.(meas_mthd_spare) x.(meas_mthd_spare2) x.(meas_mthd_spare3)
     x.(meas_mthd_spare4) x.(meas_mthd_spare5) x.(meas_mthd_event) 0 x.(meas_mthd_durat), sizeof_octet_ie).
Definition set_reporting_triggers (x : pfcp_rptng_triggers_ie_t) : pfcp_rptng_triggers_ie_t * Z :=
  (mk_rptng_triggers (pfcp_set_ie_header PFCP_IE_RPTNG_TRIGGERS 2) x.(rptng_triggers_liusa) 0 x.(rptng_triggers_stopt)
     x.(rptng_triggers_start) x.(rptng_triggers_quhti) x.(rptng_triggers_timth) 0 0 x.(rptng_triggers_spare)
     x.(rptng_triggers_spare2) x.(rptng_triggers_evequ) x.(rptng_triggers_eveth) x.(rptng_triggers_macar)
     x.(rptng_triggers_envcl) x.(rptng_triggers_timqu) x.(rptng_triggers_volqu), sizeof_u16_ie).
Definition set_measurement_period : pfcp_meas_period_ie_t * Z :=
  (mk_meas_period (pfcp_set_ie_header PFCP_IE_MEAS_PERIOD 4) 0, sizeof_u32_ie).
Definition set_volume_threshold (x : pfcp_vol_thresh_ie_t) : pfcp_vol_thresh_ie_t * Z :=
  (mk_vol_thresh (pfcp_set_ie_header PFCP_IE_VOL_THRESH 9) x.(vol_thresh_spare) x.(vol_thresh_dlvol) x.(vol_thresh_ulvol)
     0 0 x.(vol_thresh_uplink_volume) x.(vol_thresh_downlink_volume), sizeof_volume_ie - 16).
Definition set_volume_quota (x : pfcp_volume_quota_ie_t) : pfcp_volume_quota_ie_t * Z :=
  (mk_volume_quota (pfcp_set_ie_header PFCP_IE_VOLUME_QUOTA 9) x.(volume_quota_vol_quota_spare) x.(volume_quota_dlvol)
     x.(volume_quota_ulvol) 0 0 x.(volume_quota_uplink_volume) x.(volume_quota_downlink_volume), sizeof_volume_ie - 16).
Definition set_quota_holding_time : pfcp_quota_hldng_time_ie_t * Z :=
  (mk_quota_hldng_time (pfcp_set_ie_header PFCP_IE_QUOTA_HLDNG_TIME 4) 0, sizeof_u32_ie).
Definition set_downlink_drop_traffic_threshold (x : pfcp_drpd_dl_traffic_thresh_ie_t)
    : pfcp_drpd_dl_traffic_thresh_ie_t * Z :=
  (mk_drpd_dl_traffic_thresh (pfcp_set_ie_header PFCP_IE_DRPD_DL_TRAFFIC_THRESH 17) x.(drpd_dl_traffic_thresh_spare)
     0 0 0 0, sizeof_ie_header + 17).
Definition set_far_id_quota_action : pfcp_far_id_ie_t * Z :=
  (mk_far_id (pfcp_set_ie_header PFCP_IE_FAR_ID 4) 0, sizeof_u32_ie).

Definition set_application_id : pfcp_application_id_ie_t :=
  mk_application_id (pfcp_set_ie_header PFCP_IE_APPLICATION_ID 8) [1; 2; 3; 4; 5; 6; 7; 8].
Definition set_source_intf : pfcp_src_intfc_ie_t * Z :=
  (mk_src_intfc (pfcp_set_ie_header PFCP_IE_SRC_INTFC 1) 0 SOURCE_INTERFACE_VALUE_ACCESS, sizeof_octet_ie).

(** The tunnel with an IPv4 address, which the callers overwrite. *)
Definition set_fteid (x : pfcp_fteid_ie_t) : pfcp_fteid_ie_t * Z :=
  let size := sizeof_fteid_ie - (IPV4_SIZE + IPV6_SIZE + 1) + IPV4_SIZE in
  (mk_fteid (pfcp_set_ie_header PFCP_IE_FTEID (size - sizeof_ie_header)) 0 0 0 0 1 1231 (htonl 3232236600)
     x.(fteid_ipv6_address) x.(fteid_choose_id), size).
Definition set_network_instance (x : pfcp_ntwk_inst_ie_t) : pfcp_ntwk_inst_ie_t * Z :=
  (mk_ntwk_inst (pfcp_set_ie_header PFCP_IE_NTWK_INST (sizeof_ntwk_inst_ie - sizeof_ie_header)) x.(ntwk_inst_ntwk_inst),
   sizeof_ntwk_inst_ie).
(** The address of the subscriber, or the request to choose one. *)
Definition set_ue_ip (x : pfcp_ue_ip_address_ie_t) (flags : Z) : pfcp_ue_ip_address_ie_t * Z :=
  let choose := Z.land flags PDN_ADDR_ALLOC_CONTROL =? 0 in
  let size := sizeof_ue_ip_address_ie - (IPV4_SIZE + IPV6_SIZE + 1) + (if choose then 0 else IPV4_SIZE) in
  (mk_ue_ip_address (pfcp_set_ie_header PFCP_IE_UE_IP_ADDRESS (size - sizeof_ie_header)) 0 (if choose then 1 else 0) 0 0
     (if choose then 0 else 1) 0 (if choose then x.(ue_ip_address_ipv4_address) else htonl 3232236600)
     x.(ue_ip_address_ipv6_address) x.(ue_ip_address_ipv6_pfx_dlgtn_bits), size).

Definition set_pdi (x : pfcp_pdi_ie_t) (ue_ip_flags : Z) : pfcp_pdi_ie_t * Z :=
  let '(src, s1) := set_source_intf in
  let '(fteid, s2) := set_fteid x.(pdi_local_fteid) in
  let '(inst, s3) := set_network_instance x.(pdi_ntwk_inst) in
  let '(ue_ip, s4) := set_ue_ip x.(pdi_ue_ip_address) ue_ip_flags in
  let size := s1 + s2 + s3 + s4 in
  (set_pdi_header (pfcp_set_ie_header PFCP_IE_PDI size)
     (set_pdi_ue_ip_address ue_ip (set_pdi_ntwk_inst inst (set_pdi_local_fteid fteid (set_pdi_src_intfc src x)))),
   size + sizeof_ie_header).

Definition set_activate_predefined_rules : pfcp_actvt_predef_rules_ie_t :=
  mk_actvt_predef_rules (pfcp_set_ie_header PFCP_IE_ACTVT_PREDEF_RULES 8)
    [80; 67; 67; 95; 82; 85; 76; 69]. (* "PCC_RULE" *)

Definition set_apply_action : pfcp_apply_action_ie_t * Z :=
  (mk_apply_action (pfcp_set_ie_header PFCP_IE_APPLY_ACTION 1) 0 0 0 0 0 0 0 0, 1).
(** The size is that of the members the IPv4 form has. *)
Definition set_outer_header_creation (x : pfcp_outer_hdr_creation_ie_t) : pfcp_outer_hdr_creation_ie_t * Z :=
  let len := 2 + 4 + 4 in
  (mk_outer_hdr_creation (pfcp_set_ie_header PFCP_IE_OUTER_HDR_CREATION len) 0x0100 0 0 x.(outer_hdr_creation_ipv6_address)
     x.(outer_hdr_creation_port_number) x.(outer_hdr_creation_ctag) x.(outer_hdr_creation_stag), len).
Definition set_destination_interface : pfcp_dst_intfc_ie_t * Z :=
  (mk_dst_intfc (pfcp_set_ie_header PFCP_IE_DST_INTFC 1) 0 5, 1).

Definition set_forwarding_param (x : pfcp_frwdng_parms_ie_t) : pfcp_frwdng_parms_ie_t * Z :=
  let '(dst, l1) := set_destination_interface in
  let '(hdr, l2) := set_outer_header_creation x.(frwdng_parms_outer_hdr_creation) in
  let len := l1 + l2 + 8 in
  (set_frwdng_parms_header (pfcp_set_ie_header PFCP_IE_FRWDNG_PARMS len)
     (set_frwdng_parms_outer_hdr_creation hdr (set_frwdng_parms_dst_intfc dst x)), len).
Definition set_upd_forwarding_param (x : pfcp_upd_frwdng_parms_ie_t) : pfcp_upd_frwdng_parms_ie_t * Z :=
  let '(dst, l1) := set_destination_interface in
  let '(hdr, l2) := set_outer_header_creation x.(upd_frwdng_parms_outer_hdr_creation) in
  let len := l1 + l2 + 8 in
  (set_upd_frwdng_parms_header (pfcp_set_ie_header PFCP_IE_UPD_FRWDNG_PARMS len)
     (set_upd_frwdng_parms_outer_hdr_creation hdr (set_upd_frwdng_parms_dst_intfc dst x)), len).

(** [len_of_trigrng_evnts=+ ...] assigns the sum.  The address is copied as four bytes
    into a member of one byte: the other three, which are returned, go into the memory
    behind the structure. *)
Definition set_trace_info : pfcp_trc_info_ie_t * list Z :=
  let length := 1 + 1 + 14 in
  (mk_trc_info (pfcp_set_ie_header PFCP_IE_TRC_INFO length) 2 1 6 3 5 4 11231 length 1 1 1 1 1 0,
   tail (le_bytes 4 (htonl 32))).

Definition set_up_inactivity_timer : pfcp_user_plane_inact_timer_ie_t :=
  mk_user_plane_inact_timer (pfcp_set_ie_header PFCP_IE_USER_PLANE_INACT_TIMER 4) 10.
Definition set_user_id (x : pfcp_user_id_ie_t) : pfcp_user_id_ie_t :=
  mk_user_id (pfcp_set_ie_header PFCP_IE_USER_ID 10) 0 0 0 0 1 8 [0x77; 0x77; 0x77; 0x77; 0x77; 0x77; 0x77; 0xf7]
    0 x.(user_id_imei) 0 x.(user_id_msisdn) 0 x.(user_id_nai).
Definition set_fseid (x : pfcp_fseid_ie_t) (seid nodeid_value : Z) : pfcp_fseid_ie_t :=
  mk_fseid (pfcp_set_ie_header PFCP_IE_FSEID (sizeof_fseid_ie - (sizeof_ie_header + IPV6_SIZE))) 0 0 0 0 0 0 1 0 seid
    (u32 nodeid_value) (<[0%nat := 0]> x.(fseid_ipv6_address)).

(** The role of the control plane before and after:
    [(cp_type == SAEGWC) || (cp_type = PGWC)] is always true, and assigns. *)
Definition role_after (ty : cp_type_t) : cp_type_t := match ty with SAEGWC => SAEGWC | _ => PGWC end.

(** [for(int i = 0; i < n; i++) size += set(&arr[i])] *)
Definition set_first {A} (set : A * Z) (n : Z) (arr : list A) : option (list A * Z) :=
  if (Z.to_nat n <=? length arr)%nat then Some (repeat set.1 (Z.to_nat n) ++ drop (Z.to_nat n) arr, set.2 * Z.of_nat (Z.to_nat n))
  else None.

(** ** Groups *)

Definition creating_pdr (ty : cp_type_t) (x : pfcp_create_pdr_ie_t) (source_iface_value ue_ip_flags : Z)
    : option (cp_type_t * pfcp_create_pdr_ie_t * Z) :=
  let '(id, s1) := set_pdr_id in
  let '(prec, s2) := set_precedence in
  let '(pdi, s3) := set_pdi x.(create_pdr_pdi) ue_ip_flags in
  let access := source_iface_value =? SOURCE_INTERFACE_VALUE_ACCESS in
  let '(removal, s4) := if access then set_outer_hdr_removal else (x.(create_pdr_outer_hdr_removal), 0) in
  let '(far, s5) := set_far_id in
  '(qers, s6) ← set_first set_qer_id x.(create_pdr_qer_id_count) x.(create_pdr_qer_id);
  '(urrs, s7) ← set_first set_urr_id x.(create_pdr_urr_id_count) x.(create_pdr_urr_id);
  let size := s1 + s2 + s3 + s4 + s5 + s6 + s7 in
  Some (role_after ty,
    set_create_pdr_header (pfcp_set_ie_header PFCP_IE_CREATE_PDR size)
      (set_create_pdr_urr_id urrs (set_create_pdr_qer_id qers (set_create_pdr_far_id far
        (set_create_pdr_outer_hdr_removal removal (set_create_pdr_pdi pdi (set_create_pdr_precedence prec
          (set_create_pdr_pdr_id id x))))))), size).

Definition creating_far (x : pfcp_create_far_ie_t) : pfcp_create_far_ie_t :=
  let '(id, l1) := set_far_id in
  let '(action, l2) := set_apply_action in
  set_create_far_header (pfcp_set_ie_header PFCP_IE_CREATE_FAR (l1 + l2 + 4))
    (set_create_far_apply_action action (set_create_far_far_id id x)).

(** The header gets the type of a Create PDR. *)
Definition updating_pdr (ty : cp_type_t) (gx_enabled : bool) (x : pfcp_update_pdr_ie_t) (source_iface_value : Z)
    : cp_type_t * pfcp_update_pdr_ie_t * Z :=
  let '(id, s1) := set_pdr_id in
  let '(prec, s2) := set_precedence in
  let '(pdi, s3) := set_pdi x.(update_pdr_pdi) 0 in
  let access := source_iface_value =? SOURCE_INTERFACE_VALUE_ACCESS in
  let '(removal, s4) := if access then set_outer_hdr_removal else (x.(update_pdr_outer_hdr_removal), 0) in
  let '(far, s5) := set_far_id in
  let '(qer, s6) := if gx_enabled then set_qer_id else (x.(update_pdr_qer_id), 0) in
  let size := s1 + s2 + s3 + s4 + s5 + s6 in
  (role_after ty,
   set_update_pdr_header (pfcp_set_ie_header PFCP_IE_CREATE_PDR size)
     (set_update_pdr_qer_id qer (set_update_pdr_far_id far (set_update_pdr_outer_hdr_removal removal
       (set_update_pdr_pdi pdi (set_update_pdr_precedence prec (set_update_pdr_pdr_id id x)))))), size).

Definition creating_bar : pfcp_create_bar_ie_t :=
  mk_create_bar (pfcp_set_ie_header PFCP_IE_CREATE_BAR (3 * sizeof_octet_ie)) set_bar_id set_dl_data_notification_delay
    set_sgstd_buff_pkts_cnt.

(** The second assignment of [ul_gate] was meant for [dl_gate]. *)
Definition set_gate_status (x : pfcp_gate_status_ie_t) : pfcp_gate_status_ie_t * Z :=
  (mk_gate_status (pfcp_set_ie_header PFCP_IE_GATE_STATUS 1) 0 DL_GATE_OPEN x.(gate_status_dl_gate), sizeof_octet_ie).
Definition set_mbr : pfcp_mbr_ie_t * Z :=
  (mk_mbr (pfcp_set_ie_header PFCP_IE_MBR (sizeof_rate_ie - sizeof_ie_header)) 1 1, sizeof_rate_ie).
Definition set_gbr : pfcp_gbr_ie_t * Z :=
  (mk_gbr (pfcp_set_ie_header PFCP_IE_GBR (sizeof_rate_ie - sizeof_ie_header)) 1 1, sizeof_rate_ie).
Definition set_packet_rate : pfcp_packet_rate_ie_t * Z :=
  (mk_packet_rate (pfcp_set_ie_header PFCP_IE_PACKET_RATE 7) 0 1 1 0 UPLINKDOWNLINK_TIME_UNIT_MINUTE 2 0
     UPLINKDOWNLINK_TIME_UNIT_MINUTE 2, sizeof_ie_header + 7).
Definition set_dl_flow_level_mark : pfcp_dl_flow_lvl_marking_ie_t * Z :=
  (mk_dl_flow_lvl_marking (pfcp_set_ie_header PFCP_IE_DL_FLOW_LVL_MARKING 5) 0 1 1 12 1, sizeof_ie_header + 5).
Definition set_qfi : pfcp_qfi_ie_t * Z := (mk_qfi (pfcp_set_ie_header PFCP_IE_QFI 1) 0 3, sizeof_octet_ie).
Definition set_rqi : pfcp_rqi_ie_t * Z := (mk_rqi (pfcp_set_ie_header PFCP_IE_RQI 1) 0 0, sizeof_octet_ie).

Definition creating_qer (x : pfcp_create_qer_ie_t) : pfcp_create_qer_ie_t :=
  let '(id, s1) := set_qer_id in
  let '(gate, s2) := set_gate_status x.(create_qer_gate_status) in
  let '(mbr, s3) := set_mbr in
  let '(gbr, s4) := set_gbr in
  let '(qfi, s5) := set_qfi in
  set_create_qer_header (pfcp_set_ie_header PFCP_IE_CREATE_QER (s1 + s2 + s3 + s4 + s5))
    (set_create_qer_qos_flow_ident qfi (set_create_qer_guaranteed_bitrate gbr (set_create_qer_maximum_bitrate mbr
      (set_create_qer_gate_status gate (set_create_qer_qer_id id x))))).

Definition updating_qer (x : pfcp_update_qer_ie_t) : pfcp_update_qer_ie_t :=
  let '(id, s1) := set_qer_id in
  let '(corr, s2) := set_qer_correl_id in
  let '(gate, s3) := set_gate_status x.(update_qer_gate_status) in
  let '(mbr, s4) := set_mbr in
  let '(gbr, s5) := set_gbr in
  let '(rate, s6) := set_packet_rate in
  let '(mark, s7) := set_dl_flow_level_mark in
  let '(qfi, s8) := set_qfi in
  let '(rqi, s9) := set_rqi in
  set_update_qer_header (pfcp_set_ie_header PFCP_IE_UPDATE_QER (s1 + s2 + s3 + s4 + s5 + s6 + s7 + s8 + s9))
    (set_update_qer_reflective_qos rqi (set_update_qer_qos_flow_ident qfi (set_update_qer_dl_flow_lvl_marking mark
      (set_update_qer_packet_rate rate (set_update_qer_guaranteed_bitrate gbr (set_update_qer_maximum_bitrate mbr
        (set_update_qer_gate_status gate (set_update_qer_qer_corr_id corr (set_update_qer_qer_id id x))))))))).

Definition creating_urr (x : pfcp_create_urr_ie_t) : pfcp_create_urr_ie_t :=
  let '(id, s1) := set_urr_id in
  let '(meth, s2) := set_measurement_method x.(create_urr_meas_mthd) in
  let '(trig, s3) := set_reporting_triggers x.(create_urr_rptng_triggers) in
  let '(thresh, s4) := set_volume_threshold x.(create_urr_vol_thresh) in
  let '(quota, s5) := set_volume_quota x.(create_urr_volume_quota) in
  set_create_urr_header (pfcp_set_ie_header PFCP_IE_CREATE_URR (s1 + s2 + s3 + s4 + s5))
    (set_create_urr_volume_quota quota (set_create_urr_vol_thresh thresh (set_create_urr_rptng_triggers trig
      (set_create_urr_meas_mthd meth (set_create_urr_urr_id id x))))).

Definition set_traffic_endpoint : pfcp_traffic_endpt_id_ie_t :=
  mk_traffic_endpt_id (pfcp_set_ie_header PFCP_IE_TRAFFIC_ENDPT_ID 1) 2.
Definition set_ethernet_pdu_sess_info : pfcp_eth_pdu_sess_info_ie_t :=
  mk_eth_pdu_sess_info (pfcp_set_ie_header PFCP_IE_ETH_PDU_SESS_INFO 1) 0 1.
Definition set_framed_routing : pfcp_framed_routing_ie_t :=
  mk_framed_routing (pfcp_set_ie_header PFCP_IE_FRAMED_ROUTING 4) 2.

Definition creating_traffic_endpoint (x : pfcp_create_traffic_endpt_ie_t) : pfcp_create_traffic_endpt_ie_t :=
  let size := sizeof_octet_ie + sizeof_fteid_ie + sizeof_ntwk_inst_ie + sizeof_ue_ip_address_ie + sizeof_octet_ie
              + sizeof_u32_ie - 18 in
  set_create_traffic_endpt_header (pfcp_set_ie_header PFCP_IE_CREATE_TRAFFIC_ENDPT size)
    (set_create_traffic_endpt_framed_routing set_framed_routing
      (set_create_traffic_endpt_eth_pdu_sess_info set_ethernet_pdu_sess_info
        (set_create_traffic_endpt_ue_ip_address (set_ue_ip x.(create_traffic_endpt_ue_ip_address) 0).1
          (set_create_traffic_endpt_ntwk_inst (set_network_instance x.(create_traffic_endpt_ntwk_inst)).1
            (set_create_traffic_endpt_local_fteid (set_fteid x.(create_traffic_endpt_local_fteid)).1
              (set_create_traffic_endpt_traffic_endpt_id set_traffic_endpoint x)))))).

Definition updating_bar : pfcp_upd_bar_sess_mod_req_ie_t :=
  mk_upd_bar_sess_mod_req (pfcp_set_ie_header PFCP_IE_UPD_BAR_SESS_MOD_REQ (u8 (3 * sizeof_octet_ie))) set_bar_id
    set_dl_data_notification_delay set_sgstd_buff_pkts_cnt.

Definition updating_far (x : pfcp_update_far_ie_t) : pfcp_update_far_ie_t :=
  let '(id, l1) := set_far_id_mbr in
  let '(action, l2) := set_apply_action in
  set_update_far_header (pfcp_set_ie_header PFCP_IE_UPDATE_FAR (l1 + l2 + 4))
    (set_update_far_apply_action action (set_update_far_far_id id x)).

Definition updating_traffic_endpoint (x : pfcp_upd_traffic_endpt_ie_t) : pfcp_upd_traffic_endpt_ie_t :=
  let size := u8 (u8 (sizeof_octet_ie + sizeof_fteid_ie + sizeof_ntwk_inst_ie + sizeof_ue_ip_address_ie + sizeof_u32_ie)
                  - 2 * IPV6_SIZE - 2) in
  set_upd_traffic_endpt_header (pfcp_set_ie_header PFCP_IE_UPD_TRAFFIC_ENDPT size)
    (set_upd_traffic_endpt_framed_routing set_framed_routing
      (set_upd_traffic_endpt_ue_ip_address (set_ue_ip x.(upd_traffic_endpt_ue_ip_address) 0).1
        (set_upd_traffic_endpt_ntwk_inst (set_network_instance x.(upd_traffic_endpt_ntwk_inst)).1
          (set_upd_traffic_endpt_local_fteid (set_fteid x.(upd_traffic_endpt_local_fteid)).1
            (set_upd_traffic_endpt_traffic_endpt_id set_traffic_endpoint x))))).

Definition removing_pdr : pfcp_remove_pdr_ie_t :=
  mk_remove_pdr (pfcp_set_ie_header PFCP_IE_REMOVE_PDR sizeof_u16_ie) set_pdr_id.1.
Definition removing_bar : pfcp_remove_bar_ie_t :=
  mk_remove_bar (pfcp_set_ie_header PFCP_IE_REMOVE_BAR sizeof_octet_ie) set_bar_id.
Definition removing_traffic_endpoint : pfcp_rmv_traffic_endpt_ie_t :=
  mk_rmv_traffic_endpt (pfcp_set_ie_header PFCP_IE_RMV_TRAFFIC_ENDPT sizeof_octet_ie) set_traffic_endpoint.

(** ** Flags, reports and load *)

Definition set_upf_features (x : pfcp_up_func_feat_ie_t) : pfcp_up_func_feat_ie_t :=
  mk_up_func_feat (pfcp_set_ie_header PFCP_IE_UP_FUNC_FEAT 2) 0 x.(up_func_feat_add_sup_feat1)
    x.(up_func_feat_add_sup_feat2).
Definition set_cpf_features : pfcp_cp_func_feat_ie_t := mk_cp_func_feat (pfcp_set_ie_header PFCP_IE_CP_FUNC_FEAT 1) 0.
Definition set_pfcpsmreqflags : pfcp_pfcpsmreq_flags_ie_t :=
  mk_pfcpsmreq_flags (pfcp_set_ie_header PFCP_IE_PFCPSMREQ_FLAGS 1) 0 0 0 0 0 0 0 0.
Definition set_query_urr_refernce : pfcp_query_urr_ref_ie_t :=
  mk_query_urr_ref (pfcp_set_ie_header PFCP_IE_QUERY_URR_REF 4) 3.
Definition set_pfcp_ass_rel_req : pfcp_up_assn_rel_req_ie_t :=
  mk_up_assn_rel_req (pfcp_set_ie_header PFCP_IE_UP_ASSN_REL_REQ 1) 0 0.
Definition set_graceful_release_period : pfcp_graceful_rel_period_ie_t :=
  mk_graceful_rel_period (pfcp_set_ie_header PFCP_IE_GRACEFUL_REL_PERIOD 1) 0 1.
Definition set_sequence_num : pfcp_sequence_number_ie_t :=
  mk_sequence_number (pfcp_set_ie_header PFCP_IE_SEQUENCE_NUMBER 4) 12.
Definition set_metric : pfcp_metric_ie_t := mk_metric (pfcp_set_ie_header PFCP_IE_METRIC 1) 2.
Definition set_period_of_validity : pfcp_timer_ie_t := mk_timer (pfcp_set_ie_header PFCP_IE_TIMER 1) 0 20.
Definition set_oci_flag : pfcp_oci_flags_ie_t := mk_oci_flags (pfcp_set_ie_header PFCP_IE_OCI_FLAGS 1) 0 1.
Definition set_offending_ie (offend_val : Z) : pfcp_offending_ie_ie_t :=
  mk_offending_ie (pfcp_set_ie_header PFCP_IE_OFFENDING_IE 2) (u16 offend_val).
Definition set_lci : pfcp_load_ctl_info_ie_t :=
  mk_load_ctl_info (pfcp_set_ie_header PFCP_IE_LOAD_CTL_INFO (sizeof_u32_ie + sizeof_octet_ie)) set_sequence_num set_metric.
Definition set_olci : pfcp_ovrld_ctl_info_ie_t :=
  mk_ovrld_ctl_info (pfcp_set_ie_header PFCP_IE_OVRLD_CTL_INFO (sizeof_u32_ie + 3 * sizeof_octet_ie)) set_sequence_num
    set_metric set_period_of_validity set_oci_flag.
Definition set_failed_rule_id (x : pfcp_failed_rule_id_ie_t) : pfcp_failed_rule_id_ie_t :=
  mk_failed_rule_id (pfcp_set_ie_header PFCP_IE_FAILED_RULE_ID 3) 0 RULE_ID_TYPE_PDR
    (<[1%nat := 2]> x.(failed_rule_id_rule_id_value)).
Definition set_traffic_endpoint_id : pfcp_traffic_endpt_id_ie_t :=
  mk_traffic_endpt_id (pfcp_set_ie_header PFCP_IE_TRAFFIC_ENDPT_ID 1) 12.
Definition set_pdr_id_ie : pfcp_pdr_id_ie_t * Z :=
  (mk_pdr_id (pfcp_set_ie_header PFCP_IE_PDR_ID (sizeof_u16_ie - sizeof_ie_header)) 12, sizeof_u16_ie).
Definition set_created_pdr_ie (x : pfcp_created_pdr_ie_t) : pfcp_created_pdr_ie_t * Z :=
  let '(id, s1) := set_pdr_id_ie in
  let '(fteid, s2) := set_fteid x.(created_pdr_local_fteid) in
  (set_created_pdr_header (pfcp_set_ie_header PFCP_IE_CREATED_PDR (s1 + s2))
     (set_created_pdr_local_fteid fteid (set_created_pdr_pdr_id id x)), s1 + s2 + sizeof_ie_header).
Definition set_created_traffic_endpoint (x : pfcp_created_traffic_endpt_ie_t) : pfcp_created_traffic_endpt_ie_t :=
  set_created_traffic_endpt_header (pfcp_set_ie_header PFCP_IE_CREATE_TRAFFIC_ENDPT 18)
    (set_created_traffic_endpt_local_fteid (set_fteid x.(created_traffic_endpt_local_fteid)).1
      (set_created_traffic_endpt_traffic_endpt_id set_traffic_endpoint_id x)).
Definition set_additional_usage (x : pfcp_add_usage_rpts_info_ie_t) : pfcp_add_usage_rpts_info_ie_t :=
  mk_add_usage_rpts_info (pfcp_set_ie_header PFCP_IE_ADD_USAGE_RPTS_INFO 2) 0 12
    x.(add_usage_rpts_info_nbr_of_add_usage_rpts_value2).
Definition set_node_report_type : pfcp_node_rpt_type_ie_t :=
  mk_node_rpt_type (pfcp_set_ie_header PFCP_IE_NODE_RPT_TYPE 1) 0 0.
Definition set_remote_gtpu_peer_ip (x : pfcp_rmt_gtpu_peer_ie_t) : pfcp_rmt_gtpu_peer_ie_t :=
  mk_rmt_gtpu_peer (pfcp_set_ie_header PFCP_IE_RMT_GTPU_PEER (sizeof_rmt_gtpu_peer_ie - (IPV6_SIZE + sizeof_ie_header)))
    x.(rmt_gtpu_peer_spare) 1 0 (htonl 3211236600) x.(rmt_gtpu_peer_ipv6_address).
Definition set_user_plane_path_failure_report (x : pfcp_user_plane_path_fail_rpt_ie_t)
    : pfcp_user_plane_path_fail_rpt_ie_t :=
  mk_user_plane_path_fail_rpt (pfcp_set_ie_header PFCP_IE_USER_PLANE_PATH_FAIL_RPT sizeof_rmt_gtpu_peer_ie) 2
    (alter set_remote_gtpu_peer_ip 1%nat (alter set_remote_gtpu_peer_ip 0%nat x.(user_plane_path_fail_rpt_rmt_gtpu_peer))).

(** [ipv4] and [ipv6] are members of one bit, so the second comparison never holds. *)
Definition set_pdn_type (x : pfcp_pdn_type_ie_t) (ipv4 ipv6 : Z) : pfcp_pdn_type_ie_t :=
  mk_pdn_type (pfcp_set_ie_header PFCP_IE_PDN_TYPE 1) 0
    (if ipv4 =? PDN_IP_TYPE_IPV4 then PDN_IP_TYPE_IPV4
     else if ipv6 =? PDN_IP_TYPE_IPV6 then PDN_IP_TYPE_IPV6
     else if (ipv4 =? PDN_IP_TYPE_IPV4) && (ipv6 =? PDN_IP_TYPE_IPV6) then PDN_IP_TYPE_IPV4V6
     else x.(pdn_type_pdn_type)).

(** ** Checks of received requests *)

Definition NODE_ID_IPV4_LEN : Z := 5.
Definition NODE_ID_IPV6_LEN : Z := 9.
Definition RECOV_TIMESTAMP_LEN : Z := 4.
Definition CP_FSEID_LEN : Z := 13.
Definition DELETE_SESSION_HEADER_LEN : Z := 12.

(** The cause and the offending element, [cause_id] and [offend_id]. *)
Definition verdict : Type := Z * Z.
Definition accepted : verdict := (REQUESTACCEPTED, 0).
Definition missing (cause code : Z) (_ : verdict) : verdict := (cause, code).
Definition bad_length (v : verdict) : verdict := (INVALIDLENGTH, v.2).

Definition check_node_id (x : pfcp_node_id_ie_t) (v : verdict) : verdict :=
  let len := x.(node_id_header).(ie_len) in
  if len =? 0 then missing MANDATORYIEMISSING PFCP_IE_NODE_ID v
  else if (x.(node_id_type) =? 0) && negb (NODE_ID_IPV4_LEN =? len) then bad_length v
  else if (x.(node_id_type) =? 1) && negb (NODE_ID_IPV6_LEN =? len) then bad_length v
  else v.
Definition check_length (cause code len want : Z) (v : verdict) : verdict :=
  if len =? 0 then missing cause code v else if negb (len =? want) then bad_length v else v.

Definition cause_check_association (req : pfcp_assn_setup_req_t) : verdict :=
  let v := check_node_id req.(assn_setup_req_node_id) accepted in
  check_length MANDATORYIEMISSING PFCP_IE_RCVRY_TIME_STMP
    req.(assn_setup_req_rcvry_time_stmp).(rcvry_time_stmp_header).(ie_len) RECOV_TIMESTAMP_LEN v.

(** One turn of the loops over the FARs and the PDRs: [Some] ends the whole check. *)
Definition check_far (x : pfcp_create_far_ie_t) : option Z :=
  if x.(create_far_far_id).(far_id_header).(ie_len) =? 0 then Some PFCP_IE_FAR_ID
  else if x.(create_far_apply_action).(apply_action_header).(ie_len) =? 0 then Some PFCP_IE_APPLY_ACTION
  else None.
Definition check_pdr (x : pfcp_create_pdr_ie_t) : option Z :=
  if x.(create_pdr_pdr_id).(pdr_id_header).(ie_len) =? 0 then Some PFCP_IE_PDR_ID
  else if x.(create_pdr_precedence).(precedence_header).(ie_len) =? 0 then Some PFCP_IE_PRECEDENCE
  else if x.(create_pdr_pdi).(pdi_header).(ie_len) =? 0 then Some PFCP_IE_PDI
  else if x.(create_pdr_pdi).(pdi_src_intfc).(src_intfc_header).(ie_len) =? 0 then Some PFCP_IE_SRC_INTFC
  else None.
(** The first element of an array that fails; an index behind the array has no result. *)
Fixpoint check_first {A} (check : A -> option Z) (n : nat) (l : list A) : option (option Z) :=
  match n, l with
  | O, _ => Some None
  | S n', x :: l' => match check x with Some code => Some (Some code) | None => check_first check n' l' end
  | S _, [] => None
  end.

Definition cause_check_sess_estab (req : pfcp_sess_estab_req_t) : option verdict :=
  let v := check_node_id req.(sess_estab_req_node_id) accepted in
  let v := check_length MANDATORYIEMISSING PFCP_IE_FSEID req.(sess_estab_req_cp_fseid).(fseid_header).(ie_len)
             CP_FSEID_LEN v in
  let pdrs v :=
    if req.(sess_estab_req_create_pdr_count) =? 0 then Some (missing MANDATORYIEMISSING PFCP_IE_PDR_ID v)
    else
      r ← check_first check_pdr (Z.to_nat req.(sess_estab_req_create_pdr_count)) req.(sess_estab_req_create_pdr);
      Some (match r with Some code => missing MANDATORYIEMISSING code v | None => v end) in
  if req.(sess_estab_req_create_far_count) =? 0 then pdrs (missing MANDATORYIEMISSING PFCP_IE_FAR_ID v)
  else
    r ← check_first check_far (Z.to_nat req.(sess_estab_req_create_far_count)) req.(sess_estab_req_create_far);
    match r with Some code => Some (missing MANDATORYIEMISSING code v) | None => pdrs v end.

Definition cause_check_sess_modification (up_supported_features : Z) (req : pfcp_sess_mod_req_t) : verdict :=
  let v := check_length CONDITIONALIEMISSING PFCP_IE_FSEID req.(sess_mod_req_cp_fseid).(fseid_header).(ie_len)
             CP_FSEID_LEN accepted in
  if nz (Z.land up_supported_features UP_PDIU) then
    let v := if req.(sess_mod_req_rmv_traffic_endpt).(rmv_traffic_endpt_header).(ie_len) =? 0
             then missing CONDITIONALIEMISSING PFCP_IE_RMV_TRAFFIC_ENDPT v else v in
    if req.(sess_mod_req_create_traffic_endpt).(create_traffic_endpt_header).(ie_len) =? 0
    then missing CONDITIONALIEMISSING PFCP_IE_CREATE_TRAFFIC_ENDPT v else v
  else v.

Definition cause_check_delete_session (req : pfcp_sess_del_req_t) : verdict :=
  check_length MANDATORYIEMISSING PFCP_IE_FSEID req.(sess_del_req_header).(header_message_len) DELETE_SESSION_HEADER_LEN
    accepted.
