(* ===== verification/Text.v ===== *)
(** * Texts: C strings, decimal numbers, session identifiers and filter rules

    The functions on strings of src/cp/pfcp/common/pfcp_init.c ([int_to_str]),
    src/cp/gx/gx_interface.c (the session identifier of the Gx interface) and
    src/cp/gx/pfcp_gx.c ([fill_sdf_strctr], which reads an IP filter rule), with what they
    use of the C library.  A text is a list of bytes without its final zero; [None] stands
    for a read or write outside an array, a pointer that was never set, and a number that
    does not fit an [int]. *)

From Stdlib Require Import String Ascii.
From stdpp Require Import list.
From S2P Require Import Prelude EncDecBits.

Open Scope Z_scope.
#[local] Set Primitive Projections.

(** ** The C library *)

Definition str_bytes (t : string) : list Z := (fun a => Z.of_N (N_of_ascii a)) <$> String.list_ascii_of_string t.

(** The text at the start of an array. *)
Fixpoint c_str (l : list Z) : option (list Z) :=
  match l with
  | [] => None
  | c :: l' => if c =? 0 then Some [] else t ← c_str l'; Some (c :: t)
  end.

Definition is_digit (c : Z) : bool := (48 <=? c) && (c <=? 57).
Definition is_space (c : Z) : bool := (c =? 32) || ((9 <=? c) && (c <=? 13)).

Fixpoint digits_value (acc : Z) (l : list Z) : Z :=
  match l with
  | [] => acc
  | c :: l' => if is_digit c then digits_value (10 * acc + (c - 48)) l' else acc
  end.
Fixpoint skip_spaces (l : list Z) : list Z :=
  match l with
  | [] => []
  | c :: l' => if is_space c then skip_spaces l' else l
  end.
(** [atoi]; a value outside [int] is undefined. *)
Definition atoi (l : list Z) : option Z :=
  let v := match skip_spaces l with
           | [] => 0
           | c :: l' => if c =? 45 then - digits_value 0 l'
                        else if c =? 43 then digits_value 0 l' else digits_value 0 (c :: l')
           end in
  if (- 2 ^ 31 <=? v) && (v <? 2 ^ 31) then Some v else None.

(** [strtok_r] with one delimiter: the token and what is left of the text. *)
Fixpoint skip_char (d : Z) (l : list Z) : list Z :=
  match l with
  | [] => []
  | c :: l' => if c =? d then skip_char d l' else l
  end.
Fixpoint until_char (d : Z) (l : list Z) : list Z * list Z :=
  match l with
  | [] => ([], [])
  | c :: l' => if c =? d then ([], l') else let '(t, r) := until_char d l' in (c :: t, r)
  end.
Definition strtok_r (d : Z) (l : list Z) : option (list Z * list Z) :=
  match skip_char d l with [] => None | l' => Some (until_char d l') end.

(** [inet_pton(AF_INET)]: four decimal numbers up to 255 without leading zeros, separated
    by dots; the address is returned in the order of the bytes of the message. *)
Definition octet_of (l : list Z) : option Z :=
  match l with
  | [] => None
  | c :: rest =>
      if forallb is_digit l && ((length rest =? 0)%nat || negb (c =? 48)) && (length l <=? 3)%nat then
        let v := digits_value 0 l in if v <=? 255 then Some v else None
      else None
  end.
Fixpoint inet_octets (n : nat) (l : list Z) : option (list Z) :=
  match n with
  | O => None
  | S O => v ← octet_of l; Some [v]
  | S n' =>
      let '(t, r) := until_char 46 l in
      v ← octet_of t; vs ← inet_octets n' r; Some (v :: vs)
  end.
Definition inet_pton (l : list Z) : option Z :=
  bs ← inet_octets 4 l; Some (of_le_bytes bs).

Definition starts_with (p l : list Z) : bool := bool_decide (take (length p) l = p).
Definition contains (d : Z) (l : list Z) : bool := existsb (Z.eqb d) l.

(** ** Decimal numbers (pfcp_init.c) *)

(** The loop that divides by ten; a [uint32_t] has at most ten digits. *)
Fixpoint rev_digits (n : nat) (val : Z) : list Z :=
  match n with
  | O => []
  | S n' => if val =? 0 then [] else (val mod 10 + 48) :: rev_digits n' (val / 10)
  end.
(** The digits go through [tmp_buf\[10\]], which has no room for the zero behind ten of them. *)
Definition int_to_str (val : Z) : option (list Z) :=
  let tmp_buf := rev_digits 10 val in
  if (length tmp_buf <? 10)%nat then Some (rev tmp_buf) else None.

(** ** Session identifiers (gx_interface.c) *)

Definition MAX_SESS_ID_LEN : nat := 128.
Definition TIMESTAMP_LEN : nat := 14.

(** The result and the text that is written. *)
Definition gen_sess_id_string (timestamp : list Z) (value : Z) : option (Z * list Z) :=
  buf ← int_to_str value;
  Some (match buf with [] => (-1, []) | _ => (0, timestamp ++ buf) end).

(** The call id is what stands behind the time stamp. *)
Definition retrieve_call_id (str : list Z) : option (Z * Z) :=
  buf ← c_str (drop TIMESTAMP_LEN str);
  if (length buf <? MAX_SESS_ID_LEN)%nat then
    v ← atoi buf;
    let call_id := u32 v in
    Some (if call_id =? 0 then -1 else 0, call_id)
  else None.

(** ** Filter rules (pfcp_gx.c) *)

Record sdf_pkt_fltr_t := mk_fltr {
  proto_id : Z;
  proto_mask : Z;
  flt_direction : Z; (* direction *)
  flt_action : Z; (* action *)
  local_ip_mask : Z;
  remote_ip_mask : Z;
  local_port_low : Z;
  local_port_high : Z;
  remote_port_low : Z;
  remote_port_high : Z;
  local_ip_addr : Z; (* s_addr *)
  remote_ip_addr : Z;
}.
Definition zero_fltr : sdf_pkt_fltr_t := mk_fltr 0 0 0 0 0 0 0 0 0 0 0 0.

(** The members that are assigned. *)
Definition set_proto_id (v : Z) (p : sdf_pkt_fltr_t) : sdf_pkt_fltr_t :=
  mk_fltr v p.(proto_mask) p.(flt_direction) p.(flt_action) p.(local_ip_mask) p.(remote_ip_mask) p.(local_port_low)
    p.(local_port_high) p.(remote_port_low) p.(remote_port_high) p.(local_ip_addr) p.(remote_ip_addr).
Definition set_flt_direction (v : Z) (p : sdf_pkt_fltr_t) : sdf_pkt_fltr_t :=
  mk_fltr p.(proto_id) p.(proto_mask) v p.(flt_action) p.(local_ip_mask) p.(remote_ip_mask) p.(local_port_low)
    p.(local_port_high) p.(remote_port_low) p.(remote_port_high) p.(local_ip_addr) p.(remote_ip_addr).
(** An address or a mask that is not given stays as it is. *)
Definition set_local_addr (a : option Z * option Z) (p : sdf_pkt_fltr_t) : sdf_pkt_fltr_t :=
  mk_fltr p.(proto_id) p.(proto_mask) p.(flt_direction) p.(flt_action) (default p.(local_ip_mask) a.2) p.(remote_ip_mask)
    p.(local_port_low) p.(local_port_high) p.(remote_port_low) p.(remote_port_high) (default p.(local_ip_addr) a.1)
    p.(remote_ip_addr).
Definition set_remote_addr (a : option Z * option Z) (p : sdf_pkt_fltr_t) : sdf_pkt_fltr_t :=
  mk_fltr p.(proto_id) p.(proto_mask) p.(flt_direction) p.(flt_action) p.(local_ip_mask) (default p.(remote_ip_mask) a.2)
    p.(local_port_low) p.(local_port_high) p.(remote_port_low) p.(remote_port_high) p.(local_ip_addr)
    (default p.(remote_ip_addr) a.1).
Definition set_local_ports (a : Z * Z) (p : sdf_pkt_fltr_t) : sdf_pkt_fltr_t :=
  mk_fltr p.(proto_id) p.(proto_mask) p.(flt_direction) p.(flt_action) p.(local_ip_mask) p.(remote_ip_mask)
    (u16 a.1) (u16 a.2) p.(remote_port_low) p.(remote_port_high) p.(local_ip_addr) p.(remote_ip_addr).
Definition set_remote_ports (a : Z * Z) (p : sdf_pkt_fltr_t) : sdf_pkt_fltr_t :=
  mk_fltr p.(proto_id) p.(proto_mask) p.(flt_direction) p.(flt_action) p.(local_ip_mask) p.(remote_ip_mask)
    p.(local_port_low) p.(local_port_high) (u16 a.1) (u16 a.2) p.(local_ip_addr) p.(remote_ip_addr).

(** The macro: the first token with the given delimiter, the others with spaces, into an
    array of [max] pointers. *)
Fixpoint words (n : nat) (l : list Z) : list (list Z) :=
  match n with
  | O => []
  | S n' => match strtok_r 32 l with None => [] | Some (t, r) => t :: words n' r end
  end.
Definition STRTOK_RESULT (max : nat) (delim : Z) (source : list Z) : option (list (list Z)) :=
  let dest := match strtok_r delim source with None => [] | Some (t, r) => t :: words (length r) r end in
  if (length dest <=? max)%nat then Some dest else None.

(** [strncpy(ip_str, fld, strlen(fld))] into [char\[32\]] without a final zero: what was in
    the array before ([dirty]) follows. *)
Definition copy_field (dirty fld : list Z) : option (list Z) :=
  if (length fld <=? 32)%nat then c_str (fld ++ drop (length fld) (resize 32 0 dirty)) else None.

Definition filter_address (dirty fld : list Z) : option (option Z * option Z) :=
  if contains 47 fld then
    ip_str ← copy_field dirty fld;
    ip_fld ← STRTOK_RESULT 2 47 ip_str;
    addr ← ip_fld !! 0%nat;
    mask ← ip_fld !! 1%nat;
    v ← atoi mask;
    Some (inet_pton addr, Some (u8 v))
  else Some (inet_pton fld, None).

Definition filter_ports (dirty fld : list Z) : option (Z * Z) :=
  if contains 45 fld then
    port_str ← copy_field dirty fld;
    port_fld ← STRTOK_RESULT 2 45 port_str;
    low ← port_fld !! 0%nat; l ← atoi low;
    high ← port_fld !! 1%nat; h ← atoi high;
    Some (l, h)
  else v ← atoi fld; Some (v, v).

(** The loop over the tokens; [dirty] is what the four arrays held. *)
Fixpoint sdf_fields (ipv4 : Z) (dirty : list Z) (indx offset : nat) (str_fld : list (list Z)) (p : sdf_pkt_fltr_t)
    : option (Z * sdf_pkt_fltr_t) :=
  match str_fld with
  | [] => Some (0, p)
  | fld :: rest =>
      let next := sdf_fields ipv4 dirty (S indx) in
      if (indx =? 0)%nat then
        if starts_with (str_bytes "permit") fld then next offset rest p else Some (-1, p)
      else if (indx =? 2)%nat then
        v ← atoi fld; next offset rest (set_proto_id (u8 v) p)
      else if (indx =? 4)%nat then
        if starts_with (str_bytes "any") fld then next offset rest p
        else a ← filter_address dirty fld; next offset rest (set_local_addr a p)
      else if (indx =? 5)%nat then
        if starts_with (str_bytes "to") fld then next (S offset) rest p
        else a ← filter_ports dirty fld; next offset rest (set_local_ports a p)
      else if (indx + offset =? 7)%nat then
        if starts_with (str_bytes "any") fld then next offset rest p
        else if starts_with (str_bytes "assigned") fld then next offset rest (set_remote_addr (Some ipv4, Some 32) p)
        else a ← filter_address dirty fld; next offset rest (set_remote_addr a p)
      else if (indx + offset =? 8)%nat then
        a ← filter_ports dirty fld; next offset rest (set_remote_ports a p)
      else next offset rest p
  end.

Definition NUM_VALS : nat := 9.
(** The text is copied to a [char\[512\]]. *)
Definition fill_sdf_strctr (ipv4 : Z) (dirty temp_str : list Z) (pkt_filter : sdf_pkt_fltr_t) : option (Z * sdf_pkt_fltr_t) :=
  str ← c_str temp_str;
  if (length str <? 512)%nat then
    str_fld ← STRTOK_RESULT NUM_VALS 32 str;
    sdf_fields ipv4 dirty 0 0 str_fld pkt_filter
  else None.

(** ** Decimal numbers are read back *)

Lemma c_str_text t rest : Forall (fun c => 0 < c < 256) t -> c_str (t ++ 0 :: rest) = Some t.
Proof.
  induction 1 as [|c t Hc HF IH]; [done|]. cbn [c_str app]. rewrite (proj2 (Z.eqb_neq _ _)) by lia. by rewrite IH.
Qed.

Definition digit_text (l : list Z) : Prop := Forall (fun c => 48 <= c <= 57) l.
Lemma is_digit_spec c : is_digit c = true <-> 48 <= c <= 57.
Proof. unfold is_digit. rewrite andb_true_iff. lia. Qed.

Lemma digits_value_app acc l1 l2 : digit_text l1 -> digits_value acc (l1 ++ l2) = digits_value (digits_value acc l1) l2.
Proof.
  intros HF. revert acc. induction HF as [|c l Hc HF IH]; intros acc; [done|]. cbn [digits_value app].
  rewrite (proj2 (is_digit_spec c)) by done. apply IH.
Qed.
Lemma digits_value_stop acc l : (∀ c, head l = Some c -> is_digit c = false) -> digits_value acc l = acc.
Proof. destruct l as [|c l]; [done|]. cbn [digits_value]. intros ->; done. Qed.

Lemma rev_digits_text n val : 0 <= val -> digit_text (rev_digits n val).
Proof.
  revert val. induction n as [|n IH]; intros val Hv; [constructor|]. cbn [rev_digits].
  destruct (val =? 0); constructor; [|apply IH; apply Z.div_pos; lia]. pose proof (Z.mod_pos_bound val 10). lia.
Qed.
Lemma rev_digits_value n val : 0 <= val < 10 ^ Z.of_nat n -> digits_value 0 (rev (rev_digits n val)) = val.
Proof.
  revert val. induction n as [|n IH]; intros val Hv; [cbn in *; lia|]. cbn [rev_digits].
  destruct (Z.eqb_spec val 0) as [->|Hz]; [done|]. cbn [rev]. rewrite Nat2Z.inj_succ, Z.pow_succ_r in Hv by lia.
  assert (0 <= val / 10 < 10 ^ Z.of_nat n) as Hd by (split; [apply Z.div_pos; lia|apply Z.div_lt_upper_bound; lia]).
  rewrite digits_value_app by (apply Forall_rev, rev_digits_text; lia). rewrite (IH _ Hd). cbn [digits_value].
  pose proof (Z.mod_pos_bound val 10 ltac:(lia)). rewrite (proj2 (is_digit_spec _)) by lia.
  pose proof (Z.div_mod val 10). lia.
Qed.
(** The number of digits. *)
Lemma rev_digits_length n k val : 0 <= val < 10 ^ Z.of_nat k -> (length (rev_digits n val) <= k)%nat.
Proof.
  revert k val. induction n as [|n IH]; intros k val Hv; [cbn; lia|]. cbn [rev_digits].
  destruct (Z.eqb_spec val 0) as [->|Hz]; [cbn; lia|]. destruct k as [|k]; [cbn in Hv; lia|].
  rewrite Nat2Z.inj_succ, Z.pow_succ_r in Hv by lia. cbn [length]. apply le_n_S, IH.
  split; [apply Z.div_pos; lia|apply Z.div_lt_upper_bound; lia].
Qed.
Lemma rev_digits_full k val : 10 ^ Z.of_nat k <= val -> length (rev_digits (S k) val) = S k.
Proof.
  revert val. induction k as [|k IH]; intros val Hv.
  - cbn [rev_digits]. cbn in Hv. by rewrite (proj2 (Z.eqb_neq val 0)) by lia.
  - assert (0 < 10 ^ Z.of_nat (S k)) by (apply Z.pow_pos_nonneg; lia).
    change (rev_digits (S (S k)) val) with (if val =? 0 then [] else (val mod 10 + 48) :: rev_digits (S k) (val / 10)).
    rewrite (proj2 (Z.eqb_neq val 0)) by lia. cbn [length]. f_equal. apply IH.
    rewrite Nat2Z.inj_succ, Z.pow_succ_r in Hv by lia. apply Z.div_le_lower_bound; lia.
Qed.

(** A number up to nine digits long, followed by something that is no digit. *)
Lemma atoi_digits l r v : digit_text l -> l ≠ [] -> digits_value 0 l = v -> v < 2 ^ 31 -> 0 <= v ->
  (∀ c, head r = Some c -> is_digit c = false) -> atoi (l ++ r) = Some v.
Proof.
  intros HF Hne Hv Hm H0 Hr.
  assert (digits_value 0 (l ++ r) = v) as E by (rewrite digits_value_app by done; rewrite Hv; by apply digits_value_stop).
  destruct HF as [|c l Hc HF]; [done|]. unfold atoi. cbn [app] in *. cbn [skip_spaces]. unfold is_space.
  rewrite (proj2 (Z.eqb_neq c 32)), (proj2 (Z.leb_gt c 13)), andb_false_r by lia. cbn [orb].
  rewrite (proj2 (Z.eqb_neq c 45)), (proj2 (Z.eqb_neq c 43)) by lia. rewrite E.
  by rewrite (proj2 (Z.leb_le _ _)), (proj2 (Z.ltb_lt _ _)) by lia.
Qed.

Lemma digit_text_rev l : digit_text l -> digit_text (rev l).
Proof. apply Forall_rev. Qed.
Lemma rev_digits_nonempty n val : val ≠ 0 -> rev (rev_digits (S n) val) ≠ [].
Proof.
  intros Hv H. apply (f_equal (@length Z)) in H. rewrite length_rev in H. cbn [rev_digits] in H.
  by rewrite (proj2 (Z.eqb_neq _ _) Hv) in H.
Qed.
Lemma digit_text_c_str l : digit_text l -> c_str (l ++ 0 :: []) = Some l.
Proof. intros HF. apply c_str_text. eapply list.Forall_impl; [exact HF|]. cbn. lia. Qed.

(** The session identifier of a call, a time stamp of 14 characters and the call id, gives
    the call id back, for call ids below 10^9; there is no identifier for call id 0, and
    for a call id of ten digits the conversion writes behind its buffer. *)
Theorem session_id_roundtrip timestamp call_id rest :
  length timestamp = TIMESTAMP_LEN -> 0 <= call_id < 2 ^ 32 ->
  (call_id = 0 -> gen_sess_id_string timestamp call_id = Some (-1, [])) ∧
  (0 < call_id < 10 ^ 9 -> ∃ id, gen_sess_id_string timestamp call_id = Some (0, id) ∧
     retrieve_call_id (id ++ 0 :: rest) = Some (0, call_id)) ∧
  (10 ^ 9 <= call_id -> gen_sess_id_string timestamp call_id = None).
Proof.
  intros Ht Hc. split; [by intros ->|]. split.
  - intros [H0 H9]. set (l := rev (rev_digits 10 call_id)).
    assert (l ≠ []) as Hne by (apply rev_digits_nonempty; lia).
    assert (digit_text l) as Hd by (apply digit_text_rev, rev_digits_text; lia).
    assert (digits_value 0 l = call_id) as Hv by (apply rev_digits_value; lia).
    pose proof (rev_digits_length 10 9 call_id ltac:(lia)) as Hl.
    exists (timestamp ++ l). split.
    + unfold gen_sess_id_string, int_to_str. rewrite (proj2 (Nat.ltb_lt _ _)) by lia. fold l. cbn [mbind option_bind].
      by destruct l.
    + unfold retrieve_call_id. rewrite <- app_assoc, <- Ht, drop_app_length.
      rewrite c_str_text by (eapply list.Forall_impl; [exact Hd|]; cbn; lia). cbn [mbind option_bind].
      rewrite (proj2 (Nat.ltb_lt _ _)) by (unfold l, MAX_SESS_ID_LEN; rewrite length_rev; lia).
      pose proof (atoi_digits l [] call_id Hd Hne Hv ltac:(lia) ltac:(lia) ltac:(done)) as E.
      rewrite app_nil_r in E. rewrite E. cbn [mbind option_bind]. rewrite uwrap_small by lia.
      by rewrite (proj2 (Z.eqb_neq _ _)) by lia.
  - intros H9. unfold gen_sess_id_string, int_to_str. by rewrite (rev_digits_full 9 call_id) by lia.
Qed.
Lemma session_id_roundtrip_witness :
  ∃ id, gen_sess_id_string (str_bytes "20200101120000") 734 = Some (0, id) ∧
    retrieve_call_id (id ++ 0 :: []) = Some (0, 734).
Proof.
  destruct (session_id_roundtrip (str_bytes "20200101120000") 734 []) as (_ & H & _); [reflexivity|lia|].
  apply H. lia.
Defined.

(** ** The tokens of a rule *)

(** Words separated by single spaces. *)
Fixpoint join_words (ts : list (list Z)) : list Z :=
  match ts with [] => [] | [t] => t | t :: ts' => t ++ 32 :: join_words ts' end.
(** A word: not empty, without [d] and zero. *)
Definition word (t : list Z) : Prop := t ≠ [] ∧ Forall (fun c => 0 < c < 256 ∧ c ≠ 32) t.

Lemma until_char_end d t : Forall (fun c => c ≠ d) t -> until_char d t = (t, []).
Proof. induction 1 as [|c t Hc HF IH]; [done|]. cbn. by rewrite (proj2 (Z.eqb_neq _ _) Hc), IH. Qed.
Lemma until_char_found d t r : Forall (fun c => c ≠ d) t -> until_char d (t ++ d :: r) = (t, r).
Proof.
  induction 1 as [|c t Hc HF IH]; cbn; [by rewrite Z.eqb_refl|]. by rewrite (proj2 (Z.eqb_neq _ _) Hc), IH.
Qed.
Lemma skip_char_none d t r : t ≠ [] -> Forall (fun c => c ≠ d) t -> skip_char d (t ++ r) = t ++ r.
Proof. intros Hne. destruct 1 as [|c t Hc HF]; [done|]. cbn. by rewrite (proj2 (Z.eqb_neq _ _) Hc). Qed.
Lemma strtok_end d t : t ≠ [] -> Forall (fun c => c ≠ d) t -> strtok_r d t = Some (t, []).
Proof.
  intros Hne HF. unfold strtok_r. pose proof (skip_char_none d t [] Hne HF) as E. rewrite app_nil_r in E. rewrite E.
  pose proof (until_char_end d t HF) as Eu. destruct t; [done|]. by rewrite Eu.
Qed.
Lemma strtok_found d t r : t ≠ [] -> Forall (fun c => c ≠ d) t -> strtok_r d (t ++ d :: r) = Some (t, r).
Proof.
  intros Hne HF. unfold strtok_r. rewrite skip_char_none by done.
  pose proof (until_char_found d t r HF) as Eu. destruct t; [done|]. cbn [app] in *. by rewrite Eu.
Qed.
Lemma word_no_space t : word t -> Forall (fun c => c ≠ 32) t.
Proof. intros [_ HF]. eapply list.Forall_impl; [exact HF|]. by intros c [_ H]. Qed.

Lemma words_join n ts : Forall word ts -> (length (join_words ts) <= n)%nat -> words n (join_words ts) = ts.
Proof.
  revert n. induction ts as [|t ts IH]; intros n HF Hn; [by destruct n|]. inversion_clear HF as [|? ? Ht Hts].
  pose proof (word_no_space t Ht) as Hs. destruct Ht as [Hne _].
  destruct n as [|n]; [destruct t; [done|destruct ts; cbn in Hn; lia]|]. cbn [words].
  destruct ts as [|t2 ts]; cbn [join_words] in *.
  - rewrite strtok_end by done. by destruct n.
  - rewrite strtok_found by done. f_equal. apply IH; [done|]. rewrite length_app in Hn. cbn [length] in Hn.
    destruct t; [done|]. cbn [length] in Hn. lia.
Qed.
(** The macro on words: it has room for [max] of them. *)
Lemma strtok_join max ts : Forall word ts ->
  STRTOK_RESULT max 32 (join_words ts) = if (length ts <=? max)%nat then Some ts else None.
Proof.
  intros HF. unfold STRTOK_RESULT. destruct ts as [|t ts]; [done|]. inversion_clear HF as [|? ? Ht Hts].
  pose proof (word_no_space t Ht) as Hs. destruct Ht as [Hne _]. destruct ts as [|t2 ts]; cbn [join_words].
  - by rewrite strtok_end by done.
  - rewrite strtok_found by done. pose proof (words_join _ (t2 :: ts) Hts (le_n _)) as E. cbn [join_words] in E.
    by rewrite E.
Qed.
Lemma join_words_text ts : Forall word ts -> Forall (fun c => 0 < c < 256) (join_words ts).
Proof.
  induction 1 as [|t ts [_ Ht] HF IH]; [constructor|].
  assert (Forall (fun c => 0 < c < 256) t) as Ht' by (eapply list.Forall_impl; [exact Ht|]; by intros c [H _]).
  destruct ts as [|t2 ts]; [exact Ht'|]. cbn [join_words]. apply list.Forall_app. split; [done|].
  constructor; [lia|exact IH].
Qed.

(** A rule with more than nine words makes [fill_sdf_strctr] write behind its array of
    tokens. *)
Theorem long_rule_overflow ipv4 dirty ts rest p :
  Forall word ts -> (9 < length ts)%nat -> fill_sdf_strctr ipv4 dirty (join_words ts ++ 0 :: rest) p = None.
Proof.
  intros HF Hl. unfold fill_sdf_strctr. rewrite c_str_text by (by apply join_words_text). cbn [mbind option_bind].
  case_match; [|done]. rewrite strtok_join by done. by rewrite (proj2 (Nat.leb_gt _ _)) by (unfold NUM_VALS; lia).
Qed.

(** ** Rules are read back *)

Definition decimal (n : Z) : list Z := if n =? 0 then [48] else rev (rev_digits 10 n).

(** The addresses and ports of a rule. *)
Inductive rule_addr := any_addr | ip_addr (a b c d : Z) (mask : option Z).
Inductive rule_dest := to_addr (x : rule_addr) | to_assigned.
Record rule_ports := mk_ports { p_low : Z; p_high : option Z }.

Definition addr_text (x : rule_addr) : list Z :=
  match x with
  | any_addr => str_bytes "any"
  | ip_addr a b c d mask =>
      (decimal a ++ 46 :: decimal b ++ 46 :: decimal c ++ 46 :: decimal d) ++ match mask with Some m => 47 :: decimal m | None => [] end
  end.
Definition dest_text (x : rule_dest) : list Z :=
  match x with to_addr x => addr_text x | to_assigned => str_bytes "assigned" end.
Definition ports_text (p : rule_ports) : list Z :=
  decimal p.(p_low) ++ match p.(p_high) with Some h => 45 :: decimal h | None => [] end.
Definition rule_words (proto : Z) (src : rule_addr) (sp : option rule_ports) (dst : rule_dest) (dp : option rule_ports)
    : list (list Z) :=
  [str_bytes "permit"; str_bytes "out"; decimal proto; str_bytes "from"; addr_text src] ++
  option_list (ports_text <$> sp) ++ [str_bytes "to"; dest_text dst] ++ option_list (ports_text <$> dp).

(** The filter that the rule stands for. *)
Definition addr_value (x : rule_addr) : Z := match x with any_addr => 0 | ip_addr a b c d _ => of_le_bytes [a; b; c; d] end.
Definition addr_mask (x : rule_addr) : Z := match x with ip_addr _ _ _ _ (Some m) => m | _ => 0 end.
Definition ports_value (p : option rule_ports) : Z * Z :=
  match p with Some p => (p.(p_low), default p.(p_low) p.(p_high)) | None => (0, 0) end.
Definition rule_filter (ipv4 proto : Z) (src : rule_addr) (sp : option rule_ports) (dst : rule_dest)
    (dp : option rule_ports) : sdf_pkt_fltr_t :=
  let '(raddr, rmask) := match dst with to_addr x => (addr_value x, addr_mask x) | to_assigned => (ipv4, 32) end in
  mk_fltr proto 0 0 0 (addr_mask src) rmask (ports_value sp).1 (ports_value sp).2 (ports_value dp).1 (ports_value dp).2
    (addr_value src) raddr.

Definition octet (v : Z) : Prop := 0 <= v <= 255.
Definition addr_ok (x : rule_addr) : Prop :=
  match x with
  | any_addr => True
  | ip_addr a b c d mask => octet a ∧ octet b ∧ octet c ∧ octet d ∧ match mask with Some m => octet m | None => True end
  end.
Definition dest_ok (x : rule_dest) : Prop := match x with to_addr x => addr_ok x | to_assigned => True end.
Definition ports_ok (p : option rule_ports) : Prop :=
  match p with
  | Some p => 0 <= p.(p_low) < 2 ^ 16 ∧ match p.(p_high) with Some h => 0 <= h < 2 ^ 16 | None => True end
  | None => True
  end.

Lemma decimal_text n : 0 <= n -> digit_text (decimal n).
Proof.
  intros Hn. unfold decimal. destruct (n =? 0); [repeat constructor; lia|]. by apply digit_text_rev, rev_digits_text.
Qed.
Lemma decimal_nonempty n : decimal n ≠ [].
Proof. unfold decimal. destruct (Z.eqb_spec n 0); [done|]. by apply rev_digits_nonempty. Qed.
Lemma decimal_value n : 0 <= n < 10 ^ 10 -> digits_value 0 (decimal n) = n.
Proof. intros Hn. unfold decimal. destruct (Z.eqb_spec n 0) as [->|]; [done|]. by apply rev_digits_value. Qed.
Lemma decimal_length k n : 0 <= n < 10 ^ Z.of_nat (S k) -> (length (decimal n) <= S k)%nat.
Proof.
  intros Hn. unfold decimal. destruct (n =? 0); [cbn; lia|]. rewrite length_rev. by apply rev_digits_length.
Qed.
Lemma atoi_decimal n r : 0 <= n < 2 ^ 31 -> (∀ c, head r = Some c -> is_digit c = false) -> atoi (decimal n ++ r) = Some n.
Proof.
  intros Hn Hr. apply atoi_digits; auto; [apply decimal_text; lia|apply decimal_nonempty|apply decimal_value; lia|lia|lia].
Qed.
Lemma atoi_decimal_end n : 0 <= n < 2 ^ 31 -> atoi (decimal n) = Some n.
Proof. intros Hn. rewrite <- (app_nil_r (decimal n)). by apply atoi_decimal. Qed.

(** No leading zero, unless the number is 0. *)
Lemma rev_digits_last n val : 0 < val < 10 ^ Z.of_nat n -> ∃ l c, rev_digits n val = l ++ [c] ∧ 49 <= c <= 57.
Proof.
  revert val. induction n as [|n IH]; intros val Hv; [cbn in Hv; lia|]. cbn [rev_digits].
  rewrite (proj2 (Z.eqb_neq val 0)) by lia. rewrite Nat2Z.inj_succ, Z.pow_succ_r in Hv by lia.
  destruct (Z.eqb_spec (val / 10) 0) as [E|E].
  - exists [], (val mod 10 + 48). pose proof (Z.div_mod val 10). rewrite E in *.
    split; [by destruct n|]. pose proof (Z.mod_pos_bound val 10). lia.
  - destruct (IH (val / 10)) as (l & c & -> & Hc).
    { pose proof (Z.div_pos val 10). split; [lia|apply Z.div_lt_upper_bound; lia]. }
    by exists ((val mod 10 + 48) :: l), c.
Qed.
Lemma octet_of_decimal n : octet n -> octet_of (decimal n) = Some n.
Proof.
  intros Hn. unfold octet in Hn. pose proof (decimal_text n ltac:(lia)) as Hd. pose proof (decimal_value n ltac:(lia)) as Hv.
  pose proof (decimal_length 2 n ltac:(lia)) as Hl. unfold octet_of.
  assert (forallb is_digit (decimal n) = true) as Hf.
  { apply forallb_forall. intros c Hc. apply is_digit_spec. apply list_elem_of_In in Hc.
    by apply (proj1 (list.Forall_forall _ _) Hd). }
  assert (∀ c rest, decimal n = c :: rest -> (length rest =? 0)%nat || negb (c =? 48) = true) as Hz.
  { unfold decimal. destruct (Z.eqb_spec n 0) as [->|Hz]; [by intros c rest [= <- <-]|].
    destruct (rev_digits_last 10 n ltac:(lia)) as (l & c & -> & Hc). rewrite rev_unit. intros c' rest [= <- _].
    rewrite (proj2 (Z.eqb_neq c 48)) by lia. apply orb_true_r. }
  destruct (decimal n) as [|c rest] eqn:E; [by destruct (decimal_nonempty n)|]. rewrite Hf, (Hz c rest eq_refl), Hv.
  rewrite (proj2 (Nat.leb_le _ _)) by done. cbn [andb]. by rewrite (proj2 (Z.leb_le _ _)) by lia.
Qed.

Lemma digits_without d t : digit_text t -> ~ (48 <= d <= 57) -> Forall (fun c => c ≠ d) t.
Proof. intros HF Hd. eapply list.Forall_impl; [exact HF|]. cbn. intros c Hc ->. done. Qed.
Definition dotted (a b c d : Z) : list Z := decimal a ++ 46 :: decimal b ++ 46 :: decimal c ++ 46 :: decimal d.
Lemma inet_pton_dotted a b c d : octet a -> octet b -> octet c -> octet d ->
  inet_pton (dotted a b c d) = Some (of_le_bytes [a; b; c; d]).
Proof.
  intros Ha Hb Hc Hd. unfold inet_pton, dotted, octet in *. cbn [inet_octets].
  rewrite until_char_found by (apply digits_without; [apply decimal_text|]; lia). rewrite (octet_of_decimal a) by done.
  rewrite until_char_found by (apply digits_without; [apply decimal_text|]; lia). rewrite (octet_of_decimal b) by done.
  rewrite until_char_found by (apply digits_without; [apply decimal_text|]; lia). rewrite (octet_of_decimal c) by done.
  by rewrite (octet_of_decimal d).
Qed.

(** Characters of addresses and ports: digits, dots, slashes and hyphens. *)
Definition plain (t : list Z) : Prop := Forall (fun c => 45 <= c <= 57) t.
Lemma plain_digits t : digit_text t -> plain t.
Proof. intros HF. eapply list.Forall_impl; [exact HF|]. cbn. lia. Qed.
Lemma plain_decimal n : 0 <= n -> plain (decimal n).
Proof. intros Hn. by apply plain_digits, decimal_text. Qed.
Lemma plain_app t1 t2 : plain t1 -> plain t2 -> plain (t1 ++ t2).
Proof. intros H1 H2. by apply list.Forall_app. Qed.
Lemma plain_cons c t : 45 <= c <= 57 -> plain t -> plain (c :: t).
Proof. by constructor. Qed.
Lemma plain_word t : plain t -> t ≠ [] -> word t.
Proof. intros HF Hne. split; [done|]. eapply list.Forall_impl; [exact HF|]. cbn. lia. Qed.
Lemma plain_starts p c t : plain t -> ~ (45 <= c <= 57) -> starts_with (c :: p) t = false.
Proof.
  intros HF Hc. unfold starts_with. apply bool_decide_eq_false. intros H. destruct HF as [|x t Hx HF]; [done|].
  cbn in H. injection H as -> _. done.
Qed.
Lemma plain_not_word (w : string) t : plain t -> (∃ c p, str_bytes w = c :: p ∧ ~ (45 <= c <= 57)) ->
  starts_with (str_bytes w) t = false.
Proof. intros HF (c & p & -> & Hc). by apply plain_starts. Qed.
Create HintDb plain.
#[export] Hint Resolve plain_decimal plain_app plain_cons : plain.
#[export] Hint Extern 1 (_ <= _ <= _) => lia : plain.
#[export] Hint Extern 1 (_ <= _) => lia : plain.

Lemma plain_dotted a b c d : octet a -> octet b -> octet c -> octet d -> plain (dotted a b c d).
Proof. unfold octet, dotted. intros. eauto 12 with plain. Qed.
Lemma plain_addr a b c d m : addr_ok (ip_addr a b c d m) -> plain (addr_text (ip_addr a b c d m)).
Proof.
  intros (Ha & Hb & Hc & Hd & Hm). cbn [addr_text]. apply plain_app; [by apply plain_dotted|].
  destruct m as [m|]; [|constructor]. unfold octet in Hm. eauto with plain.
Qed.
Lemma plain_ports p : ports_ok (Some p) -> plain (ports_text p).
Proof.
  intros [Hl Hh]. apply plain_app; [apply plain_decimal; lia|]. destruct (p_high p) as [h|]; [|constructor].
  eauto with plain.
Qed.

Ltac not_word := rewrite !plain_not_word by (solve [by apply plain_addr|by apply plain_ports|do 2 eexists; split; [reflexivity|cbv; intros [_ H]; by apply H]]).

(** The byte behind a word in the array it is copied to. *)
Definition clean (dirty t : list Z) : Prop := dirty !! length t = Some 0.
Lemma copy_field_clean dirty t : plain t -> (length t < 32)%nat -> clean dirty t -> copy_field dirty t = Some t.
Proof.
  intros HF Hl Hc. unfold copy_field. rewrite (proj2 (Nat.leb_le _ _)) by lia.
  rewrite (drop_S (resize 32 0 dirty) 0 (length t)).
  - apply c_str_text. eapply list.Forall_impl; [exact HF|]. cbn. lia.
  - rewrite lookup_resize; [exact Hc|done|]. by apply (lookup_lt_Some _ _ 0).
Qed.
Lemma contains_found d t1 t2 : contains d (t1 ++ d :: t2) = true.
Proof. unfold contains. rewrite existsb_app. cbn. by rewrite Z.eqb_refl, orb_true_r. Qed.
Lemma contains_none d t : Forall (fun c => c ≠ d) t -> contains d t = false.
Proof.
  induction 1 as [|c t Hc HF IH]; [done|]. unfold contains in *. cbn. by rewrite (proj2 (Z.eqb_neq d c)), IH by done.
Qed.
(** A word cut in two. *)
Lemma strtok_two d t1 t2 : t1 ≠ [] -> Forall (fun c => c ≠ d) t1 -> word t2 ->
  STRTOK_RESULT 2 d (t1 ++ d :: t2) = Some [t1; t2].
Proof.
  intros Hne HF Ht. unfold STRTOK_RESULT. rewrite strtok_found by done.
  pose proof (words_join (length t2) [t2]) as E. cbn [join_words] in E. rewrite E by (auto using list.Forall_cons_2). done.
Qed.
Lemma dotted_without d x1 x2 x3 x4 : octet x1 -> octet x2 -> octet x3 -> octet x4 -> ~ (48 <= d <= 57) -> d ≠ 46 ->
  Forall (fun c => c ≠ d) (dotted x1 x2 x3 x4).
Proof.
  unfold octet, dotted. intros H1 H2 H3 H4 Hd H.
  repeat (apply list.Forall_app; split; [apply digits_without; [apply decimal_text; lia|done]|constructor; [lia|]]).
  apply digits_without; [apply decimal_text; lia|done].
Qed.
Lemma dotted_nonempty a b c d : dotted a b c d ≠ [].
Proof. unfold dotted. pose proof (decimal_nonempty a). by destruct (decimal a). Qed.
Lemma dotted_length a b c d : octet a -> octet b -> octet c -> octet d -> (length (dotted a b c d) <= 15)%nat.
Proof.
  unfold octet, dotted. intros Ha Hb Hc Hd.
  pose proof (decimal_length 2 a ltac:(lia)). pose proof (decimal_length 2 b ltac:(lia)).
  pose proof (decimal_length 2 c ltac:(lia)). pose proof (decimal_length 2 d ltac:(lia)).
  rewrite !length_app. cbn [length]. rewrite !length_app. cbn [length]. rewrite !length_app. cbn [length]. lia.
Qed.

Lemma filter_address_text dirty a b c d m : let x := ip_addr a b c d m in addr_ok x -> clean dirty (addr_text x) ->
  filter_address dirty (addr_text x) = Some (Some (addr_value x), m).
Proof.
  intros x Hx Hcl. pose proof (plain_addr a b c d m Hx) as Hp. destruct Hx as (Ha & Hb & Hc & Hd & Hm).
  unfold filter_address. subst x. cbn [addr_text] in *. fold (dotted a b c d) in *. destruct m as [m|].
  - unfold octet in Hm. pose proof (decimal_length 2 m ltac:(lia)). pose proof (dotted_length a b c d Ha Hb Hc Hd).
    rewrite contains_found, copy_field_clean; [|done|rewrite length_app; cbn [length]; lia|done]. cbn [mbind option_bind].
    rewrite strtok_two; [|apply dotted_nonempty|apply dotted_without; auto; lia|
      apply plain_word; [apply plain_decimal; lia|apply decimal_nonempty]].
    cbn [mbind option_bind lookup list_lookup]. rewrite atoi_decimal_end by lia. cbn [mbind option_bind].
    rewrite inet_pton_dotted by done. by rewrite uwrap_small by lia.
  - rewrite app_nil_r in *. rewrite contains_none by (apply dotted_without; auto; lia).
    by rewrite inet_pton_dotted.
Qed.
Lemma filter_ports_text dirty p : ports_ok (Some p) -> clean dirty (ports_text p) ->
  filter_ports dirty (ports_text p) = Some (ports_value (Some p)).
Proof.
  intros Hp Hcl. pose proof (plain_ports p Hp) as Hpl. destruct Hp as [Hl Hh]. unfold filter_ports, ports_text in *.
  destruct p as [l h]. cbn [p_low p_high ports_value default] in *.
  pose proof (decimal_length 4 l ltac:(lia)). pose proof (digits_without 45 (decimal l) (decimal_text l ltac:(lia)) ltac:(lia)) as H45.
  destruct h as [h|].
  - pose proof (decimal_length 4 h ltac:(lia)).
    rewrite contains_found, copy_field_clean; [|done|rewrite length_app; cbn [length]; lia|done]. cbn [mbind option_bind].
    rewrite strtok_two; [|apply decimal_nonempty|done|apply plain_word; [apply plain_decimal; lia|apply decimal_nonempty]].
    cbn [mbind option_bind lookup list_lookup]. rewrite !atoi_decimal_end by lia. done.
  - rewrite app_nil_r in *. rewrite contains_none by done. by rewrite atoi_decimal_end by lia.
Qed.

Lemma rule_words_ok proto src sp dst dp : 0 <= proto <= 255 -> addr_ok src -> dest_ok dst -> ports_ok sp -> ports_ok dp ->
  Forall word (rule_words proto src sp dst dp).
Proof.
  intros Hpr Hs Hd Hsp Hdp.
  assert (∀ x, addr_ok x -> word (addr_text x)) as Ha.
  { intros [|a b c d m] Hx; [by split; [|repeat constructor]|]. apply plain_word; [by apply plain_addr|].
    cbn [addr_text]. pose proof (dotted_nonempty a b c d). unfold dotted in *. by destruct (decimal a). }
  assert (∀ p, ports_ok (Some p) -> word (ports_text p)) as Hp.
  { intros p Hp. apply plain_word; [by apply plain_ports|]. unfold ports_text. pose proof (decimal_nonempty (p_low p)).
    by destruct (decimal (p_low p)). }
  assert (word (dest_text dst)) by (destruct dst; [by apply Ha|by split; [|repeat constructor]]).
  unfold rule_words. repeat (apply list.Forall_cons; split).
  all: try (by split; [|repeat constructor]).
  - apply plain_word; [apply plain_decimal; lia|apply decimal_nonempty].
  - by apply Ha.
  - apply list.Forall_app. split; [destruct sp; repeat constructor; by apply Hp|].
    repeat (apply list.Forall_cons; split); [by split; [|repeat constructor]|done|].
    destruct dp; repeat constructor; by apply Hp.
Qed.

(** The text of a rule is short. *)
Lemma join_words_length n ts : Forall (fun t => length t <= n)%nat ts -> (length (join_words ts) <= S n * length ts)%nat.
Proof.
  induction 1 as [|t ts Ht HF IH]; [cbn; lia|]. destruct ts as [|t2 ts]; cbn [join_words length] in *; [lia|].
  rewrite length_app. cbn [length] in *. lia.
Qed.
Lemma rule_text_length proto src sp dst dp : 0 <= proto <= 255 -> addr_ok src -> dest_ok dst -> ports_ok sp -> ports_ok dp ->
  (length (join_words (rule_words proto src sp dst dp)) < 512)%nat.
Proof.
  intros Hpr Hs Hd Hsp Hdp.
  assert (∀ x, addr_ok x -> (length (addr_text x) <= 32)%nat) as Ha.
  { intros [|a b c d m] Hx; [cbn; lia|]. destruct Hx as (Ha & Hb & Hc & Hd' & Hm).
    pose proof (dotted_length a b c d Ha Hb Hc Hd') as Hl. cbn [addr_text]. fold (dotted a b c d). rewrite length_app.
    destruct m as [m|]; cbn [length]; [|lia]. unfold octet in Hm. pose proof (decimal_length 2 m ltac:(lia)). lia. }
  assert (∀ p, ports_ok (Some p) -> (length (ports_text p) <= 32)%nat) as Hp.
  { intros [l h] [Hl Hh]. unfold ports_text. cbn [p_low p_high] in *. pose proof (decimal_length 4 l ltac:(lia)).
    rewrite length_app. destruct h as [h|]; cbn [length]; [|lia]. pose proof (decimal_length 4 h ltac:(lia)). lia. }
  pose proof (join_words_length 32 (rule_words proto src sp dst dp)) as H. eapply Nat.le_lt_trans; [apply H|].
  - unfold rule_words. repeat (apply list.Forall_cons; split); try (cbn; lia).
    + pose proof (decimal_length 2 proto ltac:(lia)). lia.
    + by apply Ha.
    + apply list.Forall_app. split; [destruct sp; [apply list.Forall_singleton; by apply Hp|constructor]|].
      repeat (apply list.Forall_cons; split); [cbn; lia|destruct dst; [by apply Ha|cbn; lia]|].
      destruct dp; [apply list.Forall_singleton; by apply Hp|constructor].
  - unfold rule_words. rewrite !length_app. destruct sp, dp; cbn; lia.
Qed.

(** One word of each kind. *)
Section fields.
  Context (ipv4 : Z) (dirty : list Z).
Abbreviation fields := (sdf_fields ipv4 dirty).

Lemma source_field x rest p : addr_ok x -> clean dirty (addr_text x) ->
  p.(local_ip_addr) = 0 -> p.(local_ip_mask) = 0 ->
  fields 4 0 (addr_text x :: rest) p = fields 5 0 rest (set_local_addr (Some (addr_value x), Some (addr_mask x)) p).
Proof.
  intros Hx Hc H1 H2. cbn [sdf_fields Nat.eqb]. destruct x as [|a b c d m].
  - change (starts_with (str_bytes "any") (addr_text any_addr)) with true. cbv match. f_equal.
    destruct p; cbn in *. by subst.
  - not_word. rewrite filter_address_text by done.
    cbn [mbind option_bind]. f_equal. destruct m; [done|]. destruct p; cbn in *. by subst.
Qed.
Lemma source_ports q rest p : ports_ok (Some q) -> clean dirty (ports_text q) ->
  fields 5 0 (ports_text q :: rest) p = fields 6 0 rest (set_local_ports (ports_value (Some q)) p).
Proof.
  intros Hx Hc. cbn [sdf_fields Nat.eqb]. not_word.
  by rewrite filter_ports_text.
Qed.
(** The destination stands at position 7, or 6 behind a source without ports. *)
Lemma dest_field k offset x rest p : (k + offset = 7)%nat -> (6 <= k)%nat -> dest_ok x -> clean dirty (dest_text x) ->
  p.(remote_ip_addr) = 0 -> p.(remote_ip_mask) = 0 ->
  fields k offset (dest_text x :: rest) p =
  fields (S k) offset rest
    (set_remote_addr (match x with to_addr x => (Some (addr_value x), Some (addr_mask x)) | to_assigned => (Some ipv4, Some 32) end) p).
Proof.
  intros Hk H6 Hx Hc H1 H2. assert (k = 6 ∧ offset = 1 ∨ k = 7 ∧ offset = 0)%nat as Hcase by lia.
  assert (fields k offset (dest_text x :: rest) p =
    if starts_with (str_bytes "any") (dest_text x) then fields (S k) offset rest p
    else if starts_with (str_bytes "assigned") (dest_text x) then fields (S k) offset rest (set_remote_addr (Some ipv4, Some 32) p)
    else a ← filter_address dirty (dest_text x); fields (S k) offset rest (set_remote_addr a p)) as ->
    by (by destruct Hcase as [[-> ->]|[-> ->]]).
  clear Hcase Hk H6. destruct x as [[|a b c d m]|]; [| |done].
  - change (starts_with (str_bytes "any") (dest_text (to_addr any_addr))) with true. cbv match. f_equal.
    destruct p; cbn in *. by subst.
  - cbn [dest_text] in *. not_word.
    rewrite filter_address_text by done. cbn [mbind option_bind]. f_equal. destruct m; [done|]. destruct p; cbn in *. by subst.
Qed.
Lemma dest_ports k offset q p : (k + offset = 8)%nat -> (7 <= k)%nat -> ports_ok (Some q) -> clean dirty (ports_text q) ->
  fields k offset [ports_text q] p = Some (0, set_remote_ports (ports_value (Some q)) p).
Proof.
  intros Hk H7 Hx Hc. assert (k = 7 ∧ offset = 1 ∨ k = 8 ∧ offset = 0)%nat as Hcase by lia.
  assert (fields k offset [ports_text q] p = a ← filter_ports dirty (ports_text q); Some (0, set_remote_ports a p)) as ->
    by (by destruct Hcase as [[-> ->]|[-> ->]]).
  by rewrite filter_ports_text.
Qed.
End fields.

(** C32: A filter rule of the policy server, with addresses or the words "any" and "assigned",
    masks, ports and ranges of ports, is read into the filter it stands for (an address
    without a mask is read with the mask 0), if the bytes
    behind its words in the arrays they are copied to happen to be zero. *)
Theorem filter_rule_read ipv4 dirty rest proto src sp dst dp :
  0 <= proto <= 255 -> addr_ok src -> dest_ok dst -> ports_ok sp -> ports_ok dp ->
  Forall (clean dirty) (rule_words proto src sp dst dp) ->
  fill_sdf_strctr ipv4 dirty (join_words (rule_words proto src sp dst dp) ++ 0 :: rest) zero_fltr =
    Some (0, rule_filter ipv4 proto src sp dst dp).
Proof.
  intros Hpr Hs Hd Hsp Hdp Hc. pose proof (rule_words_ok proto src sp dst dp Hpr Hs Hd Hsp Hdp) as Hw.
  unfold fill_sdf_strctr. rewrite c_str_text by (by apply join_words_text). cbn [mbind option_bind].
  rewrite (proj2 (Nat.ltb_lt _ 512)) by (by apply rule_text_length). rewrite strtok_join by done.
  assert ((length (rule_words proto src sp dst dp) <=? NUM_VALS)%nat = true) as -> by (by destruct sp, dp).
  cbn [mbind option_bind]. clear Hw. unfold rule_words in *.
  repeat apply list.Forall_cons in Hc as [? Hc]. apply list.Forall_app in Hc as [Hcs Hc].
  repeat apply list.Forall_cons in Hc as [? Hc].
  change (sdf_fields ipv4 dirty 0 0 _ zero_fltr) with
    (v ← atoi (decimal proto); sdf_fields ipv4 dirty 4 0 (addr_text src :: (option_list (ports_text <$> sp) ++
      [str_bytes "to"; dest_text dst] ++ option_list (ports_text <$> dp))) (set_proto_id (u8 v) zero_fltr)).
  rewrite atoi_decimal_end by lia. cbn [mbind option_bind]. rewrite source_field by done. rewrite uwrap_small by lia.
  set (p1 := set_local_addr _ _). transitivity (sdf_fields ipv4 dirty (if sp is Some _ then 7 else 6) (if sp is Some _ then 0 else 1)
    (dest_text dst :: option_list (ports_text <$> dp)) (set_local_ports (ports_value sp) p1)).
  { destruct sp as [q|]; [|done]. apply list.Forall_cons in Hcs as [Hcq _].
    change (option_list (ports_text <$> Some q) ++ ?r) with (ports_text q :: r). by rewrite source_ports. }
  rewrite dest_field by (first [done|by destruct sp|destruct sp; lia]).
  assert (∀ q p2, ports_ok (Some q) -> clean dirty (ports_text q) ->
    sdf_fields ipv4 dirty (S (if sp is Some _ then 7 else 6)) (if sp is Some _ then 0 else 1) [ports_text q] p2 =
    Some (0, set_remote_ports (ports_value (Some q)) p2)) as Hlast
    by (intros; apply dest_ports; auto; destruct sp; lia).
  transitivity (Some (0, set_remote_ports (ports_value dp) (set_remote_addr
    (match dst with to_addr x => (Some (addr_value x), Some (addr_mask x)) | to_assigned => (Some ipv4, Some 32) end)
    (set_local_ports (ports_value sp) p1)))).
  { destruct dp as [q|]; [apply list.Forall_cons in Hc as [Hcq _]; by apply Hlast|done]. }
  assert (∀ p, ports_ok p -> u16 (ports_value p).1 = (ports_value p).1 ∧ u16 (ports_value p).2 = (ports_value p).2) as Hu.
  { intros [[l [h|]]|]; cbn; [| |done]; intros [? ?]; by rewrite !uwrap_small. }
  destruct (Hu sp Hsp) as [E1 E2], (Hu dp Hdp) as [E3 E4]. unfold rule_filter, set_remote_ports, set_remote_addr, set_local_ports.
  cbn. rewrite E1, E2, E3, E4. by destruct dst.
Qed.

(** permit out 17 from 172.30.0.109 49090 to 100.65.0.0/24 50024-50030 *)
Lemma filter_rule_read_witness :
  fill_sdf_strctr 77 (repeat 0 32)
    (join_words (rule_words 17 (ip_addr 172 30 0 109 None) (Some (mk_ports 49090 None))
       (to_addr (ip_addr 100 65 0 0 (Some 24))) (Some (mk_ports 50024 (Some 50030)))) ++ 0 :: []) zero_fltr =
  Some (0, mk_fltr 17 0 0 0 0 24 49090 49090 50024 50030 (of_le_bytes [172; 30; 0; 109]) (of_le_bytes [100; 65; 0; 0])).
Proof.
  apply (filter_rule_read 77 (repeat 0 32) [] 17 (ip_addr 172 30 0 109 None) (Some (mk_ports 49090 None))
    (to_addr (ip_addr 100 65 0 0 (Some 24))) (Some (mk_ports 50024 (Some 50030)))).
  - lia.
  - cbn. unfold octet. lia.
  - cbn. unfold octet. lia.
  - cbn. lia.
  - cbn. lia.
  - repeat (apply list.Forall_cons_2; [reflexivity|]). apply list.Forall_nil_2.
Defined.

(** The same rule with a digit left on the stack behind its mask: the mask becomes 245 for 24. *)
Example mask_takes_stack :
  ∃ p, fill_sdf_strctr 77 (repeat 0 13 ++ [53] ++ repeat 0 18)
         (str_bytes "permit out 17 from any to 100.65.0.0/24" ++ [0]) zero_fltr = Some (0, p) ∧ p.(remote_ip_mask) = 245.
Proof. eexists. split; vm_compute; reflexivity. Qed.

Lemma long_rule_overflow_witness :
  fill_sdf_strctr 77 [] (join_words (repeat (str_bytes "a") 10) ++ 0 :: []) zero_fltr = None.
Proof.
  apply (long_rule_overflow 77 [] (repeat (str_bytes "a") 10) [] zero_fltr).
  - cbv [repeat]. repeat (apply list.Forall_cons_2; [split; [discriminate|
      apply list.Forall_cons_2; [split; [split; reflexivity|discriminate]|apply list.Forall_nil_2]]|]).
    apply list.Forall_nil_2.
  - vm_compute. lia.
Defined.
