(* ===== verification/PfcpSession.v ===== *)
(** * Rules of a session (src/cp/pfcp/common/pfcp_cp_session.c, pfcp_init.c)

    The rules of the policy server become packet detection rules (PDR), each with its
    forwarding action (FAR), and quality enforcement and usage reporting rules (QER, URR)
    on a bearer of the connection.  [session] is the state these functions work on: one PDN
    connection with its subscriber, the objects they point to, the tables of the rules and
    the counters of the identifiers.  [None] stands for a NULL pointer that is followed and
    for an index outside an array; memory is always available. *)

From Stdlib Require Import String Ascii.
From stdpp Require Import gmap strings pretty.
From S2P Require Import Prelude EncDecBits Text Teid Transactions PfcpSetIe.

Open Scope Z_scope.
#[local] Set Primitive Projections.

Abbreviation ptr := positive.

(** ** Contexts (src/cp/policy.h, bearer.h, pdn.h, ue.h, pfcp_cp_struct.h) *)

Record bearer_qos_ie := mk_qos {
  qci : Z;
  ul_mbr : Z;
  dl_mbr : Z;
  ul_gbr : Z;
  dl_gbr : Z;
  preemption_vulnerability : Z;
  priority_level : Z;
  preemption_capability : Z;
}.

Record flow_desc_t := mk_flow {
  flow_direction : Z;
  sdf_flw_desc : sdf_pkt_fltr_t;
  sdf_flow_description : list Z; (* char[512] *)
  flow_desc_len : Z;
}.
Definition direction (f : flow_desc_t) : Z := f.(sdf_flw_desc).(flt_direction).
Definition zero_flow : flow_desc_t := mk_flow 0 zero_fltr (repeat 0 512) 0.

Record dynamic_rule_t := mk_rule {
  online : Z;
  offline : Z;
  flow_status : Z;
  reporting_level : Z;
  precedence : Z;
  service_id : Z;
  rating_group : Z;
  def_bearer_indication : Z;
  rule_name : string; (* char[256] *)
  af_charging_id_string : list Z; (* char[256] *)
  rule_qos : bearer_qos_ie; (* qos *)
  num_flw_desc : Z;
  flow_desc : list flow_desc_t; (* [32] *)
  rule_pdr : list (option ptr); (* pdr[2] *)
}.
Definition zero_rule : dynamic_rule_t :=
  mk_rule 0 0 0 0 0 0 0 0 "" (repeat 0 256) (mk_qos 0 0 0 0 0 0 0 0) 0 (repeat zero_flow 32) [None; None].

Inductive rule_action_t :=
| RULE_ACTION_INVALID | RULE_ACTION_ADD | RULE_ACTION_MODIFY | RULE_ACTION_DELETE | RULE_ACTION_MAX.
(** A rule that waits to be installed, changed or removed. *)
Record pcc_rule_t := mk_pcc { action : rule_action_t; dyn_rule : ptr }.

(** A packet detection rule with its forwarding action.  [pdr_qers] and [pdr_urrs] are
    the first [qer_id_count] and [urr_id_count] of the arrays. *)
Record pdr_t := mk_pdr {
  rule_id : Z;
  prcdnc_val : Z;
  session_id : Z;
  src_intfc : Z; (* pdi.src_intfc.interface_value *)
  ue_addr : Z; (* pdi.ue_addr.ipv4_address *)
  ntwk_inst : list Z; (* pdi.ntwk_inst.ntwk_inst[32] *)
  local_teid : Z; (* pdi.local_fteid.teid *)
  local_ipv4 : Z; (* pdi.local_fteid.ipv4_address *)
  far_id_value : Z; (* far.far_id_value *)
  dst_intfc : Z; (* far.dst_intfc.interface_value *)
  hdr_teid : Z; (* far.outer_hdr_creation.teid *)
  hdr_ipv4 : Z; (* far.outer_hdr_creation.ipv4_address *)
  pdr_qers : list Z; (* qer_id[MAX_LIST_SIZE] *)
  pdr_urrs : list Z; (* urr_id[MAX_LIST_SIZE] *)
  dynamic_rule : option ptr;
}.

Record qer_t := mk_qer {
  qer_id : Z;
  qer_qci : Z; (* qci *)
  max_ul : Z; (* max_bitrate.ul_mbr *)
  max_dl : Z;
  gbr_ul : Z; (* guaranteed_bitrate.ul_gbr *)
  gbr_dl : Z;
}.

(** A bearer; the lists are the first [pdr_count], [qer_count], [urr_count] and
    [num_dynamic_filters] of its arrays of 16. *)
Record eps_bearer_t := mk_bearer {
  eps_bearer_id : Z;
  pdrs : list ptr;
  qer_ids : list Z;
  urr_ids : list Z;
  qos : bearer_qos_ie;
  s1u_sgw_gtpu_ipv4 : Z;
  s1u_sgw_gtpu_teid : Z;
  s5s8_sgw_gtpu_ipv4 : Z;
  s5s8_sgw_gtpu_teid : Z;
  s5s8_pgw_gtpu_ipv4 : Z;
  s5s8_pgw_gtpu_teid : Z;
  dynamic_rules : list ptr;
  ambr_qer_flag : bool;
}.
Definition zero_qos : bearer_qos_ie := mk_qos 0 0 0 0 0 0 0 0.
Definition zero_bearer : eps_bearer_t := mk_bearer 0 [] [] [] zero_qos 0 0 0 0 0 0 [] false.

Record pdn_connection_t := mk_pdn {
  bearer_control_mode : Z;
  call_id : Z;
  apn : list Z; (* [MAX_APN_LEN] *)
  apn_len : Z;
  apn_ambr_ul : Z; (* apn_ambr.ambr_uplink *)
  apn_ambr_dl : Z;
  seid : Z;
  dp_seid : Z;
  pdn_ipv4 : Z; (* ipv4.s_addr *)
  s5s8_pgw_gtpc_teid : Z;
  pdn_type_ipv4 : Z; (* pdn_type.ipv4, one bit *)
  pdn_type_ipv6 : Z;
  default_bearer_id : Z;
  num_bearer : Z;
  eps_bearers : list (option ptr); (* [MAX_BEARERS] *)
  default_bearer_qos_valid : bool; (* policy *)
  default_bearer_qos : bearer_qos_ie; (* policy.default_bearer_qos *)
  pending_pcc_rules : list pcc_rule_t; (* policy.pending_pcc_rules *)
  pdn_flags : Z;
}.

Record upf_context_t := mk_upf { up_supp_features : Z; s1u_ip : Z; s5s8_sgwu_ip : Z; s5s8_pgwu_ip : Z }.

(** The digits of the serving network, of 4 bits each. *)
Record serving_nwrk_t := mk_nw {
  mnc_digit_1 : Z; mnc_digit_2 : Z; mnc_digit_3 : Z; mcc_digit_1 : Z; mcc_digit_2 : Z; mcc_digit_3 : Z;
}.

Record ue_context_t := mk_ue {
  imsi : Z;
  msisdn : Z;
  mei : Z;
  rat_type_len : Z; (* rat_type.len *)
  rat_type : Z; (* rat_type.rat_type *)
  event_trigger : Z;
  serving_nw : serving_nwrk_t;
  ue_bearers : list (option ptr); (* eps_bearers[MAX_BEARERS] *)
  teid_bitmap : Z;
  upf_context : option upf_context_t;
}.

(** The settings; the role is part of the state, because it is assigned. *)
Record session_config := mk_config { gx_enabled : bool; urr_enable : bool; pfcp_ip : Z }.

(** The counters of pfcp_init.c and of the sequence numbers. *)
Record offsets := mk_offsets {
  pdr_rule_id_offset : Z; far_rule_id_offset : Z; qer_rule_id_offset : Z; urr_rule_id_offset : Z;
  pfcp_seq_no_offset : Z;
}.

Record session := mk_session {
  cp_type : cp_type_t;
  pdn : pdn_connection_t;
  context : ue_context_t;
  h_bearers : gmap ptr eps_bearer_t;
  h_pdrs : gmap ptr pdr_t;
  h_rules : gmap ptr dynamic_rule_t;
  qer_table : gmap Z qer_t;
  pdr_table : gmap Z ptr;
  rule_table : gmap string Z;
  ids : offsets;
  teids : teid_globals;
  next_ptr : ptr;
}.

(** Assignments of members. *)

Definition set_rule_pdr (v : list (option ptr)) (x : dynamic_rule_t) : dynamic_rule_t :=
  mk_rule x.(online) x.(offline) x.(flow_status) x.(reporting_level) x.(precedence) x.(service_id) x.(rating_group) x.(def_bearer_indication) x.(rule_name) x.(af_charging_id_string) x.(rule_qos) x.(num_flw_desc) x.(flow_desc) v.
Definition set_pdr_prcdnc_val (v : Z) (x : pdr_t) : pdr_t :=
  mk_pdr x.(rule_id) v x.(session_id) x.(src_intfc) x.(ue_addr) x.(ntwk_inst) x.(local_teid) x.(local_ipv4) x.(far_id_value) x.(dst_intfc) x.(hdr_teid) x.(hdr_ipv4) x.(pdr_qers) x.(pdr_urrs) x.(dynamic_rule).
Definition set_pdr_local_teid (v : Z) (x : pdr_t) : pdr_t :=
  mk_pdr x.(rule_id) x.(prcdnc_val) x.(session_id) x.(src_intfc) x.(ue_addr) x.(ntwk_inst) v x.(local_ipv4) x.(far_id_value) x.(dst_intfc) x.(hdr_teid) x.(hdr_ipv4) x.(pdr_qers) x.(pdr_urrs) x.(dynamic_rule).
Definition set_pdr_local_ipv4 (v : Z) (x : pdr_t) : pdr_t :=
  mk_pdr x.(rule_id) x.(prcdnc_val) x.(session_id) x.(src_intfc) x.(ue_addr) x.(ntwk_inst) x.(local_teid) v x.(far_id_value) x.(dst_intfc) x.(hdr_teid) x.(hdr_ipv4) x.(pdr_qers) x.(pdr_urrs) x.(dynamic_rule).
Definition set_pdr_dynamic_rule (v : option ptr) (x : pdr_t) : pdr_t :=
  mk_pdr x.(rule_id) x.(prcdnc_val) x.(session_id) x.(src_intfc) x.(ue_addr) x.(ntwk_inst) x.(local_teid) x.(local_ipv4) x.(far_id_value) x.(dst_intfc) x.(hdr_teid) x.(hdr_ipv4) x.(pdr_qers) x.(pdr_urrs) v.
Definition set_bearer_pdrs (v : list ptr) (x : eps_bearer_t) : eps_bearer_t :=
  mk_bearer x.(eps_bearer_id) v x.(qer_ids) x.(urr_ids) x.(qos) x.(s1u_sgw_gtpu_ipv4) x.(s1u_sgw_gtpu_teid) x.(s5s8_sgw_gtpu_ipv4) x.(s5s8_sgw_gtpu_teid) x.(s5s8_pgw_gtpu_ipv4) x.(s5s8_pgw_gtpu_teid) x.(dynamic_rules) x.(ambr_qer_flag).
Definition set_bearer_qer_ids (v : list Z) (x : eps_bearer_t) : eps_bearer_t :=
  mk_bearer x.(eps_bearer_id) x.(pdrs) v x.(urr_ids) x.(qos) x.(s1u_sgw_gtpu_ipv4) x.(s1u_sgw_gtpu_teid) x.(s5s8_sgw_gtpu_ipv4) x.(s5s8_sgw_gtpu_teid) x.(s5s8_pgw_gtpu_ipv4) x.(s5s8_pgw_gtpu_teid) x.(dynamic_rules) x.(ambr_qer_flag).
Definition set_bearer_urr_ids (v : list Z) (x : eps_bearer_t) : eps_bearer_t :=
  mk_bearer x.(eps_bearer_id) x.(pdrs) x.(qer_ids) v x.(qos) x.(s1u_sgw_gtpu_ipv4) x.(s1u_sgw_gtpu_teid) x.(s5s8_sgw_gtpu_ipv4) x.(s5s8_sgw_gtpu_teid) x.(s5s8_pgw_gtpu_ipv4) x.(s5s8_pgw_gtpu_teid) x.(dynamic_rules) x.(ambr_qer_flag).
Definition set_bearer_qos (v : bearer_qos_ie) (x : eps_bearer_t) : eps_bearer_t :=
  mk_bearer x.(eps_bearer_id) x.(pdrs) x.(qer_ids) x.(urr_ids) v x.(s1u_sgw_gtpu_ipv4) x.(s1u_sgw_gtpu_teid) x.(s5s8_sgw_gtpu_ipv4) x.(s5s8_sgw_gtpu_teid) x.(s5s8_pgw_gtpu_ipv4) x.(s5s8_pgw_gtpu_teid) x.(dynamic_rules) x.(ambr_qer_flag).
Definition set_bearer_s1u_sgw_gtpu_ipv4 (v : Z) (x : eps_bearer_t) : eps_bearer_t :=
  mk_bearer x.(eps_bearer_id) x.(pdrs) x.(qer_ids) x.(urr_ids) x.(qos) v x.(s1u_sgw_gtpu_teid) x.(s5s8_sgw_gtpu_ipv4) x.(s5s8_sgw_gtpu_teid) x.(s5s8_pgw_gtpu_ipv4) x.(s5s8_pgw_gtpu_teid) x.(dynamic_rules) x.(ambr_qer_flag).
Definition set_bearer_s1u_sgw_gtpu_teid (v : Z) (x : eps_bearer_t) : eps_bearer_t :=
  mk_bearer x.(eps_bearer_id) x.(pdrs) x.(qer_ids) x.(urr_ids) x.(qos) x.(s1u_sgw_gtpu_ipv4) v x.(s5s8_sgw_gtpu_ipv4) x.(s5s8_sgw_gtpu_teid) x.(s5s8_pgw_gtpu_ipv4) x.(s5s8_pgw_gtpu_teid) x.(dynamic_rules) x.(ambr_qer_flag).
Definition set_bearer_s5s8_sgw_gtpu_ipv4 (v : Z) (x : eps_bearer_t) : eps_bearer_t :=
  mk_bearer x.(eps_bearer_id) x.(pdrs) x.(qer_ids) x.(urr_ids) x.(qos) x.(s1u_sgw_gtpu_ipv4) x.(s1u_sgw_gtpu_teid) v x.(s5s8_sgw_gtpu_teid) x.(s5s8_pgw_gtpu_ipv4) x.(s5s8_pgw_gtpu_teid) x.(dynamic_rules) x.(ambr_qer_flag).
Definition set_bearer_s5s8_pgw_gtpu_ipv4 (v : Z) (x : eps_bearer_t) : eps_bearer_t :=
  mk_bearer x.(eps_bearer_id) x.(pdrs) x.(qer_ids) x.(urr_ids) x.(qos) x.(s1u_sgw_gtpu_ipv4) x.(s1u_sgw_gtpu_teid) x.(s5s8_sgw_gtpu_ipv4) x.(s5s8_sgw_gtpu_teid) v x.(s5s8_pgw_gtpu_teid) x.(dynamic_rules) x.(ambr_qer_flag).
Definition set_bearer_s5s8_pgw_gtpu_teid (v : Z) (x : eps_bearer_t) : eps_bearer_t :=
  mk_bearer x.(eps_bearer_id) x.(pdrs) x.(qer_ids) x.(urr_ids) x.(qos) x.(s1u_sgw_gtpu_ipv4) x.(s1u_sgw_gtpu_teid) x.(s5s8_sgw_gtpu_ipv4) x.(s5s8_sgw_gtpu_teid) x.(s5s8_pgw_gtpu_ipv4) v x.(dynamic_rules) x.(ambr_qer_flag).
Definition set_bearer_dynamic_rules (v : list ptr) (x : eps_bearer_t) : eps_bearer_t :=
  mk_bearer x.(eps_bearer_id) x.(pdrs) x.(qer_ids) x.(urr_ids) x.(qos) x.(s1u_sgw_gtpu_ipv4) x.(s1u_sgw_gtpu_teid) x.(s5s8_sgw_gtpu_ipv4) x.(s5s8_sgw_gtpu_teid) x.(s5s8_pgw_gtpu_ipv4) x.(s5s8_pgw_gtpu_teid) v x.(ambr_qer_flag).
Definition set_bearer_ambr_qer_flag (v : bool) (x : eps_bearer_t) : eps_bearer_t :=
  mk_bearer x.(eps_bearer_id) x.(pdrs) x.(qer_ids) x.(urr_ids) x.(qos) x.(s1u_sgw_gtpu_ipv4) x.(s1u_sgw_gtpu_teid) x.(s5s8_sgw_gtpu_ipv4) x.(s5s8_sgw_gtpu_teid) x.(s5s8_pgw_gtpu_ipv4) x.(s5s8_pgw_gtpu_teid) x.(dynamic_rules) v.
Definition set_pdn_num_bearer (v : Z) (x : pdn_connection_t) : pdn_connection_t :=
  mk_pdn x.(bearer_control_mode) x.(call_id) x.(apn) x.(apn_len) x.(apn_ambr_ul) x.(apn_ambr_dl) x.(seid) x.(dp_seid) x.(pdn_ipv4) x.(s5s8_pgw_gtpc_teid) x.(pdn_type_ipv4) x.(pdn_type_ipv6) x.(default_bearer_id) v x.(eps_bearers) x.(default_bearer_qos_valid) x.(default_bearer_qos) x.(pending_pcc_rules) x.(pdn_flags).
Definition set_pdn_eps_bearers (v : list (option ptr)) (x : pdn_connection_t) : pdn_connection_t :=
  mk_pdn x.(bearer_control_mode) x.(call_id) x.(apn) x.(apn_len) x.(apn_ambr_ul) x.(apn_ambr_dl) x.(seid) x.(dp_seid) x.(pdn_ipv4) x.(s5s8_pgw_gtpc_teid) x.(pdn_type_ipv4) x.(pdn_type_ipv6) x.(default_bearer_id) x.(num_bearer) v x.(default_bearer_qos_valid) x.(default_bearer_qos) x.(pending_pcc_rules) x.(pdn_flags).
Definition set_pdn_pending_pcc_rules (v : list pcc_rule_t) (x : pdn_connection_t) : pdn_connection_t :=
  mk_pdn x.(bearer_control_mode) x.(call_id) x.(apn) x.(apn_len) x.(apn_ambr_ul) x.(apn_ambr_dl) x.(seid) x.(dp_seid) x.(pdn_ipv4) x.(s5s8_pgw_gtpc_teid) x.(pdn_type_ipv4) x.(pdn_type_ipv6) x.(default_bearer_id) x.(num_bearer) x.(eps_bearers) x.(default_bearer_qos_valid) x.(default_bearer_qos) v x.(pdn_flags).
Definition set_ue_bearers (v : list (option ptr)) (x : ue_context_t) : ue_context_t :=
  mk_ue x.(imsi) x.(msisdn) x.(mei) x.(rat_type_len) x.(rat_type) x.(event_trigger) x.(serving_nw) v x.(teid_bitmap) x.(upf_context).
Definition set_ue_teid_bitmap (v : Z) (x : ue_context_t) : ue_context_t :=
  mk_ue x.(imsi) x.(msisdn) x.(mei) x.(rat_type_len) x.(rat_type) x.(event_trigger) x.(serving_nw) x.(ue_bearers) v x.(upf_context).
Definition set_ses_cp_type (v : cp_type_t) (x : session) : session :=
  mk_session v x.(pdn) x.(context) x.(h_bearers) x.(h_pdrs) x.(h_rules) x.(qer_table) x.(pdr_table) x.(rule_table) x.(ids) x.(teids) x.(next_ptr).
Definition set_ses_pdn (v : pdn_connection_t) (x : session) : session :=
  mk_session x.(cp_type) v x.(context) x.(h_bearers) x.(h_pdrs) x.(h_rules) x.(qer_table) x.(pdr_table) x.(rule_table) x.(ids) x.(teids) x.(next_ptr).
Definition set_ses_context (v : ue_context_t) (x : session) : session :=
  mk_session x.(cp_type) x.(pdn) v x.(h_bearers) x.(h_pdrs) x.(h_rules) x.(qer_table) x.(pdr_table) x.(rule_table) x.(ids) x.(teids) x.(next_ptr).
Definition set_ses_h_bearers (v : gmap ptr eps_bearer_t) (x : session) : session :=
  mk_session x.(cp_type) x.(pdn) x.(context) v x.(h_pdrs) x.(h_rules) x.(qer_table) x.(pdr_table) x.(rule_table) x.(ids) x.(teids) x.(next_ptr).
Definition set_ses_h_pdrs (v : gmap ptr pdr_t) (x : session) : session :=
  mk_session x.(cp_type) x.(pdn) x.(context) x.(h_bearers) v x.(h_rules) x.(qer_table) x.(pdr_table) x.(rule_table) x.(ids) x.(teids) x.(next_ptr).
Definition set_ses_h_rules (v : gmap ptr dynamic_rule_t) (x : session) : session :=
  mk_session x.(cp_type) x.(pdn) x.(context) x.(h_bearers) x.(h_pdrs) v x.(qer_table) x.(pdr_table) x.(rule_table) x.(ids) x.(teids) x.(next_ptr).
Definition set_ses_qer_table (v : gmap Z qer_t) (x : session) : session :=
  mk_session x.(cp_type) x.(pdn) x.(context) x.(h_bearers) x.(h_pdrs) x.(h_rules) v x.(pdr_table) x.(rule_table) x.(ids) x.(teids) x.(next_ptr).
Definition set_ses_pdr_table (v : gmap Z ptr) (x : session) : session :=
  mk_session x.(cp_type) x.(pdn) x.(context) x.(h_bearers) x.(h_pdrs) x.(h_rules) x.(qer_table) v x.(rule_table) x.(ids) x.(teids) x.(next_ptr).
Definition set_ses_rule_table (v : gmap string Z) (x : session) : session :=
  mk_session x.(cp_type) x.(pdn) x.(context) x.(h_bearers) x.(h_pdrs) x.(h_rules) x.(qer_table) x.(pdr_table) v x.(ids) x.(teids) x.(next_ptr).
Definition set_ses_ids (v : offsets) (x : session) : session :=
  mk_session x.(cp_type) x.(pdn) x.(context) x.(h_bearers) x.(h_pdrs) x.(h_rules) x.(qer_table) x.(pdr_table) x.(rule_table) v x.(teids) x.(next_ptr).
Definition set_ses_teids (v : teid_globals) (x : session) : session :=
  mk_session x.(cp_type) x.(pdn) x.(context) x.(h_bearers) x.(h_pdrs) x.(h_rules) x.(qer_table) x.(pdr_table) x.(rule_table) x.(ids) v x.(next_ptr).
Definition set_ses_next_ptr (v : ptr) (x : session) : session :=
  mk_session x.(cp_type) x.(pdn) x.(context) x.(h_bearers) x.(h_pdrs) x.(h_rules) x.(qer_table) x.(pdr_table) x.(rule_table) x.(ids) x.(teids) v.
Definition set_pdn_bearer_control_mode (v : Z) (x : pdn_connection_t) : pdn_connection_t :=
  mk_pdn v x.(call_id) x.(apn) x.(apn_len) x.(apn_ambr_ul) x.(apn_ambr_dl) x.(seid) x.(dp_seid) x.(pdn_ipv4) x.(s5s8_pgw_gtpc_teid) x.(pdn_type_ipv4) x.(pdn_type_ipv6) x.(default_bearer_id) x.(num_bearer) x.(eps_bearers) x.(default_bearer_qos_valid) x.(default_bearer_qos) x.(pending_pcc_rules) x.(pdn_flags).
Definition set_pdn_apn_ambr_ul (v : Z) (x : pdn_connection_t) : pdn_connection_t :=
  mk_pdn x.(bearer_control_mode) x.(call_id) x.(apn) x.(apn_len) v x.(apn_ambr_dl) x.(seid) x.(dp_seid) x.(pdn_ipv4) x.(s5s8_pgw_gtpc_teid) x.(pdn_type_ipv4) x.(pdn_type_ipv6) x.(default_bearer_id) x.(num_bearer) x.(eps_bearers) x.(default_bearer_qos_valid) x.(default_bearer_qos) x.(pending_pcc_rules) x.(pdn_flags).
Definition set_pdn_apn_ambr_dl (v : Z) (x : pdn_connection_t) : pdn_connection_t :=
  mk_pdn x.(bearer_control_mode) x.(call_id) x.(apn) x.(apn_len) x.(apn_ambr_ul) v x.(seid) x.(dp_seid) x.(pdn_ipv4) x.(s5s8_pgw_gtpc_teid) x.(pdn_type_ipv4) x.(pdn_type_ipv6) x.(default_bearer_id) x.(num_bearer) x.(eps_bearers) x.(default_bearer_qos_valid) x.(default_bearer_qos) x.(pending_pcc_rules) x.(pdn_flags).
Definition set_pdn_default_bearer_qos_valid (v : bool) (x : pdn_connection_t) : pdn_connection_t :=
  mk_pdn x.(bearer_control_mode) x.(call_id) x.(apn) x.(apn_len) x.(apn_ambr_ul) x.(apn_ambr_dl) x.(seid) x.(dp_seid) x.(pdn_ipv4) x.(s5s8_pgw_gtpc_teid) x.(pdn_type_ipv4) x.(pdn_type_ipv6) x.(default_bearer_id) x.(num_bearer) x.(eps_bearers) v x.(default_bearer_qos) x.(pending_pcc_rules) x.(pdn_flags).
Definition set_pdn_default_bearer_qos (v : bearer_qos_ie) (x : pdn_connection_t) : pdn_connection_t :=
  mk_pdn x.(bearer_control_mode) x.(call_id) x.(apn) x.(apn_len) x.(apn_ambr_ul) x.(apn_ambr_dl) x.(seid) x.(dp_seid) x.(pdn_ipv4) x.(s5s8_pgw_gtpc_teid) x.(pdn_type_ipv4) x.(pdn_type_ipv6) x.(default_bearer_id) x.(num_bearer) x.(eps_bearers) x.(default_bearer_qos_valid) v x.(pending_pcc_rules) x.(pdn_flags).
Definition set_ue_event_trigger (v : Z) (x : ue_context_t) : ue_context_t :=
  mk_ue x.(imsi) x.(msisdn) x.(mei) x.(rat_type_len) x.(rat_type) v x.(serving_nw) x.(ue_bearers) x.(teid_bitmap) x.(upf_context).
Definition set_rule_online (v : Z) (x : dynamic_rule_t) : dynamic_rule_t :=
  mk_rule v x.(offline) x.(flow_status) x.(reporting_level) x.(precedence) x.(service_id) x.(rating_group) x.(def_bearer_indication) x.(rule_name) x.(af_charging_id_string) x.(rule_qos) x.(num_flw_desc) x.(flow_desc) x.(rule_pdr).
Definition set_rule_offline (v : Z) (x : dynamic_rule_t) : dynamic_rule_t :=
  mk_rule x.(online) v x.(flow_status) x.(reporting_level) x.(precedence) x.(service_id) x.(rating_group) x.(def_bearer_indication) x.(rule_name) x.(af_charging_id_string) x.(rule_qos) x.(num_flw_desc) x.(flow_desc) x.(rule_pdr).
Definition set_rule_flow_status (v : Z) (x : dynamic_rule_t) : dynamic_rule_t :=
  mk_rule x.(online) x.(offline) v x.(reporting_level) x.(precedence) x.(service_id) x.(rating_group) x.(def_bearer_indication) x.(rule_name) x.(af_charging_id_string) x.(rule_qos) x.(num_flw_desc) x.(flow_desc) x.(rule_pdr).
Definition set_rule_reporting_level (v : Z) (x : dynamic_rule_t) : dynamic_rule_t :=
  mk_rule x.(online) x.(offline) x.(flow_status) v x.(precedence) x.(service_id) x.(rating_group) x.(def_bearer_indication) x.(rule_name) x.(af_charging_id_string) x.(rule_qos) x.(num_flw_desc) x.(flow_desc) x.(rule_pdr).
Definition set_rule_precedence (v : Z) (x : dynamic_rule_t) : dynamic_rule_t :=
  mk_rule x.(online) x.(offline) x.(flow_status) x.(reporting_level) v x.(service_id) x.(rating_group) x.(def_bearer_indication) x.(rule_name) x.(af_charging_id_string) x.(rule_qos) x.(num_flw_desc) x.(flow_desc) x.(rule_pdr).
Definition set_rule_service_id (v : Z) (x : dynamic_rule_t) : dynamic_rule_t :=
  mk_rule x.(online) x.(offline) x.(flow_status) x.(reporting_level) x.(precedence) v x.(rating_group) x.(def_bearer_indication) x.(rule_name) x.(af_charging_id_string) x.(rule_qos) x.(num_flw_desc) x.(flow_desc) x.(rule_pdr).
Definition set_rule_rating_group (v : Z) (x : dynamic_rule_t) : dynamic_rule_t :=
  mk_rule x.(online) x.(offline) x.(flow_status) x.(reporting_level) x.(precedence) x.(service_id) v x.(def_bearer_indication) x.(rule_name) x.(af_charging_id_string) x.(rule_qos) x.(num_flw_desc) x.(flow_desc) x.(rule_pdr).
Definition set_rule_def_bearer_indication (v : Z) (x : dynamic_rule_t) : dynamic_rule_t :=
  mk_rule x.(online) x.(offline) x.(flow_status) x.(reporting_level) x.(precedence) x.(service_id) x.(rating_group) v x.(rule_name) x.(af_charging_id_string) x.(rule_qos) x.(num_flw_desc) x.(flow_desc) x.(rule_pdr).
Definition set_rule_rule_name (v : string) (x : dynamic_rule_t) : dynamic_rule_t :=
  mk_rule x.(online) x.(offline) x.(flow_status) x.(reporting_level) x.(precedence) x.(service_id) x.(rating_group) x.(def_bearer_indication) v x.(af_charging_id_string) x.(rule_qos) x.(num_flw_desc) x.(flow_desc) x.(rule_pdr).
Definition set_rule_af_charging_id_string (v : list Z) (x : dynamic_rule_t) : dynamic_rule_t :=
  mk_rule x.(online) x.(offline) x.(flow_status) x.(reporting_level) x.(precedence) x.(service_id) x.(rating_group) x.(def_bearer_indication) x.(rule_name) v x.(rule_qos) x.(num_flw_desc) x.(flow_desc) x.(rule_pdr).
Definition set_rule_rule_qos (v : bearer_qos_ie) (x : dynamic_rule_t) : dynamic_rule_t :=
  mk_rule x.(online) x.(offline) x.(flow_status) x.(reporting_level) x.(precedence) x.(service_id) x.(rating_group) x.(def_bearer_indication) x.(rule_name) x.(af_charging_id_string) v x.(num_flw_desc) x.(flow_desc) x.(rule_pdr).
Definition set_rule_num_flw_desc (v : Z) (x : dynamic_rule_t) : dynamic_rule_t :=
  mk_rule x.(online) x.(offline) x.(flow_status) x.(reporting_level) x.(precedence) x.(service_id) x.(rating_group) x.(def_bearer_indication) x.(rule_name) x.(af_charging_id_string) x.(rule_qos) v x.(flow_desc) x.(rule_pdr).
Definition set_rule_flow_desc (v : list flow_desc_t) (x : dynamic_rule_t) : dynamic_rule_t :=
  mk_rule x.(online) x.(offline) x.(flow_status) x.(reporting_level) x.(precedence) x.(service_id) x.(rating_group) x.(def_bearer_indication) x.(rule_name) x.(af_charging_id_string) x.(rule_qos) x.(num_flw_desc) v x.(rule_pdr).
Definition set_flow_flow_direction (v : Z) (x : flow_desc_t) : flow_desc_t :=
  mk_flow v x.(sdf_flw_desc) x.(sdf_flow_description) x.(flow_desc_len).
Definition set_flow_sdf_flw_desc (v : sdf_pkt_fltr_t) (x : flow_desc_t) : flow_desc_t :=
  mk_flow x.(flow_direction) v x.(sdf_flow_description) x.(flow_desc_len).
Definition set_flow_sdf_flow_description (v : list Z) (x : flow_desc_t) : flow_desc_t :=
  mk_flow x.(flow_direction) x.(sdf_flw_desc) v x.(flow_desc_len).
Definition set_flow_flow_desc_len (v : Z) (x : flow_desc_t) : flow_desc_t :=
  mk_flow x.(flow_direction) x.(sdf_flw_desc) x.(sdf_flow_description) v.
Definition set_qos_qci (v : Z) (x : bearer_qos_ie) : bearer_qos_ie :=
  mk_qos v x.(ul_mbr) x.(dl_mbr) x.(ul_gbr) x.(dl_gbr) x.(preemption_vulnerability) x.(priority_level) x.(preemption_capability).
Definition set_qos_ul_mbr (v : Z) (x : bearer_qos_ie) : bearer_qos_ie :=
  mk_qos x.(qci) v x.(dl_mbr) x.(ul_gbr) x.(dl_gbr) x.(preemption_vulnerability) x.(priority_level) x.(preemption_capability).
Definition set_qos_dl_mbr (v : Z) (x : bearer_qos_ie) : bearer_qos_ie :=
  mk_qos x.(qci) x.(ul_mbr) v x.(ul_gbr) x.(dl_gbr) x.(preemption_vulnerability) x.(priority_level) x.(preemption_capability).
Definition set_qos_priority_level (v : Z) (x : bearer_qos_ie) : bearer_qos_ie :=
  mk_qos x.(qci) x.(ul_mbr) x.(dl_mbr) x.(ul_gbr) x.(dl_gbr) x.(preemption_vulnerability) v x.(preemption_capability).
Definition set_qos_preemption_capability (v : Z) (x : bearer_qos_ie) : bearer_qos_ie :=
  mk_qos x.(qci) x.(ul_mbr) x.(dl_mbr) x.(ul_gbr) x.(dl_gbr) x.(preemption_vulnerability) x.(priority_level) v.
Definition set_qos_preemption_vulnerability (v : Z) (x : bearer_qos_ie) : bearer_qos_ie :=
  mk_qos x.(qci) x.(ul_mbr) x.(dl_mbr) x.(ul_gbr) x.(dl_gbr) v x.(priority_level) x.(preemption_capability).

(** ** The monad *)

Definition sesM (A : Type) : Type := session -> option (A * session).
#[global] Instance sesM_ret : MRet sesM := fun A x s => Some (x, s).
#[global] Instance sesM_bind : MBind sesM := fun A B k m s =>
  match m s with Some (x, s') => k x s' | None => None end.

Definition sgets {A} (f : session -> A) : sesM A := fun s => Some (f s, s).
Definition smodify (f : session -> session) : sesM unit := fun s => Some (tt, f s).
(** A pointer that is followed, and a lookup or an array access that must succeed. *)
Definition sdef {A} (o : option A) : sesM A := fun s => x ← o; Some (x, s).

Definition load_bearer (b : ptr) : sesM eps_bearer_t := fun s => x ← s.(h_bearers) !! b; Some (x, s).
Definition update_bearer (b : ptr) (f : eps_bearer_t -> eps_bearer_t) : sesM unit := fun s =>
  x ← s.(h_bearers) !! b; Some (tt, set_ses_h_bearers (<[b := f x]> s.(h_bearers)) s).
Definition load_pdr (p : ptr) : sesM pdr_t := fun s => x ← s.(h_pdrs) !! p; Some (x, s).
Definition update_pdr (p : ptr) (f : pdr_t -> pdr_t) : sesM unit := fun s =>
  x ← s.(h_pdrs) !! p; Some (tt, set_ses_h_pdrs (<[p := f x]> s.(h_pdrs)) s).
Definition load_rule (r : ptr) : sesM dynamic_rule_t := fun s => x ← s.(h_rules) !! r; Some (x, s).
Definition update_rule (r : ptr) (f : dynamic_rule_t -> dynamic_rule_t) : sesM unit := fun s =>
  x ← s.(h_rules) !! r; Some (tt, set_ses_h_rules (<[r := f x]> s.(h_rules)) s).
Definition update_pdn (f : pdn_connection_t -> pdn_connection_t) : sesM unit :=
  smodify (fun s => set_ses_pdn (f s.(pdn)) s).
Definition update_ue (f : ue_context_t -> ue_context_t) : sesM unit :=
  smodify (fun s => set_ses_context (f s.(context)) s).

(** [arr[count] = x; count++] of an array of [max]. *)
Definition push {A} (max : nat) (x : A) (l : list A) : option (list A) :=
  if (length l <? max)%nat then Some (l ++ [x]) else None.
Definition NUMBER_PER_BEARER : nat := 16. (* of PDR, QER, URR and rules *)
Definition MAX_LIST : nat := 16. (* MAX_LIST_SIZE *)

(** ** Identifiers (src/cp/pfcp/common/pfcp_init.c) *)

Definition set_offsets (f : offsets -> offsets) : sesM unit := smodify (fun s => set_ses_ids (f s.(ids)) s).

Definition generate_pdr_id : sesM Z :=
  o ← sgets ids; let id := u16 (o.(pdr_rule_id_offset) + 1) in
  _ ← set_offsets (fun o => mk_offsets id o.(far_rule_id_offset) o.(qer_rule_id_offset) o.(urr_rule_id_offset)
        o.(pfcp_seq_no_offset)); mret id.
Definition generate_far_id : sesM Z :=
  o ← sgets ids; let id := u32 (o.(far_rule_id_offset) + 1) in
  _ ← set_offsets (fun o => mk_offsets o.(pdr_rule_id_offset) id o.(qer_rule_id_offset) o.(urr_rule_id_offset)
        o.(pfcp_seq_no_offset)); mret id.

(** The upper bits say for which side the rule is, or that it is common. *)
Definition iface_mark (iface : Z) : Z :=
  if iface =? SOURCE_INTERFACE_VALUE_ACCESS then 0x20000000
  else if iface =? SOURCE_INTERFACE_VALUE_CORE then 0x40000000 else 0x30000000.
Definition is_common (id : Z) : bool := Z.land id 0x30000000 =? 0x30000000.

Definition generate_urr_id (iface : Z) : sesM Z :=
  o ← sgets ids; let n := u32 (o.(urr_rule_id_offset) + 1) in
  _ ← set_offsets (fun o => mk_offsets o.(pdr_rule_id_offset) o.(far_rule_id_offset) o.(qer_rule_id_offset) n
        o.(pfcp_seq_no_offset));
  mret (Z.lor n (iface_mark iface)).
Definition generate_qer_id (iface : Z) : sesM Z :=
  o ← sgets ids; let n := u32 (o.(qer_rule_id_offset) + 1) in
  _ ← set_offsets (fun o => mk_offsets o.(pdr_rule_id_offset) o.(far_rule_id_offset) n o.(urr_rule_id_offset)
        o.(pfcp_seq_no_offset));
  mret (Z.lor n (iface_mark iface)).
Definition isCommonQER (id : Z) : bool := is_common id.
Definition isCommonURR (id : Z) : bool := is_common id.

(** [get_pfcp_sequence_number] of a request. *)
Definition generate_seq_no : sesM Z :=
  o ← sgets ids; let n := u32 (o.(pfcp_seq_no_offset) + 1) in
  _ ← set_offsets (fun o => mk_offsets o.(pdr_rule_id_offset) o.(far_rule_id_offset) o.(qer_rule_id_offset)
        o.(urr_rule_id_offset) n); mret n.

(** ** Bearers of the connection (src/cp/pdn.c) *)

Definition array_at {A} (l : list A) (i : Z) : option A := if 0 <=? i then l !! Z.to_nat i else None.
Definition array_set {A} (l : list A) (i : Z) (x : A) : option (list A) :=
  if (0 <=? i) && (i <? Z.of_nat (length l)) then Some (<[Z.to_nat i := x]> l) else None.

Definition get_default_bearer : sesM (option ptr) :=
  d ← sgets pdn; sdef (array_at d.(eps_bearers) (d.(default_bearer_id) - 5)).

Definition same_qos (q1 q2 : bearer_qos_ie) : bool :=
  (q1.(qci) =? q2.(qci)) && (q1.(preemption_vulnerability) =? q2.(preemption_vulnerability)) &&
  (q1.(priority_level) =? q2.(priority_level)) && (q1.(preemption_capability) =? q2.(preemption_capability)).
(** [compare_default_bearer_qos] returns 0 when the four members agree. *)
Definition compare_default_bearer_qos (default rule : bearer_qos_ie) : Z := if same_qos default rule then 0 else -1.

Fixpoint find_bearer (bearers : list (option ptr)) (q : bearer_qos_ie) : sesM (option ptr) :=
  match bearers with
  | [] => mret None
  | None :: rest => find_bearer rest q
  | Some b :: rest =>
      bearer ← load_bearer b;
      if same_qos bearer.(qos) q then mret (Some b) else find_bearer rest q
  end.
Definition get_bearer (q : bearer_qos_ie) : sesM (option ptr) := d ← sgets pdn; find_bearer d.(eps_bearers) q.

(** ** Rules *)

Definition is_pgw (ty : cp_type_t) : bool := match ty with SGWC => false | _ => true end.

(** With [apnAmbr] the rates are those of the connection, otherwise those of the rule,
    which is followed also when it is NULL. *)
Definition fill_qer_entry (b : ptr) (id : Z) (apnAmbr : bool) (dyn_rule : option ptr) : sesM Z :=
  bearer ← load_bearer b;
  d ← sgets pdn;
  q ← (if apnAmbr then mret (mk_qer id bearer.(qos).(qci) d.(apn_ambr_ul) d.(apn_ambr_dl) 0 0)
       else
         r ← sdef dyn_rule;
         rule ← load_rule r;
         let q := rule.(rule_qos) in
         mret (mk_qer id bearer.(qos).(qci) q.(ul_mbr) q.(dl_mbr) q.(ul_gbr) q.(dl_gbr)));
  _ ← smodify (fun s => set_ses_qer_table (map_insert id q s.(qer_table)) s);
  mret 0.

(** [sprintf("%u")] of a digit of 4 bits, and the three digits into a [char\[4\]]. *)
Definition digits (ds : list Z) : option (list Z) :=
  let t := mjoin ((fun d => str_bytes (pretty d)) <$> ds) in
  if (length t <=? 3)%nat then Some t else None.

(** ["mnc%s.mcc%s"], padded with zeros to 32 bytes. *)
Definition network_instance (nw : serving_nwrk_t) : option (list Z) :=
  mnc ← (if nw.(mnc_digit_3) =? 15 then digits [0; nw.(mnc_digit_1); nw.(mnc_digit_2)]
         else digits [nw.(mnc_digit_1); nw.(mnc_digit_2); nw.(mnc_digit_3)]);
  mcc ← digits [nw.(mcc_digit_1); nw.(mcc_digit_2); nw.(mcc_digit_3)];
  let t := str_bytes "mnc" ++ mnc ++ str_bytes ".mcc" ++ mcc in
  Some (t ++ repeat 0 (32 - length t)).

Definition DESTINATION_INTERFACE_VALUE_ACCESS : Z := 0.
Definition DESTINATION_INTERFACE_VALUE_CORE : Z := 1.

(** The identifier of the rule itself, then the common ones of the bearer. *)
Definition with_common (id : Z) (of_bearer : list Z) : option (list Z) :=
  let l := id :: List.filter is_common of_bearer in
  if (length l <=? MAX_LIST)%nat then Some l else None.

Definition fill_pdr_entry (cfg : session_config) (b : ptr) (iface qer_id urr_id : Z) : sesM ptr :=
  s ← sgets id;
  bearer ← load_bearer b;
  inst ← sdef (network_instance s.(context).(serving_nw));
  rule_id ← generate_pdr_id;
  far_id ← generate_far_id;
  let ty := s.(cp_type) in
  qers ← sdef (if is_pgw ty then with_common qer_id bearer.(qer_ids) else Some []);
  urrs ← sdef (if cfg.(urr_enable) && is_pgw ty then with_common urr_id bearer.(urr_ids) else Some []);
  let access := iface =? SOURCE_INTERFACE_VALUE_ACCESS in
  let to_sgw := match ty with PGWC => negb access | _ => false end in
  let pdr := mk_pdr rule_id 1 s.(pdn).(seid) iface s.(pdn).(pdn_ipv4) inst
               (if access then bearer.(s1u_sgw_gtpu_teid) else 0) 0 far_id
               (if access then (if is_pgw ty then DESTINATION_INTERFACE_VALUE_CORE else 0)
                else DESTINATION_INTERFACE_VALUE_ACCESS)
               (if to_sgw then bearer.(s5s8_sgw_gtpu_teid) else 0) (if to_sgw then bearer.(s5s8_sgw_gtpu_ipv4) else 0)
               qers urrs None in
  p ← sgets next_ptr;
  _ ← smodify (fun s => set_ses_next_ptr (Pos.succ p) (set_ses_h_pdrs (<[p := pdr]> s.(h_pdrs)) s));
  _ ← sdef (push NUMBER_PER_BEARER p bearer.(pdrs));
  _ ← smodify (fun s => set_ses_pdr_table (map_insert rule_id p s.(pdr_table)) s);
  mret p.

Definition update_pdr_teid (b : ptr) (teid ip iface : Z) : sesM unit :=
  bearer ← load_bearer b;
  (fix go (l : list ptr) : sesM unit :=
     match l with
     | [] => mret tt
     | p :: l' =>
         pdr ← load_pdr p;
         _ ← (if pdr.(src_intfc) =? iface
              then update_pdr p (fun x => set_pdr_local_ipv4 (htonl ip) (set_pdr_local_teid teid x)) else mret tt);
         go l'
     end) bearer.(pdrs).

(** [for(itr = 0; itr < n; itr++)] with a result per turn. *)
Fixpoint repeatM {A} (n : nat) (m : sesM A) : sesM (list A) :=
  match n with O => mret [] | S n' => x ← m; l ← repeatM n' m; mret (x :: l) end.

(** [cp_type = PGWC] is an assignment; the QER entries are made with a NULL rule. *)
Definition fill_dedicated_bearer_info (cfg : session_config) (b : ptr) : sesM Z :=
  s ← sgets id;
  o ← sdef (array_at s.(context).(ue_bearers) (s.(pdn).(default_bearer_id) - 5));
  default ← sdef o;
  def ← load_bearer default;
  _ ← update_bearer b (set_bearer_s5s8_sgw_gtpu_ipv4 def.(s5s8_sgw_gtpu_ipv4));
  _ ← (if cfg.(gx_enabled) then
         _ ← smodify (set_ses_cp_type PGWC);
         qers ← repeatM NUMBER_PER_BEARER
                  (id ← generate_qer_id SOURCE_INTERFACE_VALUE_CORE; _ ← fill_qer_entry b id false None; mret id);
         urrs ← repeatM NUMBER_PER_BEARER (generate_urr_id SOURCE_INTERFACE_VALUE_CORE);
         update_bearer b (fun x => set_bearer_urr_ids urrs (set_bearer_qer_ids qers x))
       else mret tt);
  s ← sgets id;
  match s.(cp_type) with
  | SAEGWC =>
      upf ← sdef s.(context).(upf_context);
      let '(teid, bitmap, g) := set_s1u_sgw_gtpu_teid SAEGWC s.(teids) s.(context).(teid_bitmap) in
      _ ← update_bearer b (fun x => set_bearer_s1u_sgw_gtpu_teid teid (set_bearer_s1u_sgw_gtpu_ipv4 upf.(s1u_ip) x));
      _ ← update_ue (set_ue_teid_bitmap bitmap);
      _ ← smodify (set_ses_teids g);
      _ ← update_pdr_teid b teid upf.(s1u_ip) SOURCE_INTERFACE_VALUE_ACCESS;
      mret 0
  | PGWC =>
      upf ← sdef s.(context).(upf_context);
      let '(teid, bitmap, g) := set_s5s8_pgw_gtpu_teid PGWC s.(teids) s.(context).(teid_bitmap) in
      _ ← update_bearer b (fun x => set_bearer_s5s8_pgw_gtpu_teid teid
                                      (set_bearer_s5s8_pgw_gtpu_ipv4 upf.(s5s8_pgwu_ip) x));
      _ ← update_ue (set_ue_teid_bitmap bitmap);
      _ ← smodify (set_ses_teids g);
      _ ← update_pdr_teid b teid upf.(s5s8_pgwu_ip) SOURCE_INTERFACE_VALUE_ACCESS;
      mret 0
  | SGWC => mret 0
  end.

(** ** Installing the pending rules: the first part of [fill_pfcp_sess_est_req] *)

(** A bearer for rules that no bearer fits. *)
Definition new_dedicated_bearer (cfg : session_config) (q : bearer_qos_ie) : sesM ptr :=
  b ← sgets next_ptr;
  _ ← smodify (fun s => set_ses_next_ptr (Pos.succ b) (set_ses_h_bearers (<[b := zero_bearer]> s.(h_bearers)) s));
  s ← sgets id;
  let id := s.(pdn).(num_bearer) in (* get_new_bearer_id *)
  l ← sdef (array_set s.(pdn).(eps_bearers) id (Some b));
  lu ← sdef (array_set s.(context).(ue_bearers) id (Some b));
  let '(teid, bitmap) := set_s5s8_pgw_gtpu_teid_using_pdn s.(pdn).(s5s8_pgw_gtpc_teid) s.(context).(teid_bitmap) in
  _ ← update_pdn (fun d => set_pdn_num_bearer (u8 (id + 1)) (set_pdn_eps_bearers l d));
  _ ← update_ue (fun u => set_ue_teid_bitmap bitmap (set_ue_bearers lu u));
  _ ← update_bearer b (fun x => set_bearer_qos q (set_bearer_s5s8_pgw_gtpu_teid teid x));
  _ ← fill_dedicated_bearer_info cfg b;
  mret b.

Definition bearer_of_rule (cfg : session_config) (q : bearer_qos_ie) : sesM (option ptr) :=
  d ← sgets pdn;
  if compare_default_bearer_qos d.(default_bearer_qos) q =? 0 then get_default_bearer
  else
    o ← get_bearer q;
    match o with
    | Some b => mret (Some b)
    | None => b ← new_dedicated_bearer cfg q; mret (Some b)
    end.

(** The QER of the connection's rates, once, on the default bearer. *)
Definition add_ambr_qer (cfg : session_config) : sesM unit :=
  if cfg.(gx_enabled) then
    o ← get_default_bearer;
    b ← sdef o;
    bearer ← load_bearer b;
    if bearer.(ambr_qer_flag) then mret tt
    else
      id ← generate_qer_id SOURCE_INTERFACE_VALUE_UNKNOWN;
      l ← sdef (push NUMBER_PER_BEARER id bearer.(qer_ids));
      _ ← fill_qer_entry b id true None;
      update_bearer b (fun x => set_bearer_ambr_qer_flag true (set_bearer_qer_ids l x))
  else mret tt.

(** One side of a rule: the identifiers, the QER, and the PDR, [slot] of the rule. *)
Definition install_side (cfg : session_config) (b r : ptr) (iface : Z) (slot : nat) : sesM unit :=
  urr ← generate_urr_id iface;
  bearer ← load_bearer b;
  urrs ← sdef (push NUMBER_PER_BEARER urr bearer.(urr_ids));
  qer ← generate_qer_id iface;
  qers ← sdef (push NUMBER_PER_BEARER qer bearer.(qer_ids));
  _ ← fill_qer_entry b qer false (Some r);
  p ← fill_pdr_entry cfg b iface qer urr;
  rule ← load_rule r;
  _ ← update_pdr p (fun x => set_pdr_dynamic_rule (Some r) (set_pdr_prcdnc_val rule.(precedence) x));
  _ ← update_rule r (fun x => set_rule_pdr (<[slot := Some p]> x.(rule_pdr)) x);
  update_bearer b (fun x => set_bearer_pdrs (x.(pdrs) ++ [p]) (set_bearer_qer_ids qers (set_bearer_urr_ids urrs x))).

(** [sprintf("%s%d")] of the rule name and the call id. *)
Definition rule_key (name : string) (call_id : Z) : string :=
  name +:+ pretty (if call_id <? 2 ^ 31 then call_id else call_id - 2 ^ 32).

Definition install_rule (cfg : session_config) (r : ptr) : sesM ptr :=
  rule ← load_rule r;
  o ← bearer_of_rule cfg rule.(rule_qos);
  b ← sdef o;
  bearer ← load_bearer b;
  _ ← sdef (push NUMBER_PER_BEARER r bearer.(dynamic_rules));
  _ ← add_ambr_qer cfg;
  _ ← install_side cfg b r SOURCE_INTERFACE_VALUE_ACCESS 0;
  _ ← install_side cfg b r SOURCE_INTERFACE_VALUE_CORE 1;
  _ ← update_bearer b (fun x => set_bearer_dynamic_rules (x.(dynamic_rules) ++ [r]) x);
  bearer ← load_bearer b;
  _ ← smodify (fun s => set_ses_rule_table
                 (map_insert (rule_key rule.(rule_name) s.(pdn).(call_id)) bearer.(eps_bearer_id) s.(rule_table)) s);
  mret b.

(** The loop over the queue; the bearer of the last rule is used behind it. *)
Fixpoint install_rules (cfg : session_config) (rules : list pcc_rule_t) (last : option ptr) (count : Z) : sesM (option ptr * Z) :=
  match rules with
  | [] => mret (last, count)
  | r :: rest =>
      _ ← update_pdn (set_pdn_pending_pcc_rules rest);
      b ← install_rule cfg r.(dyn_rule);
      install_rules cfg rest (Some b) (u8 (count + 2))
  end.

(** Both branches of the first part: the count of PDRs of the request. *)
Definition session_rules (cfg : session_config) (upf : upf_context_t) : sesM Z :=
  s ← sgets id;
  if is_pgw s.(cp_type) then
    '(last, count) ← install_rules cfg s.(pdn).(pending_pcc_rules) None 0;
    s ← sgets id;
    _ ← match s.(cp_type) with
        | SAEGWC =>
            b ← sdef last; bearer ← load_bearer b;
            update_pdr_teid b bearer.(s1u_sgw_gtpu_teid) upf.(s1u_ip) SOURCE_INTERFACE_VALUE_ACCESS
        | PGWC =>
            b ← sdef last; bearer ← load_bearer b;
            update_pdr_teid b bearer.(s5s8_pgw_gtpu_teid) upf.(s5s8_pgwu_ip) SOURCE_INTERFACE_VALUE_ACCESS
        | SGWC => mret tt
        end;
    mret count
  else
    o ← get_default_bearer;
    b ← sdef o;
    bearer ← load_bearer b;
    _ ← update_pdr_teid b bearer.(s1u_sgw_gtpu_teid) upf.(s1u_ip) SOURCE_INTERFACE_VALUE_ACCESS;
    _ ← update_pdr_teid b bearer.(s5s8_sgw_gtpu_teid) upf.(s5s8_sgwu_ip) SOURCE_INTERFACE_VALUE_CORE;
    mret (Z.of_nat (length bearer.(pdrs))).
