(* ===== verification/PfcpSessionReq.v ===== *)
(** * Session requests (src/cp/pfcp/common/pfcp_cp_session.c)

    The requests for the establishment, modification and deletion of a session, filled
    from the rules of its bearers.  A structure of an array of the request is filled as
    the array member [i]; an index outside the array has no result. *)

From stdpp Require Import gmap.
From S2P Require Import Prelude EncDecBits Text Teid Upf PfcpIes PfcpMsgs PfcpSetIe PfcpSession.

Open Scope Z_scope.

(** ** Members of the elements *)

Definition with_rule_id (v : Z) (x : pfcp_pdr_id_ie_t) : pfcp_pdr_id_ie_t := mk_pdr_id x.(pdr_id_header) v.
Definition with_prcdnc (v : Z) (x : pfcp_precedence_ie_t) : pfcp_precedence_ie_t := mk_precedence x.(precedence_header) v.
Definition with_far_id (v : Z) (x : pfcp_far_id_ie_t) : pfcp_far_id_ie_t := mk_far_id x.(far_id_header) v.
Definition with_qer_id (v : Z) (x : pfcp_qer_id_ie_t) : pfcp_qer_id_ie_t := mk_qer_id x.(qer_id_header) v.
Definition with_urr_id (v : Z) (x : pfcp_urr_id_ie_t) : pfcp_urr_id_ie_t := mk_urr_id x.(urr_id_header) v.
Definition with_src_intfc (v : Z) (x : pfcp_src_intfc_ie_t) : pfcp_src_intfc_ie_t :=
  mk_src_intfc x.(src_intfc_header) x.(src_intfc_spare) (uwrap 4 v).
Definition with_dst_intfc (v : Z) (x : pfcp_dst_intfc_ie_t) : pfcp_dst_intfc_ie_t :=
  mk_dst_intfc x.(dst_intfc_header) x.(dst_intfc_spare) (uwrap 4 v).
Definition with_tunnel (teid ipv4 : Z) (x : pfcp_fteid_ie_t) : pfcp_fteid_ie_t :=
  mk_fteid x.(fteid_header) x.(fteid_spare) x.(fteid_chid) x.(fteid_ch) x.(fteid_v6) x.(fteid_v4) teid ipv4
    x.(fteid_ipv6_address) x.(fteid_choose_id).
Definition with_teid (teid : Z) (x : pfcp_fteid_ie_t) : pfcp_fteid_ie_t := with_tunnel teid x.(fteid_ipv4_address) x.
Definition with_fteid_len (len : Z) (x : pfcp_fteid_ie_t) : pfcp_fteid_ie_t :=
  mk_fteid (with_ie_len len x.(fteid_header)) x.(fteid_spare) x.(fteid_chid) x.(fteid_ch) x.(fteid_v6) x.(fteid_v4)
    x.(fteid_teid) x.(fteid_ipv4_address) x.(fteid_ipv6_address) x.(fteid_choose_id).
Definition with_ue_addr (ipv4 : Z) (x : pfcp_ue_ip_address_ie_t) : pfcp_ue_ip_address_ie_t :=
  mk_ue_ip_address x.(ue_ip_address_header) x.(ue_ip_address_ue_ip_addr_spare) x.(ue_ip_address_chv4)
    x.(ue_ip_address_ipv6d) x.(ue_ip_address_sd) x.(ue_ip_address_v4) x.(ue_ip_address_v6) ipv4
    x.(ue_ip_address_ipv6_address) x.(ue_ip_address_ipv6_pfx_dlgtn_bits).
Definition with_ue_ip_len (len : Z) (x : pfcp_ue_ip_address_ie_t) : pfcp_ue_ip_address_ie_t :=
  mk_ue_ip_address (with_ie_len len x.(ue_ip_address_header)) x.(ue_ip_address_ue_ip_addr_spare) x.(ue_ip_address_chv4)
    x.(ue_ip_address_ipv6d) x.(ue_ip_address_sd) x.(ue_ip_address_v4) x.(ue_ip_address_v6)
    x.(ue_ip_address_ipv4_address) x.(ue_ip_address_ipv6_address) x.(ue_ip_address_ipv6_pfx_dlgtn_bits).
Definition with_hdr_creation (teid ipv4 : Z) (x : pfcp_outer_hdr_creation_ie_t) : pfcp_outer_hdr_creation_ie_t :=
  mk_outer_hdr_creation x.(outer_hdr_creation_header) x.(outer_hdr_creation_desc) teid ipv4
    x.(outer_hdr_creation_ipv6_address) x.(outer_hdr_creation_port_number) x.(outer_hdr_creation_ctag)
    x.(outer_hdr_creation_stag).
Definition with_action (forw drop : Z) (x : pfcp_apply_action_ie_t) : pfcp_apply_action_ie_t :=
  mk_apply_action x.(apply_action_header) x.(apply_action_apply_act_spare) x.(apply_action_apply_act_spare2)
    x.(apply_action_apply_act_spare3) x.(apply_action_dupl) x.(apply_action_nocp) x.(apply_action_buff) forw drop.
Definition with_gates (ul dl : Z) (x : pfcp_gate_status_ie_t) : pfcp_gate_status_ie_t :=
  mk_gate_status x.(gate_status_header) x.(gate_status_spare) ul dl.

(** ** Packet detection information *)

(** [strncpy] of the 32 bytes, which end at the first zero. *)
Fixpoint strncpy (n : nat) (src : list Z) : list Z :=
  match n, src with
  | O, _ => []
  | S n', c :: src' => if c =? 0 then repeat 0 n else c :: strncpy n' src'
  | S _, [] => repeat 0 n
  end.

(** The element of the tunnel, or those of the subscriber's address and the network
    instance, are taken out; the size by which the groups shrink. *)
Definition pdi_without_fteid (x : pfcp_pdi_ie_t) : pfcp_pdi_ie_t * Z :=
  let size := x.(pdi_local_fteid).(fteid_header).(ie_len) + sizeof_ie_header in
  (set_pdi_header (with_ie_len (x.(pdi_header).(ie_len) - size) x.(pdi_header))
     (set_pdi_local_fteid (with_fteid_len 0 x.(pdi_local_fteid)) x), size).
Definition pdi_without_address (x : pfcp_pdi_ie_t) : pfcp_pdi_ie_t * Z :=
  let size := x.(pdi_ue_ip_address).(ue_ip_address_header).(ie_len) + sizeof_ie_header
              + x.(pdi_ntwk_inst).(ntwk_inst_header).(ie_len) + sizeof_ie_header in
  (set_pdi_header (with_ie_len (x.(pdi_header).(ie_len) - size) x.(pdi_header))
     (set_pdi_ntwk_inst (mk_ntwk_inst (with_ie_len 0 x.(pdi_ntwk_inst).(ntwk_inst_header))
                           x.(pdi_ntwk_inst).(ntwk_inst_ntwk_inst))
       (set_pdi_ue_ip_address (with_ue_ip_len 0 x.(pdi_ue_ip_address)) x)), size).
Definition pdi_with_address (ipv4 : Z) (inst : list Z) (x : pfcp_pdi_ie_t) : pfcp_pdi_ie_t :=
  set_pdi_ntwk_inst (mk_ntwk_inst x.(pdi_ntwk_inst).(ntwk_inst_header) (strncpy 32 inst))
    (set_pdi_ue_ip_address (with_ue_addr ipv4 x.(pdi_ue_ip_address)) x).

(** ** Packet filters *)

Definition TFT_DIRECTION_DOWNLINK_ONLY : Z := 1.
Definition TFT_DIRECTION_UPLINK_ONLY : Z := 2.
Definition TFT_DIRECTION_BIDIRECTIONAL : Z := 3.
Definition FLAG_LEN : Z := 2.

(** [strcpy] of the description into the element, whose array has 255 bytes. *)
Definition sdf_pkt_filter_to_string (flow : flow_desc_t) (sdf_str : list Z) : option (list Z) :=
  t ← c_str flow.(sdf_flow_description);
  if (length t + 1 <=? length sdf_str)%nat then Some (t ++ [0] ++ drop (length t + 1) sdf_str) else None.

(** The filter as element [i] of the PDI, and the size by which the groups grow. *)
Definition sdf_filter_into (flow : flow_desc_t) (i : nat) (x : pfcp_pdi_ie_t) : option (pfcp_pdi_ie_t * Z) :=
  f ← x.(pdi_sdf_filter) !! i;
  desc ← sdf_pkt_filter_to_string flow f.(sdf_filter_flow_desc);
  t ← c_str desc;
  let n := u16 (Z.of_nat (length t)) in
  let len := FLAG_LEN + 2 + n in
  let f := mk_sdf_filter (pfcp_set_ie_header PFCP_IE_SDF_FILTER len) f.(sdf_filter_sdf_fltr_spare) f.(sdf_filter_bid)
             f.(sdf_filter_fl) f.(sdf_filter_spi) f.(sdf_filter_ttc) 1 f.(sdf_filter_sdf_fltr_spare2) n desc
             f.(sdf_filter_tos_traffic_cls) f.(sdf_filter_secur_parm_idx) f.(sdf_filter_flow_label) f.(sdf_filter_id) in
  let grow := len + sizeof_ie_header in
  Some (set_pdi_header (with_ie_len (x.(pdi_header).(ie_len) + grow) x.(pdi_header))
          (set_pdi_sdf_filter (<[i := f]> x.(pdi_sdf_filter)) x), grow).

(** The direction for which a flow is a filter of a PDR of the side [iface]: an uplink
    flow on the access side, a downlink flow on the core side. *)
Definition filter_wanted (iface : Z) (flow : flow_desc_t) : bool :=
  ((iface =? SOURCE_INTERFACE_VALUE_ACCESS) &&
   ((direction flow =? TFT_DIRECTION_UPLINK_ONLY) || (direction flow =? TFT_DIRECTION_BIDIRECTIONAL))) ||
  ((iface =? SOURCE_INTERFACE_VALUE_CORE) &&
   ((direction flow =? TFT_DIRECTION_DOWNLINK_ONLY) || (direction flow =? TFT_DIRECTION_BIDIRECTIONAL))).

(** The loop over the flow descriptions, [itr] to [itr + n]; [sdf_flow_description] is
    an array and never NULL.  The count of the filters and the size are summed. *)
Fixpoint sdf_filters (n : nat) (itr : nat) (flows : list flow_desc_t) (count : nat) (x : pfcp_pdi_ie_t)
    : option (pfcp_pdi_ie_t * nat * Z) :=
  match n with
  | O => Some (x, count, 0)
  | S n' =>
      flow ← flows !! itr;
      if filter_wanted x.(pdi_src_intfc).(src_intfc_interface_value) flow then
        '(x, g) ← sdf_filter_into flow count x;
        '(x, count, g') ← sdf_filters n' (S itr) flows (S count) x;
        Some (x, count, g + g')
      else sdf_filters n' (S itr) flows count x
  end.

(** [header.len += g] of the rule for every filter. *)
Definition grow_header (g : Z) (h : pfcp_ie_header_t) : pfcp_ie_header_t := with_ie_len (h.(ie_len) + g) h.

Definition fill_sdf_rules (rule : dynamic_rule_t) (x : pfcp_create_pdr_ie_t) : option pfcp_create_pdr_ie_t :=
  '(pdi, count, g) ← sdf_filters (Z.to_nat rule.(num_flw_desc)) 0 rule.(flow_desc) 0 x.(create_pdr_pdi);
  Some (set_create_pdr_header (grow_header g x.(create_pdr_header))
          (set_create_pdr_pdi (set_pdi_sdf_filter_count (u8 (Z.of_nat count)) pdi) x)).

(** ** One PDR of the establishment request *)

(** The element of the PDR: [creating_pdr], then the members from the context. *)
Definition est_create_pdr (cfg : session_config) (d : pdn_connection_t) (ty : cp_type_t) (pdr : pdr_t)
    (rule : dynamic_rule_t) (x : pfcp_create_pdr_ie_t) : option (cp_type_t * pfcp_create_pdr_ie_t) :=
  let x := set_create_pdr_urr_id_count (if cfg.(urr_enable) then 1 else 0) x in
  let x := set_create_pdr_qer_id_count (Z.of_nat (length pdr.(pdr_qers))) x in
  let ue_ip_flags := if nz (Z.land d.(pdn_flags) PDN_ADDR_ALLOC_CONTROL) then PDN_ADDR_ALLOC_CONTROL
                     else PDN_ADDR_ALLOC_UPF in
  '(ty, x, _) ← creating_pdr ty x pdr.(src_intfc) ue_ip_flags;
  let x := set_create_pdr_pdr_id (with_rule_id pdr.(rule_id) x.(create_pdr_pdr_id)) x in
  let x := set_create_pdr_precedence (with_prcdnc pdr.(prcdnc_val) x.(create_pdr_precedence)) x in
  let '(pdi, size) :=
    if is_pgw ty && (pdr.(src_intfc) =? SOURCE_INTERFACE_VALUE_CORE) then pdi_without_fteid x.(create_pdr_pdi)
    else (set_pdi_local_fteid (with_tunnel pdr.(local_teid) pdr.(local_ipv4) x.(create_pdr_pdi).(pdi_local_fteid))
            x.(create_pdr_pdi), 0) in
  let x := set_create_pdr_header (grow_header (- size) x.(create_pdr_header)) (set_create_pdr_pdi pdi x) in
  let '(pdi, size) :=
    if pdr.(src_intfc) =? SOURCE_INTERFACE_VALUE_ACCESS then pdi_without_address x.(create_pdr_pdi)
    else (pdi_with_address pdr.(ue_addr) pdr.(ntwk_inst) x.(create_pdr_pdi), 0) in
  let x := set_create_pdr_header (grow_header (- size) x.(create_pdr_header)) (set_create_pdr_pdi pdi x) in
  let x := set_create_pdr_pdi (set_pdi_src_intfc (with_src_intfc pdr.(src_intfc) x.(create_pdr_pdi).(pdi_src_intfc))
                                 x.(create_pdr_pdi)) x in
  let x := set_create_pdr_far_id (with_far_id pdr.(far_id_value) x.(create_pdr_far_id)) x in
  x ← fill_sdf_rules rule x;
  Some (ty, x).

(** [arr[i].member = l[i]] for the elements of [l]. *)
Fixpoint assign_first {A} (set : Z -> A -> A) (l : list Z) (arr : list A) : option (list A) :=
  match l, arr with
  | [], _ => Some arr
  | v :: l', x :: arr' => t ← assign_first set l' arr'; Some (set v x :: t)
  | _ :: _, [] => None
  end.

(** The identifiers of the QERs and URRs in the PDR. *)
Definition est_pdr_ids (cfg : session_config) (ty : cp_type_t) (pdr : pdr_t) (x : pfcp_create_pdr_ie_t)
    : option pfcp_create_pdr_ie_t :=
  if is_pgw ty then
    qers ← assign_first with_qer_id pdr.(pdr_qers) x.(create_pdr_qer_id);
    let x := set_create_pdr_qer_id qers (set_create_pdr_qer_id_count (Z.of_nat (length pdr.(pdr_qers))) x) in
    if cfg.(urr_enable) then
      urrs ← assign_first with_urr_id pdr.(pdr_urrs) x.(create_pdr_urr_id);
      Some (set_create_pdr_urr_id urrs (set_create_pdr_urr_id_count (Z.of_nat (length pdr.(pdr_urrs))) x))
    else Some x
  else Some x.

(** The element of the FAR. *)
Definition UPD_PARAM_HEADER_SIZE : Z := 4.
Definition est_create_far (ty : cp_type_t) (pdr : pdr_t) (x : pfcp_create_far_ie_t) : pfcp_create_far_ie_t :=
  let x := creating_far x in
  let x := set_create_far_far_id (with_far_id pdr.(far_id_value) x.(create_far_far_id)) x in
  if is_pgw ty then
    if pdr.(src_intfc) =? SOURCE_INTERFACE_VALUE_ACCESS then
      let x := set_create_far_apply_action
                 (with_action PRESENT x.(create_far_apply_action).(apply_action_drop) x.(create_far_apply_action)) x in
      let parms := set_frwdng_parms_header (pfcp_set_ie_header PFCP_IE_FRWDNG_PARMS sizeof_octet_ie)
                     (set_frwdng_parms_dst_intfc (with_dst_intfc pdr.(dst_intfc) set_destination_interface.1)
                        x.(create_far_frwdng_parms)) in
      set_create_far_header (grow_header (sizeof_octet_ie + UPD_PARAM_HEADER_SIZE) x.(create_far_header))
        (set_create_far_frwdng_parms parms x)
    else
      let x := set_create_far_apply_action
                 (with_action x.(create_far_apply_action).(apply_action_forw) PRESENT x.(create_far_apply_action)) x in
      let '(parms, len) := set_forwarding_param x.(create_far_frwdng_parms) in
      let parms := set_frwdng_parms_outer_hdr_creation
                     (with_hdr_creation pdr.(hdr_teid) pdr.(hdr_ipv4) parms.(frwdng_parms_outer_hdr_creation)) parms in
      let parms := set_frwdng_parms_dst_intfc (with_dst_intfc pdr.(dst_intfc) parms.(frwdng_parms_dst_intfc)) parms in
      set_create_far_header (grow_header (len + UPD_PARAM_HEADER_SIZE) x.(create_far_header))
        (set_create_far_frwdng_parms parms x)
  else x.

(** ** The QERs and URRs of the request *)

Definition FL_ENABLED_UPLINK : Z := 0.
Definition FL_ENABLED_DOWNLINK : Z := 1.
Definition FL_ENABLED : Z := 2.
Definition FL_DISABLED : Z := 3.
Definition fill_gate_status (f_status : Z) (x : pfcp_gate_status_ie_t) : pfcp_gate_status_ie_t :=
  if f_status =? FL_ENABLED_UPLINK then with_gates UL_GATE_OPEN UL_GATE_CLOSED x
  else if f_status =? FL_ENABLED_DOWNLINK then with_gates UL_GATE_CLOSED UL_GATE_OPEN x
  else if f_status =? FL_ENABLED then with_gates UL_GATE_OPEN UL_GATE_OPEN x
  else if f_status =? FL_DISABLED then with_gates UL_GATE_CLOSED UL_GATE_CLOSED x
  else x.

(** The rates are stored in 40 bits, the class in 6. *)
Definition est_create_qer (q : qer_t) (id : Z) (rule : dynamic_rule_t) (x : pfcp_create_qer_ie_t) : pfcp_create_qer_ie_t :=
  let x := creating_qer x in
  let x := set_create_qer_gate_status
             (fill_gate_status (if isCommonQER q.(qer_id) then FL_ENABLED else rule.(flow_status))
                x.(create_qer_gate_status)) x in
  let x := set_create_qer_qer_id (with_qer_id id x.(create_qer_qer_id)) x in
  let x := set_create_qer_maximum_bitrate
             (mk_mbr x.(create_qer_maximum_bitrate).(mbr_header) (uwrap 40 q.(max_ul)) (uwrap 40 q.(max_dl))) x in
  let x := set_create_qer_guaranteed_bitrate
             (mk_gbr x.(create_qer_guaranteed_bitrate).(gbr_header) (uwrap 40 q.(gbr_ul)) (uwrap 40 q.(gbr_dl))) x in
  set_create_qer_qos_flow_ident
    (mk_qfi x.(create_qer_qos_flow_ident).(qfi_header) x.(create_qer_qos_flow_ident).(qfi_spare) (uwrap 6 q.(qer_qci))) x.

(** Only the first [qer_idx] of the array are compared. *)
Definition qer_present (id : Z) (qer_idx : Z) (qers : list pfcp_create_qer_ie_t) : bool :=
  existsb (fun x => x.(create_qer_qer_id).(qer_id_value) =? id) (take (Z.to_nat qer_idx) qers).

Fixpoint est_qers (table : gmap Z qer_t) (rule : dynamic_rule_t) (l : list Z) (req : pfcp_sess_estab_req_t)
    : option pfcp_sess_estab_req_t :=
  match l with
  | [] => Some req
  | id :: l' =>
      q ← table !! id;
      let n := req.(sess_estab_req_create_qer_count) in
      if qer_present q.(qer_id) n req.(sess_estab_req_create_qer) then est_qers table rule l' req
      else
        x ← array_at req.(sess_estab_req_create_qer) n;
        qers ← array_set req.(sess_estab_req_create_qer) n (est_create_qer q id rule x);
        est_qers table rule l' (set_sess_estab_req_create_qer_count (u8 (n + 1)) (set_sess_estab_req_create_qer qers req))
  end.

Definition est_create_urr (id : Z) (x : pfcp_create_urr_ie_t) : pfcp_create_urr_ie_t :=
  let x := creating_urr x in
  let x := set_create_urr_urr_id (with_urr_id id x.(create_urr_urr_id)) x in
  let m := x.(create_urr_meas_mthd) in
  let x := set_create_urr_meas_mthd
             (mk_meas_mthd m.(meas_mthd_header) m.(meas_mthd_spare) m.(meas_mthd_spare2) m.(meas_mthd_spare3)
                m.(meas_mthd_spare4) m.(meas_mthd_spare5) m.(meas_mthd_event) 1 m.(meas_mthd_durat)) x in
  let t := x.(create_urr_rptng_triggers) in
  let x := set_create_urr_rptng_triggers
             (mk_rptng_triggers t.(rptng_triggers_header) t.(rptng_triggers_liusa) t.(rptng_triggers_droth)
                t.(rptng_triggers_stopt) t.(rptng_triggers_start) t.(rptng_triggers_quhti) t.(rptng_triggers_timth) 1
                t.(rptng_triggers_perio) t.(rptng_triggers_spare) t.(rptng_triggers_spare2) t.(rptng_triggers_evequ)
                t.(rptng_triggers_eveth) t.(rptng_triggers_macar) t.(rptng_triggers_envcl) t.(rptng_triggers_timqu) 1) x in
  let v := x.(create_urr_vol_thresh) in
  let x := set_create_urr_vol_thresh
             (mk_vol_thresh v.(vol_thresh_header) v.(vol_thresh_spare) v.(vol_thresh_dlvol) v.(vol_thresh_ulvol) 1 1000000
                v.(vol_thresh_uplink_volume) v.(vol_thresh_downlink_volume)) x in
  let v := x.(create_urr_volume_quota) in
  set_create_urr_volume_quota
    (mk_volume_quota v.(volume_quota_header) v.(volume_quota_vol_quota_spare) v.(volume_quota_dlvol)
       v.(volume_quota_ulvol) 1 1000000000 v.(volume_quota_uplink_volume) v.(volume_quota_downlink_volume)) x.

Fixpoint est_urrs (l : list Z) (req : pfcp_sess_estab_req_t) : option pfcp_sess_estab_req_t :=
  match l with
  | [] => Some req
  | id :: l' =>
      let n := req.(sess_estab_req_create_urr_count) in
      x ← array_at req.(sess_estab_req_create_urr) n;
      urrs ← array_set req.(sess_estab_req_create_urr) n (est_create_urr id x);
      est_urrs l' (set_sess_estab_req_create_urr_count (u8 (n + 1)) (set_sess_estab_req_create_urr urrs req))
  end.

(** ** The request *)

(** One turn of the loop over the PDRs of a bearer: the structures at [pdr_idx]. *)
Definition est_pdr (cfg : session_config) (d : pdn_connection_t) (table : gmap Z qer_t) (pdr : pdr_t)
    (rule : dynamic_rule_t) (pdr_idx : Z) (ty : cp_type_t) (req : pfcp_sess_estab_req_t)
    : option (cp_type_t * pfcp_sess_estab_req_t) :=
  x ← array_at req.(sess_estab_req_create_pdr) pdr_idx;
  '(ty, x) ← est_create_pdr cfg d ty pdr rule x;
  x ← est_pdr_ids cfg ty pdr x;
  pdrs ← array_set req.(sess_estab_req_create_pdr) pdr_idx x;
  let req := set_sess_estab_req_create_pdr pdrs req in
  f ← array_at req.(sess_estab_req_create_far) pdr_idx;
  fars ← array_set req.(sess_estab_req_create_far) pdr_idx (est_create_far ty pdr f);
  let req := set_sess_estab_req_create_far_count (u8 (req.(sess_estab_req_create_far_count) + 1))
               (set_sess_estab_req_create_far fars req) in
  req ← (if is_pgw ty then est_qers table rule pdr.(pdr_qers) req else Some req);
  req ← (if is_pgw ty && cfg.(urr_enable) then est_urrs pdr.(pdr_urrs) req else Some req);
  Some (ty, req).

(** The PDRs of the bearers of the connection, in the order of the bearers. *)
Fixpoint est_pdrs (cfg : session_config) (l : list ptr) (pdr_idx : Z) (req : pfcp_sess_estab_req_t)
    : sesM (Z * pfcp_sess_estab_req_t) :=
  match l with
  | [] => mret (pdr_idx, req)
  | p :: l' =>
      pdr ← load_pdr p;
      r ← sdef pdr.(dynamic_rule);
      rule ← load_rule r;
      s ← sgets id;
      '(ty, req) ← sdef (est_pdr cfg s.(pdn) s.(qer_table) pdr rule pdr_idx s.(cp_type) req);
      _ ← smodify (set_ses_cp_type ty);
      est_pdrs cfg l' (u8 (pdr_idx + 1)) req
  end.
Fixpoint est_bearers (cfg : session_config) (bearers : list (option ptr)) (pdr_idx : Z) (req : pfcp_sess_estab_req_t)
    : sesM pfcp_sess_estab_req_t :=
  match bearers with
  | [] => mret req
  | None :: rest => est_bearers cfg rest pdr_idx req
  | Some b :: rest =>
      bearer ← load_bearer b;
      '(pdr_idx, req) ← est_pdrs cfg bearer.(pdrs) pdr_idx req;
      est_bearers cfg rest pdr_idx req
  end.

(** The message header with the session identifier of the user plane. *)
Definition request_header (type seq dp_seid : Z) : pfcp_header_t :=
  mk_header 1 0 0 1 type 0 (inl (mk_has_seid dp_seid (uwrap 24 seq) 0 0)).
Definition PFCP_SESSION_ESTABLISHMENT_REQUEST : Z := 50.
Definition PFCP_SESSION_MODIFICATION_REQUEST : Z := 52.
Definition PFCP_SESSION_DELETION_REQUEST : Z := 54.
(** Three bytes behind [trc_info] in the two requests: the counter of the first array and
    the type of its first element. *)
Definition spill_pdr_type {A} (set_type : Z -> A -> A) (spill : list Z) (arr : list A) : list A :=
  alter (set_type (of_le_bytes (tail spill))) 0%nat arr.
Definition with_pdr_type (v : Z) (x : pfcp_create_pdr_ie_t) : pfcp_create_pdr_ie_t :=
  set_create_pdr_header (mk_ie_header v x.(create_pdr_header).(ie_len)) x.
Definition with_remove_type (v : Z) (x : pfcp_remove_pdr_ie_t) : pfcp_remove_pdr_ie_t :=
  set_remove_pdr_header (mk_ie_header v x.(remove_pdr_header).(ie_len)) x.
Definition est_trace (req : pfcp_sess_estab_req_t) : pfcp_sess_estab_req_t :=
  let '(info, spill) := set_trace_info in
  set_sess_estab_req_create_pdr (spill_pdr_type with_pdr_type spill req.(sess_estab_req_create_pdr))
    (set_sess_estab_req_create_pdr_count (default 0 (head spill)) (set_sess_estab_req_trc_info info req)).
Definition mod_trace (req : pfcp_sess_mod_req_t) : pfcp_sess_mod_req_t :=
  let '(info, spill) := set_trace_info in
  set_sess_mod_req_remove_pdr (spill_pdr_type with_remove_type spill req.(sess_mod_req_remove_pdr))
    (set_sess_mod_req_remove_pdr_count (default 0 (head spill)) (set_sess_mod_req_trc_info info req)).

(** The whole function; [upf] is the node found by the address in the connection, [old]
    the request before, which is returned when there is none. *)
Definition fill_pfcp_sess_est_req (cfg : session_config) (upf : option upf_context_t) (seq : Z)
    (old : pfcp_sess_estab_req_t) : sesM pfcp_sess_estab_req_t :=
  match upf with
  | None => mret old
  | Some upf =>
      d ← sgets pdn;
      let req := set_sess_estab_req_header (request_header PFCP_SESSION_ESTABLISHMENT_REQUEST seq d.(dp_seid))
                   zero_sess_estab_req in
      let req := set_sess_estab_req_node_id (set_node_id cfg.(pfcp_ip)) req in
      let req := set_sess_estab_req_cp_fseid (set_fseid req.(sess_estab_req_cp_fseid) d.(seid) cfg.(pfcp_ip)) req in
      let req := set_sess_estab_req_pdn_type
                   (set_pdn_type req.(sess_estab_req_pdn_type) d.(pdn_type_ipv4) d.(pdn_type_ipv6)) req in
      count ← session_rules cfg upf;
      let req := set_sess_estab_req_create_pdr_count count req in
      d ← sgets pdn;
      req ← est_bearers cfg d.(eps_bearers) 0 req;
      mret (if nz (Z.land upf.(up_supp_features) UP_TRACE) then est_trace req else req)
  end.

(** ** Deletion *)

Definition fill_pfcp_sess_del_req : sesM (Z * pfcp_sess_del_req_t) :=
  seq ← generate_seq_no;
  mret (seq, mk_sess_del_req (request_header PFCP_SESSION_DELETION_REQUEST seq 0)).

(** ** Modification *)

(** An element of an array of the request, replaced in place. *)
Definition array_alter {A} (f : A -> A) (i : Z) (l : list A) : option (list A) :=
  x ← array_at l i; array_set l i (f x).

(** The FARs of a bearer that is removed drop its packets. *)
Definition drop_far (id : Z) (x : pfcp_update_far_ie_t) : pfcp_update_far_ie_t :=
  let x := updating_far x in
  set_update_far_apply_action (with_action x.(update_far_apply_action).(apply_action_forw) PRESENT x.(update_far_apply_action))
    (set_update_far_far_id (with_far_id id x.(update_far_far_id)) x).
Definition add_update_far (f : pfcp_update_far_ie_t -> pfcp_update_far_ie_t) (req : pfcp_sess_mod_req_t)
    : option pfcp_sess_mod_req_t :=
  let n := req.(sess_mod_req_update_far_count) in
  fars ← array_alter f n req.(sess_mod_req_update_far);
  Some (set_sess_mod_req_update_far_count (u8 (n + 1)) (set_sess_mod_req_update_far fars req)).

Fixpoint remove_pfcp_info (l : list ptr) (req : pfcp_sess_mod_req_t) : sesM pfcp_sess_mod_req_t :=
  match l with
  | [] => mret req
  | p :: l' => pdr ← load_pdr p; req ← sdef (add_update_far (drop_far pdr.(far_id_value)) req); remove_pfcp_info l' req
  end.
Definition fill_remove_pfcp_info (req : pfcp_sess_mod_req_t) (b : ptr) : sesM pfcp_sess_mod_req_t :=
  bearer ← load_bearer b; remove_pfcp_info bearer.(pdrs) req.

(** The header and the identifiers all modification requests start with. *)
Definition mod_start (cfg : session_config) (req : pfcp_sess_mod_req_t) : sesM (Z * pfcp_sess_mod_req_t) :=
  seq ← generate_seq_no;
  d ← sgets pdn;
  let req := set_sess_mod_req_header (request_header PFCP_SESSION_MODIFICATION_REQUEST seq d.(dp_seid)) req in
  mret (seq, set_sess_mod_req_cp_fseid (set_fseid req.(sess_mod_req_cp_fseid) d.(seid) cfg.(pfcp_ip)) req).

(** All the PDRs of the bearers given, NULL ones skipped. *)
Fixpoint for_pdrs (f : pdr_t -> pfcp_sess_mod_req_t -> option pfcp_sess_mod_req_t) (l : list ptr)
    (req : pfcp_sess_mod_req_t) : sesM pfcp_sess_mod_req_t :=
  match l with
  | [] => mret req
  | p :: l' => pdr ← load_pdr p; req ← sdef (f pdr req); for_pdrs f l' req
  end.
Fixpoint for_bearers (f : pdr_t -> pfcp_sess_mod_req_t -> option pfcp_sess_mod_req_t) (bearers : list (option ptr))
    (req : pfcp_sess_mod_req_t) : sesM pfcp_sess_mod_req_t :=
  match bearers with
  | [] => mret req
  | None :: rest => for_bearers f rest req
  | Some b :: rest => bearer ← load_bearer b; req ← for_pdrs f bearer.(pdrs) req; for_bearers f rest req
  end.

Definition plain_far (id : Z) (x : pfcp_update_far_ie_t) : pfcp_update_far_ie_t :=
  let x := updating_far x in set_update_far_far_id (with_far_id id x.(update_far_far_id)) x.
(** [apply_action.drop = PRESENT] for the first [update_far_count]. *)
Definition drop_all (req : pfcp_sess_mod_req_t) : option pfcp_sess_mod_req_t :=
  let n := Z.to_nat req.(sess_mod_req_update_far_count) in
  let far x := set_update_far_apply_action
                 (with_action x.(update_far_apply_action).(apply_action_forw) PRESENT x.(update_far_apply_action)) x in
  if (n <=? length req.(sess_mod_req_update_far))%nat then
    Some (set_sess_mod_req_update_far
            ((far <$> take n req.(sess_mod_req_update_far)) ++ drop n req.(sess_mod_req_update_far)) req)
  else None.

(** The request that makes the FARs of bearers drop; the role decides whether they do. *)
Definition mod_update_far (cfg : session_config) (bearers : list (option ptr)) : sesM pfcp_sess_mod_req_t :=
  '(_, req) ← mod_start cfg zero_sess_mod_req;
  req ← for_bearers (fun pdr => add_update_far (plain_far pdr.(far_id_value))) bearers req;
  ty ← sgets cp_type;
  if is_pgw ty then sdef (drop_all req) else mret req.

Definition fill_pfcp_sess_mod_req_pgw_init_update_far (cfg : session_config) (upf : option upf_context_t)
    (bearers : list (option ptr)) (old : pfcp_sess_mod_req_t) : sesM pfcp_sess_mod_req_t :=
  match upf with None => mret old | Some _ => mod_update_far cfg bearers end.

Definition with_drobu (x : pfcp_pfcpsmreq_flags_ie_t) : pfcp_pfcpsmreq_flags_ie_t :=
  mk_pfcpsmreq_flags x.(pfcpsmreq_flags_header) x.(pfcpsmreq_flags_pfcpsmreq_flgs_spare)
    x.(pfcpsmreq_flags_pfcpsmreq_flgs_spare2) x.(pfcpsmreq_flags_pfcpsmreq_flgs_spare3)
    x.(pfcpsmreq_flags_pfcpsmreq_flgs_spare4) x.(pfcpsmreq_flags_pfcpsmreq_flgs_spare5) x.(pfcpsmreq_flags_qaurr)
    x.(pfcpsmreq_flags_sndem) PRESENT.
Definition fill_pfcp_sess_mod_req_pgw_del_cmd_update_far (cfg : session_config) (upf : option upf_context_t)
    (bearers : list (option ptr)) (old : pfcp_sess_mod_req_t) : sesM pfcp_sess_mod_req_t :=
  match upf with
  | None => mret old
  | Some _ =>
      req ← mod_update_far cfg bearers;
      mret (set_sess_mod_req_pfcpsmreq_flags (with_drobu set_pfcpsmreqflags) req)
  end.

Definition add_remove_pdr (id : Z) (req : pfcp_sess_mod_req_t) : option pfcp_sess_mod_req_t :=
  let n := req.(sess_mod_req_remove_pdr_count) in
  l ← array_alter (fun _ => mk_remove_pdr removing_pdr.(remove_pdr_header) (with_rule_id id removing_pdr.(remove_pdr_pdr_id)))
        n req.(sess_mod_req_remove_pdr);
  Some (set_sess_mod_req_remove_pdr_count (u8 (n + 1)) (set_sess_mod_req_remove_pdr l req)).
Definition fill_pfcp_sess_mod_req_pgw_init_remove_pdr (cfg : session_config) (upf : option upf_context_t)
    (bearers : list (option ptr)) (old : pfcp_sess_mod_req_t) : sesM pfcp_sess_mod_req_t :=
  match upf with
  | None => mret old
  | Some _ =>
      '(_, req) ← mod_start cfg zero_sess_mod_req;
      for_bearers (fun pdr => add_remove_pdr pdr.(rule_id)) bearers req
  end.

(** The filters of the rules of a bearer in a PDI, numbered through; the precedence is that
    of the last rule. *)
Fixpoint bearer_filters (rules : list dynamic_rule_t) (count : nat) (x : pfcp_pdi_ie_t) : option (pfcp_pdi_ie_t * Z) :=
  match rules with
  | [] => Some (x, 0)
  | r :: rest =>
      '(x, count, g) ← sdf_filters (Z.to_nat r.(num_flw_desc)) 0 r.(flow_desc) count x;
      '(x, g') ← bearer_filters rest count (set_pdi_sdf_filter_count (u8 (Z.of_nat count)) x);
      Some (x, g + g')
  end.
Definition last_precedence (rules : list dynamic_rule_t) (x : pfcp_precedence_ie_t) : pfcp_precedence_ie_t :=
  match head (rev rules) with Some r => with_prcdnc r.(precedence) x | None => x end.
Fixpoint load_rules (l : list ptr) : sesM (list dynamic_rule_t) :=
  match l with [] => mret [] | r :: l' => x ← load_rule r; xs ← load_rules l'; mret (x :: xs) end.

Definition fill_sdf_rules_modification (rules : list dynamic_rule_t) (x : pfcp_create_pdr_ie_t)
    : option pfcp_create_pdr_ie_t :=
  '(pdi, g) ← bearer_filters rules 0 x.(create_pdr_pdi);
  Some (set_create_pdr_header (grow_header g x.(create_pdr_header))
          (set_create_pdr_precedence (last_precedence rules x.(create_pdr_precedence)) (set_create_pdr_pdi pdi x))).
Definition fill_upd_bearer_sdf_rule (rules : list dynamic_rule_t) (x : pfcp_update_pdr_ie_t) : option pfcp_update_pdr_ie_t :=
  '(pdi, g) ← bearer_filters rules 0 x.(update_pdr_pdi);
  Some (set_update_pdr_header (grow_header g x.(update_pdr_header))
          (set_update_pdr_precedence (last_precedence rules x.(update_pdr_precedence)) (set_update_pdr_pdi pdi x))).

(** The PDI of a rule in a modification request: the address or the tunnel is taken out. *)
Definition mod_pdi (ty : cp_type_t) (pdr : pdr_t) (x : pfcp_pdi_ie_t) : pfcp_pdi_ie_t * Z :=
  let x := set_pdi_local_fteid (with_teid pdr.(local_teid) x.(pdi_local_fteid)) x in
  let '(x, s1) := if pdr.(src_intfc) =? SOURCE_INTERFACE_VALUE_ACCESS then pdi_without_address x
                  else (pdi_with_address pdr.(ue_addr) pdr.(ntwk_inst) x, 0) in
  let '(x, s2) := if is_pgw ty && (pdr.(src_intfc) =? SOURCE_INTERFACE_VALUE_CORE) then pdi_without_fteid x
                  else (set_pdi_local_fteid (with_tunnel x.(pdi_local_fteid).(fteid_teid) pdr.(local_ipv4)
                                               x.(pdi_local_fteid)) x, 0) in
  (set_pdi_src_intfc (with_src_intfc pdr.(src_intfc) x.(pdi_src_intfc)) x, s1 + s2).

(** One turn of [fill_update_pdr]. *)
Definition update_pdr_of (ty : cp_type_t) (pdr : pdr_t) (rules : list dynamic_rule_t) (x : pfcp_update_pdr_ie_t)
    : option pfcp_update_pdr_ie_t :=
  let '(pdi, s3) := set_pdi x.(update_pdr_pdi) 0 in
  let size := set_pdr_id.2 + set_precedence.2 + s3 in
  let x := set_update_pdr_header (pfcp_set_ie_header PFCP_IE_UPDATE_PDR size)
             (set_update_pdr_precedence set_precedence.1
                (set_update_pdr_pdr_id (with_rule_id pdr.(rule_id) set_pdr_id.1) x)) in
  let '(pdi, shrink) := mod_pdi ty pdr pdi in
  fill_upd_bearer_sdf_rule rules
    (set_update_pdr_header (grow_header (- shrink) x.(update_pdr_header)) (set_update_pdr_pdi pdi x)).

(** The loop takes [NUMBER_OF_PDR_PER_BEARER] turns, whatever the bearer has; [n] is the
    count of update PDRs before. *)
Fixpoint update_pdrs (b : ptr) (n : Z) (k itr : nat) (req : pfcp_sess_mod_req_t) : sesM pfcp_sess_mod_req_t :=
  match k with
  | O => mret req
  | S k' =>
      bearer ← load_bearer b;
      p ← sdef (bearer.(pdrs) !! itr);
      pdr ← load_pdr p;
      rules ← load_rules bearer.(dynamic_rules);
      ty ← sgets cp_type;
      x ← sdef (array_at req.(sess_mod_req_update_pdr) (n + Z.of_nat itr));
      x ← sdef (update_pdr_of ty pdr rules x);
      l ← sdef (array_set req.(sess_mod_req_update_pdr) (n + Z.of_nat itr) x);
      update_pdrs b n k' (S itr) (set_sess_mod_req_update_pdr l req)
  end.
Definition fill_update_pdr (req : pfcp_sess_mod_req_t) (b : ptr) : sesM pfcp_sess_mod_req_t :=
  let n := req.(sess_mod_req_update_pdr_count) in
  req ← update_pdrs b n NUMBER_PER_BEARER 0 req;
  mret (set_sess_mod_req_update_pdr_count (u8 (n + 16)) req).

(** [fill_pdr_far_qer_using_bearer]: the elements at [i] of the new PDR and FAR. *)
Definition mod_create_pdr (cfg : session_config) (ty : cp_type_t) (pdr : pdr_t) (x : pfcp_create_pdr_ie_t)
    : option pfcp_create_pdr_ie_t :=
  let x := set_create_pdr_pdr_id (with_rule_id pdr.(rule_id) x.(create_pdr_pdr_id)) x in
  let x := set_create_pdr_far_id (with_far_id pdr.(far_id_value) x.(create_pdr_far_id)) x in
  let x := set_create_pdr_precedence (with_prcdnc pdr.(prcdnc_val) x.(create_pdr_precedence)) x in
  let '(pdi, shrink) := mod_pdi ty pdr x.(create_pdr_pdi) in
  let x := set_create_pdr_header (grow_header (- shrink) x.(create_pdr_header)) (set_create_pdr_pdi pdi x) in
  if cfg.(gx_enabled) && is_pgw ty then
    qers ← assign_first with_qer_id pdr.(pdr_qers) x.(create_pdr_qer_id);
    Some (set_create_pdr_qer_id qers (set_create_pdr_qer_id_count (Z.of_nat (length pdr.(pdr_qers))) x))
  else Some x.
Definition mod_create_far (ty : cp_type_t) (pdr : pdr_t) (x : pfcp_create_far_ie_t) : pfcp_create_far_ie_t :=
  let x := set_create_far_far_id (with_far_id pdr.(far_id_value) x.(create_far_far_id)) x in
  if is_pgw ty then
    if (match ty with SAEGWC => true | _ => false end) || (pdr.(src_intfc) =? SOURCE_INTERFACE_VALUE_ACCESS) then
      let x := set_create_far_apply_action
                 (with_action PRESENT x.(create_far_apply_action).(apply_action_drop) x.(create_far_apply_action)) x in
      let parms := set_frwdng_parms_header (pfcp_set_ie_header PFCP_IE_FRWDNG_PARMS sizeof_octet_ie)
                     (set_frwdng_parms_dst_intfc (with_dst_intfc pdr.(dst_intfc) set_destination_interface.1)
                        x.(create_far_frwdng_parms)) in
      set_create_far_header (grow_header (sizeof_octet_ie + UPD_PARAM_HEADER_SIZE) x.(create_far_header))
        (set_create_far_frwdng_parms parms x)
    else
      set_create_far_apply_action
        (with_action 0 x.(create_far_apply_action).(apply_action_drop) x.(create_far_apply_action)) x
  else x.

Fixpoint load_pdrs (l : list ptr) : sesM (list pdr_t) :=
  match l with [] => mret [] | p :: l' => x ← load_pdr p; xs ← load_pdrs l'; mret (x :: xs) end.

(** The first loop creates the elements, and may assign the role; the second fills them. *)
Fixpoint mod_creating (i : Z) (l : list pdr_t) (ty : cp_type_t) (req : pfcp_sess_mod_req_t)
    : option (cp_type_t * pfcp_sess_mod_req_t) :=
  match l with
  | [] => Some (ty, req)
  | pdr :: l' =>
      x ← array_at req.(sess_mod_req_create_pdr) i;
      '(ty, x, _) ← creating_pdr ty (set_create_pdr_qer_id_count 1 x) pdr.(src_intfc) 0;
      pl ← array_set req.(sess_mod_req_create_pdr) i x;
      fl ← array_alter creating_far i req.(sess_mod_req_create_far);
      mod_creating (i + 1) l' ty
        (set_sess_mod_req_create_far_count (u8 (req.(sess_mod_req_create_far_count) + 1))
           (set_sess_mod_req_create_far fl (set_sess_mod_req_create_pdr pl req)))
  end.
Fixpoint mod_filling (cfg : session_config) (ty : cp_type_t) (i : Z) (l : list pdr_t) (req : pfcp_sess_mod_req_t)
    : option pfcp_sess_mod_req_t :=
  match l with
  | [] => Some req
  | pdr :: l' =>
      x ← array_at req.(sess_mod_req_create_pdr) i;
      x ← mod_create_pdr cfg ty pdr x;
      pl ← array_set req.(sess_mod_req_create_pdr) i x;
      fl ← array_alter (mod_create_far ty pdr) i req.(sess_mod_req_create_far);
      mod_filling cfg ty (i + 1) l' (set_sess_mod_req_create_far fl (set_sess_mod_req_create_pdr pl req))
  end.
(** The QERs of the bearer; one without a context keeps the rates of [creating_qer]. *)
Definition mod_create_qer (table : gmap Z qer_t) (id : Z) (x : pfcp_create_qer_ie_t) : pfcp_create_qer_ie_t :=
  let x := creating_qer x in
  let x := set_create_qer_qer_id (with_qer_id id x.(create_qer_qer_id)) x in
  match table !! id with
  | None => x
  | Some q =>
      let x := set_create_qer_maximum_bitrate
                 (mk_mbr x.(create_qer_maximum_bitrate).(mbr_header) (uwrap 40 q.(max_ul)) (uwrap 40 q.(max_dl))) x in
      set_create_qer_guaranteed_bitrate
        (mk_gbr x.(create_qer_guaranteed_bitrate).(gbr_header) (uwrap 40 q.(gbr_ul)) (uwrap 40 q.(gbr_dl))) x
  end.
Fixpoint mod_sdf_rules (rules : list dynamic_rule_t) (n : nat) (l : list pfcp_create_pdr_ie_t)
    : option (list pfcp_create_pdr_ie_t) :=
  match n, l with
  | O, _ => Some l
  | S n', x :: l' => x ← fill_sdf_rules_modification rules x; t ← mod_sdf_rules rules n' l'; Some (x :: t)
  | S _, [] => None
  end.
Definition fill_pdr_far_qer_using_bearer (cfg : session_config) (req : pfcp_sess_mod_req_t) (b : ptr)
    : sesM pfcp_sess_mod_req_t :=
  bearer ← load_bearer b;
  pl ← load_pdrs bearer.(pdrs);
  rules ← load_rules bearer.(dynamic_rules);
  s ← sgets id;
  let n := length bearer.(pdrs) in
  '(ty, req) ← sdef (mod_creating 0 pl s.(cp_type) (set_sess_mod_req_create_pdr_count (Z.of_nat n) req));
  _ ← smodify (set_ses_cp_type ty);
  req ← sdef (mod_filling cfg ty 0 pl req);
  if cfg.(gx_enabled) && is_pgw ty then
    qers ← sdef (assign_first (mod_create_qer s.(qer_table)) bearer.(qer_ids) req.(sess_mod_req_create_qer));
    let req := set_sess_mod_req_create_qer qers
                 (set_sess_mod_req_create_qer_count (Z.of_nat (length bearer.(qer_ids))) req) in
    xs ← sdef (mod_sdf_rules rules n req.(sess_mod_req_create_pdr));
    mret (set_sess_mod_req_create_pdr xs req)
  else mret req.

(** One FAR of the modification request, from the FAR that the caller filled; the flag
    asks for an end marker, after a handover. *)
Definition mod_update_far_of (pdr : pdr_t) (from : pfcp_update_far_ie_t) (x2_handover_flag : bool)
    (x : pfcp_update_far_ie_t) : pfcp_update_far_ie_t :=
  let x := updating_far x in
  let x := set_update_far_far_id (with_far_id pdr.(far_id_value) x.(update_far_far_id)) x in
  let x := set_update_far_apply_action
             (with_action PRESENT x.(update_far_apply_action).(apply_action_drop) x.(update_far_apply_action)) x in
  let '(parms, len) := set_upd_forwarding_param x.(update_far_upd_frwdng_parms) in
  let x := set_update_far_header (grow_header (len + UPD_PARAM_HEADER_SIZE) x.(update_far_header)) x in
  let src := from.(update_far_upd_frwdng_parms) in
  let parms := set_upd_frwdng_parms_outer_hdr_creation
                 (with_hdr_creation src.(upd_frwdng_parms_outer_hdr_creation).(outer_hdr_creation_teid)
                    src.(upd_frwdng_parms_outer_hdr_creation).(outer_hdr_creation_ipv4_address)
                    parms.(upd_frwdng_parms_outer_hdr_creation)) parms in
  let parms := set_upd_frwdng_parms_dst_intfc
                 (with_dst_intfc src.(upd_frwdng_parms_dst_intfc).(dst_intfc_interface_value)
                    parms.(upd_frwdng_parms_dst_intfc)) parms in
  if x2_handover_flag then
    let f := set_pfcpsmreqflags in
    let flags := mk_pfcpsmreq_flags f.(pfcpsmreq_flags_header) 0 0 0 0 0 f.(pfcpsmreq_flags_qaurr) 1
                   f.(pfcpsmreq_flags_drobu) in
    let parms := set_upd_frwdng_parms_header (grow_header sizeof_octet_ie parms.(upd_frwdng_parms_header))
                   (set_upd_frwdng_parms_pfcpsmreq_flags flags parms) in
    set_update_far_header (grow_header sizeof_octet_ie x.(update_far_header)) (set_update_far_upd_frwdng_parms parms x)
  else set_update_far_upd_frwdng_parms parms x.

(** The loop over the PDRs: those of the access side are passed over; [itr] indexes the
    caller's FARs, [itr1] those of the request. *)
Fixpoint mod_update_fars (x2_handover_flag : bool) (update_far : list pfcp_update_far_ie_t) (itr itr1 : Z)
    (l : list pdr_t) (fars : list pfcp_update_far_ie_t) : option (list pfcp_update_far_ie_t) :=
  match l with
  | [] => Some fars
  | pdr :: l' =>
      if pdr.(src_intfc) =? SOURCE_INTERFACE_VALUE_ACCESS
      then mod_update_fars x2_handover_flag update_far (itr + 1) itr1 l' fars
      else
        from ← array_at update_far itr;
        fars ← array_alter (mod_update_far_of pdr from x2_handover_flag) itr1 fars;
        mod_update_fars x2_handover_flag update_far (itr + 1) (itr1 + 1) l' fars
  end.

(** A buffering rule is created when a new FAR at the index of a new PDR refers to one. *)
Definition wants_bar (pdrs : list pfcp_create_pdr_ie_t) (fars : list pfcp_create_far_ie_t) (n : nat) (far_count : Z) : bool :=
  existsb (fun '(p, f) => nz p.(create_pdr_header).(ie_len) && nz p.(create_pdr_far_id).(far_id_header).(ie_len) &&
                          nz f.(create_far_bar_id).(bar_id_header).(ie_len) && (0 <? far_count))
    (take n (combine pdrs fars)).

(** Only for a combined gateway: the tunnel and the address once more. *)
Definition mod_readdress (pdr : pdr_t) (x : pfcp_create_pdr_ie_t) : pfcp_create_pdr_ie_t :=
  let p := x.(create_pdr_pdi) in
  let p := set_pdi_local_fteid (with_tunnel pdr.(local_teid) pdr.(local_ipv4) p.(pdi_local_fteid)) p in
  let p := set_pdi_ue_ip_address (with_ue_addr (htonl pdr.(ue_addr)) p.(pdi_ue_ip_address)) p in
  set_create_pdr_pdi (set_pdi_src_intfc (with_src_intfc pdr.(src_intfc) p.(pdi_src_intfc)) p) x.
Fixpoint readdress_first (n : nat) (l : list pdr_t) (xs : list pfcp_create_pdr_ie_t) : option (list pfcp_create_pdr_ie_t) :=
  match n, l, xs with
  | O, _, _ => Some xs
  | S n', pdr :: l', x :: xs' => t ← readdress_first n' l' xs'; Some (mod_readdress pdr x :: t)
  | S _, _, _ => None
  end.

Definition fill_pfcp_sess_mod_req (cfg : session_config) (upf : option upf_context_t) (req : pfcp_sess_mod_req_t)
    (b : ptr) (update_far : list pfcp_update_far_ie_t) (x2_handover_flag : bool) : sesM (Z * pfcp_sess_mod_req_t) :=
  '(seq, req) ← mod_start cfg req;
  req ← (if nz req.(sess_mod_req_create_pdr_count) then fill_pdr_far_qer_using_bearer cfg req b else mret req);
  let n := Z.to_nat req.(sess_mod_req_create_pdr_count) in
  let req := if wants_bar req.(sess_mod_req_create_pdr) req.(sess_mod_req_create_far) n req.(sess_mod_req_create_far_count)
             then set_sess_mod_req_create_bar creating_bar req else req in
  bearer ← load_bearer b;
  pl ← load_pdrs bearer.(pdrs);
  fars ← sdef (mod_update_fars x2_handover_flag update_far 0 0 pl req.(sess_mod_req_update_far));
  let req := set_sess_mod_req_update_far fars req in
  ty ← sgets cp_type;
  req ← match ty with
        | SAEGWC => xs ← sdef (readdress_first n pl req.(sess_mod_req_create_pdr));
                    mret (set_sess_mod_req_create_pdr xs req)
        | _ => mret req
        end;
  (* neither QAURR nor DROBU is set, so the element is left out *)
  let flags := mk_pfcpsmreq_flags (with_ie_len 0 set_pfcpsmreqflags.(pfcpsmreq_flags_header)) 0 0 0 0 0 0 0 0 in
  let req := set_sess_mod_req_pfcpsmreq_flags flags req in
  let req := if nz req.(sess_mod_req_query_urr_count) then set_sess_mod_req_query_urr_ref set_query_urr_refernce req
             else req in
  mret (seq, match upf with
             | Some u => if nz (Z.land u.(up_supp_features) UP_TRACE) then mod_trace req else req
             | None => req
             end).
