(* ===== verification/PfcpSessionSpec.v ===== *)
(** * The reference form of a session establishment request

    What a request says, written directly as nested elements from the rules of the
    session: [ie] gives every element the length of its body.  The closed forms of the
    structures that the functions of PfcpSessionReq fill, and that the encoders write the
    reference form of them. *)

From stdpp Require Import gmap.
From S2P Require Import Prelude EncDecBits Text Codec CodecSpec Tlv Teid PfcpIes PfcpIesEncoder PfcpIesDecoder PfcpIesSpec.
From S2P Require Import PfcpIesOptional PfcpMsgs PfcpMsgsEncoder PfcpGroups PfcpMsgsSpec.
From S2P Require Import PfcpSetIe PfcpSession PfcpSessionReq.

Open Scope Z_scope.

(** ** Reference layouts *)

(** An element: its code, the number of bytes of its body, and the body. *)
Definition ie (code : Z) (body : layout) : layout := [(16, code); (16, size body / 8)] ++ body.

Definition is_access (pdr : pdr_t) : bool := pdr.(src_intfc) =? SOURCE_INTERFACE_VALUE_ACCESS.

Definition ref_filter (t : list Z) : layout :=
  ie PFCP_IE_SDF_FILTER
    ([(3, 0); (1, 0); (1, 0); (1, 0); (1, 0); (1, 1); (8, 0); (16, Z.of_nat (length t))] ++ octets t).

(** [control]: the control plane chose the address of the subscriber. *)
Definition ref_pdi_body (control : bool) (pdr : pdr_t) (texts : list (list Z)) : layout :=
  ie PFCP_IE_SRC_INTFC [(4, 0); (4, pdr.(src_intfc))] ++
  (if is_access pdr then
     ie PFCP_IE_FTEID ([(4, 0); (1, 0); (1, 0); (1, 0); (1, 1); (32, pdr.(local_teid))] ++
                       octets (le_bytes 4 pdr.(local_ipv4)))
   else
     ie PFCP_IE_NTWK_INST (octets pdr.(ntwk_inst)) ++
     ie PFCP_IE_UE_IP_ADDRESS
       (if control then [(3, 0); (1, 0); (1, 0); (1, 0); (1, 1); (1, 0); (32, pdr.(ue_addr))]
        else [(3, 0); (1, 1); (1, 0); (1, 0); (1, 0); (1, 0)])) ++
  mjoin (ref_filter <$> texts).
Definition ref_pdi (control : bool) (pdr : pdr_t) (texts : list (list Z)) : layout :=
  ie PFCP_IE_PDI (ref_pdi_body control pdr texts).

Definition ref_id (code v : Z) : layout := ie code [(32, v)].

Definition ref_pdr_body (control : bool) (pdr : pdr_t) (texts : list (list Z)) : layout :=
  ie PFCP_IE_PDR_ID [(16, pdr.(rule_id))] ++ ref_id PFCP_IE_PRECEDENCE pdr.(prcdnc_val) ++
  ref_pdi control pdr texts ++ (if is_access pdr then ie PFCP_IE_OUTER_HDR_REMOVAL [(8, 0)] else []) ++
  ref_id PFCP_IE_FAR_ID pdr.(far_id_value) ++
  mjoin (ref_id PFCP_IE_URR_ID <$> pdr.(pdr_urrs)) ++ mjoin (ref_id PFCP_IE_QER_ID <$> pdr.(pdr_qers)).
Definition ref_pdr (control : bool) (pdr : pdr_t) (texts : list (list Z)) : layout :=
  ie PFCP_IE_CREATE_PDR (ref_pdr_body control pdr texts).

(** Packets from the access side are forwarded, those to it are dropped until the tunnel
    of the base station is known. *)
Definition ref_far (pdr : pdr_t) : layout :=
  ie PFCP_IE_CREATE_FAR
    (ref_id PFCP_IE_FAR_ID pdr.(far_id_value) ++
     ie PFCP_IE_APPLY_ACTION [(1, 0); (1, 0); (1, 0); (1, 0); (1, 0); (1, 0); (1, if is_access pdr then 1 else 0);
                              (1, if is_access pdr then 0 else 1)] ++
     ie PFCP_IE_FRWDNG_PARMS
       (ie PFCP_IE_DST_INTFC [(4, 0); (4, pdr.(dst_intfc))] ++
        (if is_access pdr then []
         else ie PFCP_IE_OUTER_HDR_CREATION [(16, 0x0100); (32, pdr.(hdr_teid)); (32, pdr.(hdr_ipv4))]))).

(** The gates of a flow status: uplink, downlink; 1 is closed. *)
Definition gates (status : Z) : Z * Z :=
  if status =? FL_ENABLED_UPLINK then (0, 1)
  else if status =? FL_ENABLED_DOWNLINK then (1, 0)
  else if status =? FL_DISABLED then (1, 1) else (0, 0).

Definition ref_qer (q : qer_t) (id : Z) (rule : dynamic_rule_t) : layout :=
  let '(ul, dl) := gates (if is_common q.(qer_id) then FL_ENABLED else rule.(flow_status)) in
  ie PFCP_IE_CREATE_QER
    (ref_id PFCP_IE_QER_ID id ++ ie PFCP_IE_GATE_STATUS [(4, 0); (2, ul); (2, dl)] ++
     ie PFCP_IE_MBR [(40, q.(max_ul)); (40, q.(max_dl))] ++ ie PFCP_IE_GBR [(40, q.(gbr_ul)); (40, q.(gbr_dl))] ++
     ie PFCP_IE_QFI [(2, 0); (6, q.(qer_qci))]).

Definition ref_volume (code v : Z) : layout := ie code [(5, 0); (1, 0); (1, 0); (1, 1); (64, v)].
Definition ref_urr (id : Z) : layout :=
  ie PFCP_IE_CREATE_URR
    (ref_id PFCP_IE_URR_ID id ++
     ie PFCP_IE_MEAS_MTHD [(1, 0); (1, 0); (1, 0); (1, 0); (1, 0); (1, 0); (1, 1); (1, 0)] ++
     ie PFCP_IE_RPTNG_TRIGGERS [(1, 0); (1, 0); (1, 0); (1, 0); (1, 0); (1, 0); (1, 1); (1, 0);
                                (1, 0); (1, 0); (1, 0); (1, 0); (1, 0); (1, 0); (1, 0); (1, 1)] ++
     ref_volume PFCP_IE_VOL_THRESH 1000000 ++ ref_volume PFCP_IE_VOLUME_QUOTA 1000000000).

(** ** Sizes *)

Lemma size_ie code body : size (ie code body) = 32 + size body.
Proof. unfold ie. rewrite size_app. reflexivity. Qed.

(** Whole bytes. *)
Definition whole (L : layout) : Prop := size L mod 8 = 0.

Lemma whole_app L1 L2 : whole L1 -> whole L2 -> whole (L1 ++ L2).
Proof. unfold whole. intros. rewrite size_app. divlia. Qed.
Lemma whole_ie code body : whole body -> whole (ie code body).
Proof. unfold whole. intros. rewrite size_ie. divlia. Qed.
Lemma whole_octets l : whole (octets l).
Proof. apply size_octets8. Qed.
Lemma whole_join {A} (f : A -> layout) l : (∀ x, whole (f x)) -> whole (mjoin (f <$> l)).
Proof. intros Hf. induction l as [|x l IH]; [done|]. cbn [fmap list_fmap mjoin list_join]. by apply whole_app. Qed.
Lemma whole_if (c : bool) L1 L2 : whole L1 -> whole L2 -> whole (if c then L1 else L2).
Proof. by destruct c. Qed.
Lemma whole_ref_id code v : whole (ref_id code v).
Proof. by apply whole_ie. Qed.
Lemma whole_ref_filter t : whole (ref_filter t).
Proof. apply whole_ie, whole_app; [done|apply whole_octets]. Qed.

Create HintDb whole.
#[export] Hint Resolve whole_app whole_ie whole_octets whole_join whole_if whole_ref_id whole_ref_filter : whole.
#[export] Hint Extern 5 (whole _) => reflexivity : whole.

Lemma size_join {A} (f : A -> layout) (g : A -> Z) l :
  (∀ x, size (f x) = g x) -> size (mjoin (f <$> l)) = foldr Z.add 0 (g <$> l).
Proof. intros Hf. induction l as [|x l IH]; [done|]. cbn [fmap list_fmap mjoin list_join foldr] in *. rewrite size_app, Hf.
  f_equal. exact IH. Qed.

(** ** Encoders of elements *)

(** The encoder [f] writes the element [L]. *)
Definition writes (f : ie_encoder) (L : layout) : Prop := whole L ∧ encodes f L (size L).

Lemma places_elem f L : writes f L -> places 1 (enc_when true (ecall f)) L.
Proof.
  intros [Hw He]. apply ecall_ok; [done|done|]. by rewrite Z.div_1_r.
Qed.
Lemma places_nz n f L : n ≠ 0 -> writes f L -> places 1 (enc_when (nz n) (ecall f)) L.
Proof. intros Hn. unfold nz. rewrite (proj2 (Z.eqb_neq n 0)) by done. apply places_elem. Qed.
Lemma places_none m : places 1 (enc_when false m) [].
Proof. apply places_skip. by left. Qed.

Lemma regular_writes {T} `{IeCodecOk T} (v : T) L : ie_unit = 1 -> ie_layout v = L -> whole L -> writes (ie_encode v) L.
Proof.
  intros Hu <- Hw. split; [done|]. pose proof (ie_encodes v) as E. by rewrite Hu, Z.div_1_r in E.
Qed.

(** The elements whose layout is that of their members. *)
Ltac regular :=
  intros ->; lazymatch goal with |- writes (_ ?x) ?L => exact (regular_writes x L eq_refl eq_refl eq_refl) end.
Lemma src_intfc_writes h v : h = pfcp_set_ie_header PFCP_IE_SRC_INTFC 1 ->
  writes (encode_pfcp_src_intfc_ie_t (mk_src_intfc h 0 v)) (ie PFCP_IE_SRC_INTFC [(4, 0); (4, v)]).
Proof. regular. Qed.
Lemma dst_intfc_writes h v : h = pfcp_set_ie_header PFCP_IE_DST_INTFC 1 ->
  writes (encode_pfcp_dst_intfc_ie_t (mk_dst_intfc h 0 v)) (ie PFCP_IE_DST_INTFC [(4, 0); (4, v)]).
Proof. regular. Qed.
Lemma pdr_id_writes h v : h = pfcp_set_ie_header PFCP_IE_PDR_ID 2 ->
  writes (encode_pfcp_pdr_id_ie_t (mk_pdr_id h v)) (ie PFCP_IE_PDR_ID [(16, v)]).
Proof. regular. Qed.
Lemma precedence_writes h v : h = pfcp_set_ie_header PFCP_IE_PRECEDENCE 4 ->
  writes (encode_pfcp_precedence_ie_t (mk_precedence h v)) (ref_id PFCP_IE_PRECEDENCE v).
Proof. regular. Qed.
Lemma far_id_writes h v : h = pfcp_set_ie_header PFCP_IE_FAR_ID 4 ->
  writes (encode_pfcp_far_id_ie_t (mk_far_id h v)) (ref_id PFCP_IE_FAR_ID v).
Proof. regular. Qed.
Lemma qer_id_writes h v : h = pfcp_set_ie_header PFCP_IE_QER_ID 4 ->
  writes (encode_pfcp_qer_id_ie_t (mk_qer_id h v)) (ref_id PFCP_IE_QER_ID v).
Proof. regular. Qed.
Lemma urr_id_writes h v : h = pfcp_set_ie_header PFCP_IE_URR_ID 4 ->
  writes (encode_pfcp_urr_id_ie_t (mk_urr_id h v)) (ref_id PFCP_IE_URR_ID v).
Proof. regular. Qed.
Lemma outer_hdr_removal_writes h v : h = pfcp_set_ie_header PFCP_IE_OUTER_HDR_REMOVAL 1 ->
  writes (encode_pfcp_outer_hdr_removal_ie_t (mk_outer_hdr_removal h v)) (ie PFCP_IE_OUTER_HDR_REMOVAL [(8, v)]).
Proof. regular. Qed.
Lemma apply_action_writes h forw drop : h = pfcp_set_ie_header PFCP_IE_APPLY_ACTION 1 ->
  writes (encode_pfcp_apply_action_ie_t (mk_apply_action h 0 0 0 0 0 0 forw drop))
    (ie PFCP_IE_APPLY_ACTION [(1, 0); (1, 0); (1, 0); (1, 0); (1, 0); (1, 0); (1, forw); (1, drop)]).
Proof. regular. Qed.
Lemma gate_status_writes h ul dl : h = pfcp_set_ie_header PFCP_IE_GATE_STATUS 1 ->
  writes (encode_pfcp_gate_status_ie_t (mk_gate_status h 0 ul dl)) (ie PFCP_IE_GATE_STATUS [(4, 0); (2, ul); (2, dl)]).
Proof. regular. Qed.
Lemma mbr_writes h ul dl : h = pfcp_set_ie_header PFCP_IE_MBR 10 ->
  writes (encode_pfcp_mbr_ie_t (mk_mbr h ul dl)) (ie PFCP_IE_MBR [(40, ul); (40, dl)]).
Proof. regular. Qed.
Lemma gbr_writes h ul dl : h = pfcp_set_ie_header PFCP_IE_GBR 10 ->
  writes (encode_pfcp_gbr_ie_t (mk_gbr h ul dl)) (ie PFCP_IE_GBR [(40, ul); (40, dl)]).
Proof. regular. Qed.
Lemma qfi_writes h v : h = pfcp_set_ie_header PFCP_IE_QFI 1 ->
  writes (encode_pfcp_qfi_ie_t (mk_qfi h 0 v)) (ie PFCP_IE_QFI [(2, 0); (6, v)]).
Proof. regular. Qed.
Lemma meas_mthd_writes h : h = pfcp_set_ie_header PFCP_IE_MEAS_MTHD 1 ->
  writes (encode_pfcp_meas_mthd_ie_t (mk_meas_mthd h 0 0 0 0 0 0 1 0))
    (ie PFCP_IE_MEAS_MTHD [(1, 0); (1, 0); (1, 0); (1, 0); (1, 0); (1, 0); (1, 1); (1, 0)]).
Proof. regular. Qed.
Lemma rptng_triggers_writes h : h = pfcp_set_ie_header PFCP_IE_RPTNG_TRIGGERS 2 ->
  writes (encode_pfcp_rptng_triggers_ie_t (mk_rptng_triggers h 0 0 0 0 0 0 1 0 0 0 0 0 0 0 0 1))
    (ie PFCP_IE_RPTNG_TRIGGERS [(1, 0); (1, 0); (1, 0); (1, 0); (1, 0); (1, 0); (1, 1); (1, 0);
                                (1, 0); (1, 0); (1, 0); (1, 0); (1, 0); (1, 0); (1, 0); (1, 1)]).
Proof. regular. Qed.
Create HintDb writes.
#[export] Hint Resolve src_intfc_writes dst_intfc_writes pdr_id_writes precedence_writes far_id_writes qer_id_writes
  urr_id_writes outer_hdr_removal_writes apply_action_writes gate_status_writes mbr_writes gbr_writes qfi_writes
  meas_mthd_writes rptng_triggers_writes : writes.

Lemma fteid_writes h teid ipv4 v6 ch :
  h = pfcp_set_ie_header PFCP_IE_FTEID 9 -> 0 <= ipv4 < 2 ^ 32 ->
  writes (encode_pfcp_fteid_ie_t (mk_fteid h 0 0 0 0 1 teid ipv4 v6 ch))
    (ie PFCP_IE_FTEID ([(4, 0); (1, 0); (1, 0); (1, 0); (1, 1); (32, teid)] ++ octets (le_bytes 4 ipv4))).
Proof.
  intros -> Hi. split; [eauto with whole|].
  exact (fteid_encodes (mk_fteid (pfcp_set_ie_header PFCP_IE_FTEID 9) 0 0 0 0 1 teid ipv4 v6 ch)
    (conj eq_refl (conj eq_refl (conj eq_refl Hi)))).
Qed.

Lemma ntwk_inst_writes h l : h = pfcp_set_ie_header PFCP_IE_NTWK_INST 32 -> length l = 32%nat -> bytes_ok l ->
  writes (encode_pfcp_ntwk_inst_ie_t (mk_ntwk_inst h l)) (ie PFCP_IE_NTWK_INST (octets l)).
Proof.
  intros -> Hl Hb. split; [eauto with whole|].
  destruct (ntwk_inst_codec (mk_ntwk_inst (pfcp_set_ie_header PFCP_IE_NTWK_INST 32) l)) as [E _].
  { split_and!; [|done..]. by repeat constructor. }
  unfold ie. rewrite size_octets, Hl. rewrite Z.div_1_r in E. exact E.
Qed.

Lemma ue_ip_writes h (control : bool) a v6 bits :
  h = pfcp_set_ie_header PFCP_IE_UE_IP_ADDRESS (if control then 5 else 1) ->
  writes (encode_pfcp_ue_ip_address_ie_t
            (mk_ue_ip_address h 0 (if control then 0 else 1) 0 0 (if control then 1 else 0) 0 a v6 bits))
    (ie PFCP_IE_UE_IP_ADDRESS
       (if control then [(3, 0); (1, 0); (1, 0); (1, 0); (1, 1); (1, 0); (32, a)]
        else [(3, 0); (1, 1); (1, 0); (1, 0); (1, 0); (1, 0)])).
Proof.
  intros ->. split; [eauto with whole|]. rewrite <- (Z.div_1_r (size _)).
  apply encodes_bits. destruct control; apply emits_ie_header; do 6 emit_step.
  - rewrite <- (app_nil_r [(32, a)]). eapply emits_seq; [apply emits_put1; lia|done|].
    apply (emits_seq 0 0 _ _ [] _ (emits_skip 0)); [reflexivity|]. apply emits_skip.
  - do 2 (apply (emits_seq 0 0 _ _ [] _ (emits_skip 0)); [reflexivity|]). apply emits_skip.
Qed.

Lemma hdr_creation_writes h teid ipv4 : h = pfcp_set_ie_header PFCP_IE_OUTER_HDR_CREATION 10 ->
  writes (encode_pfcp_outer_hdr_creation_ie_t (mk_outer_hdr_creation h 0x0100 teid ipv4 (repeat 0 16) 0 0 0))
    (ie PFCP_IE_OUTER_HDR_CREATION [(16, 0x0100); (32, teid); (32, ipv4)]).
Proof.
  intros ->. split; [eauto with whole|].
  apply (outer_hdr_creation_encodes (mk_outer_hdr_creation (pfcp_set_ie_header PFCP_IE_OUTER_HDR_CREATION 10) 0x0100
    teid ipv4 (repeat 0 16) 0 0 0)). by split_and!.
Qed.

(** The total volume of a threshold or a quota. *)
Lemma volume_emits v :
  emits 0 (put 0 5 ⨾ put 0 1 ⨾ put 0 1 ⨾ put 1 1 ⨾ enc_when true (put v 64) ⨾ enc_when false enc_skip ⨾
           enc_when false enc_skip) [(5, 0); (1, 0); (1, 0); (1, 1); (64, v)].
Proof.
  do 4 emit_step. rewrite <- (app_nil_r [(64, v)]). eapply emits_seq; [apply emits_put1; lia|done|].
  apply (emits_seq 0 0 _ _ [] _ (emits_skip 0)); [reflexivity|]. apply emits_skip.
Qed.
Lemma vol_thresh_writes h v a b : h = pfcp_set_ie_header PFCP_IE_VOL_THRESH 9 ->
  writes (encode_pfcp_vol_thresh_ie_t (mk_vol_thresh h 0 0 0 1 v a b)) (ref_volume PFCP_IE_VOL_THRESH v).
Proof.
  intros ->. split; [done|]. rewrite <- (Z.div_1_r (size _)). apply encodes_bits, emits_ie_header, volume_emits.
Qed.
Lemma volume_quota_writes h v a b : h = pfcp_set_ie_header PFCP_IE_VOLUME_QUOTA 9 ->
  writes (encode_pfcp_volume_quota_ie_t (mk_volume_quota h 0 0 0 1 v a b)) (ref_volume PFCP_IE_VOLUME_QUOTA v).
Proof.
  intros ->. split; [done|]. rewrite <- (Z.div_1_r (size _)). apply encodes_bits, emits_ie_header, volume_emits.
Qed.

(** ** Packet filters *)

(** A text without zeros that fits the array with its end. *)
Definition text_ok (t : list Z) : Prop := Forall (fun c => 0 < c < 256) t ∧ (length t <= 254)%nat.

Definition filter_ie (t : list Z) : pfcp_sdf_filter_ie_t :=
  mk_sdf_filter (pfcp_set_ie_header PFCP_IE_SDF_FILTER (4 + Z.of_nat (length t))) 0 0 0 0 0 1 0 (Z.of_nat (length t))
    (t ++ repeat 0 (255 - length t)) 0 0 0 0.

Lemma filter_writes t : text_ok t -> writes (encode_pfcp_sdf_filter_ie_t (filter_ie t)) (ref_filter t).
Proof.
  intros [Ht Hl]. split; [apply whole_ref_filter|].
  assert (bytes_ok (t ++ repeat 0 (255 - length t))) as Hb.
  { apply Forall_app. split; [|apply bytes_ok_zeros].
    apply (list.Forall_impl (fun c => 0 < c < 256)); [exact Ht|]. unfold byte_ok. intros; lia. }
  pose proof (sdf_filter_encodes (filter_ie t)) as E. rewrite Z.div_1_r in E.
  assert (layout_sdf_filter (filter_ie t) = ref_filter t) as EL.
  { unfold layout_sdf_filter, filter_ie. cbn [sdf_filter_len_of_flow_desc sdf_filter_flow_desc].
    rewrite Nat2Z.id, take_app_length. unfold ref_filter, ie. rewrite size_app, size_octets.
    cbn -[octets length Z.of_nat Z.div Z.mul Z.add uwrap repeat].
    rewrite app_nil_r. unfold layout_ie_header. cbn [ie_type ie_len].
    rewrite (uwrap_small 16) by lia. change (u8 PFCP_IE_SDF_FILTER) with PFCP_IE_SDF_FILTER.
    do 3 f_equal. change (size _) with 32. divlia. }
  rewrite EL in E. apply E. unfold sdf_filter_ok, filter_ie. cbn -[repeat length].
  rewrite Nat2Z.id. split_and!; try lia; try done.
  - rewrite length_app, repeat_length. lia.
  - by rewrite drop_app_length.
Qed.

(** The text of a flow, and the array it leaves in an empty element. *)
Definition flow_is (flow : flow_desc_t) (t : list Z) : Prop := c_str flow.(sdf_flow_description) = Some t ∧ text_ok t.

Lemma text_into flow t : flow_is flow t ->
  sdf_pkt_filter_to_string flow (repeat 0 255) = Some (t ++ repeat 0 (255 - length t)).
Proof.
  intros [Hc [Ht Hl]]. unfold sdf_pkt_filter_to_string. rewrite Hc. cbn [mbind option_bind].
  rewrite repeat_length. destruct (Nat.leb_spec (length t + 1) 255); [|lia]. f_equal. f_equal.
  rewrite drop_repeat. change ([0] ++ repeat 0 (255 - (length t + 1))) with (repeat 0 (S (255 - (length t + 1)))).
  f_equal. lia.
Qed.

(** ** Filters in a PDI *)

(** The texts of the flows of a rule that are filters on the side [iface]. *)
Definition wanted_flows (iface : Z) (rule : dynamic_rule_t) : list flow_desc_t :=
  List.filter (filter_wanted iface) (take (Z.to_nat rule.(num_flw_desc)) rule.(flow_desc)).
Definition rule_texts (iface : Z) (rule : dynamic_rule_t) (texts : list (list Z)) : Prop :=
  (Z.to_nat rule.(num_flw_desc) <= length rule.(flow_desc))%nat ∧
  Forall2 flow_is (wanted_flows iface rule) texts ∧ (length texts <= 16)%nat.

(** The first [n] structures of an array, the others still zero. *)
Definition filled {A} (xs : list A) (zero : A) : list A := xs ++ repeat zero (16 - length xs).

Definition filter_size (t : list Z) : Z := 8 + Z.of_nat (length t).
Definition filter_sizes (texts : list (list Z)) : Z := foldr Z.add 0 (filter_size <$> texts).

Lemma filled_next {A} (xs : list A) zero : (length xs < 16)%nat -> filled xs zero !! length xs = Some zero.
Proof.
  intros Hl. unfold filled. rewrite lookup_app_r, Nat.sub_diag by done.
  destruct (16 - length xs)%nat eqn:E; [lia|done].
Qed.
Lemma filled_set {A} (xs : list A) zero x : (length xs < 16)%nat ->
  <[length xs := x]> (filled xs zero) = filled (xs ++ [x]) zero.
Proof.
  intros Hl. unfold filled. rewrite insert_app_r_alt, Nat.sub_diag by done. rewrite length_app. cbn [length].
  replace (16 - length xs)%nat with (S (16 - (length xs + 1))) by lia. cbn. by rewrite <- app_assoc.
Qed.
Lemma filled_length {A} (xs : list A) zero : (length xs <= 16)%nat -> length (filled xs zero) = 16%nat.
Proof. intros. unfold filled. rewrite length_app, repeat_length. lia. Qed.

Lemma u16_add a b : u16 (u16 a + b) = u16 (a + b).
Proof. unfold uwrap. apply Zplus_mod_idemp_l. Qed.
Lemma grow_grow a b h : grow_header b (grow_header a h) = grow_header (a + b) h.
Proof. unfold grow_header, with_ie_len. cbn [ie_type ie_len]. by rewrite u16_add, Z.add_assoc. Qed.

(** A PDI with filters. *)
Definition pdi_filters (texts : list (list Z)) (x : pfcp_pdi_ie_t) : pfcp_pdi_ie_t :=
  set_pdi_sdf_filter (filled (filter_ie <$> texts) zero_sdf_filter) x.

Lemma sdf_filter_into_ok flow t texts x : flow_is flow t -> (length texts < 16)%nat ->
  sdf_filter_into flow (length texts) (pdi_filters texts x) =
    Some (pdi_filters (texts ++ [t]) (set_pdi_header (grow_header (filter_size t) x.(pdi_header)) x), filter_size t).
Proof.
  intros Hf Hl. unfold sdf_filter_into, pdi_filters.
  cbn [set_pdi_sdf_filter pdi_sdf_filter pdi_header set_pdi_header].
  pose proof (filled_next (filter_ie <$> texts) zero_sdf_filter) as En. rewrite length_fmap in En.
  rewrite En by done. cbn [mbind option_bind]. unfold zero_sdf_filter at 1.
  cbn [sdf_filter_flow_desc sdf_filter_sdf_fltr_spare sdf_filter_bid sdf_filter_fl sdf_filter_spi sdf_filter_ttc
       sdf_filter_sdf_fltr_spare2 sdf_filter_tos_traffic_cls sdf_filter_secur_parm_idx sdf_filter_flow_label sdf_filter_id
       zero_sdf_filter].
  rewrite (text_into flow t Hf). destruct Hf as [_ [Ht Hlt]]. cbn [mbind option_bind].
  replace (repeat 0 (255 - length t)) with (0 :: repeat 0 (254 - length t)) at 1
    by (replace (255 - length t)%nat with (S (254 - length t)) by lia; done).
  rewrite (c_str_text t _ Ht). cbn [mbind option_bind].
  rewrite (uwrap_small 16 (Z.of_nat (length t))) by lia.
  pose proof (filled_set (filter_ie <$> texts) zero_sdf_filter (filter_ie t)) as Es. rewrite length_fmap in Es.
  replace (FLAG_LEN + 2 + Z.of_nat (length t)) with (4 + Z.of_nat (length t)) by (unfold FLAG_LEN; lia).
  replace (4 + Z.of_nat (length t) + sizeof_ie_header) with (filter_size t) by (unfold filter_size, sizeof_ie_header; lia).
  rewrite fmap_app. cbn [fmap list_fmap]. by rewrite <- Es.
Qed.

(** The PDI with more filters: the header grows with every one. *)
Definition pdi_more (texts : list (list Z)) (x : pfcp_pdi_ie_t) : pfcp_pdi_ie_t :=
  set_pdi_header (grow_header (filter_sizes texts) x.(pdi_header)) x.

Lemma sdf_filters_ok iface flows texts n itr old x :
  (itr + n <= length flows)%nat -> x.(pdi_src_intfc).(src_intfc_interface_value) = iface ->
  u16 x.(pdi_header).(ie_len) = x.(pdi_header).(ie_len) ->
  Forall2 flow_is (List.filter (filter_wanted iface) (take n (drop itr flows))) texts ->
  (length old + length texts <= 16)%nat ->
  sdf_filters n itr flows (length old) (pdi_filters old x) =
    Some (pdi_filters (old ++ texts) (pdi_more texts x), (length old + length texts)%nat, filter_sizes texts).
Proof.
  intros Hn Hi Hu. revert itr old texts x Hn Hi Hu. induction n as [|n IH]; intros itr old texts x Hn Hi Hu HF Hl.
  - apply Forall2_nil_inv_l in HF as ->. cbn [sdf_filters]. rewrite app_nil_r, Nat.add_0_r. unfold pdi_more, grow_header, with_ie_len.
    change (filter_sizes []) with 0. rewrite Z.add_0_r, Hu.
    by replace (mk_ie_header _ _) with x.(pdi_header) by (by destruct (pdi_header x)).
  - destruct (lookup_lt_is_Some_2 flows itr) as [flow Hf]; [lia|].
    cbn [sdf_filters]. rewrite Hf. cbn [mbind option_bind].
    change (pdi_src_intfc (pdi_filters old x)) with (pdi_src_intfc x). rewrite Hi.
    rewrite (drop_S flows flow itr Hf) in HF. cbn [take List.filter] in HF.
    destruct (filter_wanted iface flow); [|apply IH; auto; lia].
    apply Forall2_cons_inv_l in HF as (t & texts' & Ht & HF & ->). cbn [length] in *.
    rewrite (sdf_filter_into_ok flow t old x Ht) by lia. cbn [mbind option_bind].
    replace (S (length old)) with (length (old ++ [t])) by (rewrite length_app; cbn; lia).
    rewrite (IH (S itr) (old ++ [t]) texts'); auto; try lia; try (rewrite length_app; cbn; lia).
    2: { cbn. unfold uwrap. apply Zmod_mod. }
    cbn [mbind option_bind]. rewrite <- app_assoc, length_app. cbn [length app].
    rewrite <- Nat.add_assoc. do 3 f_equal. unfold pdi_more.
    cbn [set_pdi_header pdi_header]. rewrite grow_grow. done.
Qed.

(** The PDI with the filters of a rule. *)
Definition pdi_filtered (texts : list (list Z)) (x : pfcp_pdi_ie_t) : pfcp_pdi_ie_t :=
  set_pdi_sdf_filter_count (Z.of_nat (length texts)) (pdi_filters texts (pdi_more texts x)).

Lemma fill_sdf_rules_ok rule texts x :
  rule_texts x.(create_pdr_pdi).(pdi_src_intfc).(src_intfc_interface_value) rule texts ->
  u16 x.(create_pdr_pdi).(pdi_header).(ie_len) = x.(create_pdr_pdi).(pdi_header).(ie_len) ->
  x.(create_pdr_pdi).(pdi_sdf_filter) = repeat zero_sdf_filter 16 ->
  fill_sdf_rules rule x = Some (set_create_pdr_header (grow_header (filter_sizes texts) x.(create_pdr_header))
                                  (set_create_pdr_pdi (pdi_filtered texts x.(create_pdr_pdi)) x)).
Proof.
  intros (Hn & HF & Hl) Hu Hz. unfold fill_sdf_rules.
  pose proof (sdf_filters_ok _ rule.(flow_desc) texts (Z.to_nat rule.(num_flw_desc)) 0 [] x.(create_pdr_pdi)
    ltac:(done) eq_refl Hu HF Hl) as E.
  assert (pdi_filters [] x.(create_pdr_pdi) = x.(create_pdr_pdi)) as E0.
  { unfold pdi_filters, filled. cbn [fmap list_fmap app length Nat.sub]. by rewrite <- Hz. }
  rewrite E0 in E. cbn [length Nat.add app] in E. rewrite E. cbn [mbind option_bind].
  rewrite uwrap_small by lia. done.
Qed.

(** ** Packet detection rules *)

(** A rule of one of the two sides, whose members have their widths. *)
Definition side_ok (pdr : pdr_t) : Prop :=
  (pdr.(src_intfc) = SOURCE_INTERFACE_VALUE_ACCESS ∨ pdr.(src_intfc) = SOURCE_INTERFACE_VALUE_CORE) ∧
  0 <= pdr.(local_ipv4) < 2 ^ 32 ∧ length pdr.(ntwk_inst) = 32%nat ∧ bytes_ok pdr.(ntwk_inst) ∧
  strncpy 32 pdr.(ntwk_inst) = pdr.(ntwk_inst) ∧ 0 <= pdr.(dst_intfc) < 16.

(** The address, from the control plane or the user plane. *)
Definition control_address (d : pdn_connection_t) : bool := nz (Z.land d.(pdn_flags) PDN_ADDR_ALLOC_CONTROL).

Definition ie_header (code len : Z) : pfcp_ie_header_t := mk_ie_header (u8 code) (u16 len).
Definition pdi_size (access control : bool) : Z := if access then 18 else if control then 50 else 46.

(** The structures as they are filled from zero. *)
Definition pdi_form (control : bool) (pdr : pdr_t) : pfcp_pdi_ie_t :=
  let access := is_access pdr in
  let fteid := set_fteid zero_fteid in
  let ue_ip := set_ue_ip zero_ue_ip_address (if control then PDN_ADDR_ALLOC_CONTROL else PDN_ADDR_ALLOC_UPF) in
  set_pdi_header (ie_header PFCP_IE_PDI (pdi_size access control))
    (set_pdi_src_intfc (mk_src_intfc (ie_header PFCP_IE_SRC_INTFC 1) 0 (uwrap 4 pdr.(src_intfc)))
      (set_pdi_local_fteid (if access then with_tunnel pdr.(local_teid) pdr.(local_ipv4) fteid.1 else with_fteid_len 0 fteid.1)
        (set_pdi_ntwk_inst (if access then mk_ntwk_inst (ie_header PFCP_IE_NTWK_INST 0) (repeat 0 32)
                            else mk_ntwk_inst (ie_header PFCP_IE_NTWK_INST 32) (strncpy 32 pdr.(ntwk_inst)))
          (set_pdi_ue_ip_address (if access then with_ue_ip_len 0 ue_ip.1 else with_ue_addr pdr.(ue_addr) ue_ip.1)
             zero_pdi)))).

Definition ids_form {A} (set : Z -> A -> A) (elem zero : A) (l : list Z) : list A :=
  filled ((fun v => set v elem) <$> l) zero.

Definition pdr_form (urr : bool) (control : bool) (pdr : pdr_t) (len : pfcp_ie_header_t) (pdi : pfcp_pdi_ie_t)
    : pfcp_create_pdr_ie_t :=
  let access := is_access pdr in
  mk_create_pdr len
    (with_rule_id pdr.(rule_id) set_pdr_id.1) (with_prcdnc pdr.(prcdnc_val) set_precedence.1) pdi
    (if access then set_outer_hdr_removal.1 else zero_outer_hdr_removal) (with_far_id pdr.(far_id_value) set_far_id.1)
    (if urr then 1 else 0) (filled (repeat set_urr_id.1 (if urr then 1 else 0)) zero_urr_id)
    (Z.of_nat (length pdr.(pdr_qers))) (filled (repeat set_qer_id.1 (length pdr.(pdr_qers))) zero_qer_id)
    0 (repeat zero_actvt_predef_rules 16).
Definition pdr_size (urr control : bool) (pdr : pdr_t) : Z :=
  6 + 8 + (4 + pdi_size (is_access pdr) control) + (if is_access pdr then 5 else 0) + 8 +
  8 * Z.of_nat (length pdr.(pdr_qers)) + 8 * (if urr then 1 else 0).

(** The header before the filters: set for all the elements, then reduced twice. *)
Definition pdr_reduced (urr control : bool) (pdr : pdr_t) : pfcp_ie_header_t :=
  let access := is_access pdr in
  let ue_ip := if control then 9 else 5 in
  grow_header (- (if access then ue_ip - 4 + 4 + 32 + 4 else 0)) (grow_header (- (if access then 0 else 9 + 4))
    (pfcp_set_ie_header PFCP_IE_CREATE_PDR
       (6 + 8 + (5 + 13 + 36 + ue_ip + 4) + (if access then 5 else 0) + 8 +
        8 * Z.of_nat (length pdr.(pdr_qers)) + 8 * (if urr then 1 else 0)))).

Lemma pdr_reduced_ok urr control pdr :
  pdr_reduced urr control pdr = ie_header PFCP_IE_CREATE_PDR (pdr_size urr control pdr).
Proof.
  unfold pdr_reduced. rewrite grow_grow. unfold grow_header, with_ie_len, pfcp_set_ie_header. cbn [ie_type ie_len].
  rewrite u16_add. unfold ie_header, pdr_size, pdi_size. do 2 f_equal. destruct (is_access pdr), control; lia.
Qed.

Lemma set_first_zero {A} (set : A * Z) n (zero : A) : (n <= 16)%nat ->
  set_first set (Z.of_nat n) (repeat zero 16) = Some (filled (repeat set.1 n) zero, set.2 * Z.of_nat n).
Proof.
  intros Hn. unfold set_first, filled. rewrite Nat2Z.id, !repeat_length, drop_repeat.
  destruct (Nat.leb_spec n 16); [done|lia].
Qed.

Lemma est_create_pdr_bare cfg d ty pdr rule : side_ok pdr -> (length pdr.(pdr_qers) <= 16)%nat ->
  est_create_pdr cfg d ty pdr rule zero_create_pdr =
    x ← fill_sdf_rules rule (pdr_form cfg.(urr_enable) (control_address d) pdr
          (pdr_reduced cfg.(urr_enable) (control_address d) pdr) (pdi_form (control_address d) pdr));
    Some (role_after ty, x).
Proof.
  intros (Hi & _) Hq. unfold est_create_pdr, creating_pdr.
  pose proof (set_first_zero set_qer_id (length pdr.(pdr_qers)) zero_qer_id Hq) as Eq.
  pose proof (set_first_zero set_urr_id (if cfg.(urr_enable) then 1 else 0) zero_urr_id
    ltac:(destruct (urr_enable cfg); lia)) as Eu.
  replace (Z.of_nat (if cfg.(urr_enable) then 1 else 0)) with (if cfg.(urr_enable) then 1 else 0) in Eu
    by (by destruct (urr_enable cfg)).
  cbn [set_create_pdr_qer_id_count set_create_pdr_urr_id_count create_pdr_qer_id_count create_pdr_urr_id_count
       create_pdr_qer_id create_pdr_urr_id zero_create_pdr] in *.
  change MAX_LIST_SIZE with 16%nat. rewrite Eq, Eu. clear Eq Eu. cbn [mbind option_bind].
  fold (control_address d). unfold pdr_form, pdi_form, pdr_reduced, is_access.
  destruct Hi as [-> | ->], (control_address d), ty; reflexivity.
Qed.

Lemma est_create_pdr_ok cfg d ty pdr rule texts : side_ok pdr -> (length pdr.(pdr_qers) <= 16)%nat ->
  rule_texts pdr.(src_intfc) rule texts ->
  est_create_pdr cfg d ty pdr rule zero_create_pdr =
    Some (role_after ty,
      pdr_form cfg.(urr_enable) (control_address d) pdr
        (grow_header (filter_sizes texts) (ie_header PFCP_IE_CREATE_PDR (pdr_size cfg.(urr_enable) (control_address d) pdr)))
        (pdi_filtered texts (pdi_form (control_address d) pdr))).
Proof.
  intros Hs Hq Hr. rewrite est_create_pdr_bare by done. rewrite <- pdr_reduced_ok.
  erewrite (fill_sdf_rules_ok rule texts); [done| | |done].
  - change (rule_texts (uwrap 4 pdr.(src_intfc)) rule texts). destruct Hs as [[Hi|Hi] _]; rewrite Hi in *; exact Hr.
  - change (u16 (u16 (pdi_size (is_access pdr) (control_address d))) = u16 (pdi_size (is_access pdr) (control_address d))).
    unfold uwrap. apply Zmod_mod.
Qed.

(** ** What the encoders write *)

Lemma places_each {A T} u (body : T -> enc) (g : A -> T) (L : A -> layout) pre xs rest : is_unit u ->
  Forall (fun x => places u (body (g x)) (L x)) xs ->
  places u (enc_for (pre ++ (g <$> xs) ++ rest) (length pre) (length xs) body) (mjoin (L <$> xs)).
Proof.
  intros Hu. revert pre. induction xs as [|x xs IH]; intros pre HF; [by apply places_skip|].
  apply Forall_cons_1 in HF as [Hx HF]. cbn [enc_for length fmap list_fmap mjoin list_join].
  pose proof (places_seq u _ _ _ _ Hu Hx (IH (pre ++ [g x]) HF)) as P.
  rewrite length_app, <- app_assoc in P. cbn [length app] in P. rewrite Nat.add_1_r in P.
  destruct P as [Hm P]. split; [exact Hm|]. intros base e buf w.
  rewrite lookup_app_r, Nat.sub_diag by done. exact (P base e buf w).
Qed.
Lemma places_filled {A T} u (body : T -> enc) (g : A -> T) (L : A -> layout) xs zero : is_unit u ->
  Forall (fun x => places u (body (g x)) (L x)) xs ->
  places u (enc_for (filled (g <$> xs) zero) 0 (Z.to_nat (Z.of_nat (length xs))) body) (mjoin (L <$> xs)).
Proof. intros Hu HF. rewrite Nat2Z.id. exact (places_each u body g L [] xs _ Hu HF). Qed.

Lemma size_ref_filter t : size (ref_filter t) = 8 * filter_size t.
Proof. unfold ref_filter. rewrite size_ie, size_app, size_octets. unfold filter_size. change (size [_; _; _; _; _; _; _; _]) with 32. lia. Qed.
Lemma size_ref_filters texts : size (mjoin (ref_filter <$> texts)) = 8 * filter_sizes texts.
Proof.
  rewrite (size_join _ _ _ size_ref_filter). unfold filter_sizes.
  induction texts as [|t texts IH]; [done|]. cbn [fmap list_fmap foldr] in *. lia.
Qed.
Lemma filter_sizes_bound texts : Forall text_ok texts -> 0 <= filter_sizes texts <= 262 * Z.of_nat (length texts).
Proof.
  induction 1 as [|t texts [_ Ht] HF IH]; [done|]. unfold filter_sizes, filter_size in *. cbn [fmap list_fmap foldr length].
  lia.
Qed.

(** The header that the element of a body has. *)
Lemma ie_layout_header code len body : 0 <= code < 256 -> 0 <= len < 65536 -> size body = 8 * len ->
  layout_ie_header (ie_header code len) ++ body = ie code body.
Proof.
  intros Hc Hl Hs. unfold ie, layout_ie_header, ie_header. cbn [ie_type ie_len]. rewrite Hs, !uwrap_small by lia.
  by rewrite (Z.mul_comm 8), Z.div_mul.
Qed.

Lemma grow_ie_header a code len : grow_header a (ie_header code len) = ie_header code (len + a).
Proof. unfold grow_header, with_ie_len, ie_header. cbn [ie_type ie_len]. by rewrite u16_add. Qed.

(** Members one after the other: present, absent, or an array of none. *)
Lemma place_next m1 m2 L1 L2 : places 1 m1 L1 -> places 1 m2 L2 -> places 1 (m1 ⨾ m2) (L1 ++ L2).
Proof. apply places_seq. by left. Qed.
Lemma place_absent m m2 L : places 1 m2 L -> places 1 (enc_when false m ⨾ m2) L.
Proof. apply (place_next _ _ [] L), places_none. Qed.
Lemma place_no_array {T} (xs : list T) body m2 L : places 1 m2 L -> places 1 (enc_for xs 0 0 body ⨾ m2) L.
Proof. apply (place_next _ _ [] L), places_skip. by left. Qed.
Ltac skip_absent := repeat first [apply place_absent|apply place_no_array].

(** Sizes by evaluation of the fields that are written out. *)
Ltac sizes := rewrite ?size_app, ?size_ie, ?size_octets, ?size_cons, ?size_nil by lia.

Lemma size_ref_pdi_body control pdr texts : length pdr.(ntwk_inst) = 32%nat ->
  size (ref_pdi_body control pdr texts) = 8 * (pdi_size (is_access pdr) control + filter_sizes texts).
Proof.
  intros Hl. unfold ref_pdi_body. rewrite !size_app, size_ref_filters.
  destruct (is_access pdr), control; repeat sizes; rewrite ?length_le_bytes, ?Hl; unfold pdi_size; lia.
Qed.

Lemma filters_places texts : Forall text_ok texts ->
  places 1 (enc_for (filled (filter_ie <$> texts) zero_sdf_filter) 0 (Z.to_nat (Z.of_nat (length texts)))
    (fun x => enc_when (nz x.(sdf_filter_header).(ie_len)) (ecall (encode_pfcp_sdf_filter_ie_t x))))
    (mjoin (ref_filter <$> texts)).
Proof.
  intros HF. apply places_filled; [by left|]. eapply (list.Forall_impl text_ok); [exact HF|]. intros t Ht.
  apply places_nz; [|by apply filter_writes]. destruct Ht as [_ Hl]. cbn -[uwrap Z.of_nat Z.add].
  rewrite uwrap_small; lia.
Qed.
Lemma place_last m1 m2 L : places 1 m1 L -> places 1 m2 [] -> places 1 (m1 ⨾ m2) L.
Proof. intros H1 H2. rewrite <- (app_nil_r L). by apply place_next. Qed.
Lemma place_nothing : places 1 enc_skip [].
Proof. apply places_skip. by left. Qed.

Ltac filters_rest := skip_absent; apply place_last; [by apply filters_places|]; skip_absent; apply place_nothing.

Lemma pdi_writes control pdr texts : side_ok pdr -> Forall text_ok texts -> (length texts <= 16)%nat ->
  writes (encode_pfcp_pdi_ie_t (pdi_filtered texts (pdi_form control pdr))) (ref_pdi control pdr texts).
Proof.
  intros (Hi & Hip & Hn & Hb & Hc & _) HF Hl. split; [unfold ref_pdi; eauto 12 with whole|].
  rewrite <- (Z.div_1_r (size _)). unfold ref_pdi. pose proof (filter_sizes_bound texts HF).
  rewrite <- (ie_layout_header PFCP_IE_PDI (pdi_size (is_access pdr) control + filter_sizes texts));
    [|done|unfold pdi_size; destruct (is_access pdr), control; lia|by apply size_ref_pdi_body].
  apply (encodes_enc_bits 1); [by left|]. rewrite <- grow_ie_header.
  apply places_ie_header. unfold ref_pdi_body, pdi_form.
  assert (uwrap 4 pdr.(src_intfc) = pdr.(src_intfc)) as -> by (by destruct Hi as [-> | ->]).
  destruct (is_access pdr); cbv match; (apply place_next; [apply places_elem; by apply src_intfc_writes|]).
  - apply place_next; [apply places_elem; by apply fteid_writes|]. filters_rest.
  - skip_absent. rewrite <- app_assoc, Hc. apply place_next; [apply places_elem; by apply ntwk_inst_writes|].
    destruct control; (apply place_next; [apply places_elem|filters_rest]).
    + by apply (ue_ip_writes _ true).
    + by apply (ue_ip_writes _ false).
Qed.

(** *** PDR *)

Lemma assign_first_ok {A} (set : Z -> A -> A) elem zero l :
  assign_first set l (filled (repeat elem (length l)) zero) = Some (filled ((fun v => set v elem) <$> l) zero).
Proof.
  unfold filled. rewrite repeat_length, length_fmap. generalize (repeat zero (16 - length l)). intros rest.
  induction l as [|v l IH]; [done|]. cbn [assign_first length repeat app]. by rewrite IH.
Qed.

(** The usage reporting rules are those of the length that was counted. *)
Definition urrs_ok (cfg : session_config) (pdr : pdr_t) : Prop :=
  length pdr.(pdr_urrs) = if cfg.(urr_enable) then 1%nat else 0%nat.

Definition pdr_done (control : bool) (pdr : pdr_t) (texts : list (list Z)) (len : pfcp_ie_header_t)
    : pfcp_create_pdr_ie_t :=
  mk_create_pdr len (with_rule_id pdr.(rule_id) set_pdr_id.1) (with_prcdnc pdr.(prcdnc_val) set_precedence.1)
    (pdi_filtered texts (pdi_form control pdr))
    (if is_access pdr then set_outer_hdr_removal.1 else zero_outer_hdr_removal) (with_far_id pdr.(far_id_value) set_far_id.1)
    (Z.of_nat (length pdr.(pdr_urrs))) (filled ((fun v => with_urr_id v set_urr_id.1) <$> pdr.(pdr_urrs)) zero_urr_id)
    (Z.of_nat (length pdr.(pdr_qers))) (filled ((fun v => with_qer_id v set_qer_id.1) <$> pdr.(pdr_qers)) zero_qer_id)
    0 (repeat zero_actvt_predef_rules 16).

Lemma est_pdr_ids_ok cfg ty control pdr texts len : urrs_ok cfg pdr ->
  est_pdr_ids cfg (role_after ty) pdr
    (pdr_form cfg.(urr_enable) control pdr len (pdi_filtered texts (pdi_form control pdr))) =
  Some (pdr_done control pdr texts len).
Proof.
  intros Hu. unfold est_pdr_ids, urrs_ok in *. assert (is_pgw (role_after ty) = true) as -> by (by destruct ty).
  unfold pdr_form. cbn [create_pdr_qer_id]. rewrite assign_first_ok. cbn [mbind option_bind].
  unfold pdr_done. destruct (urr_enable cfg).
  - cbn [set_create_pdr_qer_id set_create_pdr_qer_id_count create_pdr_urr_id]. rewrite <- Hu, assign_first_ok. done.
  - apply nil_length_inv in Hu. rewrite Hu. done.
Qed.

Lemma size_ref_ids code l : size (mjoin (ref_id code <$> l)) = 64 * Z.of_nat (length l).
Proof.
  rewrite (size_join _ (fun _ => 64)); [|done]. induction l as [|v l IH]; [done|].
  cbn [fmap list_fmap foldr length] in *. lia.
Qed.
Lemma size_ref_pdr_body cfg control pdr texts : urrs_ok cfg pdr -> length pdr.(ntwk_inst) = 32%nat ->
  size (ref_pdr_body control pdr texts) = 8 * (pdr_size cfg.(urr_enable) control pdr + filter_sizes texts).
Proof.
  intros Hu Hl. unfold ref_pdr_body, urrs_ok in *. rewrite !size_app, !size_ref_ids, Hu.
  assert (size (ref_pdi control pdr texts) = 8 * (4 + pdi_size (is_access pdr) control + filter_sizes texts)) as ->.
  { unfold ref_pdi. rewrite size_ie, size_ref_pdi_body by done. lia. }
  unfold pdr_size, ref_id. destruct (is_access pdr), (urr_enable cfg); repeat sizes; lia.
Qed.

Lemma ids_places {A} (code : Z) (g : Z -> A) (f : A -> ie_encoder) (h : A -> pfcp_ie_header_t) zero l :
  (∀ v, nz (h (g v)).(ie_len) = true) -> (∀ v, writes (f (g v)) (ref_id code v)) ->
  places 1 (enc_for (filled (g <$> l) zero) 0 (Z.to_nat (Z.of_nat (length l)))
    (fun x => enc_when (nz (h x).(ie_len)) (ecall (f x)))) (mjoin (ref_id code <$> l)).
Proof.
  intros Hn Hw. apply places_filled; [by left|]. apply list.Forall_true. intros v. rewrite Hn. by apply places_elem.
Qed.

Lemma pdr_encodes cfg control pdr texts : side_ok pdr -> urrs_ok cfg pdr -> (length pdr.(pdr_qers) <= 16)%nat ->
  Forall text_ok texts -> (length texts <= 16)%nat ->
  encodes (encode_pfcp_create_pdr_ie_t
             (pdr_done control pdr texts
                (grow_header (filter_sizes texts) (ie_header PFCP_IE_CREATE_PDR (pdr_size cfg.(urr_enable) control pdr)))))
    (ref_pdr control pdr texts) (size (ref_pdr control pdr texts) / 8).
Proof.
  intros Hs Hu Hq HF Hl. unfold ref_pdr. pose proof (filter_sizes_bound texts HF). assert (length pdr.(ntwk_inst) = 32%nat) as Hn by apply Hs.
  rewrite <- (ie_layout_header PFCP_IE_CREATE_PDR (pdr_size cfg.(urr_enable) control pdr + filter_sizes texts));
    [|done|unfold pdr_size, pdi_size; destruct (is_access pdr), control, (urr_enable cfg); lia|by apply size_ref_pdr_body].
  rewrite grow_ie_header. apply encodes_enc_bytes, places_ie_header. unfold ref_pdr_body.
  apply place_next; [apply places_elem; by apply pdr_id_writes|].
  apply place_next; [apply places_elem; by apply precedence_writes|].
  apply place_next.
  { apply places_nz; [|by apply pdi_writes].
    change (u16 (u16 (pdi_size (is_access pdr) control) + filter_sizes texts) ≠ 0). rewrite u16_add.
    unfold pdi_size. destruct (is_access pdr), control; rewrite uwrap_small; lia. }
  apply place_next.
  { unfold pdr_done. destruct (is_access pdr); [|apply places_none]. apply places_elem. by apply outer_hdr_removal_writes. }
  apply place_next; [apply places_elem; by apply far_id_writes|].
  apply place_next; [by apply (ids_places PFCP_IE_URR_ID); intros; [|apply urr_id_writes]|].
  apply place_last; [by apply (ids_places PFCP_IE_QER_ID); intros; [|apply qer_id_writes]|]. apply place_nothing.
Qed.

(** *** FAR, QER and URR *)

Definition ref_parms (pdr : pdr_t) : layout :=
  ie PFCP_IE_FRWDNG_PARMS
    (ie PFCP_IE_DST_INTFC [(4, 0); (4, pdr.(dst_intfc))] ++
     (if is_access pdr then []
      else ie PFCP_IE_OUTER_HDR_CREATION [(16, 0x0100); (32, pdr.(hdr_teid)); (32, pdr.(hdr_ipv4))])).

Definition parms_form (pdr : pdr_t) : pfcp_frwdng_parms_ie_t :=
  set_frwdng_parms_header (pfcp_set_ie_header PFCP_IE_FRWDNG_PARMS (if is_access pdr then 5 else 19))
    (set_frwdng_parms_outer_hdr_creation
       (if is_access pdr then zero_outer_hdr_creation
        else with_hdr_creation pdr.(hdr_teid) pdr.(hdr_ipv4) (set_outer_header_creation zero_outer_hdr_creation).1)
       (set_frwdng_parms_dst_intfc (with_dst_intfc pdr.(dst_intfc) set_destination_interface.1) zero_frwdng_parms)).

Lemma parms_writes pdr : 0 <= pdr.(dst_intfc) < 16 ->
  writes (encode_pfcp_frwdng_parms_ie_t (parms_form pdr)) (ref_parms pdr).
Proof.
  intros Hd. split; [unfold ref_parms; eauto 10 with whole|]. rewrite <- (Z.div_1_r (size _)). unfold ref_parms.
  rewrite <- (ie_layout_header PFCP_IE_FRWDNG_PARMS (if is_access pdr then 5 else 19));
    [|done|destruct (is_access pdr); lia|destruct (is_access pdr); reflexivity].
  apply (encodes_enc_bits 1); [by left|]. apply places_ie_header. unfold parms_form, with_dst_intfc.
  rewrite uwrap_small by lia. apply place_next; [apply places_elem; by apply dst_intfc_writes|]. skip_absent.
  destruct (is_access pdr); [skip_absent; apply places_none|].
  apply place_last; [apply places_elem; by apply hdr_creation_writes|]. skip_absent. apply places_none.
Qed.

Lemma far_encodes ty pdr : side_ok pdr ->
  encodes (encode_pfcp_create_far_ie_t (est_create_far (role_after ty) pdr zero_create_far)) (ref_far pdr)
    (size (ref_far pdr) / 8).
Proof.
  intros (Hi & _ & _ & _ & _ & Hd).
  assert (est_create_far (role_after ty) pdr zero_create_far =
    set_create_far_header (ie_header PFCP_IE_CREATE_FAR (if is_access pdr then 22 else 36))
      (set_create_far_far_id (with_far_id pdr.(far_id_value) set_far_id.1)
        (set_create_far_apply_action (with_action (if is_access pdr then 1 else 0) (if is_access pdr then 0 else 1) set_apply_action.1)
          (set_create_far_frwdng_parms (parms_form pdr) zero_create_far)))) as ->.
  { unfold est_create_far, parms_form, is_access. destruct Hi as [-> | ->], ty; reflexivity. }
  unfold ref_far. fold (ref_parms pdr).
  rewrite <- (ie_layout_header PFCP_IE_CREATE_FAR (if is_access pdr then 22 else 36));
    [|done|destruct (is_access pdr); lia|unfold ref_parms; destruct (is_access pdr); reflexivity].
  apply encodes_enc_bytes, places_ie_header.
  apply place_next; [apply places_elem; by apply far_id_writes|].
  apply place_next; [apply places_elem; by apply apply_action_writes|].
  apply place_last; [apply places_nz; [by unfold parms_form; destruct (is_access pdr)|by apply parms_writes]|].
  skip_absent. apply place_nothing.
Qed.

(** The rates fit 40 bits, the class 6, and the status of the flow is one of four. *)
Definition qer_ok (q : qer_t) : Prop :=
  0 <= q.(max_ul) < 2 ^ 40 ∧ 0 <= q.(max_dl) < 2 ^ 40 ∧ 0 <= q.(gbr_ul) < 2 ^ 40 ∧ 0 <= q.(gbr_dl) < 2 ^ 40 ∧
  0 <= q.(qer_qci) < 64.

Definition qer_form (q : qer_t) (id : Z) (g : Z * Z) : pfcp_create_qer_ie_t :=
  set_create_qer_header (ie_header PFCP_IE_CREATE_QER 46)
    (set_create_qer_qer_id (mk_qer_id (pfcp_set_ie_header PFCP_IE_QER_ID 4) id)
      (set_create_qer_gate_status (mk_gate_status (pfcp_set_ie_header PFCP_IE_GATE_STATUS 1) 0 g.1 g.2)
        (set_create_qer_maximum_bitrate (mk_mbr (pfcp_set_ie_header PFCP_IE_MBR 10) q.(max_ul) q.(max_dl))
          (set_create_qer_guaranteed_bitrate (mk_gbr (pfcp_set_ie_header PFCP_IE_GBR 10) q.(gbr_ul) q.(gbr_dl))
            (set_create_qer_qos_flow_ident (mk_qfi (pfcp_set_ie_header PFCP_IE_QFI 1) 0 q.(qer_qci)) zero_create_qer))))).

Lemma fill_gate_status_ok st :
  fill_gate_status st (set_gate_status zero_gate_status).1 =
    mk_gate_status (pfcp_set_ie_header PFCP_IE_GATE_STATUS 1) 0 (gates st).1 (gates st).2.
Proof.
  unfold fill_gate_status, gates. destruct (st =? FL_ENABLED_UPLINK); [done|].
  destruct (st =? FL_ENABLED_DOWNLINK); [done|]. destruct (st =? FL_ENABLED) eqn:E; [|by destruct (st =? FL_DISABLED)].
  apply Z.eqb_eq in E as ->. done.
Qed.

Lemma est_create_qer_ok q id rule : qer_ok q ->
  est_create_qer q id rule zero_create_qer =
    qer_form q id (gates (if is_common q.(qer_id) then FL_ENABLED else rule.(flow_status))).
Proof.
  intros (H1 & H2 & H3 & H4 & H5). unfold est_create_qer, qer_form, isCommonQER. cbv zeta.
  change (create_qer_gate_status (creating_qer zero_create_qer)) with (set_gate_status zero_gate_status).1.
  rewrite fill_gate_status_ok, (uwrap_small 40 _ H1), (uwrap_small 40 _ H2), (uwrap_small 40 _ H3), (uwrap_small 40 _ H4),
    (uwrap_small 6 _ H5). reflexivity.
Qed.

Lemma qer_encodes q id rule : qer_ok q ->
  encodes (encode_pfcp_create_qer_ie_t (est_create_qer q id rule zero_create_qer)) (ref_qer q id rule)
    (size (ref_qer q id rule) / 8).
Proof.
  intros Hq. rewrite est_create_qer_ok by done. unfold ref_qer, qer_form. destruct (gates _) as [ul dl].
  rewrite <- (ie_layout_header PFCP_IE_CREATE_QER 46); [|done|lia|reflexivity].
  apply encodes_enc_bytes, places_ie_header.
  apply place_next; [apply places_elem; by apply qer_id_writes|]. skip_absent.
  apply place_next; [apply places_elem; by apply gate_status_writes|].
  apply place_next; [apply places_elem; by apply mbr_writes|].
  apply place_next; [apply places_elem; by apply gbr_writes|]. skip_absent.
  apply place_last; [apply places_elem; by apply qfi_writes|]. skip_absent. apply places_none.
Qed.

Lemma urr_encodes id :
  encodes (encode_pfcp_create_urr_ie_t (est_create_urr id zero_create_urr)) (ref_urr id) (size (ref_urr id) / 8).
Proof.
  unfold ref_urr. rewrite <- (ie_layout_header PFCP_IE_CREATE_URR 45); [|done|lia|reflexivity].
  apply encodes_enc_bytes, places_ie_header.
  apply place_next; [apply places_elem; by apply urr_id_writes|].
  apply place_next; [apply places_elem; by apply meas_mthd_writes|].
  apply place_next; [apply places_elem; by apply rptng_triggers_writes|]. skip_absent.
  apply place_next; [apply places_elem; by apply vol_thresh_writes|].
  apply place_last; [apply places_elem; by apply volume_quota_writes|]. skip_absent. apply place_nothing.
Qed.
