(* ===== verification/PfcpSessionEst.v ===== *)
(** * The session establishment request as a whole

    The loops of [fill_pfcp_sess_est_req] over the rules of a session as functions on
    lists: the PDRs and FARs in the order of the bearers, every QER once, the URRs.  The
    request that is filled is [est_form] of these lists, and the encoder writes its
    reference form. *)

From stdpp Require Import gmap.
From S2P Require Import Prelude EncDecBits Text Codec CodecSpec Tlv Teid Upf PfcpIes PfcpIesEncoder PfcpIesDecoder PfcpIesSpec.
From S2P Require Import PfcpIesOptional PfcpMsgs PfcpMsgsEncoder PfcpGroups PfcpMsgsSpec.
From S2P Require Import PfcpSetIe PfcpSession PfcpSessionReq PfcpSessionSpec.

Open Scope Z_scope.

(** A packet detection rule, the rule it is for, and the texts of its filters. *)
Record item := mk_item { item_pdr : pdr_t; item_rule : dynamic_rule_t; item_texts : list (list Z) }.
(** A quality enforcement rule, and the rule that it was created for. *)
Abbreviation qer_item := (qer_t * dynamic_rule_t)%type.

Definition item_ok (cfg : session_config) (i : item) : Prop :=
  side_ok i.(item_pdr) ∧ urrs_ok cfg i.(item_pdr) ∧ (length i.(item_pdr).(pdr_qers) <= 16)%nat ∧
  rule_texts i.(item_pdr).(src_intfc) i.(item_rule) i.(item_texts).

Definition same_qer (q : qer_t) (x : qer_item) : bool := x.1.(qer_id) =? q.(qer_id).
Definition add_qer (rule : dynamic_rule_t) (Q : list qer_item) (q : qer_t) : list qer_item :=
  if existsb (same_qer q) Q then Q else Q ++ [(q, rule)].
Definition add_qers (rule : dynamic_rule_t) (qs : list qer_t) (Q : list qer_item) : list qer_item :=
  foldl (add_qer rule) Q qs.

(** The context of a QER carries its own identifier. *)
Definition qers_ok (table : gmap Z qer_t) : Prop := ∀ id q, table !! id = Some q -> q.(qer_id) = id ∧ qer_ok q.

(** What is in the store for the PDRs of the bearers, in order. *)
Definition item_at (s : session) (p : ptr) : option item :=
  pdr ← s.(h_pdrs) !! p;
  r ← pdr.(dynamic_rule);
  rule ← s.(h_rules) !! r;
  texts ← mapM (fun f => c_str f.(sdf_flow_description)) (wanted_flows pdr.(src_intfc) rule);
  Some (mk_item pdr rule texts).
Definition bearer_pdrs (s : session) (o : option ptr) : option (list ptr) :=
  match o with None => Some [] | Some b => x ← s.(h_bearers) !! b; Some x.(pdrs) end.
Definition session_items (s : session) (bearers : list (option ptr)) : option (list item) :=
  l ← mapM (bearer_pdrs s) bearers; mapM (item_at s) (mjoin l).

(** The QERs and URRs that the PDRs refer to, every QER once. *)
Fixpoint plan_qers (table : gmap Z qer_t) (items : list item) (Q : list qer_item) : option (list qer_item) :=
  match items with
  | [] => Some Q
  | i :: rest => qs ← mapM (fun id => table !! id) i.(item_pdr).(pdr_qers); plan_qers table rest (add_qers i.(item_rule) qs Q)
  end.
Definition plan_urrs (items : list item) : list Z := mjoin ((fun i => i.(item_pdr).(pdr_urrs)) <$> items).

(** ** The structures of the request *)

Definition pdr_of (cfg : session_config) (control : bool) (i : item) : pfcp_create_pdr_ie_t :=
  pdr_done control i.(item_pdr) i.(item_texts)
    (grow_header (filter_sizes i.(item_texts))
       (ie_header PFCP_IE_CREATE_PDR (pdr_size cfg.(urr_enable) control i.(item_pdr)))).
Definition far_of (i : item) : pfcp_create_far_ie_t := est_create_far PGWC i.(item_pdr) zero_create_far.
Definition urr_of (id : Z) : pfcp_create_urr_ie_t := est_create_urr id zero_create_urr.
Definition qer_of (x : qer_item) : pfcp_create_qer_ie_t := est_create_qer x.1 x.1.(qer_id) x.2 zero_create_qer.

Definition est_form (cfg : session_config) (control : bool) (base : pfcp_sess_estab_req_t) (P F : list item) (U : list Z)
    (Q : list qer_item) : pfcp_sess_estab_req_t :=
  set_sess_estab_req_create_pdr (filled (pdr_of cfg control <$> P) zero_create_pdr)
    (set_sess_estab_req_create_far (filled (far_of <$> F) zero_create_far)
      (set_sess_estab_req_create_far_count (Z.of_nat (length F))
        (set_sess_estab_req_create_urr (filled (urr_of <$> U) zero_create_urr)
          (set_sess_estab_req_create_urr_count (Z.of_nat (length U))
            (set_sess_estab_req_create_qer (filled (qer_of <$> Q) zero_create_qer)
              (set_sess_estab_req_create_qer_count (Z.of_nat (length Q)) base)))))).

(** The next structure of an array that is filled in order. *)
Lemma array_at_next {A B} (g : A -> B) l zero : (length l < 16)%nat ->
  array_at (filled (g <$> l) zero) (Z.of_nat (length l)) = Some zero.
Proof.
  intros Hl. unfold array_at. rewrite (proj2 (Z.leb_le 0 _)) by lia. rewrite Nat2Z.id.
  rewrite <- (length_fmap g l). apply filled_next. by rewrite length_fmap.
Qed.
Lemma array_set_next {A B} (g : A -> B) l zero y : (length l < 16)%nat ->
  array_set (filled (g <$> l) zero) (Z.of_nat (length l)) (g y) = Some (filled (g <$> (l ++ [y])) zero).
Proof.
  intros Hl. unfold array_set. rewrite filled_length by (rewrite length_fmap; lia).
  rewrite (proj2 (Z.leb_le 0 _)), (proj2 (Z.ltb_lt _ _)) by lia. cbn [andb]. rewrite Nat2Z.id.
  rewrite <- (length_fmap g l) at 1. rewrite filled_set by (by rewrite length_fmap). by rewrite fmap_app.
Qed.
Lemma count_next {A} (l : list A) x : (length l < 16)%nat -> u8 (Z.of_nat (length l) + 1) = Z.of_nat (length (l ++ [x])).
Proof. intros Hl. rewrite uwrap_small by lia. rewrite length_app. cbn. lia. Qed.

Section loops.
Context (cfg : session_config) (control : bool) (base : pfcp_sess_estab_req_t).
Abbreviation form := (est_form cfg control base).

(** ** URRs and QERs *)

Lemma est_urrs_ok l P F U Q : (length U + length l <= 16)%nat ->
  est_urrs l (form P F U Q) = Some (form P F (U ++ l) Q).
Proof.
  revert U. induction l as [|id l IH]; intros U Hl; [by rewrite app_nil_r|]. cbn [length] in Hl. cbn [est_urrs].
  change (sess_estab_req_create_urr_count (form P F U Q)) with (Z.of_nat (length U)).
  change (sess_estab_req_create_urr (form P F U Q)) with (filled (urr_of <$> U) zero_create_urr).
  rewrite array_at_next by lia. cbn [mbind option_bind].
  change (est_create_urr id zero_create_urr) with (urr_of id). rewrite array_set_next by lia. cbn [mbind option_bind].
  rewrite (count_next U id) by lia.
  specialize (IH (U ++ [id])). rewrite <- app_assoc in IH. apply IH. rewrite length_app. cbn. lia.
Qed.

Lemma qer_present_ok q Q :
  qer_present q.(qer_id) (Z.of_nat (length Q)) (filled (qer_of <$> Q) zero_create_qer) = existsb (same_qer q) Q.
Proof.
  unfold qer_present, filled. rewrite Nat2Z.id, <- (length_fmap qer_of Q) at 1. rewrite take_app_length.
  induction Q as [|x Q IH]; [done|]. cbn [fmap list_fmap existsb]. by rewrite <- IH.
Qed.

Lemma add_qers_length rule qs Q : (length Q <= length (add_qers rule qs Q))%nat.
Proof.
  revert Q. induction qs as [|q qs IH]; intros Q; [done|]. cbn [add_qers foldl]. etrans; [|apply IH].
  unfold add_qer. destruct (existsb _ _); [done|]. rewrite length_app. lia.
Qed.

Lemma est_qers_ok table rule ids qs P F U Q : qers_ok table ->
  mapM (fun id => table !! id) ids = Some qs -> (length (add_qers rule qs Q) <= 16)%nat ->
  est_qers table rule ids (form P F U Q) = Some (form P F U (add_qers rule qs Q)).
Proof.
  intros Ht. revert qs Q. induction ids as [|id ids IH]; intros qs Q Hm Hl; [by injection Hm as <-|].
  cbn [mapM] in Hm. destruct (table !! id) as [q|] eqn:Eq; [|done]. cbn [mbind option_bind] in Hm.
  destruct (mapM _ ids) as [qs'|] eqn:Em; [|done]. injection Hm as <-. destruct (Ht _ _ Eq) as [Hid _].
  cbn [est_qers]. rewrite Eq. cbn [mbind option_bind].
  change (sess_estab_req_create_qer_count (form P F U Q)) with (Z.of_nat (length Q)).
  change (sess_estab_req_create_qer (form P F U Q)) with (filled (qer_of <$> Q) zero_create_qer).
  rewrite qer_present_ok. cbn [add_qers foldl] in Hl |- *. fold (add_qers rule qs' (add_qer rule Q q)) in Hl |- *.
  pose proof (add_qers_length rule qs' (add_qer rule Q q)) as Hle. unfold add_qer in *.
  destruct (existsb (same_qer q) Q); [by apply IH|]. rewrite length_app in Hle. cbn [length] in Hle.
  rewrite array_at_next by lia. cbn [mbind option_bind]. rewrite <- Hid.
  change (est_create_qer q (qer_id q) rule zero_create_qer) with (qer_of (q, rule)).
  rewrite array_set_next by lia. cbn [mbind option_bind]. rewrite (count_next Q (q, rule)) by lia.
  exact (IH qs' (Q ++ [(q, rule)]) eq_refl Hl).
Qed.

Lemma plan_qers_length table items Q Q' : plan_qers table items Q = Some Q' -> (length Q <= length Q')%nat.
Proof.
  revert Q. induction items as [|i items IH]; intros Q; cbn [plan_qers]; [by intros [= ->]|].
  destruct (mapM _ _) as [qs|]; [|done]. cbn [mbind option_bind]. intros H%IH. etrans; [|exact H]. apply add_qers_length.
Qed.

(** ** PDRs *)

Lemma est_pdr_ok d table i qs P U Q ty : control = control_address d -> qers_ok table -> item_ok cfg i ->
  mapM (fun id => table !! id) i.(item_pdr).(pdr_qers) = Some qs ->
  (length P < 16)%nat -> (length U + length i.(item_pdr).(pdr_urrs) <= 16)%nat ->
  (length (add_qers i.(item_rule) qs Q) <= 16)%nat ->
  est_pdr cfg d table i.(item_pdr) i.(item_rule) (Z.of_nat (length P)) ty (form P P U Q) =
    Some (role_after ty, form (P ++ [i]) (P ++ [i]) (U ++ i.(item_pdr).(pdr_urrs)) (add_qers i.(item_rule) qs Q)).
Proof.
  intros Hc Ht (Hs & Hu & Hq & Hr) Hm HP HU HQ. unfold est_pdr.
  change (sess_estab_req_create_pdr (form P P U Q)) with (filled (pdr_of cfg control <$> P) zero_create_pdr).
  rewrite array_at_next by lia. cbn [mbind option_bind].
  rewrite (est_create_pdr_ok _ _ _ _ _ i.(item_texts)) by done. cbn [mbind option_bind]. rewrite est_pdr_ids_ok by done.
  cbn [mbind option_bind]. rewrite <- Hc. fold (pdr_of cfg control i). rewrite array_set_next by lia. cbn [mbind option_bind].
  change (sess_estab_req_create_far _) with (filled (far_of <$> P) zero_create_far).
  rewrite array_at_next by lia. cbn [mbind option_bind].
  replace (est_create_far (role_after ty) i.(item_pdr) zero_create_far) with (far_of i) by (by destruct ty).
  rewrite array_set_next by lia. cbn [mbind option_bind].
  change (sess_estab_req_create_far_count _) with (Z.of_nat (length P)). rewrite (count_next P i) by lia.
  assert (is_pgw (role_after ty) = true) as -> by (by destruct ty).
  pose proof (est_qers_ok table i.(item_rule) i.(item_pdr).(pdr_qers) qs (P ++ [i]) (P ++ [i]) U Q Ht Hm HQ) as E.
  cbn [andb].
  etrans; [refine (f_equal (fun o => o ≫= _) E)|]. cbn [mbind option_bind].
  unfold urrs_ok in Hu. destruct (urr_enable cfg).
  - by rewrite est_urrs_ok.
  - apply nil_length_inv in Hu as ->. by rewrite app_nil_r.
Qed.

(** The loops: the state changes in the role at most. *)
Lemma item_at_inv s p i : item_at s p = Some i ->
  s.(h_pdrs) !! p = Some i.(item_pdr) ∧
  ∃ r, i.(item_pdr).(dynamic_rule) = Some r ∧ s.(h_rules) !! r = Some i.(item_rule).
Proof.
  unfold item_at. destruct (s.(h_pdrs) !! p) as [pdr|]; [|done]. cbn [mbind option_bind].
  destruct pdr.(dynamic_rule) as [r|] eqn:Er; [|done]. cbn [mbind option_bind].
  destruct (s.(h_rules) !! r) as [rule|] eqn:El; [|done]. cbn [mbind option_bind].
  destruct (mapM _ _) as [texts|]; [|done]. intros [= <-]. split; [done|]. by exists r.
Qed.

Lemma est_pdrs_ok s l items P U Q Q' : control = control_address s.(pdn) -> qers_ok s.(qer_table) ->
  mapM (item_at s) l = Some items -> Forall (item_ok cfg) items -> plan_qers s.(qer_table) items Q = Some Q' ->
  (length P + length items <= 16)%nat -> (length U + length (plan_urrs items) <= 16)%nat -> (length Q' <= 16)%nat ->
  ∃ ty, est_pdrs cfg l (Z.of_nat (length P)) (form P P U Q) s =
    Some ((Z.of_nat (length (P ++ items)), form (P ++ items) (P ++ items) (U ++ plan_urrs items) Q'), set_ses_cp_type ty s).
Proof.
  intros Hc Ht. revert s Hc Ht items P U Q.
  induction l as [|p l IH]; intros s Hc Ht items P U Q Hm HF HQ HP HU HQ'.
  { injection Hm as <-. injection HQ as <-. exists s.(cp_type). rewrite !app_nil_r. by destruct s. }
  cbn [mapM] in Hm. destruct (item_at s p) as [i|] eqn:Ei; [|done]. cbn [mbind option_bind] in Hm.
  destruct (mapM (item_at s) l) as [items'|] eqn:Em; [|done]. injection Hm as <-.
  apply Forall_cons_1 in HF as [Hi HF]. cbn [plan_qers] in HQ.
  destruct (mapM (fun id => _ !! id) _) as [qs|] eqn:Eq; [|done]. cbn [mbind option_bind] in HQ.
  destruct (item_at_inv _ _ _ Ei) as (E1 & r & E2 & E3). cbn [length] in HP.
  change (plan_urrs (i :: items')) with (i.(item_pdr).(pdr_urrs) ++ plan_urrs items') in *. rewrite length_app in HU. pose proof (plan_qers_length _ _ _ _ HQ).
  destruct (IH (set_ses_cp_type (role_after s.(cp_type)) s) Hc Ht items' (P ++ [i])
    (U ++ i.(item_pdr).(pdr_urrs)) (add_qers i.(item_rule) qs Q)) as [ty E]; auto.
  1, 2: rewrite length_app; cbn [length]; lia.
  exists ty. cbn [est_pdrs]. unfold mbind, sesM_bind, load_pdr, load_rule, sdef, sgets, smodify, mbind.
  rewrite E1. cbn [option_bind]. rewrite E2. cbn [option_bind]. rewrite E3. cbn [option_bind id].
  rewrite (est_pdr_ok s.(pdn) s.(qer_table) i qs) by (auto; lia). cbn [option_bind].
  rewrite (count_next P i) by lia. rewrite E, <- !app_assoc. done.
Qed.

Lemma mapM_split {A B} (f : A -> option B) l1 l2 r : mapM f (l1 ++ l2) = Some r ->
  ∃ r1 r2, mapM f l1 = Some r1 ∧ mapM f l2 = Some r2 ∧ r = r1 ++ r2.
Proof.
  revert r. induction l1 as [|x l1 IH]; intros r H; [by exists [], r|]. cbn [app mapM] in *.
  destruct (f x) as [y|]; [|done]. cbn [mbind option_bind] in *.
  destruct (mapM f (l1 ++ l2)) as [r'|]; [|done]. injection H as <-.
  destruct (IH r' eq_refl) as (r1 & r2 & -> & -> & ->). by exists (y :: r1), r2.
Qed.

Lemma session_items_cons s o bearers items : session_items s (o :: bearers) = Some items ->
  ∃ l i1 i2, bearer_pdrs s o = Some l ∧ mapM (item_at s) l = Some i1 ∧ session_items s bearers = Some i2 ∧ items = i1 ++ i2.
Proof.
  unfold session_items. cbn [mapM]. destruct (bearer_pdrs s o) as [l|]; [|done]. cbn [mbind option_bind].
  destruct (mapM (bearer_pdrs s) bearers) as [ls|]; [|done]. cbn [mbind option_bind mret option_ret mjoin list_join].
  intros (i1 & i2 & E1 & E2 & ->)%mapM_split. by exists l, i1, i2.
Qed.

Lemma plan_qers_app table l1 l2 Q Q' : plan_qers table (l1 ++ l2) Q = Some Q' ->
  ∃ Q1, plan_qers table l1 Q = Some Q1 ∧ plan_qers table l2 Q1 = Some Q'.
Proof.
  revert Q. induction l1 as [|i l1 IH]; intros Q H; [by exists Q|]. cbn [app plan_qers] in *.
  destruct (mapM _ _) as [qs|]; [|done]. cbn [mbind option_bind] in *. by apply IH.
Qed.
Lemma plan_urrs_app l1 l2 : plan_urrs (l1 ++ l2) = plan_urrs l1 ++ plan_urrs l2.
Proof. unfold plan_urrs. rewrite fmap_app. apply join_app. Qed.

Lemma est_bearers_ok s bearers items P U Q Q' : control = control_address s.(pdn) -> qers_ok s.(qer_table) ->
  session_items s bearers = Some items -> Forall (item_ok cfg) items -> plan_qers s.(qer_table) items Q = Some Q' ->
  (length P + length items <= 16)%nat -> (length U + length (plan_urrs items) <= 16)%nat -> (length Q' <= 16)%nat ->
  ∃ ty, est_bearers cfg bearers (Z.of_nat (length P)) (form P P U Q) s =
    Some (form (P ++ items) (P ++ items) (U ++ plan_urrs items) Q', set_ses_cp_type ty s).
Proof.
  intros Hc Ht. revert s Hc Ht items P U Q.
  induction bearers as [|o bearers IH]; intros s Hc Ht items P U Q Hm HF HQ HP HU HQ'.
  { injection Hm as <-. injection HQ as <-. exists s.(cp_type). rewrite !app_nil_r. by destruct s. }
  apply session_items_cons in Hm as (l & i1 & i2 & Eb & E1 & E2 & ->).
  apply Forall_app in HF as [HF1 HF2]. apply plan_qers_app in HQ as (Q1 & HQ1 & HQ2).
  rewrite plan_urrs_app, length_app in HU. rewrite length_app in HP.
  pose proof (plan_qers_length _ _ _ _ HQ2). destruct o as [b|]; cbn [est_bearers].
  2: { injection Eb as <-. injection E1 as <-. injection HQ1 as <-. cbn [length] in *. by apply IH. }
  destruct (est_pdrs_ok s l i1 P U Q Q1) as [ty1 E]; auto; try lia.
  destruct (IH (set_ses_cp_type ty1 s) Hc Ht i2 (P ++ i1) (U ++ plan_urrs i1) Q1) as [ty2 E']; auto;
    try (rewrite length_app; lia).
  exists ty2. unfold mbind, sesM_bind, load_bearer, mbind. cbn [bearer_pdrs] in Eb.
  destruct (s.(h_bearers) !! b) as [bearer|]; [|done]. injection Eb as <-. cbn [option_bind].
  rewrite E, E', <- !app_assoc, plan_urrs_app. done.
Qed.
End loops.

(** ** The reference form of the request *)

Definition pdn_type_of (d : pdn_connection_t) : Z := if d.(pdn_type_ipv4) =? 1 then 1 else 0.

Definition ref_request (cfg : session_config) (d : pdn_connection_t) (seq : Z) (items : list item) (U : list Z)
    (Q : list qer_item) : layout :=
  [(3, 1); (3, 0); (1, 0); (1, 1); (8, PFCP_SESSION_ESTABLISHMENT_REQUEST); (16, 0);
   (64, d.(dp_seid)); (24, uwrap 24 seq); (4, 0); (4, 0)] ++
  ie PFCP_IE_NODE_ID ([(4, 0); (4, 0)] ++ octets (le_bytes 4 cfg.(pfcp_ip))) ++
  ie PFCP_IE_FSEID ([(1, 0); (1, 0); (1, 0); (1, 0); (1, 0); (1, 0); (1, 1); (1, 0); (64, d.(seid))] ++
                    octets (le_bytes 4 cfg.(pfcp_ip))) ++
  ie PFCP_IE_PDN_TYPE [(5, 0); (3, pdn_type_of d)] ++
  mjoin ((fun i => ref_pdr (control_address d) i.(item_pdr) i.(item_texts)) <$> items) ++
  mjoin ((fun i => ref_far i.(item_pdr)) <$> items) ++
  mjoin (ref_urr <$> U) ++
  mjoin ((fun x => ref_qer x.1 x.1.(qer_id) x.2) <$> Q).

(** The members in front of the arrays. *)
Definition est_base (cfg : session_config) (d : pdn_connection_t) (seq count : Z) : pfcp_sess_estab_req_t :=
  let req := set_sess_estab_req_header (request_header PFCP_SESSION_ESTABLISHMENT_REQUEST seq d.(dp_seid))
               zero_sess_estab_req in
  let req := set_sess_estab_req_node_id (set_node_id cfg.(pfcp_ip)) req in
  let req := set_sess_estab_req_cp_fseid (set_fseid req.(sess_estab_req_cp_fseid) d.(seid) cfg.(pfcp_ip)) req in
  let req := set_sess_estab_req_pdn_type
               (set_pdn_type req.(sess_estab_req_pdn_type) d.(pdn_type_ipv4) d.(pdn_type_ipv6)) req in
  set_sess_estab_req_create_pdr_count count req.

(** Calls in messages, which count bytes. *)
Definition writes8 (f : ie_encoder) (L : layout) : Prop := whole L ∧ encodes f L (size L / 8).
Lemma at_elem f L : writes8 f L -> places 8 (enc_when true (ecall_at f)) L.
Proof. intros [Hw He]. by apply ecall_at_ok. Qed.
Lemma at_next m1 m2 L1 L2 : places 8 m1 L1 -> places 8 m2 L2 -> places 8 (m1 ⨾ m2) (L1 ++ L2).
Proof. apply places_seq. by right. Qed.
Lemma at_last m1 m2 L : places 8 m1 L -> places 8 m2 [] -> places 8 (m1 ⨾ m2) L.
Proof. intros H1 H2. rewrite <- (app_nil_r L). by apply at_next. Qed.
Lemma at_absent m m2 L : places 8 m2 L -> places 8 (enc_when false m ⨾ m2) L.
Proof. apply (at_next _ _ [] L), places_skip. by right. Qed.
Lemma at_array {A T} (g : A -> T) (f : T -> ie_encoder) (h : T -> pfcp_ie_header_t) (L : A -> layout) l zero :
  Forall (fun x => (h (g x)).(ie_len) ≠ 0 ∧ writes8 (f (g x)) (L x)) l ->
  places 8 (enc_for (filled (g <$> l) zero) 0 (Z.to_nat (Z.of_nat (length l)))
    (fun x => enc_when (nz (h x).(ie_len)) (ecall_at (f x)))) (mjoin (L <$> l)).
Proof.
  intros HF. apply places_filled; [by right|]. eapply list.Forall_impl; [exact HF|]. intros x [Hn Hw].
  unfold nz. rewrite (proj2 (Z.eqb_neq _ 0)) by done. by apply at_elem.
Qed.

Lemma node_id_writes8 ip :
  writes8 (encode_pfcp_node_id_ie_t (set_node_id ip)) (ie PFCP_IE_NODE_ID ([(4, 0); (4, 0)] ++ octets (le_bytes 4 ip))).
Proof.
  split; [eauto with whole|].
  refine (node_id_encodes (set_node_id ip) (conj eq_refl (conj eq_refl (conj eq_refl eq_refl))) _).
  apply Forall_app. split; [apply bytes_ok_le_bytes|apply bytes_ok_zeros].
Qed.
Lemma fseid_writes8 seid ip : 0 <= ip < 2 ^ 32 ->
  writes8 (encode_pfcp_fseid_ie_t (set_fseid zero_fseid seid ip))
    (ie PFCP_IE_FSEID ([(1, 0); (1, 0); (1, 0); (1, 0); (1, 0); (1, 0); (1, 1); (1, 0); (64, seid)] ++ octets (le_bytes 4 ip))).
Proof.
  intros Hip. unfold set_fseid. rewrite (uwrap_small 32) by done. split; [eauto with whole|].
  match goal with |- encodes (encode_pfcp_fseid_ie_t ?v) _ _ => pose proof (fseid_encodes v) as E end.
  refine (E _). split; [done|]. split; [done|]. split; [|done]. exact (bytes_ok_zeros 16).
Qed.
Lemma pdn_type_writes8 d : 0 <= d.(pdn_type_ipv6) < 2 ->
  writes8 (encode_pfcp_pdn_type_ie_t (set_pdn_type zero_pdn_type d.(pdn_type_ipv4) d.(pdn_type_ipv6)))
    (ie PFCP_IE_PDN_TYPE [(5, 0); (3, pdn_type_of d)]).
Proof.
  intros H6. unfold set_pdn_type, pdn_type_of, PDN_IP_TYPE_IPV4, PDN_IP_TYPE_IPV6.
  rewrite (proj2 (Z.eqb_neq d.(pdn_type_ipv6) 2)) by lia. rewrite andb_false_r.
  split; [eauto with whole|]. match goal with |- encodes (encode_pfcp_pdn_type_ie_t ?v) _ _ => exact (ie_encodes v) end.
Qed.

(** ** The encoder writes the reference form *)

Lemma whole_ref_pdi control pdr texts : whole (ref_pdi control pdr texts).
Proof. unfold ref_pdi, ref_pdi_body. eauto 12 with whole. Qed.
#[export] Hint Resolve whole_ref_pdi : whole.

Lemma item_texts_ok cfg i : item_ok cfg i -> Forall text_ok i.(item_texts) ∧ (length i.(item_texts) <= 16)%nat.
Proof.
  intros (_ & _ & _ & _ & HF & Hl). split; [|done]. clear Hl.
  induction HF as [|f t fs ts [_ Ht] HF IH]; [constructor|by constructor].
Qed.

Lemma item_pdr_writes cfg control i : item_ok cfg i ->
  (create_pdr_header (pdr_of cfg control i)).(ie_len) ≠ 0 ∧
  writes8 (encode_pfcp_create_pdr_ie_t (pdr_of cfg control i)) (ref_pdr control i.(item_pdr) i.(item_texts)).
Proof.
  intros Hi. destruct (item_texts_ok cfg i Hi) as [HF Hl]. destruct Hi as (Hs & Hu & Hq & _).
  pose proof (filter_sizes_bound _ HF). split; [|split].
  - change (u16 (u16 (pdr_size cfg.(urr_enable) control i.(item_pdr)) + filter_sizes i.(item_texts)) ≠ 0). rewrite u16_add.
    unfold pdr_size, pdi_size. destruct (is_access _), control, (urr_enable cfg); rewrite uwrap_small; lia.
  - unfold ref_pdr, ref_pdr_body. eauto 15 with whole.
  - by apply pdr_encodes.
Qed.
Lemma item_far_writes cfg i : item_ok cfg i ->
  (create_far_header (far_of i)).(ie_len) ≠ 0 ∧ writes8 (encode_pfcp_create_far_ie_t (far_of i)) (ref_far i.(item_pdr)).
Proof.
  intros (Hs & _). split; [|split; [unfold ref_far; eauto 15 with whole|by apply (far_encodes PGWC)]].
  destruct Hs as [Hi _]. unfold far_of, est_create_far. by destruct Hi as [-> | ->].
Qed.
Lemma item_qer_writes x : qer_ok x.1 ->
  (create_qer_header (qer_of x)).(ie_len) ≠ 0 ∧ writes8 (encode_pfcp_create_qer_ie_t (qer_of x)) (ref_qer x.1 x.1.(qer_id) x.2).
Proof.
  intros Hq. split; [done|]. split; [|by apply qer_encodes]. unfold ref_qer. destruct (gates _). eauto 15 with whole.
Qed.
Lemma item_urr_writes id :
  (create_urr_header (urr_of id)).(ie_len) ≠ 0 ∧ writes8 (encode_pfcp_create_urr_ie_t (urr_of id)) (ref_urr id).
Proof. split; [done|]. split; [unfold ref_urr, ref_volume; eauto 15 with whole|apply urr_encodes]. Qed.

Lemma est_request_encodes cfg d seq items U Q :
  0 <= cfg.(pfcp_ip) < 2 ^ 32 -> 0 <= d.(pdn_type_ipv6) < 2 -> Forall (item_ok cfg) items -> Forall (fun x => qer_ok x.1) Q ->
  encodes (encode_pfcp_sess_estab_req_t
             (est_form cfg (control_address d) (est_base cfg d seq (Z.of_nat (length items))) items items U Q))
    (ref_request cfg d seq items U Q) (size (ref_request cfg d seq items U Q) / 8).
Proof.
  intros Hip H6 HF HQ. apply (encodes_enc_bits 8); [by right|]. apply (places_header (request_header _ seq d.(dp_seid))); [done|].
  apply at_next; [apply at_elem, node_id_writes8|].
  apply at_next; [apply at_elem; by apply fseid_writes8|]. apply at_absent.
  apply at_next; [apply at_elem; by apply pdn_type_writes8|]. do 8 apply at_absent.
  apply at_next; [apply at_array; eapply list.Forall_impl; [exact HF|]; intros i; apply item_pdr_writes|].
  apply at_next; [apply at_array; eapply list.Forall_impl; [exact HF|]; intros i; apply item_far_writes|].
  apply at_next; [apply at_array, list.Forall_true, item_urr_writes|].
  apply at_last; [apply at_array; eapply list.Forall_impl; [exact HQ|]; intros x; apply item_qer_writes|].
  apply places_skip. by right.
Qed.
