(* ===== verification/PfcpSessionProps.v ===== *)
(** * Properties of session requests

    What installing the rules of a session does to its state, what the requests say, and
    where the functions leave their arrays or follow a NULL pointer. *)

From Stdlib Require Import String.
From stdpp Require Import gmap strings.
From S2P Require Import Prelude EncDecBits Text Codec CodecSpec Tlv Teid Transactions Upf PfcpIes PfcpIesEncoder PfcpIesSpec.
From S2P Require Import PfcpMsgs PfcpMsgsEncoder PfcpGroups.
From S2P Require Import PfcpSetIe PfcpSession PfcpSessionReq PfcpSessionSpec PfcpSessionEst.

Open Scope Z_scope.

(** ** What installing rules leaves as it is *)

(** The members of the connection that the request is filled with. *)
Definition pdn_frame (d : pdn_connection_t) : Z * Z * Z * Z * Z :=
  (d.(seid), d.(dp_seid), d.(pdn_type_ipv4), d.(pdn_type_ipv6), d.(pdn_flags)).
Definition keeps {A} (m : sesM A) : Prop := ∀ s x s', m s = Some (x, s') -> pdn_frame s'.(pdn) = pdn_frame s.(pdn).

Lemma keeps_ret {A} (x : A) : keeps (mret x).
Proof. by intros s y s' [= _ <-]. Qed.
Lemma frame_bind {A B} (m : sesM A) (k : A -> sesM B) : keeps m -> (∀ x, keeps (k x)) -> keeps (m ≫= k).
Proof.
  intros Hm Hk s y s'. unfold mbind, sesM_bind. destruct (m s) as [[x s1]|] eqn:E; [|done].
  intros E'. rewrite (Hk _ _ _ _ E'). exact (Hm _ _ _ E).
Qed.
Lemma keeps_sgets {A} (f : session -> A) : keeps (sgets f).
Proof. by intros s x s' [= _ <-]. Qed.
Lemma keeps_sdef {A} (o : option A) : keeps (sdef o).
Proof. intros s x s'. unfold sdef. destruct o; [|done]. by intros [= _ <-]. Qed.
Lemma keeps_smodify f : (∀ s, pdn_frame (f s).(pdn) = pdn_frame s.(pdn)) -> keeps (smodify f).
Proof. intros Hf s x s' [= _ <-]. apply Hf. Qed.
Lemma keeps_load_bearer b : keeps (load_bearer b).
Proof. intros s x s'. unfold load_bearer. destruct (_ !! _); [|done]. by intros [= _ <-]. Qed.
Lemma keeps_load_pdr p : keeps (load_pdr p).
Proof. intros s x s'. unfold load_pdr. destruct (_ !! _); [|done]. by intros [= _ <-]. Qed.
Lemma keeps_load_rule r : keeps (load_rule r).
Proof. intros s x s'. unfold load_rule. destruct (_ !! _); [|done]. by intros [= _ <-]. Qed.
Lemma keeps_update_bearer b f : keeps (update_bearer b f).
Proof. intros s x s'. unfold update_bearer. destruct (_ !! _); [|done]. by intros [= _ <-]. Qed.
Lemma keeps_update_pdr p f : keeps (update_pdr p f).
Proof. intros s x s'. unfold update_pdr. destruct (_ !! _); [|done]. by intros [= _ <-]. Qed.
Lemma keeps_update_rule r f : keeps (update_rule r f).
Proof. intros s x s'. unfold update_rule. destruct (_ !! _); [|done]. by intros [= _ <-]. Qed.
Lemma keeps_if {A} (c : bool) (m1 m2 : sesM A) : keeps m1 -> keeps m2 -> keeps (if c then m1 else m2).
Proof. by destruct c. Qed.

Create HintDb keeps.
#[export] Hint Resolve keeps_ret keeps_sgets keeps_sdef keeps_load_bearer keeps_load_pdr keeps_load_rule
  keeps_update_bearer keeps_update_pdr keeps_update_rule keeps_if : keeps.
(** One operation after the other; a state update keeps the frame by evaluation. *)
Ltac keep :=
  repeat first
    [ progress eauto 3 with keeps nocore
    | apply frame_bind; [|intros ?]
    | apply keeps_smodify; intros ?; reflexivity
    | progress cbv zeta
    | match goal with |- keeps (match ?x with _ => _ end) => destruct x end ].

Lemma keeps_update_pdr_teid b teid ip iface : keeps (update_pdr_teid b teid ip iface).
Proof. unfold update_pdr_teid. apply frame_bind; [keep|]. intros x. induction (pdrs x); keep. Qed.
Lemma keeps_repeatM {A} n (m : sesM A) : keeps m -> keeps (repeatM n m).
Proof. intros Hm. induction n as [|n IH]; cbn [repeatM]; keep. Qed.
Lemma keeps_find_bearer l q : keeps (find_bearer l q).
Proof. induction l as [|[b|] l IH]; cbn [find_bearer]; keep. Qed.
#[export] Hint Resolve keeps_update_pdr_teid keeps_repeatM keeps_find_bearer : keeps.

Lemma keeps_bearer_of_rule cfg q : keeps (bearer_of_rule cfg q).
Proof. unfold bearer_of_rule, get_bearer, get_default_bearer, new_dedicated_bearer, fill_dedicated_bearer_info. keep. Qed.
Lemma keeps_add_ambr_qer cfg : keeps (add_ambr_qer cfg).
Proof. unfold add_ambr_qer, get_default_bearer. keep. Qed.
Lemma keeps_install_side cfg b r iface slot : keeps (install_side cfg b r iface slot).
Proof. unfold install_side. keep. Qed.
#[export] Hint Resolve keeps_bearer_of_rule keeps_add_ambr_qer keeps_install_side : keeps.
Lemma keeps_install_rules cfg l last count : keeps (install_rules cfg l last count).
Proof.
  revert last count. induction l as [|r l IH]; intros last count; cbn [install_rules]; [keep|].
  apply frame_bind; [keep|]. intros _. apply frame_bind; [unfold install_rule; keep|]. intros b. apply IH.
Qed.
#[export] Hint Resolve keeps_install_rules : keeps.
Lemma keeps_session_rules cfg upf : keeps (session_rules cfg upf).
Proof. unfold session_rules, get_default_bearer. keep. Qed.

(** ** The establishment request *)

(** The arrays of the request have 16 structures. *)
Definition fits_request (items : list item) (Q : list qer_item) : Prop :=
  (length items <= 16)%nat ∧ (length (plan_urrs items) <= 16)%nat ∧ (length Q <= 16)%nat.

Lemma add_qers_ok table rule qs ids Q : qers_ok table -> mapM (fun id => table !! id) ids = Some qs ->
  Forall (fun x => qer_ok x.1) Q -> Forall (fun x => qer_ok x.1) (add_qers rule qs Q).
Proof.
  intros Ht. revert ids Q. induction qs as [|q qs IH]; intros ids Q Hm HQ; [done|].
  destruct ids as [|id ids]; [done|]. cbn [mapM] in Hm. destruct (table !! id) as [q'|] eqn:E; [|done].
  cbn [mbind option_bind] in Hm. destruct (mapM _ ids) as [qs'|] eqn:Em; [|done]. injection Hm as -> ->.
  cbn [add_qers foldl]. apply (IH ids); [done|]. unfold add_qer. destruct (existsb _ _); [done|].
  apply Forall_app. split; [done|]. apply Forall_singleton. by destruct (Ht _ _ E).
Qed.
Lemma plan_qers_ok table items Q Q' : qers_ok table -> plan_qers table items Q = Some Q' ->
  Forall (fun x => qer_ok x.1) Q -> Forall (fun x => qer_ok x.1) Q'.
Proof.
  intros Ht. revert Q. induction items as [|i items IH]; intros Q; cbn [plan_qers]; [by intros [= ->]|].
  destruct (mapM _ _) as [qs|] eqn:Em; [|done]. cbn [mbind option_bind]. intros H HQ. apply (IH _ H).
  by apply (add_qers_ok table _ _ _ _ Ht Em).
Qed.

Lemma control_frame d d' : pdn_frame d = pdn_frame d' -> control_address d = control_address d'.
Proof. unfold pdn_frame, control_address. by intros [= _ _ _ _ ->]. Qed.

(** The filled request, for a session whose rules are installed; the trace information, if
    the node is taken to support it, comes last. *)
Definition traced (upf : upf_context_t) : bool := nz (Z.land upf.(up_supp_features) UP_TRACE).
Lemma fill_est_req_ends cfg upf seq old s s' items Q :
  session_rules cfg upf s = Some (Z.of_nat (length items), s') ->
  session_items s' s'.(pdn).(eps_bearers) = Some items -> Forall (item_ok cfg) items ->
  qers_ok s'.(qer_table) -> plan_qers s'.(qer_table) items [] = Some Q -> fits_request items Q ->
  let req := est_form cfg (control_address s.(pdn)) (est_base cfg s.(pdn) seq (Z.of_nat (length items))) items items
               (plan_urrs items) Q in
  ∃ ty, fill_pfcp_sess_est_req cfg (Some upf) seq old s =
    Some (if traced upf then est_trace req else req, set_ses_cp_type ty s').
Proof.
  intros Hr Hi HF Ht HQ (H1 & H2 & H3). pose proof (keeps_session_rules _ _ _ _ _ Hr) as Hk.
  destruct (est_bearers_ok cfg (control_address s.(pdn)) (est_base cfg s.(pdn) seq (Z.of_nat (length items)))
    s' s'.(pdn).(eps_bearers) items [] [] [] Q) as [ty E]; auto.
  { symmetry. by apply control_frame. }
  exists ty. unfold fill_pfcp_sess_est_req. unfold mbind, sesM_bind, sgets. rewrite Hr.
  etrans; [|exact (f_equal (fun o => match o with
    | Some (x, s1) => Some (if traced upf then est_trace x else x, s1) | None => None end) E)].
  reflexivity.
Qed.
Lemma fill_est_req_form cfg upf seq old s s' items Q :
  session_rules cfg upf s = Some (Z.of_nat (length items), s') ->
  session_items s' s'.(pdn).(eps_bearers) = Some items -> Forall (item_ok cfg) items ->
  qers_ok s'.(qer_table) -> plan_qers s'.(qer_table) items [] = Some Q -> fits_request items Q ->
  Z.land upf.(up_supp_features) UP_TRACE = 0 ->
  ∃ ty, fill_pfcp_sess_est_req cfg (Some upf) seq old s =
    Some (est_form cfg (control_address s.(pdn)) (est_base cfg s.(pdn) seq (Z.of_nat (length items))) items items
            (plan_urrs items) Q, set_ses_cp_type ty s').
Proof.
  intros Hr Hi HF Ht HQ Hfit Hf. destruct (fill_est_req_ends cfg upf seq old s s' items Q) as [ty E]; auto.
  exists ty. rewrite E. unfold traced. by rewrite Hf.
Qed.

(** C8: When the rules of a session are installed and the user plane has not the feature
    bits of tracing (else [sess_est_req_checked] says what happens), the request that
    [fill_pfcp_sess_est_req] fills is encoded to the reference form: the header with the
    session of the user plane, the node, the session and the type of the connection, then
    a Create PDR and a Create FAR for every rule in the order of the bearers, the usage
    reporting rules, and every quality enforcement rule the PDRs refer to once. *)
Theorem sess_est_req_refines cfg upf seq old s s' items Q :
  session_rules cfg upf s = Some (Z.of_nat (length items), s') ->
  session_items s' s'.(pdn).(eps_bearers) = Some items -> Forall (item_ok cfg) items ->
  qers_ok s'.(qer_table) -> plan_qers s'.(qer_table) items [] = Some Q -> fits_request items Q ->
  Z.land upf.(up_supp_features) UP_TRACE = 0 -> 0 <= cfg.(pfcp_ip) < 2 ^ 32 -> 0 <= s.(pdn).(pdn_type_ipv6) < 2 ->
  ∃ req s'', fill_pfcp_sess_est_req cfg (Some upf) seq old s = Some (req, s'') ∧
    let L := ref_request cfg s.(pdn) seq items (plan_urrs items) Q in
    encodes (encode_pfcp_sess_estab_req_t req) L (size L / 8).
Proof.
  intros Hr Hi HF Ht HQ Hfit Hf Hip H6.
  destruct (fill_est_req_form cfg upf seq old s s' items Q) as [ty E]; auto. do 2 eexists. split; [exact E|].
  apply est_request_encodes; auto. by apply (plan_qers_ok _ _ _ _ Ht HQ).
Qed.

(** ** Installing one rule *)

(** What one side of the rule [r] adds: the identifiers of the next offsets, the QER with
    the rates of the rule, and the PDR. *)
Definition side_qer_id (o : offsets) (iface : Z) : Z := Z.lor (u32 (o.(qer_rule_id_offset) + 1)) (iface_mark iface).
Definition side_urr_id (o : offsets) (iface : Z) : Z := Z.lor (u32 (o.(urr_rule_id_offset) + 1)) (iface_mark iface).
Definition side_qer (o : offsets) (bearer : eps_bearer_t) (rule : dynamic_rule_t) (iface : Z) : qer_t :=
  mk_qer (side_qer_id o iface) bearer.(qos).(qci) rule.(rule_qos).(ul_mbr) rule.(rule_qos).(dl_mbr)
    rule.(rule_qos).(ul_gbr) rule.(rule_qos).(dl_gbr).
Definition side_pdr (cfg : session_config) (s : session) (inst : list Z) (bearer : eps_bearer_t) (r : ptr)
    (rule : dynamic_rule_t) (iface : Z) : pdr_t :=
  let o := s.(ids) in
  let access := iface =? SOURCE_INTERFACE_VALUE_ACCESS in
  let to_sgw := match s.(cp_type) with PGWC => negb access | _ => false end in
  mk_pdr (u16 (o.(pdr_rule_id_offset) + 1)) rule.(precedence) s.(pdn).(seid) iface s.(pdn).(pdn_ipv4) inst
    (if access then bearer.(s1u_sgw_gtpu_teid) else 0) 0 (u32 (o.(far_rule_id_offset) + 1))
    (if access then DESTINATION_INTERFACE_VALUE_CORE else DESTINATION_INTERFACE_VALUE_ACCESS)
    (if to_sgw then bearer.(s5s8_sgw_gtpu_teid) else 0) (if to_sgw then bearer.(s5s8_sgw_gtpu_ipv4) else 0)
    (side_qer_id o iface :: List.filter is_common bearer.(qer_ids))
    (if cfg.(urr_enable) then side_urr_id o iface :: List.filter is_common bearer.(urr_ids) else []) (Some r).
Definition next_ids (o : offsets) : offsets :=
  mk_offsets (u16 (o.(pdr_rule_id_offset) + 1)) (u32 (o.(far_rule_id_offset) + 1)) (u32 (o.(qer_rule_id_offset) + 1))
    (u32 (o.(urr_rule_id_offset) + 1)) o.(pfcp_seq_no_offset).
Definition side_bearer (o : offsets) (p : ptr) (iface : Z) (bearer : eps_bearer_t) : eps_bearer_t :=
  set_bearer_pdrs (bearer.(pdrs) ++ [p])
    (set_bearer_qer_ids (bearer.(qer_ids) ++ [side_qer_id o iface])
      (set_bearer_urr_ids (bearer.(urr_ids) ++ [side_urr_id o iface]) bearer)).

(** The state after one side. *)
Definition side_state (cfg : session_config) (s : session) (inst : list Z) (b : ptr) (bearer : eps_bearer_t) (r : ptr)
    (rule : dynamic_rule_t) (iface : Z) (slot : nat) : session :=
  let o := s.(ids) in
  let p := s.(next_ptr) in
  mk_session s.(cp_type) s.(pdn) s.(context) (<[b := side_bearer o p iface bearer]> s.(h_bearers))
    (<[p := side_pdr cfg s inst bearer r rule iface]> s.(h_pdrs))
    (<[r := set_rule_pdr (<[slot := Some p]> rule.(rule_pdr)) rule]> s.(h_rules))
    (map_insert (side_qer_id o iface) (side_qer o bearer rule iface) s.(qer_table))
    (map_insert (u16 (o.(pdr_rule_id_offset) + 1)) p s.(pdr_table)) s.(rule_table) (next_ids o) s.(teids) (Pos.succ p).

Lemma with_common_fits id l : (length l < 16)%nat -> with_common id l = Some (id :: List.filter is_common l).
Proof.
  intros Hl. unfold with_common. cbn [length]. pose proof (List.filter_length_le is_common l).
  unfold MAX_LIST. destruct (Nat.leb_spec (S (length (List.filter is_common l))) 16); [done|lia].
Qed.
Lemma push_fits {A} (x : A) l : (length l < 16)%nat -> push NUMBER_PER_BEARER x l = Some (l ++ [x]).
Proof. intros Hl. unfold push, NUMBER_PER_BEARER. destruct (Nat.ltb_spec (length l) 16); [done|lia]. Qed.

Lemma install_side_ok cfg s inst b bearer r rule iface slot :
  is_pgw s.(cp_type) = true -> network_instance s.(context).(serving_nw) = Some inst ->
  s.(h_bearers) !! b = Some bearer -> s.(h_rules) !! r = Some rule ->
  (length bearer.(pdrs) < 16)%nat -> (length bearer.(qer_ids) < 16)%nat -> (length bearer.(urr_ids) < 16)%nat ->
  install_side cfg b r iface slot s = Some (tt, side_state cfg s inst b bearer r rule iface slot).
Proof.
  intros Ht Hi Hb Hr Hp Hq Hu. unfold install_side, generate_urr_id, generate_qer_id, set_offsets, fill_qer_entry,
    fill_pdr_entry, generate_pdr_id, generate_far_id, set_offsets.
  unfold mbind, sesM_bind, sgets, smodify, sdef, load_bearer, load_rule, update_pdr, update_rule, update_bearer.
  destruct (urr_enable cfg) eqn:Eu;
    repeat (cbn -[uwrap Z.lor map_insert push with_common network_instance List.filter insert lookup alter is_pgw iface_mark];
            first [rewrite Hb|rewrite Hr|rewrite Hi|rewrite Ht|rewrite Eu|rewrite push_fits by assumption
                  |rewrite with_common_fits by assumption|rewrite lookup_insert_eq]);
    cbn -[uwrap Z.lor map_insert push with_common network_instance List.filter insert lookup alter is_pgw iface_mark];
    rewrite insert_insert_eq; unfold side_state, side_pdr; rewrite Eu; reflexivity.
Qed.

(** ** The rules of the default bearer *)

(** The quality enforcement rules [l] have a context. *)
Definition known (s : session) (l : list Z) : Prop := Forall (fun id => is_Some (s.(qer_table) !! id)) l.

(** A state in which rules can be installed on the default bearer [b]. *)
Record ready (s : session) (b : ptr) (bearer : eps_bearer_t) : Prop := {
  rd_role : is_pgw s.(cp_type) = true;
  rd_inst : is_Some (network_instance s.(context).(serving_nw));
  rd_default : array_at s.(pdn).(eps_bearers) (s.(pdn).(default_bearer_id) - 5) = Some (Some b);
  rd_bearer : s.(h_bearers) !! b = Some bearer;
  rd_known : known s bearer.(qer_ids);
  rd_fresh : ∀ p, is_Some (s.(h_pdrs) !! p) -> (p < s.(next_ptr))%positive;
}.

(** What stays of a state: the PDRs, the rules but for their links, the contexts. *)
Record extends (s s' : session) : Prop := {
  ex_pdrs : ∀ p x, s.(h_pdrs) !! p = Some x -> s'.(h_pdrs) !! p = Some x;
  ex_rules : ∀ r x, s.(h_rules) !! r = Some x ->
    ∃ x', s'.(h_rules) !! r = Some x' ∧ x'.(precedence) = x.(precedence) ∧ x'.(rule_qos) = x.(rule_qos);
  ex_qers : ∀ id, is_Some (s.(qer_table) !! id) -> is_Some (s'.(qer_table) !! id);
  ex_qos : s'.(pdn).(default_bearer_qos) = s.(pdn).(default_bearer_qos);
  ex_list : s'.(pdn).(eps_bearers) = s.(pdn).(eps_bearers);
  ex_bearers : ∀ b x, s.(h_bearers) !! b = Some x -> ∃ x', s'.(h_bearers) !! b = Some x' ∧ x'.(qos) = x.(qos);
}.
#[global] Instance extends_preorder : PreOrder extends.
Proof.
  split.
  - intros s. split; eauto.
  - intros s1 s2 s3 [P1 R1 Q1 D1 L1 B1] [P2 R2 Q2 D2 L2 B2]. split; [eauto| |eauto|congruence|congruence|].
    + intros r x Hx. destruct (R1 _ _ Hx) as (x1 & H1 & E1 & F1). destruct (R2 _ _ H1) as (x2 & H2 & E2 & F2).
      exists x2. split; [done|]. split; congruence.
    + intros b x Hx. destruct (B1 _ _ Hx) as (x1 & H1 & E1). destruct (B2 _ _ H1) as (x2 & H2 & E2).
      exists x2. split; congruence.
Qed.

(** A bearer replaced by one of the same quality. *)
Lemma replaced_bearer (m : gmap ptr eps_bearer_t) b bearer bearer' : m !! b = Some bearer -> bearer'.(qos) = bearer.(qos) ->
  ∀ b' x, m !! b' = Some x -> ∃ x', <[b := bearer']> m !! b' = Some x' ∧ x'.(qos) = x.(qos).
Proof.
  intros Hb Hq b' x Hx. destruct (decide (b = b')) as [<-|Hne]; [|rewrite lookup_insert_ne by done; eauto].
  rewrite lookup_insert_eq. rewrite Hb in Hx. injection Hx as <-. eauto.
Qed.

(** A rule of quality [q] belongs to the bearer [b]: it has the default quality of the
    policy, or [b] is the first bearer of its quality. *)
Definition lands (s : session) (b : ptr) (q : bearer_qos_ie) : Prop :=
  same_qos s.(pdn).(default_bearer_qos) q = true ∨ find_bearer s.(pdn).(eps_bearers) q s = Some (Some b, s).
Lemma find_bearer_extends s s' l q o : extends s s' -> find_bearer l q s = Some (o, s) -> find_bearer l q s' = Some (o, s').
Proof.
  intros He. induction l as [|[b|] l IH]; cbn [find_bearer]; [by intros [= <-]| |done].
  unfold mbind, sesM_bind, load_bearer. destruct (s.(h_bearers) !! b) as [x|] eqn:E; [|done].
  destruct (ex_bearers _ _ He _ _ E) as (x' & -> & E'). cbn [mbind option_bind]. rewrite E'.
  by destruct (same_qos _ _); [intros [= <-]|].
Qed.
Lemma lands_extends s s' b q : extends s s' -> lands s b q -> lands s' b q.
Proof.
  intros He [H|H]; [left; by rewrite (ex_qos _ _ He)|right]. rewrite (ex_list _ _ He). by eapply find_bearer_extends.
Qed.

Lemma known_extends s s' l : extends s s' -> known s l -> known s' l.
Proof. intros He Hl. eapply list.Forall_impl; [exact Hl|]. intros id. apply He. Qed.

(** The PDR [p] is that of the rule [r] on the side [iface]. *)
Definition installed (s : session) (p r : ptr) (iface : Z) : Prop :=
  ∃ pdr rule, s.(h_pdrs) !! p = Some pdr ∧ s.(h_rules) !! r = Some rule ∧ pdr.(src_intfc) = iface ∧
    pdr.(dynamic_rule) = Some r ∧ pdr.(prcdnc_val) = rule.(precedence) ∧ known s pdr.(pdr_qers).
Lemma installed_extends s s' p r iface : extends s s' -> installed s p r iface -> installed s' p r iface.
Proof.
  intros He (pdr & rule & H1 & H2 & H3 & H4 & H5 & H6). destruct (ex_rules _ _ He _ _ H2) as (rule' & H2' & E & _).
  exists pdr, rule'. rewrite E. split_and!; auto; [by apply He|by eapply known_extends].
Qed.

Lemma map_insert_lookup {A} (k : Z) (v : A) m i : is_Some (m !! i) -> is_Some (map_insert k v m !! i).
Proof.
  intros Hi. unfold map_insert. destruct (m !! k); [done|]. destruct (decide (k = i)) as [->|Hne].
  - rewrite lookup_insert_eq. eauto.
  - by rewrite lookup_insert_ne.
Qed.
Lemma map_insert_self {A} (k : Z) (v : A) m : is_Some (map_insert k v m !! k).
Proof. unfold map_insert. destruct (m !! k) eqn:E; [by rewrite E|]. rewrite lookup_insert_eq. eauto. Qed.
Lemma known_common s l : known s l -> known s (List.filter is_common l).
Proof. induction 1 as [|id l Hi Hl IH]; cbn [List.filter]; [constructor|]. destruct (is_common id); by try constructor. Qed.

Lemma side_extends cfg s inst b bearer r rule iface slot : s.(h_rules) !! r = Some rule -> s.(h_bearers) !! b = Some bearer ->
  (∀ p, is_Some (s.(h_pdrs) !! p) -> (p < s.(next_ptr))%positive) ->
  extends s (side_state cfg s inst b bearer r rule iface slot).
Proof.
  intros Hr Hb Hf. split; cbn -[insert lookup map_insert]; [| |intros id; apply map_insert_lookup|done|done|].
  3: by eapply replaced_bearer.
  - intros p x Hp. rewrite lookup_insert_ne; [done|]. intros <-. specialize (Hf _ (mk_is_Some _ _ Hp)). lia.
  - intros r' x Hx. destruct (decide (r = r')) as [<-|Hne]; [|rewrite lookup_insert_ne by done; eauto].
    rewrite lookup_insert_eq. rewrite Hr in Hx. injection Hx as <-. by eexists.
Qed.

(** What the installation of the rules [rs] on the bearer [b] may change, in full: the
    lists of [b], the links of these rules to their PDRs, the queue of the connection and
    the counters; new entries come into the tables and onto the heap, those of the table of
    rule names for the names of these rules and with the identifier of [b]. *)
Record frame (b : ptr) (rs : list ptr) (s s' : session) : Prop := {
  fr_role : s'.(cp_type) = s.(cp_type);
  fr_pdn : set_pdn_pending_pcc_rules [] s'.(pdn) = set_pdn_pending_pcc_rules [] s.(pdn);
  fr_ue : s'.(context) = s.(context);
  fr_teids : s'.(teids) = s.(teids);
  fr_others : ∀ b', b' ≠ b -> s'.(h_bearers) !! b' = s.(h_bearers) !! b';
  fr_bearer : ∀ x, s.(h_bearers) !! b = Some x -> ∃ P Q U D f, s'.(h_bearers) !! b =
    Some (set_bearer_pdrs (x.(pdrs) ++ P) (set_bearer_qer_ids (x.(qer_ids) ++ Q) (set_bearer_urr_ids (x.(urr_ids) ++ U)
      (set_bearer_dynamic_rules (x.(dynamic_rules) ++ D) (set_bearer_ambr_qer_flag f x)))));
  fr_pdrs : s.(h_pdrs) ⊆ s'.(h_pdrs);
  fr_rules : ∀ r, match s.(h_rules) !! r with
    | None => s'.(h_rules) !! r = None
    | Some x => ∃ l, s'.(h_rules) !! r = Some (set_rule_pdr l x) ∧ (r ∉ rs -> l = x.(rule_pdr))
    end;
  fr_qers : s.(qer_table) ⊆ s'.(qer_table);
  fr_pdr_table : s.(pdr_table) ⊆ s'.(pdr_table);
  fr_rule_table : s.(rule_table) ⊆ s'.(rule_table);
  fr_keys : ∀ k v x, s.(h_bearers) !! b = Some x -> s'.(rule_table) !! k = Some v ->
    s.(rule_table) !! k = Some v ∨
    v = x.(eps_bearer_id) ∧ ∃ r y, r ∈ rs ∧ s.(h_rules) !! r = Some y ∧ k = rule_key y.(rule_name) s.(pdn).(call_id);
}.

Lemma set_rule_pdr_id x : set_rule_pdr x.(rule_pdr) x = x.
Proof. by destruct x. Qed.
Lemma same_bearer x : set_bearer_pdrs (x.(pdrs) ++ []) (set_bearer_qer_ids (x.(qer_ids) ++ []) (set_bearer_urr_ids (x.(urr_ids) ++ [])
  (set_bearer_dynamic_rules (x.(dynamic_rules) ++ []) (set_bearer_ambr_qer_flag x.(ambr_qer_flag) x)))) = x.
Proof. destruct x. cbn. by rewrite !app_nil_r. Qed.

(** A step that changes no bearer, no rule and no table of names. *)
Lemma frame_refl b rs s : frame b rs s s.
Proof.
  split; try done.
  - intros x Hx. exists [], [], [], [], x.(ambr_qer_flag). by rewrite same_bearer.
  - intros r. destruct (s.(h_rules) !! r) as [x|]; [|done]. exists x.(rule_pdr). by rewrite set_rule_pdr_id.
  - by left.
Qed.

Lemma frame_call_id b rs s s' : frame b rs s s' -> s'.(pdn).(call_id) = s.(pdn).(call_id).
Proof. intros F. exact (f_equal call_id (fr_pdn _ _ _ _ F)). Qed.

Lemma frame_trans b rs s1 s2 s3 : is_Some (s1.(h_bearers) !! b) -> frame b rs s1 s2 -> frame b rs s2 s3 -> frame b rs s1 s3.
Proof.
  intros [x1 Hx1] F1 F2. pose proof (frame_call_id _ _ _ _ F1) as Hc.
  destruct F1 as [A1 A2 A3 A4 A5 A6 A7 A8 A9 A10 A11 A12], F2 as [B1 B2 B3 B4 B5 B6 B7 B8 B9 B10 B11 B12].
  destruct (A6 _ Hx1) as (P & Q & U & D & f & H2). destruct (B6 _ H2) as (P' & Q' & U' & D' & f' & H3).
  split; try congruence; try (by etrans).
  - intros b' Hne. rewrite B5 by done. by apply A5.
  - intros x Hx. rewrite Hx1 in Hx. injection Hx as <-. exists (P ++ P'), (Q ++ Q'), (U ++ U'), (D ++ D'), f'.
    rewrite H3. cbn. by rewrite !app_assoc.
  - intros r. specialize (A8 r). specialize (B8 r). destruct (s1.(h_rules) !! r) as [x|].
    + destruct A8 as (l & E & Hl). rewrite E in B8. destruct B8 as (l' & E' & Hl'). exists l'. rewrite E'. split; [done|].
      intros Hr. rewrite Hl' by done. cbn. auto.
    + by rewrite A8 in B8.
  - intros k v x Hx Hk. rewrite Hx1 in Hx. injection Hx as <-. destruct (B12 k v _ H2 Hk) as [Hk2|(-> & r & y & Hr & Hy & ->)].
    + by apply A12.
    + right. split; [done|]. specialize (A8 r). destruct (s1.(h_rules) !! r) as [y1|] eqn:E; [|congruence].
      destruct A8 as (l & E2 & _). rewrite E2 in Hy. injection Hy as <-. exists r, y1. rewrite Hc. done.
Qed.

Lemma map_insert_subseteq {K A} `{Countable K} (k : K) (v : A) (m : gmap K A) : m ⊆ map_insert k v m.
Proof. unfold map_insert. destruct (m !! k) eqn:E; [done|]. by apply insert_subseteq. Qed.
Lemma map_insert_Some {K A} `{Countable K} (k k' : K) (v v' : A) (m : gmap K A) :
  map_insert k v m !! k' = Some v' -> m !! k' = Some v' ∨ k' = k ∧ v' = v.
Proof.
  unfold map_insert. destruct (m !! k) eqn:E; [by left|]. intros [[<- <-]|[_ H']]%lookup_insert_Some; [by right|by left].
Qed.
Lemma map_insert_is_Some {K A} `{Countable K} (k : K) (v : A) (m : gmap K A) : is_Some (map_insert k v m !! k).
Proof. unfold map_insert. destruct (m !! k) eqn:E; [by rewrite E|]. rewrite lookup_insert_eq. eauto. Qed.

Lemma side_frame cfg s inst b bearer r rule iface slot rs : r ∈ rs -> s.(h_rules) !! r = Some rule ->
  s.(h_bearers) !! b = Some bearer -> (∀ p, is_Some (s.(h_pdrs) !! p) -> (p < s.(next_ptr))%positive) ->
  frame b rs s (side_state cfg s inst b bearer r rule iface slot).
Proof.
  intros Hin Hr Hb Hf. split; cbn -[insert lookup map_insert]; try done; try apply map_insert_subseteq; try by left.
  - intros b' Hne. by rewrite lookup_insert_ne.
  - intros x Hx. rewrite Hb in Hx. injection Hx as <-. rewrite lookup_insert_eq.
    exists [s.(next_ptr)], [side_qer_id s.(ids) iface], [side_urr_id s.(ids) iface], [], bearer.(ambr_qer_flag).
    unfold side_bearer. destruct bearer. cbn. by rewrite app_nil_r.
  - apply insert_subseteq. destruct (s.(h_pdrs) !! s.(next_ptr)) eqn:E; [|done]. specialize (Hf _ (mk_is_Some _ _ E)). lia.
  - intros r'. destruct (decide (r' = r)) as [->|Hne].
    + rewrite Hr, lookup_insert_eq. by eexists.
    + rewrite lookup_insert_ne by done. destruct (s.(h_rules) !! r') as [x|]; [|done]. exists x.(rule_pdr).
      by rewrite set_rule_pdr_id.
Qed.

(** One side of a rule on a bearer with room. *)
Lemma side_step cfg s b bearer r rule iface slot : ready s b bearer -> s.(h_rules) !! r = Some rule ->
  (length bearer.(pdrs) < 16)%nat -> (length bearer.(qer_ids) < 16)%nat -> (length bearer.(urr_ids) < 16)%nat ->
  ∃ s' bearer', install_side cfg b r iface slot s = Some (tt, s') ∧ ready s' b bearer' ∧ extends s s' ∧
    bearer' = side_bearer s.(ids) s.(next_ptr) iface bearer ∧ installed s' s.(next_ptr) r iface ∧
    s'.(pdn) = s.(pdn) ∧ ∀ rs, r ∈ rs -> frame b rs s s'.
Proof.
  intros [Ht [inst Hi] Hd Hb Hk Hf] Hr Hp Hq Hu. pose proof (side_extends cfg s inst b bearer r rule iface slot Hr Hb Hf) as He.
  exists (side_state cfg s inst b bearer r rule iface slot), (side_bearer s.(ids) s.(next_ptr) iface bearer).
  split; [by apply install_side_ok|]. split; [|split; [exact He|split; [done|split; [|split; [done|intros; by apply side_frame]]]]].
  - split; cbn -[insert lookup map_insert]; try done; [by apply lookup_insert_eq| |].
    + apply Forall_app. split; [exact (known_extends _ _ _ He Hk)|]. apply Forall_singleton, map_insert_self.
    + intros p. destruct (decide (p = s.(next_ptr))) as [->|Hne]; [intros _; lia|].
      rewrite lookup_insert_ne by done. intros H%Hf. lia.
  - eexists _, _. cbn -[insert lookup map_insert]. rewrite !lookup_insert_eq. split_and!; try reflexivity.
    apply Forall_cons_2; [apply map_insert_self|]. exact (known_extends _ _ _ He (known_common _ _ Hk)).
Qed.

Lemma ses_bind {A B} (m : sesM A) (k : A -> sesM B) s x s' : m s = Some (x, s') -> (m ≫= k) s = k x s'.
Proof. intros E. unfold mbind, sesM_bind. by rewrite E. Qed.
Ltac sbind E := rewrite (ses_bind _ _ _ _ _ E).

(** Room for [n] more rules on the bearer, and for the QER of the connection. *)
Definition ambr_need (cfg : session_config) (bearer : eps_bearer_t) : nat :=
  if cfg.(gx_enabled) && negb bearer.(ambr_qer_flag) then 1 else 0.
Definition qers_used (cfg : session_config) (bearer : eps_bearer_t) : nat :=
  length bearer.(qer_ids) + ambr_need cfg bearer.
Definition room (cfg : session_config) (n : nat) (bearer : eps_bearer_t) : Prop :=
  (length bearer.(pdrs) + 2 * n <= 16)%nat ∧ (qers_used cfg bearer + 2 * n <= 16)%nat ∧
  (length bearer.(urr_ids) + 2 * n <= 16)%nat ∧ (length bearer.(dynamic_rules) + n <= 16)%nat.

Lemma default_bearer_ok s b bearer : ready s b bearer -> get_default_bearer s = Some (Some b, s).
Proof. intros Hr. exact (f_equal (fun o => x ← o; Some (x, s)) (rd_default _ _ _ Hr)). Qed.
Lemma load_bearer_ok s b bearer : ready s b bearer -> load_bearer b s = Some (bearer, s).
Proof. intros Hr. unfold load_bearer. by rewrite (rd_bearer _ _ _ Hr). Qed.

Lemma ambr_step cfg s b bearer n : ready s b bearer -> room cfg (S n) bearer ->
  ∃ s' bearer', add_ambr_qer cfg s = Some (tt, s') ∧ ready s' b bearer' ∧ extends s s' ∧ s'.(h_rules) = s.(h_rules) ∧
    room cfg (S n) bearer' ∧ ambr_need cfg bearer' = 0%nat ∧ qers_used cfg bearer' = qers_used cfg bearer ∧
    bearer'.(pdrs) = bearer.(pdrs) ∧ bearer'.(urr_ids) = bearer.(urr_ids) ∧
    bearer'.(dynamic_rules) = bearer.(dynamic_rules) ∧ s'.(pdn) = s.(pdn) ∧ ∀ rs, frame b rs s s'.
Proof.
  intros Hr (H1 & H2 & H3 & H4). unfold room, qers_used, ambr_need in *. unfold add_ambr_qer.
  destruct (gx_enabled cfg) eqn:Eg; cbn [andb] in *. 2: { exists s, bearer. split_and!; auto using frame_refl. done. }
  sbind (default_bearer_ok _ _ _ Hr). sbind (eq_refl : sdef (Some b) s = Some (b, s)). sbind (load_bearer_ok _ _ _ Hr).
  destruct (ambr_qer_flag bearer) eqn:Ef; cbn [negb] in *. { exists s, bearer. rewrite Ef. split_and!; auto using frame_refl. done. }
  destruct Hr as [Ht Hi Hd Hb Hk Hf].
  unfold generate_qer_id, set_offsets, fill_qer_entry, mbind, sesM_bind, sgets, smodify, sdef, load_bearer, update_bearer.
  repeat (cbn -[uwrap Z.lor map_insert push insert lookup]; first [rewrite Hb|rewrite push_fits by lia]).
  cbn -[uwrap Z.lor map_insert push insert lookup].
  eexists _, (set_bearer_ambr_qer_flag true (set_bearer_qer_ids (bearer.(qer_ids) ++ [side_qer_id s.(ids) 3]) bearer)).
  split; [reflexivity|].
  split; [|split; [|split_and!; cbn -[length]; try reflexivity; try (rewrite ?length_app; cbn; lia)]].
  - split; cbn -[uwrap Z.lor insert lookup map_insert]; try done; [by apply lookup_insert_eq|].
    apply Forall_app. split; [|apply Forall_singleton, map_insert_self].
    eapply list.Forall_impl; [exact Hk|]. intros i. apply map_insert_lookup.
  - split; cbn -[uwrap Z.lor insert lookup map_insert]; eauto; [intros i; apply map_insert_lookup|].
    by eapply replaced_bearer.
  - intros rs. split; cbn -[uwrap Z.lor insert lookup map_insert]; try done; try apply map_insert_subseteq; try by left.
    + intros b' Hne. by rewrite lookup_insert_ne.
    + intros x Hx. rewrite Hb in Hx. injection Hx as <-. rewrite lookup_insert_eq.
      exists [], [side_qer_id s.(ids) 3], [], [], true. destruct bearer. cbn. by rewrite !app_nil_r.
    + apply (fr_rules _ _ _ _ (frame_refl b rs s)).
Qed.

(** The end of the turn: the rule is noted in the bearer and in the table of rules. *)
Lemma record_step s b bearer r rule : ready s b bearer ->
  ∃ s', (_ ← update_bearer b (fun x => set_bearer_dynamic_rules (x.(dynamic_rules) ++ [r]) x);
         bearer ← load_bearer b;
         _ ← smodify (fun s => set_ses_rule_table
               (map_insert (rule_key rule.(rule_name) s.(pdn).(call_id)) bearer.(eps_bearer_id) s.(rule_table)) s);
         mret b) s = Some (b, s') ∧
    ready s' b (set_bearer_dynamic_rules (bearer.(dynamic_rules) ++ [r]) bearer) ∧ extends s s' ∧ s'.(pdn) = s.(pdn) ∧
    is_Some (s'.(rule_table) !! rule_key rule.(rule_name) s.(pdn).(call_id)) ∧
    ∀ rs y, r ∈ rs -> s.(h_rules) !! r = Some y -> y.(rule_name) = rule.(rule_name) -> frame b rs s s'.
Proof.
  intros [Ht Hi Hd Hb Hk Hf]. unfold mbind, sesM_bind, update_bearer, load_bearer, smodify. rewrite Hb.
  cbn -[insert lookup map_insert]. rewrite lookup_insert_eq. cbn -[insert lookup map_insert rule_key].
  eexists. split; [reflexivity|]. split_and!.
  - split; cbn -[insert lookup map_insert rule_key]; eauto. apply lookup_insert_eq.
  - split; cbn -[insert lookup map_insert rule_key]; eauto. by eapply replaced_bearer.
  - done.
  - cbn -[lookup map_insert rule_key]. apply map_insert_is_Some.
  - intros rs y Hin Hy Hn. split; cbn -[insert lookup map_insert rule_key]; try done; try apply map_insert_subseteq.
    + intros b' Hne. by rewrite lookup_insert_ne.
    + intros x Hx. rewrite Hb in Hx. injection Hx as <-. rewrite lookup_insert_eq.
      exists [], [], [], [r], bearer.(ambr_qer_flag). destruct bearer. cbn. by rewrite !app_nil_r.
    + apply (fr_rules _ _ _ _ (frame_refl b rs s)).
    + intros k v x Hx. rewrite Hb in Hx. injection Hx as <-. intros [?|[-> ->]]%map_insert_Some; [by left|right].
      split; [done|]. exists r, y. by rewrite Hn.
Qed.

Lemma bearer_of_rule_lands cfg s b bearer q : ready s b bearer -> lands s b q ->
  bearer_of_rule cfg q s = Some (Some b, s).
Proof.
  intros Hr Hl. unfold bearer_of_rule, compare_default_bearer_qos. sbind (eq_refl : sgets pdn s = Some (s.(pdn), s)).
  destruct (same_qos _ _) eqn:E; [apply (default_bearer_ok _ _ _ Hr)|]. destruct Hl as [Hl|Hl]; [by rewrite Hl in E|].
  unfold get_bearer. cbv match. change (-1 =? 0) with false. cbv match.
  assert ((d ← sgets pdn; find_bearer d.(eps_bearers) q) s = Some (Some b, s)) as E1 by exact Hl. by sbind E1.
Qed.

(** One rule of the default bearer. *)
Lemma rule_step cfg s b bearer r rule n : ready s b bearer -> room cfg (S n) bearer ->
  s.(h_rules) !! r = Some rule -> lands s b rule.(rule_qos) ->
  ∃ s' bearer' p1 p2, install_rule cfg r s = Some (b, s') ∧ ready s' b bearer' ∧ extends s s' ∧ room cfg n bearer' ∧
    bearer'.(pdrs) = bearer.(pdrs) ++ [p1; p2] ∧ bearer'.(dynamic_rules) = bearer.(dynamic_rules) ++ [r] ∧
    qers_used cfg bearer' = (qers_used cfg bearer + 2)%nat ∧ ambr_need cfg bearer' = 0%nat ∧
    length bearer'.(urr_ids) = (length bearer.(urr_ids) + 2)%nat ∧
    installed s' p1 r SOURCE_INTERFACE_VALUE_ACCESS ∧ installed s' p2 r SOURCE_INTERFACE_VALUE_CORE ∧
    s'.(pdn) = s.(pdn) ∧ is_Some (s'.(rule_table) !! rule_key rule.(rule_name) s.(pdn).(call_id)) ∧
    ∀ rs, r ∈ rs -> frame b rs s s'.
Proof.
  intros Hr Hroom Hl Hq. unfold install_rule.
  assert (load_rule r s = Some (rule, s)) as El by (unfold load_rule; by rewrite Hl). sbind El.
  sbind (bearer_of_rule_lands cfg _ _ _ _ Hr Hq). sbind (eq_refl : sdef (Some b) s = Some (b, s)). sbind (load_bearer_ok _ _ _ Hr).
  rewrite push_fits by (unfold room in Hroom; lia).
  match goal with |- context [(sdef (Some ?l) ≫= _) s] => sbind (eq_refl : sdef (Some l) s = Some (l, s)) end.
  destruct (ambr_step cfg s b bearer n Hr Hroom) as (s1 & b1 & E1 & Hr1 & He1 & Hh1 & Hroom1 & Ha1 & Hu1 & Hp1 & Hn1 & Hd1 & D1 & F1).
  sbind E1. unfold room, qers_used in *. rewrite Ha1 in *.
  destruct (side_step cfg s1 b b1 r rule SOURCE_INTERFACE_VALUE_ACCESS 0) as (s2 & b2 & E2 & Hr2 & He2 & -> & Hi2 & D2 & F2);
    auto; try lia; [by rewrite Hh1|]. sbind E2.
  set (b2 := side_bearer _ _ _ b1) in *.
  assert (∃ rule2, s2.(h_rules) !! r = Some rule2 ∧ rule2.(rule_name) = rule.(rule_name)) as (rule2 & Hl2 & Hm2).
  { rewrite <- Hh1 in Hl. pose proof (fr_rules _ _ _ _ (F2 [r] ltac:(by left)) r) as Hx. rewrite Hl in Hx.
    destruct Hx as (l & Hx & _). by eexists. }
  destruct (side_step cfg s2 b b2 r rule2 SOURCE_INTERFACE_VALUE_CORE 1) as (s3 & b3 & E3 & Hr3 & He3 & -> & Hi3 & D3 & F3);
    auto; try (subst b2; cbn -[length]; rewrite length_app; cbn; lia). sbind E3.
  destruct (record_step s3 b _ r rule Hr3) as (s4 & E4 & Hr4 & He4 & D4 & N4 & F4). rewrite E4.
  assert (∃ y, s3.(h_rules) !! r = Some y ∧ y.(rule_name) = rule.(rule_name)) as (y & Hy & Hny).
  { pose proof (fr_rules _ _ _ _ (F3 [r] ltac:(by left)) r) as Hx. rewrite Hl2 in Hx.
    destruct Hx as (l & Hx & _). by eexists. }
  eexists s4, _, s1.(next_ptr), s2.(next_ptr). split; [done|]. split; [exact Hr4|]. split; [by transitivity s1; [|transitivity s2; [|transitivity s3]]|].
  split.
  { change (ambr_need cfg _) with (ambr_need cfg b1) at 1. rewrite Ha1. subst b2. cbn -[length].
    rewrite !length_app. cbn. lia. }
  change (ambr_need cfg _) with (ambr_need cfg b1) at 1. rewrite Ha1.
  subst b2. cbn -[installed length]. rewrite Hp1, Hd1, <- !app_assoc. split_and!; try done.
  - rewrite !length_app. cbn. lia.
  - rewrite !length_app, Hn1. cbn. lia.
  - exact (installed_extends _ _ _ _ _ (transitivity He3 He4) Hi2).
  - exact (installed_extends _ _ _ _ _ He4 Hi3).
  - congruence.
  - replace s.(pdn) with s3.(pdn) by congruence. exact N4.
  - intros rs Hin. eapply frame_trans; [exact (mk_is_Some _ _ (rd_bearer _ _ _ Hr))|apply F1|].
    eapply frame_trans; [exact (mk_is_Some _ _ (rd_bearer _ _ _ Hr1))|by apply F2|].
    eapply frame_trans; [exact (mk_is_Some _ _ (rd_bearer _ _ _ Hr2))|by apply F3|by eapply F4].
Qed.

(** The queue of the connection when the rules [rules] were taken from it. *)
Definition queue_after (rules : list pcc_rule_t) (s : session) : list pcc_rule_t :=
  if rules is [] then s.(pdn).(pending_pcc_rules) else [].

(** The names of the rules are in the table of rule names. *)
Definition noted (s s' : session) (rules : list pcc_rule_t) : Prop :=
  Forall (fun r => ∃ rule, s.(h_rules) !! r.(dyn_rule) = Some rule ∧
    is_Some (s'.(rule_table) !! rule_key rule.(rule_name) s.(pdn).(call_id))) rules.

(** The loop over the queue. *)
Lemma rules_frame_step cfg s b bearer rules last count :
  ready s b bearer -> room cfg (length rules) bearer ->
  Forall (fun r => ∃ rule, s.(h_rules) !! r.(dyn_rule) = Some rule ∧ lands s b rule.(rule_qos)) rules ->
  0 <= count -> count + 2 * Z.of_nat (length rules) < 256 ->
  ∃ s' bearer' new, install_rules cfg rules last count s =
      Some ((if rules is [] then last else Some b, count + 2 * Z.of_nat (length rules)), s') ∧
    ready s' b bearer' ∧ extends s s' ∧ bearer'.(pdrs) = bearer.(pdrs) ++ new ∧
    bearer'.(dynamic_rules) = bearer.(dynamic_rules) ++ (dyn_rule <$> rules) ∧
    qers_used cfg bearer' = (qers_used cfg bearer + 2 * length rules)%nat ∧
    Forall2 (fun p '(r, iface) => installed s' p r iface) new
      (mjoin ((fun r => [(r.(dyn_rule), SOURCE_INTERFACE_VALUE_ACCESS); (r.(dyn_rule), SOURCE_INTERFACE_VALUE_CORE)]) <$> rules)) ∧
    s'.(pdn).(pending_pcc_rules) = queue_after rules s ∧ noted s s' rules ∧
    ∀ rs, (dyn_rule <$> rules) ⊆ rs -> frame b rs s s'.
Proof.
  revert s bearer last count. induction rules as [|r rules IH]; intros s bearer last count Hr Hroom HF Hc Hm.
  { exists s, bearer, []. cbn [install_rules length]. rewrite Z.add_0_r, !app_nil_r.
    split_and!; auto using frame_refl; try done; try lia; constructor. }
  apply Forall_cons_1 in HF as [(rule & Hl & Hq) HF]. cbn [install_rules length] in *.
  set (s0 := set_ses_pdn (set_pdn_pending_pcc_rules rules s.(pdn)) s).
  sbind (eq_refl : update_pdn (set_pdn_pending_pcc_rules rules) s = Some (tt, s0)).
  assert (ready s0 b bearer) as Hr0 by (destruct Hr; split; done). assert (extends s s0) as He0 by (split; eauto).
  destruct (rule_step cfg s0 b bearer r.(dyn_rule) rule (length rules) Hr0 Hroom Hl (lands_extends _ _ _ _ He0 Hq))
    as (s1 & b1 & p1 & p2 & E1 & Hr1 & He1 & Hroom1 & Hp1 & Hd1 & Hu1 & _ & _ & Hi1 & Hi2 & D1 & N1 & F1).
  sbind E1. rewrite (uwrap_small 8) by lia.
  destruct (IH s1 b1 (Some b) (count + 2)) as (s2 & b2 & new & E2 & Hr2 & He2 & Hp2 & Hd2 & Hu2 & HF2 & Q2 & N2 & F2);
    auto; try lia.
  { eapply list.Forall_impl; [exact HF|]. intros r' (x & Hx & Hxq).
    destruct (ex_rules _ _ He1 _ x Hx) as (x' & Hx' & _ & Eq). exists x'. split; [done|]. rewrite Eq.
    by apply (lands_extends _ _ _ _ He1), (lands_extends _ _ _ _ He0). }
  exists s2, b2, (p1 :: p2 :: new). split.
  { rewrite E2. do 3 f_equal; [by destruct rules|lia]. }
  split; [done|]. split; [by transitivity s0; [|transitivity s1]|]. rewrite Hp2, Hd2, Hp1, Hd1, <- !app_assoc.
  split; [done|]. split; [done|]. split; [lia|].
  cbn [fmap list_fmap mjoin list_join app].
  split; [constructor; [by eapply installed_extends|]; constructor; [by eapply installed_extends|exact HF2]|].
  assert (F : ∀ rs, dyn_rule r ∈ rs -> frame b rs s s1).
  { intros rs Hin. eapply frame_trans; [exact (mk_is_Some _ _ (rd_bearer _ _ _ Hr))| |by apply F1].
    destruct (frame_refl b rs s). by split. }
  split; [|split].
  - rewrite Q2. unfold queue_after. rewrite D1. by destruct rules.
  - assert (dyn_rule <$> rules ⊆ dyn_rule <$> rules) as Hself by done.
    pose proof (fr_rule_table _ _ _ _ (F2 _ Hself)) as HT. constructor.
    + exists rule. split; [done|]. destruct N1 as [v Hv]. exists v. by eapply lookup_weaken.
    + eapply list.Forall_impl; [exact N2|]. intros r' (x & Hx & Hk).
      pose proof (fr_rules _ _ _ _ (F [dyn_rule r] ltac:(by left)) r'.(dyn_rule)) as Hy.
      destruct (s.(h_rules) !! r'.(dyn_rule)) as [y|] eqn:Ey; [|congruence]. destruct Hy as (l & Hy & _).
      rewrite Hx in Hy. injection Hy as ->. exists y. split; [done|].
      replace (s.(pdn).(call_id)) with (s1.(pdn).(call_id)) by (by rewrite D1). exact Hk.
  - intros rs Hrs. eapply frame_trans; [exact (mk_is_Some _ _ (rd_bearer _ _ _ Hr))|apply F|apply F2].
    + apply Hrs. by left.
    + intros x Hx. apply Hrs. by right.
Qed.

Lemma rules_step cfg s b bearer rules last count :
  ready s b bearer -> room cfg (length rules) bearer ->
  Forall (fun r => ∃ rule, s.(h_rules) !! r.(dyn_rule) = Some rule ∧ lands s b rule.(rule_qos)) rules ->
  0 <= count -> count + 2 * Z.of_nat (length rules) < 256 ->
  ∃ s' bearer' new, install_rules cfg rules last count s =
      Some ((if rules is [] then last else Some b, count + 2 * Z.of_nat (length rules)), s') ∧
    ready s' b bearer' ∧ extends s s' ∧ bearer'.(pdrs) = bearer.(pdrs) ++ new ∧
    bearer'.(dynamic_rules) = bearer.(dynamic_rules) ++ (dyn_rule <$> rules) ∧
    qers_used cfg bearer' = (qers_used cfg bearer + 2 * length rules)%nat ∧
    Forall2 (fun p '(r, iface) => installed s' p r iface) new
      (mjoin ((fun r => [(r.(dyn_rule), SOURCE_INTERFACE_VALUE_ACCESS); (r.(dyn_rule), SOURCE_INTERFACE_VALUE_CORE)]) <$> rules)).
Proof.
  intros Hr Hroom HF Hc Hm. destruct (rules_frame_step cfg s b bearer rules last count Hr Hroom HF Hc Hm)
    as (s' & b' & new & H1 & H2 & H3 & H4 & H5 & H6 & H7 & _). by exists s', b', new.
Qed.

(** C9: Installing pending rules of the default bearer, either because they have the default
    quality of the policy or because it is the first bearer of their quality, on a bearer
    with room for two PDRs, two quality enforcement rules, two usage reporting rules and one
    rule each, and for the QER of the connection's rates: every rule is taken from the queue
    and gives the default bearer, in order, a PDR of the access side and one of the core
    side, with the precedence of the rule, whose quality enforcement rules all have a
    context, and its name is in the table of rule names.  Nothing else changes ([frame]):
    the other bearers, the other members of the default bearer and the front of its lists,
    the PDRs, the rules with their descriptions (but for the links of the installed ones to
    their PDRs), the entries of the three tables, the subscriber and the rest of the
    connection are as they were. *)
Theorem install_rules_default cfg s b bearer rules last :
  ready s b bearer -> room cfg (length rules) bearer ->
  Forall (fun r => ∃ rule, s.(h_rules) !! r.(dyn_rule) = Some rule ∧ lands s b rule.(rule_qos)) rules ->
  ∃ s' bearer' new, install_rules cfg rules last 0 s =
      Some ((if rules is [] then last else Some b, 2 * Z.of_nat (length rules)), s') ∧
    ready s' b bearer' ∧ bearer'.(pdrs) = bearer.(pdrs) ++ new ∧
    bearer'.(dynamic_rules) = bearer.(dynamic_rules) ++ (dyn_rule <$> rules) ∧
    Forall2 (fun p '(r, iface) => installed s' p r iface) new
      (mjoin ((fun r => [(r.(dyn_rule), SOURCE_INTERFACE_VALUE_ACCESS); (r.(dyn_rule), SOURCE_INTERFACE_VALUE_CORE)]) <$> rules)) ∧
    s'.(pdn).(pending_pcc_rules) = queue_after rules s ∧ noted s s' rules ∧ frame b (dyn_rule <$> rules) s s'.
Proof.
  intros Hr Hroom HF. destruct (rules_frame_step cfg s b bearer rules last 0 Hr Hroom HF) as (s' & b' & new & H); [lia| |].
  - unfold room in Hroom. lia.
  - exists s', b', new. destruct H as (? & ? & _ & ? & ? & _ & ? & ? & ? & F). specialize (F _ ltac:(done)). by split_and!.
Qed.

(** ** References in the request *)

(** The identifiers of the QERs that a request creates, and those that its PDRs name. *)
Definition created_qers (req : pfcp_sess_estab_req_t) : list Z :=
  (fun x => x.(create_qer_qer_id).(qer_id_value)) <$>
    take (Z.to_nat req.(sess_estab_req_create_qer_count)) req.(sess_estab_req_create_qer).
Definition named_qers (req : pfcp_sess_estab_req_t) : list Z :=
  mjoin ((fun x => qer_id_value <$> take (Z.to_nat x.(create_pdr_qer_id_count)) x.(create_pdr_qer_id)) <$>
    take (Z.to_nat req.(sess_estab_req_create_pdr_count)) req.(sess_estab_req_create_pdr)).

Definition qer_item_id (x : qer_item) : Z := x.1.(qer_id).

Lemma take_filled {A B} (g : A -> B) l zero : take (Z.to_nat (Z.of_nat (length l))) (filled (g <$> l) zero) = g <$> l.
Proof. rewrite Nat2Z.id. unfold filled. rewrite <- (length_fmap g l). apply take_app_length. Qed.

Lemma created_qers_form cfg control base P F U Q : created_qers (est_form cfg control base P F U Q) = qer_item_id <$> Q.
Proof.
  unfold created_qers. change (sess_estab_req_create_qer_count _) with (Z.of_nat (length Q)).
  change (sess_estab_req_create_qer _) with (filled (qer_of <$> Q) zero_create_qer). rewrite take_filled, <- list_fmap_compose.
  done.
Qed.
Lemma named_qers_form cfg control d seq P F U Q :
  named_qers (est_form cfg control (est_base cfg d seq (Z.of_nat (length P))) P F U Q) =
    mjoin ((fun i => i.(item_pdr).(pdr_qers)) <$> P).
Proof.
  unfold named_qers. change (sess_estab_req_create_pdr_count _) with (Z.of_nat (length P)).
  change (sess_estab_req_create_pdr _) with (filled (pdr_of cfg control <$> P) zero_create_pdr).
  rewrite take_filled, <- list_fmap_compose. f_equal. apply list_fmap_ext. intros k i _. unfold compose.
  change (create_pdr_qer_id_count _) with (Z.of_nat (length i.(item_pdr).(pdr_qers))).
  change (create_pdr_qer_id _) with (filled ((fun v => with_qer_id v set_qer_id.1) <$> i.(item_pdr).(pdr_qers)) zero_qer_id).
  rewrite take_filled, <- list_fmap_compose. apply list_fmap_id.
Qed.

Lemma same_qer_In q Q : existsb (same_qer q) Q = true <-> q.(qer_id) ∈ qer_item_id <$> Q.
Proof.
  rewrite existsb_exists, list_elem_of_fmap. unfold same_qer, qer_item_id. split.
  - intros (x & Hin & E). apply Z.eqb_eq in E. exists x. rewrite list_elem_of_In. done.
  - intros (x & E & Hin). exists x. rewrite <- list_elem_of_In. split; [done|]. by apply Z.eqb_eq.
Qed.
Lemma add_qer_ids rule Q q : NoDup (qer_item_id <$> Q) ->
  NoDup (qer_item_id <$> add_qer rule Q q) ∧
  ∀ id, id ∈ qer_item_id <$> add_qer rule Q q <-> id ∈ qer_item_id <$> Q ∨ id = q.(qer_id).
Proof.
  intros HN. unfold add_qer. pose proof (same_qer_In q Q) as Hs. destruct (existsb (same_qer q) Q).
  - split; [done|]. intros id. split; [by left|]. intros [H| ->]; [done|by apply Hs].
  - rewrite fmap_app. cbn [fmap list_fmap]. split.
    + apply list.NoDup_app. split; [done|]. split; [|apply list.NoDup_singleton]. intros x Hx ->%list_elem_of_singleton.
      by apply Hs in Hx.
    + intros id. rewrite elem_of_app, list_elem_of_singleton. done.
Qed.
Lemma add_qers_ids table rule ids qs Q : qers_ok table -> mapM (fun id => table !! id) ids = Some qs ->
  NoDup (qer_item_id <$> Q) ->
  NoDup (qer_item_id <$> add_qers rule qs Q) ∧
  ∀ id, id ∈ qer_item_id <$> add_qers rule qs Q <-> id ∈ qer_item_id <$> Q ∨ id ∈ ids.
Proof.
  intros Ht. revert qs Q. induction ids as [|i ids IH]; intros qs Q Hm HN.
  { injection Hm as <-. split; [done|]. intros id. cbn. rewrite elem_of_nil. tauto. }
  cbn [mapM] in Hm. destruct (table !! i) as [q|] eqn:E; [|done]. cbn [mbind option_bind] in Hm.
  destruct (mapM _ ids) as [qs'|]; [|done]. injection Hm as <-. destruct (add_qer_ids rule Q q HN) as [HN1 H1].
  destruct (IH qs' (add_qer rule Q q) eq_refl HN1) as [HN2 H2]. split; [exact HN2|]. intros id.
  cbn [add_qers foldl]. fold (add_qers rule qs' (add_qer rule Q q)). rewrite H2, H1, elem_of_cons.
  destruct (Ht _ _ E) as [-> _]. tauto.
Qed.
Lemma plan_qers_ids table items Q Q' : qers_ok table -> plan_qers table items Q = Some Q' -> NoDup (qer_item_id <$> Q) ->
  NoDup (qer_item_id <$> Q') ∧
  ∀ id, id ∈ qer_item_id <$> Q' <-> id ∈ qer_item_id <$> Q ∨ id ∈ mjoin ((fun i => i.(item_pdr).(pdr_qers)) <$> items).
Proof.
  intros Ht. revert Q. induction items as [|i items IH]; intros Q; cbn [plan_qers].
  { intros [= ->] HN. split; [done|]. intros id. cbn. rewrite elem_of_nil. tauto. }
  destruct (mapM _ _) as [qs|] eqn:Em; [|done]. cbn [mbind option_bind]. intros HQ HN.
  destruct (add_qers_ids table i.(item_rule) _ qs Q Ht Em HN) as [HN1 H1]. destruct (IH _ HQ HN1) as [HN2 H2].
  split; [done|]. intros id. rewrite H2, H1. cbn [fmap list_fmap mjoin list_join]. rewrite elem_of_app. tauto.
Qed.

(** In the request that is filled, the quality enforcement rules that are created are
    distinct, and they are exactly those that the packet detection rules refer to. *)
Theorem sess_est_req_qers_once cfg upf seq old s s' items Q :
  session_rules cfg upf s = Some (Z.of_nat (length items), s') ->
  session_items s' s'.(pdn).(eps_bearers) = Some items -> Forall (item_ok cfg) items ->
  qers_ok s'.(qer_table) -> plan_qers s'.(qer_table) items [] = Some Q -> fits_request items Q ->
  Z.land upf.(up_supp_features) UP_TRACE = 0 ->
  ∃ req s'', fill_pfcp_sess_est_req cfg (Some upf) seq old s = Some (req, s'') ∧
    NoDup (created_qers req) ∧ ∀ id, id ∈ created_qers req <-> id ∈ named_qers req.
Proof.
  intros Hr Hi HF Ht HQ Hfit Hf.
  destruct (fill_est_req_form cfg upf seq old s s' items Q) as [ty E]; auto. do 2 eexists. split; [exact E|].
  rewrite created_qers_form, named_qers_form.
  destruct (plan_qers_ids _ _ _ _ Ht HQ) as [HN H]; [constructor|]. split; [done|]. intros id. rewrite H. cbn.
  rewrite elem_of_nil. tauto.
Qed.

(** ** The check of the receiver *)

Lemma check_first_none {A} (check : A -> option Z) xs rest : Forall (fun x => check x = None) xs ->
  check_first check (length xs) (xs ++ rest) = Some None.
Proof. induction 1 as [|x xs Hx HF IH]; [done|]. cbn [check_first length app]. by rewrite Hx. Qed.
Lemma check_filled {A B} (check : B -> option Z) (g : A -> B) l zero : Forall (fun x => check (g x) = None) l ->
  check_first check (Z.to_nat (Z.of_nat (length l))) (filled (g <$> l) zero) = Some None.
Proof.
  intros HF. rewrite Nat2Z.id, <- (length_fmap g l). apply check_first_none, Forall_fmap. exact HF.
Qed.
Lemma check_far_of cfg i : item_ok cfg i -> check_far (far_of i) = None.
Proof. intros ((Hi & _) & _). unfold far_of, est_create_far. by destruct Hi as [-> | ->]. Qed.
Lemma check_pdr_of cfg control i : item_ok cfg i -> check_pdr (pdr_of cfg control i) = None.
Proof.
  intros Hi. destruct (item_texts_ok cfg i Hi) as [HF Hl]. pose proof (filter_sizes_bound _ HF) as Hb.
  unfold check_pdr. change (ie_len (pdr_id_header _) =? 0) with false. change (ie_len (precedence_header _) =? 0) with false.
  change (ie_len (src_intfc_header _) =? 0) with false. cbv match.
  rewrite (proj2 (Z.eqb_neq _ _)); [done|].
  change (u16 (u16 (pdi_size (is_access i.(item_pdr)) control) + filter_sizes i.(item_texts)) ≠ 0). rewrite u16_add.
  unfold pdi_size. destruct (is_access _), control; rewrite uwrap_small; lia.
Qed.

(** C34: The check of a session establishment request (cause_check_sess_estab) accepts the
    request that is filled for a session with at least one rule, unless the features of the
    user plane have bit 2 or 3, which the code takes for tracing: the trace information then
    overwrites the counter of the packet detection rules, the request has FARs but no PDR,
    and the check misses the PDRs. *)
Theorem sess_est_req_checked cfg upf seq old s s' items Q :
  session_rules cfg upf s = Some (Z.of_nat (length items), s') ->
  session_items s' s'.(pdn).(eps_bearers) = Some items -> Forall (item_ok cfg) items -> items ≠ [] ->
  qers_ok s'.(qer_table) -> plan_qers s'.(qer_table) items [] = Some Q -> fits_request items Q ->
  ∃ req s'', fill_pfcp_sess_est_req cfg (Some upf) seq old s = Some (req, s'') ∧
    req.(sess_estab_req_create_far_count) = Z.of_nat (length items) ∧
    req.(sess_estab_req_create_pdr_count) = (if traced upf then 0 else Z.of_nat (length items)) ∧
    cause_check_sess_estab req =
      Some (if traced upf then (MANDATORYIEMISSING, PFCP_IE_PDR_ID) else (REQUESTACCEPTED, 0)).
Proof.
  intros Hr Hi HF Hne Ht HQ Hfit.
  destruct (fill_est_req_ends cfg upf seq old s s' items Q) as [ty E]; auto. do 2 eexists. split; [exact E|].
  assert (Z.of_nat (length items) ≠ 0) as Hz by (destruct items; [done|cbn; lia]).
  assert (Forall (fun i => check_far (far_of i) = None) items) as Hfar
    by (eapply list.Forall_impl; [exact HF|]; intros i; apply check_far_of).
  assert (Forall (fun i => check_pdr (pdr_of cfg (control_address s.(pdn)) i) = None) items) as Hpdr
    by (eapply list.Forall_impl; [exact HF|]; intros i; apply check_pdr_of).
  clear E. destruct (traced upf); (split; [done|]; split; [done|]); unfold cause_check_sess_estab;
    change (sess_estab_req_create_far_count _) with (Z.of_nat (length items));
    change (sess_estab_req_create_far _) with (filled (far_of <$> items) zero_create_far);
    rewrite (proj2 (Z.eqb_neq _ _) Hz), (check_filled check_far) by done; [done|].
  change (sess_estab_req_create_pdr_count _) with (Z.of_nat (length items)).
  change (sess_estab_req_create_pdr _) with (filled (pdr_of cfg (control_address s.(pdn)) <$> items) zero_create_pdr).
  by rewrite (proj2 (Z.eqb_neq _ _) Hz), (check_filled check_pdr).
Qed.

(** ** More rules than a bearer has room for *)

(** A bearer with [n] rules of the default quality, of which nothing was removed. *)
Definition holds_rules (cfg : session_config) (n : nat) (bearer : eps_bearer_t) : Prop :=
  length bearer.(pdrs) = (2 * n)%nat ∧ length bearer.(urr_ids) = (2 * n)%nat ∧ length bearer.(dynamic_rules) = n ∧
  qers_used cfg bearer = (2 * n + 1)%nat ∧ (n = 7%nat -> ambr_need cfg bearer = 0%nat).

Lemma side_no_room cfg s b bearer r rule iface slot : s.(h_bearers) !! b = Some bearer -> s.(h_rules) !! r = Some rule ->
  (length bearer.(urr_ids) < 16)%nat -> length bearer.(qer_ids) = 16%nat -> install_side cfg b r iface slot s = None.
Proof.
  intros Hb Hr Hu Hq. unfold install_side, generate_urr_id, generate_qer_id, set_offsets.
  unfold mbind, sesM_bind, sgets, smodify, sdef, load_bearer.
  cbn -[uwrap Z.lor push lookup]. rewrite Hb. cbn -[uwrap Z.lor push lookup]. rewrite push_fits by done.
  cbn -[uwrap Z.lor push lookup]. unfold push. by rewrite Hq.
Qed.

Lemma eighth_rule cfg s b bearer r rule : ready s b bearer -> holds_rules cfg 7 bearer ->
  s.(h_rules) !! r = Some rule -> lands s b rule.(rule_qos) ->
  install_rule cfg r s = None.
Proof.
  intros Hr (H1 & H2 & H3 & H4 & H5) Hl Hq. specialize (H5 eq_refl). unfold qers_used in H4. rewrite H5 in H4. unfold install_rule.
  assert (load_rule r s = Some (rule, s)) as El by (unfold load_rule; by rewrite Hl). sbind El.
  sbind (bearer_of_rule_lands cfg _ _ _ _ Hr Hq). sbind (eq_refl : sdef (Some b) s = Some (b, s)). sbind (load_bearer_ok _ _ _ Hr).
  rewrite push_fits by lia.
  match goal with |- context [(sdef (Some ?l) ≫= _) s] => sbind (eq_refl : sdef (Some l) s = Some (l, s)) end.
  assert (add_ambr_qer cfg s = Some (tt, s)) as Ea.
  { unfold ambr_need in H5. unfold add_ambr_qer. destruct (gx_enabled cfg); [|done].
    sbind (default_bearer_ok _ _ _ Hr). sbind (eq_refl : sdef (Some b) s = Some (b, s)). sbind (load_bearer_ok _ _ _ Hr).
    by destruct (ambr_qer_flag bearer). }
  sbind Ea.
  destruct (side_step cfg s b bearer r rule SOURCE_INTERFACE_VALUE_ACCESS 0) as (s2 & b2 & E2 & Hr2 & He2 & -> & _);
    auto; try lia. sbind E2. destruct (ex_rules _ _ He2 _ _ Hl) as (rule2 & Hl2 & _).
  unfold mbind, sesM_bind. erewrite side_no_room; [done|apply (rd_bearer _ _ _ Hr2)|exact Hl2|..];
    cbn -[length]; rewrite length_app; cbn; lia.
Qed.

Lemma rules_no_room cfg s b bearer rules last count n : ready s b bearer -> holds_rules cfg n bearer ->
  (n <= 7)%nat -> (8 <= n + length rules)%nat ->
  Forall (fun r => ∃ rule, s.(h_rules) !! r.(dyn_rule) = Some rule ∧ lands s b rule.(rule_qos)) rules ->
  install_rules cfg rules last count s = None.
Proof.
  revert s bearer last count n. induction rules as [|r rules IH]; intros s bearer last count n Hr Hn Hle Hge HF;
    cbn [length] in Hge; [lia|]. apply Forall_cons_1 in HF as [(rule & Hl & Hq) HF]. cbn [install_rules].
  set (s0 := set_ses_pdn (set_pdn_pending_pcc_rules rules s.(pdn)) s).
  sbind (eq_refl : update_pdn (set_pdn_pending_pcc_rules rules) s = Some (tt, s0)).
  assert (ready s0 b bearer) as Hr0 by (destruct Hr; split; done). assert (extends s s0) as He0 by (split; eauto).
  pose proof (lands_extends _ _ _ _ He0 Hq) as Hq0.
  destruct (decide (n = 7%nat)) as [->|Hne].
  { unfold mbind, sesM_bind. by rewrite (eighth_rule cfg s0 b bearer r.(dyn_rule) rule). }
  destruct Hn as (H1 & H2 & H3 & H4 & _).
  destruct (rule_step cfg s0 b bearer r.(dyn_rule) rule 0 Hr0) as (s1 & b1 & p1 & p2 & E1 & Hr1 & He1 & _ & Hp & Hd & Hu & Ha & Hi & _); auto.
  { unfold room. lia. }
  sbind E1. apply (IH s1 b1 _ _ (S n) Hr1); [|lia..|].
  - split_and!; [rewrite Hp, length_app; cbn; lia|lia|rewrite Hd, length_app; cbn; lia|lia|done].
  - eapply list.Forall_impl; [exact HF|]. intros r' (x & Hx & Hxq).
    destruct (ex_rules _ _ He1 _ x Hx) as (x' & Hx' & _ & Eq). exists x'. split; [done|]. rewrite Eq.
    by apply (lands_extends _ _ _ _ He1), (lands_extends _ _ _ _ He0).
Qed.

(** C36: With Gx, eight pending rules of the default bearer do not fit a fresh default bearer:
    seven of them take 15 of its 16 quality enforcement rules, one for the rates of the
    connection, and the eighth writes its second one behind the array. *)
Theorem eight_rules_overflow cfg s b bearer rules last :
  cfg.(gx_enabled) = true -> ready s b bearer ->
  bearer.(pdrs) = [] -> bearer.(qer_ids) = [] -> bearer.(urr_ids) = [] -> bearer.(dynamic_rules) = [] ->
  bearer.(ambr_qer_flag) = false -> (8 <= length rules)%nat ->
  Forall (fun r => ∃ rule, s.(h_rules) !! r.(dyn_rule) = Some rule ∧ lands s b rule.(rule_qos)) rules ->
  install_rules cfg rules last 0 s = None.
Proof.
  intros Hg Hr H1 H2 H3 H4 H5 Hl HF. apply (rules_no_room cfg s b bearer rules last 0 0 Hr); auto; [|lia].
  unfold holds_rules, qers_used, ambr_need. by rewrite H1, H2, H3, H4, H5, Hg.
Qed.

(** ** Sessions for which there is no request *)

Definition fails {A} (m : sesM A) : Prop := ∀ s, m s = None.
Lemma fails_first {A B} (m : sesM A) (k : A -> sesM B) : fails m -> fails (m ≫= k).
Proof. intros Hm s. unfold mbind, sesM_bind. by rewrite Hm. Qed.
Lemma fails_then {A B} (m : sesM A) (k : A -> sesM B) : (∀ x, fails (k x)) -> fails (m ≫= k).
Proof. intros Hk s. unfold mbind, sesM_bind. destruct (m s) as [[x s']|]; [apply Hk|done]. Qed.

(** The QER entries of a dedicated bearer are made with a NULL rule, which is followed. *)
Lemma dedicated_fails cfg b : cfg.(gx_enabled) = true -> fails (fill_dedicated_bearer_info cfg b).
Proof.
  intros Hg. unfold fill_dedicated_bearer_info. do 5 (apply fails_then; intros ?). apply fails_first. rewrite Hg.
  apply fails_then. intros _. apply fails_first, fails_first, fails_then. intros id. apply fails_first.
  unfold fill_qer_entry. do 2 (apply fails_then; intros ?). by do 2 apply fails_first.
Qed.
Lemma new_bearer_fails cfg q : cfg.(gx_enabled) = true -> fails (new_dedicated_bearer cfg q).
Proof.
  intros Hg. unfold new_dedicated_bearer. do 5 (apply fails_then; intros ?). destruct (set_s5s8_pgw_gtpu_teid_using_pdn _ _).
  do 3 (apply fails_then; intros ?). apply fails_first. by apply dedicated_fails.
Qed.

(** No bearer of the connection has the quality [q]. *)
Definition no_bearer (s : session) (q : bearer_qos_ie) : Prop :=
  Forall (fun o => ∀ b, o = Some b -> ∃ x, s.(h_bearers) !! b = Some x ∧ same_qos x.(qos) q = false) s.(pdn).(eps_bearers).

Lemma find_no_bearer s l q :
  Forall (fun o => ∀ b, o = Some b -> ∃ x, s.(h_bearers) !! b = Some x ∧ same_qos x.(qos) q = false) l ->
  find_bearer l q s = Some (None, s).
Proof.
  induction 1 as [|[b|] l Ho HF IH]; [done| |exact IH]. cbn [find_bearer]. destruct (Ho b eq_refl) as (x & Hx & Hq).
  assert (load_bearer b s = Some (x, s)) as E by (unfold load_bearer; by rewrite Hx). sbind E. by rewrite Hq.
Qed.

(** C35: On a gateway with the functions of a PDN gateway [fill_pfcp_sess_est_req] follows a NULL
    pointer when the policy gave no rule, and when Gx is in use and the first rule asks
    for a quality of its own, for which a dedicated bearer is made. *)
Theorem sess_est_req_null cfg upf seq old s :
  is_pgw s.(cp_type) = true ->
  (s.(pdn).(pending_pcc_rules) = [] ∨
   cfg.(gx_enabled) = true ∧ ∃ r rest rule, s.(pdn).(pending_pcc_rules) = r :: rest ∧
     s.(h_rules) !! r.(dyn_rule) = Some rule ∧
     same_qos s.(pdn).(default_bearer_qos) rule.(rule_qos) = false ∧ no_bearer s rule.(rule_qos)) ->
  fill_pfcp_sess_est_req cfg (Some upf) seq old s = None.
Proof.
  intros Ht Hp. unfold fill_pfcp_sess_est_req. sbind (eq_refl : sgets pdn s = Some (s.(pdn), s)). cbv zeta.
  assert (session_rules cfg upf s = None) as E; [|unfold mbind, sesM_bind; by rewrite E].
  unfold session_rules. sbind (eq_refl : sgets id s = Some (s, s)). rewrite Ht.
  destruct Hp as [-> | (Hg & r & rest & rule & -> & Hl & Hq & Hn)].
  - cbn [install_rules]. unfold mbind, sesM_bind, mret, sesM_ret, sgets. revert Ht. cbn. by destruct (cp_type s).
  - cbn [install_rules]. set (s0 := set_ses_pdn (set_pdn_pending_pcc_rules rest s.(pdn)) s).
    assert (install_rule cfg r.(dyn_rule) s0 = None) as E; [|unfold mbind, sesM_bind, update_pdn, smodify; fold s0; by rewrite E].
    unfold install_rule. assert (load_rule r.(dyn_rule) s0 = Some (rule, s0)) as El by (unfold load_rule; cbn -[lookup]; by rewrite Hl).
    sbind El. unfold mbind at 1, sesM_bind at 1.
    assert (bearer_of_rule cfg rule.(rule_qos) s0 = None) as ->; [|done].
    unfold bearer_of_rule, compare_default_bearer_qos. sbind (eq_refl : sgets pdn s0 = Some (s0.(pdn), s0)).
    change (default_bearer_qos (pdn s0)) with (default_bearer_qos (pdn s)). rewrite Hq.
    assert (get_bearer rule.(rule_qos) s0 = Some (None, s0)) as Eg by exact (find_no_bearer s0 _ _ Hn).
    cbv match. change (-1 =? 0) with false. cbv match. sbind Eg.
    unfold mbind, sesM_bind. by rewrite (new_bearer_fails cfg _ Hg).
Qed.

(** The features of the node do not ask for tracing. *)
Definition no_trace (upf : option upf_context_t) : Prop :=
  match upf with Some u => traced u = false | None => True end.

(** ** Modification requests *)

(** The PDRs of bearers, in order. *)
Definition pdrs_at (s : session) (bearers : list (option ptr)) : option (list pdr_t) :=
  l ← mapM (bearer_pdrs s) bearers; mapM (fun p => s.(h_pdrs) !! p) (mjoin l).

Fixpoint each {A R} (f : A -> R -> option R) (l : list A) (req : R) : option R :=
  match l with [] => Some req | x :: l' => r ← f x req; each f l' r end.

Lemma for_pdrs_each f l pl req s : mapM (fun p => s.(h_pdrs) !! p) l = Some pl ->
  for_pdrs f l req s = r ← each f pl req; Some (r, s).
Proof.
  revert pl req. induction l as [|p l IH]; intros pl req Hm; [by injection Hm as <-|]. cbn [mapM] in Hm.
  destruct (s.(h_pdrs) !! p) as [pdr|] eqn:E; [|done]. cbn [mbind option_bind] in Hm.
  destruct (mapM _ l) as [pl'|]; [|done]. injection Hm as <-. cbn [for_pdrs each].
  unfold mbind, sesM_bind, load_pdr, sdef, mbind. rewrite E. cbn [option_bind].
  destruct (f pdr req) as [r|]; [|done]. cbn [option_bind]. by apply IH.
Qed.
Lemma each_app {A R} (f : A -> R -> option R) l1 l2 req : each f (l1 ++ l2) req = r ← each f l1 req; each f l2 r.
Proof.
  revert req. induction l1 as [|x l1 IH]; intros req; [done|]. cbn [app each].
  destruct (f x req) as [r|]; [|done]. cbn [mbind option_bind]. apply IH.
Qed.
Lemma for_bearers_each f bearers pl req s : pdrs_at s bearers = Some pl ->
  for_bearers f bearers req s = r ← each f pl req; Some (r, s).
Proof.
  unfold pdrs_at. revert pl req. induction bearers as [|o bearers IH]; intros pl req Hm; [by injection Hm as <-|].
  cbn [mapM] in Hm. destruct (bearer_pdrs s o) as [l|] eqn:Eo; [|done]. cbn [mbind option_bind] in Hm.
  destruct (mapM (bearer_pdrs s) bearers) as [ls|]; [|done]. cbn [mbind option_bind mret option_ret mjoin list_join] in Hm.
  apply mapM_split in Hm as (p1 & p2 & E1 & E2 & ->). rewrite each_app. destruct o as [b|]; cbn [for_bearers bearer_pdrs] in *.
  2: { injection Eo as <-. injection E1 as <-. by apply IH. }
  unfold mbind, sesM_bind, load_bearer, mbind. destruct (s.(h_bearers) !! b) as [bearer|]; [|done]. injection Eo as <-.
  cbn [option_bind]. rewrite (for_pdrs_each _ _ p1) by done. unfold mbind. destruct (each f p1 req) as [r|]; [|done].
  cbn [option_bind]. by apply IH.
Qed.

(** The structure that removes a PDR, and the request with [l] of them. *)
Definition remove_of (pdr : pdr_t) : pfcp_remove_pdr_ie_t :=
  mk_remove_pdr removing_pdr.(remove_pdr_header) (with_rule_id pdr.(rule_id) removing_pdr.(remove_pdr_pdr_id)).
Definition remove_form (base : pfcp_sess_mod_req_t) (l : list pdr_t) : pfcp_sess_mod_req_t :=
  set_sess_mod_req_remove_pdr_count (Z.of_nat (length l))
    (set_sess_mod_req_remove_pdr (filled (remove_of <$> l) zero_remove_pdr) base).

Lemma remove_each base l done : (length done + length l <= 16)%nat ->
  each (fun pdr => add_remove_pdr pdr.(rule_id)) l (remove_form base done) = Some (remove_form base (done ++ l)).
Proof.
  revert done. induction l as [|pdr l IH]; intros done Hl; [by rewrite app_nil_r|]. cbn [length] in Hl. cbn [each].
  unfold add_remove_pdr, array_alter. change (sess_mod_req_remove_pdr_count (remove_form base done)) with (Z.of_nat (length done)).
  change (sess_mod_req_remove_pdr (remove_form base done)) with (filled (remove_of <$> done) zero_remove_pdr).
  rewrite array_at_next by lia. cbn [mbind option_bind]. fold (remove_of pdr). rewrite array_set_next by lia.
  cbn [mbind option_bind]. rewrite (count_next done pdr) by lia.
  specialize (IH (done ++ [pdr])). rewrite <- app_assoc in IH. apply IH. rewrite length_app. cbn. lia.
Qed.

(** The reference form: the header and the session of the control plane, then the elements. *)
Definition ref_mod_request (cfg : session_config) (d : pdn_connection_t) (seq : Z) (body : layout) : layout :=
  [(3, 1); (3, 0); (1, 0); (1, 1); (8, PFCP_SESSION_MODIFICATION_REQUEST); (16, 0);
   (64, d.(dp_seid)); (24, uwrap 24 seq); (4, 0); (4, 0)] ++
  ie PFCP_IE_FSEID ([(1, 0); (1, 0); (1, 0); (1, 0); (1, 0); (1, 0); (1, 1); (1, 0); (64, d.(seid))] ++
                    octets (le_bytes 4 cfg.(pfcp_ip))) ++ body.
Definition ref_remove (pdr : pdr_t) : layout := ie PFCP_IE_REMOVE_PDR (ie PFCP_IE_PDR_ID [(16, pdr.(rule_id))]).

(** The members in front of the elements. *)
Definition mod_base (cfg : session_config) (d : pdn_connection_t) (seq : Z) : pfcp_sess_mod_req_t :=
  set_sess_mod_req_cp_fseid (set_fseid zero_fseid d.(seid) cfg.(pfcp_ip))
    (set_sess_mod_req_header (request_header PFCP_SESSION_MODIFICATION_REQUEST seq d.(dp_seid)) zero_sess_mod_req).
(** The number that [generate_seq_no] gives next. *)
Definition next_seq (s : session) : Z := u32 (s.(ids).(pfcp_seq_no_offset) + 1).
Lemma mod_start_ok cfg s n : ∃ s', mod_start cfg (set_sess_mod_req_update_far_count n zero_sess_mod_req) s =
    Some ((next_seq s, set_sess_mod_req_update_far_count n (mod_base cfg s.(pdn) (next_seq s))), s') ∧
  s'.(cp_type) = s.(cp_type) ∧ s'.(h_bearers) = s.(h_bearers) ∧ s'.(h_pdrs) = s.(h_pdrs).
Proof.
  destruct (generate_seq_no s) as [[seq s']|] eqn:E; [|done]. exists s'. unfold mod_start. sbind E.
  by injection E as <- <-.
Qed.

Lemma at_no_array {T} (xs : list T) body m2 L : places 8 m2 L -> places 8 (enc_for xs 0 0 body ⨾ m2) L.
Proof. apply (at_next _ _ [] L), places_skip. by right. Qed.
Ltac at_skip := repeat first [apply at_absent|apply at_no_array].
Lemma at_nothing : places 8 enc_skip [].
Proof. apply places_skip. by right. Qed.

Lemma remove_writes pdr :
  (remove_pdr_header (remove_of pdr)).(ie_len) ≠ 0 ∧ writes8 (encode_pfcp_remove_pdr_ie_t (remove_of pdr)) (ref_remove pdr).
Proof.
  split; [done|]. split; [unfold ref_remove; eauto with whole|]. unfold ref_remove.
  rewrite <- (ie_layout_header PFCP_IE_REMOVE_PDR 6); [|done|lia|reflexivity].
  apply encodes_enc_bytes, places_ie_header. apply places_elem. by apply pdr_id_writes.
Qed.

(** The request that removes the rules of bearers is encoded with the session of the user
    plane and one Remove PDR for every PDR of these bearers, in order. *)
Theorem remove_pdr_request cfg upf bearers old s l :
  pdrs_at s bearers = Some l -> (length l <= 16)%nat -> 0 <= cfg.(pfcp_ip) < 2 ^ 32 ->
  ∃ req s', fill_pfcp_sess_mod_req_pgw_init_remove_pdr cfg (Some upf) bearers old s = Some (req, s') ∧
    let L := ref_mod_request cfg s.(pdn) (next_seq s) (mjoin (ref_remove <$> l)) in
    encodes (encode_pfcp_sess_mod_req_t req) L (size L / 8).
Proof.
  intros Hp Hl Hip. destruct (mod_start_ok cfg s 0) as (s' & E & _ & Eb & Ep). set (seq := next_seq s) in *.
  exists (remove_form (mod_base cfg s.(pdn) seq) l), s'. split.
  { unfold fill_pfcp_sess_mod_req_pgw_init_remove_pdr. sbind E. rewrite (for_bearers_each _ bearers l).
    - exact (f_equal (fun o => r ← o; Some (r, s')) (remove_each (mod_base cfg s.(pdn) seq) l [] Hl)).
    - unfold pdrs_at, bearer_pdrs in *. by rewrite Eb, Ep. }
  apply (encodes_enc_bits 8); [by right|]. apply (places_header (request_header _ seq s.(pdn).(dp_seid))); [done|].
  apply at_next; [apply at_elem; by apply fseid_writes8|]. do 15 apply at_absent.
  apply at_last; [apply at_array, list.Forall_true, remove_writes|]. at_skip. apply at_nothing.
Qed.

(** *** Forwarding to the base station *)

(** The Update FAR of the rule [pdr] with the tunnel that the caller filled in [from]. *)
Definition ref_update_far (flag : bool) (pdr : pdr_t) (from : pfcp_update_far_ie_t) : layout :=
  let tunnel := from.(update_far_upd_frwdng_parms).(upd_frwdng_parms_outer_hdr_creation) in
  ie PFCP_IE_UPDATE_FAR
    (ref_id PFCP_IE_FAR_ID pdr.(far_id_value) ++
     ie PFCP_IE_APPLY_ACTION [(1, 0); (1, 0); (1, 0); (1, 0); (1, 0); (1, 0); (1, 1); (1, 0)] ++
     ie PFCP_IE_UPD_FRWDNG_PARMS
       (ie PFCP_IE_DST_INTFC
          [(4, 0); (4, from.(update_far_upd_frwdng_parms).(upd_frwdng_parms_dst_intfc).(dst_intfc_interface_value))] ++
        ie PFCP_IE_OUTER_HDR_CREATION
          [(16, 0x0100); (32, tunnel.(outer_hdr_creation_teid)); (32, tunnel.(outer_hdr_creation_ipv4_address))] ++
        (if flag then ie PFCP_IE_PFCPSMREQ_FLAGS [(1, 0); (1, 0); (1, 0); (1, 0); (1, 0); (1, 0); (1, 1); (1, 0)] else []))).

Definition upd_parms_form (flag : bool) (from : pfcp_update_far_ie_t) : pfcp_upd_frwdng_parms_ie_t :=
  let src := from.(update_far_upd_frwdng_parms) in
  let tunnel := src.(upd_frwdng_parms_outer_hdr_creation) in
  let x := set_upd_frwdng_parms_outer_hdr_creation
             (with_hdr_creation tunnel.(outer_hdr_creation_teid) tunnel.(outer_hdr_creation_ipv4_address)
                (set_outer_header_creation zero_outer_hdr_creation).1)
             (set_upd_frwdng_parms_dst_intfc
                (with_dst_intfc src.(upd_frwdng_parms_dst_intfc).(dst_intfc_interface_value) set_destination_interface.1)
                zero_upd_frwdng_parms) in
  set_upd_frwdng_parms_header (ie_header PFCP_IE_UPD_FRWDNG_PARMS (if flag then 24 else 19))
    (set_upd_frwdng_parms_pfcpsmreq_flags
       (if flag then mk_pfcpsmreq_flags (ie_header PFCP_IE_PFCPSMREQ_FLAGS 1) 0 0 0 0 0 0 1 0 else zero_pfcpsmreq_flags) x).
Definition update_far_form (flag : bool) (pdr : pdr_t) (from : pfcp_update_far_ie_t) : pfcp_update_far_ie_t :=
  set_update_far_header (ie_header PFCP_IE_UPDATE_FAR (if flag then 41 else 36))
    (set_update_far_far_id (mk_far_id (pfcp_set_ie_header PFCP_IE_FAR_ID 4) pdr.(far_id_value))
      (set_update_far_apply_action (with_action 1 0 set_apply_action.1)
        (set_update_far_upd_frwdng_parms (upd_parms_form flag from) zero_update_far))).
Lemma mod_update_far_form flag pdr from : mod_update_far_of pdr from flag zero_update_far = update_far_form flag pdr from.
Proof. by destruct flag. Qed.

Lemma sndem_places : places 1 (enc_when true (ecall_octets (encode_pfcp_pfcpsmreq_flags_ie_t
    (mk_pfcpsmreq_flags (ie_header PFCP_IE_PFCPSMREQ_FLAGS 1) 0 0 0 0 0 0 1 0))))
  (ie PFCP_IE_PFCPSMREQ_FLAGS [(1, 0); (1, 0); (1, 0); (1, 0); (1, 0); (1, 0); (1, 1); (1, 0)]).
Proof.
  apply ecall_octets_ok; [done|done|].
  exact (ie_encodes (mk_pfcpsmreq_flags (ie_header PFCP_IE_PFCPSMREQ_FLAGS 1) 0 0 0 0 0 0 1 0)).
Qed.

Lemma update_far_encodes flag pdr from :
  0 <= from.(update_far_upd_frwdng_parms).(upd_frwdng_parms_dst_intfc).(dst_intfc_interface_value) < 16 ->
  encodes (encode_pfcp_update_far_ie_t (mod_update_far_of pdr from flag zero_update_far)) (ref_update_far flag pdr from)
    (size (ref_update_far flag pdr from) / 8).
Proof.
  intros Hd. rewrite mod_update_far_form. unfold ref_update_far. cbv zeta.
  rewrite <- (ie_layout_header PFCP_IE_UPDATE_FAR (if flag then 41 else 36)); [|done|by destruct flag|by destruct flag].
  apply encodes_enc_bytes, places_ie_header.
  apply place_next; [apply places_elem; by apply far_id_writes|].
  apply place_next; [apply places_elem; by apply apply_action_writes|].
  apply place_last; [apply places_nz; [by destruct flag|]|skip_absent; apply place_nothing].
  split; [destruct flag; eauto 10 with whole|]. rewrite <- (Z.div_1_r (size _)).
  rewrite <- (ie_layout_header PFCP_IE_UPD_FRWDNG_PARMS (if flag then 24 else 19)); [|done|by destruct flag|by destruct flag].
  apply (encodes_enc_bits 1); [by left|]. apply places_ie_header.
  unfold update_far_form, upd_parms_form, with_dst_intfc. cbv zeta. rewrite (uwrap_small 4 _ Hd).
  apply place_next; [apply places_elem; by apply dst_intfc_writes|]. skip_absent.
  apply place_next; [apply places_elem; by apply hdr_creation_writes|]. skip_absent.
  destruct flag; [|skip_absent; apply places_none].
  apply place_last; [exact sndem_places|]. skip_absent. apply places_none.
Qed.

(** The PDRs of the core side with the tunnel at their index. *)
Definition core_pairs (l : list pdr_t) (from : list pfcp_update_far_ie_t) : list (pdr_t * pfcp_update_far_ie_t) :=
  List.filter (fun '(pdr, _) => negb (is_access pdr)) (zip l from).

Lemma mod_update_fars_ok flag from l itr D : (itr + length l <= length from)%nat -> (length D + length l <= 16)%nat ->
  mod_update_fars flag from (Z.of_nat itr) (Z.of_nat (length D)) l
    (filled ((fun '(pdr, f) => mod_update_far_of pdr f flag zero_update_far) <$> D) zero_update_far) =
  Some (filled ((fun '(pdr, f) => mod_update_far_of pdr f flag zero_update_far) <$> (D ++ core_pairs l (drop itr from)))
          zero_update_far).
Proof.
  revert itr D. induction l as [|pdr l IH]; intros itr D Hi Hl; [by rewrite app_nil_r|]. cbn [length] in Hi, Hl.
  destruct (lookup_lt_is_Some_2 from itr) as [f Hf]; [lia|]. rewrite (drop_S from f itr Hf).
  change (core_pairs (pdr :: l) (f :: drop (S itr) from)) with
    (if negb (is_access pdr) then (pdr, f) :: core_pairs l (drop (S itr) from) else core_pairs l (drop (S itr) from)).
  cbn [mod_update_fars]. fold (is_access pdr). replace (Z.of_nat itr + 1) with (Z.of_nat (S itr)) by lia.
  destruct (is_access pdr); cbn [negb]; [apply IH; lia|].
  assert (array_at from (Z.of_nat itr) = Some f) as ->.
  { unfold array_at. rewrite (proj2 (Z.leb_le 0 _)) by lia. by rewrite Nat2Z.id. }
  cbn [mbind option_bind]. unfold array_alter. rewrite array_at_next by lia. cbn [mbind option_bind].
  change (mod_update_far_of pdr f flag zero_update_far) with
    ((fun '(pdr, f) => mod_update_far_of pdr f flag zero_update_far) (pdr, f)).
  rewrite array_set_next by lia. cbn [mbind option_bind].
  replace (Z.of_nat (length D) + 1) with (Z.of_nat (length (D ++ [(pdr, f)]))) by (rewrite length_app; cbn; lia).
  specialize (IH (S itr) (D ++ [(pdr, f)])). rewrite <- app_assoc in IH. apply IH; [lia|]. rewrite length_app. cbn. lia.
Qed.

Lemma load_pdrs_ok l pl s : mapM (fun p => s.(h_pdrs) !! p) l = Some pl -> load_pdrs l s = Some (pl, s).
Proof.
  revert pl. induction l as [|p l IH]; intros pl Hm; [by injection Hm as <-|]. cbn [mapM] in Hm.
  destruct (s.(h_pdrs) !! p) as [pdr|] eqn:E; [|done]. cbn [mbind option_bind] in Hm.
  destruct (mapM _ l) as [pl'|]; [|done]. injection Hm as <-. cbn [load_pdrs].
  assert (load_pdr p s = Some (pdr, s)) as El by (unfold load_pdr; by rewrite E). sbind El. by sbind (IH pl' eq_refl).
Qed.

Lemma update_far_writes flag pdr from :
  0 <= from.(update_far_upd_frwdng_parms).(upd_frwdng_parms_dst_intfc).(dst_intfc_interface_value) < 16 ->
  let x := mod_update_far_of pdr from flag zero_update_far in
  x.(update_far_header).(ie_len) ≠ 0 ∧ writes8 (encode_pfcp_update_far_ie_t x) (ref_update_far flag pdr from).
Proof.
  intros Hd x. subst x. rewrite mod_update_far_form. split; [by destruct flag|].
  rewrite <- mod_update_far_form. split; [destruct flag; unfold ref_update_far; eauto 10 with whole|].
  by apply update_far_encodes.
Qed.

(** The structure that [fill_pfcp_sess_mod_req] returns when no PDR is created. *)
Definition forward_form (base : pfcp_sess_mod_req_t) (fars : list pfcp_update_far_ie_t) : pfcp_sess_mod_req_t :=
  set_sess_mod_req_pfcpsmreq_flags (mk_pfcpsmreq_flags (with_ie_len 0 set_pfcpsmreqflags.(pfcpsmreq_flags_header)) 0 0 0 0 0 0 0 0)
    (set_sess_mod_req_update_far fars base).

Lemma fill_mod_req_form cfg upf b bearer pl update_far flag n s :
  s.(h_bearers) !! b = Some bearer -> mapM (fun p => s.(h_pdrs) !! p) bearer.(pdrs) = Some pl ->
  (length pl <= 16)%nat -> (length pl <= length update_far)%nat -> no_trace upf ->
  ∃ s', fill_pfcp_sess_mod_req cfg upf (set_sess_mod_req_update_far_count n zero_sess_mod_req) b update_far flag s =
    Some ((next_seq s, forward_form (set_sess_mod_req_update_far_count n (mod_base cfg s.(pdn) (next_seq s)))
      (filled ((fun '(pdr, f) => mod_update_far_of pdr f flag zero_update_far) <$> core_pairs pl update_far) zero_update_far)), s').
Proof.
  intros Hb Hp Hl Hf Ht. destruct (mod_start_ok cfg s n) as (s' & E & _ & Eb & Ep). exists s'.
  assert (load_bearer b s' = Some (bearer, s')) as El by (unfold load_bearer; by rewrite Eb, Hb).
  assert (load_pdrs bearer.(pdrs) s' = Some (pl, s')) as Ell by (apply load_pdrs_ok; by rewrite Ep).
  pose proof (mod_update_fars_ok flag update_far pl 0 [] ltac:(done) Hl) as Eu. rewrite drop_0 in Eu. cbn [app] in Eu.
  set (fars := filled (_ <$> core_pairs pl update_far) _) in *.
  unfold fill_pfcp_sess_mod_req. sbind E. cbv beta iota.
  change (nz (sess_mod_req_create_pdr_count (set_sess_mod_req_update_far_count n _))) with false. cbv match.
  match goal with |- context [(mret ?x ≫= ?k) s'] => change ((mret x ≫= k) s') with (k x s') end. cbv beta zeta.
  sbind El. sbind Ell.
  match goal with |- context [(sdef ?o ≫= _) s'] => assert (sdef o s' = Some (fars, s')) as Es end.
  { exact (f_equal (fun o => x ← o; Some (x, s')) Eu). }
  sbind Es. sbind (eq_refl : sgets cp_type s' = Some (s'.(cp_type), s')).
  destruct (cp_type s'), upf as [u|]; cbn [no_trace] in Ht; unfold traced in Ht; rewrite ?Ht; reflexivity.
Qed.

(** C31: The modification request that is filled when the base station is known, for a user
    plane without the feature bits of tracing, makes every
    core PDR of the bearer forward: for a request that counts one FAR for each of them it is
    encoded with the session of the user plane and one Update FAR per core PDR, with the
    tunnel that the caller filled at the index of the PDR and, after a handover, the flag
    that asks for an end marker; the FARs of the access side are left out. *)
Theorem mod_req_forwards cfg upf b bearer pl update_far flag s :
  s.(h_bearers) !! b = Some bearer -> mapM (fun p => s.(h_pdrs) !! p) bearer.(pdrs) = Some pl ->
  (length pl <= 16)%nat -> (length pl <= length update_far)%nat -> no_trace upf -> 0 <= cfg.(pfcp_ip) < 2 ^ 32 ->
  Forall (fun f => 0 <= f.(update_far_upd_frwdng_parms).(upd_frwdng_parms_dst_intfc).(dst_intfc_interface_value) < 16)
    update_far ->
  let core := core_pairs pl update_far in
  let count := Z.of_nat (length core) in
  ∃ req s', fill_pfcp_sess_mod_req cfg upf (set_sess_mod_req_update_far_count count zero_sess_mod_req) b update_far flag s =
      Some ((next_seq s, req), s') ∧
    let L := ref_mod_request cfg s.(pdn) (next_seq s) (mjoin ((fun '(pdr, f) => ref_update_far flag pdr f) <$> core)) in
    encodes (encode_pfcp_sess_mod_req_t req) L (size L / 8).
Proof.
  intros Hb Hp Hl Hf Ht Hip HF core count.
  destruct (fill_mod_req_form cfg upf b bearer pl update_far flag count s) as [s' E]; auto.
  do 2 eexists. split; [exact E|].
  apply (encodes_enc_bits 8); [by right|]. apply (places_header (request_header _ (next_seq s) s.(pdn).(dp_seid))); [done|].
  apply at_next; [apply at_elem; by apply fseid_writes8|]. at_skip.
  apply at_last; [|at_skip; apply at_nothing].
  apply at_array. apply list.Forall_forall. intros [pdr from] Hin. apply update_far_writes.
  rewrite list.Forall_forall in HF. apply HF. apply list_elem_of_In in Hin. apply list_elem_of_In.
  apply List.filter_In in Hin as [Hin _]. by apply in_combine_r in Hin.
Qed.

(** *** Update PDR *)

Lemma load_rules_state l s xs s' : load_rules l s = Some (xs, s') -> s' = s.
Proof.
  revert xs s'. induction l as [|r l IH]; intros xs s' H; [by injection H|]. cbn [load_rules] in H.
  unfold mbind, sesM_bind, load_rule in H. destruct (s.(h_rules) !! r) as [x|]; [|done]. cbn [mbind option_bind] in H.
  destruct (load_rules l s) as [[ys s1]|] eqn:E; [|done]. specialize (IH _ _ eq_refl) as ->. by injection H.
Qed.

Lemma update_pdrs_short b n k itr req s bearer : s.(h_bearers) !! b = Some bearer ->
  (itr <= length bearer.(pdrs) < itr + k)%nat -> update_pdrs b n k itr req s = None.
Proof.
  intros Hb. revert itr req. induction k as [|k IH]; intros itr req Hl; [lia|]. cbn [update_pdrs].
  assert (load_bearer b s = Some (bearer, s)) as El by (unfold load_bearer; by rewrite Hb). sbind El.
  destruct (bearer.(pdrs) !! itr) as [p|] eqn:Ei; [|done]. pose proof (lookup_lt_Some _ _ _ Ei).
  sbind (eq_refl : sdef (Some p) s = Some (p, s)). unfold mbind, sesM_bind, load_pdr, sdef, sgets.
  destruct (s.(h_pdrs) !! p) as [pdr|]; [|done]. cbn [mbind option_bind].
  destruct (load_rules bearer.(dynamic_rules) s) as [[rules s1]|] eqn:Er; [|done].
  apply load_rules_state in Er as ->.
  destruct (array_at _ _) as [x|]; [|done]. cbn [mbind option_bind].
  destruct (update_pdr_of _ _ _ _) as [x'|]; [|done]. cbn [mbind option_bind].
  destruct (array_set _ _ _) as [l|]; [|done]. cbn [mbind option_bind]. apply IH. lia.
Qed.

(** [fill_update_pdr] reads 16 PDRs of the bearer, whatever their number: for a bearer with
    fewer it follows a pointer that was never set. *)
Theorem update_pdr_reads_sixteen req b bearer s :
  s.(h_bearers) !! b = Some bearer -> (length bearer.(pdrs) < 16)%nat -> fill_update_pdr req b s = None.
Proof.
  intros Hb Hl. unfold fill_update_pdr. unfold mbind, sesM_bind. by rewrite (update_pdrs_short _ _ _ _ _ _ bearer); [|done|unfold NUMBER_PER_BEARER; lia].
Qed.

(** ** A session *)

#[global] Instance text_ok_dec t : Decision (text_ok t).
Proof. unfold text_ok. apply _. Defined.
#[global] Instance flow_is_dec f t : Decision (flow_is f t).
Proof. unfold flow_is. apply _. Defined.
#[global] Instance item_ok_dec cfg i : Decision (item_ok cfg i).
Proof. unfold item_ok, side_ok, urrs_ok, rule_texts, bytes_ok, byte_ok. apply _. Defined.
#[global] Instance qers_ok_dec table : Decision (qers_ok table).
Proof. unfold qers_ok, qer_ok. apply (map_Forall_dec (fun id q => q.(qer_id) = id ∧ qer_ok q)). Defined.
#[global] Instance fits_request_dec items Q : Decision (fits_request items Q).
Proof. unfold fits_request. apply _. Defined.

(** A subscriber with a default bearer, for which the policy gave two rules. *)
Definition sample_cfg : session_config := mk_config true true 0x0100000a.
Definition sample_upf : upf_context_t := mk_upf 0x10 0x0a000001 0x0a000002 0x0a000003.
Definition sample_qos : bearer_qos_ie := mk_qos 9 100000 200000 0 0 0 8 1.
Definition sample_flow (dir : Z) (t : string) : flow_desc_t :=
  mk_flow dir (set_flt_direction dir zero_fltr) (str_bytes t ++ [0]) (Z.of_nat (String.length t)).
Definition sample_rule (name : string) (prec : Z) : dynamic_rule_t :=
  mk_rule 0 0 FL_ENABLED 0 prec 0 0 0 name [] sample_qos 2
    [sample_flow TFT_DIRECTION_UPLINK_ONLY "permit out ip from any to 10.0.0.1";
     sample_flow TFT_DIRECTION_BIDIRECTIONAL "permit out ip from any to any"] [None; None].
Definition sample_bearer : eps_bearer_t := mk_bearer 5 [] [] [] sample_qos 0x0a000001 0x101 0 0 0 0 [] false.
Definition sample_add (l : list ptr) : list pcc_rule_t := mk_pcc RULE_ACTION_ADD <$> l.
Definition sample_pdn (rules : list ptr) : pdn_connection_t :=
  mk_pdn 0 7 [] 0 1000000 2000000 0x1001 0x2001 0x0a0a0001 0x30 1 0 5 1 (Some 1%positive :: repeat None 14) true
    sample_qos (sample_add rules) PDN_ADDR_ALLOC_CONTROL.
Definition sample_session (ty : cp_type_t) (rules : list ptr) : session :=
  mk_session ty (sample_pdn rules) (mk_ue 208010000000001 0 0 1 6 0 (mk_nw 0 1 15 2 0 8) (Some 1%positive :: repeat None 14) 0 (Some sample_upf))
    {[1%positive := sample_bearer]} ∅
    (list_to_map ((fun i => (Pos.of_nat i, sample_rule "rule" (Z.of_nat i))) <$> seq 2 9)) ∅ ∅ ∅ (mk_offsets 0 0 0 0 0)
    initial_teids 50.

Definition sample_start : session := sample_session SAEGWC [2; 3]%positive.
Definition sample_after : session := match session_rules sample_cfg sample_upf sample_start with Some (_, s) => s | None => sample_start end.
Definition sample_items : list item := default [] (session_items sample_after sample_after.(pdn).(eps_bearers)).
Definition sample_qers : list qer_item := default [] (plan_qers sample_after.(qer_table) sample_items []).

(** Four PDRs, and five QERs: one for each, and that of the connection. *)
Example sample_counts : (length sample_items, length sample_qers, length (plan_urrs sample_items)) = (4, 5, 4)%nat.
Proof. vm_compute. reflexivity. Qed.

Lemma sess_est_req_refines_witness :
  ∃ req s'', fill_pfcp_sess_est_req sample_cfg (Some sample_upf) 9 zero_sess_estab_req sample_start = Some (req, s'') ∧
    let L := ref_request sample_cfg sample_start.(pdn) 9 sample_items (plan_urrs sample_items) sample_qers in
    encodes (encode_pfcp_sess_estab_req_t req) L (size L / 8).
Proof.
  apply (sess_est_req_refines sample_cfg sample_upf 9 zero_sess_estab_req sample_start sample_after sample_items sample_qers).
  - vm_compute. reflexivity.
  - vm_compute. reflexivity.
  - apply (bool_decide_unpack _). vm_compute. exact I.
  - apply (bool_decide_unpack _). vm_compute. exact I.
  - vm_compute. reflexivity.
  - apply (bool_decide_unpack _). vm_compute. exact I.
  - reflexivity.
  - split; [discriminate|reflexivity].
  - split; [discriminate|reflexivity].
Defined.

Lemma sess_est_req_qers_once_witness :
  ∃ req s'', fill_pfcp_sess_est_req sample_cfg (Some sample_upf) 9 zero_sess_estab_req sample_start = Some (req, s'') ∧
    NoDup (created_qers req) ∧ ∀ id, id ∈ created_qers req <-> id ∈ named_qers req.
Proof.
  apply (sess_est_req_qers_once sample_cfg sample_upf 9 zero_sess_estab_req sample_start sample_after sample_items
    sample_qers).
  - vm_compute. reflexivity.
  - vm_compute. reflexivity.
  - apply (bool_decide_unpack _). vm_compute. exact I.
  - apply (bool_decide_unpack _). vm_compute. exact I.
  - vm_compute. reflexivity.
  - apply (bool_decide_unpack _). vm_compute. exact I.
  - reflexivity.
Defined.

(** The same node, once with features that are taken for tracing. *)
Definition tracing_upf : upf_context_t := mk_upf 4 0x0a000001 0 0.
Lemma sess_est_req_checked_witness :
  (∃ req s'', fill_pfcp_sess_est_req sample_cfg (Some sample_upf) 9 zero_sess_estab_req sample_start = Some (req, s'') ∧
    req.(sess_estab_req_create_far_count) = 4 ∧ req.(sess_estab_req_create_pdr_count) = 4 ∧
    cause_check_sess_estab req = Some (REQUESTACCEPTED, 0)) ∧
  (∃ req s'', fill_pfcp_sess_est_req sample_cfg (Some tracing_upf) 9 zero_sess_estab_req sample_start = Some (req, s'') ∧
    req.(sess_estab_req_create_far_count) = 4 ∧ req.(sess_estab_req_create_pdr_count) = 0 ∧
    cause_check_sess_estab req = Some (MANDATORYIEMISSING, PFCP_IE_PDR_ID)).
Proof.
  split;
    [ apply (sess_est_req_checked sample_cfg sample_upf 9 zero_sess_estab_req sample_start sample_after sample_items
        sample_qers)
    | apply (sess_est_req_checked sample_cfg tracing_upf 9 zero_sess_estab_req sample_start sample_after sample_items
        sample_qers) ].
  1, 2, 6, 8, 9, 13: vm_compute; reflexivity.
  1, 3, 4, 5, 7, 8: apply (bool_decide_unpack _); vm_compute; exact I.
  all: intros H; apply (f_equal (@length item)) in H; vm_compute in H; discriminate.
Defined.

Lemma sample_ready rules : ready (sample_session SAEGWC rules) 1 sample_bearer.
Proof.
  split; [reflexivity|vm_compute; eexists; reflexivity|reflexivity|reflexivity|constructor|].
  intros p [x Hx]. cbn in Hx. by rewrite lookup_empty in Hx.
Qed.

Lemma install_rules_default_witness :
  ∃ s' bearer' new, install_rules sample_cfg (sample_add [2; 3]%positive) None 0 sample_start = Some ((Some 1%positive, 4), s') ∧
    ready s' 1 bearer' ∧ bearer'.(pdrs) = [] ++ new ∧
    bearer'.(dynamic_rules) = [] ++ [2; 3]%positive ∧
    Forall2 (fun p '(r, iface) => installed s' p r iface) new
      [(2%positive, SOURCE_INTERFACE_VALUE_ACCESS); (2%positive, SOURCE_INTERFACE_VALUE_CORE);
       (3%positive, SOURCE_INTERFACE_VALUE_ACCESS); (3%positive, SOURCE_INTERFACE_VALUE_CORE)] ∧
    s'.(pdn).(pending_pcc_rules) = [] ∧ noted sample_start s' (sample_add [2; 3]%positive) ∧
    frame 1 [2; 3]%positive sample_start s'.
Proof.
  apply (install_rules_default sample_cfg sample_start 1 sample_bearer (sample_add [2; 3]%positive) None).
  - apply sample_ready.
  - unfold room. cbn. lia.
  - repeat (constructor; [eexists; split; [reflexivity|left; reflexivity]|]). constructor.
Defined.

Lemma eight_rules_overflow_witness :
  install_rules sample_cfg (sample_add [2; 3; 4; 5; 6; 7; 8; 9]%positive) None 0 (sample_session SAEGWC []) = None.
Proof.
  apply (eight_rules_overflow sample_cfg (sample_session SAEGWC []) 1 sample_bearer); try reflexivity.
  - apply sample_ready.
  - repeat (constructor; [eexists; split; [reflexivity|left; reflexivity]|]). constructor.
Defined.

(** A rule with a quality that no bearer has. *)
Definition sample_other_quality : session :=
  set_ses_h_rules {[2%positive := mk_rule 0 0 FL_ENABLED 0 1 0 0 0 "video" [] (mk_qos 1 100000 200000 0 0 0 8 1) 0 [] [None; None]]}
    (sample_session SAEGWC [2%positive]).

Lemma sess_est_req_null_witness :
  fill_pfcp_sess_est_req sample_cfg (Some sample_upf) 9 zero_sess_estab_req sample_other_quality = None.
Proof.
  apply (sess_est_req_null sample_cfg sample_upf 9 zero_sess_estab_req sample_other_quality); [reflexivity|]. right.
  split; [reflexivity|]. eexists (mk_pcc RULE_ACTION_ADD 2), [], _. split; [reflexivity|]. split; [reflexivity|]. split; [reflexivity|].
  constructor.
  - intros b [= <-]. exists sample_bearer. split; reflexivity.
  - cbn [repeat]. repeat (constructor; [intros b; discriminate|]). constructor.
Defined.

Definition sample_pdrs : list pdr_t := item_pdr <$> sample_items.

Lemma remove_pdr_request_witness :
  ∃ req s', fill_pfcp_sess_mod_req_pgw_init_remove_pdr sample_cfg (Some sample_upf) sample_after.(pdn).(eps_bearers)
                  zero_sess_mod_req sample_after = Some (req, s') ∧
    let L := ref_mod_request sample_cfg sample_after.(pdn) (next_seq sample_after) (mjoin (ref_remove <$> sample_pdrs)) in
    encodes (encode_pfcp_sess_mod_req_t req) L (size L / 8).
Proof.
  apply (remove_pdr_request sample_cfg sample_upf sample_after.(pdn).(eps_bearers) zero_sess_mod_req sample_after sample_pdrs).
  - vm_compute. reflexivity.
  - vm_compute. lia.
  - split; [discriminate|reflexivity].
Defined.

(** The tunnel of a base station. *)
Definition sample_tunnel : pfcp_update_far_ie_t :=
  set_update_far_upd_frwdng_parms
    (set_upd_frwdng_parms_outer_hdr_creation (with_hdr_creation 0x55 0x0a0b0c0d zero_outer_hdr_creation)
       zero_upd_frwdng_parms) zero_update_far.
Definition sample_after_bearer : eps_bearer_t := default sample_bearer (sample_after.(h_bearers) !! 1%positive).

Lemma mod_req_forwards_witness :
  let core := core_pairs sample_pdrs (repeat sample_tunnel 4) in
  ∃ req s', fill_pfcp_sess_mod_req sample_cfg (Some sample_upf)
              (set_sess_mod_req_update_far_count (Z.of_nat (length core)) zero_sess_mod_req) 1
              (repeat sample_tunnel 4) true sample_after = Some ((next_seq sample_after, req), s') ∧
    let L := ref_mod_request sample_cfg sample_after.(pdn) (next_seq sample_after)
               (mjoin ((fun '(pdr, f) => ref_update_far true pdr f) <$> core)) in
    encodes (encode_pfcp_sess_mod_req_t req) L (size L / 8).
Proof.
  apply (mod_req_forwards sample_cfg (Some sample_upf) 1 sample_after_bearer sample_pdrs (repeat sample_tunnel 4) true
    sample_after).
  - vm_compute. reflexivity.
  - vm_compute. reflexivity.
  - vm_compute. lia.
  - vm_compute. lia.
  - vm_compute. reflexivity.
  - split; [discriminate|reflexivity].
  - repeat constructor; discriminate.
Defined.
Example sample_forwarded : length (core_pairs sample_pdrs (repeat sample_tunnel 4)) = 2%nat.
Proof. vm_compute. reflexivity. Qed.

Lemma update_pdr_reads_sixteen_witness : fill_update_pdr zero_sess_mod_req 1 sample_after = None.
Proof.
  apply (update_pdr_reads_sixteen zero_sess_mod_req 1 sample_after_bearer sample_after).
  - vm_compute. reflexivity.
  - vm_compute. lia.
Defined.
