(* ===== verification/GxCodec.v ===== *)
(** * The macros of the Gx packing code

    The control plane and the Gx application, two processes on one machine, exchange
    structures as the bytes of their present members (src/cp/gx/gx_app/src/gx_pack.c).
    This file has the memory images of the C types that occur, octet strings and lists as
    the structures of gx_struct.h have them, and the macros CALCLEN_*, PACK_* and
    UNPACK_* from which every function of gx_pack.c is made. *)

From S2P Require Import Prelude.

(** ** Memory images

    The integers of the host are little endian.  A bit-field structure under
    [#pragma pack(1)] takes as many bytes as its bits need, the first member in the
    lowest bit. *)

(** The value of a signed type of [w] bits with the representation [v]. *)
Definition to_signed (w v : Z) : Z := if v <? 2 ^ (w - 1) then v else v - 2 ^ w.

Record ctype (A : Type) := CType {
  sizeof : nat;
  to_mem : A -> list Z;
  of_mem : list Z -> A;
}.
Arguments CType {A} _ _ _.
Arguments sizeof {A} _.
Arguments to_mem {A} _ _.
Arguments of_mem {A} _ _.

Definition uint_of (n : nat) : ctype Z := CType n (le_bytes n) of_le_bytes.
Definition int_of (n : nat) : ctype Z :=
  CType n (le_bytes n) (λ bs, to_signed (8 * Z.of_nat n) (of_le_bytes bs)).

Definition uint32_t : ctype Z := uint_of 4.
Definition uint64_t : ctype Z := uint_of 8.
Definition int32_t : ctype Z := int_of 4.
Definition int64_t : ctype Z := int_of 8.

(** A [float] is never computed with: it is its representation. *)
Definition float : ctype Z := uint_of 4.

(** [time_t] is a signed integer of 64 bits. *)
Definition FdTime : ctype Z := int_of 8.

Record fdAddress := mk_fdAddress {
  fa_type : Z;
  fa_address : list Z;
}.

(** An array of [n] bytes is given by a list: bytes the list does not have are 0. *)
Definition array (n : nat) (val : list Z) : list Z := resize n 0 val.

Definition FdAddress : ctype fdAddress :=
  CType 18 (λ a, le_bytes 2 (fa_type a) ++ array 16 (fa_address a))
    (λ bs, mk_fdAddress (of_le_bytes (take 2 bs)) (drop 2 bs)).

(** [struct { uint32_t len; uint8_t val[N + 1]; }]; the size of [val] is an argument of
    the operations. *)
Record OctetString := mk_OctetString {
  os_len : Z;
  os_val : list Z;
}.

(** [struct { int32_t count; T *list; }]: the elements behind the pointer. *)
Record clist (A : Type) := mk_clist {
  l_count : Z;
  l_list : list A;
}.
Arguments mk_clist {A} _ _.
Arguments l_count {A} _.
Arguments l_list {A} _.

Definition zero_octets : OctetString := mk_OctetString 0 [].
Definition zero_list {A} : clist A := mk_clist 0 [].
Definition zero_address : fdAddress := mk_fdAddress 0 [].

(** ** malloc

    Whether [malloc] of a number of bytes succeeds, and what uninitialised memory holds:
    any value of the type, one for each allocation (known by the offset at which it is
    made) and each element. *)
Class Memory := {
  malloc_ok : Z -> bool;
  uninit : ∀ A : Type, A -> Z -> nat -> A;
}.

Definition malloc_list `{Memory} {A} (zero : A) (size count offset : Z) : option (list A) :=
  if malloc_ok (u64 (size * count))
  then Some (map (uninit A zero offset) (seq 0 (Z.to_nat count)))
  else None.

(** ** CALCLEN macros: the running length, a uint32_t *)

Definition calclen := Z -> option Z.

Definition calc_seq (f g : calclen) : calclen := λ length, f length ≫= g.
Definition calc_none : calclen := Some.

Definition CALCLEN_PRESENCE (size : nat) : calclen := λ length,
  Some (u32 (length + Z.of_nat size)).

Definition CALCLEN_BASIC {A} (t : ctype A) (present : bool) : calclen := λ length,
  Some (if present then u32 (length + Z.of_nat (sizeof t)) else length).

Definition CALCLEN_OCTETSTRING (present : bool) (o : OctetString) : calclen := λ length,
  Some (if present then u32 (length + (4 + os_len o)) else length).

Definition CALCLEN_STRUCT {S} (present : bool) (s : S) (calcfunc : S -> option Z) : calclen :=
  λ length, if present then n ← calcfunc s; Some (u32 (length + n)) else Some length.

(** [for (idx = 0; idx < count; idx++) length += f(&list[idx])] *)
Fixpoint calc_each {A} (f : A -> option Z) (l : list A) (n idx : nat) : calclen := λ length,
  match n with
  | O => Some length
  | S n' => a ← l !! idx; k ← f a; calc_each f l n' (S idx) (u32 (length + k))
  end.

Definition CALCLEN_LIST_BASIC {A} (t : ctype A) (present : bool) (l : clist A) : calclen :=
  λ length,
  Some (if present then u32 (length + (4 + Z.of_nat (sizeof t) * l_count l)) else length).

Definition CALCLEN_LIST_OCTETSTRING (present : bool) (l : clist OctetString) : calclen :=
  λ length,
  if present then calc_each (λ o, Some (4 + os_len o)) (l_list l) (Z.to_nat (l_count l)) 0 (u32 (length + 4))
  else Some length.

Definition CALCLEN_LIST_STRUCT {S} (present : bool) (l : clist S) (calcfunc : S -> option Z) : calclen :=
  λ length,
  if present then calc_each calcfunc (l_list l) (Z.to_nat (l_count l)) 0 (u32 (length + 4))
  else Some length.

(** ** PACK macros

    The state is the buffer and [*offset].  [None] is an access outside an object; the
    boolean is false when the macro returns 0 from the enclosing function. *)

Definition packer := Z -> list Z * Z -> option (bool * (list Z * Z)).

Definition pack_seq (m k : packer) : packer := λ buflen st,
  '(ok, st') ← m buflen st; if ok : bool then k buflen st' else Some (false, st').

(** [if ( *offset + n > buflen) return 0; memcpy(&buffer[*offset], src, n); *offset += n] *)
Definition pack_bytes (n : nat) (src : list Z) : packer := λ buflen '(buf, offset),
  if buflen <? offset + Z.of_nat n then Some (false, (buf, offset))
  else buf' ← memcpy n src 0 buf offset; Some (true, (buf', u32 (offset + Z.of_nat n))).

Definition PACK_PRESENCE (size : nat) (presence : Z) : packer :=
  pack_bytes size (le_bytes size presence).

Definition PACK_BASIC {A} (t : ctype A) (present : bool) (v : A) : packer := λ buflen st,
  if present then pack_bytes (sizeof t) (to_mem t v) buflen st else Some (true, st).

Definition PACK_OCTETSTRING (size : nat) (present : bool) (o : OctetString) : packer :=
  λ buflen '(buf, offset),
  if present then
    if buflen <? offset + 4 + os_len o then Some (false, (buf, offset)) else
    buf1 ← memcpy 4 (le_bytes 4 (os_len o)) 0 buf offset;
    let offset1 := u32 (offset + 4) in
    buf2 ← memcpy (Z.to_nat (os_len o)) (array size (os_val o)) 0 buf1 offset1;
    Some (true, (buf2, u32 (offset1 + os_len o)))
  else Some (true, (buf, offset)).

Definition PACK_STRUCT {S} (present : bool) (s : S) (packfunc : S -> packer) : packer :=
  λ buflen st, if present then packfunc s buflen st else Some (true, st).

(** [for (idx = 0; idx < count; idx++)] over the elements of a list *)
Fixpoint pack_each {A} (body : A -> packer) (l : list A) (n idx : nat) : packer := λ buflen st,
  match n with
  | O => Some (true, st)
  | S n' => a ← l !! idx; pack_seq (body a) (pack_each body l n' (S idx)) buflen st
  end.

Definition pack_list {A} (present : bool) (l : clist A) (body : A -> packer) : packer := λ buflen st,
  if present
  then pack_seq (pack_bytes 4 (le_bytes 4 (l_count l)))
         (pack_each body (l_list l) (Z.to_nat (l_count l)) 0) buflen st
  else Some (true, st).

Definition PACK_LIST_BASIC {A} (t : ctype A) (present : bool) (l : clist A) : packer :=
  pack_list present l (λ a, pack_bytes (sizeof t) (to_mem t a)).

(** An element of a list of octet strings: its length is ADDED to what is in the buffer. *)
Definition pack_octets_item (size : nat) (o : OctetString) : packer := λ buflen '(buf, offset),
  if buflen <? offset + 4 + os_len o then Some (false, (buf, offset)) else
  old ← memcpy 4 buf offset (replicate 4 0) 0;
  buf1 ← memcpy 4 (le_bytes 4 (u32 (of_le_bytes old + os_len o))) 0 buf offset;
  let offset1 := u32 (offset + 4) in
  buf2 ← memcpy (Z.to_nat (os_len o)) (array size (os_val o)) 0 buf1 offset1;
  Some (true, (buf2, u32 (offset1 + os_len o))).

Definition PACK_LIST_OCTETSTRING (size : nat) (present : bool) (l : clist OctetString) : packer :=
  pack_list present l (pack_octets_item size).

Definition PACK_LIST_STRUCT {S} (present : bool) (l : clist S) (packfunc : S -> packer) : packer :=
  pack_list present l packfunc.

(** [return *offset <= buflen;] at the end of the function of a structure *)
Definition pack_end : packer := λ buflen '(buf, offset), Some (offset <=? buflen, (buf, offset)).

(** ** UNPACK macros

    The state is the structure that is filled and [*offset]; a member is given by the
    test of its presence bit and by the function that stores it. *)

Definition unpacker (X : Type) := list Z -> Z -> X * Z -> option (bool * (X * Z)).

Definition unpack_seq {X} (m k : unpacker X) : unpacker X := λ buf buflen st,
  '(ok, st') ← m buf buflen st; if ok : bool then k buf buflen st' else Some (false, st').

Definition read_mem (n : nat) (buf : list Z) (offset : Z) : option (list Z) :=
  memcpy n buf offset (replicate n 0) 0.

(** [if ( *offset + sizeof > buflen) return 0; memcpy(&member, &buffer[*offset], sizeof); ...] *)
Definition unpack_mem {X A} (t : ctype A) (set : A -> X -> X) : unpacker X :=
  λ buf buflen '(x, offset),
  if buflen <? offset + Z.of_nat (sizeof t) then Some (false, (x, offset))
  else bs ← read_mem (sizeof t) buf offset;
       Some (true, (set (of_mem t bs) x, u32 (offset + Z.of_nat (sizeof t)))).

Definition UNPACK_PRESENCE {X} (size : nat) (set : Z -> X -> X) : unpacker X :=
  unpack_mem (uint_of size) set.

Definition UNPACK_BASIC {X A} (t : ctype A) (present : X -> bool) (set : A -> X -> X) : unpacker X :=
  λ buf buflen '(x, offset),
  if present x then unpack_mem t set buf buflen (x, offset) else Some (true, (x, offset)).

Definition UNPACK_OCTETSTRING {X} (size : nat) (present : X -> bool) (get : X -> OctetString)
    (set : OctetString -> X -> X) : unpacker X := λ buf buflen '(x, offset),
  if present x then
    if buflen <? offset + 4 then Some (false, (x, offset)) else
    lenb ← read_mem 4 buf offset;
    let len := of_le_bytes lenb in
    let len' := Z.min len (Z.of_nat size - 1) in
    let x1 := set (mk_OctetString len' (os_val (get x))) x in
    let offset1 := u32 (offset + 4) in
    if buflen <? u32 (offset1 + len) then Some (false, (x1, offset1)) else
    val ← memcpy (Z.to_nat len') buf offset1 (array size (os_val (get x))) 0;
    val' ← store val len' 0;
    Some (true, (set (mk_OctetString len' val') x1, u32 (offset1 + len)))
  else Some (true, (x, offset)).

Definition UNPACK_STRUCT {X S} (present : X -> bool) (get : X -> S) (set : S -> X -> X)
    (unpackfunc : unpacker S) : unpacker X := λ buf buflen '(x, offset),
  if present x then
    '(ok, (s, offset')) ← unpackfunc buf buflen (get x, offset);
    Some (ok, (set s x, offset'))
  else Some (true, (x, offset)).

(** The loop over the elements of a list: [list[idx]] is changed in place. *)
Fixpoint unpack_each {A} (body : unpacker A) (n idx : nat) : unpacker (list A) :=
  λ buf buflen '(l, offset),
  match n with
  | O => Some (true, (l, offset))
  | S n' =>
    a ← l !! idx;
    '(ok, (a', offset')) ← body buf buflen (a, offset);
    if ok : bool then unpack_each body n' (S idx) buf buflen (<[idx := a']> l, offset')
    else Some (false, (<[idx := a']> l, offset'))
  end.

(** The common part of the three macros of lists.  [strict] is the test of the remaining
    length with >= instead of >, [size] is [sizeof(__listtype__)]. *)
Definition unpack_list `{Memory} {X A} (strict : bool) (size : Z) (zero : A) (present : X -> bool)
    (set : clist A -> X -> X) (body : unpacker A) : unpacker X := λ buf buflen '(x, offset),
  if present x then
    if (if strict then buflen <=? offset + 4 else buflen <? offset + 4) then Some (false, (x, offset)) else
    countb ← read_mem 4 buf offset;
    let count := to_signed 32 (of_le_bytes countb) in
    let offset1 := u32 (offset + 4) in
    match malloc_list zero size count offset with
    | None => Some (false, (set (mk_clist count []) x, offset1))
    | Some l =>
      '(ok, (l', offset2)) ← unpack_each body (Z.to_nat count) 0 buf buflen (l, offset1);
      Some (ok, (set (mk_clist count l') x, offset2))
    end
  else Some (true, (x, offset)).

Definition UNPACK_LIST_BASIC `{Memory} {X A} (t : ctype A) (zero : A) (present : X -> bool)
    (set : clist A -> X -> X) : unpacker X :=
  unpack_list false (Z.of_nat (sizeof t)) zero present set (unpack_mem t (λ v _, v)).

(** An element of a list of octet strings: the length read is not compared with the rest
    of the buffer, and no zero byte is put behind the value. *)
Definition unpack_octets_item (size : nat) : unpacker OctetString := λ buf buflen '(o, offset),
  if buflen <? offset + 4 then Some (false, (o, offset)) else
  lenb ← read_mem 4 buf offset;
  let len := of_le_bytes lenb in
  let offset1 := u32 (offset + 4) in
  let len' := Z.min len (Z.of_nat size - 1) in
  val ← memcpy (Z.to_nat len') buf offset1 (array size (os_val o)) 0;
  Some (true, (mk_OctetString len' val, u32 (offset1 + len))).

Definition UNPACK_LIST_OCTETSTRING `{Memory} {X} (size : nat) (present : X -> bool)
    (set : clist OctetString -> X -> X) : unpacker X :=
  unpack_list true (4 + Z.of_nat size) zero_octets present set (unpack_octets_item size).

Definition UNPACK_LIST_STRUCT `{Memory} {X S} (size : Z) (zero : S) (present : X -> bool)
    (set : clist S -> X -> X) (unpackfunc : unpacker S) : unpacker X :=
  unpack_list false size zero present set unpackfunc.

(** [return *offset <= length;] *)
Definition unpack_end {X} : unpacker X := λ buf buflen '(x, offset),
  Some (offset <=? buflen, (x, offset)).

(** ** Messages

    A message begins with its length, a uint32_t; its members follow it. *)
Definition pack_done : packer := λ buflen st, Some (true, st).
Definition unpack_done {X} : unpacker X := λ buf buflen st, Some (true, st).

Definition message_calc_length (members : calclen) : option Z := members 4.

(** [*((uint32_t * )buf) = _offset; return _offset == buflen;] *)
Definition message_pack (members : packer) (buf : list Z) (buflen : Z) : option (bool * list Z) :=
  '(ok, (buf', offset)) ← members buflen (buf, 4);
  if ok : bool then buf'' ← memcpy 4 (le_bytes 4 offset) 0 buf' 0; Some (offset =? buflen, buf'')
  else Some (false, buf').

(** [length = *((uint32_t * )buf); ... return length == _offset;] *)
Definition message_unpack {X} (members : unpacker X) (buf : list Z) (data : X) : option (bool * X) :=
  lenb ← read_mem 4 buf 0;
  let length := of_le_bytes lenb in
  '(ok, (data', offset)) ← members buf length (data, 4);
  Some (if ok : bool then length =? offset else false, data').

Declare Scope gx_scope.
Delimit Scope gx_scope with gx.
Notation "f ;c g" := (calc_seq f g) (at level 90, right associativity) : gx_scope.
Notation "f ;p g" := (pack_seq f g) (at level 90, right associativity) : gx_scope.
Notation "f ;u g" := (unpack_seq f g) (at level 90, right associativity) : gx_scope.
