(* ===== verification/GxCodecSpec.v ===== *)
(** * What the Gx packing macros promise

    The value of a member as the other process sees it ([gval]) and its bytes ([wire]);
    the rules [calcs], [packs] and [unpacks] that relate the three macros of each kind of
    member to them; and the interface [StructOk] of the three functions of a structure. *)

From S2P Require Import Prelude GxCodec.

(** ** What is sent

    [gval] is the value of a member as the other process sees it, [wire] its bytes.  Two
    structures with the same [gval] differ at most in members that are not present, and in
    bytes behind the end of octet strings. *)
#[warnings="-register-all"]
Inductive gval :=
  | GNone
  | GRaw (bs : list Z)
  | GOctets (bs : list Z)
  | GSub (members : list gval)
  | GMany (items : list gval).

Fixpoint wire (v : gval) : list Z :=
  match v with
  | GNone => []
  | GRaw bs => bs
  | GOctets bs => le_bytes 4 (Z.of_nat (length bs)) ++ bs
  | GSub members => concat (map wire members)
  | GMany items => le_bytes 4 (Z.of_nat (length items)) ++ concat (map wire items)
  end.

(** The length of an element of a list of octet strings is added to the four bytes that
    were in the buffer.  [need]: how many bytes, from the start of a value, end with the last
    bytes that are used in this way. *)
Definition behind (n1 : nat) (bs : list Z) (n2 : nat) : nat :=
  match n2 with O => n1 | _ => Nat.max n1 (length bs + n2) end.
Fixpoint need (v : gval) : nat :=
  match v with
  | GNone | GRaw _ | GOctets _ => 0
  | GSub members => foldr (λ v n, behind (need v) (wire v) n) 0%nat members
  | GMany items =>
      behind 0 (le_bytes 4 (Z.of_nat (length items)))
        (foldr (λ v n, behind (match v with GOctets _ => 4 | _ => need v end) (wire v) n) 0%nat items)
  end.
Definition item_need (v : gval) : nat := match v with GOctets _ => 4 | _ => need v end.

Definition opt (present : bool) (v : gval) : gval := if present then v else GNone.
Definition view_basic {A} (t : ctype A) (v : A) : gval := GRaw (to_mem t v).
Definition os_bytes (size : nat) (o : OctetString) : list Z :=
  take (Z.to_nat (os_len o)) (array size (os_val o)).
Definition view_octets (size : nat) (o : OctetString) : gval := GOctets (os_bytes size o).
Definition items_of {A} (l : clist A) : list A := take (Z.to_nat (l_count l)) (l_list l).
Definition view_list {A} (view : A -> gval) (l : clist A) : gval := GMany (map view (items_of l)).

(** Good values: those the macros can send. *)
Definition when (b : bool) (P : Prop) : Prop := b = true -> P.
Definition fits {A} (t : ctype A) (v : A) : Prop :=
  length (to_mem t v) = sizeof t ∧ of_mem t (to_mem t v) = v.
Definition good_octets (size : nat) (o : OctetString) : Prop := 0 <= os_len o < Z.of_nat size.
Definition good_list {A} (good : A -> Prop) (l : clist A) : Prop :=
  0 <= l_count l < 2 ^ 31 ∧ l_count l <= Z.of_nat (length (l_list l)) ∧ Forall good (items_of l).

(** A list of octet strings must not be empty: see [empty_list_refused]. *)
Definition good_octets_list (size : nat) (l : clist OctetString) : Prop :=
  0 < l_count l ∧ good_list (good_octets size) l.

(** ** The rules

    [calcs]: the length grows by that of [bs].  [packs]: the bytes of a value
    are put at [*offset] if there is room, 0 is returned if not, and what is behind is left
    alone; of what was there before, only the bytes that the lengths of the octet strings of
    lists are added to ([need]) must be 0.  [unpacks]: [bs] is read, and the structure
    that results satisfies [Q]. *)
Definition blen (bs : list Z) : Z := Z.of_nat (length bs).

Definition calcs (f : calclen) (bs : list Z) : Prop :=
  ∀ l, 0 <= l < 2 ^ 32 -> f l = Some (u32 (l + blen bs)).

(** The bytes that must be 0 before: [z] of them at the start. *)
Definition cleared (z : nat) (old : list Z) : Prop := Forall (λ b, b = 0) (take z old).

Definition packs_raw (m : packer) (z : nat) (bs : list Z) : Prop :=
  ∀ pre old post buflen, buflen = blen pre + blen old -> buflen < 2 ^ 32 -> cleared z old ->
  if decide (length bs <= length old)%nat
  then m buflen (pre ++ old ++ post, blen pre)
       = Some (true, (pre ++ bs ++ drop (length bs) old ++ post, blen pre + blen bs))
  else ∃ body offset, length body = (length pre + length old)%nat ∧
       m buflen (pre ++ old ++ post, blen pre) = Some (false, (body ++ post, offset)).

Definition packs (m : packer) (v : gval) : Prop := packs_raw m (need v) (wire v).

Definition unpacks {X} (m : unpacker X) (bs : list Z) (x : X) (Q : X -> Prop) : Prop :=
  ∀ pre post buflen, blen pre + blen bs <= buflen -> buflen < 2 ^ 32 ->
  ∃ x', m (pre ++ bs ++ post) buflen (x, blen pre) = Some (true, (x', blen pre + blen bs)) ∧ Q x'.

(** What the three functions of a structure promise to each other. *)
Class StructOk {S : Type} (calc : S -> option Z) (pack : S -> packer) (unpack : unpacker S)
    (view : S -> gval) (good : S -> Prop) : Prop := {
  struct_calc : ∀ d, good d -> calc d = Some (u32 (blen (wire (view d))));
  struct_pack : ∀ d, good d -> packs (pack d) (view d);
  struct_unpack : ∀ d x, good d -> unpacks unpack (wire (view d)) x (λ x', view x' = view d);
}.
Arguments struct_calc {S calc pack unpack view good} ok d _ : rename.
Arguments struct_pack {S calc pack unpack view good} ok d _ : rename.
Arguments struct_unpack {S calc pack unpack view good} ok d x _ : rename.

(** ** Memory *)

Lemma length_array n val : length (array n val) = n.
Proof. apply length_resize. Qed.

Lemma length_os_bytes size o : good_octets size o -> Z.of_nat (length (os_bytes size o)) = os_len o.
Proof. intros H. unfold good_octets in H. unfold os_bytes. rewrite length_take, length_array. lia. Qed.

Lemma length_items_of {A} (good : A -> Prop) l : good_list good l -> Z.of_nat (length (items_of l)) = l_count l.
Proof. intros (H & H' & _). unfold items_of. rewrite length_take. lia. Qed.

(** A copy to the place between [pre] and [post], and from there. *)
Lemma memcpy_put n src pre old post :
  length old = n -> (n <= length src)%nat ->
  memcpy n src 0 (pre ++ old ++ post) (blen pre) = Some (pre ++ take n src ++ post).
Proof.
  intros Ho Hs. change 0 with (Z.of_nat 0). unfold blen.
  rewrite memcpy_app by (rewrite ?length_app; lia). f_equal.
  rewrite take_app_length, drop_0. do 2 f_equal.
  rewrite app_assoc. apply drop_app_length'. rewrite length_app. lia.
Qed.

Lemma memcpy_get bs pre post dst :
  (length bs <= length dst)%nat ->
  memcpy (length bs) (pre ++ bs ++ post) (blen pre) dst 0 = Some (bs ++ drop (length bs) dst).
Proof.
  intros Hd. change 0 with (Z.of_nat 0). unfold blen.
  rewrite memcpy_app by (rewrite ?length_app; lia). f_equal. cbn [take app].
  by rewrite drop_app_length, take_app_length.
Qed.

Lemma memcpy_from k n src dst : 0 <= k -> (Z.to_nat k + n <= length src)%nat -> (n <= length dst)%nat ->
  memcpy n src k dst 0 = Some (take n (drop (Z.to_nat k) src) ++ drop n dst).
Proof.
  intros Hk H1 H2. rewrite <- (Z2Nat.id k) at 1 by done. change 0 with (Z.of_nat 0). by rewrite memcpy_app.
Qed.

Lemma read_mem_app n bs pre post : length bs = n -> read_mem n (pre ++ bs ++ post) (blen pre) = Some bs.
Proof.
  intros <-. unfold read_mem. rewrite memcpy_get by (by rewrite length_replicate).
  by rewrite drop_ge, app_nil_r by (by rewrite length_replicate).
Qed.

Lemma blen_app a b : blen (a ++ b) = blen a + blen b.
Proof. unfold blen. rewrite length_app. lia. Qed.

Lemma blen_le n v : blen (le_bytes n v) = Z.of_nat n.
Proof. unfold blen. by rewrite length_le_bytes. Qed.

Lemma blen_nonneg bs : 0 <= blen bs.
Proof. unfold blen. lia. Qed.

Lemma of_le_le4 v : 0 <= v < 2 ^ 32 -> of_le_bytes (le_bytes 4 v) = v.
Proof. intros H. rewrite of_le_le_bytes. by apply Z.mod_small. Qed.

Lemma to_signed_small w v : 0 <= v < 2 ^ (w - 1) -> to_signed w v = v.
Proof. intros H. unfold to_signed. zcases. Qed.

(** The ranges of the integer types are what they can send. *)
Lemma fits_uint n v : 0 <= v < 2 ^ (8 * Z.of_nat n) -> fits (uint_of n) v.
Proof. intros H. split; [apply length_le_bytes|]. cbn. rewrite of_le_le_bytes. by apply Z.mod_small. Qed.

Lemma fits_int n v : (0 < n)%nat -> - 2 ^ (8 * Z.of_nat n - 1) <= v < 2 ^ (8 * Z.of_nat n - 1) ->
  fits (int_of n) v.
Proof.
  intros Hn H. split; [apply length_le_bytes|]. cbn. rewrite of_le_le_bytes. unfold to_signed.
  assert (2 ^ (8 * Z.of_nat n) = 2 * 2 ^ (8 * Z.of_nat n - 1)) as E.
  { rewrite <- Z.pow_succ_r by lia. f_equal. lia. }
  destruct (Z.le_gt_cases 0 v).
  - rewrite Z.mod_small by lia. zcases.
  - rewrite <- (Z.mod_add v 1), Z.mul_1_l, Z.mod_small by lia. zcases.
Qed.

(** ** Lengths *)

Lemma u32_add_l a b : u32 (u32 a + b) = u32 (a + b).
Proof. unfold uwrap. rewrite Z.add_mod_idemp_l; lia. Qed.

Lemma u32_add_r a b : u32 (a + u32 b) = u32 (a + b).
Proof. unfold uwrap. rewrite Z.add_mod_idemp_r; lia. Qed.

Lemma u32_range v : 0 <= u32 v < 2 ^ 32.
Proof. by apply uwrap_range. Qed.

Lemma calcs_none : calcs calc_none (wire (GSub [])).
Proof. intros l Hl. unfold calc_none. cbn. by rewrite Z.add_0_r, uwrap_small by lia. Qed.

Lemma calcs_seq f g v vs :
  calcs f (wire v) -> calcs g (wire (GSub vs)) -> calcs (calc_seq f g) (wire (GSub (v :: vs))).
Proof.
  intros Hf Hg l Hl. unfold calc_seq. rewrite Hf by done. cbn [mbind option_bind].
  rewrite Hg by apply u32_range. cbn [wire map concat]. rewrite u32_add_l, blen_app. do 2 f_equal. lia.
Qed.

Lemma calcs_absent f b v :
  (∀ l, b = false -> f l = Some l) -> (b = true -> calcs f (wire v)) -> calcs f (wire (opt b v)).
Proof.
  intros Hn Hp. destruct b; [by apply Hp|]. intros l Hl. rewrite Hn by done. cbn.
  by rewrite Z.add_0_r, uwrap_small by lia.
Qed.

Lemma calcs_presence n p : calcs (CALCLEN_PRESENCE n) (wire (GRaw (le_bytes n p))).
Proof. intros l Hl. cbn [wire]. by rewrite blen_le. Qed.

Lemma calcs_basic {A} (t : ctype A) b v : when b (fits t v) ->
  calcs (CALCLEN_BASIC t b) (wire (opt b (view_basic t v))).
Proof.
  intros H. apply calcs_absent; unfold CALCLEN_BASIC; [by intros l ->|]. intros -> l Hl.
  destruct (H eq_refl) as [E _]. unfold view_basic, blen. cbn [wire]. by rewrite E.
Qed.

Lemma calcs_octets size b o : when b (good_octets size o) ->
  calcs (CALCLEN_OCTETSTRING b o) (wire (opt b (view_octets size o))).
Proof.
  intros H. apply calcs_absent; unfold CALCLEN_OCTETSTRING; [by intros l ->|]. intros -> l Hl.
  unfold view_octets. cbn [wire]. rewrite blen_app, blen_le. unfold blen. by rewrite length_os_bytes by (by apply H).
Qed.

Lemma calcs_struct {S} calc pack unpack view (good : S -> Prop) b s :
  StructOk calc pack unpack view good -> when b (good s) ->
  calcs (CALCLEN_STRUCT b s calc) (wire (opt b (view s))).
Proof.
  intros Hs H. apply calcs_absent; unfold CALCLEN_STRUCT; [by intros l ->|]. intros -> l Hl.
  rewrite (struct_calc Hs) by (by apply H). cbn. by rewrite u32_add_r.
Qed.

(** The loop over the first [count] elements. *)
Lemma calcs_each {A} (f : A -> option Z) view l n idx :
  (n + idx <= length l)%nat ->
  Forall (λ a, ∃ k, f a = Some k ∧ u32 k = u32 (blen (wire (view a)))) (take n (drop idx l)) ->
  calcs (calc_each f l n idx) (concat (map wire (map view (take n (drop idx l))))).
Proof.
  revert idx; induction n as [|n IH]; intros idx Hl HF len Hlen; cbn [calc_each].
  { cbn. by rewrite Z.add_0_r, uwrap_small by lia. }
  destruct (lookup_lt_is_Some_2 l idx) as [a Ha]; [lia|].
  rewrite Ha, (drop_S l a idx) in * by done. cbn [take] in HF. apply Forall_cons_1 in HF as [(k & Hk & Ek) HF].
  cbn [mbind option_bind]. rewrite Hk. cbn [mbind option_bind].
  rewrite IH by (done || lia || apply u32_range). cbn [take map concat].
  rewrite u32_add_l, blen_app. f_equal. rewrite <- u32_add_l, <- (u32_add_r len k), Ek, u32_add_r, u32_add_l.
  f_equal. lia.
Qed.

Lemma calcs_items {A} (f : A -> option Z) view (good : A -> Prop) b (l : clist A) :
  when b (good_list good l) ->
  (∀ a, good a -> ∃ k, f a = Some k ∧ u32 k = u32 (blen (wire (view a)))) ->
  calcs (λ length, if b then calc_each f (l_list l) (Z.to_nat (l_count l)) 0 (u32 (length + 4)) else Some length)
    (wire (opt b (view_list view l))).
Proof.
  intros H Hf. apply calcs_absent; [by intros ? ->|]. intros -> len Hlen.
  destruct (H eq_refl) as (H1 & H2 & HF). unfold view_list, items_of in *. rewrite <- (drop_0 (l_list l)) in HF |- * at 2.
  rewrite calcs_each; [|lia|by eapply Forall_impl|apply u32_range].
  cbn [wire]. rewrite blen_app, blen_le, u32_add_l. do 2 f_equal. lia.
Qed.

Lemma length_wire_basics {A} (t : ctype A) ls : Forall (fits t) ls ->
  length (concat (map wire (map (view_basic t) ls))) = (sizeof t * length ls)%nat.
Proof.
  induction 1 as [|a ls [Ha _] HF IH]; cbn [map concat wire view_basic length]; [lia|].
  rewrite length_app, IH, Ha. lia.
Qed.

Lemma calcs_list_basic {A} (t : ctype A) b l : when b (good_list (fits t) l) ->
  calcs (CALCLEN_LIST_BASIC t b l) (wire (opt b (view_list (view_basic t) l))).
Proof.
  intros H. apply calcs_absent; unfold CALCLEN_LIST_BASIC; [by intros ? ->|]. intros -> len Hlen.
  pose proof (length_items_of _ _ (H eq_refl)) as Hn. destruct (H eq_refl) as (_ & _ & HF).
  unfold view_list. cbn [wire]. rewrite blen_app, blen_le, <- Hn. do 2 f_equal. unfold blen.
  rewrite (length_wire_basics t) by done. lia.
Qed.

Lemma calcs_list_octets size b l : when b (good_octets_list size l) ->
  calcs (CALCLEN_LIST_OCTETSTRING b l) (wire (opt b (view_list (view_octets size) l))).
Proof.
  intros H. apply (calcs_items _ _ (good_octets size)); [intros Hb; apply H, Hb|].
  intros o Ho. eexists; split; [done|]. unfold view_octets. cbn [wire]. rewrite blen_app, blen_le.
  unfold blen. by rewrite length_os_bytes.
Qed.

Lemma calcs_list_struct {S} calc pack unpack view (good : S -> Prop) b l :
  StructOk calc pack unpack view good -> when b (good_list good l) ->
  calcs (CALCLEN_LIST_STRUCT b l calc) (wire (opt b (view_list view l))).
Proof.
  intros Hs H. apply (calcs_items _ _ good); [done|]. intros s Hg.
  rewrite (struct_calc Hs) by done. eexists; split; [done|]. by rewrite (uwrap_small _ (u32 _)) by apply u32_range.
Qed.

(** ** Packing *)

Lemma replicate_split n k : (n <= k)%nat -> replicate k 0 = replicate n 0 ++ replicate (k - n) (0 : Z).
Proof. intros H. rewrite <- replicate_add. f_equal. lia. Qed.

Lemma cleared_le z z' old : (z <= z')%nat -> cleared z' old -> cleared z old.
Proof. intros H Hc. unfold cleared in *. rewrite <- (Nat.min_l z z' H), <- take_take. by apply Forall_take. Qed.
Lemma cleared_behind n1 bs n2 old :
  cleared (behind n1 bs n2) old -> cleared n1 old ∧ cleared n2 (drop (length bs) old).
Proof.
  destruct n2 as [|n2]; cbn [behind]; intros H; [split; [done|constructor]|]. split; [by eapply cleared_le; [|exact H]; lia|].
  apply (cleared_le (length bs + S n2)) in H; [|lia]. unfold cleared in *. rewrite take_drop_commute. by apply Forall_drop.
Qed.
Lemma packs_raw_le m z z' bs : (z <= z')%nat -> packs_raw m z bs -> packs_raw m z' bs.
Proof. intros Hz H pre old post buflen Hb Hlt Hc. apply H; [done..|by eapply cleared_le]. Qed.
Lemma need_item v : (need v <= item_need v)%nat.
Proof. destruct v; cbn [need item_need]; lia. Qed.

Lemma packs_app m k z1 z2 b1 b2 :
  packs_raw m z1 b1 -> packs_raw k z2 b2 -> packs_raw (pack_seq m k) (behind z1 b1 z2) (b1 ++ b2).
Proof.
  intros Hm Hk pre old post buflen Hb Hlt Hc. apply cleared_behind in Hc as [Hc1 Hc2].
  specialize (Hm pre old post buflen Hb Hlt Hc1). unfold pack_seq.
  rewrite length_app. destruct (decide (length b1 <= length old)%nat) as [H1|H1]; last first.
  { rewrite decide_False by lia. destruct Hm as (body & o & Hl & ->). cbn. eauto. }
  rewrite Hm. cbn [mbind option_bind].
  specialize (Hk (pre ++ b1) (drop (length b1) old) post buflen
    ltac:(rewrite blen_app; unfold blen in *; rewrite length_drop; lia) Hlt Hc2).
  rewrite blen_app, <- !app_assoc, length_drop in Hk.
  destruct (decide (length b2 <= length old - length b1)%nat) as [H2|H2].
  - rewrite decide_True by lia. rewrite Hk, blen_app, drop_drop, <- app_assoc, Z.add_assoc. done.
  - rewrite decide_False by lia. destruct Hk as (body & o & Hl & ->). rewrite length_app in Hl.
    exists body, o. split; [lia|done].
Qed.

Lemma packs_seq m k v vs : packs m v -> packs k (GSub vs) -> packs (pack_seq m k) (GSub (v :: vs)).
Proof. apply packs_app. Qed.

Lemma packs_end : packs pack_end (GSub []).
Proof.
  intros pre old post buflen Hb Hlt _. cbn. rewrite decide_True by lia. unfold pack_end, blen in *. zcases.
  by rewrite drop_0, Z.add_0_r.
Qed.

Lemma packs_absent m b v :
  (∀ n st, b = false -> m n st = Some (true, st)) -> (b = true -> packs m v) -> packs m (opt b v).
Proof.
  intros Hn Hp. destruct b; [by apply Hp|]. intros pre old post buflen Hb Hlt _. cbn.
  rewrite decide_True by lia. by rewrite Hn, drop_0, Z.add_0_r.
Qed.

Lemma packs_bytes n src : length src = n -> packs_raw (pack_bytes n src) 0 src.
Proof.
  intros Hs pre old post buflen Hb Hlt _. unfold pack_bytes, blen in *. case_decide as Hd.
  - zcases. rewrite <- (take_drop n old) at 1. rewrite <- app_assoc.
    rewrite memcpy_put by (rewrite ?length_take; lia). cbn [mbind option_bind].
    rewrite take_ge, <- Hs, uwrap_small by lia. done.
  - zcases. exists (pre ++ old), (Z.of_nat (length pre)). by rewrite length_app, <- app_assoc.
Qed.

Lemma packs_presence n p : packs (PACK_PRESENCE n p) (GRaw (le_bytes n p)).
Proof. apply packs_bytes, length_le_bytes. Qed.

Lemma packs_basic {A} (t : ctype A) b v : when b (fits t v) ->
  packs (PACK_BASIC t b v) (opt b (view_basic t v)).
Proof.
  intros H. apply packs_absent; unfold PACK_BASIC; [by intros n st ->|]. intros ->.
  by apply packs_bytes, H.
Qed.

(** The length and the value of an octet string where there is room for them. *)
Lemma put_octets size o pre old post :
  good_octets size o -> (4 + Z.to_nat (os_len o) <= length old)%nat -> blen pre + blen old < 2 ^ 32 ->
  (buf1 ← memcpy 4 (le_bytes 4 (os_len o)) 0 (pre ++ old ++ post) (blen pre);
   memcpy (Z.to_nat (os_len o)) (array size (os_val o)) 0 buf1 (u32 (blen pre + 4)))
  = Some (pre ++ wire (view_octets size o) ++ drop (length (wire (view_octets size o))) old ++ post).
Proof.
  intros Hg Hk Hlt. pose proof (length_os_bytes _ _ Hg) as Hl. unfold good_octets in Hg.
  rewrite <- (take_drop 4 old) at 1. rewrite <- app_assoc.
  rewrite memcpy_put by (rewrite ?length_take, ?length_le_bytes; lia). cbn [mbind option_bind].
  rewrite take_ge by (rewrite length_le_bytes; lia).
  replace (u32 (blen pre + 4)) with (blen (pre ++ le_bytes 4 (os_len o)))
    by (rewrite blen_app, blen_le, uwrap_small; unfold blen in *; lia).
  rewrite app_assoc, <- (take_drop (Z.to_nat (os_len o)) (drop 4 old)), <- (app_assoc (take _ _)).
  rewrite memcpy_put by (rewrite ?length_take, ?length_drop, ?length_array; lia).
  unfold view_octets. cbn [wire]. rewrite <- !app_assoc, Hl, length_app, length_le_bytes, drop_drop.
  fold (os_bytes size o).
  by replace (4 + length (os_bytes size o))%nat with (4 + Z.to_nat (os_len o))%nat by lia.
Qed.

Lemma length_wire_octets size o : good_octets size o ->
  Z.of_nat (length (wire (view_octets size o))) = 4 + os_len o.
Proof.
  intros Hg. unfold view_octets. cbn [wire].
  rewrite length_app, length_le_bytes. pose proof (length_os_bytes _ _ Hg). lia.
Qed.

Lemma packs_octets_present size o : good_octets size o -> packs (PACK_OCTETSTRING size true o) (view_octets size o).
Proof.
  intros Hg pre old post buflen Hb Hlt _. unfold PACK_OCTETSTRING.
  pose proof (length_wire_octets _ _ Hg) as Hw. pose proof (put_octets size o pre old post Hg) as Hput.
  unfold good_octets in Hg. unfold blen in *. case_decide as Hd.
  - zcases. specialize (Hput ltac:(lia) ltac:(lia)).
    destruct (memcpy 4 _ _ _ _) as [buf1|]; [|done]. cbn [mbind option_bind] in Hput |- *. rewrite Hput.
    cbn [mbind option_bind]. do 3 f_equal. rewrite u32_add_l, uwrap_small; lia.
  - zcases. exists (pre ++ old), (Z.of_nat (length pre)). by rewrite length_app, <- app_assoc.
Qed.

(** On four bytes of zero adding the length is storing it. *)
Lemma packs_octets_item size o : good_octets size o ->
  packs_raw (pack_octets_item size o) 4 (wire (view_octets size o)).
Proof.
  intros Hg pre old post buflen Hb Hlt Hc.
  generalize (packs_octets_present size o Hg pre old post buflen Hb Hlt ltac:(by eapply cleared_le; [|exact Hc]; cbn; lia)).
  pose proof (length_wire_octets _ _ Hg) as Hw. unfold pack_octets_item, PACK_OCTETSTRING.
  destruct (Z.ltb_spec buflen (blen pre + 4 + os_len o)) as [Hn|Hn]; [done|].
  unfold good_octets in Hg. unfold cleared in Hc. assert (4 <= length old)%nat by (unfold blen in *; lia).
  change (memcpy 4 ?b ?o (replicate 4 0) 0) with (read_mem 4 b o).
  assert (read_mem 4 (pre ++ old ++ post) (blen pre) = Some (replicate 4 0)) as ->.
  { rewrite <- (take_drop 4 old), <- app_assoc, read_mem_app by (rewrite length_take; lia). f_equal.
    symmetry. apply replicate_as_elem_of. split; [rewrite length_take; lia|]. by apply list.Forall_forall. }
  cbn [mbind option_bind]. change (of_le_bytes (replicate 4 0)) with 0.
  rewrite Z.add_0_l, (uwrap_small _ (os_len o)) by (unfold blen in *; lia). done.
Qed.

Lemma packs_octets size b o : when b (good_octets size o) ->
  packs (PACK_OCTETSTRING size b o) (opt b (view_octets size o)).
Proof.
  intros H. apply packs_absent; [by intros n [] ->|]. intros ->. by apply packs_octets_present, H.
Qed.

Lemma packs_struct {S} calc pack unpack view (good : S -> Prop) b s :
  StructOk calc pack unpack view good -> when b (good s) ->
  packs (PACK_STRUCT b s pack) (opt b (view s)).
Proof.
  intros Hs H. apply packs_absent; unfold PACK_STRUCT; [by intros n st ->|]. intros ->.
  by apply (struct_pack Hs), H.
Qed.

Lemma packs_ext m m' z bs : (∀ n st, m n st = m' n st) -> packs_raw m' z bs -> packs_raw m z bs.
Proof. intros E H pre old post buflen Hb Hlt Hc. rewrite E. by apply H. Qed.

Lemma packs_each {A} (body : A -> packer) view l n idx :
  (n + idx <= length l)%nat -> Forall (λ a, packs_raw (body a) (item_need (view a)) (wire (view a))) (take n (drop idx l)) ->
  packs_raw (pack_each body l n idx)
    (foldr (λ v n, behind (item_need v) (wire v) n) 0%nat (map view (take n (drop idx l))))
    (concat (map wire (map view (take n (drop idx l))))).
Proof.
  revert idx; induction n as [|n IH]; intros idx Hl HF.
  { intros pre old post buflen Hb Hlt _. rewrite take_0. cbn. rewrite decide_True by lia. by rewrite drop_0, Z.add_0_r. }
  destruct (lookup_lt_is_Some_2 l idx) as [a Ha]; [lia|].
  rewrite (drop_S l a idx) in * by done. cbn [take] in HF. apply Forall_cons_1 in HF as [Hb HF].
  eapply packs_ext; [intros m st; cbn [pack_each]; rewrite Ha; done|].
  cbn [take map concat foldr]. apply packs_app; [done|]. apply IH; [lia|done].
Qed.

Lemma packs_list {A} (body : A -> packer) view (good : A -> Prop) b (l : clist A) :
  when b (good_list good l) -> (∀ a, good a -> packs_raw (body a) (item_need (view a)) (wire (view a))) ->
  packs (pack_list b l body) (opt b (view_list view l)).
Proof.
  intros H Hb. apply packs_absent; unfold pack_list; [by intros n st ->|]. intros ->.
  pose proof (length_items_of _ _ (H eq_refl)) as Hl. destruct (H eq_refl) as (H1 & H2 & HF).
  unfold packs, view_list. cbn [wire need]. rewrite length_map, Hl. apply packs_app; [apply packs_bytes, length_le_bytes|].
  unfold items_of in *. rewrite <- (drop_0 (l_list l)) in HF |- * at 2 3.
  apply packs_each; [lia|]. by eapply Forall_impl.
Qed.

Lemma packs_list_basic {A} (t : ctype A) b l : when b (good_list (fits t) l) ->
  packs (PACK_LIST_BASIC t b l) (opt b (view_list (view_basic t) l)).
Proof. intros H. apply (packs_list _ _ (fits t)); [done|]. intros a [Ha _]. by apply packs_bytes. Qed.

Lemma packs_list_octets size b l : when b (good_octets_list size l) ->
  packs (PACK_LIST_OCTETSTRING size b l) (opt b (view_list (view_octets size) l)).
Proof.
  intros H. apply (packs_list _ _ (good_octets size)); [intros Hb; apply H, Hb|]. apply packs_octets_item.
Qed.

Lemma packs_list_struct {S} calc pack unpack view (good : S -> Prop) b l :
  StructOk calc pack unpack view good -> when b (good_list good l) ->
  packs (PACK_LIST_STRUCT b l pack) (opt b (view_list view l)).
Proof.
  intros Hs H. apply (packs_list _ _ good); [done|]. intros a Ha. eapply packs_raw_le; [apply need_item|].
  by apply (struct_pack Hs).
Qed.

(** ** Unpacking *)

Lemma unpacks_app {X} (m k : unpacker X) b1 b2 x Q :
  unpacks m b1 x (λ x1, unpacks k b2 x1 Q) -> unpacks (unpack_seq m k) (b1 ++ b2) x Q.
Proof.
  intros Hm pre post buflen Hle Hlt. rewrite blen_app in Hle. pose proof (blen_nonneg b2).
  destruct (Hm pre (b2 ++ post) buflen) as (x1 & E & Hk); [lia|done|].
  unfold unpack_seq. rewrite <- app_assoc, E. cbn [mbind option_bind].
  destruct (Hk (pre ++ b1) post buflen) as (x' & E' & HQ); [rewrite blen_app; lia|done|].
  exists x'. rewrite blen_app, <- app_assoc in E'. rewrite blen_app, Z.add_assoc. done.
Qed.

Lemma unpacks_seq {X} (m k : unpacker X) v vs x Q :
  unpacks m (wire v) x (λ x1, unpacks k (wire (GSub vs)) x1 Q) ->
  unpacks (unpack_seq m k) (wire (GSub (v :: vs))) x Q.
Proof. apply unpacks_app. Qed.

Lemma unpacks_end {X} (x : X) (Q : X -> Prop) : Q x -> unpacks unpack_end (wire (GSub [])) x Q.
Proof.
  intros HQ pre post buflen Hle Hlt. exists x. change (blen (wire (GSub []))) with 0 in *. unfold unpack_end. zcases.
  by rewrite Z.add_0_r.
Qed.

Lemma unpacks_weaken {X} (m : unpacker X) bs x (Q Q' : X -> Prop) :
  unpacks m bs x Q -> (∀ x', Q x' -> Q' x') -> unpacks m bs x Q'.
Proof. intros H HQ pre post buflen Hle Hlt. destruct (H pre post buflen) as (x' & ? & ?); eauto. Qed.

(** A member is left as it is when its presence bit is 0.  In both cases the structure
    is changed at most in this member, and the other process sees in it what was sent. *)
Lemma unpacks_absent {X A} (m : unpacker X) (view : A -> gval) (b : bool) v set (old : A) x (Q : X -> Prop) :
  set old x = x ->
  (∀ buf n off, b = false -> m buf n (x, off) = Some (true, (x, off))) ->
  (b = true -> unpacks m (wire (view v)) x (λ x', ∃ w, view w = view v ∧ x' = set w x)) ->
  (∀ w, opt b (view w) = opt b (view v) -> Q (set w x)) ->
  unpacks m (wire (opt b (view v))) x Q.
Proof.
  intros Hset Hn Hp HQ. destruct b.
  - eapply unpacks_weaken; [by apply Hp|]. intros x' (w & Hw & ->). by apply HQ.
  - intros pre post buflen Hle Hlt. exists x. cbn. rewrite Hn, Z.add_0_r by done. split; [done|].
    rewrite <- Hset. by apply HQ.
Qed.

Lemma unpacks_mem {X A} (t : ctype A) set v (x : X) (Q : X -> Prop) :
  fits t v -> Q (set v x) -> unpacks (unpack_mem t set) (to_mem t v) x Q.
Proof.
  intros [Hl Hv] HQ pre post buflen Hle Hlt. exists (set v x). split; [|done].
  unfold unpack_mem. rewrite read_mem_app by done. unfold blen in *. zcases.
  cbn [mbind option_bind]. by rewrite Hv, Hl, uwrap_small by lia.
Qed.

Lemma unpacks_presence {X} n p set (x : X) (Q : X -> Prop) :
  fits (uint_of n) p -> Q (set p x) -> unpacks (UNPACK_PRESENCE n set) (wire (GRaw (le_bytes n p))) x Q.
Proof. apply (unpacks_mem (uint_of n)). Qed.

Lemma unpacks_basic {X A} (t : ctype A) present set old b v (x : X) (Q : X -> Prop) :
  present x = b -> set old x = x -> when b (fits t v) ->
  (∀ w, opt b (view_basic t w) = opt b (view_basic t v) -> Q (set w x)) ->
  unpacks (UNPACK_BASIC t present set) (wire (opt b (view_basic t v))) x Q.
Proof.
  intros Hb Hset H HQ. apply (unpacks_absent _ (view_basic t) b v set old); try done; unfold UNPACK_BASIC.
  - intros buf n off ->. by rewrite Hb.
  - intros -> pre post buflen Hle Hlt. rewrite Hb. eapply unpacks_mem; eauto.
Qed.

Lemma memcpy_octets size o (old pre post : list Z) : good_octets size o ->
  ∃ rest, memcpy (Z.to_nat (os_len o)) (pre ++ os_bytes size o ++ post) (blen pre) (array size old) 0
  = Some (os_bytes size o ++ rest) ∧ length (os_bytes size o ++ rest) = size.
Proof.
  intros Hg. pose proof (length_os_bytes _ _ Hg) as Hl. unfold good_octets in Hg.
  replace (Z.to_nat (os_len o)) with (length (os_bytes size o)) by lia.
  rewrite memcpy_get by (rewrite length_array; lia). eexists; split; [done|].
  rewrite length_app, length_drop, length_array. lia.
Qed.

Lemma octets_of_prefix size bs rest : length (bs ++ rest) = size ->
  os_bytes size (mk_OctetString (Z.of_nat (length bs)) (bs ++ rest)) = bs.
Proof. intros H. unfold os_bytes, array. cbn. rewrite Nat2Z.id, resize_ge, H, Nat.sub_diag, app_nil_r by lia. apply take_app_length. Qed.

(** What the two macros that read an octet string find where one was put. *)
Lemma get_octets size o pre post buflen :
  (size <= 256)%nat -> good_octets size o -> let bs := wire (view_octets size o) in
  blen pre + blen bs <= buflen -> buflen < 2 ^ 32 ->
  (buflen <? blen pre + 4) = false ∧
  (∃ lenb, read_mem 4 (pre ++ bs ++ post) (blen pre) = Some lenb ∧ of_le_bytes lenb = os_len o) ∧
  Z.min (os_len o) (Z.of_nat size - 1) = os_len o ∧
  u32 (u32 (blen pre + 4) + os_len o) = blen pre + blen bs ∧
  (buflen <? blen pre + blen bs) = false ∧
  ∀ old, ∃ rest,
    memcpy (Z.to_nat (os_len o)) (pre ++ bs ++ post) (u32 (blen pre + 4)) (array size old) 0
    = Some (os_bytes size o ++ rest) ∧ length (os_bytes size o ++ rest) = size.
Proof.
  intros Hsz H bs Hle Hlt.
  assert (blen bs = 4 + os_len o) as Hw by apply length_wire_octets, H. rewrite Hw in *.
  pose proof (length_os_bytes _ _ H) as Hl. pose proof H as [H0 H1]. pose proof (blen_nonneg pre).
  assert (bs = le_bytes 4 (os_len o) ++ os_bytes size o) as -> by (unfold bs; cbn [view_octets wire]; by rewrite Hl).
  rewrite <- app_assoc, u32_add_l, !uwrap_small by lia. split_and!; try (zcases; done) || lia.
  - exists (le_bytes 4 (os_len o)). rewrite read_mem_app, of_le_le4 by (apply length_le_bytes || lia). done.
  - intros old. destruct (memcpy_octets size o old (pre ++ le_bytes 4 (os_len o)) post H) as (rest & E & Hr).
    rewrite blen_app, blen_le, <- app_assoc in E. eauto.
Qed.

Lemma unpacks_octets {X} size present set get b o (x : X) (Q : X -> Prop) :
  present x = b -> set (get x) x = x -> (∀ w w', set w (set w' x) = set w x) ->
  (size <= 256)%nat -> when b (good_octets size o) ->
  (∀ w, opt b (view_octets size w) = opt b (view_octets size o) -> Q (set w x)) ->
  unpacks (UNPACK_OCTETSTRING size present get set) (wire (opt b (view_octets size o))) x Q.
Proof.
  intros Hb Hset Hss Hsz H HQ. apply (unpacks_absent _ (view_octets size) b o set (get x)); try done;
    unfold UNPACK_OCTETSTRING; [intros buf n off ->; by rewrite Hb|].
  intros -> pre post buflen Hle Hlt. specialize (H eq_refl). rewrite Hb.
  pose proof (length_os_bytes _ _ H) as Hl. pose proof H as [H0 H1].
  destruct (get_octets size o pre post buflen Hsz H Hle Hlt) as (-> & (lenb & -> & E2) & E3 & E4 & E5 & Hval).
  cbn [mbind option_bind]. rewrite E2, E3, E4, E5.
  destruct (Hval (os_val (get x))) as (rest & -> & Hr). cbn [mbind option_bind].
  rewrite store_Some by lia. cbn [mbind option_bind]. rewrite Hss.
  eexists; split; [done|]. eexists; split; [|done]. unfold view_octets. f_equal.
  rewrite insert_app_r_alt by lia. rewrite <- Hl at 1.
  apply octets_of_prefix. rewrite length_app, length_insert in *. done.
Qed.

Lemma unpacks_octets_item size o (x : OctetString) :
  (size <= 256)%nat -> good_octets size o ->
  unpacks (unpack_octets_item size) (wire (view_octets size o)) x (λ x', view_octets size x' = view_octets size o).
Proof.
  intros Hsz H pre post buflen Hle Hlt. unfold unpack_octets_item.
  pose proof (length_os_bytes _ _ H) as Hl.
  destruct (get_octets size o pre post buflen Hsz H Hle Hlt) as (-> & (lenb & -> & E2) & E3 & E4 & E5 & Hval).
  cbn [mbind option_bind]. rewrite E2, E3, E4.
  destruct (Hval (os_val x)) as (rest & -> & Hr). cbn [mbind option_bind].
  eexists; split; [done|]. unfold view_octets. f_equal. rewrite <- Hl at 1. by apply octets_of_prefix.
Qed.

Lemma unpacks_struct {X S} calc pack unpack view (good : S -> Prop) present get set b s (x : X) (Q : X -> Prop) :
  StructOk calc pack unpack view good ->
  present x = b -> set (get x) x = x -> when b (good s) ->
  (∀ w, opt b (view w) = opt b (view s) -> Q (set w x)) ->
  unpacks (UNPACK_STRUCT present get set unpack) (wire (opt b (view s))) x Q.
Proof.
  intros Hs Hb Hset H HQ. apply (unpacks_absent _ view b s set (get x)); try done;
    unfold UNPACK_STRUCT; [intros buf n off ->; by rewrite Hb|].
  intros -> pre post buflen Hle Hlt. rewrite Hb.
  destruct (struct_unpack Hs s (get x) (H eq_refl) pre post buflen Hle Hlt) as (s' & E & Hv).
  rewrite E. cbn. eauto.
Qed.

(** [malloc] finds memory. *)
Class MallocSucceeds `{Memory} : Prop := malloc_succeeds : ∀ n, malloc_ok n = true.

Lemma unpacks_each {A} (body : unpacker A) view its n idx (l : list A) :
  length its = n -> length l = (idx + n)%nat ->
  Forall (λ a, ∀ x, unpacks body (wire (view a)) x (λ x', view x' = view a)) its ->
  unpacks (unpack_each body n idx) (concat (map wire (map view its))) l
    (λ l', length l' = length l ∧ take idx l' = take idx l ∧ map view (drop idx l') = map view its).
Proof.
  revert idx l its; induction n as [|n IH]; intros idx l its Hi Hl HF pre post buflen Hle Hlt.
  { destruct its; [|done]. exists l. cbn [map concat]. change (blen []) with 0. rewrite Z.add_0_r.
    rewrite drop_ge by lia. done. }
  destruct its as [|a its]; [done|]. apply Forall_cons_1 in HF as [Ha HF].
  cbn [map concat unpack_each] in *. rewrite blen_app in *. pose proof (blen_nonneg (concat (map wire (map view its)))).
  destruct (lookup_lt_is_Some_2 l idx) as [x Hx]; [lia|].
  destruct (Ha x pre (concat (map wire (map view its)) ++ post) buflen) as (a' & E & Hv); [lia|done|].
  rewrite <- app_assoc, Hx. cbn [mbind option_bind]. rewrite E. cbn [mbind option_bind].
  destruct (IH (S idx) (<[idx:=a']> l) its ltac:(naive_solver) ltac:(rewrite length_insert; lia) HF
              (pre ++ wire (view a)) post buflen) as (l' & E' & L1 & L2 & L3); [rewrite blen_app; lia|done|].
  rewrite blen_app, <- app_assoc, <- Z.add_assoc in E'. rewrite length_insert in L1.
  assert (l' !! idx = Some a') as Hx'.
  { rewrite <- (lookup_take_lt _ (S idx)), L2, lookup_take_lt by lia. apply list_lookup_insert_eq. lia. }
  exists l'. rewrite E', Z.add_assoc. split; [done|]. split; [done|]. split.
  - assert (∀ k : list A, take idx k = take idx (take (S idx) k)) as Ht
      by (intros; by rewrite take_take, Nat.min_l by lia).
    rewrite Ht, L2, <- Ht. by apply take_insert_ge.
  - rewrite (drop_S l' a' idx) by done. cbn. by rewrite Hv, L3.
Qed.

Lemma unpacks_list `{MallocSucceeds} {X A} strict size zero present set (body : unpacker A) view (good : A -> Prop)
    old b l (x : X) (Q : X -> Prop) :
  present x = b -> set old x = x -> when b (good_list good l) ->
  (strict = true -> when b (4 < blen (wire (view_list view l)))) ->
  (∀ a y, good a -> unpacks body (wire (view a)) y (λ y', view y' = view a)) ->
  (∀ w, opt b (view_list view w) = opt b (view_list view l) -> Q (set w x)) ->
  unpacks (unpack_list strict size zero present set body) (wire (opt b (view_list view l))) x Q.
Proof.
  intros Hb Hset Hg Hs Hbody HQ. apply (unpacks_absent _ (view_list view) b l set old); try done;
    unfold unpack_list; [intros buf n off ->; by rewrite Hb|].
  intros -> pre post buflen Hle Hlt. specialize (Hg eq_refl). rewrite Hb.
  pose proof (length_items_of _ _ Hg) as Hl. destruct Hg as (H1 & H2 & HF).
  assert (wire (view_list view l) = le_bytes 4 (l_count l) ++ concat (map wire (map view (items_of l)))) as Hw
    by (unfold view_list; cbn [wire]; by rewrite length_map, Hl).
  pose proof (blen_nonneg pre). pose proof (blen_nonneg (concat (map wire (map view (items_of l))))).
  rewrite Hw, blen_app, blen_le in *. change (Z.of_nat 4) with 4 in *.
  assert ((if strict then buflen <=? blen pre + 4 else buflen <? blen pre + 4) = false) as ->.
  { destruct strict; [specialize (Hs eq_refl eq_refl)|]; zcases. }
  rewrite <- app_assoc, read_mem_app by apply length_le_bytes. cbn [mbind option_bind].
  rewrite of_le_le4, to_signed_small by lia. unfold malloc_list. rewrite malloc_succeeds.
  rewrite uwrap_small by lia.
  destruct (unpacks_each body view (items_of l) (Z.to_nat (l_count l)) 0
    (map (uninit A zero (blen pre)) (seq 0 (Z.to_nat (l_count l)))) ltac:(lia) ltac:(by rewrite length_map, length_seq)
    ltac:(eapply Forall_impl; eauto) (pre ++ le_bytes 4 (l_count l)) post buflen)
    as (l' & E & L1 & _ & L3); [rewrite blen_app, blen_le; lia|done|].
  rewrite blen_app, blen_le, <- app_assoc in E. change (Z.of_nat 4) with 4 in E. rewrite E. cbn.
  eexists; split; [do 3 f_equal; lia|]. eexists; split; [|done].
  rewrite length_map, length_seq in L1. rewrite drop_0 in L3. unfold view_list at 1, items_of at 1. cbn.
  rewrite take_ge by lia. unfold view_list. by rewrite L3.
Qed.

Lemma unpacks_list_basic `{MallocSucceeds} {X A} (t : ctype A) zero present set old b l (x : X) (Q : X -> Prop) :
  present x = b -> set old x = x -> when b (good_list (fits t) l) ->
  (∀ w, opt b (view_list (view_basic t) w) = opt b (view_list (view_basic t) l) -> Q (set w x)) ->
  unpacks (UNPACK_LIST_BASIC t zero present set) (wire (opt b (view_list (view_basic t) l))) x Q.
Proof.
  intros Hb Hset Hg HQ. eapply unpacks_list; eauto; [done|]. intros a y Ha. by apply unpacks_mem.
Qed.

Lemma unpacks_list_octets `{MallocSucceeds} {X} size present set old b l (x : X) (Q : X -> Prop) :
  present x = b -> set old x = x -> (size <= 256)%nat -> when b (good_octets_list size l) ->
  (∀ w, opt b (view_list (view_octets size) w) = opt b (view_list (view_octets size) l) -> Q (set w x)) ->
  unpacks (UNPACK_LIST_OCTETSTRING size present set) (wire (opt b (view_list (view_octets size) l))) x Q.
Proof.
  intros Hb Hset Hsz Hg HQ. eapply (unpacks_list true _ _ _ _ _ _ (good_octets size)); eauto.
  - intros E. by apply Hg.
  - intros _ E. destruct (Hg E) as [Hc Hl]. pose proof (length_items_of _ _ Hl) as Hn. destruct Hl as (_ & _ & HF).
    unfold view_list. cbn [wire]. destruct (items_of l) as [|o os]; [cbn in Hn; lia|].
    apply Forall_cons_1 in HF as [Ho _]. cbn [map concat]. rewrite !blen_app, blen_le.
    pose proof (length_wire_octets _ _ Ho). destruct Ho. unfold blen. lia.
  - intros o y Ho. by apply unpacks_octets_item.
Qed.

Lemma unpacks_list_struct `{MallocSucceeds} {X S} calc pack unpack view (good : S -> Prop) size zero present set old b l
    (x : X) (Q : X -> Prop) :
  StructOk calc pack unpack view good ->
  present x = b -> set old x = x -> when b (good_list good l) ->
  (∀ w, opt b (view_list view w) = opt b (view_list view l) -> Q (set w x)) ->
  unpacks (UNPACK_LIST_STRUCT size zero present set unpack) (wire (opt b (view_list view l))) x Q.
Proof.
  intros Hs Hb Hset Hg HQ. eapply unpacks_list; eauto; [done|]. intros a y Ha. by apply (struct_unpack Hs).
Qed.

(** ** Structures and messages *)

Lemma calcs_zero f bs : calcs f bs -> f 0 = Some (u32 (blen bs)).
Proof. intros H. by rewrite H by lia. Qed.

Lemma packs_done : packs pack_done (GSub []).
Proof.
  intros pre old post buflen Hb Hlt _. cbn. rewrite decide_True by lia. unfold pack_done.
  by rewrite drop_0, Z.add_0_r.
Qed.

Lemma unpacks_done {X} (x : X) (Q : X -> Prop) : Q x -> unpacks unpack_done (wire (GSub [])) x Q.
Proof.
  intros HQ pre post buflen Hle Hlt. exists x. change (blen (wire (GSub []))) with 0. unfold unpack_done.
  by rewrite Z.add_0_r.
Qed.

(** What the three functions of a message promise: the length [n] of the message, packing
    into any buffer in which the bytes of [need] are zero, and unpacking. *)
Class MessageOk {S : Type} (calc : S -> option Z) (pack : S -> list Z -> Z -> option (bool * list Z))
    (unpack : list Z -> S -> option (bool * S)) (view : S -> gval) (good : S -> Prop) : Prop := {
  message_calc_ok : ∀ d, good d -> calc d = Some (u32 (4 + blen (wire (view d))));
  message_pack_ok : ∀ d old buflen post, good d -> 4 <= buflen < 2 ^ 32 -> blen old = buflen ->
    cleared (need (view d)) (drop 4 old) ->
    let n := 4 + blen (wire (view d)) in
    ∃ buf, length buf = Z.to_nat buflen ∧
    pack d (old ++ post) buflen = Some (buflen =? n, buf ++ post) ∧
    (buflen = n -> buf = le_bytes 4 n ++ wire (view d));
  message_unpack_ok : ∀ d x post, good d -> let n := 4 + blen (wire (view d)) in
    n < 2 ^ 32 -> ∃ x', unpack (le_bytes 4 n ++ wire (view d) ++ post) x = Some (true, x') ∧ view x' = view d;
}.
Arguments message_calc_ok {S calc pack unpack view good} ok d _ : rename.
Arguments message_pack_ok {S calc pack unpack view good} ok d old buflen post _ _ _ _ : rename.
Arguments message_unpack_ok {S calc pack unpack view good} ok d x post _ _ : rename.

Lemma message_packs members v old buflen post : packs members v -> 4 <= buflen < 2 ^ 32 -> blen old = buflen ->
  cleared (need v) (drop 4 old) ->
  ∃ buf, length buf = Z.to_nat buflen ∧
  message_pack members (old ++ post) buflen = Some (buflen =? 4 + blen (wire v), buf ++ post) ∧
  (buflen = 4 + blen (wire v) -> buf = le_bytes 4 (4 + blen (wire v)) ++ wire v).
Proof.
  intros Hm Hb Ho Hc. unfold message_pack. assert (length (take 4 old) = 4%nat) as H4 by (unfold blen in *; rewrite length_take; lia).
  specialize (Hm (take 4 old) (drop 4 old) post buflen). rewrite app_assoc, take_drop in Hm.
  assert (blen (take 4 old) = 4) as E4 by (unfold blen; lia). rewrite E4, H4 in Hm.
  specialize (Hm ltac:(unfold blen in *; rewrite length_drop; lia) ltac:(lia) Hc). rewrite length_drop in Hm. case_decide as Hd.
  - rewrite Hm. cbn [mbind option_bind]. change 0 with (blen []) at 1. rewrite <- (app_nil_l (take 4 old ++ _)).
    rewrite memcpy_put by (rewrite ?length_le_bytes; lia). cbn [mbind option_bind app].
    rewrite take_ge by (rewrite length_le_bytes; lia).
    exists (le_bytes 4 (4 + blen (wire v)) ++ wire v ++ drop (length (wire v)) (drop 4 old)).
    rewrite <- !app_assoc, Z.eqb_sym. unfold blen in *.
    split; [rewrite !length_app, length_le_bytes, !length_drop; lia|].
    split; [done|]. intros E. rewrite drop_ge by (rewrite length_drop; lia). by rewrite app_nil_r.
  - destruct Hm as (body & off & Hl & ->). cbn. exists body. unfold blen in *. split; [lia|].
    split; [|intros; lia]. by zcases.
Qed.

Lemma message_unpacks {X} (members : unpacker X) bs x post Q : unpacks members bs x Q -> 4 + blen bs < 2 ^ 32 ->
  ∃ x', message_unpack members (le_bytes 4 (4 + blen bs) ++ bs ++ post) x = Some (true, x') ∧ Q x'.
Proof.
  intros Hm Hlt. unfold message_unpack. pose proof (blen_nonneg bs).
  change 0 with (blen []) at 1. rewrite <- (app_nil_l (le_bytes 4 _ ++ _)).
  rewrite read_mem_app by apply length_le_bytes. cbn [mbind option_bind app].
  rewrite of_le_le4 by lia.
  destruct (Hm (le_bytes 4 (4 + blen bs)) post (4 + blen bs)) as (x' & E & HQ); [by rewrite blen_le|lia|].
  rewrite blen_le in E. change (Z.of_nat 4) with 4 in E. rewrite E. cbn. rewrite Z.eqb_refl. eauto.
Qed.

(** ** Automation: one rule for each kind of member *)

(** The condition on the next member. *)
Ltac next_good Hg Hm :=
  lazymatch type of Hg with
  | _ ∧ _ => destruct Hg as [Hm Hg]
  | _ => pose proof Hg as Hm
  end.

Ltac calc_member Hg :=
  let Hm := fresh in next_good Hg Hm; apply calcs_seq;
  [ lazymatch goal with
    | |- calcs (CALCLEN_PRESENCE _) _ => apply calcs_presence
    | |- calcs (CALCLEN_BASIC _ _) _ => apply calcs_basic; exact Hm
    | |- calcs (CALCLEN_OCTETSTRING _ _) _ => apply calcs_octets; exact Hm
    | |- calcs (CALCLEN_STRUCT _ _ _) _ => eapply calcs_struct; [typeclasses eauto|exact Hm]
    | |- calcs (CALCLEN_LIST_BASIC _ _ _) _ => apply calcs_list_basic; exact Hm
    | |- calcs (CALCLEN_LIST_OCTETSTRING _ _) _ => apply calcs_list_octets; exact Hm
    | |- calcs (CALCLEN_LIST_STRUCT _ _ _) _ => eapply calcs_list_struct; [typeclasses eauto|exact Hm]
    end
  | ].

Ltac pack_member Hg :=
  let Hm := fresh in next_good Hg Hm; apply packs_seq;
  [ lazymatch goal with
    | |- packs (PACK_PRESENCE _ _) _ => apply packs_presence
    | |- packs (PACK_BASIC _ _ _) _ => apply packs_basic; exact Hm
    | |- packs (PACK_OCTETSTRING _ _ _) _ => apply packs_octets; exact Hm
    | |- packs (PACK_STRUCT _ _ _) _ => eapply packs_struct; [typeclasses eauto|exact Hm]
    | |- packs (PACK_LIST_BASIC _ _ _) _ => apply packs_list_basic; exact Hm
    | |- packs (PACK_LIST_OCTETSTRING _ _ _) _ => apply packs_list_octets; exact Hm
    | |- packs (PACK_LIST_STRUCT _ _ _) _ => eapply packs_list_struct; [typeclasses eauto|exact Hm]
    end
  | ].

(** The structure that is filled, in normal form after each member. *)
Ltac filled :=
  lazymatch goal with
  | |- unpacks _ _ ?x _ => let y := eval hnf in x in change x with y
  end.

Ltac small_size := apply Nat.leb_le; vm_compute; reflexivity.

Lemma seen_snoc (l l' : list gval) a a' : l = l' -> a = a' -> l ++ [a] = l' ++ [a'].
Proof. by intros -> ->. Qed.

(** One more member is seen as it was sent. *)
Ltac saw Hacc H :=
  let Hn := fresh in pose proof (seen_snoc _ _ _ _ Hacc H) as Hn; clear Hacc; rename Hn into Hacc.

Ltac seen Hacc := let w := fresh "w" in let Hw := fresh in intros w Hw; saw Hacc Hw; clear Hw; filled.

Ltac unpack_member Hg Hacc :=
  let Hm := fresh in next_good Hg Hm;
  apply unpacks_seq;
  lazymatch goal with
  | |- unpacks (UNPACK_PRESENCE _ _) _ _ _ =>
      apply unpacks_presence; [exact Hm|];
      lazymatch type of Hm with fits (uint_of ?n) ?p => saw Hacc (eq_refl (GRaw (le_bytes n p))) end; filled
  | |- unpacks (UNPACK_BASIC _ _ _) _ _ _ =>
      eapply unpacks_basic; [reflexivity| |exact Hm|]; [reflexivity|seen Hacc]
  | |- unpacks (UNPACK_OCTETSTRING _ _ _ _) _ _ _ =>
      eapply unpacks_octets; [reflexivity| | |small_size|exact Hm|]; [reflexivity|reflexivity|seen Hacc]
  | |- unpacks (UNPACK_STRUCT _ _ _ _) _ _ _ =>
      eapply unpacks_struct; [typeclasses eauto|reflexivity| |exact Hm|]; [reflexivity|seen Hacc]
  | |- unpacks (UNPACK_LIST_BASIC _ _ _ _) _ _ _ =>
      eapply unpacks_list_basic; [reflexivity| |exact Hm|]; [reflexivity|seen Hacc]
  | |- unpacks (UNPACK_LIST_OCTETSTRING _ _ _) _ _ _ =>
      eapply unpacks_list_octets; [reflexivity| |small_size|exact Hm|]; [reflexivity|seen Hacc]
  | |- unpacks (UNPACK_LIST_STRUCT _ _ _ _ _) _ _ _ =>
      eapply unpacks_list_struct; [typeclasses eauto|reflexivity| |exact Hm|]; [reflexivity|seen Hacc]
  end.

Ltac unpack_members Hg :=
  let Hacc := fresh in pose proof (eq_refl (@nil gval)) as Hacc;
  repeat (unpack_member Hg Hacc);
  lazymatch goal with
  | |- unpacks unpack_end _ _ _ => apply unpacks_end
  | |- unpacks unpack_done _ _ _ => apply unpacks_done
  end; exact (f_equal GSub Hacc).

(** The definitions of the function and of the view in the goal. *)
Ltac open_goal :=
  lazymatch goal with
  | |- packs ?m ?v => let m' := eval red in m in let v' := eval red in v in change (packs m' v')
  | |- unpacks ?m (wire ?v) ?x ?Q =>
      let m' := eval red in m in let v' := eval red in v in change (unpacks m' (wire v') x Q)
  | |- ?f = Some (u32 (?n + blen (wire ?v))) =>
      let f' := eval red in f in let v' := eval red in v in change (f' = Some (u32 (n + blen (wire v'))))
  | |- ?f = Some (u32 (blen (wire ?v))) =>
      let f' := eval red in f in let v' := eval red in v in change (f' = Some (u32 (blen (wire v'))))
  end.

Ltac struct_ok :=
  constructor; intros d;
  [ intros Hg; red in Hg; open_goal; apply calcs_zero; repeat (calc_member Hg); apply calcs_none
  | intros Hg; red in Hg; open_goal; repeat (pack_member Hg); apply packs_end
  | intros x Hg; red in Hg; open_goal; destruct x; unpack_members Hg ].

Lemma message_calcs f bs : calcs f bs -> message_calc_length f = Some (u32 (4 + blen bs)).
Proof. intros H. by apply H. Qed.

Ltac message_ok :=
  constructor; intros d;
  [ intros Hg; red in Hg; open_goal; apply message_calcs; repeat (calc_member Hg); apply calcs_none
  | intros old buflen post Hg Hb Ho Hc; red in Hg; apply message_packs; [|exact Hb|exact Ho|exact Hc];
    open_goal; repeat (pack_member Hg); apply packs_done
  | intros x post Hg; red in Hg; apply message_unpacks; open_goal; destruct x; unpack_members Hg ].

(** A list of octet strings without elements is packed like any list, and refused at the
    end of a message, where the four bytes of its length are all that is left. *)
Lemma empty_list_refused `{Memory} {X} size present (set : clist OctetString -> X -> X) x pre l post buf buflen :
  present x = true -> l_count l = 0 -> buflen = blen pre + 4 -> buflen < 2 ^ 32 ->
  PACK_LIST_OCTETSTRING size true l buflen (pre ++ replicate 4 0 ++ post, blen pre)
    = Some (true, (pre ++ le_bytes 4 0 ++ post, buflen)) ∧
  UNPACK_LIST_OCTETSTRING size present set buf buflen (x, blen pre) = Some (false, (x, blen pre)).
Proof.
  intros Hx Hl -> Hb. pose proof (blen_nonneg pre). split.
  - unfold PACK_LIST_OCTETSTRING, pack_list, pack_seq. rewrite Hl.
    pose proof (packs_bytes 4 (le_bytes 4 0) eq_refl pre (replicate 4 0) post _ eq_refl Hb (Forall_nil_2 _)) as E.
    rewrite decide_True in E by (by rewrite length_le_bytes). change (blen (replicate 4 0)) with 4 in E. by rewrite E.
  - unfold UNPACK_LIST_OCTETSTRING, unpack_list. rewrite Hx. by zcases.
Qed.
