(* ===== verification/GxPack.v ===== *)
(** * The packing functions of the Gx messages

    src/cp/gx/gx_app/src/gx_pack.c: for every structure the calculation of its length, the
    packing and the unpacking, and the same for the four messages. *)

From S2P Require Import Prelude GxCodec GxStructs.

Local Open Scope gx_scope.

Section GxPack.
Context `{Memory}.

Definition calcLengthGxProxyInfo (data : GxProxyInfo) : option Z :=
  (CALCLEN_PRESENCE GxProxyInfoPresence ;c
    CALCLEN_OCTETSTRING (has_GxProxyInfo_proxy_host data) data.(GxProxyInfo_proxy_host) ;c
    CALCLEN_OCTETSTRING (has_GxProxyInfo_proxy_state data) data.(GxProxyInfo_proxy_state) ;c
    calc_none) 0.

Definition packGxProxyInfo (data : GxProxyInfo) : packer :=
    PACK_PRESENCE GxProxyInfoPresence data.(GxProxyInfo_presence) ;p
    PACK_OCTETSTRING GxProxyHostOctetString (has_GxProxyInfo_proxy_host data) data.(GxProxyInfo_proxy_host) ;p
    PACK_OCTETSTRING GxProxyStateOctetString (has_GxProxyInfo_proxy_state data) data.(GxProxyInfo_proxy_state) ;p
    pack_end.

Definition unpackGxProxyInfo : unpacker GxProxyInfo :=
    UNPACK_PRESENCE GxProxyInfoPresence set_GxProxyInfo_presence ;u
    UNPACK_OCTETSTRING GxProxyHostOctetString has_GxProxyInfo_proxy_host GxProxyInfo_proxy_host set_GxProxyInfo_proxy_host ;u
    UNPACK_OCTETSTRING GxProxyStateOctetString has_GxProxyInfo_proxy_state GxProxyInfo_proxy_state set_GxProxyInfo_proxy_state ;u
    unpack_end.

Definition calcLengthGxPresenceReportingAreaInformation (data : GxPresenceReportingAreaInformation) : option Z :=
  (CALCLEN_PRESENCE GxPresenceReportingAreaInformationPresence ;c
    CALCLEN_OCTETSTRING (has_GxPresenceReportingAreaInformation_presence_reporting_area_identifier data) data.(GxPresenceReportingAreaInformation_presence_reporting_area_identifier) ;c
    CALCLEN_BASIC uint32_t (has_GxPresenceReportingAreaInformation_presence_reporting_area_status data) ;c
    CALCLEN_OCTETSTRING (has_GxPresenceReportingAreaInformation_presence_reporting_area_elements_list data) data.(GxPresenceReportingAreaInformation_presence_reporting_area_elements_list) ;c
    CALCLEN_BASIC uint32_t (has_GxPresenceReportingAreaInformation_presence_reporting_area_node data) ;c
    calc_none) 0.

Definition packGxPresenceReportingAreaInformation (data : GxPresenceReportingAreaInformation) : packer :=
    PACK_PRESENCE GxPresenceReportingAreaInformationPresence data.(GxPresenceReportingAreaInformation_presence) ;p
    PACK_OCTETSTRING GxPresenceReportingAreaIdentifierOctetString (has_GxPresenceReportingAreaInformation_presence_reporting_area_identifier data) data.(GxPresenceReportingAreaInformation_presence_reporting_area_identifier) ;p
    PACK_BASIC uint32_t (has_GxPresenceReportingAreaInformation_presence_reporting_area_status data) data.(GxPresenceReportingAreaInformation_presence_reporting_area_status) ;p
    PACK_OCTETSTRING GxPresenceReportingAreaElementsListOctetString (has_GxPresenceReportingAreaInformation_presence_reporting_area_elements_list data) data.(GxPresenceReportingAreaInformation_presence_reporting_area_elements_list) ;p
    PACK_BASIC uint32_t (has_GxPresenceReportingAreaInformation_presence_reporting_area_node data) data.(GxPresenceReportingAreaInformation_presence_reporting_area_node) ;p
    pack_end.

Definition unpackGxPresenceReportingAreaInformation : unpacker GxPresenceReportingAreaInformation :=
    UNPACK_PRESENCE GxPresenceReportingAreaInformationPresence set_GxPresenceReportingAreaInformation_presence ;u
    UNPACK_OCTETSTRING GxPresenceReportingAreaIdentifierOctetString has_GxPresenceReportingAreaInformation_presence_reporting_area_identifier GxPresenceReportingAreaInformation_presence_reporting_area_identifier set_GxPresenceReportingAreaInformation_presence_reporting_area_identifier ;u
    UNPACK_BASIC uint32_t has_GxPresenceReportingAreaInformation_presence_reporting_area_status set_GxPresenceReportingAreaInformation_presence_reporting_area_status ;u
    UNPACK_OCTETSTRING GxPresenceReportingAreaElementsListOctetString has_GxPresenceReportingAreaInformation_presence_reporting_area_elements_list GxPresenceReportingAreaInformation_presence_reporting_area_elements_list set_GxPresenceReportingAreaInformation_presence_reporting_area_elements_list ;u
    UNPACK_BASIC uint32_t has_GxPresenceReportingAreaInformation_presence_reporting_area_node set_GxPresenceReportingAreaInformation_presence_reporting_area_node ;u
    unpack_end.

Definition calcLengthGxRoutingRuleRemove (data : GxRoutingRuleRemove) : option Z :=
  (CALCLEN_PRESENCE GxRoutingRuleRemovePresence ;c
    CALCLEN_LIST_OCTETSTRING (has_GxRoutingRuleRemove_routing_rule_identifier data) data.(GxRoutingRuleRemove_routing_rule_identifier) ;c
    calc_none) 0.

Definition packGxRoutingRuleRemove (data : GxRoutingRuleRemove) : packer :=
    PACK_PRESENCE GxRoutingRuleRemovePresence data.(GxRoutingRuleRemove_presence) ;p
    PACK_LIST_OCTETSTRING GxRoutingRuleIdentifierOctetString (has_GxRoutingRuleRemove_routing_rule_identifier data) data.(GxRoutingRuleRemove_routing_rule_identifier) ;p
    pack_end.

Definition unpackGxRoutingRuleRemove : unpacker GxRoutingRuleRemove :=
    UNPACK_PRESENCE GxRoutingRuleRemovePresence set_GxRoutingRuleRemove_presence ;u
    UNPACK_LIST_OCTETSTRING GxRoutingRuleIdentifierOctetString has_GxRoutingRuleRemove_routing_rule_identifier set_GxRoutingRuleRemove_routing_rule_identifier ;u
    unpack_end.

Definition calcLengthGxRoutingFilter (data : GxRoutingFilter) : option Z :=
  (CALCLEN_PRESENCE GxRoutingFilterPresence ;c
    CALCLEN_OCTETSTRING (has_GxRoutingFilter_flow_description data) data.(GxRoutingFilter_flow_description) ;c
    CALCLEN_BASIC int32_t (has_GxRoutingFilter_flow_direction data) ;c
    CALCLEN_OCTETSTRING (has_GxRoutingFilter_tos_traffic_class data) data.(GxRoutingFilter_tos_traffic_class) ;c
    CALCLEN_OCTETSTRING (has_GxRoutingFilter_security_parameter_index data) data.(GxRoutingFilter_security_parameter_index) ;c
    CALCLEN_OCTETSTRING (has_GxRoutingFilter_flow_label data) data.(GxRoutingFilter_flow_label) ;c
    calc_none) 0.

Definition packGxRoutingFilter (data : GxRoutingFilter) : packer :=
    PACK_PRESENCE GxRoutingFilterPresence data.(GxRoutingFilter_presence) ;p
    PACK_OCTETSTRING GxFlowDescriptionOctetString (has_GxRoutingFilter_flow_description data) data.(GxRoutingFilter_flow_description) ;p
    PACK_BASIC int32_t (has_GxRoutingFilter_flow_direction data) data.(GxRoutingFilter_flow_direction) ;p
    PACK_OCTETSTRING GxTosTrafficClassOctetString (has_GxRoutingFilter_tos_traffic_class data) data.(GxRoutingFilter_tos_traffic_class) ;p
    PACK_OCTETSTRING GxSecurityParameterIndexOctetString (has_GxRoutingFilter_security_parameter_index data) data.(GxRoutingFilter_security_parameter_index) ;p
    PACK_OCTETSTRING GxFlowLabelOctetString (has_GxRoutingFilter_flow_label data) data.(GxRoutingFilter_flow_label) ;p
    pack_end.

Definition unpackGxRoutingFilter : unpacker GxRoutingFilter :=
    UNPACK_PRESENCE GxRoutingFilterPresence set_GxRoutingFilter_presence ;u
    UNPACK_OCTETSTRING GxFlowDescriptionOctetString has_GxRoutingFilter_flow_description GxRoutingFilter_flow_description set_GxRoutingFilter_flow_description ;u
    UNPACK_BASIC int32_t has_GxRoutingFilter_flow_direction set_GxRoutingFilter_flow_direction ;u
    UNPACK_OCTETSTRING GxTosTrafficClassOctetString has_GxRoutingFilter_tos_traffic_class GxRoutingFilter_tos_traffic_class set_GxRoutingFilter_tos_traffic_class ;u
    UNPACK_OCTETSTRING GxSecurityParameterIndexOctetString has_GxRoutingFilter_security_parameter_index GxRoutingFilter_security_parameter_index set_GxRoutingFilter_security_parameter_index ;u
    UNPACK_OCTETSTRING GxFlowLabelOctetString has_GxRoutingFilter_flow_label GxRoutingFilter_flow_label set_GxRoutingFilter_flow_label ;u
    unpack_end.

Definition calcLengthGxRoutingRuleDefinition (data : GxRoutingRuleDefinition) : option Z :=
  (CALCLEN_PRESENCE GxRoutingRuleDefinitionPresence ;c
    CALCLEN_OCTETSTRING (has_GxRoutingRuleDefinition_routing_rule_identifier data) data.(GxRoutingRuleDefinition_routing_rule_identifier) ;c
    CALCLEN_LIST_STRUCT (has_GxRoutingRuleDefinition_routing_filter data) data.(GxRoutingRuleDefinition_routing_filter) calcLengthGxRoutingFilter ;c
    CALCLEN_BASIC uint32_t (has_GxRoutingRuleDefinition_precedence data) ;c
    CALCLEN_BASIC FdAddress (has_GxRoutingRuleDefinition_routing_ip_address data) ;c
    CALCLEN_BASIC int32_t (has_GxRoutingRuleDefinition_ip_can_type data) ;c
    calc_none) 0.

Definition packGxRoutingRuleDefinition (data : GxRoutingRuleDefinition) : packer :=
    PACK_PRESENCE GxRoutingRuleDefinitionPresence data.(GxRoutingRuleDefinition_presence) ;p
    PACK_OCTETSTRING GxRoutingRuleIdentifierOctetString (has_GxRoutingRuleDefinition_routing_rule_identifier data) data.(GxRoutingRuleDefinition_routing_rule_identifier) ;p
    PACK_LIST_STRUCT (has_GxRoutingRuleDefinition_routing_filter data) data.(GxRoutingRuleDefinition_routing_filter) packGxRoutingFilter ;p
    PACK_BASIC uint32_t (has_GxRoutingRuleDefinition_precedence data) data.(GxRoutingRuleDefinition_precedence) ;p
    PACK_BASIC FdAddress (has_GxRoutingRuleDefinition_routing_ip_address data) data.(GxRoutingRuleDefinition_routing_ip_address) ;p
    PACK_BASIC int32_t (has_GxRoutingRuleDefinition_ip_can_type data) data.(GxRoutingRuleDefinition_ip_can_type) ;p
    pack_end.

Definition unpackGxRoutingRuleDefinition : unpacker GxRoutingRuleDefinition :=
    UNPACK_PRESENCE GxRoutingRuleDefinitionPresence set_GxRoutingRuleDefinition_presence ;u
    UNPACK_OCTETSTRING GxRoutingRuleIdentifierOctetString has_GxRoutingRuleDefinition_routing_rule_identifier GxRoutingRuleDefinition_routing_rule_identifier set_GxRoutingRuleDefinition_routing_rule_identifier ;u
    UNPACK_LIST_STRUCT sizeof_GxRoutingFilter zero_GxRoutingFilter has_GxRoutingRuleDefinition_routing_filter set_GxRoutingRuleDefinition_routing_filter unpackGxRoutingFilter ;u
    UNPACK_BASIC uint32_t has_GxRoutingRuleDefinition_precedence set_GxRoutingRuleDefinition_precedence ;u
    UNPACK_BASIC FdAddress has_GxRoutingRuleDefinition_routing_ip_address set_GxRoutingRuleDefinition_routing_ip_address ;u
    UNPACK_BASIC int32_t has_GxRoutingRuleDefinition_ip_can_type set_GxRoutingRuleDefinition_ip_can_type ;u
    unpack_end.

Definition calcLengthGxRoutingRuleInstall (data : GxRoutingRuleInstall) : option Z :=
  (CALCLEN_PRESENCE GxRoutingRuleInstallPresence ;c
    CALCLEN_LIST_STRUCT (has_GxRoutingRuleInstall_routing_rule_definition data) data.(GxRoutingRuleInstall_routing_rule_definition) calcLengthGxRoutingRuleDefinition ;c
    calc_none) 0.

Definition packGxRoutingRuleInstall (data : GxRoutingRuleInstall) : packer :=
    PACK_PRESENCE GxRoutingRuleInstallPresence data.(GxRoutingRuleInstall_presence) ;p
    PACK_LIST_STRUCT (has_GxRoutingRuleInstall_routing_rule_definition data) data.(GxRoutingRuleInstall_routing_rule_definition) packGxRoutingRuleDefinition ;p
    pack_end.

Definition unpackGxRoutingRuleInstall : unpacker GxRoutingRuleInstall :=
    UNPACK_PRESENCE GxRoutingRuleInstallPresence set_GxRoutingRuleInstall_presence ;u
    UNPACK_LIST_STRUCT sizeof_GxRoutingRuleDefinition zero_GxRoutingRuleDefinition has_GxRoutingRuleInstall_routing_rule_definition set_GxRoutingRuleInstall_routing_rule_definition unpackGxRoutingRuleDefinition ;u
    unpack_end.

Definition calcLengthGxUnitValue (data : GxUnitValue) : option Z :=
  (CALCLEN_PRESENCE GxUnitValuePresence ;c
    CALCLEN_BASIC int64_t (has_GxUnitValue_value_digits data) ;c
    CALCLEN_BASIC int32_t (has_GxUnitValue_exponent data) ;c
    calc_none) 0.

Definition packGxUnitValue (data : GxUnitValue) : packer :=
    PACK_PRESENCE GxUnitValuePresence data.(GxUnitValue_presence) ;p
    PACK_BASIC int64_t (has_GxUnitValue_value_digits data) data.(GxUnitValue_value_digits) ;p
    PACK_BASIC int32_t (has_GxUnitValue_exponent data) data.(GxUnitValue_exponent) ;p
    pack_end.

Definition unpackGxUnitValue : unpacker GxUnitValue :=
    UNPACK_PRESENCE GxUnitValuePresence set_GxUnitValue_presence ;u
    UNPACK_BASIC int64_t has_GxUnitValue_value_digits set_GxUnitValue_value_digits ;u
    UNPACK_BASIC int32_t has_GxUnitValue_exponent set_GxUnitValue_exponent ;u
    unpack_end.

Definition calcLengthGxCcMoney (data : GxCcMoney) : option Z :=
  (CALCLEN_PRESENCE GxCcMoneyPresence ;c
    CALCLEN_STRUCT (has_GxCcMoney_unit_value data) data.(GxCcMoney_unit_value) calcLengthGxUnitValue ;c
    CALCLEN_BASIC uint32_t (has_GxCcMoney_currency_code data) ;c
    calc_none) 0.

Definition packGxCcMoney (data : GxCcMoney) : packer :=
    PACK_PRESENCE GxCcMoneyPresence data.(GxCcMoney_presence) ;p
    PACK_STRUCT (has_GxCcMoney_unit_value data) data.(GxCcMoney_unit_value) packGxUnitValue ;p
    PACK_BASIC uint32_t (has_GxCcMoney_currency_code data) data.(GxCcMoney_currency_code) ;p
    pack_end.

Definition unpackGxCcMoney : unpacker GxCcMoney :=
    UNPACK_PRESENCE GxCcMoneyPresence set_GxCcMoney_presence ;u
    UNPACK_STRUCT has_GxCcMoney_unit_value GxCcMoney_unit_value set_GxCcMoney_unit_value unpackGxUnitValue ;u
    UNPACK_BASIC uint32_t has_GxCcMoney_currency_code set_GxCcMoney_currency_code ;u
    unpack_end.

Definition calcLengthGxUsedServiceUnit (data : GxUsedServiceUnit) : option Z :=
  (CALCLEN_PRESENCE GxUsedServiceUnitPresence ;c
    CALCLEN_BASIC int32_t (has_GxUsedServiceUnit_reporting_reason data) ;c
    CALCLEN_BASIC int32_t (has_GxUsedServiceUnit_tariff_change_usage data) ;c
    CALCLEN_BASIC uint32_t (has_GxUsedServiceUnit_cc_time data) ;c
    CALCLEN_STRUCT (has_GxUsedServiceUnit_cc_money data) data.(GxUsedServiceUnit_cc_money) calcLengthGxCcMoney ;c
    CALCLEN_BASIC uint64_t (has_GxUsedServiceUnit_cc_total_octets data) ;c
    CALCLEN_BASIC uint64_t (has_GxUsedServiceUnit_cc_input_octets data) ;c
    CALCLEN_BASIC uint64_t (has_GxUsedServiceUnit_cc_output_octets data) ;c
    CALCLEN_BASIC uint64_t (has_GxUsedServiceUnit_cc_service_specific_units data) ;c
    CALCLEN_LIST_BASIC FdTime (has_GxUsedServiceUnit_event_charging_timestamp data) data.(GxUsedServiceUnit_event_charging_timestamp) ;c
    calc_none) 0.

Definition packGxUsedServiceUnit (data : GxUsedServiceUnit) : packer :=
    PACK_PRESENCE GxUsedServiceUnitPresence data.(GxUsedServiceUnit_presence) ;p
    PACK_BASIC int32_t (has_GxUsedServiceUnit_reporting_reason data) data.(GxUsedServiceUnit_reporting_reason) ;p
    PACK_BASIC int32_t (has_GxUsedServiceUnit_tariff_change_usage data) data.(GxUsedServiceUnit_tariff_change_usage) ;p
    PACK_BASIC uint32_t (has_GxUsedServiceUnit_cc_time data) data.(GxUsedServiceUnit_cc_time) ;p
    PACK_STRUCT (has_GxUsedServiceUnit_cc_money data) data.(GxUsedServiceUnit_cc_money) packGxCcMoney ;p
    PACK_BASIC uint64_t (has_GxUsedServiceUnit_cc_total_octets data) data.(GxUsedServiceUnit_cc_total_octets) ;p
    PACK_BASIC uint64_t (has_GxUsedServiceUnit_cc_input_octets data) data.(GxUsedServiceUnit_cc_input_octets) ;p
    PACK_BASIC uint64_t (has_GxUsedServiceUnit_cc_output_octets data) data.(GxUsedServiceUnit_cc_output_octets) ;p
    PACK_BASIC uint64_t (has_GxUsedServiceUnit_cc_service_specific_units data) data.(GxUsedServiceUnit_cc_service_specific_units) ;p
    PACK_LIST_BASIC FdTime (has_GxUsedServiceUnit_event_charging_timestamp data) data.(GxUsedServiceUnit_event_charging_timestamp) ;p
    pack_end.

Definition unpackGxUsedServiceUnit : unpacker GxUsedServiceUnit :=
    UNPACK_PRESENCE GxUsedServiceUnitPresence set_GxUsedServiceUnit_presence ;u
    UNPACK_BASIC int32_t has_GxUsedServiceUnit_reporting_reason set_GxUsedServiceUnit_reporting_reason ;u
    UNPACK_BASIC int32_t has_GxUsedServiceUnit_tariff_change_usage set_GxUsedServiceUnit_tariff_change_usage ;u
    UNPACK_BASIC uint32_t has_GxUsedServiceUnit_cc_time set_GxUsedServiceUnit_cc_time ;u
    UNPACK_STRUCT has_GxUsedServiceUnit_cc_money GxUsedServiceUnit_cc_money set_GxUsedServiceUnit_cc_money unpackGxCcMoney ;u
    UNPACK_BASIC uint64_t has_GxUsedServiceUnit_cc_total_octets set_GxUsedServiceUnit_cc_total_octets ;u
    UNPACK_BASIC uint64_t has_GxUsedServiceUnit_cc_input_octets set_GxUsedServiceUnit_cc_input_octets ;u
    UNPACK_BASIC uint64_t has_GxUsedServiceUnit_cc_output_octets set_GxUsedServiceUnit_cc_output_octets ;u
    UNPACK_BASIC uint64_t has_GxUsedServiceUnit_cc_service_specific_units set_GxUsedServiceUnit_cc_service_specific_units ;u
    UNPACK_LIST_BASIC FdTime 0 has_GxUsedServiceUnit_event_charging_timestamp set_GxUsedServiceUnit_event_charging_timestamp ;u
    unpack_end.

Definition calcLengthGxGrantedServiceUnit (data : GxGrantedServiceUnit) : option Z :=
  (CALCLEN_PRESENCE GxGrantedServiceUnitPresence ;c
    CALCLEN_BASIC FdTime (has_GxGrantedServiceUnit_tariff_time_change data) ;c
    CALCLEN_BASIC uint32_t (has_GxGrantedServiceUnit_cc_time data) ;c
    CALCLEN_STRUCT (has_GxGrantedServiceUnit_cc_money data) data.(GxGrantedServiceUnit_cc_money) calcLengthGxCcMoney ;c
    CALCLEN_BASIC uint64_t (has_GxGrantedServiceUnit_cc_total_octets data) ;c
    CALCLEN_BASIC uint64_t (has_GxGrantedServiceUnit_cc_input_octets data) ;c
    CALCLEN_BASIC uint64_t (has_GxGrantedServiceUnit_cc_output_octets data) ;c
    CALCLEN_BASIC uint64_t (has_GxGrantedServiceUnit_cc_service_specific_units data) ;c
    calc_none) 0.

Definition packGxGrantedServiceUnit (data : GxGrantedServiceUnit) : packer :=
    PACK_PRESENCE GxGrantedServiceUnitPresence data.(GxGrantedServiceUnit_presence) ;p
    PACK_BASIC FdTime (has_GxGrantedServiceUnit_tariff_time_change data) data.(GxGrantedServiceUnit_tariff_time_change) ;p
    PACK_BASIC uint32_t (has_GxGrantedServiceUnit_cc_time data) data.(GxGrantedServiceUnit_cc_time) ;p
    PACK_STRUCT (has_GxGrantedServiceUnit_cc_money data) data.(GxGrantedServiceUnit_cc_money) packGxCcMoney ;p
    PACK_BASIC uint64_t (has_GxGrantedServiceUnit_cc_total_octets data) data.(GxGrantedServiceUnit_cc_total_octets) ;p
    PACK_BASIC uint64_t (has_GxGrantedServiceUnit_cc_input_octets data) data.(GxGrantedServiceUnit_cc_input_octets) ;p
    PACK_BASIC uint64_t (has_GxGrantedServiceUnit_cc_output_octets data) data.(GxGrantedServiceUnit_cc_output_octets) ;p
    PACK_BASIC uint64_t (has_GxGrantedServiceUnit_cc_service_specific_units data) data.(GxGrantedServiceUnit_cc_service_specific_units) ;p
    pack_end.

Definition unpackGxGrantedServiceUnit : unpacker GxGrantedServiceUnit :=
    UNPACK_PRESENCE GxGrantedServiceUnitPresence set_GxGrantedServiceUnit_presence ;u
    UNPACK_BASIC FdTime has_GxGrantedServiceUnit_tariff_time_change set_GxGrantedServiceUnit_tariff_time_change ;u
    UNPACK_BASIC uint32_t has_GxGrantedServiceUnit_cc_time set_GxGrantedServiceUnit_cc_time ;u
    UNPACK_STRUCT has_GxGrantedServiceUnit_cc_money GxGrantedServiceUnit_cc_money set_GxGrantedServiceUnit_cc_money unpackGxCcMoney ;u
    UNPACK_BASIC uint64_t has_GxGrantedServiceUnit_cc_total_octets set_GxGrantedServiceUnit_cc_total_octets ;u
    UNPACK_BASIC uint64_t has_GxGrantedServiceUnit_cc_input_octets set_GxGrantedServiceUnit_cc_input_octets ;u
    UNPACK_BASIC uint64_t has_GxGrantedServiceUnit_cc_output_octets set_GxGrantedServiceUnit_cc_output_octets ;u
    UNPACK_BASIC uint64_t has_GxGrantedServiceUnit_cc_service_specific_units set_GxGrantedServiceUnit_cc_service_specific_units ;u
    unpack_end.

Definition calcLengthGxUsageMonitoringInformation (data : GxUsageMonitoringInformation) : option Z :=
  (CALCLEN_PRESENCE GxUsageMonitoringInformationPresence ;c
    CALCLEN_OCTETSTRING (has_GxUsageMonitoringInformation_monitoring_key data) data.(GxUsageMonitoringInformation_monitoring_key) ;c
    CALCLEN_LIST_STRUCT (has_GxUsageMonitoringInformation_granted_service_unit data) data.(GxUsageMonitoringInformation_granted_service_unit) calcLengthGxGrantedServiceUnit ;c
    CALCLEN_LIST_STRUCT (has_GxUsageMonitoringInformation_used_service_unit data) data.(GxUsageMonitoringInformation_used_service_unit) calcLengthGxUsedServiceUnit ;c
    CALCLEN_BASIC uint32_t (has_GxUsageMonitoringInformation_quota_consumption_time data) ;c
    CALCLEN_BASIC int32_t (has_GxUsageMonitoringInformation_usage_monitoring_level data) ;c
    CALCLEN_BASIC int32_t (has_GxUsageMonitoringInformation_usage_monitoring_report data) ;c
    CALCLEN_BASIC int32_t (has_GxUsageMonitoringInformation_usage_monitoring_support data) ;c
    calc_none) 0.

Definition packGxUsageMonitoringInformation (data : GxUsageMonitoringInformation) : packer :=
    PACK_PRESENCE GxUsageMonitoringInformationPresence data.(GxUsageMonitoringInformation_presence) ;p
    PACK_OCTETSTRING GxMonitoringKeyOctetString (has_GxUsageMonitoringInformation_monitoring_key data) data.(GxUsageMonitoringInformation_monitoring_key) ;p
    PACK_LIST_STRUCT (has_GxUsageMonitoringInformation_granted_service_unit data) data.(GxUsageMonitoringInformation_granted_service_unit) packGxGrantedServiceUnit ;p
    PACK_LIST_STRUCT (has_GxUsageMonitoringInformation_used_service_unit data) data.(GxUsageMonitoringInformation_used_service_unit) packGxUsedServiceUnit ;p
    PACK_BASIC uint32_t (has_GxUsageMonitoringInformation_quota_consumption_time data) data.(GxUsageMonitoringInformation_quota_consumption_time) ;p
    PACK_BASIC int32_t (has_GxUsageMonitoringInformation_usage_monitoring_level data) data.(GxUsageMonitoringInformation_usage_monitoring_level) ;p
    PACK_BASIC int32_t (has_GxUsageMonitoringInformation_usage_monitoring_report data) data.(GxUsageMonitoringInformation_usage_monitoring_report) ;p
    PACK_BASIC int32_t (has_GxUsageMonitoringInformation_usage_monitoring_support data) data.(GxUsageMonitoringInformation_usage_monitoring_support) ;p
    pack_end.

Definition unpackGxUsageMonitoringInformation : unpacker GxUsageMonitoringInformation :=
    UNPACK_PRESENCE GxUsageMonitoringInformationPresence set_GxUsageMonitoringInformation_presence ;u
    UNPACK_OCTETSTRING GxMonitoringKeyOctetString has_GxUsageMonitoringInformation_monitoring_key GxUsageMonitoringInformation_monitoring_key set_GxUsageMonitoringInformation_monitoring_key ;u
    UNPACK_LIST_STRUCT sizeof_GxGrantedServiceUnit zero_GxGrantedServiceUnit has_GxUsageMonitoringInformation_granted_service_unit set_GxUsageMonitoringInformation_granted_service_unit unpackGxGrantedServiceUnit ;u
    UNPACK_LIST_STRUCT sizeof_GxUsedServiceUnit zero_GxUsedServiceUnit has_GxUsageMonitoringInformation_used_service_unit set_GxUsageMonitoringInformation_used_service_unit unpackGxUsedServiceUnit ;u
    UNPACK_BASIC uint32_t has_GxUsageMonitoringInformation_quota_consumption_time set_GxUsageMonitoringInformation_quota_consumption_time ;u
    UNPACK_BASIC int32_t has_GxUsageMonitoringInformation_usage_monitoring_level set_GxUsageMonitoringInformation_usage_monitoring_level ;u
    UNPACK_BASIC int32_t has_GxUsageMonitoringInformation_usage_monitoring_report set_GxUsageMonitoringInformation_usage_monitoring_report ;u
    UNPACK_BASIC int32_t has_GxUsageMonitoringInformation_usage_monitoring_support set_GxUsageMonitoringInformation_usage_monitoring_support ;u
    unpack_end.

Definition calcLengthGxTunnelInformation (data : GxTunnelInformation) : option Z :=
  (CALCLEN_PRESENCE GxTunnelInformationPresence ;c
    CALCLEN_BASIC uint32_t (has_GxTunnelInformation_tunnel_header_length data) ;c
    CALCLEN_LIST_OCTETSTRING (has_GxTunnelInformation_tunnel_header_filter data) data.(GxTunnelInformation_tunnel_header_filter) ;c
    calc_none) 0.

Definition packGxTunnelInformation (data : GxTunnelInformation) : packer :=
    PACK_PRESENCE GxTunnelInformationPresence data.(GxTunnelInformation_presence) ;p
    PACK_BASIC uint32_t (has_GxTunnelInformation_tunnel_header_length data) data.(GxTunnelInformation_tunnel_header_length) ;p
    PACK_LIST_OCTETSTRING GxTunnelHeaderFilterOctetString (has_GxTunnelInformation_tunnel_header_filter data) data.(GxTunnelInformation_tunnel_header_filter) ;p
    pack_end.

Definition unpackGxTunnelInformation : unpacker GxTunnelInformation :=
    UNPACK_PRESENCE GxTunnelInformationPresence set_GxTunnelInformation_presence ;u
    UNPACK_BASIC uint32_t has_GxTunnelInformation_tunnel_header_length set_GxTunnelInformation_tunnel_header_length ;u
    UNPACK_LIST_OCTETSTRING GxTunnelHeaderFilterOctetString has_GxTunnelInformation_tunnel_header_filter set_GxTunnelInformation_tunnel_header_filter ;u
    unpack_end.

Definition calcLengthGxCoaInformation (data : GxCoaInformation) : option Z :=
  (CALCLEN_PRESENCE GxCoaInformationPresence ;c
    CALCLEN_STRUCT (has_GxCoaInformation_tunnel_information data) data.(GxCoaInformation_tunnel_information) calcLengthGxTunnelInformation ;c
    CALCLEN_BASIC FdAddress (has_GxCoaInformation_coa_ip_address data) ;c
    calc_none) 0.

Definition packGxCoaInformation (data : GxCoaInformation) : packer :=
    PACK_PRESENCE GxCoaInformationPresence data.(GxCoaInformation_presence) ;p
    PACK_STRUCT (has_GxCoaInformation_tunnel_information data) data.(GxCoaInformation_tunnel_information) packGxTunnelInformation ;p
    PACK_BASIC FdAddress (has_GxCoaInformation_coa_ip_address data) data.(GxCoaInformation_coa_ip_address) ;p
    pack_end.

Definition unpackGxCoaInformation : unpacker GxCoaInformation :=
    UNPACK_PRESENCE GxCoaInformationPresence set_GxCoaInformation_presence ;u
    UNPACK_STRUCT has_GxCoaInformation_tunnel_information GxCoaInformation_tunnel_information set_GxCoaInformation_tunnel_information unpackGxTunnelInformation ;u
    UNPACK_BASIC FdAddress has_GxCoaInformation_coa_ip_address set_GxCoaInformation_coa_ip_address ;u
    unpack_end.

Definition calcLengthGxAccessNetworkChargingIdentifierGx (data : GxAccessNetworkChargingIdentifierGx) : option Z :=
  (CALCLEN_PRESENCE GxAccessNetworkChargingIdentifierGxPresence ;c
    CALCLEN_OCTETSTRING (has_GxAccessNetworkChargingIdentifierGx_access_network_charging_identifier_value data) data.(GxAccessNetworkChargingIdentifierGx_access_network_charging_identifier_value) ;c
    CALCLEN_LIST_OCTETSTRING (has_GxAccessNetworkChargingIdentifierGx_charging_rule_base_name data) data.(GxAccessNetworkChargingIdentifierGx_charging_rule_base_name) ;c
    CALCLEN_LIST_OCTETSTRING (has_GxAccessNetworkChargingIdentifierGx_charging_rule_name data) data.(GxAccessNetworkChargingIdentifierGx_charging_rule_name) ;c
    CALCLEN_BASIC int32_t (has_GxAccessNetworkChargingIdentifierGx_ip_can_session_charging_scope data) ;c
    calc_none) 0.

Definition packGxAccessNetworkChargingIdentifierGx (data : GxAccessNetworkChargingIdentifierGx) : packer :=
    PACK_PRESENCE GxAccessNetworkChargingIdentifierGxPresence data.(GxAccessNetworkChargingIdentifierGx_presence) ;p
    PACK_OCTETSTRING GxAccessNetworkChargingIdentifierValueOctetString (has_GxAccessNetworkChargingIdentifierGx_access_network_charging_identifier_value data) data.(GxAccessNetworkChargingIdentifierGx_access_network_charging_identifier_value) ;p
    PACK_LIST_OCTETSTRING GxChargingRuleBaseNameOctetString (has_GxAccessNetworkChargingIdentifierGx_charging_rule_base_name data) data.(GxAccessNetworkChargingIdentifierGx_charging_rule_base_name) ;p
    PACK_LIST_OCTETSTRING GxChargingRuleNameOctetString (has_GxAccessNetworkChargingIdentifierGx_charging_rule_name data) data.(GxAccessNetworkChargingIdentifierGx_charging_rule_name) ;p
    PACK_BASIC int32_t (has_GxAccessNetworkChargingIdentifierGx_ip_can_session_charging_scope data) data.(GxAccessNetworkChargingIdentifierGx_ip_can_session_charging_scope) ;p
    pack_end.

Definition unpackGxAccessNetworkChargingIdentifierGx : unpacker GxAccessNetworkChargingIdentifierGx :=
    UNPACK_PRESENCE GxAccessNetworkChargingIdentifierGxPresence set_GxAccessNetworkChargingIdentifierGx_presence ;u
    UNPACK_OCTETSTRING GxAccessNetworkChargingIdentifierValueOctetString has_GxAccessNetworkChargingIdentifierGx_access_network_charging_identifier_value GxAccessNetworkChargingIdentifierGx_access_network_charging_identifier_value set_GxAccessNetworkChargingIdentifierGx_access_network_charging_identifier_value ;u
    UNPACK_LIST_OCTETSTRING GxChargingRuleBaseNameOctetString has_GxAccessNetworkChargingIdentifierGx_charging_rule_base_name set_GxAccessNetworkChargingIdentifierGx_charging_rule_base_name ;u
    UNPACK_LIST_OCTETSTRING GxChargingRuleNameOctetString has_GxAccessNetworkChargingIdentifierGx_charging_rule_name set_GxAccessNetworkChargingIdentifierGx_charging_rule_name ;u
    UNPACK_BASIC int32_t has_GxAccessNetworkChargingIdentifierGx_ip_can_session_charging_scope set_GxAccessNetworkChargingIdentifierGx_ip_can_session_charging_scope ;u
    unpack_end.

Definition calcLengthGxMbsfnArea (data : GxMbsfnArea) : option Z :=
  (CALCLEN_PRESENCE GxMbsfnAreaPresence ;c
    CALCLEN_BASIC uint32_t (has_GxMbsfnArea_mbsfn_area_id data) ;c
    CALCLEN_BASIC uint32_t (has_GxMbsfnArea_carrier_frequency data) ;c
    calc_none) 0.

Definition packGxMbsfnArea (data : GxMbsfnArea) : packer :=
    PACK_PRESENCE GxMbsfnAreaPresence data.(GxMbsfnArea_presence) ;p
    PACK_BASIC uint32_t (has_GxMbsfnArea_mbsfn_area_id data) data.(GxMbsfnArea_mbsfn_area_id) ;p
    PACK_BASIC uint32_t (has_GxMbsfnArea_carrier_frequency data) data.(GxMbsfnArea_carrier_frequency) ;p
    pack_end.

Definition unpackGxMbsfnArea : unpacker GxMbsfnArea :=
    UNPACK_PRESENCE GxMbsfnAreaPresence set_GxMbsfnArea_presence ;u
    UNPACK_BASIC uint32_t has_GxMbsfnArea_mbsfn_area_id set_GxMbsfnArea_mbsfn_area_id ;u
    UNPACK_BASIC uint32_t has_GxMbsfnArea_carrier_frequency set_GxMbsfnArea_carrier_frequency ;u
    unpack_end.

Definition calcLengthGxAreaScope (data : GxAreaScope) : option Z :=
  (CALCLEN_PRESENCE GxAreaScopePresence ;c
    CALCLEN_LIST_OCTETSTRING (has_GxAreaScope_cell_global_identity data) data.(GxAreaScope_cell_global_identity) ;c
    CALCLEN_LIST_OCTETSTRING (has_GxAreaScope_e_utran_cell_global_identity data) data.(GxAreaScope_e_utran_cell_global_identity) ;c
    CALCLEN_LIST_OCTETSTRING (has_GxAreaScope_routing_area_identity data) data.(GxAreaScope_routing_area_identity) ;c
    CALCLEN_LIST_OCTETSTRING (has_GxAreaScope_location_area_identity data) data.(GxAreaScope_location_area_identity) ;c
    CALCLEN_LIST_OCTETSTRING (has_GxAreaScope_tracking_area_identity data) data.(GxAreaScope_tracking_area_identity) ;c
    calc_none) 0.

Definition packGxAreaScope (data : GxAreaScope) : packer :=
    PACK_PRESENCE GxAreaScopePresence data.(GxAreaScope_presence) ;p
    PACK_LIST_OCTETSTRING GxCellGlobalIdentityOctetString (has_GxAreaScope_cell_global_identity data) data.(GxAreaScope_cell_global_identity) ;p
    PACK_LIST_OCTETSTRING GxEUtranCellGlobalIdentityOctetString (has_GxAreaScope_e_utran_cell_global_identity data) data.(GxAreaScope_e_utran_cell_global_identity) ;p
    PACK_LIST_OCTETSTRING GxRoutingAreaIdentityOctetString (has_GxAreaScope_routing_area_identity data) data.(GxAreaScope_routing_area_identity) ;p
    PACK_LIST_OCTETSTRING GxLocationAreaIdentityOctetString (has_GxAreaScope_location_area_identity data) data.(GxAreaScope_location_area_identity) ;p
    PACK_LIST_OCTETSTRING GxTrackingAreaIdentityOctetString (has_GxAreaScope_tracking_area_identity data) data.(GxAreaScope_tracking_area_identity) ;p
    pack_end.

Definition unpackGxAreaScope : unpacker GxAreaScope :=
    UNPACK_PRESENCE GxAreaScopePresence set_GxAreaScope_presence ;u
    UNPACK_LIST_OCTETSTRING GxCellGlobalIdentityOctetString has_GxAreaScope_cell_global_identity set_GxAreaScope_cell_global_identity ;u
    UNPACK_LIST_OCTETSTRING GxEUtranCellGlobalIdentityOctetString has_GxAreaScope_e_utran_cell_global_identity set_GxAreaScope_e_utran_cell_global_identity ;u
    UNPACK_LIST_OCTETSTRING GxRoutingAreaIdentityOctetString has_GxAreaScope_routing_area_identity set_GxAreaScope_routing_area_identity ;u
    UNPACK_LIST_OCTETSTRING GxLocationAreaIdentityOctetString has_GxAreaScope_location_area_identity set_GxAreaScope_location_area_identity ;u
    UNPACK_LIST_OCTETSTRING GxTrackingAreaIdentityOctetString has_GxAreaScope_tracking_area_identity set_GxAreaScope_tracking_area_identity ;u
    unpack_end.

Definition calcLengthGxMdtConfiguration (data : GxMdtConfiguration) : option Z :=
  (CALCLEN_PRESENCE GxMdtConfigurationPresence ;c
    CALCLEN_BASIC int32_t (has_GxMdtConfiguration_job_type data) ;c
    CALCLEN_STRUCT (has_GxMdtConfiguration_area_scope data) data.(GxMdtConfiguration_area_scope) calcLengthGxAreaScope ;c
    CALCLEN_BASIC uint32_t (has_GxMdtConfiguration_list_of_measurements data) ;c
    CALCLEN_BASIC uint32_t (has_GxMdtConfiguration_reporting_trigger data) ;c
    CALCLEN_BASIC int32_t (has_GxMdtConfiguration_report_interval data) ;c
    CALCLEN_BASIC int32_t (has_GxMdtConfiguration_report_amount data) ;c
    CALCLEN_BASIC uint32_t (has_GxMdtConfiguration_event_threshold_rsrp data) ;c
    CALCLEN_BASIC uint32_t (has_GxMdtConfiguration_event_threshold_rsrq data) ;c
    CALCLEN_BASIC int32_t (has_GxMdtConfiguration_logging_interval data) ;c
    CALCLEN_BASIC int32_t (has_GxMdtConfiguration_logging_duration data) ;c
    CALCLEN_BASIC int32_t (has_GxMdtConfiguration_measurement_period_lte data) ;c
    CALCLEN_BASIC int32_t (has_GxMdtConfiguration_measurement_period_umts data) ;c
    CALCLEN_BASIC int32_t (has_GxMdtConfiguration_collection_period_rrm_lte data) ;c
    CALCLEN_BASIC int32_t (has_GxMdtConfiguration_collection_period_rrm_umts data) ;c
    CALCLEN_OCTETSTRING (has_GxMdtConfiguration_positioning_method data) data.(GxMdtConfiguration_positioning_method) ;c
    CALCLEN_OCTETSTRING (has_GxMdtConfiguration_measurement_quantity data) data.(GxMdtConfiguration_measurement_quantity) ;c
    CALCLEN_BASIC int32_t (has_GxMdtConfiguration_event_threshold_event_1f data) ;c
    CALCLEN_BASIC int32_t (has_GxMdtConfiguration_event_threshold_event_1i data) ;c
    CALCLEN_LIST_OCTETSTRING (has_GxMdtConfiguration_mdt_allowed_plmn_id data) data.(GxMdtConfiguration_mdt_allowed_plmn_id) ;c
    CALCLEN_LIST_STRUCT (has_GxMdtConfiguration_mbsfn_area data) data.(GxMdtConfiguration_mbsfn_area) calcLengthGxMbsfnArea ;c
    calc_none) 0.

Definition packGxMdtConfiguration (data : GxMdtConfiguration) : packer :=
    PACK_PRESENCE GxMdtConfigurationPresence data.(GxMdtConfiguration_presence) ;p
    PACK_BASIC int32_t (has_GxMdtConfiguration_job_type data) data.(GxMdtConfiguration_job_type) ;p
    PACK_STRUCT (has_GxMdtConfiguration_area_scope data) data.(GxMdtConfiguration_area_scope) packGxAreaScope ;p
    PACK_BASIC uint32_t (has_GxMdtConfiguration_list_of_measurements data) data.(GxMdtConfiguration_list_of_measurements) ;p
    PACK_BASIC uint32_t (has_GxMdtConfiguration_reporting_trigger data) data.(GxMdtConfiguration_reporting_trigger) ;p
    PACK_BASIC int32_t (has_GxMdtConfiguration_report_interval data) data.(GxMdtConfiguration_report_interval) ;p
    PACK_BASIC int32_t (has_GxMdtConfiguration_report_amount data) data.(GxMdtConfiguration_report_amount) ;p
    PACK_BASIC uint32_t (has_GxMdtConfiguration_event_threshold_rsrp data) data.(GxMdtConfiguration_event_threshold_rsrp) ;p
    PACK_BASIC uint32_t (has_GxMdtConfiguration_event_threshold_rsrq data) data.(GxMdtConfiguration_event_threshold_rsrq) ;p
    PACK_BASIC int32_t (has_GxMdtConfiguration_logging_interval data) data.(GxMdtConfiguration_logging_interval) ;p
    PACK_BASIC int32_t (has_GxMdtConfiguration_logging_duration data) data.(GxMdtConfiguration_logging_duration) ;p
    PACK_BASIC int32_t (has_GxMdtConfiguration_measurement_period_lte data) data.(GxMdtConfiguration_measurement_period_lte) ;p
    PACK_BASIC int32_t (has_GxMdtConfiguration_measurement_period_umts data) data.(GxMdtConfiguration_measurement_period_umts) ;p
    PACK_BASIC int32_t (has_GxMdtConfiguration_collection_period_rrm_lte data) data.(GxMdtConfiguration_collection_period_rrm_lte) ;p
    PACK_BASIC int32_t (has_GxMdtConfiguration_collection_period_rrm_umts data) data.(GxMdtConfiguration_collection_period_rrm_umts) ;p
    PACK_OCTETSTRING GxPositioningMethodOctetString (has_GxMdtConfiguration_positioning_method data) data.(GxMdtConfiguration_positioning_method) ;p
    PACK_OCTETSTRING GxMeasurementQuantityOctetString (has_GxMdtConfiguration_measurement_quantity data) data.(GxMdtConfiguration_measurement_quantity) ;p
    PACK_BASIC int32_t (has_GxMdtConfiguration_event_threshold_event_1f data) data.(GxMdtConfiguration_event_threshold_event_1f) ;p
    PACK_BASIC int32_t (has_GxMdtConfiguration_event_threshold_event_1i data) data.(GxMdtConfiguration_event_threshold_event_1i) ;p
    PACK_LIST_OCTETSTRING GxMdtAllowedPlmnIdOctetString (has_GxMdtConfiguration_mdt_allowed_plmn_id data) data.(GxMdtConfiguration_mdt_allowed_plmn_id) ;p
    PACK_LIST_STRUCT (has_GxMdtConfiguration_mbsfn_area data) data.(GxMdtConfiguration_mbsfn_area) packGxMbsfnArea ;p
    pack_end.

Definition unpackGxMdtConfiguration : unpacker GxMdtConfiguration :=
    UNPACK_PRESENCE GxMdtConfigurationPresence set_GxMdtConfiguration_presence ;u
    UNPACK_BASIC int32_t has_GxMdtConfiguration_job_type set_GxMdtConfiguration_job_type ;u
    UNPACK_STRUCT has_GxMdtConfiguration_area_scope GxMdtConfiguration_area_scope set_GxMdtConfiguration_area_scope unpackGxAreaScope ;u
    UNPACK_BASIC uint32_t has_GxMdtConfiguration_list_of_measurements set_GxMdtConfiguration_list_of_measurements ;u
    UNPACK_BASIC uint32_t has_GxMdtConfiguration_reporting_trigger set_GxMdtConfiguration_reporting_trigger ;u
    UNPACK_BASIC int32_t has_GxMdtConfiguration_report_interval set_GxMdtConfiguration_report_interval ;u
    UNPACK_BASIC int32_t has_GxMdtConfiguration_report_amount set_GxMdtConfiguration_report_amount ;u
    UNPACK_BASIC uint32_t has_GxMdtConfiguration_event_threshold_rsrp set_GxMdtConfiguration_event_threshold_rsrp ;u
    UNPACK_BASIC uint32_t has_GxMdtConfiguration_event_threshold_rsrq set_GxMdtConfiguration_event_threshold_rsrq ;u
    UNPACK_BASIC int32_t has_GxMdtConfiguration_logging_interval set_GxMdtConfiguration_logging_interval ;u
    UNPACK_BASIC int32_t has_GxMdtConfiguration_logging_duration set_GxMdtConfiguration_logging_duration ;u
    UNPACK_BASIC int32_t has_GxMdtConfiguration_measurement_period_lte set_GxMdtConfiguration_measurement_period_lte ;u
    UNPACK_BASIC int32_t has_GxMdtConfiguration_measurement_period_umts set_GxMdtConfiguration_measurement_period_umts ;u
    UNPACK_BASIC int32_t has_GxMdtConfiguration_collection_period_rrm_lte set_GxMdtConfiguration_collection_period_rrm_lte ;u
    UNPACK_BASIC int32_t has_GxMdtConfiguration_collection_period_rrm_umts set_GxMdtConfiguration_collection_period_rrm_umts ;u
    UNPACK_OCTETSTRING GxPositioningMethodOctetString has_GxMdtConfiguration_positioning_method GxMdtConfiguration_positioning_method set_GxMdtConfiguration_positioning_method ;u
    UNPACK_OCTETSTRING GxMeasurementQuantityOctetString has_GxMdtConfiguration_measurement_quantity GxMdtConfiguration_measurement_quantity set_GxMdtConfiguration_measurement_quantity ;u
    UNPACK_BASIC int32_t has_GxMdtConfiguration_event_threshold_event_1f set_GxMdtConfiguration_event_threshold_event_1f ;u
    UNPACK_BASIC int32_t has_GxMdtConfiguration_event_threshold_event_1i set_GxMdtConfiguration_event_threshold_event_1i ;u
    UNPACK_LIST_OCTETSTRING GxMdtAllowedPlmnIdOctetString has_GxMdtConfiguration_mdt_allowed_plmn_id set_GxMdtConfiguration_mdt_allowed_plmn_id ;u
    UNPACK_LIST_STRUCT sizeof_GxMbsfnArea zero_GxMbsfnArea has_GxMdtConfiguration_mbsfn_area set_GxMdtConfiguration_mbsfn_area unpackGxMbsfnArea ;u
    unpack_end.

Definition calcLengthGxTraceData (data : GxTraceData) : option Z :=
  (CALCLEN_PRESENCE GxTraceDataPresence ;c
    CALCLEN_OCTETSTRING (has_GxTraceData_trace_reference data) data.(GxTraceData_trace_reference) ;c
    CALCLEN_BASIC int32_t (has_GxTraceData_trace_depth data) ;c
    CALCLEN_OCTETSTRING (has_GxTraceData_trace_ne_type_list data) data.(GxTraceData_trace_ne_type_list) ;c
    CALCLEN_OCTETSTRING (has_GxTraceData_trace_interface_list data) data.(GxTraceData_trace_interface_list) ;c
    CALCLEN_OCTETSTRING (has_GxTraceData_trace_event_list data) data.(GxTraceData_trace_event_list) ;c
    CALCLEN_OCTETSTRING (has_GxTraceData_omc_id data) data.(GxTraceData_omc_id) ;c
    CALCLEN_BASIC FdAddress (has_GxTraceData_trace_collection_entity data) ;c
    CALCLEN_STRUCT (has_GxTraceData_mdt_configuration data) data.(GxTraceData_mdt_configuration) calcLengthGxMdtConfiguration ;c
    calc_none) 0.

Definition packGxTraceData (data : GxTraceData) : packer :=
    PACK_PRESENCE GxTraceDataPresence data.(GxTraceData_presence) ;p
    PACK_OCTETSTRING GxTraceReferenceOctetString (has_GxTraceData_trace_reference data) data.(GxTraceData_trace_reference) ;p
    PACK_BASIC int32_t (has_GxTraceData_trace_depth data) data.(GxTraceData_trace_depth) ;p
    PACK_OCTETSTRING GxTraceNeTypeListOctetString (has_GxTraceData_trace_ne_type_list data) data.(GxTraceData_trace_ne_type_list) ;p
    PACK_OCTETSTRING GxTraceInterfaceListOctetString (has_GxTraceData_trace_interface_list data) data.(GxTraceData_trace_interface_list) ;p
    PACK_OCTETSTRING GxTraceEventListOctetString (has_GxTraceData_trace_event_list data) data.(GxTraceData_trace_event_list) ;p
    PACK_OCTETSTRING GxOmcIdOctetString (has_GxTraceData_omc_id data) data.(GxTraceData_omc_id) ;p
    PACK_BASIC FdAddress (has_GxTraceData_trace_collection_entity data) data.(GxTraceData_trace_collection_entity) ;p
    PACK_STRUCT (has_GxTraceData_mdt_configuration data) data.(GxTraceData_mdt_configuration) packGxMdtConfiguration ;p
    pack_end.

Definition unpackGxTraceData : unpacker GxTraceData :=
    UNPACK_PRESENCE GxTraceDataPresence set_GxTraceData_presence ;u
    UNPACK_OCTETSTRING GxTraceReferenceOctetString has_GxTraceData_trace_reference GxTraceData_trace_reference set_GxTraceData_trace_reference ;u
    UNPACK_BASIC int32_t has_GxTraceData_trace_depth set_GxTraceData_trace_depth ;u
    UNPACK_OCTETSTRING GxTraceNeTypeListOctetString has_GxTraceData_trace_ne_type_list GxTraceData_trace_ne_type_list set_GxTraceData_trace_ne_type_list ;u
    UNPACK_OCTETSTRING GxTraceInterfaceListOctetString has_GxTraceData_trace_interface_list GxTraceData_trace_interface_list set_GxTraceData_trace_interface_list ;u
    UNPACK_OCTETSTRING GxTraceEventListOctetString has_GxTraceData_trace_event_list GxTraceData_trace_event_list set_GxTraceData_trace_event_list ;u
    UNPACK_OCTETSTRING GxOmcIdOctetString has_GxTraceData_omc_id GxTraceData_omc_id set_GxTraceData_omc_id ;u
    UNPACK_BASIC FdAddress has_GxTraceData_trace_collection_entity set_GxTraceData_trace_collection_entity ;u
    UNPACK_STRUCT has_GxTraceData_mdt_configuration GxTraceData_mdt_configuration set_GxTraceData_mdt_configuration unpackGxMdtConfiguration ;u
    unpack_end.

Definition calcLengthGxUserCsgInformation (data : GxUserCsgInformation) : option Z :=
  (CALCLEN_PRESENCE GxUserCsgInformationPresence ;c
    CALCLEN_BASIC uint32_t (has_GxUserCsgInformation_csg_id data) ;c
    CALCLEN_BASIC int32_t (has_GxUserCsgInformation_csg_access_mode data) ;c
    CALCLEN_BASIC int32_t (has_GxUserCsgInformation_csg_membership_indication data) ;c
    calc_none) 0.

Definition packGxUserCsgInformation (data : GxUserCsgInformation) : packer :=
    PACK_PRESENCE GxUserCsgInformationPresence data.(GxUserCsgInformation_presence) ;p
    PACK_BASIC uint32_t (has_GxUserCsgInformation_csg_id data) data.(GxUserCsgInformation_csg_id) ;p
    PACK_BASIC int32_t (has_GxUserCsgInformation_csg_access_mode data) data.(GxUserCsgInformation_csg_access_mode) ;p
    PACK_BASIC int32_t (has_GxUserCsgInformation_csg_membership_indication data) data.(GxUserCsgInformation_csg_membership_indication) ;p
    pack_end.

Definition unpackGxUserCsgInformation : unpacker GxUserCsgInformation :=
    UNPACK_PRESENCE GxUserCsgInformationPresence set_GxUserCsgInformation_presence ;u
    UNPACK_BASIC uint32_t has_GxUserCsgInformation_csg_id set_GxUserCsgInformation_csg_id ;u
    UNPACK_BASIC int32_t has_GxUserCsgInformation_csg_access_mode set_GxUserCsgInformation_csg_access_mode ;u
    UNPACK_BASIC int32_t has_GxUserCsgInformation_csg_membership_indication set_GxUserCsgInformation_csg_membership_indication ;u
    unpack_end.

Definition calcLengthGxEventReportIndication (data : GxEventReportIndication) : option Z :=
  (CALCLEN_PRESENCE GxEventReportIndicationPresence ;c
    CALCLEN_BASIC int32_t (has_GxEventReportIndication_an_trusted data) ;c
    CALCLEN_LIST_BASIC int32_t (has_GxEventReportIndication_event_trigger data) data.(GxEventReportIndication_event_trigger) ;c
    CALCLEN_STRUCT (has_GxEventReportIndication_user_csg_information data) data.(GxEventReportIndication_user_csg_information) calcLengthGxUserCsgInformation ;c
    CALCLEN_BASIC int32_t (has_GxEventReportIndication_ip_can_type data) ;c
    CALCLEN_LIST_BASIC FdAddress (has_GxEventReportIndication_an_gw_address data) data.(GxEventReportIndication_an_gw_address) ;c
    CALCLEN_OCTETSTRING (has_GxEventReportIndication_tgpp_sgsn_address data) data.(GxEventReportIndication_tgpp_sgsn_address) ;c
    CALCLEN_OCTETSTRING (has_GxEventReportIndication_tgpp_sgsn_ipv6_address data) data.(GxEventReportIndication_tgpp_sgsn_ipv6_address) ;c
    CALCLEN_OCTETSTRING (has_GxEventReportIndication_tgpp_sgsn_mcc_mnc data) data.(GxEventReportIndication_tgpp_sgsn_mcc_mnc) ;c
    CALCLEN_OCTETSTRING (has_GxEventReportIndication_framed_ip_address data) data.(GxEventReportIndication_framed_ip_address) ;c
    CALCLEN_BASIC int32_t (has_GxEventReportIndication_rat_type data) ;c
    CALCLEN_OCTETSTRING (has_GxEventReportIndication_rai data) data.(GxEventReportIndication_rai) ;c
    CALCLEN_OCTETSTRING (has_GxEventReportIndication_tgpp_user_location_info data) data.(GxEventReportIndication_tgpp_user_location_info) ;c
    CALCLEN_STRUCT (has_GxEventReportIndication_trace_data data) data.(GxEventReportIndication_trace_data) calcLengthGxTraceData ;c
    CALCLEN_OCTETSTRING (has_GxEventReportIndication_trace_reference data) data.(GxEventReportIndication_trace_reference) ;c
    CALCLEN_OCTETSTRING (has_GxEventReportIndication_tgpp2_bsid data) data.(GxEventReportIndication_tgpp2_bsid) ;c
    CALCLEN_OCTETSTRING (has_GxEventReportIndication_tgpp_ms_timezone data) data.(GxEventReportIndication_tgpp_ms_timezone) ;c
    CALCLEN_BASIC FdAddress (has_GxEventReportIndication_routing_ip_address data) ;c
    CALCLEN_BASIC FdAddress (has_GxEventReportIndication_ue_local_ip_address data) ;c
    CALCLEN_BASIC FdAddress (has_GxEventReportIndication_henb_local_ip_address data) ;c
    CALCLEN_BASIC uint32_t (has_GxEventReportIndication_udp_source_port data) ;c
    CALCLEN_STRUCT (has_GxEventReportIndication_presence_reporting_area_information data) data.(GxEventReportIndication_presence_reporting_area_information) calcLengthGxPresenceReportingAreaInformation ;c
    calc_none) 0.

Definition packGxEventReportIndication (data : GxEventReportIndication) : packer :=
    PACK_PRESENCE GxEventReportIndicationPresence data.(GxEventReportIndication_presence) ;p
    PACK_BASIC int32_t (has_GxEventReportIndication_an_trusted data) data.(GxEventReportIndication_an_trusted) ;p
    PACK_LIST_BASIC int32_t (has_GxEventReportIndication_event_trigger data) data.(GxEventReportIndication_event_trigger) ;p
    PACK_STRUCT (has_GxEventReportIndication_user_csg_information data) data.(GxEventReportIndication_user_csg_information) packGxUserCsgInformation ;p
    PACK_BASIC int32_t (has_GxEventReportIndication_ip_can_type data) data.(GxEventReportIndication_ip_can_type) ;p
    PACK_LIST_BASIC FdAddress (has_GxEventReportIndication_an_gw_address data) data.(GxEventReportIndication_an_gw_address) ;p
    PACK_OCTETSTRING Gx3gppSgsnAddressOctetString (has_GxEventReportIndication_tgpp_sgsn_address data) data.(GxEventReportIndication_tgpp_sgsn_address) ;p
    PACK_OCTETSTRING Gx3gppSgsnIpv6AddressOctetString (has_GxEventReportIndication_tgpp_sgsn_ipv6_address data) data.(GxEventReportIndication_tgpp_sgsn_ipv6_address) ;p
    PACK_OCTETSTRING Gx3gppSgsnMccMncOctetString (has_GxEventReportIndication_tgpp_sgsn_mcc_mnc data) data.(GxEventReportIndication_tgpp_sgsn_mcc_mnc) ;p
    PACK_OCTETSTRING GxFramedIpAddressOctetString (has_GxEventReportIndication_framed_ip_address data) data.(GxEventReportIndication_framed_ip_address) ;p
    PACK_BASIC int32_t (has_GxEventReportIndication_rat_type data) data.(GxEventReportIndication_rat_type) ;p
    PACK_OCTETSTRING GxRaiOctetString (has_GxEventReportIndication_rai data) data.(GxEventReportIndication_rai) ;p
    PACK_OCTETSTRING Gx3gppUserLocationInfoOctetString (has_GxEventReportIndication_tgpp_user_location_info data) data.(GxEventReportIndication_tgpp_user_location_info) ;p
    PACK_STRUCT (has_GxEventReportIndication_trace_data data) data.(GxEventReportIndication_trace_data) packGxTraceData ;p
    PACK_OCTETSTRING GxTraceReferenceOctetString (has_GxEventReportIndication_trace_reference data) data.(GxEventReportIndication_trace_reference) ;p
    PACK_OCTETSTRING Gx3gpp2BsidOctetString (has_GxEventReportIndication_tgpp2_bsid data) data.(GxEventReportIndication_tgpp2_bsid) ;p
    PACK_OCTETSTRING Gx3gppMsTimezoneOctetString (has_GxEventReportIndication_tgpp_ms_timezone data) data.(GxEventReportIndication_tgpp_ms_timezone) ;p
    PACK_BASIC FdAddress (has_GxEventReportIndication_routing_ip_address data) data.(GxEventReportIndication_routing_ip_address) ;p
    PACK_BASIC FdAddress (has_GxEventReportIndication_ue_local_ip_address data) data.(GxEventReportIndication_ue_local_ip_address) ;p
    PACK_BASIC FdAddress (has_GxEventReportIndication_henb_local_ip_address data) data.(GxEventReportIndication_henb_local_ip_address) ;p
    PACK_BASIC uint32_t (has_GxEventReportIndication_udp_source_port data) data.(GxEventReportIndication_udp_source_port) ;p
    PACK_STRUCT (has_GxEventReportIndication_presence_reporting_area_information data) data.(GxEventReportIndication_presence_reporting_area_information) packGxPresenceReportingAreaInformation ;p
    pack_end.

Definition unpackGxEventReportIndication : unpacker GxEventReportIndication :=
    UNPACK_PRESENCE GxEventReportIndicationPresence set_GxEventReportIndication_presence ;u
    UNPACK_BASIC int32_t has_GxEventReportIndication_an_trusted set_GxEventReportIndication_an_trusted ;u
    UNPACK_LIST_BASIC int32_t 0 has_GxEventReportIndication_event_trigger set_GxEventReportIndication_event_trigger ;u
    UNPACK_STRUCT has_GxEventReportIndication_user_csg_information GxEventReportIndication_user_csg_information set_GxEventReportIndication_user_csg_information unpackGxUserCsgInformation ;u
    UNPACK_BASIC int32_t has_GxEventReportIndication_ip_can_type set_GxEventReportIndication_ip_can_type ;u
    UNPACK_LIST_BASIC FdAddress zero_address has_GxEventReportIndication_an_gw_address set_GxEventReportIndication_an_gw_address ;u
    UNPACK_OCTETSTRING Gx3gppSgsnAddressOctetString has_GxEventReportIndication_tgpp_sgsn_address GxEventReportIndication_tgpp_sgsn_address set_GxEventReportIndication_tgpp_sgsn_address ;u
    UNPACK_OCTETSTRING Gx3gppSgsnIpv6AddressOctetString has_GxEventReportIndication_tgpp_sgsn_ipv6_address GxEventReportIndication_tgpp_sgsn_ipv6_address set_GxEventReportIndication_tgpp_sgsn_ipv6_address ;u
    UNPACK_OCTETSTRING Gx3gppSgsnMccMncOctetString has_GxEventReportIndication_tgpp_sgsn_mcc_mnc GxEventReportIndication_tgpp_sgsn_mcc_mnc set_GxEventReportIndication_tgpp_sgsn_mcc_mnc ;u
    UNPACK_OCTETSTRING GxFramedIpAddressOctetString has_GxEventReportIndication_framed_ip_address GxEventReportIndication_framed_ip_address set_GxEventReportIndication_framed_ip_address ;u
    UNPACK_BASIC int32_t has_GxEventReportIndication_rat_type set_GxEventReportIndication_rat_type ;u
    UNPACK_OCTETSTRING GxRaiOctetString has_GxEventReportIndication_rai GxEventReportIndication_rai set_GxEventReportIndication_rai ;u
    UNPACK_OCTETSTRING Gx3gppUserLocationInfoOctetString has_GxEventReportIndication_tgpp_user_location_info GxEventReportIndication_tgpp_user_location_info set_GxEventReportIndication_tgpp_user_location_info ;u
    UNPACK_STRUCT has_GxEventReportIndication_trace_data GxEventReportIndication_trace_data set_GxEventReportIndication_trace_data unpackGxTraceData ;u
    UNPACK_OCTETSTRING GxTraceReferenceOctetString has_GxEventReportIndication_trace_reference GxEventReportIndication_trace_reference set_GxEventReportIndication_trace_reference ;u
    UNPACK_OCTETSTRING Gx3gpp2BsidOctetString has_GxEventReportIndication_tgpp2_bsid GxEventReportIndication_tgpp2_bsid set_GxEventReportIndication_tgpp2_bsid ;u
    UNPACK_OCTETSTRING Gx3gppMsTimezoneOctetString has_GxEventReportIndication_tgpp_ms_timezone GxEventReportIndication_tgpp_ms_timezone set_GxEventReportIndication_tgpp_ms_timezone ;u
    UNPACK_BASIC FdAddress has_GxEventReportIndication_routing_ip_address set_GxEventReportIndication_routing_ip_address ;u
    UNPACK_BASIC FdAddress has_GxEventReportIndication_ue_local_ip_address set_GxEventReportIndication_ue_local_ip_address ;u
    UNPACK_BASIC FdAddress has_GxEventReportIndication_henb_local_ip_address set_GxEventReportIndication_henb_local_ip_address ;u
    UNPACK_BASIC uint32_t has_GxEventReportIndication_udp_source_port set_GxEventReportIndication_udp_source_port ;u
    UNPACK_STRUCT has_GxEventReportIndication_presence_reporting_area_information GxEventReportIndication_presence_reporting_area_information set_GxEventReportIndication_presence_reporting_area_information unpackGxPresenceReportingAreaInformation ;u
    unpack_end.

Definition calcLengthGxFlowInformation (data : GxFlowInformation) : option Z :=
  (CALCLEN_PRESENCE GxFlowInformationPresence ;c
    CALCLEN_OCTETSTRING (has_GxFlowInformation_flow_description data) data.(GxFlowInformation_flow_description) ;c
    CALCLEN_OCTETSTRING (has_GxFlowInformation_packet_filter_identifier data) data.(GxFlowInformation_packet_filter_identifier) ;c
    CALCLEN_BASIC int32_t (has_GxFlowInformation_packet_filter_usage data) ;c
    CALCLEN_OCTETSTRING (has_GxFlowInformation_tos_traffic_class data) data.(GxFlowInformation_tos_traffic_class) ;c
    CALCLEN_OCTETSTRING (has_GxFlowInformation_security_parameter_index data) data.(GxFlowInformation_security_parameter_index) ;c
    CALCLEN_OCTETSTRING (has_GxFlowInformation_flow_label data) data.(GxFlowInformation_flow_label) ;c
    CALCLEN_BASIC int32_t (has_GxFlowInformation_flow_direction data) ;c
    CALCLEN_OCTETSTRING (has_GxFlowInformation_routing_rule_identifier data) data.(GxFlowInformation_routing_rule_identifier) ;c
    calc_none) 0.

Definition packGxFlowInformation (data : GxFlowInformation) : packer :=
    PACK_PRESENCE GxFlowInformationPresence data.(GxFlowInformation_presence) ;p
    PACK_OCTETSTRING GxFlowDescriptionOctetString (has_GxFlowInformation_flow_description data) data.(GxFlowInformation_flow_description) ;p
    PACK_OCTETSTRING GxPacketFilterIdentifierOctetString (has_GxFlowInformation_packet_filter_identifier data) data.(GxFlowInformation_packet_filter_identifier) ;p
    PACK_BASIC int32_t (has_GxFlowInformation_packet_filter_usage data) data.(GxFlowInformation_packet_filter_usage) ;p
    PACK_OCTETSTRING GxTosTrafficClassOctetString (has_GxFlowInformation_tos_traffic_class data) data.(GxFlowInformation_tos_traffic_class) ;p
    PACK_OCTETSTRING GxSecurityParameterIndexOctetString (has_GxFlowInformation_security_parameter_index data) data.(GxFlowInformation_security_parameter_index) ;p
    PACK_OCTETSTRING GxFlowLabelOctetString (has_GxFlowInformation_flow_label data) data.(GxFlowInformation_flow_label) ;p
    PACK_BASIC int32_t (has_GxFlowInformation_flow_direction data) data.(GxFlowInformation_flow_direction) ;p
    PACK_OCTETSTRING GxRoutingRuleIdentifierOctetString (has_GxFlowInformation_routing_rule_identifier data) data.(GxFlowInformation_routing_rule_identifier) ;p
    pack_end.

Definition unpackGxFlowInformation : unpacker GxFlowInformation :=
    UNPACK_PRESENCE GxFlowInformationPresence set_GxFlowInformation_presence ;u
    UNPACK_OCTETSTRING GxFlowDescriptionOctetString has_GxFlowInformation_flow_description GxFlowInformation_flow_description set_GxFlowInformation_flow_description ;u
    UNPACK_OCTETSTRING GxPacketFilterIdentifierOctetString has_GxFlowInformation_packet_filter_identifier GxFlowInformation_packet_filter_identifier set_GxFlowInformation_packet_filter_identifier ;u
    UNPACK_BASIC int32_t has_GxFlowInformation_packet_filter_usage set_GxFlowInformation_packet_filter_usage ;u
    UNPACK_OCTETSTRING GxTosTrafficClassOctetString has_GxFlowInformation_tos_traffic_class GxFlowInformation_tos_traffic_class set_GxFlowInformation_tos_traffic_class ;u
    UNPACK_OCTETSTRING GxSecurityParameterIndexOctetString has_GxFlowInformation_security_parameter_index GxFlowInformation_security_parameter_index set_GxFlowInformation_security_parameter_index ;u
    UNPACK_OCTETSTRING GxFlowLabelOctetString has_GxFlowInformation_flow_label GxFlowInformation_flow_label set_GxFlowInformation_flow_label ;u
    UNPACK_BASIC int32_t has_GxFlowInformation_flow_direction set_GxFlowInformation_flow_direction ;u
    UNPACK_OCTETSTRING GxRoutingRuleIdentifierOctetString has_GxFlowInformation_routing_rule_identifier GxFlowInformation_routing_rule_identifier set_GxFlowInformation_routing_rule_identifier ;u
    unpack_end.

Definition calcLengthGxApplicationDetectionInformation (data : GxApplicationDetectionInformation) : option Z :=
  (CALCLEN_PRESENCE GxApplicationDetectionInformationPresence ;c
    CALCLEN_OCTETSTRING (has_GxApplicationDetectionInformation_tdf_application_identifier data) data.(GxApplicationDetectionInformation_tdf_application_identifier) ;c
    CALCLEN_OCTETSTRING (has_GxApplicationDetectionInformation_tdf_application_instance_identifier data) data.(GxApplicationDetectionInformation_tdf_application_instance_identifier) ;c
    CALCLEN_LIST_STRUCT (has_GxApplicationDetectionInformation_flow_information data) data.(GxApplicationDetectionInformation_flow_information) calcLengthGxFlowInformation ;c
    calc_none) 0.

Definition packGxApplicationDetectionInformation (data : GxApplicationDetectionInformation) : packer :=
    PACK_PRESENCE GxApplicationDetectionInformationPresence data.(GxApplicationDetectionInformation_presence) ;p
    PACK_OCTETSTRING GxTdfApplicationIdentifierOctetString (has_GxApplicationDetectionInformation_tdf_application_identifier data) data.(GxApplicationDetectionInformation_tdf_application_identifier) ;p
    PACK_OCTETSTRING GxTdfApplicationInstanceIdentifierOctetString (has_GxApplicationDetectionInformation_tdf_application_instance_identifier data) data.(GxApplicationDetectionInformation_tdf_application_instance_identifier) ;p
    PACK_LIST_STRUCT (has_GxApplicationDetectionInformation_flow_information data) data.(GxApplicationDetectionInformation_flow_information) packGxFlowInformation ;p
    pack_end.

Definition unpackGxApplicationDetectionInformation : unpacker GxApplicationDetectionInformation :=
    UNPACK_PRESENCE GxApplicationDetectionInformationPresence set_GxApplicationDetectionInformation_presence ;u
    UNPACK_OCTETSTRING GxTdfApplicationIdentifierOctetString has_GxApplicationDetectionInformation_tdf_application_identifier GxApplicationDetectionInformation_tdf_application_identifier set_GxApplicationDetectionInformation_tdf_application_identifier ;u
    UNPACK_OCTETSTRING GxTdfApplicationInstanceIdentifierOctetString has_GxApplicationDetectionInformation_tdf_application_instance_identifier GxApplicationDetectionInformation_tdf_application_instance_identifier set_GxApplicationDetectionInformation_tdf_application_instance_identifier ;u
    UNPACK_LIST_STRUCT sizeof_GxFlowInformation zero_GxFlowInformation has_GxApplicationDetectionInformation_flow_information set_GxApplicationDetectionInformation_flow_information unpackGxFlowInformation ;u
    unpack_end.

Definition calcLengthGxRedirectServer (data : GxRedirectServer) : option Z :=
  (CALCLEN_PRESENCE GxRedirectServerPresence ;c
    CALCLEN_BASIC int32_t (has_GxRedirectServer_redirect_address_type data) ;c
    CALCLEN_OCTETSTRING (has_GxRedirectServer_redirect_server_address data) data.(GxRedirectServer_redirect_server_address) ;c
    calc_none) 0.

Definition packGxRedirectServer (data : GxRedirectServer) : packer :=
    PACK_PRESENCE GxRedirectServerPresence data.(GxRedirectServer_presence) ;p
    PACK_BASIC int32_t (has_GxRedirectServer_redirect_address_type data) data.(GxRedirectServer_redirect_address_type) ;p
    PACK_OCTETSTRING GxRedirectServerAddressOctetString (has_GxRedirectServer_redirect_server_address data) data.(GxRedirectServer_redirect_server_address) ;p
    pack_end.

Definition unpackGxRedirectServer : unpacker GxRedirectServer :=
    UNPACK_PRESENCE GxRedirectServerPresence set_GxRedirectServer_presence ;u
    UNPACK_BASIC int32_t has_GxRedirectServer_redirect_address_type set_GxRedirectServer_redirect_address_type ;u
    UNPACK_OCTETSTRING GxRedirectServerAddressOctetString has_GxRedirectServer_redirect_server_address GxRedirectServer_redirect_server_address set_GxRedirectServer_redirect_server_address ;u
    unpack_end.

Definition calcLengthGxFinalUnitIndication (data : GxFinalUnitIndication) : option Z :=
  (CALCLEN_PRESENCE GxFinalUnitIndicationPresence ;c
    CALCLEN_BASIC int32_t (has_GxFinalUnitIndication_final_unit_action data) ;c
    CALCLEN_LIST_OCTETSTRING (has_GxFinalUnitIndication_restriction_filter_rule data) data.(GxFinalUnitIndication_restriction_filter_rule) ;c
    CALCLEN_LIST_OCTETSTRING (has_GxFinalUnitIndication_filter_id data) data.(GxFinalUnitIndication_filter_id) ;c
    CALCLEN_STRUCT (has_GxFinalUnitIndication_redirect_server data) data.(GxFinalUnitIndication_redirect_server) calcLengthGxRedirectServer ;c
    calc_none) 0.

Definition packGxFinalUnitIndication (data : GxFinalUnitIndication) : packer :=
    PACK_PRESENCE GxFinalUnitIndicationPresence data.(GxFinalUnitIndication_presence) ;p
    PACK_BASIC int32_t (has_GxFinalUnitIndication_final_unit_action data) data.(GxFinalUnitIndication_final_unit_action) ;p
    PACK_LIST_OCTETSTRING GxRestrictionFilterRuleOctetString (has_GxFinalUnitIndication_restriction_filter_rule data) data.(GxFinalUnitIndication_restriction_filter_rule) ;p
    PACK_LIST_OCTETSTRING GxFilterIdOctetString (has_GxFinalUnitIndication_filter_id data) data.(GxFinalUnitIndication_filter_id) ;p
    PACK_STRUCT (has_GxFinalUnitIndication_redirect_server data) data.(GxFinalUnitIndication_redirect_server) packGxRedirectServer ;p
    pack_end.

Definition unpackGxFinalUnitIndication : unpacker GxFinalUnitIndication :=
    UNPACK_PRESENCE GxFinalUnitIndicationPresence set_GxFinalUnitIndication_presence ;u
    UNPACK_BASIC int32_t has_GxFinalUnitIndication_final_unit_action set_GxFinalUnitIndication_final_unit_action ;u
    UNPACK_LIST_OCTETSTRING GxRestrictionFilterRuleOctetString has_GxFinalUnitIndication_restriction_filter_rule set_GxFinalUnitIndication_restriction_filter_rule ;u
    UNPACK_LIST_OCTETSTRING GxFilterIdOctetString has_GxFinalUnitIndication_filter_id set_GxFinalUnitIndication_filter_id ;u
    UNPACK_STRUCT has_GxFinalUnitIndication_redirect_server GxFinalUnitIndication_redirect_server set_GxFinalUnitIndication_redirect_server unpackGxRedirectServer ;u
    unpack_end.

Definition calcLengthGxChargingRuleReport (data : GxChargingRuleReport) : option Z :=
  (CALCLEN_PRESENCE GxChargingRuleReportPresence ;c
    CALCLEN_LIST_OCTETSTRING (has_GxChargingRuleReport_charging_rule_name data) data.(GxChargingRuleReport_charging_rule_name) ;c
    CALCLEN_LIST_OCTETSTRING (has_GxChargingRuleReport_charging_rule_base_name data) data.(GxChargingRuleReport_charging_rule_base_name) ;c
    CALCLEN_OCTETSTRING (has_GxChargingRuleReport_bearer_identifier data) data.(GxChargingRuleReport_bearer_identifier) ;c
    CALCLEN_BASIC int32_t (has_GxChargingRuleReport_pcc_rule_status data) ;c
    CALCLEN_BASIC int32_t (has_GxChargingRuleReport_rule_failure_code data) ;c
    CALCLEN_STRUCT (has_GxChargingRuleReport_final_unit_indication data) data.(GxChargingRuleReport_final_unit_indication) calcLengthGxFinalUnitIndication ;c
    CALCLEN_LIST_OCTETSTRING (has_GxChargingRuleReport_ran_nas_release_cause data) data.(GxChargingRuleReport_ran_nas_release_cause) ;c
    CALCLEN_LIST_BASIC uint64_t (has_GxChargingRuleReport_content_version data) data.(GxChargingRuleReport_content_version) ;c
    calc_none) 0.

Definition packGxChargingRuleReport (data : GxChargingRuleReport) : packer :=
    PACK_PRESENCE GxChargingRuleReportPresence data.(GxChargingRuleReport_presence) ;p
    PACK_LIST_OCTETSTRING GxChargingRuleNameOctetString (has_GxChargingRuleReport_charging_rule_name data) data.(GxChargingRuleReport_charging_rule_name) ;p
    PACK_LIST_OCTETSTRING GxChargingRuleBaseNameOctetString (has_GxChargingRuleReport_charging_rule_base_name data) data.(GxChargingRuleReport_charging_rule_base_name) ;p
    PACK_OCTETSTRING GxBearerIdentifierOctetString (has_GxChargingRuleReport_bearer_identifier data) data.(GxChargingRuleReport_bearer_identifier) ;p
    PACK_BASIC int32_t (has_GxChargingRuleReport_pcc_rule_status data) data.(GxChargingRuleReport_pcc_rule_status) ;p
    PACK_BASIC int32_t (has_GxChargingRuleReport_rule_failure_code data) data.(GxChargingRuleReport_rule_failure_code) ;p
    PACK_STRUCT (has_GxChargingRuleReport_final_unit_indication data) data.(GxChargingRuleReport_final_unit_indication) packGxFinalUnitIndication ;p
    PACK_LIST_OCTETSTRING GxRanNasReleaseCauseOctetString (has_GxChargingRuleReport_ran_nas_release_cause data) data.(GxChargingRuleReport_ran_nas_release_cause) ;p
    PACK_LIST_BASIC uint64_t (has_GxChargingRuleReport_content_version data) data.(GxChargingRuleReport_content_version) ;p
    pack_end.

Definition unpackGxChargingRuleReport : unpacker GxChargingRuleReport :=
    UNPACK_PRESENCE GxChargingRuleReportPresence set_GxChargingRuleReport_presence ;u
    UNPACK_LIST_OCTETSTRING GxChargingRuleNameOctetString has_GxChargingRuleReport_charging_rule_name set_GxChargingRuleReport_charging_rule_name ;u
    UNPACK_LIST_OCTETSTRING GxChargingRuleBaseNameOctetString has_GxChargingRuleReport_charging_rule_base_name set_GxChargingRuleReport_charging_rule_base_name ;u
    UNPACK_OCTETSTRING GxBearerIdentifierOctetString has_GxChargingRuleReport_bearer_identifier GxChargingRuleReport_bearer_identifier set_GxChargingRuleReport_bearer_identifier ;u
    UNPACK_BASIC int32_t has_GxChargingRuleReport_pcc_rule_status set_GxChargingRuleReport_pcc_rule_status ;u
    UNPACK_BASIC int32_t has_GxChargingRuleReport_rule_failure_code set_GxChargingRuleReport_rule_failure_code ;u
    UNPACK_STRUCT has_GxChargingRuleReport_final_unit_indication GxChargingRuleReport_final_unit_indication set_GxChargingRuleReport_final_unit_indication unpackGxFinalUnitIndication ;u
    UNPACK_LIST_OCTETSTRING GxRanNasReleaseCauseOctetString has_GxChargingRuleReport_ran_nas_release_cause set_GxChargingRuleReport_ran_nas_release_cause ;u
    UNPACK_LIST_BASIC uint64_t 0 has_GxChargingRuleReport_content_version set_GxChargingRuleReport_content_version ;u
    unpack_end.

Definition calcLengthGxTftPacketFilterInformation (data : GxTftPacketFilterInformation) : option Z :=
  (CALCLEN_PRESENCE GxTftPacketFilterInformationPresence ;c
    CALCLEN_BASIC uint32_t (has_GxTftPacketFilterInformation_precedence data) ;c
    CALCLEN_OCTETSTRING (has_GxTftPacketFilterInformation_tft_filter data) data.(GxTftPacketFilterInformation_tft_filter) ;c
    CALCLEN_OCTETSTRING (has_GxTftPacketFilterInformation_tos_traffic_class data) data.(GxTftPacketFilterInformation_tos_traffic_class) ;c
    CALCLEN_OCTETSTRING (has_GxTftPacketFilterInformation_security_parameter_index data) data.(GxTftPacketFilterInformation_security_parameter_index) ;c
    CALCLEN_OCTETSTRING (has_GxTftPacketFilterInformation_flow_label data) data.(GxTftPacketFilterInformation_flow_label) ;c
    CALCLEN_BASIC int32_t (has_GxTftPacketFilterInformation_flow_direction data) ;c
    calc_none) 0.

Definition packGxTftPacketFilterInformation (data : GxTftPacketFilterInformation) : packer :=
    PACK_PRESENCE GxTftPacketFilterInformationPresence data.(GxTftPacketFilterInformation_presence) ;p
    PACK_BASIC uint32_t (has_GxTftPacketFilterInformation_precedence data) data.(GxTftPacketFilterInformation_precedence) ;p
    PACK_OCTETSTRING GxTftFilterOctetString (has_GxTftPacketFilterInformation_tft_filter data) data.(GxTftPacketFilterInformation_tft_filter) ;p
    PACK_OCTETSTRING GxTosTrafficClassOctetString (has_GxTftPacketFilterInformation_tos_traffic_class data) data.(GxTftPacketFilterInformation_tos_traffic_class) ;p
    PACK_OCTETSTRING GxSecurityParameterIndexOctetString (has_GxTftPacketFilterInformation_security_parameter_index data) data.(GxTftPacketFilterInformation_security_parameter_index) ;p
    PACK_OCTETSTRING GxFlowLabelOctetString (has_GxTftPacketFilterInformation_flow_label data) data.(GxTftPacketFilterInformation_flow_label) ;p
    PACK_BASIC int32_t (has_GxTftPacketFilterInformation_flow_direction data) data.(GxTftPacketFilterInformation_flow_direction) ;p
    pack_end.

Definition unpackGxTftPacketFilterInformation : unpacker GxTftPacketFilterInformation :=
    UNPACK_PRESENCE GxTftPacketFilterInformationPresence set_GxTftPacketFilterInformation_presence ;u
    UNPACK_BASIC uint32_t has_GxTftPacketFilterInformation_precedence set_GxTftPacketFilterInformation_precedence ;u
    UNPACK_OCTETSTRING GxTftFilterOctetString has_GxTftPacketFilterInformation_tft_filter GxTftPacketFilterInformation_tft_filter set_GxTftPacketFilterInformation_tft_filter ;u
    UNPACK_OCTETSTRING GxTosTrafficClassOctetString has_GxTftPacketFilterInformation_tos_traffic_class GxTftPacketFilterInformation_tos_traffic_class set_GxTftPacketFilterInformation_tos_traffic_class ;u
    UNPACK_OCTETSTRING GxSecurityParameterIndexOctetString has_GxTftPacketFilterInformation_security_parameter_index GxTftPacketFilterInformation_security_parameter_index set_GxTftPacketFilterInformation_security_parameter_index ;u
    UNPACK_OCTETSTRING GxFlowLabelOctetString has_GxTftPacketFilterInformation_flow_label GxTftPacketFilterInformation_flow_label set_GxTftPacketFilterInformation_flow_label ;u
    UNPACK_BASIC int32_t has_GxTftPacketFilterInformation_flow_direction set_GxTftPacketFilterInformation_flow_direction ;u
    unpack_end.

Definition calcLengthGxFixedUserLocationInfo (data : GxFixedUserLocationInfo) : option Z :=
  (CALCLEN_PRESENCE GxFixedUserLocationInfoPresence ;c
    CALCLEN_OCTETSTRING (has_GxFixedUserLocationInfo_ssid data) data.(GxFixedUserLocationInfo_ssid) ;c
    CALCLEN_OCTETSTRING (has_GxFixedUserLocationInfo_bssid data) data.(GxFixedUserLocationInfo_bssid) ;c
    CALCLEN_OCTETSTRING (has_GxFixedUserLocationInfo_logical_access_id data) data.(GxFixedUserLocationInfo_logical_access_id) ;c
    CALCLEN_OCTETSTRING (has_GxFixedUserLocationInfo_physical_access_id data) data.(GxFixedUserLocationInfo_physical_access_id) ;c
    calc_none) 0.

Definition packGxFixedUserLocationInfo (data : GxFixedUserLocationInfo) : packer :=
    PACK_PRESENCE GxFixedUserLocationInfoPresence data.(GxFixedUserLocationInfo_presence) ;p
    PACK_OCTETSTRING GxSsidOctetString (has_GxFixedUserLocationInfo_ssid data) data.(GxFixedUserLocationInfo_ssid) ;p
    PACK_OCTETSTRING GxBssidOctetString (has_GxFixedUserLocationInfo_bssid data) data.(GxFixedUserLocationInfo_bssid) ;p
    PACK_OCTETSTRING GxLogicalAccessIdOctetString (has_GxFixedUserLocationInfo_logical_access_id data) data.(GxFixedUserLocationInfo_logical_access_id) ;p
    PACK_OCTETSTRING GxPhysicalAccessIdOctetString (has_GxFixedUserLocationInfo_physical_access_id data) data.(GxFixedUserLocationInfo_physical_access_id) ;p
    pack_end.

Definition unpackGxFixedUserLocationInfo : unpacker GxFixedUserLocationInfo :=
    UNPACK_PRESENCE GxFixedUserLocationInfoPresence set_GxFixedUserLocationInfo_presence ;u
    UNPACK_OCTETSTRING GxSsidOctetString has_GxFixedUserLocationInfo_ssid GxFixedUserLocationInfo_ssid set_GxFixedUserLocationInfo_ssid ;u
    UNPACK_OCTETSTRING GxBssidOctetString has_GxFixedUserLocationInfo_bssid GxFixedUserLocationInfo_bssid set_GxFixedUserLocationInfo_bssid ;u
    UNPACK_OCTETSTRING GxLogicalAccessIdOctetString has_GxFixedUserLocationInfo_logical_access_id GxFixedUserLocationInfo_logical_access_id set_GxFixedUserLocationInfo_logical_access_id ;u
    UNPACK_OCTETSTRING GxPhysicalAccessIdOctetString has_GxFixedUserLocationInfo_physical_access_id GxFixedUserLocationInfo_physical_access_id set_GxFixedUserLocationInfo_physical_access_id ;u
    unpack_end.

Definition calcLengthGxDefaultQosInformation (data : GxDefaultQosInformation) : option Z :=
  (CALCLEN_PRESENCE GxDefaultQosInformationPresence ;c
    CALCLEN_BASIC int32_t (has_GxDefaultQosInformation_qos_class_identifier data) ;c
    CALCLEN_BASIC uint32_t (has_GxDefaultQosInformation_max_requested_bandwidth_ul data) ;c
    CALCLEN_BASIC uint32_t (has_GxDefaultQosInformation_max_requested_bandwidth_dl data) ;c
    CALCLEN_OCTETSTRING (has_GxDefaultQosInformation_default_qos_name data) data.(GxDefaultQosInformation_default_qos_name) ;c
    calc_none) 0.

Definition packGxDefaultQosInformation (data : GxDefaultQosInformation) : packer :=
    PACK_PRESENCE GxDefaultQosInformationPresence data.(GxDefaultQosInformation_presence) ;p
    PACK_BASIC int32_t (has_GxDefaultQosInformation_qos_class_identifier data) data.(GxDefaultQosInformation_qos_class_identifier) ;p
    PACK_BASIC uint32_t (has_GxDefaultQosInformation_max_requested_bandwidth_ul data) data.(GxDefaultQosInformation_max_requested_bandwidth_ul) ;p
    PACK_BASIC uint32_t (has_GxDefaultQosInformation_max_requested_bandwidth_dl data) data.(GxDefaultQosInformation_max_requested_bandwidth_dl) ;p
    PACK_OCTETSTRING GxDefaultQosNameOctetString (has_GxDefaultQosInformation_default_qos_name data) data.(GxDefaultQosInformation_default_qos_name) ;p
    pack_end.

Definition unpackGxDefaultQosInformation : unpacker GxDefaultQosInformation :=
    UNPACK_PRESENCE GxDefaultQosInformationPresence set_GxDefaultQosInformation_presence ;u
    UNPACK_BASIC int32_t has_GxDefaultQosInformation_qos_class_identifier set_GxDefaultQosInformation_qos_class_identifier ;u
    UNPACK_BASIC uint32_t has_GxDefaultQosInformation_max_requested_bandwidth_ul set_GxDefaultQosInformation_max_requested_bandwidth_ul ;u
    UNPACK_BASIC uint32_t has_GxDefaultQosInformation_max_requested_bandwidth_dl set_GxDefaultQosInformation_max_requested_bandwidth_dl ;u
    UNPACK_OCTETSTRING GxDefaultQosNameOctetString has_GxDefaultQosInformation_default_qos_name GxDefaultQosInformation_default_qos_name set_GxDefaultQosInformation_default_qos_name ;u
    unpack_end.

Definition calcLengthGxAllocationRetentionPriority (data : GxAllocationRetentionPriority) : option Z :=
  (CALCLEN_PRESENCE GxAllocationRetentionPriorityPresence ;c
    CALCLEN_BASIC uint32_t (has_GxAllocationRetentionPriority_priority_level data) ;c
    CALCLEN_BASIC int32_t (has_GxAllocationRetentionPriority_pre_emption_capability data) ;c
    CALCLEN_BASIC int32_t (has_GxAllocationRetentionPriority_pre_emption_vulnerability data) ;c
    calc_none) 0.

Definition packGxAllocationRetentionPriority (data : GxAllocationRetentionPriority) : packer :=
    PACK_PRESENCE GxAllocationRetentionPriorityPresence data.(GxAllocationRetentionPriority_presence) ;p
    PACK_BASIC uint32_t (has_GxAllocationRetentionPriority_priority_level data) data.(GxAllocationRetentionPriority_priority_level) ;p
    PACK_BASIC int32_t (has_GxAllocationRetentionPriority_pre_emption_capability data) data.(GxAllocationRetentionPriority_pre_emption_capability) ;p
    PACK_BASIC int32_t (has_GxAllocationRetentionPriority_pre_emption_vulnerability data) data.(GxAllocationRetentionPriority_pre_emption_vulnerability) ;p
    pack_end.

Definition unpackGxAllocationRetentionPriority : unpacker GxAllocationRetentionPriority :=
    UNPACK_PRESENCE GxAllocationRetentionPriorityPresence set_GxAllocationRetentionPriority_presence ;u
    UNPACK_BASIC uint32_t has_GxAllocationRetentionPriority_priority_level set_GxAllocationRetentionPriority_priority_level ;u
    UNPACK_BASIC int32_t has_GxAllocationRetentionPriority_pre_emption_capability set_GxAllocationRetentionPriority_pre_emption_capability ;u
    UNPACK_BASIC int32_t has_GxAllocationRetentionPriority_pre_emption_vulnerability set_GxAllocationRetentionPriority_pre_emption_vulnerability ;u
    unpack_end.

Definition calcLengthGxDefaultEpsBearerQos (data : GxDefaultEpsBearerQos) : option Z :=
  (CALCLEN_PRESENCE GxDefaultEpsBearerQosPresence ;c
    CALCLEN_BASIC int32_t (has_GxDefaultEpsBearerQos_qos_class_identifier data) ;c
    CALCLEN_STRUCT (has_GxDefaultEpsBearerQos_allocation_retention_priority data) data.(GxDefaultEpsBearerQos_allocation_retention_priority) calcLengthGxAllocationRetentionPriority ;c
    calc_none) 0.

Definition packGxDefaultEpsBearerQos (data : GxDefaultEpsBearerQos) : packer :=
    PACK_PRESENCE GxDefaultEpsBearerQosPresence data.(GxDefaultEpsBearerQos_presence) ;p
    PACK_BASIC int32_t (has_GxDefaultEpsBearerQos_qos_class_identifier data) data.(GxDefaultEpsBearerQos_qos_class_identifier) ;p
    PACK_STRUCT (has_GxDefaultEpsBearerQos_allocation_retention_priority data) data.(GxDefaultEpsBearerQos_allocation_retention_priority) packGxAllocationRetentionPriority ;p
    pack_end.

Definition unpackGxDefaultEpsBearerQos : unpacker GxDefaultEpsBearerQos :=
    UNPACK_PRESENCE GxDefaultEpsBearerQosPresence set_GxDefaultEpsBearerQos_presence ;u
    UNPACK_BASIC int32_t has_GxDefaultEpsBearerQos_qos_class_identifier set_GxDefaultEpsBearerQos_qos_class_identifier ;u
    UNPACK_STRUCT has_GxDefaultEpsBearerQos_allocation_retention_priority GxDefaultEpsBearerQos_allocation_retention_priority set_GxDefaultEpsBearerQos_allocation_retention_priority unpackGxAllocationRetentionPriority ;u
    unpack_end.

Definition calcLengthGxConditionalApnAggregateMaxBitrate (data : GxConditionalApnAggregateMaxBitrate) : option Z :=
  (CALCLEN_PRESENCE GxConditionalApnAggregateMaxBitratePresence ;c
    CALCLEN_BASIC uint32_t (has_GxConditionalApnAggregateMaxBitrate_apn_aggregate_max_bitrate_ul data) ;c
    CALCLEN_BASIC uint32_t (has_GxConditionalApnAggregateMaxBitrate_apn_aggregate_max_bitrate_dl data) ;c
    CALCLEN_BASIC uint32_t (has_GxConditionalApnAggregateMaxBitrate_extended_apn_ambr_ul data) ;c
    CALCLEN_BASIC uint32_t (has_GxConditionalApnAggregateMaxBitrate_extended_apn_ambr_dl data) ;c
    CALCLEN_LIST_BASIC int32_t (has_GxConditionalApnAggregateMaxBitrate_ip_can_type data) data.(GxConditionalApnAggregateMaxBitrate_ip_can_type) ;c
    CALCLEN_LIST_BASIC int32_t (has_GxConditionalApnAggregateMaxBitrate_rat_type data) data.(GxConditionalApnAggregateMaxBitrate_rat_type) ;c
    calc_none) 0.

Definition packGxConditionalApnAggregateMaxBitrate (data : GxConditionalApnAggregateMaxBitrate) : packer :=
    PACK_PRESENCE GxConditionalApnAggregateMaxBitratePresence data.(GxConditionalApnAggregateMaxBitrate_presence) ;p
    PACK_BASIC uint32_t (has_GxConditionalApnAggregateMaxBitrate_apn_aggregate_max_bitrate_ul data) data.(GxConditionalApnAggregateMaxBitrate_apn_aggregate_max_bitrate_ul) ;p
    PACK_BASIC uint32_t (has_GxConditionalApnAggregateMaxBitrate_apn_aggregate_max_bitrate_dl data) data.(GxConditionalApnAggregateMaxBitrate_apn_aggregate_max_bitrate_dl) ;p
    PACK_BASIC uint32_t (has_GxConditionalApnAggregateMaxBitrate_extended_apn_ambr_ul data) data.(GxConditionalApnAggregateMaxBitrate_extended_apn_ambr_ul) ;p
    PACK_BASIC uint32_t (has_GxConditionalApnAggregateMaxBitrate_extended_apn_ambr_dl data) data.(GxConditionalApnAggregateMaxBitrate_extended_apn_ambr_dl) ;p
    PACK_LIST_BASIC int32_t (has_GxConditionalApnAggregateMaxBitrate_ip_can_type data) data.(GxConditionalApnAggregateMaxBitrate_ip_can_type) ;p
    PACK_LIST_BASIC int32_t (has_GxConditionalApnAggregateMaxBitrate_rat_type data) data.(GxConditionalApnAggregateMaxBitrate_rat_type) ;p
    pack_end.

Definition unpackGxConditionalApnAggregateMaxBitrate : unpacker GxConditionalApnAggregateMaxBitrate :=
    UNPACK_PRESENCE GxConditionalApnAggregateMaxBitratePresence set_GxConditionalApnAggregateMaxBitrate_presence ;u
    UNPACK_BASIC uint32_t has_GxConditionalApnAggregateMaxBitrate_apn_aggregate_max_bitrate_ul set_GxConditionalApnAggregateMaxBitrate_apn_aggregate_max_bitrate_ul ;u
    UNPACK_BASIC uint32_t has_GxConditionalApnAggregateMaxBitrate_apn_aggregate_max_bitrate_dl set_GxConditionalApnAggregateMaxBitrate_apn_aggregate_max_bitrate_dl ;u
    UNPACK_BASIC uint32_t has_GxConditionalApnAggregateMaxBitrate_extended_apn_ambr_ul set_GxConditionalApnAggregateMaxBitrate_extended_apn_ambr_ul ;u
    UNPACK_BASIC uint32_t has_GxConditionalApnAggregateMaxBitrate_extended_apn_ambr_dl set_GxConditionalApnAggregateMaxBitrate_extended_apn_ambr_dl ;u
    UNPACK_LIST_BASIC int32_t 0 has_GxConditionalApnAggregateMaxBitrate_ip_can_type set_GxConditionalApnAggregateMaxBitrate_ip_can_type ;u
    UNPACK_LIST_BASIC int32_t 0 has_GxConditionalApnAggregateMaxBitrate_rat_type set_GxConditionalApnAggregateMaxBitrate_rat_type ;u
    unpack_end.

Definition calcLengthGxQosInformation (data : GxQosInformation) : option Z :=
  (CALCLEN_PRESENCE GxQosInformationPresence ;c
    CALCLEN_BASIC int32_t (has_GxQosInformation_qos_class_identifier data) ;c
    CALCLEN_BASIC uint32_t (has_GxQosInformation_max_requested_bandwidth_ul data) ;c
    CALCLEN_BASIC uint32_t (has_GxQosInformation_max_requested_bandwidth_dl data) ;c
    CALCLEN_BASIC uint32_t (has_GxQosInformation_extended_max_requested_bw_ul data) ;c
    CALCLEN_BASIC uint32_t (has_GxQosInformation_extended_max_requested_bw_dl data) ;c
    CALCLEN_BASIC uint32_t (has_GxQosInformation_guaranteed_bitrate_ul data) ;c
    CALCLEN_BASIC uint32_t (has_GxQosInformation_guaranteed_bitrate_dl data) ;c
    CALCLEN_BASIC uint32_t (has_GxQosInformation_extended_gbr_ul data) ;c
    CALCLEN_BASIC uint32_t (has_GxQosInformation_extended_gbr_dl data) ;c
    CALCLEN_OCTETSTRING (has_GxQosInformation_bearer_identifier data) data.(GxQosInformation_bearer_identifier) ;c
    CALCLEN_STRUCT (has_GxQosInformation_allocation_retention_priority data) data.(GxQosInformation_allocation_retention_priority) calcLengthGxAllocationRetentionPriority ;c
    CALCLEN_BASIC uint32_t (has_GxQosInformation_apn_aggregate_max_bitrate_ul data) ;c
    CALCLEN_BASIC uint32_t (has_GxQosInformation_apn_aggregate_max_bitrate_dl data) ;c
    CALCLEN_BASIC uint32_t (has_GxQosInformation_extended_apn_ambr_ul data) ;c
    CALCLEN_BASIC uint32_t (has_GxQosInformation_extended_apn_ambr_dl data) ;c
    CALCLEN_LIST_STRUCT (has_GxQosInformation_conditional_apn_aggregate_max_bitrate data) data.(GxQosInformation_conditional_apn_aggregate_max_bitrate) calcLengthGxConditionalApnAggregateMaxBitrate ;c
    calc_none) 0.

Definition packGxQosInformation (data : GxQosInformation) : packer :=
    PACK_PRESENCE GxQosInformationPresence data.(GxQosInformation_presence) ;p
    PACK_BASIC int32_t (has_GxQosInformation_qos_class_identifier data) data.(GxQosInformation_qos_class_identifier) ;p
    PACK_BASIC uint32_t (has_GxQosInformation_max_requested_bandwidth_ul data) data.(GxQosInformation_max_requested_bandwidth_ul) ;p
    PACK_BASIC uint32_t (has_GxQosInformation_max_requested_bandwidth_dl data) data.(GxQosInformation_max_requested_bandwidth_dl) ;p
    PACK_BASIC uint32_t (has_GxQosInformation_extended_max_requested_bw_ul data) data.(GxQosInformation_extended_max_requested_bw_ul) ;p
    PACK_BASIC uint32_t (has_GxQosInformation_extended_max_requested_bw_dl data) data.(GxQosInformation_extended_max_requested_bw_dl) ;p
    PACK_BASIC uint32_t (has_GxQosInformation_guaranteed_bitrate_ul data) data.(GxQosInformation_guaranteed_bitrate_ul) ;p
    PACK_BASIC uint32_t (has_GxQosInformation_guaranteed_bitrate_dl data) data.(GxQosInformation_guaranteed_bitrate_dl) ;p
    PACK_BASIC uint32_t (has_GxQosInformation_extended_gbr_ul data) data.(GxQosInformation_extended_gbr_ul) ;p
    PACK_BASIC uint32_t (has_GxQosInformation_extended_gbr_dl data) data.(GxQosInformation_extended_gbr_dl) ;p
    PACK_OCTETSTRING GxBearerIdentifierOctetString (has_GxQosInformation_bearer_identifier data) data.(GxQosInformation_bearer_identifier) ;p
    PACK_STRUCT (has_GxQosInformation_allocation_retention_priority data) data.(GxQosInformation_allocation_retention_priority) packGxAllocationRetentionPriority ;p
    PACK_BASIC uint32_t (has_GxQosInformation_apn_aggregate_max_bitrate_ul data) data.(GxQosInformation_apn_aggregate_max_bitrate_ul) ;p
    PACK_BASIC uint32_t (has_GxQosInformation_apn_aggregate_max_bitrate_dl data) data.(GxQosInformation_apn_aggregate_max_bitrate_dl) ;p
    PACK_BASIC uint32_t (has_GxQosInformation_extended_apn_ambr_ul data) data.(GxQosInformation_extended_apn_ambr_ul) ;p
    PACK_BASIC uint32_t (has_GxQosInformation_extended_apn_ambr_dl data) data.(GxQosInformation_extended_apn_ambr_dl) ;p
    PACK_LIST_STRUCT (has_GxQosInformation_conditional_apn_aggregate_max_bitrate data) data.(GxQosInformation_conditional_apn_aggregate_max_bitrate) packGxConditionalApnAggregateMaxBitrate ;p
    pack_end.

Definition unpackGxQosInformation : unpacker GxQosInformation :=
    UNPACK_PRESENCE GxQosInformationPresence set_GxQosInformation_presence ;u
    UNPACK_BASIC int32_t has_GxQosInformation_qos_class_identifier set_GxQosInformation_qos_class_identifier ;u
    UNPACK_BASIC uint32_t has_GxQosInformation_max_requested_bandwidth_ul set_GxQosInformation_max_requested_bandwidth_ul ;u
    UNPACK_BASIC uint32_t has_GxQosInformation_max_requested_bandwidth_dl set_GxQosInformation_max_requested_bandwidth_dl ;u
    UNPACK_BASIC uint32_t has_GxQosInformation_extended_max_requested_bw_ul set_GxQosInformation_extended_max_requested_bw_ul ;u
    UNPACK_BASIC uint32_t has_GxQosInformation_extended_max_requested_bw_dl set_GxQosInformation_extended_max_requested_bw_dl ;u
    UNPACK_BASIC uint32_t has_GxQosInformation_guaranteed_bitrate_ul set_GxQosInformation_guaranteed_bitrate_ul ;u
    UNPACK_BASIC uint32_t has_GxQosInformation_guaranteed_bitrate_dl set_GxQosInformation_guaranteed_bitrate_dl ;u
    UNPACK_BASIC uint32_t has_GxQosInformation_extended_gbr_ul set_GxQosInformation_extended_gbr_ul ;u
    UNPACK_BASIC uint32_t has_GxQosInformation_extended_gbr_dl set_GxQosInformation_extended_gbr_dl ;u
    UNPACK_OCTETSTRING GxBearerIdentifierOctetString has_GxQosInformation_bearer_identifier GxQosInformation_bearer_identifier set_GxQosInformation_bearer_identifier ;u
    UNPACK_STRUCT has_GxQosInformation_allocation_retention_priority GxQosInformation_allocation_retention_priority set_GxQosInformation_allocation_retention_priority unpackGxAllocationRetentionPriority ;u
    UNPACK_BASIC uint32_t has_GxQosInformation_apn_aggregate_max_bitrate_ul set_GxQosInformation_apn_aggregate_max_bitrate_ul ;u
    UNPACK_BASIC uint32_t has_GxQosInformation_apn_aggregate_max_bitrate_dl set_GxQosInformation_apn_aggregate_max_bitrate_dl ;u
    UNPACK_BASIC uint32_t has_GxQosInformation_extended_apn_ambr_ul set_GxQosInformation_extended_apn_ambr_ul ;u
    UNPACK_BASIC uint32_t has_GxQosInformation_extended_apn_ambr_dl set_GxQosInformation_extended_apn_ambr_dl ;u
    UNPACK_LIST_STRUCT sizeof_GxConditionalApnAggregateMaxBitrate zero_GxConditionalApnAggregateMaxBitrate has_GxQosInformation_conditional_apn_aggregate_max_bitrate set_GxQosInformation_conditional_apn_aggregate_max_bitrate unpackGxConditionalApnAggregateMaxBitrate ;u
    unpack_end.

Definition calcLengthGxUserEquipmentInfo (data : GxUserEquipmentInfo) : option Z :=
  (CALCLEN_PRESENCE GxUserEquipmentInfoPresence ;c
    CALCLEN_BASIC int32_t (has_GxUserEquipmentInfo_user_equipment_info_type data) ;c
    CALCLEN_OCTETSTRING (has_GxUserEquipmentInfo_user_equipment_info_value data) data.(GxUserEquipmentInfo_user_equipment_info_value) ;c
    calc_none) 0.

Definition packGxUserEquipmentInfo (data : GxUserEquipmentInfo) : packer :=
    PACK_PRESENCE GxUserEquipmentInfoPresence data.(GxUserEquipmentInfo_presence) ;p
    PACK_BASIC int32_t (has_GxUserEquipmentInfo_user_equipment_info_type data) data.(GxUserEquipmentInfo_user_equipment_info_type) ;p
    PACK_OCTETSTRING GxUserEquipmentInfoValueOctetString (has_GxUserEquipmentInfo_user_equipment_info_value data) data.(GxUserEquipmentInfo_user_equipment_info_value) ;p
    pack_end.

Definition unpackGxUserEquipmentInfo : unpacker GxUserEquipmentInfo :=
    UNPACK_PRESENCE GxUserEquipmentInfoPresence set_GxUserEquipmentInfo_presence ;u
    UNPACK_BASIC int32_t has_GxUserEquipmentInfo_user_equipment_info_type set_GxUserEquipmentInfo_user_equipment_info_type ;u
    UNPACK_OCTETSTRING GxUserEquipmentInfoValueOctetString has_GxUserEquipmentInfo_user_equipment_info_value GxUserEquipmentInfo_user_equipment_info_value set_GxUserEquipmentInfo_user_equipment_info_value ;u
    unpack_end.

Definition calcLengthGxPacketFilterInformation (data : GxPacketFilterInformation) : option Z :=
  (CALCLEN_PRESENCE GxPacketFilterInformationPresence ;c
    CALCLEN_OCTETSTRING (has_GxPacketFilterInformation_packet_filter_identifier data) data.(GxPacketFilterInformation_packet_filter_identifier) ;c
    CALCLEN_BASIC uint32_t (has_GxPacketFilterInformation_precedence data) ;c
    CALCLEN_OCTETSTRING (has_GxPacketFilterInformation_packet_filter_content data) data.(GxPacketFilterInformation_packet_filter_content) ;c
    CALCLEN_OCTETSTRING (has_GxPacketFilterInformation_tos_traffic_class data) data.(GxPacketFilterInformation_tos_traffic_class) ;c
    CALCLEN_OCTETSTRING (has_GxPacketFilterInformation_security_parameter_index data) data.(GxPacketFilterInformation_security_parameter_index) ;c
    CALCLEN_OCTETSTRING (has_GxPacketFilterInformation_flow_label data) data.(GxPacketFilterInformation_flow_label) ;c
    CALCLEN_BASIC int32_t (has_GxPacketFilterInformation_flow_direction data) ;c
    calc_none) 0.

Definition packGxPacketFilterInformation (data : GxPacketFilterInformation) : packer :=
    PACK_PRESENCE GxPacketFilterInformationPresence data.(GxPacketFilterInformation_presence) ;p
    PACK_OCTETSTRING GxPacketFilterIdentifierOctetString (has_GxPacketFilterInformation_packet_filter_identifier data) data.(GxPacketFilterInformation_packet_filter_identifier) ;p
    PACK_BASIC uint32_t (has_GxPacketFilterInformation_precedence data) data.(GxPacketFilterInformation_precedence) ;p
    PACK_OCTETSTRING GxPacketFilterContentOctetString (has_GxPacketFilterInformation_packet_filter_content data) data.(GxPacketFilterInformation_packet_filter_content) ;p
    PACK_OCTETSTRING GxTosTrafficClassOctetString (has_GxPacketFilterInformation_tos_traffic_class data) data.(GxPacketFilterInformation_tos_traffic_class) ;p
    PACK_OCTETSTRING GxSecurityParameterIndexOctetString (has_GxPacketFilterInformation_security_parameter_index data) data.(GxPacketFilterInformation_security_parameter_index) ;p
    PACK_OCTETSTRING GxFlowLabelOctetString (has_GxPacketFilterInformation_flow_label data) data.(GxPacketFilterInformation_flow_label) ;p
    PACK_BASIC int32_t (has_GxPacketFilterInformation_flow_direction data) data.(GxPacketFilterInformation_flow_direction) ;p
    pack_end.

Definition unpackGxPacketFilterInformation : unpacker GxPacketFilterInformation :=
    UNPACK_PRESENCE GxPacketFilterInformationPresence set_GxPacketFilterInformation_presence ;u
    UNPACK_OCTETSTRING GxPacketFilterIdentifierOctetString has_GxPacketFilterInformation_packet_filter_identifier GxPacketFilterInformation_packet_filter_identifier set_GxPacketFilterInformation_packet_filter_identifier ;u
    UNPACK_BASIC uint32_t has_GxPacketFilterInformation_precedence set_GxPacketFilterInformation_precedence ;u
    UNPACK_OCTETSTRING GxPacketFilterContentOctetString has_GxPacketFilterInformation_packet_filter_content GxPacketFilterInformation_packet_filter_content set_GxPacketFilterInformation_packet_filter_content ;u
    UNPACK_OCTETSTRING GxTosTrafficClassOctetString has_GxPacketFilterInformation_tos_traffic_class GxPacketFilterInformation_tos_traffic_class set_GxPacketFilterInformation_tos_traffic_class ;u
    UNPACK_OCTETSTRING GxSecurityParameterIndexOctetString has_GxPacketFilterInformation_security_parameter_index GxPacketFilterInformation_security_parameter_index set_GxPacketFilterInformation_security_parameter_index ;u
    UNPACK_OCTETSTRING GxFlowLabelOctetString has_GxPacketFilterInformation_flow_label GxPacketFilterInformation_flow_label set_GxPacketFilterInformation_flow_label ;u
    UNPACK_BASIC int32_t has_GxPacketFilterInformation_flow_direction set_GxPacketFilterInformation_flow_direction ;u
    unpack_end.

Definition calcLengthGxTdfInformation (data : GxTdfInformation) : option Z :=
  (CALCLEN_PRESENCE GxTdfInformationPresence ;c
    CALCLEN_OCTETSTRING (has_GxTdfInformation_tdf_destination_realm data) data.(GxTdfInformation_tdf_destination_realm) ;c
    CALCLEN_OCTETSTRING (has_GxTdfInformation_tdf_destination_host data) data.(GxTdfInformation_tdf_destination_host) ;c
    CALCLEN_BASIC FdAddress (has_GxTdfInformation_tdf_ip_address data) ;c
    calc_none) 0.

Definition packGxTdfInformation (data : GxTdfInformation) : packer :=
    PACK_PRESENCE GxTdfInformationPresence data.(GxTdfInformation_presence) ;p
    PACK_OCTETSTRING GxTdfDestinationRealmOctetString (has_GxTdfInformation_tdf_destination_realm data) data.(GxTdfInformation_tdf_destination_realm) ;p
    PACK_OCTETSTRING GxTdfDestinationHostOctetString (has_GxTdfInformation_tdf_destination_host data) data.(GxTdfInformation_tdf_destination_host) ;p
    PACK_BASIC FdAddress (has_GxTdfInformation_tdf_ip_address data) data.(GxTdfInformation_tdf_ip_address) ;p
    pack_end.

Definition unpackGxTdfInformation : unpacker GxTdfInformation :=
    UNPACK_PRESENCE GxTdfInformationPresence set_GxTdfInformation_presence ;u
    UNPACK_OCTETSTRING GxTdfDestinationRealmOctetString has_GxTdfInformation_tdf_destination_realm GxTdfInformation_tdf_destination_realm set_GxTdfInformation_tdf_destination_realm ;u
    UNPACK_OCTETSTRING GxTdfDestinationHostOctetString has_GxTdfInformation_tdf_destination_host GxTdfInformation_tdf_destination_host set_GxTdfInformation_tdf_destination_host ;u
    UNPACK_BASIC FdAddress has_GxTdfInformation_tdf_ip_address set_GxTdfInformation_tdf_ip_address ;u
    unpack_end.

Definition calcLengthGxSupportedFeatures (data : GxSupportedFeatures) : option Z :=
  (CALCLEN_PRESENCE GxSupportedFeaturesPresence ;c
    CALCLEN_BASIC uint32_t (has_GxSupportedFeatures_vendor_id data) ;c
    CALCLEN_BASIC uint32_t (has_GxSupportedFeatures_feature_list_id data) ;c
    CALCLEN_BASIC uint32_t (has_GxSupportedFeatures_feature_list data) ;c
    calc_none) 0.

Definition packGxSupportedFeatures (data : GxSupportedFeatures) : packer :=
    PACK_PRESENCE GxSupportedFeaturesPresence data.(GxSupportedFeatures_presence) ;p
    PACK_BASIC uint32_t (has_GxSupportedFeatures_vendor_id data) data.(GxSupportedFeatures_vendor_id) ;p
    PACK_BASIC uint32_t (has_GxSupportedFeatures_feature_list_id data) data.(GxSupportedFeatures_feature_list_id) ;p
    PACK_BASIC uint32_t (has_GxSupportedFeatures_feature_list data) data.(GxSupportedFeatures_feature_list) ;p
    pack_end.

Definition unpackGxSupportedFeatures : unpacker GxSupportedFeatures :=
    UNPACK_PRESENCE GxSupportedFeaturesPresence set_GxSupportedFeatures_presence ;u
    UNPACK_BASIC uint32_t has_GxSupportedFeatures_vendor_id set_GxSupportedFeatures_vendor_id ;u
    UNPACK_BASIC uint32_t has_GxSupportedFeatures_feature_list_id set_GxSupportedFeatures_feature_list_id ;u
    UNPACK_BASIC uint32_t has_GxSupportedFeatures_feature_list set_GxSupportedFeatures_feature_list ;u
    unpack_end.

Definition calcLengthGxOcSupportedFeatures (data : GxOcSupportedFeatures) : option Z :=
  (CALCLEN_PRESENCE GxOcSupportedFeaturesPresence ;c
    CALCLEN_BASIC uint64_t (has_GxOcSupportedFeatures_oc_feature_vector data) ;c
    calc_none) 0.

Definition packGxOcSupportedFeatures (data : GxOcSupportedFeatures) : packer :=
    PACK_PRESENCE GxOcSupportedFeaturesPresence data.(GxOcSupportedFeatures_presence) ;p
    PACK_BASIC uint64_t (has_GxOcSupportedFeatures_oc_feature_vector data) data.(GxOcSupportedFeatures_oc_feature_vector) ;p
    pack_end.

Definition unpackGxOcSupportedFeatures : unpacker GxOcSupportedFeatures :=
    UNPACK_PRESENCE GxOcSupportedFeaturesPresence set_GxOcSupportedFeatures_presence ;u
    UNPACK_BASIC uint64_t has_GxOcSupportedFeatures_oc_feature_vector set_GxOcSupportedFeatures_oc_feature_vector ;u
    unpack_end.

Definition calcLengthGxSubscriptionId (data : GxSubscriptionId) : option Z :=
  (CALCLEN_PRESENCE GxSubscriptionIdPresence ;c
    CALCLEN_BASIC int32_t (has_GxSubscriptionId_subscription_id_type data) ;c
    CALCLEN_OCTETSTRING (has_GxSubscriptionId_subscription_id_data data) data.(GxSubscriptionId_subscription_id_data) ;c
    calc_none) 0.

Definition packGxSubscriptionId (data : GxSubscriptionId) : packer :=
    PACK_PRESENCE GxSubscriptionIdPresence data.(GxSubscriptionId_presence) ;p
    PACK_BASIC int32_t (has_GxSubscriptionId_subscription_id_type data) data.(GxSubscriptionId_subscription_id_type) ;p
    PACK_OCTETSTRING GxSubscriptionIdDataOctetString (has_GxSubscriptionId_subscription_id_data data) data.(GxSubscriptionId_subscription_id_data) ;p
    pack_end.

Definition unpackGxSubscriptionId : unpacker GxSubscriptionId :=
    UNPACK_PRESENCE GxSubscriptionIdPresence set_GxSubscriptionId_presence ;u
    UNPACK_BASIC int32_t has_GxSubscriptionId_subscription_id_type set_GxSubscriptionId_subscription_id_type ;u
    UNPACK_OCTETSTRING GxSubscriptionIdDataOctetString has_GxSubscriptionId_subscription_id_data GxSubscriptionId_subscription_id_data set_GxSubscriptionId_subscription_id_data ;u
    unpack_end.

Definition gx_ccr_calc_length (data : GxCCR) : option Z := message_calc_length (
    CALCLEN_PRESENCE GxCcrPresence ;c
    CALCLEN_OCTETSTRING (has_GxCCR_session_id data) data.(GxCCR_session_id) ;c
    CALCLEN_BASIC int32_t (has_GxCCR_drmp data) ;c
    CALCLEN_BASIC uint32_t (has_GxCCR_auth_application_id data) ;c
    CALCLEN_OCTETSTRING (has_GxCCR_origin_host data) data.(GxCCR_origin_host) ;c
    CALCLEN_OCTETSTRING (has_GxCCR_origin_realm data) data.(GxCCR_origin_realm) ;c
    CALCLEN_OCTETSTRING (has_GxCCR_destination_realm data) data.(GxCCR_destination_realm) ;c
    CALCLEN_OCTETSTRING (has_GxCCR_service_context_id data) data.(GxCCR_service_context_id) ;c
    CALCLEN_BASIC int32_t (has_GxCCR_cc_request_type data) ;c
    CALCLEN_BASIC uint32_t (has_GxCCR_cc_request_number data) ;c
    CALCLEN_BASIC uint32_t (has_GxCCR_credit_management_status data) ;c
    CALCLEN_OCTETSTRING (has_GxCCR_destination_host data) data.(GxCCR_destination_host) ;c
    CALCLEN_BASIC uint32_t (has_GxCCR_origin_state_id data) ;c
    CALCLEN_LIST_STRUCT (has_GxCCR_subscription_id data) data.(GxCCR_subscription_id) calcLengthGxSubscriptionId ;c
    CALCLEN_STRUCT (has_GxCCR_oc_supported_features data) data.(GxCCR_oc_supported_features) calcLengthGxOcSupportedFeatures ;c
    CALCLEN_LIST_STRUCT (has_GxCCR_supported_features data) data.(GxCCR_supported_features) calcLengthGxSupportedFeatures ;c
    CALCLEN_STRUCT (has_GxCCR_tdf_information data) data.(GxCCR_tdf_information) calcLengthGxTdfInformation ;c
    CALCLEN_BASIC int32_t (has_GxCCR_network_request_support data) ;c
    CALCLEN_LIST_STRUCT (has_GxCCR_packet_filter_information data) data.(GxCCR_packet_filter_information) calcLengthGxPacketFilterInformation ;c
    CALCLEN_BASIC int32_t (has_GxCCR_packet_filter_operation data) ;c
    CALCLEN_OCTETSTRING (has_GxCCR_bearer_identifier data) data.(GxCCR_bearer_identifier) ;c
    CALCLEN_BASIC int32_t (has_GxCCR_bearer_operation data) ;c
    CALCLEN_BASIC int32_t (has_GxCCR_dynamic_address_flag data) ;c
    CALCLEN_BASIC int32_t (has_GxCCR_dynamic_address_flag_extension data) ;c
    CALCLEN_BASIC uint32_t (has_GxCCR_pdn_connection_charging_id data) ;c
    CALCLEN_OCTETSTRING (has_GxCCR_framed_ip_address data) data.(GxCCR_framed_ip_address) ;c
    CALCLEN_OCTETSTRING (has_GxCCR_framed_ipv6_prefix data) data.(GxCCR_framed_ipv6_prefix) ;c
    CALCLEN_BASIC int32_t (has_GxCCR_ip_can_type data) ;c
    CALCLEN_OCTETSTRING (has_GxCCR_tgpp_rat_type data) data.(GxCCR_tgpp_rat_type) ;c
    CALCLEN_BASIC int32_t (has_GxCCR_an_trusted data) ;c
    CALCLEN_BASIC int32_t (has_GxCCR_rat_type data) ;c
    CALCLEN_BASIC int32_t (has_GxCCR_termination_cause data) ;c
    CALCLEN_STRUCT (has_GxCCR_user_equipment_info data) data.(GxCCR_user_equipment_info) calcLengthGxUserEquipmentInfo ;c
    CALCLEN_STRUCT (has_GxCCR_qos_information data) data.(GxCCR_qos_information) calcLengthGxQosInformation ;c
    CALCLEN_BASIC int32_t (has_GxCCR_qos_negotiation data) ;c
    CALCLEN_BASIC int32_t (has_GxCCR_qos_upgrade data) ;c
    CALCLEN_STRUCT (has_GxCCR_default_eps_bearer_qos data) data.(GxCCR_default_eps_bearer_qos) calcLengthGxDefaultEpsBearerQos ;c
    CALCLEN_STRUCT (has_GxCCR_default_qos_information data) data.(GxCCR_default_qos_information) calcLengthGxDefaultQosInformation ;c
    CALCLEN_LIST_BASIC FdAddress (has_GxCCR_an_gw_address data) data.(GxCCR_an_gw_address) ;c
    CALCLEN_BASIC int32_t (has_GxCCR_an_gw_status data) ;c
    CALCLEN_OCTETSTRING (has_GxCCR_tgpp_sgsn_mcc_mnc data) data.(GxCCR_tgpp_sgsn_mcc_mnc) ;c
    CALCLEN_OCTETSTRING (has_GxCCR_tgpp_sgsn_address data) data.(GxCCR_tgpp_sgsn_address) ;c
    CALCLEN_OCTETSTRING (has_GxCCR_tgpp_sgsn_ipv6_address data) data.(GxCCR_tgpp_sgsn_ipv6_address) ;c
    CALCLEN_OCTETSTRING (has_GxCCR_tgpp_ggsn_address data) data.(GxCCR_tgpp_ggsn_address) ;c
    CALCLEN_OCTETSTRING (has_GxCCR_tgpp_ggsn_ipv6_address data) data.(GxCCR_tgpp_ggsn_ipv6_address) ;c
    CALCLEN_OCTETSTRING (has_GxCCR_tgpp_selection_mode data) data.(GxCCR_tgpp_selection_mode) ;c
    CALCLEN_OCTETSTRING (has_GxCCR_rai data) data.(GxCCR_rai) ;c
    CALCLEN_OCTETSTRING (has_GxCCR_tgpp_user_location_info data) data.(GxCCR_tgpp_user_location_info) ;c
    CALCLEN_STRUCT (has_GxCCR_fixed_user_location_info data) data.(GxCCR_fixed_user_location_info) calcLengthGxFixedUserLocationInfo ;c
    CALCLEN_BASIC FdTime (has_GxCCR_user_location_info_time data) ;c
    CALCLEN_STRUCT (has_GxCCR_user_csg_information data) data.(GxCCR_user_csg_information) calcLengthGxUserCsgInformation ;c
    CALCLEN_OCTETSTRING (has_GxCCR_twan_identifier data) data.(GxCCR_twan_identifier) ;c
    CALCLEN_OCTETSTRING (has_GxCCR_tgpp_ms_timezone data) data.(GxCCR_tgpp_ms_timezone) ;c
    CALCLEN_LIST_OCTETSTRING (has_GxCCR_ran_nas_release_cause data) data.(GxCCR_ran_nas_release_cause) ;c
    CALCLEN_OCTETSTRING (has_GxCCR_tgpp_charging_characteristics data) data.(GxCCR_tgpp_charging_characteristics) ;c
    CALCLEN_OCTETSTRING (has_GxCCR_called_station_id data) data.(GxCCR_called_station_id) ;c
    CALCLEN_OCTETSTRING (has_GxCCR_pdn_connection_id data) data.(GxCCR_pdn_connection_id) ;c
    CALCLEN_BASIC int32_t (has_GxCCR_bearer_usage data) ;c
    CALCLEN_BASIC int32_t (has_GxCCR_online data) ;c
    CALCLEN_BASIC int32_t (has_GxCCR_offline data) ;c
    CALCLEN_LIST_STRUCT (has_GxCCR_tft_packet_filter_information data) data.(GxCCR_tft_packet_filter_information) calcLengthGxTftPacketFilterInformation ;c
    CALCLEN_LIST_STRUCT (has_GxCCR_charging_rule_report data) data.(GxCCR_charging_rule_report) calcLengthGxChargingRuleReport ;c
    CALCLEN_LIST_STRUCT (has_GxCCR_application_detection_information data) data.(GxCCR_application_detection_information) calcLengthGxApplicationDetectionInformation ;c
    CALCLEN_LIST_BASIC int32_t (has_GxCCR_event_trigger data) data.(GxCCR_event_trigger) ;c
    CALCLEN_STRUCT (has_GxCCR_event_report_indication data) data.(GxCCR_event_report_indication) calcLengthGxEventReportIndication ;c
    CALCLEN_BASIC FdAddress (has_GxCCR_access_network_charging_address data) ;c
    CALCLEN_LIST_STRUCT (has_GxCCR_access_network_charging_identifier_gx data) data.(GxCCR_access_network_charging_identifier_gx) calcLengthGxAccessNetworkChargingIdentifierGx ;c
    CALCLEN_LIST_STRUCT (has_GxCCR_coa_information data) data.(GxCCR_coa_information) calcLengthGxCoaInformation ;c
    CALCLEN_LIST_STRUCT (has_GxCCR_usage_monitoring_information data) data.(GxCCR_usage_monitoring_information) calcLengthGxUsageMonitoringInformation ;c
    CALCLEN_BASIC int32_t (has_GxCCR_nbifom_support data) ;c
    CALCLEN_BASIC int32_t (has_GxCCR_nbifom_mode data) ;c
    CALCLEN_BASIC int32_t (has_GxCCR_default_access data) ;c
    CALCLEN_BASIC uint64_t (has_GxCCR_origination_time_stamp data) ;c
    CALCLEN_BASIC uint32_t (has_GxCCR_maximum_wait_time data) ;c
    CALCLEN_BASIC uint32_t (has_GxCCR_access_availability_change_reason data) ;c
    CALCLEN_STRUCT (has_GxCCR_routing_rule_install data) data.(GxCCR_routing_rule_install) calcLengthGxRoutingRuleInstall ;c
    CALCLEN_STRUCT (has_GxCCR_routing_rule_remove data) data.(GxCCR_routing_rule_remove) calcLengthGxRoutingRuleRemove ;c
    CALCLEN_BASIC FdAddress (has_GxCCR_henb_local_ip_address data) ;c
    CALCLEN_BASIC FdAddress (has_GxCCR_ue_local_ip_address data) ;c
    CALCLEN_BASIC uint32_t (has_GxCCR_udp_source_port data) ;c
    CALCLEN_BASIC uint32_t (has_GxCCR_tcp_source_port data) ;c
    CALCLEN_LIST_STRUCT (has_GxCCR_presence_reporting_area_information data) data.(GxCCR_presence_reporting_area_information) calcLengthGxPresenceReportingAreaInformation ;c
    CALCLEN_OCTETSTRING (has_GxCCR_logical_access_id data) data.(GxCCR_logical_access_id) ;c
    CALCLEN_OCTETSTRING (has_GxCCR_physical_access_id data) data.(GxCCR_physical_access_id) ;c
    CALCLEN_LIST_STRUCT (has_GxCCR_proxy_info data) data.(GxCCR_proxy_info) calcLengthGxProxyInfo ;c
    CALCLEN_LIST_OCTETSTRING (has_GxCCR_route_record data) data.(GxCCR_route_record) ;c
    CALCLEN_BASIC int32_t (has_GxCCR_tgpp_ps_data_off_status data) ;c
    calc_none).

Definition gx_ccr_pack (data : GxCCR) : list Z -> Z -> option (bool * list Z) := message_pack (
    PACK_PRESENCE GxCcrPresence data.(GxCCR_presence) ;p
    PACK_OCTETSTRING GxSessionIdOctetString (has_GxCCR_session_id data) data.(GxCCR_session_id) ;p
    PACK_BASIC int32_t (has_GxCCR_drmp data) data.(GxCCR_drmp) ;p
    PACK_BASIC uint32_t (has_GxCCR_auth_application_id data) data.(GxCCR_auth_application_id) ;p
    PACK_OCTETSTRING GxOriginHostOctetString (has_GxCCR_origin_host data) data.(GxCCR_origin_host) ;p
    PACK_OCTETSTRING GxOriginRealmOctetString (has_GxCCR_origin_realm data) data.(GxCCR_origin_realm) ;p
    PACK_OCTETSTRING GxDestinationRealmOctetString (has_GxCCR_destination_realm data) data.(GxCCR_destination_realm) ;p
    PACK_OCTETSTRING GxServiceContextIdOctetString (has_GxCCR_service_context_id data) data.(GxCCR_service_context_id) ;p
    PACK_BASIC int32_t (has_GxCCR_cc_request_type data) data.(GxCCR_cc_request_type) ;p
    PACK_BASIC uint32_t (has_GxCCR_cc_request_number data) data.(GxCCR_cc_request_number) ;p
    PACK_BASIC uint32_t (has_GxCCR_credit_management_status data) data.(GxCCR_credit_management_status) ;p
    PACK_OCTETSTRING GxDestinationHostOctetString (has_GxCCR_destination_host data) data.(GxCCR_destination_host) ;p
    PACK_BASIC uint32_t (has_GxCCR_origin_state_id data) data.(GxCCR_origin_state_id) ;p
    PACK_LIST_STRUCT (has_GxCCR_subscription_id data) data.(GxCCR_subscription_id) packGxSubscriptionId ;p
    PACK_STRUCT (has_GxCCR_oc_supported_features data) data.(GxCCR_oc_supported_features) packGxOcSupportedFeatures ;p
    PACK_LIST_STRUCT (has_GxCCR_supported_features data) data.(GxCCR_supported_features) packGxSupportedFeatures ;p
    PACK_STRUCT (has_GxCCR_tdf_information data) data.(GxCCR_tdf_information) packGxTdfInformation ;p
    PACK_BASIC int32_t (has_GxCCR_network_request_support data) data.(GxCCR_network_request_support) ;p
    PACK_LIST_STRUCT (has_GxCCR_packet_filter_information data) data.(GxCCR_packet_filter_information) packGxPacketFilterInformation ;p
    PACK_BASIC int32_t (has_GxCCR_packet_filter_operation data) data.(GxCCR_packet_filter_operation) ;p
    PACK_OCTETSTRING GxBearerIdentifierOctetString (has_GxCCR_bearer_identifier data) data.(GxCCR_bearer_identifier) ;p
    PACK_BASIC int32_t (has_GxCCR_bearer_operation data) data.(GxCCR_bearer_operation) ;p
    PACK_BASIC int32_t (has_GxCCR_dynamic_address_flag data) data.(GxCCR_dynamic_address_flag) ;p
    PACK_BASIC int32_t (has_GxCCR_dynamic_address_flag_extension data) data.(GxCCR_dynamic_address_flag_extension) ;p
    PACK_BASIC uint32_t (has_GxCCR_pdn_connection_charging_id data) data.(GxCCR_pdn_connection_charging_id) ;p
    PACK_OCTETSTRING GxFramedIpAddressOctetString (has_GxCCR_framed_ip_address data) data.(GxCCR_framed_ip_address) ;p
    PACK_OCTETSTRING GxFramedIpv6PrefixOctetString (has_GxCCR_framed_ipv6_prefix data) data.(GxCCR_framed_ipv6_prefix) ;p
    PACK_BASIC int32_t (has_GxCCR_ip_can_type data) data.(GxCCR_ip_can_type) ;p
    PACK_OCTETSTRING Gx3gppRatTypeOctetString (has_GxCCR_tgpp_rat_type data) data.(GxCCR_tgpp_rat_type) ;p
    PACK_BASIC int32_t (has_GxCCR_an_trusted data) data.(GxCCR_an_trusted) ;p
    PACK_BASIC int32_t (has_GxCCR_rat_type data) data.(GxCCR_rat_type) ;p
    PACK_BASIC int32_t (has_GxCCR_termination_cause data) data.(GxCCR_termination_cause) ;p
    PACK_STRUCT (has_GxCCR_user_equipment_info data) data.(GxCCR_user_equipment_info) packGxUserEquipmentInfo ;p
    PACK_STRUCT (has_GxCCR_qos_information data) data.(GxCCR_qos_information) packGxQosInformation ;p
    PACK_BASIC int32_t (has_GxCCR_qos_negotiation data) data.(GxCCR_qos_negotiation) ;p
    PACK_BASIC int32_t (has_GxCCR_qos_upgrade data) data.(GxCCR_qos_upgrade) ;p
    PACK_STRUCT (has_GxCCR_default_eps_bearer_qos data) data.(GxCCR_default_eps_bearer_qos) packGxDefaultEpsBearerQos ;p
    PACK_STRUCT (has_GxCCR_default_qos_information data) data.(GxCCR_default_qos_information) packGxDefaultQosInformation ;p
    PACK_LIST_BASIC FdAddress (has_GxCCR_an_gw_address data) data.(GxCCR_an_gw_address) ;p
    PACK_BASIC int32_t (has_GxCCR_an_gw_status data) data.(GxCCR_an_gw_status) ;p
    PACK_OCTETSTRING Gx3gppSgsnMccMncOctetString (has_GxCCR_tgpp_sgsn_mcc_mnc data) data.(GxCCR_tgpp_sgsn_mcc_mnc) ;p
    PACK_OCTETSTRING Gx3gppSgsnAddressOctetString (has_GxCCR_tgpp_sgsn_address data) data.(GxCCR_tgpp_sgsn_address) ;p
    PACK_OCTETSTRING Gx3gppSgsnIpv6AddressOctetString (has_GxCCR_tgpp_sgsn_ipv6_address data) data.(GxCCR_tgpp_sgsn_ipv6_address) ;p
    PACK_OCTETSTRING Gx3gppGgsnAddressOctetString (has_GxCCR_tgpp_ggsn_address data) data.(GxCCR_tgpp_ggsn_address) ;p
    PACK_OCTETSTRING Gx3gppGgsnIpv6AddressOctetString (has_GxCCR_tgpp_ggsn_ipv6_address data) data.(GxCCR_tgpp_ggsn_ipv6_address) ;p
    PACK_OCTETSTRING Gx3gppSelectionModeOctetString (has_GxCCR_tgpp_selection_mode data) data.(GxCCR_tgpp_selection_mode) ;p
    PACK_OCTETSTRING GxRaiOctetString (has_GxCCR_rai data) data.(GxCCR_rai) ;p
    PACK_OCTETSTRING Gx3gppUserLocationInfoOctetString (has_GxCCR_tgpp_user_location_info data) data.(GxCCR_tgpp_user_location_info) ;p
    PACK_STRUCT (has_GxCCR_fixed_user_location_info data) data.(GxCCR_fixed_user_location_info) packGxFixedUserLocationInfo ;p
    PACK_BASIC FdTime (has_GxCCR_user_location_info_time data) data.(GxCCR_user_location_info_time) ;p
    PACK_STRUCT (has_GxCCR_user_csg_information data) data.(GxCCR_user_csg_information) packGxUserCsgInformation ;p
    PACK_OCTETSTRING GxTwanIdentifierOctetString (has_GxCCR_twan_identifier data) data.(GxCCR_twan_identifier) ;p
    PACK_OCTETSTRING Gx3gppMsTimezoneOctetString (has_GxCCR_tgpp_ms_timezone data) data.(GxCCR_tgpp_ms_timezone) ;p
    PACK_LIST_OCTETSTRING GxRanNasReleaseCauseOctetString (has_GxCCR_ran_nas_release_cause data) data.(GxCCR_ran_nas_release_cause) ;p
    PACK_OCTETSTRING Gx3gppChargingCharacteristicsOctetString (has_GxCCR_tgpp_charging_characteristics data) data.(GxCCR_tgpp_charging_characteristics) ;p
    PACK_OCTETSTRING GxCalledStationIdOctetString (has_GxCCR_called_station_id data) data.(GxCCR_called_station_id) ;p
    PACK_OCTETSTRING GxPdnConnectionIdOctetString (has_GxCCR_pdn_connection_id data) data.(GxCCR_pdn_connection_id) ;p
    PACK_BASIC int32_t (has_GxCCR_bearer_usage data) data.(GxCCR_bearer_usage) ;p
    PACK_BASIC int32_t (has_GxCCR_online data) data.(GxCCR_online) ;p
    PACK_BASIC int32_t (has_GxCCR_offline data) data.(GxCCR_offline) ;p
    PACK_LIST_STRUCT (has_GxCCR_tft_packet_filter_information data) data.(GxCCR_tft_packet_filter_information) packGxTftPacketFilterInformation ;p
    PACK_LIST_STRUCT (has_GxCCR_charging_rule_report data) data.(GxCCR_charging_rule_report) packGxChargingRuleReport ;p
    PACK_LIST_STRUCT (has_GxCCR_application_detection_information data) data.(GxCCR_application_detection_information) packGxApplicationDetectionInformation ;p
    PACK_LIST_BASIC int32_t (has_GxCCR_event_trigger data) data.(GxCCR_event_trigger) ;p
    PACK_STRUCT (has_GxCCR_event_report_indication data) data.(GxCCR_event_report_indication) packGxEventReportIndication ;p
    PACK_BASIC FdAddress (has_GxCCR_access_network_charging_address data) data.(GxCCR_access_network_charging_address) ;p
    PACK_LIST_STRUCT (has_GxCCR_access_network_charging_identifier_gx data) data.(GxCCR_access_network_charging_identifier_gx) packGxAccessNetworkChargingIdentifierGx ;p
    PACK_LIST_STRUCT (has_GxCCR_coa_information data) data.(GxCCR_coa_information) packGxCoaInformation ;p
    PACK_LIST_STRUCT (has_GxCCR_usage_monitoring_information data) data.(GxCCR_usage_monitoring_information) packGxUsageMonitoringInformation ;p
    PACK_BASIC int32_t (has_GxCCR_nbifom_support data) data.(GxCCR_nbifom_support) ;p
    PACK_BASIC int32_t (has_GxCCR_nbifom_mode data) data.(GxCCR_nbifom_mode) ;p
    PACK_BASIC int32_t (has_GxCCR_default_access data) data.(GxCCR_default_access) ;p
    PACK_BASIC uint64_t (has_GxCCR_origination_time_stamp data) data.(GxCCR_origination_time_stamp) ;p
    PACK_BASIC uint32_t (has_GxCCR_maximum_wait_time data) data.(GxCCR_maximum_wait_time) ;p
    PACK_BASIC uint32_t (has_GxCCR_access_availability_change_reason data) data.(GxCCR_access_availability_change_reason) ;p
    PACK_STRUCT (has_GxCCR_routing_rule_install data) data.(GxCCR_routing_rule_install) packGxRoutingRuleInstall ;p
    PACK_STRUCT (has_GxCCR_routing_rule_remove data) data.(GxCCR_routing_rule_remove) packGxRoutingRuleRemove ;p
    PACK_BASIC FdAddress (has_GxCCR_henb_local_ip_address data) data.(GxCCR_henb_local_ip_address) ;p
    PACK_BASIC FdAddress (has_GxCCR_ue_local_ip_address data) data.(GxCCR_ue_local_ip_address) ;p
    PACK_BASIC uint32_t (has_GxCCR_udp_source_port data) data.(GxCCR_udp_source_port) ;p
    PACK_BASIC uint32_t (has_GxCCR_tcp_source_port data) data.(GxCCR_tcp_source_port) ;p
    PACK_LIST_STRUCT (has_GxCCR_presence_reporting_area_information data) data.(GxCCR_presence_reporting_area_information) packGxPresenceReportingAreaInformation ;p
    PACK_OCTETSTRING GxLogicalAccessIdOctetString (has_GxCCR_logical_access_id data) data.(GxCCR_logical_access_id) ;p
    PACK_OCTETSTRING GxPhysicalAccessIdOctetString (has_GxCCR_physical_access_id data) data.(GxCCR_physical_access_id) ;p
    PACK_LIST_STRUCT (has_GxCCR_proxy_info data) data.(GxCCR_proxy_info) packGxProxyInfo ;p
    PACK_LIST_OCTETSTRING GxRouteRecordOctetString (has_GxCCR_route_record data) data.(GxCCR_route_record) ;p
    PACK_BASIC int32_t (has_GxCCR_tgpp_ps_data_off_status data) data.(GxCCR_tgpp_ps_data_off_status) ;p
    pack_done).

Definition gx_ccr_unpack : list Z -> GxCCR -> option (bool * GxCCR) := message_unpack (
    UNPACK_PRESENCE GxCcrPresence set_GxCCR_presence ;u
    UNPACK_OCTETSTRING GxSessionIdOctetString has_GxCCR_session_id GxCCR_session_id set_GxCCR_session_id ;u
    UNPACK_BASIC int32_t has_GxCCR_drmp set_GxCCR_drmp ;u
    UNPACK_BASIC uint32_t has_GxCCR_auth_application_id set_GxCCR_auth_application_id ;u
    UNPACK_OCTETSTRING GxOriginHostOctetString has_GxCCR_origin_host GxCCR_origin_host set_GxCCR_origin_host ;u
    UNPACK_OCTETSTRING GxOriginRealmOctetString has_GxCCR_origin_realm GxCCR_origin_realm set_GxCCR_origin_realm ;u
    UNPACK_OCTETSTRING GxDestinationRealmOctetString has_GxCCR_destination_realm GxCCR_destination_realm set_GxCCR_destination_realm ;u
    UNPACK_OCTETSTRING GxServiceContextIdOctetString has_GxCCR_service_context_id GxCCR_service_context_id set_GxCCR_service_context_id ;u
    UNPACK_BASIC int32_t has_GxCCR_cc_request_type set_GxCCR_cc_request_type ;u
    UNPACK_BASIC uint32_t has_GxCCR_cc_request_number set_GxCCR_cc_request_number ;u
    UNPACK_BASIC uint32_t has_GxCCR_credit_management_status set_GxCCR_credit_management_status ;u
    UNPACK_OCTETSTRING GxDestinationHostOctetString has_GxCCR_destination_host GxCCR_destination_host set_GxCCR_destination_host ;u
    UNPACK_BASIC uint32_t has_GxCCR_origin_state_id set_GxCCR_origin_state_id ;u
    UNPACK_LIST_STRUCT sizeof_GxSubscriptionId zero_GxSubscriptionId has_GxCCR_subscription_id set_GxCCR_subscription_id unpackGxSubscriptionId ;u
    UNPACK_STRUCT has_GxCCR_oc_supported_features GxCCR_oc_supported_features set_GxCCR_oc_supported_features unpackGxOcSupportedFeatures ;u
    UNPACK_LIST_STRUCT sizeof_GxSupportedFeatures zero_GxSupportedFeatures has_GxCCR_supported_features set_GxCCR_supported_features unpackGxSupportedFeatures ;u
    UNPACK_STRUCT has_GxCCR_tdf_information GxCCR_tdf_information set_GxCCR_tdf_information unpackGxTdfInformation ;u
    UNPACK_BASIC int32_t has_GxCCR_network_request_support set_GxCCR_network_request_support ;u
    UNPACK_LIST_STRUCT sizeof_GxPacketFilterInformation zero_GxPacketFilterInformation has_GxCCR_packet_filter_information set_GxCCR_packet_filter_information unpackGxPacketFilterInformation ;u
    UNPACK_BASIC int32_t has_GxCCR_packet_filter_operation set_GxCCR_packet_filter_operation ;u
    UNPACK_OCTETSTRING GxBearerIdentifierOctetString has_GxCCR_bearer_identifier GxCCR_bearer_identifier set_GxCCR_bearer_identifier ;u
    UNPACK_BASIC int32_t has_GxCCR_bearer_operation set_GxCCR_bearer_operation ;u
    UNPACK_BASIC int32_t has_GxCCR_dynamic_address_flag set_GxCCR_dynamic_address_flag ;u
    UNPACK_BASIC int32_t has_GxCCR_dynamic_address_flag_extension set_GxCCR_dynamic_address_flag_extension ;u
    UNPACK_BASIC uint32_t has_GxCCR_pdn_connection_charging_id set_GxCCR_pdn_connection_charging_id ;u
    UNPACK_OCTETSTRING GxFramedIpAddressOctetString has_GxCCR_framed_ip_address GxCCR_framed_ip_address set_GxCCR_framed_ip_address ;u
    UNPACK_OCTETSTRING GxFramedIpv6PrefixOctetString has_GxCCR_framed_ipv6_prefix GxCCR_framed_ipv6_prefix set_GxCCR_framed_ipv6_prefix ;u
    UNPACK_BASIC int32_t has_GxCCR_ip_can_type set_GxCCR_ip_can_type ;u
    UNPACK_OCTETSTRING Gx3gppRatTypeOctetString has_GxCCR_tgpp_rat_type GxCCR_tgpp_rat_type set_GxCCR_tgpp_rat_type ;u
    UNPACK_BASIC int32_t has_GxCCR_an_trusted set_GxCCR_an_trusted ;u
    UNPACK_BASIC int32_t has_GxCCR_rat_type set_GxCCR_rat_type ;u
    UNPACK_BASIC int32_t has_GxCCR_termination_cause set_GxCCR_termination_cause ;u
    UNPACK_STRUCT has_GxCCR_user_equipment_info GxCCR_user_equipment_info set_GxCCR_user_equipment_info unpackGxUserEquipmentInfo ;u
    UNPACK_STRUCT has_GxCCR_qos_information GxCCR_qos_information set_GxCCR_qos_information unpackGxQosInformation ;u
    UNPACK_BASIC int32_t has_GxCCR_qos_negotiation set_GxCCR_qos_negotiation ;u
    UNPACK_BASIC int32_t has_GxCCR_qos_upgrade set_GxCCR_qos_upgrade ;u
    UNPACK_STRUCT has_GxCCR_default_eps_bearer_qos GxCCR_default_eps_bearer_qos set_GxCCR_default_eps_bearer_qos unpackGxDefaultEpsBearerQos ;u
    UNPACK_STRUCT has_GxCCR_default_qos_information GxCCR_default_qos_information set_GxCCR_default_qos_information unpackGxDefaultQosInformation ;u
    UNPACK_LIST_BASIC FdAddress zero_address has_GxCCR_an_gw_address set_GxCCR_an_gw_address ;u
    UNPACK_BASIC int32_t has_GxCCR_an_gw_status set_GxCCR_an_gw_status ;u
    UNPACK_OCTETSTRING Gx3gppSgsnMccMncOctetString has_GxCCR_tgpp_sgsn_mcc_mnc GxCCR_tgpp_sgsn_mcc_mnc set_GxCCR_tgpp_sgsn_mcc_mnc ;u
    UNPACK_OCTETSTRING Gx3gppSgsnAddressOctetString has_GxCCR_tgpp_sgsn_address GxCCR_tgpp_sgsn_address set_GxCCR_tgpp_sgsn_address ;u
    UNPACK_OCTETSTRING Gx3gppSgsnIpv6AddressOctetString has_GxCCR_tgpp_sgsn_ipv6_address GxCCR_tgpp_sgsn_ipv6_address set_GxCCR_tgpp_sgsn_ipv6_address ;u
    UNPACK_OCTETSTRING Gx3gppGgsnAddressOctetString has_GxCCR_tgpp_ggsn_address GxCCR_tgpp_ggsn_address set_GxCCR_tgpp_ggsn_address ;u
    UNPACK_OCTETSTRING Gx3gppGgsnIpv6AddressOctetString has_GxCCR_tgpp_ggsn_ipv6_address GxCCR_tgpp_ggsn_ipv6_address set_GxCCR_tgpp_ggsn_ipv6_address ;u
    UNPACK_OCTETSTRING Gx3gppSelectionModeOctetString has_GxCCR_tgpp_selection_mode GxCCR_tgpp_selection_mode set_GxCCR_tgpp_selection_mode ;u
    UNPACK_OCTETSTRING GxRaiOctetString has_GxCCR_rai GxCCR_rai set_GxCCR_rai ;u
    UNPACK_OCTETSTRING Gx3gppUserLocationInfoOctetString has_GxCCR_tgpp_user_location_info GxCCR_tgpp_user_location_info set_GxCCR_tgpp_user_location_info ;u
    UNPACK_STRUCT has_GxCCR_fixed_user_location_info GxCCR_fixed_user_location_info set_GxCCR_fixed_user_location_info unpackGxFixedUserLocationInfo ;u
    UNPACK_BASIC FdTime has_GxCCR_user_location_info_time set_GxCCR_user_location_info_time ;u
    UNPACK_STRUCT has_GxCCR_user_csg_information GxCCR_user_csg_information set_GxCCR_user_csg_information unpackGxUserCsgInformation ;u
    UNPACK_OCTETSTRING GxTwanIdentifierOctetString has_GxCCR_twan_identifier GxCCR_twan_identifier set_GxCCR_twan_identifier ;u
    UNPACK_OCTETSTRING Gx3gppMsTimezoneOctetString has_GxCCR_tgpp_ms_timezone GxCCR_tgpp_ms_timezone set_GxCCR_tgpp_ms_timezone ;u
    UNPACK_LIST_OCTETSTRING GxRanNasReleaseCauseOctetString has_GxCCR_ran_nas_release_cause set_GxCCR_ran_nas_release_cause ;u
    UNPACK_OCTETSTRING Gx3gppChargingCharacteristicsOctetString has_GxCCR_tgpp_charging_characteristics GxCCR_tgpp_charging_characteristics set_GxCCR_tgpp_charging_characteristics ;u
    UNPACK_OCTETSTRING GxCalledStationIdOctetString has_GxCCR_called_station_id GxCCR_called_station_id set_GxCCR_called_station_id ;u
    UNPACK_OCTETSTRING GxPdnConnectionIdOctetString has_GxCCR_pdn_connection_id GxCCR_pdn_connection_id set_GxCCR_pdn_connection_id ;u
    UNPACK_BASIC int32_t has_GxCCR_bearer_usage set_GxCCR_bearer_usage ;u
    UNPACK_BASIC int32_t has_GxCCR_online set_GxCCR_online ;u
    UNPACK_BASIC int32_t has_GxCCR_offline set_GxCCR_offline ;u
    UNPACK_LIST_STRUCT sizeof_GxTftPacketFilterInformation zero_GxTftPacketFilterInformation has_GxCCR_tft_packet_filter_information set_GxCCR_tft_packet_filter_information unpackGxTftPacketFilterInformation ;u
    UNPACK_LIST_STRUCT sizeof_GxChargingRuleReport zero_GxChargingRuleReport has_GxCCR_charging_rule_report set_GxCCR_charging_rule_report unpackGxChargingRuleReport ;u
    UNPACK_LIST_STRUCT sizeof_GxApplicationDetectionInformation zero_GxApplicationDetectionInformation has_GxCCR_application_detection_information set_GxCCR_application_detection_information unpackGxApplicationDetectionInformation ;u
    UNPACK_LIST_BASIC int32_t 0 has_GxCCR_event_trigger set_GxCCR_event_trigger ;u
    UNPACK_STRUCT has_GxCCR_event_report_indication GxCCR_event_report_indication set_GxCCR_event_report_indication unpackGxEventReportIndication ;u
    UNPACK_BASIC FdAddress has_GxCCR_access_network_charging_address set_GxCCR_access_network_charging_address ;u
    UNPACK_LIST_STRUCT sizeof_GxAccessNetworkChargingIdentifierGx zero_GxAccessNetworkChargingIdentifierGx has_GxCCR_access_network_charging_identifier_gx set_GxCCR_access_network_charging_identifier_gx unpackGxAccessNetworkChargingIdentifierGx ;u
    UNPACK_LIST_STRUCT sizeof_GxCoaInformation zero_GxCoaInformation has_GxCCR_coa_information set_GxCCR_coa_information unpackGxCoaInformation ;u
    UNPACK_LIST_STRUCT sizeof_GxUsageMonitoringInformation zero_GxUsageMonitoringInformation has_GxCCR_usage_monitoring_information set_GxCCR_usage_monitoring_information unpackGxUsageMonitoringInformation ;u
    UNPACK_BASIC int32_t has_GxCCR_nbifom_support set_GxCCR_nbifom_support ;u
    UNPACK_BASIC int32_t has_GxCCR_nbifom_mode set_GxCCR_nbifom_mode ;u
    UNPACK_BASIC int32_t has_GxCCR_default_access set_GxCCR_default_access ;u
    UNPACK_BASIC uint64_t has_GxCCR_origination_time_stamp set_GxCCR_origination_time_stamp ;u
    UNPACK_BASIC uint32_t has_GxCCR_maximum_wait_time set_GxCCR_maximum_wait_time ;u
    UNPACK_BASIC uint32_t has_GxCCR_access_availability_change_reason set_GxCCR_access_availability_change_reason ;u
    UNPACK_STRUCT has_GxCCR_routing_rule_install GxCCR_routing_rule_install set_GxCCR_routing_rule_install unpackGxRoutingRuleInstall ;u
    UNPACK_STRUCT has_GxCCR_routing_rule_remove GxCCR_routing_rule_remove set_GxCCR_routing_rule_remove unpackGxRoutingRuleRemove ;u
    UNPACK_BASIC FdAddress has_GxCCR_henb_local_ip_address set_GxCCR_henb_local_ip_address ;u
    UNPACK_BASIC FdAddress has_GxCCR_ue_local_ip_address set_GxCCR_ue_local_ip_address ;u
    UNPACK_BASIC uint32_t has_GxCCR_udp_source_port set_GxCCR_udp_source_port ;u
    UNPACK_BASIC uint32_t has_GxCCR_tcp_source_port set_GxCCR_tcp_source_port ;u
    UNPACK_LIST_STRUCT sizeof_GxPresenceReportingAreaInformation zero_GxPresenceReportingAreaInformation has_GxCCR_presence_reporting_area_information set_GxCCR_presence_reporting_area_information unpackGxPresenceReportingAreaInformation ;u
    UNPACK_OCTETSTRING GxLogicalAccessIdOctetString has_GxCCR_logical_access_id GxCCR_logical_access_id set_GxCCR_logical_access_id ;u
    UNPACK_OCTETSTRING GxPhysicalAccessIdOctetString has_GxCCR_physical_access_id GxCCR_physical_access_id set_GxCCR_physical_access_id ;u
    UNPACK_LIST_STRUCT sizeof_GxProxyInfo zero_GxProxyInfo has_GxCCR_proxy_info set_GxCCR_proxy_info unpackGxProxyInfo ;u
    UNPACK_LIST_OCTETSTRING GxRouteRecordOctetString has_GxCCR_route_record set_GxCCR_route_record ;u
    UNPACK_BASIC int32_t has_GxCCR_tgpp_ps_data_off_status set_GxCCR_tgpp_ps_data_off_status ;u
    unpack_done).

Definition calcLengthGxLoad (data : GxLoad) : option Z :=
  (CALCLEN_PRESENCE GxLoadPresence ;c
    CALCLEN_BASIC int32_t (has_GxLoad_load_type data) ;c
    CALCLEN_BASIC uint64_t (has_GxLoad_load_value data) ;c
    CALCLEN_OCTETSTRING (has_GxLoad_sourceid data) data.(GxLoad_sourceid) ;c
    calc_none) 0.

Definition packGxLoad (data : GxLoad) : packer :=
    PACK_PRESENCE GxLoadPresence data.(GxLoad_presence) ;p
    PACK_BASIC int32_t (has_GxLoad_load_type data) data.(GxLoad_load_type) ;p
    PACK_BASIC uint64_t (has_GxLoad_load_value data) data.(GxLoad_load_value) ;p
    PACK_OCTETSTRING GxSourceidOctetString (has_GxLoad_sourceid data) data.(GxLoad_sourceid) ;p
    pack_end.

Definition unpackGxLoad : unpacker GxLoad :=
    UNPACK_PRESENCE GxLoadPresence set_GxLoad_presence ;u
    UNPACK_BASIC int32_t has_GxLoad_load_type set_GxLoad_load_type ;u
    UNPACK_BASIC uint64_t has_GxLoad_load_value set_GxLoad_load_value ;u
    UNPACK_OCTETSTRING GxSourceidOctetString has_GxLoad_sourceid GxLoad_sourceid set_GxLoad_sourceid ;u
    unpack_end.

Definition calcLengthGxFailedAvp (data : GxFailedAvp) : option Z :=
  (CALCLEN_PRESENCE GxFailedAvpPresence ;c
    calc_none) 0.

Definition packGxFailedAvp (data : GxFailedAvp) : packer :=
    PACK_PRESENCE GxFailedAvpPresence data.(GxFailedAvp_presence) ;p
    pack_end.

Definition unpackGxFailedAvp : unpacker GxFailedAvp :=
    UNPACK_PRESENCE GxFailedAvpPresence set_GxFailedAvp_presence ;u
    unpack_end.

Definition calcLengthGxConditionalPolicyInformation (data : GxConditionalPolicyInformation) : option Z :=
  (CALCLEN_PRESENCE GxConditionalPolicyInformationPresence ;c
    CALCLEN_BASIC FdTime (has_GxConditionalPolicyInformation_execution_time data) ;c
    CALCLEN_STRUCT (has_GxConditionalPolicyInformation_default_eps_bearer_qos data) data.(GxConditionalPolicyInformation_default_eps_bearer_qos) calcLengthGxDefaultEpsBearerQos ;c
    CALCLEN_BASIC uint32_t (has_GxConditionalPolicyInformation_apn_aggregate_max_bitrate_ul data) ;c
    CALCLEN_BASIC uint32_t (has_GxConditionalPolicyInformation_apn_aggregate_max_bitrate_dl data) ;c
    CALCLEN_BASIC uint32_t (has_GxConditionalPolicyInformation_extended_apn_ambr_ul data) ;c
    CALCLEN_BASIC uint32_t (has_GxConditionalPolicyInformation_extended_apn_ambr_dl data) ;c
    CALCLEN_LIST_STRUCT (has_GxConditionalPolicyInformation_conditional_apn_aggregate_max_bitrate data) data.(GxConditionalPolicyInformation_conditional_apn_aggregate_max_bitrate) calcLengthGxConditionalApnAggregateMaxBitrate ;c
    calc_none) 0.

Definition packGxConditionalPolicyInformation (data : GxConditionalPolicyInformation) : packer :=
    PACK_PRESENCE GxConditionalPolicyInformationPresence data.(GxConditionalPolicyInformation_presence) ;p
    PACK_BASIC FdTime (has_GxConditionalPolicyInformation_execution_time data) data.(GxConditionalPolicyInformation_execution_time) ;p
    PACK_STRUCT (has_GxConditionalPolicyInformation_default_eps_bearer_qos data) data.(GxConditionalPolicyInformation_default_eps_bearer_qos) packGxDefaultEpsBearerQos ;p
    PACK_BASIC uint32_t (has_GxConditionalPolicyInformation_apn_aggregate_max_bitrate_ul data) data.(GxConditionalPolicyInformation_apn_aggregate_max_bitrate_ul) ;p
    PACK_BASIC uint32_t (has_GxConditionalPolicyInformation_apn_aggregate_max_bitrate_dl data) data.(GxConditionalPolicyInformation_apn_aggregate_max_bitrate_dl) ;p
    PACK_BASIC uint32_t (has_GxConditionalPolicyInformation_extended_apn_ambr_ul data) data.(GxConditionalPolicyInformation_extended_apn_ambr_ul) ;p
    PACK_BASIC uint32_t (has_GxConditionalPolicyInformation_extended_apn_ambr_dl data) data.(GxConditionalPolicyInformation_extended_apn_ambr_dl) ;p
    PACK_LIST_STRUCT (has_GxConditionalPolicyInformation_conditional_apn_aggregate_max_bitrate data) data.(GxConditionalPolicyInformation_conditional_apn_aggregate_max_bitrate) packGxConditionalApnAggregateMaxBitrate ;p
    pack_end.

Definition unpackGxConditionalPolicyInformation : unpacker GxConditionalPolicyInformation :=
    UNPACK_PRESENCE GxConditionalPolicyInformationPresence set_GxConditionalPolicyInformation_presence ;u
    UNPACK_BASIC FdTime has_GxConditionalPolicyInformation_execution_time set_GxConditionalPolicyInformation_execution_time ;u
    UNPACK_STRUCT has_GxConditionalPolicyInformation_default_eps_bearer_qos GxConditionalPolicyInformation_default_eps_bearer_qos set_GxConditionalPolicyInformation_default_eps_bearer_qos unpackGxDefaultEpsBearerQos ;u
    UNPACK_BASIC uint32_t has_GxConditionalPolicyInformation_apn_aggregate_max_bitrate_ul set_GxConditionalPolicyInformation_apn_aggregate_max_bitrate_ul ;u
    UNPACK_BASIC uint32_t has_GxConditionalPolicyInformation_apn_aggregate_max_bitrate_dl set_GxConditionalPolicyInformation_apn_aggregate_max_bitrate_dl ;u
    UNPACK_BASIC uint32_t has_GxConditionalPolicyInformation_extended_apn_ambr_ul set_GxConditionalPolicyInformation_extended_apn_ambr_ul ;u
    UNPACK_BASIC uint32_t has_GxConditionalPolicyInformation_extended_apn_ambr_dl set_GxConditionalPolicyInformation_extended_apn_ambr_dl ;u
    UNPACK_LIST_STRUCT sizeof_GxConditionalApnAggregateMaxBitrate zero_GxConditionalApnAggregateMaxBitrate has_GxConditionalPolicyInformation_conditional_apn_aggregate_max_bitrate set_GxConditionalPolicyInformation_conditional_apn_aggregate_max_bitrate unpackGxConditionalApnAggregateMaxBitrate ;u
    unpack_end.

Definition calcLengthGxRoutingRuleReport (data : GxRoutingRuleReport) : option Z :=
  (CALCLEN_PRESENCE GxRoutingRuleReportPresence ;c
    CALCLEN_LIST_OCTETSTRING (has_GxRoutingRuleReport_routing_rule_identifier data) data.(GxRoutingRuleReport_routing_rule_identifier) ;c
    CALCLEN_BASIC int32_t (has_GxRoutingRuleReport_pcc_rule_status data) ;c
    CALCLEN_BASIC uint32_t (has_GxRoutingRuleReport_routing_rule_failure_code data) ;c
    calc_none) 0.

Definition packGxRoutingRuleReport (data : GxRoutingRuleReport) : packer :=
    PACK_PRESENCE GxRoutingRuleReportPresence data.(GxRoutingRuleReport_presence) ;p
    PACK_LIST_OCTETSTRING GxRoutingRuleIdentifierOctetString (has_GxRoutingRuleReport_routing_rule_identifier data) data.(GxRoutingRuleReport_routing_rule_identifier) ;p
    PACK_BASIC int32_t (has_GxRoutingRuleReport_pcc_rule_status data) data.(GxRoutingRuleReport_pcc_rule_status) ;p
    PACK_BASIC uint32_t (has_GxRoutingRuleReport_routing_rule_failure_code data) data.(GxRoutingRuleReport_routing_rule_failure_code) ;p
    pack_end.

Definition unpackGxRoutingRuleReport : unpacker GxRoutingRuleReport :=
    UNPACK_PRESENCE GxRoutingRuleReportPresence set_GxRoutingRuleReport_presence ;u
    UNPACK_LIST_OCTETSTRING GxRoutingRuleIdentifierOctetString has_GxRoutingRuleReport_routing_rule_identifier set_GxRoutingRuleReport_routing_rule_identifier ;u
    UNPACK_BASIC int32_t has_GxRoutingRuleReport_pcc_rule_status set_GxRoutingRuleReport_pcc_rule_status ;u
    UNPACK_BASIC uint32_t has_GxRoutingRuleReport_routing_rule_failure_code set_GxRoutingRuleReport_routing_rule_failure_code ;u
    unpack_end.

Definition calcLengthGxPraRemove (data : GxPraRemove) : option Z :=
  (CALCLEN_PRESENCE GxPraRemovePresence ;c
    CALCLEN_LIST_OCTETSTRING (has_GxPraRemove_presence_reporting_area_identifier data) data.(GxPraRemove_presence_reporting_area_identifier) ;c
    calc_none) 0.

Definition packGxPraRemove (data : GxPraRemove) : packer :=
    PACK_PRESENCE GxPraRemovePresence data.(GxPraRemove_presence) ;p
    PACK_LIST_OCTETSTRING GxPresenceReportingAreaIdentifierOctetString (has_GxPraRemove_presence_reporting_area_identifier data) data.(GxPraRemove_presence_reporting_area_identifier) ;p
    pack_end.

Definition unpackGxPraRemove : unpacker GxPraRemove :=
    UNPACK_PRESENCE GxPraRemovePresence set_GxPraRemove_presence ;u
    UNPACK_LIST_OCTETSTRING GxPresenceReportingAreaIdentifierOctetString has_GxPraRemove_presence_reporting_area_identifier set_GxPraRemove_presence_reporting_area_identifier ;u
    unpack_end.

Definition calcLengthGxPraInstall (data : GxPraInstall) : option Z :=
  (CALCLEN_PRESENCE GxPraInstallPresence ;c
    CALCLEN_LIST_STRUCT (has_GxPraInstall_presence_reporting_area_information data) data.(GxPraInstall_presence_reporting_area_information) calcLengthGxPresenceReportingAreaInformation ;c
    calc_none) 0.

Definition packGxPraInstall (data : GxPraInstall) : packer :=
    PACK_PRESENCE GxPraInstallPresence data.(GxPraInstall_presence) ;p
    PACK_LIST_STRUCT (has_GxPraInstall_presence_reporting_area_information data) data.(GxPraInstall_presence_reporting_area_information) packGxPresenceReportingAreaInformation ;p
    pack_end.

Definition unpackGxPraInstall : unpacker GxPraInstall :=
    UNPACK_PRESENCE GxPraInstallPresence set_GxPraInstall_presence ;u
    UNPACK_LIST_STRUCT sizeof_GxPresenceReportingAreaInformation zero_GxPresenceReportingAreaInformation has_GxPraInstall_presence_reporting_area_information set_GxPraInstall_presence_reporting_area_information unpackGxPresenceReportingAreaInformation ;u
    unpack_end.

Definition calcLengthGxChargingInformation (data : GxChargingInformation) : option Z :=
  (CALCLEN_PRESENCE GxChargingInformationPresence ;c
    CALCLEN_OCTETSTRING (has_GxChargingInformation_primary_event_charging_function_name data) data.(GxChargingInformation_primary_event_charging_function_name) ;c
    CALCLEN_OCTETSTRING (has_GxChargingInformation_secondary_event_charging_function_name data) data.(GxChargingInformation_secondary_event_charging_function_name) ;c
    CALCLEN_OCTETSTRING (has_GxChargingInformation_primary_charging_collection_function_name data) data.(GxChargingInformation_primary_charging_collection_function_name) ;c
    CALCLEN_OCTETSTRING (has_GxChargingInformation_secondary_charging_collection_function_name data) data.(GxChargingInformation_secondary_charging_collection_function_name) ;c
    calc_none) 0.

Definition packGxChargingInformation (data : GxChargingInformation) : packer :=
    PACK_PRESENCE GxChargingInformationPresence data.(GxChargingInformation_presence) ;p
    PACK_OCTETSTRING GxPrimaryEventChargingFunctionNameOctetString (has_GxChargingInformation_primary_event_charging_function_name data) data.(GxChargingInformation_primary_event_charging_function_name) ;p
    PACK_OCTETSTRING GxSecondaryEventChargingFunctionNameOctetString (has_GxChargingInformation_secondary_event_charging_function_name data) data.(GxChargingInformation_secondary_event_charging_function_name) ;p
    PACK_OCTETSTRING GxPrimaryChargingCollectionFunctionNameOctetString (has_GxChargingInformation_primary_charging_collection_function_name data) data.(GxChargingInformation_primary_charging_collection_function_name) ;p
    PACK_OCTETSTRING GxSecondaryChargingCollectionFunctionNameOctetString (has_GxChargingInformation_secondary_charging_collection_function_name data) data.(GxChargingInformation_secondary_charging_collection_function_name) ;p
    pack_end.

Definition unpackGxChargingInformation : unpacker GxChargingInformation :=
    UNPACK_PRESENCE GxChargingInformationPresence set_GxChargingInformation_presence ;u
    UNPACK_OCTETSTRING GxPrimaryEventChargingFunctionNameOctetString has_GxChargingInformation_primary_event_charging_function_name GxChargingInformation_primary_event_charging_function_name set_GxChargingInformation_primary_event_charging_function_name ;u
    UNPACK_OCTETSTRING GxSecondaryEventChargingFunctionNameOctetString has_GxChargingInformation_secondary_event_charging_function_name GxChargingInformation_secondary_event_charging_function_name set_GxChargingInformation_secondary_event_charging_function_name ;u
    UNPACK_OCTETSTRING GxPrimaryChargingCollectionFunctionNameOctetString has_GxChargingInformation_primary_charging_collection_function_name GxChargingInformation_primary_charging_collection_function_name set_GxChargingInformation_primary_charging_collection_function_name ;u
    UNPACK_OCTETSTRING GxSecondaryChargingCollectionFunctionNameOctetString has_GxChargingInformation_secondary_charging_collection_function_name GxChargingInformation_secondary_charging_collection_function_name set_GxChargingInformation_secondary_charging_collection_function_name ;u
    unpack_end.

Definition calcLengthGxRedirectInformation (data : GxRedirectInformation) : option Z :=
  (CALCLEN_PRESENCE GxRedirectInformationPresence ;c
    CALCLEN_BASIC int32_t (has_GxRedirectInformation_redirect_support data) ;c
    CALCLEN_BASIC int32_t (has_GxRedirectInformation_redirect_address_type data) ;c
    CALCLEN_OCTETSTRING (has_GxRedirectInformation_redirect_server_address data) data.(GxRedirectInformation_redirect_server_address) ;c
    calc_none) 0.

Definition packGxRedirectInformation (data : GxRedirectInformation) : packer :=
    PACK_PRESENCE GxRedirectInformationPresence data.(GxRedirectInformation_presence) ;p
    PACK_BASIC int32_t (has_GxRedirectInformation_redirect_support data) data.(GxRedirectInformation_redirect_support) ;p
    PACK_BASIC int32_t (has_GxRedirectInformation_redirect_address_type data) data.(GxRedirectInformation_redirect_address_type) ;p
    PACK_OCTETSTRING GxRedirectServerAddressOctetString (has_GxRedirectInformation_redirect_server_address data) data.(GxRedirectInformation_redirect_server_address) ;p
    pack_end.

Definition unpackGxRedirectInformation : unpacker GxRedirectInformation :=
    UNPACK_PRESENCE GxRedirectInformationPresence set_GxRedirectInformation_presence ;u
    UNPACK_BASIC int32_t has_GxRedirectInformation_redirect_support set_GxRedirectInformation_redirect_support ;u
    UNPACK_BASIC int32_t has_GxRedirectInformation_redirect_address_type set_GxRedirectInformation_redirect_address_type ;u
    UNPACK_OCTETSTRING GxRedirectServerAddressOctetString has_GxRedirectInformation_redirect_server_address GxRedirectInformation_redirect_server_address set_GxRedirectInformation_redirect_server_address ;u
    unpack_end.

Definition calcLengthGxFlows (data : GxFlows) : option Z :=
  (CALCLEN_PRESENCE GxFlowsPresence ;c
    CALCLEN_BASIC uint32_t (has_GxFlows_media_component_number data) ;c
    CALCLEN_LIST_BASIC uint32_t (has_GxFlows_flow_number data) data.(GxFlows_flow_number) ;c
    CALCLEN_LIST_BASIC uint64_t (has_GxFlows_content_version data) data.(GxFlows_content_version) ;c
    CALCLEN_BASIC int32_t (has_GxFlows_final_unit_action data) ;c
    CALCLEN_BASIC uint32_t (has_GxFlows_media_component_status data) ;c
    calc_none) 0.

Definition packGxFlows (data : GxFlows) : packer :=
    PACK_PRESENCE GxFlowsPresence data.(GxFlows_presence) ;p
    PACK_BASIC uint32_t (has_GxFlows_media_component_number data) data.(GxFlows_media_component_number) ;p
    PACK_LIST_BASIC uint32_t (has_GxFlows_flow_number data) data.(GxFlows_flow_number) ;p
    PACK_LIST_BASIC uint64_t (has_GxFlows_content_version data) data.(GxFlows_content_version) ;p
    PACK_BASIC int32_t (has_GxFlows_final_unit_action data) data.(GxFlows_final_unit_action) ;p
    PACK_BASIC uint32_t (has_GxFlows_media_component_status data) data.(GxFlows_media_component_status) ;p
    pack_end.

Definition unpackGxFlows : unpacker GxFlows :=
    UNPACK_PRESENCE GxFlowsPresence set_GxFlows_presence ;u
    UNPACK_BASIC uint32_t has_GxFlows_media_component_number set_GxFlows_media_component_number ;u
    UNPACK_LIST_BASIC uint32_t 0 has_GxFlows_flow_number set_GxFlows_flow_number ;u
    UNPACK_LIST_BASIC uint64_t 0 has_GxFlows_content_version set_GxFlows_content_version ;u
    UNPACK_BASIC int32_t has_GxFlows_final_unit_action set_GxFlows_final_unit_action ;u
    UNPACK_BASIC uint32_t has_GxFlows_media_component_status set_GxFlows_media_component_status ;u
    unpack_end.

Definition calcLengthGxChargingRuleDefinition (data : GxChargingRuleDefinition) : option Z :=
  (CALCLEN_PRESENCE GxChargingRuleDefinitionPresence ;c
    CALCLEN_OCTETSTRING (has_GxChargingRuleDefinition_charging_rule_name data) data.(GxChargingRuleDefinition_charging_rule_name) ;c
    CALCLEN_BASIC uint32_t (has_GxChargingRuleDefinition_service_identifier data) ;c
    CALCLEN_BASIC uint32_t (has_GxChargingRuleDefinition_rating_group data) ;c
    CALCLEN_LIST_STRUCT (has_GxChargingRuleDefinition_flow_information data) data.(GxChargingRuleDefinition_flow_information) calcLengthGxFlowInformation ;c
    CALCLEN_BASIC int32_t (has_GxChargingRuleDefinition_default_bearer_indication data) ;c
    CALCLEN_OCTETSTRING (has_GxChargingRuleDefinition_tdf_application_identifier data) data.(GxChargingRuleDefinition_tdf_application_identifier) ;c
    CALCLEN_BASIC int32_t (has_GxChargingRuleDefinition_flow_status data) ;c
    CALCLEN_STRUCT (has_GxChargingRuleDefinition_qos_information data) data.(GxChargingRuleDefinition_qos_information) calcLengthGxQosInformation ;c
    CALCLEN_BASIC int32_t (has_GxChargingRuleDefinition_ps_to_cs_session_continuity data) ;c
    CALCLEN_BASIC int32_t (has_GxChargingRuleDefinition_reporting_level data) ;c
    CALCLEN_BASIC int32_t (has_GxChargingRuleDefinition_online data) ;c
    CALCLEN_BASIC int32_t (has_GxChargingRuleDefinition_offline data) ;c
    CALCLEN_BASIC float (has_GxChargingRuleDefinition_max_plr_dl data) ;c
    CALCLEN_BASIC float (has_GxChargingRuleDefinition_max_plr_ul data) ;c
    CALCLEN_BASIC int32_t (has_GxChargingRuleDefinition_metering_method data) ;c
    CALCLEN_BASIC uint32_t (has_GxChargingRuleDefinition_precedence data) ;c
    CALCLEN_OCTETSTRING (has_GxChargingRuleDefinition_af_charging_identifier data) data.(GxChargingRuleDefinition_af_charging_identifier) ;c
    CALCLEN_LIST_STRUCT (has_GxChargingRuleDefinition_flows data) data.(GxChargingRuleDefinition_flows) calcLengthGxFlows ;c
    CALCLEN_OCTETSTRING (has_GxChargingRuleDefinition_monitoring_key data) data.(GxChargingRuleDefinition_monitoring_key) ;c
    CALCLEN_STRUCT (has_GxChargingRuleDefinition_redirect_information data) data.(GxChargingRuleDefinition_redirect_information) calcLengthGxRedirectInformation ;c
    CALCLEN_BASIC int32_t (has_GxChargingRuleDefinition_mute_notification data) ;c
    CALCLEN_BASIC int32_t (has_GxChargingRuleDefinition_af_signalling_protocol data) ;c
    CALCLEN_OCTETSTRING (has_GxChargingRuleDefinition_sponsor_identity data) data.(GxChargingRuleDefinition_sponsor_identity) ;c
    CALCLEN_OCTETSTRING (has_GxChargingRuleDefinition_application_service_provider_identity data) data.(GxChargingRuleDefinition_application_service_provider_identity) ;c
    CALCLEN_LIST_BASIC int32_t (has_GxChargingRuleDefinition_required_access_info data) data.(GxChargingRuleDefinition_required_access_info) ;c
    CALCLEN_BASIC uint32_t (has_GxChargingRuleDefinition_sharing_key_dl data) ;c
    CALCLEN_BASIC uint32_t (has_GxChargingRuleDefinition_sharing_key_ul data) ;c
    CALCLEN_OCTETSTRING (has_GxChargingRuleDefinition_traffic_steering_policy_identifier_dl data) data.(GxChargingRuleDefinition_traffic_steering_policy_identifier_dl) ;c
    CALCLEN_OCTETSTRING (has_GxChargingRuleDefinition_traffic_steering_policy_identifier_ul data) data.(GxChargingRuleDefinition_traffic_steering_policy_identifier_ul) ;c
    CALCLEN_BASIC uint64_t (has_GxChargingRuleDefinition_content_version data) ;c
    calc_none) 0.

Definition packGxChargingRuleDefinition (data : GxChargingRuleDefinition) : packer :=
    PACK_PRESENCE GxChargingRuleDefinitionPresence data.(GxChargingRuleDefinition_presence) ;p
    PACK_OCTETSTRING GxChargingRuleNameOctetString (has_GxChargingRuleDefinition_charging_rule_name data) data.(GxChargingRuleDefinition_charging_rule_name) ;p
    PACK_BASIC uint32_t (has_GxChargingRuleDefinition_service_identifier data) data.(GxChargingRuleDefinition_service_identifier) ;p
    PACK_BASIC uint32_t (has_GxChargingRuleDefinition_rating_group data) data.(GxChargingRuleDefinition_rating_group) ;p
    PACK_LIST_STRUCT (has_GxChargingRuleDefinition_flow_information data) data.(GxChargingRuleDefinition_flow_information) packGxFlowInformation ;p
    PACK_BASIC int32_t (has_GxChargingRuleDefinition_default_bearer_indication data) data.(GxChargingRuleDefinition_default_bearer_indication) ;p
    PACK_OCTETSTRING GxTdfApplicationIdentifierOctetString (has_GxChargingRuleDefinition_tdf_application_identifier data) data.(GxChargingRuleDefinition_tdf_application_identifier) ;p
    PACK_BASIC int32_t (has_GxChargingRuleDefinition_flow_status data) data.(GxChargingRuleDefinition_flow_status) ;p
    PACK_STRUCT (has_GxChargingRuleDefinition_qos_information data) data.(GxChargingRuleDefinition_qos_information) packGxQosInformation ;p
    PACK_BASIC int32_t (has_GxChargingRuleDefinition_ps_to_cs_session_continuity data) data.(GxChargingRuleDefinition_ps_to_cs_session_continuity) ;p
    PACK_BASIC int32_t (has_GxChargingRuleDefinition_reporting_level data) data.(GxChargingRuleDefinition_reporting_level) ;p
    PACK_BASIC int32_t (has_GxChargingRuleDefinition_online data) data.(GxChargingRuleDefinition_online) ;p
    PACK_BASIC int32_t (has_GxChargingRuleDefinition_offline data) data.(GxChargingRuleDefinition_offline) ;p
    PACK_BASIC float (has_GxChargingRuleDefinition_max_plr_dl data) data.(GxChargingRuleDefinition_max_plr_dl) ;p
    PACK_BASIC float (has_GxChargingRuleDefinition_max_plr_ul data) data.(GxChargingRuleDefinition_max_plr_ul) ;p
    PACK_BASIC int32_t (has_GxChargingRuleDefinition_metering_method data) data.(GxChargingRuleDefinition_metering_method) ;p
    PACK_BASIC uint32_t (has_GxChargingRuleDefinition_precedence data) data.(GxChargingRuleDefinition_precedence) ;p
    PACK_OCTETSTRING GxAfChargingIdentifierOctetString (has_GxChargingRuleDefinition_af_charging_identifier data) data.(GxChargingRuleDefinition_af_charging_identifier) ;p
    PACK_LIST_STRUCT (has_GxChargingRuleDefinition_flows data) data.(GxChargingRuleDefinition_flows) packGxFlows ;p
    PACK_OCTETSTRING GxMonitoringKeyOctetString (has_GxChargingRuleDefinition_monitoring_key data) data.(GxChargingRuleDefinition_monitoring_key) ;p
    PACK_STRUCT (has_GxChargingRuleDefinition_redirect_information data) data.(GxChargingRuleDefinition_redirect_information) packGxRedirectInformation ;p
    PACK_BASIC int32_t (has_GxChargingRuleDefinition_mute_notification data) data.(GxChargingRuleDefinition_mute_notification) ;p
    PACK_BASIC int32_t (has_GxChargingRuleDefinition_af_signalling_protocol data) data.(GxChargingRuleDefinition_af_signalling_protocol) ;p
    PACK_OCTETSTRING GxSponsorIdentityOctetString (has_GxChargingRuleDefinition_sponsor_identity data) data.(GxChargingRuleDefinition_sponsor_identity) ;p
    PACK_OCTETSTRING GxApplicationServiceProviderIdentityOctetString (has_GxChargingRuleDefinition_application_service_provider_identity data) data.(GxChargingRuleDefinition_application_service_provider_identity) ;p
    PACK_LIST_BASIC int32_t (has_GxChargingRuleDefinition_required_access_info data) data.(GxChargingRuleDefinition_required_access_info) ;p
    PACK_BASIC uint32_t (has_GxChargingRuleDefinition_sharing_key_dl data) data.(GxChargingRuleDefinition_sharing_key_dl) ;p
    PACK_BASIC uint32_t (has_GxChargingRuleDefinition_sharing_key_ul data) data.(GxChargingRuleDefinition_sharing_key_ul) ;p
    PACK_OCTETSTRING GxTrafficSteeringPolicyIdentifierDlOctetString (has_GxChargingRuleDefinition_traffic_steering_policy_identifier_dl data) data.(GxChargingRuleDefinition_traffic_steering_policy_identifier_dl) ;p
    PACK_OCTETSTRING GxTrafficSteeringPolicyIdentifierUlOctetString (has_GxChargingRuleDefinition_traffic_steering_policy_identifier_ul data) data.(GxChargingRuleDefinition_traffic_steering_policy_identifier_ul) ;p
    PACK_BASIC uint64_t (has_GxChargingRuleDefinition_content_version data) data.(GxChargingRuleDefinition_content_version) ;p
    pack_end.

Definition unpackGxChargingRuleDefinition : unpacker GxChargingRuleDefinition :=
    UNPACK_PRESENCE GxChargingRuleDefinitionPresence set_GxChargingRuleDefinition_presence ;u
    UNPACK_OCTETSTRING GxChargingRuleNameOctetString has_GxChargingRuleDefinition_charging_rule_name GxChargingRuleDefinition_charging_rule_name set_GxChargingRuleDefinition_charging_rule_name ;u
    UNPACK_BASIC uint32_t has_GxChargingRuleDefinition_service_identifier set_GxChargingRuleDefinition_service_identifier ;u
    UNPACK_BASIC uint32_t has_GxChargingRuleDefinition_rating_group set_GxChargingRuleDefinition_rating_group ;u
    UNPACK_LIST_STRUCT sizeof_GxFlowInformation zero_GxFlowInformation has_GxChargingRuleDefinition_flow_information set_GxChargingRuleDefinition_flow_information unpackGxFlowInformation ;u
    UNPACK_BASIC int32_t has_GxChargingRuleDefinition_default_bearer_indication set_GxChargingRuleDefinition_default_bearer_indication ;u
    UNPACK_OCTETSTRING GxTdfApplicationIdentifierOctetString has_GxChargingRuleDefinition_tdf_application_identifier GxChargingRuleDefinition_tdf_application_identifier set_GxChargingRuleDefinition_tdf_application_identifier ;u
    UNPACK_BASIC int32_t has_GxChargingRuleDefinition_flow_status set_GxChargingRuleDefinition_flow_status ;u
    UNPACK_STRUCT has_GxChargingRuleDefinition_qos_information GxChargingRuleDefinition_qos_information set_GxChargingRuleDefinition_qos_information unpackGxQosInformation ;u
    UNPACK_BASIC int32_t has_GxChargingRuleDefinition_ps_to_cs_session_continuity set_GxChargingRuleDefinition_ps_to_cs_session_continuity ;u
    UNPACK_BASIC int32_t has_GxChargingRuleDefinition_reporting_level set_GxChargingRuleDefinition_reporting_level ;u
    UNPACK_BASIC int32_t has_GxChargingRuleDefinition_online set_GxChargingRuleDefinition_online ;u
    UNPACK_BASIC int32_t has_GxChargingRuleDefinition_offline set_GxChargingRuleDefinition_offline ;u
    UNPACK_BASIC float has_GxChargingRuleDefinition_max_plr_dl set_GxChargingRuleDefinition_max_plr_dl ;u
    UNPACK_BASIC float has_GxChargingRuleDefinition_max_plr_ul set_GxChargingRuleDefinition_max_plr_ul ;u
    UNPACK_BASIC int32_t has_GxChargingRuleDefinition_metering_method set_GxChargingRuleDefinition_metering_method ;u
    UNPACK_BASIC uint32_t has_GxChargingRuleDefinition_precedence set_GxChargingRuleDefinition_precedence ;u
    UNPACK_OCTETSTRING GxAfChargingIdentifierOctetString has_GxChargingRuleDefinition_af_charging_identifier GxChargingRuleDefinition_af_charging_identifier set_GxChargingRuleDefinition_af_charging_identifier ;u
    UNPACK_LIST_STRUCT sizeof_GxFlows zero_GxFlows has_GxChargingRuleDefinition_flows set_GxChargingRuleDefinition_flows unpackGxFlows ;u
    UNPACK_OCTETSTRING GxMonitoringKeyOctetString has_GxChargingRuleDefinition_monitoring_key GxChargingRuleDefinition_monitoring_key set_GxChargingRuleDefinition_monitoring_key ;u
    UNPACK_STRUCT has_GxChargingRuleDefinition_redirect_information GxChargingRuleDefinition_redirect_information set_GxChargingRuleDefinition_redirect_information unpackGxRedirectInformation ;u
    UNPACK_BASIC int32_t has_GxChargingRuleDefinition_mute_notification set_GxChargingRuleDefinition_mute_notification ;u
    UNPACK_BASIC int32_t has_GxChargingRuleDefinition_af_signalling_protocol set_GxChargingRuleDefinition_af_signalling_protocol ;u
    UNPACK_OCTETSTRING GxSponsorIdentityOctetString has_GxChargingRuleDefinition_sponsor_identity GxChargingRuleDefinition_sponsor_identity set_GxChargingRuleDefinition_sponsor_identity ;u
    UNPACK_OCTETSTRING GxApplicationServiceProviderIdentityOctetString has_GxChargingRuleDefinition_application_service_provider_identity GxChargingRuleDefinition_application_service_provider_identity set_GxChargingRuleDefinition_application_service_provider_identity ;u
    UNPACK_LIST_BASIC int32_t 0 has_GxChargingRuleDefinition_required_access_info set_GxChargingRuleDefinition_required_access_info ;u
    UNPACK_BASIC uint32_t has_GxChargingRuleDefinition_sharing_key_dl set_GxChargingRuleDefinition_sharing_key_dl ;u
    UNPACK_BASIC uint32_t has_GxChargingRuleDefinition_sharing_key_ul set_GxChargingRuleDefinition_sharing_key_ul ;u
    UNPACK_OCTETSTRING GxTrafficSteeringPolicyIdentifierDlOctetString has_GxChargingRuleDefinition_traffic_steering_policy_identifier_dl GxChargingRuleDefinition_traffic_steering_policy_identifier_dl set_GxChargingRuleDefinition_traffic_steering_policy_identifier_dl ;u
    UNPACK_OCTETSTRING GxTrafficSteeringPolicyIdentifierUlOctetString has_GxChargingRuleDefinition_traffic_steering_policy_identifier_ul GxChargingRuleDefinition_traffic_steering_policy_identifier_ul set_GxChargingRuleDefinition_traffic_steering_policy_identifier_ul ;u
    UNPACK_BASIC uint64_t has_GxChargingRuleDefinition_content_version set_GxChargingRuleDefinition_content_version ;u
    unpack_end.

Definition calcLengthGxChargingRuleInstall (data : GxChargingRuleInstall) : option Z :=
  (CALCLEN_PRESENCE GxChargingRuleInstallPresence ;c
    CALCLEN_LIST_STRUCT (has_GxChargingRuleInstall_charging_rule_definition data) data.(GxChargingRuleInstall_charging_rule_definition) calcLengthGxChargingRuleDefinition ;c
    CALCLEN_LIST_OCTETSTRING (has_GxChargingRuleInstall_charging_rule_name data) data.(GxChargingRuleInstall_charging_rule_name) ;c
    CALCLEN_LIST_OCTETSTRING (has_GxChargingRuleInstall_charging_rule_base_name data) data.(GxChargingRuleInstall_charging_rule_base_name) ;c
    CALCLEN_OCTETSTRING (has_GxChargingRuleInstall_bearer_identifier data) data.(GxChargingRuleInstall_bearer_identifier) ;c
    CALCLEN_BASIC uint32_t (has_GxChargingRuleInstall_monitoring_flags data) ;c
    CALCLEN_BASIC FdTime (has_GxChargingRuleInstall_rule_activation_time data) ;c
    CALCLEN_BASIC FdTime (has_GxChargingRuleInstall_rule_deactivation_time data) ;c
    CALCLEN_BASIC int32_t (has_GxChargingRuleInstall_resource_allocation_notification data) ;c
    CALCLEN_BASIC int32_t (has_GxChargingRuleInstall_charging_correlation_indicator data) ;c
    CALCLEN_BASIC int32_t (has_GxChargingRuleInstall_ip_can_type data) ;c
    calc_none) 0.

Definition packGxChargingRuleInstall (data : GxChargingRuleInstall) : packer :=
    PACK_PRESENCE GxChargingRuleInstallPresence data.(GxChargingRuleInstall_presence) ;p
    PACK_LIST_STRUCT (has_GxChargingRuleInstall_charging_rule_definition data) data.(GxChargingRuleInstall_charging_rule_definition) packGxChargingRuleDefinition ;p
    PACK_LIST_OCTETSTRING GxChargingRuleNameOctetString (has_GxChargingRuleInstall_charging_rule_name data) data.(GxChargingRuleInstall_charging_rule_name) ;p
    PACK_LIST_OCTETSTRING GxChargingRuleBaseNameOctetString (has_GxChargingRuleInstall_charging_rule_base_name data) data.(GxChargingRuleInstall_charging_rule_base_name) ;p
    PACK_OCTETSTRING GxBearerIdentifierOctetString (has_GxChargingRuleInstall_bearer_identifier data) data.(GxChargingRuleInstall_bearer_identifier) ;p
    PACK_BASIC uint32_t (has_GxChargingRuleInstall_monitoring_flags data) data.(GxChargingRuleInstall_monitoring_flags) ;p
    PACK_BASIC FdTime (has_GxChargingRuleInstall_rule_activation_time data) data.(GxChargingRuleInstall_rule_activation_time) ;p
    PACK_BASIC FdTime (has_GxChargingRuleInstall_rule_deactivation_time data) data.(GxChargingRuleInstall_rule_deactivation_time) ;p
    PACK_BASIC int32_t (has_GxChargingRuleInstall_resource_allocation_notification data) data.(GxChargingRuleInstall_resource_allocation_notification) ;p
    PACK_BASIC int32_t (has_GxChargingRuleInstall_charging_correlation_indicator data) data.(GxChargingRuleInstall_charging_correlation_indicator) ;p
    PACK_BASIC int32_t (has_GxChargingRuleInstall_ip_can_type data) data.(GxChargingRuleInstall_ip_can_type) ;p
    pack_end.

Definition unpackGxChargingRuleInstall : unpacker GxChargingRuleInstall :=
    UNPACK_PRESENCE GxChargingRuleInstallPresence set_GxChargingRuleInstall_presence ;u
    UNPACK_LIST_STRUCT sizeof_GxChargingRuleDefinition zero_GxChargingRuleDefinition has_GxChargingRuleInstall_charging_rule_definition set_GxChargingRuleInstall_charging_rule_definition unpackGxChargingRuleDefinition ;u
    UNPACK_LIST_OCTETSTRING GxChargingRuleNameOctetString has_GxChargingRuleInstall_charging_rule_name set_GxChargingRuleInstall_charging_rule_name ;u
    UNPACK_LIST_OCTETSTRING GxChargingRuleBaseNameOctetString has_GxChargingRuleInstall_charging_rule_base_name set_GxChargingRuleInstall_charging_rule_base_name ;u
    UNPACK_OCTETSTRING GxBearerIdentifierOctetString has_GxChargingRuleInstall_bearer_identifier GxChargingRuleInstall_bearer_identifier set_GxChargingRuleInstall_bearer_identifier ;u
    UNPACK_BASIC uint32_t has_GxChargingRuleInstall_monitoring_flags set_GxChargingRuleInstall_monitoring_flags ;u
    UNPACK_BASIC FdTime has_GxChargingRuleInstall_rule_activation_time set_GxChargingRuleInstall_rule_activation_time ;u
    UNPACK_BASIC FdTime has_GxChargingRuleInstall_rule_deactivation_time set_GxChargingRuleInstall_rule_deactivation_time ;u
    UNPACK_BASIC int32_t has_GxChargingRuleInstall_resource_allocation_notification set_GxChargingRuleInstall_resource_allocation_notification ;u
    UNPACK_BASIC int32_t has_GxChargingRuleInstall_charging_correlation_indicator set_GxChargingRuleInstall_charging_correlation_indicator ;u
    UNPACK_BASIC int32_t has_GxChargingRuleInstall_ip_can_type set_GxChargingRuleInstall_ip_can_type ;u
    unpack_end.

Definition calcLengthGxChargingRuleRemove (data : GxChargingRuleRemove) : option Z :=
  (CALCLEN_PRESENCE GxChargingRuleRemovePresence ;c
    CALCLEN_LIST_OCTETSTRING (has_GxChargingRuleRemove_charging_rule_name data) data.(GxChargingRuleRemove_charging_rule_name) ;c
    CALCLEN_LIST_OCTETSTRING (has_GxChargingRuleRemove_charging_rule_base_name data) data.(GxChargingRuleRemove_charging_rule_base_name) ;c
    CALCLEN_LIST_BASIC int32_t (has_GxChargingRuleRemove_required_access_info data) data.(GxChargingRuleRemove_required_access_info) ;c
    CALCLEN_BASIC int32_t (has_GxChargingRuleRemove_resource_release_notification data) ;c
    calc_none) 0.

Definition packGxChargingRuleRemove (data : GxChargingRuleRemove) : packer :=
    PACK_PRESENCE GxChargingRuleRemovePresence data.(GxChargingRuleRemove_presence) ;p
    PACK_LIST_OCTETSTRING GxChargingRuleNameOctetString (has_GxChargingRuleRemove_charging_rule_name data) data.(GxChargingRuleRemove_charging_rule_name) ;p
    PACK_LIST_OCTETSTRING GxChargingRuleBaseNameOctetString (has_GxChargingRuleRemove_charging_rule_base_name data) data.(GxChargingRuleRemove_charging_rule_base_name) ;p
    PACK_LIST_BASIC int32_t (has_GxChargingRuleRemove_required_access_info data) data.(GxChargingRuleRemove_required_access_info) ;p
    PACK_BASIC int32_t (has_GxChargingRuleRemove_resource_release_notification data) data.(GxChargingRuleRemove_resource_release_notification) ;p
    pack_end.

Definition unpackGxChargingRuleRemove : unpacker GxChargingRuleRemove :=
    UNPACK_PRESENCE GxChargingRuleRemovePresence set_GxChargingRuleRemove_presence ;u
    UNPACK_LIST_OCTETSTRING GxChargingRuleNameOctetString has_GxChargingRuleRemove_charging_rule_name set_GxChargingRuleRemove_charging_rule_name ;u
    UNPACK_LIST_OCTETSTRING GxChargingRuleBaseNameOctetString has_GxChargingRuleRemove_charging_rule_base_name set_GxChargingRuleRemove_charging_rule_base_name ;u
    UNPACK_LIST_BASIC int32_t 0 has_GxChargingRuleRemove_required_access_info set_GxChargingRuleRemove_required_access_info ;u
    UNPACK_BASIC int32_t has_GxChargingRuleRemove_resource_release_notification set_GxChargingRuleRemove_resource_release_notification ;u
    unpack_end.

Definition calcLengthGxOcOlr (data : GxOcOlr) : option Z :=
  (CALCLEN_PRESENCE GxOcOlrPresence ;c
    CALCLEN_BASIC uint64_t (has_GxOcOlr_oc_sequence_number data) ;c
    CALCLEN_BASIC int32_t (has_GxOcOlr_oc_report_type data) ;c
    CALCLEN_BASIC uint32_t (has_GxOcOlr_oc_reduction_percentage data) ;c
    CALCLEN_BASIC uint32_t (has_GxOcOlr_oc_validity_duration data) ;c
    calc_none) 0.

Definition packGxOcOlr (data : GxOcOlr) : packer :=
    PACK_PRESENCE GxOcOlrPresence data.(GxOcOlr_presence) ;p
    PACK_BASIC uint64_t (has_GxOcOlr_oc_sequence_number data) data.(GxOcOlr_oc_sequence_number) ;p
    PACK_BASIC int32_t (has_GxOcOlr_oc_report_type data) data.(GxOcOlr_oc_report_type) ;p
    PACK_BASIC uint32_t (has_GxOcOlr_oc_reduction_percentage data) data.(GxOcOlr_oc_reduction_percentage) ;p
    PACK_BASIC uint32_t (has_GxOcOlr_oc_validity_duration data) data.(GxOcOlr_oc_validity_duration) ;p
    pack_end.

Definition unpackGxOcOlr : unpacker GxOcOlr :=
    UNPACK_PRESENCE GxOcOlrPresence set_GxOcOlr_presence ;u
    UNPACK_BASIC uint64_t has_GxOcOlr_oc_sequence_number set_GxOcOlr_oc_sequence_number ;u
    UNPACK_BASIC int32_t has_GxOcOlr_oc_report_type set_GxOcOlr_oc_report_type ;u
    UNPACK_BASIC uint32_t has_GxOcOlr_oc_reduction_percentage set_GxOcOlr_oc_reduction_percentage ;u
    UNPACK_BASIC uint32_t has_GxOcOlr_oc_validity_duration set_GxOcOlr_oc_validity_duration ;u
    unpack_end.

Definition calcLengthGxExperimentalResult (data : GxExperimentalResult) : option Z :=
  (CALCLEN_PRESENCE GxExperimentalResultPresence ;c
    CALCLEN_BASIC uint32_t (has_GxExperimentalResult_vendor_id data) ;c
    CALCLEN_BASIC uint32_t (has_GxExperimentalResult_experimental_result_code data) ;c
    calc_none) 0.

Definition packGxExperimentalResult (data : GxExperimentalResult) : packer :=
    PACK_PRESENCE GxExperimentalResultPresence data.(GxExperimentalResult_presence) ;p
    PACK_BASIC uint32_t (has_GxExperimentalResult_vendor_id data) data.(GxExperimentalResult_vendor_id) ;p
    PACK_BASIC uint32_t (has_GxExperimentalResult_experimental_result_code data) data.(GxExperimentalResult_experimental_result_code) ;p
    pack_end.

Definition unpackGxExperimentalResult : unpacker GxExperimentalResult :=
    UNPACK_PRESENCE GxExperimentalResultPresence set_GxExperimentalResult_presence ;u
    UNPACK_BASIC uint32_t has_GxExperimentalResult_vendor_id set_GxExperimentalResult_vendor_id ;u
    UNPACK_BASIC uint32_t has_GxExperimentalResult_experimental_result_code set_GxExperimentalResult_experimental_result_code ;u
    unpack_end.

Definition gx_cca_calc_length (data : GxCCA) : option Z := message_calc_length (
    CALCLEN_PRESENCE GxCcaPresence ;c
    CALCLEN_OCTETSTRING (has_GxCCA_session_id data) data.(GxCCA_session_id) ;c
    CALCLEN_BASIC int32_t (has_GxCCA_drmp data) ;c
    CALCLEN_BASIC uint32_t (has_GxCCA_auth_application_id data) ;c
    CALCLEN_OCTETSTRING (has_GxCCA_origin_host data) data.(GxCCA_origin_host) ;c
    CALCLEN_OCTETSTRING (has_GxCCA_origin_realm data) data.(GxCCA_origin_realm) ;c
    CALCLEN_BASIC uint32_t (has_GxCCA_result_code data) ;c
    CALCLEN_STRUCT (has_GxCCA_experimental_result data) data.(GxCCA_experimental_result) calcLengthGxExperimentalResult ;c
    CALCLEN_BASIC int32_t (has_GxCCA_cc_request_type data) ;c
    CALCLEN_BASIC uint32_t (has_GxCCA_cc_request_number data) ;c
    CALCLEN_STRUCT (has_GxCCA_oc_supported_features data) data.(GxCCA_oc_supported_features) calcLengthGxOcSupportedFeatures ;c
    CALCLEN_STRUCT (has_GxCCA_oc_olr data) data.(GxCCA_oc_olr) calcLengthGxOcOlr ;c
    CALCLEN_LIST_STRUCT (has_GxCCA_supported_features data) data.(GxCCA_supported_features) calcLengthGxSupportedFeatures ;c
    CALCLEN_BASIC int32_t (has_GxCCA_bearer_control_mode data) ;c
    CALCLEN_LIST_BASIC int32_t (has_GxCCA_event_trigger data) data.(GxCCA_event_trigger) ;c
    CALCLEN_STRUCT (has_GxCCA_event_report_indication data) data.(GxCCA_event_report_indication) calcLengthGxEventReportIndication ;c
    CALCLEN_BASIC uint32_t (has_GxCCA_origin_state_id data) ;c
    CALCLEN_LIST_OCTETSTRING (has_GxCCA_redirect_host data) data.(GxCCA_redirect_host) ;c
    CALCLEN_BASIC int32_t (has_GxCCA_redirect_host_usage data) ;c
    CALCLEN_BASIC uint32_t (has_GxCCA_redirect_max_cache_time data) ;c
    CALCLEN_LIST_STRUCT (has_GxCCA_charging_rule_remove data) data.(GxCCA_charging_rule_remove) calcLengthGxChargingRuleRemove ;c
    CALCLEN_LIST_STRUCT (has_GxCCA_charging_rule_install data) data.(GxCCA_charging_rule_install) calcLengthGxChargingRuleInstall ;c
    CALCLEN_STRUCT (has_GxCCA_charging_information data) data.(GxCCA_charging_information) calcLengthGxChargingInformation ;c
    CALCLEN_BASIC int32_t (has_GxCCA_online data) ;c
    CALCLEN_BASIC int32_t (has_GxCCA_offline data) ;c
    CALCLEN_LIST_STRUCT (has_GxCCA_qos_information data) data.(GxCCA_qos_information) calcLengthGxQosInformation ;c
    CALCLEN_BASIC FdTime (has_GxCCA_revalidation_time data) ;c
    CALCLEN_STRUCT (has_GxCCA_default_eps_bearer_qos data) data.(GxCCA_default_eps_bearer_qos) calcLengthGxDefaultEpsBearerQos ;c
    CALCLEN_STRUCT (has_GxCCA_default_qos_information data) data.(GxCCA_default_qos_information) calcLengthGxDefaultQosInformation ;c
    CALCLEN_BASIC int32_t (has_GxCCA_bearer_usage data) ;c
    CALCLEN_LIST_STRUCT (has_GxCCA_usage_monitoring_information data) data.(GxCCA_usage_monitoring_information) calcLengthGxUsageMonitoringInformation ;c
    CALCLEN_LIST_BASIC int32_t (has_GxCCA_csg_information_reporting data) data.(GxCCA_csg_information_reporting) ;c
    CALCLEN_STRUCT (has_GxCCA_user_csg_information data) data.(GxCCA_user_csg_information) calcLengthGxUserCsgInformation ;c
    CALCLEN_STRUCT (has_GxCCA_pra_install data) data.(GxCCA_pra_install) calcLengthGxPraInstall ;c
    CALCLEN_STRUCT (has_GxCCA_pra_remove data) data.(GxCCA_pra_remove) calcLengthGxPraRemove ;c
    CALCLEN_STRUCT (has_GxCCA_presence_reporting_area_information data) data.(GxCCA_presence_reporting_area_information) calcLengthGxPresenceReportingAreaInformation ;c
    CALCLEN_BASIC int32_t (has_GxCCA_session_release_cause data) ;c
    CALCLEN_BASIC int32_t (has_GxCCA_nbifom_support data) ;c
    CALCLEN_BASIC int32_t (has_GxCCA_nbifom_mode data) ;c
    CALCLEN_BASIC int32_t (has_GxCCA_default_access data) ;c
    CALCLEN_BASIC uint32_t (has_GxCCA_ran_rule_support data) ;c
    CALCLEN_LIST_STRUCT (has_GxCCA_routing_rule_report data) data.(GxCCA_routing_rule_report) calcLengthGxRoutingRuleReport ;c
    CALCLEN_LIST_STRUCT (has_GxCCA_conditional_policy_information data) data.(GxCCA_conditional_policy_information) calcLengthGxConditionalPolicyInformation ;c
    CALCLEN_BASIC int32_t (has_GxCCA_removal_of_access data) ;c
    CALCLEN_BASIC int32_t (has_GxCCA_ip_can_type data) ;c
    CALCLEN_OCTETSTRING (has_GxCCA_error_message data) data.(GxCCA_error_message) ;c
    CALCLEN_OCTETSTRING (has_GxCCA_error_reporting_host data) data.(GxCCA_error_reporting_host) ;c
    CALCLEN_STRUCT (has_GxCCA_failed_avp data) data.(GxCCA_failed_avp) calcLengthGxFailedAvp ;c
    CALCLEN_LIST_STRUCT (has_GxCCA_proxy_info data) data.(GxCCA_proxy_info) calcLengthGxProxyInfo ;c
    CALCLEN_LIST_OCTETSTRING (has_GxCCA_route_record data) data.(GxCCA_route_record) ;c
    CALCLEN_LIST_STRUCT (has_GxCCA_load data) data.(GxCCA_load) calcLengthGxLoad ;c
    calc_none).

Definition gx_cca_pack (data : GxCCA) : list Z -> Z -> option (bool * list Z) := message_pack (
    PACK_PRESENCE GxCcaPresence data.(GxCCA_presence) ;p
    PACK_OCTETSTRING GxSessionIdOctetString (has_GxCCA_session_id data) data.(GxCCA_session_id) ;p
    PACK_BASIC int32_t (has_GxCCA_drmp data) data.(GxCCA_drmp) ;p
    PACK_BASIC uint32_t (has_GxCCA_auth_application_id data) data.(GxCCA_auth_application_id) ;p
    PACK_OCTETSTRING GxOriginHostOctetString (has_GxCCA_origin_host data) data.(GxCCA_origin_host) ;p
    PACK_OCTETSTRING GxOriginRealmOctetString (has_GxCCA_origin_realm data) data.(GxCCA_origin_realm) ;p
    PACK_BASIC uint32_t (has_GxCCA_result_code data) data.(GxCCA_result_code) ;p
    PACK_STRUCT (has_GxCCA_experimental_result data) data.(GxCCA_experimental_result) packGxExperimentalResult ;p
    PACK_BASIC int32_t (has_GxCCA_cc_request_type data) data.(GxCCA_cc_request_type) ;p
    PACK_BASIC uint32_t (has_GxCCA_cc_request_number data) data.(GxCCA_cc_request_number) ;p
    PACK_STRUCT (has_GxCCA_oc_supported_features data) data.(GxCCA_oc_supported_features) packGxOcSupportedFeatures ;p
    PACK_STRUCT (has_GxCCA_oc_olr data) data.(GxCCA_oc_olr) packGxOcOlr ;p
    PACK_LIST_STRUCT (has_GxCCA_supported_features data) data.(GxCCA_supported_features) packGxSupportedFeatures ;p
    PACK_BASIC int32_t (has_GxCCA_bearer_control_mode data) data.(GxCCA_bearer_control_mode) ;p
    PACK_LIST_BASIC int32_t (has_GxCCA_event_trigger data) data.(GxCCA_event_trigger) ;p
    PACK_STRUCT (has_GxCCA_event_report_indication data) data.(GxCCA_event_report_indication) packGxEventReportIndication ;p
    PACK_BASIC uint32_t (has_GxCCA_origin_state_id data) data.(GxCCA_origin_state_id) ;p
    PACK_LIST_OCTETSTRING GxRedirectHostOctetString (has_GxCCA_redirect_host data) data.(GxCCA_redirect_host) ;p
    PACK_BASIC int32_t (has_GxCCA_redirect_host_usage data) data.(GxCCA_redirect_host_usage) ;p
    PACK_BASIC uint32_t (has_GxCCA_redirect_max_cache_time data) data.(GxCCA_redirect_max_cache_time) ;p
    PACK_LIST_STRUCT (has_GxCCA_charging_rule_remove data) data.(GxCCA_charging_rule_remove) packGxChargingRuleRemove ;p
    PACK_LIST_STRUCT (has_GxCCA_charging_rule_install data) data.(GxCCA_charging_rule_install) packGxChargingRuleInstall ;p
    PACK_STRUCT (has_GxCCA_charging_information data) data.(GxCCA_charging_information) packGxChargingInformation ;p
    PACK_BASIC int32_t (has_GxCCA_online data) data.(GxCCA_online) ;p
    PACK_BASIC int32_t (has_GxCCA_offline data) data.(GxCCA_offline) ;p
    PACK_LIST_STRUCT (has_GxCCA_qos_information data) data.(GxCCA_qos_information) packGxQosInformation ;p
    PACK_BASIC FdTime (has_GxCCA_revalidation_time data) data.(GxCCA_revalidation_time) ;p
    PACK_STRUCT (has_GxCCA_default_eps_bearer_qos data) data.(GxCCA_default_eps_bearer_qos) packGxDefaultEpsBearerQos ;p
    PACK_STRUCT (has_GxCCA_default_qos_information data) data.(GxCCA_default_qos_information) packGxDefaultQosInformation ;p
    PACK_BASIC int32_t (has_GxCCA_bearer_usage data) data.(GxCCA_bearer_usage) ;p
    PACK_LIST_STRUCT (has_GxCCA_usage_monitoring_information data) data.(GxCCA_usage_monitoring_information) packGxUsageMonitoringInformation ;p
    PACK_LIST_BASIC int32_t (has_GxCCA_csg_information_reporting data) data.(GxCCA_csg_information_reporting) ;p
    PACK_STRUCT (has_GxCCA_user_csg_information data) data.(GxCCA_user_csg_information) packGxUserCsgInformation ;p
    PACK_STRUCT (has_GxCCA_pra_install data) data.(GxCCA_pra_install) packGxPraInstall ;p
    PACK_STRUCT (has_GxCCA_pra_remove data) data.(GxCCA_pra_remove) packGxPraRemove ;p
    PACK_STRUCT (has_GxCCA_presence_reporting_area_information data) data.(GxCCA_presence_reporting_area_information) packGxPresenceReportingAreaInformation ;p
    PACK_BASIC int32_t (has_GxCCA_session_release_cause data) data.(GxCCA_session_release_cause) ;p
    PACK_BASIC int32_t (has_GxCCA_nbifom_support data) data.(GxCCA_nbifom_support) ;p
    PACK_BASIC int32_t (has_GxCCA_nbifom_mode data) data.(GxCCA_nbifom_mode) ;p
    PACK_BASIC int32_t (has_GxCCA_default_access data) data.(GxCCA_default_access) ;p
    PACK_BASIC uint32_t (has_GxCCA_ran_rule_support data) data.(GxCCA_ran_rule_support) ;p
    PACK_LIST_STRUCT (has_GxCCA_routing_rule_report data) data.(GxCCA_routing_rule_report) packGxRoutingRuleReport ;p
    PACK_LIST_STRUCT (has_GxCCA_conditional_policy_information data) data.(GxCCA_conditional_policy_information) packGxConditionalPolicyInformation ;p
    PACK_BASIC int32_t (has_GxCCA_removal_of_access data) data.(GxCCA_removal_of_access) ;p
    PACK_BASIC int32_t (has_GxCCA_ip_can_type data) data.(GxCCA_ip_can_type) ;p
    PACK_OCTETSTRING GxErrorMessageOctetString (has_GxCCA_error_message data) data.(GxCCA_error_message) ;p
    PACK_OCTETSTRING GxErrorReportingHostOctetString (has_GxCCA_error_reporting_host data) data.(GxCCA_error_reporting_host) ;p
    PACK_STRUCT (has_GxCCA_failed_avp data) data.(GxCCA_failed_avp) packGxFailedAvp ;p
    PACK_LIST_STRUCT (has_GxCCA_proxy_info data) data.(GxCCA_proxy_info) packGxProxyInfo ;p
    PACK_LIST_OCTETSTRING GxRouteRecordOctetString (has_GxCCA_route_record data) data.(GxCCA_route_record) ;p
    PACK_LIST_STRUCT (has_GxCCA_load data) data.(GxCCA_load) packGxLoad ;p
    pack_done).

Definition gx_cca_unpack : list Z -> GxCCA -> option (bool * GxCCA) := message_unpack (
    UNPACK_PRESENCE GxCcaPresence set_GxCCA_presence ;u
    UNPACK_OCTETSTRING GxSessionIdOctetString has_GxCCA_session_id GxCCA_session_id set_GxCCA_session_id ;u
    UNPACK_BASIC int32_t has_GxCCA_drmp set_GxCCA_drmp ;u
    UNPACK_BASIC uint32_t has_GxCCA_auth_application_id set_GxCCA_auth_application_id ;u
    UNPACK_OCTETSTRING GxOriginHostOctetString has_GxCCA_origin_host GxCCA_origin_host set_GxCCA_origin_host ;u
    UNPACK_OCTETSTRING GxOriginRealmOctetString has_GxCCA_origin_realm GxCCA_origin_realm set_GxCCA_origin_realm ;u
    UNPACK_BASIC uint32_t has_GxCCA_result_code set_GxCCA_result_code ;u
    UNPACK_STRUCT has_GxCCA_experimental_result GxCCA_experimental_result set_GxCCA_experimental_result unpackGxExperimentalResult ;u
    UNPACK_BASIC int32_t has_GxCCA_cc_request_type set_GxCCA_cc_request_type ;u
    UNPACK_BASIC uint32_t has_GxCCA_cc_request_number set_GxCCA_cc_request_number ;u
    UNPACK_STRUCT has_GxCCA_oc_supported_features GxCCA_oc_supported_features set_GxCCA_oc_supported_features unpackGxOcSupportedFeatures ;u
    UNPACK_STRUCT has_GxCCA_oc_olr GxCCA_oc_olr set_GxCCA_oc_olr unpackGxOcOlr ;u
    UNPACK_LIST_STRUCT sizeof_GxSupportedFeatures zero_GxSupportedFeatures has_GxCCA_supported_features set_GxCCA_supported_features unpackGxSupportedFeatures ;u
    UNPACK_BASIC int32_t has_GxCCA_bearer_control_mode set_GxCCA_bearer_control_mode ;u
    UNPACK_LIST_BASIC int32_t 0 has_GxCCA_event_trigger set_GxCCA_event_trigger ;u
    UNPACK_STRUCT has_GxCCA_event_report_indication GxCCA_event_report_indication set_GxCCA_event_report_indication unpackGxEventReportIndication ;u
    UNPACK_BASIC uint32_t has_GxCCA_origin_state_id set_GxCCA_origin_state_id ;u
    UNPACK_LIST_OCTETSTRING GxRedirectHostOctetString has_GxCCA_redirect_host set_GxCCA_redirect_host ;u
    UNPACK_BASIC int32_t has_GxCCA_redirect_host_usage set_GxCCA_redirect_host_usage ;u
    UNPACK_BASIC uint32_t has_GxCCA_redirect_max_cache_time set_GxCCA_redirect_max_cache_time ;u
    UNPACK_LIST_STRUCT sizeof_GxChargingRuleRemove zero_GxChargingRuleRemove has_GxCCA_charging_rule_remove set_GxCCA_charging_rule_remove unpackGxChargingRuleRemove ;u
    UNPACK_LIST_STRUCT sizeof_GxChargingRuleInstall zero_GxChargingRuleInstall has_GxCCA_charging_rule_install set_GxCCA_charging_rule_install unpackGxChargingRuleInstall ;u
    UNPACK_STRUCT has_GxCCA_charging_information GxCCA_charging_information set_GxCCA_charging_information unpackGxChargingInformation ;u
    UNPACK_BASIC int32_t has_GxCCA_online set_GxCCA_online ;u
    UNPACK_BASIC int32_t has_GxCCA_offline set_GxCCA_offline ;u
    UNPACK_LIST_STRUCT sizeof_GxQosInformation zero_GxQosInformation has_GxCCA_qos_information set_GxCCA_qos_information unpackGxQosInformation ;u
    UNPACK_BASIC FdTime has_GxCCA_revalidation_time set_GxCCA_revalidation_time ;u
    UNPACK_STRUCT has_GxCCA_default_eps_bearer_qos GxCCA_default_eps_bearer_qos set_GxCCA_default_eps_bearer_qos unpackGxDefaultEpsBearerQos ;u
    UNPACK_STRUCT has_GxCCA_default_qos_information GxCCA_default_qos_information set_GxCCA_default_qos_information unpackGxDefaultQosInformation ;u
    UNPACK_BASIC int32_t has_GxCCA_bearer_usage set_GxCCA_bearer_usage ;u
    UNPACK_LIST_STRUCT sizeof_GxUsageMonitoringInformation zero_GxUsageMonitoringInformation has_GxCCA_usage_monitoring_information set_GxCCA_usage_monitoring_information unpackGxUsageMonitoringInformation ;u
    UNPACK_LIST_BASIC int32_t 0 has_GxCCA_csg_information_reporting set_GxCCA_csg_information_reporting ;u
    UNPACK_STRUCT has_GxCCA_user_csg_information GxCCA_user_csg_information set_GxCCA_user_csg_information unpackGxUserCsgInformation ;u
    UNPACK_STRUCT has_GxCCA_pra_install GxCCA_pra_install set_GxCCA_pra_install unpackGxPraInstall ;u
    UNPACK_STRUCT has_GxCCA_pra_remove GxCCA_pra_remove set_GxCCA_pra_remove unpackGxPraRemove ;u
    UNPACK_STRUCT has_GxCCA_presence_reporting_area_information GxCCA_presence_reporting_area_information set_GxCCA_presence_reporting_area_information unpackGxPresenceReportingAreaInformation ;u
    UNPACK_BASIC int32_t has_GxCCA_session_release_cause set_GxCCA_session_release_cause ;u
    UNPACK_BASIC int32_t has_GxCCA_nbifom_support set_GxCCA_nbifom_support ;u
    UNPACK_BASIC int32_t has_GxCCA_nbifom_mode set_GxCCA_nbifom_mode ;u
    UNPACK_BASIC int32_t has_GxCCA_default_access set_GxCCA_default_access ;u
    UNPACK_BASIC uint32_t has_GxCCA_ran_rule_support set_GxCCA_ran_rule_support ;u
    UNPACK_LIST_STRUCT sizeof_GxRoutingRuleReport zero_GxRoutingRuleReport has_GxCCA_routing_rule_report set_GxCCA_routing_rule_report unpackGxRoutingRuleReport ;u
    UNPACK_LIST_STRUCT sizeof_GxConditionalPolicyInformation zero_GxConditionalPolicyInformation has_GxCCA_conditional_policy_information set_GxCCA_conditional_policy_information unpackGxConditionalPolicyInformation ;u
    UNPACK_BASIC int32_t has_GxCCA_removal_of_access set_GxCCA_removal_of_access ;u
    UNPACK_BASIC int32_t has_GxCCA_ip_can_type set_GxCCA_ip_can_type ;u
    UNPACK_OCTETSTRING GxErrorMessageOctetString has_GxCCA_error_message GxCCA_error_message set_GxCCA_error_message ;u
    UNPACK_OCTETSTRING GxErrorReportingHostOctetString has_GxCCA_error_reporting_host GxCCA_error_reporting_host set_GxCCA_error_reporting_host ;u
    UNPACK_STRUCT has_GxCCA_failed_avp GxCCA_failed_avp set_GxCCA_failed_avp unpackGxFailedAvp ;u
    UNPACK_LIST_STRUCT sizeof_GxProxyInfo zero_GxProxyInfo has_GxCCA_proxy_info set_GxCCA_proxy_info unpackGxProxyInfo ;u
    UNPACK_LIST_OCTETSTRING GxRouteRecordOctetString has_GxCCA_route_record set_GxCCA_route_record ;u
    UNPACK_LIST_STRUCT sizeof_GxLoad zero_GxLoad has_GxCCA_load set_GxCCA_load unpackGxLoad ;u
    unpack_done).

Definition gx_raa_calc_length (data : GxRAA) : option Z := message_calc_length (
    CALCLEN_PRESENCE GxRaaPresence ;c
    CALCLEN_OCTETSTRING (has_GxRAA_session_id data) data.(GxRAA_session_id) ;c
    CALCLEN_BASIC int32_t (has_GxRAA_drmp data) ;c
    CALCLEN_OCTETSTRING (has_GxRAA_origin_host data) data.(GxRAA_origin_host) ;c
    CALCLEN_OCTETSTRING (has_GxRAA_origin_realm data) data.(GxRAA_origin_realm) ;c
    CALCLEN_BASIC uint32_t (has_GxRAA_result_code data) ;c
    CALCLEN_STRUCT (has_GxRAA_experimental_result data) data.(GxRAA_experimental_result) calcLengthGxExperimentalResult ;c
    CALCLEN_BASIC uint32_t (has_GxRAA_origin_state_id data) ;c
    CALCLEN_STRUCT (has_GxRAA_oc_supported_features data) data.(GxRAA_oc_supported_features) calcLengthGxOcSupportedFeatures ;c
    CALCLEN_STRUCT (has_GxRAA_oc_olr data) data.(GxRAA_oc_olr) calcLengthGxOcOlr ;c
    CALCLEN_BASIC int32_t (has_GxRAA_ip_can_type data) ;c
    CALCLEN_BASIC int32_t (has_GxRAA_rat_type data) ;c
    CALCLEN_BASIC int32_t (has_GxRAA_an_trusted data) ;c
    CALCLEN_LIST_BASIC FdAddress (has_GxRAA_an_gw_address data) data.(GxRAA_an_gw_address) ;c
    CALCLEN_OCTETSTRING (has_GxRAA_tgpp_sgsn_mcc_mnc data) data.(GxRAA_tgpp_sgsn_mcc_mnc) ;c
    CALCLEN_OCTETSTRING (has_GxRAA_tgpp_sgsn_address data) data.(GxRAA_tgpp_sgsn_address) ;c
    CALCLEN_OCTETSTRING (has_GxRAA_tgpp_sgsn_ipv6_address data) data.(GxRAA_tgpp_sgsn_ipv6_address) ;c
    CALCLEN_OCTETSTRING (has_GxRAA_rai data) data.(GxRAA_rai) ;c
    CALCLEN_OCTETSTRING (has_GxRAA_tgpp_user_location_info data) data.(GxRAA_tgpp_user_location_info) ;c
    CALCLEN_BASIC FdTime (has_GxRAA_user_location_info_time data) ;c
    CALCLEN_BASIC uint32_t (has_GxRAA_netloc_access_support data) ;c
    CALCLEN_STRUCT (has_GxRAA_user_csg_information data) data.(GxRAA_user_csg_information) calcLengthGxUserCsgInformation ;c
    CALCLEN_OCTETSTRING (has_GxRAA_tgpp_ms_timezone data) data.(GxRAA_tgpp_ms_timezone) ;c
    CALCLEN_STRUCT (has_GxRAA_default_qos_information data) data.(GxRAA_default_qos_information) calcLengthGxDefaultQosInformation ;c
    CALCLEN_LIST_STRUCT (has_GxRAA_charging_rule_report data) data.(GxRAA_charging_rule_report) calcLengthGxChargingRuleReport ;c
    CALCLEN_OCTETSTRING (has_GxRAA_error_message data) data.(GxRAA_error_message) ;c
    CALCLEN_OCTETSTRING (has_GxRAA_error_reporting_host data) data.(GxRAA_error_reporting_host) ;c
    CALCLEN_STRUCT (has_GxRAA_failed_avp data) data.(GxRAA_failed_avp) calcLengthGxFailedAvp ;c
    CALCLEN_LIST_STRUCT (has_GxRAA_proxy_info data) data.(GxRAA_proxy_info) calcLengthGxProxyInfo ;c
    calc_none).

Definition gx_raa_pack (data : GxRAA) : list Z -> Z -> option (bool * list Z) := message_pack (
    PACK_PRESENCE GxRaaPresence data.(GxRAA_presence) ;p
    PACK_OCTETSTRING GxSessionIdOctetString (has_GxRAA_session_id data) data.(GxRAA_session_id) ;p
    PACK_BASIC int32_t (has_GxRAA_drmp data) data.(GxRAA_drmp) ;p
    PACK_OCTETSTRING GxOriginHostOctetString (has_GxRAA_origin_host data) data.(GxRAA_origin_host) ;p
    PACK_OCTETSTRING GxOriginRealmOctetString (has_GxRAA_origin_realm data) data.(GxRAA_origin_realm) ;p
    PACK_BASIC uint32_t (has_GxRAA_result_code data) data.(GxRAA_result_code) ;p
    PACK_STRUCT (has_GxRAA_experimental_result data) data.(GxRAA_experimental_result) packGxExperimentalResult ;p
    PACK_BASIC uint32_t (has_GxRAA_origin_state_id data) data.(GxRAA_origin_state_id) ;p
    PACK_STRUCT (has_GxRAA_oc_supported_features data) data.(GxRAA_oc_supported_features) packGxOcSupportedFeatures ;p
    PACK_STRUCT (has_GxRAA_oc_olr data) data.(GxRAA_oc_olr) packGxOcOlr ;p
    PACK_BASIC int32_t (has_GxRAA_ip_can_type data) data.(GxRAA_ip_can_type) ;p
    PACK_BASIC int32_t (has_GxRAA_rat_type data) data.(GxRAA_rat_type) ;p
    PACK_BASIC int32_t (has_GxRAA_an_trusted data) data.(GxRAA_an_trusted) ;p
    PACK_LIST_BASIC FdAddress (has_GxRAA_an_gw_address data) data.(GxRAA_an_gw_address) ;p
    PACK_OCTETSTRING Gx3gppSgsnMccMncOctetString (has_GxRAA_tgpp_sgsn_mcc_mnc data) data.(GxRAA_tgpp_sgsn_mcc_mnc) ;p
    PACK_OCTETSTRING Gx3gppSgsnAddressOctetString (has_GxRAA_tgpp_sgsn_address data) data.(GxRAA_tgpp_sgsn_address) ;p
    PACK_OCTETSTRING Gx3gppSgsnIpv6AddressOctetString (has_GxRAA_tgpp_sgsn_ipv6_address data) data.(GxRAA_tgpp_sgsn_ipv6_address) ;p
    PACK_OCTETSTRING GxRaiOctetString (has_GxRAA_rai data) data.(GxRAA_rai) ;p
    PACK_OCTETSTRING Gx3gppUserLocationInfoOctetString (has_GxRAA_tgpp_user_location_info data) data.(GxRAA_tgpp_user_location_info) ;p
    PACK_BASIC FdTime (has_GxRAA_user_location_info_time data) data.(GxRAA_user_location_info_time) ;p
    PACK_BASIC uint32_t (has_GxRAA_netloc_access_support data) data.(GxRAA_netloc_access_support) ;p
    PACK_STRUCT (has_GxRAA_user_csg_information data) data.(GxRAA_user_csg_information) packGxUserCsgInformation ;p
    PACK_OCTETSTRING Gx3gppMsTimezoneOctetString (has_GxRAA_tgpp_ms_timezone data) data.(GxRAA_tgpp_ms_timezone) ;p
    PACK_STRUCT (has_GxRAA_default_qos_information data) data.(GxRAA_default_qos_information) packGxDefaultQosInformation ;p
    PACK_LIST_STRUCT (has_GxRAA_charging_rule_report data) data.(GxRAA_charging_rule_report) packGxChargingRuleReport ;p
    PACK_OCTETSTRING GxErrorMessageOctetString (has_GxRAA_error_message data) data.(GxRAA_error_message) ;p
    PACK_OCTETSTRING GxErrorReportingHostOctetString (has_GxRAA_error_reporting_host data) data.(GxRAA_error_reporting_host) ;p
    PACK_STRUCT (has_GxRAA_failed_avp data) data.(GxRAA_failed_avp) packGxFailedAvp ;p
    PACK_LIST_STRUCT (has_GxRAA_proxy_info data) data.(GxRAA_proxy_info) packGxProxyInfo ;p
    pack_done).

Definition gx_raa_unpack : list Z -> GxRAA -> option (bool * GxRAA) := message_unpack (
    UNPACK_PRESENCE GxRaaPresence set_GxRAA_presence ;u
    UNPACK_OCTETSTRING GxSessionIdOctetString has_GxRAA_session_id GxRAA_session_id set_GxRAA_session_id ;u
    UNPACK_BASIC int32_t has_GxRAA_drmp set_GxRAA_drmp ;u
    UNPACK_OCTETSTRING GxOriginHostOctetString has_GxRAA_origin_host GxRAA_origin_host set_GxRAA_origin_host ;u
    UNPACK_OCTETSTRING GxOriginRealmOctetString has_GxRAA_origin_realm GxRAA_origin_realm set_GxRAA_origin_realm ;u
    UNPACK_BASIC uint32_t has_GxRAA_result_code set_GxRAA_result_code ;u
    UNPACK_STRUCT has_GxRAA_experimental_result GxRAA_experimental_result set_GxRAA_experimental_result unpackGxExperimentalResult ;u
    UNPACK_BASIC uint32_t has_GxRAA_origin_state_id set_GxRAA_origin_state_id ;u
    UNPACK_STRUCT has_GxRAA_oc_supported_features GxRAA_oc_supported_features set_GxRAA_oc_supported_features unpackGxOcSupportedFeatures ;u
    UNPACK_STRUCT has_GxRAA_oc_olr GxRAA_oc_olr set_GxRAA_oc_olr unpackGxOcOlr ;u
    UNPACK_BASIC int32_t has_GxRAA_ip_can_type set_GxRAA_ip_can_type ;u
    UNPACK_BASIC int32_t has_GxRAA_rat_type set_GxRAA_rat_type ;u
    UNPACK_BASIC int32_t has_GxRAA_an_trusted set_GxRAA_an_trusted ;u
    UNPACK_LIST_BASIC FdAddress zero_address has_GxRAA_an_gw_address set_GxRAA_an_gw_address ;u
    UNPACK_OCTETSTRING Gx3gppSgsnMccMncOctetString has_GxRAA_tgpp_sgsn_mcc_mnc GxRAA_tgpp_sgsn_mcc_mnc set_GxRAA_tgpp_sgsn_mcc_mnc ;u
    UNPACK_OCTETSTRING Gx3gppSgsnAddressOctetString has_GxRAA_tgpp_sgsn_address GxRAA_tgpp_sgsn_address set_GxRAA_tgpp_sgsn_address ;u
    UNPACK_OCTETSTRING Gx3gppSgsnIpv6AddressOctetString has_GxRAA_tgpp_sgsn_ipv6_address GxRAA_tgpp_sgsn_ipv6_address set_GxRAA_tgpp_sgsn_ipv6_address ;u
    UNPACK_OCTETSTRING GxRaiOctetString has_GxRAA_rai GxRAA_rai set_GxRAA_rai ;u
    UNPACK_OCTETSTRING Gx3gppUserLocationInfoOctetString has_GxRAA_tgpp_user_location_info GxRAA_tgpp_user_location_info set_GxRAA_tgpp_user_location_info ;u
    UNPACK_BASIC FdTime has_GxRAA_user_location_info_time set_GxRAA_user_location_info_time ;u
    UNPACK_BASIC uint32_t has_GxRAA_netloc_access_support set_GxRAA_netloc_access_support ;u
    UNPACK_STRUCT has_GxRAA_user_csg_information GxRAA_user_csg_information set_GxRAA_user_csg_information unpackGxUserCsgInformation ;u
    UNPACK_OCTETSTRING Gx3gppMsTimezoneOctetString has_GxRAA_tgpp_ms_timezone GxRAA_tgpp_ms_timezone set_GxRAA_tgpp_ms_timezone ;u
    UNPACK_STRUCT has_GxRAA_default_qos_information GxRAA_default_qos_information set_GxRAA_default_qos_information unpackGxDefaultQosInformation ;u
    UNPACK_LIST_STRUCT sizeof_GxChargingRuleReport zero_GxChargingRuleReport has_GxRAA_charging_rule_report set_GxRAA_charging_rule_report unpackGxChargingRuleReport ;u
    UNPACK_OCTETSTRING GxErrorMessageOctetString has_GxRAA_error_message GxRAA_error_message set_GxRAA_error_message ;u
    UNPACK_OCTETSTRING GxErrorReportingHostOctetString has_GxRAA_error_reporting_host GxRAA_error_reporting_host set_GxRAA_error_reporting_host ;u
    UNPACK_STRUCT has_GxRAA_failed_avp GxRAA_failed_avp set_GxRAA_failed_avp unpackGxFailedAvp ;u
    UNPACK_LIST_STRUCT sizeof_GxProxyInfo zero_GxProxyInfo has_GxRAA_proxy_info set_GxRAA_proxy_info unpackGxProxyInfo ;u
    unpack_done).

Definition gx_rar_calc_length (data : GxRAR) : option Z := message_calc_length (
    CALCLEN_PRESENCE GxRarPresence ;c
    CALCLEN_OCTETSTRING (has_GxRAR_session_id data) data.(GxRAR_session_id) ;c
    CALCLEN_BASIC int32_t (has_GxRAR_drmp data) ;c
    CALCLEN_BASIC uint32_t (has_GxRAR_auth_application_id data) ;c
    CALCLEN_OCTETSTRING (has_GxRAR_origin_host data) data.(GxRAR_origin_host) ;c
    CALCLEN_OCTETSTRING (has_GxRAR_origin_realm data) data.(GxRAR_origin_realm) ;c
    CALCLEN_OCTETSTRING (has_GxRAR_destination_realm data) data.(GxRAR_destination_realm) ;c
    CALCLEN_OCTETSTRING (has_GxRAR_destination_host data) data.(GxRAR_destination_host) ;c
    CALCLEN_BASIC int32_t (has_GxRAR_re_auth_request_type data) ;c
    CALCLEN_BASIC int32_t (has_GxRAR_session_release_cause data) ;c
    CALCLEN_BASIC uint32_t (has_GxRAR_origin_state_id data) ;c
    CALCLEN_STRUCT (has_GxRAR_oc_supported_features data) data.(GxRAR_oc_supported_features) calcLengthGxOcSupportedFeatures ;c
    CALCLEN_LIST_BASIC int32_t (has_GxRAR_event_trigger data) data.(GxRAR_event_trigger) ;c
    CALCLEN_STRUCT (has_GxRAR_event_report_indication data) data.(GxRAR_event_report_indication) calcLengthGxEventReportIndication ;c
    CALCLEN_LIST_STRUCT (has_GxRAR_charging_rule_remove data) data.(GxRAR_charging_rule_remove) calcLengthGxChargingRuleRemove ;c
    CALCLEN_LIST_STRUCT (has_GxRAR_charging_rule_install data) data.(GxRAR_charging_rule_install) calcLengthGxChargingRuleInstall ;c
    CALCLEN_STRUCT (has_GxRAR_default_eps_bearer_qos data) data.(GxRAR_default_eps_bearer_qos) calcLengthGxDefaultEpsBearerQos ;c
    CALCLEN_LIST_STRUCT (has_GxRAR_qos_information data) data.(GxRAR_qos_information) calcLengthGxQosInformation ;c
    CALCLEN_STRUCT (has_GxRAR_default_qos_information data) data.(GxRAR_default_qos_information) calcLengthGxDefaultQosInformation ;c
    CALCLEN_BASIC FdTime (has_GxRAR_revalidation_time data) ;c
    CALCLEN_LIST_STRUCT (has_GxRAR_usage_monitoring_information data) data.(GxRAR_usage_monitoring_information) calcLengthGxUsageMonitoringInformation ;c
    CALCLEN_BASIC uint32_t (has_GxRAR_pcscf_restoration_indication data) ;c
    CALCLEN_LIST_STRUCT (has_GxRAR_conditional_policy_information data) data.(GxRAR_conditional_policy_information) calcLengthGxConditionalPolicyInformation ;c
    CALCLEN_BASIC int32_t (has_GxRAR_removal_of_access data) ;c
    CALCLEN_BASIC int32_t (has_GxRAR_ip_can_type data) ;c
    CALCLEN_STRUCT (has_GxRAR_pra_install data) data.(GxRAR_pra_install) calcLengthGxPraInstall ;c
    CALCLEN_STRUCT (has_GxRAR_pra_remove data) data.(GxRAR_pra_remove) calcLengthGxPraRemove ;c
    CALCLEN_LIST_BASIC int32_t (has_GxRAR_csg_information_reporting data) data.(GxRAR_csg_information_reporting) ;c
    CALCLEN_LIST_STRUCT (has_GxRAR_proxy_info data) data.(GxRAR_proxy_info) calcLengthGxProxyInfo ;c
    CALCLEN_LIST_OCTETSTRING (has_GxRAR_route_record data) data.(GxRAR_route_record) ;c
    calc_none).

Definition gx_rar_pack (data : GxRAR) : list Z -> Z -> option (bool * list Z) := message_pack (
    PACK_PRESENCE GxRarPresence data.(GxRAR_presence) ;p
    PACK_OCTETSTRING GxSessionIdOctetString (has_GxRAR_session_id data) data.(GxRAR_session_id) ;p
    PACK_BASIC int32_t (has_GxRAR_drmp data) data.(GxRAR_drmp) ;p
    PACK_BASIC uint32_t (has_GxRAR_auth_application_id data) data.(GxRAR_auth_application_id) ;p
    PACK_OCTETSTRING GxOriginHostOctetString (has_GxRAR_origin_host data) data.(GxRAR_origin_host) ;p
    PACK_OCTETSTRING GxOriginRealmOctetString (has_GxRAR_origin_realm data) data.(GxRAR_origin_realm) ;p
    PACK_OCTETSTRING GxDestinationRealmOctetString (has_GxRAR_destination_realm data) data.(GxRAR_destination_realm) ;p
    PACK_OCTETSTRING GxDestinationHostOctetString (has_GxRAR_destination_host data) data.(GxRAR_destination_host) ;p
    PACK_BASIC int32_t (has_GxRAR_re_auth_request_type data) data.(GxRAR_re_auth_request_type) ;p
    PACK_BASIC int32_t (has_GxRAR_session_release_cause data) data.(GxRAR_session_release_cause) ;p
    PACK_BASIC uint32_t (has_GxRAR_origin_state_id data) data.(GxRAR_origin_state_id) ;p
    PACK_STRUCT (has_GxRAR_oc_supported_features data) data.(GxRAR_oc_supported_features) packGxOcSupportedFeatures ;p
    PACK_LIST_BASIC int32_t (has_GxRAR_event_trigger data) data.(GxRAR_event_trigger) ;p
    PACK_STRUCT (has_GxRAR_event_report_indication data) data.(GxRAR_event_report_indication) packGxEventReportIndication ;p
    PACK_LIST_STRUCT (has_GxRAR_charging_rule_remove data) data.(GxRAR_charging_rule_remove) packGxChargingRuleRemove ;p
    PACK_LIST_STRUCT (has_GxRAR_charging_rule_install data) data.(GxRAR_charging_rule_install) packGxChargingRuleInstall ;p
    PACK_STRUCT (has_GxRAR_default_eps_bearer_qos data) data.(GxRAR_default_eps_bearer_qos) packGxDefaultEpsBearerQos ;p
    PACK_LIST_STRUCT (has_GxRAR_qos_information data) data.(GxRAR_qos_information) packGxQosInformation ;p
    PACK_STRUCT (has_GxRAR_default_qos_information data) data.(GxRAR_default_qos_information) packGxDefaultQosInformation ;p
    PACK_BASIC FdTime (has_GxRAR_revalidation_time data) data.(GxRAR_revalidation_time) ;p
    PACK_LIST_STRUCT (has_GxRAR_usage_monitoring_information data) data.(GxRAR_usage_monitoring_information) packGxUsageMonitoringInformation ;p
    PACK_BASIC uint32_t (has_GxRAR_pcscf_restoration_indication data) data.(GxRAR_pcscf_restoration_indication) ;p
    PACK_LIST_STRUCT (has_GxRAR_conditional_policy_information data) data.(GxRAR_conditional_policy_information) packGxConditionalPolicyInformation ;p
    PACK_BASIC int32_t (has_GxRAR_removal_of_access data) data.(GxRAR_removal_of_access) ;p
    PACK_BASIC int32_t (has_GxRAR_ip_can_type data) data.(GxRAR_ip_can_type) ;p
    PACK_STRUCT (has_GxRAR_pra_install data) data.(GxRAR_pra_install) packGxPraInstall ;p
    PACK_STRUCT (has_GxRAR_pra_remove data) data.(GxRAR_pra_remove) packGxPraRemove ;p
    PACK_LIST_BASIC int32_t (has_GxRAR_csg_information_reporting data) data.(GxRAR_csg_information_reporting) ;p
    PACK_LIST_STRUCT (has_GxRAR_proxy_info data) data.(GxRAR_proxy_info) packGxProxyInfo ;p
    PACK_LIST_OCTETSTRING GxRouteRecordOctetString (has_GxRAR_route_record data) data.(GxRAR_route_record) ;p
    pack_done).

Definition gx_rar_unpack : list Z -> GxRAR -> option (bool * GxRAR) := message_unpack (
    UNPACK_PRESENCE GxRarPresence set_GxRAR_presence ;u
    UNPACK_OCTETSTRING GxSessionIdOctetString has_GxRAR_session_id GxRAR_session_id set_GxRAR_session_id ;u
    UNPACK_BASIC int32_t has_GxRAR_drmp set_GxRAR_drmp ;u
    UNPACK_BASIC uint32_t has_GxRAR_auth_application_id set_GxRAR_auth_application_id ;u
    UNPACK_OCTETSTRING GxOriginHostOctetString has_GxRAR_origin_host GxRAR_origin_host set_GxRAR_origin_host ;u
    UNPACK_OCTETSTRING GxOriginRealmOctetString has_GxRAR_origin_realm GxRAR_origin_realm set_GxRAR_origin_realm ;u
    UNPACK_OCTETSTRING GxDestinationRealmOctetString has_GxRAR_destination_realm GxRAR_destination_realm set_GxRAR_destination_realm ;u
    UNPACK_OCTETSTRING GxDestinationHostOctetString has_GxRAR_destination_host GxRAR_destination_host set_GxRAR_destination_host ;u
    UNPACK_BASIC int32_t has_GxRAR_re_auth_request_type set_GxRAR_re_auth_request_type ;u
    UNPACK_BASIC int32_t has_GxRAR_session_release_cause set_GxRAR_session_release_cause ;u
    UNPACK_BASIC uint32_t has_GxRAR_origin_state_id set_GxRAR_origin_state_id ;u
    UNPACK_STRUCT has_GxRAR_oc_supported_features GxRAR_oc_supported_features set_GxRAR_oc_supported_features unpackGxOcSupportedFeatures ;u
    UNPACK_LIST_BASIC int32_t 0 has_GxRAR_event_trigger set_GxRAR_event_trigger ;u
    UNPACK_STRUCT has_GxRAR_event_report_indication GxRAR_event_report_indication set_GxRAR_event_report_indication unpackGxEventReportIndication ;u
    UNPACK_LIST_STRUCT sizeof_GxChargingRuleRemove zero_GxChargingRuleRemove has_GxRAR_charging_rule_remove set_GxRAR_charging_rule_remove unpackGxChargingRuleRemove ;u
    UNPACK_LIST_STRUCT sizeof_GxChargingRuleInstall zero_GxChargingRuleInstall has_GxRAR_charging_rule_install set_GxRAR_charging_rule_install unpackGxChargingRuleInstall ;u
    UNPACK_STRUCT has_GxRAR_default_eps_bearer_qos GxRAR_default_eps_bearer_qos set_GxRAR_default_eps_bearer_qos unpackGxDefaultEpsBearerQos ;u
    UNPACK_LIST_STRUCT sizeof_GxQosInformation zero_GxQosInformation has_GxRAR_qos_information set_GxRAR_qos_information unpackGxQosInformation ;u
    UNPACK_STRUCT has_GxRAR_default_qos_information GxRAR_default_qos_information set_GxRAR_default_qos_information unpackGxDefaultQosInformation ;u
    UNPACK_BASIC FdTime has_GxRAR_revalidation_time set_GxRAR_revalidation_time ;u
    UNPACK_LIST_STRUCT sizeof_GxUsageMonitoringInformation zero_GxUsageMonitoringInformation has_GxRAR_usage_monitoring_information set_GxRAR_usage_monitoring_information unpackGxUsageMonitoringInformation ;u
    UNPACK_BASIC uint32_t has_GxRAR_pcscf_restoration_indication set_GxRAR_pcscf_restoration_indication ;u
    UNPACK_LIST_STRUCT sizeof_GxConditionalPolicyInformation zero_GxConditionalPolicyInformation has_GxRAR_conditional_policy_information set_GxRAR_conditional_policy_information unpackGxConditionalPolicyInformation ;u
    UNPACK_BASIC int32_t has_GxRAR_removal_of_access set_GxRAR_removal_of_access ;u
    UNPACK_BASIC int32_t has_GxRAR_ip_can_type set_GxRAR_ip_can_type ;u
    UNPACK_STRUCT has_GxRAR_pra_install GxRAR_pra_install set_GxRAR_pra_install unpackGxPraInstall ;u
    UNPACK_STRUCT has_GxRAR_pra_remove GxRAR_pra_remove set_GxRAR_pra_remove unpackGxPraRemove ;u
    UNPACK_LIST_BASIC int32_t 0 has_GxRAR_csg_information_reporting set_GxRAR_csg_information_reporting ;u
    UNPACK_LIST_STRUCT sizeof_GxProxyInfo zero_GxProxyInfo has_GxRAR_proxy_info set_GxRAR_proxy_info unpackGxProxyInfo ;u
    UNPACK_LIST_OCTETSTRING GxRouteRecordOctetString has_GxRAR_route_record set_GxRAR_route_record ;u
    unpack_done).

End GxPack.
