(* ===== verification/GxPackSpec.v ===== *)
(** * Gx structures on the wire

    For every structure its value as the other process sees it ([view_*]), the values that
    can be sent ([good_*]), and that its three functions keep to the interface
    [StructOk]; for the four messages the rules of their members. *)

From S2P Require Import Prelude GxCodec GxCodecSpec GxStructs GxPack.

Section GxPackSpec.
Context `{MallocSucceeds}.

Definition view_GxProxyInfo (d : GxProxyInfo) : gval := GSub [
    GRaw (le_bytes GxProxyInfoPresence d.(GxProxyInfo_presence));
    opt (has_GxProxyInfo_proxy_host d) (view_octets GxProxyHostOctetString d.(GxProxyInfo_proxy_host));
    opt (has_GxProxyInfo_proxy_state d) (view_octets GxProxyStateOctetString d.(GxProxyInfo_proxy_state))].

Definition good_GxProxyInfo (d : GxProxyInfo) : Prop :=
  fits (uint_of GxProxyInfoPresence) d.(GxProxyInfo_presence) ∧
  when (has_GxProxyInfo_proxy_host d) (good_octets GxProxyHostOctetString d.(GxProxyInfo_proxy_host)) ∧
  when (has_GxProxyInfo_proxy_state d) (good_octets GxProxyStateOctetString d.(GxProxyInfo_proxy_state)).

#[export] Instance GxProxyInfo_ok : StructOk calcLengthGxProxyInfo packGxProxyInfo unpackGxProxyInfo view_GxProxyInfo good_GxProxyInfo.
Proof. struct_ok. Qed.

Definition view_GxPresenceReportingAreaInformation (d : GxPresenceReportingAreaInformation) : gval := GSub [
    GRaw (le_bytes GxPresenceReportingAreaInformationPresence d.(GxPresenceReportingAreaInformation_presence));
    opt (has_GxPresenceReportingAreaInformation_presence_reporting_area_identifier d) (view_octets GxPresenceReportingAreaIdentifierOctetString d.(GxPresenceReportingAreaInformation_presence_reporting_area_identifier));
    opt (has_GxPresenceReportingAreaInformation_presence_reporting_area_status d) (view_basic uint32_t d.(GxPresenceReportingAreaInformation_presence_reporting_area_status));
    opt (has_GxPresenceReportingAreaInformation_presence_reporting_area_elements_list d) (view_octets GxPresenceReportingAreaElementsListOctetString d.(GxPresenceReportingAreaInformation_presence_reporting_area_elements_list));
    opt (has_GxPresenceReportingAreaInformation_presence_reporting_area_node d) (view_basic uint32_t d.(GxPresenceReportingAreaInformation_presence_reporting_area_node))].

Definition good_GxPresenceReportingAreaInformation (d : GxPresenceReportingAreaInformation) : Prop :=
  fits (uint_of GxPresenceReportingAreaInformationPresence) d.(GxPresenceReportingAreaInformation_presence) ∧
  when (has_GxPresenceReportingAreaInformation_presence_reporting_area_identifier d) (good_octets GxPresenceReportingAreaIdentifierOctetString d.(GxPresenceReportingAreaInformation_presence_reporting_area_identifier)) ∧
  when (has_GxPresenceReportingAreaInformation_presence_reporting_area_status d) (fits uint32_t d.(GxPresenceReportingAreaInformation_presence_reporting_area_status)) ∧
  when (has_GxPresenceReportingAreaInformation_presence_reporting_area_elements_list d) (good_octets GxPresenceReportingAreaElementsListOctetString d.(GxPresenceReportingAreaInformation_presence_reporting_area_elements_list)) ∧
  when (has_GxPresenceReportingAreaInformation_presence_reporting_area_node d) (fits uint32_t d.(GxPresenceReportingAreaInformation_presence_reporting_area_node)).

#[export] Instance GxPresenceReportingAreaInformation_ok : StructOk calcLengthGxPresenceReportingAreaInformation packGxPresenceReportingAreaInformation unpackGxPresenceReportingAreaInformation view_GxPresenceReportingAreaInformation good_GxPresenceReportingAreaInformation.
Proof. struct_ok. Qed.

Definition view_GxRoutingRuleRemove (d : GxRoutingRuleRemove) : gval := GSub [
    GRaw (le_bytes GxRoutingRuleRemovePresence d.(GxRoutingRuleRemove_presence));
    opt (has_GxRoutingRuleRemove_routing_rule_identifier d) (view_list (view_octets GxRoutingRuleIdentifierOctetString) d.(GxRoutingRuleRemove_routing_rule_identifier))].

Definition good_GxRoutingRuleRemove (d : GxRoutingRuleRemove) : Prop :=
  fits (uint_of GxRoutingRuleRemovePresence) d.(GxRoutingRuleRemove_presence) ∧
  when (has_GxRoutingRuleRemove_routing_rule_identifier d) (good_octets_list GxRoutingRuleIdentifierOctetString d.(GxRoutingRuleRemove_routing_rule_identifier)).

#[export] Instance GxRoutingRuleRemove_ok : StructOk calcLengthGxRoutingRuleRemove packGxRoutingRuleRemove unpackGxRoutingRuleRemove view_GxRoutingRuleRemove good_GxRoutingRuleRemove.
Proof. struct_ok. Qed.

Definition view_GxRoutingFilter (d : GxRoutingFilter) : gval := GSub [
    GRaw (le_bytes GxRoutingFilterPresence d.(GxRoutingFilter_presence));
    opt (has_GxRoutingFilter_flow_description d) (view_octets GxFlowDescriptionOctetString d.(GxRoutingFilter_flow_description));
    opt (has_GxRoutingFilter_flow_direction d) (view_basic int32_t d.(GxRoutingFilter_flow_direction));
    opt (has_GxRoutingFilter_tos_traffic_class d) (view_octets GxTosTrafficClassOctetString d.(GxRoutingFilter_tos_traffic_class));
    opt (has_GxRoutingFilter_security_parameter_index d) (view_octets GxSecurityParameterIndexOctetString d.(GxRoutingFilter_security_parameter_index));
    opt (has_GxRoutingFilter_flow_label d) (view_octets GxFlowLabelOctetString d.(GxRoutingFilter_flow_label))].

Definition good_GxRoutingFilter (d : GxRoutingFilter) : Prop :=
  fits (uint_of GxRoutingFilterPresence) d.(GxRoutingFilter_presence) ∧
  when (has_GxRoutingFilter_flow_description d) (good_octets GxFlowDescriptionOctetString d.(GxRoutingFilter_flow_description)) ∧
  when (has_GxRoutingFilter_flow_direction d) (fits int32_t d.(GxRoutingFilter_flow_direction)) ∧
  when (has_GxRoutingFilter_tos_traffic_class d) (good_octets GxTosTrafficClassOctetString d.(GxRoutingFilter_tos_traffic_class)) ∧
  when (has_GxRoutingFilter_security_parameter_index d) (good_octets GxSecurityParameterIndexOctetString d.(GxRoutingFilter_security_parameter_index)) ∧
  when (has_GxRoutingFilter_flow_label d) (good_octets GxFlowLabelOctetString d.(GxRoutingFilter_flow_label)).

#[export] Instance GxRoutingFilter_ok : StructOk calcLengthGxRoutingFilter packGxRoutingFilter unpackGxRoutingFilter view_GxRoutingFilter good_GxRoutingFilter.
Proof. struct_ok. Qed.

Definition view_GxRoutingRuleDefinition (d : GxRoutingRuleDefinition) : gval := GSub [
    GRaw (le_bytes GxRoutingRuleDefinitionPresence d.(GxRoutingRuleDefinition_presence));
    opt (has_GxRoutingRuleDefinition_routing_rule_identifier d) (view_octets GxRoutingRuleIdentifierOctetString d.(GxRoutingRuleDefinition_routing_rule_identifier));
    opt (has_GxRoutingRuleDefinition_routing_filter d) (view_list view_GxRoutingFilter d.(GxRoutingRuleDefinition_routing_filter));
    opt (has_GxRoutingRuleDefinition_precedence d) (view_basic uint32_t d.(GxRoutingRuleDefinition_precedence));
    opt (has_GxRoutingRuleDefinition_routing_ip_address d) (view_basic FdAddress d.(GxRoutingRuleDefinition_routing_ip_address));
    opt (has_GxRoutingRuleDefinition_ip_can_type d) (view_basic int32_t d.(GxRoutingRuleDefinition_ip_can_type))].

Definition good_GxRoutingRuleDefinition (d : GxRoutingRuleDefinition) : Prop :=
  fits (uint_of GxRoutingRuleDefinitionPresence) d.(GxRoutingRuleDefinition_presence) ∧
  when (has_GxRoutingRuleDefinition_routing_rule_identifier d) (good_octets GxRoutingRuleIdentifierOctetString d.(GxRoutingRuleDefinition_routing_rule_identifier)) ∧
  when (has_GxRoutingRuleDefinition_routing_filter d) (good_list good_GxRoutingFilter d.(GxRoutingRuleDefinition_routing_filter)) ∧
  when (has_GxRoutingRuleDefinition_precedence d) (fits uint32_t d.(GxRoutingRuleDefinition_precedence)) ∧
  when (has_GxRoutingRuleDefinition_routing_ip_address d) (fits FdAddress d.(GxRoutingRuleDefinition_routing_ip_address)) ∧
  when (has_GxRoutingRuleDefinition_ip_can_type d) (fits int32_t d.(GxRoutingRuleDefinition_ip_can_type)).

#[export] Instance GxRoutingRuleDefinition_ok : StructOk calcLengthGxRoutingRuleDefinition packGxRoutingRuleDefinition unpackGxRoutingRuleDefinition view_GxRoutingRuleDefinition good_GxRoutingRuleDefinition.
Proof. struct_ok. Qed.

Definition view_GxRoutingRuleInstall (d : GxRoutingRuleInstall) : gval := GSub [
    GRaw (le_bytes GxRoutingRuleInstallPresence d.(GxRoutingRuleInstall_presence));
    opt (has_GxRoutingRuleInstall_routing_rule_definition d) (view_list view_GxRoutingRuleDefinition d.(GxRoutingRuleInstall_routing_rule_definition))].

Definition good_GxRoutingRuleInstall (d : GxRoutingRuleInstall) : Prop :=
  fits (uint_of GxRoutingRuleInstallPresence) d.(GxRoutingRuleInstall_presence) ∧
  when (has_GxRoutingRuleInstall_routing_rule_definition d) (good_list good_GxRoutingRuleDefinition d.(GxRoutingRuleInstall_routing_rule_definition)).

#[export] Instance GxRoutingRuleInstall_ok : StructOk calcLengthGxRoutingRuleInstall packGxRoutingRuleInstall unpackGxRoutingRuleInstall view_GxRoutingRuleInstall good_GxRoutingRuleInstall.
Proof. struct_ok. Qed.

Definition view_GxUnitValue (d : GxUnitValue) : gval := GSub [
    GRaw (le_bytes GxUnitValuePresence d.(GxUnitValue_presence));
    opt (has_GxUnitValue_value_digits d) (view_basic int64_t d.(GxUnitValue_value_digits));
    opt (has_GxUnitValue_exponent d) (view_basic int32_t d.(GxUnitValue_exponent))].

Definition good_GxUnitValue (d : GxUnitValue) : Prop :=
  fits (uint_of GxUnitValuePresence) d.(GxUnitValue_presence) ∧
  when (has_GxUnitValue_value_digits d) (fits int64_t d.(GxUnitValue_value_digits)) ∧
  when (has_GxUnitValue_exponent d) (fits int32_t d.(GxUnitValue_exponent)).

#[export] Instance GxUnitValue_ok : StructOk calcLengthGxUnitValue packGxUnitValue unpackGxUnitValue view_GxUnitValue good_GxUnitValue.
Proof. struct_ok. Qed.

Definition view_GxCcMoney (d : GxCcMoney) : gval := GSub [
    GRaw (le_bytes GxCcMoneyPresence d.(GxCcMoney_presence));
    opt (has_GxCcMoney_unit_value d) (view_GxUnitValue d.(GxCcMoney_unit_value));
    opt (has_GxCcMoney_currency_code d) (view_basic uint32_t d.(GxCcMoney_currency_code))].

Definition good_GxCcMoney (d : GxCcMoney) : Prop :=
  fits (uint_of GxCcMoneyPresence) d.(GxCcMoney_presence) ∧
  when (has_GxCcMoney_unit_value d) (good_GxUnitValue d.(GxCcMoney_unit_value)) ∧
  when (has_GxCcMoney_currency_code d) (fits uint32_t d.(GxCcMoney_currency_code)).

#[export] Instance GxCcMoney_ok : StructOk calcLengthGxCcMoney packGxCcMoney unpackGxCcMoney view_GxCcMoney good_GxCcMoney.
Proof. struct_ok. Qed.

Definition view_GxUsedServiceUnit (d : GxUsedServiceUnit) : gval := GSub [
    GRaw (le_bytes GxUsedServiceUnitPresence d.(GxUsedServiceUnit_presence));
    opt (has_GxUsedServiceUnit_reporting_reason d) (view_basic int32_t d.(GxUsedServiceUnit_reporting_reason));
    opt (has_GxUsedServiceUnit_tariff_change_usage d) (view_basic int32_t d.(GxUsedServiceUnit_tariff_change_usage));
    opt (has_GxUsedServiceUnit_cc_time d) (view_basic uint32_t d.(GxUsedServiceUnit_cc_time));
    opt (has_GxUsedServiceUnit_cc_money d) (view_GxCcMoney d.(GxUsedServiceUnit_cc_money));
    opt (has_GxUsedServiceUnit_cc_total_octets d) (view_basic uint64_t d.(GxUsedServiceUnit_cc_total_octets));
    opt (has_GxUsedServiceUnit_cc_input_octets d) (view_basic uint64_t d.(GxUsedServiceUnit_cc_input_octets));
    opt (has_GxUsedServiceUnit_cc_output_octets d) (view_basic uint64_t d.(GxUsedServiceUnit_cc_output_octets));
    opt (has_GxUsedServiceUnit_cc_service_specific_units d) (view_basic uint64_t d.(GxUsedServiceUnit_cc_service_specific_units));
    opt (has_GxUsedServiceUnit_event_charging_timestamp d) (view_list (view_basic FdTime) d.(GxUsedServiceUnit_event_charging_timestamp))].

Definition good_GxUsedServiceUnit (d : GxUsedServiceUnit) : Prop :=
  fits (uint_of GxUsedServiceUnitPresence) d.(GxUsedServiceUnit_presence) ∧
  when (has_GxUsedServiceUnit_reporting_reason d) (fits int32_t d.(GxUsedServiceUnit_reporting_reason)) ∧
  when (has_GxUsedServiceUnit_tariff_change_usage d) (fits int32_t d.(GxUsedServiceUnit_tariff_change_usage)) ∧
  when (has_GxUsedServiceUnit_cc_time d) (fits uint32_t d.(GxUsedServiceUnit_cc_time)) ∧
  when (has_GxUsedServiceUnit_cc_money d) (good_GxCcMoney d.(GxUsedServiceUnit_cc_money)) ∧
  when (has_GxUsedServiceUnit_cc_total_octets d) (fits uint64_t d.(GxUsedServiceUnit_cc_total_octets)) ∧
  when (has_GxUsedServiceUnit_cc_input_octets d) (fits uint64_t d.(GxUsedServiceUnit_cc_input_octets)) ∧
  when (has_GxUsedServiceUnit_cc_output_octets d) (fits uint64_t d.(GxUsedServiceUnit_cc_output_octets)) ∧
  when (has_GxUsedServiceUnit_cc_service_specific_units d) (fits uint64_t d.(GxUsedServiceUnit_cc_service_specific_units)) ∧
  when (has_GxUsedServiceUnit_event_charging_timestamp d) (good_list (fits FdTime) d.(GxUsedServiceUnit_event_charging_timestamp)).

#[export] Instance GxUsedServiceUnit_ok : StructOk calcLengthGxUsedServiceUnit packGxUsedServiceUnit unpackGxUsedServiceUnit view_GxUsedServiceUnit good_GxUsedServiceUnit.
Proof. struct_ok. Qed.

Definition view_GxGrantedServiceUnit (d : GxGrantedServiceUnit) : gval := GSub [
    GRaw (le_bytes GxGrantedServiceUnitPresence d.(GxGrantedServiceUnit_presence));
    opt (has_GxGrantedServiceUnit_tariff_time_change d) (view_basic FdTime d.(GxGrantedServiceUnit_tariff_time_change));
    opt (has_GxGrantedServiceUnit_cc_time d) (view_basic uint32_t d.(GxGrantedServiceUnit_cc_time));
    opt (has_GxGrantedServiceUnit_cc_money d) (view_GxCcMoney d.(GxGrantedServiceUnit_cc_money));
    opt (has_GxGrantedServiceUnit_cc_total_octets d) (view_basic uint64_t d.(GxGrantedServiceUnit_cc_total_octets));
    opt (has_GxGrantedServiceUnit_cc_input_octets d) (view_basic uint64_t d.(GxGrantedServiceUnit_cc_input_octets));
    opt (has_GxGrantedServiceUnit_cc_output_octets d) (view_basic uint64_t d.(GxGrantedServiceUnit_cc_output_octets));
    opt (has_GxGrantedServiceUnit_cc_service_specific_units d) (view_basic uint64_t d.(GxGrantedServiceUnit_cc_service_specific_units))].

Definition good_GxGrantedServiceUnit (d : GxGrantedServiceUnit) : Prop :=
  fits (uint_of GxGrantedServiceUnitPresence) d.(GxGrantedServiceUnit_presence) ∧
  when (has_GxGrantedServiceUnit_tariff_time_change d) (fits FdTime d.(GxGrantedServiceUnit_tariff_time_change)) ∧
  when (has_GxGrantedServiceUnit_cc_time d) (fits uint32_t d.(GxGrantedServiceUnit_cc_time)) ∧
  when (has_GxGrantedServiceUnit_cc_money d) (good_GxCcMoney d.(GxGrantedServiceUnit_cc_money)) ∧
  when (has_GxGrantedServiceUnit_cc_total_octets d) (fits uint64_t d.(GxGrantedServiceUnit_cc_total_octets)) ∧
  when (has_GxGrantedServiceUnit_cc_input_octets d) (fits uint64_t d.(GxGrantedServiceUnit_cc_input_octets)) ∧
  when (has_GxGrantedServiceUnit_cc_output_octets d) (fits uint64_t d.(GxGrantedServiceUnit_cc_output_octets)) ∧
  when (has_GxGrantedServiceUnit_cc_service_specific_units d) (fits uint64_t d.(GxGrantedServiceUnit_cc_service_specific_units)).

#[export] Instance GxGrantedServiceUnit_ok : StructOk calcLengthGxGrantedServiceUnit packGxGrantedServiceUnit unpackGxGrantedServiceUnit view_GxGrantedServiceUnit good_GxGrantedServiceUnit.
Proof. struct_ok. Qed.

Definition view_GxUsageMonitoringInformation (d : GxUsageMonitoringInformation) : gval := GSub [
    GRaw (le_bytes GxUsageMonitoringInformationPresence d.(GxUsageMonitoringInformation_presence));
    opt (has_GxUsageMonitoringInformation_monitoring_key d) (view_octets GxMonitoringKeyOctetString d.(GxUsageMonitoringInformation_monitoring_key));
    opt (has_GxUsageMonitoringInformation_granted_service_unit d) (view_list view_GxGrantedServiceUnit d.(GxUsageMonitoringInformation_granted_service_unit));
    opt (has_GxUsageMonitoringInformation_used_service_unit d) (view_list view_GxUsedServiceUnit d.(GxUsageMonitoringInformation_used_service_unit));
    opt (has_GxUsageMonitoringInformation_quota_consumption_time d) (view_basic uint32_t d.(GxUsageMonitoringInformation_quota_consumption_time));
    opt (has_GxUsageMonitoringInformation_usage_monitoring_level d) (view_basic int32_t d.(GxUsageMonitoringInformation_usage_monitoring_level));
    opt (has_GxUsageMonitoringInformation_usage_monitoring_report d) (view_basic int32_t d.(GxUsageMonitoringInformation_usage_monitoring_report));
    opt (has_GxUsageMonitoringInformation_usage_monitoring_support d) (view_basic int32_t d.(GxUsageMonitoringInformation_usage_monitoring_support))].

Definition good_GxUsageMonitoringInformation (d : GxUsageMonitoringInformation) : Prop :=
  fits (uint_of GxUsageMonitoringInformationPresence) d.(GxUsageMonitoringInformation_presence) ∧
  when (has_GxUsageMonitoringInformation_monitoring_key d) (good_octets GxMonitoringKeyOctetString d.(GxUsageMonitoringInformation_monitoring_key)) ∧
  when (has_GxUsageMonitoringInformation_granted_service_unit d) (good_list good_GxGrantedServiceUnit d.(GxUsageMonitoringInformation_granted_service_unit)) ∧
  when (has_GxUsageMonitoringInformation_used_service_unit d) (good_list good_GxUsedServiceUnit d.(GxUsageMonitoringInformation_used_service_unit)) ∧
  when (has_GxUsageMonitoringInformation_quota_consumption_time d) (fits uint32_t d.(GxUsageMonitoringInformation_quota_consumption_time)) ∧
  when (has_GxUsageMonitoringInformation_usage_monitoring_level d) (fits int32_t d.(GxUsageMonitoringInformation_usage_monitoring_level)) ∧
  when (has_GxUsageMonitoringInformation_usage_monitoring_report d) (fits int32_t d.(GxUsageMonitoringInformation_usage_monitoring_report)) ∧
  when (has_GxUsageMonitoringInformation_usage_monitoring_support d) (fits int32_t d.(GxUsageMonitoringInformation_usage_monitoring_support)).

#[export] Instance GxUsageMonitoringInformation_ok : StructOk calcLengthGxUsageMonitoringInformation packGxUsageMonitoringInformation unpackGxUsageMonitoringInformation view_GxUsageMonitoringInformation good_GxUsageMonitoringInformation.
Proof. struct_ok. Qed.

Definition view_GxTunnelInformation (d : GxTunnelInformation) : gval := GSub [
    GRaw (le_bytes GxTunnelInformationPresence d.(GxTunnelInformation_presence));
    opt (has_GxTunnelInformation_tunnel_header_length d) (view_basic uint32_t d.(GxTunnelInformation_tunnel_header_length));
    opt (has_GxTunnelInformation_tunnel_header_filter d) (view_list (view_octets GxTunnelHeaderFilterOctetString) d.(GxTunnelInformation_tunnel_header_filter))].

Definition good_GxTunnelInformation (d : GxTunnelInformation) : Prop :=
  fits (uint_of GxTunnelInformationPresence) d.(GxTunnelInformation_presence) ∧
  when (has_GxTunnelInformation_tunnel_header_length d) (fits uint32_t d.(GxTunnelInformation_tunnel_header_length)) ∧
  when (has_GxTunnelInformation_tunnel_header_filter d) (good_octets_list GxTunnelHeaderFilterOctetString d.(GxTunnelInformation_tunnel_header_filter)).

#[export] Instance GxTunnelInformation_ok : StructOk calcLengthGxTunnelInformation packGxTunnelInformation unpackGxTunnelInformation view_GxTunnelInformation good_GxTunnelInformation.
Proof. struct_ok. Qed.

Definition view_GxCoaInformation (d : GxCoaInformation) : gval := GSub [
    GRaw (le_bytes GxCoaInformationPresence d.(GxCoaInformation_presence));
    opt (has_GxCoaInformation_tunnel_information d) (view_GxTunnelInformation d.(GxCoaInformation_tunnel_information));
    opt (has_GxCoaInformation_coa_ip_address d) (view_basic FdAddress d.(GxCoaInformation_coa_ip_address))].

Definition good_GxCoaInformation (d : GxCoaInformation) : Prop :=
  fits (uint_of GxCoaInformationPresence) d.(GxCoaInformation_presence) ∧
  when (has_GxCoaInformation_tunnel_information d) (good_GxTunnelInformation d.(GxCoaInformation_tunnel_information)) ∧
  when (has_GxCoaInformation_coa_ip_address d) (fits FdAddress d.(GxCoaInformation_coa_ip_address)).

#[export] Instance GxCoaInformation_ok : StructOk calcLengthGxCoaInformation packGxCoaInformation unpackGxCoaInformation view_GxCoaInformation good_GxCoaInformation.
Proof. struct_ok. Qed.

Definition view_GxAccessNetworkChargingIdentifierGx (d : GxAccessNetworkChargingIdentifierGx) : gval := GSub [
    GRaw (le_bytes GxAccessNetworkChargingIdentifierGxPresence d.(GxAccessNetworkChargingIdentifierGx_presence));
    opt (has_GxAccessNetworkChargingIdentifierGx_access_network_charging_identifier_value d) (view_octets GxAccessNetworkChargingIdentifierValueOctetString d.(GxAccessNetworkChargingIdentifierGx_access_network_charging_identifier_value));
    opt (has_GxAccessNetworkChargingIdentifierGx_charging_rule_base_name d) (view_list (view_octets GxChargingRuleBaseNameOctetString) d.(GxAccessNetworkChargingIdentifierGx_charging_rule_base_name));
    opt (has_GxAccessNetworkChargingIdentifierGx_charging_rule_name d) (view_list (view_octets GxChargingRuleNameOctetString) d.(GxAccessNetworkChargingIdentifierGx_charging_rule_name));
    opt (has_GxAccessNetworkChargingIdentifierGx_ip_can_session_charging_scope d) (view_basic int32_t d.(GxAccessNetworkChargingIdentifierGx_ip_can_session_charging_scope))].

Definition good_GxAccessNetworkChargingIdentifierGx (d : GxAccessNetworkChargingIdentifierGx) : Prop :=
  fits (uint_of GxAccessNetworkChargingIdentifierGxPresence) d.(GxAccessNetworkChargingIdentifierGx_presence) ∧
  when (has_GxAccessNetworkChargingIdentifierGx_access_network_charging_identifier_value d) (good_octets GxAccessNetworkChargingIdentifierValueOctetString d.(GxAccessNetworkChargingIdentifierGx_access_network_charging_identifier_value)) ∧
  when (has_GxAccessNetworkChargingIdentifierGx_charging_rule_base_name d) (good_octets_list GxChargingRuleBaseNameOctetString d.(GxAccessNetworkChargingIdentifierGx_charging_rule_base_name)) ∧
  when (has_GxAccessNetworkChargingIdentifierGx_charging_rule_name d) (good_octets_list GxChargingRuleNameOctetString d.(GxAccessNetworkChargingIdentifierGx_charging_rule_name)) ∧
  when (has_GxAccessNetworkChargingIdentifierGx_ip_can_session_charging_scope d) (fits int32_t d.(GxAccessNetworkChargingIdentifierGx_ip_can_session_charging_scope)).

#[export] Instance GxAccessNetworkChargingIdentifierGx_ok : StructOk calcLengthGxAccessNetworkChargingIdentifierGx packGxAccessNetworkChargingIdentifierGx unpackGxAccessNetworkChargingIdentifierGx view_GxAccessNetworkChargingIdentifierGx good_GxAccessNetworkChargingIdentifierGx.
Proof. struct_ok. Qed.

Definition view_GxMbsfnArea (d : GxMbsfnArea) : gval := GSub [
    GRaw (le_bytes GxMbsfnAreaPresence d.(GxMbsfnArea_presence));
    opt (has_GxMbsfnArea_mbsfn_area_id d) (view_basic uint32_t d.(GxMbsfnArea_mbsfn_area_id));
    opt (has_GxMbsfnArea_carrier_frequency d) (view_basic uint32_t d.(GxMbsfnArea_carrier_frequency))].

Definition good_GxMbsfnArea (d : GxMbsfnArea) : Prop :=
  fits (uint_of GxMbsfnAreaPresence) d.(GxMbsfnArea_presence) ∧
  when (has_GxMbsfnArea_mbsfn_area_id d) (fits uint32_t d.(GxMbsfnArea_mbsfn_area_id)) ∧
  when (has_GxMbsfnArea_carrier_frequency d) (fits uint32_t d.(GxMbsfnArea_carrier_frequency)).

#[export] Instance GxMbsfnArea_ok : StructOk calcLengthGxMbsfnArea packGxMbsfnArea unpackGxMbsfnArea view_GxMbsfnArea good_GxMbsfnArea.
Proof. struct_ok. Qed.

Definition view_GxAreaScope (d : GxAreaScope) : gval := GSub [
    GRaw (le_bytes GxAreaScopePresence d.(GxAreaScope_presence));
    opt (has_GxAreaScope_cell_global_identity d) (view_list (view_octets GxCellGlobalIdentityOctetString) d.(GxAreaScope_cell_global_identity));
    opt (has_GxAreaScope_e_utran_cell_global_identity d) (view_list (view_octets GxEUtranCellGlobalIdentityOctetString) d.(GxAreaScope_e_utran_cell_global_identity));
    opt (has_GxAreaScope_routing_area_identity d) (view_list (view_octets GxRoutingAreaIdentityOctetString) d.(GxAreaScope_routing_area_identity));
    opt (has_GxAreaScope_location_area_identity d) (view_list (view_octets GxLocationAreaIdentityOctetString) d.(GxAreaScope_location_area_identity));
    opt (has_GxAreaScope_tracking_area_identity d) (view_list (view_octets GxTrackingAreaIdentityOctetString) d.(GxAreaScope_tracking_area_identity))].

Definition good_GxAreaScope (d : GxAreaScope) : Prop :=
  fits (uint_of GxAreaScopePresence) d.(GxAreaScope_presence) ∧
  when (has_GxAreaScope_cell_global_identity d) (good_octets_list GxCellGlobalIdentityOctetString d.(GxAreaScope_cell_global_identity)) ∧
  when (has_GxAreaScope_e_utran_cell_global_identity d) (good_octets_list GxEUtranCellGlobalIdentityOctetString d.(GxAreaScope_e_utran_cell_global_identity)) ∧
  when (has_GxAreaScope_routing_area_identity d) (good_octets_list GxRoutingAreaIdentityOctetString d.(GxAreaScope_routing_area_identity)) ∧
  when (has_GxAreaScope_location_area_identity d) (good_octets_list GxLocationAreaIdentityOctetString d.(GxAreaScope_location_area_identity)) ∧
  when (has_GxAreaScope_tracking_area_identity d) (good_octets_list GxTrackingAreaIdentityOctetString d.(GxAreaScope_tracking_area_identity)).

#[export] Instance GxAreaScope_ok : StructOk calcLengthGxAreaScope packGxAreaScope unpackGxAreaScope view_GxAreaScope good_GxAreaScope.
Proof. struct_ok. Qed.

Definition view_GxMdtConfiguration (d : GxMdtConfiguration) : gval := GSub [
    GRaw (le_bytes GxMdtConfigurationPresence d.(GxMdtConfiguration_presence));
    opt (has_GxMdtConfiguration_job_type d) (view_basic int32_t d.(GxMdtConfiguration_job_type));
    opt (has_GxMdtConfiguration_area_scope d) (view_GxAreaScope d.(GxMdtConfiguration_area_scope));
    opt (has_GxMdtConfiguration_list_of_measurements d) (view_basic uint32_t d.(GxMdtConfiguration_list_of_measurements));
    opt (has_GxMdtConfiguration_reporting_trigger d) (view_basic uint32_t d.(GxMdtConfiguration_reporting_trigger));
    opt (has_GxMdtConfiguration_report_interval d) (view_basic int32_t d.(GxMdtConfiguration_report_interval));
    opt (has_GxMdtConfiguration_report_amount d) (view_basic int32_t d.(GxMdtConfiguration_report_amount));
    opt (has_GxMdtConfiguration_event_threshold_rsrp d) (view_basic uint32_t d.(GxMdtConfiguration_event_threshold_rsrp));
    opt (has_GxMdtConfiguration_event_threshold_rsrq d) (view_basic uint32_t d.(GxMdtConfiguration_event_threshold_rsrq));
    opt (has_GxMdtConfiguration_logging_interval d) (view_basic int32_t d.(GxMdtConfiguration_logging_interval));
    opt (has_GxMdtConfiguration_logging_duration d) (view_basic int32_t d.(GxMdtConfiguration_logging_duration));
    opt (has_GxMdtConfiguration_measurement_period_lte d) (view_basic int32_t d.(GxMdtConfiguration_measurement_period_lte));
    opt (has_GxMdtConfiguration_measurement_period_umts d) (view_basic int32_t d.(GxMdtConfiguration_measurement_period_umts));
    opt (has_GxMdtConfiguration_collection_period_rrm_lte d) (view_basic int32_t d.(GxMdtConfiguration_collection_period_rrm_lte));
    opt (has_GxMdtConfiguration_collection_period_rrm_umts d) (view_basic int32_t d.(GxMdtConfiguration_collection_period_rrm_umts));
    opt (has_GxMdtConfiguration_positioning_method d) (view_octets GxPositioningMethodOctetString d.(GxMdtConfiguration_positioning_method));
    opt (has_GxMdtConfiguration_measurement_quantity d) (view_octets GxMeasurementQuantityOctetString d.(GxMdtConfiguration_measurement_quantity));
    opt (has_GxMdtConfiguration_event_threshold_event_1f d) (view_basic int32_t d.(GxMdtConfiguration_event_threshold_event_1f));
    opt (has_GxMdtConfiguration_event_threshold_event_1i d) (view_basic int32_t d.(GxMdtConfiguration_event_threshold_event_1i));
    opt (has_GxMdtConfiguration_mdt_allowed_plmn_id d) (view_list (view_octets GxMdtAllowedPlmnIdOctetString) d.(GxMdtConfiguration_mdt_allowed_plmn_id));
    opt (has_GxMdtConfiguration_mbsfn_area d) (view_list view_GxMbsfnArea d.(GxMdtConfiguration_mbsfn_area))].

Definition good_GxMdtConfiguration (d : GxMdtConfiguration) : Prop :=
  fits (uint_of GxMdtConfigurationPresence) d.(GxMdtConfiguration_presence) ∧
  when (has_GxMdtConfiguration_job_type d) (fits int32_t d.(GxMdtConfiguration_job_type)) ∧
  when (has_GxMdtConfiguration_area_scope d) (good_GxAreaScope d.(GxMdtConfiguration_area_scope)) ∧
  when (has_GxMdtConfiguration_list_of_measurements d) (fits uint32_t d.(GxMdtConfiguration_list_of_measurements)) ∧
  when (has_GxMdtConfiguration_reporting_trigger d) (fits uint32_t d.(GxMdtConfiguration_reporting_trigger)) ∧
  when (has_GxMdtConfiguration_report_interval d) (fits int32_t d.(GxMdtConfiguration_report_interval)) ∧
  when (has_GxMdtConfiguration_report_amount d) (fits int32_t d.(GxMdtConfiguration_report_amount)) ∧
  when (has_GxMdtConfiguration_event_threshold_rsrp d) (fits uint32_t d.(GxMdtConfiguration_event_threshold_rsrp)) ∧
  when (has_GxMdtConfiguration_event_threshold_rsrq d) (fits uint32_t d.(GxMdtConfiguration_event_threshold_rsrq)) ∧
  when (has_GxMdtConfiguration_logging_interval d) (fits int32_t d.(GxMdtConfiguration_logging_interval)) ∧
  when (has_GxMdtConfiguration_logging_duration d) (fits int32_t d.(GxMdtConfiguration_logging_duration)) ∧
  when (has_GxMdtConfiguration_measurement_period_lte d) (fits int32_t d.(GxMdtConfiguration_measurement_period_lte)) ∧
  when (has_GxMdtConfiguration_measurement_period_umts d) (fits int32_t d.(GxMdtConfiguration_measurement_period_umts)) ∧
  when (has_GxMdtConfiguration_collection_period_rrm_lte d) (fits int32_t d.(GxMdtConfiguration_collection_period_rrm_lte)) ∧
  when (has_GxMdtConfiguration_collection_period_rrm_umts d) (fits int32_t d.(GxMdtConfiguration_collection_period_rrm_umts)) ∧
  when (has_GxMdtConfiguration_positioning_method d) (good_octets GxPositioningMethodOctetString d.(GxMdtConfiguration_positioning_method)) ∧
  when (has_GxMdtConfiguration_measurement_quantity d) (good_octets GxMeasurementQuantityOctetString d.(GxMdtConfiguration_measurement_quantity)) ∧
  when (has_GxMdtConfiguration_event_threshold_event_1f d) (fits int32_t d.(GxMdtConfiguration_event_threshold_event_1f)) ∧
  when (has_GxMdtConfiguration_event_threshold_event_1i d) (fits int32_t d.(GxMdtConfiguration_event_threshold_event_1i)) ∧
  when (has_GxMdtConfiguration_mdt_allowed_plmn_id d) (good_octets_list GxMdtAllowedPlmnIdOctetString d.(GxMdtConfiguration_mdt_allowed_plmn_id)) ∧
  when (has_GxMdtConfiguration_mbsfn_area d) (good_list good_GxMbsfnArea d.(GxMdtConfiguration_mbsfn_area)).

#[export] Instance GxMdtConfiguration_ok : StructOk calcLengthGxMdtConfiguration packGxMdtConfiguration unpackGxMdtConfiguration view_GxMdtConfiguration good_GxMdtConfiguration.
Proof. struct_ok. Qed.

Definition view_GxTraceData (d : GxTraceData) : gval := GSub [
    GRaw (le_bytes GxTraceDataPresence d.(GxTraceData_presence));
    opt (has_GxTraceData_trace_reference d) (view_octets GxTraceReferenceOctetString d.(GxTraceData_trace_reference));
    opt (has_GxTraceData_trace_depth d) (view_basic int32_t d.(GxTraceData_trace_depth));
    opt (has_GxTraceData_trace_ne_type_list d) (view_octets GxTraceNeTypeListOctetString d.(GxTraceData_trace_ne_type_list));
    opt (has_GxTraceData_trace_interface_list d) (view_octets GxTraceInterfaceListOctetString d.(GxTraceData_trace_interface_list));
    opt (has_GxTraceData_trace_event_list d) (view_octets GxTraceEventListOctetString d.(GxTraceData_trace_event_list));
    opt (has_GxTraceData_omc_id d) (view_octets GxOmcIdOctetString d.(GxTraceData_omc_id));
    opt (has_GxTraceData_trace_collection_entity d) (view_basic FdAddress d.(GxTraceData_trace_collection_entity));
    opt (has_GxTraceData_mdt_configuration d) (view_GxMdtConfiguration d.(GxTraceData_mdt_configuration))].

Definition good_GxTraceData (d : GxTraceData) : Prop :=
  fits (uint_of GxTraceDataPresence) d.(GxTraceData_presence) ∧
  when (has_GxTraceData_trace_reference d) (good_octets GxTraceReferenceOctetString d.(GxTraceData_trace_reference)) ∧
  when (has_GxTraceData_trace_depth d) (fits int32_t d.(GxTraceData_trace_depth)) ∧
  when (has_GxTraceData_trace_ne_type_list d) (good_octets GxTraceNeTypeListOctetString d.(GxTraceData_trace_ne_type_list)) ∧
  when (has_GxTraceData_trace_interface_list d) (good_octets GxTraceInterfaceListOctetString d.(GxTraceData_trace_interface_list)) ∧
  when (has_GxTraceData_trace_event_list d) (good_octets GxTraceEventListOctetString d.(GxTraceData_trace_event_list)) ∧
  when (has_GxTraceData_omc_id d) (good_octets GxOmcIdOctetString d.(GxTraceData_omc_id)) ∧
  when (has_GxTraceData_trace_collection_entity d) (fits FdAddress d.(GxTraceData_trace_collection_entity)) ∧
  when (has_GxTraceData_mdt_configuration d) (good_GxMdtConfiguration d.(GxTraceData_mdt_configuration)).

#[export] Instance GxTraceData_ok : StructOk calcLengthGxTraceData packGxTraceData unpackGxTraceData view_GxTraceData good_GxTraceData.
Proof. struct_ok. Qed.

Definition view_GxUserCsgInformation (d : GxUserCsgInformation) : gval := GSub [
    GRaw (le_bytes GxUserCsgInformationPresence d.(GxUserCsgInformation_presence));
    opt (has_GxUserCsgInformation_csg_id d) (view_basic uint32_t d.(GxUserCsgInformation_csg_id));
    opt (has_GxUserCsgInformation_csg_access_mode d) (view_basic int32_t d.(GxUserCsgInformation_csg_access_mode));
    opt (has_GxUserCsgInformation_csg_membership_indication d) (view_basic int32_t d.(GxUserCsgInformation_csg_membership_indication))].

Definition good_GxUserCsgInformation (d : GxUserCsgInformation) : Prop :=
  fits (uint_of GxUserCsgInformationPresence) d.(GxUserCsgInformation_presence) ∧
  when (has_GxUserCsgInformation_csg_id d) (fits uint32_t d.(GxUserCsgInformation_csg_id)) ∧
  when (has_GxUserCsgInformation_csg_access_mode d) (fits int32_t d.(GxUserCsgInformation_csg_access_mode)) ∧
  when (has_GxUserCsgInformation_csg_membership_indication d) (fits int32_t d.(GxUserCsgInformation_csg_membership_indication)).

#[export] Instance GxUserCsgInformation_ok : StructOk calcLengthGxUserCsgInformation packGxUserCsgInformation unpackGxUserCsgInformation view_GxUserCsgInformation good_GxUserCsgInformation.
Proof. struct_ok. Qed.

Definition view_GxEventReportIndication (d : GxEventReportIndication) : gval := GSub [
    GRaw (le_bytes GxEventReportIndicationPresence d.(GxEventReportIndication_presence));
    opt (has_GxEventReportIndication_an_trusted d) (view_basic int32_t d.(GxEventReportIndication_an_trusted));
    opt (has_GxEventReportIndication_event_trigger d) (view_list (view_basic int32_t) d.(GxEventReportIndication_event_trigger));
    opt (has_GxEventReportIndication_user_csg_information d) (view_GxUserCsgInformation d.(GxEventReportIndication_user_csg_information));
    opt (has_GxEventReportIndication_ip_can_type d) (view_basic int32_t d.(GxEventReportIndication_ip_can_type));
    opt (has_GxEventReportIndication_an_gw_address d) (view_list (view_basic FdAddress) d.(GxEventReportIndication_an_gw_address));
    opt (has_GxEventReportIndication_tgpp_sgsn_address d) (view_octets Gx3gppSgsnAddressOctetString d.(GxEventReportIndication_tgpp_sgsn_address));
    opt (has_GxEventReportIndication_tgpp_sgsn_ipv6_address d) (view_octets Gx3gppSgsnIpv6AddressOctetString d.(GxEventReportIndication_tgpp_sgsn_ipv6_address));
    opt (has_GxEventReportIndication_tgpp_sgsn_mcc_mnc d) (view_octets Gx3gppSgsnMccMncOctetString d.(GxEventReportIndication_tgpp_sgsn_mcc_mnc));
    opt (has_GxEventReportIndication_framed_ip_address d) (view_octets GxFramedIpAddressOctetString d.(GxEventReportIndication_framed_ip_address));
    opt (has_GxEventReportIndication_rat_type d) (view_basic int32_t d.(GxEventReportIndication_rat_type));
    opt (has_GxEventReportIndication_rai d) (view_octets GxRaiOctetString d.(GxEventReportIndication_rai));
    opt (has_GxEventReportIndication_tgpp_user_location_info d) (view_octets Gx3gppUserLocationInfoOctetString d.(GxEventReportIndication_tgpp_user_location_info));
    opt (has_GxEventReportIndication_trace_data d) (view_GxTraceData d.(GxEventReportIndication_trace_data));
    opt (has_GxEventReportIndication_trace_reference d) (view_octets GxTraceReferenceOctetString d.(GxEventReportIndication_trace_reference));
    opt (has_GxEventReportIndication_tgpp2_bsid d) (view_octets Gx3gpp2BsidOctetString d.(GxEventReportIndication_tgpp2_bsid));
    opt (has_GxEventReportIndication_tgpp_ms_timezone d) (view_octets Gx3gppMsTimezoneOctetString d.(GxEventReportIndication_tgpp_ms_timezone));
    opt (has_GxEventReportIndication_routing_ip_address d) (view_basic FdAddress d.(GxEventReportIndication_routing_ip_address));
    opt (has_GxEventReportIndication_ue_local_ip_address d) (view_basic FdAddress d.(GxEventReportIndication_ue_local_ip_address));
    opt (has_GxEventReportIndication_henb_local_ip_address d) (view_basic FdAddress d.(GxEventReportIndication_henb_local_ip_address));
    opt (has_GxEventReportIndication_udp_source_port d) (view_basic uint32_t d.(GxEventReportIndication_udp_source_port));
    opt (has_GxEventReportIndication_presence_reporting_area_information d) (view_GxPresenceReportingAreaInformation d.(GxEventReportIndication_presence_reporting_area_information))].

Definition good_GxEventReportIndication (d : GxEventReportIndication) : Prop :=
  fits (uint_of GxEventReportIndicationPresence) d.(GxEventReportIndication_presence) ∧
  when (has_GxEventReportIndication_an_trusted d) (fits int32_t d.(GxEventReportIndication_an_trusted)) ∧
  when (has_GxEventReportIndication_event_trigger d) (good_list (fits int32_t) d.(GxEventReportIndication_event_trigger)) ∧
  when (has_GxEventReportIndication_user_csg_information d) (good_GxUserCsgInformation d.(GxEventReportIndication_user_csg_information)) ∧
  when (has_GxEventReportIndication_ip_can_type d) (fits int32_t d.(GxEventReportIndication_ip_can_type)) ∧
  when (has_GxEventReportIndication_an_gw_address d) (good_list (fits FdAddress) d.(GxEventReportIndication_an_gw_address)) ∧
  when (has_GxEventReportIndication_tgpp_sgsn_address d) (good_octets Gx3gppSgsnAddressOctetString d.(GxEventReportIndication_tgpp_sgsn_address)) ∧
  when (has_GxEventReportIndication_tgpp_sgsn_ipv6_address d) (good_octets Gx3gppSgsnIpv6AddressOctetString d.(GxEventReportIndication_tgpp_sgsn_ipv6_address)) ∧
  when (has_GxEventReportIndication_tgpp_sgsn_mcc_mnc d) (good_octets Gx3gppSgsnMccMncOctetString d.(GxEventReportIndication_tgpp_sgsn_mcc_mnc)) ∧
  when (has_GxEventReportIndication_framed_ip_address d) (good_octets GxFramedIpAddressOctetString d.(GxEventReportIndication_framed_ip_address)) ∧
  when (has_GxEventReportIndication_rat_type d) (fits int32_t d.(GxEventReportIndication_rat_type)) ∧
  when (has_GxEventReportIndication_rai d) (good_octets GxRaiOctetString d.(GxEventReportIndication_rai)) ∧
  when (has_GxEventReportIndication_tgpp_user_location_info d) (good_octets Gx3gppUserLocationInfoOctetString d.(GxEventReportIndication_tgpp_user_location_info)) ∧
  when (has_GxEventReportIndication_trace_data d) (good_GxTraceData d.(GxEventReportIndication_trace_data)) ∧
  when (has_GxEventReportIndication_trace_reference d) (good_octets GxTraceReferenceOctetString d.(GxEventReportIndication_trace_reference)) ∧
  when (has_GxEventReportIndication_tgpp2_bsid d) (good_octets Gx3gpp2BsidOctetString d.(GxEventReportIndication_tgpp2_bsid)) ∧
  when (has_GxEventReportIndication_tgpp_ms_timezone d) (good_octets Gx3gppMsTimezoneOctetString d.(GxEventReportIndication_tgpp_ms_timezone)) ∧
  when (has_GxEventReportIndication_routing_ip_address d) (fits FdAddress d.(GxEventReportIndication_routing_ip_address)) ∧
  when (has_GxEventReportIndication_ue_local_ip_address d) (fits FdAddress d.(GxEventReportIndication_ue_local_ip_address)) ∧
  when (has_GxEventReportIndication_henb_local_ip_address d) (fits FdAddress d.(GxEventReportIndication_henb_local_ip_address)) ∧
  when (has_GxEventReportIndication_udp_source_port d) (fits uint32_t d.(GxEventReportIndication_udp_source_port)) ∧
  when (has_GxEventReportIndication_presence_reporting_area_information d) (good_GxPresenceReportingAreaInformation d.(GxEventReportIndication_presence_reporting_area_information)).

#[export] Instance GxEventReportIndication_ok : StructOk calcLengthGxEventReportIndication packGxEventReportIndication unpackGxEventReportIndication view_GxEventReportIndication good_GxEventReportIndication.
Proof. struct_ok. Qed.

Definition view_GxFlowInformation (d : GxFlowInformation) : gval := GSub [
    GRaw (le_bytes GxFlowInformationPresence d.(GxFlowInformation_presence));
    opt (has_GxFlowInformation_flow_description d) (view_octets GxFlowDescriptionOctetString d.(GxFlowInformation_flow_description));
    opt (has_GxFlowInformation_packet_filter_identifier d) (view_octets GxPacketFilterIdentifierOctetString d.(GxFlowInformation_packet_filter_identifier));
    opt (has_GxFlowInformation_packet_filter_usage d) (view_basic int32_t d.(GxFlowInformation_packet_filter_usage));
    opt (has_GxFlowInformation_tos_traffic_class d) (view_octets GxTosTrafficClassOctetString d.(GxFlowInformation_tos_traffic_class));
    opt (has_GxFlowInformation_security_parameter_index d) (view_octets GxSecurityParameterIndexOctetString d.(GxFlowInformation_security_parameter_index));
    opt (has_GxFlowInformation_flow_label d) (view_octets GxFlowLabelOctetString d.(GxFlowInformation_flow_label));
    opt (has_GxFlowInformation_flow_direction d) (view_basic int32_t d.(GxFlowInformation_flow_direction));
    opt (has_GxFlowInformation_routing_rule_identifier d) (view_octets GxRoutingRuleIdentifierOctetString d.(GxFlowInformation_routing_rule_identifier))].

Definition good_GxFlowInformation (d : GxFlowInformation) : Prop :=
  fits (uint_of GxFlowInformationPresence) d.(GxFlowInformation_presence) ∧
  when (has_GxFlowInformation_flow_description d) (good_octets GxFlowDescriptionOctetString d.(GxFlowInformation_flow_description)) ∧
  when (has_GxFlowInformation_packet_filter_identifier d) (good_octets GxPacketFilterIdentifierOctetString d.(GxFlowInformation_packet_filter_identifier)) ∧
  when (has_GxFlowInformation_packet_filter_usage d) (fits int32_t d.(GxFlowInformation_packet_filter_usage)) ∧
  when (has_GxFlowInformation_tos_traffic_class d) (good_octets GxTosTrafficClassOctetString d.(GxFlowInformation_tos_traffic_class)) ∧
  when (has_GxFlowInformation_security_parameter_index d) (good_octets GxSecurityParameterIndexOctetString d.(GxFlowInformation_security_parameter_index)) ∧
  when (has_GxFlowInformation_flow_label d) (good_octets GxFlowLabelOctetString d.(GxFlowInformation_flow_label)) ∧
  when (has_GxFlowInformation_flow_direction d) (fits int32_t d.(GxFlowInformation_flow_direction)) ∧
  when (has_GxFlowInformation_routing_rule_identifier d) (good_octets GxRoutingRuleIdentifierOctetString d.(GxFlowInformation_routing_rule_identifier)).

#[export] Instance GxFlowInformation_ok : StructOk calcLengthGxFlowInformation packGxFlowInformation unpackGxFlowInformation view_GxFlowInformation good_GxFlowInformation.
Proof. struct_ok. Qed.

Definition view_GxApplicationDetectionInformation (d : GxApplicationDetectionInformation) : gval := GSub [
    GRaw (le_bytes GxApplicationDetectionInformationPresence d.(GxApplicationDetectionInformation_presence));
    opt (has_GxApplicationDetectionInformation_tdf_application_identifier d) (view_octets GxTdfApplicationIdentifierOctetString d.(GxApplicationDetectionInformation_tdf_application_identifier));
    opt (has_GxApplicationDetectionInformation_tdf_application_instance_identifier d) (view_octets GxTdfApplicationInstanceIdentifierOctetString d.(GxApplicationDetectionInformation_tdf_application_instance_identifier));
    opt (has_GxApplicationDetectionInformation_flow_information d) (view_list view_GxFlowInformation d.(GxApplicationDetectionInformation_flow_information))].

Definition good_GxApplicationDetectionInformation (d : GxApplicationDetectionInformation) : Prop :=
  fits (uint_of GxApplicationDetectionInformationPresence) d.(GxApplicationDetectionInformation_presence) ∧
  when (has_GxApplicationDetectionInformation_tdf_application_identifier d) (good_octets GxTdfApplicationIdentifierOctetString d.(GxApplicationDetectionInformation_tdf_application_identifier)) ∧
  when (has_GxApplicationDetectionInformation_tdf_application_instance_identifier d) (good_octets GxTdfApplicationInstanceIdentifierOctetString d.(GxApplicationDetectionInformation_tdf_application_instance_identifier)) ∧
  when (has_GxApplicationDetectionInformation_flow_information d) (good_list good_GxFlowInformation d.(GxApplicationDetectionInformation_flow_information)).

#[export] Instance GxApplicationDetectionInformation_ok : StructOk calcLengthGxApplicationDetectionInformation packGxApplicationDetectionInformation unpackGxApplicationDetectionInformation view_GxApplicationDetectionInformation good_GxApplicationDetectionInformation.
Proof. struct_ok. Qed.

Definition view_GxRedirectServer (d : GxRedirectServer) : gval := GSub [
    GRaw (le_bytes GxRedirectServerPresence d.(GxRedirectServer_presence));
    opt (has_GxRedirectServer_redirect_address_type d) (view_basic int32_t d.(GxRedirectServer_redirect_address_type));
    opt (has_GxRedirectServer_redirect_server_address d) (view_octets GxRedirectServerAddressOctetString d.(GxRedirectServer_redirect_server_address))].

Definition good_GxRedirectServer (d : GxRedirectServer) : Prop :=
  fits (uint_of GxRedirectServerPresence) d.(GxRedirectServer_presence) ∧
  when (has_GxRedirectServer_redirect_address_type d) (fits int32_t d.(GxRedirectServer_redirect_address_type)) ∧
  when (has_GxRedirectServer_redirect_server_address d) (good_octets GxRedirectServerAddressOctetString d.(GxRedirectServer_redirect_server_address)).

#[export] Instance GxRedirectServer_ok : StructOk calcLengthGxRedirectServer packGxRedirectServer unpackGxRedirectServer view_GxRedirectServer good_GxRedirectServer.
Proof. struct_ok. Qed.

Definition view_GxFinalUnitIndication (d : GxFinalUnitIndication) : gval := GSub [
    GRaw (le_bytes GxFinalUnitIndicationPresence d.(GxFinalUnitIndication_presence));
    opt (has_GxFinalUnitIndication_final_unit_action d) (view_basic int32_t d.(GxFinalUnitIndication_final_unit_action));
    opt (has_GxFinalUnitIndication_restriction_filter_rule d) (view_list (view_octets GxRestrictionFilterRuleOctetString) d.(GxFinalUnitIndication_restriction_filter_rule));
    opt (has_GxFinalUnitIndication_filter_id d) (view_list (view_octets GxFilterIdOctetString) d.(GxFinalUnitIndication_filter_id));
    opt (has_GxFinalUnitIndication_redirect_server d) (view_GxRedirectServer d.(GxFinalUnitIndication_redirect_server))].

Definition good_GxFinalUnitIndication (d : GxFinalUnitIndication) : Prop :=
  fits (uint_of GxFinalUnitIndicationPresence) d.(GxFinalUnitIndication_presence) ∧
  when (has_GxFinalUnitIndication_final_unit_action d) (fits int32_t d.(GxFinalUnitIndication_final_unit_action)) ∧
  when (has_GxFinalUnitIndication_restriction_filter_rule d) (good_octets_list GxRestrictionFilterRuleOctetString d.(GxFinalUnitIndication_restriction_filter_rule)) ∧
  when (has_GxFinalUnitIndication_filter_id d) (good_octets_list GxFilterIdOctetString d.(GxFinalUnitIndication_filter_id)) ∧
  when (has_GxFinalUnitIndication_redirect_server d) (good_GxRedirectServer d.(GxFinalUnitIndication_redirect_server)).

#[export] Instance GxFinalUnitIndication_ok : StructOk calcLengthGxFinalUnitIndication packGxFinalUnitIndication unpackGxFinalUnitIndication view_GxFinalUnitIndication good_GxFinalUnitIndication.
Proof. struct_ok. Qed.

Definition view_GxChargingRuleReport (d : GxChargingRuleReport) : gval := GSub [
    GRaw (le_bytes GxChargingRuleReportPresence d.(GxChargingRuleReport_presence));
    opt (has_GxChargingRuleReport_charging_rule_name d) (view_list (view_octets GxChargingRuleNameOctetString) d.(GxChargingRuleReport_charging_rule_name));
    opt (has_GxChargingRuleReport_charging_rule_base_name d) (view_list (view_octets GxChargingRuleBaseNameOctetString) d.(GxChargingRuleReport_charging_rule_base_name));
    opt (has_GxChargingRuleReport_bearer_identifier d) (view_octets GxBearerIdentifierOctetString d.(GxChargingRuleReport_bearer_identifier));
    opt (has_GxChargingRuleReport_pcc_rule_status d) (view_basic int32_t d.(GxChargingRuleReport_pcc_rule_status));
    opt (has_GxChargingRuleReport_rule_failure_code d) (view_basic int32_t d.(GxChargingRuleReport_rule_failure_code));
    opt (has_GxChargingRuleReport_final_unit_indication d) (view_GxFinalUnitIndication d.(GxChargingRuleReport_final_unit_indication));
    opt (has_GxChargingRuleReport_ran_nas_release_cause d) (view_list (view_octets GxRanNasReleaseCauseOctetString) d.(GxChargingRuleReport_ran_nas_release_cause));
    opt (has_GxChargingRuleReport_content_version d) (view_list (view_basic uint64_t) d.(GxChargingRuleReport_content_version))].

Definition good_GxChargingRuleReport (d : GxChargingRuleReport) : Prop :=
  fits (uint_of GxChargingRuleReportPresence) d.(GxChargingRuleReport_presence) ∧
  when (has_GxChargingRuleReport_charging_rule_name d) (good_octets_list GxChargingRuleNameOctetString d.(GxChargingRuleReport_charging_rule_name)) ∧
  when (has_GxChargingRuleReport_charging_rule_base_name d) (good_octets_list GxChargingRuleBaseNameOctetString d.(GxChargingRuleReport_charging_rule_base_name)) ∧
  when (has_GxChargingRuleReport_bearer_identifier d) (good_octets GxBearerIdentifierOctetString d.(GxChargingRuleReport_bearer_identifier)) ∧
  when (has_GxChargingRuleReport_pcc_rule_status d) (fits int32_t d.(GxChargingRuleReport_pcc_rule_status)) ∧
  when (has_GxChargingRuleReport_rule_failure_code d) (fits int32_t d.(GxChargingRuleReport_rule_failure_code)) ∧
  when (has_GxChargingRuleReport_final_unit_indication d) (good_GxFinalUnitIndication d.(GxChargingRuleReport_final_unit_indication)) ∧
  when (has_GxChargingRuleReport_ran_nas_release_cause d) (good_octets_list GxRanNasReleaseCauseOctetString d.(GxChargingRuleReport_ran_nas_release_cause)) ∧
  when (has_GxChargingRuleReport_content_version d) (good_list (fits uint64_t) d.(GxChargingRuleReport_content_version)).

#[export] Instance GxChargingRuleReport_ok : StructOk calcLengthGxChargingRuleReport packGxChargingRuleReport unpackGxChargingRuleReport view_GxChargingRuleReport good_GxChargingRuleReport.
Proof. struct_ok. Qed.

Definition view_GxTftPacketFilterInformation (d : GxTftPacketFilterInformation) : gval := GSub [
    GRaw (le_bytes GxTftPacketFilterInformationPresence d.(GxTftPacketFilterInformation_presence));
    opt (has_GxTftPacketFilterInformation_precedence d) (view_basic uint32_t d.(GxTftPacketFilterInformation_precedence));
    opt (has_GxTftPacketFilterInformation_tft_filter d) (view_octets GxTftFilterOctetString d.(GxTftPacketFilterInformation_tft_filter));
    opt (has_GxTftPacketFilterInformation_tos_traffic_class d) (view_octets GxTosTrafficClassOctetString d.(GxTftPacketFilterInformation_tos_traffic_class));
    opt (has_GxTftPacketFilterInformation_security_parameter_index d) (view_octets GxSecurityParameterIndexOctetString d.(GxTftPacketFilterInformation_security_parameter_index));
    opt (has_GxTftPacketFilterInformation_flow_label d) (view_octets GxFlowLabelOctetString d.(GxTftPacketFilterInformation_flow_label));
    opt (has_GxTftPacketFilterInformation_flow_direction d) (view_basic int32_t d.(GxTftPacketFilterInformation_flow_direction))].

Definition good_GxTftPacketFilterInformation (d : GxTftPacketFilterInformation) : Prop :=
  fits (uint_of GxTftPacketFilterInformationPresence) d.(GxTftPacketFilterInformation_presence) ∧
  when (has_GxTftPacketFilterInformation_precedence d) (fits uint32_t d.(GxTftPacketFilterInformation_precedence)) ∧
  when (has_GxTftPacketFilterInformation_tft_filter d) (good_octets GxTftFilterOctetString d.(GxTftPacketFilterInformation_tft_filter)) ∧
  when (has_GxTftPacketFilterInformation_tos_traffic_class d) (good_octets GxTosTrafficClassOctetString d.(GxTftPacketFilterInformation_tos_traffic_class)) ∧
  when (has_GxTftPacketFilterInformation_security_parameter_index d) (good_octets GxSecurityParameterIndexOctetString d.(GxTftPacketFilterInformation_security_parameter_index)) ∧
  when (has_GxTftPacketFilterInformation_flow_label d) (good_octets GxFlowLabelOctetString d.(GxTftPacketFilterInformation_flow_label)) ∧
  when (has_GxTftPacketFilterInformation_flow_direction d) (fits int32_t d.(GxTftPacketFilterInformation_flow_direction)).

#[export] Instance GxTftPacketFilterInformation_ok : StructOk calcLengthGxTftPacketFilterInformation packGxTftPacketFilterInformation unpackGxTftPacketFilterInformation view_GxTftPacketFilterInformation good_GxTftPacketFilterInformation.
Proof. struct_ok. Qed.

Definition view_GxFixedUserLocationInfo (d : GxFixedUserLocationInfo) : gval := GSub [
    GRaw (le_bytes GxFixedUserLocationInfoPresence d.(GxFixedUserLocationInfo_presence));
    opt (has_GxFixedUserLocationInfo_ssid d) (view_octets GxSsidOctetString d.(GxFixedUserLocationInfo_ssid));
    opt (has_GxFixedUserLocationInfo_bssid d) (view_octets GxBssidOctetString d.(GxFixedUserLocationInfo_bssid));
    opt (has_GxFixedUserLocationInfo_logical_access_id d) (view_octets GxLogicalAccessIdOctetString d.(GxFixedUserLocationInfo_logical_access_id));
    opt (has_GxFixedUserLocationInfo_physical_access_id d) (view_octets GxPhysicalAccessIdOctetString d.(GxFixedUserLocationInfo_physical_access_id))].

Definition good_GxFixedUserLocationInfo (d : GxFixedUserLocationInfo) : Prop :=
  fits (uint_of GxFixedUserLocationInfoPresence) d.(GxFixedUserLocationInfo_presence) ∧
  when (has_GxFixedUserLocationInfo_ssid d) (good_octets GxSsidOctetString d.(GxFixedUserLocationInfo_ssid)) ∧
  when (has_GxFixedUserLocationInfo_bssid d) (good_octets GxBssidOctetString d.(GxFixedUserLocationInfo_bssid)) ∧
  when (has_GxFixedUserLocationInfo_logical_access_id d) (good_octets GxLogicalAccessIdOctetString d.(GxFixedUserLocationInfo_logical_access_id)) ∧
  when (has_GxFixedUserLocationInfo_physical_access_id d) (good_octets GxPhysicalAccessIdOctetString d.(GxFixedUserLocationInfo_physical_access_id)).

#[export] Instance GxFixedUserLocationInfo_ok : StructOk calcLengthGxFixedUserLocationInfo packGxFixedUserLocationInfo unpackGxFixedUserLocationInfo view_GxFixedUserLocationInfo good_GxFixedUserLocationInfo.
Proof. struct_ok. Qed.

Definition view_GxDefaultQosInformation (d : GxDefaultQosInformation) : gval := GSub [
    GRaw (le_bytes GxDefaultQosInformationPresence d.(GxDefaultQosInformation_presence));
    opt (has_GxDefaultQosInformation_qos_class_identifier d) (view_basic int32_t d.(GxDefaultQosInformation_qos_class_identifier));
    opt (has_GxDefaultQosInformation_max_requested_bandwidth_ul d) (view_basic uint32_t d.(GxDefaultQosInformation_max_requested_bandwidth_ul));
    opt (has_GxDefaultQosInformation_max_requested_bandwidth_dl d) (view_basic uint32_t d.(GxDefaultQosInformation_max_requested_bandwidth_dl));
    opt (has_GxDefaultQosInformation_default_qos_name d) (view_octets GxDefaultQosNameOctetString d.(GxDefaultQosInformation_default_qos_name))].

Definition good_GxDefaultQosInformation (d : GxDefaultQosInformation) : Prop :=
  fits (uint_of GxDefaultQosInformationPresence) d.(GxDefaultQosInformation_presence) ∧
  when (has_GxDefaultQosInformation_qos_class_identifier d) (fits int32_t d.(GxDefaultQosInformation_qos_class_identifier)) ∧
  when (has_GxDefaultQosInformation_max_requested_bandwidth_ul d) (fits uint32_t d.(GxDefaultQosInformation_max_requested_bandwidth_ul)) ∧
  when (has_GxDefaultQosInformation_max_requested_bandwidth_dl d) (fits uint32_t d.(GxDefaultQosInformation_max_requested_bandwidth_dl)) ∧
  when (has_GxDefaultQosInformation_default_qos_name d) (good_octets GxDefaultQosNameOctetString d.(GxDefaultQosInformation_default_qos_name)).

#[export] Instance GxDefaultQosInformation_ok : StructOk calcLengthGxDefaultQosInformation packGxDefaultQosInformation unpackGxDefaultQosInformation view_GxDefaultQosInformation good_GxDefaultQosInformation.
Proof. struct_ok. Qed.

Definition view_GxAllocationRetentionPriority (d : GxAllocationRetentionPriority) : gval := GSub [
    GRaw (le_bytes GxAllocationRetentionPriorityPresence d.(GxAllocationRetentionPriority_presence));
    opt (has_GxAllocationRetentionPriority_priority_level d) (view_basic uint32_t d.(GxAllocationRetentionPriority_priority_level));
    opt (has_GxAllocationRetentionPriority_pre_emption_capability d) (view_basic int32_t d.(GxAllocationRetentionPriority_pre_emption_capability));
    opt (has_GxAllocationRetentionPriority_pre_emption_vulnerability d) (view_basic int32_t d.(GxAllocationRetentionPriority_pre_emption_vulnerability))].

Definition good_GxAllocationRetentionPriority (d : GxAllocationRetentionPriority) : Prop :=
  fits (uint_of GxAllocationRetentionPriorityPresence) d.(GxAllocationRetentionPriority_presence) ∧
  when (has_GxAllocationRetentionPriority_priority_level d) (fits uint32_t d.(GxAllocationRetentionPriority_priority_level)) ∧
  when (has_GxAllocationRetentionPriority_pre_emption_capability d) (fits int32_t d.(GxAllocationRetentionPriority_pre_emption_capability)) ∧
  when (has_GxAllocationRetentionPriority_pre_emption_vulnerability d) (fits int32_t d.(GxAllocationRetentionPriority_pre_emption_vulnerability)).

#[export] Instance GxAllocationRetentionPriority_ok : StructOk calcLengthGxAllocationRetentionPriority packGxAllocationRetentionPriority unpackGxAllocationRetentionPriority view_GxAllocationRetentionPriority good_GxAllocationRetentionPriority.
Proof. struct_ok. Qed.

Definition view_GxDefaultEpsBearerQos (d : GxDefaultEpsBearerQos) : gval := GSub [
    GRaw (le_bytes GxDefaultEpsBearerQosPresence d.(GxDefaultEpsBearerQos_presence));
    opt (has_GxDefaultEpsBearerQos_qos_class_identifier d) (view_basic int32_t d.(GxDefaultEpsBearerQos_qos_class_identifier));
    opt (has_GxDefaultEpsBearerQos_allocation_retention_priority d) (view_GxAllocationRetentionPriority d.(GxDefaultEpsBearerQos_allocation_retention_priority))].

Definition good_GxDefaultEpsBearerQos (d : GxDefaultEpsBearerQos) : Prop :=
  fits (uint_of GxDefaultEpsBearerQosPresence) d.(GxDefaultEpsBearerQos_presence) ∧
  when (has_GxDefaultEpsBearerQos_qos_class_identifier d) (fits int32_t d.(GxDefaultEpsBearerQos_qos_class_identifier)) ∧
  when (has_GxDefaultEpsBearerQos_allocation_retention_priority d) (good_GxAllocationRetentionPriority d.(GxDefaultEpsBearerQos_allocation_retention_priority)).

#[export] Instance GxDefaultEpsBearerQos_ok : StructOk calcLengthGxDefaultEpsBearerQos packGxDefaultEpsBearerQos unpackGxDefaultEpsBearerQos view_GxDefaultEpsBearerQos good_GxDefaultEpsBearerQos.
Proof. struct_ok. Qed.

Definition view_GxConditionalApnAggregateMaxBitrate (d : GxConditionalApnAggregateMaxBitrate) : gval := GSub [
    GRaw (le_bytes GxConditionalApnAggregateMaxBitratePresence d.(GxConditionalApnAggregateMaxBitrate_presence));
    opt (has_GxConditionalApnAggregateMaxBitrate_apn_aggregate_max_bitrate_ul d) (view_basic uint32_t d.(GxConditionalApnAggregateMaxBitrate_apn_aggregate_max_bitrate_ul));
    opt (has_GxConditionalApnAggregateMaxBitrate_apn_aggregate_max_bitrate_dl d) (view_basic uint32_t d.(GxConditionalApnAggregateMaxBitrate_apn_aggregate_max_bitrate_dl));
    opt (has_GxConditionalApnAggregateMaxBitrate_extended_apn_ambr_ul d) (view_basic uint32_t d.(GxConditionalApnAggregateMaxBitrate_extended_apn_ambr_ul));
    opt (has_GxConditionalApnAggregateMaxBitrate_extended_apn_ambr_dl d) (view_basic uint32_t d.(GxConditionalApnAggregateMaxBitrate_extended_apn_ambr_dl));
    opt (has_GxConditionalApnAggregateMaxBitrate_ip_can_type d) (view_list (view_basic int32_t) d.(GxConditionalApnAggregateMaxBitrate_ip_can_type));
    opt (has_GxConditionalApnAggregateMaxBitrate_rat_type d) (view_list (view_basic int32_t) d.(GxConditionalApnAggregateMaxBitrate_rat_type))].

Definition good_GxConditionalApnAggregateMaxBitrate (d : GxConditionalApnAggregateMaxBitrate) : Prop :=
  fits (uint_of GxConditionalApnAggregateMaxBitratePresence) d.(GxConditionalApnAggregateMaxBitrate_presence) ∧
  when (has_GxConditionalApnAggregateMaxBitrate_apn_aggregate_max_bitrate_ul d) (fits uint32_t d.(GxConditionalApnAggregateMaxBitrate_apn_aggregate_max_bitrate_ul)) ∧
  when (has_GxConditionalApnAggregateMaxBitrate_apn_aggregate_max_bitrate_dl d) (fits uint32_t d.(GxConditionalApnAggregateMaxBitrate_apn_aggregate_max_bitrate_dl)) ∧
  when (has_GxConditionalApnAggregateMaxBitrate_extended_apn_ambr_ul d) (fits uint32_t d.(GxConditionalApnAggregateMaxBitrate_extended_apn_ambr_ul)) ∧
  when (has_GxConditionalApnAggregateMaxBitrate_extended_apn_ambr_dl d) (fits uint32_t d.(GxConditionalApnAggregateMaxBitrate_extended_apn_ambr_dl)) ∧
  when (has_GxConditionalApnAggregateMaxBitrate_ip_can_type d) (good_list (fits int32_t) d.(GxConditionalApnAggregateMaxBitrate_ip_can_type)) ∧
  when (has_GxConditionalApnAggregateMaxBitrate_rat_type d) (good_list (fits int32_t) d.(GxConditionalApnAggregateMaxBitrate_rat_type)).

#[export] Instance GxConditionalApnAggregateMaxBitrate_ok : StructOk calcLengthGxConditionalApnAggregateMaxBitrate packGxConditionalApnAggregateMaxBitrate unpackGxConditionalApnAggregateMaxBitrate view_GxConditionalApnAggregateMaxBitrate good_GxConditionalApnAggregateMaxBitrate.
Proof. struct_ok. Qed.

Definition view_GxQosInformation (d : GxQosInformation) : gval := GSub [
    GRaw (le_bytes GxQosInformationPresence d.(GxQosInformation_presence));
    opt (has_GxQosInformation_qos_class_identifier d) (view_basic int32_t d.(GxQosInformation_qos_class_identifier));
    opt (has_GxQosInformation_max_requested_bandwidth_ul d) (view_basic uint32_t d.(GxQosInformation_max_requested_bandwidth_ul));
    opt (has_GxQosInformation_max_requested_bandwidth_dl d) (view_basic uint32_t d.(GxQosInformation_max_requested_bandwidth_dl));
    opt (has_GxQosInformation_extended_max_requested_bw_ul d) (view_basic uint32_t d.(GxQosInformation_extended_max_requested_bw_ul));
    opt (has_GxQosInformation_extended_max_requested_bw_dl d) (view_basic uint32_t d.(GxQosInformation_extended_max_requested_bw_dl));
    opt (has_GxQosInformation_guaranteed_bitrate_ul d) (view_basic uint32_t d.(GxQosInformation_guaranteed_bitrate_ul));
    opt (has_GxQosInformation_guaranteed_bitrate_dl d) (view_basic uint32_t d.(GxQosInformation_guaranteed_bitrate_dl));
    opt (has_GxQosInformation_extended_gbr_ul d) (view_basic uint32_t d.(GxQosInformation_extended_gbr_ul));
    opt (has_GxQosInformation_extended_gbr_dl d) (view_basic uint32_t d.(GxQosInformation_extended_gbr_dl));
    opt (has_GxQosInformation_bearer_identifier d) (view_octets GxBearerIdentifierOctetString d.(GxQosInformation_bearer_identifier));
    opt (has_GxQosInformation_allocation_retention_priority d) (view_GxAllocationRetentionPriority d.(GxQosInformation_allocation_retention_priority));
    opt (has_GxQosInformation_apn_aggregate_max_bitrate_ul d) (view_basic uint32_t d.(GxQosInformation_apn_aggregate_max_bitrate_ul));
    opt (has_GxQosInformation_apn_aggregate_max_bitrate_dl d) (view_basic uint32_t d.(GxQosInformation_apn_aggregate_max_bitrate_dl));
    opt (has_GxQosInformation_extended_apn_ambr_ul d) (view_basic uint32_t d.(GxQosInformation_extended_apn_ambr_ul));
    opt (has_GxQosInformation_extended_apn_ambr_dl d) (view_basic uint32_t d.(GxQosInformation_extended_apn_ambr_dl));
    opt (has_GxQosInformation_conditional_apn_aggregate_max_bitrate d) (view_list view_GxConditionalApnAggregateMaxBitrate d.(GxQosInformation_conditional_apn_aggregate_max_bitrate))].

Definition good_GxQosInformation (d : GxQosInformation) : Prop :=
  fits (uint_of GxQosInformationPresence) d.(GxQosInformation_presence) ∧
  when (has_GxQosInformation_qos_class_identifier d) (fits int32_t d.(GxQosInformation_qos_class_identifier)) ∧
  when (has_GxQosInformation_max_requested_bandwidth_ul d) (fits uint32_t d.(GxQosInformation_max_requested_bandwidth_ul)) ∧
  when (has_GxQosInformation_max_requested_bandwidth_dl d) (fits uint32_t d.(GxQosInformation_max_requested_bandwidth_dl)) ∧
  when (has_GxQosInformation_extended_max_requested_bw_ul d) (fits uint32_t d.(GxQosInformation_extended_max_requested_bw_ul)) ∧
  when (has_GxQosInformation_extended_max_requested_bw_dl d) (fits uint32_t d.(GxQosInformation_extended_max_requested_bw_dl)) ∧
  when (has_GxQosInformation_guaranteed_bitrate_ul d) (fits uint32_t d.(GxQosInformation_guaranteed_bitrate_ul)) ∧
  when (has_GxQosInformation_guaranteed_bitrate_dl d) (fits uint32_t d.(GxQosInformation_guaranteed_bitrate_dl)) ∧
  when (has_GxQosInformation_extended_gbr_ul d) (fits uint32_t d.(GxQosInformation_extended_gbr_ul)) ∧
  when (has_GxQosInformation_extended_gbr_dl d) (fits uint32_t d.(GxQosInformation_extended_gbr_dl)) ∧
  when (has_GxQosInformation_bearer_identifier d) (good_octets GxBearerIdentifierOctetString d.(GxQosInformation_bearer_identifier)) ∧
  when (has_GxQosInformation_allocation_retention_priority d) (good_GxAllocationRetentionPriority d.(GxQosInformation_allocation_retention_priority)) ∧
  when (has_GxQosInformation_apn_aggregate_max_bitrate_ul d) (fits uint32_t d.(GxQosInformation_apn_aggregate_max_bitrate_ul)) ∧
  when (has_GxQosInformation_apn_aggregate_max_bitrate_dl d) (fits uint32_t d.(GxQosInformation_apn_aggregate_max_bitrate_dl)) ∧
  when (has_GxQosInformation_extended_apn_ambr_ul d) (fits uint32_t d.(GxQosInformation_extended_apn_ambr_ul)) ∧
  when (has_GxQosInformation_extended_apn_ambr_dl d) (fits uint32_t d.(GxQosInformation_extended_apn_ambr_dl)) ∧
  when (has_GxQosInformation_conditional_apn_aggregate_max_bitrate d) (good_list good_GxConditionalApnAggregateMaxBitrate d.(GxQosInformation_conditional_apn_aggregate_max_bitrate)).

#[export] Instance GxQosInformation_ok : StructOk calcLengthGxQosInformation packGxQosInformation unpackGxQosInformation view_GxQosInformation good_GxQosInformation.
Proof. struct_ok. Qed.

Definition view_GxUserEquipmentInfo (d : GxUserEquipmentInfo) : gval := GSub [
    GRaw (le_bytes GxUserEquipmentInfoPresence d.(GxUserEquipmentInfo_presence));
    opt (has_GxUserEquipmentInfo_user_equipment_info_type d) (view_basic int32_t d.(GxUserEquipmentInfo_user_equipment_info_type));
    opt (has_GxUserEquipmentInfo_user_equipment_info_value d) (view_octets GxUserEquipmentInfoValueOctetString d.(GxUserEquipmentInfo_user_equipment_info_value))].

Definition good_GxUserEquipmentInfo (d : GxUserEquipmentInfo) : Prop :=
  fits (uint_of GxUserEquipmentInfoPresence) d.(GxUserEquipmentInfo_presence) ∧
  when (has_GxUserEquipmentInfo_user_equipment_info_type d) (fits int32_t d.(GxUserEquipmentInfo_user_equipment_info_type)) ∧
  when (has_GxUserEquipmentInfo_user_equipment_info_value d) (good_octets GxUserEquipmentInfoValueOctetString d.(GxUserEquipmentInfo_user_equipment_info_value)).

#[export] Instance GxUserEquipmentInfo_ok : StructOk calcLengthGxUserEquipmentInfo packGxUserEquipmentInfo unpackGxUserEquipmentInfo view_GxUserEquipmentInfo good_GxUserEquipmentInfo.
Proof. struct_ok. Qed.

Definition view_GxPacketFilterInformation (d : GxPacketFilterInformation) : gval := GSub [
    GRaw (le_bytes GxPacketFilterInformationPresence d.(GxPacketFilterInformation_presence));
    opt (has_GxPacketFilterInformation_packet_filter_identifier d) (view_octets GxPacketFilterIdentifierOctetString d.(GxPacketFilterInformation_packet_filter_identifier));
    opt (has_GxPacketFilterInformation_precedence d) (view_basic uint32_t d.(GxPacketFilterInformation_precedence));
    opt (has_GxPacketFilterInformation_packet_filter_content d) (view_octets GxPacketFilterContentOctetString d.(GxPacketFilterInformation_packet_filter_content));
    opt (has_GxPacketFilterInformation_tos_traffic_class d) (view_octets GxTosTrafficClassOctetString d.(GxPacketFilterInformation_tos_traffic_class));
    opt (has_GxPacketFilterInformation_security_parameter_index d) (view_octets GxSecurityParameterIndexOctetString d.(GxPacketFilterInformation_security_parameter_index));
    opt (has_GxPacketFilterInformation_flow_label d) (view_octets GxFlowLabelOctetString d.(GxPacketFilterInformation_flow_label));
    opt (has_GxPacketFilterInformation_flow_direction d) (view_basic int32_t d.(GxPacketFilterInformation_flow_direction))].

Definition good_GxPacketFilterInformation (d : GxPacketFilterInformation) : Prop :=
  fits (uint_of GxPacketFilterInformationPresence) d.(GxPacketFilterInformation_presence) ∧
  when (has_GxPacketFilterInformation_packet_filter_identifier d) (good_octets GxPacketFilterIdentifierOctetString d.(GxPacketFilterInformation_packet_filter_identifier)) ∧
  when (has_GxPacketFilterInformation_precedence d) (fits uint32_t d.(GxPacketFilterInformation_precedence)) ∧
  when (has_GxPacketFilterInformation_packet_filter_content d) (good_octets GxPacketFilterContentOctetString d.(GxPacketFilterInformation_packet_filter_content)) ∧
  when (has_GxPacketFilterInformation_tos_traffic_class d) (good_octets GxTosTrafficClassOctetString d.(GxPacketFilterInformation_tos_traffic_class)) ∧
  when (has_GxPacketFilterInformation_security_parameter_index d) (good_octets GxSecurityParameterIndexOctetString d.(GxPacketFilterInformation_security_parameter_index)) ∧
  when (has_GxPacketFilterInformation_flow_label d) (good_octets GxFlowLabelOctetString d.(GxPacketFilterInformation_flow_label)) ∧
  when (has_GxPacketFilterInformation_flow_direction d) (fits int32_t d.(GxPacketFilterInformation_flow_direction)).

#[export] Instance GxPacketFilterInformation_ok : StructOk calcLengthGxPacketFilterInformation packGxPacketFilterInformation unpackGxPacketFilterInformation view_GxPacketFilterInformation good_GxPacketFilterInformation.
Proof. struct_ok. Qed.

Definition view_GxTdfInformation (d : GxTdfInformation) : gval := GSub [
    GRaw (le_bytes GxTdfInformationPresence d.(GxTdfInformation_presence));
    opt (has_GxTdfInformation_tdf_destination_realm d) (view_octets GxTdfDestinationRealmOctetString d.(GxTdfInformation_tdf_destination_realm));
    opt (has_GxTdfInformation_tdf_destination_host d) (view_octets GxTdfDestinationHostOctetString d.(GxTdfInformation_tdf_destination_host));
    opt (has_GxTdfInformation_tdf_ip_address d) (view_basic FdAddress d.(GxTdfInformation_tdf_ip_address))].

Definition good_GxTdfInformation (d : GxTdfInformation) : Prop :=
  fits (uint_of GxTdfInformationPresence) d.(GxTdfInformation_presence) ∧
  when (has_GxTdfInformation_tdf_destination_realm d) (good_octets GxTdfDestinationRealmOctetString d.(GxTdfInformation_tdf_destination_realm)) ∧
  when (has_GxTdfInformation_tdf_destination_host d) (good_octets GxTdfDestinationHostOctetString d.(GxTdfInformation_tdf_destination_host)) ∧
  when (has_GxTdfInformation_tdf_ip_address d) (fits FdAddress d.(GxTdfInformation_tdf_ip_address)).

#[export] Instance GxTdfInformation_ok : StructOk calcLengthGxTdfInformation packGxTdfInformation unpackGxTdfInformation view_GxTdfInformation good_GxTdfInformation.
Proof. struct_ok. Qed.

Definition view_GxSupportedFeatures (d : GxSupportedFeatures) : gval := GSub [
    GRaw (le_bytes GxSupportedFeaturesPresence d.(GxSupportedFeatures_presence));
    opt (has_GxSupportedFeatures_vendor_id d) (view_basic uint32_t d.(GxSupportedFeatures_vendor_id));
    opt (has_GxSupportedFeatures_feature_list_id d) (view_basic uint32_t d.(GxSupportedFeatures_feature_list_id));
    opt (has_GxSupportedFeatures_feature_list d) (view_basic uint32_t d.(GxSupportedFeatures_feature_list))].

Definition good_GxSupportedFeatures (d : GxSupportedFeatures) : Prop :=
  fits (uint_of GxSupportedFeaturesPresence) d.(GxSupportedFeatures_presence) ∧
  when (has_GxSupportedFeatures_vendor_id d) (fits uint32_t d.(GxSupportedFeatures_vendor_id)) ∧
  when (has_GxSupportedFeatures_feature_list_id d) (fits uint32_t d.(GxSupportedFeatures_feature_list_id)) ∧
  when (has_GxSupportedFeatures_feature_list d) (fits uint32_t d.(GxSupportedFeatures_feature_list)).

#[export] Instance GxSupportedFeatures_ok : StructOk calcLengthGxSupportedFeatures packGxSupportedFeatures unpackGxSupportedFeatures view_GxSupportedFeatures good_GxSupportedFeatures.
Proof. struct_ok. Qed.

Definition view_GxOcSupportedFeatures (d : GxOcSupportedFeatures) : gval := GSub [
    GRaw (le_bytes GxOcSupportedFeaturesPresence d.(GxOcSupportedFeatures_presence));
    opt (has_GxOcSupportedFeatures_oc_feature_vector d) (view_basic uint64_t d.(GxOcSupportedFeatures_oc_feature_vector))].

Definition good_GxOcSupportedFeatures (d : GxOcSupportedFeatures) : Prop :=
  fits (uint_of GxOcSupportedFeaturesPresence) d.(GxOcSupportedFeatures_presence) ∧
  when (has_GxOcSupportedFeatures_oc_feature_vector d) (fits uint64_t d.(GxOcSupportedFeatures_oc_feature_vector)).

#[export] Instance GxOcSupportedFeatures_ok : StructOk calcLengthGxOcSupportedFeatures packGxOcSupportedFeatures unpackGxOcSupportedFeatures view_GxOcSupportedFeatures good_GxOcSupportedFeatures.
Proof. struct_ok. Qed.

Definition view_GxSubscriptionId (d : GxSubscriptionId) : gval := GSub [
    GRaw (le_bytes GxSubscriptionIdPresence d.(GxSubscriptionId_presence));
    opt (has_GxSubscriptionId_subscription_id_type d) (view_basic int32_t d.(GxSubscriptionId_subscription_id_type));
    opt (has_GxSubscriptionId_subscription_id_data d) (view_octets GxSubscriptionIdDataOctetString d.(GxSubscriptionId_subscription_id_data))].

Definition good_GxSubscriptionId (d : GxSubscriptionId) : Prop :=
  fits (uint_of GxSubscriptionIdPresence) d.(GxSubscriptionId_presence) ∧
  when (has_GxSubscriptionId_subscription_id_type d) (fits int32_t d.(GxSubscriptionId_subscription_id_type)) ∧
  when (has_GxSubscriptionId_subscription_id_data d) (good_octets GxSubscriptionIdDataOctetString d.(GxSubscriptionId_subscription_id_data)).

#[export] Instance GxSubscriptionId_ok : StructOk calcLengthGxSubscriptionId packGxSubscriptionId unpackGxSubscriptionId view_GxSubscriptionId good_GxSubscriptionId.
Proof. struct_ok. Qed.

Definition view_GxCCR (d : GxCCR) : gval := GSub [
    GRaw (le_bytes GxCcrPresence d.(GxCCR_presence));
    opt (has_GxCCR_session_id d) (view_octets GxSessionIdOctetString d.(GxCCR_session_id));
    opt (has_GxCCR_drmp d) (view_basic int32_t d.(GxCCR_drmp));
    opt (has_GxCCR_auth_application_id d) (view_basic uint32_t d.(GxCCR_auth_application_id));
    opt (has_GxCCR_origin_host d) (view_octets GxOriginHostOctetString d.(GxCCR_origin_host));
    opt (has_GxCCR_origin_realm d) (view_octets GxOriginRealmOctetString d.(GxCCR_origin_realm));
    opt (has_GxCCR_destination_realm d) (view_octets GxDestinationRealmOctetString d.(GxCCR_destination_realm));
    opt (has_GxCCR_service_context_id d) (view_octets GxServiceContextIdOctetString d.(GxCCR_service_context_id));
    opt (has_GxCCR_cc_request_type d) (view_basic int32_t d.(GxCCR_cc_request_type));
    opt (has_GxCCR_cc_request_number d) (view_basic uint32_t d.(GxCCR_cc_request_number));
    opt (has_GxCCR_credit_management_status d) (view_basic uint32_t d.(GxCCR_credit_management_status));
    opt (has_GxCCR_destination_host d) (view_octets GxDestinationHostOctetString d.(GxCCR_destination_host));
    opt (has_GxCCR_origin_state_id d) (view_basic uint32_t d.(GxCCR_origin_state_id));
    opt (has_GxCCR_subscription_id d) (view_list view_GxSubscriptionId d.(GxCCR_subscription_id));
    opt (has_GxCCR_oc_supported_features d) (view_GxOcSupportedFeatures d.(GxCCR_oc_supported_features));
    opt (has_GxCCR_supported_features d) (view_list view_GxSupportedFeatures d.(GxCCR_supported_features));
    opt (has_GxCCR_tdf_information d) (view_GxTdfInformation d.(GxCCR_tdf_information));
    opt (has_GxCCR_network_request_support d) (view_basic int32_t d.(GxCCR_network_request_support));
    opt (has_GxCCR_packet_filter_information d) (view_list view_GxPacketFilterInformation d.(GxCCR_packet_filter_information));
    opt (has_GxCCR_packet_filter_operation d) (view_basic int32_t d.(GxCCR_packet_filter_operation));
    opt (has_GxCCR_bearer_identifier d) (view_octets GxBearerIdentifierOctetString d.(GxCCR_bearer_identifier));
    opt (has_GxCCR_bearer_operation d) (view_basic int32_t d.(GxCCR_bearer_operation));
    opt (has_GxCCR_dynamic_address_flag d) (view_basic int32_t d.(GxCCR_dynamic_address_flag));
    opt (has_GxCCR_dynamic_address_flag_extension d) (view_basic int32_t d.(GxCCR_dynamic_address_flag_extension));
    opt (has_GxCCR_pdn_connection_charging_id d) (view_basic uint32_t d.(GxCCR_pdn_connection_charging_id));
    opt (has_GxCCR_framed_ip_address d) (view_octets GxFramedIpAddressOctetString d.(GxCCR_framed_ip_address));
    opt (has_GxCCR_framed_ipv6_prefix d) (view_octets GxFramedIpv6PrefixOctetString d.(GxCCR_framed_ipv6_prefix));
    opt (has_GxCCR_ip_can_type d) (view_basic int32_t d.(GxCCR_ip_can_type));
    opt (has_GxCCR_tgpp_rat_type d) (view_octets Gx3gppRatTypeOctetString d.(GxCCR_tgpp_rat_type));
    opt (has_GxCCR_an_trusted d) (view_basic int32_t d.(GxCCR_an_trusted));
    opt (has_GxCCR_rat_type d) (view_basic int32_t d.(GxCCR_rat_type));
    opt (has_GxCCR_termination_cause d) (view_basic int32_t d.(GxCCR_termination_cause));
    opt (has_GxCCR_user_equipment_info d) (view_GxUserEquipmentInfo d.(GxCCR_user_equipment_info));
    opt (has_GxCCR_qos_information d) (view_GxQosInformation d.(GxCCR_qos_information));
    opt (has_GxCCR_qos_negotiation d) (view_basic int32_t d.(GxCCR_qos_negotiation));
    opt (has_GxCCR_qos_upgrade d) (view_basic int32_t d.(GxCCR_qos_upgrade));
    opt (has_GxCCR_default_eps_bearer_qos d) (view_GxDefaultEpsBearerQos d.(GxCCR_default_eps_bearer_qos));
    opt (has_GxCCR_default_qos_information d) (view_GxDefaultQosInformation d.(GxCCR_default_qos_information));
    opt (has_GxCCR_an_gw_address d) (view_list (view_basic FdAddress) d.(GxCCR_an_gw_address));
    opt (has_GxCCR_an_gw_status d) (view_basic int32_t d.(GxCCR_an_gw_status));
    opt (has_GxCCR_tgpp_sgsn_mcc_mnc d) (view_octets Gx3gppSgsnMccMncOctetString d.(GxCCR_tgpp_sgsn_mcc_mnc));
    opt (has_GxCCR_tgpp_sgsn_address d) (view_octets Gx3gppSgsnAddressOctetString d.(GxCCR_tgpp_sgsn_address));
    opt (has_GxCCR_tgpp_sgsn_ipv6_address d) (view_octets Gx3gppSgsnIpv6AddressOctetString d.(GxCCR_tgpp_sgsn_ipv6_address));
    opt (has_GxCCR_tgpp_ggsn_address d) (view_octets Gx3gppGgsnAddressOctetString d.(GxCCR_tgpp_ggsn_address));
    opt (has_GxCCR_tgpp_ggsn_ipv6_address d) (view_octets Gx3gppGgsnIpv6AddressOctetString d.(GxCCR_tgpp_ggsn_ipv6_address));
    opt (has_GxCCR_tgpp_selection_mode d) (view_octets Gx3gppSelectionModeOctetString d.(GxCCR_tgpp_selection_mode));
    opt (has_GxCCR_rai d) (view_octets GxRaiOctetString d.(GxCCR_rai));
    opt (has_GxCCR_tgpp_user_location_info d) (view_octets Gx3gppUserLocationInfoOctetString d.(GxCCR_tgpp_user_location_info));
    opt (has_GxCCR_fixed_user_location_info d) (view_GxFixedUserLocationInfo d.(GxCCR_fixed_user_location_info));
    opt (has_GxCCR_user_location_info_time d) (view_basic FdTime d.(GxCCR_user_location_info_time));
    opt (has_GxCCR_user_csg_information d) (view_GxUserCsgInformation d.(GxCCR_user_csg_information));
    opt (has_GxCCR_twan_identifier d) (view_octets GxTwanIdentifierOctetString d.(GxCCR_twan_identifier));
    opt (has_GxCCR_tgpp_ms_timezone d) (view_octets Gx3gppMsTimezoneOctetString d.(GxCCR_tgpp_ms_timezone));
    opt (has_GxCCR_ran_nas_release_cause d) (view_list (view_octets GxRanNasReleaseCauseOctetString) d.(GxCCR_ran_nas_release_cause));
    opt (has_GxCCR_tgpp_charging_characteristics d) (view_octets Gx3gppChargingCharacteristicsOctetString d.(GxCCR_tgpp_charging_characteristics));
    opt (has_GxCCR_called_station_id d) (view_octets GxCalledStationIdOctetString d.(GxCCR_called_station_id));
    opt (has_GxCCR_pdn_connection_id d) (view_octets GxPdnConnectionIdOctetString d.(GxCCR_pdn_connection_id));
    opt (has_GxCCR_bearer_usage d) (view_basic int32_t d.(GxCCR_bearer_usage));
    opt (has_GxCCR_online d) (view_basic int32_t d.(GxCCR_online));
    opt (has_GxCCR_offline d) (view_basic int32_t d.(GxCCR_offline));
    opt (has_GxCCR_tft_packet_filter_information d) (view_list view_GxTftPacketFilterInformation d.(GxCCR_tft_packet_filter_information));
    opt (has_GxCCR_charging_rule_report d) (view_list view_GxChargingRuleReport d.(GxCCR_charging_rule_report));
    opt (has_GxCCR_application_detection_information d) (view_list view_GxApplicationDetectionInformation d.(GxCCR_application_detection_information));
    opt (has_GxCCR_event_trigger d) (view_list (view_basic int32_t) d.(GxCCR_event_trigger));
    opt (has_GxCCR_event_report_indication d) (view_GxEventReportIndication d.(GxCCR_event_report_indication));
    opt (has_GxCCR_access_network_charging_address d) (view_basic FdAddress d.(GxCCR_access_network_charging_address));
    opt (has_GxCCR_access_network_charging_identifier_gx d) (view_list view_GxAccessNetworkChargingIdentifierGx d.(GxCCR_access_network_charging_identifier_gx));
    opt (has_GxCCR_coa_information d) (view_list view_GxCoaInformation d.(GxCCR_coa_information));
    opt (has_GxCCR_usage_monitoring_information d) (view_list view_GxUsageMonitoringInformation d.(GxCCR_usage_monitoring_information));
    opt (has_GxCCR_nbifom_support d) (view_basic int32_t d.(GxCCR_nbifom_support));
    opt (has_GxCCR_nbifom_mode d) (view_basic int32_t d.(GxCCR_nbifom_mode));
    opt (has_GxCCR_default_access d) (view_basic int32_t d.(GxCCR_default_access));
    opt (has_GxCCR_origination_time_stamp d) (view_basic uint64_t d.(GxCCR_origination_time_stamp));
    opt (has_GxCCR_maximum_wait_time d) (view_basic uint32_t d.(GxCCR_maximum_wait_time));
    opt (has_GxCCR_access_availability_change_reason d) (view_basic uint32_t d.(GxCCR_access_availability_change_reason));
    opt (has_GxCCR_routing_rule_install d) (view_GxRoutingRuleInstall d.(GxCCR_routing_rule_install));
    opt (has_GxCCR_routing_rule_remove d) (view_GxRoutingRuleRemove d.(GxCCR_routing_rule_remove));
    opt (has_GxCCR_henb_local_ip_address d) (view_basic FdAddress d.(GxCCR_henb_local_ip_address));
    opt (has_GxCCR_ue_local_ip_address d) (view_basic FdAddress d.(GxCCR_ue_local_ip_address));
    opt (has_GxCCR_udp_source_port d) (view_basic uint32_t d.(GxCCR_udp_source_port));
    opt (has_GxCCR_tcp_source_port d) (view_basic uint32_t d.(GxCCR_tcp_source_port));
    opt (has_GxCCR_presence_reporting_area_information d) (view_list view_GxPresenceReportingAreaInformation d.(GxCCR_presence_reporting_area_information));
    opt (has_GxCCR_logical_access_id d) (view_octets GxLogicalAccessIdOctetString d.(GxCCR_logical_access_id));
    opt (has_GxCCR_physical_access_id d) (view_octets GxPhysicalAccessIdOctetString d.(GxCCR_physical_access_id));
    opt (has_GxCCR_proxy_info d) (view_list view_GxProxyInfo d.(GxCCR_proxy_info));
    opt (has_GxCCR_route_record d) (view_list (view_octets GxRouteRecordOctetString) d.(GxCCR_route_record));
    opt (has_GxCCR_tgpp_ps_data_off_status d) (view_basic int32_t d.(GxCCR_tgpp_ps_data_off_status))].

Definition good_GxCCR (d : GxCCR) : Prop :=
  fits (uint_of GxCcrPresence) d.(GxCCR_presence) ∧
  when (has_GxCCR_session_id d) (good_octets GxSessionIdOctetString d.(GxCCR_session_id)) ∧
  when (has_GxCCR_drmp d) (fits int32_t d.(GxCCR_drmp)) ∧
  when (has_GxCCR_auth_application_id d) (fits uint32_t d.(GxCCR_auth_application_id)) ∧
  when (has_GxCCR_origin_host d) (good_octets GxOriginHostOctetString d.(GxCCR_origin_host)) ∧
  when (has_GxCCR_origin_realm d) (good_octets GxOriginRealmOctetString d.(GxCCR_origin_realm)) ∧
  when (has_GxCCR_destination_realm d) (good_octets GxDestinationRealmOctetString d.(GxCCR_destination_realm)) ∧
  when (has_GxCCR_service_context_id d) (good_octets GxServiceContextIdOctetString d.(GxCCR_service_context_id)) ∧
  when (has_GxCCR_cc_request_type d) (fits int32_t d.(GxCCR_cc_request_type)) ∧
  when (has_GxCCR_cc_request_number d) (fits uint32_t d.(GxCCR_cc_request_number)) ∧
  when (has_GxCCR_credit_management_status d) (fits uint32_t d.(GxCCR_credit_management_status)) ∧
  when (has_GxCCR_destination_host d) (good_octets GxDestinationHostOctetString d.(GxCCR_destination_host)) ∧
  when (has_GxCCR_origin_state_id d) (fits uint32_t d.(GxCCR_origin_state_id)) ∧
  when (has_GxCCR_subscription_id d) (good_list good_GxSubscriptionId d.(GxCCR_subscription_id)) ∧
  when (has_GxCCR_oc_supported_features d) (good_GxOcSupportedFeatures d.(GxCCR_oc_supported_features)) ∧
  when (has_GxCCR_supported_features d) (good_list good_GxSupportedFeatures d.(GxCCR_supported_features)) ∧
  when (has_GxCCR_tdf_information d) (good_GxTdfInformation d.(GxCCR_tdf_information)) ∧
  when (has_GxCCR_network_request_support d) (fits int32_t d.(GxCCR_network_request_support)) ∧
  when (has_GxCCR_packet_filter_information d) (good_list good_GxPacketFilterInformation d.(GxCCR_packet_filter_information)) ∧
  when (has_GxCCR_packet_filter_operation d) (fits int32_t d.(GxCCR_packet_filter_operation)) ∧
  when (has_GxCCR_bearer_identifier d) (good_octets GxBearerIdentifierOctetString d.(GxCCR_bearer_identifier)) ∧
  when (has_GxCCR_bearer_operation d) (fits int32_t d.(GxCCR_bearer_operation)) ∧
  when (has_GxCCR_dynamic_address_flag d) (fits int32_t d.(GxCCR_dynamic_address_flag)) ∧
  when (has_GxCCR_dynamic_address_flag_extension d) (fits int32_t d.(GxCCR_dynamic_address_flag_extension)) ∧
  when (has_GxCCR_pdn_connection_charging_id d) (fits uint32_t d.(GxCCR_pdn_connection_charging_id)) ∧
  when (has_GxCCR_framed_ip_address d) (good_octets GxFramedIpAddressOctetString d.(GxCCR_framed_ip_address)) ∧
  when (has_GxCCR_framed_ipv6_prefix d) (good_octets GxFramedIpv6PrefixOctetString d.(GxCCR_framed_ipv6_prefix)) ∧
  when (has_GxCCR_ip_can_type d) (fits int32_t d.(GxCCR_ip_can_type)) ∧
  when (has_GxCCR_tgpp_rat_type d) (good_octets Gx3gppRatTypeOctetString d.(GxCCR_tgpp_rat_type)) ∧
  when (has_GxCCR_an_trusted d) (fits int32_t d.(GxCCR_an_trusted)) ∧
  when (has_GxCCR_rat_type d) (fits int32_t d.(GxCCR_rat_type)) ∧
  when (has_GxCCR_termination_cause d) (fits int32_t d.(GxCCR_termination_cause)) ∧
  when (has_GxCCR_user_equipment_info d) (good_GxUserEquipmentInfo d.(GxCCR_user_equipment_info)) ∧
  when (has_GxCCR_qos_information d) (good_GxQosInformation d.(GxCCR_qos_information)) ∧
  when (has_GxCCR_qos_negotiation d) (fits int32_t d.(GxCCR_qos_negotiation)) ∧
  when (has_GxCCR_qos_upgrade d) (fits int32_t d.(GxCCR_qos_upgrade)) ∧
  when (has_GxCCR_default_eps_bearer_qos d) (good_GxDefaultEpsBearerQos d.(GxCCR_default_eps_bearer_qos)) ∧
  when (has_GxCCR_default_qos_information d) (good_GxDefaultQosInformation d.(GxCCR_default_qos_information)) ∧
  when (has_GxCCR_an_gw_address d) (good_list (fits FdAddress) d.(GxCCR_an_gw_address)) ∧
  when (has_GxCCR_an_gw_status d) (fits int32_t d.(GxCCR_an_gw_status)) ∧
  when (has_GxCCR_tgpp_sgsn_mcc_mnc d) (good_octets Gx3gppSgsnMccMncOctetString d.(GxCCR_tgpp_sgsn_mcc_mnc)) ∧
  when (has_GxCCR_tgpp_sgsn_address d) (good_octets Gx3gppSgsnAddressOctetString d.(GxCCR_tgpp_sgsn_address)) ∧
  when (has_GxCCR_tgpp_sgsn_ipv6_address d) (good_octets Gx3gppSgsnIpv6AddressOctetString d.(GxCCR_tgpp_sgsn_ipv6_address)) ∧
  when (has_GxCCR_tgpp_ggsn_address d) (good_octets Gx3gppGgsnAddressOctetString d.(GxCCR_tgpp_ggsn_address)) ∧
  when (has_GxCCR_tgpp_ggsn_ipv6_address d) (good_octets Gx3gppGgsnIpv6AddressOctetString d.(GxCCR_tgpp_ggsn_ipv6_address)) ∧
  when (has_GxCCR_tgpp_selection_mode d) (good_octets Gx3gppSelectionModeOctetString d.(GxCCR_tgpp_selection_mode)) ∧
  when (has_GxCCR_rai d) (good_octets GxRaiOctetString d.(GxCCR_rai)) ∧
  when (has_GxCCR_tgpp_user_location_info d) (good_octets Gx3gppUserLocationInfoOctetString d.(GxCCR_tgpp_user_location_info)) ∧
  when (has_GxCCR_fixed_user_location_info d) (good_GxFixedUserLocationInfo d.(GxCCR_fixed_user_location_info)) ∧
  when (has_GxCCR_user_location_info_time d) (fits FdTime d.(GxCCR_user_location_info_time)) ∧
  when (has_GxCCR_user_csg_information d) (good_GxUserCsgInformation d.(GxCCR_user_csg_information)) ∧
  when (has_GxCCR_twan_identifier d) (good_octets GxTwanIdentifierOctetString d.(GxCCR_twan_identifier)) ∧
  when (has_GxCCR_tgpp_ms_timezone d) (good_octets Gx3gppMsTimezoneOctetString d.(GxCCR_tgpp_ms_timezone)) ∧
  when (has_GxCCR_ran_nas_release_cause d) (good_octets_list GxRanNasReleaseCauseOctetString d.(GxCCR_ran_nas_release_cause)) ∧
  when (has_GxCCR_tgpp_charging_characteristics d) (good_octets Gx3gppChargingCharacteristicsOctetString d.(GxCCR_tgpp_charging_characteristics)) ∧
  when (has_GxCCR_called_station_id d) (good_octets GxCalledStationIdOctetString d.(GxCCR_called_station_id)) ∧
  when (has_GxCCR_pdn_connection_id d) (good_octets GxPdnConnectionIdOctetString d.(GxCCR_pdn_connection_id)) ∧
  when (has_GxCCR_bearer_usage d) (fits int32_t d.(GxCCR_bearer_usage)) ∧
  when (has_GxCCR_online d) (fits int32_t d.(GxCCR_online)) ∧
  when (has_GxCCR_offline d) (fits int32_t d.(GxCCR_offline)) ∧
  when (has_GxCCR_tft_packet_filter_information d) (good_list good_GxTftPacketFilterInformation d.(GxCCR_tft_packet_filter_information)) ∧
  when (has_GxCCR_charging_rule_report d) (good_list good_GxChargingRuleReport d.(GxCCR_charging_rule_report)) ∧
  when (has_GxCCR_application_detection_information d) (good_list good_GxApplicationDetectionInformation d.(GxCCR_application_detection_information)) ∧
  when (has_GxCCR_event_trigger d) (good_list (fits int32_t) d.(GxCCR_event_trigger)) ∧
  when (has_GxCCR_event_report_indication d) (good_GxEventReportIndication d.(GxCCR_event_report_indication)) ∧
  when (has_GxCCR_access_network_charging_address d) (fits FdAddress d.(GxCCR_access_network_charging_address)) ∧
  when (has_GxCCR_access_network_charging_identifier_gx d) (good_list good_GxAccessNetworkChargingIdentifierGx d.(GxCCR_access_network_charging_identifier_gx)) ∧
  when (has_GxCCR_coa_information d) (good_list good_GxCoaInformation d.(GxCCR_coa_information)) ∧
  when (has_GxCCR_usage_monitoring_information d) (good_list good_GxUsageMonitoringInformation d.(GxCCR_usage_monitoring_information)) ∧
  when (has_GxCCR_nbifom_support d) (fits int32_t d.(GxCCR_nbifom_support)) ∧
  when (has_GxCCR_nbifom_mode d) (fits int32_t d.(GxCCR_nbifom_mode)) ∧
  when (has_GxCCR_default_access d) (fits int32_t d.(GxCCR_default_access)) ∧
  when (has_GxCCR_origination_time_stamp d) (fits uint64_t d.(GxCCR_origination_time_stamp)) ∧
  when (has_GxCCR_maximum_wait_time d) (fits uint32_t d.(GxCCR_maximum_wait_time)) ∧
  when (has_GxCCR_access_availability_change_reason d) (fits uint32_t d.(GxCCR_access_availability_change_reason)) ∧
  when (has_GxCCR_routing_rule_install d) (good_GxRoutingRuleInstall d.(GxCCR_routing_rule_install)) ∧
  when (has_GxCCR_routing_rule_remove d) (good_GxRoutingRuleRemove d.(GxCCR_routing_rule_remove)) ∧
  when (has_GxCCR_henb_local_ip_address d) (fits FdAddress d.(GxCCR_henb_local_ip_address)) ∧
  when (has_GxCCR_ue_local_ip_address d) (fits FdAddress d.(GxCCR_ue_local_ip_address)) ∧
  when (has_GxCCR_udp_source_port d) (fits uint32_t d.(GxCCR_udp_source_port)) ∧
  when (has_GxCCR_tcp_source_port d) (fits uint32_t d.(GxCCR_tcp_source_port)) ∧
  when (has_GxCCR_presence_reporting_area_information d) (good_list good_GxPresenceReportingAreaInformation d.(GxCCR_presence_reporting_area_information)) ∧
  when (has_GxCCR_logical_access_id d) (good_octets GxLogicalAccessIdOctetString d.(GxCCR_logical_access_id)) ∧
  when (has_GxCCR_physical_access_id d) (good_octets GxPhysicalAccessIdOctetString d.(GxCCR_physical_access_id)) ∧
  when (has_GxCCR_proxy_info d) (good_list good_GxProxyInfo d.(GxCCR_proxy_info)) ∧
  when (has_GxCCR_route_record d) (good_octets_list GxRouteRecordOctetString d.(GxCCR_route_record)) ∧
  when (has_GxCCR_tgpp_ps_data_off_status d) (fits int32_t d.(GxCCR_tgpp_ps_data_off_status)).

Lemma GxCCR_message : MessageOk gx_ccr_calc_length gx_ccr_pack gx_ccr_unpack view_GxCCR good_GxCCR.
Proof. message_ok. Qed.

Definition view_GxLoad (d : GxLoad) : gval := GSub [
    GRaw (le_bytes GxLoadPresence d.(GxLoad_presence));
    opt (has_GxLoad_load_type d) (view_basic int32_t d.(GxLoad_load_type));
    opt (has_GxLoad_load_value d) (view_basic uint64_t d.(GxLoad_load_value));
    opt (has_GxLoad_sourceid d) (view_octets GxSourceidOctetString d.(GxLoad_sourceid))].

Definition good_GxLoad (d : GxLoad) : Prop :=
  fits (uint_of GxLoadPresence) d.(GxLoad_presence) ∧
  when (has_GxLoad_load_type d) (fits int32_t d.(GxLoad_load_type)) ∧
  when (has_GxLoad_load_value d) (fits uint64_t d.(GxLoad_load_value)) ∧
  when (has_GxLoad_sourceid d) (good_octets GxSourceidOctetString d.(GxLoad_sourceid)).

#[export] Instance GxLoad_ok : StructOk calcLengthGxLoad packGxLoad unpackGxLoad view_GxLoad good_GxLoad.
Proof. struct_ok. Qed.

Definition view_GxFailedAvp (d : GxFailedAvp) : gval := GSub [
    GRaw (le_bytes GxFailedAvpPresence d.(GxFailedAvp_presence))].

Definition good_GxFailedAvp (d : GxFailedAvp) : Prop :=
  fits (uint_of GxFailedAvpPresence) d.(GxFailedAvp_presence).

#[export] Instance GxFailedAvp_ok : StructOk calcLengthGxFailedAvp packGxFailedAvp unpackGxFailedAvp view_GxFailedAvp good_GxFailedAvp.
Proof. struct_ok. Qed.

Definition view_GxConditionalPolicyInformation (d : GxConditionalPolicyInformation) : gval := GSub [
    GRaw (le_bytes GxConditionalPolicyInformationPresence d.(GxConditionalPolicyInformation_presence));
    opt (has_GxConditionalPolicyInformation_execution_time d) (view_basic FdTime d.(GxConditionalPolicyInformation_execution_time));
    opt (has_GxConditionalPolicyInformation_default_eps_bearer_qos d) (view_GxDefaultEpsBearerQos d.(GxConditionalPolicyInformation_default_eps_bearer_qos));
    opt (has_GxConditionalPolicyInformation_apn_aggregate_max_bitrate_ul d) (view_basic uint32_t d.(GxConditionalPolicyInformation_apn_aggregate_max_bitrate_ul));
    opt (has_GxConditionalPolicyInformation_apn_aggregate_max_bitrate_dl d) (view_basic uint32_t d.(GxConditionalPolicyInformation_apn_aggregate_max_bitrate_dl));
    opt (has_GxConditionalPolicyInformation_extended_apn_ambr_ul d) (view_basic uint32_t d.(GxConditionalPolicyInformation_extended_apn_ambr_ul));
    opt (has_GxConditionalPolicyInformation_extended_apn_ambr_dl d) (view_basic uint32_t d.(GxConditionalPolicyInformation_extended_apn_ambr_dl));
    opt (has_GxConditionalPolicyInformation_conditional_apn_aggregate_max_bitrate d) (view_list view_GxConditionalApnAggregateMaxBitrate d.(GxConditionalPolicyInformation_conditional_apn_aggregate_max_bitrate))].

Definition good_GxConditionalPolicyInformation (d : GxConditionalPolicyInformation) : Prop :=
  fits (uint_of GxConditionalPolicyInformationPresence) d.(GxConditionalPolicyInformation_presence) ∧
  when (has_GxConditionalPolicyInformation_execution_time d) (fits FdTime d.(GxConditionalPolicyInformation_execution_time)) ∧
  when (has_GxConditionalPolicyInformation_default_eps_bearer_qos d) (good_GxDefaultEpsBearerQos d.(GxConditionalPolicyInformation_default_eps_bearer_qos)) ∧
  when (has_GxConditionalPolicyInformation_apn_aggregate_max_bitrate_ul d) (fits uint32_t d.(GxConditionalPolicyInformation_apn_aggregate_max_bitrate_ul)) ∧
  when (has_GxConditionalPolicyInformation_apn_aggregate_max_bitrate_dl d) (fits uint32_t d.(GxConditionalPolicyInformation_apn_aggregate_max_bitrate_dl)) ∧
  when (has_GxConditionalPolicyInformation_extended_apn_ambr_ul d) (fits uint32_t d.(GxConditionalPolicyInformation_extended_apn_ambr_ul)) ∧
  when (has_GxConditionalPolicyInformation_extended_apn_ambr_dl d) (fits uint32_t d.(GxConditionalPolicyInformation_extended_apn_ambr_dl)) ∧
  when (has_GxConditionalPolicyInformation_conditional_apn_aggregate_max_bitrate d) (good_list good_GxConditionalApnAggregateMaxBitrate d.(GxConditionalPolicyInformation_conditional_apn_aggregate_max_bitrate)).

#[export] Instance GxConditionalPolicyInformation_ok : StructOk calcLengthGxConditionalPolicyInformation packGxConditionalPolicyInformation unpackGxConditionalPolicyInformation view_GxConditionalPolicyInformation good_GxConditionalPolicyInformation.
Proof. struct_ok. Qed.

Definition view_GxRoutingRuleReport (d : GxRoutingRuleReport) : gval := GSub [
    GRaw (le_bytes GxRoutingRuleReportPresence d.(GxRoutingRuleReport_presence));
    opt (has_GxRoutingRuleReport_routing_rule_identifier d) (view_list (view_octets GxRoutingRuleIdentifierOctetString) d.(GxRoutingRuleReport_routing_rule_identifier));
    opt (has_GxRoutingRuleReport_pcc_rule_status d) (view_basic int32_t d.(GxRoutingRuleReport_pcc_rule_status));
    opt (has_GxRoutingRuleReport_routing_rule_failure_code d) (view_basic uint32_t d.(GxRoutingRuleReport_routing_rule_failure_code))].

Definition good_GxRoutingRuleReport (d : GxRoutingRuleReport) : Prop :=
  fits (uint_of GxRoutingRuleReportPresence) d.(GxRoutingRuleReport_presence) ∧
  when (has_GxRoutingRuleReport_routing_rule_identifier d) (good_octets_list GxRoutingRuleIdentifierOctetString d.(GxRoutingRuleReport_routing_rule_identifier)) ∧
  when (has_GxRoutingRuleReport_pcc_rule_status d) (fits int32_t d.(GxRoutingRuleReport_pcc_rule_status)) ∧
  when (has_GxRoutingRuleReport_routing_rule_failure_code d) (fits uint32_t d.(GxRoutingRuleReport_routing_rule_failure_code)).

#[export] Instance GxRoutingRuleReport_ok : StructOk calcLengthGxRoutingRuleReport packGxRoutingRuleReport unpackGxRoutingRuleReport view_GxRoutingRuleReport good_GxRoutingRuleReport.
Proof. struct_ok. Qed.

Definition view_GxPraRemove (d : GxPraRemove) : gval := GSub [
    GRaw (le_bytes GxPraRemovePresence d.(GxPraRemove_presence));
    opt (has_GxPraRemove_presence_reporting_area_identifier d) (view_list (view_octets GxPresenceReportingAreaIdentifierOctetString) d.(GxPraRemove_presence_reporting_area_identifier))].

Definition good_GxPraRemove (d : GxPraRemove) : Prop :=
  fits (uint_of GxPraRemovePresence) d.(GxPraRemove_presence) ∧
  when (has_GxPraRemove_presence_reporting_area_identifier d) (good_octets_list GxPresenceReportingAreaIdentifierOctetString d.(GxPraRemove_presence_reporting_area_identifier)).

#[export] Instance GxPraRemove_ok : StructOk calcLengthGxPraRemove packGxPraRemove unpackGxPraRemove view_GxPraRemove good_GxPraRemove.
Proof. struct_ok. Qed.

Definition view_GxPraInstall (d : GxPraInstall) : gval := GSub [
    GRaw (le_bytes GxPraInstallPresence d.(GxPraInstall_presence));
    opt (has_GxPraInstall_presence_reporting_area_information d) (view_list view_GxPresenceReportingAreaInformation d.(GxPraInstall_presence_reporting_area_information))].

Definition good_GxPraInstall (d : GxPraInstall) : Prop :=
  fits (uint_of GxPraInstallPresence) d.(GxPraInstall_presence) ∧
  when (has_GxPraInstall_presence_reporting_area_information d) (good_list good_GxPresenceReportingAreaInformation d.(GxPraInstall_presence_reporting_area_information)).

#[export] Instance GxPraInstall_ok : StructOk calcLengthGxPraInstall packGxPraInstall unpackGxPraInstall view_GxPraInstall good_GxPraInstall.
Proof. struct_ok. Qed.

Definition view_GxChargingInformation (d : GxChargingInformation) : gval := GSub [
    GRaw (le_bytes GxChargingInformationPresence d.(GxChargingInformation_presence));
    opt (has_GxChargingInformation_primary_event_charging_function_name d) (view_octets GxPrimaryEventChargingFunctionNameOctetString d.(GxChargingInformation_primary_event_charging_function_name));
    opt (has_GxChargingInformation_secondary_event_charging_function_name d) (view_octets GxSecondaryEventChargingFunctionNameOctetString d.(GxChargingInformation_secondary_event_charging_function_name));
    opt (has_GxChargingInformation_primary_charging_collection_function_name d) (view_octets GxPrimaryChargingCollectionFunctionNameOctetString d.(GxChargingInformation_primary_charging_collection_function_name));
    opt (has_GxChargingInformation_secondary_charging_collection_function_name d) (view_octets GxSecondaryChargingCollectionFunctionNameOctetString d.(GxChargingInformation_secondary_charging_collection_function_name))].

Definition good_GxChargingInformation (d : GxChargingInformation) : Prop :=
  fits (uint_of GxChargingInformationPresence) d.(GxChargingInformation_presence) ∧
  when (has_GxChargingInformation_primary_event_charging_function_name d) (good_octets GxPrimaryEventChargingFunctionNameOctetString d.(GxChargingInformation_primary_event_charging_function_name)) ∧
  when (has_GxChargingInformation_secondary_event_charging_function_name d) (good_octets GxSecondaryEventChargingFunctionNameOctetString d.(GxChargingInformation_secondary_event_charging_function_name)) ∧
  when (has_GxChargingInformation_primary_charging_collection_function_name d) (good_octets GxPrimaryChargingCollectionFunctionNameOctetString d.(GxChargingInformation_primary_charging_collection_function_name)) ∧
  when (has_GxChargingInformation_secondary_charging_collection_function_name d) (good_octets GxSecondaryChargingCollectionFunctionNameOctetString d.(GxChargingInformation_secondary_charging_collection_function_name)).

#[export] Instance GxChargingInformation_ok : StructOk calcLengthGxChargingInformation packGxChargingInformation unpackGxChargingInformation view_GxChargingInformation good_GxChargingInformation.
Proof. struct_ok. Qed.

Definition view_GxRedirectInformation (d : GxRedirectInformation) : gval := GSub [
    GRaw (le_bytes GxRedirectInformationPresence d.(GxRedirectInformation_presence));
    opt (has_GxRedirectInformation_redirect_support d) (view_basic int32_t d.(GxRedirectInformation_redirect_support));
    opt (has_GxRedirectInformation_redirect_address_type d) (view_basic int32_t d.(GxRedirectInformation_redirect_address_type));
    opt (has_GxRedirectInformation_redirect_server_address d) (view_octets GxRedirectServerAddressOctetString d.(GxRedirectInformation_redirect_server_address))].

Definition good_GxRedirectInformation (d : GxRedirectInformation) : Prop :=
  fits (uint_of GxRedirectInformationPresence) d.(GxRedirectInformation_presence) ∧
  when (has_GxRedirectInformation_redirect_support d) (fits int32_t d.(GxRedirectInformation_redirect_support)) ∧
  when (has_GxRedirectInformation_redirect_address_type d) (fits int32_t d.(GxRedirectInformation_redirect_address_type)) ∧
  when (has_GxRedirectInformation_redirect_server_address d) (good_octets GxRedirectServerAddressOctetString d.(GxRedirectInformation_redirect_server_address)).

#[export] Instance GxRedirectInformation_ok : StructOk calcLengthGxRedirectInformation packGxRedirectInformation unpackGxRedirectInformation view_GxRedirectInformation good_GxRedirectInformation.
Proof. struct_ok. Qed.

Definition view_GxFlows (d : GxFlows) : gval := GSub [
    GRaw (le_bytes GxFlowsPresence d.(GxFlows_presence));
    opt (has_GxFlows_media_component_number d) (view_basic uint32_t d.(GxFlows_media_component_number));
    opt (has_GxFlows_flow_number d) (view_list (view_basic uint32_t) d.(GxFlows_flow_number));
    opt (has_GxFlows_content_version d) (view_list (view_basic uint64_t) d.(GxFlows_content_version));
    opt (has_GxFlows_final_unit_action d) (view_basic int32_t d.(GxFlows_final_unit_action));
    opt (has_GxFlows_media_component_status d) (view_basic uint32_t d.(GxFlows_media_component_status))].

Definition good_GxFlows (d : GxFlows) : Prop :=
  fits (uint_of GxFlowsPresence) d.(GxFlows_presence) ∧
  when (has_GxFlows_media_component_number d) (fits uint32_t d.(GxFlows_media_component_number)) ∧
  when (has_GxFlows_flow_number d) (good_list (fits uint32_t) d.(GxFlows_flow_number)) ∧
  when (has_GxFlows_content_version d) (good_list (fits uint64_t) d.(GxFlows_content_version)) ∧
  when (has_GxFlows_final_unit_action d) (fits int32_t d.(GxFlows_final_unit_action)) ∧
  when (has_GxFlows_media_component_status d) (fits uint32_t d.(GxFlows_media_component_status)).

#[export] Instance GxFlows_ok : StructOk calcLengthGxFlows packGxFlows unpackGxFlows view_GxFlows good_GxFlows.
Proof. struct_ok. Qed.

Definition view_GxChargingRuleDefinition (d : GxChargingRuleDefinition) : gval := GSub [
    GRaw (le_bytes GxChargingRuleDefinitionPresence d.(GxChargingRuleDefinition_presence));
    opt (has_GxChargingRuleDefinition_charging_rule_name d) (view_octets GxChargingRuleNameOctetString d.(GxChargingRuleDefinition_charging_rule_name));
    opt (has_GxChargingRuleDefinition_service_identifier d) (view_basic uint32_t d.(GxChargingRuleDefinition_service_identifier));
    opt (has_GxChargingRuleDefinition_rating_group d) (view_basic uint32_t d.(GxChargingRuleDefinition_rating_group));
    opt (has_GxChargingRuleDefinition_flow_information d) (view_list view_GxFlowInformation d.(GxChargingRuleDefinition_flow_information));
    opt (has_GxChargingRuleDefinition_default_bearer_indication d) (view_basic int32_t d.(GxChargingRuleDefinition_default_bearer_indication));
    opt (has_GxChargingRuleDefinition_tdf_application_identifier d) (view_octets GxTdfApplicationIdentifierOctetString d.(GxChargingRuleDefinition_tdf_application_identifier));
    opt (has_GxChargingRuleDefinition_flow_status d) (view_basic int32_t d.(GxChargingRuleDefinition_flow_status));
    opt (has_GxChargingRuleDefinition_qos_information d) (view_GxQosInformation d.(GxChargingRuleDefinition_qos_information));
    opt (has_GxChargingRuleDefinition_ps_to_cs_session_continuity d) (view_basic int32_t d.(GxChargingRuleDefinition_ps_to_cs_session_continuity));
    opt (has_GxChargingRuleDefinition_reporting_level d) (view_basic int32_t d.(GxChargingRuleDefinition_reporting_level));
    opt (has_GxChargingRuleDefinition_online d) (view_basic int32_t d.(GxChargingRuleDefinition_online));
    opt (has_GxChargingRuleDefinition_offline d) (view_basic int32_t d.(GxChargingRuleDefinition_offline));
    opt (has_GxChargingRuleDefinition_max_plr_dl d) (view_basic float d.(GxChargingRuleDefinition_max_plr_dl));
    opt (has_GxChargingRuleDefinition_max_plr_ul d) (view_basic float d.(GxChargingRuleDefinition_max_plr_ul));
    opt (has_GxChargingRuleDefinition_metering_method d) (view_basic int32_t d.(GxChargingRuleDefinition_metering_method));
    opt (has_GxChargingRuleDefinition_precedence d) (view_basic uint32_t d.(GxChargingRuleDefinition_precedence));
    opt (has_GxChargingRuleDefinition_af_charging_identifier d) (view_octets GxAfChargingIdentifierOctetString d.(GxChargingRuleDefinition_af_charging_identifier));
    opt (has_GxChargingRuleDefinition_flows d) (view_list view_GxFlows d.(GxChargingRuleDefinition_flows));
    opt (has_GxChargingRuleDefinition_monitoring_key d) (view_octets GxMonitoringKeyOctetString d.(GxChargingRuleDefinition_monitoring_key));
    opt (has_GxChargingRuleDefinition_redirect_information d) (view_GxRedirectInformation d.(GxChargingRuleDefinition_redirect_information));
    opt (has_GxChargingRuleDefinition_mute_notification d) (view_basic int32_t d.(GxChargingRuleDefinition_mute_notification));
    opt (has_GxChargingRuleDefinition_af_signalling_protocol d) (view_basic int32_t d.(GxChargingRuleDefinition_af_signalling_protocol));
    opt (has_GxChargingRuleDefinition_sponsor_identity d) (view_octets GxSponsorIdentityOctetString d.(GxChargingRuleDefinition_sponsor_identity));
    opt (has_GxChargingRuleDefinition_application_service_provider_identity d) (view_octets GxApplicationServiceProviderIdentityOctetString d.(GxChargingRuleDefinition_application_service_provider_identity));
    opt (has_GxChargingRuleDefinition_required_access_info d) (view_list (view_basic int32_t) d.(GxChargingRuleDefinition_required_access_info));
    opt (has_GxChargingRuleDefinition_sharing_key_dl d) (view_basic uint32_t d.(GxChargingRuleDefinition_sharing_key_dl));
    opt (has_GxChargingRuleDefinition_sharing_key_ul d) (view_basic uint32_t d.(GxChargingRuleDefinition_sharing_key_ul));
    opt (has_GxChargingRuleDefinition_traffic_steering_policy_identifier_dl d) (view_octets GxTrafficSteeringPolicyIdentifierDlOctetString d.(GxChargingRuleDefinition_traffic_steering_policy_identifier_dl));
    opt (has_GxChargingRuleDefinition_traffic_steering_policy_identifier_ul d) (view_octets GxTrafficSteeringPolicyIdentifierUlOctetString d.(GxChargingRuleDefinition_traffic_steering_policy_identifier_ul));
    opt (has_GxChargingRuleDefinition_content_version d) (view_basic uint64_t d.(GxChargingRuleDefinition_content_version))].

Definition good_GxChargingRuleDefinition (d : GxChargingRuleDefinition) : Prop :=
  fits (uint_of GxChargingRuleDefinitionPresence) d.(GxChargingRuleDefinition_presence) ∧
  when (has_GxChargingRuleDefinition_charging_rule_name d) (good_octets GxChargingRuleNameOctetString d.(GxChargingRuleDefinition_charging_rule_name)) ∧
  when (has_GxChargingRuleDefinition_service_identifier d) (fits uint32_t d.(GxChargingRuleDefinition_service_identifier)) ∧
  when (has_GxChargingRuleDefinition_rating_group d) (fits uint32_t d.(GxChargingRuleDefinition_rating_group)) ∧
  when (has_GxChargingRuleDefinition_flow_information d) (good_list good_GxFlowInformation d.(GxChargingRuleDefinition_flow_information)) ∧
  when (has_GxChargingRuleDefinition_default_bearer_indication d) (fits int32_t d.(GxChargingRuleDefinition_default_bearer_indication)) ∧
  when (has_GxChargingRuleDefinition_tdf_application_identifier d) (good_octets GxTdfApplicationIdentifierOctetString d.(GxChargingRuleDefinition_tdf_application_identifier)) ∧
  when (has_GxChargingRuleDefinition_flow_status d) (fits int32_t d.(GxChargingRuleDefinition_flow_status)) ∧
  when (has_GxChargingRuleDefinition_qos_information d) (good_GxQosInformation d.(GxChargingRuleDefinition_qos_information)) ∧
  when (has_GxChargingRuleDefinition_ps_to_cs_session_continuity d) (fits int32_t d.(GxChargingRuleDefinition_ps_to_cs_session_continuity)) ∧
  when (has_GxChargingRuleDefinition_reporting_level d) (fits int32_t d.(GxChargingRuleDefinition_reporting_level)) ∧
  when (has_GxChargingRuleDefinition_online d) (fits int32_t d.(GxChargingRuleDefinition_online)) ∧
  when (has_GxChargingRuleDefinition_offline d) (fits int32_t d.(GxChargingRuleDefinition_offline)) ∧
  when (has_GxChargingRuleDefinition_max_plr_dl d) (fits float d.(GxChargingRuleDefinition_max_plr_dl)) ∧
  when (has_GxChargingRuleDefinition_max_plr_ul d) (fits float d.(GxChargingRuleDefinition_max_plr_ul)) ∧
  when (has_GxChargingRuleDefinition_metering_method d) (fits int32_t d.(GxChargingRuleDefinition_metering_method)) ∧
  when (has_GxChargingRuleDefinition_precedence d) (fits uint32_t d.(GxChargingRuleDefinition_precedence)) ∧
  when (has_GxChargingRuleDefinition_af_charging_identifier d) (good_octets GxAfChargingIdentifierOctetString d.(GxChargingRuleDefinition_af_charging_identifier)) ∧
  when (has_GxChargingRuleDefinition_flows d) (good_list good_GxFlows d.(GxChargingRuleDefinition_flows)) ∧
  when (has_GxChargingRuleDefinition_monitoring_key d) (good_octets GxMonitoringKeyOctetString d.(GxChargingRuleDefinition_monitoring_key)) ∧
  when (has_GxChargingRuleDefinition_redirect_information d) (good_GxRedirectInformation d.(GxChargingRuleDefinition_redirect_information)) ∧
  when (has_GxChargingRuleDefinition_mute_notification d) (fits int32_t d.(GxChargingRuleDefinition_mute_notification)) ∧
  when (has_GxChargingRuleDefinition_af_signalling_protocol d) (fits int32_t d.(GxChargingRuleDefinition_af_signalling_protocol)) ∧
  when (has_GxChargingRuleDefinition_sponsor_identity d) (good_octets GxSponsorIdentityOctetString d.(GxChargingRuleDefinition_sponsor_identity)) ∧
  when (has_GxChargingRuleDefinition_application_service_provider_identity d) (good_octets GxApplicationServiceProviderIdentityOctetString d.(GxChargingRuleDefinition_application_service_provider_identity)) ∧
  when (has_GxChargingRuleDefinition_required_access_info d) (good_list (fits int32_t) d.(GxChargingRuleDefinition_required_access_info)) ∧
  when (has_GxChargingRuleDefinition_sharing_key_dl d) (fits uint32_t d.(GxChargingRuleDefinition_sharing_key_dl)) ∧
  when (has_GxChargingRuleDefinition_sharing_key_ul d) (fits uint32_t d.(GxChargingRuleDefinition_sharing_key_ul)) ∧
  when (has_GxChargingRuleDefinition_traffic_steering_policy_identifier_dl d) (good_octets GxTrafficSteeringPolicyIdentifierDlOctetString d.(GxChargingRuleDefinition_traffic_steering_policy_identifier_dl)) ∧
  when (has_GxChargingRuleDefinition_traffic_steering_policy_identifier_ul d) (good_octets GxTrafficSteeringPolicyIdentifierUlOctetString d.(GxChargingRuleDefinition_traffic_steering_policy_identifier_ul)) ∧
  when (has_GxChargingRuleDefinition_content_version d) (fits uint64_t d.(GxChargingRuleDefinition_content_version)).

#[export] Instance GxChargingRuleDefinition_ok : StructOk calcLengthGxChargingRuleDefinition packGxChargingRuleDefinition unpackGxChargingRuleDefinition view_GxChargingRuleDefinition good_GxChargingRuleDefinition.
Proof. struct_ok. Qed.

Definition view_GxChargingRuleInstall (d : GxChargingRuleInstall) : gval := GSub [
    GRaw (le_bytes GxChargingRuleInstallPresence d.(GxChargingRuleInstall_presence));
    opt (has_GxChargingRuleInstall_charging_rule_definition d) (view_list view_GxChargingRuleDefinition d.(GxChargingRuleInstall_charging_rule_definition));
    opt (has_GxChargingRuleInstall_charging_rule_name d) (view_list (view_octets GxChargingRuleNameOctetString) d.(GxChargingRuleInstall_charging_rule_name));
    opt (has_GxChargingRuleInstall_charging_rule_base_name d) (view_list (view_octets GxChargingRuleBaseNameOctetString) d.(GxChargingRuleInstall_charging_rule_base_name));
    opt (has_GxChargingRuleInstall_bearer_identifier d) (view_octets GxBearerIdentifierOctetString d.(GxChargingRuleInstall_bearer_identifier));
    opt (has_GxChargingRuleInstall_monitoring_flags d) (view_basic uint32_t d.(GxChargingRuleInstall_monitoring_flags));
    opt (has_GxChargingRuleInstall_rule_activation_time d) (view_basic FdTime d.(GxChargingRuleInstall_rule_activation_time));
    opt (has_GxChargingRuleInstall_rule_deactivation_time d) (view_basic FdTime d.(GxChargingRuleInstall_rule_deactivation_time));
    opt (has_GxChargingRuleInstall_resource_allocation_notification d) (view_basic int32_t d.(GxChargingRuleInstall_resource_allocation_notification));
    opt (has_GxChargingRuleInstall_charging_correlation_indicator d) (view_basic int32_t d.(GxChargingRuleInstall_charging_correlation_indicator));
    opt (has_GxChargingRuleInstall_ip_can_type d) (view_basic int32_t d.(GxChargingRuleInstall_ip_can_type))].

Definition good_GxChargingRuleInstall (d : GxChargingRuleInstall) : Prop :=
  fits (uint_of GxChargingRuleInstallPresence) d.(GxChargingRuleInstall_presence) ∧
  when (has_GxChargingRuleInstall_charging_rule_definition d) (good_list good_GxChargingRuleDefinition d.(GxChargingRuleInstall_charging_rule_definition)) ∧
  when (has_GxChargingRuleInstall_charging_rule_name d) (good_octets_list GxChargingRuleNameOctetString d.(GxChargingRuleInstall_charging_rule_name)) ∧
  when (has_GxChargingRuleInstall_charging_rule_base_name d) (good_octets_list GxChargingRuleBaseNameOctetString d.(GxChargingRuleInstall_charging_rule_base_name)) ∧
  when (has_GxChargingRuleInstall_bearer_identifier d) (good_octets GxBearerIdentifierOctetString d.(GxChargingRuleInstall_bearer_identifier)) ∧
  when (has_GxChargingRuleInstall_monitoring_flags d) (fits uint32_t d.(GxChargingRuleInstall_monitoring_flags)) ∧
  when (has_GxChargingRuleInstall_rule_activation_time d) (fits FdTime d.(GxChargingRuleInstall_rule_activation_time)) ∧
  when (has_GxChargingRuleInstall_rule_deactivation_time d) (fits FdTime d.(GxChargingRuleInstall_rule_deactivation_time)) ∧
  when (has_GxChargingRuleInstall_resource_allocation_notification d) (fits int32_t d.(GxChargingRuleInstall_resource_allocation_notification)) ∧
  when (has_GxChargingRuleInstall_charging_correlation_indicator d) (fits int32_t d.(GxChargingRuleInstall_charging_correlation_indicator)) ∧
  when (has_GxChargingRuleInstall_ip_can_type d) (fits int32_t d.(GxChargingRuleInstall_ip_can_type)).

#[export] Instance GxChargingRuleInstall_ok : StructOk calcLengthGxChargingRuleInstall packGxChargingRuleInstall unpackGxChargingRuleInstall view_GxChargingRuleInstall good_GxChargingRuleInstall.
Proof. struct_ok. Qed.

Definition view_GxChargingRuleRemove (d : GxChargingRuleRemove) : gval := GSub [
    GRaw (le_bytes GxChargingRuleRemovePresence d.(GxChargingRuleRemove_presence));
    opt (has_GxChargingRuleRemove_charging_rule_name d) (view_list (view_octets GxChargingRuleNameOctetString) d.(GxChargingRuleRemove_charging_rule_name));
    opt (has_GxChargingRuleRemove_charging_rule_base_name d) (view_list (view_octets GxChargingRuleBaseNameOctetString) d.(GxChargingRuleRemove_charging_rule_base_name));
    opt (has_GxChargingRuleRemove_required_access_info d) (view_list (view_basic int32_t) d.(GxChargingRuleRemove_required_access_info));
    opt (has_GxChargingRuleRemove_resource_release_notification d) (view_basic int32_t d.(GxChargingRuleRemove_resource_release_notification))].

Definition good_GxChargingRuleRemove (d : GxChargingRuleRemove) : Prop :=
  fits (uint_of GxChargingRuleRemovePresence) d.(GxChargingRuleRemove_presence) ∧
  when (has_GxChargingRuleRemove_charging_rule_name d) (good_octets_list GxChargingRuleNameOctetString d.(GxChargingRuleRemove_charging_rule_name)) ∧
  when (has_GxChargingRuleRemove_charging_rule_base_name d) (good_octets_list GxChargingRuleBaseNameOctetString d.(GxChargingRuleRemove_charging_rule_base_name)) ∧
  when (has_GxChargingRuleRemove_required_access_info d) (good_list (fits int32_t) d.(GxChargingRuleRemove_required_access_info)) ∧
  when (has_GxChargingRuleRemove_resource_release_notification d) (fits int32_t d.(GxChargingRuleRemove_resource_release_notification)).

#[export] Instance GxChargingRuleRemove_ok : StructOk calcLengthGxChargingRuleRemove packGxChargingRuleRemove unpackGxChargingRuleRemove view_GxChargingRuleRemove good_GxChargingRuleRemove.
Proof. struct_ok. Qed.

Definition view_GxOcOlr (d : GxOcOlr) : gval := GSub [
    GRaw (le_bytes GxOcOlrPresence d.(GxOcOlr_presence));
    opt (has_GxOcOlr_oc_sequence_number d) (view_basic uint64_t d.(GxOcOlr_oc_sequence_number));
    opt (has_GxOcOlr_oc_report_type d) (view_basic int32_t d.(GxOcOlr_oc_report_type));
    opt (has_GxOcOlr_oc_reduction_percentage d) (view_basic uint32_t d.(GxOcOlr_oc_reduction_percentage));
    opt (has_GxOcOlr_oc_validity_duration d) (view_basic uint32_t d.(GxOcOlr_oc_validity_duration))].

Definition good_GxOcOlr (d : GxOcOlr) : Prop :=
  fits (uint_of GxOcOlrPresence) d.(GxOcOlr_presence) ∧
  when (has_GxOcOlr_oc_sequence_number d) (fits uint64_t d.(GxOcOlr_oc_sequence_number)) ∧
  when (has_GxOcOlr_oc_report_type d) (fits int32_t d.(GxOcOlr_oc_report_type)) ∧
  when (has_GxOcOlr_oc_reduction_percentage d) (fits uint32_t d.(GxOcOlr_oc_reduction_percentage)) ∧
  when (has_GxOcOlr_oc_validity_duration d) (fits uint32_t d.(GxOcOlr_oc_validity_duration)).

#[export] Instance GxOcOlr_ok : StructOk calcLengthGxOcOlr packGxOcOlr unpackGxOcOlr view_GxOcOlr good_GxOcOlr.
Proof. struct_ok. Qed.

Definition view_GxExperimentalResult (d : GxExperimentalResult) : gval := GSub [
    GRaw (le_bytes GxExperimentalResultPresence d.(GxExperimentalResult_presence));
    opt (has_GxExperimentalResult_vendor_id d) (view_basic uint32_t d.(GxExperimentalResult_vendor_id));
    opt (has_GxExperimentalResult_experimental_result_code d) (view_basic uint32_t d.(GxExperimentalResult_experimental_result_code))].

Definition good_GxExperimentalResult (d : GxExperimentalResult) : Prop :=
  fits (uint_of GxExperimentalResultPresence) d.(GxExperimentalResult_presence) ∧
  when (has_GxExperimentalResult_vendor_id d) (fits uint32_t d.(GxExperimentalResult_vendor_id)) ∧
  when (has_GxExperimentalResult_experimental_result_code d) (fits uint32_t d.(GxExperimentalResult_experimental_result_code)).

#[export] Instance GxExperimentalResult_ok : StructOk calcLengthGxExperimentalResult packGxExperimentalResult unpackGxExperimentalResult view_GxExperimentalResult good_GxExperimentalResult.
Proof. struct_ok. Qed.

Definition view_GxCCA (d : GxCCA) : gval := GSub [
    GRaw (le_bytes GxCcaPresence d.(GxCCA_presence));
    opt (has_GxCCA_session_id d) (view_octets GxSessionIdOctetString d.(GxCCA_session_id));
    opt (has_GxCCA_drmp d) (view_basic int32_t d.(GxCCA_drmp));
    opt (has_GxCCA_auth_application_id d) (view_basic uint32_t d.(GxCCA_auth_application_id));
    opt (has_GxCCA_origin_host d) (view_octets GxOriginHostOctetString d.(GxCCA_origin_host));
    opt (has_GxCCA_origin_realm d) (view_octets GxOriginRealmOctetString d.(GxCCA_origin_realm));
    opt (has_GxCCA_result_code d) (view_basic uint32_t d.(GxCCA_result_code));
    opt (has_GxCCA_experimental_result d) (view_GxExperimentalResult d.(GxCCA_experimental_result));
    opt (has_GxCCA_cc_request_type d) (view_basic int32_t d.(GxCCA_cc_request_type));
    opt (has_GxCCA_cc_request_number d) (view_basic uint32_t d.(GxCCA_cc_request_number));
    opt (has_GxCCA_oc_supported_features d) (view_GxOcSupportedFeatures d.(GxCCA_oc_supported_features));
    opt (has_GxCCA_oc_olr d) (view_GxOcOlr d.(GxCCA_oc_olr));
    opt (has_GxCCA_supported_features d) (view_list view_GxSupportedFeatures d.(GxCCA_supported_features));
    opt (has_GxCCA_bearer_control_mode d) (view_basic int32_t d.(GxCCA_bearer_control_mode));
    opt (has_GxCCA_event_trigger d) (view_list (view_basic int32_t) d.(GxCCA_event_trigger));
    opt (has_GxCCA_event_report_indication d) (view_GxEventReportIndication d.(GxCCA_event_report_indication));
    opt (has_GxCCA_origin_state_id d) (view_basic uint32_t d.(GxCCA_origin_state_id));
    opt (has_GxCCA_redirect_host d) (view_list (view_octets GxRedirectHostOctetString) d.(GxCCA_redirect_host));
    opt (has_GxCCA_redirect_host_usage d) (view_basic int32_t d.(GxCCA_redirect_host_usage));
    opt (has_GxCCA_redirect_max_cache_time d) (view_basic uint32_t d.(GxCCA_redirect_max_cache_time));
    opt (has_GxCCA_charging_rule_remove d) (view_list view_GxChargingRuleRemove d.(GxCCA_charging_rule_remove));
    opt (has_GxCCA_charging_rule_install d) (view_list view_GxChargingRuleInstall d.(GxCCA_charging_rule_install));
    opt (has_GxCCA_charging_information d) (view_GxChargingInformation d.(GxCCA_charging_information));
    opt (has_GxCCA_online d) (view_basic int32_t d.(GxCCA_online));
    opt (has_GxCCA_offline d) (view_basic int32_t d.(GxCCA_offline));
    opt (has_GxCCA_qos_information d) (view_list view_GxQosInformation d.(GxCCA_qos_information));
    opt (has_GxCCA_revalidation_time d) (view_basic FdTime d.(GxCCA_revalidation_time));
    opt (has_GxCCA_default_eps_bearer_qos d) (view_GxDefaultEpsBearerQos d.(GxCCA_default_eps_bearer_qos));
    opt (has_GxCCA_default_qos_information d) (view_GxDefaultQosInformation d.(GxCCA_default_qos_information));
    opt (has_GxCCA_bearer_usage d) (view_basic int32_t d.(GxCCA_bearer_usage));
    opt (has_GxCCA_usage_monitoring_information d) (view_list view_GxUsageMonitoringInformation d.(GxCCA_usage_monitoring_information));
    opt (has_GxCCA_csg_information_reporting d) (view_list (view_basic int32_t) d.(GxCCA_csg_information_reporting));
    opt (has_GxCCA_user_csg_information d) (view_GxUserCsgInformation d.(GxCCA_user_csg_information));
    opt (has_GxCCA_pra_install d) (view_GxPraInstall d.(GxCCA_pra_install));
    opt (has_GxCCA_pra_remove d) (view_GxPraRemove d.(GxCCA_pra_remove));
    opt (has_GxCCA_presence_reporting_area_information d) (view_GxPresenceReportingAreaInformation d.(GxCCA_presence_reporting_area_information));
    opt (has_GxCCA_session_release_cause d) (view_basic int32_t d.(GxCCA_session_release_cause));
    opt (has_GxCCA_nbifom_support d) (view_basic int32_t d.(GxCCA_nbifom_support));
    opt (has_GxCCA_nbifom_mode d) (view_basic int32_t d.(GxCCA_nbifom_mode));
    opt (has_GxCCA_default_access d) (view_basic int32_t d.(GxCCA_default_access));
    opt (has_GxCCA_ran_rule_support d) (view_basic uint32_t d.(GxCCA_ran_rule_support));
    opt (has_GxCCA_routing_rule_report d) (view_list view_GxRoutingRuleReport d.(GxCCA_routing_rule_report));
    opt (has_GxCCA_conditional_policy_information d) (view_list view_GxConditionalPolicyInformation d.(GxCCA_conditional_policy_information));
    opt (has_GxCCA_removal_of_access d) (view_basic int32_t d.(GxCCA_removal_of_access));
    opt (has_GxCCA_ip_can_type d) (view_basic int32_t d.(GxCCA_ip_can_type));
    opt (has_GxCCA_error_message d) (view_octets GxErrorMessageOctetString d.(GxCCA_error_message));
    opt (has_GxCCA_error_reporting_host d) (view_octets GxErrorReportingHostOctetString d.(GxCCA_error_reporting_host));
    opt (has_GxCCA_failed_avp d) (view_GxFailedAvp d.(GxCCA_failed_avp));
    opt (has_GxCCA_proxy_info d) (view_list view_GxProxyInfo d.(GxCCA_proxy_info));
    opt (has_GxCCA_route_record d) (view_list (view_octets GxRouteRecordOctetString) d.(GxCCA_route_record));
    opt (has_GxCCA_load d) (view_list view_GxLoad d.(GxCCA_load))].

Definition good_GxCCA (d : GxCCA) : Prop :=
  fits (uint_of GxCcaPresence) d.(GxCCA_presence) ∧
  when (has_GxCCA_session_id d) (good_octets GxSessionIdOctetString d.(GxCCA_session_id)) ∧
  when (has_GxCCA_drmp d) (fits int32_t d.(GxCCA_drmp)) ∧
  when (has_GxCCA_auth_application_id d) (fits uint32_t d.(GxCCA_auth_application_id)) ∧
  when (has_GxCCA_origin_host d) (good_octets GxOriginHostOctetString d.(GxCCA_origin_host)) ∧
  when (has_GxCCA_origin_realm d) (good_octets GxOriginRealmOctetString d.(GxCCA_origin_realm)) ∧
  when (has_GxCCA_result_code d) (fits uint32_t d.(GxCCA_result_code)) ∧
  when (has_GxCCA_experimental_result d) (good_GxExperimentalResult d.(GxCCA_experimental_result)) ∧
  when (has_GxCCA_cc_request_type d) (fits int32_t d.(GxCCA_cc_request_type)) ∧
  when (has_GxCCA_cc_request_number d) (fits uint32_t d.(GxCCA_cc_request_number)) ∧
  when (has_GxCCA_oc_supported_features d) (good_GxOcSupportedFeatures d.(GxCCA_oc_supported_features)) ∧
  when (has_GxCCA_oc_olr d) (good_GxOcOlr d.(GxCCA_oc_olr)) ∧
  when (has_GxCCA_supported_features d) (good_list good_GxSupportedFeatures d.(GxCCA_supported_features)) ∧
  when (has_GxCCA_bearer_control_mode d) (fits int32_t d.(GxCCA_bearer_control_mode)) ∧
  when (has_GxCCA_event_trigger d) (good_list (fits int32_t) d.(GxCCA_event_trigger)) ∧
  when (has_GxCCA_event_report_indication d) (good_GxEventReportIndication d.(GxCCA_event_report_indication)) ∧
  when (has_GxCCA_origin_state_id d) (fits uint32_t d.(GxCCA_origin_state_id)) ∧
  when (has_GxCCA_redirect_host d) (good_octets_list GxRedirectHostOctetString d.(GxCCA_redirect_host)) ∧
  when (has_GxCCA_redirect_host_usage d) (fits int32_t d.(GxCCA_redirect_host_usage)) ∧
  when (has_GxCCA_redirect_max_cache_time d) (fits uint32_t d.(GxCCA_redirect_max_cache_time)) ∧
  when (has_GxCCA_charging_rule_remove d) (good_list good_GxChargingRuleRemove d.(GxCCA_charging_rule_remove)) ∧
  when (has_GxCCA_charging_rule_install d) (good_list good_GxChargingRuleInstall d.(GxCCA_charging_rule_install)) ∧
  when (has_GxCCA_charging_information d) (good_GxChargingInformation d.(GxCCA_charging_information)) ∧
  when (has_GxCCA_online d) (fits int32_t d.(GxCCA_online)) ∧
  when (has_GxCCA_offline d) (fits int32_t d.(GxCCA_offline)) ∧
  when (has_GxCCA_qos_information d) (good_list good_GxQosInformation d.(GxCCA_qos_information)) ∧
  when (has_GxCCA_revalidation_time d) (fits FdTime d.(GxCCA_revalidation_time)) ∧
  when (has_GxCCA_default_eps_bearer_qos d) (good_GxDefaultEpsBearerQos d.(GxCCA_default_eps_bearer_qos)) ∧
  when (has_GxCCA_default_qos_information d) (good_GxDefaultQosInformation d.(GxCCA_default_qos_information)) ∧
  when (has_GxCCA_bearer_usage d) (fits int32_t d.(GxCCA_bearer_usage)) ∧
  when (has_GxCCA_usage_monitoring_information d) (good_list good_GxUsageMonitoringInformation d.(GxCCA_usage_monitoring_information)) ∧
  when (has_GxCCA_csg_information_reporting d) (good_list (fits int32_t) d.(GxCCA_csg_information_reporting)) ∧
  when (has_GxCCA_user_csg_information d) (good_GxUserCsgInformation d.(GxCCA_user_csg_information)) ∧
  when (has_GxCCA_pra_install d) (good_GxPraInstall d.(GxCCA_pra_install)) ∧
  when (has_GxCCA_pra_remove d) (good_GxPraRemove d.(GxCCA_pra_remove)) ∧
  when (has_GxCCA_presence_reporting_area_information d) (good_GxPresenceReportingAreaInformation d.(GxCCA_presence_reporting_area_information)) ∧
  when (has_GxCCA_session_release_cause d) (fits int32_t d.(GxCCA_session_release_cause)) ∧
  when (has_GxCCA_nbifom_support d) (fits int32_t d.(GxCCA_nbifom_support)) ∧
  when (has_GxCCA_nbifom_mode d) (fits int32_t d.(GxCCA_nbifom_mode)) ∧
  when (has_GxCCA_default_access d) (fits int32_t d.(GxCCA_default_access)) ∧
  when (has_GxCCA_ran_rule_support d) (fits uint32_t d.(GxCCA_ran_rule_support)) ∧
  when (has_GxCCA_routing_rule_report d) (good_list good_GxRoutingRuleReport d.(GxCCA_routing_rule_report)) ∧
  when (has_GxCCA_conditional_policy_information d) (good_list good_GxConditionalPolicyInformation d.(GxCCA_conditional_policy_information)) ∧
  when (has_GxCCA_removal_of_access d) (fits int32_t d.(GxCCA_removal_of_access)) ∧
  when (has_GxCCA_ip_can_type d) (fits int32_t d.(GxCCA_ip_can_type)) ∧
  when (has_GxCCA_error_message d) (good_octets GxErrorMessageOctetString d.(GxCCA_error_message)) ∧
  when (has_GxCCA_error_reporting_host d) (good_octets GxErrorReportingHostOctetString d.(GxCCA_error_reporting_host)) ∧
  when (has_GxCCA_failed_avp d) (good_GxFailedAvp d.(GxCCA_failed_avp)) ∧
  when (has_GxCCA_proxy_info d) (good_list good_GxProxyInfo d.(GxCCA_proxy_info)) ∧
  when (has_GxCCA_route_record d) (good_octets_list GxRouteRecordOctetString d.(GxCCA_route_record)) ∧
  when (has_GxCCA_load d) (good_list good_GxLoad d.(GxCCA_load)).

Lemma GxCCA_message : MessageOk gx_cca_calc_length gx_cca_pack gx_cca_unpack view_GxCCA good_GxCCA.
Proof. message_ok. Qed.

Definition view_GxRAA (d : GxRAA) : gval := GSub [
    GRaw (le_bytes GxRaaPresence d.(GxRAA_presence));
    opt (has_GxRAA_session_id d) (view_octets GxSessionIdOctetString d.(GxRAA_session_id));
    opt (has_GxRAA_drmp d) (view_basic int32_t d.(GxRAA_drmp));
    opt (has_GxRAA_origin_host d) (view_octets GxOriginHostOctetString d.(GxRAA_origin_host));
    opt (has_GxRAA_origin_realm d) (view_octets GxOriginRealmOctetString d.(GxRAA_origin_realm));
    opt (has_GxRAA_result_code d) (view_basic uint32_t d.(GxRAA_result_code));
    opt (has_GxRAA_experimental_result d) (view_GxExperimentalResult d.(GxRAA_experimental_result));
    opt (has_GxRAA_origin_state_id d) (view_basic uint32_t d.(GxRAA_origin_state_id));
    opt (has_GxRAA_oc_supported_features d) (view_GxOcSupportedFeatures d.(GxRAA_oc_supported_features));
    opt (has_GxRAA_oc_olr d) (view_GxOcOlr d.(GxRAA_oc_olr));
    opt (has_GxRAA_ip_can_type d) (view_basic int32_t d.(GxRAA_ip_can_type));
    opt (has_GxRAA_rat_type d) (view_basic int32_t d.(GxRAA_rat_type));
    opt (has_GxRAA_an_trusted d) (view_basic int32_t d.(GxRAA_an_trusted));
    opt (has_GxRAA_an_gw_address d) (view_list (view_basic FdAddress) d.(GxRAA_an_gw_address));
    opt (has_GxRAA_tgpp_sgsn_mcc_mnc d) (view_octets Gx3gppSgsnMccMncOctetString d.(GxRAA_tgpp_sgsn_mcc_mnc));
    opt (has_GxRAA_tgpp_sgsn_address d) (view_octets Gx3gppSgsnAddressOctetString d.(GxRAA_tgpp_sgsn_address));
    opt (has_GxRAA_tgpp_sgsn_ipv6_address d) (view_octets Gx3gppSgsnIpv6AddressOctetString d.(GxRAA_tgpp_sgsn_ipv6_address));
    opt (has_GxRAA_rai d) (view_octets GxRaiOctetString d.(GxRAA_rai));
    opt (has_GxRAA_tgpp_user_location_info d) (view_octets Gx3gppUserLocationInfoOctetString d.(GxRAA_tgpp_user_location_info));
    opt (has_GxRAA_user_location_info_time d) (view_basic FdTime d.(GxRAA_user_location_info_time));
    opt (has_GxRAA_netloc_access_support d) (view_basic uint32_t d.(GxRAA_netloc_access_support));
    opt (has_GxRAA_user_csg_information d) (view_GxUserCsgInformation d.(GxRAA_user_csg_information));
    opt (has_GxRAA_tgpp_ms_timezone d) (view_octets Gx3gppMsTimezoneOctetString d.(GxRAA_tgpp_ms_timezone));
    opt (has_GxRAA_default_qos_information d) (view_GxDefaultQosInformation d.(GxRAA_default_qos_information));
    opt (has_GxRAA_charging_rule_report d) (view_list view_GxChargingRuleReport d.(GxRAA_charging_rule_report));
    opt (has_GxRAA_error_message d) (view_octets GxErrorMessageOctetString d.(GxRAA_error_message));
    opt (has_GxRAA_error_reporting_host d) (view_octets GxErrorReportingHostOctetString d.(GxRAA_error_reporting_host));
    opt (has_GxRAA_failed_avp d) (view_GxFailedAvp d.(GxRAA_failed_avp));
    opt (has_GxRAA_proxy_info d) (view_list view_GxProxyInfo d.(GxRAA_proxy_info))].

Definition good_GxRAA (d : GxRAA) : Prop :=
  fits (uint_of GxRaaPresence) d.(GxRAA_presence) ∧
  when (has_GxRAA_session_id d) (good_octets GxSessionIdOctetString d.(GxRAA_session_id)) ∧
  when (has_GxRAA_drmp d) (fits int32_t d.(GxRAA_drmp)) ∧
  when (has_GxRAA_origin_host d) (good_octets GxOriginHostOctetString d.(GxRAA_origin_host)) ∧
  when (has_GxRAA_origin_realm d) (good_octets GxOriginRealmOctetString d.(GxRAA_origin_realm)) ∧
  when (has_GxRAA_result_code d) (fits uint32_t d.(GxRAA_result_code)) ∧
  when (has_GxRAA_experimental_result d) (good_GxExperimentalResult d.(GxRAA_experimental_result)) ∧
  when (has_GxRAA_origin_state_id d) (fits uint32_t d.(GxRAA_origin_state_id)) ∧
  when (has_GxRAA_oc_supported_features d) (good_GxOcSupportedFeatures d.(GxRAA_oc_supported_features)) ∧
  when (has_GxRAA_oc_olr d) (good_GxOcOlr d.(GxRAA_oc_olr)) ∧
  when (has_GxRAA_ip_can_type d) (fits int32_t d.(GxRAA_ip_can_type)) ∧
  when (has_GxRAA_rat_type d) (fits int32_t d.(GxRAA_rat_type)) ∧
  when (has_GxRAA_an_trusted d) (fits int32_t d.(GxRAA_an_trusted)) ∧
  when (has_GxRAA_an_gw_address d) (good_list (fits FdAddress) d.(GxRAA_an_gw_address)) ∧
  when (has_GxRAA_tgpp_sgsn_mcc_mnc d) (good_octets Gx3gppSgsnMccMncOctetString d.(GxRAA_tgpp_sgsn_mcc_mnc)) ∧
  when (has_GxRAA_tgpp_sgsn_address d) (good_octets Gx3gppSgsnAddressOctetString d.(GxRAA_tgpp_sgsn_address)) ∧
  when (has_GxRAA_tgpp_sgsn_ipv6_address d) (good_octets Gx3gppSgsnIpv6AddressOctetString d.(GxRAA_tgpp_sgsn_ipv6_address)) ∧
  when (has_GxRAA_rai d) (good_octets GxRaiOctetString d.(GxRAA_rai)) ∧
  when (has_GxRAA_tgpp_user_location_info d) (good_octets Gx3gppUserLocationInfoOctetString d.(GxRAA_tgpp_user_location_info)) ∧
  when (has_GxRAA_user_location_info_time d) (fits FdTime d.(GxRAA_user_location_info_time)) ∧
  when (has_GxRAA_netloc_access_support d) (fits uint32_t d.(GxRAA_netloc_access_support)) ∧
  when (has_GxRAA_user_csg_information d) (good_GxUserCsgInformation d.(GxRAA_user_csg_information)) ∧
  when (has_GxRAA_tgpp_ms_timezone d) (good_octets Gx3gppMsTimezoneOctetString d.(GxRAA_tgpp_ms_timezone)) ∧
  when (has_GxRAA_default_qos_information d) (good_GxDefaultQosInformation d.(GxRAA_default_qos_information)) ∧
  when (has_GxRAA_charging_rule_report d) (good_list good_GxChargingRuleReport d.(GxRAA_charging_rule_report)) ∧
  when (has_GxRAA_error_message d) (good_octets GxErrorMessageOctetString d.(GxRAA_error_message)) ∧
  when (has_GxRAA_error_reporting_host d) (good_octets GxErrorReportingHostOctetString d.(GxRAA_error_reporting_host)) ∧
  when (has_GxRAA_failed_avp d) (good_GxFailedAvp d.(GxRAA_failed_avp)) ∧
  when (has_GxRAA_proxy_info d) (good_list good_GxProxyInfo d.(GxRAA_proxy_info)).

Lemma GxRAA_message : MessageOk gx_raa_calc_length gx_raa_pack gx_raa_unpack view_GxRAA good_GxRAA.
Proof. message_ok. Qed.

Definition view_GxRAR (d : GxRAR) : gval := GSub [
    GRaw (le_bytes GxRarPresence d.(GxRAR_presence));
    opt (has_GxRAR_session_id d) (view_octets GxSessionIdOctetString d.(GxRAR_session_id));
    opt (has_GxRAR_drmp d) (view_basic int32_t d.(GxRAR_drmp));
    opt (has_GxRAR_auth_application_id d) (view_basic uint32_t d.(GxRAR_auth_application_id));
    opt (has_GxRAR_origin_host d) (view_octets GxOriginHostOctetString d.(GxRAR_origin_host));
    opt (has_GxRAR_origin_realm d) (view_octets GxOriginRealmOctetString d.(GxRAR_origin_realm));
    opt (has_GxRAR_destination_realm d) (view_octets GxDestinationRealmOctetString d.(GxRAR_destination_realm));
    opt (has_GxRAR_destination_host d) (view_octets GxDestinationHostOctetString d.(GxRAR_destination_host));
    opt (has_GxRAR_re_auth_request_type d) (view_basic int32_t d.(GxRAR_re_auth_request_type));
    opt (has_GxRAR_session_release_cause d) (view_basic int32_t d.(GxRAR_session_release_cause));
    opt (has_GxRAR_origin_state_id d) (view_basic uint32_t d.(GxRAR_origin_state_id));
    opt (has_GxRAR_oc_supported_features d) (view_GxOcSupportedFeatures d.(GxRAR_oc_supported_features));
    opt (has_GxRAR_event_trigger d) (view_list (view_basic int32_t) d.(GxRAR_event_trigger));
    opt (has_GxRAR_event_report_indication d) (view_GxEventReportIndication d.(GxRAR_event_report_indication));
    opt (has_GxRAR_charging_rule_remove d) (view_list view_GxChargingRuleRemove d.(GxRAR_charging_rule_remove));
    opt (has_GxRAR_charging_rule_install d) (view_list view_GxChargingRuleInstall d.(GxRAR_charging_rule_install));
    opt (has_GxRAR_default_eps_bearer_qos d) (view_GxDefaultEpsBearerQos d.(GxRAR_default_eps_bearer_qos));
    opt (has_GxRAR_qos_information d) (view_list view_GxQosInformation d.(GxRAR_qos_information));
    opt (has_GxRAR_default_qos_information d) (view_GxDefaultQosInformation d.(GxRAR_default_qos_information));
    opt (has_GxRAR_revalidation_time d) (view_basic FdTime d.(GxRAR_revalidation_time));
    opt (has_GxRAR_usage_monitoring_information d) (view_list view_GxUsageMonitoringInformation d.(GxRAR_usage_monitoring_information));
    opt (has_GxRAR_pcscf_restoration_indication d) (view_basic uint32_t d.(GxRAR_pcscf_restoration_indication));
    opt (has_GxRAR_conditional_policy_information d) (view_list view_GxConditionalPolicyInformation d.(GxRAR_conditional_policy_information));
    opt (has_GxRAR_removal_of_access d) (view_basic int32_t d.(GxRAR_removal_of_access));
    opt (has_GxRAR_ip_can_type d) (view_basic int32_t d.(GxRAR_ip_can_type));
    opt (has_GxRAR_pra_install d) (view_GxPraInstall d.(GxRAR_pra_install));
    opt (has_GxRAR_pra_remove d) (view_GxPraRemove d.(GxRAR_pra_remove));
    opt (has_GxRAR_csg_information_reporting d) (view_list (view_basic int32_t) d.(GxRAR_csg_information_reporting));
    opt (has_GxRAR_proxy_info d) (view_list view_GxProxyInfo d.(GxRAR_proxy_info));
    opt (has_GxRAR_route_record d) (view_list (view_octets GxRouteRecordOctetString) d.(GxRAR_route_record))].

Definition good_GxRAR (d : GxRAR) : Prop :=
  fits (uint_of GxRarPresence) d.(GxRAR_presence) ∧
  when (has_GxRAR_session_id d) (good_octets GxSessionIdOctetString d.(GxRAR_session_id)) ∧
  when (has_GxRAR_drmp d) (fits int32_t d.(GxRAR_drmp)) ∧
  when (has_GxRAR_auth_application_id d) (fits uint32_t d.(GxRAR_auth_application_id)) ∧
  when (has_GxRAR_origin_host d) (good_octets GxOriginHostOctetString d.(GxRAR_origin_host)) ∧
  when (has_GxRAR_origin_realm d) (good_octets GxOriginRealmOctetString d.(GxRAR_origin_realm)) ∧
  when (has_GxRAR_destination_realm d) (good_octets GxDestinationRealmOctetString d.(GxRAR_destination_realm)) ∧
  when (has_GxRAR_destination_host d) (good_octets GxDestinationHostOctetString d.(GxRAR_destination_host)) ∧
  when (has_GxRAR_re_auth_request_type d) (fits int32_t d.(GxRAR_re_auth_request_type)) ∧
  when (has_GxRAR_session_release_cause d) (fits int32_t d.(GxRAR_session_release_cause)) ∧
  when (has_GxRAR_origin_state_id d) (fits uint32_t d.(GxRAR_origin_state_id)) ∧
  when (has_GxRAR_oc_supported_features d) (good_GxOcSupportedFeatures d.(GxRAR_oc_supported_features)) ∧
  when (has_GxRAR_event_trigger d) (good_list (fits int32_t) d.(GxRAR_event_trigger)) ∧
  when (has_GxRAR_event_report_indication d) (good_GxEventReportIndication d.(GxRAR_event_report_indication)) ∧
  when (has_GxRAR_charging_rule_remove d) (good_list good_GxChargingRuleRemove d.(GxRAR_charging_rule_remove)) ∧
  when (has_GxRAR_charging_rule_install d) (good_list good_GxChargingRuleInstall d.(GxRAR_charging_rule_install)) ∧
  when (has_GxRAR_default_eps_bearer_qos d) (good_GxDefaultEpsBearerQos d.(GxRAR_default_eps_bearer_qos)) ∧
  when (has_GxRAR_qos_information d) (good_list good_GxQosInformation d.(GxRAR_qos_information)) ∧
  when (has_GxRAR_default_qos_information d) (good_GxDefaultQosInformation d.(GxRAR_default_qos_information)) ∧
  when (has_GxRAR_revalidation_time d) (fits FdTime d.(GxRAR_revalidation_time)) ∧
  when (has_GxRAR_usage_monitoring_information d) (good_list good_GxUsageMonitoringInformation d.(GxRAR_usage_monitoring_information)) ∧
  when (has_GxRAR_pcscf_restoration_indication d) (fits uint32_t d.(GxRAR_pcscf_restoration_indication)) ∧
  when (has_GxRAR_conditional_policy_information d) (good_list good_GxConditionalPolicyInformation d.(GxRAR_conditional_policy_information)) ∧
  when (has_GxRAR_removal_of_access d) (fits int32_t d.(GxRAR_removal_of_access)) ∧
  when (has_GxRAR_ip_can_type d) (fits int32_t d.(GxRAR_ip_can_type)) ∧
  when (has_GxRAR_pra_install d) (good_GxPraInstall d.(GxRAR_pra_install)) ∧
  when (has_GxRAR_pra_remove d) (good_GxPraRemove d.(GxRAR_pra_remove)) ∧
  when (has_GxRAR_csg_information_reporting d) (good_list (fits int32_t) d.(GxRAR_csg_information_reporting)) ∧
  when (has_GxRAR_proxy_info d) (good_list good_GxProxyInfo d.(GxRAR_proxy_info)) ∧
  when (has_GxRAR_route_record d) (good_octets_list GxRouteRecordOctetString d.(GxRAR_route_record)).

Lemma GxRAR_message : MessageOk gx_rar_calc_length gx_rar_pack gx_rar_unpack view_GxRAR good_GxRAR.
Proof. message_ok. Qed.

End GxPackSpec.
