(* ===== verification/GxDict.v ===== *)
(** * The dictionary of the Gx application

    The AVPs for which the structure [gxDict] of src/cp/gx/gx_app/include/gx.h has the
    data of their dictionary entries.  The entries, with the codes of the AVPs, come from
    the Diameter stack. *)

From S2P Require Import Prelude.

Inductive davp : Type :=
  | davp_tdf_destination_host
  | davp_pre_emption_capability
  | davp_packet_filter_content
  | davp_feature_list_id
  | davp_resource_release_notification
  | davp_service_identifier
  | davp_physical_access_id
  | davp_csg_access_mode
  | davp_henb_local_ip_address
  | davp_dynamic_address_flag_extension
  | davp_apn_aggregate_max_bitrate_ul
  | davp_network_request_support
  | davp_termination_cause
  | davp_exponent
  | davp_3gpp_rat_type
  | davp_af_signalling_protocol
  | davp_packet_filter_usage
  | davp_usage_monitoring_support
  | davp_tracking_area_identity
  | davp_load_value
  | davp_feature_list
  | davp_omc_id
  | davp_rai
  | davp_oc_report_type
  | davp_experimental_result
  | davp_cc_request_type
  | davp_service_context_id
  | davp_secondary_event_charging_function_name
  | davp_pcscf_restoration_indication
  | davp_tdf_ip_address
  | davp_load_type
  | davp_extended_gbr_dl
  | davp_oc_feature_vector
  | davp_origin_host
  | davp_pra_remove
  | davp_maximum_wait_time
  | davp_list_of_measurements
  | davp_qos_information
  | davp_final_unit_action
  | davp_conditional_policy_information
  | davp_drmp
  | davp_pra_install
  | davp_logical_access_id
  | davp_resource_allocation_notification
  | davp_rule_deactivation_time
  | davp_flow_status
  | davp_priority_level
  | davp_pre_emption_vulnerability
  | davp_bearer_usage
  | davp_reporting_reason
  | davp_qos_class_identifier
  | davp_3gpp_sgsn_mcc_mnc
  | davp_area_scope
  | davp_re_auth_request_type
  | davp_precedence
  | davp_flow_number
  | davp_pdn_connection_charging_id
  | davp_3gpp_ps_data_off_status
  | davp_redirect_host_usage
  | davp_an_gw_address
  | davp_tunnel_header_filter
  | davp_access_network_charging_identifier_value
  | davp_secondary_charging_collection_function_name
  | davp_tcp_source_port
  | davp_destination_host
  | davp_3gpp_selection_mode
  | davp_location_area_identity
  | davp_logging_interval
  | davp_flow_information
  | davp_ue_local_ip_address
  | davp_extended_apn_ambr_dl
  | davp_tdf_application_identifier
  | davp_tunnel_information
  | davp_media_component_status
  | davp_tft_packet_filter_information
  | davp_guaranteed_bitrate_ul
  | davp_online
  | davp_mbsfn_area
  | davp_extended_apn_ambr_ul
  | davp_extended_gbr_ul
  | davp_content_version
  | davp_usage_monitoring_report
  | davp_event_report_indication
  | davp_job_type
  | davp_bearer_operation
  | davp_user_equipment_info_type
  | davp_tdf_information
  | davp_cc_request_number
  | davp_framed_ipv6_prefix
  | davp_packet_filter_operation
  | davp_coa_ip_address
  | davp_3gpp_charging_characteristics
  | davp_proxy_info
  | davp_used_service_unit
  | davp_charging_rule_install
  | davp_mdt_allowed_plmn_id
  | davp_origin_realm
  | davp_twan_identifier
  | davp_charging_rule_definition
  | davp_flow_label
  | davp_3gpp_ggsn_ipv6_address
  | davp_guaranteed_bitrate_dl
  | davp_restriction_filter_rule
  | davp_3gpp_sgsn_address
  | davp_redirect_address_type
  | davp_tdf_destination_realm
  | davp_user_location_info_time
  | davp_subscription_id_data
  | davp_redirect_server_address
  | davp_nbifom_mode
  | davp_final_unit_indication
  | davp_3gpp_sgsn_ipv6_address
  | davp_3gpp2_bsid
  | davp_trace_collection_entity
  | davp_session_release_cause
  | davp_ran_rule_support
  | davp_unit_value
  | davp_charging_rule_base_name
  | davp_report_interval
  | davp_presence_reporting_area_node
  | davp_user_equipment_info_value
  | davp_route_record
  | davp_presence_reporting_area_identifier
  | davp_csg_information_reporting
  | davp_filter_id
  | davp_presence_reporting_area_information
  | davp_an_gw_status
  | davp_ssid
  | davp_metering_method
  | davp_flow_description
  | davp_logging_duration
  | davp_apn_aggregate_max_bitrate_dl
  | davp_conditional_apn_aggregate_max_bitrate
  | davp_access_network_charging_identifier_gx
  | davp_positioning_method
  | davp_oc_olr
  | davp_routing_rule_install
  | davp_presence_reporting_area_status
  | davp_trace_data
  | davp_sourceid
  | davp_carrier_frequency
  | davp_mbsfn_area_id
  | davp_subscription_id_type
  | davp_usage_monitoring_level
  | davp_bearer_identifier
  | davp_sponsor_identity
  | davp_oc_reduction_percentage
  | davp_default_qos_name
  | davp_routing_rule_definition
  | davp_traffic_steering_policy_identifier_ul
  | davp_mdt_configuration
  | davp_error_reporting_host
  | davp_charging_rule_remove
  | davp_charging_correlation_indicator
  | davp_nbifom_support
  | davp_max_plr_dl
  | davp_event_threshold_event_1i
  | davp_rating_group
  | davp_rat_type
  | davp_event_charging_timestamp
  | davp_default_access
  | davp_event_threshold_event_1f
  | davp_reporting_level
  | davp_allocation_retention_priority
  | davp_bearer_control_mode
  | davp_cell_global_identity
  | davp_max_plr_ul
  | davp_oc_validity_duration
  | davp_application_service_provider_identity
  | davp_csg_membership_indication
  | davp_flow_direction
  | davp_sharing_key_dl
  | davp_default_eps_bearer_qos
  | davp_trace_ne_type_list
  | davp_extended_max_requested_bw_dl
  | davp_redirect_host
  | davp_measurement_period_lte
  | davp_routing_rule_report
  | davp_max_requested_bandwidth_dl
  | davp_user_equipment_info
  | davp_quota_consumption_time
  | davp_origin_state_id
  | davp_qos_negotiation
  | davp_cc_output_octets
  | davp_ran_nas_release_cause
  | davp_sharing_key_ul
  | davp_netloc_access_support
  | davp_trace_event_list
  | davp_supported_features
  | davp_3gpp_user_location_info
  | davp_value_digits
  | davp_security_parameter_index
  | davp_result_code
  | davp_trace_interface_list
  | davp_fixed_user_location_info
  | davp_default_qos_information
  | davp_traffic_steering_policy_identifier_dl
  | davp_redirect_max_cache_time
  | davp_rule_activation_time
  | davp_load
  | davp_3gpp_ggsn_address
  | davp_redirect_server
  | davp_an_trusted
  | davp_e_utran_cell_global_identity
  | davp_called_station_id
  | davp_csg_id
  | davp_framed_ip_address
  | davp_oc_supported_features
  | davp_packet_filter_identifier
  | davp_pcc_rule_status
  | davp_tdf_application_instance_identifier
  | davp_proxy_host
  | davp_event_threshold_rsrp
  | davp_event_threshold_rsrq
  | davp_packet_filter_information
  | davp_subscription_id
  | davp_experimental_result_code
  | davp_collection_period_rrm_lte
  | davp_pdn_connection_id
  | davp_access_network_charging_address
  | davp_auth_application_id
  | davp_revalidation_time
  | davp_execution_time
  | davp_event_trigger
  | davp_extended_max_requested_bw_ul
  | davp_presence_reporting_area_elements_list
  | davp_charging_information
  | davp_monitoring_key
  | davp_3gpp_ms_timezone
  | davp_charging_rule_name
  | davp_access_availability_change_reason
  | davp_dynamic_address_flag
  | davp_monitoring_flags
  | davp_collection_period_rrm_umts
  | davp_usage_monitoring_information
  | davp_charging_rule_report
  | davp_ip_can_type
  | davp_offline
  | davp_udp_source_port
  | davp_routing_ip_address
  | davp_redirect_information
  | davp_mute_notification
  | davp_media_component_number
  | davp_tariff_time_change
  | davp_error_message
  | davp_credit_management_status
  | davp_required_access_info
  | davp_ip_can_session_charging_scope
  | davp_reporting_trigger
  | davp_failed_avp
  | davp_routing_area_identity
  | davp_routing_rule_remove
  | davp_tft_filter
  | davp_trace_reference
  | davp_cc_service_specific_units
  | davp_cc_time
  | davp_currency_code
  | davp_cc_input_octets
  | davp_measurement_quantity
  | davp_removal_of_access
  | davp_routing_filter
  | davp_trace_depth
  | davp_proxy_state
  | davp_rule_failure_code
  | davp_af_charging_identifier
  | davp_tunnel_header_length
  | davp_routing_rule_failure_code
  | davp_coa_information
  | davp_default_bearer_indication
  | davp_vendor_id
  | davp_granted_service_unit
  | davp_max_requested_bandwidth_ul
  | davp_oc_sequence_number
  | davp_routing_rule_identifier
  | davp_redirect_support
  | davp_destination_realm
  | davp_session_id
  | davp_tos_traffic_class
  | davp_origination_time_stamp
  | davp_bssid
  | davp_cc_money
  | davp_application_detection_information
  | davp_qos_upgrade
  | davp_tariff_change_usage
  | davp_report_amount
  | davp_primary_event_charging_function_name
  | davp_cc_total_octets
  | davp_measurement_period_umts
  | davp_flows
  | davp_ps_to_cs_session_continuity
  | davp_primary_charging_collection_function_name
  | davp_user_csg_information.

(** Numbers that tell them apart. *)
Definition davp_index (d : davp) : positive :=
  match d with
  | davp_tdf_destination_host => 1
  | davp_pre_emption_capability => 2
  | davp_packet_filter_content => 3
  | davp_feature_list_id => 4
  | davp_resource_release_notification => 5
  | davp_service_identifier => 6
  | davp_physical_access_id => 7
  | davp_csg_access_mode => 8
  | davp_henb_local_ip_address => 9
  | davp_dynamic_address_flag_extension => 10
  | davp_apn_aggregate_max_bitrate_ul => 11
  | davp_network_request_support => 12
  | davp_termination_cause => 13
  | davp_exponent => 14
  | davp_3gpp_rat_type => 15
  | davp_af_signalling_protocol => 16
  | davp_packet_filter_usage => 17
  | davp_usage_monitoring_support => 18
  | davp_tracking_area_identity => 19
  | davp_load_value => 20
  | davp_feature_list => 21
  | davp_omc_id => 22
  | davp_rai => 23
  | davp_oc_report_type => 24
  | davp_experimental_result => 25
  | davp_cc_request_type => 26
  | davp_service_context_id => 27
  | davp_secondary_event_charging_function_name => 28
  | davp_pcscf_restoration_indication => 29
  | davp_tdf_ip_address => 30
  | davp_load_type => 31
  | davp_extended_gbr_dl => 32
  | davp_oc_feature_vector => 33
  | davp_origin_host => 34
  | davp_pra_remove => 35
  | davp_maximum_wait_time => 36
  | davp_list_of_measurements => 37
  | davp_qos_information => 38
  | davp_final_unit_action => 39
  | davp_conditional_policy_information => 40
  | davp_drmp => 41
  | davp_pra_install => 42
  | davp_logical_access_id => 43
  | davp_resource_allocation_notification => 44
  | davp_rule_deactivation_time => 45
  | davp_flow_status => 46
  | davp_priority_level => 47
  | davp_pre_emption_vulnerability => 48
  | davp_bearer_usage => 49
  | davp_reporting_reason => 50
  | davp_qos_class_identifier => 51
  | davp_3gpp_sgsn_mcc_mnc => 52
  | davp_area_scope => 53
  | davp_re_auth_request_type => 54
  | davp_precedence => 55
  | davp_flow_number => 56
  | davp_pdn_connection_charging_id => 57
  | davp_3gpp_ps_data_off_status => 58
  | davp_redirect_host_usage => 59
  | davp_an_gw_address => 60
  | davp_tunnel_header_filter => 61
  | davp_access_network_charging_identifier_value => 62
  | davp_secondary_charging_collection_function_name => 63
  | davp_tcp_source_port => 64
  | davp_destination_host => 65
  | davp_3gpp_selection_mode => 66
  | davp_location_area_identity => 67
  | davp_logging_interval => 68
  | davp_flow_information => 69
  | davp_ue_local_ip_address => 70
  | davp_extended_apn_ambr_dl => 71
  | davp_tdf_application_identifier => 72
  | davp_tunnel_information => 73
  | davp_media_component_status => 74
  | davp_tft_packet_filter_information => 75
  | davp_guaranteed_bitrate_ul => 76
  | davp_online => 77
  | davp_mbsfn_area => 78
  | davp_extended_apn_ambr_ul => 79
  | davp_extended_gbr_ul => 80
  | davp_content_version => 81
  | davp_usage_monitoring_report => 82
  | davp_event_report_indication => 83
  | davp_job_type => 84
  | davp_bearer_operation => 85
  | davp_user_equipment_info_type => 86
  | davp_tdf_information => 87
  | davp_cc_request_number => 88
  | davp_framed_ipv6_prefix => 89
  | davp_packet_filter_operation => 90
  | davp_coa_ip_address => 91
  | davp_3gpp_charging_characteristics => 92
  | davp_proxy_info => 93
  | davp_used_service_unit => 94
  | davp_charging_rule_install => 95
  | davp_mdt_allowed_plmn_id => 96
  | davp_origin_realm => 97
  | davp_twan_identifier => 98
  | davp_charging_rule_definition => 99
  | davp_flow_label => 100
  | davp_3gpp_ggsn_ipv6_address => 101
  | davp_guaranteed_bitrate_dl => 102
  | davp_restriction_filter_rule => 103
  | davp_3gpp_sgsn_address => 104
  | davp_redirect_address_type => 105
  | davp_tdf_destination_realm => 106
  | davp_user_location_info_time => 107
  | davp_subscription_id_data => 108
  | davp_redirect_server_address => 109
  | davp_nbifom_mode => 110
  | davp_final_unit_indication => 111
  | davp_3gpp_sgsn_ipv6_address => 112
  | davp_3gpp2_bsid => 113
  | davp_trace_collection_entity => 114
  | davp_session_release_cause => 115
  | davp_ran_rule_support => 116
  | davp_unit_value => 117
  | davp_charging_rule_base_name => 118
  | davp_report_interval => 119
  | davp_presence_reporting_area_node => 120
  | davp_user_equipment_info_value => 121
  | davp_route_record => 122
  | davp_presence_reporting_area_identifier => 123
  | davp_csg_information_reporting => 124
  | davp_filter_id => 125
  | davp_presence_reporting_area_information => 126
  | davp_an_gw_status => 127
  | davp_ssid => 128
  | davp_metering_method => 129
  | davp_flow_description => 130
  | davp_logging_duration => 131
  | davp_apn_aggregate_max_bitrate_dl => 132
  | davp_conditional_apn_aggregate_max_bitrate => 133
  | davp_access_network_charging_identifier_gx => 134
  | davp_positioning_method => 135
  | davp_oc_olr => 136
  | davp_routing_rule_install => 137
  | davp_presence_reporting_area_status => 138
  | davp_trace_data => 139
  | davp_sourceid => 140
  | davp_carrier_frequency => 141
  | davp_mbsfn_area_id => 142
  | davp_subscription_id_type => 143
  | davp_usage_monitoring_level => 144
  | davp_bearer_identifier => 145
  | davp_sponsor_identity => 146
  | davp_oc_reduction_percentage => 147
  | davp_default_qos_name => 148
  | davp_routing_rule_definition => 149
  | davp_traffic_steering_policy_identifier_ul => 150
  | davp_mdt_configuration => 151
  | davp_error_reporting_host => 152
  | davp_charging_rule_remove => 153
  | davp_charging_correlation_indicator => 154
  | davp_nbifom_support => 155
  | davp_max_plr_dl => 156
  | davp_event_threshold_event_1i => 157
  | davp_rating_group => 158
  | davp_rat_type => 159
  | davp_event_charging_timestamp => 160
  | davp_default_access => 161
  | davp_event_threshold_event_1f => 162
  | davp_reporting_level => 163
  | davp_allocation_retention_priority => 164
  | davp_bearer_control_mode => 165
  | davp_cell_global_identity => 166
  | davp_max_plr_ul => 167
  | davp_oc_validity_duration => 168
  | davp_application_service_provider_identity => 169
  | davp_csg_membership_indication => 170
  | davp_flow_direction => 171
  | davp_sharing_key_dl => 172
  | davp_default_eps_bearer_qos => 173
  | davp_trace_ne_type_list => 174
  | davp_extended_max_requested_bw_dl => 175
  | davp_redirect_host => 176
  | davp_measurement_period_lte => 177
  | davp_routing_rule_report => 178
  | davp_max_requested_bandwidth_dl => 179
  | davp_user_equipment_info => 180
  | davp_quota_consumption_time => 181
  | davp_origin_state_id => 182
  | davp_qos_negotiation => 183
  | davp_cc_output_octets => 184
  | davp_ran_nas_release_cause => 185
  | davp_sharing_key_ul => 186
  | davp_netloc_access_support => 187
  | davp_trace_event_list => 188
  | davp_supported_features => 189
  | davp_3gpp_user_location_info => 190
  | davp_value_digits => 191
  | davp_security_parameter_index => 192
  | davp_result_code => 193
  | davp_trace_interface_list => 194
  | davp_fixed_user_location_info => 195
  | davp_default_qos_information => 196
  | davp_traffic_steering_policy_identifier_dl => 197
  | davp_redirect_max_cache_time => 198
  | davp_rule_activation_time => 199
  | davp_load => 200
  | davp_3gpp_ggsn_address => 201
  | davp_redirect_server => 202
  | davp_an_trusted => 203
  | davp_e_utran_cell_global_identity => 204
  | davp_called_station_id => 205
  | davp_csg_id => 206
  | davp_framed_ip_address => 207
  | davp_oc_supported_features => 208
  | davp_packet_filter_identifier => 209
  | davp_pcc_rule_status => 210
  | davp_tdf_application_instance_identifier => 211
  | davp_proxy_host => 212
  | davp_event_threshold_rsrp => 213
  | davp_event_threshold_rsrq => 214
  | davp_packet_filter_information => 215
  | davp_subscription_id => 216
  | davp_experimental_result_code => 217
  | davp_collection_period_rrm_lte => 218
  | davp_pdn_connection_id => 219
  | davp_access_network_charging_address => 220
  | davp_auth_application_id => 221
  | davp_revalidation_time => 222
  | davp_execution_time => 223
  | davp_event_trigger => 224
  | davp_extended_max_requested_bw_ul => 225
  | davp_presence_reporting_area_elements_list => 226
  | davp_charging_information => 227
  | davp_monitoring_key => 228
  | davp_3gpp_ms_timezone => 229
  | davp_charging_rule_name => 230
  | davp_access_availability_change_reason => 231
  | davp_dynamic_address_flag => 232
  | davp_monitoring_flags => 233
  | davp_collection_period_rrm_umts => 234
  | davp_usage_monitoring_information => 235
  | davp_charging_rule_report => 236
  | davp_ip_can_type => 237
  | davp_offline => 238
  | davp_udp_source_port => 239
  | davp_routing_ip_address => 240
  | davp_redirect_information => 241
  | davp_mute_notification => 242
  | davp_media_component_number => 243
  | davp_tariff_time_change => 244
  | davp_error_message => 245
  | davp_credit_management_status => 246
  | davp_required_access_info => 247
  | davp_ip_can_session_charging_scope => 248
  | davp_reporting_trigger => 249
  | davp_failed_avp => 250
  | davp_routing_area_identity => 251
  | davp_routing_rule_remove => 252
  | davp_tft_filter => 253
  | davp_trace_reference => 254
  | davp_cc_service_specific_units => 255
  | davp_cc_time => 256
  | davp_currency_code => 257
  | davp_cc_input_octets => 258
  | davp_measurement_quantity => 259
  | davp_removal_of_access => 260
  | davp_routing_filter => 261
  | davp_trace_depth => 262
  | davp_proxy_state => 263
  | davp_rule_failure_code => 264
  | davp_af_charging_identifier => 265
  | davp_tunnel_header_length => 266
  | davp_routing_rule_failure_code => 267
  | davp_coa_information => 268
  | davp_default_bearer_indication => 269
  | davp_vendor_id => 270
  | davp_granted_service_unit => 271
  | davp_max_requested_bandwidth_ul => 272
  | davp_oc_sequence_number => 273
  | davp_routing_rule_identifier => 274
  | davp_redirect_support => 275
  | davp_destination_realm => 276
  | davp_session_id => 277
  | davp_tos_traffic_class => 278
  | davp_origination_time_stamp => 279
  | davp_bssid => 280
  | davp_cc_money => 281
  | davp_application_detection_information => 282
  | davp_qos_upgrade => 283
  | davp_tariff_change_usage => 284
  | davp_report_amount => 285
  | davp_primary_event_charging_function_name => 286
  | davp_cc_total_octets => 287
  | davp_measurement_period_umts => 288
  | davp_flows => 289
  | davp_ps_to_cs_session_continuity => 290
  | davp_primary_charging_collection_function_name => 291
  | davp_user_csg_information => 292
  end%positive.

Definition davp_of_index (p : positive) : davp :=
  match p with
  | 1 => davp_tdf_destination_host
  | 2 => davp_pre_emption_capability
  | 3 => davp_packet_filter_content
  | 4 => davp_feature_list_id
  | 5 => davp_resource_release_notification
  | 6 => davp_service_identifier
  | 7 => davp_physical_access_id
  | 8 => davp_csg_access_mode
  | 9 => davp_henb_local_ip_address
  | 10 => davp_dynamic_address_flag_extension
  | 11 => davp_apn_aggregate_max_bitrate_ul
  | 12 => davp_network_request_support
  | 13 => davp_termination_cause
  | 14 => davp_exponent
  | 15 => davp_3gpp_rat_type
  | 16 => davp_af_signalling_protocol
  | 17 => davp_packet_filter_usage
  | 18 => davp_usage_monitoring_support
  | 19 => davp_tracking_area_identity
  | 20 => davp_load_value
  | 21 => davp_feature_list
  | 22 => davp_omc_id
  | 23 => davp_rai
  | 24 => davp_oc_report_type
  | 25 => davp_experimental_result
  | 26 => davp_cc_request_type
  | 27 => davp_service_context_id
  | 28 => davp_secondary_event_charging_function_name
  | 29 => davp_pcscf_restoration_indication
  | 30 => davp_tdf_ip_address
  | 31 => davp_load_type
  | 32 => davp_extended_gbr_dl
  | 33 => davp_oc_feature_vector
  | 34 => davp_origin_host
  | 35 => davp_pra_remove
  | 36 => davp_maximum_wait_time
  | 37 => davp_list_of_measurements
  | 38 => davp_qos_information
  | 39 => davp_final_unit_action
  | 40 => davp_conditional_policy_information
  | 41 => davp_drmp
  | 42 => davp_pra_install
  | 43 => davp_logical_access_id
  | 44 => davp_resource_allocation_notification
  | 45 => davp_rule_deactivation_time
  | 46 => davp_flow_status
  | 47 => davp_priority_level
  | 48 => davp_pre_emption_vulnerability
  | 49 => davp_bearer_usage
  | 50 => davp_reporting_reason
  | 51 => davp_qos_class_identifier
  | 52 => davp_3gpp_sgsn_mcc_mnc
  | 53 => davp_area_scope
  | 54 => davp_re_auth_request_type
  | 55 => davp_precedence
  | 56 => davp_flow_number
  | 57 => davp_pdn_connection_charging_id
  | 58 => davp_3gpp_ps_data_off_status
  | 59 => davp_redirect_host_usage
  | 60 => davp_an_gw_address
  | 61 => davp_tunnel_header_filter
  | 62 => davp_access_network_charging_identifier_value
  | 63 => davp_secondary_charging_collection_function_name
  | 64 => davp_tcp_source_port
  | 65 => davp_destination_host
  | 66 => davp_3gpp_selection_mode
  | 67 => davp_location_area_identity
  | 68 => davp_logging_interval
  | 69 => davp_flow_information
  | 70 => davp_ue_local_ip_address
  | 71 => davp_extended_apn_ambr_dl
  | 72 => davp_tdf_application_identifier
  | 73 => davp_tunnel_information
  | 74 => davp_media_component_status
  | 75 => davp_tft_packet_filter_information
  | 76 => davp_guaranteed_bitrate_ul
  | 77 => davp_online
  | 78 => davp_mbsfn_area
  | 79 => davp_extended_apn_ambr_ul
  | 80 => davp_extended_gbr_ul
  | 81 => davp_content_version
  | 82 => davp_usage_monitoring_report
  | 83 => davp_event_report_indication
  | 84 => davp_job_type
  | 85 => davp_bearer_operation
  | 86 => davp_user_equipment_info_type
  | 87 => davp_tdf_information
  | 88 => davp_cc_request_number
  | 89 => davp_framed_ipv6_prefix
  | 90 => davp_packet_filter_operation
  | 91 => davp_coa_ip_address
  | 92 => davp_3gpp_charging_characteristics
  | 93 => davp_proxy_info
  | 94 => davp_used_service_unit
  | 95 => davp_charging_rule_install
  | 96 => davp_mdt_allowed_plmn_id
  | 97 => davp_origin_realm
  | 98 => davp_twan_identifier
  | 99 => davp_charging_rule_definition
  | 100 => davp_flow_label
  | 101 => davp_3gpp_ggsn_ipv6_address
  | 102 => davp_guaranteed_bitrate_dl
  | 103 => davp_restriction_filter_rule
  | 104 => davp_3gpp_sgsn_address
  | 105 => davp_redirect_address_type
  | 106 => davp_tdf_destination_realm
  | 107 => davp_user_location_info_time
  | 108 => davp_subscription_id_data
  | 109 => davp_redirect_server_address
  | 110 => davp_nbifom_mode
  | 111 => davp_final_unit_indication
  | 112 => davp_3gpp_sgsn_ipv6_address
  | 113 => davp_3gpp2_bsid
  | 114 => davp_trace_collection_entity
  | 115 => davp_session_release_cause
  | 116 => davp_ran_rule_support
  | 117 => davp_unit_value
  | 118 => davp_charging_rule_base_name
  | 119 => davp_report_interval
  | 120 => davp_presence_reporting_area_node
  | 121 => davp_user_equipment_info_value
  | 122 => davp_route_record
  | 123 => davp_presence_reporting_area_identifier
  | 124 => davp_csg_information_reporting
  | 125 => davp_filter_id
  | 126 => davp_presence_reporting_area_information
  | 127 => davp_an_gw_status
  | 128 => davp_ssid
  | 129 => davp_metering_method
  | 130 => davp_flow_description
  | 131 => davp_logging_duration
  | 132 => davp_apn_aggregate_max_bitrate_dl
  | 133 => davp_conditional_apn_aggregate_max_bitrate
  | 134 => davp_access_network_charging_identifier_gx
  | 135 => davp_positioning_method
  | 136 => davp_oc_olr
  | 137 => davp_routing_rule_install
  | 138 => davp_presence_reporting_area_status
  | 139 => davp_trace_data
  | 140 => davp_sourceid
  | 141 => davp_carrier_frequency
  | 142 => davp_mbsfn_area_id
  | 143 => davp_subscription_id_type
  | 144 => davp_usage_monitoring_level
  | 145 => davp_bearer_identifier
  | 146 => davp_sponsor_identity
  | 147 => davp_oc_reduction_percentage
  | 148 => davp_default_qos_name
  | 149 => davp_routing_rule_definition
  | 150 => davp_traffic_steering_policy_identifier_ul
  | 151 => davp_mdt_configuration
  | 152 => davp_error_reporting_host
  | 153 => davp_charging_rule_remove
  | 154 => davp_charging_correlation_indicator
  | 155 => davp_nbifom_support
  | 156 => davp_max_plr_dl
  | 157 => davp_event_threshold_event_1i
  | 158 => davp_rating_group
  | 159 => davp_rat_type
  | 160 => davp_event_charging_timestamp
  | 161 => davp_default_access
  | 162 => davp_event_threshold_event_1f
  | 163 => davp_reporting_level
  | 164 => davp_allocation_retention_priority
  | 165 => davp_bearer_control_mode
  | 166 => davp_cell_global_identity
  | 167 => davp_max_plr_ul
  | 168 => davp_oc_validity_duration
  | 169 => davp_application_service_provider_identity
  | 170 => davp_csg_membership_indication
  | 171 => davp_flow_direction
  | 172 => davp_sharing_key_dl
  | 173 => davp_default_eps_bearer_qos
  | 174 => davp_trace_ne_type_list
  | 175 => davp_extended_max_requested_bw_dl
  | 176 => davp_redirect_host
  | 177 => davp_measurement_period_lte
  | 178 => davp_routing_rule_report
  | 179 => davp_max_requested_bandwidth_dl
  | 180 => davp_user_equipment_info
  | 181 => davp_quota_consumption_time
  | 182 => davp_origin_state_id
  | 183 => davp_qos_negotiation
  | 184 => davp_cc_output_octets
  | 185 => davp_ran_nas_release_cause
  | 186 => davp_sharing_key_ul
  | 187 => davp_netloc_access_support
  | 188 => davp_trace_event_list
  | 189 => davp_supported_features
  | 190 => davp_3gpp_user_location_info
  | 191 => davp_value_digits
  | 192 => davp_security_parameter_index
  | 193 => davp_result_code
  | 194 => davp_trace_interface_list
  | 195 => davp_fixed_user_location_info
  | 196 => davp_default_qos_information
  | 197 => davp_traffic_steering_policy_identifier_dl
  | 198 => davp_redirect_max_cache_time
  | 199 => davp_rule_activation_time
  | 200 => davp_load
  | 201 => davp_3gpp_ggsn_address
  | 202 => davp_redirect_server
  | 203 => davp_an_trusted
  | 204 => davp_e_utran_cell_global_identity
  | 205 => davp_called_station_id
  | 206 => davp_csg_id
  | 207 => davp_framed_ip_address
  | 208 => davp_oc_supported_features
  | 209 => davp_packet_filter_identifier
  | 210 => davp_pcc_rule_status
  | 211 => davp_tdf_application_instance_identifier
  | 212 => davp_proxy_host
  | 213 => davp_event_threshold_rsrp
  | 214 => davp_event_threshold_rsrq
  | 215 => davp_packet_filter_information
  | 216 => davp_subscription_id
  | 217 => davp_experimental_result_code
  | 218 => davp_collection_period_rrm_lte
  | 219 => davp_pdn_connection_id
  | 220 => davp_access_network_charging_address
  | 221 => davp_auth_application_id
  | 222 => davp_revalidation_time
  | 223 => davp_execution_time
  | 224 => davp_event_trigger
  | 225 => davp_extended_max_requested_bw_ul
  | 226 => davp_presence_reporting_area_elements_list
  | 227 => davp_charging_information
  | 228 => davp_monitoring_key
  | 229 => davp_3gpp_ms_timezone
  | 230 => davp_charging_rule_name
  | 231 => davp_access_availability_change_reason
  | 232 => davp_dynamic_address_flag
  | 233 => davp_monitoring_flags
  | 234 => davp_collection_period_rrm_umts
  | 235 => davp_usage_monitoring_information
  | 236 => davp_charging_rule_report
  | 237 => davp_ip_can_type
  | 238 => davp_offline
  | 239 => davp_udp_source_port
  | 240 => davp_routing_ip_address
  | 241 => davp_redirect_information
  | 242 => davp_mute_notification
  | 243 => davp_media_component_number
  | 244 => davp_tariff_time_change
  | 245 => davp_error_message
  | 246 => davp_credit_management_status
  | 247 => davp_required_access_info
  | 248 => davp_ip_can_session_charging_scope
  | 249 => davp_reporting_trigger
  | 250 => davp_failed_avp
  | 251 => davp_routing_area_identity
  | 252 => davp_routing_rule_remove
  | 253 => davp_tft_filter
  | 254 => davp_trace_reference
  | 255 => davp_cc_service_specific_units
  | 256 => davp_cc_time
  | 257 => davp_currency_code
  | 258 => davp_cc_input_octets
  | 259 => davp_measurement_quantity
  | 260 => davp_removal_of_access
  | 261 => davp_routing_filter
  | 262 => davp_trace_depth
  | 263 => davp_proxy_state
  | 264 => davp_rule_failure_code
  | 265 => davp_af_charging_identifier
  | 266 => davp_tunnel_header_length
  | 267 => davp_routing_rule_failure_code
  | 268 => davp_coa_information
  | 269 => davp_default_bearer_indication
  | 270 => davp_vendor_id
  | 271 => davp_granted_service_unit
  | 272 => davp_max_requested_bandwidth_ul
  | 273 => davp_oc_sequence_number
  | 274 => davp_routing_rule_identifier
  | 275 => davp_redirect_support
  | 276 => davp_destination_realm
  | 277 => davp_session_id
  | 278 => davp_tos_traffic_class
  | 279 => davp_origination_time_stamp
  | 280 => davp_bssid
  | 281 => davp_cc_money
  | 282 => davp_application_detection_information
  | 283 => davp_qos_upgrade
  | 284 => davp_tariff_change_usage
  | 285 => davp_report_amount
  | 286 => davp_primary_event_charging_function_name
  | 287 => davp_cc_total_octets
  | 288 => davp_measurement_period_umts
  | 289 => davp_flows
  | 290 => davp_ps_to_cs_session_continuity
  | 291 => davp_primary_charging_collection_function_name
  | _ => davp_user_csg_information
  end%positive.

Lemma davp_of_index_index d : davp_of_index (davp_index d) = d.
Proof. by destruct d. Qed.

Lemma davp_index_inj d d' : davp_index d = davp_index d' -> d = d'.
Proof. intros E. by rewrite <- (davp_of_index_index d), E, davp_of_index_index. Qed.
