(* ===== verification/GxParser.v ===== *)
(** * Parsing of Diameter messages by the Gx application: macros and loops

    src/cp/gx/gx_app/src/gx_parsers.c fills the structures of gx_struct.h from the AVPs of
    a received Diameter message.  Every function there is made of two walks over the
    children of a message or of a grouped AVP: the first stores the members that occur
    once and counts those that are lists, the second fills the lists.  This file has the
    actions of both walks (the macros of fd.h and the assignments of gx_parsers.c).

    The Diameter stack (freeDiameter) is a parameter: the AVPs, what walking over the
    children of an AVP yields, the code and the value of an AVP, and the codes of the
    dictionary. *)

From S2P Require Import Prelude GxCodec GxDict.

(** [union avp_value], one member for each way it is read; [v_f32] is the representation
    of the number, [v_os] the bytes of [os.data]. *)
Record avp_value_t := mk_avp_value {
  v_i32 : Z;
  v_u32 : Z;
  v_i64 : Z;
  v_u64 : Z;
  v_f32 : Z;
  v_os : list Z;
}.

(** What [fd_msg_browse] yields for the children of an AVP: it fails for the first child,
    or it gives children one after the other and then either ends or fails. *)
Inductive browsed (A : Type) :=
  | BrowseFirstFails
  | Browsed (children : list A) (ends : bool).
Arguments BrowseFirstFails {A}.
Arguments Browsed {A} _ _.

Class Diameter := {
  avp : Type;
  browse : avp -> browsed avp;
  avp_code : avp -> Z;
  avp_value : avp -> option avp_value_t;
  dict : davp -> Z;
}.

Definition FD_REASON_OK : Z := 0.
Definition FD_REASON_BROWSE_FIRST_FAIL : Z := 16.
Definition FD_REASON_BROWSE_NEXT_FAIL : Z := 17.

Section Parser.
Context `{Diameter}.

(** The return value and the structure; [None] is an access outside an object. *)
Definition parser (X : Type) := avp -> X -> option (Z * X).

(** An action of a walk: the child, and the structure with the counter [cnt]. *)
Definition action (X : Type) := avp -> X * Z -> option (Z * (X * Z)).

(** [data->presence.member = 1] *)
Definition mark {X} (get : X -> Z) (set : Z -> X -> X) (i : nat) (x : X) : X :=
  set (Z.setbit (get x) (Z.of_nat i)) x.

(** [data->member = hdr->avp_value->field; data->presence.member = 1] *)
Definition PARSE_VALUE {X} (field : avp_value_t -> Z) (set : Z -> X -> X) (present : X -> X) : action X :=
  λ child '(x, cnt),
  v ← avp_value child; Some (FD_REASON_OK, (present (set (field v) x), cnt)).

(** [b.len = fdmin(a->os.len, c); memcpy(b.val, a->os.data, b.len)]; the length becomes an
    [int], the smaller number a [uint32_t]. *)
Definition parse_octets (max : nat) (v : avp_value_t) (o : OctetString) : option OctetString :=
  let len := u32 (Z.min (to_signed 32 (u32 (Z.of_nat (length (v_os v))))) (Z.of_nat max)) in
  val ← memcpy (Z.to_nat len) (v_os v) 0 (array (max + 1) (os_val o)) 0;
  Some (mk_OctetString len val).

Definition FD_PARSE_OCTETSTRING {X} (max : nat) (get : X -> OctetString) (set : OctetString -> X -> X)
    (present : X -> X) : action X := λ child '(x, cnt),
  v ← avp_value child; o ← parse_octets max v (get x); Some (FD_REASON_OK, (present (set o x), cnt)).

(** The four bytes of the value in reverse order, as seconds since 1900. *)
Definition parse_time (v : avp_value_t) : option Z :=
  bs ← read_mem 4 (v_os v) 0; Some (of_le_bytes (rev bs) - 2208988800).

Definition FD_PARSE_TIME {X} (set : Z -> X -> X) (present : X -> X) : action X := λ child '(x, cnt),
  v ← avp_value child; t ← parse_time v; Some (FD_REASON_OK, (present (set t x), cnt)).

(** [memset(&b, 0, sizeof(b)); b.type = (data[1] << 8) | data[0];
    memcpy(b.address, &data[2], len - 2)]; the number of bytes is a [size_t]. *)
Definition parse_address (v : avp_value_t) : option fdAddress :=
  b0 ← load (v_os v) 0;
  b1 ← load (v_os v) 1;
  address ← memcpy (Z.to_nat (u64 (Z.of_nat (length (v_os v)) - 2))) (v_os v) 2 (replicate 16 0) 0;
  Some (mk_fdAddress (Z.lor (Z.shiftl b1 8) b0) address).

Definition FD_PARSE_ADDRESS {X} (set : fdAddress -> X -> X) (present : X -> X) : action X := λ child '(x, cnt),
  v ← avp_value child; a ← parse_address v; Some (FD_REASON_OK, (present (set a x), cnt)).

(** [int ret = a(child, &data->member); if (ret != FD_REASON_OK) return ret;
    data->presence.member = 1] *)
Definition FDCHECK_PARSE_DIRECT {X S} (parse : parser S) (get : X -> S) (set : S -> X -> X)
    (present : X -> X) : action X := λ child '(x, cnt),
  '(ret, s) ← parse child (get x);
  Some (if ret =? FD_REASON_OK then (FD_REASON_OK, (present (set s x), cnt)) else (ret, (set s x, cnt))).

(** [data->member.count++; cnt++; data->presence.member = 1] *)
Definition COUNT {X A} (get : X -> clist A) (set : clist A -> X -> X) (present : X -> X) : action X :=
  λ child '(x, cnt),
  Some (FD_REASON_OK, (present (set (mk_clist (l_count (get x) + 1) (l_list (get x))) x), cnt + 1)).

(** [FD_ALLOC_LIST]: memory for [count] cleared elements; the counter starts again. *)
Definition FD_ALLOC_LIST `{Memory} {X A} (size : Z) (zero : A) (get : X -> clist A) (set : clist A -> X -> X)
    (x : X) : option X :=
  let count := l_count (get x) in
  if 0 <? count then
    if malloc_ok (u64 (size * count)) then Some (set (mk_clist 0 (replicate (Z.to_nat count) zero)) x) else None
  else Some x.

(** [data->member.list[data->member.count] = ...; data->member.count++] *)
Definition fill {X A} (get : X -> clist A) (set : clist A -> X -> X) (item : avp -> A -> option (Z * A)) : action X :=
  λ child '(x, cnt),
  let l := get x in
  let i := Z.to_nat (l_count l) in
  old ← l_list l !! i;
  '(ret, a) ← item child old;
  Some (if ret =? FD_REASON_OK
        then (FD_REASON_OK, (set (mk_clist (l_count l + 1) (<[i := a]> (l_list l))) x, cnt))
        else (ret, (set (mk_clist (l_count l) (<[i := a]> (l_list l))) x, cnt))).

Definition FILL_VALUE {X} (field : avp_value_t -> Z) (get : X -> clist Z) (set : clist Z -> X -> X) : action X :=
  fill get set (λ child _, v ← avp_value child; Some (FD_REASON_OK, field v)).
Definition FILL_OCTETSTRING {X} (max : nat) (get : X -> clist OctetString) (set : clist OctetString -> X -> X) : action X :=
  fill get set (λ child o, v ← avp_value child; o' ← parse_octets max v o; Some (FD_REASON_OK, o')).
Definition FILL_TIME {X} (get : X -> clist Z) (set : clist Z -> X -> X) : action X :=
  fill get set (λ child _, v ← avp_value child; t ← parse_time v; Some (FD_REASON_OK, t)).
Definition FILL_ADDRESS {X} (get : X -> clist fdAddress) (set : clist fdAddress -> X -> X) : action X :=
  fill get set (λ child _, v ← avp_value child; a ← parse_address v; Some (FD_REASON_OK, a)).
Definition FILL_STRUCT {X S} (parse : parser S) (get : X -> clist S) (set : clist S -> X -> X) : action X :=
  fill get set parse.

(** [if (IS_AVP(davp_1)) ... else if (IS_AVP(davp_2)) ...] *)
Fixpoint cases {X} (l : list (davp * action X)) : action X := λ child st,
  match l with
  | [] => Some (FD_REASON_OK, st)
  | (d, act) :: l' => if dict d =? avp_code child then act child st else cases l' child st
  end.

(** [while (child_avp) { ...; fd_msg_browse(child_avp, MSG_BRW_NEXT, ...) }] *)
Fixpoint walk_children {X} (l : list (davp * action X)) (children : list avp) (ends : bool) (st : X * Z)
    : option (Z * (X * Z)) :=
  match children with
  | [] => Some (FD_REASON_OK, st)
  | child :: children' =>
    '(ret, st') ← cases l child st;
    if negb (ret =? FD_REASON_OK) then Some (ret, st')
    else if negb ends && (match children' with [] => true | _ => false end)
    then Some (FD_REASON_BROWSE_NEXT_FAIL, st')
    else walk_children l children' ends st'
  end.

Definition walk {X} (l : list (davp * action X)) (a : avp) (st : X * Z) : option (Z * (X * Z)) :=
  match browse a with
  | BrowseFirstFails => Some (FD_REASON_BROWSE_FIRST_FAIL, st)
  | Browsed children ends => walk_children l children ends st
  end.

(** The body of every parsing function. *)
Definition parse_group {X} (once : list (davp * action X)) (alloc : list (X -> option X))
    (many : list (davp * action X)) : parser X := λ a data,
  '(ret, (data1, cnt)) ← walk once a (data, 0);
  if negb (ret =? FD_REASON_OK) then Some (ret, data1)
  else if 0 <? cnt then
    data2 ← foldl (λ x f, x ≫= f) (Some data1) alloc;
    '(ret', (data3, _)) ← walk many a (data2, cnt);
    Some (ret', data3)
  else Some (FD_REASON_OK, data1).

End Parser.
