(* ===== verification/GxParserSpec.v ===== *)
(** * What a parsing function promises

    [kids a] are the children of an AVP, [sel d l] those with the code of [d].  The two
    walks of a parsing function are described by the children they have met so far, sorted
    by their code ([occurrences], the last one first); the value of each kind of member is
    a function of its occurrences.  [walk_ok] and [parse_group_ok] show once for all
    functions that the walks compute it. *)

From S2P Require Import Prelude GxCodec GxCodecSpec GxDict GxParser.

Section ParserSpec.
Context `{Diameter}.

Definition sel (d : davp) (l : list avp) : list avp := filter (λ c, avp_code c = dict d) l.
Definition kids (a : avp) : list avp := match browse a with Browsed children true => children | _ => [] end.

Definition occurrences := davp -> list avp.
Definition occ (l : list avp) : occurrences := λ d, rev (sel d l).

Definition same (d d' : davp) : bool := (davp_index d =? davp_index d')%positive.
Definition add (d : davp) (c : avp) (o : occurrences) : occurrences :=
  λ d', if same d d' then c :: o d' else o d'.

(** ** Members *)

Definition zero_value : avp_value_t := mk_avp_value 0 0 0 0 0 [].
Definition value (c : avp) : avp_value_t := default zero_value (avp_value c).

Definition some_met (l : list avp) : bool := match l with [] => false | _ => true end.

Fixpoint presence_bits (l : list bool) : Z :=
  match l with
  | [] => 0
  | b :: l' => (if b then 1 else 0) + 2 * presence_bits l'
  end.

Definition value_in (field : avp_value_t -> Z) (l : list avp) : Z :=
  match l with [] => 0 | c :: _ => field (value c) end.
Definition octets_in (max : nat) (l : list avp) : OctetString :=
  foldr (λ c o, default zero_octets (parse_octets max (value c) o)) zero_octets l.
Definition time_in (l : list avp) : Z :=
  match l with [] => 0 | c :: _ => default 0 (parse_time (value c)) end.
Definition address_in (l : list avp) : fdAddress :=
  match l with [] => zero_address | c :: _ => default zero_address (parse_address (value c)) end.
Definition struct_in {S} (zero : S) (read : avp -> S) (l : list avp) : S :=
  match l with [] => zero | c :: _ => read c end.

(** A list of [n] elements of which those of [l] are filled. *)
Definition filled_list {A} (zero : A) (read : avp -> A) (n : nat) (l : list avp) : clist A :=
  mk_clist (Z.of_nat (length l)) (map read (rev l) ++ replicate (n - length l) zero).

(** Before the memory is there, the elements are counted. *)
Definition list_in {A} (zero : A) (read : avp -> A) (l : list avp) (m : option (list avp)) : clist A :=
  match m with
  | None => mk_clist (Z.of_nat (length l)) []
  | Some l' => filled_list zero read (length l) l'
  end.

Definition read_value (field : avp_value_t -> Z) (c : avp) : Z := field (value c).
Definition read_octets (max : nat) (c : avp) : OctetString :=
  default zero_octets (parse_octets max (value c) zero_octets).
Definition read_time (c : avp) : Z := default 0 (parse_time (value c)).
Definition read_address (c : avp) : fdAddress := default zero_address (parse_address (value c)).

(** ** AVPs that can be parsed *)

Definition value_ok (t : ctype Z) (field : avp_value_t -> Z) (c : avp) : Prop :=
  ∃ v, avp_value c = Some v ∧ fits t (field v).
Definition octets_ok (c : avp) : Prop :=
  ∃ v, avp_value c = Some v ∧ Z.of_nat (length (v_os v)) < 2 ^ 31.
Definition time_ok (c : avp) : Prop :=
  ∃ v, avp_value c = Some v ∧ bytes_ok (v_os v) ∧ (4 <= length (v_os v))%nat.
Definition address_ok (c : avp) : Prop :=
  ∃ v, avp_value c = Some v ∧ bytes_ok (v_os v) ∧ (2 <= length (v_os v) <= 18)%nat.

Definition any (ok : avp -> Prop) (l : list avp) : Prop := Forall ok l.
Definition at_most_once (ok : avp -> Prop) (l : list avp) : Prop := Forall ok l ∧ (length l <= 1)%nat.
Definition many (ok : avp -> Prop) (l : list avp) : Prop := Forall ok l ∧ Z.of_nat (length l) < 2 ^ 31.

(** What a parsing function promises: on a cleared structure and a valid AVP it computes
    the reference value, which can be packed. *)
Class ParseOk {S : Type} (parse : parser S) (zero : S) (read : avp -> S) (valid : avp -> Prop)
    (good : S -> Prop) : Prop := {
  parse_read : ∀ a, valid a -> parse a zero = Some (FD_REASON_OK, read a);
  read_good : ∀ a, valid a -> good (read a);
}.

(** ** Selection *)

Lemma sel_app d l l' : sel d (l ++ l') = sel d l ++ sel d l'.
Proof. apply list.filter_app. Qed.

Lemma sel_in d c : avp_code c = dict d -> sel d [c] = [c].
Proof. intros E. unfold sel. by rewrite filter_cons_True. Qed.

Lemma sel_out d c : avp_code c ≠ dict d -> sel d [c] = [].
Proof. intros E. unfold sel. by rewrite filter_cons_False. Qed.

Lemma same_true d : same d d = true.
Proof. apply Pos.eqb_refl. Qed.

Lemma same_false d d' : dict d ≠ dict d' -> same d d' = false.
Proof. intros E. unfold same. destruct (Pos.eqb_spec (davp_index d) (davp_index d')) as [Ei|]; [|done].
  apply davp_index_inj in Ei. by subst.
Qed.

(** ** Walks *)

(** What a case of a walk needs and does: [k_ok] says which child it accepts after those
    it has met, [k_list] whether it counts. *)
Record kind := Kind {
  k_davp : davp;
  k_ok : list avp -> avp -> Prop;
  k_list : bool;
}.

Definition case_ok {X} (build : occurrences -> X) (k : kind) (p : davp * action X) : Prop :=
  p.1 = k_davp k ∧
  ∀ o c cnt, k_ok k (o (k_davp k)) c ->
    p.2 c (build o, cnt) = Some (FD_REASON_OK, (build (add (k_davp k) c o), cnt + (if k_list k then 1 else 0))).

(** The children of kind [k] are accepted one after the other. *)
Definition accepted (cs : list avp) (k : kind) : Prop :=
  ∀ l1 c l2, sel (k_davp k) cs = l1 ++ c :: l2 -> k_ok k (rev l1) c.

Definition codes_differ (ks : list kind) : Prop := NoDup ((λ k, dict (k_davp k)) <$> ks).

Definition met (ks : list kind) (cs : list avp) (o : occurrences) : Prop :=
  Forall (λ k, o (k_davp k) = occ cs (k_davp k)) ks.

Lemma cases_ok {X} (build : occurrences -> X) ks l c o cnt cs :
  Forall2 (case_ok build) ks l -> codes_differ ks -> met ks cs o ->
  Forall (λ k, avp_code c = dict (k_davp k) -> k_ok k (o (k_davp k)) c) ks ->
  ∃ o' cnt', cases l c (build o, cnt) = Some (FD_REASON_OK, (build o', cnt')) ∧ met ks (cs ++ [c]) o' ∧
    cnt <= cnt' ∧ (cnt' = cnt -> Forall (λ k, k_list k = true -> sel (k_davp k) [c] = []) ks) ∧
    (∀ d, avp_code c ≠ dict d -> o' d = o d).
Proof.
  unfold codes_differ, met. intros Hl. induction Hl as [|k [d act] ks l [Ed Hact] Hl IH]; intros Hn Hm Ha.
  { exists o, cnt. cbn. split_and!; auto; lia. }
  cbn in Hn, Ed. apply list.NoDup_cons in Hn as [Hni Hn]. apply Forall_cons_1 in Hm as [Hm1 Hm], Ha as [Ha1 Ha].
  cbn [cases]. subst d. destruct (Z.eqb_spec (dict (k_davp k)) (avp_code c)) as [Ec|Ec].
  - rewrite Hact by auto. exists (add (k_davp k) c o), (cnt + (if k_list k then 1 else 0)).
    assert (Forall (λ k', avp_code c ≠ dict (k_davp k')) ks) as Hne.
    { apply list.Forall_forall. intros k' Hk' E. apply Hni. rewrite Ec, E.
      by apply (list_elem_of_fmap_2 (λ k, dict (k_davp k))). }
    split_and!; [done| |destruct (k_list k); lia| |].
    + apply Forall_cons_2.
      * unfold add, occ. rewrite same_true, sel_app, sel_in, rev_unit by done. by rewrite Hm1.
      * eapply Forall_impl; [|exact (proj2 (list.Forall_and _ _) (conj Hm Hne))]. intros k' [E1 E2]. cbn in *.
        unfold add, occ in *. rewrite same_false, sel_app, sel_out, app_nil_r by congruence. done.
    + intros E. destruct (k_list k) eqn:Ek; [lia|]. apply Forall_cons_2; [congruence|].
      eapply Forall_impl; [|exact Hne]. intros k' E' _. by apply sel_out.
    + intros d Hd. unfold add. by rewrite same_false by congruence.
  - destruct (IH Hn Hm Ha) as (o' & cnt' & E1 & E2 & E3 & E4 & E5). exists o', cnt'. split_and!; auto.
    + apply Forall_cons_2; [|done]. rewrite E5 by done. unfold occ. rewrite sel_app, sel_out, app_nil_r by done. done.
    + intros E. apply Forall_cons_2; [|auto]. intros _. by apply sel_out.
Qed.

Lemma walk_ok {X} (build : occurrences -> X) ks l cs' : Forall2 (case_ok build) ks l -> codes_differ ks ->
  ∀ cs o cnt, met ks cs o -> Forall (accepted (cs ++ cs')) ks ->
  ∃ o' cnt', walk_children l cs' true (build o, cnt) = Some (FD_REASON_OK, (build o', cnt')) ∧
    met ks (cs ++ cs') o' ∧ cnt <= cnt' ∧
    (cnt' = cnt -> Forall (λ k, k_list k = true -> sel (k_davp k) cs' = []) ks).
Proof.
  intros Hl Hn. induction cs' as [|c cs' IH]; intros cs o cnt Hm Ha.
  { exists o, cnt. rewrite app_nil_r. split_and!; auto; [lia|]. intros _. by apply list.Forall_true. }
  destruct (cases_ok build ks l c o cnt cs Hl Hn Hm) as (o1 & cnt1 & E1 & Hm1 & Hc1 & Hz1 & _).
  { apply list.Forall_forall. intros k Hk Ec. unfold met in Hm. rewrite list.Forall_forall in Hm, Ha.
    rewrite Hm by done. apply (Ha k Hk _ _ (sel (k_davp k) cs')).
    by rewrite sel_app, (sel_app _ [c] cs'), sel_in. }
  destruct (IH (cs ++ [c]) o1 cnt1 Hm1) as (o2 & cnt2 & E2 & Hm2 & Hc2 & Hz2); [by rewrite <- app_assoc|].
  rewrite <- app_assoc in Hm2. exists o2, cnt2. cbn [walk_children]. rewrite E1. cbn [mbind option_bind].
  split_and!; [exact E2|done|lia|]. intros E. assert (cnt1 = cnt) as E' by lia. specialize (Hz1 E').
  specialize (Hz2 ltac:(lia)). apply list.Forall_forall. intros k Hk El. rewrite list.Forall_forall in Hz1, Hz2.
  by rewrite (sel_app _ [c] cs'), Hz1, Hz2.
Qed.

Section Group.
Context {X : Type} (build : occurrences -> (davp -> option (list avp)) -> X).
Context (once : list (davp * action X)) (alloc : list (X -> option X)) (fills : list (davp * action X)).
Context (ks : list kind) (ks2 : occurrences -> list kind).

Definition unallocated : davp -> option (list avp) := λ _, None.
Definition allocated (q : occurrences) : davp -> option (list avp) := λ d, Some (q d).
Definition nothing_met : occurrences := λ _, [].

Context (once_ok : Forall2 (case_ok (λ o, build o unallocated)) ks once).
Context (alloc_ok : ∀ o, foldl (λ x f, x ≫= f) (Some (build o unallocated)) alloc = Some (build o (allocated nothing_met))).
Context (fills_ok : ∀ o, Forall2 (case_ok (λ q, build o (allocated q))) (ks2 o) fills).
Context (build_ext : ∀ o o' m m', Forall (λ k, o (k_davp k) = o' (k_davp k)) ks ->
  Forall (λ k, m (k_davp k) = m' (k_davp k)) (ks2 o') -> build o m = build o' m').
Context (no_list : ∀ o, Forall (λ k, k_list k = true -> o (k_davp k) = []) ks ->
  build o unallocated = build o (allocated o)).

Lemma parse_group_ok a : browse a = Browsed (kids a) true ->
  codes_differ ks -> codes_differ (ks2 (occ (kids a))) ->
  Forall (accepted (kids a)) ks -> Forall (accepted (kids a)) (ks2 (occ (kids a))) ->
  parse_group once alloc fills a (build nothing_met unallocated)
  = Some (FD_REASON_OK, build (occ (kids a)) (allocated (occ (kids a)))).
Proof using once_ok alloc_ok fills_ok build_ext no_list.
  intros Hb Hn Hn2 Ha Ha2. unfold parse_group, walk. rewrite Hb.
  destruct (walk_ok _ _ _ (kids a) once_ok Hn [] nothing_met 0) as (o & cnt & E & Hm & Hc & Hz);
    [by apply list.Forall_true|done|].
  rewrite E. cbn [app] in Hm. cbn.
  rewrite (build_ext o (occ (kids a)) unallocated unallocated) by (done || by apply list.Forall_true).
  destruct (Z.ltb_spec 0 cnt) as [Hpos|Hpos].
  - rewrite alloc_ok. cbn.
    destruct (walk_ok _ _ _ (kids a) (fills_ok _) Hn2 [] nothing_met cnt) as (q & cnt' & E' & Hm' & _);
      [by apply list.Forall_true|done|].
    rewrite E'. cbn. do 2 f_equal. apply build_ext; [by apply list.Forall_true|].
    eapply Forall_impl; [|exact Hm']. intros k Hk. unfold allocated. by rewrite Hk.
  - do 2 f_equal. apply no_list. specialize (Hz ltac:(lia)).
    eapply Forall_impl; [|exact Hz]. intros k Hk El. unfold occ. by rewrite Hk.
Qed.
End Group.

(** A second case for the same AVP is never reached. *)
Lemma cases_twice {X} n (l : list (davp * action X)) d act act' c st :
  l !! n = Some (d, act) -> l !! S n = Some (d, act') ->
  cases l c st = cases (take (S n) l ++ drop (S (S n)) l) c st.
Proof.
  revert l; induction n as [|n IH]; intros [|[d0 a0] l] H1 H2; try done.
  - destruct l as [|[d1 a1] l]; [done|]. cbn in H1, H2. simplify_eq. cbn. by destruct (_ =? _).
  - cbn [take drop app cases]. destruct (_ =? _); [done|]. by apply IH.
Qed.

Lemma parse_group_twice {X} n (once : list (davp * action X)) alloc fills d act act' a x :
  once !! n = Some (d, act) -> once !! S n = Some (d, act') ->
  parse_group once alloc fills a x = parse_group (take (S n) once ++ drop (S (S n)) once) alloc fills a x.
Proof.
  intros H1 H2. unfold parse_group, walk. destruct (browse a) as [|cs ends]; [done|].
  assert (∀ st, walk_children once cs ends st
                = walk_children (take (S n) once ++ drop (S (S n)) once) cs ends st) as E; [|by rewrite E].
  induction cs as [|c cs IH]; intros st; [done|]. cbn [walk_children]. rewrite (cases_twice n _ d act act') by done.
  destruct (cases _ c st) as [[ret st']|]; [|done]. cbn. by rewrite IH.
Qed.

(** ** The kinds of members *)

Definition K_value d t field : kind := Kind d (λ _ c, value_ok t field c) false.
Definition K_octets d : kind := Kind d (λ _ c, octets_ok c) false.
Definition K_time d : kind := Kind d (λ _ c, time_ok c) false.
Definition K_address d : kind := Kind d (λ _ c, address_ok c) false.
Definition K_struct d valid : kind := Kind d (λ l c, l = [] ∧ valid c) false.
Definition K_count d : kind := Kind d (λ _ _, True) true.
Definition K_fill d ok (n : nat) : kind := Kind d (λ l c, ok c ∧ (length l < n)%nat) false.

Lemma accepted_any cs d ok b : any ok (sel d cs) -> accepted cs (Kind d (λ _ c, ok c) b).
Proof.
  intros Hf l1 c l2 E. cbn in *. rewrite E in Hf. apply Forall_app in Hf as [_ Hf]. by apply Forall_cons_1 in Hf as [? _].
Qed.

Lemma accepted_struct cs d valid : at_most_once valid (sel d cs) -> accepted cs (K_struct d valid).
Proof.
  intros [Hf Hl] l1 c l2 E. cbn in *. rewrite E in Hf, Hl. rewrite length_app in Hl. cbn in Hl.
  destruct l1; [|cbn in Hl; lia]. cbn in *. split; [done|]. by apply Forall_cons_1 in Hf as [? _].
Qed.

Lemma accepted_count cs d : accepted cs (K_count d).
Proof. by intros l1 c l2 _. Qed.

Lemma accepted_fill cs d ok : many ok (sel d cs) -> accepted cs (K_fill d ok (length (occ cs d))).
Proof.
  intros [Hf _] l1 c l2 E. unfold occ. cbn in *. rewrite !length_rev, E, length_app. cbn. split; [|lia].
  rewrite E in Hf. apply Forall_app in Hf as [_ Hf]. by apply Forall_cons_1 in Hf as [? _].
Qed.

(** ** Presence bits *)

Lemma presence_bits_testbit l i : Z.testbit (presence_bits l) (Z.of_nat i) = default false (l !! i).
Proof.
  revert i; induction l as [|b l IH]; intros i; cbn [presence_bits]; [by rewrite Z.testbit_0_l|].
  destruct i as [|i].
  - cbn [lookup list_lookup]. rewrite Z.add_comm. destruct b; [apply Z.testbit_odd_0|].
    rewrite Z.add_0_r. apply Z.testbit_even_0.
  - cbn [lookup list_lookup]. rewrite <- IH, Nat2Z.inj_succ, Z.add_comm.
    destruct b; [by rewrite Z.testbit_odd_succ by lia|]. rewrite Z.add_0_r. by rewrite Z.testbit_even_succ by lia.
Qed.

Lemma presence_bits_range l : 0 <= presence_bits l < 2 ^ Z.of_nat (length l).
Proof.
  induction l as [|b l IH]; cbn [presence_bits length]; [cbn; lia|].
  rewrite Nat2Z.inj_succ, Z.pow_succ_r by lia. destruct b; lia.
Qed.

Lemma presence_setbit l i : (i < length l)%nat ->
  Z.setbit (presence_bits l) (Z.of_nat i) = presence_bits (<[i:=true]> l).
Proof.
  intros Hi. apply Z.bits_inj'. intros n Hn. rewrite <- (Z2Nat.id n) by done.
  rewrite Z.setbit_eqb, !presence_bits_testbit by lia.
  destruct (Z.eqb_spec (Z.of_nat i) (Z.of_nat (Z.to_nat n))) as [E|E].
  - apply Nat2Z.inj in E as <-. by rewrite list_lookup_insert_eq by done.
  - rewrite list_lookup_insert_ne by congruence. done.
Qed.

Lemma mark_build {X} (get : X -> Z) set i bits (x y : X) :
  get x = presence_bits bits -> (i <? length bits)%nat = true ->
  set (presence_bits (<[i:=true]> bits)) x = y -> mark get set i x = y.
Proof. intros Hg Hi <-. unfold mark. rewrite Hg, presence_setbit; [done|]. by apply Nat.ltb_lt. Qed.

(** ** Cases of the first walk *)

Lemma value_some c v : avp_value c = Some v -> value c = v.
Proof. unfold value. by intros ->. Qed.

Lemma case_value {X} (build : occurrences -> X) d t field set present :
  (∀ o c, present (set (field (value c)) (build o)) = build (add d c o)) ->
  case_ok build (K_value d t field) (d, PARSE_VALUE field set present).
Proof.
  intros Hb. split; [done|]. intros o c cnt (v & Hv & _). cbn. specialize (Hb o c). unfold value in Hb.
  rewrite Hv in *. cbn in *. by rewrite Hb, Z.add_0_r.
Qed.

Lemma parse_octets_some max v o : (max < 256)%nat -> Z.of_nat (length (v_os v)) < 2 ^ 31 ->
  ∃ o', parse_octets max v o = Some o' ∧ 0 <= os_len o' < Z.of_nat (max + 1).
Proof.
  intros Hmax Hl. unfold parse_octets.
  rewrite (uwrap_small _ (Z.of_nat (length (v_os v)))), to_signed_small, uwrap_small by lia.
  rewrite memcpy_from by (rewrite ?length_array; lia).
  eexists; split; [done|]. cbn. lia.
Qed.

Lemma case_octets {X} (build : occurrences -> X) d max get set present :
  (max < 256)%nat -> (∀ o, get (build o) = octets_in max (o d)) ->
  (∀ o c, present (set (octets_in max (c :: o d)) (build o)) = build (add d c o)) ->
  case_ok build (K_octets d) (d, FD_PARSE_OCTETSTRING max get set present).
Proof.
  intros Hmax Hg Hb. split; [done|]. intros o c cnt (v & Hv & Hl). cbn. specialize (Hb o c).
  destruct (parse_octets_some max v (octets_in max (o d)) Hmax Hl) as (o' & Ho & _).
  cbn [octets_in foldr] in Hb. fold (octets_in max (o d)) in Hb. unfold value in Hb.
  rewrite Hv in *. cbn in *. rewrite Hg, Ho in *. cbn in *. by rewrite Hb, Z.add_0_r.
Qed.

Lemma parse_time_some v : bytes_ok (v_os v) -> (4 <= length (v_os v))%nat ->
  ∃ t, parse_time v = Some t ∧ fits FdTime t.
Proof.
  intros Hb Hl. unfold parse_time, read_mem. rewrite memcpy_from by (rewrite ?length_replicate; lia).
  cbn [mbind option_bind Z.to_nat]. rewrite drop_0, (drop_ge (replicate _ _)), app_nil_r by done.
  eexists; split; [done|]. apply fits_int; [lia|].
  assert (bytes_ok (rev (take 4 (v_os v)))) as Hr by (by apply Forall_rev, Forall_take).
  apply of_le_bytes_range in Hr. rewrite length_rev, length_take_le in Hr by done.
  change (Z.of_nat 8) with 8. change (Z.of_nat 4) with 4 in Hr. lia.
Qed.

Lemma case_time {X} (build : occurrences -> X) d set present :
  (∀ o c, present (set (read_time c) (build o)) = build (add d c o)) ->
  case_ok build (K_time d) (d, FD_PARSE_TIME set present).
Proof.
  intros Hb. split; [done|]. intros o c cnt (v & Hv & Hbs & Hl). cbn [k_davp k_list K_time snd].
  specialize (Hb o c). unfold FD_PARSE_TIME. unfold read_time in Hb. rewrite (value_some _ _ Hv) in Hb. rewrite Hv. cbn [mbind option_bind].
  destruct (parse_time_some v Hbs Hl) as (t & Ht & _). rewrite Ht in *.
  cbn [from_option mbind option_bind] in *. unfold id in Hb. by rewrite Hb, Z.add_0_r.
Qed.

Lemma lor_le a b : 0 <= a -> 0 <= b -> 0 <= Z.lor a b <= a + b.
Proof.
  intros Ha Hb. pose proof (Z.add_lor_land a b). split; [by apply Z.lor_nonneg|].
  pose proof (proj2 (Z.land_nonneg a b) (or_introl Ha)). lia.
Qed.

Lemma fits_address type address : 0 <= type < 65536 -> length address = 16%nat ->
  fits FdAddress (mk_fdAddress type address).
Proof.
  intros Ht Ha. assert (array 16 address = address) as E
    by (unfold array; rewrite resize_ge, Ha by lia; apply app_nil_r).
  split; cbn -[le_bytes array]; rewrite E; [by rewrite length_app, length_le_bytes, Ha|].
  rewrite take_app_le, take_ge, drop_app_ge by (rewrite length_le_bytes; lia).
  rewrite length_le_bytes. cbn [Nat.sub]. rewrite drop_0, of_le_le_bytes, Z.mod_small by (cbn; lia). done.
Qed.

Lemma parse_address_some v : bytes_ok (v_os v) -> (2 <= length (v_os v) <= 18)%nat ->
  ∃ a, parse_address v = Some a ∧ fits FdAddress a.
Proof.
  intros Hb Hl. unfold parse_address. destruct (v_os v) as [|b0 [|b1 l]] eqn:E; [cbn in Hl; lia..|].
  apply Forall_cons_1 in Hb as [H0 Hb]. apply Forall_cons_1 in Hb as [H1 Hb]. unfold byte_ok in *.
  change (load (b0 :: b1 :: l) 0) with (Some b0). change (load (b0 :: b1 :: l) 1) with (Some b1).
  cbn [mbind option_bind]. rewrite uwrap_small by (cbn [length] in *; lia).
  rewrite memcpy_from by (cbn [length] in *; rewrite ?length_replicate; lia). cbn [mbind option_bind].
  eexists; split; [done|]. apply fits_address.
  - rewrite Z.shiftl_mul_pow2 by lia. pose proof (lor_le (b1 * 2 ^ 8) b0). lia.
  - rewrite length_app, length_take, !length_drop. cbn [length replicate] in *. lia.
Qed.

Lemma case_address {X} (build : occurrences -> X) d set present :
  (∀ o c, present (set (read_address c) (build o)) = build (add d c o)) ->
  case_ok build (K_address d) (d, FD_PARSE_ADDRESS set present).
Proof.
  intros Hb. split; [done|]. intros o c cnt (v & Hv & Hbs & Hl). cbn [k_davp k_list K_address snd].
  specialize (Hb o c). unfold FD_PARSE_ADDRESS. unfold read_address in Hb. rewrite (value_some _ _ Hv) in Hb. rewrite Hv. cbn [mbind option_bind].
  destruct (parse_address_some v Hbs Hl) as (a & Ha & _). rewrite Ha in *.
  cbn [from_option mbind option_bind] in *. unfold id in Hb. by rewrite Hb, Z.add_0_r.
Qed.

Lemma case_struct {X S} (build : occurrences -> X) d (parse : parser S) zero read valid good get set present :
  ParseOk parse zero read valid good -> (∀ o, get (build o) = struct_in zero read (o d)) ->
  (∀ o c, present (set (read c) (build o)) = build (add d c o)) ->
  case_ok build (K_struct d valid) (d, FDCHECK_PARSE_DIRECT parse get set present).
Proof.
  intros Hp Hg Hb. split; [done|]. intros o c cnt [Ho Hv]. cbn in *. rewrite Hg, Ho. cbn.
  rewrite parse_read by done. cbn. by rewrite Hb, Z.add_0_r.
Qed.

Definition counted {A} (l : list avp) : clist A := mk_clist (Z.of_nat (length l)) [].

Lemma case_count {X A} (build : occurrences -> X) d (get : X -> clist A) set present :
  (∀ o, get (build o) = counted (o d)) ->
  (∀ o c, present (set (counted (c :: o d)) (build o)) = build (add d c o)) ->
  case_ok build (K_count d) (d, COUNT get set present).
Proof.
  intros Hg Hb. split; [done|]. intros o c cnt _. cbn. rewrite Hg. cbn. rewrite <- Hb. unfold counted. cbn [length].
  by rewrite Nat2Z.inj_succ, <- Z.add_1_r.
Qed.

(** ** Memory for the lists, and the second walk *)

(** [filled_list] when nothing is filled yet *)
Definition empty_list {A} (zero : A) (l : list avp) : clist A := mk_clist 0 (replicate (length l - 0) zero).

Lemma alloc_cons `{MallocSucceeds} {X A} size (zero : A) get set l (x : X) fs r :
  get x = counted l -> set (get x) x = x ->
  foldl (λ x f, x ≫= f) (Some (set (empty_list zero l) x)) fs = r ->
  foldl (λ x f, x ≫= f) (Some x) (FD_ALLOC_LIST size zero get set :: fs) = r.
Proof.
  intros Hg Hs <-. cbn [foldl mbind option_bind]. f_equal. unfold FD_ALLOC_LIST, empty_list. rewrite Hg.
  destruct l as [|c l]; [rewrite Hg in Hs; exact (f_equal Some (eq_sym Hs))|].
  cbn [counted l_count]. rewrite malloc_succeeds, Nat2Z.id, Nat.sub_0_r. zcases; [done|cbn [length] in *; lia].
Qed.

Lemma case_fill {X A} (build : occurrences -> X) d (zero : A) read ok n get set item :
  (∀ c, ok c -> item c zero = Some (FD_REASON_OK, read c)) ->
  (∀ q, get (build q) = filled_list zero read n (q d)) ->
  (∀ q c, set (filled_list zero read n (c :: q d)) (build q) = build (add d c q)) ->
  case_ok build (K_fill d ok n) (d, fill get set item).
Proof.
  intros Hi Hg Hb. split; [done|]. intros q c cnt [Hok Hn]. cbn -[replicate] in *. unfold fill. rewrite Hg.
  cbn [filled_list l_count l_list]. rewrite Nat2Z.id.
  assert (length (map read (rev (q d))) = length (q d)) as Hl by (by rewrite length_map, length_rev).
  assert (replicate (n - length (q d)) zero = zero :: replicate (n - S (length (q d))) zero) as Er
    by (by replace (n - length (q d))%nat with (S (n - S (length (q d)))) by lia).
  rewrite lookup_app_r, Hl, Nat.sub_diag, Er by lia. cbn -[replicate]. rewrite Hi by done. cbn -[replicate].
  rewrite Z.add_0_r, <- Hb. do 4 f_equal. unfold filled_list. cbn [length rev].
  rewrite Nat2Z.inj_succ, <- Z.add_1_r, map_app, <- app_assoc. f_equal.
  rewrite insert_app_r_alt, Hl, Nat.sub_diag by lia. done.
Qed.

(** ** Elements of lists *)

Lemma item_value t field c : value_ok t field c ->
  (v ← avp_value c; Some (FD_REASON_OK, field v)) = Some (FD_REASON_OK, read_value field c).
Proof. intros (v & Hv & _). unfold read_value. by rewrite (value_some _ _ Hv), Hv. Qed.

Lemma item_octets max c : (max < 256)%nat -> octets_ok c ->
  (v ← avp_value c; o ← parse_octets max v zero_octets; Some (FD_REASON_OK, o)) = Some (FD_REASON_OK, read_octets max c).
Proof.
  intros Hm (v & Hv & Hl). unfold read_octets. rewrite (value_some _ _ Hv), Hv.
  destruct (parse_octets_some max v zero_octets Hm Hl) as (o & Ho & _). cbn [mbind option_bind]. by rewrite Ho.
Qed.

Lemma item_time c : time_ok c ->
  (v ← avp_value c; t ← parse_time v; Some (FD_REASON_OK, t)) = Some (FD_REASON_OK, read_time c).
Proof.
  intros (v & Hv & Hb & Hl). unfold read_time. rewrite (value_some _ _ Hv), Hv.
  destruct (parse_time_some v Hb Hl) as (o & Ho & _). cbn [mbind option_bind]. by rewrite Ho.
Qed.

Lemma item_address c : address_ok c ->
  (v ← avp_value c; a ← parse_address v; Some (FD_REASON_OK, a)) = Some (FD_REASON_OK, read_address c).
Proof.
  intros (v & Hv & Hb & Hl). unfold read_address. rewrite (value_some _ _ Hv), Hv.
  destruct (parse_address_some v Hb Hl) as (o & Ho & _). cbn [mbind option_bind]. by rewrite Ho.
Qed.

(** ** What is read can be packed *)

Lemma fits_value t field c : value_ok t field c -> fits t (read_value field c).
Proof. intros (v & Hv & Hf). unfold read_value. by rewrite (value_some _ _ Hv). Qed.

Lemma good_read_octets max c o : (max < 256)%nat -> octets_ok c ->
  good_octets (max + 1) (default zero_octets (parse_octets max (value c) o)).
Proof.
  intros Hm (v & Hv & Hl). rewrite (value_some _ _ Hv).
  destruct (parse_octets_some max v o Hm Hl) as (o' & -> & Ho). exact Ho.
Qed.

Lemma fits_read_time c : time_ok c -> fits FdTime (read_time c).
Proof.
  intros (v & Hv & Hb & Hl). unfold read_time. rewrite (value_some _ _ Hv).
  by destruct (parse_time_some v Hb Hl) as (t & -> & Ht).
Qed.

Lemma fits_read_address c : address_ok c -> fits FdAddress (read_address c).
Proof.
  intros (v & Hv & Hb & Hl). unfold read_address. rewrite (value_some _ _ Hv).
  by destruct (parse_address_some v Hb Hl) as (a & -> & Ha).
Qed.

Lemma when_met b p bits i l (P : Prop) : b = Z.testbit p i -> p = presence_bits bits ->
  (0 <=? i) = true -> bits !! Z.to_nat i = Some (some_met l) -> (l ≠ [] -> P) -> when b P.
Proof.
  intros -> -> Hi%Z.leb_le Hb HP E. rewrite <- (Z2Nat.id i), presence_bits_testbit, Hb in E by done.
  apply HP. by intros ->.
Qed.

(** The last of the children with a code, when there is one. *)
Lemma occ_any ok cs d : any ok (sel d cs) -> Forall ok (occ cs d).
Proof. intros Hf. by apply Forall_rev. Qed.

Lemma good_value_in t field cs d : any (value_ok t field) (sel d cs) -> occ cs d ≠ [] ->
  fits t (value_in field (occ cs d)).
Proof.
  intros Hf Hne. apply occ_any in Hf. destruct (occ cs d) as [|c l]; [done|].
  apply Forall_cons_1 in Hf as [Hc _]. by apply fits_value.
Qed.

Lemma good_octets_in max cs d : (max < 256)%nat -> any octets_ok (sel d cs) -> occ cs d ≠ [] ->
  good_octets (max + 1) (octets_in max (occ cs d)).
Proof.
  intros Hm Hf Hne. apply occ_any in Hf. destruct (occ cs d) as [|c l]; [done|].
  apply Forall_cons_1 in Hf as [Hc _]. by apply good_read_octets.
Qed.

Lemma good_time_in cs d : any time_ok (sel d cs) -> occ cs d ≠ [] -> fits FdTime (time_in (occ cs d)).
Proof.
  intros Hf Hne. apply occ_any in Hf. destruct (occ cs d) as [|c l]; [done|].
  apply Forall_cons_1 in Hf as [Hc _]. by apply (fits_read_time c).
Qed.

Lemma good_address_in cs d : any address_ok (sel d cs) -> occ cs d ≠ [] -> fits FdAddress (address_in (occ cs d)).
Proof.
  intros Hf Hne. apply occ_any in Hf. destruct (occ cs d) as [|c l]; [done|].
  apply Forall_cons_1 in Hf as [Hc _]. by apply (fits_read_address c).
Qed.

Lemma good_struct_in {S} (parse : parser S) zero read valid good cs d : ParseOk parse zero read valid good ->
  at_most_once valid (sel d cs) -> occ cs d ≠ [] -> good (struct_in zero read (occ cs d)).
Proof.
  intros Hp [Hf _] Hne. apply occ_any in Hf. destruct (occ cs d) as [|c l]; [done|].
  apply Forall_cons_1 in Hf as [Hc _]. exact (read_good c Hc).
Qed.

Lemma good_list_in {A} (zero : A) read ok (good : A -> Prop) cs d : (∀ c, ok c -> good (read c)) ->
  many ok (sel d cs) -> good_list good (list_in zero read (occ cs d) (Some (occ cs d))).
Proof.
  intros Hg [Hf Hl]. unfold list_in, filled_list, occ. rewrite rev_involutive, Nat.sub_diag, app_nil_r.
  split; cbn [l_count]; rewrite length_rev; [lia|]. cbn [l_list]. split; [rewrite length_map; lia|].
  unfold items_of. cbn [l_count l_list]. rewrite Nat2Z.id, take_ge by (by rewrite length_map).
  apply Forall_map. eapply Forall_impl; [|exact Hf]. done.
Qed.

Lemma good_octets_list_in max cs d : (max < 256)%nat -> many octets_ok (sel d cs) -> occ cs d ≠ [] ->
  good_octets_list (max + 1) (list_in zero_octets (read_octets max) (occ cs d) (Some (occ cs d))).
Proof.
  intros Hm Hf Hne. split; [|apply (good_list_in _ _ octets_ok); [|done]].
  - cbn. destruct (occ cs d); [done|cbn; lia].
  - intros c Hc. by apply good_read_octets.
Qed.

(** ** The dictionary: codes identify AVPs, since the parsers look at nothing else *)

Class DictOk : Prop := dict_inj : ∀ d d', dict d = dict d' -> d = d'.

Fixpoint all_differ (l : list positive) : bool :=
  match l with [] => true | p :: l' => negb (existsb (Pos.eqb p) l') && all_differ l' end.

Lemma codes_differ_check `{DictOk} ks : all_differ (map (λ k, davp_index (k_davp k)) ks) = true -> codes_differ ks.
Proof.
  unfold codes_differ. induction ks as [|k ks IH]; cbn; [intros _; apply list.NoDup_nil; done|].
  intros [E1 E2]%andb_prop. apply list.NoDup_cons. split; [|auto].
  intros (k' & E & Hk)%list_elem_of_fmap. apply dict_inj in E. apply negb_true_iff in E1.
  assert (existsb (Pos.eqb (davp_index (k_davp k))) (map (λ k, davp_index (k_davp k)) ks) = true) as E3; [|congruence].
  apply existsb_exists. exists (davp_index (k_davp k')). split; [|by rewrite E, Pos.eqb_refl].
  apply list_elem_of_In in Hk. by apply (in_map (λ k, davp_index (k_davp k))).
Qed.

End ParserSpec.

Lemma Z_range_weaken a b c : 0 <= a < b -> b <= c -> 0 <= a < c.
Proof. lia. Qed.

(** ** Automation *)

Ltac built := intros; eapply mark_build; reflexivity.
Ltac octets_size := apply Nat.ltb_lt; vm_compute; reflexivity.

Ltac case_built :=
  idtac; lazymatch goal with
  | |- case_ok _ _ (_, PARSE_VALUE _ _ _) => apply case_value; built
  | |- case_ok _ _ (_, FD_PARSE_OCTETSTRING _ _ _ _) => apply case_octets; [octets_size|reflexivity|built]
  | |- case_ok _ _ (_, FD_PARSE_TIME _ _) => apply case_time; built
  | |- case_ok _ _ (_, FD_PARSE_ADDRESS _ _) => apply case_address; built
  | |- case_ok _ _ (_, FDCHECK_PARSE_DIRECT _ _ _ _) => eapply case_struct; [typeclasses eauto|reflexivity|built]
  | |- case_ok _ _ (_, COUNT _ _ _) => eapply case_count; [reflexivity|built]
  | |- case_ok _ _ (_, FILL_VALUE _ _ _) => eapply case_fill; [intros; by eapply item_value|reflexivity|reflexivity]
  | |- case_ok _ _ (_, FILL_OCTETSTRING _ _ _) =>
      eapply (case_fill _ _ zero_octets); [intros; apply item_octets; [octets_size|assumption]|reflexivity|reflexivity]
  | |- case_ok _ _ (_, FILL_TIME _ _) => eapply case_fill; [intros; by apply item_time|reflexivity|reflexivity]
  | |- case_ok _ _ (_, FILL_ADDRESS _ _) => eapply case_fill; [intros; by apply item_address|reflexivity|reflexivity]
  | |- case_ok _ _ (_, FILL_STRUCT _ _ _) => eapply case_fill; [intros; by eapply parse_read|reflexivity|reflexivity]
  end.

(** The hypotheses that a list of kinds makes of its members. *)
Ltac each_kind H :=
  repeat (let E := fresh "E" in apply Forall_cons_1 in H as [E H]; cbn [k_davp k_list K_value K_octets K_time
    K_address K_struct K_count K_fill] in E); clear H.

Ltac rewrite_met o :=
  repeat match goal with E : o _ = _ |- _ => rewrite E; clear E end.

Ltac accept :=
  idtac; lazymatch goal with
  | |- accepted ?cs (K_count _) => apply accepted_count
  | |- accepted ?cs (K_struct ?d _) => match goal with Hm : at_most_once _ (sel d cs) |- _ => exact (accepted_struct _ _ _ Hm) end
  | |- accepted ?cs (K_fill ?d _ _) => match goal with Hm : many _ (sel d cs) |- _ => exact (accepted_fill _ _ _ Hm) end
  | |- accepted ?cs ?k => let d := eval cbn in (k_davp k) in
      match goal with Hm : any _ (sel d cs) |- _ => exact (accepted_any _ _ _ _ Hm) end
  end.

Ltac for_each tac := repeat first [apply Forall_cons; [tac|]|apply Forall_nil].
Ltac for_each2 tac := repeat first [apply Forall2_cons; [tac|]|apply Forall2_nil].

Ltac good_member Hm :=
  eapply when_met; [reflexivity|reflexivity|reflexivity|reflexivity|intros ?];
  lazymatch type of Hm with
  | any (value_ok _ _) _ => by apply good_value_in
  | any octets_ok _ => apply good_octets_in; [octets_size|assumption|assumption]
  | any time_ok _ => by apply good_time_in
  | any address_ok _ => by apply good_address_in
  | at_most_once _ _ =>
      lazymatch goal with |- ?g _ => eapply (good_struct_in _ _ _ _ g); [typeclasses eauto|eassumption|assumption] end
  | many octets_ok _ => apply good_octets_list_in; [octets_size|assumption|assumption]
  | many (value_ok _ _) _ => eapply good_list_in; [|eassumption]; by apply fits_value
  | many time_ok _ => eapply good_list_in; [|eassumption]; apply fits_read_time
  | many address_ok _ => eapply good_list_in; [|eassumption]; apply fits_read_address
  | many _ _ => eapply good_list_in; [|eassumption]; apply read_good
  end.

Ltac good_members Hv :=
  lazymatch goal with
  | |- _ ∧ _ => let Hm := fresh in destruct Hv as [Hm Hv]; split; [good_member Hm|clear Hm; good_members Hv]
  | _ => good_member Hv
  end.

(** The parsing function in terms of [build]. *)
Ltac parse_opened build :=
  lazymatch goal with |- ?t = _ =>
    lazymatch eval red in t with
    | parse_group ?once ?alloc ?fill ?a ?zero =>
        change (parse_group once alloc fill a (build nothing_met unallocated)
                = Some (FD_REASON_OK, build (occ (kids a)) (allocated (occ (kids a)))))
    end
  end.

Ltac parse_computes build kinds fills Hv :=
  lazymatch goal with |- parse_group ?once ?alloc ?fill _ _ = _ =>
    apply (parse_group_ok build once alloc fill kinds fills)
  end;
  [ for_each2 case_built
  | intros o; repeat (eapply alloc_cons; [reflexivity|reflexivity|]); reflexivity
  | intros o; lazymatch goal with |- Forall2 ?P ?L ?R => let L' := eval red in L in change (Forall2 P L' R) end;
    for_each2 case_built
  | let E1 := fresh in let E2 := fresh in intros o o' m m' E1 E2; each_kind E1; each_kind E2;
    unfold build; rewrite_met o; rewrite_met m; reflexivity
  | let E1 := fresh in intros o E1; each_kind E1;
    repeat match goal with E : true = true -> _ |- _ => specialize (E eq_refl) end;
    unfold build, allocated, unallocated; rewrite_met o; reflexivity
  | apply Hv
  | apply codes_differ_check; vm_compute; reflexivity
  | apply codes_differ_check; vm_compute; reflexivity
  | repeat match type of Hv with _ ∧ _ => let Hm := fresh in destruct Hv as [Hm Hv] end; for_each accept
  | repeat match type of Hv with _ ∧ _ => let Hm := fresh in destruct Hv as [Hm Hv] end;
    lazymatch goal with |- Forall ?P ?L => let L' := eval red in L in change (Forall P L') end;
    for_each accept ].

Ltac read_packs Hv :=
  let Hb := fresh in destruct Hv as [Hb Hv];
  split; [apply fits_uint; eapply Z_range_weaken; [apply presence_bits_range|vm_compute; discriminate]|];
  good_members Hv.

Ltac parse_ok build kinds fills :=
  constructor; intros a Hv; red in Hv;
  [parse_opened build; parse_computes build kinds fills Hv|read_packs Hv].
