(* ===== verification/GxParsers.v ===== *)
(** * The parsing functions of the Gx application

    src/cp/gx/gx_app/src/gx_parsers.c: [parseGx*] for the grouped AVPs, and the parsing of
    the four messages into cleared structures. *)

From S2P Require Import Prelude GxCodec GxStructs GxDict GxParser.

Section GxParsers.
Context `{Diameter} `{Memory}.

Definition parseGxProxyInfo : parser GxProxyInfo := parse_group
    [
     (davp_proxy_host, FD_PARSE_OCTETSTRING GX_PROXY_HOST_LEN GxProxyInfo_proxy_host set_GxProxyInfo_proxy_host (mark GxProxyInfo_presence set_GxProxyInfo_presence 0));
     (davp_proxy_state, FD_PARSE_OCTETSTRING GX_PROXY_STATE_LEN GxProxyInfo_proxy_state set_GxProxyInfo_proxy_state (mark GxProxyInfo_presence set_GxProxyInfo_presence 1))]
    []
    [].

Definition parseGxPresenceReportingAreaInformation : parser GxPresenceReportingAreaInformation := parse_group
    [
     (davp_presence_reporting_area_identifier, FD_PARSE_OCTETSTRING GX_PRESENCE_REPORTING_AREA_IDENTIFIER_LEN GxPresenceReportingAreaInformation_presence_reporting_area_identifier set_GxPresenceReportingAreaInformation_presence_reporting_area_identifier (mark GxPresenceReportingAreaInformation_presence set_GxPresenceReportingAreaInformation_presence 0));
     (davp_presence_reporting_area_status, PARSE_VALUE v_u32 set_GxPresenceReportingAreaInformation_presence_reporting_area_status (mark GxPresenceReportingAreaInformation_presence set_GxPresenceReportingAreaInformation_presence 1));
     (davp_presence_reporting_area_elements_list, FD_PARSE_OCTETSTRING GX_PRESENCE_REPORTING_AREA_ELEMENTS_LIST_LEN GxPresenceReportingAreaInformation_presence_reporting_area_elements_list set_GxPresenceReportingAreaInformation_presence_reporting_area_elements_list (mark GxPresenceReportingAreaInformation_presence set_GxPresenceReportingAreaInformation_presence 2));
     (davp_presence_reporting_area_node, PARSE_VALUE v_u32 set_GxPresenceReportingAreaInformation_presence_reporting_area_node (mark GxPresenceReportingAreaInformation_presence set_GxPresenceReportingAreaInformation_presence 3))]
    []
    [].

Definition parseGxRoutingRuleRemove : parser GxRoutingRuleRemove := parse_group
    [
     (davp_routing_rule_identifier, COUNT GxRoutingRuleRemove_routing_rule_identifier set_GxRoutingRuleRemove_routing_rule_identifier (mark GxRoutingRuleRemove_presence set_GxRoutingRuleRemove_presence 0))]
    [
     FD_ALLOC_LIST (4 + Z.of_nat GxRoutingRuleIdentifierOctetString) zero_octets GxRoutingRuleRemove_routing_rule_identifier set_GxRoutingRuleRemove_routing_rule_identifier]
    [
     (davp_routing_rule_identifier, FILL_OCTETSTRING GX_ROUTING_RULE_IDENTIFIER_LEN GxRoutingRuleRemove_routing_rule_identifier set_GxRoutingRuleRemove_routing_rule_identifier)].

Definition parseGxRoutingFilter : parser GxRoutingFilter := parse_group
    [
     (davp_flow_description, FD_PARSE_OCTETSTRING GX_FLOW_DESCRIPTION_LEN GxRoutingFilter_flow_description set_GxRoutingFilter_flow_description (mark GxRoutingFilter_presence set_GxRoutingFilter_presence 0));
     (davp_flow_direction, PARSE_VALUE v_i32 set_GxRoutingFilter_flow_direction (mark GxRoutingFilter_presence set_GxRoutingFilter_presence 1));
     (davp_tos_traffic_class, FD_PARSE_OCTETSTRING GX_TOS_TRAFFIC_CLASS_LEN GxRoutingFilter_tos_traffic_class set_GxRoutingFilter_tos_traffic_class (mark GxRoutingFilter_presence set_GxRoutingFilter_presence 2));
     (davp_security_parameter_index, FD_PARSE_OCTETSTRING GX_SECURITY_PARAMETER_INDEX_LEN GxRoutingFilter_security_parameter_index set_GxRoutingFilter_security_parameter_index (mark GxRoutingFilter_presence set_GxRoutingFilter_presence 3));
     (davp_flow_label, FD_PARSE_OCTETSTRING GX_FLOW_LABEL_LEN GxRoutingFilter_flow_label set_GxRoutingFilter_flow_label (mark GxRoutingFilter_presence set_GxRoutingFilter_presence 4))]
    []
    [].

Definition parseGxRoutingRuleDefinition : parser GxRoutingRuleDefinition := parse_group
    [
     (davp_routing_rule_identifier, FD_PARSE_OCTETSTRING GX_ROUTING_RULE_IDENTIFIER_LEN GxRoutingRuleDefinition_routing_rule_identifier set_GxRoutingRuleDefinition_routing_rule_identifier (mark GxRoutingRuleDefinition_presence set_GxRoutingRuleDefinition_presence 0));
     (davp_routing_filter, COUNT GxRoutingRuleDefinition_routing_filter set_GxRoutingRuleDefinition_routing_filter (mark GxRoutingRuleDefinition_presence set_GxRoutingRuleDefinition_presence 1));
     (davp_precedence, PARSE_VALUE v_u32 set_GxRoutingRuleDefinition_precedence (mark GxRoutingRuleDefinition_presence set_GxRoutingRuleDefinition_presence 2));
     (davp_routing_ip_address, FD_PARSE_ADDRESS set_GxRoutingRuleDefinition_routing_ip_address (mark GxRoutingRuleDefinition_presence set_GxRoutingRuleDefinition_presence 3));
     (davp_ip_can_type, PARSE_VALUE v_i32 set_GxRoutingRuleDefinition_ip_can_type (mark GxRoutingRuleDefinition_presence set_GxRoutingRuleDefinition_presence 4))]
    [
     FD_ALLOC_LIST sizeof_GxRoutingFilter zero_GxRoutingFilter GxRoutingRuleDefinition_routing_filter set_GxRoutingRuleDefinition_routing_filter]
    [
     (davp_routing_filter, FILL_STRUCT parseGxRoutingFilter GxRoutingRuleDefinition_routing_filter set_GxRoutingRuleDefinition_routing_filter)].

Definition parseGxRoutingRuleInstall : parser GxRoutingRuleInstall := parse_group
    [
     (davp_routing_rule_definition, COUNT GxRoutingRuleInstall_routing_rule_definition set_GxRoutingRuleInstall_routing_rule_definition (mark GxRoutingRuleInstall_presence set_GxRoutingRuleInstall_presence 0))]
    [
     FD_ALLOC_LIST sizeof_GxRoutingRuleDefinition zero_GxRoutingRuleDefinition GxRoutingRuleInstall_routing_rule_definition set_GxRoutingRuleInstall_routing_rule_definition]
    [
     (davp_routing_rule_definition, FILL_STRUCT parseGxRoutingRuleDefinition GxRoutingRuleInstall_routing_rule_definition set_GxRoutingRuleInstall_routing_rule_definition)].

Definition parseGxUnitValue : parser GxUnitValue := parse_group
    [
     (davp_value_digits, PARSE_VALUE v_i64 set_GxUnitValue_value_digits (mark GxUnitValue_presence set_GxUnitValue_presence 0));
     (davp_exponent, PARSE_VALUE v_i32 set_GxUnitValue_exponent (mark GxUnitValue_presence set_GxUnitValue_presence 1))]
    []
    [].

Definition parseGxCcMoney : parser GxCcMoney := parse_group
    [
     (davp_unit_value, FDCHECK_PARSE_DIRECT parseGxUnitValue GxCcMoney_unit_value set_GxCcMoney_unit_value (mark GxCcMoney_presence set_GxCcMoney_presence 0));
     (davp_currency_code, PARSE_VALUE v_u32 set_GxCcMoney_currency_code (mark GxCcMoney_presence set_GxCcMoney_presence 1))]
    []
    [].

Definition parseGxUsedServiceUnit : parser GxUsedServiceUnit := parse_group
    [
     (davp_reporting_reason, PARSE_VALUE v_i32 set_GxUsedServiceUnit_reporting_reason (mark GxUsedServiceUnit_presence set_GxUsedServiceUnit_presence 0));
     (davp_tariff_change_usage, PARSE_VALUE v_i32 set_GxUsedServiceUnit_tariff_change_usage (mark GxUsedServiceUnit_presence set_GxUsedServiceUnit_presence 1));
     (davp_cc_time, PARSE_VALUE v_u32 set_GxUsedServiceUnit_cc_time (mark GxUsedServiceUnit_presence set_GxUsedServiceUnit_presence 2));
     (davp_cc_money, FDCHECK_PARSE_DIRECT parseGxCcMoney GxUsedServiceUnit_cc_money set_GxUsedServiceUnit_cc_money (mark GxUsedServiceUnit_presence set_GxUsedServiceUnit_presence 3));
     (davp_cc_total_octets, PARSE_VALUE v_u64 set_GxUsedServiceUnit_cc_total_octets (mark GxUsedServiceUnit_presence set_GxUsedServiceUnit_presence 4));
     (davp_cc_input_octets, PARSE_VALUE v_u64 set_GxUsedServiceUnit_cc_input_octets (mark GxUsedServiceUnit_presence set_GxUsedServiceUnit_presence 5));
     (davp_cc_output_octets, PARSE_VALUE v_u64 set_GxUsedServiceUnit_cc_output_octets (mark GxUsedServiceUnit_presence set_GxUsedServiceUnit_presence 6));
     (davp_cc_service_specific_units, PARSE_VALUE v_u64 set_GxUsedServiceUnit_cc_service_specific_units (mark GxUsedServiceUnit_presence set_GxUsedServiceUnit_presence 7));
     (davp_event_charging_timestamp, COUNT GxUsedServiceUnit_event_charging_timestamp set_GxUsedServiceUnit_event_charging_timestamp (mark GxUsedServiceUnit_presence set_GxUsedServiceUnit_presence 8))]
    [
     FD_ALLOC_LIST (Z.of_nat (sizeof FdTime)) 0 GxUsedServiceUnit_event_charging_timestamp set_GxUsedServiceUnit_event_charging_timestamp]
    [
     (davp_event_charging_timestamp, FILL_TIME GxUsedServiceUnit_event_charging_timestamp set_GxUsedServiceUnit_event_charging_timestamp)].

Definition parseGxGrantedServiceUnit : parser GxGrantedServiceUnit := parse_group
    [
     (davp_tariff_time_change, FD_PARSE_TIME set_GxGrantedServiceUnit_tariff_time_change (mark GxGrantedServiceUnit_presence set_GxGrantedServiceUnit_presence 0));
     (davp_cc_time, PARSE_VALUE v_u32 set_GxGrantedServiceUnit_cc_time (mark GxGrantedServiceUnit_presence set_GxGrantedServiceUnit_presence 1));
     (davp_cc_money, FDCHECK_PARSE_DIRECT parseGxCcMoney GxGrantedServiceUnit_cc_money set_GxGrantedServiceUnit_cc_money (mark GxGrantedServiceUnit_presence set_GxGrantedServiceUnit_presence 2));
     (davp_cc_total_octets, PARSE_VALUE v_u64 set_GxGrantedServiceUnit_cc_total_octets (mark GxGrantedServiceUnit_presence set_GxGrantedServiceUnit_presence 3));
     (davp_cc_input_octets, PARSE_VALUE v_u64 set_GxGrantedServiceUnit_cc_input_octets (mark GxGrantedServiceUnit_presence set_GxGrantedServiceUnit_presence 4));
     (davp_cc_output_octets, PARSE_VALUE v_u64 set_GxGrantedServiceUnit_cc_output_octets (mark GxGrantedServiceUnit_presence set_GxGrantedServiceUnit_presence 5));
     (davp_cc_service_specific_units, PARSE_VALUE v_u64 set_GxGrantedServiceUnit_cc_service_specific_units (mark GxGrantedServiceUnit_presence set_GxGrantedServiceUnit_presence 6))]
    []
    [].

Definition parseGxUsageMonitoringInformation : parser GxUsageMonitoringInformation := parse_group
    [
     (davp_monitoring_key, FD_PARSE_OCTETSTRING GX_MONITORING_KEY_LEN GxUsageMonitoringInformation_monitoring_key set_GxUsageMonitoringInformation_monitoring_key (mark GxUsageMonitoringInformation_presence set_GxUsageMonitoringInformation_presence 0));
     (davp_granted_service_unit, COUNT GxUsageMonitoringInformation_granted_service_unit set_GxUsageMonitoringInformation_granted_service_unit (mark GxUsageMonitoringInformation_presence set_GxUsageMonitoringInformation_presence 1));
     (davp_used_service_unit, COUNT GxUsageMonitoringInformation_used_service_unit set_GxUsageMonitoringInformation_used_service_unit (mark GxUsageMonitoringInformation_presence set_GxUsageMonitoringInformation_presence 2));
     (davp_quota_consumption_time, PARSE_VALUE v_u32 set_GxUsageMonitoringInformation_quota_consumption_time (mark GxUsageMonitoringInformation_presence set_GxUsageMonitoringInformation_presence 3));
     (davp_usage_monitoring_level, PARSE_VALUE v_i32 set_GxUsageMonitoringInformation_usage_monitoring_level (mark GxUsageMonitoringInformation_presence set_GxUsageMonitoringInformation_presence 4));
     (davp_usage_monitoring_report, PARSE_VALUE v_i32 set_GxUsageMonitoringInformation_usage_monitoring_report (mark GxUsageMonitoringInformation_presence set_GxUsageMonitoringInformation_presence 5));
     (davp_usage_monitoring_support, PARSE_VALUE v_i32 set_GxUsageMonitoringInformation_usage_monitoring_support (mark GxUsageMonitoringInformation_presence set_GxUsageMonitoringInformation_presence 6))]
    [
     FD_ALLOC_LIST sizeof_GxGrantedServiceUnit zero_GxGrantedServiceUnit GxUsageMonitoringInformation_granted_service_unit set_GxUsageMonitoringInformation_granted_service_unit;
     FD_ALLOC_LIST sizeof_GxUsedServiceUnit zero_GxUsedServiceUnit GxUsageMonitoringInformation_used_service_unit set_GxUsageMonitoringInformation_used_service_unit]
    [
     (davp_granted_service_unit, FILL_STRUCT parseGxGrantedServiceUnit GxUsageMonitoringInformation_granted_service_unit set_GxUsageMonitoringInformation_granted_service_unit);
     (davp_used_service_unit, FILL_STRUCT parseGxUsedServiceUnit GxUsageMonitoringInformation_used_service_unit set_GxUsageMonitoringInformation_used_service_unit)].

Definition parseGxTunnelInformation : parser GxTunnelInformation := parse_group
    [
     (davp_tunnel_header_length, PARSE_VALUE v_u32 set_GxTunnelInformation_tunnel_header_length (mark GxTunnelInformation_presence set_GxTunnelInformation_presence 0));
     (davp_tunnel_header_filter, COUNT GxTunnelInformation_tunnel_header_filter set_GxTunnelInformation_tunnel_header_filter (mark GxTunnelInformation_presence set_GxTunnelInformation_presence 1))]
    [
     FD_ALLOC_LIST (4 + Z.of_nat GxTunnelHeaderFilterOctetString) zero_octets GxTunnelInformation_tunnel_header_filter set_GxTunnelInformation_tunnel_header_filter]
    [
     (davp_tunnel_header_filter, FILL_OCTETSTRING GX_TUNNEL_HEADER_FILTER_LEN GxTunnelInformation_tunnel_header_filter set_GxTunnelInformation_tunnel_header_filter)].

Definition parseGxCoaInformation : parser GxCoaInformation := parse_group
    [
     (davp_tunnel_information, FDCHECK_PARSE_DIRECT parseGxTunnelInformation GxCoaInformation_tunnel_information set_GxCoaInformation_tunnel_information (mark GxCoaInformation_presence set_GxCoaInformation_presence 0));
     (davp_coa_ip_address, FD_PARSE_ADDRESS set_GxCoaInformation_coa_ip_address (mark GxCoaInformation_presence set_GxCoaInformation_presence 1))]
    []
    [].

Definition parseGxAccessNetworkChargingIdentifierGx : parser GxAccessNetworkChargingIdentifierGx := parse_group
    [
     (davp_access_network_charging_identifier_value, FD_PARSE_OCTETSTRING GX_ACCESS_NETWORK_CHARGING_IDENTIFIER_VALUE_LEN GxAccessNetworkChargingIdentifierGx_access_network_charging_identifier_value set_GxAccessNetworkChargingIdentifierGx_access_network_charging_identifier_value (mark GxAccessNetworkChargingIdentifierGx_presence set_GxAccessNetworkChargingIdentifierGx_presence 0));
     (davp_charging_rule_base_name, COUNT GxAccessNetworkChargingIdentifierGx_charging_rule_base_name set_GxAccessNetworkChargingIdentifierGx_charging_rule_base_name (mark GxAccessNetworkChargingIdentifierGx_presence set_GxAccessNetworkChargingIdentifierGx_presence 1));
     (davp_charging_rule_name, COUNT GxAccessNetworkChargingIdentifierGx_charging_rule_name set_GxAccessNetworkChargingIdentifierGx_charging_rule_name (mark GxAccessNetworkChargingIdentifierGx_presence set_GxAccessNetworkChargingIdentifierGx_presence 2));
     (davp_ip_can_session_charging_scope, PARSE_VALUE v_i32 set_GxAccessNetworkChargingIdentifierGx_ip_can_session_charging_scope (mark GxAccessNetworkChargingIdentifierGx_presence set_GxAccessNetworkChargingIdentifierGx_presence 3))]
    [
     FD_ALLOC_LIST (4 + Z.of_nat GxChargingRuleBaseNameOctetString) zero_octets GxAccessNetworkChargingIdentifierGx_charging_rule_base_name set_GxAccessNetworkChargingIdentifierGx_charging_rule_base_name;
     FD_ALLOC_LIST (4 + Z.of_nat GxChargingRuleNameOctetString) zero_octets GxAccessNetworkChargingIdentifierGx_charging_rule_name set_GxAccessNetworkChargingIdentifierGx_charging_rule_name]
    [
     (davp_charging_rule_base_name, FILL_OCTETSTRING GX_CHARGING_RULE_BASE_NAME_LEN GxAccessNetworkChargingIdentifierGx_charging_rule_base_name set_GxAccessNetworkChargingIdentifierGx_charging_rule_base_name);
     (davp_charging_rule_name, FILL_OCTETSTRING GX_CHARGING_RULE_NAME_LEN GxAccessNetworkChargingIdentifierGx_charging_rule_name set_GxAccessNetworkChargingIdentifierGx_charging_rule_name)].

Definition parseGxMbsfnArea : parser GxMbsfnArea := parse_group
    [
     (davp_mbsfn_area_id, PARSE_VALUE v_u32 set_GxMbsfnArea_mbsfn_area_id (mark GxMbsfnArea_presence set_GxMbsfnArea_presence 0));
     (davp_carrier_frequency, PARSE_VALUE v_u32 set_GxMbsfnArea_carrier_frequency (mark GxMbsfnArea_presence set_GxMbsfnArea_presence 1))]
    []
    [].

Definition parseGxAreaScope : parser GxAreaScope := parse_group
    [
     (davp_cell_global_identity, COUNT GxAreaScope_cell_global_identity set_GxAreaScope_cell_global_identity (mark GxAreaScope_presence set_GxAreaScope_presence 0));
     (davp_e_utran_cell_global_identity, COUNT GxAreaScope_e_utran_cell_global_identity set_GxAreaScope_e_utran_cell_global_identity (mark GxAreaScope_presence set_GxAreaScope_presence 1));
     (davp_routing_area_identity, COUNT GxAreaScope_routing_area_identity set_GxAreaScope_routing_area_identity (mark GxAreaScope_presence set_GxAreaScope_presence 2));
     (davp_location_area_identity, COUNT GxAreaScope_location_area_identity set_GxAreaScope_location_area_identity (mark GxAreaScope_presence set_GxAreaScope_presence 3));
     (davp_tracking_area_identity, COUNT GxAreaScope_tracking_area_identity set_GxAreaScope_tracking_area_identity (mark GxAreaScope_presence set_GxAreaScope_presence 4))]
    [
     FD_ALLOC_LIST (4 + Z.of_nat GxCellGlobalIdentityOctetString) zero_octets GxAreaScope_cell_global_identity set_GxAreaScope_cell_global_identity;
     FD_ALLOC_LIST (4 + Z.of_nat GxEUtranCellGlobalIdentityOctetString) zero_octets GxAreaScope_e_utran_cell_global_identity set_GxAreaScope_e_utran_cell_global_identity;
     FD_ALLOC_LIST (4 + Z.of_nat GxRoutingAreaIdentityOctetString) zero_octets GxAreaScope_routing_area_identity set_GxAreaScope_routing_area_identity;
     FD_ALLOC_LIST (4 + Z.of_nat GxLocationAreaIdentityOctetString) zero_octets GxAreaScope_location_area_identity set_GxAreaScope_location_area_identity;
     FD_ALLOC_LIST (4 + Z.of_nat GxTrackingAreaIdentityOctetString) zero_octets GxAreaScope_tracking_area_identity set_GxAreaScope_tracking_area_identity]
    [
     (davp_cell_global_identity, FILL_OCTETSTRING GX_CELL_GLOBAL_IDENTITY_LEN GxAreaScope_cell_global_identity set_GxAreaScope_cell_global_identity);
     (davp_e_utran_cell_global_identity, FILL_OCTETSTRING GX_E_UTRAN_CELL_GLOBAL_IDENTITY_LEN GxAreaScope_e_utran_cell_global_identity set_GxAreaScope_e_utran_cell_global_identity);
     (davp_routing_area_identity, FILL_OCTETSTRING GX_ROUTING_AREA_IDENTITY_LEN GxAreaScope_routing_area_identity set_GxAreaScope_routing_area_identity);
     (davp_location_area_identity, FILL_OCTETSTRING GX_LOCATION_AREA_IDENTITY_LEN GxAreaScope_location_area_identity set_GxAreaScope_location_area_identity);
     (davp_tracking_area_identity, FILL_OCTETSTRING GX_TRACKING_AREA_IDENTITY_LEN GxAreaScope_tracking_area_identity set_GxAreaScope_tracking_area_identity)].

Definition parseGxMdtConfiguration : parser GxMdtConfiguration := parse_group
    [
     (davp_job_type, PARSE_VALUE v_i32 set_GxMdtConfiguration_job_type (mark GxMdtConfiguration_presence set_GxMdtConfiguration_presence 0));
     (davp_area_scope, FDCHECK_PARSE_DIRECT parseGxAreaScope GxMdtConfiguration_area_scope set_GxMdtConfiguration_area_scope (mark GxMdtConfiguration_presence set_GxMdtConfiguration_presence 1));
     (davp_list_of_measurements, PARSE_VALUE v_u32 set_GxMdtConfiguration_list_of_measurements (mark GxMdtConfiguration_presence set_GxMdtConfiguration_presence 2));
     (davp_reporting_trigger, PARSE_VALUE v_u32 set_GxMdtConfiguration_reporting_trigger (mark GxMdtConfiguration_presence set_GxMdtConfiguration_presence 3));
     (davp_report_interval, PARSE_VALUE v_i32 set_GxMdtConfiguration_report_interval (mark GxMdtConfiguration_presence set_GxMdtConfiguration_presence 4));
     (davp_report_amount, PARSE_VALUE v_i32 set_GxMdtConfiguration_report_amount (mark GxMdtConfiguration_presence set_GxMdtConfiguration_presence 5));
     (davp_event_threshold_rsrp, PARSE_VALUE v_u32 set_GxMdtConfiguration_event_threshold_rsrp (mark GxMdtConfiguration_presence set_GxMdtConfiguration_presence 6));
     (davp_event_threshold_rsrq, PARSE_VALUE v_u32 set_GxMdtConfiguration_event_threshold_rsrq (mark GxMdtConfiguration_presence set_GxMdtConfiguration_presence 7));
     (davp_logging_interval, PARSE_VALUE v_i32 set_GxMdtConfiguration_logging_interval (mark GxMdtConfiguration_presence set_GxMdtConfiguration_presence 8));
     (davp_logging_duration, PARSE_VALUE v_i32 set_GxMdtConfiguration_logging_duration (mark GxMdtConfiguration_presence set_GxMdtConfiguration_presence 9));
     (davp_measurement_period_lte, PARSE_VALUE v_i32 set_GxMdtConfiguration_measurement_period_lte (mark GxMdtConfiguration_presence set_GxMdtConfiguration_presence 10));
     (davp_measurement_period_umts, PARSE_VALUE v_i32 set_GxMdtConfiguration_measurement_period_umts (mark GxMdtConfiguration_presence set_GxMdtConfiguration_presence 11));
     (davp_collection_period_rrm_lte, PARSE_VALUE v_i32 set_GxMdtConfiguration_collection_period_rrm_lte (mark GxMdtConfiguration_presence set_GxMdtConfiguration_presence 12));
     (davp_collection_period_rrm_umts, PARSE_VALUE v_i32 set_GxMdtConfiguration_collection_period_rrm_umts (mark GxMdtConfiguration_presence set_GxMdtConfiguration_presence 13));
     (davp_positioning_method, FD_PARSE_OCTETSTRING GX_POSITIONING_METHOD_LEN GxMdtConfiguration_positioning_method set_GxMdtConfiguration_positioning_method (mark GxMdtConfiguration_presence set_GxMdtConfiguration_presence 14));
     (davp_measurement_quantity, FD_PARSE_OCTETSTRING GX_MEASUREMENT_QUANTITY_LEN GxMdtConfiguration_measurement_quantity set_GxMdtConfiguration_measurement_quantity (mark GxMdtConfiguration_presence set_GxMdtConfiguration_presence 15));
     (davp_event_threshold_event_1f, PARSE_VALUE v_i32 set_GxMdtConfiguration_event_threshold_event_1f (mark GxMdtConfiguration_presence set_GxMdtConfiguration_presence 16));
     (davp_event_threshold_event_1i, PARSE_VALUE v_i32 set_GxMdtConfiguration_event_threshold_event_1i (mark GxMdtConfiguration_presence set_GxMdtConfiguration_presence 17));
     (davp_mdt_allowed_plmn_id, COUNT GxMdtConfiguration_mdt_allowed_plmn_id set_GxMdtConfiguration_mdt_allowed_plmn_id (mark GxMdtConfiguration_presence set_GxMdtConfiguration_presence 18));
     (davp_mbsfn_area, COUNT GxMdtConfiguration_mbsfn_area set_GxMdtConfiguration_mbsfn_area (mark GxMdtConfiguration_presence set_GxMdtConfiguration_presence 19))]
    [
     FD_ALLOC_LIST (4 + Z.of_nat GxMdtAllowedPlmnIdOctetString) zero_octets GxMdtConfiguration_mdt_allowed_plmn_id set_GxMdtConfiguration_mdt_allowed_plmn_id;
     FD_ALLOC_LIST sizeof_GxMbsfnArea zero_GxMbsfnArea GxMdtConfiguration_mbsfn_area set_GxMdtConfiguration_mbsfn_area]
    [
     (davp_mdt_allowed_plmn_id, FILL_OCTETSTRING GX_MDT_ALLOWED_PLMN_ID_LEN GxMdtConfiguration_mdt_allowed_plmn_id set_GxMdtConfiguration_mdt_allowed_plmn_id);
     (davp_mbsfn_area, FILL_STRUCT parseGxMbsfnArea GxMdtConfiguration_mbsfn_area set_GxMdtConfiguration_mbsfn_area)].

Definition parseGxTraceData : parser GxTraceData := parse_group
    [
     (davp_trace_reference, FD_PARSE_OCTETSTRING GX_TRACE_REFERENCE_LEN GxTraceData_trace_reference set_GxTraceData_trace_reference (mark GxTraceData_presence set_GxTraceData_presence 0));
     (davp_trace_depth, PARSE_VALUE v_i32 set_GxTraceData_trace_depth (mark GxTraceData_presence set_GxTraceData_presence 1));
     (davp_trace_ne_type_list, FD_PARSE_OCTETSTRING GX_TRACE_NE_TYPE_LIST_LEN GxTraceData_trace_ne_type_list set_GxTraceData_trace_ne_type_list (mark GxTraceData_presence set_GxTraceData_presence 2));
     (davp_trace_interface_list, FD_PARSE_OCTETSTRING GX_TRACE_INTERFACE_LIST_LEN GxTraceData_trace_interface_list set_GxTraceData_trace_interface_list (mark GxTraceData_presence set_GxTraceData_presence 3));
     (davp_trace_event_list, FD_PARSE_OCTETSTRING GX_TRACE_EVENT_LIST_LEN GxTraceData_trace_event_list set_GxTraceData_trace_event_list (mark GxTraceData_presence set_GxTraceData_presence 4));
     (davp_omc_id, FD_PARSE_OCTETSTRING GX_OMC_ID_LEN GxTraceData_omc_id set_GxTraceData_omc_id (mark GxTraceData_presence set_GxTraceData_presence 5));
     (davp_trace_collection_entity, FD_PARSE_ADDRESS set_GxTraceData_trace_collection_entity (mark GxTraceData_presence set_GxTraceData_presence 6));
     (davp_mdt_configuration, FDCHECK_PARSE_DIRECT parseGxMdtConfiguration GxTraceData_mdt_configuration set_GxTraceData_mdt_configuration (mark GxTraceData_presence set_GxTraceData_presence 7))]
    []
    [].

Definition parseGxUserCsgInformation : parser GxUserCsgInformation := parse_group
    [
     (davp_csg_id, PARSE_VALUE v_u32 set_GxUserCsgInformation_csg_id (mark GxUserCsgInformation_presence set_GxUserCsgInformation_presence 0));
     (davp_csg_access_mode, PARSE_VALUE v_i32 set_GxUserCsgInformation_csg_access_mode (mark GxUserCsgInformation_presence set_GxUserCsgInformation_presence 1));
     (davp_csg_membership_indication, PARSE_VALUE v_i32 set_GxUserCsgInformation_csg_membership_indication (mark GxUserCsgInformation_presence set_GxUserCsgInformation_presence 2))]
    []
    [].

Definition parseGxEventReportIndication : parser GxEventReportIndication := parse_group
    [
     (davp_an_trusted, PARSE_VALUE v_i32 set_GxEventReportIndication_an_trusted (mark GxEventReportIndication_presence set_GxEventReportIndication_presence 0));
     (davp_event_trigger, COUNT GxEventReportIndication_event_trigger set_GxEventReportIndication_event_trigger (mark GxEventReportIndication_presence set_GxEventReportIndication_presence 1));
     (davp_user_csg_information, FDCHECK_PARSE_DIRECT parseGxUserCsgInformation GxEventReportIndication_user_csg_information set_GxEventReportIndication_user_csg_information (mark GxEventReportIndication_presence set_GxEventReportIndication_presence 2));
     (davp_ip_can_type, PARSE_VALUE v_i32 set_GxEventReportIndication_ip_can_type (mark GxEventReportIndication_presence set_GxEventReportIndication_presence 3));
     (davp_an_gw_address, COUNT GxEventReportIndication_an_gw_address set_GxEventReportIndication_an_gw_address (mark GxEventReportIndication_presence set_GxEventReportIndication_presence 4));
     (davp_3gpp_sgsn_address, FD_PARSE_OCTETSTRING GX_3GPP_SGSN_ADDRESS_LEN GxEventReportIndication_tgpp_sgsn_address set_GxEventReportIndication_tgpp_sgsn_address (mark GxEventReportIndication_presence set_GxEventReportIndication_presence 5));
     (davp_3gpp_sgsn_ipv6_address, FD_PARSE_OCTETSTRING GX_3GPP_SGSN_IPV6_ADDRESS_LEN GxEventReportIndication_tgpp_sgsn_ipv6_address set_GxEventReportIndication_tgpp_sgsn_ipv6_address (mark GxEventReportIndication_presence set_GxEventReportIndication_presence 6));
     (davp_3gpp_sgsn_mcc_mnc, FD_PARSE_OCTETSTRING GX_3GPP_SGSN_MCC_MNC_LEN GxEventReportIndication_tgpp_sgsn_mcc_mnc set_GxEventReportIndication_tgpp_sgsn_mcc_mnc (mark GxEventReportIndication_presence set_GxEventReportIndication_presence 7));
     (davp_framed_ip_address, FD_PARSE_OCTETSTRING GX_FRAMED_IP_ADDRESS_LEN GxEventReportIndication_framed_ip_address set_GxEventReportIndication_framed_ip_address (mark GxEventReportIndication_presence set_GxEventReportIndication_presence 8));
     (davp_rat_type, PARSE_VALUE v_i32 set_GxEventReportIndication_rat_type (mark GxEventReportIndication_presence set_GxEventReportIndication_presence 9));
     (davp_rai, FD_PARSE_OCTETSTRING GX_RAI_LEN GxEventReportIndication_rai set_GxEventReportIndication_rai (mark GxEventReportIndication_presence set_GxEventReportIndication_presence 10));
     (davp_3gpp_user_location_info, FD_PARSE_OCTETSTRING GX_3GPP_USER_LOCATION_INFO_LEN GxEventReportIndication_tgpp_user_location_info set_GxEventReportIndication_tgpp_user_location_info (mark GxEventReportIndication_presence set_GxEventReportIndication_presence 11));
     (davp_trace_data, FDCHECK_PARSE_DIRECT parseGxTraceData GxEventReportIndication_trace_data set_GxEventReportIndication_trace_data (mark GxEventReportIndication_presence set_GxEventReportIndication_presence 12));
     (davp_trace_reference, FD_PARSE_OCTETSTRING GX_TRACE_REFERENCE_LEN GxEventReportIndication_trace_reference set_GxEventReportIndication_trace_reference (mark GxEventReportIndication_presence set_GxEventReportIndication_presence 13));
     (davp_3gpp2_bsid, FD_PARSE_OCTETSTRING GX_3GPP2_BSID_LEN GxEventReportIndication_tgpp2_bsid set_GxEventReportIndication_tgpp2_bsid (mark GxEventReportIndication_presence set_GxEventReportIndication_presence 14));
     (davp_3gpp_ms_timezone, FD_PARSE_OCTETSTRING GX_3GPP_MS_TIMEZONE_LEN GxEventReportIndication_tgpp_ms_timezone set_GxEventReportIndication_tgpp_ms_timezone (mark GxEventReportIndication_presence set_GxEventReportIndication_presence 15));
     (davp_routing_ip_address, FD_PARSE_ADDRESS set_GxEventReportIndication_routing_ip_address (mark GxEventReportIndication_presence set_GxEventReportIndication_presence 16));
     (davp_ue_local_ip_address, FD_PARSE_ADDRESS set_GxEventReportIndication_ue_local_ip_address (mark GxEventReportIndication_presence set_GxEventReportIndication_presence 17));
     (davp_henb_local_ip_address, FD_PARSE_ADDRESS set_GxEventReportIndication_henb_local_ip_address (mark GxEventReportIndication_presence set_GxEventReportIndication_presence 18));
     (davp_udp_source_port, PARSE_VALUE v_u32 set_GxEventReportIndication_udp_source_port (mark GxEventReportIndication_presence set_GxEventReportIndication_presence 19));
     (davp_presence_reporting_area_information, FDCHECK_PARSE_DIRECT parseGxPresenceReportingAreaInformation GxEventReportIndication_presence_reporting_area_information set_GxEventReportIndication_presence_reporting_area_information (mark GxEventReportIndication_presence set_GxEventReportIndication_presence 20))]
    [
     FD_ALLOC_LIST (Z.of_nat (sizeof int32_t)) 0 GxEventReportIndication_event_trigger set_GxEventReportIndication_event_trigger;
     FD_ALLOC_LIST (Z.of_nat (sizeof FdAddress)) zero_address GxEventReportIndication_an_gw_address set_GxEventReportIndication_an_gw_address]
    [
     (davp_event_trigger, FILL_VALUE v_i32 GxEventReportIndication_event_trigger set_GxEventReportIndication_event_trigger);
     (davp_an_gw_address, FILL_ADDRESS GxEventReportIndication_an_gw_address set_GxEventReportIndication_an_gw_address)].

Definition parseGxFlowInformation : parser GxFlowInformation := parse_group
    [
     (davp_flow_description, FD_PARSE_OCTETSTRING GX_FLOW_DESCRIPTION_LEN GxFlowInformation_flow_description set_GxFlowInformation_flow_description (mark GxFlowInformation_presence set_GxFlowInformation_presence 0));
     (davp_packet_filter_identifier, FD_PARSE_OCTETSTRING GX_PACKET_FILTER_IDENTIFIER_LEN GxFlowInformation_packet_filter_identifier set_GxFlowInformation_packet_filter_identifier (mark GxFlowInformation_presence set_GxFlowInformation_presence 1));
     (davp_packet_filter_usage, PARSE_VALUE v_i32 set_GxFlowInformation_packet_filter_usage (mark GxFlowInformation_presence set_GxFlowInformation_presence 2));
     (davp_tos_traffic_class, FD_PARSE_OCTETSTRING GX_TOS_TRAFFIC_CLASS_LEN GxFlowInformation_tos_traffic_class set_GxFlowInformation_tos_traffic_class (mark GxFlowInformation_presence set_GxFlowInformation_presence 3));
     (davp_security_parameter_index, FD_PARSE_OCTETSTRING GX_SECURITY_PARAMETER_INDEX_LEN GxFlowInformation_security_parameter_index set_GxFlowInformation_security_parameter_index (mark GxFlowInformation_presence set_GxFlowInformation_presence 4));
     (davp_flow_label, FD_PARSE_OCTETSTRING GX_FLOW_LABEL_LEN GxFlowInformation_flow_label set_GxFlowInformation_flow_label (mark GxFlowInformation_presence set_GxFlowInformation_presence 5));
     (davp_flow_direction, PARSE_VALUE v_i32 set_GxFlowInformation_flow_direction (mark GxFlowInformation_presence set_GxFlowInformation_presence 6));
     (davp_routing_rule_identifier, FD_PARSE_OCTETSTRING GX_ROUTING_RULE_IDENTIFIER_LEN GxFlowInformation_routing_rule_identifier set_GxFlowInformation_routing_rule_identifier (mark GxFlowInformation_presence set_GxFlowInformation_presence 7))]
    []
    [].

Definition parseGxApplicationDetectionInformation : parser GxApplicationDetectionInformation := parse_group
    [
     (davp_tdf_application_identifier, FD_PARSE_OCTETSTRING GX_TDF_APPLICATION_IDENTIFIER_LEN GxApplicationDetectionInformation_tdf_application_identifier set_GxApplicationDetectionInformation_tdf_application_identifier (mark GxApplicationDetectionInformation_presence set_GxApplicationDetectionInformation_presence 0));
     (davp_tdf_application_instance_identifier, FD_PARSE_OCTETSTRING GX_TDF_APPLICATION_INSTANCE_IDENTIFIER_LEN GxApplicationDetectionInformation_tdf_application_instance_identifier set_GxApplicationDetectionInformation_tdf_application_instance_identifier (mark GxApplicationDetectionInformation_presence set_GxApplicationDetectionInformation_presence 1));
     (davp_flow_information, COUNT GxApplicationDetectionInformation_flow_information set_GxApplicationDetectionInformation_flow_information (mark GxApplicationDetectionInformation_presence set_GxApplicationDetectionInformation_presence 2))]
    [
     FD_ALLOC_LIST sizeof_GxFlowInformation zero_GxFlowInformation GxApplicationDetectionInformation_flow_information set_GxApplicationDetectionInformation_flow_information]
    [
     (davp_flow_information, FILL_STRUCT parseGxFlowInformation GxApplicationDetectionInformation_flow_information set_GxApplicationDetectionInformation_flow_information)].

Definition parseGxRedirectServer : parser GxRedirectServer := parse_group
    [
     (davp_redirect_address_type, PARSE_VALUE v_i32 set_GxRedirectServer_redirect_address_type (mark GxRedirectServer_presence set_GxRedirectServer_presence 0));
     (davp_redirect_server_address, FD_PARSE_OCTETSTRING GX_REDIRECT_SERVER_ADDRESS_LEN GxRedirectServer_redirect_server_address set_GxRedirectServer_redirect_server_address (mark GxRedirectServer_presence set_GxRedirectServer_presence 1))]
    []
    [].

Definition parseGxFinalUnitIndication : parser GxFinalUnitIndication := parse_group
    [
     (davp_final_unit_action, PARSE_VALUE v_i32 set_GxFinalUnitIndication_final_unit_action (mark GxFinalUnitIndication_presence set_GxFinalUnitIndication_presence 0));
     (davp_restriction_filter_rule, COUNT GxFinalUnitIndication_restriction_filter_rule set_GxFinalUnitIndication_restriction_filter_rule (mark GxFinalUnitIndication_presence set_GxFinalUnitIndication_presence 1));
     (davp_filter_id, COUNT GxFinalUnitIndication_filter_id set_GxFinalUnitIndication_filter_id (mark GxFinalUnitIndication_presence set_GxFinalUnitIndication_presence 2));
     (davp_redirect_server, FDCHECK_PARSE_DIRECT parseGxRedirectServer GxFinalUnitIndication_redirect_server set_GxFinalUnitIndication_redirect_server (mark GxFinalUnitIndication_presence set_GxFinalUnitIndication_presence 3))]
    [
     FD_ALLOC_LIST (4 + Z.of_nat GxRestrictionFilterRuleOctetString) zero_octets GxFinalUnitIndication_restriction_filter_rule set_GxFinalUnitIndication_restriction_filter_rule;
     FD_ALLOC_LIST (4 + Z.of_nat GxFilterIdOctetString) zero_octets GxFinalUnitIndication_filter_id set_GxFinalUnitIndication_filter_id]
    [
     (davp_restriction_filter_rule, FILL_OCTETSTRING GX_RESTRICTION_FILTER_RULE_LEN GxFinalUnitIndication_restriction_filter_rule set_GxFinalUnitIndication_restriction_filter_rule);
     (davp_filter_id, FILL_OCTETSTRING GX_FILTER_ID_LEN GxFinalUnitIndication_filter_id set_GxFinalUnitIndication_filter_id)].

Definition parseGxChargingRuleReport : parser GxChargingRuleReport := parse_group
    [
     (davp_charging_rule_name, COUNT GxChargingRuleReport_charging_rule_name set_GxChargingRuleReport_charging_rule_name (mark GxChargingRuleReport_presence set_GxChargingRuleReport_presence 0));
     (davp_charging_rule_base_name, COUNT GxChargingRuleReport_charging_rule_base_name set_GxChargingRuleReport_charging_rule_base_name (mark GxChargingRuleReport_presence set_GxChargingRuleReport_presence 1));
     (davp_bearer_identifier, FD_PARSE_OCTETSTRING GX_BEARER_IDENTIFIER_LEN GxChargingRuleReport_bearer_identifier set_GxChargingRuleReport_bearer_identifier (mark GxChargingRuleReport_presence set_GxChargingRuleReport_presence 2));
     (davp_pcc_rule_status, PARSE_VALUE v_i32 set_GxChargingRuleReport_pcc_rule_status (mark GxChargingRuleReport_presence set_GxChargingRuleReport_presence 3));
     (davp_rule_failure_code, PARSE_VALUE v_i32 set_GxChargingRuleReport_rule_failure_code (mark GxChargingRuleReport_presence set_GxChargingRuleReport_presence 4));
     (davp_final_unit_indication, FDCHECK_PARSE_DIRECT parseGxFinalUnitIndication GxChargingRuleReport_final_unit_indication set_GxChargingRuleReport_final_unit_indication (mark GxChargingRuleReport_presence set_GxChargingRuleReport_presence 5));
     (davp_ran_nas_release_cause, COUNT GxChargingRuleReport_ran_nas_release_cause set_GxChargingRuleReport_ran_nas_release_cause (mark GxChargingRuleReport_presence set_GxChargingRuleReport_presence 6));
     (davp_content_version, COUNT GxChargingRuleReport_content_version set_GxChargingRuleReport_content_version (mark GxChargingRuleReport_presence set_GxChargingRuleReport_presence 7))]
    [
     FD_ALLOC_LIST (4 + Z.of_nat GxChargingRuleNameOctetString) zero_octets GxChargingRuleReport_charging_rule_name set_GxChargingRuleReport_charging_rule_name;
     FD_ALLOC_LIST (4 + Z.of_nat GxChargingRuleBaseNameOctetString) zero_octets GxChargingRuleReport_charging_rule_base_name set_GxChargingRuleReport_charging_rule_base_name;
     FD_ALLOC_LIST (4 + Z.of_nat GxRanNasReleaseCauseOctetString) zero_octets GxChargingRuleReport_ran_nas_release_cause set_GxChargingRuleReport_ran_nas_release_cause;
     FD_ALLOC_LIST (Z.of_nat (sizeof uint64_t)) 0 GxChargingRuleReport_content_version set_GxChargingRuleReport_content_version]
    [
     (davp_charging_rule_name, FILL_OCTETSTRING GX_CHARGING_RULE_NAME_LEN GxChargingRuleReport_charging_rule_name set_GxChargingRuleReport_charging_rule_name);
     (davp_charging_rule_base_name, FILL_OCTETSTRING GX_CHARGING_RULE_BASE_NAME_LEN GxChargingRuleReport_charging_rule_base_name set_GxChargingRuleReport_charging_rule_base_name);
     (davp_ran_nas_release_cause, FILL_OCTETSTRING GX_RAN_NAS_RELEASE_CAUSE_LEN GxChargingRuleReport_ran_nas_release_cause set_GxChargingRuleReport_ran_nas_release_cause);
     (davp_content_version, FILL_VALUE v_u64 GxChargingRuleReport_content_version set_GxChargingRuleReport_content_version)].

Definition parseGxTftPacketFilterInformation : parser GxTftPacketFilterInformation := parse_group
    [
     (davp_precedence, PARSE_VALUE v_u32 set_GxTftPacketFilterInformation_precedence (mark GxTftPacketFilterInformation_presence set_GxTftPacketFilterInformation_presence 0));
     (davp_tft_filter, FD_PARSE_OCTETSTRING GX_TFT_FILTER_LEN GxTftPacketFilterInformation_tft_filter set_GxTftPacketFilterInformation_tft_filter (mark GxTftPacketFilterInformation_presence set_GxTftPacketFilterInformation_presence 1));
     (davp_tos_traffic_class, FD_PARSE_OCTETSTRING GX_TOS_TRAFFIC_CLASS_LEN GxTftPacketFilterInformation_tos_traffic_class set_GxTftPacketFilterInformation_tos_traffic_class (mark GxTftPacketFilterInformation_presence set_GxTftPacketFilterInformation_presence 2));
     (davp_security_parameter_index, FD_PARSE_OCTETSTRING GX_SECURITY_PARAMETER_INDEX_LEN GxTftPacketFilterInformation_security_parameter_index set_GxTftPacketFilterInformation_security_parameter_index (mark GxTftPacketFilterInformation_presence set_GxTftPacketFilterInformation_presence 3));
     (davp_flow_label, FD_PARSE_OCTETSTRING GX_FLOW_LABEL_LEN GxTftPacketFilterInformation_flow_label set_GxTftPacketFilterInformation_flow_label (mark GxTftPacketFilterInformation_presence set_GxTftPacketFilterInformation_presence 4));
     (davp_flow_direction, PARSE_VALUE v_i32 set_GxTftPacketFilterInformation_flow_direction (mark GxTftPacketFilterInformation_presence set_GxTftPacketFilterInformation_presence 5))]
    []
    [].

Definition parseGxFixedUserLocationInfo : parser GxFixedUserLocationInfo := parse_group
    [
     (davp_ssid, FD_PARSE_OCTETSTRING GX_SSID_LEN GxFixedUserLocationInfo_ssid set_GxFixedUserLocationInfo_ssid (mark GxFixedUserLocationInfo_presence set_GxFixedUserLocationInfo_presence 0));
     (davp_bssid, FD_PARSE_OCTETSTRING GX_BSSID_LEN GxFixedUserLocationInfo_bssid set_GxFixedUserLocationInfo_bssid (mark GxFixedUserLocationInfo_presence set_GxFixedUserLocationInfo_presence 1));
     (davp_logical_access_id, FD_PARSE_OCTETSTRING GX_LOGICAL_ACCESS_ID_LEN GxFixedUserLocationInfo_logical_access_id set_GxFixedUserLocationInfo_logical_access_id (mark GxFixedUserLocationInfo_presence set_GxFixedUserLocationInfo_presence 2));
     (davp_physical_access_id, FD_PARSE_OCTETSTRING GX_PHYSICAL_ACCESS_ID_LEN GxFixedUserLocationInfo_physical_access_id set_GxFixedUserLocationInfo_physical_access_id (mark GxFixedUserLocationInfo_presence set_GxFixedUserLocationInfo_presence 3))]
    []
    [].

Definition parseGxDefaultQosInformation : parser GxDefaultQosInformation := parse_group
    [
     (davp_qos_class_identifier, PARSE_VALUE v_i32 set_GxDefaultQosInformation_qos_class_identifier (mark GxDefaultQosInformation_presence set_GxDefaultQosInformation_presence 0));
     (davp_max_requested_bandwidth_ul, PARSE_VALUE v_u32 set_GxDefaultQosInformation_max_requested_bandwidth_ul (mark GxDefaultQosInformation_presence set_GxDefaultQosInformation_presence 1));
     (davp_max_requested_bandwidth_dl, PARSE_VALUE v_u32 set_GxDefaultQosInformation_max_requested_bandwidth_dl (mark GxDefaultQosInformation_presence set_GxDefaultQosInformation_presence 2));
     (davp_default_qos_name, FD_PARSE_OCTETSTRING GX_DEFAULT_QOS_NAME_LEN GxDefaultQosInformation_default_qos_name set_GxDefaultQosInformation_default_qos_name (mark GxDefaultQosInformation_presence set_GxDefaultQosInformation_presence 3))]
    []
    [].

Definition parseGxAllocationRetentionPriority : parser GxAllocationRetentionPriority := parse_group
    [
     (davp_priority_level, PARSE_VALUE v_u32 set_GxAllocationRetentionPriority_priority_level (mark GxAllocationRetentionPriority_presence set_GxAllocationRetentionPriority_presence 0));
     (davp_pre_emption_capability, PARSE_VALUE v_i32 set_GxAllocationRetentionPriority_pre_emption_capability (mark GxAllocationRetentionPriority_presence set_GxAllocationRetentionPriority_presence 1));
     (davp_pre_emption_vulnerability, PARSE_VALUE v_i32 set_GxAllocationRetentionPriority_pre_emption_vulnerability (mark GxAllocationRetentionPriority_presence set_GxAllocationRetentionPriority_presence 2))]
    []
    [].

Definition parseGxDefaultEpsBearerQos : parser GxDefaultEpsBearerQos := parse_group
    [
     (davp_qos_class_identifier, PARSE_VALUE v_i32 set_GxDefaultEpsBearerQos_qos_class_identifier (mark GxDefaultEpsBearerQos_presence set_GxDefaultEpsBearerQos_presence 0));
     (davp_allocation_retention_priority, FDCHECK_PARSE_DIRECT parseGxAllocationRetentionPriority GxDefaultEpsBearerQos_allocation_retention_priority set_GxDefaultEpsBearerQos_allocation_retention_priority (mark GxDefaultEpsBearerQos_presence set_GxDefaultEpsBearerQos_presence 1))]
    []
    [].

Definition parseGxConditionalApnAggregateMaxBitrate : parser GxConditionalApnAggregateMaxBitrate := parse_group
    [
     (davp_apn_aggregate_max_bitrate_ul, PARSE_VALUE v_u32 set_GxConditionalApnAggregateMaxBitrate_apn_aggregate_max_bitrate_ul (mark GxConditionalApnAggregateMaxBitrate_presence set_GxConditionalApnAggregateMaxBitrate_presence 0));
     (davp_apn_aggregate_max_bitrate_dl, PARSE_VALUE v_u32 set_GxConditionalApnAggregateMaxBitrate_apn_aggregate_max_bitrate_dl (mark GxConditionalApnAggregateMaxBitrate_presence set_GxConditionalApnAggregateMaxBitrate_presence 1));
     (davp_extended_apn_ambr_ul, PARSE_VALUE v_u32 set_GxConditionalApnAggregateMaxBitrate_extended_apn_ambr_ul (mark GxConditionalApnAggregateMaxBitrate_presence set_GxConditionalApnAggregateMaxBitrate_presence 2));
     (davp_extended_apn_ambr_dl, PARSE_VALUE v_u32 set_GxConditionalApnAggregateMaxBitrate_extended_apn_ambr_dl (mark GxConditionalApnAggregateMaxBitrate_presence set_GxConditionalApnAggregateMaxBitrate_presence 3));
     (davp_ip_can_type, COUNT GxConditionalApnAggregateMaxBitrate_ip_can_type set_GxConditionalApnAggregateMaxBitrate_ip_can_type (mark GxConditionalApnAggregateMaxBitrate_presence set_GxConditionalApnAggregateMaxBitrate_presence 4));
     (davp_rat_type, COUNT GxConditionalApnAggregateMaxBitrate_rat_type set_GxConditionalApnAggregateMaxBitrate_rat_type (mark GxConditionalApnAggregateMaxBitrate_presence set_GxConditionalApnAggregateMaxBitrate_presence 5))]
    [
     FD_ALLOC_LIST (Z.of_nat (sizeof int32_t)) 0 GxConditionalApnAggregateMaxBitrate_ip_can_type set_GxConditionalApnAggregateMaxBitrate_ip_can_type;
     FD_ALLOC_LIST (Z.of_nat (sizeof int32_t)) 0 GxConditionalApnAggregateMaxBitrate_rat_type set_GxConditionalApnAggregateMaxBitrate_rat_type]
    [
     (davp_ip_can_type, FILL_VALUE v_i32 GxConditionalApnAggregateMaxBitrate_ip_can_type set_GxConditionalApnAggregateMaxBitrate_ip_can_type);
     (davp_rat_type, FILL_VALUE v_i32 GxConditionalApnAggregateMaxBitrate_rat_type set_GxConditionalApnAggregateMaxBitrate_rat_type)].

Definition parseGxQosInformation : parser GxQosInformation := parse_group
    [
     (davp_qos_class_identifier, PARSE_VALUE v_i32 set_GxQosInformation_qos_class_identifier (mark GxQosInformation_presence set_GxQosInformation_presence 0));
     (davp_max_requested_bandwidth_ul, PARSE_VALUE v_u32 set_GxQosInformation_max_requested_bandwidth_ul (mark GxQosInformation_presence set_GxQosInformation_presence 1));
     (davp_max_requested_bandwidth_dl, PARSE_VALUE v_u32 set_GxQosInformation_max_requested_bandwidth_dl (mark GxQosInformation_presence set_GxQosInformation_presence 2));
     (davp_extended_max_requested_bw_ul, PARSE_VALUE v_u32 set_GxQosInformation_extended_max_requested_bw_ul (mark GxQosInformation_presence set_GxQosInformation_presence 3));
     (davp_extended_max_requested_bw_dl, PARSE_VALUE v_u32 set_GxQosInformation_extended_max_requested_bw_dl (mark GxQosInformation_presence set_GxQosInformation_presence 4));
     (davp_guaranteed_bitrate_ul, PARSE_VALUE v_u32 set_GxQosInformation_guaranteed_bitrate_ul (mark GxQosInformation_presence set_GxQosInformation_presence 5));
     (davp_guaranteed_bitrate_dl, PARSE_VALUE v_u32 set_GxQosInformation_guaranteed_bitrate_dl (mark GxQosInformation_presence set_GxQosInformation_presence 6));
     (davp_extended_gbr_ul, PARSE_VALUE v_u32 set_GxQosInformation_extended_gbr_ul (mark GxQosInformation_presence set_GxQosInformation_presence 7));
     (davp_extended_gbr_dl, PARSE_VALUE v_u32 set_GxQosInformation_extended_gbr_dl (mark GxQosInformation_presence set_GxQosInformation_presence 8));
     (davp_bearer_identifier, FD_PARSE_OCTETSTRING GX_BEARER_IDENTIFIER_LEN GxQosInformation_bearer_identifier set_GxQosInformation_bearer_identifier (mark GxQosInformation_presence set_GxQosInformation_presence 9));
     (davp_allocation_retention_priority, FDCHECK_PARSE_DIRECT parseGxAllocationRetentionPriority GxQosInformation_allocation_retention_priority set_GxQosInformation_allocation_retention_priority (mark GxQosInformation_presence set_GxQosInformation_presence 10));
     (davp_apn_aggregate_max_bitrate_ul, PARSE_VALUE v_u32 set_GxQosInformation_apn_aggregate_max_bitrate_ul (mark GxQosInformation_presence set_GxQosInformation_presence 11));
     (davp_apn_aggregate_max_bitrate_dl, PARSE_VALUE v_u32 set_GxQosInformation_apn_aggregate_max_bitrate_dl (mark GxQosInformation_presence set_GxQosInformation_presence 12));
     (davp_extended_apn_ambr_ul, PARSE_VALUE v_u32 set_GxQosInformation_extended_apn_ambr_ul (mark GxQosInformation_presence set_GxQosInformation_presence 13));
     (davp_extended_apn_ambr_dl, PARSE_VALUE v_u32 set_GxQosInformation_extended_apn_ambr_dl (mark GxQosInformation_presence set_GxQosInformation_presence 14));
     (davp_conditional_apn_aggregate_max_bitrate, COUNT GxQosInformation_conditional_apn_aggregate_max_bitrate set_GxQosInformation_conditional_apn_aggregate_max_bitrate (mark GxQosInformation_presence set_GxQosInformation_presence 15))]
    [
     FD_ALLOC_LIST sizeof_GxConditionalApnAggregateMaxBitrate zero_GxConditionalApnAggregateMaxBitrate GxQosInformation_conditional_apn_aggregate_max_bitrate set_GxQosInformation_conditional_apn_aggregate_max_bitrate]
    [
     (davp_conditional_apn_aggregate_max_bitrate, FILL_STRUCT parseGxConditionalApnAggregateMaxBitrate GxQosInformation_conditional_apn_aggregate_max_bitrate set_GxQosInformation_conditional_apn_aggregate_max_bitrate)].

Definition parseGxUserEquipmentInfo : parser GxUserEquipmentInfo := parse_group
    [
     (davp_user_equipment_info_type, PARSE_VALUE v_i32 set_GxUserEquipmentInfo_user_equipment_info_type (mark GxUserEquipmentInfo_presence set_GxUserEquipmentInfo_presence 0));
     (davp_user_equipment_info_value, FD_PARSE_OCTETSTRING GX_USER_EQUIPMENT_INFO_VALUE_LEN GxUserEquipmentInfo_user_equipment_info_value set_GxUserEquipmentInfo_user_equipment_info_value (mark GxUserEquipmentInfo_presence set_GxUserEquipmentInfo_presence 1))]
    []
    [].

Definition parseGxPacketFilterInformation : parser GxPacketFilterInformation := parse_group
    [
     (davp_packet_filter_identifier, FD_PARSE_OCTETSTRING GX_PACKET_FILTER_IDENTIFIER_LEN GxPacketFilterInformation_packet_filter_identifier set_GxPacketFilterInformation_packet_filter_identifier (mark GxPacketFilterInformation_presence set_GxPacketFilterInformation_presence 0));
     (davp_precedence, PARSE_VALUE v_u32 set_GxPacketFilterInformation_precedence (mark GxPacketFilterInformation_presence set_GxPacketFilterInformation_presence 1));
     (davp_packet_filter_content, FD_PARSE_OCTETSTRING GX_PACKET_FILTER_CONTENT_LEN GxPacketFilterInformation_packet_filter_content set_GxPacketFilterInformation_packet_filter_content (mark GxPacketFilterInformation_presence set_GxPacketFilterInformation_presence 2));
     (davp_tos_traffic_class, FD_PARSE_OCTETSTRING GX_TOS_TRAFFIC_CLASS_LEN GxPacketFilterInformation_tos_traffic_class set_GxPacketFilterInformation_tos_traffic_class (mark GxPacketFilterInformation_presence set_GxPacketFilterInformation_presence 3));
     (davp_security_parameter_index, FD_PARSE_OCTETSTRING GX_SECURITY_PARAMETER_INDEX_LEN GxPacketFilterInformation_security_parameter_index set_GxPacketFilterInformation_security_parameter_index (mark GxPacketFilterInformation_presence set_GxPacketFilterInformation_presence 4));
     (davp_flow_label, FD_PARSE_OCTETSTRING GX_FLOW_LABEL_LEN GxPacketFilterInformation_flow_label set_GxPacketFilterInformation_flow_label (mark GxPacketFilterInformation_presence set_GxPacketFilterInformation_presence 5));
     (davp_flow_direction, PARSE_VALUE v_i32 set_GxPacketFilterInformation_flow_direction (mark GxPacketFilterInformation_presence set_GxPacketFilterInformation_presence 6))]
    []
    [].

Definition parseGxTdfInformation : parser GxTdfInformation := parse_group
    [
     (davp_tdf_destination_realm, FD_PARSE_OCTETSTRING GX_TDF_DESTINATION_REALM_LEN GxTdfInformation_tdf_destination_realm set_GxTdfInformation_tdf_destination_realm (mark GxTdfInformation_presence set_GxTdfInformation_presence 0));
     (davp_tdf_destination_host, FD_PARSE_OCTETSTRING GX_TDF_DESTINATION_HOST_LEN GxTdfInformation_tdf_destination_host set_GxTdfInformation_tdf_destination_host (mark GxTdfInformation_presence set_GxTdfInformation_presence 1));
     (davp_tdf_ip_address, FD_PARSE_ADDRESS set_GxTdfInformation_tdf_ip_address (mark GxTdfInformation_presence set_GxTdfInformation_presence 2))]
    []
    [].

Definition parseGxSupportedFeatures : parser GxSupportedFeatures := parse_group
    [
     (davp_vendor_id, PARSE_VALUE v_u32 set_GxSupportedFeatures_vendor_id (mark GxSupportedFeatures_presence set_GxSupportedFeatures_presence 0));
     (davp_feature_list_id, PARSE_VALUE v_u32 set_GxSupportedFeatures_feature_list_id (mark GxSupportedFeatures_presence set_GxSupportedFeatures_presence 1));
     (davp_feature_list, PARSE_VALUE v_u32 set_GxSupportedFeatures_feature_list (mark GxSupportedFeatures_presence set_GxSupportedFeatures_presence 2))]
    []
    [].

Definition parseGxOcSupportedFeatures : parser GxOcSupportedFeatures := parse_group
    [
     (davp_oc_feature_vector, PARSE_VALUE v_u64 set_GxOcSupportedFeatures_oc_feature_vector (mark GxOcSupportedFeatures_presence set_GxOcSupportedFeatures_presence 0))]
    []
    [].

Definition parseGxSubscriptionId : parser GxSubscriptionId := parse_group
    [
     (davp_subscription_id_type, PARSE_VALUE v_i32 set_GxSubscriptionId_subscription_id_type (mark GxSubscriptionId_presence set_GxSubscriptionId_presence 0));
     (davp_subscription_id_data, FD_PARSE_OCTETSTRING GX_SUBSCRIPTION_ID_DATA_LEN GxSubscriptionId_subscription_id_data set_GxSubscriptionId_subscription_id_data (mark GxSubscriptionId_presence set_GxSubscriptionId_presence 1))]
    []
    [].

Definition gx_ccr_parse : avp -> GxCCR -> option (Z * GxCCR) := λ msg _, (* memset(data, 0, sizeof( *data)) *)
  parse_group
    [
     (davp_session_id, FD_PARSE_OCTETSTRING GX_SESSION_ID_LEN GxCCR_session_id set_GxCCR_session_id (mark GxCCR_presence set_GxCCR_presence 0));
     (davp_drmp, PARSE_VALUE v_i32 set_GxCCR_drmp (mark GxCCR_presence set_GxCCR_presence 1));
     (davp_auth_application_id, PARSE_VALUE v_u32 set_GxCCR_auth_application_id (mark GxCCR_presence set_GxCCR_presence 2));
     (davp_origin_host, FD_PARSE_OCTETSTRING GX_ORIGIN_HOST_LEN GxCCR_origin_host set_GxCCR_origin_host (mark GxCCR_presence set_GxCCR_presence 3));
     (davp_origin_realm, FD_PARSE_OCTETSTRING GX_ORIGIN_REALM_LEN GxCCR_origin_realm set_GxCCR_origin_realm (mark GxCCR_presence set_GxCCR_presence 4));
     (davp_destination_realm, FD_PARSE_OCTETSTRING GX_DESTINATION_REALM_LEN GxCCR_destination_realm set_GxCCR_destination_realm (mark GxCCR_presence set_GxCCR_presence 5));
     (davp_service_context_id, FD_PARSE_OCTETSTRING GX_SERVICE_CONTEXT_ID_LEN GxCCR_service_context_id set_GxCCR_service_context_id (mark GxCCR_presence set_GxCCR_presence 6));
     (davp_cc_request_type, PARSE_VALUE v_i32 set_GxCCR_cc_request_type (mark GxCCR_presence set_GxCCR_presence 7));
     (davp_cc_request_type, PARSE_VALUE v_i32 set_GxCCR_cc_request_type (mark GxCCR_presence set_GxCCR_presence 7));
     (davp_cc_request_number, PARSE_VALUE v_u32 set_GxCCR_cc_request_number (mark GxCCR_presence set_GxCCR_presence 8));
     (davp_credit_management_status, PARSE_VALUE v_u32 set_GxCCR_credit_management_status (mark GxCCR_presence set_GxCCR_presence 9));
     (davp_destination_host, FD_PARSE_OCTETSTRING GX_DESTINATION_HOST_LEN GxCCR_destination_host set_GxCCR_destination_host (mark GxCCR_presence set_GxCCR_presence 10));
     (davp_origin_state_id, PARSE_VALUE v_u32 set_GxCCR_origin_state_id (mark GxCCR_presence set_GxCCR_presence 11));
     (davp_subscription_id, COUNT GxCCR_subscription_id set_GxCCR_subscription_id (mark GxCCR_presence set_GxCCR_presence 12));
     (davp_oc_supported_features, FDCHECK_PARSE_DIRECT parseGxOcSupportedFeatures GxCCR_oc_supported_features set_GxCCR_oc_supported_features (mark GxCCR_presence set_GxCCR_presence 13));
     (davp_supported_features, COUNT GxCCR_supported_features set_GxCCR_supported_features (mark GxCCR_presence set_GxCCR_presence 14));
     (davp_tdf_information, FDCHECK_PARSE_DIRECT parseGxTdfInformation GxCCR_tdf_information set_GxCCR_tdf_information (mark GxCCR_presence set_GxCCR_presence 15));
     (davp_network_request_support, PARSE_VALUE v_i32 set_GxCCR_network_request_support (mark GxCCR_presence set_GxCCR_presence 16));
     (davp_packet_filter_information, COUNT GxCCR_packet_filter_information set_GxCCR_packet_filter_information (mark GxCCR_presence set_GxCCR_presence 17));
     (davp_packet_filter_operation, PARSE_VALUE v_i32 set_GxCCR_packet_filter_operation (mark GxCCR_presence set_GxCCR_presence 18));
     (davp_bearer_identifier, FD_PARSE_OCTETSTRING GX_BEARER_IDENTIFIER_LEN GxCCR_bearer_identifier set_GxCCR_bearer_identifier (mark GxCCR_presence set_GxCCR_presence 19));
     (davp_bearer_operation, PARSE_VALUE v_i32 set_GxCCR_bearer_operation (mark GxCCR_presence set_GxCCR_presence 20));
     (davp_dynamic_address_flag, PARSE_VALUE v_i32 set_GxCCR_dynamic_address_flag (mark GxCCR_presence set_GxCCR_presence 21));
     (davp_dynamic_address_flag_extension, PARSE_VALUE v_i32 set_GxCCR_dynamic_address_flag_extension (mark GxCCR_presence set_GxCCR_presence 22));
     (davp_pdn_connection_charging_id, PARSE_VALUE v_u32 set_GxCCR_pdn_connection_charging_id (mark GxCCR_presence set_GxCCR_presence 23));
     (davp_framed_ip_address, FD_PARSE_OCTETSTRING GX_FRAMED_IP_ADDRESS_LEN GxCCR_framed_ip_address set_GxCCR_framed_ip_address (mark GxCCR_presence set_GxCCR_presence 24));
     (davp_framed_ipv6_prefix, FD_PARSE_OCTETSTRING GX_FRAMED_IPV6_PREFIX_LEN GxCCR_framed_ipv6_prefix set_GxCCR_framed_ipv6_prefix (mark GxCCR_presence set_GxCCR_presence 25));
     (davp_ip_can_type, PARSE_VALUE v_i32 set_GxCCR_ip_can_type (mark GxCCR_presence set_GxCCR_presence 26));
     (davp_3gpp_rat_type, FD_PARSE_OCTETSTRING GX_3GPP_RAT_TYPE_LEN GxCCR_tgpp_rat_type set_GxCCR_tgpp_rat_type (mark GxCCR_presence set_GxCCR_presence 27));
     (davp_an_trusted, PARSE_VALUE v_i32 set_GxCCR_an_trusted (mark GxCCR_presence set_GxCCR_presence 28));
     (davp_rat_type, PARSE_VALUE v_i32 set_GxCCR_rat_type (mark GxCCR_presence set_GxCCR_presence 29));
     (davp_termination_cause, PARSE_VALUE v_i32 set_GxCCR_termination_cause (mark GxCCR_presence set_GxCCR_presence 30));
     (davp_user_equipment_info, FDCHECK_PARSE_DIRECT parseGxUserEquipmentInfo GxCCR_user_equipment_info set_GxCCR_user_equipment_info (mark GxCCR_presence set_GxCCR_presence 31));
     (davp_qos_information, FDCHECK_PARSE_DIRECT parseGxQosInformation GxCCR_qos_information set_GxCCR_qos_information (mark GxCCR_presence set_GxCCR_presence 32));
     (davp_qos_negotiation, PARSE_VALUE v_i32 set_GxCCR_qos_negotiation (mark GxCCR_presence set_GxCCR_presence 33));
     (davp_qos_upgrade, PARSE_VALUE v_i32 set_GxCCR_qos_upgrade (mark GxCCR_presence set_GxCCR_presence 34));
     (davp_default_eps_bearer_qos, FDCHECK_PARSE_DIRECT parseGxDefaultEpsBearerQos GxCCR_default_eps_bearer_qos set_GxCCR_default_eps_bearer_qos (mark GxCCR_presence set_GxCCR_presence 35));
     (davp_default_qos_information, FDCHECK_PARSE_DIRECT parseGxDefaultQosInformation GxCCR_default_qos_information set_GxCCR_default_qos_information (mark GxCCR_presence set_GxCCR_presence 36));
     (davp_an_gw_address, COUNT GxCCR_an_gw_address set_GxCCR_an_gw_address (mark GxCCR_presence set_GxCCR_presence 37));
     (davp_an_gw_status, PARSE_VALUE v_i32 set_GxCCR_an_gw_status (mark GxCCR_presence set_GxCCR_presence 38));
     (davp_3gpp_sgsn_mcc_mnc, FD_PARSE_OCTETSTRING GX_3GPP_SGSN_MCC_MNC_LEN GxCCR_tgpp_sgsn_mcc_mnc set_GxCCR_tgpp_sgsn_mcc_mnc (mark GxCCR_presence set_GxCCR_presence 39));
     (davp_3gpp_sgsn_address, FD_PARSE_OCTETSTRING GX_3GPP_SGSN_ADDRESS_LEN GxCCR_tgpp_sgsn_address set_GxCCR_tgpp_sgsn_address (mark GxCCR_presence set_GxCCR_presence 40));
     (davp_3gpp_sgsn_ipv6_address, FD_PARSE_OCTETSTRING GX_3GPP_SGSN_IPV6_ADDRESS_LEN GxCCR_tgpp_sgsn_ipv6_address set_GxCCR_tgpp_sgsn_ipv6_address (mark GxCCR_presence set_GxCCR_presence 41));
     (davp_3gpp_ggsn_address, FD_PARSE_OCTETSTRING GX_3GPP_GGSN_ADDRESS_LEN GxCCR_tgpp_ggsn_address set_GxCCR_tgpp_ggsn_address (mark GxCCR_presence set_GxCCR_presence 42));
     (davp_3gpp_ggsn_ipv6_address, FD_PARSE_OCTETSTRING GX_3GPP_GGSN_IPV6_ADDRESS_LEN GxCCR_tgpp_ggsn_ipv6_address set_GxCCR_tgpp_ggsn_ipv6_address (mark GxCCR_presence set_GxCCR_presence 43));
     (davp_3gpp_selection_mode, FD_PARSE_OCTETSTRING GX_3GPP_SELECTION_MODE_LEN GxCCR_tgpp_selection_mode set_GxCCR_tgpp_selection_mode (mark GxCCR_presence set_GxCCR_presence 44));
     (davp_rai, FD_PARSE_OCTETSTRING GX_RAI_LEN GxCCR_rai set_GxCCR_rai (mark GxCCR_presence set_GxCCR_presence 45));
     (davp_3gpp_user_location_info, FD_PARSE_OCTETSTRING GX_3GPP_USER_LOCATION_INFO_LEN GxCCR_tgpp_user_location_info set_GxCCR_tgpp_user_location_info (mark GxCCR_presence set_GxCCR_presence 46));
     (davp_fixed_user_location_info, FDCHECK_PARSE_DIRECT parseGxFixedUserLocationInfo GxCCR_fixed_user_location_info set_GxCCR_fixed_user_location_info (mark GxCCR_presence set_GxCCR_presence 47));
     (davp_user_location_info_time, FD_PARSE_TIME set_GxCCR_user_location_info_time (mark GxCCR_presence set_GxCCR_presence 48));
     (davp_user_csg_information, FDCHECK_PARSE_DIRECT parseGxUserCsgInformation GxCCR_user_csg_information set_GxCCR_user_csg_information (mark GxCCR_presence set_GxCCR_presence 49));
     (davp_twan_identifier, FD_PARSE_OCTETSTRING GX_TWAN_IDENTIFIER_LEN GxCCR_twan_identifier set_GxCCR_twan_identifier (mark GxCCR_presence set_GxCCR_presence 50));
     (davp_3gpp_ms_timezone, FD_PARSE_OCTETSTRING GX_3GPP_MS_TIMEZONE_LEN GxCCR_tgpp_ms_timezone set_GxCCR_tgpp_ms_timezone (mark GxCCR_presence set_GxCCR_presence 51));
     (davp_ran_nas_release_cause, COUNT GxCCR_ran_nas_release_cause set_GxCCR_ran_nas_release_cause (mark GxCCR_presence set_GxCCR_presence 52));
     (davp_3gpp_charging_characteristics, FD_PARSE_OCTETSTRING GX_3GPP_CHARGING_CHARACTERISTICS_LEN GxCCR_tgpp_charging_characteristics set_GxCCR_tgpp_charging_characteristics (mark GxCCR_presence set_GxCCR_presence 53));
     (davp_called_station_id, FD_PARSE_OCTETSTRING GX_CALLED_STATION_ID_LEN GxCCR_called_station_id set_GxCCR_called_station_id (mark GxCCR_presence set_GxCCR_presence 54));
     (davp_pdn_connection_id, FD_PARSE_OCTETSTRING GX_PDN_CONNECTION_ID_LEN GxCCR_pdn_connection_id set_GxCCR_pdn_connection_id (mark GxCCR_presence set_GxCCR_presence 55));
     (davp_bearer_usage, PARSE_VALUE v_i32 set_GxCCR_bearer_usage (mark GxCCR_presence set_GxCCR_presence 56));
     (davp_online, PARSE_VALUE v_i32 set_GxCCR_online (mark GxCCR_presence set_GxCCR_presence 57));
     (davp_offline, PARSE_VALUE v_i32 set_GxCCR_offline (mark GxCCR_presence set_GxCCR_presence 58));
     (davp_tft_packet_filter_information, COUNT GxCCR_tft_packet_filter_information set_GxCCR_tft_packet_filter_information (mark GxCCR_presence set_GxCCR_presence 59));
     (davp_charging_rule_report, COUNT GxCCR_charging_rule_report set_GxCCR_charging_rule_report (mark GxCCR_presence set_GxCCR_presence 60));
     (davp_application_detection_information, COUNT GxCCR_application_detection_information set_GxCCR_application_detection_information (mark GxCCR_presence set_GxCCR_presence 61));
     (davp_event_trigger, COUNT GxCCR_event_trigger set_GxCCR_event_trigger (mark GxCCR_presence set_GxCCR_presence 62));
     (davp_event_report_indication, FDCHECK_PARSE_DIRECT parseGxEventReportIndication GxCCR_event_report_indication set_GxCCR_event_report_indication (mark GxCCR_presence set_GxCCR_presence 63));
     (davp_access_network_charging_address, FD_PARSE_ADDRESS set_GxCCR_access_network_charging_address (mark GxCCR_presence set_GxCCR_presence 64));
     (davp_access_network_charging_identifier_gx, COUNT GxCCR_access_network_charging_identifier_gx set_GxCCR_access_network_charging_identifier_gx (mark GxCCR_presence set_GxCCR_presence 65));
     (davp_coa_information, COUNT GxCCR_coa_information set_GxCCR_coa_information (mark GxCCR_presence set_GxCCR_presence 66));
     (davp_usage_monitoring_information, COUNT GxCCR_usage_monitoring_information set_GxCCR_usage_monitoring_information (mark GxCCR_presence set_GxCCR_presence 67));
     (davp_nbifom_support, PARSE_VALUE v_i32 set_GxCCR_nbifom_support (mark GxCCR_presence set_GxCCR_presence 68));
     (davp_nbifom_mode, PARSE_VALUE v_i32 set_GxCCR_nbifom_mode (mark GxCCR_presence set_GxCCR_presence 69));
     (davp_default_access, PARSE_VALUE v_i32 set_GxCCR_default_access (mark GxCCR_presence set_GxCCR_presence 70));
     (davp_origination_time_stamp, PARSE_VALUE v_u64 set_GxCCR_origination_time_stamp (mark GxCCR_presence set_GxCCR_presence 71));
     (davp_maximum_wait_time, PARSE_VALUE v_u32 set_GxCCR_maximum_wait_time (mark GxCCR_presence set_GxCCR_presence 72));
     (davp_access_availability_change_reason, PARSE_VALUE v_u32 set_GxCCR_access_availability_change_reason (mark GxCCR_presence set_GxCCR_presence 73));
     (davp_routing_rule_install, FDCHECK_PARSE_DIRECT parseGxRoutingRuleInstall GxCCR_routing_rule_install set_GxCCR_routing_rule_install (mark GxCCR_presence set_GxCCR_presence 74));
     (davp_routing_rule_remove, FDCHECK_PARSE_DIRECT parseGxRoutingRuleRemove GxCCR_routing_rule_remove set_GxCCR_routing_rule_remove (mark GxCCR_presence set_GxCCR_presence 75));
     (davp_henb_local_ip_address, FD_PARSE_ADDRESS set_GxCCR_henb_local_ip_address (mark GxCCR_presence set_GxCCR_presence 76));
     (davp_ue_local_ip_address, FD_PARSE_ADDRESS set_GxCCR_ue_local_ip_address (mark GxCCR_presence set_GxCCR_presence 77));
     (davp_udp_source_port, PARSE_VALUE v_u32 set_GxCCR_udp_source_port (mark GxCCR_presence set_GxCCR_presence 78));
     (davp_tcp_source_port, PARSE_VALUE v_u32 set_GxCCR_tcp_source_port (mark GxCCR_presence set_GxCCR_presence 79));
     (davp_presence_reporting_area_information, COUNT GxCCR_presence_reporting_area_information set_GxCCR_presence_reporting_area_information (mark GxCCR_presence set_GxCCR_presence 80));
     (davp_logical_access_id, FD_PARSE_OCTETSTRING GX_LOGICAL_ACCESS_ID_LEN GxCCR_logical_access_id set_GxCCR_logical_access_id (mark GxCCR_presence set_GxCCR_presence 81));
     (davp_physical_access_id, FD_PARSE_OCTETSTRING GX_PHYSICAL_ACCESS_ID_LEN GxCCR_physical_access_id set_GxCCR_physical_access_id (mark GxCCR_presence set_GxCCR_presence 82));
     (davp_proxy_info, COUNT GxCCR_proxy_info set_GxCCR_proxy_info (mark GxCCR_presence set_GxCCR_presence 83));
     (davp_route_record, COUNT GxCCR_route_record set_GxCCR_route_record (mark GxCCR_presence set_GxCCR_presence 84));
     (davp_3gpp_ps_data_off_status, PARSE_VALUE v_i32 set_GxCCR_tgpp_ps_data_off_status (mark GxCCR_presence set_GxCCR_presence 85))]
    [
     FD_ALLOC_LIST sizeof_GxSubscriptionId zero_GxSubscriptionId GxCCR_subscription_id set_GxCCR_subscription_id;
     FD_ALLOC_LIST sizeof_GxSupportedFeatures zero_GxSupportedFeatures GxCCR_supported_features set_GxCCR_supported_features;
     FD_ALLOC_LIST sizeof_GxPacketFilterInformation zero_GxPacketFilterInformation GxCCR_packet_filter_information set_GxCCR_packet_filter_information;
     FD_ALLOC_LIST (Z.of_nat (sizeof FdAddress)) zero_address GxCCR_an_gw_address set_GxCCR_an_gw_address;
     FD_ALLOC_LIST (4 + Z.of_nat GxRanNasReleaseCauseOctetString) zero_octets GxCCR_ran_nas_release_cause set_GxCCR_ran_nas_release_cause;
     FD_ALLOC_LIST sizeof_GxTftPacketFilterInformation zero_GxTftPacketFilterInformation GxCCR_tft_packet_filter_information set_GxCCR_tft_packet_filter_information;
     FD_ALLOC_LIST sizeof_GxChargingRuleReport zero_GxChargingRuleReport GxCCR_charging_rule_report set_GxCCR_charging_rule_report;
     FD_ALLOC_LIST sizeof_GxApplicationDetectionInformation zero_GxApplicationDetectionInformation GxCCR_application_detection_information set_GxCCR_application_detection_information;
     FD_ALLOC_LIST (Z.of_nat (sizeof int32_t)) 0 GxCCR_event_trigger set_GxCCR_event_trigger;
     FD_ALLOC_LIST sizeof_GxAccessNetworkChargingIdentifierGx zero_GxAccessNetworkChargingIdentifierGx GxCCR_access_network_charging_identifier_gx set_GxCCR_access_network_charging_identifier_gx;
     FD_ALLOC_LIST sizeof_GxCoaInformation zero_GxCoaInformation GxCCR_coa_information set_GxCCR_coa_information;
     FD_ALLOC_LIST sizeof_GxUsageMonitoringInformation zero_GxUsageMonitoringInformation GxCCR_usage_monitoring_information set_GxCCR_usage_monitoring_information;
     FD_ALLOC_LIST sizeof_GxPresenceReportingAreaInformation zero_GxPresenceReportingAreaInformation GxCCR_presence_reporting_area_information set_GxCCR_presence_reporting_area_information;
     FD_ALLOC_LIST sizeof_GxProxyInfo zero_GxProxyInfo GxCCR_proxy_info set_GxCCR_proxy_info;
     FD_ALLOC_LIST (4 + Z.of_nat GxRouteRecordOctetString) zero_octets GxCCR_route_record set_GxCCR_route_record]
    [
     (davp_subscription_id, FILL_STRUCT parseGxSubscriptionId GxCCR_subscription_id set_GxCCR_subscription_id);
     (davp_supported_features, FILL_STRUCT parseGxSupportedFeatures GxCCR_supported_features set_GxCCR_supported_features);
     (davp_packet_filter_information, FILL_STRUCT parseGxPacketFilterInformation GxCCR_packet_filter_information set_GxCCR_packet_filter_information);
     (davp_an_gw_address, FILL_ADDRESS GxCCR_an_gw_address set_GxCCR_an_gw_address);
     (davp_ran_nas_release_cause, FILL_OCTETSTRING GX_RAN_NAS_RELEASE_CAUSE_LEN GxCCR_ran_nas_release_cause set_GxCCR_ran_nas_release_cause);
     (davp_tft_packet_filter_information, FILL_STRUCT parseGxTftPacketFilterInformation GxCCR_tft_packet_filter_information set_GxCCR_tft_packet_filter_information);
     (davp_charging_rule_report, FILL_STRUCT parseGxChargingRuleReport GxCCR_charging_rule_report set_GxCCR_charging_rule_report);
     (davp_application_detection_information, FILL_STRUCT parseGxApplicationDetectionInformation GxCCR_application_detection_information set_GxCCR_application_detection_information);
     (davp_event_trigger, FILL_VALUE v_i32 GxCCR_event_trigger set_GxCCR_event_trigger);
     (davp_access_network_charging_identifier_gx, FILL_STRUCT parseGxAccessNetworkChargingIdentifierGx GxCCR_access_network_charging_identifier_gx set_GxCCR_access_network_charging_identifier_gx);
     (davp_coa_information, FILL_STRUCT parseGxCoaInformation GxCCR_coa_information set_GxCCR_coa_information);
     (davp_usage_monitoring_information, FILL_STRUCT parseGxUsageMonitoringInformation GxCCR_usage_monitoring_information set_GxCCR_usage_monitoring_information);
     (davp_presence_reporting_area_information, FILL_STRUCT parseGxPresenceReportingAreaInformation GxCCR_presence_reporting_area_information set_GxCCR_presence_reporting_area_information);
     (davp_proxy_info, FILL_STRUCT parseGxProxyInfo GxCCR_proxy_info set_GxCCR_proxy_info);
     (davp_route_record, FILL_OCTETSTRING GX_ROUTE_RECORD_LEN GxCCR_route_record set_GxCCR_route_record)] msg zero_GxCCR.

Definition parseGxLoad : parser GxLoad := parse_group
    [
     (davp_load_type, PARSE_VALUE v_i32 set_GxLoad_load_type (mark GxLoad_presence set_GxLoad_presence 0));
     (davp_load_value, PARSE_VALUE v_u64 set_GxLoad_load_value (mark GxLoad_presence set_GxLoad_presence 1));
     (davp_sourceid, FD_PARSE_OCTETSTRING GX_SOURCEID_LEN GxLoad_sourceid set_GxLoad_sourceid (mark GxLoad_presence set_GxLoad_presence 2))]
    []
    [].

Definition parseGxFailedAvp : parser GxFailedAvp := parse_group
    []
    []
    [].

Definition parseGxConditionalPolicyInformation : parser GxConditionalPolicyInformation := parse_group
    [
     (davp_execution_time, FD_PARSE_TIME set_GxConditionalPolicyInformation_execution_time (mark GxConditionalPolicyInformation_presence set_GxConditionalPolicyInformation_presence 0));
     (davp_default_eps_bearer_qos, FDCHECK_PARSE_DIRECT parseGxDefaultEpsBearerQos GxConditionalPolicyInformation_default_eps_bearer_qos set_GxConditionalPolicyInformation_default_eps_bearer_qos (mark GxConditionalPolicyInformation_presence set_GxConditionalPolicyInformation_presence 1));
     (davp_apn_aggregate_max_bitrate_ul, PARSE_VALUE v_u32 set_GxConditionalPolicyInformation_apn_aggregate_max_bitrate_ul (mark GxConditionalPolicyInformation_presence set_GxConditionalPolicyInformation_presence 2));
     (davp_apn_aggregate_max_bitrate_dl, PARSE_VALUE v_u32 set_GxConditionalPolicyInformation_apn_aggregate_max_bitrate_dl (mark GxConditionalPolicyInformation_presence set_GxConditionalPolicyInformation_presence 3));
     (davp_extended_apn_ambr_ul, PARSE_VALUE v_u32 set_GxConditionalPolicyInformation_extended_apn_ambr_ul (mark GxConditionalPolicyInformation_presence set_GxConditionalPolicyInformation_presence 4));
     (davp_extended_apn_ambr_dl, PARSE_VALUE v_u32 set_GxConditionalPolicyInformation_extended_apn_ambr_dl (mark GxConditionalPolicyInformation_presence set_GxConditionalPolicyInformation_presence 5));
     (davp_conditional_apn_aggregate_max_bitrate, COUNT GxConditionalPolicyInformation_conditional_apn_aggregate_max_bitrate set_GxConditionalPolicyInformation_conditional_apn_aggregate_max_bitrate (mark GxConditionalPolicyInformation_presence set_GxConditionalPolicyInformation_presence 6))]
    [
     FD_ALLOC_LIST sizeof_GxConditionalApnAggregateMaxBitrate zero_GxConditionalApnAggregateMaxBitrate GxConditionalPolicyInformation_conditional_apn_aggregate_max_bitrate set_GxConditionalPolicyInformation_conditional_apn_aggregate_max_bitrate]
    [
     (davp_conditional_apn_aggregate_max_bitrate, FILL_STRUCT parseGxConditionalApnAggregateMaxBitrate GxConditionalPolicyInformation_conditional_apn_aggregate_max_bitrate set_GxConditionalPolicyInformation_conditional_apn_aggregate_max_bitrate)].

Definition parseGxRoutingRuleReport : parser GxRoutingRuleReport := parse_group
    [
     (davp_routing_rule_identifier, COUNT GxRoutingRuleReport_routing_rule_identifier set_GxRoutingRuleReport_routing_rule_identifier (mark GxRoutingRuleReport_presence set_GxRoutingRuleReport_presence 0));
     (davp_pcc_rule_status, PARSE_VALUE v_i32 set_GxRoutingRuleReport_pcc_rule_status (mark GxRoutingRuleReport_presence set_GxRoutingRuleReport_presence 1));
     (davp_routing_rule_failure_code, PARSE_VALUE v_u32 set_GxRoutingRuleReport_routing_rule_failure_code (mark GxRoutingRuleReport_presence set_GxRoutingRuleReport_presence 2))]
    [
     FD_ALLOC_LIST (4 + Z.of_nat GxRoutingRuleIdentifierOctetString) zero_octets GxRoutingRuleReport_routing_rule_identifier set_GxRoutingRuleReport_routing_rule_identifier]
    [
     (davp_routing_rule_identifier, FILL_OCTETSTRING GX_ROUTING_RULE_IDENTIFIER_LEN GxRoutingRuleReport_routing_rule_identifier set_GxRoutingRuleReport_routing_rule_identifier)].

Definition parseGxPraRemove : parser GxPraRemove := parse_group
    [
     (davp_presence_reporting_area_identifier, COUNT GxPraRemove_presence_reporting_area_identifier set_GxPraRemove_presence_reporting_area_identifier (mark GxPraRemove_presence set_GxPraRemove_presence 0))]
    [
     FD_ALLOC_LIST (4 + Z.of_nat GxPresenceReportingAreaIdentifierOctetString) zero_octets GxPraRemove_presence_reporting_area_identifier set_GxPraRemove_presence_reporting_area_identifier]
    [
     (davp_presence_reporting_area_identifier, FILL_OCTETSTRING GX_PRESENCE_REPORTING_AREA_IDENTIFIER_LEN GxPraRemove_presence_reporting_area_identifier set_GxPraRemove_presence_reporting_area_identifier)].

Definition parseGxPraInstall : parser GxPraInstall := parse_group
    [
     (davp_presence_reporting_area_information, COUNT GxPraInstall_presence_reporting_area_information set_GxPraInstall_presence_reporting_area_information (mark GxPraInstall_presence set_GxPraInstall_presence 0))]
    [
     FD_ALLOC_LIST sizeof_GxPresenceReportingAreaInformation zero_GxPresenceReportingAreaInformation GxPraInstall_presence_reporting_area_information set_GxPraInstall_presence_reporting_area_information]
    [
     (davp_presence_reporting_area_information, FILL_STRUCT parseGxPresenceReportingAreaInformation GxPraInstall_presence_reporting_area_information set_GxPraInstall_presence_reporting_area_information)].

Definition parseGxChargingInformation : parser GxChargingInformation := parse_group
    [
     (davp_primary_event_charging_function_name, FD_PARSE_OCTETSTRING GX_PRIMARY_EVENT_CHARGING_FUNCTION_NAME_LEN GxChargingInformation_primary_event_charging_function_name set_GxChargingInformation_primary_event_charging_function_name (mark GxChargingInformation_presence set_GxChargingInformation_presence 0));
     (davp_secondary_event_charging_function_name, FD_PARSE_OCTETSTRING GX_SECONDARY_EVENT_CHARGING_FUNCTION_NAME_LEN GxChargingInformation_secondary_event_charging_function_name set_GxChargingInformation_secondary_event_charging_function_name (mark GxChargingInformation_presence set_GxChargingInformation_presence 1));
     (davp_primary_charging_collection_function_name, FD_PARSE_OCTETSTRING GX_PRIMARY_CHARGING_COLLECTION_FUNCTION_NAME_LEN GxChargingInformation_primary_charging_collection_function_name set_GxChargingInformation_primary_charging_collection_function_name (mark GxChargingInformation_presence set_GxChargingInformation_presence 2));
     (davp_secondary_charging_collection_function_name, FD_PARSE_OCTETSTRING GX_SECONDARY_CHARGING_COLLECTION_FUNCTION_NAME_LEN GxChargingInformation_secondary_charging_collection_function_name set_GxChargingInformation_secondary_charging_collection_function_name (mark GxChargingInformation_presence set_GxChargingInformation_presence 3))]
    []
    [].

Definition parseGxRedirectInformation : parser GxRedirectInformation := parse_group
    [
     (davp_redirect_support, PARSE_VALUE v_i32 set_GxRedirectInformation_redirect_support (mark GxRedirectInformation_presence set_GxRedirectInformation_presence 0));
     (davp_redirect_address_type, PARSE_VALUE v_i32 set_GxRedirectInformation_redirect_address_type (mark GxRedirectInformation_presence set_GxRedirectInformation_presence 1));
     (davp_redirect_server_address, FD_PARSE_OCTETSTRING GX_REDIRECT_SERVER_ADDRESS_LEN GxRedirectInformation_redirect_server_address set_GxRedirectInformation_redirect_server_address (mark GxRedirectInformation_presence set_GxRedirectInformation_presence 2))]
    []
    [].

Definition parseGxFlows : parser GxFlows := parse_group
    [
     (davp_media_component_number, PARSE_VALUE v_u32 set_GxFlows_media_component_number (mark GxFlows_presence set_GxFlows_presence 0));
     (davp_flow_number, COUNT GxFlows_flow_number set_GxFlows_flow_number (mark GxFlows_presence set_GxFlows_presence 1));
     (davp_content_version, COUNT GxFlows_content_version set_GxFlows_content_version (mark GxFlows_presence set_GxFlows_presence 2));
     (davp_final_unit_action, PARSE_VALUE v_i32 set_GxFlows_final_unit_action (mark GxFlows_presence set_GxFlows_presence 3));
     (davp_media_component_status, PARSE_VALUE v_u32 set_GxFlows_media_component_status (mark GxFlows_presence set_GxFlows_presence 4))]
    [
     FD_ALLOC_LIST (Z.of_nat (sizeof uint32_t)) 0 GxFlows_flow_number set_GxFlows_flow_number;
     FD_ALLOC_LIST (Z.of_nat (sizeof uint64_t)) 0 GxFlows_content_version set_GxFlows_content_version]
    [
     (davp_flow_number, FILL_VALUE v_u32 GxFlows_flow_number set_GxFlows_flow_number);
     (davp_content_version, FILL_VALUE v_u64 GxFlows_content_version set_GxFlows_content_version)].

Definition parseGxChargingRuleDefinition : parser GxChargingRuleDefinition := parse_group
    [
     (davp_charging_rule_name, FD_PARSE_OCTETSTRING GX_CHARGING_RULE_NAME_LEN GxChargingRuleDefinition_charging_rule_name set_GxChargingRuleDefinition_charging_rule_name (mark GxChargingRuleDefinition_presence set_GxChargingRuleDefinition_presence 0));
     (davp_service_identifier, PARSE_VALUE v_u32 set_GxChargingRuleDefinition_service_identifier (mark GxChargingRuleDefinition_presence set_GxChargingRuleDefinition_presence 1));
     (davp_rating_group, PARSE_VALUE v_u32 set_GxChargingRuleDefinition_rating_group (mark GxChargingRuleDefinition_presence set_GxChargingRuleDefinition_presence 2));
     (davp_flow_information, COUNT GxChargingRuleDefinition_flow_information set_GxChargingRuleDefinition_flow_information (mark GxChargingRuleDefinition_presence set_GxChargingRuleDefinition_presence 3));
     (davp_default_bearer_indication, PARSE_VALUE v_i32 set_GxChargingRuleDefinition_default_bearer_indication (mark GxChargingRuleDefinition_presence set_GxChargingRuleDefinition_presence 4));
     (davp_tdf_application_identifier, FD_PARSE_OCTETSTRING GX_TDF_APPLICATION_IDENTIFIER_LEN GxChargingRuleDefinition_tdf_application_identifier set_GxChargingRuleDefinition_tdf_application_identifier (mark GxChargingRuleDefinition_presence set_GxChargingRuleDefinition_presence 5));
     (davp_flow_status, PARSE_VALUE v_i32 set_GxChargingRuleDefinition_flow_status (mark GxChargingRuleDefinition_presence set_GxChargingRuleDefinition_presence 6));
     (davp_qos_information, FDCHECK_PARSE_DIRECT parseGxQosInformation GxChargingRuleDefinition_qos_information set_GxChargingRuleDefinition_qos_information (mark GxChargingRuleDefinition_presence set_GxChargingRuleDefinition_presence 7));
     (davp_ps_to_cs_session_continuity, PARSE_VALUE v_i32 set_GxChargingRuleDefinition_ps_to_cs_session_continuity (mark GxChargingRuleDefinition_presence set_GxChargingRuleDefinition_presence 8));
     (davp_reporting_level, PARSE_VALUE v_i32 set_GxChargingRuleDefinition_reporting_level (mark GxChargingRuleDefinition_presence set_GxChargingRuleDefinition_presence 9));
     (davp_online, PARSE_VALUE v_i32 set_GxChargingRuleDefinition_online (mark GxChargingRuleDefinition_presence set_GxChargingRuleDefinition_presence 10));
     (davp_offline, PARSE_VALUE v_i32 set_GxChargingRuleDefinition_offline (mark GxChargingRuleDefinition_presence set_GxChargingRuleDefinition_presence 11));
     (davp_max_plr_dl, PARSE_VALUE v_f32 set_GxChargingRuleDefinition_max_plr_dl (mark GxChargingRuleDefinition_presence set_GxChargingRuleDefinition_presence 12));
     (davp_max_plr_ul, PARSE_VALUE v_f32 set_GxChargingRuleDefinition_max_plr_ul (mark GxChargingRuleDefinition_presence set_GxChargingRuleDefinition_presence 13));
     (davp_metering_method, PARSE_VALUE v_i32 set_GxChargingRuleDefinition_metering_method (mark GxChargingRuleDefinition_presence set_GxChargingRuleDefinition_presence 14));
     (davp_precedence, PARSE_VALUE v_u32 set_GxChargingRuleDefinition_precedence (mark GxChargingRuleDefinition_presence set_GxChargingRuleDefinition_presence 15));
     (davp_af_charging_identifier, FD_PARSE_OCTETSTRING GX_AF_CHARGING_IDENTIFIER_LEN GxChargingRuleDefinition_af_charging_identifier set_GxChargingRuleDefinition_af_charging_identifier (mark GxChargingRuleDefinition_presence set_GxChargingRuleDefinition_presence 16));
     (davp_flows, COUNT GxChargingRuleDefinition_flows set_GxChargingRuleDefinition_flows (mark GxChargingRuleDefinition_presence set_GxChargingRuleDefinition_presence 17));
     (davp_monitoring_key, FD_PARSE_OCTETSTRING GX_MONITORING_KEY_LEN GxChargingRuleDefinition_monitoring_key set_GxChargingRuleDefinition_monitoring_key (mark GxChargingRuleDefinition_presence set_GxChargingRuleDefinition_presence 18));
     (davp_redirect_information, FDCHECK_PARSE_DIRECT parseGxRedirectInformation GxChargingRuleDefinition_redirect_information set_GxChargingRuleDefinition_redirect_information (mark GxChargingRuleDefinition_presence set_GxChargingRuleDefinition_presence 19));
     (davp_mute_notification, PARSE_VALUE v_i32 set_GxChargingRuleDefinition_mute_notification (mark GxChargingRuleDefinition_presence set_GxChargingRuleDefinition_presence 20));
     (davp_af_signalling_protocol, PARSE_VALUE v_i32 set_GxChargingRuleDefinition_af_signalling_protocol (mark GxChargingRuleDefinition_presence set_GxChargingRuleDefinition_presence 21));
     (davp_sponsor_identity, FD_PARSE_OCTETSTRING GX_SPONSOR_IDENTITY_LEN GxChargingRuleDefinition_sponsor_identity set_GxChargingRuleDefinition_sponsor_identity (mark GxChargingRuleDefinition_presence set_GxChargingRuleDefinition_presence 22));
     (davp_application_service_provider_identity, FD_PARSE_OCTETSTRING GX_APPLICATION_SERVICE_PROVIDER_IDENTITY_LEN GxChargingRuleDefinition_application_service_provider_identity set_GxChargingRuleDefinition_application_service_provider_identity (mark GxChargingRuleDefinition_presence set_GxChargingRuleDefinition_presence 23));
     (davp_required_access_info, COUNT GxChargingRuleDefinition_required_access_info set_GxChargingRuleDefinition_required_access_info (mark GxChargingRuleDefinition_presence set_GxChargingRuleDefinition_presence 24));
     (davp_sharing_key_dl, PARSE_VALUE v_u32 set_GxChargingRuleDefinition_sharing_key_dl (mark GxChargingRuleDefinition_presence set_GxChargingRuleDefinition_presence 25));
     (davp_sharing_key_ul, PARSE_VALUE v_u32 set_GxChargingRuleDefinition_sharing_key_ul (mark GxChargingRuleDefinition_presence set_GxChargingRuleDefinition_presence 26));
     (davp_traffic_steering_policy_identifier_dl, FD_PARSE_OCTETSTRING GX_TRAFFIC_STEERING_POLICY_IDENTIFIER_DL_LEN GxChargingRuleDefinition_traffic_steering_policy_identifier_dl set_GxChargingRuleDefinition_traffic_steering_policy_identifier_dl (mark GxChargingRuleDefinition_presence set_GxChargingRuleDefinition_presence 27));
     (davp_traffic_steering_policy_identifier_ul, FD_PARSE_OCTETSTRING GX_TRAFFIC_STEERING_POLICY_IDENTIFIER_UL_LEN GxChargingRuleDefinition_traffic_steering_policy_identifier_ul set_GxChargingRuleDefinition_traffic_steering_policy_identifier_ul (mark GxChargingRuleDefinition_presence set_GxChargingRuleDefinition_presence 28));
     (davp_content_version, PARSE_VALUE v_u64 set_GxChargingRuleDefinition_content_version (mark GxChargingRuleDefinition_presence set_GxChargingRuleDefinition_presence 29))]
    [
     FD_ALLOC_LIST sizeof_GxFlowInformation zero_GxFlowInformation GxChargingRuleDefinition_flow_information set_GxChargingRuleDefinition_flow_information;
     FD_ALLOC_LIST sizeof_GxFlows zero_GxFlows GxChargingRuleDefinition_flows set_GxChargingRuleDefinition_flows;
     FD_ALLOC_LIST (Z.of_nat (sizeof int32_t)) 0 GxChargingRuleDefinition_required_access_info set_GxChargingRuleDefinition_required_access_info]
    [
     (davp_flow_information, FILL_STRUCT parseGxFlowInformation GxChargingRuleDefinition_flow_information set_GxChargingRuleDefinition_flow_information);
     (davp_flows, FILL_STRUCT parseGxFlows GxChargingRuleDefinition_flows set_GxChargingRuleDefinition_flows);
     (davp_required_access_info, FILL_VALUE v_i32 GxChargingRuleDefinition_required_access_info set_GxChargingRuleDefinition_required_access_info)].

Definition parseGxChargingRuleInstall : parser GxChargingRuleInstall := parse_group
    [
     (davp_charging_rule_definition, COUNT GxChargingRuleInstall_charging_rule_definition set_GxChargingRuleInstall_charging_rule_definition (mark GxChargingRuleInstall_presence set_GxChargingRuleInstall_presence 0));
     (davp_charging_rule_name, COUNT GxChargingRuleInstall_charging_rule_name set_GxChargingRuleInstall_charging_rule_name (mark GxChargingRuleInstall_presence set_GxChargingRuleInstall_presence 1));
     (davp_charging_rule_base_name, COUNT GxChargingRuleInstall_charging_rule_base_name set_GxChargingRuleInstall_charging_rule_base_name (mark GxChargingRuleInstall_presence set_GxChargingRuleInstall_presence 2));
     (davp_bearer_identifier, FD_PARSE_OCTETSTRING GX_BEARER_IDENTIFIER_LEN GxChargingRuleInstall_bearer_identifier set_GxChargingRuleInstall_bearer_identifier (mark GxChargingRuleInstall_presence set_GxChargingRuleInstall_presence 3));
     (davp_monitoring_flags, PARSE_VALUE v_u32 set_GxChargingRuleInstall_monitoring_flags (mark GxChargingRuleInstall_presence set_GxChargingRuleInstall_presence 4));
     (davp_rule_activation_time, FD_PARSE_TIME set_GxChargingRuleInstall_rule_activation_time (mark GxChargingRuleInstall_presence set_GxChargingRuleInstall_presence 5));
     (davp_rule_deactivation_time, FD_PARSE_TIME set_GxChargingRuleInstall_rule_deactivation_time (mark GxChargingRuleInstall_presence set_GxChargingRuleInstall_presence 6));
     (davp_resource_allocation_notification, PARSE_VALUE v_i32 set_GxChargingRuleInstall_resource_allocation_notification (mark GxChargingRuleInstall_presence set_GxChargingRuleInstall_presence 7));
     (davp_charging_correlation_indicator, PARSE_VALUE v_i32 set_GxChargingRuleInstall_charging_correlation_indicator (mark GxChargingRuleInstall_presence set_GxChargingRuleInstall_presence 8));
     (davp_ip_can_type, PARSE_VALUE v_i32 set_GxChargingRuleInstall_ip_can_type (mark GxChargingRuleInstall_presence set_GxChargingRuleInstall_presence 9))]
    [
     FD_ALLOC_LIST sizeof_GxChargingRuleDefinition zero_GxChargingRuleDefinition GxChargingRuleInstall_charging_rule_definition set_GxChargingRuleInstall_charging_rule_definition;
     FD_ALLOC_LIST (4 + Z.of_nat GxChargingRuleNameOctetString) zero_octets GxChargingRuleInstall_charging_rule_name set_GxChargingRuleInstall_charging_rule_name;
     FD_ALLOC_LIST (4 + Z.of_nat GxChargingRuleBaseNameOctetString) zero_octets GxChargingRuleInstall_charging_rule_base_name set_GxChargingRuleInstall_charging_rule_base_name]
    [
     (davp_charging_rule_definition, FILL_STRUCT parseGxChargingRuleDefinition GxChargingRuleInstall_charging_rule_definition set_GxChargingRuleInstall_charging_rule_definition);
     (davp_charging_rule_name, FILL_OCTETSTRING GX_CHARGING_RULE_NAME_LEN GxChargingRuleInstall_charging_rule_name set_GxChargingRuleInstall_charging_rule_name);
     (davp_charging_rule_base_name, FILL_OCTETSTRING GX_CHARGING_RULE_BASE_NAME_LEN GxChargingRuleInstall_charging_rule_base_name set_GxChargingRuleInstall_charging_rule_base_name)].

Definition parseGxChargingRuleRemove : parser GxChargingRuleRemove := parse_group
    [
     (davp_charging_rule_name, COUNT GxChargingRuleRemove_charging_rule_name set_GxChargingRuleRemove_charging_rule_name (mark GxChargingRuleRemove_presence set_GxChargingRuleRemove_presence 0));
     (davp_charging_rule_base_name, COUNT GxChargingRuleRemove_charging_rule_base_name set_GxChargingRuleRemove_charging_rule_base_name (mark GxChargingRuleRemove_presence set_GxChargingRuleRemove_presence 1));
     (davp_required_access_info, COUNT GxChargingRuleRemove_required_access_info set_GxChargingRuleRemove_required_access_info (mark GxChargingRuleRemove_presence set_GxChargingRuleRemove_presence 2));
     (davp_resource_release_notification, PARSE_VALUE v_i32 set_GxChargingRuleRemove_resource_release_notification (mark GxChargingRuleRemove_presence set_GxChargingRuleRemove_presence 3))]
    [
     FD_ALLOC_LIST (4 + Z.of_nat GxChargingRuleNameOctetString) zero_octets GxChargingRuleRemove_charging_rule_name set_GxChargingRuleRemove_charging_rule_name;
     FD_ALLOC_LIST (4 + Z.of_nat GxChargingRuleBaseNameOctetString) zero_octets GxChargingRuleRemove_charging_rule_base_name set_GxChargingRuleRemove_charging_rule_base_name;
     FD_ALLOC_LIST (Z.of_nat (sizeof int32_t)) 0 GxChargingRuleRemove_required_access_info set_GxChargingRuleRemove_required_access_info]
    [
     (davp_charging_rule_name, FILL_OCTETSTRING GX_CHARGING_RULE_NAME_LEN GxChargingRuleRemove_charging_rule_name set_GxChargingRuleRemove_charging_rule_name);
     (davp_charging_rule_base_name, FILL_OCTETSTRING GX_CHARGING_RULE_BASE_NAME_LEN GxChargingRuleRemove_charging_rule_base_name set_GxChargingRuleRemove_charging_rule_base_name);
     (davp_required_access_info, FILL_VALUE v_i32 GxChargingRuleRemove_required_access_info set_GxChargingRuleRemove_required_access_info)].

Definition parseGxOcOlr : parser GxOcOlr := parse_group
    [
     (davp_oc_sequence_number, PARSE_VALUE v_u64 set_GxOcOlr_oc_sequence_number (mark GxOcOlr_presence set_GxOcOlr_presence 0));
     (davp_oc_report_type, PARSE_VALUE v_i32 set_GxOcOlr_oc_report_type (mark GxOcOlr_presence set_GxOcOlr_presence 1));
     (davp_oc_reduction_percentage, PARSE_VALUE v_u32 set_GxOcOlr_oc_reduction_percentage (mark GxOcOlr_presence set_GxOcOlr_presence 2));
     (davp_oc_validity_duration, PARSE_VALUE v_u32 set_GxOcOlr_oc_validity_duration (mark GxOcOlr_presence set_GxOcOlr_presence 3))]
    []
    [].

Definition parseGxExperimentalResult : parser GxExperimentalResult := parse_group
    [
     (davp_vendor_id, PARSE_VALUE v_u32 set_GxExperimentalResult_vendor_id (mark GxExperimentalResult_presence set_GxExperimentalResult_presence 0));
     (davp_experimental_result_code, PARSE_VALUE v_u32 set_GxExperimentalResult_experimental_result_code (mark GxExperimentalResult_presence set_GxExperimentalResult_presence 1))]
    []
    [].

Definition gx_cca_parse : avp -> GxCCA -> option (Z * GxCCA) := λ msg _, (* memset(data, 0, sizeof( *data)) *)
  parse_group
    [
     (davp_session_id, FD_PARSE_OCTETSTRING GX_SESSION_ID_LEN GxCCA_session_id set_GxCCA_session_id (mark GxCCA_presence set_GxCCA_presence 0));
     (davp_drmp, PARSE_VALUE v_i32 set_GxCCA_drmp (mark GxCCA_presence set_GxCCA_presence 1));
     (davp_auth_application_id, PARSE_VALUE v_u32 set_GxCCA_auth_application_id (mark GxCCA_presence set_GxCCA_presence 2));
     (davp_origin_host, FD_PARSE_OCTETSTRING GX_ORIGIN_HOST_LEN GxCCA_origin_host set_GxCCA_origin_host (mark GxCCA_presence set_GxCCA_presence 3));
     (davp_origin_realm, FD_PARSE_OCTETSTRING GX_ORIGIN_REALM_LEN GxCCA_origin_realm set_GxCCA_origin_realm (mark GxCCA_presence set_GxCCA_presence 4));
     (davp_result_code, PARSE_VALUE v_u32 set_GxCCA_result_code (mark GxCCA_presence set_GxCCA_presence 5));
     (davp_experimental_result, FDCHECK_PARSE_DIRECT parseGxExperimentalResult GxCCA_experimental_result set_GxCCA_experimental_result (mark GxCCA_presence set_GxCCA_presence 6));
     (davp_cc_request_type, PARSE_VALUE v_i32 set_GxCCA_cc_request_type (mark GxCCA_presence set_GxCCA_presence 7));
     (davp_cc_request_number, PARSE_VALUE v_u32 set_GxCCA_cc_request_number (mark GxCCA_presence set_GxCCA_presence 8));
     (davp_oc_supported_features, FDCHECK_PARSE_DIRECT parseGxOcSupportedFeatures GxCCA_oc_supported_features set_GxCCA_oc_supported_features (mark GxCCA_presence set_GxCCA_presence 9));
     (davp_oc_olr, FDCHECK_PARSE_DIRECT parseGxOcOlr GxCCA_oc_olr set_GxCCA_oc_olr (mark GxCCA_presence set_GxCCA_presence 10));
     (davp_supported_features, COUNT GxCCA_supported_features set_GxCCA_supported_features (mark GxCCA_presence set_GxCCA_presence 11));
     (davp_bearer_control_mode, PARSE_VALUE v_i32 set_GxCCA_bearer_control_mode (mark GxCCA_presence set_GxCCA_presence 12));
     (davp_event_trigger, COUNT GxCCA_event_trigger set_GxCCA_event_trigger (mark GxCCA_presence set_GxCCA_presence 13));
     (davp_event_report_indication, FDCHECK_PARSE_DIRECT parseGxEventReportIndication GxCCA_event_report_indication set_GxCCA_event_report_indication (mark GxCCA_presence set_GxCCA_presence 14));
     (davp_origin_state_id, PARSE_VALUE v_u32 set_GxCCA_origin_state_id (mark GxCCA_presence set_GxCCA_presence 15));
     (davp_redirect_host, COUNT GxCCA_redirect_host set_GxCCA_redirect_host (mark GxCCA_presence set_GxCCA_presence 16));
     (davp_redirect_host_usage, PARSE_VALUE v_i32 set_GxCCA_redirect_host_usage (mark GxCCA_presence set_GxCCA_presence 17));
     (davp_redirect_max_cache_time, PARSE_VALUE v_u32 set_GxCCA_redirect_max_cache_time (mark GxCCA_presence set_GxCCA_presence 18));
     (davp_charging_rule_remove, COUNT GxCCA_charging_rule_remove set_GxCCA_charging_rule_remove (mark GxCCA_presence set_GxCCA_presence 19));
     (davp_charging_rule_install, COUNT GxCCA_charging_rule_install set_GxCCA_charging_rule_install (mark GxCCA_presence set_GxCCA_presence 20));
     (davp_charging_information, FDCHECK_PARSE_DIRECT parseGxChargingInformation GxCCA_charging_information set_GxCCA_charging_information (mark GxCCA_presence set_GxCCA_presence 21));
     (davp_online, PARSE_VALUE v_i32 set_GxCCA_online (mark GxCCA_presence set_GxCCA_presence 22));
     (davp_offline, PARSE_VALUE v_i32 set_GxCCA_offline (mark GxCCA_presence set_GxCCA_presence 23));
     (davp_qos_information, COUNT GxCCA_qos_information set_GxCCA_qos_information (mark GxCCA_presence set_GxCCA_presence 24));
     (davp_revalidation_time, FD_PARSE_TIME set_GxCCA_revalidation_time (mark GxCCA_presence set_GxCCA_presence 25));
     (davp_default_eps_bearer_qos, FDCHECK_PARSE_DIRECT parseGxDefaultEpsBearerQos GxCCA_default_eps_bearer_qos set_GxCCA_default_eps_bearer_qos (mark GxCCA_presence set_GxCCA_presence 26));
     (davp_default_qos_information, FDCHECK_PARSE_DIRECT parseGxDefaultQosInformation GxCCA_default_qos_information set_GxCCA_default_qos_information (mark GxCCA_presence set_GxCCA_presence 27));
     (davp_bearer_usage, PARSE_VALUE v_i32 set_GxCCA_bearer_usage (mark GxCCA_presence set_GxCCA_presence 28));
     (davp_usage_monitoring_information, COUNT GxCCA_usage_monitoring_information set_GxCCA_usage_monitoring_information (mark GxCCA_presence set_GxCCA_presence 29));
     (davp_csg_information_reporting, COUNT GxCCA_csg_information_reporting set_GxCCA_csg_information_reporting (mark GxCCA_presence set_GxCCA_presence 30));
     (davp_user_csg_information, FDCHECK_PARSE_DIRECT parseGxUserCsgInformation GxCCA_user_csg_information set_GxCCA_user_csg_information (mark GxCCA_presence set_GxCCA_presence 31));
     (davp_pra_install, FDCHECK_PARSE_DIRECT parseGxPraInstall GxCCA_pra_install set_GxCCA_pra_install (mark GxCCA_presence set_GxCCA_presence 32));
     (davp_pra_remove, FDCHECK_PARSE_DIRECT parseGxPraRemove GxCCA_pra_remove set_GxCCA_pra_remove (mark GxCCA_presence set_GxCCA_presence 33));
     (davp_presence_reporting_area_information, FDCHECK_PARSE_DIRECT parseGxPresenceReportingAreaInformation GxCCA_presence_reporting_area_information set_GxCCA_presence_reporting_area_information (mark GxCCA_presence set_GxCCA_presence 34));
     (davp_session_release_cause, PARSE_VALUE v_i32 set_GxCCA_session_release_cause (mark GxCCA_presence set_GxCCA_presence 35));
     (davp_nbifom_support, PARSE_VALUE v_i32 set_GxCCA_nbifom_support (mark GxCCA_presence set_GxCCA_presence 36));
     (davp_nbifom_mode, PARSE_VALUE v_i32 set_GxCCA_nbifom_mode (mark GxCCA_presence set_GxCCA_presence 37));
     (davp_default_access, PARSE_VALUE v_i32 set_GxCCA_default_access (mark GxCCA_presence set_GxCCA_presence 38));
     (davp_ran_rule_support, PARSE_VALUE v_u32 set_GxCCA_ran_rule_support (mark GxCCA_presence set_GxCCA_presence 39));
     (davp_routing_rule_report, COUNT GxCCA_routing_rule_report set_GxCCA_routing_rule_report (mark GxCCA_presence set_GxCCA_presence 40));
     (davp_conditional_policy_information, COUNT GxCCA_conditional_policy_information set_GxCCA_conditional_policy_information (mark GxCCA_presence set_GxCCA_presence 41));
     (davp_removal_of_access, PARSE_VALUE v_i32 set_GxCCA_removal_of_access (mark GxCCA_presence set_GxCCA_presence 42));
     (davp_ip_can_type, PARSE_VALUE v_i32 set_GxCCA_ip_can_type (mark GxCCA_presence set_GxCCA_presence 43));
     (davp_error_message, FD_PARSE_OCTETSTRING GX_ERROR_MESSAGE_LEN GxCCA_error_message set_GxCCA_error_message (mark GxCCA_presence set_GxCCA_presence 44));
     (davp_error_reporting_host, FD_PARSE_OCTETSTRING GX_ERROR_REPORTING_HOST_LEN GxCCA_error_reporting_host set_GxCCA_error_reporting_host (mark GxCCA_presence set_GxCCA_presence 45));
     (davp_failed_avp, FDCHECK_PARSE_DIRECT parseGxFailedAvp GxCCA_failed_avp set_GxCCA_failed_avp (mark GxCCA_presence set_GxCCA_presence 46));
     (davp_proxy_info, COUNT GxCCA_proxy_info set_GxCCA_proxy_info (mark GxCCA_presence set_GxCCA_presence 47));
     (davp_route_record, COUNT GxCCA_route_record set_GxCCA_route_record (mark GxCCA_presence set_GxCCA_presence 48));
     (davp_load, COUNT GxCCA_load set_GxCCA_load (mark GxCCA_presence set_GxCCA_presence 49))]
    [
     FD_ALLOC_LIST sizeof_GxSupportedFeatures zero_GxSupportedFeatures GxCCA_supported_features set_GxCCA_supported_features;
     FD_ALLOC_LIST (Z.of_nat (sizeof int32_t)) 0 GxCCA_event_trigger set_GxCCA_event_trigger;
     FD_ALLOC_LIST (4 + Z.of_nat GxRedirectHostOctetString) zero_octets GxCCA_redirect_host set_GxCCA_redirect_host;
     FD_ALLOC_LIST sizeof_GxChargingRuleRemove zero_GxChargingRuleRemove GxCCA_charging_rule_remove set_GxCCA_charging_rule_remove;
     FD_ALLOC_LIST sizeof_GxChargingRuleInstall zero_GxChargingRuleInstall GxCCA_charging_rule_install set_GxCCA_charging_rule_install;
     FD_ALLOC_LIST sizeof_GxQosInformation zero_GxQosInformation GxCCA_qos_information set_GxCCA_qos_information;
     FD_ALLOC_LIST sizeof_GxUsageMonitoringInformation zero_GxUsageMonitoringInformation GxCCA_usage_monitoring_information set_GxCCA_usage_monitoring_information;
     FD_ALLOC_LIST (Z.of_nat (sizeof int32_t)) 0 GxCCA_csg_information_reporting set_GxCCA_csg_information_reporting;
     FD_ALLOC_LIST sizeof_GxRoutingRuleReport zero_GxRoutingRuleReport GxCCA_routing_rule_report set_GxCCA_routing_rule_report;
     FD_ALLOC_LIST sizeof_GxConditionalPolicyInformation zero_GxConditionalPolicyInformation GxCCA_conditional_policy_information set_GxCCA_conditional_policy_information;
     FD_ALLOC_LIST sizeof_GxProxyInfo zero_GxProxyInfo GxCCA_proxy_info set_GxCCA_proxy_info;
     FD_ALLOC_LIST (4 + Z.of_nat GxRouteRecordOctetString) zero_octets GxCCA_route_record set_GxCCA_route_record;
     FD_ALLOC_LIST sizeof_GxLoad zero_GxLoad GxCCA_load set_GxCCA_load]
    [
     (davp_supported_features, FILL_STRUCT parseGxSupportedFeatures GxCCA_supported_features set_GxCCA_supported_features);
     (davp_event_trigger, FILL_VALUE v_i32 GxCCA_event_trigger set_GxCCA_event_trigger);
     (davp_redirect_host, FILL_OCTETSTRING GX_REDIRECT_HOST_LEN GxCCA_redirect_host set_GxCCA_redirect_host);
     (davp_charging_rule_remove, FILL_STRUCT parseGxChargingRuleRemove GxCCA_charging_rule_remove set_GxCCA_charging_rule_remove);
     (davp_charging_rule_install, FILL_STRUCT parseGxChargingRuleInstall GxCCA_charging_rule_install set_GxCCA_charging_rule_install);
     (davp_qos_information, FILL_STRUCT parseGxQosInformation GxCCA_qos_information set_GxCCA_qos_information);
     (davp_usage_monitoring_information, FILL_STRUCT parseGxUsageMonitoringInformation GxCCA_usage_monitoring_information set_GxCCA_usage_monitoring_information);
     (davp_csg_information_reporting, FILL_VALUE v_i32 GxCCA_csg_information_reporting set_GxCCA_csg_information_reporting);
     (davp_routing_rule_report, FILL_STRUCT parseGxRoutingRuleReport GxCCA_routing_rule_report set_GxCCA_routing_rule_report);
     (davp_conditional_policy_information, FILL_STRUCT parseGxConditionalPolicyInformation GxCCA_conditional_policy_information set_GxCCA_conditional_policy_information);
     (davp_proxy_info, FILL_STRUCT parseGxProxyInfo GxCCA_proxy_info set_GxCCA_proxy_info);
     (davp_route_record, FILL_OCTETSTRING GX_ROUTE_RECORD_LEN GxCCA_route_record set_GxCCA_route_record);
     (davp_load, FILL_STRUCT parseGxLoad GxCCA_load set_GxCCA_load)] msg zero_GxCCA.

Definition gx_raa_parse : avp -> GxRAA -> option (Z * GxRAA) := λ msg _, (* memset(data, 0, sizeof( *data)) *)
  parse_group
    [
     (davp_session_id, FD_PARSE_OCTETSTRING GX_SESSION_ID_LEN GxRAA_session_id set_GxRAA_session_id (mark GxRAA_presence set_GxRAA_presence 0));
     (davp_drmp, PARSE_VALUE v_i32 set_GxRAA_drmp (mark GxRAA_presence set_GxRAA_presence 1));
     (davp_origin_host, FD_PARSE_OCTETSTRING GX_ORIGIN_HOST_LEN GxRAA_origin_host set_GxRAA_origin_host (mark GxRAA_presence set_GxRAA_presence 2));
     (davp_origin_realm, FD_PARSE_OCTETSTRING GX_ORIGIN_REALM_LEN GxRAA_origin_realm set_GxRAA_origin_realm (mark GxRAA_presence set_GxRAA_presence 3));
     (davp_result_code, PARSE_VALUE v_u32 set_GxRAA_result_code (mark GxRAA_presence set_GxRAA_presence 4));
     (davp_experimental_result, FDCHECK_PARSE_DIRECT parseGxExperimentalResult GxRAA_experimental_result set_GxRAA_experimental_result (mark GxRAA_presence set_GxRAA_presence 5));
     (davp_origin_state_id, PARSE_VALUE v_u32 set_GxRAA_origin_state_id (mark GxRAA_presence set_GxRAA_presence 6));
     (davp_oc_supported_features, FDCHECK_PARSE_DIRECT parseGxOcSupportedFeatures GxRAA_oc_supported_features set_GxRAA_oc_supported_features (mark GxRAA_presence set_GxRAA_presence 7));
     (davp_oc_olr, FDCHECK_PARSE_DIRECT parseGxOcOlr GxRAA_oc_olr set_GxRAA_oc_olr (mark GxRAA_presence set_GxRAA_presence 8));
     (davp_ip_can_type, PARSE_VALUE v_i32 set_GxRAA_ip_can_type (mark GxRAA_presence set_GxRAA_presence 9));
     (davp_rat_type, PARSE_VALUE v_i32 set_GxRAA_rat_type (mark GxRAA_presence set_GxRAA_presence 10));
     (davp_an_trusted, PARSE_VALUE v_i32 set_GxRAA_an_trusted (mark GxRAA_presence set_GxRAA_presence 11));
     (davp_an_gw_address, COUNT GxRAA_an_gw_address set_GxRAA_an_gw_address (mark GxRAA_presence set_GxRAA_presence 12));
     (davp_3gpp_sgsn_mcc_mnc, FD_PARSE_OCTETSTRING GX_3GPP_SGSN_MCC_MNC_LEN GxRAA_tgpp_sgsn_mcc_mnc set_GxRAA_tgpp_sgsn_mcc_mnc (mark GxRAA_presence set_GxRAA_presence 13));
     (davp_3gpp_sgsn_address, FD_PARSE_OCTETSTRING GX_3GPP_SGSN_ADDRESS_LEN GxRAA_tgpp_sgsn_address set_GxRAA_tgpp_sgsn_address (mark GxRAA_presence set_GxRAA_presence 14));
     (davp_3gpp_sgsn_ipv6_address, FD_PARSE_OCTETSTRING GX_3GPP_SGSN_IPV6_ADDRESS_LEN GxRAA_tgpp_sgsn_ipv6_address set_GxRAA_tgpp_sgsn_ipv6_address (mark GxRAA_presence set_GxRAA_presence 15));
     (davp_rai, FD_PARSE_OCTETSTRING GX_RAI_LEN GxRAA_rai set_GxRAA_rai (mark GxRAA_presence set_GxRAA_presence 16));
     (davp_3gpp_user_location_info, FD_PARSE_OCTETSTRING GX_3GPP_USER_LOCATION_INFO_LEN GxRAA_tgpp_user_location_info set_GxRAA_tgpp_user_location_info (mark GxRAA_presence set_GxRAA_presence 17));
     (davp_user_location_info_time, FD_PARSE_TIME set_GxRAA_user_location_info_time (mark GxRAA_presence set_GxRAA_presence 18));
     (davp_netloc_access_support, PARSE_VALUE v_u32 set_GxRAA_netloc_access_support (mark GxRAA_presence set_GxRAA_presence 19));
     (davp_user_csg_information, FDCHECK_PARSE_DIRECT parseGxUserCsgInformation GxRAA_user_csg_information set_GxRAA_user_csg_information (mark GxRAA_presence set_GxRAA_presence 20));
     (davp_3gpp_ms_timezone, FD_PARSE_OCTETSTRING GX_3GPP_MS_TIMEZONE_LEN GxRAA_tgpp_ms_timezone set_GxRAA_tgpp_ms_timezone (mark GxRAA_presence set_GxRAA_presence 21));
     (davp_default_qos_information, FDCHECK_PARSE_DIRECT parseGxDefaultQosInformation GxRAA_default_qos_information set_GxRAA_default_qos_information (mark GxRAA_presence set_GxRAA_presence 22));
     (davp_charging_rule_report, COUNT GxRAA_charging_rule_report set_GxRAA_charging_rule_report (mark GxRAA_presence set_GxRAA_presence 23));
     (davp_error_message, FD_PARSE_OCTETSTRING GX_ERROR_MESSAGE_LEN GxRAA_error_message set_GxRAA_error_message (mark GxRAA_presence set_GxRAA_presence 24));
     (davp_error_reporting_host, FD_PARSE_OCTETSTRING GX_ERROR_REPORTING_HOST_LEN GxRAA_error_reporting_host set_GxRAA_error_reporting_host (mark GxRAA_presence set_GxRAA_presence 25));
     (davp_failed_avp, FDCHECK_PARSE_DIRECT parseGxFailedAvp GxRAA_failed_avp set_GxRAA_failed_avp (mark GxRAA_presence set_GxRAA_presence 26));
     (davp_proxy_info, COUNT GxRAA_proxy_info set_GxRAA_proxy_info (mark GxRAA_presence set_GxRAA_presence 27))]
    [
     FD_ALLOC_LIST (Z.of_nat (sizeof FdAddress)) zero_address GxRAA_an_gw_address set_GxRAA_an_gw_address;
     FD_ALLOC_LIST sizeof_GxChargingRuleReport zero_GxChargingRuleReport GxRAA_charging_rule_report set_GxRAA_charging_rule_report;
     FD_ALLOC_LIST sizeof_GxProxyInfo zero_GxProxyInfo GxRAA_proxy_info set_GxRAA_proxy_info]
    [
     (davp_an_gw_address, FILL_ADDRESS GxRAA_an_gw_address set_GxRAA_an_gw_address);
     (davp_charging_rule_report, FILL_STRUCT parseGxChargingRuleReport GxRAA_charging_rule_report set_GxRAA_charging_rule_report);
     (davp_proxy_info, FILL_STRUCT parseGxProxyInfo GxRAA_proxy_info set_GxRAA_proxy_info)] msg zero_GxRAA.

Definition gx_rar_parse : avp -> GxRAR -> option (Z * GxRAR) := λ msg _, (* memset(data, 0, sizeof( *data)) *)
  parse_group
    [
     (davp_session_id, FD_PARSE_OCTETSTRING GX_SESSION_ID_LEN GxRAR_session_id set_GxRAR_session_id (mark GxRAR_presence set_GxRAR_presence 0));
     (davp_drmp, PARSE_VALUE v_i32 set_GxRAR_drmp (mark GxRAR_presence set_GxRAR_presence 1));
     (davp_auth_application_id, PARSE_VALUE v_u32 set_GxRAR_auth_application_id (mark GxRAR_presence set_GxRAR_presence 2));
     (davp_origin_host, FD_PARSE_OCTETSTRING GX_ORIGIN_HOST_LEN GxRAR_origin_host set_GxRAR_origin_host (mark GxRAR_presence set_GxRAR_presence 3));
     (davp_origin_realm, FD_PARSE_OCTETSTRING GX_ORIGIN_REALM_LEN GxRAR_origin_realm set_GxRAR_origin_realm (mark GxRAR_presence set_GxRAR_presence 4));
     (davp_destination_realm, FD_PARSE_OCTETSTRING GX_DESTINATION_REALM_LEN GxRAR_destination_realm set_GxRAR_destination_realm (mark GxRAR_presence set_GxRAR_presence 5));
     (davp_destination_host, FD_PARSE_OCTETSTRING GX_DESTINATION_HOST_LEN GxRAR_destination_host set_GxRAR_destination_host (mark GxRAR_presence set_GxRAR_presence 6));
     (davp_re_auth_request_type, PARSE_VALUE v_i32 set_GxRAR_re_auth_request_type (mark GxRAR_presence set_GxRAR_presence 7));
     (davp_session_release_cause, PARSE_VALUE v_i32 set_GxRAR_session_release_cause (mark GxRAR_presence set_GxRAR_presence 8));
     (davp_origin_state_id, PARSE_VALUE v_u32 set_GxRAR_origin_state_id (mark GxRAR_presence set_GxRAR_presence 9));
     (davp_oc_supported_features, FDCHECK_PARSE_DIRECT parseGxOcSupportedFeatures GxRAR_oc_supported_features set_GxRAR_oc_supported_features (mark GxRAR_presence set_GxRAR_presence 10));
     (davp_event_trigger, COUNT GxRAR_event_trigger set_GxRAR_event_trigger (mark GxRAR_presence set_GxRAR_presence 11));
     (davp_event_report_indication, FDCHECK_PARSE_DIRECT parseGxEventReportIndication GxRAR_event_report_indication set_GxRAR_event_report_indication (mark GxRAR_presence set_GxRAR_presence 12));
     (davp_charging_rule_remove, COUNT GxRAR_charging_rule_remove set_GxRAR_charging_rule_remove (mark GxRAR_presence set_GxRAR_presence 13));
     (davp_charging_rule_install, COUNT GxRAR_charging_rule_install set_GxRAR_charging_rule_install (mark GxRAR_presence set_GxRAR_presence 14));
     (davp_default_eps_bearer_qos, FDCHECK_PARSE_DIRECT parseGxDefaultEpsBearerQos GxRAR_default_eps_bearer_qos set_GxRAR_default_eps_bearer_qos (mark GxRAR_presence set_GxRAR_presence 15));
     (davp_qos_information, COUNT GxRAR_qos_information set_GxRAR_qos_information (mark GxRAR_presence set_GxRAR_presence 16));
     (davp_default_qos_information, FDCHECK_PARSE_DIRECT parseGxDefaultQosInformation GxRAR_default_qos_information set_GxRAR_default_qos_information (mark GxRAR_presence set_GxRAR_presence 17));
     (davp_revalidation_time, FD_PARSE_TIME set_GxRAR_revalidation_time (mark GxRAR_presence set_GxRAR_presence 18));
     (davp_usage_monitoring_information, COUNT GxRAR_usage_monitoring_information set_GxRAR_usage_monitoring_information (mark GxRAR_presence set_GxRAR_presence 19));
     (davp_pcscf_restoration_indication, PARSE_VALUE v_u32 set_GxRAR_pcscf_restoration_indication (mark GxRAR_presence set_GxRAR_presence 20));
     (davp_conditional_policy_information, COUNT GxRAR_conditional_policy_information set_GxRAR_conditional_policy_information (mark GxRAR_presence set_GxRAR_presence 21));
     (davp_removal_of_access, PARSE_VALUE v_i32 set_GxRAR_removal_of_access (mark GxRAR_presence set_GxRAR_presence 22));
     (davp_ip_can_type, PARSE_VALUE v_i32 set_GxRAR_ip_can_type (mark GxRAR_presence set_GxRAR_presence 23));
     (davp_pra_install, FDCHECK_PARSE_DIRECT parseGxPraInstall GxRAR_pra_install set_GxRAR_pra_install (mark GxRAR_presence set_GxRAR_presence 24));
     (davp_pra_remove, FDCHECK_PARSE_DIRECT parseGxPraRemove GxRAR_pra_remove set_GxRAR_pra_remove (mark GxRAR_presence set_GxRAR_presence 25));
     (davp_csg_information_reporting, COUNT GxRAR_csg_information_reporting set_GxRAR_csg_information_reporting (mark GxRAR_presence set_GxRAR_presence 26));
     (davp_proxy_info, COUNT GxRAR_proxy_info set_GxRAR_proxy_info (mark GxRAR_presence set_GxRAR_presence 27));
     (davp_route_record, COUNT GxRAR_route_record set_GxRAR_route_record (mark GxRAR_presence set_GxRAR_presence 28))]
    [
     FD_ALLOC_LIST (Z.of_nat (sizeof int32_t)) 0 GxRAR_event_trigger set_GxRAR_event_trigger;
     FD_ALLOC_LIST sizeof_GxChargingRuleRemove zero_GxChargingRuleRemove GxRAR_charging_rule_remove set_GxRAR_charging_rule_remove;
     FD_ALLOC_LIST sizeof_GxChargingRuleInstall zero_GxChargingRuleInstall GxRAR_charging_rule_install set_GxRAR_charging_rule_install;
     FD_ALLOC_LIST sizeof_GxQosInformation zero_GxQosInformation GxRAR_qos_information set_GxRAR_qos_information;
     FD_ALLOC_LIST sizeof_GxUsageMonitoringInformation zero_GxUsageMonitoringInformation GxRAR_usage_monitoring_information set_GxRAR_usage_monitoring_information;
     FD_ALLOC_LIST sizeof_GxConditionalPolicyInformation zero_GxConditionalPolicyInformation GxRAR_conditional_policy_information set_GxRAR_conditional_policy_information;
     FD_ALLOC_LIST (Z.of_nat (sizeof int32_t)) 0 GxRAR_csg_information_reporting set_GxRAR_csg_information_reporting;
     FD_ALLOC_LIST sizeof_GxProxyInfo zero_GxProxyInfo GxRAR_proxy_info set_GxRAR_proxy_info;
     FD_ALLOC_LIST (4 + Z.of_nat GxRouteRecordOctetString) zero_octets GxRAR_route_record set_GxRAR_route_record]
    [
     (davp_event_trigger, FILL_VALUE v_i32 GxRAR_event_trigger set_GxRAR_event_trigger);
     (davp_charging_rule_remove, FILL_STRUCT parseGxChargingRuleRemove GxRAR_charging_rule_remove set_GxRAR_charging_rule_remove);
     (davp_charging_rule_install, FILL_STRUCT parseGxChargingRuleInstall GxRAR_charging_rule_install set_GxRAR_charging_rule_install);
     (davp_qos_information, FILL_STRUCT parseGxQosInformation GxRAR_qos_information set_GxRAR_qos_information);
     (davp_usage_monitoring_information, FILL_STRUCT parseGxUsageMonitoringInformation GxRAR_usage_monitoring_information set_GxRAR_usage_monitoring_information);
     (davp_conditional_policy_information, FILL_STRUCT parseGxConditionalPolicyInformation GxRAR_conditional_policy_information set_GxRAR_conditional_policy_information);
     (davp_csg_information_reporting, FILL_VALUE v_i32 GxRAR_csg_information_reporting set_GxRAR_csg_information_reporting);
     (davp_proxy_info, FILL_STRUCT parseGxProxyInfo GxRAR_proxy_info set_GxRAR_proxy_info);
     (davp_route_record, FILL_OCTETSTRING GX_ROUTE_RECORD_LEN GxRAR_route_record set_GxRAR_route_record)] msg zero_GxRAR.

End GxParsers.
