(* ===== verification/GxParsersSpec.v ===== *)
(** * What the Gx application reads from a Diameter message

    For every structure: [read_*], the reference: each member is a function of the children
    with the code of its AVP; [valid_*], the AVPs that can be parsed; and that the parsing
    function computes the reference, which is a good value for packing ([ParseOk]). *)

From S2P Require Import Prelude GxCodec GxCodecSpec GxStructs GxPack GxPackSpec GxDict GxParser GxParserSpec GxParsers.

Section GxParsersSpec.
Context `{DictOk} `{MallocSucceeds}.

Definition build_GxProxyInfo (o : occurrences) (m : davp -> option (list avp)) : GxProxyInfo :=
  mk_GxProxyInfo
    (presence_bits [some_met (o davp_proxy_host); some_met (o davp_proxy_state)])
    (octets_in GX_PROXY_HOST_LEN (o davp_proxy_host))
    (octets_in GX_PROXY_STATE_LEN (o davp_proxy_state)).

Definition read_GxProxyInfo (a : avp) : GxProxyInfo := build_GxProxyInfo (occ (kids a)) (allocated (occ (kids a))).

Definition valid_GxProxyInfo (a : avp) : Prop :=
  browse a = Browsed (kids a) true ∧
  any octets_ok (sel davp_proxy_host (kids a)) ∧
  any octets_ok (sel davp_proxy_state (kids a)).

Definition kinds_GxProxyInfo : list kind := [
    K_octets davp_proxy_host;
    K_octets davp_proxy_state].
Definition fills_GxProxyInfo (o : occurrences) : list kind := [].

#[export] Instance GxProxyInfo_parse : ParseOk parseGxProxyInfo zero_GxProxyInfo read_GxProxyInfo valid_GxProxyInfo good_GxProxyInfo.
Proof. parse_ok build_GxProxyInfo kinds_GxProxyInfo fills_GxProxyInfo. Qed.

Definition build_GxPresenceReportingAreaInformation (o : occurrences) (m : davp -> option (list avp)) : GxPresenceReportingAreaInformation :=
  mk_GxPresenceReportingAreaInformation
    (presence_bits [some_met (o davp_presence_reporting_area_identifier); some_met (o davp_presence_reporting_area_status); some_met (o davp_presence_reporting_area_elements_list); some_met (o davp_presence_reporting_area_node)])
    (octets_in GX_PRESENCE_REPORTING_AREA_IDENTIFIER_LEN (o davp_presence_reporting_area_identifier))
    (value_in v_u32 (o davp_presence_reporting_area_status))
    (octets_in GX_PRESENCE_REPORTING_AREA_ELEMENTS_LIST_LEN (o davp_presence_reporting_area_elements_list))
    (value_in v_u32 (o davp_presence_reporting_area_node)).

Definition read_GxPresenceReportingAreaInformation (a : avp) : GxPresenceReportingAreaInformation := build_GxPresenceReportingAreaInformation (occ (kids a)) (allocated (occ (kids a))).

Definition valid_GxPresenceReportingAreaInformation (a : avp) : Prop :=
  browse a = Browsed (kids a) true ∧
  any octets_ok (sel davp_presence_reporting_area_identifier (kids a)) ∧
  any (value_ok uint32_t v_u32) (sel davp_presence_reporting_area_status (kids a)) ∧
  any octets_ok (sel davp_presence_reporting_area_elements_list (kids a)) ∧
  any (value_ok uint32_t v_u32) (sel davp_presence_reporting_area_node (kids a)).

Definition kinds_GxPresenceReportingAreaInformation : list kind := [
    K_octets davp_presence_reporting_area_identifier;
    K_value davp_presence_reporting_area_status uint32_t v_u32;
    K_octets davp_presence_reporting_area_elements_list;
    K_value davp_presence_reporting_area_node uint32_t v_u32].
Definition fills_GxPresenceReportingAreaInformation (o : occurrences) : list kind := [].

#[export] Instance GxPresenceReportingAreaInformation_parse : ParseOk parseGxPresenceReportingAreaInformation zero_GxPresenceReportingAreaInformation read_GxPresenceReportingAreaInformation valid_GxPresenceReportingAreaInformation good_GxPresenceReportingAreaInformation.
Proof. parse_ok build_GxPresenceReportingAreaInformation kinds_GxPresenceReportingAreaInformation fills_GxPresenceReportingAreaInformation. Qed.

Definition build_GxRoutingRuleRemove (o : occurrences) (m : davp -> option (list avp)) : GxRoutingRuleRemove :=
  mk_GxRoutingRuleRemove
    (presence_bits [some_met (o davp_routing_rule_identifier)])
    (list_in zero_octets (read_octets GX_ROUTING_RULE_IDENTIFIER_LEN) (o davp_routing_rule_identifier) (m davp_routing_rule_identifier)).

Definition read_GxRoutingRuleRemove (a : avp) : GxRoutingRuleRemove := build_GxRoutingRuleRemove (occ (kids a)) (allocated (occ (kids a))).

Definition valid_GxRoutingRuleRemove (a : avp) : Prop :=
  browse a = Browsed (kids a) true ∧
  many octets_ok (sel davp_routing_rule_identifier (kids a)).

Definition kinds_GxRoutingRuleRemove : list kind := [
    K_count davp_routing_rule_identifier].
Definition fills_GxRoutingRuleRemove (o : occurrences) : list kind := [
    K_fill davp_routing_rule_identifier octets_ok (length (o davp_routing_rule_identifier))].

#[export] Instance GxRoutingRuleRemove_parse : ParseOk parseGxRoutingRuleRemove zero_GxRoutingRuleRemove read_GxRoutingRuleRemove valid_GxRoutingRuleRemove good_GxRoutingRuleRemove.
Proof. parse_ok build_GxRoutingRuleRemove kinds_GxRoutingRuleRemove fills_GxRoutingRuleRemove. Qed.

Definition build_GxRoutingFilter (o : occurrences) (m : davp -> option (list avp)) : GxRoutingFilter :=
  mk_GxRoutingFilter
    (presence_bits [some_met (o davp_flow_description); some_met (o davp_flow_direction); some_met (o davp_tos_traffic_class); some_met (o davp_security_parameter_index); some_met (o davp_flow_label)])
    (octets_in GX_FLOW_DESCRIPTION_LEN (o davp_flow_description))
    (value_in v_i32 (o davp_flow_direction))
    (octets_in GX_TOS_TRAFFIC_CLASS_LEN (o davp_tos_traffic_class))
    (octets_in GX_SECURITY_PARAMETER_INDEX_LEN (o davp_security_parameter_index))
    (octets_in GX_FLOW_LABEL_LEN (o davp_flow_label)).

Definition read_GxRoutingFilter (a : avp) : GxRoutingFilter := build_GxRoutingFilter (occ (kids a)) (allocated (occ (kids a))).

Definition valid_GxRoutingFilter (a : avp) : Prop :=
  browse a = Browsed (kids a) true ∧
  any octets_ok (sel davp_flow_description (kids a)) ∧
  any (value_ok int32_t v_i32) (sel davp_flow_direction (kids a)) ∧
  any octets_ok (sel davp_tos_traffic_class (kids a)) ∧
  any octets_ok (sel davp_security_parameter_index (kids a)) ∧
  any octets_ok (sel davp_flow_label (kids a)).

Definition kinds_GxRoutingFilter : list kind := [
    K_octets davp_flow_description;
    K_value davp_flow_direction int32_t v_i32;
    K_octets davp_tos_traffic_class;
    K_octets davp_security_parameter_index;
    K_octets davp_flow_label].
Definition fills_GxRoutingFilter (o : occurrences) : list kind := [].

#[export] Instance GxRoutingFilter_parse : ParseOk parseGxRoutingFilter zero_GxRoutingFilter read_GxRoutingFilter valid_GxRoutingFilter good_GxRoutingFilter.
Proof. parse_ok build_GxRoutingFilter kinds_GxRoutingFilter fills_GxRoutingFilter. Qed.

Definition build_GxRoutingRuleDefinition (o : occurrences) (m : davp -> option (list avp)) : GxRoutingRuleDefinition :=
  mk_GxRoutingRuleDefinition
    (presence_bits [some_met (o davp_routing_rule_identifier); some_met (o davp_routing_filter); some_met (o davp_precedence); some_met (o davp_routing_ip_address); some_met (o davp_ip_can_type)])
    (octets_in GX_ROUTING_RULE_IDENTIFIER_LEN (o davp_routing_rule_identifier))
    (list_in zero_GxRoutingFilter read_GxRoutingFilter (o davp_routing_filter) (m davp_routing_filter))
    (value_in v_u32 (o davp_precedence))
    (address_in (o davp_routing_ip_address))
    (value_in v_i32 (o davp_ip_can_type)).

Definition read_GxRoutingRuleDefinition (a : avp) : GxRoutingRuleDefinition := build_GxRoutingRuleDefinition (occ (kids a)) (allocated (occ (kids a))).

Definition valid_GxRoutingRuleDefinition (a : avp) : Prop :=
  browse a = Browsed (kids a) true ∧
  any octets_ok (sel davp_routing_rule_identifier (kids a)) ∧
  many valid_GxRoutingFilter (sel davp_routing_filter (kids a)) ∧
  any (value_ok uint32_t v_u32) (sel davp_precedence (kids a)) ∧
  any address_ok (sel davp_routing_ip_address (kids a)) ∧
  any (value_ok int32_t v_i32) (sel davp_ip_can_type (kids a)).

Definition kinds_GxRoutingRuleDefinition : list kind := [
    K_octets davp_routing_rule_identifier;
    K_count davp_routing_filter;
    K_value davp_precedence uint32_t v_u32;
    K_address davp_routing_ip_address;
    K_value davp_ip_can_type int32_t v_i32].
Definition fills_GxRoutingRuleDefinition (o : occurrences) : list kind := [
    K_fill davp_routing_filter valid_GxRoutingFilter (length (o davp_routing_filter))].

#[export] Instance GxRoutingRuleDefinition_parse : ParseOk parseGxRoutingRuleDefinition zero_GxRoutingRuleDefinition read_GxRoutingRuleDefinition valid_GxRoutingRuleDefinition good_GxRoutingRuleDefinition.
Proof. parse_ok build_GxRoutingRuleDefinition kinds_GxRoutingRuleDefinition fills_GxRoutingRuleDefinition. Qed.

Definition build_GxRoutingRuleInstall (o : occurrences) (m : davp -> option (list avp)) : GxRoutingRuleInstall :=
  mk_GxRoutingRuleInstall
    (presence_bits [some_met (o davp_routing_rule_definition)])
    (list_in zero_GxRoutingRuleDefinition read_GxRoutingRuleDefinition (o davp_routing_rule_definition) (m davp_routing_rule_definition)).

Definition read_GxRoutingRuleInstall (a : avp) : GxRoutingRuleInstall := build_GxRoutingRuleInstall (occ (kids a)) (allocated (occ (kids a))).

Definition valid_GxRoutingRuleInstall (a : avp) : Prop :=
  browse a = Browsed (kids a) true ∧
  many valid_GxRoutingRuleDefinition (sel davp_routing_rule_definition (kids a)).

Definition kinds_GxRoutingRuleInstall : list kind := [
    K_count davp_routing_rule_definition].
Definition fills_GxRoutingRuleInstall (o : occurrences) : list kind := [
    K_fill davp_routing_rule_definition valid_GxRoutingRuleDefinition (length (o davp_routing_rule_definition))].

#[export] Instance GxRoutingRuleInstall_parse : ParseOk parseGxRoutingRuleInstall zero_GxRoutingRuleInstall read_GxRoutingRuleInstall valid_GxRoutingRuleInstall good_GxRoutingRuleInstall.
Proof. parse_ok build_GxRoutingRuleInstall kinds_GxRoutingRuleInstall fills_GxRoutingRuleInstall. Qed.

Definition build_GxUnitValue (o : occurrences) (m : davp -> option (list avp)) : GxUnitValue :=
  mk_GxUnitValue
    (presence_bits [some_met (o davp_value_digits); some_met (o davp_exponent)])
    (value_in v_i64 (o davp_value_digits))
    (value_in v_i32 (o davp_exponent)).

Definition read_GxUnitValue (a : avp) : GxUnitValue := build_GxUnitValue (occ (kids a)) (allocated (occ (kids a))).

Definition valid_GxUnitValue (a : avp) : Prop :=
  browse a = Browsed (kids a) true ∧
  any (value_ok int64_t v_i64) (sel davp_value_digits (kids a)) ∧
  any (value_ok int32_t v_i32) (sel davp_exponent (kids a)).

Definition kinds_GxUnitValue : list kind := [
    K_value davp_value_digits int64_t v_i64;
    K_value davp_exponent int32_t v_i32].
Definition fills_GxUnitValue (o : occurrences) : list kind := [].

#[export] Instance GxUnitValue_parse : ParseOk parseGxUnitValue zero_GxUnitValue read_GxUnitValue valid_GxUnitValue good_GxUnitValue.
Proof. parse_ok build_GxUnitValue kinds_GxUnitValue fills_GxUnitValue. Qed.

Definition build_GxCcMoney (o : occurrences) (m : davp -> option (list avp)) : GxCcMoney :=
  mk_GxCcMoney
    (presence_bits [some_met (o davp_unit_value); some_met (o davp_currency_code)])
    (struct_in zero_GxUnitValue read_GxUnitValue (o davp_unit_value))
    (value_in v_u32 (o davp_currency_code)).

Definition read_GxCcMoney (a : avp) : GxCcMoney := build_GxCcMoney (occ (kids a)) (allocated (occ (kids a))).

Definition valid_GxCcMoney (a : avp) : Prop :=
  browse a = Browsed (kids a) true ∧
  at_most_once valid_GxUnitValue (sel davp_unit_value (kids a)) ∧
  any (value_ok uint32_t v_u32) (sel davp_currency_code (kids a)).

Definition kinds_GxCcMoney : list kind := [
    K_struct davp_unit_value valid_GxUnitValue;
    K_value davp_currency_code uint32_t v_u32].
Definition fills_GxCcMoney (o : occurrences) : list kind := [].

#[export] Instance GxCcMoney_parse : ParseOk parseGxCcMoney zero_GxCcMoney read_GxCcMoney valid_GxCcMoney good_GxCcMoney.
Proof. parse_ok build_GxCcMoney kinds_GxCcMoney fills_GxCcMoney. Qed.

Definition build_GxUsedServiceUnit (o : occurrences) (m : davp -> option (list avp)) : GxUsedServiceUnit :=
  mk_GxUsedServiceUnit
    (presence_bits [some_met (o davp_reporting_reason); some_met (o davp_tariff_change_usage); some_met (o davp_cc_time); some_met (o davp_cc_money); some_met (o davp_cc_total_octets); some_met (o davp_cc_input_octets); some_met (o davp_cc_output_octets); some_met (o davp_cc_service_specific_units); some_met (o davp_event_charging_timestamp)])
    (value_in v_i32 (o davp_reporting_reason))
    (value_in v_i32 (o davp_tariff_change_usage))
    (value_in v_u32 (o davp_cc_time))
    (struct_in zero_GxCcMoney read_GxCcMoney (o davp_cc_money))
    (value_in v_u64 (o davp_cc_total_octets))
    (value_in v_u64 (o davp_cc_input_octets))
    (value_in v_u64 (o davp_cc_output_octets))
    (value_in v_u64 (o davp_cc_service_specific_units))
    (list_in 0 read_time (o davp_event_charging_timestamp) (m davp_event_charging_timestamp)).

Definition read_GxUsedServiceUnit (a : avp) : GxUsedServiceUnit := build_GxUsedServiceUnit (occ (kids a)) (allocated (occ (kids a))).

Definition valid_GxUsedServiceUnit (a : avp) : Prop :=
  browse a = Browsed (kids a) true ∧
  any (value_ok int32_t v_i32) (sel davp_reporting_reason (kids a)) ∧
  any (value_ok int32_t v_i32) (sel davp_tariff_change_usage (kids a)) ∧
  any (value_ok uint32_t v_u32) (sel davp_cc_time (kids a)) ∧
  at_most_once valid_GxCcMoney (sel davp_cc_money (kids a)) ∧
  any (value_ok uint64_t v_u64) (sel davp_cc_total_octets (kids a)) ∧
  any (value_ok uint64_t v_u64) (sel davp_cc_input_octets (kids a)) ∧
  any (value_ok uint64_t v_u64) (sel davp_cc_output_octets (kids a)) ∧
  any (value_ok uint64_t v_u64) (sel davp_cc_service_specific_units (kids a)) ∧
  many time_ok (sel davp_event_charging_timestamp (kids a)).

Definition kinds_GxUsedServiceUnit : list kind := [
    K_value davp_reporting_reason int32_t v_i32;
    K_value davp_tariff_change_usage int32_t v_i32;
    K_value davp_cc_time uint32_t v_u32;
    K_struct davp_cc_money valid_GxCcMoney;
    K_value davp_cc_total_octets uint64_t v_u64;
    K_value davp_cc_input_octets uint64_t v_u64;
    K_value davp_cc_output_octets uint64_t v_u64;
    K_value davp_cc_service_specific_units uint64_t v_u64;
    K_count davp_event_charging_timestamp].
Definition fills_GxUsedServiceUnit (o : occurrences) : list kind := [
    K_fill davp_event_charging_timestamp time_ok (length (o davp_event_charging_timestamp))].

#[export] Instance GxUsedServiceUnit_parse : ParseOk parseGxUsedServiceUnit zero_GxUsedServiceUnit read_GxUsedServiceUnit valid_GxUsedServiceUnit good_GxUsedServiceUnit.
Proof. parse_ok build_GxUsedServiceUnit kinds_GxUsedServiceUnit fills_GxUsedServiceUnit. Qed.

Definition build_GxGrantedServiceUnit (o : occurrences) (m : davp -> option (list avp)) : GxGrantedServiceUnit :=
  mk_GxGrantedServiceUnit
    (presence_bits [some_met (o davp_tariff_time_change); some_met (o davp_cc_time); some_met (o davp_cc_money); some_met (o davp_cc_total_octets); some_met (o davp_cc_input_octets); some_met (o davp_cc_output_octets); some_met (o davp_cc_service_specific_units)])
    (time_in (o davp_tariff_time_change))
    (value_in v_u32 (o davp_cc_time))
    (struct_in zero_GxCcMoney read_GxCcMoney (o davp_cc_money))
    (value_in v_u64 (o davp_cc_total_octets))
    (value_in v_u64 (o davp_cc_input_octets))
    (value_in v_u64 (o davp_cc_output_octets))
    (value_in v_u64 (o davp_cc_service_specific_units)).

Definition read_GxGrantedServiceUnit (a : avp) : GxGrantedServiceUnit := build_GxGrantedServiceUnit (occ (kids a)) (allocated (occ (kids a))).

Definition valid_GxGrantedServiceUnit (a : avp) : Prop :=
  browse a = Browsed (kids a) true ∧
  any time_ok (sel davp_tariff_time_change (kids a)) ∧
  any (value_ok uint32_t v_u32) (sel davp_cc_time (kids a)) ∧
  at_most_once valid_GxCcMoney (sel davp_cc_money (kids a)) ∧
  any (value_ok uint64_t v_u64) (sel davp_cc_total_octets (kids a)) ∧
  any (value_ok uint64_t v_u64) (sel davp_cc_input_octets (kids a)) ∧
  any (value_ok uint64_t v_u64) (sel davp_cc_output_octets (kids a)) ∧
  any (value_ok uint64_t v_u64) (sel davp_cc_service_specific_units (kids a)).

Definition kinds_GxGrantedServiceUnit : list kind := [
    K_time davp_tariff_time_change;
    K_value davp_cc_time uint32_t v_u32;
    K_struct davp_cc_money valid_GxCcMoney;
    K_value davp_cc_total_octets uint64_t v_u64;
    K_value davp_cc_input_octets uint64_t v_u64;
    K_value davp_cc_output_octets uint64_t v_u64;
    K_value davp_cc_service_specific_units uint64_t v_u64].
Definition fills_GxGrantedServiceUnit (o : occurrences) : list kind := [].

#[export] Instance GxGrantedServiceUnit_parse : ParseOk parseGxGrantedServiceUnit zero_GxGrantedServiceUnit read_GxGrantedServiceUnit valid_GxGrantedServiceUnit good_GxGrantedServiceUnit.
Proof. parse_ok build_GxGrantedServiceUnit kinds_GxGrantedServiceUnit fills_GxGrantedServiceUnit. Qed.

Definition build_GxUsageMonitoringInformation (o : occurrences) (m : davp -> option (list avp)) : GxUsageMonitoringInformation :=
  mk_GxUsageMonitoringInformation
    (presence_bits [some_met (o davp_monitoring_key); some_met (o davp_granted_service_unit); some_met (o davp_used_service_unit); some_met (o davp_quota_consumption_time); some_met (o davp_usage_monitoring_level); some_met (o davp_usage_monitoring_report); some_met (o davp_usage_monitoring_support)])
    (octets_in GX_MONITORING_KEY_LEN (o davp_monitoring_key))
    (list_in zero_GxGrantedServiceUnit read_GxGrantedServiceUnit (o davp_granted_service_unit) (m davp_granted_service_unit))
    (list_in zero_GxUsedServiceUnit read_GxUsedServiceUnit (o davp_used_service_unit) (m davp_used_service_unit))
    (value_in v_u32 (o davp_quota_consumption_time))
    (value_in v_i32 (o davp_usage_monitoring_level))
    (value_in v_i32 (o davp_usage_monitoring_report))
    (value_in v_i32 (o davp_usage_monitoring_support)).

Definition read_GxUsageMonitoringInformation (a : avp) : GxUsageMonitoringInformation := build_GxUsageMonitoringInformation (occ (kids a)) (allocated (occ (kids a))).

Definition valid_GxUsageMonitoringInformation (a : avp) : Prop :=
  browse a = Browsed (kids a) true ∧
  any octets_ok (sel davp_monitoring_key (kids a)) ∧
  many valid_GxGrantedServiceUnit (sel davp_granted_service_unit (kids a)) ∧
  many valid_GxUsedServiceUnit (sel davp_used_service_unit (kids a)) ∧
  any (value_ok uint32_t v_u32) (sel davp_quota_consumption_time (kids a)) ∧
  any (value_ok int32_t v_i32) (sel davp_usage_monitoring_level (kids a)) ∧
  any (value_ok int32_t v_i32) (sel davp_usage_monitoring_report (kids a)) ∧
  any (value_ok int32_t v_i32) (sel davp_usage_monitoring_support (kids a)).

Definition kinds_GxUsageMonitoringInformation : list kind := [
    K_octets davp_monitoring_key;
    K_count davp_granted_service_unit;
    K_count davp_used_service_unit;
    K_value davp_quota_consumption_time uint32_t v_u32;
    K_value davp_usage_monitoring_level int32_t v_i32;
    K_value davp_usage_monitoring_report int32_t v_i32;
    K_value davp_usage_monitoring_support int32_t v_i32].
Definition fills_GxUsageMonitoringInformation (o : occurrences) : list kind := [
    K_fill davp_granted_service_unit valid_GxGrantedServiceUnit (length (o davp_granted_service_unit));
    K_fill davp_used_service_unit valid_GxUsedServiceUnit (length (o davp_used_service_unit))].

#[export] Instance GxUsageMonitoringInformation_parse : ParseOk parseGxUsageMonitoringInformation zero_GxUsageMonitoringInformation read_GxUsageMonitoringInformation valid_GxUsageMonitoringInformation good_GxUsageMonitoringInformation.
Proof. parse_ok build_GxUsageMonitoringInformation kinds_GxUsageMonitoringInformation fills_GxUsageMonitoringInformation. Qed.

Definition build_GxTunnelInformation (o : occurrences) (m : davp -> option (list avp)) : GxTunnelInformation :=
  mk_GxTunnelInformation
    (presence_bits [some_met (o davp_tunnel_header_length); some_met (o davp_tunnel_header_filter)])
    (value_in v_u32 (o davp_tunnel_header_length))
    (list_in zero_octets (read_octets GX_TUNNEL_HEADER_FILTER_LEN) (o davp_tunnel_header_filter) (m davp_tunnel_header_filter)).

Definition read_GxTunnelInformation (a : avp) : GxTunnelInformation := build_GxTunnelInformation (occ (kids a)) (allocated (occ (kids a))).

Definition valid_GxTunnelInformation (a : avp) : Prop :=
  browse a = Browsed (kids a) true ∧
  any (value_ok uint32_t v_u32) (sel davp_tunnel_header_length (kids a)) ∧
  many octets_ok (sel davp_tunnel_header_filter (kids a)).

Definition kinds_GxTunnelInformation : list kind := [
    K_value davp_tunnel_header_length uint32_t v_u32;
    K_count davp_tunnel_header_filter].
Definition fills_GxTunnelInformation (o : occurrences) : list kind := [
    K_fill davp_tunnel_header_filter octets_ok (length (o davp_tunnel_header_filter))].

#[export] Instance GxTunnelInformation_parse : ParseOk parseGxTunnelInformation zero_GxTunnelInformation read_GxTunnelInformation valid_GxTunnelInformation good_GxTunnelInformation.
Proof. parse_ok build_GxTunnelInformation kinds_GxTunnelInformation fills_GxTunnelInformation. Qed.

Definition build_GxCoaInformation (o : occurrences) (m : davp -> option (list avp)) : GxCoaInformation :=
  mk_GxCoaInformation
    (presence_bits [some_met (o davp_tunnel_information); some_met (o davp_coa_ip_address)])
    (struct_in zero_GxTunnelInformation read_GxTunnelInformation (o davp_tunnel_information))
    (address_in (o davp_coa_ip_address)).

Definition read_GxCoaInformation (a : avp) : GxCoaInformation := build_GxCoaInformation (occ (kids a)) (allocated (occ (kids a))).

Definition valid_GxCoaInformation (a : avp) : Prop :=
  browse a = Browsed (kids a) true ∧
  at_most_once valid_GxTunnelInformation (sel davp_tunnel_information (kids a)) ∧
  any address_ok (sel davp_coa_ip_address (kids a)).

Definition kinds_GxCoaInformation : list kind := [
    K_struct davp_tunnel_information valid_GxTunnelInformation;
    K_address davp_coa_ip_address].
Definition fills_GxCoaInformation (o : occurrences) : list kind := [].

#[export] Instance GxCoaInformation_parse : ParseOk parseGxCoaInformation zero_GxCoaInformation read_GxCoaInformation valid_GxCoaInformation good_GxCoaInformation.
Proof. parse_ok build_GxCoaInformation kinds_GxCoaInformation fills_GxCoaInformation. Qed.

Definition build_GxAccessNetworkChargingIdentifierGx (o : occurrences) (m : davp -> option (list avp)) : GxAccessNetworkChargingIdentifierGx :=
  mk_GxAccessNetworkChargingIdentifierGx
    (presence_bits [some_met (o davp_access_network_charging_identifier_value); some_met (o davp_charging_rule_base_name); some_met (o davp_charging_rule_name); some_met (o davp_ip_can_session_charging_scope)])
    (octets_in GX_ACCESS_NETWORK_CHARGING_IDENTIFIER_VALUE_LEN (o davp_access_network_charging_identifier_value))
    (list_in zero_octets (read_octets GX_CHARGING_RULE_BASE_NAME_LEN) (o davp_charging_rule_base_name) (m davp_charging_rule_base_name))
    (list_in zero_octets (read_octets GX_CHARGING_RULE_NAME_LEN) (o davp_charging_rule_name) (m davp_charging_rule_name))
    (value_in v_i32 (o davp_ip_can_session_charging_scope)).

Definition read_GxAccessNetworkChargingIdentifierGx (a : avp) : GxAccessNetworkChargingIdentifierGx := build_GxAccessNetworkChargingIdentifierGx (occ (kids a)) (allocated (occ (kids a))).

Definition valid_GxAccessNetworkChargingIdentifierGx (a : avp) : Prop :=
  browse a = Browsed (kids a) true ∧
  any octets_ok (sel davp_access_network_charging_identifier_value (kids a)) ∧
  many octets_ok (sel davp_charging_rule_base_name (kids a)) ∧
  many octets_ok (sel davp_charging_rule_name (kids a)) ∧
  any (value_ok int32_t v_i32) (sel davp_ip_can_session_charging_scope (kids a)).

Definition kinds_GxAccessNetworkChargingIdentifierGx : list kind := [
    K_octets davp_access_network_charging_identifier_value;
    K_count davp_charging_rule_base_name;
    K_count davp_charging_rule_name;
    K_value davp_ip_can_session_charging_scope int32_t v_i32].
Definition fills_GxAccessNetworkChargingIdentifierGx (o : occurrences) : list kind := [
    K_fill davp_charging_rule_base_name octets_ok (length (o davp_charging_rule_base_name));
    K_fill davp_charging_rule_name octets_ok (length (o davp_charging_rule_name))].

#[export] Instance GxAccessNetworkChargingIdentifierGx_parse : ParseOk parseGxAccessNetworkChargingIdentifierGx zero_GxAccessNetworkChargingIdentifierGx read_GxAccessNetworkChargingIdentifierGx valid_GxAccessNetworkChargingIdentifierGx good_GxAccessNetworkChargingIdentifierGx.
Proof. parse_ok build_GxAccessNetworkChargingIdentifierGx kinds_GxAccessNetworkChargingIdentifierGx fills_GxAccessNetworkChargingIdentifierGx. Qed.

Definition build_GxMbsfnArea (o : occurrences) (m : davp -> option (list avp)) : GxMbsfnArea :=
  mk_GxMbsfnArea
    (presence_bits [some_met (o davp_mbsfn_area_id); some_met (o davp_carrier_frequency)])
    (value_in v_u32 (o davp_mbsfn_area_id))
    (value_in v_u32 (o davp_carrier_frequency)).

Definition read_GxMbsfnArea (a : avp) : GxMbsfnArea := build_GxMbsfnArea (occ (kids a)) (allocated (occ (kids a))).

Definition valid_GxMbsfnArea (a : avp) : Prop :=
  browse a = Browsed (kids a) true ∧
  any (value_ok uint32_t v_u32) (sel davp_mbsfn_area_id (kids a)) ∧
  any (value_ok uint32_t v_u32) (sel davp_carrier_frequency (kids a)).

Definition kinds_GxMbsfnArea : list kind := [
    K_value davp_mbsfn_area_id uint32_t v_u32;
    K_value davp_carrier_frequency uint32_t v_u32].
Definition fills_GxMbsfnArea (o : occurrences) : list kind := [].

#[export] Instance GxMbsfnArea_parse : ParseOk parseGxMbsfnArea zero_GxMbsfnArea read_GxMbsfnArea valid_GxMbsfnArea good_GxMbsfnArea.
Proof. parse_ok build_GxMbsfnArea kinds_GxMbsfnArea fills_GxMbsfnArea. Qed.

Definition build_GxAreaScope (o : occurrences) (m : davp -> option (list avp)) : GxAreaScope :=
  mk_GxAreaScope
    (presence_bits [some_met (o davp_cell_global_identity); some_met (o davp_e_utran_cell_global_identity); some_met (o davp_routing_area_identity); some_met (o davp_location_area_identity); some_met (o davp_tracking_area_identity)])
    (list_in zero_octets (read_octets GX_CELL_GLOBAL_IDENTITY_LEN) (o davp_cell_global_identity) (m davp_cell_global_identity))
    (list_in zero_octets (read_octets GX_E_UTRAN_CELL_GLOBAL_IDENTITY_LEN) (o davp_e_utran_cell_global_identity) (m davp_e_utran_cell_global_identity))
    (list_in zero_octets (read_octets GX_ROUTING_AREA_IDENTITY_LEN) (o davp_routing_area_identity) (m davp_routing_area_identity))
    (list_in zero_octets (read_octets GX_LOCATION_AREA_IDENTITY_LEN) (o davp_location_area_identity) (m davp_location_area_identity))
    (list_in zero_octets (read_octets GX_TRACKING_AREA_IDENTITY_LEN) (o davp_tracking_area_identity) (m davp_tracking_area_identity)).

Definition read_GxAreaScope (a : avp) : GxAreaScope := build_GxAreaScope (occ (kids a)) (allocated (occ (kids a))).

Definition valid_GxAreaScope (a : avp) : Prop :=
  browse a = Browsed (kids a) true ∧
  many octets_ok (sel davp_cell_global_identity (kids a)) ∧
  many octets_ok (sel davp_e_utran_cell_global_identity (kids a)) ∧
  many octets_ok (sel davp_routing_area_identity (kids a)) ∧
  many octets_ok (sel davp_location_area_identity (kids a)) ∧
  many octets_ok (sel davp_tracking_area_identity (kids a)).

Definition kinds_GxAreaScope : list kind := [
    K_count davp_cell_global_identity;
    K_count davp_e_utran_cell_global_identity;
    K_count davp_routing_area_identity;
    K_count davp_location_area_identity;
    K_count davp_tracking_area_identity].
Definition fills_GxAreaScope (o : occurrences) : list kind := [
    K_fill davp_cell_global_identity octets_ok (length (o davp_cell_global_identity));
    K_fill davp_e_utran_cell_global_identity octets_ok (length (o davp_e_utran_cell_global_identity));
    K_fill davp_routing_area_identity octets_ok (length (o davp_routing_area_identity));
    K_fill davp_location_area_identity octets_ok (length (o davp_location_area_identity));
    K_fill davp_tracking_area_identity octets_ok (length (o davp_tracking_area_identity))].

#[export] Instance GxAreaScope_parse : ParseOk parseGxAreaScope zero_GxAreaScope read_GxAreaScope valid_GxAreaScope good_GxAreaScope.
Proof. parse_ok build_GxAreaScope kinds_GxAreaScope fills_GxAreaScope. Qed.

Definition build_GxMdtConfiguration (o : occurrences) (m : davp -> option (list avp)) : GxMdtConfiguration :=
  mk_GxMdtConfiguration
    (presence_bits [some_met (o davp_job_type); some_met (o davp_area_scope); some_met (o davp_list_of_measurements); some_met (o davp_reporting_trigger); some_met (o davp_report_interval); some_met (o davp_report_amount); some_met (o davp_event_threshold_rsrp); some_met (o davp_event_threshold_rsrq); some_met (o davp_logging_interval); some_met (o davp_logging_duration); some_met (o davp_measurement_period_lte); some_met (o davp_measurement_period_umts); some_met (o davp_collection_period_rrm_lte); some_met (o davp_collection_period_rrm_umts); some_met (o davp_positioning_method); some_met (o davp_measurement_quantity); some_met (o davp_event_threshold_event_1f); some_met (o davp_event_threshold_event_1i); some_met (o davp_mdt_allowed_plmn_id); some_met (o davp_mbsfn_area)])
    (value_in v_i32 (o davp_job_type))
    (struct_in zero_GxAreaScope read_GxAreaScope (o davp_area_scope))
    (value_in v_u32 (o davp_list_of_measurements))
    (value_in v_u32 (o davp_reporting_trigger))
    (value_in v_i32 (o davp_report_interval))
    (value_in v_i32 (o davp_report_amount))
    (value_in v_u32 (o davp_event_threshold_rsrp))
    (value_in v_u32 (o davp_event_threshold_rsrq))
    (value_in v_i32 (o davp_logging_interval))
    (value_in v_i32 (o davp_logging_duration))
    (value_in v_i32 (o davp_measurement_period_lte))
    (value_in v_i32 (o davp_measurement_period_umts))
    (value_in v_i32 (o davp_collection_period_rrm_lte))
    (value_in v_i32 (o davp_collection_period_rrm_umts))
    (octets_in GX_POSITIONING_METHOD_LEN (o davp_positioning_method))
    (octets_in GX_MEASUREMENT_QUANTITY_LEN (o davp_measurement_quantity))
    (value_in v_i32 (o davp_event_threshold_event_1f))
    (value_in v_i32 (o davp_event_threshold_event_1i))
    (list_in zero_octets (read_octets GX_MDT_ALLOWED_PLMN_ID_LEN) (o davp_mdt_allowed_plmn_id) (m davp_mdt_allowed_plmn_id))
    (list_in zero_GxMbsfnArea read_GxMbsfnArea (o davp_mbsfn_area) (m davp_mbsfn_area)).

Definition read_GxMdtConfiguration (a : avp) : GxMdtConfiguration := build_GxMdtConfiguration (occ (kids a)) (allocated (occ (kids a))).

Definition valid_GxMdtConfiguration (a : avp) : Prop :=
  browse a = Browsed (kids a) true ∧
  any (value_ok int32_t v_i32) (sel davp_job_type (kids a)) ∧
  at_most_once valid_GxAreaScope (sel davp_area_scope (kids a)) ∧
  any (value_ok uint32_t v_u32) (sel davp_list_of_measurements (kids a)) ∧
  any (value_ok uint32_t v_u32) (sel davp_reporting_trigger (kids a)) ∧
  any (value_ok int32_t v_i32) (sel davp_report_interval (kids a)) ∧
  any (value_ok int32_t v_i32) (sel davp_report_amount (kids a)) ∧
  any (value_ok uint32_t v_u32) (sel davp_event_threshold_rsrp (kids a)) ∧
  any (value_ok uint32_t v_u32) (sel davp_event_threshold_rsrq (kids a)) ∧
  any (value_ok int32_t v_i32) (sel davp_logging_interval (kids a)) ∧
  any (value_ok int32_t v_i32) (sel davp_logging_duration (kids a)) ∧
  any (value_ok int32_t v_i32) (sel davp_measurement_period_lte (kids a)) ∧
  any (value_ok int32_t v_i32) (sel davp_measurement_period_umts (kids a)) ∧
  any (value_ok int32_t v_i32) (sel davp_collection_period_rrm_lte (kids a)) ∧
  any (value_ok int32_t v_i32) (sel davp_collection_period_rrm_umts (kids a)) ∧
  any octets_ok (sel davp_positioning_method (kids a)) ∧
  any octets_ok (sel davp_measurement_quantity (kids a)) ∧
  any (value_ok int32_t v_i32) (sel davp_event_threshold_event_1f (kids a)) ∧
  any (value_ok int32_t v_i32) (sel davp_event_threshold_event_1i (kids a)) ∧
  many octets_ok (sel davp_mdt_allowed_plmn_id (kids a)) ∧
  many valid_GxMbsfnArea (sel davp_mbsfn_area (kids a)).

Definition kinds_GxMdtConfiguration : list kind := [
    K_value davp_job_type int32_t v_i32;
    K_struct davp_area_scope valid_GxAreaScope;
    K_value davp_list_of_measurements uint32_t v_u32;
    K_value davp_reporting_trigger uint32_t v_u32;
    K_value davp_report_interval int32_t v_i32;
    K_value davp_report_amount int32_t v_i32;
    K_value davp_event_threshold_rsrp uint32_t v_u32;
    K_value davp_event_threshold_rsrq uint32_t v_u32;
    K_value davp_logging_interval int32_t v_i32;
    K_value davp_logging_duration int32_t v_i32;
    K_value davp_measurement_period_lte int32_t v_i32;
    K_value davp_measurement_period_umts int32_t v_i32;
    K_value davp_collection_period_rrm_lte int32_t v_i32;
    K_value davp_collection_period_rrm_umts int32_t v_i32;
    K_octets davp_positioning_method;
    K_octets davp_measurement_quantity;
    K_value davp_event_threshold_event_1f int32_t v_i32;
    K_value davp_event_threshold_event_1i int32_t v_i32;
    K_count davp_mdt_allowed_plmn_id;
    K_count davp_mbsfn_area].
Definition fills_GxMdtConfiguration (o : occurrences) : list kind := [
    K_fill davp_mdt_allowed_plmn_id octets_ok (length (o davp_mdt_allowed_plmn_id));
    K_fill davp_mbsfn_area valid_GxMbsfnArea (length (o davp_mbsfn_area))].

#[export] Instance GxMdtConfiguration_parse : ParseOk parseGxMdtConfiguration zero_GxMdtConfiguration read_GxMdtConfiguration valid_GxMdtConfiguration good_GxMdtConfiguration.
Proof. parse_ok build_GxMdtConfiguration kinds_GxMdtConfiguration fills_GxMdtConfiguration. Qed.

Definition build_GxTraceData (o : occurrences) (m : davp -> option (list avp)) : GxTraceData :=
  mk_GxTraceData
    (presence_bits [some_met (o davp_trace_reference); some_met (o davp_trace_depth); some_met (o davp_trace_ne_type_list); some_met (o davp_trace_interface_list); some_met (o davp_trace_event_list); some_met (o davp_omc_id); some_met (o davp_trace_collection_entity); some_met (o davp_mdt_configuration)])
    (octets_in GX_TRACE_REFERENCE_LEN (o davp_trace_reference))
    (value_in v_i32 (o davp_trace_depth))
    (octets_in GX_TRACE_NE_TYPE_LIST_LEN (o davp_trace_ne_type_list))
    (octets_in GX_TRACE_INTERFACE_LIST_LEN (o davp_trace_interface_list))
    (octets_in GX_TRACE_EVENT_LIST_LEN (o davp_trace_event_list))
    (octets_in GX_OMC_ID_LEN (o davp_omc_id))
    (address_in (o davp_trace_collection_entity))
    (struct_in zero_GxMdtConfiguration read_GxMdtConfiguration (o davp_mdt_configuration)).

Definition read_GxTraceData (a : avp) : GxTraceData := build_GxTraceData (occ (kids a)) (allocated (occ (kids a))).

Definition valid_GxTraceData (a : avp) : Prop :=
  browse a = Browsed (kids a) true ∧
  any octets_ok (sel davp_trace_reference (kids a)) ∧
  any (value_ok int32_t v_i32) (sel davp_trace_depth (kids a)) ∧
  any octets_ok (sel davp_trace_ne_type_list (kids a)) ∧
  any octets_ok (sel davp_trace_interface_list (kids a)) ∧
  any octets_ok (sel davp_trace_event_list (kids a)) ∧
  any octets_ok (sel davp_omc_id (kids a)) ∧
  any address_ok (sel davp_trace_collection_entity (kids a)) ∧
  at_most_once valid_GxMdtConfiguration (sel davp_mdt_configuration (kids a)).

Definition kinds_GxTraceData : list kind := [
    K_octets davp_trace_reference;
    K_value davp_trace_depth int32_t v_i32;
    K_octets davp_trace_ne_type_list;
    K_octets davp_trace_interface_list;
    K_octets davp_trace_event_list;
    K_octets davp_omc_id;
    K_address davp_trace_collection_entity;
    K_struct davp_mdt_configuration valid_GxMdtConfiguration].
Definition fills_GxTraceData (o : occurrences) : list kind := [].

#[export] Instance GxTraceData_parse : ParseOk parseGxTraceData zero_GxTraceData read_GxTraceData valid_GxTraceData good_GxTraceData.
Proof. parse_ok build_GxTraceData kinds_GxTraceData fills_GxTraceData. Qed.

Definition build_GxUserCsgInformation (o : occurrences) (m : davp -> option (list avp)) : GxUserCsgInformation :=
  mk_GxUserCsgInformation
    (presence_bits [some_met (o davp_csg_id); some_met (o davp_csg_access_mode); some_met (o davp_csg_membership_indication)])
    (value_in v_u32 (o davp_csg_id))
    (value_in v_i32 (o davp_csg_access_mode))
    (value_in v_i32 (o davp_csg_membership_indication)).

Definition read_GxUserCsgInformation (a : avp) : GxUserCsgInformation := build_GxUserCsgInformation (occ (kids a)) (allocated (occ (kids a))).

Definition valid_GxUserCsgInformation (a : avp) : Prop :=
  browse a = Browsed (kids a) true ∧
  any (value_ok uint32_t v_u32) (sel davp_csg_id (kids a)) ∧
  any (value_ok int32_t v_i32) (sel davp_csg_access_mode (kids a)) ∧
  any (value_ok int32_t v_i32) (sel davp_csg_membership_indication (kids a)).

Definition kinds_GxUserCsgInformation : list kind := [
    K_value davp_csg_id uint32_t v_u32;
    K_value davp_csg_access_mode int32_t v_i32;
    K_value davp_csg_membership_indication int32_t v_i32].
Definition fills_GxUserCsgInformation (o : occurrences) : list kind := [].

#[export] Instance GxUserCsgInformation_parse : ParseOk parseGxUserCsgInformation zero_GxUserCsgInformation read_GxUserCsgInformation valid_GxUserCsgInformation good_GxUserCsgInformation.
Proof. parse_ok build_GxUserCsgInformation kinds_GxUserCsgInformation fills_GxUserCsgInformation. Qed.

Definition build_GxEventReportIndication (o : occurrences) (m : davp -> option (list avp)) : GxEventReportIndication :=
  mk_GxEventReportIndication
    (presence_bits [some_met (o davp_an_trusted); some_met (o davp_event_trigger); some_met (o davp_user_csg_information); some_met (o davp_ip_can_type); some_met (o davp_an_gw_address); some_met (o davp_3gpp_sgsn_address); some_met (o davp_3gpp_sgsn_ipv6_address); some_met (o davp_3gpp_sgsn_mcc_mnc); some_met (o davp_framed_ip_address); some_met (o davp_rat_type); some_met (o davp_rai); some_met (o davp_3gpp_user_location_info); some_met (o davp_trace_data); some_met (o davp_trace_reference); some_met (o davp_3gpp2_bsid); some_met (o davp_3gpp_ms_timezone); some_met (o davp_routing_ip_address); some_met (o davp_ue_local_ip_address); some_met (o davp_henb_local_ip_address); some_met (o davp_udp_source_port); some_met (o davp_presence_reporting_area_information)])
    (value_in v_i32 (o davp_an_trusted))
    (list_in 0 (read_value v_i32) (o davp_event_trigger) (m davp_event_trigger))
    (struct_in zero_GxUserCsgInformation read_GxUserCsgInformation (o davp_user_csg_information))
    (value_in v_i32 (o davp_ip_can_type))
    (list_in zero_address read_address (o davp_an_gw_address) (m davp_an_gw_address))
    (octets_in GX_3GPP_SGSN_ADDRESS_LEN (o davp_3gpp_sgsn_address))
    (octets_in GX_3GPP_SGSN_IPV6_ADDRESS_LEN (o davp_3gpp_sgsn_ipv6_address))
    (octets_in GX_3GPP_SGSN_MCC_MNC_LEN (o davp_3gpp_sgsn_mcc_mnc))
    (octets_in GX_FRAMED_IP_ADDRESS_LEN (o davp_framed_ip_address))
    (value_in v_i32 (o davp_rat_type))
    (octets_in GX_RAI_LEN (o davp_rai))
    (octets_in GX_3GPP_USER_LOCATION_INFO_LEN (o davp_3gpp_user_location_info))
    (struct_in zero_GxTraceData read_GxTraceData (o davp_trace_data))
    (octets_in GX_TRACE_REFERENCE_LEN (o davp_trace_reference))
    (octets_in GX_3GPP2_BSID_LEN (o davp_3gpp2_bsid))
    (octets_in GX_3GPP_MS_TIMEZONE_LEN (o davp_3gpp_ms_timezone))
    (address_in (o davp_routing_ip_address))
    (address_in (o davp_ue_local_ip_address))
    (address_in (o davp_henb_local_ip_address))
    (value_in v_u32 (o davp_udp_source_port))
    (struct_in zero_GxPresenceReportingAreaInformation read_GxPresenceReportingAreaInformation (o davp_presence_reporting_area_information)).

Definition read_GxEventReportIndication (a : avp) : GxEventReportIndication := build_GxEventReportIndication (occ (kids a)) (allocated (occ (kids a))).

Definition valid_GxEventReportIndication (a : avp) : Prop :=
  browse a = Browsed (kids a) true ∧
  any (value_ok int32_t v_i32) (sel davp_an_trusted (kids a)) ∧
  many (value_ok int32_t v_i32) (sel davp_event_trigger (kids a)) ∧
  at_most_once valid_GxUserCsgInformation (sel davp_user_csg_information (kids a)) ∧
  any (value_ok int32_t v_i32) (sel davp_ip_can_type (kids a)) ∧
  many address_ok (sel davp_an_gw_address (kids a)) ∧
  any octets_ok (sel davp_3gpp_sgsn_address (kids a)) ∧
  any octets_ok (sel davp_3gpp_sgsn_ipv6_address (kids a)) ∧
  any octets_ok (sel davp_3gpp_sgsn_mcc_mnc (kids a)) ∧
  any octets_ok (sel davp_framed_ip_address (kids a)) ∧
  any (value_ok int32_t v_i32) (sel davp_rat_type (kids a)) ∧
  any octets_ok (sel davp_rai (kids a)) ∧
  any octets_ok (sel davp_3gpp_user_location_info (kids a)) ∧
  at_most_once valid_GxTraceData (sel davp_trace_data (kids a)) ∧
  any octets_ok (sel davp_trace_reference (kids a)) ∧
  any octets_ok (sel davp_3gpp2_bsid (kids a)) ∧
  any octets_ok (sel davp_3gpp_ms_timezone (kids a)) ∧
  any address_ok (sel davp_routing_ip_address (kids a)) ∧
  any address_ok (sel davp_ue_local_ip_address (kids a)) ∧
  any address_ok (sel davp_henb_local_ip_address (kids a)) ∧
  any (value_ok uint32_t v_u32) (sel davp_udp_source_port (kids a)) ∧
  at_most_once valid_GxPresenceReportingAreaInformation (sel davp_presence_reporting_area_information (kids a)).

Definition kinds_GxEventReportIndication : list kind := [
    K_value davp_an_trusted int32_t v_i32;
    K_count davp_event_trigger;
    K_struct davp_user_csg_information valid_GxUserCsgInformation;
    K_value davp_ip_can_type int32_t v_i32;
    K_count davp_an_gw_address;
    K_octets davp_3gpp_sgsn_address;
    K_octets davp_3gpp_sgsn_ipv6_address;
    K_octets davp_3gpp_sgsn_mcc_mnc;
    K_octets davp_framed_ip_address;
    K_value davp_rat_type int32_t v_i32;
    K_octets davp_rai;
    K_octets davp_3gpp_user_location_info;
    K_struct davp_trace_data valid_GxTraceData;
    K_octets davp_trace_reference;
    K_octets davp_3gpp2_bsid;
    K_octets davp_3gpp_ms_timezone;
    K_address davp_routing_ip_address;
    K_address davp_ue_local_ip_address;
    K_address davp_henb_local_ip_address;
    K_value davp_udp_source_port uint32_t v_u32;
    K_struct davp_presence_reporting_area_information valid_GxPresenceReportingAreaInformation].
Definition fills_GxEventReportIndication (o : occurrences) : list kind := [
    K_fill davp_event_trigger (value_ok int32_t v_i32) (length (o davp_event_trigger));
    K_fill davp_an_gw_address address_ok (length (o davp_an_gw_address))].

#[export] Instance GxEventReportIndication_parse : ParseOk parseGxEventReportIndication zero_GxEventReportIndication read_GxEventReportIndication valid_GxEventReportIndication good_GxEventReportIndication.
Proof. parse_ok build_GxEventReportIndication kinds_GxEventReportIndication fills_GxEventReportIndication. Qed.

Definition build_GxFlowInformation (o : occurrences) (m : davp -> option (list avp)) : GxFlowInformation :=
  mk_GxFlowInformation
    (presence_bits [some_met (o davp_flow_description); some_met (o davp_packet_filter_identifier); some_met (o davp_packet_filter_usage); some_met (o davp_tos_traffic_class); some_met (o davp_security_parameter_index); some_met (o davp_flow_label); some_met (o davp_flow_direction); some_met (o davp_routing_rule_identifier)])
    (octets_in GX_FLOW_DESCRIPTION_LEN (o davp_flow_description))
    (octets_in GX_PACKET_FILTER_IDENTIFIER_LEN (o davp_packet_filter_identifier))
    (value_in v_i32 (o davp_packet_filter_usage))
    (octets_in GX_TOS_TRAFFIC_CLASS_LEN (o davp_tos_traffic_class))
    (octets_in GX_SECURITY_PARAMETER_INDEX_LEN (o davp_security_parameter_index))
    (octets_in GX_FLOW_LABEL_LEN (o davp_flow_label))
    (value_in v_i32 (o davp_flow_direction))
    (octets_in GX_ROUTING_RULE_IDENTIFIER_LEN (o davp_routing_rule_identifier)).

Definition read_GxFlowInformation (a : avp) : GxFlowInformation := build_GxFlowInformation (occ (kids a)) (allocated (occ (kids a))).

Definition valid_GxFlowInformation (a : avp) : Prop :=
  browse a = Browsed (kids a) true ∧
  any octets_ok (sel davp_flow_description (kids a)) ∧
  any octets_ok (sel davp_packet_filter_identifier (kids a)) ∧
  any (value_ok int32_t v_i32) (sel davp_packet_filter_usage (kids a)) ∧
  any octets_ok (sel davp_tos_traffic_class (kids a)) ∧
  any octets_ok (sel davp_security_parameter_index (kids a)) ∧
  any octets_ok (sel davp_flow_label (kids a)) ∧
  any (value_ok int32_t v_i32) (sel davp_flow_direction (kids a)) ∧
  any octets_ok (sel davp_routing_rule_identifier (kids a)).

Definition kinds_GxFlowInformation : list kind := [
    K_octets davp_flow_description;
    K_octets davp_packet_filter_identifier;
    K_value davp_packet_filter_usage int32_t v_i32;
    K_octets davp_tos_traffic_class;
    K_octets davp_security_parameter_index;
    K_octets davp_flow_label;
    K_value davp_flow_direction int32_t v_i32;
    K_octets davp_routing_rule_identifier].
Definition fills_GxFlowInformation (o : occurrences) : list kind := [].

#[export] Instance GxFlowInformation_parse : ParseOk parseGxFlowInformation zero_GxFlowInformation read_GxFlowInformation valid_GxFlowInformation good_GxFlowInformation.
Proof. parse_ok build_GxFlowInformation kinds_GxFlowInformation fills_GxFlowInformation. Qed.

Definition build_GxApplicationDetectionInformation (o : occurrences) (m : davp -> option (list avp)) : GxApplicationDetectionInformation :=
  mk_GxApplicationDetectionInformation
    (presence_bits [some_met (o davp_tdf_application_identifier); some_met (o davp_tdf_application_instance_identifier); some_met (o davp_flow_information)])
    (octets_in GX_TDF_APPLICATION_IDENTIFIER_LEN (o davp_tdf_application_identifier))
    (octets_in GX_TDF_APPLICATION_INSTANCE_IDENTIFIER_LEN (o davp_tdf_application_instance_identifier))
    (list_in zero_GxFlowInformation read_GxFlowInformation (o davp_flow_information) (m davp_flow_information)).

Definition read_GxApplicationDetectionInformation (a : avp) : GxApplicationDetectionInformation := build_GxApplicationDetectionInformation (occ (kids a)) (allocated (occ (kids a))).

Definition valid_GxApplicationDetectionInformation (a : avp) : Prop :=
  browse a = Browsed (kids a) true ∧
  any octets_ok (sel davp_tdf_application_identifier (kids a)) ∧
  any octets_ok (sel davp_tdf_application_instance_identifier (kids a)) ∧
  many valid_GxFlowInformation (sel davp_flow_information (kids a)).

Definition kinds_GxApplicationDetectionInformation : list kind := [
    K_octets davp_tdf_application_identifier;
    K_octets davp_tdf_application_instance_identifier;
    K_count davp_flow_information].
Definition fills_GxApplicationDetectionInformation (o : occurrences) : list kind := [
    K_fill davp_flow_information valid_GxFlowInformation (length (o davp_flow_information))].

#[export] Instance GxApplicationDetectionInformation_parse : ParseOk parseGxApplicationDetectionInformation zero_GxApplicationDetectionInformation read_GxApplicationDetectionInformation valid_GxApplicationDetectionInformation good_GxApplicationDetectionInformation.
Proof. parse_ok build_GxApplicationDetectionInformation kinds_GxApplicationDetectionInformation fills_GxApplicationDetectionInformation. Qed.

Definition build_GxRedirectServer (o : occurrences) (m : davp -> option (list avp)) : GxRedirectServer :=
  mk_GxRedirectServer
    (presence_bits [some_met (o davp_redirect_address_type); some_met (o davp_redirect_server_address)])
    (value_in v_i32 (o davp_redirect_address_type))
    (octets_in GX_REDIRECT_SERVER_ADDRESS_LEN (o davp_redirect_server_address)).

Definition read_GxRedirectServer (a : avp) : GxRedirectServer := build_GxRedirectServer (occ (kids a)) (allocated (occ (kids a))).

Definition valid_GxRedirectServer (a : avp) : Prop :=
  browse a = Browsed (kids a) true ∧
  any (value_ok int32_t v_i32) (sel davp_redirect_address_type (kids a)) ∧
  any octets_ok (sel davp_redirect_server_address (kids a)).

Definition kinds_GxRedirectServer : list kind := [
    K_value davp_redirect_address_type int32_t v_i32;
    K_octets davp_redirect_server_address].
Definition fills_GxRedirectServer (o : occurrences) : list kind := [].

#[export] Instance GxRedirectServer_parse : ParseOk parseGxRedirectServer zero_GxRedirectServer read_GxRedirectServer valid_GxRedirectServer good_GxRedirectServer.
Proof. parse_ok build_GxRedirectServer kinds_GxRedirectServer fills_GxRedirectServer. Qed.

Definition build_GxFinalUnitIndication (o : occurrences) (m : davp -> option (list avp)) : GxFinalUnitIndication :=
  mk_GxFinalUnitIndication
    (presence_bits [some_met (o davp_final_unit_action); some_met (o davp_restriction_filter_rule); some_met (o davp_filter_id); some_met (o davp_redirect_server)])
    (value_in v_i32 (o davp_final_unit_action))
    (list_in zero_octets (read_octets GX_RESTRICTION_FILTER_RULE_LEN) (o davp_restriction_filter_rule) (m davp_restriction_filter_rule))
    (list_in zero_octets (read_octets GX_FILTER_ID_LEN) (o davp_filter_id) (m davp_filter_id))
    (struct_in zero_GxRedirectServer read_GxRedirectServer (o davp_redirect_server)).

Definition read_GxFinalUnitIndication (a : avp) : GxFinalUnitIndication := build_GxFinalUnitIndication (occ (kids a)) (allocated (occ (kids a))).

Definition valid_GxFinalUnitIndication (a : avp) : Prop :=
  browse a = Browsed (kids a) true ∧
  any (value_ok int32_t v_i32) (sel davp_final_unit_action (kids a)) ∧
  many octets_ok (sel davp_restriction_filter_rule (kids a)) ∧
  many octets_ok (sel davp_filter_id (kids a)) ∧
  at_most_once valid_GxRedirectServer (sel davp_redirect_server (kids a)).

Definition kinds_GxFinalUnitIndication : list kind := [
    K_value davp_final_unit_action int32_t v_i32;
    K_count davp_restriction_filter_rule;
    K_count davp_filter_id;
    K_struct davp_redirect_server valid_GxRedirectServer].
Definition fills_GxFinalUnitIndication (o : occurrences) : list kind := [
    K_fill davp_restriction_filter_rule octets_ok (length (o davp_restriction_filter_rule));
    K_fill davp_filter_id octets_ok (length (o davp_filter_id))].

#[export] Instance GxFinalUnitIndication_parse : ParseOk parseGxFinalUnitIndication zero_GxFinalUnitIndication read_GxFinalUnitIndication valid_GxFinalUnitIndication good_GxFinalUnitIndication.
Proof. parse_ok build_GxFinalUnitIndication kinds_GxFinalUnitIndication fills_GxFinalUnitIndication. Qed.

Definition build_GxChargingRuleReport (o : occurrences) (m : davp -> option (list avp)) : GxChargingRuleReport :=
  mk_GxChargingRuleReport
    (presence_bits [some_met (o davp_charging_rule_name); some_met (o davp_charging_rule_base_name); some_met (o davp_bearer_identifier); some_met (o davp_pcc_rule_status); some_met (o davp_rule_failure_code); some_met (o davp_final_unit_indication); some_met (o davp_ran_nas_release_cause); some_met (o davp_content_version)])
    (list_in zero_octets (read_octets GX_CHARGING_RULE_NAME_LEN) (o davp_charging_rule_name) (m davp_charging_rule_name))
    (list_in zero_octets (read_octets GX_CHARGING_RULE_BASE_NAME_LEN) (o davp_charging_rule_base_name) (m davp_charging_rule_base_name))
    (octets_in GX_BEARER_IDENTIFIER_LEN (o davp_bearer_identifier))
    (value_in v_i32 (o davp_pcc_rule_status))
    (value_in v_i32 (o davp_rule_failure_code))
    (struct_in zero_GxFinalUnitIndication read_GxFinalUnitIndication (o davp_final_unit_indication))
    (list_in zero_octets (read_octets GX_RAN_NAS_RELEASE_CAUSE_LEN) (o davp_ran_nas_release_cause) (m davp_ran_nas_release_cause))
    (list_in 0 (read_value v_u64) (o davp_content_version) (m davp_content_version)).

Definition read_GxChargingRuleReport (a : avp) : GxChargingRuleReport := build_GxChargingRuleReport (occ (kids a)) (allocated (occ (kids a))).

Definition valid_GxChargingRuleReport (a : avp) : Prop :=
  browse a = Browsed (kids a) true ∧
  many octets_ok (sel davp_charging_rule_name (kids a)) ∧
  many octets_ok (sel davp_charging_rule_base_name (kids a)) ∧
  any octets_ok (sel davp_bearer_identifier (kids a)) ∧
  any (value_ok int32_t v_i32) (sel davp_pcc_rule_status (kids a)) ∧
  any (value_ok int32_t v_i32) (sel davp_rule_failure_code (kids a)) ∧
  at_most_once valid_GxFinalUnitIndication (sel davp_final_unit_indication (kids a)) ∧
  many octets_ok (sel davp_ran_nas_release_cause (kids a)) ∧
  many (value_ok uint64_t v_u64) (sel davp_content_version (kids a)).

Definition kinds_GxChargingRuleReport : list kind := [
    K_count davp_charging_rule_name;
    K_count davp_charging_rule_base_name;
    K_octets davp_bearer_identifier;
    K_value davp_pcc_rule_status int32_t v_i32;
    K_value davp_rule_failure_code int32_t v_i32;
    K_struct davp_final_unit_indication valid_GxFinalUnitIndication;
    K_count davp_ran_nas_release_cause;
    K_count davp_content_version].
Definition fills_GxChargingRuleReport (o : occurrences) : list kind := [
    K_fill davp_charging_rule_name octets_ok (length (o davp_charging_rule_name));
    K_fill davp_charging_rule_base_name octets_ok (length (o davp_charging_rule_base_name));
    K_fill davp_ran_nas_release_cause octets_ok (length (o davp_ran_nas_release_cause));
    K_fill davp_content_version (value_ok uint64_t v_u64) (length (o davp_content_version))].

#[export] Instance GxChargingRuleReport_parse : ParseOk parseGxChargingRuleReport zero_GxChargingRuleReport read_GxChargingRuleReport valid_GxChargingRuleReport good_GxChargingRuleReport.
Proof. parse_ok build_GxChargingRuleReport kinds_GxChargingRuleReport fills_GxChargingRuleReport. Qed.

Definition build_GxTftPacketFilterInformation (o : occurrences) (m : davp -> option (list avp)) : GxTftPacketFilterInformation :=
  mk_GxTftPacketFilterInformation
    (presence_bits [some_met (o davp_precedence); some_met (o davp_tft_filter); some_met (o davp_tos_traffic_class); some_met (o davp_security_parameter_index); some_met (o davp_flow_label); some_met (o davp_flow_direction)])
    (value_in v_u32 (o davp_precedence))
    (octets_in GX_TFT_FILTER_LEN (o davp_tft_filter))
    (octets_in GX_TOS_TRAFFIC_CLASS_LEN (o davp_tos_traffic_class))
    (octets_in GX_SECURITY_PARAMETER_INDEX_LEN (o davp_security_parameter_index))
    (octets_in GX_FLOW_LABEL_LEN (o davp_flow_label))
    (value_in v_i32 (o davp_flow_direction)).

Definition read_GxTftPacketFilterInformation (a : avp) : GxTftPacketFilterInformation := build_GxTftPacketFilterInformation (occ (kids a)) (allocated (occ (kids a))).

Definition valid_GxTftPacketFilterInformation (a : avp) : Prop :=
  browse a = Browsed (kids a) true ∧
  any (value_ok uint32_t v_u32) (sel davp_precedence (kids a)) ∧
  any octets_ok (sel davp_tft_filter (kids a)) ∧
  any octets_ok (sel davp_tos_traffic_class (kids a)) ∧
  any octets_ok (sel davp_security_parameter_index (kids a)) ∧
  any octets_ok (sel davp_flow_label (kids a)) ∧
  any (value_ok int32_t v_i32) (sel davp_flow_direction (kids a)).

Definition kinds_GxTftPacketFilterInformation : list kind := [
    K_value davp_precedence uint32_t v_u32;
    K_octets davp_tft_filter;
    K_octets davp_tos_traffic_class;
    K_octets davp_security_parameter_index;
    K_octets davp_flow_label;
    K_value davp_flow_direction int32_t v_i32].
Definition fills_GxTftPacketFilterInformation (o : occurrences) : list kind := [].

#[export] Instance GxTftPacketFilterInformation_parse : ParseOk parseGxTftPacketFilterInformation zero_GxTftPacketFilterInformation read_GxTftPacketFilterInformation valid_GxTftPacketFilterInformation good_GxTftPacketFilterInformation.
Proof. parse_ok build_GxTftPacketFilterInformation kinds_GxTftPacketFilterInformation fills_GxTftPacketFilterInformation. Qed.

Definition build_GxFixedUserLocationInfo (o : occurrences) (m : davp -> option (list avp)) : GxFixedUserLocationInfo :=
  mk_GxFixedUserLocationInfo
    (presence_bits [some_met (o davp_ssid); some_met (o davp_bssid); some_met (o davp_logical_access_id); some_met (o davp_physical_access_id)])
    (octets_in GX_SSID_LEN (o davp_ssid))
    (octets_in GX_BSSID_LEN (o davp_bssid))
    (octets_in GX_LOGICAL_ACCESS_ID_LEN (o davp_logical_access_id))
    (octets_in GX_PHYSICAL_ACCESS_ID_LEN (o davp_physical_access_id)).

Definition read_GxFixedUserLocationInfo (a : avp) : GxFixedUserLocationInfo := build_GxFixedUserLocationInfo (occ (kids a)) (allocated (occ (kids a))).

Definition valid_GxFixedUserLocationInfo (a : avp) : Prop :=
  browse a = Browsed (kids a) true ∧
  any octets_ok (sel davp_ssid (kids a)) ∧
  any octets_ok (sel davp_bssid (kids a)) ∧
  any octets_ok (sel davp_logical_access_id (kids a)) ∧
  any octets_ok (sel davp_physical_access_id (kids a)).

Definition kinds_GxFixedUserLocationInfo : list kind := [
    K_octets davp_ssid;
    K_octets davp_bssid;
    K_octets davp_logical_access_id;
    K_octets davp_physical_access_id].
Definition fills_GxFixedUserLocationInfo (o : occurrences) : list kind := [].

#[export] Instance GxFixedUserLocationInfo_parse : ParseOk parseGxFixedUserLocationInfo zero_GxFixedUserLocationInfo read_GxFixedUserLocationInfo valid_GxFixedUserLocationInfo good_GxFixedUserLocationInfo.
Proof. parse_ok build_GxFixedUserLocationInfo kinds_GxFixedUserLocationInfo fills_GxFixedUserLocationInfo. Qed.

Definition build_GxDefaultQosInformation (o : occurrences) (m : davp -> option (list avp)) : GxDefaultQosInformation :=
  mk_GxDefaultQosInformation
    (presence_bits [some_met (o davp_qos_class_identifier); some_met (o davp_max_requested_bandwidth_ul); some_met (o davp_max_requested_bandwidth_dl); some_met (o davp_default_qos_name)])
    (value_in v_i32 (o davp_qos_class_identifier))
    (value_in v_u32 (o davp_max_requested_bandwidth_ul))
    (value_in v_u32 (o davp_max_requested_bandwidth_dl))
    (octets_in GX_DEFAULT_QOS_NAME_LEN (o davp_default_qos_name)).

Definition read_GxDefaultQosInformation (a : avp) : GxDefaultQosInformation := build_GxDefaultQosInformation (occ (kids a)) (allocated (occ (kids a))).

Definition valid_GxDefaultQosInformation (a : avp) : Prop :=
  browse a = Browsed (kids a) true ∧
  any (value_ok int32_t v_i32) (sel davp_qos_class_identifier (kids a)) ∧
  any (value_ok uint32_t v_u32) (sel davp_max_requested_bandwidth_ul (kids a)) ∧
  any (value_ok uint32_t v_u32) (sel davp_max_requested_bandwidth_dl (kids a)) ∧
  any octets_ok (sel davp_default_qos_name (kids a)).

Definition kinds_GxDefaultQosInformation : list kind := [
    K_value davp_qos_class_identifier int32_t v_i32;
    K_value davp_max_requested_bandwidth_ul uint32_t v_u32;
    K_value davp_max_requested_bandwidth_dl uint32_t v_u32;
    K_octets davp_default_qos_name].
Definition fills_GxDefaultQosInformation (o : occurrences) : list kind := [].

#[export] Instance GxDefaultQosInformation_parse : ParseOk parseGxDefaultQosInformation zero_GxDefaultQosInformation read_GxDefaultQosInformation valid_GxDefaultQosInformation good_GxDefaultQosInformation.
Proof. parse_ok build_GxDefaultQosInformation kinds_GxDefaultQosInformation fills_GxDefaultQosInformation. Qed.

Definition build_GxAllocationRetentionPriority (o : occurrences) (m : davp -> option (list avp)) : GxAllocationRetentionPriority :=
  mk_GxAllocationRetentionPriority
    (presence_bits [some_met (o davp_priority_level); some_met (o davp_pre_emption_capability); some_met (o davp_pre_emption_vulnerability)])
    (value_in v_u32 (o davp_priority_level))
    (value_in v_i32 (o davp_pre_emption_capability))
    (value_in v_i32 (o davp_pre_emption_vulnerability)).

Definition read_GxAllocationRetentionPriority (a : avp) : GxAllocationRetentionPriority := build_GxAllocationRetentionPriority (occ (kids a)) (allocated (occ (kids a))).

Definition valid_GxAllocationRetentionPriority (a : avp) : Prop :=
  browse a = Browsed (kids a) true ∧
  any (value_ok uint32_t v_u32) (sel davp_priority_level (kids a)) ∧
  any (value_ok int32_t v_i32) (sel davp_pre_emption_capability (kids a)) ∧
  any (value_ok int32_t v_i32) (sel davp_pre_emption_vulnerability (kids a)).

Definition kinds_GxAllocationRetentionPriority : list kind := [
    K_value davp_priority_level uint32_t v_u32;
    K_value davp_pre_emption_capability int32_t v_i32;
    K_value davp_pre_emption_vulnerability int32_t v_i32].
Definition fills_GxAllocationRetentionPriority (o : occurrences) : list kind := [].

#[export] Instance GxAllocationRetentionPriority_parse : ParseOk parseGxAllocationRetentionPriority zero_GxAllocationRetentionPriority read_GxAllocationRetentionPriority valid_GxAllocationRetentionPriority good_GxAllocationRetentionPriority.
Proof. parse_ok build_GxAllocationRetentionPriority kinds_GxAllocationRetentionPriority fills_GxAllocationRetentionPriority. Qed.

Definition build_GxDefaultEpsBearerQos (o : occurrences) (m : davp -> option (list avp)) : GxDefaultEpsBearerQos :=
  mk_GxDefaultEpsBearerQos
    (presence_bits [some_met (o davp_qos_class_identifier); some_met (o davp_allocation_retention_priority)])
    (value_in v_i32 (o davp_qos_class_identifier))
    (struct_in zero_GxAllocationRetentionPriority read_GxAllocationRetentionPriority (o davp_allocation_retention_priority)).

Definition read_GxDefaultEpsBearerQos (a : avp) : GxDefaultEpsBearerQos := build_GxDefaultEpsBearerQos (occ (kids a)) (allocated (occ (kids a))).

Definition valid_GxDefaultEpsBearerQos (a : avp) : Prop :=
  browse a = Browsed (kids a) true ∧
  any (value_ok int32_t v_i32) (sel davp_qos_class_identifier (kids a)) ∧
  at_most_once valid_GxAllocationRetentionPriority (sel davp_allocation_retention_priority (kids a)).

Definition kinds_GxDefaultEpsBearerQos : list kind := [
    K_value davp_qos_class_identifier int32_t v_i32;
    K_struct davp_allocation_retention_priority valid_GxAllocationRetentionPriority].
Definition fills_GxDefaultEpsBearerQos (o : occurrences) : list kind := [].

#[export] Instance GxDefaultEpsBearerQos_parse : ParseOk parseGxDefaultEpsBearerQos zero_GxDefaultEpsBearerQos read_GxDefaultEpsBearerQos valid_GxDefaultEpsBearerQos good_GxDefaultEpsBearerQos.
Proof. parse_ok build_GxDefaultEpsBearerQos kinds_GxDefaultEpsBearerQos fills_GxDefaultEpsBearerQos. Qed.

Definition build_GxConditionalApnAggregateMaxBitrate (o : occurrences) (m : davp -> option (list avp)) : GxConditionalApnAggregateMaxBitrate :=
  mk_GxConditionalApnAggregateMaxBitrate
    (presence_bits [some_met (o davp_apn_aggregate_max_bitrate_ul); some_met (o davp_apn_aggregate_max_bitrate_dl); some_met (o davp_extended_apn_ambr_ul); some_met (o davp_extended_apn_ambr_dl); some_met (o davp_ip_can_type); some_met (o davp_rat_type)])
    (value_in v_u32 (o davp_apn_aggregate_max_bitrate_ul))
    (value_in v_u32 (o davp_apn_aggregate_max_bitrate_dl))
    (value_in v_u32 (o davp_extended_apn_ambr_ul))
    (value_in v_u32 (o davp_extended_apn_ambr_dl))
    (list_in 0 (read_value v_i32) (o davp_ip_can_type) (m davp_ip_can_type))
    (list_in 0 (read_value v_i32) (o davp_rat_type) (m davp_rat_type)).

Definition read_GxConditionalApnAggregateMaxBitrate (a : avp) : GxConditionalApnAggregateMaxBitrate := build_GxConditionalApnAggregateMaxBitrate (occ (kids a)) (allocated (occ (kids a))).

Definition valid_GxConditionalApnAggregateMaxBitrate (a : avp) : Prop :=
  browse a = Browsed (kids a) true ∧
  any (value_ok uint32_t v_u32) (sel davp_apn_aggregate_max_bitrate_ul (kids a)) ∧
  any (value_ok uint32_t v_u32) (sel davp_apn_aggregate_max_bitrate_dl (kids a)) ∧
  any (value_ok uint32_t v_u32) (sel davp_extended_apn_ambr_ul (kids a)) ∧
  any (value_ok uint32_t v_u32) (sel davp_extended_apn_ambr_dl (kids a)) ∧
  many (value_ok int32_t v_i32) (sel davp_ip_can_type (kids a)) ∧
  many (value_ok int32_t v_i32) (sel davp_rat_type (kids a)).

Definition kinds_GxConditionalApnAggregateMaxBitrate : list kind := [
    K_value davp_apn_aggregate_max_bitrate_ul uint32_t v_u32;
    K_value davp_apn_aggregate_max_bitrate_dl uint32_t v_u32;
    K_value davp_extended_apn_ambr_ul uint32_t v_u32;
    K_value davp_extended_apn_ambr_dl uint32_t v_u32;
    K_count davp_ip_can_type;
    K_count davp_rat_type].
Definition fills_GxConditionalApnAggregateMaxBitrate (o : occurrences) : list kind := [
    K_fill davp_ip_can_type (value_ok int32_t v_i32) (length (o davp_ip_can_type));
    K_fill davp_rat_type (value_ok int32_t v_i32) (length (o davp_rat_type))].

#[export] Instance GxConditionalApnAggregateMaxBitrate_parse : ParseOk parseGxConditionalApnAggregateMaxBitrate zero_GxConditionalApnAggregateMaxBitrate read_GxConditionalApnAggregateMaxBitrate valid_GxConditionalApnAggregateMaxBitrate good_GxConditionalApnAggregateMaxBitrate.
Proof. parse_ok build_GxConditionalApnAggregateMaxBitrate kinds_GxConditionalApnAggregateMaxBitrate fills_GxConditionalApnAggregateMaxBitrate. Qed.

Definition build_GxQosInformation (o : occurrences) (m : davp -> option (list avp)) : GxQosInformation :=
  mk_GxQosInformation
    (presence_bits [some_met (o davp_qos_class_identifier); some_met (o davp_max_requested_bandwidth_ul); some_met (o davp_max_requested_bandwidth_dl); some_met (o davp_extended_max_requested_bw_ul); some_met (o davp_extended_max_requested_bw_dl); some_met (o davp_guaranteed_bitrate_ul); some_met (o davp_guaranteed_bitrate_dl); some_met (o davp_extended_gbr_ul); some_met (o davp_extended_gbr_dl); some_met (o davp_bearer_identifier); some_met (o davp_allocation_retention_priority); some_met (o davp_apn_aggregate_max_bitrate_ul); some_met (o davp_apn_aggregate_max_bitrate_dl); some_met (o davp_extended_apn_ambr_ul); some_met (o davp_extended_apn_ambr_dl); some_met (o davp_conditional_apn_aggregate_max_bitrate)])
    (value_in v_i32 (o davp_qos_class_identifier))
    (value_in v_u32 (o davp_max_requested_bandwidth_ul))
    (value_in v_u32 (o davp_max_requested_bandwidth_dl))
    (value_in v_u32 (o davp_extended_max_requested_bw_ul))
    (value_in v_u32 (o davp_extended_max_requested_bw_dl))
    (value_in v_u32 (o davp_guaranteed_bitrate_ul))
    (value_in v_u32 (o davp_guaranteed_bitrate_dl))
    (value_in v_u32 (o davp_extended_gbr_ul))
    (value_in v_u32 (o davp_extended_gbr_dl))
    (octets_in GX_BEARER_IDENTIFIER_LEN (o davp_bearer_identifier))
    (struct_in zero_GxAllocationRetentionPriority read_GxAllocationRetentionPriority (o davp_allocation_retention_priority))
    (value_in v_u32 (o davp_apn_aggregate_max_bitrate_ul))
    (value_in v_u32 (o davp_apn_aggregate_max_bitrate_dl))
    (value_in v_u32 (o davp_extended_apn_ambr_ul))
    (value_in v_u32 (o davp_extended_apn_ambr_dl))
    (list_in zero_GxConditionalApnAggregateMaxBitrate read_GxConditionalApnAggregateMaxBitrate (o davp_conditional_apn_aggregate_max_bitrate) (m davp_conditional_apn_aggregate_max_bitrate)).

Definition read_GxQosInformation (a : avp) : GxQosInformation := build_GxQosInformation (occ (kids a)) (allocated (occ (kids a))).

Definition valid_GxQosInformation (a : avp) : Prop :=
  browse a = Browsed (kids a) true ∧
  any (value_ok int32_t v_i32) (sel davp_qos_class_identifier (kids a)) ∧
  any (value_ok uint32_t v_u32) (sel davp_max_requested_bandwidth_ul (kids a)) ∧
  any (value_ok uint32_t v_u32) (sel davp_max_requested_bandwidth_dl (kids a)) ∧
  any (value_ok uint32_t v_u32) (sel davp_extended_max_requested_bw_ul (kids a)) ∧
  any (value_ok uint32_t v_u32) (sel davp_extended_max_requested_bw_dl (kids a)) ∧
  any (value_ok uint32_t v_u32) (sel davp_guaranteed_bitrate_ul (kids a)) ∧
  any (value_ok uint32_t v_u32) (sel davp_guaranteed_bitrate_dl (kids a)) ∧
  any (value_ok uint32_t v_u32) (sel davp_extended_gbr_ul (kids a)) ∧
  any (value_ok uint32_t v_u32) (sel davp_extended_gbr_dl (kids a)) ∧
  any octets_ok (sel davp_bearer_identifier (kids a)) ∧
  at_most_once valid_GxAllocationRetentionPriority (sel davp_allocation_retention_priority (kids a)) ∧
  any (value_ok uint32_t v_u32) (sel davp_apn_aggregate_max_bitrate_ul (kids a)) ∧
  any (value_ok uint32_t v_u32) (sel davp_apn_aggregate_max_bitrate_dl (kids a)) ∧
  any (value_ok uint32_t v_u32) (sel davp_extended_apn_ambr_ul (kids a)) ∧
  any (value_ok uint32_t v_u32) (sel davp_extended_apn_ambr_dl (kids a)) ∧
  many valid_GxConditionalApnAggregateMaxBitrate (sel davp_conditional_apn_aggregate_max_bitrate (kids a)).

Definition kinds_GxQosInformation : list kind := [
    K_value davp_qos_class_identifier int32_t v_i32;
    K_value davp_max_requested_bandwidth_ul uint32_t v_u32;
    K_value davp_max_requested_bandwidth_dl uint32_t v_u32;
    K_value davp_extended_max_requested_bw_ul uint32_t v_u32;
    K_value davp_extended_max_requested_bw_dl uint32_t v_u32;
    K_value davp_guaranteed_bitrate_ul uint32_t v_u32;
    K_value davp_guaranteed_bitrate_dl uint32_t v_u32;
    K_value davp_extended_gbr_ul uint32_t v_u32;
    K_value davp_extended_gbr_dl uint32_t v_u32;
    K_octets davp_bearer_identifier;
    K_struct davp_allocation_retention_priority valid_GxAllocationRetentionPriority;
    K_value davp_apn_aggregate_max_bitrate_ul uint32_t v_u32;
    K_value davp_apn_aggregate_max_bitrate_dl uint32_t v_u32;
    K_value davp_extended_apn_ambr_ul uint32_t v_u32;
    K_value davp_extended_apn_ambr_dl uint32_t v_u32;
    K_count davp_conditional_apn_aggregate_max_bitrate].
Definition fills_GxQosInformation (o : occurrences) : list kind := [
    K_fill davp_conditional_apn_aggregate_max_bitrate valid_GxConditionalApnAggregateMaxBitrate (length (o davp_conditional_apn_aggregate_max_bitrate))].

#[export] Instance GxQosInformation_parse : ParseOk parseGxQosInformation zero_GxQosInformation read_GxQosInformation valid_GxQosInformation good_GxQosInformation.
Proof. parse_ok build_GxQosInformation kinds_GxQosInformation fills_GxQosInformation. Qed.

Definition build_GxUserEquipmentInfo (o : occurrences) (m : davp -> option (list avp)) : GxUserEquipmentInfo :=
  mk_GxUserEquipmentInfo
    (presence_bits [some_met (o davp_user_equipment_info_type); some_met (o davp_user_equipment_info_value)])
    (value_in v_i32 (o davp_user_equipment_info_type))
    (octets_in GX_USER_EQUIPMENT_INFO_VALUE_LEN (o davp_user_equipment_info_value)).

Definition read_GxUserEquipmentInfo (a : avp) : GxUserEquipmentInfo := build_GxUserEquipmentInfo (occ (kids a)) (allocated (occ (kids a))).

Definition valid_GxUserEquipmentInfo (a : avp) : Prop :=
  browse a = Browsed (kids a) true ∧
  any (value_ok int32_t v_i32) (sel davp_user_equipment_info_type (kids a)) ∧
  any octets_ok (sel davp_user_equipment_info_value (kids a)).

Definition kinds_GxUserEquipmentInfo : list kind := [
    K_value davp_user_equipment_info_type int32_t v_i32;
    K_octets davp_user_equipment_info_value].
Definition fills_GxUserEquipmentInfo (o : occurrences) : list kind := [].

#[export] Instance GxUserEquipmentInfo_parse : ParseOk parseGxUserEquipmentInfo zero_GxUserEquipmentInfo read_GxUserEquipmentInfo valid_GxUserEquipmentInfo good_GxUserEquipmentInfo.
Proof. parse_ok build_GxUserEquipmentInfo kinds_GxUserEquipmentInfo fills_GxUserEquipmentInfo. Qed.

Definition build_GxPacketFilterInformation (o : occurrences) (m : davp -> option (list avp)) : GxPacketFilterInformation :=
  mk_GxPacketFilterInformation
    (presence_bits [some_met (o davp_packet_filter_identifier); some_met (o davp_precedence); some_met (o davp_packet_filter_content); some_met (o davp_tos_traffic_class); some_met (o davp_security_parameter_index); some_met (o davp_flow_label); some_met (o davp_flow_direction)])
    (octets_in GX_PACKET_FILTER_IDENTIFIER_LEN (o davp_packet_filter_identifier))
    (value_in v_u32 (o davp_precedence))
    (octets_in GX_PACKET_FILTER_CONTENT_LEN (o davp_packet_filter_content))
    (octets_in GX_TOS_TRAFFIC_CLASS_LEN (o davp_tos_traffic_class))
    (octets_in GX_SECURITY_PARAMETER_INDEX_LEN (o davp_security_parameter_index))
    (octets_in GX_FLOW_LABEL_LEN (o davp_flow_label))
    (value_in v_i32 (o davp_flow_direction)).

Definition read_GxPacketFilterInformation (a : avp) : GxPacketFilterInformation := build_GxPacketFilterInformation (occ (kids a)) (allocated (occ (kids a))).

Definition valid_GxPacketFilterInformation (a : avp) : Prop :=
  browse a = Browsed (kids a) true ∧
  any octets_ok (sel davp_packet_filter_identifier (kids a)) ∧
  any (value_ok uint32_t v_u32) (sel davp_precedence (kids a)) ∧
  any octets_ok (sel davp_packet_filter_content (kids a)) ∧
  any octets_ok (sel davp_tos_traffic_class (kids a)) ∧
  any octets_ok (sel davp_security_parameter_index (kids a)) ∧
  any octets_ok (sel davp_flow_label (kids a)) ∧
  any (value_ok int32_t v_i32) (sel davp_flow_direction (kids a)).

Definition kinds_GxPacketFilterInformation : list kind := [
    K_octets davp_packet_filter_identifier;
    K_value davp_precedence uint32_t v_u32;
    K_octets davp_packet_filter_content;
    K_octets davp_tos_traffic_class;
    K_octets davp_security_parameter_index;
    K_octets davp_flow_label;
    K_value davp_flow_direction int32_t v_i32].
Definition fills_GxPacketFilterInformation (o : occurrences) : list kind := [].

#[export] Instance GxPacketFilterInformation_parse : ParseOk parseGxPacketFilterInformation zero_GxPacketFilterInformation read_GxPacketFilterInformation valid_GxPacketFilterInformation good_GxPacketFilterInformation.
Proof. parse_ok build_GxPacketFilterInformation kinds_GxPacketFilterInformation fills_GxPacketFilterInformation. Qed.

Definition build_GxTdfInformation (o : occurrences) (m : davp -> option (list avp)) : GxTdfInformation :=
  mk_GxTdfInformation
    (presence_bits [some_met (o davp_tdf_destination_realm); some_met (o davp_tdf_destination_host); some_met (o davp_tdf_ip_address)])
    (octets_in GX_TDF_DESTINATION_REALM_LEN (o davp_tdf_destination_realm))
    (octets_in GX_TDF_DESTINATION_HOST_LEN (o davp_tdf_destination_host))
    (address_in (o davp_tdf_ip_address)).

Definition read_GxTdfInformation (a : avp) : GxTdfInformation := build_GxTdfInformation (occ (kids a)) (allocated (occ (kids a))).

Definition valid_GxTdfInformation (a : avp) : Prop :=
  browse a = Browsed (kids a) true ∧
  any octets_ok (sel davp_tdf_destination_realm (kids a)) ∧
  any octets_ok (sel davp_tdf_destination_host (kids a)) ∧
  any address_ok (sel davp_tdf_ip_address (kids a)).

Definition kinds_GxTdfInformation : list kind := [
    K_octets davp_tdf_destination_realm;
    K_octets davp_tdf_destination_host;
    K_address davp_tdf_ip_address].
Definition fills_GxTdfInformation (o : occurrences) : list kind := [].

#[export] Instance GxTdfInformation_parse : ParseOk parseGxTdfInformation zero_GxTdfInformation read_GxTdfInformation valid_GxTdfInformation good_GxTdfInformation.
Proof. parse_ok build_GxTdfInformation kinds_GxTdfInformation fills_GxTdfInformation. Qed.

Definition build_GxSupportedFeatures (o : occurrences) (m : davp -> option (list avp)) : GxSupportedFeatures :=
  mk_GxSupportedFeatures
    (presence_bits [some_met (o davp_vendor_id); some_met (o davp_feature_list_id); some_met (o davp_feature_list)])
    (value_in v_u32 (o davp_vendor_id))
    (value_in v_u32 (o davp_feature_list_id))
    (value_in v_u32 (o davp_feature_list)).

Definition read_GxSupportedFeatures (a : avp) : GxSupportedFeatures := build_GxSupportedFeatures (occ (kids a)) (allocated (occ (kids a))).

Definition valid_GxSupportedFeatures (a : avp) : Prop :=
  browse a = Browsed (kids a) true ∧
  any (value_ok uint32_t v_u32) (sel davp_vendor_id (kids a)) ∧
  any (value_ok uint32_t v_u32) (sel davp_feature_list_id (kids a)) ∧
  any (value_ok uint32_t v_u32) (sel davp_feature_list (kids a)).

Definition kinds_GxSupportedFeatures : list kind := [
    K_value davp_vendor_id uint32_t v_u32;
    K_value davp_feature_list_id uint32_t v_u32;
    K_value davp_feature_list uint32_t v_u32].
Definition fills_GxSupportedFeatures (o : occurrences) : list kind := [].

#[export] Instance GxSupportedFeatures_parse : ParseOk parseGxSupportedFeatures zero_GxSupportedFeatures read_GxSupportedFeatures valid_GxSupportedFeatures good_GxSupportedFeatures.
Proof. parse_ok build_GxSupportedFeatures kinds_GxSupportedFeatures fills_GxSupportedFeatures. Qed.

Definition build_GxOcSupportedFeatures (o : occurrences) (m : davp -> option (list avp)) : GxOcSupportedFeatures :=
  mk_GxOcSupportedFeatures
    (presence_bits [some_met (o davp_oc_feature_vector)])
    (value_in v_u64 (o davp_oc_feature_vector)).

Definition read_GxOcSupportedFeatures (a : avp) : GxOcSupportedFeatures := build_GxOcSupportedFeatures (occ (kids a)) (allocated (occ (kids a))).

Definition valid_GxOcSupportedFeatures (a : avp) : Prop :=
  browse a = Browsed (kids a) true ∧
  any (value_ok uint64_t v_u64) (sel davp_oc_feature_vector (kids a)).

Definition kinds_GxOcSupportedFeatures : list kind := [
    K_value davp_oc_feature_vector uint64_t v_u64].
Definition fills_GxOcSupportedFeatures (o : occurrences) : list kind := [].

#[export] Instance GxOcSupportedFeatures_parse : ParseOk parseGxOcSupportedFeatures zero_GxOcSupportedFeatures read_GxOcSupportedFeatures valid_GxOcSupportedFeatures good_GxOcSupportedFeatures.
Proof. parse_ok build_GxOcSupportedFeatures kinds_GxOcSupportedFeatures fills_GxOcSupportedFeatures. Qed.

Definition build_GxSubscriptionId (o : occurrences) (m : davp -> option (list avp)) : GxSubscriptionId :=
  mk_GxSubscriptionId
    (presence_bits [some_met (o davp_subscription_id_type); some_met (o davp_subscription_id_data)])
    (value_in v_i32 (o davp_subscription_id_type))
    (octets_in GX_SUBSCRIPTION_ID_DATA_LEN (o davp_subscription_id_data)).

Definition read_GxSubscriptionId (a : avp) : GxSubscriptionId := build_GxSubscriptionId (occ (kids a)) (allocated (occ (kids a))).

Definition valid_GxSubscriptionId (a : avp) : Prop :=
  browse a = Browsed (kids a) true ∧
  any (value_ok int32_t v_i32) (sel davp_subscription_id_type (kids a)) ∧
  any octets_ok (sel davp_subscription_id_data (kids a)).

Definition kinds_GxSubscriptionId : list kind := [
    K_value davp_subscription_id_type int32_t v_i32;
    K_octets davp_subscription_id_data].
Definition fills_GxSubscriptionId (o : occurrences) : list kind := [].

#[export] Instance GxSubscriptionId_parse : ParseOk parseGxSubscriptionId zero_GxSubscriptionId read_GxSubscriptionId valid_GxSubscriptionId good_GxSubscriptionId.
Proof. parse_ok build_GxSubscriptionId kinds_GxSubscriptionId fills_GxSubscriptionId. Qed.

Definition build_GxCCR (o : occurrences) (m : davp -> option (list avp)) : GxCCR :=
  mk_GxCCR
    (presence_bits [some_met (o davp_session_id); some_met (o davp_drmp); some_met (o davp_auth_application_id); some_met (o davp_origin_host); some_met (o davp_origin_realm); some_met (o davp_destination_realm); some_met (o davp_service_context_id); some_met (o davp_cc_request_type); some_met (o davp_cc_request_number); some_met (o davp_credit_management_status); some_met (o davp_destination_host); some_met (o davp_origin_state_id); some_met (o davp_subscription_id); some_met (o davp_oc_supported_features); some_met (o davp_supported_features); some_met (o davp_tdf_information); some_met (o davp_network_request_support); some_met (o davp_packet_filter_information); some_met (o davp_packet_filter_operation); some_met (o davp_bearer_identifier); some_met (o davp_bearer_operation); some_met (o davp_dynamic_address_flag); some_met (o davp_dynamic_address_flag_extension); some_met (o davp_pdn_connection_charging_id); some_met (o davp_framed_ip_address); some_met (o davp_framed_ipv6_prefix); some_met (o davp_ip_can_type); some_met (o davp_3gpp_rat_type); some_met (o davp_an_trusted); some_met (o davp_rat_type); some_met (o davp_termination_cause); some_met (o davp_user_equipment_info); some_met (o davp_qos_information); some_met (o davp_qos_negotiation); some_met (o davp_qos_upgrade); some_met (o davp_default_eps_bearer_qos); some_met (o davp_default_qos_information); some_met (o davp_an_gw_address); some_met (o davp_an_gw_status); some_met (o davp_3gpp_sgsn_mcc_mnc); some_met (o davp_3gpp_sgsn_address); some_met (o davp_3gpp_sgsn_ipv6_address); some_met (o davp_3gpp_ggsn_address); some_met (o davp_3gpp_ggsn_ipv6_address); some_met (o davp_3gpp_selection_mode); some_met (o davp_rai); some_met (o davp_3gpp_user_location_info); some_met (o davp_fixed_user_location_info); some_met (o davp_user_location_info_time); some_met (o davp_user_csg_information); some_met (o davp_twan_identifier); some_met (o davp_3gpp_ms_timezone); some_met (o davp_ran_nas_release_cause); some_met (o davp_3gpp_charging_characteristics); some_met (o davp_called_station_id); some_met (o davp_pdn_connection_id); some_met (o davp_bearer_usage); some_met (o davp_online); some_met (o davp_offline); some_met (o davp_tft_packet_filter_information); some_met (o davp_charging_rule_report); some_met (o davp_application_detection_information); some_met (o davp_event_trigger); some_met (o davp_event_report_indication); some_met (o davp_access_network_charging_address); some_met (o davp_access_network_charging_identifier_gx); some_met (o davp_coa_information); some_met (o davp_usage_monitoring_information); some_met (o davp_nbifom_support); some_met (o davp_nbifom_mode); some_met (o davp_default_access); some_met (o davp_origination_time_stamp); some_met (o davp_maximum_wait_time); some_met (o davp_access_availability_change_reason); some_met (o davp_routing_rule_install); some_met (o davp_routing_rule_remove); some_met (o davp_henb_local_ip_address); some_met (o davp_ue_local_ip_address); some_met (o davp_udp_source_port); some_met (o davp_tcp_source_port); some_met (o davp_presence_reporting_area_information); some_met (o davp_logical_access_id); some_met (o davp_physical_access_id); some_met (o davp_proxy_info); some_met (o davp_route_record); some_met (o davp_3gpp_ps_data_off_status)])
    (octets_in GX_SESSION_ID_LEN (o davp_session_id))
    (value_in v_i32 (o davp_drmp))
    (value_in v_u32 (o davp_auth_application_id))
    (octets_in GX_ORIGIN_HOST_LEN (o davp_origin_host))
    (octets_in GX_ORIGIN_REALM_LEN (o davp_origin_realm))
    (octets_in GX_DESTINATION_REALM_LEN (o davp_destination_realm))
    (octets_in GX_SERVICE_CONTEXT_ID_LEN (o davp_service_context_id))
    (value_in v_i32 (o davp_cc_request_type))
    (value_in v_u32 (o davp_cc_request_number))
    (value_in v_u32 (o davp_credit_management_status))
    (octets_in GX_DESTINATION_HOST_LEN (o davp_destination_host))
    (value_in v_u32 (o davp_origin_state_id))
    (list_in zero_GxSubscriptionId read_GxSubscriptionId (o davp_subscription_id) (m davp_subscription_id))
    (struct_in zero_GxOcSupportedFeatures read_GxOcSupportedFeatures (o davp_oc_supported_features))
    (list_in zero_GxSupportedFeatures read_GxSupportedFeatures (o davp_supported_features) (m davp_supported_features))
    (struct_in zero_GxTdfInformation read_GxTdfInformation (o davp_tdf_information))
    (value_in v_i32 (o davp_network_request_support))
    (list_in zero_GxPacketFilterInformation read_GxPacketFilterInformation (o davp_packet_filter_information) (m davp_packet_filter_information))
    (value_in v_i32 (o davp_packet_filter_operation))
    (octets_in GX_BEARER_IDENTIFIER_LEN (o davp_bearer_identifier))
    (value_in v_i32 (o davp_bearer_operation))
    (value_in v_i32 (o davp_dynamic_address_flag))
    (value_in v_i32 (o davp_dynamic_address_flag_extension))
    (value_in v_u32 (o davp_pdn_connection_charging_id))
    (octets_in GX_FRAMED_IP_ADDRESS_LEN (o davp_framed_ip_address))
    (octets_in GX_FRAMED_IPV6_PREFIX_LEN (o davp_framed_ipv6_prefix))
    (value_in v_i32 (o davp_ip_can_type))
    (octets_in GX_3GPP_RAT_TYPE_LEN (o davp_3gpp_rat_type))
    (value_in v_i32 (o davp_an_trusted))
    (value_in v_i32 (o davp_rat_type))
    (value_in v_i32 (o davp_termination_cause))
    (struct_in zero_GxUserEquipmentInfo read_GxUserEquipmentInfo (o davp_user_equipment_info))
    (struct_in zero_GxQosInformation read_GxQosInformation (o davp_qos_information))
    (value_in v_i32 (o davp_qos_negotiation))
    (value_in v_i32 (o davp_qos_upgrade))
    (struct_in zero_GxDefaultEpsBearerQos read_GxDefaultEpsBearerQos (o davp_default_eps_bearer_qos))
    (struct_in zero_GxDefaultQosInformation read_GxDefaultQosInformation (o davp_default_qos_information))
    (list_in zero_address read_address (o davp_an_gw_address) (m davp_an_gw_address))
    (value_in v_i32 (o davp_an_gw_status))
    (octets_in GX_3GPP_SGSN_MCC_MNC_LEN (o davp_3gpp_sgsn_mcc_mnc))
    (octets_in GX_3GPP_SGSN_ADDRESS_LEN (o davp_3gpp_sgsn_address))
    (octets_in GX_3GPP_SGSN_IPV6_ADDRESS_LEN (o davp_3gpp_sgsn_ipv6_address))
    (octets_in GX_3GPP_GGSN_ADDRESS_LEN (o davp_3gpp_ggsn_address))
    (octets_in GX_3GPP_GGSN_IPV6_ADDRESS_LEN (o davp_3gpp_ggsn_ipv6_address))
    (octets_in GX_3GPP_SELECTION_MODE_LEN (o davp_3gpp_selection_mode))
    (octets_in GX_RAI_LEN (o davp_rai))
    (octets_in GX_3GPP_USER_LOCATION_INFO_LEN (o davp_3gpp_user_location_info))
    (struct_in zero_GxFixedUserLocationInfo read_GxFixedUserLocationInfo (o davp_fixed_user_location_info))
    (time_in (o davp_user_location_info_time))
    (struct_in zero_GxUserCsgInformation read_GxUserCsgInformation (o davp_user_csg_information))
    (octets_in GX_TWAN_IDENTIFIER_LEN (o davp_twan_identifier))
    (octets_in GX_3GPP_MS_TIMEZONE_LEN (o davp_3gpp_ms_timezone))
    (list_in zero_octets (read_octets GX_RAN_NAS_RELEASE_CAUSE_LEN) (o davp_ran_nas_release_cause) (m davp_ran_nas_release_cause))
    (octets_in GX_3GPP_CHARGING_CHARACTERISTICS_LEN (o davp_3gpp_charging_characteristics))
    (octets_in GX_CALLED_STATION_ID_LEN (o davp_called_station_id))
    (octets_in GX_PDN_CONNECTION_ID_LEN (o davp_pdn_connection_id))
    (value_in v_i32 (o davp_bearer_usage))
    (value_in v_i32 (o davp_online))
    (value_in v_i32 (o davp_offline))
    (list_in zero_GxTftPacketFilterInformation read_GxTftPacketFilterInformation (o davp_tft_packet_filter_information) (m davp_tft_packet_filter_information))
    (list_in zero_GxChargingRuleReport read_GxChargingRuleReport (o davp_charging_rule_report) (m davp_charging_rule_report))
    (list_in zero_GxApplicationDetectionInformation read_GxApplicationDetectionInformation (o davp_application_detection_information) (m davp_application_detection_information))
    (list_in 0 (read_value v_i32) (o davp_event_trigger) (m davp_event_trigger))
    (struct_in zero_GxEventReportIndication read_GxEventReportIndication (o davp_event_report_indication))
    (address_in (o davp_access_network_charging_address))
    (list_in zero_GxAccessNetworkChargingIdentifierGx read_GxAccessNetworkChargingIdentifierGx (o davp_access_network_charging_identifier_gx) (m davp_access_network_charging_identifier_gx))
    (list_in zero_GxCoaInformation read_GxCoaInformation (o davp_coa_information) (m davp_coa_information))
    (list_in zero_GxUsageMonitoringInformation read_GxUsageMonitoringInformation (o davp_usage_monitoring_information) (m davp_usage_monitoring_information))
    (value_in v_i32 (o davp_nbifom_support))
    (value_in v_i32 (o davp_nbifom_mode))
    (value_in v_i32 (o davp_default_access))
    (value_in v_u64 (o davp_origination_time_stamp))
    (value_in v_u32 (o davp_maximum_wait_time))
    (value_in v_u32 (o davp_access_availability_change_reason))
    (struct_in zero_GxRoutingRuleInstall read_GxRoutingRuleInstall (o davp_routing_rule_install))
    (struct_in zero_GxRoutingRuleRemove read_GxRoutingRuleRemove (o davp_routing_rule_remove))
    (address_in (o davp_henb_local_ip_address))
    (address_in (o davp_ue_local_ip_address))
    (value_in v_u32 (o davp_udp_source_port))
    (value_in v_u32 (o davp_tcp_source_port))
    (list_in zero_GxPresenceReportingAreaInformation read_GxPresenceReportingAreaInformation (o davp_presence_reporting_area_information) (m davp_presence_reporting_area_information))
    (octets_in GX_LOGICAL_ACCESS_ID_LEN (o davp_logical_access_id))
    (octets_in GX_PHYSICAL_ACCESS_ID_LEN (o davp_physical_access_id))
    (list_in zero_GxProxyInfo read_GxProxyInfo (o davp_proxy_info) (m davp_proxy_info))
    (list_in zero_octets (read_octets GX_ROUTE_RECORD_LEN) (o davp_route_record) (m davp_route_record))
    (value_in v_i32 (o davp_3gpp_ps_data_off_status)).

Definition read_GxCCR (a : avp) : GxCCR := build_GxCCR (occ (kids a)) (allocated (occ (kids a))).

Definition valid_GxCCR (a : avp) : Prop :=
  browse a = Browsed (kids a) true ∧
  any octets_ok (sel davp_session_id (kids a)) ∧
  any (value_ok int32_t v_i32) (sel davp_drmp (kids a)) ∧
  any (value_ok uint32_t v_u32) (sel davp_auth_application_id (kids a)) ∧
  any octets_ok (sel davp_origin_host (kids a)) ∧
  any octets_ok (sel davp_origin_realm (kids a)) ∧
  any octets_ok (sel davp_destination_realm (kids a)) ∧
  any octets_ok (sel davp_service_context_id (kids a)) ∧
  any (value_ok int32_t v_i32) (sel davp_cc_request_type (kids a)) ∧
  any (value_ok uint32_t v_u32) (sel davp_cc_request_number (kids a)) ∧
  any (value_ok uint32_t v_u32) (sel davp_credit_management_status (kids a)) ∧
  any octets_ok (sel davp_destination_host (kids a)) ∧
  any (value_ok uint32_t v_u32) (sel davp_origin_state_id (kids a)) ∧
  many valid_GxSubscriptionId (sel davp_subscription_id (kids a)) ∧
  at_most_once valid_GxOcSupportedFeatures (sel davp_oc_supported_features (kids a)) ∧
  many valid_GxSupportedFeatures (sel davp_supported_features (kids a)) ∧
  at_most_once valid_GxTdfInformation (sel davp_tdf_information (kids a)) ∧
  any (value_ok int32_t v_i32) (sel davp_network_request_support (kids a)) ∧
  many valid_GxPacketFilterInformation (sel davp_packet_filter_information (kids a)) ∧
  any (value_ok int32_t v_i32) (sel davp_packet_filter_operation (kids a)) ∧
  any octets_ok (sel davp_bearer_identifier (kids a)) ∧
  any (value_ok int32_t v_i32) (sel davp_bearer_operation (kids a)) ∧
  any (value_ok int32_t v_i32) (sel davp_dynamic_address_flag (kids a)) ∧
  any (value_ok int32_t v_i32) (sel davp_dynamic_address_flag_extension (kids a)) ∧
  any (value_ok uint32_t v_u32) (sel davp_pdn_connection_charging_id (kids a)) ∧
  any octets_ok (sel davp_framed_ip_address (kids a)) ∧
  any octets_ok (sel davp_framed_ipv6_prefix (kids a)) ∧
  any (value_ok int32_t v_i32) (sel davp_ip_can_type (kids a)) ∧
  any octets_ok (sel davp_3gpp_rat_type (kids a)) ∧
  any (value_ok int32_t v_i32) (sel davp_an_trusted (kids a)) ∧
  any (value_ok int32_t v_i32) (sel davp_rat_type (kids a)) ∧
  any (value_ok int32_t v_i32) (sel davp_termination_cause (kids a)) ∧
  at_most_once valid_GxUserEquipmentInfo (sel davp_user_equipment_info (kids a)) ∧
  at_most_once valid_GxQosInformation (sel davp_qos_information (kids a)) ∧
  any (value_ok int32_t v_i32) (sel davp_qos_negotiation (kids a)) ∧
  any (value_ok int32_t v_i32) (sel davp_qos_upgrade (kids a)) ∧
  at_most_once valid_GxDefaultEpsBearerQos (sel davp_default_eps_bearer_qos (kids a)) ∧
  at_most_once valid_GxDefaultQosInformation (sel davp_default_qos_information (kids a)) ∧
  many address_ok (sel davp_an_gw_address (kids a)) ∧
  any (value_ok int32_t v_i32) (sel davp_an_gw_status (kids a)) ∧
  any octets_ok (sel davp_3gpp_sgsn_mcc_mnc (kids a)) ∧
  any octets_ok (sel davp_3gpp_sgsn_address (kids a)) ∧
  any octets_ok (sel davp_3gpp_sgsn_ipv6_address (kids a)) ∧
  any octets_ok (sel davp_3gpp_ggsn_address (kids a)) ∧
  any octets_ok (sel davp_3gpp_ggsn_ipv6_address (kids a)) ∧
  any octets_ok (sel davp_3gpp_selection_mode (kids a)) ∧
  any octets_ok (sel davp_rai (kids a)) ∧
  any octets_ok (sel davp_3gpp_user_location_info (kids a)) ∧
  at_most_once valid_GxFixedUserLocationInfo (sel davp_fixed_user_location_info (kids a)) ∧
  any time_ok (sel davp_user_location_info_time (kids a)) ∧
  at_most_once valid_GxUserCsgInformation (sel davp_user_csg_information (kids a)) ∧
  any octets_ok (sel davp_twan_identifier (kids a)) ∧
  any octets_ok (sel davp_3gpp_ms_timezone (kids a)) ∧
  many octets_ok (sel davp_ran_nas_release_cause (kids a)) ∧
  any octets_ok (sel davp_3gpp_charging_characteristics (kids a)) ∧
  any octets_ok (sel davp_called_station_id (kids a)) ∧
  any octets_ok (sel davp_pdn_connection_id (kids a)) ∧
  any (value_ok int32_t v_i32) (sel davp_bearer_usage (kids a)) ∧
  any (value_ok int32_t v_i32) (sel davp_online (kids a)) ∧
  any (value_ok int32_t v_i32) (sel davp_offline (kids a)) ∧
  many valid_GxTftPacketFilterInformation (sel davp_tft_packet_filter_information (kids a)) ∧
  many valid_GxChargingRuleReport (sel davp_charging_rule_report (kids a)) ∧
  many valid_GxApplicationDetectionInformation (sel davp_application_detection_information (kids a)) ∧
  many (value_ok int32_t v_i32) (sel davp_event_trigger (kids a)) ∧
  at_most_once valid_GxEventReportIndication (sel davp_event_report_indication (kids a)) ∧
  any address_ok (sel davp_access_network_charging_address (kids a)) ∧
  many valid_GxAccessNetworkChargingIdentifierGx (sel davp_access_network_charging_identifier_gx (kids a)) ∧
  many valid_GxCoaInformation (sel davp_coa_information (kids a)) ∧
  many valid_GxUsageMonitoringInformation (sel davp_usage_monitoring_information (kids a)) ∧
  any (value_ok int32_t v_i32) (sel davp_nbifom_support (kids a)) ∧
  any (value_ok int32_t v_i32) (sel davp_nbifom_mode (kids a)) ∧
  any (value_ok int32_t v_i32) (sel davp_default_access (kids a)) ∧
  any (value_ok uint64_t v_u64) (sel davp_origination_time_stamp (kids a)) ∧
  any (value_ok uint32_t v_u32) (sel davp_maximum_wait_time (kids a)) ∧
  any (value_ok uint32_t v_u32) (sel davp_access_availability_change_reason (kids a)) ∧
  at_most_once valid_GxRoutingRuleInstall (sel davp_routing_rule_install (kids a)) ∧
  at_most_once valid_GxRoutingRuleRemove (sel davp_routing_rule_remove (kids a)) ∧
  any address_ok (sel davp_henb_local_ip_address (kids a)) ∧
  any address_ok (sel davp_ue_local_ip_address (kids a)) ∧
  any (value_ok uint32_t v_u32) (sel davp_udp_source_port (kids a)) ∧
  any (value_ok uint32_t v_u32) (sel davp_tcp_source_port (kids a)) ∧
  many valid_GxPresenceReportingAreaInformation (sel davp_presence_reporting_area_information (kids a)) ∧
  any octets_ok (sel davp_logical_access_id (kids a)) ∧
  any octets_ok (sel davp_physical_access_id (kids a)) ∧
  many valid_GxProxyInfo (sel davp_proxy_info (kids a)) ∧
  many octets_ok (sel davp_route_record (kids a)) ∧
  any (value_ok int32_t v_i32) (sel davp_3gpp_ps_data_off_status (kids a)).

Definition kinds_GxCCR : list kind := [
    K_octets davp_session_id;
    K_value davp_drmp int32_t v_i32;
    K_value davp_auth_application_id uint32_t v_u32;
    K_octets davp_origin_host;
    K_octets davp_origin_realm;
    K_octets davp_destination_realm;
    K_octets davp_service_context_id;
    K_value davp_cc_request_type int32_t v_i32;
    K_value davp_cc_request_number uint32_t v_u32;
    K_value davp_credit_management_status uint32_t v_u32;
    K_octets davp_destination_host;
    K_value davp_origin_state_id uint32_t v_u32;
    K_count davp_subscription_id;
    K_struct davp_oc_supported_features valid_GxOcSupportedFeatures;
    K_count davp_supported_features;
    K_struct davp_tdf_information valid_GxTdfInformation;
    K_value davp_network_request_support int32_t v_i32;
    K_count davp_packet_filter_information;
    K_value davp_packet_filter_operation int32_t v_i32;
    K_octets davp_bearer_identifier;
    K_value davp_bearer_operation int32_t v_i32;
    K_value davp_dynamic_address_flag int32_t v_i32;
    K_value davp_dynamic_address_flag_extension int32_t v_i32;
    K_value davp_pdn_connection_charging_id uint32_t v_u32;
    K_octets davp_framed_ip_address;
    K_octets davp_framed_ipv6_prefix;
    K_value davp_ip_can_type int32_t v_i32;
    K_octets davp_3gpp_rat_type;
    K_value davp_an_trusted int32_t v_i32;
    K_value davp_rat_type int32_t v_i32;
    K_value davp_termination_cause int32_t v_i32;
    K_struct davp_user_equipment_info valid_GxUserEquipmentInfo;
    K_struct davp_qos_information valid_GxQosInformation;
    K_value davp_qos_negotiation int32_t v_i32;
    K_value davp_qos_upgrade int32_t v_i32;
    K_struct davp_default_eps_bearer_qos valid_GxDefaultEpsBearerQos;
    K_struct davp_default_qos_information valid_GxDefaultQosInformation;
    K_count davp_an_gw_address;
    K_value davp_an_gw_status int32_t v_i32;
    K_octets davp_3gpp_sgsn_mcc_mnc;
    K_octets davp_3gpp_sgsn_address;
    K_octets davp_3gpp_sgsn_ipv6_address;
    K_octets davp_3gpp_ggsn_address;
    K_octets davp_3gpp_ggsn_ipv6_address;
    K_octets davp_3gpp_selection_mode;
    K_octets davp_rai;
    K_octets davp_3gpp_user_location_info;
    K_struct davp_fixed_user_location_info valid_GxFixedUserLocationInfo;
    K_time davp_user_location_info_time;
    K_struct davp_user_csg_information valid_GxUserCsgInformation;
    K_octets davp_twan_identifier;
    K_octets davp_3gpp_ms_timezone;
    K_count davp_ran_nas_release_cause;
    K_octets davp_3gpp_charging_characteristics;
    K_octets davp_called_station_id;
    K_octets davp_pdn_connection_id;
    K_value davp_bearer_usage int32_t v_i32;
    K_value davp_online int32_t v_i32;
    K_value davp_offline int32_t v_i32;
    K_count davp_tft_packet_filter_information;
    K_count davp_charging_rule_report;
    K_count davp_application_detection_information;
    K_count davp_event_trigger;
    K_struct davp_event_report_indication valid_GxEventReportIndication;
    K_address davp_access_network_charging_address;
    K_count davp_access_network_charging_identifier_gx;
    K_count davp_coa_information;
    K_count davp_usage_monitoring_information;
    K_value davp_nbifom_support int32_t v_i32;
    K_value davp_nbifom_mode int32_t v_i32;
    K_value davp_default_access int32_t v_i32;
    K_value davp_origination_time_stamp uint64_t v_u64;
    K_value davp_maximum_wait_time uint32_t v_u32;
    K_value davp_access_availability_change_reason uint32_t v_u32;
    K_struct davp_routing_rule_install valid_GxRoutingRuleInstall;
    K_struct davp_routing_rule_remove valid_GxRoutingRuleRemove;
    K_address davp_henb_local_ip_address;
    K_address davp_ue_local_ip_address;
    K_value davp_udp_source_port uint32_t v_u32;
    K_value davp_tcp_source_port uint32_t v_u32;
    K_count davp_presence_reporting_area_information;
    K_octets davp_logical_access_id;
    K_octets davp_physical_access_id;
    K_count davp_proxy_info;
    K_count davp_route_record;
    K_value davp_3gpp_ps_data_off_status int32_t v_i32].
Definition fills_GxCCR (o : occurrences) : list kind := [
    K_fill davp_subscription_id valid_GxSubscriptionId (length (o davp_subscription_id));
    K_fill davp_supported_features valid_GxSupportedFeatures (length (o davp_supported_features));
    K_fill davp_packet_filter_information valid_GxPacketFilterInformation (length (o davp_packet_filter_information));
    K_fill davp_an_gw_address address_ok (length (o davp_an_gw_address));
    K_fill davp_ran_nas_release_cause octets_ok (length (o davp_ran_nas_release_cause));
    K_fill davp_tft_packet_filter_information valid_GxTftPacketFilterInformation (length (o davp_tft_packet_filter_information));
    K_fill davp_charging_rule_report valid_GxChargingRuleReport (length (o davp_charging_rule_report));
    K_fill davp_application_detection_information valid_GxApplicationDetectionInformation (length (o davp_application_detection_information));
    K_fill davp_event_trigger (value_ok int32_t v_i32) (length (o davp_event_trigger));
    K_fill davp_access_network_charging_identifier_gx valid_GxAccessNetworkChargingIdentifierGx (length (o davp_access_network_charging_identifier_gx));
    K_fill davp_coa_information valid_GxCoaInformation (length (o davp_coa_information));
    K_fill davp_usage_monitoring_information valid_GxUsageMonitoringInformation (length (o davp_usage_monitoring_information));
    K_fill davp_presence_reporting_area_information valid_GxPresenceReportingAreaInformation (length (o davp_presence_reporting_area_information));
    K_fill davp_proxy_info valid_GxProxyInfo (length (o davp_proxy_info));
    K_fill davp_route_record octets_ok (length (o davp_route_record))].

#[export] Instance GxCCR_parse : ParseOk gx_ccr_parse zero_GxCCR read_GxCCR valid_GxCCR good_GxCCR.
Proof.
  constructor; intros a Hv; red in Hv; [|read_packs Hv]. parse_opened build_GxCCR.
  erewrite (parse_group_twice 7); [|reflexivity|reflexivity]. cbn [take drop app].
  parse_computes build_GxCCR kinds_GxCCR fills_GxCCR Hv.
Qed.

Definition build_GxLoad (o : occurrences) (m : davp -> option (list avp)) : GxLoad :=
  mk_GxLoad
    (presence_bits [some_met (o davp_load_type); some_met (o davp_load_value); some_met (o davp_sourceid)])
    (value_in v_i32 (o davp_load_type))
    (value_in v_u64 (o davp_load_value))
    (octets_in GX_SOURCEID_LEN (o davp_sourceid)).

Definition read_GxLoad (a : avp) : GxLoad := build_GxLoad (occ (kids a)) (allocated (occ (kids a))).

Definition valid_GxLoad (a : avp) : Prop :=
  browse a = Browsed (kids a) true ∧
  any (value_ok int32_t v_i32) (sel davp_load_type (kids a)) ∧
  any (value_ok uint64_t v_u64) (sel davp_load_value (kids a)) ∧
  any octets_ok (sel davp_sourceid (kids a)).

Definition kinds_GxLoad : list kind := [
    K_value davp_load_type int32_t v_i32;
    K_value davp_load_value uint64_t v_u64;
    K_octets davp_sourceid].
Definition fills_GxLoad (o : occurrences) : list kind := [].

#[export] Instance GxLoad_parse : ParseOk parseGxLoad zero_GxLoad read_GxLoad valid_GxLoad good_GxLoad.
Proof. parse_ok build_GxLoad kinds_GxLoad fills_GxLoad. Qed.

Definition build_GxFailedAvp (o : occurrences) (m : davp -> option (list avp)) : GxFailedAvp :=
  mk_GxFailedAvp
    (presence_bits []).

Definition read_GxFailedAvp (a : avp) : GxFailedAvp := build_GxFailedAvp (occ (kids a)) (allocated (occ (kids a))).

Definition valid_GxFailedAvp (a : avp) : Prop :=
  browse a = Browsed (kids a) true.

Definition kinds_GxFailedAvp : list kind := [].
Definition fills_GxFailedAvp (o : occurrences) : list kind := [].

#[export] Instance GxFailedAvp_parse : ParseOk parseGxFailedAvp zero_GxFailedAvp read_GxFailedAvp valid_GxFailedAvp good_GxFailedAvp.
Proof.
  constructor; intros a Hv; red in Hv; [|apply fits_uint; cbn; lia].
  parse_opened build_GxFailedAvp; parse_computes build_GxFailedAvp kinds_GxFailedAvp fills_GxFailedAvp Hv.
Qed.

Definition build_GxConditionalPolicyInformation (o : occurrences) (m : davp -> option (list avp)) : GxConditionalPolicyInformation :=
  mk_GxConditionalPolicyInformation
    (presence_bits [some_met (o davp_execution_time); some_met (o davp_default_eps_bearer_qos); some_met (o davp_apn_aggregate_max_bitrate_ul); some_met (o davp_apn_aggregate_max_bitrate_dl); some_met (o davp_extended_apn_ambr_ul); some_met (o davp_extended_apn_ambr_dl); some_met (o davp_conditional_apn_aggregate_max_bitrate)])
    (time_in (o davp_execution_time))
    (struct_in zero_GxDefaultEpsBearerQos read_GxDefaultEpsBearerQos (o davp_default_eps_bearer_qos))
    (value_in v_u32 (o davp_apn_aggregate_max_bitrate_ul))
    (value_in v_u32 (o davp_apn_aggregate_max_bitrate_dl))
    (value_in v_u32 (o davp_extended_apn_ambr_ul))
    (value_in v_u32 (o davp_extended_apn_ambr_dl))
    (list_in zero_GxConditionalApnAggregateMaxBitrate read_GxConditionalApnAggregateMaxBitrate (o davp_conditional_apn_aggregate_max_bitrate) (m davp_conditional_apn_aggregate_max_bitrate)).

Definition read_GxConditionalPolicyInformation (a : avp) : GxConditionalPolicyInformation := build_GxConditionalPolicyInformation (occ (kids a)) (allocated (occ (kids a))).

Definition valid_GxConditionalPolicyInformation (a : avp) : Prop :=
  browse a = Browsed (kids a) true ∧
  any time_ok (sel davp_execution_time (kids a)) ∧
  at_most_once valid_GxDefaultEpsBearerQos (sel davp_default_eps_bearer_qos (kids a)) ∧
  any (value_ok uint32_t v_u32) (sel davp_apn_aggregate_max_bitrate_ul (kids a)) ∧
  any (value_ok uint32_t v_u32) (sel davp_apn_aggregate_max_bitrate_dl (kids a)) ∧
  any (value_ok uint32_t v_u32) (sel davp_extended_apn_ambr_ul (kids a)) ∧
  any (value_ok uint32_t v_u32) (sel davp_extended_apn_ambr_dl (kids a)) ∧
  many valid_GxConditionalApnAggregateMaxBitrate (sel davp_conditional_apn_aggregate_max_bitrate (kids a)).

Definition kinds_GxConditionalPolicyInformation : list kind := [
    K_time davp_execution_time;
    K_struct davp_default_eps_bearer_qos valid_GxDefaultEpsBearerQos;
    K_value davp_apn_aggregate_max_bitrate_ul uint32_t v_u32;
    K_value davp_apn_aggregate_max_bitrate_dl uint32_t v_u32;
    K_value davp_extended_apn_ambr_ul uint32_t v_u32;
    K_value davp_extended_apn_ambr_dl uint32_t v_u32;
    K_count davp_conditional_apn_aggregate_max_bitrate].
Definition fills_GxConditionalPolicyInformation (o : occurrences) : list kind := [
    K_fill davp_conditional_apn_aggregate_max_bitrate valid_GxConditionalApnAggregateMaxBitrate (length (o davp_conditional_apn_aggregate_max_bitrate))].

#[export] Instance GxConditionalPolicyInformation_parse : ParseOk parseGxConditionalPolicyInformation zero_GxConditionalPolicyInformation read_GxConditionalPolicyInformation valid_GxConditionalPolicyInformation good_GxConditionalPolicyInformation.
Proof. parse_ok build_GxConditionalPolicyInformation kinds_GxConditionalPolicyInformation fills_GxConditionalPolicyInformation. Qed.

Definition build_GxRoutingRuleReport (o : occurrences) (m : davp -> option (list avp)) : GxRoutingRuleReport :=
  mk_GxRoutingRuleReport
    (presence_bits [some_met (o davp_routing_rule_identifier); some_met (o davp_pcc_rule_status); some_met (o davp_routing_rule_failure_code)])
    (list_in zero_octets (read_octets GX_ROUTING_RULE_IDENTIFIER_LEN) (o davp_routing_rule_identifier) (m davp_routing_rule_identifier))
    (value_in v_i32 (o davp_pcc_rule_status))
    (value_in v_u32 (o davp_routing_rule_failure_code)).

Definition read_GxRoutingRuleReport (a : avp) : GxRoutingRuleReport := build_GxRoutingRuleReport (occ (kids a)) (allocated (occ (kids a))).

Definition valid_GxRoutingRuleReport (a : avp) : Prop :=
  browse a = Browsed (kids a) true ∧
  many octets_ok (sel davp_routing_rule_identifier (kids a)) ∧
  any (value_ok int32_t v_i32) (sel davp_pcc_rule_status (kids a)) ∧
  any (value_ok uint32_t v_u32) (sel davp_routing_rule_failure_code (kids a)).

Definition kinds_GxRoutingRuleReport : list kind := [
    K_count davp_routing_rule_identifier;
    K_value davp_pcc_rule_status int32_t v_i32;
    K_value davp_routing_rule_failure_code uint32_t v_u32].
Definition fills_GxRoutingRuleReport (o : occurrences) : list kind := [
    K_fill davp_routing_rule_identifier octets_ok (length (o davp_routing_rule_identifier))].

#[export] Instance GxRoutingRuleReport_parse : ParseOk parseGxRoutingRuleReport zero_GxRoutingRuleReport read_GxRoutingRuleReport valid_GxRoutingRuleReport good_GxRoutingRuleReport.
Proof. parse_ok build_GxRoutingRuleReport kinds_GxRoutingRuleReport fills_GxRoutingRuleReport. Qed.

Definition build_GxPraRemove (o : occurrences) (m : davp -> option (list avp)) : GxPraRemove :=
  mk_GxPraRemove
    (presence_bits [some_met (o davp_presence_reporting_area_identifier)])
    (list_in zero_octets (read_octets GX_PRESENCE_REPORTING_AREA_IDENTIFIER_LEN) (o davp_presence_reporting_area_identifier) (m davp_presence_reporting_area_identifier)).

Definition read_GxPraRemove (a : avp) : GxPraRemove := build_GxPraRemove (occ (kids a)) (allocated (occ (kids a))).

Definition valid_GxPraRemove (a : avp) : Prop :=
  browse a = Browsed (kids a) true ∧
  many octets_ok (sel davp_presence_reporting_area_identifier (kids a)).

Definition kinds_GxPraRemove : list kind := [
    K_count davp_presence_reporting_area_identifier].
Definition fills_GxPraRemove (o : occurrences) : list kind := [
    K_fill davp_presence_reporting_area_identifier octets_ok (length (o davp_presence_reporting_area_identifier))].

#[export] Instance GxPraRemove_parse : ParseOk parseGxPraRemove zero_GxPraRemove read_GxPraRemove valid_GxPraRemove good_GxPraRemove.
Proof. parse_ok build_GxPraRemove kinds_GxPraRemove fills_GxPraRemove. Qed.

Definition build_GxPraInstall (o : occurrences) (m : davp -> option (list avp)) : GxPraInstall :=
  mk_GxPraInstall
    (presence_bits [some_met (o davp_presence_reporting_area_information)])
    (list_in zero_GxPresenceReportingAreaInformation read_GxPresenceReportingAreaInformation (o davp_presence_reporting_area_information) (m davp_presence_reporting_area_information)).

Definition read_GxPraInstall (a : avp) : GxPraInstall := build_GxPraInstall (occ (kids a)) (allocated (occ (kids a))).

Definition valid_GxPraInstall (a : avp) : Prop :=
  browse a = Browsed (kids a) true ∧
  many valid_GxPresenceReportingAreaInformation (sel davp_presence_reporting_area_information (kids a)).

Definition kinds_GxPraInstall : list kind := [
    K_count davp_presence_reporting_area_information].
Definition fills_GxPraInstall (o : occurrences) : list kind := [
    K_fill davp_presence_reporting_area_information valid_GxPresenceReportingAreaInformation (length (o davp_presence_reporting_area_information))].

#[export] Instance GxPraInstall_parse : ParseOk parseGxPraInstall zero_GxPraInstall read_GxPraInstall valid_GxPraInstall good_GxPraInstall.
Proof. parse_ok build_GxPraInstall kinds_GxPraInstall fills_GxPraInstall. Qed.

Definition build_GxChargingInformation (o : occurrences) (m : davp -> option (list avp)) : GxChargingInformation :=
  mk_GxChargingInformation
    (presence_bits [some_met (o davp_primary_event_charging_function_name); some_met (o davp_secondary_event_charging_function_name); some_met (o davp_primary_charging_collection_function_name); some_met (o davp_secondary_charging_collection_function_name)])
    (octets_in GX_PRIMARY_EVENT_CHARGING_FUNCTION_NAME_LEN (o davp_primary_event_charging_function_name))
    (octets_in GX_SECONDARY_EVENT_CHARGING_FUNCTION_NAME_LEN (o davp_secondary_event_charging_function_name))
    (octets_in GX_PRIMARY_CHARGING_COLLECTION_FUNCTION_NAME_LEN (o davp_primary_charging_collection_function_name))
    (octets_in GX_SECONDARY_CHARGING_COLLECTION_FUNCTION_NAME_LEN (o davp_secondary_charging_collection_function_name)).

Definition read_GxChargingInformation (a : avp) : GxChargingInformation := build_GxChargingInformation (occ (kids a)) (allocated (occ (kids a))).

Definition valid_GxChargingInformation (a : avp) : Prop :=
  browse a = Browsed (kids a) true ∧
  any octets_ok (sel davp_primary_event_charging_function_name (kids a)) ∧
  any octets_ok (sel davp_secondary_event_charging_function_name (kids a)) ∧
  any octets_ok (sel davp_primary_charging_collection_function_name (kids a)) ∧
  any octets_ok (sel davp_secondary_charging_collection_function_name (kids a)).

Definition kinds_GxChargingInformation : list kind := [
    K_octets davp_primary_event_charging_function_name;
    K_octets davp_secondary_event_charging_function_name;
    K_octets davp_primary_charging_collection_function_name;
    K_octets davp_secondary_charging_collection_function_name].
Definition fills_GxChargingInformation (o : occurrences) : list kind := [].

#[export] Instance GxChargingInformation_parse : ParseOk parseGxChargingInformation zero_GxChargingInformation read_GxChargingInformation valid_GxChargingInformation good_GxChargingInformation.
Proof. parse_ok build_GxChargingInformation kinds_GxChargingInformation fills_GxChargingInformation. Qed.

Definition build_GxRedirectInformation (o : occurrences) (m : davp -> option (list avp)) : GxRedirectInformation :=
  mk_GxRedirectInformation
    (presence_bits [some_met (o davp_redirect_support); some_met (o davp_redirect_address_type); some_met (o davp_redirect_server_address)])
    (value_in v_i32 (o davp_redirect_support))
    (value_in v_i32 (o davp_redirect_address_type))
    (octets_in GX_REDIRECT_SERVER_ADDRESS_LEN (o davp_redirect_server_address)).

Definition read_GxRedirectInformation (a : avp) : GxRedirectInformation := build_GxRedirectInformation (occ (kids a)) (allocated (occ (kids a))).

Definition valid_GxRedirectInformation (a : avp) : Prop :=
  browse a = Browsed (kids a) true ∧
  any (value_ok int32_t v_i32) (sel davp_redirect_support (kids a)) ∧
  any (value_ok int32_t v_i32) (sel davp_redirect_address_type (kids a)) ∧
  any octets_ok (sel davp_redirect_server_address (kids a)).

Definition kinds_GxRedirectInformation : list kind := [
    K_value davp_redirect_support int32_t v_i32;
    K_value davp_redirect_address_type int32_t v_i32;
    K_octets davp_redirect_server_address].
Definition fills_GxRedirectInformation (o : occurrences) : list kind := [].

#[export] Instance GxRedirectInformation_parse : ParseOk parseGxRedirectInformation zero_GxRedirectInformation read_GxRedirectInformation valid_GxRedirectInformation good_GxRedirectInformation.
Proof. parse_ok build_GxRedirectInformation kinds_GxRedirectInformation fills_GxRedirectInformation. Qed.

Definition build_GxFlows (o : occurrences) (m : davp -> option (list avp)) : GxFlows :=
  mk_GxFlows
    (presence_bits [some_met (o davp_media_component_number); some_met (o davp_flow_number); some_met (o davp_content_version); some_met (o davp_final_unit_action); some_met (o davp_media_component_status)])
    (value_in v_u32 (o davp_media_component_number))
    (list_in 0 (read_value v_u32) (o davp_flow_number) (m davp_flow_number))
    (list_in 0 (read_value v_u64) (o davp_content_version) (m davp_content_version))
    (value_in v_i32 (o davp_final_unit_action))
    (value_in v_u32 (o davp_media_component_status)).

Definition read_GxFlows (a : avp) : GxFlows := build_GxFlows (occ (kids a)) (allocated (occ (kids a))).

Definition valid_GxFlows (a : avp) : Prop :=
  browse a = Browsed (kids a) true ∧
  any (value_ok uint32_t v_u32) (sel davp_media_component_number (kids a)) ∧
  many (value_ok uint32_t v_u32) (sel davp_flow_number (kids a)) ∧
  many (value_ok uint64_t v_u64) (sel davp_content_version (kids a)) ∧
  any (value_ok int32_t v_i32) (sel davp_final_unit_action (kids a)) ∧
  any (value_ok uint32_t v_u32) (sel davp_media_component_status (kids a)).

Definition kinds_GxFlows : list kind := [
    K_value davp_media_component_number uint32_t v_u32;
    K_count davp_flow_number;
    K_count davp_content_version;
    K_value davp_final_unit_action int32_t v_i32;
    K_value davp_media_component_status uint32_t v_u32].
Definition fills_GxFlows (o : occurrences) : list kind := [
    K_fill davp_flow_number (value_ok uint32_t v_u32) (length (o davp_flow_number));
    K_fill davp_content_version (value_ok uint64_t v_u64) (length (o davp_content_version))].

#[export] Instance GxFlows_parse : ParseOk parseGxFlows zero_GxFlows read_GxFlows valid_GxFlows good_GxFlows.
Proof. parse_ok build_GxFlows kinds_GxFlows fills_GxFlows. Qed.

Definition build_GxChargingRuleDefinition (o : occurrences) (m : davp -> option (list avp)) : GxChargingRuleDefinition :=
  mk_GxChargingRuleDefinition
    (presence_bits [some_met (o davp_charging_rule_name); some_met (o davp_service_identifier); some_met (o davp_rating_group); some_met (o davp_flow_information); some_met (o davp_default_bearer_indication); some_met (o davp_tdf_application_identifier); some_met (o davp_flow_status); some_met (o davp_qos_information); some_met (o davp_ps_to_cs_session_continuity); some_met (o davp_reporting_level); some_met (o davp_online); some_met (o davp_offline); some_met (o davp_max_plr_dl); some_met (o davp_max_plr_ul); some_met (o davp_metering_method); some_met (o davp_precedence); some_met (o davp_af_charging_identifier); some_met (o davp_flows); some_met (o davp_monitoring_key); some_met (o davp_redirect_information); some_met (o davp_mute_notification); some_met (o davp_af_signalling_protocol); some_met (o davp_sponsor_identity); some_met (o davp_application_service_provider_identity); some_met (o davp_required_access_info); some_met (o davp_sharing_key_dl); some_met (o davp_sharing_key_ul); some_met (o davp_traffic_steering_policy_identifier_dl); some_met (o davp_traffic_steering_policy_identifier_ul); some_met (o davp_content_version)])
    (octets_in GX_CHARGING_RULE_NAME_LEN (o davp_charging_rule_name))
    (value_in v_u32 (o davp_service_identifier))
    (value_in v_u32 (o davp_rating_group))
    (list_in zero_GxFlowInformation read_GxFlowInformation (o davp_flow_information) (m davp_flow_information))
    (value_in v_i32 (o davp_default_bearer_indication))
    (octets_in GX_TDF_APPLICATION_IDENTIFIER_LEN (o davp_tdf_application_identifier))
    (value_in v_i32 (o davp_flow_status))
    (struct_in zero_GxQosInformation read_GxQosInformation (o davp_qos_information))
    (value_in v_i32 (o davp_ps_to_cs_session_continuity))
    (value_in v_i32 (o davp_reporting_level))
    (value_in v_i32 (o davp_online))
    (value_in v_i32 (o davp_offline))
    (value_in v_f32 (o davp_max_plr_dl))
    (value_in v_f32 (o davp_max_plr_ul))
    (value_in v_i32 (o davp_metering_method))
    (value_in v_u32 (o davp_precedence))
    (octets_in GX_AF_CHARGING_IDENTIFIER_LEN (o davp_af_charging_identifier))
    (list_in zero_GxFlows read_GxFlows (o davp_flows) (m davp_flows))
    (octets_in GX_MONITORING_KEY_LEN (o davp_monitoring_key))
    (struct_in zero_GxRedirectInformation read_GxRedirectInformation (o davp_redirect_information))
    (value_in v_i32 (o davp_mute_notification))
    (value_in v_i32 (o davp_af_signalling_protocol))
    (octets_in GX_SPONSOR_IDENTITY_LEN (o davp_sponsor_identity))
    (octets_in GX_APPLICATION_SERVICE_PROVIDER_IDENTITY_LEN (o davp_application_service_provider_identity))
    (list_in 0 (read_value v_i32) (o davp_required_access_info) (m davp_required_access_info))
    (value_in v_u32 (o davp_sharing_key_dl))
    (value_in v_u32 (o davp_sharing_key_ul))
    (octets_in GX_TRAFFIC_STEERING_POLICY_IDENTIFIER_DL_LEN (o davp_traffic_steering_policy_identifier_dl))
    (octets_in GX_TRAFFIC_STEERING_POLICY_IDENTIFIER_UL_LEN (o davp_traffic_steering_policy_identifier_ul))
    (value_in v_u64 (o davp_content_version)).

Definition read_GxChargingRuleDefinition (a : avp) : GxChargingRuleDefinition := build_GxChargingRuleDefinition (occ (kids a)) (allocated (occ (kids a))).

Definition valid_GxChargingRuleDefinition (a : avp) : Prop :=
  browse a = Browsed (kids a) true ∧
  any octets_ok (sel davp_charging_rule_name (kids a)) ∧
  any (value_ok uint32_t v_u32) (sel davp_service_identifier (kids a)) ∧
  any (value_ok uint32_t v_u32) (sel davp_rating_group (kids a)) ∧
  many valid_GxFlowInformation (sel davp_flow_information (kids a)) ∧
  any (value_ok int32_t v_i32) (sel davp_default_bearer_indication (kids a)) ∧
  any octets_ok (sel davp_tdf_application_identifier (kids a)) ∧
  any (value_ok int32_t v_i32) (sel davp_flow_status (kids a)) ∧
  at_most_once valid_GxQosInformation (sel davp_qos_information (kids a)) ∧
  any (value_ok int32_t v_i32) (sel davp_ps_to_cs_session_continuity (kids a)) ∧
  any (value_ok int32_t v_i32) (sel davp_reporting_level (kids a)) ∧
  any (value_ok int32_t v_i32) (sel davp_online (kids a)) ∧
  any (value_ok int32_t v_i32) (sel davp_offline (kids a)) ∧
  any (value_ok float v_f32) (sel davp_max_plr_dl (kids a)) ∧
  any (value_ok float v_f32) (sel davp_max_plr_ul (kids a)) ∧
  any (value_ok int32_t v_i32) (sel davp_metering_method (kids a)) ∧
  any (value_ok uint32_t v_u32) (sel davp_precedence (kids a)) ∧
  any octets_ok (sel davp_af_charging_identifier (kids a)) ∧
  many valid_GxFlows (sel davp_flows (kids a)) ∧
  any octets_ok (sel davp_monitoring_key (kids a)) ∧
  at_most_once valid_GxRedirectInformation (sel davp_redirect_information (kids a)) ∧
  any (value_ok int32_t v_i32) (sel davp_mute_notification (kids a)) ∧
  any (value_ok int32_t v_i32) (sel davp_af_signalling_protocol (kids a)) ∧
  any octets_ok (sel davp_sponsor_identity (kids a)) ∧
  any octets_ok (sel davp_application_service_provider_identity (kids a)) ∧
  many (value_ok int32_t v_i32) (sel davp_required_access_info (kids a)) ∧
  any (value_ok uint32_t v_u32) (sel davp_sharing_key_dl (kids a)) ∧
  any (value_ok uint32_t v_u32) (sel davp_sharing_key_ul (kids a)) ∧
  any octets_ok (sel davp_traffic_steering_policy_identifier_dl (kids a)) ∧
  any octets_ok (sel davp_traffic_steering_policy_identifier_ul (kids a)) ∧
  any (value_ok uint64_t v_u64) (sel davp_content_version (kids a)).

Definition kinds_GxChargingRuleDefinition : list kind := [
    K_octets davp_charging_rule_name;
    K_value davp_service_identifier uint32_t v_u32;
    K_value davp_rating_group uint32_t v_u32;
    K_count davp_flow_information;
    K_value davp_default_bearer_indication int32_t v_i32;
    K_octets davp_tdf_application_identifier;
    K_value davp_flow_status int32_t v_i32;
    K_struct davp_qos_information valid_GxQosInformation;
    K_value davp_ps_to_cs_session_continuity int32_t v_i32;
    K_value davp_reporting_level int32_t v_i32;
    K_value davp_online int32_t v_i32;
    K_value davp_offline int32_t v_i32;
    K_value davp_max_plr_dl float v_f32;
    K_value davp_max_plr_ul float v_f32;
    K_value davp_metering_method int32_t v_i32;
    K_value davp_precedence uint32_t v_u32;
    K_octets davp_af_charging_identifier;
    K_count davp_flows;
    K_octets davp_monitoring_key;
    K_struct davp_redirect_information valid_GxRedirectInformation;
    K_value davp_mute_notification int32_t v_i32;
    K_value davp_af_signalling_protocol int32_t v_i32;
    K_octets davp_sponsor_identity;
    K_octets davp_application_service_provider_identity;
    K_count davp_required_access_info;
    K_value davp_sharing_key_dl uint32_t v_u32;
    K_value davp_sharing_key_ul uint32_t v_u32;
    K_octets davp_traffic_steering_policy_identifier_dl;
    K_octets davp_traffic_steering_policy_identifier_ul;
    K_value davp_content_version uint64_t v_u64].
Definition fills_GxChargingRuleDefinition (o : occurrences) : list kind := [
    K_fill davp_flow_information valid_GxFlowInformation (length (o davp_flow_information));
    K_fill davp_flows valid_GxFlows (length (o davp_flows));
    K_fill davp_required_access_info (value_ok int32_t v_i32) (length (o davp_required_access_info))].

#[export] Instance GxChargingRuleDefinition_parse : ParseOk parseGxChargingRuleDefinition zero_GxChargingRuleDefinition read_GxChargingRuleDefinition valid_GxChargingRuleDefinition good_GxChargingRuleDefinition.
Proof. parse_ok build_GxChargingRuleDefinition kinds_GxChargingRuleDefinition fills_GxChargingRuleDefinition. Qed.

Definition build_GxChargingRuleInstall (o : occurrences) (m : davp -> option (list avp)) : GxChargingRuleInstall :=
  mk_GxChargingRuleInstall
    (presence_bits [some_met (o davp_charging_rule_definition); some_met (o davp_charging_rule_name); some_met (o davp_charging_rule_base_name); some_met (o davp_bearer_identifier); some_met (o davp_monitoring_flags); some_met (o davp_rule_activation_time); some_met (o davp_rule_deactivation_time); some_met (o davp_resource_allocation_notification); some_met (o davp_charging_correlation_indicator); some_met (o davp_ip_can_type)])
    (list_in zero_GxChargingRuleDefinition read_GxChargingRuleDefinition (o davp_charging_rule_definition) (m davp_charging_rule_definition))
    (list_in zero_octets (read_octets GX_CHARGING_RULE_NAME_LEN) (o davp_charging_rule_name) (m davp_charging_rule_name))
    (list_in zero_octets (read_octets GX_CHARGING_RULE_BASE_NAME_LEN) (o davp_charging_rule_base_name) (m davp_charging_rule_base_name))
    (octets_in GX_BEARER_IDENTIFIER_LEN (o davp_bearer_identifier))
    (value_in v_u32 (o davp_monitoring_flags))
    (time_in (o davp_rule_activation_time))
    (time_in (o davp_rule_deactivation_time))
    (value_in v_i32 (o davp_resource_allocation_notification))
    (value_in v_i32 (o davp_charging_correlation_indicator))
    (value_in v_i32 (o davp_ip_can_type)).

Definition read_GxChargingRuleInstall (a : avp) : GxChargingRuleInstall := build_GxChargingRuleInstall (occ (kids a)) (allocated (occ (kids a))).

Definition valid_GxChargingRuleInstall (a : avp) : Prop :=
  browse a = Browsed (kids a) true ∧
  many valid_GxChargingRuleDefinition (sel davp_charging_rule_definition (kids a)) ∧
  many octets_ok (sel davp_charging_rule_name (kids a)) ∧
  many octets_ok (sel davp_charging_rule_base_name (kids a)) ∧
  any octets_ok (sel davp_bearer_identifier (kids a)) ∧
  any (value_ok uint32_t v_u32) (sel davp_monitoring_flags (kids a)) ∧
  any time_ok (sel davp_rule_activation_time (kids a)) ∧
  any time_ok (sel davp_rule_deactivation_time (kids a)) ∧
  any (value_ok int32_t v_i32) (sel davp_resource_allocation_notification (kids a)) ∧
  any (value_ok int32_t v_i32) (sel davp_charging_correlation_indicator (kids a)) ∧
  any (value_ok int32_t v_i32) (sel davp_ip_can_type (kids a)).

Definition kinds_GxChargingRuleInstall : list kind := [
    K_count davp_charging_rule_definition;
    K_count davp_charging_rule_name;
    K_count davp_charging_rule_base_name;
    K_octets davp_bearer_identifier;
    K_value davp_monitoring_flags uint32_t v_u32;
    K_time davp_rule_activation_time;
    K_time davp_rule_deactivation_time;
    K_value davp_resource_allocation_notification int32_t v_i32;
    K_value davp_charging_correlation_indicator int32_t v_i32;
    K_value davp_ip_can_type int32_t v_i32].
Definition fills_GxChargingRuleInstall (o : occurrences) : list kind := [
    K_fill davp_charging_rule_definition valid_GxChargingRuleDefinition (length (o davp_charging_rule_definition));
    K_fill davp_charging_rule_name octets_ok (length (o davp_charging_rule_name));
    K_fill davp_charging_rule_base_name octets_ok (length (o davp_charging_rule_base_name))].

#[export] Instance GxChargingRuleInstall_parse : ParseOk parseGxChargingRuleInstall zero_GxChargingRuleInstall read_GxChargingRuleInstall valid_GxChargingRuleInstall good_GxChargingRuleInstall.
Proof. parse_ok build_GxChargingRuleInstall kinds_GxChargingRuleInstall fills_GxChargingRuleInstall. Qed.

Definition build_GxChargingRuleRemove (o : occurrences) (m : davp -> option (list avp)) : GxChargingRuleRemove :=
  mk_GxChargingRuleRemove
    (presence_bits [some_met (o davp_charging_rule_name); some_met (o davp_charging_rule_base_name); some_met (o davp_required_access_info); some_met (o davp_resource_release_notification)])
    (list_in zero_octets (read_octets GX_CHARGING_RULE_NAME_LEN) (o davp_charging_rule_name) (m davp_charging_rule_name))
    (list_in zero_octets (read_octets GX_CHARGING_RULE_BASE_NAME_LEN) (o davp_charging_rule_base_name) (m davp_charging_rule_base_name))
    (list_in 0 (read_value v_i32) (o davp_required_access_info) (m davp_required_access_info))
    (value_in v_i32 (o davp_resource_release_notification)).

Definition read_GxChargingRuleRemove (a : avp) : GxChargingRuleRemove := build_GxChargingRuleRemove (occ (kids a)) (allocated (occ (kids a))).

Definition valid_GxChargingRuleRemove (a : avp) : Prop :=
  browse a = Browsed (kids a) true ∧
  many octets_ok (sel davp_charging_rule_name (kids a)) ∧
  many octets_ok (sel davp_charging_rule_base_name (kids a)) ∧
  many (value_ok int32_t v_i32) (sel davp_required_access_info (kids a)) ∧
  any (value_ok int32_t v_i32) (sel davp_resource_release_notification (kids a)).

Definition kinds_GxChargingRuleRemove : list kind := [
    K_count davp_charging_rule_name;
    K_count davp_charging_rule_base_name;
    K_count davp_required_access_info;
    K_value davp_resource_release_notification int32_t v_i32].
Definition fills_GxChargingRuleRemove (o : occurrences) : list kind := [
    K_fill davp_charging_rule_name octets_ok (length (o davp_charging_rule_name));
    K_fill davp_charging_rule_base_name octets_ok (length (o davp_charging_rule_base_name));
    K_fill davp_required_access_info (value_ok int32_t v_i32) (length (o davp_required_access_info))].

#[export] Instance GxChargingRuleRemove_parse : ParseOk parseGxChargingRuleRemove zero_GxChargingRuleRemove read_GxChargingRuleRemove valid_GxChargingRuleRemove good_GxChargingRuleRemove.
Proof. parse_ok build_GxChargingRuleRemove kinds_GxChargingRuleRemove fills_GxChargingRuleRemove. Qed.

Definition build_GxOcOlr (o : occurrences) (m : davp -> option (list avp)) : GxOcOlr :=
  mk_GxOcOlr
    (presence_bits [some_met (o davp_oc_sequence_number); some_met (o davp_oc_report_type); some_met (o davp_oc_reduction_percentage); some_met (o davp_oc_validity_duration)])
    (value_in v_u64 (o davp_oc_sequence_number))
    (value_in v_i32 (o davp_oc_report_type))
    (value_in v_u32 (o davp_oc_reduction_percentage))
    (value_in v_u32 (o davp_oc_validity_duration)).

Definition read_GxOcOlr (a : avp) : GxOcOlr := build_GxOcOlr (occ (kids a)) (allocated (occ (kids a))).

Definition valid_GxOcOlr (a : avp) : Prop :=
  browse a = Browsed (kids a) true ∧
  any (value_ok uint64_t v_u64) (sel davp_oc_sequence_number (kids a)) ∧
  any (value_ok int32_t v_i32) (sel davp_oc_report_type (kids a)) ∧
  any (value_ok uint32_t v_u32) (sel davp_oc_reduction_percentage (kids a)) ∧
  any (value_ok uint32_t v_u32) (sel davp_oc_validity_duration (kids a)).

Definition kinds_GxOcOlr : list kind := [
    K_value davp_oc_sequence_number uint64_t v_u64;
    K_value davp_oc_report_type int32_t v_i32;
    K_value davp_oc_reduction_percentage uint32_t v_u32;
    K_value davp_oc_validity_duration uint32_t v_u32].
Definition fills_GxOcOlr (o : occurrences) : list kind := [].

#[export] Instance GxOcOlr_parse : ParseOk parseGxOcOlr zero_GxOcOlr read_GxOcOlr valid_GxOcOlr good_GxOcOlr.
Proof. parse_ok build_GxOcOlr kinds_GxOcOlr fills_GxOcOlr. Qed.

Definition build_GxExperimentalResult (o : occurrences) (m : davp -> option (list avp)) : GxExperimentalResult :=
  mk_GxExperimentalResult
    (presence_bits [some_met (o davp_vendor_id); some_met (o davp_experimental_result_code)])
    (value_in v_u32 (o davp_vendor_id))
    (value_in v_u32 (o davp_experimental_result_code)).

Definition read_GxExperimentalResult (a : avp) : GxExperimentalResult := build_GxExperimentalResult (occ (kids a)) (allocated (occ (kids a))).

Definition valid_GxExperimentalResult (a : avp) : Prop :=
  browse a = Browsed (kids a) true ∧
  any (value_ok uint32_t v_u32) (sel davp_vendor_id (kids a)) ∧
  any (value_ok uint32_t v_u32) (sel davp_experimental_result_code (kids a)).

Definition kinds_GxExperimentalResult : list kind := [
    K_value davp_vendor_id uint32_t v_u32;
    K_value davp_experimental_result_code uint32_t v_u32].
Definition fills_GxExperimentalResult (o : occurrences) : list kind := [].

#[export] Instance GxExperimentalResult_parse : ParseOk parseGxExperimentalResult zero_GxExperimentalResult read_GxExperimentalResult valid_GxExperimentalResult good_GxExperimentalResult.
Proof. parse_ok build_GxExperimentalResult kinds_GxExperimentalResult fills_GxExperimentalResult. Qed.

Definition build_GxCCA (o : occurrences) (m : davp -> option (list avp)) : GxCCA :=
  mk_GxCCA
    (presence_bits [some_met (o davp_session_id); some_met (o davp_drmp); some_met (o davp_auth_application_id); some_met (o davp_origin_host); some_met (o davp_origin_realm); some_met (o davp_result_code); some_met (o davp_experimental_result); some_met (o davp_cc_request_type); some_met (o davp_cc_request_number); some_met (o davp_oc_supported_features); some_met (o davp_oc_olr); some_met (o davp_supported_features); some_met (o davp_bearer_control_mode); some_met (o davp_event_trigger); some_met (o davp_event_report_indication); some_met (o davp_origin_state_id); some_met (o davp_redirect_host); some_met (o davp_redirect_host_usage); some_met (o davp_redirect_max_cache_time); some_met (o davp_charging_rule_remove); some_met (o davp_charging_rule_install); some_met (o davp_charging_information); some_met (o davp_online); some_met (o davp_offline); some_met (o davp_qos_information); some_met (o davp_revalidation_time); some_met (o davp_default_eps_bearer_qos); some_met (o davp_default_qos_information); some_met (o davp_bearer_usage); some_met (o davp_usage_monitoring_information); some_met (o davp_csg_information_reporting); some_met (o davp_user_csg_information); some_met (o davp_pra_install); some_met (o davp_pra_remove); some_met (o davp_presence_reporting_area_information); some_met (o davp_session_release_cause); some_met (o davp_nbifom_support); some_met (o davp_nbifom_mode); some_met (o davp_default_access); some_met (o davp_ran_rule_support); some_met (o davp_routing_rule_report); some_met (o davp_conditional_policy_information); some_met (o davp_removal_of_access); some_met (o davp_ip_can_type); some_met (o davp_error_message); some_met (o davp_error_reporting_host); some_met (o davp_failed_avp); some_met (o davp_proxy_info); some_met (o davp_route_record); some_met (o davp_load)])
    (octets_in GX_SESSION_ID_LEN (o davp_session_id))
    (value_in v_i32 (o davp_drmp))
    (value_in v_u32 (o davp_auth_application_id))
    (octets_in GX_ORIGIN_HOST_LEN (o davp_origin_host))
    (octets_in GX_ORIGIN_REALM_LEN (o davp_origin_realm))
    (value_in v_u32 (o davp_result_code))
    (struct_in zero_GxExperimentalResult read_GxExperimentalResult (o davp_experimental_result))
    (value_in v_i32 (o davp_cc_request_type))
    (value_in v_u32 (o davp_cc_request_number))
    (struct_in zero_GxOcSupportedFeatures read_GxOcSupportedFeatures (o davp_oc_supported_features))
    (struct_in zero_GxOcOlr read_GxOcOlr (o davp_oc_olr))
    (list_in zero_GxSupportedFeatures read_GxSupportedFeatures (o davp_supported_features) (m davp_supported_features))
    (value_in v_i32 (o davp_bearer_control_mode))
    (list_in 0 (read_value v_i32) (o davp_event_trigger) (m davp_event_trigger))
    (struct_in zero_GxEventReportIndication read_GxEventReportIndication (o davp_event_report_indication))
    (value_in v_u32 (o davp_origin_state_id))
    (list_in zero_octets (read_octets GX_REDIRECT_HOST_LEN) (o davp_redirect_host) (m davp_redirect_host))
    (value_in v_i32 (o davp_redirect_host_usage))
    (value_in v_u32 (o davp_redirect_max_cache_time))
    (list_in zero_GxChargingRuleRemove read_GxChargingRuleRemove (o davp_charging_rule_remove) (m davp_charging_rule_remove))
    (list_in zero_GxChargingRuleInstall read_GxChargingRuleInstall (o davp_charging_rule_install) (m davp_charging_rule_install))
    (struct_in zero_GxChargingInformation read_GxChargingInformation (o davp_charging_information))
    (value_in v_i32 (o davp_online))
    (value_in v_i32 (o davp_offline))
    (list_in zero_GxQosInformation read_GxQosInformation (o davp_qos_information) (m davp_qos_information))
    (time_in (o davp_revalidation_time))
    (struct_in zero_GxDefaultEpsBearerQos read_GxDefaultEpsBearerQos (o davp_default_eps_bearer_qos))
    (struct_in zero_GxDefaultQosInformation read_GxDefaultQosInformation (o davp_default_qos_information))
    (value_in v_i32 (o davp_bearer_usage))
    (list_in zero_GxUsageMonitoringInformation read_GxUsageMonitoringInformation (o davp_usage_monitoring_information) (m davp_usage_monitoring_information))
    (list_in 0 (read_value v_i32) (o davp_csg_information_reporting) (m davp_csg_information_reporting))
    (struct_in zero_GxUserCsgInformation read_GxUserCsgInformation (o davp_user_csg_information))
    (struct_in zero_GxPraInstall read_GxPraInstall (o davp_pra_install))
    (struct_in zero_GxPraRemove read_GxPraRemove (o davp_pra_remove))
    (struct_in zero_GxPresenceReportingAreaInformation read_GxPresenceReportingAreaInformation (o davp_presence_reporting_area_information))
    (value_in v_i32 (o davp_session_release_cause))
    (value_in v_i32 (o davp_nbifom_support))
    (value_in v_i32 (o davp_nbifom_mode))
    (value_in v_i32 (o davp_default_access))
    (value_in v_u32 (o davp_ran_rule_support))
    (list_in zero_GxRoutingRuleReport read_GxRoutingRuleReport (o davp_routing_rule_report) (m davp_routing_rule_report))
    (list_in zero_GxConditionalPolicyInformation read_GxConditionalPolicyInformation (o davp_conditional_policy_information) (m davp_conditional_policy_information))
    (value_in v_i32 (o davp_removal_of_access))
    (value_in v_i32 (o davp_ip_can_type))
    (octets_in GX_ERROR_MESSAGE_LEN (o davp_error_message))
    (octets_in GX_ERROR_REPORTING_HOST_LEN (o davp_error_reporting_host))
    (struct_in zero_GxFailedAvp read_GxFailedAvp (o davp_failed_avp))
    (list_in zero_GxProxyInfo read_GxProxyInfo (o davp_proxy_info) (m davp_proxy_info))
    (list_in zero_octets (read_octets GX_ROUTE_RECORD_LEN) (o davp_route_record) (m davp_route_record))
    (list_in zero_GxLoad read_GxLoad (o davp_load) (m davp_load)).

Definition read_GxCCA (a : avp) : GxCCA := build_GxCCA (occ (kids a)) (allocated (occ (kids a))).

Definition valid_GxCCA (a : avp) : Prop :=
  browse a = Browsed (kids a) true ∧
  any octets_ok (sel davp_session_id (kids a)) ∧
  any (value_ok int32_t v_i32) (sel davp_drmp (kids a)) ∧
  any (value_ok uint32_t v_u32) (sel davp_auth_application_id (kids a)) ∧
  any octets_ok (sel davp_origin_host (kids a)) ∧
  any octets_ok (sel davp_origin_realm (kids a)) ∧
  any (value_ok uint32_t v_u32) (sel davp_result_code (kids a)) ∧
  at_most_once valid_GxExperimentalResult (sel davp_experimental_result (kids a)) ∧
  any (value_ok int32_t v_i32) (sel davp_cc_request_type (kids a)) ∧
  any (value_ok uint32_t v_u32) (sel davp_cc_request_number (kids a)) ∧
  at_most_once valid_GxOcSupportedFeatures (sel davp_oc_supported_features (kids a)) ∧
  at_most_once valid_GxOcOlr (sel davp_oc_olr (kids a)) ∧
  many valid_GxSupportedFeatures (sel davp_supported_features (kids a)) ∧
  any (value_ok int32_t v_i32) (sel davp_bearer_control_mode (kids a)) ∧
  many (value_ok int32_t v_i32) (sel davp_event_trigger (kids a)) ∧
  at_most_once valid_GxEventReportIndication (sel davp_event_report_indication (kids a)) ∧
  any (value_ok uint32_t v_u32) (sel davp_origin_state_id (kids a)) ∧
  many octets_ok (sel davp_redirect_host (kids a)) ∧
  any (value_ok int32_t v_i32) (sel davp_redirect_host_usage (kids a)) ∧
  any (value_ok uint32_t v_u32) (sel davp_redirect_max_cache_time (kids a)) ∧
  many valid_GxChargingRuleRemove (sel davp_charging_rule_remove (kids a)) ∧
  many valid_GxChargingRuleInstall (sel davp_charging_rule_install (kids a)) ∧
  at_most_once valid_GxChargingInformation (sel davp_charging_information (kids a)) ∧
  any (value_ok int32_t v_i32) (sel davp_online (kids a)) ∧
  any (value_ok int32_t v_i32) (sel davp_offline (kids a)) ∧
  many valid_GxQosInformation (sel davp_qos_information (kids a)) ∧
  any time_ok (sel davp_revalidation_time (kids a)) ∧
  at_most_once valid_GxDefaultEpsBearerQos (sel davp_default_eps_bearer_qos (kids a)) ∧
  at_most_once valid_GxDefaultQosInformation (sel davp_default_qos_information (kids a)) ∧
  any (value_ok int32_t v_i32) (sel davp_bearer_usage (kids a)) ∧
  many valid_GxUsageMonitoringInformation (sel davp_usage_monitoring_information (kids a)) ∧
  many (value_ok int32_t v_i32) (sel davp_csg_information_reporting (kids a)) ∧
  at_most_once valid_GxUserCsgInformation (sel davp_user_csg_information (kids a)) ∧
  at_most_once valid_GxPraInstall (sel davp_pra_install (kids a)) ∧
  at_most_once valid_GxPraRemove (sel davp_pra_remove (kids a)) ∧
  at_most_once valid_GxPresenceReportingAreaInformation (sel davp_presence_reporting_area_information (kids a)) ∧
  any (value_ok int32_t v_i32) (sel davp_session_release_cause (kids a)) ∧
  any (value_ok int32_t v_i32) (sel davp_nbifom_support (kids a)) ∧
  any (value_ok int32_t v_i32) (sel davp_nbifom_mode (kids a)) ∧
  any (value_ok int32_t v_i32) (sel davp_default_access (kids a)) ∧
  any (value_ok uint32_t v_u32) (sel davp_ran_rule_support (kids a)) ∧
  many valid_GxRoutingRuleReport (sel davp_routing_rule_report (kids a)) ∧
  many valid_GxConditionalPolicyInformation (sel davp_conditional_policy_information (kids a)) ∧
  any (value_ok int32_t v_i32) (sel davp_removal_of_access (kids a)) ∧
  any (value_ok int32_t v_i32) (sel davp_ip_can_type (kids a)) ∧
  any octets_ok (sel davp_error_message (kids a)) ∧
  any octets_ok (sel davp_error_reporting_host (kids a)) ∧
  at_most_once valid_GxFailedAvp (sel davp_failed_avp (kids a)) ∧
  many valid_GxProxyInfo (sel davp_proxy_info (kids a)) ∧
  many octets_ok (sel davp_route_record (kids a)) ∧
  many valid_GxLoad (sel davp_load (kids a)).

Definition kinds_GxCCA : list kind := [
    K_octets davp_session_id;
    K_value davp_drmp int32_t v_i32;
    K_value davp_auth_application_id uint32_t v_u32;
    K_octets davp_origin_host;
    K_octets davp_origin_realm;
    K_value davp_result_code uint32_t v_u32;
    K_struct davp_experimental_result valid_GxExperimentalResult;
    K_value davp_cc_request_type int32_t v_i32;
    K_value davp_cc_request_number uint32_t v_u32;
    K_struct davp_oc_supported_features valid_GxOcSupportedFeatures;
    K_struct davp_oc_olr valid_GxOcOlr;
    K_count davp_supported_features;
    K_value davp_bearer_control_mode int32_t v_i32;
    K_count davp_event_trigger;
    K_struct davp_event_report_indication valid_GxEventReportIndication;
    K_value davp_origin_state_id uint32_t v_u32;
    K_count davp_redirect_host;
    K_value davp_redirect_host_usage int32_t v_i32;
    K_value davp_redirect_max_cache_time uint32_t v_u32;
    K_count davp_charging_rule_remove;
    K_count davp_charging_rule_install;
    K_struct davp_charging_information valid_GxChargingInformation;
    K_value davp_online int32_t v_i32;
    K_value davp_offline int32_t v_i32;
    K_count davp_qos_information;
    K_time davp_revalidation_time;
    K_struct davp_default_eps_bearer_qos valid_GxDefaultEpsBearerQos;
    K_struct davp_default_qos_information valid_GxDefaultQosInformation;
    K_value davp_bearer_usage int32_t v_i32;
    K_count davp_usage_monitoring_information;
    K_count davp_csg_information_reporting;
    K_struct davp_user_csg_information valid_GxUserCsgInformation;
    K_struct davp_pra_install valid_GxPraInstall;
    K_struct davp_pra_remove valid_GxPraRemove;
    K_struct davp_presence_reporting_area_information valid_GxPresenceReportingAreaInformation;
    K_value davp_session_release_cause int32_t v_i32;
    K_value davp_nbifom_support int32_t v_i32;
    K_value davp_nbifom_mode int32_t v_i32;
    K_value davp_default_access int32_t v_i32;
    K_value davp_ran_rule_support uint32_t v_u32;
    K_count davp_routing_rule_report;
    K_count davp_conditional_policy_information;
    K_value davp_removal_of_access int32_t v_i32;
    K_value davp_ip_can_type int32_t v_i32;
    K_octets davp_error_message;
    K_octets davp_error_reporting_host;
    K_struct davp_failed_avp valid_GxFailedAvp;
    K_count davp_proxy_info;
    K_count davp_route_record;
    K_count davp_load].
Definition fills_GxCCA (o : occurrences) : list kind := [
    K_fill davp_supported_features valid_GxSupportedFeatures (length (o davp_supported_features));
    K_fill davp_event_trigger (value_ok int32_t v_i32) (length (o davp_event_trigger));
    K_fill davp_redirect_host octets_ok (length (o davp_redirect_host));
    K_fill davp_charging_rule_remove valid_GxChargingRuleRemove (length (o davp_charging_rule_remove));
    K_fill davp_charging_rule_install valid_GxChargingRuleInstall (length (o davp_charging_rule_install));
    K_fill davp_qos_information valid_GxQosInformation (length (o davp_qos_information));
    K_fill davp_usage_monitoring_information valid_GxUsageMonitoringInformation (length (o davp_usage_monitoring_information));
    K_fill davp_csg_information_reporting (value_ok int32_t v_i32) (length (o davp_csg_information_reporting));
    K_fill davp_routing_rule_report valid_GxRoutingRuleReport (length (o davp_routing_rule_report));
    K_fill davp_conditional_policy_information valid_GxConditionalPolicyInformation (length (o davp_conditional_policy_information));
    K_fill davp_proxy_info valid_GxProxyInfo (length (o davp_proxy_info));
    K_fill davp_route_record octets_ok (length (o davp_route_record));
    K_fill davp_load valid_GxLoad (length (o davp_load))].

#[export] Instance GxCCA_parse : ParseOk gx_cca_parse zero_GxCCA read_GxCCA valid_GxCCA good_GxCCA.
Proof. parse_ok build_GxCCA kinds_GxCCA fills_GxCCA. Qed.

Definition build_GxRAA (o : occurrences) (m : davp -> option (list avp)) : GxRAA :=
  mk_GxRAA
    (presence_bits [some_met (o davp_session_id); some_met (o davp_drmp); some_met (o davp_origin_host); some_met (o davp_origin_realm); some_met (o davp_result_code); some_met (o davp_experimental_result); some_met (o davp_origin_state_id); some_met (o davp_oc_supported_features); some_met (o davp_oc_olr); some_met (o davp_ip_can_type); some_met (o davp_rat_type); some_met (o davp_an_trusted); some_met (o davp_an_gw_address); some_met (o davp_3gpp_sgsn_mcc_mnc); some_met (o davp_3gpp_sgsn_address); some_met (o davp_3gpp_sgsn_ipv6_address); some_met (o davp_rai); some_met (o davp_3gpp_user_location_info); some_met (o davp_user_location_info_time); some_met (o davp_netloc_access_support); some_met (o davp_user_csg_information); some_met (o davp_3gpp_ms_timezone); some_met (o davp_default_qos_information); some_met (o davp_charging_rule_report); some_met (o davp_error_message); some_met (o davp_error_reporting_host); some_met (o davp_failed_avp); some_met (o davp_proxy_info)])
    (octets_in GX_SESSION_ID_LEN (o davp_session_id))
    (value_in v_i32 (o davp_drmp))
    (octets_in GX_ORIGIN_HOST_LEN (o davp_origin_host))
    (octets_in GX_ORIGIN_REALM_LEN (o davp_origin_realm))
    (value_in v_u32 (o davp_result_code))
    (struct_in zero_GxExperimentalResult read_GxExperimentalResult (o davp_experimental_result))
    (value_in v_u32 (o davp_origin_state_id))
    (struct_in zero_GxOcSupportedFeatures read_GxOcSupportedFeatures (o davp_oc_supported_features))
    (struct_in zero_GxOcOlr read_GxOcOlr (o davp_oc_olr))
    (value_in v_i32 (o davp_ip_can_type))
    (value_in v_i32 (o davp_rat_type))
    (value_in v_i32 (o davp_an_trusted))
    (list_in zero_address read_address (o davp_an_gw_address) (m davp_an_gw_address))
    (octets_in GX_3GPP_SGSN_MCC_MNC_LEN (o davp_3gpp_sgsn_mcc_mnc))
    (octets_in GX_3GPP_SGSN_ADDRESS_LEN (o davp_3gpp_sgsn_address))
    (octets_in GX_3GPP_SGSN_IPV6_ADDRESS_LEN (o davp_3gpp_sgsn_ipv6_address))
    (octets_in GX_RAI_LEN (o davp_rai))
    (octets_in GX_3GPP_USER_LOCATION_INFO_LEN (o davp_3gpp_user_location_info))
    (time_in (o davp_user_location_info_time))
    (value_in v_u32 (o davp_netloc_access_support))
    (struct_in zero_GxUserCsgInformation read_GxUserCsgInformation (o davp_user_csg_information))
    (octets_in GX_3GPP_MS_TIMEZONE_LEN (o davp_3gpp_ms_timezone))
    (struct_in zero_GxDefaultQosInformation read_GxDefaultQosInformation (o davp_default_qos_information))
    (list_in zero_GxChargingRuleReport read_GxChargingRuleReport (o davp_charging_rule_report) (m davp_charging_rule_report))
    (octets_in GX_ERROR_MESSAGE_LEN (o davp_error_message))
    (octets_in GX_ERROR_REPORTING_HOST_LEN (o davp_error_reporting_host))
    (struct_in zero_GxFailedAvp read_GxFailedAvp (o davp_failed_avp))
    (list_in zero_GxProxyInfo read_GxProxyInfo (o davp_proxy_info) (m davp_proxy_info)).

Definition read_GxRAA (a : avp) : GxRAA := build_GxRAA (occ (kids a)) (allocated (occ (kids a))).

Definition valid_GxRAA (a : avp) : Prop :=
  browse a = Browsed (kids a) true ∧
  any octets_ok (sel davp_session_id (kids a)) ∧
  any (value_ok int32_t v_i32) (sel davp_drmp (kids a)) ∧
  any octets_ok (sel davp_origin_host (kids a)) ∧
  any octets_ok (sel davp_origin_realm (kids a)) ∧
  any (value_ok uint32_t v_u32) (sel davp_result_code (kids a)) ∧
  at_most_once valid_GxExperimentalResult (sel davp_experimental_result (kids a)) ∧
  any (value_ok uint32_t v_u32) (sel davp_origin_state_id (kids a)) ∧
  at_most_once valid_GxOcSupportedFeatures (sel davp_oc_supported_features (kids a)) ∧
  at_most_once valid_GxOcOlr (sel davp_oc_olr (kids a)) ∧
  any (value_ok int32_t v_i32) (sel davp_ip_can_type (kids a)) ∧
  any (value_ok int32_t v_i32) (sel davp_rat_type (kids a)) ∧
  any (value_ok int32_t v_i32) (sel davp_an_trusted (kids a)) ∧
  many address_ok (sel davp_an_gw_address (kids a)) ∧
  any octets_ok (sel davp_3gpp_sgsn_mcc_mnc (kids a)) ∧
  any octets_ok (sel davp_3gpp_sgsn_address (kids a)) ∧
  any octets_ok (sel davp_3gpp_sgsn_ipv6_address (kids a)) ∧
  any octets_ok (sel davp_rai (kids a)) ∧
  any octets_ok (sel davp_3gpp_user_location_info (kids a)) ∧
  any time_ok (sel davp_user_location_info_time (kids a)) ∧
  any (value_ok uint32_t v_u32) (sel davp_netloc_access_support (kids a)) ∧
  at_most_once valid_GxUserCsgInformation (sel davp_user_csg_information (kids a)) ∧
  any octets_ok (sel davp_3gpp_ms_timezone (kids a)) ∧
  at_most_once valid_GxDefaultQosInformation (sel davp_default_qos_information (kids a)) ∧
  many valid_GxChargingRuleReport (sel davp_charging_rule_report (kids a)) ∧
  any octets_ok (sel davp_error_message (kids a)) ∧
  any octets_ok (sel davp_error_reporting_host (kids a)) ∧
  at_most_once valid_GxFailedAvp (sel davp_failed_avp (kids a)) ∧
  many valid_GxProxyInfo (sel davp_proxy_info (kids a)).

Definition kinds_GxRAA : list kind := [
    K_octets davp_session_id;
    K_value davp_drmp int32_t v_i32;
    K_octets davp_origin_host;
    K_octets davp_origin_realm;
    K_value davp_result_code uint32_t v_u32;
    K_struct davp_experimental_result valid_GxExperimentalResult;
    K_value davp_origin_state_id uint32_t v_u32;
    K_struct davp_oc_supported_features valid_GxOcSupportedFeatures;
    K_struct davp_oc_olr valid_GxOcOlr;
    K_value davp_ip_can_type int32_t v_i32;
    K_value davp_rat_type int32_t v_i32;
    K_value davp_an_trusted int32_t v_i32;
    K_count davp_an_gw_address;
    K_octets davp_3gpp_sgsn_mcc_mnc;
    K_octets davp_3gpp_sgsn_address;
    K_octets davp_3gpp_sgsn_ipv6_address;
    K_octets davp_rai;
    K_octets davp_3gpp_user_location_info;
    K_time davp_user_location_info_time;
    K_value davp_netloc_access_support uint32_t v_u32;
    K_struct davp_user_csg_information valid_GxUserCsgInformation;
    K_octets davp_3gpp_ms_timezone;
    K_struct davp_default_qos_information valid_GxDefaultQosInformation;
    K_count davp_charging_rule_report;
    K_octets davp_error_message;
    K_octets davp_error_reporting_host;
    K_struct davp_failed_avp valid_GxFailedAvp;
    K_count davp_proxy_info].
Definition fills_GxRAA (o : occurrences) : list kind := [
    K_fill davp_an_gw_address address_ok (length (o davp_an_gw_address));
    K_fill davp_charging_rule_report valid_GxChargingRuleReport (length (o davp_charging_rule_report));
    K_fill davp_proxy_info valid_GxProxyInfo (length (o davp_proxy_info))].

#[export] Instance GxRAA_parse : ParseOk gx_raa_parse zero_GxRAA read_GxRAA valid_GxRAA good_GxRAA.
Proof. parse_ok build_GxRAA kinds_GxRAA fills_GxRAA. Qed.

Definition build_GxRAR (o : occurrences) (m : davp -> option (list avp)) : GxRAR :=
  mk_GxRAR
    (presence_bits [some_met (o davp_session_id); some_met (o davp_drmp); some_met (o davp_auth_application_id); some_met (o davp_origin_host); some_met (o davp_origin_realm); some_met (o davp_destination_realm); some_met (o davp_destination_host); some_met (o davp_re_auth_request_type); some_met (o davp_session_release_cause); some_met (o davp_origin_state_id); some_met (o davp_oc_supported_features); some_met (o davp_event_trigger); some_met (o davp_event_report_indication); some_met (o davp_charging_rule_remove); some_met (o davp_charging_rule_install); some_met (o davp_default_eps_bearer_qos); some_met (o davp_qos_information); some_met (o davp_default_qos_information); some_met (o davp_revalidation_time); some_met (o davp_usage_monitoring_information); some_met (o davp_pcscf_restoration_indication); some_met (o davp_conditional_policy_information); some_met (o davp_removal_of_access); some_met (o davp_ip_can_type); some_met (o davp_pra_install); some_met (o davp_pra_remove); some_met (o davp_csg_information_reporting); some_met (o davp_proxy_info); some_met (o davp_route_record)])
    (octets_in GX_SESSION_ID_LEN (o davp_session_id))
    (value_in v_i32 (o davp_drmp))
    (value_in v_u32 (o davp_auth_application_id))
    (octets_in GX_ORIGIN_HOST_LEN (o davp_origin_host))
    (octets_in GX_ORIGIN_REALM_LEN (o davp_origin_realm))
    (octets_in GX_DESTINATION_REALM_LEN (o davp_destination_realm))
    (octets_in GX_DESTINATION_HOST_LEN (o davp_destination_host))
    (value_in v_i32 (o davp_re_auth_request_type))
    (value_in v_i32 (o davp_session_release_cause))
    (value_in v_u32 (o davp_origin_state_id))
    (struct_in zero_GxOcSupportedFeatures read_GxOcSupportedFeatures (o davp_oc_supported_features))
    (list_in 0 (read_value v_i32) (o davp_event_trigger) (m davp_event_trigger))
    (struct_in zero_GxEventReportIndication read_GxEventReportIndication (o davp_event_report_indication))
    (list_in zero_GxChargingRuleRemove read_GxChargingRuleRemove (o davp_charging_rule_remove) (m davp_charging_rule_remove))
    (list_in zero_GxChargingRuleInstall read_GxChargingRuleInstall (o davp_charging_rule_install) (m davp_charging_rule_install))
    (struct_in zero_GxDefaultEpsBearerQos read_GxDefaultEpsBearerQos (o davp_default_eps_bearer_qos))
    (list_in zero_GxQosInformation read_GxQosInformation (o davp_qos_information) (m davp_qos_information))
    (struct_in zero_GxDefaultQosInformation read_GxDefaultQosInformation (o davp_default_qos_information))
    (time_in (o davp_revalidation_time))
    (list_in zero_GxUsageMonitoringInformation read_GxUsageMonitoringInformation (o davp_usage_monitoring_information) (m davp_usage_monitoring_information))
    (value_in v_u32 (o davp_pcscf_restoration_indication))
    (list_in zero_GxConditionalPolicyInformation read_GxConditionalPolicyInformation (o davp_conditional_policy_information) (m davp_conditional_policy_information))
    (value_in v_i32 (o davp_removal_of_access))
    (value_in v_i32 (o davp_ip_can_type))
    (struct_in zero_GxPraInstall read_GxPraInstall (o davp_pra_install))
    (struct_in zero_GxPraRemove read_GxPraRemove (o davp_pra_remove))
    (list_in 0 (read_value v_i32) (o davp_csg_information_reporting) (m davp_csg_information_reporting))
    (list_in zero_GxProxyInfo read_GxProxyInfo (o davp_proxy_info) (m davp_proxy_info))
    (list_in zero_octets (read_octets GX_ROUTE_RECORD_LEN) (o davp_route_record) (m davp_route_record)).

Definition read_GxRAR (a : avp) : GxRAR := build_GxRAR (occ (kids a)) (allocated (occ (kids a))).

Definition valid_GxRAR (a : avp) : Prop :=
  browse a = Browsed (kids a) true ∧
  any octets_ok (sel davp_session_id (kids a)) ∧
  any (value_ok int32_t v_i32) (sel davp_drmp (kids a)) ∧
  any (value_ok uint32_t v_u32) (sel davp_auth_application_id (kids a)) ∧
  any octets_ok (sel davp_origin_host (kids a)) ∧
  any octets_ok (sel davp_origin_realm (kids a)) ∧
  any octets_ok (sel davp_destination_realm (kids a)) ∧
  any octets_ok (sel davp_destination_host (kids a)) ∧
  any (value_ok int32_t v_i32) (sel davp_re_auth_request_type (kids a)) ∧
  any (value_ok int32_t v_i32) (sel davp_session_release_cause (kids a)) ∧
  any (value_ok uint32_t v_u32) (sel davp_origin_state_id (kids a)) ∧
  at_most_once valid_GxOcSupportedFeatures (sel davp_oc_supported_features (kids a)) ∧
  many (value_ok int32_t v_i32) (sel davp_event_trigger (kids a)) ∧
  at_most_once valid_GxEventReportIndication (sel davp_event_report_indication (kids a)) ∧
  many valid_GxChargingRuleRemove (sel davp_charging_rule_remove (kids a)) ∧
  many valid_GxChargingRuleInstall (sel davp_charging_rule_install (kids a)) ∧
  at_most_once valid_GxDefaultEpsBearerQos (sel davp_default_eps_bearer_qos (kids a)) ∧
  many valid_GxQosInformation (sel davp_qos_information (kids a)) ∧
  at_most_once valid_GxDefaultQosInformation (sel davp_default_qos_information (kids a)) ∧
  any time_ok (sel davp_revalidation_time (kids a)) ∧
  many valid_GxUsageMonitoringInformation (sel davp_usage_monitoring_information (kids a)) ∧
  any (value_ok uint32_t v_u32) (sel davp_pcscf_restoration_indication (kids a)) ∧
  many valid_GxConditionalPolicyInformation (sel davp_conditional_policy_information (kids a)) ∧
  any (value_ok int32_t v_i32) (sel davp_removal_of_access (kids a)) ∧
  any (value_ok int32_t v_i32) (sel davp_ip_can_type (kids a)) ∧
  at_most_once valid_GxPraInstall (sel davp_pra_install (kids a)) ∧
  at_most_once valid_GxPraRemove (sel davp_pra_remove (kids a)) ∧
  many (value_ok int32_t v_i32) (sel davp_csg_information_reporting (kids a)) ∧
  many valid_GxProxyInfo (sel davp_proxy_info (kids a)) ∧
  many octets_ok (sel davp_route_record (kids a)).

Definition kinds_GxRAR : list kind := [
    K_octets davp_session_id;
    K_value davp_drmp int32_t v_i32;
    K_value davp_auth_application_id uint32_t v_u32;
    K_octets davp_origin_host;
    K_octets davp_origin_realm;
    K_octets davp_destination_realm;
    K_octets davp_destination_host;
    K_value davp_re_auth_request_type int32_t v_i32;
    K_value davp_session_release_cause int32_t v_i32;
    K_value davp_origin_state_id uint32_t v_u32;
    K_struct davp_oc_supported_features valid_GxOcSupportedFeatures;
    K_count davp_event_trigger;
    K_struct davp_event_report_indication valid_GxEventReportIndication;
    K_count davp_charging_rule_remove;
    K_count davp_charging_rule_install;
    K_struct davp_default_eps_bearer_qos valid_GxDefaultEpsBearerQos;
    K_count davp_qos_information;
    K_struct davp_default_qos_information valid_GxDefaultQosInformation;
    K_time davp_revalidation_time;
    K_count davp_usage_monitoring_information;
    K_value davp_pcscf_restoration_indication uint32_t v_u32;
    K_count davp_conditional_policy_information;
    K_value davp_removal_of_access int32_t v_i32;
    K_value davp_ip_can_type int32_t v_i32;
    K_struct davp_pra_install valid_GxPraInstall;
    K_struct davp_pra_remove valid_GxPraRemove;
    K_count davp_csg_information_reporting;
    K_count davp_proxy_info;
    K_count davp_route_record].
Definition fills_GxRAR (o : occurrences) : list kind := [
    K_fill davp_event_trigger (value_ok int32_t v_i32) (length (o davp_event_trigger));
    K_fill davp_charging_rule_remove valid_GxChargingRuleRemove (length (o davp_charging_rule_remove));
    K_fill davp_charging_rule_install valid_GxChargingRuleInstall (length (o davp_charging_rule_install));
    K_fill davp_qos_information valid_GxQosInformation (length (o davp_qos_information));
    K_fill davp_usage_monitoring_information valid_GxUsageMonitoringInformation (length (o davp_usage_monitoring_information));
    K_fill davp_conditional_policy_information valid_GxConditionalPolicyInformation (length (o davp_conditional_policy_information));
    K_fill davp_csg_information_reporting (value_ok int32_t v_i32) (length (o davp_csg_information_reporting));
    K_fill davp_proxy_info valid_GxProxyInfo (length (o davp_proxy_info));
    K_fill davp_route_record octets_ok (length (o davp_route_record))].

#[export] Instance GxRAR_parse : ParseOk gx_rar_parse zero_GxRAR read_GxRAR valid_GxRAR good_GxRAR.
Proof. parse_ok build_GxRAR kinds_GxRAR fills_GxRAR. Qed.

End GxParsersSpec.
