(* ===== verification/GxProps.v ===== *)
(** * Properties of the Gx interface between the two processes

    The messages of [gx_msg], their way from the control plane to the Gx application and
    back (src/cp/gx/gx_interface.c, src/cp/procedures/proc_rar.c,
    src/cp/gx/gx_app/src/gx_rar.c), and the properties of packing, unpacking and
    parsing. *)

From S2P Require Import Prelude GxCodec GxCodecSpec GxStructs GxPack GxPackSpec GxDict GxParser GxParserSpec GxParsers GxParsersSpec.

(** ** Messages *)

(** [union data_t] of [gx_msg] *)
Inductive gx_data :=
  | cp_rar (d : GxRAR)
  | cp_raa (d : GxRAA)
  | cp_ccr (d : GxCCR)
  | cp_cca (d : GxCCA).

(** [enum e_BUF_HDR] *)
Definition GX_RAR_MSG : Z := 0.
Definition GX_RAA_MSG : Z := 1.
Definition GX_CCR_MSG : Z := 2.
Definition GX_CCA_MSG : Z := 3.

Definition msg_type (m : gx_data) : Z :=
  match m with
  | cp_rar _ => GX_RAR_MSG
  | cp_raa _ => GX_RAA_MSG
  | cp_ccr _ => GX_CCR_MSG
  | cp_cca _ => GX_CCA_MSG
  end.

Definition gx_calc_length (m : gx_data) : option Z :=
  match m with
  | cp_rar d => gx_rar_calc_length d
  | cp_raa d => gx_raa_calc_length d
  | cp_ccr d => gx_ccr_calc_length d
  | cp_cca d => gx_cca_calc_length d
  end.

Definition gx_pack (m : gx_data) : list Z -> Z -> option (bool * list Z) :=
  match m with
  | cp_rar d => gx_rar_pack d
  | cp_raa d => gx_raa_pack d
  | cp_ccr d => gx_ccr_pack d
  | cp_cca d => gx_cca_pack d
  end.

(** Unpacking into a structure that holds [old]. *)
Definition gx_unpack `{Memory} (buf : list Z) (old : gx_data) : option (bool * gx_data) :=
  match old with
  | cp_rar d => '(ok, d') ← gx_rar_unpack buf d; Some (ok, cp_rar d')
  | cp_raa d => '(ok, d') ← gx_raa_unpack buf d; Some (ok, cp_raa d')
  | cp_ccr d => '(ok, d') ← gx_ccr_unpack buf d; Some (ok, cp_ccr d')
  | cp_cca d => '(ok, d') ← gx_cca_unpack buf d; Some (ok, cp_cca d')
  end.

Definition gx_view (m : gx_data) : gval :=
  match m with
  | cp_rar d => view_GxRAR d
  | cp_raa d => view_GxRAA d
  | cp_ccr d => view_GxCCR d
  | cp_cca d => view_GxCCA d
  end.

Definition gx_good (m : gx_data) : Prop :=
  match m with
  | cp_rar d => good_GxRAR d
  | cp_raa d => good_GxRAA d
  | cp_ccr d => good_GxCCR d
  | cp_cca d => good_GxCCA d
  end.

(** The number of bytes of a message with its length field. *)
Definition gx_length (m : gx_data) : Z := 4 + blen (wire (gx_view m)).

(** ** Frames

    On the socket a message has its type (one byte) and a sequence number (two bytes)
    before it.  The result of a sender is [Some None] when it gives up because the message
    could not be packed. *)

(** The control plane sends a CCR (gx_interface.c, and the same lines in the procedures):
    the sequence number stays 0. *)
Definition ccr_frame (data : GxCCR) : option (option (list Z)) :=
  msg_len ← gx_ccr_calc_length data;
  let buffer := replicate (Z.to_nat (msg_len + 3)) 0 in
  buffer1 ← memcpy 1 [GX_CCR_MSG] 0 buffer 0;
  '(ok, body) ← gx_ccr_pack data (drop 3 buffer1) msg_len;
  Some (if ok : bool then Some (take 3 buffer1 ++ body) else None).

(** The control plane sends an RAA with the sequence number of the request (proc_rar.c); a
    failure of packing is only logged. *)
Definition raa_frame (data : GxRAA) (rar_seq_num : Z) : option (option (list Z)) :=
  buflen ← gx_raa_calc_length data;
  let send_buf := replicate (Z.to_nat (buflen + 3)) 0 in
  send_buf1 ← memcpy 1 [GX_RAA_MSG] 0 send_buf 0;
  send_buf2 ← memcpy 2 (le_bytes 2 rar_seq_num) 0 send_buf1 1;
  '(_, body) ← gx_raa_pack data (drop 3 send_buf2) buflen;
  Some (Some (take 3 send_buf2 ++ body)).

(** The Gx application sends a CCA (gx_cca.c): of the memory that [malloc] gives, only the
    first [buflen] bytes are cleared, although the message begins at the fourth byte;
    [dirty] are the other 101 bytes. *)
Definition cca_frame (data : GxCCA) (dirty : list Z) : option (option (list Z)) :=
  buflen ← gx_cca_calc_length data;
  let send_buf := replicate (Z.to_nat buflen) 0 ++ dirty in
  send_buf1 ← memcpy 1 [GX_CCA_MSG] 0 send_buf 0;
  '(ok, body) ← gx_cca_pack data (drop 3 send_buf1) buflen;
  Some (if ok : bool then Some (take (Z.to_nat (buflen + 3)) (take 3 send_buf1 ++ body)) else None).

(** The Gx application sends a Re-Auth-Request (gx_rar.c) with the pointer to the Diameter
    request behind it ([rqst], eight bytes); the place of the pointer is calculated without
    the two bytes of the sequence number. *)
Definition rar_frame (data : GxRAR) (rar_seq_num rqst : Z) : option (option (list Z)) :=
  buflen ← gx_rar_calc_length data;
  let send_buf := replicate (Z.to_nat (1 + buflen + 8)) 0 in
  send_buf1 ← memcpy 1 [GX_RAR_MSG] 0 send_buf 0;
  send_buf2 ← memcpy 2 (le_bytes 2 rar_seq_num) 0 send_buf1 1;
  '(_, body) ← gx_rar_pack data (drop 3 send_buf2) buflen;
  frame ← memcpy 8 (le_bytes 8 rqst) 0 (take 3 send_buf2 ++ body) (1 + buflen);
  Some (Some frame).

(** The frame of a message, with what the senders get besides it. *)
Definition gx_frame (m : gx_data) (seq_num : Z) (dirty : list Z) (rqst : Z) : option (option (list Z)) :=
  match m with
  | cp_rar d => rar_frame d seq_num rqst
  | cp_raa d => raa_frame d seq_num
  | cp_ccr d => ccr_frame d
  | cp_cca d => cca_frame d dirty
  end.

(** What the receiver unpacks: the bytes behind type and sequence number. *)
Definition gx_receive `{Memory} (frame : list Z) (old : gx_data) : option (bool * gx_data) :=
  gx_unpack (drop 3 frame) old.

(** A machine with enough memory, for what does not depend on it and for examples. *)
Definition plenty : Memory := {| malloc_ok := λ _, true; uninit := λ _ a _ _, a |}.
Lemma plenty_succeeds : @MallocSucceeds plenty.
Proof. done. Qed.

(** ** The three operations of a message *)

Lemma gx_calc_length_ok m : gx_good m -> gx_calc_length m = Some (u32 (gx_length m)).
Proof.
  destruct m as [d|d|d|d]; cbn [gx_good gx_calc_length]; intros Hg.
  - exact (message_calc_ok (@GxRAR_message plenty plenty_succeeds) d Hg).
  - exact (message_calc_ok (@GxRAA_message plenty plenty_succeeds) d Hg).
  - exact (message_calc_ok (@GxCCR_message plenty plenty_succeeds) d Hg).
  - exact (message_calc_ok (@GxCCA_message plenty plenty_succeeds) d Hg).
Qed.

Lemma gx_pack_ok m old buflen post : gx_good m -> 4 <= buflen < 2 ^ 32 -> blen old = buflen ->
  cleared (need (gx_view m)) (drop 4 old) ->
  ∃ buf, length buf = Z.to_nat buflen ∧
  gx_pack m (old ++ post) buflen = Some (buflen =? gx_length m, buf ++ post) ∧
  (buflen = gx_length m -> buf = le_bytes 4 (gx_length m) ++ wire (gx_view m)).
Proof.
  destruct m as [d|d|d|d]; cbn [gx_good gx_pack]; intros Hg Hb Ho Hc.
  - exact (message_pack_ok (@GxRAR_message plenty plenty_succeeds) d old buflen post Hg Hb Ho Hc).
  - exact (message_pack_ok (@GxRAA_message plenty plenty_succeeds) d old buflen post Hg Hb Ho Hc).
  - exact (message_pack_ok (@GxCCR_message plenty plenty_succeeds) d old buflen post Hg Hb Ho Hc).
  - exact (message_pack_ok (@GxCCA_message plenty plenty_succeeds) d old buflen post Hg Hb Ho Hc).
Qed.
Lemma cleared_zeros z k : cleared z (replicate k 0).
Proof. unfold cleared. rewrite take_replicate. by apply Forall_replicate. Qed.
Lemma cleared_start z k rest : (z <= k)%nat -> cleared z (replicate k 0 ++ rest).
Proof.
  intros H. unfold cleared. rewrite take_app_le by (by rewrite length_replicate). apply cleared_zeros.
Qed.

Lemma gx_unpack_ok `{MallocSucceeds} m old post : gx_good m -> gx_length m < 2 ^ 32 -> msg_type old = msg_type m ->
  ∃ m', gx_unpack (le_bytes 4 (gx_length m) ++ wire (gx_view m) ++ post) old = Some (true, m') ∧
        msg_type m' = msg_type m ∧ gx_view m' = gx_view m.
Proof.
  destruct m as [d|d|d|d], old as [x|x|x|x]; cbn [gx_good]; intros Hg Hl Ht; try discriminate Ht;
    unfold gx_length, gx_unpack; cbn [gx_view] in *.
  - destruct (message_unpack_ok GxRAR_message d x post Hg Hl) as (x' & -> & Hv). by exists (cp_rar x').
  - destruct (message_unpack_ok GxRAA_message d x post Hg Hl) as (x' & -> & Hv). by exists (cp_raa x').
  - destruct (message_unpack_ok GxCCR_message d x post Hg Hl) as (x' & -> & Hv). by exists (cp_ccr x').
  - destruct (message_unpack_ok GxCCA_message d x post Hg Hl) as (x' & -> & Hv). by exists (cp_cca x').
Qed.

Lemma gx_length_min m : 4 <= gx_length m.
Proof. unfold gx_length. pose proof (blen_nonneg (wire (gx_view m))). lia. Qed.

Lemma put_type t r : memcpy 1 [t] 0 (replicate 3 0 ++ r) 0 = Some ([t; 0; 0] ++ r).
Proof. by rewrite memcpy_from by (cbn; lia). Qed.

Lemma put_seq t seq_num r : memcpy 2 (le_bytes 2 seq_num) 0 ([t; 0; 0] ++ r) 1 = Some (([t] ++ le_bytes 2 seq_num) ++ r).
Proof.
  pose proof (memcpy_put 2 (le_bytes 2 seq_num) [t] [0; 0] r eq_refl ltac:(by rewrite length_le_bytes)) as E.
  rewrite take_ge in E by (rewrite length_le_bytes; lia). by rewrite <- app_assoc, <- E.
Qed.

(** The bytes of a message, and packing them behind a header. *)
Definition gx_bytes (m : gx_data) : list Z := le_bytes 4 (gx_length m) ++ wire (gx_view m).

Lemma blen_gx_bytes m : blen (gx_bytes m) = gx_length m.
Proof. unfold gx_bytes, gx_length. by rewrite blen_app, blen_le. Qed.

Lemma gx_pack_over m old post : gx_good m -> gx_length m < 2 ^ 32 -> blen old = gx_length m ->
  cleared (need (gx_view m)) (drop 4 old) ->
  gx_pack m (old ++ post) (gx_length m) = Some (true, gx_bytes m ++ post).
Proof.
  intros Hg Hl Ho Hc. pose proof (gx_length_min m).
  destruct (gx_pack_ok m old (gx_length m) post Hg ltac:(lia) Ho Hc) as (buf & _ & -> & Hb). rewrite Hb by done.
  by rewrite Z.eqb_refl.
Qed.
Lemma gx_pack_zeros m post : gx_good m -> gx_length m < 2 ^ 32 ->
  gx_pack m (replicate (Z.to_nat (gx_length m)) 0 ++ post) (gx_length m) = Some (true, gx_bytes m ++ post).
Proof.
  intros Hg Hl. pose proof (gx_length_min m). apply gx_pack_over; [done..| |].
  - unfold blen. rewrite length_replicate. lia.
  - rewrite drop_replicate. apply cleared_zeros.
Qed.

Lemma gx_calc_length_small m : gx_good m -> gx_length m < 2 ^ 32 -> gx_calc_length m = Some (gx_length m).
Proof. intros Hg Hl. pose proof (gx_length_min m). by rewrite gx_calc_length_ok, uwrap_small by (done || lia). Qed.

Lemma buffer_split k n post : n = (3 + Z.to_nat k)%nat ->
  replicate n 0 ++ post = replicate 3 0 ++ replicate (Z.to_nat k) (0 : Z) ++ post.
Proof. intros ->. by rewrite replicate_add, <- app_assoc. Qed.

Lemma ccr_frame_bytes d : good_GxCCR d -> gx_length (cp_ccr d) < 2 ^ 32 ->
  ccr_frame d = Some (Some ([GX_CCR_MSG; 0; 0] ++ gx_bytes (cp_ccr d))).
Proof.
  intros Hg Hl. pose proof (gx_length_min (cp_ccr d)). unfold ccr_frame.
  rewrite (gx_calc_length_small (cp_ccr d) Hg Hl : gx_ccr_calc_length d = _). cbn [mbind option_bind].
  rewrite <- (app_nil_r (replicate _ 0)), (buffer_split (gx_length (cp_ccr d))), put_type by lia. cbn [mbind option_bind].
  rewrite take_app_length', drop_app_length' by done.
  rewrite (gx_pack_zeros (cp_ccr d) [] Hg Hl : gx_ccr_pack d _ _ = _). cbn [mbind option_bind]. by rewrite app_nil_r.
Qed.

Lemma raa_frame_bytes d seq_num : good_GxRAA d -> gx_length (cp_raa d) < 2 ^ 32 ->
  raa_frame d seq_num = Some (Some (([GX_RAA_MSG] ++ le_bytes 2 seq_num) ++ gx_bytes (cp_raa d))).
Proof.
  intros Hg Hl. pose proof (gx_length_min (cp_raa d)). unfold raa_frame.
  rewrite (gx_calc_length_small (cp_raa d) Hg Hl : gx_raa_calc_length d = _). cbn [mbind option_bind].
  rewrite <- (app_nil_r (replicate _ 0)), (buffer_split (gx_length (cp_raa d))), put_type by lia. cbn [mbind option_bind].
  rewrite put_seq. cbn [mbind option_bind]. rewrite take_app_length', drop_app_length' by (by rewrite length_app, length_le_bytes).
  rewrite (gx_pack_zeros (cp_raa d) [] Hg Hl : gx_raa_pack d _ _ = _). cbn [mbind option_bind]. by rewrite app_nil_r.
Qed.

(** The last three bytes of the buffer of a CCA are what the heap held.  They do no harm if
    they are zero, or if no octet string of a list that has fewer than three bytes ends the
    message. *)
Definition end_clear (m : gx_data) (dirty : list Z) : Prop :=
  (3 <= length dirty)%nat ∧
  (take 3 dirty = [0; 0; 0] ∨ (need (gx_view m) + 3 <= length (wire (gx_view m)))%nat).
#[global] Instance end_clear_dec m dirty : Decision (end_clear m dirty).
Proof. unfold end_clear. apply _. Defined.

Lemma cca_frame_bytes d dirty : good_GxCCA d -> gx_length (cp_cca d) < 2 ^ 32 -> end_clear (cp_cca d) dirty ->
  cca_frame d dirty = Some (Some ([GX_CCA_MSG; 0; 0] ++ gx_bytes (cp_cca d))).
Proof.
  intros Hg Hl [H3 He]. pose proof (gx_length_min (cp_cca d)). unfold cca_frame.
  rewrite (gx_calc_length_small (cp_cca d) Hg Hl : gx_cca_calc_length d = _). cbn [mbind option_bind].
  rewrite (buffer_split (gx_length (cp_cca d) - 3)), put_type by lia. cbn [mbind option_bind].
  rewrite take_app_length', drop_app_length' by done. rewrite <- (take_drop 3 dirty), app_assoc.
  set (old := replicate _ _ ++ take 3 dirty).
  assert (gx_cca_pack d (old ++ drop 3 dirty) (gx_length (cp_cca d)) = Some (true, gx_bytes (cp_cca d) ++ drop 3 dirty)) as ->.
  { apply (gx_pack_over (cp_cca d) old (drop 3 dirty) Hg Hl).
    - unfold old, blen. rewrite length_app, length_replicate, length_take. lia.
    - unfold old. destruct He as [->|He].
      + change [0; 0; 0] with (replicate 3 (0 : Z)). rewrite <- replicate_add, drop_replicate. apply cleared_zeros.
      + destruct (decide (need (gx_view (cp_cca d)) = 0%nat)) as [->|Hn]; [constructor|].
        unfold gx_length, blen in *. rewrite drop_app_le by (rewrite length_replicate; lia).
        rewrite drop_replicate. apply cleared_start. lia. }
  cbn [mbind option_bind]. rewrite app_assoc, take_app_length'; [done|].
  pose proof (blen_gx_bytes (cp_cca d)) as Hb. unfold blen in Hb. rewrite length_app. cbn [length]. lia.
Qed.

Lemma rar_frame_bytes d seq_num rqst : good_GxRAR d -> gx_length (cp_rar d) < 2 ^ 32 ->
  let msg := gx_bytes (cp_rar d) in
  rar_frame d seq_num rqst
  = Some (Some (([GX_RAR_MSG] ++ le_bytes 2 seq_num) ++ take (length msg - 2) msg ++ le_bytes 8 rqst)).
Proof.
  intros Hg Hl msg. pose proof (gx_length_min (cp_rar d)). unfold rar_frame.
  rewrite (gx_calc_length_small (cp_rar d) Hg Hl : gx_rar_calc_length d = _). cbn [mbind option_bind].
  replace (Z.to_nat (1 + gx_length (cp_rar d) + 8)) with (3 + Z.to_nat (gx_length (cp_rar d)) + 6)%nat by lia.
  rewrite (replicate_add (3 + _) 6), (buffer_split (gx_length (cp_rar d))), put_type by lia. cbn [mbind option_bind].
  rewrite put_seq. cbn [mbind option_bind]. rewrite take_app_length', drop_app_length' by (by rewrite length_app, length_le_bytes).
  rewrite (gx_pack_zeros (cp_rar d) _ Hg Hl : gx_rar_pack d _ _ = _). cbn [mbind option_bind]. fold msg.
  pose proof (blen_gx_bytes (cp_rar d)) as Hm. fold msg in Hm. clearbody msg. unfold blen in Hm.
  rewrite <- (take_drop (length msg - 2) msg) at 1.
  replace (1 + gx_length (cp_rar d)) with (blen (([GX_RAR_MSG] ++ le_bytes 2 seq_num) ++ take (length msg - 2) msg))
    by (rewrite !blen_app, blen_le; unfold blen; rewrite length_take; cbn [length]; lia).
  pose proof (memcpy_put 8 (le_bytes 8 rqst) (([GX_RAR_MSG] ++ le_bytes 2 seq_num) ++ take (length msg - 2) msg)
    (drop (length msg - 2) msg ++ replicate 6 0) []) as E. rewrite !app_nil_r, <- !app_assoc in E. rewrite <- !app_assoc.
  rewrite E; [|rewrite length_app, length_drop, length_replicate; lia|by rewrite length_le_bytes]. cbn [mbind option_bind].
  by rewrite (take_ge (le_bytes 8 rqst)) by (rewrite length_le_bytes; lia).
Qed.

(** ** Values of AVPs *)

Lemma lor_byte b0 b1 : byte_ok b0 -> Z.lor (Z.shiftl b1 8) b0 = b0 + 256 * b1.
Proof.
  intros H0. unfold byte_ok in H0. pose proof (Z.add_lor_land (Z.shiftl b1 8) b0) as E.
  assert (Hb : b0 = Z.land b0 (Z.ones 8)) by (rewrite Z.land_ones by lia; symmetry; apply Z.mod_small; lia).
  rewrite Hb, (Z.land_comm b0), Z.land_assoc, Z.land_ones, Z.shiftl_mul_pow2, Z.mod_mul, Z.land_0_l in E by lia.
  rewrite Z.land_comm, <- Hb in E. rewrite Z.shiftl_mul_pow2 by lia. lia.
Qed.

Lemma parse_address_cases v : bytes_ok (v_os v) -> Z.of_nat (length (v_os v)) < 2 ^ 31 ->
  parse_address v =
    if decide (2 <= length (v_os v) <= 18)%nat
    then Some (mk_fdAddress (of_le_bytes (take 2 (v_os v))) (array 16 (drop 2 (v_os v)))) else None.
Proof.
  unfold parse_address. destruct (v_os v) as [|b0 [|b1 l]] eqn:E; [done..|]. intros Hb Hl.
  apply Forall_cons_1 in Hb as [H0 Hb].
  change (load (b0 :: b1 :: l) 0) with (Some b0). change (load (b0 :: b1 :: l) 1) with (Some b1).
  cbn [mbind option_bind length] in *. rewrite lor_byte, uwrap_small by (done || lia). case_decide as Hd.
  - rewrite memcpy_from by (cbn [length] in *; rewrite ?length_replicate; lia). cbn [mbind option_bind].
    change (drop (Z.to_nat 2) (b0 :: b1 :: l)) with l. cbn [take drop of_le_bytes].
    replace (Z.to_nat (Z.of_nat (S (S (length l))) - 2)) with (length l) by lia.
    rewrite firstn_all. cbn [of_le_bytes]. unfold array.
    rewrite drop_0, take_0, resize_ge, drop_replicate by lia. cbn [of_le_bytes].
    do 2 f_equal. lia.
  - rewrite memcpy_overrun by (rewrite ?length_replicate; lia). done.
Qed.

Lemma parse_time_cases v :
  parse_time v = match v_os v with
                 | b0 :: b1 :: b2 :: b3 :: _ => Some (b0 * 2 ^ 24 + b1 * 2 ^ 16 + b2 * 2 ^ 8 + b3 - 2208988800)
                 | _ => None
                 end.
Proof.
  unfold parse_time. destruct (v_os v) as [|b0 [|b1 [|b2 [|b3 l]]]]; [done..|].
  change (b0 :: b1 :: b2 :: b3 :: l) with ([] ++ [b0; b1; b2; b3] ++ l). change 0 with (blen []) at 1.
  rewrite read_mem_app by done. cbn -[Z.mul Z.sub Z.add]. f_equal. lia.
Qed.

Lemma parse_octets_cases max v o : (max < 256)%nat -> Z.of_nat (length (v_os v)) < 2 ^ 31 ->
  ∃ o', parse_octets max v o = Some o' ∧ os_bytes (max + 1) o' = take max (v_os v).
Proof.
  intros Hmax Hl. unfold parse_octets.
  rewrite (uwrap_small _ (Z.of_nat (length (v_os v)))), to_signed_small, uwrap_small by lia.
  rewrite memcpy_from by (rewrite ?length_array; lia). eexists; split; [done|].
  unfold os_bytes. cbn [os_len os_val]. rewrite drop_0. unfold array at 1.
  rewrite resize_ge, <- app_assoc, take_app_length' by
    (rewrite ?length_app, ?length_take, ?length_drop, ?length_array; lia).
  destruct (Nat.le_ge_cases (length (v_os v)) max); [rewrite !take_ge by lia|]; f_equal; lia.
Qed.

(** ** Examples *)

(** A Credit-Control-Request with two subscription identities, and a Re-Auth-Request with
    a route. *)
Definition octets (l : list Z) : OctetString := mk_OctetString (Z.of_nat (length l)) l.

Definition sample_ccr : GxCCR :=
  set_GxCCR_presence (2 ^ 0 + 2 ^ 7 + 2 ^ 8 + 2 ^ 12)
  (set_GxCCR_session_id (octets [112; 103; 119]) (set_GxCCR_cc_request_type 1 (set_GxCCR_cc_request_number 5
  (set_GxCCR_subscription_id (mk_clist 2 [mk_GxSubscriptionId 3 1 (octets [52; 52]); mk_GxSubscriptionId 1 0 zero_octets])
  zero_GxCCR)))).

Definition sample_rar : GxRAR :=
  set_GxRAR_presence (2 ^ 0 + 2 ^ 28)
  (set_GxRAR_session_id (octets [112; 103; 119]) (set_GxRAR_route_record (mk_clist 1 [octets [97; 98; 99]]) zero_GxRAR)).

Lemma when_false (P : Prop) b : b = false -> when b P.
Proof. by intros -> ?. Qed.

Ltac good_now :=
  lazymatch goal with
  | |- when ?b _ =>
      let r := eval vm_compute in b in
      lazymatch r with false => apply when_false; reflexivity | true => intros _; good_now end
  | |- fits _ _ => split; vm_compute; reflexivity
  | |- (_ <= _)%Z => vm_compute; discriminate
  | |- (_ < _)%Z => vm_compute; reflexivity
  | |- Forall _ [] => apply Forall_nil
  | |- Forall _ (_ :: _) => apply Forall_cons; good_now
  | |- Forall ?P ?l => let r := eval vm_compute in l in change (Forall P r); good_now
  | |- _ ∧ _ => split; good_now
  | |- ?P => let P' := eval red in P in change P'; good_now
  end.

Lemma sample_ccr_good : good_GxCCR sample_ccr.
Proof. good_now. Qed.

Lemma sample_rar_good : good_GxRAR sample_rar.
Proof. good_now. Qed.

(** Diameter messages as trees, with the codes of the dictionary numbered. *)
#[warnings="-register-all"]
Inductive tree := Tree (code : davp) (value : option avp_value_t) (children : list tree).

Definition trees : Diameter := {|
  avp := tree;
  browse := λ '(Tree _ _ cs), Browsed cs true;
  avp_code := λ '(Tree d _ _), Zpos (davp_index d);
  avp_value := λ '(Tree _ v _), v;
  dict := λ d, Zpos (davp_index d);
|}.

Lemma trees_dict : @DictOk trees.
Proof. intros d d' E. injection E as E. by apply davp_index_inj. Qed.

Definition number (d : davp) (n : Z) : tree := Tree d (Some (mk_avp_value n n n n n [])) [].
Definition bytes (d : davp) (l : list Z) : tree := Tree d (Some (mk_avp_value 0 0 0 0 0 l)) [].

(** A Credit-Control-Answer that installs rules. *)
Definition sample_cca : tree :=
  Tree davp_session_id None
    [bytes davp_session_id [112; 103; 119]; number davp_result_code 2001; number davp_cc_request_type 1;
     Tree davp_charging_rule_install None [bytes davp_charging_rule_name [114; 49]; bytes davp_charging_rule_name [114; 50]];
     Tree davp_charging_rule_install None [bytes davp_charging_rule_name [114; 51; 48]]].

Ltac select_now :=
  repeat match goal with |- context [sel ?d ?l] =>
    let r := eval vm_compute in (sel d l) in change (sel d l) with r end.

Ltac valid_now :=
  lazymatch goal with
  | |- any _ _ => select_now; unfold any; valid_now
  | |- at_most_once _ _ => select_now; split; valid_now
  | |- many _ _ => select_now; split; valid_now
  | |- Forall _ [] => apply Forall_nil
  | |- Forall _ (_ :: _) => apply Forall_cons; valid_now
  | |- octets_ok _ => eexists; split; [reflexivity|reflexivity]
  | |- value_ok _ _ _ => eexists; split; [reflexivity|split; vm_compute; reflexivity]
  | |- (_ <= _)%nat => cbn; lia
  | |- (_ < _)%Z => reflexivity
  | |- _ = _ => reflexivity
  | |- _ ∧ _ => split; valid_now
  | |- ?P => let P' := eval red in P in change P'; valid_now
  end.

Lemma sample_cca_valid : @valid_GxCCA trees sample_cca.
Proof. valid_now. Qed.

Lemma sample_cca_good : good_GxCCA (@read_GxCCA trees sample_cca).
Proof.
  pose proof trees_dict. pose proof plenty_succeeds.
  exact (read_good (parse := @gx_cca_parse trees plenty) (zero := zero_GxCCA) (good := good_GxCCA) sample_cca sample_cca_valid).
Qed.

(** ** Theorems *)

(** The header of a frame. *)
Definition gx_header (m : gx_data) (seq_num : Z) : list Z :=
  [msg_type m] ++ le_bytes 2 (match m with cp_raa _ => seq_num | _ => 0 end).

Lemma gx_frame_bytes m seq_num dirty rqst : gx_good m -> gx_length m < 2 ^ 32 -> msg_type m ≠ GX_RAR_MSG ->
  (msg_type m = GX_CCA_MSG -> end_clear m dirty) ->
  gx_frame m seq_num dirty rqst = Some (Some (gx_header m seq_num ++ gx_bytes m)).
Proof.
  intros Hg Hl Ht He. destruct m as [d|d|d|d]; [done|..]; cbn [gx_frame].
  - by apply raa_frame_bytes.
  - by apply ccr_frame_bytes.
  - by apply cca_frame_bytes, He.
Qed.

Lemma gx_receive_ok `{MallocSucceeds} m old header post :
  length header = 3%nat -> gx_good m -> gx_length m < 2 ^ 32 -> msg_type old = msg_type m ->
  ∃ m', gx_receive ((header ++ gx_bytes m) ++ post) old = Some (true, m') ∧ msg_type m' = msg_type m ∧ gx_view m' = gx_view m.
Proof.
  intros Hh Hg Hl Ht. unfold gx_receive. rewrite <- app_assoc, drop_app_length' by done. unfold gx_bytes.
  rewrite <- app_assoc. by apply gx_unpack_ok.
Qed.

(** C5: Every message but a Re-Auth-Request that one process frames is unpacked by the
    other, from the frame or from a longer buffer, into any structure, with every present
    member as it was sent: numbers, octet strings, structures and lists at any depth.  The
    message is one that can be sent: its members fit their types and lists of octet strings
    are not empty ([empty_list_refused]).  The buffers of CCR and RAA are cleared; of that of
    a CCA the last three bytes are what the heap held, whatever that is, so no octet string
    of a list with fewer than three bytes may end the message unless they are zero
    ([end_clear]; [cca_end_not_cleared] shows the failure). *)
Theorem gx_messages_delivered `{MallocSucceeds} m seq_num dirty rqst old post :
  gx_good m -> gx_length m < 2 ^ 32 -> msg_type m ≠ GX_RAR_MSG -> msg_type old = msg_type m ->
  (msg_type m = GX_CCA_MSG -> end_clear m dirty) ->
  ∃ frame m', gx_frame m seq_num dirty rqst = Some (Some frame) ∧
    take 3 frame = gx_header m seq_num ∧
    gx_receive (frame ++ post) old = Some (true, m') ∧ msg_type m' = msg_type m ∧ gx_view m' = gx_view m.
Proof.
  intros Hg Hl Hr Ht He. assert (Hh : length (gx_header m seq_num) = 3%nat) by (unfold gx_header; by rewrite length_app, length_le_bytes).
  destruct (gx_receive_ok m old (gx_header m seq_num) post Hh Hg Hl Ht) as (m' & E & Hm).
  eexists _, m'. split; [by apply gx_frame_bytes|]. split; [by rewrite take_app_length'|done].
Qed.

Lemma gx_messages_delivered_witness :
  (∃ frame m', gx_frame (cp_ccr sample_ccr) 7 [] 0 = Some (Some frame) ∧ take 3 frame = [GX_CCR_MSG; 0; 0] ∧
    @gx_receive plenty (frame ++ [1; 2]) (cp_ccr zero_GxCCR) = Some (true, m') ∧
    msg_type m' = GX_CCR_MSG ∧ gx_view m' = gx_view (cp_ccr sample_ccr)) ∧
  (∃ frame m', gx_frame (cp_cca (@read_GxCCA trees sample_cca)) 7 (repeat 9 101) 0 = Some (Some frame) ∧
    take 3 frame = [GX_CCA_MSG; 0; 0] ∧
    @gx_receive plenty (frame ++ [1; 2]) (cp_cca zero_GxCCA) = Some (true, m') ∧
    msg_type m' = GX_CCA_MSG ∧ gx_view m' = gx_view (cp_cca (@read_GxCCA trees sample_cca))).
Proof.
  split.
  - exact (@gx_messages_delivered plenty plenty_succeeds (cp_ccr sample_ccr) 7 [] 0 (cp_ccr zero_GxCCR) [1; 2]
      sample_ccr_good eq_refl ltac:(discriminate) eq_refl ltac:(discriminate)).
  - refine (@gx_messages_delivered plenty plenty_succeeds (cp_cca (@read_GxCCA trees sample_cca)) 7 (repeat 9 101) 0
      (cp_cca zero_GxCCA) [1; 2] sample_cca_good eq_refl ltac:(discriminate) eq_refl _).
    intros _. apply (bool_decide_unpack _). vm_compute. exact I.
Defined.

(** The bytes that are not cleared do harm where a message ends with an empty element of a
    list of octet strings: they are added to its length, and the receiver reads behind the
    frame. *)
Lemma cca_end_not_cleared :
  let d := set_GxCCA_presence (2 ^ 48) (set_GxCCA_route_record (mk_clist 1 [zero_octets]) zero_GxCCA) in
  ∃ frame, cca_frame d (repeat 7 101) = Some (Some frame) ∧ drop (length frame - 4) frame = [0; 7; 7; 7] ∧
    @gx_receive plenty frame (cp_cca zero_GxCCA) = None.
Proof. eexists. split; [vm_compute; reflexivity|]. split; vm_compute; reflexivity. Qed.

(** Packing into a zeroed buffer of [buflen] bytes returns 1 exactly if [buflen] is
    the length that the message has, which is what the length calculation gives; in all
    cases no byte behind the buffer is changed. *)
Theorem gx_pack_exact m buflen post : gx_good m -> gx_length m < 2 ^ 32 -> 4 <= buflen < 2 ^ 32 ->
  gx_calc_length m = Some (gx_length m) ∧
  ∃ buf, length buf = Z.to_nat buflen ∧
    gx_pack m (replicate (Z.to_nat buflen) 0 ++ post) buflen = Some (buflen =? gx_length m, buf ++ post).
Proof.
  intros Hg Hl Hb. pose proof (gx_length_min m). rewrite gx_calc_length_ok, uwrap_small by (done || lia).
  split; [done|].
  destruct (gx_pack_ok m (replicate (Z.to_nat buflen) 0) buflen post Hg Hb) as (buf & ? & ? & _); eauto.
  - unfold blen. rewrite length_replicate. lia.
  - rewrite drop_replicate. apply cleared_zeros.
Qed.

Lemma gx_pack_exact_witness :
  gx_calc_length (cp_rar sample_rar) = Some 26 ∧
  ∃ buf, length buf = 20%nat ∧
    gx_pack (cp_rar sample_rar) (replicate 20 0 ++ [1; 2]) 20 = Some (false, buf ++ [1; 2]).
Proof. exact (gx_pack_exact (cp_rar sample_rar) 20 [1; 2] sample_rar_good eq_refl ltac:(lia)). Defined.

(** The Re-Auth-Request that the Gx application sends ends with the pointer to the
    Diameter request, but the pointer lies on the last two bytes of the message: the
    control plane finds the message in the frame only if these happen to be the two low
    bytes of the pointer. *)
Theorem rar_end_overwritten d seq_num rqst : good_GxRAR d -> gx_length (cp_rar d) < 2 ^ 32 ->
  let msg := gx_bytes (cp_rar d) in
  ∃ frame, rar_frame d seq_num rqst = Some (Some frame) ∧ length frame = (3 + length msg + 6)%nat ∧
    take (length msg) (drop 3 frame) = take (length msg - 2) msg ++ take 2 (le_bytes 8 rqst) ∧
    (take (length msg) (drop 3 frame) = msg <-> drop (length msg - 2) msg = take 2 (le_bytes 8 rqst)).
Proof.
  intros Hg Hl msg. eexists. split; [by apply rar_frame_bytes|]. fold msg.
  assert (4 <= length msg)%nat by (unfold msg, gx_bytes; rewrite length_app, length_le_bytes; lia).
  split; [rewrite !length_app, !length_le_bytes, length_take; cbn [length]; lia|].
  rewrite drop_app_length' by (by rewrite length_app, length_le_bytes).
  rewrite take_app_ge by (rewrite length_take; lia). rewrite length_take.
  replace (length msg - Nat.min (length msg - 2) (length msg))%nat with 2%nat by lia.
  split; [done|]. rewrite <- (take_drop (length msg - 2) msg) at 3. split; [|by intros ->].
  intros E. by apply app_inv_head in E.
Qed.

Lemma rar_end_overwritten_witness :
  ∃ frame, rar_frame sample_rar 3 4660 = Some (Some frame) ∧ length frame = 35%nat ∧
    take 26 (drop 3 frame) = take 24 (gx_bytes (cp_rar sample_rar)) ++ [52; 18] ∧
    (take 26 (drop 3 frame) = gx_bytes (cp_rar sample_rar) <-> drop 24 (gx_bytes (cp_rar sample_rar)) = [52; 18]).
Proof. exact (rar_end_overwritten sample_rar 3 4660 sample_rar_good eq_refl). Defined.

(** C6: Parsing is reading: from a valid Diameter message each of the four parsing
    functions computes the reference structure, whose presence bits say which AVPs occur,
    whose single members have the value of the last AVP with their code, and whose lists
    have the values of all of them in order. *)
Theorem gx_parse_reads `{DictOk} `{MallocSucceeds} a :
  (∀ x, valid_GxRAR a -> gx_rar_parse a x = Some (FD_REASON_OK, read_GxRAR a)) ∧
  (∀ x, valid_GxRAA a -> gx_raa_parse a x = Some (FD_REASON_OK, read_GxRAA a)) ∧
  (∀ x, valid_GxCCA a -> gx_cca_parse a x = Some (FD_REASON_OK, read_GxCCA a)) ∧
  (∀ x, valid_GxCCR a -> gx_ccr_parse a x = Some (FD_REASON_OK, read_GxCCR a)).
Proof.
  split_and!; intros x Hv.
  - exact (parse_read (parse := gx_rar_parse) (zero := zero_GxRAR) a Hv).
  - exact (parse_read (parse := gx_raa_parse) (zero := zero_GxRAA) a Hv).
  - exact (parse_read (parse := gx_cca_parse) (zero := zero_GxCCA) a Hv).
  - exact (parse_read (parse := gx_ccr_parse) (zero := zero_GxCCR) a Hv).
Qed.

Lemma gx_parse_reads_witness :
  @gx_cca_parse trees plenty sample_cca zero_GxCCA = Some (FD_REASON_OK, @read_GxCCA trees sample_cca).
Proof.
  exact (proj1 (proj2 (proj2 (@gx_parse_reads trees trees_dict plenty plenty_succeeds sample_cca)))
    zero_GxCCA sample_cca_valid).
Defined.

(** C7: What the policy server sends arrives in the control plane: a valid
    Credit-Control-Answer is parsed by the Gx application, packed, and unpacked by the
    control plane, which sees in every member what the AVPs of the Diameter message say.
    In particular no parsed message has an empty list of octet strings.  Whatever the heap
    held in the three bytes of the buffer that are not cleared is allowed, provided that they
    are zero or that no octet string of a list with fewer than three bytes ends the message
    ([end_clear]). *)
Theorem cca_arrives `{DictOk} `{MallocSucceeds} a x old dirty post :
  valid_GxCCA a -> gx_length (cp_cca (read_GxCCA a)) < 2 ^ 32 -> end_clear (cp_cca (read_GxCCA a)) dirty ->
  ∃ d frame d', gx_cca_parse a x = Some (FD_REASON_OK, d) ∧ cca_frame d dirty = Some (Some frame) ∧
    gx_receive (frame ++ post) (cp_cca old) = Some (true, cp_cca d') ∧
    view_GxCCA d' = view_GxCCA (read_GxCCA a).
Proof.
  intros Hv Hl He. pose proof (read_good (good := good_GxCCA) a Hv) as Hg.
  destruct (gx_receive_ok (cp_cca (read_GxCCA a)) (cp_cca old) [GX_CCA_MSG; 0; 0] post eq_refl Hg Hl eq_refl)
    as ([d'|d'|d'|d'] & E & Ht & Hv'); try done.
  exists (read_GxCCA a). eexists _, d'. split; [exact (parse_read (parse := gx_cca_parse) (zero := zero_GxCCA) a Hv)|].
  split; [by apply cca_frame_bytes|done].
Qed.

Lemma cca_arrives_witness :
  ∃ d frame d', @gx_cca_parse trees plenty sample_cca zero_GxCCA = Some (FD_REASON_OK, d) ∧
    cca_frame d (repeat 9 101) = Some (Some frame) ∧
    @gx_receive plenty (frame ++ []) (cp_cca zero_GxCCA) = Some (true, cp_cca d') ∧
    view_GxCCA d' = view_GxCCA (@read_GxCCA trees sample_cca).
Proof.
  refine (@cca_arrives trees trees_dict plenty plenty_succeeds sample_cca zero_GxCCA zero_GxCCA (repeat 9 101) []
    sample_cca_valid eq_refl _).
  apply (bool_decide_unpack _). vm_compute. exact I.
Defined.

(** The length of an octet string is compared with the rest of the buffer, but not that
    of an element of a list of octet strings: where a message ends with a length that is
    not 0, a single octet string is refused, and an element is copied from behind the end
    of the buffer. *)
Theorem list_item_overrun {X} size pre len present get set (x : X) (o : OctetString) :
  0 < len < 2 ^ 31 -> (1 < size)%nat -> blen pre + 4 < 2 ^ 31 -> present x = true ->
  let buf := pre ++ le_bytes 4 len in
  (∃ x', UNPACK_OCTETSTRING size present get set buf (blen buf) (x, blen pre) = Some (false, (x', blen pre + 4))) ∧
  unpack_octets_item size buf (blen buf) (o, blen pre) = None.
Proof.
  intros Hl Hs Hp Hx buf. pose proof (blen_nonneg pre).
  assert (Hb : blen buf = blen pre + 4) by (unfold buf; rewrite blen_app, blen_le; done).
  assert (Hr : read_mem 4 buf (blen pre) = Some (le_bytes 4 len)).
  { unfold buf. rewrite <- (app_nil_r (le_bytes 4 len)) at 1. apply read_mem_app, length_le_bytes. }
  unfold UNPACK_OCTETSTRING, unpack_octets_item. rewrite Hx, Hr, Hb. zcases.
  cbn [mbind option_bind]. rewrite of_le_le4, (uwrap_small 32 (blen pre + 4)), (uwrap_small 32 (blen pre + 4 + len)) by lia.
  zcases. split; [by eexists|].
  assert (Hn : load buf (blen pre + 4) = None).
  { unfold load. zcases. apply lookup_ge_None_2. unfold blen in *. lia. }
  destruct (Z.to_nat (Z.min len (Z.of_nat size - 1))) as [|n] eqn:En; [lia|].
  cbn [memcpy]. by rewrite Hn.
Qed.

Lemma list_item_overrun_witness :
  (∃ x', UNPACK_OCTETSTRING 6 (λ _, true) id (λ o _, o) [7; 8; 200; 0; 0; 0] 6 (zero_octets, 2) = Some (false, (x', 6))) ∧
  unpack_octets_item 6 [7; 8; 200; 0; 0; 0] 6 (zero_octets, 2) = None.
Proof.
  exact (list_item_overrun 6 [7; 8] 200 (λ _, true) id (λ o _, o) zero_octets zero_octets
    (conj eq_refl eq_refl) ltac:(lia) eq_refl eq_refl).
Defined.

(** What the values of AVPs become: an octet string is cut to the member's size; a time
    is read as a big-endian number of seconds since 1900, out of the bounds of a value
    shorter than four bytes; an address gets its family with the two bytes swapped (1, the
    family of IPv4, becomes 256), is read out of bounds when it has less than two bytes,
    and is written behind the sixteen bytes of the member when it has more than 18. *)
Theorem avp_values_read max v o :
  bytes_ok (v_os v) -> Z.of_nat (length (v_os v)) < 2 ^ 31 -> (max < 256)%nat ->
  (∃ o', parse_octets max v o = Some o' ∧ os_bytes (max + 1) o' = take max (v_os v)) ∧
  parse_time v = match v_os v with
                 | b0 :: b1 :: b2 :: b3 :: _ => Some (b0 * 2 ^ 24 + b1 * 2 ^ 16 + b2 * 2 ^ 8 + b3 - 2208988800)
                 | _ => None
                 end ∧
  parse_address v =
    if decide (2 <= length (v_os v) <= 18)%nat
    then Some (mk_fdAddress (of_le_bytes (take 2 (v_os v))) (array 16 (drop 2 (v_os v)))) else None.
Proof.
  intros Hb Hl Hm. split; [by apply parse_octets_cases|]. split; [apply parse_time_cases|by apply parse_address_cases].
Qed.

Lemma avp_values_read_witness :
  let v := mk_avp_value 0 0 0 0 0 [0; 1; 10; 0; 0; 9] in
  (∃ o', parse_octets 4 v zero_octets = Some o' ∧ os_bytes 5 o' = [0; 1; 10; 0]) ∧
  parse_time v = Some (1 * 2 ^ 16 + 10 * 2 ^ 8 - 2208988800) ∧
  parse_address v = Some (mk_fdAddress 256 [10; 0; 0; 9; 0; 0; 0; 0; 0; 0; 0; 0; 0; 0; 0; 0]).
Proof.
  refine (avp_values_read 4 (mk_avp_value 0 0 0 0 0 [0; 1; 10; 0; 0; 9]) zero_octets _ eq_refl _); [|cbn; lia].
  repeat (apply Forall_cons; [unfold byte_ok; lia|]). apply Forall_nil.
Defined.
