(* ===== verification/GxPolicy.v ===== *)
(** * Policy of a connection (src/cp/gx/pfcp_gx.c, src/cp/procedures/proc_initial_attach.c)

    What the answers and requests of the policy server (CCA and RAR) do to the connection:
    the quality of the default bearer and the rates of the connection are stored, and the
    charging rules become pending rules, which the session request installs.  The state is
    that of PfcpSession: the table of connections is the connection of the state, under its
    call id.  The integers that are longer than the member they are stored in are cut. *)

From Stdlib Require Import String Ascii.
From stdpp Require Import gmap strings pretty.
From S2P Require Import Prelude EncDecBits Text Teid Transactions PfcpSetIe PfcpSession PfcpSessionReq.
From S2P Require Import GxCodec GxStructs.

Open Scope Z_scope.

(** ** Octet strings in character arrays *)

Definition OCTETS : nat := 256. (* GX_CHARGING_RULE_NAME_LEN + 1 and the like *)

(** [memcpy(dst, o.val, o.len)] into an array. *)
Definition copy_octets (o : OctetString) (dst : list Z) : option (list Z) :=
  if (0 <=? o.(os_len)) && (o.(os_len) <=? Z.of_nat OCTETS) && (o.(os_len) <=? Z.of_nat (length dst)) then
    let n := Z.to_nat o.(os_len) in Some (take n (array OCTETS o.(os_val)) ++ drop n dst)
  else None.

Fixpoint before_zero (l : list Z) : list Z :=
  match l with [] => [] | c :: l' => if c =? 0 then [] else c :: before_zero l' end.
Definition text_string (l : list Z) : string := String.string_of_list_ascii ((fun c => ascii_of_N (Z.to_N c)) <$> l).

(** [strncpy(dst, o.val, o.len)] into a [char\[256\]] that was cleared. *)
Definition octets_name (o : OctetString) : option string :=
  if (0 <=? o.(os_len)) && (o.(os_len) <? 256) then
    Some (text_string (before_zero (take (Z.to_nat o.(os_len)) (array OCTETS o.(os_val)))))
  else None.

(** [sprintf("%s%d")] into a [char\[256\]]. *)
Definition name_key (name : string) (call_id : Z) : option string :=
  let key := rule_key name call_id in if (String.length key <? 256)%nat then Some key else None.

(** ** The table of rule names (src/cpplib/spgw_wrapper.cpp) *)

Definition add_rule_name_entry (rule_name : string) (bearer : Z) : sesM Z :=
  _ ← smodify (fun s => set_ses_rule_table (map_insert rule_name (u8 bearer) s.(rule_table)) s); mret 0.
(** The [uint8_t] that was stored is returned as an [int8_t]. *)
Definition rule_bearer (s : session) (rule_name : string) : Z :=
  match s.(rule_table) !! rule_name with Some b => to_signed 8 b | None => -1 end.
Definition get_rule_name_entry (rule_name : string) : sesM Z := sgets (fun s => rule_bearer s rule_name).

(** ** The quality of the default bearer *)

Definition store_default_bearer_qos_in_policy (q : GxDefaultEpsBearerQos) (default_bearer : bool) : sesM Z :=
  def_bearer ← get_default_bearer;
  _ ← (if default_bearer then mret tt else update_pdn (set_pdn_default_bearer_qos_valid true));
  let def_qos (present : bool) (f : bearer_qos_ie -> bearer_qos_ie) : sesM unit :=
    if present then
      if default_bearer then b ← sdef def_bearer; update_bearer b (fun x => set_bearer_qos (f x.(qos)) x)
      else update_pdn (fun d => set_pdn_default_bearer_qos (f d.(default_bearer_qos)) d)
    else mret tt in
  let arp := q.(GxDefaultEpsBearerQos_allocation_retention_priority) in
  let has_arp := has_GxDefaultEpsBearerQos_allocation_retention_priority q in
  _ ← def_qos (has_GxDefaultEpsBearerQos_qos_class_identifier q)
        (set_qos_qci (u8 q.(GxDefaultEpsBearerQos_qos_class_identifier)));
  _ ← def_qos (has_arp && has_GxAllocationRetentionPriority_priority_level arp)
        (set_qos_priority_level (uwrap 4 arp.(GxAllocationRetentionPriority_priority_level)));
  _ ← def_qos (has_arp && has_GxAllocationRetentionPriority_pre_emption_capability arp)
        (set_qos_preemption_capability (uwrap 1 arp.(GxAllocationRetentionPriority_pre_emption_capability)));
  _ ← def_qos (has_arp && has_GxAllocationRetentionPriority_pre_emption_vulnerability arp)
        (set_qos_preemption_vulnerability (uwrap 1 arp.(GxAllocationRetentionPriority_pre_emption_vulnerability)));
  mret 0.

(** ** Charging rules *)

Definition BIND_TO_DEFAULT_BEARER : Z := 0.
Definition BIND_TO_APPLICABLE_BEARER : Z := 1.

(** One description of a flow into a member of [flow_desc]; what [fill_sdf_strctr] returns
    is not looked at. *)
Definition fill_flow (ipv4 : Z) (dirty : list Z) (g : GxFlowInformation) (f : flow_desc_t) : option flow_desc_t :=
  let f1 := if has_GxFlowInformation_flow_direction g then set_flow_flow_direction g.(GxFlowInformation_flow_direction) f
            else f in
  if has_GxFlowInformation_flow_description g then
    let o := g.(GxFlowInformation_flow_description) in
    text ← copy_octets o f1.(sdf_flow_description);
    '(_, p) ← fill_sdf_strctr ipv4 dirty text f1.(sdf_flw_desc);
    Some (mk_flow f1.(flow_direction) (set_flt_direction (u8 g.(GxFlowInformation_flow_direction)) p) text (u16 o.(os_len)))
  else Some f1.
Fixpoint fill_flows (ipv4 : Z) (dirty : list Z) (n idx : nat) (gs : list GxFlowInformation) (flows : list flow_desc_t)
    : option (list flow_desc_t) :=
  match n with
  | O => Some flows
  | S n' =>
      g ← gs !! idx;
      f ← flows !! idx;
      f' ← fill_flow ipv4 dirty g f;
      fill_flows ipv4 dirty n' (S idx) gs (<[idx := f']> flows)
  end.

Definition rule_quality (q : GxQosInformation) : bearer_qos_ie :=
  let arp := q.(GxQosInformation_allocation_retention_priority) in
  mk_qos (u8 q.(GxQosInformation_qos_class_identifier))
    (q.(GxQosInformation_max_requested_bandwidth_ul) / 1000) (q.(GxQosInformation_max_requested_bandwidth_dl) / 1000)
    (q.(GxQosInformation_guaranteed_bitrate_ul) / 1000) (q.(GxQosInformation_guaranteed_bitrate_dl) / 1000)
    (uwrap 1 arp.(GxAllocationRetentionPriority_pre_emption_vulnerability))
    (uwrap 4 arp.(GxAllocationRetentionPriority_priority_level))
    (uwrap 1 arp.(GxAllocationRetentionPriority_pre_emption_capability)).

Definition apply_if {A} (c : bool) (f : A -> A) (x : A) : A := if c then f x else x.
Definition try_if {A} (c : bool) (f : A -> option A) (x : A) : option A := if c then f x else Some x.

(** The numbers of a definition. *)
Definition fill_numbers (d : GxChargingRuleDefinition) (r : dynamic_rule_t) : dynamic_rule_t :=
  let r := apply_if (has_GxChargingRuleDefinition_online d) (set_rule_online d.(GxChargingRuleDefinition_online)) r in
  let r := apply_if (has_GxChargingRuleDefinition_offline d) (set_rule_offline d.(GxChargingRuleDefinition_offline)) r in
  let r := apply_if (has_GxChargingRuleDefinition_flow_status d)
             (set_rule_flow_status d.(GxChargingRuleDefinition_flow_status)) r in
  let r := apply_if (has_GxChargingRuleDefinition_reporting_level d)
             (set_rule_reporting_level d.(GxChargingRuleDefinition_reporting_level)) r in
  let r := apply_if (has_GxChargingRuleDefinition_precedence d)
             (set_rule_precedence d.(GxChargingRuleDefinition_precedence)) r in
  let r := apply_if (has_GxChargingRuleDefinition_service_identifier d)
             (set_rule_service_id d.(GxChargingRuleDefinition_service_identifier)) r in
  let r := apply_if (has_GxChargingRuleDefinition_rating_group d)
             (set_rule_rating_group d.(GxChargingRuleDefinition_rating_group)) r in
  set_rule_def_bearer_indication
    (if has_GxChargingRuleDefinition_default_bearer_indication d
     then u32 d.(GxChargingRuleDefinition_default_bearer_indication) else BIND_TO_APPLICABLE_BEARER) r.

(** [ipv4] is the address of the connection, [dirty] what the arrays of [fill_sdf_strctr]
    held before. *)
Definition fill_charging_rule_definition (ipv4 : Z) (dirty : list Z) (d : GxChargingRuleDefinition) (r : dynamic_rule_t)
    : option dynamic_rule_t :=
  let r := fill_numbers d r in
  r ← try_if (has_GxChargingRuleDefinition_af_charging_identifier d)
        (fun r => t ← copy_octets d.(GxChargingRuleDefinition_af_charging_identifier) r.(af_charging_id_string);
                  Some (set_rule_af_charging_id_string t r)) r;
  r ← try_if (has_GxChargingRuleDefinition_flow_information d)
        (fun r =>
           let l := d.(GxChargingRuleDefinition_flow_information) in
           flows ← fill_flows ipv4 dirty (Z.to_nat l.(l_count)) 0 l.(l_list) r.(flow_desc);
           Some (set_rule_flow_desc flows (set_rule_num_flw_desc (u8 l.(l_count)) r))) r;
  let r := apply_if (has_GxChargingRuleDefinition_qos_information d)
             (set_rule_rule_qos (rule_quality d.(GxChargingRuleDefinition_qos_information))) r in
  try_if (has_GxChargingRuleDefinition_charging_rule_name d)
    (fun r => name ← octets_name d.(GxChargingRuleDefinition_charging_rule_name); Some (set_rule_rule_name name r)) r.

(** A rule at the end of the queue. *)
Definition add_pending (action : rule_action_t) (rule : dynamic_rule_t) : sesM unit :=
  r ← sgets next_ptr;
  _ ← smodify (fun s => set_ses_next_ptr (Pos.succ r) (set_ses_h_rules (<[r := rule]> s.(h_rules)) s));
  update_pdn (fun d => set_pdn_pending_pcc_rules (d.(pending_pcc_rules) ++ [mk_pcc action r]) d).

(** A rule of the message; one without a name is skipped. *)
Definition store_rule (dirty : list Z) (d : GxChargingRuleDefinition) : sesM unit :=
  if has_GxChargingRuleDefinition_charging_rule_name d then
    conn ← sgets pdn;
    name ← sdef (octets_name d.(GxChargingRuleDefinition_charging_rule_name));
    key ← sdef (name_key name conn.(call_id));
    bearer ← get_rule_name_entry key;
    rule ← sdef (fill_charging_rule_definition conn.(pdn_ipv4) dirty d zero_rule);
    add_pending (if bearer =? -1 then RULE_ACTION_ADD else RULE_ACTION_MODIFY) rule
  else mret tt.

(** [for (idx = 0; idx < l.count; idx++)] over the elements of a list. *)
Fixpoint for_list {A} (f : A -> sesM unit) (n idx : nat) (l : list A) : sesM unit :=
  match n with
  | O => mret tt
  | S n' => x ← sdef (l !! idx); _ ← f x; for_list f n' (S idx) l
  end.
Definition for_clist {A} (f : A -> sesM unit) (l : clist A) : sesM unit := for_list f (Z.to_nat l.(l_count)) 0 l.(l_list).

Definition store_rule_install (dirty : list Z) (i : GxChargingRuleInstall) : sesM unit :=
  if has_GxChargingRuleInstall_charging_rule_definition i
  then for_clist (store_rule dirty) i.(GxChargingRuleInstall_charging_rule_definition) else mret tt.

(** Only the first name is looked at. *)
Definition store_rule_remove (x : GxChargingRuleRemove) : sesM unit :=
  if has_GxChargingRuleRemove_charging_rule_name x then
    conn ← sgets pdn;
    o ← sdef (x.(GxChargingRuleRemove_charging_rule_name).(l_list) !! 0%nat);
    name ← sdef (octets_name o);
    key ← sdef (name_key name conn.(call_id));
    bearer ← get_rule_name_entry key;
    if 0 <=? bearer then add_pending RULE_ACTION_DELETE (set_rule_rule_name name zero_rule) else mret tt
  else mret tt.

Definition store_dynamic_rules_in_policy (dirty : list Z) (install : GxChargingRuleInstallList)
    (remove : GxChargingRuleRemoveList) (install_present remove_present : bool) : sesM Z :=
  _ ← (if install_present then for_clist (store_rule_install dirty) install else mret tt);
  _ ← (if remove_present then for_clist store_rule_remove remove else mret tt);
  mret 0.

(** The first pending rule of the default bearer is entered in the table, under the index
    of the bearer. *)
Fixpoint check_rules (rules : list pcc_rule_t) : sesM Z :=
  match rules with
  | [] => mret 0
  | r :: rest =>
      conn ← sgets pdn;
      rule ← load_rule r.(dyn_rule);
      if (BIND_TO_DEFAULT_BEARER =? rule.(def_bearer_indication)) ||
         (compare_default_bearer_qos conn.(default_bearer_qos) rule.(rule_qos) =? 0) then
        key ← sdef (name_key rule.(rule_name) conn.(call_id));
        ret ← add_rule_name_entry key (conn.(default_bearer_id) - 5);
        if ret =? 0 then mret 0 else mret (-1)
      else check_rules rest
  end.
Definition check_for_rules_on_default_bearer : sesM Z := conn ← sgets pdn; check_rules conn.(pending_pcc_rules).

(** [event_trigger |= (1 << val)]: the shift of an [int]. *)
Definition SET_EVENT (val : Z) : sesM unit :=
  if (0 <=? val) && (val <? 31) then update_ue (fun u => set_ue_event_trigger (Z.lor u.(event_trigger) (2 ^ val)) u)
  else sdef None.
Definition store_event_trigger (l : GxEventTriggerList) : sesM Z := _ ← for_clist SET_EVENT l; mret 0.

(** ** Messages of the policy server *)

(** The rates of the connection; the first element of the list is used. *)
Definition store_ambr (l : GxQosInformationList) : sesM unit :=
  def_bearer ← get_default_bearer;
  q ← sdef (l.(l_list) !! 0%nat);
  _ ← (if has_GxQosInformation_apn_aggregate_max_bitrate_ul q then
         let v := q.(GxQosInformation_apn_aggregate_max_bitrate_ul) / 1000 in
         _ ← update_pdn (set_pdn_apn_ambr_ul v);
         b ← sdef def_bearer; update_bearer b (fun x => set_bearer_qos (set_qos_ul_mbr v x.(qos)) x)
       else mret tt);
  if has_GxQosInformation_apn_aggregate_max_bitrate_dl q then
    let v := q.(GxQosInformation_apn_aggregate_max_bitrate_dl) / 1000 in
    _ ← update_pdn (set_pdn_apn_ambr_dl v);
    b ← sdef def_bearer; update_bearer b (fun x => set_bearer_qos (set_qos_dl_mbr v x.(qos)) x)
  else mret tt.

Definition parse_gx_cca_msg (dirty : list Z) (cca : GxCCA) : sesM Z :=
  '(ret, id) ← sdef (retrieve_call_id (array OCTETS cca.(GxCCA_session_id).(os_val)));
  if ret <? 0 then mret (-1) else
  conn ← sgets pdn;
  if negb (conn.(call_id) =? id) then mret (-1) else
  _ ← update_pdn (set_pdn_bearer_control_mode (u8 cca.(GxCCA_bearer_control_mode)));
  if negb (has_GxCCA_default_eps_bearer_qos cca) then mret (-1) else
  _ ← (if has_GxCCA_qos_information cca then store_ambr cca.(GxCCA_qos_information) else mret tt);
  ret ← store_default_bearer_qos_in_policy cca.(GxCCA_default_eps_bearer_qos) true;
  if negb (ret =? 0) then mret ret else
  ret ← store_dynamic_rules_in_policy dirty cca.(GxCCA_charging_rule_install) cca.(GxCCA_charging_rule_remove)
          (has_GxCCA_charging_rule_install cca) (has_GxCCA_charging_rule_remove cca);
  if negb (ret =? 0) then mret ret else
  ret ← check_for_rules_on_default_bearer;
  if negb (ret =? 0) then mret ret else
  if has_GxCCA_event_trigger cca then store_event_trigger cca.(GxCCA_event_trigger) else mret ret.

(** The connection is that of the procedure. *)
Definition parse_gx_rar_msg (dirty : list Z) (rar : GxRAR) : sesM Z :=
  _ ← (if has_GxRAR_default_eps_bearer_qos rar
       then store_default_bearer_qos_in_policy rar.(GxRAR_default_eps_bearer_qos) false else mret 0);
  ret ← store_dynamic_rules_in_policy dirty rar.(GxRAR_charging_rule_install) rar.(GxRAR_charging_rule_remove)
          (has_GxRAR_charging_rule_install rar) (has_GxRAR_charging_rule_remove rar);
  if negb (ret =? 0) then mret ret else mret 0.

(** ** Bearers of pending rules *)

(** The state of the loop: [lbi], the ids written so far, and [ber_cnt]. *)
Definition bearers_out : Type := Z * list Z * Z.

Fixpoint bearer_ids (l : list (option ptr)) : sesM (list Z) :=
  match l with
  | [] => mret []
  | None :: l' => bearer_ids l'
  | Some b :: l' => bearer ← load_bearer b; ids ← bearer_ids l'; mret (bearer.(eps_bearer_id) :: ids)
  end.
Definition MAX_BEARERS : nat := 15.

Fixpoint remove_bearers (rules : list pcc_rule_t) (out : bearers_out) : sesM bearers_out :=
  let '(lbi, ded_ebi, ber_cnt) := out in
  match rules with
  | [] => mret out
  | r :: rest =>
      match r.(action) with
      | RULE_ACTION_DELETE =>
          conn ← sgets pdn;
          rule ← load_rule r.(dyn_rule);
          key ← sdef (name_key rule.(rule_name) conn.(call_id));
          bearer_id ← get_rule_name_entry key;
          if bearer_id =? -1 then mret out
          else if conn.(default_bearer_id) =? bearer_id + 5 then
            ids ← bearer_ids conn.(eps_bearers);
            if (length (ded_ebi ++ ids) <=? MAX_BEARERS)%nat
            then mret (conn.(default_bearer_id), ded_ebi ++ ids, conn.(num_bearer)) else sdef None
          else
            l ← sdef (push MAX_BEARERS (u8 (bearer_id + 5)) ded_ebi);
            remove_bearers rest (lbi, l, u8 (ber_cnt + 1))
      | _ => remove_bearers rest out
      end
  end.
(** As it is called, with an array of [MAX_BEARERS]. *)
Definition get_charging_rule_remove_bearer_info : sesM bearers_out :=
  conn ← sgets pdn; remove_bearers conn.(pending_pcc_rules) (0, [], 0).

(** The result, and [ebi] when it is written. *)
Fixpoint install_bearer (rules : list pcc_rule_t) : sesM (Z * option Z) :=
  match rules with
  | [] => mret (0, None)
  | r :: rest =>
      match r.(action) with
      | RULE_ACTION_ADD =>
          conn ← sgets pdn;
          rule ← load_rule r.(dyn_rule);
          key ← sdef (name_key rule.(rule_name) conn.(call_id));
          ret ← get_rule_name_entry key;
          mret (if ret =? -1 then (ret, None) else (0, Some (u8 ret)))
      | _ => install_bearer rest
      end
  end.
Definition get_bearer_info_install_rules : sesM (Z * option Z) :=
  conn ← sgets pdn; install_bearer conn.(pending_pcc_rules).

(** ** The rule of an attach without policy server (src/cp/procedures/proc_initial_attach.c) *)

Definition ENABLE_ONLINE : Z := 1.
Definition DISABLE_OFFLINE : Z := 0.
Definition BIDIRECTIONAL : Z := 3.
Definition QCI_VALUE : Z := 9.
Definition GX_PRIORITY_LEVEL : Z := 1.
Definition PREEMPTION_CAPABILITY_DISABLED : Z := 1.
Definition PREEMPTION_VALNERABILITY_ENABLED : Z := 0.
Definition GX_ENABLE : Z := 2.
Definition PRECEDENCE : Z := 2.
Definition SERVICE_INDENTIFIRE : Z := 11.
Definition RATING_GROUP : Z := 1.
Definition REQUESTED_BANDWIDTH : Z := 16500. (* _UL and _DL *)
Definition PORT_HIGH : Z := 65535.

Definition default_text : list Z := str_bytes "permit out ip from 0.0.0.0/0 to assigned".
Definition default_filter : sdf_pkt_fltr_t := mk_fltr 0 0 TFT_DIRECTION_BIDIRECTIONAL 0 0 0 0 PORT_HIGH 0 PORT_HIGH 0 0.
Definition default_flow : flow_desc_t :=
  mk_flow BIDIRECTIONAL default_filter (default_text ++ repeat 0 (512 - length default_text)) 0.

(** The quality of the default rule over another. *)
Definition default_quality (q : bearer_qos_ie) : bearer_qos_ie :=
  set_qos_preemption_vulnerability PREEMPTION_VALNERABILITY_ENABLED
    (set_qos_preemption_capability PREEMPTION_CAPABILITY_DISABLED
      (set_qos_priority_level GX_PRIORITY_LEVEL (set_qos_qci QCI_VALUE q))).
Definition attach_rule : dynamic_rule_t :=
  mk_rule ENABLE_ONLINE DISABLE_OFFLINE GX_ENABLE 0 PRECEDENCE SERVICE_INDENTIFIRE RATING_GROUP 0 "default rule"
    (repeat 0 256)
    (default_quality (mk_qos 0 REQUESTED_BANDWIDTH REQUESTED_BANDWIDTH 0 0 0 0 0)) 1
    (default_flow :: repeat zero_flow 31) [None; None].

Definition fill_rule_and_qos_inform_in_pdn : sesM unit :=
  o ← get_default_bearer;
  _ ← update_pdn (fun d => set_pdn_default_bearer_qos (default_quality d.(default_bearer_qos))
                             (set_pdn_default_bearer_qos_valid true d));
  b ← sdef o;
  _ ← update_bearer b (fun x => set_bearer_qos (default_quality x.(qos)) x);
  add_pending RULE_ACTION_ADD attach_rule.
