(* ===== verification/GxPolicyProps.v ===== *)
(** * Properties of the policy of a connection

    The rules of a message of the policy server are queued as the reference says, the rules
    of a CCA are installed on the default bearer by the session request, and the rule of an
    attach without policy server too. *)

From Stdlib Require Import String Ascii.
From stdpp Require Import gmap strings pretty.
From S2P Require Import Prelude EncDecBits Text Teid Transactions PfcpSetIe PfcpSession PfcpSessionReq.
From S2P Require Import PfcpSessionSpec PfcpSessionProps GxCodec GxStructs GxPolicy.

Open Scope Z_scope.

(** ** Loops *)

Fixpoint each_of {A} (f : A -> sesM unit) (l : list A) : sesM unit :=
  match l with [] => mret tt | x :: l' => _ ← f x; each_of f l' end.

(** The elements that a list counts. *)
Definition list_items {A} (l : clist A) : list A := take (Z.to_nat l.(l_count)) l.(l_list).
Definition list_ok {A} (l : clist A) : Prop := (Z.to_nat l.(l_count) <= length l.(l_list))%nat.
#[global] Instance list_ok_dec {A} (l : clist A) : Decision (list_ok l).
Proof. unfold list_ok. apply _. Defined.

Lemma for_list_each {A} (f : A -> sesM unit) n idx l s : (idx + n <= length l)%nat ->
  for_list f n idx l s = each_of f (take n (drop idx l)) s.
Proof.
  revert idx s. induction n as [|n IH]; intros idx s Hl; [done|]. cbn [for_list].
  destruct (lookup_lt_is_Some_2 l idx) as [x Hx]; [lia|]. rewrite (drop_S l x idx Hx). cbn [take each_of].
  rewrite Hx. sbind (eq_refl : sdef (Some x) s = Some (x, s)). unfold mbind, sesM_bind.
  destruct (f x s) as [[u s']|]; [|done]. apply IH. lia.
Qed.
Lemma for_clist_items {A} (f : A -> sesM unit) l s : list_ok l -> for_clist f l s = each_of f (list_items l) s.
Proof. intros Hl. unfold for_clist, list_items. rewrite for_list_each by (unfold list_ok in Hl; lia). by rewrite drop_0. Qed.

(** ** The queue *)

(** A queued rule, and several. *)
Definition queue (s : session) (n : rule_action_t * dynamic_rule_t) : session :=
  let r := s.(next_ptr) in
  set_ses_pdn (set_pdn_pending_pcc_rules (s.(pdn).(pending_pcc_rules) ++ [mk_pcc n.1 r]) s.(pdn))
    (set_ses_next_ptr (Pos.succ r) (set_ses_h_rules (<[r := n.2]> s.(h_rules)) s)).
Definition queue_all (news : list (rule_action_t * dynamic_rule_t)) (s : session) : session := foldl queue s news.

Definition fresh_rules (s : session) : Prop := ∀ r, is_Some (s.(h_rules) !! r) -> (r < s.(next_ptr))%positive.
Definition queued (s : session) (r : pcc_rule_t) (n : rule_action_t * dynamic_rule_t) : Prop :=
  r.(action) = n.1 ∧ s.(h_rules) !! r.(dyn_rule) = Some n.2.

(** What queueing changes: the queue, the rules and the next free pointer. *)
Lemma queue_all_frame news s :
  let s' := queue_all news s in
  s' = set_ses_pdn (set_pdn_pending_pcc_rules s'.(pdn).(pending_pcc_rules) s.(pdn))
         (set_ses_next_ptr s'.(next_ptr) (set_ses_h_rules s'.(h_rules) s)).
Proof.
  cbv zeta. revert s. induction news as [|n news IH]; intros s; [done|].
  change (queue_all (n :: news) s) with (queue_all news (queue s n)). rewrite (IH (queue s n)) at 1. done.
Qed.
Lemma queue_all_pending news s : fresh_rules s ->
  let s' := queue_all news s in
  fresh_rules s' ∧ (s.(next_ptr) <= s'.(next_ptr))%positive ∧
  (∀ r x, s.(h_rules) !! r = Some x -> s'.(h_rules) !! r = Some x) ∧
  ∃ new, s'.(pdn).(pending_pcc_rules) = s.(pdn).(pending_pcc_rules) ++ new ∧ Forall2 (queued s') new news ∧
    NoDup (dyn_rule <$> new) ∧ Forall (fun r => (s.(next_ptr) <= r.(dyn_rule))%positive) new.
Proof.
  cbv zeta. revert s. induction news as [|n news IH]; intros s Hf.
  { split; [done|]. split; [cbn; lia|]. split; [done|]. exists []. rewrite app_nil_r. split_and!; constructor. }
  change (queue_all (n :: news) s) with (queue_all news (queue s n)). set (s1 := queue s n).
  assert (fresh_rules s1) as Hf1.
  { intros r [x Hx]. cbn -[lookup insert] in *. destruct (decide (s.(next_ptr) = r)) as [<-|Hne]; [lia|].
    rewrite lookup_insert_ne in Hx by done. specialize (Hf r (mk_is_Some _ _ Hx)). lia. }
  destruct (IH s1 Hf1) as (H1 & H2 & H3 & new & H4 & H5 & H6 & H7). cbn -[queue_all lookup insert] in H2, H4.
  split; [done|]. split; [lia|]. split.
  { intros r x Hx. apply H3. cbn -[lookup insert]. rewrite lookup_insert_ne; [done|]. intros <-.
    specialize (Hf _ (mk_is_Some _ _ Hx)). lia. }
  exists (mk_pcc n.1 s.(next_ptr) :: new). rewrite H4, <- app_assoc. split; [done|]. split; [|split].
  - constructor; [|done]. split; [done|]. apply H3. cbn -[lookup insert]. apply lookup_insert_eq.
  - cbn [fmap list_fmap]. constructor; [|done]. intros Hin. apply list_elem_of_fmap in Hin as (r & E & Hr).
    rewrite list.Forall_forall in H7. specialize (H7 r Hr). cbn in E, H7. lia.
  - constructor; [cbn; lia|]. eapply list.Forall_impl; [exact H7|]. cbn -[Pos.le]. lia.
Qed.

(** ** What a message queues *)

(** The rules of a definition: none without a name; a known name changes a rule. *)
Definition rule_action (s : session) (key : string) : rule_action_t :=
  if rule_bearer s key =? -1 then RULE_ACTION_ADD else RULE_ACTION_MODIFY.
Definition install_news (dirty : list Z) (s : session) (d : GxChargingRuleDefinition)
    : option (list (rule_action_t * dynamic_rule_t)) :=
  if has_GxChargingRuleDefinition_charging_rule_name d then
    name ← octets_name d.(GxChargingRuleDefinition_charging_rule_name);
    key ← name_key name s.(pdn).(call_id);
    rule ← fill_charging_rule_definition s.(pdn).(pdn_ipv4) dirty d zero_rule;
    Some [(rule_action s key, rule)]
  else Some [].
Definition remove_news (s : session) (x : GxChargingRuleRemove) : option (list (rule_action_t * dynamic_rule_t)) :=
  if has_GxChargingRuleRemove_charging_rule_name x then
    o ← head x.(GxChargingRuleRemove_charging_rule_name).(l_list);
    name ← octets_name o;
    key ← name_key name s.(pdn).(call_id);
    Some (if 0 <=? rule_bearer s key then [(RULE_ACTION_DELETE, set_rule_rule_name name zero_rule)] else [])
  else Some [].

(** All definitions of a message, in order. *)
Definition definitions (i : GxChargingRuleInstall) : list GxChargingRuleDefinition :=
  if has_GxChargingRuleInstall_charging_rule_definition i
  then list_items i.(GxChargingRuleInstall_charging_rule_definition) else [].
Definition all_definitions (present : bool) (l : GxChargingRuleInstallList) : list GxChargingRuleDefinition :=
  if present then mjoin (definitions <$> list_items l) else [].
Definition install_ok (l : GxChargingRuleInstallList) : Prop :=
  list_ok l ∧ Forall (fun i => list_ok i.(GxChargingRuleInstall_charging_rule_definition)) l.(l_list).
#[global] Instance install_ok_dec l : Decision (install_ok l).
Proof. unfold install_ok. apply _. Defined.

Definition policy_news (dirty : list Z) (s : session) (install : GxChargingRuleInstallList)
    (remove : GxChargingRuleRemoveList) (ip rp : bool) : option (list (rule_action_t * dynamic_rule_t)) :=
  ns ← mapM (install_news dirty s) (all_definitions ip install);
  ms ← mapM (remove_news s) (if rp then list_items remove else []);
  Some (mjoin ns ++ mjoin ms).

(** A loop whose turns queue what [news] says; [news] does not look at the queue. *)
Lemma each_queues {A} (f : A -> sesM unit) (news : session -> A -> option (list (rule_action_t * dynamic_rule_t))) :
  (∀ x s, f x s = ns ← news s x; Some (tt, queue_all ns s)) -> (∀ x s ns, news (queue_all ns s) x = news s x) ->
  ∀ l s, each_of f l s = ns ← mapM (news s) l; Some (tt, queue_all (mjoin ns) s).
Proof.
  intros Hf Hn. induction l as [|x l IH]; intros s; [done|]. cbn [each_of mapM]. unfold mbind at 1, sesM_bind.
  rewrite Hf. destruct (news s x) as [ns|]; [|done]. cbn [mbind option_bind]. rewrite IH.
  assert (mapM (news (queue_all ns s)) l = mapM (news s) l) as -> by (apply list.mapM_ext; auto).
  destruct (mapM (news s) l) as [nss|]; [|done]. cbn [mbind option_bind].
  change (Some (tt, queue_all (mjoin nss) (queue_all ns s)) = Some (tt, queue_all (ns ++ mjoin nss) s)).
  unfold queue_all. by rewrite foldl_app.
Qed.
Lemma each_of_join {A B} (f : A -> sesM unit) (g : B -> list A) l s :
  each_of (fun y => each_of f (g y)) l s = each_of f (mjoin (g <$> l)) s.
Proof.
  assert (∀ l1 l2 s, each_of f (l1 ++ l2) s = (_ ← each_of f l1; each_of f l2) s) as Happ.
  { induction l1 as [|x l1 IH]; intros l2 s0; [done|]. cbn [app each_of]. unfold mbind, sesM_bind in *.
    destruct (f x s0) as [[u s']|]; [|done]. apply IH. }
  revert s. induction l as [|y l IH]; intros s; [done|]. cbn [fmap list_fmap mjoin list_join each_of]. rewrite Happ.
  unfold mbind, sesM_bind. destruct (each_of f (g y) s) as [[u s']|]; [|done]. apply IH.
Qed.

(** ** The turns *)

Lemma store_rule_queues dirty d s : store_rule dirty d s = ns ← install_news dirty s d; Some (tt, queue_all ns s).
Proof.
  unfold store_rule, install_news. destruct (has_GxChargingRuleDefinition_charging_rule_name d); [|done].
  unfold get_rule_name_entry, rule_action, sgets, sdef. unfold mbind at 1 2 3 4 5, sesM_bind.
  destruct (octets_name _) as [name|]; [|done]. cbn [mbind option_bind].
  destruct (name_key _ _) as [key|]; [|done]. cbn [mbind option_bind].
  by destruct (fill_charging_rule_definition _ _ _ _).
Qed.
Lemma install_news_queue dirty d s ns : install_news dirty (queue_all ns s) d = install_news dirty s d.
Proof. unfold install_news, rule_action, rule_bearer. by rewrite queue_all_frame. Qed.
Lemma store_remove_queues x s : store_rule_remove x s = ns ← remove_news s x; Some (tt, queue_all ns s).
Proof.
  unfold store_rule_remove, remove_news. destruct (has_GxChargingRuleRemove_charging_rule_name x); [|done].
  unfold get_rule_name_entry, sgets, sdef. unfold mbind at 1 2 3 4 5, sesM_bind.
  destruct (l_list _) as [|o l]; [done|]. cbn [lookup list_lookup head mbind option_bind].
  destruct (octets_name o) as [name|]; [|done]. cbn [mbind option_bind].
  destruct (name_key _ _) as [key|]; [|done]. cbn [mbind option_bind]. by destruct (0 <=? _).
Qed.
Lemma remove_news_queue x s ns : remove_news (queue_all ns s) x = remove_news s x.
Proof. unfold remove_news, rule_bearer. by rewrite queue_all_frame. Qed.

Lemma store_installs dirty l s : install_ok l ->
  for_clist (store_rule_install dirty) l s = each_of (store_rule dirty) (all_definitions true l) s.
Proof.
  intros [Hl HF]. rewrite for_clist_items by done. unfold all_definitions. rewrite <- each_of_join.
  assert (Forall (fun i => list_ok i.(GxChargingRuleInstall_charging_rule_definition)) (list_items l)) as HF'
    by (by apply Forall_take). clear HF Hl.
  revert s. induction HF' as [|i l0 Hi HF IH]; intros s; [done|]. cbn [each_of]. unfold mbind, sesM_bind.
  assert (store_rule_install dirty i s = each_of (store_rule dirty) (definitions i) s) as ->.
  { unfold store_rule_install, definitions. destruct (has_GxChargingRuleInstall_charging_rule_definition i); [|done].
    by apply for_clist_items. }
  destruct (each_of _ _ s) as [[u s']|]; [|done]. apply IH.
Qed.

Lemma store_rules_news dirty install remove ip rp s : install_ok install -> list_ok remove ->
  store_dynamic_rules_in_policy dirty install remove ip rp s =
    ns ← policy_news dirty s install remove ip rp; Some (0, queue_all ns s).
Proof.
  intros Hi Hr. unfold store_dynamic_rules_in_policy, policy_news.
  assert (∀ s, (if ip then for_clist (store_rule_install dirty) install else mret tt) s =
    ns ← mapM (install_news dirty s) (all_definitions ip install); Some (tt, queue_all (mjoin ns) s)) as E1.
  { intros s0. destruct ip; [|done]. rewrite store_installs by done.
    apply each_queues; [intros; apply store_rule_queues|intros; apply install_news_queue]. }
  assert (∀ s, (if rp then for_clist store_rule_remove remove else mret tt) s =
    ns ← mapM (remove_news s) (if rp then list_items remove else []); Some (tt, queue_all (mjoin ns) s)) as E2.
  { intros s0. destruct rp; [|done]. rewrite for_clist_items by done.
    apply each_queues; [intros; apply store_remove_queues|intros; apply remove_news_queue]. }
  unfold mbind at 1 2, sesM_bind. rewrite E1. destruct (mapM (install_news _ _) _) as [ns|]; [|done]. cbn [mbind option_bind].
  rewrite E2. rewrite (list.mapM_ext _ (remove_news s)) by (intros; apply remove_news_queue).
  destruct (mapM (remove_news s) _) as [ms|]; [|done]. cbn [mbind option_bind]. unfold queue_all. by rewrite foldl_app.
Qed.

(** ** The reference *)

(** The bytes of an octet string, a cleared array of [n] bytes that starts with them, and
    the text up to the first zero byte as a name for a [char\[256\]]. *)
Definition ref_bytes (o : OctetString) : list Z := take (Z.to_nat o.(os_len)) (array OCTETS o.(os_val)).
Definition ref_array (n : nat) (o : OctetString) : option (list Z) :=
  if (0 <=? o.(os_len)) && (o.(os_len) <=? Z.of_nat (Nat.min OCTETS n))
  then Some (ref_bytes o ++ repeat 0 (n - Z.to_nat o.(os_len))) else None.
Definition ref_name (o : OctetString) : option string :=
  if (0 <=? o.(os_len)) && (o.(os_len) <? 256) then
    let l := ref_bytes o in
    Some (text_string (match list_find (fun c => c = 0) l with Some (k, _) => take k l | None => l end))
  else None.

(** The name and the call id in decimal; it has 255 characters at most. *)
Definition ref_key (name : string) (call_id : Z) : option string :=
  let key := (name +:+ pretty (to_signed 32 call_id))%string in
  if (String.length key <=? 255)%nat then Some key else None.

(** The bearer of a name: none, or a number of 8 bits with sign. *)
Definition ref_known (s : session) (key : string) : option Z := to_signed 8 <$> s.(rule_table) !! key.

Definition or_zero (present : bool) (v : Z) : Z := if present then v else 0.

(** One flow of a definition; its filter is what [fill_sdf_strctr] reads in the text. *)
Definition ref_flow (ipv4 : Z) (dirty : list Z) (g : GxFlowInformation) : option flow_desc_t :=
  let direction := or_zero (has_GxFlowInformation_flow_direction g) g.(GxFlowInformation_flow_direction) in
  if has_GxFlowInformation_flow_description g then
    text ← ref_array 512 g.(GxFlowInformation_flow_description);
    '(_, p) ← fill_sdf_strctr ipv4 dirty text zero_fltr;
    Some (mk_flow direction
      (mk_fltr p.(proto_id) p.(proto_mask) (u8 g.(GxFlowInformation_flow_direction)) p.(flt_action) p.(local_ip_mask)
         p.(remote_ip_mask) p.(local_port_low) p.(local_port_high) p.(remote_port_low) p.(remote_port_high)
         p.(local_ip_addr) p.(remote_ip_addr))
      text (u16 g.(GxFlowInformation_flow_description).(os_len)))
  else Some (mk_flow direction zero_fltr (repeat 0 512) 0).
Definition ref_flows (ipv4 : Z) (dirty : list Z) (l : clist GxFlowInformation) : option (list flow_desc_t) :=
  let n := Z.to_nat l.(l_count) in
  if (n <=? length l.(l_list))%nat && (n <=? 32)%nat then
    fs ← mapM (ref_flow ipv4 dirty) (take n l.(l_list)); Some (fs ++ repeat zero_flow (32 - n))
  else None.

(** The quality: rates in kilobits, the uplink first. *)
Definition ref_quality (present : bool) (q : GxQosInformation) : bearer_qos_ie :=
  let arp := q.(GxQosInformation_allocation_retention_priority) in
  {| qci := or_zero present (u8 q.(GxQosInformation_qos_class_identifier));
     ul_mbr := or_zero present (q.(GxQosInformation_max_requested_bandwidth_ul) / 1000);
     dl_mbr := or_zero present (q.(GxQosInformation_max_requested_bandwidth_dl) / 1000);
     ul_gbr := or_zero present (q.(GxQosInformation_guaranteed_bitrate_ul) / 1000);
     dl_gbr := or_zero present (q.(GxQosInformation_guaranteed_bitrate_dl) / 1000);
     preemption_vulnerability := or_zero present (uwrap 1 arp.(GxAllocationRetentionPriority_pre_emption_vulnerability));
     priority_level := or_zero present (uwrap 4 arp.(GxAllocationRetentionPriority_priority_level));
     preemption_capability := or_zero present (uwrap 1 arp.(GxAllocationRetentionPriority_pre_emption_capability)) |}.

(** The rule of a definition with the name [name]. *)
Definition ref_rule (ipv4 : Z) (dirty : list Z) (d : GxChargingRuleDefinition) (name : string) : option dynamic_rule_t :=
  af ← (if has_GxChargingRuleDefinition_af_charging_identifier d
        then ref_array 256 d.(GxChargingRuleDefinition_af_charging_identifier) else Some (repeat 0 256));
  flows ← (if has_GxChargingRuleDefinition_flow_information d
           then ref_flows ipv4 dirty d.(GxChargingRuleDefinition_flow_information) else Some (repeat zero_flow 32));
  Some {| online := or_zero (has_GxChargingRuleDefinition_online d) d.(GxChargingRuleDefinition_online);
          offline := or_zero (has_GxChargingRuleDefinition_offline d) d.(GxChargingRuleDefinition_offline);
          flow_status := or_zero (has_GxChargingRuleDefinition_flow_status d) d.(GxChargingRuleDefinition_flow_status);
          reporting_level := or_zero (has_GxChargingRuleDefinition_reporting_level d) d.(GxChargingRuleDefinition_reporting_level);
          precedence := or_zero (has_GxChargingRuleDefinition_precedence d) d.(GxChargingRuleDefinition_precedence);
          service_id := or_zero (has_GxChargingRuleDefinition_service_identifier d) d.(GxChargingRuleDefinition_service_identifier);
          rating_group := or_zero (has_GxChargingRuleDefinition_rating_group d) d.(GxChargingRuleDefinition_rating_group);
          def_bearer_indication := if has_GxChargingRuleDefinition_default_bearer_indication d
            then u32 d.(GxChargingRuleDefinition_default_bearer_indication) else 1;
          rule_name := name;
          af_charging_id_string := af;
          rule_qos := ref_quality (has_GxChargingRuleDefinition_qos_information d) d.(GxChargingRuleDefinition_qos_information);
          num_flw_desc := or_zero (has_GxChargingRuleDefinition_flow_information d)
            (u8 d.(GxChargingRuleDefinition_flow_information).(l_count));
          flow_desc := flows;
          rule_pdr := [None; None] |}.

(** What a definition and what a removal adds to the queue. *)
Definition ref_install (dirty : list Z) (s : session) (d : GxChargingRuleDefinition)
    : option (list (rule_action_t * dynamic_rule_t)) :=
  if has_GxChargingRuleDefinition_charging_rule_name d then
    name ← ref_name d.(GxChargingRuleDefinition_charging_rule_name);
    key ← ref_key name s.(pdn).(call_id);
    rule ← ref_rule s.(pdn).(pdn_ipv4) dirty d name;
    Some [(match ref_known s key with
           | None => RULE_ACTION_ADD
           | Some b => if b =? -1 then RULE_ACTION_ADD else RULE_ACTION_MODIFY
           end, rule)]
  else Some [].
Definition ref_removal (s : session) (x : GxChargingRuleRemove) : option (list (rule_action_t * dynamic_rule_t)) :=
  if has_GxChargingRuleRemove_charging_rule_name x then
    o ← head x.(GxChargingRuleRemove_charging_rule_name).(l_list);
    name ← ref_name o;
    key ← ref_key name s.(pdn).(call_id);
    Some (match ref_known s key with
          | Some b => if 0 <=? b
                      then [(RULE_ACTION_DELETE, mk_rule 0 0 0 0 0 0 0 0 name (repeat 0 256) zero_qos 0 (repeat zero_flow 32) [None; None])]
                      else []
          | None => []
          end)
  else Some [].
Definition ref_news (dirty : list Z) (s : session) (install : GxChargingRuleInstallList)
    (remove : GxChargingRuleRemoveList) (ip rp : bool) : option (list (rule_action_t * dynamic_rule_t)) :=
  ns ← mapM (ref_install dirty s) (all_definitions ip install);
  ms ← mapM (ref_removal s) (if rp then list_items remove else []);
  Some (mjoin ns ++ mjoin ms).

(** ** The code against the reference *)

Lemma before_zero_find l :
  before_zero l = match list_find (fun c => c = 0) l with Some (k, _) => take k l | None => l end.
Proof.
  induction l as [|c l IH]; [done|]. cbn [before_zero list_find]. destruct (Z.eqb_spec c 0) as [->|Hne].
  - by rewrite decide_True.
  - rewrite decide_False by done. rewrite IH. by destruct (list_find _ l) as [[k y]|].
Qed.
Lemma octets_name_ref o : octets_name o = ref_name o.
Proof. unfold octets_name, ref_name, ref_bytes. by rewrite before_zero_find. Qed.
Lemma copy_octets_ref n o : copy_octets o (repeat 0 n) = ref_array n o.
Proof.
  unfold copy_octets, ref_array, ref_bytes. rewrite repeat_length, drop_repeat.
  replace (o.(os_len) <=? Z.of_nat (Nat.min OCTETS n)) with
    ((o.(os_len) <=? Z.of_nat OCTETS) && (o.(os_len) <=? Z.of_nat n)); [by rewrite andb_assoc|].
  destruct (Z.leb_spec o.(os_len) (Z.of_nat OCTETS)), (Z.leb_spec o.(os_len) (Z.of_nat n)),
    (Z.leb_spec o.(os_len) (Z.of_nat (Nat.min OCTETS n))); cbn; lia || done.
Qed.
Lemma rule_bearer_ref s key : rule_bearer s key = default (-1) (ref_known s key).
Proof. unfold rule_bearer, ref_known. by destruct (rule_table s !! key). Qed.
Lemma fill_flow_ref ipv4 dirty g : fill_flow ipv4 dirty g zero_flow = ref_flow ipv4 dirty g.
Proof.
  unfold fill_flow, ref_flow, zero_flow.
  destruct (has_GxFlowInformation_flow_description g), (has_GxFlowInformation_flow_direction g); cbn [or_zero];
    try done; cbn [set_flow_flow_direction sdf_flow_description sdf_flw_desc flow_direction]; rewrite copy_octets_ref;
    (destruct (ref_array _ _) as [text|]; [|done]); cbn [mbind option_bind];
    by destruct (fill_sdf_strctr _ _ _ _) as [[r p]|].
Qed.
Lemma fill_flows_ref ipv4 dirty n gs0 gs fs k : length gs0 = length fs ->
  fill_flows ipv4 dirty n (length fs) (gs0 ++ gs) (fs ++ repeat zero_flow k) =
    if (n <=? length gs)%nat && (n <=? k)%nat then
      rs ← mapM (ref_flow ipv4 dirty) (take n gs); Some (fs ++ rs ++ repeat zero_flow (k - n))
    else None.
Proof.
  revert gs0 gs fs k. induction n as [|n IH]; intros gs0 gs fs k Hl; [cbn; by rewrite Nat.sub_0_r|].
  cbn [fill_flows]. rewrite (lookup_app_r gs0) by lia. rewrite lookup_app_r, Hl, Nat.sub_diag by lia.
  destruct gs as [|g gs]; [done|]. destruct k as [|k]; [cbn; by rewrite andb_false_r|].
  cbn [lookup list_lookup repeat mbind option_bind]. rewrite fill_flow_ref.
  change (S n <=? length (g :: gs))%nat with (n <=? length gs)%nat. change (S n <=? S k)%nat with (n <=? k)%nat.
  cbn [take mapM]. destruct (ref_flow ipv4 dirty g) as [f|]; cbn [mbind option_bind]; [|by destruct (_ && _)].
  rewrite insert_app_r_alt, Nat.sub_diag by lia. cbn [insert list_insert].
  specialize (IH (gs0 ++ [g]) gs (fs ++ [f]) k). rewrite !length_app, <- !app_assoc in IH.
  cbn [length app] in IH. rewrite !Nat.add_1_r in IH. rewrite IH by lia. destruct (_ && _); [|done].
  by destruct (mapM _ _) as [rs|]; cbn [mbind option_bind mret option_ret]; rewrite <- ?app_assoc.
Qed.
Lemma fill_numbers_ref d :
  fill_numbers d zero_rule =
    mk_rule (or_zero (has_GxChargingRuleDefinition_online d) d.(GxChargingRuleDefinition_online))
      (or_zero (has_GxChargingRuleDefinition_offline d) d.(GxChargingRuleDefinition_offline))
      (or_zero (has_GxChargingRuleDefinition_flow_status d) d.(GxChargingRuleDefinition_flow_status))
      (or_zero (has_GxChargingRuleDefinition_reporting_level d) d.(GxChargingRuleDefinition_reporting_level))
      (or_zero (has_GxChargingRuleDefinition_precedence d) d.(GxChargingRuleDefinition_precedence))
      (or_zero (has_GxChargingRuleDefinition_service_identifier d) d.(GxChargingRuleDefinition_service_identifier))
      (or_zero (has_GxChargingRuleDefinition_rating_group d) d.(GxChargingRuleDefinition_rating_group))
      (if has_GxChargingRuleDefinition_default_bearer_indication d
       then u32 d.(GxChargingRuleDefinition_default_bearer_indication) else 1)
      "" (repeat 0 256) zero_qos 0 (repeat zero_flow 32) [None; None].
Proof.
  unfold fill_numbers, apply_if, or_zero.
  destruct (has_GxChargingRuleDefinition_online d), (has_GxChargingRuleDefinition_offline d),
    (has_GxChargingRuleDefinition_flow_status d), (has_GxChargingRuleDefinition_reporting_level d),
    (has_GxChargingRuleDefinition_precedence d), (has_GxChargingRuleDefinition_service_identifier d),
    (has_GxChargingRuleDefinition_rating_group d); reflexivity.
Qed.
Lemma fill_rule_ref ipv4 dirty d name :
  has_GxChargingRuleDefinition_charging_rule_name d = true ->
  octets_name d.(GxChargingRuleDefinition_charging_rule_name) = Some name ->
  fill_charging_rule_definition ipv4 dirty d zero_rule = ref_rule ipv4 dirty d name.
Proof.
  intros Hp Hn. unfold fill_charging_rule_definition, ref_rule, try_if. rewrite fill_numbers_ref, Hp, Hn.
  cbn [af_charging_id_string]. rewrite copy_octets_ref.
  pose proof (fill_flows_ref ipv4 dirty (Z.to_nat d.(GxChargingRuleDefinition_flow_information).(l_count)) []
    d.(GxChargingRuleDefinition_flow_information).(l_list) [] 32 eq_refl) as Ef.
  change ([] ++ ?x) with x in Ef. change (length []) with 0%nat in Ef.
  unfold ref_flows, ref_quality, or_zero.
  destruct (has_GxChargingRuleDefinition_af_charging_identifier d);
    [destruct (ref_array 256 _) as [af|]; [|done]|]; cbn [mbind option_bind];
  (destruct (has_GxChargingRuleDefinition_flow_information d);
    [cbn [set_rule_af_charging_id_string flow_desc]; rewrite Ef;
     destruct (_ && _); [|done]; destruct (mapM _ _) as [fs|]; [|done]|]; cbn [mbind option_bind app];
   by destruct (has_GxChargingRuleDefinition_qos_information d)).
Qed.
Lemma install_news_ref dirty s d : install_news dirty s d = ref_install dirty s d.
Proof.
  unfold install_news, ref_install, rule_action.
  destruct (has_GxChargingRuleDefinition_charging_rule_name d) eqn:Hp; [|done]. rewrite <- octets_name_ref.
  destruct (octets_name _) as [name|] eqn:Hn; [|done]. cbn [mbind option_bind].
  change (name_key name) with (ref_key name). destruct (ref_key _ _) as [key|]; [|done]. cbn [mbind option_bind].
  rewrite (fill_rule_ref _ _ _ name) by done. destruct (ref_rule _ _ _ _) as [rule|]; [|done]. cbn [mbind option_bind].
  rewrite rule_bearer_ref. by destruct (ref_known s key).
Qed.
Lemma remove_news_ref s x : remove_news s x = ref_removal s x.
Proof.
  unfold remove_news, ref_removal. destruct (has_GxChargingRuleRemove_charging_rule_name x); [|done].
  destruct (head _) as [o|]; [|done]. cbn [mbind option_bind]. rewrite <- octets_name_ref.
  destruct (octets_name o) as [name|]; [|done]. cbn [mbind option_bind].
  change (name_key name) with (ref_key name). destruct (ref_key _ _) as [key|]; [|done]. cbn [mbind option_bind].
  rewrite rule_bearer_ref. by destruct (ref_known s key).
Qed.
Lemma policy_news_ref dirty s install remove ip rp :
  policy_news dirty s install remove ip rp = ref_news dirty s install remove ip rp.
Proof.
  unfold policy_news, ref_news. rewrite (list.mapM_ext _ (ref_install dirty s)) by (intros; apply install_news_ref).
  by rewrite (list.mapM_ext _ (ref_removal s)) by (intros; apply remove_news_ref).
Qed.

(** The rules outside the new part of the queue keep their contents. *)
Lemma queue_all_others news s new r :
  (queue_all news s).(pdn).(pending_pcc_rules) = s.(pdn).(pending_pcc_rules) ++ new -> r ∉ dyn_rule <$> new ->
  (queue_all news s).(h_rules) !! r = s.(h_rules) !! r.
Proof.
  revert s new. induction news as [|n news IH]; intros s new; [done|].
  change (queue_all (n :: news) s) with (queue_all news (queue s n)). intros E Hr.
  assert (∃ new', new = mk_pcc n.1 s.(next_ptr) :: new' ∧
    (queue_all news (queue s n)).(pdn).(pending_pcc_rules) = (queue s n).(pdn).(pending_pcc_rules) ++ new') as (new' & -> & E').
  { assert (∃ new', (queue_all news (queue s n)).(pdn).(pending_pcc_rules) = (queue s n).(pdn).(pending_pcc_rules) ++ new')
      as [new' E'].
    { clear. generalize (queue s n). induction news as [|m news IH]; intros s0; [exists []; by rewrite app_nil_r|].
      destruct (IH (queue s0 m)) as [new' E']. exists (mk_pcc m.1 s0.(next_ptr) :: new').
      change (queue_all (m :: news) s0) with (queue_all news (queue s0 m)). rewrite E'. cbn. by rewrite <- app_assoc. }
    exists new'. split; [|done]. rewrite E' in E. cbn in E. rewrite <- app_assoc in E. by apply app_inv_head in E. }
  rewrite (IH _ new' E') by (intros H; apply Hr; cbn; by constructor 2). cbn -[lookup insert].
  apply lookup_insert_ne. intros <-. apply Hr. cbn. by constructor 1.
Qed.

(** C11: The charging rules of a message are queued as an independent reference says: one
    rule for every named definition in order, to be added or, if the name is known for the
    call, to be changed, then one rule to be removed for every name that is known.  The
    reference gives every member of a rule by itself: the numbers of the definition or zero,
    the rates in kilobits, the flows (their filters as [fill_sdf_strctr] reads them) and the
    name.  Only the end of the queue, the new rule entries and the allocator change; a
    message the reference has no rules for is one on which an array is left.  The message has
    the lists it announces and new rule entries are not in use. *)
Theorem policy_rules_queued dirty install remove ip rp s :
  install_ok install -> list_ok remove -> fresh_rules s ->
  match ref_news dirty s install remove ip rp with
  | Some news => ∃ s' new, store_dynamic_rules_in_policy dirty install remove ip rp s = Some (0, s') ∧
      s'.(pdn).(pending_pcc_rules) = s.(pdn).(pending_pcc_rules) ++ new ∧ Forall2 (queued s') new news ∧
      NoDup (dyn_rule <$> new) ∧ (∀ r x, s.(h_rules) !! r = Some x -> s'.(h_rules) !! r = Some x) ∧
      (∀ r, r ∉ dyn_rule <$> new -> s'.(h_rules) !! r = s.(h_rules) !! r) ∧
      s' = set_ses_pdn (set_pdn_pending_pcc_rules s'.(pdn).(pending_pcc_rules) s.(pdn))
             (set_ses_next_ptr s'.(next_ptr) (set_ses_h_rules s'.(h_rules) s))
  | None => store_dynamic_rules_in_policy dirty install remove ip rp s = None
  end.
Proof.
  intros Hi Hr Hf. rewrite store_rules_news, policy_news_ref by done.
  destruct (ref_news _ _ _ _ _ _) as [news|]; [|done]. cbn [mbind option_bind].
  destruct (queue_all_pending news s Hf) as (_ & _ & H3 & new & H4 & H5 & H6 & _). exists (queue_all news s), new.
  split_and!; try done; [|apply queue_all_frame]. intros r. by apply queue_all_others.
Qed.

(** ** The quality of a CCA *)

Definition with_bearer (b : ptr) (x : eps_bearer_t) (s : session) : session :=
  set_ses_h_bearers (<[b := x]> s.(h_bearers)) s.
Lemma with_bearer_twice b x y s : with_bearer b x (with_bearer b y s) = with_bearer b x s.
Proof. unfold with_bearer. cbn. by rewrite insert_insert_eq. Qed.
Lemma with_bearer_id b x s : s.(h_bearers) !! b = Some x -> with_bearer b x s = s.
Proof. intros H. unfold with_bearer. by rewrite insert_id. Qed.

(** The quality of the message over that of the bearer. *)
Definition stored_quality (q : GxDefaultEpsBearerQos) (x : bearer_qos_ie) : bearer_qos_ie :=
  let arp := q.(GxDefaultEpsBearerQos_allocation_retention_priority) in
  let has_arp := has_GxDefaultEpsBearerQos_allocation_retention_priority q in
  apply_if (has_arp && has_GxAllocationRetentionPriority_pre_emption_vulnerability arp)
    (set_qos_preemption_vulnerability (uwrap 1 arp.(GxAllocationRetentionPriority_pre_emption_vulnerability)))
    (apply_if (has_arp && has_GxAllocationRetentionPriority_pre_emption_capability arp)
      (set_qos_preemption_capability (uwrap 1 arp.(GxAllocationRetentionPriority_pre_emption_capability)))
      (apply_if (has_arp && has_GxAllocationRetentionPriority_priority_level arp)
        (set_qos_priority_level (uwrap 4 arp.(GxAllocationRetentionPriority_priority_level)))
        (apply_if (has_GxDefaultEpsBearerQos_qos_class_identifier q)
          (set_qos_qci (u8 q.(GxDefaultEpsBearerQos_qos_class_identifier))) x))).
(** The rates of the message. *)
Definition ambr_quality (q : GxQosInformation) (x : bearer_qos_ie) : bearer_qos_ie :=
  apply_if (has_GxQosInformation_apn_aggregate_max_bitrate_dl q)
    (set_qos_dl_mbr (q.(GxQosInformation_apn_aggregate_max_bitrate_dl) / 1000))
    (apply_if (has_GxQosInformation_apn_aggregate_max_bitrate_ul q)
      (set_qos_ul_mbr (q.(GxQosInformation_apn_aggregate_max_bitrate_ul) / 1000)) x).
Definition ambr_pdn (q : GxQosInformation) (x : pdn_connection_t) : pdn_connection_t :=
  apply_if (has_GxQosInformation_apn_aggregate_max_bitrate_dl q)
    (set_pdn_apn_ambr_dl (q.(GxQosInformation_apn_aggregate_max_bitrate_dl) / 1000))
    (apply_if (has_GxQosInformation_apn_aggregate_max_bitrate_ul q)
      (set_pdn_apn_ambr_ul (q.(GxQosInformation_apn_aggregate_max_bitrate_ul) / 1000)) x).

Lemma update_quality (c : bool) b x f s : s.(h_bearers) !! b = Some x ->
  (if c then b' ← sdef (Some b); update_bearer b' (fun x => set_bearer_qos (f x.(qos)) x) else mret tt) s =
    Some (tt, with_bearer b (set_bearer_qos (apply_if c f x.(qos)) x) s).
Proof.
  intros Hb. destruct c; cbn [apply_if].
  - sbind (eq_refl : sdef (Some b) s = Some (b, s)). unfold update_bearer. by rewrite Hb.
  - by rewrite with_bearer_id.
Qed.
Lemma with_bearer_lookup b x s : (with_bearer b x s).(h_bearers) !! b = Some x.
Proof. unfold with_bearer. cbn -[lookup insert]. by rewrite lookup_insert_eq. Qed.

Lemma store_quality_ok q b x s : get_default_bearer s = Some (Some b, s) -> s.(h_bearers) !! b = Some x ->
  store_default_bearer_qos_in_policy q true s =
    Some (0, with_bearer b (set_bearer_qos (stored_quality q x.(qos)) x) s).
Proof.
  intros Hd Hb. unfold store_default_bearer_qos_in_policy. sbind Hd. sbind (eq_refl : mret (M:=sesM) tt s = Some (tt, s)).
  cbv zeta. sbind (update_quality (has_GxDefaultEpsBearerQos_qos_class_identifier q) b x
    (set_qos_qci (u8 q.(GxDefaultEpsBearerQos_qos_class_identifier))) s Hb).
  do 3 match goal with |- context [((if ?c then _ ← _; update_bearer _ (fun x => set_bearer_qos (?f x.(qos)) x) else _) ≫= _) ?s0] =>
    sbind (update_quality c b _ f s0 (with_bearer_lookup _ _ _)) end.
  by rewrite !with_bearer_twice.
Qed.

Lemma store_ambr_ok l q b x s : l.(l_list) !! 0%nat = Some q -> get_default_bearer s = Some (Some b, s) ->
  s.(h_bearers) !! b = Some x ->
  store_ambr l s = Some (tt, set_ses_pdn (ambr_pdn q s.(pdn)) (with_bearer b (set_bearer_qos (ambr_quality q x.(qos)) x) s)).
Proof.
  intros Hq Hd Hb. unfold store_ambr. sbind Hd. rewrite Hq. sbind (eq_refl : sdef (Some q) s = Some (q, s)).
  unfold ambr_pdn, ambr_quality.
  destruct (has_GxQosInformation_apn_aggregate_max_bitrate_ul q), (has_GxQosInformation_apn_aggregate_max_bitrate_dl q);
    cbn [apply_if]; unfold mbind, sesM_bind, update_pdn, smodify, sdef, update_bearer, mret, sesM_ret;
    repeat (cbn -[insert lookup]; rewrite ?Hb, ?lookup_insert_eq); try (by rewrite insert_insert_eq);
    try done. by rewrite with_bearer_id.
Qed.

(** The rules of the queue have names that fit. *)
Lemma check_rules_ok s rules :
  Forall (fun r => ∃ rule, s.(h_rules) !! r.(dyn_rule) = Some rule ∧ is_Some (name_key rule.(rule_name) s.(pdn).(call_id))) rules ->
  ∃ t, check_rules rules s = Some (0, set_ses_rule_table t s).
Proof.
  induction 1 as [|r rules (rule & Hr & key & Hk) HF IH]; [by exists s.(rule_table)|]. cbn [check_rules].
  sbind (eq_refl : sgets pdn s = Some (s.(pdn), s)).
  assert (load_rule r.(dyn_rule) s = Some (rule, s)) as E by (unfold load_rule; by rewrite Hr). sbind E.
  destruct (_ || _); [|exact IH]. rewrite Hk. sbind (eq_refl : sdef (Some key) s = Some (key, s)).
  eexists. reflexivity.
Qed.

Definition events_ok (l : GxEventTriggerList) : Prop := list_ok l ∧ Forall (fun v => 0 <= v < 31) (list_items l).
#[global] Instance events_ok_dec l : Decision (events_ok l).
Proof. unfold events_ok. apply _. Defined.
Lemma store_events_ok l s : events_ok l ->
  ∃ e, store_event_trigger l s = Some (0, set_ses_context (set_ue_event_trigger e s.(context)) s).
Proof.
  intros [Hl HF]. unfold store_event_trigger. unfold mbind, sesM_bind. rewrite for_clist_items by done. clear Hl.
  assert (∃ e, each_of SET_EVENT (list_items l) s = Some (tt, set_ses_context (set_ue_event_trigger e s.(context)) s)) as [e ->];
    [|by exists e].
  revert s. induction HF as [|v vs Hv HF IH]; intros s; [by exists s.(context).(event_trigger)|]. cbn [each_of].
  assert (SET_EVENT v = update_ue (fun u => set_ue_event_trigger (Z.lor u.(event_trigger) (2 ^ v)) u)) as ->.
  { unfold SET_EVENT. by rewrite (proj2 (Z.leb_le _ _)), (proj2 (Z.ltb_lt _ _)) by lia. }
  destruct (IH (set_ses_context (set_ue_event_trigger (Z.lor s.(context).(event_trigger) (2 ^ v)) s.(context)) s)) as [e E].
  exists e. exact E.
Qed.

(** ** The answer *)

(** The answer is for this connection, and has what is read. *)
Record cca_for (cca : GxCCA) (s : session) : Prop := {
  cf_call : retrieve_call_id (array OCTETS cca.(GxCCA_session_id).(os_val)) = Some (0, s.(pdn).(call_id));
  cf_quality : has_GxCCA_default_eps_bearer_qos cca = true;
  cf_rates : has_GxCCA_qos_information cca = true -> is_Some (cca.(GxCCA_qos_information).(l_list) !! 0%nat);
  cf_install : install_ok cca.(GxCCA_charging_rule_install);
  cf_remove : list_ok cca.(GxCCA_charging_rule_remove);
  cf_events : has_GxCCA_event_trigger cca = true -> events_ok cca.(GxCCA_event_trigger);
}.

Definition cca_rates (cca : GxCCA) : GxQosInformation :=
  if has_GxCCA_qos_information cca
  then default zero_GxQosInformation (cca.(GxCCA_qos_information).(l_list) !! 0%nat) else zero_GxQosInformation.
Definition cca_quality (cca : GxCCA) (x : bearer_qos_ie) : bearer_qos_ie :=
  stored_quality cca.(GxCCA_default_eps_bearer_qos) (ambr_quality (cca_rates cca) x).
Definition cca_pdn (cca : GxCCA) (d : pdn_connection_t) : pdn_connection_t :=
  ambr_pdn (cca_rates cca) (set_pdn_bearer_control_mode (u8 cca.(GxCCA_bearer_control_mode)) d).
Definition quality_state (cca : GxCCA) (b : ptr) (x : eps_bearer_t) (s : session) : session :=
  set_ses_pdn (cca_pdn cca s.(pdn)) (with_bearer b (set_bearer_qos (cca_quality cca x.(qos)) x) s).

(** The members that the rates leave as they are. *)
Lemma cca_pdn_frame cca d :
  let d' := cca_pdn cca d in
  (call_id d', pdn_ipv4 d', eps_bearers d', default_bearer_id d', default_bearer_qos d', pending_pcc_rules d') =
  (call_id d, pdn_ipv4 d, eps_bearers d, default_bearer_id d, default_bearer_qos d, pending_pcc_rules d).
Proof.
  unfold cca_pdn, ambr_pdn.
  by destruct (has_GxQosInformation_apn_aggregate_max_bitrate_ul _), (has_GxQosInformation_apn_aggregate_max_bitrate_dl _).
Qed.
Lemma quality_news cca dirty s b x install remove ip rp :
  policy_news dirty (quality_state cca b x s) install remove ip rp = policy_news dirty s install remove ip rp.
Proof.
  unfold policy_news, install_news, remove_news, rule_action, rule_bearer. pose proof (cca_pdn_frame cca s.(pdn)) as E.
  injection E as E1 E2 _ _ _ _. cbn -[cca_pdn mapM]. by rewrite E1, E2.
Qed.

Definition cca_news (dirty : list Z) (cca : GxCCA) (s : session) : option (list (rule_action_t * dynamic_rule_t)) :=
  policy_news dirty s cca.(GxCCA_charging_rule_install) cca.(GxCCA_charging_rule_remove)
    (has_GxCCA_charging_rule_install cca) (has_GxCCA_charging_rule_remove cca).

Lemma zero_rates_quality x : ambr_quality zero_GxQosInformation x = x.
Proof. done. Qed.
(** The first part: the quality. *)
Lemma cca_quality_step cca b x s : get_default_bearer s = Some (Some b, s) -> s.(h_bearers) !! b = Some x ->
  (has_GxCCA_qos_information cca = true -> is_Some (cca.(GxCCA_qos_information).(l_list) !! 0%nat)) ->
  (_ ← update_pdn (set_pdn_bearer_control_mode (u8 cca.(GxCCA_bearer_control_mode)));
   _ ← (if has_GxCCA_qos_information cca then store_ambr cca.(GxCCA_qos_information) else mret tt);
   store_default_bearer_qos_in_policy cca.(GxCCA_default_eps_bearer_qos) true) s = Some (0, quality_state cca b x s).
Proof.
  intros Hd Hb Hq. unfold quality_state, cca_quality, cca_pdn, cca_rates.
  set (s0 := set_ses_pdn (set_pdn_bearer_control_mode (u8 cca.(GxCCA_bearer_control_mode)) s.(pdn)) s).
  sbind (eq_refl : update_pdn (set_pdn_bearer_control_mode (u8 cca.(GxCCA_bearer_control_mode))) s = Some (tt, s0)).
  assert (get_default_bearer s0 = Some (Some b, s0)) as Hd0.
  { revert Hd. unfold get_default_bearer, mbind, sesM_bind, sgets, sdef. cbn -[array_at].
    destruct (array_at _ _); [|done]. cbn. by intros [= ->]. }
  destruct (has_GxCCA_qos_information cca).
  - destruct (Hq eq_refl) as [q Eq]. rewrite Eq. cbn [from_option default id]. sbind (store_ambr_ok _ q b x s0 Eq Hd0 Hb).
    etrans; [apply (store_quality_ok _ b (set_bearer_qos (ambr_quality q x.(qos)) x))|].
    + revert Hd0. unfold get_default_bearer, mbind, sesM_bind, sgets, sdef, ambr_pdn.
      destruct (has_GxQosInformation_apn_aggregate_max_bitrate_ul _), (has_GxQosInformation_apn_aggregate_max_bitrate_dl _);
        cbn -[array_at]; (destruct (array_at _ _); [|done]); cbn; by intros [= ->].
    + apply with_bearer_lookup.
    + unfold with_bearer. cbn -[insert]. by rewrite insert_insert_eq.
  - sbind (eq_refl : mret (M:=sesM) tt s0 = Some (tt, s0)). by rewrite (store_quality_ok _ b x s0 Hd0 Hb).
Qed.

Lemma bind_three {A B C D} (m1 : sesM A) (m2 : sesM B) (m3 : sesM C) (k : C -> sesM D) s x s' :
  (_ ← m1; _ ← m2; m3) s = Some (x, s') -> (_ ← m1; _ ← m2; y ← m3; k y) s = k x s'.
Proof.
  unfold mbind, sesM_bind. destruct (m1 s) as [[u1 s1]|]; [|done]. destruct (m2 s1) as [[u2 s2]|]; [|done]. by intros ->.
Qed.

Lemma queued_names news new s :
  Forall2 (queued s) new news -> Forall (fun n => is_Some (name_key n.2.(rule_name) s.(pdn).(call_id))) news ->
  Forall (fun r => ∃ rule, s.(h_rules) !! r.(dyn_rule) = Some rule ∧
                           is_Some (name_key rule.(rule_name) s.(pdn).(call_id))) new.
Proof.
  induction 1 as [|r n new news [_ Hr] HF IH]; intros HN; [constructor|]. apply Forall_cons_1 in HN as [Hn HN].
  constructor; [|by apply IH]. by exists n.2.
Qed.

(** The state after the answer: the quality, the queue, then the table of names and the
    events. *)
Lemma parse_cca_ok dirty cca s b x news :
  cca_for cca s -> get_default_bearer s = Some (Some b, s) -> s.(h_bearers) !! b = Some x ->
  s.(pdn).(pending_pcc_rules) = [] -> fresh_rules s -> cca_news dirty cca s = Some news ->
  Forall (fun n => is_Some (name_key n.2.(rule_name) s.(pdn).(call_id))) news ->
  ∃ t e, parse_gx_cca_msg dirty cca s =
    Some (0, set_ses_context (set_ue_event_trigger e s.(context))
               (set_ses_rule_table t (queue_all news (quality_state cca b x s)))).
Proof.
  intros [Hc Hq Hr Hi Hrm He] Hd Hb Hp Hf Hn HN. unfold parse_gx_cca_msg. rewrite Hc.
  sbind (eq_refl : sdef (Some (0, s.(pdn).(call_id))) s = Some ((0, s.(pdn).(call_id)), s)). cbv beta iota.
  change (0 <? 0) with false. cbv match. sbind (eq_refl : sgets pdn s = Some (s.(pdn), s)). rewrite Z.eqb_refl, Hq.
  cbn [negb]. rewrite (bind_three _ _ _ _ _ _ _ (cca_quality_step cca b x s Hd Hb Hr)).
  set (s1 := quality_state cca b x s) in *. change (negb (0 =? 0)) with false. cbv match.
  assert (fresh_rules s1) as Hf1 by exact Hf.
  pose proof (store_rules_news dirty _ _ (has_GxCCA_charging_rule_install cca) (has_GxCCA_charging_rule_remove cca) s1 Hi Hrm) as Es.
  unfold cca_news in Hn. rewrite <- (quality_news cca dirty s b x) in Hn. fold s1 in Hn. rewrite Hn in Es.
  cbn [mbind option_bind] in Es. sbind Es.
  change (negb (0 =? 0)) with false. cbv match. pose proof (queue_all_frame news s1) as Efr. cbv zeta in Efr.
  destruct (queue_all_pending news s1 Hf1) as (_ & _ & _ & new & Hp2 & HF2 & _). set (s2 := queue_all news s1) in *.
  pose proof (cca_pdn_frame cca s.(pdn)) as Epdn. injection Epdn as Ecall _ _ _ _ Epend.
  change (s1.(pdn)) with (cca_pdn cca s.(pdn)) in Hp2. rewrite Epend, Hp in Hp2. cbn [app] in Hp2.
  assert (s2.(pdn).(call_id) = s.(pdn).(call_id)) as Hid by (rewrite Efr; exact Ecall).
  assert (s2.(context) = s.(context)) as Hctx by (rewrite Efr; done).
  destruct (check_rules_ok s2 s2.(pdn).(pending_pcc_rules)) as [t Et].
  { rewrite Hp2. apply (queued_names news); [done|]. by rewrite Hid. }
  unfold check_for_rules_on_default_bearer.
  assert ((conn ← sgets pdn; check_rules conn.(pending_pcc_rules)) s2 = Some (0, set_ses_rule_table t s2)) as E2 by exact Et.
  sbind E2. change (negb (0 =? 0)) with false. cbv match. destruct (has_GxCCA_event_trigger cca).
  - destruct (store_events_ok cca.(GxCCA_event_trigger) (set_ses_rule_table t s2) (He eq_refl)) as [e Ee].
    exists t, e. rewrite Ee. cbn -[s2]. by rewrite Hctx.
  - exists t, s.(context).(event_trigger). rewrite <- Hctx. done.
Qed.

(** ** Installing the rules of an answer *)

Lemma fill_numbers_members d r :
  let r' := fill_numbers d r in
  rule_qos r' = rule_qos r ∧ rule_name r' = rule_name r ∧
  precedence r' = (if has_GxChargingRuleDefinition_precedence d then d.(GxChargingRuleDefinition_precedence)
                   else precedence r).
Proof.
  unfold fill_numbers. destruct (has_GxChargingRuleDefinition_precedence d),
      (has_GxChargingRuleDefinition_online d), (has_GxChargingRuleDefinition_offline d),
      (has_GxChargingRuleDefinition_flow_status d), (has_GxChargingRuleDefinition_reporting_level d),
      (has_GxChargingRuleDefinition_service_identifier d), (has_GxChargingRuleDefinition_rating_group d); done.
Qed.
(** The members of a filled rule that the session uses. *)
Lemma fill_rule_members ipv4 dirty d r r' : fill_charging_rule_definition ipv4 dirty d r = Some r' ->
  r'.(rule_qos) = (if has_GxChargingRuleDefinition_qos_information d
                   then rule_quality d.(GxChargingRuleDefinition_qos_information) else r.(rule_qos)) ∧
  r'.(precedence) = (if has_GxChargingRuleDefinition_precedence d then d.(GxChargingRuleDefinition_precedence)
                     else r.(precedence)) ∧
  (if has_GxChargingRuleDefinition_charging_rule_name d
   then octets_name d.(GxChargingRuleDefinition_charging_rule_name) = Some r'.(rule_name) else r'.(rule_name) = r.(rule_name)).
Proof.
  unfold fill_charging_rule_definition, try_if. cbv zeta. set (q := rule_quality _).
  destruct (fill_numbers_members d r) as (H1 & H2 & H3). set (r1 := fill_numbers d r) in *.
  destruct (has_GxChargingRuleDefinition_af_charging_identifier d);
    [destruct (copy_octets _ _) as [t|]; [|done]|]; cbn [mbind option_bind];
    (destruct (has_GxChargingRuleDefinition_flow_information d); [destruct (fill_flows _ _ _ _ _ _) as [fl|]; [|done]|]);
    cbn [mbind option_bind];
    (destruct (has_GxChargingRuleDefinition_charging_rule_name d); [destruct (octets_name _) as [n|]; [|done]|]);
    cbn [mbind option_bind]; intros [= <-]; by destruct (has_GxChargingRuleDefinition_qos_information d).
Qed.

(** The default bearer is the first of the connection. *)
Definition first_bearer (s : session) (b : ptr) : Prop := ∃ k rest, s.(pdn).(eps_bearers) = repeat None k ++ Some b :: rest.
Lemma find_first_bearer s b x q l k rest : l = repeat None k ++ Some b :: rest -> s.(h_bearers) !! b = Some x ->
  same_qos x.(qos) q = true -> find_bearer l q s = Some (Some b, s).
Proof.
  intros -> Hb Hq. induction k as [|k IH]; [|exact IH]. cbn [repeat app find_bearer].
  assert (load_bearer b s = Some (x, s)) as E by (unfold load_bearer; by rewrite Hb). sbind E. by rewrite Hq.
Qed.

(** The precedence of a definition. *)
Definition precedence_of (d : GxChargingRuleDefinition) : Z :=
  if has_GxChargingRuleDefinition_precedence d then d.(GxChargingRuleDefinition_precedence) else 0.

(** A named definition that can be read, of the quality that the answer gives the default
    bearer. *)
Record rule_fits (dirty : list Z) (cca : GxCCA) (s : session) (bearer : eps_bearer_t) (d : GxChargingRuleDefinition) : Prop := {
  rf_named : has_GxChargingRuleDefinition_charging_rule_name d = true;
  rf_name : is_Some (name ← octets_name d.(GxChargingRuleDefinition_charging_rule_name); name_key name s.(pdn).(call_id));
  rf_filled : is_Some (fill_charging_rule_definition s.(pdn).(pdn_ipv4) dirty d zero_rule);
  rf_has_quality : has_GxChargingRuleDefinition_qos_information d = true;
  rf_quality : same_qos (cca_quality cca bearer.(qos)) (rule_quality d.(GxChargingRuleDefinition_qos_information)) = true;
}.
Definition news_of (cca : GxCCA) (s : session) (bearer : eps_bearer_t) (n : rule_action_t * dynamic_rule_t)
    (d : GxChargingRuleDefinition) : Prop :=
  same_qos (cca_quality cca bearer.(qos)) n.2.(rule_qos) = true ∧ n.2.(precedence) = precedence_of d ∧
  is_Some (name_key n.2.(rule_name) s.(pdn).(call_id)).

Lemma fits_news dirty cca s bearer defs : Forall (rule_fits dirty cca s bearer) defs ->
  ∃ ns, mapM (install_news dirty s) defs = Some ns ∧ Forall2 (news_of cca s bearer) (mjoin ns) defs.
Proof.
  induction 1 as [|d defs [Hn [key Hk] [rule Hf] Hh Hq] HF (ns & E & IH)]; [by exists []|].
  destruct (octets_name _) as [name|] eqn:En; [|done]. cbn [mbind option_bind] in Hk.
  assert (install_news dirty s d = Some [(rule_action s key, rule)]) as Ed.
  { unfold install_news. rewrite Hn, En. cbn [mbind option_bind]. rewrite Hk. cbn [mbind option_bind]. by rewrite Hf. }
  exists ([(rule_action s key, rule)] :: ns). cbn [mapM]. rewrite Ed. cbn [mbind option_bind]. rewrite E. split; [done|].
  destruct (fill_rule_members _ _ _ _ _ Hf) as (H1 & H2 & H3). rewrite Hn, En in H3. injection H3 as H3.
  constructor; [|exact IH]. split; [|split]; cbn [snd]; [by rewrite H1, Hh|by rewrite H2|by rewrite <- H3, Hk].
Qed.

(** The state in which the answer leaves the session is ready for its rules. *)
Lemma answer_ready cca s b bearer news t e : ready s b bearer -> fresh_rules s ->
  ready (set_ses_context (set_ue_event_trigger e s.(context))
           (set_ses_rule_table t (queue_all news (quality_state cca b bearer s)))) b
        (set_bearer_qos (cca_quality cca bearer.(qos)) bearer).
Proof.
  intros [Hr Hi Hd Hb Hk Hf] Hfr. pose proof (cca_pdn_frame cca s.(pdn)) as Epdn. injection Epdn as _ _ El Ei _ _.
  set (s1 := quality_state cca b bearer s). destruct (queue_all_pending news s1 Hfr) as (_ & Hle & _).
  pose proof (queue_all_frame news s1) as Efr. cbv zeta in Efr. revert Efr Hle.
  generalize (queue_all news s1). intros s2 -> Hle. split; cbn -[s1 lookup] in *; try done.
  - change (s1.(pdn)) with (cca_pdn cca s.(pdn)). by rewrite El, Ei.
  - apply with_bearer_lookup.
  - intros p Hp. specialize (Hf p Hp). change (next_ptr s1) with (next_ptr s) in Hle. lia.
Qed.

(** A PDR made from a definition. *)
Definition pdr_for (s : session) (p : ptr) (d : GxChargingRuleDefinition) (iface : Z) : Prop :=
  ∃ pdr, s.(h_pdrs) !! p = Some pdr ∧ pdr.(src_intfc) = iface ∧ pdr.(prcdnc_val) = precedence_of d ∧
    known s pdr.(pdr_qers).

Lemma installed_sides s1 s2 cca s0 bearer rules news defs new :
  Forall2 (queued s1) rules news -> Forall2 (news_of cca s0 bearer) news defs -> extends s1 s2 ->
  Forall2 (fun p '(r, iface) => installed s2 p r iface) new
    (mjoin ((fun r => [(r.(dyn_rule), SOURCE_INTERFACE_VALUE_ACCESS); (r.(dyn_rule), SOURCE_INTERFACE_VALUE_CORE)]) <$> rules)) ->
  Forall2 (fun p '(d, iface) => pdr_for s2 p d iface) new
    (mjoin ((fun d => [(d, SOURCE_INTERFACE_VALUE_ACCESS); (d, SOURCE_INTERFACE_VALUE_CORE)]) <$> defs)).
Proof.
  intros HQ. revert defs new. induction HQ as [|r n rules news [_ Hr] HQ IH]; intros defs new HN He.
  { inversion_clear HN. by intros H%Forall2_nil_inv_r; subst. }
  inversion_clear HN as [|? d ? defs' (_ & Hp & _) HN']. cbn [fmap list_fmap mjoin list_join app]. intros HF.
  destruct new as [|p1 [|p2 new]]; [inversion HF|inversion HF as [|? ? ? ? ? Ht]; inversion Ht|].
  inversion_clear HF as [|? ? ? ? Hi1 HF']. inversion_clear HF' as [|? ? ? ? Hi2 HF2].
  assert (∀ p iface, installed s2 p r.(dyn_rule) iface -> pdr_for s2 p d iface) as Hs.
  { intros p iface (pdr & rule & Ha & Hb & Hc & _ & Hv & Hkn). exists pdr. split; [done|]. split; [done|]. split; [|done].
    destruct (ex_rules _ _ He _ _ Hr) as (rule' & Hb' & Ep & _). rewrite Hb in Hb'. injection Hb' as <-.
    by rewrite Hv, Ep, Hp. }
  constructor; [by apply Hs|]. constructor; [by apply Hs|]. by apply IH.
Qed.

(** The queued rules belong to the default bearer, of the quality that was stored. *)
Lemma answer_lands s1 b bearer1 cca s0 bearer rules news defs k rest :
  s1.(pdn).(eps_bearers) = repeat None k ++ Some b :: rest -> s1.(h_bearers) !! b = Some bearer1 ->
  bearer1.(qos) = cca_quality cca bearer.(qos) ->
  Forall2 (queued s1) rules news -> Forall2 (news_of cca s0 bearer) news defs ->
  Forall (fun r => ∃ rule, s1.(h_rules) !! r.(dyn_rule) = Some rule ∧ lands s1 b rule.(rule_qos)) rules.
Proof.
  intros Hlist Hb Hqos HQ. revert defs. induction HQ as [|r n rules news [_ Hn] HQ IH]; intros defs HN; [constructor|].
  inversion_clear HN as [|? d ? defs' (Hs & _ & _) HN']. constructor; [|by apply (IH defs')].
  exists n.2. split; [exact Hn|]. right. apply (find_first_bearer s1 b bearer1 _ _ k rest); [done..|]. by rewrite Hqos.
Qed.

(** C10: The rules of an answer of the policy server come to the user plane.  When an answer for
    the connection gives named rules of the quality it sets for the default bearer, it is
    accepted, the quality and the rates are stored, and the session request then installs
    every rule on the default bearer, in the order of the answer, with a PDR for each side
    that has the precedence of the definition and whose quality enforcement rules have a
    context. *)
Theorem cca_rules_installed cfg dirty cca s b bearer :
  let defs := all_definitions (has_GxCCA_charging_rule_install cca) cca.(GxCCA_charging_rule_install) in
  cca_for cca s -> has_GxCCA_charging_rule_remove cca = false ->
  ready s b bearer -> first_bearer s b -> fresh_rules s -> s.(pdn).(pending_pcc_rules) = [] ->
  room cfg (length defs) bearer -> Forall (rule_fits dirty cca s bearer) defs ->
  ∃ s1 s2 bearer' new, parse_gx_cca_msg dirty cca s = Some (0, s1) ∧
    install_rules cfg s1.(pdn).(pending_pcc_rules) None 0 s1 =
      Some ((if defs is [] then None else Some b, 2 * Z.of_nat (length defs)), s2) ∧
    s2.(h_bearers) !! b = Some bearer' ∧ bearer'.(pdrs) = bearer.(pdrs) ++ new ∧
    Forall2 (fun p '(d, iface) => pdr_for s2 p d iface) new
      (mjoin ((fun d => [(d, SOURCE_INTERFACE_VALUE_ACCESS); (d, SOURCE_INTERFACE_VALUE_CORE)]) <$> defs)).
Proof.
  intros defs Hcca Hnr Hr [k [rest Hl]] Hf Hp Hroom HF. destruct (fits_news _ _ _ _ _ HF) as (ns & En & HN).
  assert (cca_news dirty cca s = Some (mjoin ns)) as Enews.
  { unfold cca_news, policy_news. fold defs. rewrite En, Hnr.
    change (Some (mjoin ns ++ []) = Some (mjoin ns)). by rewrite app_nil_r. }
  set (news := mjoin ns) in *.
  destruct (parse_cca_ok dirty cca s b bearer news) as (t & e & E); auto.
  { apply (default_bearer_ok _ _ _ Hr). }
  { apply (rd_bearer _ _ _ Hr). }
  { clear -HN. induction HN as [|n d news defs (_ & _ & H) HN IH]; by constructor. }
  set (s0 := quality_state cca b bearer s) in *.
  pose proof (answer_ready cca s b bearer news t e Hr Hf) as Hr1. fold s0 in Hr1.
  destruct (queue_all_pending news s0 Hf) as (_ & _ & _ & rules & Hq & HQ & _).
  pose proof (cca_pdn_frame cca s.(pdn)) as Epdn. injection Epdn as _ _ El _ _ Epend.
  change (s0.(pdn)) with (cca_pdn cca s.(pdn)) in Hq. rewrite Epend, Hp in Hq. cbn [app] in Hq.
  pose proof (queue_all_frame news s0) as Efr. cbv zeta in Efr. set (sq := queue_all news s0) in *.
  assert (sq.(pdn).(eps_bearers) = repeat None k ++ Some b :: rest) as Hlist by (rewrite Efr; cbn -[s0 repeat]; by rewrite <- Hl).
  clearbody sq. set (s1 := set_ses_context _ _) in *. set (bearer1 := set_bearer_qos _ bearer) in *.
  pose proof (answer_lands s1 b bearer1 cca s bearer rules news defs k rest Hlist (rd_bearer _ _ _ Hr1) eq_refl HQ HN) as HL.
  assert (length rules = length defs) as Hlen by (by rewrite (list.Forall2_length _ _ _ HQ), (list.Forall2_length _ _ _ HN)).
  destruct (rules_step cfg s1 b bearer1 rules None 0 Hr1) as (s2 & bearer2 & new & E2 & Hr2 & He & Hpdr & _ & _ & HF2); auto.
  { by rewrite Hlen. }
  { lia. }
  { rewrite Hlen. unfold room in Hroom. lia. }
  exists s1, s2, bearer2, new. split; [exact E|]. change (s1.(pdn)) with (sq.(pdn)). rewrite Hq. split.
  { rewrite E2, Hlen. do 3 f_equal. destruct rules, defs; done. }
  split; [apply (rd_bearer _ _ _ Hr2)|]. split; [exact Hpdr|].
  exact (installed_sides s1 s2 cca s bearer rules news defs new HQ HN He HF2).
Qed.

(** ** An attach without policy server *)

Definition attach_state (b : ptr) (bearer : eps_bearer_t) (s : session) : session :=
  queue (set_ses_pdn (set_pdn_default_bearer_qos (default_quality s.(pdn).(default_bearer_qos))
                        (set_pdn_default_bearer_qos_valid true s.(pdn)))
           (with_bearer b (set_bearer_qos (default_quality bearer.(qos)) bearer) s)) (RULE_ACTION_ADD, attach_rule).

Lemma attach_state_ok s b bearer : ready s b bearer ->
  fill_rule_and_qos_inform_in_pdn s = Some (tt, attach_state b bearer s) ∧
  ready (attach_state b bearer s) b (set_bearer_qos (default_quality bearer.(qos)) bearer).
Proof.
  intros Hr. split.
  - unfold fill_rule_and_qos_inform_in_pdn. sbind (default_bearer_ok _ _ _ Hr).
    unfold mbind, sesM_bind, update_pdn, smodify, sdef, update_bearer, add_pending, sgets. cbn -[insert lookup attach_rule].
    rewrite (rd_bearer _ _ _ Hr). done.
  - destruct Hr as [Ht Hi Hd Hb Hk Hf]. split; cbn -[insert lookup attach_rule]; try done; [apply lookup_insert_eq|].
    intros p Hp. specialize (Hf p Hp). lia.
Qed.

(** Without policy server the attach queues one rule of its own, which the session request
    installs on the default bearer: a PDR of the access side and one of the core side, with
    the precedence of the rule and quality enforcement rules that have a context. *)
Theorem attach_rule_installed cfg s b bearer :
  ready s b bearer -> s.(pdn).(pending_pcc_rules) = [] -> room cfg 1 bearer ->
  ∃ s1 s2 bearer' p1 p2, fill_rule_and_qos_inform_in_pdn s = Some (tt, s1) ∧
    install_rules cfg s1.(pdn).(pending_pcc_rules) None 0 s1 = Some ((Some b, 2), s2) ∧
    s2.(h_bearers) !! b = Some bearer' ∧ bearer'.(pdrs) = bearer.(pdrs) ++ [p1; p2] ∧
    Forall2 (fun p iface => ∃ pdr, s2.(h_pdrs) !! p = Some pdr ∧ pdr.(src_intfc) = iface ∧ pdr.(prcdnc_val) = PRECEDENCE ∧
                              known s2 pdr.(pdr_qers)) [p1; p2] [SOURCE_INTERFACE_VALUE_ACCESS; SOURCE_INTERFACE_VALUE_CORE].
Proof.
  intros Hr Hp Hroom. destruct (attach_state_ok s b bearer Hr) as [E Hr1]. set (s1 := attach_state b bearer s) in *.
  assert (s1.(h_rules) !! s.(next_ptr) = Some attach_rule) as Ha by apply lookup_insert_eq.
  assert (s1.(pdn).(pending_pcc_rules) = [mk_pcc RULE_ACTION_ADD s.(next_ptr)]) as Hq by (cbn; by rewrite Hp).
  destruct (rules_step cfg s1 b _ [mk_pcc RULE_ACTION_ADD s.(next_ptr)] None 0 Hr1)
    as (s2 & bearer2 & new & E2 & Hr2 & He & Hpdr & _ & _ & HF); auto; [|lia|cbn; lia|].
  { constructor; [|constructor]. exists attach_rule. split; [exact Ha|]. left. done. }
  cbn [fmap list_fmap mjoin list_join app dyn_rule] in HF.
  destruct new as [|p1 [|p2 [|p3 new]]]; [inversion HF|inversion HF as [|? ? ? ? ? Ht]; inversion Ht| |
    inversion HF as [|? ? ? ? ? Ht]; inversion Ht as [|? ? ? ? ? Ht2]; inversion Ht2].
  inversion_clear HF as [|? ? ? ? H1 HF']. inversion_clear HF' as [|? ? ? ? H2 _].
  assert (∀ p iface, installed s2 p s.(next_ptr) iface -> ∃ pdr, s2.(h_pdrs) !! p = Some pdr ∧ pdr.(src_intfc) = iface ∧
    pdr.(prcdnc_val) = PRECEDENCE ∧ known s2 pdr.(pdr_qers)) as Hs.
  { intros p iface (pdr & rule & Hpd & Hru & Hsrc & _ & Hv & Hkn). exists pdr. split_and!; try done.
    destruct (ex_rules _ _ He _ _ Ha) as (rule' & Hru' & Ep & _). rewrite Hru in Hru'. injection Hru' as <-. by rewrite Hv, Ep. }
  exists s1, s2, bearer2, p1, p2. split; [done|]. rewrite Hq. split; [exact E2|]. split; [apply (rd_bearer _ _ _ Hr2)|].
  split; [exact Hpdr|]. constructor; [by apply Hs|]. constructor; [by apply Hs|constructor].
Qed.

(** ** Answers that are not accepted *)

(** An answer whose session id has no call id, or that of another call, or that lacks the
    quality of the default bearer, is refused: no rule is queued and no quality changed. *)
Theorem cca_rejected dirty cca s ret id :
  retrieve_call_id (array OCTETS cca.(GxCCA_session_id).(os_val)) = Some (ret, id) ->
  ret < 0 ∨ id ≠ s.(pdn).(call_id) ∨ has_GxCCA_default_eps_bearer_qos cca = false ->
  ∃ mode, parse_gx_cca_msg dirty cca s = Some (-1, set_ses_pdn (set_pdn_bearer_control_mode mode s.(pdn)) s).
Proof.
  intros Hc Hbad. unfold parse_gx_cca_msg. rewrite Hc. sbind (eq_refl : sdef (Some (ret, id)) s = Some ((ret, id), s)).
  cbv beta iota. destruct (Z.ltb_spec ret 0) as [|Hret]; [by exists s.(pdn).(bearer_control_mode)|].
  sbind (eq_refl : sgets pdn s = Some (s.(pdn), s)).
  destruct (Z.eqb_spec s.(pdn).(call_id) id) as [<-|Hid]; [|by exists s.(pdn).(bearer_control_mode)]. cbn [negb].
  destruct Hbad as [?|[?| ->]]; [lia|done|]. eexists. reflexivity.
Qed.

(** An event of the policy server is the number of a bit of an [int]: from 31 on, as the
    usage report has 33, the shift is undefined. *)
Theorem events_out_of_range l s : list_ok l -> Exists (fun v => ¬ 0 <= v < 31) (list_items l) -> store_event_trigger l s = None.
Proof.
  intros Hl HE. unfold store_event_trigger. unfold mbind, sesM_bind. rewrite for_clist_items by done. clear Hl.
  assert (each_of SET_EVENT (list_items l) s = None) as ->; [|done].
  revert s. induction HE as [v vs Hv|v vs HE IH]; intros s; cbn [each_of]; unfold mbind, sesM_bind.
  - assert (SET_EVENT v s = None) as ->; [|done]. unfold SET_EVENT. destruct (Z.leb_spec 0 v), (Z.ltb_spec v 31); done || lia.
  - destruct (SET_EVENT v s) as [[u s']|]; [|done]. apply IH.
Qed.

(** ** An answer *)

Definition sample_octets (t : string) : OctetString := mk_OctetString (Z.of_nat (String.length t)) (str_bytes t ++ [0]).
Definition sample_arp : GxAllocationRetentionPriority := mk_GxAllocationRetentionPriority 7 8 1 0.
Definition sample_gx_qos : GxQosInformation :=
  set_GxQosInformation_presence 0x403f (set_GxQosInformation_qos_class_identifier 9
    (set_GxQosInformation_max_requested_bandwidth_ul 100000000
      (set_GxQosInformation_allocation_retention_priority sample_arp zero_GxQosInformation))).
Definition sample_gx_flow : GxFlowInformation :=
  set_GxFlowInformation_presence 0x41 (set_GxFlowInformation_flow_direction 3
    (set_GxFlowInformation_flow_description (sample_octets "permit out 17 from any to assigned") zero_GxFlowInformation)).
(** A named rule of the default bearer, with a flow and a quality. *)
Definition sample_definition (name : string) (prec : Z) : GxChargingRuleDefinition :=
  set_GxChargingRuleDefinition_presence 0x80d9
    (set_GxChargingRuleDefinition_charging_rule_name (sample_octets name)
      (set_GxChargingRuleDefinition_flow_status 2 (set_GxChargingRuleDefinition_precedence prec
        (set_GxChargingRuleDefinition_qos_information sample_gx_qos
          (set_GxChargingRuleDefinition_flow_information (mk_clist 1 [sample_gx_flow]) zero_GxChargingRuleDefinition))))).
Definition sample_install : GxChargingRuleInstall :=
  set_GxChargingRuleInstall_presence 1
    (set_GxChargingRuleInstall_charging_rule_definition
      (mk_clist 2 [sample_definition "web" 10; sample_definition "mail" 20]) zero_GxChargingRuleInstall).
Definition sample_default_qos : GxDefaultEpsBearerQos := mk_GxDefaultEpsBearerQos 3 9 sample_arp.
Definition answer_cca : GxCCA :=
  set_GxCCA_presence (2 ^ 20 + 2 ^ 26)
    (set_GxCCA_session_id (sample_octets "202001011200007")
      (set_GxCCA_default_eps_bearer_qos sample_default_qos
        (set_GxCCA_charging_rule_install (mk_clist 1 [sample_install]) zero_GxCCA))).
(** The policy gave no quality yet. *)
Definition sample_attach : session :=
  let s := sample_session SAEGWC [] in set_ses_pdn (set_pdn_default_bearer_qos zero_qos s.(pdn)) s.
Definition sample_stack : list Z := repeat 0 32.

Lemma sample_cca_for : cca_for answer_cca sample_attach.
Proof.
  split; try (apply (bool_decide_unpack _); vm_compute; exact I); try (vm_compute; reflexivity);
    intros H; vm_compute in H; discriminate.
Qed.
Lemma sample_fresh : fresh_rules sample_attach.
Proof.
  assert (map_Forall (fun r _ => (r < 50)%positive) sample_attach.(h_rules)) as H.
  { apply (bool_decide_unpack _). vm_compute. exact I. }
  intros r [x Hx]. exact (H r x Hx).
Qed.

Lemma policy_rules_queued_witness :
  ∃ s' new, store_dynamic_rules_in_policy sample_stack (mk_clist 1 [sample_install]) zero_list true false sample_attach = Some (0, s') ∧
    s'.(pdn).(pending_pcc_rules) = [] ++ new ∧ NoDup (dyn_rule <$> new).
Proof.
  pose proof (policy_rules_queued sample_stack (mk_clist 1 [sample_install]) zero_list true false sample_attach) as H.
  destruct (ref_news _ _ _ _ _ _) as [news|] eqn:E; [|vm_compute in E; discriminate].
  destruct H as (s' & new & H1 & H2 & _ & H3 & _).
  - apply (bool_decide_unpack _). vm_compute. exact I.
  - apply (bool_decide_unpack _). vm_compute. exact I.
  - exact sample_fresh.
  - exists s', new. split; [exact H1|]. split; [exact H2|exact H3].
Defined.

Lemma cca_rules_installed_witness :
  ∃ s1 s2 bearer' new, parse_gx_cca_msg sample_stack answer_cca sample_attach = Some (0, s1) ∧
    install_rules sample_cfg s1.(pdn).(pending_pcc_rules) None 0 s1 = Some ((Some 1%positive, 4), s2) ∧
    s2.(h_bearers) !! 1%positive = Some bearer' ∧ bearer'.(pdrs) = [] ++ new ∧
    Forall2 (fun p '(d, iface) => pdr_for s2 p d iface) new
      [(sample_definition "web" 10, SOURCE_INTERFACE_VALUE_ACCESS); (sample_definition "web" 10, SOURCE_INTERFACE_VALUE_CORE);
       (sample_definition "mail" 20, SOURCE_INTERFACE_VALUE_ACCESS); (sample_definition "mail" 20, SOURCE_INTERFACE_VALUE_CORE)].
Proof.
  apply (cca_rules_installed sample_cfg sample_stack answer_cca sample_attach 1 sample_bearer).
  - exact sample_cca_for.
  - reflexivity.
  - split; [reflexivity|vm_compute; eexists; reflexivity|reflexivity|reflexivity|constructor|].
    intros p [x Hx]. cbn in Hx. by rewrite lookup_empty in Hx.
  - by exists 0%nat, (repeat None 14).
  - exact sample_fresh.
  - reflexivity.
  - unfold room. vm_compute. lia.
  - repeat (constructor; [split; [reflexivity|vm_compute; eexists; reflexivity|vm_compute; eexists; reflexivity
                                 |reflexivity|vm_compute; reflexivity]|]). constructor.
Defined.

Lemma attach_rule_installed_witness :
  ∃ s1 s2 bearer' p1 p2, fill_rule_and_qos_inform_in_pdn (sample_session SAEGWC []) = Some (tt, s1) ∧
    install_rules sample_cfg s1.(pdn).(pending_pcc_rules) None 0 s1 = Some ((Some 1%positive, 2), s2) ∧
    s2.(h_bearers) !! 1%positive = Some bearer' ∧ bearer'.(pdrs) = [] ++ [p1; p2] ∧
    Forall2 (fun p iface => ∃ pdr, s2.(h_pdrs) !! p = Some pdr ∧ pdr.(src_intfc) = iface ∧ pdr.(prcdnc_val) = PRECEDENCE ∧
                              known s2 pdr.(pdr_qers)) [p1; p2] [SOURCE_INTERFACE_VALUE_ACCESS; SOURCE_INTERFACE_VALUE_CORE].
Proof.
  apply (attach_rule_installed sample_cfg (sample_session SAEGWC []) 1 sample_bearer).
  - apply sample_ready.
  - reflexivity.
  - unfold room. cbn. lia.
Defined.

(** The answer for another call. *)
Lemma cca_rejected_witness :
  ∃ mode, parse_gx_cca_msg sample_stack
            (set_GxCCA_session_id (sample_octets "202001011200008") answer_cca) sample_attach =
    Some (-1, set_ses_pdn (set_pdn_bearer_control_mode mode sample_attach.(pdn)) sample_attach).
Proof.
  apply (cca_rejected sample_stack (set_GxCCA_session_id (sample_octets "202001011200008") answer_cca) sample_attach 0 8).
  - vm_compute. reflexivity.
  - right. left. discriminate.
Defined.

(** *** Removing a rule *)

(** After the answer and its rules, a request to remove the rule [name]. *)
Definition removal_rar (name : string) : GxRAR :=
  set_GxRAR_presence (2 ^ 13)
    (set_GxRAR_charging_rule_remove
      (mk_clist 1 [set_GxChargingRuleRemove_presence 1
        (set_GxChargingRuleRemove_charging_rule_name (mk_clist 1 [sample_octets name]) zero_GxChargingRuleRemove)]) zero_GxRAR).
Definition sample_removal (name : string) : option bearers_out :=
  '(_, s1) ← parse_gx_cca_msg sample_stack answer_cca sample_attach;
  '(_, s2) ← install_rules sample_cfg s1.(pdn).(pending_pcc_rules) None 0 s1;
  '(_, s3) ← parse_gx_rar_msg sample_stack (removal_rar name) s2;
  '(out, _) ← get_charging_rule_remove_bearer_info s3;
  Some out.
(** Both rules are bound to the default bearer.  The answer enters the first of them in the
    table under the index of the bearer, and its removal names the default bearer; the
    session request enters the second with the id of the bearer, 5, which is then read as an
    index: its removal names the bearer 10, which does not exist. *)
Example second_rule_other_bearer : sample_removal "web" = Some (5, [5], 1) ∧ sample_removal "mail" = Some (0, [10], 1).
Proof. split; vm_compute; reflexivity. Qed.

(** The rule of an attach without policy server has a text that stands for another filter. *)
Example attach_text_other_filter :
  fill_sdf_strctr 0x0100000a sample_stack (default_text ++ [0]) zero_fltr =
    Some (0, set_remote_addr (Some 0x0100000a, Some 32) zero_fltr) ∧
  default_filter ≠ set_remote_addr (Some 0x0100000a, Some 32) zero_fltr.
Proof. split; [vm_compute; reflexivity|discriminate]. Qed.
