(* ===== verification/GxRequest.v ===== *)
(** * Requests to the policy server (src/cp/gx/gx_interface.c)

    The functions that fill a Credit-Control-Request from the session, with the subscriber,
    the name of the network and the quality, and what a policy server can read from it.  A
    request is filled over what its structure held; memory is always available, and holds
    anything when it comes from [malloc]. *)

From Stdlib Require Import String Ascii.
From stdpp Require Import gmap strings pretty.
From S2P Require Import Prelude EncDecBits Text Teid Transactions PfcpSetIe PfcpSession PfcpSessionReq.
From S2P Require Import PfcpSessionSpec PfcpSessionProps GxCodec GxCodecSpec GxStructs GxPolicy GxPolicyProps.

Open Scope Z_scope.

(** ** Values (gx_def.h, gtp_ies.h, gx_interface.h) *)

Definition INITIAL_REQUEST : Z := 1.
Definition UPDATE_REQUEST : Z := 2.
Definition TERMINATION_REQUEST : Z := 3.
Definition TGPP_GPRS : Z := 0.
Definition END_USER_E164 : Z := 0.
Definition END_USER_IMSI : Z := 1.
Definition IMEISV : Z := 0.
Definition STR_IMSI_LEN : nat := 16.
Definition STR_MSISDN_LEN : nat := 12.
Definition BINARY_IMSI_LEN : nat := 8.
Definition BINARY_MSISDN_LEN : nat := 6.
Definition MAX_APN_LEN : nat := 64.

(** ** Parts of the request *)

(** The type of the access network; any other value leaves the member as it is. *)
Definition fill_rat_type_ie (ccr_rat_type csr_rat_type : Z) : Z :=
  if csr_rat_type =? 6 then 1004 (* EUTRAN_ *)
  else if csr_rat_type =? 1 then 1000 (* UTRAN *)
  else if csr_rat_type =? 2 then 1001 (* GERAN *)
  else if csr_rat_type =? 3 then 0 (* WLAN *)
  else if csr_rat_type =? 7 then 1 (* VIRTUAL *)
  else if csr_rat_type =? 4 then 1002 (* GAN *)
  else if csr_rat_type =? 5 then 1003 (* HSPA_EVOLUTION *)
  else ccr_rat_type.

(** A text with its final zero into the array of an octet string. *)
Definition put_text (t : list Z) (o : OctetString) : OctetString :=
  mk_OctetString (Z.of_nat (length t)) (t ++ 0 :: drop (S (length t)) (array OCTETS o.(os_val))).

(** The rates are those of the session, in kbit/s. *)
Definition fill_qos_info (bearer : eps_bearer_t) (d : pdn_connection_t) (q : GxQosInformation) : option GxQosInformation :=
  id ← int_to_str bearer.(eps_bearer_id);
  let mark (bits : list Z) (q : GxQosInformation) :=
    set_GxQosInformation_presence (foldl Z.setbit q.(GxQosInformation_presence) bits) q in
  Some (mark [9; 11; 12; 1; 2; 5; 6]
    (set_GxQosInformation_bearer_identifier (put_text id q.(GxQosInformation_bearer_identifier))
      (set_GxQosInformation_apn_aggregate_max_bitrate_ul d.(apn_ambr_ul)
        (set_GxQosInformation_apn_aggregate_max_bitrate_dl d.(apn_ambr_dl)
          (set_GxQosInformation_max_requested_bandwidth_ul (u32 bearer.(qos).(ul_mbr))
            (set_GxQosInformation_max_requested_bandwidth_dl (u32 bearer.(qos).(dl_mbr))
              (set_GxQosInformation_guaranteed_bitrate_ul (u32 bearer.(qos).(ul_gbr))
                (set_GxQosInformation_guaranteed_bitrate_dl (u32 bearer.(qos).(dl_gbr)) q)))))))).

Definition standard_qci (q : Z) : bool :=
  ((1 <=? q) && (q <=? 9)) || (q =? 65) || (q =? 66) || (q =? 69) || (q =? 70).
Definition fill_default_eps_bearer_qos (bearer : eps_bearer_t) (q : GxDefaultEpsBearerQos) : GxDefaultEpsBearerQos :=
  let x := bearer.(qos) in
  let q := if standard_qci x.(qci) then
             set_GxDefaultEpsBearerQos_presence (Z.setbit q.(GxDefaultEpsBearerQos_presence) 0)
               (set_GxDefaultEpsBearerQos_qos_class_identifier x.(qci) q)
           else q in
  let arp := q.(GxDefaultEpsBearerQos_allocation_retention_priority) in
  set_GxDefaultEpsBearerQos_presence (Z.setbit q.(GxDefaultEpsBearerQos_presence) 1)
    (set_GxDefaultEpsBearerQos_allocation_retention_priority
      (mk_GxAllocationRetentionPriority (foldl Z.setbit arp.(GxAllocationRetentionPriority_presence) [0; 1; 2])
         x.(priority_level) x.(preemption_capability) x.(preemption_vulnerability)) q).

(** Every byte becomes two characters, the lower half first; the last character is
    replaced by the final zero. *)
Definition half_digits (b : Z) : list Z := [48 + Z.land b 15; 48 + Z.land (Z.shiftr b 4) 15].
Definition bin_to_str (b_val s_val : list Z) (b_len s_len : nat) : option (list Z) :=
  if (s_len <=? length s_val)%nat && (2 * b_len <=? length s_val)%nat && (0 <? b_len)%nat && (b_len <=? length b_val)%nat then
    let cleared := repeat 0 s_len ++ drop s_len s_val in
    let text := mjoin (half_digits <$> take b_len b_val) ++ drop (2 * b_len) cleared in
    Some (<[(2 * b_len - 1)%nat := 0]> text)
  else None.

(** [junk] is what [malloc] gave. *)
Definition subscription (ty : Z) (len : nat) (digits : list Z) (b_len s_len : nat) (junk : GxSubscriptionId)
    : option GxSubscriptionId :=
  val ← bin_to_str digits (array OCTETS junk.(GxSubscriptionId_subscription_id_data).(os_val)) b_len s_len;
  Some (mk_GxSubscriptionId (foldl Z.setbit junk.(GxSubscriptionId_presence) [0; 1]) ty
          (mk_OctetString (Z.of_nat len) val)).
Definition fill_subscription_id (junk : GxSubscriptionId) (imsi msisdn : Z) (l : GxSubscriptionIdList)
    : option GxSubscriptionIdList :=
  if negb (imsi =? 0) then
    x ← subscription END_USER_IMSI (STR_IMSI_LEN - 1) (le_bytes 8 imsi) BINARY_IMSI_LEN STR_IMSI_LEN junk;
    Some (mk_clist 1 [x])
  else if negb (msisdn =? 0) then
    x ← subscription END_USER_E164 STR_MSISDN_LEN (le_bytes 8 msisdn) BINARY_MSISDN_LEN STR_MSISDN_LEN junk;
    Some (mk_clist 1 [x])
  else Some (mk_clist 0 l.(l_list)).

Definition fill_user_equipment_info (imei : Z) (x : GxUserEquipmentInfo) : GxUserEquipmentInfo :=
  let val := array OCTETS x.(GxUserEquipmentInfo_user_equipment_info_value).(os_val) in
  mk_GxUserEquipmentInfo (foldl Z.setbit x.(GxUserEquipmentInfo_presence) [0; 1]) IMEISV
    (mk_OctetString 8 (le_bytes 8 imei ++ drop 8 val)).

(** ** The name of the network *)

(** [strncat(dst, src, n)] in an array. *)
Definition strncat (dst src : list Z) (n : nat) : option (list Z) :=
  t ← c_str dst;
  let x := take n (before_zero src) in
  if ((n <=? length src)%nat || (length x <? length src)%nat) && (length t + length x <? length dst)%nat then
    Some (t ++ x ++ 0 :: drop (S (length t + length x)) dst)
  else None.
Definition put_char (l : list Z) (i : nat) (c : Z) : option (list Z) :=
  if (i <? length l)%nat then Some (<[i := c]> l) else None.

(** The loop over the labels; every turn but the last moves [i] on by two at least. *)
Fixpoint apn_loop (fuel : nat) (pdn_apn : list Z) (i : nat) (apn : list Z) : option (list Z) :=
  match fuel with
  | O => None
  | S fuel' =>
      if (i <? MAX_APN_LEN)%nat then
        c ← pdn_apn !! i;
        if negb (c =? 0) then
          let len := Z.to_nat c in
          a ← strncat apn (drop (S i) pdn_apn) len;
          a' ← put_char a len 46;
          apn_loop fuel' pdn_apn (i + len + 1) a'
        else match i with O => None | S j => put_char apn j 0 end
      else Some apn
  end.
Definition station_id (pdn_apn : list Z) : option (list Z) :=
  apn ← apn_loop 33 pdn_apn 0 (repeat 0 MAX_APN_LEN); c_str apn.

(** [o.len = strlen(t); memcpy(o.val, t, o.len)]. *)
Definition put_chars (t : list Z) (o : OctetString) : option OctetString :=
  if (length t <=? OCTETS)%nat
  then Some (mk_OctetString (Z.of_nat (length t)) (t ++ drop (length t) (array OCTETS o.(os_val)))) else None.

(** ** The request *)

Definition mark_ccr (bits : list Z) (ccr : GxCCR) : GxCCR :=
  set_GxCCR_presence (foldl Z.setbit ccr.(GxCCR_presence) bits) ccr.

(** The result, the request, and the static counter [cc_request_number]. *)
Definition ccr_number (number : Z) (ccr : GxCCR) : Z * GxCCR * Z :=
  if has_GxCCR_cc_request_type ccr then
    let ty := ccr.(GxCCR_cc_request_type) in
    let numbered (n : Z) := mark_ccr [8] (set_GxCCR_cc_request_number n ccr) in
    let can (x : GxCCR) := mark_ccr [26] (set_GxCCR_ip_can_type TGPP_GPRS x) in
    if ty =? INITIAL_REQUEST then (0, can (numbered 0), number)
    else if ty =? UPDATE_REQUEST then (0, numbered (u32 (number + 1)), u32 (number + 1))
    else if ty =? TERMINATION_REQUEST then (0, can (numbered (u32 (number + 1))), u32 (number + 1))
    else (-1, ccr, number)
  else (0, ccr, number).

Definition fill_ccr_request (junk : GxSubscriptionId) (s : session) (ebi_index : Z) (sess_id : option (list Z))
    (number : Z) (ccr : GxCCR) : option (Z * GxCCR * Z) :=
  o ← array_at s.(context).(ue_bearers) ebi_index;
  b ← o;
  bearer ← s.(h_bearers) !! b;
  ccr ← (if sess_id is Some t then
           id ← put_chars t ccr.(GxCCR_session_id); Some (mark_ccr [0] (set_GxCCR_session_id id ccr))
         else Some ccr);
  let '(ret, ccr, number) := ccr_number number ccr in
  if ret <? 0 then Some (ret, ccr, number) else
  ccr ← (if negb (s.(pdn).(apn_len) =? 0) then
           t ← station_id s.(pdn).(apn);
           id ← put_chars t ccr.(GxCCR_called_station_id);
           Some (mark_ccr [54] (set_GxCCR_called_station_id id ccr))
         else Some ccr);
  let ccr := if negb (s.(context).(rat_type_len) =? 0) then
               mark_ccr [29] (set_GxCCR_rat_type (fill_rat_type_ie ccr.(GxCCR_rat_type) s.(context).(rat_type)) ccr)
             else ccr in
  let ccr := mark_ccr [35] (set_GxCCR_default_eps_bearer_qos
                              (fill_default_eps_bearer_qos bearer ccr.(GxCCR_default_eps_bearer_qos)) ccr) in
  q ← fill_qos_info bearer s.(pdn) ccr.(GxCCR_qos_information);
  let ccr := mark_ccr [32] (set_GxCCR_qos_information q ccr) in
  ccr ← (if negb (s.(context).(imsi) =? 0) || negb (s.(context).(msisdn) =? 0) then
           l ← fill_subscription_id junk s.(context).(imsi) s.(context).(msisdn) ccr.(GxCCR_subscription_id);
           Some (mark_ccr [12] (set_GxCCR_subscription_id l ccr))
         else Some ccr);
  let ccr := if negb (s.(context).(mei) =? 0) then
               mark_ccr [31] (set_GxCCR_user_equipment_info
                                (fill_user_equipment_info s.(context).(mei) ccr.(GxCCR_user_equipment_info)) ccr)
             else ccr in
  Some (0, ccr, number).

(** The call id of a new connection; the counter comes after it. *)
Definition generate_call_id (call_id_offset : Z) : Z * Z := let n := u32 (call_id_offset + 1) in (n, n).

(** ** The name that is sent *)

(** A name in the form of the message: labels with their lengths, then a zero. *)
Definition label (l : list Z) : Prop := l ≠ [] ∧ Forall (fun c => 0 < c < 256 ∧ c ≠ 46) l.
Definition labels_apn (ls : list (list Z)) : list Z := mjoin ((fun l => Z.of_nat (length l) :: l) <$> ls).
Fixpoint dotted_name (ls : list (list Z)) : list Z :=
  match ls with [] => [] | [l] => l | l :: ls' => l ++ 46 :: dotted_name ls' end.

(** What the loop makes of it: labels behind each other, with a dot at the index that is
    the length of the last label. *)
Definition add_label (t l : list Z) : list Z := <[length l := 46]> (t ++ l).
Definition sent_name (ls : list (list Z)) : list Z :=
  match ls with
  | [] => []
  | [l] => l
  | l :: ls' => foldl add_label (l ++ [46]) ls'
  end.

Lemma repeat_replicate {A} (x : A) n : repeat x n = replicate n x.
Proof. induction n; [done|]. cbn. by f_equal. Qed.
Definition chars (t : list Z) : Prop := Forall (fun c => 0 < c < 256) t.
Lemma before_zero_chars t rest : chars t -> before_zero (t ++ 0 :: rest) = t.
Proof.
  induction 1 as [|c t Hc HF IH]; [done|]. cbn [before_zero app]. rewrite (proj2 (Z.eqb_neq _ _)) by lia. by rewrite IH.
Qed.
Lemma take_before_zero l rest : chars l -> take (length l) (before_zero (l ++ rest)) = l.
Proof.
  induction 1 as [|c l Hc HF IH]; [done|]. cbn [before_zero app length take]. rewrite (proj2 (Z.eqb_neq _ _)) by lia.
  cbn [take]. by rewrite IH.
Qed.
Lemma strncat_zeros t n l rest : chars t -> chars l -> (length l < n)%nat ->
  strncat (t ++ repeat 0 n) (l ++ rest) (length l) = Some ((t ++ l) ++ repeat 0 (n - length l)).
Proof.
  intros Ht Hl Hn. unfold strncat. destruct n as [|n]; [lia|]. cbn [repeat]. rewrite c_str_text by done.
  cbn [mbind option_bind]. rewrite take_before_zero by done. rewrite !length_app. cbn [length]. rewrite repeat_length.
  rewrite (proj2 (Nat.leb_le _ _)) by lia. cbn [orb andb]. rewrite (proj2 (Nat.ltb_lt _ _)) by lia. f_equal.
  rewrite <- app_assoc. do 2 f_equal.
  replace (S n - length l)%nat with (S (n - length l)) by lia. cbn [repeat]. f_equal.
  rewrite drop_app_ge by lia. replace (S (length t + length l) - length t)%nat with (S (length l)) by lia. cbn [drop].
  rewrite !repeat_replicate, drop_replicate. f_equal.
Qed.
Lemma chars_label l : label l -> chars l.
Proof. intros [_ HF]. eapply list.Forall_impl; [exact HF|]. by intros c [H _]. Qed.
Lemma put_inside t l n : (length l < length (t ++ l))%nat ->
  put_char ((t ++ l) ++ repeat 0 n) (length l) 46 = Some (add_label t l ++ repeat 0 n).
Proof.
  intros Hl. unfold put_char, add_label. rewrite (proj2 (Nat.ltb_lt _ _)) by (rewrite length_app; lia).
  by rewrite insert_app_l by lia.
Qed.
Lemma chars_add_label t l : chars t -> chars l -> chars (add_label t l).
Proof. intros Ht Hl. unfold add_label. apply Forall_insert; [by apply Forall_app|lia]. Qed.
Lemma add_label_length t l : length (add_label t l) = (length t + length l)%nat.
Proof. unfold add_label. by rewrite length_insert, length_app. Qed.

Lemma labels_apn_cons l ls rest : labels_apn (l :: ls) ++ rest = Z.of_nat (length l) :: l ++ labels_apn ls ++ rest.
Proof. unfold labels_apn. cbn [fmap list_fmap mjoin list_join app]. by rewrite <- app_assoc. Qed.
Lemma labels_apn_length l ls : length (labels_apn (l :: ls)) = S (length l + length (labels_apn ls)).
Proof. unfold labels_apn. cbn [fmap list_fmap mjoin list_join app length]. by rewrite length_app. Qed.

Lemma label_length l : label l -> (0 < length l)%nat.
Proof. intros [H _]. destruct l; [done|cbn; lia]. Qed.
(** One turn of the loop, and its end. *)
Lemma apn_label fuel pre l after apn a a' : (length pre < MAX_APN_LEN)%nat -> label l ->
  strncat apn (l ++ after) (length l) = Some a -> put_char a (length l) 46 = Some a' ->
  apn_loop (S fuel) (pre ++ Z.of_nat (length l) :: l ++ after) (length pre) apn =
    apn_loop fuel ((pre ++ Z.of_nat (length l) :: l) ++ after) (length (pre ++ Z.of_nat (length l) :: l)) a'.
Proof.
  intros Hp Hl Es Ep. pose proof (label_length l Hl). cbn [apn_loop]. rewrite (proj2 (Nat.ltb_lt _ _)) by done.
  rewrite list_lookup_middle by done. cbn [mbind option_bind]. rewrite (proj2 (Z.eqb_neq _ _)) by lia. cbn [negb].
  rewrite Nat2Z.id. cbv zeta. rewrite drop_app_ge by lia. replace (S (length pre) - length pre)%nat with 1%nat by lia.
  change (drop 1 (Z.of_nat (length l) :: l ++ after)) with (l ++ after). rewrite Es. cbn [mbind option_bind]. rewrite Ep. cbn [mbind option_bind]. rewrite <- app_assoc.
  f_equal. rewrite length_app. cbn [length]. lia.
Qed.
Lemma apn_end fuel pre after apn j : length pre = S j -> (S j < MAX_APN_LEN)%nat ->
  apn_loop (S fuel) (pre ++ 0 :: after) (length pre) apn = put_char apn j 0.
Proof.
  intros Hp Hj. cbn [apn_loop]. rewrite (proj2 (Nat.ltb_lt _ _)) by lia. rewrite list_lookup_middle by done.
  cbn [mbind option_bind]. change (negb (0 =? 0)) with false. cbv match. by rewrite Hp.
Qed.

(** The labels behind the first. *)
Lemma apn_loop_rest fuel pre ls rest t n :
  Forall label ls -> chars t -> t ≠ [] -> (length t + n = MAX_APN_LEN)%nat ->
  (length (pre ++ labels_apn ls) < MAX_APN_LEN)%nat -> (length ls < fuel)%nat -> (length t <= length pre)%nat ->
  (ls = [] -> (length t < length pre)%nat) ->
  apn_loop fuel (pre ++ labels_apn ls ++ 0 :: rest) (length pre) (t ++ repeat 0 n) =
    Some (foldl add_label t ls ++ repeat 0 (MAX_APN_LEN - length (foldl add_label t ls))).
Proof.
  revert fuel pre t n. induction ls as [|l ls IH]; intros fuel pre t n HF Ht Hne Hn Hm Hfu Hp Hz;
    (destruct fuel as [|fuel]; [cbn in Hfu; lia|]).
  - cbn [labels_apn fmap list_fmap mjoin list_join app foldl] in *. rewrite app_nil_r in *. specialize (Hz eq_refl).
    rewrite (apn_end _ _ _ _ (length pre - 1)) by lia.
    unfold put_char. rewrite (proj2 (Nat.ltb_lt _ _)) by (rewrite length_app, repeat_length; lia).
    rewrite insert_app_r_alt by lia. f_equal. replace n with (MAX_APN_LEN - length t)%nat by lia.
    by rewrite repeat_replicate, insert_replicate.
  - apply Forall_cons_1 in HF as [Hl HF]. rewrite labels_apn_cons. rewrite !length_app, !labels_apn_length in *.
    cbn [foldl length] in *. pose proof (chars_label l Hl) as Hch. pose proof (label_length l Hl).
    assert (0 < length t)%nat by (destruct t; [done|cbn; lia]).
    erewrite apn_label; [|lia|done|apply strncat_zeros; [done|done|lia]|apply put_inside; rewrite length_app; lia].
    apply IH; rewrite ?add_label_length, ?length_app; cbn [length]; try done; try lia.
    + by apply chars_add_label.
    + intros E. apply (f_equal (@length Z)) in E. rewrite add_label_length in E. cbn in E. lia.
Qed.

Lemma labels_two ls : Forall label ls -> (2 * length ls <= length (labels_apn ls))%nat.
Proof.
  induction 1 as [|l ls Hl HF IH]; [cbn; lia|]. rewrite labels_apn_length. cbn [length]. pose proof (label_length l Hl). lia.
Qed.
Lemma chars_labels t ls : chars t -> Forall label ls -> chars (foldl add_label t ls).
Proof.
  intros Ht HF. revert t Ht. induction HF as [|l ls Hl HF IH]; intros t Ht; [done|]. cbn [foldl].
  apply IH, chars_add_label; [done|by apply chars_label].
Qed.
Lemma labels_length t ls : Forall label ls ->
  (length (foldl add_label t ls) + length ls = length t + length (labels_apn ls))%nat.
Proof.
  intros HF. revert t. induction HF as [|l ls Hl HF IH]; intros t; [done|]. cbn [foldl]. rewrite labels_apn_length.
  specialize (IH (add_label t l)). rewrite add_label_length in IH. cbn [length]. lia.
Qed.

Lemma station_id_form ls rest : ls ≠ [] -> Forall label ls -> (length (labels_apn ls) < MAX_APN_LEN)%nat ->
  station_id (labels_apn ls ++ 0 :: rest) = Some (sent_name ls).
Proof.
  intros Hne HF Hm. destruct ls as [|l ls]; [done|]. pose proof (labels_two _ HF) as H2.
  apply Forall_cons_1 in HF as [Hl HF]. rewrite labels_apn_length in *. cbn [length] in H2.
  pose proof (chars_label l Hl) as Hch. pose proof (label_length l Hl) as Hpos. unfold MAX_APN_LEN in *.
  unfold station_id. rewrite labels_apn_cons.
  assert (put_char (l ++ repeat 0 (64 - length l)) (length l) 46 = Some ((l ++ [46]) ++ repeat 0 (63 - length l))) as Ep.
  { unfold put_char. rewrite (proj2 (Nat.ltb_lt _ _)) by (rewrite length_app, repeat_length; lia).
    replace (64 - length l)%nat with (S (63 - length l)) by lia. cbn [repeat].
    rewrite insert_app_r_alt, Nat.sub_diag by lia. cbn. by rewrite <- app_assoc. }
  pose proof (strncat_zeros [] 64 l (labels_apn ls ++ 0 :: rest)) as Es. cbn [app] in Es.
  pose proof (apn_label 32 [] l _ _ _ _ ltac:(unfold MAX_APN_LEN; cbn; lia) Hl (Es ltac:(constructor) Hch ltac:(lia)) Ep) as E1.
  cbn [app] in E1. change (length (A:=Z) []) with 0%nat in E1. unfold MAX_APN_LEN. rewrite E1. clear E1 Es Ep.
  destruct ls as [|l2 ls].
  - cbn [labels_apn fmap list_fmap mjoin list_join app sent_name].
    rewrite (apn_end 31 (Z.of_nat (length l) :: l) rest _ (length l)) by (unfold MAX_APN_LEN; cbn; lia). unfold put_char.
    rewrite (proj2 (Nat.ltb_lt _ _)) by (rewrite !length_app, repeat_length; cbn; lia).
    rewrite <- app_assoc, insert_app_r_alt, Nat.sub_diag by lia. cbn [app insert list_insert mbind option_bind].
    by apply c_str_text.
  - change (Z.of_nat (length l) :: l ++ labels_apn (l2 :: ls) ++ 0 :: rest)
      with ((Z.of_nat (length l) :: l) ++ labels_apn (l2 :: ls) ++ 0 :: rest).
    rewrite (apn_loop_rest 32 (Z.of_nat (length l) :: l) (l2 :: ls) rest (l ++ [46]) (63 - length l)); try done; rewrite ?length_app, ?labels_apn_length in *; cbn [length] in *; unfold MAX_APN_LEN; try lia.
    2: { apply Forall_app. split; [done|]. constructor; [lia|constructor]. }
    2: { by destruct l. }
    cbn [mbind option_bind]. pose proof (labels_length (l ++ [46]) (l2 :: ls) HF) as Hlen.
    rewrite length_app, labels_apn_length in Hlen. cbn [length] in Hlen. cbn [sent_name].
    set (t := foldl add_label (l ++ [46]) (l2 :: ls)) in *.
    replace (64 - length t)%nat with (S (63 - length t)) by lia. cbn [repeat]. apply c_str_text.
    apply chars_labels; [|done]. apply Forall_app. split; [done|]. constructor; [lia|constructor].
Qed.

Lemma dotted_name_length ls : ls ≠ [] -> S (length (dotted_name ls)) = length (labels_apn ls).
Proof.
  induction ls as [|l ls IH]; [done|]. intros _. rewrite labels_apn_length. destruct ls as [|l2 ls]; [cbn; lia|].
  rewrite <- IH by done. cbn [dotted_name]. rewrite length_app. cbn [length]. lia.
Qed.
Lemma dot_in_two l1 l2 : label l1 -> label l2 -> (l1 ++ 46 :: l2) !! length l2 = Some 46 -> length l1 = length l2.
Proof.
  intros [_ H1] [_ H2] E. destruct (Nat.lt_trichotomy (length l2) (length l1)) as [H|[H|H]]; [|done|].
  - rewrite lookup_app_l in E by done. apply list.Forall_lookup with (i := length l2) (x := 46) in H1; [|done]. by destruct H1.
  - rewrite lookup_app_r in E by lia. destruct (length l2 - length l1)%nat as [|k] eqn:Ek; [lia|]. cbn in E.
    apply list.Forall_lookup with (i := k) (x := 46) in H2; [|done]. by destruct H2.
Qed.

(** The name of the network in a request: for a name of labels that fits its array the loop
    ends with a text, which is the dotted name exactly when the name has one label, or two
    of the same length; the dot behind a later label is written at the wrong place. *)
Theorem station_name_dotted ls rest :
  ls ≠ [] -> Forall label ls -> (length (labels_apn ls) < MAX_APN_LEN)%nat ->
  ∃ t, station_id (labels_apn ls ++ 0 :: rest) = Some t ∧
    (t = dotted_name ls <-> match ls with [_] => True | [l1; l2] => length l1 = length l2 | _ => False end).
Proof.
  intros Hne HF Hm. exists (sent_name ls). split; [by apply station_id_form|].
  destruct ls as [|l1 [|l2 ls]]; [done|done|]. inversion HF as [|? ? Hl1 HF2]; subst. inversion HF2 as [|? ? Hl2 HF3]; subst.
  destruct ls as [|l3 ls].
  - cbn [sent_name foldl dotted_name]. unfold add_label. rewrite <- app_assoc. cbn [app]. split.
    + intros E. apply (dot_in_two _ _ Hl1 Hl2). rewrite <- E at 1. apply list_lookup_insert_eq. rewrite length_app. cbn. lia.
    + intros E. apply list_insert_id. rewrite <- E. by apply list_lookup_middle.
  - split; [|done]. intros E. apply (f_equal (@length Z)) in E. pose proof (dotted_name_length (l1 :: l2 :: l3 :: ls) ltac:(done)) as Hd.
    pose proof (labels_length (l1 ++ [46]) (l2 :: l3 :: ls) HF2) as Hs. cbn [sent_name] in E.
    rewrite labels_apn_length in Hd. rewrite length_app in Hs. cbn [length] in Hs. lia.
Qed.

Lemma station_name_dotted_witness :
  ∃ t, station_id (labels_apn [str_bytes "internet"; str_bytes "mnc012"] ++ 0 :: []) = Some t ∧
    (t = dotted_name [str_bytes "internet"; str_bytes "mnc012"] <-> (8 = 6)%nat).
Proof.
  apply (station_name_dotted [str_bytes "internet"; str_bytes "mnc012"] []).
  - discriminate.
  - repeat (constructor; [split; [discriminate|apply (bool_decide_unpack _); vm_compute; exact I]|]). constructor.
  - vm_compute. lia.
Defined.
Example sent_name_mangled : sent_name [str_bytes "internet"; str_bytes "mnc012"] = str_bytes "intern.t.mnc012".
Proof. reflexivity. Qed.

(** ** The quality that is sent *)

(** The members have the widths of the structure. *)
Definition quality_ok (x : bearer_qos_ie) : Prop :=
  standard_qci x.(qci) = true ∧ 0 <= x.(priority_level) < 16 ∧ 0 <= x.(preemption_capability) < 2 ∧
  0 <= x.(preemption_vulnerability) < 2.

(** A policy server that answers with the quality of the request: the default bearer keeps
    its class and its priorities, but the rates of the connection are divided by 1000,
    since requests carry them in kbit/s and answers are read in bit/s. *)
Theorem echoed_quality bearer d q0 q q' :
  quality_ok bearer.(qos) -> fill_qos_info bearer d q = Some q' ->
  stored_quality (fill_default_eps_bearer_qos bearer q0) bearer.(qos) = bearer.(qos) ∧
  ambr_pdn q' d = set_pdn_apn_ambr_dl (d.(apn_ambr_dl) / 1000) (set_pdn_apn_ambr_ul (d.(apn_ambr_ul) / 1000) d).
Proof.
  intros (Hq & H1 & H2 & H3) E. split.
  - unfold fill_default_eps_bearer_qos, stored_quality. rewrite Hq.
    assert (0 <= qci (qos bearer) < 256) by (unfold standard_qci in Hq; lia).
    unfold has_GxDefaultEpsBearerQos_allocation_retention_priority, has_GxAllocationRetentionPriority_pre_emption_vulnerability,
      has_GxAllocationRetentionPriority_pre_emption_capability, has_GxAllocationRetentionPriority_priority_level,
      has_GxDefaultEpsBearerQos_qos_class_identifier.
    destruct q0 as [p ci [ap a1 a2 a3]]. cbn -[Z.setbit Z.testbit uwrap]. rewrite !Z.setbit_eqb by lia. cbn -[Z.testbit uwrap].
    rewrite ?orb_true_r. cbn -[uwrap]. by rewrite !uwrap_small by lia.
  - unfold fill_qos_info in E. destruct (int_to_str _) as [id|]; [|done]. cbn [mbind option_bind] in E. injection E as <-.
    unfold ambr_pdn, has_GxQosInformation_apn_aggregate_max_bitrate_ul, has_GxQosInformation_apn_aggregate_max_bitrate_dl.
    destruct q. cbn -[Z.setbit Z.testbit]. rewrite !Z.setbit_eqb by lia. cbn -[Z.testbit Z.div]. by rewrite ?orb_true_r.
Qed.
Lemma echoed_quality_witness :
  ∃ q', fill_qos_info sample_bearer (sample_pdn []) zero_GxQosInformation = Some q' ∧
    stored_quality (fill_default_eps_bearer_qos sample_bearer zero_GxDefaultEpsBearerQos) sample_qos = sample_qos ∧
    ambr_pdn q' (sample_pdn []) = set_pdn_apn_ambr_dl 2000 (set_pdn_apn_ambr_ul 1000 (sample_pdn [])).
Proof.
  destruct (fill_qos_info sample_bearer (sample_pdn []) zero_GxQosInformation) as [q'|] eqn:E; [|vm_compute in E; discriminate].
  exists q'. split; [reflexivity|].
  apply (echoed_quality sample_bearer (sample_pdn []) zero_GxDefaultEpsBearerQos zero_GxQosInformation q'); [|exact E].
  apply (bool_decide_unpack _). vm_compute. exact I.
Defined.

(** ** The subscriber *)

(** Digits, two in a byte. *)
Fixpoint bcd (ds : list Z) : list Z :=
  match ds with d1 :: d2 :: ds' => (d1 + 16 * d2) :: bcd ds' | _ => [] end.
Definition halves (ds : list Z) : Prop := Forall (fun d => 0 <= d < 16) ds.

Lemma half_digits_byte d1 d2 : 0 <= d1 < 16 -> 0 <= d2 < 16 -> half_digits (d1 + 16 * d2) = [48 + d1; 48 + d2].
Proof.
  intros H1 H2. unfold half_digits. rewrite Z.shiftr_div_pow2 by lia. change 15 with (Z.ones 4).
  rewrite !Z.land_ones by lia. change (2 ^ 4) with 16. rewrite (Z.mul_comm 16), Z_mod_plus_full, Z.div_add by lia.
  rewrite (Z.div_small d1), !Z.mod_small by lia. by rewrite Z.add_0_l.
Qed.
Lemma bcd_digits k ds : length ds = (2 * k)%nat -> halves ds ->
  length (bcd ds) = k ∧ bytes_ok (bcd ds) ∧ mjoin (half_digits <$> bcd ds) = Z.add 48 <$> ds.
Proof.
  revert ds. induction k as [|k IH]; intros ds Hl HF; [destruct ds; [|done]; split; [done|split; [constructor|done]]|].
  destruct ds as [|d1 [|d2 ds]]; [done|cbn in Hl; lia|]. inversion_clear HF as [|? ? H1 HF1]. inversion_clear HF1 as [|? ? H2 HF2].
  destruct (IH ds) as (E1 & E2 & E3); [cbn in Hl; lia|done|]. cbn [bcd length fmap list_fmap mjoin list_join].
  split; [by rewrite E1|]. split; [constructor; [unfold byte_ok; lia|done]|]. rewrite half_digits_byte by done. cbn [app].
  by do 2 f_equal.
Qed.

(** The characters of a number, the last of them cut. *)
Lemma bin_to_str_digits k ds s_val : length ds = (2 * S k)%nat -> halves ds -> length s_val = OCTETS -> (2 * S k <= OCTETS)%nat ->
  ∃ val, bin_to_str (bcd ds) s_val (S k) (2 * S k) = Some val ∧ take (2 * S k) val = (Z.add 48 <$> take (2 * S k - 1) ds) ++ [0].
Proof.
  intros Hl HF Hs Hk. destruct (bcd_digits (S k) ds Hl HF) as (E1 & _ & E3). unfold bin_to_str.
  rewrite !(proj2 (Nat.leb_le _ _)), (proj2 (Nat.ltb_lt _ _)) by (rewrite ?Hs, ?E1; lia). cbn [andb]. eexists. split; [reflexivity|].
  rewrite (take_ge (bcd ds)) by lia. rewrite E3. set (c := Z.add 48 <$> ds).
  assert (length c = (2 * S k)%nat) as Hc by (unfold c; by rewrite length_fmap).
  rewrite insert_app_l by lia. rewrite take_app_le by (rewrite length_insert; lia). rewrite take_ge by (rewrite length_insert; lia).
  rewrite insert_take_drop by lia. rewrite drop_ge by lia. unfold c. by rewrite fmap_take.
Qed.

(** The subscription id of a request with the IMSI: its 15 characters are the digits of the
    number, and a terminating zero follows them. *)
Theorem imsi_subscription junk ds msisdn l :
  length ds = 15%nat -> Forall (fun d => 0 <= d < 10) ds ->
  ∃ x, fill_subscription_id junk (of_le_bytes (bcd (ds ++ [15]))) msisdn l = Some (mk_clist 1 [x]) ∧
    x.(GxSubscriptionId_subscription_id_type) = END_USER_IMSI ∧
    x.(GxSubscriptionId_subscription_id_data).(os_len) = 15 ∧
    take 16 x.(GxSubscriptionId_subscription_id_data).(os_val) = (Z.add 48 <$> ds) ++ [0].
Proof.
  intros Hl HF. assert (halves (ds ++ [15])) as Hh.
  { apply Forall_app. split; [|constructor; [lia|constructor]]. eapply list.Forall_impl; [exact HF|]. cbn. lia. }
  assert (length (ds ++ [15]) = (2 * 8)%nat) as Hl16 by (rewrite length_app; cbn; lia).
  destruct (bcd_digits 8 _ Hl16 Hh) as (E1 & E2 & E3).
  assert (of_le_bytes (bcd (ds ++ [15])) ≠ 0) as Hnz.
  { intros E0. pose proof (le_of_le_bytes _ E2) as Eb. rewrite E1, E0 in Eb. rewrite <- Eb in E3.
    apply (f_equal (fun x => x !! 15%nat)) in E3. rewrite fmap_app, lookup_app_r in E3 by (rewrite length_fmap; lia).
    rewrite length_fmap, Hl in E3. vm_compute in E3. discriminate. }
  unfold fill_subscription_id. rewrite (proj2 (Z.eqb_neq _ _) Hnz). cbn [negb]. unfold subscription, BINARY_IMSI_LEN, STR_IMSI_LEN.
  pose proof (le_of_le_bytes _ E2) as Eb. rewrite E1 in Eb. rewrite Eb.
  destruct (bin_to_str_digits 7 (ds ++ [15]) (array OCTETS junk.(GxSubscriptionId_subscription_id_data).(os_val))) as (val & E & Ev);
    [done|done|apply length_resize|unfold OCTETS; lia|].
  change (2 * 8)%nat with 16%nat in *. rewrite E. cbn [mbind option_bind]. eexists. split; [reflexivity|].
  split; [done|]. split; [done|]. cbn [GxSubscriptionId_subscription_id_data os_val]. rewrite Ev.
  change (16 - 1)%nat with 15%nat. by rewrite take_app_le, take_ge by lia.
Qed.
Definition sample_imsi : list Z := [2; 0; 8; 0; 1; 0; 0; 0; 0; 0; 0; 0; 0; 0; 1].
Lemma imsi_subscription_witness :
  ∃ x, fill_subscription_id (mk_GxSubscriptionId 0 0 (mk_OctetString 0 [])) (of_le_bytes (bcd (sample_imsi ++ [15]))) 0 zero_list =
      Some (mk_clist 1 [x]) ∧
    x.(GxSubscriptionId_subscription_id_type) = END_USER_IMSI ∧ x.(GxSubscriptionId_subscription_id_data).(os_len) = 15 ∧
    take 16 x.(GxSubscriptionId_subscription_id_data).(os_val) = str_bytes "208010000000001" ++ [0].
Proof.
  apply (imsi_subscription (mk_GxSubscriptionId 0 0 (mk_OctetString 0 [])) sample_imsi 0 zero_list); [reflexivity|].
  repeat (constructor; [lia|]). constructor.
Defined.

(** The telephone number, of 12 digits: the last is lost, and the zero is counted. *)
Example msisdn_cut :
  (fun l => (fun x => let o := x.(GxSubscriptionId_subscription_id_data) in (o.(os_len), take (Z.to_nat o.(os_len)) o.(os_val))) <$> l.(l_list))
    <$> fill_subscription_id (mk_GxSubscriptionId 0 0 (mk_OctetString 0 [])) 0
          (of_le_bytes (bcd [4; 9; 1; 7; 0; 1; 2; 3; 4; 5; 6; 7])) zero_list =
  Some [(12, str_bytes "49170123456" ++ [0])].
Proof. vm_compute. reflexivity. Qed.

(** ** The whole request *)

(** A name of a network in the connection: no name, or labels that fit its array. *)
Definition network_of (d : pdn_connection_t) (ls : list (list Z)) : Prop :=
  match ls with
  | [] => d.(apn_len) = 0
  | _ => d.(apn_len) ≠ 0 ∧ Forall label ls ∧ (length (labels_apn ls) < MAX_APN_LEN)%nat ∧
         ∃ rest, d.(apn) = labels_apn ls ++ 0 :: rest
  end.

(** The session for a request: its bearer with an id of one byte, a name of the network and
    a session id that fits its array. *)
Record request_ok (s : session) (ebi : Z) (bearer : eps_bearer_t) (t : list Z) (ls : list (list Z)) : Prop := {
  rq_bearer : ∃ b, array_at s.(context).(ue_bearers) ebi = Some (Some b) ∧ s.(h_bearers) !! b = Some bearer;
  rq_id : 0 < bearer.(eps_bearer_id) < 256;
  rq_name : network_of s.(pdn) ls;
  rq_text : (length t <= 256)%nat;
}.

(** The number of a request of type [ty]; the counter is one for all sessions. *)
Definition request_number (ty number : Z) : Z := if ty =? INITIAL_REQUEST then 0 else u32 (number + 1).
Definition next_number (ty number : Z) : Z := if ty =? INITIAL_REQUEST then number else u32 (number + 1).
Definition known_type (ty : Z) : bool := (ty =? INITIAL_REQUEST) || (ty =? UPDATE_REQUEST) || (ty =? TERMINATION_REQUEST).

(** *** What a reader of the request finds *)

Definition text_is (t : list Z) (o : OctetString) : Prop := o.(os_len) = Z.of_nat (length t) ∧ take (length t) o.(os_val) = t.
(** The bits of [bits] are set, the others as they were. *)
Definition marked (bits : list Z) (p p' : Z) : Prop := ∀ k, 0 <= k -> Z.testbit p' k = Z.testbit p k || bool_decide (k ∈ bits).

(** The bits of the members of a request (gx_struct.h): session id, number, type of the
    access, name of the network, radio access, quality of the default bearer, rates,
    subscriber and equipment. *)
Definition request_bits (s : session) (ty : Z) : list Z :=
  [0; 8] ++ (if ty =? UPDATE_REQUEST then [] else [26]) ++ (if s.(pdn).(apn_len) =? 0 then [] else [54])
  ++ (if s.(context).(rat_type_len) =? 0 then [] else [29]) ++ [35; 32]
  ++ (if (s.(context).(imsi) =? 0) && (s.(context).(msisdn) =? 0) then [] else [12])
  ++ (if s.(context).(mei) =? 0 then [] else [31]).

(** The radio access of GTP as the policy server knows it (3GPP 29.274 and 29.212). *)
Definition radio_access : gmap Z Z :=
  list_to_map [(1, 1000); (2, 1001); (3, 0); (4, 1002); (5, 1003); (6, 1004); (7, 1)].

Definition default_quality_is (x : bearer_qos_ie) (q q' : GxDefaultEpsBearerQos) : Prop :=
  let arp := q'.(GxDefaultEpsBearerQos_allocation_retention_priority) in
  marked (if standard_qci x.(qci) then [0; 1] else [1]) q.(GxDefaultEpsBearerQos_presence) q'.(GxDefaultEpsBearerQos_presence) ∧
  (standard_qci x.(qci) = true -> q'.(GxDefaultEpsBearerQos_qos_class_identifier) = x.(qci)) ∧
  marked [0; 1; 2] q.(GxDefaultEpsBearerQos_allocation_retention_priority).(GxAllocationRetentionPriority_presence)
    arp.(GxAllocationRetentionPriority_presence) ∧
  arp.(GxAllocationRetentionPriority_priority_level) = x.(priority_level) ∧
  arp.(GxAllocationRetentionPriority_pre_emption_capability) = x.(preemption_capability) ∧
  arp.(GxAllocationRetentionPriority_pre_emption_vulnerability) = x.(preemption_vulnerability).
Definition rates_are_sent (bearer : eps_bearer_t) (d : pdn_connection_t) (q q' : GxQosInformation) : Prop :=
  marked [1; 2; 5; 6; 9; 11; 12] q.(GxQosInformation_presence) q'.(GxQosInformation_presence) ∧
  text_is (str_bytes (pretty bearer.(eps_bearer_id))) q'.(GxQosInformation_bearer_identifier) ∧
  q'.(GxQosInformation_apn_aggregate_max_bitrate_ul) = d.(apn_ambr_ul) ∧
  q'.(GxQosInformation_apn_aggregate_max_bitrate_dl) = d.(apn_ambr_dl) ∧
  q'.(GxQosInformation_max_requested_bandwidth_ul) = u32 bearer.(qos).(ul_mbr) ∧
  q'.(GxQosInformation_max_requested_bandwidth_dl) = u32 bearer.(qos).(dl_mbr) ∧
  q'.(GxQosInformation_guaranteed_bitrate_ul) = u32 bearer.(qos).(ul_gbr) ∧
  q'.(GxQosInformation_guaranteed_bitrate_dl) = u32 bearer.(qos).(dl_gbr).

(** The characters of a number: its hexadecimal digits from the lowest. *)
Definition half_byte_text (n : nat) (v : Z) : list Z := (fun k => 48 + v / 16 ^ Z.of_nat k mod 16) <$> seq 0 n.
(** The subscriber by the IMSI, with 15 digits, or else by the telephone number, of which 11
    digits and a zero are sent. *)
Definition subscriber_is (imsi msisdn : Z) (junk : GxSubscriptionId) (l l' : GxSubscriptionIdList) : Prop :=
  if (imsi =? 0) && (msisdn =? 0) then l' = l
  else ∃ x, l' = mk_clist 1 [x] ∧
    marked [0; 1] junk.(GxSubscriptionId_presence) x.(GxSubscriptionId_presence) ∧
    x.(GxSubscriptionId_subscription_id_type) = (if imsi =? 0 then END_USER_E164 else END_USER_IMSI) ∧
    text_is (if imsi =? 0 then half_byte_text 11 msisdn ++ [0] else half_byte_text 15 imsi)
      x.(GxSubscriptionId_subscription_id_data).
Definition equipment_is (mei : Z) (x x' : GxUserEquipmentInfo) : Prop :=
  if mei =? 0 then x' = x
  else marked [0; 1] x.(GxUserEquipmentInfo_presence) x'.(GxUserEquipmentInfo_presence) ∧
    x'.(GxUserEquipmentInfo_user_equipment_info_type) = IMEISV ∧
    text_is (le_bytes 8 mei) x'.(GxUserEquipmentInfo_user_equipment_info_value).

Record request_says (junk : GxSubscriptionId) (s : session) (bearer : eps_bearer_t) (t : list Z) (ls : list (list Z))
    (number : Z) (ccr ccr' : GxCCR) : Prop := {
  says_marked : marked (request_bits s ccr.(GxCCR_cc_request_type)) ccr.(GxCCR_presence) ccr'.(GxCCR_presence);
  says_session : text_is t ccr'.(GxCCR_session_id);
  says_number : ccr'.(GxCCR_cc_request_number) = request_number ccr.(GxCCR_cc_request_type) number;
  says_access : ccr'.(GxCCR_ip_can_type) =
    (if ccr.(GxCCR_cc_request_type) =? UPDATE_REQUEST then ccr.(GxCCR_ip_can_type) else TGPP_GPRS);
  says_network : match ls with
                 | [] => ccr'.(GxCCR_called_station_id) = ccr.(GxCCR_called_station_id)
                 | _ => text_is (sent_name ls) ccr'.(GxCCR_called_station_id)
                 end;
  says_radio : ccr'.(GxCCR_rat_type) =
    (if s.(context).(rat_type_len) =? 0 then ccr.(GxCCR_rat_type)
     else default ccr.(GxCCR_rat_type) (radio_access !! s.(context).(rat_type)));
  says_quality : default_quality_is bearer.(qos) ccr.(GxCCR_default_eps_bearer_qos) ccr'.(GxCCR_default_eps_bearer_qos);
  says_rates : rates_are_sent bearer s.(pdn) ccr.(GxCCR_qos_information) ccr'.(GxCCR_qos_information);
  says_subscriber : subscriber_is s.(context).(imsi) s.(context).(msisdn) junk
    ccr.(GxCCR_subscription_id) ccr'.(GxCCR_subscription_id);
  says_equipment : equipment_is s.(context).(mei) ccr.(GxCCR_user_equipment_info) ccr'.(GxCCR_user_equipment_info);
  says_no_more : ccr' =
    set_GxCCR_presence ccr'.(GxCCR_presence)
    (set_GxCCR_session_id ccr'.(GxCCR_session_id) (set_GxCCR_cc_request_number ccr'.(GxCCR_cc_request_number)
    (set_GxCCR_ip_can_type ccr'.(GxCCR_ip_can_type) (set_GxCCR_called_station_id ccr'.(GxCCR_called_station_id)
    (set_GxCCR_rat_type ccr'.(GxCCR_rat_type) (set_GxCCR_default_eps_bearer_qos ccr'.(GxCCR_default_eps_bearer_qos)
    (set_GxCCR_qos_information ccr'.(GxCCR_qos_information) (set_GxCCR_subscription_id ccr'.(GxCCR_subscription_id)
    (set_GxCCR_user_equipment_info ccr'.(GxCCR_user_equipment_info) ccr)))))))));
}.

(** *** The parts of the request *)

Lemma marked_bits bits p : Forall (Z.le 0) bits -> marked bits p (foldl Z.setbit p bits).
Proof.
  intros HF. revert p. induction HF as [|b bits Hb HF IH]; intros p k Hk; [by rewrite orb_false_r|].
  cbn [foldl]. rewrite IH, Z.setbit_eqb by done. destruct (Z.eqb_spec b k) as [->|Hne]; cbn [orb].
  - rewrite (bool_decide_eq_true_2 (k ∈ k :: bits)) by left. by rewrite orb_true_r.
  - f_equal. apply bool_decide_ext. rewrite elem_of_cons. split; [by right|]. by intros [->|].
Qed.
Lemma marked_iff bits bits' p p' : (∀ k, k ∈ bits <-> k ∈ bits') -> marked bits p p' -> marked bits' p p'.
Proof. intros He Hm k Hk. rewrite Hm by done. f_equal. by apply bool_decide_ext. Qed.
Lemma put_chars_fits t o : (length t <= 256)%nat -> ∃ o', put_chars t o = Some o' ∧ text_is t o'.
Proof.
  intros Hl. unfold put_chars, OCTETS, text_is. rewrite (proj2 (Nat.leb_le _ _)) by done. eexists. split; [done|]. split; [done|].
  cbn [os_val]. apply take_app_length.
Qed.
Lemma sent_name_short ls : Forall label ls -> (length (sent_name ls) <= length (labels_apn ls))%nat.
Proof.
  intros HF. destruct ls as [|l [|l2 ls]]; [cbn; lia|rewrite labels_apn_length; cbn; lia|]. inversion_clear HF as [|? ? _ HF2].
  pose proof (labels_length (l ++ [46]) (l2 :: ls) HF2) as Hs. cbn [sent_name]. rewrite (labels_apn_length l).
  rewrite length_app in Hs. cbn [length] in Hs. lia.
Qed.
Lemma small_id_text v : 0 < v < 256 -> int_to_str v = Some (str_bytes (pretty v)).
Proof.
  intros Hv. assert (Forall (fun v => int_to_str v = Some (str_bytes (pretty v))) (Z.of_nat <$> seq 1 255)) as HF
    by (apply (bool_decide_unpack _); vm_compute; exact I).
  rewrite list.Forall_forall in HF. apply HF. apply list_elem_of_fmap. exists (Z.to_nat v). split; [lia|].
  apply elem_of_seq. lia.
Qed.
Lemma half_digits_le n v : mjoin (half_digits <$> le_bytes n v) = half_byte_text (2 * n) v.
Proof.
  unfold half_byte_text. revert v. induction n as [|n IH]; intros v; [done|]. replace (2 * S n)%nat with (S (S (2 * n))) by lia.
  cbn [le_bytes fmap list_fmap mjoin list_join seq]. rewrite IH. unfold half_digits. cbn [app].
  rewrite Z.shiftr_div_pow2 by lia. change 15 with (Z.ones 4). rewrite !Z.land_ones by lia. unfold uwrap.
  change (2 ^ 8) with 256. change (2 ^ 4) with 16. change (16 ^ Z.of_nat 0) with 1. change (16 ^ Z.of_nat 1) with 16.
  rewrite Z.div_1_r. f_equal; [f_equal; Z.div_mod_to_equations; lia|]. f_equal; [f_equal; Z.div_mod_to_equations; lia|].
  rewrite <- (fmap_S_seq 1), <- (fmap_S_seq 0). rewrite <- !list_fmap_compose. apply list_fmap_ext. intros _ k _. cbn.
  do 2 f_equal. replace (Z.of_nat (S (S k))) with (2 + Z.of_nat k) by lia. rewrite Z.pow_add_r, <- Z.div_div by lia. done.
Qed.
Lemma subscription_text ty len n v junk : (0 < n <= 8)%nat ->
  ∃ x, subscription ty len (le_bytes 8 v) n (2 * n) junk = Some x ∧
    marked [0; 1] junk.(GxSubscriptionId_presence) x.(GxSubscriptionId_presence) ∧
    x.(GxSubscriptionId_subscription_id_type) = ty ∧ x.(GxSubscriptionId_subscription_id_data).(os_len) = Z.of_nat len ∧
    take (2 * n) x.(GxSubscriptionId_subscription_id_data).(os_val) = half_byte_text (2 * n - 1) v ++ [0].
Proof.
  intros Hn. unfold subscription, bin_to_str. rewrite length_array, length_le_bytes. unfold OCTETS.
  rewrite !(proj2 (Nat.leb_le _ _)), (proj2 (Nat.ltb_lt _ _)) by lia. cbn [andb mbind option_bind].
  eexists. split; [reflexivity|]. cbn [GxSubscriptionId_presence GxSubscriptionId_subscription_id_type
    GxSubscriptionId_subscription_id_data os_len os_val]. split; [apply marked_bits; repeat constructor; lia|].
  split; [done|]. split; [done|].
  assert (take n (le_bytes 8 v) = le_bytes n v) as ->.
  { assert (∀ a b v, take a (le_bytes (a + b) v) = le_bytes a v) as Ht.
    { induction a as [|a IH]; intros b w; [done|]. cbn. by rewrite IH. }
    replace 8%nat with (n + (8 - n))%nat by lia. apply Ht. }
  rewrite half_digits_le.
  assert (length (half_byte_text (2 * n) v) = (2 * n)%nat) as Hl by (unfold half_byte_text; by rewrite length_fmap, length_seq).
  rewrite insert_app_l by lia. rewrite take_app_le by (rewrite length_insert; lia). rewrite take_ge by (rewrite length_insert; lia).
  unfold half_byte_text. replace (2 * n)%nat with (2 * n - 1 + 1)%nat at 2 by lia. rewrite seq_app, fmap_app.
  rewrite insert_app_r_alt by (rewrite length_fmap, length_seq; lia).
  by rewrite length_fmap, length_seq, Nat.sub_diag.
Qed.

(** The request with these members. *)
Definition filled (p : Z) (o : OctetString) (n can : Z) (st : OctetString) (rat : Z) (dq : GxDefaultEpsBearerQos)
    (q : GxQosInformation) (subs : GxSubscriptionIdList) (eq : GxUserEquipmentInfo) (ccr : GxCCR) : GxCCR :=
  set_GxCCR_presence p (set_GxCCR_session_id o (set_GxCCR_cc_request_number n (set_GxCCR_ip_can_type can
  (set_GxCCR_called_station_id st (set_GxCCR_rat_type rat (set_GxCCR_default_eps_bearer_qos dq
  (set_GxCCR_qos_information q (set_GxCCR_subscription_id subs (set_GxCCR_user_equipment_info eq ccr))))))))).

Lemma filled_st bits v p o n can st rat dq q subs eq ccr :
  mark_ccr bits (set_GxCCR_called_station_id v (filled p o n can st rat dq q subs eq ccr)) = filled (foldl Z.setbit p bits) o n can v rat dq q subs eq ccr ∧
  (filled p o n can st rat dq q subs eq ccr).(GxCCR_called_station_id) = st.
Proof. by destruct ccr. Qed.
Lemma filled_rat (c : bool) bits v p o n can st rat dq q subs eq ccr :
  (if negb c then mark_ccr bits (set_GxCCR_rat_type v (filled p o n can st rat dq q subs eq ccr)) else filled p o n can st rat dq q subs eq ccr) =
    filled (foldl Z.setbit p (if c then [] else bits)) o n can st (if c then rat else v) dq q subs eq ccr ∧
  (filled p o n can st rat dq q subs eq ccr).(GxCCR_rat_type) = rat.
Proof. by destruct c, ccr. Qed.
Lemma filled_dq bits v p o n can st rat dq q subs eq ccr :
  mark_ccr bits (set_GxCCR_default_eps_bearer_qos v (filled p o n can st rat dq q subs eq ccr)) = filled (foldl Z.setbit p bits) o n can st rat v q subs eq ccr ∧
  (filled p o n can st rat dq q subs eq ccr).(GxCCR_default_eps_bearer_qos) = dq.
Proof. by destruct ccr. Qed.
Lemma filled_q bits v p o n can st rat dq q subs eq ccr :
  mark_ccr bits (set_GxCCR_qos_information v (filled p o n can st rat dq q subs eq ccr)) = filled (foldl Z.setbit p bits) o n can st rat dq v subs eq ccr ∧
  (filled p o n can st rat dq q subs eq ccr).(GxCCR_qos_information) = q.
Proof. by destruct ccr. Qed.
Lemma filled_subs bits v p o n can st rat dq q subs eq ccr :
  mark_ccr bits (set_GxCCR_subscription_id v (filled p o n can st rat dq q subs eq ccr)) = filled (foldl Z.setbit p bits) o n can st rat dq q v eq ccr ∧
  (filled p o n can st rat dq q subs eq ccr).(GxCCR_subscription_id) = subs.
Proof. by destruct ccr. Qed.
Lemma filled_eq (c : bool) bits v p o n can st rat dq q subs eq ccr :
  (if negb c then mark_ccr bits (set_GxCCR_user_equipment_info v (filled p o n can st rat dq q subs eq ccr)) else filled p o n can st rat dq q subs eq ccr) =
    filled (foldl Z.setbit p (if c then [] else bits)) o n can st rat dq q subs (if c then eq else v) ccr ∧
  (filled p o n can st rat dq q subs eq ccr).(GxCCR_user_equipment_info) = eq.
Proof. by destruct c, ccr. Qed.
Lemma number_form number o ccr : has_GxCCR_cc_request_type ccr = true -> known_type ccr.(GxCCR_cc_request_type) = true ->
  let ty := ccr.(GxCCR_cc_request_type) in
  ccr_number number (mark_ccr [0] (set_GxCCR_session_id o ccr)) =
    (0, filled (foldl Z.setbit ccr.(GxCCR_presence) ([0; 8] ++ if ty =? UPDATE_REQUEST then [] else [26])) o (request_number ty number)
          (if ty =? UPDATE_REQUEST then ccr.(GxCCR_ip_can_type) else TGPP_GPRS) ccr.(GxCCR_called_station_id) ccr.(GxCCR_rat_type)
          ccr.(GxCCR_default_eps_bearer_qos) ccr.(GxCCR_qos_information) ccr.(GxCCR_subscription_id)
          ccr.(GxCCR_user_equipment_info) ccr, next_number ty number).
Proof.
  intros Hh Hk ty.
  assert (has_GxCCR_cc_request_type (mark_ccr [0] (set_GxCCR_session_id o ccr)) = true) as Hh1.
  { revert Hh. unfold has_GxCCR_cc_request_type. destruct ccr. cbn -[Z.setbit Z.testbit]. by rewrite Z.setbit_eqb by lia. }
  assert (GxCCR_cc_request_type (mark_ccr [0] (set_GxCCR_session_id o ccr)) = ty) as Ety by (by destruct ccr).
  unfold ccr_number. rewrite Hh1, Ety. unfold request_number, next_number. fold ty in Hk. unfold known_type in Hk.
  clear Hh Hh1 Ety. clearbody ty.
  destruct (Z.eqb_spec ty INITIAL_REQUEST) as [E|Hi]; [rewrite E; by destruct ccr|].
  destruct (Z.eqb_spec ty UPDATE_REQUEST) as [E|Hu]; [by destruct ccr|].
  destruct (Z.eqb_spec ty TERMINATION_REQUEST) as [E|Ht]; [by destruct ccr|done].
Qed.
Lemma fill_ccr_form junk s ebi b bearer t number ccr o st q subs :
  array_at s.(context).(ue_bearers) ebi = Some (Some b) -> s.(h_bearers) !! b = Some bearer ->
  has_GxCCR_cc_request_type ccr = true -> known_type ccr.(GxCCR_cc_request_type) = true ->
  put_chars t ccr.(GxCCR_session_id) = Some o ->
  (if s.(pdn).(apn_len) =? 0 then Some ccr.(GxCCR_called_station_id)
   else name ← station_id s.(pdn).(apn); put_chars name ccr.(GxCCR_called_station_id)) = Some st ->
  fill_qos_info bearer s.(pdn) ccr.(GxCCR_qos_information) = Some q ->
  (if (s.(context).(imsi) =? 0) && (s.(context).(msisdn) =? 0) then Some ccr.(GxCCR_subscription_id)
   else fill_subscription_id junk s.(context).(imsi) s.(context).(msisdn) ccr.(GxCCR_subscription_id)) = Some subs ->
  let ty := ccr.(GxCCR_cc_request_type) in
  fill_ccr_request junk s ebi (Some t) number ccr =
    Some (0, filled (foldl Z.setbit ccr.(GxCCR_presence) (request_bits s ty)) o (request_number ty number)
               (if ty =? UPDATE_REQUEST then ccr.(GxCCR_ip_can_type) else TGPP_GPRS) st
               (if s.(context).(rat_type_len) =? 0 then ccr.(GxCCR_rat_type)
                else fill_rat_type_ie ccr.(GxCCR_rat_type) s.(context).(rat_type))
               (fill_default_eps_bearer_qos bearer ccr.(GxCCR_default_eps_bearer_qos)) q subs
               (if s.(context).(mei) =? 0 then ccr.(GxCCR_user_equipment_info)
                else fill_user_equipment_info s.(context).(mei) ccr.(GxCCR_user_equipment_info)) ccr,
          next_number ty number).
Proof.
  intros Hb Hbe Hh Hk Ho Hst Hq Hsubs ty. unfold fill_ccr_request. rewrite Hb. cbn [mbind option_bind].
  rewrite Hbe. cbn [mbind option_bind]. rewrite Ho. cbn [mbind option_bind]. rewrite (number_form number o ccr Hh Hk).
  change (0 <? 0) with false. cbv match. fold ty. set (bits1 := [0; 8] ++ _).
  rewrite (proj2 (filled_st [] (mk_OctetString 0 []) _ _ _ _ _ _ _ _ _ _ _)).
  match goal with |- (ccr3 ← ?e; _) = _ => assert (e = Some (filled
    (foldl Z.setbit ccr.(GxCCR_presence) (bits1 ++ (if s.(pdn).(apn_len) =? 0 then [] else [54]))) o (request_number ty number)
    (if ty =? UPDATE_REQUEST then ccr.(GxCCR_ip_can_type) else TGPP_GPRS) st ccr.(GxCCR_rat_type)
    ccr.(GxCCR_default_eps_bearer_qos) ccr.(GxCCR_qos_information) ccr.(GxCCR_subscription_id)
    ccr.(GxCCR_user_equipment_info) ccr)) as -> end.
  { destruct (apn_len (pdn s) =? 0); cbn [negb]; [injection Hst as <-; by rewrite app_nil_r|].
    destruct (station_id _) as [name|]; [|done]. cbn [mbind option_bind] in Hst |- *. rewrite Hst. cbn [mbind option_bind].
    rewrite (proj1 (filled_st _ _ _ _ _ _ _ _ _ _ _ _ _)). by rewrite foldl_app. }
  cbn [mbind option_bind]. rewrite (proj2 (filled_rat true [] 0 _ _ _ _ _ _ _ _ _ _ _)).
  rewrite (proj1 (filled_rat _ _ _ _ _ _ _ _ _ _ _ _ _ _)). cbv zeta.
  rewrite (proj2 (filled_dq [] zero_GxDefaultEpsBearerQos _ _ _ _ _ _ _ _ _ _ _)).
  rewrite (proj1 (filled_dq _ _ _ _ _ _ _ _ _ _ _ _ _)).
  rewrite (proj2 (filled_q [] zero_GxQosInformation _ _ _ _ _ _ _ _ _ _ _)), Hq. cbn [mbind option_bind].
  rewrite (proj1 (filled_q _ _ _ _ _ _ _ _ _ _ _ _ _)), (proj2 (filled_subs [] zero_list _ _ _ _ _ _ _ _ _ _ _)).
  rewrite <- negb_andb.
  match goal with |- (ccr6 ← ?e; _) = _ => assert (e = Some (filled
    (foldl Z.setbit ccr.(GxCCR_presence) (bits1 ++ (if s.(pdn).(apn_len) =? 0 then [] else [54])
      ++ (if s.(context).(rat_type_len) =? 0 then [] else [29]) ++ [35; 32]
      ++ (if (s.(context).(imsi) =? 0) && (s.(context).(msisdn) =? 0) then [] else [12])))
    o (request_number ty number) (if ty =? UPDATE_REQUEST then ccr.(GxCCR_ip_can_type) else TGPP_GPRS) st
    (if s.(context).(rat_type_len) =? 0 then ccr.(GxCCR_rat_type)
     else fill_rat_type_ie ccr.(GxCCR_rat_type) s.(context).(rat_type))
    (fill_default_eps_bearer_qos bearer ccr.(GxCCR_default_eps_bearer_qos)) q subs ccr.(GxCCR_user_equipment_info) ccr)) as -> end.
  { rewrite !foldl_app. destruct (_ && _); cbn [negb]; [by injection Hsubs as <-|]. rewrite Hsubs. cbn [mbind option_bind].
    by rewrite (proj1 (filled_subs _ _ _ _ _ _ _ _ _ _ _ _ _)). }
  cbn [mbind option_bind]. rewrite (proj2 (filled_eq true [] zero_GxUserEquipmentInfo _ _ _ _ _ _ _ _ _ _ _)).
  rewrite (proj1 (filled_eq _ _ _ _ _ _ _ _ _ _ _ _ _ _)), <- foldl_app. unfold request_bits, bits1. by rewrite <- !app_assoc.
Qed.

Lemma radio_access_ok rat v : fill_rat_type_ie v rat = default v (radio_access !! rat).
Proof.
  unfold fill_rat_type_ie. repeat match goal with |- context [rat =? ?k] =>
    destruct (Z.eqb_spec rat k) as [E|?]; [by rewrite E|] end.
  unfold radio_access. rewrite not_elem_of_list_to_map_1; [done|]. cbn. rewrite !not_elem_of_cons.
  split_and!; try done. apply not_elem_of_nil.
Qed.
Lemma default_quality_filled bearer q : default_quality_is bearer.(qos) q (fill_default_eps_bearer_qos bearer q).
Proof.
  unfold default_quality_is, fill_default_eps_bearer_qos. destruct q as [p ci [ap a1 a2 a3]].
  destruct (standard_qci _); cbn -[Z.setbit]; split_and!; try done;
    first [apply (marked_bits [0; 1])|apply (marked_bits [1])|apply (marked_bits [0; 1; 2])]; repeat constructor; lia.
Qed.
Lemma rates_filled bearer d q : 0 < bearer.(eps_bearer_id) < 256 ->
  ∃ q', fill_qos_info bearer d q = Some q' ∧ rates_are_sent bearer d q q'.
Proof.
  intros Hid. unfold fill_qos_info. rewrite small_id_text by done. cbn [mbind option_bind]. eexists. split; [reflexivity|].
  unfold rates_are_sent. destruct q. cbn -[Z.setbit]. split_and!; try done.
  - eapply (marked_iff [9; 11; 12; 1; 2; 5; 6]); [|apply (marked_bits [9; 11; 12; 1; 2; 5; 6]); repeat constructor; lia].
    intros k. rewrite !elem_of_cons. tauto.
  - split; [done|]. cbn [os_val]. apply take_app_length.
Qed.
Lemma subscriber_filled imsi msisdn junk l :
  ∃ l', (if (imsi =? 0) && (msisdn =? 0) then Some l else fill_subscription_id junk imsi msisdn l) = Some l' ∧
    subscriber_is imsi msisdn junk l l'.
Proof.
  unfold subscriber_is, fill_subscription_id.
  destruct (imsi =? 0); [destruct (msisdn =? 0)|]; cbn [andb negb]; [by exists l| |].
  - destruct (subscription_text END_USER_E164 STR_MSISDN_LEN 6 msisdn junk ltac:(lia)) as (x & E & Hm & Ht & Hl & Hv).
    assert (subscription END_USER_E164 STR_MSISDN_LEN (le_bytes 8 msisdn) BINARY_MSISDN_LEN STR_MSISDN_LEN junk = Some x) as -> by exact E.
    eexists. split; [reflexivity|]. exists x. split_and!; try done.
  - destruct (subscription_text END_USER_IMSI (STR_IMSI_LEN - 1) 8 imsi junk ltac:(lia)) as (x & E & Hm & Ht & Hl & Hv).
    assert (subscription END_USER_IMSI (STR_IMSI_LEN - 1) (le_bytes 8 imsi) BINARY_IMSI_LEN STR_IMSI_LEN junk = Some x) as -> by exact E.
    eexists. split; [reflexivity|]. exists x. split_and!; try done. split; [done|].
    change (length (half_byte_text 15 imsi)) with 15%nat.
    rewrite <- (take_app_length (half_byte_text 15 imsi) [0]). change (length (half_byte_text 15 imsi)) with 15%nat.
    change (2 * 8 - 1)%nat with 15%nat in Hv. rewrite <- Hv, take_take. done.
Qed.
Lemma equipment_filled mei x :
  equipment_is mei x (if mei =? 0 then x else fill_user_equipment_info mei x).
Proof.
  unfold equipment_is, fill_user_equipment_info. destruct (mei =? 0); [done|].
  split; [apply (marked_bits [0; 1]); repeat constructor; lia|]. split; [done|].
  split; [by rewrite length_le_bytes|]. apply take_app_length.
Qed.
Lemma network_filled d ls o : network_of d ls ->
  ∃ st, (if d.(apn_len) =? 0 then Some o else name ← station_id d.(apn); put_chars name o) = Some st ∧
    match ls with [] => st = o | _ => text_is (sent_name ls) st end.
Proof.
  intros Hn. destruct ls as [|l ls]; cbn [network_of] in Hn.
  - rewrite Hn. by exists o.
  - destruct Hn as (Hne & HF & Hl & rest & ->). rewrite (proj2 (Z.eqb_neq _ _) Hne), station_id_form by done.
    cbn [mbind option_bind]. apply put_chars_fits. pose proof (sent_name_short (l :: ls) HF). unfold MAX_APN_LEN in Hl. lia.
Qed.

(** C33: A Credit-Control-Request of a known type is filled, whatever the structure held.  It
    carries, with the presence bits that go with them, the session id of the connection, the
    number 0 if it is an initial request and otherwise the next value of a counter, the type
    of the access, the name of the network, the radio access, the quality of the default
    bearer, its number and its rates, the subscriber by the IMSI or else by the telephone
    number, and the equipment, each only if the session has it; every other member stays as
    it was.  The session has the bearer, with an id of one byte, a name of the network that
    is empty or made of labels that fit its array, and a session id of at most 256 bytes. *)
Theorem ccr_request_filled junk s ebi bearer t ls number ccr :
  request_ok s ebi bearer t ls -> has_GxCCR_cc_request_type ccr = true -> known_type ccr.(GxCCR_cc_request_type) = true ->
  ∃ ccr', fill_ccr_request junk s ebi (Some t) number ccr =
      Some (0, ccr', next_number ccr.(GxCCR_cc_request_type) number) ∧
    request_says junk s bearer t ls number ccr ccr'.
Proof.
  intros [(b & Hb & Hbe) Hid Hname Ht] Hh Hk.
  destruct (put_chars_fits t ccr.(GxCCR_session_id) Ht) as (o & Ho & Hot).
  destruct (network_filled s.(pdn) ls ccr.(GxCCR_called_station_id) Hname) as (st & Est & Hst).
  destruct (rates_filled bearer s.(pdn) ccr.(GxCCR_qos_information) Hid) as (q & Eq & Hq).
  destruct (subscriber_filled s.(context).(imsi) s.(context).(msisdn) junk ccr.(GxCCR_subscription_id)) as (subs & Es & Hs).
  eexists. split; [by eapply fill_ccr_form|]. pose proof (default_quality_filled bearer ccr.(GxCCR_default_eps_bearer_qos)) as Hd.
  pose proof (equipment_filled s.(context).(mei) ccr.(GxCCR_user_equipment_info)) as He.
  rewrite radio_access_ok. constructor; try (destruct ccr; done).
  replace (GxCCR_presence (filled _ _ _ _ _ _ _ _ _ _ _)) with
    (foldl Z.setbit ccr.(GxCCR_presence) (request_bits s ccr.(GxCCR_cc_request_type))) by (by destruct ccr).
  apply marked_bits. unfold request_bits.
  repeat (apply Forall_app_2 || match goal with |- Forall _ (if ?c then _ else _) => destruct c end); repeat constructor; lia.
Qed.
(** The connection of a subscriber that asks for a network of one label. *)
Definition sample_network : session :=
  let s := sample_session SAEGWC [] in
  let d := s.(pdn) in
  set_ses_pdn (mk_pdn d.(bearer_control_mode) d.(call_id) (resize 64 0 (labels_apn [str_bytes "internet"])) 9
    d.(apn_ambr_ul) d.(apn_ambr_dl) d.(seid) d.(dp_seid) d.(pdn_ipv4) d.(s5s8_pgw_gtpc_teid) d.(pdn_type_ipv4)
    d.(pdn_type_ipv6) d.(default_bearer_id) d.(num_bearer) d.(eps_bearers) d.(default_bearer_qos_valid)
    d.(default_bearer_qos) d.(pending_pcc_rules) d.(pdn_flags)) s.
Definition request_ccr (ty : Z) : GxCCR := set_GxCCR_presence 128 (set_GxCCR_cc_request_type ty zero_GxCCR).
Lemma ccr_request_filled_witness :
  ∃ ccr', fill_ccr_request (mk_GxSubscriptionId 0 0 (mk_OctetString 0 [])) sample_network 0 (Some (str_bytes "202001011200007")) 4
            (request_ccr TERMINATION_REQUEST) = Some (0, ccr', 5) ∧
    request_says (mk_GxSubscriptionId 0 0 (mk_OctetString 0 [])) sample_network sample_bearer (str_bytes "202001011200007")
      [str_bytes "internet"] 4 (request_ccr TERMINATION_REQUEST) ccr'.
Proof.
  apply (ccr_request_filled (mk_GxSubscriptionId 0 0 (mk_OctetString 0 [])) sample_network 0 sample_bearer
    (str_bytes "202001011200007") [str_bytes "internet"] 4 (request_ccr TERMINATION_REQUEST)).
  - split.
    + exists 1%positive. split; reflexivity.
    + vm_compute. split; reflexivity.
    + cbn [network_of]. split; [vm_compute; discriminate|]. split.
      { constructor; [|constructor]. split; [discriminate|]. apply (bool_decide_unpack _). vm_compute. exact I. }
      split; [vm_compute; lia|]. exists (repeat 0 54). vm_compute. reflexivity.
    + vm_compute. lia.
  - vm_compute. reflexivity.
  - vm_compute. reflexivity.
Defined.

(** A request of another type is not filled. *)
Theorem ccr_type_unknown junk s ebi bearer sess_id number ccr :
  (∃ b, array_at s.(context).(ue_bearers) ebi = Some (Some b) ∧ s.(h_bearers) !! b = Some bearer) ->
  sess_id = None -> has_GxCCR_cc_request_type ccr = true -> known_type ccr.(GxCCR_cc_request_type) = false ->
  fill_ccr_request junk s ebi sess_id number ccr = Some (-1, ccr, number).
Proof.
  intros (b & Hb & Hbe) -> Hh Hk. unfold fill_ccr_request. rewrite Hb. cbn [mbind option_bind]. rewrite Hbe.
  cbn [mbind option_bind]. unfold ccr_number. rewrite Hh. unfold known_type in Hk.
  destruct (_ =? INITIAL_REQUEST), (_ =? UPDATE_REQUEST), (_ =? TERMINATION_REQUEST); done.
Qed.
