(* ===== verification/GtpTxBuf.v ===== *)
(** * GTPv2 messages built in the transmission buffer

    The functions of src/cp/gtpv2/common/gtpv2_set_ie.c that put elements behind each
    other into a buffer that starts with the header of the message, and the walk over the
    elements of a buffer (src/cp/gtpv2/common/gtpv2_ie_parsing.h).  A pointer into the
    buffer is its offset.  [None] is a failed assertion or an access outside the buffer.

    The abstract view of the buffer is the list of the elements of the message: every
    setter appends one element, and the walk gives back the elements that were set. *)

From S2P Require Import Prelude EncDecBits PfcpIesOptional PfcpSetIe GtpMsgs PfcpSession.

(** ** The buffer *)

Definition txM (A : Type) : Type := list Z -> option (A * list Z).
#[global] Instance txM_ret : MRet txM := fun A x b => Some (x, b).
#[global] Instance txM_bind : MBind txM := fun A B f m b => '(x, b') ← m b; f x b'.

(** Bytes stored from offset [p], and read from it. *)
Definition put_bytes (p : Z) (v : list Z) : txM unit := fun b =>
  if (0 <=? p) && (p + Z.of_nat (length v) <=? Z.of_nat (length b)) then
    Some (tt, take (Z.to_nat p) b ++ v ++ drop (Z.to_nat p + length v) b)
  else None.
Definition get_bytes (p : Z) (n : nat) : txM (list Z) := fun b =>
  if (0 <=? p) && (p + Z.of_nat n <=? Z.of_nat (length b)) then Some (take n (drop (Z.to_nat p) b), b) else None.
(** Some bits of the byte at [p] change. *)
Definition change_byte (p : Z) (f : Z -> Z) : txM unit := v ← get_bytes p 1; put_bytes p (map f v).
Definition assert_tx (c : bool) : txM unit := fun b => if c then Some (tt, b) else None.

(** A 16-bit number in network order. *)
Definition be16 (v : Z) : list Z := [u8 (v / 256); u8 v].
Definition of_be16 (l : list Z) : Z := match l with [h; l] => 256 * u8 h + u8 l | _ => 0 end.
Definition get_be16 (p : Z) : txM Z := v ← get_bytes p 2; mret (of_be16 v).

(** ** Constants and sizes *)

Definition MAX_GTPV2C_UDP_LEN : Z := 4096.
Definition MAX_GTPV2C_LENGTH : Z := MAX_GTPV2C_UDP_LEN - 12.
Definition sizeof_gtpc : Z := 4.
Definition sizeof_has_teid : Z := 8.
Definition sizeof_no_teid : Z := 4.
Definition sizeof_gtpv2c_ie : Z := 4.
Definition GTP_VERSION_GTPV2C : Z := 2.
Definition GTPV2C_CAUSE_REQUEST_ACCEPTED : Z := 16.

(** ** The header *)

(** [message_len] is at offset 2 and counts from the union [teid] at offset 4. *)
Definition message_len : txM Z := get_be16 2.

Definition set_gtpv2c_header_buf (teid_flag type has_teid seq : Z) : txM unit :=
  _ ← put_bytes 0 [u8 (32 * GTP_VERSION_GTPV2C + 8 * uwrap 1 teid_flag); u8 type];
  _ ← (if nz teid_flag then _ ← put_bytes 4 (le_bytes 4 has_teid); put_bytes 8 (le_bytes 3 seq)
       else put_bytes 4 (le_bytes 3 seq));
  put_bytes 2 (be16 (if nz teid_flag then sizeof_has_teid else sizeof_no_teid)).
Definition set_gtpv2c_teid_header_buf (type teid seq : Z) : txM unit := set_gtpv2c_header_buf 1 type teid seq.

(** ** One element *)

Definition set_next_ie (type instance length : Z) : txM Z :=
  len ← message_len;
  let ie := sizeof_gtpc + len in
  _ ← assert_tx (negb (MAX_GTPV2C_LENGTH <? len + length + sizeof_gtpv2c_ie));
  _ ← put_bytes 2 (be16 (len + length + sizeof_gtpv2c_ie));
  _ ← put_bytes ie (u8 type :: be16 length ++ [uwrap 4 instance]);
  mret ie.
Definition get_ie_return (ie : Z) : txM Z := len ← get_be16 (ie + 1); mret (u16 (sizeof_gtpv2c_ie + len)).

Definition set_uint8_ie (type instance value : Z) : txM Z :=
  ie ← set_next_ie type instance 1;
  _ ← put_bytes (ie + sizeof_gtpv2c_ie) [u8 value];
  get_ie_return ie.
(** The value is a [uint8_t]. *)
Definition set_uint32_ie (type instance value : Z) : txM Z :=
  ie ← set_next_ie type instance 4;
  _ ← put_bytes (ie + sizeof_gtpv2c_ie) (le_bytes 4 (u8 value));
  get_ie_return ie.

(** [src_ie] are the bytes from the element on. *)
Definition set_ie_copy (src_ie : list Z) : txM Z :=
  match src_ie with
  | type :: h :: l :: instance :: data =>
      let len := of_be16 [h; l] in
      ie ← set_next_ie type (uwrap 4 instance) len;
      _ ← assert_tx (len <=? Z.of_nat (length data));
      _ ← put_bytes (ie + sizeof_gtpv2c_ie) (take (Z.to_nat len) data);
      get_ie_return ie
  | _ => fun _ => None
  end.

(** The spare bits of the second byte stay as they are in the buffer, and the last
    assignment goes to a member that the element does not have. *)
Definition set_cause_accepted_ie (instance : Z) : txM Z :=
  ie ← set_next_ie GTP_IE_CAUSE instance 2;
  let cause := ie + sizeof_gtpv2c_ie in
  _ ← put_bytes cause [GTPV2C_CAUSE_REQUEST_ACCEPTED];
  _ ← change_byte (cause + 1) (fun v => Z.land v 248);
  _ ← change_byte (cause + 5) (fun v => Z.land v 15);
  get_ie_return ie.

Definition arp_byte (q : bearer_qos_ie) : Z :=
  uwrap 1 q.(preemption_vulnerability) + 4 * uwrap 4 q.(priority_level) + 64 * uwrap 1 q.(preemption_capability).
Definition set_ar_priority_ie (instance : Z) (bearer : eps_bearer_t) : txM Z :=
  ie ← set_next_ie GTP_IE_ALLOC_RETEN_PRIORITY instance 1;
  _ ← put_bytes (ie + sizeof_gtpv2c_ie) [arp_byte bearer.(qos)];
  get_ie_return ie.

Definition set_ipv4_fteid_ie (interface instance ipv4 teid : Z) : txM Z :=
  ie ← set_next_ie GTP_IE_FULLY_QUAL_TUNN_ENDPT_IDNT instance (5 + 4);
  _ ← put_bytes (ie + sizeof_gtpv2c_ie) ((128 + uwrap 6 interface) :: le_bytes 4 teid ++ le_bytes 4 ipv4);
  get_ie_return ie.

Definition set_ipv4_paa_ie (instance ipv4 : Z) : txM Z :=
  ie ← set_next_ie GTP_IE_PDN_ADDR_ALLOC instance (1 + 4);
  _ ← put_bytes (ie + sizeof_gtpv2c_ie) (PDN_IP_TYPE_IPV4 :: le_bytes 4 ipv4);
  get_ie_return ie.
Definition get_ipv4_paa_ipv4 (ie : Z) : txM Z :=
  _ ← put_bytes (ie + sizeof_gtpv2c_ie) [PDN_IP_TYPE_IPV4];
  v ← get_bytes (ie + sizeof_gtpv2c_ie + 1) 4;
  mret (of_le_bytes v).

Definition set_apn_restriction_ie (instance apn_restriction : Z) : txM Z :=
  set_uint8_ie GTP_IE_APN_RESTRICTION instance apn_restriction.
Definition set_ebi_ie (instance ebi : Z) : txM Z := set_uint8_ie GTP_IE_EPS_BEARER_ID instance ebi.
Definition set_pti_ie (instance pti : Z) : txM Z := set_uint8_ie GTP_IE_PROC_TRANS_ID instance pti.
Definition set_charging_id_ie (instance charging_id : Z) : txM Z :=
  set_uint32_ie GTP_IE_PROC_TRANS_ID instance charging_id.
Definition set_recovery_ie (rstCnt instance : Z) : txM Z := set_uint8_ie GTP_IE_RECOVERY instance rstCnt.

(** The structure [bearer_qos_ie] in memory. *)
Definition qos_bytes (q : bearer_qos_ie) : list Z :=
  [u8 q.(qci)] ++ le_bytes 8 q.(ul_mbr) ++ le_bytes 8 q.(dl_mbr) ++ le_bytes 8 q.(ul_gbr) ++ le_bytes 8 q.(dl_gbr) ++
  [arp_byte q].
Definition sizeof_bearer_qos_ie : Z := 34.
Definition set_bearer_qos_ie (instance : Z) (bearer : eps_bearer_t) : txM Z :=
  ie ← set_next_ie GTP_IE_BEARER_QLTY_OF_SVC instance (sizeof_bearer_qos_ie - 12);
  _ ← put_bytes (ie + sizeof_gtpv2c_ie) (qos_bytes bearer.(qos));
  get_ie_return ie.

(** The name with its final zero, as far as 256 bytes go. *)
Definition set_fqdn_ie (fqdn : list Z) : txM unit :=
  ie ← set_next_ie GTP_IE_FULLY_QUAL_DOMAIN_NAME GTP_IE_INSTANCE_ZERO (Z.of_nat (Nat.min (length fqdn) 256));
  put_bytes (ie + sizeof_gtpv2c_ie) (take (Nat.min (length fqdn) 255 + 1) (fqdn ++ [0])).

(** ** Groups *)

Definition create_bearer_context_ie (instance : Z) : txM Z := set_next_ie GTP_IE_BEARER_CONTEXT instance 0.
Definition add_grouped_ie_length (group_ie grouped_ie_length : Z) : txM unit :=
  len ← get_be16 (group_ie + 1);
  put_bytes (group_ie + 1) (be16 (len + grouped_ie_length)).

(** ** The walk *)

(** [NEXT_IE]. *)
Definition NEXT_IE (ie : Z) : txM Z := len ← get_be16 (ie + 1); mret (ie + sizeof_gtpv2c_ie + len).
Definition IE_BEGIN : txM Z :=
  v ← get_bytes 0 1;
  mret (sizeof_gtpc + (if Z.testbit (byteat v 0) 3 then sizeof_has_teid else sizeof_no_teid)).
Definition GTPV2C_IE_LIMIT : txM Z := len ← message_len; mret (sizeof_gtpc + len).
Definition get_first_ie : txM (option Z) :=
  first_ie ← IE_BEGIN;
  next ← NEXT_IE first_ie;
  limit ← GTPV2C_IE_LIMIT;
  mret (if next <=? limit then Some first_ie else None).
Definition get_next_ie (ie limit : Z) : txM (option Z) :=
  first_ie ← NEXT_IE ie;
  next ← NEXT_IE first_ie;
  mret (if next <=? limit then Some first_ie else None).

(** [FOR_EACH_GTPV2C_IE]: the offsets of the elements that the loop visits. *)
Fixpoint ies_from (fuel : nat) (limit : Z) (o : option Z) : txM (list Z) :=
  match fuel with
  | O => fun _ => None
  | S fuel' =>
      match o with
      | None => mret []
      | Some ie => next ← get_next_ie ie limit; rest ← ies_from fuel' limit next; mret (ie :: rest)
      end
  end.
Definition FOR_EACH_GTPV2C_IE : txM (list Z) :=
  first ← get_first_ie;
  limit ← GTPV2C_IE_LIMIT;
  ies_from (S (Z.to_nat MAX_GTPV2C_UDP_LEN)) limit first.

(** ** The elements of a message *)

(** Type, instance and content. *)
Record tx_ie := mk_tx_ie { tx_type : Z; tx_instance : Z; tx_data : list Z }.
Definition tx_size (e : tx_ie) : Z := sizeof_gtpv2c_ie + Z.of_nat (length e.(tx_data)).
Definition tx_bytes (e : tx_ie) : list Z :=
  e.(tx_type) :: be16 (Z.of_nat (length e.(tx_data))) ++ [e.(tx_instance)] ++ e.(tx_data).
Definition tx_ok (e : tx_ie) : Prop :=
  0 <= e.(tx_type) < 256 ∧ 0 <= e.(tx_instance) < 16 ∧ Z.of_nat (length e.(tx_data)) < 65536.
Definition tx_total (els : list tx_ie) : Z := foldr (fun e n => tx_size e + n) 0 els.
Definition tx_body (els : list tx_ie) : list Z := concat (map tx_bytes els).

(** A buffer that holds a message: the flags, the type, the length, the rest of the header
    ([rest]), the elements, and what follows ([tail]). *)
Definition tx_msg (flags type : Z) (rest : list Z) (els : list tx_ie) (tail : list Z) : list Z :=
  [flags; type] ++ be16 (Z.of_nat (length rest) + tx_total els) ++ rest ++ tx_body els ++ tail.

(** The element at an offset, as the users of the walk read it. *)
Definition ie_at (ie : Z) : txM tx_ie :=
  t ← get_bytes ie 1; len ← get_be16 (ie + 1); i ← get_bytes (ie + 3) 1;
  d ← get_bytes (ie + sizeof_gtpv2c_ie) (Z.to_nat len);
  mret (mk_tx_ie (byteat t 0) (uwrap 4 (byteat i 0)) d).
Fixpoint ies_at (l : list Z) : txM (list tx_ie) :=
  match l with [] => mret [] | ie :: l' => e ← ie_at ie; es ← ies_at l'; mret (e :: es) end.
Definition message_elements : txM (list tx_ie) := l ← FOR_EACH_GTPV2C_IE; ies_at l.

(** ** Lemmas on the buffer *)

Lemma put_bytes_app p v a tail : p = Z.of_nat (length a) -> (length v <= length tail)%nat ->
  put_bytes p v (a ++ tail) = Some (tt, a ++ v ++ drop (length v) tail).
Proof.
  intros -> Hl. unfold put_bytes. rewrite length_app, (proj2 (Z.leb_le 0 _)), (proj2 (Z.leb_le _ (Z.of_nat (_ + _)))) by lia.
  cbn [andb]. rewrite Nat2Z.id, take_app_length, drop_app_add. done.
Qed.
Lemma get_bytes_app p n a tail : p = Z.of_nat (length a) -> (n <= length tail)%nat ->
  get_bytes p n (a ++ tail) = Some (take n tail, a ++ tail).
Proof.
  intros -> Hl. unfold get_bytes. rewrite length_app, (proj2 (Z.leb_le 0 _)), (proj2 (Z.leb_le _ (Z.of_nat (_ + _)))) by lia.
  cbn [andb]. rewrite Nat2Z.id, drop_app_length. done.
Qed.
Lemma tx_mbind {A B} (m : txM A) (f : A -> txM B) b x b' : m b = Some (x, b') -> mbind f m b = f x b'.
Proof. intros E. unfold mbind, txM_bind. by rewrite E. Qed.

Lemma of_be16_be16 v : 0 <= v < 65536 -> of_be16 (be16 v) = v.
Proof.
  intros Hv. unfold be16, of_be16. rewrite !(uwrap_small 8 (u8 _)) by (apply (uwrap_range 8); lia).
  unfold uwrap. change (2 ^ 8) with 256. Z.div_mod_to_equations. lia.
Qed.
Lemma of_be16_nonneg l : 0 <= of_be16 l.
Proof.
  destruct l as [|h [|l [|? ?]]]; cbn [of_be16]; try lia.
  pose proof (uwrap_range 8 h ltac:(lia)). pose proof (uwrap_range 8 l ltac:(lia)). lia.
Qed.
Lemma get_be16_app p v a tail : p = Z.of_nat (length a) -> 0 <= v < 65536 ->
  get_be16 p (a ++ be16 v ++ tail) = Some (v, a ++ be16 v ++ tail).
Proof.
  intros Hp Hv. unfold get_be16. erewrite tx_mbind by (apply get_bytes_app; [exact Hp|cbn; lia]).
  change (take 2 (be16 v ++ tail)) with (be16 v). by rewrite of_be16_be16.
Qed.

Lemma length_tx_bytes e : Z.of_nat (length (tx_bytes e)) = tx_size e.
Proof. unfold tx_bytes, tx_size, sizeof_gtpv2c_ie. cbn [length app be16]. lia. Qed.
Lemma tx_total_app a b : tx_total (a ++ b) = tx_total a + tx_total b.
Proof. unfold tx_total. induction a as [|e a IH]; [done|]. cbn [app foldr]. rewrite IH. lia. Qed.
Lemma tx_body_app a b : tx_body (a ++ b) = tx_body a ++ tx_body b.
Proof. unfold tx_body. by rewrite map_app, concat_app. Qed.
Lemma length_tx_body els : Z.of_nat (length (tx_body els)) = tx_total els.
Proof.
  unfold tx_body, tx_total. induction els as [|e els IH]; [done|]. cbn [map concat foldr].
  rewrite length_app, Nat2Z.inj_add, length_tx_bytes. lia.
Qed.
Lemma tx_total_nonneg els : 0 <= tx_total els.
Proof. rewrite <- length_tx_body. lia. Qed.
Lemma tx_size_pos e : 4 <= tx_size e.
Proof. unfold tx_size, sizeof_gtpv2c_ie. lia. Qed.
Lemma tx_total_one e : tx_total [e] = tx_size e.
Proof. cbn. lia. Qed.

Ltac txlen := do 3 (rewrite ?length_app; cbn [length app be16]); lia.

Ltac txapp := do 4 (rewrite <- ?app_assoc; cbn [app]).

(** A message with one more element. *)
Lemma tx_msg_snoc f ty rest els e tail :
  tx_msg f ty rest (els ++ [e]) tail =
  [f; ty] ++ be16 (Z.of_nat (length rest) + tx_total els + tx_size e) ++ (rest ++ tx_body els) ++ tx_bytes e ++ tail.
Proof.
  unfold tx_msg. rewrite tx_total_app, tx_total_one, tx_body_app, Z.add_assoc. unfold tx_body. cbn [map concat].
  by rewrite app_nil_r, <- !app_assoc.
Qed.

Lemma message_len_msg f ty rest els tail : Z.of_nat (length rest) + tx_total els < 65536 ->
  message_len (tx_msg f ty rest els tail) = Some (Z.of_nat (length rest) + tx_total els, tx_msg f ty rest els tail).
Proof. intros H. pose proof (tx_total_nonneg els). apply (get_be16_app 2 _ [f; ty]); [done|lia]. Qed.

Lemma set_next_ie_msg type inst len f ty rest els tail :
  let n := Z.of_nat (length rest) + tx_total els in
  0 <= len -> n + len + 4 <= MAX_GTPV2C_LENGTH -> (4 <= length tail)%nat ->
  set_next_ie type inst len (tx_msg f ty rest els tail) =
  Some (4 + n, [f; ty] ++ be16 (n + (4 + len)) ++ (rest ++ tx_body els) ++
          (u8 type :: be16 len ++ [uwrap 4 inst]) ++ drop 4 tail).
Proof.
  intros n Hlen Hm Ht. unfold MAX_GTPV2C_LENGTH, MAX_GTPV2C_UDP_LEN in Hm. pose proof (tx_total_nonneg els).
  unfold set_next_ie. erewrite tx_mbind by (apply message_len_msg; lia). fold n. unfold sizeof_gtpc, sizeof_gtpv2c_ie.
  unfold assert_tx at 1, MAX_GTPV2C_LENGTH, MAX_GTPV2C_UDP_LEN. rewrite (proj2 (Z.ltb_ge (4096 - 12) (n + len + 4))) by lia.
  cbn [negb]. erewrite tx_mbind by reflexivity.
  erewrite tx_mbind by (apply (put_bytes_app 2 _ [f; ty]); cbn; [done|lia]).
  rewrite (app_assoc rest (tx_body els) tail), app_assoc.
  set (a := [f; ty] ++ be16 (n + len + 4)).
  assert (Ha : length a = 4%nat) by done.
  change (drop (length (be16 (n + len + 4))) (be16 (Z.of_nat (length rest) + tx_total els) ++ (rest ++ tx_body els) ++ tail))
    with ((rest ++ tx_body els) ++ tail).
  rewrite (app_assoc a).
  erewrite tx_mbind. 2:{ apply put_bytes_app; [|cbn; lia]. rewrite !length_app, Ha, !Nat2Z.inj_add, length_tx_body. lia. }
  unfold a. rewrite <- !app_assoc. unfold mret, txM_ret.
  by replace (n + (4 + len)) with (n + len + 4) by lia.
Qed.

(** ** Setting an element appends it *)

(** [m] puts the element [E tail] behind the others and returns its size; it needs [room]
    bytes behind the message. *)
Definition appends (m : txM Z) (room : nat) (E : list Z -> tx_ie) : Prop :=
  ∀ f ty rest els tail,
    Z.of_nat (length rest) + tx_total els + tx_size (E tail) <= MAX_GTPV2C_LENGTH -> (room <= length tail)%nat ->
    ∃ tail', m (tx_msg f ty rest els tail) = Some (tx_size (E tail), tx_msg f ty rest (els ++ [E tail]) tail') ∧
      Z.of_nat (length tail') + tx_size (E tail) = Z.of_nat (length tail).

Lemma get_ie_return_msg f ty rest els e tail ie : ie = 4 + Z.of_nat (length rest) + tx_total els ->
  tx_size e <= MAX_GTPV2C_LENGTH ->
  get_ie_return ie (tx_msg f ty rest (els ++ [e]) tail) = Some (tx_size e, tx_msg f ty rest (els ++ [e]) tail).
Proof.
  intros -> Hs. unfold MAX_GTPV2C_LENGTH, MAX_GTPV2C_UDP_LEN in Hs. pose proof (tx_size_pos e). pose proof (length_tx_body els).
  rewrite tx_msg_snoc. unfold tx_size in *. unfold tx_bytes, get_ie_return, sizeof_gtpv2c_ie in *.
  set (k := Z.of_nat (length (tx_data e))) in *. set (n := Z.of_nat (length rest) + tx_total els + (4 + k)).
  set (a := [f; ty] ++ be16 n ++ (rest ++ tx_body els) ++ [tx_type e]).
  replace ([f; ty] ++ be16 n ++ (rest ++ tx_body els) ++ (tx_type e :: be16 k ++ [tx_instance e] ++ tx_data e) ++ tail)
    with (a ++ be16 k ++ ([tx_instance e] ++ tx_data e) ++ tail)
    by (unfold a; rewrite <- !app_assoc; cbn [app]; rewrite <- !app_assoc; done).
  erewrite tx_mbind. 2:{ apply get_be16_app; [unfold a; rewrite !length_app; cbn; lia|lia]. }
  unfold mret, txM_ret. by rewrite uwrap_small by lia.
Qed.

Lemma appends_fill type inst len d :
  0 <= type < 256 -> 0 <= inst < 16 -> (len <= length d)%nat ->
  appends (ie ← set_next_ie type inst (Z.of_nat len); _ ← put_bytes (ie + sizeof_gtpv2c_ie) d; get_ie_return ie)
    (4 + length d) (fun _ => mk_tx_ie type inst (take len d)).
Proof.
  intros Ht Hi Hd f ty rest els tail Hm Hroom. set (e := mk_tx_ie type inst (take len d)) in *.
  assert (Hk : length (tx_data e) = len) by (cbn; rewrite length_take; lia).
  assert (Hsz : tx_size e = 4 + Z.of_nat len) by (unfold tx_size, sizeof_gtpv2c_ie; rewrite Hk; done).
  exists (drop len d ++ drop (length d) (drop 4 tail)).
  pose proof (length_tx_body els). split.
  - erewrite tx_mbind by (apply set_next_ie_msg; lia). rewrite !app_assoc.
    erewrite tx_mbind. 2:{ apply put_bytes_app; [|rewrite length_drop; lia].
      unfold sizeof_gtpv2c_ie. txlen. }
    pose proof (get_ie_return_msg f ty rest els e (drop len d ++ drop (length d) (drop 4 tail)) _ eq_refl ltac:(lia)) as E.
    rewrite tx_msg_snoc in E |- *. unfold tx_bytes in E |- *. rewrite Hk, Hsz in E |- *. cbn [tx_type tx_instance tx_data e] in E |- *.
    unfold e in E |- *. cbn [tx_type tx_instance tx_data] in E |- *.
    rewrite (uwrap_small 8 type), (uwrap_small 4 inst) by lia.
    replace ((((([f; ty] ++ be16 (Z.of_nat (length rest) + tx_total els + (4 + Z.of_nat len))) ++ rest) ++ tx_body els) ++
        type :: be16 (Z.of_nat len) ++ [inst]) ++ d ++ drop (length d) (drop 4 tail))
      with ([f; ty] ++ be16 (Z.of_nat (length rest) + tx_total els + (4 + Z.of_nat len)) ++ (rest ++ tx_body els) ++
        (type :: be16 (Z.of_nat len) ++ [inst] ++ take len d) ++ drop len d ++ drop (length d) (drop 4 tail)).
    + replace (4 + (Z.of_nat (length rest) + tx_total els)) with (4 + Z.of_nat (length rest) + tx_total els) by lia. exact E.
    + set (r := drop (length d) (drop 4 tail)). replace (d ++ r) with (take len d ++ drop len d ++ r) by (by rewrite app_assoc, take_drop).
      by txapp.
  - rewrite length_app, !length_drop. lia.
Qed.

Lemma change_byte_app p g a x c : p = Z.of_nat (length a) -> change_byte p g (a ++ x :: c) = Some (tt, a ++ g x :: c).
Proof.
  intros Hp. unfold change_byte. erewrite tx_mbind by (apply get_bytes_app; [exact Hp|cbn; lia]). 
  change (map g (take 1 (x :: c))) with [g x].
  rewrite put_bytes_app; [done|exact Hp|cbn; lia].
Qed.

(** The values that the source gives to [type] and [instance]. *)
Ltac small_type := first [done | (split; [done|reflexivity]) | lia].

Lemma set_uint8_ie_appends type inst v : 0 <= type < 256 -> 0 <= inst < 16 ->
  appends (set_uint8_ie type inst v) 5 (fun _ => mk_tx_ie type inst [u8 v]).
Proof. intros Ht Hi. by apply (appends_fill type inst 1 [u8 v]). Qed.
Lemma set_uint32_ie_appends type inst v : 0 <= type < 256 -> 0 <= inst < 16 ->
  appends (set_uint32_ie type inst v) 8 (fun _ => mk_tx_ie type inst (le_bytes 4 (u8 v))).
Proof. intros Ht Hi. by apply (appends_fill type inst 4 (le_bytes 4 (u8 v))). Qed.
Lemma set_ar_priority_ie_appends inst bearer : 0 <= inst < 16 ->
  appends (set_ar_priority_ie inst bearer) 5 (fun _ => mk_tx_ie GTP_IE_ALLOC_RETEN_PRIORITY inst [arp_byte bearer.(qos)]).
Proof. intros Hi. by apply (appends_fill GTP_IE_ALLOC_RETEN_PRIORITY inst 1 [arp_byte bearer.(qos)]). Qed.
Definition fteid_data (interface ipv4 teid : Z) : list Z := (128 + uwrap 6 interface) :: le_bytes 4 teid ++ le_bytes 4 ipv4.
Lemma set_ipv4_fteid_ie_appends interface inst ipv4 teid : 0 <= inst < 16 ->
  appends (set_ipv4_fteid_ie interface inst ipv4 teid) 13
    (fun _ => mk_tx_ie GTP_IE_FULLY_QUAL_TUNN_ENDPT_IDNT inst (fteid_data interface ipv4 teid)).
Proof. intros Hi. by apply (appends_fill GTP_IE_FULLY_QUAL_TUNN_ENDPT_IDNT inst 9 (fteid_data interface ipv4 teid)). Qed.
Lemma set_ipv4_paa_ie_appends inst ipv4 : 0 <= inst < 16 ->
  appends (set_ipv4_paa_ie inst ipv4) 9 (fun _ => mk_tx_ie GTP_IE_PDN_ADDR_ALLOC inst (PDN_IP_TYPE_IPV4 :: le_bytes 4 ipv4)).
Proof. intros Hi. by apply (appends_fill GTP_IE_PDN_ADDR_ALLOC inst 5 (PDN_IP_TYPE_IPV4 :: le_bytes 4 ipv4)). Qed.
(** Of the 34 bytes of the structure 22 belong to the element. *)
Lemma set_bearer_qos_ie_appends inst bearer : 0 <= inst < 16 ->
  appends (set_bearer_qos_ie inst bearer) 38
    (fun _ => mk_tx_ie GTP_IE_BEARER_QLTY_OF_SVC inst (take 22 (qos_bytes bearer.(qos)))).
Proof. intros Hi. apply (appends_fill GTP_IE_BEARER_QLTY_OF_SVC inst 22 (qos_bytes bearer.(qos))); [done|done|cbn; lia]. Qed.

Lemma set_ie_copy_appends e more : tx_ok e ->
  appends (set_ie_copy (tx_bytes e ++ more)) (4 + length e.(tx_data)) (fun _ => e).
Proof.
  intros (Ht & Hi & Hl). unfold tx_bytes, set_ie_copy. cbn [app be16].
  pose proof (of_be16_be16 (Z.of_nat (length e.(tx_data))) ltac:(lia)) as Hb. unfold be16 in Hb. rewrite Hb.
  rewrite (uwrap_small 4) by lia. intros f ty rest els tail Hm Hroom.
  destruct (appends_fill (tx_type e) (tx_instance e) (length (tx_data e)) (tx_data e) Ht Hi (le_n _) f ty rest els tail)
    as (tail' & E & Hl'); [rewrite take_ge by done; by destruct e|done|].
  rewrite take_ge in E, Hl' by done. assert (He : mk_tx_ie (tx_type e) (tx_instance e) (tx_data e) = e) by (by destruct e).
  rewrite He in E, Hl'. exists tail'. split; [|done]. rewrite <- E.
  unfold mbind at 1, txM_bind at 1. unfold mbind at 4, txM_bind at 3.
  destruct (set_next_ie _ _ _ _) as [[ie b]|]; [|done]. cbn [mbind option_bind].
  unfold assert_tx. rewrite (proj2 (Z.leb_le _ _)) by (rewrite length_app; lia). erewrite tx_mbind by reflexivity.
  by rewrite Nat2Z.id, take_app_length.
Qed.

Lemma set_cause_accepted_ie_appends inst : 0 <= inst < 16 ->
  appends (set_cause_accepted_ie inst) 10
    (fun tail => mk_tx_ie GTP_IE_CAUSE inst [GTPV2C_CAUSE_REQUEST_ACCEPTED; Z.land (byteat tail 5) 248]).
Proof.
  intros Hi f ty rest els tail Hm Hroom. do 10 (destruct tail as [|? tail]; [cbn in Hroom; lia|]).
  rename z4 into x, z8 into y. set (e := mk_tx_ie GTP_IE_CAUSE inst [GTPV2C_CAUSE_REQUEST_ACCEPTED; Z.land x 248]).
  change (tx_size _) with 6 in Hm. pose proof (length_tx_body els).
  exists ([z5; z6; z7] ++ Z.land y 15 :: tail). change (tx_size _) with 6. split; [|cbn [length app]; lia].
  unfold set_cause_accepted_ie. erewrite tx_mbind by (apply (set_next_ie_msg GTP_IE_CAUSE inst 2); cbn [length]; lia).
  rewrite !app_assoc. cbn [drop]. set (a := (((_ ++ _) ++ _) ++ _) ++ (_ :: _ ++ [uwrap 4 inst])).
  assert (Ha : Z.of_nat (length a) = 8 + (Z.of_nat (length rest) + tx_total els)) by (unfold a; txlen).
  erewrite tx_mbind. 2:{ apply put_bytes_app; [unfold sizeof_gtpv2c_ie; lia|cbn; lia]. }
  cbn [length drop].
  rewrite (app_assoc a). erewrite tx_mbind by (apply change_byte_app; unfold sizeof_gtpv2c_ie; txlen).
  change (?l ++ ?v :: z5 :: z6 :: z7 :: y :: tail) with (l ++ [v; z5; z6; z7] ++ y :: tail).
  rewrite (app_assoc _ [_; _; _; _]). erewrite tx_mbind by (apply change_byte_app; unfold sizeof_gtpv2c_ie; txlen).
  pose proof (get_ie_return_msg f ty rest els e ([z5; z6; z7] ++ Z.land y 15 :: tail) _ eq_refl ltac:(done)) as E.
  change (tx_size e) with 6 in E. rewrite <- Z.add_assoc in E. rewrite tx_msg_snoc in E |- *. change (tx_size _) with 6 in E |- *.
  refine (eq_trans (f_equal (get_ie_return _) _) E).
  unfold a. rewrite (uwrap_small 4 inst) by lia. by rewrite <- !app_assoc.
Qed.

(** ** Groups *)

(** The length of a group grows over the element behind it. *)
Lemma add_grouped_msg f ty rest els t i d e tail g : g = 4 + Z.of_nat (length rest) + tx_total els ->
  Z.of_nat (length d) + tx_size e < 65536 ->
  add_grouped_ie_length g (tx_size e) (tx_msg f ty rest ((els ++ [mk_tx_ie t i d]) ++ [e]) tail) =
  Some (tt, tx_msg f ty rest (els ++ [mk_tx_ie t i (d ++ tx_bytes e)]) tail).
Proof.
  intros -> Hs. pose proof (length_tx_body els) as Hb. pose proof (length_tx_bytes e) as He. pose proof (tx_size_pos e).
  set (N := Z.of_nat (length rest) + tx_total els + (4 + Z.of_nat (length d)) + tx_size e).
  set (a := [f; ty] ++ be16 N ++ rest ++ tx_body els ++ [t]). set (c := [i] ++ d ++ tx_bytes e ++ tail).
  assert (E1 : tx_msg f ty rest ((els ++ [mk_tx_ie t i d]) ++ [e]) tail = a ++ be16 (Z.of_nat (length d)) ++ c).
  { rewrite tx_msg_snoc, tx_total_app, tx_total_one, tx_body_app. unfold tx_body at 2. cbn [map concat]. rewrite app_nil_r.
    unfold a, c, N, tx_size at 1. unfold tx_bytes at 1. cbn [tx_type tx_instance tx_data]. unfold sizeof_gtpv2c_ie.
    rewrite Z.add_assoc. by txapp. }
  assert (E2 : tx_msg f ty rest (els ++ [mk_tx_ie t i (d ++ tx_bytes e)]) tail = a ++ be16 (Z.of_nat (length d) + tx_size e) ++ c).
  { rewrite tx_msg_snoc. unfold a, c, N.
    change (tx_size (mk_tx_ie t i (d ++ tx_bytes e))) with (4 + Z.of_nat (length (d ++ tx_bytes e))).
    change (tx_bytes (mk_tx_ie t i (d ++ tx_bytes e)))
      with (t :: be16 (Z.of_nat (length (d ++ tx_bytes e))) ++ [i] ++ d ++ tx_bytes e).
    rewrite length_app, Nat2Z.inj_add, He, !Z.add_assoc. txapp. done. }
  rewrite E1, E2. unfold add_grouped_ie_length. assert (Ha : 4 + Z.of_nat (length rest) + tx_total els + 1 = Z.of_nat (length a))
    by (unfold a; txlen).
  erewrite tx_mbind by (apply get_be16_app; [done|lia]). rewrite put_bytes_app; [done|done|cbn; lia].
Qed.

(** A group starts without elements. *)
Lemma create_bearer_context_msg inst f ty rest els tail : 0 <= inst < 16 ->
  Z.of_nat (length rest) + tx_total els + 4 <= MAX_GTPV2C_LENGTH -> (4 <= length tail)%nat ->
  create_bearer_context_ie inst (tx_msg f ty rest els tail) =
  Some (4 + Z.of_nat (length rest) + tx_total els, tx_msg f ty rest (els ++ [mk_tx_ie GTP_IE_BEARER_CONTEXT inst []]) (drop 4 tail)).
Proof.
  intros Hi Hm Ht. unfold create_bearer_context_ie. rewrite set_next_ie_msg by lia. rewrite tx_msg_snoc.
  rewrite (uwrap_small 4 inst) by lia. by rewrite Z.add_assoc.
Qed.

(** An element of a group. *)
Lemma grouped_appends m room E g f ty rest els t i d tail : appends m room E ->
  g = 4 + Z.of_nat (length rest) + tx_total els ->
  Z.of_nat (length rest) + tx_total els + tx_size (mk_tx_ie t i d) + tx_size (E tail) <= MAX_GTPV2C_LENGTH ->
  (room <= length tail)%nat ->
  ∃ tail', (n ← m; add_grouped_ie_length g n) (tx_msg f ty rest (els ++ [mk_tx_ie t i d]) tail) =
      Some (tt, tx_msg f ty rest (els ++ [mk_tx_ie t i (d ++ tx_bytes (E tail))]) tail') ∧
    Z.of_nat (length tail') + tx_size (E tail) = Z.of_nat (length tail).
Proof.
  intros Ha Hg Hm Hr. destruct (Ha f ty rest (els ++ [mk_tx_ie t i d]) tail) as (tail' & E1 & Hl);
    [rewrite tx_total_app, tx_total_one; lia|done|].
  exists tail'. split; [|done]. erewrite tx_mbind by exact E1. apply add_grouped_msg; [done|].
  pose proof (tx_total_nonneg els). unfold MAX_GTPV2C_LENGTH, MAX_GTPV2C_UDP_LEN in Hm.
  change (tx_size (mk_tx_ie t i d)) with (4 + Z.of_nat (length d)) in Hm. lia.
Qed.

(** ** The walk visits the elements *)

Lemma NEXT_IE_at a e c p : p = Z.of_nat (length a) -> tx_ok e ->
  NEXT_IE p (a ++ tx_bytes e ++ c) = Some (p + tx_size e, a ++ tx_bytes e ++ c).
Proof.
  intros -> (_ & _ & Hl). unfold NEXT_IE, tx_bytes, tx_size.
  replace (a ++ (tx_type e :: be16 (Z.of_nat (length (tx_data e))) ++ [tx_instance e] ++ tx_data e) ++ c)
    with ((a ++ [tx_type e]) ++ be16 (Z.of_nat (length (tx_data e))) ++ ([tx_instance e] ++ tx_data e) ++ c)
    by (by txapp).
  erewrite tx_mbind by (apply get_be16_app; [txlen|lia]). by rewrite Z.add_assoc.
Qed.
Lemma NEXT_IE_behind a tail p : p = Z.of_nat (length a) -> (3 <= length tail)%nat ->
  ∃ v, 0 <= v ∧ NEXT_IE p (a ++ tail) = Some (p + 4 + v, a ++ tail).
Proof.
  intros -> Hl. destruct tail as [|x tail]; [cbn in Hl; lia|]. exists (of_be16 (take 2 tail)). split; [apply of_be16_nonneg|].
  unfold NEXT_IE, get_be16. change (a ++ x :: tail) with (a ++ [x] ++ tail). rewrite app_assoc.
  erewrite tx_mbind; [done|]. erewrite tx_mbind by (apply get_bytes_app; [txlen|cbn in Hl; lia]). done.
Qed.

Definition start_of (p : Z) (els : list tx_ie) : option Z := match els with [] => None | _ => Some p end.
Fixpoint tx_offsets (p : Z) (els : list tx_ie) : list Z :=
  match els with [] => [] | e :: els' => p :: tx_offsets (p + tx_size e) els' end.

(** What stands at an offset decides whether there is an element. *)
Lemma next_start a els tail p : p = Z.of_nat (length a) -> Forall tx_ok els -> (3 <= length tail)%nat ->
  ∃ next, NEXT_IE p (a ++ tx_body els ++ tail) = Some (next, a ++ tx_body els ++ tail) ∧
    (if next <=? p + tx_total els then Some p else None) = start_of p els.
Proof.
  intros Hp HF Ht. destruct HF as [|e els He HF].
  - destruct (NEXT_IE_behind a tail p Hp Ht) as (v & Hv & E). exists (p + 4 + v). split; [exact E|].
    rewrite (proj2 (Z.leb_gt _ _)); [done|cbn; lia].
  - exists (p + tx_size e). unfold tx_body. cbn [map concat]. rewrite <- !app_assoc. split; [by apply NEXT_IE_at|].
    cbn [tx_total foldr]. pose proof (tx_total_nonneg els) as H. unfold tx_total in H. by rewrite (proj2 (Z.leb_le _ _)) by lia.
Qed.

Lemma ies_from_msg els : ∀ fuel a tail p limit, p = Z.of_nat (length a) -> limit = p + tx_total els -> Forall tx_ok els ->
  (3 <= length tail)%nat -> (length els < fuel)%nat ->
  ies_from fuel limit (start_of p els) (a ++ tx_body els ++ tail) = Some (tx_offsets p els, a ++ tx_body els ++ tail).
Proof.
  induction els as [|e els IH]; intros fuel a tail p limit Hp Hlim HF Ht Hf; (destruct fuel as [|fuel]; [cbn in Hf; lia|]); [done|].
  apply Forall_cons_1 in HF as [He HF]. cbn [start_of ies_from tx_offsets].
  assert (E : a ++ tx_body (e :: els) ++ tail = (a ++ tx_bytes e) ++ tx_body els ++ tail)
    by (unfold tx_body; cbn [map concat]; by rewrite <- !app_assoc).
  assert (Hp' : p + tx_size e = Z.of_nat (length (a ++ tx_bytes e))) by (rewrite length_app, Nat2Z.inj_add, length_tx_bytes; lia).
  destruct (next_start (a ++ tx_bytes e) els tail (p + tx_size e) Hp' HF Ht) as (next & E1 & E2).
  assert (Hl2 : limit = p + tx_size e + tx_total els) by (rewrite Hlim; cbn [tx_total foldr]; unfold tx_total; lia).
  assert (Hn : get_next_ie p limit (a ++ tx_body (e :: els) ++ tail) =
    Some (start_of (p + tx_size e) els, (a ++ tx_bytes e) ++ tx_body els ++ tail)).
  { unfold get_next_ie. rewrite E. rewrite <- (app_assoc a). erewrite tx_mbind by (by apply NEXT_IE_at). rewrite (app_assoc a).
    erewrite tx_mbind by exact E1. unfold mret, txM_ret. by rewrite <- E2, Hl2. }
  erewrite tx_mbind by exact Hn.
  erewrite tx_mbind; [by rewrite E|].
  apply IH; [exact Hp'|exact Hl2|done|done|cbn in Hf; lia].
Qed.

Lemma ie_at_bytes a e c p : p = Z.of_nat (length a) -> tx_ok e -> ie_at p (a ++ tx_bytes e ++ c) = Some (e, a ++ tx_bytes e ++ c).
Proof.
  intros Hp (Ht & Hi & Hl). unfold ie_at.
  erewrite tx_mbind by (apply get_bytes_app; [exact Hp|unfold tx_bytes; txlen]).
  set (k := Z.of_nat (length (tx_data e))) in *.
  assert (E1 : a ++ tx_bytes e ++ c = (a ++ [tx_type e]) ++ be16 k ++ [tx_instance e] ++ tx_data e ++ c) by (unfold tx_bytes; by txapp).
  assert (E2 : a ++ tx_bytes e ++ c = (a ++ tx_type e :: be16 k) ++ [tx_instance e] ++ tx_data e ++ c) by (unfold tx_bytes; by txapp).
  assert (E3 : a ++ tx_bytes e ++ c = (a ++ tx_type e :: be16 k ++ [tx_instance e]) ++ tx_data e ++ c) by (unfold tx_bytes; by txapp).
  rewrite E1. erewrite tx_mbind by (apply get_be16_app; [txlen|lia]). rewrite <- E1, E2.
  erewrite tx_mbind by (apply get_bytes_app; [txlen|cbn; lia]). rewrite <- E2, E3. unfold sizeof_gtpv2c_ie.
  erewrite tx_mbind by (apply get_bytes_app; [txlen|unfold k; rewrite length_app; lia]). rewrite <- E3.
  unfold k. rewrite Nat2Z.id, take_app_length. unfold mret, txM_ret. do 2 f_equal.
  change (byteat (take 1 (tx_bytes e ++ c)) 0) with (tx_type e). change (byteat (take 1 ([tx_instance e] ++ _)) 0) with (tx_instance e).
  rewrite uwrap_small by lia. by destruct e.
Qed.
Lemma ies_at_msg els : ∀ a tail p, p = Z.of_nat (length a) -> Forall tx_ok els ->
  ies_at (tx_offsets p els) (a ++ tx_body els ++ tail) = Some (els, a ++ tx_body els ++ tail).
Proof.
  induction els as [|e els IH]; intros a tail p Hp HF; [done|]. apply Forall_cons_1 in HF as [He HF].
  assert (E : a ++ tx_body (e :: els) ++ tail = (a ++ tx_bytes e) ++ tx_body els ++ tail)
    by (unfold tx_body; cbn [map concat]; by rewrite <- !app_assoc).
  cbn [tx_offsets ies_at]. rewrite E. rewrite <- (app_assoc a). erewrite tx_mbind by (by apply ie_at_bytes). rewrite (app_assoc a).
  erewrite tx_mbind; [done|]. apply IH; [rewrite length_app, Nat2Z.inj_add, length_tx_bytes; lia|done].
Qed.

(** The header says how long it is. *)
Definition header_length (flags : Z) : Z := if Z.testbit flags 3 then sizeof_has_teid else sizeof_no_teid.

Lemma tx_total_length els : 4 * Z.of_nat (length els) <= tx_total els.
Proof.
  unfold tx_total. induction els as [|e els IH]; [done|]. cbn [foldr length]. pose proof (tx_size_pos e). lia.
Qed.

Lemma message_elements_msg f ty rest els tail :
  Z.of_nat (length rest) = header_length f -> Forall tx_ok els -> (3 <= length tail)%nat ->
  Z.of_nat (length rest) + tx_total els <= MAX_GTPV2C_LENGTH ->
  message_elements (tx_msg f ty rest els tail) = Some (els, tx_msg f ty rest els tail).
Proof.
  intros Hr HF Ht Hm. unfold MAX_GTPV2C_LENGTH, MAX_GTPV2C_UDP_LEN in Hm. pose proof (tx_total_nonneg els).
  set (n := Z.of_nat (length rest) + tx_total els) in *. set (a := [f; ty] ++ be16 n ++ rest).
  assert (E : tx_msg f ty rest els tail = a ++ tx_body els ++ tail) by (unfold tx_msg, a; by rewrite <- !app_assoc).
  assert (Hp : 4 + header_length f = Z.of_nat (length a)) by (unfold a; txlen).
  assert (Hlim : GTPV2C_IE_LIMIT (tx_msg f ty rest els tail) = Some (4 + header_length f + tx_total els, tx_msg f ty rest els tail)).
  { unfold GTPV2C_IE_LIMIT. erewrite tx_mbind by (apply message_len_msg; lia). unfold mret, txM_ret, sizeof_gtpc. do 2 f_equal. lia. }
  destruct (next_start a els tail _ Hp HF Ht) as (next & E1 & E2). rewrite <- E in E1.
  assert (Hf : get_first_ie (tx_msg f ty rest els tail) = Some (start_of (4 + header_length f) els, tx_msg f ty rest els tail)).
  { unfold get_first_ie. erewrite tx_mbind; [|unfold IE_BEGIN; erewrite tx_mbind by (apply (get_bytes_app 0 1 []); [done|cbn; lia]); reflexivity].
    change ([] ++ tx_msg f ty rest els tail) with (tx_msg f ty rest els tail).
    erewrite tx_mbind; [|exact E1]. erewrite tx_mbind by exact Hlim. unfold mret, txM_ret. by rewrite <- E2. }
  unfold message_elements, FOR_EACH_GTPV2C_IE. erewrite tx_mbind.
  2:{ erewrite tx_mbind by exact Hf. erewrite tx_mbind by exact Hlim. rewrite E.
      apply ies_from_msg; [done|done|done|done|]. pose proof (tx_total_length els). unfold MAX_GTPV2C_UDP_LEN. lia. }
  rewrite E. by apply ies_at_msg.
Qed.

(** ** Messages built from elements *)

(** The header sets a message without elements; the byte behind the sequence number stays. *)
Definition header_rest (teid_flag teid seq spare : Z) : list Z :=
  (if teid_flag =? 0 then [] else le_bytes 4 teid) ++ le_bytes 3 seq ++ [spare].
Definition header_flags (teid_flag : Z) : Z := 64 + 8 * teid_flag.

Lemma header_rest_length teid_flag teid seq spare : teid_flag = 0 ∨ teid_flag = 1 ->
  Z.of_nat (length (header_rest teid_flag teid seq spare)) = header_length (header_flags teid_flag).
Proof. by intros [-> | ->]. Qed.

Lemma set_gtpv2c_header_msg teid_flag type teid seq b : teid_flag = 0 ∨ teid_flag = 1 -> 0 <= type < 256 -> (12 <= length b)%nat ->
  ∃ spare tail, set_gtpv2c_header_buf teid_flag type teid seq b =
      Some (tt, tx_msg (header_flags teid_flag) type (header_rest teid_flag teid seq spare) [] tail) ∧
    Z.of_nat (length tail) + 4 + header_length (header_flags teid_flag) = Z.of_nat (length b) ∧
    tail = drop (Z.to_nat (4 + header_length (header_flags teid_flag))) b.
Proof.
  intros Hf Ht Hl. do 12 (destruct b as [|? b]; [cbn in Hl; lia|]).
  unfold set_gtpv2c_header_buf. rewrite (uwrap_small 8 type) by lia.
  destruct Hf as [-> | ->].
  - exists z6, (z7 :: z8 :: z9 :: z10 :: b). split; [|split; [change (header_length _) with 4; cbn [length]; lia|done]].
    erewrite tx_mbind by (apply (put_bytes_app 0 _ []); cbn [length]; lia). cbn [length drop nz Z.eqb negb app].
    erewrite tx_mbind by (apply (put_bytes_app 4 _ [_; _; _; _]); cbn [length le_bytes]; lia). cbn [length drop app le_bytes].
    etrans; [apply (put_bytes_app 2 _ [_; _]); cbn [length be16]; lia|done].
  - exists z10, b. split; [|split; [change (header_length _) with 8; cbn [length]; lia|done]].
    erewrite tx_mbind by (apply (put_bytes_app 0 _ []); cbn [length]; lia). cbn [length drop nz Z.eqb negb app].
    erewrite tx_mbind.
    2:{ erewrite tx_mbind by (apply (put_bytes_app 4 _ [_; _; _; _]); cbn [length le_bytes]; lia). cbn [length drop app le_bytes].
        apply (put_bytes_app 8 _ [_; _; _; _; _; _; _; _]); cbn [length le_bytes]; lia. }
    cbn [length drop app le_bytes].
    etrans; [apply (put_bytes_app 2 _ [_; _]); cbn [length be16]; lia|done].
Qed.

(** The elements, copied one after the other. *)
Fixpoint copy_elements (els : list tx_ie) : txM unit :=
  match els with [] => mret tt | e :: els' => _ ← set_ie_copy (tx_bytes e); copy_elements els' end.

Lemma copy_elements_msg els : ∀ f ty rest els0 tail, Forall tx_ok els ->
  Z.of_nat (length rest) + tx_total els0 + tx_total els <= MAX_GTPV2C_LENGTH -> tx_total els <= Z.of_nat (length tail) ->
  ∃ tail', copy_elements els (tx_msg f ty rest els0 tail) = Some (tt, tx_msg f ty rest (els0 ++ els) tail') ∧
    Z.of_nat (length tail') + tx_total els = Z.of_nat (length tail).
Proof.
  induction els as [|e els IH]; intros f ty rest els0 tail HF Hm Ht.
  - exists tail. rewrite app_nil_r. split; [done|cbn; lia].
  - apply Forall_cons_1 in HF as [He HF]. unfold tx_total in Hm, Ht. cbn [foldr] in Hm, Ht. fold (tx_total els) (tx_total els0) in Hm, Ht.
    pose proof (tx_total_nonneg els). pose proof (set_ie_copy_appends e [] He f ty rest els0 tail) as Ha. cbn beta in Ha.
    rewrite app_nil_r in Ha. destruct Ha as (t1 & E1 & L1); [lia|unfold tx_size, sizeof_gtpv2c_ie in *; lia|].
    destruct (IH f ty rest (els0 ++ [e]) t1 HF) as (t2 & E2 & L2); [rewrite tx_total_app, tx_total_one; lia|lia|].
    exists t2. cbn [copy_elements]. erewrite tx_mbind by exact E1. rewrite E2, <- app_assoc. split; [done|].
    unfold tx_total at 1. cbn [foldr]. fold (tx_total els). lia.
Qed.

Lemma set_next_ie_full type inst len f ty rest els tail :
  Z.of_nat (length rest) + tx_total els <= MAX_GTPV2C_LENGTH -> MAX_GTPV2C_LENGTH < Z.of_nat (length rest) + tx_total els + (4 + len) ->
  set_next_ie type inst len (tx_msg f ty rest els tail) = None.
Proof.
  intros Hm Hf. unfold set_next_ie. erewrite tx_mbind by (apply message_len_msg; unfold MAX_GTPV2C_LENGTH, MAX_GTPV2C_UDP_LEN in *; lia).
  unfold assert_tx, sizeof_gtpv2c_ie. rewrite (proj2 (Z.ltb_lt MAX_GTPV2C_LENGTH _)) by lia. done.
Qed.

Lemma copy_elements_full els : ∀ f ty rest els0 tail, Forall tx_ok els ->
  Z.of_nat (length rest) + tx_total els0 <= MAX_GTPV2C_LENGTH < Z.of_nat (length rest) + tx_total els0 + tx_total els ->
  MAX_GTPV2C_LENGTH <= Z.of_nat (length rest) + tx_total els0 + Z.of_nat (length tail) ->
  copy_elements els (tx_msg f ty rest els0 tail) = None.
Proof.
  induction els as [|e els IH]; intros f ty rest els0 tail HF Hm Ht; [cbn in Hm; lia|].
  apply Forall_cons_1 in HF as [He HF]. unfold tx_total at 3 in Hm. cbn [foldr] in Hm. fold (tx_total els) in Hm. cbn [copy_elements].
  destruct (decide (Z.of_nat (length rest) + tx_total els0 + tx_size e <= MAX_GTPV2C_LENGTH)) as [Hle|Hgt].
  - pose proof (set_ie_copy_appends e [] He f ty rest els0 tail) as Ha. cbn beta in Ha. rewrite app_nil_r in Ha.
    destruct Ha as (t1 & E1 & L1); [lia|unfold tx_size, sizeof_gtpv2c_ie in *; lia|].
    erewrite tx_mbind by exact E1. apply IH; [done|rewrite tx_total_app, tx_total_one; lia..].
  - destruct He as (_ & _ & Hl). unfold mbind, txM_bind. unfold set_ie_copy, tx_bytes. cbn [app be16].
    pose proof (of_be16_be16 (Z.of_nat (length e.(tx_data))) ltac:(lia)) as Hb. unfold be16 in Hb. rewrite Hb.
    unfold mbind, txM_bind. rewrite set_next_ie_full; [done|lia|unfold tx_size, sizeof_gtpv2c_ie in *; lia].
Qed.

(** C14: A message built in the transmission buffer of 4096 bytes, by setting the header with
    or without tunnel id and then elements one after the other, is walked through by the
    loop over its elements in the same order, with the same types, instances and contents,
    and its length is that of the header and the elements, as long as that is at most 4084;
    otherwise the assertion of the setters stops the build. *)
Theorem built_message_walked teid_flag type teid seq els b :
  teid_flag = 0 ∨ teid_flag = 1 -> 0 <= type < 256 -> Forall tx_ok els -> Z.of_nat (length b) = MAX_GTPV2C_UDP_LEN ->
  let len := (if teid_flag =? 0 then sizeof_no_teid else sizeof_has_teid) + tx_total els in
  let build := (_ ← set_gtpv2c_header_buf teid_flag type teid seq; copy_elements els) in
  (len <= MAX_GTPV2C_LENGTH -> ∃ b', build b = Some (tt, b') ∧ message_len b' = Some (len, b') ∧
     message_elements b' = Some (els, b')) ∧
  (MAX_GTPV2C_LENGTH < len -> build b = None).
Proof.
  intros Hf Ht HF Hb len build. unfold MAX_GTPV2C_UDP_LEN in Hb.
  destruct (set_gtpv2c_header_msg teid_flag type teid seq b Hf Ht) as (spare & tail & E & Hl & _); [lia|].
  pose proof (header_rest_length teid_flag teid seq spare Hf) as Hr.
  set (rest := header_rest teid_flag teid seq spare) in *.
  assert (Hlen : len = Z.of_nat (length rest) + tx_total els) by (rewrite Hr; unfold len; by destruct Hf as [-> | ->]).
  assert (Hh : Z.of_nat (length rest) <= 8) by (rewrite Hr; by destruct Hf as [-> | ->]).
  rewrite Hlen. unfold build. split.
  - intros Hm. unfold MAX_GTPV2C_LENGTH, MAX_GTPV2C_UDP_LEN in Hm.
    destruct (copy_elements_msg els (header_flags teid_flag) type rest [] tail HF) as (tail' & E' & Hl');
      [cbn [tx_total foldr]; unfold MAX_GTPV2C_LENGTH, MAX_GTPV2C_UDP_LEN; lia|lia|].
    exists (tx_msg (header_flags teid_flag) type rest els tail').
    split_and!; [by erewrite tx_mbind by exact E|by apply message_len_msg; lia|].
    apply message_elements_msg; [done|done|lia|unfold MAX_GTPV2C_LENGTH, MAX_GTPV2C_UDP_LEN; lia].
  - intros Hm. erewrite tx_mbind by exact E. unfold MAX_GTPV2C_LENGTH, MAX_GTPV2C_UDP_LEN in *.
    apply copy_elements_full; unfold MAX_GTPV2C_LENGTH, MAX_GTPV2C_UDP_LEN; [done|cbn [tx_total foldr]; lia..].
Qed.

Definition example_elements : list tx_ie := [mk_tx_ie GTP_IE_EPS_BEARER_ID 0 [5]; mk_tx_ie GTP_IE_RECOVERY 1 [7]; mk_tx_ie 255 0 []].
Lemma example_elements_ok : Forall tx_ok example_elements.
Proof. unfold example_elements. repeat (apply Forall_cons_2; [repeat split; vm_compute; congruence|]). apply Forall_nil_2. Qed.
Lemma built_message_walked_witness :
  ∃ b', (_ ← set_gtpv2c_header_buf 1 GTP_IE_CAUSE 77 9; copy_elements example_elements) (repeat 0 4096) = Some (tt, b') ∧
    message_len b' = Some (22, b') ∧ message_elements b' = Some (example_elements, b').
Proof.
  apply (proj1 (built_message_walked 1 GTP_IE_CAUSE 77 9 example_elements (repeat 0 4096) (or_intror eq_refl) ltac:(done)
    example_elements_ok ltac:(vm_compute; reflexivity))). vm_compute. discriminate.
Defined.

(** ** The end of a message *)

Lemma NEXT_IE_end p b : Z.of_nat (length b) <= p + 2 -> NEXT_IE p b = None.
Proof.
  intros Hl. unfold NEXT_IE, get_be16, get_bytes. unfold mbind, txM_bind, mbind, option_bind.
  by rewrite (proj2 (Z.leb_gt (p + 1 + Z.of_nat 2) _)), andb_false_r by lia.
Qed.
Lemma ies_from_end els : ∀ e a p fuel limit, p = Z.of_nat (length a) -> Forall tx_ok (e :: els) -> limit = p + tx_total (e :: els) ->
  ies_from fuel limit (Some p) (a ++ tx_body (e :: els)) = None.
Proof.
  induction els as [|e' els IH]; intros e a p fuel limit Hp HF Hlim; (destruct fuel as [|fuel]; [done|]);
    apply Forall_cons_1 in HF as [He HF]; cbn [ies_from];
    change (tx_body (e :: ?l)) with (tx_bytes e ++ tx_body l).
  - assert (E : get_next_ie p limit (a ++ tx_bytes e ++ tx_body []) = None).
    { unfold get_next_ie. erewrite tx_mbind by (apply NEXT_IE_at; [exact Hp|done]). unfold mbind, txM_bind.
      rewrite NEXT_IE_end; [done|]. rewrite !length_app, !Nat2Z.inj_add, length_tx_bytes. cbn [length tx_body map concat]. lia. }
    unfold mbind, txM_bind. by rewrite E.
  - assert (Hp' : p + tx_size e = Z.of_nat (length (a ++ tx_bytes e))) by (rewrite length_app, Nat2Z.inj_add, length_tx_bytes; lia).
    assert (Hl2 : limit = p + tx_size e + tx_total (e' :: els)) by (rewrite Hlim; unfold tx_total; cbn [foldr]; lia).
    erewrite tx_mbind.
    2:{ unfold get_next_ie. erewrite tx_mbind by (apply NEXT_IE_at; [exact Hp|done]).
        change (tx_body (e' :: els)) with (tx_bytes e' ++ tx_body els). rewrite (app_assoc a).
        erewrite tx_mbind by (apply NEXT_IE_at; [exact Hp'|by apply Forall_cons_1 in HF as [? _]]). reflexivity. }
    assert (tx_size e' <= tx_total (e' :: els)) by (unfold tx_total; cbn [foldr]; pose proof (tx_total_nonneg els) as H0; unfold tx_total in H0; lia).
    rewrite (proj2 (Z.leb_le _ limit)) by lia. unfold mbind, txM_bind. change (tx_bytes e' ++ tx_body els) with (tx_body (e' :: els)).
    by rewrite (IH e' (a ++ tx_bytes e) _ fuel limit Hp' HF Hl2).
Qed.

(** The walk reads the length of the element behind the last one before it compares with
    the end: in a buffer that ends with the message, as the received messages are kept, it
    reads behind the buffer. *)
Theorem walk_reads_behind f ty rest e els :
  Z.of_nat (length rest) = header_length f -> Forall tx_ok (e :: els) ->
  Z.of_nat (length rest) + tx_total (e :: els) <= MAX_GTPV2C_LENGTH ->
  FOR_EACH_GTPV2C_IE (tx_msg f ty rest (e :: els) []) = None.
Proof.
  intros Hr HF Hm. unfold MAX_GTPV2C_LENGTH, MAX_GTPV2C_UDP_LEN in Hm.
  set (n := Z.of_nat (length rest) + tx_total (e :: els)) in *. set (a := [f; ty] ++ be16 n ++ rest).
  assert (E : tx_msg f ty rest (e :: els) [] = a ++ tx_body (e :: els)) by (unfold tx_msg, a; rewrite app_nil_r, <- !app_assoc; done).
  assert (Hp : 4 + header_length f = Z.of_nat (length a)) by (unfold a; txlen).
  assert (Hs : tx_size e <= tx_total (e :: els)) by (unfold tx_total; cbn [foldr]; pose proof (tx_total_nonneg els) as H0; unfold tx_total in H0; lia).
  assert (Hlim : GTPV2C_IE_LIMIT (tx_msg f ty rest (e :: els) []) = Some (4 + header_length f + tx_total (e :: els), tx_msg f ty rest (e :: els) [])).
  { unfold GTPV2C_IE_LIMIT. erewrite tx_mbind by (apply message_len_msg; lia). unfold mret, txM_ret, sizeof_gtpc. do 2 f_equal. lia. }
  assert (Hn : NEXT_IE (4 + header_length f) (tx_msg f ty rest (e :: els) []) =
    Some (4 + header_length f + tx_size e, tx_msg f ty rest (e :: els) [])).
  { rewrite E. change (tx_body (e :: els)) with (tx_bytes e ++ tx_body els).
    apply NEXT_IE_at; [exact Hp|by apply Forall_cons_1 in HF as [? _]]. }
  unfold FOR_EACH_GTPV2C_IE, get_first_ie. erewrite tx_mbind.
  2:{ erewrite tx_mbind; [|unfold IE_BEGIN; erewrite tx_mbind by (apply (get_bytes_app 0 1 []); [done|cbn; lia]); reflexivity].
      change ([] ++ tx_msg f ty rest (e :: els) []) with (tx_msg f ty rest (e :: els) []).
      erewrite tx_mbind by exact Hn. erewrite tx_mbind by exact Hlim. reflexivity. }
  erewrite tx_mbind by exact Hlim. rewrite (proj2 (Z.leb_le _ _)) by lia. rewrite E. by apply ies_from_end.
Qed.

(** A message of one element. *)
Example walk_behind_example :
  FOR_EACH_GTPV2C_IE [header_flags 1; 32; 0; 13; 0; 0; 0; 1; 0; 0; 2; 0; GTP_IE_RECOVERY; 0; 1; 0; 9] = None ∧
  ∃ b, message_elements ([header_flags 1; 32; 0; 13; 0; 0; 0; 1; 0; 0; 2; 0; GTP_IE_RECOVERY; 0; 1; 0; 9] ++ [0; 0; 0]) =
    Some ([mk_tx_ie GTP_IE_RECOVERY 0 [9]], b).
Proof. split; [reflexivity|]. eexists. reflexivity. Qed.
