(* ===== verification/GtpSetIe.v ===== *)
(** * The elements of GTPv2 messages as structures

    The functions of src/cp/gtpv2/common/gtpv2_set_ie.c that fill the structures of
    libgtpv2c, and the traffic flow template of a dedicated bearer.  A function gets the
    structure it assigns to: what it does not assign stays. *)

From stdpp Require Import strings.
From S2P Require Import Prelude EncDecBits PfcpIesOptional PfcpSetIe GtpIes GtpMsgs Text PfcpSession GtpTxBuf.

(** ** Headers *)

(** The structure [gtpv2c_header_t] in the order of the machine: the length is stored
    swapped.  Without tunnel id the sequence number is in the low 24 bits of the union. *)
Definition set_gtpv2c_header (teid_flag type has_teid seq : Z) (x : gtpv2c_header_t) : gtpv2c_header_t :=
  if nz teid_flag then
    mk_gtpv2c_header 0 (uwrap 1 teid_flag) 0 GTP_VERSION_GTPV2C (u8 type) (of_le_bytes (be16 sizeof_has_teid))
      (u32 has_teid) (uwrap 24 seq) x.(has_teid_spare)
  else
    mk_gtpv2c_header 0 (uwrap 1 teid_flag) 0 GTP_VERSION_GTPV2C (u8 type) (of_le_bytes (be16 sizeof_no_teid))
      (uwrap 24 seq + 2 ^ 24 * no_teid_spare x) x.(has_teid_seq) x.(has_teid_spare).
Definition set_gtpv2c_teid_header (type teid seq : Z) (x : gtpv2c_header_t) : gtpv2c_header_t :=
  set_gtpv2c_header 1 type teid seq x.

Definition set_ie_header (type instance length : Z) : ie_header_t := mk_gie (u8 type) (u16 length) (u8 instance).

(** ** Elements *)

Definition sizeof_cause_ie_hdr : Z := 2.
Definition set_cause_error_value (instance cause_value : Z) (x : gtp_cause_ie_t) : gtp_cause_ie_t :=
  mk_gtp_cause (set_ie_header GTP_IE_CAUSE instance sizeof_cause_ie_hdr) (u8 cause_value) x.(gtp_cause_spare2) 0 0 1
    x.(gtp_cause_offend_ie_type) x.(gtp_cause_offend_ie_len) 0.
Definition set_cause_accepted (instance : Z) (x : gtp_cause_ie_t) : gtp_cause_ie_t :=
  mk_gtp_cause (set_ie_header GTP_IE_CAUSE instance sizeof_cause_ie_hdr) GTPV2C_CAUSE_REQUEST_ACCEPTED x.(gtp_cause_spare2)
    0 0 0 x.(gtp_cause_offend_ie_type) x.(gtp_cause_offend_ie_len) 0.

(** [sizeof(struct fteid_ie_hdr_t) + sizeof(struct in_addr)]. *)
Definition sizeof_ipv4_fteid : Z := 5 + 4.
Definition set_ipv4_fteid (interface instance ipv4 teid : Z) (x : gtp_fully_qual_tunn_endpt_idnt_ie_t)
    : gtp_fully_qual_tunn_endpt_idnt_ie_t :=
  mk_gtp_fully_qual_tunn_endpt_idnt (set_ie_header GTP_IE_FULLY_QUAL_TUNN_ENDPT_IDNT instance sizeof_ipv4_fteid) 1 0
    (uwrap 6 interface) (u32 teid) (u32 ipv4) x.(gtp_fully_qual_tunn_endpt_idnt_ipv6_address).

Definition set_ipv4_paa (instance ipv4 : Z) (x : gtp_pdn_addr_alloc_ie_t) : gtp_pdn_addr_alloc_ie_t :=
  let temp_ipv4 := htonl ipv4 in
  mk_gtp_pdn_addr_alloc (set_ie_header GTP_IE_PDN_ADDR_ALLOC instance 5) 0 PDN_IP_TYPE_IPV4
    (le_bytes 4 temp_ipv4 ++ drop 4 x.(gtp_pdn_addr_alloc_pdn_addr_and_pfx)).

Definition set_apn_restriction (instance restriction_type : Z) : gtp_apn_restriction_ie_t :=
  mk_gtp_apn_restriction (set_ie_header GTP_IE_APN_RESTRICTION instance 1) (u8 restriction_type).
Definition set_ebi (instance eps_bearer_id : Z) : gtp_eps_bearer_id_ie_t :=
  mk_gtp_eps_bearer_id (set_ie_header GTP_IE_EPS_BEARER_ID instance 1) 0 (uwrap 4 eps_bearer_id).
Definition set_pti (instance proc_trans_id : Z) : gtp_proc_trans_id_ie_t :=
  mk_gtp_proc_trans_id (set_ie_header GTP_IE_PROC_TRANS_ID instance 1) (u8 proc_trans_id).
Definition set_charging_id (instance chrgng_id_val : Z) : gtp_charging_id_ie_t :=
  mk_gtp_charging_id (set_ie_header GTP_IE_CHARGING_ID instance 4) (u32 chrgng_id_val).
Definition set_apn_ambr (ul_ambr dl_ambr : Z) : gtp_agg_max_bit_rate_ie_t :=
  mk_gtp_agg_max_bit_rate (set_ie_header GTP_IE_AGG_MAX_BIT_RATE GTP_IE_INSTANCE_ZERO 8) (u32 ul_ambr) (u32 dl_ambr).
Definition set_mapped_ue_usage_type (usage_type_value : Z) : gtp_mapped_ue_usage_type_ie_t :=
  mk_gtp_mapped_ue_usage_type (set_ie_header GTP_IE_MAPPED_UE_USAGE_TYPE GTP_IE_INSTANCE_ZERO 2) (u16 usage_type_value).

(** The packed structure with its four rates of 40 bits. *)
Definition sizeof_gtp_bearer_qlty_of_svc_ie : Z := IE_HEADER_SIZE + 22.
Definition set_bearer_qos (instance : Z) (bearer : eps_bearer_t) : gtp_bearer_qlty_of_svc_ie_t :=
  let q := bearer.(qos) in
  mk_gtp_bearer_qlty_of_svc
    (set_ie_header GTP_IE_BEARER_QLTY_OF_SVC instance (sizeof_gtp_bearer_qlty_of_svc_ie - IE_HEADER_SIZE))
    0 (uwrap 1 q.(preemption_capability)) (uwrap 4 q.(priority_level)) 0 (uwrap 1 q.(preemption_vulnerability)) (u8 q.(qci))
    (uwrap 40 q.(ul_mbr)) (uwrap 40 q.(dl_mbr)) (uwrap 40 q.(ul_gbr)) (uwrap 40 q.(dl_gbr)).

Definition set_serving_network (csr : create_sess_req_t) (instance : Z) : gtp_serving_network_ie_t :=
  let n := csr.(create_sess_req_serving_network) in
  mk_gtp_serving_network (set_ie_header GTP_IE_SERVING_NETWORK instance 3) n.(gtp_serving_network_mcc_digit_2)
    n.(gtp_serving_network_mcc_digit_1) n.(gtp_serving_network_mnc_digit_3) n.(gtp_serving_network_mcc_digit_3)
    n.(gtp_serving_network_mnc_digit_2) n.(gtp_serving_network_mnc_digit_1).
Definition set_ue_timezone (csr : create_sess_req_t) (instance : Z) : gtp_ue_time_zone_ie_t :=
  let z := csr.(create_sess_req_ue_time_zone) in
  mk_gtp_ue_time_zone (set_ie_header GTP_IE_UE_TIME_ZONE instance 2) z.(gtp_ue_time_zone_time_zone) z.(gtp_ue_time_zone_spare2)
    z.(gtp_ue_time_zone_daylt_svng_time).

(** [assert(pco->header.len != 0)]. *)
Definition set_pco (instance : Z) (pco_buf : list Z) (len : Z) (x : pco_ie_t) : option pco_ie_t :=
  let len := u8 len in
  if len =? 0 then None
  else Some (mk_pco_ie (set_ie_header GTP_IE_PROT_CFG_OPTS instance len) pco_buf len x.(pco_ie_ext) x.(pco_ie_config_proto)
               x.(pco_ie_num_of_opt) x.(pco_ie_ids)).

(** ** Traffic flow templates *)

Definition TFT_CREATE_NEW : Z := 32.
Definition TFT_DOWNLINK : Z := 16.
Definition TFT_UPLINK : Z := 32.
Definition TFT_BIDIRECTIONAL : Z := 48.
Definition TFT_DIRECTION_DOWNLINK_ONLY : Z := 1.
Definition TFT_DIRECTION_UPLINK_ONLY : Z := 2.
Definition TFT_DIRECTION_BIDIRECTIONAL : Z := 3.
Definition TFT_PROTO_IDENTIFIER_NEXT_HEADER_TYPE : Z := 48.
Definition TFT_SINGLE_SRC_PORT_TYPE : Z := 64.
Definition TFT_SINGLE_REMOTE_PORT_TYPE : Z := 80.
Definition TFT_IPV4_REMOTE_ADDR_TYPE : Z := 16.
Definition TFT_IPV4_SRC_ADDR_TYPE : Z := 17.

(** The array [eps_bearer_lvl_tft] and the index [i], a [uint8_t]. *)
Definition tft_state : Type := Z * list Z.
Definition tft_put (v : Z) (s : tft_state) : tft_state := (u8 (s.1 + 1), <[Z.to_nat s.1 := u8 v]> s.2).
Definition tft_puts (l : list Z) (s : tft_state) : tft_state := foldl (fun s v => tft_put v s) s l.

(** [0xffffffff << (32 - mask)], which is not defined for a shift by 32 or more, or by a
    negative number. *)
Definition address_mask (mask : Z) : option Z :=
  if (1 <=? mask) && (mask <=? 32) then Some (u32 (Z.shiftl 0xffffffff (32 - mask))) else None.

(** The bytes that are written for a port and for an address with its mask. *)
Definition tft_port (type port : Z) : list Z := [type; Z.land (Z.shiftr port 8) 0xff; Z.land port 0xff].
Definition tft_address (type s_addr mask : Z) : list Z :=
  [type; Z.land s_addr 0xff; Z.land (Z.shiftr s_addr 8) 0xff; Z.land (Z.shiftr s_addr 16) 0xff; Z.land (Z.shiftr s_addr 24) 0xff;
   Z.land (Z.shiftr mask 24) 0xff; Z.land (Z.shiftr mask 16) 0xff; Z.land (Z.shiftr mask 8) 0xff; Z.land mask 0xff].

(** One flow.  [len_index] is where the length goes when it is known. *)
Definition tft_flow (precedence : Z) (num_pkt_filters : Z) (f : sdf_pkt_fltr_t) (s : tft_state) : option tft_state :=
  let down := f.(flt_direction) =? TFT_DIRECTION_DOWNLINK_ONLY in
  let first :=
    if f.(flt_direction) =? TFT_DIRECTION_UPLINK_ONLY then num_pkt_filters + TFT_UPLINK
    else if down then num_pkt_filters + TFT_DOWNLINK
    else if f.(flt_direction) =? TFT_DIRECTION_BIDIRECTIONAL then num_pkt_filters + TFT_BIDIRECTIONAL
    else num_pkt_filters in
  let s1 := tft_puts [first; precedence] s in
  let len_index := s1.1 in
  let s2 := tft_puts [TFT_PROTO_IDENTIFIER_NEXT_HEADER_TYPE; f.(proto_id)] (u8 (s1.1 + 1), s1.2) in
  s3 ←
    (if down then
       local_mask ← address_mask f.(local_ip_mask);
       remote_mask ← address_mask f.(remote_ip_mask);
       Some (tft_puts (tft_port TFT_SINGLE_REMOTE_PORT_TYPE f.(remote_port_low) ++
                       tft_port TFT_SINGLE_SRC_PORT_TYPE f.(local_port_low) ++
                       tft_address TFT_IPV4_SRC_ADDR_TYPE f.(local_ip_addr) local_mask ++
                       tft_address TFT_IPV4_REMOTE_ADDR_TYPE f.(remote_ip_addr) remote_mask) s2)
     else
       remote_mask ← address_mask f.(remote_ip_mask);
       local_mask ← address_mask f.(local_ip_mask);
       Some (tft_puts (tft_port TFT_SINGLE_REMOTE_PORT_TYPE f.(local_port_low) ++
                       tft_port TFT_SINGLE_SRC_PORT_TYPE f.(remote_port_low) ++
                       tft_address TFT_IPV4_SRC_ADDR_TYPE f.(remote_ip_addr) remote_mask ++
                       tft_address TFT_IPV4_REMOTE_ADDR_TYPE f.(local_ip_addr) local_mask) s2));
  Some (s3.1, <[Z.to_nat len_index := 2 + 3 + 3 + 5 + 4 + 5 + 4]> s3.2).

(** The flows of a rule; [num_pkt_filters] counts them over all rules. *)
Fixpoint tft_flows (precedence : Z) (n : Z) (flows : list flow_desc_t) (s : tft_state) : option (Z * tft_state) :=
  match flows with
  | [] => Some (n, s)
  | f :: flows' =>
      let n := u8 (n + 1) in
      s' ← tft_flow precedence n f.(sdf_flw_desc) s; tft_flows precedence n flows' s'
  end.
(** The first [num_flw_desc] entries of an array of 32. *)
Definition rule_flows (r : dynamic_rule_t) : option (list flow_desc_t) :=
  if r.(num_flw_desc) <=? Z.of_nat (length r.(flow_desc)) then Some (take (Z.to_nat r.(num_flw_desc)) r.(flow_desc)) else None.
Fixpoint tft_rules (n : Z) (rules : list dynamic_rule_t) (s : tft_state) : option tft_state :=
  match rules with
  | [] => Some s
  | r :: rules' =>
      flows ← rule_flows r;
      '(n', s') ← tft_flows r.(precedence) n flows s;
      tft_rules n' rules' s'
  end.

(** [rules] are the rules that the first [num_dynamic_filters] pointers refer to. *)
Definition set_bearer_tft (instance eps_bearer_lvl_tft : Z) (rules : list dynamic_rule_t)
    (tft : gtp_eps_bearer_lvl_traffic_flow_tmpl_ie_t) : option (Z * gtp_eps_bearer_lvl_traffic_flow_tmpl_ie_t) :=
  s ← tft_rules 0 rules (tft_put (eps_bearer_lvl_tft + TFT_CREATE_NEW)
                           (0, tft.(gtp_eps_bearer_lvl_traffic_flow_tmpl_eps_bearer_lvl_tft)));
  Some (u8 (s.1 + IE_HEADER_SIZE),
        mk_gtp_eps_bearer_lvl_traffic_flow_tmpl
          (set_ie_header GTP_IE_EPS_BEARER_LVL_TRAFFIC_FLOW_TMPL instance s.1) s.2).

(** ** A reader of templates *)

(** A packet filter as TS 24.008, 10.5.6.12 reads it: identifier, direction, precedence,
    protocol, ports, and addresses with their masks, as numbers. *)
Record tft_filter := mk_tft_filter {
  tf_id : Z; tf_direction : Z; tf_precedence : Z; tf_proto : Z;
  tf_remote_port : Z; tf_local_port : Z; tf_remote : Z * Z; tf_local : Z * Z;
}.
Definition be32 (a b c d : Z) : Z := 256 * (256 * (256 * a + b) + c) + d.

Fixpoint read_components (fuel : nat) (l : list Z) (p : tft_filter) : option tft_filter :=
  let 'mk_tft_filter i d pr proto rp lp ra la := p in
  match fuel, l with
  | _, [] => Some p
  | S n, 48 :: v :: r => read_components n r (mk_tft_filter i d pr v rp lp ra la)
  | S n, 80 :: h :: v :: r => read_components n r (mk_tft_filter i d pr proto (256 * h + v) lp ra la)
  | S n, 64 :: h :: v :: r => read_components n r (mk_tft_filter i d pr proto rp (256 * h + v) ra la)
  | S n, 16 :: a :: b :: c :: e :: m1 :: m2 :: m3 :: m4 :: r =>
      read_components n r (mk_tft_filter i d pr proto rp lp (be32 a b c e, be32 m1 m2 m3 m4) la)
  | S n, 17 :: a :: b :: c :: e :: m1 :: m2 :: m3 :: m4 :: r =>
      read_components n r (mk_tft_filter i d pr proto rp lp ra (be32 a b c e, be32 m1 m2 m3 m4))
  | _, _ => None
  end.

Fixpoint read_filters (fuel : nat) (l : list Z) : option (list tft_filter) :=
  match fuel, l with
  | _, [] => Some []
  | S n, b :: prec :: len :: r =>
      if len <=? Z.of_nat (length r) then
        p ← read_components (length r) (take (Z.to_nat len) r) (mk_tft_filter (b mod 16) (b / 16) prec 0 0 0 (0, 0) (0, 0));
        ps ← read_filters n (drop (Z.to_nat len) r);
        Some (p :: ps)
      else None
  | _, _ => None
  end.
(** The first byte has the operation and the number of filters. *)
Definition read_tft (l : list Z) : option (Z * Z * list tft_filter) :=
  match l with [] => None | b :: r => ps ← read_filters (length r) r; Some (b / 32, b mod 16, ps) end.

(** ** The filter of a flow *)

(** The numbers fit their members, and the masks have at least one bit. *)
Definition flow_ok (f : sdf_pkt_fltr_t) : Prop :=
  byte_ok f.(proto_id) ∧ 0 <= f.(local_port_low) < 65536 ∧ 0 <= f.(remote_port_low) < 65536 ∧
  0 <= f.(local_ip_addr) < 2 ^ 32 ∧ 0 <= f.(remote_ip_addr) < 2 ^ 32 ∧
  1 <= f.(local_ip_mask) <= 32 ∧ 1 <= f.(remote_ip_mask) <= 32 ∧ 0 <= f.(flt_direction) < 4.

(** A flow for the downlink keeps its sides; for the others local and remote change. *)
Definition mask_of (n : Z) : Z := 2 ^ 32 - 2 ^ (32 - n).
Definition flow_filter (prec n : Z) (f : sdf_pkt_fltr_t) : tft_filter :=
  let local := (htonl f.(local_ip_addr), mask_of f.(local_ip_mask)) in
  let remote := (htonl f.(remote_ip_addr), mask_of f.(remote_ip_mask)) in
  if f.(flt_direction) =? TFT_DIRECTION_DOWNLINK_ONLY
  then mk_tft_filter n f.(flt_direction) (u8 prec) f.(proto_id) f.(remote_port_low) f.(local_port_low) remote local
  else mk_tft_filter n f.(flt_direction) (u8 prec) f.(proto_id) f.(local_port_low) f.(remote_port_low) local remote.

Fixpoint flow_filters (prec n : Z) (flows : list flow_desc_t) : list tft_filter :=
  match flows with [] => [] | f :: l => flow_filter prec (n + 1) f.(sdf_flw_desc) :: flow_filters prec (n + 1) l end.
(** The filters of rules with their flows, numbered through. *)
Fixpoint rule_filters (n : Z) (rules : list (Z * list flow_desc_t)) : list tft_filter :=
  match rules with [] => [] | (prec, l) :: rest => flow_filters prec n l ++ rule_filters (n + Z.of_nat (length l)) rest end.

(** ** The template is read back *)

Lemma address_mask_ok n : 1 <= n <= 32 -> address_mask n = Some (mask_of n).
Proof.
  intros Hn. unfold address_mask. rewrite !(proj2 (Z.leb_le _ _)) by lia. cbn [andb]. f_equal.
  unfold mask_of, uwrap. rewrite Z.shiftl_mul_pow2 by lia.
  assert (0 < 2 ^ (32 - n)) by (apply Z.pow_pos_nonneg; lia).
  assert (2 ^ (32 - n) <= 2 ^ 31) by (apply Z.pow_le_mono_r; lia).
  replace (0xffffffff * 2 ^ (32 - n)) with ((2 ^ 32 - 2 ^ (32 - n)) + (2 ^ (32 - n) - 1) * 2 ^ 32) by lia.
  rewrite Z.mod_add by lia. apply Z.mod_small. lia.
Qed.
Lemma mask_of_range n : 1 <= n <= 32 -> 0 <= mask_of n < 2 ^ 32.
Proof.
  intros Hn. unfold mask_of. assert (0 < 2 ^ (32 - n)) by (apply Z.pow_pos_nonneg; lia).
  assert (2 ^ (32 - n) <= 2 ^ 31) by (apply Z.pow_le_mono_r; lia). lia.
Qed.

Lemma tft_puts_app l : ∀ i a b, i = Z.of_nat (length a) -> i + Z.of_nat (length l) < 256 -> (length l <= length b)%nat ->
  tft_puts l (i, a ++ b) = (i + Z.of_nat (length l), a ++ map u8 l ++ drop (length l) b).
Proof.
  induction l as [|v l IH]; intros i a b Hi Hb Hl; [cbn; f_equal; lia|].
  destruct b as [|x b]; [cbn in Hl; lia|]. cbn [length] in *. unfold tft_puts in *. cbn [foldl map drop].
  unfold tft_put at 2. cbn [fst snd].
  replace (<[Z.to_nat i := u8 v]> (a ++ x :: b)) with ((a ++ [u8 v]) ++ b)
    by (rewrite Hi, Nat2Z.id, <- (Nat.add_0_r (length a)), insert_app_r, <- app_assoc; done).
  rewrite (uwrap_small 8 (i + 1)) by lia. rewrite IH; [|rewrite length_app; cbn; lia|lia|lia].
  rewrite <- app_assoc. cbn [app]. f_equal. lia.
Qed.

(** The 29 bytes of a flow. *)
Definition flow_content (f : sdf_pkt_fltr_t) : list Z :=
  let down := f.(flt_direction) =? TFT_DIRECTION_DOWNLINK_ONLY in
  let '(p1, p2) := if down then (f.(remote_port_low), f.(local_port_low)) else (f.(local_port_low), f.(remote_port_low)) in
  let '(a1, m1) := if down then (f.(local_ip_addr), f.(local_ip_mask)) else (f.(remote_ip_addr), f.(remote_ip_mask)) in
  let '(a2, m2) := if down then (f.(remote_ip_addr), f.(remote_ip_mask)) else (f.(local_ip_addr), f.(local_ip_mask)) in
  tft_port TFT_SINGLE_REMOTE_PORT_TYPE p1 ++ tft_port TFT_SINGLE_SRC_PORT_TYPE p2 ++
  tft_address TFT_IPV4_SRC_ADDR_TYPE a1 (mask_of m1) ++ tft_address TFT_IPV4_REMOTE_ADDR_TYPE a2 (mask_of m2).
Definition flow_bytes (prec n : Z) (f : sdf_pkt_fltr_t) : list Z :=
  map u8 ([n + 16 * f.(flt_direction); prec; 26; TFT_PROTO_IDENTIFIER_NEXT_HEADER_TYPE; f.(proto_id)] ++ flow_content f).

Lemma length_flow_content f : length (flow_content f) = 24%nat.
Proof. unfold flow_content. by destruct (_ =? _). Qed.
Lemma length_flow_bytes prec n f : length (flow_bytes prec n f) = 29%nat.
Proof. unfold flow_bytes. by rewrite length_map, length_app, length_flow_content. Qed.

Lemma tft_flow_app prec n f i a b : flow_ok f -> i = Z.of_nat (length a) -> i + 29 < 256 -> (29 <= length b)%nat ->
  tft_flow prec n f (i, a ++ b) = Some (i + 29, a ++ flow_bytes prec n f ++ drop 29 b).
Proof.
  intros (Hp & Hlp & Hrp & Hla & Hra & Hlm & Hrm & Hd) Hi Hb Hl. unfold tft_flow.
  set (first := if _ =? TFT_DIRECTION_UPLINK_ONLY then _ else _).
  assert (first = n + 16 * f.(flt_direction)) as Hfirst.
  { unfold first, TFT_DIRECTION_UPLINK_ONLY, TFT_DIRECTION_DOWNLINK_ONLY, TFT_DIRECTION_BIDIRECTIONAL, TFT_UPLINK, TFT_DOWNLINK, TFT_BIDIRECTIONAL.
    repeat case_match; lia. }
  rewrite (tft_puts_app [first; prec]) by (cbn [length]; lia). cbn [fst snd length map].
  destruct b as [|x0 [|x1 [|x2 b]]]; try (cbn in Hl; lia). cbn [drop length] in Hl |- *. rewrite (uwrap_small 8 (i + Z.of_nat 2 + 1)) by lia.
  change (a ++ [u8 first; u8 prec] ++ x2 :: b) with (a ++ [u8 first; u8 prec; x2] ++ b). rewrite app_assoc.
  rewrite tft_puts_app by (rewrite ?length_app; cbn [length]; lia). cbn [length map].
  assert (E : ∀ s, (if f.(flt_direction) =? TFT_DIRECTION_DOWNLINK_ONLY then
       local_mask ← address_mask f.(local_ip_mask); remote_mask ← address_mask f.(remote_ip_mask);
       Some (tft_puts (tft_port TFT_SINGLE_REMOTE_PORT_TYPE f.(remote_port_low) ++ tft_port TFT_SINGLE_SRC_PORT_TYPE f.(local_port_low) ++
                       tft_address TFT_IPV4_SRC_ADDR_TYPE f.(local_ip_addr) local_mask ++
                       tft_address TFT_IPV4_REMOTE_ADDR_TYPE f.(remote_ip_addr) remote_mask) s)
     else
       remote_mask ← address_mask f.(remote_ip_mask); local_mask ← address_mask f.(local_ip_mask);
       Some (tft_puts (tft_port TFT_SINGLE_REMOTE_PORT_TYPE f.(local_port_low) ++ tft_port TFT_SINGLE_SRC_PORT_TYPE f.(remote_port_low) ++
                       tft_address TFT_IPV4_SRC_ADDR_TYPE f.(remote_ip_addr) remote_mask ++
                       tft_address TFT_IPV4_REMOTE_ADDR_TYPE f.(local_ip_addr) local_mask) s)) = Some (tft_puts (flow_content f) s)).
  { intros s. unfold flow_content. rewrite !address_mask_ok by lia. cbn [mbind option_bind].
    destruct (f.(flt_direction) =? TFT_DIRECTION_DOWNLINK_ONLY); reflexivity. }
  rewrite E. cbn [mbind option_bind]. clear E. rewrite app_assoc.
  rewrite tft_puts_app by (rewrite ?length_app, ?length_flow_content, ?length_drop; cbn [length]; lia).
  rewrite length_flow_content, drop_drop. cbn [fst snd]. f_equal. f_equal; [lia|].
  replace (((a ++ [u8 first; u8 prec; x2]) ++ [u8 TFT_PROTO_IDENTIFIER_NEXT_HEADER_TYPE; u8 (proto_id f)]) ++ map u8 (flow_content f) ++ drop (2 + 24) b)
    with ((a ++ [u8 first; u8 prec]) ++ x2 :: [u8 TFT_PROTO_IDENTIFIER_NEXT_HEADER_TYPE; u8 (proto_id f)] ++ map u8 (flow_content f) ++ drop 26 b)
    by (rewrite <- !app_assoc; done).
  replace (Z.to_nat (i + Z.of_nat 2)) with (length (a ++ [u8 first; u8 prec]) + 0)%nat by (rewrite length_app; cbn [length]; lia).
  rewrite insert_app_r. unfold flow_bytes. rewrite map_app, Hfirst, <- !app_assoc. done.
Qed.

Fixpoint flows_bytes (prec n : Z) (flows : list flow_desc_t) : list Z :=
  match flows with [] => [] | f :: l => flow_bytes prec (n + 1) f.(sdf_flw_desc) ++ flows_bytes prec (n + 1) l end.
Fixpoint rules_bytes (n : Z) (rules : list (Z * list flow_desc_t)) : list Z :=
  match rules with [] => [] | (prec, l) :: rest => flows_bytes prec n l ++ rules_bytes (n + Z.of_nat (length l)) rest end.
Definition flows_number (rules : list (Z * list flow_desc_t)) : nat := list_sum (map (fun r => length r.2) rules).

Lemma length_flows_bytes prec n flows : length (flows_bytes prec n flows) = (29 * length flows)%nat.
Proof.
  revert n. induction flows as [|f l IH]; intros n; [done|]. cbn [flows_bytes length]. rewrite length_app, length_flow_bytes, IH. lia.
Qed.
Lemma length_rules_bytes n rules : length (rules_bytes n rules) = (29 * flows_number rules)%nat.
Proof.
  revert n. induction rules as [|[prec l] rest IH]; intros n; [done|]. cbn [rules_bytes].
  unfold flows_number in *. cbn [map list_sum snd foldr]. rewrite length_app, length_flows_bytes, IH. unfold list_sum. lia.
Qed.

Lemma tft_flows_app prec flows : ∀ n i a b, Forall (fun f => flow_ok f.(sdf_flw_desc)) flows -> 0 <= n ->
  n + Z.of_nat (length flows) < 256 -> i = Z.of_nat (length a) -> i + 29 * Z.of_nat (length flows) < 256 ->
  (29 * length flows <= length b)%nat ->
  tft_flows prec n flows (i, a ++ b) =
  Some (n + Z.of_nat (length flows),
        (i + 29 * Z.of_nat (length flows), a ++ flows_bytes prec n flows ++ drop (29 * length flows) b)).
Proof.
  induction flows as [|f l IH]; intros n i a b HF Hn Hm Hi Hb Hl.
  - cbn [tft_flows length flows_bytes Nat.mul drop app]. do 2 f_equal; [lia|f_equal; lia].
  - apply Forall_cons_1 in HF as [Hf HF]. cbn [length] in *. cbn [tft_flows flows_bytes].
    rewrite (uwrap_small 8 (n + 1)) by lia. rewrite (tft_flow_app prec (n + 1) _ i a b Hf Hi) by lia. cbn [mbind option_bind].
    rewrite app_assoc. rewrite IH; [|done|lia|lia|rewrite length_app, length_flow_bytes; lia|lia|rewrite length_drop; lia].
    rewrite drop_drop, <- !app_assoc. replace (29 * S (length l))%nat with (29 + 29 * length l)%nat by lia.
    do 2 f_equal; [lia|f_equal; lia].
Qed.

(** Rules whose flows are in their arrays. *)
Definition rule_of (r : dynamic_rule_t) (p : Z * list flow_desc_t) : Prop :=
  r.(precedence) = p.1 ∧ rule_flows r = Some p.2.

Lemma tft_rules_app rules ps : Forall2 rule_of rules ps -> ∀ n i a b,
  Forall (fun p => Forall (fun f => flow_ok f.(sdf_flw_desc)) p.2) ps -> 0 <= n ->
  n + Z.of_nat (flows_number ps) < 256 -> i = Z.of_nat (length a) -> i + 29 * Z.of_nat (flows_number ps) < 256 ->
  (29 * flows_number ps <= length b)%nat ->
  tft_rules n rules (i, a ++ b) = Some (i + 29 * Z.of_nat (flows_number ps), a ++ rules_bytes n ps ++ drop (29 * flows_number ps) b).
Proof.
  induction 1 as [|r [prec l] rules ps [Hr1 Hr2] HF2 IH]; intros n i a b HF Hn Hm Hi Hb Hl.
  - cbn [tft_rules rules_bytes app]. change (flows_number []) with 0%nat. cbn [Nat.mul drop]. do 2 f_equal. lia.
  - apply Forall_cons_1 in HF as [Hf HF]. cbn [fst snd] in *.
    assert (E : flows_number ((prec, l) :: ps) = (length l + flows_number ps)%nat) by done. rewrite E in *.
    cbn [tft_rules rules_bytes]. rewrite Hr2, Hr1. cbn [mbind option_bind].
    rewrite (tft_flows_app prec l n i a b Hf) by lia. cbn [mbind option_bind]. rewrite app_assoc.
    rewrite IH; [|done|lia|lia|rewrite length_app, length_flows_bytes; lia|lia|rewrite length_drop; lia].
    rewrite drop_drop, <- !app_assoc.
    replace (29 * (length l + flows_number ps))%nat with (29 * length l + 29 * flows_number ps)%nat by lia.
    do 2 f_equal. lia.
Qed.

(** ** Reading the bytes of a flow *)

Lemma low_byte v : u8 (Z.land v 0xff) = u8 v.
Proof. change 0xff with (Z.ones 8). rewrite Z.land_ones by lia. unfold uwrap. by rewrite Z.mod_mod by lia. Qed.
Lemma port_bytes p : 0 <= p < 65536 -> 256 * u8 (Z.land (Z.shiftr p 8) 0xff) + u8 (Z.land p 0xff) = p.
Proof. intros Hp. rewrite !low_byte, Z.shiftr_div_pow2 by lia. unfold uwrap. change (2 ^ 8) with 256. Z.div_mod_to_equations. lia. Qed.
Lemma mask_bytes m : 0 <= m < 2 ^ 32 ->
  be32 (u8 (Z.land (Z.shiftr m 24) 0xff)) (u8 (Z.land (Z.shiftr m 16) 0xff)) (u8 (Z.land (Z.shiftr m 8) 0xff)) (u8 (Z.land m 0xff)) = m.
Proof.
  intros Hm. rewrite !low_byte, !Z.shiftr_div_pow2 by lia. unfold be32, uwrap.
  change (2 ^ 8) with 256. change (2 ^ 16) with 65536. change (2 ^ 24) with 16777216. change (2 ^ 32) with 4294967296 in Hm.
  Z.div_mod_to_equations. lia.
Qed.
Lemma addr_bytes a :
  be32 (u8 (Z.land a 0xff)) (u8 (Z.land (Z.shiftr a 8) 0xff)) (u8 (Z.land (Z.shiftr a 16) 0xff)) (u8 (Z.land (Z.shiftr a 24) 0xff)) = htonl a.
Proof.
  rewrite !low_byte, !Z.shiftr_div_pow2 by lia. unfold be32, htonl, bswap32. cbn [le_bytes rev app of_le_bytes].
  change (2 ^ 16) with (256 * 256). change (2 ^ 24) with (256 * 256 * 256). rewrite <- !Z.div_div by lia. change (2 ^ 8) with 256. 
  rewrite Z.mul_0_r, Z.add_0_r. lia.
Qed.

Lemma read_flow_content k f p : flow_ok f ->
  read_components (5 + k) (map u8 (TFT_PROTO_IDENTIFIER_NEXT_HEADER_TYPE :: f.(proto_id) :: flow_content f)) p =
  Some (let '(mk_tft_filter n d _ _ _ _ _ _) := p in
        let '(mk_tft_filter _ _ _ pr rp lp ra la) := flow_filter 0 0 f in mk_tft_filter n d p.(tf_precedence) pr rp lp ra la).
Proof.
  intros (Hp & Hlp & Hrp & Hla & Hra & Hlm & Hrm & Hd). destruct p as [n d pr ? ? ? ? ?].
  pose proof (mask_of_range _ Hlm). pose proof (mask_of_range _ Hrm).
  unfold flow_content, flow_filter, tft_port, tft_address. destruct (f.(flt_direction) =? TFT_DIRECTION_DOWNLINK_ONLY); cbn [map app].
  all: change (u8 TFT_PROTO_IDENTIFIER_NEXT_HEADER_TYPE) with 48; change (u8 TFT_SINGLE_REMOTE_PORT_TYPE) with 80;
    change (u8 TFT_SINGLE_SRC_PORT_TYPE) with 64; change (u8 TFT_IPV4_SRC_ADDR_TYPE) with 17; change (u8 TFT_IPV4_REMOTE_ADDR_TYPE) with 16.
  all: cbn [Nat.add read_components]; rewrite !port_bytes, !addr_bytes, !mask_bytes, (uwrap_small 8 (proto_id f)) by done; cbn [tf_precedence].
  all: destruct k; done.
Qed.

Lemma read_filters_flow fuel prec n f rest : flow_ok f -> 0 <= n < 16 ->
  read_filters (S fuel) (flow_bytes prec n f ++ rest) = (ps ← read_filters fuel rest; Some (flow_filter prec n f :: ps)).
Proof.
  intros Hf Hn. pose proof Hf as (_ & _ & _ & _ & _ & _ & _ & Hd).
  set (c := map u8 (TFT_PROTO_IDENTIFIER_NEXT_HEADER_TYPE :: f.(proto_id) :: flow_content f)).
  assert (Hc : length c = 26%nat) by (unfold c; rewrite length_map; cbn [length]; by rewrite length_flow_content).
  change (flow_bytes prec n f) with ([u8 (n + 16 * f.(flt_direction)); u8 prec; u8 26] ++ c). cbn [app read_filters].
  change (u8 26) with 26. rewrite (uwrap_small 8 (n + _)) by lia. rewrite length_app, (proj2 (Z.leb_le _ _)) by lia.
  change (Z.to_nat 26) with 26%nat. 
  replace (take 26 (c ++ rest)) with c by (by rewrite <- Hc, take_app_length).
  replace (drop 26 (c ++ rest)) with rest by (by rewrite <- Hc, drop_app_length).
  replace (length c + length rest)%nat with (5 + (21 + length rest))%nat by lia.
  unfold c. rewrite read_flow_content by done. cbn [mbind option_bind tf_precedence].
  replace ((n + 16 * f.(flt_direction)) mod 16) with n by (Z.div_mod_to_equations; lia).
  replace ((n + 16 * f.(flt_direction)) / 16) with f.(flt_direction) by (Z.div_mod_to_equations; lia).
  unfold flow_filter. by destruct (_ =? _).
Qed.

Lemma read_filters_flows prec flows : ∀ fuel n rest, Forall (fun f => flow_ok f.(sdf_flw_desc)) flows -> 0 <= n ->
  n + Z.of_nat (length flows) < 16 ->
  read_filters (length flows + fuel) (flows_bytes prec n flows ++ rest) =
  (ps ← read_filters fuel rest; Some (flow_filters prec n flows ++ ps)).
Proof.
  induction flows as [|f l IH]; intros fuel n rest HF Hn Hm.
  - cbn [length Nat.add flows_bytes app flow_filters]. by destruct (read_filters _ _).
  - apply Forall_cons_1 in HF as [Hf HF]. cbn [length] in *. cbn [flows_bytes flow_filters Nat.add].
    rewrite <- app_assoc, read_filters_flow by (done || lia). rewrite IH by (done || lia). by destruct (read_filters fuel rest).
Qed.
Lemma read_filters_rules rules : ∀ fuel n, Forall (fun p => Forall (fun f => flow_ok f.(sdf_flw_desc)) p.2) rules -> 0 <= n ->
  n + Z.of_nat (flows_number rules) < 16 ->
  read_filters (flows_number rules + fuel) (rules_bytes n rules) = Some (rule_filters n rules).
Proof.
  induction rules as [|[prec l] rules IH]; intros fuel n HF Hn Hm; [by destruct fuel|].
  apply Forall_cons_1 in HF as [Hf HF]. assert (E : flows_number ((prec, l) :: rules) = (length l + flows_number rules)%nat) by done.
  rewrite E in *. cbn [rules_bytes rule_filters snd] in *. rewrite <- Nat.add_assoc, read_filters_flows by (done || lia).
  rewrite IH by (done || lia). done.
Qed.

(** ** Properties of templates *)

(** C15: The traffic flow template of a bearer with up to eight flows, of masks between 1 and
    32 bits, is read back by the rules of TS 24.008 as one packet filter per flow of the
    rules, numbered from 1 on, with the direction, precedence, protocol, ports and
    addresses of the flow; the length of the element and the returned size are those of
    its content. *)
Theorem bearer_tft_read instance lvl rules ps tft :
  Forall2 rule_of rules ps -> Forall (fun p => Forall (fun f => flow_ok f.(sdf_flw_desc)) p.2) ps ->
  (flows_number ps <= 8)%nat -> 0 <= lvl < 16 ->
  length tft.(gtp_eps_bearer_lvl_traffic_flow_tmpl_eps_bearer_lvl_tft) = 257%nat ->
  let len := 1 + 29 * Z.of_nat (flows_number ps) in
  ∃ tft', set_bearer_tft instance lvl rules tft = Some (len + IE_HEADER_SIZE, tft') ∧
    tft'.(gtp_eps_bearer_lvl_traffic_flow_tmpl_header) = mk_gie GTP_IE_EPS_BEARER_LVL_TRAFFIC_FLOW_TMPL len (u8 instance) ∧
    read_tft (take (Z.to_nat len) tft'.(gtp_eps_bearer_lvl_traffic_flow_tmpl_eps_bearer_lvl_tft)) =
      Some (1, lvl, rule_filters 0 ps).
Proof.
  intros HR HF Hn Hlvl Harr len. unfold set_bearer_tft.
  destruct (gtp_eps_bearer_lvl_traffic_flow_tmpl_eps_bearer_lvl_tft tft) as [|x arr]; [done|].
  injection Harr as Harr. unfold tft_put. cbn [fst snd]. change (u8 (0 + 1)) with 1. 
  change (<[Z.to_nat 0 := ?v]> (x :: arr)) with ([v] ++ arr). unfold TFT_CREATE_NEW. rewrite (uwrap_small 8 (lvl + 32)) by lia.
  rewrite (tft_rules_app rules ps HR 0 1 [lvl + 32] arr HF) by (cbn [length]; lia). cbn [mbind option_bind fst snd].
  fold len. eexists. split; [f_equal; f_equal; apply uwrap_small; unfold len, IE_HEADER_SIZE; lia|]. cbn [
    gtp_eps_bearer_lvl_traffic_flow_tmpl_header gtp_eps_bearer_lvl_traffic_flow_tmpl_eps_bearer_lvl_tft]. split.
  { unfold set_ie_header. by rewrite (uwrap_small 16 len) by (unfold len; lia). }
  replace (Z.to_nat len) with (S (29 * flows_number ps))%nat by (unfold len; lia). cbn [app take].
  rewrite <- (length_rules_bytes 0 ps), take_app_length. unfold read_tft.
  rewrite length_rules_bytes. replace (29 * flows_number ps)%nat with (flows_number ps + 28 * flows_number ps)%nat by lia.
  rewrite (read_filters_rules ps _ 0 HF) by lia. cbn [mbind option_bind].
  replace ((lvl + 32) / 32) with 1 by (Z.div_mod_to_equations; lia). by replace ((lvl + 32) mod 16) with lvl by (Z.div_mod_to_equations; lia).
Qed.

(** A flow from 10.1.1.0/24, port 5060, to the terminal 16.0.0.1. *)
Definition example_flow (dir : Z) : flow_desc_t :=
  mk_flow dir (mk_fltr 17 255 dir 0 24 32 5060 5060 0 0 (of_le_bytes [10; 1; 1; 0]) (of_le_bytes [16; 0; 0; 1])) (repeat 0 512) 0.
Definition example_tft_rule (n : nat) (flow : flow_desc_t) : dynamic_rule_t :=
  mk_rule 0 0 0 0 9 0 0 0 "r" (repeat 0 256) zero_qos (Z.of_nat n) (repeat flow n ++ repeat zero_flow (32 - n)) [None; None].
Definition example_template : gtp_eps_bearer_lvl_traffic_flow_tmpl_ie_t := zero_gtp_eps_bearer_lvl_traffic_flow_tmpl.

Lemma bearer_tft_read_witness :
  ∃ tft', set_bearer_tft 0 2 [example_tft_rule 2 (example_flow 3)] example_template = Some (63, tft') ∧
    tft'.(gtp_eps_bearer_lvl_traffic_flow_tmpl_header) = mk_gie GTP_IE_EPS_BEARER_LVL_TRAFFIC_FLOW_TMPL 59 0 ∧
    read_tft (take 59 tft'.(gtp_eps_bearer_lvl_traffic_flow_tmpl_eps_bearer_lvl_tft)) =
      Some (1, 2, rule_filters 0 [(9, [example_flow 3; example_flow 3])]).
Proof.
  apply (bearer_tft_read 0 2 [example_tft_rule 2 (example_flow 3)] [(9, [example_flow 3; example_flow 3])] example_template).
  - repeat constructor.
  - repeat constructor; cbn; lia.
  - cbn. lia.
  - lia.
  - reflexivity.
Defined.

(** The index of the template is a [uint8_t]: with a ninth flow it passes the end, and the
    element has length 6 instead of 262. *)
Example nine_flows_wrap :
  (p ← set_bearer_tft 0 9 [example_tft_rule 9 (example_flow 3)] example_template;
   Some (p.1, p.2.(gtp_eps_bearer_lvl_traffic_flow_tmpl_header))) =
  Some (10, mk_gie GTP_IE_EPS_BEARER_LVL_TRAFFIC_FLOW_TMPL 6 0).
Proof. vm_compute. reflexivity. Qed.

(** For a flow of the downlink, whose filter is written from the network to the terminal,
    the terminal becomes the remote side; for the other directions it is the local side. *)
Example downlink_sides_swapped :
  (flow_filter 9 1 (example_flow 1).(sdf_flw_desc)).(tf_remote) = (of_le_bytes [1; 0; 0; 16], mask_of 32) ∧
  (flow_filter 9 1 (example_flow 2).(sdf_flw_desc)).(tf_local) = (of_le_bytes [1; 0; 0; 16], mask_of 32).
Proof. split; vm_compute; reflexivity. Qed.

(** ** Flows without mask *)

Definition no_mask (f : flow_desc_t) : Prop := f.(sdf_flw_desc).(local_ip_mask) = 0 ∨ f.(sdf_flw_desc).(remote_ip_mask) = 0.

Lemma tft_flow_no_mask prec n f s : no_mask f -> tft_flow prec n f.(sdf_flw_desc) s = None.
Proof.
  intros Hm. unfold tft_flow. match goal with |- mbind _ ?o = None => enough (o = None) as -> by done end.
  assert (E : address_mask 0 = None) by done.
  destruct (_ =? TFT_DIRECTION_DOWNLINK_ONLY), Hm as [-> | ->]; rewrite E; cbn [mbind option_bind]; try done.
  all: match goal with |- context [address_mask ?m] => by destruct (address_mask m) end.
Qed.
Lemma tft_flows_no_mask prec flows : Exists no_mask flows -> ∀ n s, tft_flows prec n flows s = None.
Proof.
  induction 1 as [f l Hf|f l HE IH]; intros n s; cbn [tft_flows].
  - by rewrite tft_flow_no_mask.
  - destruct (tft_flow _ _ _ _) as [s'|]; [|done]. cbn [mbind option_bind]. apply IH.
Qed.

(** A flow whose source or destination has no mask, as for the address [any], makes the
    shift for the mask one by 32, which C does not define. *)
Theorem any_address_undefined instance lvl rules tft r flows :
  r ∈ rules -> rule_flows r = Some flows -> Exists no_mask flows -> set_bearer_tft instance lvl rules tft = None.
Proof.
  intros Hin Hr HE. unfold set_bearer_tft. enough (∀ n s, tft_rules n rules s = None) as -> by done.
  induction Hin as [r rules|r r' rules Hin IH]; intros n s; cbn [tft_rules].
  - rewrite Hr. cbn [mbind option_bind]. by rewrite (tft_flows_no_mask _ _ HE).
  - destruct (rule_flows r') as [fl|]; [|done]. cbn [mbind option_bind].
    destruct (tft_flows _ _ _ _) as [[n' s']|]; [|done]. cbn [mbind option_bind]. by apply IH.
Qed.

(** The rule that a policy server sends for all traffic. *)
Definition permit_any : sdf_pkt_fltr_t := mk_fltr 0 0 0 0 0 32 0 0 0 0 0 (of_le_bytes [16; 0; 0; 1]).
Example permit_any_undefined :
  fill_sdf_strctr (of_le_bytes [16; 0; 0; 1]) (repeat 0 32) (str_bytes "permit out ip from any to assigned" ++ [0]) zero_fltr =
    Some (0, permit_any) ∧
  set_bearer_tft 0 1 [example_tft_rule 1 (mk_flow 3 permit_any (repeat 0 512) 0)] example_template = None.
Proof. split; vm_compute; reflexivity. Qed.
