(* ===== verification/GtpSend.v ===== *)
(** * GTPv2 messages of the gateway, built in the buffer

    Echo responses (src/cp/gtpv2/msg/gtpv2_echo.c), downlink data notifications
    (downlink_data_notification.c), the answer that access bearers are released
    (release_access_bearer.c) and the create session response of a separate PGW
    (src/cp/procedures/proc_initial_attach.c), with the functions of [GtpTxBuf]; and the
    dispatch of received messages (src/cp/gtpv2/common/gtpv2_interface.c).

    Numbers that are written into the buffer as they are come out least significant byte
    first.  The tunnel ids are swapped before; the sequence number is not, so that it
    returns unchanged only if it was also read from the buffer as it is. *)

From S2P Require Import Prelude EncDecBits PfcpIesOptional PfcpSetIe GtpIes GtpIesDecoder GtpIesOptional GtpMsgs PfcpSession GtpTxBuf.

#[local] Set Warnings "-clear-no-such-hyp".

(** ** Types of messages (src/libgtpv2c/include/util.h) *)

Definition GTP_ECHO_REQ : Z := 1.
Definition GTP_ECHO_RSP : Z := 2.
Definition GTP_VERSION_NOT_SUPPORTED_IND : Z := 3.
Definition GTP_CREATE_SESSION_REQ : Z := 32.
Definition GTP_CREATE_SESSION_RSP : Z := 33.
Definition GTP_MODIFY_BEARER_REQ : Z := 34.
Definition GTP_MODIFY_BEARER_RSP : Z := 35.
Definition GTP_DELETE_SESSION_REQ : Z := 36.
Definition GTP_DELETE_SESSION_RSP : Z := 37.
Definition GTP_CREATE_BEARER_REQ : Z := 95.
Definition GTP_CREATE_BEARER_RSP : Z := 96.
Definition GTP_DELETE_BEARER_RSP : Z := 100.
Definition GTP_RELEASE_ACCESS_BEARERS_REQ : Z := 170.
Definition GTP_RELEASE_ACCESS_BEARERS_RSP : Z := 171.
Definition GTP_DOWNLINK_DATA_NOTIFICATION : Z := 176.
Definition GTP_DOWNLINK_DATA_NOTIFICATION_ACK : Z := 177.
Definition GTPV2C_CAUSE_CONTEXT_NOT_FOUND : Z := 64.
Definition GTPV2C_IFTYPE_S5S8_PGW_GTPU : Z := 5.
Definition GTPV2C_IFTYPE_S5S8_PGW_GTPC : Z := 7.

(** ** Echo *)

Definition set_gtpv2c_echo (rstCnt teid_flag type teid seq : Z) : txM unit :=
  _ ← set_gtpv2c_header_buf teid_flag type teid seq;
  _ ← set_recovery_ie rstCnt GTP_IE_INSTANCE_ZERO;
  mret tt.

(** The sequence number as the structure has it, without and with tunnel id. *)
Definition raw_no_teid_seq (rx : list Z) : Z := of_le_bytes (take 3 (drop 4 rx)).
Definition raw_has_teid_seq (rx : list Z) : Z := of_le_bytes (take 3 (drop 8 rx)).
Definition raw_teid_flag (rx : list Z) : Z := if Z.testbit (byteat rx 0) 3 then 1 else 0.

Definition process_echo_request (rstCnt : Z) (gtpv2c_rx : list Z) : txM Z :=
  _ ← set_gtpv2c_echo rstCnt (raw_teid_flag gtpv2c_rx) GTP_ECHO_RSP 0 (raw_no_teid_seq gtpv2c_rx);
  mret 0.

(** ** Downlink data notification *)

Definition set_downlink_data_notification (sequence s11_mme_gtpc_teid : Z) (bearer : eps_bearer_t) : txM unit :=
  _ ← set_gtpv2c_teid_header_buf GTP_DOWNLINK_DATA_NOTIFICATION (htonl s11_mme_gtpc_teid) sequence;
  _ ← set_ebi_ie GTP_IE_INSTANCE_ZERO bearer.(eps_bearer_id);
  _ ← set_ar_priority_ie GTP_IE_INSTANCE_ZERO bearer;
  mret tt.

(** [eps_bearers] are the bearers the pointers of the context refer to. *)
Definition create_downlink_data_notification (s11_mme_gtpc_teid : Z) (eps_bearers : list (option eps_bearer_t))
    (eps_bearer_id sequence : Z) : txM Z :=
  if eps_bearer_id <? 5 then fun _ => None else
  match eps_bearers !! Z.to_nat (eps_bearer_id - 5) with
  | None => fun _ => None
  | Some None => mret GTPV2C_CAUSE_CONTEXT_NOT_FOUND
  | Some (Some bearer) => _ ← set_downlink_data_notification sequence s11_mme_gtpc_teid bearer; mret 0
  end.

(** ** Release of access bearers *)

Definition set_release_access_bearer_response (sequence s11_mme_gtpc_teid : Z) : txM unit :=
  _ ← set_gtpv2c_teid_header_buf GTP_RELEASE_ACCESS_BEARERS_RSP (htonl s11_mme_gtpc_teid) sequence;
  _ ← set_cause_accepted_ie GTP_IE_INSTANCE_ZERO;
  mret tt.

(** ** Create session response of a PGW *)

(** The members of [pdn_connection_t] that the messages read. *)
Record pdn_rsp := mk_pdn_rsp {
  rsp_pgw_gtpc_teid : Z; (* s5s8_pgw_gtpc_teid *)
  rsp_pgw_gtpc_ipv4 : Z; (* s5s8_pgw_gtpc_ipv4.s_addr *)
  rsp_sgw_gtpc_teid : Z; (* s5s8_sgw_gtpc_teid *)
  rsp_ipv4 : Z; (* ipv4.s_addr *)
  rsp_apn_restriction : Z;
  rsp_ambr_uplink : Z;
  rsp_ambr_downlink : Z;
}.

Definition set_pgwc_s5s8_create_session_response (sequence : Z) (pdn : pdn_rsp) (bearer : eps_bearer_t) : txM unit :=
  _ ← set_gtpv2c_teid_header_buf GTP_CREATE_SESSION_RSP pdn.(rsp_sgw_gtpc_teid) sequence;
  _ ← set_cause_accepted_ie GTP_IE_INSTANCE_ZERO;
  _ ← set_ipv4_fteid_ie GTPV2C_IFTYPE_S5S8_PGW_GTPC GTP_IE_INSTANCE_ONE pdn.(rsp_pgw_gtpc_ipv4) (htonl pdn.(rsp_pgw_gtpc_teid));
  _ ← set_ipv4_paa_ie GTP_IE_INSTANCE_ZERO pdn.(rsp_ipv4);
  _ ← set_apn_restriction_ie GTP_IE_INSTANCE_ZERO pdn.(rsp_apn_restriction);
  bearer_context_group ← create_bearer_context_ie GTP_IE_INSTANCE_ZERO;
  _ ← (n ← set_ebi_ie GTP_IE_INSTANCE_ZERO bearer.(eps_bearer_id); add_grouped_ie_length bearer_context_group n);
  _ ← (n ← set_cause_accepted_ie GTP_IE_INSTANCE_ZERO; add_grouped_ie_length bearer_context_group n);
  _ ← (n ← set_bearer_qos_ie GTP_IE_INSTANCE_ZERO bearer; add_grouped_ie_length bearer_context_group n);
  (n ← set_ipv4_fteid_ie GTPV2C_IFTYPE_S5S8_PGW_GTPU GTP_IE_INSTANCE_ZERO bearer.(s5s8_pgw_gtpu_ipv4)
         (htonl bearer.(s5s8_pgw_gtpu_teid)); add_grouped_ie_length bearer_context_group n).

(** ** Dispatch *)

(** The handlers of the table [gtp_msg_handler]. *)
Inductive gtp_handler :=
| handle_unknown_msg | handle_echo_request | handle_echo_response | handle_create_session_request
| handle_modify_bearer_request | handle_delete_session_request | handle_rab_request | handle_ddn_ack
| handle_create_bearer_response_msg | handle_delete_bearer_response_msg.

Definition gtp_msg_handler (type : Z) : gtp_handler :=
  if type =? GTP_ECHO_REQ then handle_echo_request
  else if type =? GTP_ECHO_RSP then handle_echo_response
  else if type =? GTP_CREATE_SESSION_REQ then handle_create_session_request
  else if type =? GTP_MODIFY_BEARER_REQ then handle_modify_bearer_request
  else if type =? GTP_DELETE_SESSION_REQ then handle_delete_session_request
  else if type =? GTP_RELEASE_ACCESS_BEARERS_REQ then handle_rab_request
  else if type =? GTP_DOWNLINK_DATA_NOTIFICATION_ACK then handle_ddn_ack
  else if type =? GTP_CREATE_BEARER_RSP then handle_create_bearer_response_msg
  else if type =? GTP_DELETE_BEARER_RSP then handle_delete_bearer_response_msg
  else handle_unknown_msg.

(** What becomes of the received message: it is freed here, it belongs to somebody else,
    or nobody frees it. *)
Inductive msg_fate := MsgFreed | MsgKept | MsgLeaked.
(** What a handler leaves: the pointer it may have set to NULL, and the count of owners. *)
Record handler_result := mk_result { msg_null : bool; msg_refCnt : Z }.

(** The handler that is called and the fate of the message; [version_error] says that the
    indication of an unsupported version is sent. *)
Definition process_gtp_msg (run : gtp_handler -> handler_result) (raw_buf : list Z) : option gtp_handler * bool * msg_fate :=
  let version := byteat raw_buf 0 / 32 in
  if version <? GTP_VERSION_GTPV2C then (None, false, MsgFreed)
  else if GTP_VERSION_GTPV2C <? version then (None, true, MsgLeaked)
  else
    let h := gtp_msg_handler (byteat raw_buf 1) in
    let r := run h in
    (Some h, false, if r.(msg_null) then MsgKept else if r.(msg_refCnt) =? 0 then MsgFreed else MsgKept).

(** ** The elements of the messages *)

Lemma appends_step {B} m room E (k : Z -> txM B) f ty rest els tail : appends m room E ->
  Z.of_nat (length rest) + tx_total els + tx_size (E tail) <= MAX_GTPV2C_LENGTH -> (room <= length tail)%nat ->
  ∃ tail', mbind k m (tx_msg f ty rest els tail) = k (tx_size (E tail)) (tx_msg f ty rest (els ++ [E tail]) tail') ∧
    Z.of_nat (length tail') + tx_size (E tail) = Z.of_nat (length tail).
Proof. intros Ha Hm Hr. destruct (Ha f ty rest els tail Hm Hr) as (t & E1 & Hl). exists t. split; [by erewrite tx_mbind by exact E1|done]. Qed.

(** The header of a message in the buffer, as the decoder of libgtpv2c reads it. *)
Definition swap24 (v : Z) : Z := of_be_bytes (le_bytes 3 v).

Lemma of_be_le_4 v : of_be_bytes (le_bytes 4 (htonl v)) = uwrap 32 v.
Proof.
  unfold htonl, bswap32. pose proof (le_of_le_bytes (rev (le_bytes 4 v)) ltac:(apply Forall_rev, bytes_ok_le_bytes)) as E.
  rewrite length_rev, length_le_bytes in E. rewrite E.
  cbn [le_bytes rev app of_be_bytes foldl]. unfold uwrap. change (2 ^ 32) with (256 * 256 * 256 * 256). change (2 ^ 8) with 256.
  Z.div_mod_to_equations. lia.
Qed.

Lemma decode_built_header type teid seq spare els tail : 0 <= type < 256 ->
  8 + tx_total els <= MAX_GTPV2C_LENGTH ->
  decode_gtpv2c_header_t zero_gtpv2c_header (tx_msg (header_flags 1) type (header_rest 1 (htonl teid) seq spare) els tail) =
  Some (12, mk_gtpv2c_header 0 1 0 2 type (8 + tx_total els) (uwrap 32 teid) (swap24 seq) 0).
Proof.
  intros Ht Hm. unfold MAX_GTPV2C_LENGTH, MAX_GTPV2C_UDP_LEN in Hm. pose proof (tx_total_nonneg els).
  unfold tx_msg, header_rest. pose proof (of_be16_be16 (8 + tx_total els) ltac:(lia)) as Hl.
  change (Z.of_nat (length _)) with 8. unfold be16 in Hl |- *. cbn [of_be16] in Hl.
  rewrite !(uwrap_small 8 (u8 _)) in Hl by (apply (uwrap_range 8); lia).
  rewrite <- (of_be_le_4 teid). unfold swap24. cbn [le_bytes app Z.eqb].
  rewrite decode_header_teid by done. by rewrite Hl.
Qed.

(** The sequence number is read as it was set if its outer bytes are equal. *)
Lemma swap24_spec seq : 0 <= seq < 2 ^ 24 -> (swap24 seq = seq <-> seq mod 256 = seq / 65536).
Proof.
  intros Hs. unfold swap24, of_be_bytes. cbn [le_bytes foldl]. unfold uwrap. change (2 ^ 24) with 16777216 in Hs. change (2 ^ 8) with 256.
  split; intros E; Z.div_mod_to_equations; lia.
Qed.

(** Room for a message of a few elements. *)
Ltac tx_room := unfold MAX_GTPV2C_LENGTH, MAX_GTPV2C_UDP_LEN in *;
  change (header_length (header_flags 1)) with 8 in *; change (header_length (header_flags 0)) with 4 in *;
  repeat match goal with
  | |- context [tx_size ?e] => let n := eval cbv in (tx_size e) in change (tx_size e) with n
  | |- context [tx_total ?e] => let n := eval cbv in (tx_total e) in change (tx_total e) with n
  | H : context [tx_size ?e] |- _ => let n := eval cbv in (tx_size e) in change (tx_size e) with n in H
  | H : context [tx_total ?e] |- _ => let n := eval cbv in (tx_total e) in change (tx_total e) with n in H
  end; lia.
Ltac tx_ok_all := repeat (apply Forall_cons_2; [repeat split; first [done | vm_compute; congruence]|]); apply Forall_nil_2.

Lemma raw_seq_built type teid seq spare els tail :
  raw_has_teid_seq (tx_msg (header_flags 1) type (header_rest 1 teid seq spare) els tail) = uwrap 24 seq.
Proof. exact (of_le_le_bytes 3 seq). Qed.

(** A downlink data notification names the bearer and its priority and goes to the tunnel
    id of the MME.  Its sequence number is in the buffer as the number of the transaction:
    an acknowledge that repeats the three bytes finds the transaction. *)
Theorem ddn_built seq teid bearers ebi bearer b :
  Z.of_nat (length b) = MAX_GTPV2C_UDP_LEN -> 0 <= seq < 2 ^ 24 -> 0 <= teid < 2 ^ 32 ->
  5 <= ebi -> bearers !! Z.to_nat (ebi - 5) = Some (Some bearer) ->
  ∃ b', create_downlink_data_notification teid bearers ebi seq b = Some (0, b') ∧
    message_elements b' = Some ([mk_tx_ie GTP_IE_EPS_BEARER_ID 0 [u8 bearer.(eps_bearer_id)];
                                 mk_tx_ie GTP_IE_ALLOC_RETEN_PRIORITY 0 [arp_byte bearer.(qos)]], b') ∧
    decode_gtpv2c_header_t zero_gtpv2c_header b' =
      Some (12, mk_gtpv2c_header 0 1 0 2 GTP_DOWNLINK_DATA_NOTIFICATION 18 teid (swap24 seq) 0) ∧
    raw_has_teid_seq b' = seq.
Proof.
  intros Hb Hs Ht He Hl. unfold create_downlink_data_notification. rewrite (proj2 (Z.ltb_ge ebi 5)) by lia. rewrite Hl.
  unfold MAX_GTPV2C_UDP_LEN in Hb.
  destruct (set_gtpv2c_header_msg 1 GTP_DOWNLINK_DATA_NOTIFICATION (htonl teid) seq b) as (spare & tail & E & HL & _);
    [by right|done|lia|].
  set (rest := header_rest 1 (htonl teid) seq spare) in *. assert (Hrest : Z.of_nat (length rest) = 8) by done.
  destruct (set_uint8_ie_appends GTP_IE_EPS_BEARER_ID 0 bearer.(eps_bearer_id) ltac:(done) ltac:(done)
    (header_flags 1) GTP_DOWNLINK_DATA_NOTIFICATION rest [] tail) as (t1 & E1 & L1); [tx_room|tx_room|].
  destruct (set_ar_priority_ie_appends 0 bearer ltac:(done) (header_flags 1) GTP_DOWNLINK_DATA_NOTIFICATION rest
    [mk_tx_ie GTP_IE_EPS_BEARER_ID 0 [u8 bearer.(eps_bearer_id)]] t1) as (t2 & E2 & L2); [tx_room|tx_room|].
  eexists. split.
  { unfold set_downlink_data_notification, set_gtpv2c_teid_header_buf, set_ebi_ie.
    erewrite tx_mbind; [reflexivity|]. erewrite tx_mbind by exact E. erewrite tx_mbind by exact E1.
    erewrite tx_mbind by exact E2. reflexivity. }
  split; [|split].
  - apply message_elements_msg; [done|tx_ok_all|tx_room|tx_room].
  - rewrite (decode_built_header GTP_DOWNLINK_DATA_NOTIFICATION teid seq spare) by (done || tx_room).
    by rewrite (uwrap_small 32) by lia.
  - etrans; [apply raw_seq_built|]. apply uwrap_small. lia.
Qed.

(** A received request, as far as its header goes. *)
Definition example_bearer_rsp : eps_bearer_t := mk_bearer 5 [] [] [] (mk_qos 9 1000 2000 0 0 1 8 0) 0 0 0 0 (of_le_bytes [10; 0; 0; 9]) 4660 [] false.
Lemma ddn_built_witness :
  ∃ b', create_downlink_data_notification 77 [Some example_bearer_rsp] 5 258 (repeat 0 4096) = Some (0, b') ∧
    message_elements b' = Some ([mk_tx_ie GTP_IE_EPS_BEARER_ID 0 [5]; mk_tx_ie GTP_IE_ALLOC_RETEN_PRIORITY 0 [33]], b') ∧
    decode_gtpv2c_header_t zero_gtpv2c_header b' =
      Some (12, mk_gtpv2c_header 0 1 0 2 GTP_DOWNLINK_DATA_NOTIFICATION 18 77 (swap24 258) 0) ∧
    raw_has_teid_seq b' = 258.
Proof. apply (ddn_built 258 77 [Some example_bearer_rsp] 5 example_bearer_rsp); [vm_compute; reflexivity|lia|lia|lia|reflexivity]. Defined.

Lemma load_byte m p b : bytes_ok m -> load m p = Some b -> byte_ok b.
Proof. intros Hm. unfold load. case_match; [by apply bytes_ok_lookup|done]. Qed.
Lemma decoded_seq_range rx h : bytes_ok rx -> decode_gtpv2c_header_t zero_gtpv2c_header rx = Some (12, h) ->
  0 <= h.(has_teid_seq) < 2 ^ 24.
Proof.
  intros Hrx. unfold decode_gtpv2c_header_t.
  repeat match goal with |- context [load rx ?p] => let E := fresh "L" in destruct (load rx p) eqn:E; cbn [mbind option_bind]; [|done] end.
  cbv zeta. destruct (nz _).
  - repeat match goal with |- context [load rx ?p] => let E := fresh "L" in destruct (load rx p) eqn:E; cbn [mbind option_bind]; [|done] end.
    intros [= <-]. cbn [has_teid_seq of_be_bytes foldl].
    repeat match goal with E : load rx _ = Some _ |- _ => apply (load_byte _ _ _ Hrx) in E; unfold byte_ok in E end.
    change (2 ^ 24) with 16777216. lia.
  - repeat match goal with |- context [load rx ?p] => let E := fresh "L" in destruct (load rx p) eqn:E; cbn [mbind option_bind]; [|done] end.
    done.
Qed.

(** The answer that access bearers are released goes to the tunnel id of the MME and
    accepts the request, but it carries the sequence number of the request with its bytes
    in the opposite order: the MME finds the request only if the first and the third byte
    are equal. *)
Theorem rab_response_sequence rx h teid b :
  bytes_ok rx -> decode_gtpv2c_header_t zero_gtpv2c_header rx = Some (12, h) ->
  0 <= teid < 2 ^ 32 -> Z.of_nat (length b) = MAX_GTPV2C_UDP_LEN ->
  ∃ b' h', set_release_access_bearer_response h.(has_teid_seq) teid b = Some (tt, b') ∧
    message_elements b' = Some ([mk_tx_ie GTP_IE_CAUSE 0 [GTPV2C_CAUSE_REQUEST_ACCEPTED; Z.land (byteat b 17) 248]], b') ∧
    decode_gtpv2c_header_t zero_gtpv2c_header b' = Some (12, h') ∧
    h'.(gtpc_message_type) = GTP_RELEASE_ACCESS_BEARERS_RSP ∧ h'.(has_teid_teid) = teid ∧
    (h'.(has_teid_seq) = h.(has_teid_seq) <-> h.(has_teid_seq) mod 256 = h.(has_teid_seq) / 65536).
Proof.
  intros Hrx Hd Ht Hb. pose proof (decoded_seq_range rx h Hrx Hd) as Hs. set (seq := has_teid_seq h) in *. unfold MAX_GTPV2C_UDP_LEN in Hb.
  destruct (set_gtpv2c_header_msg 1 GTP_RELEASE_ACCESS_BEARERS_RSP (htonl teid) seq b) as (spare & tail & E & HL & Htail);
    [by right|done|lia|].
  set (rest := header_rest 1 (htonl teid) seq spare) in *. assert (Hrest : Z.of_nat (length rest) = 8) by done.
  destruct (set_cause_accepted_ie_appends 0 ltac:(done) (header_flags 1) GTP_RELEASE_ACCESS_BEARERS_RSP rest [] tail)
    as (t1 & E1 & L1); [tx_room|tx_room|].
  do 2 eexists. split.
  { unfold set_release_access_bearer_response, set_gtpv2c_teid_header_buf. erewrite tx_mbind by exact E.
    erewrite tx_mbind by exact E1. reflexivity. }
  assert (Eb : byteat tail 5 = byteat b 17) by (rewrite Htail; unfold byteat; by rewrite lookup_drop).
  cbn [app] in *. rewrite Eb in *. split; [|split; [|split_and!]].
  - apply message_elements_msg; [done|tx_ok_all|tx_room|tx_room].
  - apply decode_built_header; [done|tx_room].
  - done.
  - cbn [has_teid_teid]. apply uwrap_small. lia.
  - cbn [has_teid_seq]. by apply swap24_spec.
Qed.

Definition example_rab_request : list Z := [header_flags 1; GTP_RELEASE_ACCESS_BEARERS_REQ; 0; 8; 0; 0; 0; 9; 0; 1; 2; 0].
Lemma rab_response_sequence_witness :
  ∃ b' h', set_release_access_bearer_response 258 77 (repeat 0 4096) = Some (tt, b') ∧
    message_elements b' = Some ([mk_tx_ie GTP_IE_CAUSE 0 [16; 0]], b') ∧
    decode_gtpv2c_header_t zero_gtpv2c_header b' = Some (12, h') ∧
    h'.(gtpc_message_type) = GTP_RELEASE_ACCESS_BEARERS_RSP ∧ h'.(has_teid_teid) = 77 ∧
    (h'.(has_teid_seq) = 258 <-> 258 mod 256 = 258 / 65536).
Proof.
  apply (rab_response_sequence example_rab_request (mk_gtpv2c_header 0 1 0 2 GTP_RELEASE_ACCESS_BEARERS_REQ 8 9 258 0) 77 (repeat 0 4096));
    [unfold example_rab_request; repeat (apply Forall_cons_2; [split; vm_compute; congruence|]); apply Forall_nil_2
    |vm_compute; reflexivity|lia|vm_compute; reflexivity].
Defined.

(** An echo request without tunnel id is answered with its sequence number and the restart
    counter; from one with a tunnel id the answer takes the first three bytes of the
    tunnel id for the sequence number. *)
Theorem echo_answered rstCnt rx b : bytes_ok rx -> (12 <= length rx)%nat -> Z.of_nat (length b) = MAX_GTPV2C_UDP_LEN ->
  ∃ b', process_echo_request rstCnt rx b = Some (0, b') ∧
    message_elements b' = Some ([mk_tx_ie GTP_IE_RECOVERY 0 [u8 rstCnt]], b') ∧
    byteat b' 1 = GTP_ECHO_RSP ∧ raw_teid_flag b' = raw_teid_flag rx ∧
    (if raw_teid_flag rx =? 0 then raw_no_teid_seq b' else raw_has_teid_seq b') = raw_no_teid_seq rx.
Proof.
  intros Hrx Hl Hb. unfold MAX_GTPV2C_UDP_LEN in Hb. set (seq := raw_no_teid_seq rx).
  assert (Hs : 0 <= seq < 2 ^ 24).
  { unfold seq, raw_no_teid_seq. pose proof (of_le_bytes_range (take 3 (drop 4 rx))) as H.
    rewrite length_take, length_drop in H. replace (3 `min` (length rx - 4))%nat with 3%nat in H by lia.
    apply H. by apply Forall_take, Forall_drop. }
  assert (Hflag : raw_teid_flag rx = 0 ∨ raw_teid_flag rx = 1) by (unfold raw_teid_flag; destruct (Z.testbit _ _); lia).
  destruct (set_gtpv2c_header_msg (raw_teid_flag rx) GTP_ECHO_RSP 0 seq b Hflag) as (spare & tail & E & HL & _); [done|lia|].
  pose proof (header_rest_length (raw_teid_flag rx) 0 seq spare Hflag) as Hrest.
  set (rest := header_rest (raw_teid_flag rx) 0 seq spare) in *. set (fl := header_flags (raw_teid_flag rx)) in *.
  assert (Hhl : 4 <= header_length fl <= 8) by (unfold fl; destruct Hflag as [-> | ->]; vm_compute; split; congruence).
  destruct (set_uint8_ie_appends GTP_IE_RECOVERY 0 rstCnt ltac:(done) ltac:(done) fl GTP_ECHO_RSP rest [] tail)
    as (t1 & E1 & L1); [tx_room|tx_room|].
  eexists. split.
  { unfold process_echo_request, set_gtpv2c_echo, set_recovery_ie. erewrite tx_mbind; [reflexivity|].
    erewrite tx_mbind by exact E. erewrite tx_mbind by exact E1. reflexivity. }
  split; [apply message_elements_msg; [done|tx_ok_all|tx_room|tx_room]|]. split; [done|].
  unfold fl, rest. destruct Hflag as [-> | ->]; (split; [done|]); (etrans; [exact (of_le_le_bytes 3 seq)|by apply Z.mod_small]).
Qed.

(** The create session response of a PGW has five elements, and its bearer context four. *)
Theorem pgw_response_elements seq pdn bearer b : Z.of_nat (length b) = MAX_GTPV2C_UDP_LEN ->
  ∃ b' s1 s2, set_pgwc_s5s8_create_session_response seq pdn bearer b = Some (tt, b') ∧
    message_elements b' = Some (
      [mk_tx_ie GTP_IE_CAUSE 0 [GTPV2C_CAUSE_REQUEST_ACCEPTED; Z.land s1 248];
       mk_tx_ie GTP_IE_FULLY_QUAL_TUNN_ENDPT_IDNT 1
         (fteid_data GTPV2C_IFTYPE_S5S8_PGW_GTPC pdn.(rsp_pgw_gtpc_ipv4) (htonl pdn.(rsp_pgw_gtpc_teid)));
       mk_tx_ie GTP_IE_PDN_ADDR_ALLOC 0 (PDN_IP_TYPE_IPV4 :: le_bytes 4 pdn.(rsp_ipv4));
       mk_tx_ie GTP_IE_APN_RESTRICTION 0 [u8 pdn.(rsp_apn_restriction)];
       mk_tx_ie GTP_IE_BEARER_CONTEXT 0 (tx_body
         [mk_tx_ie GTP_IE_EPS_BEARER_ID 0 [u8 bearer.(eps_bearer_id)];
          mk_tx_ie GTP_IE_CAUSE 0 [GTPV2C_CAUSE_REQUEST_ACCEPTED; Z.land s2 248];
          mk_tx_ie GTP_IE_BEARER_QLTY_OF_SVC 0 (take 22 (qos_bytes bearer.(qos)));
          mk_tx_ie GTP_IE_FULLY_QUAL_TUNN_ENDPT_IDNT 0
            (fteid_data GTPV2C_IFTYPE_S5S8_PGW_GTPU bearer.(s5s8_pgw_gtpu_ipv4) (htonl bearer.(s5s8_pgw_gtpu_teid)))])], b').
Proof.
  intros Hb. unfold MAX_GTPV2C_UDP_LEN in Hb. set (ty := GTP_CREATE_SESSION_RSP).
  destruct (set_gtpv2c_header_msg 1 ty pdn.(rsp_sgw_gtpc_teid) seq b) as (spare & tail & E & HL & Htail); [by right|done|lia|].
  set (rest := header_rest 1 pdn.(rsp_sgw_gtpc_teid) seq spare) in *. assert (Hrest : Z.of_nat (length rest) = 8) by done.
  set (fl := header_flags 1) in *. assert (Hfl : header_length fl = 8) by done. 
  destruct (set_cause_accepted_ie_appends 0 ltac:(done) fl ty rest [] tail) as (t1 & E1 & L1); [tx_room|tx_room|].
  set (x1 := mk_tx_ie GTP_IE_CAUSE 0 _) in *. cbn [app] in E1.
  destruct (set_ipv4_fteid_ie_appends GTPV2C_IFTYPE_S5S8_PGW_GTPC 1 pdn.(rsp_pgw_gtpc_ipv4) (htonl pdn.(rsp_pgw_gtpc_teid)) ltac:(done)
    fl ty rest [x1] t1) as (t2 & E2 & L2); [tx_room|tx_room|]. set (x2 := mk_tx_ie GTP_IE_FULLY_QUAL_TUNN_ENDPT_IDNT 1 _) in *. cbn [app] in E2.
  destruct (set_ipv4_paa_ie_appends 0 pdn.(rsp_ipv4) ltac:(done) fl ty rest [x1; x2] t2) as (t3 & E3 & L3); [tx_room|tx_room|].
  set (x3 := mk_tx_ie GTP_IE_PDN_ADDR_ALLOC 0 _) in *. cbn [app] in E3.
  destruct (set_uint8_ie_appends GTP_IE_APN_RESTRICTION 0 pdn.(rsp_apn_restriction) ltac:(done) ltac:(done) fl ty rest [x1; x2; x3] t3)
    as (t4 & E4 & L4); [tx_room|tx_room|]. set (x4 := mk_tx_ie GTP_IE_APN_RESTRICTION 0 _) in *. cbn [app] in E4.
  pose proof (create_bearer_context_msg 0 fl ty rest [x1; x2; x3; x4] t4 ltac:(done) ltac:(tx_room) ltac:(tx_room)) as E5.
  set (g := 4 + Z.of_nat (length rest) + tx_total [x1; x2; x3; x4]) in *.
  assert (L5 : (length (drop 4 t4) + 4)%nat = length t4) by (rewrite length_drop; tx_room).
  destruct (grouped_appends _ _ _ g fl ty rest [x1; x2; x3; x4] GTP_IE_BEARER_CONTEXT 0 [] (drop 4 t4)
    (set_uint8_ie_appends GTP_IE_EPS_BEARER_ID 0 bearer.(eps_bearer_id) ltac:(done) ltac:(done)) eq_refl) as (t6 & E6 & L6); [tx_room|tx_room|].
  destruct (grouped_appends _ _ _ g fl ty rest [x1; x2; x3; x4] GTP_IE_BEARER_CONTEXT 0
    (tx_bytes (mk_tx_ie GTP_IE_EPS_BEARER_ID 0 [u8 bearer.(eps_bearer_id)])) t6
    (set_cause_accepted_ie_appends 0 ltac:(done)) eq_refl) as (t7 & E7 & L7); [tx_room|tx_room|]. cbn [app] in E6.
  set (d7 := _ ++ tx_bytes _) in E7.
  assert (Hd7 : length d7 = 11%nat) by done.
  destruct (grouped_appends _ _ _ g fl ty rest [x1; x2; x3; x4] GTP_IE_BEARER_CONTEXT 0 d7 t7
    (set_bearer_qos_ie_appends 0 bearer ltac:(done)) eq_refl) as (t8 & E8 & L8); [tx_room|tx_room|].
  set (d8 := d7 ++ tx_bytes _) in E8. assert (Hd8 : length d8 = 37%nat) by done.
  destruct (grouped_appends _ _ _ g fl ty rest [x1; x2; x3; x4] GTP_IE_BEARER_CONTEXT 0 d8 t8
    (set_ipv4_fteid_ie_appends GTPV2C_IFTYPE_S5S8_PGW_GTPU 0 bearer.(s5s8_pgw_gtpu_ipv4) (htonl bearer.(s5s8_pgw_gtpu_teid)) ltac:(done))
    eq_refl) as (t9 & E9 & L9); [tx_room|tx_room|].
  eexists _, (byteat tail 5), (byteat t6 5). split.
  { unfold set_pgwc_s5s8_create_session_response, set_gtpv2c_teid_header_buf, set_apn_restriction_ie, set_ebi_ie.
    erewrite tx_mbind by exact E. erewrite tx_mbind by exact E1. erewrite tx_mbind by exact E2. erewrite tx_mbind by exact E3.
    erewrite tx_mbind by exact E4. erewrite tx_mbind by exact E5. erewrite tx_mbind by exact E6. erewrite tx_mbind by exact E7.
    erewrite tx_mbind by exact E8. exact E9. }
  etrans; [apply message_elements_msg; [done|tx_ok_all|tx_room|tx_room]|]. done.
Qed.

Lemma pgw_response_elements_witness :
  ∃ b' s1 s2, set_pgwc_s5s8_create_session_response 7 (mk_pdn_rsp 1 2 3 4 5 6 7) example_bearer_rsp (repeat 0 4096) = Some (tt, b') ∧
    message_elements b' = Some (
      [mk_tx_ie GTP_IE_CAUSE 0 [GTPV2C_CAUSE_REQUEST_ACCEPTED; Z.land s1 248];
       mk_tx_ie GTP_IE_FULLY_QUAL_TUNN_ENDPT_IDNT 1 (fteid_data GTPV2C_IFTYPE_S5S8_PGW_GTPC 2 (htonl 1));
       mk_tx_ie GTP_IE_PDN_ADDR_ALLOC 0 (PDN_IP_TYPE_IPV4 :: le_bytes 4 4);
       mk_tx_ie GTP_IE_APN_RESTRICTION 0 [5];
       mk_tx_ie GTP_IE_BEARER_CONTEXT 0 (tx_body
         [mk_tx_ie GTP_IE_EPS_BEARER_ID 0 [5];
          mk_tx_ie GTP_IE_CAUSE 0 [GTPV2C_CAUSE_REQUEST_ACCEPTED; Z.land s2 248];
          mk_tx_ie GTP_IE_BEARER_QLTY_OF_SVC 0 (take 22 (qos_bytes example_bearer_rsp.(qos)));
          mk_tx_ie GTP_IE_FULLY_QUAL_TUNN_ENDPT_IDNT 0
            (fteid_data GTPV2C_IFTYPE_S5S8_PGW_GTPU (of_le_bytes [10; 0; 0; 9]) (htonl 4660))])], b').
Proof. apply (pgw_response_elements 7 (mk_pdn_rsp 1 2 3 4 5 6 7) example_bearer_rsp). vm_compute. reflexivity. Defined.

(** The quality of a bearer is put into the buffer in the order and the width of the
    structure in memory.  A receiver reads class 9 with priority 8 and 1000 and 2000 kbit/s
    as class 232 with priority 2 and other rates. *)
Example pgw_quality_misread :
  decode_gtp_bearer_qlty_of_svc_ie zero_gtp_bearer_qlty_of_svc
    (tx_bytes (mk_tx_ie GTP_IE_BEARER_QLTY_OF_SVC 0 (take 22 (qos_bytes (mk_qos 9 1000 2000 0 0 1 8 0))))) =
  Some (26, mk_gtp_bearer_qlty_of_svc (mk_gie 80 22 0) 0 0 2 0 1 232 (3 * 2 ^ 32) 13633280 0 0).
Proof. vm_compute. reflexivity. Qed.

(** ** Dispatch *)

(** A message of another version calls no handler; one of a newer version is answered
    and never freed.  A message of version 2 goes to the one handler of its type, and is
    freed exactly if the handler neither took the pointer nor counted an owner. *)
Theorem dispatch_frees_once run raw :
  let version := byteat raw 0 / 32 in
  let '(h, version_error, fate) := process_gtp_msg run raw in
  (h = None <-> version ≠ 2) ∧ (version_error = true <-> 2 < version) ∧ (fate = MsgLeaked <-> 2 < version) ∧
  (∀ x, h = Some x -> x = gtp_msg_handler (byteat raw 1) ∧
     (fate = MsgFreed <-> msg_null (run x) = false ∧ msg_refCnt (run x) = 0)).
Proof.
  intros version. unfold process_gtp_msg. fold version. unfold GTP_VERSION_GTPV2C.
  destruct (Z.ltb_spec version 2); [split_and!; try split; try done; lia|].
  destruct (Z.ltb_spec 2 version); [split_and!; try split; try done; lia|].
  set (r := run (gtp_msg_handler (byteat raw 1))). split_and!; [split; [done|lia]|split; [done|lia]|split; [|lia]|].
  - by destruct (msg_null r), (msg_refCnt r =? 0).
  - intros x [= <-]. split; [done|]. fold r. destruct (msg_null r), (Z.eqb_spec (msg_refCnt r) 0); naive_solver.
Qed.
