(* ===== verification/GtpReply.v ===== *)
(** * Answers to the MME

    The check of the create session request (src/cp/gtpv2/msg/create_session_request.c)
    and the answers that reject a request (src/cp/gtpv2/common/gtpv2_error_rsp.c).  A message is
    filled as a structure of libgtpv2c, encoded into the zeroed transmission buffer, and
    given its length afterwards. *)

From S2P Require Import Prelude EncDecBits Codec CodecSpec Tlv PfcpIesOptional PfcpSetIe.
From S2P Require Import GtpIes GtpIesEncoder GtpIesDecoder GtpIesSpec GtpIesOptional GtpIesLocation.
From S2P Require Import GtpMsgs GtpMsgsEncoder GtpMsgsDecoder GtpGroups GtpMsgsSpec PfcpSession GtpTxBuf GtpSetIe GtpSend.

(** ** Constants *)

Definition GTPV2C_CAUSE_MANDATORY_IE_MISSING : Z := 70.
Definition GTPV2C_CAUSE_PREFERRED_PDN_TYPE_UNSUPPORTED : Z := 83.
Definition GTPV2C_CAUSE_IMSI_NOT_KNOWN : Z := 96.
Definition GTPV2C_IFTYPE_S1U_SGW_GTPU : Z := 1.
Definition GTPV2C_IFTYPE_S11S4_SGW_GTPC : Z := 11.
Definition PCO_ID_INTERNET_PROTOCOL_CONTROL_PROTOCOL : Z := 0x8021.
Definition PCO_ID_IP_ADDRESS_ALLOCATION_VIA_NAS_SIGNALLING : Z := 0x000a.
Definition PCO_ID_DNS_SERVER_IPV4_ADDRESS_REQUEST : Z := 0x000d.
Definition PCO_ID_IPV4_LINK_MTU_REQUEST : Z := 0x0010.

(** ** The end of a message *)

(** [gtpc.message_len = htons(msg_len - 4)], and the bytes that are sent. *)
Definition finish_gtp (r : option (Z * list Z)) : option (list Z) :=
  '(msg_len, buf) ← r;
  b1 ← store buf 2 (u8 ((msg_len - 4) / 256));
  b2 ← store b1 3 (u8 (msg_len - 4));
  Some (take (Z.to_nat msg_len) b2).
(** [gtp_tx_buf] after [bzero]. *)
Definition zeroed_tx_buf : list Z := repeat 0 (Z.to_nat MAX_GTPV2C_UDP_LEN).

(** ** The check of a create session request *)

Definition validate_csreq_msg (csr : create_sess_req_t) : Z :=
  let missing (h : ie_header_t) := h.(gie_len) =? 0 in
  let ctx := csr.(create_sess_req_bearer_contexts_to_be_created) in
  let pdn_type := csr.(create_sess_req_pdn_type).(gtp_pdn_type_pdn_type_pdn_type) in
  if nz csr.(create_sess_req_indctn_flgs).(gtp_indication_header).(gie_len) &&
     nz csr.(create_sess_req_indctn_flgs).(gtp_indication_indication_uimsi)
  then GTPV2C_CAUSE_IMSI_NOT_KNOWN
  else if missing ctx.(gtp_create_sess_request_bearer_ctxt_to_be_created_header)
    || missing csr.(create_sess_req_sender_fteid_ctl_plane).(gtp_fully_qual_tunn_endpt_idnt_header)
    || missing csr.(create_sess_req_imsi).(gtp_imsi_header)
    || missing csr.(create_sess_req_apn_ambr).(gtp_agg_max_bit_rate_header)
    || missing csr.(create_sess_req_pdn_type).(gtp_pdn_type_header)
    || missing ctx.(gtp_create_sess_request_bearer_ctxt_to_be_created_bearer_lvl_qos).(gtp_bearer_qlty_of_svc_header)
    || missing csr.(create_sess_req_rat_type).(gtp_rat_type_header)
    || negb (pdn_type =? PDN_IP_TYPE_IPV4)
  then GTPV2C_CAUSE_MANDATORY_IE_MISSING
  else if (pdn_type =? PDN_IP_TYPE_IPV6) || (pdn_type =? PDN_IP_TYPE_IPV4V6)
  then GTPV2C_CAUSE_PREFERRED_PDN_TYPE_UNSUPPORTED
  else 0.

(** ** Rejections *)

(** [err_rsp_info]. *)
Record err_rsp_info := mk_err { sender_teid : Z; err_teid : Z; err_seq : Z; ebi_index : Z; offending : Z }.
Definition zero_err : err_rsp_info := mk_err 0 0 0 0 0.

(** What a procedure knows of its subscriber and of the transaction with the MME. *)
Record proc_ids := mk_ids { s11_mme_gtpc_teid : Z; s11_sgw_gtpc_teid : Z; trans_sequence : Z; proc_bearer_id : Z }.

(** The message that is rejected or that made the procedure fail. *)
Inductive cs_cause :=
| CsRequest (csr : create_sess_req_t) (* GTP_CREATE_SESSION_REQ *)
| CsAssociation (p : proc_ids) (* PFCP_ASSOCIATION_SETUP_RESPONSE *)
| CsEstablishment (p : proc_ids) (* PFCP_SESSION_ESTABLISHMENT_RESPONSE *)
| CsIgnored (* GTP_CREATE_SESSION_RSP, GTP_MODIFY_BEARER_RSP, GX_CCA_MSG *)
| CsOther (p : proc_ids).

(** The element that is named is the last one in this order that is missing. *)
Definition offending_ie (csr : create_sess_req_t) : Z :=
  let ctx := csr.(create_sess_req_bearer_contexts_to_be_created) in
  foldl (fun o p => if (gie_len p.1 =? 0) then p.2 else o) 0
    [(ctx.(gtp_create_sess_request_bearer_ctxt_to_be_created_header), GTP_IE_CREATE_SESS_REQUEST_BEARER_CTXT_TO_BE_CREATED);
     (csr.(create_sess_req_sender_fteid_ctl_plane).(gtp_fully_qual_tunn_endpt_idnt_header), GTP_IE_FULLY_QUAL_TUNN_ENDPT_IDNT);
     (csr.(create_sess_req_imsi).(gtp_imsi_header), GTP_IE_IMSI);
     (csr.(create_sess_req_apn_ambr).(gtp_agg_max_bit_rate_header), GTP_IE_AGG_MAX_BIT_RATE);
     (csr.(create_sess_req_pdn_type).(gtp_pdn_type_header), GTP_IE_PDN_TYPE);
     (ctx.(gtp_create_sess_request_bearer_ctxt_to_be_created_bearer_lvl_qos).(gtp_bearer_qlty_of_svc_header), GTP_IE_BEARER_QLTY_OF_SVC);
     (csr.(create_sess_req_rat_type).(gtp_rat_type_header), GTP_IE_RAT_TYPE);
     (csr.(create_sess_req_apn).(gtp_acc_pt_name_header), GTP_IE_ACC_PT_NAME)].

Definition get_error_csrsp_info (c : cs_cause) : err_rsp_info :=
  match c with
  | CsRequest csr =>
      mk_err csr.(create_sess_req_sender_fteid_ctl_plane).(gtp_fully_qual_tunn_endpt_idnt_teid_gre_key)
        csr.(create_sess_req_header).(has_teid_teid) csr.(create_sess_req_header).(has_teid_seq)
        csr.(create_sess_req_bearer_contexts_to_be_created).(gtp_create_sess_request_bearer_ctxt_to_be_created_eps_bearer_id).(gtp_eps_bearer_id_ebi_ebi)
        (u8 (offending_ie csr))
  | CsAssociation p | CsOther p => mk_err p.(s11_mme_gtpc_teid) p.(s11_sgw_gtpc_teid) p.(trans_sequence) p.(proc_bearer_id) 0
  | CsEstablishment p => mk_err p.(s11_mme_gtpc_teid) 0 p.(trans_sequence) p.(proc_bearer_id) 0
  | CsIgnored => zero_err
  end.

(** [sizeof(struct cause_ie)]. *)
Definition sizeof_cause_ie : Z := 6.
(** A length that grows: [header.len += n]. *)
Definition add_len (n : Z) (h : ie_header_t) : ie_header_t := mk_gie h.(gie_type) (u16 (h.(gie_len) + n)) h.(gie_instance).

(** The structure that [cs_error_response] encodes. *)
Definition cs_error_rsp (i : err_rsp_info) (cause_value : Z) : create_sess_rsp_t :=
  let cause :=
    if cause_value =? GTPV2C_CAUSE_MANDATORY_IE_MISSING
    then mk_gtp_cause (set_ie_header GTP_IE_CAUSE GTP_IE_INSTANCE_ZERO sizeof_cause_ie) (u8 cause_value) 0 0 0 1 (u8 i.(offending)) 0 0
    else mk_gtp_cause (set_ie_header GTP_IE_CAUSE GTP_IE_INSTANCE_ZERO sizeof_cause_ie_hdr) (u8 cause_value) 0 0 0 1 0 0 0 in
  let h0 := set_ie_header GTP_IE_BEARER_CONTEXT GTP_IE_INSTANCE_ZERO 0 in
  let h1 := add_len (1 + IE_HEADER_SIZE) h0 in
  let h2 := add_len (sizeof_cause_ie_hdr + IE_HEADER_SIZE) h1 in
  let created :=
    set_gtp_create_sess_response_bearer_ctxt_created_header h2
    (set_gtp_create_sess_response_bearer_ctxt_created_eps_bearer_id (set_ebi GTP_IE_INSTANCE_ZERO i.(ebi_index))
    (set_gtp_create_sess_response_bearer_ctxt_created_cause (set_cause_error_value GTP_IE_INSTANCE_ZERO cause_value zero_gtp_cause)
       zero_gtp_create_sess_response_bearer_ctxt_created)) in
  set_create_sess_rsp_bearer_contexts_created created
  (set_create_sess_rsp_cause cause
  (set_create_sess_rsp_header (set_gtpv2c_teid_header GTP_CREATE_SESSION_RSP i.(sender_teid) i.(err_seq) zero_gtpv2c_header)
     zero_create_sess_rsp)).
Definition cs_error_response (c : cs_cause) (cause_value : Z) : option (list Z) :=
  finish_gtp (encode_create_sess_rsp (cs_error_rsp (get_error_csrsp_info c) cause_value) zeroed_tx_buf 0).

(** The rejection of a modify bearer request. *)
Inductive mb_cause :=
| MbRequest (seq ebi : Z) (* GTP_MODIFY_BEARER_REQ before there is a procedure *)
| MbProcedure (p : proc_ids) (* GTP_MODIFY_BEARER_REQ, PFCP_SESSION_MODIFICATION_RESPONSE *)
| MbIgnored. (* GTP_MODIFY_BEARER_RSP *)
Definition get_error_mbrsp_info (c : mb_cause) : err_rsp_info :=
  match c with
  | MbRequest seq ebi => mk_err 0 0 seq ebi 0
  | MbProcedure p => mk_err p.(s11_mme_gtpc_teid) 0 p.(trans_sequence) p.(proc_bearer_id) 0
  | MbIgnored => zero_err
  end.
Definition mbr_error_rsp (i : err_rsp_info) (cause_value : Z) : mod_bearer_rsp_t :=
  let h0 := set_ie_header GTP_IE_BEARER_CONTEXT GTP_IE_INSTANCE_ZERO 0 in
  let h1 := add_len (sizeof_cause_ie_hdr + IE_HEADER_SIZE) h0 in
  let h2 := add_len (1 + IE_HEADER_SIZE) h1 in
  let modified :=
    set_gtp_mod_bearer_response_bearer_ctxt_modified_header h2
    (set_gtp_mod_bearer_response_bearer_ctxt_modified_eps_bearer_id (set_ebi GTP_IE_INSTANCE_ZERO i.(ebi_index))
    (set_gtp_mod_bearer_response_bearer_ctxt_modified_cause (set_cause_error_value GTP_IE_INSTANCE_ZERO cause_value zero_gtp_cause)
       zero_gtp_mod_bearer_response_bearer_ctxt_modified)) in
  set_mod_bearer_rsp_bearer_contexts_modified modified
  (set_mod_bearer_rsp_cause (set_cause_error_value GTP_IE_INSTANCE_ZERO cause_value zero_gtp_cause)
  (set_mod_bearer_rsp_header (set_gtpv2c_teid_header GTP_MODIFY_BEARER_RSP i.(sender_teid) i.(err_seq) zero_gtpv2c_header)
     zero_mod_bearer_rsp)).
Definition mbr_error_response (c : mb_cause) (cause_value : Z) : option (list Z) :=
  finish_gtp (encode_mod_bearer_rsp (mbr_error_rsp (get_error_mbrsp_info c) cause_value) zeroed_tx_buf 0).

(** The rejection of a delete session request; [context] is the tunnel id of the MME in
    the context of the subscriber, if there is one. *)
Inductive ds_cause :=
| DsRequest (seq teid : Z) (context : option Z) (* GTP_DELETE_SESSION_REQ *)
| DsDeletion (p : proc_ids) (* PFCP_SESSION_DELETION_RESPONSE *).
Definition get_error_dsrsp_info (c : ds_cause) : err_rsp_info :=
  match c with
  | DsRequest seq teid context => mk_err (default 0 context) teid seq 0 0
  | DsDeletion p => mk_err p.(s11_mme_gtpc_teid) 0 p.(trans_sequence) 0 0
  end.
Definition ds_error_rsp (i : err_rsp_info) (cause_value : Z) : del_sess_rsp_t :=
  set_del_sess_rsp_cause (set_cause_error_value GTP_IE_INSTANCE_ZERO cause_value zero_gtp_cause)
  (set_del_sess_rsp_header (set_gtpv2c_teid_header GTP_DELETE_SESSION_RSP i.(sender_teid) i.(err_seq) zero_gtpv2c_header)
     zero_del_sess_rsp).
Definition ds_error_response (c : ds_cause) (cause_value : Z) : option (list Z) :=
  finish_gtp (encode_del_sess_rsp (ds_error_rsp (get_error_dsrsp_info c) cause_value) zeroed_tx_buf 0).

(** The rejection of a release of access bearers, whose tunnel id is swapped before it is
    encoded. *)
Inductive rab_cause :=
| RabRequest (seq teid : Z) (context : option Z) (* GTP_RELEASE_ACCESS_BEARERS_REQ *)
| RabModification (p : proc_ids) (* PFCP_SESSION_MODIFICATION_RESPONSE *).
Definition get_error_rabrsp_info (c : rab_cause) : err_rsp_info :=
  match c with
  | RabRequest seq teid context => mk_err (default 0 context) teid seq 0 0
  | RabModification p => mk_err p.(s11_mme_gtpc_teid) 0 p.(trans_sequence) 0 0
  end.
Definition rab_error_rsp (i : err_rsp_info) (cause_value : Z) : rel_acc_bearer_rsp_t :=
  mk_rel_acc_bearer_rsp
    (set_gtpv2c_teid_header GTP_RELEASE_ACCESS_BEARERS_RSP (htonl i.(sender_teid)) i.(err_seq) zero_gtpv2c_header)
    (set_cause_error_value GTP_IE_INSTANCE_ZERO cause_value zero_gtp_cause).
Definition rab_error_response (c : rab_cause) (cause_value : Z) : option (list Z) :=
  finish_gtp (encode_rel_acc_bearer_rsp (rab_error_rsp (get_error_rabrsp_info c) cause_value) zeroed_tx_buf 0).

(** ** What the MME reads *)

Definition with_gtp_len (len : Z) (h : gtpv2c_header_t) : gtpv2c_header_t :=
  mk_gtpv2c_header h.(gtpc_spare) h.(gtpc_teid_flag) h.(gtpc_piggyback) h.(gtpc_version) h.(gtpc_message_type) len
    h.(has_teid_teid) h.(has_teid_seq) h.(has_teid_spare).

Lemma gtp_header_bits h body : ∃ a c, length a = 16%nat ∧
  ∀ len, wbits (layout_gtpv2c_header (with_gtp_len len h) ++ body) = a ++ nbits 16 len ++ c.
Proof.
  exists (wbits [(3, h.(gtpc_version)); (1, h.(gtpc_piggyback)); (1, h.(gtpc_teid_flag)); (3, h.(gtpc_spare));
    (8, h.(gtpc_message_type))]).
  eexists. split; [done|]. intros len. unfold layout_gtpv2c_header. rewrite <- app_assoc.
  cbn [with_gtp_len gtpc_version gtpc_piggyback gtpc_teid_flag gtpc_spare gtpc_message_type gtpc_message_len has_teid_teid has_teid_seq has_teid_spare app].
  unfold no_teid_seq, no_teid_spare. cbn [with_gtp_len has_teid_teid].
  rewrite !wbits_cons. change (wbits []) with (@nil bool). rewrite app_nil_r, <- !app_assoc. reflexivity.
Qed.

(** A message that is encoded into the zeroed buffer with any length in its header is sent
    with the length of what follows the first four bytes. *)
Lemma finish_gtp_holds f h body r :
  encodes f (layout_gtpv2c_header h ++ body) r ->
  size (layout_gtpv2c_header h ++ body) = 8 * r -> 4 <= r <= MAX_GTPV2C_UDP_LEN ->
  ∃ buf, finish_gtp (f zeroed_tx_buf 0) = Some buf ∧ Z.of_nat (length buf) = r ∧
    holds buf (wbits (layout_gtpv2c_header (with_gtp_len (r - 4) h) ++ body)).
Proof.
  intros He Hs Hr. unfold zeroed_tx_buf, MAX_GTPV2C_UDP_LEN in *.
  destruct (He (repeat 0 (Z.to_nat 4096)) 0 []) as (b0 & E & Hh & Hl);
    [done|apply holds_zero|done|cbn [length]; rewrite repeat_length; lia|lia|].
  destruct (gtp_header_bits h body) as (a & c & Ha & Hw). rewrite app_nil_l in Hh.
  assert (Hw0 := Hw h.(gtpc_message_len)). replace (with_gtp_len (gtpc_message_len h) h) with h in Hw0 by by destruct h.
  rewrite Hw0 in Hh. rewrite repeat_length in Hl.
  destruct (holds_put_len b0 a _ c (r - 4) Hh Ha (length_nbits 16 _)) as (b1 & b2 & E1 & E2 & Hh2 & Hl2); [lia|].
  exists (take (Z.to_nat r) b2). unfold finish_gtp. rewrite E. cbn [mbind option_bind]. rewrite E1. cbn [mbind option_bind].
  rewrite E2. cbn [mbind option_bind]. split; [done|]. rewrite length_take. split; [lia|]. rewrite Hw.
  apply holds_take_self; [done| |lia]. rewrite <- Hw.
  replace (Z.of_nat (length (wbits _))) with (size (layout_gtpv2c_header (with_gtp_len (r - 4) h) ++ body)) by done.
  rewrite size_app in *. rewrite Z2Nat.id by lia. rewrite <- Hs. done.
Qed.

(** What was sent is read as [x]. *)
Definition answers {A} (g : ie_decoder A) (sent : option (list Z)) (x : A) : Prop :=
  ∃ buf k, sent = Some buf ∧ g buf = Some (k, x).

Lemma finish_gtp_read {A} (g : ie_decoder A) f h body r k x :
  encodes f (layout_gtpv2c_header h ++ body) r ->
  size (layout_gtpv2c_header h ++ body) = 8 * r -> 4 <= r <= MAX_GTPV2C_UDP_LEN ->
  decodes g (layout_gtpv2c_header (with_gtp_len (r - 4) h) ++ body) k x ->
  answers g (finish_gtp (f zeroed_tx_buf 0)) x.
Proof.
  intros He Hs Hr Hd. destruct (finish_gtp_holds f h body r He Hs Hr) as (buf & E & Hl & Hh).
  exists buf, k. split; [done|]. apply (Hd buf []); [by rewrite app_nil_r|].
  unfold MAX_GTPV2C_UDP_LEN in Hr. rewrite size_app in *. change (size (layout_gtpv2c_header (with_gtp_len (r - 4) h))) with (size (layout_gtpv2c_header h)). lia.
Qed.

(** The encoders do not look at the length in the header. *)
Lemma create_rsp_encodes v h : create_sess_rsp_good (set_create_sess_rsp_header h v) ->
  encodes (encode_create_sess_rsp v) (create_sess_rsp_layout v) (size (create_sess_rsp_layout v) / 8).
Proof.
  intros Hg; unfold create_sess_rsp_good in Hg; destruct v; cbn in Hg; destruct_and! Hg.
  apply (encodes_enc_bits 8); [by right|]. apply places_gtp_header. unfold create_sess_rsp_body.
  place_members ltac:(gtp_member).
Qed.
Lemma mod_rsp_encodes v h : mod_bearer_rsp_good (set_mod_bearer_rsp_header h v) ->
  encodes (encode_mod_bearer_rsp v) (mod_bearer_rsp_layout v) (size (mod_bearer_rsp_layout v) / 8).
Proof.
  intros Hg; unfold mod_bearer_rsp_good in Hg; destruct v; cbn in Hg; destruct_and! Hg.
  apply (encodes_enc_bits 8); [by right|]. apply places_gtp_header. unfold mod_bearer_rsp_body.
  place_members ltac:(gtp_member).
Qed.
Lemma del_rsp_encodes v h : del_sess_rsp_good (set_del_sess_rsp_header h v) ->
  encodes (encode_del_sess_rsp v) (del_sess_rsp_layout v) (size (del_sess_rsp_layout v) / 8).
Proof.
  intros Hg; unfold del_sess_rsp_good in Hg; destruct v; cbn in Hg; destruct_and! Hg.
  apply (encodes_enc_bits 8); [by right|]. apply places_gtp_header. unfold del_sess_rsp_body.
  place_members ltac:(gtp_member).
Qed.

(** ** Rejections are readable *)

Ltac wire_field := first
  [apply (uwrap_range 8); lia | apply (uwrap_range 32); lia | apply (uwrap_range 24); lia | apply (uwrap_range 4); lia
  |apply (uwrap_range 1); lia | apply (uwrap_range 6); lia | apply (uwrap_range 40); lia | apply byte_ok_uwrap
  |split; vm_compute; congruence | cbn; lia].
Ltac wire_ok := unfold layout_ok; repeat (apply Forall_cons_2; [wire_field|]); apply Forall_nil_2.

Lemma error_cause_good v : opt_good (GTP_IE_CAUSE, GTP_IE_INSTANCE_ZERO) (set_cause_error_value GTP_IE_INSTANCE_ZERO v zero_gtp_cause).
Proof. split; [done|]. split; [split; [wire_ok|done]|]. split; [wire_ok|done]. Qed.
Lemma missing_cause_good v o :
  opt_good (GTP_IE_CAUSE, GTP_IE_INSTANCE_ZERO)
    (mk_gtp_cause (set_ie_header GTP_IE_CAUSE GTP_IE_INSTANCE_ZERO sizeof_cause_ie) (u8 v) 0 0 0 1 (u8 o) 0 0).
Proof. split; [done|]. split; [split; [wire_ok|done]|]. split; [wire_ok|done]. Qed.
Lemma error_ebi_good e : opt_good (GTP_IE_EPS_BEARER_ID, GTP_IE_INSTANCE_ZERO) (set_ebi GTP_IE_INSTANCE_ZERO e).
Proof. split; [done|]. wire_ok. Qed.
Lemma teid_header_good type teid seq len body : size body = 8 * (len - 8) -> 8 <= len < 65536 ->
  gtp_message_good (with_gtp_len len (set_gtpv2c_teid_header type teid seq zero_gtpv2c_header)) body.
Proof.
  intros Hs Hl. split; [done|]. split; [wire_ok|symmetry; exact Hs].
Qed.

Definition reject_len (cause_value : Z) : Z := if cause_value =? GTPV2C_CAUSE_MANDATORY_IE_MISSING then 33 else 29.

Lemma cs_error_good i v :
  create_sess_rsp_good (set_create_sess_rsp_header
    (with_gtp_len (reject_len v) (cs_error_rsp i v).(create_sess_rsp_header)) (cs_error_rsp i v)).
Proof.
  unfold reject_len, cs_error_rsp. split.
  - apply teid_header_good; destruct (v =? _); done.
  - split; [cbn [create_sess_rsp_cause set_create_sess_rsp_bearer_contexts_created set_create_sess_rsp_cause set_create_sess_rsp_header]; 
     destruct (v =? _); [apply missing_cause_good|apply (error_cause_good v)]|].
    do 9 (split; [done|]). split; [|repeat (split; [done|]); done].
    split; [done|]. split; [split; [wire_ok|done]|]. split; [apply error_ebi_good|]. split; [apply error_cause_good|].
    repeat (split; [done|]); done.
Qed.

Lemma mbr_error_good i v :
  mod_bearer_rsp_good (set_mod_bearer_rsp_header
    (with_gtp_len 29 (mbr_error_rsp i v).(mod_bearer_rsp_header)) (mbr_error_rsp i v)).
Proof.
  split; [by apply teid_header_good|]. split; [apply error_cause_good|].
  do 4 (split; [done|]). split; [|repeat (split; [done|]); done].
  split; [done|]. split; [split; [wire_ok|done]|]. split; [apply error_cause_good || apply error_ebi_good|].
  split; [apply error_ebi_good || apply error_cause_good|]. repeat (split; [done|]); done.
Qed.
Lemma ds_error_good i v :
  del_sess_rsp_good (set_del_sess_rsp_header (with_gtp_len 14 (ds_error_rsp i v).(del_sess_rsp_header)) (ds_error_rsp i v)).
Proof. split; [by apply teid_header_good|]. split; [apply error_cause_good|]. repeat (split; [done|]); done. Qed.

Lemma cs_error_answers c v : let x := cs_error_rsp (get_error_csrsp_info c) v in
  answers (decode_create_sess_rsp zero_create_sess_rsp) (cs_error_response c v)
    (set_create_sess_rsp_header (with_gtp_len (reject_len v) x.(create_sess_rsp_header)) x).
Proof.
  intros x. pose proof (cs_error_good (get_error_csrsp_info c) v) as Hg. fold x in Hg.
  assert (Hs : size (create_sess_rsp_layout x) = 8 * (reject_len v + 4))
    by (unfold x, reject_len, cs_error_rsp; destruct (v =? _); done).
  unfold cs_error_response. fold x. clearbody x.
  eapply (finish_gtp_read _ _ x.(create_sess_rsp_header) (create_sess_rsp_body x) (reject_len v + 4));
    [|exact Hs|unfold reject_len, MAX_GTPV2C_UDP_LEN; destruct (v =? _); lia|].
  - replace (reject_len v + 4) with (size (create_sess_rsp_layout x) / 8) by (rewrite Hs; divlia). by eapply create_rsp_encodes.
  - rewrite Z.add_simpl_r. exact (create_sess_rsp_decodes _ Hg).
Qed.
Lemma mbr_error_answers c v : let x := mbr_error_rsp (get_error_mbrsp_info c) v in
  answers (decode_mod_bearer_rsp zero_mod_bearer_rsp) (mbr_error_response c v)
    (set_mod_bearer_rsp_header (with_gtp_len 29 x.(mod_bearer_rsp_header)) x).
Proof.
  intros x. pose proof (mbr_error_good (get_error_mbrsp_info c) v) as Hg. fold x in Hg.
  assert (Hs : size (mod_bearer_rsp_layout x) = 8 * 33) by done. unfold mbr_error_response. fold x. clearbody x.
  eapply (finish_gtp_read _ _ x.(mod_bearer_rsp_header) (mod_bearer_rsp_body x) 33); [|exact Hs|done|exact (mod_bearer_rsp_decodes _ Hg)].
  replace 33 with (size (mod_bearer_rsp_layout x) / 8) by (by rewrite Hs). exact (mod_rsp_encodes x _ Hg).
Qed.
Lemma ds_error_answers c v : let x := ds_error_rsp (get_error_dsrsp_info c) v in
  answers (decode_del_sess_rsp zero_del_sess_rsp) (ds_error_response c v)
    (set_del_sess_rsp_header (with_gtp_len 14 x.(del_sess_rsp_header)) x).
Proof.
  intros x. pose proof (ds_error_good (get_error_dsrsp_info c) v) as Hg. fold x in Hg.
  assert (Hs : size (del_sess_rsp_layout x) = 8 * 18) by done. unfold ds_error_response. fold x. clearbody x.
  eapply (finish_gtp_read _ _ x.(del_sess_rsp_header) (del_sess_rsp_body x) 18); [|exact Hs|done|exact (del_sess_rsp_decodes _ Hg)].
  replace 18 with (size (del_sess_rsp_layout x) / 8) by (by rewrite Hs). exact (del_rsp_encodes x _ Hg).
Qed.

(** The header a rejection is read with. *)
Definition addressed (h : gtpv2c_header_t) (type teid seq : Z) : Prop :=
  h.(gtpc_message_type) = type ∧ h.(gtpc_version) = GTP_VERSION_GTPV2C ∧ h.(gtpc_teid_flag) = 1 ∧
  h.(has_teid_teid) = u32 teid ∧ h.(has_teid_seq) = uwrap 24 seq.

(** Whom a rejection must reach, as the tunnel id of the MME, the sequence number and the
    bearer id: those of the request, or what the procedure knows of its subscriber and of the
    transaction with the MME.  A modify bearer request without a procedure and a message that
    is not looked at give no tunnel id, and a delete session request of an unknown subscriber
    neither. *)
Definition reaches : Type := Z * Z * Z.
Definition of_procedure (p : proc_ids) : reaches := (p.(s11_mme_gtpc_teid), p.(trans_sequence), p.(proc_bearer_id)).
Definition cs_reaches (c : cs_cause) : reaches :=
  match c with
  | CsRequest csr =>
      (csr.(create_sess_req_sender_fteid_ctl_plane).(gtp_fully_qual_tunn_endpt_idnt_teid_gre_key),
       csr.(create_sess_req_header).(has_teid_seq),
       csr.(create_sess_req_bearer_contexts_to_be_created).(gtp_create_sess_request_bearer_ctxt_to_be_created_eps_bearer_id).(gtp_eps_bearer_id_ebi_ebi))
  | CsAssociation p | CsEstablishment p | CsOther p => of_procedure p
  | CsIgnored => (0, 0, 0)
  end.
Definition mb_reaches (c : mb_cause) : reaches :=
  match c with MbRequest seq ebi => (0, seq, ebi) | MbProcedure p => of_procedure p | MbIgnored => (0, 0, 0) end.
Definition ds_reaches (c : ds_cause) : Z * Z :=
  match c with
  | DsRequest seq _ (Some mme) => (mme, seq)
  | DsRequest seq _ None => (0, seq)
  | DsDeletion p => (p.(s11_mme_gtpc_teid), p.(trans_sequence))
  end.

(** The elements that a request is asked for, with their types, and the one that is named: the
    last of them that is missing, or none. *)
Definition required (csr : create_sess_req_t) : list (ie_header_t * Z) :=
  let ctx := csr.(create_sess_req_bearer_contexts_to_be_created) in
  [(ctx.(gtp_create_sess_request_bearer_ctxt_to_be_created_header), GTP_IE_CREATE_SESS_REQUEST_BEARER_CTXT_TO_BE_CREATED);
   (csr.(create_sess_req_sender_fteid_ctl_plane).(gtp_fully_qual_tunn_endpt_idnt_header), GTP_IE_FULLY_QUAL_TUNN_ENDPT_IDNT);
   (csr.(create_sess_req_imsi).(gtp_imsi_header), GTP_IE_IMSI);
   (csr.(create_sess_req_apn_ambr).(gtp_agg_max_bit_rate_header), GTP_IE_AGG_MAX_BIT_RATE);
   (csr.(create_sess_req_pdn_type).(gtp_pdn_type_header), GTP_IE_PDN_TYPE);
   (ctx.(gtp_create_sess_request_bearer_ctxt_to_be_created_bearer_lvl_qos).(gtp_bearer_qlty_of_svc_header), GTP_IE_BEARER_QLTY_OF_SVC);
   (csr.(create_sess_req_rat_type).(gtp_rat_type_header), GTP_IE_RAT_TYPE);
   (csr.(create_sess_req_apn).(gtp_acc_pt_name_header), GTP_IE_ACC_PT_NAME)].
Definition last_missing (csr : create_sess_req_t) : option Z :=
  snd <$> list.last (filter (fun p => p.1.(gie_len) = 0) (required csr)).
Definition cs_names (c : cs_cause) : Z :=
  match c with CsRequest csr => default 0 (last_missing csr) | _ => 0 end.

Lemma foldl_last {A} (o : Z) (l : list (A * Z)) (P : A * Z -> bool) :
  foldl (fun o p => if P p then p.2 else o) o l = default o (snd <$> list.last (filter (fun p => P p = true) l)).
Proof.
  induction l as [|p l IH] using rev_ind; [done|]. rewrite foldl_snoc, IH, list.filter_app.
  destruct (P p) eqn:E.
  - rewrite filter_singleton_True by done. by rewrite last_snoc.
  - rewrite filter_singleton_False, app_nil_r by (by rewrite ?E || exact l). done.
Qed.
Lemma offending_named csr : u8 (u8 (offending_ie csr)) = default 0 (last_missing csr).
Proof.
  assert (offending_ie csr = default 0 (last_missing csr)) as ->.
  { unfold last_missing. rewrite (list_filter_iff _ (fun p => (gie_len p.1 =? 0) = true)) by (intros p; by rewrite Z.eqb_eq).
    symmetry. exact (eq_sym (foldl_last 0 (required csr) (fun p => gie_len p.1 =? 0))). }
  assert (Forall (fun p => 0 <= p.2 < 2 ^ 8) (required csr)) as HF
    by (unfold required; repeat (apply Forall_cons_2; [by vm_compute|]); apply Forall_nil_2).
  assert (0 <= default 0 (last_missing csr) < 2 ^ 8); [|rewrite (uwrap_small _ (u8 _)), uwrap_small by (rewrite ?uwrap_small by lia; lia); done].
  unfold last_missing. destruct (list.last _) as [q|] eqn:E; [|cbn; lia].
  apply last_Some_elem_of, list_elem_of_filter in E as [_ E]. rewrite list.Forall_forall in HF. by apply (HF q).
Qed.

(** C13: The rejection of a create session, modify bearer or delete session request, as
    filled, encoded and given its length, is read by the decoder of the library.  It is
    addressed to the tunnel id of the MME - that of the request or of the subscriber of the
    procedure; 0 where the code has none, which is a modify bearer request without a
    procedure, a message that is ignored and a delete request of an unknown subscriber - with
    the sequence number of the request or of the transaction.  The message and its bearer
    context carry the cause and the bearer id.  The cause for a missing element names the
    last of the eight elements that is missing; it names none if all are there, as when the
    type of the address is refused, and no other cause names an element. *)
Theorem rejections_read_back v :
  (∀ c, ∃ x, answers (decode_create_sess_rsp zero_create_sess_rsp) (cs_error_response c v) x ∧
     let '(teid, seq, ebi) := cs_reaches c in
     addressed x.(create_sess_rsp_header) GTP_CREATE_SESSION_RSP teid seq ∧
     x.(create_sess_rsp_cause).(gtp_cause_cause_value) = u8 v ∧
     x.(create_sess_rsp_cause).(gtp_cause_offend_ie_type) =
       (if v =? GTPV2C_CAUSE_MANDATORY_IE_MISSING then cs_names c else 0) ∧
     x.(create_sess_rsp_bearer_contexts_created).(gtp_create_sess_response_bearer_ctxt_created_cause).(gtp_cause_cause_value) = u8 v ∧
     x.(create_sess_rsp_bearer_contexts_created).(gtp_create_sess_response_bearer_ctxt_created_eps_bearer_id).(gtp_eps_bearer_id_ebi_ebi)
       = uwrap 4 ebi) ∧
  (∀ c, ∃ x, answers (decode_mod_bearer_rsp zero_mod_bearer_rsp) (mbr_error_response c v) x ∧
     let '(teid, seq, ebi) := mb_reaches c in
     addressed x.(mod_bearer_rsp_header) GTP_MODIFY_BEARER_RSP teid seq ∧
     x.(mod_bearer_rsp_cause).(gtp_cause_cause_value) = u8 v ∧
     x.(mod_bearer_rsp_bearer_contexts_modified).(gtp_mod_bearer_response_bearer_ctxt_modified_cause).(gtp_cause_cause_value) = u8 v ∧
     x.(mod_bearer_rsp_bearer_contexts_modified).(gtp_mod_bearer_response_bearer_ctxt_modified_eps_bearer_id).(gtp_eps_bearer_id_ebi_ebi)
       = uwrap 4 ebi) ∧
  (∀ c, ∃ x, answers (decode_del_sess_rsp zero_del_sess_rsp) (ds_error_response c v) x ∧
     let '(teid, seq) := ds_reaches c in
     addressed x.(del_sess_rsp_header) GTP_DELETE_SESSION_RSP teid seq ∧
     x.(del_sess_rsp_cause).(gtp_cause_cause_value) = u8 v).
Proof.
  split_and!; intros c.
  - eexists. split; [apply cs_error_answers|].
    assert (u8 (get_error_csrsp_info c).(offending) = cs_names c) as Hn by (destruct c; [apply offending_named|done..]).
    rewrite <- Hn. unfold cs_error_rsp. by destruct c, (v =? _).
  - eexists. split; [apply mbr_error_answers|]. by destruct c.
  - eexists. split; [apply ds_error_answers|]. by destruct c as [? ? [?|]|].
Qed.

(** The rejection of a release of access bearers is read with the bytes of the tunnel id
    in the opposite order. *)
Theorem rab_rejection_misaddressed c v :
  let i := get_error_rabrsp_info c in
  ∃ buf, rab_error_response c v = Some buf ∧ Z.of_nat (length buf) = 18 ∧
    decode_gtpv2c_header_t zero_gtpv2c_header buf =
      Some (12, with_gtp_len 14 (set_gtpv2c_teid_header GTP_RELEASE_ACCESS_BEARERS_RSP (htonl i.(sender_teid)) i.(err_seq) zero_gtpv2c_header)).
Proof.
  intros i. set (x := rab_error_rsp i v).
  set (body := opt_layout x.(rel_acc_bearer_rsp_cause) ++ []).
  destruct (finish_gtp_holds (encode_rel_acc_bearer_rsp x) x.(rel_acc_bearer_rsp_header) body 18) as (buf & E & Hl & Hh);
    [|done|done|].
  { change 18 with (size (layout_gtpv2c_header x.(rel_acc_bearer_rsp_header) ++ body) / 8).
    assert (Hg : opt_good (GTP_IE_CAUSE, GTP_IE_INSTANCE_ZERO) x.(rel_acc_bearer_rsp_cause)) by apply error_cause_good.
    clearbody x.
    apply (encodes_enc_bits 8); [by right|]. apply places_gtp_header. unfold body. place_members ltac:(gtp_member). }
  exists buf. split; [done|]. split; [done|]. rewrite wbits_app in Hh.
  destruct (teid_header_good GTP_RELEASE_ACCESS_BEARERS_RSP (htonl i.(sender_teid)) i.(err_seq) 14 body) as (H1 & H2 & _);
    [vm_compute; reflexivity|lia|].
  exact (gtpv2c_header_decodes _ H2 H1 buf (wbits body) Hh eq_refl).
Qed.

(** ** The check of a request *)

(** The elements that have to be present. *)
Definition mandatory_present (csr : create_sess_req_t) : Prop :=
  let ctx := csr.(create_sess_req_bearer_contexts_to_be_created) in
  Forall (fun h => h.(gie_len) ≠ 0)
    [ctx.(gtp_create_sess_request_bearer_ctxt_to_be_created_header);
     csr.(create_sess_req_sender_fteid_ctl_plane).(gtp_fully_qual_tunn_endpt_idnt_header);
     csr.(create_sess_req_imsi).(gtp_imsi_header);
     csr.(create_sess_req_apn_ambr).(gtp_agg_max_bit_rate_header);
     csr.(create_sess_req_pdn_type).(gtp_pdn_type_header);
     ctx.(gtp_create_sess_request_bearer_ctxt_to_be_created_bearer_lvl_qos).(gtp_bearer_qlty_of_svc_header);
     csr.(create_sess_req_rat_type).(gtp_rat_type_header)].
Definition without_imsi (csr : create_sess_req_t) : Prop :=
  csr.(create_sess_req_indctn_flgs).(gtp_indication_header).(gie_len) ≠ 0 ∧
  csr.(create_sess_req_indctn_flgs).(gtp_indication_indication_uimsi) ≠ 0.

(** Exactly the requests for IPv4 with all mandatory elements, and with an IMSI, pass.  A
    request for another type of address is rejected as if an element were missing: the
    cause 83 for an unsupported type is never given. *)
Theorem csreq_checked csr :
  (validate_csreq_msg csr = 0 <->
    ¬ without_imsi csr ∧ mandatory_present csr ∧ csr.(create_sess_req_pdn_type).(gtp_pdn_type_pdn_type_pdn_type) = PDN_IP_TYPE_IPV4) ∧
  validate_csreq_msg csr ≠ GTPV2C_CAUSE_PREFERRED_PDN_TYPE_UNSUPPORTED.
Proof.
  set (ipv4 := gtp_pdn_type_pdn_type_pdn_type (create_sess_req_pdn_type csr) = PDN_IP_TYPE_IPV4). unfold validate_csreq_msg. cbv zeta.
  match goal with |- context [if ?a then GTPV2C_CAUSE_IMSI_NOT_KNOWN else if ?b then _ else _] =>
    assert (Ha : a = true <-> without_imsi csr) by (unfold without_imsi, nz; rewrite andb_true_iff, !negb_true_iff, !Z.eqb_neq; done);
    assert (Hb : b = false <-> mandatory_present csr ∧ ipv4); [|destruct a, b] end.
  { rewrite !orb_false_iff, negb_false_iff, !Z.eqb_neq, Z.eqb_eq. unfold mandatory_present. cbv zeta.
    rewrite !Forall_cons_iff. pose proof (List.Forall_nil (fun h : ie_header_t => gie_len h ≠ 0)). tauto. }
  1-3: split; [split; [done|intros [H1 H2]; first [destruct (H1 (proj1 Ha eq_refl))|discriminate (proj2 Hb H2)]]|done].
  destruct (proj1 Hb eq_refl) as [Hp Hi]. unfold ipv4 in Hi. rewrite Hi. cbn.
  split; [|done]. split; [intros _; split; [|done]; intros H%Ha; done|done].
Qed.

(** A complete request that names its network is rejected for its type of address with a
    cause for a missing element that names no element. *)
Lemma other_address_type_rejected csr :
  ¬ without_imsi csr -> mandatory_present csr -> csr.(create_sess_req_apn).(gtp_acc_pt_name_header).(gie_len) ≠ 0 ->
  csr.(create_sess_req_pdn_type).(gtp_pdn_type_pdn_type_pdn_type) ≠ PDN_IP_TYPE_IPV4 ->
  validate_csreq_msg csr = GTPV2C_CAUSE_MANDATORY_IE_MISSING ∧ (get_error_csrsp_info (CsRequest csr)).(offending) = 0.
Proof.
  intros Hu Hm Ha Hp. split.
  - unfold validate_csreq_msg. cbv zeta. apply Z.eqb_neq in Hp. rewrite Hp, orb_true_r. cbn [negb].
    destruct (_ && _) eqn:E; [|done]. destruct Hu. unfold without_imsi, nz in *.
    by rewrite andb_true_iff, !negb_true_iff, !Z.eqb_neq in E.
  - unfold mandatory_present in Hm. cbv zeta in Hm. rewrite !Forall_cons_iff in Hm. destruct_and! Hm.
    cbn [get_error_csrsp_info offending]. unfold offending_ie. cbn [foldl fst snd].
    repeat match goal with H : _ ≠ 0 |- _ => apply Z.eqb_neq in H; rewrite ?H; clear H end. done.
Qed.
