(* ===== verification/GtpAccept.v ===== *)
(** * The accepted create session request

    The create session response of src/cp/gtpv2/msg/create_session_request.c with its
    protocol configuration options.  The structure of the response is filled, encoded
    into the zeroed transmission buffer and given its length, as in [GtpReply]. *)

From S2P Require Import Prelude EncDecBits Codec CodecSpec Tlv PfcpIesOptional PfcpSetIe.
From S2P Require Import GtpIes GtpIesEncoder GtpIesDecoder GtpIesSpec GtpIesOptional GtpIesLocation.
From S2P Require Import GtpMsgs GtpMsgsEncoder GtpMsgsDecoder GtpGroups GtpMsgsSpec PfcpSession GtpTxBuf GtpSetIe GtpSend GtpReply.

(** ** Protocol configuration options *)

(** What the profile of the subscriber says; the addresses as they lie in memory. *)
Record sub_config_t := mk_sub_config { dns_primary : Z; dns_secondary : Z; mtu : Z }.

Definition pco_buf_size : nat := 260.

(** [memcpy(&pco_buf[index], ..)] and [index += ..]. *)
Definition pco_put (bs : list Z) (st : list Z * Z) : option (list Z * Z) :=
  let '(buf, index) := st in
  let i := Z.to_nat index in
  if decide (i + length bs <= length buf)%nat
  then Some (take i buf ++ bs ++ drop (i + length bs) buf, u16 (index + Z.of_nat (length bs)))
  else None.

Definition pco_type (type : Z) : list Z := [u8 (type / 256); u8 type].
Definition pco_mtu (sc : sub_config_t) (st : list Z * Z) : option (list Z * Z) :=
  st ← pco_put (pco_type PCO_ID_IPV4_LINK_MTU_REQUEST) st;
  st ← pco_put [2] st;
  pco_put [u8 (sc.(mtu) / 256); u8 sc.(mtu)] st.
(** The first byte of the data is the code of the request. *)
Definition pco_ipcp (sc : sub_config_t) (data : list Z) (st : list Z * Z) : option (list Z * Z) :=
  code ← data !! 0%nat;
  if negb (code =? 1) then Some st
  else
    st ← pco_put (pco_type PCO_ID_INTERNET_PROTOCOL_CONTROL_PROTOCOL) st;
    st ← pco_put [16] st;
    st ← pco_put [3] st;
    st ← pco_put [0] st;
    st ← pco_put [0; 16] st;
    st ← pco_put [129] st;
    st ← pco_put [6] st;
    st ← pco_put (le_bytes 4 sc.(dns_primary)) st;
    st ← pco_put [131] st;
    st ← pco_put [6] st;
    pco_put (le_bytes 4 sc.(dns_secondary)) st.
Definition pco_dns (sc : sub_config_t) (st : list Z * Z) : option (list Z * Z) :=
  st ← pco_put (pco_type PCO_ID_DNS_SERVER_IPV4_ADDRESS_REQUEST) st;
  st ← pco_put [4] st;
  pco_put (le_bytes 4 sc.(dns_primary)) st.
(** The switch on the type of an option; the flag says that the MTU was answered. *)
Definition pco_option (sc : sub_config_t) (o : pco_opt_t) (st : list Z * Z) (ipv4_link_mtu : bool)
    : option (list Z * Z * bool) :=
  if o.(pco_opt_type) =? PCO_ID_INTERNET_PROTOCOL_CONTROL_PROTOCOL then
    st ← pco_ipcp sc o.(pco_opt_data) st; Some (st, ipv4_link_mtu)
  else if o.(pco_opt_type) =? PCO_ID_DNS_SERVER_IPV4_ADDRESS_REQUEST then
    st ← pco_dns sc st; Some (st, ipv4_link_mtu)
  else if o.(pco_opt_type) =? PCO_ID_IP_ADDRESS_ALLOCATION_VIA_NAS_SIGNALLING then Some (st, ipv4_link_mtu)
  else if o.(pco_opt_type) =? PCO_ID_IPV4_LINK_MTU_REQUEST then
    st ← pco_mtu sc st; Some (st, true)
  else Some (st, ipv4_link_mtu).
Fixpoint pco_options (sc : sub_config_t) (ids : list pco_opt_t) (n : nat) (st : list Z * Z) (ipv4_link_mtu : bool)
    {struct n} : option (list Z * Z * bool) :=
  match n, ids with
  | O, _ => Some (st, ipv4_link_mtu)
  | S n, o :: ids => '(st, m) ← pco_option sc o st ipv4_link_mtu; pco_options sc ids n st m
  | S _, [] => None
  end.
(** The bytes and their number. *)
Definition build_pco_response (req_pco : pco_ie_t) (sc : sub_config_t) (pco_buf : list Z) : option (list Z * Z) :=
  let byte := u8 (Z.lor (Z.shiftl req_pco.(pco_ie_ext) 7) (Z.land req_pco.(pco_ie_config_proto) 3)) in
  st ← pco_put [byte] (pco_buf, 0);
  '(st, ipv4_link_mtu) ← pco_options sc req_pco.(pco_ie_ids) (Z.to_nat req_pco.(pco_ie_num_of_opt)) st false;
  if ipv4_link_mtu : bool then Some st else pco_mtu sc st.

(** ** The response *)

(** The procedure: the options of the request, if it had some, and the profile. *)
Record attach_proc := mk_attach_proc { req_pco : option pco_ie_t; sub_config : sub_config_t }.
(** The members of the context, the connection, the node, the configuration and the bearer
    that the response takes. *)
Record attach_state := mk_attach {
  at_mme_teid : Z; (* context->s11_mme_gtpc_teid *)
  at_sgw_teid : Z; (* context->s11_sgw_gtpc_teid *)
  at_s11_ip : Z; (* cp_config->s11_ip *)
  at_s1u_ip : Z; (* upf_ctx->s1u_ip *)
  at_ambr_ul : Z; (* pdn->apn_ambr *)
  at_ambr_dl : Z;
  at_pgw_gtpc_teid : Z; (* pdn->s5s8_pgw_gtpc_teid *)
  at_pgw_gtpc_ipv4 : Z;
  at_ipv4 : Z; (* pdn->ipv4 *)
  at_apn_restriction : Z;
  at_s11u_mme_teid : Z; (* bearer->s11u_mme_gtpu_teid *)
  at_bearers : list (option eps_bearer_t); (* context->eps_bearers *)
}.

(** The bearer context of the response; [q] is the bearer in the context. *)
Definition bearer_created (a : attach_state) (bearer q : eps_bearer_t) : gtp_create_sess_response_bearer_ctxt_created_ie_t :=
  let fteid_len := sizeof_ipv4_fteid + IE_HEADER_SIZE in
  let h0 := set_ie_header GTP_IE_BEARER_CONTEXT GTP_IE_INSTANCE_ZERO 0 in
  let h1 := add_len (1 + IE_HEADER_SIZE) h0 in
  let h2 := add_len (sizeof_cause_ie_hdr + IE_HEADER_SIZE) h1 in
  let '(s1u, h3) :=
    if nz a.(at_s11u_mme_teid) then (zero_gtp_fully_qual_tunn_endpt_idnt, h2)
    else if nz bearer.(s1u_sgw_gtpu_teid) && nz a.(at_s1u_ip)
    then (set_ipv4_fteid GTPV2C_IFTYPE_S1U_SGW_GTPU GTP_IE_INSTANCE_ZERO a.(at_s1u_ip) bearer.(s1u_sgw_gtpu_teid)
            zero_gtp_fully_qual_tunn_endpt_idnt, add_len fteid_len h2)
    else (zero_gtp_fully_qual_tunn_endpt_idnt, h2) in
  let '(s5s8, h4) :=
    if nz bearer.(s5s8_pgw_gtpu_teid) && nz bearer.(s5s8_pgw_gtpu_ipv4)
    then (set_ipv4_fteid GTPV2C_IFTYPE_S5S8_PGW_GTPU GTP_IE_INSTANCE_TWO bearer.(s5s8_pgw_gtpu_ipv4) bearer.(s5s8_pgw_gtpu_teid)
            zero_gtp_fully_qual_tunn_endpt_idnt, add_len fteid_len h3)
    else (zero_gtp_fully_qual_tunn_endpt_idnt, h3) in
  let quality := set_bearer_qos GTP_IE_INSTANCE_ZERO q in
  let h5 := add_len (quality.(gtp_bearer_qlty_of_svc_header).(gie_len) + IE_HEADER_SIZE) h4 in
  set_gtp_create_sess_response_bearer_ctxt_created_header h5
  (set_gtp_create_sess_response_bearer_ctxt_created_eps_bearer_id (set_ebi GTP_IE_INSTANCE_ZERO bearer.(eps_bearer_id))
  (set_gtp_create_sess_response_bearer_ctxt_created_cause (set_cause_accepted GTP_IE_INSTANCE_ZERO zero_gtp_cause)
  (set_gtp_create_sess_response_bearer_ctxt_created_s1u_sgw_fteid s1u
  (set_gtp_create_sess_response_bearer_ctxt_created_s5s8_u_pgw_fteid s5s8
  (set_gtp_create_sess_response_bearer_ctxt_created_bearer_lvl_qos quality zero_gtp_create_sess_response_bearer_ctxt_created))))).

(** The response without options. *)
Definition cs_resp (a : attach_state) (sequence : Z) (bearer q : eps_bearer_t) : create_sess_rsp_t :=
  let ip := htonl a.(at_s11_ip) in
  let sender :=
    if nz a.(at_sgw_teid) && nz ip
    then set_ipv4_fteid GTPV2C_IFTYPE_S11S4_SGW_GTPC GTP_IE_INSTANCE_ZERO ip a.(at_sgw_teid) zero_gtp_fully_qual_tunn_endpt_idnt
    else zero_gtp_fully_qual_tunn_endpt_idnt in
  let pgw :=
    if nz a.(at_pgw_gtpc_teid) && nz a.(at_pgw_gtpc_ipv4)
    then set_ipv4_fteid GTPV2C_IFTYPE_S5S8_PGW_GTPC GTP_IE_INSTANCE_ONE a.(at_pgw_gtpc_ipv4) a.(at_pgw_gtpc_teid)
           zero_gtp_fully_qual_tunn_endpt_idnt
    else zero_gtp_fully_qual_tunn_endpt_idnt in
  set_create_sess_rsp_header (set_gtpv2c_teid_header GTP_CREATE_SESSION_RSP a.(at_mme_teid) sequence zero_gtpv2c_header)
  (set_create_sess_rsp_cause (set_cause_accepted GTP_IE_INSTANCE_ZERO zero_gtp_cause)
  (set_create_sess_rsp_apn_ambr (set_apn_ambr a.(at_ambr_ul) a.(at_ambr_dl))
  (set_create_sess_rsp_sender_fteid_ctl_plane sender
  (set_create_sess_rsp_pgw_s5s8_s2as2b_fteid_pmip_based_intfc_or_gtp_based_ctl_plane_intfc pgw
  (set_create_sess_rsp_paa (set_ipv4_paa GTP_IE_INSTANCE_ZERO a.(at_ipv4) zero_gtp_pdn_addr_alloc)
  (set_create_sess_rsp_apn_restriction (set_apn_restriction GTP_IE_INSTANCE_ZERO a.(at_apn_restriction))
  (set_create_sess_rsp_bearer_contexts_created (bearer_created a bearer q) zero_create_sess_rsp))))))).

(** The options of the response are a member of their own. *)
Definition set_create_sess_rsp_pco_new (v : pco_ie_t) (x : create_sess_rsp_t) : create_sess_rsp_t :=
  let 'mk_create_sess_rsp a0 a1 a2 a3 a4 a5 a6 a7 a8 a9 a10 a11 a12 a13 a14 a15 a16 a17 a18 a19 a20 a21 a22 a23 a24 a25 a26 a27 a28 a29 a30 a31 a32 a33 a34 _ := x in mk_create_sess_rsp a0 a1 a2 a3 a4 a5 a6 a7 a8 a9 a10 a11 a12 a13 a14 a15 a16 a17 a18 a19 a20 a21 a22 a23 a24 a25 a26 a27 a28 a29 a30 a31 a32 a33 a34 v.

(** [proc] is NULL in [None]; so is an entry of [eps_bearers]. *)
Definition set_create_session_response (proc : option attach_proc) (sequence : Z) (a : attach_state) (bearer : eps_bearer_t)
    : option (list Z) :=
  let ebi_index := u8 (bearer.(eps_bearer_id) - 5) in
  q ← mjoin (a.(at_bearers) !! Z.to_nat ebi_index);
  p ← proc;
  let r := cs_resp a sequence bearer q in
  r' ← match p.(req_pco) with
       | None => Some r
       | Some o =>
           '(pco_buf, len) ← build_pco_response o p.(sub_config) (repeat 0 pco_buf_size);
           x ← set_pco GTP_IE_INSTANCE_ZERO pco_buf len r.(create_sess_rsp_pco_new);
           Some (set_create_sess_rsp_pco_new x r)
       end;
  finish_gtp (encode_create_sess_rsp r' zeroed_tx_buf 0).

(** ** The response is readable *)

Lemma fteid_set_good iface inst ip teid : 0 <= inst < 16 ->
  opt_good (GTP_IE_FULLY_QUAL_TUNN_ENDPT_IDNT, inst) (set_ipv4_fteid iface inst ip teid zero_gtp_fully_qual_tunn_endpt_idnt).
Proof.
  intros Hi. assert (Ei : u8 inst = inst) by (apply uwrap_small; lia). unfold set_ipv4_fteid, set_ie_header. rewrite Ei.
  split; [done|]. split; [split; [wire_ok|split; [done|split; [done|split; [apply bytes_ok_zeros|done]]]]|].
  split; [wire_ok|done].
Qed.
Lemma fteid_if_good b iface inst ip teid : 0 <= inst < 16 ->
  opt_good (GTP_IE_FULLY_QUAL_TUNN_ENDPT_IDNT, inst)
    (if b : bool then set_ipv4_fteid iface inst ip teid zero_gtp_fully_qual_tunn_endpt_idnt else zero_gtp_fully_qual_tunn_endpt_idnt).
Proof. intros Hi. destruct b; [by apply fteid_set_good|done]. Qed.

Lemma cause_accepted_good : opt_good (GTP_IE_CAUSE, GTP_IE_INSTANCE_ZERO) (set_cause_accepted GTP_IE_INSTANCE_ZERO zero_gtp_cause).
Proof. split; [done|]. split; [split; [wire_ok|done]|]. split; [wire_ok|done]. Qed.
Lemma paa_set_good ip : opt_good (GTP_IE_PDN_ADDR_ALLOC, GTP_IE_INSTANCE_ZERO) (set_ipv4_paa GTP_IE_INSTANCE_ZERO ip zero_gtp_pdn_addr_alloc).
Proof.
  split; [done|]. split; [split; [wire_ok|]|split; [wire_ok|done]]. split; [done|]. split; [|done].
  apply Forall_app_2; [apply bytes_ok_le_bytes|apply (bytes_ok_zeros 17)].
Qed.
Lemma restriction_good r :
  opt_good (GTP_IE_APN_RESTRICTION, GTP_IE_INSTANCE_ZERO) (set_apn_restriction GTP_IE_INSTANCE_ZERO r).
Proof. split; [done|]. wire_ok. Qed.
Lemma ambr_good ul dl : opt_good (GTP_IE_AGG_MAX_BIT_RATE, GTP_IE_INSTANCE_ZERO) (set_apn_ambr ul dl).
Proof. split; [done|]. wire_ok. Qed.
Lemma qos_good b : opt_good (GTP_IE_BEARER_QLTY_OF_SVC, GTP_IE_INSTANCE_ZERO) (set_bearer_qos GTP_IE_INSTANCE_ZERO b).
Proof. split; [done|]. wire_ok. Qed.

(** The tunnel endpoints that are present. *)
Definition has_s1u (a : attach_state) (b : eps_bearer_t) : bool :=
  negb (nz a.(at_s11u_mme_teid)) && (nz b.(s1u_sgw_gtpu_teid) && nz a.(at_s1u_ip)).
Definition has_s5s8_u (b : eps_bearer_t) : bool := nz b.(s5s8_pgw_gtpu_teid) && nz b.(s5s8_pgw_gtpu_ipv4).
Definition has_s11 (a : attach_state) : bool := nz a.(at_sgw_teid) && nz (htonl a.(at_s11_ip)).
Definition has_s5s8 (a : attach_state) : bool := nz a.(at_pgw_gtpc_teid) && nz a.(at_pgw_gtpc_ipv4).
Definition fteid_if (b : bool) (iface inst ip teid : Z) : gtp_fully_qual_tunn_endpt_idnt_ie_t :=
  if b then set_ipv4_fteid iface inst ip teid zero_gtp_fully_qual_tunn_endpt_idnt else zero_gtp_fully_qual_tunn_endpt_idnt.

(** A bearer context with its tunnel endpoints, and its length. *)
Definition created_with (s1u s5s8 : bool) (a : attach_state) (bearer q : eps_bearer_t)
    : gtp_create_sess_response_bearer_ctxt_created_ie_t :=
  set_gtp_create_sess_response_bearer_ctxt_created_header
    (mk_gie GTP_IE_BEARER_CONTEXT (37 + (if s1u then 13 else 0) + (if s5s8 then 13 else 0)) 0)
  (set_gtp_create_sess_response_bearer_ctxt_created_eps_bearer_id (set_ebi GTP_IE_INSTANCE_ZERO bearer.(eps_bearer_id))
  (set_gtp_create_sess_response_bearer_ctxt_created_cause (set_cause_accepted GTP_IE_INSTANCE_ZERO zero_gtp_cause)
  (set_gtp_create_sess_response_bearer_ctxt_created_s1u_sgw_fteid
     (fteid_if s1u GTPV2C_IFTYPE_S1U_SGW_GTPU 0 a.(at_s1u_ip) bearer.(s1u_sgw_gtpu_teid))
  (set_gtp_create_sess_response_bearer_ctxt_created_s5s8_u_pgw_fteid
     (fteid_if s5s8 GTPV2C_IFTYPE_S5S8_PGW_GTPU 2 bearer.(s5s8_pgw_gtpu_ipv4) bearer.(s5s8_pgw_gtpu_teid))
  (set_gtp_create_sess_response_bearer_ctxt_created_bearer_lvl_qos (set_bearer_qos GTP_IE_INSTANCE_ZERO q)
     zero_gtp_create_sess_response_bearer_ctxt_created))))).
Lemma bearer_created_with a bearer q :
  bearer_created a bearer q = created_with (has_s1u a bearer) (has_s5s8_u bearer) a bearer q.
Proof.
  unfold bearer_created, created_with, has_s1u, has_s5s8_u, fteid_if.
  destruct (nz (at_s11u_mme_teid a)), (nz _ && nz (at_s1u_ip a)), (nz _ && nz (s5s8_pgw_gtpu_ipv4 _)); reflexivity.
Qed.
Lemma created_good s1u s5s8 a bearer q :
  opt_good (GTP_IE_CREATE_SESS_RESPONSE_BEARER_CTXT_CREATED, GTP_IE_INSTANCE_ZERO) (created_with s1u s5s8 a bearer q).
Proof.
  assert (Hn : nz (37 + (if s1u then 13 else 0) + (if s5s8 then 13 else 0)) = true) by by destruct s1u, s5s8.
  unfold opt_good. replace (nz (th_len _)) with true by (symmetry; exact Hn). split; [done|].
  split; [|split; [apply error_ebi_good|split; [apply cause_accepted_good|]]].
  - split; [destruct s1u, s5s8; wire_ok|]. split; destruct s1u, s5s8; vm_compute; reflexivity.
  - split; [by apply (fteid_if_good s1u)|]. split; [done|]. split; [by apply (fteid_if_good s5s8)|].
    do 3 (split; [done|]). split; [apply qos_good|]. repeat (split; [done|]); done.
Qed.

(** The response with its tunnel endpoints. *)
Definition response_with (s11 s5s8c s1u s5s8u : bool) (a : attach_state) (sequence : Z) (bearer q : eps_bearer_t) : create_sess_rsp_t :=
  set_create_sess_rsp_header (set_gtpv2c_teid_header GTP_CREATE_SESSION_RSP a.(at_mme_teid) sequence zero_gtpv2c_header)
  (set_create_sess_rsp_cause (set_cause_accepted GTP_IE_INSTANCE_ZERO zero_gtp_cause)
  (set_create_sess_rsp_apn_ambr (set_apn_ambr a.(at_ambr_ul) a.(at_ambr_dl))
  (set_create_sess_rsp_sender_fteid_ctl_plane (fteid_if s11 GTPV2C_IFTYPE_S11S4_SGW_GTPC 0 (htonl a.(at_s11_ip)) a.(at_sgw_teid))
  (set_create_sess_rsp_pgw_s5s8_s2as2b_fteid_pmip_based_intfc_or_gtp_based_ctl_plane_intfc
     (fteid_if s5s8c GTPV2C_IFTYPE_S5S8_PGW_GTPC 1 a.(at_pgw_gtpc_ipv4) a.(at_pgw_gtpc_teid))
  (set_create_sess_rsp_paa (set_ipv4_paa GTP_IE_INSTANCE_ZERO a.(at_ipv4) zero_gtp_pdn_addr_alloc)
  (set_create_sess_rsp_apn_restriction (set_apn_restriction GTP_IE_INSTANCE_ZERO a.(at_apn_restriction))
  (set_create_sess_rsp_bearer_contexts_created (created_with s1u s5s8u a bearer q) zero_create_sess_rsp))))))).
Lemma cs_resp_with a sequence bearer q :
  cs_resp a sequence bearer q = response_with (has_s11 a) (has_s5s8 a) (has_s1u a bearer) (has_s5s8_u bearer) a sequence bearer q.
Proof. unfold cs_resp. rewrite bearer_created_with. unfold has_s11, has_s5s8, response_with, fteid_if. reflexivity. Qed.

Definition fteid_bytes (b : bool) : Z := if b then 13 else 0.
Definition response_len (s11 s5s8c s1u s5s8u : bool) : Z :=
  81 + fteid_bytes s11 + fteid_bytes s5s8c + fteid_bytes s1u + fteid_bytes s5s8u.
Lemma accept_rsp_size s11 s5s8c s1u s5s8u a sequence bearer q :
  size (create_sess_rsp_layout (response_with s11 s5s8c s1u s5s8u a sequence bearer q)) = 8 * (4 + response_len s11 s5s8c s1u s5s8u).
Proof. destruct s11, s5s8c, s1u, s5s8u; vm_compute; reflexivity. Qed.
Lemma accept_rsp_good s11 s5s8c s1u s5s8u a sequence bearer q :
  let x := response_with s11 s5s8c s1u s5s8u a sequence bearer q in
  create_sess_rsp_good (set_create_sess_rsp_header (with_gtp_len (response_len s11 s5s8c s1u s5s8u) x.(create_sess_rsp_header)) x).
Proof.
  intros x. pose proof (accept_rsp_size s11 s5s8c s1u s5s8u a sequence bearer q) as Hs. unfold create_sess_rsp_layout in Hs.
  rewrite size_app in Hs. split.
  - apply teid_header_good; [|destruct s11, s5s8c, s1u, s5s8u; done].
    change (size (layout_gtpv2c_header _)) with 96 in Hs. change (create_sess_rsp_body _) with (create_sess_rsp_body x). unfold x. lia.
  - split; [apply cause_accepted_good|]. do 3 (split; [done|]). split; [by apply (fteid_if_good s11)|].
    split; [by apply (fteid_if_good s5s8c)|]. split; [apply paa_set_good|]. split; [apply restriction_good|].
    split; [apply ambr_good|]. split; [done|]. split; [apply created_good|]. repeat (split; [done|]); done.
Qed.

(** What a reader of the response finds in its elements: an endpoint is an element of 9 bytes
    with its instance, address and tunnel id, or it is not there. *)
Definition endpoint (present : bool) (interface inst ip teid : Z) (x : gtp_fully_qual_tunn_endpt_idnt_ie_t) : Prop :=
  if present then
    x.(gtp_fully_qual_tunn_endpt_idnt_header) = mk_gie GTP_IE_FULLY_QUAL_TUNN_ENDPT_IDNT 9 inst ∧
    x.(gtp_fully_qual_tunn_endpt_idnt_v4) = 1 ∧ x.(gtp_fully_qual_tunn_endpt_idnt_v6) = 0 ∧
    x.(gtp_fully_qual_tunn_endpt_idnt_interface_type) = interface ∧
    x.(gtp_fully_qual_tunn_endpt_idnt_teid_gre_key) = u32 teid ∧ x.(gtp_fully_qual_tunn_endpt_idnt_ipv4_address) = u32 ip
  else x.(gtp_fully_qual_tunn_endpt_idnt_header).(gie_len) = 0.
Definition rates_are (ul dl : Z) (x : gtp_agg_max_bit_rate_ie_t) : Prop :=
  x.(gtp_agg_max_bit_rate_header).(gie_len) = 8 ∧
  x.(gtp_agg_max_bit_rate_apn_ambr_uplnk) = u32 ul ∧ x.(gtp_agg_max_bit_rate_apn_ambr_dnlnk) = u32 dl.
Definition quality_is (q : bearer_qos_ie) (x : gtp_bearer_qlty_of_svc_ie_t) : Prop :=
  x.(gtp_bearer_qlty_of_svc_header).(gie_len) = 22 ∧
  x.(gtp_bearer_qlty_of_svc_pci) = uwrap 1 q.(preemption_capability) ∧
  x.(gtp_bearer_qlty_of_svc_pl) = uwrap 4 q.(priority_level) ∧
  x.(gtp_bearer_qlty_of_svc_pvi) = uwrap 1 q.(preemption_vulnerability) ∧
  x.(gtp_bearer_qlty_of_svc_qci) = u8 q.(qci) ∧
  x.(gtp_bearer_qlty_of_svc_max_bit_rate_uplnk) = uwrap 40 q.(ul_mbr) ∧
  x.(gtp_bearer_qlty_of_svc_max_bit_rate_dnlnk) = uwrap 40 q.(dl_mbr) ∧
  x.(gtp_bearer_qlty_of_svc_guarntd_bit_rate_uplnk) = uwrap 40 q.(ul_gbr) ∧
  x.(gtp_bearer_qlty_of_svc_guarntd_bit_rate_dnlnk) = uwrap 40 q.(dl_gbr).

Lemma endpoint_if b iface inst ip teid : 0 <= inst < 16 -> 0 <= iface < 64 ->
  endpoint b iface inst ip teid (fteid_if b iface inst ip teid).
Proof.
  intros Hi Hf. destruct b; [|done]. unfold endpoint, fteid_if, set_ipv4_fteid, set_ie_header.
  rewrite (uwrap_small _ inst), (uwrap_small _ iface) by lia. by split_and!.
Qed.

(** C12: Without protocol configuration options in the request, the create session response
    is sent and read by the decoder of the library: it accepts the request for the tunnel
    id and the sequence number of the MME, gives the address of the terminal, the restriction
    and the rates of the network, and describes the bearer with its number and the quality
    that the context holds under this number.  Each of the four tunnel endpoints - of the
    gateway for S11 (interface type 11) and for S5/S8 (7), and of the user plane for S1-U (1)
    and S5/S8 (5) - is there exactly if its tunnel id and its address are set, that for S1-U
    moreover only if the MME has no tunnel id of its own for S11-U. *)
Theorem session_accepted p sequence a bearer q :
  p.(req_pco) = None -> a.(at_bearers) !! Z.to_nat (u8 (bearer.(eps_bearer_id) - 5)) = Some (Some q) ->
  ∃ x, answers (decode_create_sess_rsp zero_create_sess_rsp) (set_create_session_response (Some p) sequence a bearer) x ∧
    addressed x.(create_sess_rsp_header) GTP_CREATE_SESSION_RSP a.(at_mme_teid) sequence ∧
    x.(create_sess_rsp_cause).(gtp_cause_cause_value) = GTPV2C_CAUSE_REQUEST_ACCEPTED ∧
    x.(create_sess_rsp_paa).(gtp_pdn_addr_alloc_pdn_type) = PDN_IP_TYPE_IPV4 ∧
    take 4 x.(create_sess_rsp_paa).(gtp_pdn_addr_alloc_pdn_addr_and_pfx) = le_bytes 4 (htonl a.(at_ipv4)) ∧
    x.(create_sess_rsp_apn_restriction).(gtp_apn_restriction_rstrct_type_val) = u8 a.(at_apn_restriction) ∧
    rates_are a.(at_ambr_ul) a.(at_ambr_dl) x.(create_sess_rsp_apn_ambr) ∧
    endpoint (has_s11 a) 11 0 (htonl a.(at_s11_ip)) a.(at_sgw_teid) x.(create_sess_rsp_sender_fteid_ctl_plane) ∧
    endpoint (has_s5s8 a) 7 1 a.(at_pgw_gtpc_ipv4) a.(at_pgw_gtpc_teid)
      x.(create_sess_rsp_pgw_s5s8_s2as2b_fteid_pmip_based_intfc_or_gtp_based_ctl_plane_intfc) ∧
    let c := x.(create_sess_rsp_bearer_contexts_created) in
    c.(gtp_create_sess_response_bearer_ctxt_created_eps_bearer_id).(gtp_eps_bearer_id_ebi_ebi) = uwrap 4 bearer.(eps_bearer_id) ∧
    c.(gtp_create_sess_response_bearer_ctxt_created_cause).(gtp_cause_cause_value) = GTPV2C_CAUSE_REQUEST_ACCEPTED ∧
    endpoint (has_s1u a bearer) 1 0 a.(at_s1u_ip) bearer.(s1u_sgw_gtpu_teid)
      c.(gtp_create_sess_response_bearer_ctxt_created_s1u_sgw_fteid) ∧
    endpoint (has_s5s8_u bearer) 5 2 bearer.(s5s8_pgw_gtpu_ipv4) bearer.(s5s8_pgw_gtpu_teid)
      c.(gtp_create_sess_response_bearer_ctxt_created_s5s8_u_pgw_fteid) ∧
    quality_is q.(qos) c.(gtp_create_sess_response_bearer_ctxt_created_bearer_lvl_qos).
Proof.
  intros Hp Hq. unfold set_create_session_response. cbv zeta. rewrite Hq. cbn [mjoin option_join mbind option_bind]. rewrite Hp.
  cbn [mbind option_bind]. rewrite cs_resp_with.
  pose proof (accept_rsp_size (has_s11 a) (has_s5s8 a) (has_s1u a bearer) (has_s5s8_u bearer) a sequence bearer q) as Hs.
  pose proof (accept_rsp_good (has_s11 a) (has_s5s8 a) (has_s1u a bearer) (has_s5s8_u bearer) a sequence bearer q) as Hg. cbv zeta in Hg.
  set (n := response_len _ _ _ _) in *. set (x := response_with _ _ _ _ _ _ _ _) in *.
  assert (Hn : 81 <= n <= 133) by (unfold n; destruct (has_s11 a), (has_s5s8 a), (has_s1u a bearer), (has_s5s8_u bearer); done).
  exists (set_create_sess_rsp_header (with_gtp_len n x.(create_sess_rsp_header)) x). split;
    [|unfold x; split_and!; try (by apply endpoint_if); by (done || split_and!)].
  clearbody x.
  eapply (finish_gtp_read _ _ x.(create_sess_rsp_header) (create_sess_rsp_body x) (4 + n)); [|exact Hs|unfold MAX_GTPV2C_UDP_LEN; lia|].
  - replace (4 + n) with (size (create_sess_rsp_layout x) / 8) by (rewrite Hs; divlia). exact (create_rsp_encodes x _ Hg).
  - replace (4 + n - 4) with n by lia. exact (create_sess_rsp_decodes _ Hg).
Qed.

Definition example_attach : attach_state :=
  mk_attach 77 1 (of_le_bytes [10; 0; 0; 1]) (of_le_bytes [2; 0; 0; 10]) 1000 2000 0 0 (of_le_bytes [5; 0; 0; 10]) 0 0 [Some example_bearer_rsp].
Definition example_profile : sub_config_t := mk_sub_config (of_le_bytes [8; 8; 8; 8]) (of_le_bytes [8; 8; 4; 4]) 1400.
Lemma session_accepted_witness :
  ∃ x, answers (decode_create_sess_rsp zero_create_sess_rsp)
      (set_create_session_response (Some (mk_attach_proc None example_profile)) 258 example_attach example_bearer_rsp) x ∧
    addressed x.(create_sess_rsp_header) GTP_CREATE_SESSION_RSP 77 258.
Proof.
  destruct (session_accepted (mk_attach_proc None example_profile) 258 example_attach example_bearer_rsp example_bearer_rsp eq_refl eq_refl)
    as (x & Hx & Ha & _). exists x. split; [exact Hx|exact Ha].
Defined.

(** A handover to another gateway asks for the response without a procedure, and a bearer
    whose number is below 5 or above 15 has no entry in the context: both follow a pointer
    that is not there. *)
Lemma response_null sequence a bearer :
  set_create_session_response None sequence a bearer = None ∧
  (∀ proc, length a.(at_bearers) = 11%nat -> 0 <= bearer.(eps_bearer_id) < 5 ∨ 16 <= bearer.(eps_bearer_id) < 256 ->
    set_create_session_response proc sequence a bearer = None).
Proof.
  unfold set_create_session_response. cbv zeta. split; [by destruct (mjoin _)|].
  intros proc Hl He. rewrite lookup_ge_None_2; [done|]. rewrite Hl. unfold uwrap. change (2 ^ 8) with 256.
  Z.div_mod_to_equations. lia.
Qed.

(** ** The options of the response *)

(** A container: its type and its data. *)
Definition container := (Z * list Z)%type.
Definition container_bytes (c : container) : list Z := pco_type c.1 ++ [Z.of_nat (length c.2)] ++ c.2.
Definition mtu_container (sc : sub_config_t) : container := (PCO_ID_IPV4_LINK_MTU_REQUEST, [u8 (sc.(mtu) / 256); u8 sc.(mtu)]).
(** The answer to an option of the request. *)
Definition option_answer (sc : sub_config_t) (o : pco_opt_t) : list container :=
  if o.(pco_opt_type) =? PCO_ID_INTERNET_PROTOCOL_CONTROL_PROTOCOL then
    if default 0 (head o.(pco_opt_data)) =? 1
    then [(PCO_ID_INTERNET_PROTOCOL_CONTROL_PROTOCOL,
           [3; 0; 0; 16] ++ (129 :: 6 :: le_bytes 4 sc.(dns_primary)) ++ (131 :: 6 :: le_bytes 4 sc.(dns_secondary)))]
    else []
  else if o.(pco_opt_type) =? PCO_ID_DNS_SERVER_IPV4_ADDRESS_REQUEST then
    [(PCO_ID_DNS_SERVER_IPV4_ADDRESS_REQUEST, le_bytes 4 sc.(dns_primary))]
  else if o.(pco_opt_type) =? PCO_ID_IPV4_LINK_MTU_REQUEST then [mtu_container sc]
  else [].
Definition asks_mtu (o : pco_opt_t) : bool := o.(pco_opt_type) =? PCO_ID_IPV4_LINK_MTU_REQUEST.
(** All answers; the MTU is given in any case. *)
Definition options_answer (sc : sub_config_t) (os : list pco_opt_t) : list container :=
  flat_map (option_answer sc) os ++ (if existsb asks_mtu os then [] else [mtu_container sc]).
Definition containers_bytes (cs : list container) : list Z := flat_map container_bytes cs.

(** The buffer with [w] at its start. *)
Definition pco_at (w : list Z) : list Z * Z := (w ++ repeat 0 (pco_buf_size - length w), Z.of_nat (length w)).
Definition pco_try (w : list Z) : option (list Z * Z) :=
  if decide (length w <= pco_buf_size)%nat then Some (pco_at w) else None.

Lemma pco_put_try w bs : (st ← pco_try w; pco_put bs st) = pco_try (w ++ bs).
Proof.
  unfold pco_try, pco_put, pco_buf_size. rewrite length_app. destruct (decide (length w <= 260)%nat) as [Hw|Hw]; cbn [mbind option_bind].
  - unfold pco_at, pco_buf_size. rewrite Nat2Z.id, length_app, repeat_length.
    destruct (decide _), (decide (length w + length bs <= 260)%nat); try lia; [|done]. do 2 f_equal.
    + rewrite take_app_length, <- app_assoc. do 2 f_equal. rewrite drop_app_add', drop_repeat by done. f_equal. rewrite length_app. lia.
    + rewrite uwrap_small by lia. rewrite length_app. lia.
  - by destruct (decide (length w + length bs <= 260)%nat); [lia|].
Qed.
Lemma pco_put_bind {A} w bs (f : list Z * Z -> option A) :
  (st ← pco_try w; st' ← pco_put bs st; f st') = (st' ← pco_try (w ++ bs); f st').
Proof. rewrite <- pco_put_try. by destruct (pco_try w). Qed.
(** An operation that puts [bs]. *)
Definition puts (f : list Z * Z -> option (list Z * Z)) (bs : list Z) : Prop := ∀ w, (st ← pco_try w; f st) = pco_try (w ++ bs).

Lemma pco_mtu_puts sc : puts (pco_mtu sc) (container_bytes (mtu_container sc)).
Proof. intros w. unfold pco_mtu. rewrite !pco_put_bind, pco_put_try, <- !app_assoc. done. Qed.
Lemma pco_dns_puts sc : puts (pco_dns sc) (container_bytes (PCO_ID_DNS_SERVER_IPV4_ADDRESS_REQUEST, le_bytes 4 sc.(dns_primary))).
Proof. intros w. unfold pco_dns. rewrite !pco_put_bind, pco_put_try, <- !app_assoc. done. Qed.
Lemma pco_ipcp_puts sc code data : puts (pco_ipcp sc (code :: data))
  (if code =? 1 then container_bytes (PCO_ID_INTERNET_PROTOCOL_CONTROL_PROTOCOL,
     [3; 0; 0; 16] ++ (129 :: 6 :: le_bytes 4 sc.(dns_primary)) ++ (131 :: 6 :: le_bytes 4 sc.(dns_secondary))) else []).
Proof.
  intros w. unfold pco_ipcp. cbn [lookup list_lookup mbind option_bind]. destruct (code =? 1); cbn [negb].
  - rewrite !pco_put_bind, pco_put_try, <- !app_assoc. done.
  - rewrite app_nil_r. by destruct (pco_try w).
Qed.

Lemma pco_option_try sc o w m : o.(pco_opt_data) ≠ [] ->
  (st ← pco_try w; pco_option sc o st m) = (st ← pco_try (w ++ containers_bytes (option_answer sc o)); Some (st, m || asks_mtu o)).
Proof.
  intros Hd. unfold pco_option, option_answer, asks_mtu, containers_bytes. destruct o as [ty len data]. cbn [pco_opt_type pco_opt_data] in *.
  destruct data as [|code data]; [done|].
  assert (bind : ∀ f bs b, puts f bs -> (st ← pco_try w; st' ← f st; Some (st', b)) = (st ← pco_try (w ++ bs); Some (st, b : bool)))
    by (intros f bs b Hf; rewrite <- (Hf w); by destruct (pco_try w)).
  destruct (Z.eqb_spec ty PCO_ID_INTERNET_PROTOCOL_CONTROL_PROTOCOL) as [->|]; [|
    destruct (Z.eqb_spec ty PCO_ID_DNS_SERVER_IPV4_ADDRESS_REQUEST) as [->|]; [|
    destruct (Z.eqb_spec ty PCO_ID_IP_ADDRESS_ALLOCATION_VIA_NAS_SIGNALLING) as [->|]; [|
    destruct (Z.eqb_spec ty PCO_ID_IPV4_LINK_MTU_REQUEST) as [->|]]]].
  - rewrite orb_false_r, (bind _ _ _ (pco_ipcp_puts sc code data)). change (default 0 (head (code :: data))) with code.
    destruct (code =? 1); cbn [flat_map]; [by rewrite (app_nil_r (container_bytes _))|done].
  - rewrite orb_false_r, (bind _ _ _ (pco_dns_puts sc)). cbn [flat_map]. by rewrite app_nil_r.
  - rewrite orb_false_r. cbn. by rewrite app_nil_r.
  - rewrite orb_true_r, (bind _ _ _ (pco_mtu_puts sc)). cbn [flat_map]. by rewrite app_nil_r.
  - rewrite orb_false_r. cbn. by rewrite app_nil_r.
Qed.

Lemma pco_options_try sc ids n w m : (n <= length ids)%nat -> Forall (fun o => o.(pco_opt_data) ≠ []) ids ->
  (st ← pco_try w; pco_options sc ids n st m) =
  (st ← pco_try (w ++ containers_bytes (flat_map (option_answer sc) (take n ids))); Some (st, m || existsb asks_mtu (take n ids))).
Proof.
  revert ids w m. induction n as [|n IH]; intros ids w m Hn Hd.
  - cbn [pco_options take flat_map existsb]. change (containers_bytes []) with (@nil Z). by rewrite orb_false_r, app_nil_r.
  - destruct ids as [|o ids]; [cbn in Hn; lia|]. apply Forall_cons_1 in Hd as [Ho Hd]. cbn [pco_options take flat_map existsb].
    transitivity ('(st, m') ← (st ← pco_try w; pco_option sc o st m); pco_options sc ids n st m'); [by destruct (pco_try w)|].
    rewrite (pco_option_try sc o w m Ho).
    transitivity (st ← pco_try (w ++ containers_bytes (option_answer sc o)); pco_options sc ids n st (m || asks_mtu o));
      [by destruct (pco_try _)|].
    rewrite IH by (cbn in Hn; try lia; done). unfold containers_bytes. by rewrite flat_map_app, app_assoc, orb_assoc.
Qed.

(** The reference reader of containers. *)
Fixpoint read_containers (fuel : nat) (bs : list Z) : option (list container) :=
  match fuel, bs with
  | _, [] => Some []
  | S fuel, hi :: lo :: len :: rest =>
      let n := Z.to_nat len in
      if decide (n <= length rest)%nat then cs ← read_containers fuel (drop n rest); Some ((256 * hi + lo, take n rest) :: cs) else None
  | _, _ => None
  end.
Lemma read_containers_bytes cs fuel : Forall (fun c => 0 <= c.1 < 65536) cs -> (length cs <= fuel)%nat ->
  read_containers fuel (containers_bytes cs) = Some cs.
Proof.
  intros Hc. revert fuel. induction Hc as [|[ty data] cs Ht Hc IH]; intros fuel Hf; [by destruct fuel|].
  destruct fuel as [|fuel]; [cbn in Hf; lia|]. cbn [length] in Hf. cbn [containers_bytes flat_map container_bytes fst snd] in *.
  unfold container_bytes, pco_type. cbn [fst snd app read_containers]. rewrite Nat2Z.id, length_app. destruct (decide _); [|lia].
  rewrite drop_app_length. change (flat_map _ cs) with (containers_bytes cs). rewrite IH by lia. cbn [mbind option_bind].
  rewrite take_app_length. do 3 f_equal. unfold uwrap. change (2 ^ 8) with 256. Z.div_mod_to_equations. lia.
Qed.

Definition first_byte (o : pco_ie_t) : Z := u8 (Z.lor (Z.shiftl o.(pco_ie_ext) 7) (Z.land o.(pco_ie_config_proto) 3)).
(** The options that are present are in the array, and there is a first byte of data. *)
Definition pco_ok (o : pco_ie_t) : Prop :=
  (Z.to_nat o.(pco_ie_num_of_opt) <= length o.(pco_ie_ids))%nat ∧ Forall (fun i => i.(pco_opt_data) ≠ []) o.(pco_ie_ids).
Definition answered (sc : sub_config_t) (o : pco_ie_t) : list container :=
  options_answer sc (take (Z.to_nat o.(pco_ie_num_of_opt)) o.(pco_ie_ids)).

Lemma build_pco_try o sc : pco_ok o ->
  build_pco_response o sc (repeat 0 pco_buf_size) = pco_try (first_byte o :: containers_bytes (answered sc o)).
Proof.
  intros [Hn Hd]. unfold build_pco_response. cbv zeta. fold (first_byte o).
  transitivity ('(st, m) ← (st ← (st ← pco_try []; pco_put [first_byte o] st);
      pco_options sc o.(pco_ie_ids) (Z.to_nat o.(pco_ie_num_of_opt)) st false);
    if m : bool then Some st else pco_mtu sc st).
  { unfold pco_try at 1. cbn [length]. destruct (decide _); [|lia]. cbn [mbind option_bind].
    change (pco_at []) with (repeat 0 pco_buf_size, 0). by destruct (pco_put _ _). }
  rewrite pco_put_try. cbn [app]. rewrite pco_options_try by done. cbn [orb]. unfold answered, options_answer.
  set (os := take _ _). destruct (existsb asks_mtu os).
  - rewrite app_nil_r. by destruct (pco_try _).
  - unfold containers_bytes. rewrite flat_map_app, app_comm_cons. cbn [flat_map].
    rewrite (app_nil_r (container_bytes (mtu_container sc))), <- pco_mtu_puts. by destruct (pco_try _).
Qed.

Lemma option_answer_types sc os : Forall (fun c : container => 0 <= c.1 < 65536) (options_answer sc os).
Proof.
  unfold options_answer. apply Forall_app_2; [|destruct (existsb _ _); repeat constructor; done].
  induction os as [|o os IH]; [constructor|]. cbn [flat_map]. apply Forall_app_2; [|done]. unfold option_answer.
  repeat case_match; repeat constructor; done.
Qed.

(** C16: The protocol configuration options of a response are, behind the first byte of
    the request, one container for every option of the request that is known, in its
    order and with the values of the profile, and the MTU in any case; a reader of
    containers finds exactly these.  If they do not fit the 260 bytes of the buffer, the
    gateway writes behind it. *)
Theorem options_answered o sc : pco_ok o ->
  let bytes := first_byte o :: containers_bytes (answered sc o) in
  (if decide (length bytes <= 260)%nat
   then build_pco_response o sc (repeat 0 pco_buf_size) = Some (bytes ++ repeat 0 (260 - length bytes), Z.of_nat (length bytes))
   else build_pco_response o sc (repeat 0 pco_buf_size) = None) ∧
  read_containers (length (answered sc o)) (tail bytes) = Some (answered sc o).
Proof.
  intros Ho bytes. split.
  - rewrite (build_pco_try o sc Ho). fold bytes. unfold pco_try, pco_buf_size. by destruct (decide _).
  - apply read_containers_bytes; [apply option_answer_types|done].
Qed.

(** A request of [n] options of the control protocol that ask for the name servers. *)
Definition ipcp_request (n : nat) : pco_ie_t :=
  mk_pco_ie zero_ie_header [] 0 1 0 (Z.of_nat n)
    (repeat (mk_pco_opt PCO_ID_INTERNET_PROTOCOL_CONTROL_PROTOCOL 16 (1 :: repeat 0 19)) MAX_PCO_CONTAINERS).
Lemma options_answered_witness :
  build_pco_response (ipcp_request 1) example_profile (repeat 0 260) =
    Some ([128; 128; 33; 16; 3; 0; 0; 16; 129; 6; 8; 8; 8; 8; 131; 6; 8; 8; 4; 4; 0; 16; 2; 5; 120] ++ repeat 0 235, 25).
Proof. 
  assert (H : pco_ok (ipcp_request 1)) by (split; [vm_compute; lia|repeat constructor; done]).
  exact (proj1 (options_answered (ipcp_request 1) example_profile H)).
Defined.

(** Fourteen such options, of at most sixteen that a request can have, overflow the
    buffer; the response is then not defined.  Thirteen options and two for the MTU give
    258 bytes, whose number does not fit the length of the element: it is sent with the
    length 2. *)
Example fourteen_options_overflow :
  set_create_session_response (Some (mk_attach_proc (Some (ipcp_request 14)) example_profile)) 258 example_attach example_bearer_rsp = None.
Proof. vm_compute. reflexivity. Qed.
Definition long_request : pco_ie_t :=
  mk_pco_ie zero_ie_header [] 0 1 0 15
    (repeat (mk_pco_opt PCO_ID_IPV4_LINK_MTU_REQUEST 0 (repeat 0 20)) 2 ++
     repeat (mk_pco_opt PCO_ID_INTERNET_PROTOCOL_CONTROL_PROTOCOL 16 (1 :: repeat 0 19)) 14).
Example options_length_cut :
  ('(buf, len) ← build_pco_response long_request example_profile (repeat 0 260);
   x ← set_pco 0 buf len zero_pco_ie; Some (len, x.(pco_ie_header).(gie_len), x.(pco_ie_pco_len))) = Some (258, 2, 2).
Proof. vm_compute. reflexivity. Qed.
